(* ===== verification/_CoqProject ===== *)
-Q . S2P
Prelude.v
Runs.v
Masks.v
DgnssNtrip.v
LinkedList.v
ListIface.v
MsgQ.v
LocHeap.v
LocTimer.v
Agps.v
QmiIdl.v
LocServiceStructs.v
LocServiceTables.v
LocService.v
LocClientTables.v
LocClient.v
LocSyncReq.v
GptUtils.v
LocationEnums.v
PbConversions.v
LocationApiPbMsgConv.v
ApiStructs.v
PbMessages.v
PbMsgConv.v
PbMsgArrive.v
PbMsgArrays.v
IpcMessages.v
IpcArrive.v
IpcDispatch.v
HalState.v
HalClient.v
HalService.v
HalLogic.v
HalProtocol.v
HalSafety.v
HalPending.v
HalRuns.v
LocationAPI.v
HalLocationAPI.v
ClientBase.v
ClientBaseProps.v
GnssTracking.v
GnssSessions.v
BatchingAdapter.v
BatchingProps.v
GnssTrackingProps.v
GnssServe.v
GnssAnswers.v
LocApiV02.v
LocEventMasks.v
LocEvents.v
LocUnorderedSetMap.v
SystemStatusOsObserver.v
OsObserverProps.v
GeofenceAdapter.v
GeofenceModem.v
GeofenceCommands.v
