(* ===== verification/Prelude.v ===== *)
(** A verification library for android_device_essential_mata.

    The repository is the device tree of a phone: mostly the location stack
    (src/gps, src/location), and small services next to it.  The library models
    the parts of it that keep state, share it between threads, or have to agree
    with another part bit by bit, in Rocq definitions that follow the C and C++
    functions under src/, and proves what the rest of the stack relies on.

    How the program's parts interact.  Clients of the location API talk to the
    daemon in protobuf messages.  The daemon's adapters run in message tasks:
    threads that take messages from a blocking queue (msg_q), which is a linked
    list with a mutex and a condition variable.  Timers of all components share
    one heap (LocHeap, LocTimer), a polling thread and a message task.  The
    GNSS adapter multiplexes the tracking sessions of its clients on the one
    session of the modem (GnssAdapter), and keeps the state machines that ask
    the framework for a data connection (Agps) and the source of differential
    corrections.  The geofence adapter keeps the geofences of its clients.  Both
    call LocApiV02, which answers with messages, and which registers the events
    they need with the modem.  Requests to the modem go through the QMI client
    of loc_api_v02: synchronous calls over asynchronous indications
    (loc_api_sync_req), tables that describe every message
    (location_service_v02), and the client itself (loc_api_v02_client).
    gpt-utils updates the boot partitions.

    * Files

    - Prelude.v: the outcomes of C code ([Done], [Undefined], [NoFuel]), the
      state monad over them with its notation, automation, wrap-around of
      machine integers, list lemmas.
    - Runs.v: runs of an executable machine, and invariants of them; the
      files on the adapters and the daemon use it.
    - Masks.v: conversions of masks as sequences of tests of bits and of
      enumerations as switches, bit by bit.
    - DgnssNtrip.v, gps/gnss/GnssAdapter.cpp: the NTRIP source of differential
      corrections.  The XTRA daemon runs the stream exactly while the state says
      so, unless the parameters are exchanged under a running stream; which GGA
      sentences make the extraction throw.
    - LinkedList.v, gps/utils/linked_list.c: a heap of cells with an allocator
      that may fail; every function of the file.  [LinkedList.v] proves that
      they implement a queue with search, and that every cell and message is
      freed exactly as the documentation says (linked_list_lifetime).
    - ListIface.v, gps/utils/linked_list.h: the interface as a class, [ListOps]
      and [ListLaws], with the instance linked_list.c gives.
    - MsgQ.v, gps/utils/msg_q.c: the queue over any list with these laws; each
      call is split at the points where its thread holds the mutex or waits,
      and [step] interleaves them.  First in, first out across all threads, no
      lost wake-up, progress, unblocking is final, creation is all or nothing,
      destruction frees everything.
    - LocHeap.v, gps/utils/LocHeap.cpp: the size-balanced heap; refines a bag
      with a ranking ([Ranking] is the interface its clients promise), pops in
      order, is balanced, and push is logarithmic.
    - LocTimer.v, gps/utils/LocTimer.cpp: clients, delegates, the container, the
      polling thread and the message task as a step relation.  Each start ends
      once, no timer is forgotten, no freed delegate is touched, expiry ends and
      is complete; a run in which a timer fires early.
    - Agps.v, gps/gnss/Agps.cpp and Agps.h: subscribers in a store, lists of
      their addresses, the state machines and the manager.  They refine
      abstract machines without a store (Module Spec); every request is
      answered once; connections are accounted for.
    - QmiIdl.v, LocServiceStructs.v, LocServiceTables.v, LocService.v,
      location/loc_api/loc_api_v02/location_service_v02.h and .c: the structs
      with their layout and the tables with their entries.  The tables describe
      the structs, decoding stays inside them, nesting ends, maximum lengths are
      exact.
    - LocClientTables.v, LocClient.v, loc_api_v02_client.cpp: the tables of
      indications and requests, the indication callback, sending with retries,
      and the check of supported messages.
    - LocSyncReq.v, loc_api_sync_req.cpp: slots, callers and the indication
      thread as a step function.  Slots are exclusive, an answered request was
      answered, payloads go to callers that still wait, an indication that found
      its slot wakes its caller; calls end by their time-out if by nothing else,
      without counting on spurious wake-ups; a run that loses an indication.
    - GptUtils.v, gpt-utils/gpt-utils.cpp: the fail-safe update of a disk.  One
      of the two partition tables is valid wherever an update stops, the stages
      succeed in a row, a stage that is not due writes nothing.
    - LocationEnums.v, PbConversions.v, LocationApiPbMsgConv.v,
      location/location_api_msg_proto: all conversions of masks and
      enumerations between the client API and its protobuf messages, and which
      constants arrive.  ApiStructs.v, PbMessages.v, PbMsgConv.v: the structs of
      the API, the messages, and the functions that convert them.
      PbMsgArrive.v, PbMsgArrays.v: what arrives of each struct, and which
      messages make a receiver leave its arrays.  IpcMessages.v: the message
      classes of LocationApiMsg.cpp, which put the structs in strings and take
      them out.  IpcArrive.v: what a string of each class becomes at its receiver.
      IpcDispatch.v: processClientMsg of the daemon: the requests that arrive,
      what it drops, and the strings that overflow its arrays.
    - HalState.v, HalClient.v, HalService.v, location/location_hal_daemon: the
      daemon that serves the requests.  Handlers of clients in a store, the
      database of their addresses, what is called and sent as a list of outputs;
      one step for each request and callback, which hold the daemon's mutex (the
      part of performMaintenance that does not is a step that knows whether
      another thread is at work).  HalLogic.v: relations between the states before and after a
      program ([rel]) and the tactic [go_with] that goes through it.
      HalProtocol.v: the calls of each client follow the protocol of
      LocationAPI.  HalSafety.v: an event is undefined exactly in eight
      situations, and keeps the database of clients consistent otherwise.
      HalPending.v: responses are reported under the call that they answer, as
      long as no request or power event makes the daemon wait for a call that it
      does not make.  HalRuns.v: runs in which the daemon goes wrong.
    - LocationAPI.v, gps/location/LocationAPI.cpp: the objects that clients call,
      the adapters they are added to, and their deletion after every adapter has
      removed them.  Objects are freed, and the adapters have the callbacks of
      every client; but a client is never told that its object is gone.
      HalLocationAPI.v: the outputs of a run of the daemon are calls that
      LocationAPI allows: none goes to a deleted object.
    - ClientBase.v, gps/location/LocationAPIClientBase: clients that name their
      sessions and geofences themselves, with queues of requests.
      ClientBaseProps.v: the dictionaries are maps (the geofences refine one,
      with every call that they lead to, where the code does what it means),
      sessions keep their names, and runs in which responses, options or
      geofences are mixed up.
    - GnssTracking.v, gps/gnss/GnssAdapter.cpp with core/LocAdapterBase.cpp,
      core/ContextBase.h and utils/MsgTask.cpp: the adapter's members, its
      messages and their handlers, LocApi's queue of requests, as one step
      function.  GnssSessions.v: the ordered map of sessions, and which parts of
      the state each operation leaves alone.  GnssTrackingProps.v: the power
      state follows the sessions; messages are not used after their deletion
      until a second engine start.  GnssServe.v: the engine serves every time
      based session, as long as LocApi succeeds.  GnssAnswers.v: every command of a
      client that can track is answered once.  Both end with runs that need what
      is supposed.
    - BatchingAdapter.v, gps/batching/BatchingAdapter.cpp: batching sessions and
      trips, as a step function like that of GnssTracking.v, whose ordered map it
      uses; a lambda that waits for an answer is a value.  BatchingProps.v: full
      batches are registered for as long as a session reports; runs in which
      clients, sessions or trips are forgotten.
    - LocApiV02.v, loc_api_v02/LocApiV02.cpp: the requests to the modem for
      those sessions, and the list of supported messages.

    - LocUnorderedSetMap.v, gps/utils/LocUnorderedSetMap.h: maps of sets, as loops
      over hash tables, and what the loops compute.  SystemStatusOsObserver.v,
      gps/core/SystemStatusOsObserver.cpp: subscriptions to data items of the
      framework.  OsObserverProps.v: they implement a relation between clients and
      data items in the runs that are defined; which are not, because the key of
      an erased node is read; the framework is asked for what clients need.
    - LocEventMasks.v, LocEvents.v, gps/core/LocApiBase.cpp and
      loc_api_v02/LocApiV02.cpp: the array of adapters, and the registration of
      events with the modem.  The array is a set; the modem reports what the
      adapters ask for, and what the callbacks of clients need, if it accepts the
      requests for it and is not too busy to be told; requests kept
      while the engine is busy are sent again once; runs in which events are
      lost.
    - GeofenceAdapter.v, gps/geofence/GeofenceAdapter.cpp: the geofences of the
      clients, commands on several geofences with the arrays their lambdas
      share, restarts of the modem, reports.  GeofenceModem.v: when nothing
      waits the adapter's maps describe the geofences that the modem has (they
      may hold more), and a breach reaches the owner.  GeofenceCommands.v: the
      arrays live as long as they are used, and every command but a resumption is
      answered once with a result for each geofence, unless an array is missing or
      its last geofence is unknown; runs in which that fails.

    * Conventions

    A definition has the name of the function, type or macro it models.  Where
    a function is cut in several definitions (a critical section, the body of a
    loop), each says which part it is.  Pointers are [option positive]; the
    allocator never reuses an address, so a dangling pointer stays dangling and
    reading it is [Undefined].  Integers are [Z] with wrap_u and wrap_s where
    they can overflow.  A theorem that a program has a result states
    [Done]; [Undefined] and [NoFuel] are excluded by it.  Fuel: flushing and
    searching a linked list need fuel for each of its cells (LinkedList.v); a
    partition is sought with as much as the array has bytes (GptUtils.v); the
    nesting of QMI types is bounded by the number of types (qmi_nesting_ends);
    all other recursion is structural.

    What a theorem on runs supposes of the environment is a predicate on events,
    defined and explained before it and named in its comment ([event_ok], [orderly],
    [engine_ok], [answer_ok], [geo_ok], [modem_ok], [commands_ok], [ev_ok]); where
    the program goes wrong without it, a run is shown.

    Code outside of the repository is a parameter: pthread_mutex_init and its
    like answer from a list (MsgQ.v), the allocator too; the clock of timers
    advances by steps (LocTimer.v); qmi_client_send_msg_sync answers per try and
    qmi_client_message_decode is a function (LocClient.v); crc32 has a 32-bit
    result (GptUtils.v); the engine accepts or refuses each request
    of the adapter as an event says, and the boot time is an argument of the
    steps that read it (GnssTracking.v); each step of the daemon is given what
    LocationAPI, the sockets and the allocator answer in it, and the order in
    which its unordered maps are traversed is a class ([Unordered], [env] in
    HalState.v); the layout of qmi_response_type_v01 and the overhead of
    the QMI encoding are as documented (LocService.v).

    * Not modelled

    - gps/gnss/GnssAdapter.cpp: event masks, the configuration commands and what
      is sent when the engine comes up (one output), NI, the engine hub, and the
      reports of positions, satellites and NMEA.
    - loc_api_v02/LocApiV02.cpp: the conversions of masks and statuses, the
      reports, and the configuration.
    - gpt-utils: the gpt_disk handle and the list of LUNs.
    - loc_api_v02_client.cpp: opening and closing a client.
    - Sockets, files, threads' creation, logging, HIDL and AIDL services, the
      power, light and Bluetooth HALs, configuration, Java code and resources:
      they hold little state of their own and mostly call the
      operating system or generated interfaces. *)

From stdpp Require Export base tactics numbers option list gmap fin_maps.
From Stdlib Require Export ZArith Lia.

#[export] Set Warnings "-clear-no-such-hyp".

(** * Outcomes of C code *)

(** What running a piece of C code gives: a value, a step the language leaves
    undefined (a null or dangling pointer is read, written or freed), or a loop
    that used up the fuel it was given. *)
Inductive outcome (A : Type) : Type :=
  | Done (a : A)
  | Undefined
  | NoFuel.
Arguments Done {A} a.
Arguments Undefined {A}.
Arguments NoFuel {A}.

Definition obind {A B} (f : A -> outcome B) (o : outcome A) : outcome B :=
  match o with
  | Done a => f a
  | Undefined => Undefined
  | NoFuel => NoFuel
  end.

(** ** The state monad over outcomes *)

Definition M (S A : Type) : Type := S -> outcome (A * S).

Definition ret {S A} (a : A) : M S A := fun s => Done (a, s).
Definition bind {S A B} (c : M S A) (k : A -> M S B) : M S B :=
  fun s => obind (fun '(a, s') => k a s') (c s).
Definition undefined {S A} : M S A := fun _ => Undefined.
Definition no_fuel {S A} : M S A := fun _ => NoFuel.
Definition gets {S A} (f : S -> A) : M S A := fun s => Done (f s, s).
Definition modify {S} (f : S -> S) : M S unit := fun s => Done (tt, f s).

Declare Scope c_scope.
Delimit Scope c_scope with c.
Notation "'let!' x := c 'in' k" := (bind c (fun x => k))
  (at level 10, x pattern, c at level 100, k at level 200) : c_scope.
Notation "c ;;; k" := (bind c (fun _ => k))
  (at level 99, right associativity) : c_scope.
Open Scope c_scope.

Lemma bind_done {S A B} (c : M S A) (k : A -> M S B) s a s' :
  c s = Done (a, s') -> bind c k s = k a s'.
Proof. unfold bind. by intros ->. Qed.

Lemma bind_ret {S A B} (a : A) (k : A -> M S B) s : bind (ret a) k s = k a s.
Proof. done. Qed.

Lemma bind_gets {S A B} (f : S -> A) (k : A -> M S B) s :
  bind (gets f) k s = k (f s) s.
Proof. done. Qed.

Lemma bind_modify {S B} (f : S -> S) (k : unit -> M S B) s :
  bind (modify f) k s = k tt (f s).
Proof. done. Qed.

Lemma bind_ext {S A B} (c : M S A) (k1 k2 : A -> M S B) s :
  (∀ a s', k1 a s' = k2 a s') -> bind c k1 s = bind c k2 s.
Proof. intros H. unfold bind, obind. by repeat case_match. Qed.

Lemma bind_eq {S A B} (c1 c2 : M S A) (k : A -> M S B) s :
  c1 s = c2 s -> bind c1 k s = bind c2 k s.
Proof. unfold bind. by intros ->. Qed.

Lemma bind_assoc {S A B C} (c : M S A) (k1 : A -> M S B) (k2 : B -> M S C) s :
  bind (bind c k1) k2 s = bind c (fun a => bind (k1 a) k2) s.
Proof. unfold bind, obind. by repeat case_match; simplify_eq/=. Qed.

(** * Pointers *)

(** An address; [None] is the null pointer.  Addresses are never reused by the
    allocator of the model, so a dangling pointer stays dangling. *)
Abbreviation loc := positive (only parsing).
Abbreviation ptr := (option positive) (only parsing).

(** * Automation *)

Create HintDb mata.
Create Rewrite HintDb mata.
#[export] Hint Rewrite @bind_ret @bind_gets @bind_modify : mata.

(** Runs the next step of a monadic program in the goal. *)
Ltac mstep := first [ rewrite bind_ret | rewrite bind_gets | rewrite bind_modify
                    | erewrite bind_done by eauto with mata ].
Ltac msteps := repeat (mstep; cbn beta iota).

(** Case analysis on the boolean or option the goal matches on. *)
Ltac case_goal := repeat case_match; simplify_eq/=; try done.

(** * Lists *)

Lemma last_snoc_inv {A} (l : list A) x : last l = Some x -> ∃ l', l = l' ++ [x].
Proof. intros H. apply last_Some in H. done. Qed.

Lemma NoDup_fmap_snoc {A B} (f : A -> B) l x :
  NoDup (f <$> (l ++ [x])) -> NoDup (f <$> l) ∧ f x ∉ f <$> l.
Proof.
  rewrite fmap_app, NoDup_app. intros (H1 & H2 & _). split; [done|].
  intros Hin. apply (H2 _ Hin). simpl. by apply list_elem_of_singleton.
Qed.

Lemma Forall_snoc {A} (P : A -> Prop) l x : Forall P (l ++ [x]) <-> Forall P l ∧ P x.
Proof. rewrite Forall_app, Forall_singleton. done. Qed.

(** * Machine integers *)

(** Conversion to an [n]-bit signed or unsigned integer. *)
Definition wrap_s (n z : Z) : Z := (z + 2 ^ (n - 1)) mod 2 ^ n - 2 ^ (n - 1).
Definition wrap_u (n z : Z) : Z := z mod 2 ^ n.

Lemma wrap_s_small n z : (0 < n)%Z -> (- 2 ^ (n - 1) <= z < 2 ^ (n - 1))%Z -> wrap_s n z = z.
Proof.
  intros Hn Hz. unfold wrap_s. assert (2 ^ n = 2 * 2 ^ (n - 1))%Z as ->.
  { rewrite <- Z.pow_succ_r by lia. f_equal. lia. }
  rewrite Z.mod_small; lia.
Qed.

Lemma wrap_u_small n z : (0 <= z < 2 ^ n)%Z -> wrap_u n z = z.
Proof. apply Z.mod_small. Qed.
