(* ===== verification/Runs.v ===== *)
(** Runs of executable machines: [step] gives the next state, or [None] where
    the program's behaviour is undefined.  Runs are restricted by a condition on
    each step, [ok]: what a theorem assumes of the environment. *)

From stdpp Require Import base tactics list option.
From S2P Require Import Prelude.

Section Runs.
Context {St Ev : Type} (step : St -> Ev -> option St).

(** The state after the events, if none of them is undefined. *)
Fixpoint run (s : St) (es : list Ev) : option St :=
  match es with
  | [] => Some s
  | e :: es => match step s e with Some s' => run s' es | None => None end
  end.

(** The events are allowed one after the other. *)
Fixpoint run_ok (ok : St -> Ev -> Prop) (s : St) (es : list Ev) : Prop :=
  match es with
  | [] => True
  | e :: es => ok s e ∧ match step s e with Some s' => run_ok ok s' es | None => True end
  end.

#[export] Instance run_ok_dec (ok : St -> Ev -> Prop) `{Hd : ∀ s e, Decision (ok s e)} :
  ∀ es s, Decision (run_ok ok s es).
Proof.
  refine (fix go es s :=
    match es return Decision (run_ok ok s es) with
    | [] => left I
    | e :: es =>
        match step s e as o return (∀ s', Decision (run_ok ok s' es)) ->
          Decision (ok s e ∧ match o with Some s' => run_ok ok s' es | None => True end) with
        | Some s' => λ H, _
        | None => λ _, _
        end (go es)
    end); apply _.
Defined.

(** An invariant that allowed steps keep holds after a run. *)
Lemma run_invariant (ok : St -> Ev -> Prop) (I : St -> Prop) s es s' :
  (∀ s e s', I s -> ok s e -> step s e = Some s' -> I s') ->
  I s -> run_ok ok s es -> run s es = Some s' -> I s'.
Proof.
  intros Hstep. revert s. induction es as [|e es IH]; intros s HI Hok Hrun; simplify_eq/=; [done|].
  destruct Hok as [Ho Hok]. destruct (step s e) as [s1|] eqn:E; [|done]. eauto.
Qed.

Lemma run_invariant_always (I : St -> Prop) s es s' :
  (∀ s e s', I s -> step s e = Some s' -> I s') ->
  I s -> run s es = Some s' -> I s'.
Proof.
  intros Hstep HI. eapply (run_invariant (λ _ _, True)); [naive_solver|done|].
  clear. revert s. induction es as [|e es IH]; intros s; simpl; [done|]. split; [done|]. by case_match.
Qed.

(** Where each step is either bad and undefined or good and defined, a run is
    undefined exactly when a step of it is bad. *)
Lemma run_undefined (ok bad : St -> Ev -> Prop) (I : St -> Prop) s es :
  (∀ s e, I s -> ok s e ->
     bad s e ∧ step s e = None ∨ ¬ bad s e ∧ ∃ s', step s e = Some s' ∧ I s') ->
  I s -> run_ok ok s es ->
  run s es = None <-> ∃ es1 e es2 s1, es = es1 ++ e :: es2 ∧ run s es1 = Some s1 ∧ bad s1 e.
Proof.
  intros Hstep. revert s. induction es as [|e es IH]; intros s HI Hok.
  - split; [done|]. intros ([|? ?] & ? & ? & ? & ? & _); done.
  - destruct Hok as [Ho Hok]. cbn [run].
    destruct (Hstep s e HI Ho) as [[Hb E]|(Hb & s' & E & HI')]; rewrite E in Hok |- *.
    + split; [|done]. intros _. by exists [], e, es, s.
    + rewrite (IH s' HI' Hok). split.
      * intros (es1 & e1 & es2 & s1 & -> & Hr & Hb1). exists (e :: es1), e1, es2, s1. cbn. by rewrite E.
      * intros ([|e' es1] & e1 & es2 & s1 & Heq & Hr & Hb1); simplify_eq/=; [by simplify_eq|].
        rewrite E in Hr. by exists es1, e1, es2, s1.
Qed.

(** A step that the invariant and its condition make defined never fails. *)
Lemma run_defined (ok : St -> Ev -> Prop) (I : St -> Prop) s es :
  (∀ s e, I s -> ok s e -> ∃ s', step s e = Some s' ∧ I s') ->
  I s -> run_ok ok s es -> ∃ s', run s es = Some s' ∧ I s'.
Proof.
  intros Hstep. revert s. induction es as [|e es IH]; intros s HI Hok; simpl in *; [by exists s|].
  destruct Hok as [Ho Hok]. destruct (Hstep s e HI Ho) as (s1 & E & HI1).
  rewrite E in Hok |- *. by apply IH.
Qed.

Lemma run_app s es1 es2 :
  run s (es1 ++ es2) = match run s es1 with Some s' => run s' es2 | None => None end.
Proof.
  revert s. induction es1 as [|e es1 IH]; intros s; [reflexivity|].
  simpl. by destruct (step s e).
Qed.
End Runs.
