(* ===== verification/Masks.v ===== *)
(** Conversions of masks and enumerations in the form the code gives them: a
    sequence of tests of single bits, or a switch.  The conversions themselves
    are in PbConversions.v, LocEvents.v and LocApiV02.v; here is what a sequence
    of tests does to each bit, and how to check a switch case by case. *)

From stdpp Require Import list.
From S2P Require Import Prelude.

Local Open Scope Z_scope.

(** [if (m & from) r |= to;], for results of [w] bits. *)
Inductive bit_rule : Type := bit (from to : Z).
Definition set_bits (w : Z) (init : Z) (rules : list bit_rule) (m : Z) : Z :=
  foldl (fun r '(bit from to) => if Z.land m from =? 0 then r else wrap_u w (Z.lor r to)) init rules.

(** [case c: r = v; break;], and the value when no case applies. *)
Inductive case_rule : Type := case (c v : Z).
Fixpoint switch (dflt : Z) (cases : list case_rule) (x : Z) : Z :=
  match cases with
  | [] => dflt
  | case c v :: cases => if x =? c then v else switch dflt cases x
  end.

(** * Bits *)

Lemma land_pow2 m i : 0 ≤ i -> (Z.land m (2 ^ i) =? 0) = negb (Z.testbit m i).
Proof.
  intros Hi. destruct (Z.testbit m i) eqn:E; simpl.
  - apply Z.eqb_neq. intros H. apply (f_equal (fun z => Z.testbit z i)) in H.
    rewrite Z.land_spec, E, Z.pow2_bits_true, Z.bits_0 in H by done. done.
  - apply Z.eqb_eq, Z.bits_inj'. intros k Hk. rewrite Z.land_spec, Z.bits_0.
    destruct (decide (k = i)) as [->|Hne]; [by rewrite E|].
    rewrite Z.pow2_bits_false by done. apply andb_false_r.
Qed.

(** The position of a single bit. *)
Definition position (z : Z) : option Z := if z =? 2 ^ Z.log2 z then Some (Z.log2 z) else None.

Lemma position_some z i : position z = Some i -> z = 2 ^ i ∧ 0 ≤ i.
Proof.
  unfold position. destruct (Z.eqb_spec z (2 ^ Z.log2 z)); [|done]. intros [= <-].
  split; [done|]. apply Z.log2_nonneg.
Qed.

(** Where the bits of a result of [w] bits come from: pairs of a bit of the
    argument and a bit of the result.  A rule that tests no bit has no effect. *)
Fixpoint positions (w : Z) (rules : list bit_rule) : option (list (Z * Z)) :=
  match rules with
  | [] => Some []
  | bit from to :: rules =>
    if from =? 0 then positions w rules
    else
      i ← position from; j ← position to; es ← positions w rules;
      if j <? w then Some ((i, j) :: es) else None
  end.

Lemma testbit_wrap_u w z k : 0 ≤ w -> 0 ≤ k -> Z.testbit (wrap_u w z) k = (k <? w) && Z.testbit z k.
Proof. intros Hw Hk. unfold wrap_u. apply Z.testbit_mod_pow2; lia. Qed.

Definition fires (m k : Z) (es : list (Z * Z)) : bool :=
  existsb (fun '(i, j) => (j =? k) && Z.testbit m i) es.

Lemma set_bits_testbit w rules es r m k :
  0 ≤ w -> 0 ≤ k -> positions w rules = Some es -> (∀ k, w ≤ k -> Z.testbit r k = false) ->
  Z.testbit (set_bits w r rules m) k = Z.testbit r k || fires m k es.
Proof.
  intros Hw Hk. revert r es. induction rules as [|[from to] rules IH]; intros r es; simpl.
  - intros [= <-] _. simpl. by rewrite orb_false_r.
  - destruct (Z.eqb_spec from 0) as [->|Hf]; [rewrite Z.land_0_r; simpl; apply IH|].
    destruct (position from) as [i|] eqn:Ei; [|done]. destruct (position to) as [j|] eqn:Ej; [|done].
    apply position_some in Ei as [-> Hi], Ej as [-> Hj]. simpl.
    destruct (positions w rules) as [es'|] eqn:Es; [|done]. simpl.
    destruct (Z.ltb_spec j w) as [Hjw|]; [|done]. intros [= <-] Hr.
    rewrite land_pow2 by done. simpl. destruct (Z.testbit m i) eqn:Em; simpl.
    + rewrite (IH _ es') by (try done; intros k' Hk'; rewrite testbit_wrap_u by lia;
        by rewrite (proj2 (Z.ltb_ge _ _)) by lia).
      rewrite testbit_wrap_u, Z.lor_spec, Z.pow2_bits_eqb by lia. rewrite andb_true_r, orb_assoc.
      destruct (Z.ltb_spec k w); [done|]. rewrite Hr by done.
      by rewrite (proj2 (Z.eqb_neq j k)) by lia.
    + rewrite andb_false_r. by apply IH.
Qed.

Lemma positions_below w rules es k m :
  positions w rules = Some es -> w ≤ k -> fires m k es = false.
Proof.
  revert es. induction rules as [|[from to] rules IH]; intros es; simpl; [by intros [= <-]|].
  destruct (from =? 0); [apply IH|]. destruct (position from) as [i|]; [|done].
  destruct (position to) as [j|]; [|done]. simpl.
  destruct (positions w rules) as [es'|]; [|done]. simpl.
  destruct (Z.ltb_spec j w); [|done]. intros [= <-] Hk. simpl.
  rewrite (proj2 (Z.eqb_neq j k)) by lia. simpl. by apply IH.
Qed.

(** * Switches *)

Definition case_value (c : case_rule) : Z := match c with case c _ => c end.

(** A function of the result of a switch is known when it is known at the
    cases and at the default. *)
Lemma switch_all (g : Z -> Z) dflt cases good fb x :
  forallb (fun c => g (switch dflt cases c) =? (if bool_decide (c ∈ good) then c else fb))
          ((case_value <$> cases) ++ good) && (g dflt =? fb) = true ->
  g (switch dflt cases x) = if decide (x ∈ good) then x else fb.
Proof.
  intros [H Hd%Z.eqb_eq]%andb_prop. rewrite forallb_forall in H.
  assert (∀ c, c ∈ (case_value <$> cases) ++ good -> g (switch dflt cases c) = if decide (c ∈ good) then c else fb) as Hc.
  { intros c Hin%list_elem_of_In. apply H, Z.eqb_eq in Hin. rewrite Hin.
    by destruct (decide (c ∈ good)); [rewrite bool_decide_true|rewrite bool_decide_false]. }
  destruct (decide (x ∈ (case_value <$> cases) ++ good)) as [Hin|Hn]; [by apply Hc|].
  rewrite decide_False by (intros Hin; apply Hn, elem_of_app; by right).
  rewrite <- Hd. f_equal. clear -Hn. induction cases as [|[c v] cases IH]; simpl; [done|].
  destruct (Z.eqb_spec x c) as [->|]; [|apply IH].
  - destruct Hn. apply elem_of_app. left. simpl. left.
  - intros Hin. apply Hn. simpl. by right.
Qed.
