(* ===== verification/DgnssNtrip.v ===== *)
(** gps/gnss/GnssAdapter.cpp, the source of differential corrections: the NTRIP
    stream that a client enables, the GGA sentences the stream may need, and the
    calls to the XTRA daemon (XtraSystemStatusObserver.cpp) that start and stop
    it.  All functions run in the adapter's message task, except the change of
    the consent, which is one store. *)

From stdpp Require Import list strings.
From Stdlib Require Import Ascii.
From S2P Require Import Prelude Runs.

Local Open Scope Z_scope.

Definition DGNSS_STATE_ENABLE_NTRIP_COMMAND : Z := 1.
Definition DGNSS_STATE_NO_NMEA_PENDING : Z := 2.
Definition DGNSS_STATE_NTRIP_SESSION_STARTED : Z := 4.
Definition DGNSS_RANGE_UPDATE_TIME_10MIN_IN_MILLI : Z := 600000.

Record GnssNtripConnectionParams := NtripConnectionParams {
  ntrip_size : Z; requiresNmeaLocation : bool; hostNameOrIp : string; mountPoint : string;
  username : string; password : string; port : Z; useSSL : bool
}.

Record StartDgnssNtripParams := NtripParams { ntripParams : GnssNtripConnectionParams; nmea : string }.

(** What the observer is called with. *)
Inductive xtra_call :=
  | startDgnssSource (params : StartDgnssNtripParams)
  | stopDgnssSource
  | updateNmeaToDgnssServer (nmea : string).

(** The members of the adapter the functions use, and the calls made. *)
Record dgnss := Dgnss {
  mDgnssState : Z;
  mSendNmeaConsent : bool;
  mStartDgnssNtripParams : StartDgnssNtripParams;
  mDgnssLastNmeaBootTimeMilli : Z;
  xtra : list xtra_call
}.

Definition no_params : GnssNtripConnectionParams :=
  NtripConnectionParams 0 false "" "" "" "" 0 false.
Definition dgnss_init : dgnss := Dgnss 0 false (NtripParams no_params "") 0 [].

Definition set_state (z : Z) (d : dgnss) : dgnss :=
  Dgnss z (mSendNmeaConsent d) (mStartDgnssNtripParams d) (mDgnssLastNmeaBootTimeMilli d) (xtra d).
Definition set_start_params (p : StartDgnssNtripParams) (d : dgnss) : dgnss :=
  Dgnss (mDgnssState d) (mSendNmeaConsent d) p (mDgnssLastNmeaBootTimeMilli d) (xtra d).
Definition set_nmea (n : string) (d : dgnss) : dgnss :=
  set_start_params (NtripParams (ntripParams (mStartDgnssNtripParams d)) n) d.
Definition set_last_nmea (t : Z) (d : dgnss) : dgnss :=
  Dgnss (mDgnssState d) (mSendNmeaConsent d) (mStartDgnssNtripParams d) t (xtra d).
Definition call_xtra (c : xtra_call) (d : dgnss) : dgnss :=
  Dgnss (mDgnssState d) (mSendNmeaConsent d) (mStartDgnssNtripParams d)
    (mDgnssLastNmeaBootTimeMilli d) (xtra d ++ [c]).

(** mDgnssState |= bit, &= ~bit, and the test of a bit. *)
Definition or_state (bit : Z) (d : dgnss) : dgnss := set_state (Z.lor (mDgnssState d) bit) d.
Definition clear_state (bit : Z) (d : dgnss) : dgnss := set_state (Z.ldiff (mDgnssState d) bit) d.
Definition has_state (bit : Z) (d : dgnss) : bool := negb (Z.land (mDgnssState d) bit =? 0).

Definition isDgnssNmeaRequired (d : dgnss) : bool :=
  mSendNmeaConsent d && requiresNmeaLocation (ntripParams (mStartDgnssNtripParams d)).

Definition updateNTRIPGGAConsentCommand (consentAccepted : bool) (d : dgnss) : dgnss :=
  Dgnss (mDgnssState d) consentAccepted (mStartDgnssNtripParams d) (mDgnssLastNmeaBootTimeMilli d) (xtra d).

(** [inSession] is isInSession(), [curBootTime] is getBootTimeMilliSec(). *)
Definition checkUpdateDgnssNtrip (inSession : bool) (curBootTime : Z) (isLocationValid : bool)
    (d : dgnss) : dgnss :=
  if inSession then
    if mDgnssState d =? Z.lor DGNSS_STATE_ENABLE_NTRIP_COMMAND DGNSS_STATE_NO_NMEA_PENDING then
      let d := or_state DGNSS_STATE_NTRIP_SESSION_STARTED d in
      let d := call_xtra (startDgnssSource (mStartDgnssNtripParams d)) d in
      if isDgnssNmeaRequired d then set_last_nmea curBootTime d else d
    else if has_state DGNSS_STATE_NTRIP_SESSION_STARTED d && isLocationValid && isDgnssNmeaRequired d
            && (DGNSS_RANGE_UPDATE_TIME_10MIN_IN_MILLI
                  <? wrap_u 64 (curBootTime - mDgnssLastNmeaBootTimeMilli d)) then
      let d := call_xtra (updateNmeaToDgnssServer (nmea (mStartDgnssNtripParams d))) d in
      set_last_nmea curBootTime d
    else d
  else d.

Definition stopDgnssNtrip (d : dgnss) : dgnss :=
  let d := set_nmea "" d in
  if has_state DGNSS_STATE_NTRIP_SESSION_STARTED d then
    call_xtra stopDgnssSource (clear_state DGNSS_STATE_NTRIP_SESSION_STARTED d)
  else d.

Definition same_params (p q : GnssNtripConnectionParams) : bool :=
  eqb (useSSL p) (useSSL q) && String.eqb (hostNameOrIp p) (hostNameOrIp q) && (port p =? port q)
  && String.eqb (mountPoint p) (mountPoint q) && String.eqb (username p) (username q)
  && String.eqb (password p) (password q)
  && eqb (requiresNmeaLocation p) (requiresNmeaLocation q).

Definition handleEnablePPENtrip (inSession : bool) (curBootTime : Z)
    (params : GnssNtripConnectionParams) (d : dgnss) : dgnss :=
  if same_params (ntripParams (mStartDgnssNtripParams d)) params
     && has_state DGNSS_STATE_ENABLE_NTRIP_COMMAND d
  then d
  else
    let d := or_state DGNSS_STATE_ENABLE_NTRIP_COMMAND d in
    let d := or_state DGNSS_STATE_NO_NMEA_PENDING d in
    let d := clear_state DGNSS_STATE_NTRIP_SESSION_STARTED d in
    let d := set_start_params (NtripParams params "") d in
    if mSendNmeaConsent d && requiresNmeaLocation params then
      set_last_nmea 0 (clear_state DGNSS_STATE_NO_NMEA_PENDING d)
    else checkUpdateDgnssNtrip inSession curBootTime false d.

(** The command ignores incomplete parameters; otherwise the handler runs. *)
Definition enablePPENtripStreamCommand (inSession : bool) (curBootTime : Z)
    (params : GnssNtripConnectionParams) (d : dgnss) : dgnss :=
  if (ntrip_size params =? 0) || String.eqb (hostNameOrIp params) "" || String.eqb (mountPoint params) ""
     || String.eqb (username params) "" || String.eqb (password params) ""
  then d
  else handleEnablePPENtrip inSession curBootTime params d.

Definition handleDisablePPENtrip (d : dgnss) : dgnss :=
  let d := clear_state DGNSS_STATE_ENABLE_NTRIP_COMMAND d in
  let d := or_state DGNSS_STATE_NO_NMEA_PENDING d in
  stopDgnssNtrip d.

(** The part of GnssAdapter::stopTracking and suspendSessions that belongs to
    the source. *)
Definition stop_with_session (d : dgnss) : dgnss :=
  let d := if isDgnssNmeaRequired d then clear_state DGNSS_STATE_NO_NMEA_PENDING d else d in
  stopDgnssNtrip d.

(** ** GGA sentences *)

Definition POS_OF_GGA : nat := 3.
Definition COMMAS_BEFORE_VALID : nat := 6.

(** The GGA sentence that is looked for in a batch of sentences; the second
    argument of substr is a length. *)
Definition GGAString (nmeaString : string) : option string :=
  match String.index 0 "GGA" nmeaString with
  | Some foundPos =>
      if Nat.leb POS_OF_GGA foundPos then
        match String.index foundPos "$" nmeaString with
        | Some foundNextSentence =>
            Some (String.substring (foundPos - POS_OF_GGA) foundNextSentence nmeaString)
        | None =>
            Some (String.substring (foundPos - POS_OF_GGA)
                    (String.length nmeaString - (foundPos - POS_OF_GGA)) nmeaString)
        end
      else None
  | None => None
  end.

(** The while loop: at most [k] more commas are passed. *)
Fixpoint skip_commas (k : nat) (s : string) (foundPos : option nat) (foundNth : nat) : option nat * nat :=
  match k with
  | O => (foundPos, foundNth)
  | S k =>
      match foundPos with
      | None => (None, foundNth)
      | Some p => skip_commas k s (String.index (S p) "," s) (S foundNth)
      end
  end.

(** [None]: GGAString.at throws std::out_of_range. *)
Definition reportGGAToNtrip (inSession : bool) (curBootTime : Z) (n : option string) (d : dgnss) : option dgnss :=
  if negb (isDgnssNmeaRequired d) then Some d
  else
    match n with
    | None | Some EmptyString => Some d
    | Some nmeaString =>
        match GGAString nmeaString with
        | None => Some d
        | Some gga =>
            let '(foundPos, foundNth) :=
              skip_commas COMMAS_BEFORE_VALID gga (String.index 0 "," gga) 0 in
            if Nat.eqb foundNth COMMAS_BEFORE_VALID then
              match foundPos with
              | None => None
              | Some p =>
                  match String.get (p - 1) gga with
                  | None => None
                  | Some c =>
                      if Ascii.eqb c "0"%char then Some d
                      else
                        let d := or_state DGNSS_STATE_NO_NMEA_PENDING d in
                        let d := set_nmea gga d in
                        Some (checkUpdateDgnssNtrip inSession curBootTime true d)
                  end
              end
            else Some d
        end
    end.

(** The end of reportPositionNmea, which has generated the sentence [gga]. *)
Definition report_position_gga (inSession : bool) (curBootTime : Z) (isLocationValid : bool)
    (gga : option string) (d : dgnss) : dgnss :=
  match gga with
  | Some g =>
      if isDgnssNmeaRequired d then
        checkUpdateDgnssNtrip inSession curBootTime isLocationValid
          (set_nmea g (or_state DGNSS_STATE_NO_NMEA_PENDING d))
      else d
  | None => d
  end.

(** ** The machine *)

Inductive dgnss_event :=
  | EnableNtrip (inSession : bool) (curBootTime : Z) (params : GnssNtripConnectionParams)
  | DisableNtrip
  | Consent (accepted : bool)
  | Check (inSession : bool) (curBootTime : Z)
  | SessionStop
  | ReportNmea (inSession : bool) (curBootTime : Z) (n : option string)
  | ReportPosition (inSession : bool) (curBootTime : Z) (isLocationValid : bool) (gga : option string).

Definition dgnss_step (d : dgnss) (e : dgnss_event) : option dgnss :=
  match e with
  | EnableNtrip i t p => Some (enablePPENtripStreamCommand i t p d)
  | DisableNtrip => Some (handleDisablePPENtrip d)
  | Consent b => Some (updateNTRIPGGAConsentCommand b d)
  | Check i t => Some (checkUpdateDgnssNtrip i t false d)
  | SessionStop => Some (stop_with_session d)
  | ReportNmea i t n => reportGGAToNtrip i t n d
  | ReportPosition i t v g => Some (report_position_gga i t v g d)
  end.

(** The stream the XTRA daemon runs after the calls. *)
Definition source_after (calls : list xtra_call) : option GnssNtripConnectionParams :=
  foldl (fun s c => match c with
                    | startDgnssSource p => Some (ntripParams p)
                    | stopDgnssSource => None
                    | updateNmeaToDgnssServer _ => s
                    end) None calls.
Definition source (d : dgnss) : option GnssNtripConnectionParams := source_after (xtra d).

(** * The source and the state *)

(** While the session bit is set the daemon runs the stream of the current
    parameters, and the command bit is set. *)
Record dgnss_inv (d : dgnss) : Prop := {
  inv_range : 0 <= mDgnssState d < 8;
  inv_started : has_state DGNSS_STATE_NTRIP_SESSION_STARTED d = true ->
    has_state DGNSS_STATE_ENABLE_NTRIP_COMMAND d = true
    ∧ source d = Some (ntripParams (mStartDgnssNtripParams d))
}.

(** No stream runs unless the session bit is set. *)
Definition source_accounted (d : dgnss) : Prop :=
  has_state DGNSS_STATE_NTRIP_SESSION_STARTED d = false -> source d = None.

(** The parameters are not exchanged under a running stream. *)
Definition no_exchange (d : dgnss) (e : dgnss_event) : Prop :=
  match e with
  | EnableNtrip _ _ p =>
      has_state DGNSS_STATE_NTRIP_SESSION_STARTED d = true ->
      same_params (ntripParams (mStartDgnssNtripParams d)) p = true
  | _ => True
  end.

Lemma source_after_snoc l c :
  source_after (l ++ [c]) =
  match c with
  | startDgnssSource p => Some (ntripParams p)
  | stopDgnssSource => None
  | updateNmeaToDgnssServer _ => source_after l
  end.
Proof. unfold source_after. by rewrite foldl_app. Qed.

(** The eight values of the state word. *)
Ltac state_cases d :=
  let z := fresh "z" in
  destruct d as [z ? ? ? ?]; simpl in *;
  assert (z = 0 ∨ z = 1 ∨ z = 2 ∨ z = 3 ∨ z = 4 ∨ z = 5 ∨ z = 6 ∨ z = 7)
    as [->|[->|[->|[->|[->|[->|[->| ->]]]]]]] by lia.

(** Both, the second only if [acc]; as a fact of the state word, the current
    parameters and the stream that runs. *)
Definition K (acc : bool) (z : Z) (p : GnssNtripConnectionParams) (s : option GnssNtripConnectionParams) : Prop :=
  0 <= z < 8
  ∧ (Z.land z 4 <> 0 -> Z.land z 1 <> 0 ∧ s = Some p)
  ∧ (acc = true -> Z.land z 4 = 0 -> s = None).
Definition J (acc : bool) (d : dgnss) : Prop :=
  K acc (mDgnssState d) (ntripParams (mStartDgnssNtripParams d)) (source d).

Lemma J_spec acc d : J acc d <-> dgnss_inv d ∧ (acc = true -> source_accounted d).
Proof.
  unfold J, K, source_accounted. split.
  - intros (H1 & H2 & H3). unfold has_state. split; [split|]; unfold has_state; [done| |].
    + intros H. apply negb_true_iff, Z.eqb_neq in H. destruct (H2 H) as [H4 H5].
      split; [|done]. by apply negb_true_iff, Z.eqb_neq.
    + intros Ha H. apply H3; [done|]. by apply negb_false_iff, Z.eqb_eq in H.
  - intros [[H1 H2] H3]. unfold has_state in *. split; [done|]. split.
    + intros H. destruct H2 as [H4 H5]; [by apply negb_true_iff, Z.eqb_neq|].
      split; [|done]. by apply negb_true_iff, Z.eqb_neq in H4.
    + intros Ha H. apply H3; [done|]. by apply negb_false_iff, Z.eqb_eq.
Qed.

Lemma J_init acc : J acc dgnss_init.
Proof. repeat split; simpl; try lia; done. Qed.

(** Computes the bit operations on known words. *)
Ltac eval_bits op :=
  repeat match goal with
  | H : context [op ?a ?b] |- _ => let v := eval vm_compute in (op a b) in change (op a b) with v in H
  | |- context [op ?a ?b] => let v := eval vm_compute in (op a b) in change (op a b) with v
  end.

(** Computes [J] for a known state word. *)
Ltac solve_J :=
  unfold J, K, source in *; simpl in *; rewrite ?source_after_snoc; simpl;
  eval_bits Z.lor; eval_bits Z.ldiff; eval_bits Z.land;
  split_and?; intros; try lia; intuition (first [congruence | lia]).

Lemma J_check acc i t v d : J acc d -> J acc (checkUpdateDgnssNtrip i t v d).
Proof.
  intros H. unfold checkUpdateDgnssNtrip. destruct i; [|done]. assert (Hr := proj1 H).
  state_cases d; unfold has_state; simpl; repeat case_match; solve_J.
Qed.

Lemma J_stop acc d : J acc d -> J acc (stopDgnssNtrip d).
Proof. intros H. assert (Hr := proj1 H). state_cases d; solve_J. Qed.

Lemma J_set_nmea acc n d : J acc d -> J acc (set_nmea n d).
Proof. done. Qed.

Lemma J_or_pending acc d : J acc d -> J acc (or_state DGNSS_STATE_NO_NMEA_PENDING d).
Proof. intros H. assert (Hr := proj1 H). state_cases d; solve_J. Qed.

Lemma J_clear_pending acc t d :
  J acc d -> J acc (set_last_nmea t (clear_state DGNSS_STATE_NO_NMEA_PENDING d)).
Proof. intros H. assert (Hr := proj1 H). state_cases d; solve_J. Qed.

Lemma J_disable acc d : J acc d -> J acc (handleDisablePPENtrip d).
Proof. intros H. assert (Hr := proj1 H). state_cases d; solve_J. Qed.

Lemma J_stop_with_session acc d : J acc d -> J acc (stop_with_session d).
Proof.
  intros H. apply J_stop. case_match; [|done]. by apply (J_clear_pending _ (mDgnssLastNmeaBootTimeMilli d)).
Qed.

Lemma J_enable acc i t p d :
  (acc = true -> no_exchange d (EnableNtrip i t p)) ->
  J acc d -> J acc (enablePPENtripStreamCommand i t p d).
Proof.
  intros Hx H. unfold enablePPENtripStreamCommand, handleEnablePPENtrip.
  destruct (_ || _); [done|]. destruct (same_params _ p && _) eqn:E; [done|].
  assert (J acc (set_start_params (NtripParams p "")
     (clear_state DGNSS_STATE_NTRIP_SESSION_STARTED (or_state DGNSS_STATE_NO_NMEA_PENDING
       (or_state DGNSS_STATE_ENABLE_NTRIP_COMMAND d))))) as HJ.
  { clear - Hx H E. assert (Hr := proj1 H).
    state_cases d; unfold has_state in *; simpl in *; destruct acc, (same_params _ p); solve_J. }
  cbv zeta. case_match; [by apply J_clear_pending|by apply J_check].
Qed.

Lemma J_report acc i t n d d' : J acc d -> reportGGAToNtrip i t n d = Some d' -> J acc d'.
Proof.
  intros H. unfold reportGGAToNtrip. repeat case_match; intros; simplify_eq; try done.
  by apply J_check, J_set_nmea, J_or_pending.
Qed.

Lemma J_step acc d e d' :
  (acc = true -> no_exchange d e) -> J acc d -> dgnss_step d e = Some d' -> J acc d'.
Proof.
  intros Hx HJ. destruct e; simpl; intros He; simplify_eq.
  - by apply J_enable.
  - by apply J_disable.
  - done.
  - by apply J_check.
  - by apply J_stop_with_session.
  - eauto using J_report.
  - unfold report_position_gga. repeat case_match; try done.
    by apply J_check, J_set_nmea, J_or_pending.
Qed.

(** whatever the order of commands, reports and session changes, while the
    session bit of the state is set the XTRA daemon runs the stream of the
    current parameters, and the stream is enabled; if moreover the parameters
    are not exchanged while a stream runs, no stream runs when the bit is
    clear, so disabling it or ending the session stops it. *)
Theorem dgnss_source_follows_state es d :
  run dgnss_step dgnss_init es = Some d ->
  dgnss_inv d ∧ (run_ok dgnss_step no_exchange dgnss_init es -> source_accounted d).
Proof.
  intros Hrun. split.
  - assert (J false d) as H; [|by apply J_spec in H as [H _]].
    eapply run_invariant_always; [|apply J_init|apply Hrun]. intros; by eapply J_step; eauto.
  - intros Hok. assert (J true d) as H; [|apply J_spec in H as [_ H]; by apply H].
    eapply run_invariant; [|apply J_init|apply Hok|apply Hrun].
    intros; eapply J_step; eauto.
Qed.

Definition ex_params (host : string) (gga : bool) : GnssNtripConnectionParams :=
  NtripConnectionParams 80 gga host "MOUNT" "user" "secret" 2101 false.

Lemma dgnss_source_follows_state_witness :
  ∃ d, run dgnss_step dgnss_init
         [EnableNtrip false 5 (ex_params "a" false); Check true 6; EnableNtrip true 7 (ex_params "a" false);
          DisableNtrip] = Some d
       ∧ dgnss_inv d ∧ source_accounted d.
Proof.
  eexists. split; [reflexivity|].
  destruct (dgnss_source_follows_state
    [EnableNtrip false 5 (ex_params "a" false); Check true 6; EnableNtrip true 7 (ex_params "a" false);
     DisableNtrip] _ eq_refl) as [H1 H2].
  split; [exact H1|]. apply H2. vm_compute. repeat split; done.
Defined.

(** Exchanging the parameters under a running stream loses it: the stream that
    was started keeps running after the client disabled NTRIP. *)
Lemma dgnss_exchange_leaks_source :
  ∃ d, run dgnss_step dgnss_init
         [Consent true; EnableNtrip true 5 (ex_params "a" false); EnableNtrip true 6 (ex_params "b" true);
          DisableNtrip] = Some d
       ∧ mDgnssState d = DGNSS_STATE_NO_NMEA_PENDING ∧ source d = Some (ex_params "a" false).
Proof. eexists. split; [reflexivity|]. done. Qed.

(** * GGA sentences *)

Fixpoint commas (s : string) : nat :=
  match s with
  | EmptyString => 0
  | String c s => (if Ascii.eqb c "," then 1 else 0) + commas s
  end.

Fixpoint str_drop (n : nat) (s : string) : string :=
  match n, s with
  | O, _ => s
  | _, EmptyString => EmptyString
  | S n, String _ s => str_drop n s
  end.

Open Scope nat_scope.

(** string::find of a comma passes exactly one. *)
Lemma index_comma s p :
  match String.index p "," s with
  | None => commas (str_drop p s) = 0
  | Some q => commas (str_drop p s) = S (commas (str_drop (S q) s)) ∧ String.get q s = Some ","%char
  end.
Proof.
  revert p. induction s as [|c s IH]; intros p; [by destruct p|].
  destruct p as [|p]; cbn [String.index String.prefix].
  - destruct (ascii_dec "," c) as [<-|Hc]; [by destruct s|].
    specialize (IH 0). assert (Ascii.eqb c ","%char = false) as E by by apply Ascii.eqb_neq.
    cbn [commas str_drop]. rewrite E. destruct (String.index 0 "," s); [|by destruct s].
    destruct s; [destruct IH; done|]. done.
  - specialize (IH p). by destruct (String.index p "," s).
Qed.

Lemma skip_commas_spec k s p nth :
  let '(pos, nth') := skip_commas k s (String.index p "," s) nth in
  nth' = nth + Nat.min k (commas (str_drop p s))
  ∧ (pos = None <-> commas (str_drop p s) <= k)
  ∧ (∀ q, pos = Some q -> String.get q s = Some ","%char).
Proof.
  revert p nth. induction k as [|k IH]; intros p nth; simpl;
    assert (Hi := index_comma s p); destruct (String.index p "," s) as [q|].
  - destruct Hi as [Hi Hq]. split_and!; [lia| |naive_solver]. rewrite Hi. split; [done|lia].
  - rewrite Hi. split_and!; [lia|done|done].
  - destruct Hi as [Hi Hq]. specialize (IH (S q) (S nth)). destruct (skip_commas _ _ _ _) as [pos n'].
    rewrite Hi. destruct IH as (-> & H2 & H3). split_and!; [lia| |done]. rewrite H2. lia.
  - rewrite Hi. split_and!; [lia|split; [lia|done]|done].
Qed.

Lemma get_below s n m c : String.get n s = Some c -> m <= n -> String.get m s <> None.
Proof.
  revert n m. induction s as [|a s IH]; intros n m H Hm; simpl in *; [done|].
  destruct m as [|m]; [done|]. destruct n as [|n]; [lia|]. eapply IH; [done|lia].
Qed.

(** the extraction of the GGA sentence throws std::out_of_range for exactly
    the batches whose extracted text has six commas: a GGA sentence that ends
    in its quality field stops the thread. *)
Theorem gga_throws_on_six_commas i t n d :
  reportGGAToNtrip i t (Some n) d = None <->
  isDgnssNmeaRequired d = true ∧ ∃ gga, GGAString n = Some gga ∧ commas gga = 6.
Proof.
  unfold reportGGAToNtrip. destruct (isDgnssNmeaRequired d); cbn [negb]; [|naive_solver].
  destruct n as [|a n]; [split; [done|intros (_ & gga & [=] & _)]|].
  destruct (GGAString _) as [gga|]; [|naive_solver].
  assert (Hs := skip_commas_spec COMMAS_BEFORE_VALID gga 0 0).
  destruct (skip_commas _ _ _ _) as [pos nth]. destruct Hs as (Hn & Hp & Hq).
  change (str_drop 0 gga) with gga in *. unfold COMMAS_BEFORE_VALID in *.
  destruct (Nat.eqb_spec nth 6) as [E|E].
  - destruct pos as [q|].
    + specialize (Hq q eq_refl). destruct (String.get (q - 1) gga) eqn:Eg.
      * split; [by intros; case_match|]. intros (_ & g & [= <-] & Hc). destruct Hp as [_ Hp]. exfalso. cut (Some q = None); [done|]. apply Hp. lia.
      * exfalso. eapply get_below; [apply Hq| |apply Eg]. lia.
    + split; [|done]. intros _. split; [done|]. exists gga. split; [done|]. destruct Hp as [Hp _].
      specialize (Hp eq_refl). lia.
  - split; [done|]. intros (_ & g & [= <-] & Hc). lia.
Qed.

Definition ex_rmc : string := "$GPRMC,1,2*00".
Definition ex_gga : string := "$GPGGA,1,2,3,4,5,1,8*00".

(** A GGA sentence that is not the first one is cut too late: substr is called
    with the position of the next sentence as a length. *)
Lemma gga_keeps_next_sentence :
  GGAString (ex_rmc ++ ex_gga ++ ex_rmc) = Some (String.append ex_gga ex_rmc)
  ∧ GGAString (ex_gga ++ ex_rmc) = Some ex_gga.
Proof. split; vm_compute; reflexivity. Qed.
