(* ===== verification/LinkedList.v ===== *)
(** The doubly linked list of [gps/utils/linked_list.c]: the heap of list cells
    with its allocator, one definition per C function, the representation of a
    list in the heap, and the proof that the C functions implement a FIFO queue
    with search. *)

From S2P Require Import Prelude.

(** * Data (linked_list.h, linked_list.c) *)

Inductive linked_list_err_type : Type :=
  | eLINKED_LIST_SUCCESS
  | eLINKED_LIST_FAILURE_GENERAL
  | eLINKED_LIST_INVALID_PARAMETER
  | eLINKED_LIST_INVALID_HANDLE
  | eLINKED_LIST_UNAVAILABLE_RESOURCE
  | eLINKED_LIST_INSUFFICIENT_BUFFER
  | eLINKED_LIST_EMPTY.

#[export] Instance linked_list_err_type_eq_dec : EqDecision linked_list_err_type.
Proof. solve_decision. Defined.

(** The numeric values of the enumeration. *)
Definition linked_list_err_val (e : linked_list_err_type) : Z :=
  match e with
  | eLINKED_LIST_SUCCESS => 0
  | eLINKED_LIST_FAILURE_GENERAL => -1
  | eLINKED_LIST_INVALID_PARAMETER => -2
  | eLINKED_LIST_INVALID_HANDLE => -3
  | eLINKED_LIST_UNAVAILABLE_RESOURCE => -4
  | eLINKED_LIST_INSUFFICIENT_BUFFER => -5
  | eLINKED_LIST_EMPTY => -6
  end.

Record list_element := Elem {
  next : ptr;
  prev : ptr;
  data_ptr : ptr;
  dealloc_func : ptr
}.

Record list_state := LState {
  p_head : ptr;
  p_tail : ptr
}.

(** The heap the functions run on: the live list cells and list headers, the
    next address the allocator gives out, what the next calls of malloc/calloc
    answer ([false] at the head of [supply] is a failure, an exhausted [supply]
    always succeeds), and the calls made to dealloc functions, latest first. *)
Record heap := Heap {
  elems : gmap loc list_element;
  lists : gmap loc list_state;
  brk : loc;
  supply : list bool;
  deallocs : list (loc * ptr)
}.

Definition set_elems (m : gmap loc list_element) (h : heap) : heap :=
  Heap m (lists h) (brk h) (supply h) (deallocs h).
Definition set_lists (m : gmap loc list_state) (h : heap) : heap :=
  Heap (elems h) m (brk h) (supply h) (deallocs h).

(** ** Memory accesses *)

Definition alloc_ok : M heap bool := fun h =>
  Done (default true (head (supply h)),
        Heap (elems h) (lists h) (brk h) (tail (supply h)) (deallocs h)).

Definition malloc_elem (e : list_element) : M heap ptr :=
  let! ok := alloc_ok in
  if ok : bool
  then fun h => Done (Some (brk h),
         Heap (<[brk h := e]> (elems h)) (lists h) (Pos.succ (brk h)) (supply h) (deallocs h))
  else ret None.

Definition calloc_list : M heap ptr :=
  let! ok := alloc_ok in
  if ok : bool
  then fun h => Done (Some (brk h),
         Heap (elems h) (<[brk h := LState None None]> (lists h)) (Pos.succ (brk h))
              (supply h) (deallocs h))
  else ret None.

Definition read_elem (p : ptr) : M heap list_element := fun h =>
  match p ≫= (elems h !!.) with
  | Some e => Done (e, h)
  | None => Undefined
  end.

Definition write_elem (p : ptr) (f : list_element -> list_element) : M heap unit := fun h =>
  match p ≫= (fun l => (l,.) <$> elems h !! l) with
  | Some (l, e) => Done (tt, set_elems (<[l := f e]> (elems h)) h)
  | None => Undefined
  end.

Definition free_elem (p : ptr) : M heap unit := fun h =>
  match p ≫= (fun l => (l,.) <$> elems h !! l) with
  | Some (l, _) => Done (tt, set_elems (delete l (elems h)) h)
  | None => Undefined
  end.

Definition read_list (p : ptr) : M heap list_state := fun h =>
  match p ≫= (lists h !!.) with
  | Some s => Done (s, h)
  | None => Undefined
  end.

Definition write_list (p : ptr) (f : list_state -> list_state) : M heap unit := fun h =>
  match p ≫= (fun l => (l,.) <$> lists h !! l) with
  | Some (l, s) => Done (tt, set_lists (<[l := f s]> (lists h)) h)
  | None => Undefined
  end.

(** The [free] of the list header: freeing the null pointer does nothing. *)
Definition free_list (p : ptr) : M heap unit := fun h =>
  match p with
  | None => Done (tt, h)
  | Some l => match lists h !! l with
              | Some _ => Done (tt, set_lists (delete l (lists h)) h)
              | None => Undefined
              end
  end.

(** Calling a dealloc function given with an element: the function is the
    caller's, so the call is recorded. *)
Definition call_dealloc (f d : ptr) : M heap unit := fun h =>
  match f with
  | Some g => Done (tt, Heap (elems h) (lists h) (brk h) (supply h) ((g, d) :: deallocs h))
  | None => Undefined
  end.

Definition with_next (n : ptr) (e : list_element) := Elem n (prev e) (data_ptr e) (dealloc_func e).
Definition with_prev (p : ptr) (e : list_element) := Elem (next e) p (data_ptr e) (dealloc_func e).
Definition with_head (p : ptr) (s : list_state) := LState p (p_tail s).
Definition with_tail (p : ptr) (s : list_state) := LState (p_head s) p.

(** * The functions of linked_list.c *)

(** An out-parameter [void** x] is [None] when the caller passes NULL and
    [Some v] when it passes the address of a variable holding [v]; the function
    returns its new value. *)

Definition linked_list_init (list_data : option ptr)
  : M heap (linked_list_err_type * option ptr) :=
  match list_data with
  | None => ret (eLINKED_LIST_INVALID_PARAMETER, None)
  | Some old =>
    let! tmp_list := calloc_list in
    match tmp_list with
    | None => ret (eLINKED_LIST_FAILURE_GENERAL, Some old)
    | Some _ =>
      write_list tmp_list (with_head None) ;;;
      write_list tmp_list (with_tail None) ;;;
      ret (eLINKED_LIST_SUCCESS, Some tmp_list)
    end
  end.

(** The loop of [linked_list_flush]; [fuel] bounds the cells it may visit. *)
Fixpoint flush_loop (fuel : nat) (p_list : ptr) : M heap unit :=
  let! s := read_list p_list in
  match p_head s with
  | None => ret tt
  | Some _ =>
    match fuel with
    | O => no_fuel
    | S fuel =>
      let! e := read_elem (p_head s) in
      let tmp := next e in
      (match dealloc_func e with
       | Some _ => call_dealloc (dealloc_func e) (data_ptr e)
       | None => ret tt
       end) ;;;
      free_elem (p_head s) ;;;
      write_list p_list (with_head tmp) ;;;
      flush_loop fuel p_list
    end
  end.

Definition linked_list_flush (fuel : nat) (list_data : ptr) : M heap linked_list_err_type :=
  match list_data with
  | None => ret eLINKED_LIST_INVALID_HANDLE
  | Some _ =>
    flush_loop fuel list_data ;;;
    write_list list_data (with_tail None) ;;;
    ret eLINKED_LIST_SUCCESS
  end.

Definition linked_list_destroy (fuel : nat) (list_data : option ptr)
  : M heap (linked_list_err_type * option ptr) :=
  match list_data with
  | None => ret (eLINKED_LIST_INVALID_HANDLE, None)
  | Some p_list =>
    linked_list_flush fuel p_list ;;;
    free_list p_list ;;;
    ret (eLINKED_LIST_SUCCESS, Some None)
  end.

Definition linked_list_add (list_data data_obj dealloc : ptr) : M heap linked_list_err_type :=
  match list_data, data_obj with
  | None, _ => ret eLINKED_LIST_INVALID_HANDLE
  | _, None => ret eLINKED_LIST_INVALID_PARAMETER
  | Some _, Some _ =>
    let! elem := malloc_elem (Elem None None data_obj dealloc) in
    match elem with
    | None => ret eLINKED_LIST_FAILURE_GENERAL
    | Some _ =>
      let! s := read_list list_data in
      let tmp := p_head s in
      write_list list_data (with_head elem) ;;;
      write_elem elem (with_next tmp) ;;;
      (match tmp with
       | Some _ => write_elem tmp (with_prev elem)
       | None => write_list list_data (with_tail elem)
       end) ;;;
      ret eLINKED_LIST_SUCCESS
    end
  end.

Definition linked_list_remove (list_data : ptr) (data_obj : option ptr)
  : M heap (linked_list_err_type * option ptr) :=
  match list_data, data_obj with
  | None, _ => ret (eLINKED_LIST_INVALID_HANDLE, data_obj)
  | _, None => ret (eLINKED_LIST_INVALID_PARAMETER, None)
  | Some _, Some _ =>
    let! s := read_list list_data in
    match p_tail s with
    | None => ret (eLINKED_LIST_UNAVAILABLE_RESOURCE, data_obj)
    | Some _ =>
      let tmp := p_tail s in
      let! e := read_elem tmp in
      write_list list_data (with_tail (prev e)) ;;;
      (match prev e with
       | Some _ => write_elem (prev e) (with_next None)
       | None => write_list list_data (with_head (prev e))
       end) ;;;
      let! e' := read_elem tmp in
      free_elem tmp ;;;
      ret (eLINKED_LIST_SUCCESS, Some (data_ptr e'))
    end
  end.

Definition linked_list_empty (list_data : ptr) : M heap Z :=
  match list_data with
  | None => ret (linked_list_err_val eLINKED_LIST_INVALID_HANDLE)
  | Some _ =>
    let! s := read_list list_data in
    ret (match p_head s with None => 1 | Some _ => 0 end)
  end%Z.

(** The part of [linked_list_search] that unlinks and frees the cell [tmp]. *)
Definition search_unlink (list_data tmp : ptr) (copied : bool) : M heap unit :=
  let! e := read_elem tmp in
  (match prev e with
   | None => write_list list_data (with_head (next e))
   | Some _ => write_elem (prev e) (with_next (next e))
   end) ;;;
  let! e := read_elem tmp in
  (match next e with
   | None => write_list list_data (with_tail (prev e))
   | Some _ => write_elem (next e) (with_prev (prev e))
   end) ;;;
  write_elem tmp (fun e => with_prev None (with_next None e)) ;;;
  let! e := read_elem tmp in
  (if negb copied
   then match dealloc_func e with
        | Some _ => call_dealloc (dealloc_func e) (data_ptr e)
        | None => ret tt
        end
   else ret tt) ;;;
  free_elem tmp.

(** The loop of [linked_list_search]: gives the new value of [*data_p]. *)
Fixpoint search_loop (fuel : nat) (list_data tmp : ptr) (data_p : option ptr)
    (equal : ptr -> ptr -> bool) (data_0 : ptr) (rm_if_found : bool) : M heap (option ptr) :=
  match tmp with
  | None => ret data_p
  | Some _ =>
    match fuel with
    | O => no_fuel
    | S fuel =>
      let! e := read_elem tmp in
      if equal data_0 (data_ptr e)
      then
        let data_p' := match data_p with Some _ => Some (data_ptr e) | None => None end in
        (if rm_if_found
         then search_unlink list_data tmp (match data_p with Some _ => true | None => false end)
         else ret tt) ;;;
        search_loop fuel list_data None data_p' equal data_0 rm_if_found
      else search_loop fuel list_data (next e) data_p equal data_0 rm_if_found
    end
  end.

Definition linked_list_search (fuel : nat) (list_data : ptr) (data_p : option ptr)
    (equal : option (ptr -> ptr -> bool)) (data_0 : ptr) (rm_if_found : bool)
  : M heap (linked_list_err_type * option ptr) :=
  match list_data, equal with
  | None, _ | _, None => ret (eLINKED_LIST_INVALID_HANDLE, data_p)
  | Some _, Some equal =>
    let! s := read_list list_data in
    match p_tail s with
    | None => ret (eLINKED_LIST_UNAVAILABLE_RESOURCE, data_p)
    | Some _ =>
      let tmp := p_head s in
      let data_p := match data_p with Some _ => Some None | None => None end in
      let! data_p := search_loop fuel list_data tmp data_p equal data_0 rm_if_found in
      ret (eLINKED_LIST_SUCCESS, data_p)
    end
  end.

(** * The list a header represents *)

(** A cell: its address, its data pointer and its dealloc function. *)
Abbreviation cell := (loc * (ptr * ptr))%type (only parsing).

(** [dlseg m p b xs q t]: starting from pointer [p], whose predecessor is [b],
    the cells [xs] are linked in [m] both ways and end in pointer [q], the last
    cell being [t]. *)
Fixpoint dlseg (m : gmap loc list_element) (p b : ptr) (xs : list cell) (q t : ptr) : Prop :=
  match xs with
  | [] => p = q ∧ t = b
  | (l, (d, f)) :: xs =>
    p = Some l ∧ ∃ n, m !! l = Some (Elem n b d f) ∧ dlseg m n (Some l) xs q t
  end.

Abbreviation locs xs := (xs.*1) (only parsing).

(** The header at [lp] holds the list [xs]. *)
Definition list_repr (h : heap) (lp : loc) (xs : list cell) : Prop :=
  ∃ s, lists h !! lp = Some s ∧
    dlseg (elems h) (p_head s) None xs None (p_tail s) ∧
    NoDup (locs xs) ∧ Forall (fun l => (l < brk h)%positive) (locs xs).

Lemma dlseg_app m xs ys p b q t :
  dlseg m p b (xs ++ ys) q t <-> ∃ p' t', dlseg m p b xs p' t' ∧ dlseg m p' t' ys q t.
Proof.
  revert p b; induction xs as [|[l [d f]] xs IH]; intros p b; simpl.
  - naive_solver.
  - setoid_rewrite IH. naive_solver.
Qed.

Lemma dlseg_lookup m p b xs q t l :
  dlseg m p b xs q t -> l ∈ locs xs -> is_Some (m !! l).
Proof.
  revert p b; induction xs as [|[l' [d f]] xs IH]; intros p b; [set_solver|].
  intros (-> & n & Hl' & Hseg) Hl. simpl in Hl.
  apply elem_of_cons in Hl as [->|Hl]; [by eexists|by eapply IH].
Qed.

Lemma dlseg_frame m m' p b xs q t :
  (∀ l, l ∈ locs xs -> m' !! l = m !! l) -> dlseg m p b xs q t -> dlseg m' p b xs q t.
Proof.
  revert p b; induction xs as [|[l [d f]] xs IH]; intros p b Hm; simpl; [done|].
  intros (-> & n & Hl & Hs). split; [done|]. exists n. split.
  - rewrite Hm; [done|]. simpl. set_solver.
  - apply IH; [|done]. intros l' ?. apply Hm. simpl. set_solver.
Qed.

Lemma dlseg_insert m l e p b xs q t :
  l ∉ locs xs -> dlseg m p b xs q t -> dlseg (<[l:=e]> m) p b xs q t.
Proof. intros Hl. apply dlseg_frame. intros l' ?. rewrite lookup_insert_ne; set_solver. Qed.

Lemma dlseg_delete m l p b xs q t :
  l ∉ locs xs -> dlseg m p b xs q t -> dlseg (delete l m) p b xs q t.
Proof. intros Hl. apply dlseg_frame. intros l' ?. rewrite lookup_delete_ne; set_solver. Qed.

(** Changing where the first cell points back to. *)
Lemma dlseg_with_prev m l d f xs q t b n b' :
  NoDup (l :: locs xs) ->
  m !! l = Some (Elem n b d f) -> dlseg m n (Some l) xs q t ->
  dlseg (<[l := Elem n b' d f]> m) (Some l) b' ((l, (d, f)) :: xs) q t.
Proof.
  intros [Hl _]%NoDup_cons Hm Hs. split; [done|]. exists n.
  rewrite lookup_insert_eq. split; [done|]. by apply dlseg_insert.
Qed.

(** Changing where a segment's last cell points to. *)
Lemma dlseg_snoc_next m p b xs l d f q t q' :
  NoDup (locs (xs ++ [(l, (d, f))])) ->
  dlseg m p b (xs ++ [(l, (d, f))]) q t ->
  t = Some l ∧ ∃ b', m !! l = Some (Elem q b' d f) ∧
  dlseg (<[l := Elem q' b' d f]> m) p b (xs ++ [(l, (d, f))]) q' (Some l).
Proof.
  intros [_ Hl]%NoDup_fmap_snoc (p' & t' & Hxs & -> & n & Hm & -> & ->)%dlseg_app.
  split; [done|]. exists t'. split; [done|].
  apply dlseg_app. exists (Some l), t'. split; [by apply dlseg_insert|].
  split; [done|]. exists q'. rewrite lookup_insert_eq. done.
Qed.

Lemma dlseg_head_None m b xs t : dlseg m None b xs None t -> xs = [] ∧ t = b.
Proof. destruct xs as [|[l [d f]] xs]; simpl; naive_solver. Qed.

Lemma dlseg_tail_None m p xs q : dlseg m p None xs q None -> xs = [] ∧ p = q.
Proof.
  destruct xs as [|[l [d f]] xs _] using rev_ind; simpl; [naive_solver|].
  intros (p' & t' & _ & -> & n & _ & _ & ?)%dlseg_app. done.
Qed.

(** What an operation on the list [lp] leaves alone and gives back: other
    headers and cells that are not its own are kept, dropped cells are freed,
    new cells are fresh. *)
Record hstep (lp : loc) (xs xs' : list cell) (h h' : heap) : Prop := {
  hs_lists : ∀ lp', lp' ≠ lp -> lists h' !! lp' = lists h !! lp';
  hs_elems : ∀ l, l ∉ locs xs -> l ∉ locs xs' -> elems h' !! l = elems h !! l;
  hs_freed : ∀ l, l ∈ locs xs -> l ∉ locs xs' -> elems h' !! l = None;
  hs_new : ∀ l, l ∈ locs xs' -> l ∈ locs xs ∨ (brk h <= l)%positive;
  hs_brk : (brk h <= brk h')%positive
}.

Lemma read_list_done h l s : lists h !! l = Some s -> read_list (Some l) h = Done (s, h).
Proof. unfold read_list. simpl. by intros ->. Qed.
Lemma write_list_done h l s f : lists h !! l = Some s ->
  write_list (Some l) f h = Done (tt, set_lists (<[l:=f s]> (lists h)) h).
Proof. unfold write_list. simpl. by intros ->. Qed.
Lemma read_elem_done h l e : elems h !! l = Some e -> read_elem (Some l) h = Done (e, h).
Proof. unfold read_elem. simpl. by intros ->. Qed.
Lemma write_elem_done h l e f : elems h !! l = Some e ->
  write_elem (Some l) f h = Done (tt, set_elems (<[l:=f e]> (elems h)) h).
Proof. unfold write_elem. simpl. by intros ->. Qed.
Lemma free_elem_done h l e : elems h !! l = Some e ->
  free_elem (Some l) h = Done (tt, set_elems (delete l (elems h)) h).
Proof. unfold free_elem. simpl. by intros ->. Qed.

(** Runs the next memory access, its cell being found by [simplify_map_eq]. *)
Ltac access :=
  match goal with
  | |- context [bind ?c ?k ?h] =>
    first [ erewrite (bind_done c k h) by
              first [ eapply read_list_done; simpl; by simplify_map_eq
                    | eapply write_list_done; simpl; by simplify_map_eq
                    | eapply read_elem_done; simpl; by simplify_map_eq
                    | eapply write_elem_done; simpl; by simplify_map_eq
                    | eapply free_elem_done; simpl; by simplify_map_eq ]
          | rewrite (bind_ret _ k h) ]
  end; cbn [fst snd p_head p_tail next prev data_ptr dealloc_func
            with_next with_prev with_head with_tail].

Definition grow (e : list_element) (h : heap) : heap :=
  Heap (<[brk h := e]> (elems h)) (lists h) (Pos.succ (brk h)) (tail (supply h)) (deallocs h).

Lemma malloc_elem_ok h e : head (supply h) ≠ Some false ->
  malloc_elem e h = Done (Some (brk h), grow e h).
Proof.
  intros H. unfold malloc_elem, bind, alloc_ok, grow. simpl.
  destruct (supply h) as [|[] ?]; simpl in *; congruence.
Qed.

(** Proves [hstep] goals once the resulting heap is known. *)
Ltac hstep_tac :=
  split; simpl; rewrite ?fmap_app; simpl;
  [ intros; by simplify_map_eq
  | intros ? Hn Hn';
    repeat first [ rewrite lookup_insert_ne by set_solver
                 | rewrite lookup_delete_ne by set_solver ]; done
  | intros ? Hin Hnin;
    match goal with
    | |- delete ?l _ !! ?l0 = None =>
      assert (l0 = l) as -> by set_solver; apply lookup_delete_eq
    | _ => exfalso; set_solver
    end
  | intros ? Hin; rewrite ?elem_of_app, ?elem_of_cons, ?elem_of_nil in Hin; destruct_or?; subst;
    first [ done | right; lia | left; set_solver ]
  | lia ].

Lemma linked_list_add_correct h lp xs d f :
  list_repr h lp xs -> head (supply h) ≠ Some false ->
  ∃ h', linked_list_add (Some lp) (Some d) f h = Done (eLINKED_LIST_SUCCESS, h') ∧
    list_repr h' lp ((brk h, (Some d, f)) :: xs) ∧
    hstep lp xs ((brk h, (Some d, f)) :: xs) h h' ∧
    supply h' = tail (supply h) ∧ deallocs h' = deallocs h.
Proof.
  intros ([hd tl] & Hlp & Hseg & Hnd & Hfr) Hok. simpl in Hseg.
  assert (Hnew : brk h ∉ locs xs).
  { intros Hin. apply (proj1 (Forall_forall _ _) Hfr) in Hin. lia. }
  unfold linked_list_add. rewrite (bind_done _ _ _ _ _ (malloc_elem_ok _ _ Hok)).
  access. access. access.
  destruct xs as [|[l [d0 f0]] xs].
  - destruct Hseg as [-> ->]. access. eexists. split; [done|]. split; [|split].
    + exists (LState (Some (brk h)) (Some (brk h))). simpl. simplify_map_eq.
      repeat split; [|by apply NoDup_singleton|by apply Forall_singleton; lia].
      exists None. by simplify_map_eq.
    + hstep_tac.
    + done.
  - destruct Hseg as (-> & n & Hl & Hseg). simpl in Hnew.
    apply not_elem_of_cons in Hnew as [Hnl Hnew].
    simpl. access. eexists. split; [done|]. split; [|split].
    + eexists. simpl. rewrite lookup_insert_eq. split; [done|]. split; [|split].
      * split; [done|]. exists (Some l). simpl. rewrite lookup_insert_ne, lookup_insert_eq by done.
        split; [done|]. apply dlseg_with_prev with (b := None); [done| |].
        -- by simplify_map_eq.
        -- by do 2 (apply dlseg_insert; [done|]).
      * apply NoDup_cons. set_solver.
      * constructor; [lia|]. eapply Forall_impl; [done|]. simpl. lia.
    + hstep_tac.
    + done.
Qed.

Lemma linked_list_add_nomem h lp d f :
  head (supply h) = Some false ->
  linked_list_add (Some lp) (Some d) f h =
    Done (eLINKED_LIST_FAILURE_GENERAL,
          Heap (elems h) (lists h) (brk h) (tail (supply h)) (deallocs h)).
Proof.
  intros H. unfold linked_list_add, malloc_elem, bind, alloc_ok. simpl.
  by destruct (supply h) as [|[] ?].
Qed.

Lemma list_repr_tail h lp xs l d f :
  list_repr h lp (xs ++ [(l, (d, f))]) ->
  ∃ hd b, lists h !! lp = Some (LState hd (Some l)) ∧
    elems h !! l = Some (Elem None b d f) ∧
    dlseg (elems h) hd None xs (Some l) b ∧ NoDup (locs xs) ∧ (l ∉ locs xs) ∧
    Forall (fun l => (l < brk h)%positive) (locs xs).
Proof.
  intros ([hd tl] & Hlp & Hseg & Hnd & Hfr). simpl in Hseg.
  apply NoDup_fmap_snoc in Hnd as [Hnd Hl].
  rewrite fmap_app in Hfr. apply Forall_snoc in Hfr as [Hfr _].
  apply dlseg_app in Hseg as (p' & t' & Hxs & -> & n & Hm & -> & ->).
  eauto 10.
Qed.

Lemma linked_list_remove_correct h lp xs l d f old :
  list_repr h lp (xs ++ [(l, (d, f))]) ->
  ∃ h', linked_list_remove (Some lp) (Some old) h = Done ((eLINKED_LIST_SUCCESS, Some d), h') ∧
    list_repr h' lp xs ∧ hstep lp (xs ++ [(l, (d, f))]) xs h h' ∧
    supply h' = supply h ∧ deallocs h' = deallocs h.
Proof.
  intros (hd & b & Hlp & Hl & Hseg & Hnd & Hnl & Hfr)%list_repr_tail.
  unfold linked_list_remove. access. access. access.
  destruct xs as [|[l' [d' f']] xs _] using rev_ind.
  - destruct Hseg as [-> ->]. access. access. access. eexists. split; [done|].
    split; [|split; [|done]].
    + eexists. simpl. rewrite lookup_insert_eq. repeat split; constructor.
    + hstep_tac.
  - apply dlseg_snoc_next with (q' := None) in Hseg as (-> & b' & Hl' & Hseg); [|done].
    assert (l ≠ l') by (intros ->; apply Hnl; rewrite fmap_app; set_solver).
    access. access. access. eexists. split; [done|]. split; [|split; [|done]].
    + eexists. simpl. rewrite lookup_insert_eq. split; [done|].
      split; [by apply dlseg_delete|done].
    + hstep_tac.
Qed.

Lemma linked_list_remove_empty h lp old :
  list_repr h lp [] ->
  linked_list_remove (Some lp) (Some old) h = Done ((eLINKED_LIST_UNAVAILABLE_RESOURCE, Some old), h).
Proof.
  intros ([hd tl] & Hlp & [? ?] & _). simpl in *. subst.
  unfold linked_list_remove. by access.
Qed.

Lemma linked_list_empty_correct h lp xs :
  list_repr h lp xs ->
  linked_list_empty (Some lp) h = Done ((if decide (xs = []) then 1 else 0)%Z, h).
Proof.
  intros ([hd tl] & Hlp & Hseg & _). unfold linked_list_empty. access. simpl in *.
  destruct xs as [|[l [d f]] xs]; simpl in Hseg; by destruct Hseg as [-> _].
Qed.

(** ** Flush *)

(** The dealloc calls flushing the cells [xs] makes, in order. *)
Definition dealloc_calls (xs : list (ptr * ptr)) : list (loc * ptr) :=
  omap (fun '(d, f) => (., d) <$> f) xs.

Definition delete_all (ls : list loc) (m : gmap loc list_element) : gmap loc list_element :=
  foldl (fun m l => delete l m) m ls.

Lemma lookup_delete_all ls m l :
  delete_all ls m !! l = if decide (l ∈ ls) then None else m !! l.
Proof.
  unfold delete_all. revert m; induction ls as [|l' ls IH]; intros m; simpl; [done|].
  rewrite IH. destruct (decide (l = l')) as [->|].
  - rewrite lookup_delete_eq. repeat case_decide; set_solver.
  - rewrite lookup_delete_ne by done. repeat case_decide; set_solver.
Qed.

Lemma flush_loop_correct fuel lp xs h hd tl b t :
  lists h !! lp = Some (LState hd tl) ->
  dlseg (elems h) hd b xs None t -> NoDup (locs xs) -> length xs <= fuel ->
  flush_loop fuel (Some lp) h =
    Done (tt, Heap (delete_all (locs xs) (elems h)) (<[lp := LState None tl]> (lists h))
                   (brk h) (supply h) (rev (dealloc_calls xs.*2) ++ deallocs h)).
Proof.
  revert h hd b fuel; induction xs as [|[l [d f]] xs IH]; intros h hd b fuel Hlp Hseg Hnd Hfuel.
  - destruct Hseg as [-> _]. destruct fuel; simpl; access; unfold ret;
      rewrite insert_id by done; by destruct h.
  - destruct Hseg as (-> & n & Hl & Hseg). destruct fuel as [|fuel]; simpl in Hfuel; [lia|].
    apply NoDup_cons in Hnd as [Hnl Hnd]. simpl flush_loop. access. access.
    set (h1 := Heap (elems h) (lists h) (brk h) (supply h)
                    (from_option (fun g => [(g, d)]) [] f ++ deallocs h)).
    assert (Hcall : (match f with Some _ => call_dealloc f d | None => ret tt end) h = Done (tt, h1))
      by (destruct f; destruct h; done).
    rewrite (bind_done _ _ _ _ _ Hcall). access. access.
    erewrite IH; simpl;
      [|by rewrite lookup_insert_eq|by apply dlseg_delete|done|lia].
    rewrite insert_insert_eq. destruct f; simpl; [|done]. by rewrite <- app_assoc.
Qed.

Lemma linked_list_flush_correct fuel h lp xs :
  list_repr h lp xs -> length xs <= fuel ->
  ∃ h', linked_list_flush fuel (Some lp) h = Done (eLINKED_LIST_SUCCESS, h') ∧
    list_repr h' lp [] ∧ hstep lp xs [] h h' ∧
    supply h' = supply h ∧ deallocs h' = rev (dealloc_calls xs.*2) ++ deallocs h.
Proof.
  intros ([hd tl] & Hlp & Hseg & Hnd & Hfr) Hfuel.
  unfold linked_list_flush.
  rewrite (bind_done _ _ _ _ _ (flush_loop_correct _ _ _ _ _ _ _ _ Hlp Hseg Hnd Hfuel)).
  access. eexists. split; [done|]. split; [|split; [|done]].
  - eexists. simpl. rewrite lookup_insert_eq. repeat split; constructor.
  - split; simpl; [intros; by simplify_map_eq| | | |lia]; intros;
      rewrite ?lookup_delete_all; try case_decide; set_solver.
Qed.

(** ** Search *)

Section search.
Context (equal : ptr -> ptr -> bool) (data_0 : ptr).

(** Cells that do not match are passed over. *)
Lemma search_loop_skip fuel lp h p b xs q t dp rm :
  dlseg (elems h) p b xs q t ->
  Forall (fun x : ptr * ptr => equal data_0 x.1 = false) xs.*2 ->
  search_loop (length xs + fuel) lp p dp equal data_0 rm h =
  search_loop fuel lp q dp equal data_0 rm h.
Proof.
  revert p b; induction xs as [|[l [d f]] xs IH]; intros p b Hseg Hno.
  - by destruct Hseg as [-> ->].
  - destruct Hseg as (-> & n & Hl & Hseg). apply Forall_cons in Hno as [Hd Hno].
    simpl. access. simpl in Hd. rewrite Hd. eauto.
Qed.
End search.

(** The two halves of unlinking a cell: what precedes it is made to point to
    [n], what follows it to point back to [b]. *)
Definition same_but (ls : list loc) (h h1 : heap) : Prop :=
  (∀ l, l ∉ ls -> elems h1 !! l = elems h !! l) ∧
  brk h1 = brk h ∧ supply h1 = supply h ∧ deallocs h1 = deallocs h.

Lemma link_forward h lp hd tl pre q b n :
  lists h !! lp = Some (LState hd tl) ->
  dlseg (elems h) hd None pre q b -> NoDup (locs pre) ->
  ∃ h1 hd1,
    (match b with
     | None => write_list (Some lp) (with_head n)
     | Some _ => write_elem b (with_next n)
     end) h = Done (tt, h1) ∧
    lists h1 = <[lp := LState hd1 tl]> (lists h) ∧
    dlseg (elems h1) hd1 None pre n b ∧ same_but (locs pre) h h1.
Proof.
  intros Hlp Hseg Hnd. destruct pre as [|[l [d f]] pre _] using rev_ind.
  - destruct Hseg as [-> ->]. eexists _, n.
    rewrite (write_list_done _ _ _ _ Hlp). by repeat split.
  - apply dlseg_snoc_next with (q' := n) in Hseg as (-> & b' & Hl & Hseg); [|done].
    eexists _, hd. rewrite (write_elem_done _ _ _ _ Hl). split; [done|].
    rewrite (insert_id (lists h)) by done. split; [done|]. split; [done|].
    split; [|done]. intros l' Hl'. simpl. apply lookup_insert_ne.
    rewrite fmap_app in Hl'. set_solver.
Qed.

Lemma link_backward h lp hd tl post p n b :
  lists h !! lp = Some (LState hd tl) ->
  dlseg (elems h) n p post None tl -> NoDup (locs post) ->
  ∃ h1 tl1,
    (match n with
     | None => write_list (Some lp) (with_tail b)
     | Some _ => write_elem n (with_prev b)
     end) h = Done (tt, h1) ∧
    lists h1 = <[lp := LState hd tl1]> (lists h) ∧
    dlseg (elems h1) n b post None tl1 ∧ same_but (locs post) h h1.
Proof.
  intros Hlp Hseg Hnd. destruct post as [|[l [d f]] post].
  - destruct Hseg as [-> ->]. eexists _, b.
    rewrite (write_list_done _ _ _ _ Hlp). by repeat split.
  - destruct Hseg as (-> & n' & Hl & Hseg). eexists _, tl.
    rewrite (write_elem_done _ _ _ _ Hl). split; [done|].
    rewrite (insert_id (lists h)) by done. split; [done|].
    split; [by eapply dlseg_with_prev|].
    split; [|done]. intros l' Hl'. simpl. apply lookup_insert_ne. set_solver.
Qed.

(** Unlinking the cell [l] in the middle of the list. *)
Lemma search_unlink_correct h lp pre post l d f copied :
  list_repr h lp (pre ++ (l, (d, f)) :: post) ->
  ∃ h', search_unlink (Some lp) (Some l) copied h = Done (tt, h') ∧
    list_repr h' lp (pre ++ post) ∧ hstep lp (pre ++ (l, (d, f)) :: post) (pre ++ post) h h' ∧
    supply h' = supply h ∧
    deallocs h' = (if copied then [] else dealloc_calls [(d, f)]) ++ deallocs h.
Proof.
  intros ([hd tl] & Hlp & Hseg & Hnd & Hfr). simpl in Hseg.
  rewrite fmap_app in Hnd, Hfr. apply NoDup_app in Hnd as (Hndp & Hdisj & [Hnl Hndq]%NoDup_cons).
  apply Forall_app in Hfr as [Hfrp [Hll Hfrq]%Forall_cons]. simpl in Hll.
  apply dlseg_app in Hseg as (p' & b & Hpre & -> & n & Hl & Hpost).
  assert (Hnlp : l ∉ locs pre) by (intros Hin; apply (Hdisj _ Hin); set_solver).
  unfold search_unlink. access.
  destruct (link_forward h lp hd tl pre (Some l) b n) as (h1 & hd1 & E1 & L1 & D1 & S1 & B1 & U1 & C1);
    [done..|].
  rewrite (bind_done _ _ _ _ _ E1).
  assert (Hl1 : elems h1 !! l = Some (Elem n b d f)) by (by rewrite S1).
  access.
  destruct (link_backward h1 lp hd1 tl post (Some l) n b)
    as (h2 & tl1 & E2 & L2 & D2 & S2 & B2 & U2 & C2).
  { rewrite L1. apply lookup_insert_eq. }
  { eapply dlseg_frame; [|exact Hpost]. intros l' Hl'. apply S1.
    intros Hin. apply (Hdisj _ Hin). set_solver. }
  { done. }
  rewrite (bind_done _ _ _ _ _ E2).
  assert (Hl2 : elems h2 !! l = Some (Elem n b d f)) by (by rewrite S2).
  access. access.
  set (h3 := set_elems _ h2).
  set (h4 := Heap (elems h3) (lists h3) (brk h3) (supply h3)
               ((if copied then [] else dealloc_calls [(d, f)]) ++ deallocs h3)).
  assert (Hcall : (if negb copied
     then match f with Some _ => call_dealloc f d | None => ret tt end else ret tt) h3 = Done (tt, h4))
    by (destruct copied, f; reflexivity).
  rewrite (bind_done _ _ _ _ _ Hcall).
  erewrite free_elem_done by (simpl; by rewrite lookup_insert_eq).
  eexists. split; [reflexivity|]. split; [|split; [|split]].
  - exists (LState hd1 tl1). simpl. rewrite L2, L1, insert_insert_eq, lookup_insert_eq.
    split; [done|]. rewrite delete_insert_eq. split.
    + apply dlseg_app. exists n, b. split.
      * apply dlseg_delete; [done|]. eapply dlseg_frame; [|exact D1].
        intros l' Hl'. apply S2. intros Hin. apply (Hdisj _ Hl'). set_solver.
      * by apply dlseg_delete.
    + rewrite fmap_app, B2, B1. split; [apply NoDup_app; set_solver|by apply Forall_app].
  - split; simpl.
    + intros lp' ?. rewrite L2, L1. by simplify_map_eq.
    + intros l' Hn _. rewrite fmap_app in Hn. simpl in Hn.
      rewrite not_elem_of_app, not_elem_of_cons in Hn. destruct Hn as (? & ? & ?).
      rewrite lookup_delete_ne, lookup_insert_ne by done. by rewrite S2, S1.
    + intros l' Hin Hnin. rewrite fmap_app in *. simpl in *.
      assert (l' = l) as -> by set_solver. apply lookup_delete_eq.
    + intros l' Hin. left. rewrite fmap_app in *. simpl in *. set_solver.
    + rewrite B2, B1. lia.
  - simpl. by rewrite U2, U1.
  - simpl. by rewrite C2, C1.
Qed.

Lemma list_repr_fuel_head h lp xs : list_repr h lp xs ->
  ∃ hd tl, lists h !! lp = Some (LState hd tl) ∧
    (tl = None <-> xs = []) ∧ dlseg (elems h) hd None xs None tl.
Proof.
  intros ([hd tl] & Hlp & Hseg & _). eexists _, _. split; [done|]. split; [|done].
  simpl in *. split; [|by intros ->; destruct Hseg].
  intros ->. by apply dlseg_tail_None in Hseg as [-> _].
Qed.

Lemma hstep_refl lp xs h : hstep lp xs xs h h.
Proof. split; [done..|naive_solver|lia]. Qed.

(** * The abstract queue *)

Module Spec.

(** The payloads of the list, head first: what was added last comes first. *)
Definition item : Type := ptr * ptr.

(** A call of one of the functions on a valid list handle, and its outcome. *)
Inductive op : Type :=
  | Add (data_obj dealloc : ptr)
  | Remove (data_obj : option ptr)
  | IsEmpty
  | Flush
  | Search (data_p : option ptr) (equal : option (ptr -> ptr -> bool))
           (data_0 : ptr) (rm_if_found : bool).

Inductive res : Type :=
  | Err (e : linked_list_err_type) (out : option ptr)
  | Int (z : Z).

Definition found (data_p : option ptr) (v : ptr) : option ptr := (fun _ => v) <$> data_p.

Definition search (data_p : option ptr) (equal : ptr -> ptr -> bool) (data_0 : ptr)
    (rm : bool) (q : list item) : option ptr * list item * list (loc * ptr) :=
  match list_find (fun x : item => equal data_0 x.1 = true) q with
  | None => (found data_p None, q, [])
  | Some (i, (d, f)) =>
    (found data_p d,
     if rm then delete i q else q,
     if rm then match data_p with Some _ => [] | None => dealloc_calls [(d, f)] end else [])
  end.

(** One call: what it returns, the queue after it, the dealloc calls it makes
    and what is left of the allocator's answers. *)
Definition step (o : op) (sup : list bool) (q : list item)
  : res * list item * list (loc * ptr) * list bool :=
  match o with
  | Add None _ => (Err eLINKED_LIST_INVALID_PARAMETER None, q, [], sup)
  | Add (Some d) f =>
    if decide (head sup = Some false)
    then (Err eLINKED_LIST_FAILURE_GENERAL None, q, [], tail sup)
    else (Err eLINKED_LIST_SUCCESS None, (Some d, f) :: q, [], tail sup)
  | Remove None => (Err eLINKED_LIST_INVALID_PARAMETER None, q, [], sup)
  | Remove (Some old) =>
    match last q with
    | None => (Err eLINKED_LIST_UNAVAILABLE_RESOURCE (Some old), q, [], sup)
    | Some (d, _) => (Err eLINKED_LIST_SUCCESS (Some d), removelast q, [], sup)
    end
  | IsEmpty => (Int (if decide (q = []) then 1 else 0), q, [], sup)
  | Flush => (Err eLINKED_LIST_SUCCESS None, [], dealloc_calls q, sup)
  | Search data_p None _ _ => (Err eLINKED_LIST_INVALID_HANDLE data_p, q, [], sup)
  | Search data_p (Some equal) data_0 rm =>
    if decide (q = []) then (Err eLINKED_LIST_UNAVAILABLE_RESOURCE data_p, q, [], sup)
    else let '(out, q', calls) := search data_p equal data_0 rm q in
         (Err eLINKED_LIST_SUCCESS out, q', calls, sup)
  end.

Fixpoint run (os : list op) (sup : list bool) (q : list item)
  : list res * list item * list (loc * ptr) * list bool :=
  match os with
  | [] => ([], q, [], sup)
  | o :: os =>
    let '(r, q1, c1, sup1) := step o sup q in
    let '(rs, q2, c2, sup2) := run os sup1 q1 in
    (r :: rs, q2, c1 ++ c2, sup2)
  end.

End Spec.

(** The same calls on the C list. *)
Definition run_op (fuel : nat) (lp : loc) (o : Spec.op) : M heap Spec.res :=
  match o with
  | Spec.Add d f => let! e := linked_list_add (Some lp) d f in ret (Spec.Err e None)
  | Spec.Remove out => let! (e, out) := linked_list_remove (Some lp) out in ret (Spec.Err e out)
  | Spec.IsEmpty => let! z := linked_list_empty (Some lp) in ret (Spec.Int z)
  | Spec.Flush => let! e := linked_list_flush fuel (Some lp) in ret (Spec.Err e None)
  | Spec.Search data_p equal data_0 rm =>
    let! (e, out) := linked_list_search fuel (Some lp) data_p equal data_0 rm in
    ret (Spec.Err e out)
  end.

Fixpoint run_ops (fuel : nat) (lp : loc) (os : list Spec.op) : M heap (list Spec.res) :=
  match os with
  | [] => ret []
  | o :: os =>
    let! r := run_op fuel lp o in
    let! rs := run_ops fuel lp os in
    ret (r :: rs)
  end.

Lemma Forall_no_match (equal : ptr -> ptr -> bool) data_0 (q : list Spec.item) :
  list_find (fun x : Spec.item => equal data_0 x.1 = true) q = None ->
  Forall (fun x : Spec.item => equal data_0 x.1 = false) q.
Proof.
  intros H%list_find_None. eapply Forall_impl; [done|]. intros x Hx. simpl in Hx.
  by destruct (equal data_0 x.1).
Qed.

(** The loop stops at the first matching cell. *)
Lemma search_loop_at fuel lp h hd tl pre l d f post dp equal d0 rm :
  dlseg (elems h) hd None (pre ++ (l, (d, f)) :: post) None tl ->
  Forall (fun x : Spec.item => equal d0 x.1 = false) pre.*2 ->
  equal d0 d = true -> length pre < fuel ->
  search_loop fuel (Some lp) hd dp equal d0 rm h =
  bind (if rm then search_unlink (Some lp) (Some l) (match dp with Some _ => true | None => false end)
        else ret tt) (fun _ => ret (Spec.found dp d)) h.
Proof.
  intros Hseg Hpre Heq Hfuel.
  apply dlseg_app in Hseg as (p' & t' & Hseg & -> & n & Hl & _).
  replace fuel with (length pre + S (fuel - length pre - 1)) by lia.
  erewrite search_loop_skip by done. simpl search_loop. access. rewrite Heq.
  apply bind_ext. intros [] h1. by destruct (fuel - length pre - 1), dp.
Qed.

(** The index [list_find] gives splits the cells at the first match. *)
Lemma list_find_split (equal : ptr -> ptr -> bool) d0 (xs : list cell) i d f :
  list_find (fun x : Spec.item => equal d0 x.1 = true) xs.*2 = Some (i, (d, f)) ->
  ∃ pre l post, xs = pre ++ (l, (d, f)) :: post ∧ length pre = i ∧
    Forall (fun x : Spec.item => equal d0 x.1 = false) pre.*2 ∧ equal d0 d = true.
Proof.
  intros (Hi & Heq & Hbefore)%list_find_Some. simpl in Heq.
  apply list_lookup_fmap_Some in Hi as ([l p] & Hp & Hi). simpl in Hp. subst p.
  exists (take i xs), l, (drop (S i) xs). split; [by rewrite take_drop_middle|].
  split; [apply length_take_le; apply lookup_lt_Some in Hi; lia|]. split; [|done].
  rewrite fmap_take. apply Forall_lookup. intros j x Hx.
  apply lookup_take_Some in Hx as [Hx Hj].
  specialize (Hbefore _ _ Hx Hj). simpl in Hbefore. by destruct (equal d0 x.1).
Qed.

Lemma linked_list_search_correct fuel h lp xs dp equal d0 rm :
  list_repr h lp xs -> xs ≠ [] -> length xs <= fuel ->
  ∃ h' (xs' : list cell) out calls,
    linked_list_search fuel (Some lp) dp (Some equal) d0 rm h =
      Done ((eLINKED_LIST_SUCCESS, out), h') ∧
    Spec.search dp equal d0 rm xs.*2 = (out, xs'.*2, calls) ∧
    list_repr h' lp xs' ∧ hstep lp xs xs' h h' ∧ supply h' = supply h ∧
    deallocs h' = rev calls ++ deallocs h.
Proof.
  intros Hrepr Hne Hfuel.
  destruct (list_repr_fuel_head _ _ _ Hrepr) as (hd & tl & Hlp & Htl & Hseg).
  unfold linked_list_search. access. destruct tl as [t|]; [|by destruct Hne; apply Htl]. clear Htl.
  set (dp0 := match dp with Some _ => Some None | None => None end).
  unfold Spec.search.
  destruct (list_find (fun x : Spec.item => equal d0 x.1 = true) xs.*2) as [[i [d f]]|] eqn:Hfind.
  - apply list_find_split in Hfind as (pre & l & post & -> & <- & Hpre & Heq).
    rewrite length_app in Hfuel. simpl in Hfuel.
    erewrite bind_eq by (apply search_loop_at with (1 := Hseg); done || lia).
    rewrite bind_assoc.
    assert (Hout : Spec.found dp0 d = Spec.found dp d) by (by destruct dp).
    destruct rm.
    + destruct (search_unlink_correct h lp pre post l d f
        (match dp0 with Some _ => true | None => false end)) as (h' & E & R & St & Su & De); [done|].
      rewrite (bind_done _ _ _ _ _ E), Hout.
      eexists h', (pre ++ post), _, _. split; [done|]. split; [|split; [done|split; [done|split]]].
      * rewrite !fmap_app. simpl. by rewrite <- (length_fmap snd pre), delete_middle.
      * done.
      * rewrite De. by destruct dp, f.
    + rewrite bind_ret, Hout. eexists h, _, _, _. split; [done|].
      split; [done|]. by auto using hstep_refl.
  - apply Forall_no_match in Hfind. replace fuel with (length xs + (fuel - length xs)) by lia.
    erewrite bind_eq by (by eapply search_loop_skip).
    exists h, xs, (Spec.found dp None), [].
    split; [by destruct (fuel - length xs), dp|]. by auto using hstep_refl.
Qed.

(** * Refinement *)

(** The call [o] on the list [xs] at [lp] does what the queue does, on the
    list's own memory only. *)
Definition op_refines (fuel : nat) (h : heap) (lp : loc) (xs : list cell) (o : Spec.op) : Prop :=
  ∃ h' (xs' : list cell) r calls sup',
    run_op fuel lp o h = Done (r, h') ∧
    Spec.step o (supply h) xs.*2 = (r, xs'.*2, calls, sup') ∧
    list_repr h' lp xs' ∧ hstep lp xs xs' h h' ∧ length xs' <= S (length xs) ∧
    supply h' = sup' ∧ deallocs h' = rev calls ++ deallocs h.

Lemma op_refines_same fuel h lp xs o r :
  run_op fuel lp o h = Done (r, h) ->
  Spec.step o (supply h) xs.*2 = (r, xs.*2, [], supply h) ->
  list_repr h lp xs -> op_refines fuel h lp xs o.
Proof. intros. eexists h, xs, r, [], _. split_and!; [done..|apply hstep_refl|lia|done|done]. Qed.

Lemma op_refines_add fuel h lp xs d f : list_repr h lp xs -> op_refines fuel h lp xs (Spec.Add d f).
Proof.
  intros R. destruct d as [d|]; [|by eapply op_refines_same].
  unfold op_refines, run_op, Spec.step. case_decide as Hs.
  - eexists _, xs, _, [], _. rewrite (bind_done _ _ _ _ _ (linked_list_add_nomem _ _ _ _ Hs)).
    split_and!; [done..| |lia|done|done]. split; simpl; [done|done|done|by left|lia].
  - destruct (linked_list_add_correct h lp xs d f) as (h' & E & R' & St & Su & De); [done..|].
    eexists h', ((brk h, (Some d, f)) :: xs), _, [], _. rewrite (bind_done _ _ _ _ _ E).
    split_and!; done.
Qed.

Lemma payload_snoc (xs : list cell) l p : (xs ++ [(l, p)]).*2 = xs.*2 ++ [p].
Proof. by rewrite fmap_app. Qed.

Lemma op_refines_remove fuel h lp xs out :
  list_repr h lp xs -> op_refines fuel h lp xs (Spec.Remove out).
Proof.
  intros R. destruct out as [old|]; [|by eapply op_refines_same].
  destruct xs as [|[l [d f]] xs _] using rev_ind.
  - eapply op_refines_same; [|done..]. unfold run_op.
    by rewrite (bind_done _ _ _ _ _ (linked_list_remove_empty _ _ _ R)).
  - destruct (linked_list_remove_correct h lp xs l d f old) as (h' & E & R' & St & Su & De); [done..|].
    eexists h', xs, _, [], _. unfold run_op, Spec.step. rewrite (bind_done _ _ _ _ _ E), payload_snoc, last_snoc.
    rewrite removelast_last, length_app. split_and!; [done..|lia|done|done].
Qed.

Lemma search_length dp equal d0 rm (q : list Spec.item) :
  length (Spec.search dp equal d0 rm q).1.2 <= length q.
Proof.
  unfold Spec.search.
  destruct (list_find (fun x : Spec.item => equal d0 x.1 = true) q) as [[i [d f]]|] eqn:Hf; [|done].
  simpl.
  destruct rm; [|done]. apply list_find_Some in Hf as [Hf _].
  rewrite length_delete by done. lia.
Qed.

Lemma op_refines_search fuel h lp xs dp equal d0 rm :
  list_repr h lp xs -> length xs <= fuel ->
  op_refines fuel h lp xs (Spec.Search dp equal d0 rm).
Proof.
  intros R Hfuel. destruct equal as [equal|]; [|by eapply op_refines_same].
  destruct (decide (xs = [])) as [->|Hne].
  - destruct (list_repr_fuel_head _ _ _ R) as (hd & tl & Hlp & Htl & _).
    rewrite (proj2 Htl eq_refl) in Hlp. eapply op_refines_same; [|done..]. unfold run_op, linked_list_search. rewrite bind_assoc. by access.
  - destruct (linked_list_search_correct fuel h lp xs dp equal d0 rm)
      as (h' & xs' & out & calls & E & Sp & R' & St & Su & De); [done..|].
    eexists h', xs', _, _, _. unfold run_op, Spec.step. rewrite (bind_done _ _ _ _ _ E), Sp.
    rewrite decide_False by (by destruct xs).
    split_and!; [done..| |done|done].
    pose proof (search_length dp equal d0 rm xs.*2) as Hlen. rewrite Sp in Hlen.
    simpl in Hlen. rewrite !length_fmap in Hlen. lia.
Qed.

Lemma run_op_refines fuel h lp xs o :
  list_repr h lp xs -> length xs <= fuel -> op_refines fuel h lp xs o.
Proof.
  intros R Hfuel. destruct o as [d f|out| | |dp equal d0 rm].
  - by apply op_refines_add.
  - by apply op_refines_remove.
  - apply (op_refines_same _ _ _ _ _ (Spec.Int (if decide (xs = []) then 1 else 0)));
      unfold run_op, Spec.step; [|by destruct xs|done].
    by rewrite (bind_done _ _ _ _ _ (linked_list_empty_correct _ _ _ R)).
  - destruct (linked_list_flush_correct fuel h lp xs) as (h' & E & R' & St & Su & De); [done..|].
    eexists h', [], _, _, _. unfold run_op, Spec.step. rewrite (bind_done _ _ _ _ _ E). split_and!; [done..|simpl; lia|done|done].
  - by apply op_refines_search.
Qed.

(** Addresses not yet given out hold no cell. *)
Definition heap_wf (h : heap) : Prop :=
  ∀ l, (brk h <= l)%positive -> elems h !! l = None.

Lemma list_repr_old h lp xs l : list_repr h lp xs -> l ∈ locs xs -> (l < brk h)%positive.
Proof. intros (_ & _ & _ & _ & Hfr) Hl. by apply (proj1 (Forall_forall _ _) Hfr). Qed.

Lemma hstep_wf h h' lp xs xs' :
  list_repr h lp xs -> list_repr h' lp xs' -> hstep lp xs xs' h h' -> heap_wf h -> heap_wf h'.
Proof.
  intros R R' [_ He _ _ Hb] Hwf l Hl.
  rewrite He; [apply Hwf; lia|intros H..].
  - apply (list_repr_old _ _ _ _ R) in H. lia.
  - apply (list_repr_old _ _ _ _ R') in H. lia.
Qed.

Lemma hstep_trans h h1 h2 lp xs xs1 xs2 :
  list_repr h lp xs -> heap_wf h ->
  hstep lp xs xs1 h h1 -> hstep lp xs1 xs2 h1 h2 -> hstep lp xs xs2 h h2.
Proof.
  intros R Hwf [L1 E1 F1 N1 B1] [L2 E2 F2 N2 B2]. split.
  - intros lp' ?. by rewrite L2, L1.
  - intros l Hn Hn2. destruct (decide (l ∈ locs xs1)) as [Hin|].
    + rewrite F2 by done. destruct (N1 _ Hin); [done|]. by rewrite Hwf.
    + by rewrite E2, E1.
  - intros l Hin Hn. destruct (decide (l ∈ locs xs1)); [by apply F2|].
    rewrite E2 by done. by apply F1.
  - intros l Hin. apply N2 in Hin as [Hin|]; [by apply N1|right; lia].
  - lia.
Qed.

(** A sequence of calls on one list. *)
Lemma run_ops_refines_queue fuel os h lp xs :
  list_repr h lp xs -> heap_wf h -> length xs + length os <= fuel ->
  ∃ h' (xs' : list cell) rs calls sup',
    run_ops fuel lp os h = Done (rs, h') ∧
    Spec.run os (supply h) xs.*2 = (rs, xs'.*2, calls, sup') ∧
    list_repr h' lp xs' ∧ heap_wf h' ∧ hstep lp xs xs' h h' ∧
    length xs' <= length xs + length os ∧
    supply h' = sup' ∧ deallocs h' = rev calls ++ deallocs h.
Proof.
  revert h xs; induction os as [|o os IH]; intros h xs R Hwf Hfuel.
  { eexists h, xs, [], [], _. split_and!; [done..|apply hstep_refl|lia|done|done]. }
  simpl in Hfuel.
  destruct (run_op_refines fuel h lp xs o) as (h1 & xs1 & r & c1 & s1 & E1 & S1 & R1 & St1 & Hl & Hs & Hd);
    [done|lia|].
  pose proof (hstep_wf _ _ _ _ _ R R1 St1 Hwf) as Hwf1.
  destruct (IH h1 xs1) as (h2 & xs2 & rs & c2 & s2 & E2 & S2 & R2 & Hwf2 & St2 & Hl2 & Hs2 & Hd2);
    [done|done|lia|].
  eexists h2, xs2, (r :: rs), (c1 ++ c2), s2. simpl.
  rewrite (bind_done _ _ _ _ _ E1), (bind_done _ _ _ _ _ E2), S1. subst s1. rewrite S2.
  split_and!; [done..|by apply (hstep_trans h h1 h2 lp xs xs1 xs2)|lia|done|].
  by rewrite Hd2, Hd, rev_app_distr, app_assoc.
Qed.

(** ** The life of a list *)

Lemma linked_list_init_correct h old :
  head (supply h) ≠ Some false ->
  ∃ h', linked_list_init (Some old) h = Done ((eLINKED_LIST_SUCCESS, Some (Some (brk h))), h') ∧
    list_repr h' (brk h) [] ∧ elems h' = elems h ∧
    lists h' = <[brk h := LState None None]> (lists h) ∧ brk h' = Pos.succ (brk h) ∧
    supply h' = tail (supply h) ∧ deallocs h' = deallocs h.
Proof.
  intros Hok.
  set (h1 := Heap (elems h) (<[brk h := LState None None]> (lists h)) (Pos.succ (brk h))
                  (tail (supply h)) (deallocs h)).
  assert (Hc : calloc_list h = Done (Some (brk h), h1)).
  { unfold calloc_list, bind, alloc_ok. simpl.
    destruct (supply h) as [|[] ?] eqn:Hs; simpl in Hok |- *; [..|congruence]; unfold h1; by rewrite ?Hs. }
  unfold linked_list_init. rewrite (bind_done _ _ _ _ _ Hc).
  access. access. unfold with_head, with_tail, set_lists. simpl. rewrite !insert_insert_eq.
  eexists. split; [done|]. split; [|done].
  exists (LState None None). simpl. rewrite lookup_insert_eq.
  by split_and!; repeat constructor.
Qed.

(** A client that creates a list, makes the calls [os] on it and destroys it. *)
Definition lifetime (fuel : nat) (os : list Spec.op)
  : M heap (list Spec.res * (linked_list_err_type * option ptr)) :=
  let! (e, list_data) := linked_list_init (Some None) in
  match list_data with
  | Some (Some lp) =>
    let! rs := run_ops fuel lp os in
    let! d := linked_list_destroy fuel list_data in
    ret (rs, d)
  | _ => ret ([], (e, list_data))
  end.

Definition lists_wf (h : heap) : Prop := ∀ l, (brk h <= l)%positive -> lists h !! l = None.

(** A list that is created, used by any sequence of calls and destroyed
    answers every call as a FIFO queue with search would, never runs into
    undefined behaviour, calls the dealloc function of exactly the elements the
    queue drops (in the queue's order, the rest at destruction), and leaves the
    heap as it found it: no cell and no header leaks, no other list changes. *)
Theorem linked_list_lifetime fuel os h :
  heap_wf h -> lists_wf h -> head (supply h) ≠ Some false -> length os <= fuel ->
  ∃ h' rs q calls sup',
    lifetime fuel os h = Done ((rs, (eLINKED_LIST_SUCCESS, Some None)), h') ∧
    Spec.run os (tail (supply h)) [] = (rs, q, calls, sup') ∧
    elems h' = elems h ∧ lists h' = lists h ∧ supply h' = sup' ∧
    deallocs h' = rev (calls ++ dealloc_calls q) ++ deallocs h.
Proof.
  intros Hwf Hlwf Hok Hfuel.
  destruct (linked_list_init_correct h None) as (h1 & E1 & R1 & Ee & El & Eb & Es & Ed); [done|].
  assert (Hwf1 : heap_wf h1) by (intros l ?; rewrite Ee; apply Hwf; lia).
  destruct (run_ops_refines_queue fuel os h1 (brk h) [])
    as (h2 & xs & rs & c & s & E2 & Sp & R2 & Hwf2 & St2 & Hlen & Hs & Hd); [done..|].
  destruct (linked_list_flush_correct fuel h2 (brk h) xs) as (h3 & E3 & R3 & St3 & Su3 & De3);
    [done|simpl in *; lia|].
  pose proof (hstep_trans _ _ _ _ _ _ _ R1 Hwf1 St2 St3) as St.
  destruct (list_repr_fuel_head _ _ _ R3) as (hd & tl & Hl3 & _).
  assert (Hfree : free_list (Some (brk h)) h3 = Done (tt, set_lists (delete (brk h) (lists h3)) h3))
    by (simpl; by rewrite Hl3).
  unfold lifetime. rewrite (bind_done _ _ _ _ _ E1), (bind_done _ _ _ _ _ E2).
  unfold linked_list_destroy. rewrite bind_assoc, (bind_done _ _ _ _ _ E3), bind_assoc,
    (bind_done _ _ _ _ _ Hfree).
  rewrite <- Es. eexists _, rs, xs.*2, c, s. split_and!; [done|done| | |simpl; congruence|].
  - simpl. rewrite <- Ee. apply map_eq. intros l. apply (hs_elems _ _ _ _ _ St); set_solver.
  - simpl. apply map_eq. intros l. destruct (decide (l = brk h)) as [->|].
    + rewrite lookup_delete_eq. symmetry. apply Hlwf. lia.
    + rewrite lookup_delete_ne, (hs_lists _ _ _ _ _ St), El by done. by apply lookup_insert_ne.
  - simpl. by rewrite De3, Hd, Ed, rev_app_distr, app_assoc.
Qed.

(** A heap with nothing in it. *)
Definition empty_heap (sup : list bool) : heap := Heap ∅ ∅ 1 sup [].

Lemma linked_list_lifetime_witness :
  ∃ h', lifetime 6
    [Spec.Add (Some 10%positive) (Some 99%positive); Spec.Add (Some 11%positive) None;
     Spec.Add (Some 12%positive) (Some 99%positive);
     Spec.Search None (Some (fun a b => bool_decide (a = b))) (Some 11%positive) true;
     Spec.Remove (Some None); Spec.IsEmpty] (empty_heap []) =
    Done (([Spec.Err eLINKED_LIST_SUCCESS None; Spec.Err eLINKED_LIST_SUCCESS None;
            Spec.Err eLINKED_LIST_SUCCESS None; Spec.Err eLINKED_LIST_SUCCESS None;
            Spec.Err eLINKED_LIST_SUCCESS (Some (Some 10%positive)); Spec.Int 0],
           (eLINKED_LIST_SUCCESS, Some None)), h') ∧
    elems h' = ∅ ∧ lists h' = ∅ ∧ deallocs h' = [(99%positive, Some 12%positive)].
Proof.
  edestruct (linked_list_lifetime 6 [Spec.Add (Some 10%positive) (Some 99%positive);
     Spec.Add (Some 11%positive) None; Spec.Add (Some 12%positive) (Some 99%positive);
     Spec.Search None (Some (fun a b => bool_decide (a = b))) (Some 11%positive) true;
     Spec.Remove (Some None); Spec.IsEmpty] (empty_heap []))
    as (h' & rs & q & calls & sup' & E & Sp & Ee & El & _ & Ed).
  - intros l _. reflexivity.
  - intros l _. reflexivity.
  - discriminate.
  - simpl. lia.
  - vm_compute in Sp. injection Sp as <- <- <- <-. exists h'. split; [exact E|].
    split; [exact Ee|]. split; [exact El|]. exact Ed.
Defined.
