(* ===== verification/ListIface.v ===== *)
(** What [gps/utils/linked_list.h] promises to its clients: a class of list
    operations over some heap with the laws that describe them through an
    abstract map from list handles to queues, and the instance that
    linked_list.c provides. *)

From S2P Require Import Prelude LinkedList.

(** * The interface *)

Class ListOps (H : Type) := {
  ll_init : option ptr -> M H (linked_list_err_type * option ptr);
  ll_destroy : option ptr -> M H (linked_list_err_type * option ptr);
  ll_add : ptr -> ptr -> ptr -> M H linked_list_err_type;
  ll_remove : ptr -> option ptr -> M H (linked_list_err_type * option ptr);
  ll_empty : ptr -> M H Z;
  ll_flush : ptr -> M H linked_list_err_type;
  (** The lists alive in the heap, each with its contents, head first. *)
  ll_repr : H -> gmap loc (list Spec.item) -> Prop;
  (** The calls made to dealloc functions so far, latest first. *)
  ll_deallocs : H -> list (loc * ptr);
}.

Class ListLaws (H : Type) `{ListOps H} : Prop := {
  ll_init_law : ∀ h m old, ll_repr h m ->
    (∃ lp h', ll_init (Some old) h = Done ((eLINKED_LIST_SUCCESS, Some (Some lp)), h') ∧
       m !! lp = None ∧ ll_repr h' (<[lp := []]> m) ∧ ll_deallocs h' = ll_deallocs h) ∨
    (∃ h', ll_init (Some old) h = Done ((eLINKED_LIST_FAILURE_GENERAL, Some old), h') ∧
       ll_repr h' m ∧ ll_deallocs h' = ll_deallocs h);
  ll_destroy_law : ∀ h m lp q, ll_repr h m -> m !! lp = Some q ->
    ∃ h', ll_destroy (Some (Some lp)) h = Done ((eLINKED_LIST_SUCCESS, Some None), h') ∧
      ll_repr h' (delete lp m) ∧ ll_deallocs h' = rev (dealloc_calls q) ++ ll_deallocs h;
  ll_add_law : ∀ h m lp q d f, ll_repr h m -> m !! lp = Some q ->
    (∃ h', ll_add (Some lp) (Some d) f h = Done (eLINKED_LIST_SUCCESS, h') ∧
       ll_repr h' (<[lp := (Some d, f) :: q]> m) ∧ ll_deallocs h' = ll_deallocs h) ∨
    (∃ h', ll_add (Some lp) (Some d) f h = Done (eLINKED_LIST_FAILURE_GENERAL, h') ∧
       ll_repr h' m ∧ ll_deallocs h' = ll_deallocs h);
  ll_remove_law : ∀ h m lp q d f old, ll_repr h m -> m !! lp = Some (q ++ [(d, f)]) ->
    ∃ h', ll_remove (Some lp) (Some old) h = Done ((eLINKED_LIST_SUCCESS, Some d), h') ∧
      ll_repr h' (<[lp := q]> m) ∧ ll_deallocs h' = ll_deallocs h;
  ll_remove_nil_law : ∀ h m lp old, ll_repr h m -> m !! lp = Some [] ->
    ll_remove (Some lp) (Some old) h = Done ((eLINKED_LIST_UNAVAILABLE_RESOURCE, Some old), h);
  ll_empty_law : ∀ h m lp q, ll_repr h m -> m !! lp = Some q ->
    ll_empty (Some lp) h = Done ((if decide (q = []) then 1 else 0)%Z, h);
  ll_flush_law : ∀ h m lp q, ll_repr h m -> m !! lp = Some q ->
    ∃ h', ll_flush (Some lp) h = Done (eLINKED_LIST_SUCCESS, h') ∧
      ll_repr h' (<[lp := []]> m) ∧ ll_deallocs h' = rev (dealloc_calls q) ++ ll_deallocs h;
}.

(** * The instance *)

(** All the lists of a heap at once: each header represents its cells, cells
    are not shared, and addresses not given out hold nothing. *)
Record heap_repr (h : heap) (m : gmap loc (list cell)) : Prop := {
  hr_lists : ∀ lp, is_Some (lists h !! lp) -> is_Some (m !! lp);
  hr_repr : ∀ lp xs, m !! lp = Some xs -> list_repr h lp xs;
  hr_disj : ∀ lp1 lp2 xs1 xs2 l, m !! lp1 = Some xs1 -> m !! lp2 = Some xs2 ->
              l ∈ xs1.*1 -> l ∈ xs2.*1 -> lp1 = lp2;
  hr_wf : heap_wf h;
  hr_lwf : lists_wf h
}.

Lemma heap_repr_size h m lp xs : heap_repr h m -> m !! lp = Some xs -> length xs <= size (elems h).
Proof.
  intros Hr Hm. destruct (hr_repr _ _ Hr _ _ Hm) as ([hd tl] & _ & Hseg & Hnd & _).
  rewrite <- (length_fmap fst xs), <- size_dom, <- (size_list_to_set (C := gset loc)) by done.
  apply subseteq_size. intros l Hl%elem_of_list_to_set. apply elem_of_dom.
  by eapply dlseg_lookup.
Qed.

(** An operation that only touches the list [lp] keeps the representation. *)
Lemma heap_repr_step h h' m lp xs xs' :
  heap_repr h m -> m !! lp = Some xs ->
  list_repr h' lp xs' -> hstep lp xs xs' h h' -> heap_repr h' (<[lp := xs']> m).
Proof.
  intros Hr Hlp R' St. pose proof (hr_repr _ _ Hr _ _ Hlp) as R.
  assert (Hother : ∀ lp2 ys l, lp2 ≠ lp -> m !! lp2 = Some ys -> l ∈ ys.*1 ->
                     (l < brk h)%positive ∧ (l ∉ xs.*1) ∧ (l ∉ xs'.*1)).
  { intros lp2 ys l Hne Hm Hl. pose proof (list_repr_old _ _ _ _ (hr_repr _ _ Hr _ _ Hm) Hl).
    assert (~ l ∈ xs.*1) by (intros Hx; apply Hne; by eapply (hr_disj _ _ Hr)).
    split_and!; [done..|]. intros [Hx|Hx]%(hs_new _ _ _ _ _ St); [done|lia]. }
  split.
  - intros lp2 Hs. destruct (decide (lp2 = lp)) as [->|]; [by rewrite lookup_insert_eq|].
    rewrite lookup_insert_ne by done. apply (hr_lists _ _ Hr).
    by rewrite <- (hs_lists _ _ _ _ _ St).
  - intros lp2 ys Hm. destruct (decide (lp2 = lp)) as [->|Hne]; simplify_map_eq; [done|].
    destruct (hr_repr _ _ Hr _ _ Hm) as (s & Hs & Hseg & Hnd & Hfr).
    exists s. rewrite (hs_lists _ _ _ _ _ St) by done. split_and!; [done| |done|].
    + eapply dlseg_frame; [|done]. intros l Hl.
      destruct (Hother _ _ _ Hne Hm Hl) as (_ & ? & ?). by apply (hs_elems _ _ _ _ _ St).
    + eapply Forall_impl; [done|]. pose proof (hs_brk _ _ _ _ _ St). simpl. lia.
  - intros lp1 lp2 xs1 xs2 l H1 H2 Hl1 Hl2.
    destruct (decide (lp1 = lp)) as [->|Hn1], (decide (lp2 = lp)) as [->|Hn2];
      simplify_map_eq; [done|..].
    + by destruct (Hother _ _ _ Hn2 H2 Hl2) as (_ & _ & ?).
    + by destruct (Hother _ _ _ Hn1 H1 Hl1) as (_ & _ & ?).
    + by eapply (hr_disj _ _ Hr).
  - exact (hstep_wf _ _ _ _ _ R R' St (hr_wf _ _ Hr)).
  - intros l Hl. pose proof (hs_brk _ _ _ _ _ St).
    rewrite (hs_lists _ _ _ _ _ St); [apply (hr_lwf _ _ Hr); lia|].
    intros ->. destruct R as (s & Hs & _). rewrite (hr_lwf _ _ Hr) in Hs by lia. done.
Qed.

(** The functions of linked_list.c; loops get as fuel the number of cells in
    the heap, which no list exceeds. *)
#[export] Instance linked_list_ops : ListOps heap := {
  ll_init := linked_list_init;
  ll_destroy list_data := fun h => linked_list_destroy (size (elems h)) list_data h;
  ll_add := linked_list_add;
  ll_remove := linked_list_remove;
  ll_empty := linked_list_empty;
  ll_flush list_data := fun h => linked_list_flush (size (elems h)) list_data h;
  ll_repr h q := ∃ m, heap_repr h m ∧ q = (fmap snd : list cell -> list Spec.item) <$> m;
  ll_deallocs := deallocs
}.

Abbreviation payload := (fmap snd : list cell -> list Spec.item) (only parsing).

Lemma lookup_payload (m : gmap loc (list cell)) lp q :
  (payload <$> m) !! lp = Some q -> ∃ xs, m !! lp = Some xs ∧ q = xs.*2.
Proof. rewrite lookup_fmap, fmap_Some. done. Qed.

(** The representation looks at the cells, headers and next address only. *)
Lemma heap_repr_same h h' m :
  elems h' = elems h -> lists h' = lists h -> brk h' = brk h -> heap_repr h m -> heap_repr h' m.
Proof.
  intros He Hl Hb [H1 H2 H3 H4 H5]. split.
  - by rewrite Hl.
  - intros lp xs Hm. destruct (H2 _ _ Hm) as (s & Hs & ? & ? & ?). exists s.
    by rewrite Hl, He, Hb.
  - done.
  - intros l. rewrite He, Hb. apply H4.
  - intros l. rewrite Hl, Hb. apply H5.
Qed.

Lemma heap_repr_new h h' m :
  heap_repr h m -> list_repr h' (brk h) [] -> elems h' = elems h ->
  lists h' = <[brk h := LState None None]> (lists h) -> brk h' = Pos.succ (brk h) ->
  m !! brk h = None ∧ heap_repr h' (<[brk h := []]> m).
Proof.
  intros Hr R He Hl Hb.
  assert (Hnone : m !! brk h = None).
  { destruct (m !! brk h) as [xs|] eqn:Hm; [|done].
    destruct (hr_repr _ _ Hr _ _ Hm) as (s & Hs & _). rewrite (hr_lwf _ _ Hr) in Hs by lia. done. }
  split; [done|]. split.
  - intros lp Hs. rewrite Hl in Hs. destruct (decide (lp = brk h)) as [->|]; simplify_map_eq; [done|].
    by apply (hr_lists _ _ Hr).
  - intros lp xs Hm. destruct (decide (lp = brk h)) as [->|]; simplify_map_eq; [done|].
    destruct (hr_repr _ _ Hr _ _ Hm) as (s & Hs & ? & ? & Hfr). exists s.
    rewrite Hl, He, Hb. simplify_map_eq. split_and!; [done..|].
    eapply Forall_impl; [done|]. simpl. lia.
  - intros lp1 lp2 xs1 xs2 l H1 H2 Hl1 Hl2.
    destruct (decide (lp1 = brk h)) as [->|], (decide (lp2 = brk h)) as [->|];
      simplify_map_eq; [done|..]; [set_solver..|]. by eapply (hr_disj _ _ Hr).
  - intros l ?. rewrite He. apply (hr_wf _ _ Hr). lia.
  - intros l ?. rewrite Hl, lookup_insert_ne by lia. apply (hr_lwf _ _ Hr). lia.
Qed.

Lemma heap_repr_empty sup : heap_repr (empty_heap sup) ∅.
Proof. split; try done. intros lp [s Hs]. simpl in Hs. by rewrite lookup_empty in Hs. Qed.

Lemma heap_repr_free h m lp :
  heap_repr h m -> m !! lp = Some [] ->
  heap_repr (set_lists (delete lp (lists h)) h) (delete lp m).
Proof.
  intros Hr Hlp. split; simpl.
  - intros lp' Hs. destruct (decide (lp' = lp)) as [->|]; simplify_map_eq;
      [by destruct Hs|by apply (hr_lists _ _ Hr)].
  - intros lp' xs Hm. destruct (decide (lp' = lp)) as [->|]; simplify_map_eq.
    destruct (hr_repr _ _ Hr _ _ Hm) as (s & Hs & ?). exists s. simpl. by simplify_map_eq.
  - intros lp1 lp2 xs1 xs2 l [_ H1]%lookup_delete_Some [_ H2]%lookup_delete_Some.
    by apply (hr_disj _ _ Hr).
  - exact (hr_wf _ _ Hr).
  - intros l Hl. simpl. apply lookup_delete_None. right. by apply (hr_lwf _ _ Hr).
Qed.

Lemma calloc_list_fail h : head (supply h) = Some false ->
  calloc_list h = Done (None, Heap (elems h) (lists h) (brk h) (tail (supply h)) (deallocs h)).
Proof.
  intros H. unfold calloc_list, bind, alloc_ok. simpl. by destruct (supply h) as [|[] ?].
Qed.

#[export] Instance linked_list_laws : ListLaws heap.
Proof.
  split; cbn [ll_init ll_destroy ll_add ll_remove ll_empty ll_flush ll_repr ll_deallocs linked_list_ops].
  - intros h q old (m & Hr & ->). destruct (decide (head (supply h) = Some false)) as [Hs|Hs].
    + right. unfold linked_list_init. rewrite (bind_done _ _ _ _ _ (calloc_list_fail _ Hs)).
      eexists. split; [done|]. split; [|done]. exists m. split; [|done].
      by eapply heap_repr_same; [..|exact Hr].
    + left. destruct (linked_list_init_correct h old Hs) as (h' & E & R & He & Hl & Hb & _ & Hd).
      destruct (heap_repr_new _ _ _ Hr R He Hl Hb) as [Hn Hr'].
      exists (brk h), h'. split_and!; [done|by rewrite lookup_fmap, Hn| |done].
      eexists. split; [done|]. by rewrite fmap_insert.
  - intros h q lp xq (m & Hr & ->) Hm.
    apply lookup_payload in Hm as (xs & Hlp & ->).
    destruct (linked_list_flush_correct (size (elems h)) h lp xs) as (h1 & E & R & St & _ & Hd);
      [by eapply hr_repr|by eapply heap_repr_size|].
    pose proof (heap_repr_step _ _ _ _ _ _ Hr Hlp R St) as Hr1.
    destruct (list_repr_fuel_head _ _ _ R) as (hd & tl & Hl1 & _).
    unfold linked_list_destroy. rewrite (bind_done _ _ _ _ _ E).
    unfold bind, free_list. rewrite Hl1. simpl.
    eexists. split; [done|]. split; [|done]. eexists. split.
    + eapply heap_repr_free; [done|]. by rewrite lookup_insert_eq.
    + by rewrite delete_insert_eq, fmap_delete.
  - intros h q lp xq d f (m & Hr & ->) Hm.
    apply lookup_payload in Hm as (xs & Hlp & ->).
    destruct (decide (head (supply h) = Some false)) as [Hs|Hs].
    + right. rewrite linked_list_add_nomem by done. eexists. split; [done|]. split; [|done].
      exists m. split; [|done]. by eapply heap_repr_same; [..|exact Hr].
    + left. destruct (linked_list_add_correct h lp xs d f) as (h' & E & R & St & _ & Hd);
        [by eapply hr_repr|done|].
      exists h'. split; [done|]. split; [|done]. eexists.
      split; [exact (heap_repr_step _ _ _ _ _ _ Hr Hlp R St)|]. by rewrite fmap_insert.
  - intros h q lp xq d f old (m & Hr & ->) Hm.
    apply lookup_payload in Hm as (xs & Hlp & Hm).
    destruct xs as [|[l p] xs _] using rev_ind; [by destruct xq|].
    rewrite payload_snoc in Hm. apply app_inj_tail in Hm as [-> <-].
    destruct (linked_list_remove_correct h lp xs l d f old) as (h' & E & R & St & _ & Hd);
      [by eapply hr_repr|].
    exists h'. split; [done|]. split; [|done]. eexists.
    split; [exact (heap_repr_step _ _ _ _ _ _ Hr Hlp R St)|]. by rewrite fmap_insert.
  - intros h q lp old (m & Hr & ->) Hm.
    apply lookup_payload in Hm as (xs & Hlp & Hm).
    destruct xs; [|done]. apply linked_list_remove_empty. by eapply hr_repr.
  - intros h q lp xq (m & Hr & ->) Hm.
    apply lookup_payload in Hm as (xs & Hlp & ->).
    rewrite (linked_list_empty_correct _ _ _ (hr_repr _ _ Hr _ _ Hlp)). by destruct xs.
  - intros h q lp xq (m & Hr & ->) Hm.
    apply lookup_payload in Hm as (xs & Hlp & ->).
    destruct (linked_list_flush_correct (size (elems h)) h lp xs) as (h1 & E & R & St & _ & Hd);
      [by eapply hr_repr|by eapply heap_repr_size|].
    exists h1. split; [done|]. split; [|done]. eexists.
    split; [exact (heap_repr_step _ _ _ _ _ _ Hr Hlp R St)|]. by rewrite fmap_insert.
Qed.
