(* ===== verification/MsgQ.v ===== *)
(** The blocking message queue of [gps/utils/msg_q.c]: its operations over any
    list that satisfies the interface of ListIface, and a step relation for
    threads that share one queue through its mutex and condition variable. *)

From S2P Require Import Prelude LinkedList ListIface.

(** * Data (msg_q.h, msg_q.c) *)

Inductive msq_q_err_type : Type :=
  | eMSG_Q_SUCCESS
  | eMSG_Q_FAILURE_GENERAL
  | eMSG_Q_INVALID_PARAMETER
  | eMSG_Q_INVALID_HANDLE
  | eMSG_Q_UNAVAILABLE_RESOURCE
  | eMSG_Q_INSUFFICIENT_BUFFER.

Definition msq_q_err_val (e : msq_q_err_type) : Z :=
  match e with
  | eMSG_Q_SUCCESS => 0
  | eMSG_Q_FAILURE_GENERAL => -1
  | eMSG_Q_INVALID_PARAMETER => -2
  | eMSG_Q_INVALID_HANDLE => -3
  | eMSG_Q_UNAVAILABLE_RESOURCE => -4
  | eMSG_Q_INSUFFICIENT_BUFFER => -5
  end.

Definition convert_linked_list_err_type (linked_list_val : linked_list_err_type)
  : msq_q_err_type :=
  match linked_list_val with
  | eLINKED_LIST_SUCCESS => eMSG_Q_SUCCESS
  | eLINKED_LIST_INVALID_PARAMETER => eMSG_Q_INVALID_PARAMETER
  | eLINKED_LIST_INVALID_HANDLE => eMSG_Q_INVALID_HANDLE
  | eLINKED_LIST_UNAVAILABLE_RESOURCE => eMSG_Q_UNAVAILABLE_RESOURCE
  | eLINKED_LIST_INSUFFICIENT_BUFFER => eMSG_Q_INSUFFICIENT_BUFFER
  | _ => eMSG_Q_FAILURE_GENERAL
  end.

(** The plain fields of the struct; its mutex and condition variable are in the
    sets of initialised ones below and, once threads run, in the system state. *)
Record msg_q := Q {
  msg_list : ptr;
  unblocked : Z
}.

(** The memory of the queues: the lists' heap, the live structs, the mutexes and
    condition variables initialised and not destroyed (named by their struct),
    the next address, the answers of the next callocs (as in LinkedList) and of
    the next pthread initialisations (an exhausted list answers 0). *)
Record qmem (H : Type) := QMem {
  lheap : H;
  queues : gmap loc msg_q;
  mutexes : gset loc;
  conds : gset loc;
  qbrk : loc;
  qsupply : list bool;
  pthread_rc : list Z
}.
Arguments QMem {H}.
Arguments lheap {H}.
Arguments queues {H}.
Arguments mutexes {H}.
Arguments conds {H}.
Arguments qbrk {H}.
Arguments qsupply {H}.
Arguments pthread_rc {H}.

Section operations.
Context {H : Type} `{ListOps H}.

Definition lift {A} (c : M H A) : M (qmem H) A := fun m =>
  obind (fun '(a, h) => Done (a, QMem h (queues m) (mutexes m) (conds m) (qbrk m)
                                      (qsupply m) (pthread_rc m)))
        (c (lheap m)).

Definition set_queues (f : gmap loc msg_q -> gmap loc msg_q) (m : qmem H) : qmem H :=
  QMem (lheap m) (f (queues m)) (mutexes m) (conds m) (qbrk m) (qsupply m) (pthread_rc m).
Definition set_mutexes (f : gset loc -> gset loc) (m : qmem H) : qmem H :=
  QMem (lheap m) (queues m) (f (mutexes m)) (conds m) (qbrk m) (qsupply m) (pthread_rc m).
Definition set_conds (f : gset loc -> gset loc) (m : qmem H) : qmem H :=
  QMem (lheap m) (queues m) (mutexes m) (f (conds m)) (qbrk m) (qsupply m) (pthread_rc m).

Definition calloc_q : M (qmem H) ptr := fun m =>
  let m' := QMem (lheap m) (queues m) (mutexes m) (conds m) (qbrk m)
                 (tail (qsupply m)) (pthread_rc m) in
  if default true (head (qsupply m))
  then Done (Some (qbrk m),
             QMem (lheap m) (<[qbrk m := Q None 0]> (queues m)) (mutexes m) (conds m)
                  (Pos.succ (qbrk m)) (tail (qsupply m)) (pthread_rc m))
  else Done (None, m').

Definition read_q (p : ptr) : M (qmem H) msg_q := fun m =>
  match p ≫= (queues m !!.) with
  | Some q => Done (q, m)
  | None => Undefined
  end.

Definition write_q (p : ptr) (f : msg_q -> msg_q) : M (qmem H) unit := fun m =>
  match p ≫= (fun l => (l,.) <$> queues m !! l) with
  | Some (l, q) => Done (tt, set_queues (insert l (f q)) m)
  | None => Undefined
  end.

(** Freeing the null pointer does nothing. *)
Definition free_q (p : ptr) : M (qmem H) unit := fun m =>
  match p with
  | None => Done (tt, m)
  | Some l => match queues m !! l with
              | Some _ => Done (tt, set_queues (delete l) m)
              | None => Undefined
              end
  end.

Definition pthread_answer : M (qmem H) Z := fun m =>
  Done (default 0%Z (head (pthread_rc m)),
        QMem (lheap m) (queues m) (mutexes m) (conds m) (qbrk m) (qsupply m)
             (tail (pthread_rc m))).

(** [pthread_mutex_init(&q->list_mutex, NULL)] and the like: 0 on success.
    Destroying an object that is not initialised is undefined. *)
Definition mutex_init (p : ptr) : M (qmem H) Z :=
  let! rc := pthread_answer in
  match p with
  | None => undefined
  | Some l => (if decide (rc = 0)%Z then modify (set_mutexes (union {[l]})) else ret tt) ;;; ret rc
  end.
Definition cond_init (p : ptr) : M (qmem H) Z :=
  let! rc := pthread_answer in
  match p with
  | None => undefined
  | Some l => (if decide (rc = 0)%Z then modify (set_conds (union {[l]})) else ret tt) ;;; ret rc
  end.
Definition mutex_destroy (p : ptr) : M (qmem H) unit := fun m =>
  match p with
  | Some l => if decide (l ∈ mutexes m) then Done (tt, set_mutexes (.∖ {[l]}) m) else Undefined
  | None => Undefined
  end.
Definition cond_destroy (p : ptr) : M (qmem H) unit := fun m =>
  match p with
  | Some l => if decide (l ∈ conds m) then Done (tt, set_conds (.∖ {[l]}) m) else Undefined
  | None => Undefined
  end.

(** * Creation and destruction *)

(** [linked_list_init(&q->msg_list)] and [linked_list_destroy(&q->msg_list)]. *)
Definition q_list_init (p : ptr) : M (qmem H) linked_list_err_type :=
  let! q := read_q p in
  let! (e, out) := lift (ll_init (Some (msg_list q))) in
  write_q p (fun q => Q (default (msg_list q) out) (unblocked q)) ;;;
  ret e.
Definition q_list_destroy (p : ptr) : M (qmem H) linked_list_err_type :=
  let! q := read_q p in
  let! (e, out) := lift (ll_destroy (Some (msg_list q))) in
  write_q p (fun q => Q (default (msg_list q) out) (unblocked q)) ;;;
  ret e.

Definition msg_q_init (msg_q_data : option ptr) : M (qmem H) (Z * option ptr) :=
  match msg_q_data with
  | None => ret (msq_q_err_val eMSG_Q_INVALID_PARAMETER, None)
  | Some old =>
    let! tmp_msg_q := calloc_q in
    match tmp_msg_q with
    | None => ret (msq_q_err_val eMSG_Q_FAILURE_GENERAL, Some old)
    | Some _ =>
      let! e := q_list_init tmp_msg_q in
      if decide (linked_list_err_val e ≠ 0)%Z
      then free_q tmp_msg_q ;;; ret (msq_q_err_val eMSG_Q_FAILURE_GENERAL, Some old)
      else
      let! rc := mutex_init tmp_msg_q in
      if decide (rc ≠ 0)%Z
      then q_list_destroy tmp_msg_q ;;; free_q tmp_msg_q ;;;
           ret (msq_q_err_val eMSG_Q_FAILURE_GENERAL, Some old)
      else
      let! rc := cond_init tmp_msg_q in
      if decide (rc ≠ 0)%Z
      then q_list_destroy tmp_msg_q ;;; mutex_destroy tmp_msg_q ;;; free_q tmp_msg_q ;;;
           ret (msq_q_err_val eMSG_Q_FAILURE_GENERAL, Some old)
      else
      write_q tmp_msg_q (fun q => Q (msg_list q) 0) ;;;
      ret (msq_q_err_val eMSG_Q_SUCCESS, Some tmp_msg_q)
    end
  end.

Definition msg_q_init2 : M (qmem H) ptr :=
  let! (rc, q) := msg_q_init (Some None) in
  ret (if decide (msq_q_err_val eMSG_Q_SUCCESS ≠ rc) then None else default None q).

Definition msg_q_destroy (msg_q_data : option ptr) : M (qmem H) (Z * option ptr) :=
  match msg_q_data with
  | None => ret (msq_q_err_val eMSG_Q_INVALID_HANDLE, None)
  | Some p_msg_q =>
    q_list_destroy p_msg_q ;;;
    mutex_destroy p_msg_q ;;;
    cond_destroy p_msg_q ;;;
    write_q p_msg_q (fun q => Q (msg_list q) 0) ;;;
    free_q p_msg_q ;;;
    ret (msq_q_err_val eMSG_Q_SUCCESS, Some None)
  end.

(** * Calls on a queue *)

Inductive call : Type :=
  | Snd (msg_obj dealloc : ptr)
  | Rcv (msg_obj : option ptr)
  | Rmv (msg_obj : option ptr)
  | Flush
  | Unblock.

(** The parameter checks made before the mutex is taken; [Some rv] is an
    early return. *)
Definition precheck (msg_q_data : ptr) (c : call) : option Z :=
  match msg_q_data, c with
  | None, _ => Some (msq_q_err_val eMSG_Q_INVALID_HANDLE)
  | _, Snd None _ | _, Rcv None | _, Rmv None => Some (msq_q_err_val eMSG_Q_INVALID_PARAMETER)
  | _, _ => None
  end.

(** What a call does to waiting threads before it releases the mutex. *)
Inductive wakeup : Type := NoWake | Signal | Broadcast.

(** What is done under the mutex: the value returned, the out-parameter and
    the wake-up. *)
Definition snd_crit (q msg_obj dealloc : ptr) : M (qmem H) (Z * wakeup) :=
  let! p_msg_q := read_q q in
  if decide (unblocked p_msg_q ≠ 0)%Z
  then ret (msq_q_err_val eMSG_Q_UNAVAILABLE_RESOURCE, NoWake)
  else
    let! e := lift (ll_add (msg_list p_msg_q) msg_obj dealloc) in
    ret (msq_q_err_val (convert_linked_list_err_type e), Signal).

(** [msg_q_rcv] up to its loop ([Some rv] when it returns), the test of the
    loop, and what follows the loop. *)
Definition rcv_enter (q : ptr) : M (qmem H) (option Z) :=
  let! p_msg_q := read_q q in
  ret (if decide (unblocked p_msg_q ≠ 0)%Z
       then Some (msq_q_err_val eMSG_Q_UNAVAILABLE_RESOURCE) else None).
Definition rcv_test (q : ptr) : M (qmem H) bool :=
  let! p_msg_q := read_q q in
  let! empty := lift (ll_empty (msg_list p_msg_q)) in
  ret (bool_decide (empty ≠ 0 ∧ unblocked p_msg_q = 0)%Z).
Definition rcv_take (q : ptr) (msg_obj : option ptr) : M (qmem H) (Z * option ptr) :=
  let! p_msg_q := read_q q in
  let! (e, out) := lift (ll_remove (msg_list p_msg_q) msg_obj) in
  ret (msq_q_err_val (convert_linked_list_err_type e), out).

Definition rmv_crit (q : ptr) (msg_obj : option ptr) : M (qmem H) (Z * option ptr) :=
  let! p_msg_q := read_q q in
  if decide (unblocked p_msg_q ≠ 0)%Z
  then ret (msq_q_err_val eMSG_Q_UNAVAILABLE_RESOURCE, msg_obj)
  else
    let! empty := lift (ll_empty (msg_list p_msg_q)) in
    if decide (empty ≠ 0)%Z
    then ret (linked_list_err_val eLINKED_LIST_EMPTY, msg_obj)
    else
      let! (e, out) := lift (ll_remove (msg_list p_msg_q) msg_obj) in
      ret (msq_q_err_val (convert_linked_list_err_type e), out).

Definition flush_crit (q : ptr) : M (qmem H) Z :=
  let! p_msg_q := read_q q in
  let! e := lift (ll_flush (msg_list p_msg_q)) in
  ret (msq_q_err_val (convert_linked_list_err_type e)).

Definition unblock_crit (q : ptr) : M (qmem H) (Z * wakeup) :=
  let! p_msg_q := read_q q in
  if decide (unblocked p_msg_q ≠ 0)%Z
  then ret (msq_q_err_val eMSG_Q_UNAVAILABLE_RESOURCE, NoWake)
  else
    write_q q (fun s => Q (msg_list s) 1) ;;;
    ret (msq_q_err_val eMSG_Q_SUCCESS, Broadcast).

End operations.

(** * Threads *)

(** Where a thread is in its call. *)
Inductive pc : Type :=
  | Idle
  | Locking (c : call)                       (* about to take list_mutex *)
  | Crit (c : call)                          (* holds it, body not run yet *)
  | RcvTest (msg_obj : option ptr)           (* holds it, at the loop test *)
  | RcvWait (msg_obj : option ptr)           (* in pthread_cond_wait, mutex released *)
  | RcvWake (msg_obj : option ptr)           (* woken, about to take the mutex again *)
  | Unlocking (rv : Z) (msg_obj : option ptr) (* holds it, about to release it *)
  | Returned (rv : Z) (msg_obj : option ptr).

Abbreviation tid := positive (only parsing).

Record sys (H : Type) := Sys {
  mem : qmem H;
  list_mutex : option tid;
  pcs : gmap tid pc
}.
Arguments Sys {H}.
Arguments mem {H}.
Arguments list_mutex {H}.
Arguments pcs {H}.

(** What the critical sections do to the queue. *)
Inductive event : Type :=
  | EvSnd (it : Spec.item)
  | EvTake (data : ptr)
  | EvFlush
  | EvNone.

Definition wake (p : pc) : pc := match p with RcvWait o => RcvWake o | _ => p end.
Definition waiting (p : pc) : bool := match p with RcvWait _ => true | _ => false end.
Definition woken (p : pc) : bool :=
  match p with RcvWake _ | RcvTest _ => true | _ => false end.
Definition holding (p : pc) : bool :=
  match p with Crit _ | RcvTest _ | Unlocking _ _ => true | _ => false end.

(** [pthread_cond_signal] wakes one waiting thread if there is one,
    [pthread_cond_broadcast] wakes them all. *)
Inductive wakes : wakeup -> gmap tid pc -> gmap tid pc -> Prop :=
  | wakes_none ps : wakes NoWake ps ps
  | wakes_one ps w o : ps !! w = Some (RcvWait o) -> wakes Signal ps (<[w := RcvWake o]> ps)
  | wakes_nobody ps : (∀ w o, ps !! w ≠ Some (RcvWait o)) -> wakes Signal ps ps
  | wakes_all ps : wakes Broadcast ps (wake <$> ps).

Section threads.
Context {H : Type} `{ListOps H} (qp : loc).

Definition call_out (c : call) : option ptr :=
  match c with Rcv o | Rmv o => o | _ => None end.

(** The bodies of the calls other than [msg_q_rcv], with the event each is. *)
Definition crit (c : call) : M (qmem H) (Z * option ptr * wakeup * event) :=
  match c with
  | Snd obj dealloc =>
    let! (rv, w) := snd_crit (Some qp) obj dealloc in
    ret (rv, None, w, if decide (rv = 0)%Z then EvSnd (obj, dealloc) else EvNone)
  | Rmv out =>
    let! (rv, out) := rmv_crit (Some qp) out in
    ret (rv, out, NoWake, if decide (rv = 0)%Z then EvTake (default None out) else EvNone)
  | Flush =>
    let! rv := flush_crit (Some qp) in ret (rv, None, NoWake, EvFlush)
  | Unblock =>
    let! (rv, w) := unblock_crit (Some qp) in ret (rv, None, w, EvNone)
  | Rcv _ => undefined
  end.

Definition is_rcv (c : call) : bool := match c with Rcv _ => true | _ => false end.

Inductive step : sys H -> event -> sys H -> Prop :=
  | step_call m mu ps t c :
      ps !! t = Some Idle ->
      step (Sys m mu ps) EvNone
           (Sys m mu (<[t := match precheck (Some qp) c with
                            | Some rv => Returned rv (call_out c)
                            | None => Locking c
                            end]> ps))
  | step_lock m ps t c :
      ps !! t = Some (Locking c) ->
      step (Sys m None ps) EvNone (Sys m (Some t) (<[t := Crit c]> ps))
  | step_crit m m' mu ps ps' t c rv out w ev :
      ps !! t = Some (Crit c) -> is_rcv c = false ->
      crit c m = Done ((rv, out, w, ev), m') -> wakes w ps ps' ->
      step (Sys m mu ps) ev (Sys m' mu (<[t := Unlocking rv out]> ps'))
  | step_rcv_enter m m' mu ps t out r :
      ps !! t = Some (Crit (Rcv out)) -> rcv_enter (Some qp) m = Done (r, m') ->
      step (Sys m mu ps) EvNone
           (Sys m' mu (<[t := match r with
                             | Some rv => Unlocking rv out
                             | None => RcvTest out
                             end]> ps))
  | step_rcv_wait m m' mu ps t out :
      ps !! t = Some (RcvTest out) -> rcv_test (Some qp) m = Done (true, m') ->
      step (Sys m mu ps) EvNone (Sys m' None (<[t := RcvWait out]> ps))
  | step_rcv_take m m' m'' mu ps t out rv out' :
      ps !! t = Some (RcvTest out) -> rcv_test (Some qp) m = Done (false, m') ->
      rcv_take (Some qp) out m' = Done ((rv, out'), m'') ->
      step (Sys m mu ps) (if decide (rv = 0)%Z then EvTake (default None out') else EvNone)
           (Sys m'' mu (<[t := Unlocking rv out']> ps))
  | step_spurious m mu ps t out :
      ps !! t = Some (RcvWait out) ->
      step (Sys m mu ps) EvNone (Sys m mu (<[t := RcvWake out]> ps))
  | step_relock m ps t out :
      ps !! t = Some (RcvWake out) ->
      step (Sys m None ps) EvNone (Sys m (Some t) (<[t := RcvTest out]> ps))
  | step_unlock m mu ps t rv out :
      ps !! t = Some (Unlocking rv out) ->
      step (Sys m mu ps) EvNone (Sys m None (<[t := Returned rv out]> ps))
  | step_return m mu ps t rv out :
      ps !! t = Some (Returned rv out) ->
      step (Sys m mu ps) EvNone (Sys m mu (<[t := Idle]> ps)).

Inductive steps : sys H -> list event -> sys H -> Prop :=
  | steps_refl s : steps s [] s
  | steps_step s1 tr s2 ev s3 : steps s1 tr s2 -> step s2 ev s3 -> steps s1 (tr ++ [ev]) s3.

(** The queue the events describe, head first. *)
Definition spec_event (q : list Spec.item) (ev : event) : option (list Spec.item) :=
  match ev with
  | EvSnd it => Some (it :: q)
  | EvTake d => match last q with
                | Some (d', _) => if decide (d' = d) then Some (removelast q) else None
                | None => None
                end
  | EvFlush => Some []
  | EvNone => Some q
  end.

Definition count (P : pc -> bool) (ps : gmap tid pc) : nat :=
  size (filter (fun kv : tid * pc => P kv.2 = true) ps).

(** The queue's struct points to list [lp], is unblocked by [u], and that
    list holds [q]. *)
Definition queue_at (m : qmem H) (lp : loc) (u : Z) (q : list Spec.item) : Prop :=
  queues m !! qp = Some (Q (Some lp) u) ∧ ∃ ls, ll_repr (lheap m) ls ∧ ls !! lp = Some q.

(** A thread holds the mutex exactly when its program counter says so. *)
Definition lock_ok (mu : option tid) (ps : gmap tid pc) : Prop :=
  (∀ t p, ps !! t = Some p -> holding p = true <-> mu = Some t) ∧
  (∀ t, mu = Some t -> is_Some (ps !! t)).

(** Threads past the parameter checks passed them. *)
Definition pc_ok (p : pc) : Prop :=
  match p with
  | Locking c | Crit c => precheck (Some qp) c = None
  | RcvTest o | RcvWait o | RcvWake o => o ≠ None
  | _ => True
  end.

(** The invariant of the running system, for queue contents [q]. *)
Record inv (s : sys H) (q : list Spec.item) : Prop := {
  inv_mem : ∃ lp u, queue_at (mem s) lp u q ∧ ((u ≠ 0)%Z -> count waiting (pcs s) = 0);
  inv_lock : lock_ok (list_mutex s) (pcs s);
  inv_wake : count waiting (pcs s) = 0 ∨ length q <= count woken (pcs s);
  inv_out : ∀ t p, pcs s !! t = Some p -> pc_ok p
}.
End threads.

(** ** Counting threads *)

Lemma count_insert P ps t p p' :
  ps !! t = Some p -> count P (<[t := p']> ps) + Nat.b2n (P p) = count P ps + Nat.b2n (P p').
Proof.
  intros Ht. unfold count.
  set (f := filter (fun kv : tid * pc => P kv.2 = true)).
  assert (Hf : f ps !! t = if P p then Some p else None).
  { unfold f. destruct (P p) eqn:Hp.
    - by apply map_lookup_filter_Some.
    - apply map_lookup_filter_None. right. intros x Hx. simplify_eq. simpl. by rewrite Hp. }
  destruct (P p') eqn:Hp'.
  - unfold f. rewrite map_filter_insert_True by done. fold f.
    destruct (P p); simpl; [rewrite map_size_insert_Some by eauto|rewrite map_size_insert_None by done]; lia.
  - unfold f. rewrite map_filter_insert_False, map_filter_delete by (simpl; congruence). fold f.
    rewrite map_size_delete, Hf. destruct (P p); simpl; [|lia].
    enough (size (f ps) ≠ 0) by lia. intros H0%map_size_empty_inv. by rewrite H0, lookup_empty in Hf.
Qed.

Lemma count_0 P ps : count P ps = 0 <-> ∀ t p, ps !! t = Some p -> P p = false.
Proof.
  unfold count. rewrite map_size_empty_iff, map_empty_filter. split.
  - intros Hall t p Ht. specialize (Hall t p Ht). simpl in Hall. by destruct (P p).
  - intros Hall t p Ht. simpl. by rewrite (Hall t p Ht).
Qed.

Lemma count_pos P ps : count P ps ≠ 0 -> ∃ t p, ps !! t = Some p ∧ P p = true.
Proof.
  intros Hc. unfold count in Hc. apply map_size_ne_0_lookup in Hc as (t & [p Ht]).
  apply map_lookup_filter_Some in Ht as [Ht Hp]. eauto.
Qed.

Lemma wakes_lookup w ps ps' t p' :
  wakes w ps ps' -> ps' !! t = Some p' -> ∃ p, ps !! t = Some p ∧ (p' = p ∨ p' = wake p).
Proof.
  intros Hw Ht. destruct Hw as [ps|ps w o Hw|ps _|ps]; eauto.
  - destruct (decide (w = t)) as [->|]; simplify_map_eq; eauto.
  - rewrite lookup_fmap in Ht. apply fmap_Some in Ht as (p & Hp & ->). eauto.
Qed.

Lemma wakes_keep w ps ps' t p :
  wakes w ps ps' -> ps !! t = Some p -> waiting p = false -> ps' !! t = Some p.
Proof.
  intros Hw Ht Hp. destruct Hw as [ps|ps w o Hw|ps _|ps]; [done| |done|].
  - destruct (decide (w = t)) as [->|]; by simplify_map_eq.
  - rewrite lookup_fmap, Ht. by destruct p.
Qed.

(** A signal that finds a waiting thread turns it into a woken one; a broadcast
    leaves no thread waiting. *)
Lemma wakes_count w ps ps' :
  wakes w ps ps' ->
  match w with
  | NoWake => count waiting ps' = count waiting ps ∧ count woken ps' = count woken ps
  | Signal => (count waiting ps = 0 ∧ count waiting ps' = 0 ∧ count woken ps' = count woken ps) ∨
              (count waiting ps' + 1 = count waiting ps ∧ count woken ps' = count woken ps + 1)
  | Broadcast => count waiting ps' = 0
  end.
Proof.
  intros [ps0|ps0 w0 o Hw|ps0 Hno|ps0]; [done|..].
  - right. pose proof (count_insert waiting _ _ _ (RcvWake o) Hw).
    pose proof (count_insert woken _ _ _ (RcvWake o) Hw). simpl in *. lia.
  - left. assert (count waiting ps0 = 0); [|done]. apply count_0. intros t p Ht.
    destruct p; try done. by destruct (Hno _ _ Ht).
  - apply count_0. intros t p Ht. rewrite lookup_fmap in Ht.
    apply fmap_Some in Ht as ([] & _ & ->); done.
Qed.

Lemma lock_keep mu ps t p p' :
  lock_ok mu ps -> ps !! t = Some p -> holding p' = holding p -> lock_ok mu (<[t := p']> ps).
Proof.
  intros [Hl Hd] Ht Hh. split.
  - intros t' p0 Hp0. destruct (decide (t = t')) as [->|]; simplify_map_eq; [|by apply Hl].
    rewrite Hh. by apply Hl.
  - intros t' Hmu. apply lookup_insert_is_Some'. auto.
Qed.

Lemma lock_take ps t p' : lock_ok None ps -> holding p' = true -> lock_ok (Some t) (<[t := p']> ps).
Proof.
  intros [Hl _] Hh. split.
  - intros t' p0 Hp0. destruct (decide (t = t')) as [->|]; simplify_map_eq; [done|].
    split; [intros Hp; by apply (Hl t') in Hp|congruence].
  - intros t' [= ->]. by rewrite lookup_insert_eq.
Qed.

Lemma lock_give mu ps t p p' :
  lock_ok mu ps -> ps !! t = Some p -> holding p = true -> holding p' = false ->
  lock_ok None (<[t := p']> ps).
Proof.
  intros [Hl _] Ht Hp Hh. split; [|done]. intros t' p0 Hp0.
  destruct (decide (t = t')) as [->|]; simplify_map_eq; [by rewrite Hh|].
  split; [|done]. intros Hq. apply (Hl t') in Hq; [|done]. apply (Hl t) in Hp; [|done]. congruence.
Qed.

Lemma lock_wakes w mu ps ps' : lock_ok mu ps -> wakes w ps ps' -> lock_ok mu ps'.
Proof.
  intros [Hl Hd] Hw. split.
  - intros t p' Ht. destruct (wakes_lookup _ _ _ _ _ Hw Ht) as (p & Hp & [-> | ->]);
      rewrite <- (Hl t p Hp); [done|]. by destruct p.
  - intros t Hmu. destruct (Hd _ Hmu) as [p Hp].
    rewrite (wakes_keep _ _ _ _ _ Hw Hp); [done|].
    destruct (waiting p) eqn:E; [|done]. apply (Hl t p Hp) in Hmu. by destruct p.
Qed.

Lemma pc_ok_insert qp (ps : gmap tid pc) t p' :
  (∀ t p, ps !! t = Some p -> pc_ok qp p) -> pc_ok qp p' ->
  ∀ t0 p, <[t := p']> ps !! t0 = Some p -> pc_ok qp p.
Proof.
  intros Hall Hp' t0 p. destruct (decide (t = t0)) as [->|]; intros ?; simplify_map_eq; eauto.
Qed.

Lemma pc_ok_wakes qp w ps ps' :
  (∀ t p, ps !! t = Some p -> pc_ok qp p) -> wakes w ps ps' ->
  ∀ t p, ps' !! t = Some p -> pc_ok qp p.
Proof.
  intros Hall Hw t p' Ht. destruct (wakes_lookup _ _ _ _ _ Hw Ht) as (p & Hp & [-> | ->]); eauto.
  specialize (Hall _ _ Hp). by destruct p.
Qed.

(** ** The critical sections on a well-formed queue *)

Section correctness.
Context {H : Type} `{ListLaws H} (qp : loc).

Implicit Types (m : qmem H) (q : list Spec.item).

Lemma lift_done {A} (c : M H A) m a h :
  c (lheap m) = Done (a, h) ->
  lift c m = Done (a, QMem h (queues m) (mutexes m) (conds m) (qbrk m) (qsupply m) (pthread_rc m)).
Proof. intros E. unfold lift. by rewrite E. Qed.

Lemma lift_same {A} (c : M H A) m a : c (lheap m) = Done (a, lheap m) -> lift c m = Done (a, m).
Proof. intros E. rewrite (lift_done _ _ _ _ E). by destruct m. Qed.

Lemma read_q_done m lp u q : queue_at qp m lp u q -> read_q (Some qp) m = Done (Q (Some lp) u, m).
Proof. intros [Hq _]. unfold read_q. simpl. by rewrite Hq. Qed.

Lemma write_q_done m p s f : queues m !! p = Some s ->
  write_q (Some p) f m = Done (tt, set_queues (insert p (f s)) m).
Proof. intros Hq. unfold write_q. simpl. by rewrite Hq. Qed.

Lemma queue_at_list m lp u q h ls q' :
  queue_at qp m lp u q -> ll_repr h (<[lp := q']> ls) ->
  queue_at qp (QMem h (queues m) (mutexes m) (conds m) (qbrk m) (qsupply m) (pthread_rc m)) lp u q'.
Proof. intros [Hq _] Hr. split; [done|]. eexists. split; [done|]. by rewrite lookup_insert_eq. Qed.

(** Removing through the list: the oldest item, or UNAVAILABLE_RESOURCE. *)
Lemma remove_correct m lp u q old :
  queue_at qp m lp u q ->
  ∃ m' q' rv out,
    (let! (e, out) := lift (ll_remove (Some lp) (Some old)) in
     ret (msq_q_err_val (convert_linked_list_err_type e), out)) m = Done ((rv, Some out), m') ∧
    queue_at qp m' lp u q' ∧ length q' <= length q ∧ (q ≠ [] -> S (length q') = length q) ∧
    spec_event q (if decide (rv = 0)%Z then EvTake out else EvNone) = Some q' ∧
    (q = [] -> rv = msq_q_err_val eMSG_Q_UNAVAILABLE_RESOURCE) ∧ (q ≠ [] -> rv = 0%Z).
Proof.
  intros Hat. destruct (Hat) as (Hq & ls & Hr & Hl).
  destruct q as [|[d f] q _] using rev_ind.
  - rewrite (bind_done _ _ _ _ _ (lift_same _ _ _ (ll_remove_nil_law _ _ _ old Hr Hl))).
    eexists m, [], _, old. by split_and!.
  - destruct (ll_remove_law _ _ _ _ _ _ old Hr Hl) as (h' & E & Hr' & _).
    rewrite (bind_done _ _ _ _ _ (lift_done _ _ _ _ E)).
    eexists _, q, _, d. split; [done|]. split; [by eapply queue_at_list|].
    rewrite length_app. simpl. rewrite last_snoc, removelast_last.
    split_and!; [lia|lia|by rewrite decide_True|by destruct q|done].
Qed.

Lemma empty_correct m lp u q :
  queue_at qp m lp u q ->
  lift (ll_empty (Some lp)) m = Done ((if decide (q = []) then 1 else 0)%Z, m).
Proof. intros (_ & ls & Hr & Hl). apply lift_same. by eapply ll_empty_law. Qed.

Lemma rcv_enter_correct m lp u q :
  queue_at qp m lp u q ->
  rcv_enter (Some qp) m =
    Done (if decide (u ≠ 0)%Z then Some (msq_q_err_val eMSG_Q_UNAVAILABLE_RESOURCE) else None, m).
Proof. intros Hat. unfold rcv_enter. by rewrite (bind_done _ _ _ _ _ (read_q_done _ _ _ _ Hat)). Qed.

Lemma rcv_test_correct m lp u q :
  queue_at qp m lp u q -> rcv_test (Some qp) m = Done (bool_decide (q = [] ∧ u = 0%Z), m).
Proof.
  intros Hat. unfold rcv_test. rewrite (bind_done _ _ _ _ _ (read_q_done _ _ _ _ Hat)).
  simpl. rewrite (bind_done _ _ _ _ _ (empty_correct _ _ _ _ Hat)).
  unfold ret. do 2 f_equal. apply bool_decide_ext. simpl. case_decide; naive_solver.
Qed.

(** What a body other than [msg_q_rcv]'s does, given the parameter checks. *)
Definition crit_post (m : qmem H) (lp : loc) (u : Z) (q : list Spec.item)
    (r : Z * option ptr * wakeup * event) (m' : qmem H) (u' : Z) (q' : list Spec.item) : Prop :=
  queue_at qp m' lp u' q' ∧ spec_event q r.2 = Some q' ∧
  (length q' <= length q ∨ (length q' = S (length q) ∧ r.1.2 = Signal)) ∧
  ((u' ≠ 0)%Z -> (u ≠ 0)%Z ∨ r.1.2 = Broadcast) ∧
  ((u ≠ 0)%Z -> u' = u ∧ ∀ it, r.2 ≠ EvSnd it).

Lemma crit_correct m lp u q c :
  queue_at qp m lp u q -> precheck (Some qp) c = None -> is_rcv c = false ->
  ∃ r m' u' q', crit qp c m = Done (r, m') ∧ crit_post m lp u q r m' u' q'.
Proof.
  intros Hat Hpre Hr. destruct c as [[d|] f|o|[old|]| |]; try done; unfold crit, crit_post.
  - unfold snd_crit. rewrite !bind_assoc, (bind_done _ _ _ _ _ (read_q_done _ _ _ _ Hat)). simpl.
    case_decide as Hu; [by eexists _, m, u, q; split_and!; auto|].
    destruct (Hat) as (Hq & ls & Hrep & Hl). rewrite bind_assoc.
    destruct (ll_add_law _ _ _ _ d f Hrep Hl) as [(h' & E & Hr' & _)|(h' & E & Hr' & _)];
      rewrite (bind_done _ _ _ _ _ (lift_done _ _ _ _ E)).
    + eexists _, _, u, _. split; [done|]. split_and!; [by eapply queue_at_list|done|by right|tauto|done].
    + eexists _, _, u, q. split; [done|]. split_and!; [|done|by left|tauto|done].
      split; [done|]. by exists ls.
  - unfold rmv_crit. rewrite !bind_assoc, (bind_done _ _ _ _ _ (read_q_done _ _ _ _ Hat)). simpl.
    case_decide as Hu; [by eexists _, m, u, q; split_and!; auto|].
    rewrite !bind_assoc, (bind_done _ _ _ _ _ (empty_correct _ _ _ _ Hat)).
    destruct (decide (q = [])) as [->|Hne]; simpl; [by eexists _, m, u, []; split_and!; auto|].
    destruct (remove_correct m lp u q old Hat) as (m' & q' & rv & out & E & Hat' & Hlen & _ & Hev & _).
    rewrite (bind_done _ _ _ _ _ E).
    eexists _, m', u, q'. split; [done|]. split_and!; [done|done|by left|tauto|done].
  - unfold flush_crit. rewrite !bind_assoc, (bind_done _ _ _ _ _ (read_q_done _ _ _ _ Hat)). simpl.
    destruct (Hat) as (Hq & ls & Hrep & Hl). rewrite bind_assoc.
    destruct (ll_flush_law _ _ _ _ Hrep Hl) as (h' & E & Hr' & _).
    rewrite (bind_done _ _ _ _ _ (lift_done _ _ _ _ E)).
    eexists _, _, u, []. split; [done|]. split_and!; [by eapply queue_at_list|done|left; simpl; lia|tauto|done].
  - unfold unblock_crit. rewrite !bind_assoc, (bind_done _ _ _ _ _ (read_q_done _ _ _ _ Hat)). simpl.
    case_decide as Hu; [by eexists _, m, u, q; split_and!; auto|].
    destruct (Hat) as (Hq & ls & Hrep & Hl).
    rewrite bind_assoc, (bind_done _ _ _ _ _ (write_q_done _ _ _ _ Hq)).
    eexists _, _, 1%Z, q. split; [done|]. split_and!; [|done|by left|by right|done].
    split; [by simpl; rewrite lookup_insert_eq|]. by exists ls.
Qed.

(** ** The invariant *)

(** A step of thread [t] from [p] to [p'] that leaves the memory as it is. *)
Lemma inv_move m m' mu mu' ps t p p' q :
  inv qp (Sys m mu ps) q -> ps !! t = Some p -> m' = m ->
  lock_ok mu' (<[t := p']> ps) -> pc_ok qp p' ->
  (waiting p' = true -> waiting p = true ∨ (q = [] ∧ ∀ lp u, queue_at qp m lp u q -> u = 0%Z)) ->
  (woken p = true -> woken p' = true ∨ q = []) ->
  inv qp (Sys m' mu' (<[t := p']> ps)) q.
Proof.
  intros [(lp & u & Hat & Hu) Hl Hw Ho] Ht -> Hl' Hp' Hwait Hwok. simpl in *.
  pose proof (count_insert waiting _ _ _ p' Ht). pose proof (count_insert woken _ _ _ p' Ht).
  split; simpl; [|done| |by apply pc_ok_insert].
  - exists lp, u. split; [done|]. intros Hu0. specialize (Hu Hu0).
    destruct (waiting p') eqn:Hp; simpl in *; [|lia].
    destruct (Hwait eq_refl) as [Hp0|[_ Hz]]; [rewrite Hp0 in *; simpl in *; lia|]. by specialize (Hz _ _ Hat).
  - destruct (waiting p') eqn:Ewp', (woken p) eqn:Ewp, (woken p') eqn:Ewk';
      simpl in *; try (destruct (Hwok eq_refl) as [?| ->]; [done|]);
      try (destruct (Hwait eq_refl) as [Hp|[-> _]]; [rewrite Hp in *|]); simpl in *; lia.
Qed.

Lemma inv_crit m m' mu ps ps' t c rv out w ev q :
  inv qp (Sys m mu ps) q -> ps !! t = Some (Crit c) -> is_rcv c = false ->
  crit qp c m = Done ((rv, out, w, ev), m') -> wakes w ps ps' ->
  ∃ q', spec_event q ev = Some q' ∧ inv qp (Sys m' mu (<[t := Unlocking rv out]> ps')) q'.
Proof.
  intros [(lp & u & Hat & Hu) Hl Hw Ho] Ht Hr E Hwk. simpl in *.
  destruct (crit_correct m lp u q c Hat (Ho _ _ Ht) Hr)
    as (r & m1 & u' & q' & E' & Hat' & Hev & Hlen & Hu' & _).
  rewrite E in E'. injection E' as <- <-. simpl in *. exists q'. split; [done|].
  pose proof (wakes_keep _ _ _ _ _ Hwk Ht eq_refl) as Ht'.
  pose proof (count_insert waiting _ _ _ (Unlocking rv out) Ht').
  pose proof (count_insert woken _ _ _ (Unlocking rv out) Ht').
  pose proof (wakes_count _ _ _ Hwk) as Hc. simpl in *. split; simpl.
  - exists lp, u'. split; [done|]. intros Hnz.
    destruct w; [| |lia]; destruct (Hu' Hnz) as [Hnz'|?]; try done;
      specialize (Hu Hnz'); lia.
  - eapply lock_keep; [by eapply lock_wakes|done|done].
  - destruct w; destruct Hlen as [?|[? ?]]; try done; lia.
  - apply pc_ok_insert; [|done]. by eapply pc_ok_wakes.
Qed.

Lemma inv_take m m'' mu ps t out rv out' q :
  inv qp (Sys m mu ps) q -> ps !! t = Some (RcvTest out) ->
  rcv_take (Some qp) out m = Done ((rv, out'), m'') ->
  ∃ q', spec_event q (if decide (rv = 0)%Z then EvTake (default None out') else EvNone) = Some q' ∧
    inv qp (Sys m'' mu (<[t := Unlocking rv out']> ps)) q'.
Proof.
  intros [(lp & u & Hat & Hu) Hl Hw Ho] Ht E. simpl in *.
  pose proof (Ho _ _ Ht) as Hout. simpl in Hout. destruct out as [old|]; [|done].
  destruct (remove_correct m lp u q old Hat) as (m1 & q' & rv' & o & E' & Hat' & Hle & Hlen & Hev & _).
  unfold rcv_take in E. rewrite (bind_done _ _ _ _ _ (read_q_done _ _ _ _ Hat)) in E. simpl in E.
  rewrite E in E'. injection E' as -> -> ->. exists q'. split; [done|].
  pose proof (count_insert waiting _ _ _ (Unlocking rv' (Some o)) Ht).
  pose proof (count_insert woken _ _ _ (Unlocking rv' (Some o)) Ht). simpl in *.
  split; simpl.
  - exists lp, u. split; [done|]. intros ?. specialize (Hu ltac:(done)). lia.
  - by eapply lock_keep.
  - destruct q as [|x q]; [simpl in *; lia|]. specialize (Hlen ltac:(done)). simpl in *. lia.
  - by apply pc_ok_insert.
Qed.

Lemma q_inv_step s ev s' q :
  inv qp s q -> step qp s ev s' -> ∃ q', spec_event q ev = Some q' ∧ inv qp s' q'.
Proof.
  intros Hinv Hstep. pose proof Hinv as [(lp & u & Hat & Hu) Hl Hw Ho].
  destruct Hstep as [m mu ps t c Ht|m ps t c Ht|m m' mu ps ps' t c rv out w ev Ht Hr E Hwk
    |m m' mu ps t out r Ht E|m m' mu ps t out Ht E|m m' m'' mu ps t out rv out' Ht E E'
    |m mu ps t out Ht|m ps t out Ht|m mu ps t rv out Ht|m mu ps t rv out Ht]; simpl in *;
    try pose proof (Ho _ _ Ht) as Hpc.
  - exists q. split; [done|]. eapply inv_move; try done; case_match; try done.
    all: by eapply lock_keep.
  - exists q. split; [done|]. eapply inv_move; try done. by apply lock_take.
  - by eapply inv_crit.
  - rewrite (rcv_enter_correct _ _ _ _ Hat) in E. injection E as <- <-.
    exists q. split; [done|]. eapply inv_move; try done; case_match; try done.
    1,2: by eapply lock_keep. simpl in Hpc |- *. by intros ->.
  - rewrite (rcv_test_correct _ _ _ _ Hat) in E. injection E as E <-.
    apply bool_decide_eq_true in E as [-> ->].
    exists []. split; [done|]. eapply inv_move; try done; [by eapply lock_give| |by right].
    intros _. right. split; [done|]. intros lp' u' [Hq _]. destruct Hat as [Hq' _]. congruence.
  - rewrite (rcv_test_correct _ _ _ _ Hat) in E. injection E as _ <-. by eapply inv_take.
  - exists q. split; [done|]. eapply inv_move; try done. by eapply lock_keep.
  - exists q. split; [done|]. eapply inv_move; try done; [by apply lock_take|by left].
  - exists q. split; [done|]. eapply inv_move; try done. by eapply lock_give.
  - exists q. split; [done|]. eapply inv_move; try done. by eapply lock_keep.
Qed.

End correctness.

(** * Theorems *)

(** What was accepted by [msg_q_snd] and what was handed out, in order. *)
Definition sent (tr : list event) : list ptr :=
  omap (fun ev => match ev with EvSnd it => Some it.1 | _ => None end) tr.
Definition taken (tr : list event) : list ptr :=
  omap (fun ev => match ev with EvTake d => Some d | _ => None end) tr.

Fixpoint spec_events (q : list Spec.item) (tr : list event) : option (list Spec.item) :=
  match tr with
  | [] => Some q
  | ev :: tr => spec_event q ev ≫= fun q' => spec_events q' tr
  end.

Lemma spec_events_snoc q tr ev :
  spec_events q (tr ++ [ev]) = spec_events q tr ≫= fun q' => spec_event q' ev.
Proof.
  revert q; induction tr as [|e tr IH]; intros q; simpl; [by destruct (spec_event q ev)|].
  destruct (spec_event q e); simpl; [apply IH|done].
Qed.

Lemma spec_events_fifo q tr q' :
  spec_events q tr = Some q' -> EvFlush ∉ tr ->
  rev q.*1 ++ sent tr = taken tr ++ rev q'.*1.
Proof.
  revert q; induction tr as [|ev tr IH]; intros q Hs Hnf; simpl in *.
  { simplify_eq. by rewrite app_nil_r. }
  apply not_elem_of_cons in Hnf as [Hev Hnf].
  destruct (spec_event q ev) as [q1|] eqn:E1; simpl in Hs; [|done].
  specialize (IH q1 Hs Hnf). destruct ev as [it|d| |]; simpl in *; simplify_eq.
  - simpl in IH. rewrite <- app_assoc in IH. done.
  - destruct q as [|[d' f] q _] using rev_ind; [done|]. rewrite last_snoc in E1.
    case_decide; [|done]. simplify_eq. rewrite removelast_last in IH.
    by rewrite fmap_app, rev_app_distr, <- IH.
  - done.
Qed.

(** A queue right after its creation, shared by threads that have not called
    anything yet. *)
Definition started {H} `{ListOps H} (qp : loc) (s : sys H) : Prop :=
  (∃ lp, queue_at qp (mem s) lp 0 []) ∧ list_mutex s = None ∧
  ∀ t p, pcs s !! t = Some p -> p = Idle.

Section theorems.
Context {H : Type} `{ListLaws H} (qp : loc).

Lemma started_inv s : started qp s -> inv qp s [].
Proof.
  intros ((lp & Hat) & Hmu & Hidle). split.
  - exists lp, 0%Z. split; [done|]. done.
  - split; [|by rewrite Hmu]. intros t p Ht. rewrite (Hidle _ _ Ht), Hmu. done.
  - left. apply count_0. intros t p Ht. by rewrite (Hidle _ _ Ht).
  - intros t p Ht. by rewrite (Hidle _ _ Ht).
Qed.

Lemma q_steps_inv s tr s' :
  steps qp s tr s' -> started qp s -> ∃ q, spec_events [] tr = Some q ∧ inv qp s' q.
Proof.
  intros Hst Hs. induction Hst as [s|s1 tr s2 ev s3 Hst IH Hstep].
  - exists []. split; [done|]. by apply started_inv.
  - destruct (IH Hs) as (q & Hq & Hinv).
    destruct (q_inv_step _ _ _ _ _ Hinv Hstep) as (q' & Hq' & Hinv').
    exists q'. split; [|done]. by rewrite spec_events_snoc, Hq.
Qed.

(** C1: However the threads' calls interleave, the queue's list always holds
    what the sequence of critical sections gives on an abstract FIFO queue;
    without flushes, the messages accepted are exactly the messages handed
    out by [msg_q_rcv] and [msg_q_rmv], in the same order, followed by those
    still queued, oldest first. *)
Theorem msg_q_fifo s0 tr s :
  started qp s0 -> steps qp s0 tr s ->
  ∃ lp u q, queue_at qp (mem s) lp u q ∧ spec_events [] tr = Some q ∧
    (EvFlush ∉ tr -> sent tr = taken tr ++ rev q.*1).
Proof.
  intros Hs Hst. destruct (q_steps_inv _ _ _ Hst Hs) as (q & Hq & Hinv).
  destruct (inv_mem _ _ _ Hinv) as (lp & u & Hat & _).
  exists lp, u, q. split_and!; [done..|]. intros Hnf. by apply (spec_events_fifo [] tr q).
Qed.

(** C2: No wake-up is lost.  If a thread is asleep in [msg_q_rcv], the queue
    is not unblocked, and there are at least as many receivers awake and on
    their way to the list as there are queued messages; in particular a
    sleeper with messages queued is never left with nobody to take them. *)
Theorem msg_q_no_lost_wakeup s0 tr s t out :
  started qp s0 -> steps qp s0 tr s -> pcs s !! t = Some (RcvWait out) ->
  ∃ lp q, queue_at qp (mem s) lp 0 q ∧ length q <= count woken (pcs s) ∧
    (q ≠ [] -> ∃ t' o, pcs s !! t' = Some (RcvWake o) ∨ pcs s !! t' = Some (RcvTest o)).
Proof.
  intros Hs Hst Ht. destruct (q_steps_inv _ _ _ Hst Hs) as (q & _ & Hinv).
  assert (Hw : count waiting (pcs s) ≠ 0).
  { intros Hc. by rewrite count_0 in Hc; specialize (Hc _ _ Ht). }
  destruct (inv_mem _ _ _ Hinv) as (lp & u & Hat & Hu).
  destruct (decide (u = 0)%Z) as [->|Hu0]; [|by destruct (Hw (Hu Hu0))].
  destruct (inv_wake _ _ _ Hinv) as [?|Hlen]; [done|].
  exists lp, q. split_and!; [done..|]. intros Hq.
  destruct (count_pos woken (pcs s)) as (t' & p & Hp & Hwk); [destruct q; simpl in *; [done|lia]|].
  exists t'. destruct p; try done; eauto.
Qed.

Lemma step_unblocked s ev s' lp u q :
  inv qp s q -> queue_at qp (mem s) lp u q -> u ≠ 0%Z -> step qp s ev s' ->
  ∃ q', spec_event q ev = Some q' ∧ queue_at qp (mem s') lp u q' ∧ ∀ it, ev ≠ EvSnd it.
Proof.
  intros [_ _ _ Ho] Hat Hu Hstep.
  destruct Hstep as [m mu ps t c Ht|m ps t c Ht|m m' mu ps ps' t c rv out w ev Ht Hr E Hwk
    |m m' mu ps t out r Ht E|m m' mu ps t out Ht E|m m' m'' mu ps t out rv out' Ht E E'
    |m mu ps t out Ht|m ps t out Ht|m mu ps t rv out Ht|m mu ps t rv out Ht]; simpl in *;
    try (exists q; by split_and!).
  - destruct (crit_correct qp m lp u q c Hat (Ho _ _ Ht) Hr)
      as (r & m1 & u' & q' & E' & Hat' & Hev & _ & _ & Hu').
    rewrite E in E'. injection E' as <- <-. destruct (Hu' Hu) as [-> ?]. by exists q'.
  - rewrite (rcv_enter_correct _ _ _ _ _ Hat) in E. injection E as _ <-. exists q. by split_and!.
  - rewrite (rcv_test_correct _ _ _ _ _ Hat) in E. injection E as _ <-. exists q. by split_and!.
  - rewrite (rcv_test_correct _ _ _ _ _ Hat) in E. injection E as _ <-.
    pose proof (Ho _ _ Ht) as Hout. simpl in Hout. destruct out as [old|]; [|done].
    destruct (remove_correct qp m lp u q old Hat)
      as (m1 & q' & rv' & o & E1 & Hat' & _ & _ & Hev & _).
    unfold rcv_take in E'. rewrite (bind_done _ _ _ _ _ (read_q_done _ _ _ _ _ Hat)) in E'.
    simpl in E'. rewrite E1 in E'. injection E' as <- <- <-.
    exists q'. split_and!; [done..|]. by case_decide.
Qed.

(** Unblocking is final.  Once the queue is unblocked, whatever the
    threads do from then on, it stays unblocked, no message is accepted any
    more, and no thread is left asleep in [msg_q_rcv]. *)
Theorem msg_q_unblock_final s0 tr0 s1 tr s2 lp u :
  started qp s0 -> steps qp s0 tr0 s1 ->
  queues (mem s1) !! qp = Some (Q (Some lp) u) -> u ≠ 0%Z -> steps qp s1 tr s2 ->
  sent tr = [] ∧ (∀ t out, pcs s2 !! t ≠ Some (RcvWait out)) ∧
  queues (mem s2) !! qp = Some (Q (Some lp) u).
Proof.
  intros Hs Hst0 Hq0 Hu Hst. destruct (q_steps_inv _ _ _ Hst0 Hs) as (q & Hq1 & Hinv).
  destruct (inv_mem _ _ _ Hinv) as (lp1 & u1 & Hat & _). assert (Hat' := Hat).
  destruct Hat' as [Hq' _]. rewrite Hq0 in Hq'. injection Hq' as <- <-.
  enough (∃ q', sent tr = [] ∧ inv qp s2 q' ∧ queue_at qp (mem s2) lp u q') as (q' & Hsent & Hinv' & Hat').
  { split_and!; [done| |by destruct Hat']. intros t out Ht.
    destruct (inv_mem _ _ _ Hinv') as (lp' & u' & [Hq' _] & Hw). destruct Hat' as [Hq2 _].
    rewrite Hq2 in Hq'. simplify_eq. specialize (Hw Hu). rewrite count_0 in Hw.
    by specialize (Hw _ _ Ht). }
  clear Hst0 Hq1 Hq0 Hs. induction Hst as [s|s1 tr s2 ev s3 Hst IH Hstep]; [by exists q|].
  destruct (IH Hinv Hat) as (q' & Hsent & Hinv' & Hat').
  destruct (step_unblocked _ _ _ _ _ _ Hinv' Hat' Hu Hstep) as (q2 & Hev & Hat2 & Hns).
  destruct (q_inv_step _ _ _ _ _ Hinv' Hstep) as (q3 & Hev3 & Hinv3).
  assert (q3 = q2) as -> by congruence. exists q2. split_and!; [|done..].
  unfold sent in *. rewrite omap_app, Hsent. simpl. destruct ev; try done. by destruct (Hns it).
Qed.

(** The thread that holds the mutex can run. *)
Lemma holder_steps s q t p :
  inv qp s q -> pcs s !! t = Some p -> holding p = true ->
  ∃ ev s' p', step qp s ev s' ∧ pcs s' !! t = Some p' ∧ p' ≠ p.
Proof.
  intros [(lp & u & Hat & _) _ _ Ho] Ht Hh. destruct s as [m mu ps]. simpl in *.
  pose proof (Ho _ _ Ht) as Hpc. destruct p as [| |c|out| | |rv out|]; try done.
  - destruct (is_rcv c) eqn:Hr.
    + destruct c; try done. eexists _, _, _. split; [eapply step_rcv_enter; [done|]|].
      * by eapply rcv_enter_correct.
      * simpl. rewrite lookup_insert_eq. split; [done|]. by case_decide.
    + destruct (crit_correct qp m lp u q c Hat Hpc Hr) as ([[[rv o] w] ev] & m' & u' & q' & E & _).
      assert (Hw : ∃ ps', wakes w ps ps').
      { destruct w; [by eexists; constructor| |by eexists; constructor].
        destruct (decide (count waiting ps = 0)) as [Hc|Hc].
        - exists ps. constructor. intros w o' Hw. by rewrite count_0 in Hc; specialize (Hc _ _ Hw).
        - apply count_pos in Hc as (w & [] & Hw & ?); try done. eexists. by econstructor. }
      destruct Hw as [ps' Hw]. eexists _, _, _. split; [by eapply step_crit|].
      simpl. by rewrite lookup_insert_eq.
  - pose proof (rcv_test_correct qp _ _ _ _ Hat) as E. case_bool_decide as Hb.
    + eexists _, _, _. split; [by eapply step_rcv_wait|]. simpl. by rewrite lookup_insert_eq.
    + destruct out as [old|]; [|done].
      destruct (remove_correct qp m lp u q old Hat) as (m' & q' & rv & o & E' & _).
      assert (Htake : rcv_take (Some qp) (Some old) m = Done ((rv, Some o), m')).
      { unfold rcv_take. by rewrite (bind_done _ _ _ _ _ (read_q_done _ _ _ _ _ Hat)). }
      eexists _, _, _. split; [by eapply step_rcv_take|]. simpl. by rewrite lookup_insert_eq.
  - eexists _, _, _. split; [by eapply step_unlock|]. simpl. by rewrite lookup_insert_eq.
Qed.

(** C28: No execution gets stuck or reaches undefined behaviour: a thread in
    the middle of a call that is not asleep in the condition variable can
    make its next step, or else another thread holds the mutex and can. *)
Theorem msg_q_progress s0 tr s t p :
  started qp s0 -> steps qp s0 tr s -> pcs s !! t = Some p -> waiting p = false ->
  ∃ t' p1 ev s' p2, (t' = t ∨ list_mutex s = Some t') ∧ pcs s !! t' = Some p1 ∧
    step qp s ev s' ∧ pcs s' !! t' = Some p2 ∧ p1 ≠ p2.
Proof.
  intros Hs Hst Ht Hw. destruct (q_steps_inv _ _ _ Hst Hs) as (q & _ & Hinv).
  destruct (inv_lock _ _ _ Hinv) as [Hl Hd].
  destruct (list_mutex s) as [t'|] eqn:Hmu.
  - destruct (Hd t' eq_refl) as [p' Hp']. pose proof (proj2 (Hl _ _ Hp') eq_refl) as Hh.
    destruct (holder_steps _ _ _ _ Hinv Hp' Hh) as (ev & s' & p2 & ? & ? & ?).
    exists t', p', ev, s', p2. by split_and!; [right|..].
  - assert (Hh : holding p = false).
    { destruct (holding p) eqn:E; [|done]. by apply (Hl _ _ Ht) in E. }
    destruct s as [m mu ps]. simpl in *. subst mu.
    destruct p as [|c|c|out|out|out|rv out|rv out]; try done; eexists t, _, _, _, _;
      (split; [by left|]); (split; [done|]); split.
    1: by eapply (step_call _ _ _ _ _ Flush). 2: by eapply step_lock.
    3: by eapply step_relock. 4: by eapply step_return.
    all: simpl; rewrite lookup_insert_eq; by split.
Qed.
End theorems.

Section lifecycle.
Context {H : Type} `{ListLaws H}.
Implicit Types m : qmem H.

(** The lists alive are [ls]; addresses not given out are not in use. *)
Definition mem_ok (m : qmem H) (ls : gmap loc (list Spec.item)) : Prop :=
  ll_repr (lheap m) ls ∧
  ∀ l, (qbrk m <= l)%positive -> queues m !! l = None ∧ (l ∉ mutexes m) ∧ (l ∉ conds m).

(** [m'] differs from [m] in the lists' heap and the resources still to come. *)
Definition same_objects (m m' : qmem H) : Prop :=
  queues m' = queues m ∧ mutexes m' = mutexes m ∧ conds m' = conds m.

Lemma calloc_q_cases m :
  (∃ m', calloc_q m = Done (None, m') ∧ same_objects m m' ∧ lheap m' = lheap m) ∨
  calloc_q m = Done (Some (qbrk m),
    QMem (lheap m) (<[qbrk m := Q None 0]> (queues m)) (mutexes m) (conds m)
         (Pos.succ (qbrk m)) (tail (qsupply m)) (pthread_rc m)).
Proof. unfold calloc_q. case_match; [by right|left]. eexists. by split. Qed.

Lemma read_q_at m p s : queues m !! p = Some s -> read_q (Some p) m = Done (s, m).
Proof. intros Hq. unfold read_q. simpl. by rewrite Hq. Qed.

Lemma q_list_init_cases m p u ls :
  ll_repr (lheap m) ls -> queues m !! p = Some (Q None u) ->
  (∃ lp m', q_list_init (Some p) m = Done (eLINKED_LIST_SUCCESS, m') ∧
     queues m' = <[p := Q (Some lp) u]> (queues m) ∧ mutexes m' = mutexes m ∧ conds m' = conds m ∧
     ls !! lp = None ∧ ll_repr (lheap m') (<[lp := []]> ls)) ∨
  (∃ m', q_list_init (Some p) m = Done (eLINKED_LIST_FAILURE_GENERAL, m') ∧
     same_objects m m' ∧ ll_repr (lheap m') ls).
Proof.
  intros Hr Hq. unfold q_list_init. rewrite (bind_done _ _ _ _ _ (read_q_at _ _ _ Hq)).
  cbn [msg_list].
  destruct (ll_init_law _ _ None Hr) as [(lp & h' & E & Hn & Hr' & _)|(h' & E & Hr' & _)].
  - left. rewrite (bind_done _ _ _ _ _ (lift_done _ _ _ _ E)).
    erewrite bind_done by (eapply write_q_done; exact Hq).
    eexists lp, _. split; [done|]. by split_and!.
  - right. rewrite (bind_done _ _ _ _ _ (lift_done _ _ _ _ E)).
    erewrite bind_done by (eapply write_q_done; exact Hq).
    eexists. split; [done|]. split; [|done]. split_and!; try done.
    simpl. by apply insert_id.
Qed.

Lemma q_list_destroy_correct m p lp u q ls :
  ll_repr (lheap m) ls -> ls !! lp = Some q -> queues m !! p = Some (Q (Some lp) u) ->
  ∃ m', q_list_destroy (Some p) m = Done (eLINKED_LIST_SUCCESS, m') ∧
    queues m' = <[p := Q None u]> (queues m) ∧ mutexes m' = mutexes m ∧ conds m' = conds m ∧
    ll_repr (lheap m') (delete lp ls) ∧
    ll_deallocs (lheap m') = rev (dealloc_calls q) ++ ll_deallocs (lheap m).
Proof.
  intros Hr Hl Hq. unfold q_list_destroy. rewrite (bind_done _ _ _ _ _ (read_q_at _ _ _ Hq)).
  cbn [msg_list].
  destruct (ll_destroy_law _ _ _ _ Hr Hl) as (h' & E & Hr' & Hd).
  rewrite (bind_done _ _ _ _ _ (lift_done _ _ _ _ E)).
  erewrite bind_done by (eapply write_q_done; exact Hq).
  eexists. split; [done|]. by split_and!.
Qed.

Lemma free_q_done m p s : queues m !! p = Some s ->
  free_q (Some p) m = Done (tt, set_queues (delete p) m).
Proof. intros Hq. unfold free_q. by rewrite Hq. Qed.

Lemma mutex_init_cases m p :
  (∃ m', mutex_init (Some p) m = Done (0%Z, m') ∧ lheap m' = lheap m ∧
     queues m' = queues m ∧ mutexes m' = {[p]} ∪ mutexes m ∧ conds m' = conds m) ∨
  (∃ rc m', rc ≠ 0%Z ∧ mutex_init (Some p) m = Done (rc, m') ∧ lheap m' = lheap m ∧
     same_objects m m').
Proof.
  unfold mutex_init, pthread_answer, bind. simpl.
  destruct (decide (default 0%Z (head (pthread_rc m)) = 0%Z)) as [->|]; [left|right].
  - eexists. by split_and!.
  - eexists _, _. by split_and!.
Qed.

Lemma cond_init_cases m p :
  (∃ m', cond_init (Some p) m = Done (0%Z, m') ∧ lheap m' = lheap m ∧
     queues m' = queues m ∧ mutexes m' = mutexes m ∧ conds m' = {[p]} ∪ conds m) ∨
  (∃ rc m', rc ≠ 0%Z ∧ cond_init (Some p) m = Done (rc, m') ∧ lheap m' = lheap m ∧
     same_objects m m').
Proof.
  unfold cond_init, pthread_answer, bind. simpl.
  destruct (decide (default 0%Z (head (pthread_rc m)) = 0%Z)) as [->|]; [left|right].
  - eexists. by split_and!.
  - eexists _, _. by split_and!.
Qed.

Lemma mutex_destroy_done m p :
  p ∈ mutexes m -> mutex_destroy (Some p) m = Done (tt, set_mutexes (.∖ {[p]}) m).
Proof. intros Hp. unfold mutex_destroy. by rewrite decide_True. Qed.

Lemma cond_destroy_done m p :
  p ∈ conds m -> cond_destroy (Some p) m = Done (tt, set_conds (.∖ {[p]}) m).
Proof. intros Hp. unfold cond_destroy. by rewrite decide_True. Qed.

(** The clean-up of a failed creation. *)
Lemma init_undo m0 m p lp ls {A} (k : M (qmem H) A) :
  queues m0 !! p = None -> ls !! lp = None -> queues m = <[p := Q (Some lp) 0]> (queues m0) ->
  mutexes m = mutexes m0 -> conds m = conds m0 -> ll_repr (lheap m) (<[lp := []]> ls) ->
  ∃ m', (q_list_destroy (Some p) ;;; free_q (Some p) ;;; k) m = k m' ∧
    same_objects m0 m' ∧ ll_repr (lheap m') ls.
Proof.
  intros Hn Hl Hq Hm Hc Hr.
  destruct (q_list_destroy_correct m p lp 0 [] _ Hr) as (m1 & E & Hq1 & Hm1 & Hc1 & Hr1 & _);
    [by rewrite lookup_insert_eq|by rewrite Hq, lookup_insert_eq|].
  rewrite (bind_done _ _ _ _ _ E).
  erewrite bind_done by (eapply free_q_done; by rewrite Hq1, lookup_insert_eq).
  eexists. split; [done|]. rewrite delete_insert_id in Hr1 by done. split; [|done].
  split_and!; simpl; [|congruence..]. rewrite Hq1, Hq, insert_insert_eq.
  by apply delete_insert_id.
Qed.

Lemma init_undo_mutex m0 m p lp ls {A} (k : M (qmem H) A) :
  queues m0 !! p = None -> (p ∉ mutexes m0) -> ls !! lp = None ->
  queues m = <[p := Q (Some lp) 0]> (queues m0) ->
  mutexes m = {[p]} ∪ mutexes m0 -> conds m = conds m0 -> ll_repr (lheap m) (<[lp := []]> ls) ->
  ∃ m', (q_list_destroy (Some p) ;;; mutex_destroy (Some p) ;;; free_q (Some p) ;;; k) m = k m' ∧
    same_objects m0 m' ∧ ll_repr (lheap m') ls.
Proof.
  intros Hn Hp Hl Hq Hm Hc Hr.
  destruct (q_list_destroy_correct m p lp 0 [] _ Hr) as (m1 & E & Hq1 & Hm1 & Hc1 & Hr1 & _);
    [by rewrite lookup_insert_eq|by rewrite Hq, lookup_insert_eq|].
  rewrite (bind_done _ _ _ _ _ E).
  erewrite bind_done by (apply mutex_destroy_done; rewrite Hm1, Hm; set_solver).
  erewrite bind_done by (eapply free_q_done; simpl; by rewrite Hq1, lookup_insert_eq).
  eexists. split; [done|]. rewrite delete_insert_id in Hr1 by done. split; [|done].
  split_and!; simpl; [| |congruence].
  - rewrite Hq1, Hq, insert_insert_eq. by apply delete_insert_id.
  - rewrite Hm1, Hm. set_solver.
Qed.

(** C39: [msg_q_init] either gives an empty queue that is not unblocked, in
    a struct of its own, with its list, mutex and condition variable
    initialised, or reports the failure and gives back all it had acquired
    (struct, list, mutex) without touching the caller's handle; what was there
    before is there after.  It never reaches undefined behaviour. *)
Theorem msg_q_init_all_or_nothing m ls old :
  mem_ok m ls ->
  ∃ rv out m', msg_q_init (Some old) m = Done ((rv, out), m') ∧
    ((rv = msq_q_err_val eMSG_Q_SUCCESS ∧ out = Some (Some (qbrk m)) ∧
      (∃ lp, queues m' = <[qbrk m := Q (Some lp) 0]> (queues m) ∧ ls !! lp = None ∧
             ll_repr (lheap m') (<[lp := []]> ls)) ∧
      mutexes m' = {[qbrk m]} ∪ mutexes m ∧ conds m' = {[qbrk m]} ∪ conds m) ∨
     (rv = msq_q_err_val eMSG_Q_FAILURE_GENERAL ∧ out = Some old ∧
      same_objects m m' ∧ ll_repr (lheap m') ls)).
Proof.
  intros [Hr Hfresh]. destruct (Hfresh (qbrk m)) as (Hn & Hnm & Hnc); [lia|].
  unfold msg_q_init.
  destruct (calloc_q_cases m) as [(m1 & E & Ho & Hh)|E]; rewrite (bind_done _ _ _ _ _ E).
  { eexists _, _, m1. split; [done|]. right. by rewrite Hh. }
  set (m1 := QMem _ _ _ _ _ _ _) in *.
  assert (Hq1 : queues m1 !! qbrk m = Some (Q None 0)) by (simpl; by rewrite lookup_insert_eq).
  destruct (q_list_init_cases m1 _ _ ls Hr Hq1)
    as [(lp & m2 & E2 & Hq2 & Hm2 & Hc2 & Hl & Hr2)|(m2 & E2 & (Hq2 & Hm2 & Hc2) & Hr2)];
    rewrite (bind_done _ _ _ _ _ E2); cbn [linked_list_err_val].
  2: { rewrite decide_True by done.
    erewrite bind_done by (eapply free_q_done; by rewrite Hq2).
    eexists _, _, _. split; [done|]. right. split_and!; try done.
    split_and!; simpl; [|done..]. rewrite Hq2. simpl. by apply delete_insert_id. }
  rewrite decide_False by lia. simpl in Hq2. rewrite insert_insert_eq in Hq2.
  destruct (mutex_init_cases m2 (qbrk m))
    as [(m3 & E3 & Hh3 & Hq3 & Hm3 & Hc3)|(rc & m3 & Hrc & E3 & Hh3 & Hq3 & Hm3 & Hc3)];
    rewrite (bind_done _ _ _ _ _ E3).
  2: { rewrite decide_True by done.
    edestruct (init_undo m m3 (qbrk m) lp ls (A := Z * option ptr)) as (m' & Ek & Ho & Hr');
      [done|done|by rewrite Hq3|by rewrite Hm3, Hm2|by rewrite Hc3, Hc2|by rewrite Hh3|].
    eexists _, _, m'. rewrite Ek. split; [done|]. by right. }
  rewrite decide_False by lia.
  destruct (cond_init_cases m3 (qbrk m))
    as [(m4 & E4 & Hh4 & Hq4 & Hm4 & Hc4)|(rc & m4 & Hrc & E4 & Hh4 & Hq4 & Hm4 & Hc4)];
    rewrite (bind_done _ _ _ _ _ E4).
  2: { rewrite decide_True by done.
    edestruct (init_undo_mutex m m4 (qbrk m) lp ls (A := Z * option ptr)) as (m' & Ek & Ho & Hr');
      [done..|by rewrite Hq4, Hq3|by rewrite Hm4, Hm3, Hm2|by rewrite Hc4, Hc3, Hc2|by rewrite Hh4, Hh3|].
    eexists _, _, m'. rewrite Ek. split; [done|]. by right. }
  rewrite decide_False by lia.
  erewrite bind_done by (eapply write_q_done; by rewrite Hq4, Hq3, Hq2, lookup_insert_eq).
  eexists _, _, _. split; [done|]. left. split_and!; [done|done| |simpl..].
  - exists lp. simpl. rewrite Hq4, Hq3, Hq2, insert_insert_eq. split_and!; [done..|].
    by rewrite Hh4, Hh3.
  - by rewrite Hm4, Hm3, Hm2.
  - by rewrite Hc4, Hc3, Hc2.
Qed.

(** [msg_q_destroy] on a live queue frees everything the queue owns: the
    struct, the list with all its elements (calling dealloc exactly once on
    each message still queued that has one), the mutex and the condition
    variable, clears the caller's handle, and touches nothing else. *)
Theorem msg_q_destroy_frees_all m ls p lp u q :
  ll_repr (lheap m) ls -> ls !! lp = Some q -> queues m !! p = Some (Q (Some lp) u) ->
  p ∈ mutexes m -> p ∈ conds m ->
  ∃ m', msg_q_destroy (Some (Some p)) m = Done ((msq_q_err_val eMSG_Q_SUCCESS, Some None), m') ∧
    queues m' = delete p (queues m) ∧ mutexes m' = mutexes m ∖ {[p]} ∧
    conds m' = conds m ∖ {[p]} ∧ ll_repr (lheap m') (delete lp ls) ∧
    ll_deallocs (lheap m') = rev (dealloc_calls q) ++ ll_deallocs (lheap m).
Proof.
  intros Hr Hl Hq Hm Hc. unfold msg_q_destroy.
  destruct (q_list_destroy_correct m p lp u q _ Hr Hl Hq) as (m1 & E & Hq1 & Hm1 & Hc1 & Hr1 & Hd).
  rewrite (bind_done _ _ _ _ _ E).
  erewrite bind_done by (apply mutex_destroy_done; by rewrite Hm1).
  erewrite bind_done by (apply cond_destroy_done; simpl; by rewrite Hc1).
  erewrite bind_done by (eapply write_q_done; simpl; by rewrite Hq1, lookup_insert_eq).
  erewrite bind_done by (eapply free_q_done; simpl; by rewrite lookup_insert_eq).
  eexists. split; [done|]. simpl. rewrite Hm1, Hc1. split_and!; try done.
  by rewrite delete_insert_eq, Hq1, delete_insert_eq.
Qed.
End lifecycle.

(** * Witnesses *)

(** One queue made by [msg_q_init] on an empty memory, and two idle threads:
    thread 1 receives and goes to sleep, thread 2 sends and wakes it up. *)
Module Demo.
Definition mem0 (rcs : list Z) : qmem heap := QMem (empty_heap []) ∅ ∅ ∅ 1 [] rcs.

Definition created : qmem heap :=
  match msg_q_init (Some None) (mem0 []) with Done (_, m) => m | _ => mem0 [] end.

Definition sys0 : sys heap := Sys created None {[1%positive := Idle; 2%positive := Idle]}.

Lemma mem0_ok rcs : mem_ok (mem0 rcs) ∅.
Proof.
  split; [|intros l _; split_and!; set_solver].
  exists ∅. split; [apply heap_repr_empty|by rewrite fmap_empty].
Qed.

Lemma created_queue : queue_at 1 created 1 0 [].
Proof.
  split; [reflexivity|]. destruct (heap_repr_new (empty_heap []) (lheap created) ∅) as [_ Hr];
    [apply heap_repr_empty| |reflexivity..|].
  - exists (LState None None). split_and!; [done..|constructor|constructor].
  - eexists. split; [exists {[1%positive := []]}; split; [exact Hr|reflexivity]|reflexivity].
Qed.

Lemma sys0_started : started 1 sys0.
Proof.
  split_and!; [exists 1%positive; exact created_queue|done|].
  intros t p Hp. simpl in Hp. apply lookup_insert_Some in Hp as [[_ <-]|[_ Hp]]; [done|].
  by apply lookup_singleton_Some in Hp as [_ <-].
Qed.

(** Extends the run [S] by a step. *)
Ltac snoc S tac :=
  let S' := fresh "S" in
  pose proof (steps_step _ _ _ _ _ _ S ltac:(tac)) as S'; vm_compute in S';
  clear S; rename S' into S.

Ltac sleep :=
  pose proof (steps_refl 1 sys0) as S;
  snoc S ltac:(eapply (step_call _ _ _ _ 1%positive (Rcv (Some None))); vm_compute; reflexivity);
  snoc S ltac:(eapply (step_lock _ _ _ 1%positive); vm_compute; reflexivity);
  snoc S ltac:(eapply (step_rcv_enter _ _ _ _ _ 1%positive); vm_compute; reflexivity);
  snoc S ltac:(eapply (step_rcv_wait _ _ _ _ _ 1%positive); vm_compute; reflexivity).

Lemma sleeping : ∃ m, steps 1 sys0 [EvNone; EvNone; EvNone; EvNone]
  (Sys m None {[1%positive := RcvWait (Some None); 2%positive := Idle]}).
Proof. sleep. eexists. exact S. Qed.

(** Thread 2 has just unblocked the queue thread 1 was asleep on. *)
Lemma unblocking : ∃ m, steps 1 sys0 [EvNone; EvNone; EvNone; EvNone; EvNone; EvNone; EvNone]
    (Sys m (Some 2%positive)
         {[1%positive := RcvWake (Some None); 2%positive := Unlocking 0 None]}) ∧
  queues m !! 1%positive = Some (Q (Some 1%positive) 1).
Proof.
  sleep. snoc S ltac:(eapply (step_call _ _ _ _ 2%positive Unblock); vm_compute; reflexivity).
  snoc S ltac:(eapply (step_lock _ _ _ 2%positive); vm_compute; reflexivity).
  snoc S ltac:(eapply (step_crit _ _ _ _ _ _ 2%positive);
               [vm_compute; reflexivity|reflexivity|vm_compute; reflexivity|apply wakes_all]).
  eexists. split; [exact S|reflexivity].
Qed.

(** Thread 2 sent message 7, which woke thread 1 up, which took it. *)
Lemma delivered : ∃ m, steps 1 sys0
    ([EvNone; EvNone; EvNone; EvNone; EvNone; EvNone] ++
     [EvSnd (Some 7%positive, None); EvNone; EvNone; EvTake (Some 7%positive)])
    (Sys m (Some 1%positive) {[1%positive := Unlocking 0 (Some (Some 7%positive));
                               2%positive := Returned 0 None]}).
Proof.
  sleep. snoc S ltac:(eapply (step_call _ _ _ _ 2%positive (Snd (Some 7%positive) None)); vm_compute; reflexivity).
  snoc S ltac:(eapply (step_lock _ _ _ 2%positive); vm_compute; reflexivity).
  snoc S ltac:(eapply (step_crit _ _ _ _ _ _ 2%positive);
               [vm_compute; reflexivity|reflexivity|vm_compute; reflexivity|apply (wakes_one _ 1%positive); reflexivity]).
  snoc S ltac:(eapply (step_unlock _ _ _ _ 2%positive); vm_compute; reflexivity).
  snoc S ltac:(eapply (step_relock _ _ _ 1%positive); vm_compute; reflexivity).
  snoc S ltac:(eapply (step_rcv_take _ _ _ _ _ _ 1%positive); vm_compute; reflexivity).
  eexists. exact S.
Qed.

End Demo.

Lemma msg_q_fifo_witness :
  ∃ tr s, steps 1 Demo.sys0 tr s ∧ sent tr = [Some 7%positive] ∧
    ∃ lp u q, queue_at 1 (mem s) lp u q ∧ sent tr = taken tr ++ rev q.*1.
Proof.
  destruct Demo.delivered as (m & S).
  destruct (msg_q_fifo 1 _ _ _ Demo.sys0_started S) as (lp & u & q & Hat & _ & Hf).
  eexists _, _. split; [exact S|]. split; [reflexivity|]. exists lp, u, q. split; [exact Hat|].
  apply Hf. by vm_compute; set_solver.
Defined.

Lemma msg_q_no_lost_wakeup_witness :
  ∃ tr s, steps 1 Demo.sys0 tr s ∧ pcs s !! 1%positive = Some (RcvWait (Some None)) ∧
    ∃ lp q, queue_at 1 (mem s) lp 0 q ∧ length q <= count woken (pcs s).
Proof.
  destruct Demo.sleeping as (m & S).
  destruct (msg_q_no_lost_wakeup 1 _ _ _ 1%positive (Some None) Demo.sys0_started S)
    as (lp & q & Hat & Hlen & _); [reflexivity|].
  eexists _, _. split; [exact S|]. split; [reflexivity|]. by exists lp, q.
Defined.

Lemma msg_q_progress_witness :
  ∃ tr s, steps 1 Demo.sys0 tr s ∧ pcs s !! 1%positive = Some (RcvWake (Some None)) ∧
    ∃ t' p1 ev s' p2, pcs s !! t' = Some p1 ∧ step 1 s ev s' ∧ pcs s' !! t' = Some p2 ∧ p1 ≠ p2.
Proof.
  destruct Demo.unblocking as (m & S & _).
  destruct (msg_q_progress 1 _ _ _ 1%positive (RcvWake (Some None)) Demo.sys0_started S)
    as (t' & p1 & ev & s' & p2 & _ & ? & ? & ? & ?); [reflexivity|reflexivity|].
  eexists _, _. split; [exact S|]. split; [reflexivity|]. by exists t', p1, ev, s', p2.
Defined.

Lemma msg_q_init_all_or_nothing_witness :
  ∃ rv out m', msg_q_init (Some None) (Demo.mem0 [0; 12]%Z) = Done ((rv, out), m') ∧
    rv = msq_q_err_val eMSG_Q_FAILURE_GENERAL ∧ out = Some None ∧ queues m' = ∅ ∧ mutexes m' = ∅.
Proof.
  destruct (msg_q_init_all_or_nothing (Demo.mem0 [0; 12]%Z) ∅ None (Demo.mem0_ok _))
    as (rv & out & m' & E & [(-> & _)|(-> & -> & (Hq & Hm & _) & _)]); [by vm_compute in E|].
  exists (msq_q_err_val eMSG_Q_FAILURE_GENERAL), (Some None), m'.
  rewrite Hq, Hm. split; [exact E|]. by split_and!.
Defined.

Lemma msg_q_destroy_frees_all_witness :
  ∃ m', msg_q_destroy (Some (Some 1%positive)) Demo.created =
      Done ((msq_q_err_val eMSG_Q_SUCCESS, Some None), m') ∧
    queues m' = ∅ ∧ mutexes m' = ∅ ∧ conds m' = ∅.
Proof.
  destruct Demo.created_queue as (Hq & ls & Hr & Hl).
  destruct (msg_q_destroy_frees_all Demo.created ls 1 1 0 [] Hr Hl Hq)
    as (m' & E & Hq' & Hm' & Hc' & _); [by vm_compute..|].
  exists m'. rewrite Hq', Hm', Hc'. split; [exact E|]. by vm_compute.
Defined.

Lemma msg_q_unblock_final_witness :
  ∃ tr s, steps 1 Demo.sys0 tr s ∧ sent [EvNone] = [] ∧
    ∀ t out, pcs s !! t ≠ Some (RcvWait out).
Proof.
  destruct Demo.unblocking as (m & S & Hq).
  match type of S with steps _ _ _ ?s1 =>
    assert (Hst : step 1 s1 EvNone (Sys m None (<[2%positive := Returned 0 None]> (pcs s1))))
      by (apply step_unlock; reflexivity);
    assert (S1 : steps 1 s1 [EvNone] (Sys m None (<[2%positive := Returned 0 None]> (pcs s1))))
      by (apply (steps_step _ _ [] _ _ _ (steps_refl _ _) Hst))
  end.
  destruct (msg_q_unblock_final 1 _ _ _ _ _ 1%positive 1 Demo.sys0_started S Hq ltac:(lia) S1)
    as (Hs & Hw & _).
  eexists _, _. split; [exact (steps_step _ _ _ _ _ _ S Hst)|]. split; [exact Hs|exact Hw].
Defined.
