(* ===== verification/LocHeap.v ===== *)
(** The heap of [gps/utils/LocHeap.cpp]: a binary tree of nodes that keep the
    size of their subtree, ordered from parent to child by the clients' [ranks]
    method.  The tree owns its nodes and nothing else points into it, so a
    pointer to a node is modelled by the subtree it points to; the rankable
    objects belong to the clients and are known by their address. *)

From Stdlib Require Import Sorted.
From S2P Require Import Prelude.

(** * The ranking the clients provide *)

(** What the heap's order relies on: on the objects [D] that clients push,
    [outRanks] of LocHeap.h is a strict weak order.  LocTimer provides an
    instance. *)
Class Ranking {A} (D : A -> Prop) (ranks : A -> A -> Z) : Prop := {
  ranks_asym a b : D a -> D b -> (0 < ranks a b)%Z -> (ranks b a <= 0)%Z;
  ranks_trans a b c : D a -> D b -> D c ->
    (ranks a b <= 0)%Z -> (ranks b c <= 0)%Z -> (ranks a c <= 0)%Z
}.

(** * Trees of nodes *)

(** A [LocHeapNode*]: null, or a node with its four fields.  The size, an int, is not
    bounded here: a heap of 2^31 nodes does not fit in memory. *)
Inductive tree (A : Type) : Type :=
  | Null
  | Node (mSize : Z) (mLeft mRight : tree A) (mData : A).
Arguments Null {A}.
Arguments Node {A} mSize mLeft mRight mData.

Section heap.
Context {A : Type} `{EqDecision A} (ranks : A -> A -> Z).

Definition outRanks (a b : A) : bool := bool_decide (0 < ranks a b)%Z.

(** [new LocHeapNode(data)]. *)
Definition new_node (data : A) : tree A := Node 1 Null Null data.

Definition mSize (t : tree A) : Z := match t with Null => 0 | Node n _ _ _ => n end.
Definition mData (t : tree A) : option A := match t with Null => None | Node _ _ _ d => Some d end.

(** [t1->outRanks( *t2 )] for nodes; not called on null. *)
Definition node_outRanks (t1 t2 : tree A) : bool :=
  match t1, t2 with
  | Node _ _ _ a, Node _ _ _ b => outRanks a b
  | _, _ => false
  end.

(** [this->push(node)], where the node is the new one that holds [data]: it has
    size 1 and no subtrees until it is linked in. *)
Fixpoint node_push (this : tree A) (data : A) : tree A :=
  match this with
  | Null => Null
  | Node sz l r d =>
    let '(d, data) := if outRanks data d then (data, d) else (d, data) in
    match l, r with
    | Null, _ => Node (sz + 1) (new_node data) r d
    | _, Null => Node (sz + 1) l (new_node data) d
    | _, _ => if (mSize l <=? mSize r)%Z
              then Node (sz + 1) (node_push l data) r d
              else Node (sz + 1) l (node_push r data) d
    end
  end.

(** [pop(top)] on the tree [top] whose own data is [data]: the popped node and
    what becomes of [top].  Each level swaps its data with that of the subtree
    it then pops from. *)
Fixpoint pop_with (top : tree A) (data : A) : tree A * tree A :=
  match top with
  | Null => (Null, Null)
  | Node sz l r _ =>
    match l, r with
    | Null, Null => (Node (sz - 1) l r data, Null)
    | Null, Node _ _ _ sub =>
      let '(popped, r') := pop_with r data in (popped, Node (sz - 1) l r' sub)
    | Node _ _ _ sub, Null =>
      let '(popped, l') := pop_with l data in (popped, Node (sz - 1) l' r sub)
    | Node _ _ _ subl, Node _ _ _ subr =>
      if outRanks subl subr
      then let '(popped, l') := pop_with l data in (popped, Node (sz - 1) l' r subl)
      else let '(popped, r') := pop_with r data in (popped, Node (sz - 1) l r' subr)
    end
  end.

Definition node_pop (top : tree A) : tree A * tree A :=
  match top with
  | Null => (Null, Null)
  | Node _ _ _ d => pop_with top d
  end.

(** [remove(top, data)]: the node removed, null if none, and what becomes of
    [top]. *)
Fixpoint node_remove (top : tree A) (data : A) : tree A * tree A :=
  match top with
  | Null => (Null, Null)
  | Node sz l r d =>
    if decide (data = d) then node_pop top
    else if outRanks data d then (Null, top)
    else
      let '(removed, l') := match l with Null => (Null, l) | _ => node_remove l data end in
      match removed with
      | Node _ _ _ _ => (removed, Node (sz - 1) l' r d)
      | Null =>
        let '(removed, r') := match r with Null => (Null, r) | _ => node_remove r data end in
        match removed with
        | Node _ _ _ _ => (removed, Node (sz - 1) l' r' d)
        | Null => (Null, Node sz l' r' d)
        end
      end
  end.

Fixpoint checkNodes (t : tree A) : bool :=
  match t with
  | Null => true
  | Node sz l r d =>
    let check c := match c with
                   | Null => true
                   | Node _ _ _ dc => negb (outRanks dc d) && checkNodes c
                   end in
    check l && check r && (sz - mSize l - mSize r =? 1)%Z
  end.

(** * LocHeap *)

(** The heap is its [mTree]. *)
Definition heap_push (mTree : tree A) (node : A) : tree A :=
  match mTree with
  | Null => new_node node
  | _ => node_push mTree node
  end.

Definition heap_peek (mTree : tree A) : option A := mData mTree.

(** [pop] and [remove] delete the node they detached; a node that still had
    subtrees would take them along, which the returned tree shows. *)
Definition heap_pop (mTree : tree A) : option A * tree A :=
  match mTree with
  | Null => (None, Null)
  | _ => let '(heapNode, mTree) := node_pop mTree in (mData heapNode, mTree)
  end.

Definition heap_remove (mTree : tree A) (rankable : A) : option A * tree A :=
  match mTree with
  | Null => (None, Null)
  | _ => let '(heapNode, mTree) := node_remove mTree rankable in (mData heapNode, mTree)
  end.

Definition checkTree (mTree : tree A) : bool := checkNodes mTree.
Definition getTreeSize (mTree : tree A) : Z := mSize mTree.

(** * What a heap means *)

(** The objects in the tree. *)
Fixpoint objects (t : tree A) : list A :=
  match t with
  | Null => []
  | Node _ l r d => d :: objects l ++ objects r
  end.

(** Every node's size field counts its subtree, itself included. *)
Fixpoint sizes_ok (t : tree A) : Prop :=
  match t with
  | Null => True
  | Node sz l r _ => sz = (mSize l + mSize r + 1)%Z ∧ sizes_ok l ∧ sizes_ok r
  end.

(** [d] may be the parent of [t]. *)
Definition below (t : tree A) (d : A) : Prop :=
  match t with Null => True | Node _ _ _ c => (ranks c d <= 0)%Z end.

Fixpoint ordered (t : tree A) : Prop :=
  match t with
  | Null => True
  | Node _ l r d => below l d ∧ below r d ∧ ordered l ∧ ordered r
  end.

Definition heap_ok (t : tree A) : Prop := sizes_ok t ∧ ordered t.

(** The left subtree is never the smaller one, nor more than one node larger. *)
Fixpoint balanced (t : tree A) : Prop :=
  match t with
  | Null => True
  | Node _ l r _ => (mSize r <= mSize l <= mSize r + 1)%Z ∧ balanced l ∧ balanced r
  end.

Fixpoint height (t : tree A) : nat :=
  match t with Null => 0 | Node _ l r _ => S (max (height l) (height r)) end.

(** ** Lemmas *)

Lemma outRanks_true a b : outRanks a b = true <-> (0 < ranks a b)%Z.
Proof. apply bool_decide_eq_true. Qed.
Lemma outRanks_false a b : outRanks a b = false <-> (ranks a b <= 0)%Z.
Proof. unfold outRanks. rewrite bool_decide_eq_false. lia. Qed.

Lemma sizes_ok_length t : sizes_ok t -> mSize t = Z.of_nat (length (objects t)).
Proof.
  induction t as [|sz l IHl r IHr d]; [done|]. intros (-> & Hl & Hr).
  simpl. rewrite length_app, IHl, IHr by done. lia.
Qed.

Lemma checkNodes_ok t : checkNodes t = true <-> heap_ok t.
Proof.
  unfold heap_ok. induction t as [|sz l IHl r IHr d]; [done|].
  simpl. rewrite !andb_true_iff, Z.eqb_eq.
  destruct l as [|? ? ? dl], r as [|? ? ? dr]; cbn [below];
    rewrite ?andb_true_iff, ?negb_true_iff, ?outRanks_false, ?IHl, ?IHr; simpl; intuition lia.
Qed.

Lemma null_or_not (t : tree A) : t = Null ∨ t ≠ Null.
Proof. destruct t; [by left|by right]. Qed.

(** What [node_push] drops into a subtree, and where. *)
Definition upper (d e : A) : A * A := if outRanks d e then (d, e) else (e, d).

Lemma node_push_eq sz l r e d a b :
  upper d e = (a, b) ->
  (l = Null -> node_push (Node sz l r e) d = Node (sz + 1) (new_node b) r a) ∧
  (l ≠ Null -> r = Null -> node_push (Node sz l r e) d = Node (sz + 1) l (new_node b) a) ∧
  (l ≠ Null -> r ≠ Null -> node_push (Node sz l r e) d =
     if (mSize l <=? mSize r)%Z then Node (sz + 1) (node_push l b) r a
     else Node (sz + 1) l (node_push r b) a).
Proof. unfold upper. intros Hab. simpl. rewrite Hab. by destruct l, r. Qed.

Lemma upper_perm d e a b : upper d e = (a, b) -> d :: [e] ≡ₚ a :: [b].
Proof. unfold upper. case_match; intros [= <- <-]; [done|apply perm_swap]. Qed.

(** Case analysis on where a push goes: the four shapes of the subtrees. *)
Ltac push_cases l r e d a b Hab :=
  destruct (upper d e) as [a b] eqn:Hab;
  match goal with |- context [node_push (Node ?sz l r e) d] =>
    destruct (node_push_eq sz l r e d a b Hab) as (Hn1 & Hn2 & Hn3);
    destruct (null_or_not l) as [->|Hl]; [rewrite Hn1 by done|
      destruct (null_or_not r) as [->|Hr]; [rewrite Hn2 by done|
        rewrite Hn3 by done; case_match]]; clear Hn1 Hn2 Hn3
  end.

Lemma node_push_objects t d : t ≠ Null -> objects (node_push t d) ≡ₚ d :: objects t.
Proof.
  revert d; induction t as [|sz l IHl r IHr e]; [done|]. intros d _.
  push_cases l r e d a b Hab; apply upper_perm in Hab; cbn [objects new_node app];
    rewrite ?IHl, ?IHr by done.
  - change (a :: b :: objects r) with ([a; b] ++ objects r). by rewrite <- Hab.
  - rewrite app_nil_r, <- Permutation_cons_append.
    change (a :: b :: objects l) with ([a; b] ++ objects l). by rewrite <- Hab.
  - change (a :: (b :: objects l) ++ objects r) with ([a; b] ++ objects l ++ objects r).
    by rewrite <- Hab.
  - rewrite <- Permutation_middle.
    change (a :: b :: objects l ++ objects r) with ([a; b] ++ objects l ++ objects r).
    by rewrite <- Hab.
Qed.

Lemma node_push_size t d : t ≠ Null -> mSize (node_push t d) = (mSize t + 1)%Z.
Proof.
  destruct t as [|sz l r e]; [done|]. intros _. by push_cases l r e d a b Hab.
Qed.

Lemma node_push_sizes t d : sizes_ok t -> sizes_ok (node_push t d).
Proof.
  revert d; induction t as [|sz l IHl r IHr e]; [done|]. intros d (-> & Hsl & Hsr).
  push_cases l r e d a b Hab; cbn [sizes_ok new_node]; rewrite ?node_push_size by done;
    split_and!; auto; simpl; lia.
Qed.

(** Nothing in an ordered tree outranks its top. *)
Definition top_of (t : tree A) (d : A) : Prop := ∀ x, x ∈ objects t -> (ranks x d <= 0)%Z.

Section order.
Context {D : A -> Prop} `{!Ranking D ranks}.

(** All objects in the tree are rankable with each other. *)
Definition dom (t : tree A) : Prop := ∀ x, x ∈ objects t -> D x.

Lemma dom_node sz l r d : dom (Node sz l r d) <-> D d ∧ dom l ∧ dom r.
Proof.
  unfold dom. simpl. setoid_rewrite elem_of_cons. setoid_rewrite elem_of_app. naive_solver.
Qed.

Lemma ranks_refl a : D a -> (ranks a a <= 0)%Z.
Proof. intros Ha. destruct (decide (0 < ranks a a)%Z) as [H|]; [by apply ranks_asym in H|lia]. Qed.

Lemma below_top t d : dom t -> D d -> ordered t -> below t d -> top_of t d.
Proof.
  revert d; induction t as [|sz l IHl r IHr e]; intros d; [intros _ _ _ _ x Hx; by apply elem_of_nil in Hx|].
  rewrite dom_node. intros (He & Hdl & Hdr) HD (Hbl & Hbr & Hl & Hr) Hd x. simpl.
  rewrite elem_of_cons, elem_of_app. intros [->|[Hx|Hx]]; [done| |].
  - apply (ranks_trans x e d); auto. by apply (IHl e).
  - apply (ranks_trans x e d); auto. by apply (IHr e).
Qed.

Lemma top_below t d : top_of t d -> below t d.
Proof. destruct t; [done|]. intros H. apply H. simpl. by left. Qed.

Lemma upper_le d e a b : D d -> D e -> upper d e = (a, b) ->
  D a ∧ D b ∧ (ranks b a <= 0)%Z ∧ (ranks e a <= 0)%Z.
Proof.
  intros Hd He. unfold upper. destruct (outRanks d e) eqn:E; intros [= <- <-].
  - apply outRanks_true, ranks_asym in E; [by split_and!|done..].
  - apply outRanks_false in E. split_and!; [done..|by apply ranks_refl].
Qed.

Lemma node_push_ordered t d : dom t -> D d -> ordered t -> ordered (node_push t d).
Proof.
  revert d; induction t as [|sz l IHl r IHr e]; [done|]. intros d.
  rewrite dom_node. intros (He & Hdl & Hdr) Hd (Hbl & Hbr & Hol & Hor).
  assert (Hup : ∀ a, D a -> (ranks e a <= 0)%Z -> top_of l a ∧ top_of r a).
  { intros a Ha Hea. split; intros x Hx; apply (ranks_trans x e a); auto;
      [by apply (below_top l e)|by apply (below_top r e)]. }
  push_cases l r e d a b Hab; destruct (upper_le _ _ _ _ Hd He Hab) as (Ha & Hb & Hba & Hea);
    destruct (Hup a Ha Hea) as [Htl Htr]; simpl; split_and!; auto using top_below.
  all: apply top_below; intros x; rewrite node_push_objects, elem_of_cons by done.
  all: intros [->|Hx]; [done|auto].
Qed.

(** ** Popping *)

(** A node as [pop] detaches it: nothing hangs below it. *)
Definition detached (t : tree A) (d : A) : Prop := ∃ n, t = Node n Null Null d.

Ltac sizes := simpl in *; destruct_and?; split_and!; try done; try lia.

Lemma pop_with_spec t d : t ≠ Null ->
  ∃ popped t', pop_with t d = (popped, t') ∧ detached popped d ∧
    objects t' ≡ₚ tail (objects t) ∧
    (sizes_ok t -> sizes_ok t' ∧ mSize t' = (mSize t - 1)%Z).
Proof.
  revert d; induction t as [|sz l IHl r IHr e]; [done|]. intros d _. simpl.
  destruct l as [|sl ll lr el], r as [|sr rl rr er].
  - eexists _, _. split_and!; [done|by eexists|done|]. simpl. intros (-> & _). split; [done|lia].
  - destruct (IHr d) as (p & r' & -> & Hd & Ho & Hs); [done|].
    eexists _, _. split_and!; [done|done|by simpl; rewrite Ho|].
    intros (-> & _ & Hr). destruct (Hs Hr) as [? E]. by sizes.
  - destruct (IHl d) as (p & l' & -> & Hd & Ho & Hs); [done|].
    eexists _, _. split_and!; [done|done|by simpl; rewrite Ho|].
    intros (-> & Hl & _). destruct (Hs Hl) as [? E]. by sizes.
  - destruct (IHl d) as (p & l' & -> & Hd & Ho & Hs); [done|].
    destruct (IHr d) as (p2 & r' & -> & Hd2 & Ho2 & Hs2); [done|].
    case_match; (eexists _, _; split_and!; [done|done| |]).
    + cbn [objects]. rewrite Ho. done.
    + intros (-> & Hl & Hr). destruct (Hs Hl) as [? E]. by sizes.
    + cbn [objects tail]. rewrite Ho2. cbn [objects tail]. by rewrite <- Permutation_middle.
    + intros (-> & Hl & Hr). destruct (Hs2 Hr) as [? E]. by sizes.
Qed.

Lemma pop_with_ordered t d : dom t -> ordered t -> ordered (pop_with t d).2.
Proof.
  revert d; induction t as [|sz l IHl r IHr e]; [done|]. intros d.
  rewrite dom_node. intros (_ & Hdl & Hdr) (Hbl & Hbr & Hol & Hor).
  assert (Hsub : ∀ (c : tree A) ec, dom c -> ordered c -> mData c = Some ec -> top_of (pop_with c d).2 ec).
  { intros c ec Hdc Hc Hd. destruct (pop_with_spec c d) as (p & c' & -> & _ & Ho & _); [by destruct c|].
    intros x Hx. simpl in Hx. rewrite Ho in Hx. destruct c as [|? ? ? e']; [done|].
    simpl in Hd. injection Hd as ->. destruct Hc as (H1 & H2 & H3 & H4).
    apply dom_node in Hdc as (He & Hd1 & Hd2). simpl in Hx.
    apply elem_of_app in Hx as [Hx|Hx]; [by apply (below_top _ _ Hd1 He H3 H1)|by apply (below_top _ _ Hd2 He H4 H2)]. }
  specialize (IHl d Hdl Hol). specialize (IHr d Hdr Hor).
  simpl. destruct l as [|sl ll lr el] eqn:El, r as [|sr rl rr er] eqn:Er; [done|..];
    rewrite <- ?El, <- ?Er in *.
  - pose proof (Hsub r er Hdr Hor ltac:(by subst)) as Ht. destruct (pop_with r d) as [p r'].
    simpl in *. rewrite El. split_and!; [done|by apply top_below|done|done].
  - pose proof (Hsub l el Hdl Hol ltac:(by subst)) as Ht. destruct (pop_with l d) as [p l'].
    simpl in *. rewrite Er. split_and!; [by apply top_below|done|done|done].
  - pose proof (Hsub l el Hdl Hol ltac:(by subst)) as Htl. destruct (pop_with l d) as [p l'].
    pose proof (Hsub r er Hdr Hor ltac:(by subst)) as Htr. destruct (pop_with r d) as [p2 r'].
    simpl in *. destruct (outRanks el er) eqn:E; simpl; split_and!; try done.
    + by apply top_below.
    + rewrite Er. simpl. subst. apply dom_node in Hdl as [? _], Hdr as [? _].
      by apply ranks_asym; [..|apply outRanks_true].
    + rewrite El. simpl. by apply outRanks_false.
    + by apply top_below.
Qed.

Lemma node_pop_spec t d : mData t = Some d ->
  ∃ popped t', node_pop t = (popped, t') ∧ detached popped d ∧ objects t ≡ₚ d :: objects t' ∧
    (dom t -> heap_ok t -> heap_ok t') ∧ (sizes_ok t -> sizes_ok t' ∧ mSize t' = (mSize t - 1)%Z).
Proof.
  intros Hd. destruct (pop_with_spec t d) as (p & t' & E & Hp & Ho & Hs); [by destruct t|].
  exists p, t'. destruct t as [|sz l r e]; [done|]. injection Hd as ->.
  change (node_pop _) with (pop_with (Node sz l r d) d). split_and!; [done|done|by rewrite Ho| |done].
  intros Hdom [Hsz Hor]. split; [by apply Hs|].
  pose proof (pop_with_ordered _ d Hdom Hor) as H. by rewrite E in H.
Qed.

(** ** Removing *)

Definition is_null (t : tree A) : bool := match t with Null => true | _ => false end.

Lemma node_remove_spec t x : dom t -> D x ->
  ∃ removed t', node_remove t x = (removed, t') ∧
    ((removed = Null ∧ t' = t ∧ (ordered t -> x ∉ objects t)) ∨
     (detached removed x ∧ objects t ≡ₚ x :: objects t' ∧ (ordered t -> ordered t') ∧
      (sizes_ok t -> sizes_ok t' ∧ mSize t' = (mSize t - 1)%Z))).
Proof.
  intros Hdom Hx. induction t as [|sz l IHl r IHr d]; [eexists _, _; split; [done|]; left; split_and!;
    [done..|intros _ H; by apply elem_of_nil in H]|].
  pose proof (proj1 (dom_node _ _ _ _) Hdom) as (Hd & Hdl & Hdr).
  cbn [node_remove]. case_decide as Hxd.
  { subst. destruct (node_pop_spec (Node sz l r d) d) as (p & t' & E & Hp & Ho & Hok & Hs); [done|].
    eexists _, _. split; [done|]. right. split_and!; [done..| |done].
    intros Hor. pose proof (pop_with_ordered _ d Hdom Hor) as H'.
    change (node_pop _) with (pop_with (Node sz l r d) d) in E. by rewrite E in H'. }
  destruct (outRanks x d) eqn:Ex.
  { eexists _, _. split; [done|]. left. split_and!; [done..|]. intros (Hbl & Hbr & Hl & Hr) Hin.
    apply outRanks_true in Ex. simpl in Hin.
    enough (ranks x d <= 0)%Z by lia. apply elem_of_cons in Hin as [->|Hin]; [by apply ranks_refl|].
    apply elem_of_app in Hin as [Hin|Hin];
      [by apply (below_top _ _ Hdl Hd Hl Hbl)|by apply (below_top _ _ Hdr Hd Hr Hbr)]. }
  destruct (IHl Hdl) as (pl & l' & El & IHl'), (IHr Hdr) as (pr & r' & Er & IHr'). clear IHl IHr.
  replace (match l with Null => (Null, l) | _ => node_remove l x end) with (pl, l')
    by (rewrite <- El; by destruct l).
  replace (match r with Null => (Null, r) | _ => node_remove r x end) with (pr, r')
    by (rewrite <- Er; by destruct r).
  destruct IHl' as [(-> & -> & Hnl)|([n ->] & Hol & Hordl & Hsl)].
  - destruct IHr' as [(-> & -> & Hnr)|([n ->] & Hor & Hordr & Hsr)].
    + eexists _, _. split; [done|]. left. split_and!; [done..|].
      intros (_ & _ & Hl & Hr). simpl. rewrite elem_of_cons, elem_of_app. naive_solver.
    + eexists _, _. split; [done|]. right. split_and!; [by exists n| | |].
      * cbn [objects]. rewrite Hor, <- Permutation_middle. apply perm_swap.
      * intros (Hbl & Hbr & Hl & Hr). split_and!; [done| |done|by apply Hordr].
        apply top_below. intros y Hy. apply (below_top _ _ Hdr Hd Hr Hbr). rewrite Hor. by right.
      * intros (-> & Hl & Hr). destruct (Hsr Hr). by sizes.
  - eexists _, _. split; [done|]. right. split_and!; [by exists n| | |].
    + cbn [objects]. rewrite Hol. apply perm_swap.
    + intros (Hbl & Hbr & Hl & Hr). split_and!; [|done|by apply Hordl|done].
      apply top_below. intros y Hy. apply (below_top _ _ Hdl Hd Hl Hbl). rewrite Hol. by right.
    + intros (-> & Hl & Hr). destruct (Hsl Hl). by sizes.
Qed.

(** ** LocHeap *)

(** Calls of LocHeap's methods and what they return. *)
Inductive heap_op : Type :=
  | HPush (d : A)
  | HPeek
  | HPop
  | HRemove (d : A).

Definition run_heap_op (o : heap_op) (t : tree A) : option A * tree A :=
  match o with
  | HPush d => (None, heap_push t d)
  | HPeek => (heap_peek t, t)
  | HPop => heap_pop t
  | HRemove d => heap_remove t d
  end.

Fixpoint run_heap (os : list heap_op) (t : tree A) : list (option A) * tree A :=
  match os with
  | [] => ([], t)
  | o :: os => let '(r, t) := run_heap_op o t in
               let '(rs, t) := run_heap os t in (r :: rs, t)
  end.

(** A bag of objects, as a list whose order means nothing; [best b r]: [r] is
    an object of [b] that no object of [b] outranks, or none if [b] is empty. *)
Definition best (b : list A) (r : option A) : Prop :=
  match r with
  | None => b = []
  | Some d => d ∈ b ∧ ∀ x, x ∈ b -> (ranks x d <= 0)%Z
  end.

Inductive bag_step (b : list A) : heap_op -> option A -> list A -> Prop :=
  | bag_push d : bag_step b (HPush d) None (d :: b)
  | bag_peek r : best b r -> bag_step b HPeek r b
  | bag_pop d b' : best b (Some d) -> b ≡ₚ d :: b' -> bag_step b HPop (Some d) b'
  | bag_pop_empty : b = [] -> bag_step b HPop None b
  | bag_remove d b' : b ≡ₚ d :: b' -> bag_step b (HRemove d) (Some d) b'
  | bag_remove_absent d : d ∉ b -> bag_step b (HRemove d) None b.

Inductive bag_run : list A -> list heap_op -> list (option A) -> list A -> Prop :=
  | bag_done b : bag_run b [] [] b
  | bag_next b o r b1 os rs b2 :
      bag_step b o r b1 -> bag_run b1 os rs b2 -> bag_run b (o :: os) (r :: rs) b2.

(** [t] is a consistent heap that holds the objects [b]. *)
Definition heap_is (t : tree A) (b : list A) : Prop := heap_ok t ∧ dom t ∧ objects t ≡ₚ b.

Lemma heap_is_null : heap_is Null [].
Proof. split_and!; [done| |done]. intros x Hx. by apply elem_of_nil in Hx. Qed.

Lemma heap_is_perm t b b' : heap_is t b -> b ≡ₚ b' -> heap_is t b'.
Proof. intros (? & ? & Hp) Hb. split_and!; [done..|by rewrite Hp]. Qed.

Lemma heap_push_is t b d : heap_is t b -> D d -> heap_is (heap_push t d) (d :: b).
Proof.
  intros ([Hs Ho] & Hdom & Hp) Hd. destruct t as [|sz l r e].
  { simpl in Hp. apply Permutation_nil_l in Hp as <-. split_and!; [by repeat split| |done].
    intros x. simpl. by intros ->%list_elem_of_singleton. }
  assert (Ho' : objects (heap_push (Node sz l r e) d) ≡ₚ d :: objects (Node sz l r e))
    by by apply node_push_objects.
  split_and!; [split| |by rewrite Ho', Hp].
  - by apply node_push_sizes.
  - by apply node_push_ordered.
  - intros x. rewrite Ho', elem_of_cons. intros [->|Hx]; [done|by apply Hdom].
Qed.

Lemma heap_peek_is t b : heap_is t b -> best b (heap_peek t).
Proof.
  intros ([Hs Ho] & Hdom & Hp). destruct t as [|sz l r d]; simpl in *.
  { by apply Permutation_nil_l in Hp as <-. }
  destruct Ho as (Hbl & Hbr & Hl & Hr). apply dom_node in Hdom as (Hd & Hdl & Hdr).
  split; [rewrite <- Hp; by left|].
  intros x. rewrite <- Hp, elem_of_cons, elem_of_app. intros [->|[Hx|Hx]]; [by apply ranks_refl|..].
  - by apply (below_top _ _ Hdl Hd Hl Hbl).
  - by apply (below_top _ _ Hdr Hd Hr Hbr).
Qed.

Lemma heap_pop_is t b r t' : heap_is t b -> heap_pop t = (r, t') ->
  r = heap_peek t ∧ best b r ∧
  match r with
  | None => b = [] ∧ t' = Null
  | Some d => ∃ b', b ≡ₚ d :: b' ∧ heap_is t' b'
  end.
Proof.
  intros Hi E. pose proof (heap_peek_is _ _ Hi) as Hb. destruct Hi as (Hok & Hdom & Hp).
  destruct t as [|sz l rt d]; simpl in *.
  { injection E as <- <-. by apply Permutation_nil_l in Hp as <-. }
  destruct (node_pop_spec (Node sz l rt d) d) as (p & t1 & E1 & [n ->] & Ho & Hok1 & _); [done|].
  simpl in E1. unfold heap_peek in Hb. cbn [node_pop] in E. simpl in E. rewrite E1 in E.
  injection E as <- <-. split_and!; [done|done|]. exists (objects t1).
  split; [rewrite <- Hp; exact Ho|]. split_and!; [by apply Hok1| |done].
  intros x Hx. apply Hdom. rewrite Ho. by right.
Qed.

Lemma heap_remove_is t b d r t' : heap_is t b -> D d -> heap_remove t d = (r, t') ->
  (r = None ∧ (d ∉ b) ∧ t' = t) ∨ (r = Some d ∧ ∃ b', b ≡ₚ d :: b' ∧ heap_is t' b').
Proof.
  intros ([Hs Ho] & Hdom & Hp) Hd E. destruct (node_remove_spec t d Hdom Hd)
    as (n & t1 & E1 & [(-> & -> & Hn)|([z ->] & Hob & Hord & Hsz)]).
  - left. rewrite <- Hp. unfold heap_remove in E. rewrite E1 in E.
    destruct t; injection E as <- <-; (split_and!; [done|by apply Hn|done]).
  - right. destruct t as [|sz l rt e]; [done|]. unfold heap_remove in E. rewrite E1 in E.
    injection E as <- <-. split; [done|]. exists (objects t1). split; [by rewrite <- Hp|].
    split_and!; [split; [by apply Hsz|by apply Hord]| |done].
    intros x Hx. apply Hdom. rewrite Hob. by right.
Qed.

(** The object a call passes can be ranked. *)
Definition op_dom (o : heap_op) : Prop :=
  match o with HPush d | HRemove d => D d | _ => True end.

Lemma run_heap_op_is t b o r t' : heap_is t b -> op_dom o -> run_heap_op o t = (r, t') ->
  ∃ b', bag_step b o r b' ∧ heap_is t' b'.
Proof.
  intros Hi Hd E. destruct o as [d| | |d]; simpl in E.
  - injection E as <- <-. exists (d :: b). split; [constructor|by apply heap_push_is].
  - injection E as <- <-. exists b. split; [constructor; by apply heap_peek_is|done].
  - destruct (heap_pop_is _ _ _ _ Hi E) as (_ & Hb & Hr). destruct r as [d|].
    + destruct Hr as (b' & Hp & Hi'). exists b'. split; [by constructor|done].
    + destruct Hr as [-> ->]. exists []. split; [by constructor|by apply heap_is_null].
  - destruct (heap_remove_is _ _ _ _ _ Hi Hd E) as [(-> & Hn & ->)|(-> & b' & Hp & Hi')].
    + exists b. split; [by constructor|done].
    + exists b'. split; [by constructor|done].
Qed.

Lemma run_heap_is os t b rs t' : heap_is t b -> Forall op_dom os -> run_heap os t = (rs, t') ->
  ∃ b', bag_run b os rs b' ∧ heap_is t' b'.
Proof.
  revert t b rs; induction os as [|o os IH]; intros t b rs Hi HD E; simpl in E.
  { injection E as <- <-. exists b. by split; [constructor|]. }
  destruct (run_heap_op o t) as [r t1] eqn:E1. destruct (run_heap os t1) as [rs1 t2] eqn:E2.
  apply Forall_cons in HD as [Hd HD].
  injection E as <- <-. destruct (run_heap_op_is _ _ _ _ _ Hi Hd E1) as (b1 & Hst & Hi1).
  destruct (IH _ _ _ Hi1 HD E2) as (b2 & Hr & Hi2). exists b2. split; [by econstructor|done].
Qed.

(** C4: Whatever sequence of [push], [peek], [pop] and [remove] is called on a
    new LocHeap, it answers as a priority bag does: [peek] and [pop] give an
    object no other outranks, and NULL exactly when the heap is empty; [remove]
    finds an object exactly when its address is in the heap, although it skips
    subtrees the object outranks; and at the end the heap holds what the bag
    holds, [checkTree] is true and [getTreeSize] is the number of objects. *)
Theorem loc_heap_refines_bag os rs t :
  Forall op_dom os -> run_heap os Null = (rs, t) ->
  ∃ b, bag_run [] os rs b ∧ objects t ≡ₚ b ∧ checkTree t = true ∧
       getTreeSize t = Z.of_nat (length b).
Proof.
  intros Hd E. destruct (run_heap_is os Null [] rs t) as (b & Hr & Hok & _ & Hp); [by apply heap_is_null|done..|].
  exists b. split_and!; [done|done|by apply checkNodes_ok|].
  unfold getTreeSize. rewrite <- Hp. by apply sizes_ok_length, Hok.
Qed.

(** Pops [n] times. *)
Fixpoint drain (n : nat) (t : tree A) : list A :=
  match n with
  | 0 => []
  | S n => match heap_pop t with
           | (Some d, t) => d :: drain n t
           | (None, _) => []
           end
  end.

Lemma drain_is n t b : heap_is t b -> length b <= n ->
  drain n t ≡ₚ b ∧ StronglySorted (fun x y => (ranks y x <= 0)%Z) (drain n t).
Proof.
  revert t b; induction n as [|n IH]; intros t b Hi Hn; simpl.
  { destruct b; simpl in Hn; [|lia]. by split; [|constructor]. }
  destruct (heap_pop t) as [r t'] eqn:E. destruct (heap_pop_is _ _ _ _ Hi E) as (_ & Hb & Hr).
  destruct r as [d|]; [|destruct Hr as [-> _]; by split; [|constructor]].
  destruct Hr as (b' & Hp & Hi'). assert (length b' <= n) by (rewrite Hp in Hn; simpl in Hn; lia).
  destruct (IH _ _ Hi') as [Hp' Hs]; [done|]. split; [by rewrite Hp', Hp|].
  constructor; [done|]. apply Forall_forall. intros x Hx. rewrite Hp' in Hx.
  apply Hb. rewrite Hp. by right.
Qed.

(** Objects come out of a LocHeap in rank order: pushing objects and then
    popping as many times gives all of them, each once, none before one that
    outranks it. *)
Theorem loc_heap_pops_in_order ds :
  Forall D ds ->
  drain (length ds) (fold_left heap_push ds Null) ≡ₚ ds ∧
  StronglySorted (fun x y => (ranks y x <= 0)%Z)
    (drain (length ds) (fold_left heap_push ds Null)).
Proof.
  assert (H : ∀ l t b, heap_is t b -> Forall D l ->
            ∃ b', heap_is (fold_left heap_push l t) b' ∧ b' ≡ₚ l ++ b).
  { induction l as [|d l IH]; intros t b Hi Hl; [by exists b|]. apply Forall_cons in Hl as [? ?].
    destruct (IH _ _ (heap_push_is t b d Hi ltac:(done))) as (b' & Hi' & Hp); [done|].
    exists b'. split; [done|]. rewrite Hp. by rewrite <- Permutation_middle. }
  intros Hds. destruct (H ds Null []) as (b & Hi & Hp); [by apply heap_is_null|done|].
  rewrite app_nil_r in Hp.
  destruct (drain_is (length ds) _ _ Hi) as [Hd Hs]; [by rewrite Hp|]. split; [by rewrite Hd|done].
Qed.
End order.

(** ** Balance *)

Lemma node_push_balanced t d : sizes_ok t -> balanced t -> balanced (node_push t d).
Proof.
  revert d; induction t as [|sz l IHl r IHr e]; [done|]. intros d (-> & Hsl & Hsr) (Hb & Hbl & Hbr).
  assert (Hl1 : l ≠ Null -> (0 < mSize l)%Z).
  { intros ?. rewrite sizes_ok_length by done. destruct l; simpl; [done|lia]. }
  assert (Hr0 : (0 <= mSize r)%Z) by (rewrite sizes_ok_length by done; lia).
  push_cases l r e d a b Hab; cbn [balanced new_node mSize]; rewrite ?node_push_size by done;
    split_and!; auto; try specialize (Hl1 ltac:(done)); simpl in *; lia.
Qed.

Lemma balanced_height t : sizes_ok t -> balanced t ->
  (2 ^ Z.of_nat (height t) <= Z.max 1 (2 * mSize t))%Z.
Proof.
  induction t as [|sz l IHl r IHr e]; [done|]. intros (-> & Hsl & Hsr) (Hb & Hbl & Hbr).
  specialize (IHl Hsl Hbl). specialize (IHr Hsr Hbr). cbn [height mSize].
  pose proof (sizes_ok_length _ Hsl). pose proof (sizes_ok_length _ Hsr).
  rewrite Nat2Z.inj_succ, Z.pow_succ_r by lia.
  destruct (Nat.max_spec (height l) (height r)) as [[_ ->]|[_ ->]]; lia.
Qed.

(** Pushes keep the tree balanced: after [n > 0] pushes on a new heap its
    height is at most one more than the binary logarithm of [n], so that a push
    recurses at most that often. *)
Theorem loc_heap_push_logarithmic ds :
  ds ≠ [] ->
  (2 ^ (Z.of_nat (height (fold_left heap_push ds Null)) - 1) <= Z.of_nat (length ds))%Z.
Proof.
  assert (H : ∀ l t, sizes_ok t -> balanced t ->
            let t' := fold_left heap_push l t in
            sizes_ok t' ∧ balanced t' ∧ mSize t' = (mSize t + Z.of_nat (length l))%Z).
  { induction l as [|d l IH]; intros t Hs Hb; cbn [fold_left length]; [split_and!; [done|done|lia]|].
    assert (Hp : sizes_ok (heap_push t d) ∧ balanced (heap_push t d) ∧
              mSize (heap_push t d) = (mSize t + 1)%Z).
    { destruct t as [|sz tl tr e]; [by repeat split|]. unfold heap_push.
      by auto using node_push_sizes, node_push_balanced, node_push_size. }
    destruct Hp as (Hs' & Hb' & E'). destruct (IH _ Hs' Hb') as (? & ? & ->).
    split_and!; [done|done|lia]. }
  intros Hds. destruct (H ds Null) as (Hs & Hb & E); [done..|].
  pose proof (balanced_height _ Hs Hb) as Hh. rewrite E in Hh. cbn [mSize] in Hh.
  assert (0 < length ds) by (destruct ds; [done|simpl; lia]).
  destruct (height (fold_left heap_push ds Null)) as [|h] eqn:Eh.
  { simpl. lia. }
  rewrite Nat2Z.inj_succ in *. replace (Z.succ (Z.of_nat h) - 1)%Z with (Z.of_nat h) by lia.
  rewrite Z.pow_succ_r in Hh by lia. lia.
Qed.
End heap.

(** * Witnesses *)

#[export] Instance by_value_ranking : Ranking (fun _ => True) (fun a b : Z => a - b)%Z.
Proof. split; lia. Qed.

Lemma loc_heap_refines_bag_witness :
  ∃ t b, run_heap (fun a b : Z => a - b)%Z
      [HPush 3; HPush 8; HPush 5; HPeek; HRemove 5; HRemove 7; HPop; HPop; HPop]%Z Null =
      ([None; None; None; Some 8; Some 5; None; Some 8; Some 3; None]%Z, t) ∧
    objects t ≡ₚ b ∧ checkTree (fun a b : Z => a - b)%Z t = true ∧ b = [].
Proof.
  edestruct (loc_heap_refines_bag (D := fun _ => True) (fun a b : Z => a - b)%Z
    [HPush 3; HPush 8; HPush 5; HPeek; HRemove 5; HRemove 7; HPop; HPop; HPop]%Z)
    as (b & Hr & Hp & Hc & Hs); [by repeat constructor|vm_compute; reflexivity|].
  exists Null, b. split; [vm_compute; reflexivity|]. split; [exact Hp|]. split; [exact Hc|].
  destruct b; [reflexivity|discriminate Hs].
Defined.

Lemma loc_heap_pops_in_order_witness :
  StronglySorted (fun x y => (y - x <= 0)%Z)
    (drain (fun a b : Z => a - b)%Z 4
       (fold_left (heap_push (fun a b : Z => a - b)%Z) [3; 1; 4; 1]%Z Null)).
Proof.
  apply (loc_heap_pops_in_order (D := fun _ => True) (fun a b : Z => a - b)%Z [3; 1; 4; 1]%Z).
  by repeat constructor.
Defined.

Lemma loc_heap_push_logarithmic_witness :
  (2 ^ (Z.of_nat (height (fold_left (heap_push (fun a b : Z => a - b))
                            [3; 1; 4; 1; 5; 9; 2; 6]%Z Null)) - 1) <= 8)%Z.
Proof. apply (loc_heap_push_logarithmic (fun a b : Z => a - b)%Z [3; 1; 4; 1; 5; 9; 2; 6]%Z). discriminate. Defined.
