(* ===== verification/LocTimer.v ===== *)
(** The timers of [gps/utils/LocTimer.cpp]: LocTimer (the client's object),
    LocTimerDelegate (one running timer), LocTimerContainer (a LocHeap of
    delegates and its timerfd), the polling thread and the MsgTask thread that
    owns the heap, as a step relation over their shared state. *)

From S2P Require Import Prelude LocHeap.

(** * Times *)

Record timespec := TS { tv_sec : Z; tv_nsec : Z }.

#[export] Instance timespec_eq_dec : EqDecision timespec.
Proof. solve_decision. Defined.

Definition ns (t : timespec) : Z := tv_sec t * 1000000000 + tv_nsec t.

(** The time at which a timer of [timeOutInMs] started [now] is due, as
    [LocTimer::start] computes it; the parameter is an unsigned int. *)
Definition future_time (now : timespec) (timeOutInMs : Z) : timespec :=
  let sec := (tv_sec now + timeOutInMs / 1000)%Z in
  let nsec := (tv_nsec now + timeOutInMs mod 1000 * 1000000)%Z in
  if (1000000000 <=? nsec)%Z
  then TS (sec + nsec / 1000000000) (nsec mod 1000000000)
  else TS sec nsec.

(** * Delegates as rankable objects *)

(** A [LocTimerDelegate*], with the field no code changes after construction. *)
Record timer := Timer { addr : loc; mFutureTime : timespec }.

#[export] Instance timer_eq_dec : EqDecision timer.
Proof. solve_decision. Defined.

(** Both differences are converted to int. *)
Definition ranks (this timer : timer) : Z :=
  let rank := wrap_s 32 (tv_sec (mFutureTime timer) - tv_sec (mFutureTime this)) in
  if decide (rank = 0)%Z
  then wrap_s 32 (tv_nsec (mFutureTime timer) - tv_nsec (mFutureTime this))
  else rank.

(** * The container *)

Record container := Container {
  mTree : tree timer;
  armed : option timespec;     (* the absolute time mDevFd is set to *)
  polled : bool                (* mDevFd is in the epoll set *)
}.

(** [timerfd_settime(fd, TFD_TIMER_ABSTIME, ...)]: a zero time disarms. *)
Definition timerfd_settime (v : timespec) : option timespec :=
  if decide (v = TS 0 0) then None else Some v.

Definition getSoonestTimer (c : container) : option timer := heap_peek (mTree c).

Definition updateSoonestTime (c : container) (priorTop : option timer) : container :=
  let curTop := getSoonestTimer c in
  if decide (curTop = priorTop) then c
  else match curTop with
       | None => Container (mTree c) (timerfd_settime (TS 0 0)) false
       | Some cur =>
         if match priorTop with None => true | Some prior => outRanks ranks cur prior end
         then Container (mTree c) (timerfd_settime (mFutureTime cur)) true
         else c
       end.

Definition set_tree (t : tree timer) (c : container) : container :=
  Container t (armed c) (polled c).

(** [MsgTimerPush::proc] and the part of [MsgTimerRemove::proc] before the
    delegate is deleted. *)
Definition push_proc (c : container) (t : timer) : container :=
  let priorTop := getSoonestTimer c in
  updateSoonestTime (set_tree (heap_push ranks (mTree c) t) c) priorTop.

Definition remove_proc (c : container) (t : timer) : container :=
  let priorTop := getSoonestTimer c in
  let '(r, tree) := heap_remove ranks (mTree c) t in
  let c := set_tree tree c in
  if decide (priorTop = r) then updateSoonestTime c None else c.

Definition popIfOutRanks (c : container) (timerOfNow : timer) : option timer * container :=
  match heap_peek (mTree c) with
  | Some top => if negb (outRanks ranks timerOfNow top)
                then let '(t, tree) := heap_pop ranks (mTree c) in (t, set_tree tree c)
                else (None, c)
  | None => (None, c)
  end.

(** * The threads and what they share *)

(** The fields of a live delegate; [mContainer] says whether that pointer has
    not been cleared yet. *)
Record delegate := Delegate {
  mClient : option loc;
  futureTime : timespec;
  mContainer : bool
}.

Inductive msg : Type :=
  | MsgTimerPush (t : timer)
  | MsgTimerRemove (t : timer)
  | MsgTimerExpire.

#[export] Instance msg_eq_dec : EqDecision msg.
Proof. solve_decision. Defined.

(** The MsgTask thread: between messages; in the loop of [MsgTimerExpire::proc]
    with the timer it is at; in [LocTimerDelegate::expire], having read
    [mClient]; at the next round of the loop. *)
Inductive task_pc : Type :=
  | TIdle
  | TLoop (now : timespec) (t : option timer)
  | TStop (now : timespec) (client : loc)
  | TNext (now : timespec).

#[export] Instance task_pc_eq_dec : EqDecision task_pc.
Proof. solve_decision. Defined.

(** The polling thread: in [epoll_wait]; in [LocTimerContainer::expire], before
    each of its three calls. *)
Inductive poll_pc : Type := PWait | PDisarm | PRemove | PSend.

Record sys := Sys {
  now : timespec;
  cont : container;
  delegates : gmap loc delegate;
  timers : gmap loc loc;       (* mTimer of each LocTimer that has one *)
  queue : list msg;            (* the MsgTask's queue, next message first *)
  task : task_pc;
  poller : poll_pc;
  brk : loc
}.

Definition set_cont (c : container) (s : sys) : sys :=
  Sys (now s) c (delegates s) (timers s) (queue s) (task s) (poller s) (brk s).
Definition set_queue (q : list msg) (s : sys) : sys :=
  Sys (now s) (cont s) (delegates s) (timers s) q (task s) (poller s) (brk s).
Definition set_task (p : task_pc) (s : sys) : sys :=
  Sys (now s) (cont s) (delegates s) (timers s) (queue s) p (poller s) (brk s).
Definition set_poller (p : poll_pc) (s : sys) : sys :=
  Sys (now s) (cont s) (delegates s) (timers s) (queue s) (task s) p (brk s).
Definition set_now (t : timespec) (s : sys) : sys :=
  Sys t (cont s) (delegates s) (timers s) (queue s) (task s) (poller s) (brk s).
Definition set_delegates (ds : gmap loc delegate) (s : sys) : sys :=
  Sys (now s) (cont s) ds (timers s) (queue s) (task s) (poller s) (brk s).
Definition set_timers (ts : gmap loc loc) (s : sys) : sys :=
  Sys (now s) (cont s) (delegates s) ts (queue s) (task s) (poller s) (brk s).

Definition sendMsg (m : msg) (s : sys) : sys := set_queue (queue s ++ [m]) s.

(** ** LocTimer *)

(** [LocTimer::start] once the container exists: creates the delegate, whose
    constructor sends [MsgTimerPush]. *)
Definition start (c : loc) (timeOutInMs : Z) : M sys bool := fun s =>
  match timers s !! c with
  | Some _ => Done (false, s)
  | None =>
    let t := future_time (now s) timeOutInMs in
    Done (true, Sys (now s) (cont s) (<[brk s := Delegate (Some c) t true]> (delegates s))
                    (<[c := brk s]> (timers s)) (queue s ++ [MsgTimerPush (Timer (brk s) t)])
                    (task s) (poller s) (Pos.succ (brk s)))
  end.

(** [LocTimerDelegate::destroyLocked]. *)
Definition destroyLocked (d : loc) : M sys unit := fun s =>
  match delegates s !! d with
  | None => Undefined
  | Some (Delegate _ t attached) =>
    let s := set_delegates (<[d := Delegate None t false]> (delegates s)) s in
    Done (tt, if attached then sendMsg (MsgTimerRemove (Timer d t)) s else s)
  end.

Definition stop (c : loc) : M sys bool := fun s =>
  match timers s !! c with
  | None => Done (false, s)
  | Some d => (destroyLocked d ;;; ret true) (set_timers (delete c (timers s)) s)
  end.

(** The C interface passes its 64-bit argument to the unsigned parameter. *)
Definition loc_timer_start (c : loc) (msec : Z) : M sys bool := start c (wrap_u 32 msec).

(** ** The MsgTask thread *)

(** What a step shows to the clients. *)
Inductive event : Type :=
  | EvStart (c : loc)
  | EvStop (c : loc)
  | EvFire (c : loc) (due : timespec)
  | EvTau.

(** When the delegate the client [c] has now is due. *)
Definition due (s : sys) (c : loc) : option timespec :=
  d ← timers s !! c; futureTime <$> delegates s !! d.

Definition take_msg (m : msg) (s : sys) : outcome sys :=
  match m with
  | MsgTimerPush t => Done (set_cont (push_proc (cont s) t) s)
  | MsgTimerRemove t =>
    let s := set_cont (remove_proc (cont s) t) s in
    match delegates s !! addr t with
    | None => Undefined
    | Some _ => Done (set_delegates (delete (addr t) (delegates s)) s)
    end
  | MsgTimerExpire =>
    let '(t, tree) := heap_pop ranks (mTree (cont s)) in
    Done (set_task (TLoop (now s) t) (set_cont (set_tree tree (cont s)) s))
  end.

Definition task_step (s : sys) : option (outcome (event * sys)) :=
  match task s with
  | TIdle =>
    match queue s with
    | [] => None
    | m :: q => Some (obind (fun s => Done (EvTau, s)) (take_msg m (set_queue q s)))
    end
  | TLoop _ None => Some (Done (EvTau, set_task TIdle (set_cont (updateSoonestTime (cont s) None) s)))
  | TLoop n (Some t) =>
    Some match delegates s !! addr t with
         | None => Undefined
         | Some d => Done (EvTau, set_task (match mClient d with
                                            | Some c => TStop n c
                                            | None => TNext n
                                            end) s)
         end
  | TStop n c =>
    Some (obind (fun '(stopped, s') =>
            Done (if stopped : bool then EvFire c (default (TS 0 0) (due s c)) else EvTau,
                  set_task (TNext n) s'))
          (stop c s))
  | TNext n =>
    let '(t, cont') := popIfOutRanks (cont s) (Timer 1 n) in
    Some (Done (EvTau, set_task (TLoop n t) (set_cont cont' s)))
  end.

(** ** The polling thread *)

Definition readable (s : sys) : bool :=
  polled (cont s) && match armed (cont s) with
                     | Some t => (ns t <=? ns (now s))%Z
                     | None => false
                     end.

(** [TimerRunnable::run] and [LocTimerContainer::expire]. *)
Definition poll_step (s : sys) : option sys :=
  match poller s with
  | PWait => if readable s then Some (set_poller PDisarm s) else None
  | PDisarm => Some (set_poller PRemove (set_cont (Container (mTree (cont s)) (timerfd_settime (TS 0 0))
                                                             (polled (cont s))) s))
  | PRemove => Some (set_poller PSend (set_cont (Container (mTree (cont s)) (armed (cont s)) false) s))
  | PSend => Some (set_poller PWait (sendMsg MsgTimerExpire s))
  end.

(** ** Steps of the whole *)

(** CLOCK_BOOTTIME readings: normalised, positive, and early enough for no
    timer to be due 2^31 seconds or more after boot. *)
Definition clock_ok (t : timespec) : Prop :=
  (1 <= tv_sec t < 2 ^ 31 - 2 ^ 23 ∧ 0 <= tv_nsec t < 1000000000)%Z.

Inductive step : sys -> event -> sys -> Prop :=
  | step_tick s t : clock_ok t -> (ns (now s) <= ns t)%Z -> step s EvTau (set_now t s)
  | step_start s c ms b s' : (0 <= ms < 2 ^ 32)%Z -> start c ms s = Done (b, s') ->
      step s (if b then EvStart c else EvTau) s'
  | step_stop s c b s' : stop c s = Done (b, s') -> step s (if b then EvStop c else EvTau) s'
  | step_task s ev s' : task_step s = Some (Done (ev, s')) -> step s ev s'
  | step_poll s s' : poll_step s = Some s' -> step s EvTau s'.

Inductive steps : sys -> list event -> sys -> Prop :=
  | steps_refl s : steps s [] s
  | steps_step s1 tr s2 ev s3 : steps s1 tr s2 -> step s2 ev s3 -> steps s1 (tr ++ [ev]) s3.

(** The state before any timer is started. *)
Definition initial (t : timespec) : sys :=
  Sys t (Container Null None false) ∅ ∅ [] TIdle PWait 1.

(** * Ranking by time *)

(** Times that can be ranked: normalised and below 2^31 seconds. *)
Definition time_ok (t : timespec) : Prop :=
  (1 <= tv_sec t < 2 ^ 31 ∧ 0 <= tv_nsec t < 1000000000)%Z.
Definition rankable (t : timer) : Prop := time_ok (mFutureTime t).

Lemma ranks_ns a b : rankable a -> rankable b ->
  (0 < ranks a b <-> ns (mFutureTime a) < ns (mFutureTime b))%Z.
Proof.
  unfold rankable, time_ok, ranks, ns. intros [? ?] [? ?].
  rewrite !wrap_s_small by lia. case_decide; lia.
Qed.

#[export] Instance timer_ranking : Ranking rankable ranks.
Proof.
  split.
  - intros a b Ha Hb H. pose proof (ranks_ns a b Ha Hb). pose proof (ranks_ns b a Hb Ha). lia.
  - intros a b c Ha Hb Hc H1 H2. pose proof (ranks_ns a b Ha Hb). pose proof (ranks_ns b c Hb Hc).
    pose proof (ranks_ns a c Ha Hc). lia.
Qed.

Lemma outRanks_ns a b : rankable a -> rankable b ->
  outRanks ranks a b = bool_decide (ns (mFutureTime a) < ns (mFutureTime b))%Z.
Proof. intros Ha Hb. apply bool_decide_ext. by apply ranks_ns. Qed.

Lemma future_time_ok now ms : clock_ok now -> (0 <= ms < 2 ^ 32)%Z ->
  ns (future_time now ms) = (ns now + ms * 1000000)%Z ∧ time_ok (future_time now ms).
Proof.
  unfold clock_ok, time_ok, future_time, ns. intros [Hs Hn] Hms.
  pose proof (Z.div_mod ms 1000). pose proof (Z.mod_pos_bound ms 1000).
  assert (ms / 1000 < 4294968)%Z by (apply Z.div_lt_upper_bound; lia).
  assert (0 <= ms / 1000)%Z by (apply Z.div_pos; lia).
  set (n := (tv_nsec now + ms mod 1000 * 1000000)%Z) in *.
  destruct (Z.leb_spec 1000000000 n); cbn [tv_sec tv_nsec]; [|lia].
  pose proof (Z.div_mod n 1000000000). pose proof (Z.mod_pos_bound n 1000000000).
  assert (n / 1000000000 < 2)%Z by (apply Z.div_lt_upper_bound; lia).
  lia.
Qed.

Lemma settime_ok t : time_ok t -> timerfd_settime t = Some t.
Proof. unfold timerfd_settime. intros [? ?]. case_decide as Ht; [|done]. subst. simpl in *. lia. Qed.

(** * The container's operations *)

(** The container holds the timers [b], in heap order. *)
Definition holds (c : container) (b : list timer) : Prop := heap_is (D := rankable) ranks (mTree c) b.

(** The timerfd is polled and set to the time of the soonest timer. *)
Definition set_for (c : container) : Prop :=
  ∀ t, getSoonestTimer c = Some t -> polled c = true ∧ armed c = Some (mFutureTime t).

Lemma soonest_in c b t : holds c b -> getSoonestTimer c = Some t -> t ∈ b ∧ rankable t.
Proof.
  intros Hh Ht. pose proof (heap_peek_is _ _ _ Hh) as Hb. unfold getSoonestTimer in Ht.
  rewrite Ht in Hb. destruct Hb as [Hin _]. split; [done|].
  destruct Hh as (_ & Hd & Hp). apply Hd. by rewrite Hp.
Qed.

Lemma soonest_none c b : holds c b -> getSoonestTimer c = None -> b = [].
Proof. intros Hh Ht. pose proof (heap_peek_is _ _ _ Hh) as Hb. unfold getSoonestTimer in Ht. by rewrite Ht in Hb. Qed.

Lemma update_tree c p : mTree (updateSoonestTime c p) = mTree c.
Proof. unfold updateSoonestTime. by repeat case_match. Qed.

Lemma update_same c : updateSoonestTime c (getSoonestTimer c) = c.
Proof. unfold updateSoonestTime. by rewrite decide_True. Qed.

Lemma update_set c p cur :
  getSoonestTimer c = Some cur -> rankable cur -> p ≠ Some cur ->
  (∀ e, p = Some e -> outRanks ranks cur e = true) -> set_for (updateSoonestTime c p).
Proof.
  intros Hc Ht Hp Ho t Htop. unfold getSoonestTimer in Htop. rewrite update_tree in Htop.
  change (getSoonestTimer c = Some t) in Htop. rewrite Hc in Htop. injection Htop as <-.
  unfold updateSoonestTime. rewrite Hc, decide_False by congruence.
  replace (match p with None => true | Some prior => outRanks ranks cur prior end) with true
    by (destruct p; [by rewrite Ho|done]).
  simpl. by rewrite settime_ok.
Qed.

Lemma update_None_set_for c b : holds c b -> set_for (updateSoonestTime c None).
Proof.
  intros Hh. destruct (getSoonestTimer c) as [t|] eqn:Ht.
  - apply (update_set c None t); [done|by eapply soonest_in|done|done].
  - intros t. unfold getSoonestTimer in *. rewrite update_tree, Ht. done.
Qed.

Lemma heap_push_peek (t : tree timer) d :
  heap_peek (heap_push ranks t d) =
  Some (match heap_peek t with Some e => if outRanks ranks d e then d else e | None => d end).
Proof.
  destruct t as [|sz l r e]; [done|]. unfold heap_peek, heap_push. simpl.
  destruct (outRanks ranks d e); by repeat case_match.
Qed.

Lemma push_proc_correct c b t : holds c b -> rankable t -> 
  holds (push_proc c t) (t :: b) ∧ (set_for c -> set_for (push_proc c t)).
Proof.
  intros Hh Hr. unfold push_proc. split.
  - unfold holds. rewrite update_tree. exact (heap_push_is ranks (mTree c) b t Hh Hr).
  - intros Hset. set (c' := set_tree _ c).
    assert (Hc' : getSoonestTimer c' = Some (match getSoonestTimer c with
               | Some e => if outRanks ranks t e then t else e | None => t end))
      by apply heap_push_peek.
    destruct (getSoonestTimer c) as [e|] eqn:He; [destruct (outRanks ranks t e) eqn:Eo|].
    + apply (update_set _ _ t); [done|done| |by intros ? [= <-]]. intros [= ->].
      rewrite outRanks_ns in Eo by done. apply bool_decide_eq_true in Eo. lia.
    + rewrite <- Hc', update_same. intros e' He'. rewrite Hc' in He'. injection He' as <-.
      by apply Hset.
    + by apply (update_set _ _ t).
Qed.

Lemma node_remove_peek (t : tree timer) d r t' :
  heap_remove ranks t d = (r, t') -> heap_peek t = r ∨ heap_peek t' = heap_peek t.
Proof.
  destruct t as [|sz l rt e]; [intros [= <- <-]; by left|].
  unfold heap_remove, heap_peek. cbn [node_remove]. case_decide as Hd.
  - left. subst e. destruct (node_pop_spec ranks (Node sz l rt d) d) as (p & t1 & E & [n ->] & _); [done|].
    rewrite E in H. by injection H as <- <-.
  - right. by repeat case_match; simplify_eq.
Qed.

Lemma remove_proc_correct c b t : holds c b -> rankable t ->
  ∃ b', holds (remove_proc c t) b' ∧ (b ≡ₚ t :: b' ∨ ((t ∉ b) ∧ b' = b)) ∧
    (set_for c -> set_for (remove_proc c t)).
Proof.
  intros Hh Hr. unfold remove_proc. destruct (heap_remove ranks (mTree c) t) as [r t'] eqn:E.
  assert (Hb : ∃ b', holds (set_tree t' c) b' ∧ (b ≡ₚ t :: b' ∨ ((t ∉ b) ∧ b' = b))).
  { destruct (heap_remove_is ranks _ b _ _ _ Hh Hr E) as [(-> & Hn & ->)|(-> & b' & Hp & Hh')].
    - exists b. split; [done|]. by right.
    - exists b'. split; [done|]. by left. }
  destruct Hb as (b' & Hh' & Hb). exists b'. destruct (node_remove_peek _ _ _ _ E) as [<-|Hp].
  - rewrite decide_True by done. split_and!; [|done|intros _; by eapply update_None_set_for].
    unfold holds. by rewrite update_tree.
  - case_decide.
    + split_and!; [|done|intros _; by eapply update_None_set_for]. unfold holds. by rewrite update_tree.
    + split_and!; [done|done|]. intros Hset t1 Ht1. apply (Hset t1).
      unfold getSoonestTimer in *. simpl in Ht1. congruence.
Qed.

Lemma pop_correct c b r t' : holds c b -> heap_pop ranks (mTree c) = (r, t') ->
  match r with
  | None => b = [] ∧ holds (set_tree t' c) []
  | Some d => ∃ b', b ≡ₚ d :: b' ∧ holds (set_tree t' c) b'
  end.
Proof.
  intros Hh E. destruct (heap_pop_is ranks _ b _ _ Hh E) as (_ & _ & Hr).
  destruct r as [d|]; [done|]. destruct Hr as [-> ->]. split; [done|]. apply heap_is_null.
Qed.

(** [popIfOutRanks] pops a timer that is due, if there is one. *)
Lemma popIfOutRanks_correct c b n r c' : holds c b -> rankable n -> popIfOutRanks c n = (r, c') ->
  match r with
  | None => c' = c ∧ ∀ t, t ∈ b -> (ns (mFutureTime n) < ns (mFutureTime t))%Z
  | Some d => (ns (mFutureTime d) <= ns (mFutureTime n))%Z ∧ ∃ b', b ≡ₚ d :: b' ∧ holds c' b'
  end.
Proof.
  intros Hh Hn. unfold popIfOutRanks. pose proof (heap_peek_is _ _ _ Hh) as Hb.
  assert (Hd : ∀ t, t ∈ b -> rankable t) by (destruct Hh as (_ & Hd & Hp); intros t; rewrite <- Hp; apply Hd).
  destruct (heap_peek (mTree c)) as [top|] eqn:Ht; simpl in Hb.
  2: { intros [= <- <-]. split; [done|]. subst. intros t Hin. by apply elem_of_nil in Hin. }
  destruct Hb as [Hin Hbest]. rewrite outRanks_ns by auto. case_bool_decide as Hlt; simpl.
  - intros [= <- <-]. split; [done|]. intros t Hint. specialize (Hbest t Hint).
    pose proof (ranks_ns t top (Hd _ Hint) (Hd _ Hin)). lia.
  - destruct (heap_pop ranks (mTree c)) as [t tree] eqn:E. intros [= <- <-].
    destruct (heap_pop_is ranks _ b _ _ Hh E) as (-> & _ & Hr). rewrite Ht in *.
    split; [lia|]. exact Hr.
Qed.

(** * The invariant *)

Definition pushes (q : list msg) : list timer :=
  omap (fun m => match m with MsgTimerPush t => Some t | _ => None end) q.
Definition removes (q : list msg) : list timer :=
  omap (fun m => match m with MsgTimerRemove t => Some t | _ => None end) q.

(** The timer the MsgTask has popped and not handled yet. *)
Definition current (p : task_pc) : list timer :=
  match p with TLoop _ (Some t) => [t] | _ => [] end.

(** Every place a pointer to a running timer is kept, other than its client. *)
Definition refs (b : list timer) (p : task_pc) (q : list msg) : list timer :=
  b ++ current p ++ pushes q.
Arguments refs : simpl never.

Definition pc_clock (p : task_pc) : Prop :=
  match p with TIdle => True | TLoop n _ | TStop n _ | TNext n => clock_ok n end.

(** A delegate whose [mContainer] is set is its client's timer and has yet to
    expire; one whose [mContainer] is cleared has no client and is about to be
    deleted. *)
Definition delegate_ok (b : list timer) (p : task_pc) (q : list msg) (ts : gmap loc loc)
    (a : loc) (d : delegate) : Prop :=
  if mContainer d
  then (∃ c, mClient d = Some c ∧ ts !! c = Some a) ∧
       (Timer a (futureTime d) ∈ refs b p q ∨ ∃ n c, p = TStop n c ∧ ts !! c = Some a)
  else mClient d = None ∧ Timer a (futureTime d) ∈ removes q.

Record inv (s : sys) (b : list timer) : Prop := {
  inv_holds : holds (cont s) b;
  inv_live : ∀ t, t ∈ refs b (task s) (queue s) ->
    ∃ d, delegates s !! addr t = Some d ∧ futureTime d = mFutureTime t;
  inv_nodup : NoDup (addr <$> refs b (task s) (queue s));
  inv_removes : ∀ t, t ∈ removes (queue s) ->
    delegates s !! addr t = Some (Delegate None (mFutureTime t) false);
  inv_removes_nodup : NoDup (addr <$> removes (queue s));
  inv_order : ∀ q1 t q2, queue s = q1 ++ MsgTimerRemove t :: q2 -> addr t ∉ addr <$> pushes q2;
  inv_delegates : ∀ a d, delegates s !! a = Some d ->
    time_ok (futureTime d) ∧ delegate_ok b (task s) (queue s) (timers s) a d;
  inv_timers : ∀ c a, timers s !! c = Some a ->
    ∃ t, delegates s !! a = Some (Delegate (Some c) t true);
  inv_fresh : ∀ a, (brk s <= a)%positive -> delegates s !! a = None;
  inv_clock : clock_ok (now s) ∧ pc_clock (task s);
  inv_armed : poller s = PWait -> MsgTimerExpire ∉ queue s -> task s = TIdle -> set_for (cont s);
  inv_expired : ∀ n, task s = TLoop n None -> ∀ t, t ∈ b -> (ns n < ns (mFutureTime t))%Z
}.

Lemma removes_app q1 q2 : removes (q1 ++ q2) = removes q1 ++ removes q2.
Proof. apply omap_app. Qed.
Lemma pushes_app q1 q2 : pushes (q1 ++ q2) = pushes q1 ++ pushes q2.
Proof. apply omap_app. Qed.

(** A queue in which no remove precedes the matching push, one message more or
    less. *)
Lemma order_tail m q :
  (∀ q1 t q2, m :: q = q1 ++ MsgTimerRemove t :: q2 -> addr t ∉ addr <$> pushes q2) ->
  ∀ q1 t q2, q = q1 ++ MsgTimerRemove t :: q2 -> addr t ∉ addr <$> pushes q2.
Proof. intros H q1 t q2 ->. by apply (H (m :: q1)). Qed.

Lemma order_snoc m q :
  (∀ q1 t q2, q = q1 ++ MsgTimerRemove t :: q2 -> addr t ∉ addr <$> pushes q2) ->
  (∀ t t', m = MsgTimerPush t' -> t ∈ removes q -> addr t ≠ addr t') ->
  ∀ q1 t q2, q ++ [m] = q1 ++ MsgTimerRemove t :: q2 -> addr t ∉ addr <$> pushes q2.
Proof.
  intros H Hm q1 t q2 E. destruct q2 as [|m' q2 _] using rev_ind; [set_solver|].
  rewrite app_comm_cons, app_assoc in E. apply app_inj_tail in E as [E <-].
  rewrite pushes_app, fmap_app, not_elem_of_app. split; [by eapply H|].
  destruct m; simpl; [|set_solver..]. rewrite list_elem_of_singleton.
  eapply Hm; [done|]. rewrite E, removes_app. apply elem_of_app. right. by left.
Qed.

Lemma inv_rankable s b t : inv s b -> t ∈ refs b (task s) (queue s) -> rankable t.
Proof.
  intros Hinv Ht. destruct (inv_live _ _ Hinv t Ht) as (d & Hd & Hf).
  unfold rankable. rewrite <- Hf. by eapply inv_delegates.
Qed.

Lemma clock_time t : clock_ok t -> time_ok t.
Proof. unfold clock_ok, time_ok. lia. Qed.

(** What the invariant says of the timers kept does not depend on where. *)
Lemma delegate_ok_mono b p q ts b' p' q' ts' a d :
  delegate_ok b p q ts a d ->
  (mContainer d = true -> Timer a (futureTime d) ∈ refs b p q -> 
     Timer a (futureTime d) ∈ refs b' p' q' ∨ ∃ n c, p' = TStop n c ∧ ts' !! c = Some a) ->
  (mContainer d = true -> ∀ n c, p = TStop n c -> ts !! c = Some a -> p' = TStop n c) ->
  (mContainer d = true -> ∀ c, ts !! c = Some a -> ts' !! c = Some a) ->
  (mContainer d = false -> Timer a (futureTime d) ∈ removes q -> Timer a (futureTime d) ∈ removes q') ->
  delegate_ok b' p' q' ts' a d.
Proof.
  unfold delegate_ok. destruct (mContainer d).
  - intros [(c & Hc & Hts) Hr] H1 H2 H3 _. split; [eauto|].
    destruct Hr as [Hr|(n & c' & -> & Hc')]; [by apply H1|]. right. exists n, c'.
    split; [by apply H2|by apply H3].
  - intros [? ?] _ _ _ H4. auto.
Qed.

Lemma inv_start s b c ms r s' :
  inv s b -> (0 <= ms < 2 ^ 32)%Z -> start c ms s = Done (r, s') -> inv s' b.
Proof.
  intros [Ih Il In Ir Irn Io Id It If Ic Ia Ie] Hms. unfold start.
  destruct (timers s !! c) as [a|] eqn:Hc; intros [= <- <-]; [done|].
  set (t := future_time (now s) ms). destruct Ic as [Hnow Hpc].
  destruct (future_time_ok _ _ Hnow Hms) as [_ Ht]. fold t in Ht.
  assert (Hrefs : refs b (task s) (queue s ++ [MsgTimerPush (Timer (brk s) t)]) =
                  refs b (task s) (queue s) ++ [Timer (brk s) t]).
  { unfold refs. by rewrite pushes_app, !app_assoc. }
  assert (Hfr : ∀ x, x ∈ refs b (task s) (queue s) -> addr x ≠ brk s).
  { intros x Hx E. destruct (Il x Hx) as (d & Hd & _). by rewrite E, If in Hd. }
  split; simpl.
  - done.
  - intros x. rewrite Hrefs, elem_of_app, list_elem_of_singleton. intros [Hx| ->].
    + rewrite lookup_insert_ne by (symmetry; auto). auto.
    + simpl. rewrite lookup_insert_eq. eauto.
  - rewrite Hrefs, fmap_app. apply NoDup_app. split_and!; [done| |by apply NoDup_singleton].
    intros x (y & -> & Hy)%list_elem_of_fmap. simpl. rewrite list_elem_of_singleton. auto.
  - intros x. rewrite removes_app, app_nil_r. intros Hx. rewrite lookup_insert_ne; [auto|].
    intros E. specialize (Ir x Hx). by rewrite <- E, If in Ir.
  - by rewrite removes_app, app_nil_r.
  - apply order_snoc; [done|]. intros x t' [= <-] Hx. simpl. intros E.
    specialize (Ir x Hx). by rewrite E, If in Ir.
  - intros a d. destruct (decide (a = brk s)) as [->|Ha].
    + rewrite lookup_insert_eq. intros [= <-]. split; [done|]. simpl.
      split; [exists c; by rewrite lookup_insert_eq|]. left. rewrite Hrefs, elem_of_app. right. by left.
    + rewrite lookup_insert_ne by done. intros Hd. destruct (Id a d Hd) as [? Hok]. split; [done|].
      eapply delegate_ok_mono; [exact Hok|..].
      * intros _ Hx. left. rewrite Hrefs, elem_of_app. by left.
      * done.
      * intros _ c' Hc'. rewrite lookup_insert_ne; [done|congruence].
      * intros _. by rewrite removes_app, app_nil_r.
  - intros c' a. destruct (decide (c' = c)) as [->|].
    + rewrite lookup_insert_eq. intros [= <-]. rewrite lookup_insert_eq. eauto.
    + rewrite lookup_insert_ne by done. intros Ha. destruct (It _ _ Ha) as [t' Ht'].
      exists t'. rewrite lookup_insert_ne; [done|]. intros <-. by rewrite If in Ht'.
  - intros a Ha. rewrite lookup_insert_ne by lia. apply If. lia.
  - done.
  - intros Hp Hx. apply Ia; [done|]. intros Hin. apply Hx, elem_of_app. by left.
  - done.
Qed.

(** [stop] on a client that has a timer: its delegate is live and attached, and
    is told to go. *)
Lemma timer_stop_cases s b c :
  inv s b ->
  (timers s !! c = None ∧ stop c s = Done (false, s)) ∨
  ∃ a t, timers s !! c = Some a ∧ delegates s !! a = Some (Delegate (Some c) t true) ∧
    stop c s = Done (true, sendMsg (MsgTimerRemove (Timer a t))
      (set_delegates (<[a := Delegate None t false]> (delegates s))
        (set_timers (delete c (timers s)) s))).
Proof.
  intros Hinv. unfold stop. destruct (timers s !! c) as [a|] eqn:Hc; [right|by left].
  destruct (inv_timers _ _ Hinv _ _ Hc) as [t Ht]. exists a, t. split_and!; [done..|].
  unfold bind, destroyLocked. simpl. by rewrite Ht.
Qed.

Lemma inv_stop s b c r s' : inv s b -> stop c s = Done (r, s') -> inv s' b.
Proof.
  intros Hinv Hst. destruct (timer_stop_cases s b c Hinv) as [[_ E]|(a & t & Hc & Hd & E)];
    rewrite E in Hst; injection Hst as <- <-; [done|]. clear E.
  destruct Hinv as [Ih Il In Ir Irn Io Id It If Ic Ia Ie].
  assert (Hrefs : refs b (task s) (queue s ++ [MsgTimerRemove (Timer a t)]) = refs b (task s) (queue s)).
  { unfold refs. by rewrite pushes_app, app_nil_r. }
  assert (Hrem : removes (queue s ++ [MsgTimerRemove (Timer a t)]) = removes (queue s) ++ [Timer a t]).
  { by rewrite removes_app. }
  assert (Hna : ∀ x, x ∈ removes (queue s) -> addr x ≠ a).
  { intros x Hx Ex. specialize (Ir x Hx). rewrite Ex, Hd in Ir. done. }
  split; simpl.
  - done.
  - intros x. rewrite Hrefs. intros Hx. destruct (Il x Hx) as (d & Hd' & Hf).
    destruct (decide (addr x = a)) as [Ea|]; [rewrite Ea in *|].
    + rewrite lookup_insert_eq. rewrite Hd in Hd'. injection Hd' as <-. by eexists.
    + rewrite lookup_insert_ne by done. eauto.
  - by rewrite Hrefs.
  - intros x. rewrite Hrem, elem_of_app, list_elem_of_singleton. intros [Hx| ->].
    + rewrite lookup_insert_ne by (symmetry; auto). auto.
    + by rewrite lookup_insert_eq.
  - rewrite Hrem, fmap_app. apply NoDup_app. split_and!; [done| |by apply NoDup_singleton].
    intros x (y & -> & Hy)%list_elem_of_fmap. simpl. rewrite list_elem_of_singleton. auto.
  - by apply order_snoc.
  - intros a' d. destruct (decide (a' = a)) as [->|Ha].
    + rewrite lookup_insert_eq. intros [= <-]. destruct (Id a _ Hd) as [Ht _]. split; [done|].
      split; [done|]. rewrite Hrem, elem_of_app. right. by left.
    + rewrite lookup_insert_ne by done. intros Hd'. destruct (Id a' d Hd') as [? Hok]. split; [done|].
      eapply delegate_ok_mono; [exact Hok|..].
      * intros _ Hx. left. by rewrite Hrefs.
      * done.
      * intros _ c' Hc'. rewrite lookup_delete_ne; [done|congruence].
      * intros _ Hx. rewrite Hrem, elem_of_app. by left.
  - intros c' a' [Hne Ha']%lookup_delete_Some. destruct (It _ _ Ha') as [t' Ht'].
    exists t'. rewrite lookup_insert_ne; [done|]. intros <-. congruence.
  - intros a' Ha'. rewrite lookup_insert_ne; [auto|]. intros <-. by rewrite If in Hd.
  - done.
  - intros Hp Hx. apply Ia; [done|]. intros Hin. apply Hx, elem_of_app. by left.
  - done.
Qed.

(** Only the tick, the poller and the container's timerfd change. *)
Lemma inv_other s s' b :
  inv s b -> holds (cont s') b -> delegates s' = delegates s -> timers s' = timers s ->
  task s' = task s -> brk s' = brk s -> clock_ok (now s') ->
  (queue s' = queue s ∨ queue s' = queue s ++ [MsgTimerExpire]) ->
  (poller s' = PWait -> MsgTimerExpire ∉ queue s' -> task s' = TIdle -> set_for (cont s')) ->
  inv s' b.
Proof.
  intros [Ih Il In Ir Irn Io Id It If Ic Ia Ie] Hh Hd Ht Hta Hb Hn Hq Ha.
  assert (Hp : pushes (queue s') = pushes (queue s)).
  { destruct Hq as [->| ->]; [done|]. by rewrite pushes_app, app_nil_r. }
  assert (Hr : removes (queue s') = removes (queue s)).
  { destruct Hq as [->| ->]; [done|]. by rewrite removes_app, app_nil_r. }
  assert (Hrefs : refs b (task s') (queue s') = refs b (task s) (queue s)).
  { unfold refs. by rewrite Hta, Hp. }
  split; rewrite ?Hrefs, ?Hr, ?Hd, ?Ht, ?Hb, ?Hta; try done.
  - destruct Hq as [->| ->]; [done|]. by apply order_snoc.
  - intros a d Had. destruct (Id a d Had) as [? Hok]. split; [done|].
    eapply delegate_ok_mono; [exact Hok|..]; unfold refs; rewrite ?Hp, ?Hr; try done. by left.
  - by destruct Ic.
  - by rewrite <- Hta.
Qed.

Lemma inv_tick s b t : inv s b -> clock_ok t -> inv (set_now t s) b.
Proof.
  intros Hinv Ht. eapply inv_other; [exact Hinv|..]; try done; [by apply Hinv|by left|by apply Hinv].
Qed.

Lemma inv_poll s b s' : inv s b -> poll_step s = Some s' -> inv s' b.
Proof.
  intros Hinv. unfold poll_step. pose proof (inv_holds _ _ Hinv) as Hh.
  pose proof (inv_clock _ _ Hinv) as [Hn _].
  destruct (poller s) eqn:Hp; [destruct (readable s)| | |]; intros [= <-];
    (eapply inv_other; [exact Hinv|..]; try done; simpl; auto).
  intros _ Hx. destruct Hx. apply elem_of_app. right. by left.
Qed.

(** A step of the MsgTask that deletes no delegate: the timers [l] are no longer
    kept, and are not running any more or about to be stopped. *)
Lemma inv_retask s s' b b' l :
  inv s b -> delegates s' = delegates s -> timers s' = timers s -> brk s' = brk s -> now s' = now s ->
  poller s' = poller s -> (queue s = queue s' ∨ queue s = MsgTimerExpire :: queue s') ->
  holds (cont s') b' ->
  refs b (task s) (queue s) ≡ₚ l ++ refs b' (task s') (queue s') ->
  (∀ a d, delegates s !! a = Some d -> mContainer d = true -> Timer a (futureTime d) ∈ l ->
     ∃ n c, task s' = TStop n c ∧ timers s !! c = Some a) ->
  (∀ n c a, task s = TStop n c -> timers s !! c ≠ Some a) ->
  pc_clock (task s') ->
  (poller s' = PWait -> MsgTimerExpire ∉ queue s' -> task s' = TIdle -> set_for (cont s')) ->
  (∀ n, task s' = TLoop n None -> ∀ t, t ∈ b' -> (ns n < ns (mFutureTime t))%Z) ->
  inv s' b'.
Proof.
  intros [Ih Il In Ir Irn Io Id It If Ic Ia Ie] Hd Ht Hb Hn Hpo Hq Hh Hp Hl Hst Hpc Ha He.
  assert (Hr : removes (queue s') = removes (queue s)) by (destruct Hq as [->| ->]; done).
  rewrite Hp, fmap_app in In. apply NoDup_app in In as (_ & _ & In).
  split; rewrite ?Hr, ?Hd, ?Ht, ?Hb, ?Hn; try done.
  - intros t Hin. apply Il. rewrite Hp, elem_of_app. by right.
  - destruct Hq as [Hq|Hq]; rewrite Hq in Io; [done|by eapply order_tail].
  - intros a d Had. destruct (Id a d Had) as [? Hok]. split; [done|].
    eapply delegate_ok_mono; [exact Hok|..]; rewrite ?Hr; try done.
    + intros Hc. rewrite Hp, elem_of_app. intros [Hx|Hx]; [right|by left]. by apply (Hl a d).
    + intros _ n c E Hc. by destruct (Hst n c a).
  - by destruct Ic.
Qed.

Ltac fields := cbn [now cont delegates timers queue task poller brk
  set_cont set_queue set_task set_delegates].

Lemma inv_push s b t q :
  inv s b -> task s = TIdle -> queue s = MsgTimerPush t :: q ->
  inv (set_cont (push_proc (cont s) t) (set_queue q s)) (t :: b).
Proof.
  intros Hinv Htask Hq.
  assert (Hrk : rankable t).
  { eapply inv_rankable; [exact Hinv|]. rewrite Hq. unfold refs. rewrite !elem_of_app.
    right. right. by left. }
  destruct (push_proc_correct _ _ _ (inv_holds _ _ Hinv) Hrk) as [Hh Hset].
  destruct Hinv as [Ih Il In Ir Irn Io Id It If Ic Ia Ie]. rewrite Htask, Hq in *.
  assert (Hp : refs (t :: b) TIdle q ≡ₚ refs b TIdle (MsgTimerPush t :: q)).
  { unfold refs. simpl. apply Permutation_middle. }
  split; fields; rewrite ?Htask; try done.
  - intros x. rewrite Hp. apply Il.
  - by rewrite Hp.
  - by eapply order_tail.
  - intros a d Had. destruct (Id a d Had) as [? Hok]. split; [done|].
    eapply delegate_ok_mono; [exact Hok|..]; try done. intros _. rewrite Hp. by left.
  - intros Hpo Hx _. apply Hset, Ia; [done| |done].
    intros [?|?]%elem_of_cons; [done|by apply Hx].
Qed.

Lemma inv_remove s b t q :
  inv s b -> task s = TIdle -> queue s = MsgTimerRemove t :: q ->
  ∃ b' s', take_msg (MsgTimerRemove t) (set_queue q s) = Done s' ∧ inv s' b' ∧
    addr t ∉ addr <$> refs b' (task s') (queue s').
Proof.
  intros Hinv Htask Hq.
  assert (Hdel : delegates s !! addr t = Some (Delegate None (mFutureTime t) false)).
  { apply (inv_removes _ _ Hinv). rewrite Hq. by left. }
  assert (Hrk : rankable t) by by destruct (inv_delegates _ _ Hinv _ _ Hdel).
  destruct (remove_proc_correct _ _ _ (inv_holds _ _ Hinv) Hrk) as (b' & Hh & Hb & Hset).
  destruct Hinv as [Ih Il In Ir Irn Io Id It If Ic Ia Ie]. rewrite Htask, Hq in *.
  assert (Hsub : ∀ x, x ∈ refs b' TIdle q <-> x ∈ refs b TIdle q ∧ x ≠ t).
  { unfold refs. simpl. intros x. rewrite !elem_of_app.
    assert (Hnp : x ∈ pushes q -> x ≠ t).
    { intros Hx ->. apply (Io [] t q); [done|]. by apply list_elem_of_fmap_2. }
    destruct Hb as [Hb|[Hb ->]].
    - unfold refs in In. simpl in In. rewrite Hb in *. simpl in In.
      apply NoDup_cons in In as [In _]. rewrite elem_of_cons.
      assert (x ∈ b' -> x ≠ t).
      { intros Hx ->. apply In. rewrite fmap_app, elem_of_app. left. by apply list_elem_of_fmap_2. }
      naive_solver.
    - assert (x ∈ b -> x ≠ t) by congruence. naive_solver. }
  assert (Hgone : addr t ∉ addr <$> refs b' TIdle q).
  { intros (x & Hx & Hin)%list_elem_of_fmap. apply Hsub in Hin as [Hin Hne].
    destruct (Il x Hin) as (d & Hd' & Hf). rewrite <- Hx, Hdel in Hd'. injection Hd' as <-.
    destruct x, t; simpl in *. congruence. }
  exists b', (set_delegates (delete (addr t) (delegates s))
               (set_cont (remove_proc (cont s) t) (set_queue q s))).
  unfold take_msg. simpl. rewrite Hdel, Htask. split; [done|]. split; [|done].
  apply NoDup_cons in Irn as [Hnr Irn]. split; fields; rewrite ?Htask; try done.
  - intros x Hx. destruct (Il x) as (d & Hd & Hf); [by apply Hsub|]. exists d.
    rewrite lookup_delete_ne; [done|]. intros E. apply Hgone. rewrite E. by apply list_elem_of_fmap_2.
  - destruct Hb as [Hb|[_ ->]]; [|done]. unfold refs in *. simpl in *.
    rewrite Hb in In. simpl in In. by apply NoDup_cons in In as [_ In].
  - intros x Hx. rewrite lookup_delete_ne; [apply Ir; by right|]. intros E. apply Hnr.
    rewrite E. by apply list_elem_of_fmap_2.
  - by eapply order_tail.
  - intros a d [Hne Had]%lookup_delete_Some. destruct (Id a d Had) as [? Hok]. split; [done|].
    eapply delegate_ok_mono; [exact Hok|..]; try done.
    + intros _ Hx. left. apply Hsub. split; [done|]. by intros <-.
    + intros _ [E|Hx]%elem_of_cons; [|done]. by subst t.
  - intros c a Ha. destruct (It c a Ha) as [t' Ht']. exists t'. rewrite lookup_delete_ne; [done|].
    intros <-. congruence.
  - intros a Ha. apply lookup_delete_None. right. by apply If.
  - intros Hpo Hx _. apply Hset, Ia; [done| |done]. intros [?|?]%elem_of_cons; [done|by apply Hx].
Qed.

(** The premises of [inv_retask] that need no argument. *)
Ltac retask :=
  try done; try (by left); try (by right);
  try (by intros ? ? _ _ ?%elem_of_nil);
  try (by (let E := fresh in intros ? ? ? E; congruence)).

Lemma inv_expire s b q :
  inv s b -> task s = TIdle -> queue s = MsgTimerExpire :: q ->
  ∃ b' s', take_msg MsgTimerExpire (set_queue q s) = Done s' ∧ inv s' b'.
Proof.
  intros Hinv Htask Hq. unfold take_msg. fields.
  destruct (heap_pop ranks (mTree (cont s))) as [r tree] eqn:E.
  pose proof (pop_correct _ _ _ _ (inv_holds _ _ Hinv) E) as Hr.
  pose proof (inv_clock _ _ Hinv) as [Hn _].
  destruct r as [d|].
  - destruct Hr as (b' & Hp & Hh). exists b'. eexists. split; [done|].
    eapply (inv_retask s _ b b' []); fields; retask.
    rewrite Htask, Hq. unfold refs. simpl. rewrite Hp. by rewrite <- Permutation_middle.
  - destruct Hr as [-> Hh]. exists []. eexists. split; [done|].
    eapply (inv_retask s _ [] [] []); fields; retask.
    + by rewrite Htask, Hq.
    + intros n _ t Ht. by apply elem_of_nil in Ht.
Qed.

Lemma inv_loop_end s b n :
  inv s b -> task s = TLoop n None ->
  inv (set_task TIdle (set_cont (updateSoonestTime (cont s) None) s)) b.
Proof.
  intros Hinv Htask. eapply (inv_retask s _ b b []); fields; retask.
  - unfold holds. rewrite update_tree. apply Hinv.
  - by rewrite Htask.
  - intros _ _ _. eapply update_None_set_for, Hinv.
Qed.

(** The MsgTask never touches a delegate that is gone. *)
Lemma inv_loop s b n t :
  inv s b -> task s = TLoop n (Some t) ->
  ∃ d, delegates s !! addr t = Some d ∧
    inv (set_task (match mClient d with Some c => TStop n c | None => TNext n end) s) b.
Proof.
  intros Hinv Htask. destruct (inv_live _ _ Hinv t) as (d & Hd & Hf).
  { rewrite Htask. unfold refs. rewrite !elem_of_app. right. left. by left. }
  exists d. split; [done|]. pose proof (inv_clock _ _ Hinv) as [_ Hpc]. rewrite Htask in Hpc.
  destruct (inv_delegates _ _ Hinv _ _ Hd) as [_ Hok]. unfold delegate_ok in Hok.
  eapply (inv_retask s _ b b [t]); fields; retask.
  - apply Hinv.
  - rewrite Htask. unfold refs. destruct (mClient d); simpl; by rewrite <- Permutation_middle.
  - intros a d' Hd' Hm Ht%list_elem_of_singleton. subst t. simpl in *.
    rewrite Hd in Hd'. injection Hd' as <-. rewrite Hm in Hok.
    destruct Hok as [(c & Hc & Hts) _]. rewrite Hc. eauto.
  - by destruct (mClient d).
  - by destruct (mClient d).
  - by destruct (mClient d).
Qed.

Lemma inv_stop_step s b n c r s' :
  inv s b -> task s = TStop n c -> stop c s = Done (r, s') -> inv (set_task (TNext n) s') b.
Proof.
  intros Hinv Htask Hst. pose proof (inv_stop _ _ _ _ _ Hinv Hst) as Hinv'.
  assert (Ht' : task s' = TStop n c ∧ timers s' !! c = None).
  { destruct (timer_stop_cases s b c Hinv) as [[Hc E]|(a & t & Hc & Hd & E)];
      rewrite E in Hst; injection Hst as <- <-; fields; [done|].
    split; [done|]. apply lookup_delete_eq. }
  destruct Ht' as [Ht' Hno]. pose proof (inv_clock _ _ Hinv') as [_ Hpc]. rewrite Ht' in Hpc.
  eapply (inv_retask s' _ b b []); fields; retask.
  - apply Hinv'.
  - by rewrite Ht'.
Qed.

Lemma inv_next s b n t cont' :
  inv s b -> task s = TNext n -> popIfOutRanks (cont s) (Timer 1 n) = (t, cont') ->
  ∃ b', inv (set_task (TLoop n t) (set_cont cont' s)) b'.
Proof.
  intros Hinv Htask E. pose proof (inv_clock _ _ Hinv) as [_ Hpc]. rewrite Htask in Hpc.
  pose proof (popIfOutRanks_correct _ b (Timer 1 n) _ _ (inv_holds _ _ Hinv) (clock_time _ Hpc) E) as Hr.
  destruct t as [d|].
  - destruct Hr as [_ (b' & Hp & Hh)]. exists b'.
    eapply (inv_retask s _ b b' []); fields; retask.
    rewrite Htask. unfold refs. simpl. rewrite Hp. by rewrite <- Permutation_middle.
  - destruct Hr as [-> Hlate]. exists b.
    eapply (inv_retask s _ b b []); fields; retask; [apply Hinv|by rewrite Htask|].
    intros n' [= <-] t Ht. by apply Hlate.
Qed.

Lemma inv_task s b o : inv s b -> task_step s = Some o ->
  ∃ ev s' b', o = Done (ev, s') ∧ inv s' b'.
Proof.
  intros Hinv. unfold task_step. destruct (task s) as [|n [t|]|n c|n] eqn:Htask.
  - destruct (queue s) as [|m q] eqn:Hq; [done|]. intros [= <-]. destruct m as [t|t|].
    + eexists _, _, _. split; [done|]. exact (inv_push _ _ _ _ Hinv Htask Hq).
    + destruct (inv_remove _ _ _ _ Hinv Htask Hq) as (b' & s' & E & Hi & _).
      rewrite E. eexists _, _, b'. by split.
    + destruct (inv_expire _ _ _ Hinv Htask Hq) as (b' & s' & E & Hi).
      rewrite E. eexists _, _, b'. by split.
  - intros [= <-]. destruct (inv_loop _ _ _ _ Hinv Htask) as (d & Hd & Hi). rewrite Hd.
    eexists _, _, b. by split.
  - intros [= <-]. eexists _, _, b. split; [done|]. by eapply inv_loop_end.
  - intros [= <-]. destruct (timer_stop_cases s b c Hinv) as [[Hc E]|(a & t & Hc & Hd & E)];
      rewrite E; (eexists _, _, b; split; [done|]); by eapply inv_stop_step.
  - destruct (popIfOutRanks (cont s) (Timer 1 n)) as [t cont'] eqn:E. intros [= <-].
    destruct (inv_next _ _ _ _ _ Hinv Htask E) as [b' Hi]. eexists _, _, b'. by split.
Qed.

Lemma timer_inv_step s ev s' b : inv s b -> step s ev s' -> ∃ b', inv s' b'.
Proof.
  intros Hinv Hst. destruct Hst as [s t Ht _|s c ms r s' Hms E|s c r s' E|s ev s' E|s s' E].
  - exists b. by apply inv_tick.
  - exists b. by eapply inv_start.
  - exists b. by eapply inv_stop.
  - destruct (inv_task _ _ _ Hinv E) as (ev' & s1 & b' & [= <- <-] & Hi). by exists b'.
  - exists b. by eapply inv_poll.
Qed.

Lemma inv_initial t : clock_ok t -> inv (initial t) [].
Proof.
  intros Ht. split; simpl; try done; try (by intros x Hx; apply elem_of_nil in Hx).
  - apply heap_is_null.
  - by apply NoDup_nil.
  - by apply NoDup_nil.
  - by intros [].
Qed.

Lemma inv_steps t tr s : clock_ok t -> steps (initial t) tr s -> ∃ b, inv s b.
Proof.
  intros Ht Hst. remember (initial t) as s0 eqn:E.
  induction Hst as [s|s1 tr s2 ev s3 Hst IH Hstep]; subst.
  - exists []. by apply inv_initial.
  - destruct IH as [b Hb]; [done|]. by eapply timer_inv_step.
Qed.

(** * Runs given by their actions *)

(** What can happen next, as data. *)
Inductive action : Type :=
  | ATick (t : timespec)
  | AStart (c : loc) (ms : Z)
  | AStop (c : loc)
  | ATask
  | APoll.

#[export] Instance clock_ok_dec t : Decision (clock_ok t).
Proof. unfold clock_ok. apply _. Defined.

Definition done_or_none {B} (o : outcome B) : option B :=
  match o with Done b => Some b | _ => None end.

Definition exec1 (a : action) (s : sys) : option (event * sys) :=
  match a with
  | ATick t => if decide (clock_ok t ∧ (ns (now s) <= ns t)%Z) then Some (EvTau, set_now t s) else None
  | AStart c ms =>
    if decide (0 <= ms < 2 ^ 32)%Z
    then '(b, s') ← done_or_none (start c ms s); Some (if b : bool then EvStart c else EvTau, s')
    else None
  | AStop c => '(b, s') ← done_or_none (stop c s); Some (if b : bool then EvStop c else EvTau, s')
  | ATask => o ← task_step s; done_or_none o
  | APoll => s' ← poll_step s; Some (EvTau, s')
  end.

Fixpoint exec (acts : list action) (s : sys) : option (list event * sys) :=
  match acts with
  | [] => Some ([], s)
  | a :: acts => '(ev, s) ← exec1 a s; '(tr, s) ← exec acts s; Some (ev :: tr, s)
  end.

Lemma exec1_step a s ev s' : exec1 a s = Some (ev, s') -> step s ev s'.
Proof.
  destruct a as [t|c ms|c| |]; simpl.
  - case_decide as Ht; [|done]. intros [= <- <-]. destruct Ht. by apply step_tick.
  - case_decide as Hms; [|done]. destruct (start c ms s) as [[b s1]| |] eqn:E; simpl; [|done..].
    intros [= <- <-]. by eapply step_start.
  - destruct (stop c s) as [[b s1]| |] eqn:E; simpl; [|done..]. intros [= <- <-]. by apply step_stop.
  - destruct (task_step s) as [[[]| |]|] eqn:E; simpl; [|done..]. intros [= <- <-]. by apply step_task.
  - destruct (poll_step s) eqn:E; simpl; [|done]. intros [= <- <-]. by apply step_poll.
Qed.

Lemma timer_steps_cons s1 ev s2 tr s3 : step s1 ev s2 -> steps s2 tr s3 -> steps s1 (ev :: tr) s3.
Proof.
  intros Hst Hs. induction Hs as [s|s2 tr s3 ev' s4 Hs IH Hst'].
  - apply (steps_step _ [] _ _ _ (steps_refl _) Hst).
  - rewrite app_comm_cons. eapply steps_step; eauto.
Qed.

Lemma exec_steps acts s tr s' : exec acts s = Some (tr, s') -> steps s tr s'.
Proof.
  revert s tr; induction acts as [|a acts IH]; intros s tr; simpl.
  - intros [= <- <-]. constructor.
  - destruct (exec1 a s) as [[ev s1]|] eqn:E; simpl; [|done].
    destruct (exec acts s1) as [[tr1 s2]|] eqn:E2; simpl; [|done]. intros [= <- <-].
    eapply timer_steps_cons; [by eapply exec1_step|by apply IH].
Qed.

(** * Theorems *)

Definition ev_starts (c : loc) (ev : event) : nat :=
  match ev with EvStart c' => if decide (c' = c) then 1 else 0 | _ => 0 end.
Definition ev_ends (c : loc) (ev : event) : nat :=
  match ev with
  | EvStop c' | EvFire c' _ => if decide (c' = c) then 1 else 0
  | _ => 0
  end.
Definition starts (c : loc) (tr : list event) : nat := sum_list_with (ev_starts c) tr.
Definition ends (c : loc) (tr : list event) : nat := sum_list_with (ev_ends c) tr.
Definition running (c : loc) (s : sys) : nat := if timers s !! c is Some _ then 1 else 0.

(** A successful [stop] takes the client's timer away. *)
Lemma stop_running s b c c' r s' :
  inv s b -> stop c s = Done (r, s') ->
  running c' s = running c' s' + (if r then if decide (c = c') then 1 else 0 else 0).
Proof.
  intros Hinv Hst. destruct (timer_stop_cases s b c Hinv) as [[_ E]|(a & t & Hc & _ & E)];
    rewrite E in Hst; injection Hst as <- <-; [lia|]. unfold running. simpl.
  case_decide; [subst; by rewrite Hc, lookup_delete_eq|].
  rewrite lookup_delete_ne by done. lia.
Qed.

Lemma step_running s b ev s' c :
  inv s b -> step s ev s' -> running c s + ev_starts c ev = running c s' + ev_ends c ev.
Proof.
  intros Hinv Hst. destruct Hst as [s t Ht _|s c0 ms r s' Hms E|s c0 r s' E|s ev s' E|s s' E].
  - simpl. unfold running. simpl. lia.
  - unfold start in E. destruct (timers s !! c0) eqn:Hc; injection E as <- <-; simpl; [lia|].
    unfold running. simpl. case_decide; [subst; by rewrite Hc, lookup_insert_eq|].
    rewrite lookup_insert_ne by done. lia.
  - rewrite (stop_running _ _ _ c _ _ Hinv E). destruct r; simpl; lia.
  - unfold task_step in E. destruct (task s) as [|n [t|]|n c0|n].
    + destruct (queue s) as [|[t|t|] q]; [done|..]; simpl in E.
      * by injection E as <- <-.
      * destruct (delegates s !! addr t); by simplify_eq/=.
      * destruct (heap_pop ranks (mTree (cont s))). simpl in E. by injection E as <- <-.
    + destruct (delegates s !! addr t); by simplify_eq/=.
    + by injection E as <- <-.
    + destruct (stop c0 s) as [[r s1]| |] eqn:Est; simplify_eq/=.
      change (running c (set_task (TNext n) s1)) with (running c s1).
      rewrite (stop_running _ _ _ c _ _ Hinv Est). destruct r; simpl; lia.
    + destruct (popIfOutRanks (cont s) (Timer 1 n)). by injection E as <- <-.
  - unfold poll_step in E. destruct (poller s); [destruct (readable s)|..]; by simplify_eq/=.
Qed.

(** C11: Every timer a client started ends at most once, by its callback or by
    a [stop] that returns true, never by both: at any point of any run, a
    client's successful starts are as many as its callbacks and successful
    stops together, plus one exactly while it has a timer running. *)
Theorem loc_timer_ends_once t tr s c :
  clock_ok t -> steps (initial t) tr s -> starts c tr = ends c tr + running c s.
Proof.
  intros Ht Hst. remember (initial t) as s0 eqn:E.
  induction Hst as [s|s1 tr s2 ev s3 Hst IH Hstep]; subst; [done|].
  destruct (inv_steps _ _ _ Ht Hst) as [b Hinv].
  pose proof (step_running _ _ _ _ c Hinv Hstep). specialize (IH eq_refl).
  unfold starts, ends in *. rewrite !sum_list_with_app. simpl. lia.
Qed.

(** C6: No timer is forgotten.  Whenever the MsgTask has drained its queue and
    the polling thread waits, every running timer is in the heap, the timerfd
    is in the epoll set and armed for that timer's time or an earlier one, and
    no delegate other than the running timers' is left allocated. *)
Theorem loc_timer_none_forgotten t tr s c a :
  clock_ok t -> steps (initial t) tr s -> task s = TIdle -> queue s = [] -> poller s = PWait ->
  timers s !! c = Some a ->
  (∃ d t0, delegates s !! a = Some d ∧ Timer a (futureTime d) ∈ objects (mTree (cont s)) ∧
     polled (cont s) = true ∧ armed (cont s) = Some t0 ∧ (ns t0 <= ns (futureTime d))%Z) ∧
  (∀ a', is_Some (delegates s !! a') -> ∃ c', timers s !! c' = Some a').
Proof.
  intros Ht Hst Htask Hq Hp Hc. destruct (inv_steps _ _ _ Ht Hst) as [b Hinv]. split.
  - destruct (inv_timers _ _ Hinv _ _ Hc) as [t' Hd]. exists (Delegate (Some c) t' true).
    destruct (inv_delegates _ _ Hinv _ _ Hd) as [Htime [_ Hin]].
    destruct Hin as [Hin|(? & ? & ? & _)]; [|congruence].
    rewrite Htask, Hq in Hin. unfold refs in Hin. simpl in Hin. rewrite app_nil_r in Hin.
    pose proof (heap_peek_is _ _ _ (inv_holds _ _ Hinv)) as Hb.
    destruct (heap_peek (mTree (cont s))) as [top|] eqn:Htop; simpl in Hb.
    2: { subst. by apply elem_of_nil in Hin. }
    destruct Hb as [Htin Hbest]. exists (mFutureTime top).
    destruct (inv_armed _ _ Hinv Hp) with (t := top) as [Hpo Har]; [rewrite Hq; apply not_elem_of_nil|done|done|].
    destruct (inv_holds _ _ Hinv) as (_ & _ & Hperm).
    split_and!; [done|by rewrite Hperm|done|done|]. simpl.
    assert (rankable top).
    { eapply inv_rankable; [exact Hinv|]. unfold refs. apply elem_of_app. by left. }
    pose proof (ranks_ns (Timer a t') top Htime ltac:(done)). specialize (Hbest _ Hin). simpl in *. lia.
  - intros a' [d Hd]. destruct (inv_delegates _ _ Hinv _ _ Hd) as [_ Hok].
    unfold delegate_ok in Hok. destruct (mContainer d).
    + destruct Hok as [(c' & _ & ?) _]. by exists c'.
    + rewrite Hq in Hok. destruct Hok as [_ Hok]. by apply elem_of_nil in Hok.
Qed.

(** C30: No use after free and no double delete: in every reachable state the
    MsgTask's next step and any client's [stop] find the delegates they
    dereference alive, although clients, MsgTask and polling thread interleave
    freely. *)
Theorem loc_timer_delegates_safe t tr s :
  clock_ok t -> steps (initial t) tr s ->
  (∀ o, task_step s = Some o -> ∃ ev s', o = Done (ev, s')) ∧
  (∀ c, ∃ r s', stop c s = Done (r, s')).
Proof.
  intros Ht Hst. destruct (inv_steps _ _ _ Ht Hst) as [b Hinv]. split.
  - intros o Ho. destruct (inv_task _ _ _ Hinv Ho) as (ev & s' & _ & ? & _). eauto.
  - intros c. destruct (timer_stop_cases s b c Hinv) as [[_ E]|(a & t' & _ & _ & E)]; rewrite E; eauto.
Qed.

(** When [MsgTimerExpire] ends its loop it has popped every timer that was
    due: whatever is left in the heap is later than the time it read when it
    began. *)
Theorem loc_timer_expire_complete t tr s n x :
  clock_ok t -> steps (initial t) tr s -> task s = TLoop n None ->
  x ∈ objects (mTree (cont s)) -> (ns n < ns (mFutureTime x))%Z.
Proof.
  intros Ht Hst Htask Hx. destruct (inv_steps _ _ _ Ht Hst) as [b Hinv].
  eapply inv_expired; [exact Hinv|done|]. destruct (inv_holds _ _ Hinv) as (_ & _ & Hp). by rewrite <- Hp.
Qed.

(** [start] makes the timer due exactly [timeOutInMs] milliseconds from
    now, at a normalised time that can be ranked, for every value the unsigned
    parameter can have; when the client already has a timer it does nothing. *)
Theorem loc_timer_start_due s c ms :
  clock_ok (now s) -> (0 <= ms < 2 ^ 32)%Z ->
  match timers s !! c with
  | Some _ => start c ms s = Done (false, s)
  | None => ∃ s' d, start c ms s = Done (true, s') ∧ due s' c = Some d ∧
      ns d = (ns (now s) + ms * 1000000)%Z ∧ time_ok d ∧ 
      queue s' = queue s ++ [MsgTimerPush (Timer (brk s) d)]
  end.
Proof.
  intros Hn Hms. unfold start. destruct (timers s !! c); [done|].
  destruct (future_time_ok _ _ Hn Hms) as [Hns Hok]. eexists _, _. split; [done|].
  unfold due. simpl. rewrite lookup_insert_eq. simpl. rewrite lookup_insert_eq. by split_and!.
Qed.

(** The MsgTask's steps, one after the other. *)
Fixpoint task_steps (n : nat) (s : sys) : option sys :=
  match n with
  | 0 => Some s
  | S n => match task_step s with
           | Some (Done (_, s)) => task_steps n s
           | _ => None
           end
  end.

(** What is left to do for [MsgTimerExpire] when the heap holds [b]. *)
Definition expire_measure (p : task_pc) (b : list timer) : nat :=
  3 * length b + match p with
                 | TIdle => 0
                 | TLoop _ (Some _) => 4
                 | TStop _ _ => 3
                 | TNext _ => 2
                 | TLoop _ None => 1
                 end.

Lemma expire_progress s b : inv s b -> task s ≠ TIdle ->
  ∃ ev s' b', task_step s = Some (Done (ev, s')) ∧ inv s' b' ∧
    (task s' = TIdle ∨ expire_measure (task s') b' < expire_measure (task s) b).
Proof.
  intros Hinv Hbusy. unfold task_step. destruct (task s) as [|n [t|]|n c|n] eqn:Htask; [done|..].
  - destruct (inv_loop _ _ _ _ Hinv Htask) as (d & Hd & Hi). rewrite Hd.
    eexists _, _, b. split_and!; [done|done|]. right. unfold expire_measure. simpl. destruct (mClient d); simpl; lia.
  - eexists _, _, b. split_and!; [done|by eapply inv_loop_end|by left].
  - destruct (timer_stop_cases s b c Hinv) as [[Hc E]|(a & t & Hc & Hd & E)]; rewrite E;
      (eexists _, _, b; split_and!; [done|by eapply inv_stop_step|]; right; unfold expire_measure; simpl; lia).
  - destruct (popIfOutRanks (cont s) (Timer 1 n)) as [t cont'] eqn:E.
    destruct (inv_next _ _ _ _ _ Hinv Htask E) as [b' Hi].
    eexists _, _, b'. split_and!; [done|done|]. right. unfold expire_measure. simpl.
    destruct (inv_clock _ _ Hinv) as [_ Hn]. rewrite Htask in Hn.
    pose proof (popIfOutRanks_correct _ b (Timer 1 n) _ _ (inv_holds _ _ Hinv) (clock_time _ Hn) E) as Hr.
    pose proof (inv_holds _ _ Hi) as (_ & _ & Hp'). simpl in Hp'.
    destruct t as [d|].
    + destruct Hr as [_ (b2 & Hp & _ & _ & Hp2)]. rewrite Hp, <- Hp', Hp2. simpl. lia.
    + destruct Hr as [-> _]. destruct (inv_holds _ _ Hinv) as (_ & _ & Hp). rewrite <- Hp, <- Hp'. lia.
Qed.

(** Handling an expiration ends: from any point of the loop of
    [MsgTimerExpire] the MsgTask gets to its next message in at most three
    steps per timer in the heap and four more. *)
Theorem loc_timer_expire_terminates t tr s :
  clock_ok t -> steps (initial t) tr s ->
  ∃ n s', n <= 3 * length (objects (mTree (cont s))) + 4 ∧
    task_steps n s = Some s' ∧ task s' = TIdle.
Proof.
  intros Ht Hst. destruct (inv_steps _ _ _ Ht Hst) as [b Hinv].
  assert (H : ∀ k s b, inv s b -> expire_measure (task s) b <= k ->
            ∃ n s', n <= k ∧ task_steps n s = Some s' ∧ task s' = TIdle).
  { clear. induction k as [|k IH]; intros s b Hinv Hk.
    - exists 0, s. split_and!; [done|done|]. by destruct (task s) as [|? []| |]; unfold expire_measure in Hk; simpl in Hk; try lia.
    - destruct (decide (task s = TIdle)) as [|Hbusy]; [exists 0, s; split_and!; [lia|done..]|].
      destruct (expire_progress s b Hinv Hbusy) as (ev & s' & b' & E & Hi & [Hidle|Hlt]).
      + exists 1, s'. simpl. rewrite E. split_and!; [lia|done..].
      + destruct (IH s' b' Hi) as (n & s2 & Hn & Hs & Hidle); [lia|].
        exists (S n), s2. simpl. rewrite E. split_and!; [lia|done..]. }
  destruct (H _ s b Hinv (le_n _)) as (n & s' & Hn & Hs & Hidle). exists n, s'. split_and!; [|done..].
  destruct (inv_holds _ _ Hinv) as (_ & _ & Hp). rewrite Hp. unfold expire_measure in Hn.
  destruct (task s) as [|? []| |]; simpl in *; lia.
Qed.

(** A timer can fire early.  [MsgTimerExpire] pops the first timer of the
    heap without looking at its time; when the timer the expiration was for has
    been stopped meanwhile and another one pushed, that other one is fired
    although it is not due. *)
Theorem loc_timer_can_fire_early :
  ∃ t tr s c d, clock_ok t ∧ steps (initial t) (tr ++ [EvFire c d]) s ∧ (ns (now s) < ns d)%Z.
Proof.
  destruct (exec [AStart 1 100; ATask; AStop 1; ATask; ATick (TS 100 100000000);
                  APoll; AStart 1 5000; APoll; APoll; APoll; ATask; ATask; ATask; ATask]
                 (initial (TS 100 0))) as [[tr s]|] eqn:E; [|by vm_compute in E].
  pose proof (exec_steps _ _ _ _ E) as Hst. vm_compute in E. injection E as <- <-.
  exists (TS 100 0), [EvStart 1; EvTau; EvStop 1; EvTau; EvTau; EvTau; EvStart 1; EvTau; EvTau;
    EvTau; EvTau; EvTau; EvTau]. eexists _, 1%positive, _.
  split; [|split; [exact Hst|]]; vm_compute; by repeat split.
Qed.

(** Removing the last timer leaves the timerfd armed and polled: the branch of
    [updateSoonestTime] that would disarm it is not taken, since the caller
    passes NULL and the heap is empty. *)
Lemma remove_last_keeps_fd c t :
  holds c [t] -> rankable t ->
  armed (remove_proc c t) = armed c ∧ polled (remove_proc c t) = polled c ∧
  getSoonestTimer (remove_proc c t) = None.
Proof.
  intros Hh Hr. destruct (remove_proc_correct _ _ _ Hh Hr) as (b' & Hh' & Hb & _).
  assert (b' = []) as ->.
  { destruct Hb as [Hb|[Hn _]]; [|destruct Hn; by left].
    apply Permutation_length in Hb. by destruct b'; simpl in Hb. }
  assert (Hs : getSoonestTimer (remove_proc c t) = None).
  { destruct (getSoonestTimer (remove_proc c t)) as [x|] eqn:E; [|done].
    destruct (soonest_in _ _ _ Hh' E) as [Hx _]. by apply elem_of_nil in Hx. }
  unfold remove_proc in *. destruct (heap_remove ranks (mTree c) t) as [r tree].
  assert (Hn : getSoonestTimer (set_tree tree c) = None).
  { unfold getSoonestTimer in *. destruct (decide _) in Hs; by rewrite ?update_tree in Hs. }
  case_decide; [|done]. unfold updateSoonestTime. by rewrite decide_True.
Qed.

(** The 64-bit milliseconds of [loc_timer_start] lose their upper half: a timer
    of 2^32 ms is due at once. *)
Lemma loc_timer_start_truncates s c :
  timers s !! c = None -> loc_timer_start c (2 ^ 32) s = start c 0 s.
Proof. done. Qed.

(** * Witnesses *)

(** Two clients: the second one's timer, due first, expires and is fired. *)
Definition demo_started : list action := [AStart 1 100; AStart 2 50; ATask; ATask].
Definition demo_expiring : list action :=
  demo_started ++ [ATick (TS 100 60000000); APoll; APoll; APoll; APoll; ATask].
Definition demo_fired : list action := demo_expiring ++ [ATask; ATask; ATask].

Lemma demo_run acts :
  exec acts (initial (TS 100 0)) ≠ None ->
  ∃ tr s, steps (initial (TS 100 0)) tr s ∧ exec acts (initial (TS 100 0)) = Some (tr, s).
Proof.
  intros H. destruct (exec acts (initial (TS 100 0))) as [[tr s]|] eqn:E; [|done].
  exists tr, s. split; [by eapply exec_steps|done].
Qed.

Lemma demo_clock : clock_ok (TS 100 0).
Proof. by vm_compute. Qed.

Ltac demo acts tr s Hst :=
  let E := fresh "E" in
  destruct (demo_run acts) as (tr & s & Hst & E); [by vm_compute|];
  vm_compute in E; injection E as <- <-.

Lemma loc_timer_ends_once_witness :
  ∃ tr s, steps (initial (TS 100 0)) tr s ∧ starts 2 tr = 1 ∧ timers s !! 2%positive = None ∧
    ends 2 tr = 1.
Proof.
  demo demo_fired tr s Hst. eexists _, _. split; [exact Hst|]. split; [reflexivity|].
  split; [reflexivity|]. pose proof (loc_timer_ends_once _ _ _ 2 demo_clock Hst) as H.
  by vm_compute in H |- *.
Defined.

Lemma loc_timer_none_forgotten_witness :
  ∃ tr s, steps (initial (TS 100 0)) tr s ∧ timers s !! 1%positive = Some 1%positive ∧
    ∃ d, delegates s !! 1%positive = Some d ∧ polled (cont s) = true.
Proof.
  demo demo_started tr s Hst. eexists _, _. split; [exact Hst|]. split; [reflexivity|].
  destruct (loc_timer_none_forgotten _ _ _ 1 1 demo_clock Hst)
    as ((d & t0 & Hd & _ & Hp & _) & _); [reflexivity..|].
  exists d. split; [exact Hd|exact Hp].
Defined.

Lemma loc_timer_delegates_safe_witness :
  ∃ tr s, steps (initial (TS 100 0)) tr s ∧ task s ≠ TIdle ∧
    (∀ o, task_step s = Some o -> ∃ ev s', o = Done (ev, s')).
Proof.
  demo demo_expiring tr s Hst. eexists _, _. split; [exact Hst|]. split; [discriminate|].
  exact (proj1 (loc_timer_delegates_safe _ _ _ demo_clock Hst)).
Defined.

Lemma loc_timer_expire_complete_witness :
  ∃ tr s x, steps (initial (TS 100 0)) tr s ∧ objects (mTree (cont s)) = [x] ∧
    (ns (TS 100 60000000) < ns (mFutureTime x))%Z.
Proof.
  demo demo_fired tr s Hst. eexists _, _, (Timer 1 (TS 100 100000000)).
  split; [exact Hst|]. split; [reflexivity|].
  apply (loc_timer_expire_complete _ _ _ (TS 100 60000000) _ demo_clock Hst); [reflexivity|].
  simpl. by left.
Defined.

Lemma loc_timer_start_due_witness :
  clock_ok (TS 100 999999999) ∧
  ∃ s' d, start 1 4294967295 (initial (TS 100 999999999)) = Done (true, s') ∧
    ns d = (100999999999 + 4294967295 * 1000000)%Z ∧ time_ok d.
Proof.
  split; [by vm_compute|].
  destruct (loc_timer_start_due (initial (TS 100 999999999)) 1 4294967295)
    as (s' & d & E & _ & Hd & Hok & _); [by vm_compute..|].
  exists s', d. split; [exact E|]. split; [rewrite Hd; reflexivity|exact Hok].
Defined.

Lemma loc_timer_expire_terminates_witness :
  ∃ tr s n s', steps (initial (TS 100 0)) tr s ∧ task s ≠ TIdle ∧
    task_steps n s = Some s' ∧ task s' = TIdle.
Proof.
  demo demo_expiring tr s Hst.
  destruct (loc_timer_expire_terminates _ _ _ demo_clock Hst) as (n & s' & _ & Hs & Hi).
  eexists _, _, n, s'. split; [exact Hst|]. split; [discriminate|]. split; [exact Hs|exact Hi].
Defined.
