(* ===== verification/Agps.v ===== *)
(** The AGPS state machines and their manager ([gps/gnss/Agps.cpp]): which
    clients want a data connection for assistance data, and what is asked of
    the framework and told to the modem.  Subscribers are objects in a store
    and the lists hold their addresses, because the state machine's current
    subscriber is at times one of the listed objects and at times a local
    variable of the caller. *)

From S2P Require Import Prelude.

(** * Data (Agps.h) *)

Inductive AgpsState : Type :=
  | AGPS_STATE_INVALID
  | AGPS_STATE_RELEASED
  | AGPS_STATE_PENDING
  | AGPS_STATE_ACQUIRED
  | AGPS_STATE_RELEASING.

Inductive AgpsEvent : Type :=
  | AGPS_EVENT_INVALID
  | AGPS_EVENT_SUBSCRIBE
  | AGPS_EVENT_UNSUBSCRIBE
  | AGPS_EVENT_GRANTED
  | AGPS_EVENT_RELEASED
  | AGPS_EVENT_DENIED.

Inductive AgpsNotificationType : Type :=
  | AGPS_NOTIFICATION_TYPE_INVALID
  | AGPS_NOTIFICATION_TYPE_FOR_ALL_SUBSCRIBERS
  | AGPS_NOTIFICATION_TYPE_FOR_INACTIVE_SUBSCRIBERS
  | AGPS_NOTIFICATION_TYPE_FOR_ACTIVE_SUBSCRIBERS.

#[export] Instance AgpsState_eq_dec : EqDecision AgpsState.
Proof. solve_decision. Defined.

(** Constants of gps_extended_c.h and loc_gps.h. *)
Definition LOC_AGPS_TYPE_INVALID : Z := -1.
Definition LOC_AGPS_TYPE_SUPL : Z := 1.
Definition LOC_AGPS_TYPE_WWAN_ANY : Z := 3.
Definition LOC_AGPS_TYPE_SUPL_ES : Z := 5.
Definition AGPS_APN_BEARER_INVALID : Z := 0.
Definition LOC_APN_TYPE_MASK_SUPL : Z := 16.
Definition LOC_APN_TYPE_MASK_EMERGENCY : Z := 512.
Definition AGPS_ATL_TYPE_SUPL : Z := 1.
Definition AGPS_ATL_TYPE_SUPL_ES : Z := 2.
Definition AGPS_ATL_TYPE_WWAN : Z := 4.
Definition LOC_GPS_CAPABILITY_MSB : Z := 2.
Definition LOC_GPS_CAPABILITY_MSA : Z := 4.
Definition MAX_APN_LEN : Z := 100.

Record AgpsSubscriber := Subscriber {
  mConnHandle : Z;
  mWaitForCloseComplete : bool;
  mIsInactive : bool;
  mApnTypeMask : Z
}.

(** An APN: the characters before the terminating NUL. *)
Abbreviation apn_string := (list Z) (only parsing).

Record AgpsStateMachine := StateMachine {
  mSubscriberList : list loc;
  mCurrentSubscriber : ptr;
  mState : AgpsState;
  mAgpsType : Z;
  smApnTypeMask : Z;
  mAPN : option apn_string;
  mAPNLen : Z;
  mBearer : Z
}.

(** The calls out of the manager: the framework's status callback and the two
    ATL callbacks to the modem. *)
Inductive callback : Type :=
  | FrameworkStatus (request : bool) (agpsType mask : Z)
  | AtlOpenStatus (handle isSuccess : Z) (apn : option apn_string) (apnLen bearer agpsType mask : Z)
  | AtlCloseStatus (handle isSuccess : Z).

(** The two state machines: mAgnssNif and mInternetNif. *)
Inductive nif : Type := AgnssNif | InternetNif.

#[export] Instance nif_eq_dec : EqDecision nif.
Proof. solve_decision. Defined.

(** The manager and the store of subscribers; [log] is the calls made, in
    order. *)
Record world := World {
  subs : gmap loc AgpsSubscriber;
  wbrk : loc;
  nifs : nif -> option AgpsStateMachine;
  log : list callback
}.

(** The configuration items of gps.conf the code reads. *)
Record gps_conf := Conf {
  CAPABILITIES : Z;
  USE_EMERGENCY_PDN_FOR_EMERGENCY_SUPL : Z
}.

(** * The store *)

Definition set_subs (m : gmap loc AgpsSubscriber) (w : world) : world :=
  World m (wbrk w) (nifs w) (log w).
Definition set_nif (n : nif) (s : option AgpsStateMachine) (w : world) : world :=
  World (subs w) (wbrk w) (fun n' => if decide (n' = n) then s else nifs w n') (log w).

Definition emit (c : callback) : M world unit :=
  modify (fun w => World (subs w) (wbrk w) (nifs w) (log w ++ [c])).

(** [new AgpsSubscriber(...)], or a local variable coming into scope; its end
    is [free_sub]. *)
Definition new_sub (s : AgpsSubscriber) : M world loc := fun w =>
  Done (wbrk w, World (<[wbrk w := s]> (subs w)) (Pos.succ (wbrk w)) (nifs w) (log w)).

Definition read_sub (p : ptr) : M world AgpsSubscriber := fun w =>
  match p ≫= (subs w !!.) with
  | Some s => Done (s, w)
  | None => Undefined
  end.

Definition write_sub (p : ptr) (f : AgpsSubscriber -> AgpsSubscriber) : M world unit := fun w =>
  match p ≫= (fun l => (l,.) <$> subs w !! l) with
  | Some (l, s) => Done (tt, set_subs (<[l := f s]> (subs w)) w)
  | None => Undefined
  end.

Definition free_sub (l : loc) : M world unit := fun w =>
  match subs w !! l with
  | Some _ => Done (tt, set_subs (delete l (subs w)) w)
  | None => Undefined
  end.

(** [this->field] and [this->field = ...] of a state machine; undefined when
    the machine was never created. *)
Definition this (n : nif) : M world AgpsStateMachine := fun w =>
  match nifs w n with
  | Some s => Done (s, w)
  | None => Undefined
  end.
Definition this_set (n : nif) (f : AgpsStateMachine -> AgpsStateMachine) : M world unit := fun w =>
  match nifs w n with
  | Some s => Done (tt, set_nif n (Some (f s)) w)
  | None => Undefined
  end.

Definition with_list (l : list loc) (s : AgpsStateMachine) :=
  StateMachine l (mCurrentSubscriber s) (mState s) (mAgpsType s) (smApnTypeMask s) (mAPN s)
               (mAPNLen s) (mBearer s).
Definition with_current (p : ptr) (s : AgpsStateMachine) :=
  StateMachine (mSubscriberList s) p (mState s) (mAgpsType s) (smApnTypeMask s) (mAPN s)
               (mAPNLen s) (mBearer s).
Definition with_state (st : AgpsState) (s : AgpsStateMachine) :=
  StateMachine (mSubscriberList s) (mCurrentSubscriber s) st (mAgpsType s) (smApnTypeMask s)
               (mAPN s) (mAPNLen s) (mBearer s).
Definition with_type (t mask : Z) (s : AgpsStateMachine) :=
  StateMachine (mSubscriberList s) (mCurrentSubscriber s) (mState s) t mask (mAPN s) (mAPNLen s)
               (mBearer s).
Definition with_apn (apn : option apn_string) (len : Z) (s : AgpsStateMachine) :=
  StateMachine (mSubscriberList s) (mCurrentSubscriber s) (mState s) (mAgpsType s)
               (smApnTypeMask s) apn len (mBearer s).
Definition with_bearer (b : Z) (s : AgpsStateMachine) :=
  StateMachine (mSubscriberList s) (mCurrentSubscriber s) (mState s) (mAgpsType s)
               (smApnTypeMask s) (mAPN s) (mAPNLen s) b.

Definition with_inactive (b : bool) (s : AgpsSubscriber) :=
  Subscriber (mConnHandle s) (mWaitForCloseComplete s) b (mApnTypeMask s).

(** * AgpsStateMachine *)

Definition equals (a b : AgpsSubscriber) : bool := (mConnHandle a =? mConnHandle b)%Z.

Definition transitionState (n : nif) (newState : AgpsState) : M world unit :=
  this_set n (with_state newState).

Definition requestOrReleaseDataConn (n : nif) (request : bool) : M world unit :=
  let! s := this n in emit (FrameworkStatus request (mAgpsType s) (smApnTypeMask s)).

(** The loops over the list, from the element they have reached. *)
Fixpoint add_loop (l : list loc) (subscriberToAdd : ptr) : M world bool :=
  match l with
  | [] => ret false
  | p :: l =>
    let! subscriber := read_sub (Some p) in
    let! s := read_sub subscriberToAdd in
    if equals subscriber s then ret true else add_loop l subscriberToAdd
  end.

Definition addSubscriber (n : nif) (subscriberToAdd : ptr) : M world unit :=
  let! s := this n in
  let! present := add_loop (mSubscriberList s) subscriberToAdd in
  if present : bool then ret tt
  else
    let! toAdd := read_sub subscriberToAdd in
    let! cloned := new_sub toAdd in
    this_set n (with_list (mSubscriberList s ++ [cloned])).

(** [deleteSubscriber]: what is left of the list. *)
Fixpoint delete_loop (l : list loc) (subscriberToDelete : ptr) : M world (list loc) :=
  match l with
  | [] => ret []
  | p :: l =>
    let! subscriber := read_sub (Some p) in
    let! s := read_sub subscriberToDelete in
    if equals subscriber s
    then free_sub p ;;; delete_loop l subscriberToDelete
    else let! kept := delete_loop l subscriberToDelete in ret (p :: kept)
  end.

Definition deleteSubscriber (n : nif) (subscriberToDelete : ptr) : M world unit :=
  let! s := this n in
  let! kept := delete_loop (mSubscriberList s) subscriberToDelete in
  this_set n (with_list kept).

Fixpoint active_loop (l : list loc) : M world bool :=
  match l with
  | [] => ret false
  | p :: l =>
    let! subscriber := read_sub (Some p) in
    if negb (mIsInactive subscriber) then ret true else active_loop l
  end.

Definition anyActiveSubscribers (n : nif) : M world bool :=
  let! s := this n in active_loop (mSubscriberList s).

Definition notifyEventToSubscriber (n : nif) (event : AgpsEvent) (subscriberToNotify : ptr)
    (deleteSubscriberPostNotify : bool) : M world unit :=
  let! s := this n in
  match event with
  | AGPS_EVENT_GRANTED =>
    let! sub := read_sub subscriberToNotify in
    emit (AtlOpenStatus (mConnHandle sub) 1 (mAPN s) (mAPNLen s) (mBearer s) (mAgpsType s)
                        (smApnTypeMask s))
  | AGPS_EVENT_DENIED =>
    let! sub := read_sub subscriberToNotify in
    emit (AtlOpenStatus (mConnHandle sub) 0 (mAPN s) (mAPNLen s) (mBearer s) (mAgpsType s)
                        (smApnTypeMask s))
  | AGPS_EVENT_UNSUBSCRIBE | AGPS_EVENT_RELEASED =>
    let! sub := read_sub subscriberToNotify in
    emit (AtlCloseStatus (mConnHandle sub) 1)
  | _ => ret tt
  end ;;;
  (if deleteSubscriberPostNotify then deleteSubscriber n subscriberToNotify else ret tt).

Definition notified (t : AgpsNotificationType) (s : AgpsSubscriber) : bool :=
  match t with
  | AGPS_NOTIFICATION_TYPE_FOR_ALL_SUBSCRIBERS => true
  | AGPS_NOTIFICATION_TYPE_FOR_INACTIVE_SUBSCRIBERS => mIsInactive s
  | AGPS_NOTIFICATION_TYPE_FOR_ACTIVE_SUBSCRIBERS => negb (mIsInactive s)
  | AGPS_NOTIFICATION_TYPE_INVALID => false
  end.

(** [notifyAllSubscribers]: what is left of the list. *)
Fixpoint notify_loop (n : nif) (event : AgpsEvent) (deletePostNotify : bool)
    (t : AgpsNotificationType) (l : list loc) : M world (list loc) :=
  match l with
  | [] => ret []
  | p :: l =>
    let! subscriber := read_sub (Some p) in
    if notified t subscriber
    then
      notifyEventToSubscriber n event (Some p) false ;;;
      if deletePostNotify
      then free_sub p ;;; notify_loop n event deletePostNotify t l
      else let! kept := notify_loop n event deletePostNotify t l in ret (p :: kept)
    else let! kept := notify_loop n event deletePostNotify t l in ret (p :: kept)
  end.

Definition notifyAllSubscribers (n : nif) (event : AgpsEvent) (deletePostNotify : bool)
    (t : AgpsNotificationType) : M world unit :=
  let! s := this n in
  let! kept := notify_loop n event deletePostNotify t (mSubscriberList s) in
  this_set n (with_list kept).

Definition processAgpsEventSubscribe (n : nif) : M world unit :=
  let! s := this n in
  match mState s with
  | AGPS_STATE_RELEASED =>
    addSubscriber n (mCurrentSubscriber s) ;;;
    requestOrReleaseDataConn n true ;;;
    transitionState n AGPS_STATE_PENDING
  | AGPS_STATE_PENDING => addSubscriber n (mCurrentSubscriber s)
  | AGPS_STATE_ACQUIRED =>
    notifyEventToSubscriber n AGPS_EVENT_GRANTED (mCurrentSubscriber s) false ;;;
    addSubscriber n (mCurrentSubscriber s)
  | AGPS_STATE_RELEASING => addSubscriber n (mCurrentSubscriber s)
  | AGPS_STATE_INVALID => ret tt
  end.

(** The part common to the states PENDING, ACQUIRED and RELEASING. *)
Definition unsubscribe_current (n : nif) : M world unit :=
  let! s := this n in
  let! current := read_sub (mCurrentSubscriber s) in
  if mWaitForCloseComplete current
  then write_sub (mCurrentSubscriber s) (with_inactive true)
  else notifyEventToSubscriber n AGPS_EVENT_UNSUBSCRIBE (mCurrentSubscriber s) true.

Definition list_empty (n : nif) : M world bool :=
  let! s := this n in ret (match mSubscriberList s with [] => true | _ => false end).

(** The end of the cases PENDING and ACQUIRED: the connection is released when
    no subscriber wants it any more. *)
Definition release_unused (n : nif) : M world unit :=
  let! empty := list_empty n in
  if empty : bool
  then transitionState n AGPS_STATE_RELEASED ;;; requestOrReleaseDataConn n false
  else
    let! active := anyActiveSubscribers n in
    if negb active
    then transitionState n AGPS_STATE_RELEASING ;;; requestOrReleaseDataConn n false
    else ret tt.

Definition processAgpsEventUnsubscribe (n : nif) : M world unit :=
  let! s := this n in
  match mState s with
  | AGPS_STATE_RELEASED =>
    notifyEventToSubscriber n AGPS_EVENT_UNSUBSCRIBE (mCurrentSubscriber s) false
  | AGPS_STATE_PENDING | AGPS_STATE_ACQUIRED =>
    unsubscribe_current n ;;; release_unused n
  | AGPS_STATE_RELEASING =>
    unsubscribe_current n ;;;
    let! empty := list_empty n in
    if empty : bool then transitionState n AGPS_STATE_RELEASED else ret tt
  | AGPS_STATE_INVALID => ret tt
  end.

Definition processAgpsEventGranted (n : nif) : M world unit :=
  let! s := this n in
  match mState s with
  | AGPS_STATE_PENDING =>
    transitionState n AGPS_STATE_ACQUIRED ;;;
    notifyAllSubscribers n AGPS_EVENT_GRANTED false AGPS_NOTIFICATION_TYPE_FOR_ACTIVE_SUBSCRIBERS
  | _ => ret tt
  end.

(** What both [processAgpsEventReleased] and [processAgpsEventDenied] do in
    state RELEASING. *)
Definition releasing_done (n : nif) : M world unit :=
  notifyAllSubscribers n AGPS_EVENT_RELEASED true AGPS_NOTIFICATION_TYPE_FOR_INACTIVE_SUBSCRIBERS ;;;
  let! active := anyActiveSubscribers n in
  if active : bool
  then transitionState n AGPS_STATE_PENDING ;;; requestOrReleaseDataConn n true
  else transitionState n AGPS_STATE_RELEASED.

Definition processAgpsEventReleased (n : nif) : M world unit :=
  let! s := this n in
  match mState s with
  | AGPS_STATE_ACQUIRED =>
    transitionState n AGPS_STATE_RELEASED ;;;
    notifyAllSubscribers n AGPS_EVENT_RELEASED true AGPS_NOTIFICATION_TYPE_FOR_ALL_SUBSCRIBERS
  | AGPS_STATE_RELEASING => releasing_done n
  | _ => ret tt
  end.

Definition processAgpsEventDenied (n : nif) : M world unit :=
  let! s := this n in
  match mState s with
  | AGPS_STATE_RELEASING => releasing_done n
  | AGPS_STATE_PENDING =>
    transitionState n AGPS_STATE_RELEASED ;;;
    notifyAllSubscribers n AGPS_EVENT_DENIED true AGPS_NOTIFICATION_TYPE_FOR_ALL_SUBSCRIBERS
  | _ => ret tt
  end.

Definition processAgpsEvent (n : nif) (event : AgpsEvent) : M world unit :=
  match event with
  | AGPS_EVENT_SUBSCRIBE => processAgpsEventSubscribe n
  | AGPS_EVENT_UNSUBSCRIBE => processAgpsEventUnsubscribe n
  | AGPS_EVENT_GRANTED => processAgpsEventGranted n
  | AGPS_EVENT_RELEASED => processAgpsEventReleased n
  | AGPS_EVENT_DENIED => processAgpsEventDenied n
  | AGPS_EVENT_INVALID => ret tt
  end.

(** The old string, an array, is freed with delete and not with delete[], which C++
    leaves undefined; here it is freed. *)
Definition setAPN (n : nif) (apn : option apn_string) (len : Z) : M world unit :=
  match apn with
  | None => this_set n (with_apn None 0)
  | Some a =>
    if ((MAX_APN_LEN <? len) || negb (Z.of_nat (length a) =? len))%Z
    then this_set n (with_apn None 0)
    else this_set n (with_apn (Some a) len)
  end.

Fixpoint get_loop (l : list loc) (connHandle : Z) : M world ptr :=
  match l with
  | [] => ret None
  | p :: l =>
    let! subscriber := read_sub (Some p) in
    if (mConnHandle subscriber =? connHandle)%Z then ret (Some p) else get_loop l connHandle
  end.

Definition getSubscriber (n : nif) (connHandle : Z) : M world ptr :=
  let! s := this n in get_loop (mSubscriberList s) connHandle.

Fixpoint first_loop (l : list loc) (isInactive : bool) : M world ptr :=
  match l with
  | [] => ret None
  | p :: l =>
    let! subscriber := read_sub (Some p) in
    if eqb (mIsInactive subscriber) isInactive then ret (Some p) else first_loop l isInactive
  end.

Definition getFirstSubscriber (n : nif) (isInactive : bool) : M world ptr :=
  let! s := this n in first_loop (mSubscriberList s) isInactive.

Fixpoint drop_loop (l : list loc) : M world unit :=
  match l with
  | [] => ret tt
  | p :: l => free_sub p ;;; drop_loop l
  end.

Definition dropAllSubscribers (n : nif) : M world unit :=
  let! s := this n in drop_loop (mSubscriberList s) ;;; this_set n (with_list []).

(** * AgpsManager *)

Section manager.
Context (conf : gps_conf).

Definition new_machine (agpsType : Z) : AgpsStateMachine :=
  StateMachine [] None AGPS_STATE_RELEASED agpsType 0 None 0 AGPS_APN_BEARER_INVALID.

Definition has_bit (mask bit : Z) : bool := negb (Z.land mask bit =? 0)%Z.

Definition createAgpsStateMachines (atlType : Z) : M world unit := fun w =>
  let agpsCapable := has_bit (CAPABILITIES conf) LOC_GPS_CAPABILITY_MSA
                     || has_bit (CAPABILITIES conf) LOC_GPS_CAPABILITY_MSB in
  let w := match nifs w InternetNif with
           | None => if has_bit atlType AGPS_ATL_TYPE_WWAN
                     then set_nif InternetNif (Some (new_machine LOC_AGPS_TYPE_WWAN_ANY)) w else w
           | Some _ => w
           end in
  let w := match nifs w AgnssNif with
           | None => if agpsCapable && has_bit atlType AGPS_ATL_TYPE_SUPL
                        && has_bit atlType AGPS_ATL_TYPE_SUPL_ES
                     then set_nif AgnssNif (Some (new_machine LOC_AGPS_TYPE_SUPL)) w else w
           | Some _ => w
           end in
  Done (tt, w).

(** Which of the two pointers [getAgpsStateMachine] returns. *)
Definition getAgpsStateMachine (agpsType : Z) : nif :=
  if ((agpsType =? LOC_AGPS_TYPE_INVALID) || (agpsType =? LOC_AGPS_TYPE_SUPL)
      || (agpsType =? LOC_AGPS_TYPE_SUPL_ES))%Z
  then AgnssNif else InternetNif.

Definition sm_null (n : nif) : M world bool :=
  gets (fun w => match nifs w n with None => true | Some _ => false end).

(** The type and mask a request is made with. *)
Definition request_type (agpsType apnTypeMask : Z) : Z * Z :=
  if ((USE_EMERGENCY_PDN_FOR_EMERGENCY_SUPL conf =? 0) && (agpsType =? LOC_AGPS_TYPE_SUPL_ES))%Z
  then (LOC_AGPS_TYPE_SUPL,
        Z.lor (Z.ldiff apnTypeMask LOC_APN_TYPE_MASK_EMERGENCY) LOC_APN_TYPE_MASK_SUPL)
  else (agpsType, apnTypeMask).

Definition requestATL (connHandle agpsType apnTypeMask : Z) : M world unit :=
  let '(agpsType, apnTypeMask) := request_type agpsType apnTypeMask in
  let n := getAgpsStateMachine agpsType in
  let! null := sm_null n in
  if null : bool
  then emit (AtlOpenStatus connHandle 0 None 0 AGPS_APN_BEARER_INVALID agpsType apnTypeMask)
  else
    this_set n (with_type agpsType apnTypeMask) ;;;
    let! subscriber := new_sub (Subscriber connHandle true false apnTypeMask) in
    this_set n (with_current (Some subscriber)) ;;;
    processAgpsEvent n AGPS_EVENT_SUBSCRIBE ;;;
    free_sub subscriber.

(** Looks a subscriber up in a machine that may not exist. *)
Definition find_in (n : nif) (connHandle : Z) : M world ptr :=
  let! null := sm_null n in
  if null : bool then ret None else getSubscriber n connHandle.

Definition releaseATL (connHandle : Z) : M world unit :=
  let! subscriber := find_in AgnssNif connHandle in
  match subscriber with
  | Some _ => this_set AgnssNif (with_current subscriber) ;;;
              processAgpsEvent AgnssNif AGPS_EVENT_UNSUBSCRIBE
  | None =>
    let! subscriber := find_in InternetNif connHandle in
    match subscriber with
    | Some _ => this_set InternetNif (with_current subscriber) ;;;
                processAgpsEvent InternetNif AGPS_EVENT_UNSUBSCRIBE
    | None => ret tt
    end
  end.

(** The length is an int, converted to unsigned for [setAPN]. *)
Definition reportAtlOpenSuccess (agpsType : Z) (apnName : option apn_string) (apnLen bearerType : Z)
  : M world unit :=
  let n := getAgpsStateMachine agpsType in
  this_set n (with_bearer bearerType) ;;;
  setAPN n apnName (wrap_u 32 apnLen) ;;;
  processAgpsEvent n AGPS_EVENT_GRANTED.

Definition reportAtlOpenFailed (agpsType : Z) : M world unit :=
  processAgpsEvent (getAgpsStateMachine agpsType) AGPS_EVENT_DENIED.

Definition reportAtlClosed (agpsType : Z) : M world unit :=
  processAgpsEvent (getAgpsStateMachine agpsType) AGPS_EVENT_RELEASED.

Definition drop_in (n : nif) : M world unit :=
  let! null := sm_null n in if null : bool then ret tt else dropAllSubscribers n.

Definition handleModemSSR : M world unit := drop_in AgnssNif ;;; drop_in InternetNif.

End manager.

(** * The abstract machine *)

(** The same behaviour on plain lists of subscribers: no addresses, no loops,
    no lifetimes. *)
Module Spec.

Record machine := Machine {
  state : AgpsState;
  subscribers : list AgpsSubscriber;
  agpsType : Z;
  mask : Z;
  apn : option apn_string;
  apnLen : Z;
  bearer : Z
}.

Definition with_st (st : AgpsState) (a : machine) : machine :=
  Machine st (subscribers a) (agpsType a) (mask a) (apn a) (apnLen a) (bearer a).
Definition with_subs (l : list AgpsSubscriber) (a : machine) : machine :=
  Machine (state a) l (agpsType a) (mask a) (apn a) (apnLen a) (bearer a).
Definition with_ty (t m : Z) (a : machine) : machine :=
  Machine (state a) (subscribers a) t m (apn a) (apnLen a) (bearer a).
Definition with_conn (ap : option apn_string) (len b : Z) (a : machine) : machine :=
  Machine (state a) (subscribers a) (agpsType a) (mask a) ap len b.

Definition opened (a : machine) (success : Z) (x : AgpsSubscriber) : callback :=
  AtlOpenStatus (mConnHandle x) success (apn a) (apnLen a) (bearer a) (agpsType a) (mask a).
Definition closed (x : AgpsSubscriber) : callback := AtlCloseStatus (mConnHandle x) 1.
Definition framework (a : machine) (request : bool) : callback :=
  FrameworkStatus request (agpsType a) (mask a).

Definition active (x : AgpsSubscriber) : bool := negb (mIsInactive x).
Definition any_active (a : machine) : bool := existsb active (subscribers a).

Definition add (x : AgpsSubscriber) (a : machine) : machine :=
  if existsb (fun y => equals y x) (subscribers a) then a else with_subs (subscribers a ++ [x]) a.

Definition subscribe (x : AgpsSubscriber) (a : machine) : machine * list callback :=
  match state a with
  | AGPS_STATE_RELEASED => (with_st AGPS_STATE_PENDING (add x a), [framework a true])
  | AGPS_STATE_PENDING | AGPS_STATE_RELEASING => (add x a, [])
  | AGPS_STATE_ACQUIRED => (add x a, [opened a 1 x])
  | AGPS_STATE_INVALID => (a, [])
  end.

(** The subscriber with handle [h] no longer wants the connection but waits to
    hear that it is closed. *)
Fixpoint deactivate (h : Z) (l : list AgpsSubscriber) : list AgpsSubscriber :=
  match l with
  | [] => []
  | x :: l => if (mConnHandle x =? h)%Z then with_inactive true x :: l else x :: deactivate h l
  end.

Definition unsubscribe (h : Z) (a : machine) : machine * list callback :=
  let a' := with_subs (deactivate h (subscribers a)) a in
  match state a with
  | AGPS_STATE_PENDING | AGPS_STATE_ACQUIRED =>
    if any_active a' then (a', []) else (with_st AGPS_STATE_RELEASING a', [framework a false])
  | AGPS_STATE_RELEASING => (a', [])
  | AGPS_STATE_RELEASED | AGPS_STATE_INVALID => (a, [])
  end.

Definition granted (a : machine) : machine * list callback :=
  match state a with
  | AGPS_STATE_PENDING =>
    (with_st AGPS_STATE_ACQUIRED a, opened a 1 <$> List.filter active (subscribers a))
  | _ => (a, [])
  end.

(** The framework reports the connection closed while it was being released. *)
Definition released_done (a : machine) : machine * list callback :=
  let a' := with_subs (List.filter active (subscribers a)) a in
  let evs := closed <$> List.filter mIsInactive (subscribers a) in
  if any_active a' then (with_st AGPS_STATE_PENDING a', evs ++ [framework a true])
  else (with_st AGPS_STATE_RELEASED a', evs).

Definition released (a : machine) : machine * list callback :=
  match state a with
  | AGPS_STATE_ACQUIRED =>
    (with_subs [] (with_st AGPS_STATE_RELEASED a), closed <$> subscribers a)
  | AGPS_STATE_RELEASING => released_done a
  | _ => (a, [])
  end.

Definition denied (a : machine) : machine * list callback :=
  match state a with
  | AGPS_STATE_PENDING =>
    (with_subs [] (with_st AGPS_STATE_RELEASED a), opened a 0 <$> subscribers a)
  | AGPS_STATE_RELEASING => released_done a
  | _ => (a, [])
  end.

(** ** The two machines *)

Definition machines : Type := nif -> option machine.
Definition upd (n : nif) (a : machine) (ms : machines) : machines :=
  fun n' => if decide (n' = n) then Some a else ms n'.

Inductive op : Type :=
  | Create (atlType : Z)
  | Request (connHandle agpsType apnTypeMask : Z)
  | Release (connHandle : Z)
  | OpenSuccess (agpsType : Z) (apnName : option apn_string) (apnLen bearerType : Z)
  | OpenFailed (agpsType : Z)
  | Closed (agpsType : Z)
  | ModemSSR.

Definition fresh (agpsType : Z) : machine :=
  Machine AGPS_STATE_RELEASED [] agpsType 0 None 0 AGPS_APN_BEARER_INVALID.

Definition has_handle (h : Z) (o : option machine) : bool :=
  match o with
  | Some a => existsb (fun x => mConnHandle x =? h)%Z (subscribers a)
  | None => false
  end.

(** An event for a machine; [None] if it was never created. *)
Definition on (n : nif) (f : machine -> machine * list callback) (ms : machines)
  : option (machines * list callback) :=
  a ← ms n; let '(a, evs) := f a in Some (upd n a ms, evs).

(** The APN and its length as [setAPN] keeps them. *)
Definition kept_apn (apnName : option apn_string) (len : Z) : option apn_string * Z :=
  match apnName with
  | Some s => if ((MAX_APN_LEN <? len) || negb (Z.of_nat (length s) =? len))%Z
              then (None, 0%Z) else (Some s, len)
  | None => (None, 0%Z)
  end.

Definition step (conf : gps_conf) (o : op) (ms : machines) : option (machines * list callback) :=
  match o with
  | Create atlType =>
    let capable := has_bit (CAPABILITIES conf) LOC_GPS_CAPABILITY_MSA
                   || has_bit (CAPABILITIES conf) LOC_GPS_CAPABILITY_MSB in
    let ms := match ms InternetNif with
              | None => if has_bit atlType AGPS_ATL_TYPE_WWAN
                        then upd InternetNif (fresh LOC_AGPS_TYPE_WWAN_ANY) ms else ms
              | Some _ => ms
              end in
    let ms := match ms AgnssNif with
              | None => if capable && has_bit atlType AGPS_ATL_TYPE_SUPL
                           && has_bit atlType AGPS_ATL_TYPE_SUPL_ES
                        then upd AgnssNif (fresh LOC_AGPS_TYPE_SUPL) ms else ms
              | Some _ => ms
              end in
    Some (ms, [])
  | Request h t m =>
    let '(t, m) := request_type conf t m in
    let n := getAgpsStateMachine t in
    match ms n with
    | None => Some (ms, [AtlOpenStatus h 0 None 0 AGPS_APN_BEARER_INVALID t m])
    | Some a => let '(a, evs) := subscribe (Subscriber h true false m) (with_ty t m a) in
                Some (upd n a ms, evs)
    end
  | Release h =>
    if has_handle h (ms AgnssNif) then on AgnssNif (unsubscribe h) ms
    else if has_handle h (ms InternetNif) then on InternetNif (unsubscribe h) ms
    else Some (ms, [])
  | OpenSuccess t apnName len b =>
    let '(ap, len) := kept_apn apnName (wrap_u 32 len) in
    on (getAgpsStateMachine t) (fun a => granted (with_conn ap len b a)) ms
  | OpenFailed t => on (getAgpsStateMachine t) denied ms
  | Closed t => on (getAgpsStateMachine t) released ms
  | ModemSSR => Some (fun n => with_subs [] <$> ms n, [])
  end.

Fixpoint run (conf : gps_conf) (os : list op) (ms : machines) : option (machines * list callback) :=
  match os with
  | [] => Some (ms, [])
  | o :: os => '(ms, evs) ← step conf o ms; '(ms, evs') ← run conf os ms; Some (ms, evs ++ evs')
  end.

(** What every machine keeps to. *)
Record machine_ok (a : machine) : Prop := {
  ok_wait : Forall (fun x => mWaitForCloseComplete x = true) (subscribers a);
  ok_handles : NoDup (mConnHandle <$> subscribers a);
  ok_released : state a = AGPS_STATE_RELEASED -> subscribers a = [];
  ok_valid : state a ≠ AGPS_STATE_INVALID
}.

End Spec.

(** * Runs of the manager *)

Definition run_op (conf : gps_conf) (o : Spec.op) : M world unit :=
  match o with
  | Spec.Create atlType => createAgpsStateMachines conf atlType
  | Spec.Request h t m => requestATL conf h t m
  | Spec.Release h => releaseATL h
  | Spec.OpenSuccess t apnName len b => reportAtlOpenSuccess t apnName len b
  | Spec.OpenFailed t => reportAtlOpenFailed t
  | Spec.Closed t => reportAtlClosed t
  | Spec.ModemSSR => handleModemSSR
  end.

Fixpoint run_ops (conf : gps_conf) (os : list Spec.op) : M world unit :=
  match os with
  | [] => ret tt
  | o :: os => run_op conf o ;;; run_ops conf os
  end.

(** A new [AgpsManager]. *)
Definition initial_world : world := World ∅ 1 (fun _ => None) [].

(** * Machines in the store *)

(** A machine's subscribers with their addresses. *)
Abbreviation cells := (list (loc * AgpsSubscriber)) (only parsing).

Definition listed (m : gmap loc AgpsSubscriber) (l : cells) : Prop :=
  ∀ p x, (p, x) ∈ l -> m !! p = Some x.

Definition view (s : AgpsStateMachine) (l : cells) : Spec.machine :=
  Spec.Machine (mState s) l.*2 (mAgpsType s) (smApnTypeMask s) (mAPN s) (mAPNLen s) (mBearer s).

(** Machine [n] is [s] and its list is [l]. *)
Definition holds (w : world) (n : nif) (s : AgpsStateMachine) (l : cells) : Prop :=
  nifs w n = Some s ∧ mSubscriberList s = l.*1 ∧ listed (subs w) l ∧ NoDup l.*1.

(** From [w] to [w'] machine [n] became [s'], the store [m'] with next address
    [b'], and the calls [evs] were made. *)
Record moved (n : nif) (w w' : world) (s' : AgpsStateMachine) (m' : gmap loc AgpsSubscriber)
    (b' : loc) (evs : list callback) : Prop := {
  mv_this : nifs w' n = Some s';
  mv_other : ∀ n', n' ≠ n -> nifs w' n' = nifs w n';
  mv_subs : subs w' = m';
  mv_brk : wbrk w' = b';
  mv_log : log w' = log w ++ evs
}.

Lemma moved_trans n w w1 w2 s1 s2 m1 m2 b1 b2 e1 e2 :
  moved n w w1 s1 m1 b1 e1 -> moved n w1 w2 s2 m2 b2 e2 -> moved n w w2 s2 m2 b2 (e1 ++ e2).
Proof.
  intros [? Ho1 ? ? Hl1] [? Ho2 ? ? Hl2]. split; try done.
  - intros n' Hn. by rewrite Ho2, Ho1.
  - by rewrite Hl2, Hl1, app_assoc.
Qed.

Lemma moved_refl n w s : nifs w n = Some s -> moved n w w s (subs w) (wbrk w) [].
Proof. intros. split; try done. by rewrite app_nil_r. Qed.

Lemma this_done n w s : nifs w n = Some s -> this n w = Done (s, w).
Proof. unfold this. by intros ->. Qed.

Lemma this_set_moved n f w s : nifs w n = Some s ->
  ∃ w', this_set n f w = Done (tt, w') ∧ moved n w w' (f s) (subs w) (wbrk w) [].
Proof.
  intros Hn. unfold this_set. rewrite Hn. eexists. split; [done|].
  split; simpl; [by rewrite decide_True| |done|done|by rewrite app_nil_r].
  intros n' ?. by rewrite decide_False.
Qed.

Lemma emit_moved n c w s : nifs w n = Some s ->
  ∃ w', emit c w = Done (tt, w') ∧ moved n w w' s (subs w) (wbrk w) [c].
Proof. intros Hn. eexists. by split. Qed.

Lemma read_sub_done p x w : subs w !! p = Some x -> read_sub (Some p) w = Done (x, w).
Proof. intros Hp. unfold read_sub. simpl. by rewrite Hp. Qed.

Lemma free_sub_done p x w : subs w !! p = Some x ->
  free_sub p w = Done (tt, set_subs (delete p (subs w)) w).
Proof. intros Hp. unfold free_sub. by rewrite Hp. Qed.

Lemma listed_cons m p x l : listed m ((p, x) :: l) <-> m !! p = Some x ∧ listed m l.
Proof.
  unfold listed. split.
  - intros H. split; [by apply H; left|]. intros q y Hq. apply H. by right.
  - intros [Hp H] q y [[= -> ->]|Hq]%elem_of_cons; auto.
Qed.

Lemma listed_delete m p l : listed m l -> p ∉ l.*1 -> listed (delete p m) l.
Proof.
  intros H Hp q y Hq. rewrite lookup_delete_ne; [by apply H|].
  intros ->. apply Hp. apply list_elem_of_fmap. by exists (q, y).
Qed.

Lemma listed_insert m p x l : listed m l -> p ∉ l.*1 -> listed (<[p := x]> m) l.
Proof.
  intros H Hp q y Hq. rewrite lookup_insert_ne; [by apply H|].
  intros ->. apply Hp. apply list_elem_of_fmap. by exists (q, y).
Qed.

(** ** The loops *)

Lemma add_loop_done l c x w : listed (subs w) l -> subs w !! c = Some x ->
  add_loop l.*1 (Some c) w = Done (existsb (fun y => equals y x) l.*2, w).
Proof.
  intros Hl Hc. induction l as [|[p y] l IH]; [done|]. apply listed_cons in Hl as [Hp Hl].
  cbn [add_loop fmap list_fmap existsb fst snd].
  rewrite (bind_done _ _ _ _ _ (read_sub_done _ _ _ Hp)), (bind_done _ _ _ _ _ (read_sub_done _ _ _ Hc)).
  destruct (equals y x); simpl; [done|by apply IH].
Qed.

Lemma active_loop_done l w : listed (subs w) l ->
  active_loop l.*1 w = Done (existsb Spec.active l.*2, w).
Proof.
  intros Hl. induction l as [|[p y] l IH]; [done|]. apply listed_cons in Hl as [Hp Hl].
  cbn [active_loop fmap list_fmap existsb fst snd].
  rewrite (bind_done _ _ _ _ _ (read_sub_done _ _ _ Hp)). unfold Spec.active at 1.
  destruct (negb (mIsInactive y)); simpl; [done|by apply IH].
Qed.

Lemma get_loop_done l h w : listed (subs w) l ->
  match find (fun c : loc * AgpsSubscriber => mConnHandle c.2 =? h)%Z l with
  | Some c => get_loop l.*1 h w = Done (Some c.1, w)
  | None => get_loop l.*1 h w = Done (None, w)
  end.
Proof.
  intros Hl. induction l as [|[p y] l IH]; [done|]. apply listed_cons in Hl as [Hp Hl].
  cbn [get_loop fmap list_fmap find fst snd].
  rewrite (bind_done _ _ _ _ _ (read_sub_done _ _ _ Hp)).
  destruct (mConnHandle y =? h)%Z; [done|by apply IH].
Qed.

Definition delete_all (ps : list loc) (m : gmap loc AgpsSubscriber) : gmap loc AgpsSubscriber :=
  foldl (fun m p => delete p m) m ps.

Lemma lookup_delete_subs ps m p :
  delete_all ps m !! p = if decide (p ∈ ps) then None else m !! p.
Proof.
  unfold delete_all. revert m; induction ps as [|q ps IH]; intros m; simpl; [done|].
  rewrite IH. destruct (decide (p = q)) as [->|].
  - rewrite lookup_delete_eq. rewrite (decide_True (P := q ∈ q :: ps)) by by left. by case_decide.
  - rewrite lookup_delete_ne by done. repeat case_decide; try done.
    + exfalso. set_solver.
    + exfalso. set_solver.
Qed.

Definition notify_cb (a : Spec.machine) (event : AgpsEvent) (x : AgpsSubscriber) : list callback :=
  match event with
  | AGPS_EVENT_GRANTED => [Spec.opened a 1 x]
  | AGPS_EVENT_DENIED => [Spec.opened a 0 x]
  | AGPS_EVENT_UNSUBSCRIBE | AGPS_EVENT_RELEASED => [Spec.closed x]
  | _ => []
  end.

Lemma notify_done n event p x w s l : nifs w n = Some s -> subs w !! p = Some x ->
  ∃ w', notifyEventToSubscriber n event (Some p) false w = Done (tt, w') ∧
    moved n w w' s (subs w) (wbrk w) (notify_cb (view s l) event x).
Proof.
  intros Hn Hp. unfold notifyEventToSubscriber. rewrite (bind_done _ _ _ _ _ (this_done _ _ _ Hn)).
  assert (Hr : ∀ c, ∃ w', (let! y := read_sub (Some p) in emit (c y)) w = Done (tt, w') ∧
                      moved n w w' s (subs w) (wbrk w) [c x]).
  { intros c. rewrite (bind_done _ _ _ _ _ (read_sub_done _ _ _ Hp)). by apply emit_moved. }
  destruct event; simpl;
    try (eexists; split; [rewrite bind_ret; reflexivity|by apply moved_refl]).
  all: match goal with |- ∃ _, bind (bind _ (fun y => emit (@?c y))) _ _ = _ ∧ _ =>
         destruct (Hr c) as (w' & E & Hm); exists w'; rewrite (bind_done _ _ _ _ _ E); by split end.
Qed.

Lemma notify_loop_done n event del t l w s : nifs w n = Some s -> listed (subs w) l -> NoDup l.*1 ->
  let yes := List.filter (fun c : loc * AgpsSubscriber => notified t c.2) l in
  let no := List.filter (fun c : loc * AgpsSubscriber => negb (notified t c.2)) l in
  ∃ w', notify_loop n event del t l.*1 w = Done ((if del then no else l).*1, w') ∧
    moved n w w' s (if del then delete_all yes.*1 (subs w) else subs w) (wbrk w)
      (concat (notify_cb (view s l) event <$> yes.*2)).
Proof.
  intros Hn. cut (∀ l0 w, nifs w n = Some s -> listed (subs w) l -> NoDup l.*1 ->
    let yes := List.filter (fun c : loc * AgpsSubscriber => notified t c.2) l in
    let no := List.filter (fun c : loc * AgpsSubscriber => negb (notified t c.2)) l in
    ∃ w', notify_loop n event del t l.*1 w = Done ((if del then no else l).*1, w') ∧
      moved n w w' s (if del then delete_all yes.*1 (subs w) else subs w) (wbrk w)
        (concat (notify_cb (view s l0) event <$> yes.*2))); [auto|].
  clear Hn w. intros l0. induction l as [|[p x] l IH]; intros w Hn Hl Hnd; simpl.
  { eexists. split; [by destruct del|]. destruct del; by apply moved_refl. }
  apply listed_cons in Hl as [Hp Hl]. apply NoDup_cons in Hnd as [Hpl Hnd].
  rewrite (bind_done _ _ _ _ _ (read_sub_done _ _ _ Hp)).
  destruct (notified t x) eqn:Hx; simpl.
  - destruct (notify_done n event p x w s l0 Hn Hp) as (w1 & E1 & M1).
    rewrite (bind_done _ _ _ _ _ E1). pose proof (mv_this _ _ _ _ _ _ _ M1) as Hn1.
    pose proof (mv_subs _ _ _ _ _ _ _ M1) as Hs1. pose proof (mv_brk _ _ _ _ _ _ _ M1) as Hb1.
    destruct del.
    + erewrite bind_done by (eapply free_sub_done; by rewrite Hs1).
      set (w2 := set_subs _ w1).
      assert (M2 : moved n w w2 s (delete p (subs w)) (wbrk w) (notify_cb (view s l0) event x)).
      { destruct M1. split; try done. simpl. congruence. }
      destruct (IH w2) as (w' & E & M3); [done| |done|].
      { simpl. rewrite Hs1. by apply listed_delete. }
      exists w'. split; [done|]. pose proof (moved_trans _ _ _ _ _ _ _ _ _ _ _ _ M2 M3) as M.
      simpl in M. by rewrite Hs1, Hb1 in M.
    + destruct (IH w1) as (w' & E & M3); [done|by rewrite Hs1|done|].
      exists w'. split; [by rewrite (bind_done _ _ _ _ _ E)|].
      pose proof (moved_trans _ _ _ _ _ _ _ _ _ _ _ _ M1 M3) as M. by rewrite Hs1, Hb1 in M.
  - destruct (IH w) as (w' & E & M3); [done..|]. exists w'.
    split; [rewrite (bind_done _ _ _ _ _ E); by destruct del|]. by destruct del.
Qed.

Lemma drop_loop_done n l w s : nifs w n = Some s -> listed (subs w) l -> NoDup l.*1 ->
  ∃ w', drop_loop l.*1 w = Done (tt, w') ∧ moved n w w' s (delete_all l.*1 (subs w)) (wbrk w) [].
Proof.
  revert w; induction l as [|[p x] l IH]; intros w Hn Hl Hnd; simpl.
  { eexists. split; [done|]. by apply moved_refl. }
  apply listed_cons in Hl as [Hp Hl]. apply NoDup_cons in Hnd as [Hpl Hnd].
  rewrite (bind_done _ _ _ _ _ (free_sub_done _ _ _ Hp)).
  destruct (IH (set_subs (delete p (subs w)) w)) as (w' & E & [H1 H2 H3 H4 H5]); [done| |done|].
  { by apply listed_delete. }
  exists w'. split; [done|]. by split.
Qed.

(** ** The events *)

(** From [w] to [w'] machine [n] went from [s] with subscribers [l] to [s'] with
    [l'], which looks like [r.1], and the calls [r.2] were made.  Store entries
    of other owners are kept, subscribers dropped are freed. *)
Record post (n : nif) (w : world) (l : cells) (w' : world) (s' : AgpsStateMachine) (l' : cells)
    (r : Spec.machine * list callback) : Prop := {
  po_other : ∀ n', n' ≠ n -> nifs w' n' = nifs w n';
  po_log : log w' = log w ++ r.2;
  po_view : view s' l' = r.1;
  po_holds : holds w' n s' l';
  po_addrs : ∀ p, p ∈ l'.*1 -> p ∈ l.*1 ∨ (wbrk w <= p < wbrk w')%positive;
  po_keep : ∀ p, (p ∉ l.*1) -> (p ∉ l'.*1) -> subs w' !! p = subs w !! p;
  po_free : ∀ p, p ∈ l.*1 -> (p ∉ l'.*1) -> subs w' !! p = None;
  po_brk : (wbrk w <= wbrk w')%positive
}.

Definition does (n : nif) (c : M world unit) (w : world) (l : cells)
    (r : Spec.machine * list callback) : Prop :=
  ∃ w' s' l', c w = Done (tt, w') ∧ post n w l w' s' l' r.

(** The store has nothing at addresses not given out. *)
Definition fresh_ok (w : world) : Prop := ∀ p, (wbrk w <= p)%positive -> subs w !! p = None.

Lemma listed_in m l p : listed m l -> p ∈ l.*1 -> is_Some (m !! p).
Proof. intros H ([q y] & -> & Hin)%list_elem_of_fmap. eauto. Qed.

Lemma listed_app m l1 l2 : listed m (l1 ++ l2) <-> listed m l1 ∧ listed m l2.
Proof.
  unfold listed. setoid_rewrite elem_of_app. naive_solver.
Qed.

Lemma post_fresh n w s l w' s' l' r :
  post n w l w' s' l' r -> holds w n s l -> fresh_ok w -> fresh_ok w'.
Proof.
  intros [_ _ _ _ Ha Hk _ Hb] (_ & _ & Hl & _) Hf p Hp.
  assert (Hpl : p ∉ l.*1).
  { intros Hin. destruct (listed_in _ _ _ Hl Hin) as [x Hx]. rewrite Hf in Hx by lia. done. }
  rewrite Hk; [apply Hf; lia|done|]. intros Hin. destruct (Ha p Hin); [done|lia].
Qed.

Lemma post_trans n w s l w1 s1 l1 w2 s2 l2 a1 e1 a2 e2 :
  holds w n s l -> fresh_ok w ->
  post n w l w1 s1 l1 (a1, e1) -> post n w1 l1 w2 s2 l2 (a2, e2) -> post n w l w2 s2 l2 (a2, e1 ++ e2).
Proof.
  intros Hw Hfr P1 P2. pose proof (post_fresh _ _ _ _ _ _ _ _ P1 Hw Hfr) as Hfr1.
  destruct P1 as [Ho1 Hg1 Hv1 Hh1 Ha1 Hk1 Hf1 Hb1], P2 as [Ho2 Hg2 Hv2 Hh2 Ha2 Hk2 Hf2 Hb2].
  assert (Hold : ∀ p, p ∈ l.*1 -> (p < wbrk w)%positive).
  { intros p Hp. destruct Hw as (_ & _ & Hl & _). destruct (listed_in _ _ _ Hl Hp) as [x Hx].
    destruct (decide (wbrk w <= p)%positive) as [Hle|]; [by rewrite Hfr in Hx|lia]. }
  split; simpl in *.
  - intros n' Hn. by rewrite Ho2, Ho1.
  - by rewrite Hg2, Hg1, app_assoc.
  - done.
  - done.
  - intros p Hp. destruct (Ha2 p Hp) as [H1|]; [destruct (Ha1 p H1); [by left|right; lia]|right; lia].
  - intros p Hp Hp2. destruct (decide (p ∈ l1.*1)) as [Hin|]; [|by rewrite Hk2, Hk1].
    rewrite Hf2 by done. destruct (Ha1 p Hin) as [|Hge]; [done|]. symmetry. apply Hfr. lia.
  - intros p Hp Hp2. destruct (decide (p ∈ l1.*1)) as [Hin|]; [by apply Hf2|].
    rewrite Hk2 by done. by apply Hf1.
  - lia.
Qed.

Lemma does_bind n c k w s l a1 e1 a2 e2 :
  holds w n s l -> fresh_ok w -> does n c w l (a1, e1) ->
  (∀ w1 s1 l1, holds w1 n s1 l1 -> fresh_ok w1 -> view s1 l1 = a1 ->
     post n w l w1 s1 l1 (a1, e1) -> does n k w1 l1 (a2, e2)) ->
  does n (c ;;; k) w l (a2, e1 ++ e2).
Proof.
  intros Hw Hf (w1 & s1 & l1 & E & P1) Hk.
  destruct (Hk w1 s1 l1) as (w2 & s2 & l2 & E2 & P2);
    [apply P1|by eapply post_fresh|apply P1|done|].
  exists w2, s2, l2. rewrite (bind_done _ _ _ _ _ E). split; [done|]. by eapply post_trans.
Qed.

(** Steps that leave the list as it is. *)
Lemma does_moved n c w s l w' s' evs :
  holds w n s l -> c w = Done (tt, w') -> moved n w w' s' (subs w) (wbrk w) evs ->
  mSubscriberList s' = mSubscriberList s -> does n c w l (view s' l, evs).
Proof.
  intros (Hn & Hs & Hl & Hnd) E [H1 H2 H3 H4 H5] Hs'. exists w', s', l. split; [done|].
  split; simpl; try done; try (by rewrite H3); [split_and!; [done|congruence|by rewrite H3|done]|auto|lia].
Qed.

Lemma does_skip n w s l : holds w n s l -> does n (ret tt) w l (view s l, []).
Proof. intros H. eapply does_moved; [done|done| |done]. apply moved_refl. apply H. Qed.

Lemma transitionState_does n st w s l :
  holds w n s l -> does n (transitionState n st) w l (Spec.with_st st (view s l), []).
Proof.
  intros H. destruct (this_set_moved n (with_state st) w s (proj1 H)) as (w' & E & Hm).
  by apply (does_moved _ _ _ _ _ _ _ _ H E Hm).
Qed.

Lemma dataConn_does n r w s l :
  holds w n s l -> does n (requestOrReleaseDataConn n r) w l
    (view s l, [Spec.framework (view s l) r]).
Proof.
  intros H. destruct (emit_moved n (Spec.framework (view s l) r) w s (proj1 H)) as (w' & E & Hm).
  eapply does_moved; [exact H| |exact Hm|done].
  unfold requestOrReleaseDataConn. by rewrite (bind_done _ _ _ _ _ (this_done _ _ _ (proj1 H))).
Qed.

Lemma notify_does n event p x w s l :
  holds w n s l -> subs w !! p = Some x ->
  does n (notifyEventToSubscriber n event (Some p) false) w l
    (view s l, notify_cb (view s l) event x).
Proof.
  intros H Hp. destruct (notify_done n event p x w s l (proj1 H) Hp) as (w' & E & Hm).
  by apply (does_moved _ _ _ _ _ _ _ _ H E Hm).
Qed.

Lemma anyActive_done n w s l : holds w n s l ->
  anyActiveSubscribers n w = Done (Spec.any_active (view s l), w).
Proof.
  intros (Hn & Hs & Hl & _). unfold anyActiveSubscribers.
  rewrite (bind_done _ _ _ _ _ (this_done _ _ _ Hn)), Hs. by apply active_loop_done.
Qed.

Lemma addSubscriber_does n c x w s l :
  holds w n s l -> fresh_ok w -> subs w !! c = Some x ->
  does n (addSubscriber n (Some c)) w l (Spec.add x (view s l), []).
Proof.
  intros (Hn & Hs & Hl & Hnd) Hf Hc. unfold does, addSubscriber.
  rewrite (bind_done _ _ _ _ _ (this_done _ _ _ Hn)), Hs.
  rewrite (bind_done _ _ _ _ _ (add_loop_done _ _ _ _ Hl Hc)). unfold Spec.add.
  change (Spec.subscribers (view s l)) with l.*2.
  destruct (existsb (fun y => equals y x) l.*2).
  - exact (does_skip n w s l (conj Hn (conj Hs (conj Hl Hnd)))).
  - rewrite (bind_done _ _ _ _ _ (read_sub_done _ _ _ Hc)).
    erewrite bind_done by done.
    set (w1 := World _ _ _ _).
    destruct (this_set_moved n (with_list (l.*1 ++ [wbrk w])) w1 s Hn) as (w2 & E & [H1 H2 H3 H4 H5]).
    assert (Hw : wbrk w ∉ l.*1).
    { intros Hin. destruct (listed_in _ _ _ Hl Hin) as [y Hy]. by rewrite Hf in Hy. }
    exists w2, (with_list (l.*1 ++ [wbrk w]) s), (l ++ [(wbrk w, x)]). split; [done|].
    simpl in *. split; rewrite ?H3, ?H4; try done.
    + unfold view, Spec.with_subs. simpl. by rewrite fmap_app.
    + split_and!; [done|simpl; by rewrite fmap_app| |].
      * rewrite H3. apply listed_app. split; [by apply listed_insert|].
        intros p y Hin%list_elem_of_singleton. injection Hin as -> ->. apply lookup_insert_eq.
      * rewrite fmap_app. apply NoDup_app. split_and!; [done| |by apply NoDup_singleton].
        intros p Hp ->%list_elem_of_singleton. done.
    + intros p. rewrite fmap_app, elem_of_app. intros [?|Hp%list_elem_of_singleton]; [by left|].
      right. simpl in Hp. lia.
    + intros p _. rewrite fmap_app, not_elem_of_app. intros [_ Hp]. rewrite lookup_insert_ne; [done|].
      intros <-. apply Hp. by left.
    + intros p Hp. rewrite fmap_app, not_elem_of_app. intros [? _]. done.
    + lia.
Qed.

(** [processAgpsEvent(AGPS_EVENT_SUBSCRIBE)] for a current subscriber that is
    not in the list. *)
Lemma subscribe_does n c x w s l :
  holds w n s l -> fresh_ok w -> subs w !! c = Some x -> (c ∉ l.*1) -> mCurrentSubscriber s = Some c ->
  does n (processAgpsEvent n AGPS_EVENT_SUBSCRIBE) w l (Spec.subscribe x (view s l)).
Proof.
  intros H Hf Hc Hcl Hcur. unfold processAgpsEvent, processAgpsEventSubscribe, does.
  rewrite (bind_done _ _ _ _ _ (this_done _ _ _ (proj1 H))), Hcur.
  unfold Spec.subscribe. change (Spec.state (view s l)) with (mState s).
  pose proof (addSubscriber_does _ _ _ _ _ _ H Hf Hc) as Hadd.
  destruct (mState s) eqn:Hst; try exact Hadd.
  - by apply does_skip.
  - refine (does_bind n _ _ w s l _ [] _ _ H Hf Hadd _).
    intros w1 s1 l1 H1 Hf1 Hv1 _.
    refine (does_bind n _ _ w1 s1 l1 (view s1 l1) [_] _ [] H1 Hf1 _ _).
    + assert (Spec.framework (view s l) true = Spec.framework (view s1 l1) true) as ->.
      { rewrite Hv1. unfold Spec.add. by case_match. }
      by apply dataConn_does.
    + intros w2 s2 l2 H2 Hf2 Hv2 _. rewrite <- Hv1, <- Hv2. by apply transitionState_does.
  - refine (does_bind n _ _ w s l (view s l) [_] _ [] H Hf _ _).
    + by apply (notify_does n AGPS_EVENT_GRANTED c x).
    + intros w1 s1 l1 H1 Hf1 Hv1 P1. rewrite <- Hv1. apply addSubscriber_does; [done|done|].
      rewrite (po_keep _ _ _ _ _ _ _ P1); [done|done|].
      intros Hin. destruct (po_addrs _ _ _ _ _ _ _ P1 c Hin) as [|Hge]; [done|].
      rewrite Hf in Hc by lia. done.
Qed.


Lemma deactivate_at h l1 x l2 :
  Forall (fun y => mConnHandle y ≠ h) l1 -> mConnHandle x = h ->
  Spec.deactivate h (l1 ++ x :: l2) = l1 ++ with_inactive true x :: l2.
Proof.
  intros Hl Hx. induction Hl as [|y l1 Hy Hl IH]; simpl; [by rewrite (proj2 (Z.eqb_eq _ _))|].
  by rewrite (proj2 (Z.eqb_neq _ _)), IH.
Qed.

(** Where [getSubscriber] finds a handle. *)
Definition first_with (h : Z) (l : cells) (p : loc) (x : AgpsSubscriber) : Prop :=
  ∃ l1 l2, l = l1 ++ (p, x) :: l2 ∧ mConnHandle x = h ∧ Forall (fun y => mConnHandle y ≠ h) l1.*2.

Lemma current_does n h p x w s l :
  holds w n s l -> first_with h l p x -> mWaitForCloseComplete x = true ->
  mCurrentSubscriber s = Some p ->
  does n (unsubscribe_current n) w l
    (Spec.with_subs (Spec.deactivate h l.*2) (view s l), []).
Proof.
  intros (Hn & Hs & Hl & Hnd) (l1 & l2 & -> & Hx & Hl1) Hwait Hcur.
  pose proof (proj1 (listed_app _ _ _) Hl) as [Hla [Hp Hlb]%listed_cons].
  rewrite fmap_app in Hnd. simpl in Hnd.
  apply NoDup_app in Hnd as (Hnd1 & Hdisj & [Hp2 Hnd2]%NoDup_cons).
  assert (Hp1 : p ∉ l1.*1) by (intros Hin; apply (Hdisj p Hin); by left).
  unfold does, unsubscribe_current. rewrite (bind_done _ _ _ _ _ (this_done _ _ _ Hn)), Hcur.
  rewrite (bind_done _ _ _ _ _ (read_sub_done _ _ _ Hp)), Hwait.
  unfold write_sub. simpl. rewrite Hp. simpl.
  exists (set_subs (<[p := with_inactive true x]> (subs w)) w), s, (l1 ++ (p, with_inactive true x) :: l2).
  split; [done|].
  assert (Hlocs : (l1 ++ (p, with_inactive true x) :: l2).*1 = (l1 ++ (p, x) :: l2).*1)
    by by rewrite !fmap_app.
  split; rewrite ?Hlocs; simpl; try done.
  - by rewrite app_nil_r.
  - unfold view, Spec.with_subs. rewrite !fmap_app. cbn [fmap list_fmap snd]. by rewrite (deactivate_at h).
  - split_and!; [done|congruence| |].
    + apply listed_app. split; [by apply listed_insert|]. apply listed_cons.
      split; [apply lookup_insert_eq|by apply listed_insert].
    + rewrite Hlocs, fmap_app. simpl. apply NoDup_app. split_and!; [done|done|]. by apply NoDup_cons.
  - by left.
  - intros q Hq _. rewrite lookup_insert_ne; [done|]. intros <-. apply Hq.
    rewrite fmap_app, elem_of_app. right. by left.
Qed.

Lemma list_empty_done n w s l : holds w n s l -> l ≠ [] -> list_empty n w = Done (false, w).
Proof.
  intros (Hn & Hs & _) Hl. unfold list_empty.
  rewrite (bind_done _ _ _ _ _ (this_done _ _ _ Hn)), Hs. by destruct l.
Qed.

Lemma release_unused_does n w s l :
  holds w n s l -> fresh_ok w -> l ≠ [] ->
  does n (release_unused n) w l
    (if Spec.any_active (view s l) then (view s l, [])
     else (Spec.with_st AGPS_STATE_RELEASING (view s l), [Spec.framework (view s l) false])).
Proof.
  intros H Hf Hl. unfold release_unused, does.
  rewrite (bind_done _ _ _ _ _ (list_empty_done _ _ _ _ H Hl)),
    (bind_done _ _ _ _ _ (anyActive_done _ _ _ _ H)).
  destruct (Spec.any_active (view s l)); simpl; [by apply does_skip|].
  refine (does_bind n _ _ w s l _ [] _ [_] H Hf (transitionState_does _ _ _ _ _ H) _).
  intros w2 s2 l2 H2 _ Hv2 _. rewrite <- Hv2.
  change (Spec.framework (view s l) false) with
    (Spec.framework (Spec.with_st AGPS_STATE_RELEASING (view s l)) false).
  rewrite <- Hv2. by apply dataConn_does.
Qed.

Lemma unsubscribe_does n h p x w s l :
  holds w n s l -> fresh_ok w -> first_with h l p x -> mWaitForCloseComplete x = true ->
  mCurrentSubscriber s = Some p -> mState s ≠ AGPS_STATE_RELEASED ->
  does n (processAgpsEvent n AGPS_EVENT_UNSUBSCRIBE) w l (Spec.unsubscribe h (view s l)).
Proof.
  intros H Hf Hfirst Hwait Hcur Hst. pose proof (current_does _ _ _ _ _ _ _ H Hfirst Hwait Hcur) as Hc.
  unfold processAgpsEvent, processAgpsEventUnsubscribe, does.
  rewrite (bind_done _ _ _ _ _ (this_done _ _ _ (proj1 H))).
  unfold Spec.unsubscribe. change (Spec.state (view s l)) with (mState s).
  change (Spec.subscribers (view s l)) with l.*2.
  assert (Hne : ∀ w1 s1 l1, holds w1 n s1 l1 ->
            view s1 l1 = Spec.with_subs (Spec.deactivate h l.*2) (view s l) -> l1 ≠ []).
  { intros w1 s1 l1 _ Hv ->. apply (f_equal Spec.subscribers) in Hv. simpl in Hv.
    destruct Hfirst as (la & lb & -> & Hx & Hla). rewrite fmap_app in Hv. simpl in Hv.
    rewrite (deactivate_at h) in Hv by done. by destruct la. }
  destruct (mState s) eqn:E; [by apply does_skip|done|..].
  1,2: pose proof (does_bind n _ (release_unused n) w s l _ [] 
         (if Spec.any_active (Spec.with_subs (Spec.deactivate h l.*2) (view s l))
          then Spec.with_subs (Spec.deactivate h l.*2) (view s l)
          else Spec.with_st AGPS_STATE_RELEASING (Spec.with_subs (Spec.deactivate h l.*2) (view s l)))
         (if Spec.any_active (Spec.with_subs (Spec.deactivate h l.*2) (view s l)) then []
          else [Spec.framework (view s l) false]) H Hf Hc) as Hb.
  1,2: destruct Hb as (w' & s' & l' & E' & P);
       [intros w1 s1 l1 H1 Hf1 Hv1 _; pose proof (release_unused_does _ _ _ _ H1 Hf1 (Hne _ _ _ H1 Hv1)) as Hr;
        rewrite Hv1 in Hr; by destruct (Spec.any_active _)|].
  1,2: exists w', s', l'; split; [exact E'|]; by destruct (Spec.any_active _).
  refine (does_bind n _ _ w s l _ [] _ [] H Hf Hc _). intros w1 s1 l1 H1 Hf1 Hv1 _. rewrite <- Hv1.
  unfold does. rewrite (bind_done _ _ _ _ _ (list_empty_done _ _ _ _ H1 (Hne _ _ _ H1 Hv1))).
  by apply does_skip.
Qed.

(** ** Notifying *)

Lemma filter_locs (f : AgpsSubscriber -> bool) (l : cells) :
  (List.filter (fun c : loc * AgpsSubscriber => f c.2) l).*2 = List.filter f l.*2.
Proof. induction l as [|[p x] l IH]; simpl; [done|]. destruct (f x); simpl; [f_equal|]; exact IH. Qed.

Lemma filter_split (f : AgpsSubscriber -> bool) (l : cells) p : NoDup l.*1 -> p ∈ l.*1 ->
  (p ∈ (List.filter (fun c : loc * AgpsSubscriber => f c.2) l).*1 <->
   p ∉ (List.filter (fun c : loc * AgpsSubscriber => negb (f c.2)) l).*1).
Proof.
  intros Hnd Hp. apply list_elem_of_fmap in Hp as ([q x] & -> & Hq). simpl.
  assert (Huniq : ∀ g, q ∈ (List.filter (fun c : loc * AgpsSubscriber => g c.2) l).*1 <-> g x = true).
  { intros g. rewrite list_elem_of_fmap. split.
    - intros ([q' y] & Hqq & Hin). simpl in Hqq. subst q'.
      apply list_elem_of_In, filter_In in Hin as [Hin Hg]. simpl in Hg.
      apply list_elem_of_In in Hin. clear -Hnd Hq Hin Hg.
      induction l as [|[q1 z] l IH]; [by apply elem_of_nil in Hq|].
      apply NoDup_cons in Hnd as [Hn Hnd].
      apply elem_of_cons in Hq, Hin. destruct Hq as [[= -> ->]|Hq], Hin as [Hin|Hin]; simplify_eq; auto.
      + exfalso. apply Hn, list_elem_of_fmap. by exists (q1, y).
      + exfalso. apply Hn, list_elem_of_fmap. by exists (q1, x).
    - intros Hg. exists (q, x). split; [done|]. apply list_elem_of_In, filter_In.
      split; [by apply list_elem_of_In|done]. }
  rewrite (Huniq f), (Huniq (fun y => negb (f y))). destruct (f x); simpl; intuition congruence.
Qed.

Lemma filter_sub (f : AgpsSubscriber -> bool) (l : cells) c :
  c ∈ List.filter (fun c : loc * AgpsSubscriber => f c.2) l -> c ∈ l.
Proof. rewrite !list_elem_of_In. by intros [? _]%filter_In. Qed.

Lemma NoDup_filter_locs (f : AgpsSubscriber -> bool) (l : cells) :
  NoDup l.*1 -> NoDup (List.filter (fun c : loc * AgpsSubscriber => f c.2) l).*1.
Proof.
  induction l as [|[p x] l IH]; simpl; [done|]. intros [Hp Hnd]%NoDup_cons.
  destruct (f x); simpl; [|by apply IH]. apply NoDup_cons. split; [|by apply IH].
  intros ([q y] & -> & Hin)%list_elem_of_fmap. apply Hp, list_elem_of_fmap.
  exists (q, y). split; [done|]. by eapply filter_sub.
Qed.

Lemma notifyAll_does n event del t w s l :
  holds w n s l ->
  does n (notifyAllSubscribers n event del t) w l
    (if del then Spec.with_subs (List.filter (fun x => negb (notified t x)) l.*2) (view s l) else view s l,
     concat (notify_cb (view s l) event <$> List.filter (notified t) l.*2)).
Proof.
  intros (Hn & Hs & Hl & Hnd). unfold does, notifyAllSubscribers.
  rewrite (bind_done _ _ _ _ _ (this_done _ _ _ Hn)), Hs.
  destruct (notify_loop_done n event del t l w s Hn Hl Hnd) as (w1 & E1 & M1).
  rewrite (bind_done _ _ _ _ _ E1).
  destruct (this_set_moved n (with_list (if del then List.filter
     (fun c : loc * AgpsSubscriber => negb (notified t c.2)) l else l).*1) w1 s
     (mv_this _ _ _ _ _ _ _ M1)) as (w2 & E2 & M2).
  pose proof (moved_trans _ _ _ _ _ _ _ _ _ _ _ _ M1 M2) as [H1 H2 H3 H4 H5].
  rewrite app_nil_r, filter_locs in H5.
  rewrite (mv_subs _ _ _ _ _ _ _ M1) in H3. rewrite (mv_brk _ _ _ _ _ _ _ M1) in H4.
  set (no := List.filter (fun c : loc * AgpsSubscriber => negb (notified t c.2)) l) in *.
  exists w2, (with_list (if del then no else l).*1 s), (if del then no else l). split; [done|].
  assert (Hin : ∀ p, p ∈ (if del then no else l).*1 -> p ∈ l.*1).
  { destruct del; [|done]. intros p ([q y] & -> & Hq)%list_elem_of_fmap. apply list_elem_of_fmap.
    exists (q, y). split; [done|]. by eapply (filter_sub (fun x => negb (notified t x))). }
  split; rewrite ?H3, ?H4; cbn [fst snd]; try done; try lia; try (by left).
  - unfold view, Spec.with_subs. simpl. destruct del; [|done].
    unfold no. by rewrite (filter_locs (fun x => negb (notified t x))).
  - destruct del; (split_and!; [done|done|rewrite H3|]); try done.
    + intros p x Hp. rewrite lookup_delete_subs, decide_False.
      * apply Hl. by eapply (filter_sub (fun x => negb (notified t x))).
      * assert (Hp1 : p ∈ no.*1) by (apply list_elem_of_fmap; by exists (p, x)).
        intros Hy. apply (filter_split _ _ _ Hnd (Hin p Hp1)) in Hy. done.
    + by apply (NoDup_filter_locs (fun x => negb (notified t x))).
  - intros p Hp. left. by apply Hin.
  - intros p Hp _. destruct del; [|done]. rewrite lookup_delete_subs, decide_False; [done|].
    intros ([q y] & -> & Hq)%list_elem_of_fmap. apply Hp, list_elem_of_fmap. exists (q, y).
    split; [done|]. by eapply filter_sub.
  - intros p Hp Hno. destruct del; [|done]. rewrite lookup_delete_subs, decide_True; [done|].
    by apply (filter_split _ _ _ Hnd Hp).
Qed.

Lemma concat_single {A B} (f : A -> B) (l : list A) : concat ((fun x => [f x]) <$> l) = f <$> l.
Proof. induction l as [|x l IH]; [done|]. simpl. f_equal. exact IH. Qed.

Lemma filter_all {A} (l : list A) : List.filter (fun _ => true) l = l.
Proof. induction l; simpl; congruence. Qed.
Lemma filter_none {A} (l : list A) : List.filter (fun _ => false) l = [].
Proof. by induction l. Qed.

Lemma state_view s l : Spec.state (view s l) = mState s.
Proof. done. Qed.

Lemma granted_does n w s l :
  holds w n s l -> fresh_ok w ->
  does n (processAgpsEvent n AGPS_EVENT_GRANTED) w l (Spec.granted (view s l)).
Proof.
  intros H Hf. unfold processAgpsEvent, processAgpsEventGranted, does, Spec.granted.
  rewrite (bind_done _ _ _ _ _ (this_done _ _ _ (proj1 H))), state_view.
  destruct (mState s) eqn:E; try by apply does_skip.
  refine (does_bind n _ _ w s l _ [] _ _ H Hf (transitionState_does _ _ _ _ _ H) _).
  intros w1 s1 l1 H1 Hf1 Hv1 _.
  pose proof (notifyAll_does n AGPS_EVENT_GRANTED false
    AGPS_NOTIFICATION_TYPE_FOR_ACTIVE_SUBSCRIBERS w1 s1 l1 H1) as Hd.
  rewrite (concat_single (Spec.opened (view s1 l1) 1)) in Hd. cbn iota in Hd. rewrite Hv1 in Hd.
  change l1.*2 with (Spec.subscribers (view s1 l1)) in Hd. by rewrite Hv1 in Hd.
Qed.

Lemma releasing_done_does n w s l :
  holds w n s l -> fresh_ok w -> does n (releasing_done n) w l (Spec.released_done (view s l)).
Proof.
  intros H Hf. unfold releasing_done, Spec.released_done.
  pose proof (notifyAll_does n AGPS_EVENT_RELEASED true
    AGPS_NOTIFICATION_TYPE_FOR_INACTIVE_SUBSCRIBERS w s l H) as Hd.
  rewrite (concat_single Spec.closed) in Hd. cbn iota in Hd.
  set (a' := Spec.with_subs _ (view s l)) in *.
  assert (Hk : ∀ w1 s1 l1, holds w1 n s1 l1 -> fresh_ok w1 -> view s1 l1 = a' ->
    does n (let! active := anyActiveSubscribers n in
            if active : bool
            then transitionState n AGPS_STATE_PENDING ;;; requestOrReleaseDataConn n true
            else transitionState n AGPS_STATE_RELEASED) w1 l1
      (if Spec.any_active a' then Spec.with_st AGPS_STATE_PENDING a'
       else Spec.with_st AGPS_STATE_RELEASED a',
       if Spec.any_active a' then [Spec.framework (view s l) true] else [])).
  { intros w1 s1 l1 H1 Hf1 Hv1. unfold does.
    rewrite (bind_done _ _ _ _ _ (anyActive_done _ _ _ _ H1)), Hv1.
    pose proof (λ st, transitionState_does n st _ _ _ H1) as Ht. rewrite Hv1 in Ht.
    destruct (Spec.any_active a'); [|by apply Ht].
    refine (does_bind n _ _ w1 s1 l1 _ [] _ [_] H1 Hf1 (Ht _) _).
    intros w2 s2 l2 H2 _ Hv2 _. rewrite <- Hv2.
    change (Spec.framework (view s l) true) with (Spec.framework (Spec.with_st AGPS_STATE_PENDING a') true).
    rewrite <- Hv2. by apply dataConn_does. }
  pose proof (does_bind n _ _ w s l _ _ _ _ H Hf Hd (fun w1 s1 l1 H1 Hf1 Hv1 _ => Hk w1 s1 l1 H1 Hf1 Hv1)) as Hb.
  destruct (Spec.any_active a'); [exact Hb|]. by rewrite app_nil_r in Hb.
Qed.

(** Everybody is told and dropped. *)
Lemma drop_notified_does n event w s l (f : Spec.machine -> AgpsSubscriber -> callback) :
  (∀ a x, notify_cb a event x = [f a x]) ->
  (∀ a x, f (Spec.with_st AGPS_STATE_RELEASED a) x = f a x) ->
  holds w n s l -> fresh_ok w ->
  does n (transitionState n AGPS_STATE_RELEASED ;;;
          notifyAllSubscribers n event true AGPS_NOTIFICATION_TYPE_FOR_ALL_SUBSCRIBERS) w l
    (Spec.with_subs [] (Spec.with_st AGPS_STATE_RELEASED (view s l)), f (view s l) <$> l.*2).
Proof.
  intros Hcb Hst H Hf.
  refine (does_bind n _ _ w s l _ [] _ _ H Hf (transitionState_does _ _ _ _ _ H) _).
  intros w1 s1 l1 H1 Hf1 Hv1 _.
  pose proof (notifyAll_does n event true AGPS_NOTIFICATION_TYPE_FOR_ALL_SUBSCRIBERS w1 s1 l1 H1) as Hd.
  change (notified _) with (fun _ : AgpsSubscriber => true) in Hd. cbn in Hd.
  rewrite filter_all, filter_none, Hv1 in Hd.
  change l1.*2 with (Spec.subscribers (view s1 l1)) in Hd. rewrite Hv1 in Hd.
  assert (Hmap : concat (notify_cb (Spec.with_st AGPS_STATE_RELEASED (view s l)) event <$> l.*2) =
                 f (view s l) <$> l.*2).
  { rewrite <- (concat_single (f (view s l))). f_equal. apply list_fmap_ext. intros _ x _. by rewrite Hcb, Hst. }
  change (Spec.subscribers (Spec.with_st AGPS_STATE_RELEASED (view s l))) with l.*2 in Hd.
  by rewrite Hmap in Hd.
Qed.

Lemma released_does n w s l :
  holds w n s l -> fresh_ok w ->
  does n (processAgpsEvent n AGPS_EVENT_RELEASED) w l (Spec.released (view s l)).
Proof.
  intros H Hf. unfold processAgpsEvent, processAgpsEventReleased, does, Spec.released.
  rewrite (bind_done _ _ _ _ _ (this_done _ _ _ (proj1 H))), state_view.
  destruct (mState s) eqn:E; try by apply does_skip.
  - by apply (drop_notified_does n AGPS_EVENT_RELEASED w s l (fun _ => Spec.closed)).
  - by apply releasing_done_does.
Qed.

Lemma denied_does n w s l :
  holds w n s l -> fresh_ok w ->
  does n (processAgpsEvent n AGPS_EVENT_DENIED) w l (Spec.denied (view s l)).
Proof.
  intros H Hf. unfold processAgpsEvent, processAgpsEventDenied, does, Spec.denied.
  rewrite (bind_done _ _ _ _ _ (this_done _ _ _ (proj1 H))), state_view.
  destruct (mState s) eqn:E; try by apply does_skip.
  - by apply (drop_notified_does n AGPS_EVENT_DENIED w s l (fun a => Spec.opened a 0)).
  - by apply releasing_done_does.
Qed.

Lemma dropAll_does n w s l :
  holds w n s l -> does n (dropAllSubscribers n) w l (Spec.with_subs [] (view s l), []).
Proof.
  intros (Hn & Hs & Hl & Hnd). unfold does, dropAllSubscribers.
  rewrite (bind_done _ _ _ _ _ (this_done _ _ _ Hn)), Hs.
  destruct (drop_loop_done n l w s Hn Hl Hnd) as (w1 & E1 & M1).
  rewrite (bind_done _ _ _ _ _ E1).
  destruct (this_set_moved n (with_list []) w1 s (mv_this _ _ _ _ _ _ _ M1)) as (w2 & E2 & M2).
  pose proof (moved_trans _ _ _ _ _ _ _ _ _ _ _ _ M1 M2) as [H1 H2 H3 H4 H5].
  rewrite (mv_subs _ _ _ _ _ _ _ M1) in H3. rewrite (mv_brk _ _ _ _ _ _ _ M1) in H4.
  exists w2, (with_list [] s), []. split; [done|]. split; rewrite ?H3, ?H4; try done; try lia.
  - split_and!; [done|done|intros p x Hp; by apply elem_of_nil in Hp|by apply NoDup_nil].
  - intros p Hp. by apply elem_of_nil in Hp.
  - intros p Hp _. by rewrite lookup_delete_subs, decide_False.
  - intros p Hp _. by rewrite lookup_delete_subs, decide_True.
Qed.

(** * The abstract machine keeps its invariant *)

Lemma deactivate_handles h l : mConnHandle <$> Spec.deactivate h l = mConnHandle <$> l.
Proof. induction l as [|x l IH]; simpl; [done|]. case_match; simpl; [done|]. f_equal. exact IH. Qed.

Lemma deactivate_wait h l :
  Forall (fun x => mWaitForCloseComplete x = true) l ->
  Forall (fun x => mWaitForCloseComplete x = true) (Spec.deactivate h l).
Proof. induction 1 as [|x l Hx Hl IH]; simpl; [done|]. case_match; by constructor. Qed.

Lemma existsb_handle x l :
  existsb (fun y => equals y x) l = false <-> (mConnHandle x ∉ mConnHandle <$> l).
Proof.
  induction l as [|y l IH]; simpl; [split; [intros _ H; by apply elem_of_nil in H|done]|].
  rewrite orb_false_iff, IH, not_elem_of_cons. unfold equals. rewrite Z.eqb_neq. intuition congruence.
Qed.

Lemma Forall_filter_bool {A} (P : A -> Prop) f (l : list A) : Forall P l -> Forall P (List.filter f l).
Proof. induction 1; simpl; [done|]. case_match; [by constructor|done]. Qed.

Lemma NoDup_filter_handles f (l : list AgpsSubscriber) :
  NoDup (mConnHandle <$> l) -> NoDup (mConnHandle <$> List.filter f l).
Proof.
  induction l as [|x l IH]; simpl; [done|]. intros [Hx Hnd]%NoDup_cons.
  case_match; simpl; [|by apply IH]. apply NoDup_cons. split; [|by apply IH].
  intros (y & Hy & Hin)%list_elem_of_fmap. apply Hx, list_elem_of_fmap. exists y. split; [done|].
  apply list_elem_of_In, filter_In in Hin as [Hin _]. by apply list_elem_of_In.
Qed.

Lemma add_ok x a : Spec.machine_ok a -> mWaitForCloseComplete x = true ->
  Forall (fun x => mWaitForCloseComplete x = true) (Spec.subscribers (Spec.add x a)) ∧
  NoDup (mConnHandle <$> Spec.subscribers (Spec.add x a)).
Proof.
  intros [Hw Hh _ _] Hx. unfold Spec.add. destruct (existsb _ _) eqn:E; [done|]. simpl.
  apply existsb_handle in E. rewrite fmap_app, Forall_snoc, NoDup_app. split_and!; [done..| |].
  - intros h Hin ->%list_elem_of_singleton. done.
  - apply NoDup_singleton.
Qed.

Lemma subscribe_ok x a : Spec.machine_ok a -> mWaitForCloseComplete x = true ->
  Spec.machine_ok (Spec.subscribe x a).1.
Proof.
  intros Ha Hx. destruct (add_ok x a Ha Hx) as [Hw Hh].
  assert (Hst : Spec.state (Spec.add x a) = Spec.state a) by (unfold Spec.add; by case_match).
  unfold Spec.subscribe. destruct (Spec.state a) eqn:E; simpl; [done|..]; split; try done;
    rewrite ?Hst; simpl; congruence.
Qed.

Lemma unsubscribe_ok h a : Spec.machine_ok a -> Spec.machine_ok (Spec.unsubscribe h a).1.
Proof.
  intros Ha. pose proof Ha as [Hw Hh _ _].
  assert (H : ∀ st, st ≠ AGPS_STATE_RELEASED -> st ≠ AGPS_STATE_INVALID ->
            Spec.machine_ok (Spec.with_st st (Spec.with_subs (Spec.deactivate h (Spec.subscribers a)) a))).
  { intros st H1 H2. split; simpl; [by apply deactivate_wait|by rewrite deactivate_handles|done|done]. }
  unfold Spec.unsubscribe. destruct (Spec.state a) eqn:E; try done.
  1,2: destruct (Spec.any_active _); simpl; [|by apply H].
  1-3: specialize (H (Spec.state a)); rewrite E in H; specialize (H ltac:(done) ltac:(done));
       destruct H as [H1 H2 H3 H4]; split; simpl in *; rewrite ?E; done.
Qed.

Lemma with_conn_ok ap len b a : Spec.machine_ok a -> Spec.machine_ok (Spec.with_conn ap len b a).
Proof. by intros []. Qed.
Lemma with_ty_ok t m a : Spec.machine_ok a -> Spec.machine_ok (Spec.with_ty t m a).
Proof. by intros []. Qed.

Lemma granted_ok a : Spec.machine_ok a -> Spec.machine_ok (Spec.granted a).1.
Proof. intros Ha. unfold Spec.granted. destruct (Spec.state a) eqn:E; try done. by destruct Ha. Qed.

Lemma dropped_ok st a : Spec.machine_ok a -> st ≠ AGPS_STATE_INVALID ->
  Spec.machine_ok (Spec.with_subs [] (Spec.with_st st a)).
Proof. intros Ha Hst. split; simpl; [done|by apply NoDup_nil|done|done]. Qed.

Lemma any_active_nil l : existsb Spec.active (List.filter Spec.active l) = false ->
  List.filter Spec.active l = [].
Proof. induction l as [|x l IH]; simpl; [done|]. destruct (Spec.active x) eqn:E; simpl; [by rewrite E|done]. Qed.

Lemma released_done_ok a : Spec.machine_ok a -> Spec.machine_ok (Spec.released_done a).1.
Proof.
  intros [Hw Hh Hr Hv]. unfold Spec.released_done. destruct (Spec.any_active _) eqn:E; simpl.
  - split; simpl; [by apply Forall_filter_bool|by apply NoDup_filter_handles|done|done].
  - unfold Spec.any_active in E. simpl in E. apply any_active_nil in E.
    split; simpl; rewrite ?E; [done|by apply NoDup_nil|done|done].
Qed.

Lemma released_ok a : Spec.machine_ok a -> Spec.machine_ok (Spec.released a).1.
Proof.
  intros Ha. unfold Spec.released. destruct (Spec.state a) eqn:E; try done;
    [by apply dropped_ok|by apply released_done_ok].
Qed.

Lemma denied_ok a : Spec.machine_ok a -> Spec.machine_ok (Spec.denied a).1.
Proof.
  intros Ha. unfold Spec.denied. destruct (Spec.state a) eqn:E; try done;
    [by apply dropped_ok|by apply released_done_ok].
Qed.

(** * The manager *)

(** The store holds exactly the subscribers of the two machines, and the
    addresses [X] of somebody else. *)
Record rep (X : list loc) (w : world) (ls : nif -> cells) (ms : Spec.machines) : Prop := {
  rep_nif : ∀ n, match nifs w n with
                 | Some s => holds w n s (ls n) ∧ ms n = Some (view s (ls n))
                 | None => ls n = [] ∧ ms n = None
                 end;
  rep_disj : ∀ p, p ∈ (ls AgnssNif).*1 -> p ∉ (ls InternetNif).*1;
  rep_dom : ∀ p, is_Some (subs w !! p) -> p ∈ X ∨ ∃ n, p ∈ (ls n).*1;
  rep_sep : ∀ p, p ∈ X -> is_Some (subs w !! p) ∧ ∀ n, p ∉ (ls n).*1;
  rep_fresh : fresh_ok w;
  rep_ok : ∀ n a, ms n = Some a -> Spec.machine_ok a
}.

Definition updl (n : nif) (l : cells) (ls : nif -> cells) : nif -> cells :=
  fun n' => if decide (n' = n) then l else ls n'.

Lemma rep_ext X w ls ls' ms ms' :
  (∀ n, ls' n = ls n) -> (∀ n, ms' n = ms n) -> rep X w ls ms -> rep X w ls' ms'.
Proof.
  intros Hl He [H1 H2 H3 H4 H5 H6]. split; try done.
  - intros n. rewrite He, Hl. apply H1.
  - by rewrite !Hl.
  - intros p Hp. destruct (H3 p Hp) as [|[n Hn]]; [by left|]. right. exists n. by rewrite Hl.
  - intros p Hp. destruct (H4 p Hp) as [? Hn]. split; [done|]. intros n. by rewrite Hl.
  - intros n a. rewrite He. apply H6.
Qed.

Lemma rep_disj' X w ls ms n n' p : rep X w ls ms -> n ≠ n' -> p ∈ (ls n).*1 -> p ∉ (ls n').*1.
Proof.
  intros [_ Hd _ _ _ _] Hn Hp Hp'. destruct n, n'; try done; by eapply Hd.
Qed.

Lemma rep_live X w ls ms n p : rep X w ls ms -> p ∈ (ls n).*1 -> is_Some (subs w !! p).
Proof.
  intros [Hn _ _ _ _ _] Hp. specialize (Hn n). destruct (nifs w n).
  - destruct Hn as [(_ & _ & Hl & _) _]. by eapply listed_in.
  - destruct Hn as [E _]. rewrite E in Hp. by apply elem_of_nil in Hp.
Qed.

Lemma rep_post X w ls ms n s w' s' l' a evs :
  rep X w ls ms -> nifs w n = Some s -> post n w (ls n) w' s' l' (a, evs) -> Spec.machine_ok a ->
  rep X w' (updl n l' ls) (Spec.upd n a ms).
Proof.
  intros Hrep Hs P Ha. pose proof (rep_nif _ _ _ _ Hrep n) as Hh. rewrite Hs in Hh.
  pose proof (post_fresh _ _ _ _ _ _ _ _ P (proj1 Hh) (rep_fresh _ _ _ _ Hrep)) as Hf'.
  destruct P as [Ho Hg Hv Hh' Haddr Hk Hfr Hb]. simpl in *.
  assert (Hout : ∀ p, is_Some (subs w !! p) -> p ∉ (ls n).*1 -> (p ∉ l'.*1) ∧ subs w' !! p = subs w !! p).
  { intros p [x Hx] Hp. assert (p ∉ l'.*1).
    { intros Hin. destruct (Haddr p Hin) as [|Hge]; [done|]. rewrite (rep_fresh _ _ _ _ Hrep) in Hx; [done|lia]. }
    split; [done|]. by apply Hk. }
  split.
  - intros n'. unfold updl, Spec.upd. case_decide as Hn.
    + subst. destruct (nifs w' n) as [s1|] eqn:E; [|by destruct Hh' as [E' _]; rewrite E in E'].
      destruct (Hh') as [E' _]. rewrite E in E'. injection E' as ->. split; [done|done].
    + rewrite Ho by done. pose proof (rep_nif _ _ _ _ Hrep n') as Hn'.
      destruct (nifs w n') as [s1|] eqn:E; [|done]. destruct Hn' as [(E1 & E2 & E3 & E4) E5].
      split; [|done]. split_and!; [by rewrite Ho|done| |done]. intros p x Hp.
      assert (Hpn' : p ∈ (ls n').*1) by (apply list_elem_of_fmap; by exists (p, x)).
      destruct (Hout p) as [_ ->]; [by rewrite (E3 _ _ Hp)| |by apply E3].
      eapply (rep_disj' _ _ _ _ n' n); [exact Hrep|congruence|done].
  - assert (H2 : ∀ n', n' ≠ n -> ∀ p, p ∈ l'.*1 -> p ∉ (ls n').*1).
    { intros n' Hn p Hp Hp'. destruct (Hout p) as [? _]; [by eapply rep_live| |done].
      eapply (rep_disj' _ _ _ _ n' n); [exact Hrep|congruence|done]. }
    intros p. unfold updl. destruct (decide (AgnssNif = n)) as [<-|H1].
    + rewrite (decide_False (P := InternetNif = AgnssNif)) by done. by apply H2.
    + destruct (decide (InternetNif = n)) as [<-|H3]; [|by destruct n].
      intros Hp Hp'. by apply (H2 AgnssNif ltac:(done) p).
  - intros p Hp. destruct (decide (p ∈ l'.*1)) as [Hin|Hout'].
    { right. exists n. unfold updl. by rewrite decide_True. }
    destruct (decide (p ∈ (ls n).*1)) as [Hin|Hnin]; [rewrite Hfr in Hp by done; by destruct Hp|].
    rewrite Hk in Hp by done. destruct (rep_dom _ _ _ _ Hrep p Hp) as [|[n' Hn']]; [by left|].
    right. exists n'. unfold updl. case_decide; [by subst|done].
  - intros p Hp. destruct (rep_sep _ _ _ _ Hrep p Hp) as [Hl Hno].
    destruct (Hout p Hl (Hno n)) as [Hl' Heq]. rewrite Heq. split; [done|].
    intros n'. unfold updl. by case_decide.
  - done.
  - intros n' a'. unfold Spec.upd. case_decide; [by intros [= <-]|]. apply (rep_ok _ _ _ _ Hrep).
Qed.

Lemma rep_does X w ls ms n c s r :
  rep X w ls ms -> nifs w n = Some s -> does n c w (ls n) r -> Spec.machine_ok r.1 ->
  ∃ w' ls', c w = Done (tt, w') ∧ rep X w' ls' (Spec.upd n r.1 ms) ∧ log w' = log w ++ r.2.
Proof.
  intros Hrep Hs (w' & s' & l' & E & P) Ha. destruct r as [a evs].
  exists w', (updl n l' ls). split; [done|]. split; [by eapply rep_post|apply P].
Qed.

Lemma rep_set X w ls ms n f s :
  rep X w ls ms -> nifs w n = Some s -> mSubscriberList (f s) = mSubscriberList s ->
  Spec.machine_ok (view (f s) (ls n)) ->
  ∃ w', this_set n f w = Done (tt, w') ∧ rep X w' ls (Spec.upd n (view (f s) (ls n)) ms) ∧
    nifs w' n = Some (f s) ∧ subs w' = subs w ∧ wbrk w' = wbrk w ∧ log w' = log w ∧
    ∀ n', n' ≠ n -> nifs w' n' = nifs w n'.
Proof.
  intros Hrep Hs Hf Ha. pose proof (rep_nif _ _ _ _ Hrep n) as Hh. rewrite Hs in Hh.
  destruct Hh as [Hh Hm]. destruct (this_set_moved n f w s Hs) as (w' & E & Hmv).
  destruct (does_moved n (this_set n f) w s (ls n) w' (f s) [] Hh E Hmv Hf)
    as (w1 & s1 & l1 & E1 & P).
  rewrite E in E1. injection E1 as <-. destruct Hmv as [H1 H2 H3 H4 H5].
  exists w'. split; [done|]. rewrite app_nil_r in H5. split_and!; try done.
  assert (Hl1 : l1 = ls n).
  { destruct P as [_ _ Hv (E1 & El & Hl & Hnd) _ _ _ _]. simpl in Hv.
    destruct Hh as (_ & El0 & Hl0 & _).
    rewrite H1 in E1. injection E1 as <-. rewrite Hf, El0 in El.
    apply (f_equal Spec.subscribers) in Hv. simpl in Hv.
    clear -El Hv. revert El Hv. generalize (ls n). induction l1 as [|[p x] l1 IH]; intros [|[q y] l] El Hv;
      try done. simpl in *. injection El as -> El. injection Hv as -> Hv. f_equal. by apply IH. }
  subst l1. eapply rep_ext; [| |eapply (rep_post X w ls ms n); try done]; [|done].
  intros n'. unfold updl. by case_decide; subst.
Qed.

Lemma rep_new w ls ms x w' c :
  rep [] w ls ms -> new_sub x w = Done (c, w') ->
  rep [c] w' ls ms ∧ subs w' !! c = Some x ∧ log w' = log w ∧ nifs w' = nifs w.
Proof.
  intros Hrep [= <- <-]. pose proof (rep_fresh _ _ _ _ Hrep) as Hf.
  assert (Hno : ∀ n, wbrk w ∉ (ls n).*1).
  { intros n Hin. destruct (rep_live _ _ _ _ _ _ Hrep Hin) as [y Hy]. by rewrite Hf in Hy. }
  split; [|split_and!; [apply lookup_insert_eq|done|done]]. destruct Hrep as [H1 H2 H3 H4 H5 H6].
  split; simpl; try done.
  - intros n. specialize (H1 n). destruct (nifs w n) eqn:E; [|done].
    destruct H1 as [(? & ? & ? & ?) ?]. split; [|done]. split_and!; [done|done| |done].
    by apply listed_insert.
  - intros p. destruct (decide (p = wbrk w)) as [->|]; [left; by left|].
    rewrite lookup_insert_ne by done. intros Hp. destruct (H3 p Hp) as [Hin|]; [|by right].
    by apply elem_of_nil in Hin.
  - intros p ->%list_elem_of_singleton. by rewrite lookup_insert_eq.
  - intros p Hp. simpl in Hp. simpl. rewrite lookup_insert_ne by lia. apply Hf. lia.
Qed.

Lemma rep_free w ls ms c :
  rep [c] w ls ms -> ∃ w', free_sub c w = Done (tt, w') ∧ rep [] w' ls ms ∧ log w' = log w.
Proof.
  intros [H1 H2 H3 H4 H5 H6]. destruct (H4 c) as [[x Hx] Hno]; [by left|].
  rewrite (free_sub_done _ _ _ Hx). eexists. split; [done|]. split; [|done]. split; simpl; try done.
  - intros n. specialize (H1 n). destruct (nifs w n) eqn:E; [|done].
    destruct H1 as [(? & ? & ? & ?) ?]. split; [|done]. split_and!; [done|done| |done].
    by apply listed_delete.
  - intros p [y Hp]. apply lookup_delete_Some in Hp as [Hne Hp].
    destruct (H3 p (ex_intro _ _ Hp)) as [Hin|]; [|by right].
    apply list_elem_of_singleton in Hin. congruence.
  - intros p Hp. by apply elem_of_nil in Hp.
  - intros p Hp. simpl. apply lookup_delete_None. right. by apply H5.
Qed.

Lemma upd_upd n a b ms n' : Spec.upd n a (Spec.upd n b ms) n' = Spec.upd n a ms n'.
Proof. unfold Spec.upd. by case_decide. Qed.

(** One call of the manager does what the abstract machines do, and goes wrong
    exactly where they say that a machine is missing. *)
Definition refines (conf : gps_conf) (o : Spec.op) : Prop :=
  ∀ w ls ms, rep [] w ls ms ->
    match Spec.step conf o ms with
    | Some (ms', evs) => ∃ w' ls', run_op conf o w = Done (tt, w') ∧ rep [] w' ls' ms' ∧
                                   log w' = log w ++ evs
    | None => run_op conf o w = Undefined
    end.

Lemma rep_cases X w ls ms n : rep X w ls ms ->
  (nifs w n = None ∧ ms n = None) ∨
  ∃ s, nifs w n = Some s ∧ holds w n s (ls n) ∧ ms n = Some (view s (ls n)) ∧
       Spec.machine_ok (view s (ls n)).
Proof.
  intros Hrep. pose proof (rep_nif _ _ _ _ Hrep n) as Hn. destruct (nifs w n) as [s|].
  - right. exists s. destruct Hn as [? Hm]. split_and!; [done..|]. by eapply rep_ok.
  - left. by destruct Hn.
Qed.

Lemma rep_create w ls ms n t (b : bool) : rep [] w ls ms ->
  let w' := match nifs w n with
            | None => if b then set_nif n (Some (new_machine t)) w else w
            | Some _ => w
            end in
  rep [] w' ls (match ms n with
                | None => if b then Spec.upd n (Spec.fresh t) ms else ms
                | Some _ => ms
                end) ∧ log w' = log w.
Proof.
  intros Hrep. pose proof (rep_nif _ _ _ _ Hrep n) as Hn.
  destruct (nifs w n) as [s|] eqn:E; destruct Hn as [Hl ->]; [done|]. destruct b; [|done].
  split; [|done]. destruct Hrep as [H1 H2 H3 H4 H5 H6]. split; simpl; try done.
  - intros n'. unfold Spec.upd. case_decide as Hne; [subst n'|].
    + rewrite Hl. split; [|done].
      split_and!; [simpl; by rewrite decide_True|done| |by apply NoDup_nil].
      intros p x Hp. by apply elem_of_nil in Hp.
    + specialize (H1 n'). destruct (nifs w n') eqn:E'; [|done].
      destruct H1 as [(? & ? & ? & ?) ?]. split; [|done]. split_and!; try done.
      simpl. by rewrite decide_False.
  - intros n' a. unfold Spec.upd. case_decide; [|by apply H6]. intros [= <-].
    split; simpl; [done|by apply NoDup_nil|done|done].
Qed.

Lemma create_refines conf atlType : refines conf (Spec.Create atlType).
Proof.
  intros w ls ms Hrep. cbn [Spec.step run_op]. unfold createAgpsStateMachines.
  destruct (rep_create w ls ms InternetNif LOC_AGPS_TYPE_WWAN_ANY (has_bit atlType AGPS_ATL_TYPE_WWAN) Hrep)
    as [Hrep1 Hlog1].
  set (capable := has_bit (CAPABILITIES conf) LOC_GPS_CAPABILITY_MSA || _).
  pose proof (rep_create _ _ _ AgnssNif LOC_AGPS_TYPE_SUPL (capable && has_bit atlType AGPS_ATL_TYPE_SUPL
    && has_bit atlType AGPS_ATL_TYPE_SUPL_ES) Hrep1) as [Hrep2 Hlog2].
  eexists _, ls. split; [reflexivity|]. split; [exact Hrep2|].
  by rewrite Hlog2, Hlog1, app_nil_r.
Qed.

Lemma sm_null_done n w :
  sm_null n w = Done (match nifs w n with None => true | Some _ => false end, w).
Proof. done. Qed.

Lemma request_refines conf h t m : refines conf (Spec.Request h t m).
Proof.
  intros w ls ms Hrep. cbn [Spec.step run_op]. unfold requestATL.
  destruct (request_type conf t m) as [t' m']. set (n := getAgpsStateMachine t').
  rewrite (bind_done _ _ _ _ _ (sm_null_done n w)).
  destruct (rep_cases _ _ _ _ n Hrep) as [[Hs Hm]|(s & Hs & Hh & Hm & Hok)]; rewrite Hs, Hm.
  { eexists _, ls. split; [reflexivity|]. split; [|done].
    destruct Hrep as [H1 H2 H3 H4 H5 H6]. by split. }
  destruct (rep_set _ _ _ _ n (with_type t' m') s Hrep Hs) as (w1 & E1 & R1 & N1 & _ & _ & L1 & _);
    [done|by apply (with_ty_ok t' m') in Hok|].
  rewrite (bind_done _ _ _ _ _ E1).
  destruct (new_sub (Subscriber h true false m') w1) as [[c w2]| |] eqn:E2; try discriminate.
  destruct (rep_new _ _ _ _ _ _ R1 E2) as (R2 & Hc & L2 & N2). rewrite (bind_done _ _ _ _ _ E2).
  assert (N2' : nifs w2 n = Some (with_type t' m' s)) by by rewrite N2.
  destruct (rep_set _ _ _ _ n (with_current (Some c)) _ R2 N2') as (w3 & E3 & R3 & N3 & S3 & B3 & L3 & _);
    [done|by apply (with_ty_ok t' m') in Hok|].
  rewrite (bind_done _ _ _ _ _ E3).
  pose proof (rep_nif _ _ _ _ R3 n) as H3. rewrite N3 in H3. destruct H3 as [H3 _].
  assert (Hd : does n (processAgpsEvent n AGPS_EVENT_SUBSCRIBE) w3 (ls n)
                 (Spec.subscribe (Subscriber h true false m') (Spec.with_ty t' m' (view s (ls n))))).
  { refine (subscribe_does n c _ w3 _ (ls n) H3 (rep_fresh _ _ _ _ R3) _ _ eq_refl); [by rewrite S3|].
    apply (rep_sep _ _ _ _ R3). by left. }
  destruct (rep_does _ _ _ _ _ _ _ _ R3 N3 Hd) as (w4 & ls4 & E4 & R4 & L4);
    [apply subscribe_ok; [by apply with_ty_ok|done]|].
  rewrite (bind_done _ _ _ _ _ E4). destruct (rep_free _ _ _ _ R4) as (w5 & E5 & R5 & L5).
  destruct (Spec.subscribe _ _) as [a evs]. exists w5, ls4. split; [exact E5|]. split.
  - eapply rep_ext; [done| |exact R5]. intros n'. simpl. by rewrite !upd_upd.
  - by rewrite L5, L4, L3, L2, L1.
Qed.

Lemma find_in_done n h w ls ms X : rep X w ls ms ->
  find_in n h w = Done (match find (fun c : loc * AgpsSubscriber => mConnHandle c.2 =? h)%Z (ls n) with
                        | Some c => Some c.1
                        | None => None
                        end, w) ∧
  Spec.has_handle h (ms n) =
    match find (fun c : loc * AgpsSubscriber => mConnHandle c.2 =? h)%Z (ls n) with
    | Some _ => true
    | None => false
    end.
Proof.
  intros Hrep. unfold find_in. rewrite (bind_done _ _ _ _ _ (sm_null_done n w)).
  destruct (rep_cases _ _ _ _ n Hrep) as [[Hs Hm]|(s & Hs & Hh & Hm & Hok)]; rewrite Hs, Hm.
  - pose proof (rep_nif _ _ _ _ Hrep n) as Hn. rewrite Hs in Hn. destruct Hn as [-> _]. done.
  - destruct (Hh) as (_ & Hlist & Hl & _). split.
    + unfold getSubscriber. rewrite (bind_done _ _ _ _ _ (this_done _ _ _ Hs)), Hlist.
      pose proof (get_loop_done _ h _ Hl) as Hg. by destruct (find _ (ls n)).
    + clear. simpl. induction (ls n) as [|[p x] l IH]; simpl; [done|].
      destruct (mConnHandle x =? h)%Z; [done|exact IH].
Qed.

Lemma find_first h (l : cells) c :
  find (fun c : loc * AgpsSubscriber => mConnHandle c.2 =? h)%Z l = Some c -> first_with h l c.1 c.2.
Proof.
  induction l as [|[p x] l IH]; simpl; [done|]. destruct (mConnHandle x =? h)%Z eqn:E.
  - intros [= <-]. exists [], l. split_and!; [done|by apply Z.eqb_eq|done].
  - intros Hf. destruct (IH Hf) as (l1 & l2 & -> & Hx & Hl). exists ((p, x) :: l1), l2.
    split_and!; [done|done|]. constructor; [by apply Z.eqb_neq|done].
Qed.

Lemma release_in_refines w ls ms n h c :
  rep [] w ls ms ->
  find (fun c : loc * AgpsSubscriber => mConnHandle c.2 =? h)%Z (ls n) = Some c ->
  match Spec.on n (Spec.unsubscribe h) ms with
  | Some (ms', evs) =>
    ∃ w' ls', (this_set n (with_current (Some c.1)) ;;; processAgpsEvent n AGPS_EVENT_UNSUBSCRIBE) w =
                Done (tt, w') ∧ rep [] w' ls' ms' ∧ log w' = log w ++ evs
  | None => False
  end.
Proof.
  intros Hrep Hf. pose proof (find_first _ _ _ Hf) as Hfirst. unfold Spec.on.
  destruct (rep_cases _ _ _ _ n Hrep) as [[Hs Hm]|(s & Hs & Hh & Hm & Hok)].
  { pose proof (rep_nif _ _ _ _ Hrep n) as Hn. rewrite Hs in Hn. destruct Hn as [E _]. by rewrite E in Hf. }
  rewrite Hm. simpl.
  destruct (rep_set _ _ _ _ n (with_current (Some c.1)) s Hrep Hs) as (w1 & E1 & R1 & N1 & _ & _ & L1 & _);
    [done|done|].
  rewrite (bind_done _ _ _ _ _ E1).
  pose proof (rep_nif _ _ _ _ R1 n) as H1. rewrite N1 in H1. destruct H1 as [H1 _].
  destruct Hok as [Hwait _ Hrel Hval].
  assert (Hin : c.2 ∈ (ls n).*2).
  { destruct Hfirst as (l1 & l2 & El & _). apply list_elem_of_fmap. exists c. split; [done|].
    rewrite El, elem_of_app. right. destruct c. by left. }
  assert (Hd : does n (processAgpsEvent n AGPS_EVENT_UNSUBSCRIBE) w1 (ls n)
                 (Spec.unsubscribe h (view s (ls n)))).
  { refine (unsubscribe_does n h c.1 c.2 w1 _ (ls n) H1 (rep_fresh _ _ _ _ R1) Hfirst _ eq_refl _).
    - by apply (proj1 (Forall_forall _ _) Hwait).
    - simpl. intros E. specialize (Hrel E). simpl in Hrel. rewrite Hrel in Hin. by apply elem_of_nil in Hin. }
  destruct (rep_does _ _ _ _ _ _ _ _ R1 N1 Hd) as (w2 & ls2 & E2 & R2 & L2).
  { apply unsubscribe_ok. exact (rep_ok _ _ _ _ Hrep n _ Hm). }
  destruct (Spec.unsubscribe h (view s (ls n))) as [a evs]. exists w2, ls2.
  split; [done|]. split; [|by rewrite L2, L1].
  eapply rep_ext; [done| |exact R2]. intros n'. by rewrite upd_upd.
Qed.

Lemma release_refines conf h : refines conf (Spec.Release h).
Proof.
  intros w ls ms Hrep. cbn [Spec.step run_op]. unfold releaseATL.
  destruct (find_in_done AgnssNif h _ _ _ _ Hrep) as [E1 ->]. rewrite (bind_done _ _ _ _ _ E1).
  destruct (find _ (ls AgnssNif)) as [c|] eqn:F1.
  { pose proof (release_in_refines _ _ _ _ _ _ Hrep F1) as Hr.
    by destruct (Spec.on AgnssNif (Spec.unsubscribe h) ms) as [[ms' evs]|]. }
  destruct (find_in_done InternetNif h _ _ _ _ Hrep) as [E2 ->]. rewrite (bind_done _ _ _ _ _ E2).
  destruct (find _ (ls InternetNif)) as [c|] eqn:F2.
  { pose proof (release_in_refines _ _ _ _ _ _ Hrep F2) as Hr.
    by destruct (Spec.on InternetNif (Spec.unsubscribe h) ms) as [[ms' evs]|]. }
  exists w, ls. by rewrite app_nil_r.
Qed.

(** The framework's reports, for an event handled as [f] says. *)
Lemma report_refines w ls ms n ev f :
  rep [] w ls ms ->
  (∀ w s l, holds w n s l -> fresh_ok w -> does n (processAgpsEvent n ev) w l (f (view s l))) ->
  (∀ a, Spec.machine_ok a -> Spec.machine_ok (f a).1) ->
  (nifs w n = None -> processAgpsEvent n ev w = Undefined) ->
  match Spec.on n f ms with
  | Some (ms', evs) => ∃ w' ls', processAgpsEvent n ev w = Done (tt, w') ∧ rep [] w' ls' ms' ∧
                                 log w' = log w ++ evs
  | None => processAgpsEvent n ev w = Undefined
  end.
Proof.
  intros Hrep Hd Hok Hun. unfold Spec.on.
  destruct (rep_cases _ _ _ _ n Hrep) as [[Hs ->]|(s & Hs & Hh & -> & Ha)]; [by apply Hun|].
  simpl. specialize (Hd _ _ _ Hh (rep_fresh _ _ _ _ Hrep)).
  destruct (rep_does _ _ _ _ _ _ _ _ Hrep Hs Hd) as (w' & ls' & E & R & L); [by apply Hok|].
  destruct (f (view s (ls n))) as [a evs]. exists w', ls'. by split_and!.
Qed.

Lemma this_none n w {B} (k : AgpsStateMachine -> M world B) :
  nifs w n = None -> bind (this n) k w = Undefined.
Proof. intros Hn. unfold bind, this. by rewrite Hn. Qed.

Lemma failed_refines conf t : refines conf (Spec.OpenFailed t).
Proof.
  intros w ls ms Hrep. apply (report_refines _ _ _ _ AGPS_EVENT_DENIED _ Hrep);
    [intros; by apply denied_does|apply denied_ok|by apply this_none].
Qed.

Lemma closed_refines conf t : refines conf (Spec.Closed t).
Proof.
  intros w ls ms Hrep. apply (report_refines _ _ _ _ AGPS_EVENT_RELEASED _ Hrep);
    [intros; by apply released_does|apply released_ok|by apply this_none].
Qed.

Lemma setAPN_is n apn len : setAPN n apn len =
  this_set n (with_apn (Spec.kept_apn apn len).1 (Spec.kept_apn apn len).2).
Proof. unfold setAPN, Spec.kept_apn. destruct apn; [|done]. by case_match. Qed.

Lemma success_refines conf t apn len b : refines conf (Spec.OpenSuccess t apn len b).
Proof.
  intros w ls ms Hrep. cbn [Spec.step run_op]. unfold reportAtlOpenSuccess. rewrite setAPN_is.
  destruct (Spec.kept_apn apn (wrap_u 32 len)) as [ap len']. simpl.
  set (n := getAgpsStateMachine t). unfold Spec.on.
  destruct (rep_cases _ _ _ _ n Hrep) as [[Hs ->]|(s & Hs & Hh & -> & Ha)]; simpl.
  { unfold bind, this_set. by rewrite Hs. }
  destruct (rep_set _ _ _ _ n (with_bearer b) s Hrep Hs) as (w1 & E1 & R1 & N1 & _ & _ & L1 & _);
    [done|by destruct Ha|].
  rewrite (bind_done _ _ _ _ _ E1).
  destruct (rep_set _ _ _ _ n (with_apn ap len') _ R1 N1) as (w2 & E2 & R2 & N2 & _ & _ & L2 & _);
    [done|by destruct Ha|].
  rewrite (bind_done _ _ _ _ _ E2).
  pose proof (rep_nif _ _ _ _ R2 n) as H2. rewrite N2 in H2. destruct H2 as [H2 _].
  pose proof (granted_does n _ _ _ H2 (rep_fresh _ _ _ _ R2)) as Hd.
  change (view _ (ls n)) with (Spec.with_conn ap len' b (view s (ls n))) in Hd.
  destruct (rep_does _ _ _ _ _ _ _ _ R2 N2 Hd) as (w3 & ls3 & E3 & R3 & L3);
    [by apply granted_ok, with_conn_ok|].
  destruct (Spec.granted _) as [a evs]. exists w3, ls3. split; [done|]. split; [|by rewrite L3, L2, L1].
  eapply rep_ext; [done| |exact R3]. intros n'. by rewrite !upd_upd.
Qed.

Lemma drop_in_refines w ls ms n : rep [] w ls ms ->
  ∃ w' ls', drop_in n w = Done (tt, w') ∧
    rep [] w' ls' (fun n' => if decide (n' = n) then Spec.with_subs [] <$> ms n' else ms n') ∧
    log w' = log w.
Proof.
  intros Hrep. unfold drop_in. rewrite (bind_done _ _ _ _ _ (sm_null_done n w)).
  destruct (rep_cases _ _ _ _ n Hrep) as [[Hs Hm]|(s & Hs & Hh & Hm & Ha)]; rewrite Hs.
  - exists w, ls. split; [done|]. split; [|done]. eapply rep_ext; [done| |exact Hrep].
    intros n'. case_decide; [subst; by rewrite Hm|done].
  - destruct (rep_does _ _ _ _ _ _ _ _ Hrep Hs (dropAll_does _ _ _ _ Hh)) as (w' & ls' & E & R & L).
    { destruct Ha. split; simpl; [done|by apply NoDup_nil|done|done]. }
    exists w', ls'. split; [done|]. split; [|by rewrite L, app_nil_r].
    eapply rep_ext; [done| |exact R]. intros n'. unfold Spec.upd. case_decide; [subst; by rewrite Hm|done].
Qed.

Lemma ssr_refines conf : refines conf Spec.ModemSSR.
Proof.
  intros w ls ms Hrep. cbn [Spec.step run_op]. unfold handleModemSSR.
  destruct (drop_in_refines _ _ _ AgnssNif Hrep) as (w1 & ls1 & E1 & R1 & L1).
  rewrite (bind_done _ _ _ _ _ E1).
  destruct (drop_in_refines _ _ _ InternetNif R1) as (w2 & ls2 & E2 & R2 & L2).
  exists w2, ls2. split; [done|]. split; [|by rewrite L2, L1, app_nil_r].
  eapply rep_ext; [done| |exact R2]. intros []; simpl; done.
Qed.

Lemma manager_op_refines conf o : refines conf o.
Proof.
  destruct o; auto using create_refines, request_refines, release_refines, success_refines,
    failed_refines, closed_refines, ssr_refines.
Qed.

Lemma run_ops_refines conf os w ls ms : rep [] w ls ms ->
  match Spec.run conf os ms with
  | Some (ms', evs) => ∃ w' ls', run_ops conf os w = Done (tt, w') ∧ rep [] w' ls' ms' ∧
                                 log w' = log w ++ evs
  | None => run_ops conf os w = Undefined
  end.
Proof.
  revert w ls ms; induction os as [|o os IH]; intros w ls ms Hrep; simpl.
  { exists w, ls. by rewrite app_nil_r. }
  pose proof (manager_op_refines conf o w ls ms Hrep) as Ho.
  destruct (Spec.step conf o ms) as [[ms1 evs1]|]; simpl.
  - destruct Ho as (w1 & ls1 & E1 & R1 & L1). rewrite (bind_done _ _ _ _ _ E1).
    specialize (IH _ _ _ R1). destruct (Spec.run conf os ms1) as [[ms2 evs2]|]; simpl; [|done].
    destruct IH as (w2 & ls2 & E2 & R2 & L2). exists w2, ls2. split_and!; [done|done|].
    by rewrite L2, L1, app_assoc.
  - unfold bind. by rewrite Ho.
Qed.

Lemma rep_initial : rep [] initial_world (fun _ => []) (fun _ => None).
Proof.
  split; simpl; try done; try (by intros p Hp; apply elem_of_nil in Hp).
  intros p [x Hp]. by rewrite lookup_empty in Hp.
Qed.

(** * Theorems *)

(** C3: The manager implements the abstract machines: for any sequence of
    calls, starting from a new manager, it makes exactly the calls the abstract
    machines make, in the same order, its store ends up holding exactly the
    subscribers of the machines' lists (no leak, no dangling list entry), and
    it never touches a freed subscriber; it goes wrong only where the sequence
    reports on a machine that was never created, whose pointer the report
    functions do not check. *)
Theorem agps_refines_machines conf os :
  match Spec.run conf os (fun _ => None) with
  | Some (ms, evs) => ∃ w ls, run_ops conf os initial_world = Done (tt, w) ∧ rep [] w ls ms ∧ log w = evs
  | None => run_ops conf os initial_world = Undefined
  end.
Proof. apply (run_ops_refines conf os initial_world (fun _ => []) (fun _ => None) rep_initial). Qed.

(** ** Every request is answered once *)

Definition with_handle (h : Z) (l : list AgpsSubscriber) : nat :=
  length (List.filter (fun x => mConnHandle x =? h)%Z l).

(** How many subscribers with handle [h] wait in the machines. *)
Definition waiting_in (h : Z) (o : option Spec.machine) : nat :=
  match o with Some a => with_handle h (Spec.subscribers a) | None => 0 end.
Definition waiting (h : Z) (ms : Spec.machines) : nat :=
  waiting_in h (ms AgnssNif) + waiting_in h (ms InternetNif).

(** The calls that tell the modem that the request of [h] is over: the ATL could
    not be opened, or is closed. *)
Definition is_final (h : Z) (c : callback) : bool :=
  match c with
  | AtlOpenStatus h' ok _ _ _ _ _ => (h' =? h)%Z && (ok =? 0)%Z
  | AtlCloseStatus h' _ => (h' =? h)%Z
  | FrameworkStatus _ _ _ => false
  end.
Definition finals (h : Z) (evs : list callback) : nat := length (List.filter (is_final h) evs).

(** Whether the call adds a request for [h]: repeated requests for a handle the
    machine still has are dropped. *)
Definition accepted (conf : gps_conf) (h : Z) (o : Spec.op) (ms : Spec.machines) : nat :=
  match o with
  | Spec.Request h' t m =>
    let '(t, _) := request_type conf t m in
    if (h' =? h)%Z
    then if Spec.has_handle h (ms (getAgpsStateMachine t)) then 0 else 1
    else 0
  | _ => 0
  end.

Fixpoint all_accepted (conf : gps_conf) (h : Z) (os : list Spec.op) (ms : Spec.machines) : nat :=
  match os with
  | [] => 0
  | o :: os => accepted conf h o ms +
      match Spec.step conf o ms with
      | Some (ms, _) => all_accepted conf h os ms
      | None => 0
      end
  end.

Definition is_ssr (o : Spec.op) : bool := match o with Spec.ModemSSR => true | _ => false end.

Lemma with_handle_app h l1 l2 : with_handle h (l1 ++ l2) = with_handle h l1 + with_handle h l2.
Proof. unfold with_handle. by rewrite List.filter_app, length_app. Qed.

Lemma with_handle_one h x : with_handle h [x] = if (mConnHandle x =? h)%Z then 1 else 0.
Proof. unfold with_handle. simpl. by destruct (mConnHandle x =? h)%Z. Qed.

Lemma with_handle_deactivate h h' l : with_handle h (Spec.deactivate h' l) = with_handle h l.
Proof.
  unfold with_handle. induction l as [|x l IH]; simpl; [done|].
  destruct (mConnHandle x =? h')%Z; simpl; destruct (mConnHandle x =? h)%Z; simpl; by rewrite ?IH.
Qed.

Lemma with_handle_split h l :
  with_handle h (List.filter Spec.active l) + with_handle h (List.filter mIsInactive l) = with_handle h l.
Proof.
  unfold with_handle. induction l as [|x l IH]; simpl; [done|]. unfold Spec.active at 1.
  destruct (mIsInactive x); simpl; destruct (mConnHandle x =? h)%Z; simpl; lia.
Qed.

Lemma finals_app h l1 l2 : finals h (l1 ++ l2) = finals h l1 + finals h l2.
Proof. unfold finals. by rewrite List.filter_app, length_app. Qed.

Lemma finals_map h f (l : list AgpsSubscriber) :
  (∀ x, is_final h (f x) = (mConnHandle x =? h)%Z) -> finals h (f <$> l) = with_handle h l.
Proof.
  intros Hf. unfold finals, with_handle. induction l as [|x l IH]; [done|]. simpl. rewrite Hf.
  destruct (mConnHandle x =? h)%Z; simpl; [f_equal|]; exact IH.
Qed.

Lemma finals_granted h a (l : list AgpsSubscriber) : finals h (Spec.opened a 1 <$> l) = 0.
Proof.
  unfold finals. induction l as [|x l IH]; [done|]. simpl. by rewrite andb_false_r.
Qed.

Lemma finals_framework h a r : finals h [Spec.framework a r] = 0.
Proof. done. Qed.

Lemma final_closed h x : is_final h (Spec.closed x) = (mConnHandle x =? h)%Z.
Proof. done. Qed.
Lemma final_denied h a x : is_final h (Spec.opened a 0 x) = (mConnHandle x =? h)%Z.
Proof. simpl. by rewrite andb_true_r. Qed.

Lemma waiting_upd h n a b ms : ms n = Some b ->
  waiting h (Spec.upd n a ms) + with_handle h (Spec.subscribers b) =
  waiting h ms + with_handle h (Spec.subscribers a).
Proof.
  intros Hn. unfold waiting, Spec.upd. destruct n; simpl; rewrite Hn; simpl; lia.
Qed.

Lemma has_handle_present x l :
  existsb (fun y => equals y x) l = existsb (fun y => mConnHandle y =? mConnHandle x)%Z l.
Proof. done. Qed.

(** An event that answers those it drops. *)
Definition balanced (h : Z) (a : Spec.machine) (r : Spec.machine * list callback) : Prop :=
  with_handle h (Spec.subscribers r.1) + finals h r.2 = with_handle h (Spec.subscribers a).

Lemma unsubscribe_balanced h h' a : balanced h a (Spec.unsubscribe h' a).
Proof.
  unfold balanced, Spec.unsubscribe. destruct (Spec.state a); try case_match; simpl;
    rewrite ?with_handle_deactivate; unfold finals; simpl; lia.
Qed.

Lemma granted_balanced h a : balanced h a (Spec.granted a).
Proof.
  unfold balanced, Spec.granted. destruct (Spec.state a); cbn [fst snd];
    rewrite ?finals_granted; unfold finals; simpl; lia.
Qed.

Lemma released_done_balanced h a : balanced h a (Spec.released_done a).
Proof.
  unfold balanced, Spec.released_done. rewrite <- (with_handle_split h (Spec.subscribers a)).
  pose proof (finals_map h Spec.closed (List.filter mIsInactive (Spec.subscribers a)) (final_closed h)).
  case_match; cbn [fst snd]; rewrite ?finals_app, ?finals_framework; simpl; lia.
Qed.

Lemma dropped_balanced h a f st : (∀ x, is_final h (f x) = (mConnHandle x =? h)%Z) ->
  balanced h a (Spec.with_subs [] (Spec.with_st st a), f <$> Spec.subscribers a).
Proof. intros Hf. unfold balanced. cbn [fst snd]. by rewrite finals_map. Qed.

Lemma released_balanced h a : balanced h a (Spec.released a).
Proof.
  unfold Spec.released. destruct (Spec.state a); try (unfold balanced, finals; simpl; lia).
  - apply dropped_balanced, final_closed.
  - apply released_done_balanced.
Qed.

Lemma denied_balanced h a : balanced h a (Spec.denied a).
Proof.
  unfold Spec.denied. destruct (Spec.state a); try (unfold balanced, finals; simpl; lia).
  - apply dropped_balanced, final_denied.
  - apply released_done_balanced.
Qed.

Lemma on_balanced h n f ms ms' evs : Spec.on n f ms = Some (ms', evs) ->
  (∀ a, ms n = Some a -> balanced h a (f a)) -> waiting h ms' + finals h evs = waiting h ms.
Proof.
  unfold Spec.on. destruct (ms n) as [a|] eqn:Hn; simpl; [|done]. intros E Hb.
  specialize (Hb a eq_refl). unfold balanced in Hb. destruct (f a) as [a' evs'].
  injection E as <- <-. pose proof (waiting_upd h n a' a ms Hn). simpl in *. lia.
Qed.

Lemma subscribe_counts h x a : Spec.machine_ok a ->
  with_handle h (Spec.subscribers (Spec.subscribe x a).1) + finals h (Spec.subscribe x a).2 =
  with_handle h (Spec.subscribers a) +
  (if (mConnHandle x =? h)%Z then if Spec.has_handle h (Some a) then 0 else 1 else 0).
Proof.
  intros [_ _ _ Hv].
  assert (Hadd : with_handle h (Spec.subscribers (Spec.add x a)) = with_handle h (Spec.subscribers a) +
    (if (mConnHandle x =? h)%Z then if Spec.has_handle h (Some a) then 0 else 1 else 0)).
  { unfold Spec.add. rewrite has_handle_present. cbn [Spec.has_handle].
    destruct (mConnHandle x =? h)%Z eqn:E; [pose proof (proj1 (Z.eqb_eq _ _) E) as Eh; rewrite Eh|];
      destruct (existsb _ _); cbn [Spec.subscribers Spec.with_subs]; 
      rewrite ?with_handle_app, ?with_handle_one, ?E; lia. }
  unfold Spec.subscribe. destruct (Spec.state a); try done; cbn [fst snd]; 
    rewrite <- Hadd; unfold finals; simpl; rewrite ?andb_false_r; simpl; lia.
Qed.

Lemma waiting_create h ms n t (b : bool) :
  waiting h (match ms n with
             | None => if b then Spec.upd n (Spec.fresh t) ms else ms
             | Some _ => ms
             end) = waiting h ms.
Proof.
  destruct (ms n) eqn:E; [done|]. destruct b; [|done].
  unfold waiting, Spec.upd. by destruct n; simpl; rewrite E.
Qed.

Lemma step_balanced conf h o ms ms' evs :
  (∀ n a, ms n = Some a -> Spec.machine_ok a) -> is_ssr o = false ->
  Spec.step conf o ms = Some (ms', evs) ->
  waiting h ms' + finals h evs = waiting h ms + accepted conf h o ms.
Proof.
  intros Hok Hssr. destruct o as [atlType|h' t m|h'|t ap len b|t|t|]; try done; unfold Spec.step, accepted.
  - intros [= <- <-]. rewrite !waiting_create. unfold finals. simpl. lia.
  - destruct (request_type conf t m) as [t' m']. destruct (ms (getAgpsStateMachine t')) as [a|] eqn:Hn.
    + pose proof (subscribe_counts h (Subscriber h' true false m') (Spec.with_ty t' m' a)) as Hc.
      destruct (Spec.subscribe _ _) as [a' evs']. intros [= <- <-].
      specialize (Hc (with_ty_ok t' m' a (Hok _ _ Hn))).
      pose proof (waiting_upd h _ a' a ms Hn). simpl in *. lia.
    + intros [= <- <-]. unfold finals. simpl. rewrite andb_true_r.
      destruct (h' =? h)%Z; simpl; lia.
  - repeat case_match; intros E.
    1,2: rewrite (on_balanced h _ _ _ _ _ E); [lia|]; intros; apply unsubscribe_balanced.
    injection E as <- <-. unfold finals. simpl. lia.
  - destruct (Spec.kept_apn ap (wrap_u 32 len)) as [ap' len']. intros E.
    rewrite (on_balanced h _ _ _ _ _ E); [lia|]. intros a _.
    apply (granted_balanced h (Spec.with_conn ap' len' b a)).
  - intros E. rewrite (on_balanced h _ _ _ _ _ E); [lia|]. intros; apply denied_balanced.
  - intros E. rewrite (on_balanced h _ _ _ _ _ E); [lia|]. intros; apply released_balanced.
Qed.

Lemma step_ok conf o ms ms' evs :
  (∀ n a, ms n = Some a -> Spec.machine_ok a) -> Spec.step conf o ms = Some (ms', evs) ->
  ∀ n a, ms' n = Some a -> Spec.machine_ok a.
Proof.
  intros Hok.
  assert (Hupd : ∀ n a ms, (∀ n a, ms n = Some a -> Spec.machine_ok a) -> Spec.machine_ok a ->
            ∀ n' a', Spec.upd n a ms n' = Some a' -> Spec.machine_ok a').
  { intros n a ms1 H1 Ha n' a'. unfold Spec.upd. case_decide; [by intros [= <-]|apply H1]. }
  assert (Hon : ∀ n f, (∀ a, Spec.machine_ok a -> Spec.machine_ok (f a).1) ->
            Spec.on n f ms = Some (ms', evs) -> ∀ n' a', ms' n' = Some a' -> Spec.machine_ok a').
  { intros n f Hf. unfold Spec.on. destruct (ms n) as [a|] eqn:Hn; simpl; [|done].
    specialize (Hf a (Hok _ _ Hn)). destruct (f a) as [a' e]. intros [= <- <-]. by apply Hupd. }
  assert (Hfresh : ∀ t, Spec.machine_ok (Spec.fresh t)).
  { intros t. split; simpl; [done|by apply NoDup_nil|done|done]. }
  assert (Hcreate : ∀ k t (b : bool) ms, (∀ n a, ms n = Some a -> Spec.machine_ok a) ->
    ∀ n a, match ms k with None => if b then Spec.upd k (Spec.fresh t) ms else ms | Some _ => ms end n
           = Some a -> Spec.machine_ok a).
  { intros k t b ms1 H1. destruct (ms1 k); [done|]. destruct b; [|done]. apply Hupd; auto. }
  destruct o as [atlType|h' t m|h'|t ap len b|t|t|]; unfold Spec.step.
  - intros [= <- <-]. apply Hcreate, Hcreate, Hok.
  - destruct (request_type conf t m) as [t' m']. destruct (ms (getAgpsStateMachine t')) as [a|] eqn:Hn.
    + pose proof (subscribe_ok (Subscriber h' true false m') (Spec.with_ty t' m' a)
                    (with_ty_ok t' m' a (Hok _ _ Hn)) eq_refl) as Hs.
      destruct (Spec.subscribe _ _) as [a' evs']. intros [= <- <-]. by apply Hupd.
    + by intros [= <- <-].
  - repeat case_match; [by apply Hon, unsubscribe_ok..|by intros [= <- <-]].
  - destruct (Spec.kept_apn ap (wrap_u 32 len)) as [ap' len'].
    apply Hon. intros a Ha. by apply granted_ok, with_conn_ok.
  - by apply Hon, denied_ok.
  - by apply Hon, released_ok.
  - intros [= <- <-] n a. destruct (ms n) as [b|] eqn:Hn; simpl; [|done]. intros [= <-].
    destruct (Hok _ _ Hn). split; simpl; [done|by apply NoDup_nil|done|done].
Qed.

(** C19: As long as the modem does not restart, every request for an ATL is
    answered exactly once: for each connection handle, the requests accepted
    are as many as the final answers given (the ATL could not be opened, or is
    closed) plus the subscribers still waiting in the state machines. *)
Theorem agps_answered_once conf os ms evs h :
  Forall (fun o => is_ssr o = false) os -> Spec.run conf os (fun _ => None) = Some (ms, evs) ->
  (∃ w, run_ops conf os initial_world = Done (tt, w) ∧ log w = evs) ∧
  waiting h ms + finals h evs = all_accepted conf h os (fun _ => None).
Proof.
  intros Hssr E. split.
  { pose proof (run_ops_refines conf os _ _ _ rep_initial) as Hr. rewrite E in Hr.
    destruct Hr as (w & ls & Er & _ & L). by exists w. }
  assert (H : ∀ os ms0, Forall (fun o => is_ssr o = false) os -> (∀ n a, ms0 n = Some a -> Spec.machine_ok a) ->
    ∀ ms evs, Spec.run conf os ms0 = Some (ms, evs) ->
    waiting h ms + finals h evs = waiting h ms0 + all_accepted conf h os ms0).
  { clear. induction os as [|o os IH]; intros ms0 Hssr Hok ms evs; simpl.
    - intros [= <- <-]. unfold finals. simpl. lia.
    - apply Forall_cons in Hssr as [Ho Hssr].
      destruct (Spec.step conf o ms0) as [[ms1 evs1]|] eqn:E1; simpl; [|done].
      destruct (Spec.run conf os ms1) as [[ms2 evs2]|] eqn:E2; simpl; [|done]. intros [= <- <-].
      pose proof (step_balanced conf h _ _ _ _ Hok Ho E1).
      pose proof (IH _ Hssr (step_ok _ _ _ _ _ Hok E1) _ _ E2). rewrite finals_app. lia. }
  apply (H os (fun _ => None) Hssr ltac:(done) _ _ E).
Qed.

(** ** The data connection *)

(** What the state says of the subscribers. *)
Definition state_ok (a : Spec.machine) : Prop :=
  match Spec.state a with
  | AGPS_STATE_RELEASED => Spec.subscribers a = []
  | AGPS_STATE_PENDING | AGPS_STATE_ACQUIRED => Spec.any_active a = true
  | AGPS_STATE_RELEASING => existsb mIsInactive (Spec.subscribers a) = true
  | AGPS_STATE_INVALID => False
  end.

Lemma subscribe_state_ok x a : mIsInactive x = false -> state_ok a -> state_ok (Spec.subscribe x a).1.
Proof.
  intros Hx. unfold state_ok, Spec.subscribe, Spec.add, Spec.any_active.
  destruct (Spec.state a) eqn:E; simpl; intros Ha; try done.
  - rewrite Ha. simpl. unfold Spec.active. by rewrite Hx.
  - destruct (existsb (fun y => equals y x) _); simpl; rewrite ?E; [done|]; simpl.
    by rewrite existsb_app, Ha.
  - destruct (existsb (fun y => equals y x) _); simpl; rewrite ?E; [done|]; simpl.
    by rewrite existsb_app, Ha.
  - destruct (existsb (fun y => equals y x) _); simpl; rewrite ?E; [done|]; simpl.
    by rewrite existsb_app, Ha.
Qed.

Lemma deactivate_inactive h l : existsb (fun x => mConnHandle x =? h)%Z l = true ->
  existsb mIsInactive (Spec.deactivate h l) = true.
Proof.
  induction l as [|x l IH]; simpl; [done|]. destruct (mConnHandle x =? h)%Z; simpl; [done|].
  intros Hl. by rewrite IH, orb_true_r.
Qed.

Lemma unsubscribe_state_ok h a :
  Spec.has_handle h (Some a) = true -> state_ok a -> state_ok (Spec.unsubscribe h a).1.
Proof.
  intros Hh. pose proof (deactivate_inactive h _ Hh) as Hd. unfold state_ok, Spec.unsubscribe.
  set (a' := Spec.with_subs (Spec.deactivate h (Spec.subscribers a)) a).
  assert (Hst : Spec.state a' = Spec.state a) by done.
  destruct (Spec.state a) eqn:E; intros Ha; try done; cbn [fst].
  - by rewrite E.
  - destruct (Spec.any_active a') eqn:Ea; cbn [fst]; [by rewrite Hst|done].
  - destruct (Spec.any_active a') eqn:Ea; cbn [fst]; [by rewrite Hst|done].
  - by rewrite Hst.
Qed.

Lemma granted_state_ok a : state_ok a -> state_ok (Spec.granted a).1.
Proof. unfold state_ok, Spec.granted. destruct (Spec.state a) eqn:E; simpl; rewrite ?E; done. Qed.

Lemma released_done_state_ok a : state_ok (Spec.released_done a).1.
Proof.
  unfold state_ok, Spec.released_done. destruct (Spec.any_active _) eqn:E; simpl; [done|].
  by apply any_active_nil.
Qed.

Lemma released_state_ok a : state_ok a -> state_ok (Spec.released a).1.
Proof.
  intros Ha. unfold Spec.released. destruct (Spec.state a) eqn:E; try done. apply released_done_state_ok.
Qed.

Lemma denied_state_ok a : state_ok a -> state_ok (Spec.denied a).1.
Proof.
  intros Ha. unfold Spec.denied. destruct (Spec.state a) eqn:E; try done. apply released_done_state_ok.
Qed.

Lemma step_state_ok conf o ms ms' evs :
  is_ssr o = false -> (∀ n a, ms n = Some a -> state_ok a) -> Spec.step conf o ms = Some (ms', evs) ->
  ∀ n a, ms' n = Some a -> state_ok a.
Proof.
  intros Hssr Hok.
  assert (Hupd : ∀ n a ms, (∀ n a, ms n = Some a -> state_ok a) -> state_ok a ->
            ∀ n' a', Spec.upd n a ms n' = Some a' -> state_ok a').
  { intros n a ms1 H1 Ha n' a'. unfold Spec.upd. case_decide; [by intros [= <-]|apply H1]. }
  assert (Hon : ∀ n f, (∀ a, ms n = Some a -> state_ok a -> state_ok (f a).1) ->
            Spec.on n f ms = Some (ms', evs) -> ∀ n' a', ms' n' = Some a' -> state_ok a').
  { intros n f Hf. unfold Spec.on. destruct (ms n) as [a|] eqn:Hn; simpl; [|done].
    specialize (Hf a eq_refl (Hok _ _ Hn)). destruct (f a) as [a' e]. intros [= <- <-]. by apply Hupd. }
  assert (Hcreate : ∀ k t (b : bool) ms, (∀ n a, ms n = Some a -> state_ok a) ->
    ∀ n a, match ms k with None => if b then Spec.upd k (Spec.fresh t) ms else ms | Some _ => ms end n
           = Some a -> state_ok a).
  { intros k t b ms1 H1. destruct (ms1 k); [done|]. destruct b; [|done]. by apply Hupd. }
  destruct o as [atlType|h' t m|h'|t ap len b|t|t|]; unfold Spec.step; try done.
  - intros [= <- <-]. apply Hcreate, Hcreate, Hok.
  - destruct (request_type conf t m) as [t' m']. destruct (ms (getAgpsStateMachine t')) as [a|] eqn:Hn.
    + pose proof (subscribe_state_ok (Subscriber h' true false m') (Spec.with_ty t' m' a)
                    eq_refl (Hok _ _ Hn)) as Hs.
      destruct (Spec.subscribe _ _) as [a' evs']. intros [= <- <-]. by apply Hupd.
    + by intros [= <- <-].
  - repeat case_match; [apply Hon..|by intros [= <- <-]];
      intros a Ha; apply unsubscribe_state_ok; by rewrite <- Ha.
  - destruct (Spec.kept_apn ap (wrap_u 32 len)) as [ap' len'].
    apply Hon. intros a _ Ha. by apply granted_state_ok.
  - apply Hon. intros a _. apply denied_state_ok.
  - apply Hon. intros a _. apply released_state_ok.
Qed.

(** The machine has asked the framework for a connection it has not given up. *)
Definition connected (o : option Spec.machine) : nat :=
  match o with
  | Some a => match Spec.state a with AGPS_STATE_PENDING | AGPS_STATE_ACQUIRED => 1 | _ => 0 end
  | None => 0
  end.
Definition connections (ms : Spec.machines) : nat :=
  connected (ms AgnssNif) + connected (ms InternetNif).

Definition is_request (r : bool) (c : callback) : bool :=
  match c with FrameworkStatus r' _ _ => eqb r' r | _ => false end.
Definition requests (r : bool) (evs : list callback) : nat := length (List.filter (is_request r) evs).

(** Connections the framework itself reports as failed or closed. *)
Definition ended (o : Spec.op) (ms ms' : Spec.machines) : nat :=
  match o with
  | Spec.OpenFailed _ | Spec.Closed _ => connections ms - connections ms'
  | _ => 0
  end.

Fixpoint all_ended (conf : gps_conf) (os : list Spec.op) (ms : Spec.machines) : nat :=
  match os with
  | [] => 0
  | o :: os => match Spec.step conf o ms with
               | Some (ms', _) => ended o ms ms' + all_ended conf os ms'
               | None => 0
               end
  end.

Lemma requests_app r l1 l2 : requests r (l1 ++ l2) = requests r l1 + requests r l2.
Proof. unfold requests. by rewrite List.filter_app, length_app. Qed.

Lemma requests_none r (f : AgpsSubscriber -> callback) l :
  (∀ x, is_request r (f x) = false) -> requests r (f <$> l) = 0.
Proof.
  intros Hf. unfold requests. induction l as [|x l IH]; [done|]. simpl. rewrite Hf. exact IH.
Qed.

Lemma connections_upd n a b ms : ms n = Some b ->
  connections (Spec.upd n a ms) + connected (Some b) = connections ms + connected (Some a).
Proof. intros Hn. unfold connections, Spec.upd. destruct n; simpl; rewrite Hn; simpl; lia. Qed.

(** What an event does to the connection: asked for, given up, or ended. *)
Definition accounted (e : nat) (a : Spec.machine) (r : Spec.machine * list callback) : Prop :=
  connected (Some a) + requests true r.2 = connected (Some r.1) + requests false r.2 + e.

Lemma add_state x a : Spec.state (Spec.add x a) = Spec.state a.
Proof. unfold Spec.add. by case_match. Qed.

Lemma subscribe_accounted x a : accounted 0 a (Spec.subscribe x a).
Proof.
  unfold accounted, Spec.subscribe, connected. destruct (Spec.state a) eqn:E; cbn [fst snd];
    rewrite ?add_state, ?E; unfold requests; simpl; lia.
Qed.

Lemma unsubscribe_accounted h a : accounted 0 a (Spec.unsubscribe h a).
Proof.
  unfold accounted, Spec.unsubscribe.
  set (a' := Spec.with_subs (Spec.deactivate h (Spec.subscribers a)) a).
  assert (Hst : Spec.state a' = Spec.state a) by done. unfold connected.
  destruct (Spec.state a) eqn:E; try destruct (Spec.any_active a'); cbn [fst snd];
    rewrite ?Hst, ?E; unfold requests; simpl; lia.
Qed.

Lemma granted_accounted a : accounted 0 a (Spec.granted a).
Proof.
  unfold accounted, Spec.granted, connected.
  destruct (Spec.state a) eqn:E; cbn [fst snd Spec.state Spec.with_st];
    rewrite ?E, ?(requests_none _ (Spec.opened a 1)) by done; unfold requests; simpl; lia.
Qed.

Lemma released_done_accounted a : connected (Some a) = 0 ->
  accounted 0 a (Spec.released_done a) ∧ connected (Some a) <= connected (Some (Spec.released_done a).1).
Proof.
  unfold accounted, Spec.released_done. intros ->. set (a' := Spec.with_subs _ a).
  destruct (Spec.any_active a'); cbn [fst snd]; split; try lia;
    rewrite ?requests_app, !(requests_none _ Spec.closed) by done; unfold requests; simpl; lia.
Qed.

Lemma released_accounted a :
  accounted (connected (Some a) - connected (Some (Spec.released a).1)) a (Spec.released a).
Proof.
  assert (Hsame : accounted (connected (Some a) - connected (Some a)) a (a, [])).
  { unfold accounted, requests. simpl. lia. }
  unfold Spec.released. destruct (Spec.state a) eqn:E; try exact Hsame.
  - unfold accounted, connected. cbn [fst snd Spec.state Spec.with_subs Spec.with_st]. rewrite E.
    rewrite !(requests_none _ Spec.closed) by done. lia.
  - destruct (released_done_accounted a) as [Ha Hle]; [unfold connected; by rewrite E|].
    replace (_ - _) with 0 by lia. exact Ha.
Qed.

Lemma denied_accounted a :
  accounted (connected (Some a) - connected (Some (Spec.denied a).1)) a (Spec.denied a).
Proof.
  assert (Hsame : accounted (connected (Some a) - connected (Some a)) a (a, [])).
  { unfold accounted, requests. simpl. lia. }
  unfold Spec.denied. destruct (Spec.state a) eqn:E; try exact Hsame.
  - unfold accounted, connected. cbn [fst snd Spec.state Spec.with_subs Spec.with_st]. rewrite E.
    rewrite !(requests_none _ (Spec.opened a 0)) by done. lia.
  - destruct (released_done_accounted a) as [Ha Hle]; [unfold connected; by rewrite E|].
    replace (_ - _) with 0 by lia. exact Ha.
Qed.

Lemma on_accounted n f ms ms' evs e : Spec.on n f ms = Some (ms', evs) ->
  (∀ a, ms n = Some a -> accounted (e a (f a).1) a (f a)) ->
  ∃ a, ms n = Some a ∧ connections ms' + connected (Some a) = connections ms + connected (Some (f a).1) ∧
    connections ms + requests true evs = connections ms' + requests false evs + e a (f a).1.
Proof.
  unfold Spec.on. destruct (ms n) as [a|] eqn:Hn; [|done]. cbn [mbind option_bind]. intros E Ha.
  specialize (Ha a eq_refl). unfold accounted in Ha. destruct (f a) as [a' evs'] eqn:Ef.
  injection E as <- <-. exists a. rewrite Ef. pose proof (connections_upd n a' a ms Hn). cbn [fst snd] in *.
  split_and!; [done|lia|lia].
Qed.

Lemma connections_create ms n t (b : bool) :
  connections (match ms n with
               | None => if b then Spec.upd n (Spec.fresh t) ms else ms
               | Some _ => ms
               end) = connections ms.
Proof.
  destruct (ms n) eqn:E; [done|]. destruct b; [|done].
  unfold connections, Spec.upd. by destruct n; simpl; rewrite E.
Qed.

Lemma step_accounted conf o ms ms' evs :
  Spec.step conf o ms = Some (ms', evs) ->
  connections ms + requests true evs = connections ms' + requests false evs + ended o ms ms'.
Proof.
  destruct o as [atlType|h' t m|h'|t ap len b|t|t|]; unfold Spec.step, ended.
  - intros [= <- <-]. rewrite !connections_create. unfold requests. simpl. lia.
  - destruct (request_type conf t m) as [t' m']. destruct (ms (getAgpsStateMachine t')) as [a|] eqn:Hn.
    + pose proof (subscribe_accounted (Subscriber h' true false m') (Spec.with_ty t' m' a)) as Hs.
      unfold accounted in Hs. destruct (Spec.subscribe _ _) as [a' evs']. intros [= <- <-].
      pose proof (connections_upd _ a' a ms Hn). simpl in *. lia.
    + intros [= <- <-]. unfold requests. simpl. lia.
  - repeat case_match; intros E.
    1,2: destruct (on_accounted _ _ _ _ _ (fun _ _ => 0) E) as (a & _ & _ & H');
         [intros; apply unsubscribe_accounted|lia].
    injection E as <- <-. unfold requests. simpl. lia.
  - destruct (Spec.kept_apn ap (wrap_u 32 len)) as [ap' len']. intros E.
    destruct (on_accounted _ _ _ _ _ (fun _ _ => 0) E) as (a & _ & _ & H'); [|lia].
    intros a _. apply (granted_accounted (Spec.with_conn ap' len' b a)).
  - intros E. destruct (on_accounted _ _ _ _ _ (fun a a' => connected (Some a) - connected (Some a')) E)
      as (a & _ & Hc & H'); [intros; apply denied_accounted|lia].
  - intros E. destruct (on_accounted _ _ _ _ _ (fun a a' => connected (Some a) - connected (Some a')) E)
      as (a & _ & Hc & H'); [intros; apply released_accounted|lia].
  - intros [= <- <-]. unfold connections, requests. simpl.
    destruct (ms AgnssNif), (ms InternetNif); simpl; lia.
Qed.

(** C25: The framework is asked for a data connection, and told to release it,
    consistently: in any run the requests made are as many as the releases,
    the connections the framework reported failed or closed, and the
    connections pending or acquired at the end, together; at no time does a
    machine have two.  As long as the modem does not restart, a connection is
    pending or acquired only while a subscriber actively wants it, and a
    machine in state RELEASED has no subscriber. *)
Theorem agps_connection_accounted conf os ms evs :
  Spec.run conf os (fun _ => None) = Some (ms, evs) ->
  (∃ w, run_ops conf os initial_world = Done (tt, w) ∧ log w = evs) ∧
  requests true evs = requests false evs + all_ended conf os (fun _ => None) + connections ms ∧
  (Forall (fun o => is_ssr o = false) os -> ∀ n a, ms n = Some a -> state_ok a).
Proof.
  intros E. split.
  { pose proof (run_ops_refines conf os _ _ _ rep_initial) as Hr. rewrite E in Hr.
    destruct Hr as (w & ls & Er & _ & L). by exists w. }
  assert (H : ∀ os ms0 ms evs, Spec.run conf os ms0 = Some (ms, evs) ->
    connections ms0 + requests true evs = requests false evs + all_ended conf os ms0 + connections ms ∧
    (Forall (fun o => is_ssr o = false) os -> (∀ n a, ms0 n = Some a -> state_ok a) ->
     ∀ n a, ms n = Some a -> state_ok a)).
  { clear. induction os as [|o os IH]; intros ms0 ms evs; simpl.
    - intros [= <- <-]. unfold requests. simpl. split; [lia|done].
    - destruct (Spec.step conf o ms0) as [[ms1 evs1]|] eqn:E1; simpl; [|done].
      destruct (Spec.run conf os ms1) as [[ms2 evs2]|] eqn:E2; simpl; [|done]. intros [= <- <-].
      pose proof (step_accounted conf _ _ _ _ E1). destruct (IH _ _ _ E2) as [Hc Hs].
      rewrite !requests_app. split; [lia|]. intros [Ho Hos]%Forall_cons Hok.
      apply Hs; [done|]. by eapply step_state_ok. }
  destruct (H os _ _ _ E) as [Hc Hs]. split; [exact Hc|]. intros Hssr. by apply Hs.
Qed.

(** * Behaviour worth knowing *)

Definition demo_conf : gps_conf := Conf 7 1.

(** The report functions do not check that the machine exists. *)
Lemma report_without_machine : run_ops demo_conf [Spec.OpenFailed LOC_AGPS_TYPE_SUPL] initial_world = Undefined.
Proof. reflexivity. Qed.

(** A handle that is released and requested again before the connection is
    closed stays inactive: the second request is dropped, and its only answer
    is that the connection is closed. *)
Lemma rerequest_is_dropped :
  match Spec.run demo_conf [Spec.Create 4; Spec.Request 1 3 16; Spec.Request 2 3 16; Spec.Release 1;
                            Spec.Request 1 3 16; Spec.OpenSuccess 3 None 0 1; Spec.Release 2;
                            Spec.Closed 3] (fun _ => None) with
  | Some (_, evs) => evs = [FrameworkStatus true 3 16; AtlOpenStatus 2 1 None 0 1 3 16;
                            FrameworkStatus false 3 16; AtlCloseStatus 1 1; AtlCloseStatus 2 1]
  | None => False
  end.
Proof. vm_compute. reflexivity. Qed.

(** [deleteSubscriber], given a subscriber that is itself in the list, goes on
    comparing with it after having deleted it. *)
Lemma delete_listed_subscriber w s p x q y :
  nifs w AgnssNif = Some s -> mSubscriberList s = [p; q] -> p ≠ q ->
  subs w !! p = Some x -> subs w !! q = Some y ->
  deleteSubscriber AgnssNif (Some p) w = Undefined.
Proof.
  intros Hn Hs Hpq Hp Hq. unfold deleteSubscriber.
  rewrite (bind_done _ _ _ _ _ (this_done _ _ _ Hn)), Hs. unfold bind at 1. cbn [delete_loop].
  rewrite (bind_done _ _ _ _ _ (read_sub_done _ _ _ Hp)), (bind_done _ _ _ _ _ (read_sub_done _ _ _ Hp)).
  unfold equals. rewrite Z.eqb_refl, (bind_done _ _ _ _ _ (free_sub_done _ _ _ Hp)).
  erewrite bind_done by (eapply read_sub_done; simpl; by rewrite lookup_delete_ne).
  unfold bind, read_sub. simpl. by rewrite lookup_delete_eq.
Qed.

(** * Witnesses *)

Definition demo_ops : list Spec.op :=
  [Spec.Create 7; Spec.Request 10 1 16; Spec.Request 11 1 16; Spec.OpenSuccess 1 (Some [105%Z]) 1 1;
   Spec.Release 10; Spec.Release 11; Spec.Closed 1; Spec.Request 12 3 16].

Lemma agps_answered_once_witness :
  ∃ ms evs, Spec.run demo_conf demo_ops (fun _ => None) = Some (ms, evs) ∧
    waiting 10 ms + finals 10 evs = 1 ∧ finals 10 evs = 1.
Proof.
  destruct (Spec.run demo_conf demo_ops (fun _ => None)) as [[ms evs]|] eqn:E; [|by vm_compute in E].
  exists ms, evs. split; [reflexivity|].
  destruct (agps_answered_once demo_conf demo_ops ms evs 10) as [_ Hc]; [by repeat constructor|exact E|].
  split; [rewrite Hc; by vm_compute|]. vm_compute in E. injection E as <- <-. by vm_compute.
Defined.

Lemma agps_connection_accounted_witness :
  ∃ ms evs, Spec.run demo_conf demo_ops (fun _ => None) = Some (ms, evs) ∧
    requests true evs = requests false evs + all_ended demo_conf demo_ops (fun _ => None) + connections ms ∧
    requests true evs = 2 ∧ ∀ n a, ms n = Some a -> state_ok a.
Proof.
  destruct (Spec.run demo_conf demo_ops (fun _ => None)) as [[ms evs]|] eqn:E; [|by vm_compute in E].
  exists ms, evs. split; [reflexivity|].
  destruct (agps_connection_accounted demo_conf demo_ops ms evs E) as (_ & Hc & Hs).
  split; [exact Hc|]. split; [|apply Hs; by repeat constructor].
  vm_compute in E. injection E as <- <-. by vm_compute.
Defined.
