(* ===== verification/QmiIdl.v ===== *)
(** The vocabulary of the QMI tables of loc_api_v02: the C structs that
    location_service_v02.h declares, laid out by the C rules, and the byte
    tables of location_service_v02.c, read entry by entry.  It holds no table:
    LocServiceStructs.v and LocServiceTables.v do.

    The macros QMI_IDL_... and the interpreter of the tables come from the QMI
    library (qmi_idl_lib_internal.h), which is not part of the repository.  The
    macros are kept as constructors with their source names; what is proved of
    a table is what it names - struct, member, bound, type - and never how the
    library packs those names into bytes. *)

From stdpp Require Import strings list gmap.
From S2P Require Import Prelude.

Local Open Scope Z_scope.

(** * C structs *)

(** An array bound as the header writes it. *)
Inductive cexpr :=
  | Lit (n : Z)
  | Macro (name : string)
  | MacroPlus (name : string) (n : Z).

Inductive ctype :=
  | uint8_t | int8_t | char | uint16_t | int16_t | uint32_t | int32_t | float
  | uint64_t | int64_t | double
  | Named (name : string).
#[export] Instance ctype_eq_dec : EqDecision ctype.
Proof. solve_decision. Defined.

(** A member: its type, its name and, for an array, its bound. *)
Record member := Member { m_type : ctype; m_name : string; m_array : option cexpr }.

(** What a header declares. *)
Record header := Header {
  macros : list (string * Z);
  typedefs : list (string * ctype);
  enums : list string;
  structs : list (string * list member);
}.

Fixpoint assoc {A} (k : string) (l : list (string * A)) : option A :=
  match l with
  | [] => None
  | (k', a) :: l => if String.eqb k k' then Some a else assoc k l
  end.

(** ** Layout *)

(** Where a member of a struct lies: [p_size] bytes at [p_offset], once or,
    for an array, [n] times. *)
Record placed := Placed {
  p_name : string; p_type : ctype; p_array : option Z; p_offset : Z; p_size : Z; p_align : Z
}.
Record layout := Layout { l_members : list placed; l_size : Z; l_align : Z }.

Definition p_bytes (p : placed) : Z := p_size p * default 1 (p_array p).
Definition align_up (o a : Z) : Z := (o + a - 1) / a * a.

Section header.
Context (h : header).

Definition eval (e : cexpr) : option Z :=
  match e with
  | Lit n => Some n
  | Macro m => assoc m (macros h)
  | MacroPlus m n => (z ← assoc m (macros h); Some (z + n))
  end.

(** Size and alignment of a type; an enum is an int, and [env] holds the
    structs declared before. *)
Definition basic_size (t : ctype) : option Z :=
  match t with
  | uint8_t | int8_t | char => Some 1
  | uint16_t | int16_t => Some 2
  | uint32_t | int32_t | float => Some 4
  | uint64_t | int64_t | double => Some 8
  | Named _ => None
  end.

Definition type_layout (env : list (string * layout)) (t : ctype) : option (Z * Z) :=
  match t with
  | Named s =>
    match assoc s (typedefs h) with
    | Some t' => (z ← basic_size t'; Some (z, z))
    | None =>
      if existsb (String.eqb s) (enums h) then Some (4, 4)
      else (l ← assoc s env; Some (l_size l, l_align l))
    end
  | _ => (z ← basic_size t; Some (z, z))
  end.

(** Places the members from offset [o] on; gives them with the end offset and
    the largest alignment. *)
Fixpoint place (env : list (string * layout)) (ms : list member) (o a : Z) :
    option (list placed * Z * Z) :=
  match ms with
  | [] => Some ([], o, a)
  | m :: ms =>
    '(sz, al) ← type_layout env (m_type m);
    n ← match m_array m with None => Some None | Some e => Some <$> eval e end;
    let p := Placed (m_name m) (m_type m) n (align_up o al) sz al in
    '(ps, o', a') ← place env ms (p_offset p + p_bytes p) (Z.max a al);
    Some (p :: ps, o', a')
  end.

Definition struct_layout (env : list (string * layout)) (ms : list member) : option layout :=
  '(ps, o, a) ← place env ms 0 1; Some (Layout ps (align_up o a) a).

(** Lays out the structs in the order of the header; [env] starts with the
    structs of the headers it includes. *)
Fixpoint struct_layouts (env : list (string * layout)) (ds : list (string * list member)) :
    option (list (string * layout)) :=
  match ds with
  | [] => Some env
  | (s, ms) :: ds => (l ← struct_layout env ms; struct_layouts ((s, l) :: env) ds)
  end.

End header.

(** * Entries of a table *)

Inductive kind :=
  | QMI_IDL_GENERIC_1_BYTE | QMI_IDL_GENERIC_2_BYTE | QMI_IDL_GENERIC_4_BYTE
  | QMI_IDL_GENERIC_8_BYTE | QMI_IDL_STRING | QMI_IDL_AGGREGATE.
#[export] Instance kind_eq_dec : EqDecision kind.
Proof. solve_decision. Defined.

Inductive flag :=
  | IS_ARRAY | IS_VARIABLE_LEN | SZ_IS_16 | OFFSET_IS_16.
#[export] Instance flag_eq_dec : EqDecision flag.
Proof. solve_decision. Defined.

(** QMI_IDL_OFFSET8(struct, member) and its 16-bit forms. *)
Inductive offset_kind := OFFSET8 | OFFSET16ARRAY | OFFSET16RELATIVE.
#[export] Instance offset_kind_eq_dec : EqDecision offset_kind.
Proof. solve_decision. Defined.
Record offset := Offset { o_kind : offset_kind; o_struct : string; o_member : string }.

(** One element: flags and type, the member it describes, the bound of an
    array, the distance to the member that holds the length, and for an
    aggregate QMI_IDL_TYPE88(table, index). *)
Record elem := Elem {
  e_flags : list flag; e_kind : kind; e_offset : offset;
  e_bound : option cexpr; e_len : option (offset * offset); e_type : option (Z * Z)
}.

(** One TLV of a message: QMI_IDL_TLV_FLAGS_LAST_TLV, the distance to the
    validity member of an optional one, its id and its element. *)
Record tlv := Tlv {
  t_last : bool; t_optional : option (offset * offset); t_id : Z; t_elem : elem
}.

(** The tables of a service.  A type or message is named by its struct and its
    byte table ([None] for the null pointer of a message without payload); a
    service message by its id, QMI_IDL_TYPE16(table, index) and maximum size. *)
Record service := Service {
  type_data : list (string * list elem);
  message_data : list (string * list tlv);
  type_table : list (string * string);
  message_table : list (string * option string);
  command_messages : list (string * (Z * Z) * Z);
  response_messages : list (string * (Z * Z) * Z);
  indication_messages : list (string * (Z * Z) * Z);
  max_message_length : Z;
}.

Definition service_messages (s : service) : list (string * (Z * Z) * Z) :=
  command_messages s ++ response_messages s ++ indication_messages s.

(** * A table describes its struct *)

Fixpoint find_member (ps : list placed) (f : string) : option placed :=
  match ps with
  | [] => None
  | p :: ps => if String.eqb f (p_name p) then Some p else find_member ps f
  end.

Definition item_bytes (k : kind) : option Z :=
  match k with
  | QMI_IDL_GENERIC_1_BYTE | QMI_IDL_STRING => Some 1
  | QMI_IDL_GENERIC_2_BYTE => Some 2
  | QMI_IDL_GENERIC_4_BYTE => Some 4
  | QMI_IDL_GENERIC_8_BYTE => Some 8
  | QMI_IDL_AGGREGATE => None
  end.

Definition variable (e : elem) : Prop := IS_VARIABLE_LEN ∈ e_flags e ∧ e_kind e ≠ QMI_IDL_STRING.

Section describes.
Context (h : header) (types : list (string * string)).

(** The offset is written in as many bits as it needs. *)
Definition offset_fits (e : elem) (p : placed) : Prop :=
  match o_kind (e_offset e) with
  | OFFSET8 => OFFSET_IS_16 ∉ e_flags e ∧ 0 ≤ p_offset p ≤ 255
  | OFFSET16ARRAY => OFFSET_IS_16 ∈ e_flags e ∧ 0 ≤ p_offset p ≤ 65535
  | OFFSET16RELATIVE => False
  end.

(** An item has the size of the member, or is the aggregate of its type. *)
Definition item_fits (e : elem) (p : placed) : Prop :=
  match e_kind e, e_type e with
  | QMI_IDL_AGGREGATE, Some (t, i) =>
    if decide (t = 0) then
      match types !! Z.to_nat i with
      | Some (s, _) => 0 ≤ i ∧ p_type p = Named s
      | None => False
      end
    else t = 1 ∧ i = 0 ∧ p_type p = Named "qmi_response_type_v01"
  | QMI_IDL_AGGREGATE, None => False
  | QMI_IDL_STRING, t => t = None ∧ p_type p = char
  | k, t => t = None ∧ item_bytes k = Some (p_size p)
  end.

(** The table's bound is the bound of the array, a string leaving room for its
    terminator; QMI_IDL_FLAGS_SZ_IS_16 is set exactly when eight bits do not
    hold it. *)
Definition bound_fits (e : elem) (p : placed) : Prop :=
  match e_bound e, p_array p with
  | None, None => IS_ARRAY ∉ e_flags e ∧ SZ_IS_16 ∉ e_flags e ∧ e_kind e ≠ QMI_IDL_STRING
  | Some b, Some n =>
    IS_ARRAY ∈ e_flags e ∧
    match eval h b with
    | Some m =>
      n = (if decide (e_kind e = QMI_IDL_STRING) then m + 1 else m) ∧
      0 < m ≤ 65535 ∧ (SZ_IS_16 ∈ e_flags e <-> 255 < m)
    | None => False
    end
  | _, _ => False
  end.

(** [from] and [to] are members [f] and [g] of the struct [own], [g] of type
    [ty] and a few bytes before [f], so that the distance fits beside the
    flags of its byte. *)
Definition companion (own : string) (ps : list placed) (ty : ctype) (f g : string)
    (d : offset * offset) : Prop :=
  o_struct d.1 = own ∧ o_struct d.2 = own ∧ o_member d.1 = f ∧ o_member d.2 = g ∧
  o_kind d.1 = o_kind d.2 ∧ o_kind d.1 ≠ OFFSET16ARRAY ∧
  match find_member ps f, find_member ps g with
  | Some p, Some q =>
    p_type q = ty ∧ p_array q = None ∧ p_offset q < p_offset p < p_offset q + 16
  | _, _ => False
  end.

(** A variable-length array has its length in the uint32_t member <name>_len. *)
Definition length_fits (own : string) (ps : list placed) (e : elem) : Prop :=
  match e_len e with
  | Some d =>
    variable e ∧
    companion own ps uint32_t (o_member (e_offset e)) (o_member (e_offset e) +:+ "_len") d
  | None => ¬ variable e
  end.

Definition elem_describes (own : string) (ps : list placed) (e : elem) : Prop :=
  o_struct (e_offset e) = own ∧
  match find_member ps (o_member (e_offset e)) with
  | Some p => offset_fits e p ∧ item_fits e p ∧ bound_fits e p ∧ length_fits own ps e
  | None => False
  end.

(** The members an element or TLV speaks of, in the order of the struct. *)
Definition elem_members (e : elem) : list string :=
  let f := o_member (e_offset e) in
  match e_len e with Some d => [o_member d.2; f] | None => [f] end.
Definition tlv_members (t : tlv) : list string :=
  match t_optional t with
  | Some d => o_member d.2 :: elem_members (t_elem t)
  | None => elem_members (t_elem t)
  end.

(** An optional TLV has its validity in the uint8_t member <name>_valid, which
    lies before it (and before its length). *)
Definition tlv_describes (own : string) (ps : list placed) (t : tlv) : Prop :=
  elem_describes own ps (t_elem t) ∧ 0 < t_id t < 256 ∧
  match t_optional t with
  | Some d =>
    16 ≤ t_id t ∧
    companion own ps uint8_t (o_member (e_offset (t_elem t)))
      (o_member (e_offset (t_elem t)) +:+ "_valid") d
  | None => t_id t < 16
  end.

(** Only the last TLV is flagged as the last. *)
Fixpoint last_flagged (ts : list tlv) : Prop :=
  match ts with
  | [] => False
  | [t] => t_last t = true
  | t :: ts => t_last t = false ∧ last_flagged ts
  end.

Definition data_describes (own : string) (ps : list placed) (es : list elem) : Prop :=
  Forall (elem_describes own ps) es ∧ concat (elem_members <$> es) = p_name <$> ps.

Definition message_describes (own : string) (ps : list placed) (ts : list tlv) : Prop :=
  Forall (tlv_describes own ps) ts ∧ concat (tlv_members <$> ts) = p_name <$> ps ∧
  last_flagged ts ∧ NoDup (t_id <$> ts).

#[export] Instance variable_dec e : Decision (variable e).
Proof. unfold variable. apply _. Defined.
#[export] Instance offset_fits_dec e p : Decision (offset_fits e p).
Proof. unfold offset_fits. destruct (o_kind _); apply _. Defined.
#[export] Instance item_fits_dec e p : Decision (item_fits e p).
Proof. unfold item_fits. destruct (e_kind e); try apply _.
  destruct (e_type e) as [[t i]|]; [|apply _]. destruct (decide (t = 0)); [|apply _].
  destruct (types !! _) as [[s d]|]; apply _.
Defined.
#[export] Instance bound_fits_dec e p : Decision (bound_fits e p).
Proof. unfold bound_fits. destruct (e_bound e), (p_array p); try apply _.
  destruct (eval h _); apply _.
Defined.
#[export] Instance companion_dec own ps ty f g d : Decision (companion own ps ty f g d).
Proof. unfold companion. destruct (find_member ps f), (find_member ps g); apply _. Defined.
#[export] Instance length_fits_dec own ps e : Decision (length_fits own ps e).
Proof. unfold length_fits. destruct (e_len e); apply _. Defined.
#[export] Instance elem_describes_dec own ps e : Decision (elem_describes own ps e).
Proof. unfold elem_describes. destruct (find_member ps _); apply _. Defined.
#[export] Instance tlv_describes_dec own ps t : Decision (tlv_describes own ps t).
Proof. unfold tlv_describes. destruct (t_optional t); apply _. Defined.
#[export] Instance last_flagged_dec ts : Decision (last_flagged ts).
Proof. induction ts as [|t [|t' ts] IH]; simpl; apply _. Defined.
#[export] Instance data_describes_dec own ps es : Decision (data_describes own ps es).
Proof. apply _. Defined.
#[export] Instance message_describes_dec own ps ts : Decision (message_describes own ps ts).
Proof. apply _. Defined.

End describes.

(** * Sizes on the wire *)

(** What the QMI encoding adds: the header of a TLV, the length before a
    variable-length array (in one or two bytes), and the size of the encoded
    qmi_response_type_v01 of the common tables. *)
Record wire := Wire { tlv_header : Z; len8 : Z; len16 : Z; response_bytes : Z }.

Definition wire_ok (w : wire) : Prop :=
  0 ≤ tlv_header w ∧ 0 ≤ len8 w ∧ 0 ≤ len16 w ∧ 0 ≤ response_bytes w.

Definition sum (l : list Z) : Z := foldr Z.add 0 l.

(** Some choice of a size for each part of [l]. *)
Definition total {A} (P : A -> Z -> Prop) (l : list A) (n : Z) : Prop :=
  ∃ ns, Forall2 P l ns ∧ n = sum ns.
Definition total_max {A} (f : A -> option Z) (l : list A) : option Z := sum <$> mapM f l.

Definition maximum (P : Z -> Prop) (z : Z) : Prop := P z ∧ ∀ n, P n -> 0 ≤ n ≤ z.

Section sizes.
Context (h : header) (svc : service) (w : wire).

Definition type_elems (i : Z) : option (list elem) :=
  '(_, d) ← type_table svc !! Z.to_nat i; assoc d (type_data svc).

(** An item, given the sizes an aggregate of each index can have. *)
Definition item_size (agg : Z -> Z -> Prop) (e : elem) (n : Z) : Prop :=
  match e_kind e, e_type e with
  | QMI_IDL_AGGREGATE, Some (t, i) => if decide (t = 0) then agg i n else n = response_bytes w
  | QMI_IDL_AGGREGATE, None => False
  | k, _ => item_bytes k = Some n
  end.
Definition item_max (agg : Z -> option Z) (e : elem) : option Z :=
  match e_kind e, e_type e with
  | QMI_IDL_AGGREGATE, Some (t, i) => if decide (t = 0) then agg i else Some (response_bytes w)
  | QMI_IDL_AGGREGATE, None => None
  | k, _ => item_bytes k
  end.

(** How many items: one, all of an array, or up to its bound. *)
Definition count_ok (e : elem) (k : Z) : Prop :=
  match e_bound e with
  | None => k = 1
  | Some b =>
    match eval h b with
    | Some m => if decide (IS_VARIABLE_LEN ∈ e_flags e) then 0 ≤ k ≤ m else 0 ≤ k ∧ k = m
    | None => False
    end
  end.
Definition count_max (e : elem) : option Z :=
  match e_bound e with
  | None => Some 1
  | Some b => m ← eval h b; if decide (0 ≤ m) then Some m else None
  end.

(** The length before a variable-length array; a string that is a whole TLV
    has none. *)
Definition prefix (top : bool) (e : elem) : Z :=
  if decide (IS_VARIABLE_LEN ∈ e_flags e) then
    if decide (e_kind e = QMI_IDL_STRING ∧ top = true) then 0
    else if decide (SZ_IS_16 ∈ e_flags e) then len16 w else len8 w
  else 0.

Definition elem_size (agg : Z -> Z -> Prop) (top : bool) (e : elem) (n : Z) : Prop :=
  ∃ ns, count_ok e (Z.of_nat (length ns)) ∧ Forall (item_size agg e) ns ∧ n = prefix top e + sum ns.
Definition elem_max (agg : Z -> option Z) (top : bool) (e : elem) : option Z :=
  k ← count_max e; z ← item_max agg e; Some (prefix top e + k * z).

(** A type of the table, nested at most [d] deep. *)
Fixpoint type_size (d : nat) (i n : Z) : Prop :=
  match d with
  | O => False
  | S d =>
    match type_elems i with
    | Some es => total (elem_size (type_size d) false) es n
    | None => False
    end
  end.
Fixpoint type_max (d : nat) (i : Z) : option Z :=
  match d with
  | O => None
  | S d => es ← type_elems i; total_max (elem_max (type_max d) false) es
  end.

Definition depth : nat := length (type_table svc).

(** A TLV that is left out takes no space. *)
Definition tlv_size (t : tlv) (n : Z) : Prop :=
  (is_Some (t_optional t) ∧ n = 0) ∨
  ∃ k, elem_size (type_size depth) true (t_elem t) k ∧ n = tlv_header w + k.
Definition tlv_max (t : tlv) : option Z :=
  k ← elem_max (type_max depth) true (t_elem t); Some (tlv_header w + k).

Definition message_size (m : string * option string) (n : Z) : Prop :=
  match m.2 with
  | None => n = 0
  | Some d =>
    match assoc d (message_data svc) with
    | Some ts => total tlv_size ts n
    | None => False
    end
  end.
Definition message_max (m : string * option string) : option Z :=
  match m.2 with
  | None => Some 0
  | Some d => ts ← assoc d (message_data svc); total_max tlv_max ts
  end.

(** The entry of the message table a service message is described by, if it is
    in the service's own tables (0) and not in the common ones (1). *)
Definition own_message (m : string * (Z * Z) * Z) : option (string * option string) :=
  let '(_, (t, i), _) := m in if decide (t = 0) then message_table svc !! Z.to_nat i else None.

(** ** The maxima are the maxima *)

Lemma total_maximum {A} (P : A -> Z -> Prop) (f : A -> option Z) l z :
  (∀ a z, f a = Some z -> maximum (P a) z) -> total_max f l = Some z -> maximum (total P l) z.
Proof.
  intros Hf. unfold total_max. rewrite fmap_Some. intros (zs & Hzs & ->).
  apply mapM_Some in Hzs. split.
  - exists zs. split; [|done]. eapply Forall2_impl; [done|]. intros a z. apply Hf.
  - intros n (ns & Hns & ->). revert zs Hzs.
    induction Hns as [|a k l ns Ha _ IH]; intros zs Hzs.
    { apply Forall2_nil_inv_l in Hzs as ->. simpl. lia. }
    apply Forall2_cons_inv_l in Hzs as (y & zs' & Hy & Hzs' & ->).
    destruct (Hf _ _ Hy) as [_ Hb]. specialize (Hb _ Ha). specialize (IH _ Hzs').
    unfold sum in *. simpl. lia.
Qed.

Lemma sum_replicate k z : sum (replicate k z) = Z.of_nat k * z.
Proof. induction k as [|k IH]; simpl; [done|]. unfold sum in *. rewrite IH. lia. Qed.

Lemma sum_bounded ns z :
  0 ≤ z -> Forall (fun n => 0 ≤ n ≤ z) ns -> 0 ≤ sum ns ≤ Z.of_nat (length ns) * z.
Proof. intros Hz. induction 1 as [|n ns Hn _ IH]; simpl; [lia|]. unfold sum in *. nia. Qed.

Lemma item_maximum agg aggm e z :
  wire_ok w -> (∀ i z, aggm i = Some z -> maximum (agg i) z) ->
  item_max aggm e = Some z -> maximum (item_size agg e) z.
Proof.
  intros Hw Ha. unfold item_max, item_size, maximum.
  destruct (e_kind e); simpl; intros E;
    try (simplify_eq; split; [done|]; intros; simplify_eq; lia).
  destruct (e_type e) as [[t i]|]; [|done]. destruct (decide (t = 0)); [by apply Ha|].
  injection E as <-. split; [done|]. intros k Hk. destruct Hw as (_ & _ & _ & ?). lia.
Qed.

Lemma elem_maximum agg aggm top e z :
  wire_ok w -> (∀ i z, aggm i = Some z -> maximum (agg i) z) ->
  elem_max aggm top e = Some z -> maximum (elem_size agg top e) z.
Proof.
  intros Hw Ha E. unfold elem_max in E. destruct (count_max e) as [k|] eqn:Ek; [|done].
  destruct (item_max aggm e) as [y|] eqn:Ey; simplify_eq/=.
  pose proof (item_maximum agg aggm e y Hw Ha Ey) as [Hy Hmax].
  assert (0 ≤ y) by (specialize (Hmax _ Hy); lia).
  assert (0 ≤ prefix top e).
  { destruct Hw as (_ & ? & ? & _). unfold prefix. repeat case_decide; lia. }
  assert (Hk : 0 ≤ k ∧ count_ok e k ∧ ∀ k', count_ok e k' -> 0 ≤ k' ≤ k).
  { unfold count_max, count_ok in *. destruct (e_bound e) as [b|]; simplify_eq/=.
    - destruct (eval h b) as [m|]; simplify_eq/=. case_decide; simplify_eq.
      case_decide; split_and!; try lia; intros; lia.
    - split_and!; [lia|done|]. intros; lia. }
  destruct Hk as (Hk0 & Hk & Hkm). split.
  - exists (replicate (Z.to_nat k) y). rewrite length_replicate, Z2Nat.id by done.
    split_and!; [done|by apply Forall_replicate|]. rewrite sum_replicate. lia.
  - intros n (ns & Hc & Hns & ->). specialize (Hkm _ Hc).
    assert (Hb : Forall (fun n => 0 ≤ n ≤ y) ns) by (by eapply Forall_impl; [|intros; apply Hmax]).
    pose proof (sum_bounded ns y ltac:(done) Hb). nia.
Qed.

Lemma type_maximum d i z : wire_ok w -> type_max d i = Some z -> maximum (type_size d i) z.
Proof.
  intros Hw. revert i z. induction d as [|d IH]; intros i z E; [done|]. simpl in *.
  destruct (type_elems i) as [es|]; [|done]. simpl in E.
  eapply total_maximum; [|done]. intros e y. by apply elem_maximum.
Qed.

Lemma tlv_maximum t z : wire_ok w -> tlv_max t = Some z -> maximum (tlv_size t) z.
Proof.
  intros Hw E. unfold tlv_max in E. destruct (elem_max _ _ _) as [k|] eqn:Ek; simplify_eq/=.
  apply (elem_maximum (type_size depth)) in Ek as [Hk Hm]; [|done|intros; by apply type_maximum].
  destruct Hw as (Ht & _). pose proof (Hm _ Hk). split; [right; eauto|].
  intros n [[_ ->]|(k' & Hk' & ->)]; [lia|]. specialize (Hm _ Hk'). lia.
Qed.

Lemma message_maximum m z : wire_ok w -> message_max m = Some z -> maximum (message_size m) z.
Proof.
  intros Hw. unfold message_max, message_size, maximum. destruct (m.2) as [d|].
  - destruct (assoc d _) as [ts|]; [|done]. simpl. intros E.
    eapply (total_maximum tlv_size); [|done]. intros t y. by apply tlv_maximum.
  - intros [= <-]. split; [done|]. lia.
Qed.

(** ** Nesting ends *)

(** An aggregate only contains aggregates of smaller index. *)
Definition refs_below (i : Z) (es : list elem) : Prop :=
  Forall (fun e => match e_type e with Some (t, j) => t = 0 -> 0 ≤ j < i | None => True end) es.
#[export] Instance refs_below_dec i es : Decision (refs_below i es).
Proof. apply Forall_dec. intros e. destruct (e_type e) as [[t j]|]; apply _. Defined.

Lemma elem_size_ext agg agg' top e n :
  (∀ t j m, e_type e = Some (t, j) -> t = 0 -> agg j m -> agg' j m) ->
  elem_size agg top e n -> elem_size agg' top e n.
Proof.
  intros Ha (ns & Hc & Hns & ->). exists ns. split_and!; [done| |done].
  eapply Forall_impl; [done|]. intros m. unfold item_size. destruct (e_kind e); try done.
  destruct (e_type e) as [[t j]|]; [|done]. case_decide; [|done]. by eapply Ha.
Qed.

Lemma type_size_depth d d' i n :
  (∀ i es, type_elems i = Some es -> 0 ≤ i -> refs_below i es) ->
  (Z.to_nat i < d)%nat -> (Z.to_nat i < d')%nat -> 0 ≤ i ->
  type_size d i n -> type_size d' i n.
Proof.
  intros Hr. revert d' i n. induction d as [|d IH]; intros d' i n H1 H2 Hi; [lia|].
  destruct d' as [|d']; [lia|]. simpl. destruct (type_elems i) as [es|] eqn:Ees; [|done].
  specialize (Hr _ _ Ees Hi) as Hb. intros (ns & Hns & ->). exists ns. split; [|done].
  assert (Hsub : Forall (fun e => ∀ n, elem_size (type_size d) false e n ->
                                  elem_size (type_size d') false e n) es).
  { eapply Forall_impl; [exact Hb|]. intros e He m. apply elem_size_ext.
    intros t j k Ht ->. cbn beta in He. rewrite Ht in He. specialize (He eq_refl). apply IH; lia. }
  clear -Hns Hsub. induction Hns; inversion Hsub; subst; constructor; auto.
Qed.

End sizes.

(** * Layout keeps members apart *)

Lemma align_up_le o a : 0 < a -> o ≤ align_up o a.
Proof. intros Ha. unfold align_up. pose proof (Z.div_mod (o + a - 1) a). pose proof (Z.mod_pos_bound (o + a - 1) a). nia. Qed.

Lemma align_up_divide o a : (a | align_up o a).
Proof. by exists ((o + a - 1) / a). Qed.

(** [ps] lie one after the other, aligned, between [o] and [o']. *)
Fixpoint packed (o : Z) (ps : list placed) (o' : Z) : Prop :=
  match ps with
  | [] => o ≤ o'
  | p :: ps =>
    o ≤ p_offset p ∧ (p_align p | p_offset p) ∧ packed (p_offset p + p_bytes p) ps o'
  end.

Lemma packed_weaken o1 o2 ps o' : o2 ≤ o1 -> packed o1 ps o' -> packed o2 ps o'.
Proof. destruct ps; simpl; intros; [lia|]. destruct H0 as (? & ? & ?). split_and!; [lia|done..]. Qed.

Lemma packed_end o ps o1 o2 : o1 ≤ o2 -> packed o ps o1 -> packed o ps o2.
Proof.
  revert o. induction ps as [|p ps IH]; simpl; intros o Ho; [lia|].
  intros (? & ? & ?). split_and!; auto.
Qed.

Lemma place_packed h env ms o a ps o' a' :
  place h env ms o a = Some (ps, o', a') -> Forall (fun p => 0 < p_align p) ps ->
  packed o ps o' ∧ a ≤ a' ∧ Forall (fun p => p_align p ≤ a') ps ∧ p_name <$> ps = m_name <$> ms.
Proof.
  revert o a ps o' a'. induction ms as [|m ms IH]; intros o a ps o' a' E Hal.
  { injection E as <- <- <-. simpl. split_and!; try done. }
  cbn [place] in E. destruct (type_layout h env (m_type m)) as [[sz al]|]; [|done]. cbn in E.
  destruct (match m_array m with None => _ | Some e => _ end) as [n|]; [|done]. cbn in E.
  set (p := Placed _ _ n _ _ _) in E.
  destruct (place h env ms (p_offset p + p_bytes p) (Z.max a al)) as [[[ps1 o1] a1]|] eqn:E1;
    [|subst p; cbn in E1, E; by rewrite E1 in E].
  subst p; cbn in E1, E; rewrite E1 in E; injection E as <- <- <-.
  inversion Hal as [|? ? Hp Hps]; subst.
  destruct (IH _ _ _ _ _ E1 Hps) as (Hpk & Ha & Hle & Hn). cbn in Hp.
  split_and!; [split_and!| | |]; cbn.
  - by apply align_up_le.
  - apply align_up_divide.
  - exact Hpk.
  - lia.
  - constructor; [cbn; lia|done].
  - by rewrite Hn.
Qed.

(** Two members: the later one starts after the earlier one ends. *)
Lemma packed_lookup o ps o' i j p q :
  packed o ps o' -> Forall (fun p => 0 ≤ p_bytes p) ps -> (i < j)%nat ->
  ps !! i = Some p -> ps !! j = Some q -> p_offset p + p_bytes p ≤ p_offset q.
Proof.
  intros Hpk Hb. revert o i j Hpk. induction Hb as [|x ps Hx Hb IH]; intros o i j Hpk Hij Hi Hj; [done|].
  destruct Hpk as (H1 & _ & H2). destruct j as [|j]; [lia|]. simpl in Hj.
  destruct i as [|i]; simpl in Hi.
  - simplify_eq. clear -H2 Hj Hb. revert H2. generalize (p_offset p + p_bytes p). intros o H2.
    revert o j Hj H2. induction Hb as [|y ps Hy Hb IH]; intros o j Hj H2; [done|].
    destruct H2 as (H3 & _ & H4). destruct j as [|j]; simplify_eq/=; [done|].
    specialize (IH _ _ Hj H4). lia.
  - by eapply (IH _ i j); [|lia|..].
Qed.

Lemma packed_bounds o ps o' p :
  packed o ps o' -> Forall (fun p => 0 ≤ p_bytes p) ps -> p ∈ ps ->
  o ≤ p_offset p ∧ p_offset p + p_bytes p ≤ o'.
Proof.
  intros Hpk Hb. revert o Hpk. induction Hb as [|x ps Hx Hb IH]; intros o Hpk Hp.
  { by apply not_elem_of_nil in Hp. }
  destruct Hpk as (H1 & _ & H2). apply elem_of_cons in Hp as [->|Hp].
  - split; [done|]. clear -H2 Hb. revert H2. generalize (p_offset x + p_bytes x). intros o H2.
    revert o H2. induction Hb as [|y ps Hy Hb IH]; simpl; intros o H2; [done|].
    destruct H2 as (H3 & _ & H4). specialize (IH _ H4). lia.
  - destruct (IH _ H2 Hp). lia.
Qed.
