(* ===== verification/LocServiceStructs.v ===== *)
(** What location_service_v02.h declares of the data of QMI messages: the
    macros that bound arrays, the message ids, the typedefs and enums used as
    types of members and every struct, in the order of the header (a group of
    structs per definition).  Comments and enumerators are left out. *)

From stdpp Require Import strings list.
From S2P Require Import Prelude QmiIdl.

Local Open Scope Z_scope.

Definition size_macros_1 : list (string * Z) := [
    ("QMI_LOC_MAX_CLIENT_ID_STRING_LENGTH_V02", 4);
    ("QMI_LOC_MAX_APP_ID_PROVIDER_LENGTH_V02", 24);
    ("QMI_LOC_MAX_APP_ID_NAME_LENGTH_V02", 32);
    ("QMI_LOC_MAX_APP_ID_VERSION_LENGTH_V02", 8);
    ("QMI_LOC_MAX_SV_USED_LIST_LENGTH_V02", 80);
    ("QMI_LOC_EXPANDED_SV_INFO_LIST_MAX_SIZE_V02", 176);
    ("QMI_LOC_MAX_GNSS_SIGNAL_TYPE_V02", 19);
    ("QMI_LOC_ENU_ARRAY_LENGTH_V02", 3);
    ("QMI_LOC_DGNSS_STATION_ID_ARRAY_LENGTH_V02", 3);
    ("QMI_LOC_ENV_AIDING_CORRECTION_MAX_SV_USED_V02", 60);
    ("QMI_LOC_SV_INFO_LIST_MAX_SIZE_V02", 80);
    ("QMI_LOC_NMEA_STRING_MAX_LENGTH_V02", 200);
    ("QMI_LOC_EXPANDED_NMEA_STRING_MAX_LENGTH_V02", 4095);
    ("QMI_LOC_NI_MAX_REQUESTOR_ID_LENGTH_V02", 200);
    ("QMI_LOC_NI_SUPL_SLP_SESSION_ID_BYTE_LENGTH_V02", 4);
    ("QMI_LOC_NI_MAX_CLIENT_NAME_LENGTH_V02", 64);
    ("QMI_LOC_MAX_SERVER_ADDR_LENGTH_V02", 255);
    ("QMI_LOC_IPV6_ADDR_LENGTH_V02", 8);
    ("QMI_LOC_NI_SUPL_HASH_LENGTH_V02", 8);
    ("QMI_LOC_NI_MAX_EXT_CLIENT_ADDRESS_V02", 20);
    ("QMI_LOC_NI_CODEWORD_MAX_LENGTH_V02", 20);
    ("QMI_LOC_MAX_NTP_SERVERS_V02", 3);
    ("QMI_LOC_MAX_PREDICTED_ORBITS_SERVERS_V02", 3);
    ("QMI_LOC_MAX_GEOFENCE_ID_CONTINUOUS_LIST_LENGTH_V02", 80);
    ("QMI_LOC_MAX_GEOFENCE_ID_DISCRETE_LIST_LENGTH_V02", 80);
    ("QMI_LOC_MAX_GDT_PATH_LEN_V02", 255);
    ("QMI_LOC_MAX_GTP_CL_INFO_LEN_V02", 1500);
    ("QMI_LOC_MAX_GTP_MSD_LEN_V02", 4000);
    ("QMI_LOC_GNSS_ME_VERSION_STRING_MAX_LENGTH_V02", 127);
    ("QMI_LOC_GNSS_HOSTED_SW_VERSION_STRING_MAX_LENGTH_V02", 127);
    ("QMI_LOC_GNSS_SW_VERSION_STRING_MAX_LENGTH_V02", 255);
    ("QMI_LOC_MAX_PREDICTED_ORBITS_PART_LEN_V02", 1024);
    ("QMI_LOC_DELETE_MAX_SV_INFO_LENGTH_V02", 128);
    ("QMI_LOC_DELETE_MAX_BDS_SV_INFO_LENGTH_V02", 37);
    ("QMI_LOC_DELETE_MAX_GAL_SV_INFO_LENGTH_V02", 36);
    ("QMI_LOC_WIFI_MAC_ADDR_LENGTH_V02", 6);
    ("QMI_LOC_MAX_WIFI_AP_SSID_STR_LENGTH_V02", 32);
    ("QMI_LOC_WIFI_MAX_REPORTED_APS_PER_MSG_V02", 50);
    ("QMI_LOC_SENSOR_DATA_MAX_SAMPLES_V02", 50);
    ("QMI_LOC_MAX_APN_NAME_LENGTH_V02", 100);
    ("QMI_LOC_MAX_APN_PROFILES_V02", 6);
    ("QMI_LOC_MAX_SUPL_CERT_LENGTH_V02", 2000);
    ("QMI_LOC_GEOFENCE_MAX_MOTION_STATES_V02", 20);
    ("QMI_LOC_MAX_NI_GEOFENCE_ID_LIST_LENGTH_V02", 16);
    ("QMI_LOC_MAX_WCDMA_FREQ_V02", 16383);
    ("QMI_LOC_MAX_WCDMA_PSC_V02", 511) ].

Definition size_macros_2 : list (string * Z) := [
    ("QMI_LOC_MAX_TDSCDMA_FREQ_V02", 16383);
    ("QMI_LOC_MAX_INJECTED_NETWORK_INITIATED_MESSAGE_LENGTH_V02", 1024);
    ("QMI_LOC_READ_FROM_BATCH_MAX_SIZE_V02", 5);
    ("QMI_LOC_VEHICLE_SENSOR_DATA_MAX_SAMPLES_V02", 65);
    ("QMI_LOC_VEHICLE_SENSOR_DATA_MAX_AXES_V02", 3);
    ("QMI_LOC_VEHICLE_ODOMETRY_MAX_MEASUREMENTS_V02", 3);
    ("QMI_LOC_MEAS_STATUS_DONT_USE_BITS_V02", 18428729675200069632);
    ("QMI_LOC_SV_MEAS_LIST_MAX_SIZE_V02", 16);
    ("QMI_LOC_EXT_SV_MEAS_LIST_MAX_SIZE_V02", 8);
    ("QMI_LOC_SV_MEAS_OTHER_CODE_TYPE_NAME_MAX_LEN_V02", 8);
    ("QMI_LOC_DGNSS_SV_MEAS_LIST_MAX_SIZE_V02", 24);
    ("QMI_LOC_SV_POLY_VELOCITY_COEF_SIZE_V02", 12);
    ("QMI_LOC_SV_POLY_XYZ_0_TH_ORDER_COEFF_SIZE_V02", 3);
    ("QMI_LOC_SV_POLY_XYZ_N_TH_ORDER_COEFF_SIZE_V02", 9);
    ("QMI_LOC_SV_POLY_SV_CLKBIAS_COEFF_SIZE_V02", 4);
    ("QMI_LOC_MAX_IBEACON_UUID_STR_LENGTH_V02", 32);
    ("QMI_LOC_WIFI_AREA_ID_LIST_LENGTH_V02", 20);
    ("QMI_LOC_CELL_ID_LIST_LENGTH_V02", 20);
    ("QMI_LOC_IBEACON_LIST_LENGTH_V02", 20);
    ("QMI_LOC_MAX_GTP_WWAN_CLIENT_DOWNLOADED_DATA_LEN_V02", 512);
    ("QMI_LOC_MAX_OEM_ID_LEN_V02", 256);
    ("QMI_LOC_MAX_MODEL_ID_LEN_V02", 256);
    ("QMI_LOC_MAX_GTP_RLI_LEN_V02", 256);
    ("QMI_LOC_SECURE_GET_AVAILABLE_POS_REQUEST_ENCRYPTED_MAX_V02", 256);
    ("QMI_LOC_SECURE_GET_AVAILABLE_POSITION_IND_ENCRYPTED_MAX_V02", 1024);
    ("QMI_LOC_APCACHE_DATA_MAX_SAMPLES_V02", 80);
    ("QMI_LOC_MAX_XTRA_PART_LEN_V02", 1024);
    ("QMI_LOC_SUPPORTED_FEATURE_LENGTH_V02", 100);
    ("QMI_LOC_INTERNAL_STATUS_REPORT_DATA_LENGTH_V02", 56);
    ("QMI_LOC_INTERNAL_STATUS_MAX_LIST_SIZE_V02", 67);
    ("QMI_LOC_SRN_MAX_REPORTED_APS_PER_MSG_V02", 64);
    ("QMI_LOC_SRN_MAC_ADDR_LENGTH_V02", 6);
    ("QMI_LOC_MAX_WIFI_CROWDSOURCING_SERVER_CONFIG_LEN_V02", 512);
    ("QMI_LOC_MAX_CROWDSOURCING_MODEM_CLIENT_INFO_LEN_V02", 512);
    ("QMI_LOC_FDCL_BS_LIST_MAX_SIZE_V02", 100);
    ("QMI_LOC_FDCL_CELL_POS_LIST_LENGTH_V02", 20);
    ("QMI_LOC_INJECT_FDCL_DATA_ERROR_MSG_LEN_V02", 255);
    ("QMI_LOC_MAX_DCREPORT_LEN_BITS_V02", 512);
    ("QMI_LOC_MAX_DCREPORT_LEN_V02", 64);
    ("QMI_LOC_EPHEMERIS_LIST_MAX_SIZE_V02", 8);
    ("QMI_LOC_MAX_REQUESTOR_ID_STRING_LENGTH_V02", 20);
    ("QMI_LOC_FILTER_ELEMENT_SIZE_SEVENTEEN_V02", 17);
    ("QMI_LOC_FILTER_ELEMENT_SIZE_SIX_V02", 6);
    ("QMI_LOC_FILTER_ELEMENT_SIZE_THREE_V02", 3) ].

Definition size_macros_3 : list (string * Z) := [
    ("QMI_LOC_FILTER_ELEMENT_SIZE_FOUR_V02", 4);
    ("QMI_LOC_IPM_ELEMENT_SIZE_THREE_V02", 3);
    ("QMI_LOC_IPM_ELEMENT_SIZE_NINE_V02", 9);
    ("QMI_LOC_INS_ELEMENT_SIZE_THREE_V02", 3);
    ("QMI_LOC_INS_ELEMENT_SIZE_TWO_V02", 2) ].

(** The macros for array bounds. *)
Definition size_macros : list (string * Z) :=
  size_macros_1 ++ size_macros_2 ++ size_macros_3.

Definition message_ids_1 : list (string * Z) := [
    ("QMI_LOC_GET_SUPPORTED_MSGS_REQ_V02", 30);
    ("QMI_LOC_GET_SUPPORTED_MSGS_RESP_V02", 30);
    ("QMI_LOC_GET_SUPPORTED_FIELDS_REQ_V02", 31);
    ("QMI_LOC_GET_SUPPORTED_FIELDS_RESP_V02", 31);
    ("QMI_LOC_INFORM_CLIENT_REVISION_REQ_V02", 32);
    ("QMI_LOC_INFORM_CLIENT_REVISION_RESP_V02", 32);
    ("QMI_LOC_REG_EVENTS_REQ_V02", 33);
    ("QMI_LOC_REG_EVENTS_RESP_V02", 33);
    ("QMI_LOC_START_REQ_V02", 34);
    ("QMI_LOC_START_RESP_V02", 34);
    ("QMI_LOC_STOP_REQ_V02", 35);
    ("QMI_LOC_STOP_RESP_V02", 35);
    ("QMI_LOC_EVENT_POSITION_REPORT_IND_V02", 36);
    ("QMI_LOC_EVENT_GNSS_SV_INFO_IND_V02", 37);
    ("QMI_LOC_EVENT_NMEA_IND_V02", 38);
    ("QMI_LOC_EVENT_NI_NOTIFY_VERIFY_REQ_IND_V02", 39);
    ("QMI_LOC_EVENT_INJECT_TIME_REQ_IND_V02", 40);
    ("QMI_LOC_EVENT_INJECT_PREDICTED_ORBITS_REQ_IND_V02", 41);
    ("QMI_LOC_EVENT_INJECT_POSITION_REQ_IND_V02", 42);
    ("QMI_LOC_EVENT_ENGINE_STATE_IND_V02", 43);
    ("QMI_LOC_EVENT_FIX_SESSION_STATE_IND_V02", 44);
    ("QMI_LOC_EVENT_WIFI_REQ_IND_V02", 45);
    ("QMI_LOC_EVENT_SENSOR_STREAMING_READY_STATUS_IND_V02", 46);
    ("QMI_LOC_EVENT_TIME_SYNC_REQ_IND_V02", 47);
    ("QMI_LOC_EVENT_SET_SPI_STREAMING_REPORT_IND_V02", 48);
    ("QMI_LOC_EVENT_LOCATION_SERVER_CONNECTION_REQ_IND_V02", 49);
    ("QMI_LOC_GET_SERVICE_REVISION_REQ_V02", 50);
    ("QMI_LOC_GET_SERVICE_REVISION_RESP_V02", 50);
    ("QMI_LOC_GET_SERVICE_REVISION_IND_V02", 50);
    ("QMI_LOC_GET_FIX_CRITERIA_REQ_V02", 51);
    ("QMI_LOC_GET_FIX_CRITERIA_RESP_V02", 51);
    ("QMI_LOC_GET_FIX_CRITERIA_IND_V02", 51);
    ("QMI_LOC_NI_USER_RESPONSE_REQ_V02", 52);
    ("QMI_LOC_NI_USER_RESPONSE_RESP_V02", 52);
    ("QMI_LOC_NI_USER_RESPONSE_IND_V02", 52);
    ("QMI_LOC_INJECT_PREDICTED_ORBITS_DATA_REQ_V02", 53);
    ("QMI_LOC_INJECT_PREDICTED_ORBITS_DATA_RESP_V02", 53);
    ("QMI_LOC_INJECT_PREDICTED_ORBITS_DATA_IND_V02", 53);
    ("QMI_LOC_GET_PREDICTED_ORBITS_DATA_SOURCE_REQ_V02", 54);
    ("QMI_LOC_GET_PREDICTED_ORBITS_DATA_SOURCE_RESP_V02", 54);
    ("QMI_LOC_GET_PREDICTED_ORBITS_DATA_SOURCE_IND_V02", 54);
    ("QMI_LOC_GET_PREDICTED_ORBITS_DATA_VALIDITY_REQ_V02", 55);
    ("QMI_LOC_GET_PREDICTED_ORBITS_DATA_VALIDITY_RESP_V02", 55);
    ("QMI_LOC_GET_PREDICTED_ORBITS_DATA_VALIDITY_IND_V02", 55);
    ("QMI_LOC_INJECT_UTC_TIME_REQ_V02", 56);
    ("QMI_LOC_INJECT_UTC_TIME_RESP_V02", 56);
    ("QMI_LOC_INJECT_UTC_TIME_IND_V02", 56);
    ("QMI_LOC_INJECT_POSITION_REQ_V02", 57);
    ("QMI_LOC_INJECT_POSITION_RESP_V02", 57);
    ("QMI_LOC_INJECT_POSITION_IND_V02", 57);
    ("QMI_LOC_SET_ENGINE_LOCK_REQ_V02", 58);
    ("QMI_LOC_SET_ENGINE_LOCK_RESP_V02", 58);
    ("QMI_LOC_SET_ENGINE_LOCK_IND_V02", 58);
    ("QMI_LOC_GET_ENGINE_LOCK_REQ_V02", 59);
    ("QMI_LOC_GET_ENGINE_LOCK_RESP_V02", 59);
    ("QMI_LOC_GET_ENGINE_LOCK_IND_V02", 59);
    ("QMI_LOC_SET_SBAS_CONFIG_REQ_V02", 60);
    ("QMI_LOC_SET_SBAS_CONFIG_RESP_V02", 60);
    ("QMI_LOC_SET_SBAS_CONFIG_IND_V02", 60);
    ("QMI_LOC_GET_SBAS_CONFIG_REQ_V02", 61);
    ("QMI_LOC_GET_SBAS_CONFIG_RESP_V02", 61);
    ("QMI_LOC_GET_SBAS_CONFIG_IND_V02", 61);
    ("QMI_LOC_SET_NMEA_TYPES_REQ_V02", 62);
    ("QMI_LOC_SET_NMEA_TYPES_RESP_V02", 62);
    ("QMI_LOC_SET_NMEA_TYPES_IND_V02", 62);
    ("QMI_LOC_GET_NMEA_TYPES_REQ_V02", 63);
    ("QMI_LOC_GET_NMEA_TYPES_RESP_V02", 63);
    ("QMI_LOC_GET_NMEA_TYPES_IND_V02", 63);
    ("QMI_LOC_SET_LOW_POWER_MODE_REQ_V02", 64);
    ("QMI_LOC_SET_LOW_POWER_MODE_RESP_V02", 64);
    ("QMI_LOC_SET_LOW_POWER_MODE_IND_V02", 64);
    ("QMI_LOC_GET_LOW_POWER_MODE_REQ_V02", 65);
    ("QMI_LOC_GET_LOW_POWER_MODE_RESP_V02", 65);
    ("QMI_LOC_GET_LOW_POWER_MODE_IND_V02", 65);
    ("QMI_LOC_SET_SERVER_REQ_V02", 66);
    ("QMI_LOC_SET_SERVER_RESP_V02", 66);
    ("QMI_LOC_SET_SERVER_IND_V02", 66);
    ("QMI_LOC_GET_SERVER_REQ_V02", 67);
    ("QMI_LOC_GET_SERVER_RESP_V02", 67);
    ("QMI_LOC_GET_SERVER_IND_V02", 67);
    ("QMI_LOC_DELETE_ASSIST_DATA_REQ_V02", 68);
    ("QMI_LOC_DELETE_ASSIST_DATA_RESP_V02", 68);
    ("QMI_LOC_DELETE_ASSIST_DATA_IND_V02", 68);
    ("QMI_LOC_SET_XTRA_T_SESSION_CONTROL_REQ_V02", 69);
    ("QMI_LOC_SET_XTRA_T_SESSION_CONTROL_RESP_V02", 69);
    ("QMI_LOC_SET_XTRA_T_SESSION_CONTROL_IND_V02", 69);
    ("QMI_LOC_GET_XTRA_T_SESSION_CONTROL_REQ_V02", 70);
    ("QMI_LOC_GET_XTRA_T_SESSION_CONTROL_RESP_V02", 70);
    ("QMI_LOC_GET_XTRA_T_SESSION_CONTROL_IND_V02", 70);
    ("QMI_LOC_INJECT_WIFI_POSITION_REQ_V02", 71);
    ("QMI_LOC_INJECT_WIFI_POSITION_RESP_V02", 71);
    ("QMI_LOC_INJECT_WIFI_POSITION_IND_V02", 71);
    ("QMI_LOC_NOTIFY_WIFI_STATUS_REQ_V02", 72);
    ("QMI_LOC_NOTIFY_WIFI_STATUS_RESP_V02", 72);
    ("QMI_LOC_NOTIFY_WIFI_STATUS_IND_V02", 72);
    ("QMI_LOC_GET_REGISTERED_EVENTS_REQ_V02", 73);
    ("QMI_LOC_GET_REGISTERED_EVENTS_RESP_V02", 73);
    ("QMI_LOC_GET_REGISTERED_EVENTS_IND_V02", 73);
    ("QMI_LOC_SET_OPERATION_MODE_REQ_V02", 74);
    ("QMI_LOC_SET_OPERATION_MODE_RESP_V02", 74);
    ("QMI_LOC_SET_OPERATION_MODE_IND_V02", 74);
    ("QMI_LOC_GET_OPERATION_MODE_REQ_V02", 75);
    ("QMI_LOC_GET_OPERATION_MODE_RESP_V02", 75);
    ("QMI_LOC_GET_OPERATION_MODE_IND_V02", 75);
    ("QMI_LOC_SET_SPI_STATUS_REQ_V02", 76);
    ("QMI_LOC_SET_SPI_STATUS_RESP_V02", 76);
    ("QMI_LOC_SET_SPI_STATUS_IND_V02", 76);
    ("QMI_LOC_INJECT_SENSOR_DATA_REQ_V02", 77);
    ("QMI_LOC_INJECT_SENSOR_DATA_RESP_V02", 77);
    ("QMI_LOC_INJECT_SENSOR_DATA_IND_V02", 77);
    ("QMI_LOC_INJECT_TIME_SYNC_DATA_REQ_V02", 78);
    ("QMI_LOC_INJECT_TIME_SYNC_DATA_RESP_V02", 78);
    ("QMI_LOC_INJECT_TIME_SYNC_DATA_IND_V02", 78);
    ("QMI_LOC_SET_CRADLE_MOUNT_CONFIG_REQ_V02", 79);
    ("QMI_LOC_SET_CRADLE_MOUNT_CONFIG_RESP_V02", 79);
    ("QMI_LOC_SET_CRADLE_MOUNT_CONFIG_IND_V02", 79);
    ("QMI_LOC_GET_CRADLE_MOUNT_CONFIG_REQ_V02", 80);
    ("QMI_LOC_GET_CRADLE_MOUNT_CONFIG_RESP_V02", 80);
    ("QMI_LOC_GET_CRADLE_MOUNT_CONFIG_IND_V02", 80);
    ("QMI_LOC_SET_EXTERNAL_POWER_CONFIG_REQ_V02", 81);
    ("QMI_LOC_SET_EXTERNAL_POWER_CONFIG_RESP_V02", 81);
    ("QMI_LOC_SET_EXTERNAL_POWER_CONFIG_IND_V02", 81);
    ("QMI_LOC_GET_EXTERNAL_POWER_CONFIG_REQ_V02", 82);
    ("QMI_LOC_GET_EXTERNAL_POWER_CONFIG_RESP_V02", 82);
    ("QMI_LOC_GET_EXTERNAL_POWER_CONFIG_IND_V02", 82);
    ("QMI_LOC_INFORM_LOCATION_SERVER_CONN_STATUS_REQ_V02", 83);
    ("QMI_LOC_INFORM_LOCATION_SERVER_CONN_STATUS_RESP_V02", 83);
    ("QMI_LOC_INFORM_LOCATION_SERVER_CONN_STATUS_IND_V02", 83);
    ("QMI_LOC_SET_PROTOCOL_CONFIG_PARAMETERS_REQ_V02", 84);
    ("QMI_LOC_SET_PROTOCOL_CONFIG_PARAMETERS_RESP_V02", 84);
    ("QMI_LOC_SET_PROTOCOL_CONFIG_PARAMETERS_IND_V02", 84);
    ("QMI_LOC_GET_PROTOCOL_CONFIG_PARAMETERS_REQ_V02", 85);
    ("QMI_LOC_GET_PROTOCOL_CONFIG_PARAMETERS_RESP_V02", 85);
    ("QMI_LOC_GET_PROTOCOL_CONFIG_PARAMETERS_IND_V02", 85);
    ("QMI_LOC_SET_SENSOR_CONTROL_CONFIG_REQ_V02", 86);
    ("QMI_LOC_SET_SENSOR_CONTROL_CONFIG_RESP_V02", 86);
    ("QMI_LOC_SET_SENSOR_CONTROL_CONFIG_IND_V02", 86);
    ("QMI_LOC_GET_SENSOR_CONTROL_CONFIG_REQ_V02", 87);
    ("QMI_LOC_GET_SENSOR_CONTROL_CONFIG_RESP_V02", 87);
    ("QMI_LOC_GET_SENSOR_CONTROL_CONFIG_IND_V02", 87);
    ("QMI_LOC_SET_SENSOR_PROPERTIES_REQ_V02", 88);
    ("QMI_LOC_SET_SENSOR_PROPERTIES_RESP_V02", 88);
    ("QMI_LOC_SET_SENSOR_PROPERTIES_IND_V02", 88);
    ("QMI_LOC_GET_SENSOR_PROPERTIES_REQ_V02", 89);
    ("QMI_LOC_GET_SENSOR_PROPERTIES_RESP_V02", 89);
    ("QMI_LOC_GET_SENSOR_PROPERTIES_IND_V02", 89);
    ("QMI_LOC_SET_SENSOR_PERFORMANCE_CONTROL_CONFIGURATION_REQ_V02", 90);
    ("QMI_LOC_SET_SENSOR_PERFORMANCE_CONTROL_CONFIGURATION_RESP_V02", 90);
    ("QMI_LOC_SET_SENSOR_PERFORMANCE_CONTROL_CONFIGURATION_IND_V02", 90);
    ("QMI_LOC_GET_SENSOR_PERFORMANCE_CONTROL_CONFIGURATION_REQ_V02", 91) ].

Definition message_ids_2 : list (string * Z) := [
    ("QMI_LOC_GET_SENSOR_PERFORMANCE_CONTROL_CONFIGURATION_RESP_V02", 91);
    ("QMI_LOC_GET_SENSOR_PERFORMANCE_CONTROL_CONFIGURATION_IND_V02", 91);
    ("QMI_LOC_INJECT_SUPL_CERTIFICATE_REQ_V02", 92);
    ("QMI_LOC_INJECT_SUPL_CERTIFICATE_RESP_V02", 92);
    ("QMI_LOC_INJECT_SUPL_CERTIFICATE_IND_V02", 92);
    ("QMI_LOC_DELETE_SUPL_CERTIFICATE_REQ_V02", 93);
    ("QMI_LOC_DELETE_SUPL_CERTIFICATE_RESP_V02", 93);
    ("QMI_LOC_DELETE_SUPL_CERTIFICATE_IND_V02", 93);
    ("QMI_LOC_SET_POSITION_ENGINE_CONFIG_PARAMETERS_REQ_V02", 94);
    ("QMI_LOC_SET_POSITION_ENGINE_CONFIG_PARAMETERS_RESP_V02", 94);
    ("QMI_LOC_SET_POSITION_ENGINE_CONFIG_PARAMETERS_IND_V02", 94);
    ("QMI_LOC_GET_POSITION_ENGINE_CONFIG_PARAMETERS_REQ_V02", 95);
    ("QMI_LOC_GET_POSITION_ENGINE_CONFIG_PARAMETERS_RESP_V02", 95);
    ("QMI_LOC_GET_POSITION_ENGINE_CONFIG_PARAMETERS_IND_V02", 95);
    ("QMI_LOC_EVENT_NI_GEOFENCE_NOTIFICATION_IND_V02", 96);
    ("QMI_LOC_EVENT_GEOFENCE_GEN_ALERT_IND_V02", 97);
    ("QMI_LOC_EVENT_GEOFENCE_BREACH_NOTIFICATION_IND_V02", 98);
    ("QMI_LOC_ADD_CIRCULAR_GEOFENCE_REQ_V02", 99);
    ("QMI_LOC_ADD_CIRCULAR_GEOFENCE_RESP_V02", 99);
    ("QMI_LOC_ADD_CIRCULAR_GEOFENCE_IND_V02", 99);
    ("QMI_LOC_DELETE_GEOFENCE_REQ_V02", 100);
    ("QMI_LOC_DELETE_GEOFENCE_RESP_V02", 100);
    ("QMI_LOC_DELETE_GEOFENCE_IND_V02", 100);
    ("QMI_LOC_QUERY_GEOFENCE_REQ_V02", 101);
    ("QMI_LOC_QUERY_GEOFENCE_RESP_V02", 101);
    ("QMI_LOC_QUERY_GEOFENCE_IND_V02", 101);
    ("QMI_LOC_EDIT_GEOFENCE_REQ_V02", 102);
    ("QMI_LOC_EDIT_GEOFENCE_RESP_V02", 102);
    ("QMI_LOC_EDIT_GEOFENCE_IND_V02", 102);
    ("QMI_LOC_GET_BEST_AVAILABLE_POSITION_REQ_V02", 103);
    ("QMI_LOC_GET_BEST_AVAILABLE_POSITION_RESP_V02", 103);
    ("QMI_LOC_GET_BEST_AVAILABLE_POSITION_IND_V02", 103);
    ("QMI_LOC_INJECT_MOTION_DATA_REQ_V02", 104);
    ("QMI_LOC_INJECT_MOTION_DATA_RESP_V02", 104);
    ("QMI_LOC_INJECT_MOTION_DATA_IND_V02", 104);
    ("QMI_LOC_GET_NI_GEOFENCE_ID_LIST_REQ_V02", 105);
    ("QMI_LOC_GET_NI_GEOFENCE_ID_LIST_RESP_V02", 105);
    ("QMI_LOC_GET_NI_GEOFENCE_ID_LIST_IND_V02", 105);
    ("QMI_LOC_INJECT_GSM_CELL_INFO_REQ_V02", 106);
    ("QMI_LOC_INJECT_GSM_CELL_INFO_RESP_V02", 106);
    ("QMI_LOC_INJECT_GSM_CELL_INFO_IND_V02", 106);
    ("QMI_LOC_INJECT_NETWORK_INITIATED_MESSAGE_REQ_V02", 107);
    ("QMI_LOC_INJECT_NETWORK_INITIATED_MESSAGE_RESP_V02", 107);
    ("QMI_LOC_INJECT_NETWORK_INITIATED_MESSAGE_IND_V02", 107);
    ("QMI_LOC_WWAN_OUT_OF_SERVICE_NOTIFICATION_REQ_V02", 108);
    ("QMI_LOC_WWAN_OUT_OF_SERVICE_NOTIFICATION_RESP_V02", 108);
    ("QMI_LOC_WWAN_OUT_OF_SERVICE_NOTIFICATION_IND_V02", 108);
    ("QMI_LOC_EVENT_PEDOMETER_CONTROL_IND_V02", 109);
    ("QMI_LOC_EVENT_MOTION_DATA_CONTROL_IND_V02", 110);
    ("QMI_LOC_PEDOMETER_REPORT_REQ_V02", 111);
    ("QMI_LOC_PEDOMETER_REPORT_RESP_V02", 111);
    ("QMI_LOC_PEDOMETER_REPORT_IND_V02", 111);
    ("QMI_LOC_INJECT_WCDMA_CELL_INFO_REQ_V02", 112);
    ("QMI_LOC_INJECT_WCDMA_CELL_INFO_RESP_V02", 112);
    ("QMI_LOC_INJECT_WCDMA_CELL_INFO_IND_V02", 112);
    ("QMI_LOC_INJECT_TDSCDMA_CELL_INFO_REQ_V02", 113);
    ("QMI_LOC_INJECT_TDSCDMA_CELL_INFO_RESP_V02", 113);
    ("QMI_LOC_INJECT_TDSCDMA_CELL_INFO_IND_V02", 113);
    ("QMI_LOC_INJECT_SUBSCRIBER_ID_REQ_V02", 114);
    ("QMI_LOC_INJECT_SUBSCRIBER_ID_RESP_V02", 114);
    ("QMI_LOC_INJECT_SUBSCRIBER_ID_IND_V02", 114);
    ("QMI_LOC_SET_GEOFENCE_ENGINE_CONFIG_REQ_V02", 115);
    ("QMI_LOC_SET_GEOFENCE_ENGINE_CONFIG_RESP_V02", 115);
    ("QMI_LOC_SET_GEOFENCE_ENGINE_CONFIG_IND_V02", 115);
    ("QMI_LOC_GET_GEOFENCE_ENGINE_CONFIG_REQ_V02", 116);
    ("QMI_LOC_GET_GEOFENCE_ENGINE_CONFIG_RESP_V02", 116);
    ("QMI_LOC_GET_GEOFENCE_ENGINE_CONFIG_IND_V02", 116);
    ("QMI_LOC_GET_BATCH_SIZE_REQ_V02", 117);
    ("QMI_LOC_GET_BATCH_SIZE_RESP_V02", 117);
    ("QMI_LOC_GET_BATCH_SIZE_IND_V02", 117);
    ("QMI_LOC_START_BATCHING_REQ_V02", 118);
    ("QMI_LOC_START_BATCHING_RESP_V02", 118);
    ("QMI_LOC_START_BATCHING_IND_V02", 118);
    ("QMI_LOC_EVENT_BATCH_FULL_NOTIFICATION_IND_V02", 119);
    ("QMI_LOC_EVENT_LIVE_BATCHED_POSITION_REPORT_IND_V02", 120);
    ("QMI_LOC_READ_FROM_BATCH_REQ_V02", 121);
    ("QMI_LOC_READ_FROM_BATCH_RESP_V02", 121);
    ("QMI_LOC_READ_FROM_BATCH_IND_V02", 121);
    ("QMI_LOC_STOP_BATCHING_REQ_V02", 122);
    ("QMI_LOC_STOP_BATCHING_RESP_V02", 122);
    ("QMI_LOC_STOP_BATCHING_IND_V02", 122);
    ("QMI_LOC_RELEASE_BATCH_REQ_V02", 123);
    ("QMI_LOC_RELEASE_BATCH_RESP_V02", 123);
    ("QMI_LOC_RELEASE_BATCH_IND_V02", 123);
    ("QMI_LOC_EVENT_INJECT_WIFI_AP_DATA_REQ_IND_V02", 124);
    ("QMI_LOC_INJECT_WIFI_AP_DATA_REQ_V02", 125);
    ("QMI_LOC_INJECT_WIFI_AP_DATA_RESP_V02", 125);
    ("QMI_LOC_INJECT_WIFI_AP_DATA_IND_V02", 125);
    ("QMI_LOC_NOTIFY_WIFI_ATTACHMENT_STATUS_REQ_V02", 126);
    ("QMI_LOC_NOTIFY_WIFI_ATTACHMENT_STATUS_RESP_V02", 126);
    ("QMI_LOC_NOTIFY_WIFI_ATTACHMENT_STATUS_IND_V02", 126);
    ("QMI_LOC_NOTIFY_WIFI_ENABLED_STATUS_REQ_V02", 127);
    ("QMI_LOC_NOTIFY_WIFI_ENABLED_STATUS_RESP_V02", 127);
    ("QMI_LOC_NOTIFY_WIFI_ENABLED_STATUS_IND_V02", 127);
    ("QMI_LOC_EVENT_GEOFENCE_BATCHED_BREACH_NOTIFICATION_IND_V02", 128);
    ("QMI_LOC_EVENT_VEHICLE_DATA_READY_STATUS_IND_V02", 129);
    ("QMI_LOC_INJECT_VEHICLE_SENSOR_DATA_REQ_V02", 130);
    ("QMI_LOC_INJECT_VEHICLE_SENSOR_DATA_RESP_V02", 130);
    ("QMI_LOC_INJECT_VEHICLE_SENSOR_DATA_IND_V02", 130);
    ("QMI_LOC_GET_AVAILABLE_WWAN_POSITION_REQ_V02", 131);
    ("QMI_LOC_GET_AVAILABLE_WWAN_POSITION_RESP_V02", 131);
    ("QMI_LOC_GET_AVAILABLE_WWAN_POSITION_IND_V02", 131);
    ("QMI_LOC_SET_PREMIUM_SERVICES_CONFIG_REQ_V02", 132);
    ("QMI_LOC_SET_PREMIUM_SERVICES_CONFIG_RESP_V02", 132);
    ("QMI_LOC_SET_PREMIUM_SERVICES_CONFIG_IND_V02", 132);
    ("QMI_LOC_SET_XTRA_VERSION_CHECK_REQ_V02", 133);
    ("QMI_LOC_SET_XTRA_VERSION_CHECK_RESP_V02", 133);
    ("QMI_LOC_SET_XTRA_VERSION_CHECK_IND_V02", 133);
    ("QMI_LOC_EVENT_GNSS_MEASUREMENT_REPORT_IND_V02", 134);
    ("QMI_LOC_EVENT_SV_POLYNOMIAL_REPORT_IND_V02", 135);
    ("QMI_LOC_SET_GNSS_CONSTELL_REPORT_CONFIG_V02", 136);
    ("QMI_LOC_SET_GNSS_CONSTELL_REPORT_CONFIG_RESP_V02", 136);
    ("QMI_LOC_SET_GNSS_CONSTELL_REPORT_CONFIG_IND_V02", 136);
    ("QMI_LOC_ADD_GEOFENCE_CONTEXT_REQ_V02", 137);
    ("QMI_LOC_ADD_GEOFENCE_CONTEXT_RESP_V02", 137);
    ("QMI_LOC_ADD_GEOFENCE_CONTEXT_IND_V02", 137);
    ("QMI_LOC_SET_GEOFENCE_ENGINE_CONTEXT_REQ_V02", 138);
    ("QMI_LOC_SET_GEOFENCE_ENGINE_CONTEXT_RESP_V02", 138);
    ("QMI_LOC_SET_GEOFENCE_ENGINE_CONTEXT_IND_V02", 138);
    ("QMI_LOC_DELETE_GEOFENCE_CONTEXT_REQ_V02", 139);
    ("QMI_LOC_DELETE_GEOFENCE_CONTEXT_RESP_V02", 139);
    ("QMI_LOC_DELETE_GEOFENCE_CONTEXT_IND_V02", 139);
    ("QMI_LOC_EVENT_GEOFENCE_PROXIMITY_NOTIFICATION_IND_V02", 140);
    ("QMI_LOC_INJECT_GTP_CLIENT_DOWNLOADED_DATA_REQ_V02", 141);
    ("QMI_LOC_INJECT_GTP_CLIENT_DOWNLOADED_DATA_RESP_V02", 141);
    ("QMI_LOC_INJECT_GTP_CLIENT_DOWNLOADED_DATA_IND_V02", 141);
    ("QMI_LOC_GDT_UPLOAD_BEGIN_STATUS_REQ_V02", 142);
    ("QMI_LOC_GDT_UPLOAD_BEGIN_STATUS_RESP_V02", 142);
    ("QMI_LOC_GDT_UPLOAD_BEGIN_STATUS_IND_V02", 142);
    ("QMI_LOC_GDT_UPLOAD_END_REQ_V02", 143);
    ("QMI_LOC_GDT_UPLOAD_END_RESP_V02", 143);
    ("QMI_LOC_GDT_UPLOAD_END_IND_V02", 143);
    ("QMI_LOC_EVENT_GDT_UPLOAD_BEGIN_STATUS_REQ_IND_V02", 144);
    ("QMI_LOC_EVENT_GDT_UPLOAD_END_REQ_IND_V02", 145);
    ("QMI_LOC_START_DBT_REQ_V02", 146);
    ("QMI_LOC_START_DBT_RESP_V02", 146);
    ("QMI_LOC_START_DBT_IND_V02", 146);
    ("QMI_LOC_EVENT_DBT_POSITION_REPORT_IND_V02", 147);
    ("QMI_LOC_EVENT_DBT_SESSION_STATUS_IND_V02", 148);
    ("QMI_LOC_STOP_DBT_REQ_V02", 149);
    ("QMI_LOC_STOP_DBT_RESP_V02", 149);
    ("QMI_LOC_STOP_DBT_IND_V02", 149);
    ("QMI_LOC_SECURE_GET_AVAILABLE_POSITION_REQ_V02", 150);
    ("QMI_LOC_SECURE_GET_AVAILABLE_POSITION_RESP_V02", 150);
    ("QMI_LOC_SECURE_GET_AVAILABLE_POSITION_IND_V02", 150);
    ("QMI_LOC_EVENT_GEOFENCE_BATCHED_DWELL_NOTIFICATION_IND_V02", 151);
    ("QMI_LOC_EVENT_GET_TIME_ZONE_INFO_IND_V02", 152);
    ("QMI_LOC_INJECT_TIME_ZONE_INFO_REQ_V02", 153);
    ("QMI_LOC_INJECT_TIME_ZONE_INFO_RESP_V02", 153);
    ("QMI_LOC_INJECT_TIME_ZONE_INFO_IND_V02", 153) ].

Definition message_ids_3 : list (string * Z) := [
    ("QMI_LOC_INJECT_APCACHE_DATA_REQ_V02", 154);
    ("QMI_LOC_INJECT_APCACHE_DATA_RESP_V02", 154);
    ("QMI_LOC_INJECT_APCACHE_DATA_IND_V02", 154);
    ("QMI_LOC_INJECT_APDONOTCACHE_DATA_REQ_V02", 155);
    ("QMI_LOC_INJECT_APDONOTCACHE_DATA_RESP_V02", 155);
    ("QMI_LOC_INJECT_APDONOTCACHE_DATA_IND_V02", 155);
    ("QMI_LOC_EVENT_BATCHING_STATUS_IND_V02", 156);
    ("QMI_LOC_QUERY_AON_CONFIG_REQ_V02", 157);
    ("QMI_LOC_QUERY_AON_CONFIG_RESP_V02", 157);
    ("QMI_LOC_QUERY_AON_CONFIG_IND_V02", 157);
    ("QMI_LOC_GTP_AP_STATUS_REQ_V02", 158);
    ("QMI_LOC_GTP_AP_STATUS_RESP_V02", 158);
    ("QMI_LOC_GTP_AP_STATUS_IND_V02", 158);
    ("QMI_LOC_GDT_DOWNLOAD_BEGIN_STATUS_REQ_V02", 159);
    ("QMI_LOC_GDT_DOWNLOAD_BEGIN_STATUS_RESP_V02", 159);
    ("QMI_LOC_GDT_DOWNLOAD_BEGIN_STATUS_IND_V02", 159);
    ("QMI_LOC_GDT_DOWNLOAD_READY_STATUS_REQ_V02", 160);
    ("QMI_LOC_GDT_DOWNLOAD_READY_STATUS_RESP_V02", 160);
    ("QMI_LOC_GDT_DOWNLOAD_READY_STATUS_IND_V02", 160);
    ("QMI_LOC_GDT_RECEIVE_DONE_STATUS_REQ_V02", 161);
    ("QMI_LOC_GDT_RECEIVE_DONE_STATUS_RESP_V02", 161);
    ("QMI_LOC_GDT_RECEIVE_DONE_STATUS_IND_V02", 161);
    ("QMI_LOC_GDT_DOWNLOAD_END_STATUS_REQ_V02", 162);
    ("QMI_LOC_GDT_DOWNLOAD_END_STATUS_RESP_V02", 162);
    ("QMI_LOC_GDT_DOWNLOAD_END_STATUS_IND_V02", 162);
    ("QMI_LOC_EVENT_GDT_DOWNLOAD_BEGIN_REQ_IND_V02", 163);
    ("QMI_LOC_EVENT_GDT_RECEIVE_DONE_IND_V02", 164);
    ("QMI_LOC_EVENT_GDT_DOWNLOAD_END_REQ_IND_V02", 165);
    ("QMI_LOC_DELETE_GNSS_SERVICE_DATA_REQ_V02", 166);
    ("QMI_LOC_DELETE_GNSS_SERVICE_DATA_RESP_V02", 166);
    ("QMI_LOC_DELETE_GNSS_SERVICE_DATA_IND_V02", 166);
    ("QMI_LOC_INJECT_XTRA_DATA_REQ_V02", 167);
    ("QMI_LOC_INJECT_XTRA_DATA_RESP_V02", 167);
    ("QMI_LOC_INJECT_XTRA_DATA_IND_V02", 167);
    ("QMI_LOC_INJECT_XTRA_PCID_REQ_V02", 168);
    ("QMI_LOC_INJECT_XTRA_PCID_RESP_V02", 168);
    ("QMI_LOC_INJECT_XTRA_PCID_IND_V02", 168);
    ("QMI_LOC_GET_SUPPORTED_FEATURE_REQ_V02", 169);
    ("QMI_LOC_GET_SUPPORTED_FEATURE_RESP_V02", 169);
    ("QMI_LOC_GET_SUPPORTED_FEATURE_IND_V02", 169);
    ("QMI_LOC_SET_INTERNAL_STATUS_CONFIG_REQ_V02", 170);
    ("QMI_LOC_SET_INTERNAL_STATUS_CONFIG_RESP_V02", 170);
    ("QMI_LOC_SET_INTERNAL_STATUS_CONFIG_IND_V02", 170);
    ("QMI_LOC_EVENT_INTERNAL_STATUS_REPORT_IND_V02", 171);
    ("QMI_LOC_EVENT_INJECT_SRN_AP_DATA_REQ_IND_V02", 172);
    ("QMI_LOC_INJECT_SRN_AP_DATA_REQ_V02", 173);
    ("QMI_LOC_INJECT_SRN_AP_DATA_RESP_V02", 173);
    ("QMI_LOC_INJECT_SRN_AP_DATA_IND_V02", 173);
    ("QMI_LOC_CROWDSOURCE_MANAGER_CONTROL_REQ_V02", 174);
    ("QMI_LOC_CROWDSOURCE_MANAGER_CONTROL_RESP_V02", 174);
    ("QMI_LOC_CROWDSOURCE_MANAGER_CONTROL_IND_V02", 174);
    ("QMI_LOC_CROWDSOURCE_MANAGER_READ_DATA_REQ_V02", 175);
    ("QMI_LOC_CROWDSOURCE_MANAGER_READ_DATA_RESP_V02", 175);
    ("QMI_LOC_QUERY_XTRA_INFO_REQ_V02", 176);
    ("QMI_LOC_QUERY_XTRA_INFO_RESP_V02", 176);
    ("QMI_LOC_QUERY_XTRA_INFO_IND_V02", 176);
    ("QMI_LOC_START_OUTDOOR_TRIP_BATCHING_REQ_V02", 177);
    ("QMI_LOC_START_OUTDOOR_TRIP_BATCHING_RESP_V02", 177);
    ("QMI_LOC_START_OUTDOOR_TRIP_BATCHING_IND_V02", 177);
    ("QMI_LOC_QUERY_OTB_ACCUMULATED_DISTANCE_REQ_V02", 178);
    ("QMI_LOC_QUERY_OTB_ACCUMULATED_DISTANCE_RESP_V02", 178);
    ("QMI_LOC_QUERY_OTB_ACCUMULATED_DISTANCE_IND_V02", 178);
    ("QMI_LOC_EVENT_FDCL_SERVICE_REQ_IND_V02", 179);
    ("QMI_LOC_GET_FDCL_BS_LIST_REQ_V02", 180);
    ("QMI_LOC_GET_FDCL_BS_LIST_RESP_V02", 180);
    ("QMI_LOC_GET_FDCL_BS_LIST_IND_V02", 180);
    ("QMI_LOC_INJECT_FDCL_DATA_REQ_V02", 181);
    ("QMI_LOC_INJECT_FDCL_DATA_RESP_V02", 181);
    ("QMI_LOC_INJECT_FDCL_DATA_IND_V02", 181);
    ("QMI_LOC_SET_BLACKLIST_SV_REQ_V02", 182);
    ("QMI_LOC_SET_BLACKLIST_SV_RESP_V02", 182);
    ("QMI_LOC_SET_BLACKLIST_SV_IND_V02", 182);
    ("QMI_LOC_GET_BLACKLIST_SV_REQ_V02", 183);
    ("QMI_LOC_GET_BLACKLIST_SV_RESP_V02", 183);
    ("QMI_LOC_GET_BLACKLIST_SV_IND_V02", 183);
    ("QMI_LOC_SET_CONSTELLATION_CONTROL_REQ_V02", 184);
    ("QMI_LOC_SET_CONSTELLATION_CONTROL_RESP_V02", 184);
    ("QMI_LOC_SET_CONSTELLATION_CONTROL_IND_V02", 184);
    ("QMI_LOC_DC_REPORT_IND_V02", 185);
    ("QMI_LOC_REGISTER_MASTER_CLIENT_REQ_V02", 186);
    ("QMI_LOC_REGISTER_MASTER_CLIENT_RESP_V02", 186);
    ("QMI_LOC_REGISTER_MASTER_CLIENT_IND_V02", 186);
    ("QMI_LOC_EVENT_ENGINE_LOCK_STATE_IND_V02", 187);
    ("QMI_LOC_START_LISTEN_POSITION_REQ_V02", 188);
    ("QMI_LOC_START_LISTEN_POSITION_RESP_V02", 188);
    ("QMI_LOC_STOP_LISTEN_POSITION_REQ_V02", 189);
    ("QMI_LOC_STOP_LISTEN_POSITION_RESP_V02", 189);
    ("QMI_LOC_SYSTEM_INFO_REQ_V02", 190);
    ("QMI_LOC_SYSTEM_INFO_RESP_V02", 190);
    ("QMI_LOC_SYSTEM_INFO_IND_V02", 190);
    ("QMI_LOC_GET_CONSTELLATION_CONTROL_REQ_V02", 191);
    ("QMI_LOC_GET_CONSTELLATION_CONTROL_RESP_V02", 191);
    ("QMI_LOC_GET_CONSTELLATION_CONTROL_IND_V02", 191);
    ("QMI_LOC_EVENT_UNPROPAGATED_POSITION_REPORT_IND_V02", 192);
    ("QMI_LOC_ENABLE_POSITION_INJECTION_TEST_MODE_REQ_V02", 193);
    ("QMI_LOC_ENABLE_POSITION_INJECTION_TEST_MODE_RESP_V02", 193);
    ("QMI_LOC_ENABLE_POSITION_INJECTION_TEST_MODE_IND_V02", 193);
    ("QMI_LOC_INJECT_TEST_POSITION_REQ_V02", 194);
    ("QMI_LOC_INJECT_TEST_POSITION_RESP_V02", 194);
    ("QMI_LOC_INJECT_TEST_POSITION_IND_V02", 194);
    ("QMI_LOC_EVENT_BS_OBS_DATA_SERVICE_REQ_IND_V02", 195);
    ("QMI_LOC_GET_BS_OBS_DATA_REQ_V02", 196);
    ("QMI_LOC_GET_BS_OBS_DATA_RESP_V02", 196);
    ("QMI_LOC_GET_BS_OBS_DATA_IND_V02", 196);
    ("QMI_LOC_EVENT_GPS_EPHEMERIS_REPORT_IND_V02", 197);
    ("QMI_LOC_EVENT_GLONASS_EPHEMERIS_REPORT_IND_V02", 198);
    ("QMI_LOC_EVENT_BDS_EPHEMERIS_REPORT_IND_V02", 199);
    ("QMI_LOC_EVENT_GALILEO_EPHEMERIS_REPORT_IND_V02", 200);
    ("QMI_LOC_EVENT_QZSS_EPHEMERIS_REPORT_IND_V02", 201);
    ("QMI_LOC_SET_CONSTRAINED_TUNC_MODE_REQ_V02", 202);
    ("QMI_LOC_SET_CONSTRAINED_TUNC_MODE_RESP_V02", 202);
    ("QMI_LOC_SET_CONSTRAINED_TUNC_MODE_IND_V02", 202);
    ("QMI_LOC_ENABLE_POSITION_ASSISTED_CLOCK_EST_REQ_V02", 203);
    ("QMI_LOC_ENABLE_POSITION_ASSISTED_CLOCK_EST_RESP_V02", 203);
    ("QMI_LOC_ENABLE_POSITION_ASSISTED_CLOCK_EST_IND_V02", 203);
    ("QMI_LOC_QUERY_GNSS_ENERGY_CONSUMED_REQ_V02", 204);
    ("QMI_LOC_QUERY_GNSS_ENERGY_CONSUMED_RESP_V02", 204);
    ("QMI_LOC_QUERY_GNSS_ENERGY_CONSUMED_IND_V02", 204);
    ("QMI_LOC_EVENT_REPORT_IND_V02", 205);
    ("QMI_LOC_GET_BAND_MEASUREMENT_METRICS_IND_V02", 206);
    ("QMI_LOC_LOCATION_REQUEST_NOTIFICATION_IND_V02", 207);
    ("QMI_LOC_INJECT_PLATFORM_POWER_STATE_REQ_V02", 208);
    ("QMI_LOC_INJECT_PLATFORM_POWER_STATE_RESP_V02", 208);
    ("QMI_LOC_INJECT_PLATFORM_POWER_STATE_IND_V02", 208);
    ("QMI_LOC_SET_ROBUST_LOCATION_CONFIG_REQ_V02", 209);
    ("QMI_LOC_SET_ROBUST_LOCATION_CONFIG_RESP_V02", 209);
    ("QMI_LOC_SET_ROBUST_LOCATION_CONFIG_IND_V02", 209);
    ("QMI_LOC_GET_ROBUST_LOCATION_CONFIG_REQ_V02", 210);
    ("QMI_LOC_GET_ROBUST_LOCATION_CONFIG_RESP_V02", 210);
    ("QMI_LOC_GET_ROBUST_LOCATION_CONFIG_IND_V02", 210);
    ("QMI_LOC_INJECT_ENV_AIDING_REQ_V02", 211);
    ("QMI_LOC_INJECT_ENV_AIDING_RESP_V02", 211);
    ("QMI_LOC_INJECT_ENV_AIDING_IND_V02", 211);
    ("QMI_LOC_SET_MIN_GPS_WEEK_NUMBER_REQ_V02", 212);
    ("QMI_LOC_SET_MIN_GPS_WEEK_NUMBER_RESP_V02", 212);
    ("QMI_LOC_SET_MIN_GPS_WEEK_NUMBER_IND_V02", 212);
    ("QMI_LOC_GET_MIN_GPS_WEEK_NUMBER_REQ_V02", 213);
    ("QMI_LOC_GET_MIN_GPS_WEEK_NUMBER_RESP_V02", 213);
    ("QMI_LOC_GET_MIN_GPS_WEEK_NUMBER_IND_V02", 213);
    ("QMI_LOC_EVENT_QUERY_XTRA_INFO_REQ_IND_V02", 214);
    ("QMI_LOC_SET_PARAMETER_REQ_V02", 215);
    ("QMI_LOC_SET_PARAMETER_RESP_V02", 215);
    ("QMI_LOC_SET_PARAMETER_IND_V02", 215);
    ("QMI_LOC_GET_PARAMETER_REQ_V02", 216);
    ("QMI_LOC_GET_PARAMETER_RESP_V02", 216);
    ("QMI_LOC_GET_PARAMETER_IND_V02", 216);
    ("QMI_LOC_SET_STATISTICS_CONFIG_REQ_V02", 217);
    ("QMI_LOC_SET_STATISTICS_CONFIG_RESP_V02", 217);
    ("QMI_LOC_SET_STATISTICS_CONFIG_IND_V02", 217);
    ("QMI_LOC_GET_STATISTICS_CONFIG_REQ_V02", 218) ].

Definition message_ids_4 : list (string * Z) := [
    ("QMI_LOC_GET_STATISTICS_CONFIG_RESP_V02", 218);
    ("QMI_LOC_GET_STATISTICS_CONFIG_IND_V02", 218);
    ("QMI_LOC_GNSS_STATISTICS_REPORT_IND_V02", 219);
    ("QMI_LOC_SET_GNSS_PDR_MODE_REQ_V02", 220);
    ("QMI_LOC_SET_GNSS_PDR_MODE_RESP_V02", 220);
    ("QMI_LOC_SET_GNSS_PDR_MODE_IND_V02", 220);
    ("QMI_LOC_GET_GNSS_PDR_MODE_REQ_V02", 221);
    ("QMI_LOC_GET_GNSS_PDR_MODE_RESP_V02", 221);
    ("QMI_LOC_GET_GNSS_PDR_MODE_IND_V02", 221);
    ("QMI_LOC_GET_MAG_CAL_STATE_PDR_REQ_V02", 222);
    ("QMI_LOC_GET_MAG_CAL_STATE_PDR_RESP_V02", 222);
    ("QMI_LOC_GET_MAG_CAL_STATE_PDR_IND_V02", 222);
    ("QMI_LOC_EVENT_SAP_INS_PARAMETERS_IND_V02", 223);
    ("QMI_LOC_SET_MULTIBAND_CONFIG_REQ_V02", 224);
    ("QMI_LOC_SET_MULTIBAND_CONFIG_RESP_V02", 224);
    ("QMI_LOC_SET_MULTIBAND_CONFIG_IND_V02", 224);
    ("QMI_LOC_GET_MULTIBAND_CONFIG_REQ_V02", 225);
    ("QMI_LOC_GET_MULTIBAND_CONFIG_RESP_V02", 225);
    ("QMI_LOC_GET_MULTIBAND_CONFIG_IND_V02", 225);
    ("QMI_LOC_LATENCY_INFORMATION_IND_V02", 226) ].

(** The message ids. *)
Definition message_ids : list (string * Z) :=
  message_ids_1 ++ message_ids_2 ++ message_ids_3 ++ message_ids_4.

Definition loc_typedefs : list (string * ctype) := [
    ("qmiLocEventRegMaskT_v02", uint64_t);
    ("qmiLocPosTechMaskT_v02", uint32_t);
    ("qmiLocSensorUsageMaskT_v02", uint32_t);
    ("qmiLocSensorAidedMaskT_v02", uint32_t);
    ("qmiLocNavSolutionMaskT_v02", uint64_t);
    ("qmiLocSensorSubTechnologyMaskT_v02", uint32_t);
    ("qmiLocSpoofMaskT_v02", uint64_t);
    ("qmiLocGnssSignalTypeMaskT_v02", uint64_t);
    ("qmiLocGNSSConstellEnumT_v02", uint64_t);
    ("qmiLocSvInfoValidMaskT_v02", uint32_t);
    ("qmiLocSvInfoMaskT_v02", uint8_t);
    ("qmiLocSuplQopValidMaskT_v02", uint8_t);
    ("qmiLocServerAddrTypeMaskT_v02", uint8_t);
    ("qmiLocNiSuplNotifyVerifyValidMaskT_v02", uint32_t);
    ("qmiLocNiUmtsCpNotifyVerifyValidMaskT_v02", uint16_t);
    ("qmiLocNiSuplVer2ExtSupportedNetworksMaskT_v02", uint16_t);
    ("qmiLocNiSuplVer2ExtGnssTypeMaskT_v02", uint16_t);
    ("qmiLocServerParamUpdateMaskT_v02", uint64_t);
    ("qmiLocApnTypeMaskT_v02", uint64_t);
    ("qmiLocGdtDownloadReqMaskT_v02", uint32_t);
    ("qmiLocLockClientMaskT_v02", uint64_t);
    ("qmiLocNmeaSentenceMaskT_v02", uint32_t);
    ("qmiLocDeleteGnssDataMaskT_v02", uint64_t);
    ("qmiLocDeleteCelldbDataMaskT_v02", uint32_t);
    ("qmiLocDeleteClockInfoMaskT_v02", uint32_t);
    ("qmiLocExtDeleteClockInfoMaskT_v02", uint64_t);
    ("qmiLocDeleteSvInfoMaskT_v02", uint8_t);
    ("qmiLocWifiApQualifierMaskT_v02", uint8_t);
    ("qmiLocSensorDataFlagMaskT_v02", uint8_t);
    ("qmiLocLppConfigMaskT_v02", uint32_t);
    ("qmiLocAssistedGlonassProtocolMaskT_v02", uint32_t);
    ("qmiLocLppeUpAuxTechMaskT_v02", uint64_t);
    ("qmiLocLppeCpAuxTechMaskT_v02", uint64_t);
    ("qmiLocProtocolConfigParamMaskT_v02", uint64_t);
    ("qmiLocSensorPropertiesMaskT_v02", uint32_t);
    ("qmiLocVehicleDataUseControlMaskT_v02", uint64_t);
    ("qmiLocSensorAlgorithmMaskT_v02", uint32_t);
    ("qmiLocSensorPerformanceControlConfigFailureMaskT_v02", uint32_t);
    ("qmiLocPositionEngineConfigParamMaskT_v02", uint32_t);
    ("qmiLocGeofenceBreachMaskT_v02", uint8_t);
    ("qmiLocGeofenceDwellTypeMaskT_v02", uint8_t);
    ("qmiLocMotionDetectionSourceMaskT_v02", uint32_t);
    ("qmiLocGeofenceConfigParamMaskT_v02", uint32_t);
    ("qmiLocBatchedReportValidFieldsMaskT_v02", uint64_t);
    ("qmiLocWifiApDataMaskT_v02", uint32_t);
    ("qmiLocAxesMaskT_v02", uint8_t);
    ("qmiLocVehicleOdometryMeasDeviationMaskType_v02", uint32_t);
    ("qmiLocVehicleOdometryWheelFlagsMaskT_v02", uint32_t);
    ("qmiLocInterSystemBiasValidMaskT_v02", uint8_t);
    ("qmiLocSvMeasStatusValidMaskT_v02", uint64_t);
    ("qmiLocSvMeasStatusMaskT_v02", uint64_t);
    ("qmiLocMeasFieldsValidMaskT_v02", uint16_t);
    ("qmiLocSvDgnssMeasStatusMaskT_v02", uint64_t);
    ("qmiLocSvPolyStatusMaskT_v02", uint16_t);
    ("qmiLocSvPolyStatusMaskValidityT_v02", uint16_t);
    ("qmiLocSignalHealthMaskT_v02", uint64_t);
    ("qmiLocAonCapabilityMaskT_v02", uint32_t);
    ("qmiLocDeleteCommonDataMaskT_v02", uint32_t);
    ("qmiLocDeleteSatelliteDataMaskT_v02", uint32_t);
    ("qmiLocGNSSConstellMaskT_v02", uint32_t);
    ("qmiLocFeaturesStatusMaskT_v02", uint64_t);
    ("qmiLocSrnApDataDeviceTypeMaskT_v02", uint32_t);
    ("qmiLocSrnApDataMaskT_v02", uint32_t);
    ("qmiLocCrowdSourcingTechnologyMaskT_v02", uint32_t);
    ("qmiLocCrowdSourcingSourceMaskT_v02", uint32_t);
    ("qmiLocXtraConfigMaskT_v02", uint32_t);
    ("qmiLocXtraInfoMaskT_v02", uint32_t);
    ("qmiLocFdclCellPosValidMaskT_v02", uint32_t);
    ("qmiLocConstellationMaskT_v02", uint64_t);
    ("qmiLocBsObservedDataValidMaskT_v02", uint64_t);
    ("qmiLocEventReportMaskT_v02", uint64_t);
    ("qmiLocResponseLocProtocolMaskT_v02", uint32_t);
    ("qmiLocEnvAidingSvCorrectionValidMaskT_v02", uint64_t) ].

Definition loc_enums : list string := [
    "qmiLocStatusEnumT_v02";
    "qmiLocClientTypeEnumT_v02";
    "qmiLocFixRecurrenceEnumT_v02";
    "qmiLocAccuracyLevelEnumT_v02";
    "qmiLocIntermediateReportStateEnumT_v02";
    "qmiLocConfigIncludeAltitudeAssumedInGnssSvInfoEnumT_v02";
    "qmiLocPowerModeEnumT_v02";
    "qmiLocSpecialReqEnumT_v02";
    "qmiLocSessionStatusEnumT_v02";
    "qmiLocTimeSourceEnumT_v02";
    "qmiLocReliabilityEnumT_v02";
    "qmiLocGnssSignalTypeEnumT_v02";
    "qmiLocDgnssCorrectionSourceTypeEnumT_v02";
    "qmiLocSvSystemEnumT_v02";
    "qmiLocSvStatusEnumT_v02";
    "qmiLocNiNotifyVerifyEnumT_v02";
    "qmiLocNiVxPosModeEnumT_v02";
    "qmiLocNiVxRequestorIdEncodingSchemeEnumT_v02";
    "qmiLocNiSuplPosMethodEnumT_v02";
    "qmiLocNiDataCodingSchemeEnumT_v02";
    "qmiLocNiSuplFormatEnumType_v02";
    "qmiLocNiLocationTypeEnumT_v02";
    "qmiLocNiServiceInteractionEnumT_v02";
    "qmiLocNiSuplVer2ExtTriggerTypeEnumT_v02";
    "qmiLocInjectedOrbitUpdateTypeEnumT_v02";
    "qmiLocEngineStateEnumT_v02";
    "qmiLocFixSessionStateEnumT_v02";
    "qmiLocWifiRequestEnumT_v02";
    "qmiLocWWANTypeEnumT_v02";
    "qmiLocServerRequestEnumT_v02";
    "qmiLocBearerTypeEnumT_v02";
    "qmiLocSysModemAsIdTypeEnumT_v02";
    "qmiLocNiGeofenceOperationEnumT_v02";
    "qmiLocGeofenceGenAlertEnumT_v02";
    "qmiLocGeofenceBreachTypeEnumT_v02";
    "qmiLocGeofenceConfidenceEnumT_v02";
    "qmiLocGeofenceProximityTypeEnumT_v02";
    "qmiLocGeofenceDwellTypeEnumT_v02";
    "qmiLocGdtServiceIdEnumT_v02";
    "qmiLocGdtAccessStatusEnumT_v02";
    "qmiLocGdtEndStatusEnumT_v02";
    "qmiLocGdtReceiveStatusEnumT_v02";
    "qmiLocNiUserRespEnumT_v02";
    "qmiLocPredictedOrbitsDataFormatEnumT_v02";
    "qmiLocCoarseTimeEnumT_v02";
    "qmiLocAltSrcEnumT_v02";
    "qmiLocAltSrcLinkageEnumT_v02";
    "qmiLocAltSrcUncertaintyCoverageEnumT_v02";
    "qmiLocPositionSrcEnumT_v02";
    "qmiLocPositionSrcProviderEnumT_v02";
    "qmiLocLockEnumT_v02";
    "qmiLocLockSubInfoEnumT_v02";
    "qmiLocServerTypeEnumT_v02";
    "qmiLocWifiFixErrorCodeEnumT_v02";
    "qmiLocWifiStatusEnumT_v02";
    "qmiLocOperationModeEnumT_v02";
    "qmiLocSensorDataTimeSourceEnumT_v02";
    "qmiLocCradleMountStateEnumT_v02";
    "qmiLocExternalPowerConfigEnumT_v02";
    "qmiLocBatteryLevelEnumT_v02";
    "qmiLocServerPDNEnumT_v02";
    "qmiLocServerReqStatusEnumT_v02";
    "qmiLocVxVersionEnumT_v02";
    "qmiLocSuplVersionEnumT_v02";
    "qmiLocSuplHashAlgoEnumT_v02";
    "qmiLocSuplTlsVersionEnumT_v02";
    "qmiLocEmergencyProtocolEnumT_v02";
    "qmiLocSensorsControlConfigSensorUseEnumT_v02";
    "qmiLocSensorsControlConfigSensorProviderEnumT_v02";
    "qmiLocSensorPerformanceControlModeEnumT_v02";
    "qmiLocGeofenceResponsivenessEnumT_v02";
    "qmiLocGeofencePositionEnumT_v02";
    "qmiLocGeofenceOriginEnumT_v02";
    "qmiLocGeofenceStateEnumT_v02";
    "qmiLocGeofenceMotionStatesEnumT_v02";
    "qmiLocMotionStateEnumT_v02";
    "qmiLocMotionModeEnumT_v02";
    "qmiLocRoamingStatusEnumT_v02";
    "qmiLocInjectedNetworkInitiatedMessageTypeEnumT_v02";
    "qmiLocBatchingTypeEnumT_v02";
    "qmiLocWifiApDataDeviceTypeEnumT_v02";
    "qmiLocWifiApDataRtdUnitTypeEnumT_v02";
    "qmiLocWlanApErrEnumT_v02";
    "qmiLocWifiAccessPointAttachStatesEnumT_v02";
    "qmiLocWifiEnabledStatusEnumT_v02";
    "qmiLocPremiumServiceEnumT_v02";
    "qmiLocPremiumServiceCfgEnumT_v02";
    "qmiLocXtraVersionCheckEnumT_v02";
    "qmiLocSourceofFreqEnumT_v02";
    "qmiLocMeasurementCodeTypeEnumT_v02";
    "qmiLocGdtEndAckEnumT_v02";
    "qmiLocGtpApStatusEnumT_v02";
    "qmiLocGtpProcessStatusEnumT_v02";
    "qmiLocDbtUsageEnumT_v02";
    "qmiLocDbDistanceTypeEnumT_v02";
    "qmiLocDbtPositionTypeEnumT_v02";
    "qmiLocDbtSessionStatusEnumT_v02";
    "qmiLocPositionSourceEnumT_v02";
    "qmiLocPositionRptPropagationEnumT_v02";
    "qmiLocSecureLocDataModeEnumT_v02";
    "qmiLocSecureGetAvailablePosParameterIDEnumT_v02";
    "qmiLocSecureMessageDataTypeEnumT_v02";
    "qmiLocSecureGetAvailablePositionIndParamIDEnumT_v02";
    "qmiLocApReliabilityEnumT_v02";
    "qmiLocBatchingStatusEnumT_v02";
    "qmiLocXtraDataFormatEnumT_v02";
    "qmiLocSupportedFeatureEnumT_v02";
    "qmiLocSrnApDataMacAddrTypeEnumT_v02";
    "qmiLocSrnApDataTechTypeEnumT_v02";
    "qmiLocSrnApErrEnumT_v02";
    "qmiLocFdclAirInterfaceTypeEnumT_v02";
    "qmiLocCellRecordTypeEnumT_v02";
    "qmiLocInjectFdclDataStatusEnumT_v02";
    "qmiLocDcReportMsgTypeEnumT_v02";
    "qmiLocRegisterMasterClientStatusEnumT_v02";
    "qmiLocEngineLockStateEnumT_v02";
    "qmiLocSystemInfoEnumT_v02";
    "qmiLocConstellationStatusEnumT_v02";
    "qmiLocEnablePositionInjectionTestModeEnumT_v02";
    "qmiLocEphUpdateActionEnumT_v02";
    "qmiLocGalEphSourceSignal_v02";
    "qmiLocRequestProtocolEnumT_v02";
    "qmiLocRequestorEnumT_v02";
    "qmiLocRequestResponseTypeEnumT_v02";
    "qmiLocPlatformPowerStateEnumT_v02";
    "qmiLocParameterTypeEnumT_v02";
    "qmiLocStatsReportingConfigEnumT_v02";
    "qmiLocGnssPdrModeEnumT_v02";
    "qmiLocLatencyInfoTypeEnumT_v02" ].

Definition structs_1 : list (string * list member) := [
  ("qmiLocGenReqMsgT_v02", [
      Member char "__placeholder" None ]);
  ("qmiLocGenRespMsgT_v02", [
      Member (Named "qmi_response_type_v01") "resp" None ]);
  ("qmiLocGenReqStatusIndMsgT_v02", [
      Member (Named "qmiLocStatusEnumT_v02") "status" None ]);
  ("qmiLocInformClientRevisionReqMsgT_v02", [
      Member uint32_t "revision" None ]);
  ("qmiLocRegEventsReqMsgT_v02", [
      Member (Named "qmiLocEventRegMaskT_v02") "eventRegMask" None;
      Member uint8_t "clientStrId_valid" None;
      Member char "clientStrId" (Some (MacroPlus "QMI_LOC_MAX_CLIENT_ID_STRING_LENGTH_V02" 1));
      Member uint8_t "clientType_valid" None;
      Member (Named "qmiLocClientTypeEnumT_v02") "clientType" None;
      Member uint8_t "enablePosRequestNotification_valid" None;
      Member uint8_t "enablePosRequestNotification" None ]);
  ("qmiLocApplicationIdStructT_v02", [
      Member char "applicationProvider" (Some (MacroPlus "QMI_LOC_MAX_APP_ID_PROVIDER_LENGTH_V02" 1));
      Member char "applicationName" (Some (MacroPlus "QMI_LOC_MAX_APP_ID_NAME_LENGTH_V02" 1));
      Member uint8_t "applicationVersion_valid" None;
      Member char "applicationVersion" (Some (MacroPlus "QMI_LOC_MAX_APP_ID_VERSION_LENGTH_V02" 1)) ]);
  ("qmiLocPowerModeStructT_v02", [
      Member (Named "qmiLocPowerModeEnumT_v02") "powerMode" None;
      Member uint32_t "timeBetweenMeasurement" None ]);
  ("qmiLocStartReqMsgT_v02", [
      Member uint8_t "sessionId" None;
      Member uint8_t "fixRecurrence_valid" None;
      Member (Named "qmiLocFixRecurrenceEnumT_v02") "fixRecurrence" None;
      Member uint8_t "horizontalAccuracyLevel_valid" None;
      Member (Named "qmiLocAccuracyLevelEnumT_v02") "horizontalAccuracyLevel" None;
      Member uint8_t "intermediateReportState_valid" None;
      Member (Named "qmiLocIntermediateReportStateEnumT_v02") "intermediateReportState" None;
      Member uint8_t "minInterval_valid" None;
      Member uint32_t "minInterval" None;
      Member uint8_t "applicationId_valid" None;
      Member (Named "qmiLocApplicationIdStructT_v02") "applicationId" None;
      Member uint8_t "configAltitudeAssumed_valid" None;
      Member (Named "qmiLocConfigIncludeAltitudeAssumedInGnssSvInfoEnumT_v02") "configAltitudeAssumed" None;
      Member uint8_t "minIntermediatePositionReportInterval_valid" None;
      Member uint32_t "minIntermediatePositionReportInterval" None;
      Member uint8_t "positionReportTimeout_valid" None;
      Member uint32_t "positionReportTimeout" None;
      Member uint8_t "sharePosition_valid" None;
      Member uint8_t "sharePosition" None;
      Member uint8_t "reportGnssOnlyPosition_valid" None;
      Member uint8_t "reportGnssOnlyPosition" None;
      Member uint8_t "powerMode_valid" None;
      Member (Named "qmiLocPowerModeStructT_v02") "powerMode" None;
      Member uint8_t "specialReqType_valid" None;
      Member (Named "qmiLocSpecialReqEnumT_v02") "specialReqType" None ]);
  ("qmiLocStopReqMsgT_v02", [
      Member uint8_t "sessionId" None ]);
  ("qmiLocGPSTimeStructT_v02", [
      Member uint16_t "gpsWeek" None;
      Member uint32_t "gpsTimeOfWeekMs" None ]) ].

Definition structs_2 : list (string * list member) := [
  ("qmiLocDOPStructT_v02", [
      Member float "PDOP" None;
      Member float "HDOP" None;
      Member float "VDOP" None ]);
  ("qmiLocExtDOPStructT_v02", [
      Member float "PDOP" None;
      Member float "HDOP" None;
      Member float "VDOP" None;
      Member float "GDOP" None;
      Member float "TDOP" None ]);
  ("qmiLocSensorUsageIndicatorStructT_v02", [
      Member (Named "qmiLocSensorUsageMaskT_v02") "usageMask" None;
      Member (Named "qmiLocSensorAidedMaskT_v02") "aidingIndicatorMask" None ]);
  ("qmiLocJammerIndicatorStructT_v02", [
      Member int32_t "agcMetricDb" None;
      Member int32_t "bpMetricDb" None ]) ].

Definition structs_3 : list (string * list member) := [
  ("qmiLocEventPositionReportIndMsgT_v02", [
      Member (Named "qmiLocSessionStatusEnumT_v02") "sessionStatus" None;
      Member uint8_t "sessionId" None;
      Member uint8_t "latitude_valid" None;
      Member double "latitude" None;
      Member uint8_t "longitude_valid" None;
      Member double "longitude" None;
      Member uint8_t "horUncCircular_valid" None;
      Member float "horUncCircular" None;
      Member uint8_t "horUncEllipseSemiMinor_valid" None;
      Member float "horUncEllipseSemiMinor" None;
      Member uint8_t "horUncEllipseSemiMajor_valid" None;
      Member float "horUncEllipseSemiMajor" None;
      Member uint8_t "horUncEllipseOrientAzimuth_valid" None;
      Member float "horUncEllipseOrientAzimuth" None;
      Member uint8_t "horConfidence_valid" None;
      Member uint8_t "horConfidence" None;
      Member uint8_t "horReliability_valid" None;
      Member (Named "qmiLocReliabilityEnumT_v02") "horReliability" None;
      Member uint8_t "speedHorizontal_valid" None;
      Member float "speedHorizontal" None;
      Member uint8_t "speedUnc_valid" None;
      Member float "speedUnc" None;
      Member uint8_t "altitudeWrtEllipsoid_valid" None;
      Member float "altitudeWrtEllipsoid" None;
      Member uint8_t "altitudeWrtMeanSeaLevel_valid" None;
      Member float "altitudeWrtMeanSeaLevel" None;
      Member uint8_t "vertUnc_valid" None;
      Member float "vertUnc" None;
      Member uint8_t "vertConfidence_valid" None;
      Member uint8_t "vertConfidence" None;
      Member uint8_t "vertReliability_valid" None;
      Member (Named "qmiLocReliabilityEnumT_v02") "vertReliability" None;
      Member uint8_t "speedVertical_valid" None;
      Member float "speedVertical" None;
      Member uint8_t "heading_valid" None;
      Member float "heading" None;
      Member uint8_t "headingUnc_valid" None;
      Member float "headingUnc" None;
      Member uint8_t "magneticDeviation_valid" None;
      Member float "magneticDeviation" None;
      Member uint8_t "technologyMask_valid" None;
      Member (Named "qmiLocPosTechMaskT_v02") "technologyMask" None;
      Member uint8_t "DOP_valid" None;
      Member (Named "qmiLocDOPStructT_v02") "DOP" None;
      Member uint8_t "timestampUtc_valid" None;
      Member uint64_t "timestampUtc" None;
      Member uint8_t "leapSeconds_valid" None;
      Member uint8_t "leapSeconds" None;
      Member uint8_t "gpsTime_valid" None;
      Member (Named "qmiLocGPSTimeStructT_v02") "gpsTime" None;
      Member uint8_t "timeUnc_valid" None;
      Member float "timeUnc" None;
      Member uint8_t "timeSrc_valid" None;
      Member (Named "qmiLocTimeSourceEnumT_v02") "timeSrc" None;
      Member uint8_t "sensorDataUsage_valid" None;
      Member (Named "qmiLocSensorUsageIndicatorStructT_v02") "sensorDataUsage" None;
      Member uint8_t "fixId_valid" None;
      Member uint32_t "fixId" None;
      Member uint8_t "gnssSvUsedList_valid" None;
      Member uint32_t "gnssSvUsedList_len" None;
      Member uint16_t "gnssSvUsedList" (Some (Macro "QMI_LOC_MAX_SV_USED_LIST_LENGTH_V02"));
      Member uint8_t "altitudeAssumed_valid" None;
      Member uint8_t "altitudeAssumed" None;
      Member uint8_t "velEnu_valid" None;
      Member float "velEnu" (Some (Macro "QMI_LOC_ENU_ARRAY_LENGTH_V02"));
      Member uint8_t "velUncEnu_valid" None;
      Member float "velUncEnu" (Some (Macro "QMI_LOC_ENU_ARRAY_LENGTH_V02"));
      Member uint8_t "navSolutionMask_valid" None;
      Member (Named "qmiLocNavSolutionMaskT_v02") "navSolutionMask" None;
      Member uint8_t "sensorSubTechnologyMask_valid" None;
      Member (Named "qmiLocSensorSubTechnologyMaskT_v02") "sensorSubTechnologyMask" None;
      Member uint8_t "gnssOnlyPosition_valid" None;
      Member uint8_t "gnssOnlyPosition" None;
      Member uint8_t "extDOP_valid" None;
      Member (Named "qmiLocExtDOPStructT_v02") "extDOP" None;
      Member uint8_t "dgnssStationId_valid" None;
      Member uint32_t "dgnssStationId_len" None;
      Member uint16_t "dgnssStationId" (Some (Macro "QMI_LOC_DGNSS_STATION_ID_ARRAY_LENGTH_V02"));
      Member uint8_t "spoofReportMask_valid" None;
      Member (Named "qmiLocSpoofMaskT_v02") "spoofReportMask" None;
      Member uint8_t "expandedGnssSvUsedList_valid" None;
      Member uint32_t "expandedGnssSvUsedList_len" None;
      Member uint16_t "expandedGnssSvUsedList" (Some (Macro "QMI_LOC_EXPANDED_SV_INFO_LIST_MAX_SIZE_V02"));
      Member uint8_t "gnssSvUsedSignalTypeList_valid" None;
      Member uint32_t "gnssSvUsedSignalTypeList_len" None;
      Member (Named "qmiLocGnssSignalTypeMaskT_v02") "gnssSvUsedSignalTypeList" (Some (Macro "QMI_LOC_EXPANDED_SV_INFO_LIST_MAX_SIZE_V02"));
      Member uint8_t "jammerIndicatorList_valid" None;
      Member uint32_t "jammerIndicatorList_len" None;
      Member (Named "qmiLocJammerIndicatorStructT_v02") "jammerIndicatorList" (Some (Macro "QMI_LOC_MAX_GNSS_SIGNAL_TYPE_V02"));
      Member uint8_t "dgnssCorrectionSource_valid" None;
      Member (Named "qmiLocDgnssCorrectionSourceTypeEnumT_v02") "dgnssCorrectionSource" None;
      Member uint8_t "dgnssCorrectionSourceID_valid" None;
      Member uint32_t "dgnssCorrectionSourceID" None;
      Member uint8_t "dgnssConstellationUsage_valid" None;
      Member (Named "qmiLocGNSSConstellEnumT_v02") "dgnssConstellationUsage" None;
      Member uint8_t "dgnssRefStationId_valid" None;
      Member uint16_t "dgnssRefStationId" None;
      Member uint8_t "dgnssDataAgeMsec_valid" None;
      Member uint32_t "dgnssDataAgeMsec" None;
      Member uint8_t "conformityIndex_valid" None;
      Member float "conformityIndex" None;
      Member uint8_t "systemTick_valid" None;
      Member uint64_t "systemTick" None;
      Member uint8_t "systemTickUnc_valid" None;
      Member float "systemTickUnc" None;
      Member uint8_t "systemClkTimeBias_valid" None;
      Member float "systemClkTimeBias" None;
      Member uint8_t "systemClkTimeBiasUnc_valid" None;
      Member float "systemClkTimeBiasUnc" None ]);
  ("qmiLocSvInfoStructT_v02", [
      Member (Named "qmiLocSvInfoValidMaskT_v02") "validMask" None;
      Member (Named "qmiLocSvSystemEnumT_v02") "system" None;
      Member uint16_t "gnssSvId" None;
      Member uint8_t "healthStatus" None;
      Member (Named "qmiLocSvStatusEnumT_v02") "svStatus" None;
      Member (Named "qmiLocSvInfoMaskT_v02") "svInfoMask" None;
      Member float "elevation" None;
      Member float "azimuth" None;
      Member float "snr" None ]);
  ("qmiLocExpandedSvInfoStructT_v02", [
      Member (Named "qmiLocSvInfoStructT_v02") "svInfo" None;
      Member uint8_t "gloFrequency" None ]) ].

Definition structs_4 : list (string * list member) := [
  ("qmiLocEventGnssSvInfoIndMsgT_v02", [
      Member uint8_t "altitudeAssumed" None;
      Member uint8_t "svList_valid" None;
      Member uint32_t "svList_len" None;
      Member (Named "qmiLocSvInfoStructT_v02") "svList" (Some (Macro "QMI_LOC_SV_INFO_LIST_MAX_SIZE_V02"));
      Member uint8_t "expandedSvList_valid" None;
      Member uint32_t "expandedSvList_len" None;
      Member (Named "qmiLocExpandedSvInfoStructT_v02") "expandedSvList" (Some (Macro "QMI_LOC_EXPANDED_SV_INFO_LIST_MAX_SIZE_V02"));
      Member uint8_t "gnssSignalTypeList_valid" None;
      Member uint32_t "gnssSignalTypeList_len" None;
      Member (Named "qmiLocGnssSignalTypeMaskT_v02") "gnssSignalTypeList" (Some (Macro "QMI_LOC_EXPANDED_SV_INFO_LIST_MAX_SIZE_V02"));
      Member uint8_t "rfLoss_valid" None;
      Member uint32_t "rfLoss_len" None;
      Member float "rfLoss" (Some (Macro "QMI_LOC_EXPANDED_SV_INFO_LIST_MAX_SIZE_V02")) ]);
  ("qmiLocEventNmeaIndMsgT_v02", [
      Member char "nmea" (Some (MacroPlus "QMI_LOC_NMEA_STRING_MAX_LENGTH_V02" 1));
      Member uint8_t "expandedNmea_valid" None;
      Member char "expandedNmea" (Some (MacroPlus "QMI_LOC_EXPANDED_NMEA_STRING_MAX_LENGTH_V02" 1)) ]);
  ("qmiLocNiVxNotifyVerifyStructT_v02", [
      Member uint8_t "posQosIncl" None;
      Member uint8_t "posQos" None;
      Member uint32_t "numFixes" None;
      Member uint32_t "timeBetweenFixes" None;
      Member (Named "qmiLocNiVxPosModeEnumT_v02") "posMode" None;
      Member (Named "qmiLocNiVxRequestorIdEncodingSchemeEnumT_v02") "encodingScheme" None;
      Member uint32_t "requestorId_len" None;
      Member uint8_t "requestorId" (Some (Macro "QMI_LOC_NI_MAX_REQUESTOR_ID_LENGTH_V02"));
      Member uint16_t "userRespTimerInSeconds" None ]);
  ("qmiLocNiSuplFormattedStringStructT_v02", [
      Member (Named "qmiLocNiSuplFormatEnumType_v02") "formatType" None;
      Member uint32_t "formattedString_len" None;
      Member uint8_t "formattedString" (Some (Macro "QMI_LOC_NI_MAX_CLIENT_NAME_LENGTH_V02")) ]);
  ("qmiLocNiSuplQopStructT_v02", [
      Member (Named "qmiLocSuplQopValidMaskT_v02") "validMask" None;
      Member uint8_t "horizontalAccuracy" None;
      Member uint8_t "verticalAccuracy" None;
      Member uint16_t "maxLocAge" None;
      Member uint8_t "delay" None ]);
  ("qmiLocIpV4AddrStructType_v02", [
      Member uint32_t "addr" None;
      Member uint16_t "port" None ]);
  ("qmiLocIpV6AddrStructType_v02", [
      Member uint16_t "addr" (Some (Macro "QMI_LOC_IPV6_ADDR_LENGTH_V02"));
      Member uint32_t "port" None ]);
  ("qmiLocNiSuplServerInfoStructT_v02", [
      Member (Named "qmiLocServerAddrTypeMaskT_v02") "suplServerAddrTypeMask" None;
      Member (Named "qmiLocIpV4AddrStructType_v02") "ipv4Addr" None;
      Member (Named "qmiLocIpV6AddrStructType_v02") "ipv6Addr" None;
      Member char "urlAddr" (Some (MacroPlus "QMI_LOC_MAX_SERVER_ADDR_LENGTH_V02" 1)) ]);
  ("qmiLocNiSuplNotifyVerifyStructT_v02", [
      Member (Named "qmiLocNiSuplNotifyVerifyValidMaskT_v02") "valid_flags" None;
      Member (Named "qmiLocNiSuplServerInfoStructT_v02") "suplServerInfo" None;
      Member uint8_t "suplSessionId" (Some (Macro "QMI_LOC_NI_SUPL_SLP_SESSION_ID_BYTE_LENGTH_V02"));
      Member uint8_t "suplHash" (Some (Macro "QMI_LOC_NI_SUPL_HASH_LENGTH_V02"));
      Member (Named "qmiLocNiSuplPosMethodEnumT_v02") "posMethod" None;
      Member (Named "qmiLocNiDataCodingSchemeEnumT_v02") "dataCodingScheme" None;
      Member (Named "qmiLocNiSuplFormattedStringStructT_v02") "requestorId" None;
      Member (Named "qmiLocNiSuplFormattedStringStructT_v02") "clientName" None;
      Member (Named "qmiLocNiSuplQopStructT_v02") "suplQop" None;
      Member uint16_t "userResponseTimer" None ]);
  ("qmiLocNiUmtsCpCodedStringStructT_v02", [
      Member (Named "qmiLocNiDataCodingSchemeEnumT_v02") "dataCodingScheme" None;
      Member uint32_t "codedString_len" None;
      Member uint8_t "codedString" (Some (Macro "QMI_LOC_NI_CODEWORD_MAX_LENGTH_V02")) ]) ].

Definition structs_5 : list (string * list member) := [
  ("qmiLocNiUmtsCpNotifyVerifyStructT_v02", [
      Member (Named "qmiLocNiUmtsCpNotifyVerifyValidMaskT_v02") "valid_flags" None;
      Member uint8_t "invokeId" None;
      Member (Named "qmiLocNiDataCodingSchemeEnumT_v02") "dataCodingScheme" None;
      Member uint32_t "notificationText_len" None;
      Member uint8_t "notificationText" (Some (Macro "QMI_LOC_NI_MAX_CLIENT_NAME_LENGTH_V02"));
      Member uint32_t "clientAddress_len" None;
      Member uint8_t "clientAddress" (Some (Macro "QMI_LOC_NI_MAX_EXT_CLIENT_ADDRESS_V02"));
      Member (Named "qmiLocNiLocationTypeEnumT_v02") "locationType" None;
      Member (Named "qmiLocNiUmtsCpCodedStringStructT_v02") "requestorId" None;
      Member (Named "qmiLocNiUmtsCpCodedStringStructT_v02") "codewordString" None;
      Member uint8_t "lcsServiceTypeId" None;
      Member uint16_t "userResponseTimer" None ]);
  ("qmiLocNiVxServiceInteractionStructT_v02", [
      Member (Named "qmiLocNiVxNotifyVerifyStructT_v02") "niVxReq" None;
      Member (Named "qmiLocNiServiceInteractionEnumT_v02") "serviceInteractionType" None ]);
  ("qmiLocNiSuplVer2ExtStructT_v02", [
      Member (Named "qmiLocNiSuplVer2ExtSupportedNetworksMaskT_v02") "supportedNetworksMask" None;
      Member (Named "qmiLocNiSuplVer2ExtTriggerTypeEnumT_v02") "triggerType" None;
      Member (Named "qmiLocNiSuplVer2ExtGnssTypeMaskT_v02") "gnssType" None ]);
  ("qmiLocEmergencyNotificationStructT_v02", [
      Member char "eslpUrl" (Some (MacroPlus "QMI_LOC_MAX_SERVER_ADDR_LENGTH_V02" 1)) ]);
  ("qmiLocEventNiNotifyVerifyReqIndMsgT_v02", [
      Member (Named "qmiLocNiNotifyVerifyEnumT_v02") "notificationType" None;
      Member uint8_t "NiVxInd_valid" None;
      Member (Named "qmiLocNiVxNotifyVerifyStructT_v02") "NiVxInd" None;
      Member uint8_t "NiSuplInd_valid" None;
      Member (Named "qmiLocNiSuplNotifyVerifyStructT_v02") "NiSuplInd" None;
      Member uint8_t "NiUmtsCpInd_valid" None;
      Member (Named "qmiLocNiUmtsCpNotifyVerifyStructT_v02") "NiUmtsCpInd" None;
      Member uint8_t "NiVxServiceInteractionInd_valid" None;
      Member (Named "qmiLocNiVxServiceInteractionStructT_v02") "NiVxServiceInteractionInd" None;
      Member uint8_t "NiSuplVer2ExtInd_valid" None;
      Member (Named "qmiLocNiSuplVer2ExtStructT_v02") "NiSuplVer2ExtInd" None;
      Member uint8_t "suplEmergencyNotification_valid" None;
      Member (Named "qmiLocEmergencyNotificationStructT_v02") "suplEmergencyNotification" None;
      Member uint8_t "isInEmergencySession_valid" None;
      Member uint8_t "isInEmergencySession" None ]);
  ("qmiLocAssistanceServerUrlStructT_v02", [
      Member char "serverUrl" (Some (MacroPlus "QMI_LOC_MAX_SERVER_ADDR_LENGTH_V02" 1)) ]);
  ("qmiLocTimeServerListStructT_v02", [
      Member uint32_t "delayThreshold" None;
      Member uint32_t "timeServerList_len" None;
      Member (Named "qmiLocAssistanceServerUrlStructT_v02") "timeServerList" (Some (Macro "QMI_LOC_MAX_NTP_SERVERS_V02")) ]);
  ("qmiLocEventInjectTimeReqIndMsgT_v02", [
      Member uint8_t "timeServerInfo_valid" None;
      Member (Named "qmiLocTimeServerListStructT_v02") "timeServerInfo" None ]);
  ("qmiLocPredictedOrbitsAllowedSizesStructT_v02", [
      Member uint32_t "maxFileSizeInBytes" None;
      Member uint32_t "maxPartSize" None ]);
  ("qmiLocPredictedOrbitsServerListStructT_v02", [
      Member uint32_t "serverList_len" None;
      Member (Named "qmiLocAssistanceServerUrlStructT_v02") "serverList" (Some (Macro "QMI_LOC_MAX_PREDICTED_ORBITS_SERVERS_V02")) ]);
  ("qmiLocEventInjectPredictedOrbitsReqIndMsgT_v02", [
      Member (Named "qmiLocPredictedOrbitsAllowedSizesStructT_v02") "allowedSizes" None;
      Member uint8_t "serverList_valid" None;
      Member (Named "qmiLocPredictedOrbitsServerListStructT_v02") "serverList" None;
      Member uint8_t "serverUpdateMask_valid" None;
      Member (Named "qmiLocServerParamUpdateMaskT_v02") "serverUpdateMask" None;
      Member uint8_t "updateType_valid" None;
      Member (Named "qmiLocInjectedOrbitUpdateTypeEnumT_v02") "updateType" None;
      Member uint8_t "updateRate_valid" None;
      Member uint32_t "updateRate" None ]);
  ("qmiLocEventInjectPositionReqIndMsgT_v02", [
      Member double "latitude" None;
      Member double "longitude" None;
      Member float "horUncCircular" None;
      Member uint64_t "timestampUtc" None ]);
  ("qmiLocEventEngineStateIndMsgT_v02", [
      Member (Named "qmiLocEngineStateEnumT_v02") "engineState" None ]);
  ("qmiLocEventFixSessionStateIndMsgT_v02", [
      Member (Named "qmiLocFixSessionStateEnumT_v02") "sessionState" None;
      Member uint8_t "sessionId_valid" None;
      Member uint8_t "sessionId" None ]);
  ("qmiLocEventWifiReqIndMsgT_v02", [
      Member (Named "qmiLocWifiRequestEnumT_v02") "requestType" None;
      Member uint8_t "tbfInMs_valid" None;
      Member uint16_t "tbfInMs" None;
      Member uint8_t "e911Mode_valid" None;
      Member uint8_t "e911Mode" None ]);
  ("qmiLocSensorControlConfigSamplingSpecStructT_v02", [
      Member uint16_t "samplesPerBatch" None;
      Member uint16_t "batchesPerSecond" None ]);
  ("qmiLocSensorReadyStatusStructT_v02", [
      Member uint8_t "injectEnable" None;
      Member (Named "qmiLocSensorControlConfigSamplingSpecStructT_v02") "dataFrequency" None ]) ].

Definition structs_6 : list (string * list member) := [
  ("qmiLocEventSensorStreamingReadyStatusIndMsgT_v02", [
      Member uint8_t "accelReady_valid" None;
      Member (Named "qmiLocSensorReadyStatusStructT_v02") "accelReady" None;
      Member uint8_t "gyroReady_valid" None;
      Member (Named "qmiLocSensorReadyStatusStructT_v02") "gyroReady" None;
      Member uint8_t "accelTemperatureReady_valid" None;
      Member (Named "qmiLocSensorReadyStatusStructT_v02") "accelTemperatureReady" None;
      Member uint8_t "gyroTemperatureReady_valid" None;
      Member (Named "qmiLocSensorReadyStatusStructT_v02") "gyroTemperatureReady" None;
      Member uint8_t "calibratedMagReady_valid" None;
      Member (Named "qmiLocSensorReadyStatusStructT_v02") "calibratedMagReady" None;
      Member uint8_t "uncalibratedMagReady_valid" None;
      Member (Named "qmiLocSensorReadyStatusStructT_v02") "uncalibratedMagReady" None ]);
  ("qmiLocEventTimeSyncReqIndMsgT_v02", [
      Member uint32_t "refCounter" None ]);
  ("qmiLocEventSetSpiStreamingReportIndMsgT_v02", [
      Member uint8_t "enable" None ]);
  ("qmiLocEventLocationServerConnectionReqIndMsgT_v02", [
      Member uint32_t "connHandle" None;
      Member (Named "qmiLocServerRequestEnumT_v02") "requestType" None;
      Member (Named "qmiLocWWANTypeEnumT_v02") "wwanType" None;
      Member uint8_t "bearerType_valid" None;
      Member (Named "qmiLocBearerTypeEnumT_v02") "bearerType" None;
      Member uint8_t "apnTypeMask_valid" None;
      Member (Named "qmiLocApnTypeMaskT_v02") "apnTypeMask" None;
      Member uint8_t "subId_valid" None;
      Member (Named "qmiLocSysModemAsIdTypeEnumT_v02") "subId" None ]);
  ("qmiLocEventNiGeofenceNotificationIndMsgT_v02", [
      Member uint32_t "geofenceId" None;
      Member (Named "qmiLocNiGeofenceOperationEnumT_v02") "operationType" None ]);
  ("qmiLocEventGeofenceGenAlertIndMsgT_v02", [
      Member (Named "qmiLocGeofenceGenAlertEnumT_v02") "geofenceAlert" None ]);
  ("qmiLocGeofencePositionStructT_v02", [
      Member uint64_t "timestampUtc" None;
      Member double "latitude" None;
      Member double "longitude" None;
      Member float "horUncEllipseSemiMinor" None;
      Member float "horUncEllipseSemiMajor" None;
      Member float "horUncEllipseOrientAzimuth" None;
      Member uint8_t "speedHorizontal_valid" None;
      Member float "speedHorizontal" None;
      Member uint8_t "altitudeWrtEllipsoid_valid" None;
      Member float "altitudeWrtEllipsoid" None;
      Member uint8_t "vertUnc_valid" None;
      Member float "vertUnc" None;
      Member uint8_t "speedVertical_valid" None;
      Member float "speedVertical" None;
      Member uint8_t "heading_valid" None;
      Member float "heading" None ]);
  ("qmiLocEventGeofenceBreachIndMsgT_v02", [
      Member uint32_t "geofenceId" None;
      Member (Named "qmiLocGeofenceBreachTypeEnumT_v02") "breachType" None;
      Member uint8_t "geofencePosition_valid" None;
      Member (Named "qmiLocGeofencePositionStructT_v02") "geofencePosition" None;
      Member uint8_t "breachConfidence_valid" None;
      Member (Named "qmiLocGeofenceConfidenceEnumT_v02") "breachConfidence" None ]);
  ("qmiLocEventPedometerControlIndMsgT_v02", [
      Member uint8_t "requestPedometerData" None;
      Member uint8_t "resetStepCount_valid" None;
      Member uint8_t "resetStepCount" None;
      Member uint8_t "stepCountThreshold_valid" None;
      Member uint32_t "stepCountThreshold" None ]);
  ("qmiLocEventMotionDataControlIndMsgT_v02", [
      Member uint8_t "requestMotionData" None ]);
  ("qmiLocGeofenceIdContinuousStructT_v02", [
      Member uint32_t "idLow" None;
      Member uint32_t "idHigh" None ]) ].

Definition structs_7 : list (string * list member) := [
  ("qmiLocEventGeofenceBatchedBreachIndMsgT_v02", [
      Member (Named "qmiLocGeofenceBreachTypeEnumT_v02") "breachType" None;
      Member uint8_t "geofenceIdContinuousList_valid" None;
      Member uint32_t "geofenceIdContinuousList_len" None;
      Member (Named "qmiLocGeofenceIdContinuousStructT_v02") "geofenceIdContinuousList" (Some (Macro "QMI_LOC_MAX_GEOFENCE_ID_CONTINUOUS_LIST_LENGTH_V02"));
      Member uint8_t "geofenceIdDiscreteList_valid" None;
      Member uint32_t "geofenceIdDiscreteList_len" None;
      Member uint32_t "geofenceIdDiscreteList" (Some (Macro "QMI_LOC_MAX_GEOFENCE_ID_DISCRETE_LIST_LENGTH_V02"));
      Member uint8_t "geofencePosition_valid" None;
      Member (Named "qmiLocGeofencePositionStructT_v02") "geofencePosition" None;
      Member uint8_t "breachConfidence_valid" None;
      Member (Named "qmiLocGeofenceConfidenceEnumT_v02") "breachConfidence" None;
      Member uint8_t "headingUnc_valid" None;
      Member float "headingUnc" None;
      Member uint8_t "vertUnc_valid" None;
      Member float "vertUnc" None;
      Member uint8_t "speedUnc_valid" None;
      Member float "speedUnc" None;
      Member uint8_t "horConfidence_valid" None;
      Member uint8_t "horConfidence" None;
      Member uint8_t "vertConfidence_valid" None;
      Member uint8_t "vertConfidence" None;
      Member uint8_t "DOP_valid" None;
      Member (Named "qmiLocDOPStructT_v02") "DOP" None;
      Member uint8_t "gnssSvUsedList_valid" None;
      Member uint32_t "gnssSvUsedList_len" None;
      Member uint16_t "gnssSvUsedList" (Some (Macro "QMI_LOC_MAX_SV_USED_LIST_LENGTH_V02"));
      Member uint8_t "extDOP_valid" None;
      Member (Named "qmiLocExtDOPStructT_v02") "extDOP" None;
      Member uint8_t "expandedGnssSvUsedList_valid" None;
      Member uint32_t "expandedGnssSvUsedList_len" None;
      Member uint16_t "expandedGnssSvUsedList" (Some (Macro "QMI_LOC_EXPANDED_SV_INFO_LIST_MAX_SIZE_V02"));
      Member uint8_t "gnssSvUsedSignalTypeList_valid" None;
      Member uint32_t "gnssSvUsedSignalTypeList_len" None;
      Member (Named "qmiLocGnssSignalTypeMaskT_v02") "gnssSvUsedSignalTypeList" (Some (Macro "QMI_LOC_EXPANDED_SV_INFO_LIST_MAX_SIZE_V02")) ]);
  ("qmiLocEventGeofenceProximityIndMsgT_v02", [
      Member (Named "qmiLocGeofenceProximityTypeEnumT_v02") "proximityType" None;
      Member uint32_t "geofenceId" None;
      Member uint8_t "contextId_valid" None;
      Member uint32_t "contextId" None ]);
  ("qmiLocEventGeofenceBatchedDwellIndMsgT_v02", [
      Member (Named "qmiLocGeofenceDwellTypeEnumT_v02") "dwellType" None;
      Member uint8_t "geofenceIdContinuousList_valid" None;
      Member uint32_t "geofenceIdContinuousList_len" None;
      Member (Named "qmiLocGeofenceIdContinuousStructT_v02") "geofenceIdContinuousList" (Some (Macro "QMI_LOC_MAX_GEOFENCE_ID_CONTINUOUS_LIST_LENGTH_V02"));
      Member uint8_t "geofenceIdDiscreteList_valid" None;
      Member uint32_t "geofenceIdDiscreteList_len" None;
      Member uint32_t "geofenceIdDiscreteList" (Some (Macro "QMI_LOC_MAX_GEOFENCE_ID_DISCRETE_LIST_LENGTH_V02"));
      Member uint8_t "geofencePosition_valid" None;
      Member (Named "qmiLocGeofencePositionStructT_v02") "geofencePosition" None;
      Member uint8_t "headingUnc_valid" None;
      Member float "headingUnc" None;
      Member uint8_t "vertUnc_valid" None;
      Member float "vertUnc" None;
      Member uint8_t "speedUnc_valid" None;
      Member float "speedUnc" None;
      Member uint8_t "horConfidence_valid" None;
      Member uint8_t "horConfidence" None;
      Member uint8_t "vertConfidence_valid" None;
      Member uint8_t "vertConfidence" None;
      Member uint8_t "DOP_valid" None;
      Member (Named "qmiLocDOPStructT_v02") "DOP" None;
      Member uint8_t "gnssSvUsedList_valid" None;
      Member uint32_t "gnssSvUsedList_len" None;
      Member uint16_t "gnssSvUsedList" (Some (Macro "QMI_LOC_MAX_SV_USED_LIST_LENGTH_V02"));
      Member uint8_t "extDOP_valid" None;
      Member (Named "qmiLocExtDOPStructT_v02") "extDOP" None;
      Member uint8_t "expandedGnssSvUsedList_valid" None;
      Member uint32_t "expandedGnssSvUsedList_len" None;
      Member uint16_t "expandedGnssSvUsedList" (Some (Macro "QMI_LOC_EXPANDED_SV_INFO_LIST_MAX_SIZE_V02"));
      Member uint8_t "gnssSvUsedSignalTypeList_valid" None;
      Member uint32_t "gnssSvUsedSignalTypeList_len" None;
      Member (Named "qmiLocGnssSignalTypeMaskT_v02") "gnssSvUsedSignalTypeList" (Some (Macro "QMI_LOC_EXPANDED_SV_INFO_LIST_MAX_SIZE_V02")) ]);
  ("qmiLocEventGdtUploadBeginStatusReqIndMsgT_v02", [
      Member (Named "qmiLocGdtServiceIdEnumT_v02") "serviceId" None;
      Member uint32_t "sessionId" None;
      Member uint32_t "filePath_len" None;
      Member char "filePath" (Some (Macro "QMI_LOC_MAX_GDT_PATH_LEN_V02")) ]);
  ("qmiLocEventGdtUploadEndReqIndMsgT_v02", [
      Member (Named "qmiLocGdtServiceIdEnumT_v02") "serviceId" None;
      Member uint32_t "sessionId" None;
      Member (Named "qmiLocGdtEndStatusEnumT_v02") "endStatus" None ]);
  ("qmiLocEventGdtDownloadBeginReqIndMsgT_v02", [
      Member (Named "qmiLocGdtServiceIdEnumT_v02") "serviceId" None;
      Member uint32_t "sessionId" None;
      Member uint32_t "respTimeoutInterval" None;
      Member uint32_t "clientInfo_len" None;
      Member uint8_t "clientInfo" (Some (Macro "QMI_LOC_MAX_GTP_CL_INFO_LEN_V02"));
      Member uint32_t "mobileStatusData_len" None;
      Member uint8_t "mobileStatusData" (Some (Macro "QMI_LOC_MAX_GTP_MSD_LEN_V02"));
      Member uint32_t "filePath_len" None;
      Member char "filePath" (Some (Macro "QMI_LOC_MAX_GDT_PATH_LEN_V02"));
      Member uint8_t "powerBudgetInfo_valid" None;
      Member uint32_t "powerBudgetInfo" None;
      Member uint8_t "powerBudgetAllowance_valid" None;
      Member uint32_t "powerBudgetAllowance" None;
      Member uint8_t "downloadRequestMask_valid" None;
      Member (Named "qmiLocGdtDownloadReqMaskT_v02") "downloadRequestMask" None ]);
  ("qmiLocEventGdtReceiveDoneIndMsgT_v02", [
      Member (Named "qmiLocGdtServiceIdEnumT_v02") "serviceId" None;
      Member uint32_t "sessionId" None;
      Member (Named "qmiLocGdtReceiveStatusEnumT_v02") "status" None ]);
  ("qmiLocEventGdtDownloadEndReqIndMsgT_v02", [
      Member (Named "qmiLocGdtServiceIdEnumT_v02") "serviceId" None;
      Member uint32_t "sessionId" None;
      Member (Named "qmiLocStatusEnumT_v02") "status" None ]);
  ("qmiLocGetServiceRevisionReqMsgT_v02", [
      Member char "__placeholder" None ]) ].

Definition structs_8 : list (string * list member) := [
  ("qmiLocGetServiceRevisionIndMsgT_v02", [
      Member (Named "qmiLocStatusEnumT_v02") "status" None;
      Member uint32_t "revision" None;
      Member uint8_t "gnssMeFWVerString_valid" None;
      Member char "gnssMeFWVerString" (Some (MacroPlus "QMI_LOC_GNSS_ME_VERSION_STRING_MAX_LENGTH_V02" 1));
      Member uint8_t "gnssHostSWVerString_valid" None;
      Member char "gnssHostSWVerString" (Some (MacroPlus "QMI_LOC_GNSS_HOSTED_SW_VERSION_STRING_MAX_LENGTH_V02" 1));
      Member uint8_t "gnssSWVerString_valid" None;
      Member char "gnssSWVerString" (Some (MacroPlus "QMI_LOC_GNSS_SW_VERSION_STRING_MAX_LENGTH_V02" 1)) ]);
  ("qmiLocGetFixCriteriaReqMsgT_v02", [
      Member char "__placeholder" None ]);
  ("qmiLocGetFixCriteriaIndMsgT_v02", [
      Member (Named "qmiLocStatusEnumT_v02") "status" None;
      Member uint8_t "horizontalAccuracyLevel_valid" None;
      Member (Named "qmiLocAccuracyLevelEnumT_v02") "horizontalAccuracyLevel" None;
      Member uint8_t "intermediateReportState_valid" None;
      Member (Named "qmiLocIntermediateReportStateEnumT_v02") "intermediateReportState" None;
      Member uint8_t "minInterval_valid" None;
      Member uint32_t "minInterval" None;
      Member uint8_t "applicationId_valid" None;
      Member (Named "qmiLocApplicationIdStructT_v02") "applicationId" None;
      Member uint8_t "configAltitudeAssumed_valid" None;
      Member (Named "qmiLocConfigIncludeAltitudeAssumedInGnssSvInfoEnumT_v02") "configAltitudeAssumed" None;
      Member uint8_t "minIntermediatePositionReportInterval_valid" None;
      Member uint32_t "minIntermediatePositionReportInterval" None;
      Member uint8_t "positionReportTimeout_valid" None;
      Member uint32_t "positionReportTimeout" None;
      Member uint8_t "sharePosition_valid" None;
      Member uint8_t "sharePosition" None;
      Member uint8_t "powerMode_valid" None;
      Member (Named "qmiLocPowerModeStructT_v02") "powerMode" None ]);
  ("qmiLocNiUserRespReqMsgT_v02", [
      Member (Named "qmiLocNiUserRespEnumT_v02") "userResp" None;
      Member (Named "qmiLocNiNotifyVerifyEnumT_v02") "notificationType" None;
      Member uint8_t "NiVxPayload_valid" None;
      Member (Named "qmiLocNiVxNotifyVerifyStructT_v02") "NiVxPayload" None;
      Member uint8_t "NiSuplPayload_valid" None;
      Member (Named "qmiLocNiSuplNotifyVerifyStructT_v02") "NiSuplPayload" None;
      Member uint8_t "NiUmtsCpPayload_valid" None;
      Member (Named "qmiLocNiUmtsCpNotifyVerifyStructT_v02") "NiUmtsCpPayload" None;
      Member uint8_t "NiVxServiceInteractionPayload_valid" None;
      Member (Named "qmiLocNiVxServiceInteractionStructT_v02") "NiVxServiceInteractionPayload" None;
      Member uint8_t "NiSuplVer2ExtPayload_valid" None;
      Member (Named "qmiLocNiSuplVer2ExtStructT_v02") "NiSuplVer2ExtPayload" None;
      Member uint8_t "suplEmergencyNotification_valid" None;
      Member (Named "qmiLocEmergencyNotificationStructT_v02") "suplEmergencyNotification" None ]);
  ("qmiLocNiUserRespIndMsgT_v02", [
      Member (Named "qmiLocStatusEnumT_v02") "status" None ]);
  ("qmiLocInjectPredictedOrbitsDataReqMsgT_v02", [
      Member uint32_t "totalSize" None;
      Member uint16_t "totalParts" None;
      Member uint16_t "partNum" None;
      Member uint32_t "partData_len" None;
      Member char "partData" (Some (Macro "QMI_LOC_MAX_PREDICTED_ORBITS_PART_LEN_V02"));
      Member uint8_t "formatType_valid" None;
      Member (Named "qmiLocPredictedOrbitsDataFormatEnumT_v02") "formatType" None ]);
  ("qmiLocInjectPredictedOrbitsDataIndMsgT_v02", [
      Member (Named "qmiLocStatusEnumT_v02") "status" None;
      Member uint8_t "partNum_valid" None;
      Member uint16_t "partNum" None ]);
  ("qmiLocGetPredictedOrbitsDataSourceReqMsgT_v02", [
      Member char "__placeholder" None ]);
  ("qmiLocGetPredictedOrbitsDataSourceIndMsgT_v02", [
      Member (Named "qmiLocStatusEnumT_v02") "status" None;
      Member uint8_t "allowedSizes_valid" None;
      Member (Named "qmiLocPredictedOrbitsAllowedSizesStructT_v02") "allowedSizes" None;
      Member uint8_t "serverList_valid" None;
      Member (Named "qmiLocPredictedOrbitsServerListStructT_v02") "serverList" None ]);
  ("qmiLocGetPredictedOrbitsDataValidityReqMsgT_v02", [
      Member char "__placeholder" None ]);
  ("qmiLocPredictedOrbitsDataValidityStructT_v02", [
      Member uint64_t "startTimeInUTC" None;
      Member uint16_t "durationHours" None ]);
  ("qmiLocGetPredictedOrbitsDataValidityIndMsgT_v02", [
      Member (Named "qmiLocStatusEnumT_v02") "status" None;
      Member uint8_t "validityInfo_valid" None;
      Member (Named "qmiLocPredictedOrbitsDataValidityStructT_v02") "validityInfo" None ]);
  ("qmiLocInjectUtcTimeReqMsgT_v02", [
      Member uint64_t "timeUtc" None;
      Member uint32_t "timeUnc" None;
      Member uint8_t "timeSrc_valid" None;
      Member (Named "qmiLocCoarseTimeEnumT_v02") "timeSrc" None ]);
  ("qmiLocInjectUtcTimeIndMsgT_v02", [
      Member (Named "qmiLocStatusEnumT_v02") "status" None ]) ].

Definition structs_9 : list (string * list member) := [
  ("qmiLocAltitudeSrcInfoStructT_v02", [
      Member (Named "qmiLocAltSrcEnumT_v02") "source" None;
      Member (Named "qmiLocAltSrcLinkageEnumT_v02") "linkage" None;
      Member (Named "qmiLocAltSrcUncertaintyCoverageEnumT_v02") "coverage" None ]);
  ("qmiLocInjectPositionReqMsgT_v02", [
      Member uint8_t "latitude_valid" None;
      Member double "latitude" None;
      Member uint8_t "longitude_valid" None;
      Member double "longitude" None;
      Member uint8_t "horUncCircular_valid" None;
      Member float "horUncCircular" None;
      Member uint8_t "horConfidence_valid" None;
      Member uint8_t "horConfidence" None;
      Member uint8_t "horReliability_valid" None;
      Member (Named "qmiLocReliabilityEnumT_v02") "horReliability" None;
      Member uint8_t "altitudeWrtEllipsoid_valid" None;
      Member float "altitudeWrtEllipsoid" None;
      Member uint8_t "altitudeWrtMeanSeaLevel_valid" None;
      Member float "altitudeWrtMeanSeaLevel" None;
      Member uint8_t "vertUnc_valid" None;
      Member float "vertUnc" None;
      Member uint8_t "vertConfidence_valid" None;
      Member uint8_t "vertConfidence" None;
      Member uint8_t "vertReliability_valid" None;
      Member (Named "qmiLocReliabilityEnumT_v02") "vertReliability" None;
      Member uint8_t "altSourceInfo_valid" None;
      Member (Named "qmiLocAltitudeSrcInfoStructT_v02") "altSourceInfo" None;
      Member uint8_t "timestampUtc_valid" None;
      Member uint64_t "timestampUtc" None;
      Member uint8_t "timestampAge_valid" None;
      Member int32_t "timestampAge" None;
      Member uint8_t "positionSrc_valid" None;
      Member (Named "qmiLocPositionSrcEnumT_v02") "positionSrc" None;
      Member uint8_t "rawHorUncCircular_valid" None;
      Member float "rawHorUncCircular" None;
      Member uint8_t "rawHorConfidence_valid" None;
      Member uint8_t "rawHorConfidence" None;
      Member uint8_t "onDemandCpi_valid" None;
      Member uint8_t "onDemandCpi" None;
      Member uint8_t "positionSrcProvider_valid" None;
      Member (Named "qmiLocPositionSrcProviderEnumT_v02") "positionSrcProvider" None;
      Member uint8_t "gpsTime_valid" None;
      Member (Named "qmiLocGPSTimeStructT_v02") "gpsTime" None;
      Member uint8_t "timeUnc_valid" None;
      Member float "timeUnc" None;
      Member uint8_t "velEnu_valid" None;
      Member float "velEnu" (Some (Macro "QMI_LOC_ENU_ARRAY_LENGTH_V02"));
      Member uint8_t "velUncEnu_valid" None;
      Member float "velUncEnu" (Some (Macro "QMI_LOC_ENU_ARRAY_LENGTH_V02"));
      Member uint8_t "expandedGnssSvUsedList_valid" None;
      Member uint32_t "expandedGnssSvUsedList_len" None;
      Member uint16_t "expandedGnssSvUsedList" (Some (Macro "QMI_LOC_EXPANDED_SV_INFO_LIST_MAX_SIZE_V02"));
      Member uint8_t "numSvInFix_valid" None;
      Member uint8_t "numSvInFix" None ]);
  ("qmiLocInjectPositionIndMsgT_v02", [
      Member (Named "qmiLocStatusEnumT_v02") "status" None ]);
  ("qmiLocSetEngineLockReqMsgT_v02", [
      Member (Named "qmiLocLockEnumT_v02") "lockType" None;
      Member uint8_t "subType_valid" None;
      Member (Named "qmiLocLockSubInfoEnumT_v02") "subType" None;
      Member uint8_t "lockClient_valid" None;
      Member (Named "qmiLocLockClientMaskT_v02") "lockClient" None ]);
  ("qmiLocSetEngineLockIndMsgT_v02", [
      Member (Named "qmiLocStatusEnumT_v02") "status" None ]);
  ("qmiLocGetEngineLockReqMsgT_v02", [
      Member uint8_t "subType_valid" None;
      Member (Named "qmiLocLockSubInfoEnumT_v02") "subType" None ]);
  ("qmiLocGetEngineLockIndMsgT_v02", [
      Member (Named "qmiLocStatusEnumT_v02") "status" None;
      Member uint8_t "lockType_valid" None;
      Member (Named "qmiLocLockEnumT_v02") "lockType" None;
      Member uint8_t "subType_valid" None;
      Member (Named "qmiLocLockSubInfoEnumT_v02") "subType" None;
      Member uint8_t "lockClient_valid" None;
      Member (Named "qmiLocLockClientMaskT_v02") "lockClient" None ]);
  ("qmiLocSetSbasConfigReqMsgT_v02", [
      Member uint8_t "sbasConfig" None;
      Member uint8_t "qzssL1sConfig_valid" None;
      Member uint8_t "qzssL1sConfig" None ]);
  ("qmiLocSetSbasConfigIndMsgT_v02", [
      Member (Named "qmiLocStatusEnumT_v02") "status" None ]);
  ("qmiLocGetSbasConfigReqMsgT_v02", [
      Member char "__placeholder" None ]);
  ("qmiLocGetSbasConfigIndMsgT_v02", [
      Member (Named "qmiLocStatusEnumT_v02") "status" None;
      Member uint8_t "sbasConfig_valid" None;
      Member uint8_t "sbasConfig" None ]) ].

Definition structs_10 : list (string * list member) := [
  ("qmiLocSetNmeaTypesReqMsgT_v02", [
      Member (Named "qmiLocNmeaSentenceMaskT_v02") "nmeaSentenceType" None ]);
  ("qmiLocSetNmeaTypesIndMsgT_v02", [
      Member (Named "qmiLocStatusEnumT_v02") "status" None ]);
  ("qmiLocGetNmeaTypesReqMsgT_v02", [
      Member char "__placeholder" None ]);
  ("qmiLocGetNmeaTypesIndMsgT_v02", [
      Member (Named "qmiLocStatusEnumT_v02") "status" None;
      Member uint8_t "nmeaSentenceType_valid" None;
      Member (Named "qmiLocNmeaSentenceMaskT_v02") "nmeaSentenceType" None ]);
  ("qmiLocSetLowPowerModeReqMsgT_v02", [
      Member uint8_t "lowPowerMode" None ]);
  ("qmiLocSetLowPowerModeIndMsgT_v02", [
      Member (Named "qmiLocStatusEnumT_v02") "status" None ]);
  ("qmiLocGetLowPowerModeReqMsgT_v02", [
      Member char "__placeholder" None ]);
  ("qmiLocGetLowPowerModeIndMsgT_v02", [
      Member (Named "qmiLocStatusEnumT_v02") "status" None;
      Member uint8_t "lowPowerMode_valid" None;
      Member uint8_t "lowPowerMode" None ]);
  ("qmiLocSetServerReqMsgT_v02", [
      Member (Named "qmiLocServerTypeEnumT_v02") "serverType" None;
      Member uint8_t "ipv4Addr_valid" None;
      Member (Named "qmiLocIpV4AddrStructType_v02") "ipv4Addr" None;
      Member uint8_t "ipv6Addr_valid" None;
      Member (Named "qmiLocIpV6AddrStructType_v02") "ipv6Addr" None;
      Member uint8_t "urlAddr_valid" None;
      Member char "urlAddr" (Some (MacroPlus "QMI_LOC_MAX_SERVER_ADDR_LENGTH_V02" 1)) ]);
  ("qmiLocSetServerIndMsgT_v02", [
      Member (Named "qmiLocStatusEnumT_v02") "status" None ]);
  ("qmiLocGetServerReqMsgT_v02", [
      Member (Named "qmiLocServerTypeEnumT_v02") "serverType" None;
      Member uint8_t "serverAddrTypeMask_valid" None;
      Member (Named "qmiLocServerAddrTypeMaskT_v02") "serverAddrTypeMask" None ]);
  ("qmiLocGetServerIndMsgT_v02", [
      Member (Named "qmiLocStatusEnumT_v02") "status" None;
      Member (Named "qmiLocServerTypeEnumT_v02") "serverType" None;
      Member uint8_t "ipv4Addr_valid" None;
      Member (Named "qmiLocIpV4AddrStructType_v02") "ipv4Addr" None;
      Member uint8_t "ipv6Addr_valid" None;
      Member (Named "qmiLocIpV6AddrStructType_v02") "ipv6Addr" None;
      Member uint8_t "urlAddr_valid" None;
      Member char "urlAddr" (Some (MacroPlus "QMI_LOC_MAX_SERVER_ADDR_LENGTH_V02" 1)) ]);
  ("qmiLocDeleteSvInfoStructT_v02", [
      Member uint16_t "gnssSvId" None;
      Member (Named "qmiLocSvSystemEnumT_v02") "system" None;
      Member (Named "qmiLocDeleteSvInfoMaskT_v02") "deleteSvInfoMask" None ]);
  ("qmiLocDeleteBDSSvInfoStructT_v02", [
      Member uint16_t "gnssSvId" None;
      Member (Named "qmiLocDeleteSvInfoMaskT_v02") "deleteSvInfoMask" None ]);
  ("qmiLocDeleteGALSvInfoStructT_v02", [
      Member uint16_t "gnssSvId" None;
      Member (Named "qmiLocDeleteSvInfoMaskT_v02") "deleteSvInfoMask" None ]) ].

Definition structs_11 : list (string * list member) := [
  ("qmiLocDeleteAssistDataReqMsgT_v02", [
      Member uint8_t "deleteAllFlag" None;
      Member uint8_t "deleteSvInfoList_valid" None;
      Member uint32_t "deleteSvInfoList_len" None;
      Member (Named "qmiLocDeleteSvInfoStructT_v02") "deleteSvInfoList" (Some (Macro "QMI_LOC_DELETE_MAX_SV_INFO_LENGTH_V02"));
      Member uint8_t "deleteGnssDataMask_valid" None;
      Member (Named "qmiLocDeleteGnssDataMaskT_v02") "deleteGnssDataMask" None;
      Member uint8_t "deleteCellDbDataMask_valid" None;
      Member (Named "qmiLocDeleteCelldbDataMaskT_v02") "deleteCellDbDataMask" None;
      Member uint8_t "deleteClockInfoMask_valid" None;
      Member (Named "qmiLocDeleteClockInfoMaskT_v02") "deleteClockInfoMask" None;
      Member uint8_t "deleteBdsSvInfoList_valid" None;
      Member uint32_t "deleteBdsSvInfoList_len" None;
      Member (Named "qmiLocDeleteBDSSvInfoStructT_v02") "deleteBdsSvInfoList" (Some (Macro "QMI_LOC_DELETE_MAX_BDS_SV_INFO_LENGTH_V02"));
      Member uint8_t "deleteGalSvInfoList_valid" None;
      Member uint32_t "deleteGalSvInfoList_len" None;
      Member (Named "qmiLocDeleteGALSvInfoStructT_v02") "deleteGalSvInfoList" (Some (Macro "QMI_LOC_DELETE_MAX_GAL_SV_INFO_LENGTH_V02"));
      Member uint8_t "deleteQzssL1sDataFlag_valid" None;
      Member uint8_t "deleteQzssL1sDataFlag" None ]);
  ("qmiLocDeleteAssistDataIndMsgT_v02", [
      Member (Named "qmiLocStatusEnumT_v02") "status" None ]);
  ("qmiLocSetXtraTSessionControlReqMsgT_v02", [
      Member uint8_t "xtraTSessionControl" None ]);
  ("qmiLocSetXtraTSessionControlIndMsgT_v02", [
      Member (Named "qmiLocStatusEnumT_v02") "status" None ]);
  ("qmiLocGetXtraTSessionControlReqMsgT_v02", [
      Member char "__placeholder" None ]);
  ("qmiLocGetXtraTSessionControlIndMsgT_v02", [
      Member (Named "qmiLocStatusEnumT_v02") "status" None;
      Member uint8_t "xtraTSessionControl_valid" None;
      Member uint8_t "xtraTSessionControl" None ]);
  ("qmiLocWifiFixTimeStructT_v02", [
      Member uint32_t "wifiPositionTime" None ]);
  ("qmiLocWifiFixPosStructT_v02", [
      Member double "lat" None;
      Member double "lon" None;
      Member uint16_t "hepe" None;
      Member uint8_t "numApsUsed" None;
      Member (Named "qmiLocWifiFixErrorCodeEnumT_v02") "fixErrorCode" None ]);
  ("qmiLocWifiApInfoStructT_v02", [
      Member uint8_t "macAddr" (Some (Macro "QMI_LOC_WIFI_MAC_ADDR_LENGTH_V02"));
      Member int32_t "rssi" None;
      Member uint16_t "channel" None;
      Member (Named "qmiLocWifiApQualifierMaskT_v02") "apQualifier" None ]);
  ("qmiLocWifiApSsidStructT_v02", [
      Member char "ssid" (Some (MacroPlus "QMI_LOC_MAX_WIFI_AP_SSID_STR_LENGTH_V02" 1)) ]);
  ("qmiLocInjectWifiPositionReqMsgT_v02", [
      Member uint8_t "wifiFixTime_valid" None;
      Member (Named "qmiLocWifiFixTimeStructT_v02") "wifiFixTime" None;
      Member uint8_t "wifiFixPosition_valid" None;
      Member (Named "qmiLocWifiFixPosStructT_v02") "wifiFixPosition" None;
      Member uint8_t "apInfo_valid" None;
      Member uint32_t "apInfo_len" None;
      Member (Named "qmiLocWifiApInfoStructT_v02") "apInfo" (Some (Macro "QMI_LOC_WIFI_MAX_REPORTED_APS_PER_MSG_V02"));
      Member uint8_t "horizontalReliability_valid" None;
      Member (Named "qmiLocReliabilityEnumT_v02") "horizontalReliability" None;
      Member uint8_t "rawHepe_valid" None;
      Member uint16_t "rawHepe" None;
      Member uint8_t "wifiApSsidInfo_valid" None;
      Member uint32_t "wifiApSsidInfo_len" None;
      Member (Named "qmiLocWifiApSsidStructT_v02") "wifiApSsidInfo" (Some (Macro "QMI_LOC_WIFI_MAX_REPORTED_APS_PER_MSG_V02")) ]);
  ("qmiLocInjectWifiPositionIndMsgT_v02", [
      Member (Named "qmiLocStatusEnumT_v02") "status" None ]);
  ("qmiLocNotifyWifiStatusReqMsgT_v02", [
      Member (Named "qmiLocWifiStatusEnumT_v02") "wifiStatus" None ]);
  ("qmiLocNotifyWifiStatusIndMsgT_v02", [
      Member (Named "qmiLocStatusEnumT_v02") "status" None ]);
  ("qmiLocGetRegisteredEventsReqMsgT_v02", [
      Member char "__placeholder" None ]);
  ("qmiLocGetRegisteredEventsIndMsgT_v02", [
      Member (Named "qmiLocStatusEnumT_v02") "status" None;
      Member uint8_t "eventRegMask_valid" None;
      Member (Named "qmiLocEventRegMaskT_v02") "eventRegMask" None ]) ].

Definition structs_12 : list (string * list member) := [
  ("qmiLocSetOperationModeReqMsgT_v02", [
      Member (Named "qmiLocOperationModeEnumT_v02") "operationMode" None;
      Member uint8_t "minInterval_valid" None;
      Member uint32_t "minInterval" None ]);
  ("qmiLocSetOperationModeIndMsgT_v02", [
      Member (Named "qmiLocStatusEnumT_v02") "status" None ]);
  ("qmiLocGetOperationModeReqMsgT_v02", [
      Member char "__placeholder" None ]);
  ("qmiLocGetOperationModeIndMsgT_v02", [
      Member (Named "qmiLocStatusEnumT_v02") "status" None;
      Member uint8_t "operationMode_valid" None;
      Member (Named "qmiLocOperationModeEnumT_v02") "operationMode" None ]);
  ("qmiLocSetSpiStatusReqMsgT_v02", [
      Member uint8_t "stationary" None;
      Member uint8_t "confidenceStationary_valid" None;
      Member uint8_t "confidenceStationary" None ]);
  ("qmiLocSetSpiStatusIndMsgT_v02", [
      Member (Named "qmiLocStatusEnumT_v02") "status" None ]);
  ("qmiLoc3AxisSensorSampleStructT_v02", [
      Member uint16_t "timeOffset" None;
      Member float "xAxis" None;
      Member float "yAxis" None;
      Member float "zAxis" None ]);
  ("qmiLoc3AxisSensorSampleListStructT_v02", [
      Member uint32_t "timeOfFirstSample" None;
      Member (Named "qmiLocSensorDataFlagMaskT_v02") "flags" None;
      Member uint32_t "sensorData_len" None;
      Member (Named "qmiLoc3AxisSensorSampleStructT_v02") "sensorData" (Some (Macro "QMI_LOC_SENSOR_DATA_MAX_SAMPLES_V02")) ]);
  ("qmiLocSensorTemperatureSampleStructT_v02", [
      Member uint16_t "timeOffset" None;
      Member float "temperature" None ]);
  ("qmiLocSensorTemperatureSampleListStructT_v02", [
      Member (Named "qmiLocSensorDataTimeSourceEnumT_v02") "timeSource" None;
      Member uint32_t "timeOfFirstSample" None;
      Member uint32_t "temperatureData_len" None;
      Member (Named "qmiLocSensorTemperatureSampleStructT_v02") "temperatureData" (Some (Macro "QMI_LOC_SENSOR_DATA_MAX_SAMPLES_V02")) ]);
  ("qmiLocInjectSensorDataReqMsgT_v02", [
      Member uint8_t "opaqueIdentifier_valid" None;
      Member uint32_t "opaqueIdentifier" None;
      Member uint8_t "threeAxisAccelData_valid" None;
      Member (Named "qmiLoc3AxisSensorSampleListStructT_v02") "threeAxisAccelData" None;
      Member uint8_t "threeAxisGyroData_valid" None;
      Member (Named "qmiLoc3AxisSensorSampleListStructT_v02") "threeAxisGyroData" None;
      Member uint8_t "threeAxisAccelDataTimeSource_valid" None;
      Member (Named "qmiLocSensorDataTimeSourceEnumT_v02") "threeAxisAccelDataTimeSource" None;
      Member uint8_t "threeAxisGyroDataTimeSource_valid" None;
      Member (Named "qmiLocSensorDataTimeSourceEnumT_v02") "threeAxisGyroDataTimeSource" None;
      Member uint8_t "accelTemperatureData_valid" None;
      Member (Named "qmiLocSensorTemperatureSampleListStructT_v02") "accelTemperatureData" None;
      Member uint8_t "gyroTemperatureData_valid" None;
      Member (Named "qmiLocSensorTemperatureSampleListStructT_v02") "gyroTemperatureData" None;
      Member uint8_t "threeAxisMagData_valid" None;
      Member (Named "qmiLoc3AxisSensorSampleListStructT_v02") "threeAxisMagData" None;
      Member uint8_t "threeAxisMagDataTimeSource_valid" None;
      Member (Named "qmiLocSensorDataTimeSourceEnumT_v02") "threeAxisMagDataTimeSource" None ]);
  ("qmiLocInjectSensorDataIndMsgT_v02", [
      Member (Named "qmiLocStatusEnumT_v02") "status" None;
      Member uint8_t "opaqueIdentifier_valid" None;
      Member uint32_t "opaqueIdentifier" None;
      Member uint8_t "threeAxisAccelSamplesAccepted_valid" None;
      Member uint8_t "threeAxisAccelSamplesAccepted" None;
      Member uint8_t "threeAxisGyroSamplesAccepted_valid" None;
      Member uint8_t "threeAxisGyroSamplesAccepted" None;
      Member uint8_t "accelTemperatureSamplesAccepted_valid" None;
      Member uint8_t "accelTemperatureSamplesAccepted" None;
      Member uint8_t "gyroTemperatureSamplesAccepted_valid" None;
      Member uint8_t "gyroTemperatureSamplesAccepted" None;
      Member uint8_t "threeAxisMagSamplesAccepted_valid" None;
      Member uint8_t "threeAxisMagSamplesAccepted" None ]);
  ("qmiLocInjectTimeSyncDataReqMsgT_v02", [
      Member uint32_t "refCounter" None;
      Member uint32_t "sensorProcRxTime" None;
      Member uint32_t "sensorProcTxTime" None ]);
  ("qmiLocInjectTimeSyncDataIndMsgT_v02", [
      Member (Named "qmiLocStatusEnumT_v02") "status" None ]);
  ("qmiLocGetCradleMountConfigReqMsgT_v02", [
      Member char "__placeholder" None ]);
  ("qmiLocGetCradleMountConfigIndMsgT_v02", [
      Member (Named "qmiLocStatusEnumT_v02") "status" None;
      Member uint8_t "cradleMountState_valid" None;
      Member (Named "qmiLocCradleMountStateEnumT_v02") "cradleMountState" None;
      Member uint8_t "confidenceCradleMountState_valid" None;
      Member uint8_t "confidenceCradleMountState" None ]);
  ("qmiLocSetCradleMountConfigReqMsgT_v02", [
      Member (Named "qmiLocCradleMountStateEnumT_v02") "cradleMountState" None;
      Member uint8_t "confidenceCradleMountState_valid" None;
      Member uint8_t "confidenceCradleMountState" None ]);
  ("qmiLocSetCradleMountConfigIndMsgT_v02", [
      Member (Named "qmiLocStatusEnumT_v02") "status" None ]) ].

Definition structs_13 : list (string * list member) := [
  ("qmiLocGetExternalPowerConfigReqMsgT_v02", [
      Member char "__placeholder" None ]);
  ("qmiLocGetExternalPowerConfigIndMsgT_v02", [
      Member (Named "qmiLocStatusEnumT_v02") "status" None;
      Member uint8_t "externalPowerState_valid" None;
      Member (Named "qmiLocExternalPowerConfigEnumT_v02") "externalPowerState" None ]);
  ("qmiLocSetExternalPowerConfigReqMsgT_v02", [
      Member (Named "qmiLocExternalPowerConfigEnumT_v02") "externalPowerState" None;
      Member uint8_t "batteryLevel_valid" None;
      Member (Named "qmiLocBatteryLevelEnumT_v02") "batteryLevel" None ]);
  ("qmiLocSetExternalPowerConfigIndMsgT_v02", [
      Member (Named "qmiLocStatusEnumT_v02") "status" None ]);
  ("qmiLocApnProfilesStructT_v02", [
      Member (Named "qmiLocServerPDNEnumT_v02") "pdnType" None;
      Member char "apnName" (Some (MacroPlus "QMI_LOC_MAX_APN_NAME_LENGTH_V02" 1)) ]);
  ("qmiLocInformLocationServerConnStatusReqMsgT_v02", [
      Member uint32_t "connHandle" None;
      Member (Named "qmiLocServerRequestEnumT_v02") "requestType" None;
      Member (Named "qmiLocServerReqStatusEnumT_v02") "statusType" None;
      Member uint8_t "apnProfile_valid" None;
      Member (Named "qmiLocApnProfilesStructT_v02") "apnProfile" None;
      Member uint8_t "apnTypeMask_valid" None;
      Member (Named "qmiLocApnTypeMaskT_v02") "apnTypeMask" None ]);
  ("qmiLocInformLocationServerConnStatusIndMsgT_v02", [
      Member (Named "qmiLocStatusEnumT_v02") "status" None ]);
  ("qmiLocSetProtocolConfigParametersReqMsgT_v02", [
      Member uint8_t "suplSecurity_valid" None;
      Member uint8_t "suplSecurity" None;
      Member uint8_t "vxVersion_valid" None;
      Member (Named "qmiLocVxVersionEnumT_v02") "vxVersion" None;
      Member uint8_t "suplVersion_valid" None;
      Member (Named "qmiLocSuplVersionEnumT_v02") "suplVersion" None;
      Member uint8_t "lppConfig_valid" None;
      Member (Named "qmiLocLppConfigMaskT_v02") "lppConfig" None;
      Member uint8_t "assistedGlonassProtocolMask_valid" None;
      Member (Named "qmiLocAssistedGlonassProtocolMaskT_v02") "assistedGlonassProtocolMask" None;
      Member uint8_t "suplHashAlgo_valid" None;
      Member (Named "qmiLocSuplHashAlgoEnumT_v02") "suplHashAlgo" None;
      Member uint8_t "suplTlsVersion_valid" None;
      Member (Named "qmiLocSuplTlsVersionEnumT_v02") "suplTlsVersion" None;
      Member uint8_t "emergencyProtocol_valid" None;
      Member (Named "qmiLocEmergencyProtocolEnumT_v02") "emergencyProtocol" None;
      Member uint8_t "wifiScanInjectTimeout_valid" None;
      Member uint8_t "wifiScanInjectTimeout" None;
      Member uint8_t "lppeUpConfig_valid" None;
      Member (Named "qmiLocLppeUpAuxTechMaskT_v02") "lppeUpConfig" None;
      Member uint8_t "lppeCpConfig_valid" None;
      Member (Named "qmiLocLppeCpAuxTechMaskT_v02") "lppeCpConfig" None;
      Member uint8_t "emergencyCallbackWindow_valid" None;
      Member uint32_t "emergencyCallbackWindow" None ]);
  ("qmiLocSetProtocolConfigParametersIndMsgT_v02", [
      Member (Named "qmiLocStatusEnumT_v02") "status" None;
      Member uint8_t "failedProtocolConfigParamMask_valid" None;
      Member (Named "qmiLocProtocolConfigParamMaskT_v02") "failedProtocolConfigParamMask" None ]);
  ("qmiLocGetProtocolConfigParametersReqMsgT_v02", [
      Member (Named "qmiLocProtocolConfigParamMaskT_v02") "getProtocolConfigParamMask" None ]) ].

Definition structs_14 : list (string * list member) := [
  ("qmiLocGetProtocolConfigParametersIndMsgT_v02", [
      Member (Named "qmiLocStatusEnumT_v02") "status" None;
      Member uint8_t "suplSecurity_valid" None;
      Member uint8_t "suplSecurity" None;
      Member uint8_t "vxVersion_valid" None;
      Member (Named "qmiLocVxVersionEnumT_v02") "vxVersion" None;
      Member uint8_t "suplVersion_valid" None;
      Member (Named "qmiLocSuplVersionEnumT_v02") "suplVersion" None;
      Member uint8_t "lppConfig_valid" None;
      Member (Named "qmiLocLppConfigMaskT_v02") "lppConfig" None;
      Member uint8_t "assistedGlonassProtocolMask_valid" None;
      Member (Named "qmiLocAssistedGlonassProtocolMaskT_v02") "assistedGlonassProtocolMask" None;
      Member uint8_t "suplHashAlgo_valid" None;
      Member (Named "qmiLocSuplHashAlgoEnumT_v02") "suplHashAlgo" None;
      Member uint8_t "suplTlsVersion_valid" None;
      Member (Named "qmiLocSuplTlsVersionEnumT_v02") "suplTlsVersion" None;
      Member uint8_t "emergencyProtocol_valid" None;
      Member (Named "qmiLocEmergencyProtocolEnumT_v02") "emergencyProtocol" None;
      Member uint8_t "wifiScanInjectTimeout_valid" None;
      Member uint8_t "wifiScanInjectTimeout" None;
      Member uint8_t "lppeUpConfig_valid" None;
      Member (Named "qmiLocLppeUpAuxTechMaskT_v02") "lppeUpConfig" None;
      Member uint8_t "lppeCpConfig_valid" None;
      Member (Named "qmiLocLppeCpAuxTechMaskT_v02") "lppeCpConfig" None;
      Member uint8_t "emergencyCallbackWindow_valid" None;
      Member uint32_t "emergencyCallbackWindow" None ]);
  ("qmiLocSetSensorControlConfigReqMsgT_v02", [
      Member uint8_t "sensorsUsage_valid" None;
      Member (Named "qmiLocSensorsControlConfigSensorUseEnumT_v02") "sensorsUsage" None;
      Member uint8_t "sensorProvider_valid" None;
      Member (Named "qmiLocSensorsControlConfigSensorProviderEnumT_v02") "sensorProvider" None ]);
  ("qmiLocSetSensorControlConfigIndMsgT_v02", [
      Member (Named "qmiLocStatusEnumT_v02") "status" None ]);
  ("qmiLocGetSensorControlConfigReqMsgT_v02", [
      Member char "__placeholder" None ]);
  ("qmiLocGetSensorControlConfigIndMsgT_v02", [
      Member (Named "qmiLocStatusEnumT_v02") "status" None;
      Member uint8_t "sensorsUsage_valid" None;
      Member (Named "qmiLocSensorsControlConfigSensorUseEnumT_v02") "sensorsUsage" None;
      Member uint8_t "sensorProvider_valid" None;
      Member (Named "qmiLocSensorsControlConfigSensorProviderEnumT_v02") "sensorProvider" None ]);
  ("qmiLocSetSensorPropertiesReqMsgT_v02", [
      Member uint8_t "gyroBiasVarianceRandomWalk_valid" None;
      Member float "gyroBiasVarianceRandomWalk" None;
      Member uint8_t "velocityRandomWalkSpectralDensity_valid" None;
      Member float "velocityRandomWalkSpectralDensity" None;
      Member uint8_t "accelerationRandomWalkSpectralDensity_valid" None;
      Member float "accelerationRandomWalkSpectralDensity" None;
      Member uint8_t "angleRandomWalkSpectralDensity_valid" None;
      Member float "angleRandomWalkSpectralDensity" None;
      Member uint8_t "rateRandomWalkSpectralDensity_valid" None;
      Member float "rateRandomWalkSpectralDensity" None;
      Member uint8_t "vehicleDataUse_valid" None;
      Member (Named "qmiLocVehicleDataUseControlMaskT_v02") "vehicleDataUse" None;
      Member uint8_t "vehicleVelocityRandomWalkSpectralDensity_valid" None;
      Member float "vehicleVelocityRandomWalkSpectralDensity" None;
      Member uint8_t "vehicleAccelRandomWalkSpectralDensity_valid" None;
      Member float "vehicleAccelRandomWalkSpectralDensity" None;
      Member uint8_t "vehicleAngleRandomWalkSpectralDensity_valid" None;
      Member float "vehicleAngleRandomWalkSpectralDensity" None;
      Member uint8_t "vehicleAngularRateRandomWalkSpectralDensity_valid" None;
      Member float "vehicleAngularRateRandomWalkSpectralDensity" None;
      Member uint8_t "vehicleOdometryScaleFactorRandomWalkSpectralDensity_valid" None;
      Member float "vehicleOdometryScaleFactorRandomWalkSpectralDensity" None;
      Member uint8_t "vehicleOdometryVariance_valid" None;
      Member float "vehicleOdometryVariance" None ]);
  ("qmiLocSetSensorPropertiesIndMsgT_v02", [
      Member (Named "qmiLocStatusEnumT_v02") "status" None;
      Member uint8_t "failedSensorPropertiesMask_valid" None;
      Member (Named "qmiLocSensorPropertiesMaskT_v02") "failedSensorPropertiesMask" None ]);
  ("qmiLocGetSensorPropertiesReqMsgT_v02", [
      Member (Named "qmiLocSensorPropertiesMaskT_v02") "getSensorPropertiesMask" None ]) ].

Definition structs_15 : list (string * list member) := [
  ("qmiLocGetSensorPropertiesIndMsgT_v02", [
      Member (Named "qmiLocStatusEnumT_v02") "status" None;
      Member uint8_t "gyroBiasVarianceRandomWalk_valid" None;
      Member float "gyroBiasVarianceRandomWalk" None;
      Member uint8_t "velocityRandomWalkSpectralDensity_valid" None;
      Member float "velocityRandomWalkSpectralDensity" None;
      Member uint8_t "accelerationRandomWalkSpectralDensity_valid" None;
      Member float "accelerationRandomWalkSpectralDensity" None;
      Member uint8_t "angleRandomWalkSpectralDensity_valid" None;
      Member float "angleRandomWalkSpectralDensity" None;
      Member uint8_t "rateRandomWalkSpectralDensity_valid" None;
      Member float "rateRandomWalkSpectralDensity" None;
      Member uint8_t "vehicleDataUse_valid" None;
      Member (Named "qmiLocVehicleDataUseControlMaskT_v02") "vehicleDataUse" None;
      Member uint8_t "vehicleVelocityRandomWalkSpectralDensity_valid" None;
      Member float "vehicleVelocityRandomWalkSpectralDensity" None;
      Member uint8_t "vehicleAccelRandomWalkSpectralDensity_valid" None;
      Member float "vehicleAccelRandomWalkSpectralDensity" None;
      Member uint8_t "vehicleAngleRandomWalkSpectralDensity_valid" None;
      Member float "vehicleAngleRandomWalkSpectralDensity" None;
      Member uint8_t "vehicleAngularRateRandomWalkSpectralDensity_valid" None;
      Member float "vehicleAngularRateRandomWalkSpectralDensity" None;
      Member uint8_t "vehicleOdometryScaleFactorRandomWalkSpectralDensity_valid" None;
      Member float "vehicleOdometryScaleFactorRandomWalkSpectralDensity" None;
      Member uint8_t "vehicleOdometryVariance_valid" None;
      Member float "vehicleOdometryVariance" None ]);
  ("qmiLocSetSensorPerformanceControlConfigReqMsgT_v02", [
      Member uint8_t "performanceControlMode_valid" None;
      Member (Named "qmiLocSensorPerformanceControlModeEnumT_v02") "performanceControlMode" None;
      Member uint8_t "accelSamplingSpec_valid" None;
      Member (Named "qmiLocSensorControlConfigSamplingSpecStructT_v02") "accelSamplingSpec" None;
      Member uint8_t "gyroSamplingSpec_valid" None;
      Member (Named "qmiLocSensorControlConfigSamplingSpecStructT_v02") "gyroSamplingSpec" None;
      Member uint8_t "algorithmConfig_valid" None;
      Member (Named "qmiLocSensorAlgorithmMaskT_v02") "algorithmConfig" None;
      Member uint8_t "accelSamplingSpecHigh_valid" None;
      Member (Named "qmiLocSensorControlConfigSamplingSpecStructT_v02") "accelSamplingSpecHigh" None;
      Member uint8_t "gyroSamplingSpecHigh_valid" None;
      Member (Named "qmiLocSensorControlConfigSamplingSpecStructT_v02") "gyroSamplingSpecHigh" None ]);
  ("qmiLocSetSensorPerformanceControlConfigIndMsgT_v02", [
      Member (Named "qmiLocStatusEnumT_v02") "status" None;
      Member uint8_t "failedConfiguration_valid" None;
      Member (Named "qmiLocSensorPerformanceControlConfigFailureMaskT_v02") "failedConfiguration" None ]);
  ("qmiLocGetSensorPerformanceControlConfigReqMsgT_v02", [
      Member char "__placeholder" None ]);
  ("qmiLocGetSensorPerformanceControlConfigIndMsgT_v02", [
      Member (Named "qmiLocStatusEnumT_v02") "status" None;
      Member uint8_t "performanceControlMode_valid" None;
      Member (Named "qmiLocSensorPerformanceControlModeEnumT_v02") "performanceControlMode" None;
      Member uint8_t "accelSamplingSpec_valid" None;
      Member (Named "qmiLocSensorControlConfigSamplingSpecStructT_v02") "accelSamplingSpec" None;
      Member uint8_t "gyroSamplingSpec_valid" None;
      Member (Named "qmiLocSensorControlConfigSamplingSpecStructT_v02") "gyroSamplingSpec" None;
      Member uint8_t "algorithmConfig_valid" None;
      Member (Named "qmiLocSensorAlgorithmMaskT_v02") "algorithmConfig" None;
      Member uint8_t "accelSamplingSpecHigh_valid" None;
      Member (Named "qmiLocSensorControlConfigSamplingSpecStructT_v02") "accelSamplingSpecHigh" None;
      Member uint8_t "gyroSamplingSpecHigh_valid" None;
      Member (Named "qmiLocSensorControlConfigSamplingSpecStructT_v02") "gyroSamplingSpecHigh" None ]);
  ("qmiLocInjectSuplCertificateReqMsgT_v02", [
      Member uint8_t "suplCertId" None;
      Member uint32_t "suplCertData_len" None;
      Member uint8_t "suplCertData" (Some (Macro "QMI_LOC_MAX_SUPL_CERT_LENGTH_V02")) ]);
  ("qmiLocInjectSuplCertificateIndMsgT_v02", [
      Member (Named "qmiLocStatusEnumT_v02") "status" None ]);
  ("qmiLocDeleteSuplCertificateReqMsgT_v02", [
      Member uint8_t "suplCertId_valid" None;
      Member uint8_t "suplCertId" None ]);
  ("qmiLocDeleteSuplCertificateIndMsgT_v02", [
      Member (Named "qmiLocStatusEnumT_v02") "status" None ]);
  ("qmiLocSetPositionEngineConfigParametersReqMsgT_v02", [
      Member uint8_t "injectedPositionControl_valid" None;
      Member uint8_t "injectedPositionControl" None;
      Member uint8_t "filterSvUsage_valid" None;
      Member uint8_t "filterSvUsage" None;
      Member uint8_t "storeAssistData_valid" None;
      Member uint8_t "storeAssistData" None;
      Member uint8_t "enableFasterTTFF_valid" None;
      Member uint8_t "enableFasterTTFF" None ]);
  ("qmiLocSetPositionEngineConfigParametersIndMsgT_v02", [
      Member (Named "qmiLocStatusEnumT_v02") "status" None;
      Member uint8_t "failedPositionEngineConfigParamMask_valid" None;
      Member (Named "qmiLocPositionEngineConfigParamMaskT_v02") "failedPositionEngineConfigParamMask" None ]);
  ("qmiLocGetPositionEngineConfigParametersReqMsgT_v02", [
      Member (Named "qmiLocPositionEngineConfigParamMaskT_v02") "getPositionEngineConfigParamMask" None ]) ].

Definition structs_16 : list (string * list member) := [
  ("qmiLocGetPositionEngineConfigParametersIndMsgT_v02", [
      Member (Named "qmiLocStatusEnumT_v02") "status" None;
      Member uint8_t "injectedPositionControl_valid" None;
      Member uint8_t "injectedPositionControl" None;
      Member uint8_t "filterSvUsage_valid" None;
      Member uint8_t "filterSvUsage" None;
      Member uint8_t "storeAssistData_valid" None;
      Member uint8_t "storeAssistData" None;
      Member uint8_t "enableFasterTTFF_valid" None;
      Member uint8_t "enableFasterTTFF" None ]);
  ("qmiLocCircularGeofenceArgsStructT_v02", [
      Member double "latitude" None;
      Member double "longitude" None;
      Member uint32_t "radius" None ]);
  ("qmiLocAddCircularGeofenceReqMsgT_v02", [
      Member uint32_t "transactionId" None;
      Member (Named "qmiLocCircularGeofenceArgsStructT_v02") "circularGeofenceArgs" None;
      Member (Named "qmiLocGeofenceBreachMaskT_v02") "breachMask" None;
      Member uint8_t "includePosition" None;
      Member uint8_t "responsiveness_valid" None;
      Member (Named "qmiLocGeofenceResponsivenessEnumT_v02") "responsiveness" None;
      Member uint8_t "confidence_valid" None;
      Member (Named "qmiLocGeofenceConfidenceEnumT_v02") "confidence" None;
      Member uint8_t "customResponsivenessValue_valid" None;
      Member uint32_t "customResponsivenessValue" None;
      Member uint8_t "dwellTime_valid" None;
      Member uint32_t "dwellTime" None;
      Member uint8_t "dwellTypeMask_valid" None;
      Member (Named "qmiLocGeofenceDwellTypeMaskT_v02") "dwellTypeMask" None ]);
  ("qmiLocAddCircularGeofenceIndMsgT_v02", [
      Member (Named "qmiLocStatusEnumT_v02") "status" None;
      Member uint8_t "transactionId_valid" None;
      Member uint32_t "transactionId" None;
      Member uint8_t "geofenceId_valid" None;
      Member uint32_t "geofenceId" None ]);
  ("qmiLocDeleteGeofenceReqMsgT_v02", [
      Member uint32_t "geofenceId" None;
      Member uint32_t "transactionId" None ]);
  ("qmiLocDeleteGeofenceIndMsgT_v02", [
      Member (Named "qmiLocStatusEnumT_v02") "status" None;
      Member uint8_t "geofenceId_valid" None;
      Member uint32_t "geofenceId" None;
      Member uint8_t "transactionId_valid" None;
      Member uint32_t "transactionId" None ]);
  ("qmiLocQueryGeofenceReqMsgT_v02", [
      Member uint32_t "geofenceId" None;
      Member uint32_t "transactionId" None ]);
  ("qmiLocQueryGeofenceIndMsgT_v02", [
      Member (Named "qmiLocStatusEnumT_v02") "status" None;
      Member uint8_t "geofenceId_valid" None;
      Member uint32_t "geofenceId" None;
      Member uint8_t "transactionId_valid" None;
      Member uint32_t "transactionId" None;
      Member uint8_t "geofenceOrigin_valid" None;
      Member (Named "qmiLocGeofenceOriginEnumT_v02") "geofenceOrigin" None;
      Member uint8_t "posWrtGeofence_valid" None;
      Member (Named "qmiLocGeofencePositionEnumT_v02") "posWrtGeofence" None;
      Member uint8_t "circularGeofenceArgs_valid" None;
      Member (Named "qmiLocCircularGeofenceArgsStructT_v02") "circularGeofenceArgs" None;
      Member uint8_t "geofenceState_valid" None;
      Member (Named "qmiLocGeofenceStateEnumT_v02") "geofenceState" None ]);
  ("qmiLocGeofenceMotionStateConfigStructT_v02", [
      Member (Named "qmiLocGeofenceMotionStatesEnumT_v02") "motionState" None;
      Member float "motionStateSpeed" None ]);
  ("qmiLocSetGeofenceEngineConfigReqMsgT_v02", [
      Member uint32_t "transactionId" None;
      Member uint8_t "gnssUnavailableIndicationTimeout_valid" None;
      Member uint32_t "gnssUnavailableIndicationTimeout" None;
      Member uint8_t "maxGeofences_valid" None;
      Member uint32_t "maxGeofences" None;
      Member uint8_t "enableMotionDetectionSources_valid" None;
      Member (Named "qmiLocMotionDetectionSourceMaskT_v02") "enableMotionDetectionSources" None;
      Member uint8_t "enableCpiUsage_valid" None;
      Member uint8_t "enableCpiUsage" None;
      Member uint8_t "gnssPositionSessionTimeout_valid" None;
      Member uint32_t "gnssPositionSessionTimeout" None;
      Member uint8_t "gnssPositionMaxPuncAcceptable_valid" None;
      Member uint32_t "gnssPositionMaxPuncAcceptable" None;
      Member uint8_t "mediumResponsivenessValue_valid" None;
      Member uint32_t "mediumResponsivenessValue" None;
      Member uint8_t "chalGnssEnvMinCpiWaitInterval_valid" None;
      Member uint32_t "chalGnssEnvMinCpiWaitInterval" None;
      Member uint8_t "motionStateInfo_valid" None;
      Member uint32_t "motionStateInfo_len" None;
      Member (Named "qmiLocGeofenceMotionStateConfigStructT_v02") "motionStateInfo" (Some (Macro "QMI_LOC_GEOFENCE_MAX_MOTION_STATES_V02")) ]) ].

Definition structs_17 : list (string * list member) := [
  ("qmiLocSetGeofenceEngineConfigIndMsgT_v02", [
      Member (Named "qmiLocStatusEnumT_v02") "status" None;
      Member uint8_t "transactionId_valid" None;
      Member uint32_t "transactionId" None ]);
  ("qmiLocGetGeofenceEngineConfigReqMsgT_v02", [
      Member uint32_t "transactionId" None ]);
  ("qmiLocGetGeofenceEngineConfigIndMsgT_v02", [
      Member (Named "qmiLocStatusEnumT_v02") "status" None;
      Member uint8_t "transactionId_valid" None;
      Member uint32_t "transactionId" None;
      Member uint8_t "gnssUnavailableIndicationTimeout_valid" None;
      Member uint32_t "gnssUnavailableIndicationTimeout" None;
      Member uint8_t "maxGeofences_valid" None;
      Member uint32_t "maxGeofences" None;
      Member uint8_t "enabledMotionDetectionSources_valid" None;
      Member (Named "qmiLocMotionDetectionSourceMaskT_v02") "enabledMotionDetectionSources" None;
      Member uint8_t "enabledCpiUsage_valid" None;
      Member uint8_t "enabledCpiUsage" None ]);
  ("qmiLocEditGeofenceReqMsgT_v02", [
      Member uint32_t "geofenceId" None;
      Member uint32_t "transactionId" None;
      Member uint8_t "geofenceState_valid" None;
      Member (Named "qmiLocGeofenceStateEnumT_v02") "geofenceState" None;
      Member uint8_t "breachMask_valid" None;
      Member (Named "qmiLocGeofenceBreachMaskT_v02") "breachMask" None;
      Member uint8_t "responsiveness_valid" None;
      Member (Named "qmiLocGeofenceResponsivenessEnumT_v02") "responsiveness" None ]);
  ("qmiLocEditGeofenceIndMsgT_v02", [
      Member (Named "qmiLocStatusEnumT_v02") "status" None;
      Member uint8_t "geofenceId_valid" None;
      Member uint32_t "geofenceId" None;
      Member uint8_t "transactionId_valid" None;
      Member uint32_t "transactionId" None;
      Member uint8_t "failedParams_valid" None;
      Member (Named "qmiLocGeofenceConfigParamMaskT_v02") "failedParams" None ]);
  ("qmiLocEventGetTimeZoneReqIndMsgT_v02", [
      Member (Named "qmiLocStatusEnumT_v02") "status" None ]);
  ("qmiLocTimeZoneStructT_v02", [
      Member uint64_t "dstOffset" None;
      Member uint64_t "rawOffset" None ]);
  ("qmiLocInjectTimeZoneInfoReqMsgT_v02", [
      Member uint64_t "timeUtc" None;
      Member (Named "qmiLocTimeZoneStructT_v02") "timeZone" None ]);
  ("qmiLocInjectTimeZoneInfoIndMsgT_v02", [
      Member (Named "qmiLocStatusEnumT_v02") "status" None ]);
  ("qmiLocGetBestAvailablePositionReqMsgT_v02", [
      Member uint32_t "transactionId" None;
      Member uint8_t "specialReqType_valid" None;
      Member (Named "qmiLocSpecialReqEnumT_v02") "specialReqType" None ]) ].

Definition structs_18 : list (string * list member) := [
  ("qmiLocGetBestAvailablePositionIndMsgT_v02", [
      Member (Named "qmiLocStatusEnumT_v02") "status" None;
      Member uint8_t "transactionId_valid" None;
      Member uint32_t "transactionId" None;
      Member uint8_t "latitude_valid" None;
      Member double "latitude" None;
      Member uint8_t "longitude_valid" None;
      Member double "longitude" None;
      Member uint8_t "horUncCircular_valid" None;
      Member float "horUncCircular" None;
      Member uint8_t "altitudeWrtEllipsoid_valid" None;
      Member float "altitudeWrtEllipsoid" None;
      Member uint8_t "vertUnc_valid" None;
      Member float "vertUnc" None;
      Member uint8_t "timestampUtc_valid" None;
      Member uint64_t "timestampUtc" None;
      Member uint8_t "timeUnc_valid" None;
      Member float "timeUnc" None;
      Member uint8_t "horUncEllipseSemiMinor_valid" None;
      Member float "horUncEllipseSemiMinor" None;
      Member uint8_t "horUncEllipseSemiMajor_valid" None;
      Member float "horUncEllipseSemiMajor" None;
      Member uint8_t "horUncEllipseOrientAzimuth_valid" None;
      Member float "horUncEllipseOrientAzimuth" None;
      Member uint8_t "horCircularConfidence_valid" None;
      Member uint8_t "horCircularConfidence" None;
      Member uint8_t "horEllipticalConfidence_valid" None;
      Member uint8_t "horEllipticalConfidence" None;
      Member uint8_t "horReliability_valid" None;
      Member (Named "qmiLocReliabilityEnumT_v02") "horReliability" None;
      Member uint8_t "horSpeed_valid" None;
      Member float "horSpeed" None;
      Member uint8_t "horSpeedUnc_valid" None;
      Member float "horSpeedUnc" None;
      Member uint8_t "altitudeWrtMeanSeaLevel_valid" None;
      Member float "altitudeWrtMeanSeaLevel" None;
      Member uint8_t "vertConfidence_valid" None;
      Member uint8_t "vertConfidence" None;
      Member uint8_t "vertReliability_valid" None;
      Member (Named "qmiLocReliabilityEnumT_v02") "vertReliability" None;
      Member uint8_t "vertSpeed_valid" None;
      Member float "vertSpeed" None;
      Member uint8_t "vertSpeedUnc_valid" None;
      Member float "vertSpeedUnc" None;
      Member uint8_t "heading_valid" None;
      Member float "heading" None;
      Member uint8_t "headingUnc_valid" None;
      Member float "headingUnc" None;
      Member uint8_t "magneticDeviation_valid" None;
      Member float "magneticDeviation" None;
      Member uint8_t "technologyMask_valid" None;
      Member (Named "qmiLocPosTechMaskT_v02") "technologyMask" None;
      Member uint8_t "DOP_valid" None;
      Member (Named "qmiLocDOPStructT_v02") "DOP" None;
      Member uint8_t "gpsTime_valid" None;
      Member (Named "qmiLocGPSTimeStructT_v02") "gpsTime" None;
      Member uint8_t "timeSrc_valid" None;
      Member (Named "qmiLocTimeSourceEnumT_v02") "timeSrc" None;
      Member uint8_t "sensorDataUsage_valid" None;
      Member (Named "qmiLocSensorUsageIndicatorStructT_v02") "sensorDataUsage" None;
      Member uint8_t "gnssSvUsedList_valid" None;
      Member uint32_t "gnssSvUsedList_len" None;
      Member uint16_t "gnssSvUsedList" (Some (Macro "QMI_LOC_MAX_SV_USED_LIST_LENGTH_V02"));
      Member uint8_t "extDOP_valid" None;
      Member (Named "qmiLocExtDOPStructT_v02") "extDOP" None;
      Member uint8_t "spoofReportMask_valid" None;
      Member (Named "qmiLocSpoofMaskT_v02") "spoofReportMask" None;
      Member uint8_t "expandedGnssSvUsedList_valid" None;
      Member uint32_t "expandedGnssSvUsedList_len" None;
      Member uint16_t "expandedGnssSvUsedList" (Some (Macro "QMI_LOC_EXPANDED_SV_INFO_LIST_MAX_SIZE_V02"));
      Member uint8_t "gnssSvUsedSignalTypeList_valid" None;
      Member uint32_t "gnssSvUsedSignalTypeList_len" None;
      Member (Named "qmiLocGnssSignalTypeMaskT_v02") "gnssSvUsedSignalTypeList" (Some (Macro "QMI_LOC_EXPANDED_SV_INFO_LIST_MAX_SIZE_V02")) ]);
  ("qmiLocMotionDataStructT_v02", [
      Member (Named "qmiLocMotionStateEnumT_v02") "motion_state" None;
      Member (Named "qmiLocMotionModeEnumT_v02") "motion_mode" None;
      Member float "probability_of_state" None;
      Member uint16_t "age" None;
      Member uint16_t "timeout" None ]);
  ("qmiLocInjectMotionDataReqMsgT_v02", [
      Member (Named "qmiLocMotionDataStructT_v02") "motion_data" None ]);
  ("qmiLocInjectMotionDataIndMsgT_v02", [
      Member (Named "qmiLocStatusEnumT_v02") "status" None ]);
  ("qmiLocGetNiGeofenceIdListReqMsgT_v02", [
      Member uint32_t "transactionId" None ]);
  ("qmiLocGetNiGeofenceIdListIndMsgT_v02", [
      Member (Named "qmiLocStatusEnumT_v02") "status" None;
      Member uint8_t "transactionId_valid" None;
      Member uint32_t "transactionId" None;
      Member uint8_t "niGeofenceIdList_valid" None;
      Member uint32_t "niGeofenceIdList_len" None;
      Member uint32_t "niGeofenceIdList" (Some (Macro "QMI_LOC_MAX_NI_GEOFENCE_ID_LIST_LENGTH_V02")) ]);
  ("qmiLocGSMCellIdStructT_v02", [
      Member uint32_t "MCC" None;
      Member uint32_t "MNC" None;
      Member uint32_t "LAC" None;
      Member uint32_t "CID" None ]);
  ("qmiLocInjectGSMCellInfoReqMsgT_v02", [
      Member (Named "qmiLocGSMCellIdStructT_v02") "gsmCellId" None;
      Member uint8_t "roamingStatus" None;
      Member uint8_t "timingAdvance_valid" None;
      Member uint32_t "timingAdvance" None ]);
  ("qmiLocInjectGSMCellInfoIndMsgT_v02", [
      Member (Named "qmiLocStatusEnumT_v02") "status" None ]);
  ("qmiLocWCDMACellIdStructT_v02", [
      Member uint32_t "mcc" None;
      Member uint32_t "mnc" None;
      Member uint32_t "cid" None ]) ].

Definition structs_19 : list (string * list member) := [
  ("qmiLocInjectWCDMACellInfoReqMsgT_v02", [
      Member (Named "qmiLocWCDMACellIdStructT_v02") "wcdmaCellId" None;
      Member (Named "qmiLocRoamingStatusEnumT_v02") "roamingStatus" None;
      Member uint8_t "freq_valid" None;
      Member uint32_t "freq" None;
      Member uint8_t "psc_valid" None;
      Member uint32_t "psc" None ]);
  ("qmiLocInjectWCDMACellInfoIndMsgT_v02", [
      Member (Named "qmiLocStatusEnumT_v02") "status" None ]);
  ("qmiLocTDSCDMACellIdStructT_v02", [
      Member uint32_t "mcc" None;
      Member uint32_t "mnc" None;
      Member uint32_t "cid" None;
      Member uint32_t "lac" None ]);
  ("qmiLocInjectTDSCDMACellInfoReqMsgT_v02", [
      Member (Named "qmiLocTDSCDMACellIdStructT_v02") "tdscdmaCellId" None;
      Member (Named "qmiLocRoamingStatusEnumT_v02") "roamingStatus" None;
      Member uint8_t "freq_valid" None;
      Member uint32_t "freq" None ]);
  ("qmiLocInjectTDSCDMACellInfoIndMsgT_v02", [
      Member (Named "qmiLocStatusEnumT_v02") "status" None ]);
  ("qmiLocInjectSubscriberIDReqMsgT_v02", [
      Member uint8_t "preferredIMSI_valid" None;
      Member uint64_t "preferredIMSI" None;
      Member uint8_t "preferredMSISDN_valid" None;
      Member uint64_t "preferredMSISDN" None ]);
  ("qmiLocInjectSubscriberIDIndMsgT_v02", [
      Member (Named "qmiLocStatusEnumT_v02") "status" None ]);
  ("qmiLocInjectNetworkInitiatedMessageReqMsgT_v02", [
      Member (Named "qmiLocInjectedNetworkInitiatedMessageTypeEnumT_v02") "injectedNIMessageType" None;
      Member uint32_t "injectedNIMessage_len" None;
      Member uint8_t "injectedNIMessage" (Some (Macro "QMI_LOC_MAX_INJECTED_NETWORK_INITIATED_MESSAGE_LENGTH_V02")) ]);
  ("qmiLocInjectNetworkInitiatedMessageIndMsgT_v02", [
      Member (Named "qmiLocStatusEnumT_v02") "status" None ]);
  ("qmiLocWWANOutOfServiceNotificationReqMsgT_v02", [
      Member char "__placeholder" None ]);
  ("qmiLocWWANOutOfServiceNotificationIndMsgT_v02", [
      Member (Named "qmiLocStatusEnumT_v02") "status" None ]);
  ("qmiLocPedometerReportReqMsgT_v02", [
      Member (Named "qmiLocSensorDataTimeSourceEnumT_v02") "timeSource" None;
      Member uint32_t "timestamp" None;
      Member uint32_t "timeInterval" None;
      Member uint32_t "stepCount" None;
      Member uint8_t "stepConfidence_valid" None;
      Member uint8_t "stepConfidence" None;
      Member uint8_t "stepCountUncertainty_valid" None;
      Member float "stepCountUncertainty" None;
      Member uint8_t "stepRate_valid" None;
      Member float "stepRate" None ]);
  ("qmiLocPedometerReportIndMsgT_v02", [
      Member (Named "qmiLocStatusEnumT_v02") "status" None ]);
  ("qmiLocGetBatchSizeReqMsgT_v02", [
      Member uint32_t "transactionId" None;
      Member uint32_t "batchSize" None;
      Member uint8_t "batchType_valid" None;
      Member (Named "qmiLocBatchingTypeEnumT_v02") "batchType" None ]);
  ("qmiLocGetBatchSizeIndMsgT_v02", [
      Member (Named "qmiLocStatusEnumT_v02") "status" None;
      Member uint32_t "transactionId" None;
      Member uint32_t "batchSize" None ]);
  ("qmiLocStartBatchingReqMsgT_v02", [
      Member uint8_t "minInterval_valid" None;
      Member uint32_t "minInterval" None;
      Member uint8_t "horizontalAccuracyLevel_valid" None;
      Member (Named "qmiLocAccuracyLevelEnumT_v02") "horizontalAccuracyLevel" None;
      Member uint8_t "fixSessionTimeout_valid" None;
      Member uint32_t "fixSessionTimeout" None;
      Member uint8_t "minDistance_valid" None;
      Member uint32_t "minDistance" None;
      Member uint8_t "batchAllPos_valid" None;
      Member uint8_t "batchAllPos" None;
      Member uint8_t "requestId_valid" None;
      Member uint32_t "requestId" None ]);
  ("qmiLocStartBatchingIndMsgT_v02", [
      Member (Named "qmiLocStatusEnumT_v02") "status" None;
      Member uint8_t "requestId_valid" None;
      Member uint32_t "requestId" None ]);
  ("qmiLocEventBatchFullIndMsgT_v02", [
      Member uint32_t "batchCount" None;
      Member uint8_t "batchType_valid" None;
      Member (Named "qmiLocBatchingTypeEnumT_v02") "batchType" None;
      Member uint8_t "accumulatedDistance_valid" None;
      Member uint32_t "accumulatedDistance" None;
      Member uint8_t "batchedPosition_valid" None;
      Member uint32_t "batchedPosition" None ]) ].

Definition structs_20 : list (string * list member) := [
  ("qmiLocBatchedReportStructT_v02", [
      Member uint32_t "fixId" None;
      Member (Named "qmiLocBatchedReportValidFieldsMaskT_v02") "validFields" None;
      Member double "latitude" None;
      Member double "longitude" None;
      Member float "horUncCircular" None;
      Member float "speedHorizontal" None;
      Member float "speedUnc" None;
      Member float "altitudeWrtEllipsoid" None;
      Member float "speedVertical" None;
      Member float "heading" None;
      Member float "headingUnc" None;
      Member (Named "qmiLocPosTechMaskT_v02") "technologyMask" None;
      Member uint64_t "timestampUtc" None;
      Member float "timeUnc" None;
      Member float "magneticDeviation" None;
      Member float "vertUnc" None;
      Member uint8_t "horConfidence" None;
      Member (Named "qmiLocGPSTimeStructT_v02") "gpsTime" None ]);
  ("qmiLocEventLiveBatchedPositionReportIndMsgT_v02", [
      Member (Named "qmiLocBatchedReportStructT_v02") "liveBatchedReport" None ]);
  ("qmiLocReadFromBatchReqMsgT_v02", [
      Member uint32_t "numberOfEntries" None;
      Member uint32_t "transactionId" None;
      Member uint8_t "batchType_valid" None;
      Member (Named "qmiLocBatchingTypeEnumT_v02") "batchType" None ]);
  ("qmiLocReadFromBatchIndMsgT_v02", [
      Member (Named "qmiLocStatusEnumT_v02") "status" None;
      Member uint32_t "transactionId" None;
      Member uint8_t "numberOfEntries_valid" None;
      Member uint32_t "numberOfEntries" None;
      Member uint8_t "batchedReportList_valid" None;
      Member uint32_t "batchedReportList_len" None;
      Member (Named "qmiLocBatchedReportStructT_v02") "batchedReportList" (Some (Macro "QMI_LOC_READ_FROM_BATCH_MAX_SIZE_V02")) ]);
  ("qmiLocStopBatchingReqMsgT_v02", [
      Member uint32_t "transactionId" None;
      Member uint8_t "requestId_valid" None;
      Member uint32_t "requestId" None;
      Member uint8_t "batchType_valid" None;
      Member (Named "qmiLocBatchingTypeEnumT_v02") "batchType" None ]);
  ("qmiLocStopBatchingIndMsgT_v02", [
      Member (Named "qmiLocStatusEnumT_v02") "status" None;
      Member uint32_t "transactionId" None;
      Member uint8_t "requestId_valid" None;
      Member uint32_t "requestId" None ]);
  ("qmiLocReleaseBatchReqMsgT_v02", [
      Member uint32_t "transactionId" None;
      Member uint8_t "batchType_valid" None;
      Member (Named "qmiLocBatchingTypeEnumT_v02") "batchType" None ]);
  ("qmiLocReleaseBatchIndMsgT_v02", [
      Member (Named "qmiLocStatusEnumT_v02") "status" None;
      Member uint32_t "transactionId" None ]);
  ("qmiLocEventInjectWifiApDataReqIndMsgT_v02", [
      Member uint8_t "e911Mode_valid" None;
      Member uint8_t "e911Mode" None ]);
  ("qmiLocWifiApDataStructT_v02", [
      Member (Named "qmiLocWifiApDataMaskT_v02") "wifiApDataMask" None;
      Member uint8_t "macAddress" (Some (Macro "QMI_LOC_WIFI_MAC_ADDR_LENGTH_V02"));
      Member int32_t "apTransmitPower" None;
      Member int32_t "apAntennaGain" None;
      Member int32_t "apSignalToNoise" None;
      Member (Named "qmiLocWifiApDataDeviceTypeEnumT_v02") "apDeviceType" None;
      Member int32_t "apRssi" None;
      Member uint16_t "apChannel" None;
      Member uint32_t "apRoundTripDelay" None;
      Member (Named "qmiLocWifiApDataRtdUnitTypeEnumT_v02") "apRoundTripDelayUnit" None;
      Member uint8_t "apRoundTripDelayAccuracy" None;
      Member int32_t "mobileSignalToNoise" None;
      Member int32_t "mobileRssi" None ]);
  ("qmiLocWifiApAdditionalDataStructT_v02", [
      Member int64_t "rssiTimestamp" None;
      Member int32_t "measAge" None;
      Member uint8_t "servingAccessPoint" None;
      Member uint32_t "channelFrequency" None;
      Member char "ssid" (Some (MacroPlus "QMI_LOC_MAX_WIFI_AP_SSID_STR_LENGTH_V02" 1));
      Member int32_t "apHighResolutionRssi" None ]);
  ("qmiLocInjectWifiApDataReqMsgT_v02", [
      Member uint32_t "wifiApInfo_len" None;
      Member (Named "qmiLocWifiApDataStructT_v02") "wifiApInfo" (Some (Macro "QMI_LOC_WIFI_MAX_REPORTED_APS_PER_MSG_V02"));
      Member uint8_t "errorCause_valid" None;
      Member (Named "qmiLocWlanApErrEnumT_v02") "errorCause" None;
      Member uint8_t "requestTimestamp_valid" None;
      Member int64_t "requestTimestamp" None;
      Member uint8_t "receiveTimestamp_valid" None;
      Member int64_t "receiveTimestamp" None;
      Member uint8_t "onDemandScan_valid" None;
      Member uint8_t "onDemandScan" None;
      Member uint8_t "wifiApInfoA_valid" None;
      Member uint32_t "wifiApInfoA_len" None;
      Member (Named "qmiLocWifiApAdditionalDataStructT_v02") "wifiApInfoA" (Some (Macro "QMI_LOC_WIFI_MAX_REPORTED_APS_PER_MSG_V02"));
      Member uint8_t "ueMacAddress_valid" None;
      Member uint8_t "ueMacAddress" (Some (Macro "QMI_LOC_WIFI_MAC_ADDR_LENGTH_V02")) ]);
  ("qmiLocInjectWifiApDataIndMsgT_v02", [
      Member (Named "qmiLocStatusEnumT_v02") "status" None ]);
  ("qmiLocNotifyWifiAttachmentStatusReqMsgT_v02", [
      Member (Named "qmiLocWifiAccessPointAttachStatesEnumT_v02") "attachState" None;
      Member uint8_t "accessPointMacAddress_valid" None;
      Member uint8_t "accessPointMacAddress" (Some (Macro "QMI_LOC_WIFI_MAC_ADDR_LENGTH_V02"));
      Member uint8_t "wifiApSsid_valid" None;
      Member char "wifiApSsid" (Some (MacroPlus "QMI_LOC_MAX_WIFI_AP_SSID_STR_LENGTH_V02" 1)) ]) ].

Definition structs_21 : list (string * list member) := [
  ("qmiLocNotifyWifiAttachmentStatusIndMsgT_v02", [
      Member (Named "qmiLocStatusEnumT_v02") "status" None ]);
  ("qmiLocNotifyWifiEnabledStatusReqMsgT_v02", [
      Member (Named "qmiLocWifiEnabledStatusEnumT_v02") "enabledStatus" None ]);
  ("qmiLocNotifyWifiEnabledStatusIndMsgT_v02", [
      Member (Named "qmiLocStatusEnumT_v02") "status" None ]);
  ("qmiLocEventVehicleDataReadyIndMsgT_v02", [
      Member uint8_t "vehicleAccelReadyStatus_valid" None;
      Member uint8_t "vehicleAccelReadyStatus" None;
      Member uint8_t "vehicleAngularRateReadyStatus_valid" None;
      Member uint8_t "vehicleAngularRateReadyStatus" None;
      Member uint8_t "vehicleOdometryReadyStatus_valid" None;
      Member uint8_t "vehicleOdometryReadyStatus" None ]);
  ("qmiLocVehicleSensorSampleStructT_v02", [
      Member uint32_t "timeOffset" None;
      Member uint32_t "axisSample_len" None;
      Member float "axisSample" (Some (Macro "QMI_LOC_VEHICLE_SENSOR_DATA_MAX_AXES_V02")) ]);
  ("qmiLocVehicleSensorSampleListStructType_v02", [
      Member uint32_t "sampleTimeBase" None;
      Member (Named "qmiLocAxesMaskT_v02") "axesValidity" None;
      Member uint32_t "sensorData_len" None;
      Member (Named "qmiLocVehicleSensorSampleStructT_v02") "sensorData" (Some (Macro "QMI_LOC_VEHICLE_SENSOR_DATA_MAX_SAMPLES_V02")) ]);
  ("qmiLocVehicleOdometrySampleStructT_v02", [
      Member uint32_t "timeOffset" None;
      Member uint32_t "distanceTravelled_len" None;
      Member uint32_t "distanceTravelled" (Some (Macro "QMI_LOC_VEHICLE_ODOMETRY_MAX_MEASUREMENTS_V02")) ]);
  ("qmiLocVehicleOdometrySampleListStructT_v02", [
      Member uint32_t "sampleTimeBase" None;
      Member (Named "qmiLocVehicleOdometryMeasDeviationMaskType_v02") "flags" None;
      Member (Named "qmiLocVehicleOdometryWheelFlagsMaskT_v02") "wheelFlags" None;
      Member uint32_t "distanceTravelledBase" None;
      Member uint32_t "odometryData_len" None;
      Member (Named "qmiLocVehicleOdometrySampleStructT_v02") "odometryData" (Some (Macro "QMI_LOC_VEHICLE_SENSOR_DATA_MAX_SAMPLES_V02")) ]);
  ("qmiLocInjectVehicleSensorDataReqMsgT_v02", [
      Member uint8_t "accelData_valid" None;
      Member (Named "qmiLocVehicleSensorSampleListStructType_v02") "accelData" None;
      Member uint8_t "angRotationData_valid" None;
      Member (Named "qmiLocVehicleSensorSampleListStructType_v02") "angRotationData" None;
      Member uint8_t "odometryData_valid" None;
      Member (Named "qmiLocVehicleOdometrySampleListStructT_v02") "odometryData" None;
      Member uint8_t "changeInTimeScales_valid" None;
      Member int32_t "changeInTimeScales" None ]);
  ("qmiLocInjectVehicleSensorDataIndMsgT_v02", [
      Member (Named "qmiLocStatusEnumT_v02") "status" None ]);
  ("qmiLocGetAvailWwanPositionReqMsgT_v02", [
      Member uint32_t "transactionId" None ]);
  ("qmiLocGetAvailWwanPositionIndMsgT_v02", [
      Member (Named "qmiLocStatusEnumT_v02") "status" None;
      Member uint8_t "transactionId_valid" None;
      Member uint32_t "transactionId" None;
      Member uint8_t "latitude_valid" None;
      Member double "latitude" None;
      Member uint8_t "longitude_valid" None;
      Member double "longitude" None;
      Member uint8_t "horUncCircular_valid" None;
      Member float "horUncCircular" None;
      Member uint8_t "altitudeWrtEllipsoid_valid" None;
      Member float "altitudeWrtEllipsoid" None;
      Member uint8_t "vertUnc_valid" None;
      Member float "vertUnc" None;
      Member uint8_t "timestampUtc_valid" None;
      Member uint64_t "timestampUtc" None;
      Member uint8_t "timeUnc_valid" None;
      Member float "timeUnc" None;
      Member uint8_t "horUncEllipseSemiMinor_valid" None;
      Member float "horUncEllipseSemiMinor" None;
      Member uint8_t "horUncEllipseSemiMajor_valid" None;
      Member float "horUncEllipseSemiMajor" None;
      Member uint8_t "horUncEllipseOrientAzimuth_valid" None;
      Member float "horUncEllipseOrientAzimuth" None;
      Member uint8_t "horCircularConfidence_valid" None;
      Member uint8_t "horCircularConfidence" None;
      Member uint8_t "horEllipticalConfidence_valid" None;
      Member uint8_t "horEllipticalConfidence" None;
      Member uint8_t "horReliability_valid" None;
      Member (Named "qmiLocReliabilityEnumT_v02") "horReliability" None;
      Member uint8_t "altitudeWrtMeanSeaLevel_valid" None;
      Member float "altitudeWrtMeanSeaLevel" None;
      Member uint8_t "vertConfidence_valid" None;
      Member uint8_t "vertConfidence" None;
      Member uint8_t "vertReliability_valid" None;
      Member (Named "qmiLocReliabilityEnumT_v02") "vertReliability" None;
      Member uint8_t "gpsTime_valid" None;
      Member (Named "qmiLocGPSTimeStructT_v02") "gpsTime" None;
      Member uint8_t "timeSrc_valid" None;
      Member (Named "qmiLocTimeSourceEnumT_v02") "timeSrc" None ]);
  ("qmiLocSetPremiumServicesCfgReqMsgT_v02", [
      Member (Named "qmiLocPremiumServiceEnumT_v02") "premiumServiceType" None;
      Member (Named "qmiLocPremiumServiceCfgEnumT_v02") "premiumServiceCfg" None ]) ].

Definition structs_22 : list (string * list member) := [
  ("qmiLocSetPremiumServicesCfgIndMsgT_v02", [
      Member (Named "qmiLocStatusEnumT_v02") "status" None ]);
  ("qmiLocSetXtraVersionCheckReqMsgT_v02", [
      Member (Named "qmiLocXtraVersionCheckEnumT_v02") "xtraVersionCheckMode" None ]);
  ("qmiLocSetXtraVersionCheckIndMsgT_v02", [
      Member (Named "qmiLocStatusEnumT_v02") "status" None ]);
  ("qmiLocSetGNSSConstRepConfigReqMsgT_v02", [
      Member uint8_t "measReportConfig_valid" None;
      Member (Named "qmiLocGNSSConstellEnumT_v02") "measReportConfig" None;
      Member uint8_t "svPolyReportConfig_valid" None;
      Member (Named "qmiLocGNSSConstellEnumT_v02") "svPolyReportConfig" None;
      Member uint8_t "reportFullEphemerisDb_valid" None;
      Member uint8_t "reportFullEphemerisDb" None;
      Member uint8_t "reportFullSvPolyDb_valid" None;
      Member uint8_t "reportFullSvPolyDb" None;
      Member uint8_t "reportFullIonoDb_valid" None;
      Member uint8_t "reportFullIonoDb" None ]);
  ("qmiLocSetGNSSConstRepConfigIndMsgT_v02", [
      Member (Named "qmiLocStatusEnumT_v02") "status" None ]);
  ("qmiLocRcvrClockFrequencyInfoStructT_v02", [
      Member float "clockDrift" None;
      Member float "clockDriftUnc" None;
      Member (Named "qmiLocSourceofFreqEnumT_v02") "sourceOfFreq" None ]);
  ("qmiLocLeapSecondInfoStructT_v02", [
      Member uint8_t "leapSec" None;
      Member uint8_t "leapSecUnc" None ]);
  ("qmiLocInterSystemBiasStructT_v02", [
      Member (Named "qmiLocInterSystemBiasValidMaskT_v02") "validMask" None;
      Member float "timeBias" None;
      Member float "timeBiasUnc" None ]);
  ("qmiLocGnssTimeStructT_v02", [
      Member (Named "qmiLocSvSystemEnumT_v02") "system" None;
      Member uint16_t "systemWeek" None;
      Member uint32_t "systemMsec" None;
      Member float "systemClkTimeBias" None;
      Member float "systemClkTimeUncMs" None ]);
  ("qmiLocGloTimeStructT_v02", [
      Member uint8_t "gloFourYear" None;
      Member uint16_t "gloDays" None;
      Member uint32_t "gloMsec" None;
      Member float "gloClkTimeBias" None;
      Member float "gloClkTimeUncMs" None ]);
  ("qmiLocGnssTimeExtStructT_v02", [
      Member uint32_t "refFCount" None;
      Member uint8_t "systemRtc_valid" None;
      Member uint64_t "systemRtcMs" None;
      Member (Named "qmiLocTimeSourceEnumT_v02") "sourceOfTime" None ]);
  ("qmiLocSVTimeSpeedStructT_v02", [
      Member uint32_t "svTimeMs" None;
      Member float "svTimeSubMs" None;
      Member float "svTimeUncMs" None;
      Member float "dopplerShift" None;
      Member float "dopplerShiftUnc" None;
      Member uint8_t "dopplerAccel_valid" None;
      Member float "dopplerAccel" None ]);
  ("qmiLocSVMeasurementStructT_v02", [
      Member uint16_t "gnssSvId" None;
      Member uint8_t "gloFrequency" None;
      Member (Named "qmiLocSvStatusEnumT_v02") "svStatus" None;
      Member (Named "qmiLocMeasFieldsValidMaskT_v02") "validMask" None;
      Member uint8_t "healthStatus" None;
      Member (Named "qmiLocSvInfoMaskT_v02") "svInfoMask" None;
      Member (Named "qmiLocSvMeasStatusValidMaskT_v02") "validMeasStatusMask" None;
      Member (Named "qmiLocSvMeasStatusMaskT_v02") "measurementStatus" None;
      Member uint16_t "CNo" None;
      Member uint16_t "gloRfLoss" None;
      Member int32_t "measLatency" None;
      Member (Named "qmiLocSVTimeSpeedStructT_v02") "svTimeSpeed" None;
      Member uint8_t "lossOfLock" None;
      Member float "multipathEstimate" None;
      Member float "fineSpeed" None;
      Member float "fineSpeedUnc" None;
      Member double "carrierPhase" None;
      Member uint8_t "cycleSlipCount" None;
      Member float "svAzimuth" None;
      Member float "svElevation" None ]) ].

Definition structs_23 : list (string * list member) := [
  ("qmiLocDgnssSVMeasurementStructT_v02", [
      Member (Named "qmiLocSvDgnssMeasStatusMaskT_v02") "dgnssMeasStatus" None;
      Member uint32_t "diffDataEpochTimeMsec" None;
      Member float "prCorrMeters" None;
      Member float "prrCorrMetersPerSec" None ]);
  ("qmiLocEventGnssSvMeasInfoIndMsgT_v02", [
      Member uint8_t "seqNum" None;
      Member uint8_t "maxMessageNum" None;
      Member (Named "qmiLocSvSystemEnumT_v02") "system" None;
      Member uint8_t "rcvrClockFrequencyInfo_valid" None;
      Member (Named "qmiLocRcvrClockFrequencyInfoStructT_v02") "rcvrClockFrequencyInfo" None;
      Member uint8_t "leapSecondInfo_valid" None;
      Member (Named "qmiLocLeapSecondInfoStructT_v02") "leapSecondInfo" None;
      Member uint8_t "gpsGloInterSystemBias_valid" None;
      Member (Named "qmiLocInterSystemBiasStructT_v02") "gpsGloInterSystemBias" None;
      Member uint8_t "gpsBdsInterSystemBias_valid" None;
      Member (Named "qmiLocInterSystemBiasStructT_v02") "gpsBdsInterSystemBias" None;
      Member uint8_t "gpsGalInterSystemBias_valid" None;
      Member (Named "qmiLocInterSystemBiasStructT_v02") "gpsGalInterSystemBias" None;
      Member uint8_t "bdsGloInterSystemBias_valid" None;
      Member (Named "qmiLocInterSystemBiasStructT_v02") "bdsGloInterSystemBias" None;
      Member uint8_t "galGloInterSystemBias_valid" None;
      Member (Named "qmiLocInterSystemBiasStructT_v02") "galGloInterSystemBias" None;
      Member uint8_t "galBdsInterSystemBias_valid" None;
      Member (Named "qmiLocInterSystemBiasStructT_v02") "galBdsInterSystemBias" None;
      Member uint8_t "systemTime_valid" None;
      Member (Named "qmiLocGnssTimeStructT_v02") "systemTime" None;
      Member uint8_t "gloTime_valid" None;
      Member (Named "qmiLocGloTimeStructT_v02") "gloTime" None;
      Member uint8_t "systemTimeExt_valid" None;
      Member (Named "qmiLocGnssTimeExtStructT_v02") "systemTimeExt" None;
      Member uint8_t "svMeasurement_valid" None;
      Member uint32_t "svMeasurement_len" None;
      Member (Named "qmiLocSVMeasurementStructT_v02") "svMeasurement" (Some (Macro "QMI_LOC_SV_MEAS_LIST_MAX_SIZE_V02"));
      Member uint8_t "numClockResets_valid" None;
      Member uint32_t "numClockResets" None;
      Member uint8_t "svCarrierPhaseUncertainty_valid" None;
      Member uint32_t "svCarrierPhaseUncertainty_len" None;
      Member float "svCarrierPhaseUncertainty" (Some (Macro "QMI_LOC_SV_MEAS_LIST_MAX_SIZE_V02"));
      Member uint8_t "gnssSignalType_valid" None;
      Member (Named "qmiLocGnssSignalTypeMaskT_v02") "gnssSignalType" None;
      Member uint8_t "jammerIndicator_valid" None;
      Member (Named "qmiLocJammerIndicatorStructT_v02") "jammerIndicator" None;
      Member uint8_t "GpsL1L2cTimeBias_valid" None;
      Member (Named "qmiLocInterSystemBiasStructT_v02") "GpsL1L2cTimeBias" None;
      Member uint8_t "GpsL1L5TimeBias_valid" None;
      Member (Named "qmiLocInterSystemBiasStructT_v02") "GpsL1L5TimeBias" None;
      Member uint8_t "GloG1G2TimeBias_valid" None;
      Member (Named "qmiLocInterSystemBiasStructT_v02") "GloG1G2TimeBias" None;
      Member uint8_t "BdsB1iB2aTimeBias_valid" None;
      Member (Named "qmiLocInterSystemBiasStructT_v02") "BdsB1iB2aTimeBias" None;
      Member uint8_t "BdsB1iB1cTimeBias_valid" None;
      Member (Named "qmiLocInterSystemBiasStructT_v02") "BdsB1iB1cTimeBias" None;
      Member uint8_t "GalE1E5aTimeBias_valid" None;
      Member (Named "qmiLocInterSystemBiasStructT_v02") "GalE1E5aTimeBias" None;
      Member uint8_t "GalE1E5bTimeBias_valid" None;
      Member (Named "qmiLocInterSystemBiasStructT_v02") "GalE1E5bTimeBias" None;
      Member uint8_t "nHzMeasurement_valid" None;
      Member uint8_t "nHzMeasurement" None;
      Member uint8_t "measurementCodeType_valid" None;
      Member (Named "qmiLocMeasurementCodeTypeEnumT_v02") "measurementCodeType" None;
      Member uint8_t "otherCodeTypeName_valid" None;
      Member uint32_t "otherCodeTypeName_len" None;
      Member char "otherCodeTypeName" (Some (Macro "QMI_LOC_SV_MEAS_OTHER_CODE_TYPE_NAME_MAX_LEN_V02"));
      Member uint8_t "gpsNavicInterSystemBias_valid" None;
      Member (Named "qmiLocInterSystemBiasStructT_v02") "gpsNavicInterSystemBias" None;
      Member uint8_t "galNavicInterSystemBias_valid" None;
      Member (Named "qmiLocInterSystemBiasStructT_v02") "galNavicInterSystemBias" None;
      Member uint8_t "gloNavicInterSystemBias_valid" None;
      Member (Named "qmiLocInterSystemBiasStructT_v02") "gloNavicInterSystemBias" None;
      Member uint8_t "bdsNavicInterSystemBias_valid" None;
      Member (Named "qmiLocInterSystemBiasStructT_v02") "bdsNavicInterSystemBias" None;
      Member uint8_t "extSvMeasurement_valid" None;
      Member uint32_t "extSvMeasurement_len" None;
      Member (Named "qmiLocSVMeasurementStructT_v02") "extSvMeasurement" (Some (Macro "QMI_LOC_EXT_SV_MEAS_LIST_MAX_SIZE_V02"));
      Member uint8_t "extSvCarrierPhaseUncertainty_valid" None;
      Member uint32_t "extSvCarrierPhaseUncertainty_len" None;
      Member float "extSvCarrierPhaseUncertainty" (Some (Macro "QMI_LOC_EXT_SV_MEAS_LIST_MAX_SIZE_V02"));
      Member uint8_t "refCountTicks_valid" None;
      Member uint64_t "refCountTicks" None;
      Member uint8_t "dgnssCorrectionSourceT_valid" None;
      Member (Named "qmiLocDgnssCorrectionSourceTypeEnumT_v02") "dgnssCorrectionSourceT" None;
      Member uint8_t "dgnssCorrectionSourceID_valid" None;
      Member uint32_t "dgnssCorrectionSourceID" None;
      Member uint8_t "dgnssRefStationId_valid" None;
      Member uint16_t "dgnssRefStationId" None;
      Member uint8_t "dgnssSvMeasurement_valid" None;
      Member uint32_t "dgnssSvMeasurement_len" None;
      Member (Named "qmiLocDgnssSVMeasurementStructT_v02") "dgnssSvMeasurement" (Some (Macro "QMI_LOC_DGNSS_SV_MEAS_LIST_MAX_SIZE_V02"));
      Member uint8_t "refCountTicksUnc_valid" None;
      Member float "refCountTicksUnc" None;
      Member uint8_t "subSeqNum_valid" None;
      Member uint8_t "subSeqNum" None;
      Member uint8_t "maxSubSeqNum_valid" None;
      Member uint8_t "maxSubSeqNum" None ]) ].

Definition structs_24 : list (string * list member) := [
  ("qmiLocEventGnssSvPolyIndMsgT_v02", [
      Member uint16_t "gnssSvId" None;
      Member double "T0" None;
      Member (Named "qmiLocSvPolyStatusMaskValidityT_v02") "svPolyFlagValid" None;
      Member (Named "qmiLocSvPolyStatusMaskT_v02") "svPolyFlags" None;
      Member uint8_t "polyCoeffXYZ0_valid" None;
      Member double "polyCoeffXYZ0" (Some (Macro "QMI_LOC_SV_POLY_XYZ_0_TH_ORDER_COEFF_SIZE_V02"));
      Member uint8_t "polyCoefXYZN_valid" None;
      Member double "polyCoefXYZN" (Some (Macro "QMI_LOC_SV_POLY_XYZ_N_TH_ORDER_COEFF_SIZE_V02"));
      Member uint8_t "polyCoefClockBias_valid" None;
      Member float "polyCoefClockBias" (Some (Macro "QMI_LOC_SV_POLY_SV_CLKBIAS_COEFF_SIZE_V02"));
      Member uint8_t "gloFrequency_valid" None;
      Member uint8_t "gloFrequency" None;
      Member uint8_t "IODE_valid" None;
      Member uint16_t "IODE" None;
      Member uint8_t "enhancedIOD_valid" None;
      Member uint32_t "enhancedIOD" None;
      Member uint8_t "svPosUnc_valid" None;
      Member float "svPosUnc" None;
      Member uint8_t "ionoDelay_valid" None;
      Member float "ionoDelay" None;
      Member uint8_t "ionoDot_valid" None;
      Member float "ionoDot" None;
      Member uint8_t "sbasIonoDelay_valid" None;
      Member float "sbasIonoDelay" None;
      Member uint8_t "sbasIonoDot_valid" None;
      Member float "sbasIonoDot" None;
      Member uint8_t "tropoDelay_valid" None;
      Member float "tropoDelay" None;
      Member uint8_t "elevation_valid" None;
      Member float "elevation" None;
      Member uint8_t "elevationDot_valid" None;
      Member float "elevationDot" None;
      Member uint8_t "elenationUnc_valid" None;
      Member float "elenationUnc" None;
      Member uint8_t "velCoef_valid" None;
      Member double "velCoef" (Some (Macro "QMI_LOC_SV_POLY_VELOCITY_COEF_SIZE_V02"));
      Member uint8_t "gpsIscL1ca_valid" None;
      Member float "gpsIscL1ca" None;
      Member uint8_t "gpsIscL2c_valid" None;
      Member float "gpsIscL2c" None;
      Member uint8_t "gpsIscL5I5_valid" None;
      Member float "gpsIscL5I5" None;
      Member uint8_t "gpsIscL5Q5_valid" None;
      Member float "gpsIscL5Q5" None;
      Member uint8_t "gpsTgd_valid" None;
      Member float "gpsTgd" None;
      Member uint8_t "gloTgdG1G2_valid" None;
      Member float "gloTgdG1G2" None;
      Member uint8_t "bdsTgdB1_valid" None;
      Member float "bdsTgdB1" None;
      Member uint8_t "bdsTgdB2_valid" None;
      Member float "bdsTgdB2" None;
      Member uint8_t "bdsTgdB2a_valid" None;
      Member float "bdsTgdB2a" None;
      Member uint8_t "bdsIscB2a_valid" None;
      Member float "bdsIscB2a" None;
      Member uint8_t "galBgdE1E5a_valid" None;
      Member float "galBgdE1E5a" None;
      Member uint8_t "galBgdE1E5b_valid" None;
      Member float "galBgdE1E5b" None;
      Member uint8_t "navicTgdL5_valid" None;
      Member float "navicTgdL5" None;
      Member uint8_t "bdsTgdB1c_valid" None;
      Member float "bdsTgdB1c" None;
      Member uint8_t "bdsIscB1c_valid" None;
      Member float "bdsIscB1c" None;
      Member uint8_t "multibandHealth_valid" None;
      Member (Named "qmiLocSignalHealthMaskT_v02") "multibandHealth" None ]);
  ("qmiLocWifiApMacAddressStructT_v02", [
      Member uint8_t "wifiApMacAddress" (Some (Macro "QMI_LOC_WIFI_MAC_ADDR_LENGTH_V02")) ]);
  ("qmiLocIBeaconIdStructT_v02", [
      Member char "uuid" (Some (MacroPlus "QMI_LOC_MAX_IBEACON_UUID_STR_LENGTH_V02" 1));
      Member uint32_t "majorNumber" None;
      Member uint32_t "minorNumber" None ]);
  ("qmiLocAddGeofenceContextReqMsgT_v02", [
      Member uint32_t "transactionId" None;
      Member uint8_t "geofenceId_valid" None;
      Member uint32_t "geofenceId" None;
      Member uint8_t "wifiApSsidInfo_valid" None;
      Member uint32_t "wifiApSsidInfo_len" None;
      Member (Named "qmiLocWifiApSsidStructT_v02") "wifiApSsidInfo" (Some (Macro "QMI_LOC_WIFI_AREA_ID_LIST_LENGTH_V02"));
      Member uint8_t "wifiApMacAddressList_valid" None;
      Member uint32_t "wifiApMacAddressList_len" None;
      Member (Named "qmiLocWifiApMacAddressStructT_v02") "wifiApMacAddressList" (Some (Macro "QMI_LOC_WIFI_AREA_ID_LIST_LENGTH_V02"));
      Member uint8_t "tdsCdmaCellIDList_valid" None;
      Member (Named "qmiLocTDSCDMACellIdStructT_v02") "tdsCdmaCellIDList" (Some (Macro "QMI_LOC_CELL_ID_LIST_LENGTH_V02"));
      Member uint8_t "wcdmaCellIDList_valid" None;
      Member uint32_t "wcdmaCellIDList_len" None;
      Member (Named "qmiLocWCDMACellIdStructT_v02") "wcdmaCellIDList" (Some (Macro "QMI_LOC_CELL_ID_LIST_LENGTH_V02"));
      Member uint8_t "gsmCellIDList_valid" None;
      Member uint32_t "gsmCellIDList_len" None;
      Member (Named "qmiLocGSMCellIdStructT_v02") "gsmCellIDList" (Some (Macro "QMI_LOC_CELL_ID_LIST_LENGTH_V02"));
      Member uint8_t "iBeaconList_valid" None;
      Member uint32_t "iBeaconList_len" None;
      Member (Named "qmiLocIBeaconIdStructT_v02") "iBeaconList" (Some (Macro "QMI_LOC_IBEACON_LIST_LENGTH_V02")) ]);
  ("qmiLocAddGeofenceContextIndMsgT_v02", [
      Member (Named "qmiLocStatusEnumT_v02") "status" None;
      Member uint8_t "transactionId_valid" None;
      Member uint32_t "transactionId" None;
      Member uint8_t "geofenceId_valid" None;
      Member uint32_t "geofenceId" None;
      Member uint8_t "contextId_valid" None;
      Member uint32_t "contextId" None ]);
  ("qmiLocSetGeofenceEngineContextReqMsgT_v02", [
      Member uint32_t "transactionId" None;
      Member uint8_t "utcTimeOfDay_valid" None;
      Member uint64_t "utcTimeOfDay" None;
      Member uint8_t "temperature_valid" None;
      Member int32_t "temperature" None ]);
  ("qmiLocSetGeofenceEngineContextIndMsgT_v02", [
      Member (Named "qmiLocStatusEnumT_v02") "status" None;
      Member uint8_t "transactionId_valid" None;
      Member uint32_t "transactionId" None ]);
  ("qmiLocDeleteGeofenceContextReqMsgT_v02", [
      Member uint32_t "transactionId" None;
      Member uint32_t "geofenceId" None;
      Member uint8_t "contextId_valid" None;
      Member uint32_t "contextId" None ]);
  ("qmiLocDeleteGeofenceContextIndMsgT_v02", [
      Member (Named "qmiLocStatusEnumT_v02") "status" None;
      Member uint8_t "transactionId_valid" None;
      Member uint32_t "transactionId" None;
      Member uint8_t "geofenceId_valid" None;
      Member uint32_t "geofenceId" None;
      Member uint8_t "contextId_valid" None;
      Member uint32_t "contextId" None ]);
  ("qmiLocInjectGtpClientDownloadedDataReqMsgT_v02", [
      Member uint32_t "ClientDownloadedData_len" None;
      Member char "ClientDownloadedData" (Some (Macro "QMI_LOC_MAX_GTP_WWAN_CLIENT_DOWNLOADED_DATA_LEN_V02")) ]);
  ("qmiLocInjectGtpClientDownloadedDataIndMsgT_v02", [
      Member (Named "qmiLocStatusEnumT_v02") "status" None ]) ].

Definition structs_25 : list (string * list member) := [
  ("qmiLocGdtUploadBeginStatusReqMsgT_v02", [
      Member (Named "qmiLocGdtServiceIdEnumT_v02") "serviceId" None;
      Member uint32_t "sessionId" None;
      Member (Named "qmiLocGdtAccessStatusEnumT_v02") "gdtAccessStatus" None ]);
  ("qmiLocGdtUploadBeginStatusIndMsgT_v02", [
      Member (Named "qmiLocStatusEnumT_v02") "status" None ]);
  ("qmiLocGdtUploadEndReqMsgT_v02", [
      Member (Named "qmiLocGdtServiceIdEnumT_v02") "serviceId" None;
      Member uint32_t "sessionId" None;
      Member (Named "qmiLocGdtEndAckEnumT_v02") "gdtEndStatus" None ]);
  ("qmiLocGdtUploadEndIndMsgT_v02", [
      Member (Named "qmiLocStatusEnumT_v02") "status" None ]);
  ("qmiLocGtpApStatusReqMsgT_v02", [
      Member (Named "qmiLocGtpApStatusEnumT_v02") "gtpApDbStatus" None;
      Member uint8_t "gtpApPcid64_valid" None;
      Member uint64_t "gtpApPcid64" None;
      Member uint8_t "oemId_valid" None;
      Member uint32_t "oemId_len" None;
      Member char "oemId" (Some (Macro "QMI_LOC_MAX_OEM_ID_LEN_V02"));
      Member uint8_t "modelId_valid" None;
      Member uint32_t "modelId_len" None;
      Member char "modelId" (Some (Macro "QMI_LOC_MAX_MODEL_ID_LEN_V02")) ]);
  ("qmiLocGtpAsnVerStructT_v02", [
      Member uint8_t "asnMajorVersion" None;
      Member uint8_t "asnMinorVersion" None;
      Member uint8_t "asnPointVersion" None ]);
  ("qmiLocGtpApStatusIndMsgT_v02", [
      Member (Named "qmiLocStatusEnumT_v02") "status" None;
      Member uint16_t "clientSoftwareVersion" None;
      Member (Named "qmiLocGtpAsnVerStructT_v02") "asnVersion" None ]);
  ("qmiLocGdtDownloadBeginStatusReqMsgT_v02", [
      Member (Named "qmiLocGdtServiceIdEnumT_v02") "serviceId" None;
      Member uint32_t "sessionId" None;
      Member (Named "qmiLocGtpProcessStatusEnumT_v02") "processingStatus" None;
      Member uint8_t "wwanDownloadFlag_valid" None;
      Member uint16_t "wwanDownloadFlag" None;
      Member uint8_t "respLocInfo_valid" None;
      Member uint32_t "respLocInfo_len" None;
      Member uint8_t "respLocInfo" (Some (Macro "QMI_LOC_MAX_GTP_RLI_LEN_V02"));
      Member uint8_t "apRemainingThrottleTime_valid" None;
      Member uint32_t "apRemainingThrottleTime" None ]);
  ("qmiLocGdtDownloadBeginStatusIndMsgT_v02", [
      Member (Named "qmiLocStatusEnumT_v02") "status" None ]);
  ("qmiLocGdtDownloadReadyStatusReqMsgT_v02", [
      Member (Named "qmiLocGdtServiceIdEnumT_v02") "serviceId" None;
      Member uint32_t "sessionId" None;
      Member (Named "qmiLocStatusEnumT_v02") "status" None;
      Member uint32_t "filePath_len" None;
      Member char "filePath" (Some (Macro "QMI_LOC_MAX_GDT_PATH_LEN_V02")) ]);
  ("qmiLocGdtDownloadReadyStatusIndMsgT_v02", [
      Member (Named "qmiLocStatusEnumT_v02") "status" None ]);
  ("qmiLocGdtReceiveDoneStatusReqMsgT_v02", [
      Member (Named "qmiLocGdtServiceIdEnumT_v02") "serviceId" None;
      Member uint32_t "sessionId" None;
      Member (Named "qmiLocStatusEnumT_v02") "status" None ]);
  ("qmiLocGdtReceiveDoneStatusIndMsgT_v02", [
      Member (Named "qmiLocStatusEnumT_v02") "status" None ]);
  ("qmiLocGdtDownloadEndStatusReqMsgT_v02", [
      Member (Named "qmiLocGdtServiceIdEnumT_v02") "serviceId" None;
      Member uint32_t "sessionId" None;
      Member (Named "qmiLocStatusEnumT_v02") "status" None ]);
  ("qmiLocGdtDownloadEndStatusIndMsgT_v02", [
      Member (Named "qmiLocStatusEnumT_v02") "status" None ]);
  ("qmiLocStartDbtReqMsgT_v02", [
      Member uint8_t "reqId" None;
      Member uint32_t "minDistance" None;
      Member (Named "qmiLocDbDistanceTypeEnumT_v02") "distanceType" None;
      Member uint8_t "needOriginLocation" None;
      Member uint8_t "maxLatency_valid" None;
      Member uint32_t "maxLatency" None;
      Member uint8_t "usageType_valid" None;
      Member (Named "qmiLocDbtUsageEnumT_v02") "usageType" None ]) ].

Definition structs_26 : list (string * list member) := [
  ("qmiLocStartDbtIndMsgT_v02", [
      Member (Named "qmiLocStatusEnumT_v02") "status" None;
      Member uint8_t "reqId_valid" None;
      Member uint8_t "reqId" None ]);
  ("qmiLocStopDbtReqMsgT_v02", [
      Member uint8_t "reqId" None ]);
  ("qmiLocStopDbtIndMsgT_v02", [
      Member (Named "qmiLocStatusEnumT_v02") "status" None;
      Member uint8_t "reqId_valid" None;
      Member uint8_t "reqId" None ]);
  ("qmiLocDbtPositionStructT_v02", [
      Member uint64_t "timestampUtc" None;
      Member double "latitude" None;
      Member double "longitude" None;
      Member float "horUncEllipseSemiMinor" None;
      Member float "horUncEllipseSemiMajor" None;
      Member float "horUncEllipseOrientAzimuth" None;
      Member uint8_t "speedHorizontal_valid" None;
      Member float "speedHorizontal" None;
      Member uint8_t "altitudeWrtEllipsoid_valid" None;
      Member float "altitudeWrtEllipsoid" None;
      Member uint8_t "vertUnc_valid" None;
      Member float "vertUnc" None;
      Member uint8_t "speedVertical_valid" None;
      Member float "speedVertical" None;
      Member uint8_t "heading_valid" None;
      Member float "heading" None ]);
  ("qmiLocEventDbtPositionReportIndMsgT_v02", [
      Member uint8_t "reqId" None;
      Member (Named "qmiLocDbtPositionStructT_v02") "dbtPosition" None;
      Member (Named "qmiLocDbtPositionTypeEnumT_v02") "positionType" None;
      Member uint8_t "headingUnc_valid" None;
      Member float "headingUnc" None;
      Member uint8_t "speedUnc_valid" None;
      Member float "speedUnc" None;
      Member uint8_t "horConfidence_valid" None;
      Member uint8_t "horConfidence" None;
      Member uint8_t "vertConfidence_valid" None;
      Member uint8_t "vertConfidence" None;
      Member uint8_t "DOP_valid" None;
      Member (Named "qmiLocDOPStructT_v02") "DOP" None;
      Member uint8_t "gnssSvUsedList_valid" None;
      Member uint32_t "gnssSvUsedList_len" None;
      Member uint16_t "gnssSvUsedList" (Some (Macro "QMI_LOC_MAX_SV_USED_LIST_LENGTH_V02"));
      Member uint8_t "positionSrc_valid" None;
      Member (Named "qmiLocPositionSrcEnumT_v02") "positionSrc" None;
      Member uint8_t "extDOP_valid" None;
      Member (Named "qmiLocExtDOPStructT_v02") "extDOP" None;
      Member uint8_t "expandedGnssSvUsedList_valid" None;
      Member uint32_t "expandedGnssSvUsedList_len" None;
      Member uint16_t "expandedGnssSvUsedList" (Some (Macro "QMI_LOC_EXPANDED_SV_INFO_LIST_MAX_SIZE_V02"));
      Member uint8_t "gnssSvUsedSignalTypeList_valid" None;
      Member uint32_t "gnssSvUsedSignalTypeList_len" None;
      Member (Named "qmiLocGnssSignalTypeMaskT_v02") "gnssSvUsedSignalTypeList" (Some (Macro "QMI_LOC_EXPANDED_SV_INFO_LIST_MAX_SIZE_V02")) ]);
  ("qmiLocEventDbtSessionStatusIndMsgT_v02", [
      Member (Named "qmiLocDbtSessionStatusEnumT_v02") "dbtSessionStatus" None;
      Member uint8_t "reqId_valid" None;
      Member uint8_t "reqId" None ]);
  ("qmiLocSecureGetAvailablePositionReqMsgT_v02", [
      Member (Named "qmiLocSecureLocDataModeEnumT_v02") "secureLocDataMode" None;
      Member uint32_t "qmilocSecureGetAvailablePositionRequestData_len" None;
      Member uint8_t "qmilocSecureGetAvailablePositionRequestData" (Some (Macro "QMI_LOC_SECURE_GET_AVAILABLE_POS_REQUEST_ENCRYPTED_MAX_V02")) ]) ].

Definition structs_27 : list (string * list member) := [
  ("qmiLocSecureGetAvailablePositionIndMsgT_v02", [
      Member (Named "qmiLocSessionStatusEnumT_v02") "sessionStatus" None;
      Member (Named "qmiLocSecureLocDataModeEnumT_v02") "secureLocDataMode" None;
      Member uint8_t "qmilocSecureGetAvailablePositionInd_valid" None;
      Member uint32_t "qmilocSecureGetAvailablePositionInd_len" None;
      Member uint8_t "qmilocSecureGetAvailablePositionInd" (Some (Macro "QMI_LOC_SECURE_GET_AVAILABLE_POSITION_IND_ENCRYPTED_MAX_V02")) ]);
  ("qmiLocApCacheStructT_v02", [
      Member uint64_t "macAddress" None;
      Member float "xLat" None;
      Member float "yLon" None;
      Member float "mar" None ]);
  ("qmiLocApCacheHepeRelStructT_v02", [
      Member uint8_t "hepeValid" None;
      Member uint16_t "hepe" None;
      Member (Named "qmiLocApReliabilityEnumT_v02") "apReliability" None ]);
  ("qmiLocInjectApCacheDataReqMsgT_v02", [
      Member uint8_t "versionNumber" None;
      Member uint8_t "partNumber" None;
      Member uint8_t "totalParts" None;
      Member uint32_t "apCacheData_len" None;
      Member (Named "qmiLocApCacheStructT_v02") "apCacheData" (Some (Macro "QMI_LOC_APCACHE_DATA_MAX_SAMPLES_V02"));
      Member uint8_t "apCacheHepeRelData_valid" None;
      Member uint32_t "apCacheHepeRelData_len" None;
      Member (Named "qmiLocApCacheHepeRelStructT_v02") "apCacheHepeRelData" (Some (Macro "QMI_LOC_APCACHE_DATA_MAX_SAMPLES_V02")) ]);
  ("qmiLocInjectApCacheDataIndMsgT_v02", [
      Member (Named "qmiLocStatusEnumT_v02") "status" None;
      Member uint8_t "apCacheSize_valid" None;
      Member uint32_t "apCacheSize" None;
      Member uint8_t "apDoNotCacheSize_valid" None;
      Member uint32_t "apDoNotCacheSize" None;
      Member uint8_t "apCacheHits_valid" None;
      Member uint32_t "apCacheHits" None;
      Member uint8_t "apDoNotCacheHits_valid" None;
      Member uint32_t "apDoNotCacheHits" None;
      Member uint8_t "unknownAps_valid" None;
      Member uint32_t "unknownAps" None;
      Member uint8_t "asyncScans_valid" None;
      Member uint32_t "asyncScans" None;
      Member uint8_t "asyncFixes_valid" None;
      Member uint32_t "asyncFixes" None;
      Member uint8_t "syncScans_valid" None;
      Member uint32_t "syncScans" None;
      Member uint8_t "syncFixes_valid" None;
      Member uint32_t "syncFixes" None ]);
  ("qmiLocApDoNotCacheStructT_v02", [
      Member uint64_t "macAddress" None ]);
  ("qmiLocInjectApDoNotCacheDataReqMsgT_v02", [
      Member uint8_t "versionNumber" None;
      Member uint8_t "partNumber" None;
      Member uint8_t "totalParts" None;
      Member uint32_t "apDoNotCacheData_len" None;
      Member (Named "qmiLocApDoNotCacheStructT_v02") "apDoNotCacheData" (Some (Macro "QMI_LOC_APCACHE_DATA_MAX_SAMPLES_V02")) ]);
  ("qmiLocInjectApDoNotCacheDataIndMsgT_v02", [
      Member (Named "qmiLocStatusEnumT_v02") "status" None ]);
  ("qmiLocEventBatchingStatusIndMsgT_v02", [
      Member (Named "qmiLocBatchingStatusEnumT_v02") "batchingStatus" None ]);
  ("qmiLocQueryAonConfigReqMsgT_v02", [
      Member uint32_t "transactionId" None ]);
  ("qmiLocQueryAonConfigIndMsgT_v02", [
      Member (Named "qmiLocStatusEnumT_v02") "status" None;
      Member uint8_t "transactionId_valid" None;
      Member uint32_t "transactionId" None;
      Member uint8_t "aonCapability_valid" None;
      Member (Named "qmiLocAonCapabilityMaskT_v02") "aonCapability" None ]);
  ("qmiLocDeleteSatelliteDataStructT_v02", [
      Member (Named "qmiLocGNSSConstellMaskT_v02") "system" None;
      Member (Named "qmiLocDeleteSatelliteDataMaskT_v02") "deleteSatelliteDataMask" None ]);
  ("qmiLocDeleteGNSSServiceDataReqMsgT_v02", [
      Member uint8_t "deleteAllFlag" None;
      Member uint8_t "deleteClockInfoMask_valid" None;
      Member (Named "qmiLocDeleteClockInfoMaskT_v02") "deleteClockInfoMask" None;
      Member uint8_t "deleteCellDbDataMask_valid" None;
      Member (Named "qmiLocDeleteCelldbDataMaskT_v02") "deleteCellDbDataMask" None;
      Member uint8_t "deleteCommonDataMask_valid" None;
      Member (Named "qmiLocDeleteCommonDataMaskT_v02") "deleteCommonDataMask" None;
      Member uint8_t "deleteSatelliteData_valid" None;
      Member (Named "qmiLocDeleteSatelliteDataStructT_v02") "deleteSatelliteData" None;
      Member uint8_t "deleteExtClockInfoMask_valid" None;
      Member (Named "qmiLocExtDeleteClockInfoMaskT_v02") "deleteExtClockInfoMask" None ]);
  ("qmiLocDeleteGNSSServiceDataIndMsgT_v02", [
      Member (Named "qmiLocStatusEnumT_v02") "status" None ]);
  ("qmiLocInjectXtraDataReqMsgT_v02", [
      Member uint32_t "totalSize" None;
      Member uint16_t "totalParts" None;
      Member uint16_t "partNum" None;
      Member uint32_t "partData_len" None;
      Member uint8_t "partData" (Some (Macro "QMI_LOC_MAX_XTRA_PART_LEN_V02"));
      Member uint8_t "formatType_valid" None;
      Member (Named "qmiLocXtraDataFormatEnumT_v02") "formatType" None ]) ].

Definition structs_28 : list (string * list member) := [
  ("qmiLocInjectXtraDataIndMsgT_v02", [
      Member (Named "qmiLocStatusEnumT_v02") "status" None;
      Member uint8_t "partNum_valid" None;
      Member uint16_t "partNum" None;
      Member uint8_t "ConstellationMask_valid" None;
      Member (Named "qmiLocGNSSConstellEnumT_v02") "ConstellationMask" None ]);
  ("qmiLocInjectXtraPcidReqMsgT_v02", [
      Member uint64_t "xtraPcid" None ]);
  ("qmiLocInjectXtraPcidIndMsgT_v02", [
      Member (Named "qmiLocStatusEnumT_v02") "status" None ]);
  ("qmiLocGetSupportedFeatureReqMsgT_v02", [
      Member char "__placeholder" None ]);
  ("qmiLocGetSupportedFeatureIndMsgT_v02", [
      Member (Named "qmiLocStatusEnumT_v02") "status" None;
      Member uint32_t "feature_len" None;
      Member uint8_t "feature" (Some (Macro "QMI_LOC_SUPPORTED_FEATURE_LENGTH_V02"));
      Member uint8_t "featureStatusReport_valid" None;
      Member (Named "qmiLocFeaturesStatusMaskT_v02") "featureStatusReport" None ]);
  ("qmiLocSetInternalStatusConfigReqMsgT_v02", [
      Member uint8_t "config" None ]);
  ("qmiLocSetInternalStatusConfigIndMsgT_v02", [
      Member (Named "qmiLocStatusEnumT_v02") "status" None ]);
  ("qmiLocInternalStatusReportDataStructT_v02", [
      Member uint8_t "data" (Some (Macro "QMI_LOC_INTERNAL_STATUS_REPORT_DATA_LENGTH_V02")) ]);
  ("qmiLocEventInternalStatusReportIndMsgT_v02", [
      Member uint32_t "reportData_len" None;
      Member (Named "qmiLocInternalStatusReportDataStructT_v02") "reportData" (Some (Macro "QMI_LOC_INTERNAL_STATUS_MAX_LIST_SIZE_V02")) ]);
  ("qmiLocEventInjectSrnApDataReqIndMsgT_v02", [
      Member (Named "qmiLocSrnApDataDeviceTypeMaskT_v02") "srnTechMask" None;
      Member uint8_t "srnRequest" None;
      Member uint8_t "e911Mode_valid" None;
      Member uint8_t "e911Mode" None;
      Member uint8_t "srnApMacAddrType_valid" None;
      Member (Named "qmiLocSrnApDataMacAddrTypeEnumT_v02") "srnApMacAddrType" None ]);
  ("qmiLocSrnBtleApDeviceDataStructT_v02", [
      Member (Named "qmiLocSrnApDataMaskT_v02") "srnApDataMask" None;
      Member uint8_t "macAddress" (Some (Macro "QMI_LOC_SRN_MAC_ADDR_LENGTH_V02"));
      Member int32_t "apSrnRssi" None;
      Member int64_t "apSrnTimestamp" None ]);
  ("qmiLocInjectSrnApDataReqMsgT_v02", [
      Member (Named "qmiLocSrnApDataTechTypeEnumT_v02") "apDeviceTechType" None;
      Member uint8_t "srnBtleApInfo_valid" None;
      Member uint32_t "srnBtleApInfo_len" None;
      Member (Named "qmiLocSrnBtleApDeviceDataStructT_v02") "srnBtleApInfo" (Some (Macro "QMI_LOC_SRN_MAX_REPORTED_APS_PER_MSG_V02"));
      Member uint8_t "requestTimestamp_valid" None;
      Member int64_t "requestTimestamp" None;
      Member uint8_t "receiveTimestamp_valid" None;
      Member int64_t "receiveTimestamp" None;
      Member uint8_t "errorCause_valid" None;
      Member (Named "qmiLocSrnApErrEnumT_v02") "errorCause" None ]);
  ("qmiLocInjectSrnApDataIndMsgT_v02", [
      Member (Named "qmiLocStatusEnumT_v02") "status" None ]);
  ("qmiLocWifiCrowdSourcingLocalConfigStructT_v02", [
      Member uint8_t "enableCrowdSourcingOnDemand" None;
      Member uint8_t "enableCrowdSourcingOnUnsolicitedGnss" None;
      Member uint8_t "enableBatteryLevelBasedThrottling" None;
      Member uint8_t "enableRttCrowdSourcing" None;
      Member uint8_t "enableRtt3CrowdSourcing" None;
      Member int32_t "rttSignalDbmThresh" None;
      Member uint16_t "maxDataTransferFormatVersionSupported" None ]);
  ("qmiLocCrowdSourceManagerControlReqMsgT_v02", [
      Member uint8_t "enableCrowdSourcingMask_valid" None;
      Member (Named "qmiLocCrowdSourcingTechnologyMaskT_v02") "enableCrowdSourcingMask" None;
      Member uint8_t "wifiCrowdSourcingLocalConfig_valid" None;
      Member (Named "qmiLocWifiCrowdSourcingLocalConfigStructT_v02") "wifiCrowdSourcingLocalConfig" None;
      Member uint8_t "wifiCrowdSourcingServerConfig_valid" None;
      Member uint32_t "wifiCrowdSourcingServerConfig_len" None;
      Member char "wifiCrowdSourcingServerConfig" (Some (Macro "QMI_LOC_MAX_WIFI_CROWDSOURCING_SERVER_CONFIG_LEN_V02"));
      Member uint8_t "enableSourceMask_valid" None;
      Member (Named "qmiLocCrowdSourcingSourceMaskT_v02") "enableSourceMask" None ]);
  ("qmiLocWifiCrowdSourcingCapabilityStructT_v02", [
      Member uint8_t "onDemandCrowdSourcingSupported" None;
      Member uint8_t "UnsolicitedGnssCrowdSourcingSupported" None;
      Member uint8_t "majorVersionSupported" None;
      Member uint8_t "minorVersionSupported" None;
      Member uint16_t "maxDataTransferFormatVersionSupported" None ]) ].

Definition structs_29 : list (string * list member) := [
  ("qmiLocCrowdSourceManagerControlIndMsgT_v02", [
      Member (Named "qmiLocStatusEnumT_v02") "status" None;
      Member uint8_t "supportedCrowdSourcingMask_valid" None;
      Member (Named "qmiLocCrowdSourcingTechnologyMaskT_v02") "supportedCrowdSourcingMask" None;
      Member uint8_t "wifiCrowdSourcingCapabaility_valid" None;
      Member (Named "qmiLocWifiCrowdSourcingCapabilityStructT_v02") "wifiCrowdSourcingCapabaility" None;
      Member uint8_t "modemClientInfo_valid" None;
      Member uint32_t "modemClientInfo_len" None;
      Member uint8_t "modemClientInfo" (Some (Macro "QMI_LOC_MAX_CROWDSOURCING_MODEM_CLIENT_INFO_LEN_V02")) ]);
  ("qmiLocCrowdSourceManagerReadDataReqMsgT_v02", [
      Member uint8_t "crowdSourcingTechMask_valid" None;
      Member (Named "qmiLocCrowdSourcingTechnologyMaskT_v02") "crowdSourcingTechMask" None ]);
  ("qmiLocXtraInfoStructT_v02", [
      Member (Named "qmiLocXtraInfoMaskT_v02") "reportMask" None;
      Member uint16_t "absAgeHrs" None;
      Member uint64_t "relAgeInUTC" None;
      Member (Named "qmiLocPredictedOrbitsServerListStructT_v02") "xtraServerInfo" None;
      Member (Named "qmiLocTimeServerListStructT_v02") "ntpServerInfo" None;
      Member uint8_t "timeRequest" None;
      Member uint16_t "preferedValidAgeHrs" None ]);
  ("qmiLocVersionStructT_v02", [
      Member uint8_t "majorVersion" None;
      Member uint8_t "minorVersion" None ]);
  ("qmiLocQueryXtraInfoReqMsgT_v02", [
      Member (Named "qmiLocXtraConfigMaskT_v02") "xtraConfig" None;
      Member uint8_t "xcVersion_valid" None;
      Member (Named "qmiLocVersionStructT_v02") "xcVersion" None ]);
  ("qmiLocQueryXtraInfoIndMsgT_v02", [
      Member (Named "qmiLocStatusEnumT_v02") "status" None;
      Member (Named "qmiLocXtraInfoStructT_v02") "xtraInfo" None;
      Member uint8_t "mpVersion_valid" None;
      Member (Named "qmiLocVersionStructT_v02") "mpVersion" None ]);
  ("qmiLocStartOutdoorTripBatchingReqMsgT_v02", [
      Member uint32_t "batchDistance" None;
      Member uint32_t "minTimeInterval" None;
      Member uint8_t "fixSessionTimeout_valid" None;
      Member uint32_t "fixSessionTimeout" None;
      Member uint8_t "batchAllPos_valid" None;
      Member uint8_t "batchAllPos" None ]);
  ("qmiLocStartOutdoorTripBatchingIndMsgT_v02", [
      Member (Named "qmiLocStatusEnumT_v02") "status" None ]);
  ("qmiLocQueryOTBAccumulatedDistanceReqMsgT_v02", [
      Member char "__placeholder" None ]);
  ("qmiLocQueryOTBAccumulatedDistanceIndMsgT_v02", [
      Member (Named "qmiLocStatusEnumT_v02") "status" None;
      Member uint32_t "accumulatedDistance" None;
      Member uint32_t "batchedPosition" None ]);
  ("qmiLocGtpClientSwVerStructT_v02", [
      Member uint8_t "gtpClientSwMajorVersion" None;
      Member uint8_t "gtpClientSwMinorVersion" None ]);
  ("qmiLocHomeCarrierIdStructT_v02", [
      Member uint8_t "homeMncValid" None;
      Member uint32_t "homeMcc" None;
      Member uint32_t "homeMnc" None ]);
  ("qmiLocPositionSourceStructT_v02", [
      Member uint8_t "unspecifiedInternal" None;
      Member uint8_t "unspecifiedExternal" None;
      Member uint8_t "gnss" None;
      Member uint8_t "sensors" None;
      Member uint8_t "wifi" None;
      Member uint8_t "wwan" None ]);
  ("qmiLocBsBestPositionStructT_v02", [
      Member double "latitude" None;
      Member double "longitude" None;
      Member float "horizontalUnc" None;
      Member float "altitude" None;
      Member float "altitudeUnc" None;
      Member (Named "qmiLocPositionSourceStructT_v02") "latestPositionSources" None ]);
  ("qmiLocFdclCellIdStructT_v02", [
      Member (Named "qmiLocFdclAirInterfaceTypeEnumT_v02") "airInterfaceType" None;
      Member uint32_t "id1" None;
      Member uint32_t "id2" None;
      Member uint32_t "id3" None;
      Member uint32_t "id4" None ]);
  ("qmiLocEventFdclServiceReqIndMsgT_v02", [
      Member uint8_t "gtpClientSwVer_valid" None;
      Member (Named "qmiLocGtpClientSwVerStructT_v02") "gtpClientSwVer" None;
      Member uint8_t "modemSwVersion_valid" None;
      Member char "modemSwVersion" (Some (MacroPlus "QMI_LOC_GNSS_SW_VERSION_STRING_MAX_LENGTH_V02" 1));
      Member uint8_t "homeCarrierId_valid" None;
      Member (Named "qmiLocHomeCarrierIdStructT_v02") "homeCarrierId" None;
      Member uint8_t "cdmaRealm_valid" None;
      Member char "cdmaRealm" (Some (MacroPlus "QMI_LOC_GNSS_SW_VERSION_STRING_MAX_LENGTH_V02" 1));
      Member uint8_t "gtpMaxNumRecordsAccepted_valid" None;
      Member uint16_t "gtpMaxNumRecordsAccepted" None;
      Member uint8_t "gpsWeek_valid" None;
      Member uint16_t "gpsWeek" None;
      Member uint8_t "gpsMilliseconds_valid" None;
      Member uint32_t "gpsMilliseconds" None;
      Member uint8_t "bsBestPosition_valid" None;
      Member (Named "qmiLocBsBestPositionStructT_v02") "bsBestPosition" None;
      Member uint8_t "currentCellId_valid" None;
      Member (Named "qmiLocFdclCellIdStructT_v02") "currentCellId" None;
      Member uint8_t "requestedDataTypes_valid" None;
      Member uint8_t "requestedDataTypes" None;
      Member uint8_t "restrictedRegionVersion_valid" None;
      Member uint8_t "restrictedRegionVersion" None ]);
  ("qmiLocGetFdclBsListReqMsgT_v02", [
      Member uint8_t "expireInDays_valid" None;
      Member uint32_t "expireInDays" None;
      Member uint8_t "timestampUtc_valid" None;
      Member uint64_t "timestampUtc" None;
      Member uint8_t "maxNumBs_valid" None;
      Member uint16_t "maxNumBs" None ]) ].

Definition structs_30 : list (string * list member) := [
  ("qmiLocGetFdclBsListIndMsgT_v02", [
      Member (Named "qmiLocStatusEnumT_v02") "status" None;
      Member uint32_t "BsList_len" None;
      Member (Named "qmiLocFdclCellIdStructT_v02") "BsList" (Some (Macro "QMI_LOC_FDCL_BS_LIST_MAX_SIZE_V02"));
      Member uint8_t "moreBsAvailable_valid" None;
      Member uint8_t "moreBsAvailable" None;
      Member uint8_t "bsLocalTimestampList_valid" None;
      Member uint32_t "bsLocalTimestampList_len" None;
      Member uint32_t "bsLocalTimestampList" (Some (Macro "QMI_LOC_FDCL_BS_LIST_MAX_SIZE_V02"));
      Member uint8_t "bsBestPosition_valid" None;
      Member (Named "qmiLocBsBestPositionStructT_v02") "bsBestPosition" None ]);
  ("qmiLocFdclCellPosStructT_v02", [
      Member (Named "qmiLocFdclCellPosValidMaskT_v02") "validMask" None;
      Member (Named "qmiLocFdclCellIdStructT_v02") "cellId" None;
      Member double "latitude" None;
      Member double "longitude" None;
      Member float "horCoverageRadius" None;
      Member uint8_t "horConfidence" None;
      Member (Named "qmiLocReliabilityEnumT_v02") "horReliability" None;
      Member float "altitude" None;
      Member float "altUnc" None;
      Member uint8_t "altConfidence" None;
      Member (Named "qmiLocReliabilityEnumT_v02") "altReliability" None ]);
  ("qmiLocInjectFdclDataReqMsgT_v02", [
      Member uint32_t "cellPosList_len" None;
      Member (Named "qmiLocFdclCellPosStructT_v02") "cellPosList" (Some (Macro "QMI_LOC_FDCL_CELL_POS_LIST_LENGTH_V02"));
      Member uint32_t "daysValid" None;
      Member uint8_t "timestampUtc_valid" None;
      Member uint64_t "timestampUtc" None;
      Member uint8_t "cellRecordTypeList_valid" None;
      Member uint32_t "cellRecordTypeList_len" None;
      Member (Named "qmiLocCellRecordTypeEnumT_v02") "cellRecordTypeList" (Some (Macro "QMI_LOC_FDCL_CELL_POS_LIST_LENGTH_V02"));
      Member uint8_t "moreBsAvailable_valid" None;
      Member uint8_t "moreBsAvailable" None;
      Member uint8_t "clientControls_valid" None;
      Member uint16_t "clientControls" None;
      Member uint8_t "maxNumCellsToUpload_valid" None;
      Member uint16_t "maxNumCellsToUpload" None;
      Member uint8_t "minSecsBtwRequests_valid" None;
      Member uint16_t "minSecsBtwRequests" None;
      Member uint8_t "restrictedRegionVersion_valid" None;
      Member uint8_t "restrictedRegionVersion" None;
      Member uint8_t "restrictedRegions_valid" None;
      Member uint32_t "restrictedRegions_len" None;
      Member (Named "qmiLocHomeCarrierIdStructT_v02") "restrictedRegions" (Some (Macro "QMI_LOC_FDCL_BS_LIST_MAX_SIZE_V02")) ]);
  ("qmiLocInjectFdclDataIndMsgT_v02", [
      Member (Named "qmiLocStatusEnumT_v02") "status" None;
      Member (Named "qmiLocInjectFdclDataStatusEnumT_v02") "inject_status" None;
      Member uint8_t "errorMsg_valid" None;
      Member char "errorMsg" (Some (MacroPlus "QMI_LOC_INJECT_FDCL_DATA_ERROR_MSG_LEN_V02" 1)) ]);
  ("qmiLocSetBlacklistSvReqMsgT_v02", [
      Member uint8_t "glo_persist_blacklist_sv_valid" None;
      Member uint64_t "glo_persist_blacklist_sv" None;
      Member uint8_t "glo_clear_persist_blacklist_sv_valid" None;
      Member uint64_t "glo_clear_persist_blacklist_sv" None;
      Member uint8_t "bds_persist_blacklist_sv_valid" None;
      Member uint64_t "bds_persist_blacklist_sv" None;
      Member uint8_t "bds_clear_persist_blacklist_sv_valid" None;
      Member uint64_t "bds_clear_persist_blacklist_sv" None;
      Member uint8_t "qzss_persist_blacklist_sv_valid" None;
      Member uint64_t "qzss_persist_blacklist_sv" None;
      Member uint8_t "qzss_clear_persist_blacklist_sv_valid" None;
      Member uint64_t "qzss_clear_persist_blacklist_sv" None;
      Member uint8_t "gal_persist_blacklist_sv_valid" None;
      Member uint64_t "gal_persist_blacklist_sv" None;
      Member uint8_t "gal_clear_persist_blacklist_sv_valid" None;
      Member uint64_t "gal_clear_persist_blacklist_sv" None;
      Member uint8_t "sbas_persist_blacklist_sv_valid" None;
      Member uint64_t "sbas_persist_blacklist_sv" None;
      Member uint8_t "sbas_clear_persist_blacklist_sv_valid" None;
      Member uint64_t "sbas_clear_persist_blacklist_sv" None;
      Member uint8_t "navic_persist_blacklist_sv_valid" None;
      Member uint64_t "navic_persist_blacklist_sv" None;
      Member uint8_t "navic_clear_persist_blacklist_sv_valid" None;
      Member uint64_t "navic_clear_persist_blacklist_sv" None ]);
  ("qmiLocGetBlacklistSvIndMsgT_v02", [
      Member (Named "qmiLocStatusEnumT_v02") "status" None;
      Member uint8_t "glo_persist_blacklist_sv_valid" None;
      Member uint64_t "glo_persist_blacklist_sv" None;
      Member uint8_t "bds_persist_blacklist_sv_valid" None;
      Member uint64_t "bds_persist_blacklist_sv" None;
      Member uint8_t "qzss_persist_blacklist_sv_valid" None;
      Member uint64_t "qzss_persist_blacklist_sv" None;
      Member uint8_t "gal_persist_blacklist_sv_valid" None;
      Member uint64_t "gal_persist_blacklist_sv" None;
      Member uint8_t "sbas_persist_blacklist_sv_valid" None;
      Member uint64_t "sbas_persist_blacklist_sv" None;
      Member uint8_t "navic_persist_blacklist_sv_valid" None;
      Member uint64_t "navic_persist_blacklist_sv" None ]);
  ("qmiLocSetConstellationConfigReqMsgT_v02", [
      Member uint8_t "resetConstellations" None;
      Member uint8_t "enableMask_valid" None;
      Member (Named "qmiLocConstellationMaskT_v02") "enableMask" None;
      Member uint8_t "disableMask_valid" None;
      Member (Named "qmiLocConstellationMaskT_v02") "disableMask" None ]);
  ("qmiLocEventDcReportIndMsgT_v02", [
      Member uint8_t "msgType_valid" None;
      Member (Named "qmiLocDcReportMsgTypeEnumT_v02") "msgType" None;
      Member uint8_t "numValidBits_valid" None;
      Member uint16_t "numValidBits" None;
      Member uint8_t "dcReportData_valid" None;
      Member uint32_t "dcReportData_len" None;
      Member uint8_t "dcReportData" (Some (Macro "QMI_LOC_MAX_DCREPORT_LEN_V02")) ]);
  ("qmiLocRegisterMasterClientReqMsgT_v02", [
      Member uint32_t "key" None ]);
  ("qmiLocRegisterMasterClientIndMsgT_v02", [
      Member (Named "qmiLocRegisterMasterClientStatusEnumT_v02") "status" None ]);
  ("qmiLocEventEngineLockStateIndMsgT_v02", [
      Member (Named "qmiLocEngineLockStateEnumT_v02") "engineLockState" None;
      Member uint8_t "subType_valid" None;
      Member (Named "qmiLocLockSubInfoEnumT_v02") "subType" None;
      Member uint8_t "lockClient_valid" None;
      Member (Named "qmiLocLockClientMaskT_v02") "lockClient" None ]);
  ("qmiLocStartListenPositionReqMsgT_v02", [
      Member char "__placeholder" None ]);
  ("qmiLocStopListenPositionReqMsgT_v02", [
      Member char "__placeholder" None ]) ].

Definition structs_31 : list (string * list member) := [
  ("qmiLocNextLeapSecondInfoStructT_v02", [
      Member uint8_t "gpsTimeCurrent_valid" None;
      Member (Named "qmiLocGPSTimeStructT_v02") "gpsTimeCurrent" None;
      Member uint8_t "leapSecondsCurrent_valid" None;
      Member uint8_t "leapSecondsCurrent" None;
      Member uint8_t "gpsTimeNextLsEvent_valid" None;
      Member (Named "qmiLocGPSTimeStructT_v02") "gpsTimeNextLsEvent" None;
      Member uint8_t "leapSecondsNext_valid" None;
      Member uint8_t "leapSecondsNext" None ]);
  ("qmiLocSystemInfoReqMsgT_v02", [
      Member (Named "qmiLocSystemInfoEnumT_v02") "systemInfo" None ]);
  ("qmiLocSystemInfoIndMsgT_v02", [
      Member (Named "qmiLocSystemInfoEnumT_v02") "systemInfo" None;
      Member uint8_t "nextLeapSecondInfo_valid" None;
      Member (Named "qmiLocNextLeapSecondInfoStructT_v02") "nextLeapSecondInfo" None ]);
  ("qmiLocGetConstellationConfigIndMsgT_v02", [
      Member (Named "qmiLocStatusEnumT_v02") "status" None;
      Member uint8_t "gps_status_valid" None;
      Member (Named "qmiLocConstellationStatusEnumT_v02") "gps_status" None;
      Member uint8_t "glonass_status_valid" None;
      Member (Named "qmiLocConstellationStatusEnumT_v02") "glonass_status" None;
      Member uint8_t "bds_status_valid" None;
      Member (Named "qmiLocConstellationStatusEnumT_v02") "bds_status" None;
      Member uint8_t "qzss_status_valid" None;
      Member (Named "qmiLocConstellationStatusEnumT_v02") "qzss_status" None;
      Member uint8_t "galileo_status_valid" None;
      Member (Named "qmiLocConstellationStatusEnumT_v02") "galileo_status" None;
      Member uint8_t "navic_status_valid" None;
      Member (Named "qmiLocConstellationStatusEnumT_v02") "navic_status" None ]);
  ("qmiLocEnablePositionInjectionTestModeReqMsgT_v02", [
      Member uint8_t "enableTestMode" None ]);
  ("qmiLocEnablePositionInjectionTestModeIndMsgT_v02", [
      Member (Named "qmiLocStatusEnumT_v02") "status" None;
      Member uint8_t "testModeState_valid" None;
      Member (Named "qmiLocEnablePositionInjectionTestModeEnumT_v02") "testModeState" None ]);
  ("qmiLocInjectTestPositionReqMsgT_v02", [
      Member double "latitude" None;
      Member double "longitude" None;
      Member float "horUncCircular" None;
      Member uint64_t "timestampUtc" None;
      Member uint8_t "positionSource_valid" None;
      Member (Named "qmiLocPositionSourceEnumT_v02") "positionSource" None ]);
  ("qmiLocInjectTestPositionIndMsgT_v02", [
      Member (Named "qmiLocStatusEnumT_v02") "status" None ]);
  ("qmiLocEventBsObsDataServiceReqIndMsgT_v02", [
      Member uint16_t "numCellsAvailable" None ]);
  ("qmiLocGetBsObsDataReqMsgT_v02", [
      Member uint8_t "timestampUtc_valid" None;
      Member uint64_t "timestampUtc" None;
      Member uint8_t "numCellsUpload_valid" None;
      Member uint16_t "numCellsUpload" None ]);
  ("qmiLocBsObservedDataStructT_v02", [
      Member (Named "qmiLocBsObservedDataValidMaskT_v02") "validMask" None;
      Member (Named "qmiLocFdclCellIdStructT_v02") "cellId" None;
      Member uint16_t "gpsWeek" None;
      Member uint32_t "gpsMilliseconds" None;
      Member uint32_t "bsLocalTimestamp" None;
      Member int32_t "posDeltaTime" None;
      Member float "speed" None;
      Member float "speedUnc" None;
      Member double "heading" None;
      Member double "headingUnc" None;
      Member (Named "qmiLocBsBestPositionStructT_v02") "bsBestPosition" None ]);
  ("qmiLocGetBsObsDataIndMsgT_v02", [
      Member (Named "qmiLocStatusEnumT_v02") "status" None;
      Member uint32_t "bsData_len" None;
      Member (Named "qmiLocBsObservedDataStructT_v02") "bsData" (Some (Macro "QMI_LOC_FDCL_BS_LIST_MAX_SIZE_V02"));
      Member uint8_t "moreBsAvailable_valid" None;
      Member uint8_t "moreBsAvailable" None ]);
  ("qmiLocEphGnssDataStructT_v02", [
      Member uint16_t "gnssSvId" None;
      Member (Named "qmiLocEphUpdateActionEnumT_v02") "updateAction" None;
      Member uint16_t "IODE" None;
      Member double "aSqrt" None;
      Member double "deltaN" None;
      Member double "m0" None;
      Member double "eccentricity" None;
      Member double "omega0" None;
      Member double "i0" None;
      Member double "omega" None;
      Member double "omegaDot" None;
      Member double "iDot" None;
      Member double "cUc" None;
      Member double "cUs" None;
      Member double "cRc" None;
      Member double "cRs" None;
      Member double "cIc" None;
      Member double "cIs" None;
      Member uint32_t "toe" None;
      Member uint32_t "toc" None;
      Member double "af0" None;
      Member double "af1" None;
      Member double "af2" None ]) ].

Definition structs_32 : list (string * list member) := [
  ("qmiLocGpsEphemerisT_v02", [
      Member (Named "qmiLocEphGnssDataStructT_v02") "commonEphemerisData" None;
      Member uint8_t "signalHealth" None;
      Member uint8_t "URAI" None;
      Member uint8_t "codeL2" None;
      Member uint8_t "dataFlagL2P" None;
      Member double "tgd" None;
      Member uint8_t "fitInterval" None;
      Member uint16_t "IODC" None ]);
  ("qmiLocGpsEphemerisReportIndMsgT_v02", [
      Member uint32_t "gpsEphemerisList_len" None;
      Member (Named "qmiLocGpsEphemerisT_v02") "gpsEphemerisList" (Some (Macro "QMI_LOC_EPHEMERIS_LIST_MAX_SIZE_V02"));
      Member uint8_t "gpsSystemTime_valid" None;
      Member (Named "qmiLocGnssTimeStructT_v02") "gpsSystemTime" None ]);
  ("qmiLocGloEphemerisT_v02", [
      Member uint16_t "gnssSvId" None;
      Member (Named "qmiLocEphUpdateActionEnumT_v02") "updateAction" None;
      Member uint8_t "bnHealth" None;
      Member uint8_t "lnHealth" None;
      Member uint8_t "tb" None;
      Member uint8_t "ft" None;
      Member uint8_t "gloM" None;
      Member uint8_t "enAge" None;
      Member uint8_t "gloFrequency" None;
      Member uint8_t "p1" None;
      Member uint8_t "p2" None;
      Member float "deltaTau" None;
      Member double "position" (Some (Lit 3));
      Member double "velocity" (Some (Lit 3));
      Member double "acceleration" (Some (Lit 3));
      Member float "tauN" None;
      Member float "gamma" None;
      Member double "toe" None;
      Member uint16_t "nt" None ]);
  ("qmiLocGloEphemerisReportIndMsgT_v02", [
      Member uint32_t "gloEphemerisList_len" None;
      Member (Named "qmiLocGloEphemerisT_v02") "gloEphemerisList" (Some (Macro "QMI_LOC_EPHEMERIS_LIST_MAX_SIZE_V02"));
      Member uint8_t "gpsSystemTime_valid" None;
      Member (Named "qmiLocGnssTimeStructT_v02") "gpsSystemTime" None ]);
  ("qmiLocBdsEphemerisT_v02", [
      Member (Named "qmiLocEphGnssDataStructT_v02") "commonEphemerisData" None;
      Member uint8_t "svHealth" None;
      Member uint8_t "AODC" None;
      Member double "tgd1" None;
      Member double "tgd2" None;
      Member uint8_t "URAI" None ]);
  ("qmiLocBdsEphemerisReportIndMsgT_v02", [
      Member uint32_t "bdsEphemerisList_len" None;
      Member (Named "qmiLocBdsEphemerisT_v02") "bdsEphemerisList" (Some (Macro "QMI_LOC_EPHEMERIS_LIST_MAX_SIZE_V02"));
      Member uint8_t "gpsSystemTime_valid" None;
      Member (Named "qmiLocGnssTimeStructT_v02") "gpsSystemTime" None ]);
  ("qmiLocGalEphemerisT_v02", [
      Member (Named "qmiLocEphGnssDataStructT_v02") "commonEphemerisData" None;
      Member (Named "qmiLocGalEphSourceSignal_v02") "dataSourceSignal" None;
      Member uint8_t "sisIndex" None;
      Member double "bgdE1E5a" None;
      Member double "bgdE1E5b" None;
      Member uint8_t "svHealth" None ]);
  ("qmiLocGalEphemerisReportIndMsgT_v02", [
      Member uint32_t "galEphemerisList_len" None;
      Member (Named "qmiLocGalEphemerisT_v02") "galEphemerisList" (Some (Macro "QMI_LOC_EPHEMERIS_LIST_MAX_SIZE_V02"));
      Member uint8_t "gpsSystemTime_valid" None;
      Member (Named "qmiLocGnssTimeStructT_v02") "gpsSystemTime" None ]);
  ("qmiLocQzssEphemerisReportIndMsgT_v02", [
      Member uint32_t "qzssEphemerisList_len" None;
      Member (Named "qmiLocGpsEphemerisT_v02") "qzssEphemerisList" (Some (Macro "QMI_LOC_EPHEMERIS_LIST_MAX_SIZE_V02"));
      Member uint8_t "gpsSystemTime_valid" None;
      Member (Named "qmiLocGnssTimeStructT_v02") "gpsSystemTime" None ]);
  ("qmiLocSetConstrainedTuncModeReqMsgT_v02", [
      Member uint8_t "tuncConstraintOn" None;
      Member uint8_t "tuncConstraint_valid" None;
      Member float "tuncConstraint" None;
      Member uint8_t "energyBudget_valid" None;
      Member uint32_t "energyBudget" None ]);
  ("qmiLocSetConstrainedTuncModeIndMsgT_v02", [
      Member (Named "qmiLocStatusEnumT_v02") "status" None ]);
  ("qmiLocEnablePositionAssistedClockEstReqMsgT_v02", [
      Member uint8_t "enablePositionAssistedClockEst" None ]);
  ("qmiLocEnablePositionAssistedClockEstIndMsgT_v02", [
      Member (Named "qmiLocStatusEnumT_v02") "status" None ]);
  ("qmiLocQueryGNSSEnergyConsumedReqMsgT_v02", [
      Member char "__placeholder" None ]);
  ("qmiLocQueryGNSSEnergyConsumedIndMsgT_v02", [
      Member uint64_t "energyConsumedSinceLastBoot" None;
      Member uint64_t "energyConsumedSinceFirstBoot" None ]);
  ("qmiLocKlobucharIonoModelT_v02", [
      Member (Named "qmiLocSvSystemEnumT_v02") "dataSource" None;
      Member float "alpha0" None;
      Member float "alpha1" None;
      Member float "alpha2" None;
      Member float "alpha3" None;
      Member float "beta0" None;
      Member float "beta1" None;
      Member float "beta2" None;
      Member float "beta3" None ]) ].

Definition structs_33 : list (string * list member) := [
  ("qmiLocEventReportIndMsgT_v02", [
      Member (Named "qmiLocEventReportMaskT_v02") "eventReport" None;
      Member uint8_t "gpsSystemTime_valid" None;
      Member (Named "qmiLocGnssTimeStructT_v02") "gpsSystemTime" None;
      Member uint8_t "klobucharIonoModel_valid" None;
      Member (Named "qmiLocKlobucharIonoModelT_v02") "klobucharIonoModel" None;
      Member uint8_t "tauC_valid" None;
      Member double "tauC" None;
      Member uint8_t "leapSec_valid" None;
      Member int8_t "leapSec" None;
      Member uint8_t "featureStatusReport_valid" None;
      Member (Named "qmiLocFeaturesStatusMaskT_v02") "featureStatusReport" None ]);
  ("qmiLocMePerGnssRfStructType_v02", [
      Member uint16_t "bpAmpI" None;
      Member uint16_t "bpAmpQ" None;
      Member int32_t "jammerPwrDb" None ]);
  ("qmiLocGetBandMeasurementMetricsIndMsgT_v02", [
      Member uint64_t "systemTick" None;
      Member int32_t "band1PgaGainDb" None;
      Member uint8_t "gpsL1caRfStats_valid" None;
      Member (Named "qmiLocMePerGnssRfStructType_v02") "gpsL1caRfStats" None;
      Member uint8_t "gloG1RfStats_valid" None;
      Member (Named "qmiLocMePerGnssRfStructType_v02") "gloG1RfStats" None;
      Member uint8_t "bdsB1RfStats_valid" None;
      Member (Named "qmiLocMePerGnssRfStructType_v02") "bdsB1RfStats" None;
      Member uint8_t "galE1RfStats_valid" None;
      Member (Named "qmiLocMePerGnssRfStructType_v02") "galE1RfStats" None;
      Member uint8_t "gpsL2cRfStats_valid" None;
      Member (Named "qmiLocMePerGnssRfStructType_v02") "gpsL2cRfStats" None;
      Member uint8_t "gloG2RfStats_valid" None;
      Member (Named "qmiLocMePerGnssRfStructType_v02") "gloG2RfStats" None;
      Member uint8_t "bdsB2RfStats_valid" None;
      Member (Named "qmiLocMePerGnssRfStructType_v02") "bdsB2RfStats" None;
      Member uint8_t "band5PgaGainDb_valid" None;
      Member int32_t "band5PgaGainDb" None;
      Member uint8_t "gpsL5RfStats_valid" None;
      Member (Named "qmiLocMePerGnssRfStructType_v02") "gpsL5RfStats" None;
      Member uint8_t "galE5ARfStats_valid" None;
      Member (Named "qmiLocMePerGnssRfStructType_v02") "galE5ARfStats" None ]);
  ("qmiLocLocationRequestNotificationIndMsgT_v02", [
      Member (Named "qmiLocRequestProtocolEnumT_v02") "protocolStack" None;
      Member (Named "qmiLocRequestorEnumT_v02") "requestor" None;
      Member char "requestorId" (Some (MacroPlus "QMI_LOC_MAX_REQUESTOR_ID_STRING_LENGTH_V02" 1));
      Member (Named "qmiLocRequestResponseTypeEnumT_v02") "responseType" None;
      Member (Named "qmiLocResponseLocProtocolMaskT_v02") "responseProtocol" None;
      Member uint8_t "inEmergencyMode" None;
      Member uint8_t "isCachedLocation" None;
      Member uint8_t "clientStrId_valid" None;
      Member char "clientStrId" (Some (MacroPlus "QMI_LOC_MAX_CLIENT_ID_STRING_LENGTH_V02" 1)) ]);
  ("qmiLocInjectPlatformPowerStateReqMsgT_v02", [
      Member (Named "qmiLocPlatformPowerStateEnumT_v02") "powerState" None ]);
  ("qmiLocInjectPlatformPowerStateIndMsgT_v02", [
      Member (Named "qmiLocStatusEnumT_v02") "status" None ]);
  ("qmiLocSetRobustLocationReqMsgT_v02", [
      Member uint8_t "enable" None;
      Member uint8_t "enableForE911_valid" None;
      Member uint8_t "enableForE911" None ]);
  ("qmiLocRobustLocationVersionT_v02", [
      Member uint8_t "major" None;
      Member uint16_t "minor" None ]);
  ("qmiLocGetRobustLocationConfigIndMsgT_v02", [
      Member (Named "qmiLocStatusEnumT_v02") "status" None;
      Member uint8_t "isEnabled_valid" None;
      Member uint8_t "isEnabled" None;
      Member uint8_t "isEnabledForE911_valid" None;
      Member uint8_t "isEnabledForE911" None;
      Member uint8_t "robustLocationVersion_valid" None;
      Member (Named "qmiLocRobustLocationVersionT_v02") "robustLocationVersion" None ]);
  ("qmiLocEnvAidingReflectingPlaneStructT_v02", [
      Member double "latitudeDegrees" None;
      Member double "longitudeDegrees" None;
      Member double "altitudeMeters" None;
      Member double "azimuthDegrees" None ]);
  ("qmiLocEnvAidingSVCorrectionStructT_v02", [
      Member (Named "qmiLocEnvAidingSvCorrectionValidMaskT_v02") "svCorrectionFlags" None;
      Member (Named "qmiLocSvSystemEnumT_v02") "constellation" None;
      Member uint16_t "svid" None;
      Member float "carrierFrequencyHz" None;
      Member float "probabilitySvIsLineofSight" None;
      Member float "excessPathLengthMeters" None;
      Member float "excessPathLengthUncMeters" None;
      Member (Named "qmiLocEnvAidingReflectingPlaneStructT_v02") "reflectingPlane" None ]) ].

Definition structs_34 : list (string * list member) := [
  ("qmiLocEventInjectEnvAidingReqMsgT_v02", [
      Member uint8_t "seqNum" None;
      Member uint8_t "maxMessageNum" None;
      Member uint8_t "envBearingValidity_valid" None;
      Member uint8_t "envBearingValidity" None;
      Member uint8_t "envBearingDegrees_valid" None;
      Member float "envBearingDegrees" None;
      Member uint8_t "envBearingUncDegrees_valid" None;
      Member float "envBearingUncDegrees" None;
      Member uint8_t "latitudeDegrees_valid" None;
      Member double "latitudeDegrees" None;
      Member uint8_t "longitudeDegrees_valid" None;
      Member double "longitudeDegrees" None;
      Member uint8_t "horizontalPositionUncMeters_valid" None;
      Member double "horizontalPositionUncMeters" None;
      Member uint8_t "altitudeMeters_valid" None;
      Member double "altitudeMeters" None;
      Member uint8_t "altitudeUncMeters_valid" None;
      Member double "altitudeUncMeters" None;
      Member uint8_t "toaGpsNanosecondsOfWeek_valid" None;
      Member uint64_t "toaGpsNanosecondsOfWeek" None;
      Member uint8_t "svCorrection_valid" None;
      Member uint32_t "svCorrection_len" None;
      Member (Named "qmiLocEnvAidingSVCorrectionStructT_v02") "svCorrection" (Some (Macro "QMI_LOC_ENV_AIDING_CORRECTION_MAX_SV_USED_V02")) ]);
  ("qmiLocSetMinGpsWeekNumberReqMsgT_v02", [
      Member uint16_t "minGpsWeekNumber" None ]);
  ("qmiLocGetMinGpsWeekNumberIndMsgT_v02", [
      Member (Named "qmiLocStatusEnumT_v02") "status" None;
      Member uint8_t "minGpsWeekNumber_valid" None;
      Member uint16_t "minGpsWeekNumber" None ]);
  ("qmiLocSapInsParamsIndMsgT_v02", [
      Member uint8_t "status" None;
      Member uint8_t "fixStatus" None;
      Member (Named "qmiLocGnssTimeStructT_v02") "systemTime" None;
      Member uint8_t "state_valid" None;
      Member double "state" (Some (Macro "QMI_LOC_FILTER_ELEMENT_SIZE_SEVENTEEN_V02"));
      Member uint8_t "var_valid" None;
      Member double "var" (Some (Macro "QMI_LOC_FILTER_ELEMENT_SIZE_SEVENTEEN_V02"));
      Member uint8_t "rel1_valid" None;
      Member uint8_t "rel1" None;
      Member uint8_t "rel2_valid" None;
      Member uint8_t "rel2" None;
      Member uint8_t "residual1_valid" None;
      Member double "residual1" None;
      Member uint8_t "obs1_valid" None;
      Member double "obs1" (Some (Macro "QMI_LOC_FILTER_ELEMENT_SIZE_SIX_V02"));
      Member uint8_t "var1_valid" None;
      Member double "var1" None;
      Member uint8_t "result1_valid" None;
      Member uint8_t "result1" None;
      Member uint8_t "residual2_valid" None;
      Member double "residual2" None;
      Member uint8_t "obs2_valid" None;
      Member double "obs2" (Some (Macro "QMI_LOC_FILTER_ELEMENT_SIZE_SIX_V02"));
      Member uint8_t "var2_valid" None;
      Member double "var2" None;
      Member uint8_t "result2_valid" None;
      Member uint8_t "result2" None;
      Member uint8_t "residual3_valid" None;
      Member double "residual3" (Some (Macro "QMI_LOC_FILTER_ELEMENT_SIZE_THREE_V02"));
      Member uint8_t "var3_valid" None;
      Member double "var3" (Some (Macro "QMI_LOC_FILTER_ELEMENT_SIZE_THREE_V02"));
      Member uint8_t "result3_valid" None;
      Member uint8_t "result3" (Some (Macro "QMI_LOC_FILTER_ELEMENT_SIZE_THREE_V02"));
      Member uint8_t "residual4_valid" None;
      Member double "residual4" (Some (Macro "QMI_LOC_FILTER_ELEMENT_SIZE_THREE_V02"));
      Member uint8_t "var4_valid" None;
      Member double "var4" (Some (Macro "QMI_LOC_FILTER_ELEMENT_SIZE_THREE_V02"));
      Member uint8_t "result4_valid" None;
      Member uint8_t "result4" (Some (Macro "QMI_LOC_FILTER_ELEMENT_SIZE_THREE_V02"));
      Member uint8_t "acc_valid" None;
      Member double "acc" (Some (Macro "QMI_LOC_FILTER_ELEMENT_SIZE_THREE_V02"));
      Member uint8_t "quat_valid" None;
      Member double "quat" (Some (Macro "QMI_LOC_FILTER_ELEMENT_SIZE_FOUR_V02"));
      Member uint8_t "biasM1_valid" None;
      Member float "biasM1" (Some (Macro "QMI_LOC_IPM_ELEMENT_SIZE_THREE_V02"));
      Member uint8_t "biasV1_valid" None;
      Member float "biasV1" (Some (Macro "QMI_LOC_IPM_ELEMENT_SIZE_THREE_V02"));
      Member uint8_t "biasM2_valid" None;
      Member float "biasM2" (Some (Macro "QMI_LOC_IPM_ELEMENT_SIZE_THREE_V02"));
      Member uint8_t "biasV2_valid" None;
      Member float "biasV2" (Some (Macro "QMI_LOC_IPM_ELEMENT_SIZE_THREE_V02"));
      Member uint8_t "rMat1_valid" None;
      Member double "rMat1" (Some (Macro "QMI_LOC_IPM_ELEMENT_SIZE_NINE_V02"));
      Member uint8_t "rMat1Count_valid" None;
      Member uint32_t "rMat1Count" None;
      Member uint8_t "rMat2_valid" None;
      Member double "rMat2" (Some (Macro "QMI_LOC_IPM_ELEMENT_SIZE_NINE_V02"));
      Member uint8_t "det1Reset_valid" None;
      Member uint8_t "det1Reset" None;
      Member uint8_t "det2Status_valid" None;
      Member uint8_t "det2Status" None;
      Member uint8_t "det2Position_valid" None;
      Member double "det2Position" (Some (Macro "QMI_LOC_INS_ELEMENT_SIZE_THREE_V02"));
      Member uint8_t "det2PositionUnc_valid" None;
      Member float "det2PositionUnc" (Some (Macro "QMI_LOC_INS_ELEMENT_SIZE_TWO_V02"));
      Member uint8_t "det3Status_valid" None;
      Member uint8_t "det3Status" None;
      Member uint8_t "det3Variance1_valid" None;
      Member float "det3Variance1" (Some (Macro "QMI_LOC_INS_ELEMENT_SIZE_THREE_V02"));
      Member uint8_t "det3Variance2_valid" None;
      Member float "det3Variance2" (Some (Macro "QMI_LOC_INS_ELEMENT_SIZE_THREE_V02"));
      Member uint8_t "det4Status_valid" None;
      Member uint8_t "det4Status" None;
      Member uint8_t "det4Position_valid" None;
      Member double "det4Position" (Some (Macro "QMI_LOC_INS_ELEMENT_SIZE_THREE_V02"));
      Member uint8_t "det5Status_valid" None;
      Member uint8_t "det5Status" None;
      Member uint8_t "det6Status_valid" None;
      Member float "det6Status" None;
      Member uint8_t "gnssSvId_valid" None;
      Member uint32_t "gnssSvId_len" None;
      Member uint16_t "gnssSvId" (Some (Macro "QMI_LOC_EXPANDED_SV_INFO_LIST_MAX_SIZE_V02"));
      Member uint8_t "measType_valid" None;
      Member uint32_t "measType_len" None;
      Member (Named "qmiLocGnssSignalTypeMaskT_v02") "measType" (Some (Macro "QMI_LOC_EXPANDED_SV_INFO_LIST_MAX_SIZE_V02"));
      Member uint8_t "measVar1_valid" None;
      Member uint32_t "measVar1_len" None;
      Member float "measVar1" (Some (Macro "QMI_LOC_EXPANDED_SV_INFO_LIST_MAX_SIZE_V02"));
      Member uint8_t "measUse1_valid" None;
      Member uint32_t "measUse1_len" None;
      Member uint32_t "measUse1" (Some (Macro "QMI_LOC_EXPANDED_SV_INFO_LIST_MAX_SIZE_V02"));
      Member uint8_t "measVar2_valid" None;
      Member uint32_t "measVar2_len" None;
      Member float "measVar2" (Some (Macro "QMI_LOC_EXPANDED_SV_INFO_LIST_MAX_SIZE_V02"));
      Member uint8_t "measUse2_valid" None;
      Member uint32_t "measUse2_len" None;
      Member uint32_t "measUse2" (Some (Macro "QMI_LOC_EXPANDED_SV_INFO_LIST_MAX_SIZE_V02")) ]);
  ("qmiLocEventQueryXtraInfoReqIndMsgT_v02", [
      Member char "__placeholder" None ]);
  ("qmiLocSetParameterReqMsgT_v02", [
      Member (Named "qmiLocParameterTypeEnumT_v02") "paramType" None;
      Member uint8_t "minSvElevation_valid" None;
      Member uint8_t "minSvElevation" None ]);
  ("qmiLocGetParameterReqMsgT_v02", [
      Member (Named "qmiLocParameterTypeEnumT_v02") "paramType" None ]);
  ("qmiLocGetParameterIndMsgT_v02", [
      Member (Named "qmiLocStatusEnumT_v02") "status" None;
      Member (Named "qmiLocParameterTypeEnumT_v02") "paramType" None;
      Member uint8_t "minSvElevation_valid" None;
      Member uint8_t "minSvElevation" None ]);
  ("qmiLocSetStatisticsConfigReqMsgT_v02", [
      Member uint8_t "enable" None;
      Member uint8_t "interval_valid" None;
      Member (Named "qmiLocStatsReportingConfigEnumT_v02") "interval" None ]);
  ("qmiLocGetStatisticsConfigIndMsgT_v02", [
      Member (Named "qmiLocStatusEnumT_v02") "status" None;
      Member uint8_t "enabled_valid" None;
      Member uint8_t "enabled" None;
      Member uint8_t "interval_valid" None;
      Member (Named "qmiLocStatsReportingConfigEnumT_v02") "interval" None ]) ].

Definition structs_35 : list (string * list member) := [
  ("qmiLocGnssStatisticsReportIndMsgT_v02", [
      Member uint8_t "absValidAge_valid" None;
      Member uint32_t "absValidAge" None;
      Member uint8_t "averagePowerConsumed_valid" None;
      Member float "averagePowerConsumed" None;
      Member uint8_t "powerConsumptionDuration_valid" None;
      Member uint32_t "powerConsumptionDuration" None;
      Member uint8_t "latitude_valid" None;
      Member double "latitude" None;
      Member uint8_t "longitude_valid" None;
      Member double "longitude" None;
      Member uint8_t "altitudeWrtEllipsoid_valid" None;
      Member float "altitudeWrtEllipsoid" None;
      Member uint8_t "altitudeWrtMeanSeaLevel_valid" None;
      Member float "altitudeWrtMeanSeaLevel" None;
      Member uint8_t "horUncCircular_valid" None;
      Member float "horUncCircular" None;
      Member uint8_t "vertUnc_valid" None;
      Member float "vertUnc" None;
      Member uint8_t "horUncEllipseSemiMinor_valid" None;
      Member float "horUncEllipseSemiMinor" None;
      Member uint8_t "horUncEllipseSemiMajor_valid" None;
      Member float "horUncEllipseSemiMajor" None;
      Member uint8_t "horCircularConfidence_valid" None;
      Member uint8_t "horCircularConfidence" None;
      Member uint8_t "horReliability_valid" None;
      Member (Named "qmiLocReliabilityEnumT_v02") "horReliability" None;
      Member uint8_t "horSpeed_valid" None;
      Member float "horSpeed" None;
      Member uint8_t "horSpeedUnc_valid" None;
      Member float "horSpeedUnc" None;
      Member uint8_t "vertConfidence_valid" None;
      Member uint8_t "vertConfidence" None;
      Member uint8_t "vertReliability_valid" None;
      Member (Named "qmiLocReliabilityEnumT_v02") "vertReliability" None;
      Member uint8_t "vertSpeed_valid" None;
      Member float "vertSpeed" None;
      Member uint8_t "vertSpeedUnc_valid" None;
      Member float "vertSpeedUnc" None;
      Member uint8_t "gpsWeek_valid" None;
      Member uint16_t "gpsWeek" None;
      Member uint8_t "gpsMsec_valid" None;
      Member uint32_t "gpsMsec" None;
      Member uint8_t "clkTimeBias_valid" None;
      Member float "clkTimeBias" None;
      Member uint8_t "clkTimeBiasUnc_valid" None;
      Member float "clkTimeBiasUnc" None ]);
  ("qmiLocSetGnssPdrModeReqMsgT_v02", [
      Member uint8_t "mode_valid" None;
      Member (Named "qmiLocGnssPdrModeEnumT_v02") "mode" None ]);
  ("qmiLocGetGnssPdrModeIndMsgT_v02", [
      Member (Named "qmiLocStatusEnumT_v02") "status" None;
      Member uint8_t "mode_valid" None;
      Member (Named "qmiLocGnssPdrModeEnumT_v02") "mode" None ]);
  ("qmiLocGetMagCalStatePdrIndMsgT_v02", [
      Member (Named "qmiLocStatusEnumT_v02") "status" None;
      Member uint8_t "isCalibrated_valid" None;
      Member uint8_t "isCalibrated" None ]);
  ("qmiLocSetMultibandConfigReqMsgT_v02", [
      Member uint8_t "secondaryGnssConfig_valid" None;
      Member (Named "qmiLocGNSSConstellEnumT_v02") "secondaryGnssConfig" None ]);
  ("qmiLocGetMultibandConfigIndMsgT_v02", [
      Member (Named "qmiLocStatusEnumT_v02") "status" None;
      Member uint8_t "secondaryGnssConfig_valid" None;
      Member (Named "qmiLocGNSSConstellEnumT_v02") "secondaryGnssConfig" None ]);
  ("qmiLocLatencyInformationIndMsgT_v02", [
      Member (Named "qmiLocLatencyInfoTypeEnumT_v02") "latencyInfo" None;
      Member uint8_t "sysTickAtChkPt1_valid" None;
      Member uint64_t "sysTickAtChkPt1" None;
      Member uint8_t "sysTickAtChkPt2_valid" None;
      Member uint64_t "sysTickAtChkPt2" None;
      Member uint8_t "sysTickAtChkPt3_valid" None;
      Member uint64_t "sysTickAtChkPt3" None;
      Member uint8_t "sysTickAtChkPt4_valid" None;
      Member uint64_t "sysTickAtChkPt4" None;
      Member uint8_t "sysTickAtChkPt5_valid" None;
      Member uint64_t "sysTickAtChkPt5" None;
      Member uint8_t "sysTickAtChkPt6_valid" None;
      Member uint64_t "sysTickAtChkPt6" None;
      Member uint8_t "sysTickAtChkPt7_valid" None;
      Member uint64_t "sysTickAtChkPt7" None;
      Member uint8_t "sysTickAtChkPt8_valid" None;
      Member uint64_t "sysTickAtChkPt8" None;
      Member uint8_t "sysTickAtChkPt9_valid" None;
      Member uint64_t "sysTickAtChkPt9" None;
      Member uint8_t "sysTickAtChkPt10_valid" None;
      Member uint64_t "sysTickAtChkPt10" None;
      Member uint8_t "fCountOfMeasBlk_valid" None;
      Member uint32_t "fCountOfMeasBlk" None ]) ].

Definition loc_structs : list (string * list member) :=
  structs_1 ++ structs_2 ++ structs_3 ++ structs_4 ++ structs_5 ++ structs_6 ++ structs_7 ++ structs_8 ++ structs_9 ++ structs_10 ++ structs_11 ++ structs_12 ++ structs_13 ++ structs_14 ++ structs_15 ++ structs_16 ++ structs_17 ++ structs_18 ++ structs_19 ++ structs_20 ++ structs_21 ++ structs_22 ++ structs_23 ++ structs_24 ++ structs_25 ++ structs_26 ++ structs_27 ++ structs_28 ++ structs_29 ++ structs_30 ++ structs_31 ++ structs_32 ++ structs_33 ++ structs_34 ++ structs_35.

Definition location_service_v02_h : header := Header size_macros loc_typedefs loc_enums loc_structs.
