(* ===== verification/LocServiceTables.v ===== *)
(** The tables of location_service_v02.c, entry by entry, in the order of the
    file: the byte table of every type and message (a group of tables per
    definition), the tables that number them, and the messages of the service
    with their maximum sizes. *)

From stdpp Require Import strings list.
From S2P Require Import Prelude QmiIdl.

Local Open Scope Z_scope.

Definition type_data_1 : list (string * list elem) := [
  ("qmiLocApplicationIdStructT_data_v02", [
      Elem [IS_ARRAY; IS_VARIABLE_LEN] QMI_IDL_STRING (Offset OFFSET8 "qmiLocApplicationIdStructT_v02" "applicationProvider") (Some (Macro "QMI_LOC_MAX_APP_ID_PROVIDER_LENGTH_V02")) None None;
      Elem [IS_ARRAY; IS_VARIABLE_LEN] QMI_IDL_STRING (Offset OFFSET8 "qmiLocApplicationIdStructT_v02" "applicationName") (Some (Macro "QMI_LOC_MAX_APP_ID_NAME_LENGTH_V02")) None None;
      Elem [] QMI_IDL_GENERIC_1_BYTE (Offset OFFSET8 "qmiLocApplicationIdStructT_v02" "applicationVersion_valid") None None None;
      Elem [IS_ARRAY; IS_VARIABLE_LEN] QMI_IDL_STRING (Offset OFFSET8 "qmiLocApplicationIdStructT_v02" "applicationVersion") (Some (Macro "QMI_LOC_MAX_APP_ID_VERSION_LENGTH_V02")) None None ]);
  ("qmiLocPowerModeStructT_data_v02", [
      Elem [] QMI_IDL_GENERIC_4_BYTE (Offset OFFSET8 "qmiLocPowerModeStructT_v02" "powerMode") None None None;
      Elem [] QMI_IDL_GENERIC_4_BYTE (Offset OFFSET8 "qmiLocPowerModeStructT_v02" "timeBetweenMeasurement") None None None ]);
  ("qmiLocGPSTimeStructT_data_v02", [
      Elem [] QMI_IDL_GENERIC_2_BYTE (Offset OFFSET8 "qmiLocGPSTimeStructT_v02" "gpsWeek") None None None;
      Elem [] QMI_IDL_GENERIC_4_BYTE (Offset OFFSET8 "qmiLocGPSTimeStructT_v02" "gpsTimeOfWeekMs") None None None ]);
  ("qmiLocDOPStructT_data_v02", [
      Elem [] QMI_IDL_GENERIC_4_BYTE (Offset OFFSET8 "qmiLocDOPStructT_v02" "PDOP") None None None;
      Elem [] QMI_IDL_GENERIC_4_BYTE (Offset OFFSET8 "qmiLocDOPStructT_v02" "HDOP") None None None;
      Elem [] QMI_IDL_GENERIC_4_BYTE (Offset OFFSET8 "qmiLocDOPStructT_v02" "VDOP") None None None ]);
  ("qmiLocExtDOPStructT_data_v02", [
      Elem [] QMI_IDL_GENERIC_4_BYTE (Offset OFFSET8 "qmiLocExtDOPStructT_v02" "PDOP") None None None;
      Elem [] QMI_IDL_GENERIC_4_BYTE (Offset OFFSET8 "qmiLocExtDOPStructT_v02" "HDOP") None None None;
      Elem [] QMI_IDL_GENERIC_4_BYTE (Offset OFFSET8 "qmiLocExtDOPStructT_v02" "VDOP") None None None;
      Elem [] QMI_IDL_GENERIC_4_BYTE (Offset OFFSET8 "qmiLocExtDOPStructT_v02" "GDOP") None None None;
      Elem [] QMI_IDL_GENERIC_4_BYTE (Offset OFFSET8 "qmiLocExtDOPStructT_v02" "TDOP") None None None ]);
  ("qmiLocSensorUsageIndicatorStructT_data_v02", [
      Elem [] QMI_IDL_GENERIC_4_BYTE (Offset OFFSET8 "qmiLocSensorUsageIndicatorStructT_v02" "usageMask") None None None;
      Elem [] QMI_IDL_GENERIC_4_BYTE (Offset OFFSET8 "qmiLocSensorUsageIndicatorStructT_v02" "aidingIndicatorMask") None None None ]);
  ("qmiLocJammerIndicatorStructT_data_v02", [
      Elem [] QMI_IDL_GENERIC_4_BYTE (Offset OFFSET8 "qmiLocJammerIndicatorStructT_v02" "agcMetricDb") None None None;
      Elem [] QMI_IDL_GENERIC_4_BYTE (Offset OFFSET8 "qmiLocJammerIndicatorStructT_v02" "bpMetricDb") None None None ]);
  ("qmiLocSvInfoStructT_data_v02", [
      Elem [] QMI_IDL_GENERIC_4_BYTE (Offset OFFSET8 "qmiLocSvInfoStructT_v02" "validMask") None None None;
      Elem [] QMI_IDL_GENERIC_4_BYTE (Offset OFFSET8 "qmiLocSvInfoStructT_v02" "system") None None None;
      Elem [] QMI_IDL_GENERIC_2_BYTE (Offset OFFSET8 "qmiLocSvInfoStructT_v02" "gnssSvId") None None None;
      Elem [] QMI_IDL_GENERIC_1_BYTE (Offset OFFSET8 "qmiLocSvInfoStructT_v02" "healthStatus") None None None;
      Elem [] QMI_IDL_GENERIC_4_BYTE (Offset OFFSET8 "qmiLocSvInfoStructT_v02" "svStatus") None None None;
      Elem [] QMI_IDL_GENERIC_1_BYTE (Offset OFFSET8 "qmiLocSvInfoStructT_v02" "svInfoMask") None None None;
      Elem [] QMI_IDL_GENERIC_4_BYTE (Offset OFFSET8 "qmiLocSvInfoStructT_v02" "elevation") None None None;
      Elem [] QMI_IDL_GENERIC_4_BYTE (Offset OFFSET8 "qmiLocSvInfoStructT_v02" "azimuth") None None None;
      Elem [] QMI_IDL_GENERIC_4_BYTE (Offset OFFSET8 "qmiLocSvInfoStructT_v02" "snr") None None None ]);
  ("qmiLocExpandedSvInfoStructT_data_v02", [
      Elem [] QMI_IDL_AGGREGATE (Offset OFFSET8 "qmiLocExpandedSvInfoStructT_v02" "svInfo") None None (Some (0, 7));
      Elem [] QMI_IDL_GENERIC_1_BYTE (Offset OFFSET8 "qmiLocExpandedSvInfoStructT_v02" "gloFrequency") None None None ]) ].

Definition type_data_2 : list (string * list elem) := [
  ("qmiLocNiVxNotifyVerifyStructT_data_v02", [
      Elem [] QMI_IDL_GENERIC_1_BYTE (Offset OFFSET8 "qmiLocNiVxNotifyVerifyStructT_v02" "posQosIncl") None None None;
      Elem [] QMI_IDL_GENERIC_1_BYTE (Offset OFFSET8 "qmiLocNiVxNotifyVerifyStructT_v02" "posQos") None None None;
      Elem [] QMI_IDL_GENERIC_4_BYTE (Offset OFFSET8 "qmiLocNiVxNotifyVerifyStructT_v02" "numFixes") None None None;
      Elem [] QMI_IDL_GENERIC_4_BYTE (Offset OFFSET8 "qmiLocNiVxNotifyVerifyStructT_v02" "timeBetweenFixes") None None None;
      Elem [] QMI_IDL_GENERIC_4_BYTE (Offset OFFSET8 "qmiLocNiVxNotifyVerifyStructT_v02" "posMode") None None None;
      Elem [] QMI_IDL_GENERIC_4_BYTE (Offset OFFSET8 "qmiLocNiVxNotifyVerifyStructT_v02" "encodingScheme") None None None;
      Elem [IS_ARRAY; IS_VARIABLE_LEN] QMI_IDL_GENERIC_1_BYTE (Offset OFFSET8 "qmiLocNiVxNotifyVerifyStructT_v02" "requestorId") (Some (Macro "QMI_LOC_NI_MAX_REQUESTOR_ID_LENGTH_V02")) (Some (Offset OFFSET8 "qmiLocNiVxNotifyVerifyStructT_v02" "requestorId", Offset OFFSET8 "qmiLocNiVxNotifyVerifyStructT_v02" "requestorId_len")) None;
      Elem [OFFSET_IS_16] QMI_IDL_GENERIC_2_BYTE (Offset OFFSET16ARRAY "qmiLocNiVxNotifyVerifyStructT_v02" "userRespTimerInSeconds") None None None ]);
  ("qmiLocNiSuplFormattedStringStructT_data_v02", [
      Elem [] QMI_IDL_GENERIC_4_BYTE (Offset OFFSET8 "qmiLocNiSuplFormattedStringStructT_v02" "formatType") None None None;
      Elem [IS_ARRAY; IS_VARIABLE_LEN] QMI_IDL_GENERIC_1_BYTE (Offset OFFSET8 "qmiLocNiSuplFormattedStringStructT_v02" "formattedString") (Some (Macro "QMI_LOC_NI_MAX_CLIENT_NAME_LENGTH_V02")) (Some (Offset OFFSET8 "qmiLocNiSuplFormattedStringStructT_v02" "formattedString", Offset OFFSET8 "qmiLocNiSuplFormattedStringStructT_v02" "formattedString_len")) None ]);
  ("qmiLocNiSuplQopStructT_data_v02", [
      Elem [] QMI_IDL_GENERIC_1_BYTE (Offset OFFSET8 "qmiLocNiSuplQopStructT_v02" "validMask") None None None;
      Elem [] QMI_IDL_GENERIC_1_BYTE (Offset OFFSET8 "qmiLocNiSuplQopStructT_v02" "horizontalAccuracy") None None None;
      Elem [] QMI_IDL_GENERIC_1_BYTE (Offset OFFSET8 "qmiLocNiSuplQopStructT_v02" "verticalAccuracy") None None None;
      Elem [] QMI_IDL_GENERIC_2_BYTE (Offset OFFSET8 "qmiLocNiSuplQopStructT_v02" "maxLocAge") None None None;
      Elem [] QMI_IDL_GENERIC_1_BYTE (Offset OFFSET8 "qmiLocNiSuplQopStructT_v02" "delay") None None None ]);
  ("qmiLocIpV4AddrStructType_data_v02", [
      Elem [] QMI_IDL_GENERIC_4_BYTE (Offset OFFSET8 "qmiLocIpV4AddrStructType_v02" "addr") None None None;
      Elem [] QMI_IDL_GENERIC_2_BYTE (Offset OFFSET8 "qmiLocIpV4AddrStructType_v02" "port") None None None ]);
  ("qmiLocIpV6AddrStructType_data_v02", [
      Elem [IS_ARRAY] QMI_IDL_GENERIC_2_BYTE (Offset OFFSET8 "qmiLocIpV6AddrStructType_v02" "addr") (Some (Macro "QMI_LOC_IPV6_ADDR_LENGTH_V02")) None None;
      Elem [] QMI_IDL_GENERIC_4_BYTE (Offset OFFSET8 "qmiLocIpV6AddrStructType_v02" "port") None None None ]);
  ("qmiLocNiSuplServerInfoStructT_data_v02", [
      Elem [] QMI_IDL_GENERIC_1_BYTE (Offset OFFSET8 "qmiLocNiSuplServerInfoStructT_v02" "suplServerAddrTypeMask") None None None;
      Elem [] QMI_IDL_AGGREGATE (Offset OFFSET8 "qmiLocNiSuplServerInfoStructT_v02" "ipv4Addr") None None (Some (0, 12));
      Elem [] QMI_IDL_AGGREGATE (Offset OFFSET8 "qmiLocNiSuplServerInfoStructT_v02" "ipv6Addr") None None (Some (0, 13));
      Elem [IS_ARRAY; IS_VARIABLE_LEN] QMI_IDL_STRING (Offset OFFSET8 "qmiLocNiSuplServerInfoStructT_v02" "urlAddr") (Some (Macro "QMI_LOC_MAX_SERVER_ADDR_LENGTH_V02")) None None ]);
  ("qmiLocNiSuplNotifyVerifyStructT_data_v02", [
      Elem [] QMI_IDL_GENERIC_4_BYTE (Offset OFFSET8 "qmiLocNiSuplNotifyVerifyStructT_v02" "valid_flags") None None None;
      Elem [] QMI_IDL_AGGREGATE (Offset OFFSET8 "qmiLocNiSuplNotifyVerifyStructT_v02" "suplServerInfo") None None (Some (0, 14));
      Elem [OFFSET_IS_16; IS_ARRAY] QMI_IDL_GENERIC_1_BYTE (Offset OFFSET16ARRAY "qmiLocNiSuplNotifyVerifyStructT_v02" "suplSessionId") (Some (Macro "QMI_LOC_NI_SUPL_SLP_SESSION_ID_BYTE_LENGTH_V02")) None None;
      Elem [OFFSET_IS_16; IS_ARRAY] QMI_IDL_GENERIC_1_BYTE (Offset OFFSET16ARRAY "qmiLocNiSuplNotifyVerifyStructT_v02" "suplHash") (Some (Macro "QMI_LOC_NI_SUPL_HASH_LENGTH_V02")) None None;
      Elem [OFFSET_IS_16] QMI_IDL_GENERIC_4_BYTE (Offset OFFSET16ARRAY "qmiLocNiSuplNotifyVerifyStructT_v02" "posMethod") None None None;
      Elem [OFFSET_IS_16] QMI_IDL_GENERIC_4_BYTE (Offset OFFSET16ARRAY "qmiLocNiSuplNotifyVerifyStructT_v02" "dataCodingScheme") None None None;
      Elem [OFFSET_IS_16] QMI_IDL_AGGREGATE (Offset OFFSET16ARRAY "qmiLocNiSuplNotifyVerifyStructT_v02" "requestorId") None None (Some (0, 10));
      Elem [OFFSET_IS_16] QMI_IDL_AGGREGATE (Offset OFFSET16ARRAY "qmiLocNiSuplNotifyVerifyStructT_v02" "clientName") None None (Some (0, 10));
      Elem [OFFSET_IS_16] QMI_IDL_AGGREGATE (Offset OFFSET16ARRAY "qmiLocNiSuplNotifyVerifyStructT_v02" "suplQop") None None (Some (0, 11));
      Elem [OFFSET_IS_16] QMI_IDL_GENERIC_2_BYTE (Offset OFFSET16ARRAY "qmiLocNiSuplNotifyVerifyStructT_v02" "userResponseTimer") None None None ]);
  ("qmiLocNiUmtsCpCodedStringStructT_data_v02", [
      Elem [] QMI_IDL_GENERIC_4_BYTE (Offset OFFSET8 "qmiLocNiUmtsCpCodedStringStructT_v02" "dataCodingScheme") None None None;
      Elem [IS_ARRAY; IS_VARIABLE_LEN] QMI_IDL_GENERIC_1_BYTE (Offset OFFSET8 "qmiLocNiUmtsCpCodedStringStructT_v02" "codedString") (Some (Macro "QMI_LOC_NI_CODEWORD_MAX_LENGTH_V02")) (Some (Offset OFFSET8 "qmiLocNiUmtsCpCodedStringStructT_v02" "codedString", Offset OFFSET8 "qmiLocNiUmtsCpCodedStringStructT_v02" "codedString_len")) None ]) ].

Definition type_data_3 : list (string * list elem) := [
  ("qmiLocNiUmtsCpNotifyVerifyStructT_data_v02", [
      Elem [] QMI_IDL_GENERIC_2_BYTE (Offset OFFSET8 "qmiLocNiUmtsCpNotifyVerifyStructT_v02" "valid_flags") None None None;
      Elem [] QMI_IDL_GENERIC_1_BYTE (Offset OFFSET8 "qmiLocNiUmtsCpNotifyVerifyStructT_v02" "invokeId") None None None;
      Elem [] QMI_IDL_GENERIC_4_BYTE (Offset OFFSET8 "qmiLocNiUmtsCpNotifyVerifyStructT_v02" "dataCodingScheme") None None None;
      Elem [IS_ARRAY; IS_VARIABLE_LEN] QMI_IDL_GENERIC_1_BYTE (Offset OFFSET8 "qmiLocNiUmtsCpNotifyVerifyStructT_v02" "notificationText") (Some (Macro "QMI_LOC_NI_MAX_CLIENT_NAME_LENGTH_V02")) (Some (Offset OFFSET8 "qmiLocNiUmtsCpNotifyVerifyStructT_v02" "notificationText", Offset OFFSET8 "qmiLocNiUmtsCpNotifyVerifyStructT_v02" "notificationText_len")) None;
      Elem [IS_ARRAY; IS_VARIABLE_LEN] QMI_IDL_GENERIC_1_BYTE (Offset OFFSET8 "qmiLocNiUmtsCpNotifyVerifyStructT_v02" "clientAddress") (Some (Macro "QMI_LOC_NI_MAX_EXT_CLIENT_ADDRESS_V02")) (Some (Offset OFFSET8 "qmiLocNiUmtsCpNotifyVerifyStructT_v02" "clientAddress", Offset OFFSET8 "qmiLocNiUmtsCpNotifyVerifyStructT_v02" "clientAddress_len")) None;
      Elem [] QMI_IDL_GENERIC_4_BYTE (Offset OFFSET8 "qmiLocNiUmtsCpNotifyVerifyStructT_v02" "locationType") None None None;
      Elem [] QMI_IDL_AGGREGATE (Offset OFFSET8 "qmiLocNiUmtsCpNotifyVerifyStructT_v02" "requestorId") None None (Some (0, 16));
      Elem [] QMI_IDL_AGGREGATE (Offset OFFSET8 "qmiLocNiUmtsCpNotifyVerifyStructT_v02" "codewordString") None None (Some (0, 16));
      Elem [] QMI_IDL_GENERIC_1_BYTE (Offset OFFSET8 "qmiLocNiUmtsCpNotifyVerifyStructT_v02" "lcsServiceTypeId") None None None;
      Elem [] QMI_IDL_GENERIC_2_BYTE (Offset OFFSET8 "qmiLocNiUmtsCpNotifyVerifyStructT_v02" "userResponseTimer") None None None ]);
  ("qmiLocNiVxServiceInteractionStructT_data_v02", [
      Elem [] QMI_IDL_AGGREGATE (Offset OFFSET8 "qmiLocNiVxServiceInteractionStructT_v02" "niVxReq") None None (Some (0, 9));
      Elem [OFFSET_IS_16] QMI_IDL_GENERIC_4_BYTE (Offset OFFSET16ARRAY "qmiLocNiVxServiceInteractionStructT_v02" "serviceInteractionType") None None None ]);
  ("qmiLocNiSuplVer2ExtStructT_data_v02", [
      Elem [] QMI_IDL_GENERIC_2_BYTE (Offset OFFSET8 "qmiLocNiSuplVer2ExtStructT_v02" "supportedNetworksMask") None None None;
      Elem [] QMI_IDL_GENERIC_4_BYTE (Offset OFFSET8 "qmiLocNiSuplVer2ExtStructT_v02" "triggerType") None None None;
      Elem [] QMI_IDL_GENERIC_2_BYTE (Offset OFFSET8 "qmiLocNiSuplVer2ExtStructT_v02" "gnssType") None None None ]);
  ("qmiLocEmergencyNotificationStructT_data_v02", [
      Elem [IS_ARRAY; IS_VARIABLE_LEN] QMI_IDL_STRING (Offset OFFSET8 "qmiLocEmergencyNotificationStructT_v02" "eslpUrl") (Some (Macro "QMI_LOC_MAX_SERVER_ADDR_LENGTH_V02")) None None ]);
  ("qmiLocAssistanceServerUrlStructT_data_v02", [
      Elem [IS_ARRAY; IS_VARIABLE_LEN] QMI_IDL_STRING (Offset OFFSET8 "qmiLocAssistanceServerUrlStructT_v02" "serverUrl") (Some (Macro "QMI_LOC_MAX_SERVER_ADDR_LENGTH_V02")) None None ]);
  ("qmiLocTimeServerListStructT_data_v02", [
      Elem [] QMI_IDL_GENERIC_4_BYTE (Offset OFFSET8 "qmiLocTimeServerListStructT_v02" "delayThreshold") None None None;
      Elem [IS_ARRAY; IS_VARIABLE_LEN] QMI_IDL_AGGREGATE (Offset OFFSET8 "qmiLocTimeServerListStructT_v02" "timeServerList") (Some (Macro "QMI_LOC_MAX_NTP_SERVERS_V02")) (Some (Offset OFFSET8 "qmiLocTimeServerListStructT_v02" "timeServerList", Offset OFFSET8 "qmiLocTimeServerListStructT_v02" "timeServerList_len")) (Some (0, 21)) ]);
  ("qmiLocPredictedOrbitsAllowedSizesStructT_data_v02", [
      Elem [] QMI_IDL_GENERIC_4_BYTE (Offset OFFSET8 "qmiLocPredictedOrbitsAllowedSizesStructT_v02" "maxFileSizeInBytes") None None None;
      Elem [] QMI_IDL_GENERIC_4_BYTE (Offset OFFSET8 "qmiLocPredictedOrbitsAllowedSizesStructT_v02" "maxPartSize") None None None ]);
  ("qmiLocPredictedOrbitsServerListStructT_data_v02", [
      Elem [IS_ARRAY; IS_VARIABLE_LEN] QMI_IDL_AGGREGATE (Offset OFFSET8 "qmiLocPredictedOrbitsServerListStructT_v02" "serverList") (Some (Macro "QMI_LOC_MAX_PREDICTED_ORBITS_SERVERS_V02")) (Some (Offset OFFSET8 "qmiLocPredictedOrbitsServerListStructT_v02" "serverList", Offset OFFSET8 "qmiLocPredictedOrbitsServerListStructT_v02" "serverList_len")) (Some (0, 21)) ]);
  ("qmiLocSensorControlConfigSamplingSpecStructT_data_v02", [
      Elem [] QMI_IDL_GENERIC_2_BYTE (Offset OFFSET8 "qmiLocSensorControlConfigSamplingSpecStructT_v02" "samplesPerBatch") None None None;
      Elem [] QMI_IDL_GENERIC_2_BYTE (Offset OFFSET8 "qmiLocSensorControlConfigSamplingSpecStructT_v02" "batchesPerSecond") None None None ]);
  ("qmiLocSensorReadyStatusStructT_data_v02", [
      Elem [] QMI_IDL_GENERIC_1_BYTE (Offset OFFSET8 "qmiLocSensorReadyStatusStructT_v02" "injectEnable") None None None;
      Elem [] QMI_IDL_AGGREGATE (Offset OFFSET8 "qmiLocSensorReadyStatusStructT_v02" "dataFrequency") None None (Some (0, 25)) ]) ].

Definition type_data_4 : list (string * list elem) := [
  ("qmiLocGeofencePositionStructT_data_v02", [
      Elem [] QMI_IDL_GENERIC_8_BYTE (Offset OFFSET8 "qmiLocGeofencePositionStructT_v02" "timestampUtc") None None None;
      Elem [] QMI_IDL_GENERIC_8_BYTE (Offset OFFSET8 "qmiLocGeofencePositionStructT_v02" "latitude") None None None;
      Elem [] QMI_IDL_GENERIC_8_BYTE (Offset OFFSET8 "qmiLocGeofencePositionStructT_v02" "longitude") None None None;
      Elem [] QMI_IDL_GENERIC_4_BYTE (Offset OFFSET8 "qmiLocGeofencePositionStructT_v02" "horUncEllipseSemiMinor") None None None;
      Elem [] QMI_IDL_GENERIC_4_BYTE (Offset OFFSET8 "qmiLocGeofencePositionStructT_v02" "horUncEllipseSemiMajor") None None None;
      Elem [] QMI_IDL_GENERIC_4_BYTE (Offset OFFSET8 "qmiLocGeofencePositionStructT_v02" "horUncEllipseOrientAzimuth") None None None;
      Elem [] QMI_IDL_GENERIC_1_BYTE (Offset OFFSET8 "qmiLocGeofencePositionStructT_v02" "speedHorizontal_valid") None None None;
      Elem [] QMI_IDL_GENERIC_4_BYTE (Offset OFFSET8 "qmiLocGeofencePositionStructT_v02" "speedHorizontal") None None None;
      Elem [] QMI_IDL_GENERIC_1_BYTE (Offset OFFSET8 "qmiLocGeofencePositionStructT_v02" "altitudeWrtEllipsoid_valid") None None None;
      Elem [] QMI_IDL_GENERIC_4_BYTE (Offset OFFSET8 "qmiLocGeofencePositionStructT_v02" "altitudeWrtEllipsoid") None None None;
      Elem [] QMI_IDL_GENERIC_1_BYTE (Offset OFFSET8 "qmiLocGeofencePositionStructT_v02" "vertUnc_valid") None None None;
      Elem [] QMI_IDL_GENERIC_4_BYTE (Offset OFFSET8 "qmiLocGeofencePositionStructT_v02" "vertUnc") None None None;
      Elem [] QMI_IDL_GENERIC_1_BYTE (Offset OFFSET8 "qmiLocGeofencePositionStructT_v02" "speedVertical_valid") None None None;
      Elem [] QMI_IDL_GENERIC_4_BYTE (Offset OFFSET8 "qmiLocGeofencePositionStructT_v02" "speedVertical") None None None;
      Elem [] QMI_IDL_GENERIC_1_BYTE (Offset OFFSET8 "qmiLocGeofencePositionStructT_v02" "heading_valid") None None None;
      Elem [] QMI_IDL_GENERIC_4_BYTE (Offset OFFSET8 "qmiLocGeofencePositionStructT_v02" "heading") None None None ]);
  ("qmiLocGeofenceIdContinuousStructT_data_v02", [
      Elem [] QMI_IDL_GENERIC_4_BYTE (Offset OFFSET8 "qmiLocGeofenceIdContinuousStructT_v02" "idLow") None None None;
      Elem [] QMI_IDL_GENERIC_4_BYTE (Offset OFFSET8 "qmiLocGeofenceIdContinuousStructT_v02" "idHigh") None None None ]);
  ("qmiLocPredictedOrbitsDataValidityStructT_data_v02", [
      Elem [] QMI_IDL_GENERIC_8_BYTE (Offset OFFSET8 "qmiLocPredictedOrbitsDataValidityStructT_v02" "startTimeInUTC") None None None;
      Elem [] QMI_IDL_GENERIC_2_BYTE (Offset OFFSET8 "qmiLocPredictedOrbitsDataValidityStructT_v02" "durationHours") None None None ]);
  ("qmiLocAltitudeSrcInfoStructT_data_v02", [
      Elem [] QMI_IDL_GENERIC_4_BYTE (Offset OFFSET8 "qmiLocAltitudeSrcInfoStructT_v02" "source") None None None;
      Elem [] QMI_IDL_GENERIC_4_BYTE (Offset OFFSET8 "qmiLocAltitudeSrcInfoStructT_v02" "linkage") None None None;
      Elem [] QMI_IDL_GENERIC_4_BYTE (Offset OFFSET8 "qmiLocAltitudeSrcInfoStructT_v02" "coverage") None None None ]);
  ("qmiLocDeleteSvInfoStructT_data_v02", [
      Elem [] QMI_IDL_GENERIC_2_BYTE (Offset OFFSET8 "qmiLocDeleteSvInfoStructT_v02" "gnssSvId") None None None;
      Elem [] QMI_IDL_GENERIC_4_BYTE (Offset OFFSET8 "qmiLocDeleteSvInfoStructT_v02" "system") None None None;
      Elem [] QMI_IDL_GENERIC_1_BYTE (Offset OFFSET8 "qmiLocDeleteSvInfoStructT_v02" "deleteSvInfoMask") None None None ]);
  ("qmiLocDeleteBDSSvInfoStructT_data_v02", [
      Elem [] QMI_IDL_GENERIC_2_BYTE (Offset OFFSET8 "qmiLocDeleteBDSSvInfoStructT_v02" "gnssSvId") None None None;
      Elem [] QMI_IDL_GENERIC_1_BYTE (Offset OFFSET8 "qmiLocDeleteBDSSvInfoStructT_v02" "deleteSvInfoMask") None None None ]);
  ("qmiLocDeleteGALSvInfoStructT_data_v02", [
      Elem [] QMI_IDL_GENERIC_2_BYTE (Offset OFFSET8 "qmiLocDeleteGALSvInfoStructT_v02" "gnssSvId") None None None;
      Elem [] QMI_IDL_GENERIC_1_BYTE (Offset OFFSET8 "qmiLocDeleteGALSvInfoStructT_v02" "deleteSvInfoMask") None None None ]);
  ("qmiLocWifiFixTimeStructT_data_v02", [
      Elem [] QMI_IDL_GENERIC_4_BYTE (Offset OFFSET8 "qmiLocWifiFixTimeStructT_v02" "wifiPositionTime") None None None ]);
  ("qmiLocWifiFixPosStructT_data_v02", [
      Elem [] QMI_IDL_GENERIC_8_BYTE (Offset OFFSET8 "qmiLocWifiFixPosStructT_v02" "lat") None None None;
      Elem [] QMI_IDL_GENERIC_8_BYTE (Offset OFFSET8 "qmiLocWifiFixPosStructT_v02" "lon") None None None;
      Elem [] QMI_IDL_GENERIC_2_BYTE (Offset OFFSET8 "qmiLocWifiFixPosStructT_v02" "hepe") None None None;
      Elem [] QMI_IDL_GENERIC_1_BYTE (Offset OFFSET8 "qmiLocWifiFixPosStructT_v02" "numApsUsed") None None None;
      Elem [] QMI_IDL_GENERIC_4_BYTE (Offset OFFSET8 "qmiLocWifiFixPosStructT_v02" "fixErrorCode") None None None ]) ].

Definition type_data_5 : list (string * list elem) := [
  ("qmiLocWifiApInfoStructT_data_v02", [
      Elem [IS_ARRAY] QMI_IDL_GENERIC_1_BYTE (Offset OFFSET8 "qmiLocWifiApInfoStructT_v02" "macAddr") (Some (Macro "QMI_LOC_WIFI_MAC_ADDR_LENGTH_V02")) None None;
      Elem [] QMI_IDL_GENERIC_4_BYTE (Offset OFFSET8 "qmiLocWifiApInfoStructT_v02" "rssi") None None None;
      Elem [] QMI_IDL_GENERIC_2_BYTE (Offset OFFSET8 "qmiLocWifiApInfoStructT_v02" "channel") None None None;
      Elem [] QMI_IDL_GENERIC_1_BYTE (Offset OFFSET8 "qmiLocWifiApInfoStructT_v02" "apQualifier") None None None ]);
  ("qmiLocWifiApSsidStructT_data_v02", [
      Elem [IS_ARRAY; IS_VARIABLE_LEN] QMI_IDL_STRING (Offset OFFSET8 "qmiLocWifiApSsidStructT_v02" "ssid") (Some (Macro "QMI_LOC_MAX_WIFI_AP_SSID_STR_LENGTH_V02")) None None ]);
  ("qmiLoc3AxisSensorSampleStructT_data_v02", [
      Elem [] QMI_IDL_GENERIC_2_BYTE (Offset OFFSET8 "qmiLoc3AxisSensorSampleStructT_v02" "timeOffset") None None None;
      Elem [] QMI_IDL_GENERIC_4_BYTE (Offset OFFSET8 "qmiLoc3AxisSensorSampleStructT_v02" "xAxis") None None None;
      Elem [] QMI_IDL_GENERIC_4_BYTE (Offset OFFSET8 "qmiLoc3AxisSensorSampleStructT_v02" "yAxis") None None None;
      Elem [] QMI_IDL_GENERIC_4_BYTE (Offset OFFSET8 "qmiLoc3AxisSensorSampleStructT_v02" "zAxis") None None None ]);
  ("qmiLoc3AxisSensorSampleListStructT_data_v02", [
      Elem [] QMI_IDL_GENERIC_4_BYTE (Offset OFFSET8 "qmiLoc3AxisSensorSampleListStructT_v02" "timeOfFirstSample") None None None;
      Elem [] QMI_IDL_GENERIC_1_BYTE (Offset OFFSET8 "qmiLoc3AxisSensorSampleListStructT_v02" "flags") None None None;
      Elem [IS_ARRAY; IS_VARIABLE_LEN] QMI_IDL_AGGREGATE (Offset OFFSET8 "qmiLoc3AxisSensorSampleListStructT_v02" "sensorData") (Some (Macro "QMI_LOC_SENSOR_DATA_MAX_SAMPLES_V02")) (Some (Offset OFFSET8 "qmiLoc3AxisSensorSampleListStructT_v02" "sensorData", Offset OFFSET8 "qmiLoc3AxisSensorSampleListStructT_v02" "sensorData_len")) (Some (0, 38)) ]);
  ("qmiLocSensorTemperatureSampleStructT_data_v02", [
      Elem [] QMI_IDL_GENERIC_2_BYTE (Offset OFFSET8 "qmiLocSensorTemperatureSampleStructT_v02" "timeOffset") None None None;
      Elem [] QMI_IDL_GENERIC_4_BYTE (Offset OFFSET8 "qmiLocSensorTemperatureSampleStructT_v02" "temperature") None None None ]);
  ("qmiLocSensorTemperatureSampleListStructT_data_v02", [
      Elem [] QMI_IDL_GENERIC_4_BYTE (Offset OFFSET8 "qmiLocSensorTemperatureSampleListStructT_v02" "timeSource") None None None;
      Elem [] QMI_IDL_GENERIC_4_BYTE (Offset OFFSET8 "qmiLocSensorTemperatureSampleListStructT_v02" "timeOfFirstSample") None None None;
      Elem [IS_ARRAY; IS_VARIABLE_LEN] QMI_IDL_AGGREGATE (Offset OFFSET8 "qmiLocSensorTemperatureSampleListStructT_v02" "temperatureData") (Some (Macro "QMI_LOC_SENSOR_DATA_MAX_SAMPLES_V02")) (Some (Offset OFFSET8 "qmiLocSensorTemperatureSampleListStructT_v02" "temperatureData", Offset OFFSET8 "qmiLocSensorTemperatureSampleListStructT_v02" "temperatureData_len")) (Some (0, 40)) ]);
  ("qmiLocApnProfilesStructT_data_v02", [
      Elem [] QMI_IDL_GENERIC_4_BYTE (Offset OFFSET8 "qmiLocApnProfilesStructT_v02" "pdnType") None None None;
      Elem [IS_ARRAY; IS_VARIABLE_LEN] QMI_IDL_STRING (Offset OFFSET8 "qmiLocApnProfilesStructT_v02" "apnName") (Some (Macro "QMI_LOC_MAX_APN_NAME_LENGTH_V02")) None None ]);
  ("qmiLocCircularGeofenceArgsStructT_data_v02", [
      Elem [] QMI_IDL_GENERIC_8_BYTE (Offset OFFSET8 "qmiLocCircularGeofenceArgsStructT_v02" "latitude") None None None;
      Elem [] QMI_IDL_GENERIC_8_BYTE (Offset OFFSET8 "qmiLocCircularGeofenceArgsStructT_v02" "longitude") None None None;
      Elem [] QMI_IDL_GENERIC_4_BYTE (Offset OFFSET8 "qmiLocCircularGeofenceArgsStructT_v02" "radius") None None None ]);
  ("qmiLocGeofenceMotionStateConfigStructT_data_v02", [
      Elem [] QMI_IDL_GENERIC_4_BYTE (Offset OFFSET8 "qmiLocGeofenceMotionStateConfigStructT_v02" "motionState") None None None;
      Elem [] QMI_IDL_GENERIC_4_BYTE (Offset OFFSET8 "qmiLocGeofenceMotionStateConfigStructT_v02" "motionStateSpeed") None None None ]);
  ("qmiLocTimeZoneStructT_data_v02", [
      Elem [] QMI_IDL_GENERIC_8_BYTE (Offset OFFSET8 "qmiLocTimeZoneStructT_v02" "dstOffset") None None None;
      Elem [] QMI_IDL_GENERIC_8_BYTE (Offset OFFSET8 "qmiLocTimeZoneStructT_v02" "rawOffset") None None None ]);
  ("qmiLocMotionDataStructT_data_v02", [
      Elem [] QMI_IDL_GENERIC_4_BYTE (Offset OFFSET8 "qmiLocMotionDataStructT_v02" "motion_state") None None None;
      Elem [] QMI_IDL_GENERIC_4_BYTE (Offset OFFSET8 "qmiLocMotionDataStructT_v02" "motion_mode") None None None;
      Elem [] QMI_IDL_GENERIC_4_BYTE (Offset OFFSET8 "qmiLocMotionDataStructT_v02" "probability_of_state") None None None;
      Elem [] QMI_IDL_GENERIC_2_BYTE (Offset OFFSET8 "qmiLocMotionDataStructT_v02" "age") None None None;
      Elem [] QMI_IDL_GENERIC_2_BYTE (Offset OFFSET8 "qmiLocMotionDataStructT_v02" "timeout") None None None ]) ].

Definition type_data_6 : list (string * list elem) := [
  ("qmiLocGSMCellIdStructT_data_v02", [
      Elem [] QMI_IDL_GENERIC_4_BYTE (Offset OFFSET8 "qmiLocGSMCellIdStructT_v02" "MCC") None None None;
      Elem [] QMI_IDL_GENERIC_4_BYTE (Offset OFFSET8 "qmiLocGSMCellIdStructT_v02" "MNC") None None None;
      Elem [] QMI_IDL_GENERIC_4_BYTE (Offset OFFSET8 "qmiLocGSMCellIdStructT_v02" "LAC") None None None;
      Elem [] QMI_IDL_GENERIC_4_BYTE (Offset OFFSET8 "qmiLocGSMCellIdStructT_v02" "CID") None None None ]);
  ("qmiLocWCDMACellIdStructT_data_v02", [
      Elem [] QMI_IDL_GENERIC_4_BYTE (Offset OFFSET8 "qmiLocWCDMACellIdStructT_v02" "mcc") None None None;
      Elem [] QMI_IDL_GENERIC_4_BYTE (Offset OFFSET8 "qmiLocWCDMACellIdStructT_v02" "mnc") None None None;
      Elem [] QMI_IDL_GENERIC_4_BYTE (Offset OFFSET8 "qmiLocWCDMACellIdStructT_v02" "cid") None None None ]);
  ("qmiLocTDSCDMACellIdStructT_data_v02", [
      Elem [] QMI_IDL_GENERIC_4_BYTE (Offset OFFSET8 "qmiLocTDSCDMACellIdStructT_v02" "mcc") None None None;
      Elem [] QMI_IDL_GENERIC_4_BYTE (Offset OFFSET8 "qmiLocTDSCDMACellIdStructT_v02" "mnc") None None None;
      Elem [] QMI_IDL_GENERIC_4_BYTE (Offset OFFSET8 "qmiLocTDSCDMACellIdStructT_v02" "cid") None None None;
      Elem [] QMI_IDL_GENERIC_4_BYTE (Offset OFFSET8 "qmiLocTDSCDMACellIdStructT_v02" "lac") None None None ]);
  ("qmiLocBatchedReportStructT_data_v02", [
      Elem [] QMI_IDL_GENERIC_4_BYTE (Offset OFFSET8 "qmiLocBatchedReportStructT_v02" "fixId") None None None;
      Elem [] QMI_IDL_GENERIC_8_BYTE (Offset OFFSET8 "qmiLocBatchedReportStructT_v02" "validFields") None None None;
      Elem [] QMI_IDL_GENERIC_8_BYTE (Offset OFFSET8 "qmiLocBatchedReportStructT_v02" "latitude") None None None;
      Elem [] QMI_IDL_GENERIC_8_BYTE (Offset OFFSET8 "qmiLocBatchedReportStructT_v02" "longitude") None None None;
      Elem [] QMI_IDL_GENERIC_4_BYTE (Offset OFFSET8 "qmiLocBatchedReportStructT_v02" "horUncCircular") None None None;
      Elem [] QMI_IDL_GENERIC_4_BYTE (Offset OFFSET8 "qmiLocBatchedReportStructT_v02" "speedHorizontal") None None None;
      Elem [] QMI_IDL_GENERIC_4_BYTE (Offset OFFSET8 "qmiLocBatchedReportStructT_v02" "speedUnc") None None None;
      Elem [] QMI_IDL_GENERIC_4_BYTE (Offset OFFSET8 "qmiLocBatchedReportStructT_v02" "altitudeWrtEllipsoid") None None None;
      Elem [] QMI_IDL_GENERIC_4_BYTE (Offset OFFSET8 "qmiLocBatchedReportStructT_v02" "speedVertical") None None None;
      Elem [] QMI_IDL_GENERIC_4_BYTE (Offset OFFSET8 "qmiLocBatchedReportStructT_v02" "heading") None None None;
      Elem [] QMI_IDL_GENERIC_4_BYTE (Offset OFFSET8 "qmiLocBatchedReportStructT_v02" "headingUnc") None None None;
      Elem [] QMI_IDL_GENERIC_4_BYTE (Offset OFFSET8 "qmiLocBatchedReportStructT_v02" "technologyMask") None None None;
      Elem [] QMI_IDL_GENERIC_8_BYTE (Offset OFFSET8 "qmiLocBatchedReportStructT_v02" "timestampUtc") None None None;
      Elem [] QMI_IDL_GENERIC_4_BYTE (Offset OFFSET8 "qmiLocBatchedReportStructT_v02" "timeUnc") None None None;
      Elem [] QMI_IDL_GENERIC_4_BYTE (Offset OFFSET8 "qmiLocBatchedReportStructT_v02" "magneticDeviation") None None None;
      Elem [] QMI_IDL_GENERIC_4_BYTE (Offset OFFSET8 "qmiLocBatchedReportStructT_v02" "vertUnc") None None None;
      Elem [] QMI_IDL_GENERIC_1_BYTE (Offset OFFSET8 "qmiLocBatchedReportStructT_v02" "horConfidence") None None None;
      Elem [] QMI_IDL_AGGREGATE (Offset OFFSET8 "qmiLocBatchedReportStructT_v02" "gpsTime") None None (Some (0, 2)) ]);
  ("qmiLocWifiApDataStructT_data_v02", [
      Elem [] QMI_IDL_GENERIC_4_BYTE (Offset OFFSET8 "qmiLocWifiApDataStructT_v02" "wifiApDataMask") None None None;
      Elem [IS_ARRAY] QMI_IDL_GENERIC_1_BYTE (Offset OFFSET8 "qmiLocWifiApDataStructT_v02" "macAddress") (Some (Macro "QMI_LOC_WIFI_MAC_ADDR_LENGTH_V02")) None None;
      Elem [] QMI_IDL_GENERIC_4_BYTE (Offset OFFSET8 "qmiLocWifiApDataStructT_v02" "apTransmitPower") None None None;
      Elem [] QMI_IDL_GENERIC_4_BYTE (Offset OFFSET8 "qmiLocWifiApDataStructT_v02" "apAntennaGain") None None None;
      Elem [] QMI_IDL_GENERIC_4_BYTE (Offset OFFSET8 "qmiLocWifiApDataStructT_v02" "apSignalToNoise") None None None;
      Elem [] QMI_IDL_GENERIC_4_BYTE (Offset OFFSET8 "qmiLocWifiApDataStructT_v02" "apDeviceType") None None None;
      Elem [] QMI_IDL_GENERIC_4_BYTE (Offset OFFSET8 "qmiLocWifiApDataStructT_v02" "apRssi") None None None;
      Elem [] QMI_IDL_GENERIC_2_BYTE (Offset OFFSET8 "qmiLocWifiApDataStructT_v02" "apChannel") None None None;
      Elem [] QMI_IDL_GENERIC_4_BYTE (Offset OFFSET8 "qmiLocWifiApDataStructT_v02" "apRoundTripDelay") None None None;
      Elem [] QMI_IDL_GENERIC_4_BYTE (Offset OFFSET8 "qmiLocWifiApDataStructT_v02" "apRoundTripDelayUnit") None None None;
      Elem [] QMI_IDL_GENERIC_1_BYTE (Offset OFFSET8 "qmiLocWifiApDataStructT_v02" "apRoundTripDelayAccuracy") None None None;
      Elem [] QMI_IDL_GENERIC_4_BYTE (Offset OFFSET8 "qmiLocWifiApDataStructT_v02" "mobileSignalToNoise") None None None;
      Elem [] QMI_IDL_GENERIC_4_BYTE (Offset OFFSET8 "qmiLocWifiApDataStructT_v02" "mobileRssi") None None None ]) ].

Definition type_data_7 : list (string * list elem) := [
  ("qmiLocWifiApAdditionalDataStructT_data_v02", [
      Elem [] QMI_IDL_GENERIC_8_BYTE (Offset OFFSET8 "qmiLocWifiApAdditionalDataStructT_v02" "rssiTimestamp") None None None;
      Elem [] QMI_IDL_GENERIC_4_BYTE (Offset OFFSET8 "qmiLocWifiApAdditionalDataStructT_v02" "measAge") None None None;
      Elem [] QMI_IDL_GENERIC_1_BYTE (Offset OFFSET8 "qmiLocWifiApAdditionalDataStructT_v02" "servingAccessPoint") None None None;
      Elem [] QMI_IDL_GENERIC_4_BYTE (Offset OFFSET8 "qmiLocWifiApAdditionalDataStructT_v02" "channelFrequency") None None None;
      Elem [IS_ARRAY; IS_VARIABLE_LEN] QMI_IDL_STRING (Offset OFFSET8 "qmiLocWifiApAdditionalDataStructT_v02" "ssid") (Some (Macro "QMI_LOC_MAX_WIFI_AP_SSID_STR_LENGTH_V02")) None None;
      Elem [] QMI_IDL_GENERIC_4_BYTE (Offset OFFSET8 "qmiLocWifiApAdditionalDataStructT_v02" "apHighResolutionRssi") None None None ]);
  ("qmiLocVehicleSensorSampleStructT_data_v02", [
      Elem [] QMI_IDL_GENERIC_4_BYTE (Offset OFFSET8 "qmiLocVehicleSensorSampleStructT_v02" "timeOffset") None None None;
      Elem [IS_ARRAY; IS_VARIABLE_LEN] QMI_IDL_GENERIC_4_BYTE (Offset OFFSET8 "qmiLocVehicleSensorSampleStructT_v02" "axisSample") (Some (Macro "QMI_LOC_VEHICLE_SENSOR_DATA_MAX_AXES_V02")) (Some (Offset OFFSET8 "qmiLocVehicleSensorSampleStructT_v02" "axisSample", Offset OFFSET8 "qmiLocVehicleSensorSampleStructT_v02" "axisSample_len")) None ]);
  ("qmiLocVehicleSensorSampleListStructType_data_v02", [
      Elem [] QMI_IDL_GENERIC_4_BYTE (Offset OFFSET8 "qmiLocVehicleSensorSampleListStructType_v02" "sampleTimeBase") None None None;
      Elem [] QMI_IDL_GENERIC_1_BYTE (Offset OFFSET8 "qmiLocVehicleSensorSampleListStructType_v02" "axesValidity") None None None;
      Elem [IS_ARRAY; IS_VARIABLE_LEN] QMI_IDL_AGGREGATE (Offset OFFSET8 "qmiLocVehicleSensorSampleListStructType_v02" "sensorData") (Some (Macro "QMI_LOC_VEHICLE_SENSOR_DATA_MAX_SAMPLES_V02")) (Some (Offset OFFSET8 "qmiLocVehicleSensorSampleListStructType_v02" "sensorData", Offset OFFSET8 "qmiLocVehicleSensorSampleListStructType_v02" "sensorData_len")) (Some (0, 53)) ]);
  ("qmiLocVehicleOdometrySampleStructT_data_v02", [
      Elem [] QMI_IDL_GENERIC_4_BYTE (Offset OFFSET8 "qmiLocVehicleOdometrySampleStructT_v02" "timeOffset") None None None;
      Elem [IS_ARRAY; IS_VARIABLE_LEN] QMI_IDL_GENERIC_4_BYTE (Offset OFFSET8 "qmiLocVehicleOdometrySampleStructT_v02" "distanceTravelled") (Some (Macro "QMI_LOC_VEHICLE_ODOMETRY_MAX_MEASUREMENTS_V02")) (Some (Offset OFFSET8 "qmiLocVehicleOdometrySampleStructT_v02" "distanceTravelled", Offset OFFSET8 "qmiLocVehicleOdometrySampleStructT_v02" "distanceTravelled_len")) None ]);
  ("qmiLocVehicleOdometrySampleListStructT_data_v02", [
      Elem [] QMI_IDL_GENERIC_4_BYTE (Offset OFFSET8 "qmiLocVehicleOdometrySampleListStructT_v02" "sampleTimeBase") None None None;
      Elem [] QMI_IDL_GENERIC_4_BYTE (Offset OFFSET8 "qmiLocVehicleOdometrySampleListStructT_v02" "flags") None None None;
      Elem [] QMI_IDL_GENERIC_4_BYTE (Offset OFFSET8 "qmiLocVehicleOdometrySampleListStructT_v02" "wheelFlags") None None None;
      Elem [] QMI_IDL_GENERIC_4_BYTE (Offset OFFSET8 "qmiLocVehicleOdometrySampleListStructT_v02" "distanceTravelledBase") None None None;
      Elem [IS_ARRAY; IS_VARIABLE_LEN] QMI_IDL_AGGREGATE (Offset OFFSET8 "qmiLocVehicleOdometrySampleListStructT_v02" "odometryData") (Some (Macro "QMI_LOC_VEHICLE_SENSOR_DATA_MAX_SAMPLES_V02")) (Some (Offset OFFSET8 "qmiLocVehicleOdometrySampleListStructT_v02" "odometryData", Offset OFFSET8 "qmiLocVehicleOdometrySampleListStructT_v02" "odometryData_len")) (Some (0, 55)) ]);
  ("qmiLocRcvrClockFrequencyInfoStructT_data_v02", [
      Elem [] QMI_IDL_GENERIC_4_BYTE (Offset OFFSET8 "qmiLocRcvrClockFrequencyInfoStructT_v02" "clockDrift") None None None;
      Elem [] QMI_IDL_GENERIC_4_BYTE (Offset OFFSET8 "qmiLocRcvrClockFrequencyInfoStructT_v02" "clockDriftUnc") None None None;
      Elem [] QMI_IDL_GENERIC_4_BYTE (Offset OFFSET8 "qmiLocRcvrClockFrequencyInfoStructT_v02" "sourceOfFreq") None None None ]);
  ("qmiLocLeapSecondInfoStructT_data_v02", [
      Elem [] QMI_IDL_GENERIC_1_BYTE (Offset OFFSET8 "qmiLocLeapSecondInfoStructT_v02" "leapSec") None None None;
      Elem [] QMI_IDL_GENERIC_1_BYTE (Offset OFFSET8 "qmiLocLeapSecondInfoStructT_v02" "leapSecUnc") None None None ]);
  ("qmiLocInterSystemBiasStructT_data_v02", [
      Elem [] QMI_IDL_GENERIC_1_BYTE (Offset OFFSET8 "qmiLocInterSystemBiasStructT_v02" "validMask") None None None;
      Elem [] QMI_IDL_GENERIC_4_BYTE (Offset OFFSET8 "qmiLocInterSystemBiasStructT_v02" "timeBias") None None None;
      Elem [] QMI_IDL_GENERIC_4_BYTE (Offset OFFSET8 "qmiLocInterSystemBiasStructT_v02" "timeBiasUnc") None None None ]);
  ("qmiLocGnssTimeStructT_data_v02", [
      Elem [] QMI_IDL_GENERIC_4_BYTE (Offset OFFSET8 "qmiLocGnssTimeStructT_v02" "system") None None None;
      Elem [] QMI_IDL_GENERIC_2_BYTE (Offset OFFSET8 "qmiLocGnssTimeStructT_v02" "systemWeek") None None None;
      Elem [] QMI_IDL_GENERIC_4_BYTE (Offset OFFSET8 "qmiLocGnssTimeStructT_v02" "systemMsec") None None None;
      Elem [] QMI_IDL_GENERIC_4_BYTE (Offset OFFSET8 "qmiLocGnssTimeStructT_v02" "systemClkTimeBias") None None None;
      Elem [] QMI_IDL_GENERIC_4_BYTE (Offset OFFSET8 "qmiLocGnssTimeStructT_v02" "systemClkTimeUncMs") None None None ]) ].

Definition type_data_8 : list (string * list elem) := [
  ("qmiLocGloTimeStructT_data_v02", [
      Elem [] QMI_IDL_GENERIC_1_BYTE (Offset OFFSET8 "qmiLocGloTimeStructT_v02" "gloFourYear") None None None;
      Elem [] QMI_IDL_GENERIC_2_BYTE (Offset OFFSET8 "qmiLocGloTimeStructT_v02" "gloDays") None None None;
      Elem [] QMI_IDL_GENERIC_4_BYTE (Offset OFFSET8 "qmiLocGloTimeStructT_v02" "gloMsec") None None None;
      Elem [] QMI_IDL_GENERIC_4_BYTE (Offset OFFSET8 "qmiLocGloTimeStructT_v02" "gloClkTimeBias") None None None;
      Elem [] QMI_IDL_GENERIC_4_BYTE (Offset OFFSET8 "qmiLocGloTimeStructT_v02" "gloClkTimeUncMs") None None None ]);
  ("qmiLocGnssTimeExtStructT_data_v02", [
      Elem [] QMI_IDL_GENERIC_4_BYTE (Offset OFFSET8 "qmiLocGnssTimeExtStructT_v02" "refFCount") None None None;
      Elem [] QMI_IDL_GENERIC_1_BYTE (Offset OFFSET8 "qmiLocGnssTimeExtStructT_v02" "systemRtc_valid") None None None;
      Elem [] QMI_IDL_GENERIC_8_BYTE (Offset OFFSET8 "qmiLocGnssTimeExtStructT_v02" "systemRtcMs") None None None;
      Elem [] QMI_IDL_GENERIC_4_BYTE (Offset OFFSET8 "qmiLocGnssTimeExtStructT_v02" "sourceOfTime") None None None ]);
  ("qmiLocSVTimeSpeedStructT_data_v02", [
      Elem [] QMI_IDL_GENERIC_4_BYTE (Offset OFFSET8 "qmiLocSVTimeSpeedStructT_v02" "svTimeMs") None None None;
      Elem [] QMI_IDL_GENERIC_4_BYTE (Offset OFFSET8 "qmiLocSVTimeSpeedStructT_v02" "svTimeSubMs") None None None;
      Elem [] QMI_IDL_GENERIC_4_BYTE (Offset OFFSET8 "qmiLocSVTimeSpeedStructT_v02" "svTimeUncMs") None None None;
      Elem [] QMI_IDL_GENERIC_4_BYTE (Offset OFFSET8 "qmiLocSVTimeSpeedStructT_v02" "dopplerShift") None None None;
      Elem [] QMI_IDL_GENERIC_4_BYTE (Offset OFFSET8 "qmiLocSVTimeSpeedStructT_v02" "dopplerShiftUnc") None None None;
      Elem [] QMI_IDL_GENERIC_1_BYTE (Offset OFFSET8 "qmiLocSVTimeSpeedStructT_v02" "dopplerAccel_valid") None None None;
      Elem [] QMI_IDL_GENERIC_4_BYTE (Offset OFFSET8 "qmiLocSVTimeSpeedStructT_v02" "dopplerAccel") None None None ]);
  ("qmiLocSVMeasurementStructT_data_v02", [
      Elem [] QMI_IDL_GENERIC_2_BYTE (Offset OFFSET8 "qmiLocSVMeasurementStructT_v02" "gnssSvId") None None None;
      Elem [] QMI_IDL_GENERIC_1_BYTE (Offset OFFSET8 "qmiLocSVMeasurementStructT_v02" "gloFrequency") None None None;
      Elem [] QMI_IDL_GENERIC_4_BYTE (Offset OFFSET8 "qmiLocSVMeasurementStructT_v02" "svStatus") None None None;
      Elem [] QMI_IDL_GENERIC_2_BYTE (Offset OFFSET8 "qmiLocSVMeasurementStructT_v02" "validMask") None None None;
      Elem [] QMI_IDL_GENERIC_1_BYTE (Offset OFFSET8 "qmiLocSVMeasurementStructT_v02" "healthStatus") None None None;
      Elem [] QMI_IDL_GENERIC_1_BYTE (Offset OFFSET8 "qmiLocSVMeasurementStructT_v02" "svInfoMask") None None None;
      Elem [] QMI_IDL_GENERIC_8_BYTE (Offset OFFSET8 "qmiLocSVMeasurementStructT_v02" "validMeasStatusMask") None None None;
      Elem [] QMI_IDL_GENERIC_8_BYTE (Offset OFFSET8 "qmiLocSVMeasurementStructT_v02" "measurementStatus") None None None;
      Elem [] QMI_IDL_GENERIC_2_BYTE (Offset OFFSET8 "qmiLocSVMeasurementStructT_v02" "CNo") None None None;
      Elem [] QMI_IDL_GENERIC_2_BYTE (Offset OFFSET8 "qmiLocSVMeasurementStructT_v02" "gloRfLoss") None None None;
      Elem [] QMI_IDL_GENERIC_4_BYTE (Offset OFFSET8 "qmiLocSVMeasurementStructT_v02" "measLatency") None None None;
      Elem [] QMI_IDL_AGGREGATE (Offset OFFSET8 "qmiLocSVMeasurementStructT_v02" "svTimeSpeed") None None (Some (0, 63));
      Elem [] QMI_IDL_GENERIC_1_BYTE (Offset OFFSET8 "qmiLocSVMeasurementStructT_v02" "lossOfLock") None None None;
      Elem [] QMI_IDL_GENERIC_4_BYTE (Offset OFFSET8 "qmiLocSVMeasurementStructT_v02" "multipathEstimate") None None None;
      Elem [] QMI_IDL_GENERIC_4_BYTE (Offset OFFSET8 "qmiLocSVMeasurementStructT_v02" "fineSpeed") None None None;
      Elem [] QMI_IDL_GENERIC_4_BYTE (Offset OFFSET8 "qmiLocSVMeasurementStructT_v02" "fineSpeedUnc") None None None;
      Elem [] QMI_IDL_GENERIC_8_BYTE (Offset OFFSET8 "qmiLocSVMeasurementStructT_v02" "carrierPhase") None None None;
      Elem [] QMI_IDL_GENERIC_1_BYTE (Offset OFFSET8 "qmiLocSVMeasurementStructT_v02" "cycleSlipCount") None None None;
      Elem [] QMI_IDL_GENERIC_4_BYTE (Offset OFFSET8 "qmiLocSVMeasurementStructT_v02" "svAzimuth") None None None;
      Elem [] QMI_IDL_GENERIC_4_BYTE (Offset OFFSET8 "qmiLocSVMeasurementStructT_v02" "svElevation") None None None ]);
  ("qmiLocDgnssSVMeasurementStructT_data_v02", [
      Elem [] QMI_IDL_GENERIC_8_BYTE (Offset OFFSET8 "qmiLocDgnssSVMeasurementStructT_v02" "dgnssMeasStatus") None None None;
      Elem [] QMI_IDL_GENERIC_4_BYTE (Offset OFFSET8 "qmiLocDgnssSVMeasurementStructT_v02" "diffDataEpochTimeMsec") None None None;
      Elem [] QMI_IDL_GENERIC_4_BYTE (Offset OFFSET8 "qmiLocDgnssSVMeasurementStructT_v02" "prCorrMeters") None None None;
      Elem [] QMI_IDL_GENERIC_4_BYTE (Offset OFFSET8 "qmiLocDgnssSVMeasurementStructT_v02" "prrCorrMetersPerSec") None None None ]);
  ("qmiLocWifiApMacAddressStructT_data_v02", [
      Elem [IS_ARRAY] QMI_IDL_GENERIC_1_BYTE (Offset OFFSET8 "qmiLocWifiApMacAddressStructT_v02" "wifiApMacAddress") (Some (Macro "QMI_LOC_WIFI_MAC_ADDR_LENGTH_V02")) None None ]) ].

Definition type_data_9 : list (string * list elem) := [
  ("qmiLocIBeaconIdStructT_data_v02", [
      Elem [IS_ARRAY; IS_VARIABLE_LEN] QMI_IDL_STRING (Offset OFFSET8 "qmiLocIBeaconIdStructT_v02" "uuid") (Some (Macro "QMI_LOC_MAX_IBEACON_UUID_STR_LENGTH_V02")) None None;
      Elem [] QMI_IDL_GENERIC_4_BYTE (Offset OFFSET8 "qmiLocIBeaconIdStructT_v02" "majorNumber") None None None;
      Elem [] QMI_IDL_GENERIC_4_BYTE (Offset OFFSET8 "qmiLocIBeaconIdStructT_v02" "minorNumber") None None None ]);
  ("qmiLocGtpAsnVerStructT_data_v02", [
      Elem [] QMI_IDL_GENERIC_1_BYTE (Offset OFFSET8 "qmiLocGtpAsnVerStructT_v02" "asnMajorVersion") None None None;
      Elem [] QMI_IDL_GENERIC_1_BYTE (Offset OFFSET8 "qmiLocGtpAsnVerStructT_v02" "asnMinorVersion") None None None;
      Elem [] QMI_IDL_GENERIC_1_BYTE (Offset OFFSET8 "qmiLocGtpAsnVerStructT_v02" "asnPointVersion") None None None ]);
  ("qmiLocDbtPositionStructT_data_v02", [
      Elem [] QMI_IDL_GENERIC_8_BYTE (Offset OFFSET8 "qmiLocDbtPositionStructT_v02" "timestampUtc") None None None;
      Elem [] QMI_IDL_GENERIC_8_BYTE (Offset OFFSET8 "qmiLocDbtPositionStructT_v02" "latitude") None None None;
      Elem [] QMI_IDL_GENERIC_8_BYTE (Offset OFFSET8 "qmiLocDbtPositionStructT_v02" "longitude") None None None;
      Elem [] QMI_IDL_GENERIC_4_BYTE (Offset OFFSET8 "qmiLocDbtPositionStructT_v02" "horUncEllipseSemiMinor") None None None;
      Elem [] QMI_IDL_GENERIC_4_BYTE (Offset OFFSET8 "qmiLocDbtPositionStructT_v02" "horUncEllipseSemiMajor") None None None;
      Elem [] QMI_IDL_GENERIC_4_BYTE (Offset OFFSET8 "qmiLocDbtPositionStructT_v02" "horUncEllipseOrientAzimuth") None None None;
      Elem [] QMI_IDL_GENERIC_1_BYTE (Offset OFFSET8 "qmiLocDbtPositionStructT_v02" "speedHorizontal_valid") None None None;
      Elem [] QMI_IDL_GENERIC_4_BYTE (Offset OFFSET8 "qmiLocDbtPositionStructT_v02" "speedHorizontal") None None None;
      Elem [] QMI_IDL_GENERIC_1_BYTE (Offset OFFSET8 "qmiLocDbtPositionStructT_v02" "altitudeWrtEllipsoid_valid") None None None;
      Elem [] QMI_IDL_GENERIC_4_BYTE (Offset OFFSET8 "qmiLocDbtPositionStructT_v02" "altitudeWrtEllipsoid") None None None;
      Elem [] QMI_IDL_GENERIC_1_BYTE (Offset OFFSET8 "qmiLocDbtPositionStructT_v02" "vertUnc_valid") None None None;
      Elem [] QMI_IDL_GENERIC_4_BYTE (Offset OFFSET8 "qmiLocDbtPositionStructT_v02" "vertUnc") None None None;
      Elem [] QMI_IDL_GENERIC_1_BYTE (Offset OFFSET8 "qmiLocDbtPositionStructT_v02" "speedVertical_valid") None None None;
      Elem [] QMI_IDL_GENERIC_4_BYTE (Offset OFFSET8 "qmiLocDbtPositionStructT_v02" "speedVertical") None None None;
      Elem [] QMI_IDL_GENERIC_1_BYTE (Offset OFFSET8 "qmiLocDbtPositionStructT_v02" "heading_valid") None None None;
      Elem [] QMI_IDL_GENERIC_4_BYTE (Offset OFFSET8 "qmiLocDbtPositionStructT_v02" "heading") None None None ]);
  ("qmiLocApCacheStructT_data_v02", [
      Elem [] QMI_IDL_GENERIC_8_BYTE (Offset OFFSET8 "qmiLocApCacheStructT_v02" "macAddress") None None None;
      Elem [] QMI_IDL_GENERIC_4_BYTE (Offset OFFSET8 "qmiLocApCacheStructT_v02" "xLat") None None None;
      Elem [] QMI_IDL_GENERIC_4_BYTE (Offset OFFSET8 "qmiLocApCacheStructT_v02" "yLon") None None None;
      Elem [] QMI_IDL_GENERIC_4_BYTE (Offset OFFSET8 "qmiLocApCacheStructT_v02" "mar") None None None ]);
  ("qmiLocApCacheHepeRelStructT_data_v02", [
      Elem [] QMI_IDL_GENERIC_1_BYTE (Offset OFFSET8 "qmiLocApCacheHepeRelStructT_v02" "hepeValid") None None None;
      Elem [] QMI_IDL_GENERIC_2_BYTE (Offset OFFSET8 "qmiLocApCacheHepeRelStructT_v02" "hepe") None None None;
      Elem [] QMI_IDL_GENERIC_4_BYTE (Offset OFFSET8 "qmiLocApCacheHepeRelStructT_v02" "apReliability") None None None ]);
  ("qmiLocApDoNotCacheStructT_data_v02", [
      Elem [] QMI_IDL_GENERIC_8_BYTE (Offset OFFSET8 "qmiLocApDoNotCacheStructT_v02" "macAddress") None None None ]);
  ("qmiLocDeleteSatelliteDataStructT_data_v02", [
      Elem [] QMI_IDL_GENERIC_4_BYTE (Offset OFFSET8 "qmiLocDeleteSatelliteDataStructT_v02" "system") None None None;
      Elem [] QMI_IDL_GENERIC_4_BYTE (Offset OFFSET8 "qmiLocDeleteSatelliteDataStructT_v02" "deleteSatelliteDataMask") None None None ]);
  ("qmiLocInternalStatusReportDataStructT_data_v02", [
      Elem [IS_ARRAY] QMI_IDL_GENERIC_1_BYTE (Offset OFFSET8 "qmiLocInternalStatusReportDataStructT_v02" "data") (Some (Macro "QMI_LOC_INTERNAL_STATUS_REPORT_DATA_LENGTH_V02")) None None ]);
  ("qmiLocSrnBtleApDeviceDataStructT_data_v02", [
      Elem [] QMI_IDL_GENERIC_4_BYTE (Offset OFFSET8 "qmiLocSrnBtleApDeviceDataStructT_v02" "srnApDataMask") None None None;
      Elem [IS_ARRAY] QMI_IDL_GENERIC_1_BYTE (Offset OFFSET8 "qmiLocSrnBtleApDeviceDataStructT_v02" "macAddress") (Some (Macro "QMI_LOC_SRN_MAC_ADDR_LENGTH_V02")) None None;
      Elem [] QMI_IDL_GENERIC_4_BYTE (Offset OFFSET8 "qmiLocSrnBtleApDeviceDataStructT_v02" "apSrnRssi") None None None;
      Elem [] QMI_IDL_GENERIC_8_BYTE (Offset OFFSET8 "qmiLocSrnBtleApDeviceDataStructT_v02" "apSrnTimestamp") None None None ]) ].

Definition type_data_10 : list (string * list elem) := [
  ("qmiLocWifiCrowdSourcingLocalConfigStructT_data_v02", [
      Elem [] QMI_IDL_GENERIC_1_BYTE (Offset OFFSET8 "qmiLocWifiCrowdSourcingLocalConfigStructT_v02" "enableCrowdSourcingOnDemand") None None None;
      Elem [] QMI_IDL_GENERIC_1_BYTE (Offset OFFSET8 "qmiLocWifiCrowdSourcingLocalConfigStructT_v02" "enableCrowdSourcingOnUnsolicitedGnss") None None None;
      Elem [] QMI_IDL_GENERIC_1_BYTE (Offset OFFSET8 "qmiLocWifiCrowdSourcingLocalConfigStructT_v02" "enableBatteryLevelBasedThrottling") None None None;
      Elem [] QMI_IDL_GENERIC_1_BYTE (Offset OFFSET8 "qmiLocWifiCrowdSourcingLocalConfigStructT_v02" "enableRttCrowdSourcing") None None None;
      Elem [] QMI_IDL_GENERIC_1_BYTE (Offset OFFSET8 "qmiLocWifiCrowdSourcingLocalConfigStructT_v02" "enableRtt3CrowdSourcing") None None None;
      Elem [] QMI_IDL_GENERIC_4_BYTE (Offset OFFSET8 "qmiLocWifiCrowdSourcingLocalConfigStructT_v02" "rttSignalDbmThresh") None None None;
      Elem [] QMI_IDL_GENERIC_2_BYTE (Offset OFFSET8 "qmiLocWifiCrowdSourcingLocalConfigStructT_v02" "maxDataTransferFormatVersionSupported") None None None ]);
  ("qmiLocWifiCrowdSourcingCapabilityStructT_data_v02", [
      Elem [] QMI_IDL_GENERIC_1_BYTE (Offset OFFSET8 "qmiLocWifiCrowdSourcingCapabilityStructT_v02" "onDemandCrowdSourcingSupported") None None None;
      Elem [] QMI_IDL_GENERIC_1_BYTE (Offset OFFSET8 "qmiLocWifiCrowdSourcingCapabilityStructT_v02" "UnsolicitedGnssCrowdSourcingSupported") None None None;
      Elem [] QMI_IDL_GENERIC_1_BYTE (Offset OFFSET8 "qmiLocWifiCrowdSourcingCapabilityStructT_v02" "majorVersionSupported") None None None;
      Elem [] QMI_IDL_GENERIC_1_BYTE (Offset OFFSET8 "qmiLocWifiCrowdSourcingCapabilityStructT_v02" "minorVersionSupported") None None None;
      Elem [] QMI_IDL_GENERIC_2_BYTE (Offset OFFSET8 "qmiLocWifiCrowdSourcingCapabilityStructT_v02" "maxDataTransferFormatVersionSupported") None None None ]);
  ("qmiLocXtraInfoStructT_data_v02", [
      Elem [] QMI_IDL_GENERIC_4_BYTE (Offset OFFSET8 "qmiLocXtraInfoStructT_v02" "reportMask") None None None;
      Elem [] QMI_IDL_GENERIC_2_BYTE (Offset OFFSET8 "qmiLocXtraInfoStructT_v02" "absAgeHrs") None None None;
      Elem [] QMI_IDL_GENERIC_8_BYTE (Offset OFFSET8 "qmiLocXtraInfoStructT_v02" "relAgeInUTC") None None None;
      Elem [] QMI_IDL_AGGREGATE (Offset OFFSET8 "qmiLocXtraInfoStructT_v02" "xtraServerInfo") None None (Some (0, 24));
      Elem [OFFSET_IS_16] QMI_IDL_AGGREGATE (Offset OFFSET16ARRAY "qmiLocXtraInfoStructT_v02" "ntpServerInfo") None None (Some (0, 22));
      Elem [OFFSET_IS_16] QMI_IDL_GENERIC_1_BYTE (Offset OFFSET16ARRAY "qmiLocXtraInfoStructT_v02" "timeRequest") None None None;
      Elem [OFFSET_IS_16] QMI_IDL_GENERIC_2_BYTE (Offset OFFSET16ARRAY "qmiLocXtraInfoStructT_v02" "preferedValidAgeHrs") None None None ]);
  ("qmiLocVersionStructT_data_v02", [
      Elem [] QMI_IDL_GENERIC_1_BYTE (Offset OFFSET8 "qmiLocVersionStructT_v02" "majorVersion") None None None;
      Elem [] QMI_IDL_GENERIC_1_BYTE (Offset OFFSET8 "qmiLocVersionStructT_v02" "minorVersion") None None None ]);
  ("qmiLocGtpClientSwVerStructT_data_v02", [
      Elem [] QMI_IDL_GENERIC_1_BYTE (Offset OFFSET8 "qmiLocGtpClientSwVerStructT_v02" "gtpClientSwMajorVersion") None None None;
      Elem [] QMI_IDL_GENERIC_1_BYTE (Offset OFFSET8 "qmiLocGtpClientSwVerStructT_v02" "gtpClientSwMinorVersion") None None None ]);
  ("qmiLocHomeCarrierIdStructT_data_v02", [
      Elem [] QMI_IDL_GENERIC_1_BYTE (Offset OFFSET8 "qmiLocHomeCarrierIdStructT_v02" "homeMncValid") None None None;
      Elem [] QMI_IDL_GENERIC_4_BYTE (Offset OFFSET8 "qmiLocHomeCarrierIdStructT_v02" "homeMcc") None None None;
      Elem [] QMI_IDL_GENERIC_4_BYTE (Offset OFFSET8 "qmiLocHomeCarrierIdStructT_v02" "homeMnc") None None None ]);
  ("qmiLocPositionSourceStructT_data_v02", [
      Elem [] QMI_IDL_GENERIC_1_BYTE (Offset OFFSET8 "qmiLocPositionSourceStructT_v02" "unspecifiedInternal") None None None;
      Elem [] QMI_IDL_GENERIC_1_BYTE (Offset OFFSET8 "qmiLocPositionSourceStructT_v02" "unspecifiedExternal") None None None;
      Elem [] QMI_IDL_GENERIC_1_BYTE (Offset OFFSET8 "qmiLocPositionSourceStructT_v02" "gnss") None None None;
      Elem [] QMI_IDL_GENERIC_1_BYTE (Offset OFFSET8 "qmiLocPositionSourceStructT_v02" "sensors") None None None;
      Elem [] QMI_IDL_GENERIC_1_BYTE (Offset OFFSET8 "qmiLocPositionSourceStructT_v02" "wifi") None None None;
      Elem [] QMI_IDL_GENERIC_1_BYTE (Offset OFFSET8 "qmiLocPositionSourceStructT_v02" "wwan") None None None ]);
  ("qmiLocBsBestPositionStructT_data_v02", [
      Elem [] QMI_IDL_GENERIC_8_BYTE (Offset OFFSET8 "qmiLocBsBestPositionStructT_v02" "latitude") None None None;
      Elem [] QMI_IDL_GENERIC_8_BYTE (Offset OFFSET8 "qmiLocBsBestPositionStructT_v02" "longitude") None None None;
      Elem [] QMI_IDL_GENERIC_4_BYTE (Offset OFFSET8 "qmiLocBsBestPositionStructT_v02" "horizontalUnc") None None None;
      Elem [] QMI_IDL_GENERIC_4_BYTE (Offset OFFSET8 "qmiLocBsBestPositionStructT_v02" "altitude") None None None;
      Elem [] QMI_IDL_GENERIC_4_BYTE (Offset OFFSET8 "qmiLocBsBestPositionStructT_v02" "altitudeUnc") None None None;
      Elem [] QMI_IDL_AGGREGATE (Offset OFFSET8 "qmiLocBsBestPositionStructT_v02" "latestPositionSources") None None (Some (0, 82)) ]) ].

Definition type_data_11 : list (string * list elem) := [
  ("qmiLocFdclCellIdStructT_data_v02", [
      Elem [] QMI_IDL_GENERIC_4_BYTE (Offset OFFSET8 "qmiLocFdclCellIdStructT_v02" "airInterfaceType") None None None;
      Elem [] QMI_IDL_GENERIC_4_BYTE (Offset OFFSET8 "qmiLocFdclCellIdStructT_v02" "id1") None None None;
      Elem [] QMI_IDL_GENERIC_4_BYTE (Offset OFFSET8 "qmiLocFdclCellIdStructT_v02" "id2") None None None;
      Elem [] QMI_IDL_GENERIC_4_BYTE (Offset OFFSET8 "qmiLocFdclCellIdStructT_v02" "id3") None None None;
      Elem [] QMI_IDL_GENERIC_4_BYTE (Offset OFFSET8 "qmiLocFdclCellIdStructT_v02" "id4") None None None ]);
  ("qmiLocFdclCellPosStructT_data_v02", [
      Elem [] QMI_IDL_GENERIC_4_BYTE (Offset OFFSET8 "qmiLocFdclCellPosStructT_v02" "validMask") None None None;
      Elem [] QMI_IDL_AGGREGATE (Offset OFFSET8 "qmiLocFdclCellPosStructT_v02" "cellId") None None (Some (0, 84));
      Elem [] QMI_IDL_GENERIC_8_BYTE (Offset OFFSET8 "qmiLocFdclCellPosStructT_v02" "latitude") None None None;
      Elem [] QMI_IDL_GENERIC_8_BYTE (Offset OFFSET8 "qmiLocFdclCellPosStructT_v02" "longitude") None None None;
      Elem [] QMI_IDL_GENERIC_4_BYTE (Offset OFFSET8 "qmiLocFdclCellPosStructT_v02" "horCoverageRadius") None None None;
      Elem [] QMI_IDL_GENERIC_1_BYTE (Offset OFFSET8 "qmiLocFdclCellPosStructT_v02" "horConfidence") None None None;
      Elem [] QMI_IDL_GENERIC_4_BYTE (Offset OFFSET8 "qmiLocFdclCellPosStructT_v02" "horReliability") None None None;
      Elem [] QMI_IDL_GENERIC_4_BYTE (Offset OFFSET8 "qmiLocFdclCellPosStructT_v02" "altitude") None None None;
      Elem [] QMI_IDL_GENERIC_4_BYTE (Offset OFFSET8 "qmiLocFdclCellPosStructT_v02" "altUnc") None None None;
      Elem [] QMI_IDL_GENERIC_1_BYTE (Offset OFFSET8 "qmiLocFdclCellPosStructT_v02" "altConfidence") None None None;
      Elem [] QMI_IDL_GENERIC_4_BYTE (Offset OFFSET8 "qmiLocFdclCellPosStructT_v02" "altReliability") None None None ]);
  ("qmiLocNextLeapSecondInfoStructT_data_v02", [
      Elem [] QMI_IDL_GENERIC_1_BYTE (Offset OFFSET8 "qmiLocNextLeapSecondInfoStructT_v02" "gpsTimeCurrent_valid") None None None;
      Elem [] QMI_IDL_AGGREGATE (Offset OFFSET8 "qmiLocNextLeapSecondInfoStructT_v02" "gpsTimeCurrent") None None (Some (0, 2));
      Elem [] QMI_IDL_GENERIC_1_BYTE (Offset OFFSET8 "qmiLocNextLeapSecondInfoStructT_v02" "leapSecondsCurrent_valid") None None None;
      Elem [] QMI_IDL_GENERIC_1_BYTE (Offset OFFSET8 "qmiLocNextLeapSecondInfoStructT_v02" "leapSecondsCurrent") None None None;
      Elem [] QMI_IDL_GENERIC_1_BYTE (Offset OFFSET8 "qmiLocNextLeapSecondInfoStructT_v02" "gpsTimeNextLsEvent_valid") None None None;
      Elem [] QMI_IDL_AGGREGATE (Offset OFFSET8 "qmiLocNextLeapSecondInfoStructT_v02" "gpsTimeNextLsEvent") None None (Some (0, 2));
      Elem [] QMI_IDL_GENERIC_1_BYTE (Offset OFFSET8 "qmiLocNextLeapSecondInfoStructT_v02" "leapSecondsNext_valid") None None None;
      Elem [] QMI_IDL_GENERIC_1_BYTE (Offset OFFSET8 "qmiLocNextLeapSecondInfoStructT_v02" "leapSecondsNext") None None None ]);
  ("qmiLocBsObservedDataStructT_data_v02", [
      Elem [] QMI_IDL_GENERIC_8_BYTE (Offset OFFSET8 "qmiLocBsObservedDataStructT_v02" "validMask") None None None;
      Elem [] QMI_IDL_AGGREGATE (Offset OFFSET8 "qmiLocBsObservedDataStructT_v02" "cellId") None None (Some (0, 84));
      Elem [] QMI_IDL_GENERIC_2_BYTE (Offset OFFSET8 "qmiLocBsObservedDataStructT_v02" "gpsWeek") None None None;
      Elem [] QMI_IDL_GENERIC_4_BYTE (Offset OFFSET8 "qmiLocBsObservedDataStructT_v02" "gpsMilliseconds") None None None;
      Elem [] QMI_IDL_GENERIC_4_BYTE (Offset OFFSET8 "qmiLocBsObservedDataStructT_v02" "bsLocalTimestamp") None None None;
      Elem [] QMI_IDL_GENERIC_4_BYTE (Offset OFFSET8 "qmiLocBsObservedDataStructT_v02" "posDeltaTime") None None None;
      Elem [] QMI_IDL_GENERIC_4_BYTE (Offset OFFSET8 "qmiLocBsObservedDataStructT_v02" "speed") None None None;
      Elem [] QMI_IDL_GENERIC_4_BYTE (Offset OFFSET8 "qmiLocBsObservedDataStructT_v02" "speedUnc") None None None;
      Elem [] QMI_IDL_GENERIC_8_BYTE (Offset OFFSET8 "qmiLocBsObservedDataStructT_v02" "heading") None None None;
      Elem [] QMI_IDL_GENERIC_8_BYTE (Offset OFFSET8 "qmiLocBsObservedDataStructT_v02" "headingUnc") None None None;
      Elem [] QMI_IDL_AGGREGATE (Offset OFFSET8 "qmiLocBsObservedDataStructT_v02" "bsBestPosition") None None (Some (0, 83)) ]) ].

Definition type_data_12 : list (string * list elem) := [
  ("qmiLocEphGnssDataStructT_data_v02", [
      Elem [] QMI_IDL_GENERIC_2_BYTE (Offset OFFSET8 "qmiLocEphGnssDataStructT_v02" "gnssSvId") None None None;
      Elem [] QMI_IDL_GENERIC_4_BYTE (Offset OFFSET8 "qmiLocEphGnssDataStructT_v02" "updateAction") None None None;
      Elem [] QMI_IDL_GENERIC_2_BYTE (Offset OFFSET8 "qmiLocEphGnssDataStructT_v02" "IODE") None None None;
      Elem [] QMI_IDL_GENERIC_8_BYTE (Offset OFFSET8 "qmiLocEphGnssDataStructT_v02" "aSqrt") None None None;
      Elem [] QMI_IDL_GENERIC_8_BYTE (Offset OFFSET8 "qmiLocEphGnssDataStructT_v02" "deltaN") None None None;
      Elem [] QMI_IDL_GENERIC_8_BYTE (Offset OFFSET8 "qmiLocEphGnssDataStructT_v02" "m0") None None None;
      Elem [] QMI_IDL_GENERIC_8_BYTE (Offset OFFSET8 "qmiLocEphGnssDataStructT_v02" "eccentricity") None None None;
      Elem [] QMI_IDL_GENERIC_8_BYTE (Offset OFFSET8 "qmiLocEphGnssDataStructT_v02" "omega0") None None None;
      Elem [] QMI_IDL_GENERIC_8_BYTE (Offset OFFSET8 "qmiLocEphGnssDataStructT_v02" "i0") None None None;
      Elem [] QMI_IDL_GENERIC_8_BYTE (Offset OFFSET8 "qmiLocEphGnssDataStructT_v02" "omega") None None None;
      Elem [] QMI_IDL_GENERIC_8_BYTE (Offset OFFSET8 "qmiLocEphGnssDataStructT_v02" "omegaDot") None None None;
      Elem [] QMI_IDL_GENERIC_8_BYTE (Offset OFFSET8 "qmiLocEphGnssDataStructT_v02" "iDot") None None None;
      Elem [] QMI_IDL_GENERIC_8_BYTE (Offset OFFSET8 "qmiLocEphGnssDataStructT_v02" "cUc") None None None;
      Elem [] QMI_IDL_GENERIC_8_BYTE (Offset OFFSET8 "qmiLocEphGnssDataStructT_v02" "cUs") None None None;
      Elem [] QMI_IDL_GENERIC_8_BYTE (Offset OFFSET8 "qmiLocEphGnssDataStructT_v02" "cRc") None None None;
      Elem [] QMI_IDL_GENERIC_8_BYTE (Offset OFFSET8 "qmiLocEphGnssDataStructT_v02" "cRs") None None None;
      Elem [] QMI_IDL_GENERIC_8_BYTE (Offset OFFSET8 "qmiLocEphGnssDataStructT_v02" "cIc") None None None;
      Elem [] QMI_IDL_GENERIC_8_BYTE (Offset OFFSET8 "qmiLocEphGnssDataStructT_v02" "cIs") None None None;
      Elem [] QMI_IDL_GENERIC_4_BYTE (Offset OFFSET8 "qmiLocEphGnssDataStructT_v02" "toe") None None None;
      Elem [] QMI_IDL_GENERIC_4_BYTE (Offset OFFSET8 "qmiLocEphGnssDataStructT_v02" "toc") None None None;
      Elem [] QMI_IDL_GENERIC_8_BYTE (Offset OFFSET8 "qmiLocEphGnssDataStructT_v02" "af0") None None None;
      Elem [] QMI_IDL_GENERIC_8_BYTE (Offset OFFSET8 "qmiLocEphGnssDataStructT_v02" "af1") None None None;
      Elem [] QMI_IDL_GENERIC_8_BYTE (Offset OFFSET8 "qmiLocEphGnssDataStructT_v02" "af2") None None None ]);
  ("qmiLocGpsEphemerisT_data_v02", [
      Elem [] QMI_IDL_AGGREGATE (Offset OFFSET8 "qmiLocGpsEphemerisT_v02" "commonEphemerisData") None None (Some (0, 88));
      Elem [] QMI_IDL_GENERIC_1_BYTE (Offset OFFSET8 "qmiLocGpsEphemerisT_v02" "signalHealth") None None None;
      Elem [] QMI_IDL_GENERIC_1_BYTE (Offset OFFSET8 "qmiLocGpsEphemerisT_v02" "URAI") None None None;
      Elem [] QMI_IDL_GENERIC_1_BYTE (Offset OFFSET8 "qmiLocGpsEphemerisT_v02" "codeL2") None None None;
      Elem [] QMI_IDL_GENERIC_1_BYTE (Offset OFFSET8 "qmiLocGpsEphemerisT_v02" "dataFlagL2P") None None None;
      Elem [] QMI_IDL_GENERIC_8_BYTE (Offset OFFSET8 "qmiLocGpsEphemerisT_v02" "tgd") None None None;
      Elem [] QMI_IDL_GENERIC_1_BYTE (Offset OFFSET8 "qmiLocGpsEphemerisT_v02" "fitInterval") None None None;
      Elem [] QMI_IDL_GENERIC_2_BYTE (Offset OFFSET8 "qmiLocGpsEphemerisT_v02" "IODC") None None None ]) ].

Definition type_data_13 : list (string * list elem) := [
  ("qmiLocGloEphemerisT_data_v02", [
      Elem [] QMI_IDL_GENERIC_2_BYTE (Offset OFFSET8 "qmiLocGloEphemerisT_v02" "gnssSvId") None None None;
      Elem [] QMI_IDL_GENERIC_4_BYTE (Offset OFFSET8 "qmiLocGloEphemerisT_v02" "updateAction") None None None;
      Elem [] QMI_IDL_GENERIC_1_BYTE (Offset OFFSET8 "qmiLocGloEphemerisT_v02" "bnHealth") None None None;
      Elem [] QMI_IDL_GENERIC_1_BYTE (Offset OFFSET8 "qmiLocGloEphemerisT_v02" "lnHealth") None None None;
      Elem [] QMI_IDL_GENERIC_1_BYTE (Offset OFFSET8 "qmiLocGloEphemerisT_v02" "tb") None None None;
      Elem [] QMI_IDL_GENERIC_1_BYTE (Offset OFFSET8 "qmiLocGloEphemerisT_v02" "ft") None None None;
      Elem [] QMI_IDL_GENERIC_1_BYTE (Offset OFFSET8 "qmiLocGloEphemerisT_v02" "gloM") None None None;
      Elem [] QMI_IDL_GENERIC_1_BYTE (Offset OFFSET8 "qmiLocGloEphemerisT_v02" "enAge") None None None;
      Elem [] QMI_IDL_GENERIC_1_BYTE (Offset OFFSET8 "qmiLocGloEphemerisT_v02" "gloFrequency") None None None;
      Elem [] QMI_IDL_GENERIC_1_BYTE (Offset OFFSET8 "qmiLocGloEphemerisT_v02" "p1") None None None;
      Elem [] QMI_IDL_GENERIC_1_BYTE (Offset OFFSET8 "qmiLocGloEphemerisT_v02" "p2") None None None;
      Elem [] QMI_IDL_GENERIC_4_BYTE (Offset OFFSET8 "qmiLocGloEphemerisT_v02" "deltaTau") None None None;
      Elem [IS_ARRAY] QMI_IDL_GENERIC_8_BYTE (Offset OFFSET8 "qmiLocGloEphemerisT_v02" "position") (Some (Lit 3)) None None;
      Elem [IS_ARRAY] QMI_IDL_GENERIC_8_BYTE (Offset OFFSET8 "qmiLocGloEphemerisT_v02" "velocity") (Some (Lit 3)) None None;
      Elem [IS_ARRAY] QMI_IDL_GENERIC_8_BYTE (Offset OFFSET8 "qmiLocGloEphemerisT_v02" "acceleration") (Some (Lit 3)) None None;
      Elem [] QMI_IDL_GENERIC_4_BYTE (Offset OFFSET8 "qmiLocGloEphemerisT_v02" "tauN") None None None;
      Elem [] QMI_IDL_GENERIC_4_BYTE (Offset OFFSET8 "qmiLocGloEphemerisT_v02" "gamma") None None None;
      Elem [] QMI_IDL_GENERIC_8_BYTE (Offset OFFSET8 "qmiLocGloEphemerisT_v02" "toe") None None None;
      Elem [] QMI_IDL_GENERIC_2_BYTE (Offset OFFSET8 "qmiLocGloEphemerisT_v02" "nt") None None None ]);
  ("qmiLocBdsEphemerisT_data_v02", [
      Elem [] QMI_IDL_AGGREGATE (Offset OFFSET8 "qmiLocBdsEphemerisT_v02" "commonEphemerisData") None None (Some (0, 88));
      Elem [] QMI_IDL_GENERIC_1_BYTE (Offset OFFSET8 "qmiLocBdsEphemerisT_v02" "svHealth") None None None;
      Elem [] QMI_IDL_GENERIC_1_BYTE (Offset OFFSET8 "qmiLocBdsEphemerisT_v02" "AODC") None None None;
      Elem [] QMI_IDL_GENERIC_8_BYTE (Offset OFFSET8 "qmiLocBdsEphemerisT_v02" "tgd1") None None None;
      Elem [] QMI_IDL_GENERIC_8_BYTE (Offset OFFSET8 "qmiLocBdsEphemerisT_v02" "tgd2") None None None;
      Elem [] QMI_IDL_GENERIC_1_BYTE (Offset OFFSET8 "qmiLocBdsEphemerisT_v02" "URAI") None None None ]);
  ("qmiLocGalEphemerisT_data_v02", [
      Elem [] QMI_IDL_AGGREGATE (Offset OFFSET8 "qmiLocGalEphemerisT_v02" "commonEphemerisData") None None (Some (0, 88));
      Elem [] QMI_IDL_GENERIC_4_BYTE (Offset OFFSET8 "qmiLocGalEphemerisT_v02" "dataSourceSignal") None None None;
      Elem [] QMI_IDL_GENERIC_1_BYTE (Offset OFFSET8 "qmiLocGalEphemerisT_v02" "sisIndex") None None None;
      Elem [] QMI_IDL_GENERIC_8_BYTE (Offset OFFSET8 "qmiLocGalEphemerisT_v02" "bgdE1E5a") None None None;
      Elem [] QMI_IDL_GENERIC_8_BYTE (Offset OFFSET8 "qmiLocGalEphemerisT_v02" "bgdE1E5b") None None None;
      Elem [] QMI_IDL_GENERIC_1_BYTE (Offset OFFSET8 "qmiLocGalEphemerisT_v02" "svHealth") None None None ]);
  ("qmiLocKlobucharIonoModelT_data_v02", [
      Elem [] QMI_IDL_GENERIC_4_BYTE (Offset OFFSET8 "qmiLocKlobucharIonoModelT_v02" "dataSource") None None None;
      Elem [] QMI_IDL_GENERIC_4_BYTE (Offset OFFSET8 "qmiLocKlobucharIonoModelT_v02" "alpha0") None None None;
      Elem [] QMI_IDL_GENERIC_4_BYTE (Offset OFFSET8 "qmiLocKlobucharIonoModelT_v02" "alpha1") None None None;
      Elem [] QMI_IDL_GENERIC_4_BYTE (Offset OFFSET8 "qmiLocKlobucharIonoModelT_v02" "alpha2") None None None;
      Elem [] QMI_IDL_GENERIC_4_BYTE (Offset OFFSET8 "qmiLocKlobucharIonoModelT_v02" "alpha3") None None None;
      Elem [] QMI_IDL_GENERIC_4_BYTE (Offset OFFSET8 "qmiLocKlobucharIonoModelT_v02" "beta0") None None None;
      Elem [] QMI_IDL_GENERIC_4_BYTE (Offset OFFSET8 "qmiLocKlobucharIonoModelT_v02" "beta1") None None None;
      Elem [] QMI_IDL_GENERIC_4_BYTE (Offset OFFSET8 "qmiLocKlobucharIonoModelT_v02" "beta2") None None None;
      Elem [] QMI_IDL_GENERIC_4_BYTE (Offset OFFSET8 "qmiLocKlobucharIonoModelT_v02" "beta3") None None None ]) ].

Definition type_data_14 : list (string * list elem) := [
  ("qmiLocMePerGnssRfStructType_data_v02", [
      Elem [] QMI_IDL_GENERIC_2_BYTE (Offset OFFSET8 "qmiLocMePerGnssRfStructType_v02" "bpAmpI") None None None;
      Elem [] QMI_IDL_GENERIC_2_BYTE (Offset OFFSET8 "qmiLocMePerGnssRfStructType_v02" "bpAmpQ") None None None;
      Elem [] QMI_IDL_GENERIC_4_BYTE (Offset OFFSET8 "qmiLocMePerGnssRfStructType_v02" "jammerPwrDb") None None None ]);
  ("qmiLocRobustLocationVersionT_data_v02", [
      Elem [] QMI_IDL_GENERIC_1_BYTE (Offset OFFSET8 "qmiLocRobustLocationVersionT_v02" "major") None None None;
      Elem [] QMI_IDL_GENERIC_2_BYTE (Offset OFFSET8 "qmiLocRobustLocationVersionT_v02" "minor") None None None ]);
  ("qmiLocEnvAidingReflectingPlaneStructT_data_v02", [
      Elem [] QMI_IDL_GENERIC_8_BYTE (Offset OFFSET8 "qmiLocEnvAidingReflectingPlaneStructT_v02" "latitudeDegrees") None None None;
      Elem [] QMI_IDL_GENERIC_8_BYTE (Offset OFFSET8 "qmiLocEnvAidingReflectingPlaneStructT_v02" "longitudeDegrees") None None None;
      Elem [] QMI_IDL_GENERIC_8_BYTE (Offset OFFSET8 "qmiLocEnvAidingReflectingPlaneStructT_v02" "altitudeMeters") None None None;
      Elem [] QMI_IDL_GENERIC_8_BYTE (Offset OFFSET8 "qmiLocEnvAidingReflectingPlaneStructT_v02" "azimuthDegrees") None None None ]);
  ("qmiLocEnvAidingSVCorrectionStructT_data_v02", [
      Elem [] QMI_IDL_GENERIC_8_BYTE (Offset OFFSET8 "qmiLocEnvAidingSVCorrectionStructT_v02" "svCorrectionFlags") None None None;
      Elem [] QMI_IDL_GENERIC_4_BYTE (Offset OFFSET8 "qmiLocEnvAidingSVCorrectionStructT_v02" "constellation") None None None;
      Elem [] QMI_IDL_GENERIC_2_BYTE (Offset OFFSET8 "qmiLocEnvAidingSVCorrectionStructT_v02" "svid") None None None;
      Elem [] QMI_IDL_GENERIC_4_BYTE (Offset OFFSET8 "qmiLocEnvAidingSVCorrectionStructT_v02" "carrierFrequencyHz") None None None;
      Elem [] QMI_IDL_GENERIC_4_BYTE (Offset OFFSET8 "qmiLocEnvAidingSVCorrectionStructT_v02" "probabilitySvIsLineofSight") None None None;
      Elem [] QMI_IDL_GENERIC_4_BYTE (Offset OFFSET8 "qmiLocEnvAidingSVCorrectionStructT_v02" "excessPathLengthMeters") None None None;
      Elem [] QMI_IDL_GENERIC_4_BYTE (Offset OFFSET8 "qmiLocEnvAidingSVCorrectionStructT_v02" "excessPathLengthUncMeters") None None None;
      Elem [] QMI_IDL_AGGREGATE (Offset OFFSET8 "qmiLocEnvAidingSVCorrectionStructT_v02" "reflectingPlane") None None (Some (0, 96)) ]) ].

Definition loc_type_data : list (string * list elem) :=
  type_data_1 ++ type_data_2 ++ type_data_3 ++ type_data_4 ++ type_data_5 ++ type_data_6 ++ type_data_7 ++ type_data_8 ++ type_data_9 ++ type_data_10 ++ type_data_11 ++ type_data_12 ++ type_data_13 ++ type_data_14.

Definition message_data_1 : list (string * list tlv) := [
  ("qmiLocGenRespMsgT_data_v02", [
      Tlv true None 2 (Elem [] QMI_IDL_AGGREGATE (Offset OFFSET8 "qmiLocGenRespMsgT_v02" "resp") None None (Some (1, 0))) ]);
  ("qmiLocGenReqStatusIndMsgT_data_v02", [
      Tlv true None 1 (Elem [] QMI_IDL_GENERIC_4_BYTE (Offset OFFSET8 "qmiLocGenReqStatusIndMsgT_v02" "status") None None None) ]);
  ("qmiLocInformClientRevisionReqMsgT_data_v02", [
      Tlv true None 1 (Elem [] QMI_IDL_GENERIC_4_BYTE (Offset OFFSET8 "qmiLocInformClientRevisionReqMsgT_v02" "revision") None None None) ]);
  ("qmiLocRegEventsReqMsgT_data_v02", [
      Tlv false None 1 (Elem [] QMI_IDL_GENERIC_8_BYTE (Offset OFFSET8 "qmiLocRegEventsReqMsgT_v02" "eventRegMask") None None None);
      Tlv false (Some (Offset OFFSET8 "qmiLocRegEventsReqMsgT_v02" "clientStrId", Offset OFFSET8 "qmiLocRegEventsReqMsgT_v02" "clientStrId_valid")) 16 (Elem [IS_ARRAY; IS_VARIABLE_LEN] QMI_IDL_STRING (Offset OFFSET8 "qmiLocRegEventsReqMsgT_v02" "clientStrId") (Some (Macro "QMI_LOC_MAX_CLIENT_ID_STRING_LENGTH_V02")) None None);
      Tlv false (Some (Offset OFFSET8 "qmiLocRegEventsReqMsgT_v02" "clientType", Offset OFFSET8 "qmiLocRegEventsReqMsgT_v02" "clientType_valid")) 17 (Elem [] QMI_IDL_GENERIC_4_BYTE (Offset OFFSET8 "qmiLocRegEventsReqMsgT_v02" "clientType") None None None);
      Tlv true (Some (Offset OFFSET8 "qmiLocRegEventsReqMsgT_v02" "enablePosRequestNotification", Offset OFFSET8 "qmiLocRegEventsReqMsgT_v02" "enablePosRequestNotification_valid")) 18 (Elem [] QMI_IDL_GENERIC_1_BYTE (Offset OFFSET8 "qmiLocRegEventsReqMsgT_v02" "enablePosRequestNotification") None None None) ]);
  ("qmiLocStartReqMsgT_data_v02", [
      Tlv false None 1 (Elem [] QMI_IDL_GENERIC_1_BYTE (Offset OFFSET8 "qmiLocStartReqMsgT_v02" "sessionId") None None None);
      Tlv false (Some (Offset OFFSET8 "qmiLocStartReqMsgT_v02" "fixRecurrence", Offset OFFSET8 "qmiLocStartReqMsgT_v02" "fixRecurrence_valid")) 16 (Elem [] QMI_IDL_GENERIC_4_BYTE (Offset OFFSET8 "qmiLocStartReqMsgT_v02" "fixRecurrence") None None None);
      Tlv false (Some (Offset OFFSET8 "qmiLocStartReqMsgT_v02" "horizontalAccuracyLevel", Offset OFFSET8 "qmiLocStartReqMsgT_v02" "horizontalAccuracyLevel_valid")) 17 (Elem [] QMI_IDL_GENERIC_4_BYTE (Offset OFFSET8 "qmiLocStartReqMsgT_v02" "horizontalAccuracyLevel") None None None);
      Tlv false (Some (Offset OFFSET8 "qmiLocStartReqMsgT_v02" "intermediateReportState", Offset OFFSET8 "qmiLocStartReqMsgT_v02" "intermediateReportState_valid")) 18 (Elem [] QMI_IDL_GENERIC_4_BYTE (Offset OFFSET8 "qmiLocStartReqMsgT_v02" "intermediateReportState") None None None);
      Tlv false (Some (Offset OFFSET8 "qmiLocStartReqMsgT_v02" "minInterval", Offset OFFSET8 "qmiLocStartReqMsgT_v02" "minInterval_valid")) 19 (Elem [] QMI_IDL_GENERIC_4_BYTE (Offset OFFSET8 "qmiLocStartReqMsgT_v02" "minInterval") None None None);
      Tlv false (Some (Offset OFFSET8 "qmiLocStartReqMsgT_v02" "applicationId", Offset OFFSET8 "qmiLocStartReqMsgT_v02" "applicationId_valid")) 20 (Elem [] QMI_IDL_AGGREGATE (Offset OFFSET8 "qmiLocStartReqMsgT_v02" "applicationId") None None (Some (0, 0)));
      Tlv false (Some (Offset OFFSET8 "qmiLocStartReqMsgT_v02" "configAltitudeAssumed", Offset OFFSET8 "qmiLocStartReqMsgT_v02" "configAltitudeAssumed_valid")) 21 (Elem [] QMI_IDL_GENERIC_4_BYTE (Offset OFFSET8 "qmiLocStartReqMsgT_v02" "configAltitudeAssumed") None None None);
      Tlv false (Some (Offset OFFSET8 "qmiLocStartReqMsgT_v02" "minIntermediatePositionReportInterval", Offset OFFSET8 "qmiLocStartReqMsgT_v02" "minIntermediatePositionReportInterval_valid")) 22 (Elem [] QMI_IDL_GENERIC_4_BYTE (Offset OFFSET8 "qmiLocStartReqMsgT_v02" "minIntermediatePositionReportInterval") None None None);
      Tlv false (Some (Offset OFFSET8 "qmiLocStartReqMsgT_v02" "positionReportTimeout", Offset OFFSET8 "qmiLocStartReqMsgT_v02" "positionReportTimeout_valid")) 23 (Elem [] QMI_IDL_GENERIC_4_BYTE (Offset OFFSET8 "qmiLocStartReqMsgT_v02" "positionReportTimeout") None None None);
      Tlv false (Some (Offset OFFSET8 "qmiLocStartReqMsgT_v02" "sharePosition", Offset OFFSET8 "qmiLocStartReqMsgT_v02" "sharePosition_valid")) 24 (Elem [] QMI_IDL_GENERIC_1_BYTE (Offset OFFSET8 "qmiLocStartReqMsgT_v02" "sharePosition") None None None);
      Tlv false (Some (Offset OFFSET8 "qmiLocStartReqMsgT_v02" "reportGnssOnlyPosition", Offset OFFSET8 "qmiLocStartReqMsgT_v02" "reportGnssOnlyPosition_valid")) 25 (Elem [] QMI_IDL_GENERIC_1_BYTE (Offset OFFSET8 "qmiLocStartReqMsgT_v02" "reportGnssOnlyPosition") None None None);
      Tlv false (Some (Offset OFFSET8 "qmiLocStartReqMsgT_v02" "powerMode", Offset OFFSET8 "qmiLocStartReqMsgT_v02" "powerMode_valid")) 26 (Elem [] QMI_IDL_AGGREGATE (Offset OFFSET8 "qmiLocStartReqMsgT_v02" "powerMode") None None (Some (0, 1)));
      Tlv true (Some (Offset OFFSET8 "qmiLocStartReqMsgT_v02" "specialReqType", Offset OFFSET8 "qmiLocStartReqMsgT_v02" "specialReqType_valid")) 27 (Elem [] QMI_IDL_GENERIC_4_BYTE (Offset OFFSET8 "qmiLocStartReqMsgT_v02" "specialReqType") None None None) ]);
  ("qmiLocStopReqMsgT_data_v02", [
      Tlv true None 1 (Elem [] QMI_IDL_GENERIC_1_BYTE (Offset OFFSET8 "qmiLocStopReqMsgT_v02" "sessionId") None None None) ]) ].

Definition message_data_2 : list (string * list tlv) := [
  ("qmiLocEventPositionReportIndMsgT_data_v02", [
      Tlv false None 1 (Elem [] QMI_IDL_GENERIC_4_BYTE (Offset OFFSET8 "qmiLocEventPositionReportIndMsgT_v02" "sessionStatus") None None None);
      Tlv false None 2 (Elem [] QMI_IDL_GENERIC_1_BYTE (Offset OFFSET8 "qmiLocEventPositionReportIndMsgT_v02" "sessionId") None None None);
      Tlv false (Some (Offset OFFSET8 "qmiLocEventPositionReportIndMsgT_v02" "latitude", Offset OFFSET8 "qmiLocEventPositionReportIndMsgT_v02" "latitude_valid")) 16 (Elem [] QMI_IDL_GENERIC_8_BYTE (Offset OFFSET8 "qmiLocEventPositionReportIndMsgT_v02" "latitude") None None None);
      Tlv false (Some (Offset OFFSET8 "qmiLocEventPositionReportIndMsgT_v02" "longitude", Offset OFFSET8 "qmiLocEventPositionReportIndMsgT_v02" "longitude_valid")) 17 (Elem [] QMI_IDL_GENERIC_8_BYTE (Offset OFFSET8 "qmiLocEventPositionReportIndMsgT_v02" "longitude") None None None);
      Tlv false (Some (Offset OFFSET8 "qmiLocEventPositionReportIndMsgT_v02" "horUncCircular", Offset OFFSET8 "qmiLocEventPositionReportIndMsgT_v02" "horUncCircular_valid")) 18 (Elem [] QMI_IDL_GENERIC_4_BYTE (Offset OFFSET8 "qmiLocEventPositionReportIndMsgT_v02" "horUncCircular") None None None);
      Tlv false (Some (Offset OFFSET8 "qmiLocEventPositionReportIndMsgT_v02" "horUncEllipseSemiMinor", Offset OFFSET8 "qmiLocEventPositionReportIndMsgT_v02" "horUncEllipseSemiMinor_valid")) 19 (Elem [] QMI_IDL_GENERIC_4_BYTE (Offset OFFSET8 "qmiLocEventPositionReportIndMsgT_v02" "horUncEllipseSemiMinor") None None None);
      Tlv false (Some (Offset OFFSET8 "qmiLocEventPositionReportIndMsgT_v02" "horUncEllipseSemiMajor", Offset OFFSET8 "qmiLocEventPositionReportIndMsgT_v02" "horUncEllipseSemiMajor_valid")) 20 (Elem [] QMI_IDL_GENERIC_4_BYTE (Offset OFFSET8 "qmiLocEventPositionReportIndMsgT_v02" "horUncEllipseSemiMajor") None None None);
      Tlv false (Some (Offset OFFSET8 "qmiLocEventPositionReportIndMsgT_v02" "horUncEllipseOrientAzimuth", Offset OFFSET8 "qmiLocEventPositionReportIndMsgT_v02" "horUncEllipseOrientAzimuth_valid")) 21 (Elem [] QMI_IDL_GENERIC_4_BYTE (Offset OFFSET8 "qmiLocEventPositionReportIndMsgT_v02" "horUncEllipseOrientAzimuth") None None None);
      Tlv false (Some (Offset OFFSET8 "qmiLocEventPositionReportIndMsgT_v02" "horConfidence", Offset OFFSET8 "qmiLocEventPositionReportIndMsgT_v02" "horConfidence_valid")) 22 (Elem [] QMI_IDL_GENERIC_1_BYTE (Offset OFFSET8 "qmiLocEventPositionReportIndMsgT_v02" "horConfidence") None None None);
      Tlv false (Some (Offset OFFSET8 "qmiLocEventPositionReportIndMsgT_v02" "horReliability", Offset OFFSET8 "qmiLocEventPositionReportIndMsgT_v02" "horReliability_valid")) 23 (Elem [] QMI_IDL_GENERIC_4_BYTE (Offset OFFSET8 "qmiLocEventPositionReportIndMsgT_v02" "horReliability") None None None);
      Tlv false (Some (Offset OFFSET8 "qmiLocEventPositionReportIndMsgT_v02" "speedHorizontal", Offset OFFSET8 "qmiLocEventPositionReportIndMsgT_v02" "speedHorizontal_valid")) 24 (Elem [] QMI_IDL_GENERIC_4_BYTE (Offset OFFSET8 "qmiLocEventPositionReportIndMsgT_v02" "speedHorizontal") None None None);
      Tlv false (Some (Offset OFFSET8 "qmiLocEventPositionReportIndMsgT_v02" "speedUnc", Offset OFFSET8 "qmiLocEventPositionReportIndMsgT_v02" "speedUnc_valid")) 25 (Elem [] QMI_IDL_GENERIC_4_BYTE (Offset OFFSET8 "qmiLocEventPositionReportIndMsgT_v02" "speedUnc") None None None);
      Tlv false (Some (Offset OFFSET8 "qmiLocEventPositionReportIndMsgT_v02" "altitudeWrtEllipsoid", Offset OFFSET8 "qmiLocEventPositionReportIndMsgT_v02" "altitudeWrtEllipsoid_valid")) 26 (Elem [] QMI_IDL_GENERIC_4_BYTE (Offset OFFSET8 "qmiLocEventPositionReportIndMsgT_v02" "altitudeWrtEllipsoid") None None None);
      Tlv false (Some (Offset OFFSET8 "qmiLocEventPositionReportIndMsgT_v02" "altitudeWrtMeanSeaLevel", Offset OFFSET8 "qmiLocEventPositionReportIndMsgT_v02" "altitudeWrtMeanSeaLevel_valid")) 27 (Elem [] QMI_IDL_GENERIC_4_BYTE (Offset OFFSET8 "qmiLocEventPositionReportIndMsgT_v02" "altitudeWrtMeanSeaLevel") None None None);
      Tlv false (Some (Offset OFFSET8 "qmiLocEventPositionReportIndMsgT_v02" "vertUnc", Offset OFFSET8 "qmiLocEventPositionReportIndMsgT_v02" "vertUnc_valid")) 28 (Elem [] QMI_IDL_GENERIC_4_BYTE (Offset OFFSET8 "qmiLocEventPositionReportIndMsgT_v02" "vertUnc") None None None);
      Tlv false (Some (Offset OFFSET8 "qmiLocEventPositionReportIndMsgT_v02" "vertConfidence", Offset OFFSET8 "qmiLocEventPositionReportIndMsgT_v02" "vertConfidence_valid")) 29 (Elem [] QMI_IDL_GENERIC_1_BYTE (Offset OFFSET8 "qmiLocEventPositionReportIndMsgT_v02" "vertConfidence") None None None);
      Tlv false (Some (Offset OFFSET8 "qmiLocEventPositionReportIndMsgT_v02" "vertReliability", Offset OFFSET8 "qmiLocEventPositionReportIndMsgT_v02" "vertReliability_valid")) 30 (Elem [] QMI_IDL_GENERIC_4_BYTE (Offset OFFSET8 "qmiLocEventPositionReportIndMsgT_v02" "vertReliability") None None None);
      Tlv false (Some (Offset OFFSET8 "qmiLocEventPositionReportIndMsgT_v02" "speedVertical", Offset OFFSET8 "qmiLocEventPositionReportIndMsgT_v02" "speedVertical_valid")) 31 (Elem [] QMI_IDL_GENERIC_4_BYTE (Offset OFFSET8 "qmiLocEventPositionReportIndMsgT_v02" "speedVertical") None None None);
      Tlv false (Some (Offset OFFSET8 "qmiLocEventPositionReportIndMsgT_v02" "heading", Offset OFFSET8 "qmiLocEventPositionReportIndMsgT_v02" "heading_valid")) 32 (Elem [] QMI_IDL_GENERIC_4_BYTE (Offset OFFSET8 "qmiLocEventPositionReportIndMsgT_v02" "heading") None None None);
      Tlv false (Some (Offset OFFSET8 "qmiLocEventPositionReportIndMsgT_v02" "headingUnc", Offset OFFSET8 "qmiLocEventPositionReportIndMsgT_v02" "headingUnc_valid")) 33 (Elem [] QMI_IDL_GENERIC_4_BYTE (Offset OFFSET8 "qmiLocEventPositionReportIndMsgT_v02" "headingUnc") None None None);
      Tlv false (Some (Offset OFFSET8 "qmiLocEventPositionReportIndMsgT_v02" "magneticDeviation", Offset OFFSET8 "qmiLocEventPositionReportIndMsgT_v02" "magneticDeviation_valid")) 34 (Elem [] QMI_IDL_GENERIC_4_BYTE (Offset OFFSET8 "qmiLocEventPositionReportIndMsgT_v02" "magneticDeviation") None None None);
      Tlv false (Some (Offset OFFSET8 "qmiLocEventPositionReportIndMsgT_v02" "technologyMask", Offset OFFSET8 "qmiLocEventPositionReportIndMsgT_v02" "technologyMask_valid")) 35 (Elem [] QMI_IDL_GENERIC_4_BYTE (Offset OFFSET8 "qmiLocEventPositionReportIndMsgT_v02" "technologyMask") None None None);
      Tlv false (Some (Offset OFFSET8 "qmiLocEventPositionReportIndMsgT_v02" "DOP", Offset OFFSET8 "qmiLocEventPositionReportIndMsgT_v02" "DOP_valid")) 36 (Elem [] QMI_IDL_AGGREGATE (Offset OFFSET8 "qmiLocEventPositionReportIndMsgT_v02" "DOP") None None (Some (0, 3)));
      Tlv false (Some (Offset OFFSET8 "qmiLocEventPositionReportIndMsgT_v02" "timestampUtc", Offset OFFSET8 "qmiLocEventPositionReportIndMsgT_v02" "timestampUtc_valid")) 37 (Elem [] QMI_IDL_GENERIC_8_BYTE (Offset OFFSET8 "qmiLocEventPositionReportIndMsgT_v02" "timestampUtc") None None None);
      Tlv false (Some (Offset OFFSET8 "qmiLocEventPositionReportIndMsgT_v02" "leapSeconds", Offset OFFSET8 "qmiLocEventPositionReportIndMsgT_v02" "leapSeconds_valid")) 38 (Elem [] QMI_IDL_GENERIC_1_BYTE (Offset OFFSET8 "qmiLocEventPositionReportIndMsgT_v02" "leapSeconds") None None None);
      Tlv false (Some (Offset OFFSET8 "qmiLocEventPositionReportIndMsgT_v02" "gpsTime", Offset OFFSET8 "qmiLocEventPositionReportIndMsgT_v02" "gpsTime_valid")) 39 (Elem [] QMI_IDL_AGGREGATE (Offset OFFSET8 "qmiLocEventPositionReportIndMsgT_v02" "gpsTime") None None (Some (0, 2)));
      Tlv false (Some (Offset OFFSET8 "qmiLocEventPositionReportIndMsgT_v02" "timeUnc", Offset OFFSET8 "qmiLocEventPositionReportIndMsgT_v02" "timeUnc_valid")) 40 (Elem [] QMI_IDL_GENERIC_4_BYTE (Offset OFFSET8 "qmiLocEventPositionReportIndMsgT_v02" "timeUnc") None None None);
      Tlv false (Some (Offset OFFSET16RELATIVE "qmiLocEventPositionReportIndMsgT_v02" "timeSrc", Offset OFFSET16RELATIVE "qmiLocEventPositionReportIndMsgT_v02" "timeSrc_valid")) 41 (Elem [OFFSET_IS_16] QMI_IDL_GENERIC_4_BYTE (Offset OFFSET16ARRAY "qmiLocEventPositionReportIndMsgT_v02" "timeSrc") None None None);
      Tlv false (Some (Offset OFFSET16RELATIVE "qmiLocEventPositionReportIndMsgT_v02" "sensorDataUsage", Offset OFFSET16RELATIVE "qmiLocEventPositionReportIndMsgT_v02" "sensorDataUsage_valid")) 42 (Elem [OFFSET_IS_16] QMI_IDL_AGGREGATE (Offset OFFSET16ARRAY "qmiLocEventPositionReportIndMsgT_v02" "sensorDataUsage") None None (Some (0, 5)));
      Tlv false (Some (Offset OFFSET16RELATIVE "qmiLocEventPositionReportIndMsgT_v02" "fixId", Offset OFFSET16RELATIVE "qmiLocEventPositionReportIndMsgT_v02" "fixId_valid")) 43 (Elem [OFFSET_IS_16] QMI_IDL_GENERIC_4_BYTE (Offset OFFSET16ARRAY "qmiLocEventPositionReportIndMsgT_v02" "fixId") None None None);
      Tlv false (Some (Offset OFFSET16RELATIVE "qmiLocEventPositionReportIndMsgT_v02" "gnssSvUsedList", Offset OFFSET16RELATIVE "qmiLocEventPositionReportIndMsgT_v02" "gnssSvUsedList_valid")) 44 (Elem [IS_ARRAY; IS_VARIABLE_LEN; OFFSET_IS_16] QMI_IDL_GENERIC_2_BYTE (Offset OFFSET16ARRAY "qmiLocEventPositionReportIndMsgT_v02" "gnssSvUsedList") (Some (Macro "QMI_LOC_MAX_SV_USED_LIST_LENGTH_V02")) (Some (Offset OFFSET16RELATIVE "qmiLocEventPositionReportIndMsgT_v02" "gnssSvUsedList", Offset OFFSET16RELATIVE "qmiLocEventPositionReportIndMsgT_v02" "gnssSvUsedList_len")) None);
      Tlv false (Some (Offset OFFSET16RELATIVE "qmiLocEventPositionReportIndMsgT_v02" "altitudeAssumed", Offset OFFSET16RELATIVE "qmiLocEventPositionReportIndMsgT_v02" "altitudeAssumed_valid")) 45 (Elem [OFFSET_IS_16] QMI_IDL_GENERIC_1_BYTE (Offset OFFSET16ARRAY "qmiLocEventPositionReportIndMsgT_v02" "altitudeAssumed") None None None);
      Tlv false (Some (Offset OFFSET16RELATIVE "qmiLocEventPositionReportIndMsgT_v02" "velEnu", Offset OFFSET16RELATIVE "qmiLocEventPositionReportIndMsgT_v02" "velEnu_valid")) 46 (Elem [IS_ARRAY; OFFSET_IS_16] QMI_IDL_GENERIC_4_BYTE (Offset OFFSET16ARRAY "qmiLocEventPositionReportIndMsgT_v02" "velEnu") (Some (Macro "QMI_LOC_ENU_ARRAY_LENGTH_V02")) None None);
      Tlv false (Some (Offset OFFSET16RELATIVE "qmiLocEventPositionReportIndMsgT_v02" "velUncEnu", Offset OFFSET16RELATIVE "qmiLocEventPositionReportIndMsgT_v02" "velUncEnu_valid")) 47 (Elem [IS_ARRAY; OFFSET_IS_16] QMI_IDL_GENERIC_4_BYTE (Offset OFFSET16ARRAY "qmiLocEventPositionReportIndMsgT_v02" "velUncEnu") (Some (Macro "QMI_LOC_ENU_ARRAY_LENGTH_V02")) None None);
      Tlv false (Some (Offset OFFSET16RELATIVE "qmiLocEventPositionReportIndMsgT_v02" "navSolutionMask", Offset OFFSET16RELATIVE "qmiLocEventPositionReportIndMsgT_v02" "navSolutionMask_valid")) 48 (Elem [OFFSET_IS_16] QMI_IDL_GENERIC_8_BYTE (Offset OFFSET16ARRAY "qmiLocEventPositionReportIndMsgT_v02" "navSolutionMask") None None None);
      Tlv false (Some (Offset OFFSET16RELATIVE "qmiLocEventPositionReportIndMsgT_v02" "sensorSubTechnologyMask", Offset OFFSET16RELATIVE "qmiLocEventPositionReportIndMsgT_v02" "sensorSubTechnologyMask_valid")) 49 (Elem [OFFSET_IS_16] QMI_IDL_GENERIC_4_BYTE (Offset OFFSET16ARRAY "qmiLocEventPositionReportIndMsgT_v02" "sensorSubTechnologyMask") None None None);
      Tlv false (Some (Offset OFFSET16RELATIVE "qmiLocEventPositionReportIndMsgT_v02" "gnssOnlyPosition", Offset OFFSET16RELATIVE "qmiLocEventPositionReportIndMsgT_v02" "gnssOnlyPosition_valid")) 50 (Elem [OFFSET_IS_16] QMI_IDL_GENERIC_1_BYTE (Offset OFFSET16ARRAY "qmiLocEventPositionReportIndMsgT_v02" "gnssOnlyPosition") None None None);
      Tlv false (Some (Offset OFFSET16RELATIVE "qmiLocEventPositionReportIndMsgT_v02" "extDOP", Offset OFFSET16RELATIVE "qmiLocEventPositionReportIndMsgT_v02" "extDOP_valid")) 51 (Elem [OFFSET_IS_16] QMI_IDL_AGGREGATE (Offset OFFSET16ARRAY "qmiLocEventPositionReportIndMsgT_v02" "extDOP") None None (Some (0, 4)));
      Tlv false (Some (Offset OFFSET16RELATIVE "qmiLocEventPositionReportIndMsgT_v02" "dgnssStationId", Offset OFFSET16RELATIVE "qmiLocEventPositionReportIndMsgT_v02" "dgnssStationId_valid")) 52 (Elem [IS_ARRAY; IS_VARIABLE_LEN; OFFSET_IS_16] QMI_IDL_GENERIC_2_BYTE (Offset OFFSET16ARRAY "qmiLocEventPositionReportIndMsgT_v02" "dgnssStationId") (Some (Macro "QMI_LOC_DGNSS_STATION_ID_ARRAY_LENGTH_V02")) (Some (Offset OFFSET16RELATIVE "qmiLocEventPositionReportIndMsgT_v02" "dgnssStationId", Offset OFFSET16RELATIVE "qmiLocEventPositionReportIndMsgT_v02" "dgnssStationId_len")) None);
      Tlv false (Some (Offset OFFSET16RELATIVE "qmiLocEventPositionReportIndMsgT_v02" "spoofReportMask", Offset OFFSET16RELATIVE "qmiLocEventPositionReportIndMsgT_v02" "spoofReportMask_valid")) 53 (Elem [OFFSET_IS_16] QMI_IDL_GENERIC_8_BYTE (Offset OFFSET16ARRAY "qmiLocEventPositionReportIndMsgT_v02" "spoofReportMask") None None None);
      Tlv false (Some (Offset OFFSET16RELATIVE "qmiLocEventPositionReportIndMsgT_v02" "expandedGnssSvUsedList", Offset OFFSET16RELATIVE "qmiLocEventPositionReportIndMsgT_v02" "expandedGnssSvUsedList_valid")) 54 (Elem [IS_ARRAY; IS_VARIABLE_LEN; OFFSET_IS_16] QMI_IDL_GENERIC_2_BYTE (Offset OFFSET16ARRAY "qmiLocEventPositionReportIndMsgT_v02" "expandedGnssSvUsedList") (Some (Macro "QMI_LOC_EXPANDED_SV_INFO_LIST_MAX_SIZE_V02")) (Some (Offset OFFSET16RELATIVE "qmiLocEventPositionReportIndMsgT_v02" "expandedGnssSvUsedList", Offset OFFSET16RELATIVE "qmiLocEventPositionReportIndMsgT_v02" "expandedGnssSvUsedList_len")) None);
      Tlv false (Some (Offset OFFSET16RELATIVE "qmiLocEventPositionReportIndMsgT_v02" "gnssSvUsedSignalTypeList", Offset OFFSET16RELATIVE "qmiLocEventPositionReportIndMsgT_v02" "gnssSvUsedSignalTypeList_valid")) 55 (Elem [IS_ARRAY; IS_VARIABLE_LEN; OFFSET_IS_16] QMI_IDL_GENERIC_8_BYTE (Offset OFFSET16ARRAY "qmiLocEventPositionReportIndMsgT_v02" "gnssSvUsedSignalTypeList") (Some (Macro "QMI_LOC_EXPANDED_SV_INFO_LIST_MAX_SIZE_V02")) (Some (Offset OFFSET16RELATIVE "qmiLocEventPositionReportIndMsgT_v02" "gnssSvUsedSignalTypeList", Offset OFFSET16RELATIVE "qmiLocEventPositionReportIndMsgT_v02" "gnssSvUsedSignalTypeList_len")) None);
      Tlv false (Some (Offset OFFSET16RELATIVE "qmiLocEventPositionReportIndMsgT_v02" "jammerIndicatorList", Offset OFFSET16RELATIVE "qmiLocEventPositionReportIndMsgT_v02" "jammerIndicatorList_valid")) 56 (Elem [IS_ARRAY; IS_VARIABLE_LEN; OFFSET_IS_16] QMI_IDL_AGGREGATE (Offset OFFSET16ARRAY "qmiLocEventPositionReportIndMsgT_v02" "jammerIndicatorList") (Some (Macro "QMI_LOC_MAX_GNSS_SIGNAL_TYPE_V02")) (Some (Offset OFFSET16RELATIVE "qmiLocEventPositionReportIndMsgT_v02" "jammerIndicatorList", Offset OFFSET16RELATIVE "qmiLocEventPositionReportIndMsgT_v02" "jammerIndicatorList_len")) (Some (0, 6)));
      Tlv false (Some (Offset OFFSET16RELATIVE "qmiLocEventPositionReportIndMsgT_v02" "dgnssCorrectionSource", Offset OFFSET16RELATIVE "qmiLocEventPositionReportIndMsgT_v02" "dgnssCorrectionSource_valid")) 57 (Elem [OFFSET_IS_16] QMI_IDL_GENERIC_4_BYTE (Offset OFFSET16ARRAY "qmiLocEventPositionReportIndMsgT_v02" "dgnssCorrectionSource") None None None);
      Tlv false (Some (Offset OFFSET16RELATIVE "qmiLocEventPositionReportIndMsgT_v02" "dgnssCorrectionSourceID", Offset OFFSET16RELATIVE "qmiLocEventPositionReportIndMsgT_v02" "dgnssCorrectionSourceID_valid")) 58 (Elem [OFFSET_IS_16] QMI_IDL_GENERIC_4_BYTE (Offset OFFSET16ARRAY "qmiLocEventPositionReportIndMsgT_v02" "dgnssCorrectionSourceID") None None None);
      Tlv false (Some (Offset OFFSET16RELATIVE "qmiLocEventPositionReportIndMsgT_v02" "dgnssConstellationUsage", Offset OFFSET16RELATIVE "qmiLocEventPositionReportIndMsgT_v02" "dgnssConstellationUsage_valid")) 59 (Elem [OFFSET_IS_16] QMI_IDL_GENERIC_8_BYTE (Offset OFFSET16ARRAY "qmiLocEventPositionReportIndMsgT_v02" "dgnssConstellationUsage") None None None);
      Tlv false (Some (Offset OFFSET16RELATIVE "qmiLocEventPositionReportIndMsgT_v02" "dgnssRefStationId", Offset OFFSET16RELATIVE "qmiLocEventPositionReportIndMsgT_v02" "dgnssRefStationId_valid")) 60 (Elem [OFFSET_IS_16] QMI_IDL_GENERIC_2_BYTE (Offset OFFSET16ARRAY "qmiLocEventPositionReportIndMsgT_v02" "dgnssRefStationId") None None None);
      Tlv false (Some (Offset OFFSET16RELATIVE "qmiLocEventPositionReportIndMsgT_v02" "dgnssDataAgeMsec", Offset OFFSET16RELATIVE "qmiLocEventPositionReportIndMsgT_v02" "dgnssDataAgeMsec_valid")) 61 (Elem [OFFSET_IS_16] QMI_IDL_GENERIC_4_BYTE (Offset OFFSET16ARRAY "qmiLocEventPositionReportIndMsgT_v02" "dgnssDataAgeMsec") None None None);
      Tlv false (Some (Offset OFFSET16RELATIVE "qmiLocEventPositionReportIndMsgT_v02" "conformityIndex", Offset OFFSET16RELATIVE "qmiLocEventPositionReportIndMsgT_v02" "conformityIndex_valid")) 62 (Elem [OFFSET_IS_16] QMI_IDL_GENERIC_4_BYTE (Offset OFFSET16ARRAY "qmiLocEventPositionReportIndMsgT_v02" "conformityIndex") None None None);
      Tlv false (Some (Offset OFFSET16RELATIVE "qmiLocEventPositionReportIndMsgT_v02" "systemTick", Offset OFFSET16RELATIVE "qmiLocEventPositionReportIndMsgT_v02" "systemTick_valid")) 63 (Elem [OFFSET_IS_16] QMI_IDL_GENERIC_8_BYTE (Offset OFFSET16ARRAY "qmiLocEventPositionReportIndMsgT_v02" "systemTick") None None None);
      Tlv false (Some (Offset OFFSET16RELATIVE "qmiLocEventPositionReportIndMsgT_v02" "systemTickUnc", Offset OFFSET16RELATIVE "qmiLocEventPositionReportIndMsgT_v02" "systemTickUnc_valid")) 64 (Elem [OFFSET_IS_16] QMI_IDL_GENERIC_4_BYTE (Offset OFFSET16ARRAY "qmiLocEventPositionReportIndMsgT_v02" "systemTickUnc") None None None);
      Tlv false (Some (Offset OFFSET16RELATIVE "qmiLocEventPositionReportIndMsgT_v02" "systemClkTimeBias", Offset OFFSET16RELATIVE "qmiLocEventPositionReportIndMsgT_v02" "systemClkTimeBias_valid")) 65 (Elem [OFFSET_IS_16] QMI_IDL_GENERIC_4_BYTE (Offset OFFSET16ARRAY "qmiLocEventPositionReportIndMsgT_v02" "systemClkTimeBias") None None None);
      Tlv true (Some (Offset OFFSET16RELATIVE "qmiLocEventPositionReportIndMsgT_v02" "systemClkTimeBiasUnc", Offset OFFSET16RELATIVE "qmiLocEventPositionReportIndMsgT_v02" "systemClkTimeBiasUnc_valid")) 66 (Elem [OFFSET_IS_16] QMI_IDL_GENERIC_4_BYTE (Offset OFFSET16ARRAY "qmiLocEventPositionReportIndMsgT_v02" "systemClkTimeBiasUnc") None None None) ]) ].

Definition message_data_3 : list (string * list tlv) := [
  ("qmiLocEventGnssSvInfoIndMsgT_data_v02", [
      Tlv false None 1 (Elem [] QMI_IDL_GENERIC_1_BYTE (Offset OFFSET8 "qmiLocEventGnssSvInfoIndMsgT_v02" "altitudeAssumed") None None None);
      Tlv false (Some (Offset OFFSET8 "qmiLocEventGnssSvInfoIndMsgT_v02" "svList", Offset OFFSET8 "qmiLocEventGnssSvInfoIndMsgT_v02" "svList_valid")) 16 (Elem [IS_ARRAY; IS_VARIABLE_LEN] QMI_IDL_AGGREGATE (Offset OFFSET8 "qmiLocEventGnssSvInfoIndMsgT_v02" "svList") (Some (Macro "QMI_LOC_SV_INFO_LIST_MAX_SIZE_V02")) (Some (Offset OFFSET8 "qmiLocEventGnssSvInfoIndMsgT_v02" "svList", Offset OFFSET8 "qmiLocEventGnssSvInfoIndMsgT_v02" "svList_len")) (Some (0, 7)));
      Tlv false (Some (Offset OFFSET16RELATIVE "qmiLocEventGnssSvInfoIndMsgT_v02" "expandedSvList", Offset OFFSET16RELATIVE "qmiLocEventGnssSvInfoIndMsgT_v02" "expandedSvList_valid")) 17 (Elem [IS_ARRAY; IS_VARIABLE_LEN; OFFSET_IS_16] QMI_IDL_AGGREGATE (Offset OFFSET16ARRAY "qmiLocEventGnssSvInfoIndMsgT_v02" "expandedSvList") (Some (Macro "QMI_LOC_EXPANDED_SV_INFO_LIST_MAX_SIZE_V02")) (Some (Offset OFFSET16RELATIVE "qmiLocEventGnssSvInfoIndMsgT_v02" "expandedSvList", Offset OFFSET16RELATIVE "qmiLocEventGnssSvInfoIndMsgT_v02" "expandedSvList_len")) (Some (0, 8)));
      Tlv false (Some (Offset OFFSET16RELATIVE "qmiLocEventGnssSvInfoIndMsgT_v02" "gnssSignalTypeList", Offset OFFSET16RELATIVE "qmiLocEventGnssSvInfoIndMsgT_v02" "gnssSignalTypeList_valid")) 18 (Elem [IS_ARRAY; IS_VARIABLE_LEN; OFFSET_IS_16] QMI_IDL_GENERIC_8_BYTE (Offset OFFSET16ARRAY "qmiLocEventGnssSvInfoIndMsgT_v02" "gnssSignalTypeList") (Some (Macro "QMI_LOC_EXPANDED_SV_INFO_LIST_MAX_SIZE_V02")) (Some (Offset OFFSET16RELATIVE "qmiLocEventGnssSvInfoIndMsgT_v02" "gnssSignalTypeList", Offset OFFSET16RELATIVE "qmiLocEventGnssSvInfoIndMsgT_v02" "gnssSignalTypeList_len")) None);
      Tlv true (Some (Offset OFFSET16RELATIVE "qmiLocEventGnssSvInfoIndMsgT_v02" "rfLoss", Offset OFFSET16RELATIVE "qmiLocEventGnssSvInfoIndMsgT_v02" "rfLoss_valid")) 19 (Elem [IS_ARRAY; IS_VARIABLE_LEN; OFFSET_IS_16] QMI_IDL_GENERIC_4_BYTE (Offset OFFSET16ARRAY "qmiLocEventGnssSvInfoIndMsgT_v02" "rfLoss") (Some (Macro "QMI_LOC_EXPANDED_SV_INFO_LIST_MAX_SIZE_V02")) (Some (Offset OFFSET16RELATIVE "qmiLocEventGnssSvInfoIndMsgT_v02" "rfLoss", Offset OFFSET16RELATIVE "qmiLocEventGnssSvInfoIndMsgT_v02" "rfLoss_len")) None) ]);
  ("qmiLocEventNmeaIndMsgT_data_v02", [
      Tlv false None 1 (Elem [IS_ARRAY; IS_VARIABLE_LEN] QMI_IDL_STRING (Offset OFFSET8 "qmiLocEventNmeaIndMsgT_v02" "nmea") (Some (Macro "QMI_LOC_NMEA_STRING_MAX_LENGTH_V02")) None None);
      Tlv true (Some (Offset OFFSET16RELATIVE "qmiLocEventNmeaIndMsgT_v02" "expandedNmea", Offset OFFSET16RELATIVE "qmiLocEventNmeaIndMsgT_v02" "expandedNmea_valid")) 16 (Elem [IS_ARRAY; IS_VARIABLE_LEN; SZ_IS_16; OFFSET_IS_16] QMI_IDL_STRING (Offset OFFSET16ARRAY "qmiLocEventNmeaIndMsgT_v02" "expandedNmea") (Some (Macro "QMI_LOC_EXPANDED_NMEA_STRING_MAX_LENGTH_V02")) None None) ]);
  ("qmiLocEventNiNotifyVerifyReqIndMsgT_data_v02", [
      Tlv false None 1 (Elem [] QMI_IDL_GENERIC_4_BYTE (Offset OFFSET8 "qmiLocEventNiNotifyVerifyReqIndMsgT_v02" "notificationType") None None None);
      Tlv false (Some (Offset OFFSET8 "qmiLocEventNiNotifyVerifyReqIndMsgT_v02" "NiVxInd", Offset OFFSET8 "qmiLocEventNiNotifyVerifyReqIndMsgT_v02" "NiVxInd_valid")) 16 (Elem [] QMI_IDL_AGGREGATE (Offset OFFSET8 "qmiLocEventNiNotifyVerifyReqIndMsgT_v02" "NiVxInd") None None (Some (0, 9)));
      Tlv false (Some (Offset OFFSET16RELATIVE "qmiLocEventNiNotifyVerifyReqIndMsgT_v02" "NiSuplInd", Offset OFFSET16RELATIVE "qmiLocEventNiNotifyVerifyReqIndMsgT_v02" "NiSuplInd_valid")) 17 (Elem [OFFSET_IS_16] QMI_IDL_AGGREGATE (Offset OFFSET16ARRAY "qmiLocEventNiNotifyVerifyReqIndMsgT_v02" "NiSuplInd") None None (Some (0, 15)));
      Tlv false (Some (Offset OFFSET16RELATIVE "qmiLocEventNiNotifyVerifyReqIndMsgT_v02" "NiUmtsCpInd", Offset OFFSET16RELATIVE "qmiLocEventNiNotifyVerifyReqIndMsgT_v02" "NiUmtsCpInd_valid")) 18 (Elem [OFFSET_IS_16] QMI_IDL_AGGREGATE (Offset OFFSET16ARRAY "qmiLocEventNiNotifyVerifyReqIndMsgT_v02" "NiUmtsCpInd") None None (Some (0, 17)));
      Tlv false (Some (Offset OFFSET16RELATIVE "qmiLocEventNiNotifyVerifyReqIndMsgT_v02" "NiVxServiceInteractionInd", Offset OFFSET16RELATIVE "qmiLocEventNiNotifyVerifyReqIndMsgT_v02" "NiVxServiceInteractionInd_valid")) 19 (Elem [OFFSET_IS_16] QMI_IDL_AGGREGATE (Offset OFFSET16ARRAY "qmiLocEventNiNotifyVerifyReqIndMsgT_v02" "NiVxServiceInteractionInd") None None (Some (0, 18)));
      Tlv false (Some (Offset OFFSET16RELATIVE "qmiLocEventNiNotifyVerifyReqIndMsgT_v02" "NiSuplVer2ExtInd", Offset OFFSET16RELATIVE "qmiLocEventNiNotifyVerifyReqIndMsgT_v02" "NiSuplVer2ExtInd_valid")) 20 (Elem [OFFSET_IS_16] QMI_IDL_AGGREGATE (Offset OFFSET16ARRAY "qmiLocEventNiNotifyVerifyReqIndMsgT_v02" "NiSuplVer2ExtInd") None None (Some (0, 19)));
      Tlv false (Some (Offset OFFSET16RELATIVE "qmiLocEventNiNotifyVerifyReqIndMsgT_v02" "suplEmergencyNotification", Offset OFFSET16RELATIVE "qmiLocEventNiNotifyVerifyReqIndMsgT_v02" "suplEmergencyNotification_valid")) 21 (Elem [OFFSET_IS_16] QMI_IDL_AGGREGATE (Offset OFFSET16ARRAY "qmiLocEventNiNotifyVerifyReqIndMsgT_v02" "suplEmergencyNotification") None None (Some (0, 20)));
      Tlv true (Some (Offset OFFSET16RELATIVE "qmiLocEventNiNotifyVerifyReqIndMsgT_v02" "isInEmergencySession", Offset OFFSET16RELATIVE "qmiLocEventNiNotifyVerifyReqIndMsgT_v02" "isInEmergencySession_valid")) 22 (Elem [OFFSET_IS_16] QMI_IDL_GENERIC_1_BYTE (Offset OFFSET16ARRAY "qmiLocEventNiNotifyVerifyReqIndMsgT_v02" "isInEmergencySession") None None None) ]);
  ("qmiLocEventInjectTimeReqIndMsgT_data_v02", [
      Tlv true (Some (Offset OFFSET8 "qmiLocEventInjectTimeReqIndMsgT_v02" "timeServerInfo", Offset OFFSET8 "qmiLocEventInjectTimeReqIndMsgT_v02" "timeServerInfo_valid")) 16 (Elem [] QMI_IDL_AGGREGATE (Offset OFFSET8 "qmiLocEventInjectTimeReqIndMsgT_v02" "timeServerInfo") None None (Some (0, 22))) ]);
  ("qmiLocEventInjectPredictedOrbitsReqIndMsgT_data_v02", [
      Tlv false None 1 (Elem [] QMI_IDL_AGGREGATE (Offset OFFSET8 "qmiLocEventInjectPredictedOrbitsReqIndMsgT_v02" "allowedSizes") None None (Some (0, 23)));
      Tlv false (Some (Offset OFFSET8 "qmiLocEventInjectPredictedOrbitsReqIndMsgT_v02" "serverList", Offset OFFSET8 "qmiLocEventInjectPredictedOrbitsReqIndMsgT_v02" "serverList_valid")) 16 (Elem [] QMI_IDL_AGGREGATE (Offset OFFSET8 "qmiLocEventInjectPredictedOrbitsReqIndMsgT_v02" "serverList") None None (Some (0, 24)));
      Tlv false (Some (Offset OFFSET16RELATIVE "qmiLocEventInjectPredictedOrbitsReqIndMsgT_v02" "serverUpdateMask", Offset OFFSET16RELATIVE "qmiLocEventInjectPredictedOrbitsReqIndMsgT_v02" "serverUpdateMask_valid")) 17 (Elem [OFFSET_IS_16] QMI_IDL_GENERIC_8_BYTE (Offset OFFSET16ARRAY "qmiLocEventInjectPredictedOrbitsReqIndMsgT_v02" "serverUpdateMask") None None None);
      Tlv false (Some (Offset OFFSET16RELATIVE "qmiLocEventInjectPredictedOrbitsReqIndMsgT_v02" "updateType", Offset OFFSET16RELATIVE "qmiLocEventInjectPredictedOrbitsReqIndMsgT_v02" "updateType_valid")) 18 (Elem [OFFSET_IS_16] QMI_IDL_GENERIC_4_BYTE (Offset OFFSET16ARRAY "qmiLocEventInjectPredictedOrbitsReqIndMsgT_v02" "updateType") None None None);
      Tlv true (Some (Offset OFFSET16RELATIVE "qmiLocEventInjectPredictedOrbitsReqIndMsgT_v02" "updateRate", Offset OFFSET16RELATIVE "qmiLocEventInjectPredictedOrbitsReqIndMsgT_v02" "updateRate_valid")) 19 (Elem [OFFSET_IS_16] QMI_IDL_GENERIC_4_BYTE (Offset OFFSET16ARRAY "qmiLocEventInjectPredictedOrbitsReqIndMsgT_v02" "updateRate") None None None) ]);
  ("qmiLocEventInjectPositionReqIndMsgT_data_v02", [
      Tlv false None 1 (Elem [] QMI_IDL_GENERIC_8_BYTE (Offset OFFSET8 "qmiLocEventInjectPositionReqIndMsgT_v02" "latitude") None None None);
      Tlv false None 2 (Elem [] QMI_IDL_GENERIC_8_BYTE (Offset OFFSET8 "qmiLocEventInjectPositionReqIndMsgT_v02" "longitude") None None None);
      Tlv false None 3 (Elem [] QMI_IDL_GENERIC_4_BYTE (Offset OFFSET8 "qmiLocEventInjectPositionReqIndMsgT_v02" "horUncCircular") None None None);
      Tlv true None 4 (Elem [] QMI_IDL_GENERIC_8_BYTE (Offset OFFSET8 "qmiLocEventInjectPositionReqIndMsgT_v02" "timestampUtc") None None None) ]) ].

Definition message_data_4 : list (string * list tlv) := [
  ("qmiLocEventEngineStateIndMsgT_data_v02", [
      Tlv true None 1 (Elem [] QMI_IDL_GENERIC_4_BYTE (Offset OFFSET8 "qmiLocEventEngineStateIndMsgT_v02" "engineState") None None None) ]);
  ("qmiLocEventFixSessionStateIndMsgT_data_v02", [
      Tlv false None 1 (Elem [] QMI_IDL_GENERIC_4_BYTE (Offset OFFSET8 "qmiLocEventFixSessionStateIndMsgT_v02" "sessionState") None None None);
      Tlv true (Some (Offset OFFSET8 "qmiLocEventFixSessionStateIndMsgT_v02" "sessionId", Offset OFFSET8 "qmiLocEventFixSessionStateIndMsgT_v02" "sessionId_valid")) 16 (Elem [] QMI_IDL_GENERIC_1_BYTE (Offset OFFSET8 "qmiLocEventFixSessionStateIndMsgT_v02" "sessionId") None None None) ]);
  ("qmiLocEventWifiReqIndMsgT_data_v02", [
      Tlv false None 1 (Elem [] QMI_IDL_GENERIC_4_BYTE (Offset OFFSET8 "qmiLocEventWifiReqIndMsgT_v02" "requestType") None None None);
      Tlv false (Some (Offset OFFSET8 "qmiLocEventWifiReqIndMsgT_v02" "tbfInMs", Offset OFFSET8 "qmiLocEventWifiReqIndMsgT_v02" "tbfInMs_valid")) 16 (Elem [] QMI_IDL_GENERIC_2_BYTE (Offset OFFSET8 "qmiLocEventWifiReqIndMsgT_v02" "tbfInMs") None None None);
      Tlv true (Some (Offset OFFSET8 "qmiLocEventWifiReqIndMsgT_v02" "e911Mode", Offset OFFSET8 "qmiLocEventWifiReqIndMsgT_v02" "e911Mode_valid")) 17 (Elem [] QMI_IDL_GENERIC_1_BYTE (Offset OFFSET8 "qmiLocEventWifiReqIndMsgT_v02" "e911Mode") None None None) ]);
  ("qmiLocEventSensorStreamingReadyStatusIndMsgT_data_v02", [
      Tlv false (Some (Offset OFFSET8 "qmiLocEventSensorStreamingReadyStatusIndMsgT_v02" "accelReady", Offset OFFSET8 "qmiLocEventSensorStreamingReadyStatusIndMsgT_v02" "accelReady_valid")) 16 (Elem [] QMI_IDL_AGGREGATE (Offset OFFSET8 "qmiLocEventSensorStreamingReadyStatusIndMsgT_v02" "accelReady") None None (Some (0, 26)));
      Tlv false (Some (Offset OFFSET8 "qmiLocEventSensorStreamingReadyStatusIndMsgT_v02" "gyroReady", Offset OFFSET8 "qmiLocEventSensorStreamingReadyStatusIndMsgT_v02" "gyroReady_valid")) 17 (Elem [] QMI_IDL_AGGREGATE (Offset OFFSET8 "qmiLocEventSensorStreamingReadyStatusIndMsgT_v02" "gyroReady") None None (Some (0, 26)));
      Tlv false (Some (Offset OFFSET8 "qmiLocEventSensorStreamingReadyStatusIndMsgT_v02" "accelTemperatureReady", Offset OFFSET8 "qmiLocEventSensorStreamingReadyStatusIndMsgT_v02" "accelTemperatureReady_valid")) 18 (Elem [] QMI_IDL_AGGREGATE (Offset OFFSET8 "qmiLocEventSensorStreamingReadyStatusIndMsgT_v02" "accelTemperatureReady") None None (Some (0, 26)));
      Tlv false (Some (Offset OFFSET8 "qmiLocEventSensorStreamingReadyStatusIndMsgT_v02" "gyroTemperatureReady", Offset OFFSET8 "qmiLocEventSensorStreamingReadyStatusIndMsgT_v02" "gyroTemperatureReady_valid")) 19 (Elem [] QMI_IDL_AGGREGATE (Offset OFFSET8 "qmiLocEventSensorStreamingReadyStatusIndMsgT_v02" "gyroTemperatureReady") None None (Some (0, 26)));
      Tlv false (Some (Offset OFFSET8 "qmiLocEventSensorStreamingReadyStatusIndMsgT_v02" "calibratedMagReady", Offset OFFSET8 "qmiLocEventSensorStreamingReadyStatusIndMsgT_v02" "calibratedMagReady_valid")) 20 (Elem [] QMI_IDL_AGGREGATE (Offset OFFSET8 "qmiLocEventSensorStreamingReadyStatusIndMsgT_v02" "calibratedMagReady") None None (Some (0, 26)));
      Tlv true (Some (Offset OFFSET8 "qmiLocEventSensorStreamingReadyStatusIndMsgT_v02" "uncalibratedMagReady", Offset OFFSET8 "qmiLocEventSensorStreamingReadyStatusIndMsgT_v02" "uncalibratedMagReady_valid")) 21 (Elem [] QMI_IDL_AGGREGATE (Offset OFFSET8 "qmiLocEventSensorStreamingReadyStatusIndMsgT_v02" "uncalibratedMagReady") None None (Some (0, 26))) ]);
  ("qmiLocEventTimeSyncReqIndMsgT_data_v02", [
      Tlv true None 1 (Elem [] QMI_IDL_GENERIC_4_BYTE (Offset OFFSET8 "qmiLocEventTimeSyncReqIndMsgT_v02" "refCounter") None None None) ]);
  ("qmiLocEventSetSpiStreamingReportIndMsgT_data_v02", [
      Tlv true None 1 (Elem [] QMI_IDL_GENERIC_1_BYTE (Offset OFFSET8 "qmiLocEventSetSpiStreamingReportIndMsgT_v02" "enable") None None None) ]);
  ("qmiLocEventLocationServerConnectionReqIndMsgT_data_v02", [
      Tlv false None 1 (Elem [] QMI_IDL_GENERIC_4_BYTE (Offset OFFSET8 "qmiLocEventLocationServerConnectionReqIndMsgT_v02" "connHandle") None None None);
      Tlv false None 2 (Elem [] QMI_IDL_GENERIC_4_BYTE (Offset OFFSET8 "qmiLocEventLocationServerConnectionReqIndMsgT_v02" "requestType") None None None);
      Tlv false None 3 (Elem [] QMI_IDL_GENERIC_4_BYTE (Offset OFFSET8 "qmiLocEventLocationServerConnectionReqIndMsgT_v02" "wwanType") None None None);
      Tlv false (Some (Offset OFFSET8 "qmiLocEventLocationServerConnectionReqIndMsgT_v02" "bearerType", Offset OFFSET8 "qmiLocEventLocationServerConnectionReqIndMsgT_v02" "bearerType_valid")) 16 (Elem [] QMI_IDL_GENERIC_4_BYTE (Offset OFFSET8 "qmiLocEventLocationServerConnectionReqIndMsgT_v02" "bearerType") None None None);
      Tlv false (Some (Offset OFFSET8 "qmiLocEventLocationServerConnectionReqIndMsgT_v02" "apnTypeMask", Offset OFFSET8 "qmiLocEventLocationServerConnectionReqIndMsgT_v02" "apnTypeMask_valid")) 17 (Elem [] QMI_IDL_GENERIC_8_BYTE (Offset OFFSET8 "qmiLocEventLocationServerConnectionReqIndMsgT_v02" "apnTypeMask") None None None);
      Tlv true (Some (Offset OFFSET8 "qmiLocEventLocationServerConnectionReqIndMsgT_v02" "subId", Offset OFFSET8 "qmiLocEventLocationServerConnectionReqIndMsgT_v02" "subId_valid")) 18 (Elem [] QMI_IDL_GENERIC_4_BYTE (Offset OFFSET8 "qmiLocEventLocationServerConnectionReqIndMsgT_v02" "subId") None None None) ]);
  ("qmiLocEventNiGeofenceNotificationIndMsgT_data_v02", [
      Tlv false None 1 (Elem [] QMI_IDL_GENERIC_4_BYTE (Offset OFFSET8 "qmiLocEventNiGeofenceNotificationIndMsgT_v02" "geofenceId") None None None);
      Tlv true None 2 (Elem [] QMI_IDL_GENERIC_4_BYTE (Offset OFFSET8 "qmiLocEventNiGeofenceNotificationIndMsgT_v02" "operationType") None None None) ]);
  ("qmiLocEventGeofenceGenAlertIndMsgT_data_v02", [
      Tlv true None 1 (Elem [] QMI_IDL_GENERIC_4_BYTE (Offset OFFSET8 "qmiLocEventGeofenceGenAlertIndMsgT_v02" "geofenceAlert") None None None) ]);
  ("qmiLocEventGeofenceBreachIndMsgT_data_v02", [
      Tlv false None 1 (Elem [] QMI_IDL_GENERIC_4_BYTE (Offset OFFSET8 "qmiLocEventGeofenceBreachIndMsgT_v02" "geofenceId") None None None);
      Tlv false None 2 (Elem [] QMI_IDL_GENERIC_4_BYTE (Offset OFFSET8 "qmiLocEventGeofenceBreachIndMsgT_v02" "breachType") None None None);
      Tlv false (Some (Offset OFFSET8 "qmiLocEventGeofenceBreachIndMsgT_v02" "geofencePosition", Offset OFFSET8 "qmiLocEventGeofenceBreachIndMsgT_v02" "geofencePosition_valid")) 16 (Elem [] QMI_IDL_AGGREGATE (Offset OFFSET8 "qmiLocEventGeofenceBreachIndMsgT_v02" "geofencePosition") None None (Some (0, 27)));
      Tlv true (Some (Offset OFFSET8 "qmiLocEventGeofenceBreachIndMsgT_v02" "breachConfidence", Offset OFFSET8 "qmiLocEventGeofenceBreachIndMsgT_v02" "breachConfidence_valid")) 17 (Elem [] QMI_IDL_GENERIC_4_BYTE (Offset OFFSET8 "qmiLocEventGeofenceBreachIndMsgT_v02" "breachConfidence") None None None) ]) ].

Definition message_data_5 : list (string * list tlv) := [
  ("qmiLocEventPedometerControlIndMsgT_data_v02", [
      Tlv false None 1 (Elem [] QMI_IDL_GENERIC_1_BYTE (Offset OFFSET8 "qmiLocEventPedometerControlIndMsgT_v02" "requestPedometerData") None None None);
      Tlv false (Some (Offset OFFSET8 "qmiLocEventPedometerControlIndMsgT_v02" "resetStepCount", Offset OFFSET8 "qmiLocEventPedometerControlIndMsgT_v02" "resetStepCount_valid")) 16 (Elem [] QMI_IDL_GENERIC_1_BYTE (Offset OFFSET8 "qmiLocEventPedometerControlIndMsgT_v02" "resetStepCount") None None None);
      Tlv true (Some (Offset OFFSET8 "qmiLocEventPedometerControlIndMsgT_v02" "stepCountThreshold", Offset OFFSET8 "qmiLocEventPedometerControlIndMsgT_v02" "stepCountThreshold_valid")) 17 (Elem [] QMI_IDL_GENERIC_4_BYTE (Offset OFFSET8 "qmiLocEventPedometerControlIndMsgT_v02" "stepCountThreshold") None None None) ]);
  ("qmiLocEventMotionDataControlIndMsgT_data_v02", [
      Tlv true None 1 (Elem [] QMI_IDL_GENERIC_1_BYTE (Offset OFFSET8 "qmiLocEventMotionDataControlIndMsgT_v02" "requestMotionData") None None None) ]);
  ("qmiLocEventGeofenceBatchedBreachIndMsgT_data_v02", [
      Tlv false None 1 (Elem [] QMI_IDL_GENERIC_4_BYTE (Offset OFFSET8 "qmiLocEventGeofenceBatchedBreachIndMsgT_v02" "breachType") None None None);
      Tlv false (Some (Offset OFFSET8 "qmiLocEventGeofenceBatchedBreachIndMsgT_v02" "geofenceIdContinuousList", Offset OFFSET8 "qmiLocEventGeofenceBatchedBreachIndMsgT_v02" "geofenceIdContinuousList_valid")) 16 (Elem [IS_ARRAY; IS_VARIABLE_LEN] QMI_IDL_AGGREGATE (Offset OFFSET8 "qmiLocEventGeofenceBatchedBreachIndMsgT_v02" "geofenceIdContinuousList") (Some (Macro "QMI_LOC_MAX_GEOFENCE_ID_CONTINUOUS_LIST_LENGTH_V02")) (Some (Offset OFFSET8 "qmiLocEventGeofenceBatchedBreachIndMsgT_v02" "geofenceIdContinuousList", Offset OFFSET8 "qmiLocEventGeofenceBatchedBreachIndMsgT_v02" "geofenceIdContinuousList_len")) (Some (0, 28)));
      Tlv false (Some (Offset OFFSET16RELATIVE "qmiLocEventGeofenceBatchedBreachIndMsgT_v02" "geofenceIdDiscreteList", Offset OFFSET16RELATIVE "qmiLocEventGeofenceBatchedBreachIndMsgT_v02" "geofenceIdDiscreteList_valid")) 17 (Elem [IS_ARRAY; IS_VARIABLE_LEN; OFFSET_IS_16] QMI_IDL_GENERIC_4_BYTE (Offset OFFSET16ARRAY "qmiLocEventGeofenceBatchedBreachIndMsgT_v02" "geofenceIdDiscreteList") (Some (Macro "QMI_LOC_MAX_GEOFENCE_ID_DISCRETE_LIST_LENGTH_V02")) (Some (Offset OFFSET16RELATIVE "qmiLocEventGeofenceBatchedBreachIndMsgT_v02" "geofenceIdDiscreteList", Offset OFFSET16RELATIVE "qmiLocEventGeofenceBatchedBreachIndMsgT_v02" "geofenceIdDiscreteList_len")) None);
      Tlv false (Some (Offset OFFSET16RELATIVE "qmiLocEventGeofenceBatchedBreachIndMsgT_v02" "geofencePosition", Offset OFFSET16RELATIVE "qmiLocEventGeofenceBatchedBreachIndMsgT_v02" "geofencePosition_valid")) 18 (Elem [OFFSET_IS_16] QMI_IDL_AGGREGATE (Offset OFFSET16ARRAY "qmiLocEventGeofenceBatchedBreachIndMsgT_v02" "geofencePosition") None None (Some (0, 27)));
      Tlv false (Some (Offset OFFSET16RELATIVE "qmiLocEventGeofenceBatchedBreachIndMsgT_v02" "breachConfidence", Offset OFFSET16RELATIVE "qmiLocEventGeofenceBatchedBreachIndMsgT_v02" "breachConfidence_valid")) 19 (Elem [OFFSET_IS_16] QMI_IDL_GENERIC_4_BYTE (Offset OFFSET16ARRAY "qmiLocEventGeofenceBatchedBreachIndMsgT_v02" "breachConfidence") None None None);
      Tlv false (Some (Offset OFFSET16RELATIVE "qmiLocEventGeofenceBatchedBreachIndMsgT_v02" "headingUnc", Offset OFFSET16RELATIVE "qmiLocEventGeofenceBatchedBreachIndMsgT_v02" "headingUnc_valid")) 20 (Elem [OFFSET_IS_16] QMI_IDL_GENERIC_4_BYTE (Offset OFFSET16ARRAY "qmiLocEventGeofenceBatchedBreachIndMsgT_v02" "headingUnc") None None None);
      Tlv false (Some (Offset OFFSET16RELATIVE "qmiLocEventGeofenceBatchedBreachIndMsgT_v02" "vertUnc", Offset OFFSET16RELATIVE "qmiLocEventGeofenceBatchedBreachIndMsgT_v02" "vertUnc_valid")) 21 (Elem [OFFSET_IS_16] QMI_IDL_GENERIC_4_BYTE (Offset OFFSET16ARRAY "qmiLocEventGeofenceBatchedBreachIndMsgT_v02" "vertUnc") None None None);
      Tlv false (Some (Offset OFFSET16RELATIVE "qmiLocEventGeofenceBatchedBreachIndMsgT_v02" "speedUnc", Offset OFFSET16RELATIVE "qmiLocEventGeofenceBatchedBreachIndMsgT_v02" "speedUnc_valid")) 22 (Elem [OFFSET_IS_16] QMI_IDL_GENERIC_4_BYTE (Offset OFFSET16ARRAY "qmiLocEventGeofenceBatchedBreachIndMsgT_v02" "speedUnc") None None None);
      Tlv false (Some (Offset OFFSET16RELATIVE "qmiLocEventGeofenceBatchedBreachIndMsgT_v02" "horConfidence", Offset OFFSET16RELATIVE "qmiLocEventGeofenceBatchedBreachIndMsgT_v02" "horConfidence_valid")) 23 (Elem [OFFSET_IS_16] QMI_IDL_GENERIC_1_BYTE (Offset OFFSET16ARRAY "qmiLocEventGeofenceBatchedBreachIndMsgT_v02" "horConfidence") None None None);
      Tlv false (Some (Offset OFFSET16RELATIVE "qmiLocEventGeofenceBatchedBreachIndMsgT_v02" "vertConfidence", Offset OFFSET16RELATIVE "qmiLocEventGeofenceBatchedBreachIndMsgT_v02" "vertConfidence_valid")) 24 (Elem [OFFSET_IS_16] QMI_IDL_GENERIC_1_BYTE (Offset OFFSET16ARRAY "qmiLocEventGeofenceBatchedBreachIndMsgT_v02" "vertConfidence") None None None);
      Tlv false (Some (Offset OFFSET16RELATIVE "qmiLocEventGeofenceBatchedBreachIndMsgT_v02" "DOP", Offset OFFSET16RELATIVE "qmiLocEventGeofenceBatchedBreachIndMsgT_v02" "DOP_valid")) 25 (Elem [OFFSET_IS_16] QMI_IDL_AGGREGATE (Offset OFFSET16ARRAY "qmiLocEventGeofenceBatchedBreachIndMsgT_v02" "DOP") None None (Some (0, 3)));
      Tlv false (Some (Offset OFFSET16RELATIVE "qmiLocEventGeofenceBatchedBreachIndMsgT_v02" "gnssSvUsedList", Offset OFFSET16RELATIVE "qmiLocEventGeofenceBatchedBreachIndMsgT_v02" "gnssSvUsedList_valid")) 26 (Elem [IS_ARRAY; IS_VARIABLE_LEN; OFFSET_IS_16] QMI_IDL_GENERIC_2_BYTE (Offset OFFSET16ARRAY "qmiLocEventGeofenceBatchedBreachIndMsgT_v02" "gnssSvUsedList") (Some (Macro "QMI_LOC_MAX_SV_USED_LIST_LENGTH_V02")) (Some (Offset OFFSET16RELATIVE "qmiLocEventGeofenceBatchedBreachIndMsgT_v02" "gnssSvUsedList", Offset OFFSET16RELATIVE "qmiLocEventGeofenceBatchedBreachIndMsgT_v02" "gnssSvUsedList_len")) None);
      Tlv false (Some (Offset OFFSET16RELATIVE "qmiLocEventGeofenceBatchedBreachIndMsgT_v02" "extDOP", Offset OFFSET16RELATIVE "qmiLocEventGeofenceBatchedBreachIndMsgT_v02" "extDOP_valid")) 27 (Elem [OFFSET_IS_16] QMI_IDL_AGGREGATE (Offset OFFSET16ARRAY "qmiLocEventGeofenceBatchedBreachIndMsgT_v02" "extDOP") None None (Some (0, 4)));
      Tlv false (Some (Offset OFFSET16RELATIVE "qmiLocEventGeofenceBatchedBreachIndMsgT_v02" "expandedGnssSvUsedList", Offset OFFSET16RELATIVE "qmiLocEventGeofenceBatchedBreachIndMsgT_v02" "expandedGnssSvUsedList_valid")) 28 (Elem [IS_ARRAY; IS_VARIABLE_LEN; OFFSET_IS_16] QMI_IDL_GENERIC_2_BYTE (Offset OFFSET16ARRAY "qmiLocEventGeofenceBatchedBreachIndMsgT_v02" "expandedGnssSvUsedList") (Some (Macro "QMI_LOC_EXPANDED_SV_INFO_LIST_MAX_SIZE_V02")) (Some (Offset OFFSET16RELATIVE "qmiLocEventGeofenceBatchedBreachIndMsgT_v02" "expandedGnssSvUsedList", Offset OFFSET16RELATIVE "qmiLocEventGeofenceBatchedBreachIndMsgT_v02" "expandedGnssSvUsedList_len")) None);
      Tlv true (Some (Offset OFFSET16RELATIVE "qmiLocEventGeofenceBatchedBreachIndMsgT_v02" "gnssSvUsedSignalTypeList", Offset OFFSET16RELATIVE "qmiLocEventGeofenceBatchedBreachIndMsgT_v02" "gnssSvUsedSignalTypeList_valid")) 29 (Elem [IS_ARRAY; IS_VARIABLE_LEN; OFFSET_IS_16] QMI_IDL_GENERIC_8_BYTE (Offset OFFSET16ARRAY "qmiLocEventGeofenceBatchedBreachIndMsgT_v02" "gnssSvUsedSignalTypeList") (Some (Macro "QMI_LOC_EXPANDED_SV_INFO_LIST_MAX_SIZE_V02")) (Some (Offset OFFSET16RELATIVE "qmiLocEventGeofenceBatchedBreachIndMsgT_v02" "gnssSvUsedSignalTypeList", Offset OFFSET16RELATIVE "qmiLocEventGeofenceBatchedBreachIndMsgT_v02" "gnssSvUsedSignalTypeList_len")) None) ]);
  ("qmiLocEventGeofenceProximityIndMsgT_data_v02", [
      Tlv false None 1 (Elem [] QMI_IDL_GENERIC_4_BYTE (Offset OFFSET8 "qmiLocEventGeofenceProximityIndMsgT_v02" "proximityType") None None None);
      Tlv false None 2 (Elem [] QMI_IDL_GENERIC_4_BYTE (Offset OFFSET8 "qmiLocEventGeofenceProximityIndMsgT_v02" "geofenceId") None None None);
      Tlv true (Some (Offset OFFSET8 "qmiLocEventGeofenceProximityIndMsgT_v02" "contextId", Offset OFFSET8 "qmiLocEventGeofenceProximityIndMsgT_v02" "contextId_valid")) 16 (Elem [] QMI_IDL_GENERIC_4_BYTE (Offset OFFSET8 "qmiLocEventGeofenceProximityIndMsgT_v02" "contextId") None None None) ]) ].

Definition message_data_6 : list (string * list tlv) := [
  ("qmiLocEventGeofenceBatchedDwellIndMsgT_data_v02", [
      Tlv false None 1 (Elem [] QMI_IDL_GENERIC_4_BYTE (Offset OFFSET8 "qmiLocEventGeofenceBatchedDwellIndMsgT_v02" "dwellType") None None None);
      Tlv false (Some (Offset OFFSET8 "qmiLocEventGeofenceBatchedDwellIndMsgT_v02" "geofenceIdContinuousList", Offset OFFSET8 "qmiLocEventGeofenceBatchedDwellIndMsgT_v02" "geofenceIdContinuousList_valid")) 16 (Elem [IS_ARRAY; IS_VARIABLE_LEN] QMI_IDL_AGGREGATE (Offset OFFSET8 "qmiLocEventGeofenceBatchedDwellIndMsgT_v02" "geofenceIdContinuousList") (Some (Macro "QMI_LOC_MAX_GEOFENCE_ID_CONTINUOUS_LIST_LENGTH_V02")) (Some (Offset OFFSET8 "qmiLocEventGeofenceBatchedDwellIndMsgT_v02" "geofenceIdContinuousList", Offset OFFSET8 "qmiLocEventGeofenceBatchedDwellIndMsgT_v02" "geofenceIdContinuousList_len")) (Some (0, 28)));
      Tlv false (Some (Offset OFFSET16RELATIVE "qmiLocEventGeofenceBatchedDwellIndMsgT_v02" "geofenceIdDiscreteList", Offset OFFSET16RELATIVE "qmiLocEventGeofenceBatchedDwellIndMsgT_v02" "geofenceIdDiscreteList_valid")) 17 (Elem [IS_ARRAY; IS_VARIABLE_LEN; OFFSET_IS_16] QMI_IDL_GENERIC_4_BYTE (Offset OFFSET16ARRAY "qmiLocEventGeofenceBatchedDwellIndMsgT_v02" "geofenceIdDiscreteList") (Some (Macro "QMI_LOC_MAX_GEOFENCE_ID_DISCRETE_LIST_LENGTH_V02")) (Some (Offset OFFSET16RELATIVE "qmiLocEventGeofenceBatchedDwellIndMsgT_v02" "geofenceIdDiscreteList", Offset OFFSET16RELATIVE "qmiLocEventGeofenceBatchedDwellIndMsgT_v02" "geofenceIdDiscreteList_len")) None);
      Tlv false (Some (Offset OFFSET16RELATIVE "qmiLocEventGeofenceBatchedDwellIndMsgT_v02" "geofencePosition", Offset OFFSET16RELATIVE "qmiLocEventGeofenceBatchedDwellIndMsgT_v02" "geofencePosition_valid")) 18 (Elem [OFFSET_IS_16] QMI_IDL_AGGREGATE (Offset OFFSET16ARRAY "qmiLocEventGeofenceBatchedDwellIndMsgT_v02" "geofencePosition") None None (Some (0, 27)));
      Tlv false (Some (Offset OFFSET16RELATIVE "qmiLocEventGeofenceBatchedDwellIndMsgT_v02" "headingUnc", Offset OFFSET16RELATIVE "qmiLocEventGeofenceBatchedDwellIndMsgT_v02" "headingUnc_valid")) 19 (Elem [OFFSET_IS_16] QMI_IDL_GENERIC_4_BYTE (Offset OFFSET16ARRAY "qmiLocEventGeofenceBatchedDwellIndMsgT_v02" "headingUnc") None None None);
      Tlv false (Some (Offset OFFSET16RELATIVE "qmiLocEventGeofenceBatchedDwellIndMsgT_v02" "vertUnc", Offset OFFSET16RELATIVE "qmiLocEventGeofenceBatchedDwellIndMsgT_v02" "vertUnc_valid")) 20 (Elem [OFFSET_IS_16] QMI_IDL_GENERIC_4_BYTE (Offset OFFSET16ARRAY "qmiLocEventGeofenceBatchedDwellIndMsgT_v02" "vertUnc") None None None);
      Tlv false (Some (Offset OFFSET16RELATIVE "qmiLocEventGeofenceBatchedDwellIndMsgT_v02" "speedUnc", Offset OFFSET16RELATIVE "qmiLocEventGeofenceBatchedDwellIndMsgT_v02" "speedUnc_valid")) 21 (Elem [OFFSET_IS_16] QMI_IDL_GENERIC_4_BYTE (Offset OFFSET16ARRAY "qmiLocEventGeofenceBatchedDwellIndMsgT_v02" "speedUnc") None None None);
      Tlv false (Some (Offset OFFSET16RELATIVE "qmiLocEventGeofenceBatchedDwellIndMsgT_v02" "horConfidence", Offset OFFSET16RELATIVE "qmiLocEventGeofenceBatchedDwellIndMsgT_v02" "horConfidence_valid")) 22 (Elem [OFFSET_IS_16] QMI_IDL_GENERIC_1_BYTE (Offset OFFSET16ARRAY "qmiLocEventGeofenceBatchedDwellIndMsgT_v02" "horConfidence") None None None);
      Tlv false (Some (Offset OFFSET16RELATIVE "qmiLocEventGeofenceBatchedDwellIndMsgT_v02" "vertConfidence", Offset OFFSET16RELATIVE "qmiLocEventGeofenceBatchedDwellIndMsgT_v02" "vertConfidence_valid")) 23 (Elem [OFFSET_IS_16] QMI_IDL_GENERIC_1_BYTE (Offset OFFSET16ARRAY "qmiLocEventGeofenceBatchedDwellIndMsgT_v02" "vertConfidence") None None None);
      Tlv false (Some (Offset OFFSET16RELATIVE "qmiLocEventGeofenceBatchedDwellIndMsgT_v02" "DOP", Offset OFFSET16RELATIVE "qmiLocEventGeofenceBatchedDwellIndMsgT_v02" "DOP_valid")) 24 (Elem [OFFSET_IS_16] QMI_IDL_AGGREGATE (Offset OFFSET16ARRAY "qmiLocEventGeofenceBatchedDwellIndMsgT_v02" "DOP") None None (Some (0, 3)));
      Tlv false (Some (Offset OFFSET16RELATIVE "qmiLocEventGeofenceBatchedDwellIndMsgT_v02" "gnssSvUsedList", Offset OFFSET16RELATIVE "qmiLocEventGeofenceBatchedDwellIndMsgT_v02" "gnssSvUsedList_valid")) 25 (Elem [IS_ARRAY; IS_VARIABLE_LEN; OFFSET_IS_16] QMI_IDL_GENERIC_2_BYTE (Offset OFFSET16ARRAY "qmiLocEventGeofenceBatchedDwellIndMsgT_v02" "gnssSvUsedList") (Some (Macro "QMI_LOC_MAX_SV_USED_LIST_LENGTH_V02")) (Some (Offset OFFSET16RELATIVE "qmiLocEventGeofenceBatchedDwellIndMsgT_v02" "gnssSvUsedList", Offset OFFSET16RELATIVE "qmiLocEventGeofenceBatchedDwellIndMsgT_v02" "gnssSvUsedList_len")) None);
      Tlv false (Some (Offset OFFSET16RELATIVE "qmiLocEventGeofenceBatchedDwellIndMsgT_v02" "extDOP", Offset OFFSET16RELATIVE "qmiLocEventGeofenceBatchedDwellIndMsgT_v02" "extDOP_valid")) 26 (Elem [OFFSET_IS_16] QMI_IDL_AGGREGATE (Offset OFFSET16ARRAY "qmiLocEventGeofenceBatchedDwellIndMsgT_v02" "extDOP") None None (Some (0, 4)));
      Tlv false (Some (Offset OFFSET16RELATIVE "qmiLocEventGeofenceBatchedDwellIndMsgT_v02" "expandedGnssSvUsedList", Offset OFFSET16RELATIVE "qmiLocEventGeofenceBatchedDwellIndMsgT_v02" "expandedGnssSvUsedList_valid")) 27 (Elem [IS_ARRAY; IS_VARIABLE_LEN; OFFSET_IS_16] QMI_IDL_GENERIC_2_BYTE (Offset OFFSET16ARRAY "qmiLocEventGeofenceBatchedDwellIndMsgT_v02" "expandedGnssSvUsedList") (Some (Macro "QMI_LOC_EXPANDED_SV_INFO_LIST_MAX_SIZE_V02")) (Some (Offset OFFSET16RELATIVE "qmiLocEventGeofenceBatchedDwellIndMsgT_v02" "expandedGnssSvUsedList", Offset OFFSET16RELATIVE "qmiLocEventGeofenceBatchedDwellIndMsgT_v02" "expandedGnssSvUsedList_len")) None);
      Tlv true (Some (Offset OFFSET16RELATIVE "qmiLocEventGeofenceBatchedDwellIndMsgT_v02" "gnssSvUsedSignalTypeList", Offset OFFSET16RELATIVE "qmiLocEventGeofenceBatchedDwellIndMsgT_v02" "gnssSvUsedSignalTypeList_valid")) 28 (Elem [IS_ARRAY; IS_VARIABLE_LEN; OFFSET_IS_16] QMI_IDL_GENERIC_8_BYTE (Offset OFFSET16ARRAY "qmiLocEventGeofenceBatchedDwellIndMsgT_v02" "gnssSvUsedSignalTypeList") (Some (Macro "QMI_LOC_EXPANDED_SV_INFO_LIST_MAX_SIZE_V02")) (Some (Offset OFFSET16RELATIVE "qmiLocEventGeofenceBatchedDwellIndMsgT_v02" "gnssSvUsedSignalTypeList", Offset OFFSET16RELATIVE "qmiLocEventGeofenceBatchedDwellIndMsgT_v02" "gnssSvUsedSignalTypeList_len")) None) ]);
  ("qmiLocEventGdtUploadBeginStatusReqIndMsgT_data_v02", [
      Tlv false None 1 (Elem [] QMI_IDL_GENERIC_4_BYTE (Offset OFFSET8 "qmiLocEventGdtUploadBeginStatusReqIndMsgT_v02" "serviceId") None None None);
      Tlv false None 2 (Elem [] QMI_IDL_GENERIC_4_BYTE (Offset OFFSET8 "qmiLocEventGdtUploadBeginStatusReqIndMsgT_v02" "sessionId") None None None);
      Tlv true None 3 (Elem [IS_ARRAY; IS_VARIABLE_LEN] QMI_IDL_GENERIC_1_BYTE (Offset OFFSET8 "qmiLocEventGdtUploadBeginStatusReqIndMsgT_v02" "filePath") (Some (Macro "QMI_LOC_MAX_GDT_PATH_LEN_V02")) (Some (Offset OFFSET8 "qmiLocEventGdtUploadBeginStatusReqIndMsgT_v02" "filePath", Offset OFFSET8 "qmiLocEventGdtUploadBeginStatusReqIndMsgT_v02" "filePath_len")) None) ]);
  ("qmiLocEventGdtUploadEndReqIndMsgT_data_v02", [
      Tlv false None 1 (Elem [] QMI_IDL_GENERIC_4_BYTE (Offset OFFSET8 "qmiLocEventGdtUploadEndReqIndMsgT_v02" "serviceId") None None None);
      Tlv false None 2 (Elem [] QMI_IDL_GENERIC_4_BYTE (Offset OFFSET8 "qmiLocEventGdtUploadEndReqIndMsgT_v02" "sessionId") None None None);
      Tlv true None 3 (Elem [] QMI_IDL_GENERIC_4_BYTE (Offset OFFSET8 "qmiLocEventGdtUploadEndReqIndMsgT_v02" "endStatus") None None None) ]) ].

Definition message_data_7 : list (string * list tlv) := [
  ("qmiLocEventGdtDownloadBeginReqIndMsgT_data_v02", [
      Tlv false None 1 (Elem [] QMI_IDL_GENERIC_4_BYTE (Offset OFFSET8 "qmiLocEventGdtDownloadBeginReqIndMsgT_v02" "serviceId") None None None);
      Tlv false None 2 (Elem [] QMI_IDL_GENERIC_4_BYTE (Offset OFFSET8 "qmiLocEventGdtDownloadBeginReqIndMsgT_v02" "sessionId") None None None);
      Tlv false None 3 (Elem [] QMI_IDL_GENERIC_4_BYTE (Offset OFFSET8 "qmiLocEventGdtDownloadBeginReqIndMsgT_v02" "respTimeoutInterval") None None None);
      Tlv false None 4 (Elem [IS_ARRAY; IS_VARIABLE_LEN; SZ_IS_16] QMI_IDL_GENERIC_1_BYTE (Offset OFFSET8 "qmiLocEventGdtDownloadBeginReqIndMsgT_v02" "clientInfo") (Some (Macro "QMI_LOC_MAX_GTP_CL_INFO_LEN_V02")) (Some (Offset OFFSET8 "qmiLocEventGdtDownloadBeginReqIndMsgT_v02" "clientInfo", Offset OFFSET8 "qmiLocEventGdtDownloadBeginReqIndMsgT_v02" "clientInfo_len")) None);
      Tlv false None 5 (Elem [IS_ARRAY; IS_VARIABLE_LEN; SZ_IS_16; OFFSET_IS_16] QMI_IDL_GENERIC_1_BYTE (Offset OFFSET16ARRAY "qmiLocEventGdtDownloadBeginReqIndMsgT_v02" "mobileStatusData") (Some (Macro "QMI_LOC_MAX_GTP_MSD_LEN_V02")) (Some (Offset OFFSET16RELATIVE "qmiLocEventGdtDownloadBeginReqIndMsgT_v02" "mobileStatusData", Offset OFFSET16RELATIVE "qmiLocEventGdtDownloadBeginReqIndMsgT_v02" "mobileStatusData_len")) None);
      Tlv false None 6 (Elem [IS_ARRAY; IS_VARIABLE_LEN; OFFSET_IS_16] QMI_IDL_GENERIC_1_BYTE (Offset OFFSET16ARRAY "qmiLocEventGdtDownloadBeginReqIndMsgT_v02" "filePath") (Some (Macro "QMI_LOC_MAX_GDT_PATH_LEN_V02")) (Some (Offset OFFSET16RELATIVE "qmiLocEventGdtDownloadBeginReqIndMsgT_v02" "filePath", Offset OFFSET16RELATIVE "qmiLocEventGdtDownloadBeginReqIndMsgT_v02" "filePath_len")) None);
      Tlv false (Some (Offset OFFSET16RELATIVE "qmiLocEventGdtDownloadBeginReqIndMsgT_v02" "powerBudgetInfo", Offset OFFSET16RELATIVE "qmiLocEventGdtDownloadBeginReqIndMsgT_v02" "powerBudgetInfo_valid")) 16 (Elem [OFFSET_IS_16] QMI_IDL_GENERIC_4_BYTE (Offset OFFSET16ARRAY "qmiLocEventGdtDownloadBeginReqIndMsgT_v02" "powerBudgetInfo") None None None);
      Tlv false (Some (Offset OFFSET16RELATIVE "qmiLocEventGdtDownloadBeginReqIndMsgT_v02" "powerBudgetAllowance", Offset OFFSET16RELATIVE "qmiLocEventGdtDownloadBeginReqIndMsgT_v02" "powerBudgetAllowance_valid")) 17 (Elem [OFFSET_IS_16] QMI_IDL_GENERIC_4_BYTE (Offset OFFSET16ARRAY "qmiLocEventGdtDownloadBeginReqIndMsgT_v02" "powerBudgetAllowance") None None None);
      Tlv true (Some (Offset OFFSET16RELATIVE "qmiLocEventGdtDownloadBeginReqIndMsgT_v02" "downloadRequestMask", Offset OFFSET16RELATIVE "qmiLocEventGdtDownloadBeginReqIndMsgT_v02" "downloadRequestMask_valid")) 18 (Elem [OFFSET_IS_16] QMI_IDL_GENERIC_4_BYTE (Offset OFFSET16ARRAY "qmiLocEventGdtDownloadBeginReqIndMsgT_v02" "downloadRequestMask") None None None) ]);
  ("qmiLocEventGdtReceiveDoneIndMsgT_data_v02", [
      Tlv false None 1 (Elem [] QMI_IDL_GENERIC_4_BYTE (Offset OFFSET8 "qmiLocEventGdtReceiveDoneIndMsgT_v02" "serviceId") None None None);
      Tlv false None 2 (Elem [] QMI_IDL_GENERIC_4_BYTE (Offset OFFSET8 "qmiLocEventGdtReceiveDoneIndMsgT_v02" "sessionId") None None None);
      Tlv true None 3 (Elem [] QMI_IDL_GENERIC_4_BYTE (Offset OFFSET8 "qmiLocEventGdtReceiveDoneIndMsgT_v02" "status") None None None) ]);
  ("qmiLocEventGdtDownloadEndReqIndMsgT_data_v02", [
      Tlv false None 1 (Elem [] QMI_IDL_GENERIC_4_BYTE (Offset OFFSET8 "qmiLocEventGdtDownloadEndReqIndMsgT_v02" "serviceId") None None None);
      Tlv false None 2 (Elem [] QMI_IDL_GENERIC_4_BYTE (Offset OFFSET8 "qmiLocEventGdtDownloadEndReqIndMsgT_v02" "sessionId") None None None);
      Tlv true None 3 (Elem [] QMI_IDL_GENERIC_4_BYTE (Offset OFFSET8 "qmiLocEventGdtDownloadEndReqIndMsgT_v02" "status") None None None) ]);
  ("qmiLocGetServiceRevisionIndMsgT_data_v02", [
      Tlv false None 1 (Elem [] QMI_IDL_GENERIC_4_BYTE (Offset OFFSET8 "qmiLocGetServiceRevisionIndMsgT_v02" "status") None None None);
      Tlv false None 2 (Elem [] QMI_IDL_GENERIC_4_BYTE (Offset OFFSET8 "qmiLocGetServiceRevisionIndMsgT_v02" "revision") None None None);
      Tlv false (Some (Offset OFFSET8 "qmiLocGetServiceRevisionIndMsgT_v02" "gnssMeFWVerString", Offset OFFSET8 "qmiLocGetServiceRevisionIndMsgT_v02" "gnssMeFWVerString_valid")) 16 (Elem [IS_ARRAY; IS_VARIABLE_LEN] QMI_IDL_STRING (Offset OFFSET8 "qmiLocGetServiceRevisionIndMsgT_v02" "gnssMeFWVerString") (Some (Macro "QMI_LOC_GNSS_ME_VERSION_STRING_MAX_LENGTH_V02")) None None);
      Tlv false (Some (Offset OFFSET8 "qmiLocGetServiceRevisionIndMsgT_v02" "gnssHostSWVerString", Offset OFFSET8 "qmiLocGetServiceRevisionIndMsgT_v02" "gnssHostSWVerString_valid")) 17 (Elem [IS_ARRAY; IS_VARIABLE_LEN] QMI_IDL_STRING (Offset OFFSET8 "qmiLocGetServiceRevisionIndMsgT_v02" "gnssHostSWVerString") (Some (Macro "QMI_LOC_GNSS_HOSTED_SW_VERSION_STRING_MAX_LENGTH_V02")) None None);
      Tlv true (Some (Offset OFFSET16RELATIVE "qmiLocGetServiceRevisionIndMsgT_v02" "gnssSWVerString", Offset OFFSET16RELATIVE "qmiLocGetServiceRevisionIndMsgT_v02" "gnssSWVerString_valid")) 18 (Elem [IS_ARRAY; IS_VARIABLE_LEN; OFFSET_IS_16] QMI_IDL_STRING (Offset OFFSET16ARRAY "qmiLocGetServiceRevisionIndMsgT_v02" "gnssSWVerString") (Some (Macro "QMI_LOC_GNSS_SW_VERSION_STRING_MAX_LENGTH_V02")) None None) ]) ].

Definition message_data_8 : list (string * list tlv) := [
  ("qmiLocGetFixCriteriaIndMsgT_data_v02", [
      Tlv false None 1 (Elem [] QMI_IDL_GENERIC_4_BYTE (Offset OFFSET8 "qmiLocGetFixCriteriaIndMsgT_v02" "status") None None None);
      Tlv false (Some (Offset OFFSET8 "qmiLocGetFixCriteriaIndMsgT_v02" "horizontalAccuracyLevel", Offset OFFSET8 "qmiLocGetFixCriteriaIndMsgT_v02" "horizontalAccuracyLevel_valid")) 16 (Elem [] QMI_IDL_GENERIC_4_BYTE (Offset OFFSET8 "qmiLocGetFixCriteriaIndMsgT_v02" "horizontalAccuracyLevel") None None None);
      Tlv false (Some (Offset OFFSET8 "qmiLocGetFixCriteriaIndMsgT_v02" "intermediateReportState", Offset OFFSET8 "qmiLocGetFixCriteriaIndMsgT_v02" "intermediateReportState_valid")) 17 (Elem [] QMI_IDL_GENERIC_4_BYTE (Offset OFFSET8 "qmiLocGetFixCriteriaIndMsgT_v02" "intermediateReportState") None None None);
      Tlv false (Some (Offset OFFSET8 "qmiLocGetFixCriteriaIndMsgT_v02" "minInterval", Offset OFFSET8 "qmiLocGetFixCriteriaIndMsgT_v02" "minInterval_valid")) 18 (Elem [] QMI_IDL_GENERIC_4_BYTE (Offset OFFSET8 "qmiLocGetFixCriteriaIndMsgT_v02" "minInterval") None None None);
      Tlv false (Some (Offset OFFSET8 "qmiLocGetFixCriteriaIndMsgT_v02" "applicationId", Offset OFFSET8 "qmiLocGetFixCriteriaIndMsgT_v02" "applicationId_valid")) 19 (Elem [] QMI_IDL_AGGREGATE (Offset OFFSET8 "qmiLocGetFixCriteriaIndMsgT_v02" "applicationId") None None (Some (0, 0)));
      Tlv false (Some (Offset OFFSET8 "qmiLocGetFixCriteriaIndMsgT_v02" "configAltitudeAssumed", Offset OFFSET8 "qmiLocGetFixCriteriaIndMsgT_v02" "configAltitudeAssumed_valid")) 20 (Elem [] QMI_IDL_GENERIC_4_BYTE (Offset OFFSET8 "qmiLocGetFixCriteriaIndMsgT_v02" "configAltitudeAssumed") None None None);
      Tlv false (Some (Offset OFFSET8 "qmiLocGetFixCriteriaIndMsgT_v02" "minIntermediatePositionReportInterval", Offset OFFSET8 "qmiLocGetFixCriteriaIndMsgT_v02" "minIntermediatePositionReportInterval_valid")) 21 (Elem [] QMI_IDL_GENERIC_4_BYTE (Offset OFFSET8 "qmiLocGetFixCriteriaIndMsgT_v02" "minIntermediatePositionReportInterval") None None None);
      Tlv false (Some (Offset OFFSET8 "qmiLocGetFixCriteriaIndMsgT_v02" "positionReportTimeout", Offset OFFSET8 "qmiLocGetFixCriteriaIndMsgT_v02" "positionReportTimeout_valid")) 22 (Elem [] QMI_IDL_GENERIC_4_BYTE (Offset OFFSET8 "qmiLocGetFixCriteriaIndMsgT_v02" "positionReportTimeout") None None None);
      Tlv false (Some (Offset OFFSET8 "qmiLocGetFixCriteriaIndMsgT_v02" "sharePosition", Offset OFFSET8 "qmiLocGetFixCriteriaIndMsgT_v02" "sharePosition_valid")) 23 (Elem [] QMI_IDL_GENERIC_1_BYTE (Offset OFFSET8 "qmiLocGetFixCriteriaIndMsgT_v02" "sharePosition") None None None);
      Tlv true (Some (Offset OFFSET8 "qmiLocGetFixCriteriaIndMsgT_v02" "powerMode", Offset OFFSET8 "qmiLocGetFixCriteriaIndMsgT_v02" "powerMode_valid")) 24 (Elem [] QMI_IDL_AGGREGATE (Offset OFFSET8 "qmiLocGetFixCriteriaIndMsgT_v02" "powerMode") None None (Some (0, 1))) ]);
  ("qmiLocNiUserRespReqMsgT_data_v02", [
      Tlv false None 1 (Elem [] QMI_IDL_GENERIC_4_BYTE (Offset OFFSET8 "qmiLocNiUserRespReqMsgT_v02" "userResp") None None None);
      Tlv false None 2 (Elem [] QMI_IDL_GENERIC_4_BYTE (Offset OFFSET8 "qmiLocNiUserRespReqMsgT_v02" "notificationType") None None None);
      Tlv false (Some (Offset OFFSET8 "qmiLocNiUserRespReqMsgT_v02" "NiVxPayload", Offset OFFSET8 "qmiLocNiUserRespReqMsgT_v02" "NiVxPayload_valid")) 16 (Elem [] QMI_IDL_AGGREGATE (Offset OFFSET8 "qmiLocNiUserRespReqMsgT_v02" "NiVxPayload") None None (Some (0, 9)));
      Tlv false (Some (Offset OFFSET16RELATIVE "qmiLocNiUserRespReqMsgT_v02" "NiSuplPayload", Offset OFFSET16RELATIVE "qmiLocNiUserRespReqMsgT_v02" "NiSuplPayload_valid")) 17 (Elem [OFFSET_IS_16] QMI_IDL_AGGREGATE (Offset OFFSET16ARRAY "qmiLocNiUserRespReqMsgT_v02" "NiSuplPayload") None None (Some (0, 15)));
      Tlv false (Some (Offset OFFSET16RELATIVE "qmiLocNiUserRespReqMsgT_v02" "NiUmtsCpPayload", Offset OFFSET16RELATIVE "qmiLocNiUserRespReqMsgT_v02" "NiUmtsCpPayload_valid")) 18 (Elem [OFFSET_IS_16] QMI_IDL_AGGREGATE (Offset OFFSET16ARRAY "qmiLocNiUserRespReqMsgT_v02" "NiUmtsCpPayload") None None (Some (0, 17)));
      Tlv false (Some (Offset OFFSET16RELATIVE "qmiLocNiUserRespReqMsgT_v02" "NiVxServiceInteractionPayload", Offset OFFSET16RELATIVE "qmiLocNiUserRespReqMsgT_v02" "NiVxServiceInteractionPayload_valid")) 19 (Elem [OFFSET_IS_16] QMI_IDL_AGGREGATE (Offset OFFSET16ARRAY "qmiLocNiUserRespReqMsgT_v02" "NiVxServiceInteractionPayload") None None (Some (0, 18)));
      Tlv false (Some (Offset OFFSET16RELATIVE "qmiLocNiUserRespReqMsgT_v02" "NiSuplVer2ExtPayload", Offset OFFSET16RELATIVE "qmiLocNiUserRespReqMsgT_v02" "NiSuplVer2ExtPayload_valid")) 20 (Elem [OFFSET_IS_16] QMI_IDL_AGGREGATE (Offset OFFSET16ARRAY "qmiLocNiUserRespReqMsgT_v02" "NiSuplVer2ExtPayload") None None (Some (0, 19)));
      Tlv true (Some (Offset OFFSET16RELATIVE "qmiLocNiUserRespReqMsgT_v02" "suplEmergencyNotification", Offset OFFSET16RELATIVE "qmiLocNiUserRespReqMsgT_v02" "suplEmergencyNotification_valid")) 21 (Elem [OFFSET_IS_16] QMI_IDL_AGGREGATE (Offset OFFSET16ARRAY "qmiLocNiUserRespReqMsgT_v02" "suplEmergencyNotification") None None (Some (0, 20))) ]);
  ("qmiLocNiUserRespIndMsgT_data_v02", [
      Tlv true None 1 (Elem [] QMI_IDL_GENERIC_4_BYTE (Offset OFFSET8 "qmiLocNiUserRespIndMsgT_v02" "status") None None None) ]);
  ("qmiLocInjectPredictedOrbitsDataReqMsgT_data_v02", [
      Tlv false None 1 (Elem [] QMI_IDL_GENERIC_4_BYTE (Offset OFFSET8 "qmiLocInjectPredictedOrbitsDataReqMsgT_v02" "totalSize") None None None);
      Tlv false None 2 (Elem [] QMI_IDL_GENERIC_2_BYTE (Offset OFFSET8 "qmiLocInjectPredictedOrbitsDataReqMsgT_v02" "totalParts") None None None);
      Tlv false None 3 (Elem [] QMI_IDL_GENERIC_2_BYTE (Offset OFFSET8 "qmiLocInjectPredictedOrbitsDataReqMsgT_v02" "partNum") None None None);
      Tlv false None 4 (Elem [IS_ARRAY; IS_VARIABLE_LEN; SZ_IS_16] QMI_IDL_GENERIC_1_BYTE (Offset OFFSET8 "qmiLocInjectPredictedOrbitsDataReqMsgT_v02" "partData") (Some (Macro "QMI_LOC_MAX_PREDICTED_ORBITS_PART_LEN_V02")) (Some (Offset OFFSET8 "qmiLocInjectPredictedOrbitsDataReqMsgT_v02" "partData", Offset OFFSET8 "qmiLocInjectPredictedOrbitsDataReqMsgT_v02" "partData_len")) None);
      Tlv true (Some (Offset OFFSET16RELATIVE "qmiLocInjectPredictedOrbitsDataReqMsgT_v02" "formatType", Offset OFFSET16RELATIVE "qmiLocInjectPredictedOrbitsDataReqMsgT_v02" "formatType_valid")) 16 (Elem [OFFSET_IS_16] QMI_IDL_GENERIC_4_BYTE (Offset OFFSET16ARRAY "qmiLocInjectPredictedOrbitsDataReqMsgT_v02" "formatType") None None None) ]);
  ("qmiLocInjectPredictedOrbitsDataIndMsgT_data_v02", [
      Tlv false None 1 (Elem [] QMI_IDL_GENERIC_4_BYTE (Offset OFFSET8 "qmiLocInjectPredictedOrbitsDataIndMsgT_v02" "status") None None None);
      Tlv true (Some (Offset OFFSET8 "qmiLocInjectPredictedOrbitsDataIndMsgT_v02" "partNum", Offset OFFSET8 "qmiLocInjectPredictedOrbitsDataIndMsgT_v02" "partNum_valid")) 16 (Elem [] QMI_IDL_GENERIC_2_BYTE (Offset OFFSET8 "qmiLocInjectPredictedOrbitsDataIndMsgT_v02" "partNum") None None None) ]) ].

Definition message_data_9 : list (string * list tlv) := [
  ("qmiLocGetPredictedOrbitsDataSourceIndMsgT_data_v02", [
      Tlv false None 1 (Elem [] QMI_IDL_GENERIC_4_BYTE (Offset OFFSET8 "qmiLocGetPredictedOrbitsDataSourceIndMsgT_v02" "status") None None None);
      Tlv false (Some (Offset OFFSET8 "qmiLocGetPredictedOrbitsDataSourceIndMsgT_v02" "allowedSizes", Offset OFFSET8 "qmiLocGetPredictedOrbitsDataSourceIndMsgT_v02" "allowedSizes_valid")) 16 (Elem [] QMI_IDL_AGGREGATE (Offset OFFSET8 "qmiLocGetPredictedOrbitsDataSourceIndMsgT_v02" "allowedSizes") None None (Some (0, 23)));
      Tlv true (Some (Offset OFFSET8 "qmiLocGetPredictedOrbitsDataSourceIndMsgT_v02" "serverList", Offset OFFSET8 "qmiLocGetPredictedOrbitsDataSourceIndMsgT_v02" "serverList_valid")) 17 (Elem [] QMI_IDL_AGGREGATE (Offset OFFSET8 "qmiLocGetPredictedOrbitsDataSourceIndMsgT_v02" "serverList") None None (Some (0, 24))) ]);
  ("qmiLocGetPredictedOrbitsDataValidityIndMsgT_data_v02", [
      Tlv false None 1 (Elem [] QMI_IDL_GENERIC_4_BYTE (Offset OFFSET8 "qmiLocGetPredictedOrbitsDataValidityIndMsgT_v02" "status") None None None);
      Tlv true (Some (Offset OFFSET8 "qmiLocGetPredictedOrbitsDataValidityIndMsgT_v02" "validityInfo", Offset OFFSET8 "qmiLocGetPredictedOrbitsDataValidityIndMsgT_v02" "validityInfo_valid")) 16 (Elem [] QMI_IDL_AGGREGATE (Offset OFFSET8 "qmiLocGetPredictedOrbitsDataValidityIndMsgT_v02" "validityInfo") None None (Some (0, 29))) ]);
  ("qmiLocInjectUtcTimeReqMsgT_data_v02", [
      Tlv false None 1 (Elem [] QMI_IDL_GENERIC_8_BYTE (Offset OFFSET8 "qmiLocInjectUtcTimeReqMsgT_v02" "timeUtc") None None None);
      Tlv false None 2 (Elem [] QMI_IDL_GENERIC_4_BYTE (Offset OFFSET8 "qmiLocInjectUtcTimeReqMsgT_v02" "timeUnc") None None None);
      Tlv true (Some (Offset OFFSET8 "qmiLocInjectUtcTimeReqMsgT_v02" "timeSrc", Offset OFFSET8 "qmiLocInjectUtcTimeReqMsgT_v02" "timeSrc_valid")) 16 (Elem [] QMI_IDL_GENERIC_4_BYTE (Offset OFFSET8 "qmiLocInjectUtcTimeReqMsgT_v02" "timeSrc") None None None) ]);
  ("qmiLocInjectUtcTimeIndMsgT_data_v02", [
      Tlv true None 1 (Elem [] QMI_IDL_GENERIC_4_BYTE (Offset OFFSET8 "qmiLocInjectUtcTimeIndMsgT_v02" "status") None None None) ]) ].

Definition message_data_10 : list (string * list tlv) := [
  ("qmiLocInjectPositionReqMsgT_data_v02", [
      Tlv false (Some (Offset OFFSET8 "qmiLocInjectPositionReqMsgT_v02" "latitude", Offset OFFSET8 "qmiLocInjectPositionReqMsgT_v02" "latitude_valid")) 16 (Elem [] QMI_IDL_GENERIC_8_BYTE (Offset OFFSET8 "qmiLocInjectPositionReqMsgT_v02" "latitude") None None None);
      Tlv false (Some (Offset OFFSET8 "qmiLocInjectPositionReqMsgT_v02" "longitude", Offset OFFSET8 "qmiLocInjectPositionReqMsgT_v02" "longitude_valid")) 17 (Elem [] QMI_IDL_GENERIC_8_BYTE (Offset OFFSET8 "qmiLocInjectPositionReqMsgT_v02" "longitude") None None None);
      Tlv false (Some (Offset OFFSET8 "qmiLocInjectPositionReqMsgT_v02" "horUncCircular", Offset OFFSET8 "qmiLocInjectPositionReqMsgT_v02" "horUncCircular_valid")) 18 (Elem [] QMI_IDL_GENERIC_4_BYTE (Offset OFFSET8 "qmiLocInjectPositionReqMsgT_v02" "horUncCircular") None None None);
      Tlv false (Some (Offset OFFSET8 "qmiLocInjectPositionReqMsgT_v02" "horConfidence", Offset OFFSET8 "qmiLocInjectPositionReqMsgT_v02" "horConfidence_valid")) 19 (Elem [] QMI_IDL_GENERIC_1_BYTE (Offset OFFSET8 "qmiLocInjectPositionReqMsgT_v02" "horConfidence") None None None);
      Tlv false (Some (Offset OFFSET8 "qmiLocInjectPositionReqMsgT_v02" "horReliability", Offset OFFSET8 "qmiLocInjectPositionReqMsgT_v02" "horReliability_valid")) 20 (Elem [] QMI_IDL_GENERIC_4_BYTE (Offset OFFSET8 "qmiLocInjectPositionReqMsgT_v02" "horReliability") None None None);
      Tlv false (Some (Offset OFFSET8 "qmiLocInjectPositionReqMsgT_v02" "altitudeWrtEllipsoid", Offset OFFSET8 "qmiLocInjectPositionReqMsgT_v02" "altitudeWrtEllipsoid_valid")) 21 (Elem [] QMI_IDL_GENERIC_4_BYTE (Offset OFFSET8 "qmiLocInjectPositionReqMsgT_v02" "altitudeWrtEllipsoid") None None None);
      Tlv false (Some (Offset OFFSET8 "qmiLocInjectPositionReqMsgT_v02" "altitudeWrtMeanSeaLevel", Offset OFFSET8 "qmiLocInjectPositionReqMsgT_v02" "altitudeWrtMeanSeaLevel_valid")) 22 (Elem [] QMI_IDL_GENERIC_4_BYTE (Offset OFFSET8 "qmiLocInjectPositionReqMsgT_v02" "altitudeWrtMeanSeaLevel") None None None);
      Tlv false (Some (Offset OFFSET8 "qmiLocInjectPositionReqMsgT_v02" "vertUnc", Offset OFFSET8 "qmiLocInjectPositionReqMsgT_v02" "vertUnc_valid")) 23 (Elem [] QMI_IDL_GENERIC_4_BYTE (Offset OFFSET8 "qmiLocInjectPositionReqMsgT_v02" "vertUnc") None None None);
      Tlv false (Some (Offset OFFSET8 "qmiLocInjectPositionReqMsgT_v02" "vertConfidence", Offset OFFSET8 "qmiLocInjectPositionReqMsgT_v02" "vertConfidence_valid")) 24 (Elem [] QMI_IDL_GENERIC_1_BYTE (Offset OFFSET8 "qmiLocInjectPositionReqMsgT_v02" "vertConfidence") None None None);
      Tlv false (Some (Offset OFFSET8 "qmiLocInjectPositionReqMsgT_v02" "vertReliability", Offset OFFSET8 "qmiLocInjectPositionReqMsgT_v02" "vertReliability_valid")) 25 (Elem [] QMI_IDL_GENERIC_4_BYTE (Offset OFFSET8 "qmiLocInjectPositionReqMsgT_v02" "vertReliability") None None None);
      Tlv false (Some (Offset OFFSET8 "qmiLocInjectPositionReqMsgT_v02" "altSourceInfo", Offset OFFSET8 "qmiLocInjectPositionReqMsgT_v02" "altSourceInfo_valid")) 26 (Elem [] QMI_IDL_AGGREGATE (Offset OFFSET8 "qmiLocInjectPositionReqMsgT_v02" "altSourceInfo") None None (Some (0, 30)));
      Tlv false (Some (Offset OFFSET8 "qmiLocInjectPositionReqMsgT_v02" "timestampUtc", Offset OFFSET8 "qmiLocInjectPositionReqMsgT_v02" "timestampUtc_valid")) 27 (Elem [] QMI_IDL_GENERIC_8_BYTE (Offset OFFSET8 "qmiLocInjectPositionReqMsgT_v02" "timestampUtc") None None None);
      Tlv false (Some (Offset OFFSET8 "qmiLocInjectPositionReqMsgT_v02" "timestampAge", Offset OFFSET8 "qmiLocInjectPositionReqMsgT_v02" "timestampAge_valid")) 28 (Elem [] QMI_IDL_GENERIC_4_BYTE (Offset OFFSET8 "qmiLocInjectPositionReqMsgT_v02" "timestampAge") None None None);
      Tlv false (Some (Offset OFFSET8 "qmiLocInjectPositionReqMsgT_v02" "positionSrc", Offset OFFSET8 "qmiLocInjectPositionReqMsgT_v02" "positionSrc_valid")) 29 (Elem [] QMI_IDL_GENERIC_4_BYTE (Offset OFFSET8 "qmiLocInjectPositionReqMsgT_v02" "positionSrc") None None None);
      Tlv false (Some (Offset OFFSET8 "qmiLocInjectPositionReqMsgT_v02" "rawHorUncCircular", Offset OFFSET8 "qmiLocInjectPositionReqMsgT_v02" "rawHorUncCircular_valid")) 30 (Elem [] QMI_IDL_GENERIC_4_BYTE (Offset OFFSET8 "qmiLocInjectPositionReqMsgT_v02" "rawHorUncCircular") None None None);
      Tlv false (Some (Offset OFFSET8 "qmiLocInjectPositionReqMsgT_v02" "rawHorConfidence", Offset OFFSET8 "qmiLocInjectPositionReqMsgT_v02" "rawHorConfidence_valid")) 31 (Elem [] QMI_IDL_GENERIC_1_BYTE (Offset OFFSET8 "qmiLocInjectPositionReqMsgT_v02" "rawHorConfidence") None None None);
      Tlv false (Some (Offset OFFSET8 "qmiLocInjectPositionReqMsgT_v02" "onDemandCpi", Offset OFFSET8 "qmiLocInjectPositionReqMsgT_v02" "onDemandCpi_valid")) 32 (Elem [] QMI_IDL_GENERIC_1_BYTE (Offset OFFSET8 "qmiLocInjectPositionReqMsgT_v02" "onDemandCpi") None None None);
      Tlv false (Some (Offset OFFSET8 "qmiLocInjectPositionReqMsgT_v02" "positionSrcProvider", Offset OFFSET8 "qmiLocInjectPositionReqMsgT_v02" "positionSrcProvider_valid")) 33 (Elem [] QMI_IDL_GENERIC_4_BYTE (Offset OFFSET8 "qmiLocInjectPositionReqMsgT_v02" "positionSrcProvider") None None None);
      Tlv false (Some (Offset OFFSET8 "qmiLocInjectPositionReqMsgT_v02" "gpsTime", Offset OFFSET8 "qmiLocInjectPositionReqMsgT_v02" "gpsTime_valid")) 34 (Elem [] QMI_IDL_AGGREGATE (Offset OFFSET8 "qmiLocInjectPositionReqMsgT_v02" "gpsTime") None None (Some (0, 2)));
      Tlv false (Some (Offset OFFSET8 "qmiLocInjectPositionReqMsgT_v02" "timeUnc", Offset OFFSET8 "qmiLocInjectPositionReqMsgT_v02" "timeUnc_valid")) 35 (Elem [] QMI_IDL_GENERIC_4_BYTE (Offset OFFSET8 "qmiLocInjectPositionReqMsgT_v02" "timeUnc") None None None);
      Tlv false (Some (Offset OFFSET8 "qmiLocInjectPositionReqMsgT_v02" "velEnu", Offset OFFSET8 "qmiLocInjectPositionReqMsgT_v02" "velEnu_valid")) 36 (Elem [IS_ARRAY] QMI_IDL_GENERIC_4_BYTE (Offset OFFSET8 "qmiLocInjectPositionReqMsgT_v02" "velEnu") (Some (Macro "QMI_LOC_ENU_ARRAY_LENGTH_V02")) None None);
      Tlv false (Some (Offset OFFSET8 "qmiLocInjectPositionReqMsgT_v02" "velUncEnu", Offset OFFSET8 "qmiLocInjectPositionReqMsgT_v02" "velUncEnu_valid")) 37 (Elem [IS_ARRAY] QMI_IDL_GENERIC_4_BYTE (Offset OFFSET8 "qmiLocInjectPositionReqMsgT_v02" "velUncEnu") (Some (Macro "QMI_LOC_ENU_ARRAY_LENGTH_V02")) None None);
      Tlv false (Some (Offset OFFSET8 "qmiLocInjectPositionReqMsgT_v02" "expandedGnssSvUsedList", Offset OFFSET8 "qmiLocInjectPositionReqMsgT_v02" "expandedGnssSvUsedList_valid")) 38 (Elem [IS_ARRAY; IS_VARIABLE_LEN] QMI_IDL_GENERIC_2_BYTE (Offset OFFSET8 "qmiLocInjectPositionReqMsgT_v02" "expandedGnssSvUsedList") (Some (Macro "QMI_LOC_EXPANDED_SV_INFO_LIST_MAX_SIZE_V02")) (Some (Offset OFFSET8 "qmiLocInjectPositionReqMsgT_v02" "expandedGnssSvUsedList", Offset OFFSET8 "qmiLocInjectPositionReqMsgT_v02" "expandedGnssSvUsedList_len")) None);
      Tlv true (Some (Offset OFFSET16RELATIVE "qmiLocInjectPositionReqMsgT_v02" "numSvInFix", Offset OFFSET16RELATIVE "qmiLocInjectPositionReqMsgT_v02" "numSvInFix_valid")) 39 (Elem [OFFSET_IS_16] QMI_IDL_GENERIC_1_BYTE (Offset OFFSET16ARRAY "qmiLocInjectPositionReqMsgT_v02" "numSvInFix") None None None) ]);
  ("qmiLocInjectPositionIndMsgT_data_v02", [
      Tlv true None 1 (Elem [] QMI_IDL_GENERIC_4_BYTE (Offset OFFSET8 "qmiLocInjectPositionIndMsgT_v02" "status") None None None) ]);
  ("qmiLocSetEngineLockReqMsgT_data_v02", [
      Tlv false None 1 (Elem [] QMI_IDL_GENERIC_4_BYTE (Offset OFFSET8 "qmiLocSetEngineLockReqMsgT_v02" "lockType") None None None);
      Tlv false (Some (Offset OFFSET8 "qmiLocSetEngineLockReqMsgT_v02" "subType", Offset OFFSET8 "qmiLocSetEngineLockReqMsgT_v02" "subType_valid")) 16 (Elem [] QMI_IDL_GENERIC_4_BYTE (Offset OFFSET8 "qmiLocSetEngineLockReqMsgT_v02" "subType") None None None);
      Tlv true (Some (Offset OFFSET8 "qmiLocSetEngineLockReqMsgT_v02" "lockClient", Offset OFFSET8 "qmiLocSetEngineLockReqMsgT_v02" "lockClient_valid")) 17 (Elem [] QMI_IDL_GENERIC_8_BYTE (Offset OFFSET8 "qmiLocSetEngineLockReqMsgT_v02" "lockClient") None None None) ]) ].

Definition message_data_11 : list (string * list tlv) := [
  ("qmiLocSetEngineLockIndMsgT_data_v02", [
      Tlv true None 1 (Elem [] QMI_IDL_GENERIC_4_BYTE (Offset OFFSET8 "qmiLocSetEngineLockIndMsgT_v02" "status") None None None) ]);
  ("qmiLocGetEngineLockReqMsgT_data_v02", [
      Tlv true (Some (Offset OFFSET8 "qmiLocGetEngineLockReqMsgT_v02" "subType", Offset OFFSET8 "qmiLocGetEngineLockReqMsgT_v02" "subType_valid")) 16 (Elem [] QMI_IDL_GENERIC_4_BYTE (Offset OFFSET8 "qmiLocGetEngineLockReqMsgT_v02" "subType") None None None) ]);
  ("qmiLocGetEngineLockIndMsgT_data_v02", [
      Tlv false None 1 (Elem [] QMI_IDL_GENERIC_4_BYTE (Offset OFFSET8 "qmiLocGetEngineLockIndMsgT_v02" "status") None None None);
      Tlv false (Some (Offset OFFSET8 "qmiLocGetEngineLockIndMsgT_v02" "lockType", Offset OFFSET8 "qmiLocGetEngineLockIndMsgT_v02" "lockType_valid")) 16 (Elem [] QMI_IDL_GENERIC_4_BYTE (Offset OFFSET8 "qmiLocGetEngineLockIndMsgT_v02" "lockType") None None None);
      Tlv false (Some (Offset OFFSET8 "qmiLocGetEngineLockIndMsgT_v02" "subType", Offset OFFSET8 "qmiLocGetEngineLockIndMsgT_v02" "subType_valid")) 17 (Elem [] QMI_IDL_GENERIC_4_BYTE (Offset OFFSET8 "qmiLocGetEngineLockIndMsgT_v02" "subType") None None None);
      Tlv true (Some (Offset OFFSET8 "qmiLocGetEngineLockIndMsgT_v02" "lockClient", Offset OFFSET8 "qmiLocGetEngineLockIndMsgT_v02" "lockClient_valid")) 18 (Elem [] QMI_IDL_GENERIC_8_BYTE (Offset OFFSET8 "qmiLocGetEngineLockIndMsgT_v02" "lockClient") None None None) ]);
  ("qmiLocSetSbasConfigReqMsgT_data_v02", [
      Tlv false None 1 (Elem [] QMI_IDL_GENERIC_1_BYTE (Offset OFFSET8 "qmiLocSetSbasConfigReqMsgT_v02" "sbasConfig") None None None);
      Tlv true (Some (Offset OFFSET8 "qmiLocSetSbasConfigReqMsgT_v02" "qzssL1sConfig", Offset OFFSET8 "qmiLocSetSbasConfigReqMsgT_v02" "qzssL1sConfig_valid")) 16 (Elem [] QMI_IDL_GENERIC_1_BYTE (Offset OFFSET8 "qmiLocSetSbasConfigReqMsgT_v02" "qzssL1sConfig") None None None) ]);
  ("qmiLocSetSbasConfigIndMsgT_data_v02", [
      Tlv true None 1 (Elem [] QMI_IDL_GENERIC_4_BYTE (Offset OFFSET8 "qmiLocSetSbasConfigIndMsgT_v02" "status") None None None) ]);
  ("qmiLocGetSbasConfigIndMsgT_data_v02", [
      Tlv false None 1 (Elem [] QMI_IDL_GENERIC_4_BYTE (Offset OFFSET8 "qmiLocGetSbasConfigIndMsgT_v02" "status") None None None);
      Tlv true (Some (Offset OFFSET8 "qmiLocGetSbasConfigIndMsgT_v02" "sbasConfig", Offset OFFSET8 "qmiLocGetSbasConfigIndMsgT_v02" "sbasConfig_valid")) 16 (Elem [] QMI_IDL_GENERIC_1_BYTE (Offset OFFSET8 "qmiLocGetSbasConfigIndMsgT_v02" "sbasConfig") None None None) ]);
  ("qmiLocSetNmeaTypesReqMsgT_data_v02", [
      Tlv true None 1 (Elem [] QMI_IDL_GENERIC_4_BYTE (Offset OFFSET8 "qmiLocSetNmeaTypesReqMsgT_v02" "nmeaSentenceType") None None None) ]);
  ("qmiLocSetNmeaTypesIndMsgT_data_v02", [
      Tlv true None 1 (Elem [] QMI_IDL_GENERIC_4_BYTE (Offset OFFSET8 "qmiLocSetNmeaTypesIndMsgT_v02" "status") None None None) ]);
  ("qmiLocGetNmeaTypesIndMsgT_data_v02", [
      Tlv false None 1 (Elem [] QMI_IDL_GENERIC_4_BYTE (Offset OFFSET8 "qmiLocGetNmeaTypesIndMsgT_v02" "status") None None None);
      Tlv true (Some (Offset OFFSET8 "qmiLocGetNmeaTypesIndMsgT_v02" "nmeaSentenceType", Offset OFFSET8 "qmiLocGetNmeaTypesIndMsgT_v02" "nmeaSentenceType_valid")) 16 (Elem [] QMI_IDL_GENERIC_4_BYTE (Offset OFFSET8 "qmiLocGetNmeaTypesIndMsgT_v02" "nmeaSentenceType") None None None) ]);
  ("qmiLocSetLowPowerModeReqMsgT_data_v02", [
      Tlv true None 1 (Elem [] QMI_IDL_GENERIC_1_BYTE (Offset OFFSET8 "qmiLocSetLowPowerModeReqMsgT_v02" "lowPowerMode") None None None) ]);
  ("qmiLocSetLowPowerModeIndMsgT_data_v02", [
      Tlv true None 1 (Elem [] QMI_IDL_GENERIC_4_BYTE (Offset OFFSET8 "qmiLocSetLowPowerModeIndMsgT_v02" "status") None None None) ]);
  ("qmiLocGetLowPowerModeIndMsgT_data_v02", [
      Tlv false None 1 (Elem [] QMI_IDL_GENERIC_4_BYTE (Offset OFFSET8 "qmiLocGetLowPowerModeIndMsgT_v02" "status") None None None);
      Tlv true (Some (Offset OFFSET8 "qmiLocGetLowPowerModeIndMsgT_v02" "lowPowerMode", Offset OFFSET8 "qmiLocGetLowPowerModeIndMsgT_v02" "lowPowerMode_valid")) 16 (Elem [] QMI_IDL_GENERIC_1_BYTE (Offset OFFSET8 "qmiLocGetLowPowerModeIndMsgT_v02" "lowPowerMode") None None None) ]);
  ("qmiLocSetServerReqMsgT_data_v02", [
      Tlv false None 1 (Elem [] QMI_IDL_GENERIC_4_BYTE (Offset OFFSET8 "qmiLocSetServerReqMsgT_v02" "serverType") None None None);
      Tlv false (Some (Offset OFFSET8 "qmiLocSetServerReqMsgT_v02" "ipv4Addr", Offset OFFSET8 "qmiLocSetServerReqMsgT_v02" "ipv4Addr_valid")) 16 (Elem [] QMI_IDL_AGGREGATE (Offset OFFSET8 "qmiLocSetServerReqMsgT_v02" "ipv4Addr") None None (Some (0, 12)));
      Tlv false (Some (Offset OFFSET8 "qmiLocSetServerReqMsgT_v02" "ipv6Addr", Offset OFFSET8 "qmiLocSetServerReqMsgT_v02" "ipv6Addr_valid")) 17 (Elem [] QMI_IDL_AGGREGATE (Offset OFFSET8 "qmiLocSetServerReqMsgT_v02" "ipv6Addr") None None (Some (0, 13)));
      Tlv true (Some (Offset OFFSET8 "qmiLocSetServerReqMsgT_v02" "urlAddr", Offset OFFSET8 "qmiLocSetServerReqMsgT_v02" "urlAddr_valid")) 18 (Elem [IS_ARRAY; IS_VARIABLE_LEN] QMI_IDL_STRING (Offset OFFSET8 "qmiLocSetServerReqMsgT_v02" "urlAddr") (Some (Macro "QMI_LOC_MAX_SERVER_ADDR_LENGTH_V02")) None None) ]) ].

Definition message_data_12 : list (string * list tlv) := [
  ("qmiLocSetServerIndMsgT_data_v02", [
      Tlv true None 1 (Elem [] QMI_IDL_GENERIC_4_BYTE (Offset OFFSET8 "qmiLocSetServerIndMsgT_v02" "status") None None None) ]);
  ("qmiLocGetServerReqMsgT_data_v02", [
      Tlv false None 1 (Elem [] QMI_IDL_GENERIC_4_BYTE (Offset OFFSET8 "qmiLocGetServerReqMsgT_v02" "serverType") None None None);
      Tlv true (Some (Offset OFFSET8 "qmiLocGetServerReqMsgT_v02" "serverAddrTypeMask", Offset OFFSET8 "qmiLocGetServerReqMsgT_v02" "serverAddrTypeMask_valid")) 16 (Elem [] QMI_IDL_GENERIC_1_BYTE (Offset OFFSET8 "qmiLocGetServerReqMsgT_v02" "serverAddrTypeMask") None None None) ]);
  ("qmiLocGetServerIndMsgT_data_v02", [
      Tlv false None 1 (Elem [] QMI_IDL_GENERIC_4_BYTE (Offset OFFSET8 "qmiLocGetServerIndMsgT_v02" "status") None None None);
      Tlv false None 2 (Elem [] QMI_IDL_GENERIC_4_BYTE (Offset OFFSET8 "qmiLocGetServerIndMsgT_v02" "serverType") None None None);
      Tlv false (Some (Offset OFFSET8 "qmiLocGetServerIndMsgT_v02" "ipv4Addr", Offset OFFSET8 "qmiLocGetServerIndMsgT_v02" "ipv4Addr_valid")) 16 (Elem [] QMI_IDL_AGGREGATE (Offset OFFSET8 "qmiLocGetServerIndMsgT_v02" "ipv4Addr") None None (Some (0, 12)));
      Tlv false (Some (Offset OFFSET8 "qmiLocGetServerIndMsgT_v02" "ipv6Addr", Offset OFFSET8 "qmiLocGetServerIndMsgT_v02" "ipv6Addr_valid")) 17 (Elem [] QMI_IDL_AGGREGATE (Offset OFFSET8 "qmiLocGetServerIndMsgT_v02" "ipv6Addr") None None (Some (0, 13)));
      Tlv true (Some (Offset OFFSET8 "qmiLocGetServerIndMsgT_v02" "urlAddr", Offset OFFSET8 "qmiLocGetServerIndMsgT_v02" "urlAddr_valid")) 18 (Elem [IS_ARRAY; IS_VARIABLE_LEN] QMI_IDL_STRING (Offset OFFSET8 "qmiLocGetServerIndMsgT_v02" "urlAddr") (Some (Macro "QMI_LOC_MAX_SERVER_ADDR_LENGTH_V02")) None None) ]);
  ("qmiLocDeleteAssistDataReqMsgT_data_v02", [
      Tlv false None 1 (Elem [] QMI_IDL_GENERIC_1_BYTE (Offset OFFSET8 "qmiLocDeleteAssistDataReqMsgT_v02" "deleteAllFlag") None None None);
      Tlv false (Some (Offset OFFSET8 "qmiLocDeleteAssistDataReqMsgT_v02" "deleteSvInfoList", Offset OFFSET8 "qmiLocDeleteAssistDataReqMsgT_v02" "deleteSvInfoList_valid")) 16 (Elem [IS_ARRAY; IS_VARIABLE_LEN] QMI_IDL_AGGREGATE (Offset OFFSET8 "qmiLocDeleteAssistDataReqMsgT_v02" "deleteSvInfoList") (Some (Macro "QMI_LOC_DELETE_MAX_SV_INFO_LENGTH_V02")) (Some (Offset OFFSET8 "qmiLocDeleteAssistDataReqMsgT_v02" "deleteSvInfoList", Offset OFFSET8 "qmiLocDeleteAssistDataReqMsgT_v02" "deleteSvInfoList_len")) (Some (0, 31)));
      Tlv false (Some (Offset OFFSET16RELATIVE "qmiLocDeleteAssistDataReqMsgT_v02" "deleteGnssDataMask", Offset OFFSET16RELATIVE "qmiLocDeleteAssistDataReqMsgT_v02" "deleteGnssDataMask_valid")) 17 (Elem [OFFSET_IS_16] QMI_IDL_GENERIC_8_BYTE (Offset OFFSET16ARRAY "qmiLocDeleteAssistDataReqMsgT_v02" "deleteGnssDataMask") None None None);
      Tlv false (Some (Offset OFFSET16RELATIVE "qmiLocDeleteAssistDataReqMsgT_v02" "deleteCellDbDataMask", Offset OFFSET16RELATIVE "qmiLocDeleteAssistDataReqMsgT_v02" "deleteCellDbDataMask_valid")) 18 (Elem [OFFSET_IS_16] QMI_IDL_GENERIC_4_BYTE (Offset OFFSET16ARRAY "qmiLocDeleteAssistDataReqMsgT_v02" "deleteCellDbDataMask") None None None);
      Tlv false (Some (Offset OFFSET16RELATIVE "qmiLocDeleteAssistDataReqMsgT_v02" "deleteClockInfoMask", Offset OFFSET16RELATIVE "qmiLocDeleteAssistDataReqMsgT_v02" "deleteClockInfoMask_valid")) 19 (Elem [OFFSET_IS_16] QMI_IDL_GENERIC_4_BYTE (Offset OFFSET16ARRAY "qmiLocDeleteAssistDataReqMsgT_v02" "deleteClockInfoMask") None None None);
      Tlv false (Some (Offset OFFSET16RELATIVE "qmiLocDeleteAssistDataReqMsgT_v02" "deleteBdsSvInfoList", Offset OFFSET16RELATIVE "qmiLocDeleteAssistDataReqMsgT_v02" "deleteBdsSvInfoList_valid")) 20 (Elem [IS_ARRAY; IS_VARIABLE_LEN; OFFSET_IS_16] QMI_IDL_AGGREGATE (Offset OFFSET16ARRAY "qmiLocDeleteAssistDataReqMsgT_v02" "deleteBdsSvInfoList") (Some (Macro "QMI_LOC_DELETE_MAX_BDS_SV_INFO_LENGTH_V02")) (Some (Offset OFFSET16RELATIVE "qmiLocDeleteAssistDataReqMsgT_v02" "deleteBdsSvInfoList", Offset OFFSET16RELATIVE "qmiLocDeleteAssistDataReqMsgT_v02" "deleteBdsSvInfoList_len")) (Some (0, 32)));
      Tlv false (Some (Offset OFFSET16RELATIVE "qmiLocDeleteAssistDataReqMsgT_v02" "deleteGalSvInfoList", Offset OFFSET16RELATIVE "qmiLocDeleteAssistDataReqMsgT_v02" "deleteGalSvInfoList_valid")) 21 (Elem [IS_ARRAY; IS_VARIABLE_LEN; OFFSET_IS_16] QMI_IDL_AGGREGATE (Offset OFFSET16ARRAY "qmiLocDeleteAssistDataReqMsgT_v02" "deleteGalSvInfoList") (Some (Macro "QMI_LOC_DELETE_MAX_GAL_SV_INFO_LENGTH_V02")) (Some (Offset OFFSET16RELATIVE "qmiLocDeleteAssistDataReqMsgT_v02" "deleteGalSvInfoList", Offset OFFSET16RELATIVE "qmiLocDeleteAssistDataReqMsgT_v02" "deleteGalSvInfoList_len")) (Some (0, 33)));
      Tlv true (Some (Offset OFFSET16RELATIVE "qmiLocDeleteAssistDataReqMsgT_v02" "deleteQzssL1sDataFlag", Offset OFFSET16RELATIVE "qmiLocDeleteAssistDataReqMsgT_v02" "deleteQzssL1sDataFlag_valid")) 22 (Elem [OFFSET_IS_16] QMI_IDL_GENERIC_1_BYTE (Offset OFFSET16ARRAY "qmiLocDeleteAssistDataReqMsgT_v02" "deleteQzssL1sDataFlag") None None None) ]);
  ("qmiLocDeleteAssistDataIndMsgT_data_v02", [
      Tlv true None 1 (Elem [] QMI_IDL_GENERIC_4_BYTE (Offset OFFSET8 "qmiLocDeleteAssistDataIndMsgT_v02" "status") None None None) ]);
  ("qmiLocSetXtraTSessionControlReqMsgT_data_v02", [
      Tlv true None 1 (Elem [] QMI_IDL_GENERIC_1_BYTE (Offset OFFSET8 "qmiLocSetXtraTSessionControlReqMsgT_v02" "xtraTSessionControl") None None None) ]);
  ("qmiLocSetXtraTSessionControlIndMsgT_data_v02", [
      Tlv true None 1 (Elem [] QMI_IDL_GENERIC_4_BYTE (Offset OFFSET8 "qmiLocSetXtraTSessionControlIndMsgT_v02" "status") None None None) ]);
  ("qmiLocGetXtraTSessionControlIndMsgT_data_v02", [
      Tlv false None 1 (Elem [] QMI_IDL_GENERIC_4_BYTE (Offset OFFSET8 "qmiLocGetXtraTSessionControlIndMsgT_v02" "status") None None None);
      Tlv true (Some (Offset OFFSET8 "qmiLocGetXtraTSessionControlIndMsgT_v02" "xtraTSessionControl", Offset OFFSET8 "qmiLocGetXtraTSessionControlIndMsgT_v02" "xtraTSessionControl_valid")) 16 (Elem [] QMI_IDL_GENERIC_1_BYTE (Offset OFFSET8 "qmiLocGetXtraTSessionControlIndMsgT_v02" "xtraTSessionControl") None None None) ]) ].

Definition message_data_13 : list (string * list tlv) := [
  ("qmiLocInjectWifiPositionReqMsgT_data_v02", [
      Tlv false (Some (Offset OFFSET8 "qmiLocInjectWifiPositionReqMsgT_v02" "wifiFixTime", Offset OFFSET8 "qmiLocInjectWifiPositionReqMsgT_v02" "wifiFixTime_valid")) 16 (Elem [] QMI_IDL_AGGREGATE (Offset OFFSET8 "qmiLocInjectWifiPositionReqMsgT_v02" "wifiFixTime") None None (Some (0, 34)));
      Tlv false (Some (Offset OFFSET8 "qmiLocInjectWifiPositionReqMsgT_v02" "wifiFixPosition", Offset OFFSET8 "qmiLocInjectWifiPositionReqMsgT_v02" "wifiFixPosition_valid")) 17 (Elem [] QMI_IDL_AGGREGATE (Offset OFFSET8 "qmiLocInjectWifiPositionReqMsgT_v02" "wifiFixPosition") None None (Some (0, 35)));
      Tlv false (Some (Offset OFFSET8 "qmiLocInjectWifiPositionReqMsgT_v02" "apInfo", Offset OFFSET8 "qmiLocInjectWifiPositionReqMsgT_v02" "apInfo_valid")) 18 (Elem [IS_ARRAY; IS_VARIABLE_LEN] QMI_IDL_AGGREGATE (Offset OFFSET8 "qmiLocInjectWifiPositionReqMsgT_v02" "apInfo") (Some (Macro "QMI_LOC_WIFI_MAX_REPORTED_APS_PER_MSG_V02")) (Some (Offset OFFSET8 "qmiLocInjectWifiPositionReqMsgT_v02" "apInfo", Offset OFFSET8 "qmiLocInjectWifiPositionReqMsgT_v02" "apInfo_len")) (Some (0, 36)));
      Tlv false (Some (Offset OFFSET16RELATIVE "qmiLocInjectWifiPositionReqMsgT_v02" "horizontalReliability", Offset OFFSET16RELATIVE "qmiLocInjectWifiPositionReqMsgT_v02" "horizontalReliability_valid")) 19 (Elem [OFFSET_IS_16] QMI_IDL_GENERIC_4_BYTE (Offset OFFSET16ARRAY "qmiLocInjectWifiPositionReqMsgT_v02" "horizontalReliability") None None None);
      Tlv false (Some (Offset OFFSET16RELATIVE "qmiLocInjectWifiPositionReqMsgT_v02" "rawHepe", Offset OFFSET16RELATIVE "qmiLocInjectWifiPositionReqMsgT_v02" "rawHepe_valid")) 20 (Elem [OFFSET_IS_16] QMI_IDL_GENERIC_2_BYTE (Offset OFFSET16ARRAY "qmiLocInjectWifiPositionReqMsgT_v02" "rawHepe") None None None);
      Tlv true (Some (Offset OFFSET16RELATIVE "qmiLocInjectWifiPositionReqMsgT_v02" "wifiApSsidInfo", Offset OFFSET16RELATIVE "qmiLocInjectWifiPositionReqMsgT_v02" "wifiApSsidInfo_valid")) 21 (Elem [IS_ARRAY; IS_VARIABLE_LEN; OFFSET_IS_16] QMI_IDL_AGGREGATE (Offset OFFSET16ARRAY "qmiLocInjectWifiPositionReqMsgT_v02" "wifiApSsidInfo") (Some (Macro "QMI_LOC_WIFI_MAX_REPORTED_APS_PER_MSG_V02")) (Some (Offset OFFSET16RELATIVE "qmiLocInjectWifiPositionReqMsgT_v02" "wifiApSsidInfo", Offset OFFSET16RELATIVE "qmiLocInjectWifiPositionReqMsgT_v02" "wifiApSsidInfo_len")) (Some (0, 37))) ]);
  ("qmiLocInjectWifiPositionIndMsgT_data_v02", [
      Tlv true None 1 (Elem [] QMI_IDL_GENERIC_4_BYTE (Offset OFFSET8 "qmiLocInjectWifiPositionIndMsgT_v02" "status") None None None) ]);
  ("qmiLocNotifyWifiStatusReqMsgT_data_v02", [
      Tlv true None 1 (Elem [] QMI_IDL_GENERIC_4_BYTE (Offset OFFSET8 "qmiLocNotifyWifiStatusReqMsgT_v02" "wifiStatus") None None None) ]);
  ("qmiLocNotifyWifiStatusIndMsgT_data_v02", [
      Tlv true None 1 (Elem [] QMI_IDL_GENERIC_4_BYTE (Offset OFFSET8 "qmiLocNotifyWifiStatusIndMsgT_v02" "status") None None None) ]);
  ("qmiLocGetRegisteredEventsIndMsgT_data_v02", [
      Tlv false None 1 (Elem [] QMI_IDL_GENERIC_4_BYTE (Offset OFFSET8 "qmiLocGetRegisteredEventsIndMsgT_v02" "status") None None None);
      Tlv true (Some (Offset OFFSET8 "qmiLocGetRegisteredEventsIndMsgT_v02" "eventRegMask", Offset OFFSET8 "qmiLocGetRegisteredEventsIndMsgT_v02" "eventRegMask_valid")) 16 (Elem [] QMI_IDL_GENERIC_8_BYTE (Offset OFFSET8 "qmiLocGetRegisteredEventsIndMsgT_v02" "eventRegMask") None None None) ]);
  ("qmiLocSetOperationModeReqMsgT_data_v02", [
      Tlv false None 1 (Elem [] QMI_IDL_GENERIC_4_BYTE (Offset OFFSET8 "qmiLocSetOperationModeReqMsgT_v02" "operationMode") None None None);
      Tlv true (Some (Offset OFFSET8 "qmiLocSetOperationModeReqMsgT_v02" "minInterval", Offset OFFSET8 "qmiLocSetOperationModeReqMsgT_v02" "minInterval_valid")) 16 (Elem [] QMI_IDL_GENERIC_4_BYTE (Offset OFFSET8 "qmiLocSetOperationModeReqMsgT_v02" "minInterval") None None None) ]);
  ("qmiLocSetOperationModeIndMsgT_data_v02", [
      Tlv true None 1 (Elem [] QMI_IDL_GENERIC_4_BYTE (Offset OFFSET8 "qmiLocSetOperationModeIndMsgT_v02" "status") None None None) ]);
  ("qmiLocGetOperationModeIndMsgT_data_v02", [
      Tlv false None 1 (Elem [] QMI_IDL_GENERIC_4_BYTE (Offset OFFSET8 "qmiLocGetOperationModeIndMsgT_v02" "status") None None None);
      Tlv true (Some (Offset OFFSET8 "qmiLocGetOperationModeIndMsgT_v02" "operationMode", Offset OFFSET8 "qmiLocGetOperationModeIndMsgT_v02" "operationMode_valid")) 16 (Elem [] QMI_IDL_GENERIC_4_BYTE (Offset OFFSET8 "qmiLocGetOperationModeIndMsgT_v02" "operationMode") None None None) ]);
  ("qmiLocSetSpiStatusReqMsgT_data_v02", [
      Tlv false None 1 (Elem [] QMI_IDL_GENERIC_1_BYTE (Offset OFFSET8 "qmiLocSetSpiStatusReqMsgT_v02" "stationary") None None None);
      Tlv true (Some (Offset OFFSET8 "qmiLocSetSpiStatusReqMsgT_v02" "confidenceStationary", Offset OFFSET8 "qmiLocSetSpiStatusReqMsgT_v02" "confidenceStationary_valid")) 16 (Elem [] QMI_IDL_GENERIC_1_BYTE (Offset OFFSET8 "qmiLocSetSpiStatusReqMsgT_v02" "confidenceStationary") None None None) ]);
  ("qmiLocSetSpiStatusIndMsgT_data_v02", [
      Tlv true None 1 (Elem [] QMI_IDL_GENERIC_4_BYTE (Offset OFFSET8 "qmiLocSetSpiStatusIndMsgT_v02" "status") None None None) ]) ].

Definition message_data_14 : list (string * list tlv) := [
  ("qmiLocInjectSensorDataReqMsgT_data_v02", [
      Tlv false (Some (Offset OFFSET8 "qmiLocInjectSensorDataReqMsgT_v02" "opaqueIdentifier", Offset OFFSET8 "qmiLocInjectSensorDataReqMsgT_v02" "opaqueIdentifier_valid")) 16 (Elem [] QMI_IDL_GENERIC_4_BYTE (Offset OFFSET8 "qmiLocInjectSensorDataReqMsgT_v02" "opaqueIdentifier") None None None);
      Tlv false (Some (Offset OFFSET8 "qmiLocInjectSensorDataReqMsgT_v02" "threeAxisAccelData", Offset OFFSET8 "qmiLocInjectSensorDataReqMsgT_v02" "threeAxisAccelData_valid")) 17 (Elem [] QMI_IDL_AGGREGATE (Offset OFFSET8 "qmiLocInjectSensorDataReqMsgT_v02" "threeAxisAccelData") None None (Some (0, 39)));
      Tlv false (Some (Offset OFFSET16RELATIVE "qmiLocInjectSensorDataReqMsgT_v02" "threeAxisGyroData", Offset OFFSET16RELATIVE "qmiLocInjectSensorDataReqMsgT_v02" "threeAxisGyroData_valid")) 18 (Elem [OFFSET_IS_16] QMI_IDL_AGGREGATE (Offset OFFSET16ARRAY "qmiLocInjectSensorDataReqMsgT_v02" "threeAxisGyroData") None None (Some (0, 39)));
      Tlv false (Some (Offset OFFSET16RELATIVE "qmiLocInjectSensorDataReqMsgT_v02" "threeAxisAccelDataTimeSource", Offset OFFSET16RELATIVE "qmiLocInjectSensorDataReqMsgT_v02" "threeAxisAccelDataTimeSource_valid")) 19 (Elem [OFFSET_IS_16] QMI_IDL_GENERIC_4_BYTE (Offset OFFSET16ARRAY "qmiLocInjectSensorDataReqMsgT_v02" "threeAxisAccelDataTimeSource") None None None);
      Tlv false (Some (Offset OFFSET16RELATIVE "qmiLocInjectSensorDataReqMsgT_v02" "threeAxisGyroDataTimeSource", Offset OFFSET16RELATIVE "qmiLocInjectSensorDataReqMsgT_v02" "threeAxisGyroDataTimeSource_valid")) 20 (Elem [OFFSET_IS_16] QMI_IDL_GENERIC_4_BYTE (Offset OFFSET16ARRAY "qmiLocInjectSensorDataReqMsgT_v02" "threeAxisGyroDataTimeSource") None None None);
      Tlv false (Some (Offset OFFSET16RELATIVE "qmiLocInjectSensorDataReqMsgT_v02" "accelTemperatureData", Offset OFFSET16RELATIVE "qmiLocInjectSensorDataReqMsgT_v02" "accelTemperatureData_valid")) 21 (Elem [OFFSET_IS_16] QMI_IDL_AGGREGATE (Offset OFFSET16ARRAY "qmiLocInjectSensorDataReqMsgT_v02" "accelTemperatureData") None None (Some (0, 41)));
      Tlv false (Some (Offset OFFSET16RELATIVE "qmiLocInjectSensorDataReqMsgT_v02" "gyroTemperatureData", Offset OFFSET16RELATIVE "qmiLocInjectSensorDataReqMsgT_v02" "gyroTemperatureData_valid")) 22 (Elem [OFFSET_IS_16] QMI_IDL_AGGREGATE (Offset OFFSET16ARRAY "qmiLocInjectSensorDataReqMsgT_v02" "gyroTemperatureData") None None (Some (0, 41)));
      Tlv false (Some (Offset OFFSET16RELATIVE "qmiLocInjectSensorDataReqMsgT_v02" "threeAxisMagData", Offset OFFSET16RELATIVE "qmiLocInjectSensorDataReqMsgT_v02" "threeAxisMagData_valid")) 23 (Elem [OFFSET_IS_16] QMI_IDL_AGGREGATE (Offset OFFSET16ARRAY "qmiLocInjectSensorDataReqMsgT_v02" "threeAxisMagData") None None (Some (0, 39)));
      Tlv true (Some (Offset OFFSET16RELATIVE "qmiLocInjectSensorDataReqMsgT_v02" "threeAxisMagDataTimeSource", Offset OFFSET16RELATIVE "qmiLocInjectSensorDataReqMsgT_v02" "threeAxisMagDataTimeSource_valid")) 24 (Elem [OFFSET_IS_16] QMI_IDL_GENERIC_4_BYTE (Offset OFFSET16ARRAY "qmiLocInjectSensorDataReqMsgT_v02" "threeAxisMagDataTimeSource") None None None) ]);
  ("qmiLocInjectSensorDataIndMsgT_data_v02", [
      Tlv false None 1 (Elem [] QMI_IDL_GENERIC_4_BYTE (Offset OFFSET8 "qmiLocInjectSensorDataIndMsgT_v02" "status") None None None);
      Tlv false (Some (Offset OFFSET8 "qmiLocInjectSensorDataIndMsgT_v02" "opaqueIdentifier", Offset OFFSET8 "qmiLocInjectSensorDataIndMsgT_v02" "opaqueIdentifier_valid")) 16 (Elem [] QMI_IDL_GENERIC_4_BYTE (Offset OFFSET8 "qmiLocInjectSensorDataIndMsgT_v02" "opaqueIdentifier") None None None);
      Tlv false (Some (Offset OFFSET8 "qmiLocInjectSensorDataIndMsgT_v02" "threeAxisAccelSamplesAccepted", Offset OFFSET8 "qmiLocInjectSensorDataIndMsgT_v02" "threeAxisAccelSamplesAccepted_valid")) 17 (Elem [] QMI_IDL_GENERIC_1_BYTE (Offset OFFSET8 "qmiLocInjectSensorDataIndMsgT_v02" "threeAxisAccelSamplesAccepted") None None None);
      Tlv false (Some (Offset OFFSET8 "qmiLocInjectSensorDataIndMsgT_v02" "threeAxisGyroSamplesAccepted", Offset OFFSET8 "qmiLocInjectSensorDataIndMsgT_v02" "threeAxisGyroSamplesAccepted_valid")) 18 (Elem [] QMI_IDL_GENERIC_1_BYTE (Offset OFFSET8 "qmiLocInjectSensorDataIndMsgT_v02" "threeAxisGyroSamplesAccepted") None None None);
      Tlv false (Some (Offset OFFSET8 "qmiLocInjectSensorDataIndMsgT_v02" "accelTemperatureSamplesAccepted", Offset OFFSET8 "qmiLocInjectSensorDataIndMsgT_v02" "accelTemperatureSamplesAccepted_valid")) 19 (Elem [] QMI_IDL_GENERIC_1_BYTE (Offset OFFSET8 "qmiLocInjectSensorDataIndMsgT_v02" "accelTemperatureSamplesAccepted") None None None);
      Tlv false (Some (Offset OFFSET8 "qmiLocInjectSensorDataIndMsgT_v02" "gyroTemperatureSamplesAccepted", Offset OFFSET8 "qmiLocInjectSensorDataIndMsgT_v02" "gyroTemperatureSamplesAccepted_valid")) 20 (Elem [] QMI_IDL_GENERIC_1_BYTE (Offset OFFSET8 "qmiLocInjectSensorDataIndMsgT_v02" "gyroTemperatureSamplesAccepted") None None None);
      Tlv true (Some (Offset OFFSET8 "qmiLocInjectSensorDataIndMsgT_v02" "threeAxisMagSamplesAccepted", Offset OFFSET8 "qmiLocInjectSensorDataIndMsgT_v02" "threeAxisMagSamplesAccepted_valid")) 21 (Elem [] QMI_IDL_GENERIC_1_BYTE (Offset OFFSET8 "qmiLocInjectSensorDataIndMsgT_v02" "threeAxisMagSamplesAccepted") None None None) ]);
  ("qmiLocInjectTimeSyncDataReqMsgT_data_v02", [
      Tlv false None 1 (Elem [] QMI_IDL_GENERIC_4_BYTE (Offset OFFSET8 "qmiLocInjectTimeSyncDataReqMsgT_v02" "refCounter") None None None);
      Tlv false None 2 (Elem [] QMI_IDL_GENERIC_4_BYTE (Offset OFFSET8 "qmiLocInjectTimeSyncDataReqMsgT_v02" "sensorProcRxTime") None None None);
      Tlv true None 3 (Elem [] QMI_IDL_GENERIC_4_BYTE (Offset OFFSET8 "qmiLocInjectTimeSyncDataReqMsgT_v02" "sensorProcTxTime") None None None) ]);
  ("qmiLocInjectTimeSyncDataIndMsgT_data_v02", [
      Tlv true None 1 (Elem [] QMI_IDL_GENERIC_4_BYTE (Offset OFFSET8 "qmiLocInjectTimeSyncDataIndMsgT_v02" "status") None None None) ]);
  ("qmiLocGetCradleMountConfigIndMsgT_data_v02", [
      Tlv false None 1 (Elem [] QMI_IDL_GENERIC_4_BYTE (Offset OFFSET8 "qmiLocGetCradleMountConfigIndMsgT_v02" "status") None None None);
      Tlv false (Some (Offset OFFSET8 "qmiLocGetCradleMountConfigIndMsgT_v02" "cradleMountState", Offset OFFSET8 "qmiLocGetCradleMountConfigIndMsgT_v02" "cradleMountState_valid")) 16 (Elem [] QMI_IDL_GENERIC_4_BYTE (Offset OFFSET8 "qmiLocGetCradleMountConfigIndMsgT_v02" "cradleMountState") None None None);
      Tlv true (Some (Offset OFFSET8 "qmiLocGetCradleMountConfigIndMsgT_v02" "confidenceCradleMountState", Offset OFFSET8 "qmiLocGetCradleMountConfigIndMsgT_v02" "confidenceCradleMountState_valid")) 17 (Elem [] QMI_IDL_GENERIC_1_BYTE (Offset OFFSET8 "qmiLocGetCradleMountConfigIndMsgT_v02" "confidenceCradleMountState") None None None) ]);
  ("qmiLocSetCradleMountConfigReqMsgT_data_v02", [
      Tlv false None 1 (Elem [] QMI_IDL_GENERIC_4_BYTE (Offset OFFSET8 "qmiLocSetCradleMountConfigReqMsgT_v02" "cradleMountState") None None None);
      Tlv true (Some (Offset OFFSET8 "qmiLocSetCradleMountConfigReqMsgT_v02" "confidenceCradleMountState", Offset OFFSET8 "qmiLocSetCradleMountConfigReqMsgT_v02" "confidenceCradleMountState_valid")) 16 (Elem [] QMI_IDL_GENERIC_1_BYTE (Offset OFFSET8 "qmiLocSetCradleMountConfigReqMsgT_v02" "confidenceCradleMountState") None None None) ]);
  ("qmiLocSetCradleMountConfigIndMsgT_data_v02", [
      Tlv true None 1 (Elem [] QMI_IDL_GENERIC_4_BYTE (Offset OFFSET8 "qmiLocSetCradleMountConfigIndMsgT_v02" "status") None None None) ]) ].

Definition message_data_15 : list (string * list tlv) := [
  ("qmiLocGetExternalPowerConfigIndMsgT_data_v02", [
      Tlv false None 1 (Elem [] QMI_IDL_GENERIC_4_BYTE (Offset OFFSET8 "qmiLocGetExternalPowerConfigIndMsgT_v02" "status") None None None);
      Tlv true (Some (Offset OFFSET8 "qmiLocGetExternalPowerConfigIndMsgT_v02" "externalPowerState", Offset OFFSET8 "qmiLocGetExternalPowerConfigIndMsgT_v02" "externalPowerState_valid")) 16 (Elem [] QMI_IDL_GENERIC_4_BYTE (Offset OFFSET8 "qmiLocGetExternalPowerConfigIndMsgT_v02" "externalPowerState") None None None) ]);
  ("qmiLocSetExternalPowerConfigReqMsgT_data_v02", [
      Tlv false None 1 (Elem [] QMI_IDL_GENERIC_4_BYTE (Offset OFFSET8 "qmiLocSetExternalPowerConfigReqMsgT_v02" "externalPowerState") None None None);
      Tlv true (Some (Offset OFFSET8 "qmiLocSetExternalPowerConfigReqMsgT_v02" "batteryLevel", Offset OFFSET8 "qmiLocSetExternalPowerConfigReqMsgT_v02" "batteryLevel_valid")) 16 (Elem [] QMI_IDL_GENERIC_4_BYTE (Offset OFFSET8 "qmiLocSetExternalPowerConfigReqMsgT_v02" "batteryLevel") None None None) ]);
  ("qmiLocSetExternalPowerConfigIndMsgT_data_v02", [
      Tlv true None 1 (Elem [] QMI_IDL_GENERIC_4_BYTE (Offset OFFSET8 "qmiLocSetExternalPowerConfigIndMsgT_v02" "status") None None None) ]);
  ("qmiLocInformLocationServerConnStatusReqMsgT_data_v02", [
      Tlv false None 1 (Elem [] QMI_IDL_GENERIC_4_BYTE (Offset OFFSET8 "qmiLocInformLocationServerConnStatusReqMsgT_v02" "connHandle") None None None);
      Tlv false None 2 (Elem [] QMI_IDL_GENERIC_4_BYTE (Offset OFFSET8 "qmiLocInformLocationServerConnStatusReqMsgT_v02" "requestType") None None None);
      Tlv false None 3 (Elem [] QMI_IDL_GENERIC_4_BYTE (Offset OFFSET8 "qmiLocInformLocationServerConnStatusReqMsgT_v02" "statusType") None None None);
      Tlv false (Some (Offset OFFSET8 "qmiLocInformLocationServerConnStatusReqMsgT_v02" "apnProfile", Offset OFFSET8 "qmiLocInformLocationServerConnStatusReqMsgT_v02" "apnProfile_valid")) 16 (Elem [] QMI_IDL_AGGREGATE (Offset OFFSET8 "qmiLocInformLocationServerConnStatusReqMsgT_v02" "apnProfile") None None (Some (0, 42)));
      Tlv true (Some (Offset OFFSET8 "qmiLocInformLocationServerConnStatusReqMsgT_v02" "apnTypeMask", Offset OFFSET8 "qmiLocInformLocationServerConnStatusReqMsgT_v02" "apnTypeMask_valid")) 17 (Elem [] QMI_IDL_GENERIC_8_BYTE (Offset OFFSET8 "qmiLocInformLocationServerConnStatusReqMsgT_v02" "apnTypeMask") None None None) ]);
  ("qmiLocInformLocationServerConnStatusIndMsgT_data_v02", [
      Tlv true None 1 (Elem [] QMI_IDL_GENERIC_4_BYTE (Offset OFFSET8 "qmiLocInformLocationServerConnStatusIndMsgT_v02" "status") None None None) ]);
  ("qmiLocSetProtocolConfigParametersReqMsgT_data_v02", [
      Tlv false (Some (Offset OFFSET8 "qmiLocSetProtocolConfigParametersReqMsgT_v02" "suplSecurity", Offset OFFSET8 "qmiLocSetProtocolConfigParametersReqMsgT_v02" "suplSecurity_valid")) 16 (Elem [] QMI_IDL_GENERIC_1_BYTE (Offset OFFSET8 "qmiLocSetProtocolConfigParametersReqMsgT_v02" "suplSecurity") None None None);
      Tlv false (Some (Offset OFFSET8 "qmiLocSetProtocolConfigParametersReqMsgT_v02" "vxVersion", Offset OFFSET8 "qmiLocSetProtocolConfigParametersReqMsgT_v02" "vxVersion_valid")) 17 (Elem [] QMI_IDL_GENERIC_4_BYTE (Offset OFFSET8 "qmiLocSetProtocolConfigParametersReqMsgT_v02" "vxVersion") None None None);
      Tlv false (Some (Offset OFFSET8 "qmiLocSetProtocolConfigParametersReqMsgT_v02" "suplVersion", Offset OFFSET8 "qmiLocSetProtocolConfigParametersReqMsgT_v02" "suplVersion_valid")) 18 (Elem [] QMI_IDL_GENERIC_4_BYTE (Offset OFFSET8 "qmiLocSetProtocolConfigParametersReqMsgT_v02" "suplVersion") None None None);
      Tlv false (Some (Offset OFFSET8 "qmiLocSetProtocolConfigParametersReqMsgT_v02" "lppConfig", Offset OFFSET8 "qmiLocSetProtocolConfigParametersReqMsgT_v02" "lppConfig_valid")) 19 (Elem [] QMI_IDL_GENERIC_4_BYTE (Offset OFFSET8 "qmiLocSetProtocolConfigParametersReqMsgT_v02" "lppConfig") None None None);
      Tlv false (Some (Offset OFFSET8 "qmiLocSetProtocolConfigParametersReqMsgT_v02" "assistedGlonassProtocolMask", Offset OFFSET8 "qmiLocSetProtocolConfigParametersReqMsgT_v02" "assistedGlonassProtocolMask_valid")) 20 (Elem [] QMI_IDL_GENERIC_4_BYTE (Offset OFFSET8 "qmiLocSetProtocolConfigParametersReqMsgT_v02" "assistedGlonassProtocolMask") None None None);
      Tlv false (Some (Offset OFFSET8 "qmiLocSetProtocolConfigParametersReqMsgT_v02" "suplHashAlgo", Offset OFFSET8 "qmiLocSetProtocolConfigParametersReqMsgT_v02" "suplHashAlgo_valid")) 21 (Elem [] QMI_IDL_GENERIC_4_BYTE (Offset OFFSET8 "qmiLocSetProtocolConfigParametersReqMsgT_v02" "suplHashAlgo") None None None);
      Tlv false (Some (Offset OFFSET8 "qmiLocSetProtocolConfigParametersReqMsgT_v02" "suplTlsVersion", Offset OFFSET8 "qmiLocSetProtocolConfigParametersReqMsgT_v02" "suplTlsVersion_valid")) 22 (Elem [] QMI_IDL_GENERIC_4_BYTE (Offset OFFSET8 "qmiLocSetProtocolConfigParametersReqMsgT_v02" "suplTlsVersion") None None None);
      Tlv false (Some (Offset OFFSET8 "qmiLocSetProtocolConfigParametersReqMsgT_v02" "emergencyProtocol", Offset OFFSET8 "qmiLocSetProtocolConfigParametersReqMsgT_v02" "emergencyProtocol_valid")) 23 (Elem [] QMI_IDL_GENERIC_4_BYTE (Offset OFFSET8 "qmiLocSetProtocolConfigParametersReqMsgT_v02" "emergencyProtocol") None None None);
      Tlv false (Some (Offset OFFSET8 "qmiLocSetProtocolConfigParametersReqMsgT_v02" "wifiScanInjectTimeout", Offset OFFSET8 "qmiLocSetProtocolConfigParametersReqMsgT_v02" "wifiScanInjectTimeout_valid")) 24 (Elem [] QMI_IDL_GENERIC_1_BYTE (Offset OFFSET8 "qmiLocSetProtocolConfigParametersReqMsgT_v02" "wifiScanInjectTimeout") None None None);
      Tlv false (Some (Offset OFFSET8 "qmiLocSetProtocolConfigParametersReqMsgT_v02" "lppeUpConfig", Offset OFFSET8 "qmiLocSetProtocolConfigParametersReqMsgT_v02" "lppeUpConfig_valid")) 25 (Elem [] QMI_IDL_GENERIC_8_BYTE (Offset OFFSET8 "qmiLocSetProtocolConfigParametersReqMsgT_v02" "lppeUpConfig") None None None);
      Tlv false (Some (Offset OFFSET8 "qmiLocSetProtocolConfigParametersReqMsgT_v02" "lppeCpConfig", Offset OFFSET8 "qmiLocSetProtocolConfigParametersReqMsgT_v02" "lppeCpConfig_valid")) 26 (Elem [] QMI_IDL_GENERIC_8_BYTE (Offset OFFSET8 "qmiLocSetProtocolConfigParametersReqMsgT_v02" "lppeCpConfig") None None None);
      Tlv true (Some (Offset OFFSET8 "qmiLocSetProtocolConfigParametersReqMsgT_v02" "emergencyCallbackWindow", Offset OFFSET8 "qmiLocSetProtocolConfigParametersReqMsgT_v02" "emergencyCallbackWindow_valid")) 27 (Elem [] QMI_IDL_GENERIC_4_BYTE (Offset OFFSET8 "qmiLocSetProtocolConfigParametersReqMsgT_v02" "emergencyCallbackWindow") None None None) ]);
  ("qmiLocSetProtocolConfigParametersIndMsgT_data_v02", [
      Tlv false None 1 (Elem [] QMI_IDL_GENERIC_4_BYTE (Offset OFFSET8 "qmiLocSetProtocolConfigParametersIndMsgT_v02" "status") None None None);
      Tlv true (Some (Offset OFFSET8 "qmiLocSetProtocolConfigParametersIndMsgT_v02" "failedProtocolConfigParamMask", Offset OFFSET8 "qmiLocSetProtocolConfigParametersIndMsgT_v02" "failedProtocolConfigParamMask_valid")) 16 (Elem [] QMI_IDL_GENERIC_8_BYTE (Offset OFFSET8 "qmiLocSetProtocolConfigParametersIndMsgT_v02" "failedProtocolConfigParamMask") None None None) ]);
  ("qmiLocGetProtocolConfigParametersReqMsgT_data_v02", [
      Tlv true None 1 (Elem [] QMI_IDL_GENERIC_8_BYTE (Offset OFFSET8 "qmiLocGetProtocolConfigParametersReqMsgT_v02" "getProtocolConfigParamMask") None None None) ]) ].

Definition message_data_16 : list (string * list tlv) := [
  ("qmiLocGetProtocolConfigParametersIndMsgT_data_v02", [
      Tlv false None 1 (Elem [] QMI_IDL_GENERIC_4_BYTE (Offset OFFSET8 "qmiLocGetProtocolConfigParametersIndMsgT_v02" "status") None None None);
      Tlv false (Some (Offset OFFSET8 "qmiLocGetProtocolConfigParametersIndMsgT_v02" "suplSecurity", Offset OFFSET8 "qmiLocGetProtocolConfigParametersIndMsgT_v02" "suplSecurity_valid")) 16 (Elem [] QMI_IDL_GENERIC_1_BYTE (Offset OFFSET8 "qmiLocGetProtocolConfigParametersIndMsgT_v02" "suplSecurity") None None None);
      Tlv false (Some (Offset OFFSET8 "qmiLocGetProtocolConfigParametersIndMsgT_v02" "vxVersion", Offset OFFSET8 "qmiLocGetProtocolConfigParametersIndMsgT_v02" "vxVersion_valid")) 17 (Elem [] QMI_IDL_GENERIC_4_BYTE (Offset OFFSET8 "qmiLocGetProtocolConfigParametersIndMsgT_v02" "vxVersion") None None None);
      Tlv false (Some (Offset OFFSET8 "qmiLocGetProtocolConfigParametersIndMsgT_v02" "suplVersion", Offset OFFSET8 "qmiLocGetProtocolConfigParametersIndMsgT_v02" "suplVersion_valid")) 18 (Elem [] QMI_IDL_GENERIC_4_BYTE (Offset OFFSET8 "qmiLocGetProtocolConfigParametersIndMsgT_v02" "suplVersion") None None None);
      Tlv false (Some (Offset OFFSET8 "qmiLocGetProtocolConfigParametersIndMsgT_v02" "lppConfig", Offset OFFSET8 "qmiLocGetProtocolConfigParametersIndMsgT_v02" "lppConfig_valid")) 19 (Elem [] QMI_IDL_GENERIC_4_BYTE (Offset OFFSET8 "qmiLocGetProtocolConfigParametersIndMsgT_v02" "lppConfig") None None None);
      Tlv false (Some (Offset OFFSET8 "qmiLocGetProtocolConfigParametersIndMsgT_v02" "assistedGlonassProtocolMask", Offset OFFSET8 "qmiLocGetProtocolConfigParametersIndMsgT_v02" "assistedGlonassProtocolMask_valid")) 20 (Elem [] QMI_IDL_GENERIC_4_BYTE (Offset OFFSET8 "qmiLocGetProtocolConfigParametersIndMsgT_v02" "assistedGlonassProtocolMask") None None None);
      Tlv false (Some (Offset OFFSET8 "qmiLocGetProtocolConfigParametersIndMsgT_v02" "suplHashAlgo", Offset OFFSET8 "qmiLocGetProtocolConfigParametersIndMsgT_v02" "suplHashAlgo_valid")) 21 (Elem [] QMI_IDL_GENERIC_4_BYTE (Offset OFFSET8 "qmiLocGetProtocolConfigParametersIndMsgT_v02" "suplHashAlgo") None None None);
      Tlv false (Some (Offset OFFSET8 "qmiLocGetProtocolConfigParametersIndMsgT_v02" "suplTlsVersion", Offset OFFSET8 "qmiLocGetProtocolConfigParametersIndMsgT_v02" "suplTlsVersion_valid")) 22 (Elem [] QMI_IDL_GENERIC_4_BYTE (Offset OFFSET8 "qmiLocGetProtocolConfigParametersIndMsgT_v02" "suplTlsVersion") None None None);
      Tlv false (Some (Offset OFFSET8 "qmiLocGetProtocolConfigParametersIndMsgT_v02" "emergencyProtocol", Offset OFFSET8 "qmiLocGetProtocolConfigParametersIndMsgT_v02" "emergencyProtocol_valid")) 23 (Elem [] QMI_IDL_GENERIC_4_BYTE (Offset OFFSET8 "qmiLocGetProtocolConfigParametersIndMsgT_v02" "emergencyProtocol") None None None);
      Tlv false (Some (Offset OFFSET8 "qmiLocGetProtocolConfigParametersIndMsgT_v02" "wifiScanInjectTimeout", Offset OFFSET8 "qmiLocGetProtocolConfigParametersIndMsgT_v02" "wifiScanInjectTimeout_valid")) 24 (Elem [] QMI_IDL_GENERIC_1_BYTE (Offset OFFSET8 "qmiLocGetProtocolConfigParametersIndMsgT_v02" "wifiScanInjectTimeout") None None None);
      Tlv false (Some (Offset OFFSET8 "qmiLocGetProtocolConfigParametersIndMsgT_v02" "lppeUpConfig", Offset OFFSET8 "qmiLocGetProtocolConfigParametersIndMsgT_v02" "lppeUpConfig_valid")) 25 (Elem [] QMI_IDL_GENERIC_8_BYTE (Offset OFFSET8 "qmiLocGetProtocolConfigParametersIndMsgT_v02" "lppeUpConfig") None None None);
      Tlv false (Some (Offset OFFSET8 "qmiLocGetProtocolConfigParametersIndMsgT_v02" "lppeCpConfig", Offset OFFSET8 "qmiLocGetProtocolConfigParametersIndMsgT_v02" "lppeCpConfig_valid")) 26 (Elem [] QMI_IDL_GENERIC_8_BYTE (Offset OFFSET8 "qmiLocGetProtocolConfigParametersIndMsgT_v02" "lppeCpConfig") None None None);
      Tlv true (Some (Offset OFFSET8 "qmiLocGetProtocolConfigParametersIndMsgT_v02" "emergencyCallbackWindow", Offset OFFSET8 "qmiLocGetProtocolConfigParametersIndMsgT_v02" "emergencyCallbackWindow_valid")) 27 (Elem [] QMI_IDL_GENERIC_4_BYTE (Offset OFFSET8 "qmiLocGetProtocolConfigParametersIndMsgT_v02" "emergencyCallbackWindow") None None None) ]);
  ("qmiLocSetSensorControlConfigReqMsgT_data_v02", [
      Tlv false (Some (Offset OFFSET8 "qmiLocSetSensorControlConfigReqMsgT_v02" "sensorsUsage", Offset OFFSET8 "qmiLocSetSensorControlConfigReqMsgT_v02" "sensorsUsage_valid")) 16 (Elem [] QMI_IDL_GENERIC_4_BYTE (Offset OFFSET8 "qmiLocSetSensorControlConfigReqMsgT_v02" "sensorsUsage") None None None);
      Tlv true (Some (Offset OFFSET8 "qmiLocSetSensorControlConfigReqMsgT_v02" "sensorProvider", Offset OFFSET8 "qmiLocSetSensorControlConfigReqMsgT_v02" "sensorProvider_valid")) 17 (Elem [] QMI_IDL_GENERIC_4_BYTE (Offset OFFSET8 "qmiLocSetSensorControlConfigReqMsgT_v02" "sensorProvider") None None None) ]);
  ("qmiLocSetSensorControlConfigIndMsgT_data_v02", [
      Tlv true None 1 (Elem [] QMI_IDL_GENERIC_4_BYTE (Offset OFFSET8 "qmiLocSetSensorControlConfigIndMsgT_v02" "status") None None None) ]);
  ("qmiLocGetSensorControlConfigIndMsgT_data_v02", [
      Tlv false None 1 (Elem [] QMI_IDL_GENERIC_4_BYTE (Offset OFFSET8 "qmiLocGetSensorControlConfigIndMsgT_v02" "status") None None None);
      Tlv false (Some (Offset OFFSET8 "qmiLocGetSensorControlConfigIndMsgT_v02" "sensorsUsage", Offset OFFSET8 "qmiLocGetSensorControlConfigIndMsgT_v02" "sensorsUsage_valid")) 16 (Elem [] QMI_IDL_GENERIC_4_BYTE (Offset OFFSET8 "qmiLocGetSensorControlConfigIndMsgT_v02" "sensorsUsage") None None None);
      Tlv true (Some (Offset OFFSET8 "qmiLocGetSensorControlConfigIndMsgT_v02" "sensorProvider", Offset OFFSET8 "qmiLocGetSensorControlConfigIndMsgT_v02" "sensorProvider_valid")) 17 (Elem [] QMI_IDL_GENERIC_4_BYTE (Offset OFFSET8 "qmiLocGetSensorControlConfigIndMsgT_v02" "sensorProvider") None None None) ]) ].

Definition message_data_17 : list (string * list tlv) := [
  ("qmiLocSetSensorPropertiesReqMsgT_data_v02", [
      Tlv false (Some (Offset OFFSET8 "qmiLocSetSensorPropertiesReqMsgT_v02" "gyroBiasVarianceRandomWalk", Offset OFFSET8 "qmiLocSetSensorPropertiesReqMsgT_v02" "gyroBiasVarianceRandomWalk_valid")) 16 (Elem [] QMI_IDL_GENERIC_4_BYTE (Offset OFFSET8 "qmiLocSetSensorPropertiesReqMsgT_v02" "gyroBiasVarianceRandomWalk") None None None);
      Tlv false (Some (Offset OFFSET8 "qmiLocSetSensorPropertiesReqMsgT_v02" "velocityRandomWalkSpectralDensity", Offset OFFSET8 "qmiLocSetSensorPropertiesReqMsgT_v02" "velocityRandomWalkSpectralDensity_valid")) 17 (Elem [] QMI_IDL_GENERIC_4_BYTE (Offset OFFSET8 "qmiLocSetSensorPropertiesReqMsgT_v02" "velocityRandomWalkSpectralDensity") None None None);
      Tlv false (Some (Offset OFFSET8 "qmiLocSetSensorPropertiesReqMsgT_v02" "accelerationRandomWalkSpectralDensity", Offset OFFSET8 "qmiLocSetSensorPropertiesReqMsgT_v02" "accelerationRandomWalkSpectralDensity_valid")) 18 (Elem [] QMI_IDL_GENERIC_4_BYTE (Offset OFFSET8 "qmiLocSetSensorPropertiesReqMsgT_v02" "accelerationRandomWalkSpectralDensity") None None None);
      Tlv false (Some (Offset OFFSET8 "qmiLocSetSensorPropertiesReqMsgT_v02" "angleRandomWalkSpectralDensity", Offset OFFSET8 "qmiLocSetSensorPropertiesReqMsgT_v02" "angleRandomWalkSpectralDensity_valid")) 19 (Elem [] QMI_IDL_GENERIC_4_BYTE (Offset OFFSET8 "qmiLocSetSensorPropertiesReqMsgT_v02" "angleRandomWalkSpectralDensity") None None None);
      Tlv false (Some (Offset OFFSET8 "qmiLocSetSensorPropertiesReqMsgT_v02" "rateRandomWalkSpectralDensity", Offset OFFSET8 "qmiLocSetSensorPropertiesReqMsgT_v02" "rateRandomWalkSpectralDensity_valid")) 20 (Elem [] QMI_IDL_GENERIC_4_BYTE (Offset OFFSET8 "qmiLocSetSensorPropertiesReqMsgT_v02" "rateRandomWalkSpectralDensity") None None None);
      Tlv false (Some (Offset OFFSET8 "qmiLocSetSensorPropertiesReqMsgT_v02" "vehicleDataUse", Offset OFFSET8 "qmiLocSetSensorPropertiesReqMsgT_v02" "vehicleDataUse_valid")) 21 (Elem [] QMI_IDL_GENERIC_8_BYTE (Offset OFFSET8 "qmiLocSetSensorPropertiesReqMsgT_v02" "vehicleDataUse") None None None);
      Tlv false (Some (Offset OFFSET8 "qmiLocSetSensorPropertiesReqMsgT_v02" "vehicleVelocityRandomWalkSpectralDensity", Offset OFFSET8 "qmiLocSetSensorPropertiesReqMsgT_v02" "vehicleVelocityRandomWalkSpectralDensity_valid")) 22 (Elem [] QMI_IDL_GENERIC_4_BYTE (Offset OFFSET8 "qmiLocSetSensorPropertiesReqMsgT_v02" "vehicleVelocityRandomWalkSpectralDensity") None None None);
      Tlv false (Some (Offset OFFSET8 "qmiLocSetSensorPropertiesReqMsgT_v02" "vehicleAccelRandomWalkSpectralDensity", Offset OFFSET8 "qmiLocSetSensorPropertiesReqMsgT_v02" "vehicleAccelRandomWalkSpectralDensity_valid")) 23 (Elem [] QMI_IDL_GENERIC_4_BYTE (Offset OFFSET8 "qmiLocSetSensorPropertiesReqMsgT_v02" "vehicleAccelRandomWalkSpectralDensity") None None None);
      Tlv false (Some (Offset OFFSET8 "qmiLocSetSensorPropertiesReqMsgT_v02" "vehicleAngleRandomWalkSpectralDensity", Offset OFFSET8 "qmiLocSetSensorPropertiesReqMsgT_v02" "vehicleAngleRandomWalkSpectralDensity_valid")) 24 (Elem [] QMI_IDL_GENERIC_4_BYTE (Offset OFFSET8 "qmiLocSetSensorPropertiesReqMsgT_v02" "vehicleAngleRandomWalkSpectralDensity") None None None);
      Tlv false (Some (Offset OFFSET8 "qmiLocSetSensorPropertiesReqMsgT_v02" "vehicleAngularRateRandomWalkSpectralDensity", Offset OFFSET8 "qmiLocSetSensorPropertiesReqMsgT_v02" "vehicleAngularRateRandomWalkSpectralDensity_valid")) 25 (Elem [] QMI_IDL_GENERIC_4_BYTE (Offset OFFSET8 "qmiLocSetSensorPropertiesReqMsgT_v02" "vehicleAngularRateRandomWalkSpectralDensity") None None None);
      Tlv false (Some (Offset OFFSET8 "qmiLocSetSensorPropertiesReqMsgT_v02" "vehicleOdometryScaleFactorRandomWalkSpectralDensity", Offset OFFSET8 "qmiLocSetSensorPropertiesReqMsgT_v02" "vehicleOdometryScaleFactorRandomWalkSpectralDensity_valid")) 26 (Elem [] QMI_IDL_GENERIC_4_BYTE (Offset OFFSET8 "qmiLocSetSensorPropertiesReqMsgT_v02" "vehicleOdometryScaleFactorRandomWalkSpectralDensity") None None None);
      Tlv true (Some (Offset OFFSET8 "qmiLocSetSensorPropertiesReqMsgT_v02" "vehicleOdometryVariance", Offset OFFSET8 "qmiLocSetSensorPropertiesReqMsgT_v02" "vehicleOdometryVariance_valid")) 27 (Elem [] QMI_IDL_GENERIC_4_BYTE (Offset OFFSET8 "qmiLocSetSensorPropertiesReqMsgT_v02" "vehicleOdometryVariance") None None None) ]);
  ("qmiLocSetSensorPropertiesIndMsgT_data_v02", [
      Tlv false None 1 (Elem [] QMI_IDL_GENERIC_4_BYTE (Offset OFFSET8 "qmiLocSetSensorPropertiesIndMsgT_v02" "status") None None None);
      Tlv true (Some (Offset OFFSET8 "qmiLocSetSensorPropertiesIndMsgT_v02" "failedSensorPropertiesMask", Offset OFFSET8 "qmiLocSetSensorPropertiesIndMsgT_v02" "failedSensorPropertiesMask_valid")) 16 (Elem [] QMI_IDL_GENERIC_4_BYTE (Offset OFFSET8 "qmiLocSetSensorPropertiesIndMsgT_v02" "failedSensorPropertiesMask") None None None) ]);
  ("qmiLocGetSensorPropertiesReqMsgT_data_v02", [
      Tlv true None 1 (Elem [] QMI_IDL_GENERIC_4_BYTE (Offset OFFSET8 "qmiLocGetSensorPropertiesReqMsgT_v02" "getSensorPropertiesMask") None None None) ]);
  ("qmiLocGetSensorPropertiesIndMsgT_data_v02", [
      Tlv false None 1 (Elem [] QMI_IDL_GENERIC_4_BYTE (Offset OFFSET8 "qmiLocGetSensorPropertiesIndMsgT_v02" "status") None None None);
      Tlv false (Some (Offset OFFSET8 "qmiLocGetSensorPropertiesIndMsgT_v02" "gyroBiasVarianceRandomWalk", Offset OFFSET8 "qmiLocGetSensorPropertiesIndMsgT_v02" "gyroBiasVarianceRandomWalk_valid")) 16 (Elem [] QMI_IDL_GENERIC_4_BYTE (Offset OFFSET8 "qmiLocGetSensorPropertiesIndMsgT_v02" "gyroBiasVarianceRandomWalk") None None None);
      Tlv false (Some (Offset OFFSET8 "qmiLocGetSensorPropertiesIndMsgT_v02" "velocityRandomWalkSpectralDensity", Offset OFFSET8 "qmiLocGetSensorPropertiesIndMsgT_v02" "velocityRandomWalkSpectralDensity_valid")) 17 (Elem [] QMI_IDL_GENERIC_4_BYTE (Offset OFFSET8 "qmiLocGetSensorPropertiesIndMsgT_v02" "velocityRandomWalkSpectralDensity") None None None);
      Tlv false (Some (Offset OFFSET8 "qmiLocGetSensorPropertiesIndMsgT_v02" "accelerationRandomWalkSpectralDensity", Offset OFFSET8 "qmiLocGetSensorPropertiesIndMsgT_v02" "accelerationRandomWalkSpectralDensity_valid")) 18 (Elem [] QMI_IDL_GENERIC_4_BYTE (Offset OFFSET8 "qmiLocGetSensorPropertiesIndMsgT_v02" "accelerationRandomWalkSpectralDensity") None None None);
      Tlv false (Some (Offset OFFSET8 "qmiLocGetSensorPropertiesIndMsgT_v02" "angleRandomWalkSpectralDensity", Offset OFFSET8 "qmiLocGetSensorPropertiesIndMsgT_v02" "angleRandomWalkSpectralDensity_valid")) 19 (Elem [] QMI_IDL_GENERIC_4_BYTE (Offset OFFSET8 "qmiLocGetSensorPropertiesIndMsgT_v02" "angleRandomWalkSpectralDensity") None None None);
      Tlv false (Some (Offset OFFSET8 "qmiLocGetSensorPropertiesIndMsgT_v02" "rateRandomWalkSpectralDensity", Offset OFFSET8 "qmiLocGetSensorPropertiesIndMsgT_v02" "rateRandomWalkSpectralDensity_valid")) 20 (Elem [] QMI_IDL_GENERIC_4_BYTE (Offset OFFSET8 "qmiLocGetSensorPropertiesIndMsgT_v02" "rateRandomWalkSpectralDensity") None None None);
      Tlv false (Some (Offset OFFSET8 "qmiLocGetSensorPropertiesIndMsgT_v02" "vehicleDataUse", Offset OFFSET8 "qmiLocGetSensorPropertiesIndMsgT_v02" "vehicleDataUse_valid")) 21 (Elem [] QMI_IDL_GENERIC_8_BYTE (Offset OFFSET8 "qmiLocGetSensorPropertiesIndMsgT_v02" "vehicleDataUse") None None None);
      Tlv false (Some (Offset OFFSET8 "qmiLocGetSensorPropertiesIndMsgT_v02" "vehicleVelocityRandomWalkSpectralDensity", Offset OFFSET8 "qmiLocGetSensorPropertiesIndMsgT_v02" "vehicleVelocityRandomWalkSpectralDensity_valid")) 22 (Elem [] QMI_IDL_GENERIC_4_BYTE (Offset OFFSET8 "qmiLocGetSensorPropertiesIndMsgT_v02" "vehicleVelocityRandomWalkSpectralDensity") None None None);
      Tlv false (Some (Offset OFFSET8 "qmiLocGetSensorPropertiesIndMsgT_v02" "vehicleAccelRandomWalkSpectralDensity", Offset OFFSET8 "qmiLocGetSensorPropertiesIndMsgT_v02" "vehicleAccelRandomWalkSpectralDensity_valid")) 23 (Elem [] QMI_IDL_GENERIC_4_BYTE (Offset OFFSET8 "qmiLocGetSensorPropertiesIndMsgT_v02" "vehicleAccelRandomWalkSpectralDensity") None None None);
      Tlv false (Some (Offset OFFSET8 "qmiLocGetSensorPropertiesIndMsgT_v02" "vehicleAngleRandomWalkSpectralDensity", Offset OFFSET8 "qmiLocGetSensorPropertiesIndMsgT_v02" "vehicleAngleRandomWalkSpectralDensity_valid")) 24 (Elem [] QMI_IDL_GENERIC_4_BYTE (Offset OFFSET8 "qmiLocGetSensorPropertiesIndMsgT_v02" "vehicleAngleRandomWalkSpectralDensity") None None None);
      Tlv false (Some (Offset OFFSET8 "qmiLocGetSensorPropertiesIndMsgT_v02" "vehicleAngularRateRandomWalkSpectralDensity", Offset OFFSET8 "qmiLocGetSensorPropertiesIndMsgT_v02" "vehicleAngularRateRandomWalkSpectralDensity_valid")) 25 (Elem [] QMI_IDL_GENERIC_4_BYTE (Offset OFFSET8 "qmiLocGetSensorPropertiesIndMsgT_v02" "vehicleAngularRateRandomWalkSpectralDensity") None None None);
      Tlv false (Some (Offset OFFSET8 "qmiLocGetSensorPropertiesIndMsgT_v02" "vehicleOdometryScaleFactorRandomWalkSpectralDensity", Offset OFFSET8 "qmiLocGetSensorPropertiesIndMsgT_v02" "vehicleOdometryScaleFactorRandomWalkSpectralDensity_valid")) 26 (Elem [] QMI_IDL_GENERIC_4_BYTE (Offset OFFSET8 "qmiLocGetSensorPropertiesIndMsgT_v02" "vehicleOdometryScaleFactorRandomWalkSpectralDensity") None None None);
      Tlv true (Some (Offset OFFSET8 "qmiLocGetSensorPropertiesIndMsgT_v02" "vehicleOdometryVariance", Offset OFFSET8 "qmiLocGetSensorPropertiesIndMsgT_v02" "vehicleOdometryVariance_valid")) 27 (Elem [] QMI_IDL_GENERIC_4_BYTE (Offset OFFSET8 "qmiLocGetSensorPropertiesIndMsgT_v02" "vehicleOdometryVariance") None None None) ]) ].

Definition message_data_18 : list (string * list tlv) := [
  ("qmiLocSetSensorPerformanceControlConfigReqMsgT_data_v02", [
      Tlv false (Some (Offset OFFSET8 "qmiLocSetSensorPerformanceControlConfigReqMsgT_v02" "performanceControlMode", Offset OFFSET8 "qmiLocSetSensorPerformanceControlConfigReqMsgT_v02" "performanceControlMode_valid")) 16 (Elem [] QMI_IDL_GENERIC_4_BYTE (Offset OFFSET8 "qmiLocSetSensorPerformanceControlConfigReqMsgT_v02" "performanceControlMode") None None None);
      Tlv false (Some (Offset OFFSET8 "qmiLocSetSensorPerformanceControlConfigReqMsgT_v02" "accelSamplingSpec", Offset OFFSET8 "qmiLocSetSensorPerformanceControlConfigReqMsgT_v02" "accelSamplingSpec_valid")) 17 (Elem [] QMI_IDL_AGGREGATE (Offset OFFSET8 "qmiLocSetSensorPerformanceControlConfigReqMsgT_v02" "accelSamplingSpec") None None (Some (0, 25)));
      Tlv false (Some (Offset OFFSET8 "qmiLocSetSensorPerformanceControlConfigReqMsgT_v02" "gyroSamplingSpec", Offset OFFSET8 "qmiLocSetSensorPerformanceControlConfigReqMsgT_v02" "gyroSamplingSpec_valid")) 18 (Elem [] QMI_IDL_AGGREGATE (Offset OFFSET8 "qmiLocSetSensorPerformanceControlConfigReqMsgT_v02" "gyroSamplingSpec") None None (Some (0, 25)));
      Tlv false (Some (Offset OFFSET8 "qmiLocSetSensorPerformanceControlConfigReqMsgT_v02" "algorithmConfig", Offset OFFSET8 "qmiLocSetSensorPerformanceControlConfigReqMsgT_v02" "algorithmConfig_valid")) 19 (Elem [] QMI_IDL_GENERIC_4_BYTE (Offset OFFSET8 "qmiLocSetSensorPerformanceControlConfigReqMsgT_v02" "algorithmConfig") None None None);
      Tlv false (Some (Offset OFFSET8 "qmiLocSetSensorPerformanceControlConfigReqMsgT_v02" "accelSamplingSpecHigh", Offset OFFSET8 "qmiLocSetSensorPerformanceControlConfigReqMsgT_v02" "accelSamplingSpecHigh_valid")) 20 (Elem [] QMI_IDL_AGGREGATE (Offset OFFSET8 "qmiLocSetSensorPerformanceControlConfigReqMsgT_v02" "accelSamplingSpecHigh") None None (Some (0, 25)));
      Tlv true (Some (Offset OFFSET8 "qmiLocSetSensorPerformanceControlConfigReqMsgT_v02" "gyroSamplingSpecHigh", Offset OFFSET8 "qmiLocSetSensorPerformanceControlConfigReqMsgT_v02" "gyroSamplingSpecHigh_valid")) 21 (Elem [] QMI_IDL_AGGREGATE (Offset OFFSET8 "qmiLocSetSensorPerformanceControlConfigReqMsgT_v02" "gyroSamplingSpecHigh") None None (Some (0, 25))) ]);
  ("qmiLocSetSensorPerformanceControlConfigIndMsgT_data_v02", [
      Tlv false None 1 (Elem [] QMI_IDL_GENERIC_4_BYTE (Offset OFFSET8 "qmiLocSetSensorPerformanceControlConfigIndMsgT_v02" "status") None None None);
      Tlv true (Some (Offset OFFSET8 "qmiLocSetSensorPerformanceControlConfigIndMsgT_v02" "failedConfiguration", Offset OFFSET8 "qmiLocSetSensorPerformanceControlConfigIndMsgT_v02" "failedConfiguration_valid")) 16 (Elem [] QMI_IDL_GENERIC_4_BYTE (Offset OFFSET8 "qmiLocSetSensorPerformanceControlConfigIndMsgT_v02" "failedConfiguration") None None None) ]);
  ("qmiLocGetSensorPerformanceControlConfigIndMsgT_data_v02", [
      Tlv false None 1 (Elem [] QMI_IDL_GENERIC_4_BYTE (Offset OFFSET8 "qmiLocGetSensorPerformanceControlConfigIndMsgT_v02" "status") None None None);
      Tlv false (Some (Offset OFFSET8 "qmiLocGetSensorPerformanceControlConfigIndMsgT_v02" "performanceControlMode", Offset OFFSET8 "qmiLocGetSensorPerformanceControlConfigIndMsgT_v02" "performanceControlMode_valid")) 16 (Elem [] QMI_IDL_GENERIC_4_BYTE (Offset OFFSET8 "qmiLocGetSensorPerformanceControlConfigIndMsgT_v02" "performanceControlMode") None None None);
      Tlv false (Some (Offset OFFSET8 "qmiLocGetSensorPerformanceControlConfigIndMsgT_v02" "accelSamplingSpec", Offset OFFSET8 "qmiLocGetSensorPerformanceControlConfigIndMsgT_v02" "accelSamplingSpec_valid")) 17 (Elem [] QMI_IDL_AGGREGATE (Offset OFFSET8 "qmiLocGetSensorPerformanceControlConfigIndMsgT_v02" "accelSamplingSpec") None None (Some (0, 25)));
      Tlv false (Some (Offset OFFSET8 "qmiLocGetSensorPerformanceControlConfigIndMsgT_v02" "gyroSamplingSpec", Offset OFFSET8 "qmiLocGetSensorPerformanceControlConfigIndMsgT_v02" "gyroSamplingSpec_valid")) 18 (Elem [] QMI_IDL_AGGREGATE (Offset OFFSET8 "qmiLocGetSensorPerformanceControlConfigIndMsgT_v02" "gyroSamplingSpec") None None (Some (0, 25)));
      Tlv false (Some (Offset OFFSET8 "qmiLocGetSensorPerformanceControlConfigIndMsgT_v02" "algorithmConfig", Offset OFFSET8 "qmiLocGetSensorPerformanceControlConfigIndMsgT_v02" "algorithmConfig_valid")) 19 (Elem [] QMI_IDL_GENERIC_4_BYTE (Offset OFFSET8 "qmiLocGetSensorPerformanceControlConfigIndMsgT_v02" "algorithmConfig") None None None);
      Tlv false (Some (Offset OFFSET8 "qmiLocGetSensorPerformanceControlConfigIndMsgT_v02" "accelSamplingSpecHigh", Offset OFFSET8 "qmiLocGetSensorPerformanceControlConfigIndMsgT_v02" "accelSamplingSpecHigh_valid")) 20 (Elem [] QMI_IDL_AGGREGATE (Offset OFFSET8 "qmiLocGetSensorPerformanceControlConfigIndMsgT_v02" "accelSamplingSpecHigh") None None (Some (0, 25)));
      Tlv true (Some (Offset OFFSET8 "qmiLocGetSensorPerformanceControlConfigIndMsgT_v02" "gyroSamplingSpecHigh", Offset OFFSET8 "qmiLocGetSensorPerformanceControlConfigIndMsgT_v02" "gyroSamplingSpecHigh_valid")) 21 (Elem [] QMI_IDL_AGGREGATE (Offset OFFSET8 "qmiLocGetSensorPerformanceControlConfigIndMsgT_v02" "gyroSamplingSpecHigh") None None (Some (0, 25))) ]);
  ("qmiLocInjectSuplCertificateReqMsgT_data_v02", [
      Tlv false None 1 (Elem [] QMI_IDL_GENERIC_1_BYTE (Offset OFFSET8 "qmiLocInjectSuplCertificateReqMsgT_v02" "suplCertId") None None None);
      Tlv true None 2 (Elem [IS_ARRAY; IS_VARIABLE_LEN; SZ_IS_16] QMI_IDL_GENERIC_1_BYTE (Offset OFFSET8 "qmiLocInjectSuplCertificateReqMsgT_v02" "suplCertData") (Some (Macro "QMI_LOC_MAX_SUPL_CERT_LENGTH_V02")) (Some (Offset OFFSET8 "qmiLocInjectSuplCertificateReqMsgT_v02" "suplCertData", Offset OFFSET8 "qmiLocInjectSuplCertificateReqMsgT_v02" "suplCertData_len")) None) ]);
  ("qmiLocInjectSuplCertificateIndMsgT_data_v02", [
      Tlv true None 1 (Elem [] QMI_IDL_GENERIC_4_BYTE (Offset OFFSET8 "qmiLocInjectSuplCertificateIndMsgT_v02" "status") None None None) ]);
  ("qmiLocDeleteSuplCertificateReqMsgT_data_v02", [
      Tlv true (Some (Offset OFFSET8 "qmiLocDeleteSuplCertificateReqMsgT_v02" "suplCertId", Offset OFFSET8 "qmiLocDeleteSuplCertificateReqMsgT_v02" "suplCertId_valid")) 16 (Elem [] QMI_IDL_GENERIC_1_BYTE (Offset OFFSET8 "qmiLocDeleteSuplCertificateReqMsgT_v02" "suplCertId") None None None) ]);
  ("qmiLocDeleteSuplCertificateIndMsgT_data_v02", [
      Tlv true None 1 (Elem [] QMI_IDL_GENERIC_4_BYTE (Offset OFFSET8 "qmiLocDeleteSuplCertificateIndMsgT_v02" "status") None None None) ]);
  ("qmiLocSetPositionEngineConfigParametersReqMsgT_data_v02", [
      Tlv false (Some (Offset OFFSET8 "qmiLocSetPositionEngineConfigParametersReqMsgT_v02" "injectedPositionControl", Offset OFFSET8 "qmiLocSetPositionEngineConfigParametersReqMsgT_v02" "injectedPositionControl_valid")) 16 (Elem [] QMI_IDL_GENERIC_1_BYTE (Offset OFFSET8 "qmiLocSetPositionEngineConfigParametersReqMsgT_v02" "injectedPositionControl") None None None);
      Tlv false (Some (Offset OFFSET8 "qmiLocSetPositionEngineConfigParametersReqMsgT_v02" "filterSvUsage", Offset OFFSET8 "qmiLocSetPositionEngineConfigParametersReqMsgT_v02" "filterSvUsage_valid")) 17 (Elem [] QMI_IDL_GENERIC_1_BYTE (Offset OFFSET8 "qmiLocSetPositionEngineConfigParametersReqMsgT_v02" "filterSvUsage") None None None);
      Tlv false (Some (Offset OFFSET8 "qmiLocSetPositionEngineConfigParametersReqMsgT_v02" "storeAssistData", Offset OFFSET8 "qmiLocSetPositionEngineConfigParametersReqMsgT_v02" "storeAssistData_valid")) 18 (Elem [] QMI_IDL_GENERIC_1_BYTE (Offset OFFSET8 "qmiLocSetPositionEngineConfigParametersReqMsgT_v02" "storeAssistData") None None None);
      Tlv true (Some (Offset OFFSET8 "qmiLocSetPositionEngineConfigParametersReqMsgT_v02" "enableFasterTTFF", Offset OFFSET8 "qmiLocSetPositionEngineConfigParametersReqMsgT_v02" "enableFasterTTFF_valid")) 19 (Elem [] QMI_IDL_GENERIC_1_BYTE (Offset OFFSET8 "qmiLocSetPositionEngineConfigParametersReqMsgT_v02" "enableFasterTTFF") None None None) ]) ].

Definition message_data_19 : list (string * list tlv) := [
  ("qmiLocSetPositionEngineConfigParametersIndMsgT_data_v02", [
      Tlv false None 1 (Elem [] QMI_IDL_GENERIC_4_BYTE (Offset OFFSET8 "qmiLocSetPositionEngineConfigParametersIndMsgT_v02" "status") None None None);
      Tlv true (Some (Offset OFFSET8 "qmiLocSetPositionEngineConfigParametersIndMsgT_v02" "failedPositionEngineConfigParamMask", Offset OFFSET8 "qmiLocSetPositionEngineConfigParametersIndMsgT_v02" "failedPositionEngineConfigParamMask_valid")) 16 (Elem [] QMI_IDL_GENERIC_4_BYTE (Offset OFFSET8 "qmiLocSetPositionEngineConfigParametersIndMsgT_v02" "failedPositionEngineConfigParamMask") None None None) ]);
  ("qmiLocGetPositionEngineConfigParametersReqMsgT_data_v02", [
      Tlv true None 1 (Elem [] QMI_IDL_GENERIC_4_BYTE (Offset OFFSET8 "qmiLocGetPositionEngineConfigParametersReqMsgT_v02" "getPositionEngineConfigParamMask") None None None) ]);
  ("qmiLocGetPositionEngineConfigParametersIndMsgT_data_v02", [
      Tlv false None 1 (Elem [] QMI_IDL_GENERIC_4_BYTE (Offset OFFSET8 "qmiLocGetPositionEngineConfigParametersIndMsgT_v02" "status") None None None);
      Tlv false (Some (Offset OFFSET8 "qmiLocGetPositionEngineConfigParametersIndMsgT_v02" "injectedPositionControl", Offset OFFSET8 "qmiLocGetPositionEngineConfigParametersIndMsgT_v02" "injectedPositionControl_valid")) 16 (Elem [] QMI_IDL_GENERIC_1_BYTE (Offset OFFSET8 "qmiLocGetPositionEngineConfigParametersIndMsgT_v02" "injectedPositionControl") None None None);
      Tlv false (Some (Offset OFFSET8 "qmiLocGetPositionEngineConfigParametersIndMsgT_v02" "filterSvUsage", Offset OFFSET8 "qmiLocGetPositionEngineConfigParametersIndMsgT_v02" "filterSvUsage_valid")) 17 (Elem [] QMI_IDL_GENERIC_1_BYTE (Offset OFFSET8 "qmiLocGetPositionEngineConfigParametersIndMsgT_v02" "filterSvUsage") None None None);
      Tlv false (Some (Offset OFFSET8 "qmiLocGetPositionEngineConfigParametersIndMsgT_v02" "storeAssistData", Offset OFFSET8 "qmiLocGetPositionEngineConfigParametersIndMsgT_v02" "storeAssistData_valid")) 18 (Elem [] QMI_IDL_GENERIC_1_BYTE (Offset OFFSET8 "qmiLocGetPositionEngineConfigParametersIndMsgT_v02" "storeAssistData") None None None);
      Tlv true (Some (Offset OFFSET8 "qmiLocGetPositionEngineConfigParametersIndMsgT_v02" "enableFasterTTFF", Offset OFFSET8 "qmiLocGetPositionEngineConfigParametersIndMsgT_v02" "enableFasterTTFF_valid")) 19 (Elem [] QMI_IDL_GENERIC_1_BYTE (Offset OFFSET8 "qmiLocGetPositionEngineConfigParametersIndMsgT_v02" "enableFasterTTFF") None None None) ]);
  ("qmiLocAddCircularGeofenceReqMsgT_data_v02", [
      Tlv false None 1 (Elem [] QMI_IDL_GENERIC_4_BYTE (Offset OFFSET8 "qmiLocAddCircularGeofenceReqMsgT_v02" "transactionId") None None None);
      Tlv false None 2 (Elem [] QMI_IDL_AGGREGATE (Offset OFFSET8 "qmiLocAddCircularGeofenceReqMsgT_v02" "circularGeofenceArgs") None None (Some (0, 43)));
      Tlv false None 3 (Elem [] QMI_IDL_GENERIC_1_BYTE (Offset OFFSET8 "qmiLocAddCircularGeofenceReqMsgT_v02" "breachMask") None None None);
      Tlv false None 4 (Elem [] QMI_IDL_GENERIC_1_BYTE (Offset OFFSET8 "qmiLocAddCircularGeofenceReqMsgT_v02" "includePosition") None None None);
      Tlv false (Some (Offset OFFSET8 "qmiLocAddCircularGeofenceReqMsgT_v02" "responsiveness", Offset OFFSET8 "qmiLocAddCircularGeofenceReqMsgT_v02" "responsiveness_valid")) 16 (Elem [] QMI_IDL_GENERIC_4_BYTE (Offset OFFSET8 "qmiLocAddCircularGeofenceReqMsgT_v02" "responsiveness") None None None);
      Tlv false (Some (Offset OFFSET8 "qmiLocAddCircularGeofenceReqMsgT_v02" "confidence", Offset OFFSET8 "qmiLocAddCircularGeofenceReqMsgT_v02" "confidence_valid")) 17 (Elem [] QMI_IDL_GENERIC_4_BYTE (Offset OFFSET8 "qmiLocAddCircularGeofenceReqMsgT_v02" "confidence") None None None);
      Tlv false (Some (Offset OFFSET8 "qmiLocAddCircularGeofenceReqMsgT_v02" "customResponsivenessValue", Offset OFFSET8 "qmiLocAddCircularGeofenceReqMsgT_v02" "customResponsivenessValue_valid")) 18 (Elem [] QMI_IDL_GENERIC_4_BYTE (Offset OFFSET8 "qmiLocAddCircularGeofenceReqMsgT_v02" "customResponsivenessValue") None None None);
      Tlv false (Some (Offset OFFSET8 "qmiLocAddCircularGeofenceReqMsgT_v02" "dwellTime", Offset OFFSET8 "qmiLocAddCircularGeofenceReqMsgT_v02" "dwellTime_valid")) 19 (Elem [] QMI_IDL_GENERIC_4_BYTE (Offset OFFSET8 "qmiLocAddCircularGeofenceReqMsgT_v02" "dwellTime") None None None);
      Tlv true (Some (Offset OFFSET8 "qmiLocAddCircularGeofenceReqMsgT_v02" "dwellTypeMask", Offset OFFSET8 "qmiLocAddCircularGeofenceReqMsgT_v02" "dwellTypeMask_valid")) 20 (Elem [] QMI_IDL_GENERIC_1_BYTE (Offset OFFSET8 "qmiLocAddCircularGeofenceReqMsgT_v02" "dwellTypeMask") None None None) ]);
  ("qmiLocAddCircularGeofenceIndMsgT_data_v02", [
      Tlv false None 1 (Elem [] QMI_IDL_GENERIC_4_BYTE (Offset OFFSET8 "qmiLocAddCircularGeofenceIndMsgT_v02" "status") None None None);
      Tlv false (Some (Offset OFFSET8 "qmiLocAddCircularGeofenceIndMsgT_v02" "transactionId", Offset OFFSET8 "qmiLocAddCircularGeofenceIndMsgT_v02" "transactionId_valid")) 16 (Elem [] QMI_IDL_GENERIC_4_BYTE (Offset OFFSET8 "qmiLocAddCircularGeofenceIndMsgT_v02" "transactionId") None None None);
      Tlv true (Some (Offset OFFSET8 "qmiLocAddCircularGeofenceIndMsgT_v02" "geofenceId", Offset OFFSET8 "qmiLocAddCircularGeofenceIndMsgT_v02" "geofenceId_valid")) 17 (Elem [] QMI_IDL_GENERIC_4_BYTE (Offset OFFSET8 "qmiLocAddCircularGeofenceIndMsgT_v02" "geofenceId") None None None) ]);
  ("qmiLocDeleteGeofenceReqMsgT_data_v02", [
      Tlv false None 1 (Elem [] QMI_IDL_GENERIC_4_BYTE (Offset OFFSET8 "qmiLocDeleteGeofenceReqMsgT_v02" "geofenceId") None None None);
      Tlv true None 2 (Elem [] QMI_IDL_GENERIC_4_BYTE (Offset OFFSET8 "qmiLocDeleteGeofenceReqMsgT_v02" "transactionId") None None None) ]);
  ("qmiLocDeleteGeofenceIndMsgT_data_v02", [
      Tlv false None 1 (Elem [] QMI_IDL_GENERIC_4_BYTE (Offset OFFSET8 "qmiLocDeleteGeofenceIndMsgT_v02" "status") None None None);
      Tlv false (Some (Offset OFFSET8 "qmiLocDeleteGeofenceIndMsgT_v02" "geofenceId", Offset OFFSET8 "qmiLocDeleteGeofenceIndMsgT_v02" "geofenceId_valid")) 16 (Elem [] QMI_IDL_GENERIC_4_BYTE (Offset OFFSET8 "qmiLocDeleteGeofenceIndMsgT_v02" "geofenceId") None None None);
      Tlv true (Some (Offset OFFSET8 "qmiLocDeleteGeofenceIndMsgT_v02" "transactionId", Offset OFFSET8 "qmiLocDeleteGeofenceIndMsgT_v02" "transactionId_valid")) 17 (Elem [] QMI_IDL_GENERIC_4_BYTE (Offset OFFSET8 "qmiLocDeleteGeofenceIndMsgT_v02" "transactionId") None None None) ]);
  ("qmiLocQueryGeofenceReqMsgT_data_v02", [
      Tlv false None 1 (Elem [] QMI_IDL_GENERIC_4_BYTE (Offset OFFSET8 "qmiLocQueryGeofenceReqMsgT_v02" "geofenceId") None None None);
      Tlv true None 2 (Elem [] QMI_IDL_GENERIC_4_BYTE (Offset OFFSET8 "qmiLocQueryGeofenceReqMsgT_v02" "transactionId") None None None) ]) ].

Definition message_data_20 : list (string * list tlv) := [
  ("qmiLocQueryGeofenceIndMsgT_data_v02", [
      Tlv false None 1 (Elem [] QMI_IDL_GENERIC_4_BYTE (Offset OFFSET8 "qmiLocQueryGeofenceIndMsgT_v02" "status") None None None);
      Tlv false (Some (Offset OFFSET8 "qmiLocQueryGeofenceIndMsgT_v02" "geofenceId", Offset OFFSET8 "qmiLocQueryGeofenceIndMsgT_v02" "geofenceId_valid")) 16 (Elem [] QMI_IDL_GENERIC_4_BYTE (Offset OFFSET8 "qmiLocQueryGeofenceIndMsgT_v02" "geofenceId") None None None);
      Tlv false (Some (Offset OFFSET8 "qmiLocQueryGeofenceIndMsgT_v02" "transactionId", Offset OFFSET8 "qmiLocQueryGeofenceIndMsgT_v02" "transactionId_valid")) 17 (Elem [] QMI_IDL_GENERIC_4_BYTE (Offset OFFSET8 "qmiLocQueryGeofenceIndMsgT_v02" "transactionId") None None None);
      Tlv false (Some (Offset OFFSET8 "qmiLocQueryGeofenceIndMsgT_v02" "geofenceOrigin", Offset OFFSET8 "qmiLocQueryGeofenceIndMsgT_v02" "geofenceOrigin_valid")) 18 (Elem [] QMI_IDL_GENERIC_4_BYTE (Offset OFFSET8 "qmiLocQueryGeofenceIndMsgT_v02" "geofenceOrigin") None None None);
      Tlv false (Some (Offset OFFSET8 "qmiLocQueryGeofenceIndMsgT_v02" "posWrtGeofence", Offset OFFSET8 "qmiLocQueryGeofenceIndMsgT_v02" "posWrtGeofence_valid")) 19 (Elem [] QMI_IDL_GENERIC_4_BYTE (Offset OFFSET8 "qmiLocQueryGeofenceIndMsgT_v02" "posWrtGeofence") None None None);
      Tlv false (Some (Offset OFFSET8 "qmiLocQueryGeofenceIndMsgT_v02" "circularGeofenceArgs", Offset OFFSET8 "qmiLocQueryGeofenceIndMsgT_v02" "circularGeofenceArgs_valid")) 20 (Elem [] QMI_IDL_AGGREGATE (Offset OFFSET8 "qmiLocQueryGeofenceIndMsgT_v02" "circularGeofenceArgs") None None (Some (0, 43)));
      Tlv true (Some (Offset OFFSET8 "qmiLocQueryGeofenceIndMsgT_v02" "geofenceState", Offset OFFSET8 "qmiLocQueryGeofenceIndMsgT_v02" "geofenceState_valid")) 21 (Elem [] QMI_IDL_GENERIC_4_BYTE (Offset OFFSET8 "qmiLocQueryGeofenceIndMsgT_v02" "geofenceState") None None None) ]);
  ("qmiLocSetGeofenceEngineConfigReqMsgT_data_v02", [
      Tlv false None 1 (Elem [] QMI_IDL_GENERIC_4_BYTE (Offset OFFSET8 "qmiLocSetGeofenceEngineConfigReqMsgT_v02" "transactionId") None None None);
      Tlv false (Some (Offset OFFSET8 "qmiLocSetGeofenceEngineConfigReqMsgT_v02" "gnssUnavailableIndicationTimeout", Offset OFFSET8 "qmiLocSetGeofenceEngineConfigReqMsgT_v02" "gnssUnavailableIndicationTimeout_valid")) 16 (Elem [] QMI_IDL_GENERIC_4_BYTE (Offset OFFSET8 "qmiLocSetGeofenceEngineConfigReqMsgT_v02" "gnssUnavailableIndicationTimeout") None None None);
      Tlv false (Some (Offset OFFSET8 "qmiLocSetGeofenceEngineConfigReqMsgT_v02" "maxGeofences", Offset OFFSET8 "qmiLocSetGeofenceEngineConfigReqMsgT_v02" "maxGeofences_valid")) 17 (Elem [] QMI_IDL_GENERIC_4_BYTE (Offset OFFSET8 "qmiLocSetGeofenceEngineConfigReqMsgT_v02" "maxGeofences") None None None);
      Tlv false (Some (Offset OFFSET8 "qmiLocSetGeofenceEngineConfigReqMsgT_v02" "enableMotionDetectionSources", Offset OFFSET8 "qmiLocSetGeofenceEngineConfigReqMsgT_v02" "enableMotionDetectionSources_valid")) 18 (Elem [] QMI_IDL_GENERIC_4_BYTE (Offset OFFSET8 "qmiLocSetGeofenceEngineConfigReqMsgT_v02" "enableMotionDetectionSources") None None None);
      Tlv false (Some (Offset OFFSET8 "qmiLocSetGeofenceEngineConfigReqMsgT_v02" "enableCpiUsage", Offset OFFSET8 "qmiLocSetGeofenceEngineConfigReqMsgT_v02" "enableCpiUsage_valid")) 19 (Elem [] QMI_IDL_GENERIC_1_BYTE (Offset OFFSET8 "qmiLocSetGeofenceEngineConfigReqMsgT_v02" "enableCpiUsage") None None None);
      Tlv false (Some (Offset OFFSET8 "qmiLocSetGeofenceEngineConfigReqMsgT_v02" "gnssPositionSessionTimeout", Offset OFFSET8 "qmiLocSetGeofenceEngineConfigReqMsgT_v02" "gnssPositionSessionTimeout_valid")) 20 (Elem [] QMI_IDL_GENERIC_4_BYTE (Offset OFFSET8 "qmiLocSetGeofenceEngineConfigReqMsgT_v02" "gnssPositionSessionTimeout") None None None);
      Tlv false (Some (Offset OFFSET8 "qmiLocSetGeofenceEngineConfigReqMsgT_v02" "gnssPositionMaxPuncAcceptable", Offset OFFSET8 "qmiLocSetGeofenceEngineConfigReqMsgT_v02" "gnssPositionMaxPuncAcceptable_valid")) 21 (Elem [] QMI_IDL_GENERIC_4_BYTE (Offset OFFSET8 "qmiLocSetGeofenceEngineConfigReqMsgT_v02" "gnssPositionMaxPuncAcceptable") None None None);
      Tlv false (Some (Offset OFFSET8 "qmiLocSetGeofenceEngineConfigReqMsgT_v02" "mediumResponsivenessValue", Offset OFFSET8 "qmiLocSetGeofenceEngineConfigReqMsgT_v02" "mediumResponsivenessValue_valid")) 22 (Elem [] QMI_IDL_GENERIC_4_BYTE (Offset OFFSET8 "qmiLocSetGeofenceEngineConfigReqMsgT_v02" "mediumResponsivenessValue") None None None);
      Tlv false (Some (Offset OFFSET8 "qmiLocSetGeofenceEngineConfigReqMsgT_v02" "chalGnssEnvMinCpiWaitInterval", Offset OFFSET8 "qmiLocSetGeofenceEngineConfigReqMsgT_v02" "chalGnssEnvMinCpiWaitInterval_valid")) 23 (Elem [] QMI_IDL_GENERIC_4_BYTE (Offset OFFSET8 "qmiLocSetGeofenceEngineConfigReqMsgT_v02" "chalGnssEnvMinCpiWaitInterval") None None None);
      Tlv true (Some (Offset OFFSET8 "qmiLocSetGeofenceEngineConfigReqMsgT_v02" "motionStateInfo", Offset OFFSET8 "qmiLocSetGeofenceEngineConfigReqMsgT_v02" "motionStateInfo_valid")) 24 (Elem [IS_ARRAY; IS_VARIABLE_LEN] QMI_IDL_AGGREGATE (Offset OFFSET8 "qmiLocSetGeofenceEngineConfigReqMsgT_v02" "motionStateInfo") (Some (Macro "QMI_LOC_GEOFENCE_MAX_MOTION_STATES_V02")) (Some (Offset OFFSET8 "qmiLocSetGeofenceEngineConfigReqMsgT_v02" "motionStateInfo", Offset OFFSET8 "qmiLocSetGeofenceEngineConfigReqMsgT_v02" "motionStateInfo_len")) (Some (0, 44))) ]);
  ("qmiLocSetGeofenceEngineConfigIndMsgT_data_v02", [
      Tlv false None 1 (Elem [] QMI_IDL_GENERIC_4_BYTE (Offset OFFSET8 "qmiLocSetGeofenceEngineConfigIndMsgT_v02" "status") None None None);
      Tlv true (Some (Offset OFFSET8 "qmiLocSetGeofenceEngineConfigIndMsgT_v02" "transactionId", Offset OFFSET8 "qmiLocSetGeofenceEngineConfigIndMsgT_v02" "transactionId_valid")) 16 (Elem [] QMI_IDL_GENERIC_4_BYTE (Offset OFFSET8 "qmiLocSetGeofenceEngineConfigIndMsgT_v02" "transactionId") None None None) ]);
  ("qmiLocGetGeofenceEngineConfigReqMsgT_data_v02", [
      Tlv true None 1 (Elem [] QMI_IDL_GENERIC_4_BYTE (Offset OFFSET8 "qmiLocGetGeofenceEngineConfigReqMsgT_v02" "transactionId") None None None) ]);
  ("qmiLocGetGeofenceEngineConfigIndMsgT_data_v02", [
      Tlv false None 1 (Elem [] QMI_IDL_GENERIC_4_BYTE (Offset OFFSET8 "qmiLocGetGeofenceEngineConfigIndMsgT_v02" "status") None None None);
      Tlv false (Some (Offset OFFSET8 "qmiLocGetGeofenceEngineConfigIndMsgT_v02" "transactionId", Offset OFFSET8 "qmiLocGetGeofenceEngineConfigIndMsgT_v02" "transactionId_valid")) 16 (Elem [] QMI_IDL_GENERIC_4_BYTE (Offset OFFSET8 "qmiLocGetGeofenceEngineConfigIndMsgT_v02" "transactionId") None None None);
      Tlv false (Some (Offset OFFSET8 "qmiLocGetGeofenceEngineConfigIndMsgT_v02" "gnssUnavailableIndicationTimeout", Offset OFFSET8 "qmiLocGetGeofenceEngineConfigIndMsgT_v02" "gnssUnavailableIndicationTimeout_valid")) 17 (Elem [] QMI_IDL_GENERIC_4_BYTE (Offset OFFSET8 "qmiLocGetGeofenceEngineConfigIndMsgT_v02" "gnssUnavailableIndicationTimeout") None None None);
      Tlv false (Some (Offset OFFSET8 "qmiLocGetGeofenceEngineConfigIndMsgT_v02" "maxGeofences", Offset OFFSET8 "qmiLocGetGeofenceEngineConfigIndMsgT_v02" "maxGeofences_valid")) 18 (Elem [] QMI_IDL_GENERIC_4_BYTE (Offset OFFSET8 "qmiLocGetGeofenceEngineConfigIndMsgT_v02" "maxGeofences") None None None);
      Tlv false (Some (Offset OFFSET8 "qmiLocGetGeofenceEngineConfigIndMsgT_v02" "enabledMotionDetectionSources", Offset OFFSET8 "qmiLocGetGeofenceEngineConfigIndMsgT_v02" "enabledMotionDetectionSources_valid")) 19 (Elem [] QMI_IDL_GENERIC_4_BYTE (Offset OFFSET8 "qmiLocGetGeofenceEngineConfigIndMsgT_v02" "enabledMotionDetectionSources") None None None);
      Tlv true (Some (Offset OFFSET8 "qmiLocGetGeofenceEngineConfigIndMsgT_v02" "enabledCpiUsage", Offset OFFSET8 "qmiLocGetGeofenceEngineConfigIndMsgT_v02" "enabledCpiUsage_valid")) 20 (Elem [] QMI_IDL_GENERIC_1_BYTE (Offset OFFSET8 "qmiLocGetGeofenceEngineConfigIndMsgT_v02" "enabledCpiUsage") None None None) ]) ].

Definition message_data_21 : list (string * list tlv) := [
  ("qmiLocEditGeofenceReqMsgT_data_v02", [
      Tlv false None 1 (Elem [] QMI_IDL_GENERIC_4_BYTE (Offset OFFSET8 "qmiLocEditGeofenceReqMsgT_v02" "geofenceId") None None None);
      Tlv false None 2 (Elem [] QMI_IDL_GENERIC_4_BYTE (Offset OFFSET8 "qmiLocEditGeofenceReqMsgT_v02" "transactionId") None None None);
      Tlv false (Some (Offset OFFSET8 "qmiLocEditGeofenceReqMsgT_v02" "geofenceState", Offset OFFSET8 "qmiLocEditGeofenceReqMsgT_v02" "geofenceState_valid")) 16 (Elem [] QMI_IDL_GENERIC_4_BYTE (Offset OFFSET8 "qmiLocEditGeofenceReqMsgT_v02" "geofenceState") None None None);
      Tlv false (Some (Offset OFFSET8 "qmiLocEditGeofenceReqMsgT_v02" "breachMask", Offset OFFSET8 "qmiLocEditGeofenceReqMsgT_v02" "breachMask_valid")) 17 (Elem [] QMI_IDL_GENERIC_1_BYTE (Offset OFFSET8 "qmiLocEditGeofenceReqMsgT_v02" "breachMask") None None None);
      Tlv true (Some (Offset OFFSET8 "qmiLocEditGeofenceReqMsgT_v02" "responsiveness", Offset OFFSET8 "qmiLocEditGeofenceReqMsgT_v02" "responsiveness_valid")) 18 (Elem [] QMI_IDL_GENERIC_4_BYTE (Offset OFFSET8 "qmiLocEditGeofenceReqMsgT_v02" "responsiveness") None None None) ]);
  ("qmiLocEditGeofenceIndMsgT_data_v02", [
      Tlv false None 1 (Elem [] QMI_IDL_GENERIC_4_BYTE (Offset OFFSET8 "qmiLocEditGeofenceIndMsgT_v02" "status") None None None);
      Tlv false (Some (Offset OFFSET8 "qmiLocEditGeofenceIndMsgT_v02" "geofenceId", Offset OFFSET8 "qmiLocEditGeofenceIndMsgT_v02" "geofenceId_valid")) 16 (Elem [] QMI_IDL_GENERIC_4_BYTE (Offset OFFSET8 "qmiLocEditGeofenceIndMsgT_v02" "geofenceId") None None None);
      Tlv false (Some (Offset OFFSET8 "qmiLocEditGeofenceIndMsgT_v02" "transactionId", Offset OFFSET8 "qmiLocEditGeofenceIndMsgT_v02" "transactionId_valid")) 17 (Elem [] QMI_IDL_GENERIC_4_BYTE (Offset OFFSET8 "qmiLocEditGeofenceIndMsgT_v02" "transactionId") None None None);
      Tlv true (Some (Offset OFFSET8 "qmiLocEditGeofenceIndMsgT_v02" "failedParams", Offset OFFSET8 "qmiLocEditGeofenceIndMsgT_v02" "failedParams_valid")) 18 (Elem [] QMI_IDL_GENERIC_4_BYTE (Offset OFFSET8 "qmiLocEditGeofenceIndMsgT_v02" "failedParams") None None None) ]);
  ("qmiLocEventGetTimeZoneReqIndMsgT_data_v02", [
      Tlv true None 1 (Elem [] QMI_IDL_GENERIC_4_BYTE (Offset OFFSET8 "qmiLocEventGetTimeZoneReqIndMsgT_v02" "status") None None None) ]);
  ("qmiLocInjectTimeZoneInfoReqMsgT_data_v02", [
      Tlv false None 1 (Elem [] QMI_IDL_GENERIC_8_BYTE (Offset OFFSET8 "qmiLocInjectTimeZoneInfoReqMsgT_v02" "timeUtc") None None None);
      Tlv true None 2 (Elem [] QMI_IDL_AGGREGATE (Offset OFFSET8 "qmiLocInjectTimeZoneInfoReqMsgT_v02" "timeZone") None None (Some (0, 45))) ]);
  ("qmiLocInjectTimeZoneInfoIndMsgT_data_v02", [
      Tlv true None 1 (Elem [] QMI_IDL_GENERIC_4_BYTE (Offset OFFSET8 "qmiLocInjectTimeZoneInfoIndMsgT_v02" "status") None None None) ]);
  ("qmiLocGetBestAvailablePositionReqMsgT_data_v02", [
      Tlv false None 1 (Elem [] QMI_IDL_GENERIC_4_BYTE (Offset OFFSET8 "qmiLocGetBestAvailablePositionReqMsgT_v02" "transactionId") None None None);
      Tlv true (Some (Offset OFFSET8 "qmiLocGetBestAvailablePositionReqMsgT_v02" "specialReqType", Offset OFFSET8 "qmiLocGetBestAvailablePositionReqMsgT_v02" "specialReqType_valid")) 16 (Elem [] QMI_IDL_GENERIC_4_BYTE (Offset OFFSET8 "qmiLocGetBestAvailablePositionReqMsgT_v02" "specialReqType") None None None) ]) ].

Definition message_data_22 : list (string * list tlv) := [
  ("qmiLocGetBestAvailablePositionIndMsgT_data_v02", [
      Tlv false None 1 (Elem [] QMI_IDL_GENERIC_4_BYTE (Offset OFFSET8 "qmiLocGetBestAvailablePositionIndMsgT_v02" "status") None None None);
      Tlv false (Some (Offset OFFSET8 "qmiLocGetBestAvailablePositionIndMsgT_v02" "transactionId", Offset OFFSET8 "qmiLocGetBestAvailablePositionIndMsgT_v02" "transactionId_valid")) 16 (Elem [] QMI_IDL_GENERIC_4_BYTE (Offset OFFSET8 "qmiLocGetBestAvailablePositionIndMsgT_v02" "transactionId") None None None);
      Tlv false (Some (Offset OFFSET8 "qmiLocGetBestAvailablePositionIndMsgT_v02" "latitude", Offset OFFSET8 "qmiLocGetBestAvailablePositionIndMsgT_v02" "latitude_valid")) 17 (Elem [] QMI_IDL_GENERIC_8_BYTE (Offset OFFSET8 "qmiLocGetBestAvailablePositionIndMsgT_v02" "latitude") None None None);
      Tlv false (Some (Offset OFFSET8 "qmiLocGetBestAvailablePositionIndMsgT_v02" "longitude", Offset OFFSET8 "qmiLocGetBestAvailablePositionIndMsgT_v02" "longitude_valid")) 18 (Elem [] QMI_IDL_GENERIC_8_BYTE (Offset OFFSET8 "qmiLocGetBestAvailablePositionIndMsgT_v02" "longitude") None None None);
      Tlv false (Some (Offset OFFSET8 "qmiLocGetBestAvailablePositionIndMsgT_v02" "horUncCircular", Offset OFFSET8 "qmiLocGetBestAvailablePositionIndMsgT_v02" "horUncCircular_valid")) 19 (Elem [] QMI_IDL_GENERIC_4_BYTE (Offset OFFSET8 "qmiLocGetBestAvailablePositionIndMsgT_v02" "horUncCircular") None None None);
      Tlv false (Some (Offset OFFSET8 "qmiLocGetBestAvailablePositionIndMsgT_v02" "altitudeWrtEllipsoid", Offset OFFSET8 "qmiLocGetBestAvailablePositionIndMsgT_v02" "altitudeWrtEllipsoid_valid")) 20 (Elem [] QMI_IDL_GENERIC_4_BYTE (Offset OFFSET8 "qmiLocGetBestAvailablePositionIndMsgT_v02" "altitudeWrtEllipsoid") None None None);
      Tlv false (Some (Offset OFFSET8 "qmiLocGetBestAvailablePositionIndMsgT_v02" "vertUnc", Offset OFFSET8 "qmiLocGetBestAvailablePositionIndMsgT_v02" "vertUnc_valid")) 21 (Elem [] QMI_IDL_GENERIC_4_BYTE (Offset OFFSET8 "qmiLocGetBestAvailablePositionIndMsgT_v02" "vertUnc") None None None);
      Tlv false (Some (Offset OFFSET8 "qmiLocGetBestAvailablePositionIndMsgT_v02" "timestampUtc", Offset OFFSET8 "qmiLocGetBestAvailablePositionIndMsgT_v02" "timestampUtc_valid")) 22 (Elem [] QMI_IDL_GENERIC_8_BYTE (Offset OFFSET8 "qmiLocGetBestAvailablePositionIndMsgT_v02" "timestampUtc") None None None);
      Tlv false (Some (Offset OFFSET8 "qmiLocGetBestAvailablePositionIndMsgT_v02" "timeUnc", Offset OFFSET8 "qmiLocGetBestAvailablePositionIndMsgT_v02" "timeUnc_valid")) 23 (Elem [] QMI_IDL_GENERIC_4_BYTE (Offset OFFSET8 "qmiLocGetBestAvailablePositionIndMsgT_v02" "timeUnc") None None None);
      Tlv false (Some (Offset OFFSET8 "qmiLocGetBestAvailablePositionIndMsgT_v02" "horUncEllipseSemiMinor", Offset OFFSET8 "qmiLocGetBestAvailablePositionIndMsgT_v02" "horUncEllipseSemiMinor_valid")) 24 (Elem [] QMI_IDL_GENERIC_4_BYTE (Offset OFFSET8 "qmiLocGetBestAvailablePositionIndMsgT_v02" "horUncEllipseSemiMinor") None None None);
      Tlv false (Some (Offset OFFSET8 "qmiLocGetBestAvailablePositionIndMsgT_v02" "horUncEllipseSemiMajor", Offset OFFSET8 "qmiLocGetBestAvailablePositionIndMsgT_v02" "horUncEllipseSemiMajor_valid")) 25 (Elem [] QMI_IDL_GENERIC_4_BYTE (Offset OFFSET8 "qmiLocGetBestAvailablePositionIndMsgT_v02" "horUncEllipseSemiMajor") None None None);
      Tlv false (Some (Offset OFFSET8 "qmiLocGetBestAvailablePositionIndMsgT_v02" "horUncEllipseOrientAzimuth", Offset OFFSET8 "qmiLocGetBestAvailablePositionIndMsgT_v02" "horUncEllipseOrientAzimuth_valid")) 26 (Elem [] QMI_IDL_GENERIC_4_BYTE (Offset OFFSET8 "qmiLocGetBestAvailablePositionIndMsgT_v02" "horUncEllipseOrientAzimuth") None None None);
      Tlv false (Some (Offset OFFSET8 "qmiLocGetBestAvailablePositionIndMsgT_v02" "horCircularConfidence", Offset OFFSET8 "qmiLocGetBestAvailablePositionIndMsgT_v02" "horCircularConfidence_valid")) 27 (Elem [] QMI_IDL_GENERIC_1_BYTE (Offset OFFSET8 "qmiLocGetBestAvailablePositionIndMsgT_v02" "horCircularConfidence") None None None);
      Tlv false (Some (Offset OFFSET8 "qmiLocGetBestAvailablePositionIndMsgT_v02" "horEllipticalConfidence", Offset OFFSET8 "qmiLocGetBestAvailablePositionIndMsgT_v02" "horEllipticalConfidence_valid")) 28 (Elem [] QMI_IDL_GENERIC_1_BYTE (Offset OFFSET8 "qmiLocGetBestAvailablePositionIndMsgT_v02" "horEllipticalConfidence") None None None);
      Tlv false (Some (Offset OFFSET8 "qmiLocGetBestAvailablePositionIndMsgT_v02" "horReliability", Offset OFFSET8 "qmiLocGetBestAvailablePositionIndMsgT_v02" "horReliability_valid")) 29 (Elem [] QMI_IDL_GENERIC_4_BYTE (Offset OFFSET8 "qmiLocGetBestAvailablePositionIndMsgT_v02" "horReliability") None None None);
      Tlv false (Some (Offset OFFSET8 "qmiLocGetBestAvailablePositionIndMsgT_v02" "horSpeed", Offset OFFSET8 "qmiLocGetBestAvailablePositionIndMsgT_v02" "horSpeed_valid")) 30 (Elem [] QMI_IDL_GENERIC_4_BYTE (Offset OFFSET8 "qmiLocGetBestAvailablePositionIndMsgT_v02" "horSpeed") None None None);
      Tlv false (Some (Offset OFFSET8 "qmiLocGetBestAvailablePositionIndMsgT_v02" "horSpeedUnc", Offset OFFSET8 "qmiLocGetBestAvailablePositionIndMsgT_v02" "horSpeedUnc_valid")) 31 (Elem [] QMI_IDL_GENERIC_4_BYTE (Offset OFFSET8 "qmiLocGetBestAvailablePositionIndMsgT_v02" "horSpeedUnc") None None None);
      Tlv false (Some (Offset OFFSET8 "qmiLocGetBestAvailablePositionIndMsgT_v02" "altitudeWrtMeanSeaLevel", Offset OFFSET8 "qmiLocGetBestAvailablePositionIndMsgT_v02" "altitudeWrtMeanSeaLevel_valid")) 32 (Elem [] QMI_IDL_GENERIC_4_BYTE (Offset OFFSET8 "qmiLocGetBestAvailablePositionIndMsgT_v02" "altitudeWrtMeanSeaLevel") None None None);
      Tlv false (Some (Offset OFFSET8 "qmiLocGetBestAvailablePositionIndMsgT_v02" "vertConfidence", Offset OFFSET8 "qmiLocGetBestAvailablePositionIndMsgT_v02" "vertConfidence_valid")) 33 (Elem [] QMI_IDL_GENERIC_1_BYTE (Offset OFFSET8 "qmiLocGetBestAvailablePositionIndMsgT_v02" "vertConfidence") None None None);
      Tlv false (Some (Offset OFFSET8 "qmiLocGetBestAvailablePositionIndMsgT_v02" "vertReliability", Offset OFFSET8 "qmiLocGetBestAvailablePositionIndMsgT_v02" "vertReliability_valid")) 34 (Elem [] QMI_IDL_GENERIC_4_BYTE (Offset OFFSET8 "qmiLocGetBestAvailablePositionIndMsgT_v02" "vertReliability") None None None);
      Tlv false (Some (Offset OFFSET8 "qmiLocGetBestAvailablePositionIndMsgT_v02" "vertSpeed", Offset OFFSET8 "qmiLocGetBestAvailablePositionIndMsgT_v02" "vertSpeed_valid")) 35 (Elem [] QMI_IDL_GENERIC_4_BYTE (Offset OFFSET8 "qmiLocGetBestAvailablePositionIndMsgT_v02" "vertSpeed") None None None);
      Tlv false (Some (Offset OFFSET8 "qmiLocGetBestAvailablePositionIndMsgT_v02" "vertSpeedUnc", Offset OFFSET8 "qmiLocGetBestAvailablePositionIndMsgT_v02" "vertSpeedUnc_valid")) 36 (Elem [] QMI_IDL_GENERIC_4_BYTE (Offset OFFSET8 "qmiLocGetBestAvailablePositionIndMsgT_v02" "vertSpeedUnc") None None None);
      Tlv false (Some (Offset OFFSET8 "qmiLocGetBestAvailablePositionIndMsgT_v02" "heading", Offset OFFSET8 "qmiLocGetBestAvailablePositionIndMsgT_v02" "heading_valid")) 37 (Elem [] QMI_IDL_GENERIC_4_BYTE (Offset OFFSET8 "qmiLocGetBestAvailablePositionIndMsgT_v02" "heading") None None None);
      Tlv false (Some (Offset OFFSET8 "qmiLocGetBestAvailablePositionIndMsgT_v02" "headingUnc", Offset OFFSET8 "qmiLocGetBestAvailablePositionIndMsgT_v02" "headingUnc_valid")) 38 (Elem [] QMI_IDL_GENERIC_4_BYTE (Offset OFFSET8 "qmiLocGetBestAvailablePositionIndMsgT_v02" "headingUnc") None None None);
      Tlv false (Some (Offset OFFSET8 "qmiLocGetBestAvailablePositionIndMsgT_v02" "magneticDeviation", Offset OFFSET8 "qmiLocGetBestAvailablePositionIndMsgT_v02" "magneticDeviation_valid")) 39 (Elem [] QMI_IDL_GENERIC_4_BYTE (Offset OFFSET8 "qmiLocGetBestAvailablePositionIndMsgT_v02" "magneticDeviation") None None None);
      Tlv false (Some (Offset OFFSET8 "qmiLocGetBestAvailablePositionIndMsgT_v02" "technologyMask", Offset OFFSET8 "qmiLocGetBestAvailablePositionIndMsgT_v02" "technologyMask_valid")) 40 (Elem [] QMI_IDL_GENERIC_4_BYTE (Offset OFFSET8 "qmiLocGetBestAvailablePositionIndMsgT_v02" "technologyMask") None None None);
      Tlv false (Some (Offset OFFSET8 "qmiLocGetBestAvailablePositionIndMsgT_v02" "DOP", Offset OFFSET8 "qmiLocGetBestAvailablePositionIndMsgT_v02" "DOP_valid")) 41 (Elem [] QMI_IDL_AGGREGATE (Offset OFFSET8 "qmiLocGetBestAvailablePositionIndMsgT_v02" "DOP") None None (Some (0, 3)));
      Tlv false (Some (Offset OFFSET16RELATIVE "qmiLocGetBestAvailablePositionIndMsgT_v02" "gpsTime", Offset OFFSET16RELATIVE "qmiLocGetBestAvailablePositionIndMsgT_v02" "gpsTime_valid")) 42 (Elem [OFFSET_IS_16] QMI_IDL_AGGREGATE (Offset OFFSET16ARRAY "qmiLocGetBestAvailablePositionIndMsgT_v02" "gpsTime") None None (Some (0, 2)));
      Tlv false (Some (Offset OFFSET16RELATIVE "qmiLocGetBestAvailablePositionIndMsgT_v02" "timeSrc", Offset OFFSET16RELATIVE "qmiLocGetBestAvailablePositionIndMsgT_v02" "timeSrc_valid")) 43 (Elem [OFFSET_IS_16] QMI_IDL_GENERIC_4_BYTE (Offset OFFSET16ARRAY "qmiLocGetBestAvailablePositionIndMsgT_v02" "timeSrc") None None None);
      Tlv false (Some (Offset OFFSET16RELATIVE "qmiLocGetBestAvailablePositionIndMsgT_v02" "sensorDataUsage", Offset OFFSET16RELATIVE "qmiLocGetBestAvailablePositionIndMsgT_v02" "sensorDataUsage_valid")) 44 (Elem [OFFSET_IS_16] QMI_IDL_AGGREGATE (Offset OFFSET16ARRAY "qmiLocGetBestAvailablePositionIndMsgT_v02" "sensorDataUsage") None None (Some (0, 5)));
      Tlv false (Some (Offset OFFSET16RELATIVE "qmiLocGetBestAvailablePositionIndMsgT_v02" "gnssSvUsedList", Offset OFFSET16RELATIVE "qmiLocGetBestAvailablePositionIndMsgT_v02" "gnssSvUsedList_valid")) 45 (Elem [IS_ARRAY; IS_VARIABLE_LEN; OFFSET_IS_16] QMI_IDL_GENERIC_2_BYTE (Offset OFFSET16ARRAY "qmiLocGetBestAvailablePositionIndMsgT_v02" "gnssSvUsedList") (Some (Macro "QMI_LOC_MAX_SV_USED_LIST_LENGTH_V02")) (Some (Offset OFFSET16RELATIVE "qmiLocGetBestAvailablePositionIndMsgT_v02" "gnssSvUsedList", Offset OFFSET16RELATIVE "qmiLocGetBestAvailablePositionIndMsgT_v02" "gnssSvUsedList_len")) None);
      Tlv false (Some (Offset OFFSET16RELATIVE "qmiLocGetBestAvailablePositionIndMsgT_v02" "extDOP", Offset OFFSET16RELATIVE "qmiLocGetBestAvailablePositionIndMsgT_v02" "extDOP_valid")) 46 (Elem [OFFSET_IS_16] QMI_IDL_AGGREGATE (Offset OFFSET16ARRAY "qmiLocGetBestAvailablePositionIndMsgT_v02" "extDOP") None None (Some (0, 4)));
      Tlv false (Some (Offset OFFSET16RELATIVE "qmiLocGetBestAvailablePositionIndMsgT_v02" "spoofReportMask", Offset OFFSET16RELATIVE "qmiLocGetBestAvailablePositionIndMsgT_v02" "spoofReportMask_valid")) 47 (Elem [OFFSET_IS_16] QMI_IDL_GENERIC_8_BYTE (Offset OFFSET16ARRAY "qmiLocGetBestAvailablePositionIndMsgT_v02" "spoofReportMask") None None None);
      Tlv false (Some (Offset OFFSET16RELATIVE "qmiLocGetBestAvailablePositionIndMsgT_v02" "expandedGnssSvUsedList", Offset OFFSET16RELATIVE "qmiLocGetBestAvailablePositionIndMsgT_v02" "expandedGnssSvUsedList_valid")) 48 (Elem [IS_ARRAY; IS_VARIABLE_LEN; OFFSET_IS_16] QMI_IDL_GENERIC_2_BYTE (Offset OFFSET16ARRAY "qmiLocGetBestAvailablePositionIndMsgT_v02" "expandedGnssSvUsedList") (Some (Macro "QMI_LOC_EXPANDED_SV_INFO_LIST_MAX_SIZE_V02")) (Some (Offset OFFSET16RELATIVE "qmiLocGetBestAvailablePositionIndMsgT_v02" "expandedGnssSvUsedList", Offset OFFSET16RELATIVE "qmiLocGetBestAvailablePositionIndMsgT_v02" "expandedGnssSvUsedList_len")) None);
      Tlv true (Some (Offset OFFSET16RELATIVE "qmiLocGetBestAvailablePositionIndMsgT_v02" "gnssSvUsedSignalTypeList", Offset OFFSET16RELATIVE "qmiLocGetBestAvailablePositionIndMsgT_v02" "gnssSvUsedSignalTypeList_valid")) 49 (Elem [IS_ARRAY; IS_VARIABLE_LEN; OFFSET_IS_16] QMI_IDL_GENERIC_8_BYTE (Offset OFFSET16ARRAY "qmiLocGetBestAvailablePositionIndMsgT_v02" "gnssSvUsedSignalTypeList") (Some (Macro "QMI_LOC_EXPANDED_SV_INFO_LIST_MAX_SIZE_V02")) (Some (Offset OFFSET16RELATIVE "qmiLocGetBestAvailablePositionIndMsgT_v02" "gnssSvUsedSignalTypeList", Offset OFFSET16RELATIVE "qmiLocGetBestAvailablePositionIndMsgT_v02" "gnssSvUsedSignalTypeList_len")) None) ]) ].

Definition message_data_23 : list (string * list tlv) := [
  ("qmiLocInjectMotionDataReqMsgT_data_v02", [
      Tlv true None 1 (Elem [] QMI_IDL_AGGREGATE (Offset OFFSET8 "qmiLocInjectMotionDataReqMsgT_v02" "motion_data") None None (Some (0, 46))) ]);
  ("qmiLocInjectMotionDataIndMsgT_data_v02", [
      Tlv true None 1 (Elem [] QMI_IDL_GENERIC_4_BYTE (Offset OFFSET8 "qmiLocInjectMotionDataIndMsgT_v02" "status") None None None) ]);
  ("qmiLocGetNiGeofenceIdListReqMsgT_data_v02", [
      Tlv true None 1 (Elem [] QMI_IDL_GENERIC_4_BYTE (Offset OFFSET8 "qmiLocGetNiGeofenceIdListReqMsgT_v02" "transactionId") None None None) ]);
  ("qmiLocGetNiGeofenceIdListIndMsgT_data_v02", [
      Tlv false None 1 (Elem [] QMI_IDL_GENERIC_4_BYTE (Offset OFFSET8 "qmiLocGetNiGeofenceIdListIndMsgT_v02" "status") None None None);
      Tlv false (Some (Offset OFFSET8 "qmiLocGetNiGeofenceIdListIndMsgT_v02" "transactionId", Offset OFFSET8 "qmiLocGetNiGeofenceIdListIndMsgT_v02" "transactionId_valid")) 16 (Elem [] QMI_IDL_GENERIC_4_BYTE (Offset OFFSET8 "qmiLocGetNiGeofenceIdListIndMsgT_v02" "transactionId") None None None);
      Tlv true (Some (Offset OFFSET8 "qmiLocGetNiGeofenceIdListIndMsgT_v02" "niGeofenceIdList", Offset OFFSET8 "qmiLocGetNiGeofenceIdListIndMsgT_v02" "niGeofenceIdList_valid")) 17 (Elem [IS_ARRAY; IS_VARIABLE_LEN] QMI_IDL_GENERIC_4_BYTE (Offset OFFSET8 "qmiLocGetNiGeofenceIdListIndMsgT_v02" "niGeofenceIdList") (Some (Macro "QMI_LOC_MAX_NI_GEOFENCE_ID_LIST_LENGTH_V02")) (Some (Offset OFFSET8 "qmiLocGetNiGeofenceIdListIndMsgT_v02" "niGeofenceIdList", Offset OFFSET8 "qmiLocGetNiGeofenceIdListIndMsgT_v02" "niGeofenceIdList_len")) None) ]);
  ("qmiLocInjectGSMCellInfoReqMsgT_data_v02", [
      Tlv false None 1 (Elem [] QMI_IDL_AGGREGATE (Offset OFFSET8 "qmiLocInjectGSMCellInfoReqMsgT_v02" "gsmCellId") None None (Some (0, 47)));
      Tlv false None 2 (Elem [] QMI_IDL_GENERIC_1_BYTE (Offset OFFSET8 "qmiLocInjectGSMCellInfoReqMsgT_v02" "roamingStatus") None None None);
      Tlv true (Some (Offset OFFSET8 "qmiLocInjectGSMCellInfoReqMsgT_v02" "timingAdvance", Offset OFFSET8 "qmiLocInjectGSMCellInfoReqMsgT_v02" "timingAdvance_valid")) 16 (Elem [] QMI_IDL_GENERIC_4_BYTE (Offset OFFSET8 "qmiLocInjectGSMCellInfoReqMsgT_v02" "timingAdvance") None None None) ]);
  ("qmiLocInjectGSMCellInfoIndMsgT_data_v02", [
      Tlv true None 1 (Elem [] QMI_IDL_GENERIC_4_BYTE (Offset OFFSET8 "qmiLocInjectGSMCellInfoIndMsgT_v02" "status") None None None) ]);
  ("qmiLocInjectWCDMACellInfoReqMsgT_data_v02", [
      Tlv false None 1 (Elem [] QMI_IDL_AGGREGATE (Offset OFFSET8 "qmiLocInjectWCDMACellInfoReqMsgT_v02" "wcdmaCellId") None None (Some (0, 48)));
      Tlv false None 2 (Elem [] QMI_IDL_GENERIC_4_BYTE (Offset OFFSET8 "qmiLocInjectWCDMACellInfoReqMsgT_v02" "roamingStatus") None None None);
      Tlv false (Some (Offset OFFSET8 "qmiLocInjectWCDMACellInfoReqMsgT_v02" "freq", Offset OFFSET8 "qmiLocInjectWCDMACellInfoReqMsgT_v02" "freq_valid")) 16 (Elem [] QMI_IDL_GENERIC_4_BYTE (Offset OFFSET8 "qmiLocInjectWCDMACellInfoReqMsgT_v02" "freq") None None None);
      Tlv true (Some (Offset OFFSET8 "qmiLocInjectWCDMACellInfoReqMsgT_v02" "psc", Offset OFFSET8 "qmiLocInjectWCDMACellInfoReqMsgT_v02" "psc_valid")) 17 (Elem [] QMI_IDL_GENERIC_4_BYTE (Offset OFFSET8 "qmiLocInjectWCDMACellInfoReqMsgT_v02" "psc") None None None) ]);
  ("qmiLocInjectWCDMACellInfoIndMsgT_data_v02", [
      Tlv true None 1 (Elem [] QMI_IDL_GENERIC_4_BYTE (Offset OFFSET8 "qmiLocInjectWCDMACellInfoIndMsgT_v02" "status") None None None) ]);
  ("qmiLocInjectTDSCDMACellInfoReqMsgT_data_v02", [
      Tlv false None 1 (Elem [] QMI_IDL_AGGREGATE (Offset OFFSET8 "qmiLocInjectTDSCDMACellInfoReqMsgT_v02" "tdscdmaCellId") None None (Some (0, 49)));
      Tlv false None 2 (Elem [] QMI_IDL_GENERIC_4_BYTE (Offset OFFSET8 "qmiLocInjectTDSCDMACellInfoReqMsgT_v02" "roamingStatus") None None None);
      Tlv true (Some (Offset OFFSET8 "qmiLocInjectTDSCDMACellInfoReqMsgT_v02" "freq", Offset OFFSET8 "qmiLocInjectTDSCDMACellInfoReqMsgT_v02" "freq_valid")) 16 (Elem [] QMI_IDL_GENERIC_4_BYTE (Offset OFFSET8 "qmiLocInjectTDSCDMACellInfoReqMsgT_v02" "freq") None None None) ]);
  ("qmiLocInjectTDSCDMACellInfoIndMsgT_data_v02", [
      Tlv true None 1 (Elem [] QMI_IDL_GENERIC_4_BYTE (Offset OFFSET8 "qmiLocInjectTDSCDMACellInfoIndMsgT_v02" "status") None None None) ]);
  ("qmiLocInjectSubscriberIDReqMsgT_data_v02", [
      Tlv false (Some (Offset OFFSET8 "qmiLocInjectSubscriberIDReqMsgT_v02" "preferredIMSI", Offset OFFSET8 "qmiLocInjectSubscriberIDReqMsgT_v02" "preferredIMSI_valid")) 16 (Elem [] QMI_IDL_GENERIC_8_BYTE (Offset OFFSET8 "qmiLocInjectSubscriberIDReqMsgT_v02" "preferredIMSI") None None None);
      Tlv true (Some (Offset OFFSET8 "qmiLocInjectSubscriberIDReqMsgT_v02" "preferredMSISDN", Offset OFFSET8 "qmiLocInjectSubscriberIDReqMsgT_v02" "preferredMSISDN_valid")) 17 (Elem [] QMI_IDL_GENERIC_8_BYTE (Offset OFFSET8 "qmiLocInjectSubscriberIDReqMsgT_v02" "preferredMSISDN") None None None) ]);
  ("qmiLocInjectSubscriberIDIndMsgT_data_v02", [
      Tlv true None 1 (Elem [] QMI_IDL_GENERIC_4_BYTE (Offset OFFSET8 "qmiLocInjectSubscriberIDIndMsgT_v02" "status") None None None) ]);
  ("qmiLocInjectNetworkInitiatedMessageReqMsgT_data_v02", [
      Tlv false None 1 (Elem [] QMI_IDL_GENERIC_4_BYTE (Offset OFFSET8 "qmiLocInjectNetworkInitiatedMessageReqMsgT_v02" "injectedNIMessageType") None None None);
      Tlv true None 2 (Elem [IS_ARRAY; IS_VARIABLE_LEN; SZ_IS_16] QMI_IDL_GENERIC_1_BYTE (Offset OFFSET8 "qmiLocInjectNetworkInitiatedMessageReqMsgT_v02" "injectedNIMessage") (Some (Macro "QMI_LOC_MAX_INJECTED_NETWORK_INITIATED_MESSAGE_LENGTH_V02")) (Some (Offset OFFSET8 "qmiLocInjectNetworkInitiatedMessageReqMsgT_v02" "injectedNIMessage", Offset OFFSET8 "qmiLocInjectNetworkInitiatedMessageReqMsgT_v02" "injectedNIMessage_len")) None) ]);
  ("qmiLocInjectNetworkInitiatedMessageIndMsgT_data_v02", [
      Tlv true None 1 (Elem [] QMI_IDL_GENERIC_4_BYTE (Offset OFFSET8 "qmiLocInjectNetworkInitiatedMessageIndMsgT_v02" "status") None None None) ]) ].

Definition message_data_24 : list (string * list tlv) := [
  ("qmiLocWWANOutOfServiceNotificationIndMsgT_data_v02", [
      Tlv true None 1 (Elem [] QMI_IDL_GENERIC_4_BYTE (Offset OFFSET8 "qmiLocWWANOutOfServiceNotificationIndMsgT_v02" "status") None None None) ]);
  ("qmiLocPedometerReportReqMsgT_data_v02", [
      Tlv false None 1 (Elem [] QMI_IDL_GENERIC_4_BYTE (Offset OFFSET8 "qmiLocPedometerReportReqMsgT_v02" "timeSource") None None None);
      Tlv false None 2 (Elem [] QMI_IDL_GENERIC_4_BYTE (Offset OFFSET8 "qmiLocPedometerReportReqMsgT_v02" "timestamp") None None None);
      Tlv false None 3 (Elem [] QMI_IDL_GENERIC_4_BYTE (Offset OFFSET8 "qmiLocPedometerReportReqMsgT_v02" "timeInterval") None None None);
      Tlv false None 4 (Elem [] QMI_IDL_GENERIC_4_BYTE (Offset OFFSET8 "qmiLocPedometerReportReqMsgT_v02" "stepCount") None None None);
      Tlv false (Some (Offset OFFSET8 "qmiLocPedometerReportReqMsgT_v02" "stepConfidence", Offset OFFSET8 "qmiLocPedometerReportReqMsgT_v02" "stepConfidence_valid")) 16 (Elem [] QMI_IDL_GENERIC_1_BYTE (Offset OFFSET8 "qmiLocPedometerReportReqMsgT_v02" "stepConfidence") None None None);
      Tlv false (Some (Offset OFFSET8 "qmiLocPedometerReportReqMsgT_v02" "stepCountUncertainty", Offset OFFSET8 "qmiLocPedometerReportReqMsgT_v02" "stepCountUncertainty_valid")) 17 (Elem [] QMI_IDL_GENERIC_4_BYTE (Offset OFFSET8 "qmiLocPedometerReportReqMsgT_v02" "stepCountUncertainty") None None None);
      Tlv true (Some (Offset OFFSET8 "qmiLocPedometerReportReqMsgT_v02" "stepRate", Offset OFFSET8 "qmiLocPedometerReportReqMsgT_v02" "stepRate_valid")) 18 (Elem [] QMI_IDL_GENERIC_4_BYTE (Offset OFFSET8 "qmiLocPedometerReportReqMsgT_v02" "stepRate") None None None) ]);
  ("qmiLocPedometerReportIndMsgT_data_v02", [
      Tlv true None 1 (Elem [] QMI_IDL_GENERIC_4_BYTE (Offset OFFSET8 "qmiLocPedometerReportIndMsgT_v02" "status") None None None) ]);
  ("qmiLocGetBatchSizeReqMsgT_data_v02", [
      Tlv false None 1 (Elem [] QMI_IDL_GENERIC_4_BYTE (Offset OFFSET8 "qmiLocGetBatchSizeReqMsgT_v02" "transactionId") None None None);
      Tlv false None 2 (Elem [] QMI_IDL_GENERIC_4_BYTE (Offset OFFSET8 "qmiLocGetBatchSizeReqMsgT_v02" "batchSize") None None None);
      Tlv true (Some (Offset OFFSET8 "qmiLocGetBatchSizeReqMsgT_v02" "batchType", Offset OFFSET8 "qmiLocGetBatchSizeReqMsgT_v02" "batchType_valid")) 16 (Elem [] QMI_IDL_GENERIC_4_BYTE (Offset OFFSET8 "qmiLocGetBatchSizeReqMsgT_v02" "batchType") None None None) ]);
  ("qmiLocGetBatchSizeIndMsgT_data_v02", [
      Tlv false None 1 (Elem [] QMI_IDL_GENERIC_4_BYTE (Offset OFFSET8 "qmiLocGetBatchSizeIndMsgT_v02" "status") None None None);
      Tlv false None 2 (Elem [] QMI_IDL_GENERIC_4_BYTE (Offset OFFSET8 "qmiLocGetBatchSizeIndMsgT_v02" "transactionId") None None None);
      Tlv true None 3 (Elem [] QMI_IDL_GENERIC_4_BYTE (Offset OFFSET8 "qmiLocGetBatchSizeIndMsgT_v02" "batchSize") None None None) ]);
  ("qmiLocStartBatchingReqMsgT_data_v02", [
      Tlv false (Some (Offset OFFSET8 "qmiLocStartBatchingReqMsgT_v02" "minInterval", Offset OFFSET8 "qmiLocStartBatchingReqMsgT_v02" "minInterval_valid")) 16 (Elem [] QMI_IDL_GENERIC_4_BYTE (Offset OFFSET8 "qmiLocStartBatchingReqMsgT_v02" "minInterval") None None None);
      Tlv false (Some (Offset OFFSET8 "qmiLocStartBatchingReqMsgT_v02" "horizontalAccuracyLevel", Offset OFFSET8 "qmiLocStartBatchingReqMsgT_v02" "horizontalAccuracyLevel_valid")) 17 (Elem [] QMI_IDL_GENERIC_4_BYTE (Offset OFFSET8 "qmiLocStartBatchingReqMsgT_v02" "horizontalAccuracyLevel") None None None);
      Tlv false (Some (Offset OFFSET8 "qmiLocStartBatchingReqMsgT_v02" "fixSessionTimeout", Offset OFFSET8 "qmiLocStartBatchingReqMsgT_v02" "fixSessionTimeout_valid")) 18 (Elem [] QMI_IDL_GENERIC_4_BYTE (Offset OFFSET8 "qmiLocStartBatchingReqMsgT_v02" "fixSessionTimeout") None None None);
      Tlv false (Some (Offset OFFSET8 "qmiLocStartBatchingReqMsgT_v02" "minDistance", Offset OFFSET8 "qmiLocStartBatchingReqMsgT_v02" "minDistance_valid")) 19 (Elem [] QMI_IDL_GENERIC_4_BYTE (Offset OFFSET8 "qmiLocStartBatchingReqMsgT_v02" "minDistance") None None None);
      Tlv false (Some (Offset OFFSET8 "qmiLocStartBatchingReqMsgT_v02" "batchAllPos", Offset OFFSET8 "qmiLocStartBatchingReqMsgT_v02" "batchAllPos_valid")) 20 (Elem [] QMI_IDL_GENERIC_1_BYTE (Offset OFFSET8 "qmiLocStartBatchingReqMsgT_v02" "batchAllPos") None None None);
      Tlv true (Some (Offset OFFSET8 "qmiLocStartBatchingReqMsgT_v02" "requestId", Offset OFFSET8 "qmiLocStartBatchingReqMsgT_v02" "requestId_valid")) 21 (Elem [] QMI_IDL_GENERIC_4_BYTE (Offset OFFSET8 "qmiLocStartBatchingReqMsgT_v02" "requestId") None None None) ]);
  ("qmiLocStartBatchingIndMsgT_data_v02", [
      Tlv false None 1 (Elem [] QMI_IDL_GENERIC_4_BYTE (Offset OFFSET8 "qmiLocStartBatchingIndMsgT_v02" "status") None None None);
      Tlv true (Some (Offset OFFSET8 "qmiLocStartBatchingIndMsgT_v02" "requestId", Offset OFFSET8 "qmiLocStartBatchingIndMsgT_v02" "requestId_valid")) 16 (Elem [] QMI_IDL_GENERIC_4_BYTE (Offset OFFSET8 "qmiLocStartBatchingIndMsgT_v02" "requestId") None None None) ]);
  ("qmiLocEventBatchFullIndMsgT_data_v02", [
      Tlv false None 1 (Elem [] QMI_IDL_GENERIC_4_BYTE (Offset OFFSET8 "qmiLocEventBatchFullIndMsgT_v02" "batchCount") None None None);
      Tlv false (Some (Offset OFFSET8 "qmiLocEventBatchFullIndMsgT_v02" "batchType", Offset OFFSET8 "qmiLocEventBatchFullIndMsgT_v02" "batchType_valid")) 16 (Elem [] QMI_IDL_GENERIC_4_BYTE (Offset OFFSET8 "qmiLocEventBatchFullIndMsgT_v02" "batchType") None None None);
      Tlv false (Some (Offset OFFSET8 "qmiLocEventBatchFullIndMsgT_v02" "accumulatedDistance", Offset OFFSET8 "qmiLocEventBatchFullIndMsgT_v02" "accumulatedDistance_valid")) 17 (Elem [] QMI_IDL_GENERIC_4_BYTE (Offset OFFSET8 "qmiLocEventBatchFullIndMsgT_v02" "accumulatedDistance") None None None);
      Tlv true (Some (Offset OFFSET8 "qmiLocEventBatchFullIndMsgT_v02" "batchedPosition", Offset OFFSET8 "qmiLocEventBatchFullIndMsgT_v02" "batchedPosition_valid")) 18 (Elem [] QMI_IDL_GENERIC_4_BYTE (Offset OFFSET8 "qmiLocEventBatchFullIndMsgT_v02" "batchedPosition") None None None) ]);
  ("qmiLocEventLiveBatchedPositionReportIndMsgT_data_v02", [
      Tlv true None 1 (Elem [] QMI_IDL_AGGREGATE (Offset OFFSET8 "qmiLocEventLiveBatchedPositionReportIndMsgT_v02" "liveBatchedReport") None None (Some (0, 50))) ]) ].

Definition message_data_25 : list (string * list tlv) := [
  ("qmiLocReadFromBatchReqMsgT_data_v02", [
      Tlv false None 1 (Elem [] QMI_IDL_GENERIC_4_BYTE (Offset OFFSET8 "qmiLocReadFromBatchReqMsgT_v02" "numberOfEntries") None None None);
      Tlv false None 2 (Elem [] QMI_IDL_GENERIC_4_BYTE (Offset OFFSET8 "qmiLocReadFromBatchReqMsgT_v02" "transactionId") None None None);
      Tlv true (Some (Offset OFFSET8 "qmiLocReadFromBatchReqMsgT_v02" "batchType", Offset OFFSET8 "qmiLocReadFromBatchReqMsgT_v02" "batchType_valid")) 16 (Elem [] QMI_IDL_GENERIC_4_BYTE (Offset OFFSET8 "qmiLocReadFromBatchReqMsgT_v02" "batchType") None None None) ]);
  ("qmiLocReadFromBatchIndMsgT_data_v02", [
      Tlv false None 1 (Elem [] QMI_IDL_GENERIC_4_BYTE (Offset OFFSET8 "qmiLocReadFromBatchIndMsgT_v02" "status") None None None);
      Tlv false None 2 (Elem [] QMI_IDL_GENERIC_4_BYTE (Offset OFFSET8 "qmiLocReadFromBatchIndMsgT_v02" "transactionId") None None None);
      Tlv false (Some (Offset OFFSET8 "qmiLocReadFromBatchIndMsgT_v02" "numberOfEntries", Offset OFFSET8 "qmiLocReadFromBatchIndMsgT_v02" "numberOfEntries_valid")) 16 (Elem [] QMI_IDL_GENERIC_4_BYTE (Offset OFFSET8 "qmiLocReadFromBatchIndMsgT_v02" "numberOfEntries") None None None);
      Tlv true (Some (Offset OFFSET8 "qmiLocReadFromBatchIndMsgT_v02" "batchedReportList", Offset OFFSET8 "qmiLocReadFromBatchIndMsgT_v02" "batchedReportList_valid")) 17 (Elem [IS_ARRAY; IS_VARIABLE_LEN] QMI_IDL_AGGREGATE (Offset OFFSET8 "qmiLocReadFromBatchIndMsgT_v02" "batchedReportList") (Some (Macro "QMI_LOC_READ_FROM_BATCH_MAX_SIZE_V02")) (Some (Offset OFFSET8 "qmiLocReadFromBatchIndMsgT_v02" "batchedReportList", Offset OFFSET8 "qmiLocReadFromBatchIndMsgT_v02" "batchedReportList_len")) (Some (0, 50))) ]);
  ("qmiLocStopBatchingReqMsgT_data_v02", [
      Tlv false None 1 (Elem [] QMI_IDL_GENERIC_4_BYTE (Offset OFFSET8 "qmiLocStopBatchingReqMsgT_v02" "transactionId") None None None);
      Tlv false (Some (Offset OFFSET8 "qmiLocStopBatchingReqMsgT_v02" "requestId", Offset OFFSET8 "qmiLocStopBatchingReqMsgT_v02" "requestId_valid")) 16 (Elem [] QMI_IDL_GENERIC_4_BYTE (Offset OFFSET8 "qmiLocStopBatchingReqMsgT_v02" "requestId") None None None);
      Tlv true (Some (Offset OFFSET8 "qmiLocStopBatchingReqMsgT_v02" "batchType", Offset OFFSET8 "qmiLocStopBatchingReqMsgT_v02" "batchType_valid")) 17 (Elem [] QMI_IDL_GENERIC_4_BYTE (Offset OFFSET8 "qmiLocStopBatchingReqMsgT_v02" "batchType") None None None) ]);
  ("qmiLocStopBatchingIndMsgT_data_v02", [
      Tlv false None 1 (Elem [] QMI_IDL_GENERIC_4_BYTE (Offset OFFSET8 "qmiLocStopBatchingIndMsgT_v02" "status") None None None);
      Tlv false None 2 (Elem [] QMI_IDL_GENERIC_4_BYTE (Offset OFFSET8 "qmiLocStopBatchingIndMsgT_v02" "transactionId") None None None);
      Tlv true (Some (Offset OFFSET8 "qmiLocStopBatchingIndMsgT_v02" "requestId", Offset OFFSET8 "qmiLocStopBatchingIndMsgT_v02" "requestId_valid")) 16 (Elem [] QMI_IDL_GENERIC_4_BYTE (Offset OFFSET8 "qmiLocStopBatchingIndMsgT_v02" "requestId") None None None) ]);
  ("qmiLocReleaseBatchReqMsgT_data_v02", [
      Tlv false None 1 (Elem [] QMI_IDL_GENERIC_4_BYTE (Offset OFFSET8 "qmiLocReleaseBatchReqMsgT_v02" "transactionId") None None None);
      Tlv true (Some (Offset OFFSET8 "qmiLocReleaseBatchReqMsgT_v02" "batchType", Offset OFFSET8 "qmiLocReleaseBatchReqMsgT_v02" "batchType_valid")) 16 (Elem [] QMI_IDL_GENERIC_4_BYTE (Offset OFFSET8 "qmiLocReleaseBatchReqMsgT_v02" "batchType") None None None) ]);
  ("qmiLocReleaseBatchIndMsgT_data_v02", [
      Tlv false None 1 (Elem [] QMI_IDL_GENERIC_4_BYTE (Offset OFFSET8 "qmiLocReleaseBatchIndMsgT_v02" "status") None None None);
      Tlv true None 2 (Elem [] QMI_IDL_GENERIC_4_BYTE (Offset OFFSET8 "qmiLocReleaseBatchIndMsgT_v02" "transactionId") None None None) ]);
  ("qmiLocEventInjectWifiApDataReqIndMsgT_data_v02", [
      Tlv true (Some (Offset OFFSET8 "qmiLocEventInjectWifiApDataReqIndMsgT_v02" "e911Mode", Offset OFFSET8 "qmiLocEventInjectWifiApDataReqIndMsgT_v02" "e911Mode_valid")) 16 (Elem [] QMI_IDL_GENERIC_1_BYTE (Offset OFFSET8 "qmiLocEventInjectWifiApDataReqIndMsgT_v02" "e911Mode") None None None) ]);
  ("qmiLocInjectWifiApDataReqMsgT_data_v02", [
      Tlv false None 1 (Elem [IS_ARRAY; IS_VARIABLE_LEN] QMI_IDL_AGGREGATE (Offset OFFSET8 "qmiLocInjectWifiApDataReqMsgT_v02" "wifiApInfo") (Some (Macro "QMI_LOC_WIFI_MAX_REPORTED_APS_PER_MSG_V02")) (Some (Offset OFFSET8 "qmiLocInjectWifiApDataReqMsgT_v02" "wifiApInfo", Offset OFFSET8 "qmiLocInjectWifiApDataReqMsgT_v02" "wifiApInfo_len")) (Some (0, 51)));
      Tlv false (Some (Offset OFFSET16RELATIVE "qmiLocInjectWifiApDataReqMsgT_v02" "errorCause", Offset OFFSET16RELATIVE "qmiLocInjectWifiApDataReqMsgT_v02" "errorCause_valid")) 16 (Elem [OFFSET_IS_16] QMI_IDL_GENERIC_4_BYTE (Offset OFFSET16ARRAY "qmiLocInjectWifiApDataReqMsgT_v02" "errorCause") None None None);
      Tlv false (Some (Offset OFFSET16RELATIVE "qmiLocInjectWifiApDataReqMsgT_v02" "requestTimestamp", Offset OFFSET16RELATIVE "qmiLocInjectWifiApDataReqMsgT_v02" "requestTimestamp_valid")) 17 (Elem [OFFSET_IS_16] QMI_IDL_GENERIC_8_BYTE (Offset OFFSET16ARRAY "qmiLocInjectWifiApDataReqMsgT_v02" "requestTimestamp") None None None);
      Tlv false (Some (Offset OFFSET16RELATIVE "qmiLocInjectWifiApDataReqMsgT_v02" "receiveTimestamp", Offset OFFSET16RELATIVE "qmiLocInjectWifiApDataReqMsgT_v02" "receiveTimestamp_valid")) 18 (Elem [OFFSET_IS_16] QMI_IDL_GENERIC_8_BYTE (Offset OFFSET16ARRAY "qmiLocInjectWifiApDataReqMsgT_v02" "receiveTimestamp") None None None);
      Tlv false (Some (Offset OFFSET16RELATIVE "qmiLocInjectWifiApDataReqMsgT_v02" "onDemandScan", Offset OFFSET16RELATIVE "qmiLocInjectWifiApDataReqMsgT_v02" "onDemandScan_valid")) 19 (Elem [OFFSET_IS_16] QMI_IDL_GENERIC_1_BYTE (Offset OFFSET16ARRAY "qmiLocInjectWifiApDataReqMsgT_v02" "onDemandScan") None None None);
      Tlv false (Some (Offset OFFSET16RELATIVE "qmiLocInjectWifiApDataReqMsgT_v02" "wifiApInfoA", Offset OFFSET16RELATIVE "qmiLocInjectWifiApDataReqMsgT_v02" "wifiApInfoA_valid")) 20 (Elem [IS_ARRAY; IS_VARIABLE_LEN; OFFSET_IS_16] QMI_IDL_AGGREGATE (Offset OFFSET16ARRAY "qmiLocInjectWifiApDataReqMsgT_v02" "wifiApInfoA") (Some (Macro "QMI_LOC_WIFI_MAX_REPORTED_APS_PER_MSG_V02")) (Some (Offset OFFSET16RELATIVE "qmiLocInjectWifiApDataReqMsgT_v02" "wifiApInfoA", Offset OFFSET16RELATIVE "qmiLocInjectWifiApDataReqMsgT_v02" "wifiApInfoA_len")) (Some (0, 52)));
      Tlv true (Some (Offset OFFSET16RELATIVE "qmiLocInjectWifiApDataReqMsgT_v02" "ueMacAddress", Offset OFFSET16RELATIVE "qmiLocInjectWifiApDataReqMsgT_v02" "ueMacAddress_valid")) 21 (Elem [IS_ARRAY; OFFSET_IS_16] QMI_IDL_GENERIC_1_BYTE (Offset OFFSET16ARRAY "qmiLocInjectWifiApDataReqMsgT_v02" "ueMacAddress") (Some (Macro "QMI_LOC_WIFI_MAC_ADDR_LENGTH_V02")) None None) ]);
  ("qmiLocInjectWifiApDataIndMsgT_data_v02", [
      Tlv true None 1 (Elem [] QMI_IDL_GENERIC_4_BYTE (Offset OFFSET8 "qmiLocInjectWifiApDataIndMsgT_v02" "status") None None None) ]) ].

Definition message_data_26 : list (string * list tlv) := [
  ("qmiLocNotifyWifiAttachmentStatusReqMsgT_data_v02", [
      Tlv false None 1 (Elem [] QMI_IDL_GENERIC_4_BYTE (Offset OFFSET8 "qmiLocNotifyWifiAttachmentStatusReqMsgT_v02" "attachState") None None None);
      Tlv false (Some (Offset OFFSET8 "qmiLocNotifyWifiAttachmentStatusReqMsgT_v02" "accessPointMacAddress", Offset OFFSET8 "qmiLocNotifyWifiAttachmentStatusReqMsgT_v02" "accessPointMacAddress_valid")) 16 (Elem [IS_ARRAY] QMI_IDL_GENERIC_1_BYTE (Offset OFFSET8 "qmiLocNotifyWifiAttachmentStatusReqMsgT_v02" "accessPointMacAddress") (Some (Macro "QMI_LOC_WIFI_MAC_ADDR_LENGTH_V02")) None None);
      Tlv true (Some (Offset OFFSET8 "qmiLocNotifyWifiAttachmentStatusReqMsgT_v02" "wifiApSsid", Offset OFFSET8 "qmiLocNotifyWifiAttachmentStatusReqMsgT_v02" "wifiApSsid_valid")) 17 (Elem [IS_ARRAY; IS_VARIABLE_LEN] QMI_IDL_STRING (Offset OFFSET8 "qmiLocNotifyWifiAttachmentStatusReqMsgT_v02" "wifiApSsid") (Some (Macro "QMI_LOC_MAX_WIFI_AP_SSID_STR_LENGTH_V02")) None None) ]);
  ("qmiLocNotifyWifiAttachmentStatusIndMsgT_data_v02", [
      Tlv true None 1 (Elem [] QMI_IDL_GENERIC_4_BYTE (Offset OFFSET8 "qmiLocNotifyWifiAttachmentStatusIndMsgT_v02" "status") None None None) ]);
  ("qmiLocNotifyWifiEnabledStatusReqMsgT_data_v02", [
      Tlv true None 1 (Elem [] QMI_IDL_GENERIC_4_BYTE (Offset OFFSET8 "qmiLocNotifyWifiEnabledStatusReqMsgT_v02" "enabledStatus") None None None) ]);
  ("qmiLocNotifyWifiEnabledStatusIndMsgT_data_v02", [
      Tlv true None 1 (Elem [] QMI_IDL_GENERIC_4_BYTE (Offset OFFSET8 "qmiLocNotifyWifiEnabledStatusIndMsgT_v02" "status") None None None) ]);
  ("qmiLocEventVehicleDataReadyIndMsgT_data_v02", [
      Tlv false (Some (Offset OFFSET8 "qmiLocEventVehicleDataReadyIndMsgT_v02" "vehicleAccelReadyStatus", Offset OFFSET8 "qmiLocEventVehicleDataReadyIndMsgT_v02" "vehicleAccelReadyStatus_valid")) 16 (Elem [] QMI_IDL_GENERIC_1_BYTE (Offset OFFSET8 "qmiLocEventVehicleDataReadyIndMsgT_v02" "vehicleAccelReadyStatus") None None None);
      Tlv false (Some (Offset OFFSET8 "qmiLocEventVehicleDataReadyIndMsgT_v02" "vehicleAngularRateReadyStatus", Offset OFFSET8 "qmiLocEventVehicleDataReadyIndMsgT_v02" "vehicleAngularRateReadyStatus_valid")) 17 (Elem [] QMI_IDL_GENERIC_1_BYTE (Offset OFFSET8 "qmiLocEventVehicleDataReadyIndMsgT_v02" "vehicleAngularRateReadyStatus") None None None);
      Tlv true (Some (Offset OFFSET8 "qmiLocEventVehicleDataReadyIndMsgT_v02" "vehicleOdometryReadyStatus", Offset OFFSET8 "qmiLocEventVehicleDataReadyIndMsgT_v02" "vehicleOdometryReadyStatus_valid")) 18 (Elem [] QMI_IDL_GENERIC_1_BYTE (Offset OFFSET8 "qmiLocEventVehicleDataReadyIndMsgT_v02" "vehicleOdometryReadyStatus") None None None) ]);
  ("qmiLocInjectVehicleSensorDataReqMsgT_data_v02", [
      Tlv false (Some (Offset OFFSET8 "qmiLocInjectVehicleSensorDataReqMsgT_v02" "accelData", Offset OFFSET8 "qmiLocInjectVehicleSensorDataReqMsgT_v02" "accelData_valid")) 16 (Elem [] QMI_IDL_AGGREGATE (Offset OFFSET8 "qmiLocInjectVehicleSensorDataReqMsgT_v02" "accelData") None None (Some (0, 54)));
      Tlv false (Some (Offset OFFSET16RELATIVE "qmiLocInjectVehicleSensorDataReqMsgT_v02" "angRotationData", Offset OFFSET16RELATIVE "qmiLocInjectVehicleSensorDataReqMsgT_v02" "angRotationData_valid")) 17 (Elem [OFFSET_IS_16] QMI_IDL_AGGREGATE (Offset OFFSET16ARRAY "qmiLocInjectVehicleSensorDataReqMsgT_v02" "angRotationData") None None (Some (0, 54)));
      Tlv false (Some (Offset OFFSET16RELATIVE "qmiLocInjectVehicleSensorDataReqMsgT_v02" "odometryData", Offset OFFSET16RELATIVE "qmiLocInjectVehicleSensorDataReqMsgT_v02" "odometryData_valid")) 18 (Elem [OFFSET_IS_16] QMI_IDL_AGGREGATE (Offset OFFSET16ARRAY "qmiLocInjectVehicleSensorDataReqMsgT_v02" "odometryData") None None (Some (0, 56)));
      Tlv true (Some (Offset OFFSET16RELATIVE "qmiLocInjectVehicleSensorDataReqMsgT_v02" "changeInTimeScales", Offset OFFSET16RELATIVE "qmiLocInjectVehicleSensorDataReqMsgT_v02" "changeInTimeScales_valid")) 19 (Elem [OFFSET_IS_16] QMI_IDL_GENERIC_4_BYTE (Offset OFFSET16ARRAY "qmiLocInjectVehicleSensorDataReqMsgT_v02" "changeInTimeScales") None None None) ]);
  ("qmiLocInjectVehicleSensorDataIndMsgT_data_v02", [
      Tlv true None 1 (Elem [] QMI_IDL_GENERIC_4_BYTE (Offset OFFSET8 "qmiLocInjectVehicleSensorDataIndMsgT_v02" "status") None None None) ]);
  ("qmiLocGetAvailWwanPositionReqMsgT_data_v02", [
      Tlv true None 1 (Elem [] QMI_IDL_GENERIC_4_BYTE (Offset OFFSET8 "qmiLocGetAvailWwanPositionReqMsgT_v02" "transactionId") None None None) ]) ].

Definition message_data_27 : list (string * list tlv) := [
  ("qmiLocGetAvailWwanPositionIndMsgT_data_v02", [
      Tlv false None 1 (Elem [] QMI_IDL_GENERIC_4_BYTE (Offset OFFSET8 "qmiLocGetAvailWwanPositionIndMsgT_v02" "status") None None None);
      Tlv false (Some (Offset OFFSET8 "qmiLocGetAvailWwanPositionIndMsgT_v02" "transactionId", Offset OFFSET8 "qmiLocGetAvailWwanPositionIndMsgT_v02" "transactionId_valid")) 16 (Elem [] QMI_IDL_GENERIC_4_BYTE (Offset OFFSET8 "qmiLocGetAvailWwanPositionIndMsgT_v02" "transactionId") None None None);
      Tlv false (Some (Offset OFFSET8 "qmiLocGetAvailWwanPositionIndMsgT_v02" "latitude", Offset OFFSET8 "qmiLocGetAvailWwanPositionIndMsgT_v02" "latitude_valid")) 17 (Elem [] QMI_IDL_GENERIC_8_BYTE (Offset OFFSET8 "qmiLocGetAvailWwanPositionIndMsgT_v02" "latitude") None None None);
      Tlv false (Some (Offset OFFSET8 "qmiLocGetAvailWwanPositionIndMsgT_v02" "longitude", Offset OFFSET8 "qmiLocGetAvailWwanPositionIndMsgT_v02" "longitude_valid")) 18 (Elem [] QMI_IDL_GENERIC_8_BYTE (Offset OFFSET8 "qmiLocGetAvailWwanPositionIndMsgT_v02" "longitude") None None None);
      Tlv false (Some (Offset OFFSET8 "qmiLocGetAvailWwanPositionIndMsgT_v02" "horUncCircular", Offset OFFSET8 "qmiLocGetAvailWwanPositionIndMsgT_v02" "horUncCircular_valid")) 19 (Elem [] QMI_IDL_GENERIC_4_BYTE (Offset OFFSET8 "qmiLocGetAvailWwanPositionIndMsgT_v02" "horUncCircular") None None None);
      Tlv false (Some (Offset OFFSET8 "qmiLocGetAvailWwanPositionIndMsgT_v02" "altitudeWrtEllipsoid", Offset OFFSET8 "qmiLocGetAvailWwanPositionIndMsgT_v02" "altitudeWrtEllipsoid_valid")) 20 (Elem [] QMI_IDL_GENERIC_4_BYTE (Offset OFFSET8 "qmiLocGetAvailWwanPositionIndMsgT_v02" "altitudeWrtEllipsoid") None None None);
      Tlv false (Some (Offset OFFSET8 "qmiLocGetAvailWwanPositionIndMsgT_v02" "vertUnc", Offset OFFSET8 "qmiLocGetAvailWwanPositionIndMsgT_v02" "vertUnc_valid")) 21 (Elem [] QMI_IDL_GENERIC_4_BYTE (Offset OFFSET8 "qmiLocGetAvailWwanPositionIndMsgT_v02" "vertUnc") None None None);
      Tlv false (Some (Offset OFFSET8 "qmiLocGetAvailWwanPositionIndMsgT_v02" "timestampUtc", Offset OFFSET8 "qmiLocGetAvailWwanPositionIndMsgT_v02" "timestampUtc_valid")) 22 (Elem [] QMI_IDL_GENERIC_8_BYTE (Offset OFFSET8 "qmiLocGetAvailWwanPositionIndMsgT_v02" "timestampUtc") None None None);
      Tlv false (Some (Offset OFFSET8 "qmiLocGetAvailWwanPositionIndMsgT_v02" "timeUnc", Offset OFFSET8 "qmiLocGetAvailWwanPositionIndMsgT_v02" "timeUnc_valid")) 23 (Elem [] QMI_IDL_GENERIC_4_BYTE (Offset OFFSET8 "qmiLocGetAvailWwanPositionIndMsgT_v02" "timeUnc") None None None);
      Tlv false (Some (Offset OFFSET8 "qmiLocGetAvailWwanPositionIndMsgT_v02" "horUncEllipseSemiMinor", Offset OFFSET8 "qmiLocGetAvailWwanPositionIndMsgT_v02" "horUncEllipseSemiMinor_valid")) 24 (Elem [] QMI_IDL_GENERIC_4_BYTE (Offset OFFSET8 "qmiLocGetAvailWwanPositionIndMsgT_v02" "horUncEllipseSemiMinor") None None None);
      Tlv false (Some (Offset OFFSET8 "qmiLocGetAvailWwanPositionIndMsgT_v02" "horUncEllipseSemiMajor", Offset OFFSET8 "qmiLocGetAvailWwanPositionIndMsgT_v02" "horUncEllipseSemiMajor_valid")) 25 (Elem [] QMI_IDL_GENERIC_4_BYTE (Offset OFFSET8 "qmiLocGetAvailWwanPositionIndMsgT_v02" "horUncEllipseSemiMajor") None None None);
      Tlv false (Some (Offset OFFSET8 "qmiLocGetAvailWwanPositionIndMsgT_v02" "horUncEllipseOrientAzimuth", Offset OFFSET8 "qmiLocGetAvailWwanPositionIndMsgT_v02" "horUncEllipseOrientAzimuth_valid")) 26 (Elem [] QMI_IDL_GENERIC_4_BYTE (Offset OFFSET8 "qmiLocGetAvailWwanPositionIndMsgT_v02" "horUncEllipseOrientAzimuth") None None None);
      Tlv false (Some (Offset OFFSET8 "qmiLocGetAvailWwanPositionIndMsgT_v02" "horCircularConfidence", Offset OFFSET8 "qmiLocGetAvailWwanPositionIndMsgT_v02" "horCircularConfidence_valid")) 27 (Elem [] QMI_IDL_GENERIC_1_BYTE (Offset OFFSET8 "qmiLocGetAvailWwanPositionIndMsgT_v02" "horCircularConfidence") None None None);
      Tlv false (Some (Offset OFFSET8 "qmiLocGetAvailWwanPositionIndMsgT_v02" "horEllipticalConfidence", Offset OFFSET8 "qmiLocGetAvailWwanPositionIndMsgT_v02" "horEllipticalConfidence_valid")) 28 (Elem [] QMI_IDL_GENERIC_1_BYTE (Offset OFFSET8 "qmiLocGetAvailWwanPositionIndMsgT_v02" "horEllipticalConfidence") None None None);
      Tlv false (Some (Offset OFFSET8 "qmiLocGetAvailWwanPositionIndMsgT_v02" "horReliability", Offset OFFSET8 "qmiLocGetAvailWwanPositionIndMsgT_v02" "horReliability_valid")) 29 (Elem [] QMI_IDL_GENERIC_4_BYTE (Offset OFFSET8 "qmiLocGetAvailWwanPositionIndMsgT_v02" "horReliability") None None None);
      Tlv false (Some (Offset OFFSET8 "qmiLocGetAvailWwanPositionIndMsgT_v02" "altitudeWrtMeanSeaLevel", Offset OFFSET8 "qmiLocGetAvailWwanPositionIndMsgT_v02" "altitudeWrtMeanSeaLevel_valid")) 30 (Elem [] QMI_IDL_GENERIC_4_BYTE (Offset OFFSET8 "qmiLocGetAvailWwanPositionIndMsgT_v02" "altitudeWrtMeanSeaLevel") None None None);
      Tlv false (Some (Offset OFFSET8 "qmiLocGetAvailWwanPositionIndMsgT_v02" "vertConfidence", Offset OFFSET8 "qmiLocGetAvailWwanPositionIndMsgT_v02" "vertConfidence_valid")) 31 (Elem [] QMI_IDL_GENERIC_1_BYTE (Offset OFFSET8 "qmiLocGetAvailWwanPositionIndMsgT_v02" "vertConfidence") None None None);
      Tlv false (Some (Offset OFFSET8 "qmiLocGetAvailWwanPositionIndMsgT_v02" "vertReliability", Offset OFFSET8 "qmiLocGetAvailWwanPositionIndMsgT_v02" "vertReliability_valid")) 32 (Elem [] QMI_IDL_GENERIC_4_BYTE (Offset OFFSET8 "qmiLocGetAvailWwanPositionIndMsgT_v02" "vertReliability") None None None);
      Tlv false (Some (Offset OFFSET8 "qmiLocGetAvailWwanPositionIndMsgT_v02" "gpsTime", Offset OFFSET8 "qmiLocGetAvailWwanPositionIndMsgT_v02" "gpsTime_valid")) 33 (Elem [] QMI_IDL_AGGREGATE (Offset OFFSET8 "qmiLocGetAvailWwanPositionIndMsgT_v02" "gpsTime") None None (Some (0, 2)));
      Tlv true (Some (Offset OFFSET8 "qmiLocGetAvailWwanPositionIndMsgT_v02" "timeSrc", Offset OFFSET8 "qmiLocGetAvailWwanPositionIndMsgT_v02" "timeSrc_valid")) 34 (Elem [] QMI_IDL_GENERIC_4_BYTE (Offset OFFSET8 "qmiLocGetAvailWwanPositionIndMsgT_v02" "timeSrc") None None None) ]);
  ("qmiLocSetPremiumServicesCfgReqMsgT_data_v02", [
      Tlv false None 1 (Elem [] QMI_IDL_GENERIC_4_BYTE (Offset OFFSET8 "qmiLocSetPremiumServicesCfgReqMsgT_v02" "premiumServiceType") None None None);
      Tlv true None 2 (Elem [] QMI_IDL_GENERIC_4_BYTE (Offset OFFSET8 "qmiLocSetPremiumServicesCfgReqMsgT_v02" "premiumServiceCfg") None None None) ]);
  ("qmiLocSetPremiumServicesCfgIndMsgT_data_v02", [
      Tlv true None 1 (Elem [] QMI_IDL_GENERIC_4_BYTE (Offset OFFSET8 "qmiLocSetPremiumServicesCfgIndMsgT_v02" "status") None None None) ]);
  ("qmiLocSetXtraVersionCheckReqMsgT_data_v02", [
      Tlv true None 1 (Elem [] QMI_IDL_GENERIC_4_BYTE (Offset OFFSET8 "qmiLocSetXtraVersionCheckReqMsgT_v02" "xtraVersionCheckMode") None None None) ]);
  ("qmiLocSetXtraVersionCheckIndMsgT_data_v02", [
      Tlv true None 1 (Elem [] QMI_IDL_GENERIC_4_BYTE (Offset OFFSET8 "qmiLocSetXtraVersionCheckIndMsgT_v02" "status") None None None) ]) ].

Definition message_data_28 : list (string * list tlv) := [
  ("qmiLocSetGNSSConstRepConfigReqMsgT_data_v02", [
      Tlv false (Some (Offset OFFSET8 "qmiLocSetGNSSConstRepConfigReqMsgT_v02" "measReportConfig", Offset OFFSET8 "qmiLocSetGNSSConstRepConfigReqMsgT_v02" "measReportConfig_valid")) 16 (Elem [] QMI_IDL_GENERIC_8_BYTE (Offset OFFSET8 "qmiLocSetGNSSConstRepConfigReqMsgT_v02" "measReportConfig") None None None);
      Tlv false (Some (Offset OFFSET8 "qmiLocSetGNSSConstRepConfigReqMsgT_v02" "svPolyReportConfig", Offset OFFSET8 "qmiLocSetGNSSConstRepConfigReqMsgT_v02" "svPolyReportConfig_valid")) 17 (Elem [] QMI_IDL_GENERIC_8_BYTE (Offset OFFSET8 "qmiLocSetGNSSConstRepConfigReqMsgT_v02" "svPolyReportConfig") None None None);
      Tlv false (Some (Offset OFFSET8 "qmiLocSetGNSSConstRepConfigReqMsgT_v02" "reportFullEphemerisDb", Offset OFFSET8 "qmiLocSetGNSSConstRepConfigReqMsgT_v02" "reportFullEphemerisDb_valid")) 18 (Elem [] QMI_IDL_GENERIC_1_BYTE (Offset OFFSET8 "qmiLocSetGNSSConstRepConfigReqMsgT_v02" "reportFullEphemerisDb") None None None);
      Tlv false (Some (Offset OFFSET8 "qmiLocSetGNSSConstRepConfigReqMsgT_v02" "reportFullSvPolyDb", Offset OFFSET8 "qmiLocSetGNSSConstRepConfigReqMsgT_v02" "reportFullSvPolyDb_valid")) 19 (Elem [] QMI_IDL_GENERIC_1_BYTE (Offset OFFSET8 "qmiLocSetGNSSConstRepConfigReqMsgT_v02" "reportFullSvPolyDb") None None None);
      Tlv true (Some (Offset OFFSET8 "qmiLocSetGNSSConstRepConfigReqMsgT_v02" "reportFullIonoDb", Offset OFFSET8 "qmiLocSetGNSSConstRepConfigReqMsgT_v02" "reportFullIonoDb_valid")) 20 (Elem [] QMI_IDL_GENERIC_1_BYTE (Offset OFFSET8 "qmiLocSetGNSSConstRepConfigReqMsgT_v02" "reportFullIonoDb") None None None) ]);
  ("qmiLocSetGNSSConstRepConfigIndMsgT_data_v02", [
      Tlv true None 1 (Elem [] QMI_IDL_GENERIC_4_BYTE (Offset OFFSET8 "qmiLocSetGNSSConstRepConfigIndMsgT_v02" "status") None None None) ]) ].

Definition message_data_29 : list (string * list tlv) := [
  ("qmiLocEventGnssSvMeasInfoIndMsgT_data_v02", [
      Tlv false None 1 (Elem [] QMI_IDL_GENERIC_1_BYTE (Offset OFFSET8 "qmiLocEventGnssSvMeasInfoIndMsgT_v02" "seqNum") None None None);
      Tlv false None 2 (Elem [] QMI_IDL_GENERIC_1_BYTE (Offset OFFSET8 "qmiLocEventGnssSvMeasInfoIndMsgT_v02" "maxMessageNum") None None None);
      Tlv false None 3 (Elem [] QMI_IDL_GENERIC_4_BYTE (Offset OFFSET8 "qmiLocEventGnssSvMeasInfoIndMsgT_v02" "system") None None None);
      Tlv false (Some (Offset OFFSET8 "qmiLocEventGnssSvMeasInfoIndMsgT_v02" "rcvrClockFrequencyInfo", Offset OFFSET8 "qmiLocEventGnssSvMeasInfoIndMsgT_v02" "rcvrClockFrequencyInfo_valid")) 16 (Elem [] QMI_IDL_AGGREGATE (Offset OFFSET8 "qmiLocEventGnssSvMeasInfoIndMsgT_v02" "rcvrClockFrequencyInfo") None None (Some (0, 57)));
      Tlv false (Some (Offset OFFSET8 "qmiLocEventGnssSvMeasInfoIndMsgT_v02" "leapSecondInfo", Offset OFFSET8 "qmiLocEventGnssSvMeasInfoIndMsgT_v02" "leapSecondInfo_valid")) 17 (Elem [] QMI_IDL_AGGREGATE (Offset OFFSET8 "qmiLocEventGnssSvMeasInfoIndMsgT_v02" "leapSecondInfo") None None (Some (0, 58)));
      Tlv false (Some (Offset OFFSET8 "qmiLocEventGnssSvMeasInfoIndMsgT_v02" "gpsGloInterSystemBias", Offset OFFSET8 "qmiLocEventGnssSvMeasInfoIndMsgT_v02" "gpsGloInterSystemBias_valid")) 18 (Elem [] QMI_IDL_AGGREGATE (Offset OFFSET8 "qmiLocEventGnssSvMeasInfoIndMsgT_v02" "gpsGloInterSystemBias") None None (Some (0, 59)));
      Tlv false (Some (Offset OFFSET8 "qmiLocEventGnssSvMeasInfoIndMsgT_v02" "gpsBdsInterSystemBias", Offset OFFSET8 "qmiLocEventGnssSvMeasInfoIndMsgT_v02" "gpsBdsInterSystemBias_valid")) 19 (Elem [] QMI_IDL_AGGREGATE (Offset OFFSET8 "qmiLocEventGnssSvMeasInfoIndMsgT_v02" "gpsBdsInterSystemBias") None None (Some (0, 59)));
      Tlv false (Some (Offset OFFSET8 "qmiLocEventGnssSvMeasInfoIndMsgT_v02" "gpsGalInterSystemBias", Offset OFFSET8 "qmiLocEventGnssSvMeasInfoIndMsgT_v02" "gpsGalInterSystemBias_valid")) 20 (Elem [] QMI_IDL_AGGREGATE (Offset OFFSET8 "qmiLocEventGnssSvMeasInfoIndMsgT_v02" "gpsGalInterSystemBias") None None (Some (0, 59)));
      Tlv false (Some (Offset OFFSET8 "qmiLocEventGnssSvMeasInfoIndMsgT_v02" "bdsGloInterSystemBias", Offset OFFSET8 "qmiLocEventGnssSvMeasInfoIndMsgT_v02" "bdsGloInterSystemBias_valid")) 21 (Elem [] QMI_IDL_AGGREGATE (Offset OFFSET8 "qmiLocEventGnssSvMeasInfoIndMsgT_v02" "bdsGloInterSystemBias") None None (Some (0, 59)));
      Tlv false (Some (Offset OFFSET8 "qmiLocEventGnssSvMeasInfoIndMsgT_v02" "galGloInterSystemBias", Offset OFFSET8 "qmiLocEventGnssSvMeasInfoIndMsgT_v02" "galGloInterSystemBias_valid")) 22 (Elem [] QMI_IDL_AGGREGATE (Offset OFFSET8 "qmiLocEventGnssSvMeasInfoIndMsgT_v02" "galGloInterSystemBias") None None (Some (0, 59)));
      Tlv false (Some (Offset OFFSET8 "qmiLocEventGnssSvMeasInfoIndMsgT_v02" "galBdsInterSystemBias", Offset OFFSET8 "qmiLocEventGnssSvMeasInfoIndMsgT_v02" "galBdsInterSystemBias_valid")) 23 (Elem [] QMI_IDL_AGGREGATE (Offset OFFSET8 "qmiLocEventGnssSvMeasInfoIndMsgT_v02" "galBdsInterSystemBias") None None (Some (0, 59)));
      Tlv false (Some (Offset OFFSET8 "qmiLocEventGnssSvMeasInfoIndMsgT_v02" "systemTime", Offset OFFSET8 "qmiLocEventGnssSvMeasInfoIndMsgT_v02" "systemTime_valid")) 24 (Elem [] QMI_IDL_AGGREGATE (Offset OFFSET8 "qmiLocEventGnssSvMeasInfoIndMsgT_v02" "systemTime") None None (Some (0, 60)));
      Tlv false (Some (Offset OFFSET8 "qmiLocEventGnssSvMeasInfoIndMsgT_v02" "gloTime", Offset OFFSET8 "qmiLocEventGnssSvMeasInfoIndMsgT_v02" "gloTime_valid")) 25 (Elem [] QMI_IDL_AGGREGATE (Offset OFFSET8 "qmiLocEventGnssSvMeasInfoIndMsgT_v02" "gloTime") None None (Some (0, 61)));
      Tlv false (Some (Offset OFFSET8 "qmiLocEventGnssSvMeasInfoIndMsgT_v02" "systemTimeExt", Offset OFFSET8 "qmiLocEventGnssSvMeasInfoIndMsgT_v02" "systemTimeExt_valid")) 26 (Elem [] QMI_IDL_AGGREGATE (Offset OFFSET8 "qmiLocEventGnssSvMeasInfoIndMsgT_v02" "systemTimeExt") None None (Some (0, 62)));
      Tlv false (Some (Offset OFFSET8 "qmiLocEventGnssSvMeasInfoIndMsgT_v02" "svMeasurement", Offset OFFSET8 "qmiLocEventGnssSvMeasInfoIndMsgT_v02" "svMeasurement_valid")) 27 (Elem [IS_ARRAY; IS_VARIABLE_LEN] QMI_IDL_AGGREGATE (Offset OFFSET8 "qmiLocEventGnssSvMeasInfoIndMsgT_v02" "svMeasurement") (Some (Macro "QMI_LOC_SV_MEAS_LIST_MAX_SIZE_V02")) (Some (Offset OFFSET8 "qmiLocEventGnssSvMeasInfoIndMsgT_v02" "svMeasurement", Offset OFFSET8 "qmiLocEventGnssSvMeasInfoIndMsgT_v02" "svMeasurement_len")) (Some (0, 64)));
      Tlv false (Some (Offset OFFSET16RELATIVE "qmiLocEventGnssSvMeasInfoIndMsgT_v02" "numClockResets", Offset OFFSET16RELATIVE "qmiLocEventGnssSvMeasInfoIndMsgT_v02" "numClockResets_valid")) 28 (Elem [OFFSET_IS_16] QMI_IDL_GENERIC_4_BYTE (Offset OFFSET16ARRAY "qmiLocEventGnssSvMeasInfoIndMsgT_v02" "numClockResets") None None None);
      Tlv false (Some (Offset OFFSET16RELATIVE "qmiLocEventGnssSvMeasInfoIndMsgT_v02" "svCarrierPhaseUncertainty", Offset OFFSET16RELATIVE "qmiLocEventGnssSvMeasInfoIndMsgT_v02" "svCarrierPhaseUncertainty_valid")) 29 (Elem [IS_ARRAY; IS_VARIABLE_LEN; OFFSET_IS_16] QMI_IDL_GENERIC_4_BYTE (Offset OFFSET16ARRAY "qmiLocEventGnssSvMeasInfoIndMsgT_v02" "svCarrierPhaseUncertainty") (Some (Macro "QMI_LOC_SV_MEAS_LIST_MAX_SIZE_V02")) (Some (Offset OFFSET16RELATIVE "qmiLocEventGnssSvMeasInfoIndMsgT_v02" "svCarrierPhaseUncertainty", Offset OFFSET16RELATIVE "qmiLocEventGnssSvMeasInfoIndMsgT_v02" "svCarrierPhaseUncertainty_len")) None);
      Tlv false (Some (Offset OFFSET16RELATIVE "qmiLocEventGnssSvMeasInfoIndMsgT_v02" "gnssSignalType", Offset OFFSET16RELATIVE "qmiLocEventGnssSvMeasInfoIndMsgT_v02" "gnssSignalType_valid")) 30 (Elem [OFFSET_IS_16] QMI_IDL_GENERIC_8_BYTE (Offset OFFSET16ARRAY "qmiLocEventGnssSvMeasInfoIndMsgT_v02" "gnssSignalType") None None None);
      Tlv false (Some (Offset OFFSET16RELATIVE "qmiLocEventGnssSvMeasInfoIndMsgT_v02" "jammerIndicator", Offset OFFSET16RELATIVE "qmiLocEventGnssSvMeasInfoIndMsgT_v02" "jammerIndicator_valid")) 31 (Elem [OFFSET_IS_16] QMI_IDL_AGGREGATE (Offset OFFSET16ARRAY "qmiLocEventGnssSvMeasInfoIndMsgT_v02" "jammerIndicator") None None (Some (0, 6)));
      Tlv false (Some (Offset OFFSET16RELATIVE "qmiLocEventGnssSvMeasInfoIndMsgT_v02" "GpsL1L2cTimeBias", Offset OFFSET16RELATIVE "qmiLocEventGnssSvMeasInfoIndMsgT_v02" "GpsL1L2cTimeBias_valid")) 32 (Elem [OFFSET_IS_16] QMI_IDL_AGGREGATE (Offset OFFSET16ARRAY "qmiLocEventGnssSvMeasInfoIndMsgT_v02" "GpsL1L2cTimeBias") None None (Some (0, 59)));
      Tlv false (Some (Offset OFFSET16RELATIVE "qmiLocEventGnssSvMeasInfoIndMsgT_v02" "GpsL1L5TimeBias", Offset OFFSET16RELATIVE "qmiLocEventGnssSvMeasInfoIndMsgT_v02" "GpsL1L5TimeBias_valid")) 33 (Elem [OFFSET_IS_16] QMI_IDL_AGGREGATE (Offset OFFSET16ARRAY "qmiLocEventGnssSvMeasInfoIndMsgT_v02" "GpsL1L5TimeBias") None None (Some (0, 59)));
      Tlv false (Some (Offset OFFSET16RELATIVE "qmiLocEventGnssSvMeasInfoIndMsgT_v02" "GloG1G2TimeBias", Offset OFFSET16RELATIVE "qmiLocEventGnssSvMeasInfoIndMsgT_v02" "GloG1G2TimeBias_valid")) 34 (Elem [OFFSET_IS_16] QMI_IDL_AGGREGATE (Offset OFFSET16ARRAY "qmiLocEventGnssSvMeasInfoIndMsgT_v02" "GloG1G2TimeBias") None None (Some (0, 59)));
      Tlv false (Some (Offset OFFSET16RELATIVE "qmiLocEventGnssSvMeasInfoIndMsgT_v02" "BdsB1iB2aTimeBias", Offset OFFSET16RELATIVE "qmiLocEventGnssSvMeasInfoIndMsgT_v02" "BdsB1iB2aTimeBias_valid")) 35 (Elem [OFFSET_IS_16] QMI_IDL_AGGREGATE (Offset OFFSET16ARRAY "qmiLocEventGnssSvMeasInfoIndMsgT_v02" "BdsB1iB2aTimeBias") None None (Some (0, 59)));
      Tlv false (Some (Offset OFFSET16RELATIVE "qmiLocEventGnssSvMeasInfoIndMsgT_v02" "BdsB1iB1cTimeBias", Offset OFFSET16RELATIVE "qmiLocEventGnssSvMeasInfoIndMsgT_v02" "BdsB1iB1cTimeBias_valid")) 36 (Elem [OFFSET_IS_16] QMI_IDL_AGGREGATE (Offset OFFSET16ARRAY "qmiLocEventGnssSvMeasInfoIndMsgT_v02" "BdsB1iB1cTimeBias") None None (Some (0, 59)));
      Tlv false (Some (Offset OFFSET16RELATIVE "qmiLocEventGnssSvMeasInfoIndMsgT_v02" "GalE1E5aTimeBias", Offset OFFSET16RELATIVE "qmiLocEventGnssSvMeasInfoIndMsgT_v02" "GalE1E5aTimeBias_valid")) 37 (Elem [OFFSET_IS_16] QMI_IDL_AGGREGATE (Offset OFFSET16ARRAY "qmiLocEventGnssSvMeasInfoIndMsgT_v02" "GalE1E5aTimeBias") None None (Some (0, 59)));
      Tlv false (Some (Offset OFFSET16RELATIVE "qmiLocEventGnssSvMeasInfoIndMsgT_v02" "GalE1E5bTimeBias", Offset OFFSET16RELATIVE "qmiLocEventGnssSvMeasInfoIndMsgT_v02" "GalE1E5bTimeBias_valid")) 38 (Elem [OFFSET_IS_16] QMI_IDL_AGGREGATE (Offset OFFSET16ARRAY "qmiLocEventGnssSvMeasInfoIndMsgT_v02" "GalE1E5bTimeBias") None None (Some (0, 59)));
      Tlv false (Some (Offset OFFSET16RELATIVE "qmiLocEventGnssSvMeasInfoIndMsgT_v02" "nHzMeasurement", Offset OFFSET16RELATIVE "qmiLocEventGnssSvMeasInfoIndMsgT_v02" "nHzMeasurement_valid")) 39 (Elem [OFFSET_IS_16] QMI_IDL_GENERIC_1_BYTE (Offset OFFSET16ARRAY "qmiLocEventGnssSvMeasInfoIndMsgT_v02" "nHzMeasurement") None None None);
      Tlv false (Some (Offset OFFSET16RELATIVE "qmiLocEventGnssSvMeasInfoIndMsgT_v02" "measurementCodeType", Offset OFFSET16RELATIVE "qmiLocEventGnssSvMeasInfoIndMsgT_v02" "measurementCodeType_valid")) 40 (Elem [OFFSET_IS_16] QMI_IDL_GENERIC_4_BYTE (Offset OFFSET16ARRAY "qmiLocEventGnssSvMeasInfoIndMsgT_v02" "measurementCodeType") None None None);
      Tlv false (Some (Offset OFFSET16RELATIVE "qmiLocEventGnssSvMeasInfoIndMsgT_v02" "otherCodeTypeName", Offset OFFSET16RELATIVE "qmiLocEventGnssSvMeasInfoIndMsgT_v02" "otherCodeTypeName_valid")) 41 (Elem [IS_ARRAY; IS_VARIABLE_LEN; OFFSET_IS_16] QMI_IDL_GENERIC_1_BYTE (Offset OFFSET16ARRAY "qmiLocEventGnssSvMeasInfoIndMsgT_v02" "otherCodeTypeName") (Some (Macro "QMI_LOC_SV_MEAS_OTHER_CODE_TYPE_NAME_MAX_LEN_V02")) (Some (Offset OFFSET16RELATIVE "qmiLocEventGnssSvMeasInfoIndMsgT_v02" "otherCodeTypeName", Offset OFFSET16RELATIVE "qmiLocEventGnssSvMeasInfoIndMsgT_v02" "otherCodeTypeName_len")) None);
      Tlv false (Some (Offset OFFSET16RELATIVE "qmiLocEventGnssSvMeasInfoIndMsgT_v02" "gpsNavicInterSystemBias", Offset OFFSET16RELATIVE "qmiLocEventGnssSvMeasInfoIndMsgT_v02" "gpsNavicInterSystemBias_valid")) 42 (Elem [OFFSET_IS_16] QMI_IDL_AGGREGATE (Offset OFFSET16ARRAY "qmiLocEventGnssSvMeasInfoIndMsgT_v02" "gpsNavicInterSystemBias") None None (Some (0, 59)));
      Tlv false (Some (Offset OFFSET16RELATIVE "qmiLocEventGnssSvMeasInfoIndMsgT_v02" "galNavicInterSystemBias", Offset OFFSET16RELATIVE "qmiLocEventGnssSvMeasInfoIndMsgT_v02" "galNavicInterSystemBias_valid")) 43 (Elem [OFFSET_IS_16] QMI_IDL_AGGREGATE (Offset OFFSET16ARRAY "qmiLocEventGnssSvMeasInfoIndMsgT_v02" "galNavicInterSystemBias") None None (Some (0, 59)));
      Tlv false (Some (Offset OFFSET16RELATIVE "qmiLocEventGnssSvMeasInfoIndMsgT_v02" "gloNavicInterSystemBias", Offset OFFSET16RELATIVE "qmiLocEventGnssSvMeasInfoIndMsgT_v02" "gloNavicInterSystemBias_valid")) 44 (Elem [OFFSET_IS_16] QMI_IDL_AGGREGATE (Offset OFFSET16ARRAY "qmiLocEventGnssSvMeasInfoIndMsgT_v02" "gloNavicInterSystemBias") None None (Some (0, 59)));
      Tlv false (Some (Offset OFFSET16RELATIVE "qmiLocEventGnssSvMeasInfoIndMsgT_v02" "bdsNavicInterSystemBias", Offset OFFSET16RELATIVE "qmiLocEventGnssSvMeasInfoIndMsgT_v02" "bdsNavicInterSystemBias_valid")) 45 (Elem [OFFSET_IS_16] QMI_IDL_AGGREGATE (Offset OFFSET16ARRAY "qmiLocEventGnssSvMeasInfoIndMsgT_v02" "bdsNavicInterSystemBias") None None (Some (0, 59)));
      Tlv false (Some (Offset OFFSET16RELATIVE "qmiLocEventGnssSvMeasInfoIndMsgT_v02" "extSvMeasurement", Offset OFFSET16RELATIVE "qmiLocEventGnssSvMeasInfoIndMsgT_v02" "extSvMeasurement_valid")) 46 (Elem [IS_ARRAY; IS_VARIABLE_LEN; OFFSET_IS_16] QMI_IDL_AGGREGATE (Offset OFFSET16ARRAY "qmiLocEventGnssSvMeasInfoIndMsgT_v02" "extSvMeasurement") (Some (Macro "QMI_LOC_EXT_SV_MEAS_LIST_MAX_SIZE_V02")) (Some (Offset OFFSET16RELATIVE "qmiLocEventGnssSvMeasInfoIndMsgT_v02" "extSvMeasurement", Offset OFFSET16RELATIVE "qmiLocEventGnssSvMeasInfoIndMsgT_v02" "extSvMeasurement_len")) (Some (0, 64)));
      Tlv false (Some (Offset OFFSET16RELATIVE "qmiLocEventGnssSvMeasInfoIndMsgT_v02" "extSvCarrierPhaseUncertainty", Offset OFFSET16RELATIVE "qmiLocEventGnssSvMeasInfoIndMsgT_v02" "extSvCarrierPhaseUncertainty_valid")) 47 (Elem [IS_ARRAY; IS_VARIABLE_LEN; OFFSET_IS_16] QMI_IDL_GENERIC_4_BYTE (Offset OFFSET16ARRAY "qmiLocEventGnssSvMeasInfoIndMsgT_v02" "extSvCarrierPhaseUncertainty") (Some (Macro "QMI_LOC_EXT_SV_MEAS_LIST_MAX_SIZE_V02")) (Some (Offset OFFSET16RELATIVE "qmiLocEventGnssSvMeasInfoIndMsgT_v02" "extSvCarrierPhaseUncertainty", Offset OFFSET16RELATIVE "qmiLocEventGnssSvMeasInfoIndMsgT_v02" "extSvCarrierPhaseUncertainty_len")) None);
      Tlv false (Some (Offset OFFSET16RELATIVE "qmiLocEventGnssSvMeasInfoIndMsgT_v02" "refCountTicks", Offset OFFSET16RELATIVE "qmiLocEventGnssSvMeasInfoIndMsgT_v02" "refCountTicks_valid")) 48 (Elem [OFFSET_IS_16] QMI_IDL_GENERIC_8_BYTE (Offset OFFSET16ARRAY "qmiLocEventGnssSvMeasInfoIndMsgT_v02" "refCountTicks") None None None);
      Tlv false (Some (Offset OFFSET16RELATIVE "qmiLocEventGnssSvMeasInfoIndMsgT_v02" "dgnssCorrectionSourceT", Offset OFFSET16RELATIVE "qmiLocEventGnssSvMeasInfoIndMsgT_v02" "dgnssCorrectionSourceT_valid")) 49 (Elem [OFFSET_IS_16] QMI_IDL_GENERIC_4_BYTE (Offset OFFSET16ARRAY "qmiLocEventGnssSvMeasInfoIndMsgT_v02" "dgnssCorrectionSourceT") None None None);
      Tlv false (Some (Offset OFFSET16RELATIVE "qmiLocEventGnssSvMeasInfoIndMsgT_v02" "dgnssCorrectionSourceID", Offset OFFSET16RELATIVE "qmiLocEventGnssSvMeasInfoIndMsgT_v02" "dgnssCorrectionSourceID_valid")) 50 (Elem [OFFSET_IS_16] QMI_IDL_GENERIC_4_BYTE (Offset OFFSET16ARRAY "qmiLocEventGnssSvMeasInfoIndMsgT_v02" "dgnssCorrectionSourceID") None None None);
      Tlv false (Some (Offset OFFSET16RELATIVE "qmiLocEventGnssSvMeasInfoIndMsgT_v02" "dgnssRefStationId", Offset OFFSET16RELATIVE "qmiLocEventGnssSvMeasInfoIndMsgT_v02" "dgnssRefStationId_valid")) 51 (Elem [OFFSET_IS_16] QMI_IDL_GENERIC_2_BYTE (Offset OFFSET16ARRAY "qmiLocEventGnssSvMeasInfoIndMsgT_v02" "dgnssRefStationId") None None None);
      Tlv false (Some (Offset OFFSET16RELATIVE "qmiLocEventGnssSvMeasInfoIndMsgT_v02" "dgnssSvMeasurement", Offset OFFSET16RELATIVE "qmiLocEventGnssSvMeasInfoIndMsgT_v02" "dgnssSvMeasurement_valid")) 52 (Elem [IS_ARRAY; IS_VARIABLE_LEN; OFFSET_IS_16] QMI_IDL_AGGREGATE (Offset OFFSET16ARRAY "qmiLocEventGnssSvMeasInfoIndMsgT_v02" "dgnssSvMeasurement") (Some (Macro "QMI_LOC_DGNSS_SV_MEAS_LIST_MAX_SIZE_V02")) (Some (Offset OFFSET16RELATIVE "qmiLocEventGnssSvMeasInfoIndMsgT_v02" "dgnssSvMeasurement", Offset OFFSET16RELATIVE "qmiLocEventGnssSvMeasInfoIndMsgT_v02" "dgnssSvMeasurement_len")) (Some (0, 65)));
      Tlv false (Some (Offset OFFSET16RELATIVE "qmiLocEventGnssSvMeasInfoIndMsgT_v02" "refCountTicksUnc", Offset OFFSET16RELATIVE "qmiLocEventGnssSvMeasInfoIndMsgT_v02" "refCountTicksUnc_valid")) 53 (Elem [OFFSET_IS_16] QMI_IDL_GENERIC_4_BYTE (Offset OFFSET16ARRAY "qmiLocEventGnssSvMeasInfoIndMsgT_v02" "refCountTicksUnc") None None None);
      Tlv false (Some (Offset OFFSET16RELATIVE "qmiLocEventGnssSvMeasInfoIndMsgT_v02" "subSeqNum", Offset OFFSET16RELATIVE "qmiLocEventGnssSvMeasInfoIndMsgT_v02" "subSeqNum_valid")) 54 (Elem [OFFSET_IS_16] QMI_IDL_GENERIC_1_BYTE (Offset OFFSET16ARRAY "qmiLocEventGnssSvMeasInfoIndMsgT_v02" "subSeqNum") None None None);
      Tlv true (Some (Offset OFFSET16RELATIVE "qmiLocEventGnssSvMeasInfoIndMsgT_v02" "maxSubSeqNum", Offset OFFSET16RELATIVE "qmiLocEventGnssSvMeasInfoIndMsgT_v02" "maxSubSeqNum_valid")) 55 (Elem [OFFSET_IS_16] QMI_IDL_GENERIC_1_BYTE (Offset OFFSET16ARRAY "qmiLocEventGnssSvMeasInfoIndMsgT_v02" "maxSubSeqNum") None None None) ]) ].

Definition message_data_30 : list (string * list tlv) := [
  ("qmiLocEventGnssSvPolyIndMsgT_data_v02", [
      Tlv false None 1 (Elem [] QMI_IDL_GENERIC_2_BYTE (Offset OFFSET8 "qmiLocEventGnssSvPolyIndMsgT_v02" "gnssSvId") None None None);
      Tlv false None 2 (Elem [] QMI_IDL_GENERIC_8_BYTE (Offset OFFSET8 "qmiLocEventGnssSvPolyIndMsgT_v02" "T0") None None None);
      Tlv false None 3 (Elem [] QMI_IDL_GENERIC_2_BYTE (Offset OFFSET8 "qmiLocEventGnssSvPolyIndMsgT_v02" "svPolyFlagValid") None None None);
      Tlv false None 4 (Elem [] QMI_IDL_GENERIC_2_BYTE (Offset OFFSET8 "qmiLocEventGnssSvPolyIndMsgT_v02" "svPolyFlags") None None None);
      Tlv false (Some (Offset OFFSET8 "qmiLocEventGnssSvPolyIndMsgT_v02" "polyCoeffXYZ0", Offset OFFSET8 "qmiLocEventGnssSvPolyIndMsgT_v02" "polyCoeffXYZ0_valid")) 16 (Elem [IS_ARRAY] QMI_IDL_GENERIC_8_BYTE (Offset OFFSET8 "qmiLocEventGnssSvPolyIndMsgT_v02" "polyCoeffXYZ0") (Some (Macro "QMI_LOC_SV_POLY_XYZ_0_TH_ORDER_COEFF_SIZE_V02")) None None);
      Tlv false (Some (Offset OFFSET8 "qmiLocEventGnssSvPolyIndMsgT_v02" "polyCoefXYZN", Offset OFFSET8 "qmiLocEventGnssSvPolyIndMsgT_v02" "polyCoefXYZN_valid")) 17 (Elem [IS_ARRAY] QMI_IDL_GENERIC_8_BYTE (Offset OFFSET8 "qmiLocEventGnssSvPolyIndMsgT_v02" "polyCoefXYZN") (Some (Macro "QMI_LOC_SV_POLY_XYZ_N_TH_ORDER_COEFF_SIZE_V02")) None None);
      Tlv false (Some (Offset OFFSET8 "qmiLocEventGnssSvPolyIndMsgT_v02" "polyCoefClockBias", Offset OFFSET8 "qmiLocEventGnssSvPolyIndMsgT_v02" "polyCoefClockBias_valid")) 18 (Elem [IS_ARRAY] QMI_IDL_GENERIC_4_BYTE (Offset OFFSET8 "qmiLocEventGnssSvPolyIndMsgT_v02" "polyCoefClockBias") (Some (Macro "QMI_LOC_SV_POLY_SV_CLKBIAS_COEFF_SIZE_V02")) None None);
      Tlv false (Some (Offset OFFSET8 "qmiLocEventGnssSvPolyIndMsgT_v02" "gloFrequency", Offset OFFSET8 "qmiLocEventGnssSvPolyIndMsgT_v02" "gloFrequency_valid")) 19 (Elem [] QMI_IDL_GENERIC_1_BYTE (Offset OFFSET8 "qmiLocEventGnssSvPolyIndMsgT_v02" "gloFrequency") None None None);
      Tlv false (Some (Offset OFFSET8 "qmiLocEventGnssSvPolyIndMsgT_v02" "IODE", Offset OFFSET8 "qmiLocEventGnssSvPolyIndMsgT_v02" "IODE_valid")) 20 (Elem [] QMI_IDL_GENERIC_2_BYTE (Offset OFFSET8 "qmiLocEventGnssSvPolyIndMsgT_v02" "IODE") None None None);
      Tlv false (Some (Offset OFFSET8 "qmiLocEventGnssSvPolyIndMsgT_v02" "enhancedIOD", Offset OFFSET8 "qmiLocEventGnssSvPolyIndMsgT_v02" "enhancedIOD_valid")) 21 (Elem [] QMI_IDL_GENERIC_4_BYTE (Offset OFFSET8 "qmiLocEventGnssSvPolyIndMsgT_v02" "enhancedIOD") None None None);
      Tlv false (Some (Offset OFFSET8 "qmiLocEventGnssSvPolyIndMsgT_v02" "svPosUnc", Offset OFFSET8 "qmiLocEventGnssSvPolyIndMsgT_v02" "svPosUnc_valid")) 22 (Elem [] QMI_IDL_GENERIC_4_BYTE (Offset OFFSET8 "qmiLocEventGnssSvPolyIndMsgT_v02" "svPosUnc") None None None);
      Tlv false (Some (Offset OFFSET8 "qmiLocEventGnssSvPolyIndMsgT_v02" "ionoDelay", Offset OFFSET8 "qmiLocEventGnssSvPolyIndMsgT_v02" "ionoDelay_valid")) 23 (Elem [] QMI_IDL_GENERIC_4_BYTE (Offset OFFSET8 "qmiLocEventGnssSvPolyIndMsgT_v02" "ionoDelay") None None None);
      Tlv false (Some (Offset OFFSET8 "qmiLocEventGnssSvPolyIndMsgT_v02" "ionoDot", Offset OFFSET8 "qmiLocEventGnssSvPolyIndMsgT_v02" "ionoDot_valid")) 24 (Elem [] QMI_IDL_GENERIC_4_BYTE (Offset OFFSET8 "qmiLocEventGnssSvPolyIndMsgT_v02" "ionoDot") None None None);
      Tlv false (Some (Offset OFFSET8 "qmiLocEventGnssSvPolyIndMsgT_v02" "sbasIonoDelay", Offset OFFSET8 "qmiLocEventGnssSvPolyIndMsgT_v02" "sbasIonoDelay_valid")) 25 (Elem [] QMI_IDL_GENERIC_4_BYTE (Offset OFFSET8 "qmiLocEventGnssSvPolyIndMsgT_v02" "sbasIonoDelay") None None None);
      Tlv false (Some (Offset OFFSET8 "qmiLocEventGnssSvPolyIndMsgT_v02" "sbasIonoDot", Offset OFFSET8 "qmiLocEventGnssSvPolyIndMsgT_v02" "sbasIonoDot_valid")) 26 (Elem [] QMI_IDL_GENERIC_4_BYTE (Offset OFFSET8 "qmiLocEventGnssSvPolyIndMsgT_v02" "sbasIonoDot") None None None);
      Tlv false (Some (Offset OFFSET8 "qmiLocEventGnssSvPolyIndMsgT_v02" "tropoDelay", Offset OFFSET8 "qmiLocEventGnssSvPolyIndMsgT_v02" "tropoDelay_valid")) 27 (Elem [] QMI_IDL_GENERIC_4_BYTE (Offset OFFSET8 "qmiLocEventGnssSvPolyIndMsgT_v02" "tropoDelay") None None None);
      Tlv false (Some (Offset OFFSET16RELATIVE "qmiLocEventGnssSvPolyIndMsgT_v02" "elevation", Offset OFFSET16RELATIVE "qmiLocEventGnssSvPolyIndMsgT_v02" "elevation_valid")) 28 (Elem [OFFSET_IS_16] QMI_IDL_GENERIC_4_BYTE (Offset OFFSET16ARRAY "qmiLocEventGnssSvPolyIndMsgT_v02" "elevation") None None None);
      Tlv false (Some (Offset OFFSET16RELATIVE "qmiLocEventGnssSvPolyIndMsgT_v02" "elevationDot", Offset OFFSET16RELATIVE "qmiLocEventGnssSvPolyIndMsgT_v02" "elevationDot_valid")) 29 (Elem [OFFSET_IS_16] QMI_IDL_GENERIC_4_BYTE (Offset OFFSET16ARRAY "qmiLocEventGnssSvPolyIndMsgT_v02" "elevationDot") None None None);
      Tlv false (Some (Offset OFFSET16RELATIVE "qmiLocEventGnssSvPolyIndMsgT_v02" "elenationUnc", Offset OFFSET16RELATIVE "qmiLocEventGnssSvPolyIndMsgT_v02" "elenationUnc_valid")) 30 (Elem [OFFSET_IS_16] QMI_IDL_GENERIC_4_BYTE (Offset OFFSET16ARRAY "qmiLocEventGnssSvPolyIndMsgT_v02" "elenationUnc") None None None);
      Tlv false (Some (Offset OFFSET16RELATIVE "qmiLocEventGnssSvPolyIndMsgT_v02" "velCoef", Offset OFFSET16RELATIVE "qmiLocEventGnssSvPolyIndMsgT_v02" "velCoef_valid")) 31 (Elem [IS_ARRAY; OFFSET_IS_16] QMI_IDL_GENERIC_8_BYTE (Offset OFFSET16ARRAY "qmiLocEventGnssSvPolyIndMsgT_v02" "velCoef") (Some (Macro "QMI_LOC_SV_POLY_VELOCITY_COEF_SIZE_V02")) None None);
      Tlv false (Some (Offset OFFSET16RELATIVE "qmiLocEventGnssSvPolyIndMsgT_v02" "gpsIscL1ca", Offset OFFSET16RELATIVE "qmiLocEventGnssSvPolyIndMsgT_v02" "gpsIscL1ca_valid")) 32 (Elem [OFFSET_IS_16] QMI_IDL_GENERIC_4_BYTE (Offset OFFSET16ARRAY "qmiLocEventGnssSvPolyIndMsgT_v02" "gpsIscL1ca") None None None);
      Tlv false (Some (Offset OFFSET16RELATIVE "qmiLocEventGnssSvPolyIndMsgT_v02" "gpsIscL2c", Offset OFFSET16RELATIVE "qmiLocEventGnssSvPolyIndMsgT_v02" "gpsIscL2c_valid")) 33 (Elem [OFFSET_IS_16] QMI_IDL_GENERIC_4_BYTE (Offset OFFSET16ARRAY "qmiLocEventGnssSvPolyIndMsgT_v02" "gpsIscL2c") None None None);
      Tlv false (Some (Offset OFFSET16RELATIVE "qmiLocEventGnssSvPolyIndMsgT_v02" "gpsIscL5I5", Offset OFFSET16RELATIVE "qmiLocEventGnssSvPolyIndMsgT_v02" "gpsIscL5I5_valid")) 34 (Elem [OFFSET_IS_16] QMI_IDL_GENERIC_4_BYTE (Offset OFFSET16ARRAY "qmiLocEventGnssSvPolyIndMsgT_v02" "gpsIscL5I5") None None None);
      Tlv false (Some (Offset OFFSET16RELATIVE "qmiLocEventGnssSvPolyIndMsgT_v02" "gpsIscL5Q5", Offset OFFSET16RELATIVE "qmiLocEventGnssSvPolyIndMsgT_v02" "gpsIscL5Q5_valid")) 35 (Elem [OFFSET_IS_16] QMI_IDL_GENERIC_4_BYTE (Offset OFFSET16ARRAY "qmiLocEventGnssSvPolyIndMsgT_v02" "gpsIscL5Q5") None None None);
      Tlv false (Some (Offset OFFSET16RELATIVE "qmiLocEventGnssSvPolyIndMsgT_v02" "gpsTgd", Offset OFFSET16RELATIVE "qmiLocEventGnssSvPolyIndMsgT_v02" "gpsTgd_valid")) 36 (Elem [OFFSET_IS_16] QMI_IDL_GENERIC_4_BYTE (Offset OFFSET16ARRAY "qmiLocEventGnssSvPolyIndMsgT_v02" "gpsTgd") None None None);
      Tlv false (Some (Offset OFFSET16RELATIVE "qmiLocEventGnssSvPolyIndMsgT_v02" "gloTgdG1G2", Offset OFFSET16RELATIVE "qmiLocEventGnssSvPolyIndMsgT_v02" "gloTgdG1G2_valid")) 37 (Elem [OFFSET_IS_16] QMI_IDL_GENERIC_4_BYTE (Offset OFFSET16ARRAY "qmiLocEventGnssSvPolyIndMsgT_v02" "gloTgdG1G2") None None None);
      Tlv false (Some (Offset OFFSET16RELATIVE "qmiLocEventGnssSvPolyIndMsgT_v02" "bdsTgdB1", Offset OFFSET16RELATIVE "qmiLocEventGnssSvPolyIndMsgT_v02" "bdsTgdB1_valid")) 38 (Elem [OFFSET_IS_16] QMI_IDL_GENERIC_4_BYTE (Offset OFFSET16ARRAY "qmiLocEventGnssSvPolyIndMsgT_v02" "bdsTgdB1") None None None);
      Tlv false (Some (Offset OFFSET16RELATIVE "qmiLocEventGnssSvPolyIndMsgT_v02" "bdsTgdB2", Offset OFFSET16RELATIVE "qmiLocEventGnssSvPolyIndMsgT_v02" "bdsTgdB2_valid")) 39 (Elem [OFFSET_IS_16] QMI_IDL_GENERIC_4_BYTE (Offset OFFSET16ARRAY "qmiLocEventGnssSvPolyIndMsgT_v02" "bdsTgdB2") None None None);
      Tlv false (Some (Offset OFFSET16RELATIVE "qmiLocEventGnssSvPolyIndMsgT_v02" "bdsTgdB2a", Offset OFFSET16RELATIVE "qmiLocEventGnssSvPolyIndMsgT_v02" "bdsTgdB2a_valid")) 40 (Elem [OFFSET_IS_16] QMI_IDL_GENERIC_4_BYTE (Offset OFFSET16ARRAY "qmiLocEventGnssSvPolyIndMsgT_v02" "bdsTgdB2a") None None None);
      Tlv false (Some (Offset OFFSET16RELATIVE "qmiLocEventGnssSvPolyIndMsgT_v02" "bdsIscB2a", Offset OFFSET16RELATIVE "qmiLocEventGnssSvPolyIndMsgT_v02" "bdsIscB2a_valid")) 41 (Elem [OFFSET_IS_16] QMI_IDL_GENERIC_4_BYTE (Offset OFFSET16ARRAY "qmiLocEventGnssSvPolyIndMsgT_v02" "bdsIscB2a") None None None);
      Tlv false (Some (Offset OFFSET16RELATIVE "qmiLocEventGnssSvPolyIndMsgT_v02" "galBgdE1E5a", Offset OFFSET16RELATIVE "qmiLocEventGnssSvPolyIndMsgT_v02" "galBgdE1E5a_valid")) 42 (Elem [OFFSET_IS_16] QMI_IDL_GENERIC_4_BYTE (Offset OFFSET16ARRAY "qmiLocEventGnssSvPolyIndMsgT_v02" "galBgdE1E5a") None None None);
      Tlv false (Some (Offset OFFSET16RELATIVE "qmiLocEventGnssSvPolyIndMsgT_v02" "galBgdE1E5b", Offset OFFSET16RELATIVE "qmiLocEventGnssSvPolyIndMsgT_v02" "galBgdE1E5b_valid")) 43 (Elem [OFFSET_IS_16] QMI_IDL_GENERIC_4_BYTE (Offset OFFSET16ARRAY "qmiLocEventGnssSvPolyIndMsgT_v02" "galBgdE1E5b") None None None);
      Tlv false (Some (Offset OFFSET16RELATIVE "qmiLocEventGnssSvPolyIndMsgT_v02" "navicTgdL5", Offset OFFSET16RELATIVE "qmiLocEventGnssSvPolyIndMsgT_v02" "navicTgdL5_valid")) 44 (Elem [OFFSET_IS_16] QMI_IDL_GENERIC_4_BYTE (Offset OFFSET16ARRAY "qmiLocEventGnssSvPolyIndMsgT_v02" "navicTgdL5") None None None);
      Tlv false (Some (Offset OFFSET16RELATIVE "qmiLocEventGnssSvPolyIndMsgT_v02" "bdsTgdB1c", Offset OFFSET16RELATIVE "qmiLocEventGnssSvPolyIndMsgT_v02" "bdsTgdB1c_valid")) 45 (Elem [OFFSET_IS_16] QMI_IDL_GENERIC_4_BYTE (Offset OFFSET16ARRAY "qmiLocEventGnssSvPolyIndMsgT_v02" "bdsTgdB1c") None None None);
      Tlv false (Some (Offset OFFSET16RELATIVE "qmiLocEventGnssSvPolyIndMsgT_v02" "bdsIscB1c", Offset OFFSET16RELATIVE "qmiLocEventGnssSvPolyIndMsgT_v02" "bdsIscB1c_valid")) 46 (Elem [OFFSET_IS_16] QMI_IDL_GENERIC_4_BYTE (Offset OFFSET16ARRAY "qmiLocEventGnssSvPolyIndMsgT_v02" "bdsIscB1c") None None None);
      Tlv true (Some (Offset OFFSET16RELATIVE "qmiLocEventGnssSvPolyIndMsgT_v02" "multibandHealth", Offset OFFSET16RELATIVE "qmiLocEventGnssSvPolyIndMsgT_v02" "multibandHealth_valid")) 47 (Elem [OFFSET_IS_16] QMI_IDL_GENERIC_8_BYTE (Offset OFFSET16ARRAY "qmiLocEventGnssSvPolyIndMsgT_v02" "multibandHealth") None None None) ]) ].

Definition message_data_31 : list (string * list tlv) := [
  ("qmiLocAddGeofenceContextReqMsgT_data_v02", [
      Tlv false None 1 (Elem [] QMI_IDL_GENERIC_4_BYTE (Offset OFFSET8 "qmiLocAddGeofenceContextReqMsgT_v02" "transactionId") None None None);
      Tlv false (Some (Offset OFFSET8 "qmiLocAddGeofenceContextReqMsgT_v02" "geofenceId", Offset OFFSET8 "qmiLocAddGeofenceContextReqMsgT_v02" "geofenceId_valid")) 16 (Elem [] QMI_IDL_GENERIC_4_BYTE (Offset OFFSET8 "qmiLocAddGeofenceContextReqMsgT_v02" "geofenceId") None None None);
      Tlv false (Some (Offset OFFSET8 "qmiLocAddGeofenceContextReqMsgT_v02" "wifiApSsidInfo", Offset OFFSET8 "qmiLocAddGeofenceContextReqMsgT_v02" "wifiApSsidInfo_valid")) 17 (Elem [IS_ARRAY; IS_VARIABLE_LEN] QMI_IDL_AGGREGATE (Offset OFFSET8 "qmiLocAddGeofenceContextReqMsgT_v02" "wifiApSsidInfo") (Some (Macro "QMI_LOC_WIFI_AREA_ID_LIST_LENGTH_V02")) (Some (Offset OFFSET8 "qmiLocAddGeofenceContextReqMsgT_v02" "wifiApSsidInfo", Offset OFFSET8 "qmiLocAddGeofenceContextReqMsgT_v02" "wifiApSsidInfo_len")) (Some (0, 37)));
      Tlv false (Some (Offset OFFSET16RELATIVE "qmiLocAddGeofenceContextReqMsgT_v02" "wifiApMacAddressList", Offset OFFSET16RELATIVE "qmiLocAddGeofenceContextReqMsgT_v02" "wifiApMacAddressList_valid")) 18 (Elem [IS_ARRAY; IS_VARIABLE_LEN; OFFSET_IS_16] QMI_IDL_AGGREGATE (Offset OFFSET16ARRAY "qmiLocAddGeofenceContextReqMsgT_v02" "wifiApMacAddressList") (Some (Macro "QMI_LOC_WIFI_AREA_ID_LIST_LENGTH_V02")) (Some (Offset OFFSET16RELATIVE "qmiLocAddGeofenceContextReqMsgT_v02" "wifiApMacAddressList", Offset OFFSET16RELATIVE "qmiLocAddGeofenceContextReqMsgT_v02" "wifiApMacAddressList_len")) (Some (0, 66)));
      Tlv false (Some (Offset OFFSET16RELATIVE "qmiLocAddGeofenceContextReqMsgT_v02" "tdsCdmaCellIDList", Offset OFFSET16RELATIVE "qmiLocAddGeofenceContextReqMsgT_v02" "tdsCdmaCellIDList_valid")) 19 (Elem [IS_ARRAY; OFFSET_IS_16] QMI_IDL_AGGREGATE (Offset OFFSET16ARRAY "qmiLocAddGeofenceContextReqMsgT_v02" "tdsCdmaCellIDList") (Some (Macro "QMI_LOC_CELL_ID_LIST_LENGTH_V02")) None (Some (0, 49)));
      Tlv false (Some (Offset OFFSET16RELATIVE "qmiLocAddGeofenceContextReqMsgT_v02" "wcdmaCellIDList", Offset OFFSET16RELATIVE "qmiLocAddGeofenceContextReqMsgT_v02" "wcdmaCellIDList_valid")) 20 (Elem [IS_ARRAY; IS_VARIABLE_LEN; OFFSET_IS_16] QMI_IDL_AGGREGATE (Offset OFFSET16ARRAY "qmiLocAddGeofenceContextReqMsgT_v02" "wcdmaCellIDList") (Some (Macro "QMI_LOC_CELL_ID_LIST_LENGTH_V02")) (Some (Offset OFFSET16RELATIVE "qmiLocAddGeofenceContextReqMsgT_v02" "wcdmaCellIDList", Offset OFFSET16RELATIVE "qmiLocAddGeofenceContextReqMsgT_v02" "wcdmaCellIDList_len")) (Some (0, 48)));
      Tlv false (Some (Offset OFFSET16RELATIVE "qmiLocAddGeofenceContextReqMsgT_v02" "gsmCellIDList", Offset OFFSET16RELATIVE "qmiLocAddGeofenceContextReqMsgT_v02" "gsmCellIDList_valid")) 21 (Elem [IS_ARRAY; IS_VARIABLE_LEN; OFFSET_IS_16] QMI_IDL_AGGREGATE (Offset OFFSET16ARRAY "qmiLocAddGeofenceContextReqMsgT_v02" "gsmCellIDList") (Some (Macro "QMI_LOC_CELL_ID_LIST_LENGTH_V02")) (Some (Offset OFFSET16RELATIVE "qmiLocAddGeofenceContextReqMsgT_v02" "gsmCellIDList", Offset OFFSET16RELATIVE "qmiLocAddGeofenceContextReqMsgT_v02" "gsmCellIDList_len")) (Some (0, 47)));
      Tlv true (Some (Offset OFFSET16RELATIVE "qmiLocAddGeofenceContextReqMsgT_v02" "iBeaconList", Offset OFFSET16RELATIVE "qmiLocAddGeofenceContextReqMsgT_v02" "iBeaconList_valid")) 22 (Elem [IS_ARRAY; IS_VARIABLE_LEN; OFFSET_IS_16] QMI_IDL_AGGREGATE (Offset OFFSET16ARRAY "qmiLocAddGeofenceContextReqMsgT_v02" "iBeaconList") (Some (Macro "QMI_LOC_IBEACON_LIST_LENGTH_V02")) (Some (Offset OFFSET16RELATIVE "qmiLocAddGeofenceContextReqMsgT_v02" "iBeaconList", Offset OFFSET16RELATIVE "qmiLocAddGeofenceContextReqMsgT_v02" "iBeaconList_len")) (Some (0, 67))) ]);
  ("qmiLocAddGeofenceContextIndMsgT_data_v02", [
      Tlv false None 1 (Elem [] QMI_IDL_GENERIC_4_BYTE (Offset OFFSET8 "qmiLocAddGeofenceContextIndMsgT_v02" "status") None None None);
      Tlv false (Some (Offset OFFSET8 "qmiLocAddGeofenceContextIndMsgT_v02" "transactionId", Offset OFFSET8 "qmiLocAddGeofenceContextIndMsgT_v02" "transactionId_valid")) 16 (Elem [] QMI_IDL_GENERIC_4_BYTE (Offset OFFSET8 "qmiLocAddGeofenceContextIndMsgT_v02" "transactionId") None None None);
      Tlv false (Some (Offset OFFSET8 "qmiLocAddGeofenceContextIndMsgT_v02" "geofenceId", Offset OFFSET8 "qmiLocAddGeofenceContextIndMsgT_v02" "geofenceId_valid")) 17 (Elem [] QMI_IDL_GENERIC_4_BYTE (Offset OFFSET8 "qmiLocAddGeofenceContextIndMsgT_v02" "geofenceId") None None None);
      Tlv true (Some (Offset OFFSET8 "qmiLocAddGeofenceContextIndMsgT_v02" "contextId", Offset OFFSET8 "qmiLocAddGeofenceContextIndMsgT_v02" "contextId_valid")) 18 (Elem [] QMI_IDL_GENERIC_4_BYTE (Offset OFFSET8 "qmiLocAddGeofenceContextIndMsgT_v02" "contextId") None None None) ]);
  ("qmiLocSetGeofenceEngineContextReqMsgT_data_v02", [
      Tlv false None 1 (Elem [] QMI_IDL_GENERIC_4_BYTE (Offset OFFSET8 "qmiLocSetGeofenceEngineContextReqMsgT_v02" "transactionId") None None None);
      Tlv false (Some (Offset OFFSET8 "qmiLocSetGeofenceEngineContextReqMsgT_v02" "utcTimeOfDay", Offset OFFSET8 "qmiLocSetGeofenceEngineContextReqMsgT_v02" "utcTimeOfDay_valid")) 16 (Elem [] QMI_IDL_GENERIC_8_BYTE (Offset OFFSET8 "qmiLocSetGeofenceEngineContextReqMsgT_v02" "utcTimeOfDay") None None None);
      Tlv true (Some (Offset OFFSET8 "qmiLocSetGeofenceEngineContextReqMsgT_v02" "temperature", Offset OFFSET8 "qmiLocSetGeofenceEngineContextReqMsgT_v02" "temperature_valid")) 17 (Elem [] QMI_IDL_GENERIC_4_BYTE (Offset OFFSET8 "qmiLocSetGeofenceEngineContextReqMsgT_v02" "temperature") None None None) ]);
  ("qmiLocSetGeofenceEngineContextIndMsgT_data_v02", [
      Tlv false None 1 (Elem [] QMI_IDL_GENERIC_4_BYTE (Offset OFFSET8 "qmiLocSetGeofenceEngineContextIndMsgT_v02" "status") None None None);
      Tlv true (Some (Offset OFFSET8 "qmiLocSetGeofenceEngineContextIndMsgT_v02" "transactionId", Offset OFFSET8 "qmiLocSetGeofenceEngineContextIndMsgT_v02" "transactionId_valid")) 16 (Elem [] QMI_IDL_GENERIC_4_BYTE (Offset OFFSET8 "qmiLocSetGeofenceEngineContextIndMsgT_v02" "transactionId") None None None) ]);
  ("qmiLocDeleteGeofenceContextReqMsgT_data_v02", [
      Tlv false None 1 (Elem [] QMI_IDL_GENERIC_4_BYTE (Offset OFFSET8 "qmiLocDeleteGeofenceContextReqMsgT_v02" "transactionId") None None None);
      Tlv false None 2 (Elem [] QMI_IDL_GENERIC_4_BYTE (Offset OFFSET8 "qmiLocDeleteGeofenceContextReqMsgT_v02" "geofenceId") None None None);
      Tlv true (Some (Offset OFFSET8 "qmiLocDeleteGeofenceContextReqMsgT_v02" "contextId", Offset OFFSET8 "qmiLocDeleteGeofenceContextReqMsgT_v02" "contextId_valid")) 16 (Elem [] QMI_IDL_GENERIC_4_BYTE (Offset OFFSET8 "qmiLocDeleteGeofenceContextReqMsgT_v02" "contextId") None None None) ]);
  ("qmiLocDeleteGeofenceContextIndMsgT_data_v02", [
      Tlv false None 1 (Elem [] QMI_IDL_GENERIC_4_BYTE (Offset OFFSET8 "qmiLocDeleteGeofenceContextIndMsgT_v02" "status") None None None);
      Tlv false (Some (Offset OFFSET8 "qmiLocDeleteGeofenceContextIndMsgT_v02" "transactionId", Offset OFFSET8 "qmiLocDeleteGeofenceContextIndMsgT_v02" "transactionId_valid")) 16 (Elem [] QMI_IDL_GENERIC_4_BYTE (Offset OFFSET8 "qmiLocDeleteGeofenceContextIndMsgT_v02" "transactionId") None None None);
      Tlv false (Some (Offset OFFSET8 "qmiLocDeleteGeofenceContextIndMsgT_v02" "geofenceId", Offset OFFSET8 "qmiLocDeleteGeofenceContextIndMsgT_v02" "geofenceId_valid")) 17 (Elem [] QMI_IDL_GENERIC_4_BYTE (Offset OFFSET8 "qmiLocDeleteGeofenceContextIndMsgT_v02" "geofenceId") None None None);
      Tlv true (Some (Offset OFFSET8 "qmiLocDeleteGeofenceContextIndMsgT_v02" "contextId", Offset OFFSET8 "qmiLocDeleteGeofenceContextIndMsgT_v02" "contextId_valid")) 18 (Elem [] QMI_IDL_GENERIC_4_BYTE (Offset OFFSET8 "qmiLocDeleteGeofenceContextIndMsgT_v02" "contextId") None None None) ]);
  ("qmiLocInjectGtpClientDownloadedDataReqMsgT_data_v02", [
      Tlv true None 1 (Elem [IS_ARRAY; IS_VARIABLE_LEN; SZ_IS_16] QMI_IDL_GENERIC_1_BYTE (Offset OFFSET8 "qmiLocInjectGtpClientDownloadedDataReqMsgT_v02" "ClientDownloadedData") (Some (Macro "QMI_LOC_MAX_GTP_WWAN_CLIENT_DOWNLOADED_DATA_LEN_V02")) (Some (Offset OFFSET8 "qmiLocInjectGtpClientDownloadedDataReqMsgT_v02" "ClientDownloadedData", Offset OFFSET8 "qmiLocInjectGtpClientDownloadedDataReqMsgT_v02" "ClientDownloadedData_len")) None) ]) ].

Definition message_data_32 : list (string * list tlv) := [
  ("qmiLocInjectGtpClientDownloadedDataIndMsgT_data_v02", [
      Tlv true None 1 (Elem [] QMI_IDL_GENERIC_4_BYTE (Offset OFFSET8 "qmiLocInjectGtpClientDownloadedDataIndMsgT_v02" "status") None None None) ]);
  ("qmiLocGdtUploadBeginStatusReqMsgT_data_v02", [
      Tlv false None 1 (Elem [] QMI_IDL_GENERIC_4_BYTE (Offset OFFSET8 "qmiLocGdtUploadBeginStatusReqMsgT_v02" "serviceId") None None None);
      Tlv false None 2 (Elem [] QMI_IDL_GENERIC_4_BYTE (Offset OFFSET8 "qmiLocGdtUploadBeginStatusReqMsgT_v02" "sessionId") None None None);
      Tlv true None 3 (Elem [] QMI_IDL_GENERIC_4_BYTE (Offset OFFSET8 "qmiLocGdtUploadBeginStatusReqMsgT_v02" "gdtAccessStatus") None None None) ]);
  ("qmiLocGdtUploadBeginStatusIndMsgT_data_v02", [
      Tlv true None 1 (Elem [] QMI_IDL_GENERIC_4_BYTE (Offset OFFSET8 "qmiLocGdtUploadBeginStatusIndMsgT_v02" "status") None None None) ]);
  ("qmiLocGdtUploadEndReqMsgT_data_v02", [
      Tlv false None 1 (Elem [] QMI_IDL_GENERIC_4_BYTE (Offset OFFSET8 "qmiLocGdtUploadEndReqMsgT_v02" "serviceId") None None None);
      Tlv false None 2 (Elem [] QMI_IDL_GENERIC_4_BYTE (Offset OFFSET8 "qmiLocGdtUploadEndReqMsgT_v02" "sessionId") None None None);
      Tlv true None 3 (Elem [] QMI_IDL_GENERIC_4_BYTE (Offset OFFSET8 "qmiLocGdtUploadEndReqMsgT_v02" "gdtEndStatus") None None None) ]);
  ("qmiLocGdtUploadEndIndMsgT_data_v02", [
      Tlv true None 1 (Elem [] QMI_IDL_GENERIC_4_BYTE (Offset OFFSET8 "qmiLocGdtUploadEndIndMsgT_v02" "status") None None None) ]);
  ("qmiLocGtpApStatusReqMsgT_data_v02", [
      Tlv false None 1 (Elem [] QMI_IDL_GENERIC_4_BYTE (Offset OFFSET8 "qmiLocGtpApStatusReqMsgT_v02" "gtpApDbStatus") None None None);
      Tlv false (Some (Offset OFFSET8 "qmiLocGtpApStatusReqMsgT_v02" "gtpApPcid64", Offset OFFSET8 "qmiLocGtpApStatusReqMsgT_v02" "gtpApPcid64_valid")) 16 (Elem [] QMI_IDL_GENERIC_8_BYTE (Offset OFFSET8 "qmiLocGtpApStatusReqMsgT_v02" "gtpApPcid64") None None None);
      Tlv false (Some (Offset OFFSET8 "qmiLocGtpApStatusReqMsgT_v02" "oemId", Offset OFFSET8 "qmiLocGtpApStatusReqMsgT_v02" "oemId_valid")) 17 (Elem [IS_ARRAY; IS_VARIABLE_LEN; SZ_IS_16] QMI_IDL_GENERIC_1_BYTE (Offset OFFSET8 "qmiLocGtpApStatusReqMsgT_v02" "oemId") (Some (Macro "QMI_LOC_MAX_OEM_ID_LEN_V02")) (Some (Offset OFFSET8 "qmiLocGtpApStatusReqMsgT_v02" "oemId", Offset OFFSET8 "qmiLocGtpApStatusReqMsgT_v02" "oemId_len")) None);
      Tlv true (Some (Offset OFFSET16RELATIVE "qmiLocGtpApStatusReqMsgT_v02" "modelId", Offset OFFSET16RELATIVE "qmiLocGtpApStatusReqMsgT_v02" "modelId_valid")) 18 (Elem [IS_ARRAY; IS_VARIABLE_LEN; SZ_IS_16; OFFSET_IS_16] QMI_IDL_GENERIC_1_BYTE (Offset OFFSET16ARRAY "qmiLocGtpApStatusReqMsgT_v02" "modelId") (Some (Macro "QMI_LOC_MAX_MODEL_ID_LEN_V02")) (Some (Offset OFFSET16RELATIVE "qmiLocGtpApStatusReqMsgT_v02" "modelId", Offset OFFSET16RELATIVE "qmiLocGtpApStatusReqMsgT_v02" "modelId_len")) None) ]);
  ("qmiLocGtpApStatusIndMsgT_data_v02", [
      Tlv false None 1 (Elem [] QMI_IDL_GENERIC_4_BYTE (Offset OFFSET8 "qmiLocGtpApStatusIndMsgT_v02" "status") None None None);
      Tlv false None 2 (Elem [] QMI_IDL_GENERIC_2_BYTE (Offset OFFSET8 "qmiLocGtpApStatusIndMsgT_v02" "clientSoftwareVersion") None None None);
      Tlv true None 3 (Elem [] QMI_IDL_AGGREGATE (Offset OFFSET8 "qmiLocGtpApStatusIndMsgT_v02" "asnVersion") None None (Some (0, 68))) ]);
  ("qmiLocGdtDownloadBeginStatusReqMsgT_data_v02", [
      Tlv false None 1 (Elem [] QMI_IDL_GENERIC_4_BYTE (Offset OFFSET8 "qmiLocGdtDownloadBeginStatusReqMsgT_v02" "serviceId") None None None);
      Tlv false None 2 (Elem [] QMI_IDL_GENERIC_4_BYTE (Offset OFFSET8 "qmiLocGdtDownloadBeginStatusReqMsgT_v02" "sessionId") None None None);
      Tlv false None 3 (Elem [] QMI_IDL_GENERIC_4_BYTE (Offset OFFSET8 "qmiLocGdtDownloadBeginStatusReqMsgT_v02" "processingStatus") None None None);
      Tlv false (Some (Offset OFFSET8 "qmiLocGdtDownloadBeginStatusReqMsgT_v02" "wwanDownloadFlag", Offset OFFSET8 "qmiLocGdtDownloadBeginStatusReqMsgT_v02" "wwanDownloadFlag_valid")) 16 (Elem [] QMI_IDL_GENERIC_2_BYTE (Offset OFFSET8 "qmiLocGdtDownloadBeginStatusReqMsgT_v02" "wwanDownloadFlag") None None None);
      Tlv false (Some (Offset OFFSET8 "qmiLocGdtDownloadBeginStatusReqMsgT_v02" "respLocInfo", Offset OFFSET8 "qmiLocGdtDownloadBeginStatusReqMsgT_v02" "respLocInfo_valid")) 17 (Elem [IS_ARRAY; IS_VARIABLE_LEN; SZ_IS_16] QMI_IDL_GENERIC_1_BYTE (Offset OFFSET8 "qmiLocGdtDownloadBeginStatusReqMsgT_v02" "respLocInfo") (Some (Macro "QMI_LOC_MAX_GTP_RLI_LEN_V02")) (Some (Offset OFFSET8 "qmiLocGdtDownloadBeginStatusReqMsgT_v02" "respLocInfo", Offset OFFSET8 "qmiLocGdtDownloadBeginStatusReqMsgT_v02" "respLocInfo_len")) None);
      Tlv true (Some (Offset OFFSET16RELATIVE "qmiLocGdtDownloadBeginStatusReqMsgT_v02" "apRemainingThrottleTime", Offset OFFSET16RELATIVE "qmiLocGdtDownloadBeginStatusReqMsgT_v02" "apRemainingThrottleTime_valid")) 18 (Elem [OFFSET_IS_16] QMI_IDL_GENERIC_4_BYTE (Offset OFFSET16ARRAY "qmiLocGdtDownloadBeginStatusReqMsgT_v02" "apRemainingThrottleTime") None None None) ]);
  ("qmiLocGdtDownloadBeginStatusIndMsgT_data_v02", [
      Tlv true None 1 (Elem [] QMI_IDL_GENERIC_4_BYTE (Offset OFFSET8 "qmiLocGdtDownloadBeginStatusIndMsgT_v02" "status") None None None) ]);
  ("qmiLocGdtDownloadReadyStatusReqMsgT_data_v02", [
      Tlv false None 1 (Elem [] QMI_IDL_GENERIC_4_BYTE (Offset OFFSET8 "qmiLocGdtDownloadReadyStatusReqMsgT_v02" "serviceId") None None None);
      Tlv false None 2 (Elem [] QMI_IDL_GENERIC_4_BYTE (Offset OFFSET8 "qmiLocGdtDownloadReadyStatusReqMsgT_v02" "sessionId") None None None);
      Tlv false None 3 (Elem [] QMI_IDL_GENERIC_4_BYTE (Offset OFFSET8 "qmiLocGdtDownloadReadyStatusReqMsgT_v02" "status") None None None);
      Tlv true None 4 (Elem [IS_ARRAY; IS_VARIABLE_LEN] QMI_IDL_GENERIC_1_BYTE (Offset OFFSET8 "qmiLocGdtDownloadReadyStatusReqMsgT_v02" "filePath") (Some (Macro "QMI_LOC_MAX_GDT_PATH_LEN_V02")) (Some (Offset OFFSET8 "qmiLocGdtDownloadReadyStatusReqMsgT_v02" "filePath", Offset OFFSET8 "qmiLocGdtDownloadReadyStatusReqMsgT_v02" "filePath_len")) None) ]);
  ("qmiLocGdtDownloadReadyStatusIndMsgT_data_v02", [
      Tlv true None 1 (Elem [] QMI_IDL_GENERIC_4_BYTE (Offset OFFSET8 "qmiLocGdtDownloadReadyStatusIndMsgT_v02" "status") None None None) ]) ].

Definition message_data_33 : list (string * list tlv) := [
  ("qmiLocGdtReceiveDoneStatusReqMsgT_data_v02", [
      Tlv false None 1 (Elem [] QMI_IDL_GENERIC_4_BYTE (Offset OFFSET8 "qmiLocGdtReceiveDoneStatusReqMsgT_v02" "serviceId") None None None);
      Tlv false None 2 (Elem [] QMI_IDL_GENERIC_4_BYTE (Offset OFFSET8 "qmiLocGdtReceiveDoneStatusReqMsgT_v02" "sessionId") None None None);
      Tlv true None 3 (Elem [] QMI_IDL_GENERIC_4_BYTE (Offset OFFSET8 "qmiLocGdtReceiveDoneStatusReqMsgT_v02" "status") None None None) ]);
  ("qmiLocGdtReceiveDoneStatusIndMsgT_data_v02", [
      Tlv true None 1 (Elem [] QMI_IDL_GENERIC_4_BYTE (Offset OFFSET8 "qmiLocGdtReceiveDoneStatusIndMsgT_v02" "status") None None None) ]);
  ("qmiLocGdtDownloadEndStatusReqMsgT_data_v02", [
      Tlv false None 1 (Elem [] QMI_IDL_GENERIC_4_BYTE (Offset OFFSET8 "qmiLocGdtDownloadEndStatusReqMsgT_v02" "serviceId") None None None);
      Tlv false None 2 (Elem [] QMI_IDL_GENERIC_4_BYTE (Offset OFFSET8 "qmiLocGdtDownloadEndStatusReqMsgT_v02" "sessionId") None None None);
      Tlv true None 3 (Elem [] QMI_IDL_GENERIC_4_BYTE (Offset OFFSET8 "qmiLocGdtDownloadEndStatusReqMsgT_v02" "status") None None None) ]);
  ("qmiLocGdtDownloadEndStatusIndMsgT_data_v02", [
      Tlv true None 1 (Elem [] QMI_IDL_GENERIC_4_BYTE (Offset OFFSET8 "qmiLocGdtDownloadEndStatusIndMsgT_v02" "status") None None None) ]);
  ("qmiLocStartDbtReqMsgT_data_v02", [
      Tlv false None 1 (Elem [] QMI_IDL_GENERIC_1_BYTE (Offset OFFSET8 "qmiLocStartDbtReqMsgT_v02" "reqId") None None None);
      Tlv false None 2 (Elem [] QMI_IDL_GENERIC_4_BYTE (Offset OFFSET8 "qmiLocStartDbtReqMsgT_v02" "minDistance") None None None);
      Tlv false None 3 (Elem [] QMI_IDL_GENERIC_4_BYTE (Offset OFFSET8 "qmiLocStartDbtReqMsgT_v02" "distanceType") None None None);
      Tlv false None 4 (Elem [] QMI_IDL_GENERIC_1_BYTE (Offset OFFSET8 "qmiLocStartDbtReqMsgT_v02" "needOriginLocation") None None None);
      Tlv false (Some (Offset OFFSET8 "qmiLocStartDbtReqMsgT_v02" "maxLatency", Offset OFFSET8 "qmiLocStartDbtReqMsgT_v02" "maxLatency_valid")) 16 (Elem [] QMI_IDL_GENERIC_4_BYTE (Offset OFFSET8 "qmiLocStartDbtReqMsgT_v02" "maxLatency") None None None);
      Tlv true (Some (Offset OFFSET8 "qmiLocStartDbtReqMsgT_v02" "usageType", Offset OFFSET8 "qmiLocStartDbtReqMsgT_v02" "usageType_valid")) 17 (Elem [] QMI_IDL_GENERIC_4_BYTE (Offset OFFSET8 "qmiLocStartDbtReqMsgT_v02" "usageType") None None None) ]);
  ("qmiLocStartDbtIndMsgT_data_v02", [
      Tlv false None 1 (Elem [] QMI_IDL_GENERIC_4_BYTE (Offset OFFSET8 "qmiLocStartDbtIndMsgT_v02" "status") None None None);
      Tlv true (Some (Offset OFFSET8 "qmiLocStartDbtIndMsgT_v02" "reqId", Offset OFFSET8 "qmiLocStartDbtIndMsgT_v02" "reqId_valid")) 16 (Elem [] QMI_IDL_GENERIC_1_BYTE (Offset OFFSET8 "qmiLocStartDbtIndMsgT_v02" "reqId") None None None) ]);
  ("qmiLocStopDbtReqMsgT_data_v02", [
      Tlv true None 1 (Elem [] QMI_IDL_GENERIC_1_BYTE (Offset OFFSET8 "qmiLocStopDbtReqMsgT_v02" "reqId") None None None) ]);
  ("qmiLocStopDbtIndMsgT_data_v02", [
      Tlv false None 1 (Elem [] QMI_IDL_GENERIC_4_BYTE (Offset OFFSET8 "qmiLocStopDbtIndMsgT_v02" "status") None None None);
      Tlv true (Some (Offset OFFSET8 "qmiLocStopDbtIndMsgT_v02" "reqId", Offset OFFSET8 "qmiLocStopDbtIndMsgT_v02" "reqId_valid")) 16 (Elem [] QMI_IDL_GENERIC_1_BYTE (Offset OFFSET8 "qmiLocStopDbtIndMsgT_v02" "reqId") None None None) ]) ].

Definition message_data_34 : list (string * list tlv) := [
  ("qmiLocEventDbtPositionReportIndMsgT_data_v02", [
      Tlv false None 1 (Elem [] QMI_IDL_GENERIC_1_BYTE (Offset OFFSET8 "qmiLocEventDbtPositionReportIndMsgT_v02" "reqId") None None None);
      Tlv false None 2 (Elem [] QMI_IDL_AGGREGATE (Offset OFFSET8 "qmiLocEventDbtPositionReportIndMsgT_v02" "dbtPosition") None None (Some (0, 69)));
      Tlv false None 3 (Elem [] QMI_IDL_GENERIC_4_BYTE (Offset OFFSET8 "qmiLocEventDbtPositionReportIndMsgT_v02" "positionType") None None None);
      Tlv false (Some (Offset OFFSET8 "qmiLocEventDbtPositionReportIndMsgT_v02" "headingUnc", Offset OFFSET8 "qmiLocEventDbtPositionReportIndMsgT_v02" "headingUnc_valid")) 16 (Elem [] QMI_IDL_GENERIC_4_BYTE (Offset OFFSET8 "qmiLocEventDbtPositionReportIndMsgT_v02" "headingUnc") None None None);
      Tlv false (Some (Offset OFFSET8 "qmiLocEventDbtPositionReportIndMsgT_v02" "speedUnc", Offset OFFSET8 "qmiLocEventDbtPositionReportIndMsgT_v02" "speedUnc_valid")) 17 (Elem [] QMI_IDL_GENERIC_4_BYTE (Offset OFFSET8 "qmiLocEventDbtPositionReportIndMsgT_v02" "speedUnc") None None None);
      Tlv false (Some (Offset OFFSET8 "qmiLocEventDbtPositionReportIndMsgT_v02" "horConfidence", Offset OFFSET8 "qmiLocEventDbtPositionReportIndMsgT_v02" "horConfidence_valid")) 18 (Elem [] QMI_IDL_GENERIC_1_BYTE (Offset OFFSET8 "qmiLocEventDbtPositionReportIndMsgT_v02" "horConfidence") None None None);
      Tlv false (Some (Offset OFFSET8 "qmiLocEventDbtPositionReportIndMsgT_v02" "vertConfidence", Offset OFFSET8 "qmiLocEventDbtPositionReportIndMsgT_v02" "vertConfidence_valid")) 19 (Elem [] QMI_IDL_GENERIC_1_BYTE (Offset OFFSET8 "qmiLocEventDbtPositionReportIndMsgT_v02" "vertConfidence") None None None);
      Tlv false (Some (Offset OFFSET8 "qmiLocEventDbtPositionReportIndMsgT_v02" "DOP", Offset OFFSET8 "qmiLocEventDbtPositionReportIndMsgT_v02" "DOP_valid")) 20 (Elem [] QMI_IDL_AGGREGATE (Offset OFFSET8 "qmiLocEventDbtPositionReportIndMsgT_v02" "DOP") None None (Some (0, 3)));
      Tlv false (Some (Offset OFFSET8 "qmiLocEventDbtPositionReportIndMsgT_v02" "gnssSvUsedList", Offset OFFSET8 "qmiLocEventDbtPositionReportIndMsgT_v02" "gnssSvUsedList_valid")) 21 (Elem [IS_ARRAY; IS_VARIABLE_LEN] QMI_IDL_GENERIC_2_BYTE (Offset OFFSET8 "qmiLocEventDbtPositionReportIndMsgT_v02" "gnssSvUsedList") (Some (Macro "QMI_LOC_MAX_SV_USED_LIST_LENGTH_V02")) (Some (Offset OFFSET8 "qmiLocEventDbtPositionReportIndMsgT_v02" "gnssSvUsedList", Offset OFFSET8 "qmiLocEventDbtPositionReportIndMsgT_v02" "gnssSvUsedList_len")) None);
      Tlv false (Some (Offset OFFSET16RELATIVE "qmiLocEventDbtPositionReportIndMsgT_v02" "positionSrc", Offset OFFSET16RELATIVE "qmiLocEventDbtPositionReportIndMsgT_v02" "positionSrc_valid")) 22 (Elem [OFFSET_IS_16] QMI_IDL_GENERIC_4_BYTE (Offset OFFSET16ARRAY "qmiLocEventDbtPositionReportIndMsgT_v02" "positionSrc") None None None);
      Tlv false (Some (Offset OFFSET16RELATIVE "qmiLocEventDbtPositionReportIndMsgT_v02" "extDOP", Offset OFFSET16RELATIVE "qmiLocEventDbtPositionReportIndMsgT_v02" "extDOP_valid")) 23 (Elem [OFFSET_IS_16] QMI_IDL_AGGREGATE (Offset OFFSET16ARRAY "qmiLocEventDbtPositionReportIndMsgT_v02" "extDOP") None None (Some (0, 4)));
      Tlv false (Some (Offset OFFSET16RELATIVE "qmiLocEventDbtPositionReportIndMsgT_v02" "expandedGnssSvUsedList", Offset OFFSET16RELATIVE "qmiLocEventDbtPositionReportIndMsgT_v02" "expandedGnssSvUsedList_valid")) 24 (Elem [IS_ARRAY; IS_VARIABLE_LEN; OFFSET_IS_16] QMI_IDL_GENERIC_2_BYTE (Offset OFFSET16ARRAY "qmiLocEventDbtPositionReportIndMsgT_v02" "expandedGnssSvUsedList") (Some (Macro "QMI_LOC_EXPANDED_SV_INFO_LIST_MAX_SIZE_V02")) (Some (Offset OFFSET16RELATIVE "qmiLocEventDbtPositionReportIndMsgT_v02" "expandedGnssSvUsedList", Offset OFFSET16RELATIVE "qmiLocEventDbtPositionReportIndMsgT_v02" "expandedGnssSvUsedList_len")) None);
      Tlv true (Some (Offset OFFSET16RELATIVE "qmiLocEventDbtPositionReportIndMsgT_v02" "gnssSvUsedSignalTypeList", Offset OFFSET16RELATIVE "qmiLocEventDbtPositionReportIndMsgT_v02" "gnssSvUsedSignalTypeList_valid")) 25 (Elem [IS_ARRAY; IS_VARIABLE_LEN; OFFSET_IS_16] QMI_IDL_GENERIC_8_BYTE (Offset OFFSET16ARRAY "qmiLocEventDbtPositionReportIndMsgT_v02" "gnssSvUsedSignalTypeList") (Some (Macro "QMI_LOC_EXPANDED_SV_INFO_LIST_MAX_SIZE_V02")) (Some (Offset OFFSET16RELATIVE "qmiLocEventDbtPositionReportIndMsgT_v02" "gnssSvUsedSignalTypeList", Offset OFFSET16RELATIVE "qmiLocEventDbtPositionReportIndMsgT_v02" "gnssSvUsedSignalTypeList_len")) None) ]);
  ("qmiLocEventDbtSessionStatusIndMsgT_data_v02", [
      Tlv false None 1 (Elem [] QMI_IDL_GENERIC_4_BYTE (Offset OFFSET8 "qmiLocEventDbtSessionStatusIndMsgT_v02" "dbtSessionStatus") None None None);
      Tlv true (Some (Offset OFFSET8 "qmiLocEventDbtSessionStatusIndMsgT_v02" "reqId", Offset OFFSET8 "qmiLocEventDbtSessionStatusIndMsgT_v02" "reqId_valid")) 16 (Elem [] QMI_IDL_GENERIC_1_BYTE (Offset OFFSET8 "qmiLocEventDbtSessionStatusIndMsgT_v02" "reqId") None None None) ]);
  ("qmiLocSecureGetAvailablePositionReqMsgT_data_v02", [
      Tlv false None 1 (Elem [] QMI_IDL_GENERIC_4_BYTE (Offset OFFSET8 "qmiLocSecureGetAvailablePositionReqMsgT_v02" "secureLocDataMode") None None None);
      Tlv true None 2 (Elem [IS_ARRAY; IS_VARIABLE_LEN; SZ_IS_16] QMI_IDL_GENERIC_1_BYTE (Offset OFFSET8 "qmiLocSecureGetAvailablePositionReqMsgT_v02" "qmilocSecureGetAvailablePositionRequestData") (Some (Macro "QMI_LOC_SECURE_GET_AVAILABLE_POS_REQUEST_ENCRYPTED_MAX_V02")) (Some (Offset OFFSET8 "qmiLocSecureGetAvailablePositionReqMsgT_v02" "qmilocSecureGetAvailablePositionRequestData", Offset OFFSET8 "qmiLocSecureGetAvailablePositionReqMsgT_v02" "qmilocSecureGetAvailablePositionRequestData_len")) None) ]);
  ("qmiLocSecureGetAvailablePositionIndMsgT_data_v02", [
      Tlv false None 1 (Elem [] QMI_IDL_GENERIC_4_BYTE (Offset OFFSET8 "qmiLocSecureGetAvailablePositionIndMsgT_v02" "sessionStatus") None None None);
      Tlv false None 2 (Elem [] QMI_IDL_GENERIC_4_BYTE (Offset OFFSET8 "qmiLocSecureGetAvailablePositionIndMsgT_v02" "secureLocDataMode") None None None);
      Tlv true (Some (Offset OFFSET8 "qmiLocSecureGetAvailablePositionIndMsgT_v02" "qmilocSecureGetAvailablePositionInd", Offset OFFSET8 "qmiLocSecureGetAvailablePositionIndMsgT_v02" "qmilocSecureGetAvailablePositionInd_valid")) 16 (Elem [IS_ARRAY; IS_VARIABLE_LEN; SZ_IS_16] QMI_IDL_GENERIC_1_BYTE (Offset OFFSET8 "qmiLocSecureGetAvailablePositionIndMsgT_v02" "qmilocSecureGetAvailablePositionInd") (Some (Macro "QMI_LOC_SECURE_GET_AVAILABLE_POSITION_IND_ENCRYPTED_MAX_V02")) (Some (Offset OFFSET8 "qmiLocSecureGetAvailablePositionIndMsgT_v02" "qmilocSecureGetAvailablePositionInd", Offset OFFSET8 "qmiLocSecureGetAvailablePositionIndMsgT_v02" "qmilocSecureGetAvailablePositionInd_len")) None) ]);
  ("qmiLocInjectApCacheDataReqMsgT_data_v02", [
      Tlv false None 1 (Elem [] QMI_IDL_GENERIC_1_BYTE (Offset OFFSET8 "qmiLocInjectApCacheDataReqMsgT_v02" "versionNumber") None None None);
      Tlv false None 2 (Elem [] QMI_IDL_GENERIC_1_BYTE (Offset OFFSET8 "qmiLocInjectApCacheDataReqMsgT_v02" "partNumber") None None None);
      Tlv false None 3 (Elem [] QMI_IDL_GENERIC_1_BYTE (Offset OFFSET8 "qmiLocInjectApCacheDataReqMsgT_v02" "totalParts") None None None);
      Tlv false None 4 (Elem [IS_ARRAY; IS_VARIABLE_LEN] QMI_IDL_AGGREGATE (Offset OFFSET8 "qmiLocInjectApCacheDataReqMsgT_v02" "apCacheData") (Some (Macro "QMI_LOC_APCACHE_DATA_MAX_SAMPLES_V02")) (Some (Offset OFFSET8 "qmiLocInjectApCacheDataReqMsgT_v02" "apCacheData", Offset OFFSET8 "qmiLocInjectApCacheDataReqMsgT_v02" "apCacheData_len")) (Some (0, 70)));
      Tlv true (Some (Offset OFFSET16RELATIVE "qmiLocInjectApCacheDataReqMsgT_v02" "apCacheHepeRelData", Offset OFFSET16RELATIVE "qmiLocInjectApCacheDataReqMsgT_v02" "apCacheHepeRelData_valid")) 16 (Elem [IS_ARRAY; IS_VARIABLE_LEN; OFFSET_IS_16] QMI_IDL_AGGREGATE (Offset OFFSET16ARRAY "qmiLocInjectApCacheDataReqMsgT_v02" "apCacheHepeRelData") (Some (Macro "QMI_LOC_APCACHE_DATA_MAX_SAMPLES_V02")) (Some (Offset OFFSET16RELATIVE "qmiLocInjectApCacheDataReqMsgT_v02" "apCacheHepeRelData", Offset OFFSET16RELATIVE "qmiLocInjectApCacheDataReqMsgT_v02" "apCacheHepeRelData_len")) (Some (0, 71))) ]) ].

Definition message_data_35 : list (string * list tlv) := [
  ("qmiLocInjectApCacheDataIndMsgT_data_v02", [
      Tlv false None 1 (Elem [] QMI_IDL_GENERIC_4_BYTE (Offset OFFSET8 "qmiLocInjectApCacheDataIndMsgT_v02" "status") None None None);
      Tlv false (Some (Offset OFFSET8 "qmiLocInjectApCacheDataIndMsgT_v02" "apCacheSize", Offset OFFSET8 "qmiLocInjectApCacheDataIndMsgT_v02" "apCacheSize_valid")) 16 (Elem [] QMI_IDL_GENERIC_4_BYTE (Offset OFFSET8 "qmiLocInjectApCacheDataIndMsgT_v02" "apCacheSize") None None None);
      Tlv false (Some (Offset OFFSET8 "qmiLocInjectApCacheDataIndMsgT_v02" "apDoNotCacheSize", Offset OFFSET8 "qmiLocInjectApCacheDataIndMsgT_v02" "apDoNotCacheSize_valid")) 17 (Elem [] QMI_IDL_GENERIC_4_BYTE (Offset OFFSET8 "qmiLocInjectApCacheDataIndMsgT_v02" "apDoNotCacheSize") None None None);
      Tlv false (Some (Offset OFFSET8 "qmiLocInjectApCacheDataIndMsgT_v02" "apCacheHits", Offset OFFSET8 "qmiLocInjectApCacheDataIndMsgT_v02" "apCacheHits_valid")) 18 (Elem [] QMI_IDL_GENERIC_4_BYTE (Offset OFFSET8 "qmiLocInjectApCacheDataIndMsgT_v02" "apCacheHits") None None None);
      Tlv false (Some (Offset OFFSET8 "qmiLocInjectApCacheDataIndMsgT_v02" "apDoNotCacheHits", Offset OFFSET8 "qmiLocInjectApCacheDataIndMsgT_v02" "apDoNotCacheHits_valid")) 19 (Elem [] QMI_IDL_GENERIC_4_BYTE (Offset OFFSET8 "qmiLocInjectApCacheDataIndMsgT_v02" "apDoNotCacheHits") None None None);
      Tlv false (Some (Offset OFFSET8 "qmiLocInjectApCacheDataIndMsgT_v02" "unknownAps", Offset OFFSET8 "qmiLocInjectApCacheDataIndMsgT_v02" "unknownAps_valid")) 20 (Elem [] QMI_IDL_GENERIC_4_BYTE (Offset OFFSET8 "qmiLocInjectApCacheDataIndMsgT_v02" "unknownAps") None None None);
      Tlv false (Some (Offset OFFSET8 "qmiLocInjectApCacheDataIndMsgT_v02" "asyncScans", Offset OFFSET8 "qmiLocInjectApCacheDataIndMsgT_v02" "asyncScans_valid")) 21 (Elem [] QMI_IDL_GENERIC_4_BYTE (Offset OFFSET8 "qmiLocInjectApCacheDataIndMsgT_v02" "asyncScans") None None None);
      Tlv false (Some (Offset OFFSET8 "qmiLocInjectApCacheDataIndMsgT_v02" "asyncFixes", Offset OFFSET8 "qmiLocInjectApCacheDataIndMsgT_v02" "asyncFixes_valid")) 22 (Elem [] QMI_IDL_GENERIC_4_BYTE (Offset OFFSET8 "qmiLocInjectApCacheDataIndMsgT_v02" "asyncFixes") None None None);
      Tlv false (Some (Offset OFFSET8 "qmiLocInjectApCacheDataIndMsgT_v02" "syncScans", Offset OFFSET8 "qmiLocInjectApCacheDataIndMsgT_v02" "syncScans_valid")) 23 (Elem [] QMI_IDL_GENERIC_4_BYTE (Offset OFFSET8 "qmiLocInjectApCacheDataIndMsgT_v02" "syncScans") None None None);
      Tlv true (Some (Offset OFFSET8 "qmiLocInjectApCacheDataIndMsgT_v02" "syncFixes", Offset OFFSET8 "qmiLocInjectApCacheDataIndMsgT_v02" "syncFixes_valid")) 24 (Elem [] QMI_IDL_GENERIC_4_BYTE (Offset OFFSET8 "qmiLocInjectApCacheDataIndMsgT_v02" "syncFixes") None None None) ]);
  ("qmiLocInjectApDoNotCacheDataReqMsgT_data_v02", [
      Tlv false None 1 (Elem [] QMI_IDL_GENERIC_1_BYTE (Offset OFFSET8 "qmiLocInjectApDoNotCacheDataReqMsgT_v02" "versionNumber") None None None);
      Tlv false None 2 (Elem [] QMI_IDL_GENERIC_1_BYTE (Offset OFFSET8 "qmiLocInjectApDoNotCacheDataReqMsgT_v02" "partNumber") None None None);
      Tlv false None 3 (Elem [] QMI_IDL_GENERIC_1_BYTE (Offset OFFSET8 "qmiLocInjectApDoNotCacheDataReqMsgT_v02" "totalParts") None None None);
      Tlv true None 4 (Elem [IS_ARRAY; IS_VARIABLE_LEN] QMI_IDL_AGGREGATE (Offset OFFSET8 "qmiLocInjectApDoNotCacheDataReqMsgT_v02" "apDoNotCacheData") (Some (Macro "QMI_LOC_APCACHE_DATA_MAX_SAMPLES_V02")) (Some (Offset OFFSET8 "qmiLocInjectApDoNotCacheDataReqMsgT_v02" "apDoNotCacheData", Offset OFFSET8 "qmiLocInjectApDoNotCacheDataReqMsgT_v02" "apDoNotCacheData_len")) (Some (0, 72))) ]);
  ("qmiLocInjectApDoNotCacheDataIndMsgT_data_v02", [
      Tlv true None 1 (Elem [] QMI_IDL_GENERIC_4_BYTE (Offset OFFSET8 "qmiLocInjectApDoNotCacheDataIndMsgT_v02" "status") None None None) ]);
  ("qmiLocEventBatchingStatusIndMsgT_data_v02", [
      Tlv true None 1 (Elem [] QMI_IDL_GENERIC_4_BYTE (Offset OFFSET8 "qmiLocEventBatchingStatusIndMsgT_v02" "batchingStatus") None None None) ]);
  ("qmiLocQueryAonConfigReqMsgT_data_v02", [
      Tlv true None 1 (Elem [] QMI_IDL_GENERIC_4_BYTE (Offset OFFSET8 "qmiLocQueryAonConfigReqMsgT_v02" "transactionId") None None None) ]);
  ("qmiLocQueryAonConfigIndMsgT_data_v02", [
      Tlv false None 1 (Elem [] QMI_IDL_GENERIC_4_BYTE (Offset OFFSET8 "qmiLocQueryAonConfigIndMsgT_v02" "status") None None None);
      Tlv false (Some (Offset OFFSET8 "qmiLocQueryAonConfigIndMsgT_v02" "transactionId", Offset OFFSET8 "qmiLocQueryAonConfigIndMsgT_v02" "transactionId_valid")) 16 (Elem [] QMI_IDL_GENERIC_4_BYTE (Offset OFFSET8 "qmiLocQueryAonConfigIndMsgT_v02" "transactionId") None None None);
      Tlv true (Some (Offset OFFSET8 "qmiLocQueryAonConfigIndMsgT_v02" "aonCapability", Offset OFFSET8 "qmiLocQueryAonConfigIndMsgT_v02" "aonCapability_valid")) 17 (Elem [] QMI_IDL_GENERIC_4_BYTE (Offset OFFSET8 "qmiLocQueryAonConfigIndMsgT_v02" "aonCapability") None None None) ]);
  ("qmiLocDeleteGNSSServiceDataReqMsgT_data_v02", [
      Tlv false None 1 (Elem [] QMI_IDL_GENERIC_1_BYTE (Offset OFFSET8 "qmiLocDeleteGNSSServiceDataReqMsgT_v02" "deleteAllFlag") None None None);
      Tlv false (Some (Offset OFFSET8 "qmiLocDeleteGNSSServiceDataReqMsgT_v02" "deleteClockInfoMask", Offset OFFSET8 "qmiLocDeleteGNSSServiceDataReqMsgT_v02" "deleteClockInfoMask_valid")) 16 (Elem [] QMI_IDL_GENERIC_4_BYTE (Offset OFFSET8 "qmiLocDeleteGNSSServiceDataReqMsgT_v02" "deleteClockInfoMask") None None None);
      Tlv false (Some (Offset OFFSET8 "qmiLocDeleteGNSSServiceDataReqMsgT_v02" "deleteCellDbDataMask", Offset OFFSET8 "qmiLocDeleteGNSSServiceDataReqMsgT_v02" "deleteCellDbDataMask_valid")) 17 (Elem [] QMI_IDL_GENERIC_4_BYTE (Offset OFFSET8 "qmiLocDeleteGNSSServiceDataReqMsgT_v02" "deleteCellDbDataMask") None None None);
      Tlv false (Some (Offset OFFSET8 "qmiLocDeleteGNSSServiceDataReqMsgT_v02" "deleteCommonDataMask", Offset OFFSET8 "qmiLocDeleteGNSSServiceDataReqMsgT_v02" "deleteCommonDataMask_valid")) 18 (Elem [] QMI_IDL_GENERIC_4_BYTE (Offset OFFSET8 "qmiLocDeleteGNSSServiceDataReqMsgT_v02" "deleteCommonDataMask") None None None);
      Tlv false (Some (Offset OFFSET8 "qmiLocDeleteGNSSServiceDataReqMsgT_v02" "deleteSatelliteData", Offset OFFSET8 "qmiLocDeleteGNSSServiceDataReqMsgT_v02" "deleteSatelliteData_valid")) 19 (Elem [] QMI_IDL_AGGREGATE (Offset OFFSET8 "qmiLocDeleteGNSSServiceDataReqMsgT_v02" "deleteSatelliteData") None None (Some (0, 73)));
      Tlv true (Some (Offset OFFSET8 "qmiLocDeleteGNSSServiceDataReqMsgT_v02" "deleteExtClockInfoMask", Offset OFFSET8 "qmiLocDeleteGNSSServiceDataReqMsgT_v02" "deleteExtClockInfoMask_valid")) 20 (Elem [] QMI_IDL_GENERIC_8_BYTE (Offset OFFSET8 "qmiLocDeleteGNSSServiceDataReqMsgT_v02" "deleteExtClockInfoMask") None None None) ]);
  ("qmiLocDeleteGNSSServiceDataIndMsgT_data_v02", [
      Tlv true None 1 (Elem [] QMI_IDL_GENERIC_4_BYTE (Offset OFFSET8 "qmiLocDeleteGNSSServiceDataIndMsgT_v02" "status") None None None) ]) ].

Definition message_data_36 : list (string * list tlv) := [
  ("qmiLocInjectXtraDataReqMsgT_data_v02", [
      Tlv false None 1 (Elem [] QMI_IDL_GENERIC_4_BYTE (Offset OFFSET8 "qmiLocInjectXtraDataReqMsgT_v02" "totalSize") None None None);
      Tlv false None 2 (Elem [] QMI_IDL_GENERIC_2_BYTE (Offset OFFSET8 "qmiLocInjectXtraDataReqMsgT_v02" "totalParts") None None None);
      Tlv false None 3 (Elem [] QMI_IDL_GENERIC_2_BYTE (Offset OFFSET8 "qmiLocInjectXtraDataReqMsgT_v02" "partNum") None None None);
      Tlv false None 4 (Elem [IS_ARRAY; IS_VARIABLE_LEN; SZ_IS_16] QMI_IDL_GENERIC_1_BYTE (Offset OFFSET8 "qmiLocInjectXtraDataReqMsgT_v02" "partData") (Some (Macro "QMI_LOC_MAX_XTRA_PART_LEN_V02")) (Some (Offset OFFSET8 "qmiLocInjectXtraDataReqMsgT_v02" "partData", Offset OFFSET8 "qmiLocInjectXtraDataReqMsgT_v02" "partData_len")) None);
      Tlv true (Some (Offset OFFSET16RELATIVE "qmiLocInjectXtraDataReqMsgT_v02" "formatType", Offset OFFSET16RELATIVE "qmiLocInjectXtraDataReqMsgT_v02" "formatType_valid")) 16 (Elem [OFFSET_IS_16] QMI_IDL_GENERIC_4_BYTE (Offset OFFSET16ARRAY "qmiLocInjectXtraDataReqMsgT_v02" "formatType") None None None) ]);
  ("qmiLocInjectXtraDataIndMsgT_data_v02", [
      Tlv false None 1 (Elem [] QMI_IDL_GENERIC_4_BYTE (Offset OFFSET8 "qmiLocInjectXtraDataIndMsgT_v02" "status") None None None);
      Tlv false (Some (Offset OFFSET8 "qmiLocInjectXtraDataIndMsgT_v02" "partNum", Offset OFFSET8 "qmiLocInjectXtraDataIndMsgT_v02" "partNum_valid")) 16 (Elem [] QMI_IDL_GENERIC_2_BYTE (Offset OFFSET8 "qmiLocInjectXtraDataIndMsgT_v02" "partNum") None None None);
      Tlv true (Some (Offset OFFSET8 "qmiLocInjectXtraDataIndMsgT_v02" "ConstellationMask", Offset OFFSET8 "qmiLocInjectXtraDataIndMsgT_v02" "ConstellationMask_valid")) 17 (Elem [] QMI_IDL_GENERIC_8_BYTE (Offset OFFSET8 "qmiLocInjectXtraDataIndMsgT_v02" "ConstellationMask") None None None) ]);
  ("qmiLocInjectXtraPcidReqMsgT_data_v02", [
      Tlv true None 1 (Elem [] QMI_IDL_GENERIC_8_BYTE (Offset OFFSET8 "qmiLocInjectXtraPcidReqMsgT_v02" "xtraPcid") None None None) ]);
  ("qmiLocInjectXtraPcidIndMsgT_data_v02", [
      Tlv true None 1 (Elem [] QMI_IDL_GENERIC_4_BYTE (Offset OFFSET8 "qmiLocInjectXtraPcidIndMsgT_v02" "status") None None None) ]);
  ("qmiLocGetSupportedFeatureIndMsgT_data_v02", [
      Tlv false None 1 (Elem [] QMI_IDL_GENERIC_4_BYTE (Offset OFFSET8 "qmiLocGetSupportedFeatureIndMsgT_v02" "status") None None None);
      Tlv false None 2 (Elem [IS_ARRAY; IS_VARIABLE_LEN] QMI_IDL_GENERIC_1_BYTE (Offset OFFSET8 "qmiLocGetSupportedFeatureIndMsgT_v02" "feature") (Some (Macro "QMI_LOC_SUPPORTED_FEATURE_LENGTH_V02")) (Some (Offset OFFSET8 "qmiLocGetSupportedFeatureIndMsgT_v02" "feature", Offset OFFSET8 "qmiLocGetSupportedFeatureIndMsgT_v02" "feature_len")) None);
      Tlv true (Some (Offset OFFSET8 "qmiLocGetSupportedFeatureIndMsgT_v02" "featureStatusReport", Offset OFFSET8 "qmiLocGetSupportedFeatureIndMsgT_v02" "featureStatusReport_valid")) 16 (Elem [] QMI_IDL_GENERIC_8_BYTE (Offset OFFSET8 "qmiLocGetSupportedFeatureIndMsgT_v02" "featureStatusReport") None None None) ]);
  ("qmiLocSetInternalStatusConfigReqMsgT_data_v02", [
      Tlv true None 1 (Elem [] QMI_IDL_GENERIC_1_BYTE (Offset OFFSET8 "qmiLocSetInternalStatusConfigReqMsgT_v02" "config") None None None) ]);
  ("qmiLocSetInternalStatusConfigIndMsgT_data_v02", [
      Tlv true None 1 (Elem [] QMI_IDL_GENERIC_4_BYTE (Offset OFFSET8 "qmiLocSetInternalStatusConfigIndMsgT_v02" "status") None None None) ]);
  ("qmiLocEventInternalStatusReportIndMsgT_data_v02", [
      Tlv true None 1 (Elem [IS_ARRAY; IS_VARIABLE_LEN] QMI_IDL_AGGREGATE (Offset OFFSET8 "qmiLocEventInternalStatusReportIndMsgT_v02" "reportData") (Some (Macro "QMI_LOC_INTERNAL_STATUS_MAX_LIST_SIZE_V02")) (Some (Offset OFFSET8 "qmiLocEventInternalStatusReportIndMsgT_v02" "reportData", Offset OFFSET8 "qmiLocEventInternalStatusReportIndMsgT_v02" "reportData_len")) (Some (0, 74))) ]);
  ("qmiLocEventInjectSrnApDataReqIndMsgT_data_v02", [
      Tlv false None 1 (Elem [] QMI_IDL_GENERIC_4_BYTE (Offset OFFSET8 "qmiLocEventInjectSrnApDataReqIndMsgT_v02" "srnTechMask") None None None);
      Tlv false None 2 (Elem [] QMI_IDL_GENERIC_1_BYTE (Offset OFFSET8 "qmiLocEventInjectSrnApDataReqIndMsgT_v02" "srnRequest") None None None);
      Tlv false (Some (Offset OFFSET8 "qmiLocEventInjectSrnApDataReqIndMsgT_v02" "e911Mode", Offset OFFSET8 "qmiLocEventInjectSrnApDataReqIndMsgT_v02" "e911Mode_valid")) 16 (Elem [] QMI_IDL_GENERIC_1_BYTE (Offset OFFSET8 "qmiLocEventInjectSrnApDataReqIndMsgT_v02" "e911Mode") None None None);
      Tlv true (Some (Offset OFFSET8 "qmiLocEventInjectSrnApDataReqIndMsgT_v02" "srnApMacAddrType", Offset OFFSET8 "qmiLocEventInjectSrnApDataReqIndMsgT_v02" "srnApMacAddrType_valid")) 17 (Elem [] QMI_IDL_GENERIC_4_BYTE (Offset OFFSET8 "qmiLocEventInjectSrnApDataReqIndMsgT_v02" "srnApMacAddrType") None None None) ]);
  ("qmiLocInjectSrnApDataReqMsgT_data_v02", [
      Tlv false None 1 (Elem [] QMI_IDL_GENERIC_4_BYTE (Offset OFFSET8 "qmiLocInjectSrnApDataReqMsgT_v02" "apDeviceTechType") None None None);
      Tlv false (Some (Offset OFFSET8 "qmiLocInjectSrnApDataReqMsgT_v02" "srnBtleApInfo", Offset OFFSET8 "qmiLocInjectSrnApDataReqMsgT_v02" "srnBtleApInfo_valid")) 16 (Elem [IS_ARRAY; IS_VARIABLE_LEN] QMI_IDL_AGGREGATE (Offset OFFSET8 "qmiLocInjectSrnApDataReqMsgT_v02" "srnBtleApInfo") (Some (Macro "QMI_LOC_SRN_MAX_REPORTED_APS_PER_MSG_V02")) (Some (Offset OFFSET8 "qmiLocInjectSrnApDataReqMsgT_v02" "srnBtleApInfo", Offset OFFSET8 "qmiLocInjectSrnApDataReqMsgT_v02" "srnBtleApInfo_len")) (Some (0, 75)));
      Tlv false (Some (Offset OFFSET16RELATIVE "qmiLocInjectSrnApDataReqMsgT_v02" "requestTimestamp", Offset OFFSET16RELATIVE "qmiLocInjectSrnApDataReqMsgT_v02" "requestTimestamp_valid")) 17 (Elem [OFFSET_IS_16] QMI_IDL_GENERIC_8_BYTE (Offset OFFSET16ARRAY "qmiLocInjectSrnApDataReqMsgT_v02" "requestTimestamp") None None None);
      Tlv false (Some (Offset OFFSET16RELATIVE "qmiLocInjectSrnApDataReqMsgT_v02" "receiveTimestamp", Offset OFFSET16RELATIVE "qmiLocInjectSrnApDataReqMsgT_v02" "receiveTimestamp_valid")) 18 (Elem [OFFSET_IS_16] QMI_IDL_GENERIC_8_BYTE (Offset OFFSET16ARRAY "qmiLocInjectSrnApDataReqMsgT_v02" "receiveTimestamp") None None None);
      Tlv true (Some (Offset OFFSET16RELATIVE "qmiLocInjectSrnApDataReqMsgT_v02" "errorCause", Offset OFFSET16RELATIVE "qmiLocInjectSrnApDataReqMsgT_v02" "errorCause_valid")) 19 (Elem [OFFSET_IS_16] QMI_IDL_GENERIC_4_BYTE (Offset OFFSET16ARRAY "qmiLocInjectSrnApDataReqMsgT_v02" "errorCause") None None None) ]) ].

Definition message_data_37 : list (string * list tlv) := [
  ("qmiLocInjectSrnApDataIndMsgT_data_v02", [
      Tlv true None 1 (Elem [] QMI_IDL_GENERIC_4_BYTE (Offset OFFSET8 "qmiLocInjectSrnApDataIndMsgT_v02" "status") None None None) ]);
  ("qmiLocCrowdSourceManagerControlReqMsgT_data_v02", [
      Tlv false (Some (Offset OFFSET8 "qmiLocCrowdSourceManagerControlReqMsgT_v02" "enableCrowdSourcingMask", Offset OFFSET8 "qmiLocCrowdSourceManagerControlReqMsgT_v02" "enableCrowdSourcingMask_valid")) 16 (Elem [] QMI_IDL_GENERIC_4_BYTE (Offset OFFSET8 "qmiLocCrowdSourceManagerControlReqMsgT_v02" "enableCrowdSourcingMask") None None None);
      Tlv false (Some (Offset OFFSET8 "qmiLocCrowdSourceManagerControlReqMsgT_v02" "wifiCrowdSourcingLocalConfig", Offset OFFSET8 "qmiLocCrowdSourceManagerControlReqMsgT_v02" "wifiCrowdSourcingLocalConfig_valid")) 17 (Elem [] QMI_IDL_AGGREGATE (Offset OFFSET8 "qmiLocCrowdSourceManagerControlReqMsgT_v02" "wifiCrowdSourcingLocalConfig") None None (Some (0, 76)));
      Tlv false (Some (Offset OFFSET8 "qmiLocCrowdSourceManagerControlReqMsgT_v02" "wifiCrowdSourcingServerConfig", Offset OFFSET8 "qmiLocCrowdSourceManagerControlReqMsgT_v02" "wifiCrowdSourcingServerConfig_valid")) 18 (Elem [IS_ARRAY; IS_VARIABLE_LEN; SZ_IS_16] QMI_IDL_GENERIC_1_BYTE (Offset OFFSET8 "qmiLocCrowdSourceManagerControlReqMsgT_v02" "wifiCrowdSourcingServerConfig") (Some (Macro "QMI_LOC_MAX_WIFI_CROWDSOURCING_SERVER_CONFIG_LEN_V02")) (Some (Offset OFFSET8 "qmiLocCrowdSourceManagerControlReqMsgT_v02" "wifiCrowdSourcingServerConfig", Offset OFFSET8 "qmiLocCrowdSourceManagerControlReqMsgT_v02" "wifiCrowdSourcingServerConfig_len")) None);
      Tlv true (Some (Offset OFFSET16RELATIVE "qmiLocCrowdSourceManagerControlReqMsgT_v02" "enableSourceMask", Offset OFFSET16RELATIVE "qmiLocCrowdSourceManagerControlReqMsgT_v02" "enableSourceMask_valid")) 19 (Elem [OFFSET_IS_16] QMI_IDL_GENERIC_4_BYTE (Offset OFFSET16ARRAY "qmiLocCrowdSourceManagerControlReqMsgT_v02" "enableSourceMask") None None None) ]);
  ("qmiLocCrowdSourceManagerControlIndMsgT_data_v02", [
      Tlv false None 1 (Elem [] QMI_IDL_GENERIC_4_BYTE (Offset OFFSET8 "qmiLocCrowdSourceManagerControlIndMsgT_v02" "status") None None None);
      Tlv false (Some (Offset OFFSET8 "qmiLocCrowdSourceManagerControlIndMsgT_v02" "supportedCrowdSourcingMask", Offset OFFSET8 "qmiLocCrowdSourceManagerControlIndMsgT_v02" "supportedCrowdSourcingMask_valid")) 16 (Elem [] QMI_IDL_GENERIC_4_BYTE (Offset OFFSET8 "qmiLocCrowdSourceManagerControlIndMsgT_v02" "supportedCrowdSourcingMask") None None None);
      Tlv false (Some (Offset OFFSET8 "qmiLocCrowdSourceManagerControlIndMsgT_v02" "wifiCrowdSourcingCapabaility", Offset OFFSET8 "qmiLocCrowdSourceManagerControlIndMsgT_v02" "wifiCrowdSourcingCapabaility_valid")) 17 (Elem [] QMI_IDL_AGGREGATE (Offset OFFSET8 "qmiLocCrowdSourceManagerControlIndMsgT_v02" "wifiCrowdSourcingCapabaility") None None (Some (0, 77)));
      Tlv true (Some (Offset OFFSET8 "qmiLocCrowdSourceManagerControlIndMsgT_v02" "modemClientInfo", Offset OFFSET8 "qmiLocCrowdSourceManagerControlIndMsgT_v02" "modemClientInfo_valid")) 18 (Elem [IS_ARRAY; IS_VARIABLE_LEN; SZ_IS_16] QMI_IDL_GENERIC_1_BYTE (Offset OFFSET8 "qmiLocCrowdSourceManagerControlIndMsgT_v02" "modemClientInfo") (Some (Macro "QMI_LOC_MAX_CROWDSOURCING_MODEM_CLIENT_INFO_LEN_V02")) (Some (Offset OFFSET8 "qmiLocCrowdSourceManagerControlIndMsgT_v02" "modemClientInfo", Offset OFFSET8 "qmiLocCrowdSourceManagerControlIndMsgT_v02" "modemClientInfo_len")) None) ]);
  ("qmiLocCrowdSourceManagerReadDataReqMsgT_data_v02", [
      Tlv true (Some (Offset OFFSET8 "qmiLocCrowdSourceManagerReadDataReqMsgT_v02" "crowdSourcingTechMask", Offset OFFSET8 "qmiLocCrowdSourceManagerReadDataReqMsgT_v02" "crowdSourcingTechMask_valid")) 16 (Elem [] QMI_IDL_GENERIC_4_BYTE (Offset OFFSET8 "qmiLocCrowdSourceManagerReadDataReqMsgT_v02" "crowdSourcingTechMask") None None None) ]);
  ("qmiLocQueryXtraInfoReqMsgT_data_v02", [
      Tlv false None 1 (Elem [] QMI_IDL_GENERIC_4_BYTE (Offset OFFSET8 "qmiLocQueryXtraInfoReqMsgT_v02" "xtraConfig") None None None);
      Tlv true (Some (Offset OFFSET8 "qmiLocQueryXtraInfoReqMsgT_v02" "xcVersion", Offset OFFSET8 "qmiLocQueryXtraInfoReqMsgT_v02" "xcVersion_valid")) 16 (Elem [] QMI_IDL_AGGREGATE (Offset OFFSET8 "qmiLocQueryXtraInfoReqMsgT_v02" "xcVersion") None None (Some (0, 79))) ]);
  ("qmiLocQueryXtraInfoIndMsgT_data_v02", [
      Tlv false None 1 (Elem [] QMI_IDL_GENERIC_4_BYTE (Offset OFFSET8 "qmiLocQueryXtraInfoIndMsgT_v02" "status") None None None);
      Tlv false None 2 (Elem [] QMI_IDL_AGGREGATE (Offset OFFSET8 "qmiLocQueryXtraInfoIndMsgT_v02" "xtraInfo") None None (Some (0, 78)));
      Tlv true (Some (Offset OFFSET16RELATIVE "qmiLocQueryXtraInfoIndMsgT_v02" "mpVersion", Offset OFFSET16RELATIVE "qmiLocQueryXtraInfoIndMsgT_v02" "mpVersion_valid")) 16 (Elem [OFFSET_IS_16] QMI_IDL_AGGREGATE (Offset OFFSET16ARRAY "qmiLocQueryXtraInfoIndMsgT_v02" "mpVersion") None None (Some (0, 79))) ]);
  ("qmiLocStartOutdoorTripBatchingReqMsgT_data_v02", [
      Tlv false None 1 (Elem [] QMI_IDL_GENERIC_4_BYTE (Offset OFFSET8 "qmiLocStartOutdoorTripBatchingReqMsgT_v02" "batchDistance") None None None);
      Tlv false None 2 (Elem [] QMI_IDL_GENERIC_4_BYTE (Offset OFFSET8 "qmiLocStartOutdoorTripBatchingReqMsgT_v02" "minTimeInterval") None None None);
      Tlv false (Some (Offset OFFSET8 "qmiLocStartOutdoorTripBatchingReqMsgT_v02" "fixSessionTimeout", Offset OFFSET8 "qmiLocStartOutdoorTripBatchingReqMsgT_v02" "fixSessionTimeout_valid")) 16 (Elem [] QMI_IDL_GENERIC_4_BYTE (Offset OFFSET8 "qmiLocStartOutdoorTripBatchingReqMsgT_v02" "fixSessionTimeout") None None None);
      Tlv true (Some (Offset OFFSET8 "qmiLocStartOutdoorTripBatchingReqMsgT_v02" "batchAllPos", Offset OFFSET8 "qmiLocStartOutdoorTripBatchingReqMsgT_v02" "batchAllPos_valid")) 17 (Elem [] QMI_IDL_GENERIC_1_BYTE (Offset OFFSET8 "qmiLocStartOutdoorTripBatchingReqMsgT_v02" "batchAllPos") None None None) ]);
  ("qmiLocStartOutdoorTripBatchingIndMsgT_data_v02", [
      Tlv true None 1 (Elem [] QMI_IDL_GENERIC_4_BYTE (Offset OFFSET8 "qmiLocStartOutdoorTripBatchingIndMsgT_v02" "status") None None None) ]);
  ("qmiLocQueryOTBAccumulatedDistanceIndMsgT_data_v02", [
      Tlv false None 1 (Elem [] QMI_IDL_GENERIC_4_BYTE (Offset OFFSET8 "qmiLocQueryOTBAccumulatedDistanceIndMsgT_v02" "status") None None None);
      Tlv false None 2 (Elem [] QMI_IDL_GENERIC_4_BYTE (Offset OFFSET8 "qmiLocQueryOTBAccumulatedDistanceIndMsgT_v02" "accumulatedDistance") None None None);
      Tlv true None 3 (Elem [] QMI_IDL_GENERIC_4_BYTE (Offset OFFSET8 "qmiLocQueryOTBAccumulatedDistanceIndMsgT_v02" "batchedPosition") None None None) ]) ].

Definition message_data_38 : list (string * list tlv) := [
  ("qmiLocEventFdclServiceReqIndMsgT_data_v02", [
      Tlv false (Some (Offset OFFSET8 "qmiLocEventFdclServiceReqIndMsgT_v02" "gtpClientSwVer", Offset OFFSET8 "qmiLocEventFdclServiceReqIndMsgT_v02" "gtpClientSwVer_valid")) 16 (Elem [] QMI_IDL_AGGREGATE (Offset OFFSET8 "qmiLocEventFdclServiceReqIndMsgT_v02" "gtpClientSwVer") None None (Some (0, 80)));
      Tlv false (Some (Offset OFFSET8 "qmiLocEventFdclServiceReqIndMsgT_v02" "modemSwVersion", Offset OFFSET8 "qmiLocEventFdclServiceReqIndMsgT_v02" "modemSwVersion_valid")) 17 (Elem [IS_ARRAY; IS_VARIABLE_LEN] QMI_IDL_STRING (Offset OFFSET8 "qmiLocEventFdclServiceReqIndMsgT_v02" "modemSwVersion") (Some (Macro "QMI_LOC_GNSS_SW_VERSION_STRING_MAX_LENGTH_V02")) None None);
      Tlv false (Some (Offset OFFSET16RELATIVE "qmiLocEventFdclServiceReqIndMsgT_v02" "homeCarrierId", Offset OFFSET16RELATIVE "qmiLocEventFdclServiceReqIndMsgT_v02" "homeCarrierId_valid")) 18 (Elem [OFFSET_IS_16] QMI_IDL_AGGREGATE (Offset OFFSET16ARRAY "qmiLocEventFdclServiceReqIndMsgT_v02" "homeCarrierId") None None (Some (0, 81)));
      Tlv false (Some (Offset OFFSET16RELATIVE "qmiLocEventFdclServiceReqIndMsgT_v02" "cdmaRealm", Offset OFFSET16RELATIVE "qmiLocEventFdclServiceReqIndMsgT_v02" "cdmaRealm_valid")) 19 (Elem [IS_ARRAY; IS_VARIABLE_LEN; OFFSET_IS_16] QMI_IDL_STRING (Offset OFFSET16ARRAY "qmiLocEventFdclServiceReqIndMsgT_v02" "cdmaRealm") (Some (Macro "QMI_LOC_GNSS_SW_VERSION_STRING_MAX_LENGTH_V02")) None None);
      Tlv false (Some (Offset OFFSET16RELATIVE "qmiLocEventFdclServiceReqIndMsgT_v02" "gtpMaxNumRecordsAccepted", Offset OFFSET16RELATIVE "qmiLocEventFdclServiceReqIndMsgT_v02" "gtpMaxNumRecordsAccepted_valid")) 20 (Elem [OFFSET_IS_16] QMI_IDL_GENERIC_2_BYTE (Offset OFFSET16ARRAY "qmiLocEventFdclServiceReqIndMsgT_v02" "gtpMaxNumRecordsAccepted") None None None);
      Tlv false (Some (Offset OFFSET16RELATIVE "qmiLocEventFdclServiceReqIndMsgT_v02" "gpsWeek", Offset OFFSET16RELATIVE "qmiLocEventFdclServiceReqIndMsgT_v02" "gpsWeek_valid")) 21 (Elem [OFFSET_IS_16] QMI_IDL_GENERIC_2_BYTE (Offset OFFSET16ARRAY "qmiLocEventFdclServiceReqIndMsgT_v02" "gpsWeek") None None None);
      Tlv false (Some (Offset OFFSET16RELATIVE "qmiLocEventFdclServiceReqIndMsgT_v02" "gpsMilliseconds", Offset OFFSET16RELATIVE "qmiLocEventFdclServiceReqIndMsgT_v02" "gpsMilliseconds_valid")) 22 (Elem [OFFSET_IS_16] QMI_IDL_GENERIC_4_BYTE (Offset OFFSET16ARRAY "qmiLocEventFdclServiceReqIndMsgT_v02" "gpsMilliseconds") None None None);
      Tlv false (Some (Offset OFFSET16RELATIVE "qmiLocEventFdclServiceReqIndMsgT_v02" "bsBestPosition", Offset OFFSET16RELATIVE "qmiLocEventFdclServiceReqIndMsgT_v02" "bsBestPosition_valid")) 23 (Elem [OFFSET_IS_16] QMI_IDL_AGGREGATE (Offset OFFSET16ARRAY "qmiLocEventFdclServiceReqIndMsgT_v02" "bsBestPosition") None None (Some (0, 83)));
      Tlv false (Some (Offset OFFSET16RELATIVE "qmiLocEventFdclServiceReqIndMsgT_v02" "currentCellId", Offset OFFSET16RELATIVE "qmiLocEventFdclServiceReqIndMsgT_v02" "currentCellId_valid")) 24 (Elem [OFFSET_IS_16] QMI_IDL_AGGREGATE (Offset OFFSET16ARRAY "qmiLocEventFdclServiceReqIndMsgT_v02" "currentCellId") None None (Some (0, 84)));
      Tlv false (Some (Offset OFFSET16RELATIVE "qmiLocEventFdclServiceReqIndMsgT_v02" "requestedDataTypes", Offset OFFSET16RELATIVE "qmiLocEventFdclServiceReqIndMsgT_v02" "requestedDataTypes_valid")) 25 (Elem [OFFSET_IS_16] QMI_IDL_GENERIC_1_BYTE (Offset OFFSET16ARRAY "qmiLocEventFdclServiceReqIndMsgT_v02" "requestedDataTypes") None None None);
      Tlv true (Some (Offset OFFSET16RELATIVE "qmiLocEventFdclServiceReqIndMsgT_v02" "restrictedRegionVersion", Offset OFFSET16RELATIVE "qmiLocEventFdclServiceReqIndMsgT_v02" "restrictedRegionVersion_valid")) 26 (Elem [OFFSET_IS_16] QMI_IDL_GENERIC_1_BYTE (Offset OFFSET16ARRAY "qmiLocEventFdclServiceReqIndMsgT_v02" "restrictedRegionVersion") None None None) ]);
  ("qmiLocGetFdclBsListReqMsgT_data_v02", [
      Tlv false (Some (Offset OFFSET8 "qmiLocGetFdclBsListReqMsgT_v02" "expireInDays", Offset OFFSET8 "qmiLocGetFdclBsListReqMsgT_v02" "expireInDays_valid")) 16 (Elem [] QMI_IDL_GENERIC_4_BYTE (Offset OFFSET8 "qmiLocGetFdclBsListReqMsgT_v02" "expireInDays") None None None);
      Tlv false (Some (Offset OFFSET8 "qmiLocGetFdclBsListReqMsgT_v02" "timestampUtc", Offset OFFSET8 "qmiLocGetFdclBsListReqMsgT_v02" "timestampUtc_valid")) 17 (Elem [] QMI_IDL_GENERIC_8_BYTE (Offset OFFSET8 "qmiLocGetFdclBsListReqMsgT_v02" "timestampUtc") None None None);
      Tlv true (Some (Offset OFFSET8 "qmiLocGetFdclBsListReqMsgT_v02" "maxNumBs", Offset OFFSET8 "qmiLocGetFdclBsListReqMsgT_v02" "maxNumBs_valid")) 18 (Elem [] QMI_IDL_GENERIC_2_BYTE (Offset OFFSET8 "qmiLocGetFdclBsListReqMsgT_v02" "maxNumBs") None None None) ]);
  ("qmiLocGetFdclBsListIndMsgT_data_v02", [
      Tlv false None 1 (Elem [] QMI_IDL_GENERIC_4_BYTE (Offset OFFSET8 "qmiLocGetFdclBsListIndMsgT_v02" "status") None None None);
      Tlv false None 2 (Elem [IS_ARRAY; IS_VARIABLE_LEN] QMI_IDL_AGGREGATE (Offset OFFSET8 "qmiLocGetFdclBsListIndMsgT_v02" "BsList") (Some (Macro "QMI_LOC_FDCL_BS_LIST_MAX_SIZE_V02")) (Some (Offset OFFSET8 "qmiLocGetFdclBsListIndMsgT_v02" "BsList", Offset OFFSET8 "qmiLocGetFdclBsListIndMsgT_v02" "BsList_len")) (Some (0, 84)));
      Tlv false (Some (Offset OFFSET16RELATIVE "qmiLocGetFdclBsListIndMsgT_v02" "moreBsAvailable", Offset OFFSET16RELATIVE "qmiLocGetFdclBsListIndMsgT_v02" "moreBsAvailable_valid")) 16 (Elem [OFFSET_IS_16] QMI_IDL_GENERIC_1_BYTE (Offset OFFSET16ARRAY "qmiLocGetFdclBsListIndMsgT_v02" "moreBsAvailable") None None None);
      Tlv false (Some (Offset OFFSET16RELATIVE "qmiLocGetFdclBsListIndMsgT_v02" "bsLocalTimestampList", Offset OFFSET16RELATIVE "qmiLocGetFdclBsListIndMsgT_v02" "bsLocalTimestampList_valid")) 17 (Elem [IS_ARRAY; IS_VARIABLE_LEN; OFFSET_IS_16] QMI_IDL_GENERIC_4_BYTE (Offset OFFSET16ARRAY "qmiLocGetFdclBsListIndMsgT_v02" "bsLocalTimestampList") (Some (Macro "QMI_LOC_FDCL_BS_LIST_MAX_SIZE_V02")) (Some (Offset OFFSET16RELATIVE "qmiLocGetFdclBsListIndMsgT_v02" "bsLocalTimestampList", Offset OFFSET16RELATIVE "qmiLocGetFdclBsListIndMsgT_v02" "bsLocalTimestampList_len")) None);
      Tlv true (Some (Offset OFFSET16RELATIVE "qmiLocGetFdclBsListIndMsgT_v02" "bsBestPosition", Offset OFFSET16RELATIVE "qmiLocGetFdclBsListIndMsgT_v02" "bsBestPosition_valid")) 18 (Elem [OFFSET_IS_16] QMI_IDL_AGGREGATE (Offset OFFSET16ARRAY "qmiLocGetFdclBsListIndMsgT_v02" "bsBestPosition") None None (Some (0, 83))) ]) ].

Definition message_data_39 : list (string * list tlv) := [
  ("qmiLocInjectFdclDataReqMsgT_data_v02", [
      Tlv false None 1 (Elem [IS_ARRAY; IS_VARIABLE_LEN] QMI_IDL_AGGREGATE (Offset OFFSET8 "qmiLocInjectFdclDataReqMsgT_v02" "cellPosList") (Some (Macro "QMI_LOC_FDCL_CELL_POS_LIST_LENGTH_V02")) (Some (Offset OFFSET8 "qmiLocInjectFdclDataReqMsgT_v02" "cellPosList", Offset OFFSET8 "qmiLocInjectFdclDataReqMsgT_v02" "cellPosList_len")) (Some (0, 85)));
      Tlv false None 2 (Elem [OFFSET_IS_16] QMI_IDL_GENERIC_4_BYTE (Offset OFFSET16ARRAY "qmiLocInjectFdclDataReqMsgT_v02" "daysValid") None None None);
      Tlv false (Some (Offset OFFSET16RELATIVE "qmiLocInjectFdclDataReqMsgT_v02" "timestampUtc", Offset OFFSET16RELATIVE "qmiLocInjectFdclDataReqMsgT_v02" "timestampUtc_valid")) 16 (Elem [OFFSET_IS_16] QMI_IDL_GENERIC_8_BYTE (Offset OFFSET16ARRAY "qmiLocInjectFdclDataReqMsgT_v02" "timestampUtc") None None None);
      Tlv false (Some (Offset OFFSET16RELATIVE "qmiLocInjectFdclDataReqMsgT_v02" "cellRecordTypeList", Offset OFFSET16RELATIVE "qmiLocInjectFdclDataReqMsgT_v02" "cellRecordTypeList_valid")) 17 (Elem [IS_ARRAY; IS_VARIABLE_LEN; OFFSET_IS_16] QMI_IDL_GENERIC_4_BYTE (Offset OFFSET16ARRAY "qmiLocInjectFdclDataReqMsgT_v02" "cellRecordTypeList") (Some (Macro "QMI_LOC_FDCL_CELL_POS_LIST_LENGTH_V02")) (Some (Offset OFFSET16RELATIVE "qmiLocInjectFdclDataReqMsgT_v02" "cellRecordTypeList", Offset OFFSET16RELATIVE "qmiLocInjectFdclDataReqMsgT_v02" "cellRecordTypeList_len")) None);
      Tlv false (Some (Offset OFFSET16RELATIVE "qmiLocInjectFdclDataReqMsgT_v02" "moreBsAvailable", Offset OFFSET16RELATIVE "qmiLocInjectFdclDataReqMsgT_v02" "moreBsAvailable_valid")) 18 (Elem [OFFSET_IS_16] QMI_IDL_GENERIC_1_BYTE (Offset OFFSET16ARRAY "qmiLocInjectFdclDataReqMsgT_v02" "moreBsAvailable") None None None);
      Tlv false (Some (Offset OFFSET16RELATIVE "qmiLocInjectFdclDataReqMsgT_v02" "clientControls", Offset OFFSET16RELATIVE "qmiLocInjectFdclDataReqMsgT_v02" "clientControls_valid")) 19 (Elem [OFFSET_IS_16] QMI_IDL_GENERIC_2_BYTE (Offset OFFSET16ARRAY "qmiLocInjectFdclDataReqMsgT_v02" "clientControls") None None None);
      Tlv false (Some (Offset OFFSET16RELATIVE "qmiLocInjectFdclDataReqMsgT_v02" "maxNumCellsToUpload", Offset OFFSET16RELATIVE "qmiLocInjectFdclDataReqMsgT_v02" "maxNumCellsToUpload_valid")) 20 (Elem [OFFSET_IS_16] QMI_IDL_GENERIC_2_BYTE (Offset OFFSET16ARRAY "qmiLocInjectFdclDataReqMsgT_v02" "maxNumCellsToUpload") None None None);
      Tlv false (Some (Offset OFFSET16RELATIVE "qmiLocInjectFdclDataReqMsgT_v02" "minSecsBtwRequests", Offset OFFSET16RELATIVE "qmiLocInjectFdclDataReqMsgT_v02" "minSecsBtwRequests_valid")) 21 (Elem [OFFSET_IS_16] QMI_IDL_GENERIC_2_BYTE (Offset OFFSET16ARRAY "qmiLocInjectFdclDataReqMsgT_v02" "minSecsBtwRequests") None None None);
      Tlv false (Some (Offset OFFSET16RELATIVE "qmiLocInjectFdclDataReqMsgT_v02" "restrictedRegionVersion", Offset OFFSET16RELATIVE "qmiLocInjectFdclDataReqMsgT_v02" "restrictedRegionVersion_valid")) 22 (Elem [OFFSET_IS_16] QMI_IDL_GENERIC_1_BYTE (Offset OFFSET16ARRAY "qmiLocInjectFdclDataReqMsgT_v02" "restrictedRegionVersion") None None None);
      Tlv true (Some (Offset OFFSET16RELATIVE "qmiLocInjectFdclDataReqMsgT_v02" "restrictedRegions", Offset OFFSET16RELATIVE "qmiLocInjectFdclDataReqMsgT_v02" "restrictedRegions_valid")) 23 (Elem [IS_ARRAY; IS_VARIABLE_LEN; OFFSET_IS_16] QMI_IDL_AGGREGATE (Offset OFFSET16ARRAY "qmiLocInjectFdclDataReqMsgT_v02" "restrictedRegions") (Some (Macro "QMI_LOC_FDCL_BS_LIST_MAX_SIZE_V02")) (Some (Offset OFFSET16RELATIVE "qmiLocInjectFdclDataReqMsgT_v02" "restrictedRegions", Offset OFFSET16RELATIVE "qmiLocInjectFdclDataReqMsgT_v02" "restrictedRegions_len")) (Some (0, 81))) ]);
  ("qmiLocInjectFdclDataIndMsgT_data_v02", [
      Tlv false None 1 (Elem [] QMI_IDL_GENERIC_4_BYTE (Offset OFFSET8 "qmiLocInjectFdclDataIndMsgT_v02" "status") None None None);
      Tlv false None 2 (Elem [] QMI_IDL_GENERIC_4_BYTE (Offset OFFSET8 "qmiLocInjectFdclDataIndMsgT_v02" "inject_status") None None None);
      Tlv true (Some (Offset OFFSET8 "qmiLocInjectFdclDataIndMsgT_v02" "errorMsg", Offset OFFSET8 "qmiLocInjectFdclDataIndMsgT_v02" "errorMsg_valid")) 16 (Elem [IS_ARRAY; IS_VARIABLE_LEN] QMI_IDL_STRING (Offset OFFSET8 "qmiLocInjectFdclDataIndMsgT_v02" "errorMsg") (Some (Macro "QMI_LOC_INJECT_FDCL_DATA_ERROR_MSG_LEN_V02")) None None) ]);
  ("qmiLocSetBlacklistSvReqMsgT_data_v02", [
      Tlv false (Some (Offset OFFSET8 "qmiLocSetBlacklistSvReqMsgT_v02" "glo_persist_blacklist_sv", Offset OFFSET8 "qmiLocSetBlacklistSvReqMsgT_v02" "glo_persist_blacklist_sv_valid")) 16 (Elem [] QMI_IDL_GENERIC_8_BYTE (Offset OFFSET8 "qmiLocSetBlacklistSvReqMsgT_v02" "glo_persist_blacklist_sv") None None None);
      Tlv false (Some (Offset OFFSET8 "qmiLocSetBlacklistSvReqMsgT_v02" "glo_clear_persist_blacklist_sv", Offset OFFSET8 "qmiLocSetBlacklistSvReqMsgT_v02" "glo_clear_persist_blacklist_sv_valid")) 17 (Elem [] QMI_IDL_GENERIC_8_BYTE (Offset OFFSET8 "qmiLocSetBlacklistSvReqMsgT_v02" "glo_clear_persist_blacklist_sv") None None None);
      Tlv false (Some (Offset OFFSET8 "qmiLocSetBlacklistSvReqMsgT_v02" "bds_persist_blacklist_sv", Offset OFFSET8 "qmiLocSetBlacklistSvReqMsgT_v02" "bds_persist_blacklist_sv_valid")) 18 (Elem [] QMI_IDL_GENERIC_8_BYTE (Offset OFFSET8 "qmiLocSetBlacklistSvReqMsgT_v02" "bds_persist_blacklist_sv") None None None);
      Tlv false (Some (Offset OFFSET8 "qmiLocSetBlacklistSvReqMsgT_v02" "bds_clear_persist_blacklist_sv", Offset OFFSET8 "qmiLocSetBlacklistSvReqMsgT_v02" "bds_clear_persist_blacklist_sv_valid")) 19 (Elem [] QMI_IDL_GENERIC_8_BYTE (Offset OFFSET8 "qmiLocSetBlacklistSvReqMsgT_v02" "bds_clear_persist_blacklist_sv") None None None);
      Tlv false (Some (Offset OFFSET8 "qmiLocSetBlacklistSvReqMsgT_v02" "qzss_persist_blacklist_sv", Offset OFFSET8 "qmiLocSetBlacklistSvReqMsgT_v02" "qzss_persist_blacklist_sv_valid")) 20 (Elem [] QMI_IDL_GENERIC_8_BYTE (Offset OFFSET8 "qmiLocSetBlacklistSvReqMsgT_v02" "qzss_persist_blacklist_sv") None None None);
      Tlv false (Some (Offset OFFSET8 "qmiLocSetBlacklistSvReqMsgT_v02" "qzss_clear_persist_blacklist_sv", Offset OFFSET8 "qmiLocSetBlacklistSvReqMsgT_v02" "qzss_clear_persist_blacklist_sv_valid")) 21 (Elem [] QMI_IDL_GENERIC_8_BYTE (Offset OFFSET8 "qmiLocSetBlacklistSvReqMsgT_v02" "qzss_clear_persist_blacklist_sv") None None None);
      Tlv false (Some (Offset OFFSET8 "qmiLocSetBlacklistSvReqMsgT_v02" "gal_persist_blacklist_sv", Offset OFFSET8 "qmiLocSetBlacklistSvReqMsgT_v02" "gal_persist_blacklist_sv_valid")) 22 (Elem [] QMI_IDL_GENERIC_8_BYTE (Offset OFFSET8 "qmiLocSetBlacklistSvReqMsgT_v02" "gal_persist_blacklist_sv") None None None);
      Tlv false (Some (Offset OFFSET8 "qmiLocSetBlacklistSvReqMsgT_v02" "gal_clear_persist_blacklist_sv", Offset OFFSET8 "qmiLocSetBlacklistSvReqMsgT_v02" "gal_clear_persist_blacklist_sv_valid")) 23 (Elem [] QMI_IDL_GENERIC_8_BYTE (Offset OFFSET8 "qmiLocSetBlacklistSvReqMsgT_v02" "gal_clear_persist_blacklist_sv") None None None);
      Tlv false (Some (Offset OFFSET8 "qmiLocSetBlacklistSvReqMsgT_v02" "sbas_persist_blacklist_sv", Offset OFFSET8 "qmiLocSetBlacklistSvReqMsgT_v02" "sbas_persist_blacklist_sv_valid")) 24 (Elem [] QMI_IDL_GENERIC_8_BYTE (Offset OFFSET8 "qmiLocSetBlacklistSvReqMsgT_v02" "sbas_persist_blacklist_sv") None None None);
      Tlv false (Some (Offset OFFSET8 "qmiLocSetBlacklistSvReqMsgT_v02" "sbas_clear_persist_blacklist_sv", Offset OFFSET8 "qmiLocSetBlacklistSvReqMsgT_v02" "sbas_clear_persist_blacklist_sv_valid")) 25 (Elem [] QMI_IDL_GENERIC_8_BYTE (Offset OFFSET8 "qmiLocSetBlacklistSvReqMsgT_v02" "sbas_clear_persist_blacklist_sv") None None None);
      Tlv false (Some (Offset OFFSET8 "qmiLocSetBlacklistSvReqMsgT_v02" "navic_persist_blacklist_sv", Offset OFFSET8 "qmiLocSetBlacklistSvReqMsgT_v02" "navic_persist_blacklist_sv_valid")) 26 (Elem [] QMI_IDL_GENERIC_8_BYTE (Offset OFFSET8 "qmiLocSetBlacklistSvReqMsgT_v02" "navic_persist_blacklist_sv") None None None);
      Tlv true (Some (Offset OFFSET8 "qmiLocSetBlacklistSvReqMsgT_v02" "navic_clear_persist_blacklist_sv", Offset OFFSET8 "qmiLocSetBlacklistSvReqMsgT_v02" "navic_clear_persist_blacklist_sv_valid")) 27 (Elem [] QMI_IDL_GENERIC_8_BYTE (Offset OFFSET8 "qmiLocSetBlacklistSvReqMsgT_v02" "navic_clear_persist_blacklist_sv") None None None) ]) ].

Definition message_data_40 : list (string * list tlv) := [
  ("qmiLocGetBlacklistSvIndMsgT_data_v02", [
      Tlv false None 1 (Elem [] QMI_IDL_GENERIC_4_BYTE (Offset OFFSET8 "qmiLocGetBlacklistSvIndMsgT_v02" "status") None None None);
      Tlv false (Some (Offset OFFSET8 "qmiLocGetBlacklistSvIndMsgT_v02" "glo_persist_blacklist_sv", Offset OFFSET8 "qmiLocGetBlacklistSvIndMsgT_v02" "glo_persist_blacklist_sv_valid")) 16 (Elem [] QMI_IDL_GENERIC_8_BYTE (Offset OFFSET8 "qmiLocGetBlacklistSvIndMsgT_v02" "glo_persist_blacklist_sv") None None None);
      Tlv false (Some (Offset OFFSET8 "qmiLocGetBlacklistSvIndMsgT_v02" "bds_persist_blacklist_sv", Offset OFFSET8 "qmiLocGetBlacklistSvIndMsgT_v02" "bds_persist_blacklist_sv_valid")) 17 (Elem [] QMI_IDL_GENERIC_8_BYTE (Offset OFFSET8 "qmiLocGetBlacklistSvIndMsgT_v02" "bds_persist_blacklist_sv") None None None);
      Tlv false (Some (Offset OFFSET8 "qmiLocGetBlacklistSvIndMsgT_v02" "qzss_persist_blacklist_sv", Offset OFFSET8 "qmiLocGetBlacklistSvIndMsgT_v02" "qzss_persist_blacklist_sv_valid")) 18 (Elem [] QMI_IDL_GENERIC_8_BYTE (Offset OFFSET8 "qmiLocGetBlacklistSvIndMsgT_v02" "qzss_persist_blacklist_sv") None None None);
      Tlv false (Some (Offset OFFSET8 "qmiLocGetBlacklistSvIndMsgT_v02" "gal_persist_blacklist_sv", Offset OFFSET8 "qmiLocGetBlacklistSvIndMsgT_v02" "gal_persist_blacklist_sv_valid")) 19 (Elem [] QMI_IDL_GENERIC_8_BYTE (Offset OFFSET8 "qmiLocGetBlacklistSvIndMsgT_v02" "gal_persist_blacklist_sv") None None None);
      Tlv false (Some (Offset OFFSET8 "qmiLocGetBlacklistSvIndMsgT_v02" "sbas_persist_blacklist_sv", Offset OFFSET8 "qmiLocGetBlacklistSvIndMsgT_v02" "sbas_persist_blacklist_sv_valid")) 20 (Elem [] QMI_IDL_GENERIC_8_BYTE (Offset OFFSET8 "qmiLocGetBlacklistSvIndMsgT_v02" "sbas_persist_blacklist_sv") None None None);
      Tlv true (Some (Offset OFFSET8 "qmiLocGetBlacklistSvIndMsgT_v02" "navic_persist_blacklist_sv", Offset OFFSET8 "qmiLocGetBlacklistSvIndMsgT_v02" "navic_persist_blacklist_sv_valid")) 21 (Elem [] QMI_IDL_GENERIC_8_BYTE (Offset OFFSET8 "qmiLocGetBlacklistSvIndMsgT_v02" "navic_persist_blacklist_sv") None None None) ]);
  ("qmiLocSetConstellationConfigReqMsgT_data_v02", [
      Tlv false None 1 (Elem [] QMI_IDL_GENERIC_1_BYTE (Offset OFFSET8 "qmiLocSetConstellationConfigReqMsgT_v02" "resetConstellations") None None None);
      Tlv false (Some (Offset OFFSET8 "qmiLocSetConstellationConfigReqMsgT_v02" "enableMask", Offset OFFSET8 "qmiLocSetConstellationConfigReqMsgT_v02" "enableMask_valid")) 16 (Elem [] QMI_IDL_GENERIC_8_BYTE (Offset OFFSET8 "qmiLocSetConstellationConfigReqMsgT_v02" "enableMask") None None None);
      Tlv true (Some (Offset OFFSET8 "qmiLocSetConstellationConfigReqMsgT_v02" "disableMask", Offset OFFSET8 "qmiLocSetConstellationConfigReqMsgT_v02" "disableMask_valid")) 17 (Elem [] QMI_IDL_GENERIC_8_BYTE (Offset OFFSET8 "qmiLocSetConstellationConfigReqMsgT_v02" "disableMask") None None None) ]);
  ("qmiLocEventDcReportIndMsgT_data_v02", [
      Tlv false (Some (Offset OFFSET8 "qmiLocEventDcReportIndMsgT_v02" "msgType", Offset OFFSET8 "qmiLocEventDcReportIndMsgT_v02" "msgType_valid")) 16 (Elem [] QMI_IDL_GENERIC_4_BYTE (Offset OFFSET8 "qmiLocEventDcReportIndMsgT_v02" "msgType") None None None);
      Tlv false (Some (Offset OFFSET8 "qmiLocEventDcReportIndMsgT_v02" "numValidBits", Offset OFFSET8 "qmiLocEventDcReportIndMsgT_v02" "numValidBits_valid")) 17 (Elem [] QMI_IDL_GENERIC_2_BYTE (Offset OFFSET8 "qmiLocEventDcReportIndMsgT_v02" "numValidBits") None None None);
      Tlv true (Some (Offset OFFSET8 "qmiLocEventDcReportIndMsgT_v02" "dcReportData", Offset OFFSET8 "qmiLocEventDcReportIndMsgT_v02" "dcReportData_valid")) 18 (Elem [IS_ARRAY; IS_VARIABLE_LEN] QMI_IDL_GENERIC_1_BYTE (Offset OFFSET8 "qmiLocEventDcReportIndMsgT_v02" "dcReportData") (Some (Macro "QMI_LOC_MAX_DCREPORT_LEN_V02")) (Some (Offset OFFSET8 "qmiLocEventDcReportIndMsgT_v02" "dcReportData", Offset OFFSET8 "qmiLocEventDcReportIndMsgT_v02" "dcReportData_len")) None) ]);
  ("qmiLocRegisterMasterClientReqMsgT_data_v02", [
      Tlv true None 1 (Elem [] QMI_IDL_GENERIC_4_BYTE (Offset OFFSET8 "qmiLocRegisterMasterClientReqMsgT_v02" "key") None None None) ]);
  ("qmiLocRegisterMasterClientIndMsgT_data_v02", [
      Tlv true None 1 (Elem [] QMI_IDL_GENERIC_4_BYTE (Offset OFFSET8 "qmiLocRegisterMasterClientIndMsgT_v02" "status") None None None) ]);
  ("qmiLocEventEngineLockStateIndMsgT_data_v02", [
      Tlv false None 1 (Elem [] QMI_IDL_GENERIC_4_BYTE (Offset OFFSET8 "qmiLocEventEngineLockStateIndMsgT_v02" "engineLockState") None None None);
      Tlv false (Some (Offset OFFSET8 "qmiLocEventEngineLockStateIndMsgT_v02" "subType", Offset OFFSET8 "qmiLocEventEngineLockStateIndMsgT_v02" "subType_valid")) 16 (Elem [] QMI_IDL_GENERIC_4_BYTE (Offset OFFSET8 "qmiLocEventEngineLockStateIndMsgT_v02" "subType") None None None);
      Tlv true (Some (Offset OFFSET8 "qmiLocEventEngineLockStateIndMsgT_v02" "lockClient", Offset OFFSET8 "qmiLocEventEngineLockStateIndMsgT_v02" "lockClient_valid")) 17 (Elem [] QMI_IDL_GENERIC_8_BYTE (Offset OFFSET8 "qmiLocEventEngineLockStateIndMsgT_v02" "lockClient") None None None) ]);
  ("qmiLocSystemInfoReqMsgT_data_v02", [
      Tlv true None 1 (Elem [] QMI_IDL_GENERIC_4_BYTE (Offset OFFSET8 "qmiLocSystemInfoReqMsgT_v02" "systemInfo") None None None) ]);
  ("qmiLocSystemInfoIndMsgT_data_v02", [
      Tlv false None 1 (Elem [] QMI_IDL_GENERIC_4_BYTE (Offset OFFSET8 "qmiLocSystemInfoIndMsgT_v02" "systemInfo") None None None);
      Tlv true (Some (Offset OFFSET8 "qmiLocSystemInfoIndMsgT_v02" "nextLeapSecondInfo", Offset OFFSET8 "qmiLocSystemInfoIndMsgT_v02" "nextLeapSecondInfo_valid")) 16 (Elem [] QMI_IDL_AGGREGATE (Offset OFFSET8 "qmiLocSystemInfoIndMsgT_v02" "nextLeapSecondInfo") None None (Some (0, 86))) ]) ].

Definition message_data_41 : list (string * list tlv) := [
  ("qmiLocGetConstellationConfigIndMsgT_data_v02", [
      Tlv false None 1 (Elem [] QMI_IDL_GENERIC_4_BYTE (Offset OFFSET8 "qmiLocGetConstellationConfigIndMsgT_v02" "status") None None None);
      Tlv false (Some (Offset OFFSET8 "qmiLocGetConstellationConfigIndMsgT_v02" "gps_status", Offset OFFSET8 "qmiLocGetConstellationConfigIndMsgT_v02" "gps_status_valid")) 16 (Elem [] QMI_IDL_GENERIC_4_BYTE (Offset OFFSET8 "qmiLocGetConstellationConfigIndMsgT_v02" "gps_status") None None None);
      Tlv false (Some (Offset OFFSET8 "qmiLocGetConstellationConfigIndMsgT_v02" "glonass_status", Offset OFFSET8 "qmiLocGetConstellationConfigIndMsgT_v02" "glonass_status_valid")) 17 (Elem [] QMI_IDL_GENERIC_4_BYTE (Offset OFFSET8 "qmiLocGetConstellationConfigIndMsgT_v02" "glonass_status") None None None);
      Tlv false (Some (Offset OFFSET8 "qmiLocGetConstellationConfigIndMsgT_v02" "bds_status", Offset OFFSET8 "qmiLocGetConstellationConfigIndMsgT_v02" "bds_status_valid")) 18 (Elem [] QMI_IDL_GENERIC_4_BYTE (Offset OFFSET8 "qmiLocGetConstellationConfigIndMsgT_v02" "bds_status") None None None);
      Tlv false (Some (Offset OFFSET8 "qmiLocGetConstellationConfigIndMsgT_v02" "qzss_status", Offset OFFSET8 "qmiLocGetConstellationConfigIndMsgT_v02" "qzss_status_valid")) 19 (Elem [] QMI_IDL_GENERIC_4_BYTE (Offset OFFSET8 "qmiLocGetConstellationConfigIndMsgT_v02" "qzss_status") None None None);
      Tlv false (Some (Offset OFFSET8 "qmiLocGetConstellationConfigIndMsgT_v02" "galileo_status", Offset OFFSET8 "qmiLocGetConstellationConfigIndMsgT_v02" "galileo_status_valid")) 20 (Elem [] QMI_IDL_GENERIC_4_BYTE (Offset OFFSET8 "qmiLocGetConstellationConfigIndMsgT_v02" "galileo_status") None None None);
      Tlv true (Some (Offset OFFSET8 "qmiLocGetConstellationConfigIndMsgT_v02" "navic_status", Offset OFFSET8 "qmiLocGetConstellationConfigIndMsgT_v02" "navic_status_valid")) 21 (Elem [] QMI_IDL_GENERIC_4_BYTE (Offset OFFSET8 "qmiLocGetConstellationConfigIndMsgT_v02" "navic_status") None None None) ]);
  ("qmiLocEnablePositionInjectionTestModeReqMsgT_data_v02", [
      Tlv true None 1 (Elem [] QMI_IDL_GENERIC_1_BYTE (Offset OFFSET8 "qmiLocEnablePositionInjectionTestModeReqMsgT_v02" "enableTestMode") None None None) ]);
  ("qmiLocEnablePositionInjectionTestModeIndMsgT_data_v02", [
      Tlv false None 1 (Elem [] QMI_IDL_GENERIC_4_BYTE (Offset OFFSET8 "qmiLocEnablePositionInjectionTestModeIndMsgT_v02" "status") None None None);
      Tlv true (Some (Offset OFFSET8 "qmiLocEnablePositionInjectionTestModeIndMsgT_v02" "testModeState", Offset OFFSET8 "qmiLocEnablePositionInjectionTestModeIndMsgT_v02" "testModeState_valid")) 16 (Elem [] QMI_IDL_GENERIC_4_BYTE (Offset OFFSET8 "qmiLocEnablePositionInjectionTestModeIndMsgT_v02" "testModeState") None None None) ]);
  ("qmiLocInjectTestPositionReqMsgT_data_v02", [
      Tlv false None 1 (Elem [] QMI_IDL_GENERIC_8_BYTE (Offset OFFSET8 "qmiLocInjectTestPositionReqMsgT_v02" "latitude") None None None);
      Tlv false None 2 (Elem [] QMI_IDL_GENERIC_8_BYTE (Offset OFFSET8 "qmiLocInjectTestPositionReqMsgT_v02" "longitude") None None None);
      Tlv false None 3 (Elem [] QMI_IDL_GENERIC_4_BYTE (Offset OFFSET8 "qmiLocInjectTestPositionReqMsgT_v02" "horUncCircular") None None None);
      Tlv false None 4 (Elem [] QMI_IDL_GENERIC_8_BYTE (Offset OFFSET8 "qmiLocInjectTestPositionReqMsgT_v02" "timestampUtc") None None None);
      Tlv true (Some (Offset OFFSET8 "qmiLocInjectTestPositionReqMsgT_v02" "positionSource", Offset OFFSET8 "qmiLocInjectTestPositionReqMsgT_v02" "positionSource_valid")) 16 (Elem [] QMI_IDL_GENERIC_4_BYTE (Offset OFFSET8 "qmiLocInjectTestPositionReqMsgT_v02" "positionSource") None None None) ]);
  ("qmiLocInjectTestPositionIndMsgT_data_v02", [
      Tlv true None 1 (Elem [] QMI_IDL_GENERIC_4_BYTE (Offset OFFSET8 "qmiLocInjectTestPositionIndMsgT_v02" "status") None None None) ]);
  ("qmiLocEventBsObsDataServiceReqIndMsgT_data_v02", [
      Tlv true None 1 (Elem [] QMI_IDL_GENERIC_2_BYTE (Offset OFFSET8 "qmiLocEventBsObsDataServiceReqIndMsgT_v02" "numCellsAvailable") None None None) ]);
  ("qmiLocGetBsObsDataReqMsgT_data_v02", [
      Tlv false (Some (Offset OFFSET8 "qmiLocGetBsObsDataReqMsgT_v02" "timestampUtc", Offset OFFSET8 "qmiLocGetBsObsDataReqMsgT_v02" "timestampUtc_valid")) 16 (Elem [] QMI_IDL_GENERIC_8_BYTE (Offset OFFSET8 "qmiLocGetBsObsDataReqMsgT_v02" "timestampUtc") None None None);
      Tlv true (Some (Offset OFFSET8 "qmiLocGetBsObsDataReqMsgT_v02" "numCellsUpload", Offset OFFSET8 "qmiLocGetBsObsDataReqMsgT_v02" "numCellsUpload_valid")) 17 (Elem [] QMI_IDL_GENERIC_2_BYTE (Offset OFFSET8 "qmiLocGetBsObsDataReqMsgT_v02" "numCellsUpload") None None None) ]);
  ("qmiLocGetBsObsDataIndMsgT_data_v02", [
      Tlv false None 1 (Elem [] QMI_IDL_GENERIC_4_BYTE (Offset OFFSET8 "qmiLocGetBsObsDataIndMsgT_v02" "status") None None None);
      Tlv false None 2 (Elem [IS_ARRAY; IS_VARIABLE_LEN] QMI_IDL_AGGREGATE (Offset OFFSET8 "qmiLocGetBsObsDataIndMsgT_v02" "bsData") (Some (Macro "QMI_LOC_FDCL_BS_LIST_MAX_SIZE_V02")) (Some (Offset OFFSET8 "qmiLocGetBsObsDataIndMsgT_v02" "bsData", Offset OFFSET8 "qmiLocGetBsObsDataIndMsgT_v02" "bsData_len")) (Some (0, 87)));
      Tlv true (Some (Offset OFFSET16RELATIVE "qmiLocGetBsObsDataIndMsgT_v02" "moreBsAvailable", Offset OFFSET16RELATIVE "qmiLocGetBsObsDataIndMsgT_v02" "moreBsAvailable_valid")) 16 (Elem [OFFSET_IS_16] QMI_IDL_GENERIC_1_BYTE (Offset OFFSET16ARRAY "qmiLocGetBsObsDataIndMsgT_v02" "moreBsAvailable") None None None) ]);
  ("qmiLocGpsEphemerisReportIndMsgT_data_v02", [
      Tlv false None 1 (Elem [IS_ARRAY; IS_VARIABLE_LEN] QMI_IDL_AGGREGATE (Offset OFFSET8 "qmiLocGpsEphemerisReportIndMsgT_v02" "gpsEphemerisList") (Some (Macro "QMI_LOC_EPHEMERIS_LIST_MAX_SIZE_V02")) (Some (Offset OFFSET8 "qmiLocGpsEphemerisReportIndMsgT_v02" "gpsEphemerisList", Offset OFFSET8 "qmiLocGpsEphemerisReportIndMsgT_v02" "gpsEphemerisList_len")) (Some (0, 89)));
      Tlv true (Some (Offset OFFSET16RELATIVE "qmiLocGpsEphemerisReportIndMsgT_v02" "gpsSystemTime", Offset OFFSET16RELATIVE "qmiLocGpsEphemerisReportIndMsgT_v02" "gpsSystemTime_valid")) 16 (Elem [OFFSET_IS_16] QMI_IDL_AGGREGATE (Offset OFFSET16ARRAY "qmiLocGpsEphemerisReportIndMsgT_v02" "gpsSystemTime") None None (Some (0, 60))) ]);
  ("qmiLocGloEphemerisReportIndMsgT_data_v02", [
      Tlv false None 1 (Elem [IS_ARRAY; IS_VARIABLE_LEN] QMI_IDL_AGGREGATE (Offset OFFSET8 "qmiLocGloEphemerisReportIndMsgT_v02" "gloEphemerisList") (Some (Macro "QMI_LOC_EPHEMERIS_LIST_MAX_SIZE_V02")) (Some (Offset OFFSET8 "qmiLocGloEphemerisReportIndMsgT_v02" "gloEphemerisList", Offset OFFSET8 "qmiLocGloEphemerisReportIndMsgT_v02" "gloEphemerisList_len")) (Some (0, 90)));
      Tlv true (Some (Offset OFFSET16RELATIVE "qmiLocGloEphemerisReportIndMsgT_v02" "gpsSystemTime", Offset OFFSET16RELATIVE "qmiLocGloEphemerisReportIndMsgT_v02" "gpsSystemTime_valid")) 16 (Elem [OFFSET_IS_16] QMI_IDL_AGGREGATE (Offset OFFSET16ARRAY "qmiLocGloEphemerisReportIndMsgT_v02" "gpsSystemTime") None None (Some (0, 60))) ]) ].

Definition message_data_42 : list (string * list tlv) := [
  ("qmiLocBdsEphemerisReportIndMsgT_data_v02", [
      Tlv false None 1 (Elem [IS_ARRAY; IS_VARIABLE_LEN] QMI_IDL_AGGREGATE (Offset OFFSET8 "qmiLocBdsEphemerisReportIndMsgT_v02" "bdsEphemerisList") (Some (Macro "QMI_LOC_EPHEMERIS_LIST_MAX_SIZE_V02")) (Some (Offset OFFSET8 "qmiLocBdsEphemerisReportIndMsgT_v02" "bdsEphemerisList", Offset OFFSET8 "qmiLocBdsEphemerisReportIndMsgT_v02" "bdsEphemerisList_len")) (Some (0, 91)));
      Tlv true (Some (Offset OFFSET16RELATIVE "qmiLocBdsEphemerisReportIndMsgT_v02" "gpsSystemTime", Offset OFFSET16RELATIVE "qmiLocBdsEphemerisReportIndMsgT_v02" "gpsSystemTime_valid")) 16 (Elem [OFFSET_IS_16] QMI_IDL_AGGREGATE (Offset OFFSET16ARRAY "qmiLocBdsEphemerisReportIndMsgT_v02" "gpsSystemTime") None None (Some (0, 60))) ]);
  ("qmiLocGalEphemerisReportIndMsgT_data_v02", [
      Tlv false None 1 (Elem [IS_ARRAY; IS_VARIABLE_LEN] QMI_IDL_AGGREGATE (Offset OFFSET8 "qmiLocGalEphemerisReportIndMsgT_v02" "galEphemerisList") (Some (Macro "QMI_LOC_EPHEMERIS_LIST_MAX_SIZE_V02")) (Some (Offset OFFSET8 "qmiLocGalEphemerisReportIndMsgT_v02" "galEphemerisList", Offset OFFSET8 "qmiLocGalEphemerisReportIndMsgT_v02" "galEphemerisList_len")) (Some (0, 92)));
      Tlv true (Some (Offset OFFSET16RELATIVE "qmiLocGalEphemerisReportIndMsgT_v02" "gpsSystemTime", Offset OFFSET16RELATIVE "qmiLocGalEphemerisReportIndMsgT_v02" "gpsSystemTime_valid")) 16 (Elem [OFFSET_IS_16] QMI_IDL_AGGREGATE (Offset OFFSET16ARRAY "qmiLocGalEphemerisReportIndMsgT_v02" "gpsSystemTime") None None (Some (0, 60))) ]);
  ("qmiLocQzssEphemerisReportIndMsgT_data_v02", [
      Tlv false None 1 (Elem [IS_ARRAY; IS_VARIABLE_LEN] QMI_IDL_AGGREGATE (Offset OFFSET8 "qmiLocQzssEphemerisReportIndMsgT_v02" "qzssEphemerisList") (Some (Macro "QMI_LOC_EPHEMERIS_LIST_MAX_SIZE_V02")) (Some (Offset OFFSET8 "qmiLocQzssEphemerisReportIndMsgT_v02" "qzssEphemerisList", Offset OFFSET8 "qmiLocQzssEphemerisReportIndMsgT_v02" "qzssEphemerisList_len")) (Some (0, 89)));
      Tlv true (Some (Offset OFFSET16RELATIVE "qmiLocQzssEphemerisReportIndMsgT_v02" "gpsSystemTime", Offset OFFSET16RELATIVE "qmiLocQzssEphemerisReportIndMsgT_v02" "gpsSystemTime_valid")) 16 (Elem [OFFSET_IS_16] QMI_IDL_AGGREGATE (Offset OFFSET16ARRAY "qmiLocQzssEphemerisReportIndMsgT_v02" "gpsSystemTime") None None (Some (0, 60))) ]);
  ("qmiLocSetConstrainedTuncModeReqMsgT_data_v02", [
      Tlv false None 1 (Elem [] QMI_IDL_GENERIC_1_BYTE (Offset OFFSET8 "qmiLocSetConstrainedTuncModeReqMsgT_v02" "tuncConstraintOn") None None None);
      Tlv false (Some (Offset OFFSET8 "qmiLocSetConstrainedTuncModeReqMsgT_v02" "tuncConstraint", Offset OFFSET8 "qmiLocSetConstrainedTuncModeReqMsgT_v02" "tuncConstraint_valid")) 16 (Elem [] QMI_IDL_GENERIC_4_BYTE (Offset OFFSET8 "qmiLocSetConstrainedTuncModeReqMsgT_v02" "tuncConstraint") None None None);
      Tlv true (Some (Offset OFFSET8 "qmiLocSetConstrainedTuncModeReqMsgT_v02" "energyBudget", Offset OFFSET8 "qmiLocSetConstrainedTuncModeReqMsgT_v02" "energyBudget_valid")) 17 (Elem [] QMI_IDL_GENERIC_4_BYTE (Offset OFFSET8 "qmiLocSetConstrainedTuncModeReqMsgT_v02" "energyBudget") None None None) ]);
  ("qmiLocSetConstrainedTuncModeIndMsgT_data_v02", [
      Tlv true None 1 (Elem [] QMI_IDL_GENERIC_4_BYTE (Offset OFFSET8 "qmiLocSetConstrainedTuncModeIndMsgT_v02" "status") None None None) ]);
  ("qmiLocEnablePositionAssistedClockEstReqMsgT_data_v02", [
      Tlv true None 1 (Elem [] QMI_IDL_GENERIC_1_BYTE (Offset OFFSET8 "qmiLocEnablePositionAssistedClockEstReqMsgT_v02" "enablePositionAssistedClockEst") None None None) ]);
  ("qmiLocEnablePositionAssistedClockEstIndMsgT_data_v02", [
      Tlv true None 1 (Elem [] QMI_IDL_GENERIC_4_BYTE (Offset OFFSET8 "qmiLocEnablePositionAssistedClockEstIndMsgT_v02" "status") None None None) ]);
  ("qmiLocQueryGNSSEnergyConsumedIndMsgT_data_v02", [
      Tlv false None 1 (Elem [] QMI_IDL_GENERIC_8_BYTE (Offset OFFSET8 "qmiLocQueryGNSSEnergyConsumedIndMsgT_v02" "energyConsumedSinceLastBoot") None None None);
      Tlv true None 2 (Elem [] QMI_IDL_GENERIC_8_BYTE (Offset OFFSET8 "qmiLocQueryGNSSEnergyConsumedIndMsgT_v02" "energyConsumedSinceFirstBoot") None None None) ]);
  ("qmiLocEventReportIndMsgT_data_v02", [
      Tlv false None 1 (Elem [] QMI_IDL_GENERIC_8_BYTE (Offset OFFSET8 "qmiLocEventReportIndMsgT_v02" "eventReport") None None None);
      Tlv false (Some (Offset OFFSET8 "qmiLocEventReportIndMsgT_v02" "gpsSystemTime", Offset OFFSET8 "qmiLocEventReportIndMsgT_v02" "gpsSystemTime_valid")) 16 (Elem [] QMI_IDL_AGGREGATE (Offset OFFSET8 "qmiLocEventReportIndMsgT_v02" "gpsSystemTime") None None (Some (0, 60)));
      Tlv false (Some (Offset OFFSET8 "qmiLocEventReportIndMsgT_v02" "klobucharIonoModel", Offset OFFSET8 "qmiLocEventReportIndMsgT_v02" "klobucharIonoModel_valid")) 17 (Elem [] QMI_IDL_AGGREGATE (Offset OFFSET8 "qmiLocEventReportIndMsgT_v02" "klobucharIonoModel") None None (Some (0, 93)));
      Tlv false (Some (Offset OFFSET8 "qmiLocEventReportIndMsgT_v02" "tauC", Offset OFFSET8 "qmiLocEventReportIndMsgT_v02" "tauC_valid")) 18 (Elem [] QMI_IDL_GENERIC_8_BYTE (Offset OFFSET8 "qmiLocEventReportIndMsgT_v02" "tauC") None None None);
      Tlv false (Some (Offset OFFSET8 "qmiLocEventReportIndMsgT_v02" "leapSec", Offset OFFSET8 "qmiLocEventReportIndMsgT_v02" "leapSec_valid")) 19 (Elem [] QMI_IDL_GENERIC_1_BYTE (Offset OFFSET8 "qmiLocEventReportIndMsgT_v02" "leapSec") None None None);
      Tlv true (Some (Offset OFFSET8 "qmiLocEventReportIndMsgT_v02" "featureStatusReport", Offset OFFSET8 "qmiLocEventReportIndMsgT_v02" "featureStatusReport_valid")) 20 (Elem [] QMI_IDL_GENERIC_8_BYTE (Offset OFFSET8 "qmiLocEventReportIndMsgT_v02" "featureStatusReport") None None None) ]) ].

Definition message_data_43 : list (string * list tlv) := [
  ("qmiLocGetBandMeasurementMetricsIndMsgT_data_v02", [
      Tlv false None 1 (Elem [] QMI_IDL_GENERIC_8_BYTE (Offset OFFSET8 "qmiLocGetBandMeasurementMetricsIndMsgT_v02" "systemTick") None None None);
      Tlv false None 2 (Elem [] QMI_IDL_GENERIC_4_BYTE (Offset OFFSET8 "qmiLocGetBandMeasurementMetricsIndMsgT_v02" "band1PgaGainDb") None None None);
      Tlv false (Some (Offset OFFSET8 "qmiLocGetBandMeasurementMetricsIndMsgT_v02" "gpsL1caRfStats", Offset OFFSET8 "qmiLocGetBandMeasurementMetricsIndMsgT_v02" "gpsL1caRfStats_valid")) 16 (Elem [] QMI_IDL_AGGREGATE (Offset OFFSET8 "qmiLocGetBandMeasurementMetricsIndMsgT_v02" "gpsL1caRfStats") None None (Some (0, 94)));
      Tlv false (Some (Offset OFFSET8 "qmiLocGetBandMeasurementMetricsIndMsgT_v02" "gloG1RfStats", Offset OFFSET8 "qmiLocGetBandMeasurementMetricsIndMsgT_v02" "gloG1RfStats_valid")) 17 (Elem [] QMI_IDL_AGGREGATE (Offset OFFSET8 "qmiLocGetBandMeasurementMetricsIndMsgT_v02" "gloG1RfStats") None None (Some (0, 94)));
      Tlv false (Some (Offset OFFSET8 "qmiLocGetBandMeasurementMetricsIndMsgT_v02" "bdsB1RfStats", Offset OFFSET8 "qmiLocGetBandMeasurementMetricsIndMsgT_v02" "bdsB1RfStats_valid")) 18 (Elem [] QMI_IDL_AGGREGATE (Offset OFFSET8 "qmiLocGetBandMeasurementMetricsIndMsgT_v02" "bdsB1RfStats") None None (Some (0, 94)));
      Tlv false (Some (Offset OFFSET8 "qmiLocGetBandMeasurementMetricsIndMsgT_v02" "galE1RfStats", Offset OFFSET8 "qmiLocGetBandMeasurementMetricsIndMsgT_v02" "galE1RfStats_valid")) 19 (Elem [] QMI_IDL_AGGREGATE (Offset OFFSET8 "qmiLocGetBandMeasurementMetricsIndMsgT_v02" "galE1RfStats") None None (Some (0, 94)));
      Tlv false (Some (Offset OFFSET8 "qmiLocGetBandMeasurementMetricsIndMsgT_v02" "gpsL2cRfStats", Offset OFFSET8 "qmiLocGetBandMeasurementMetricsIndMsgT_v02" "gpsL2cRfStats_valid")) 20 (Elem [] QMI_IDL_AGGREGATE (Offset OFFSET8 "qmiLocGetBandMeasurementMetricsIndMsgT_v02" "gpsL2cRfStats") None None (Some (0, 94)));
      Tlv false (Some (Offset OFFSET8 "qmiLocGetBandMeasurementMetricsIndMsgT_v02" "gloG2RfStats", Offset OFFSET8 "qmiLocGetBandMeasurementMetricsIndMsgT_v02" "gloG2RfStats_valid")) 21 (Elem [] QMI_IDL_AGGREGATE (Offset OFFSET8 "qmiLocGetBandMeasurementMetricsIndMsgT_v02" "gloG2RfStats") None None (Some (0, 94)));
      Tlv false (Some (Offset OFFSET8 "qmiLocGetBandMeasurementMetricsIndMsgT_v02" "bdsB2RfStats", Offset OFFSET8 "qmiLocGetBandMeasurementMetricsIndMsgT_v02" "bdsB2RfStats_valid")) 22 (Elem [] QMI_IDL_AGGREGATE (Offset OFFSET8 "qmiLocGetBandMeasurementMetricsIndMsgT_v02" "bdsB2RfStats") None None (Some (0, 94)));
      Tlv false (Some (Offset OFFSET8 "qmiLocGetBandMeasurementMetricsIndMsgT_v02" "band5PgaGainDb", Offset OFFSET8 "qmiLocGetBandMeasurementMetricsIndMsgT_v02" "band5PgaGainDb_valid")) 23 (Elem [] QMI_IDL_GENERIC_4_BYTE (Offset OFFSET8 "qmiLocGetBandMeasurementMetricsIndMsgT_v02" "band5PgaGainDb") None None None);
      Tlv false (Some (Offset OFFSET8 "qmiLocGetBandMeasurementMetricsIndMsgT_v02" "gpsL5RfStats", Offset OFFSET8 "qmiLocGetBandMeasurementMetricsIndMsgT_v02" "gpsL5RfStats_valid")) 24 (Elem [] QMI_IDL_AGGREGATE (Offset OFFSET8 "qmiLocGetBandMeasurementMetricsIndMsgT_v02" "gpsL5RfStats") None None (Some (0, 94)));
      Tlv true (Some (Offset OFFSET8 "qmiLocGetBandMeasurementMetricsIndMsgT_v02" "galE5ARfStats", Offset OFFSET8 "qmiLocGetBandMeasurementMetricsIndMsgT_v02" "galE5ARfStats_valid")) 25 (Elem [] QMI_IDL_AGGREGATE (Offset OFFSET8 "qmiLocGetBandMeasurementMetricsIndMsgT_v02" "galE5ARfStats") None None (Some (0, 94))) ]);
  ("qmiLocLocationRequestNotificationIndMsgT_data_v02", [
      Tlv false None 1 (Elem [] QMI_IDL_GENERIC_4_BYTE (Offset OFFSET8 "qmiLocLocationRequestNotificationIndMsgT_v02" "protocolStack") None None None);
      Tlv false None 2 (Elem [] QMI_IDL_GENERIC_4_BYTE (Offset OFFSET8 "qmiLocLocationRequestNotificationIndMsgT_v02" "requestor") None None None);
      Tlv false None 3 (Elem [IS_ARRAY; IS_VARIABLE_LEN] QMI_IDL_STRING (Offset OFFSET8 "qmiLocLocationRequestNotificationIndMsgT_v02" "requestorId") (Some (Macro "QMI_LOC_MAX_REQUESTOR_ID_STRING_LENGTH_V02")) None None);
      Tlv false None 4 (Elem [] QMI_IDL_GENERIC_4_BYTE (Offset OFFSET8 "qmiLocLocationRequestNotificationIndMsgT_v02" "responseType") None None None);
      Tlv false None 5 (Elem [] QMI_IDL_GENERIC_4_BYTE (Offset OFFSET8 "qmiLocLocationRequestNotificationIndMsgT_v02" "responseProtocol") None None None);
      Tlv false None 6 (Elem [] QMI_IDL_GENERIC_1_BYTE (Offset OFFSET8 "qmiLocLocationRequestNotificationIndMsgT_v02" "inEmergencyMode") None None None);
      Tlv false None 7 (Elem [] QMI_IDL_GENERIC_1_BYTE (Offset OFFSET8 "qmiLocLocationRequestNotificationIndMsgT_v02" "isCachedLocation") None None None);
      Tlv true (Some (Offset OFFSET8 "qmiLocLocationRequestNotificationIndMsgT_v02" "clientStrId", Offset OFFSET8 "qmiLocLocationRequestNotificationIndMsgT_v02" "clientStrId_valid")) 16 (Elem [IS_ARRAY; IS_VARIABLE_LEN] QMI_IDL_STRING (Offset OFFSET8 "qmiLocLocationRequestNotificationIndMsgT_v02" "clientStrId") (Some (Macro "QMI_LOC_MAX_CLIENT_ID_STRING_LENGTH_V02")) None None) ]);
  ("qmiLocInjectPlatformPowerStateReqMsgT_data_v02", [
      Tlv true None 1 (Elem [] QMI_IDL_GENERIC_4_BYTE (Offset OFFSET8 "qmiLocInjectPlatformPowerStateReqMsgT_v02" "powerState") None None None) ]);
  ("qmiLocInjectPlatformPowerStateIndMsgT_data_v02", [
      Tlv true None 1 (Elem [] QMI_IDL_GENERIC_4_BYTE (Offset OFFSET8 "qmiLocInjectPlatformPowerStateIndMsgT_v02" "status") None None None) ]);
  ("qmiLocSetRobustLocationReqMsgT_data_v02", [
      Tlv false None 1 (Elem [] QMI_IDL_GENERIC_1_BYTE (Offset OFFSET8 "qmiLocSetRobustLocationReqMsgT_v02" "enable") None None None);
      Tlv true (Some (Offset OFFSET8 "qmiLocSetRobustLocationReqMsgT_v02" "enableForE911", Offset OFFSET8 "qmiLocSetRobustLocationReqMsgT_v02" "enableForE911_valid")) 16 (Elem [] QMI_IDL_GENERIC_1_BYTE (Offset OFFSET8 "qmiLocSetRobustLocationReqMsgT_v02" "enableForE911") None None None) ]);
  ("qmiLocGetRobustLocationConfigIndMsgT_data_v02", [
      Tlv false None 1 (Elem [] QMI_IDL_GENERIC_4_BYTE (Offset OFFSET8 "qmiLocGetRobustLocationConfigIndMsgT_v02" "status") None None None);
      Tlv false (Some (Offset OFFSET8 "qmiLocGetRobustLocationConfigIndMsgT_v02" "isEnabled", Offset OFFSET8 "qmiLocGetRobustLocationConfigIndMsgT_v02" "isEnabled_valid")) 16 (Elem [] QMI_IDL_GENERIC_1_BYTE (Offset OFFSET8 "qmiLocGetRobustLocationConfigIndMsgT_v02" "isEnabled") None None None);
      Tlv false (Some (Offset OFFSET8 "qmiLocGetRobustLocationConfigIndMsgT_v02" "isEnabledForE911", Offset OFFSET8 "qmiLocGetRobustLocationConfigIndMsgT_v02" "isEnabledForE911_valid")) 17 (Elem [] QMI_IDL_GENERIC_1_BYTE (Offset OFFSET8 "qmiLocGetRobustLocationConfigIndMsgT_v02" "isEnabledForE911") None None None);
      Tlv true (Some (Offset OFFSET8 "qmiLocGetRobustLocationConfigIndMsgT_v02" "robustLocationVersion", Offset OFFSET8 "qmiLocGetRobustLocationConfigIndMsgT_v02" "robustLocationVersion_valid")) 18 (Elem [] QMI_IDL_AGGREGATE (Offset OFFSET8 "qmiLocGetRobustLocationConfigIndMsgT_v02" "robustLocationVersion") None None (Some (0, 95))) ]) ].

Definition message_data_44 : list (string * list tlv) := [
  ("qmiLocEventInjectEnvAidingReqMsgT_data_v02", [
      Tlv false None 1 (Elem [] QMI_IDL_GENERIC_1_BYTE (Offset OFFSET8 "qmiLocEventInjectEnvAidingReqMsgT_v02" "seqNum") None None None);
      Tlv false None 2 (Elem [] QMI_IDL_GENERIC_1_BYTE (Offset OFFSET8 "qmiLocEventInjectEnvAidingReqMsgT_v02" "maxMessageNum") None None None);
      Tlv false (Some (Offset OFFSET8 "qmiLocEventInjectEnvAidingReqMsgT_v02" "envBearingValidity", Offset OFFSET8 "qmiLocEventInjectEnvAidingReqMsgT_v02" "envBearingValidity_valid")) 16 (Elem [] QMI_IDL_GENERIC_1_BYTE (Offset OFFSET8 "qmiLocEventInjectEnvAidingReqMsgT_v02" "envBearingValidity") None None None);
      Tlv false (Some (Offset OFFSET8 "qmiLocEventInjectEnvAidingReqMsgT_v02" "envBearingDegrees", Offset OFFSET8 "qmiLocEventInjectEnvAidingReqMsgT_v02" "envBearingDegrees_valid")) 17 (Elem [] QMI_IDL_GENERIC_4_BYTE (Offset OFFSET8 "qmiLocEventInjectEnvAidingReqMsgT_v02" "envBearingDegrees") None None None);
      Tlv false (Some (Offset OFFSET8 "qmiLocEventInjectEnvAidingReqMsgT_v02" "envBearingUncDegrees", Offset OFFSET8 "qmiLocEventInjectEnvAidingReqMsgT_v02" "envBearingUncDegrees_valid")) 18 (Elem [] QMI_IDL_GENERIC_4_BYTE (Offset OFFSET8 "qmiLocEventInjectEnvAidingReqMsgT_v02" "envBearingUncDegrees") None None None);
      Tlv false (Some (Offset OFFSET8 "qmiLocEventInjectEnvAidingReqMsgT_v02" "latitudeDegrees", Offset OFFSET8 "qmiLocEventInjectEnvAidingReqMsgT_v02" "latitudeDegrees_valid")) 19 (Elem [] QMI_IDL_GENERIC_8_BYTE (Offset OFFSET8 "qmiLocEventInjectEnvAidingReqMsgT_v02" "latitudeDegrees") None None None);
      Tlv false (Some (Offset OFFSET8 "qmiLocEventInjectEnvAidingReqMsgT_v02" "longitudeDegrees", Offset OFFSET8 "qmiLocEventInjectEnvAidingReqMsgT_v02" "longitudeDegrees_valid")) 20 (Elem [] QMI_IDL_GENERIC_8_BYTE (Offset OFFSET8 "qmiLocEventInjectEnvAidingReqMsgT_v02" "longitudeDegrees") None None None);
      Tlv false (Some (Offset OFFSET8 "qmiLocEventInjectEnvAidingReqMsgT_v02" "horizontalPositionUncMeters", Offset OFFSET8 "qmiLocEventInjectEnvAidingReqMsgT_v02" "horizontalPositionUncMeters_valid")) 21 (Elem [] QMI_IDL_GENERIC_8_BYTE (Offset OFFSET8 "qmiLocEventInjectEnvAidingReqMsgT_v02" "horizontalPositionUncMeters") None None None);
      Tlv false (Some (Offset OFFSET8 "qmiLocEventInjectEnvAidingReqMsgT_v02" "altitudeMeters", Offset OFFSET8 "qmiLocEventInjectEnvAidingReqMsgT_v02" "altitudeMeters_valid")) 22 (Elem [] QMI_IDL_GENERIC_8_BYTE (Offset OFFSET8 "qmiLocEventInjectEnvAidingReqMsgT_v02" "altitudeMeters") None None None);
      Tlv false (Some (Offset OFFSET8 "qmiLocEventInjectEnvAidingReqMsgT_v02" "altitudeUncMeters", Offset OFFSET8 "qmiLocEventInjectEnvAidingReqMsgT_v02" "altitudeUncMeters_valid")) 23 (Elem [] QMI_IDL_GENERIC_8_BYTE (Offset OFFSET8 "qmiLocEventInjectEnvAidingReqMsgT_v02" "altitudeUncMeters") None None None);
      Tlv false (Some (Offset OFFSET8 "qmiLocEventInjectEnvAidingReqMsgT_v02" "toaGpsNanosecondsOfWeek", Offset OFFSET8 "qmiLocEventInjectEnvAidingReqMsgT_v02" "toaGpsNanosecondsOfWeek_valid")) 24 (Elem [] QMI_IDL_GENERIC_8_BYTE (Offset OFFSET8 "qmiLocEventInjectEnvAidingReqMsgT_v02" "toaGpsNanosecondsOfWeek") None None None);
      Tlv true (Some (Offset OFFSET8 "qmiLocEventInjectEnvAidingReqMsgT_v02" "svCorrection", Offset OFFSET8 "qmiLocEventInjectEnvAidingReqMsgT_v02" "svCorrection_valid")) 25 (Elem [IS_ARRAY; IS_VARIABLE_LEN] QMI_IDL_AGGREGATE (Offset OFFSET8 "qmiLocEventInjectEnvAidingReqMsgT_v02" "svCorrection") (Some (Macro "QMI_LOC_ENV_AIDING_CORRECTION_MAX_SV_USED_V02")) (Some (Offset OFFSET8 "qmiLocEventInjectEnvAidingReqMsgT_v02" "svCorrection", Offset OFFSET8 "qmiLocEventInjectEnvAidingReqMsgT_v02" "svCorrection_len")) (Some (0, 97))) ]);
  ("qmiLocSetMinGpsWeekNumberReqMsgT_data_v02", [
      Tlv true None 1 (Elem [] QMI_IDL_GENERIC_2_BYTE (Offset OFFSET8 "qmiLocSetMinGpsWeekNumberReqMsgT_v02" "minGpsWeekNumber") None None None) ]);
  ("qmiLocGetMinGpsWeekNumberIndMsgT_data_v02", [
      Tlv false None 1 (Elem [] QMI_IDL_GENERIC_4_BYTE (Offset OFFSET8 "qmiLocGetMinGpsWeekNumberIndMsgT_v02" "status") None None None);
      Tlv true (Some (Offset OFFSET8 "qmiLocGetMinGpsWeekNumberIndMsgT_v02" "minGpsWeekNumber", Offset OFFSET8 "qmiLocGetMinGpsWeekNumberIndMsgT_v02" "minGpsWeekNumber_valid")) 16 (Elem [] QMI_IDL_GENERIC_2_BYTE (Offset OFFSET8 "qmiLocGetMinGpsWeekNumberIndMsgT_v02" "minGpsWeekNumber") None None None) ]) ].

Definition message_data_45 : list (string * list tlv) := [
  ("qmiLocSapInsParamsIndMsgT_data_v02", [
      Tlv false None 1 (Elem [] QMI_IDL_GENERIC_1_BYTE (Offset OFFSET8 "qmiLocSapInsParamsIndMsgT_v02" "status") None None None);
      Tlv false None 2 (Elem [] QMI_IDL_GENERIC_1_BYTE (Offset OFFSET8 "qmiLocSapInsParamsIndMsgT_v02" "fixStatus") None None None);
      Tlv false None 3 (Elem [] QMI_IDL_AGGREGATE (Offset OFFSET8 "qmiLocSapInsParamsIndMsgT_v02" "systemTime") None None (Some (0, 60)));
      Tlv false (Some (Offset OFFSET8 "qmiLocSapInsParamsIndMsgT_v02" "state", Offset OFFSET8 "qmiLocSapInsParamsIndMsgT_v02" "state_valid")) 16 (Elem [IS_ARRAY] QMI_IDL_GENERIC_8_BYTE (Offset OFFSET8 "qmiLocSapInsParamsIndMsgT_v02" "state") (Some (Macro "QMI_LOC_FILTER_ELEMENT_SIZE_SEVENTEEN_V02")) None None);
      Tlv false (Some (Offset OFFSET8 "qmiLocSapInsParamsIndMsgT_v02" "var", Offset OFFSET8 "qmiLocSapInsParamsIndMsgT_v02" "var_valid")) 17 (Elem [IS_ARRAY] QMI_IDL_GENERIC_8_BYTE (Offset OFFSET8 "qmiLocSapInsParamsIndMsgT_v02" "var") (Some (Macro "QMI_LOC_FILTER_ELEMENT_SIZE_SEVENTEEN_V02")) None None);
      Tlv false (Some (Offset OFFSET16RELATIVE "qmiLocSapInsParamsIndMsgT_v02" "rel1", Offset OFFSET16RELATIVE "qmiLocSapInsParamsIndMsgT_v02" "rel1_valid")) 18 (Elem [OFFSET_IS_16] QMI_IDL_GENERIC_1_BYTE (Offset OFFSET16ARRAY "qmiLocSapInsParamsIndMsgT_v02" "rel1") None None None);
      Tlv false (Some (Offset OFFSET16RELATIVE "qmiLocSapInsParamsIndMsgT_v02" "rel2", Offset OFFSET16RELATIVE "qmiLocSapInsParamsIndMsgT_v02" "rel2_valid")) 19 (Elem [OFFSET_IS_16] QMI_IDL_GENERIC_1_BYTE (Offset OFFSET16ARRAY "qmiLocSapInsParamsIndMsgT_v02" "rel2") None None None);
      Tlv false (Some (Offset OFFSET16RELATIVE "qmiLocSapInsParamsIndMsgT_v02" "residual1", Offset OFFSET16RELATIVE "qmiLocSapInsParamsIndMsgT_v02" "residual1_valid")) 20 (Elem [OFFSET_IS_16] QMI_IDL_GENERIC_8_BYTE (Offset OFFSET16ARRAY "qmiLocSapInsParamsIndMsgT_v02" "residual1") None None None);
      Tlv false (Some (Offset OFFSET16RELATIVE "qmiLocSapInsParamsIndMsgT_v02" "obs1", Offset OFFSET16RELATIVE "qmiLocSapInsParamsIndMsgT_v02" "obs1_valid")) 21 (Elem [IS_ARRAY; OFFSET_IS_16] QMI_IDL_GENERIC_8_BYTE (Offset OFFSET16ARRAY "qmiLocSapInsParamsIndMsgT_v02" "obs1") (Some (Macro "QMI_LOC_FILTER_ELEMENT_SIZE_SIX_V02")) None None);
      Tlv false (Some (Offset OFFSET16RELATIVE "qmiLocSapInsParamsIndMsgT_v02" "var1", Offset OFFSET16RELATIVE "qmiLocSapInsParamsIndMsgT_v02" "var1_valid")) 22 (Elem [OFFSET_IS_16] QMI_IDL_GENERIC_8_BYTE (Offset OFFSET16ARRAY "qmiLocSapInsParamsIndMsgT_v02" "var1") None None None);
      Tlv false (Some (Offset OFFSET16RELATIVE "qmiLocSapInsParamsIndMsgT_v02" "result1", Offset OFFSET16RELATIVE "qmiLocSapInsParamsIndMsgT_v02" "result1_valid")) 23 (Elem [OFFSET_IS_16] QMI_IDL_GENERIC_1_BYTE (Offset OFFSET16ARRAY "qmiLocSapInsParamsIndMsgT_v02" "result1") None None None);
      Tlv false (Some (Offset OFFSET16RELATIVE "qmiLocSapInsParamsIndMsgT_v02" "residual2", Offset OFFSET16RELATIVE "qmiLocSapInsParamsIndMsgT_v02" "residual2_valid")) 24 (Elem [OFFSET_IS_16] QMI_IDL_GENERIC_8_BYTE (Offset OFFSET16ARRAY "qmiLocSapInsParamsIndMsgT_v02" "residual2") None None None);
      Tlv false (Some (Offset OFFSET16RELATIVE "qmiLocSapInsParamsIndMsgT_v02" "obs2", Offset OFFSET16RELATIVE "qmiLocSapInsParamsIndMsgT_v02" "obs2_valid")) 25 (Elem [IS_ARRAY; OFFSET_IS_16] QMI_IDL_GENERIC_8_BYTE (Offset OFFSET16ARRAY "qmiLocSapInsParamsIndMsgT_v02" "obs2") (Some (Macro "QMI_LOC_FILTER_ELEMENT_SIZE_SIX_V02")) None None);
      Tlv false (Some (Offset OFFSET16RELATIVE "qmiLocSapInsParamsIndMsgT_v02" "var2", Offset OFFSET16RELATIVE "qmiLocSapInsParamsIndMsgT_v02" "var2_valid")) 26 (Elem [OFFSET_IS_16] QMI_IDL_GENERIC_8_BYTE (Offset OFFSET16ARRAY "qmiLocSapInsParamsIndMsgT_v02" "var2") None None None);
      Tlv false (Some (Offset OFFSET16RELATIVE "qmiLocSapInsParamsIndMsgT_v02" "result2", Offset OFFSET16RELATIVE "qmiLocSapInsParamsIndMsgT_v02" "result2_valid")) 27 (Elem [OFFSET_IS_16] QMI_IDL_GENERIC_1_BYTE (Offset OFFSET16ARRAY "qmiLocSapInsParamsIndMsgT_v02" "result2") None None None);
      Tlv false (Some (Offset OFFSET16RELATIVE "qmiLocSapInsParamsIndMsgT_v02" "residual3", Offset OFFSET16RELATIVE "qmiLocSapInsParamsIndMsgT_v02" "residual3_valid")) 28 (Elem [IS_ARRAY; OFFSET_IS_16] QMI_IDL_GENERIC_8_BYTE (Offset OFFSET16ARRAY "qmiLocSapInsParamsIndMsgT_v02" "residual3") (Some (Macro "QMI_LOC_FILTER_ELEMENT_SIZE_THREE_V02")) None None);
      Tlv false (Some (Offset OFFSET16RELATIVE "qmiLocSapInsParamsIndMsgT_v02" "var3", Offset OFFSET16RELATIVE "qmiLocSapInsParamsIndMsgT_v02" "var3_valid")) 29 (Elem [IS_ARRAY; OFFSET_IS_16] QMI_IDL_GENERIC_8_BYTE (Offset OFFSET16ARRAY "qmiLocSapInsParamsIndMsgT_v02" "var3") (Some (Macro "QMI_LOC_FILTER_ELEMENT_SIZE_THREE_V02")) None None);
      Tlv false (Some (Offset OFFSET16RELATIVE "qmiLocSapInsParamsIndMsgT_v02" "result3", Offset OFFSET16RELATIVE "qmiLocSapInsParamsIndMsgT_v02" "result3_valid")) 30 (Elem [IS_ARRAY; OFFSET_IS_16] QMI_IDL_GENERIC_1_BYTE (Offset OFFSET16ARRAY "qmiLocSapInsParamsIndMsgT_v02" "result3") (Some (Macro "QMI_LOC_FILTER_ELEMENT_SIZE_THREE_V02")) None None);
      Tlv false (Some (Offset OFFSET16RELATIVE "qmiLocSapInsParamsIndMsgT_v02" "residual4", Offset OFFSET16RELATIVE "qmiLocSapInsParamsIndMsgT_v02" "residual4_valid")) 31 (Elem [IS_ARRAY; OFFSET_IS_16] QMI_IDL_GENERIC_8_BYTE (Offset OFFSET16ARRAY "qmiLocSapInsParamsIndMsgT_v02" "residual4") (Some (Macro "QMI_LOC_FILTER_ELEMENT_SIZE_THREE_V02")) None None);
      Tlv false (Some (Offset OFFSET16RELATIVE "qmiLocSapInsParamsIndMsgT_v02" "var4", Offset OFFSET16RELATIVE "qmiLocSapInsParamsIndMsgT_v02" "var4_valid")) 32 (Elem [IS_ARRAY; OFFSET_IS_16] QMI_IDL_GENERIC_8_BYTE (Offset OFFSET16ARRAY "qmiLocSapInsParamsIndMsgT_v02" "var4") (Some (Macro "QMI_LOC_FILTER_ELEMENT_SIZE_THREE_V02")) None None);
      Tlv false (Some (Offset OFFSET16RELATIVE "qmiLocSapInsParamsIndMsgT_v02" "result4", Offset OFFSET16RELATIVE "qmiLocSapInsParamsIndMsgT_v02" "result4_valid")) 33 (Elem [IS_ARRAY; OFFSET_IS_16] QMI_IDL_GENERIC_1_BYTE (Offset OFFSET16ARRAY "qmiLocSapInsParamsIndMsgT_v02" "result4") (Some (Macro "QMI_LOC_FILTER_ELEMENT_SIZE_THREE_V02")) None None);
      Tlv false (Some (Offset OFFSET16RELATIVE "qmiLocSapInsParamsIndMsgT_v02" "acc", Offset OFFSET16RELATIVE "qmiLocSapInsParamsIndMsgT_v02" "acc_valid")) 34 (Elem [IS_ARRAY; OFFSET_IS_16] QMI_IDL_GENERIC_8_BYTE (Offset OFFSET16ARRAY "qmiLocSapInsParamsIndMsgT_v02" "acc") (Some (Macro "QMI_LOC_FILTER_ELEMENT_SIZE_THREE_V02")) None None);
      Tlv false (Some (Offset OFFSET16RELATIVE "qmiLocSapInsParamsIndMsgT_v02" "quat", Offset OFFSET16RELATIVE "qmiLocSapInsParamsIndMsgT_v02" "quat_valid")) 35 (Elem [IS_ARRAY; OFFSET_IS_16] QMI_IDL_GENERIC_8_BYTE (Offset OFFSET16ARRAY "qmiLocSapInsParamsIndMsgT_v02" "quat") (Some (Macro "QMI_LOC_FILTER_ELEMENT_SIZE_FOUR_V02")) None None);
      Tlv false (Some (Offset OFFSET16RELATIVE "qmiLocSapInsParamsIndMsgT_v02" "biasM1", Offset OFFSET16RELATIVE "qmiLocSapInsParamsIndMsgT_v02" "biasM1_valid")) 36 (Elem [IS_ARRAY; OFFSET_IS_16] QMI_IDL_GENERIC_4_BYTE (Offset OFFSET16ARRAY "qmiLocSapInsParamsIndMsgT_v02" "biasM1") (Some (Macro "QMI_LOC_IPM_ELEMENT_SIZE_THREE_V02")) None None);
      Tlv false (Some (Offset OFFSET16RELATIVE "qmiLocSapInsParamsIndMsgT_v02" "biasV1", Offset OFFSET16RELATIVE "qmiLocSapInsParamsIndMsgT_v02" "biasV1_valid")) 37 (Elem [IS_ARRAY; OFFSET_IS_16] QMI_IDL_GENERIC_4_BYTE (Offset OFFSET16ARRAY "qmiLocSapInsParamsIndMsgT_v02" "biasV1") (Some (Macro "QMI_LOC_IPM_ELEMENT_SIZE_THREE_V02")) None None);
      Tlv false (Some (Offset OFFSET16RELATIVE "qmiLocSapInsParamsIndMsgT_v02" "biasM2", Offset OFFSET16RELATIVE "qmiLocSapInsParamsIndMsgT_v02" "biasM2_valid")) 38 (Elem [IS_ARRAY; OFFSET_IS_16] QMI_IDL_GENERIC_4_BYTE (Offset OFFSET16ARRAY "qmiLocSapInsParamsIndMsgT_v02" "biasM2") (Some (Macro "QMI_LOC_IPM_ELEMENT_SIZE_THREE_V02")) None None);
      Tlv false (Some (Offset OFFSET16RELATIVE "qmiLocSapInsParamsIndMsgT_v02" "biasV2", Offset OFFSET16RELATIVE "qmiLocSapInsParamsIndMsgT_v02" "biasV2_valid")) 39 (Elem [IS_ARRAY; OFFSET_IS_16] QMI_IDL_GENERIC_4_BYTE (Offset OFFSET16ARRAY "qmiLocSapInsParamsIndMsgT_v02" "biasV2") (Some (Macro "QMI_LOC_IPM_ELEMENT_SIZE_THREE_V02")) None None);
      Tlv false (Some (Offset OFFSET16RELATIVE "qmiLocSapInsParamsIndMsgT_v02" "rMat1", Offset OFFSET16RELATIVE "qmiLocSapInsParamsIndMsgT_v02" "rMat1_valid")) 40 (Elem [IS_ARRAY; OFFSET_IS_16] QMI_IDL_GENERIC_8_BYTE (Offset OFFSET16ARRAY "qmiLocSapInsParamsIndMsgT_v02" "rMat1") (Some (Macro "QMI_LOC_IPM_ELEMENT_SIZE_NINE_V02")) None None);
      Tlv false (Some (Offset OFFSET16RELATIVE "qmiLocSapInsParamsIndMsgT_v02" "rMat1Count", Offset OFFSET16RELATIVE "qmiLocSapInsParamsIndMsgT_v02" "rMat1Count_valid")) 41 (Elem [OFFSET_IS_16] QMI_IDL_GENERIC_4_BYTE (Offset OFFSET16ARRAY "qmiLocSapInsParamsIndMsgT_v02" "rMat1Count") None None None);
      Tlv false (Some (Offset OFFSET16RELATIVE "qmiLocSapInsParamsIndMsgT_v02" "rMat2", Offset OFFSET16RELATIVE "qmiLocSapInsParamsIndMsgT_v02" "rMat2_valid")) 42 (Elem [IS_ARRAY; OFFSET_IS_16] QMI_IDL_GENERIC_8_BYTE (Offset OFFSET16ARRAY "qmiLocSapInsParamsIndMsgT_v02" "rMat2") (Some (Macro "QMI_LOC_IPM_ELEMENT_SIZE_NINE_V02")) None None);
      Tlv false (Some (Offset OFFSET16RELATIVE "qmiLocSapInsParamsIndMsgT_v02" "det1Reset", Offset OFFSET16RELATIVE "qmiLocSapInsParamsIndMsgT_v02" "det1Reset_valid")) 43 (Elem [OFFSET_IS_16] QMI_IDL_GENERIC_1_BYTE (Offset OFFSET16ARRAY "qmiLocSapInsParamsIndMsgT_v02" "det1Reset") None None None);
      Tlv false (Some (Offset OFFSET16RELATIVE "qmiLocSapInsParamsIndMsgT_v02" "det2Status", Offset OFFSET16RELATIVE "qmiLocSapInsParamsIndMsgT_v02" "det2Status_valid")) 44 (Elem [OFFSET_IS_16] QMI_IDL_GENERIC_1_BYTE (Offset OFFSET16ARRAY "qmiLocSapInsParamsIndMsgT_v02" "det2Status") None None None);
      Tlv false (Some (Offset OFFSET16RELATIVE "qmiLocSapInsParamsIndMsgT_v02" "det2Position", Offset OFFSET16RELATIVE "qmiLocSapInsParamsIndMsgT_v02" "det2Position_valid")) 45 (Elem [IS_ARRAY; OFFSET_IS_16] QMI_IDL_GENERIC_8_BYTE (Offset OFFSET16ARRAY "qmiLocSapInsParamsIndMsgT_v02" "det2Position") (Some (Macro "QMI_LOC_INS_ELEMENT_SIZE_THREE_V02")) None None);
      Tlv false (Some (Offset OFFSET16RELATIVE "qmiLocSapInsParamsIndMsgT_v02" "det2PositionUnc", Offset OFFSET16RELATIVE "qmiLocSapInsParamsIndMsgT_v02" "det2PositionUnc_valid")) 46 (Elem [IS_ARRAY; OFFSET_IS_16] QMI_IDL_GENERIC_4_BYTE (Offset OFFSET16ARRAY "qmiLocSapInsParamsIndMsgT_v02" "det2PositionUnc") (Some (Macro "QMI_LOC_INS_ELEMENT_SIZE_TWO_V02")) None None);
      Tlv false (Some (Offset OFFSET16RELATIVE "qmiLocSapInsParamsIndMsgT_v02" "det3Status", Offset OFFSET16RELATIVE "qmiLocSapInsParamsIndMsgT_v02" "det3Status_valid")) 47 (Elem [OFFSET_IS_16] QMI_IDL_GENERIC_1_BYTE (Offset OFFSET16ARRAY "qmiLocSapInsParamsIndMsgT_v02" "det3Status") None None None);
      Tlv false (Some (Offset OFFSET16RELATIVE "qmiLocSapInsParamsIndMsgT_v02" "det3Variance1", Offset OFFSET16RELATIVE "qmiLocSapInsParamsIndMsgT_v02" "det3Variance1_valid")) 48 (Elem [IS_ARRAY; OFFSET_IS_16] QMI_IDL_GENERIC_4_BYTE (Offset OFFSET16ARRAY "qmiLocSapInsParamsIndMsgT_v02" "det3Variance1") (Some (Macro "QMI_LOC_INS_ELEMENT_SIZE_THREE_V02")) None None);
      Tlv false (Some (Offset OFFSET16RELATIVE "qmiLocSapInsParamsIndMsgT_v02" "det3Variance2", Offset OFFSET16RELATIVE "qmiLocSapInsParamsIndMsgT_v02" "det3Variance2_valid")) 49 (Elem [IS_ARRAY; OFFSET_IS_16] QMI_IDL_GENERIC_4_BYTE (Offset OFFSET16ARRAY "qmiLocSapInsParamsIndMsgT_v02" "det3Variance2") (Some (Macro "QMI_LOC_INS_ELEMENT_SIZE_THREE_V02")) None None);
      Tlv false (Some (Offset OFFSET16RELATIVE "qmiLocSapInsParamsIndMsgT_v02" "det4Status", Offset OFFSET16RELATIVE "qmiLocSapInsParamsIndMsgT_v02" "det4Status_valid")) 50 (Elem [OFFSET_IS_16] QMI_IDL_GENERIC_1_BYTE (Offset OFFSET16ARRAY "qmiLocSapInsParamsIndMsgT_v02" "det4Status") None None None);
      Tlv false (Some (Offset OFFSET16RELATIVE "qmiLocSapInsParamsIndMsgT_v02" "det4Position", Offset OFFSET16RELATIVE "qmiLocSapInsParamsIndMsgT_v02" "det4Position_valid")) 51 (Elem [IS_ARRAY; OFFSET_IS_16] QMI_IDL_GENERIC_8_BYTE (Offset OFFSET16ARRAY "qmiLocSapInsParamsIndMsgT_v02" "det4Position") (Some (Macro "QMI_LOC_INS_ELEMENT_SIZE_THREE_V02")) None None);
      Tlv false (Some (Offset OFFSET16RELATIVE "qmiLocSapInsParamsIndMsgT_v02" "det5Status", Offset OFFSET16RELATIVE "qmiLocSapInsParamsIndMsgT_v02" "det5Status_valid")) 52 (Elem [OFFSET_IS_16] QMI_IDL_GENERIC_1_BYTE (Offset OFFSET16ARRAY "qmiLocSapInsParamsIndMsgT_v02" "det5Status") None None None);
      Tlv false (Some (Offset OFFSET16RELATIVE "qmiLocSapInsParamsIndMsgT_v02" "det6Status", Offset OFFSET16RELATIVE "qmiLocSapInsParamsIndMsgT_v02" "det6Status_valid")) 53 (Elem [OFFSET_IS_16] QMI_IDL_GENERIC_4_BYTE (Offset OFFSET16ARRAY "qmiLocSapInsParamsIndMsgT_v02" "det6Status") None None None);
      Tlv false (Some (Offset OFFSET16RELATIVE "qmiLocSapInsParamsIndMsgT_v02" "gnssSvId", Offset OFFSET16RELATIVE "qmiLocSapInsParamsIndMsgT_v02" "gnssSvId_valid")) 54 (Elem [IS_ARRAY; IS_VARIABLE_LEN; OFFSET_IS_16] QMI_IDL_GENERIC_2_BYTE (Offset OFFSET16ARRAY "qmiLocSapInsParamsIndMsgT_v02" "gnssSvId") (Some (Macro "QMI_LOC_EXPANDED_SV_INFO_LIST_MAX_SIZE_V02")) (Some (Offset OFFSET16RELATIVE "qmiLocSapInsParamsIndMsgT_v02" "gnssSvId", Offset OFFSET16RELATIVE "qmiLocSapInsParamsIndMsgT_v02" "gnssSvId_len")) None);
      Tlv false (Some (Offset OFFSET16RELATIVE "qmiLocSapInsParamsIndMsgT_v02" "measType", Offset OFFSET16RELATIVE "qmiLocSapInsParamsIndMsgT_v02" "measType_valid")) 55 (Elem [IS_ARRAY; IS_VARIABLE_LEN; OFFSET_IS_16] QMI_IDL_GENERIC_8_BYTE (Offset OFFSET16ARRAY "qmiLocSapInsParamsIndMsgT_v02" "measType") (Some (Macro "QMI_LOC_EXPANDED_SV_INFO_LIST_MAX_SIZE_V02")) (Some (Offset OFFSET16RELATIVE "qmiLocSapInsParamsIndMsgT_v02" "measType", Offset OFFSET16RELATIVE "qmiLocSapInsParamsIndMsgT_v02" "measType_len")) None);
      Tlv false (Some (Offset OFFSET16RELATIVE "qmiLocSapInsParamsIndMsgT_v02" "measVar1", Offset OFFSET16RELATIVE "qmiLocSapInsParamsIndMsgT_v02" "measVar1_valid")) 56 (Elem [IS_ARRAY; IS_VARIABLE_LEN; OFFSET_IS_16] QMI_IDL_GENERIC_4_BYTE (Offset OFFSET16ARRAY "qmiLocSapInsParamsIndMsgT_v02" "measVar1") (Some (Macro "QMI_LOC_EXPANDED_SV_INFO_LIST_MAX_SIZE_V02")) (Some (Offset OFFSET16RELATIVE "qmiLocSapInsParamsIndMsgT_v02" "measVar1", Offset OFFSET16RELATIVE "qmiLocSapInsParamsIndMsgT_v02" "measVar1_len")) None);
      Tlv false (Some (Offset OFFSET16RELATIVE "qmiLocSapInsParamsIndMsgT_v02" "measUse1", Offset OFFSET16RELATIVE "qmiLocSapInsParamsIndMsgT_v02" "measUse1_valid")) 57 (Elem [IS_ARRAY; IS_VARIABLE_LEN; OFFSET_IS_16] QMI_IDL_GENERIC_4_BYTE (Offset OFFSET16ARRAY "qmiLocSapInsParamsIndMsgT_v02" "measUse1") (Some (Macro "QMI_LOC_EXPANDED_SV_INFO_LIST_MAX_SIZE_V02")) (Some (Offset OFFSET16RELATIVE "qmiLocSapInsParamsIndMsgT_v02" "measUse1", Offset OFFSET16RELATIVE "qmiLocSapInsParamsIndMsgT_v02" "measUse1_len")) None);
      Tlv false (Some (Offset OFFSET16RELATIVE "qmiLocSapInsParamsIndMsgT_v02" "measVar2", Offset OFFSET16RELATIVE "qmiLocSapInsParamsIndMsgT_v02" "measVar2_valid")) 58 (Elem [IS_ARRAY; IS_VARIABLE_LEN; OFFSET_IS_16] QMI_IDL_GENERIC_4_BYTE (Offset OFFSET16ARRAY "qmiLocSapInsParamsIndMsgT_v02" "measVar2") (Some (Macro "QMI_LOC_EXPANDED_SV_INFO_LIST_MAX_SIZE_V02")) (Some (Offset OFFSET16RELATIVE "qmiLocSapInsParamsIndMsgT_v02" "measVar2", Offset OFFSET16RELATIVE "qmiLocSapInsParamsIndMsgT_v02" "measVar2_len")) None);
      Tlv true (Some (Offset OFFSET16RELATIVE "qmiLocSapInsParamsIndMsgT_v02" "measUse2", Offset OFFSET16RELATIVE "qmiLocSapInsParamsIndMsgT_v02" "measUse2_valid")) 59 (Elem [IS_ARRAY; IS_VARIABLE_LEN; OFFSET_IS_16] QMI_IDL_GENERIC_4_BYTE (Offset OFFSET16ARRAY "qmiLocSapInsParamsIndMsgT_v02" "measUse2") (Some (Macro "QMI_LOC_EXPANDED_SV_INFO_LIST_MAX_SIZE_V02")) (Some (Offset OFFSET16RELATIVE "qmiLocSapInsParamsIndMsgT_v02" "measUse2", Offset OFFSET16RELATIVE "qmiLocSapInsParamsIndMsgT_v02" "measUse2_len")) None) ]) ].

Definition message_data_46 : list (string * list tlv) := [
  ("qmiLocSetParameterReqMsgT_data_v02", [
      Tlv false None 1 (Elem [] QMI_IDL_GENERIC_4_BYTE (Offset OFFSET8 "qmiLocSetParameterReqMsgT_v02" "paramType") None None None);
      Tlv true (Some (Offset OFFSET8 "qmiLocSetParameterReqMsgT_v02" "minSvElevation", Offset OFFSET8 "qmiLocSetParameterReqMsgT_v02" "minSvElevation_valid")) 16 (Elem [] QMI_IDL_GENERIC_1_BYTE (Offset OFFSET8 "qmiLocSetParameterReqMsgT_v02" "minSvElevation") None None None) ]);
  ("qmiLocGetParameterReqMsgT_data_v02", [
      Tlv true None 1 (Elem [] QMI_IDL_GENERIC_4_BYTE (Offset OFFSET8 "qmiLocGetParameterReqMsgT_v02" "paramType") None None None) ]);
  ("qmiLocGetParameterIndMsgT_data_v02", [
      Tlv false None 1 (Elem [] QMI_IDL_GENERIC_4_BYTE (Offset OFFSET8 "qmiLocGetParameterIndMsgT_v02" "status") None None None);
      Tlv false None 2 (Elem [] QMI_IDL_GENERIC_4_BYTE (Offset OFFSET8 "qmiLocGetParameterIndMsgT_v02" "paramType") None None None);
      Tlv true (Some (Offset OFFSET8 "qmiLocGetParameterIndMsgT_v02" "minSvElevation", Offset OFFSET8 "qmiLocGetParameterIndMsgT_v02" "minSvElevation_valid")) 16 (Elem [] QMI_IDL_GENERIC_1_BYTE (Offset OFFSET8 "qmiLocGetParameterIndMsgT_v02" "minSvElevation") None None None) ]);
  ("qmiLocSetStatisticsConfigReqMsgT_data_v02", [
      Tlv false None 1 (Elem [] QMI_IDL_GENERIC_1_BYTE (Offset OFFSET8 "qmiLocSetStatisticsConfigReqMsgT_v02" "enable") None None None);
      Tlv true (Some (Offset OFFSET8 "qmiLocSetStatisticsConfigReqMsgT_v02" "interval", Offset OFFSET8 "qmiLocSetStatisticsConfigReqMsgT_v02" "interval_valid")) 16 (Elem [] QMI_IDL_GENERIC_4_BYTE (Offset OFFSET8 "qmiLocSetStatisticsConfigReqMsgT_v02" "interval") None None None) ]);
  ("qmiLocGetStatisticsConfigIndMsgT_data_v02", [
      Tlv false None 1 (Elem [] QMI_IDL_GENERIC_4_BYTE (Offset OFFSET8 "qmiLocGetStatisticsConfigIndMsgT_v02" "status") None None None);
      Tlv false (Some (Offset OFFSET8 "qmiLocGetStatisticsConfigIndMsgT_v02" "enabled", Offset OFFSET8 "qmiLocGetStatisticsConfigIndMsgT_v02" "enabled_valid")) 16 (Elem [] QMI_IDL_GENERIC_1_BYTE (Offset OFFSET8 "qmiLocGetStatisticsConfigIndMsgT_v02" "enabled") None None None);
      Tlv true (Some (Offset OFFSET8 "qmiLocGetStatisticsConfigIndMsgT_v02" "interval", Offset OFFSET8 "qmiLocGetStatisticsConfigIndMsgT_v02" "interval_valid")) 17 (Elem [] QMI_IDL_GENERIC_4_BYTE (Offset OFFSET8 "qmiLocGetStatisticsConfigIndMsgT_v02" "interval") None None None) ]) ].

Definition message_data_47 : list (string * list tlv) := [
  ("qmiLocGnssStatisticsReportIndMsgT_data_v02", [
      Tlv false (Some (Offset OFFSET8 "qmiLocGnssStatisticsReportIndMsgT_v02" "absValidAge", Offset OFFSET8 "qmiLocGnssStatisticsReportIndMsgT_v02" "absValidAge_valid")) 16 (Elem [] QMI_IDL_GENERIC_4_BYTE (Offset OFFSET8 "qmiLocGnssStatisticsReportIndMsgT_v02" "absValidAge") None None None);
      Tlv false (Some (Offset OFFSET8 "qmiLocGnssStatisticsReportIndMsgT_v02" "averagePowerConsumed", Offset OFFSET8 "qmiLocGnssStatisticsReportIndMsgT_v02" "averagePowerConsumed_valid")) 17 (Elem [] QMI_IDL_GENERIC_4_BYTE (Offset OFFSET8 "qmiLocGnssStatisticsReportIndMsgT_v02" "averagePowerConsumed") None None None);
      Tlv false (Some (Offset OFFSET8 "qmiLocGnssStatisticsReportIndMsgT_v02" "powerConsumptionDuration", Offset OFFSET8 "qmiLocGnssStatisticsReportIndMsgT_v02" "powerConsumptionDuration_valid")) 18 (Elem [] QMI_IDL_GENERIC_4_BYTE (Offset OFFSET8 "qmiLocGnssStatisticsReportIndMsgT_v02" "powerConsumptionDuration") None None None);
      Tlv false (Some (Offset OFFSET8 "qmiLocGnssStatisticsReportIndMsgT_v02" "latitude", Offset OFFSET8 "qmiLocGnssStatisticsReportIndMsgT_v02" "latitude_valid")) 19 (Elem [] QMI_IDL_GENERIC_8_BYTE (Offset OFFSET8 "qmiLocGnssStatisticsReportIndMsgT_v02" "latitude") None None None);
      Tlv false (Some (Offset OFFSET8 "qmiLocGnssStatisticsReportIndMsgT_v02" "longitude", Offset OFFSET8 "qmiLocGnssStatisticsReportIndMsgT_v02" "longitude_valid")) 20 (Elem [] QMI_IDL_GENERIC_8_BYTE (Offset OFFSET8 "qmiLocGnssStatisticsReportIndMsgT_v02" "longitude") None None None);
      Tlv false (Some (Offset OFFSET8 "qmiLocGnssStatisticsReportIndMsgT_v02" "altitudeWrtEllipsoid", Offset OFFSET8 "qmiLocGnssStatisticsReportIndMsgT_v02" "altitudeWrtEllipsoid_valid")) 21 (Elem [] QMI_IDL_GENERIC_4_BYTE (Offset OFFSET8 "qmiLocGnssStatisticsReportIndMsgT_v02" "altitudeWrtEllipsoid") None None None);
      Tlv false (Some (Offset OFFSET8 "qmiLocGnssStatisticsReportIndMsgT_v02" "altitudeWrtMeanSeaLevel", Offset OFFSET8 "qmiLocGnssStatisticsReportIndMsgT_v02" "altitudeWrtMeanSeaLevel_valid")) 22 (Elem [] QMI_IDL_GENERIC_4_BYTE (Offset OFFSET8 "qmiLocGnssStatisticsReportIndMsgT_v02" "altitudeWrtMeanSeaLevel") None None None);
      Tlv false (Some (Offset OFFSET8 "qmiLocGnssStatisticsReportIndMsgT_v02" "horUncCircular", Offset OFFSET8 "qmiLocGnssStatisticsReportIndMsgT_v02" "horUncCircular_valid")) 23 (Elem [] QMI_IDL_GENERIC_4_BYTE (Offset OFFSET8 "qmiLocGnssStatisticsReportIndMsgT_v02" "horUncCircular") None None None);
      Tlv false (Some (Offset OFFSET8 "qmiLocGnssStatisticsReportIndMsgT_v02" "vertUnc", Offset OFFSET8 "qmiLocGnssStatisticsReportIndMsgT_v02" "vertUnc_valid")) 24 (Elem [] QMI_IDL_GENERIC_4_BYTE (Offset OFFSET8 "qmiLocGnssStatisticsReportIndMsgT_v02" "vertUnc") None None None);
      Tlv false (Some (Offset OFFSET8 "qmiLocGnssStatisticsReportIndMsgT_v02" "horUncEllipseSemiMinor", Offset OFFSET8 "qmiLocGnssStatisticsReportIndMsgT_v02" "horUncEllipseSemiMinor_valid")) 25 (Elem [] QMI_IDL_GENERIC_4_BYTE (Offset OFFSET8 "qmiLocGnssStatisticsReportIndMsgT_v02" "horUncEllipseSemiMinor") None None None);
      Tlv false (Some (Offset OFFSET8 "qmiLocGnssStatisticsReportIndMsgT_v02" "horUncEllipseSemiMajor", Offset OFFSET8 "qmiLocGnssStatisticsReportIndMsgT_v02" "horUncEllipseSemiMajor_valid")) 26 (Elem [] QMI_IDL_GENERIC_4_BYTE (Offset OFFSET8 "qmiLocGnssStatisticsReportIndMsgT_v02" "horUncEllipseSemiMajor") None None None);
      Tlv false (Some (Offset OFFSET8 "qmiLocGnssStatisticsReportIndMsgT_v02" "horCircularConfidence", Offset OFFSET8 "qmiLocGnssStatisticsReportIndMsgT_v02" "horCircularConfidence_valid")) 27 (Elem [] QMI_IDL_GENERIC_1_BYTE (Offset OFFSET8 "qmiLocGnssStatisticsReportIndMsgT_v02" "horCircularConfidence") None None None);
      Tlv false (Some (Offset OFFSET8 "qmiLocGnssStatisticsReportIndMsgT_v02" "horReliability", Offset OFFSET8 "qmiLocGnssStatisticsReportIndMsgT_v02" "horReliability_valid")) 28 (Elem [] QMI_IDL_GENERIC_4_BYTE (Offset OFFSET8 "qmiLocGnssStatisticsReportIndMsgT_v02" "horReliability") None None None);
      Tlv false (Some (Offset OFFSET8 "qmiLocGnssStatisticsReportIndMsgT_v02" "horSpeed", Offset OFFSET8 "qmiLocGnssStatisticsReportIndMsgT_v02" "horSpeed_valid")) 29 (Elem [] QMI_IDL_GENERIC_4_BYTE (Offset OFFSET8 "qmiLocGnssStatisticsReportIndMsgT_v02" "horSpeed") None None None);
      Tlv false (Some (Offset OFFSET8 "qmiLocGnssStatisticsReportIndMsgT_v02" "horSpeedUnc", Offset OFFSET8 "qmiLocGnssStatisticsReportIndMsgT_v02" "horSpeedUnc_valid")) 30 (Elem [] QMI_IDL_GENERIC_4_BYTE (Offset OFFSET8 "qmiLocGnssStatisticsReportIndMsgT_v02" "horSpeedUnc") None None None);
      Tlv false (Some (Offset OFFSET8 "qmiLocGnssStatisticsReportIndMsgT_v02" "vertConfidence", Offset OFFSET8 "qmiLocGnssStatisticsReportIndMsgT_v02" "vertConfidence_valid")) 31 (Elem [] QMI_IDL_GENERIC_1_BYTE (Offset OFFSET8 "qmiLocGnssStatisticsReportIndMsgT_v02" "vertConfidence") None None None);
      Tlv false (Some (Offset OFFSET8 "qmiLocGnssStatisticsReportIndMsgT_v02" "vertReliability", Offset OFFSET8 "qmiLocGnssStatisticsReportIndMsgT_v02" "vertReliability_valid")) 32 (Elem [] QMI_IDL_GENERIC_4_BYTE (Offset OFFSET8 "qmiLocGnssStatisticsReportIndMsgT_v02" "vertReliability") None None None);
      Tlv false (Some (Offset OFFSET8 "qmiLocGnssStatisticsReportIndMsgT_v02" "vertSpeed", Offset OFFSET8 "qmiLocGnssStatisticsReportIndMsgT_v02" "vertSpeed_valid")) 33 (Elem [] QMI_IDL_GENERIC_4_BYTE (Offset OFFSET8 "qmiLocGnssStatisticsReportIndMsgT_v02" "vertSpeed") None None None);
      Tlv false (Some (Offset OFFSET8 "qmiLocGnssStatisticsReportIndMsgT_v02" "vertSpeedUnc", Offset OFFSET8 "qmiLocGnssStatisticsReportIndMsgT_v02" "vertSpeedUnc_valid")) 34 (Elem [] QMI_IDL_GENERIC_4_BYTE (Offset OFFSET8 "qmiLocGnssStatisticsReportIndMsgT_v02" "vertSpeedUnc") None None None);
      Tlv false (Some (Offset OFFSET8 "qmiLocGnssStatisticsReportIndMsgT_v02" "gpsWeek", Offset OFFSET8 "qmiLocGnssStatisticsReportIndMsgT_v02" "gpsWeek_valid")) 35 (Elem [] QMI_IDL_GENERIC_2_BYTE (Offset OFFSET8 "qmiLocGnssStatisticsReportIndMsgT_v02" "gpsWeek") None None None);
      Tlv false (Some (Offset OFFSET8 "qmiLocGnssStatisticsReportIndMsgT_v02" "gpsMsec", Offset OFFSET8 "qmiLocGnssStatisticsReportIndMsgT_v02" "gpsMsec_valid")) 36 (Elem [] QMI_IDL_GENERIC_4_BYTE (Offset OFFSET8 "qmiLocGnssStatisticsReportIndMsgT_v02" "gpsMsec") None None None);
      Tlv false (Some (Offset OFFSET8 "qmiLocGnssStatisticsReportIndMsgT_v02" "clkTimeBias", Offset OFFSET8 "qmiLocGnssStatisticsReportIndMsgT_v02" "clkTimeBias_valid")) 37 (Elem [] QMI_IDL_GENERIC_4_BYTE (Offset OFFSET8 "qmiLocGnssStatisticsReportIndMsgT_v02" "clkTimeBias") None None None);
      Tlv true (Some (Offset OFFSET8 "qmiLocGnssStatisticsReportIndMsgT_v02" "clkTimeBiasUnc", Offset OFFSET8 "qmiLocGnssStatisticsReportIndMsgT_v02" "clkTimeBiasUnc_valid")) 38 (Elem [] QMI_IDL_GENERIC_4_BYTE (Offset OFFSET8 "qmiLocGnssStatisticsReportIndMsgT_v02" "clkTimeBiasUnc") None None None) ]);
  ("qmiLocSetGnssPdrModeReqMsgT_data_v02", [
      Tlv true (Some (Offset OFFSET8 "qmiLocSetGnssPdrModeReqMsgT_v02" "mode", Offset OFFSET8 "qmiLocSetGnssPdrModeReqMsgT_v02" "mode_valid")) 16 (Elem [] QMI_IDL_GENERIC_4_BYTE (Offset OFFSET8 "qmiLocSetGnssPdrModeReqMsgT_v02" "mode") None None None) ]);
  ("qmiLocGetGnssPdrModeIndMsgT_data_v02", [
      Tlv false None 1 (Elem [] QMI_IDL_GENERIC_4_BYTE (Offset OFFSET8 "qmiLocGetGnssPdrModeIndMsgT_v02" "status") None None None);
      Tlv true (Some (Offset OFFSET8 "qmiLocGetGnssPdrModeIndMsgT_v02" "mode", Offset OFFSET8 "qmiLocGetGnssPdrModeIndMsgT_v02" "mode_valid")) 16 (Elem [] QMI_IDL_GENERIC_4_BYTE (Offset OFFSET8 "qmiLocGetGnssPdrModeIndMsgT_v02" "mode") None None None) ]);
  ("qmiLocGetMagCalStatePdrIndMsgT_data_v02", [
      Tlv false None 1 (Elem [] QMI_IDL_GENERIC_4_BYTE (Offset OFFSET8 "qmiLocGetMagCalStatePdrIndMsgT_v02" "status") None None None);
      Tlv true (Some (Offset OFFSET8 "qmiLocGetMagCalStatePdrIndMsgT_v02" "isCalibrated", Offset OFFSET8 "qmiLocGetMagCalStatePdrIndMsgT_v02" "isCalibrated_valid")) 16 (Elem [] QMI_IDL_GENERIC_1_BYTE (Offset OFFSET8 "qmiLocGetMagCalStatePdrIndMsgT_v02" "isCalibrated") None None None) ]) ].

Definition message_data_48 : list (string * list tlv) := [
  ("qmiLocSetMultibandConfigReqMsgT_data_v02", [
      Tlv true (Some (Offset OFFSET8 "qmiLocSetMultibandConfigReqMsgT_v02" "secondaryGnssConfig", Offset OFFSET8 "qmiLocSetMultibandConfigReqMsgT_v02" "secondaryGnssConfig_valid")) 16 (Elem [] QMI_IDL_GENERIC_8_BYTE (Offset OFFSET8 "qmiLocSetMultibandConfigReqMsgT_v02" "secondaryGnssConfig") None None None) ]);
  ("qmiLocGetMultibandConfigIndMsgT_data_v02", [
      Tlv false None 1 (Elem [] QMI_IDL_GENERIC_4_BYTE (Offset OFFSET8 "qmiLocGetMultibandConfigIndMsgT_v02" "status") None None None);
      Tlv true (Some (Offset OFFSET8 "qmiLocGetMultibandConfigIndMsgT_v02" "secondaryGnssConfig", Offset OFFSET8 "qmiLocGetMultibandConfigIndMsgT_v02" "secondaryGnssConfig_valid")) 16 (Elem [] QMI_IDL_GENERIC_8_BYTE (Offset OFFSET8 "qmiLocGetMultibandConfigIndMsgT_v02" "secondaryGnssConfig") None None None) ]);
  ("qmiLocLatencyInformationIndMsgT_data_v02", [
      Tlv false None 1 (Elem [] QMI_IDL_GENERIC_4_BYTE (Offset OFFSET8 "qmiLocLatencyInformationIndMsgT_v02" "latencyInfo") None None None);
      Tlv false (Some (Offset OFFSET8 "qmiLocLatencyInformationIndMsgT_v02" "sysTickAtChkPt1", Offset OFFSET8 "qmiLocLatencyInformationIndMsgT_v02" "sysTickAtChkPt1_valid")) 16 (Elem [] QMI_IDL_GENERIC_8_BYTE (Offset OFFSET8 "qmiLocLatencyInformationIndMsgT_v02" "sysTickAtChkPt1") None None None);
      Tlv false (Some (Offset OFFSET8 "qmiLocLatencyInformationIndMsgT_v02" "sysTickAtChkPt2", Offset OFFSET8 "qmiLocLatencyInformationIndMsgT_v02" "sysTickAtChkPt2_valid")) 17 (Elem [] QMI_IDL_GENERIC_8_BYTE (Offset OFFSET8 "qmiLocLatencyInformationIndMsgT_v02" "sysTickAtChkPt2") None None None);
      Tlv false (Some (Offset OFFSET8 "qmiLocLatencyInformationIndMsgT_v02" "sysTickAtChkPt3", Offset OFFSET8 "qmiLocLatencyInformationIndMsgT_v02" "sysTickAtChkPt3_valid")) 18 (Elem [] QMI_IDL_GENERIC_8_BYTE (Offset OFFSET8 "qmiLocLatencyInformationIndMsgT_v02" "sysTickAtChkPt3") None None None);
      Tlv false (Some (Offset OFFSET8 "qmiLocLatencyInformationIndMsgT_v02" "sysTickAtChkPt4", Offset OFFSET8 "qmiLocLatencyInformationIndMsgT_v02" "sysTickAtChkPt4_valid")) 19 (Elem [] QMI_IDL_GENERIC_8_BYTE (Offset OFFSET8 "qmiLocLatencyInformationIndMsgT_v02" "sysTickAtChkPt4") None None None);
      Tlv false (Some (Offset OFFSET8 "qmiLocLatencyInformationIndMsgT_v02" "sysTickAtChkPt5", Offset OFFSET8 "qmiLocLatencyInformationIndMsgT_v02" "sysTickAtChkPt5_valid")) 20 (Elem [] QMI_IDL_GENERIC_8_BYTE (Offset OFFSET8 "qmiLocLatencyInformationIndMsgT_v02" "sysTickAtChkPt5") None None None);
      Tlv false (Some (Offset OFFSET8 "qmiLocLatencyInformationIndMsgT_v02" "sysTickAtChkPt6", Offset OFFSET8 "qmiLocLatencyInformationIndMsgT_v02" "sysTickAtChkPt6_valid")) 21 (Elem [] QMI_IDL_GENERIC_8_BYTE (Offset OFFSET8 "qmiLocLatencyInformationIndMsgT_v02" "sysTickAtChkPt6") None None None);
      Tlv false (Some (Offset OFFSET8 "qmiLocLatencyInformationIndMsgT_v02" "sysTickAtChkPt7", Offset OFFSET8 "qmiLocLatencyInformationIndMsgT_v02" "sysTickAtChkPt7_valid")) 22 (Elem [] QMI_IDL_GENERIC_8_BYTE (Offset OFFSET8 "qmiLocLatencyInformationIndMsgT_v02" "sysTickAtChkPt7") None None None);
      Tlv false (Some (Offset OFFSET8 "qmiLocLatencyInformationIndMsgT_v02" "sysTickAtChkPt8", Offset OFFSET8 "qmiLocLatencyInformationIndMsgT_v02" "sysTickAtChkPt8_valid")) 23 (Elem [] QMI_IDL_GENERIC_8_BYTE (Offset OFFSET8 "qmiLocLatencyInformationIndMsgT_v02" "sysTickAtChkPt8") None None None);
      Tlv false (Some (Offset OFFSET8 "qmiLocLatencyInformationIndMsgT_v02" "sysTickAtChkPt9", Offset OFFSET8 "qmiLocLatencyInformationIndMsgT_v02" "sysTickAtChkPt9_valid")) 24 (Elem [] QMI_IDL_GENERIC_8_BYTE (Offset OFFSET8 "qmiLocLatencyInformationIndMsgT_v02" "sysTickAtChkPt9") None None None);
      Tlv false (Some (Offset OFFSET8 "qmiLocLatencyInformationIndMsgT_v02" "sysTickAtChkPt10", Offset OFFSET8 "qmiLocLatencyInformationIndMsgT_v02" "sysTickAtChkPt10_valid")) 25 (Elem [] QMI_IDL_GENERIC_8_BYTE (Offset OFFSET8 "qmiLocLatencyInformationIndMsgT_v02" "sysTickAtChkPt10") None None None);
      Tlv true (Some (Offset OFFSET8 "qmiLocLatencyInformationIndMsgT_v02" "fCountOfMeasBlk", Offset OFFSET8 "qmiLocLatencyInformationIndMsgT_v02" "fCountOfMeasBlk_valid")) 26 (Elem [] QMI_IDL_GENERIC_4_BYTE (Offset OFFSET8 "qmiLocLatencyInformationIndMsgT_v02" "fCountOfMeasBlk") None None None) ]) ].

Definition loc_message_data : list (string * list tlv) :=
  message_data_1 ++ message_data_2 ++ message_data_3 ++ message_data_4 ++ message_data_5 ++ message_data_6 ++ message_data_7 ++ message_data_8 ++ message_data_9 ++ message_data_10 ++ message_data_11 ++ message_data_12 ++ message_data_13 ++ message_data_14 ++ message_data_15 ++ message_data_16 ++ message_data_17 ++ message_data_18 ++ message_data_19 ++ message_data_20 ++ message_data_21 ++ message_data_22 ++ message_data_23 ++ message_data_24 ++ message_data_25 ++ message_data_26 ++ message_data_27 ++ message_data_28 ++ message_data_29 ++ message_data_30 ++ message_data_31 ++ message_data_32 ++ message_data_33 ++ message_data_34 ++ message_data_35 ++ message_data_36 ++ message_data_37 ++ message_data_38 ++ message_data_39 ++ message_data_40 ++ message_data_41 ++ message_data_42 ++ message_data_43 ++ message_data_44 ++ message_data_45 ++ message_data_46 ++ message_data_47 ++ message_data_48.

Definition loc_type_table_v02 : list (string * string) := [
    ("qmiLocApplicationIdStructT_v02", "qmiLocApplicationIdStructT_data_v02");
    ("qmiLocPowerModeStructT_v02", "qmiLocPowerModeStructT_data_v02");
    ("qmiLocGPSTimeStructT_v02", "qmiLocGPSTimeStructT_data_v02");
    ("qmiLocDOPStructT_v02", "qmiLocDOPStructT_data_v02");
    ("qmiLocExtDOPStructT_v02", "qmiLocExtDOPStructT_data_v02");
    ("qmiLocSensorUsageIndicatorStructT_v02", "qmiLocSensorUsageIndicatorStructT_data_v02");
    ("qmiLocJammerIndicatorStructT_v02", "qmiLocJammerIndicatorStructT_data_v02");
    ("qmiLocSvInfoStructT_v02", "qmiLocSvInfoStructT_data_v02");
    ("qmiLocExpandedSvInfoStructT_v02", "qmiLocExpandedSvInfoStructT_data_v02");
    ("qmiLocNiVxNotifyVerifyStructT_v02", "qmiLocNiVxNotifyVerifyStructT_data_v02");
    ("qmiLocNiSuplFormattedStringStructT_v02", "qmiLocNiSuplFormattedStringStructT_data_v02");
    ("qmiLocNiSuplQopStructT_v02", "qmiLocNiSuplQopStructT_data_v02");
    ("qmiLocIpV4AddrStructType_v02", "qmiLocIpV4AddrStructType_data_v02");
    ("qmiLocIpV6AddrStructType_v02", "qmiLocIpV6AddrStructType_data_v02");
    ("qmiLocNiSuplServerInfoStructT_v02", "qmiLocNiSuplServerInfoStructT_data_v02");
    ("qmiLocNiSuplNotifyVerifyStructT_v02", "qmiLocNiSuplNotifyVerifyStructT_data_v02");
    ("qmiLocNiUmtsCpCodedStringStructT_v02", "qmiLocNiUmtsCpCodedStringStructT_data_v02");
    ("qmiLocNiUmtsCpNotifyVerifyStructT_v02", "qmiLocNiUmtsCpNotifyVerifyStructT_data_v02");
    ("qmiLocNiVxServiceInteractionStructT_v02", "qmiLocNiVxServiceInteractionStructT_data_v02");
    ("qmiLocNiSuplVer2ExtStructT_v02", "qmiLocNiSuplVer2ExtStructT_data_v02");
    ("qmiLocEmergencyNotificationStructT_v02", "qmiLocEmergencyNotificationStructT_data_v02");
    ("qmiLocAssistanceServerUrlStructT_v02", "qmiLocAssistanceServerUrlStructT_data_v02");
    ("qmiLocTimeServerListStructT_v02", "qmiLocTimeServerListStructT_data_v02");
    ("qmiLocPredictedOrbitsAllowedSizesStructT_v02", "qmiLocPredictedOrbitsAllowedSizesStructT_data_v02");
    ("qmiLocPredictedOrbitsServerListStructT_v02", "qmiLocPredictedOrbitsServerListStructT_data_v02");
    ("qmiLocSensorControlConfigSamplingSpecStructT_v02", "qmiLocSensorControlConfigSamplingSpecStructT_data_v02");
    ("qmiLocSensorReadyStatusStructT_v02", "qmiLocSensorReadyStatusStructT_data_v02");
    ("qmiLocGeofencePositionStructT_v02", "qmiLocGeofencePositionStructT_data_v02");
    ("qmiLocGeofenceIdContinuousStructT_v02", "qmiLocGeofenceIdContinuousStructT_data_v02");
    ("qmiLocPredictedOrbitsDataValidityStructT_v02", "qmiLocPredictedOrbitsDataValidityStructT_data_v02");
    ("qmiLocAltitudeSrcInfoStructT_v02", "qmiLocAltitudeSrcInfoStructT_data_v02");
    ("qmiLocDeleteSvInfoStructT_v02", "qmiLocDeleteSvInfoStructT_data_v02");
    ("qmiLocDeleteBDSSvInfoStructT_v02", "qmiLocDeleteBDSSvInfoStructT_data_v02");
    ("qmiLocDeleteGALSvInfoStructT_v02", "qmiLocDeleteGALSvInfoStructT_data_v02");
    ("qmiLocWifiFixTimeStructT_v02", "qmiLocWifiFixTimeStructT_data_v02");
    ("qmiLocWifiFixPosStructT_v02", "qmiLocWifiFixPosStructT_data_v02");
    ("qmiLocWifiApInfoStructT_v02", "qmiLocWifiApInfoStructT_data_v02");
    ("qmiLocWifiApSsidStructT_v02", "qmiLocWifiApSsidStructT_data_v02");
    ("qmiLoc3AxisSensorSampleStructT_v02", "qmiLoc3AxisSensorSampleStructT_data_v02");
    ("qmiLoc3AxisSensorSampleListStructT_v02", "qmiLoc3AxisSensorSampleListStructT_data_v02");
    ("qmiLocSensorTemperatureSampleStructT_v02", "qmiLocSensorTemperatureSampleStructT_data_v02");
    ("qmiLocSensorTemperatureSampleListStructT_v02", "qmiLocSensorTemperatureSampleListStructT_data_v02");
    ("qmiLocApnProfilesStructT_v02", "qmiLocApnProfilesStructT_data_v02");
    ("qmiLocCircularGeofenceArgsStructT_v02", "qmiLocCircularGeofenceArgsStructT_data_v02");
    ("qmiLocGeofenceMotionStateConfigStructT_v02", "qmiLocGeofenceMotionStateConfigStructT_data_v02");
    ("qmiLocTimeZoneStructT_v02", "qmiLocTimeZoneStructT_data_v02");
    ("qmiLocMotionDataStructT_v02", "qmiLocMotionDataStructT_data_v02");
    ("qmiLocGSMCellIdStructT_v02", "qmiLocGSMCellIdStructT_data_v02");
    ("qmiLocWCDMACellIdStructT_v02", "qmiLocWCDMACellIdStructT_data_v02");
    ("qmiLocTDSCDMACellIdStructT_v02", "qmiLocTDSCDMACellIdStructT_data_v02");
    ("qmiLocBatchedReportStructT_v02", "qmiLocBatchedReportStructT_data_v02");
    ("qmiLocWifiApDataStructT_v02", "qmiLocWifiApDataStructT_data_v02");
    ("qmiLocWifiApAdditionalDataStructT_v02", "qmiLocWifiApAdditionalDataStructT_data_v02");
    ("qmiLocVehicleSensorSampleStructT_v02", "qmiLocVehicleSensorSampleStructT_data_v02");
    ("qmiLocVehicleSensorSampleListStructType_v02", "qmiLocVehicleSensorSampleListStructType_data_v02");
    ("qmiLocVehicleOdometrySampleStructT_v02", "qmiLocVehicleOdometrySampleStructT_data_v02");
    ("qmiLocVehicleOdometrySampleListStructT_v02", "qmiLocVehicleOdometrySampleListStructT_data_v02");
    ("qmiLocRcvrClockFrequencyInfoStructT_v02", "qmiLocRcvrClockFrequencyInfoStructT_data_v02");
    ("qmiLocLeapSecondInfoStructT_v02", "qmiLocLeapSecondInfoStructT_data_v02");
    ("qmiLocInterSystemBiasStructT_v02", "qmiLocInterSystemBiasStructT_data_v02");
    ("qmiLocGnssTimeStructT_v02", "qmiLocGnssTimeStructT_data_v02");
    ("qmiLocGloTimeStructT_v02", "qmiLocGloTimeStructT_data_v02");
    ("qmiLocGnssTimeExtStructT_v02", "qmiLocGnssTimeExtStructT_data_v02");
    ("qmiLocSVTimeSpeedStructT_v02", "qmiLocSVTimeSpeedStructT_data_v02");
    ("qmiLocSVMeasurementStructT_v02", "qmiLocSVMeasurementStructT_data_v02");
    ("qmiLocDgnssSVMeasurementStructT_v02", "qmiLocDgnssSVMeasurementStructT_data_v02");
    ("qmiLocWifiApMacAddressStructT_v02", "qmiLocWifiApMacAddressStructT_data_v02");
    ("qmiLocIBeaconIdStructT_v02", "qmiLocIBeaconIdStructT_data_v02");
    ("qmiLocGtpAsnVerStructT_v02", "qmiLocGtpAsnVerStructT_data_v02");
    ("qmiLocDbtPositionStructT_v02", "qmiLocDbtPositionStructT_data_v02");
    ("qmiLocApCacheStructT_v02", "qmiLocApCacheStructT_data_v02");
    ("qmiLocApCacheHepeRelStructT_v02", "qmiLocApCacheHepeRelStructT_data_v02");
    ("qmiLocApDoNotCacheStructT_v02", "qmiLocApDoNotCacheStructT_data_v02");
    ("qmiLocDeleteSatelliteDataStructT_v02", "qmiLocDeleteSatelliteDataStructT_data_v02");
    ("qmiLocInternalStatusReportDataStructT_v02", "qmiLocInternalStatusReportDataStructT_data_v02");
    ("qmiLocSrnBtleApDeviceDataStructT_v02", "qmiLocSrnBtleApDeviceDataStructT_data_v02");
    ("qmiLocWifiCrowdSourcingLocalConfigStructT_v02", "qmiLocWifiCrowdSourcingLocalConfigStructT_data_v02");
    ("qmiLocWifiCrowdSourcingCapabilityStructT_v02", "qmiLocWifiCrowdSourcingCapabilityStructT_data_v02");
    ("qmiLocXtraInfoStructT_v02", "qmiLocXtraInfoStructT_data_v02");
    ("qmiLocVersionStructT_v02", "qmiLocVersionStructT_data_v02");
    ("qmiLocGtpClientSwVerStructT_v02", "qmiLocGtpClientSwVerStructT_data_v02");
    ("qmiLocHomeCarrierIdStructT_v02", "qmiLocHomeCarrierIdStructT_data_v02");
    ("qmiLocPositionSourceStructT_v02", "qmiLocPositionSourceStructT_data_v02");
    ("qmiLocBsBestPositionStructT_v02", "qmiLocBsBestPositionStructT_data_v02");
    ("qmiLocFdclCellIdStructT_v02", "qmiLocFdclCellIdStructT_data_v02");
    ("qmiLocFdclCellPosStructT_v02", "qmiLocFdclCellPosStructT_data_v02");
    ("qmiLocNextLeapSecondInfoStructT_v02", "qmiLocNextLeapSecondInfoStructT_data_v02");
    ("qmiLocBsObservedDataStructT_v02", "qmiLocBsObservedDataStructT_data_v02");
    ("qmiLocEphGnssDataStructT_v02", "qmiLocEphGnssDataStructT_data_v02");
    ("qmiLocGpsEphemerisT_v02", "qmiLocGpsEphemerisT_data_v02");
    ("qmiLocGloEphemerisT_v02", "qmiLocGloEphemerisT_data_v02");
    ("qmiLocBdsEphemerisT_v02", "qmiLocBdsEphemerisT_data_v02");
    ("qmiLocGalEphemerisT_v02", "qmiLocGalEphemerisT_data_v02");
    ("qmiLocKlobucharIonoModelT_v02", "qmiLocKlobucharIonoModelT_data_v02");
    ("qmiLocMePerGnssRfStructType_v02", "qmiLocMePerGnssRfStructType_data_v02");
    ("qmiLocRobustLocationVersionT_v02", "qmiLocRobustLocationVersionT_data_v02");
    ("qmiLocEnvAidingReflectingPlaneStructT_v02", "qmiLocEnvAidingReflectingPlaneStructT_data_v02");
    ("qmiLocEnvAidingSVCorrectionStructT_v02", "qmiLocEnvAidingSVCorrectionStructT_data_v02") ].

Definition message_table_1 : list (string * option string) := [
    ("qmiLocGenReqMsgT_v02", None);
    ("qmiLocGenRespMsgT_v02", Some "qmiLocGenRespMsgT_data_v02");
    ("qmiLocGenReqStatusIndMsgT_v02", Some "qmiLocGenReqStatusIndMsgT_data_v02");
    ("qmiLocInformClientRevisionReqMsgT_v02", Some "qmiLocInformClientRevisionReqMsgT_data_v02");
    ("qmiLocRegEventsReqMsgT_v02", Some "qmiLocRegEventsReqMsgT_data_v02");
    ("qmiLocStartReqMsgT_v02", Some "qmiLocStartReqMsgT_data_v02");
    ("qmiLocStopReqMsgT_v02", Some "qmiLocStopReqMsgT_data_v02");
    ("qmiLocEventPositionReportIndMsgT_v02", Some "qmiLocEventPositionReportIndMsgT_data_v02");
    ("qmiLocEventGnssSvInfoIndMsgT_v02", Some "qmiLocEventGnssSvInfoIndMsgT_data_v02");
    ("qmiLocEventNmeaIndMsgT_v02", Some "qmiLocEventNmeaIndMsgT_data_v02");
    ("qmiLocEventNiNotifyVerifyReqIndMsgT_v02", Some "qmiLocEventNiNotifyVerifyReqIndMsgT_data_v02");
    ("qmiLocEventInjectTimeReqIndMsgT_v02", Some "qmiLocEventInjectTimeReqIndMsgT_data_v02");
    ("qmiLocEventInjectPredictedOrbitsReqIndMsgT_v02", Some "qmiLocEventInjectPredictedOrbitsReqIndMsgT_data_v02");
    ("qmiLocEventInjectPositionReqIndMsgT_v02", Some "qmiLocEventInjectPositionReqIndMsgT_data_v02");
    ("qmiLocEventEngineStateIndMsgT_v02", Some "qmiLocEventEngineStateIndMsgT_data_v02");
    ("qmiLocEventFixSessionStateIndMsgT_v02", Some "qmiLocEventFixSessionStateIndMsgT_data_v02");
    ("qmiLocEventWifiReqIndMsgT_v02", Some "qmiLocEventWifiReqIndMsgT_data_v02");
    ("qmiLocEventSensorStreamingReadyStatusIndMsgT_v02", Some "qmiLocEventSensorStreamingReadyStatusIndMsgT_data_v02");
    ("qmiLocEventTimeSyncReqIndMsgT_v02", Some "qmiLocEventTimeSyncReqIndMsgT_data_v02");
    ("qmiLocEventSetSpiStreamingReportIndMsgT_v02", Some "qmiLocEventSetSpiStreamingReportIndMsgT_data_v02");
    ("qmiLocEventLocationServerConnectionReqIndMsgT_v02", Some "qmiLocEventLocationServerConnectionReqIndMsgT_data_v02");
    ("qmiLocEventNiGeofenceNotificationIndMsgT_v02", Some "qmiLocEventNiGeofenceNotificationIndMsgT_data_v02");
    ("qmiLocEventGeofenceGenAlertIndMsgT_v02", Some "qmiLocEventGeofenceGenAlertIndMsgT_data_v02");
    ("qmiLocEventGeofenceBreachIndMsgT_v02", Some "qmiLocEventGeofenceBreachIndMsgT_data_v02");
    ("qmiLocEventPedometerControlIndMsgT_v02", Some "qmiLocEventPedometerControlIndMsgT_data_v02");
    ("qmiLocEventMotionDataControlIndMsgT_v02", Some "qmiLocEventMotionDataControlIndMsgT_data_v02");
    ("qmiLocEventGeofenceBatchedBreachIndMsgT_v02", Some "qmiLocEventGeofenceBatchedBreachIndMsgT_data_v02");
    ("qmiLocEventGeofenceProximityIndMsgT_v02", Some "qmiLocEventGeofenceProximityIndMsgT_data_v02");
    ("qmiLocEventGeofenceBatchedDwellIndMsgT_v02", Some "qmiLocEventGeofenceBatchedDwellIndMsgT_data_v02");
    ("qmiLocEventGdtUploadBeginStatusReqIndMsgT_v02", Some "qmiLocEventGdtUploadBeginStatusReqIndMsgT_data_v02");
    ("qmiLocEventGdtUploadEndReqIndMsgT_v02", Some "qmiLocEventGdtUploadEndReqIndMsgT_data_v02");
    ("qmiLocEventGdtDownloadBeginReqIndMsgT_v02", Some "qmiLocEventGdtDownloadBeginReqIndMsgT_data_v02");
    ("qmiLocEventGdtReceiveDoneIndMsgT_v02", Some "qmiLocEventGdtReceiveDoneIndMsgT_data_v02");
    ("qmiLocEventGdtDownloadEndReqIndMsgT_v02", Some "qmiLocEventGdtDownloadEndReqIndMsgT_data_v02");
    ("qmiLocGetServiceRevisionReqMsgT_v02", None);
    ("qmiLocGetServiceRevisionIndMsgT_v02", Some "qmiLocGetServiceRevisionIndMsgT_data_v02");
    ("qmiLocGetFixCriteriaReqMsgT_v02", None);
    ("qmiLocGetFixCriteriaIndMsgT_v02", Some "qmiLocGetFixCriteriaIndMsgT_data_v02");
    ("qmiLocNiUserRespReqMsgT_v02", Some "qmiLocNiUserRespReqMsgT_data_v02");
    ("qmiLocNiUserRespIndMsgT_v02", Some "qmiLocNiUserRespIndMsgT_data_v02");
    ("qmiLocInjectPredictedOrbitsDataReqMsgT_v02", Some "qmiLocInjectPredictedOrbitsDataReqMsgT_data_v02");
    ("qmiLocInjectPredictedOrbitsDataIndMsgT_v02", Some "qmiLocInjectPredictedOrbitsDataIndMsgT_data_v02");
    ("qmiLocGetPredictedOrbitsDataSourceReqMsgT_v02", None);
    ("qmiLocGetPredictedOrbitsDataSourceIndMsgT_v02", Some "qmiLocGetPredictedOrbitsDataSourceIndMsgT_data_v02");
    ("qmiLocGetPredictedOrbitsDataValidityReqMsgT_v02", None);
    ("qmiLocGetPredictedOrbitsDataValidityIndMsgT_v02", Some "qmiLocGetPredictedOrbitsDataValidityIndMsgT_data_v02");
    ("qmiLocInjectUtcTimeReqMsgT_v02", Some "qmiLocInjectUtcTimeReqMsgT_data_v02");
    ("qmiLocInjectUtcTimeIndMsgT_v02", Some "qmiLocInjectUtcTimeIndMsgT_data_v02");
    ("qmiLocInjectPositionReqMsgT_v02", Some "qmiLocInjectPositionReqMsgT_data_v02");
    ("qmiLocInjectPositionIndMsgT_v02", Some "qmiLocInjectPositionIndMsgT_data_v02");
    ("qmiLocSetEngineLockReqMsgT_v02", Some "qmiLocSetEngineLockReqMsgT_data_v02");
    ("qmiLocSetEngineLockIndMsgT_v02", Some "qmiLocSetEngineLockIndMsgT_data_v02");
    ("qmiLocGetEngineLockReqMsgT_v02", Some "qmiLocGetEngineLockReqMsgT_data_v02");
    ("qmiLocGetEngineLockIndMsgT_v02", Some "qmiLocGetEngineLockIndMsgT_data_v02");
    ("qmiLocSetSbasConfigReqMsgT_v02", Some "qmiLocSetSbasConfigReqMsgT_data_v02");
    ("qmiLocSetSbasConfigIndMsgT_v02", Some "qmiLocSetSbasConfigIndMsgT_data_v02");
    ("qmiLocGetSbasConfigReqMsgT_v02", None);
    ("qmiLocGetSbasConfigIndMsgT_v02", Some "qmiLocGetSbasConfigIndMsgT_data_v02");
    ("qmiLocSetNmeaTypesReqMsgT_v02", Some "qmiLocSetNmeaTypesReqMsgT_data_v02");
    ("qmiLocSetNmeaTypesIndMsgT_v02", Some "qmiLocSetNmeaTypesIndMsgT_data_v02");
    ("qmiLocGetNmeaTypesReqMsgT_v02", None);
    ("qmiLocGetNmeaTypesIndMsgT_v02", Some "qmiLocGetNmeaTypesIndMsgT_data_v02");
    ("qmiLocSetLowPowerModeReqMsgT_v02", Some "qmiLocSetLowPowerModeReqMsgT_data_v02");
    ("qmiLocSetLowPowerModeIndMsgT_v02", Some "qmiLocSetLowPowerModeIndMsgT_data_v02");
    ("qmiLocGetLowPowerModeReqMsgT_v02", None);
    ("qmiLocGetLowPowerModeIndMsgT_v02", Some "qmiLocGetLowPowerModeIndMsgT_data_v02");
    ("qmiLocSetServerReqMsgT_v02", Some "qmiLocSetServerReqMsgT_data_v02");
    ("qmiLocSetServerIndMsgT_v02", Some "qmiLocSetServerIndMsgT_data_v02");
    ("qmiLocGetServerReqMsgT_v02", Some "qmiLocGetServerReqMsgT_data_v02");
    ("qmiLocGetServerIndMsgT_v02", Some "qmiLocGetServerIndMsgT_data_v02");
    ("qmiLocDeleteAssistDataReqMsgT_v02", Some "qmiLocDeleteAssistDataReqMsgT_data_v02");
    ("qmiLocDeleteAssistDataIndMsgT_v02", Some "qmiLocDeleteAssistDataIndMsgT_data_v02");
    ("qmiLocSetXtraTSessionControlReqMsgT_v02", Some "qmiLocSetXtraTSessionControlReqMsgT_data_v02");
    ("qmiLocSetXtraTSessionControlIndMsgT_v02", Some "qmiLocSetXtraTSessionControlIndMsgT_data_v02");
    ("qmiLocGetXtraTSessionControlReqMsgT_v02", None);
    ("qmiLocGetXtraTSessionControlIndMsgT_v02", Some "qmiLocGetXtraTSessionControlIndMsgT_data_v02");
    ("qmiLocInjectWifiPositionReqMsgT_v02", Some "qmiLocInjectWifiPositionReqMsgT_data_v02");
    ("qmiLocInjectWifiPositionIndMsgT_v02", Some "qmiLocInjectWifiPositionIndMsgT_data_v02");
    ("qmiLocNotifyWifiStatusReqMsgT_v02", Some "qmiLocNotifyWifiStatusReqMsgT_data_v02");
    ("qmiLocNotifyWifiStatusIndMsgT_v02", Some "qmiLocNotifyWifiStatusIndMsgT_data_v02");
    ("qmiLocGetRegisteredEventsReqMsgT_v02", None);
    ("qmiLocGetRegisteredEventsIndMsgT_v02", Some "qmiLocGetRegisteredEventsIndMsgT_data_v02");
    ("qmiLocSetOperationModeReqMsgT_v02", Some "qmiLocSetOperationModeReqMsgT_data_v02");
    ("qmiLocSetOperationModeIndMsgT_v02", Some "qmiLocSetOperationModeIndMsgT_data_v02");
    ("qmiLocGetOperationModeReqMsgT_v02", None);
    ("qmiLocGetOperationModeIndMsgT_v02", Some "qmiLocGetOperationModeIndMsgT_data_v02");
    ("qmiLocSetSpiStatusReqMsgT_v02", Some "qmiLocSetSpiStatusReqMsgT_data_v02");
    ("qmiLocSetSpiStatusIndMsgT_v02", Some "qmiLocSetSpiStatusIndMsgT_data_v02");
    ("qmiLocInjectSensorDataReqMsgT_v02", Some "qmiLocInjectSensorDataReqMsgT_data_v02");
    ("qmiLocInjectSensorDataIndMsgT_v02", Some "qmiLocInjectSensorDataIndMsgT_data_v02");
    ("qmiLocInjectTimeSyncDataReqMsgT_v02", Some "qmiLocInjectTimeSyncDataReqMsgT_data_v02");
    ("qmiLocInjectTimeSyncDataIndMsgT_v02", Some "qmiLocInjectTimeSyncDataIndMsgT_data_v02");
    ("qmiLocGetCradleMountConfigReqMsgT_v02", None);
    ("qmiLocGetCradleMountConfigIndMsgT_v02", Some "qmiLocGetCradleMountConfigIndMsgT_data_v02");
    ("qmiLocSetCradleMountConfigReqMsgT_v02", Some "qmiLocSetCradleMountConfigReqMsgT_data_v02");
    ("qmiLocSetCradleMountConfigIndMsgT_v02", Some "qmiLocSetCradleMountConfigIndMsgT_data_v02");
    ("qmiLocGetExternalPowerConfigReqMsgT_v02", None);
    ("qmiLocGetExternalPowerConfigIndMsgT_v02", Some "qmiLocGetExternalPowerConfigIndMsgT_data_v02");
    ("qmiLocSetExternalPowerConfigReqMsgT_v02", Some "qmiLocSetExternalPowerConfigReqMsgT_data_v02");
    ("qmiLocSetExternalPowerConfigIndMsgT_v02", Some "qmiLocSetExternalPowerConfigIndMsgT_data_v02");
    ("qmiLocInformLocationServerConnStatusReqMsgT_v02", Some "qmiLocInformLocationServerConnStatusReqMsgT_data_v02");
    ("qmiLocInformLocationServerConnStatusIndMsgT_v02", Some "qmiLocInformLocationServerConnStatusIndMsgT_data_v02");
    ("qmiLocSetProtocolConfigParametersReqMsgT_v02", Some "qmiLocSetProtocolConfigParametersReqMsgT_data_v02");
    ("qmiLocSetProtocolConfigParametersIndMsgT_v02", Some "qmiLocSetProtocolConfigParametersIndMsgT_data_v02");
    ("qmiLocGetProtocolConfigParametersReqMsgT_v02", Some "qmiLocGetProtocolConfigParametersReqMsgT_data_v02");
    ("qmiLocGetProtocolConfigParametersIndMsgT_v02", Some "qmiLocGetProtocolConfigParametersIndMsgT_data_v02");
    ("qmiLocSetSensorControlConfigReqMsgT_v02", Some "qmiLocSetSensorControlConfigReqMsgT_data_v02");
    ("qmiLocSetSensorControlConfigIndMsgT_v02", Some "qmiLocSetSensorControlConfigIndMsgT_data_v02");
    ("qmiLocGetSensorControlConfigReqMsgT_v02", None);
    ("qmiLocGetSensorControlConfigIndMsgT_v02", Some "qmiLocGetSensorControlConfigIndMsgT_data_v02");
    ("qmiLocSetSensorPropertiesReqMsgT_v02", Some "qmiLocSetSensorPropertiesReqMsgT_data_v02");
    ("qmiLocSetSensorPropertiesIndMsgT_v02", Some "qmiLocSetSensorPropertiesIndMsgT_data_v02");
    ("qmiLocGetSensorPropertiesReqMsgT_v02", Some "qmiLocGetSensorPropertiesReqMsgT_data_v02");
    ("qmiLocGetSensorPropertiesIndMsgT_v02", Some "qmiLocGetSensorPropertiesIndMsgT_data_v02");
    ("qmiLocSetSensorPerformanceControlConfigReqMsgT_v02", Some "qmiLocSetSensorPerformanceControlConfigReqMsgT_data_v02");
    ("qmiLocSetSensorPerformanceControlConfigIndMsgT_v02", Some "qmiLocSetSensorPerformanceControlConfigIndMsgT_data_v02");
    ("qmiLocGetSensorPerformanceControlConfigReqMsgT_v02", None);
    ("qmiLocGetSensorPerformanceControlConfigIndMsgT_v02", Some "qmiLocGetSensorPerformanceControlConfigIndMsgT_data_v02");
    ("qmiLocInjectSuplCertificateReqMsgT_v02", Some "qmiLocInjectSuplCertificateReqMsgT_data_v02");
    ("qmiLocInjectSuplCertificateIndMsgT_v02", Some "qmiLocInjectSuplCertificateIndMsgT_data_v02");
    ("qmiLocDeleteSuplCertificateReqMsgT_v02", Some "qmiLocDeleteSuplCertificateReqMsgT_data_v02");
    ("qmiLocDeleteSuplCertificateIndMsgT_v02", Some "qmiLocDeleteSuplCertificateIndMsgT_data_v02");
    ("qmiLocSetPositionEngineConfigParametersReqMsgT_v02", Some "qmiLocSetPositionEngineConfigParametersReqMsgT_data_v02");
    ("qmiLocSetPositionEngineConfigParametersIndMsgT_v02", Some "qmiLocSetPositionEngineConfigParametersIndMsgT_data_v02");
    ("qmiLocGetPositionEngineConfigParametersReqMsgT_v02", Some "qmiLocGetPositionEngineConfigParametersReqMsgT_data_v02");
    ("qmiLocGetPositionEngineConfigParametersIndMsgT_v02", Some "qmiLocGetPositionEngineConfigParametersIndMsgT_data_v02");
    ("qmiLocAddCircularGeofenceReqMsgT_v02", Some "qmiLocAddCircularGeofenceReqMsgT_data_v02");
    ("qmiLocAddCircularGeofenceIndMsgT_v02", Some "qmiLocAddCircularGeofenceIndMsgT_data_v02");
    ("qmiLocDeleteGeofenceReqMsgT_v02", Some "qmiLocDeleteGeofenceReqMsgT_data_v02");
    ("qmiLocDeleteGeofenceIndMsgT_v02", Some "qmiLocDeleteGeofenceIndMsgT_data_v02");
    ("qmiLocQueryGeofenceReqMsgT_v02", Some "qmiLocQueryGeofenceReqMsgT_data_v02");
    ("qmiLocQueryGeofenceIndMsgT_v02", Some "qmiLocQueryGeofenceIndMsgT_data_v02");
    ("qmiLocSetGeofenceEngineConfigReqMsgT_v02", Some "qmiLocSetGeofenceEngineConfigReqMsgT_data_v02");
    ("qmiLocSetGeofenceEngineConfigIndMsgT_v02", Some "qmiLocSetGeofenceEngineConfigIndMsgT_data_v02");
    ("qmiLocGetGeofenceEngineConfigReqMsgT_v02", Some "qmiLocGetGeofenceEngineConfigReqMsgT_data_v02");
    ("qmiLocGetGeofenceEngineConfigIndMsgT_v02", Some "qmiLocGetGeofenceEngineConfigIndMsgT_data_v02");
    ("qmiLocEditGeofenceReqMsgT_v02", Some "qmiLocEditGeofenceReqMsgT_data_v02");
    ("qmiLocEditGeofenceIndMsgT_v02", Some "qmiLocEditGeofenceIndMsgT_data_v02");
    ("qmiLocEventGetTimeZoneReqIndMsgT_v02", Some "qmiLocEventGetTimeZoneReqIndMsgT_data_v02");
    ("qmiLocInjectTimeZoneInfoReqMsgT_v02", Some "qmiLocInjectTimeZoneInfoReqMsgT_data_v02");
    ("qmiLocInjectTimeZoneInfoIndMsgT_v02", Some "qmiLocInjectTimeZoneInfoIndMsgT_data_v02");
    ("qmiLocGetBestAvailablePositionReqMsgT_v02", Some "qmiLocGetBestAvailablePositionReqMsgT_data_v02");
    ("qmiLocGetBestAvailablePositionIndMsgT_v02", Some "qmiLocGetBestAvailablePositionIndMsgT_data_v02");
    ("qmiLocInjectMotionDataReqMsgT_v02", Some "qmiLocInjectMotionDataReqMsgT_data_v02");
    ("qmiLocInjectMotionDataIndMsgT_v02", Some "qmiLocInjectMotionDataIndMsgT_data_v02");
    ("qmiLocGetNiGeofenceIdListReqMsgT_v02", Some "qmiLocGetNiGeofenceIdListReqMsgT_data_v02");
    ("qmiLocGetNiGeofenceIdListIndMsgT_v02", Some "qmiLocGetNiGeofenceIdListIndMsgT_data_v02");
    ("qmiLocInjectGSMCellInfoReqMsgT_v02", Some "qmiLocInjectGSMCellInfoReqMsgT_data_v02");
    ("qmiLocInjectGSMCellInfoIndMsgT_v02", Some "qmiLocInjectGSMCellInfoIndMsgT_data_v02");
    ("qmiLocInjectWCDMACellInfoReqMsgT_v02", Some "qmiLocInjectWCDMACellInfoReqMsgT_data_v02") ].

Definition message_table_2 : list (string * option string) := [
    ("qmiLocInjectWCDMACellInfoIndMsgT_v02", Some "qmiLocInjectWCDMACellInfoIndMsgT_data_v02");
    ("qmiLocInjectTDSCDMACellInfoReqMsgT_v02", Some "qmiLocInjectTDSCDMACellInfoReqMsgT_data_v02");
    ("qmiLocInjectTDSCDMACellInfoIndMsgT_v02", Some "qmiLocInjectTDSCDMACellInfoIndMsgT_data_v02");
    ("qmiLocInjectSubscriberIDReqMsgT_v02", Some "qmiLocInjectSubscriberIDReqMsgT_data_v02");
    ("qmiLocInjectSubscriberIDIndMsgT_v02", Some "qmiLocInjectSubscriberIDIndMsgT_data_v02");
    ("qmiLocInjectNetworkInitiatedMessageReqMsgT_v02", Some "qmiLocInjectNetworkInitiatedMessageReqMsgT_data_v02");
    ("qmiLocInjectNetworkInitiatedMessageIndMsgT_v02", Some "qmiLocInjectNetworkInitiatedMessageIndMsgT_data_v02");
    ("qmiLocWWANOutOfServiceNotificationReqMsgT_v02", None);
    ("qmiLocWWANOutOfServiceNotificationIndMsgT_v02", Some "qmiLocWWANOutOfServiceNotificationIndMsgT_data_v02");
    ("qmiLocPedometerReportReqMsgT_v02", Some "qmiLocPedometerReportReqMsgT_data_v02");
    ("qmiLocPedometerReportIndMsgT_v02", Some "qmiLocPedometerReportIndMsgT_data_v02");
    ("qmiLocGetBatchSizeReqMsgT_v02", Some "qmiLocGetBatchSizeReqMsgT_data_v02");
    ("qmiLocGetBatchSizeIndMsgT_v02", Some "qmiLocGetBatchSizeIndMsgT_data_v02");
    ("qmiLocStartBatchingReqMsgT_v02", Some "qmiLocStartBatchingReqMsgT_data_v02");
    ("qmiLocStartBatchingIndMsgT_v02", Some "qmiLocStartBatchingIndMsgT_data_v02");
    ("qmiLocEventBatchFullIndMsgT_v02", Some "qmiLocEventBatchFullIndMsgT_data_v02");
    ("qmiLocEventLiveBatchedPositionReportIndMsgT_v02", Some "qmiLocEventLiveBatchedPositionReportIndMsgT_data_v02");
    ("qmiLocReadFromBatchReqMsgT_v02", Some "qmiLocReadFromBatchReqMsgT_data_v02");
    ("qmiLocReadFromBatchIndMsgT_v02", Some "qmiLocReadFromBatchIndMsgT_data_v02");
    ("qmiLocStopBatchingReqMsgT_v02", Some "qmiLocStopBatchingReqMsgT_data_v02");
    ("qmiLocStopBatchingIndMsgT_v02", Some "qmiLocStopBatchingIndMsgT_data_v02");
    ("qmiLocReleaseBatchReqMsgT_v02", Some "qmiLocReleaseBatchReqMsgT_data_v02");
    ("qmiLocReleaseBatchIndMsgT_v02", Some "qmiLocReleaseBatchIndMsgT_data_v02");
    ("qmiLocEventInjectWifiApDataReqIndMsgT_v02", Some "qmiLocEventInjectWifiApDataReqIndMsgT_data_v02");
    ("qmiLocInjectWifiApDataReqMsgT_v02", Some "qmiLocInjectWifiApDataReqMsgT_data_v02");
    ("qmiLocInjectWifiApDataIndMsgT_v02", Some "qmiLocInjectWifiApDataIndMsgT_data_v02");
    ("qmiLocNotifyWifiAttachmentStatusReqMsgT_v02", Some "qmiLocNotifyWifiAttachmentStatusReqMsgT_data_v02");
    ("qmiLocNotifyWifiAttachmentStatusIndMsgT_v02", Some "qmiLocNotifyWifiAttachmentStatusIndMsgT_data_v02");
    ("qmiLocNotifyWifiEnabledStatusReqMsgT_v02", Some "qmiLocNotifyWifiEnabledStatusReqMsgT_data_v02");
    ("qmiLocNotifyWifiEnabledStatusIndMsgT_v02", Some "qmiLocNotifyWifiEnabledStatusIndMsgT_data_v02");
    ("qmiLocEventVehicleDataReadyIndMsgT_v02", Some "qmiLocEventVehicleDataReadyIndMsgT_data_v02");
    ("qmiLocInjectVehicleSensorDataReqMsgT_v02", Some "qmiLocInjectVehicleSensorDataReqMsgT_data_v02");
    ("qmiLocInjectVehicleSensorDataIndMsgT_v02", Some "qmiLocInjectVehicleSensorDataIndMsgT_data_v02");
    ("qmiLocGetAvailWwanPositionReqMsgT_v02", Some "qmiLocGetAvailWwanPositionReqMsgT_data_v02");
    ("qmiLocGetAvailWwanPositionIndMsgT_v02", Some "qmiLocGetAvailWwanPositionIndMsgT_data_v02");
    ("qmiLocSetPremiumServicesCfgReqMsgT_v02", Some "qmiLocSetPremiumServicesCfgReqMsgT_data_v02");
    ("qmiLocSetPremiumServicesCfgIndMsgT_v02", Some "qmiLocSetPremiumServicesCfgIndMsgT_data_v02");
    ("qmiLocSetXtraVersionCheckReqMsgT_v02", Some "qmiLocSetXtraVersionCheckReqMsgT_data_v02");
    ("qmiLocSetXtraVersionCheckIndMsgT_v02", Some "qmiLocSetXtraVersionCheckIndMsgT_data_v02");
    ("qmiLocSetGNSSConstRepConfigReqMsgT_v02", Some "qmiLocSetGNSSConstRepConfigReqMsgT_data_v02");
    ("qmiLocSetGNSSConstRepConfigIndMsgT_v02", Some "qmiLocSetGNSSConstRepConfigIndMsgT_data_v02");
    ("qmiLocEventGnssSvMeasInfoIndMsgT_v02", Some "qmiLocEventGnssSvMeasInfoIndMsgT_data_v02");
    ("qmiLocEventGnssSvPolyIndMsgT_v02", Some "qmiLocEventGnssSvPolyIndMsgT_data_v02");
    ("qmiLocAddGeofenceContextReqMsgT_v02", Some "qmiLocAddGeofenceContextReqMsgT_data_v02");
    ("qmiLocAddGeofenceContextIndMsgT_v02", Some "qmiLocAddGeofenceContextIndMsgT_data_v02");
    ("qmiLocSetGeofenceEngineContextReqMsgT_v02", Some "qmiLocSetGeofenceEngineContextReqMsgT_data_v02");
    ("qmiLocSetGeofenceEngineContextIndMsgT_v02", Some "qmiLocSetGeofenceEngineContextIndMsgT_data_v02");
    ("qmiLocDeleteGeofenceContextReqMsgT_v02", Some "qmiLocDeleteGeofenceContextReqMsgT_data_v02");
    ("qmiLocDeleteGeofenceContextIndMsgT_v02", Some "qmiLocDeleteGeofenceContextIndMsgT_data_v02");
    ("qmiLocInjectGtpClientDownloadedDataReqMsgT_v02", Some "qmiLocInjectGtpClientDownloadedDataReqMsgT_data_v02");
    ("qmiLocInjectGtpClientDownloadedDataIndMsgT_v02", Some "qmiLocInjectGtpClientDownloadedDataIndMsgT_data_v02");
    ("qmiLocGdtUploadBeginStatusReqMsgT_v02", Some "qmiLocGdtUploadBeginStatusReqMsgT_data_v02");
    ("qmiLocGdtUploadBeginStatusIndMsgT_v02", Some "qmiLocGdtUploadBeginStatusIndMsgT_data_v02");
    ("qmiLocGdtUploadEndReqMsgT_v02", Some "qmiLocGdtUploadEndReqMsgT_data_v02");
    ("qmiLocGdtUploadEndIndMsgT_v02", Some "qmiLocGdtUploadEndIndMsgT_data_v02");
    ("qmiLocGtpApStatusReqMsgT_v02", Some "qmiLocGtpApStatusReqMsgT_data_v02");
    ("qmiLocGtpApStatusIndMsgT_v02", Some "qmiLocGtpApStatusIndMsgT_data_v02");
    ("qmiLocGdtDownloadBeginStatusReqMsgT_v02", Some "qmiLocGdtDownloadBeginStatusReqMsgT_data_v02");
    ("qmiLocGdtDownloadBeginStatusIndMsgT_v02", Some "qmiLocGdtDownloadBeginStatusIndMsgT_data_v02");
    ("qmiLocGdtDownloadReadyStatusReqMsgT_v02", Some "qmiLocGdtDownloadReadyStatusReqMsgT_data_v02");
    ("qmiLocGdtDownloadReadyStatusIndMsgT_v02", Some "qmiLocGdtDownloadReadyStatusIndMsgT_data_v02");
    ("qmiLocGdtReceiveDoneStatusReqMsgT_v02", Some "qmiLocGdtReceiveDoneStatusReqMsgT_data_v02");
    ("qmiLocGdtReceiveDoneStatusIndMsgT_v02", Some "qmiLocGdtReceiveDoneStatusIndMsgT_data_v02");
    ("qmiLocGdtDownloadEndStatusReqMsgT_v02", Some "qmiLocGdtDownloadEndStatusReqMsgT_data_v02");
    ("qmiLocGdtDownloadEndStatusIndMsgT_v02", Some "qmiLocGdtDownloadEndStatusIndMsgT_data_v02");
    ("qmiLocStartDbtReqMsgT_v02", Some "qmiLocStartDbtReqMsgT_data_v02");
    ("qmiLocStartDbtIndMsgT_v02", Some "qmiLocStartDbtIndMsgT_data_v02");
    ("qmiLocStopDbtReqMsgT_v02", Some "qmiLocStopDbtReqMsgT_data_v02");
    ("qmiLocStopDbtIndMsgT_v02", Some "qmiLocStopDbtIndMsgT_data_v02");
    ("qmiLocEventDbtPositionReportIndMsgT_v02", Some "qmiLocEventDbtPositionReportIndMsgT_data_v02");
    ("qmiLocEventDbtSessionStatusIndMsgT_v02", Some "qmiLocEventDbtSessionStatusIndMsgT_data_v02");
    ("qmiLocSecureGetAvailablePositionReqMsgT_v02", Some "qmiLocSecureGetAvailablePositionReqMsgT_data_v02");
    ("qmiLocSecureGetAvailablePositionIndMsgT_v02", Some "qmiLocSecureGetAvailablePositionIndMsgT_data_v02");
    ("qmiLocInjectApCacheDataReqMsgT_v02", Some "qmiLocInjectApCacheDataReqMsgT_data_v02");
    ("qmiLocInjectApCacheDataIndMsgT_v02", Some "qmiLocInjectApCacheDataIndMsgT_data_v02");
    ("qmiLocInjectApDoNotCacheDataReqMsgT_v02", Some "qmiLocInjectApDoNotCacheDataReqMsgT_data_v02");
    ("qmiLocInjectApDoNotCacheDataIndMsgT_v02", Some "qmiLocInjectApDoNotCacheDataIndMsgT_data_v02");
    ("qmiLocEventBatchingStatusIndMsgT_v02", Some "qmiLocEventBatchingStatusIndMsgT_data_v02");
    ("qmiLocQueryAonConfigReqMsgT_v02", Some "qmiLocQueryAonConfigReqMsgT_data_v02");
    ("qmiLocQueryAonConfigIndMsgT_v02", Some "qmiLocQueryAonConfigIndMsgT_data_v02");
    ("qmiLocDeleteGNSSServiceDataReqMsgT_v02", Some "qmiLocDeleteGNSSServiceDataReqMsgT_data_v02");
    ("qmiLocDeleteGNSSServiceDataIndMsgT_v02", Some "qmiLocDeleteGNSSServiceDataIndMsgT_data_v02");
    ("qmiLocInjectXtraDataReqMsgT_v02", Some "qmiLocInjectXtraDataReqMsgT_data_v02");
    ("qmiLocInjectXtraDataIndMsgT_v02", Some "qmiLocInjectXtraDataIndMsgT_data_v02");
    ("qmiLocInjectXtraPcidReqMsgT_v02", Some "qmiLocInjectXtraPcidReqMsgT_data_v02");
    ("qmiLocInjectXtraPcidIndMsgT_v02", Some "qmiLocInjectXtraPcidIndMsgT_data_v02");
    ("qmiLocGetSupportedFeatureReqMsgT_v02", None);
    ("qmiLocGetSupportedFeatureIndMsgT_v02", Some "qmiLocGetSupportedFeatureIndMsgT_data_v02");
    ("qmiLocSetInternalStatusConfigReqMsgT_v02", Some "qmiLocSetInternalStatusConfigReqMsgT_data_v02");
    ("qmiLocSetInternalStatusConfigIndMsgT_v02", Some "qmiLocSetInternalStatusConfigIndMsgT_data_v02");
    ("qmiLocEventInternalStatusReportIndMsgT_v02", Some "qmiLocEventInternalStatusReportIndMsgT_data_v02");
    ("qmiLocEventInjectSrnApDataReqIndMsgT_v02", Some "qmiLocEventInjectSrnApDataReqIndMsgT_data_v02");
    ("qmiLocInjectSrnApDataReqMsgT_v02", Some "qmiLocInjectSrnApDataReqMsgT_data_v02");
    ("qmiLocInjectSrnApDataIndMsgT_v02", Some "qmiLocInjectSrnApDataIndMsgT_data_v02");
    ("qmiLocCrowdSourceManagerControlReqMsgT_v02", Some "qmiLocCrowdSourceManagerControlReqMsgT_data_v02");
    ("qmiLocCrowdSourceManagerControlIndMsgT_v02", Some "qmiLocCrowdSourceManagerControlIndMsgT_data_v02");
    ("qmiLocCrowdSourceManagerReadDataReqMsgT_v02", Some "qmiLocCrowdSourceManagerReadDataReqMsgT_data_v02");
    ("qmiLocQueryXtraInfoReqMsgT_v02", Some "qmiLocQueryXtraInfoReqMsgT_data_v02");
    ("qmiLocQueryXtraInfoIndMsgT_v02", Some "qmiLocQueryXtraInfoIndMsgT_data_v02");
    ("qmiLocStartOutdoorTripBatchingReqMsgT_v02", Some "qmiLocStartOutdoorTripBatchingReqMsgT_data_v02");
    ("qmiLocStartOutdoorTripBatchingIndMsgT_v02", Some "qmiLocStartOutdoorTripBatchingIndMsgT_data_v02");
    ("qmiLocQueryOTBAccumulatedDistanceReqMsgT_v02", None);
    ("qmiLocQueryOTBAccumulatedDistanceIndMsgT_v02", Some "qmiLocQueryOTBAccumulatedDistanceIndMsgT_data_v02");
    ("qmiLocEventFdclServiceReqIndMsgT_v02", Some "qmiLocEventFdclServiceReqIndMsgT_data_v02");
    ("qmiLocGetFdclBsListReqMsgT_v02", Some "qmiLocGetFdclBsListReqMsgT_data_v02");
    ("qmiLocGetFdclBsListIndMsgT_v02", Some "qmiLocGetFdclBsListIndMsgT_data_v02");
    ("qmiLocInjectFdclDataReqMsgT_v02", Some "qmiLocInjectFdclDataReqMsgT_data_v02");
    ("qmiLocInjectFdclDataIndMsgT_v02", Some "qmiLocInjectFdclDataIndMsgT_data_v02");
    ("qmiLocSetBlacklistSvReqMsgT_v02", Some "qmiLocSetBlacklistSvReqMsgT_data_v02");
    ("qmiLocGetBlacklistSvIndMsgT_v02", Some "qmiLocGetBlacklistSvIndMsgT_data_v02");
    ("qmiLocSetConstellationConfigReqMsgT_v02", Some "qmiLocSetConstellationConfigReqMsgT_data_v02");
    ("qmiLocEventDcReportIndMsgT_v02", Some "qmiLocEventDcReportIndMsgT_data_v02");
    ("qmiLocRegisterMasterClientReqMsgT_v02", Some "qmiLocRegisterMasterClientReqMsgT_data_v02");
    ("qmiLocRegisterMasterClientIndMsgT_v02", Some "qmiLocRegisterMasterClientIndMsgT_data_v02");
    ("qmiLocEventEngineLockStateIndMsgT_v02", Some "qmiLocEventEngineLockStateIndMsgT_data_v02");
    ("qmiLocStartListenPositionReqMsgT_v02", None);
    ("qmiLocStopListenPositionReqMsgT_v02", None);
    ("qmiLocSystemInfoReqMsgT_v02", Some "qmiLocSystemInfoReqMsgT_data_v02");
    ("qmiLocSystemInfoIndMsgT_v02", Some "qmiLocSystemInfoIndMsgT_data_v02");
    ("qmiLocGetConstellationConfigIndMsgT_v02", Some "qmiLocGetConstellationConfigIndMsgT_data_v02");
    ("qmiLocEnablePositionInjectionTestModeReqMsgT_v02", Some "qmiLocEnablePositionInjectionTestModeReqMsgT_data_v02");
    ("qmiLocEnablePositionInjectionTestModeIndMsgT_v02", Some "qmiLocEnablePositionInjectionTestModeIndMsgT_data_v02");
    ("qmiLocInjectTestPositionReqMsgT_v02", Some "qmiLocInjectTestPositionReqMsgT_data_v02");
    ("qmiLocInjectTestPositionIndMsgT_v02", Some "qmiLocInjectTestPositionIndMsgT_data_v02");
    ("qmiLocEventBsObsDataServiceReqIndMsgT_v02", Some "qmiLocEventBsObsDataServiceReqIndMsgT_data_v02");
    ("qmiLocGetBsObsDataReqMsgT_v02", Some "qmiLocGetBsObsDataReqMsgT_data_v02");
    ("qmiLocGetBsObsDataIndMsgT_v02", Some "qmiLocGetBsObsDataIndMsgT_data_v02");
    ("qmiLocGpsEphemerisReportIndMsgT_v02", Some "qmiLocGpsEphemerisReportIndMsgT_data_v02");
    ("qmiLocGloEphemerisReportIndMsgT_v02", Some "qmiLocGloEphemerisReportIndMsgT_data_v02");
    ("qmiLocBdsEphemerisReportIndMsgT_v02", Some "qmiLocBdsEphemerisReportIndMsgT_data_v02");
    ("qmiLocGalEphemerisReportIndMsgT_v02", Some "qmiLocGalEphemerisReportIndMsgT_data_v02");
    ("qmiLocQzssEphemerisReportIndMsgT_v02", Some "qmiLocQzssEphemerisReportIndMsgT_data_v02");
    ("qmiLocSetConstrainedTuncModeReqMsgT_v02", Some "qmiLocSetConstrainedTuncModeReqMsgT_data_v02");
    ("qmiLocSetConstrainedTuncModeIndMsgT_v02", Some "qmiLocSetConstrainedTuncModeIndMsgT_data_v02");
    ("qmiLocEnablePositionAssistedClockEstReqMsgT_v02", Some "qmiLocEnablePositionAssistedClockEstReqMsgT_data_v02");
    ("qmiLocEnablePositionAssistedClockEstIndMsgT_v02", Some "qmiLocEnablePositionAssistedClockEstIndMsgT_data_v02");
    ("qmiLocQueryGNSSEnergyConsumedReqMsgT_v02", None);
    ("qmiLocQueryGNSSEnergyConsumedIndMsgT_v02", Some "qmiLocQueryGNSSEnergyConsumedIndMsgT_data_v02");
    ("qmiLocEventReportIndMsgT_v02", Some "qmiLocEventReportIndMsgT_data_v02");
    ("qmiLocGetBandMeasurementMetricsIndMsgT_v02", Some "qmiLocGetBandMeasurementMetricsIndMsgT_data_v02");
    ("qmiLocLocationRequestNotificationIndMsgT_v02", Some "qmiLocLocationRequestNotificationIndMsgT_data_v02");
    ("qmiLocInjectPlatformPowerStateReqMsgT_v02", Some "qmiLocInjectPlatformPowerStateReqMsgT_data_v02");
    ("qmiLocInjectPlatformPowerStateIndMsgT_v02", Some "qmiLocInjectPlatformPowerStateIndMsgT_data_v02");
    ("qmiLocSetRobustLocationReqMsgT_v02", Some "qmiLocSetRobustLocationReqMsgT_data_v02");
    ("qmiLocGetRobustLocationConfigIndMsgT_v02", Some "qmiLocGetRobustLocationConfigIndMsgT_data_v02");
    ("qmiLocEventInjectEnvAidingReqMsgT_v02", Some "qmiLocEventInjectEnvAidingReqMsgT_data_v02");
    ("qmiLocSetMinGpsWeekNumberReqMsgT_v02", Some "qmiLocSetMinGpsWeekNumberReqMsgT_data_v02");
    ("qmiLocGetMinGpsWeekNumberIndMsgT_v02", Some "qmiLocGetMinGpsWeekNumberIndMsgT_data_v02");
    ("qmiLocSapInsParamsIndMsgT_v02", Some "qmiLocSapInsParamsIndMsgT_data_v02");
    ("qmiLocEventQueryXtraInfoReqIndMsgT_v02", None) ].

Definition message_table_3 : list (string * option string) := [
    ("qmiLocSetParameterReqMsgT_v02", Some "qmiLocSetParameterReqMsgT_data_v02");
    ("qmiLocGetParameterReqMsgT_v02", Some "qmiLocGetParameterReqMsgT_data_v02");
    ("qmiLocGetParameterIndMsgT_v02", Some "qmiLocGetParameterIndMsgT_data_v02");
    ("qmiLocSetStatisticsConfigReqMsgT_v02", Some "qmiLocSetStatisticsConfigReqMsgT_data_v02");
    ("qmiLocGetStatisticsConfigIndMsgT_v02", Some "qmiLocGetStatisticsConfigIndMsgT_data_v02");
    ("qmiLocGnssStatisticsReportIndMsgT_v02", Some "qmiLocGnssStatisticsReportIndMsgT_data_v02");
    ("qmiLocSetGnssPdrModeReqMsgT_v02", Some "qmiLocSetGnssPdrModeReqMsgT_data_v02");
    ("qmiLocGetGnssPdrModeIndMsgT_v02", Some "qmiLocGetGnssPdrModeIndMsgT_data_v02");
    ("qmiLocGetMagCalStatePdrIndMsgT_v02", Some "qmiLocGetMagCalStatePdrIndMsgT_data_v02");
    ("qmiLocSetMultibandConfigReqMsgT_v02", Some "qmiLocSetMultibandConfigReqMsgT_data_v02");
    ("qmiLocGetMultibandConfigIndMsgT_v02", Some "qmiLocGetMultibandConfigIndMsgT_data_v02");
    ("qmiLocLatencyInformationIndMsgT_v02", Some "qmiLocLatencyInformationIndMsgT_data_v02") ].

Definition loc_message_table_v02 : list (string * option string) :=
  message_table_1 ++ message_table_2 ++ message_table_3.

Definition loc_service_command_messages_v02 : list (string * (Z * Z) * Z) := [
    ("QMI_LOC_GET_SUPPORTED_MSGS_REQ_V02", (1, 0), 0);
    ("QMI_LOC_GET_SUPPORTED_FIELDS_REQ_V02", (1, 2), 5);
    ("QMI_LOC_INFORM_CLIENT_REVISION_REQ_V02", (0, 3), 7);
    ("QMI_LOC_REG_EVENTS_REQ_V02", (0, 4), 29);
    ("QMI_LOC_START_REQ_V02", (0, 5), 150);
    ("QMI_LOC_STOP_REQ_V02", (0, 6), 4);
    ("QMI_LOC_GET_SERVICE_REVISION_REQ_V02", (0, 34), 0);
    ("QMI_LOC_GET_FIX_CRITERIA_REQ_V02", (0, 36), 0);
    ("QMI_LOC_NI_USER_RESPONSE_REQ_V02", (0, 38), 1345);
    ("QMI_LOC_INJECT_PREDICTED_ORBITS_DATA_REQ_V02", (0, 40), 1053);
    ("QMI_LOC_GET_PREDICTED_ORBITS_DATA_SOURCE_REQ_V02", (0, 42), 0);
    ("QMI_LOC_GET_PREDICTED_ORBITS_DATA_VALIDITY_REQ_V02", (0, 44), 0);
    ("QMI_LOC_INJECT_UTC_TIME_REQ_V02", (0, 46), 25);
    ("QMI_LOC_INJECT_POSITION_REQ_V02", (0, 48), 540);
    ("QMI_LOC_SET_ENGINE_LOCK_REQ_V02", (0, 50), 25);
    ("QMI_LOC_GET_ENGINE_LOCK_REQ_V02", (0, 52), 7);
    ("QMI_LOC_SET_SBAS_CONFIG_REQ_V02", (0, 54), 8);
    ("QMI_LOC_GET_SBAS_CONFIG_REQ_V02", (0, 56), 0);
    ("QMI_LOC_SET_NMEA_TYPES_REQ_V02", (0, 58), 7);
    ("QMI_LOC_GET_NMEA_TYPES_REQ_V02", (0, 60), 0);
    ("QMI_LOC_SET_LOW_POWER_MODE_REQ_V02", (0, 62), 4);
    ("QMI_LOC_GET_LOW_POWER_MODE_REQ_V02", (0, 64), 0);
    ("QMI_LOC_SET_SERVER_REQ_V02", (0, 66), 297);
    ("QMI_LOC_GET_SERVER_REQ_V02", (0, 68), 11);
    ("QMI_LOC_DELETE_ASSIST_DATA_REQ_V02", (0, 70), 1160);
    ("QMI_LOC_SET_XTRA_T_SESSION_CONTROL_REQ_V02", (0, 72), 4);
    ("QMI_LOC_GET_XTRA_T_SESSION_CONTROL_REQ_V02", (0, 74), 0);
    ("QMI_LOC_INJECT_WIFI_POSITION_REQ_V02", (0, 76), 2353);
    ("QMI_LOC_NOTIFY_WIFI_STATUS_REQ_V02", (0, 78), 7);
    ("QMI_LOC_GET_REGISTERED_EVENTS_REQ_V02", (0, 80), 0);
    ("QMI_LOC_SET_OPERATION_MODE_REQ_V02", (0, 82), 14);
    ("QMI_LOC_GET_OPERATION_MODE_REQ_V02", (0, 84), 0);
    ("QMI_LOC_SET_SPI_STATUS_REQ_V02", (0, 86), 8);
    ("QMI_LOC_INJECT_SENSOR_DATA_REQ_V02", (0, 88), 2779);
    ("QMI_LOC_INJECT_TIME_SYNC_DATA_REQ_V02", (0, 90), 21);
    ("QMI_LOC_SET_CRADLE_MOUNT_CONFIG_REQ_V02", (0, 94), 11);
    ("QMI_LOC_GET_CRADLE_MOUNT_CONFIG_REQ_V02", (0, 92), 0);
    ("QMI_LOC_SET_EXTERNAL_POWER_CONFIG_REQ_V02", (0, 98), 14);
    ("QMI_LOC_GET_EXTERNAL_POWER_CONFIG_REQ_V02", (0, 96), 0);
    ("QMI_LOC_INFORM_LOCATION_SERVER_CONN_STATUS_REQ_V02", (0, 100), 140);
    ("QMI_LOC_SET_PROTOCOL_CONFIG_PARAMETERS_REQ_V02", (0, 102), 86);
    ("QMI_LOC_GET_PROTOCOL_CONFIG_PARAMETERS_REQ_V02", (0, 104), 11);
    ("QMI_LOC_SET_SENSOR_CONTROL_CONFIG_REQ_V02", (0, 106), 14);
    ("QMI_LOC_GET_SENSOR_CONTROL_CONFIG_REQ_V02", (0, 108), 0);
    ("QMI_LOC_SET_SENSOR_PROPERTIES_REQ_V02", (0, 110), 88);
    ("QMI_LOC_GET_SENSOR_PROPERTIES_REQ_V02", (0, 112), 7);
    ("QMI_LOC_SET_SENSOR_PERFORMANCE_CONTROL_CONFIGURATION_REQ_V02", (0, 114), 42);
    ("QMI_LOC_GET_SENSOR_PERFORMANCE_CONTROL_CONFIGURATION_REQ_V02", (0, 116), 0);
    ("QMI_LOC_INJECT_SUPL_CERTIFICATE_REQ_V02", (0, 118), 2009);
    ("QMI_LOC_DELETE_SUPL_CERTIFICATE_REQ_V02", (0, 120), 4);
    ("QMI_LOC_SET_POSITION_ENGINE_CONFIG_PARAMETERS_REQ_V02", (0, 122), 16);
    ("QMI_LOC_GET_POSITION_ENGINE_CONFIG_PARAMETERS_REQ_V02", (0, 124), 7);
    ("QMI_LOC_ADD_CIRCULAR_GEOFENCE_REQ_V02", (0, 126), 70);
    ("QMI_LOC_DELETE_GEOFENCE_REQ_V02", (0, 128), 14);
    ("QMI_LOC_QUERY_GEOFENCE_REQ_V02", (0, 130), 14);
    ("QMI_LOC_EDIT_GEOFENCE_REQ_V02", (0, 136), 32);
    ("QMI_LOC_GET_BEST_AVAILABLE_POSITION_REQ_V02", (0, 141), 14);
    ("QMI_LOC_INJECT_MOTION_DATA_REQ_V02", (0, 143), 19);
    ("QMI_LOC_GET_NI_GEOFENCE_ID_LIST_REQ_V02", (0, 145), 7);
    ("QMI_LOC_INJECT_GSM_CELL_INFO_REQ_V02", (0, 147), 30);
    ("QMI_LOC_INJECT_NETWORK_INITIATED_MESSAGE_REQ_V02", (0, 155), 1036);
    ("QMI_LOC_WWAN_OUT_OF_SERVICE_NOTIFICATION_REQ_V02", (0, 157), 0);
    ("QMI_LOC_PEDOMETER_REPORT_REQ_V02", (0, 159), 46);
    ("QMI_LOC_INJECT_WCDMA_CELL_INFO_REQ_V02", (0, 149), 36);
    ("QMI_LOC_INJECT_TDSCDMA_CELL_INFO_REQ_V02", (0, 151), 33);
    ("QMI_LOC_INJECT_SUBSCRIBER_ID_REQ_V02", (0, 153), 22);
    ("QMI_LOC_SET_GEOFENCE_ENGINE_CONFIG_REQ_V02", (0, 132), 224);
    ("QMI_LOC_GET_GEOFENCE_ENGINE_CONFIG_REQ_V02", (0, 134), 7);
    ("QMI_LOC_GET_BATCH_SIZE_REQ_V02", (0, 161), 21);
    ("QMI_LOC_START_BATCHING_REQ_V02", (0, 163), 39);
    ("QMI_LOC_READ_FROM_BATCH_REQ_V02", (0, 167), 21);
    ("QMI_LOC_STOP_BATCHING_REQ_V02", (0, 169), 21);
    ("QMI_LOC_RELEASE_BATCH_REQ_V02", (0, 171), 14);
    ("QMI_LOC_INJECT_WIFI_AP_DATA_REQ_V02", (0, 174), 5200);
    ("QMI_LOC_NOTIFY_WIFI_ATTACHMENT_STATUS_REQ_V02", (0, 176), 51);
    ("QMI_LOC_NOTIFY_WIFI_ENABLED_STATUS_REQ_V02", (0, 178), 7);
    ("QMI_LOC_INJECT_VEHICLE_SENSOR_DATA_REQ_V02", (0, 181), 3360);
    ("QMI_LOC_GET_AVAILABLE_WWAN_POSITION_REQ_V02", (0, 183), 7);
    ("QMI_LOC_SET_PREMIUM_SERVICES_CONFIG_REQ_V02", (0, 185), 14);
    ("QMI_LOC_SET_XTRA_VERSION_CHECK_REQ_V02", (0, 187), 7);
    ("QMI_LOC_SET_GNSS_CONSTELL_REPORT_CONFIG_V02", (0, 189), 34);
    ("QMI_LOC_ADD_GEOFENCE_CONTEXT_REQ_V02", (0, 193), 2517);
    ("QMI_LOC_SET_GEOFENCE_ENGINE_CONTEXT_REQ_V02", (0, 195), 25);
    ("QMI_LOC_DELETE_GEOFENCE_CONTEXT_REQ_V02", (0, 197), 21);
    ("QMI_LOC_INJECT_GTP_CLIENT_DOWNLOADED_DATA_REQ_V02", (0, 199), 517);
    ("QMI_LOC_GDT_UPLOAD_BEGIN_STATUS_REQ_V02", (0, 201), 21);
    ("QMI_LOC_GDT_UPLOAD_END_REQ_V02", (0, 203), 21);
    ("QMI_LOC_START_DBT_REQ_V02", (0, 215), 36);
    ("QMI_LOC_STOP_DBT_REQ_V02", (0, 217), 4);
    ("QMI_LOC_SECURE_GET_AVAILABLE_POSITION_REQ_V02", (0, 221), 268);
    ("QMI_LOC_INJECT_TIME_ZONE_INFO_REQ_V02", (0, 139), 30);
    ("QMI_LOC_INJECT_APCACHE_DATA_REQ_V02", (0, 223), 2180);
    ("QMI_LOC_INJECT_APDONOTCACHE_DATA_REQ_V02", (0, 225), 656);
    ("QMI_LOC_QUERY_AON_CONFIG_REQ_V02", (0, 228), 7);
    ("QMI_LOC_GTP_AP_STATUS_REQ_V02", (0, 205), 540);
    ("QMI_LOC_GDT_DOWNLOAD_BEGIN_STATUS_REQ_V02", (0, 207), 294);
    ("QMI_LOC_GDT_DOWNLOAD_READY_STATUS_REQ_V02", (0, 209), 280);
    ("QMI_LOC_GDT_RECEIVE_DONE_STATUS_REQ_V02", (0, 211), 21);
    ("QMI_LOC_GDT_DOWNLOAD_END_STATUS_REQ_V02", (0, 213), 21);
    ("QMI_LOC_DELETE_GNSS_SERVICE_DATA_REQ_V02", (0, 230), 47);
    ("QMI_LOC_INJECT_XTRA_DATA_REQ_V02", (0, 232), 1053);
    ("QMI_LOC_INJECT_XTRA_PCID_REQ_V02", (0, 234), 11);
    ("QMI_LOC_GET_SUPPORTED_FEATURE_REQ_V02", (0, 236), 0);
    ("QMI_LOC_SET_INTERNAL_STATUS_CONFIG_REQ_V02", (0, 238), 4);
    ("QMI_LOC_INJECT_SRN_AP_DATA_REQ_V02", (0, 242), 1448);
    ("QMI_LOC_CROWDSOURCE_MANAGER_CONTROL_REQ_V02", (0, 244), 545);
    ("QMI_LOC_CROWDSOURCE_MANAGER_READ_DATA_REQ_V02", (0, 246), 7);
    ("QMI_LOC_QUERY_XTRA_INFO_REQ_V02", (0, 247), 12);
    ("QMI_LOC_START_OUTDOOR_TRIP_BATCHING_REQ_V02", (0, 249), 25);
    ("QMI_LOC_QUERY_OTB_ACCUMULATED_DISTANCE_REQ_V02", (0, 251), 0);
    ("QMI_LOC_GET_FDCL_BS_LIST_REQ_V02", (0, 254), 23);
    ("QMI_LOC_INJECT_FDCL_DATA_REQ_V02", (0, 256), 2273);
    ("QMI_LOC_SET_BLACKLIST_SV_REQ_V02", (0, 258), 132);
    ("QMI_LOC_GET_BLACKLIST_SV_REQ_V02", (0, 0), 0);
    ("QMI_LOC_SET_CONSTELLATION_CONTROL_REQ_V02", (0, 260), 26);
    ("QMI_LOC_REGISTER_MASTER_CLIENT_REQ_V02", (0, 262), 7);
    ("QMI_LOC_START_LISTEN_POSITION_REQ_V02", (0, 265), 0);
    ("QMI_LOC_STOP_LISTEN_POSITION_REQ_V02", (0, 266), 0);
    ("QMI_LOC_SYSTEM_INFO_REQ_V02", (0, 267), 7);
    ("QMI_LOC_GET_CONSTELLATION_CONTROL_REQ_V02", (0, 0), 0);
    ("QMI_LOC_ENABLE_POSITION_INJECTION_TEST_MODE_REQ_V02", (0, 270), 4);
    ("QMI_LOC_INJECT_TEST_POSITION_REQ_V02", (0, 272), 47);
    ("QMI_LOC_GET_BS_OBS_DATA_REQ_V02", (0, 275), 16);
    ("QMI_LOC_SET_CONSTRAINED_TUNC_MODE_REQ_V02", (0, 282), 18);
    ("QMI_LOC_ENABLE_POSITION_ASSISTED_CLOCK_EST_REQ_V02", (0, 284), 4);
    ("QMI_LOC_QUERY_GNSS_ENERGY_CONSUMED_REQ_V02", (0, 286), 0);
    ("QMI_LOC_INJECT_PLATFORM_POWER_STATE_REQ_V02", (0, 291), 7);
    ("QMI_LOC_SET_ROBUST_LOCATION_CONFIG_REQ_V02", (0, 293), 8);
    ("QMI_LOC_GET_ROBUST_LOCATION_CONFIG_REQ_V02", (0, 0), 0);
    ("QMI_LOC_INJECT_ENV_AIDING_REQ_V02", (0, 295), 3816);
    ("QMI_LOC_SET_MIN_GPS_WEEK_NUMBER_REQ_V02", (0, 296), 5);
    ("QMI_LOC_GET_MIN_GPS_WEEK_NUMBER_REQ_V02", (0, 0), 0);
    ("QMI_LOC_SET_PARAMETER_REQ_V02", (0, 300), 11);
    ("QMI_LOC_GET_PARAMETER_REQ_V02", (0, 301), 7);
    ("QMI_LOC_SET_STATISTICS_CONFIG_REQ_V02", (0, 303), 11);
    ("QMI_LOC_GET_STATISTICS_CONFIG_REQ_V02", (0, 0), 0);
    ("QMI_LOC_SET_GNSS_PDR_MODE_REQ_V02", (0, 306), 7);
    ("QMI_LOC_GET_GNSS_PDR_MODE_REQ_V02", (0, 0), 0);
    ("QMI_LOC_GET_MAG_CAL_STATE_PDR_REQ_V02", (0, 0), 0);
    ("QMI_LOC_SET_MULTIBAND_CONFIG_REQ_V02", (0, 309), 11);
    ("QMI_LOC_GET_MULTIBAND_CONFIG_REQ_V02", (0, 0), 0) ].

Definition loc_service_response_messages_v02 : list (string * (Z * Z) * Z) := [
    ("QMI_LOC_GET_SUPPORTED_MSGS_RESP_V02", (1, 1), 8204);
    ("QMI_LOC_GET_SUPPORTED_FIELDS_RESP_V02", (1, 3), 115);
    ("QMI_LOC_INFORM_CLIENT_REVISION_RESP_V02", (0, 1), 7);
    ("QMI_LOC_REG_EVENTS_RESP_V02", (0, 1), 7);
    ("QMI_LOC_START_RESP_V02", (0, 1), 7);
    ("QMI_LOC_STOP_RESP_V02", (0, 1), 7);
    ("QMI_LOC_GET_SERVICE_REVISION_RESP_V02", (0, 1), 7);
    ("QMI_LOC_GET_FIX_CRITERIA_RESP_V02", (0, 1), 7);
    ("QMI_LOC_NI_USER_RESPONSE_RESP_V02", (0, 1), 7);
    ("QMI_LOC_INJECT_PREDICTED_ORBITS_DATA_RESP_V02", (0, 1), 7);
    ("QMI_LOC_GET_PREDICTED_ORBITS_DATA_SOURCE_RESP_V02", (0, 1), 7);
    ("QMI_LOC_GET_PREDICTED_ORBITS_DATA_VALIDITY_RESP_V02", (0, 1), 7);
    ("QMI_LOC_INJECT_UTC_TIME_RESP_V02", (0, 1), 7);
    ("QMI_LOC_INJECT_POSITION_RESP_V02", (0, 1), 7);
    ("QMI_LOC_SET_ENGINE_LOCK_RESP_V02", (0, 1), 7);
    ("QMI_LOC_GET_ENGINE_LOCK_RESP_V02", (0, 1), 7);
    ("QMI_LOC_SET_SBAS_CONFIG_RESP_V02", (0, 1), 7);
    ("QMI_LOC_GET_SBAS_CONFIG_RESP_V02", (0, 1), 7);
    ("QMI_LOC_SET_NMEA_TYPES_RESP_V02", (0, 1), 7);
    ("QMI_LOC_GET_NMEA_TYPES_RESP_V02", (0, 1), 7);
    ("QMI_LOC_SET_LOW_POWER_MODE_RESP_V02", (0, 1), 7);
    ("QMI_LOC_GET_LOW_POWER_MODE_RESP_V02", (0, 1), 7);
    ("QMI_LOC_SET_SERVER_RESP_V02", (0, 1), 7);
    ("QMI_LOC_GET_SERVER_RESP_V02", (0, 1), 7);
    ("QMI_LOC_DELETE_ASSIST_DATA_RESP_V02", (0, 1), 7);
    ("QMI_LOC_SET_XTRA_T_SESSION_CONTROL_RESP_V02", (0, 1), 7);
    ("QMI_LOC_GET_XTRA_T_SESSION_CONTROL_RESP_V02", (0, 1), 7);
    ("QMI_LOC_INJECT_WIFI_POSITION_RESP_V02", (0, 1), 7);
    ("QMI_LOC_NOTIFY_WIFI_STATUS_RESP_V02", (0, 1), 7);
    ("QMI_LOC_GET_REGISTERED_EVENTS_RESP_V02", (0, 1), 7);
    ("QMI_LOC_SET_OPERATION_MODE_RESP_V02", (0, 1), 7);
    ("QMI_LOC_GET_OPERATION_MODE_RESP_V02", (0, 1), 7);
    ("QMI_LOC_SET_SPI_STATUS_RESP_V02", (0, 1), 7);
    ("QMI_LOC_INJECT_SENSOR_DATA_RESP_V02", (0, 1), 7);
    ("QMI_LOC_INJECT_TIME_SYNC_DATA_RESP_V02", (0, 1), 7);
    ("QMI_LOC_SET_CRADLE_MOUNT_CONFIG_RESP_V02", (0, 1), 7);
    ("QMI_LOC_GET_CRADLE_MOUNT_CONFIG_RESP_V02", (0, 1), 7);
    ("QMI_LOC_SET_EXTERNAL_POWER_CONFIG_RESP_V02", (0, 1), 7);
    ("QMI_LOC_GET_EXTERNAL_POWER_CONFIG_RESP_V02", (0, 1), 7);
    ("QMI_LOC_INFORM_LOCATION_SERVER_CONN_STATUS_RESP_V02", (0, 1), 7);
    ("QMI_LOC_SET_PROTOCOL_CONFIG_PARAMETERS_RESP_V02", (0, 1), 7);
    ("QMI_LOC_GET_PROTOCOL_CONFIG_PARAMETERS_RESP_V02", (0, 1), 7);
    ("QMI_LOC_SET_SENSOR_CONTROL_CONFIG_RESP_V02", (0, 1), 7);
    ("QMI_LOC_GET_SENSOR_CONTROL_CONFIG_RESP_V02", (0, 1), 7);
    ("QMI_LOC_SET_SENSOR_PROPERTIES_RESP_V02", (0, 1), 7);
    ("QMI_LOC_GET_SENSOR_PROPERTIES_RESP_V02", (0, 1), 7);
    ("QMI_LOC_SET_SENSOR_PERFORMANCE_CONTROL_CONFIGURATION_RESP_V02", (0, 1), 7);
    ("QMI_LOC_GET_SENSOR_PERFORMANCE_CONTROL_CONFIGURATION_RESP_V02", (0, 1), 7);
    ("QMI_LOC_INJECT_SUPL_CERTIFICATE_RESP_V02", (0, 1), 7);
    ("QMI_LOC_DELETE_SUPL_CERTIFICATE_RESP_V02", (0, 1), 7);
    ("QMI_LOC_SET_POSITION_ENGINE_CONFIG_PARAMETERS_RESP_V02", (0, 1), 7);
    ("QMI_LOC_GET_POSITION_ENGINE_CONFIG_PARAMETERS_RESP_V02", (0, 1), 7);
    ("QMI_LOC_ADD_CIRCULAR_GEOFENCE_RESP_V02", (0, 1), 7);
    ("QMI_LOC_DELETE_GEOFENCE_RESP_V02", (0, 1), 7);
    ("QMI_LOC_QUERY_GEOFENCE_RESP_V02", (0, 1), 7);
    ("QMI_LOC_EDIT_GEOFENCE_RESP_V02", (0, 1), 7);
    ("QMI_LOC_GET_BEST_AVAILABLE_POSITION_RESP_V02", (0, 1), 7);
    ("QMI_LOC_INJECT_MOTION_DATA_RESP_V02", (0, 1), 7);
    ("QMI_LOC_GET_NI_GEOFENCE_ID_LIST_RESP_V02", (0, 1), 7);
    ("QMI_LOC_INJECT_GSM_CELL_INFO_RESP_V02", (0, 1), 7);
    ("QMI_LOC_INJECT_NETWORK_INITIATED_MESSAGE_RESP_V02", (0, 1), 7);
    ("QMI_LOC_WWAN_OUT_OF_SERVICE_NOTIFICATION_RESP_V02", (0, 1), 7);
    ("QMI_LOC_PEDOMETER_REPORT_RESP_V02", (0, 1), 7);
    ("QMI_LOC_INJECT_WCDMA_CELL_INFO_RESP_V02", (0, 1), 7);
    ("QMI_LOC_INJECT_TDSCDMA_CELL_INFO_RESP_V02", (0, 1), 7);
    ("QMI_LOC_INJECT_SUBSCRIBER_ID_RESP_V02", (0, 1), 7);
    ("QMI_LOC_SET_GEOFENCE_ENGINE_CONFIG_RESP_V02", (0, 1), 7);
    ("QMI_LOC_GET_GEOFENCE_ENGINE_CONFIG_RESP_V02", (0, 1), 7);
    ("QMI_LOC_GET_BATCH_SIZE_RESP_V02", (0, 1), 7);
    ("QMI_LOC_START_BATCHING_RESP_V02", (0, 1), 7);
    ("QMI_LOC_READ_FROM_BATCH_RESP_V02", (0, 1), 7);
    ("QMI_LOC_STOP_BATCHING_RESP_V02", (0, 1), 7);
    ("QMI_LOC_RELEASE_BATCH_RESP_V02", (0, 1), 7);
    ("QMI_LOC_INJECT_WIFI_AP_DATA_RESP_V02", (0, 1), 7);
    ("QMI_LOC_NOTIFY_WIFI_ATTACHMENT_STATUS_RESP_V02", (0, 1), 7);
    ("QMI_LOC_NOTIFY_WIFI_ENABLED_STATUS_RESP_V02", (0, 1), 7);
    ("QMI_LOC_INJECT_VEHICLE_SENSOR_DATA_RESP_V02", (0, 1), 7);
    ("QMI_LOC_GET_AVAILABLE_WWAN_POSITION_RESP_V02", (0, 1), 7);
    ("QMI_LOC_SET_PREMIUM_SERVICES_CONFIG_RESP_V02", (0, 1), 7);
    ("QMI_LOC_SET_XTRA_VERSION_CHECK_RESP_V02", (0, 1), 7);
    ("QMI_LOC_SET_GNSS_CONSTELL_REPORT_CONFIG_RESP_V02", (0, 1), 7);
    ("QMI_LOC_ADD_GEOFENCE_CONTEXT_RESP_V02", (0, 1), 7);
    ("QMI_LOC_SET_GEOFENCE_ENGINE_CONTEXT_RESP_V02", (0, 1), 7);
    ("QMI_LOC_DELETE_GEOFENCE_CONTEXT_RESP_V02", (0, 1), 7);
    ("QMI_LOC_INJECT_GTP_CLIENT_DOWNLOADED_DATA_RESP_V02", (0, 1), 7);
    ("QMI_LOC_GDT_UPLOAD_BEGIN_STATUS_RESP_V02", (0, 1), 7);
    ("QMI_LOC_GDT_UPLOAD_END_RESP_V02", (0, 1), 7);
    ("QMI_LOC_START_DBT_RESP_V02", (0, 1), 7);
    ("QMI_LOC_STOP_DBT_RESP_V02", (0, 1), 7);
    ("QMI_LOC_SECURE_GET_AVAILABLE_POSITION_RESP_V02", (0, 1), 7);
    ("QMI_LOC_INJECT_TIME_ZONE_INFO_RESP_V02", (0, 1), 7);
    ("QMI_LOC_INJECT_APCACHE_DATA_RESP_V02", (0, 1), 7);
    ("QMI_LOC_INJECT_APDONOTCACHE_DATA_RESP_V02", (0, 1), 7);
    ("QMI_LOC_QUERY_AON_CONFIG_RESP_V02", (0, 1), 7);
    ("QMI_LOC_GTP_AP_STATUS_RESP_V02", (0, 1), 7);
    ("QMI_LOC_GDT_DOWNLOAD_BEGIN_STATUS_RESP_V02", (0, 1), 7);
    ("QMI_LOC_GDT_DOWNLOAD_READY_STATUS_RESP_V02", (0, 1), 7);
    ("QMI_LOC_GDT_RECEIVE_DONE_STATUS_RESP_V02", (0, 1), 7);
    ("QMI_LOC_GDT_DOWNLOAD_END_STATUS_RESP_V02", (0, 1), 7);
    ("QMI_LOC_DELETE_GNSS_SERVICE_DATA_RESP_V02", (0, 1), 7);
    ("QMI_LOC_INJECT_XTRA_DATA_RESP_V02", (0, 1), 7);
    ("QMI_LOC_INJECT_XTRA_PCID_RESP_V02", (0, 1), 7);
    ("QMI_LOC_GET_SUPPORTED_FEATURE_RESP_V02", (0, 1), 7);
    ("QMI_LOC_SET_INTERNAL_STATUS_CONFIG_RESP_V02", (0, 1), 7);
    ("QMI_LOC_INJECT_SRN_AP_DATA_RESP_V02", (0, 1), 7);
    ("QMI_LOC_CROWDSOURCE_MANAGER_CONTROL_RESP_V02", (0, 1), 7);
    ("QMI_LOC_CROWDSOURCE_MANAGER_READ_DATA_RESP_V02", (0, 1), 7);
    ("QMI_LOC_QUERY_XTRA_INFO_RESP_V02", (0, 1), 7);
    ("QMI_LOC_START_OUTDOOR_TRIP_BATCHING_RESP_V02", (0, 1), 7);
    ("QMI_LOC_QUERY_OTB_ACCUMULATED_DISTANCE_RESP_V02", (0, 1), 7);
    ("QMI_LOC_GET_FDCL_BS_LIST_RESP_V02", (0, 1), 7);
    ("QMI_LOC_INJECT_FDCL_DATA_RESP_V02", (0, 1), 7);
    ("QMI_LOC_SET_BLACKLIST_SV_RESP_V02", (0, 1), 7);
    ("QMI_LOC_GET_BLACKLIST_SV_RESP_V02", (0, 1), 7);
    ("QMI_LOC_SET_CONSTELLATION_CONTROL_RESP_V02", (0, 1), 7);
    ("QMI_LOC_REGISTER_MASTER_CLIENT_RESP_V02", (0, 1), 7);
    ("QMI_LOC_START_LISTEN_POSITION_RESP_V02", (0, 1), 7);
    ("QMI_LOC_STOP_LISTEN_POSITION_RESP_V02", (0, 1), 7);
    ("QMI_LOC_SYSTEM_INFO_RESP_V02", (0, 1), 7);
    ("QMI_LOC_GET_CONSTELLATION_CONTROL_RESP_V02", (0, 1), 7);
    ("QMI_LOC_ENABLE_POSITION_INJECTION_TEST_MODE_RESP_V02", (0, 1), 7);
    ("QMI_LOC_INJECT_TEST_POSITION_RESP_V02", (0, 1), 7);
    ("QMI_LOC_GET_BS_OBS_DATA_RESP_V02", (0, 1), 7);
    ("QMI_LOC_SET_CONSTRAINED_TUNC_MODE_RESP_V02", (0, 1), 7);
    ("QMI_LOC_ENABLE_POSITION_ASSISTED_CLOCK_EST_RESP_V02", (0, 1), 7);
    ("QMI_LOC_QUERY_GNSS_ENERGY_CONSUMED_RESP_V02", (0, 1), 7);
    ("QMI_LOC_INJECT_PLATFORM_POWER_STATE_RESP_V02", (0, 1), 7);
    ("QMI_LOC_SET_ROBUST_LOCATION_CONFIG_RESP_V02", (0, 1), 7);
    ("QMI_LOC_GET_ROBUST_LOCATION_CONFIG_RESP_V02", (0, 1), 7);
    ("QMI_LOC_INJECT_ENV_AIDING_RESP_V02", (0, 1), 7);
    ("QMI_LOC_SET_MIN_GPS_WEEK_NUMBER_RESP_V02", (0, 1), 7);
    ("QMI_LOC_GET_MIN_GPS_WEEK_NUMBER_RESP_V02", (0, 1), 7);
    ("QMI_LOC_SET_PARAMETER_RESP_V02", (0, 1), 7);
    ("QMI_LOC_GET_PARAMETER_RESP_V02", (0, 1), 7);
    ("QMI_LOC_SET_STATISTICS_CONFIG_RESP_V02", (0, 1), 7);
    ("QMI_LOC_GET_STATISTICS_CONFIG_RESP_V02", (0, 1), 7);
    ("QMI_LOC_SET_GNSS_PDR_MODE_RESP_V02", (0, 1), 7);
    ("QMI_LOC_GET_GNSS_PDR_MODE_RESP_V02", (0, 1), 7);
    ("QMI_LOC_GET_MAG_CAL_STATE_PDR_RESP_V02", (0, 1), 7);
    ("QMI_LOC_SET_MULTIBAND_CONFIG_RESP_V02", (0, 1), 7);
    ("QMI_LOC_GET_MULTIBAND_CONFIG_RESP_V02", (0, 1), 7) ].

Definition indication_messages_1 : list (string * (Z * Z) * Z) := [
    ("QMI_LOC_EVENT_POSITION_REPORT_IND_V02", (0, 7), 2488);
    ("QMI_LOC_EVENT_GNSS_SV_INFO_IND_V02", (0, 8), 9476);
    ("QMI_LOC_EVENT_NMEA_IND_V02", (0, 9), 4301);
    ("QMI_LOC_EVENT_NI_NOTIFY_VERIFY_REQ_IND_V02", (0, 10), 1342);
    ("QMI_LOC_EVENT_INJECT_TIME_REQ_IND_V02", (0, 11), 776);
    ("QMI_LOC_EVENT_INJECT_PREDICTED_ORBITS_REQ_IND_V02", (0, 12), 808);
    ("QMI_LOC_EVENT_INJECT_POSITION_REQ_IND_V02", (0, 13), 40);
    ("QMI_LOC_EVENT_ENGINE_STATE_IND_V02", (0, 14), 7);
    ("QMI_LOC_EVENT_FIX_SESSION_STATE_IND_V02", (0, 15), 11);
    ("QMI_LOC_EVENT_WIFI_REQ_IND_V02", (0, 16), 16);
    ("QMI_LOC_EVENT_SENSOR_STREAMING_READY_STATUS_IND_V02", (0, 17), 48);
    ("QMI_LOC_EVENT_TIME_SYNC_REQ_IND_V02", (0, 18), 7);
    ("QMI_LOC_EVENT_SET_SPI_STREAMING_REPORT_IND_V02", (0, 19), 4);
    ("QMI_LOC_EVENT_LOCATION_SERVER_CONNECTION_REQ_IND_V02", (0, 20), 46);
    ("QMI_LOC_GET_SERVICE_REVISION_IND_V02", (0, 35), 532);
    ("QMI_LOC_GET_FIX_CRITERIA_IND_V02", (0, 37), 135);
    ("QMI_LOC_NI_USER_RESPONSE_IND_V02", (0, 39), 7);
    ("QMI_LOC_INJECT_PREDICTED_ORBITS_DATA_IND_V02", (0, 41), 12);
    ("QMI_LOC_GET_PREDICTED_ORBITS_DATA_SOURCE_IND_V02", (0, 43), 790);
    ("QMI_LOC_GET_PREDICTED_ORBITS_DATA_VALIDITY_IND_V02", (0, 45), 20);
    ("QMI_LOC_INJECT_UTC_TIME_IND_V02", (0, 47), 7);
    ("QMI_LOC_INJECT_POSITION_IND_V02", (0, 49), 7);
    ("QMI_LOC_SET_ENGINE_LOCK_IND_V02", (0, 51), 7);
    ("QMI_LOC_GET_ENGINE_LOCK_IND_V02", (0, 53), 32);
    ("QMI_LOC_SET_SBAS_CONFIG_IND_V02", (0, 55), 7);
    ("QMI_LOC_GET_SBAS_CONFIG_IND_V02", (0, 57), 11);
    ("QMI_LOC_SET_NMEA_TYPES_IND_V02", (0, 59), 7);
    ("QMI_LOC_GET_NMEA_TYPES_IND_V02", (0, 61), 14);
    ("QMI_LOC_SET_LOW_POWER_MODE_IND_V02", (0, 63), 7);
    ("QMI_LOC_GET_LOW_POWER_MODE_IND_V02", (0, 65), 11);
    ("QMI_LOC_SET_SERVER_IND_V02", (0, 67), 7);
    ("QMI_LOC_GET_SERVER_IND_V02", (0, 69), 304);
    ("QMI_LOC_DELETE_ASSIST_DATA_IND_V02", (0, 71), 7);
    ("QMI_LOC_SET_XTRA_T_SESSION_CONTROL_IND_V02", (0, 73), 7);
    ("QMI_LOC_GET_XTRA_T_SESSION_CONTROL_IND_V02", (0, 75), 11);
    ("QMI_LOC_INJECT_WIFI_POSITION_IND_V02", (0, 77), 7);
    ("QMI_LOC_NOTIFY_WIFI_STATUS_IND_V02", (0, 79), 7);
    ("QMI_LOC_GET_REGISTERED_EVENTS_IND_V02", (0, 81), 18);
    ("QMI_LOC_SET_OPERATION_MODE_IND_V02", (0, 83), 7);
    ("QMI_LOC_GET_OPERATION_MODE_IND_V02", (0, 85), 14);
    ("QMI_LOC_SET_SPI_STATUS_IND_V02", (0, 87), 7);
    ("QMI_LOC_INJECT_SENSOR_DATA_IND_V02", (0, 89), 34);
    ("QMI_LOC_INJECT_TIME_SYNC_DATA_IND_V02", (0, 91), 7);
    ("QMI_LOC_SET_CRADLE_MOUNT_CONFIG_IND_V02", (0, 95), 7);
    ("QMI_LOC_GET_CRADLE_MOUNT_CONFIG_IND_V02", (0, 93), 18);
    ("QMI_LOC_SET_EXTERNAL_POWER_CONFIG_IND_V02", (0, 99), 7);
    ("QMI_LOC_GET_EXTERNAL_POWER_CONFIG_IND_V02", (0, 97), 14);
    ("QMI_LOC_INFORM_LOCATION_SERVER_CONN_STATUS_IND_V02", (0, 101), 7);
    ("QMI_LOC_SET_PROTOCOL_CONFIG_PARAMETERS_IND_V02", (0, 103), 18);
    ("QMI_LOC_GET_PROTOCOL_CONFIG_PARAMETERS_IND_V02", (0, 105), 93);
    ("QMI_LOC_SET_SENSOR_CONTROL_CONFIG_IND_V02", (0, 107), 7);
    ("QMI_LOC_GET_SENSOR_CONTROL_CONFIG_IND_V02", (0, 109), 21);
    ("QMI_LOC_SET_SENSOR_PROPERTIES_IND_V02", (0, 111), 14);
    ("QMI_LOC_GET_SENSOR_PROPERTIES_IND_V02", (0, 113), 95);
    ("QMI_LOC_SET_SENSOR_PERFORMANCE_CONTROL_CONFIGURATION_IND_V02", (0, 115), 14);
    ("QMI_LOC_GET_SENSOR_PERFORMANCE_CONTROL_CONFIGURATION_IND_V02", (0, 117), 49);
    ("QMI_LOC_INJECT_SUPL_CERTIFICATE_IND_V02", (0, 119), 7);
    ("QMI_LOC_DELETE_SUPL_CERTIFICATE_IND_V02", (0, 121), 7);
    ("QMI_LOC_SET_POSITION_ENGINE_CONFIG_PARAMETERS_IND_V02", (0, 123), 14);
    ("QMI_LOC_GET_POSITION_ENGINE_CONFIG_PARAMETERS_IND_V02", (0, 125), 23);
    ("QMI_LOC_EVENT_NI_GEOFENCE_NOTIFICATION_IND_V02", (0, 21), 14);
    ("QMI_LOC_EVENT_GEOFENCE_GEN_ALERT_IND_V02", (0, 22), 7);
    ("QMI_LOC_EVENT_GEOFENCE_BREACH_NOTIFICATION_IND_V02", (0, 23), 85);
    ("QMI_LOC_ADD_CIRCULAR_GEOFENCE_IND_V02", (0, 127), 21);
    ("QMI_LOC_DELETE_GEOFENCE_IND_V02", (0, 129), 21);
    ("QMI_LOC_QUERY_GEOFENCE_IND_V02", (0, 131), 65);
    ("QMI_LOC_EDIT_GEOFENCE_IND_V02", (0, 137), 28);
    ("QMI_LOC_GET_BEST_AVAILABLE_POSITION_IND_V02", (0, 142), 2193);
    ("QMI_LOC_INJECT_MOTION_DATA_IND_V02", (0, 144), 7);
    ("QMI_LOC_GET_NI_GEOFENCE_ID_LIST_IND_V02", (0, 146), 82);
    ("QMI_LOC_INJECT_GSM_CELL_INFO_IND_V02", (0, 148), 7);
    ("QMI_LOC_INJECT_NETWORK_INITIATED_MESSAGE_IND_V02", (0, 156), 7);
    ("QMI_LOC_WWAN_OUT_OF_SERVICE_NOTIFICATION_IND_V02", (0, 158), 7);
    ("QMI_LOC_EVENT_PEDOMETER_CONTROL_IND_V02", (0, 24), 15);
    ("QMI_LOC_EVENT_MOTION_DATA_CONTROL_IND_V02", (0, 25), 4);
    ("QMI_LOC_PEDOMETER_REPORT_IND_V02", (0, 160), 7);
    ("QMI_LOC_INJECT_WCDMA_CELL_INFO_IND_V02", (0, 150), 7);
    ("QMI_LOC_INJECT_TDSCDMA_CELL_INFO_IND_V02", (0, 152), 7);
    ("QMI_LOC_INJECT_SUBSCRIBER_ID_IND_V02", (0, 154), 7);
    ("QMI_LOC_SET_GEOFENCE_ENGINE_CONFIG_IND_V02", (0, 133), 14);
    ("QMI_LOC_GET_GEOFENCE_ENGINE_CONFIG_IND_V02", (0, 135), 39);
    ("QMI_LOC_GET_BATCH_SIZE_IND_V02", (0, 162), 21);
    ("QMI_LOC_START_BATCHING_IND_V02", (0, 164), 14);
    ("QMI_LOC_EVENT_BATCH_FULL_NOTIFICATION_IND_V02", (0, 165), 28);
    ("QMI_LOC_EVENT_LIVE_BATCHED_POSITION_REPORT_IND_V02", (0, 166), 90);
    ("QMI_LOC_READ_FROM_BATCH_IND_V02", (0, 168), 460);
    ("QMI_LOC_STOP_BATCHING_IND_V02", (0, 170), 21);
    ("QMI_LOC_RELEASE_BATCH_IND_V02", (0, 172), 14);
    ("QMI_LOC_EVENT_INJECT_WIFI_AP_DATA_REQ_IND_V02", (0, 173), 4);
    ("QMI_LOC_INJECT_WIFI_AP_DATA_IND_V02", (0, 175), 7);
    ("QMI_LOC_NOTIFY_WIFI_ATTACHMENT_STATUS_IND_V02", (0, 177), 7);
    ("QMI_LOC_NOTIFY_WIFI_ENABLED_STATUS_IND_V02", (0, 179), 7);
    ("QMI_LOC_EVENT_GEOFENCE_BATCHED_BREACH_NOTIFICATION_IND_V02", (0, 26), 3045);
    ("QMI_LOC_EVENT_VEHICLE_DATA_READY_STATUS_IND_V02", (0, 180), 12);
    ("QMI_LOC_INJECT_VEHICLE_SENSOR_DATA_IND_V02", (0, 182), 7);
    ("QMI_LOC_GET_AVAILABLE_WWAN_POSITION_IND_V02", (0, 184), 145);
    ("QMI_LOC_SET_PREMIUM_SERVICES_CONFIG_IND_V02", (0, 186), 7);
    ("QMI_LOC_SET_XTRA_VERSION_CHECK_IND_V02", (0, 188), 7);
    ("QMI_LOC_EVENT_GNSS_MEASUREMENT_REPORT_IND_V02", (0, 191), 3151);
    ("QMI_LOC_EVENT_SV_POLYNOMIAL_REPORT_IND_V02", (0, 192), 441);
    ("QMI_LOC_SET_GNSS_CONSTELL_REPORT_CONFIG_IND_V02", (0, 190), 7);
    ("QMI_LOC_ADD_GEOFENCE_CONTEXT_IND_V02", (0, 194), 28);
    ("QMI_LOC_SET_GEOFENCE_ENGINE_CONTEXT_IND_V02", (0, 196), 14);
    ("QMI_LOC_DELETE_GEOFENCE_CONTEXT_IND_V02", (0, 198), 28);
    ("QMI_LOC_EVENT_GEOFENCE_PROXIMITY_NOTIFICATION_IND_V02", (0, 27), 21);
    ("QMI_LOC_INJECT_GTP_CLIENT_DOWNLOADED_DATA_IND_V02", (0, 200), 7);
    ("QMI_LOC_GDT_UPLOAD_BEGIN_STATUS_IND_V02", (0, 202), 7);
    ("QMI_LOC_GDT_UPLOAD_END_IND_V02", (0, 204), 7);
    ("QMI_LOC_EVENT_GDT_UPLOAD_BEGIN_STATUS_REQ_IND_V02", (0, 29), 273);
    ("QMI_LOC_EVENT_GDT_UPLOAD_END_REQ_IND_V02", (0, 30), 21);
    ("QMI_LOC_START_DBT_IND_V02", (0, 216), 11);
    ("QMI_LOC_EVENT_DBT_POSITION_REPORT_IND_V02", (0, 219), 2074);
    ("QMI_LOC_EVENT_DBT_SESSION_STATUS_IND_V02", (0, 220), 11);
    ("QMI_LOC_STOP_DBT_IND_V02", (0, 218), 11);
    ("QMI_LOC_SECURE_GET_AVAILABLE_POSITION_IND_V02", (0, 222), 1043);
    ("QMI_LOC_EVENT_GEOFENCE_BATCHED_DWELL_NOTIFICATION_IND_V02", (0, 28), 3038);
    ("QMI_LOC_EVENT_GET_TIME_ZONE_INFO_IND_V02", (0, 138), 7);
    ("QMI_LOC_INJECT_TIME_ZONE_INFO_IND_V02", (0, 140), 7);
    ("QMI_LOC_INJECT_APCACHE_DATA_IND_V02", (0, 224), 70);
    ("QMI_LOC_INJECT_APDONOTCACHE_DATA_IND_V02", (0, 226), 7);
    ("QMI_LOC_EVENT_BATCHING_STATUS_IND_V02", (0, 227), 7);
    ("QMI_LOC_QUERY_AON_CONFIG_IND_V02", (0, 229), 21);
    ("QMI_LOC_GTP_AP_STATUS_IND_V02", (0, 206), 18);
    ("QMI_LOC_GDT_DOWNLOAD_BEGIN_STATUS_IND_V02", (0, 208), 7);
    ("QMI_LOC_GDT_DOWNLOAD_READY_STATUS_IND_V02", (0, 210), 7);
    ("QMI_LOC_GDT_RECEIVE_DONE_STATUS_IND_V02", (0, 212), 7);
    ("QMI_LOC_GDT_DOWNLOAD_END_STATUS_IND_V02", (0, 214), 7);
    ("QMI_LOC_EVENT_GDT_DOWNLOAD_BEGIN_REQ_IND_V02", (0, 31), 5811);
    ("QMI_LOC_EVENT_GDT_RECEIVE_DONE_IND_V02", (0, 32), 21);
    ("QMI_LOC_EVENT_GDT_DOWNLOAD_END_REQ_IND_V02", (0, 33), 21);
    ("QMI_LOC_DELETE_GNSS_SERVICE_DATA_IND_V02", (0, 231), 7);
    ("QMI_LOC_INJECT_XTRA_DATA_IND_V02", (0, 233), 23);
    ("QMI_LOC_INJECT_XTRA_PCID_IND_V02", (0, 235), 7);
    ("QMI_LOC_GET_SUPPORTED_FEATURE_IND_V02", (0, 237), 122);
    ("QMI_LOC_SET_INTERNAL_STATUS_CONFIG_IND_V02", (0, 239), 7);
    ("QMI_LOC_EVENT_INTERNAL_STATUS_REPORT_IND_V02", (0, 240), 3756);
    ("QMI_LOC_EVENT_INJECT_SRN_AP_DATA_REQ_IND_V02", (0, 241), 22);
    ("QMI_LOC_INJECT_SRN_AP_DATA_IND_V02", (0, 243), 7);
    ("QMI_LOC_CROWDSOURCE_MANAGER_CONTROL_IND_V02", (0, 245), 540);
    ("QMI_LOC_QUERY_XTRA_INFO_IND_V02", (0, 248), 1574);
    ("QMI_LOC_START_OUTDOOR_TRIP_BATCHING_IND_V02", (0, 250), 7);
    ("QMI_LOC_QUERY_OTB_ACCUMULATED_DISTANCE_IND_V02", (0, 252), 21);
    ("QMI_LOC_EVENT_FDCL_SERVICE_REQ_IND_V02", (0, 253), 618);
    ("QMI_LOC_GET_FDCL_BS_LIST_IND_V02", (0, 255), 2456);
    ("QMI_LOC_INJECT_FDCL_DATA_IND_V02", (0, 257), 272);
    ("QMI_LOC_SET_BLACKLIST_SV_IND_V02", (0, 2), 7);
    ("QMI_LOC_GET_BLACKLIST_SV_IND_V02", (0, 259), 73);
    ("QMI_LOC_SET_CONSTELLATION_CONTROL_IND_V02", (0, 2), 7) ].

Definition indication_messages_2 : list (string * (Z * Z) * Z) := [
    ("QMI_LOC_DC_REPORT_IND_V02", (0, 261), 80);
    ("QMI_LOC_REGISTER_MASTER_CLIENT_IND_V02", (0, 263), 7);
    ("QMI_LOC_EVENT_ENGINE_LOCK_STATE_IND_V02", (0, 264), 25);
    ("QMI_LOC_SYSTEM_INFO_IND_V02", (0, 268), 28);
    ("QMI_LOC_GET_CONSTELLATION_CONTROL_IND_V02", (0, 269), 49);
    ("QMI_LOC_EVENT_UNPROPAGATED_POSITION_REPORT_IND_V02", (0, 7), 2488);
    ("QMI_LOC_ENABLE_POSITION_INJECTION_TEST_MODE_IND_V02", (0, 271), 14);
    ("QMI_LOC_INJECT_TEST_POSITION_IND_V02", (0, 273), 7);
    ("QMI_LOC_EVENT_BS_OBS_DATA_SERVICE_REQ_IND_V02", (0, 274), 5);
    ("QMI_LOC_GET_BS_OBS_DATA_IND_V02", (0, 276), 10015);
    ("QMI_LOC_EVENT_GPS_EPHEMERIS_REPORT_IND_V02", (0, 277), 1425);
    ("QMI_LOC_EVENT_GLONASS_EPHEMERIS_REPORT_IND_V02", (0, 278), 897);
    ("QMI_LOC_EVENT_BDS_EPHEMERIS_REPORT_IND_V02", (0, 279), 1457);
    ("QMI_LOC_EVENT_GALILEO_EPHEMERIS_REPORT_IND_V02", (0, 280), 1481);
    ("QMI_LOC_EVENT_QZSS_EPHEMERIS_REPORT_IND_V02", (0, 281), 1425);
    ("QMI_LOC_SET_CONSTRAINED_TUNC_MODE_IND_V02", (0, 283), 7);
    ("QMI_LOC_ENABLE_POSITION_ASSISTED_CLOCK_EST_IND_V02", (0, 285), 7);
    ("QMI_LOC_QUERY_GNSS_ENERGY_CONSUMED_IND_V02", (0, 287), 22);
    ("QMI_LOC_EVENT_REPORT_IND_V02", (0, 288), 97);
    ("QMI_LOC_GET_BAND_MEASUREMENT_METRICS_IND_V02", (0, 289), 124);
    ("QMI_LOC_LOCATION_REQUEST_NOTIFICATION_IND_V02", (0, 290), 66);
    ("QMI_LOC_INJECT_PLATFORM_POWER_STATE_IND_V02", (0, 292), 7);
    ("QMI_LOC_SET_ROBUST_LOCATION_CONFIG_IND_V02", (0, 2), 7);
    ("QMI_LOC_GET_ROBUST_LOCATION_CONFIG_IND_V02", (0, 294), 21);
    ("QMI_LOC_INJECT_ENV_AIDING_IND_V02", (0, 2), 7);
    ("QMI_LOC_SET_MIN_GPS_WEEK_NUMBER_IND_V02", (0, 2), 7);
    ("QMI_LOC_GET_MIN_GPS_WEEK_NUMBER_IND_V02", (0, 297), 12);
    ("QMI_LOC_EVENT_QUERY_XTRA_INFO_REQ_IND_V02", (0, 299), 0);
    ("QMI_LOC_SET_PARAMETER_IND_V02", (0, 2), 7);
    ("QMI_LOC_GET_PARAMETER_IND_V02", (0, 302), 18);
    ("QMI_LOC_SET_STATISTICS_CONFIG_IND_V02", (0, 2), 7);
    ("QMI_LOC_GET_STATISTICS_CONFIG_IND_V02", (0, 304), 18);
    ("QMI_LOC_GNSS_STATISTICS_REPORT_IND_V02", (0, 305), 161);
    ("QMI_LOC_SET_GNSS_PDR_MODE_IND_V02", (0, 2), 7);
    ("QMI_LOC_GET_GNSS_PDR_MODE_IND_V02", (0, 307), 14);
    ("QMI_LOC_GET_MAG_CAL_STATE_PDR_IND_V02", (0, 308), 11);
    ("QMI_LOC_EVENT_SAP_INS_PARAMETERS_IND_V02", (0, 298), 5590);
    ("QMI_LOC_SET_MULTIBAND_CONFIG_IND_V02", (0, 2), 7);
    ("QMI_LOC_GET_MULTIBAND_CONFIG_IND_V02", (0, 310), 18);
    ("QMI_LOC_LATENCY_INFORMATION_IND_V02", (0, 311), 124) ].

Definition loc_service_indication_messages_v02 : list (string * (Z * Z) * Z) :=
  indication_messages_1 ++ indication_messages_2.

Definition loc_qmi_idl_service_object_v02 : service :=
  Service loc_type_data loc_message_data loc_type_table_v02 loc_message_table_v02
    loc_service_command_messages_v02 loc_service_response_messages_v02
    loc_service_indication_messages_v02 10015.
