(* ===== verification/LocService.v ===== *)
(** What holds of the tables of location_service_v02.c: they describe the
    structs of location_service_v02.h member by member, so that decoding a
    message by them stays inside its struct, nested types end, and the maximum
    message sizes are exact.

    Two things come from outside the repository: the layout of
    qmi_response_type_v01 (common_v01.h), which is two 32-bit enums, and the
    overhead of the QMI encoding (a TLV has a one-byte type and a two-byte
    length; arrays of variable length start with a length of one or two bytes;
    an encoded response is two 16-bit codes). *)

From stdpp Require Import strings list.
From S2P Require Import Prelude QmiIdl LocServiceStructs LocServiceTables.

Local Open Scope Z_scope.

Abbreviation h := location_service_v02_h.
Abbreviation svc := loc_qmi_idl_service_object_v02.

Definition documented_wire : wire := Wire 3 1 2 4.

(** The layouts of the structs, given size and alignment of
    qmi_response_type_v01. *)
Definition loc_layouts (response : Z * Z) : option (list (string * layout)) :=
  struct_layouts h [("qmi_response_type_v01"%string, Layout [] response.1 response.2)] loc_structs.

(** * What is checked of an entry *)

Definition members_ok (l : layout) : Prop :=
  Forall (fun p => 0 < p_align p ∧ 0 ≤ p_bytes p ∧ 0 ≤ p_size p) (l_members l) ∧
  NoDup (p_name <$> l_members l).

Definition type_entry_ok (ls : list (string * layout)) (i : Z) (t : string * string) : Prop :=
  match assoc t.1 ls, assoc t.2 (type_data svc) with
  | Some l, Some es =>
    data_describes h (type_table svc) t.1 (l_members l) es ∧ refs_below i es ∧ members_ok l
  | _, _ => False
  end.

(** A message without table has no member but the placeholder C asks for. *)
Definition message_entry_ok (ls : list (string * layout)) (t : string * option string) : Prop :=
  match assoc t.1 ls with
  | None => False
  | Some l =>
    match t.2 with
    | None => p_name <$> l_members l = ["__placeholder"%string]
    | Some d =>
      match assoc d (message_data svc) with
      | Some ts => message_describes h (type_table svc) t.1 (l_members l) ts ∧ members_ok l
      | None => False
      end
    end
  end.

Lemma message_entry_layout ls t : message_entry_ok ls t -> ∃ l, assoc t.1 ls = Some l.
Proof.
  unfold message_entry_ok. destruct (assoc t.1 ls) as [l|]; intros H.
  - exists l. reflexivity.
  - destruct H.
Qed.

#[export] Instance members_ok_dec l : Decision (members_ok l).
Proof. apply _. Defined.
#[export] Instance type_entry_ok_dec ls i t : Decision (type_entry_ok ls i t).
Proof. unfold type_entry_ok. destruct (assoc t.1 ls), (assoc t.2 (type_data svc)); apply _. Defined.
#[export] Instance message_entry_ok_dec ls t : Decision (message_entry_ok ls t).
Proof.
  unfold message_entry_ok. destruct (assoc t.1 ls); [|apply _]. destruct (t.2) as [d|]; [|apply _].
  destruct (assoc d (message_data svc)); apply _.
Defined.

(** The entries with their indices. *)
Fixpoint numbered {A} (i : Z) (l : list A) : list (Z * A) :=
  match l with [] => [] | a :: l => (i, a) :: numbered (i + 1) l end.

Lemma numbered_lookup {A} (l : list A) i k a :
  l !! k = Some a -> (i + Z.of_nat k, a) ∈ numbered i l.
Proof.
  revert i k. induction l as [|b l IH]; intros i k E; [done|].
  destruct k as [|k]; simplify_eq/=; [rewrite Z.add_0_r; left|].
  right. replace (i + Z.of_nat (S k)) with (i + 1 + Z.of_nat k) by lia. by apply IH.
Qed.

Definition tables_ok (ls : list (string * layout)) : Prop :=
  Forall (fun x => type_entry_ok ls x.1 x.2) (numbered 0 (type_table svc)) ∧
  Forall (message_entry_ok ls) (message_table svc).

Lemma tables_check response :
  response = (8, 4) -> ∃ ls, loc_layouts response = Some ls ∧ tables_ok ls.
Proof.
  intros ->.
  assert (H : match loc_layouts (8, 4) with
              | Some ls => bool_decide (tables_ok ls)
              | None => false
              end = true) by (vm_compute; reflexivity).
  destruct (loc_layouts (8, 4)) as [ls|]; [|done]. exists ls.
  by apply bool_decide_eq_true in H.
Qed.

(** ** Where the members lie *)

Lemma assoc_lookup {A} (l : list (string * A)) k a : assoc k l = Some a -> (k, a) ∈ l.
Proof.
  induction l as [|[k' a'] l IH]; simpl; [done|].
  destruct (String.eqb_spec k k') as [->|]; [intros [= ->]; left|right; auto].
Qed.

(** A struct laid out from any point of the header is packed. *)
Definition struct_packed (l : layout) : Prop :=
  members_ok l -> packed 0 (l_members l) (l_size l).

Lemma struct_layout_packed env ms l : struct_layout h env ms = Some l -> struct_packed l.
Proof.
  unfold struct_layout, struct_packed. destruct (place h env ms 0 1) as [[[ps o] a]|] eqn:E; [|done].
  simpl. intros [= <-] [Hok _]. cbn [l_members l_size] in *.
  destruct (place_packed _ _ _ _ _ _ _ _ E) as (Hp & Ha & _ & _).
  { by eapply Forall_impl; [exact Hok|]; intros ? (? & _). }
  eapply packed_end; [|done]. apply align_up_le. lia.
Qed.

Lemma struct_layouts_packed env ds ls s l :
  struct_layouts h env ds = Some ls ->
  Forall (fun x => struct_packed x.2) env -> assoc s ls = Some l -> struct_packed l.
Proof.
  revert env. induction ds as [|[s' ms] ds IH]; intros env E Henv Hs; simpl in E.
  - injection E as <-. apply assoc_lookup in Hs. rewrite Forall_forall in Henv.
    exact (Henv _ Hs).
  - destruct (struct_layout h env ms) as [l'|] eqn:El; [|done]. simpl in E.
    apply (IH _ E); [|done]. constructor; [|done]. by apply struct_layout_packed in El.
Qed.

Lemma loc_layouts_eq response :
  loc_layouts response =
  struct_layouts h [("qmi_response_type_v01"%string, Layout [] response.1 response.2)] loc_structs.
Proof. reflexivity. Qed.

Lemma loc_layout_packed response ls s l :
  0 ≤ response.1 -> loc_layouts response = Some ls -> assoc s ls = Some l -> members_ok l ->
  packed 0 (l_members l) (l_size l).
Proof.
  intros Hr E Hs Hok. rewrite loc_layouts_eq in E.
  pose proof (struct_layouts_packed _ _ _ s l E) as Hl. apply Hl; [|done|done].
  constructor; [|constructor]. intros _. exact Hr.
Qed.

(** ** The region an element addresses *)

(** Start and length in bytes of what the element [e] reads or writes of a
    struct at most: all items its bound allows. *)
Definition region (ps : list placed) (e : elem) : option (Z * Z) :=
  p ← find_member ps (o_member (e_offset e)); k ← count_max h e; Some (p_offset p, k * p_size p).

Definition apart (r r' : Z * Z) : Prop := r.1 + r.2 ≤ r'.1 ∨ r'.1 + r'.2 ≤ r.1.

Lemma find_member_lookup ps f p :
  find_member ps f = Some p -> ∃ i, ps !! i = Some p ∧ p_name p = f.
Proof.
  induction ps as [|q ps IH]; simpl; [done|]. destruct (String.eqb_spec f (p_name q)) as [->|].
  - intros [= ->]. by exists 0%nat.
  - intros E. destruct (IH E) as (i & ? & ?). by exists (S i).
Qed.

Lemma elem_region own ps e :
  elem_describes h (type_table svc) own ps e -> Forall (fun p => 0 < p_align p ∧ 0 ≤ p_bytes p ∧ 0 ≤ p_size p) ps ->
  ∃ i p n, ps !! i = Some p ∧ p_name p = o_member (e_offset e) ∧
    region ps e = Some (p_offset p, n) ∧ 0 ≤ n ≤ p_bytes p.
Proof.
  intros [_ He] Hok. unfold region.
  destruct (find_member ps _) as [p|] eqn:Ef; [|done].
  destruct He as (_ & _ & Hb & _). destruct (find_member_lookup _ _ _ Ef) as (i & Hi & Hn).
  rewrite Forall_forall in Hok. destruct (Hok p (list_elem_of_lookup_2 _ _ _ Hi)) as (_ & _ & Hs).
  unfold bound_fits in Hb. unfold count_max, p_bytes. cbn [mbind option_bind].
  destruct (e_bound e) as [b|], (p_array p) as [m|] eqn:Em; try done.
  - destruct Hb as [_ Hb]. destruct (eval h b) as [k|]; [|done]. destruct Hb as (Hm & Hk & _).
    cbn [mbind option_bind]. rewrite decide_True by lia.
    exists i, p, (k * p_size p). split_and!; [done..|nia|].
    rewrite Em, Hm. cbn. case_decide; nia.
  - exists i, p, (1 * p_size p). split_and!; [done..|lia|]. rewrite Em. cbn. lia.
Qed.

Lemma region_in_bounds own l e :
  elem_describes h (type_table svc) own (l_members l) e -> members_ok l ->
  packed 0 (l_members l) (l_size l) ->
  ∃ o n, region (l_members l) e = Some (o, n) ∧ 0 ≤ o ∧ 0 ≤ n ∧ o + n ≤ l_size l.
Proof.
  intros He [Hok _] Hp. destruct (elem_region _ _ _ He Hok) as (i & p & n & Hi & _ & Hr & Hn).
  exists (p_offset p), n. split; [done|].
  destruct (packed_bounds _ _ _ p Hp) as [? ?]; [|by eapply list_elem_of_lookup_2|lia].
  eapply Forall_impl; [exact Hok|]. by intros ? (_ & ? & _).
Qed.

Lemma region_apart own l e e' :
  elem_describes h (type_table svc) own (l_members l) e ->
  elem_describes h (type_table svc) own (l_members l) e' -> members_ok l ->
  packed 0 (l_members l) (l_size l) -> o_member (e_offset e) ≠ o_member (e_offset e') ->
  ∃ r r', region (l_members l) e = Some r ∧ region (l_members l) e' = Some r' ∧ apart r r'.
Proof.
  intros He He' [Hok _] Hp Hne.
  destruct (elem_region _ _ _ He Hok) as (i & p & n & Hi & Hpn & Hr & Hn).
  destruct (elem_region _ _ _ He' Hok) as (j & q & m & Hj & Hqn & Hr' & Hm).
  exists (p_offset p, n), (p_offset q, m). split_and!; [done..|].
  assert (Hb : Forall (fun p => 0 ≤ p_bytes p) (l_members l)).
  { eapply Forall_impl; [exact Hok|]. by intros ? (_ & ? & _). }
  unfold apart. cbn. destruct (Nat.lt_trichotomy i j) as [Hij|[->|Hij]].
  - pose proof (packed_lookup _ _ _ _ _ _ _ Hp Hb Hij Hi Hj). lia.
  - congruence.
  - pose proof (packed_lookup _ _ _ _ _ _ _ Hp Hb Hij Hj Hi). lia.
Qed.

(** Different elements of a table speak of different members. *)
Lemma concat_NoDup_apart {A B} (f : A -> list B) (g : A -> B) l (i j : nat) a b :
  (∀ a, g a ∈ f a) -> NoDup (concat (f <$> l)) -> i ≠ j ->
  l !! i = Some a -> l !! j = Some b -> g a ≠ g b.
Proof.
  intros Hg. revert i j. induction l as [|x l IH]; intros i j Hnd Hij Hi Hj; [done|].
  simpl in Hnd. apply NoDup_app in Hnd as (_ & Hd & Hnd).
  assert (Hin : ∀ k c, l !! k = Some c -> g c ∈ concat (f <$> l)).
  { intros k c Hk. apply list_elem_of_In, in_concat. exists (f c). split; apply list_elem_of_In; [|apply Hg].
    apply list_elem_of_fmap. exists c. split; [done|]. by eapply list_elem_of_lookup_2. }
  destruct i as [|i], j as [|j]; simplify_eq/=; [|..].
  - intros E. apply (Hd (g a)); [apply Hg|]. rewrite E. by eapply Hin.
  - intros E. apply (Hd (g b)); [apply Hg|]. rewrite <- E. by eapply Hin.
  - eapply IH; [done| |done..]. lia.
Qed.

Lemma elem_members_own e : o_member (e_offset e) ∈ elem_members e.
Proof. unfold elem_members. destruct (e_len e); set_solver. Qed.
Lemma tlv_members_own t : o_member (e_offset (t_elem t)) ∈ tlv_members t.
Proof.
  unfold tlv_members. pose proof (elem_members_own (t_elem t)).
  destruct (t_optional t); set_solver.
Qed.

(** * The theorems *)

(** C27: Every type and every message of the service is described by its table
    member by member: the table names exactly the members of the struct, in
    their order; each element has the width, type and array bound of its
    member, an offset that fits the bits it is stored in, and 16-bit bounds are
    flagged; lengths and validity flags of variable and optional members are
    the uint32_t <name>_len and uint8_t <name>_valid next to them; the last TLV
    and only it is flagged last and TLV ids do not repeat. *)
Theorem qmi_tables_describe_structs (response : Z * Z) (Hresponse : response = (8, 4)) :
  ∃ ls, loc_layouts response = Some ls ∧
    (∀ i t, type_table svc !! i = Some t -> type_entry_ok ls (Z.of_nat i) t) ∧
    (∀ t, t ∈ message_table svc -> message_entry_ok ls t).
Proof.
  destruct (tables_check response Hresponse) as (ls & E & Ht & Hm). exists ls. split; [done|].
  rewrite Forall_forall in Ht. rewrite Forall_forall in Hm. split; [|exact Hm]. intros i t Hi.
  by apply (Ht (Z.of_nat i, t)), (numbered_lookup _ 0).
Qed.

Lemma qmi_tables_describe_structs_witness :
  ∃ ls, loc_layouts (8, 4) = Some ls ∧
    (∀ i t, type_table svc !! i = Some t -> type_entry_ok ls (Z.of_nat i) t) ∧
    (∀ t, t ∈ message_table svc -> message_entry_ok ls t).
Proof. apply (qmi_tables_describe_structs (8, 4)). reflexivity. Defined.

(** C29: Decoding or encoding a message by its table stays inside its struct:
    every TLV addresses bytes of the struct only, for as many items as its
    bound allows, and two TLVs of a message never address the same byte. *)
Theorem qmi_messages_stay_in_struct (response : Z * Z) ls s d l ts
    (Hresponse : response = (8, 4)) (Hls : loc_layouts response = Some ls)
    (Hm : (s, Some d) ∈ message_table svc) (Hl : assoc s ls = Some l)
    (Hts : assoc d (message_data svc) = Some ts) :
  (∀ t, t ∈ ts -> ∃ o n, region (l_members l) (t_elem t) = Some (o, n) ∧
                         0 ≤ o ∧ 0 ≤ n ∧ o + n ≤ l_size l) ∧
  (∀ i j t t', i ≠ j -> ts !! i = Some t -> ts !! j = Some t' ->
     ∃ r r', region (l_members l) (t_elem t) = Some r ∧
             region (l_members l) (t_elem t') = Some r' ∧ apart r r').
Proof.
  destruct (tables_check response Hresponse) as (ls' & E & _ & Hall).
  rewrite Hls in E. injection E as <-. rewrite Forall_forall in Hall. specialize (Hall _ Hm).
  unfold message_entry_ok in Hall. cbn [fst snd] in Hall. rewrite Hl, Hts in Hall.
  destruct Hall as [(Hd & Hmem & _ & _) Hok].
  assert (Hp : packed 0 (l_members l) (l_size l)).
  { eapply loc_layout_packed; [|done..]. by rewrite Hresponse. }
  rewrite Forall_forall in Hd. split.
  - intros t Ht. destruct (Hd t Ht) as [He _]. by eapply region_in_bounds.
  - intros i j t t' Hij Hi Hj.
    destruct (Hd t) as [He _]; [by eapply list_elem_of_lookup_2|].
    destruct (Hd t') as [He' _]; [by eapply list_elem_of_lookup_2|].
    refine (region_apart s l (t_elem t) (t_elem t') He He' Hok Hp _).
    refine (concat_NoDup_apart tlv_members (fun t => o_member (e_offset (t_elem t))) ts i j t t'
      tlv_members_own _ Hij Hi Hj).
    rewrite Hmem. apply Hok.
Qed.

(** Types nest finitely deep: an aggregate contains only types of smaller
    index, so unfolding nested types as deep as the table is long gives every
    size a value of a type can have. *)
Theorem qmi_nesting_ends (w : wire) (i : Z) (d : nat) (n : Z)
    (Hi : 0 ≤ i) (Hd : (depth svc <= d)%nat) :
  type_size h svc w d i n <-> type_size h svc w (depth svc) i n.
Proof.
  assert (Hr : ∀ j es, type_elems svc j = Some es -> 0 ≤ j -> refs_below j es).
  { destruct (tables_check (8, 4) eq_refl) as (ls & _ & Ht & _). rewrite Forall_forall in Ht.
    intros j es Hj H0. unfold type_elems in Hj.
    destruct (type_table svc !! Z.to_nat j) as [[s t]|] eqn:Et; [|done]. cbn in Hj.
    specialize (Ht _ (numbered_lookup _ 0 _ _ Et)). cbn [fst snd] in Ht.
    unfold type_entry_ok in Ht. cbn [fst snd] in Ht.
    destruct (assoc s ls) as [l|]; [|done].
    assert (E : assoc t (type_data svc) = Some es) by exact Hj. rewrite E in Ht.
    destruct Ht as (_ & Ht & _). by rewrite Z.add_0_l, Z2Nat.id in Ht. }
  destruct (decide (Z.to_nat i < depth svc)%nat) as [Hlt|Hge].
  - split; apply type_size_depth; try done; lia.
  - assert (E : type_elems svc i = None).
    { unfold type_elems. rewrite lookup_ge_None_2 by (unfold depth in Hge; lia). done. }
    destruct d as [|d]; destruct (depth svc) as [|d'] eqn:Ed; try done; simpl; by rewrite E.
Qed.

Lemma qmi_nesting_ends_witness :
  0 ≤ 8 ∧ (depth svc <= 200)%nat ∧
  (type_size h svc documented_wire 200 8 30 <-> type_size h svc documented_wire (depth svc) 8 30).
Proof.
  split; [lia|]. split; [apply Nat.leb_le; vm_compute; reflexivity|].
  apply (qmi_nesting_ends documented_wire 8 200 30); [lia|apply Nat.leb_le; vm_compute; reflexivity].
Defined.

(** The parts of the example: the satellite report of location_service_v02.h. *)
Definition demo_layouts : list (string * layout) := default [] (loc_layouts (8, 4)).
Definition demo_layout : layout :=
  default (Layout [] 0 1) (assoc "qmiLocEventGnssSvInfoIndMsgT_v02" demo_layouts).
Definition demo_table : list tlv :=
  default [] (assoc "qmiLocEventGnssSvInfoIndMsgT_data_v02" (message_data svc)).

Lemma qmi_messages_stay_in_struct_witness :
  length demo_table = 5%nat ∧ l_size demo_layout = 11040 ∧
  (∀ t, t ∈ demo_table -> ∃ o n, region (l_members demo_layout) (t_elem t) = Some (o, n) ∧
                         0 ≤ o ∧ 0 ≤ n ∧ o + n ≤ l_size demo_layout) ∧
  (∀ i j t t', i ≠ j -> demo_table !! i = Some t -> demo_table !! j = Some t' ->
     ∃ r r', region (l_members demo_layout) (t_elem t) = Some r ∧
             region (l_members demo_layout) (t_elem t') = Some r' ∧ apart r r').
Proof.
  split; [vm_compute; reflexivity|]. split; [vm_compute; reflexivity|].
  apply (qmi_messages_stay_in_struct (8, 4) demo_layouts "qmiLocEventGnssSvInfoIndMsgT_v02"
           "qmiLocEventGnssSvInfoIndMsgT_data_v02").
  - reflexivity.
  - vm_compute; reflexivity.
  - apply (list_elem_of_lookup_2 _ 8). vm_compute; reflexivity.
  - vm_compute; reflexivity.
  - vm_compute; reflexivity.
Defined.

(** ** Sizes and ids *)

Definition size_ok (m : string * (Z * Z) * Z) : Prop :=
  m.1.2.1 = 0 ->
  match own_message svc m with
  | Some e => message_max h svc documented_wire e = Some m.2
  | None => False
  end.
#[export] Instance size_ok_dec m : Decision (size_ok m).
Proof. unfold size_ok. destruct (own_message svc m); apply _. Defined.

Lemma sizes_check :
  Forall size_ok (service_messages svc) ∧
  Forall (fun m => m.2 ≤ max_message_length svc) (service_messages svc) ∧
  Exists (fun m => m.2 = max_message_length svc) (service_messages svc).
Proof. apply (bool_decide_eq_true_1 _). vm_compute. reflexivity. Qed.

(** C36: The maximum size that a service table declares for a message is exactly
    the size of the longest message its tables can encode - all optional TLVs
    present and all arrays full - and the service's maximum length is the
    largest of them.  Messages of the common tables (index 1) are not
    described here. *)
Theorem qmi_max_lengths_exact (w : wire) (Hw : w = documented_wire) :
  (∀ m, m ∈ service_messages svc -> m.1.2.1 = 0 ->
     ∃ e, own_message svc m = Some e ∧ maximum (message_size h svc w e) m.2) ∧
  (∀ m, m ∈ service_messages svc -> m.2 ≤ max_message_length svc) ∧
  (∃ m, m ∈ service_messages svc ∧ m.2 = max_message_length svc).
Proof.
  destruct sizes_check as (Hs & Hle & Hex). rewrite Forall_forall in Hs. rewrite Forall_forall in Hle.
  split; [|split; [exact Hle|by apply Exists_exists in Hex]].
  intros m Hm H0. specialize (Hs m Hm H0). destruct (own_message svc m) as [e|]; [|done].
  exists e. split; [done|]. rewrite Hw. apply message_maximum; [|done].
  unfold wire_ok. simpl. lia.
Qed.

Lemma qmi_max_lengths_exact_witness :
  (∀ m, m ∈ service_messages svc -> m.1.2.1 = 0 ->
     ∃ e, own_message svc m = Some e ∧ maximum (message_size h svc (Wire 3 1 2 4) e) m.2) ∧
  (∀ m, m ∈ service_messages svc -> m.2 ≤ max_message_length svc) ∧
  (∃ m, m ∈ service_messages svc ∧ m.2 = max_message_length svc).
Proof. apply (qmi_max_lengths_exact (Wire 3 1 2 4)). reflexivity. Defined.

(** The number of a message. *)
Definition message_id (name : string) : option Z := assoc name message_ids.
Definition ids (ms : list (string * (Z * Z) * Z)) : list (option Z) :=
  (fun m => message_id m.1.1) <$> ms.

(** The entry the service has for an id. *)
Fixpoint find_message (ms : list (string * (Z * Z) * Z)) (id : Z) : option (string * (Z * Z) * Z) :=
  match ms with
  | [] => None
  | m :: ms => if decide (message_id m.1.1 = Some id) then Some m else find_message ms id
  end.

Lemma ids_check :
  Forall (fun m => is_Some (message_id m.1.1)) (service_messages svc) ∧
  NoDup (ids (command_messages svc)) ∧ NoDup (ids (response_messages svc)) ∧
  NoDup (ids (indication_messages svc)) ∧
  ids (command_messages svc) = ids (response_messages svc).
Proof. apply (bool_decide_eq_true_1 _). vm_compute. reflexivity. Qed.
