(* ===== verification/LocClientTables.v ===== *)
(** The tables of loc_api_v02_client.cpp: the structs it decodes indications
    into, by id, and the cases of validateRequest, in the order of the file. *)

From stdpp Require Import strings list.
From S2P Require Import Prelude QmiIdl.


(** Event id, struct, event mask. *)
Definition locClientEventIndTable_1 : list (string * string * string) := [
    ("QMI_LOC_EVENT_POSITION_REPORT_IND_V02", "qmiLocEventPositionReportIndMsgT_v02", "QMI_LOC_EVENT_MASK_POSITION_REPORT_V02");
    ("QMI_LOC_EVENT_GNSS_SV_INFO_IND_V02", "qmiLocEventGnssSvInfoIndMsgT_v02", "QMI_LOC_EVENT_MASK_GNSS_SV_INFO_V02");
    ("QMI_LOC_EVENT_NMEA_IND_V02", "qmiLocEventNmeaIndMsgT_v02", "QMI_LOC_EVENT_MASK_NMEA_V02");
    ("QMI_LOC_EVENT_NI_NOTIFY_VERIFY_REQ_IND_V02", "qmiLocEventNiNotifyVerifyReqIndMsgT_v02", "QMI_LOC_EVENT_MASK_NI_NOTIFY_VERIFY_REQ_V02");
    ("QMI_LOC_EVENT_INJECT_TIME_REQ_IND_V02", "qmiLocEventInjectTimeReqIndMsgT_v02", "QMI_LOC_EVENT_MASK_INJECT_TIME_REQ_V02");
    ("QMI_LOC_EVENT_INJECT_PREDICTED_ORBITS_REQ_IND_V02", "qmiLocEventInjectPredictedOrbitsReqIndMsgT_v02", "QMI_LOC_EVENT_MASK_INJECT_PREDICTED_ORBITS_REQ_V02");
    ("QMI_LOC_EVENT_INJECT_POSITION_REQ_IND_V02", "qmiLocEventInjectPositionReqIndMsgT_v02", "QMI_LOC_EVENT_MASK_INJECT_POSITION_REQ_V02");
    ("QMI_LOC_EVENT_ENGINE_STATE_IND_V02", "qmiLocEventEngineStateIndMsgT_v02", "QMI_LOC_EVENT_MASK_ENGINE_STATE_V02");
    ("QMI_LOC_EVENT_FIX_SESSION_STATE_IND_V02", "qmiLocEventFixSessionStateIndMsgT_v02", "QMI_LOC_EVENT_MASK_FIX_SESSION_STATE_V02");
    ("QMI_LOC_EVENT_WIFI_REQ_IND_V02", "qmiLocEventWifiReqIndMsgT_v02", "QMI_LOC_EVENT_MASK_WIFI_REQ_V02");
    ("QMI_LOC_EVENT_SENSOR_STREAMING_READY_STATUS_IND_V02", "qmiLocEventSensorStreamingReadyStatusIndMsgT_v02", "QMI_LOC_EVENT_MASK_SENSOR_STREAMING_READY_STATUS_V02");
    ("QMI_LOC_EVENT_TIME_SYNC_REQ_IND_V02", "qmiLocEventTimeSyncReqIndMsgT_v02", "QMI_LOC_EVENT_MASK_TIME_SYNC_REQ_V02");
    ("QMI_LOC_EVENT_SET_SPI_STREAMING_REPORT_IND_V02", "qmiLocEventSetSpiStreamingReportIndMsgT_v02", "QMI_LOC_EVENT_MASK_SET_SPI_STREAMING_REPORT_V02");
    ("QMI_LOC_EVENT_LOCATION_SERVER_CONNECTION_REQ_IND_V02", "qmiLocEventLocationServerConnectionReqIndMsgT_v02", "QMI_LOC_EVENT_MASK_LOCATION_SERVER_CONNECTION_REQ_V02");
    ("QMI_LOC_EVENT_NI_GEOFENCE_NOTIFICATION_IND_V02", "qmiLocEventNiGeofenceNotificationIndMsgT_v02", "QMI_LOC_EVENT_MASK_NI_GEOFENCE_NOTIFICATION_V02");
    ("QMI_LOC_EVENT_GEOFENCE_GEN_ALERT_IND_V02", "qmiLocEventGeofenceGenAlertIndMsgT_v02", "QMI_LOC_EVENT_MASK_GEOFENCE_GEN_ALERT_V02");
    ("QMI_LOC_EVENT_GEOFENCE_BREACH_NOTIFICATION_IND_V02", "qmiLocEventGeofenceBreachIndMsgT_v02", "QMI_LOC_EVENT_MASK_GEOFENCE_BREACH_NOTIFICATION_V02");
    ("QMI_LOC_EVENT_GEOFENCE_BATCHED_BREACH_NOTIFICATION_IND_V02", "qmiLocEventGeofenceBatchedBreachIndMsgT_v02", "QMI_LOC_EVENT_MASK_GEOFENCE_BATCH_BREACH_NOTIFICATION_V02");
    ("QMI_LOC_EVENT_PEDOMETER_CONTROL_IND_V02", "qmiLocEventPedometerControlIndMsgT_v02", "QMI_LOC_EVENT_MASK_PEDOMETER_CONTROL_V02");
    ("QMI_LOC_EVENT_MOTION_DATA_CONTROL_IND_V02", "qmiLocEventMotionDataControlIndMsgT_v02", "QMI_LOC_EVENT_MASK_MOTION_DATA_CONTROL_V02");
    ("QMI_LOC_EVENT_INJECT_WIFI_AP_DATA_REQ_IND_V02", "qmiLocEventInjectWifiApDataReqIndMsgT_v02", "QMI_LOC_EVENT_MASK_INJECT_WIFI_AP_DATA_REQ_V02");
    ("QMI_LOC_EVENT_LIVE_BATCHED_POSITION_REPORT_IND_V02", "qmiLocEventLiveBatchedPositionReportIndMsgT_v02", "QMI_LOC_EVENT_MASK_LIVE_BATCHED_POSITION_REPORT_V02");
    ("QMI_LOC_EVENT_BATCH_FULL_NOTIFICATION_IND_V02", "qmiLocEventBatchFullIndMsgT_v02", "QMI_LOC_EVENT_MASK_BATCH_FULL_NOTIFICATION_V02");
    ("QMI_LOC_EVENT_VEHICLE_DATA_READY_STATUS_IND_V02", "qmiLocEventVehicleDataReadyIndMsgT_v02", "QMI_LOC_EVENT_MASK_VEHICLE_DATA_READY_STATUS_V02");
    ("QMI_LOC_EVENT_GEOFENCE_PROXIMITY_NOTIFICATION_IND_V02", "qmiLocEventGeofenceProximityIndMsgT_v02", "QMI_LOC_EVENT_MASK_GEOFENCE_PROXIMITY_NOTIFICATION_V02");
    ("QMI_LOC_EVENT_GNSS_MEASUREMENT_REPORT_IND_V02", "qmiLocEventGnssSvMeasInfoIndMsgT_v02", "QMI_LOC_EVENT_MASK_GNSS_MEASUREMENT_REPORT_V02");
    ("QMI_LOC_EVENT_SV_POLYNOMIAL_REPORT_IND_V02", "qmiLocEventGnssSvPolyIndMsgT_v02", "QMI_LOC_EVENT_MASK_GNSS_SV_POLYNOMIAL_REPORT_V02");
    ("QMI_LOC_EVENT_GDT_UPLOAD_BEGIN_STATUS_REQ_IND_V02", "qmiLocEventGdtUploadBeginStatusReqIndMsgT_v02", "QMI_LOC_EVENT_MASK_GDT_UPLOAD_BEGIN_REQ_V02");
    ("QMI_LOC_EVENT_GDT_UPLOAD_END_REQ_IND_V02", "qmiLocEventGdtUploadEndReqIndMsgT_v02", "QMI_LOC_EVENT_MASK_GDT_UPLOAD_END_REQ_V02");
    ("QMI_LOC_EVENT_DBT_POSITION_REPORT_IND_V02", "qmiLocEventDbtPositionReportIndMsgT_v02", "0") ].

Definition locClientEventIndTable_2 : list (string * string * string) := [
    ("QMI_LOC_EVENT_GEOFENCE_BATCHED_DWELL_NOTIFICATION_IND_V02", "qmiLocEventGeofenceBatchedDwellIndMsgT_v02", "QMI_LOC_EVENT_MASK_GEOFENCE_BATCH_DWELL_NOTIFICATION_V02");
    ("QMI_LOC_EVENT_GET_TIME_ZONE_INFO_IND_V02", "qmiLocEventGetTimeZoneReqIndMsgT_v02", "QMI_LOC_EVENT_MASK_GET_TIME_ZONE_REQ_V02");
    ("QMI_LOC_EVENT_BATCHING_STATUS_IND_V02", "qmiLocEventBatchingStatusIndMsgT_v02", "QMI_LOC_EVENT_MASK_BATCHING_STATUS_V02");
    ("QMI_LOC_EVENT_GDT_DOWNLOAD_BEGIN_REQ_IND_V02", "qmiLocEventGdtDownloadBeginReqIndMsgT_v02", "0");
    ("QMI_LOC_EVENT_GDT_RECEIVE_DONE_IND_V02", "qmiLocEventGdtReceiveDoneIndMsgT_v02", "0");
    ("QMI_LOC_EVENT_GDT_DOWNLOAD_END_REQ_IND_V02", "qmiLocEventGdtDownloadEndReqIndMsgT_v02", "0");
    ("QMI_LOC_EVENT_INJECT_SRN_AP_DATA_REQ_IND_V02", "qmiLocEventInjectSrnApDataReqIndMsgT_v02", "QMI_LOC_EVENT_MASK_INJECT_SRN_AP_DATA_REQ_V02");
    ("QMI_LOC_EVENT_FDCL_SERVICE_REQ_IND_V02", "qmiLocEventFdclServiceReqIndMsgT_v02", "QMI_LOC_EVENT_MASK_FDCL_SERVICE_REQ_V02");
    ("QMI_LOC_EVENT_UNPROPAGATED_POSITION_REPORT_IND_V02", "qmiLocEventPositionReportIndMsgT_v02", "QMI_LOC_EVENT_MASK_UNPROPAGATED_POSITION_REPORT_V02");
    ("QMI_LOC_EVENT_BS_OBS_DATA_SERVICE_REQ_IND_V02", "qmiLocEventBsObsDataServiceReqIndMsgT_v02", "QMI_LOC_EVENT_MASK_BS_OBS_DATA_SERVICE_REQ_V02");
    ("QMI_LOC_EVENT_GPS_EPHEMERIS_REPORT_IND_V02", "qmiLocGpsEphemerisReportIndMsgT_v02", "QMI_LOC_EVENT_MASK_EPHEMERIS_REPORT_V02");
    ("QMI_LOC_EVENT_GLONASS_EPHEMERIS_REPORT_IND_V02", "qmiLocGloEphemerisReportIndMsgT_v02", "QMI_LOC_EVENT_MASK_EPHEMERIS_REPORT_V02");
    ("QMI_LOC_EVENT_BDS_EPHEMERIS_REPORT_IND_V02", "qmiLocBdsEphemerisReportIndMsgT_v02", "QMI_LOC_EVENT_MASK_EPHEMERIS_REPORT_V02");
    ("QMI_LOC_EVENT_GALILEO_EPHEMERIS_REPORT_IND_V02", "qmiLocGalEphemerisReportIndMsgT_v02", "QMI_LOC_EVENT_MASK_EPHEMERIS_REPORT_V02");
    ("QMI_LOC_EVENT_QZSS_EPHEMERIS_REPORT_IND_V02", "qmiLocQzssEphemerisReportIndMsgT_v02", "QMI_LOC_EVENT_MASK_EPHEMERIS_REPORT_V02");
    ("QMI_LOC_EVENT_REPORT_IND_V02", "qmiLocEventReportIndMsgT_v02", "QMI_LOC_EVENT_MASK_EPHEMERIS_REPORT_V02");
    ("QMI_LOC_SYSTEM_INFO_IND_V02", "qmiLocSystemInfoIndMsgT_v02", "QMI_LOC_SYSTEM_INFO_IND_V02");
    ("QMI_LOC_GET_BAND_MEASUREMENT_METRICS_IND_V02", "qmiLocGetBandMeasurementMetricsIndMsgT_v02", "QMI_LOC_EVENT_MASK_GET_BAND_MEASUREMENT_METRICS_V02");
    ("QMI_LOC_LOCATION_REQUEST_NOTIFICATION_IND_V02", "qmiLocLocationRequestNotificationIndMsgT_v02", "QMI_LOC_LOCATION_REQUEST_NOTIFICATION_IND_V02");
    ("QMI_LOC_EVENT_QUERY_XTRA_INFO_REQ_IND_V02", "qmiLocEventQueryXtraInfoReqIndMsgT_v02", "QMI_LOC_EVENT_MASK_QUERY_XTRA_INFO_V02");
    ("QMI_LOC_LATENCY_INFORMATION_IND_V02", "qmiLocLatencyInformationIndMsgT_v02", "QMI_LOC_EVENT_MASK_LATENCY_INFORMATION_REPORT_V02");
    ("QMI_LOC_EVENT_ENGINE_LOCK_STATE_IND_V02", "qmiLocEventEngineLockStateIndMsgT_v02", "QMI_LOC_EVENT_MASK_ENGINE_LOCK_STATE_V02") ].

Definition locClientEventIndTable : list (string * string * string) :=
  locClientEventIndTable_1 ++ locClientEventIndTable_2.

(** Response indication id, struct. *)
Definition locClientRespIndTable_1 : list (string * string) := [
    ("QMI_LOC_GET_SERVICE_REVISION_IND_V02", "qmiLocGetServiceRevisionIndMsgT_v02");
    ("QMI_LOC_GET_FIX_CRITERIA_IND_V02", "qmiLocGetFixCriteriaIndMsgT_v02");
    ("QMI_LOC_NI_USER_RESPONSE_IND_V02", "qmiLocNiUserRespIndMsgT_v02");
    ("QMI_LOC_INJECT_PREDICTED_ORBITS_DATA_IND_V02", "qmiLocInjectPredictedOrbitsDataIndMsgT_v02");
    ("QMI_LOC_GET_PREDICTED_ORBITS_DATA_SOURCE_IND_V02", "qmiLocGetPredictedOrbitsDataSourceIndMsgT_v02");
    ("QMI_LOC_GET_PREDICTED_ORBITS_DATA_VALIDITY_IND_V02", "qmiLocGetPredictedOrbitsDataValidityIndMsgT_v02");
    ("QMI_LOC_INJECT_UTC_TIME_IND_V02", "qmiLocInjectUtcTimeIndMsgT_v02");
    ("QMI_LOC_INJECT_POSITION_IND_V02", "qmiLocInjectPositionIndMsgT_v02");
    ("QMI_LOC_SET_ENGINE_LOCK_IND_V02", "qmiLocSetEngineLockIndMsgT_v02");
    ("QMI_LOC_GET_ENGINE_LOCK_IND_V02", "qmiLocGetEngineLockIndMsgT_v02");
    ("QMI_LOC_SET_SBAS_CONFIG_IND_V02", "qmiLocSetSbasConfigIndMsgT_v02");
    ("QMI_LOC_GET_SBAS_CONFIG_IND_V02", "qmiLocGetSbasConfigIndMsgT_v02");
    ("QMI_LOC_SET_NMEA_TYPES_IND_V02", "qmiLocSetNmeaTypesIndMsgT_v02");
    ("QMI_LOC_GET_NMEA_TYPES_IND_V02", "qmiLocGetNmeaTypesIndMsgT_v02");
    ("QMI_LOC_SET_LOW_POWER_MODE_IND_V02", "qmiLocSetLowPowerModeIndMsgT_v02");
    ("QMI_LOC_GET_LOW_POWER_MODE_IND_V02", "qmiLocGetLowPowerModeIndMsgT_v02");
    ("QMI_LOC_SET_SERVER_IND_V02", "qmiLocSetServerIndMsgT_v02");
    ("QMI_LOC_GET_SERVER_IND_V02", "qmiLocGetServerIndMsgT_v02");
    ("QMI_LOC_DELETE_ASSIST_DATA_IND_V02", "qmiLocDeleteAssistDataIndMsgT_v02");
    ("QMI_LOC_INJECT_APCACHE_DATA_IND_V02", "qmiLocInjectApCacheDataIndMsgT_v02");
    ("QMI_LOC_INJECT_APDONOTCACHE_DATA_IND_V02", "qmiLocInjectApDoNotCacheDataIndMsgT_v02");
    ("QMI_LOC_SET_XTRA_T_SESSION_CONTROL_IND_V02", "qmiLocSetXtraTSessionControlIndMsgT_v02");
    ("QMI_LOC_GET_XTRA_T_SESSION_CONTROL_IND_V02", "qmiLocGetXtraTSessionControlIndMsgT_v02");
    ("QMI_LOC_INJECT_WIFI_POSITION_IND_V02", "qmiLocInjectWifiPositionIndMsgT_v02");
    ("QMI_LOC_NOTIFY_WIFI_STATUS_IND_V02", "qmiLocNotifyWifiStatusIndMsgT_v02");
    ("QMI_LOC_GET_REGISTERED_EVENTS_IND_V02", "qmiLocGetRegisteredEventsIndMsgT_v02");
    ("QMI_LOC_SET_OPERATION_MODE_IND_V02", "qmiLocSetOperationModeIndMsgT_v02");
    ("QMI_LOC_GET_OPERATION_MODE_IND_V02", "qmiLocGetOperationModeIndMsgT_v02");
    ("QMI_LOC_SET_SPI_STATUS_IND_V02", "qmiLocSetSpiStatusIndMsgT_v02");
    ("QMI_LOC_INJECT_SENSOR_DATA_IND_V02", "qmiLocInjectSensorDataIndMsgT_v02");
    ("QMI_LOC_INJECT_TIME_SYNC_DATA_IND_V02", "qmiLocInjectTimeSyncDataIndMsgT_v02");
    ("QMI_LOC_SET_CRADLE_MOUNT_CONFIG_IND_V02", "qmiLocSetCradleMountConfigIndMsgT_v02");
    ("QMI_LOC_GET_CRADLE_MOUNT_CONFIG_IND_V02", "qmiLocGetCradleMountConfigIndMsgT_v02");
    ("QMI_LOC_SET_EXTERNAL_POWER_CONFIG_IND_V02", "qmiLocSetExternalPowerConfigIndMsgT_v02");
    ("QMI_LOC_GET_EXTERNAL_POWER_CONFIG_IND_V02", "qmiLocGetExternalPowerConfigIndMsgT_v02");
    ("QMI_LOC_INFORM_LOCATION_SERVER_CONN_STATUS_IND_V02", "qmiLocInformLocationServerConnStatusIndMsgT_v02");
    ("QMI_LOC_SET_PROTOCOL_CONFIG_PARAMETERS_IND_V02", "qmiLocSetProtocolConfigParametersIndMsgT_v02");
    ("QMI_LOC_GET_PROTOCOL_CONFIG_PARAMETERS_IND_V02", "qmiLocGetProtocolConfigParametersIndMsgT_v02") ].

Definition locClientRespIndTable_2 : list (string * string) := [
    ("QMI_LOC_SET_SENSOR_CONTROL_CONFIG_IND_V02", "qmiLocSetSensorControlConfigIndMsgT_v02");
    ("QMI_LOC_GET_SENSOR_CONTROL_CONFIG_IND_V02", "qmiLocGetSensorControlConfigIndMsgT_v02");
    ("QMI_LOC_SET_SENSOR_PROPERTIES_IND_V02", "qmiLocSetSensorPropertiesIndMsgT_v02");
    ("QMI_LOC_GET_SENSOR_PROPERTIES_IND_V02", "qmiLocGetSensorPropertiesIndMsgT_v02");
    ("QMI_LOC_SET_SENSOR_PERFORMANCE_CONTROL_CONFIGURATION_IND_V02", "qmiLocSetSensorPerformanceControlConfigIndMsgT_v02");
    ("QMI_LOC_GET_SENSOR_PERFORMANCE_CONTROL_CONFIGURATION_IND_V02", "qmiLocGetSensorPerformanceControlConfigIndMsgT_v02");
    ("QMI_LOC_INJECT_SUPL_CERTIFICATE_IND_V02", "qmiLocInjectSuplCertificateIndMsgT_v02");
    ("QMI_LOC_DELETE_SUPL_CERTIFICATE_IND_V02", "qmiLocDeleteSuplCertificateIndMsgT_v02");
    ("QMI_LOC_SET_POSITION_ENGINE_CONFIG_PARAMETERS_IND_V02", "qmiLocSetPositionEngineConfigParametersIndMsgT_v02");
    ("QMI_LOC_GET_POSITION_ENGINE_CONFIG_PARAMETERS_IND_V02", "qmiLocGetPositionEngineConfigParametersIndMsgT_v02");
    ("QMI_LOC_ADD_CIRCULAR_GEOFENCE_IND_V02", "qmiLocAddCircularGeofenceIndMsgT_v02");
    ("QMI_LOC_DELETE_GEOFENCE_IND_V02", "qmiLocDeleteGeofenceIndMsgT_v02");
    ("QMI_LOC_QUERY_GEOFENCE_IND_V02", "qmiLocQueryGeofenceIndMsgT_v02");
    ("QMI_LOC_EDIT_GEOFENCE_IND_V02", "qmiLocEditGeofenceIndMsgT_v02");
    ("QMI_LOC_GET_BEST_AVAILABLE_POSITION_IND_V02", "qmiLocGetBestAvailablePositionIndMsgT_v02");
    ("QMI_LOC_SECURE_GET_AVAILABLE_POSITION_IND_V02", "qmiLocSecureGetAvailablePositionIndMsgT_v02");
    ("QMI_LOC_INJECT_MOTION_DATA_IND_V02", "qmiLocInjectMotionDataIndMsgT_v02");
    ("QMI_LOC_GET_NI_GEOFENCE_ID_LIST_IND_V02", "qmiLocGetNiGeofenceIdListIndMsgT_v02");
    ("QMI_LOC_INJECT_GSM_CELL_INFO_IND_V02", "qmiLocInjectGSMCellInfoIndMsgT_v02");
    ("QMI_LOC_INJECT_NETWORK_INITIATED_MESSAGE_IND_V02", "qmiLocInjectNetworkInitiatedMessageIndMsgT_v02");
    ("QMI_LOC_WWAN_OUT_OF_SERVICE_NOTIFICATION_IND_V02", "qmiLocWWANOutOfServiceNotificationIndMsgT_v02");
    ("QMI_LOC_PEDOMETER_REPORT_IND_V02", "qmiLocPedometerReportIndMsgT_v02");
    ("QMI_LOC_INJECT_WCDMA_CELL_INFO_IND_V02", "qmiLocInjectWCDMACellInfoIndMsgT_v02");
    ("QMI_LOC_INJECT_TDSCDMA_CELL_INFO_IND_V02", "qmiLocInjectTDSCDMACellInfoIndMsgT_v02");
    ("QMI_LOC_INJECT_SUBSCRIBER_ID_IND_V02", "qmiLocInjectSubscriberIDIndMsgT_v02");
    ("QMI_LOC_INJECT_WIFI_AP_DATA_IND_V02", "qmiLocInjectWifiApDataIndMsgT_v02");
    ("QMI_LOC_START_BATCHING_IND_V02", "qmiLocStartBatchingIndMsgT_v02");
    ("QMI_LOC_STOP_BATCHING_IND_V02", "qmiLocStopBatchingIndMsgT_v02");
    ("QMI_LOC_GET_BATCH_SIZE_IND_V02", "qmiLocGetBatchSizeIndMsgT_v02");
    ("QMI_LOC_EVENT_LIVE_BATCHED_POSITION_REPORT_IND_V02", "qmiLocEventLiveBatchedPositionReportIndMsgT_v02");
    ("QMI_LOC_EVENT_BATCH_FULL_NOTIFICATION_IND_V02", "qmiLocEventBatchFullIndMsgT_v02");
    ("QMI_LOC_READ_FROM_BATCH_IND_V02", "qmiLocReadFromBatchIndMsgT_v02");
    ("QMI_LOC_RELEASE_BATCH_IND_V02", "qmiLocReleaseBatchIndMsgT_v02");
    ("QMI_LOC_SET_XTRA_VERSION_CHECK_IND_V02", "qmiLocSetXtraVersionCheckIndMsgT_v02");
    ("QMI_LOC_INJECT_VEHICLE_SENSOR_DATA_IND_V02", "qmiLocInjectVehicleSensorDataIndMsgT_v02");
    ("QMI_LOC_NOTIFY_WIFI_ATTACHMENT_STATUS_IND_V02", "qmiLocNotifyWifiAttachmentStatusIndMsgT_v02");
    ("QMI_LOC_NOTIFY_WIFI_ENABLED_STATUS_IND_V02", "qmiLocNotifyWifiEnabledStatusIndMsgT_v02");
    ("QMI_LOC_SET_PREMIUM_SERVICES_CONFIG_IND_V02", "qmiLocSetPremiumServicesCfgIndMsgT_v02");
    ("QMI_LOC_GET_AVAILABLE_WWAN_POSITION_IND_V02", "qmiLocGetAvailWwanPositionIndMsgT_v02");
    ("QMI_LOC_INJECT_GTP_CLIENT_DOWNLOADED_DATA_IND_V02", "qmiLocInjectGtpClientDownloadedDataIndMsgT_v02");
    ("QMI_LOC_GDT_UPLOAD_BEGIN_STATUS_IND_V02", "qmiLocGdtUploadBeginStatusIndMsgT_v02");
    ("QMI_LOC_GDT_UPLOAD_END_IND_V02", "qmiLocGdtUploadEndIndMsgT_v02") ].

Definition locClientRespIndTable_3 : list (string * string) := [
    ("QMI_LOC_SET_GNSS_CONSTELL_REPORT_CONFIG_IND_V02", "qmiLocSetGNSSConstRepConfigIndMsgT_v02");
    ("QMI_LOC_START_DBT_IND_V02", "qmiLocStartDbtIndMsgT_v02");
    ("QMI_LOC_STOP_DBT_IND_V02", "qmiLocStopDbtIndMsgT_v02");
    ("QMI_LOC_INJECT_TIME_ZONE_INFO_IND_V02", "qmiLocInjectTimeZoneInfoIndMsgT_v02");
    ("QMI_LOC_QUERY_AON_CONFIG_IND_V02", "qmiLocQueryAonConfigIndMsgT_v02");
    ("QMI_LOC_GTP_AP_STATUS_IND_V02", "qmiLocGtpApStatusIndMsgT_v02");
    ("QMI_LOC_GDT_DOWNLOAD_BEGIN_STATUS_IND_V02", "qmiLocGdtDownloadBeginStatusIndMsgT_v02");
    ("QMI_LOC_GDT_DOWNLOAD_READY_STATUS_IND_V02", "qmiLocGdtDownloadReadyStatusIndMsgT_v02");
    ("QMI_LOC_GDT_RECEIVE_DONE_STATUS_IND_V02", "qmiLocGdtReceiveDoneStatusIndMsgT_v02");
    ("QMI_LOC_GDT_DOWNLOAD_END_STATUS_IND_V02", "qmiLocGdtDownloadEndStatusIndMsgT_v02");
    ("QMI_LOC_GET_SUPPORTED_FEATURE_IND_V02", "qmiLocGetSupportedFeatureIndMsgT_v02");
    ("QMI_LOC_DELETE_GNSS_SERVICE_DATA_IND_V02", "qmiLocDeleteGNSSServiceDataIndMsgT_v02");
    ("QMI_LOC_INJECT_XTRA_DATA_IND_V02", "qmiLocInjectXtraDataIndMsgT_v02");
    ("QMI_LOC_INJECT_XTRA_PCID_IND_V02", "qmiLocInjectXtraPcidIndMsgT_v02");
    ("QMI_LOC_INJECT_SRN_AP_DATA_IND_V02", "qmiLocInjectSrnApDataIndMsgT_v02");
    ("QMI_LOC_CROWDSOURCE_MANAGER_CONTROL_IND_V02", "qmiLocCrowdSourceManagerControlIndMsgT_v02");
    ("QMI_LOC_QUERY_XTRA_INFO_IND_V02", "qmiLocQueryXtraInfoIndMsgT_v02");
    ("QMI_LOC_START_OUTDOOR_TRIP_BATCHING_IND_V02", "qmiLocStartOutdoorTripBatchingIndMsgT_v02");
    ("QMI_LOC_QUERY_OTB_ACCUMULATED_DISTANCE_IND_V02", "qmiLocQueryOTBAccumulatedDistanceIndMsgT_v02");
    ("QMI_LOC_GET_FDCL_BS_LIST_IND_V02", "qmiLocGetFdclBsListIndMsgT_v02");
    ("QMI_LOC_INJECT_FDCL_DATA_IND_V02", "qmiLocInjectFdclDataIndMsgT_v02");
    ("QMI_LOC_GET_BS_OBS_DATA_IND_V02", "qmiLocGetBsObsDataIndMsgT_v02");
    ("QMI_LOC_SET_BLACKLIST_SV_IND_V02", "qmiLocGenReqStatusIndMsgT_v02");
    ("QMI_LOC_REGISTER_MASTER_CLIENT_IND_V02", "qmiLocRegisterMasterClientIndMsgT_v02");
    ("QMI_LOC_GET_BLACKLIST_SV_IND_V02", "qmiLocGetBlacklistSvIndMsgT_v02");
    ("QMI_LOC_SET_CONSTELLATION_CONTROL_IND_V02", "qmiLocGenReqStatusIndMsgT_v02");
    ("QMI_LOC_GET_CONSTELLATION_CONTROL_IND_V02", "qmiLocGetConstellationConfigIndMsgT_v02");
    ("QMI_LOC_SET_CONSTRAINED_TUNC_MODE_IND_V02", "qmiLocSetConstrainedTuncModeIndMsgT_v02");
    ("QMI_LOC_ENABLE_POSITION_ASSISTED_CLOCK_EST_IND_V02", "qmiLocEnablePositionAssistedClockEstIndMsgT_v02");
    ("QMI_LOC_QUERY_GNSS_ENERGY_CONSUMED_IND_V02", "qmiLocQueryGNSSEnergyConsumedIndMsgT_v02");
    ("QMI_LOC_INJECT_PLATFORM_POWER_STATE_IND_V02", "qmiLocInjectPlatformPowerStateIndMsgT_v02");
    ("QMI_LOC_SET_ROBUST_LOCATION_CONFIG_IND_V02", "qmiLocGenReqStatusIndMsgT_v02");
    ("QMI_LOC_GET_ROBUST_LOCATION_CONFIG_IND_V02", "qmiLocGetRobustLocationConfigIndMsgT_v02");
    ("QMI_LOC_INJECT_ENV_AIDING_IND_V02", "qmiLocGenReqStatusIndMsgT_v02");
    ("QMI_LOC_SET_MIN_GPS_WEEK_NUMBER_IND_V02", "qmiLocGenReqStatusIndMsgT_v02");
    ("QMI_LOC_GET_MIN_GPS_WEEK_NUMBER_IND_V02", "qmiLocGetMinGpsWeekNumberIndMsgT_v02");
    ("QMI_LOC_SET_PARAMETER_IND_V02", "qmiLocGenReqStatusIndMsgT_v02");
    ("QMI_LOC_GET_PARAMETER_IND_V02", "qmiLocGetParameterIndMsgT_v02");
    ("QMI_LOC_SET_MULTIBAND_CONFIG_IND_V02", "qmiLocGenReqStatusIndMsgT_v02");
    ("QMI_LOC_GET_MULTIBAND_CONFIG_IND_V02", "qmiLocGetMultibandConfigIndMsgT_v02") ].

Definition locClientRespIndTable : list (string * string) :=
  locClientRespIndTable_1 ++ locClientRespIndTable_2 ++ locClientRespIndTable_3.

(** Case labels, and the struct of the payload unless noPayloadFlag is set. *)
Definition validateRequest_cases_1 : list (list string * option string) := [
    (["QMI_LOC_INFORM_CLIENT_REVISION_REQ_V02"], Some "qmiLocInformClientRevisionReqMsgT_v02");
    (["QMI_LOC_REG_EVENTS_REQ_V02"], Some "qmiLocRegEventsReqMsgT_v02");
    (["QMI_LOC_START_REQ_V02"], Some "qmiLocStartReqMsgT_v02");
    (["QMI_LOC_STOP_REQ_V02"], Some "qmiLocStopReqMsgT_v02");
    (["QMI_LOC_NI_USER_RESPONSE_REQ_V02"], Some "qmiLocNiUserRespReqMsgT_v02");
    (["QMI_LOC_INJECT_PREDICTED_ORBITS_DATA_REQ_V02"], Some "qmiLocInjectPredictedOrbitsDataReqMsgT_v02");
    (["QMI_LOC_INJECT_UTC_TIME_REQ_V02"], Some "qmiLocInjectUtcTimeReqMsgT_v02");
    (["QMI_LOC_INJECT_POSITION_REQ_V02"], Some "qmiLocInjectPositionReqMsgT_v02");
    (["QMI_LOC_SET_ENGINE_LOCK_REQ_V02"], Some "qmiLocSetEngineLockReqMsgT_v02");
    (["QMI_LOC_SET_SBAS_CONFIG_REQ_V02"], Some "qmiLocSetSbasConfigReqMsgT_v02");
    (["QMI_LOC_SET_NMEA_TYPES_REQ_V02"], Some "qmiLocSetNmeaTypesReqMsgT_v02");
    (["QMI_LOC_SET_LOW_POWER_MODE_REQ_V02"], Some "qmiLocSetLowPowerModeReqMsgT_v02");
    (["QMI_LOC_SET_SERVER_REQ_V02"], Some "qmiLocSetServerReqMsgT_v02");
    (["QMI_LOC_DELETE_ASSIST_DATA_REQ_V02"], Some "qmiLocDeleteAssistDataReqMsgT_v02");
    (["QMI_LOC_INJECT_APCACHE_DATA_REQ_V02"], Some "qmiLocInjectApCacheDataReqMsgT_v02");
    (["QMI_LOC_INJECT_APDONOTCACHE_DATA_REQ_V02"], Some "qmiLocInjectApDoNotCacheDataReqMsgT_v02");
    (["QMI_LOC_SET_XTRA_T_SESSION_CONTROL_REQ_V02"], Some "qmiLocSetXtraTSessionControlReqMsgT_v02");
    (["QMI_LOC_INJECT_WIFI_POSITION_REQ_V02"], Some "qmiLocInjectWifiPositionReqMsgT_v02");
    (["QMI_LOC_NOTIFY_WIFI_STATUS_REQ_V02"], Some "qmiLocNotifyWifiStatusReqMsgT_v02");
    (["QMI_LOC_SET_OPERATION_MODE_REQ_V02"], Some "qmiLocSetOperationModeReqMsgT_v02");
    (["QMI_LOC_SET_SPI_STATUS_REQ_V02"], Some "qmiLocSetSpiStatusReqMsgT_v02");
    (["QMI_LOC_INJECT_SENSOR_DATA_REQ_V02"], Some "qmiLocInjectSensorDataReqMsgT_v02");
    (["QMI_LOC_INJECT_TIME_SYNC_DATA_REQ_V02"], Some "qmiLocInjectTimeSyncDataReqMsgT_v02");
    (["QMI_LOC_SET_CRADLE_MOUNT_CONFIG_REQ_V02"], Some "qmiLocSetCradleMountConfigReqMsgT_v02");
    (["QMI_LOC_SET_EXTERNAL_POWER_CONFIG_REQ_V02"], Some "qmiLocSetExternalPowerConfigReqMsgT_v02") ].

Definition validateRequest_cases_2 : list (list string * option string) := [
    (["QMI_LOC_INFORM_LOCATION_SERVER_CONN_STATUS_REQ_V02"], Some "qmiLocInformLocationServerConnStatusReqMsgT_v02");
    (["QMI_LOC_SET_PROTOCOL_CONFIG_PARAMETERS_REQ_V02"], Some "qmiLocSetProtocolConfigParametersReqMsgT_v02");
    (["QMI_LOC_GET_PROTOCOL_CONFIG_PARAMETERS_REQ_V02"], Some "qmiLocGetProtocolConfigParametersReqMsgT_v02");
    (["QMI_LOC_SET_SENSOR_CONTROL_CONFIG_REQ_V02"], Some "qmiLocSetSensorControlConfigReqMsgT_v02");
    (["QMI_LOC_GET_SENSOR_PROPERTIES_REQ_V02"], Some "qmiLocGetSensorPropertiesReqMsgT_v02");
    (["QMI_LOC_SET_SENSOR_PROPERTIES_REQ_V02"], Some "qmiLocSetSensorPropertiesReqMsgT_v02");
    (["QMI_LOC_SET_SENSOR_PERFORMANCE_CONTROL_CONFIGURATION_REQ_V02"], Some "qmiLocSetSensorPerformanceControlConfigReqMsgT_v02");
    (["QMI_LOC_INJECT_SUPL_CERTIFICATE_REQ_V02"], Some "qmiLocInjectSuplCertificateReqMsgT_v02");
    (["QMI_LOC_DELETE_SUPL_CERTIFICATE_REQ_V02"], Some "qmiLocDeleteSuplCertificateReqMsgT_v02");
    (["QMI_LOC_SET_POSITION_ENGINE_CONFIG_PARAMETERS_REQ_V02"], Some "qmiLocSetPositionEngineConfigParametersReqMsgT_v02");
    (["QMI_LOC_GET_POSITION_ENGINE_CONFIG_PARAMETERS_REQ_V02"], Some "qmiLocGetPositionEngineConfigParametersReqMsgT_v02");
    (["QMI_LOC_ADD_CIRCULAR_GEOFENCE_REQ_V02"], Some "qmiLocAddCircularGeofenceReqMsgT_v02");
    (["QMI_LOC_DELETE_GEOFENCE_REQ_V02"], Some "qmiLocDeleteGeofenceReqMsgT_v02");
    (["QMI_LOC_QUERY_GEOFENCE_REQ_V02"], Some "qmiLocQueryGeofenceReqMsgT_v02");
    (["QMI_LOC_EDIT_GEOFENCE_REQ_V02"], Some "qmiLocEditGeofenceReqMsgT_v02");
    (["QMI_LOC_GET_BEST_AVAILABLE_POSITION_REQ_V02"], Some "qmiLocGetBestAvailablePositionReqMsgT_v02");
    (["QMI_LOC_SECURE_GET_AVAILABLE_POSITION_REQ_V02"], Some "qmiLocSecureGetAvailablePositionReqMsgT_v02");
    (["QMI_LOC_INJECT_MOTION_DATA_REQ_V02"], Some "qmiLocInjectMotionDataReqMsgT_v02");
    (["QMI_LOC_GET_NI_GEOFENCE_ID_LIST_REQ_V02"], Some "qmiLocGetNiGeofenceIdListReqMsgT_v02");
    (["QMI_LOC_INJECT_GSM_CELL_INFO_REQ_V02"], Some "qmiLocInjectGSMCellInfoReqMsgT_v02");
    (["QMI_LOC_INJECT_NETWORK_INITIATED_MESSAGE_REQ_V02"], Some "qmiLocInjectNetworkInitiatedMessageReqMsgT_v02");
    (["QMI_LOC_PEDOMETER_REPORT_REQ_V02"], Some "qmiLocPedometerReportReqMsgT_v02");
    (["QMI_LOC_INJECT_WCDMA_CELL_INFO_REQ_V02"], Some "qmiLocInjectWCDMACellInfoReqMsgT_v02");
    (["QMI_LOC_INJECT_TDSCDMA_CELL_INFO_REQ_V02"], Some "qmiLocInjectTDSCDMACellInfoReqMsgT_v02");
    (["QMI_LOC_INJECT_SUBSCRIBER_ID_REQ_V02"], Some "qmiLocInjectSubscriberIDReqMsgT_v02");
    (["QMI_LOC_INJECT_WIFI_AP_DATA_REQ_V02"], Some "qmiLocInjectWifiApDataReqMsgT_v02") ].

Definition validateRequest_cases_3 : list (list string * option string) := [
    (["QMI_LOC_GET_BATCH_SIZE_REQ_V02"], Some "qmiLocGetBatchSizeReqMsgT_v02");
    (["QMI_LOC_START_BATCHING_REQ_V02"], Some "qmiLocStartBatchingReqMsgT_v02");
    (["QMI_LOC_READ_FROM_BATCH_REQ_V02"], Some "qmiLocReadFromBatchReqMsgT_v02");
    (["QMI_LOC_STOP_BATCHING_REQ_V02"], Some "qmiLocStopBatchingReqMsgT_v02");
    (["QMI_LOC_RELEASE_BATCH_REQ_V02"], Some "qmiLocReleaseBatchReqMsgT_v02");
    (["QMI_LOC_SET_XTRA_VERSION_CHECK_REQ_V02"], Some "qmiLocSetXtraVersionCheckReqMsgT_v02");
    (["QMI_LOC_INJECT_VEHICLE_SENSOR_DATA_REQ_V02"], Some "qmiLocInjectVehicleSensorDataReqMsgT_v02");
    (["QMI_LOC_NOTIFY_WIFI_ATTACHMENT_STATUS_REQ_V02"], Some "qmiLocNotifyWifiAttachmentStatusReqMsgT_v02");
    (["QMI_LOC_NOTIFY_WIFI_ENABLED_STATUS_REQ_V02"], Some "qmiLocNotifyWifiEnabledStatusReqMsgT_v02");
    (["QMI_LOC_SET_PREMIUM_SERVICES_CONFIG_REQ_V02"], Some "qmiLocSetPremiumServicesCfgReqMsgT_v02");
    (["QMI_LOC_GET_AVAILABLE_WWAN_POSITION_REQ_V02"], Some "qmiLocGetAvailWwanPositionReqMsgT_v02");
    (["QMI_LOC_INJECT_GTP_CLIENT_DOWNLOADED_DATA_REQ_V02"], Some "qmiLocInjectGtpClientDownloadedDataReqMsgT_v02");
    (["QMI_LOC_GDT_UPLOAD_BEGIN_STATUS_REQ_V02"], Some "qmiLocGdtUploadBeginStatusReqMsgT_v02");
    (["QMI_LOC_GDT_UPLOAD_END_REQ_V02"], Some "qmiLocGdtUploadEndReqMsgT_v02");
    (["QMI_LOC_SET_GNSS_CONSTELL_REPORT_CONFIG_V02"], Some "qmiLocSetGNSSConstRepConfigReqMsgT_v02");
    (["QMI_LOC_START_DBT_REQ_V02"], Some "qmiLocStartDbtReqMsgT_v02");
    (["QMI_LOC_STOP_DBT_REQ_V02"], Some "qmiLocStopDbtReqMsgT_v02");
    (["QMI_LOC_INJECT_TIME_ZONE_INFO_REQ_V02"], Some "qmiLocInjectTimeZoneInfoReqMsgT_v02");
    (["QMI_LOC_QUERY_AON_CONFIG_REQ_V02"], Some "qmiLocQueryAonConfigReqMsgT_v02");
    (["QMI_LOC_GTP_AP_STATUS_REQ_V02"], Some "qmiLocGtpApStatusReqMsgT_v02");
    (["QMI_LOC_GDT_DOWNLOAD_BEGIN_STATUS_REQ_V02"], Some "qmiLocGdtDownloadBeginStatusReqMsgT_v02");
    (["QMI_LOC_GDT_DOWNLOAD_READY_STATUS_REQ_V02"], Some "qmiLocGdtDownloadReadyStatusReqMsgT_v02");
    (["QMI_LOC_GDT_RECEIVE_DONE_STATUS_REQ_V02"], Some "qmiLocGdtReceiveDoneStatusReqMsgT_v02");
    (["QMI_LOC_GDT_DOWNLOAD_END_STATUS_REQ_V02"], Some "qmiLocGdtDownloadEndStatusReqMsgT_v02");
    (["QMI_LOC_GET_SUPPORTED_FEATURE_REQ_V02"], Some "qmiLocGetSupportedFeatureReqMsgT_v02") ].

Definition validateRequest_cases_4 : list (list string * option string) := [
    (["QMI_LOC_DELETE_GNSS_SERVICE_DATA_REQ_V02"], Some "qmiLocDeleteGNSSServiceDataReqMsgT_v02");
    (["QMI_LOC_INJECT_XTRA_DATA_REQ_V02"], Some "qmiLocInjectXtraDataReqMsgT_v02");
    (["QMI_LOC_INJECT_XTRA_PCID_REQ_V02"], Some "qmiLocInjectXtraPcidReqMsgT_v02");
    (["QMI_LOC_INJECT_SRN_AP_DATA_REQ_V02"], Some "qmiLocInjectSrnApDataReqMsgT_v02");
    (["QMI_LOC_CROWDSOURCE_MANAGER_CONTROL_REQ_V02"], Some "qmiLocCrowdSourceManagerControlReqMsgT_v02");
    (["QMI_LOC_CROWDSOURCE_MANAGER_READ_DATA_REQ_V02"], Some "qmiLocCrowdSourceManagerReadDataReqMsgT_v02");
    (["QMI_LOC_QUERY_XTRA_INFO_REQ_V02"], Some "qmiLocQueryXtraInfoReqMsgT_v02");
    (["QMI_LOC_START_OUTDOOR_TRIP_BATCHING_REQ_V02"], Some "qmiLocStartOutdoorTripBatchingReqMsgT_v02");
    (["QMI_LOC_GET_FDCL_BS_LIST_REQ_V02"], Some "qmiLocGetFdclBsListReqMsgT_v02");
    (["QMI_LOC_INJECT_FDCL_DATA_REQ_V02"], Some "qmiLocInjectFdclDataReqMsgT_v02");
    (["QMI_LOC_SET_BLACKLIST_SV_REQ_V02"], Some "qmiLocSetBlacklistSvReqMsgT_v02");
    (["QMI_LOC_SET_CONSTELLATION_CONTROL_REQ_V02"], Some "qmiLocSetConstellationConfigReqMsgT_v02");
    (["QMI_LOC_REGISTER_MASTER_CLIENT_REQ_V02"], Some "qmiLocRegisterMasterClientReqMsgT_v02");
    (["QMI_LOC_GET_BS_OBS_DATA_REQ_V02"], Some "qmiLocGetBsObsDataReqMsgT_v02");
    (["QMI_LOC_SET_CONSTRAINED_TUNC_MODE_REQ_V02"], Some "qmiLocSetConstrainedTuncModeReqMsgT_v02");
    (["QMI_LOC_ENABLE_POSITION_ASSISTED_CLOCK_EST_REQ_V02"], Some "qmiLocEnablePositionAssistedClockEstReqMsgT_v02");
    (["QMI_LOC_QUERY_GNSS_ENERGY_CONSUMED_REQ_V02"], Some "qmiLocQueryGNSSEnergyConsumedReqMsgT_v02");
    (["QMI_LOC_INJECT_PLATFORM_POWER_STATE_REQ_V02"], Some "qmiLocInjectPlatformPowerStateReqMsgT_v02");
    (["QMI_LOC_SET_ROBUST_LOCATION_CONFIG_REQ_V02"], Some "qmiLocSetRobustLocationReqMsgT_v02");
    (["QMI_LOC_INJECT_ENV_AIDING_REQ_V02"], Some "qmiLocEventInjectEnvAidingReqMsgT_v02");
    (["QMI_LOC_SET_MIN_GPS_WEEK_NUMBER_REQ_V02"], Some "qmiLocSetMinGpsWeekNumberReqMsgT_v02");
    (["QMI_LOC_SET_PARAMETER_REQ_V02"], Some "qmiLocSetParameterReqMsgT_v02");
    (["QMI_LOC_GET_PARAMETER_REQ_V02"], Some "qmiLocGetParameterReqMsgT_v02");
    (["QMI_LOC_SET_MULTIBAND_CONFIG_REQ_V02"], Some "qmiLocSetMultibandConfigReqMsgT_v02") ].

Definition validateRequest_cases_5 : list (list string * option string) := [
    (["QMI_LOC_GET_SERVICE_REVISION_REQ_V02"; "QMI_LOC_GET_FIX_CRITERIA_REQ_V02"; "QMI_LOC_GET_PREDICTED_ORBITS_DATA_SOURCE_REQ_V02"; "QMI_LOC_GET_PREDICTED_ORBITS_DATA_VALIDITY_REQ_V02"; "QMI_LOC_GET_ENGINE_LOCK_REQ_V02"; "QMI_LOC_GET_SBAS_CONFIG_REQ_V02"; "QMI_LOC_GET_NMEA_TYPES_REQ_V02"; "QMI_LOC_GET_LOW_POWER_MODE_REQ_V02"; "QMI_LOC_GET_SERVER_REQ_V02"; "QMI_LOC_GET_XTRA_T_SESSION_CONTROL_REQ_V02"; "QMI_LOC_GET_REGISTERED_EVENTS_REQ_V02"; "QMI_LOC_GET_OPERATION_MODE_REQ_V02"; "QMI_LOC_GET_CRADLE_MOUNT_CONFIG_REQ_V02"; "QMI_LOC_GET_EXTERNAL_POWER_CONFIG_REQ_V02"; "QMI_LOC_GET_SENSOR_CONTROL_CONFIG_REQ_V02"; "QMI_LOC_GET_SENSOR_PERFORMANCE_CONTROL_CONFIGURATION_REQ_V02"; "QMI_LOC_WWAN_OUT_OF_SERVICE_NOTIFICATION_REQ_V02"; "QMI_LOC_GET_SUPPORTED_MSGS_REQ_V02"; "QMI_LOC_GET_SUPPORTED_FIELDS_REQ_V02"; "QMI_LOC_QUERY_OTB_ACCUMULATED_DISTANCE_REQ_V02"; "QMI_LOC_GET_BLACKLIST_SV_REQ_V02"; "QMI_LOC_GET_CONSTELLATION_CONTROL_REQ_V02"; "QMI_LOC_GET_ROBUST_LOCATION_CONFIG_REQ_V02"; "QMI_LOC_GET_MIN_GPS_WEEK_NUMBER_REQ_V02"; "QMI_LOC_GET_MULTIBAND_CONFIG_REQ_V02"], None) ].

Definition validateRequest_cases : list (list string * option string) :=
  validateRequest_cases_1 ++ validateRequest_cases_2 ++ validateRequest_cases_3 ++ validateRequest_cases_4 ++ validateRequest_cases_5.
