(* ===== verification/LocClient.v ===== *)
(** loc_api_v02_client.cpp: the QMI client under LocApiV02.  Modelled are the
    lookup of indication sizes, the indication callback, the validation and
    sending of requests with its retries, and the check of supported messages
    with its static cache.  The QMI calls of qmi_client.h are parameters:
    [qmi_client_message_decode], and the answers of [qmi_client_send_msg_sync]
    per try.  Opening and closing a client (locClientOpen, locClientClose) are
    not modelled. *)

From stdpp Require Import strings list.
From S2P Require Import Prelude QmiIdl LocServiceStructs LocServiceTables LocService LocClientTables.

Local Open Scope Z_scope.

(** * Sizes of indications *)

Inductive locClientIndEnumT := eventIndType | respIndType.

Section client.
Context (ls : list (string * layout)).

(** sizeof of a struct of the header. *)
Definition sizeof (s : string) : Z := default 0 (l_size <$> assoc s ls).

Fixpoint locClientGetSizeByRespIndId_loop (t : list (string * string)) (respIndId : Z) : option Z :=
  match t with
  | [] => None
  | (id, s) :: t =>
    if decide (message_id id = Some respIndId) then Some (sizeof s)
    else locClientGetSizeByRespIndId_loop t respIndId
  end.
Definition locClientGetSizeByRespIndId : Z -> option Z :=
  locClientGetSizeByRespIndId_loop locClientRespIndTable.

Fixpoint locClientGetSizeByEventIndId_loop (t : list (string * string * string)) (eventIndId : Z) :
    option Z :=
  match t with
  | [] => None
  | (id, s, _) :: t =>
    if decide (message_id id = Some eventIndId) then Some (sizeof s)
    else locClientGetSizeByEventIndId_loop t eventIndId
  end.
Definition locClientGetSizeByEventIndId : Z -> option Z :=
  locClientGetSizeByEventIndId_loop locClientEventIndTable.

Definition locClientGetSizeAndTypeByIndId (indId : Z) : option (Z * locClientIndEnumT) :=
  match locClientGetSizeByEventIndId indId with
  | Some size => Some (size, eventIndType)
  | None =>
    match locClientGetSizeByRespIndId indId with
    | Some size => Some (size, respIndType)
    | None => None
    end
  end.

(** * The indication callback *)

(** The callback data of a client; [pMe] is the data's own address. *)
Record locClientCallbackDataType := CallbackData {
  pClientCookie : Z; userHandle : option Z; eventCallback : bool; respCallback : bool;
  eventRegMask : Z; pMe : option Z
}.

(** A call of a client's callback, with the decoded buffer. *)
Inductive indication :=
  | EventInd (handle msg_id : Z) (buf : list Z) (cookie : Z)
  | RespInd (handle msg_id : Z) (buf : list Z) (size : Z) (cookie : Z).

(** [decode msg_id ind_buf buf] is qmi_client_message_decode into the zeroed
    buffer [buf]: the decoded buffer, or [None] when it returns an error;
    [malloc_ok] tells whether malloc succeeds. *)
Definition locClientIndCb (decode : Z -> list Z -> list Z -> option (list Z)) (malloc_ok : bool)
    (pCallbackData : option (Z * locClientCallbackDataType)) (user_handle : Z) (msg_id : Z)
    (ind_buf : list Z) : list indication :=
  match pCallbackData with
  | None => []
  | Some (p, cb) =>
    if negb (bool_decide (pMe cb = Some p)) then [] else
    if negb (bool_decide (userHandle cb = Some user_handle)) then [] else
    match locClientGetSizeAndTypeByIndId msg_id with
    | None => []
    | Some (indSize, indType) =>
      if negb malloc_ok then [] else
      let indBuffer := replicate (Z.to_nat indSize) 0 in
      let rc := if (0 <? length ind_buf)%nat then decode msg_id ind_buf indBuffer
                else Some indBuffer in
      match rc with
      | None => []
      | Some indBuffer =>
        match indType with
        | eventIndType =>
          if eventCallback cb then [EventInd p msg_id indBuffer (pClientCookie cb)] else []
        | respIndType =>
          if respCallback cb then [RespInd p msg_id indBuffer indSize (pClientCookie cb)] else []
        end
      end
    end
  end.

(** * Requests *)

(** [reqPayload] is the pointer in the union of payload pointers.  Gives the
    pointer and length to send. *)
Fixpoint validateRequest_loop (cases : list (list string * option string)) (reqId : Z)
    (reqPayload : option Z) : option (option Z * Z) :=
  match cases with
  | [] => None
  | (labels, payload) :: cases =>
    if existsb (fun l => bool_decide (message_id l = Some reqId)) labels then
      match payload with
      | None => Some (None, 0)
      | Some s => Some (reqPayload, sizeof s)
      end
    else validateRequest_loop cases reqId reqPayload
  end.
Definition validateRequest : Z -> option Z -> option (option Z * Z) :=
  validateRequest_loop validateRequest_cases.

Inductive locClientStatusEnumType :=
  | eLOC_CLIENT_SUCCESS | eLOC_CLIENT_FAILURE_GENERAL | eLOC_CLIENT_FAILURE_UNSUPPORTED
  | eLOC_CLIENT_FAILURE_INVALID_PARAMETER | eLOC_CLIENT_FAILURE_ENGINE_BUSY
  | eLOC_CLIENT_FAILURE_PHONE_OFFLINE | eLOC_CLIENT_FAILURE_TIMEOUT
  | eLOC_CLIENT_FAILURE_SERVICE_NOT_PRESENT | eLOC_CLIENT_FAILURE_SERVICE_VERSION_UNSUPPORTED
  | eLOC_CLIENT_FAILURE_CLIENT_VERSION_UNSUPPORTED | eLOC_CLIENT_FAILURE_INVALID_HANDLE
  | eLOC_CLIENT_FAILURE_INTERNAL | eLOC_CLIENT_FAILURE_NOT_INITIALIZED
  | eLOC_CLIENT_FAILURE_NOT_ENOUGH_MEMORY | eLOC_CLIENT_FAILURE_INVALID_MESSAGE_ID.
#[export] Instance status_eq_dec : EqDecision locClientStatusEnumType.
Proof. solve_decision. Defined.

(** The codes of qmi_client.h and common_v01.h the client looks at. *)
Inductive qmi_client_error_type := QMI_NO_ERR | QMI_SERVICE_ERR | QMI_OTHER_ERR (code : Z).
Inductive qmi_error_type :=
  | QMI_ERR_MALFORMED_MSG_V01 | QMI_ERR_INVALID_ARG_V01 | QMI_ERR_DEVICE_IN_USE_V01
  | QMI_ERR_NOT_SUPPORTED_V01 | QMI_ERR_INVALID_MESSAGE_ID_V01 | QMI_ERR_SESSION_OWNERSHIP_V01
  | QMI_ERR_OTHER_V01 (code : Z).
#[export] Instance qmi_error_eq_dec : EqDecision qmi_error_type.
Proof. solve_decision. Defined.
Record qmi_response := Response { result_success : bool; error : qmi_error_type }.

Definition convertQmiResponseToLocStatus (r : qmi_response) : locClientStatusEnumType :=
  if result_success r then eLOC_CLIENT_SUCCESS
  else match error r with
       | QMI_ERR_MALFORMED_MSG_V01 | QMI_ERR_INVALID_ARG_V01 => eLOC_CLIENT_FAILURE_INVALID_PARAMETER
       | QMI_ERR_DEVICE_IN_USE_V01 => eLOC_CLIENT_FAILURE_ENGINE_BUSY
       | QMI_ERR_NOT_SUPPORTED_V01 => eLOC_CLIENT_FAILURE_UNSUPPORTED
       | QMI_ERR_INVALID_MESSAGE_ID_V01 => eLOC_CLIENT_FAILURE_INVALID_MESSAGE_ID
       | _ => eLOC_CLIENT_FAILURE_INTERNAL
       end.

Definition LOC_CLIENT_MAX_SYNC_RETRIES : nat := 50.

(** What a send came to: an early return, or the last response. *)
Definition sent : Type := locClientStatusEnumType + qmi_response.

(** The for loop: [remaining] tries are left, [tries] is the next one's number,
    [resp] the response of the last one.  Gives with the result the number of
    messages sent. *)
Fixpoint send_tries (answers : nat -> qmi_client_error_type * qmi_response)
    (remaining tries : nat) (resp : qmi_response) : sent * nat :=
  match remaining with
  | O => (inr resp, (tries - 1)%nat)
  | S remaining =>
    let '(rc, resp) := answers tries in
    match rc with
    | QMI_SERVICE_ERR => (inl eLOC_CLIENT_FAILURE_PHONE_OFFLINE, tries)
    | QMI_OTHER_ERR _ => (inl eLOC_CLIENT_FAILURE_INTERNAL, tries)
    | QMI_NO_ERR =>
      if decide (error resp = QMI_ERR_SESSION_OWNERSHIP_V01)
      then send_tries answers remaining (S tries) resp
      else (inr resp, tries)
    end
  end.

Definition no_response : qmi_response := Response true (QMI_ERR_OTHER_V01 0).

(** A request is sent as many times as the answers of the service ask for.  In
    the result: status, the messages sent as (id, pointer, length), and the
    callback data.  [mask] is the eventRegMask in the payload of a request to
    register events. *)
Definition locClientSendReq (answers : nat -> qmi_client_error_type * qmi_response)
    (handle : option (Z * locClientCallbackDataType)) (reqId : Z) (reqPayload : option Z) (mask : Z) :
    locClientStatusEnumType * list (Z * option Z * Z) * option (Z * locClientCallbackDataType) :=
  match handle with
  | None => (eLOC_CLIENT_FAILURE_INVALID_HANDLE, [], handle)
  | Some (p, cb) =>
    if bool_decide (userHandle cb = None ∨ pMe cb ≠ Some p)
    then (eLOC_CLIENT_FAILURE_INVALID_HANDLE, [], handle)
    else match validateRequest reqId reqPayload with
    | None => (eLOC_CLIENT_FAILURE_INVALID_PARAMETER, [], handle)
    | Some (pReqData, reqLen) =>
      let '(r, n) := send_tries answers LOC_CLIENT_MAX_SYNC_RETRIES 1 no_response in
      let msgs := replicate n (reqId, pReqData, reqLen) in
      match r with
      | inl status => (status, msgs, handle)
      | inr resp =>
        let status := convertQmiResponseToLocStatus resp in
        if bool_decide (status = eLOC_CLIENT_SUCCESS ∧
                        message_id "QMI_LOC_REG_EVENTS_REQ_V02" = Some reqId ∧
                        is_Some reqPayload)
        then (status, msgs,
              Some (p, CallbackData (pClientCookie cb) (userHandle cb) (eventCallback cb)
                         (respCallback cb) mask (pMe cb)))
        else (status, msgs, handle)
      end
    end
  end.

End client.

(** * Supported messages *)

(** 1 << idx, an int that is then converted to uint64_t: shifting by 31 makes
    it negative, shifting further is undefined. *)
Definition one_shl (idx : Z) : outcome Z :=
  if idx <? 32 then Done (wrap_u 64 (wrap_s 32 (Z.shiftl 1 idx))) else Undefined.

Fixpoint check_msgs_loop (supported_msgs : list Z) (supportedMsgsLen : Z) (reqIds : list Z)
    (idx : Z) (result : Z) : outcome Z :=
  match reqIds with
  | [] => Done result
  | reqId :: reqIds =>
    let len := Z.shiftr reqId 3 in
    if len <? supportedMsgsLen then
      let bit := Z.land reqId 7 in
      match supported_msgs !! Z.to_nat len with
      | None => Undefined
      | Some b =>
        if Z.land b (Z.shiftl 1 bit) =? 0
        then check_msgs_loop supported_msgs supportedMsgsLen reqIds (idx + 1) result
        else obind (fun s => check_msgs_loop supported_msgs supportedMsgsLen reqIds (idx + 1)
                               (Z.lor result s)) (one_shl idx)
      end
    else check_msgs_loop supported_msgs supportedMsgsLen reqIds (idx + 1) result
  end.

(** How many of the messages asked for are looked at. *)
Definition loop_size (reqIdArrayLength supportedMsgsLen : Z) : Z :=
  Z.min (Z.min reqIdArrayLength supportedMsgsLen) 64.

Definition checkQmiMsgsSupported (reqIdArray : list Z) (supported_msgs_valid : bool)
    (supported_msgs : list Z) (supported_msgs_len : Z) : outcome Z :=
  if supported_msgs_valid then
    check_msgs_loop supported_msgs supported_msgs_len
      (take (Z.to_nat (loop_size (Z.of_nat (length reqIdArray)) supported_msgs_len)) reqIdArray) 0 0
  else Done 0.

(** The static variables of locClientSupportMsgCheck. *)
Record msg_check := MsgCheck { isCheckedAlready : bool; supportedMsgChecked : Z }.

(** The reply to QMI_LOC_GET_SUPPORTED_MSGS_REQ_V02. *)
Record supported_reply := SupportedReply {
  r_rc : qmi_client_error_type; r_resp : qmi_response;
  r_valid : bool; r_msgs : list Z; r_len : Z
}.

(** In the result: the status, *supportedMsg when it is written, and the new
    statics. *)
Definition locClientSupportMsgCheck (st : msg_check) (handle_ok : bool) (msgArray : list Z)
    (reply : supported_reply) :
    outcome (locClientStatusEnumType * option Z * msg_check) :=
  if isCheckedAlready st then Done (eLOC_CLIENT_SUCCESS, Some (supportedMsgChecked st), st)
  else if negb handle_ok then Done (eLOC_CLIENT_FAILURE_GENERAL, None, st)
  else match r_rc reply with
  | QMI_NO_ERR =>
    match convertQmiResponseToLocStatus (r_resp reply) with
    | eLOC_CLIENT_SUCCESS =>
      obind (fun m => Done (eLOC_CLIENT_SUCCESS, Some m, MsgCheck true m))
        (checkQmiMsgsSupported msgArray (r_valid reply) (r_msgs reply) (r_len reply))
    | _ => Done (eLOC_CLIENT_FAILURE_GENERAL, None, st)
    end
  | _ => Done (eLOC_CLIENT_FAILURE_GENERAL, None, st)
  end.

(** * Theorems *)

(** ** Buffers fit *)

(** The entry of a service table with a given name. *)
Fixpoint find_named (ms : list (string * (Z * Z) * Z)) (name : string) : option (string * (Z * Z) * Z) :=
  match ms with
  | [] => None
  | m :: ms => if String.eqb name m.1.1 then Some m else find_named ms name
  end.

(** [s] is the struct the service decodes the indication [id] into. *)
Definition ind_entry_ok (id s : string) : Prop :=
  match find_named (indication_messages svc) id with
  | Some m =>
    match own_message svc m with
    | Some e => e.1 = s
    | None => False
    end
  | None => False
  end.
#[export] Instance ind_entry_ok_dec id s : Decision (ind_entry_ok id s).
Proof.
  unfold ind_entry_ok. destruct (find_named _ id) as [m|]; [|apply _]. destruct (own_message svc m) as [e|]; apply _.
Defined.

Lemma ind_tables_check :
  Forall (fun x => ind_entry_ok x.1.1 x.1.2) locClientEventIndTable ∧
  Forall (fun x => ind_entry_ok x.1 x.2) locClientRespIndTable.
Proof. apply (bool_decide_eq_true_1 _). vm_compute. reflexivity. Qed.

Lemma find_named_spec ms name m : find_named ms name = Some m -> m ∈ ms ∧ m.1.1 = name.
Proof.
  induction ms as [|m' ms IH]; simpl; [done|]. destruct (String.eqb_spec name m'.1.1) as [->|].
  - intros [= ->]. split; [left|done].
  - intros E. destruct (IH E). split; [by right|done].
Qed.

(** Ids do not repeat, so the entry for an id is the only one. *)
Lemma find_message_unique ms m id :
  NoDup (ids ms) -> m ∈ ms -> message_id m.1.1 = Some id -> find_message ms id = Some m.
Proof.
  induction ms as [|m' ms IH]; intros Hnd Hm Hid; [by apply not_elem_of_nil in Hm|].
  apply NoDup_cons in Hnd as [Hn Hnd]. simpl.
  apply elem_of_cons in Hm as [->|Hm]; [by rewrite decide_True|].
  rewrite decide_False; [by apply IH|]. intros E. apply Hn, list_elem_of_fmap.
  exists m. split; [by rewrite E, Hid|done].
Qed.

(** The message whose struct an indication is decoded into, and that struct's
    size. *)
Definition decoded_as (ls : list (string * layout)) (id size : Z) : Prop :=
  ∃ m e, find_message (indication_messages svc) id = Some m ∧
    own_message svc m = Some e ∧ size = sizeof ls e.1.

Lemma ind_entry_decoded ls id s n :
  ind_entry_ok id s -> message_id id = Some n -> decoded_as ls n (sizeof ls s).
Proof.
  unfold ind_entry_ok. intros H E.
  destruct (find_named _ id) as [m|] eqn:Em; [|destruct H].
  destruct (own_message svc m) as [e|] eqn:Ee; [|destruct H]. subst s.
  apply find_named_spec in Em as [Hin <-]. exists m, e. split; [|split; [exact Ee|reflexivity]].
  apply find_message_unique; [|exact Hin|exact E]. apply ids_check.
Qed.

Lemma event_size_decoded ls id size :
  locClientGetSizeByEventIndId ls id = Some size -> decoded_as ls id size.
Proof.
  destruct ind_tables_check as [H _]. revert H. unfold locClientGetSizeByEventIndId.
  induction locClientEventIndTable as [|[[i s] k] t IH]; intros H; [done|].
  inversion H as [|? ? Hi Ht]; subst. simpl. case_decide as Hd; [|by apply IH].
  intros [= <-]. by eapply ind_entry_decoded.
Qed.

Lemma resp_size_decoded ls id size :
  locClientGetSizeByRespIndId ls id = Some size -> decoded_as ls id size.
Proof.
  destruct ind_tables_check as [_ H]. revert H. unfold locClientGetSizeByRespIndId.
  induction locClientRespIndTable as [|[i s] t IH]; intros H; [done|].
  inversion H as [|? ? Hi Ht]; subst. simpl. case_decide as Hd; [|by apply IH].
  intros [= <-]. by eapply ind_entry_decoded.
Qed.

Lemma ind_size_decoded ls id size ty :
  locClientGetSizeAndTypeByIndId ls id = Some (size, ty) -> decoded_as ls id size.
Proof.
  unfold locClientGetSizeAndTypeByIndId.
  destruct (locClientGetSizeByEventIndId ls id) eqn:E1.
  - intros [= <- <-]. by apply event_size_decoded.
  - destruct (locClientGetSizeByRespIndId ls id) eqn:E2; [|done].
    intros [= <- <-]. by apply resp_size_decoded.
Qed.

(** With the layouts of the header, the size is that of a struct of the header. *)
Definition struct_size (ls : list (string * layout)) (id size : Z) : Prop :=
  ∃ m e l, find_message (indication_messages svc) id = Some m ∧
    own_message svc m = Some e ∧ assoc e.1 ls = Some l ∧ size = l_size l.

Lemma own_message_layout response ls m e :
  response = (8, 4) -> loc_layouts response = Some ls -> own_message svc m = Some e ->
  ∃ l, assoc e.1 ls = Some l.
Proof.
  intros Hr Hls He. destruct (tables_check response Hr) as (ls' & E & _ & Hall).
  rewrite Hls in E. injection E as <-. rewrite Forall_forall in Hall.
  destruct m as [[i [t k]] z]. unfold own_message in He. case_decide; [|done].
  apply list_elem_of_lookup_2 in He. exact (message_entry_layout ls e (Hall e He)).
Qed.

Lemma decoded_struct_size response ls id size :
  response = (8, 4) -> loc_layouts response = Some ls ->
  decoded_as ls id size -> struct_size ls id size.
Proof.
  intros Hr Hls (m & e & Hm & He & ->).
  destruct (own_message_layout response ls m e Hr Hls He) as [l Hl].
  exists m, e, l. split_and!; [exact Hm|exact He|exact Hl|].
  unfold sizeof. by rewrite Hl.
Qed.

(** What the buffer of an indication is. *)
Definition ind_buffer (i : indication) : Z * list Z :=
  match i with EventInd _ id b _ => (id, b) | RespInd _ id b _ _ => (id, b) end.

Lemma ind_cb_buffer ls decode malloc_ok cb user_handle msg_id ind_buf i :
  (∀ id b buf buf', decode id b buf = Some buf' -> length buf' = length buf) ->
  i ∈ locClientIndCb ls decode malloc_ok cb user_handle msg_id ind_buf ->
  (ind_buffer i).1 = msg_id ∧
  (∃ size, decoded_as ls msg_id size ∧ length (ind_buffer i).2 = Z.to_nat size) ∧
  locClientIndCb ls decode malloc_ok cb user_handle msg_id ind_buf = [i].
Proof.
  intros Hdecode. assert (Hnil : i ∈ [] -> False) by apply not_elem_of_nil.
  unfold locClientIndCb. destruct cb as [[p cb]|]; [|by intros ?%Hnil].
  case_bool_decide; [|by intros ?%Hnil]. cbn [negb].
  case_bool_decide; [|by intros ?%Hnil]. cbn [negb].
  destruct (locClientGetSizeAndTypeByIndId ls msg_id) as [[size ty]|] eqn:Es; [|by intros ?%Hnil].
  destruct malloc_ok; [|by intros ?%Hnil]. cbn [negb].
  apply ind_size_decoded in Es. set (rc := if (0 <? length ind_buf)%nat then _ else _).
  destruct rc as [buf|] eqn:Erc; [|by intros ?%Hnil].
  assert (Hlen : length buf = Z.to_nat size).
  { subst rc. destruct (0 <? length ind_buf)%nat.
    - rewrite (Hdecode _ _ _ _ Erc). apply length_replicate.
    - injection Erc as <-. apply length_replicate. }
  destruct ty; [destruct (eventCallback cb)|destruct (respCallback cb)];
    intros Hi; try by apply Hnil in Hi.
  all: apply list_elem_of_singleton in Hi; subst i; eauto.
Qed.

(** When the callback of a client is called with an indication, the message
    is an indication of the service, its buffer was allocated with exactly the
    size of the struct the service's tables decode it into, and a decoder that
    keeps the size of its buffer leaves it that size; at most one callback is
    called. *)
Theorem client_ind_buffers_fit response ls decode malloc_ok cb user_handle msg_id ind_buf i
    (Hresponse : response = (8, 4)) (Hls : loc_layouts response = Some ls)
    (Hdecode : ∀ id b buf buf', decode id b buf = Some buf' -> length buf' = length buf)
    (Hi : i ∈ locClientIndCb ls decode malloc_ok cb user_handle msg_id ind_buf) :
  (ind_buffer i).1 = msg_id ∧
  (∃ size, struct_size ls msg_id size ∧ length (ind_buffer i).2 = Z.to_nat size) ∧
  locClientIndCb ls decode malloc_ok cb user_handle msg_id ind_buf = [i].
Proof.
  destruct (ind_cb_buffer _ _ _ _ _ _ _ i Hdecode Hi) as (H1 & (size & H2 & H3) & H4).
  refine (conj H1 (conj (ex_intro _ size (conj _ H3)) H4)).
  exact (decoded_struct_size response ls msg_id size Hresponse Hls H2).
Qed.

(** A client that gets the NMEA report. *)
Definition demo_client : locClientCallbackDataType := CallbackData 7 (Some 1) true true 0 (Some 100).
Definition demo_decode (id : Z) (b buf : list Z) : option (list Z) :=
  Some (imap (fun i x => if (i <? 4)%nat then 9 else x) buf).

Lemma client_ind_buffers_fit_witness :
  ∃ i, locClientIndCb demo_layouts demo_decode true (Some (100, demo_client)) 1
         38 [1; 2; 3] = [i] ∧
    (∃ size, struct_size demo_layouts 38 size ∧ length (ind_buffer i).2 = Z.to_nat size).
Proof.
  set (run := locClientIndCb _ _ _ _ _ _ _).
  exists (default (EventInd 0 0 [] 0) (head run)).
  destruct (client_ind_buffers_fit (8, 4) demo_layouts demo_decode true (Some (100, demo_client)) 1
    38 [1; 2; 3] (default (EventInd 0 0 [] 0) (head run))) as (_ & H1 & H2).
  - reflexivity.
  - vm_compute; reflexivity.
  - intros id b buf buf' [= <-]. apply length_imap.
  - apply (list_elem_of_lookup_2 _ 0). vm_compute; reflexivity.
  - split; [exact H2|exact H1].
Defined.

(** ** Requests *)

(** The requests whose payload validateRequest drops although their message has
    TLVs. *)
Definition payload_dropped : list string :=
  ["QMI_LOC_GET_ENGINE_LOCK_REQ_V02"; "QMI_LOC_GET_SERVER_REQ_V02"].

(** The command of the service with the name [label] takes the payload that a
    case of validateRequest sends; the messages of the common tables get
    none. *)
Definition case_ok (label : string) (payload : option string) : Prop :=
  match find_named (command_messages svc) label with
  | Some m =>
    match own_message svc m, payload with
    | Some e, Some s => e.1 = s
    | Some e, None => e.2 = None ∨ label ∈ payload_dropped
    | None, p => m.1.2.1 ≠ 0 ∧ p = None
    end
  | None => False
  end.
#[export] Instance case_ok_dec l p : Decision (case_ok l p).
Proof.
  unfold case_ok. destruct (find_named _ l) as [m|]; [|apply _].
  destruct (own_message svc m) as [e|], p as [s|]; apply _.
Defined.

Lemma cases_check :
  Forall (fun c => Forall (fun l => case_ok l c.2) c.1) validateRequest_cases.
Proof. apply (bool_decide_eq_true_1 _). vm_compute. reflexivity. Qed.

(** What is sent for the command [m]: the payload with the size of the struct
    that [m] is encoded from, or nothing. *)
Definition sends (ls : list (string * layout)) (m : string * (Z * Z) * Z) (payload ptr : option Z)
    (len : Z) : Prop :=
  match own_message svc m with
  | Some e =>
    (ptr = payload ∧ len = sizeof ls e.1) ∨
    (ptr = None ∧ len = 0 ∧ (e.2 = None ∨ m.1.1 ∈ payload_dropped))
  | None => ptr = None ∧ len = 0 ∧ m.1.2.1 ≠ 0
  end.

Lemma case_sends ls l p n payload ptr len :
  case_ok l p -> message_id l = Some n ->
  match p with None => Some (None, 0) | Some s => Some (payload, sizeof ls s) end = Some (ptr, len) ->
  ∃ m, find_message (command_messages svc) n = Some m ∧ sends ls m payload ptr len.
Proof.
  unfold case_ok, sends. intros H E Hp.
  destruct (find_named _ l) as [m|] eqn:Em; [|destruct H].
  apply find_named_spec in Em as [Hin Hn]. exists m. split.
  { apply find_message_unique; [|exact Hin|by rewrite Hn]. apply ids_check. }
  destruct (own_message svc m) as [e|], p as [s|]; injection Hp as <- <-.
  - left. by rewrite H.
  - right. by rewrite Hn.
  - by destruct H.
  - by destruct H.
Qed.

(** A request that validateRequest accepts is a command of the service, and
    what is sent for it is the caller's payload with the size of the struct the
    service's tables encode the command from; nothing is sent for a command
    without TLVs, for the two of the common tables, and for
    QMI_LOC_GET_ENGINE_LOCK_REQ and QMI_LOC_GET_SERVER_REQ. *)
Theorem validateRequest_matches_service ls reqId payload ptr len
    (Hv : validateRequest ls reqId payload = Some (ptr, len)) :
  ∃ m, find_message (command_messages svc) reqId = Some m ∧ sends ls m payload ptr len.
Proof.
  pose proof cases_check as H. revert H Hv. unfold validateRequest.
  induction validateRequest_cases as [|[labels p] cases IH]; intros H Hv; [discriminate Hv|].
  inversion H as [|? ? Hc Hcs]; subst. cbn [validateRequest_loop] in Hv.
  destruct (existsb _ labels) eqn:Ex; [|by apply IH].
  apply existsb_exists in Ex as (l & Hl & Hid). apply bool_decide_eq_true in Hid.
  apply list_elem_of_In in Hl. cbn [fst snd] in Hc. rewrite Forall_forall in Hc.
  exact (case_sends ls l p reqId payload ptr len (Hc l Hl) Hid Hv).
Qed.

Lemma validateRequest_matches_service_witness :
  validateRequest demo_layouts 34 (Some 4096) = Some (Some 4096, 148) ∧
  ∃ m, find_message (command_messages svc) 34 = Some m ∧
    sends demo_layouts m (Some 4096) (Some 4096) 148.
Proof.
  split; [vm_compute; reflexivity|].
  apply (validateRequest_matches_service demo_layouts 34). vm_compute; reflexivity.
Defined.

(** The server query has a mandatory TLV, its type of server, and the engine
    lock query an optional one; both are sent without payload whatever the
    caller passes. *)
Theorem validateRequest_drops_payload ls payload :
  ∃ lock server,
    message_id "QMI_LOC_GET_ENGINE_LOCK_REQ_V02" = Some lock ∧
    message_id "QMI_LOC_GET_SERVER_REQ_V02" = Some server ∧
    validateRequest ls lock payload = Some (None, 0) ∧
    validateRequest ls server payload = Some (None, 0) ∧
    (∃ ts, assoc "qmiLocGetServerReqMsgT_data_v02" loc_message_data = Some ts ∧
       (o_member ∘ e_offset ∘ t_elem) <$> List.filter (fun t => negb (bool_decide (is_Some (t_optional t)))) ts
       = ["serverType"%string]) ∧
    (∃ ts, assoc "qmiLocGetEngineLockReqMsgT_data_v02" loc_message_data = Some ts ∧
       (o_member ∘ e_offset ∘ t_elem) <$> ts = ["subType"%string]).
Proof.
  exists (default 0 (message_id "QMI_LOC_GET_ENGINE_LOCK_REQ_V02")).
  exists (default 0 (message_id "QMI_LOC_GET_SERVER_REQ_V02")).
  split; [vm_compute; reflexivity|]. split; [vm_compute; reflexivity|].
  split; [vm_compute; reflexivity|]. split; [vm_compute; reflexivity|].
  split; eexists; split; vm_compute; reflexivity.
Qed.

(** ** Retries *)

(** The service asks to try again. *)
Definition busy (a : qmi_client_error_type * qmi_response) : bool :=
  match a with
  | (QMI_NO_ERR, r) => bool_decide (error r = QMI_ERR_SESSION_OWNERSHIP_V01)
  | _ => false
  end.

(** The try whose answer decides: the first that is not busy, or the last of
    the [S more] that are left. *)
Fixpoint deciding (answers : nat -> qmi_client_error_type * qmi_response) (more tries : nat) : nat :=
  match more with
  | O => tries
  | S more => if busy (answers tries) then deciding answers more (S tries) else tries
  end.

(** What an answer means. *)
Definition meaning (a : qmi_client_error_type * qmi_response) : sent :=
  match a.1 with
  | QMI_NO_ERR => inr a.2
  | QMI_SERVICE_ERR => inl eLOC_CLIENT_FAILURE_PHONE_OFFLINE
  | QMI_OTHER_ERR _ => inl eLOC_CLIENT_FAILURE_INTERNAL
  end.
Definition status_of (a : qmi_client_error_type * qmi_response) : locClientStatusEnumType :=
  match meaning a with inl s => s | inr r => convertQmiResponseToLocStatus r end.

Lemma send_tries_deciding answers more tries resp :
  send_tries answers (S more) tries resp =
    (meaning (answers (deciding answers more tries)), deciding answers more tries).
Proof.
  revert tries resp. induction more as [|more IH]; intros tries resp.
  - simpl. unfold meaning. destruct (answers tries) as [[] r]; simpl; [|done..].
    case_decide; [|done]. by rewrite Nat.sub_0_r.
  - change (send_tries answers (S (S more)) tries resp) with
      (let '(rc, resp) := answers tries in
       match rc with
       | QMI_SERVICE_ERR => (inl eLOC_CLIENT_FAILURE_PHONE_OFFLINE, tries)
       | QMI_OTHER_ERR _ => (inl eLOC_CLIENT_FAILURE_INTERNAL, tries)
       | QMI_NO_ERR =>
         if decide (error resp = QMI_ERR_SESSION_OWNERSHIP_V01)
         then send_tries answers (S more) (S tries) resp
         else (inr resp, tries)
       end).
    cbn [deciding]. unfold busy. destruct (answers tries) as [[] r] eqn:E; cbn iota.
    2,3: by rewrite E.
    destruct (decide (error r = QMI_ERR_SESSION_OWNERSHIP_V01)) as [Hb|Hb].
    + by rewrite bool_decide_eq_true_2, IH.
    + by rewrite bool_decide_eq_false_2, E.
Qed.

Lemma deciding_spec answers more tries :
  (tries <= deciding answers more tries <= tries + more)%nat ∧
  (∀ k, (tries <= k < deciding answers more tries)%nat -> busy (answers k) = true) ∧
  (busy (answers (deciding answers more tries)) = true -> deciding answers more tries = (tries + more)%nat).
Proof.
  revert tries. induction more as [|more IH]; intros tries; simpl.
  { split; [lia|]. split; [lia|]. intros _. lia. }
  destruct (busy (answers tries)) eqn:E.
  - destruct (IH (S tries)) as (H1 & H2 & H3). split; [lia|]. split.
    + intros k Hk. destruct (decide (k = tries)) as [->|]; [done|]. apply H2. lia.
    + intros Hb. rewrite (H3 Hb). lia.
  - split; [lia|]. split; [lia|]. congruence.
Qed.

Definition valid_handle (handle : option (Z * locClientCallbackDataType)) : Prop :=
  match handle with
  | Some (p, cb) => is_Some (userHandle cb) ∧ pMe cb = Some p
  | None => False
  end.
Definition registered_mask (handle : option (Z * locClientCallbackDataType)) : option Z :=
  '(_, cb) ← handle; Some (eventRegMask cb).

(** locClientSendReq on a valid handle and an accepted request sends the
    same message between 1 and LOC_CLIENT_MAX_SYNC_RETRIES times: again while
    the service answers that the session is owned by another, and it stops at
    the first other answer; its status is the meaning of the last answer.  The
    event mask kept for the client changes only to the one of a request to
    register events that the service accepted. *)
Theorem locClientSendReq_retries ls answers handle reqId payload mask ptr len
    (Hhandle : valid_handle handle) (Hvalid : validateRequest ls reqId payload = Some (ptr, len)) :
  ∃ n handle',
    locClientSendReq ls answers handle reqId payload mask =
      (status_of (answers n), replicate n (reqId, ptr, len), handle') ∧
    (1 <= n <= LOC_CLIENT_MAX_SYNC_RETRIES)%nat ∧
    (∀ k, (1 <= k < n)%nat -> busy (answers k) = true) ∧
    (busy (answers n) = true -> n = LOC_CLIENT_MAX_SYNC_RETRIES) ∧
    registered_mask handle' =
      (if decide (status_of (answers n) = eLOC_CLIENT_SUCCESS ∧
                  message_id "QMI_LOC_REG_EVENTS_REQ_V02" = Some reqId ∧ is_Some payload)
       then Some mask else registered_mask handle).
Proof.
  destruct handle as [[p cb]|]; [|done]. destruct Hhandle as [Hu Hp].
  set (n := deciding answers 49 1). destruct (deciding_spec answers 49 1) as (H1 & H2 & H3).
  fold n in H1, H2, H3.
  set (reg := message_id "QMI_LOC_REG_EVENTS_REQ_V02" = Some reqId ∧ is_Some payload).
  set (new := CallbackData (pClientCookie cb) (userHandle cb) (eventCallback cb)
                (respCallback cb) mask (pMe cb)).
  exists n, (if decide (status_of (answers n) = eLOC_CLIENT_SUCCESS ∧ reg)
             then Some (p, new) else Some (p, cb)).
  split; [|split; [exact H1|split; [exact H2|split; [exact H3|by case_decide]]]].
  unfold locClientSendReq. rewrite bool_decide_eq_false_2, Hvalid.
  2:{ intros [E|E]; [|done]. rewrite E in Hu. by destruct Hu. }
  unfold LOC_CLIENT_MAX_SYNC_RETRIES. rewrite (send_tries_deciding answers 49 1). fold n.
  unfold status_of. destruct (meaning (answers n)) as [s|r] eqn:Em.
  - rewrite decide_False; [done|]. intros [-> _]. unfold meaning in Em. by destruct ((answers n).1).
  - case_bool_decide; by case_decide.
Qed.

(** Two busy answers, then success. *)
Definition demo_answers (n : nat) : qmi_client_error_type * qmi_response :=
  if (n <? 3)%nat then (QMI_NO_ERR, Response false QMI_ERR_SESSION_OWNERSHIP_V01)
  else (QMI_NO_ERR, Response true (QMI_ERR_OTHER_V01 0)).

Lemma locClientSendReq_retries_witness :
  ∃ n handle',
    locClientSendReq demo_layouts demo_answers (Some (100, demo_client)) 33 (Some 4096) 5 =
      (status_of (demo_answers n), replicate n (33, Some 4096, 24), handle') ∧
    (1 <= n <= LOC_CLIENT_MAX_SYNC_RETRIES)%nat ∧
    (∀ k, (1 <= k < n)%nat -> busy (demo_answers k) = true) ∧
    (busy (demo_answers n) = true -> n = LOC_CLIENT_MAX_SYNC_RETRIES) ∧
    registered_mask handle' =
      (if decide (status_of (demo_answers n) = eLOC_CLIENT_SUCCESS ∧
                  message_id "QMI_LOC_REG_EVENTS_REQ_V02" = Some 33 ∧ is_Some (Some 4096))
       then Some 5 else registered_mask (Some (100, demo_client))).
Proof.
  apply (locClientSendReq_retries demo_layouts demo_answers (Some (100, demo_client)) 33 (Some 4096) 5
           (Some 4096) 24).
  - split; [by exists 1|done].
  - vm_compute; reflexivity.
Defined.

Example send_req_three_tries :
  locClientSendReq demo_layouts demo_answers (Some (100, demo_client)) 33 (Some 4096) 5 =
    (eLOC_CLIENT_SUCCESS, replicate 3 (33, Some 4096, 24),
     Some (100, CallbackData 7 (Some 1) true true 5 (Some 100))).
Proof. vm_compute. reflexivity. Qed.

(** ** Supported messages *)

(** The service lists the message: bit [id mod 8] of byte [id / 8]. *)
Definition listed (supported_msgs : list Z) (id : Z) : bool :=
  match supported_msgs !! Z.to_nat (id / 8) with
  | Some b => Z.testbit b (id mod 8)
  | None => false
  end.

Lemma one_shl_small idx : 0 ≤ idx < 31 -> one_shl idx = Done (2 ^ idx).
Proof.
  intros H. unfold one_shl. destruct (Z.ltb_spec idx 32); [|lia].
  rewrite Z.shiftl_1_l. pose proof (Z.pow_lt_mono_r 2 idx 31 ltac:(lia) ltac:(lia) ltac:(lia)).
  pose proof (Z.pow_nonneg 2 idx ltac:(lia)).
  rewrite wrap_s_small, wrap_u_small; [done|..]; cbn; lia.
Qed.

Lemma land_bit_zero b i : 0 ≤ i -> (Z.land b (Z.shiftl 1 i) =? 0) = negb (Z.testbit b i).
Proof.
  intros Hi. rewrite Z.shiftl_1_l. destruct (Z.testbit b i) eqn:E.
  - apply Z.eqb_neq. intros H. assert (H' : Z.testbit (Z.land b (2 ^ i)) i = true).
    { by rewrite Z.land_spec, Z.pow2_bits_true, E by done. }
    rewrite H, Z.bits_0 in H'. done.
  - apply Z.eqb_eq, Z.bits_inj'. intros n Hn. rewrite Z.land_spec, Z.pow2_bits_eqb, Z.bits_0 by done.
    destruct (Z.eqb_spec i n) as [->|]; [by rewrite E|by rewrite andb_false_r].
Qed.

Lemma check_msgs_loop_bits supported len ids idx result :
  len = Z.of_nat (length supported) -> Forall (fun id => 0 ≤ id) ids ->
  0 ≤ idx -> idx + Z.of_nat (length ids) ≤ 31 ->
  ∃ r, check_msgs_loop supported len ids idx result = Done r ∧
    ∀ i, 0 ≤ i -> Z.testbit r i =
      (Z.testbit result i ||
       if i <? idx then false
       else match ids !! Z.to_nat (i - idx) with Some id => listed supported id | None => false end).
Proof.
  intros Hlen Hids. revert idx result. induction Hids as [|id ids Hid Hids IH]; intros idx result H0 Hle.
  { exists result. split; [done|]. intros i Hi. rewrite lookup_nil.
    by destruct (i <? idx); rewrite orb_false_r. }
  simpl in Hle. cbn [check_msgs_loop].
  replace (Z.shiftr id 3) with (id / 8) by by rewrite Z.shiftr_div_pow2.
  replace (Z.land id 7) with (id mod 8) by by (change 7 with (Z.ones 3); rewrite Z.land_ones).
  pose proof (Z.mod_pos_bound id 8 ltac:(lia)). pose proof (Z.div_pos id 8 ltac:(lia) ltac:(lia)).
  assert (Hgoal : ∀ res, (∀ i, 0 ≤ i -> Z.testbit res i = (Z.testbit result i || ((i =? idx) && listed supported id))) ->
    ∃ r, check_msgs_loop supported len ids (idx + 1) res = Done r ∧
    ∀ i, 0 ≤ i -> Z.testbit r i =
      (Z.testbit result i ||
       if i <? idx then false
       else match (id :: ids) !! Z.to_nat (i - idx) with Some id => listed supported id | None => false end)).
  { intros res Hres. destruct (IH (idx + 1) res) as (r & Hr & Hb); [lia..|].
    exists r. split; [done|]. intros i Hi. rewrite Hb, Hres by done. rewrite <- orb_assoc. f_equal.
    destruct (Z.eqb_spec i idx) as [->|Hne].
    - replace (idx <? idx + 1) with true by (symmetry; apply Z.ltb_lt; lia).
      replace (idx <? idx) with false by (symmetry; apply Z.ltb_ge; lia).
      rewrite Z.sub_diag. simpl. by rewrite orb_false_r.
    - simpl. destruct (Z.ltb_spec i idx); destruct (Z.ltb_spec i (idx + 1)); try done; [lia..|].
      replace (Z.to_nat (i - idx)) with (S (Z.to_nat (i - (idx + 1)))) by lia. done. }
  assert (Hno : listed supported id = false -> ∀ i, 0 ≤ i ->
    Z.testbit result i = (Z.testbit result i || ((i =? idx) && listed supported id))).
  { intros -> i _. by rewrite andb_false_r, orb_false_r. }
  destruct (Z.ltb_spec (id / 8) len) as [Hlt|Hge].
  - destruct (lookup_lt_is_Some_2 supported (Z.to_nat (id / 8))) as [b Hb]; [lia|].
    rewrite Hb, land_bit_zero by lia.
    assert (Hl : listed supported id = Z.testbit b (id mod 8)) by (unfold listed; by rewrite Hb).
    destruct (Z.testbit b (id mod 8)) eqn:Et; cbn [negb].
    + rewrite one_shl_small by lia. cbn [obind]. apply Hgoal. intros i Hi.
      rewrite Z.lor_spec, Z.pow2_bits_eqb, Hl, andb_true_r by done. by rewrite Z.eqb_sym.
    + apply Hgoal, Hno, Hl.
  - apply Hgoal, Hno. unfold listed. by rewrite lookup_ge_None_2 by lia.
Qed.

(** CheckQmiMsgsSupported sets bit i of its result exactly when the i-th
    message asked for is listed by the service, for the messages it looks at:
    at most as many as bytes in the service's list.  This needs fewer than 32
    of them, since the bit is computed as an int. *)
Theorem checkQmiMsgsSupported_bits reqIds supported len
    (Hlen : len = Z.of_nat (length supported)) (Hids : Forall (fun id => 0 ≤ id) reqIds)
    (Hfew : loop_size (Z.of_nat (length reqIds)) len ≤ 31) :
  ∃ r, checkQmiMsgsSupported reqIds true supported len = Done r ∧
    ∀ i, 0 ≤ i -> Z.testbit r i =
      match reqIds !! Z.to_nat i with
      | Some id => (i <? len) && listed supported id
      | None => false
      end.
Proof.
  unfold checkQmiMsgsSupported. set (n := Z.to_nat (loop_size _ len)).
  assert (Hn : (n <= length reqIds)%nat) by (unfold n, loop_size in *; lia).
  destruct (check_msgs_loop_bits supported len (take n reqIds) 0 0) as (r & Hr & Hb).
  - done.
  - by apply Forall_take.
  - lia.
  - rewrite length_take. unfold n, loop_size in *. lia.
  - exists r. split; [done|]. intros i Hi. rewrite Hb, Z.bits_0, Z.sub_0_r by done. cbn [orb].
    replace (i <? 0) with false by (symmetry; apply Z.ltb_ge; lia).
    destruct (decide (Z.to_nat i < n)%nat) as [Hlt|Hge].
    + rewrite lookup_take_lt by done. replace (i <? len) with true; [by destruct (reqIds !! _)|].
      symmetry. apply Z.ltb_lt. unfold n, loop_size in *. lia.
    + rewrite lookup_take_ge by lia. destruct (reqIds !! Z.to_nat i) eqn:E; [|done].
      apply lookup_lt_Some in E. replace (i <? len) with false; [done|].
      symmetry. apply Z.ltb_ge. unfold n, loop_size in *. lia.
Qed.

Lemma checkQmiMsgsSupported_bits_witness :
  ∃ r, checkQmiMsgsSupported [0; 1; 5; 9] true [3; 0; 255] 3 = Done r ∧
    ∀ i, 0 ≤ i -> Z.testbit r i =
      match [0; 1; 5; 9] !! Z.to_nat i with
      | Some id => (i <? 3) && listed [3; 0; 255] id
      | None => false
      end.
Proof.
  apply (checkQmiMsgsSupported_bits [0; 1; 5; 9] [3; 0; 255] 3); [done| |cbv; congruence].
  by repeat constructor.
Defined.

(** A message after the number of bytes listed is reported as unsupported. *)
Example check_stops_at_bytes : checkQmiMsgsSupported [0; 1; 1] true [3; 0] 2 = Done 3.
Proof. reflexivity. Qed.
(** The 32nd message sets all the bits above it, a later one is undefined. *)
Example check_bit_31 :
  checkQmiMsgsSupported (replicate 31 8 ++ [0]) true (1 :: replicate 40 0) 41 = Done (2 ^ 64 - 2 ^ 31).
Proof. vm_compute. reflexivity. Qed.
Example check_bit_32 :
  checkQmiMsgsSupported (replicate 32 8 ++ [0]) true (1 :: replicate 40 0) 41 = Undefined.
Proof. vm_compute. reflexivity. Qed.
(** The statics answer for the messages that were asked for first. *)
Example support_check_is_cached :
  let reply := SupportedReply QMI_NO_ERR (Response true (QMI_ERR_OTHER_V01 0)) true [1] 1 in
  obind (fun '(_, _, st) => locClientSupportMsgCheck st true [3] reply)
    (locClientSupportMsgCheck (MsgCheck false 0) true [0] reply)
  = Done (eLOC_CLIENT_SUCCESS, Some 1, MsgCheck true 1).
Proof. reflexivity. Qed.
