(* ===== verification/LocSyncReq.v ===== *)
(** loc_api_sync_req.cpp: synchronous requests over the asynchronous QMI
    client.  A caller of loc_sync_send_req takes one of eight slots, sends the
    request and blocks on the slot's condition variable until
    loc_sync_process_ind, called with every response indication, finds the slot
    or the wait times out.

    The threads interleave at their critical sections.  The indication thread
    holds loc_sync_call_mutex over its whole loop and takes the lock of one slot
    after the other, so one visit of a slot is a step; taking and freeing a slot
    need loc_sync_call_mutex; filling a slot and the two halves of the wait need
    the slot's lock only.  A wait ends by a signal, by its time, or for no
    reason, as pthread_cond_timedwait allows.  [step] is a function of the
    label, so runs can be evaluated. *)

From stdpp Require Import list gmap.
From S2P Require Import Prelude LocClient.

Local Open Scope Z_scope.

(** * State *)

Definition LOC_SYNC_REQ_BUFFER_SIZE : nat := 8.
Definition LOC_CLIENT_INVALID_HANDLE_VALUE : Z := 0.

(** A slot; [signalled] is the state of its condition variable: a signal was
    sent to the thread that blocks on it. *)
Record loc_sync_req_data := Slot {
  client_handle : Z; ind_is_selected : bool; ind_is_waiting : bool; ind_has_arrived : bool;
  req_id : Z; recv_ind_payload_ptr : option Z; recv_ind_id : Z; signalled : bool
}.

Record loc_sync_req_array := SyncArray {
  in_use : bool; slot_in_use : list bool; slots : list loc_sync_req_data
}.

Definition reset_slot : loc_sync_req_data :=
  Slot LOC_CLIENT_INVALID_HANDLE_VALUE false false false 0 None 0 false.

Definition loc_sync_req_init (initialized : bool) (a : loc_sync_req_array) : loc_sync_req_array :=
  if initialized then a
  else SyncArray false (replicate LOC_SYNC_REQ_BUFFER_SIZE false)
         (replicate LOC_SYNC_REQ_BUFFER_SIZE reset_slot).

(** The arguments of loc_sync_send_req the module looks at. *)
Record request := Request { q_handle : Z; q_req : Z; q_ind : Z; q_ptr : option Z }.

(** Where a caller is, with its slot. *)
Inductive caller :=
  | Selecting (q : request) (i : nat)     (* loc_sync_select_ind, slot allocated *)
  | Sending (q : request) (i : nat)       (* before locClientSendReq *)
  | Waiting (q : request) (i : nat)       (* before the check of loc_sync_wait_for_ind *)
  | Entered (q : request) (i : nat)       (* before the lock of the slot *)
  | Blocked (q : request) (i : nat)       (* in pthread_cond_timedwait *)
  | Freeing (q : request) (i : nat) (status : locClientStatusEnumType).

(** loc_sync_process_ind inside its loop: at slot [p_i], with its locals. *)
Record processing := Processing {
  p_handle : Z; p_ind : Z; p_payload : option (list Z);
  p_i : nat; p_in_use : bool; p_consumed : bool
}.

Record system := System {
  arr : loc_sync_req_array; callers : gmap nat caller; proc : option processing
}.

Definition init : system :=
  System (loc_sync_req_init false (SyncArray false [] [])) ∅ None.

(** What can be seen: a slot taken, found by an indication (with the bytes
    copied, if any), the return of a caller, and the return of one that found
    no slot. *)
Inductive event :=
  | Selected (t : nat) (q : request) (i : nat)
  | Hit (i : nat) (handle ind : Z)
  | Copied (ptr : Z) (bytes : list Z)
  | Returned (t : nat) (q : request) (i : nat) (status : locClientStatusEnumType)
  | Refused (t : nat) (status : locClientStatusEnumType).

Inductive wakeup := Signal | Spurious | TimedOut.

Inductive label :=
  | Call (t : nat) (q : request)
  | Fill (t : nat)
  | Send (t : nat) (status : locClientStatusEnumType)
  | Enter (t : nat)
  | Wait (t : nat)
  | Wake (t : nat) (w : wakeup)
  | Free (t : nat)
  | Ind (handle ind : Z) (payload : option (list Z))
  | Visit
  | EndInd.

(** * Operations *)

Definition set_slot (i : nat) (s : loc_sync_req_data) (a : loc_sync_req_array) : loc_sync_req_array :=
  SyncArray (in_use a) (slot_in_use a) (<[i := s]> (slots a)).
Definition with_arr (a : loc_sync_req_array) (s : system) : system := System a (callers s) (proc s).
Definition with_caller (t : nat) (c : caller) (s : system) : system :=
  System (arr s) (<[t := c]> (callers s)) (proc s).

(** The first slot that is not in use. *)
Fixpoint free_slot (l : list bool) : option nat :=
  match l with
  | [] => None
  | true :: l => S <$> free_slot l
  | false :: _ => Some O
  end.

Definition loc_alloc_slot (a : loc_sync_req_array) : option nat * loc_sync_req_array :=
  match free_slot (slot_in_use a) with
  | Some i => (Some i, SyncArray true (<[i := true]> (slot_in_use a)) (slots a))
  | None => (None, a)
  end.

(** The slot that loc_sync_select_ind fills; the condition variable is not
    touched. *)
Definition selected (q : request) (s : loc_sync_req_data) : loc_sync_req_data :=
  Slot (q_handle q) true false false (q_req q) (q_ptr q) (q_ind q) (signalled s).

Definition loc_free_slot (i : nat) (a : loc_sync_req_array) : loc_sync_req_array :=
  let used := <[i := false]> (slot_in_use a) in
  SyncArray (if existsb id used then in_use a else false) used (<[i := reset_slot]> (slots a)).

(** The first half of the wait, under the slot's lock: either the result, or
    the slot the caller blocks on. *)
Definition wait_begin (s : loc_sync_req_data) : locClientStatusEnumType + loc_sync_req_data :=
  if ind_has_arrived s then inl eLOC_CLIENT_SUCCESS
  else if ind_is_waiting s then inl eLOC_CLIENT_FAILURE_INTERNAL  (* -EBUSY *)
  else inr (Slot (client_handle s) (ind_is_selected s) true (ind_has_arrived s) (req_id s)
              (recv_ind_payload_ptr s) (recv_ind_id s) false).

(** The second half: a timed-out wait is eLOC_CLIENT_FAILURE_TIMEOUT. *)
Definition wait_end (s : loc_sync_req_data) : loc_sync_req_data :=
  Slot (client_handle s) (ind_is_selected s) false (ind_has_arrived s) (req_id s)
    (recv_ind_payload_ptr s) (recv_ind_id s) false.
Definition wakeup_ok (w : wakeup) (s : loc_sync_req_data) : bool :=
  match w with Signal => signalled s | _ => true end.
Definition wakeup_status (w : wakeup) : locClientStatusEnumType :=
  match w with TimedOut => eLOC_CLIENT_FAILURE_TIMEOUT | _ => eLOC_CLIENT_SUCCESS end.

(** The slot is the one the indication is for. *)
Definition matches (p : processing) (used : bool) (s : loc_sync_req_data) : bool :=
  used && (client_handle s =? p_handle p) && (p_ind p =? recv_ind_id s) && negb (ind_has_arrived s).

(** The bytes copied into the caller's payload, if any. *)
Definition copied (p : processing) (s : loc_sync_req_data) : option (Z * list Z) :=
  match recv_ind_payload_ptr s, p_payload p with
  | Some ptr, Some (b :: bs) => Some (ptr, b :: bs)
  | _, _ => None
  end.

(** The slot after an indication found it: a waiting caller is signalled, an
    arrival before the wait is remembered. *)
Definition hit_slot (p : processing) (s : loc_sync_req_data) : loc_sync_req_data :=
  if ind_is_waiting s
  then Slot (client_handle s) (ind_is_selected s) true (ind_has_arrived s) (req_id s)
         (recv_ind_payload_ptr s) (p_ind p) true
  else Slot (client_handle s) (ind_is_selected s) false true (req_id s)
         (recv_ind_payload_ptr s) (recv_ind_id s) (signalled s).

(** One turn of the loop of loc_sync_process_ind. *)
Definition visit (p : processing) (used : bool) (s : loc_sync_req_data) :
    processing * loc_sync_req_data * list event :=
  if matches p used s then
    let c := copied p s in
    (Processing (p_handle p) (p_ind p) (p_payload p) (S (p_i p)) (p_in_use p || used)
       (match c with Some _ => true | None => p_consumed p end),
     hit_slot p s,
     Hit (p_i p) (p_handle p) (p_ind p) ::
       match c with Some (ptr, bs) => [Copied ptr bs] | None => [] end)
  else
    (Processing (p_handle p) (p_ind p) (p_payload p) (S (p_i p)) (p_in_use p || used) (p_consumed p),
     s, []).

(** * Steps *)

(** What label [l] does in state [s]; [None] when it cannot happen there. *)
Definition step (l : label) (s : system) : option (system * list event) :=
  match l with
  | Call t q =>
    match proc s, callers s !! t, loc_alloc_slot (arr s) with
    | None, None, (Some i, a) => Some (with_caller t (Selecting q i) (with_arr a s), [])
    | None, None, (None, a) => Some (s, [Refused t eLOC_CLIENT_SUCCESS])
    | _, _, _ => None
    end
  | Fill t =>
    match callers s !! t with
    | Some (Selecting q i) =>
      sl ← slots (arr s) !! i;
      Some (with_caller t (Sending q i) (with_arr (set_slot i (selected q sl) (arr s)) s),
            [Selected t q i])
    | _ => None
    end
  | Send t status =>
    match callers s !! t with
    | Some (Sending q i) =>
      Some (with_caller t (if decide (status = eLOC_CLIENT_SUCCESS) then Waiting q i
                           else Freeing q i status) s, [])
    | _ => None
    end
  | Enter t =>
    match callers s !! t with
    | Some (Waiting q i) =>
      match slot_in_use (arr s) !! i with
      | Some true => Some (with_caller t (Entered q i) s, [])
      | _ => (* -EINVAL: the slot is not freed *)
        Some (System (arr s) (delete t (callers s)) (proc s),
              [Returned t q i eLOC_CLIENT_FAILURE_INTERNAL])
      end
    | _ => None
    end
  | Wait t =>
    match callers s !! t with
    | Some (Entered q i) =>
      sl ← slots (arr s) !! i;
      match wait_begin sl with
      | inl status => Some (with_caller t (Freeing q i status) s, [])
      | inr sl' => Some (with_caller t (Blocked q i) (with_arr (set_slot i sl' (arr s)) s), [])
      end
    | _ => None
    end
  | Wake t w =>
    match callers s !! t with
    | Some (Blocked q i) =>
      sl ← slots (arr s) !! i;
      if wakeup_ok w sl then
        Some (with_caller t (Freeing q i (wakeup_status w))
                (with_arr (set_slot i (wait_end sl) (arr s)) s), [])
      else None
    | _ => None
    end
  | Free t =>
    match proc s, callers s !! t with
    | None, Some (Freeing q i status) =>
      Some (System (loc_free_slot i (arr s)) (delete t (callers s)) None, [Returned t q i status])
    | _, _ => None
    end
  | Ind h id payload =>
    match proc s with
    | None =>
      if in_use (arr s)
      then Some (System (arr s) (callers s) (Some (Processing h id payload 0 false false)), [])
      else Some (s, [])
    | Some _ => None
    end
  | Visit =>
    p ← proc s;
    if (p_i p <? LOC_SYNC_REQ_BUFFER_SIZE)%nat && negb (p_consumed p) then
      sl ← slots (arr s) !! p_i p;
      used ← slot_in_use (arr s) !! p_i p;
      let '(p', sl', evs) := visit p used sl in
      Some (System (set_slot (p_i p) sl' (arr s)) (callers s) (Some p'), evs)
    else None
  | EndInd =>
    p ← proc s;
    if (p_i p <? LOC_SYNC_REQ_BUFFER_SIZE)%nat && negb (p_consumed p) then None
    else Some (System (SyncArray (if p_in_use p then in_use (arr s) else false)
                         (slot_in_use (arr s)) (slots (arr s))) (callers s) None, [])
  end.

(** Runs: the labels of a run, and everything seen, in order. *)
Inductive run : list label -> system -> list event -> Prop :=
  | run_init : run [] init []
  | run_step ls s evs l s' new :
      run ls s evs -> step l s = Some (s', new) -> run (ls ++ [l]) s' (evs ++ new).

Fixpoint exec (ls : list label) (s : system) (evs : list event) : option (system * list event) :=
  match ls with
  | [] => Some (s, evs)
  | l :: ls => '(s', new) ← step l s; exec ls s' (evs ++ new)
  end.

Lemma exec_run ls0 ls s evs s' evs' :
  run ls0 s evs -> exec ls s evs = Some (s', evs') -> run (ls0 ++ ls) s' evs'.
Proof.
  revert ls0 s evs. induction ls as [|l ls IH]; intros ls0 s evs Hr E; simpl in E.
  - injection E as <- <-. by rewrite app_nil_r.
  - destruct (step l s) as [[s1 new]|] eqn:Es; [|done]. simpl in E.
    rewrite (app_assoc ls0 [l] ls : ls0 ++ l :: ls = (ls0 ++ [l]) ++ ls).
    eapply IH; [|done]. by econstructor.
Qed.

(** * The invariant *)

Definition slot_of (c : caller) : nat :=
  match c with
  | Selecting _ i | Sending _ i | Waiting _ i | Entered _ i | Blocked _ i | Freeing _ i _ => i
  end.
Definition request_of (c : caller) : request :=
  match c with
  | Selecting q _ | Sending q _ | Waiting q _ | Entered q _ | Blocked q _ | Freeing q _ _ => q
  end.

(** The last indication that found slot [i] since it was last selected. *)
Definition note (i : nat) (acc : option (Z * Z)) (e : event) : option (Z * Z) :=
  match e with
  | Selected _ _ j => if decide (j = i) then None else acc
  | Hit j h d => if decide (j = i) then Some (h, d) else acc
  | _ => acc
  end.
Definition last_hit (evs : list event) (i : nat) : option (Z * Z) := foldl (note i) None evs.

Lemma last_hit_app evs new i : last_hit (evs ++ new) i = foldl (note i) (last_hit evs i) new.
Proof. apply foldl_app. Qed.

(** The slot holds the request. *)
Definition filled (q : request) (s : loc_sync_req_data) : Prop :=
  client_handle s = q_handle q ∧ recv_ind_id s = q_ind q ∧ recv_ind_payload_ptr s = q_ptr q.

(** What found the slot is what the request waits for. *)
Definition hit_for (q : request) (hit : option (Z * Z)) : Prop :=
  hit = None ∨ hit = Some (q_handle q, q_ind q).

(** Where the return status of a caller comes from. *)
Definition status_from (ls : list label) (t : nat) (q : request) (hit : option (Z * Z))
    (st : locClientStatusEnumType) : Prop :=
  match st with
  | eLOC_CLIENT_SUCCESS => hit = Some (q_handle q, q_ind q) ∨ Wake t Spurious ∈ ls
  | _ => (st = eLOC_CLIENT_FAILURE_TIMEOUT ∧ Wake t TimedOut ∈ ls) ∨ Send t st ∈ ls
  end.

(** A caller and its slot fit together. *)
Definition caller_ok (ls : list label) (t : nat) (c : caller) (s : loc_sync_req_data)
    (hit : option (Z * Z)) : Prop :=
  match c with
  | Selecting _ _ => s = reset_slot
  | Sending q _ | Waiting q _ | Entered q _ =>
    filled q s ∧ hit_for q hit ∧ ind_is_waiting s = false ∧
    ind_has_arrived s = bool_decide (is_Some hit)
  | Blocked q _ =>
    filled q s ∧ hit_for q hit ∧ ind_is_waiting s = true ∧ ind_has_arrived s = false ∧
    signalled s = bool_decide (is_Some hit)
  | Freeing q _ st =>
    filled q s ∧ hit_for q hit ∧ ind_is_waiting s = false ∧ status_from ls t q hit st
  end.

Record array_ok (a : loc_sync_req_array) (cs : gmap nat caller) : Prop := {
  ok_slots : length (slots a) = LOC_SYNC_REQ_BUFFER_SIZE;
  ok_flags : length (slot_in_use a) = LOC_SYNC_REQ_BUFFER_SIZE;
  ok_owned : ∀ t c, cs !! t = Some c -> slot_in_use a !! slot_of c = Some true;
  ok_owner : ∀ i, slot_in_use a !! i = Some true -> ∃ t c, cs !! t = Some c ∧ slot_of c = i;
  ok_distinct : ∀ t t' c c', cs !! t = Some c -> cs !! t' = Some c' -> slot_of c = slot_of c' -> t = t';
  ok_free : ∀ i, slot_in_use a !! i = Some false -> slots a !! i = Some reset_slot;
  ok_in_use : in_use a = existsb id (slot_in_use a)
}.

Definition callers_ok (ls : list label) (s : system) (evs : list event) : Prop :=
  ∀ t c, callers s !! t = Some c ->
    ∃ sl, slots (arr s) !! slot_of c = Some sl ∧ caller_ok ls t c sl (last_hit evs (slot_of c)).

Definition proc_ok (s : system) : Prop :=
  ∀ p, proc s = Some p ->
    p_handle p ≠ LOC_CLIENT_INVALID_HANDLE_VALUE ∧ (p_i p <= LOC_SYNC_REQ_BUFFER_SIZE)%nat ∧
    p_in_use p = existsb id (take (p_i p) (slot_in_use (arr s))) ∧
    (p_consumed p = true -> p_in_use p = true).

Record inv (ls : list label) (s : system) (evs : list event) : Prop := {
  inv_array : array_ok (arr s) (callers s);
  inv_callers : callers_ok ls s evs;
  inv_proc : proc_ok s
}.

(** Indications come for handles of clients. *)
Definition label_ok (l : label) : Prop :=
  match l with Ind h _ _ => h ≠ LOC_CLIENT_INVALID_HANDLE_VALUE | _ => True end.

(** ** Preservation *)

Lemma status_from_mono ls l t q hit st : status_from ls t q hit st -> status_from (ls ++ [l]) t q hit st.
Proof. unfold status_from. destruct st; set_solver. Qed.

Lemma caller_ok_mono ls l t c s hit : caller_ok ls t c s hit -> caller_ok (ls ++ [l]) t c s hit.
Proof. destruct c; simpl; try done. intros (? & ? & ? & ?). eauto using status_from_mono. Qed.

Lemma callers_ok_mono ls l s evs : callers_ok ls s evs -> callers_ok (ls ++ [l]) s evs.
Proof. intros H t c Hc. destruct (H t c Hc) as (sl & ? & ?). eauto using caller_ok_mono. Qed.

Lemma free_slot_spec l i :
  free_slot l = Some i -> l !! i = Some false.
Proof.
  revert i. induction l as [|[] l IH]; intros i; simpl; [done| |by intros [= <-]].
  destruct (free_slot l); [|done]. intros [= <-]. simpl. by apply IH.
Qed.

Lemma free_slot_none l : free_slot l = None -> Forall (fun b => b = true) l.
Proof. induction l as [|[] l IH]; simpl; [by constructor| |done]. destruct (free_slot l); naive_solver. Qed.

Lemma existsb_id_lookup l i : l !! i = Some true -> existsb id l = true.
Proof. intros H. apply existsb_exists. exists true. split; [|done]. apply list_elem_of_In. by eapply list_elem_of_lookup_2. Qed.

(** The array stays well formed when a caller moves on at its slot [i] and the
    slot's data change. *)
Lemma array_ok_step a cs t c c' i sl' :
  array_ok a cs -> cs !! t = Some c -> slot_of c = i -> slot_of c' = i ->
  array_ok (set_slot i sl' a) (<[t := c']> cs).
Proof.
  intros [H1 H2 H3 H4 H5 H6 H7] Hc Hi Hi'. split; simpl.
  - by rewrite length_insert.
  - done.
  - intros t' d. rewrite lookup_insert_Some. intros [[<- <-]|[_ Hd]]; [rewrite Hi', <- Hi|]; eauto.
  - intros j Hj. destruct (H4 j Hj) as (t' & d & Hd & <-). destruct (decide (t = t')) as [<-|].
    + exists t, c'. rewrite lookup_insert_eq. split; [done|]. congruence.
    + exists t', d. by rewrite lookup_insert_ne.
  - intros t1 t2 d1 d2. rewrite !lookup_insert_Some.
    intros [[<- <-]|[? E1]] [[<- <-]|[? E2]] E; try done; [|..].
    + apply (H5 t t2 c d2); congruence.
    + apply (H5 t1 t d1 c); congruence.
    + eauto.
  - intros j Hj. rewrite list_lookup_insert_ne; [eauto|]. intros <-. subst i. rewrite (H3 _ _ Hc) in Hj. done.
  - done.
Qed.

Lemma callers_ok_step ls l s evs new t c c' i sl' :
  array_ok (arr s) (callers s) -> callers_ok ls s evs ->
  callers s !! t = Some c -> slot_of c = i -> slot_of c' = i ->
  (∀ j, j ≠ i -> foldl (note j) (last_hit evs j) new = last_hit evs j) ->
  caller_ok (ls ++ [l]) t c' sl' (foldl (note i) (last_hit evs i) new) ->
  callers_ok (ls ++ [l]) (System (set_slot i sl' (arr s)) (<[t := c']> (callers s)) (proc s)) (evs ++ new).
Proof.
  intros Ha Hcs Hc Hi Hi' Hnew Hok t' d. simpl. rewrite lookup_insert_Some.
  assert (Hlt : (i < length (slots (arr s)))%nat).
  { rewrite (ok_slots _ _ Ha). subst i. pose proof (ok_owned _ _ Ha _ _ Hc) as Hl.
    apply lookup_lt_Some in Hl. by rewrite (ok_flags _ _ Ha) in Hl. }
  intros [[<- <-]|[Hne Hd]].
  - exists sl'. rewrite Hi', list_lookup_insert_eq, last_hit_app by done. done.
  - assert (Hj : slot_of d ≠ i).
    { intros E. apply Hne. apply (ok_distinct _ _ Ha t t' c d); congruence. }
    destruct (Hcs t' d Hd) as (sl & Hsl & Hcok). exists sl.
    rewrite list_lookup_insert_ne, last_hit_app, Hnew by done. eauto using caller_ok_mono.
Qed.

Lemma proc_ok_same s s' :
  proc_ok s -> proc s' = proc s -> slot_in_use (arr s') = slot_in_use (arr s) -> proc_ok s'.
Proof. unfold proc_ok. intros H E1 E2. by rewrite E1, E2. Qed.

(** A step of a caller at its own slot. *)
Lemma inv_own_step ls l s evs new t c c' i sl' :
  inv ls s evs -> callers s !! t = Some c -> slot_of c = i -> slot_of c' = i ->
  (∀ j, j ≠ i -> foldl (note j) (last_hit evs j) new = last_hit evs j) ->
  caller_ok (ls ++ [l]) t c' sl' (foldl (note i) (last_hit evs i) new) ->
  inv (ls ++ [l]) (System (set_slot i sl' (arr s)) (<[t := c']> (callers s)) (proc s)) (evs ++ new).
Proof.
  intros [Ha Hc Hp] H1 H2 H3 H4 H5. split; simpl.
  - by eapply array_ok_step.
  - by eapply callers_ok_step.
  - by eapply proc_ok_same.
Qed.

Lemma set_slot_same i sl a : slots a !! i = Some sl -> set_slot i sl a = a.
Proof. intros H. unfold set_slot. rewrite list_insert_id by done. by destruct a. Qed.

(** The step leaves the slots alone. *)
Lemma inv_own_move ls l s evs t c c' sl :
  inv ls s evs -> callers s !! t = Some c -> slot_of c' = slot_of c ->
  slots (arr s) !! slot_of c = Some sl ->
  caller_ok (ls ++ [l]) t c' sl (last_hit evs (slot_of c)) ->
  inv (ls ++ [l]) (with_caller t c' s) evs.
Proof.
  intros Hinv H1 H2 H3 H4. unfold with_caller. rewrite <- (set_slot_same _ _ _ H3), <- (app_nil_r evs).
  by eapply inv_own_step.
Qed.

Lemma inv_call ls l s evs t q i a :
  inv ls s evs -> proc s = None -> callers s !! t = None ->
  loc_alloc_slot (arr s) = (Some i, a) ->
  inv (ls ++ [l]) (with_caller t (Selecting q i) (with_arr a s)) evs.
Proof.
  intros [[H1 H2 H3 H4 H5 H6 H7] Hc Hp] Hproc Ht. unfold loc_alloc_slot.
  destruct (free_slot (slot_in_use (arr s))) as [j|] eqn:Ef; [|done]. intros [= -> <-].
  apply free_slot_spec in Ef. pose proof (lookup_lt_Some _ _ _ Ef) as Hlt.
  assert (Hne : ∀ t' c, callers s !! t' = Some c -> slot_of c ≠ i).
  { intros t' c E <-. rewrite (H3 _ _ E) in Ef. done. }
  split; simpl.
  - split; simpl.
    + done.
    + by rewrite length_insert.
    + intros t' c. rewrite lookup_insert_Some. intros [[<- <-]|[_ E]].
      * simpl. by apply list_lookup_insert_eq.
      * rewrite list_lookup_insert_ne by (symmetry; eauto). eauto.
    + intros j Hj. destruct (decide (j = i)) as [->|].
      { exists t, (Selecting q i). by rewrite lookup_insert_eq. }
      rewrite list_lookup_insert_ne in Hj by done. destruct (H4 j Hj) as (t' & c & E & <-).
      exists t', c. rewrite lookup_insert_ne; [done|congruence].
    + intros t1 t2 c1 c2. rewrite !lookup_insert_Some.
      intros [[<- <-]|[? E1]] [[<- <-]|[? E2]] E; simpl in E; try done; [..|by eauto].
      * by destruct (Hne _ _ E2).
      * by destruct (Hne _ _ E1).
    + intros j Hj. apply H6. destruct (decide (j = i)) as [->|]; [done|].
      by rewrite list_lookup_insert_ne in Hj.
    + symmetry. apply (existsb_id_lookup _ i). by apply list_lookup_insert_eq.
  - apply (callers_ok_mono _ l) in Hc. intros t' c. simpl. rewrite lookup_insert_Some.
    intros [[<- <-]|[_ E]]; [|by apply Hc]. exists reset_slot. simpl. split; [by apply H6|done].
  - unfold proc_ok. simpl. by rewrite Hproc.
Qed.

Lemma inv_free ls l s evs t q i st :
  inv ls s evs -> proc s = None -> callers s !! t = Some (Freeing q i st) ->
  inv (ls ++ [l]) (System (loc_free_slot i (arr s)) (delete t (callers s)) None)
    (evs ++ [Returned t q i st]).
Proof.
  intros [[H1 H2 H3 H4 H5 H6 H7] Hc Hp] Hproc Ht.
  pose proof (H3 _ _ Ht) as Hu. simpl in Hu. pose proof (lookup_lt_Some _ _ _ Hu) as Hlt.
  assert (Hne : ∀ t' c, callers s !! t' = Some c -> t ≠ t' -> slot_of c ≠ i).
  { intros t' c E Hn <-. apply Hn. by eapply H5. }
  split; simpl.
  - split; simpl.
    + by rewrite length_insert.
    + by rewrite length_insert.
    + intros t' c. rewrite lookup_delete_Some. intros [Hn E].
      rewrite list_lookup_insert_ne by (symmetry; eauto). eauto.
    + intros j Hj. rewrite list_lookup_insert_Some in Hj. destruct Hj as [(_ & ? & _)|[Hj E]]; [done|].
      destruct (H4 j E) as (t' & c & E' & <-). exists t', c. rewrite lookup_delete_Some.
      split_and!; [|done..]. intros <-. rewrite Ht in E'. by injection E' as <-.
    + intros t1 t2 c1 c2. rewrite !lookup_delete_Some. intros [_ E1] [_ E2]. eauto.
    + intros j Hj. rewrite list_lookup_insert_Some in Hj. destruct Hj as [(<- & _ & _)|[Hj E]].
      * apply list_lookup_insert_eq. by rewrite H1, <- H2.
      * rewrite list_lookup_insert_ne by done. eauto.
    + rewrite H7, (existsb_id_lookup _ _ Hu). by destruct (existsb id (<[i:=false]> _)).
  - intros t' c. simpl. rewrite lookup_delete_Some. intros [Hn E].
    destruct (callers_ok_mono _ l _ _ Hc t' c E) as (sl & Hsl & Hok). exists sl.
    rewrite list_lookup_insert_ne by (symmetry; eauto).
    rewrite last_hit_app. by split.
  - done.
Qed.

Lemma take_S_existsb (l : list bool) i b :
  l !! i = Some b -> existsb id (take (S i) l) = existsb id (take i l) || b.
Proof.
  intros H. rewrite (take_S_r _ _ _ H), existsb_app. simpl. by rewrite orb_false_r.
Qed.

(** What a visit does to the slot and to its caller. *)
Lemma visit_caller ls l t c p sl hit :
  caller_ok ls t c sl hit -> slot_of c = p_i p -> p_handle p ≠ LOC_CLIENT_INVALID_HANDLE_VALUE ->
  matches p true sl = true ->
  caller_ok (ls ++ [l]) t c (hit_slot p sl) (Some (p_handle p, p_ind p)).
Proof.
  intros Hok Hi Hp Hm. apply (caller_ok_mono _ l) in Hok. unfold matches in Hm.
  apply andb_true_iff in Hm as [Hm Ha]. apply andb_true_iff in Hm as [Hh Hid].
  apply Z.eqb_eq in Hh. apply Z.eqb_eq in Hid. apply negb_true_iff in Ha.
  destruct c as [q i|q i|q i|q i|q i|q i st]; cbn [caller_ok] in *.
  { subst sl. by rewrite <- Hh in Hp. }
  all: destruct Hok as ((F1 & F2 & F3) & Hhit & Hw & Hrest); unfold hit_slot; rewrite Hw.
  all: assert (Hreq : Some (p_handle p, p_ind p) = Some (q_handle q, q_ind q)) by congruence.
  all: rewrite Hreq; split; [split_and!; simpl; congruence|]; split; [by right|].
  1-3: split; [done|by rewrite bool_decide_eq_true_2].
  - destruct Hrest as [Ha' Hs]. split_and!; [done|done|]. by rewrite bool_decide_eq_true_2.
  - split; [done|]. destruct st; try exact Hrest. by left.
Qed.

Lemma note_hit_other j i h d (evs : list event) acc :
  j ≠ i -> (∀ e, e ∈ evs -> ∃ p b, e = Copied p b) -> foldl (note j) acc (Hit i h d :: evs) = acc.
Proof.
  intros Hj He. simpl. rewrite decide_False by done. induction evs as [|e evs IH]; [done|].
  destruct (He e) as (p & b & ->); [left|]. simpl. apply IH. intros e' H. apply He. by right.
Qed.
Lemma note_hit_own i h d (evs : list event) acc :
  (∀ e, e ∈ evs -> ∃ p b, e = Copied p b) -> foldl (note i) acc (Hit i h d :: evs) = Some (h, d).
Proof.
  intros He. simpl. rewrite decide_True by done. induction evs as [|e evs IH]; [done|].
  destruct (He e) as (p & b & ->); [left|]. simpl. apply IH. intros e' H. apply He. by right.
Qed.

Definition copy_event (p : processing) (sl : loc_sync_req_data) : list event :=
  match copied p sl with Some (ptr, bs) => [Copied ptr bs] | None => [] end.

Lemma copy_event_copied p sl e : e ∈ copy_event p sl -> ∃ ptr b, e = Copied ptr b.
Proof.
  unfold copy_event. destruct (copied p sl) as [[ptr bs]|]; intros H.
  - apply list_elem_of_singleton in H. eauto.
  - by apply not_elem_of_nil in H.
Qed.

Lemma inv_visit ls l s evs p sl used p' sl' new :
  inv ls s evs -> proc s = Some p -> slots (arr s) !! p_i p = Some sl ->
  slot_in_use (arr s) !! p_i p = Some used -> visit p used sl = (p', sl', new) ->
  inv (ls ++ [l]) (System (set_slot (p_i p) sl' (arr s)) (callers s) (Some p')) (evs ++ new).
Proof.
  intros Hinv Hp Hsl Hu Hv. destruct (inv_proc _ _ _ Hinv p Hp) as (Hh & Hi & Hin & Hc).
  assert (Hproc : ∀ c, (c = true -> p_consumed p = true ∨ used = true) ->
    proc_ok (System (arr s) (callers s)
      (Some (Processing (p_handle p) (p_ind p) (p_payload p) (S (p_i p)) (p_in_use p || used) c)))).
  { intros c Hcons p0 [= <-]. simpl. split_and!; [done| | |].
    - apply lookup_lt_Some in Hu. by rewrite (ok_flags _ _ (inv_array _ _ _ Hinv)) in Hu.
    - by rewrite (take_S_existsb _ _ _ Hu), Hin.
    - intros Ht. destruct (Hcons Ht) as [H| ->]; [by rewrite (Hc H)|by rewrite orb_true_r]. }
  unfold visit in Hv. destruct (matches p used sl) eqn:Em.
  - assert (used = true) as -> by (by destruct used). fold (copy_event p sl) in Hv.
    injection Hv as <- <- <-.
    destruct (ok_owner _ _ (inv_array _ _ _ Hinv) _ Hu) as (t & c & Ht & Hslot).
    destruct (inv_callers _ _ _ Hinv t c Ht) as (sl0 & Hsl0 & Hok).
    rewrite Hslot, Hsl in Hsl0. injection Hsl0 as <-.
    pose proof (inv_own_step ls l s evs (Hit (p_i p) (p_handle p) (p_ind p) :: copy_event p sl)
                  t c c (p_i p) (hit_slot p sl) Hinv Ht Hslot Hslot) as Hnew.
    rewrite (insert_id _ _ _ Ht) in Hnew. destruct Hnew as [Ha' Hc' _].
    + intros j Hj. apply note_hit_other; [done|apply copy_event_copied].
    + rewrite note_hit_own by apply copy_event_copied. by eapply visit_caller.
    + split; [exact Ha'|exact Hc'|]. eapply proc_ok_same; [apply Hproc|done..].
      intros _. by right.
  - injection Hv as <- <- <-. rewrite (set_slot_same _ _ _ Hsl), app_nil_r.
    split; simpl; [apply Hinv|by apply callers_ok_mono, Hinv|].
    apply Hproc. by left.
Qed.

Lemma inv_end ls l s evs p :
  inv ls s evs -> proc s = Some p ->
  (p_i p <? LOC_SYNC_REQ_BUFFER_SIZE)%nat && negb (p_consumed p) = false ->
  inv (ls ++ [l]) (System (SyncArray (if p_in_use p then in_use (arr s) else false)
                             (slot_in_use (arr s)) (slots (arr s))) (callers s) None) evs.
Proof.
  intros Hinv Hp Hend. destruct (inv_proc _ _ _ Hinv p Hp) as (_ & Hi & Hin & Hc).
  split; simpl; [|by apply callers_ok_mono, Hinv|done].
  destruct (inv_array _ _ _ Hinv) as [H1 H2 H3 H4 H5 H6 H7]. split; simpl; try done.
  destruct (p_in_use p) eqn:E; [done|].
  assert (p_consumed p = false) as Hnc by (destruct (p_consumed p); naive_solver).
  rewrite Hnc, andb_true_r in Hend. apply Nat.ltb_ge in Hend.
  rewrite Hin. by rewrite take_ge by lia.
Qed.

Lemma inv_step ls l s evs s' new :
  inv ls s evs -> label_ok l -> step l s = Some (s', new) -> inv (ls ++ [l]) s' (evs ++ new).
Proof.
  intros Hinv Hl Hs. destruct l as [t q|t|t st|t|t|t w|t|h id payload| |]; simpl in Hs.
  - destruct (proc s) eqn:Ep; [done|]. destruct (callers s !! t) eqn:Et; [done|].
    destruct (loc_alloc_slot (arr s)) as [[i|] a] eqn:Ea; injection Hs as <- <-.
    + rewrite app_nil_r. by eapply inv_call.
    + destruct Hinv as [Ha Hc Hp]. split; [done| |done].
      intros t' c E. destruct (Hc t' c E) as (sl & Hsl & Hok). exists sl.
      rewrite last_hit_app. simpl. eauto using caller_ok_mono.
  - destruct (callers s !! t) as [[q i| | | | |]|] eqn:Et; try done.
    destruct (inv_callers _ _ _ Hinv t _ Et) as (sl & Hsl & Hok). cbn [slot_of caller_ok] in *.
    rewrite Hsl in Hs. injection Hs as <- <-. subst sl.
    refine (inv_own_step ls (Fill t) s evs [Selected t q i] t (Selecting q i) (Sending q i) i
              (selected q reset_slot) Hinv Et eq_refl eq_refl _ _).
    + intros j Hj. simpl. by rewrite decide_False.
    + simpl. rewrite decide_True by done. split_and!; try done. by left.
  - destruct (callers s !! t) as [[| q i| | | |]|] eqn:Et; try done. injection Hs as <- <-.
    destruct (inv_callers _ _ _ Hinv t _ Et) as (sl & Hsl & Hok). rewrite app_nil_r.
    eapply inv_own_move; [done|exact Et|by case_decide|exact Hsl|].
    cbn [slot_of caller_ok] in *. destruct Hok as (F & Hh & Hw & Ha).
    case_decide; simpl; [by split_and!|]. split_and!; try done.
    assert (Hin : Send t st ∈ ls ++ [Send t st]) by set_solver.
    by destruct st; simpl; try (by right).
  - destruct (callers s !! t) as [[| | q i| | |]|] eqn:Et; try done.
    pose proof (ok_owned _ _ (inv_array _ _ _ Hinv) _ _ Et) as Hu. cbn [slot_of] in Hu.
    rewrite Hu in Hs. injection Hs as <- <-. rewrite app_nil_r.
    destruct (inv_callers _ _ _ Hinv t _ Et) as (sl & Hsl & Hok).
    by eapply inv_own_move.
  - destruct (callers s !! t) as [[| | | q i| |]|] eqn:Et; try done.
    destruct (inv_callers _ _ _ Hinv t _ Et) as (sl & Hsl & Hok). cbn [slot_of caller_ok] in *.
    destruct Hok as (F & Hh & Hw & Ha). rewrite Hsl in Hs. cbn [mbind option_bind] in Hs. unfold wait_begin in Hs.
    rewrite Ha, Hw in Hs. case_bool_decide as Hhit; injection Hs as <- <-; rewrite app_nil_r.
    + eapply inv_own_move; [done|exact Et|done|exact Hsl|]. simpl. split_and!; try done.
      destruct Hh as [E|E]; [rewrite E in Hhit; by destruct Hhit|by left].
    + pose proof (inv_own_step ls (Wait t) s evs [] t (Entered q i) (Blocked q i) i) as H.
      rewrite app_nil_r in H. apply H; try done. simpl. split_and!; try done.
      by rewrite bool_decide_eq_false_2.
  - destruct (callers s !! t) as [[| | | |q i|]|] eqn:Et; try done.
    destruct (inv_callers _ _ _ Hinv t _ Et) as (sl & Hsl & Hok). cbn [slot_of caller_ok] in *.
    destruct Hok as (F & Hh & Hw & Ha & Hsig). rewrite Hsl in Hs. cbn [mbind option_bind] in Hs.
    destruct (wakeup_ok w sl) eqn:Ew; [|done]. injection Hs as <- <-. rewrite app_nil_r.
    pose proof (inv_own_step ls (Wake t w) s evs [] t (Blocked q i) (Freeing q i (wakeup_status w)) i (wait_end sl)) as H.
    rewrite app_nil_r in H. apply H; try done. simpl. split_and!; try done.
    destruct w; simpl in *; [| right; set_solver | left; set_solver].
    rewrite Hsig in Ew. apply bool_decide_eq_true in Ew.
    destruct Hh as [E|E]; [rewrite E in Ew; by destruct Ew|by left].
  - destruct (proc s) eqn:Ep; [done|].
    destruct (callers s !! t) as [[| | | | |q i st]|] eqn:Et; try done. injection Hs as <- <-.
    by apply inv_free.
  - destruct (proc s) eqn:Ep; [done|]. destruct Hinv as [Ha Hc Hp].
    apply (callers_ok_mono _ (Ind h id payload)) in Hc.
    destruct (in_use (arr s)); injection Hs as <- <-; rewrite app_nil_r.
    + split; [exact Ha|exact Hc|]. intros p [= <-]. simpl. split_and!; [done|lia|done|done].
    + exact (Build_inv _ _ _ Ha Hc Hp).
  - destruct (proc s) as [p|] eqn:Ep; [|done]. cbn [mbind option_bind] in Hs.
    destruct ((p_i p <? LOC_SYNC_REQ_BUFFER_SIZE)%nat && negb (p_consumed p)); [|done].
    destruct (slots (arr s) !! p_i p) as [sl|] eqn:Esl; [|done]. cbn [mbind option_bind] in Hs.
    destruct (slot_in_use (arr s) !! p_i p) as [used|] eqn:Eu; [|done]. cbn [mbind option_bind] in Hs.
    destruct (visit p used sl) as [[p' sl'] evs'] eqn:Ev. injection Hs as <- <-.
    by eapply inv_visit.
  - destruct (proc s) as [p|] eqn:Ep; [|done]. cbn [mbind option_bind] in Hs.
    destruct ((p_i p <? LOC_SYNC_REQ_BUFFER_SIZE)%nat && negb (p_consumed p)) eqn:Ee; [done|].
    injection Hs as <- <-. rewrite app_nil_r. by apply inv_end.
Qed.

Lemma inv_init : inv [] init [].
Proof.
  split; [|by intros t c E; simpl in E; rewrite lookup_empty in E|done]. split; try done.
  - intros i Hi. apply list_elem_of_lookup_2 in Hi. simpl in Hi. set_solver.
  - intros i Hi. pose proof (lookup_lt_Some _ _ _ Hi) as Hlt. simpl in Hlt.
    by apply lookup_replicate_2.
Qed.

Lemma run_inv ls s evs : run ls s evs -> Forall label_ok ls -> inv ls s evs.
Proof.
  induction 1 as [|ls s evs l s' new Hr IH Hs]; intros Hl; [apply inv_init|].
  apply Forall_snoc in Hl as [Hls Hl]. eauto using inv_step.
Qed.

(** * Theorems *)

(** At any time each caller inside loc_sync_send_req has a slot that no
    other caller has, the slots flagged in use are exactly those, the free
    slots are clear, and the array's in_use flag says whether there is any. *)
Theorem sync_slots_exclusive ls s evs (Hrun : run ls s evs) (Hls : Forall label_ok ls) :
  (∀ t c, callers s !! t = Some c -> slot_in_use (arr s) !! slot_of c = Some true) ∧
  (∀ i, slot_in_use (arr s) !! i = Some true -> ∃ t c, callers s !! t = Some c ∧ slot_of c = i) ∧
  (∀ t t' c c', callers s !! t = Some c -> callers s !! t' = Some c' -> slot_of c = slot_of c' -> t = t') ∧
  (∀ i, slot_in_use (arr s) !! i = Some false -> slots (arr s) !! i = Some reset_slot) ∧
  in_use (arr s) = existsb id (slot_in_use (arr s)).
Proof. by destruct (inv_array _ _ _ (run_inv _ _ _ Hrun Hls)). Qed.

Lemma returned_status ls l s evs s' new t q i st :
  inv ls s evs -> step l s = Some (s', new) -> Returned t q i st ∈ new ->
  new = [Returned t q i st] ∧ status_from ls t q (last_hit evs i) st.
Proof.
  intros Hinv Hs Hin.
  assert (Hno : ∀ p sl, Returned t q i st ∈ copy_event p sl -> False).
  { intros p sl H. by apply copy_event_copied in H as (? & ? & ?). }
  destruct l as [t' q'|t'|t' st'|t'|t'|t' w|t'|h id payload| |]; simpl in Hs.
  - repeat case_match; simplify_eq; set_solver.
  - destruct (callers s !! t') as [[]|]; try done.
    destruct (slots (arr s) !! _); simplify_eq/=. set_solver.
  - repeat case_match; simplify_eq; set_solver.
  - destruct (callers s !! t') as [[| | q0 i0| | |]|] eqn:Et; try done.
    pose proof (ok_owned _ _ (inv_array _ _ _ Hinv) _ _ Et) as Hu. cbn [slot_of] in Hu.
    rewrite Hu in Hs. simplify_eq. set_solver.
  - destruct (callers s !! t') as [[]|]; try done.
    destruct (slots (arr s) !! _) as [sl|]; [|done]. cbn in Hs. case_match; simplify_eq; set_solver.
  - destruct (callers s !! t') as [[]|]; try done.
    destruct (slots (arr s) !! _) as [sl|]; [|done]. cbn in Hs. case_match; simplify_eq; set_solver.
  - destruct (proc s); [done|]. destruct (callers s !! t') as [[| | | | |q0 i0 st0]|] eqn:Et; try done.
    simplify_eq. apply list_elem_of_singleton in Hin. simplify_eq. split; [done|].
    destruct (inv_callers _ _ _ Hinv _ _ Et) as (sl & _ & Hok). apply Hok.
  - repeat case_match; simplify_eq; set_solver.
  - destruct (proc s) as [p|]; [|done]. cbn [mbind option_bind] in Hs. case_match; [|done].
    destruct (slots (arr s) !! p_i p) as [sl|]; [|done]. cbn [mbind option_bind] in Hs.
    destruct (slot_in_use (arr s) !! p_i p) as [u|]; [|done]. cbn [mbind option_bind] in Hs.
    unfold visit in Hs. fold (copy_event p sl) in Hs. destruct (matches p u sl); simplify_eq.
    + exfalso. apply elem_of_cons in Hin as [?|Hin]; [done|by eapply Hno].
    + set_solver.
  - destruct (proc s) as [p|]; [|done]. cbn [mbind option_bind] in Hs. case_match; simplify_eq. set_solver.
Qed.

Lemma status_from_app ls ls' t q hit st : status_from ls t q hit st -> status_from (ls ++ ls') t q hit st.
Proof. unfold status_from. destruct st; set_solver. Qed.

(** A caller that got a slot returns eLOC_CLIENT_SUCCESS only after an
    indication with its handle and indication id found its slot since it was
    selected (or its wait ended without reason); any other status is the one
    locClientSendReq returned or a wait that timed out.  The error returns of
    loc_sync_wait_for_ind for a bad or busy slot never happen. *)
Theorem sync_request_answered ls s evs before after t q i st
    (Hrun : run ls s evs) (Hls : Forall label_ok ls)
    (Hret : evs = before ++ Returned t q i st :: after) :
  status_from ls t q (last_hit before i) st.
Proof.
  revert after Hret. induction Hrun as [|ls s evs l s' new Hr IH Hs]; intros after Hret.
  { by apply app_cons_not_nil in Hret. }
  pose proof Hls as Hls'. apply Forall_snoc in Hls as [Hls Hl].
  pose proof (run_inv _ _ _ Hr Hls) as Hinv.
  assert (Hnew : Returned t q i st ∈ new -> evs = before ->
                 status_from (ls ++ [l]) t q (last_hit before i) st).
  { intros Hin <-. destruct (returned_status _ _ _ _ _ _ _ _ _ _ Hinv Hs Hin) as [_ Hst].
    by apply status_from_app. }
  apply app_eq_inv in Hret as [([|e k] & E1 & E2)|(k & E1 & E2)].
  - rewrite app_nil_r in E1. apply Hnew; [|done]. simpl in E2. rewrite <- E2. left.
  - injection E2 as <- E2. apply status_from_app. by apply (IH Hls k).
  - assert (Hin : Returned t q i st ∈ new) by (rewrite E2; set_solver).
    destruct (returned_status _ _ _ _ _ _ _ _ _ _ Hinv Hs Hin) as [Hone _].
    rewrite Hone in E2. destruct k as [|e [|e' k]]; try done.
    apply Hnew; [done|]. by rewrite E1, app_nil_r.
Qed.

(** A payload is copied only into the buffer of a caller that is still
    inside loc_sync_send_req, asked for that handle and indication id, and it
    is the payload of the indication being processed. *)
Theorem sync_payload_during_call ls s evs l s' new ptr bytes
    (Hrun : run ls s evs) (Hls : Forall label_ok ls)
    (Hstep : step l s = Some (s', new)) (Hcopy : Copied ptr bytes ∈ new) :
  ∃ t c p, l = Visit ∧ callers s !! t = Some c ∧ callers s' !! t = Some c ∧ proc s = Some p ∧
    q_ptr (request_of c) = Some ptr ∧ q_handle (request_of c) = p_handle p ∧
    q_ind (request_of c) = p_ind p ∧ p_payload p = Some bytes ∧ bytes ≠ [].
Proof.
  pose proof (run_inv _ _ _ Hrun Hls) as Hinv.
  destruct l as [t' q'|t'|t' st'|t'|t'|t' w|t'|h id payload| |]; simpl in Hstep.
  1-8,10: exfalso; repeat (case_match || (destruct (slots _ !! _); cbn in Hstep; try done));
    simplify_eq; try set_solver; destruct (proc s); simplify_eq/=; repeat case_match; simplify_eq; set_solver.
  destruct (proc s) as [p|] eqn:Ep; [|done]. cbn [mbind option_bind] in Hstep.
  case_match; [|done].
  destruct (slots (arr s) !! p_i p) as [sl|] eqn:Esl; [|done]. cbn [mbind option_bind] in Hstep.
  destruct (slot_in_use (arr s) !! p_i p) as [u|] eqn:Eu; [|done]. cbn [mbind option_bind] in Hstep.
  unfold visit in Hstep. destruct (matches p u sl) eqn:Em; simplify_eq; [|set_solver].
  assert (u = true) as -> by (by destruct u).
  destruct (ok_owner _ _ (inv_array _ _ _ Hinv) _ Eu) as (t & c & Ht & Hslot).
  destruct (inv_callers _ _ _ Hinv t c Ht) as (sl0 & Hsl0 & Hok).
  rewrite Hslot, Esl in Hsl0. injection Hsl0 as <-. exists t, c, p.
  destruct (inv_proc _ _ _ Hinv p Ep) as (Hh & _).
  apply elem_of_cons in Hcopy as [?|Hcopy]; [done|]. unfold copied in Hcopy.
  destruct (recv_ind_payload_ptr sl) as [pt|] eqn:Ept; [|set_solver].
  destruct (p_payload p) as [[|b bs]|] eqn:Epay; [set_solver| |set_solver].
  apply list_elem_of_singleton in Hcopy. simplify_eq.
  unfold matches in Em. apply andb_true_iff in Em as [Em _]. apply andb_true_iff in Em as [Hc Hi].
  apply Z.eqb_eq in Hc. apply Z.eqb_eq in Hi.
  destruct c; cbn [caller_ok request_of] in *; [subst sl; by rewrite <- Hc in Hh|..].
  all: destruct Hok as ((F1 & F2 & F3) & _); split_and!; try done; congruence.
Qed.

(** An indication is never lost to a caller whose slot it found: before the
    wait it makes the wait succeed at once, and during the wait it has
    signalled the caller. *)
Theorem sync_hit_wakes ls s evs t c
    (Hrun : run ls s evs) (Hls : Forall label_ok ls) (Ht : callers s !! t = Some c)
    (Hhit : is_Some (last_hit evs (slot_of c))) :
  match c with
  | Entered q i => step (Wait t) s = Some (with_caller t (Freeing q i eLOC_CLIENT_SUCCESS) s, [])
  | Blocked q i => ∃ s', step (Wake t Signal) s = Some (s', []) ∧
                         callers s' !! t = Some (Freeing q i eLOC_CLIENT_SUCCESS)
  | _ => True
  end.
Proof.
  destruct (inv_callers _ _ _ (run_inv _ _ _ Hrun Hls) t c Ht) as (sl & Hsl & Hok).
  destruct c as [q i|q i|q i|q i|q i|q i st]; try done; cbn [slot_of caller_ok] in *;
    simpl; rewrite Ht, Hsl; cbn [mbind option_bind].
  - destruct Hok as (_ & _ & _ & Ha). unfold wait_begin. by rewrite Ha, bool_decide_eq_true_2.
  - destruct Hok as (_ & _ & _ & _ & Hs). simpl. rewrite Hs, bool_decide_eq_true_2 by done.
    eexists. split; [done|]. simpl. apply lookup_insert_eq.
Qed.

(** ** Every call ends *)

(** The labels that are the caller's own. *)
Definition own (t : nat) (l : label) : Prop :=
  match l with
  | Fill t' | Send t' _ | Enter t' | Wait t' | Wake t' _ | Free t' => t = t'
  | _ => False
  end.

Definition rank (c : caller) : nat :=
  match c with
  | Selecting _ _ => 6 | Sending _ _ => 5 | Waiting _ _ => 4
  | Entered _ _ => 3 | Blocked _ _ => 2 | Freeing _ _ _ => 1
  end.

(** How many slots an indication still visits. *)
Definition left_to_visit (s : system) : nat :=
  match proc s with Some p => S (LOC_SYNC_REQ_BUFFER_SIZE - p_i p) | None => 0 end.

Lemma own_step_enabled ls s evs t c :
  inv ls s evs -> proc s = None -> callers s !! t = Some c ->
  ∃ l s' new, own t l ∧ (∀ t', l ≠ Wake t' Spurious) ∧ step l s = Some (s', new).
Proof.
  intros Hinv Hp Ht. destruct (inv_callers _ _ _ Hinv t c Ht) as (sl & Hsl & _).
  pose proof (ok_owned _ _ (inv_array _ _ _ Hinv) _ _ Ht) as Hu.
  destruct c as [q i|q i|q i|q i|q i|q i st]; cbn [slot_of] in *.
  - exists (Fill t). do 2 eexists. split_and!; [done..|]. simpl. by rewrite Ht, Hsl.
  - exists (Send t eLOC_CLIENT_SUCCESS). do 2 eexists. split_and!; [done..|]. simpl. by rewrite Ht.
  - exists (Enter t). do 2 eexists. split_and!; [done..|]. simpl. by rewrite Ht, Hu.
  - exists (Wait t). simpl. rewrite Ht, Hsl. cbn [mbind option_bind].
    destruct (wait_begin sl); do 2 eexists; by split_and!.
  - exists (Wake t TimedOut). do 2 eexists. split_and!; [done..|]. simpl. by rewrite Ht, Hsl.
  - exists (Free t). do 2 eexists. split_and!; [done..|]. simpl. by rewrite Hp, Ht.
Qed.

Lemma proc_step_enabled ls s evs p :
  inv ls s evs -> proc s = Some p ->
  ∃ l s' new, (l = Visit ∨ l = EndInd) ∧ step l s = Some (s', new).
Proof.
  intros Hinv Hp. destruct (inv_array _ _ _ Hinv) as [H1 H2 _ _ _ _ _].
  destruct ((p_i p <? LOC_SYNC_REQ_BUFFER_SIZE)%nat && negb (p_consumed p)) eqn:E.
  - exists Visit. simpl. rewrite Hp. cbn [mbind option_bind]. rewrite E.
    apply andb_true_iff in E as [E _]. apply Nat.ltb_lt in E.
    destruct (lookup_lt_is_Some_2 (slots (arr s)) (p_i p)) as [sl Hsl]; [lia|].
    destruct (lookup_lt_is_Some_2 (slot_in_use (arr s)) (p_i p)) as [u Hu]; [lia|].
    rewrite Hsl, Hu. cbn [mbind option_bind]. destruct (visit p u sl) as [[p' sl'] evs'].
    do 2 eexists. by split; [left|].
  - exists EndInd. simpl. rewrite Hp. cbn [mbind option_bind]. rewrite E.
    do 2 eexists. by split; [right|].
Qed.

(** What a step does to the callers: nothing, a call that takes a slot, or a
    move of the caller that makes the step. *)
Inductive callers_step (s s' : system) (l : label) (new : list event) : Prop :=
  | cs_same : (∀ t, ¬ own t l) -> callers s' = callers s -> callers_step s s' l new
  | cs_call t q i : (∀ t, ¬ own t l) -> callers s !! t = None -> callers s' = <[t := Selecting q i]> (callers s) ->
      callers_step s s' l new
  | cs_move t c c' : own t l -> callers s !! t = Some c -> callers s' = <[t := c']> (callers s) ->
      (rank c' < rank c)%nat -> callers_step s s' l new
  | cs_return t c st : own t l -> callers s !! t = Some c -> callers s' = delete t (callers s) ->
      new = [Returned t (request_of c) (slot_of c) st] -> callers_step s s' l new.

Lemma own_unique t t' l : own t l -> own t' l -> t = t'.
Proof. destruct l; simpl; try done; congruence. Qed.

Lemma step_callers s l s' new : step l s = Some (s', new) -> callers_step s s' l new.
Proof.
  intros Hs. destruct l as [t q|t|t st|t|t|t w|t|h id payload| |]; simpl in Hs.
  - destruct (proc s); [done|]. destruct (callers s !! t) eqn:Et; [done|].
    destruct (loc_alloc_slot (arr s)) as [[i|] a]; simplify_eq; [by eapply cs_call; [intros ? []|..]|by apply cs_same; [intros ? []|]].
  - destruct (callers s !! t) as [[q i| | | | |]|] eqn:Et; try done.
    destruct (slots (arr s) !! i); simplify_eq/=. eapply cs_move; [done|exact Et|done|simpl; lia].
  - destruct (callers s !! t) as [[| q i| | | |]|] eqn:Et; try done. simplify_eq/=.
    eapply cs_move; [done|exact Et|done|case_decide; simpl; lia].
  - destruct (callers s !! t) as [[| | q i| | |]|] eqn:Et; try done.
    destruct (slot_in_use (arr s) !! i) as [[]|]; simplify_eq/=;
      [eapply cs_move; [done|exact Et|done|simpl; lia]|by eapply cs_return..].
  - destruct (callers s !! t) as [[| | | q i| |]|] eqn:Et; try done.
    destruct (slots (arr s) !! i) as [sl|]; [|done]. cbn [mbind option_bind] in Hs.
    destruct (wait_begin sl); simplify_eq/=; (eapply cs_move; [done|exact Et|done|simpl; lia]).
  - destruct (callers s !! t) as [[| | | |q i|]|] eqn:Et; try done.
    destruct (slots (arr s) !! i) as [sl|]; [|done]. cbn [mbind option_bind] in Hs.
    destruct (wakeup_ok w sl); simplify_eq/=. eapply cs_move; [done|exact Et|done|simpl; lia].
  - destruct (proc s); [done|]. destruct (callers s !! t) as [[| | | | |q i st]|] eqn:Et; try done.
    simplify_eq/=. by eapply cs_return.
  - destruct (proc s); [done|]. destruct (in_use (arr s)); simplify_eq; by apply cs_same; [intros ? []|].
  - destruct (proc s) as [p|]; [|done]. cbn [mbind option_bind] in Hs. case_match; [|done].
    destruct (slots (arr s) !! p_i p) as [sl|]; [|done]. cbn [mbind option_bind] in Hs.
    destruct (slot_in_use (arr s) !! p_i p) as [u|]; [|done]. cbn [mbind option_bind] in Hs.
    destruct (visit p u sl) as [[p' sl'] evs']. simplify_eq. by apply cs_same; [intros ? []|].
  - destruct (proc s) as [p|]; [|done]. cbn [mbind option_bind] in Hs.
    case_match; simplify_eq. by apply cs_same; [intros ? []|].
Qed.

Lemma proc_step_less s l s' new p :
  proc s = Some p -> l = Visit ∨ l = EndInd -> step l s = Some (s', new) ->
  (left_to_visit s' < left_to_visit s)%nat.
Proof.
  intros Ep Hl Hs. unfold left_to_visit, LOC_SYNC_REQ_BUFFER_SIZE. rewrite Ep.
  destruct Hl as [-> | ->]; simpl in Hs; rewrite Ep in Hs; cbn [mbind option_bind] in Hs.
  - case_match eqn:E; [|done]. apply andb_true_iff in E as [E _]. apply Nat.ltb_lt in E.
    destruct (slots (arr s) !! p_i p) as [sl|]; [|done]. cbn [mbind option_bind] in Hs.
    destruct (slot_in_use (arr s) !! p_i p) as [u|]; [|done]. cbn [mbind option_bind] in Hs.
    unfold LOC_SYNC_REQ_BUFFER_SIZE in E.
    unfold visit in Hs. destruct (matches p u sl); simplify_eq; cbn [proc p_i]; lia.
  - case_match; [done|]. simplify_eq. cbn [proc]. lia.
Qed.

(** The labels of the caller [t] itself and of the indication thread at work;
    no wait ends without reason. *)
Definition helps (t : nat) (l : label) : Prop :=
  (own t l ∨ l = Visit ∨ l = EndInd) ∧ ∀ t', l ≠ Wake t' Spurious.

(** What is left to do for caller [t]. *)
Definition left_to_do (t : nat) (s : system) : nat :=
  from_option rank 0%nat (callers s !! t) + left_to_visit s.

Lemma own_keeps_proc t l s s' new : own t l -> step l s = Some (s', new) -> proc s' = proc s.
Proof.
  intros Ho Hs. destruct l; simpl in Ho; try done; simpl in Hs;
    repeat (case_match || (destruct (slots _ !! _); cbn in Hs; try done)); by simplify_eq/=.
Qed.

Lemma proc_keeps_callers l s s' new :
  l = Visit ∨ l = EndInd -> step l s = Some (s', new) -> callers s' = callers s.
Proof.
  intros Hl Hs. destruct (step_callers _ _ _ _ Hs) as [_ E|t q i _ Hn E|? ? ? Ho|? ? ? Ho]; [done| |by destruct Hl; subst..].
  destruct Hl as [-> | ->]; simpl in Hs; destruct (proc s) as [p|]; try done; cbn [mbind option_bind] in Hs;
    (case_match; try done).
  - destruct (slots _ !! _), (slot_in_use _ !! _); try done; cbn [mbind option_bind] in Hs.
    destruct (visit _ _ _) as [[]]. by injection Hs as <- _.
  - by injection Hs as <- _.
Qed.

Lemma helps_step_less t l s s' new :
  helps t l -> step l s = Some (s', new) -> (left_to_do t s' < left_to_do t s)%nat.
Proof.
  intros [Hl _] Hs. unfold left_to_do. destruct (step_callers _ _ _ _ Hs) as [Hno E|t' q i Hno Hn E|t' d d' Ho Hd E Hr|t' d st Ho Hd E _].
  1,2: destruct Hl as [Ho|Hl]; [by destruct (Hno _ Ho)|]; assert (is_Some (proc s)) as [p Ep] by
    (simpl in Hs; destruct Hl as [-> | ->]; simpl in Hs; destruct (proc s); by eauto).
  - rewrite E. pose proof (proc_step_less _ _ _ _ _ Ep Hl Hs). lia.
  - exfalso. rewrite <- (proc_keeps_callers _ _ _ _ Hl Hs), E, lookup_insert_eq in Hn. done.
  - destruct Hl as [Ho'|[-> | ->]]; [|done..]. pose proof (own_unique _ _ _ Ho Ho') as ->.
    unfold left_to_visit. rewrite (own_keeps_proc _ _ _ _ _ Ho Hs), E, lookup_insert_eq, Hd. simpl. lia.
  - destruct Hl as [Ho'|[-> | ->]]; [|done..]. pose proof (own_unique _ _ _ Ho Ho') as ->.
    unfold left_to_visit. rewrite (own_keeps_proc _ _ _ _ _ Ho Hs), E, lookup_delete_eq, Hd.
    destruct d; simpl; lia.
Qed.

Lemma helps_run_length t ls s evs s' evs' :
  Forall (helps t) ls -> exec ls s evs = Some (s', evs') ->
  (length ls + left_to_do t s' <= left_to_do t s)%nat.
Proof.
  intros Hls. revert s evs. induction Hls as [|l ls Hl _ IH]; intros s evs E; simpl in E; [by simplify_eq|].
  destruct (step l s) as [[s1 new]|] eqn:Es; [|done]. apply IH in E.
  pose proof (helps_step_less _ _ _ _ _ Hl Es). simpl. lia.
Qed.

(** A caller inside can go on, or the indication at work can, without a wait
    that ends for no reason. *)
Lemma helps_enabled ls s evs t c :
  inv ls s evs -> callers s !! t = Some c -> ∃ l, helps t l ∧ is_Some (step l s).
Proof.
  intros Hinv Ht. destruct (proc s) as [p|] eqn:Ep.
  - destruct (proc_step_enabled _ _ _ _ Hinv Ep) as (l & s' & new & Hl & Hs).
    exists l. split; [|by eauto]. split; [by right|]. by destruct Hl as [-> | ->].
  - destruct (own_step_enabled _ _ _ _ _ Hinv Ep Ht) as (l & s' & new & Ho & Hn & Hs).
    exists l. split; [|by eauto]. split; [by left|done].
Qed.

(** A caller that no indication has found can end its wait by its time only. *)
Lemma unanswered_times_out ls s evs t q i :
  inv ls s evs -> callers s !! t = Some (Blocked q i) -> last_hit evs i = None ->
  step (Wake t Signal) s = None ∧
  ∃ s', step (Wake t TimedOut) s = Some (s', []) ∧
        callers s' !! t = Some (Freeing q i eLOC_CLIENT_FAILURE_TIMEOUT).
Proof.
  intros Hinv Ht Hhit. destruct (inv_callers _ _ _ Hinv t _ Ht) as (sl & Hsl & Hok).
  cbn [slot_of caller_ok] in *. destruct Hok as (_ & _ & _ & _ & Hsig). rewrite Hhit in Hsig.
  simpl. rewrite Ht, Hsl. cbn [mbind option_bind wakeup_ok]. rewrite Hsig. split; [done|].
  eexists. split; [done|]. apply lookup_insert_eq.
Qed.

(** A step of another thread takes no caller back, one of its own brings it on,
    and it leaves by returning. *)
Lemma rank_step s l s' new t c :
  callers s !! t = Some c -> step l s = Some (s', new) ->
  match callers s' !! t with
  | Some c' => (rank c' <= rank c <= 6)%nat ∧ (own t l -> (rank c' < rank c)%nat)
  | None => own t l ∧ ∃ st, new = [Returned t (request_of c) (slot_of c) st]
  end.
Proof.
  intros Ht Hs. assert (Hrank : (rank c <= 6)%nat) by (destruct c; simpl; lia).
  destruct (step_callers _ _ _ _ Hs) as [Hno E|t' q i Hno Hn E|t' d d' Ho Hd E Hr|t' d st Ho Hd E Hnew].
  - rewrite E, Ht. split; [lia|by intros ?%Hno].
  - rewrite E, lookup_insert_ne, Ht by congruence. split; [lia|by intros ?%Hno].
  - rewrite E. destruct (decide (t' = t)) as [->|Hne].
    + rewrite lookup_insert_eq. rewrite Ht in Hd. injection Hd as <-. split; [lia|auto].
    + rewrite lookup_insert_ne, Ht by done. split; [lia|]. intros Ho'. by destruct (Hne (own_unique _ _ _ Ho Ho')).
  - rewrite E. destruct (decide (t' = t)) as [->|Hne].
    + rewrite lookup_delete_eq. rewrite Ht in Hd. injection Hd as <-. eauto.
    + rewrite lookup_delete_ne, Ht by done. split; [lia|]. intros Ho'. by destruct (Hne (own_unique _ _ _ Ho Ho')).
Qed.

(** C38: Every call of loc_sync_send_req ends, and the time-out of its wait is
    what guarantees it: no wait that ends without reason is counted on.  A
    caller that is inside has a step of its own, or the indication at work has
    one.  If no indication has found its slot, a blocked caller can end its
    wait by its time only, and then leaves with eLOC_CLIENT_FAILURE_TIMEOUT.
    However these two threads are scheduled, after at most fifteen of their
    steps the caller has returned: each run of their steps is that short, and
    one that ends with the caller inside can go on.  A step of any other thread
    takes the caller nowhere back, each of its own brings it on, and it leaves
    only by returning its own request and slot. *)
Theorem sync_call_ends ls s evs t c
    (Hrun : run ls s evs) (Hls : Forall label_ok ls) (Ht : callers s !! t = Some c) :
  (∀ q i, c = Blocked q i -> last_hit evs i = None ->
     step (Wake t Signal) s = None ∧
     ∃ s', step (Wake t TimedOut) s = Some (s', []) ∧
           callers s' !! t = Some (Freeing q i eLOC_CLIENT_FAILURE_TIMEOUT)) ∧
  (∀ ls' s' evs', Forall (helps t) ls' -> exec ls' s evs = Some (s', evs') ->
     (length ls' <= rank c + left_to_visit s <= 15)%nat ∧
     (is_Some (callers s' !! t) -> ∃ l, helps t l ∧ is_Some (step l s'))) ∧
  ∀ l s' new, step l s = Some (s', new) ->
    match callers s' !! t with
    | Some c' => (rank c' <= rank c <= 6)%nat ∧ (own t l -> (rank c' < rank c)%nat)
    | None => own t l ∧ ∃ st, new = [Returned t (request_of c) (slot_of c) st]
    end.
Proof.
  pose proof (run_inv _ _ _ Hrun Hls) as Hinv. split_and!.
  - intros q i -> Hhit. by eapply unanswered_times_out.
  - intros ls' s' evs' Hh He. split.
    + pose proof (helps_run_length _ _ _ _ _ _ Hh He) as Hlen.
      unfold left_to_do at 2 in Hlen. rewrite Ht in Hlen. simpl in Hlen.
      assert (rank c <= 6)%nat by (destruct c; simpl; lia).
      assert (left_to_visit s <= 9)%nat.
      { unfold left_to_visit, LOC_SYNC_REQ_BUFFER_SIZE. destruct (proc s); lia. }
      lia.
    + intros [c' Ht']. eapply helps_enabled; [|exact Ht'].
      eapply run_inv; [by eapply exec_run|]. apply Forall_app. split; [done|].
      eapply Forall_impl; [exact Hh|]. intros l [[Ho|[-> | ->]] _]; try done. by destruct l.
  - intros l s' new. by apply rank_step.
Qed.

(** ** Example runs *)

Module Demo.

Definition q1 : request := Request 100 34 50 (Some 1000).
Definition q2 : request := Request 100 34 50 (Some 2000).
Definition enter (t : nat) (q : request) : list label :=
  [Call t q; Fill t; Send t eLOC_CLIENT_SUCCESS; Enter t; Wait t].

(** One caller that is answered while it waits. *)
Definition answered : list label := enter 1 q1 ++ [Ind 100 50 (Some [7; 8])].
Definition all (ls : list label) : system * list event := default (init, []) (exec ls init []).

Lemma run_all ls r : exec ls init [] = Some r -> run ls (all ls).1 (all ls).2.
Proof.
  intros E. unfold all. rewrite E. destruct r as [s evs]. apply (exec_run [] ls init [] s evs); [constructor|done].
Qed.

Definition done_run : list label := answered ++ [Visit; EndInd; Wake 1 Signal; Free 1].

End Demo.

Lemma sync_slots_exclusive_witness :
  slot_in_use (arr (Demo.all Demo.answered).1) !! 0%nat = Some true ∧
  in_use (arr (Demo.all Demo.answered).1) = existsb id (slot_in_use (arr (Demo.all Demo.answered).1)).
Proof.
  destruct (sync_slots_exclusive Demo.answered (Demo.all Demo.answered).1 (Demo.all Demo.answered).2)
    as (H1 & _ & _ & _ & H5).
  - eapply Demo.run_all. vm_compute; reflexivity.
  - repeat constructor; discriminate.
  - split; [|exact H5]. apply (H1 1%nat (Blocked Demo.q1 0)). vm_compute; reflexivity.
Defined.

Lemma sync_request_answered_witness :
  (Demo.all Demo.done_run).2 =
    [Selected 1 Demo.q1 0; Hit 0 100 50; Copied 1000 [7; 8]] ++ Returned 1 Demo.q1 0 eLOC_CLIENT_SUCCESS :: [] ∧
  status_from Demo.done_run 1 Demo.q1
    (last_hit [Selected 1 Demo.q1 0; Hit 0 100 50; Copied 1000 [7; 8]] 0) eLOC_CLIENT_SUCCESS.
Proof.
  split; [vm_compute; reflexivity|].
  apply (sync_request_answered Demo.done_run (Demo.all Demo.done_run).1 (Demo.all Demo.done_run).2
           [Selected 1 Demo.q1 0; Hit 0 100 50; Copied 1000 [7; 8]] []).
  - eapply Demo.run_all. vm_compute; reflexivity.
  - repeat constructor; discriminate.
  - vm_compute; reflexivity.
Defined.

Lemma sync_payload_during_call_witness :
  ∃ t c p, Visit = Visit ∧ callers (Demo.all Demo.answered).1 !! t = Some c ∧
    callers (Demo.all (Demo.answered ++ [Visit])).1 !! t = Some c ∧
    proc (Demo.all Demo.answered).1 = Some p ∧
    q_ptr (request_of c) = Some 1000 ∧ q_handle (request_of c) = p_handle p ∧
    q_ind (request_of c) = p_ind p ∧ p_payload p = Some [7; 8] ∧ [7; 8] ≠ [].
Proof.
  apply (sync_payload_during_call Demo.answered (Demo.all Demo.answered).1 (Demo.all Demo.answered).2
           Visit (Demo.all (Demo.answered ++ [Visit])).1 [Hit 0 100 50; Copied 1000 [7; 8]]).
  - eapply Demo.run_all. vm_compute; reflexivity.
  - repeat constructor; discriminate.
  - vm_compute; reflexivity.
  - right. left.
Defined.

Lemma sync_hit_wakes_witness :
  ∃ s', step (Wake 1 Signal) (Demo.all (Demo.answered ++ [Visit])).1 = Some (s', []) ∧
        callers s' !! 1%nat = Some (Freeing Demo.q1 0 eLOC_CLIENT_SUCCESS).
Proof.
  apply (sync_hit_wakes (Demo.answered ++ [Visit]) (Demo.all (Demo.answered ++ [Visit])).1
           (Demo.all (Demo.answered ++ [Visit])).2 1 (Blocked Demo.q1 0)).
  - eapply Demo.run_all. vm_compute; reflexivity.
  - repeat constructor; discriminate.
  - vm_compute; reflexivity.
  - exists (100, 50). vm_compute; reflexivity.
Defined.

(** A blocked caller whose indication is being visited: at most ten steps are
    left, and the run that ends them. *)
Lemma sync_call_ends_witness :
  (∀ ls' s' evs', Forall (helps 1) ls' ->
     exec ls' (Demo.all Demo.answered).1 (Demo.all Demo.answered).2 = Some (s', evs') ->
     (length ls' <= 2 + 9 <= 15)%nat ∧
     (is_Some (callers s' !! 1%nat) -> ∃ l, helps 1 l ∧ is_Some (step l s'))) ∧
  step (Wake 1 Signal) (Demo.all (Demo.enter 1 Demo.q1)).1 = None ∧
  callers (Demo.all (Demo.enter 1 Demo.q1 ++ [Wake 1 TimedOut])).1 !! 1%nat =
    Some (Freeing Demo.q1 0 eLOC_CLIENT_FAILURE_TIMEOUT).
Proof.
  split.
  - apply (sync_call_ends Demo.answered (Demo.all Demo.answered).1 (Demo.all Demo.answered).2
             1 (Blocked Demo.q1 0)).
    + eapply Demo.run_all. vm_compute; reflexivity.
    + repeat constructor; discriminate.
    + vm_compute; reflexivity.
  - split; [|vm_compute; reflexivity].
    destruct (sync_call_ends (Demo.enter 1 Demo.q1) (Demo.all (Demo.enter 1 Demo.q1)).1
                (Demo.all (Demo.enter 1 Demo.q1)).2 1 (Blocked Demo.q1 0)) as [H _].
    + eapply Demo.run_all. vm_compute; reflexivity.
    + repeat constructor.
    + vm_compute; reflexivity.
    + apply (H Demo.q1 0%nat); vm_compute; reflexivity.
Defined.

(** Two callers wait for the same indication of the same client and two
    indications arrive before the first caller wakes up.  Both find the first
    slot, the second payload overwrites the first one, and nothing is left for
    the second caller, which can only time out. *)
Theorem sync_second_indication_lost :
  ∃ ls s evs, run ls s evs ∧
    callers s !! 1%nat = Some (Blocked Demo.q1 0) ∧ callers s !! 2%nat = Some (Blocked Demo.q2 1) ∧
    proc s = None ∧
    evs = [Selected 1 Demo.q1 0; Selected 2 Demo.q2 1;
           Hit 0 100 50; Copied 1000 [7]; Hit 0 100 50; Copied 1000 [8]] ∧
    is_Some (step (Wake 1 Signal) s) ∧ step (Wake 2 Signal) s = None.
Proof.
  set (ls := Demo.enter 1 Demo.q1 ++ Demo.enter 2 Demo.q2 ++
             [Ind 100 50 (Some [7]); Visit; EndInd; Ind 100 50 (Some [8]); Visit; EndInd]).
  exists ls, (Demo.all ls).1, (Demo.all ls).2.
  split; [eapply Demo.run_all; vm_compute; reflexivity|].
  split_and!; try (vm_compute; reflexivity). vm_compute. eauto.
Qed.

(** With all eight slots taken a call reports success and sends nothing. *)
Example sync_full_reports_success :
  (Demo.all (mjoin ((fun t => Demo.enter t Demo.q1) <$> seq 1 8) ++ [Call 9 Demo.q1])).2 =
    ((fun t => Selected t Demo.q1 (t - 1)) <$> seq 1 8) ++ [Refused 9 eLOC_CLIENT_SUCCESS].
Proof. vm_compute. reflexivity. Qed.

(** A wait that ends without reason counts as answered. *)
Example sync_spurious_wakeup :
  (Demo.all (Demo.enter 1 Demo.q1 ++ [Wake 1 Spurious; Free 1])).2 =
    [Selected 1 Demo.q1 0; Returned 1 Demo.q1 0 eLOC_CLIENT_SUCCESS].
Proof. vm_compute. reflexivity. Qed.
