(* ===== verification/GptUtils.v ===== *)
(** gpt-utils.cpp: the fail-safe update of boot partitions through the two GPT
    copies of a disk.

    The disk is a list of bytes.  Every call that can fail - ioctl, malloc,
    lseek, read, write, fsync, stat - takes its outcome from a list of booleans
    in the state, so a theorem over all lists covers every error path, and, as
    nothing is written after an error, every point at which the device may stop
    between two writes.  crc32 (zlib) is a parameter.  A header buffer has the
    contents [junk] before it is read. *)

From stdpp Require Import list strings.
From Stdlib Require Import Ascii.
From S2P Require Import Prelude.

Local Open Scope Z_scope.

(** * Bytes *)

Definition byte_at (b : list Z) (i : Z) : Z := default 0 (b !! Z.to_nat i).

Definition GET_4_BYTES (b : list Z) (o : Z) : Z :=
  Z.lor (Z.lor (Z.lor (byte_at b o) (Z.shiftl (byte_at b (o + 1)) 8))
               (Z.shiftl (byte_at b (o + 2)) 16)) (Z.shiftl (byte_at b (o + 3)) 24).

Definition GET_8_BYTES (b : list Z) (o : Z) : Z :=
  Z.lor (GET_4_BYTES b o) (Z.shiftl (GET_4_BYTES b (o + 4)) 32).

Definition put (i : Z) (v : Z) (b : list Z) : list Z := <[Z.to_nat i := v]> b.

Definition PUT_4_BYTES (b : list Z) (o y : Z) : list Z :=
  put (o + 3) (Z.land (Z.shiftr y 24) 255)
    (put (o + 2) (Z.land (Z.shiftr y 16) 255)
      (put (o + 1) (Z.land (Z.shiftr y 8) 255) (put o (Z.land y 255) b))).

Definition HEADER_SIZE_OFFSET : Z := 12.
Definition HEADER_CRC_OFFSET : Z := 16.
Definition PENTRIES_OFFSET : Z := 72.
Definition PARTITION_COUNT_OFFSET : Z := 80.
Definition PENTRY_SIZE_OFFSET : Z := 84.
Definition PARTITION_CRC_OFFSET : Z := 88.
Definition PTN_ENTRY_SIZE : nat := 128.
Definition PARTITION_NAME_OFFSET : nat := 56.
Definition MAX_GPT_NAME_SIZE : nat := 72.

Definition bytes_of (s : string) : list Z :=
  (fun c => Z.of_N (N_of_ascii c)) <$> String.list_ascii_of_string s.

(** sizeof(GPT_SIGNATURE) counts the terminating zero. *)
Definition GPT_SIGNATURE : list Z := bytes_of "EFI PART" ++ [0].

Definition PTN_XBL : string := "xbl".
Definition PTN_SWAP_LIST : list string :=
  [PTN_XBL; "sbl1"; "rpm"; "tz"; "aboot"; "hyp"; "lksecapp"; "keymaster"; "cmnlib"; "cmnlib32";
   "cmnlib64"; "pmic"; "apdp"; "devcfg"; "hosd"; "keystore"; "msadp"; "abl"; "mdtpsecapp"; "mdtp"]%string.

Inductive gpt_state := GPT_OK | GPT_BAD_SIGNATURE | GPT_BAD_CRC.
Inductive gpt_instance := PRIMARY_GPT | SECONDARY_GPT.
Inductive boot_chain := NORMAL_BOOT | BACKUP_BOOT.
Inductive boot_update_stage := UPDATE_MAIN | UPDATE_BACKUP | UPDATE_FINALIZE.
#[export] Instance gpt_state_eq_dec : EqDecision gpt_state.
Proof. solve_decision. Defined.
#[export] Instance gpt_instance_eq_dec : EqDecision gpt_instance.
Proof. solve_decision. Defined.
#[export] Instance boot_update_stage_eq_dec : EqDecision boot_update_stage.
Proof. solve_decision. Defined.

Definition stage_number (s : boot_update_stage) : Z :=
  match s with UPDATE_MAIN => 1 | UPDATE_BACKUP => 2 | UPDATE_FINALIZE => 3 end.

(** * The device *)

(** [boot_lun] is the boot LUN attribute of a UFS device. *)
Record device := Device { disk : list Z; outcomes : list bool; boot_lun : Z }.

Definition read (o n : nat) (d : list Z) : list Z := take n (drop o d).
Definition write (o : nat) (bs d : list Z) : list Z :=
  take o d ++ take (length d - o) bs ++ drop (o + length bs) d.

(** The outcome of the next call that can fail; it succeeds when the list is
    used up. *)
Definition sys : M device bool := fun s =>
  match outcomes s with
  | [] => Done (true, s)
  | b :: bs => Done (b, Device (disk s) bs (boot_lun s))
  end.

Definition lift {A} (o : outcome A) : M device A := fun s => obind (fun a => Done (a, s)) o.

Definition set_disk (d : list Z) : M device unit :=
  modify (fun s => Device d (outcomes s) (boot_lun s)).

(** blk_rw: reading into [buf] gives the buffer on success; a read or write
    that ends at the end of the device is a success. *)
Definition blk_read (offset : Z) (buf : list Z) : M device (option (list Z)) :=
  let! sought := sys in
  if negb sought || (offset <? 0) then ret None else
  let! ok := sys in
  if negb ok then ret None else
  let! d := gets disk in
  let bs := read (Z.to_nat offset) (length buf) d in
  ret (Some (bs ++ drop (length bs) buf)).

Definition blk_write (offset : Z) (buf : list Z) : M device Z :=
  let! sought := sys in
  if negb sought || (offset <? 0) then ret (-1) else
  let! ok := sys in
  let! d := gets disk in
  if negb ok || (Z.of_nat (length d) <=? offset) then ret (-1) else
  set_disk (write (Z.to_nat offset) buf d) ;;;
  let! synced := sys in
  ret (if synced then 0 else -1).

(** * Partition entries *)

(** The first half of name8 is filled with every other byte of the entry's
    name. *)
Definition name8 (junk : Z) (pentries : list Z) (entry : nat) : list Z :=
  ((fun i => byte_at pentries (Z.of_nat (entry + PARTITION_NAME_OFFSET + 2 * i)))
     <$> seq 0 (MAX_GPT_NAME_SIZE / 2)) ++ replicate (MAX_GPT_NAME_SIZE / 2) junk.

Definition name_matches (ptn_name name : list Z) : bool :=
  let len := length ptn_name in
  bool_decide (take len name = ptn_name) &&
  (bool_decide (name !! len = Some 0) || bool_decide (take 4 (drop len name) = bytes_of "bak" ++ [0])).

(** Entries are numbered by their offset.  Reading a name past the end of the
    array is undefined; an entry size of zero does not end. *)
Fixpoint gpt_pentry_seek (junk : Z) (ptn_name : list Z) (pentries : list Z) (pentry_size : nat)
    (fuel entry : nat) : outcome (option nat) :=
  if (length pentries <=? entry + PARTITION_NAME_OFFSET)%nat then Done None
  else if (length pentries <? entry + PTN_ENTRY_SIZE - 1)%nat then Undefined
  else if name_matches ptn_name (name8 junk pentries entry) then Done (Some entry)
  else match fuel with
       | O => NoFuel
       | S fuel => gpt_pentry_seek junk ptn_name pentries pentry_size fuel (entry + pentry_size)
       end.

(** The entries at [i] and [j] change places; they must end in the array. *)
Definition swap_entries (i j : nat) (pentries : list Z) : outcome (list Z) :=
  if (i + PTN_ENTRY_SIZE <=? length pentries)%nat && (j + PTN_ENTRY_SIZE <=? length pentries)%nat then
    let ptn_swap := read i PTN_ENTRY_SIZE pentries in
    let bak := read j PTN_ENTRY_SIZE pentries in
    Done (write j ptn_swap (write i bak pentries))
  else Undefined.

(** The entry of [ptn] and its backup change places, when both are there. *)
Definition swap_one (junk : Z) (ptn : string) (pentries : list Z) (pentry_size : nat) :
    outcome (option (list Z)) :=
  let seek := gpt_pentry_seek junk (bytes_of ptn) pentries pentry_size (length pentries) in
  obind (fun ptn_entry =>
    match ptn_entry with
    | None => Done None
    | Some i =>
      obind (fun ptn_bak_entry =>
        match ptn_bak_entry with
        | None => Done None
        | Some j => obind (fun es => Done (Some es)) (swap_entries i j pentries)
        end) (seek (i + pentry_size)%nat)
    end) (seek 0%nat).

(** In the result: backup_not_found, and the entries. *)
Fixpoint swap_loop (junk : Z) (is_ufs : bool) (names : list string) (pentries : list Z)
    (pentry_size : nat) (backup_not_found : Z) : outcome (Z * list Z) :=
  match names with
  | [] => Done (backup_not_found, pentries)
  | ptn :: names =>
    if is_ufs && String.prefix PTN_XBL ptn
    then swap_loop junk is_ufs names pentries pentry_size backup_not_found
    else obind (fun swapped =>
           match swapped with
           | None => swap_loop junk is_ufs names pentries pentry_size backup_not_found
           | Some pentries => swap_loop junk is_ufs names pentries pentry_size 0
           end) (swap_one junk ptn pentries pentry_size)
  end.
Definition gpt_boot_chain_swap (junk : Z) (is_ufs : bool) (pentries : list Z) (pentry_size : nat) :
    outcome (Z * list Z) :=
  swap_loop junk is_ufs PTN_SWAP_LIST pentries pentry_size 1.
Strategy 1000 [gpt_boot_chain_swap swap_loop PTN_SWAP_LIST].

(** * Headers *)

Section crc.
Context (crc32 : list Z -> Z) (junk : Z).

(** The crc of the first [n] bytes; reading past the buffer is undefined. *)
Definition crc_of (b : list Z) (n : Z) : M device Z :=
  if n <=? Z.of_nat (length b) then ret (crc32 (take (Z.to_nat n) b)) else undefined.

(** The header with its crc computed while that field is clear. *)
Definition put_header_crc (hdr : list Z) : M device (list Z) :=
  let hdr := PUT_4_BYTES hdr HEADER_CRC_OFFSET 0 in
  let! crc := crc_of hdr (GET_4_BYTES hdr HEADER_SIZE_OFFSET) in
  ret (PUT_4_BYTES hdr HEADER_CRC_OFFSET crc).

(** Offset of a header: the second block, or the last one.  Only for the last
    one does the code seek. *)
Definition header_offset (blk_size : nat) (gpt : gpt_instance) : M device (option Z) :=
  match gpt with
  | PRIMARY_GPT => ret (Some (Z.of_nat blk_size))
  | SECONDARY_GPT =>
    let! ok := sys in
    let! d := gets disk in
    let o := Z.of_nat (length d) - Z.of_nat blk_size in
    ret (if negb ok || (o <? 0) then None else Some o)
  end.

(** ioctl BLKSSZGET and malloc of a block, as several functions begin. *)
Definition begin_block : M device bool :=
  let! io := sys in if negb io then ret false else sys.

(** [None] is the error return. *)
Definition gpt_get_state (blk_size : nat) (gpt : gpt_instance) : M device (option gpt_state) :=
  let! ok := begin_block in if negb ok then ret None else
  let! o := header_offset blk_size gpt in
  match o with
  | None => ret None
  | Some o =>
    let! hdr := blk_read o (replicate blk_size junk) in
    match hdr with
    | None => ret None
    | Some hdr =>
      let state := if decide (take (length GPT_SIGNATURE) hdr = GPT_SIGNATURE)
                   then GPT_OK else GPT_BAD_SIGNATURE in
      let crc := GET_4_BYTES hdr HEADER_CRC_OFFSET in
      let! c := crc_of (PUT_4_BYTES hdr HEADER_CRC_OFFSET 0) (GET_4_BYTES hdr HEADER_SIZE_OFFSET) in
      ret (Some (if c =? crc then state else GPT_BAD_CRC))
    end
  end.

(** The signature a state asks for. *)
Definition put_signature (state : gpt_state) (hdr : list Z) : option (list Z) :=
  match state with
  | GPT_OK => Some (write 0 GPT_SIGNATURE hdr)
  | GPT_BAD_SIGNATURE => Some (put 0 0 hdr)
  | GPT_BAD_CRC => None
  end.

Definition gpt_set_state (blk_size : nat) (gpt : gpt_instance) (state : gpt_state) : M device Z :=
  let! ok := begin_block in if negb ok then ret (-1) else
  let! o := header_offset blk_size gpt in
  match o with
  | None => ret (-1)
  | Some o =>
    let! hdr := blk_read o (replicate blk_size junk) in
    match hdr with
    | None => ret (-1)
    | Some hdr =>
      match put_signature state hdr with
      | None => ret (-1)
      | Some hdr =>
        let! hdr := put_header_crc hdr in
        let! r := blk_write o hdr in
        ret (if r =? 0 then 0 else -1)
      end
    end
  end.

(** Offset in bytes, entry size and size of the array a header describes, in
    the widths of the code: uint64_t, then int64_t when it is passed on, and
    uint32_t. *)
Definition pentries_start (blk_size : nat) (hdr : list Z) : Z :=
  wrap_s 64 (wrap_u 64 (GET_8_BYTES hdr PENTRIES_OFFSET * Z.of_nat blk_size)).
Definition pentry_size (hdr : list Z) : Z := GET_4_BYTES hdr PENTRY_SIZE_OFFSET.
Definition pentries_array_size (hdr : list Z) : Z :=
  wrap_u 32 (GET_4_BYTES hdr PARTITION_COUNT_OFFSET * pentry_size hdr).

(** The second half of gpt2_set_boot_chain: the secondary header and the
    entries are written. *)
Definition write_secondary (blk_size : nat) (o : Z) (hdr pentries : list Z) : M device Z :=
  let! crc := crc_of pentries (Z.of_nat (length pentries)) in
  let start := pentries_start blk_size hdr in
  let! hdr := put_header_crc (PUT_4_BYTES hdr PARTITION_CRC_OFFSET crc) in
  let! r := blk_write o hdr in
  if negb (r =? 0) then ret r else blk_write start pentries.

Definition gpt2_set_boot_chain (is_ufs : bool) (blk_size : nat) (boot : boot_chain) : M device Z :=
  let! ok := begin_block in if negb ok then ret (-1) else
  let! o := header_offset blk_size SECONDARY_GPT in
  match o with
  | None => ret (-1)
  | Some o =>
    let! hdr := blk_read (Z.of_nat blk_size) (replicate blk_size junk) in
    match hdr with
    | None => ret (-1)
    | Some hdr =>
      let psize := pentry_size hdr in
      let! ok := sys in (* calloc *)
      if negb ok then ret (-1) else
      let! pentries := blk_read (pentries_start blk_size hdr)
                         (replicate (Z.to_nat (pentries_array_size hdr)) 0) in
      match pentries with
      | None => ret (-1)
      | Some pentries =>
        let! crc := crc_of pentries (Z.of_nat (length pentries)) in
        if negb (GET_4_BYTES hdr PARTITION_CRC_OFFSET =? crc) then ret (-1) else
        let! hdr2 := blk_read o hdr in
        match hdr2 with
        | None => ret (-1)
        | Some hdr2 =>
          match boot with
          | NORMAL_BOOT => write_secondary blk_size o hdr2 pentries
          | BACKUP_BOOT =>
            let! swapped := lift (gpt_boot_chain_swap junk is_ufs pentries (Z.to_nat psize)) in
            let '(r, pentries) := swapped in
            if negb (r =? 0) then ret r else write_secondary blk_size o hdr2 pentries
          end
        end
      end
    end
  end.

(** * The stages *)

(** The boot LUN of a UFS device is set through a scsi node; [stat] tells which
    of the xbl partitions exist. *)
Definition gpt_utils_set_xbl_boot_partition (stat : string -> bool) (chain : boot_chain) : M device Z :=
  let '(lun, primary, other) :=
    match chain with
    | BACKUP_BOOT => (2, "xblbak", "xbl_b")%string
    | NORMAL_BOOT => (1, "xbl", "xbl_a")%string
    end in
  if negb (stat primary || stat other) then ret (-1) else
  if negb (stat "xbl" && stat "xblbak")%string && negb (stat "xbl_a" && stat "xbl_b")%string
  then ret (-1) else
  let! node := sys in if negb node then ret (-1) else
  let! set := sys in if negb set then ret (-1) else
  modify (fun s => Device (disk s) (outcomes s) lun) ;;; ret 0.

Definition switch_xbl (stat : string -> bool) (is_ufs : bool) (chain : boot_chain) : M device Z :=
  if is_ufs && stat "xbl"%string && stat "xblbak"%string
  then gpt_utils_set_xbl_boot_partition stat chain else ret 0.

(** The update stage that the states of the two headers mean. *)
Definition internal_stage (prim second : gpt_state) : option boot_update_stage :=
  match prim, second with
  | GPT_BAD_CRC, _ | _, GPT_BAD_CRC | GPT_BAD_SIGNATURE, GPT_BAD_SIGNATURE => None
  | GPT_OK, GPT_OK => Some UPDATE_MAIN
  | GPT_BAD_SIGNATURE, GPT_OK => Some UPDATE_BACKUP
  | GPT_OK, GPT_BAD_SIGNATURE => Some UPDATE_FINALIZE
  end.

Definition do_stage (stat : string -> bool) (is_ufs : bool) (blk_size : nat)
    (stage : boot_update_stage) : M device Z :=
  match stage with
  | UPDATE_MAIN =>
    let! r := switch_xbl stat is_ufs BACKUP_BOOT in
    if negb (r =? 0) then ret r else
    let! r := gpt2_set_boot_chain is_ufs blk_size BACKUP_BOOT in
    if negb (r =? 0) then ret (if r <? 0 then r else 0) else
    gpt_set_state blk_size PRIMARY_GPT GPT_BAD_SIGNATURE
  | UPDATE_BACKUP =>
    let! r := switch_xbl stat is_ufs NORMAL_BOOT in
    if negb (r =? 0) then ret r else
    let! r := gpt_set_state blk_size PRIMARY_GPT GPT_OK in
    if negb (r =? 0) then ret r else
    gpt_set_state blk_size SECONDARY_GPT GPT_BAD_SIGNATURE
  | UPDATE_FINALIZE =>
    let! r := gpt2_set_boot_chain is_ufs blk_size NORMAL_BOOT in
    if r <? 0 then ret r else
    gpt_set_state blk_size SECONDARY_GPT GPT_OK
  end.

Definition prepare_partitions (stat : string -> bool) (is_ufs : bool) (blk_size : nat)
    (stage : boot_update_stage) : M device Z :=
  let! opened := sys in if negb opened then ret (-1) else
  let! prim := gpt_get_state blk_size PRIMARY_GPT in
  match prim with
  | None => ret 1
  | Some prim =>
    let! second := gpt_get_state blk_size SECONDARY_GPT in
    match second with
    | None => ret 1
    | Some second =>
      match internal_stage prim second with
      | None => ret (-1)
      | Some internal =>
        if decide (stage_number stage = stage_number internal - 1) then ret 0
        else if decide (stage = internal) then do_stage stat is_ufs blk_size stage
        else ret (-1)
      end
    end
  end.

End crc.

(** * Programs that end well *)

(** [c] run from [s] has a result, and it satisfies [P]. *)
Definition wp {A} (c : M device A) (s : device) (P : A -> device -> Prop) : Prop :=
  ∃ a s', c s = Done (a, s') ∧ P a s'.

Lemma wp_ret {A} (a : A) s (P : A -> device -> Prop) : P a s -> wp (ret a) s P.
Proof. intros H. by exists a, s. Qed.
Lemma wp_bind {A B} (c : M device A) (k : A -> M device B) s P :
  wp c s (fun a s' => wp (k a) s' P) -> wp (bind c k) s P.
Proof. intros (a & s' & E & b & s'' & E' & H). exists b, s''. by rewrite (bind_done _ _ _ _ _ E). Qed.
Lemma wp_mono {A} (c : M device A) s (P Q : A -> device -> Prop) :
  wp c s P -> (∀ a s', P a s' -> Q a s') -> wp c s Q.
Proof. intros (a & s' & E & H) HPQ. exists a, s'. auto. Qed.
Lemma wp_gets {A} (f : device -> A) s (P : A -> device -> Prop) : P (f s) s -> wp (gets f) s P.
Proof. intros H. by exists (f s), s. Qed.
Lemma wp_modify f s (P : unit -> device -> Prop) : P tt (f s) -> wp (modify f) s P.
Proof. intros H. by exists tt, (f s). Qed.

(** [s'] differs from [s] in the outcomes that are left, and if none were to
    come, there are none and the call gave [ok]. *)
Definition quiet (s : device) (ok : Prop) (s' : device) : Prop :=
  disk s' = disk s ∧ boot_lun s' = boot_lun s ∧ (outcomes s = [] -> outcomes s' = [] ∧ ok).

Lemma wp_sys s (P : bool -> device -> Prop) :
  (∀ b s', quiet s (b = true) s' -> P b s') -> wp sys s P.
Proof.
  intros H. unfold wp, sys. destruct (outcomes s) as [|b bs] eqn:E.
  - exists true, s. split; [done|]. apply H. by split_and!.
  - exists b, (Device (disk s) bs (boot_lun s)). split; [done|]. apply H.
    split_and!; [done|done|]. by rewrite E.
Qed.

Lemma wp_lift {A} (a : A) (o : outcome A) s (P : A -> device -> Prop) :
  o = Done a -> P a s -> wp (lift o) s P.
Proof. intros -> H. by exists a, s. Qed.

Lemma quiet_trans s ok s' ok' s'' : quiet s ok s' -> quiet s' ok' s'' -> quiet s (ok ∧ ok') s''.
Proof. intros (D1 & L1 & O1) (D2 & L2 & O2). split_and!; [congruence..|]. naive_solver. Qed.
Lemma quiet_weaken s (ok ok' : Prop) s' : quiet s ok s' -> (ok -> ok') -> quiet s ok' s'.
Proof. intros (? & ? & H) Hi. split_and!; [done..|]. naive_solver. Qed.
Lemma quiet_refl s : quiet s True s.
Proof. by split_and!. Qed.

(** [c] changes nothing; it gives [a], or an error. *)
Definition reads {A} (c : M device (option A)) (s : device) (a : A) : Prop :=
  wp c s (fun r s' => quiet s (r = Some a) s' ∧ (r = None ∨ r = Some a)).

(** [c] succeeds and makes the disk [d], or it fails and may have done so. *)
Definition post (s : device) (d : list Z) (r : Z) (s' : device) : Prop :=
  boot_lun s' = boot_lun s ∧ (disk s' = d ∨ disk s' = disk s ∧ r ≠ 0) ∧ r ≤ 0 ∧
  (outcomes s = [] -> outcomes s' = [] ∧ r = 0).

Lemma wp_bind_sys {B} (k : bool -> M device B) s P :
  (∀ s', quiet s True s' -> wp (k true) s' P) -> (∀ s', quiet s False s' -> wp (k false) s' P) ->
  wp (bind sys k) s P.
Proof.
  intros H1 H2. apply wp_bind, wp_sys. intros [] s' Hq; [apply H1|apply H2];
    (eapply quiet_weaken; [done|]); done.
Qed.
Lemma wp_bind_reads {A B} (c : M device (option A)) (k : option A -> M device B) s a P :
  reads c s a -> (∀ s', quiet s True s' -> wp (k (Some a)) s' P) ->
  (∀ s', quiet s False s' -> wp (k None) s' P) -> wp (bind c k) s P.
Proof.
  intros H H1 H2. apply wp_bind. eapply wp_mono; [exact H|]. intros r s' [Hq [->| ->]]; [apply H2|apply H1];
    (eapply quiet_weaken; [done|]); done.
Qed.
Lemma reads_some {A} s s' (a : A) : quiet s True s' -> wp (ret (Some a)) s' (fun r s' => quiet s (r = Some a) s' ∧ (r = None ∨ r = Some a)).
Proof. intros H. apply wp_ret. split; [|by right]. by eapply quiet_weaken. Qed.
Lemma reads_none {A} s s' (a : A) : quiet s False s' -> wp (ret None) s' (fun r s' => quiet s (r = Some a) s' ∧ (r = None ∨ r = Some a)).
Proof. intros H. apply wp_ret. split; [|by left]. by eapply quiet_weaken. Qed.
Lemma quiet_true s s1 (ok : Prop) s2 : quiet s True s1 -> quiet s1 ok s2 -> quiet s ok s2.
Proof. intros H1 H2. eapply quiet_weaken; [by eapply quiet_trans|]. by intros [_ ?]. Qed.
Lemma post_quiet s s1 d r s2 : quiet s True s1 -> post s1 d r s2 -> post s d r s2.
Proof.
  intros (D & L & O) (L' & D' & R & O'). split_and!; [congruence| |done|].
  - destruct D' as [?|[??]]; [by left|right; split; congruence].
  - intros Ho. apply O'. by apply O.
Qed.
Lemma post_fail s d s' r : quiet s False s' -> r < 0 -> post s d r s'.
Proof.
  intros (D & L & O) Hr. split_and!; [done| |lia|].
  - right. split; [done|lia].
  - intros Ho. by destruct (O Ho).
Qed.

(** * Bytes *)

Definition in_range (o n : Z) (b : list Z) : Prop := 0 ≤ o ∧ o + n ≤ Z.of_nat (length b).

Lemma length_put i v b : length (put i v b) = length b.
Proof. apply length_insert. Qed.
Lemma byte_at_put i v b j :
  0 ≤ j -> in_range i 1 b -> byte_at (put i v b) j = if decide (i = j) then v else byte_at b j.
Proof.
  intros Hj [Hi Hr]. unfold byte_at, put. case_decide as Hd.
  - subst. by rewrite list_lookup_insert_eq by lia.
  - by rewrite list_lookup_insert_ne by lia.
Qed.
Lemma length_put4 b o y : length (PUT_4_BYTES b o y) = length b.
Proof. unfold PUT_4_BYTES. by rewrite !length_put. Qed.

Lemma byte_at_put4 b o y j :
  0 ≤ j -> in_range o 4 b ->
  byte_at (PUT_4_BYTES b o y) j =
    if decide (o ≤ j < o + 4) then Z.land (Z.shiftr y (8 * (j - o))) 255 else byte_at b j.
Proof.
  intros Hj [Ho Hr]. unfold PUT_4_BYTES.
  rewrite !byte_at_put by (try done; split; rewrite ?length_put; lia).
  repeat case_decide; try lia; try done; subst.
  - by replace (8 * (o + 3 - o)) with 24 by lia.
  - by replace (8 * (o + 2 - o)) with 16 by lia.
  - by replace (8 * (o + 1 - o)) with 8 by lia.
  - replace (8 * (j - j)) with 0 by lia. by rewrite Z.shiftr_0_r.
Qed.

(** The bytes of a buffer decide the fields. *)
Lemma GET_4_BYTES_ext b b' o :
  (∀ j, o ≤ j < o + 4 -> byte_at b j = byte_at b' j) -> GET_4_BYTES b o = GET_4_BYTES b' o.
Proof. intros H. unfold GET_4_BYTES. by rewrite !H by lia. Qed.
Lemma GET_8_BYTES_ext b b' o :
  (∀ j, o ≤ j < o + 8 -> byte_at b j = byte_at b' j) -> GET_8_BYTES b o = GET_8_BYTES b' o.
Proof. intros H. unfold GET_8_BYTES. f_equal; [|f_equal]; apply GET_4_BYTES_ext; intros; apply H; lia. Qed.

Lemma lor_shift_add a b n :
  0 ≤ n -> 0 ≤ a < 2 ^ n -> Z.lor a (Z.shiftl b n) = a + b * 2 ^ n.
Proof.
  intros Hn Ha. rewrite Z.shiftl_mul_pow2 by done.
  assert (Z.land a (b * 2 ^ n) = 0) as H0.
  { apply Z.bits_inj'; intros k Hk. rewrite Z.land_spec, Z.bits_0.
    destruct (Z.ltb_spec k n) as [Hk'|Hk'].
    - rewrite Z.mul_pow2_bits_low by lia. apply andb_false_r.
    - rewrite <- (Z.mod_small a (2 ^ n)) by done. by rewrite Z.mod_pow2_bits_high by lia. }
  rewrite Z.add_nocarry_lxor by done. symmetry. by apply Z.lxor_lor.
Qed.

Lemma little_endian a b c d :
  0 ≤ a < 256 -> 0 ≤ b < 256 -> 0 ≤ c < 256 ->
  Z.lor (Z.lor (Z.lor a (Z.shiftl b 8)) (Z.shiftl c 16)) (Z.shiftl d 24) =
    a + b * 2 ^ 8 + c * 2 ^ 16 + d * 2 ^ 24.
Proof.
  intros Ha Hb Hc. rewrite (lor_shift_add a) by lia.
  rewrite (lor_shift_add (a + _)) by lia. rewrite lor_shift_add by lia. done.
Qed.

Lemma byte_land_range y n : 0 ≤ Z.land (Z.shiftr y n) 255 < 256.
Proof. change 255 with (Z.ones 8). rewrite Z.land_ones by lia. by apply Z.mod_pos_bound. Qed.

Lemma GET_PUT_4_BYTES_mod b o y :
  in_range o 4 b -> GET_4_BYTES (PUT_4_BYTES b o y) o = y mod 2 ^ 32.
Proof.
  intros Hr. pose proof Hr as [Ho Hr']. unfold GET_4_BYTES.
  rewrite !byte_at_put4 by (done || lia). rewrite !decide_True by lia.
  replace (8 * (o - o)) with 0 by lia. replace (8 * (o + 1 - o)) with 8 by lia.
  replace (8 * (o + 2 - o)) with 16 by lia. replace (8 * (o + 3 - o)) with 24 by lia.
  rewrite little_endian by apply byte_land_range.
  change 255 with (Z.ones 8). rewrite !Z.land_ones, !Z.shiftr_div_pow2 by lia.
  change (2 ^ 0) with 1. change (2 ^ 8) with 256. change (2 ^ 16) with (256 * 256).
  change (2 ^ 24) with (256 * 256 * 256). change (2 ^ 32) with (256 * 256 * 256 * 256).
  rewrite Z.div_1_r, !Z.rem_mul_r by lia. ring.
Qed.

Lemma GET_PUT_4_BYTES_other b o y o' :
  in_range o 4 b -> 0 ≤ o' -> o' + 4 ≤ o ∨ o + 4 ≤ o' ->
  GET_4_BYTES (PUT_4_BYTES b o y) o' = GET_4_BYTES b o'.
Proof.
  intros Hr Ho' Hd. apply GET_4_BYTES_ext. intros j Hj.
  rewrite byte_at_put4 by (done || lia). rewrite decide_False by lia. done.
Qed.

(** Two writes to the same field are the second one. *)
Lemma bytes_eq b b' :
  length b = length b' -> (∀ j, 0 ≤ j -> byte_at b j = byte_at b' j) -> b = b'.
Proof.
  intros Hl H. apply list_eq_same_length with (n := length b); [done..|].
  intros i x y _ Hx Hy. specialize (H (Z.of_nat i) ltac:(lia)). unfold byte_at in H.
  rewrite Nat2Z.id, Hx, Hy in H. done.
Qed.
Lemma byte_at_take n b j : 0 ≤ j < Z.of_nat n -> byte_at (take n b) j = byte_at b j.
Proof. intros H. unfold byte_at. by rewrite lookup_take_lt by lia. Qed.
Lemma byte_at_out b j : Z.of_nat (length b) ≤ j -> byte_at b j = 0.
Proof. intros H. unfold byte_at. by rewrite lookup_ge_None_2 by lia. Qed.
Lemma take_bytes n b b' :
  length b = length b' -> (∀ j, 0 ≤ j < Z.of_nat n -> byte_at b j = byte_at b' j) ->
  take n b = take n b'.
Proof.
  intros Hl H. apply bytes_eq; [by rewrite !length_take, Hl|]. intros j Hj.
  destruct (decide (j < Z.of_nat n)).
  - rewrite !byte_at_take by lia. apply H. lia.
  - rewrite !byte_at_out; rewrite ?length_take; lia || done.
Qed.
Lemma PUT_PUT_4_BYTES b o x y :
  in_range o 4 b -> PUT_4_BYTES (PUT_4_BYTES b o x) o y = PUT_4_BYTES b o y.
Proof.
  intros Hr. apply bytes_eq; [by rewrite !length_put4|]. intros j Hj.
  assert (in_range o 4 (PUT_4_BYTES b o x)) by (unfold in_range; by rewrite length_put4).
  rewrite !byte_at_put4 by done. by case_decide.
Qed.

(** ** Reading and writing ranges *)

Lemma length_write o bs d : length (write o bs d) = length d.
Proof.
  unfold write. rewrite !length_app, !length_take, length_drop. lia.
Qed.
Lemma lookup_write o bs d i :
  (o + length bs ≤ length d)%nat ->
  write o bs d !! i = if decide (o ≤ i < o + length bs)%nat then bs !! (i - o)%nat else d !! i.
Proof.
  intros H. unfold write. rewrite (take_ge bs) by lia.
  assert (length (take o d) = o) as Ho by (rewrite length_take; lia).
  case_decide.
  - rewrite lookup_app_r by lia. rewrite Ho. by rewrite lookup_app_l by lia.
  - destruct (decide (i < o)%nat).
    + rewrite lookup_app_l by lia. by rewrite lookup_take_lt.
    + rewrite lookup_app_r by lia. rewrite Ho, lookup_app_r by lia. rewrite lookup_drop.
      f_equal. lia.
Qed.
Lemma length_read o n d : (o + n ≤ length d)%nat -> length (read o n d) = n.
Proof. intros H. unfold read. rewrite length_take, length_drop. lia. Qed.
Lemma lookup_read o n d i : read o n d !! i = if decide (i < n)%nat then d !! (o + i)%nat else None.
Proof.
  unfold read. case_decide; [rewrite lookup_take_lt by done; apply lookup_drop|].
  by rewrite lookup_take_ge by lia.
Qed.
Lemma read_write_same o bs d :
  (o + length bs ≤ length d)%nat -> read o (length bs) (write o bs d) = bs.
Proof.
  intros H. apply list_eq. intros i. rewrite lookup_read. case_decide as Hi.
  - rewrite lookup_write, decide_True by lia. f_equal. lia.
  - by rewrite lookup_ge_None_2 by lia.
Qed.
Lemma read_write_disjoint o bs d o' n :
  (o + length bs ≤ length d)%nat -> (o' + n ≤ o ∨ o + length bs ≤ o')%nat ->
  read o' n (write o bs d) = read o' n d.
Proof.
  intros H Hd. apply list_eq. intros i. rewrite !lookup_read. case_decide; [|done].
  by rewrite lookup_write, decide_False by lia.
Qed.
Lemma byte_at_write o bs d j :
  0 ≤ j -> (o + length bs ≤ length d)%nat ->
  byte_at (write o bs d) j =
    if decide (Z.of_nat o ≤ j < Z.of_nat o + Z.of_nat (length bs))
    then byte_at bs (j - Z.of_nat o) else byte_at d j.
Proof.
  intros Hj H. unfold byte_at. rewrite lookup_write by done.
  do 2 case_decide; try lia. do 2 f_equal. lia.
Qed.

(** * Two copies of the partition table on a disk *)

Section layout.
Context (crc32 : list Z -> Z) (junk : Z) (blk_size : nat).
Context (crc32_range : ∀ b, 0 ≤ crc32 b < 2 ^ 32).

(** The header [put_header_crc] makes of [hdr]. *)
Definition seal (hdr : list Z) : list Z :=
  let hdr := PUT_4_BYTES hdr HEADER_CRC_OFFSET 0 in
  PUT_4_BYTES hdr HEADER_CRC_OFFSET
    (crc32 (take (Z.to_nat (GET_4_BYTES hdr HEADER_SIZE_OFFSET)) hdr)).

Definition signature_ok (hdr : list Z) : Prop := take (length GPT_SIGNATURE) hdr = GPT_SIGNATURE.
Definition header_crc_ok (hdr : list Z) : Prop :=
  crc32 (take (Z.to_nat (GET_4_BYTES hdr HEADER_SIZE_OFFSET)) (PUT_4_BYTES hdr HEADER_CRC_OFFSET 0))
    = GET_4_BYTES hdr HEADER_CRC_OFFSET.

Definition header_at (g : gpt_instance) (d : list Z) : nat :=
  match g with PRIMARY_GPT => blk_size | SECONDARY_GPT => length d - blk_size end.
Definition header (g : gpt_instance) (d : list Z) : list Z := read (header_at g d) blk_size d.

(** The entry array of the copy [g], and its size, which both headers give. *)
Definition entries_at (g : gpt_instance) (d : list Z) : Z := pentries_start blk_size (header g d).
Definition array_size (d : list Z) : nat := Z.to_nat (pentries_array_size (header PRIMARY_GPT d)).
Definition entries (g : gpt_instance) (d : list Z) : list Z :=
  read (Z.to_nat (entries_at g d)) (array_size d) d.
Definition entries_ok (g : gpt_instance) (d : list Z) : Prop :=
  crc32 (entries g d) = GET_4_BYTES (header g d) PARTITION_CRC_OFFSET.

(** A boot loader can use the copy [g]. *)
Definition usable (g : gpt_instance) (d : list Z) : Prop :=
  signature_ok (header g d) ∧ header_crc_ok (header g d) ∧ entries_ok g d.

Definition apart (a n b m : nat) : Prop := (a + n ≤ b ∨ b + m ≤ a)%nat.

(** The headers and the arrays lie apart from each other. *)
Record layout (d : list Z) : Prop := {
  layout_blk : (92 ≤ blk_size)%nat;
  layout_length : (3 * blk_size ≤ length d)%nat;
  layout_size g : GET_4_BYTES (header g d) HEADER_SIZE_OFFSET ≤ Z.of_nat blk_size;
  layout_start g : 0 ≤ entries_at g d;
  layout_end g : (Z.to_nat (entries_at g d) + array_size d ≤ length d)%nat;
  layout_entry_size : 128 ≤ pentry_size (header PRIMARY_GPT d);
  layout_nonempty : (0 < array_size d)%nat;
  layout_entries : (pentry_size (header PRIMARY_GPT d) | Z.of_nat (array_size d));
  layout_same : pentries_array_size (header SECONDARY_GPT d) = pentries_array_size (header PRIMARY_GPT d);
  layout_apart_header g g' :
    apart (header_at g d) blk_size (Z.to_nat (entries_at g' d)) (array_size d);
  layout_apart_entries :
    apart (Z.to_nat (entries_at PRIMARY_GPT d)) (array_size d)
          (Z.to_nat (entries_at SECONDARY_GPT d)) (array_size d) }.

(** ** Headers *)

(** [hdr'] says the same as [hdr] outside of the signature and the crcs. *)
Definition same_body (hdr hdr' : list Z) : Prop :=
  length hdr' = length hdr ∧
  ∀ j, 9 ≤ j -> ¬ (16 ≤ j < 20) -> ¬ (88 ≤ j < 92) -> byte_at hdr' j = byte_at hdr j.

Lemma same_body_refl h : same_body h h.
Proof. by split. Qed.
Lemma same_body_trans h1 h2 h3 : same_body h1 h2 -> same_body h2 h3 -> same_body h1 h3.
Proof. intros [L1 B1] [L2 B2]. split; [congruence|]. intros. rewrite B2 by done. by apply B1. Qed.
Lemma same_body_fields h h' :
  same_body h h' ->
  GET_4_BYTES h' HEADER_SIZE_OFFSET = GET_4_BYTES h HEADER_SIZE_OFFSET ∧
  pentries_start blk_size h' = pentries_start blk_size h ∧
  pentries_array_size h' = pentries_array_size h ∧ pentry_size h' = pentry_size h.
Proof.
  intros [_ H]. unfold pentries_start, pentries_array_size, pentry_size.
  unfold HEADER_SIZE_OFFSET, PENTRIES_OFFSET, PARTITION_COUNT_OFFSET, PENTRY_SIZE_OFFSET.
  rewrite (GET_8_BYTES_ext h' h 72), (GET_4_BYTES_ext h' h 80), (GET_4_BYTES_ext h' h 84),
    (GET_4_BYTES_ext h' h 12) by (intros; apply H; lia). done.
Qed.

Lemma length_seal h : length (seal h) = length h.
Proof. unfold seal. by rewrite !length_put4. Qed.
Lemma byte_at_seal h j :
  (20 ≤ length h)%nat -> 0 ≤ j -> ¬ (16 ≤ j < 20) -> byte_at (seal h) j = byte_at h j.
Proof.
  intros Hl Hj Hn. unfold seal, HEADER_CRC_OFFSET.
  rewrite !byte_at_put4 by (unfold in_range; rewrite ?length_put4; lia).
  by rewrite !decide_False by lia.
Qed.
Lemma same_body_seal h : (20 ≤ length h)%nat -> same_body h (seal h).
Proof. intros Hl. split; [apply length_seal|]. intros. apply byte_at_seal; lia. Qed.
Lemma seal_crc_ok h : (20 ≤ length h)%nat -> header_crc_ok (seal h).
Proof.
  intros Hl. unfold header_crc_ok.
  rewrite (GET_4_BYTES_ext (seal h) (PUT_4_BYTES h HEADER_CRC_OFFSET 0) HEADER_SIZE_OFFSET).
  2:{ unfold HEADER_SIZE_OFFSET. intros j Hj. rewrite byte_at_seal by lia.
      rewrite byte_at_put4 by (unfold in_range, HEADER_CRC_OFFSET; lia).
      by rewrite decide_False by (unfold HEADER_CRC_OFFSET; lia). }
  unfold seal. rewrite !PUT_PUT_4_BYTES, GET_PUT_4_BYTES_mod
    by (unfold in_range, HEADER_CRC_OFFSET; rewrite ?length_put4; lia).
  by rewrite Z.mod_small.
Qed.
Lemma seal_signature h : (20 ≤ length h)%nat -> signature_ok (seal h) <-> signature_ok h.
Proof.
  intros Hl. unfold signature_ok. rewrite (take_bytes _ (seal h) h); [done|apply length_seal|].
  intros j Hj. apply byte_at_seal; [done|lia|]. change (length GPT_SIGNATURE) with 9%nat in Hj. lia.
Qed.
Lemma seal_partition_crc h :
  (92 ≤ length h)%nat -> GET_4_BYTES (seal h) PARTITION_CRC_OFFSET = GET_4_BYTES h PARTITION_CRC_OFFSET.
Proof.
  intros Hl. apply GET_4_BYTES_ext. unfold PARTITION_CRC_OFFSET. intros j Hj.
  apply byte_at_seal; lia.
Qed.

Lemma put_signature_ok h :
  (20 ≤ length h)%nat ->
  same_body h (write 0 GPT_SIGNATURE h) ∧ signature_ok (write 0 GPT_SIGNATURE h) ∧
  GET_4_BYTES (write 0 GPT_SIGNATURE h) PARTITION_CRC_OFFSET = GET_4_BYTES h PARTITION_CRC_OFFSET.
Proof.
  intros Hl. assert (0 + length GPT_SIGNATURE ≤ length h)%nat as Hl'
    by (change (length GPT_SIGNATURE) with 9%nat; lia).
  assert (∀ j, 9 ≤ j -> byte_at (write 0 GPT_SIGNATURE h) j = byte_at h j) as Hb.
  { intros j Hj. rewrite byte_at_write by (done || lia).
    apply decide_False. change (length GPT_SIGNATURE) with 9%nat. lia. }
  split; [|split].
  - split; [apply length_write|]. intros. by apply Hb.
  - exact (read_write_same 0 GPT_SIGNATURE h Hl').
  - apply GET_4_BYTES_ext. unfold PARTITION_CRC_OFFSET. intros. apply Hb. lia.
Qed.

Lemma put_signature_bad h :
  (20 ≤ length h)%nat ->
  same_body h (put 0 0 h) ∧ ¬ signature_ok (put 0 0 h) ∧
  GET_4_BYTES (put 0 0 h) PARTITION_CRC_OFFSET = GET_4_BYTES h PARTITION_CRC_OFFSET.
Proof.
  intros Hl. assert (∀ j, 0 ≤ j -> byte_at (put 0 0 h) j = if decide (0 = j) then 0 else byte_at h j) as Hb.
  { intros j Hj. apply byte_at_put; [done|]. unfold in_range. lia. }
  split; [|split].
  - split; [apply length_put|]. intros j Hj _ _. rewrite Hb by lia. by rewrite decide_False by lia.
  - intros H. unfold signature_ok in H. apply (f_equal (fun b => byte_at b 0)) in H.
    rewrite byte_at_take, Hb in H by (try done; change (length GPT_SIGNATURE) with 9%nat; lia). done.
  - apply GET_4_BYTES_ext. unfold PARTITION_CRC_OFFSET. intros j Hj. rewrite Hb by lia.
    by rewrite decide_False by lia.
Qed.

Lemma put_partition_crc h x :
  (92 ≤ length h)%nat -> 0 ≤ x < 2 ^ 32 ->
  same_body h (PUT_4_BYTES h PARTITION_CRC_OFFSET x) ∧
  (signature_ok (PUT_4_BYTES h PARTITION_CRC_OFFSET x) <-> signature_ok h) ∧
  GET_4_BYTES (PUT_4_BYTES h PARTITION_CRC_OFFSET x) PARTITION_CRC_OFFSET = x.
Proof.
  intros Hl Hx. assert (in_range PARTITION_CRC_OFFSET 4 h) as Hr
    by (unfold in_range, PARTITION_CRC_OFFSET; lia).
  split; [|split].
  - split; [apply length_put4|]. intros j H9 _ H88. rewrite byte_at_put4 by (done || lia).
    by apply decide_False.
  - unfold signature_ok. rewrite (take_bytes _ (PUT_4_BYTES h PARTITION_CRC_OFFSET x) h);
      [done|apply length_put4|]. change (length GPT_SIGNATURE) with 9%nat. intros j Hj.
    rewrite byte_at_put4 by (done || lia). apply decide_False. unfold PARTITION_CRC_OFFSET. lia.
  - rewrite GET_PUT_4_BYTES_mod by done. by apply Z.mod_small.
Qed.

(** ** What a write does to the two copies *)

Definition other (g : gpt_instance) : gpt_instance :=
  match g with PRIMARY_GPT => SECONDARY_GPT | SECONDARY_GPT => PRIMARY_GPT end.

Lemma header_in_disk d g : layout d -> (header_at g d + blk_size ≤ length d)%nat.
Proof. intros []. destruct g; simpl; lia. Qed.
Lemma length_header d g : layout d -> length (header g d) = blk_size.
Proof. intros HL. apply length_read. by apply header_in_disk. Qed.

(** A header is replaced by one that describes the same. *)
Lemma write_header d g h :
  layout d -> same_body (header g d) h ->
  let d' := write (header_at g d) h d in
  layout d' ∧ length d' = length d ∧ header g d' = h ∧ header (other g) d' = header (other g) d ∧
  (∀ g', entries g' d' = entries g' d).
Proof.
  intros HL HS d'. assert (length h = blk_size) as Hh by (rewrite (proj1 HS); by apply length_header).
  assert (header_at g d + length h ≤ length d)%nat as Hfit by (rewrite Hh; by apply header_in_disk).
  assert (length d' = length d) as Hd' by apply length_write.
  assert (∀ g', header_at g' d' = header_at g' d) as Hat by (intros []; simpl; by rewrite ?Hd').
  assert (header g d' = h) as Hg.
  { unfold header. rewrite Hat, <- Hh. by apply read_write_same. }
  assert (header (other g) d' = header (other g) d) as Ho.
  { unfold header. rewrite Hat. apply read_write_disjoint; [done|].
    destruct HL. destruct g; simpl; lia. }
  assert (∀ g', same_body (header g' d) (header g' d')) as Hsame.
  { intros g'. destruct g, g'; simpl in *; rewrite ?Hg, ?Ho; done || apply same_body_refl. }
  pose proof (fun g' => same_body_fields _ _ (Hsame g')) as Hf.
  assert (∀ g', entries_at g' d' = entries_at g' d) as He by (intros g'; apply (Hf g')).
  assert (array_size d' = array_size d) as Ha by (unfold array_size; by destruct (Hf PRIMARY_GPT) as (_ & _ & -> & _)).
  split; [|split_and!; [done..|]].
  - destruct HL. constructor; rewrite ?Hd'; [done|done|..]; intros; rewrite ?He, ?Ha, ?Hat; try done.
    + by rewrite (proj1 (Hf g0)).
    + by destruct (Hf PRIMARY_GPT) as (_ & _ & _ & ->).
    + by destruct (Hf PRIMARY_GPT) as (_ & _ & _ & ->).
    + destruct (Hf PRIMARY_GPT) as (_ & _ & -> & _). by destruct (Hf SECONDARY_GPT) as (_ & _ & -> & _).
  - intros g'. unfold entries. rewrite He, Ha. apply read_write_disjoint; [done|].
    rewrite Hh. destruct (layout_apart_header d HL g g') as [?|?]; [right|left]; lia.
Qed.

(** The secondary entries are replaced. *)
Lemma write_entries d es :
  layout d -> length es = array_size d ->
  let d' := write (Z.to_nat (entries_at SECONDARY_GPT d)) es d in
  layout d' ∧ (∀ g, header g d' = header g d) ∧
  entries PRIMARY_GPT d' = entries PRIMARY_GPT d ∧ entries SECONDARY_GPT d' = es.
Proof.
  intros HL Hes d'.
  assert (Z.to_nat (entries_at SECONDARY_GPT d) + length es ≤ length d)%nat as Hfit
    by (rewrite Hes; apply HL).
  assert (length d' = length d) as Hd' by apply length_write.
  assert (∀ g', header_at g' d' = header_at g' d) as Hat by (intros []; simpl; by rewrite ?Hd').
  assert (∀ g, header g d' = header g d) as Hh.
  { intros g. unfold header. rewrite Hat. apply read_write_disjoint; [done|]. rewrite Hes.
    exact (layout_apart_header d HL g SECONDARY_GPT). }
  assert (∀ g, entries_at g d' = entries_at g d) as He by (intros; unfold entries_at; by rewrite Hh).
  assert (array_size d' = array_size d) as Ha by (unfold array_size; by rewrite Hh).
  split; [|split_and!; [done|..]].
  - destruct HL. constructor; rewrite ?Hd'; [done|done|..]; intros; rewrite ?Hh, ?He, ?Ha, ?Hat; done.
  - unfold entries. rewrite He, Ha. apply read_write_disjoint; [done|]. rewrite Hes. apply HL.
  - unfold entries. rewrite He, Ha, <- Hes. by apply read_write_same.
Qed.


(** ** The swap *)

Lemma seek_done ptn es psize fuel entry :
  (128 ≤ psize)%nat -> Nat.divide psize (length es) -> Nat.divide psize entry ->
  (length es ≤ entry + fuel)%nat ->
  ∃ r, gpt_pentry_seek junk ptn es psize fuel entry = Done r ∧
       ∀ i, r = Some i -> Nat.divide psize i ∧ (i + psize ≤ length es)%nat.
Proof.
  intros Hp He. revert entry. induction fuel as [|fuel IH]; intros entry Hi Hf; simpl.
  - rewrite (proj2 (Nat.leb_le _ _)) by lia. by exists None.
  - destruct (Nat.leb_spec (length es) (entry + PARTITION_NAME_OFFSET)); [by exists None|].
    assert (entry + psize ≤ length es)%nat as Hin.
    { destruct He as [m Hm], Hi as [k ->]. rewrite Hm in *.
      assert (S k ≤ m)%nat as Hk by (apply (Nat.mul_lt_mono_pos_r psize); lia).
      apply (Nat.mul_le_mono_r _ _ psize) in Hk. lia. }
    rewrite (proj2 (Nat.ltb_ge _ _)) by (unfold PTN_ENTRY_SIZE; lia).
    destruct (name_matches _ _).
    + eexists; split; [done|]. by intros i [= <-].
    + apply IH; [by apply Nat.divide_add_r|lia].
Qed.

Lemma swap_one_done ptn es psize :
  (128 ≤ psize)%nat -> Nat.divide psize (length es) ->
  ∃ r, swap_one junk ptn es psize = Done r ∧ ∀ es', r = Some es' -> length es' = length es.
Proof.
  intros Hp He. unfold swap_one.
  destruct (seek_done (bytes_of ptn) es psize (length es) 0 Hp He) as (r & -> & Hi);
    [apply Nat.divide_0_r|lia|]. simpl.
  destruct r as [i|]; [|by exists None]. destruct (Hi i eq_refl) as [Hdi Hli].
  destruct (seek_done (bytes_of ptn) es psize (length es) (i + psize) Hp He) as (r & -> & Hj);
    [by apply Nat.divide_add_r|lia|]. simpl.
  destruct r as [j|]; [|by exists None]. destruct (Hj j eq_refl) as [_ Hlj].
  unfold swap_entries, PTN_ENTRY_SIZE. rewrite !(proj2 (Nat.leb_le _ _)) by lia. simpl.
  eexists; split; [done|]. intros es' [= <-]. by rewrite !length_write.
Qed.

Lemma swap_loop_done is_ufs names es psize r :
  (128 ≤ psize)%nat -> Nat.divide psize (length es) -> r = 0 ∨ r = 1 ->
  ∃ r' es', swap_loop junk is_ufs names es psize r = Done (r', es') ∧
            length es' = length es ∧ (r' = 0 ∨ r' = 1).
Proof.
  intros Hp. revert es r. induction names as [|ptn names IH]; intros es r He Hr; simpl; [by eauto|].
  destruct (_ && _); [by apply IH|].
  destruct (swap_one_done ptn es psize Hp He) as ([es'|] & -> & Hl); simpl; [|by apply IH].
  rewrite <- (Hl es' eq_refl). apply IH; [|by left]. by rewrite (Hl es' eq_refl).
Qed.

(** ** What the operations do on a disk with that layout *)

Lemma blk_read_reads o buf s :
  0 ≤ o -> (Z.to_nat o + length buf ≤ length (disk s))%nat ->
  reads (blk_read o buf) s (read (Z.to_nat o) (length buf) (disk s)).
Proof.
  intros Ho Hl. apply wp_bind_sys; intros s1 Q1; [|by apply reads_none].
  rewrite (proj2 (Z.ltb_ge _ _)) by done. cbn [negb orb].
  apply wp_bind_sys; intros s2 Q2; [|apply reads_none; by eapply quiet_true].
  cbn [negb]. apply wp_bind, wp_gets.
  assert (quiet s True s2) as Q by by eapply quiet_true. rewrite (proj1 Q).
  rewrite (length_read _ _ _ Hl), drop_ge, app_nil_r by lia. by apply reads_some.
Qed.

Lemma blk_write_post o buf s :
  0 ≤ o < Z.of_nat (length (disk s)) ->
  wp (blk_write o buf) s (post s (write (Z.to_nat o) buf (disk s))).
Proof.
  intros Ho. apply wp_bind_sys; intros s1 Q1; [|apply wp_ret; by apply post_fail].
  rewrite (proj2 (Z.ltb_ge _ _)) by lia. cbn [negb orb].
  apply wp_bind_sys; intros s2 Q2; apply wp_bind, wp_gets;
    (eapply quiet_true in Q2; [|exact Q1]); destruct Q2 as (D & L & O); rewrite D; cbn [negb orb].
  - rewrite (proj2 (Z.leb_gt _ _)) by lia. apply wp_bind, wp_modify. cbn beta.
    apply wp_bind_sys; intros s3 (D3 & L3 & O3); apply wp_ret; cbn in D3, L3, O3;
      (split_and!; [congruence|by left|lia|]); intros Hs; destruct (O Hs); naive_solver.
  - apply wp_ret. apply post_fail; [|lia]. by split_and!.
Qed.

Lemma begin_block_wp {B} (k : bool -> M device B) s P :
  (∀ s', quiet s True s' -> wp (k true) s' P) -> (∀ s', quiet s False s' -> wp (k false) s' P) ->
  wp (bind begin_block k) s P.
Proof.
  intros H1 H2. apply wp_bind. unfold begin_block. apply wp_bind_sys; intros s1 Q1; cbn [negb].
  - apply wp_sys. intros [] s2 Q2; [apply H1|apply H2];
      (eapply quiet_true; [exact Q1|]); by eapply quiet_weaken.
  - apply wp_ret. by apply H2.
Qed.

Lemma header_offset_reads g s :
  layout (disk s) -> reads (header_offset blk_size g) s (Z.of_nat (header_at g (disk s))).
Proof.
  intros HL. destruct g; cbn [header_offset header_at]; [apply reads_some, quiet_refl|].
  apply wp_bind_sys; intros s1 Q1; apply wp_bind, wp_gets; cbn [negb orb]; [|by apply reads_none].
  rewrite (proj1 Q1). pose proof (layout_length _ HL).
  rewrite (proj2 (Z.ltb_ge _ _)) by lia.
  rewrite <- Nat2Z.inj_sub by lia. by apply reads_some.
Qed.

Lemma header_reads g s s' :
  layout (disk s) -> quiet s True s' ->
  reads (blk_read (Z.of_nat (header_at g (disk s))) (replicate blk_size junk)) s' (header g (disk s)).
Proof.
  intros HL (D & _). pose proof (header_in_disk _ g HL).
  pose proof (blk_read_reads (Z.of_nat (header_at g (disk s))) (replicate blk_size junk) s') as H1.
  rewrite Nat2Z.id, length_replicate, D in H1. apply H1; lia.
Qed.

Lemma crc_of_wp b n s (P : Z -> device -> Prop) :
  n ≤ Z.of_nat (length b) -> P (crc32 (take (Z.to_nat n) b)) s -> wp (crc_of crc32 b n) s P.
Proof. intros Hn H. unfold crc_of. rewrite (proj2 (Z.leb_le _ _)) by done. by apply wp_ret. Qed.

Lemma size_put_crc h y :
  (20 ≤ length h)%nat ->
  GET_4_BYTES (PUT_4_BYTES h HEADER_CRC_OFFSET y) HEADER_SIZE_OFFSET = GET_4_BYTES h HEADER_SIZE_OFFSET.
Proof.
  intros Hl. apply GET_PUT_4_BYTES_other; unfold in_range, HEADER_SIZE_OFFSET, HEADER_CRC_OFFSET; lia.
Qed.

Lemma put_header_crc_wp h s (P : list Z -> device -> Prop) :
  (20 ≤ length h)%nat -> GET_4_BYTES h HEADER_SIZE_OFFSET ≤ Z.of_nat (length h) ->
  P (seal h) s -> wp (put_header_crc crc32 h) s P.
Proof.
  intros Hl Hs H. apply wp_bind, crc_of_wp; [by rewrite size_put_crc, length_put4|]. by apply wp_ret.
Qed.

(** The state gpt_get_state finds. *)
Definition state_of (h : list Z) : gpt_state :=
  if decide (header_crc_ok h) then
    if decide (signature_ok h) then GPT_OK else GPT_BAD_SIGNATURE
  else GPT_BAD_CRC.

Lemma gpt_get_state_reads g s :
  layout (disk s) -> reads (gpt_get_state crc32 junk blk_size g) s (state_of (header g (disk s))).
Proof.
  intros HL. apply begin_block_wp; intros s1 Q1; cbn [negb]; [|by apply reads_none].
  pose proof (header_offset_reads g s1) as H2. rewrite (proj1 Q1) in H2.
  eapply wp_bind_reads; [by apply H2| |]; intros s2 Q2;
    (eapply quiet_true in Q2; [|exact Q1]); [|by apply reads_none].
  eapply wp_bind_reads; [by apply header_reads| |]; intros s3 Q3;
    (eapply quiet_true in Q3; [|exact Q2]); [|by apply reads_none].
  pose proof (length_header _ g HL) as Hh. pose proof (layout_blk _ HL).
  pose proof (layout_size _ HL g).
  apply wp_bind, crc_of_wp; [rewrite length_put4; lia|].
  unfold state_of. destruct (decide (header_crc_ok _)) as [E|E]; unfold header_crc_ok in E.
  - rewrite (proj2 (Z.eqb_eq _ _) E). by apply reads_some.
  - rewrite (proj2 (Z.eqb_neq _ _) E). by apply reads_some.
Qed.

(** The header with another signature. *)
Definition signed (state : gpt_state) (h : list Z) : list Z := seal (default h (put_signature state h)).

Lemma gpt_set_state_post g st s :
  layout (disk s) -> st ≠ GPT_BAD_CRC ->
  wp (gpt_set_state crc32 junk blk_size g st) s
     (post s (write (header_at g (disk s)) (signed st (header g (disk s))) (disk s))).
Proof.
  intros HL Hst. apply begin_block_wp; intros s1 Q1; cbn [negb];
    [|apply wp_ret; by apply post_fail].
  pose proof (header_offset_reads g s1) as H2. rewrite (proj1 Q1) in H2.
  eapply wp_bind_reads; [by apply H2| |]; intros s2 Q2;
    (eapply quiet_true in Q2; [|exact Q1]); [|apply wp_ret; by apply post_fail].
  eapply wp_bind_reads; [by apply header_reads| |]; intros s3 Q3;
    (eapply quiet_true in Q3; [|exact Q2]); [|apply wp_ret; by apply post_fail].
  pose proof (length_header _ g HL) as Hh. pose proof (layout_blk _ HL).
  pose proof (layout_size _ HL g). pose proof (header_in_disk _ g HL).
  set (h := header g (disk s)) in *.
  assert (∃ h', put_signature st h = Some h' ∧ same_body h h') as (h' & Hp & Hb & Hb').
  { destruct st; [| |done]; (eexists; split; [done|]); [apply put_signature_ok|apply put_signature_bad]; lia. }
  unfold signed. rewrite Hp. cbn [default from_option].
  apply wp_bind, put_header_crc_wp; [lia| |].
  { destruct (same_body_fields h h' (conj Hb Hb')) as (-> & _). lia. }
  apply wp_bind. eapply wp_mono; [apply blk_write_post; rewrite (proj1 Q3); lia|].
  intros r s' Hr. apply wp_ret. eapply post_quiet; [exact Q3|].
  rewrite Nat2Z.id, (proj1 Q3) in Hr. rewrite ?(proj1 Q3).
  destruct Hr as (L & D & R & O). destruct (Z.eqb_spec r 0) as [->|Hr]; [by split_and!|].
  split_and!; [done| |lia|]; [|naive_solver]. naive_solver lia.
Qed.

(** The secondary header for the entries [es], and the disk with both written. *)
Definition chain_header (es h : list Z) : list Z := seal (PUT_4_BYTES h PARTITION_CRC_OFFSET (crc32 es)).
Definition half_chained (es d : list Z) : list Z :=
  write (header_at SECONDARY_GPT d) (chain_header es (header SECONDARY_GPT d)) d.
Definition chained (es d : list Z) : list Z :=
  write (Z.to_nat (entries_at SECONDARY_GPT d)) es (half_chained es d).

Lemma half_chained_facts es d :
  layout d ->
  let h := header SECONDARY_GPT (half_chained es d) in
  layout (half_chained es d) ∧ length (half_chained es d) = length d ∧
  header PRIMARY_GPT (half_chained es d) = header PRIMARY_GPT d ∧
  same_body (header SECONDARY_GPT d) h ∧ header_crc_ok h ∧
  (signature_ok h <-> signature_ok (header SECONDARY_GPT d)) ∧
  GET_4_BYTES h PARTITION_CRC_OFFSET = crc32 es ∧
  (∀ g, entries g (half_chained es d) = entries g d).
Proof.
  intros HL. pose proof (length_header _ SECONDARY_GPT HL) as Hh. pose proof (layout_blk _ HL) as Hb.
  destruct (put_partition_crc (header SECONDARY_GPT d) (crc32 es)) as (B1 & S1 & C1); [lia|done|].
  set (h1 := PUT_4_BYTES _ PARTITION_CRC_OFFSET _) in *.
  assert (length h1 = blk_size) as Hh1 by by rewrite (proj1 B1).
  assert (same_body h1 (seal h1)) as B2 by (apply same_body_seal; lia).
  pose proof (same_body_trans _ _ _ B1 B2) as B.
  destruct (write_header d SECONDARY_GPT (seal h1) HL B) as (L & Hl & Hs & Hp & He).
  cbn zeta. unfold half_chained, chain_header. fold h1. rewrite Hs. cbn [other] in Hp.
  split; [done|]. split; [done|]. split; [done|]. split; [done|]. split; [apply seal_crc_ok; lia|].
  split; [rewrite seal_signature by lia; done|]. split; [|done].
  rewrite seal_partition_crc by lia. done.
Qed.

Lemma chained_facts es d :
  layout d -> length es = array_size d ->
  let h := header SECONDARY_GPT (chained es d) in
  layout (chained es d) ∧ header PRIMARY_GPT (chained es d) = header PRIMARY_GPT d ∧
  same_body (header SECONDARY_GPT d) h ∧ header_crc_ok h ∧
  (signature_ok h <-> signature_ok (header SECONDARY_GPT d)) ∧
  entries PRIMARY_GPT (chained es d) = entries PRIMARY_GPT d ∧
  entries SECONDARY_GPT (chained es d) = es ∧ entries_ok SECONDARY_GPT (chained es d).
Proof.
  intros HL Hes. destruct (half_chained_facts es d HL) as (L1 & _ & Hp & B & C & S & E & He).
  set (d1 := half_chained es d) in *. cbn zeta in B, C, S, E.
  assert (entries_at SECONDARY_GPT d1 = entries_at SECONDARY_GPT d) as Hat
    by by destruct (same_body_fields _ _ B) as (_ & ? & _).
  assert (length es = array_size d1) as Hes1 by (rewrite Hes; unfold array_size; by rewrite Hp).
  pose proof (write_entries d1 es L1 Hes1) as H2. rewrite Hat in H2. cbn zeta in H2.
  change (write (Z.to_nat (entries_at SECONDARY_GPT d)) es d1) with (chained es d) in H2.
  destruct H2 as (L2 & Hh & Hep & Hes2). cbn zeta. rewrite !Hh, Hep, He, Hes2.
  split; [done|]. split; [done|]. split; [done|]. split; [done|]. split; [done|]. split; [done|].
  split; [done|]. unfold entries_ok. by rewrite Hes2, Hh.
Qed.

(** Of two writes, none, the first or both are made. *)
Definition post2 (s : device) (d1 d2 : list Z) (r : Z) (s' : device) : Prop :=
  boot_lun s' = boot_lun s ∧ (disk s' = d2 ∨ (disk s' = disk s ∨ disk s' = d1) ∧ r ≠ 0) ∧ r ≤ 0 ∧
  (outcomes s = [] -> outcomes s' = [] ∧ r = 0).
Lemma post2_fail s d1 d2 s' r : quiet s False s' -> r < 0 -> post2 s d1 d2 r s'.
Proof.
  intros (D & L & O) Hr. split_and!; [done| |lia|].
  - right. split; [by left|lia].
  - intros Ho. by destruct (O Ho).
Qed.

Lemma write_secondary_post es s s' :
  layout (disk s) -> length es = array_size (disk s) -> quiet s True s' ->
  wp (write_secondary crc32 blk_size (Z.of_nat (header_at SECONDARY_GPT (disk s)))
        (header SECONDARY_GPT (disk s)) es) s'
     (post2 s (half_chained es (disk s)) (chained es (disk s))).
Proof.
  intros HL Hes (D & L & O). set (d := disk s) in *.
  pose proof (length_header _ SECONDARY_GPT HL) as Hh. pose proof (layout_blk _ HL) as Hb.
  pose proof (header_in_disk _ SECONDARY_GPT HL) as Hin.
  pose proof (layout_start _ HL SECONDARY_GPT). pose proof (layout_end _ HL SECONDARY_GPT).
  pose proof (layout_nonempty _ HL).
  destruct (half_chained_facts es d HL) as (L1 & Hl & _).
  apply wp_bind, crc_of_wp; [done|]. rewrite take_ge by lia.
  destruct (put_partition_crc (header SECONDARY_GPT d) (crc32 es)) as (B1 & _); [lia|done|].
  apply wp_bind, put_header_crc_wp.
  { rewrite (proj1 B1). lia. }
  { destruct (same_body_fields _ _ B1) as (-> & _). rewrite (proj1 B1), Hh. apply HL. }
  apply wp_bind. eapply wp_mono; [apply blk_write_post; rewrite D; lia|].
  intros r s2 (L2 & D2 & R2 & O2). rewrite Nat2Z.id, D in D2. fold (chain_header es (header SECONDARY_GPT d)) in D2.
  destruct (Z.eqb_spec r 0) as [->|Hr]; cbn [negb].
  - destruct D2 as [D2|[_ ?]]; [|done].
    change (write _ _ d) with (half_chained es d) in D2.
    eapply wp_mono; [apply blk_write_post; rewrite D2, Hl; unfold entries_at in *; lia|].
    intros r s3 (L3 & D3 & R3 & O3). rewrite D2 in D3.
    split_and!; [congruence| |done|].
    + destruct D3 as [D3|[D3 ?]]; [by left|right; by split; [right|]].
    + intros Hs. apply O3. apply O2. by apply O.
  - apply wp_ret. split_and!; [congruence| |lia|].
    + right. split; [|done]. destruct D2 as [D2|[D2 _]]; [by right|left; done].
    + intros Hs. destruct (O2 (proj1 (O Hs))). done.
Qed.

(** The entries the secondary copy gets. *)
Definition chain_entries (is_ufs : bool) (boot : boot_chain) (d : list Z) : outcome (Z * list Z) :=
  match boot with
  | NORMAL_BOOT => Done (0, entries PRIMARY_GPT d)
  | BACKUP_BOOT => gpt_boot_chain_swap junk is_ufs (entries PRIMARY_GPT d)
                     (Z.to_nat (pentry_size (header PRIMARY_GPT d)))
  end.

Lemma length_entries d g : layout d -> length (entries g d) = array_size d.
Proof. intros HL. apply length_read, HL. Qed.

Lemma entry_size_divides d :
  layout d -> let psize := Z.to_nat (pentry_size (header PRIMARY_GPT d)) in
  (128 ≤ psize)%nat ∧ Nat.divide psize (array_size d).
Proof.
  intros HL psize. pose proof (layout_entry_size _ HL). split; [lia|].
  destruct (layout_entries _ HL) as [k Hk]. exists (Z.to_nat k). subst psize. nia.
Qed.

Lemma chain_entries_done is_ufs boot d :
  layout d ->
  ∃ r es, chain_entries is_ufs boot d = Done (r, es) ∧ length es = array_size d ∧ (r = 0 ∨ r = 1).
Proof.
  intros HL. destruct boot; cbn [chain_entries].
  - eexists _, _. split; [done|]. split; [by apply length_entries|by left].
  - destruct (entry_size_divides d HL) as [H1 H2]. rewrite <- (length_entries d PRIMARY_GPT HL) in H2 |- *.
    destruct (swap_loop_done is_ufs PTN_SWAP_LIST _ _ 1 H1 H2) as (r & es & ? & ? & ?); [by right|].
    by exists r, es.
Qed.

Lemma read_with_buffer g s s' buf :
  layout (disk s) -> quiet s True s' -> length buf = blk_size ->
  reads (blk_read (Z.of_nat (header_at g (disk s))) buf) s' (header g (disk s)).
Proof.
  intros HL (D & _) Hb. pose proof (header_in_disk _ g HL).
  pose proof (blk_read_reads (Z.of_nat (header_at g (disk s))) buf s') as H1.
  rewrite Nat2Z.id, D, Hb in H1. apply H1; lia.
Qed.

Lemma entries_reads s s' :
  layout (disk s) -> quiet s True s' ->
  reads (blk_read (entries_at PRIMARY_GPT (disk s)) (replicate (array_size (disk s)) 0)) s'
    (entries PRIMARY_GPT (disk s)).
Proof.
  intros HL (D & _).
  pose proof (blk_read_reads (entries_at PRIMARY_GPT (disk s)) (replicate (array_size (disk s)) 0) s') as H1.
  rewrite length_replicate, D in H1. apply H1; apply HL.
Qed.

(** Setting the boot chain with an intact primary copy.  The result is positive
    when there is no backup to swap with; then nothing was written. *)
Definition chain_post (s : device) (swapped : Z) (es : list Z) (r : Z) (s' : device) : Prop :=
  if decide (swapped = 0) then post2 s (half_chained es (disk s)) (chained es (disk s)) r s'
  else boot_lun s' = boot_lun s ∧ disk s' = disk s ∧ r ≠ 0 ∧ (0 < r -> r = 1) ∧
       (outcomes s = [] -> outcomes s' = [] ∧ r = 1).

Lemma chain_post_fail s b es s' r : quiet s False s' -> r < 0 -> chain_post s b es r s'.
Proof.
  intros Q Hr. unfold chain_post. case_decide; [by apply post2_fail|].
  destruct Q as (D & L & O). split_and!; [done|done|lia|lia|]. intros Ho. by destruct (O Ho).
Qed.

Lemma chain_tail is_ufs boot s s' swapped es :
  layout (disk s) -> quiet s True s' ->
  chain_entries is_ufs boot (disk s) = Done (swapped, es) -> length es = array_size (disk s) ->
  swapped = 0 ∨ swapped = 1 ->
  wp (match boot with
      | NORMAL_BOOT => write_secondary crc32 blk_size (Z.of_nat (header_at SECONDARY_GPT (disk s)))
                         (header SECONDARY_GPT (disk s)) (entries PRIMARY_GPT (disk s))
      | BACKUP_BOOT =>
        let! swapped := lift (gpt_boot_chain_swap junk is_ufs (entries PRIMARY_GPT (disk s))
                                (Z.to_nat (pentry_size (header PRIMARY_GPT (disk s))))) in
        let '(r, pentries) := swapped in
        if negb (r =? 0) then ret r
        else write_secondary crc32 blk_size (Z.of_nat (header_at SECONDARY_GPT (disk s)))
               (header SECONDARY_GPT (disk s)) pentries
      end) s' (chain_post s swapped es).
Proof.
  intros HL Q Hc Hes Hsw. pose proof (write_secondary_post es s s' HL Hes Q) as Hw.
  destruct boot; cbn [chain_entries] in Hc.
  - injection Hc as <- <-. eapply wp_mono; [exact Hw|]. intros r s2 H. exact H.
  - apply wp_bind. eapply wp_lift; [exact Hc|]. cbn beta iota.
    destruct Hsw as [->| ->]; cbn [Z.eqb negb].
    + eapply wp_mono; [exact Hw|]. intros r s2 H. exact H.
    + apply wp_ret. destruct Q as (D & L & O).
      unfold chain_post. rewrite decide_False by done. split_and!; [done..|].
      intros Ho. destruct (O Ho). by split.
Qed.

Lemma gpt2_set_boot_chain_post is_ufs boot s swapped es :
  layout (disk s) -> entries_ok PRIMARY_GPT (disk s) ->
  chain_entries is_ufs boot (disk s) = Done (swapped, es) -> length es = array_size (disk s) ->
  swapped = 0 ∨ swapped = 1 ->
  wp (gpt2_set_boot_chain crc32 junk is_ufs blk_size boot) s (chain_post s swapped es).
Proof.
  intros HL HE Hc Hes Hsw.
  apply begin_block_wp; intros s1 Q1; cbn [negb]; [|apply wp_ret; by apply chain_post_fail].
  pose proof (header_offset_reads SECONDARY_GPT s1) as H2. rewrite (proj1 Q1) in H2.
  eapply wp_bind_reads; [by apply H2| |]; intros s2 Q2;
    (eapply quiet_true in Q2; [|exact Q1]); [|apply wp_ret; by apply chain_post_fail].
  eapply wp_bind_reads; [by apply (header_reads PRIMARY_GPT)| |]; intros s3 Q3;
    (eapply quiet_true in Q3; [|exact Q2]); [|apply wp_ret; by apply chain_post_fail].
  apply wp_bind_sys; intros s4 Q4;
    (eapply quiet_true in Q4; [|exact Q3]); cbn [negb]; [|apply wp_ret; by apply chain_post_fail].
  eapply wp_bind_reads; [by apply entries_reads| |]; intros s5 Q5;
    (eapply quiet_true in Q5; [|exact Q4]); [|apply wp_ret; by apply chain_post_fail].
  apply wp_bind, crc_of_wp; [done|]. rewrite take_ge by lia.
  unfold entries_ok in HE. rewrite HE, Z.eqb_refl. cbn [negb].
  eapply wp_bind_reads; [apply (read_with_buffer SECONDARY_GPT); [done..|by apply length_header]| |]; intros s6 Q6;
    (eapply quiet_true in Q6; [|exact Q5]); [|apply wp_ret; by apply chain_post_fail].
  by apply chain_tail.
Qed.

(** ** One copy is always usable *)

(** What every step keeps.  The primary entries are never written, and their
    crc is right; the secondary ones are only touched while the primary
    header is in use. *)
Record safe (d : list Z) : Prop := {
  safe_layout : layout d;
  safe_crc g : header_crc_ok (header g d);
  safe_entries : entries_ok PRIMARY_GPT d;
  safe_one : signature_ok (header PRIMARY_GPT d) ∨
             signature_ok (header SECONDARY_GPT d) ∧ entries_ok SECONDARY_GPT d }.

Lemma safe_usable d : safe d -> usable PRIMARY_GPT d ∨ usable SECONDARY_GPT d.
Proof. intros [? ? ? [?|[??]]]; [left|right]; by repeat split. Qed.

(** The disk with the header [g] in the state [st]. *)
Definition with_state (g : gpt_instance) (st : gpt_state) (d : list Z) : list Z :=
  write (header_at g d) (signed st (header g d)) d.

Lemma with_state_facts g st d :
  layout d -> st ≠ GPT_BAD_CRC ->
  let d' := with_state g st d in
  layout d' ∧ header_crc_ok (header g d') ∧ (signature_ok (header g d') <-> st = GPT_OK) ∧
  header (other g) d' = header (other g) d ∧
  (∀ g', entries g' d' = entries g' d) ∧ (∀ g', entries_ok g' d' <-> entries_ok g' d).
Proof.
  intros HL Hst d'. pose proof (length_header _ g HL) as Hh. pose proof (layout_blk _ HL) as Hb.
  assert (∃ h, put_signature st (header g d) = Some h ∧ same_body (header g d) h ∧
               (signature_ok h <-> st = GPT_OK) ∧
               GET_4_BYTES h PARTITION_CRC_OFFSET = GET_4_BYTES (header g d) PARTITION_CRC_OFFSET)
    as (h & Hp & B & S & C).
  { destruct st; [| |done]; (eexists; split; [done|]).
    - destruct (put_signature_ok (header g d)) as (? & ? & ?); [lia|]. by split_and!.
    - destruct (put_signature_bad (header g d)) as (? & ? & ?); [lia|]. by split_and!. }
  assert (length h = blk_size) as Hl by by rewrite (proj1 B).
  assert (signed st (header g d) = seal h) as Hs by (unfold signed; by rewrite Hp).
  assert (same_body (header g d) (seal h)) as B2
    by (eapply same_body_trans; [exact B|apply same_body_seal; lia]).
  destruct (write_header d g (seal h) HL B2) as (L & _ & Hg & Ho & He).
  subst d'. unfold with_state. rewrite Hs, Hg. split; [done|]. split; [apply seal_crc_ok; lia|].
  split; [rewrite seal_signature by lia; done|]. split; [done|]. split; [done|].
  intros g'. unfold entries_ok. rewrite He. destruct (decide (g' = g)) as [->|Hne].
  - rewrite Hg, seal_partition_crc, C by lia. done.
  - assert (g' = other g) as -> by (destruct g, g'; done). by rewrite Ho.
Qed.

(** Switching a header keeps a disk safe if what is left is usable. *)
Lemma with_state_safe g st d :
  safe d -> st ≠ GPT_BAD_CRC ->
  st = GPT_OK ∧ (g = SECONDARY_GPT -> entries_ok SECONDARY_GPT d) ∨
  signature_ok (header (other g) d) ∧ (g = PRIMARY_GPT -> entries_ok SECONDARY_GPT d) ->
  safe (with_state g st d).
Proof.
  intros [L C E O] Hst Hc. destruct (with_state_facts g st d L Hst) as (L' & C' & S' & Ho & _ & He).
  constructor; [done| |by apply He|].
  - intros g'. destruct (decide (g' = g)) as [->|Hne]; [done|].
    assert (g' = other g) as -> by (destruct g, g'; done). by rewrite Ho.
  - rewrite He. destruct g; cbn [other] in *; rewrite ?Ho, ?S'; naive_solver.
Qed.

Lemma half_chained_safe es d :
  safe d -> signature_ok (header PRIMARY_GPT d) -> safe (half_chained es d).
Proof.
  intros [L C E _] S. destruct (half_chained_facts es d L) as (L' & _ & Hp & _ & C' & _ & _ & He).
  constructor; [done| |unfold entries_ok; by rewrite He, Hp|left; by rewrite Hp].
  intros []; [by rewrite Hp|done].
Qed.
Lemma chained_safe es d :
  safe d -> signature_ok (header PRIMARY_GPT d) -> length es = array_size d ->
  safe (chained es d).
Proof.
  intros [L C E _] S Hes. destruct (chained_facts es d L Hes) as (L' & Hp & _ & C' & _ & He & _).
  constructor; [done| |unfold entries_ok; by rewrite He, Hp|left; by rewrite Hp].
  intros []; [by rewrite Hp|done].
Qed.

Lemma state_of_ok d g :
  safe d -> state_of (header g d) = if decide (signature_ok (header g d)) then GPT_OK else GPT_BAD_SIGNATURE.
Proof. intros S. unfold state_of. rewrite decide_True; [done|]. apply S. Qed.

(** ** The stages *)

Definition boot_lun_of (chain : boot_chain) : Z :=
  match chain with BACKUP_BOOT => 2 | NORMAL_BOOT => 1 end.
(** The update switches the boot LUN. *)
Definition switches (stat : string -> bool) (is_ufs : bool) : bool :=
  is_ufs && stat "xbl"%string && stat "xblbak"%string.

Lemma switch_xbl_wp stat is_ufs chain s :
  wp (switch_xbl stat is_ufs chain) s (fun r s' =>
    disk s' = disk s ∧ r ≤ 0 ∧ (outcomes s = [] -> outcomes s' = [] ∧ r = 0) ∧
    (r = 0 -> boot_lun s' = if switches stat is_ufs then boot_lun_of chain else boot_lun s)).
Proof.
  unfold switch_xbl, switches.
  destruct (is_ufs && stat "xbl"%string && stat "xblbak"%string) eqn:E; [|by apply wp_ret].
  apply andb_prop in E as [E E3]. apply andb_prop in E as [E1 E2].
  unfold gpt_utils_set_xbl_boot_partition.
  destruct chain; rewrite ?E2, ?E3; cbn [andb orb negb];
    (apply wp_bind_sys; intros s1 (D1 & L1 & O1); cbn [negb];
     [apply wp_bind_sys; intros s2 (D2 & L2 & O2); cbn [negb];
      [apply wp_bind, wp_modify, wp_ret; cbn; split_and!; [congruence|lia| |done]; naive_solver
      |apply wp_ret; split_and!; [congruence|lia| |lia]; naive_solver]
     |apply wp_ret; split_and!; [congruence|lia| |lia]; naive_solver]).
Qed.

(** The disk when a stage is through, for the entries [es] of the secondary
    copy. *)
Definition stage_disk (stage : boot_update_stage) (es d : list Z) : list Z :=
  match stage with
  | UPDATE_MAIN => with_state PRIMARY_GPT GPT_BAD_SIGNATURE (chained es d)
  | UPDATE_BACKUP => with_state SECONDARY_GPT GPT_BAD_SIGNATURE (with_state PRIMARY_GPT GPT_OK d)
  | UPDATE_FINALIZE => with_state SECONDARY_GPT GPT_OK (chained es d)
  end.
Definition stage_chain (stage : boot_update_stage) : boot_chain :=
  match stage with UPDATE_MAIN => BACKUP_BOOT | _ => NORMAL_BOOT end.

(** What a stage that is due does: the disk stays safe at every error; a
    result of zero means that the stage is through, or that no boot partition
    has a backup; with no errors the result is zero. *)
Definition stage_post (stage : boot_update_stage) (swapped : Z) (es : list Z) (s : device)
    (r : Z) (s' : device) : Prop :=
  safe (disk s') ∧ (r = 0 -> disk s' = if decide (swapped = 0) then stage_disk stage es (disk s) else disk s) ∧
  (outcomes s = [] -> outcomes s' = [] ∧ r = 0).

Lemma set_state_wp g st s :
  safe (disk s) -> st ≠ GPT_BAD_CRC -> safe (with_state g st (disk s)) ->
  wp (gpt_set_state crc32 junk blk_size g st) s (fun r s' =>
    safe (disk s') ∧ (r = 0 -> disk s' = with_state g st (disk s)) ∧
    (outcomes s = [] -> outcomes s' = [] ∧ r = 0)).
Proof.
  intros HS Hst HS'. eapply wp_mono; [apply gpt_set_state_post; [apply HS|done]|].
  intros r s' (L & D & R & O). fold (with_state g st (disk s)) in D.
  destruct D as [->|[-> ?]]; split_and!; done.
Qed.

(** Setting the boot chain while the primary header is in use. *)
Lemma chain_wp is_ufs boot swapped es s :
  safe (disk s) -> signature_ok (header PRIMARY_GPT (disk s)) ->
  chain_entries is_ufs boot (disk s) = Done (swapped, es) -> length es = array_size (disk s) ->
  swapped = 0 ∨ swapped = 1 ->
  wp (gpt2_set_boot_chain crc32 junk is_ufs blk_size boot) s (fun r s' =>
    safe (disk s') ∧ (r = 0 -> disk s' = chained es (disk s) ∧ swapped = 0) ∧
    (r ≠ 0 -> 0 ≤ r -> disk s' = disk s ∧ swapped = 1) ∧
    (outcomes s = [] -> outcomes s' = [] ∧ r = swapped)).
Proof.
  intros HS Hp Hc Hes Hsw. pose proof HS as [HL HC HE HO].
  eapply wp_mono; [by apply gpt2_set_boot_chain_post|].
  intros r s'. unfold chain_post. case_decide as Hs0.
  - intros (L & D & R & O). split_and!; [|naive_solver|lia|naive_solver].
    destruct D as [->|[[->| ->] _]]; [by apply chained_safe|done|by apply half_chained_safe].
  - intros (L & D & R & R1 & O). rewrite D. split_and!; [done|done| |].
    + intros _ H. split; [done|]. naive_solver.
    + intros Ho. destruct (O Ho). split; [done|]. naive_solver.
Qed.

(** The stage that comes next on a disk. *)
Definition due (d : list Z) (stage : boot_update_stage) : Prop :=
  match stage with
  | UPDATE_MAIN => signature_ok (header PRIMARY_GPT d) ∧ signature_ok (header SECONDARY_GPT d)
  | UPDATE_BACKUP => ¬ signature_ok (header PRIMARY_GPT d) ∧ signature_ok (header SECONDARY_GPT d)
  | UPDATE_FINALIZE => signature_ok (header PRIMARY_GPT d) ∧ ¬ signature_ok (header SECONDARY_GPT d)
  end.

Lemma internal_stage_due d :
  safe d -> ∃ stage, due d stage ∧
    internal_stage (state_of (header PRIMARY_GPT d)) (state_of (header SECONDARY_GPT d)) = Some stage.
Proof.
  intros S. rewrite !state_of_ok by done. pose proof (safe_one _ S) as H.
  do 2 case_decide; cbn [internal_stage]; try (eexists; split; [|reflexivity]; by split). naive_solver.
Qed.

Lemma do_main_wp stat is_ufs swapped es s :
  safe (disk s) -> due (disk s) UPDATE_MAIN ->
  chain_entries is_ufs BACKUP_BOOT (disk s) = Done (swapped, es) -> length es = array_size (disk s) ->
  swapped = 0 ∨ swapped = 1 ->
  wp (do_stage crc32 junk stat is_ufs blk_size UPDATE_MAIN) s (stage_post UPDATE_MAIN swapped es s).
Proof.
  intros HS [Hp Hs] Hc Hes Hsw. apply wp_bind. eapply wp_mono; [apply switch_xbl_wp|].
  intros r s1 (D & R & O & _).
  destruct (Z.eqb_spec r 0) as [->|Hr]; cbn [negb];
    [|apply wp_ret; split_and!; [by rewrite D|done|naive_solver]].
  apply wp_bind. eapply wp_mono; [apply (chain_wp is_ufs BACKUP_BOOT swapped es); rewrite ?D; done|].
  intros r s2 (S2 & Z2 & P2 & O2). rewrite D in Z2, P2.
  destruct (Z.eqb_spec r 0) as [->|Hr2]; cbn [negb].
  - destruct (Z2 eq_refl) as [D2 ->].
    pose proof (chained_facts es (disk s) (safe_layout _ HS) Hes) as (_ & _ & _ & _ & Ss & _ & _ & E2).
    rewrite <- D2 in Ss, E2.
    eapply wp_mono; [apply set_state_wp; [done|done|]|].
    { apply with_state_safe; [done|done|]. right. split; [by apply Ss|done]. }
    intros r s3 (S3 & Z3 & O3). split_and!; [done| |naive_solver].
    intros Hr. rewrite (Z3 Hr), D2. done.
  - apply wp_ret. split_and!; [done| |].
    + intros Hr. destruct (P2 Hr2) as [D2 ->]; [|by rewrite D2].
      destruct (Z.ltb_spec r 0); lia.
    + intros Ho. destruct (O Ho) as [Ho1 _]. destruct (O2 Ho1) as [? ->]. split; [done|].
      destruct (Z.ltb_spec swapped 0); [lia|done].
Qed.

Lemma do_backup_wp stat is_ufs swapped es s :
  safe (disk s) -> due (disk s) UPDATE_BACKUP -> swapped = 0 ->
  wp (do_stage crc32 junk stat is_ufs blk_size UPDATE_BACKUP) s (stage_post UPDATE_BACKUP swapped es s).
Proof.
  intros HS [Hp Hs] ->. assert (entries_ok SECONDARY_GPT (disk s)) as E2
    by (by destruct (safe_one _ HS) as [?|[??]]).
  apply wp_bind. eapply wp_mono; [apply switch_xbl_wp|].
  intros r s1 (D & R & O & _).
  destruct (Z.eqb_spec r 0) as [->|Hr]; cbn [negb];
    [|apply wp_ret; split_and!; [by rewrite D|done|naive_solver]].
  apply wp_bind. eapply wp_mono; [apply set_state_wp; rewrite ?D; [done|done|]|].
  { apply with_state_safe; [done|done|]. by left. }
  intros r s2 (S2 & Z2 & O2). rewrite D in Z2.
  destruct (Z.eqb_spec r 0) as [->|Hr2]; cbn [negb];
    [|apply wp_ret; split_and!; [done|done|naive_solver]].
  specialize (Z2 eq_refl).
  destruct (with_state_facts PRIMARY_GPT GPT_OK (disk s) (safe_layout _ HS)) as (_ & _ & S1 & _); [done|].
  rewrite <- Z2 in S1.
  eapply wp_mono; [apply set_state_wp; [done|done|]|].
  { apply with_state_safe; [done|done|]. right. split; [by apply S1|done]. }
  intros r s3 (S3 & Z3 & O3). split_and!; [done| |naive_solver].
  intros Hr. rewrite (Z3 Hr), Z2. done.
Qed.

Lemma do_finalize_wp stat is_ufs swapped es s :
  safe (disk s) -> due (disk s) UPDATE_FINALIZE ->
  chain_entries is_ufs NORMAL_BOOT (disk s) = Done (swapped, es) ->
  wp (do_stage crc32 junk stat is_ufs blk_size UPDATE_FINALIZE) s (stage_post UPDATE_FINALIZE swapped es s).
Proof.
  intros HS [Hp Hs] Hc. injection Hc as <- <-. set (es := entries PRIMARY_GPT (disk s)).
  assert (length es = array_size (disk s)) as Hes by apply length_entries, HS.
  apply wp_bind. eapply wp_mono; [apply (chain_wp is_ufs NORMAL_BOOT 0 es); try done; by left|].
  intros r s1 (S1 & Z1 & P1 & O1). destruct (Z.ltb_spec r 0) as [Hr|Hr].
  { apply wp_ret. split_and!; [done|lia|]. intros Ho. destruct (O1 Ho). lia. }
  destruct (decide (r = 0)) as [->|Hr0]; [|by destruct (P1 Hr0)].
  destruct (Z1 eq_refl) as [D1 _].
  pose proof (chained_facts es (disk s) (safe_layout _ HS) Hes) as (_ & _ & _ & _ & _ & _ & _ & E2).
  rewrite <- D1 in E2.
  eapply wp_mono; [apply set_state_wp; [done|done|]|].
  { apply with_state_safe; [done|done|]. by left. }
  intros r s2 (S2 & Z2 & O2). split_and!; [done| |naive_solver].
  intros Hr2. rewrite (Z2 Hr2), D1. done.
Qed.

(** A stage that is not due writes nothing: the one before the due stage is
    through already, the others are errors. *)
Definition not_due_post (stage now : boot_update_stage) (s : device) (r : Z) (s' : device) : Prop :=
  disk s' = disk s ∧ boot_lun s' = boot_lun s ∧
  (r = 0 -> stage_number stage = stage_number now - 1) ∧
  (outcomes s = [] ->
     outcomes s' = [] ∧ r = if decide (stage_number stage = stage_number now - 1) then 0 else -1).

Lemma prepare_wp stat is_ufs stage now s swapped es :
  safe (disk s) -> due (disk s) now ->
  chain_entries is_ufs (stage_chain now) (disk s) = Done (swapped, es) ->
  length es = array_size (disk s) -> swapped = 0 ∨ swapped = 1 ->
  wp (prepare_partitions crc32 junk stat is_ufs blk_size stage) s (fun r s' =>
    if decide (stage = now) then stage_post now swapped es s r s' else not_due_post stage now s r s').
Proof.
  intros HS Hd Hc Hes Hsw.
  assert (∀ r s', quiet s False s' -> r ≠ 0 ->
    if decide (stage = now) then stage_post now swapped es s r s' else not_due_post stage now s r s') as Hfail.
  { intros r s' (D & L & O) Hr.
    case_decide; split_and!; rewrite ?D; try done; intros Ho; by destruct (O Ho). }
  apply wp_bind_sys; intros s1 Q1; cbn [negb]; [|by apply wp_ret, Hfail].
  pose proof (gpt_get_state_reads PRIMARY_GPT s1) as H2. rewrite (proj1 Q1) in H2.
  eapply wp_bind_reads; [by apply H2, HS| |]; intros s2 Q2;
    (eapply quiet_true in Q2; [|exact Q1]); [|by apply wp_ret, Hfail].
  pose proof (gpt_get_state_reads SECONDARY_GPT s2) as H3. rewrite (proj1 Q2) in H3.
  eapply wp_bind_reads; [by apply H3, HS| |]; intros s3 Q3;
    (eapply quiet_true in Q3; [|exact Q2]); [|by apply wp_ret, Hfail].
  destruct (internal_stage_due _ HS) as (now' & Hd' & ->).
  assert (now' = now) as -> by (destruct now, now'; cbn [due] in *; done || (exfalso; tauto)).
  destruct Q3 as (D & L & O). destruct (decide (stage = now)) as [->|Hne].
  - rewrite decide_False by lia.
    assert (∀ r s', stage_post now swapped es s3 r s' -> stage_post now swapped es s r s') as Hq.
    { intros r s' (? & Hz & Ho). rewrite D in Hz. split_and!; [done|done|]. intros Hs. apply Ho. by apply O. }
    eapply wp_mono; [|exact Hq]. destruct now; cbn [stage_chain] in Hc.
    + by apply do_main_wp; rewrite ?D.
    + apply do_backup_wp; rewrite ?D; [done..|]. by injection Hc.
    + by apply do_finalize_wp; rewrite ?D.
  - case_decide; apply wp_ret; (split_and!; [done|done|done|]); intros Hs; (split; [by apply O|]);
      by case_decide.
Qed.

Lemma prepare_safe stat is_ufs stage s :
  safe (disk s) ->
  wp (prepare_partitions crc32 junk stat is_ufs blk_size stage) s (fun _ s' => safe (disk s')).
Proof.
  intros HS. destruct (internal_stage_due _ HS) as (now & Hd & _).
  destruct (chain_entries_done is_ufs (stage_chain now) _ (safe_layout _ HS)) as (r & es & Hc & Hl & Hr).
  eapply wp_mono; [by apply (prepare_wp stat is_ufs stage now s r es)|].
  intros r' s'. case_decide; [by intros [? _]|]. intros (D & _). by rewrite D.
Qed.

(** What the completed stages leave. *)
Lemma stage_disk_main es d :
  safe d -> due d UPDATE_MAIN -> length es = array_size d ->
  let d' := stage_disk UPDATE_MAIN es d in
  due d' UPDATE_BACKUP ∧ entries PRIMARY_GPT d' = entries PRIMARY_GPT d ∧ entries SECONDARY_GPT d' = es ∧
  entries_ok SECONDARY_GPT d'.
Proof.
  intros HS [Hp Hs] Hes.
  destruct (chained_facts es d (safe_layout _ HS) Hes) as (L & _ & _ & _ & S & Ep & Es & Eo).
  destruct (with_state_facts PRIMARY_GPT GPT_BAD_SIGNATURE (chained es d) L) as (_ & _ & S1 & Ho & He & Heo);
    [done|].
  cbn [other stage_disk] in *. cbn zeta. rewrite !He, Heo. split; [|done]. split; [by rewrite S1|].
  rewrite Ho. by apply S.
Qed.
Lemma stage_disk_backup es d :
  safe d -> due d UPDATE_BACKUP ->
  let d' := stage_disk UPDATE_BACKUP es d in
  due d' UPDATE_FINALIZE ∧ ∀ g, entries g d' = entries g d.
Proof.
  intros HS [Hp Hs].
  destruct (with_state_facts PRIMARY_GPT GPT_OK d (safe_layout _ HS)) as (L & _ & S1 & Ho & He & _); [done|].
  destruct (with_state_facts SECONDARY_GPT GPT_BAD_SIGNATURE (with_state PRIMARY_GPT GPT_OK d) L)
    as (_ & _ & S2 & Ho2 & He2 & _); [done|].
  cbn [other stage_disk] in *. cbn zeta. split; [|intros g; by rewrite He2, He].
  split; [|by rewrite S2]. rewrite Ho2. by apply S1.
Qed.
Lemma stage_disk_finalize es d :
  safe d -> due d UPDATE_FINALIZE -> length es = array_size d ->
  let d' := stage_disk UPDATE_FINALIZE es d in
  due d' UPDATE_MAIN ∧ entries PRIMARY_GPT d' = entries PRIMARY_GPT d ∧ entries SECONDARY_GPT d' = es ∧
  entries_ok SECONDARY_GPT d'.
Proof.
  intros HS [Hp Hs] Hes.
  destruct (chained_facts es d (safe_layout _ HS) Hes) as (L & Hh & _ & _ & S & Ep & Es & Eo).
  destruct (with_state_facts SECONDARY_GPT GPT_OK (chained es d) L) as (_ & _ & S1 & Ho & He & Heo); [done|].
  cbn [other stage_disk] in *. cbn zeta. rewrite !He, Heo. split; [|done]. split; [|by apply S1].
  by rewrite Ho, Hh.
Qed.

(** A due stage with no errors. *)
Lemma prepare_runs stat is_ufs stage s es :
  safe (disk s) -> due (disk s) stage -> outcomes s = [] ->
  chain_entries is_ufs (stage_chain stage) (disk s) = Done (0, es) -> length es = array_size (disk s) ->
  ∃ s', prepare_partitions crc32 junk stat is_ufs blk_size stage s = Done (0, s') ∧
        safe (disk s') ∧ disk s' = stage_disk stage es (disk s) ∧ outcomes s' = [].
Proof.
  intros HS Hd Ho Hc Hes.
  destruct (prepare_wp stat is_ufs stage stage s 0 es HS Hd Hc Hes (or_introl eq_refl)) as (r & s' & E & H).
  rewrite decide_True in H by done. destruct H as (HS' & Hz & Hr). destruct (Hr Ho) as [Ho' ->].
  exists s'. split_and!; [done|done| |done]. rewrite (Hz eq_refl). done.
Qed.
End layout.

(** * The properties *)

Section update.
Context (crc32 : list Z -> Z) (junk : Z) (blk_size : nat).
Abbreviation prepare := (prepare_partitions crc32 junk).
Abbreviation layout_safe := (safe crc32 blk_size).

(** C7: whatever ioctl, malloc, lseek, read, write, fsync or stat fails, and so
    wherever an update is cut off between two writes, prepare_partitions has a
    defined result and one of the two copies of the partition table has a valid
    signature, header crc and entries crc; the state it leaves can be updated
    again. *)
Theorem prepare_keeps_bootable (crc32_range : ∀ b, 0 ≤ crc32 b < 2 ^ 32) stat is_ufs stage s :
  layout_safe (disk s) ->
  ∃ r s', prepare stat is_ufs blk_size stage s = Done (r, s') ∧ layout_safe (disk s') ∧
    (usable crc32 blk_size PRIMARY_GPT (disk s') ∨ usable crc32 blk_size SECONDARY_GPT (disk s')).
Proof.
  intros HS. destruct (prepare_safe crc32 junk blk_size crc32_range stat is_ufs stage s HS) as (r & s' & E & HS').
  exists r, s'. split; [done|]. split; [done|]. by apply safe_usable.
Qed.

(** C37: the three stages in a row, with no errors, each succeed.  After
    UPDATE_MAIN only the secondary copy is in use and its entries are the
    swapped ones; after UPDATE_BACKUP only the primary copy is in use, with the
    entries it had; after UPDATE_FINALIZE both are, with the same entries. *)
Theorem update_cycle (crc32_range : ∀ b, 0 ≤ crc32 b < 2 ^ 32) stat is_ufs s es :
  layout_safe (disk s) -> due blk_size (disk s) UPDATE_MAIN -> outcomes s = [] ->
  gpt_boot_chain_swap junk is_ufs (entries blk_size PRIMARY_GPT (disk s))
    (Z.to_nat (pentry_size (header blk_size PRIMARY_GPT (disk s)))) = Done (0, es) ->
  ∃ s1 s2 s3,
    prepare stat is_ufs blk_size UPDATE_MAIN s = Done (0, s1) ∧
    prepare stat is_ufs blk_size UPDATE_BACKUP s1 = Done (0, s2) ∧
    prepare stat is_ufs blk_size UPDATE_FINALIZE s2 = Done (0, s3) ∧
    (¬ usable crc32 blk_size PRIMARY_GPT (disk s1) ∧ usable crc32 blk_size SECONDARY_GPT (disk s1) ∧
     entries blk_size SECONDARY_GPT (disk s1) = es) ∧
    (usable crc32 blk_size PRIMARY_GPT (disk s2) ∧ ¬ usable crc32 blk_size SECONDARY_GPT (disk s2) ∧
     entries blk_size PRIMARY_GPT (disk s2) = entries blk_size PRIMARY_GPT (disk s)) ∧
    (usable crc32 blk_size PRIMARY_GPT (disk s3) ∧ usable crc32 blk_size SECONDARY_GPT (disk s3) ∧
     ∀ g, entries blk_size g (disk s3) = entries blk_size PRIMARY_GPT (disk s)).
Proof.
  intros HS Hd Ho Hc.
  destruct (chain_entries_done junk blk_size is_ufs BACKUP_BOOT _ (safe_layout _ _ _ HS)) as (r & es' & Hc' & Hl & _).
  assert (es' = es) as -> by (cbn [chain_entries] in Hc'; congruence).
  destruct (prepare_runs crc32 junk blk_size crc32_range stat is_ufs UPDATE_MAIN s es HS Hd Ho Hc Hl)
    as (s1 & E1 & S1 & D1 & O1).
  destruct (stage_disk_main crc32 blk_size crc32_range es _ HS Hd Hl) as (Hd1 & Ep1 & Es1 & Eo1).
  rewrite <- D1 in Hd1, Ep1, Es1, Eo1.
  pose proof (length_entries blk_size _ PRIMARY_GPT (safe_layout _ _ _ S1)) as Hl1.
  destruct (prepare_runs crc32 junk blk_size crc32_range stat is_ufs UPDATE_BACKUP s1 _ S1 Hd1 O1 eq_refl Hl1)
    as (s2 & E2 & S2 & D2 & O2).
  destruct (stage_disk_backup crc32 blk_size crc32_range (entries blk_size PRIMARY_GPT (disk s1)) _ S1 Hd1) as (Hd2 & Ee2).
  rewrite <- D2 in Hd2, Ee2.
  pose proof (length_entries blk_size _ PRIMARY_GPT (safe_layout _ _ _ S2)) as Hl2.
  destruct (prepare_runs crc32 junk blk_size crc32_range stat is_ufs UPDATE_FINALIZE s2 _ S2 Hd2 O2 eq_refl Hl2)
    as (s3 & E3 & S3 & D3 & O3).
  destruct (stage_disk_finalize crc32 blk_size crc32_range _ _ S2 Hd2 Hl2) as (Hd3 & Ep3 & Es3 & Eo3).
  rewrite <- D3 in Hd3, Ep3, Es3, Eo3.
  destruct Hd1 as [Np1 Us1], Hd2 as [Up2 Ns2], Hd3 as [Up3 Us3].
  exists s1, s2, s3. split; [done|]. split; [done|]. split; [done|].
  split; [|split]; (split; [|split]); try (by intros []); try (split; [done|split]; try done; apply S1 || apply S2 || apply S3).
  - done.
  - rewrite Ee2. done.
  - intros []; rewrite ?Es3, ?Ep3, Ee2; done.
Qed.

(** a stage that is not the one due writes nothing and leaves the boot LUN:
    the stage just before reports success, as it is through already, and any
    other is an error. *)
Theorem prepare_only_when_due (crc32_range : ∀ b, 0 ≤ crc32 b < 2 ^ 32) stat is_ufs stage now s :
  layout_safe (disk s) -> due blk_size (disk s) now -> stage ≠ now ->
  ∃ r s', prepare stat is_ufs blk_size stage s = Done (r, s') ∧
    disk s' = disk s ∧ boot_lun s' = boot_lun s ∧
    (r = 0 -> stage_number stage = stage_number now - 1) ∧
    (outcomes s = [] -> r = if decide (stage_number stage = stage_number now - 1) then 0 else -1).
Proof.
  intros HS Hd Hne.
  destruct (chain_entries_done junk blk_size is_ufs (stage_chain now) _ (safe_layout _ _ _ HS)) as (sw & es & Hc & Hl & Hr).
  destruct (prepare_wp crc32 junk blk_size crc32_range stat is_ufs stage now s sw es HS Hd Hc Hl Hr) as (r & s' & E & H).
  rewrite decide_False in H by done. destruct H as (D & L & Z0 & O).
  exists r, s'. split_and!; [done..|]. intros Ho. by apply O.
Qed.
End update.

(** A 32-bit field that was put is read back, and no other field of the
    header changes. *)
Theorem put_get_field b o y :
  in_range o 4 b -> 0 ≤ y < 2 ^ 32 ->
  GET_4_BYTES (PUT_4_BYTES b o y) o = y ∧ length (PUT_4_BYTES b o y) = length b ∧
  (∀ o', 0 ≤ o' -> o' + 4 ≤ o ∨ o + 4 ≤ o' ->
     GET_4_BYTES (PUT_4_BYTES b o y) o' = GET_4_BYTES b o') ∧
  (∀ o', 0 ≤ o' -> o' + 8 ≤ o ∨ o + 4 ≤ o' ->
     GET_8_BYTES (PUT_4_BYTES b o y) o' = GET_8_BYTES b o').
Proof.
  intros Hr Hy. rewrite GET_PUT_4_BYTES_mod, Z.mod_small, length_put4 by done.
  split; [done|]. split; [done|]. split; intros o' Ho' Hd; [by apply GET_PUT_4_BYTES_other|].
  unfold GET_8_BYTES. by rewrite !GET_PUT_4_BYTES_other by (done || lia).
Qed.

(** ** Swapping an entry with its backup *)

Lemma lookup_swap i j es es' k :
  swap_entries i j es = Done es' -> (i + PTN_ENTRY_SIZE ≤ j)%nat ->
  es' !! k = if decide (i ≤ k < i + PTN_ENTRY_SIZE)%nat then es !! (k - i + j)%nat
             else if decide (j ≤ k < j + PTN_ENTRY_SIZE)%nat then es !! (k - j + i)%nat else es !! k.
Proof.
  unfold swap_entries. destruct (_ && _) eqn:E; [|done]. intros [= <-] Hij.
  apply andb_prop in E as [Hi%Nat.leb_le Hj%Nat.leb_le].
  pose proof (length_read i _ es Hi) as Li. pose proof (length_read j _ es Hj) as Lj.
  rewrite lookup_write by (rewrite length_write; lia). rewrite Li.
  destruct (decide (j ≤ k < j + PTN_ENTRY_SIZE)%nat).
  - rewrite lookup_read, decide_True by lia. rewrite decide_False by lia. f_equal. lia.
  - rewrite lookup_write by lia. rewrite Lj. case_decide; [|done].
    rewrite lookup_read, decide_True by lia. f_equal. lia.
Qed.

Lemma swap_entries_done i j es :
  (i + PTN_ENTRY_SIZE ≤ length es)%nat -> (j + PTN_ENTRY_SIZE ≤ length es)%nat ->
  ∃ es', swap_entries i j es = Done es' ∧ length es' = length es.
Proof.
  intros Hi Hj. unfold swap_entries. rewrite !(proj2 (Nat.leb_le _ _)) by done.
  eexists. split; [done|]. by rewrite !length_write.
Qed.

Lemma swap_entries_twice i j es es' :
  swap_entries i j es = Done es' -> (i + PTN_ENTRY_SIZE ≤ j)%nat -> length es' = length es ->
  swap_entries i j es' = Done es.
Proof.
  intros H Hij Hl. pose proof H as H'. unfold swap_entries in H'.
  destruct (_ && _) eqn:E; [|done]. apply andb_prop in E as [Hi%Nat.leb_le Hj%Nat.leb_le].
  destruct (swap_entries_done i j es') as (es2 & E2 & _); [lia..|]. rewrite E2. f_equal.
  apply list_eq. intros k. rewrite (lookup_swap _ _ _ _ k E2 Hij).
  repeat case_decide; rewrite (lookup_swap _ _ _ _ _ H Hij).
  - rewrite decide_False, decide_True by lia. f_equal. lia.
  - rewrite decide_True by lia. f_equal. lia.
  - by rewrite !decide_False by lia.
Qed.

(** The names a seek compares are all it depends on. *)
Lemma seek_ext junk ptn es es' psize fuel entry i :
  length es' = length es ->
  (∀ e, (entry ≤ e ≤ i)%nat -> (e < i -> e + psize ≤ i)%nat ->
     name_matches ptn (name8 junk es' e) = name_matches ptn (name8 junk es e)) ->
  (0 < psize)%nat ->
  gpt_pentry_seek junk ptn es psize fuel entry = Done (Some i) ->
  gpt_pentry_seek junk ptn es' psize fuel entry = Done (Some i) ∧ (entry ≤ i)%nat ∧
  name_matches ptn (name8 junk es i) = true.
Proof.
  intros Hl Hn Hp. revert entry Hn. induction fuel as [|fuel IH]; intros entry Hn; cbn [gpt_pentry_seek];
    rewrite Hl; (case_match; [done|]); (case_match; [done|]).
  - destruct (name_matches ptn (name8 junk es entry)) eqn:E; [|done]. intros [= ->].
    by rewrite Hn, E by lia.
  - destruct (name_matches ptn (name8 junk es entry)) eqn:E.
    + intros [= ->]. by rewrite Hn, E by lia.
    + intros H1. destruct (IH (entry + psize)%nat) as (H2 & H3 & H4); [|done|].
      { intros e He. apply Hn. lia. }
      rewrite Hn, E by lia. split; [done|]. split; [lia|done].
Qed.

Lemma name8_ext junk es es' e e' :
  (∀ k, (k < PTN_ENTRY_SIZE)%nat -> es' !! (e' + k)%nat = es !! (e + k)%nat) ->
  name8 junk es' e' = name8 junk es e.
Proof.
  intros H. unfold name8. f_equal. apply list_fmap_ext. intros n k Hk.
  apply lookup_seq in Hk as [-> Hk]. unfold byte_at. rewrite !Nat2Z.id.
  rewrite <- !Nat.add_assoc. f_equal. apply H. unfold PARTITION_NAME_OFFSET, PTN_ENTRY_SIZE.
  change (MAX_GPT_NAME_SIZE / 2)%nat with 36%nat in Hk. lia.
Qed.

(** swapping the entries of a partition and of its backup changes no other
    byte of the array, and a second swap finds the same two entries and
    restores the array. *)
Theorem swap_one_twice junk ptn es es' psize :
  (128 ≤ psize)%nat -> Nat.divide psize (length es) ->
  swap_one junk ptn es psize = Done (Some es') ->
  length es' = length es ∧
  (∃ i j, (i + PTN_ENTRY_SIZE ≤ j)%nat ∧ read i PTN_ENTRY_SIZE es' = read j PTN_ENTRY_SIZE es ∧
     read j PTN_ENTRY_SIZE es' = read i PTN_ENTRY_SIZE es ∧
     ∀ k, ¬ (i ≤ k < i + PTN_ENTRY_SIZE)%nat -> ¬ (j ≤ k < j + PTN_ENTRY_SIZE)%nat ->
          es' !! k = es !! k) ∧
  swap_one junk ptn es' psize = Done (Some es).
Proof.
  intros Hp Hd H. destruct (swap_one_done junk ptn es psize Hp Hd) as (r & E & Hl).
  rewrite H in E. injection E as <-. specialize (Hl es' eq_refl). split; [done|].
  unfold swap_one in H |- *.
  destruct (gpt_pentry_seek junk (bytes_of ptn) es psize (length es) 0) as [[i|]| |] eqn:Ei; try done.
  cbn [obind] in H.
  destruct (gpt_pentry_seek junk (bytes_of ptn) es psize (length es) (i + psize)) as [[j|]| |] eqn:Ej; try done.
  cbn [obind] in H. destruct (swap_entries i j es) as [es2| |] eqn:Es; try done. injection H as ->.
  destruct (seek_ext junk (bytes_of ptn) es es psize (length es) 0 i eq_refl (λ _ _ _, eq_refl) ltac:(lia) Ei)
    as (_ & _ & Mi).
  destruct (seek_ext junk (bytes_of ptn) es es psize (length es) _ j eq_refl (λ _ _ _, eq_refl) ltac:(lia) Ej)
    as (_ & Hij & Mj).
  assert (i + PTN_ENTRY_SIZE ≤ j)%nat as Hij' by (unfold PTN_ENTRY_SIZE; lia).
  pose proof (fun k => lookup_swap i j es es' k Es Hij') as Hk.
  assert (name8 junk es' i = name8 junk es j) as Ni.
  { apply name8_ext. intros k Hk'. rewrite Hk, decide_True by lia. f_equal. lia. }
  assert (name8 junk es' j = name8 junk es i) as Nj.
  { apply name8_ext. intros k Hk'. rewrite Hk, decide_False, decide_True by lia. f_equal. lia. }
  assert (∀ e, (e + psize ≤ i ∨ i + psize ≤ e ∧ e + psize ≤ j)%nat -> name8 junk es' e = name8 junk es e) as Ne.
  { intros e He. apply name8_ext. intros k Hk'. rewrite Hk, !decide_False by (unfold PTN_ENTRY_SIZE in *; lia).
    done. }
  split.
  - exists i, j. split; [done|]. split; [|split].
    + apply list_eq. intros k. rewrite !lookup_read. case_decide; [|done].
      rewrite Hk, decide_True by lia. f_equal. lia.
    + apply list_eq. intros k. rewrite !lookup_read. case_decide; [|done].
      rewrite Hk, decide_False, decide_True by lia. f_equal. lia.
    + intros k H1 H2. rewrite Hk. by rewrite !decide_False.
  - rewrite Hl.
    destruct (seek_ext junk (bytes_of ptn) es es' psize (length es) 0 i Hl) as (-> & _); [|lia|done|].
    { intros e He Hlt. destruct (decide (e = i)) as [->|]; [by rewrite Ni, Mi, Mj|]. rewrite Ne; [done|lia]. }
    cbn [obind].
    destruct (seek_ext junk (bytes_of ptn) es es' psize (length es) (i + psize) j Hl) as (-> & _); [|lia|done|].
    { intros e He Hlt. destruct (decide (e = j)) as [->|]; [by rewrite Nj, Mi, Mj|]. rewrite Ne; [done|lia]. }
    cbn [obind]. by rewrite (swap_entries_twice _ _ _ _ Es Hij' Hl).
Qed.

(** * A small disk *)

Module Demo.
Definition crc32 (b : list Z) : Z := foldr Z.add 0 b mod 2 ^ 32.
Definition blk_size : nat := 128.

Definition pad (n : nat) (b : list Z) : list Z := take n (b ++ replicate n 0).
Definition entry (name : string) : list Z :=
  pad 128 (replicate 56 0 ++ (bytes_of name ≫= fun c => [c; 0])).
Definition pentries : list Z := entry "tz" ++ entry "tzbak".
Definition raw_header (lba : Z) : list Z :=
  PUT_4_BYTES (PUT_4_BYTES (PUT_4_BYTES (PUT_4_BYTES (PUT_4_BYTES (pad 128 GPT_SIGNATURE)
    HEADER_SIZE_OFFSET 92) PENTRIES_OFFSET lba) PARTITION_COUNT_OFFSET 2) PENTRY_SIZE_OFFSET 128)
    PARTITION_CRC_OFFSET (crc32 pentries).

(** Block 0, the primary header and array, the secondary array and header. *)
Definition gpt : list Z := Eval vm_compute in
  replicate 128 0 ++ seal crc32 (raw_header 2) ++ pentries ++ pentries ++ seal crc32 (raw_header 4).
Definition start : device := Device gpt [] 1.
Definition no_files (name : string) : bool := false.

Lemma crc32_range b : 0 ≤ crc32 b < 2 ^ 32.
Proof. by apply Z.mod_pos_bound. Qed.

Lemma gpt_layout : layout blk_size gpt.
Proof.
  constructor; try (by apply Nat.leb_le; vm_compute); try (by apply Z.leb_le; vm_compute).
  - intros []; by apply Z.leb_le; vm_compute.
  - intros []; by apply Z.leb_le; vm_compute.
  - intros []; by apply Nat.leb_le; vm_compute.
  - exists 2. by vm_compute.
  - by vm_compute.
  - intros [] [];
      first [by (left; apply Nat.leb_le; vm_compute) | by (right; apply Nat.leb_le; vm_compute)].
  - first [by (left; apply Nat.leb_le; vm_compute) | by (right; apply Nat.leb_le; vm_compute)].
Qed.
Lemma gpt_due : due blk_size gpt UPDATE_MAIN.
Proof. by split; vm_compute. Qed.
Lemma gpt_safe : safe crc32 blk_size gpt.
Proof.
  constructor; [apply gpt_layout|intros []; by vm_compute|by vm_compute|]. left. apply gpt_due.
Qed.
Lemma gpt_swap :
  gpt_boot_chain_swap 0 false (entries blk_size PRIMARY_GPT gpt)
    (Z.to_nat (pentry_size (header blk_size PRIMARY_GPT gpt))) = Done (0, entry "tzbak" ++ entry "tz").
Proof. by vm_compute. Qed.
End Demo.

(** The write of the secondary entries fails. *)
Lemma prepare_keeps_bootable_witness :
  let s := Device Demo.gpt (replicate 22 true ++ [false]) 1 in
  ∃ r s', prepare_partitions Demo.crc32 0 Demo.no_files false Demo.blk_size UPDATE_MAIN s = Done (r, s') ∧
    safe Demo.crc32 Demo.blk_size (disk s') ∧
    (usable Demo.crc32 Demo.blk_size PRIMARY_GPT (disk s') ∨ usable Demo.crc32 Demo.blk_size SECONDARY_GPT (disk s')).
Proof.
  exact (prepare_keeps_bootable Demo.crc32 0 Demo.blk_size Demo.crc32_range Demo.no_files false UPDATE_MAIN
           (Device Demo.gpt (replicate 22 true ++ [false]) 1) Demo.gpt_safe).
Defined.

Lemma update_cycle_witness :
  ∃ s3, (∃ s1 s2,
    prepare_partitions Demo.crc32 0 Demo.no_files false Demo.blk_size UPDATE_MAIN Demo.start = Done (0, s1) ∧
    prepare_partitions Demo.crc32 0 Demo.no_files false Demo.blk_size UPDATE_BACKUP s1 = Done (0, s2) ∧
    prepare_partitions Demo.crc32 0 Demo.no_files false Demo.blk_size UPDATE_FINALIZE s2 = Done (0, s3)) ∧
    usable Demo.crc32 Demo.blk_size PRIMARY_GPT (disk s3).
Proof.
  destruct (update_cycle Demo.crc32 0 Demo.blk_size Demo.crc32_range Demo.no_files false Demo.start _
    Demo.gpt_safe Demo.gpt_due eq_refl Demo.gpt_swap) as (s1 & s2 & s3 & E1 & E2 & E3 & _ & _ & U & _).
  exists s3. split; [|exact U]. exists s1, s2. split; [exact E1|]. split; [exact E2|exact E3].
Defined.

Lemma prepare_only_when_due_witness :
  ∃ r s', prepare_partitions Demo.crc32 0 Demo.no_files false Demo.blk_size UPDATE_FINALIZE Demo.start
            = Done (r, s') ∧ disk s' = Demo.gpt ∧ r = -1.
Proof.
  destruct (prepare_only_when_due Demo.crc32 0 Demo.blk_size Demo.crc32_range Demo.no_files false
    UPDATE_FINALIZE UPDATE_MAIN Demo.start Demo.gpt_safe Demo.gpt_due) as (r & s' & E & D & _ & _ & R).
  - intros H. inversion H.
  - exists r, s'. split; [exact E|]. split; [exact D|]. exact (R eq_refl).
Defined.

Lemma put_get_field_witness :
  GET_4_BYTES (PUT_4_BYTES (replicate 92 7) HEADER_CRC_OFFSET 0xdeadbeef) HEADER_CRC_OFFSET = 0xdeadbeef.
Proof.
  apply (put_get_field (replicate 92 7) HEADER_CRC_OFFSET 0xdeadbeef).
  - split; vm_compute; congruence.
  - split; vm_compute; congruence.
Defined.

Lemma swap_one_twice_witness :
  ∃ es, swap_one 0 "tz" Demo.pentries 128 = Done (Some es) ∧
        swap_one 0 "tz" es 128 = Done (Some Demo.pentries).
Proof.
  exists (Demo.entry "tzbak" ++ Demo.entry "tz"). split; [vm_compute; reflexivity|].
  apply (swap_one_twice 0 "tz" Demo.pentries (Demo.entry "tzbak" ++ Demo.entry "tz") 128).
  - constructor.
  - exists 2%nat. vm_compute. reflexivity.
  - vm_compute. reflexivity.
Defined.
