(* ===== verification/LocationEnums.v ===== *)
(** The enumerations that the client API and its protobuf messages are made of,
    with the values of their constants: LocationDataTypes.h and LocationApiMsg.h,
    and LocationApiDataTypes.proto and LocationApiMsg.proto. *)

From Stdlib Require Import ZArith List.
Import ListNotations.

Local Open Scope Z_scope.

(** * LocationApiDataTypes.proto *)

Inductive PBGnssSuplMode : Type := PB_GNSS_SUPL_MODE_STANDALONE | PB_GNSS_SUPL_MODE_MSB
   | PB_GNSS_SUPL_MODE_MSA.
Definition PBGnssSuplMode_val (c : PBGnssSuplMode) : Z := match c with
    PB_GNSS_SUPL_MODE_STANDALONE => 0 | PB_GNSS_SUPL_MODE_MSB => 1 | PB_GNSS_SUPL_MODE_MSA => 2 end.
Coercion PBGnssSuplMode_val : PBGnssSuplMode >-> Z.
Definition PBGnssSuplMode_all : list PBGnssSuplMode := [PB_GNSS_SUPL_MODE_STANDALONE;
    PB_GNSS_SUPL_MODE_MSB; PB_GNSS_SUPL_MODE_MSA].

Inductive PBGnssSignalTypeMask : Type := PB_GNSS_SIGNAL_TYPE_MASK_INVALID
   | PB_GNSS_SIGNAL_GPS_L1CA_BIT | PB_GNSS_SIGNAL_GPS_L1C_BIT | PB_GNSS_SIGNAL_GPS_L2_BIT
   | PB_GNSS_SIGNAL_GPS_L5_BIT | PB_GNSS_SIGNAL_GLONASS_G1_BIT | PB_GNSS_SIGNAL_GLONASS_G2_BIT
   | PB_GNSS_SIGNAL_GALILEO_E1_BIT | PB_GNSS_SIGNAL_GALILEO_E5A_BIT
   | PB_GNSS_SIGNAL_GALILEO_E5B_BIT | PB_GNSS_SIGNAL_BEIDOU_B1_BIT | PB_GNSS_SIGNAL_BEIDOU_B2_BIT
   | PB_GNSS_SIGNAL_QZSS_L1CA_BIT | PB_GNSS_SIGNAL_QZSS_L1S_BIT | PB_GNSS_SIGNAL_QZSS_L2_BIT
   | PB_GNSS_SIGNAL_QZSS_L5_BIT | PB_GNSS_SIGNAL_SBAS_L1_BIT | PB_GNSS_SIGNAL_BEIDOU_B1I_BIT
   | PB_GNSS_SIGNAL_BEIDOU_B1C_BIT | PB_GNSS_SIGNAL_BEIDOU_B2I_BIT
   | PB_GNSS_SIGNAL_BEIDOU_B2AI_BIT | PB_GNSS_SIGNAL_NAVIC_L5_BIT | PB_GNSS_SIGNAL_BEIDOU_B2AQ_BIT.
Definition PBGnssSignalTypeMask_val (c : PBGnssSignalTypeMask) : Z := match c with
    PB_GNSS_SIGNAL_TYPE_MASK_INVALID => 0 | PB_GNSS_SIGNAL_GPS_L1CA_BIT => 1
   | PB_GNSS_SIGNAL_GPS_L1C_BIT => 2 | PB_GNSS_SIGNAL_GPS_L2_BIT => 4
   | PB_GNSS_SIGNAL_GPS_L5_BIT => 8 | PB_GNSS_SIGNAL_GLONASS_G1_BIT => 16
   | PB_GNSS_SIGNAL_GLONASS_G2_BIT => 32 | PB_GNSS_SIGNAL_GALILEO_E1_BIT => 64
   | PB_GNSS_SIGNAL_GALILEO_E5A_BIT => 128 | PB_GNSS_SIGNAL_GALILEO_E5B_BIT => 256
   | PB_GNSS_SIGNAL_BEIDOU_B1_BIT => 512 | PB_GNSS_SIGNAL_BEIDOU_B2_BIT => 1024
   | PB_GNSS_SIGNAL_QZSS_L1CA_BIT => 2048 | PB_GNSS_SIGNAL_QZSS_L1S_BIT => 4096
   | PB_GNSS_SIGNAL_QZSS_L2_BIT => 8192 | PB_GNSS_SIGNAL_QZSS_L5_BIT => 16384
   | PB_GNSS_SIGNAL_SBAS_L1_BIT => 32768 | PB_GNSS_SIGNAL_BEIDOU_B1I_BIT => 65536
   | PB_GNSS_SIGNAL_BEIDOU_B1C_BIT => 131072 | PB_GNSS_SIGNAL_BEIDOU_B2I_BIT => 262144
   | PB_GNSS_SIGNAL_BEIDOU_B2AI_BIT => 524288 | PB_GNSS_SIGNAL_NAVIC_L5_BIT => 1048576
   | PB_GNSS_SIGNAL_BEIDOU_B2AQ_BIT => 2097152 end.
Coercion PBGnssSignalTypeMask_val : PBGnssSignalTypeMask >-> Z.
Definition PBGnssSignalTypeMask_all : list PBGnssSignalTypeMask := [
    PB_GNSS_SIGNAL_TYPE_MASK_INVALID; PB_GNSS_SIGNAL_GPS_L1CA_BIT; PB_GNSS_SIGNAL_GPS_L1C_BIT;
    PB_GNSS_SIGNAL_GPS_L2_BIT; PB_GNSS_SIGNAL_GPS_L5_BIT; PB_GNSS_SIGNAL_GLONASS_G1_BIT;
    PB_GNSS_SIGNAL_GLONASS_G2_BIT; PB_GNSS_SIGNAL_GALILEO_E1_BIT; PB_GNSS_SIGNAL_GALILEO_E5A_BIT;
    PB_GNSS_SIGNAL_GALILEO_E5B_BIT; PB_GNSS_SIGNAL_BEIDOU_B1_BIT; PB_GNSS_SIGNAL_BEIDOU_B2_BIT;
    PB_GNSS_SIGNAL_QZSS_L1CA_BIT; PB_GNSS_SIGNAL_QZSS_L1S_BIT; PB_GNSS_SIGNAL_QZSS_L2_BIT;
    PB_GNSS_SIGNAL_QZSS_L5_BIT; PB_GNSS_SIGNAL_SBAS_L1_BIT; PB_GNSS_SIGNAL_BEIDOU_B1I_BIT;
    PB_GNSS_SIGNAL_BEIDOU_B1C_BIT; PB_GNSS_SIGNAL_BEIDOU_B2I_BIT; PB_GNSS_SIGNAL_BEIDOU_B2AI_BIT;
    PB_GNSS_SIGNAL_NAVIC_L5_BIT; PB_GNSS_SIGNAL_BEIDOU_B2AQ_BIT].

Inductive PBLocApiGnss_LocSvSystemEnumType : Type := PB_GNSS_LOC_SV_SYSTEM_INVALID
   | PB_GNSS_LOC_SV_SYSTEM_GPS | PB_GNSS_LOC_SV_SYSTEM_GALILEO | PB_GNSS_LOC_SV_SYSTEM_SBAS
   | PB_GNSS_LOC_SV_SYSTEM_GLONASS | PB_GNSS_LOC_SV_SYSTEM_BDS | PB_GNSS_LOC_SV_SYSTEM_QZSS
   | PB_GNSS_LOC_SV_SYSTEM_NAVIC.
Definition PBLocApiGnss_LocSvSystemEnumType_val (c : PBLocApiGnss_LocSvSystemEnumType) : Z := match c with
    PB_GNSS_LOC_SV_SYSTEM_INVALID => 0 | PB_GNSS_LOC_SV_SYSTEM_GPS => 1
   | PB_GNSS_LOC_SV_SYSTEM_GALILEO => 2 | PB_GNSS_LOC_SV_SYSTEM_SBAS => 3
   | PB_GNSS_LOC_SV_SYSTEM_GLONASS => 4 | PB_GNSS_LOC_SV_SYSTEM_BDS => 5
   | PB_GNSS_LOC_SV_SYSTEM_QZSS => 6 | PB_GNSS_LOC_SV_SYSTEM_NAVIC => 7 end.
Coercion PBLocApiGnss_LocSvSystemEnumType_val : PBLocApiGnss_LocSvSystemEnumType >-> Z.
Definition PBLocApiGnss_LocSvSystemEnumType_all : list PBLocApiGnss_LocSvSystemEnumType := [
    PB_GNSS_LOC_SV_SYSTEM_INVALID; PB_GNSS_LOC_SV_SYSTEM_GPS; PB_GNSS_LOC_SV_SYSTEM_GALILEO;
    PB_GNSS_LOC_SV_SYSTEM_SBAS; PB_GNSS_LOC_SV_SYSTEM_GLONASS; PB_GNSS_LOC_SV_SYSTEM_BDS;
    PB_GNSS_LOC_SV_SYSTEM_QZSS; PB_GNSS_LOC_SV_SYSTEM_NAVIC].

Inductive PBLocApiOutputEngineType : Type := PB_LOC_OUTPUT_ENGINE_FUSED | PB_LOC_OUTPUT_ENGINE_SPE
   | PB_LOC_OUTPUT_ENGINE_PPE | PB_LOC_OUTPUT_ENGINE_COUNT.
Definition PBLocApiOutputEngineType_val (c : PBLocApiOutputEngineType) : Z := match c with
    PB_LOC_OUTPUT_ENGINE_FUSED => 0 | PB_LOC_OUTPUT_ENGINE_SPE => 1
   | PB_LOC_OUTPUT_ENGINE_PPE => 2 | PB_LOC_OUTPUT_ENGINE_COUNT => 3 end.
Coercion PBLocApiOutputEngineType_val : PBLocApiOutputEngineType >-> Z.
Definition PBLocApiOutputEngineType_all : list PBLocApiOutputEngineType := [
    PB_LOC_OUTPUT_ENGINE_FUSED; PB_LOC_OUTPUT_ENGINE_SPE; PB_LOC_OUTPUT_ENGINE_PPE;
    PB_LOC_OUTPUT_ENGINE_COUNT].

Inductive PBLocationReliability : Type := PB_LOCATION_RELIABILITY_NOT_SET
   | PB_LOCATION_RELIABILITY_VERY_LOW | PB_LOCATION_RELIABILITY_LOW
   | PB_LOCATION_RELIABILITY_MEDIUM | PB_LOCATION_RELIABILITY_HIGH.
Definition PBLocationReliability_val (c : PBLocationReliability) : Z := match c with
    PB_LOCATION_RELIABILITY_NOT_SET => 0 | PB_LOCATION_RELIABILITY_VERY_LOW => 1
   | PB_LOCATION_RELIABILITY_LOW => 2 | PB_LOCATION_RELIABILITY_MEDIUM => 3
   | PB_LOCATION_RELIABILITY_HIGH => 4 end.
Coercion PBLocationReliability_val : PBLocationReliability >-> Z.
Definition PBLocationReliability_all : list PBLocationReliability := [
    PB_LOCATION_RELIABILITY_NOT_SET; PB_LOCATION_RELIABILITY_VERY_LOW;
    PB_LOCATION_RELIABILITY_LOW; PB_LOCATION_RELIABILITY_MEDIUM; PB_LOCATION_RELIABILITY_HIGH].

Inductive PBGnssLocationInfoFlagMask : Type := PB_GNSS_LOCATION_INFO_INVALID
   | PB_GNSS_LOCATION_INFO_ALTITUDE_MEAN_SEA_LEVEL_BIT | PB_GNSS_LOCATION_INFO_DOP_BIT
   | PB_GNSS_LOCATION_INFO_EXT_DOP_BIT | PB_GNSS_LOCATION_INFO_MAGNETIC_DEVIATION_BIT
   | PB_GNSS_LOCATION_INFO_HOR_RELIABILITY_BIT | PB_GNSS_LOCATION_INFO_VER_RELIABILITY_BIT
   | PB_GNSS_LOCATION_INFO_HOR_ACCURACY_ELIP_SEMI_MAJOR_BIT
   | PB_GNSS_LOCATION_INFO_HOR_ACCURACY_ELIP_SEMI_MINOR_BIT
   | PB_GNSS_LOCATION_INFO_HOR_ACCURACY_ELIP_AZIMUTH_BIT
   | PB_GNSS_LOCATION_INFO_GNSS_SV_USED_DATA_BIT | PB_GNSS_LOCATION_INFO_NAV_SOLUTION_MASK_BIT
   | PB_GNSS_LOCATION_INFO_POS_DYNAMICS_DATA_BIT | PB_GNSS_LOCATION_INFO_NORTH_STD_DEV_BIT
   | PB_GNSS_LOCATION_INFO_EAST_STD_DEV_BIT | PB_GNSS_LOCATION_INFO_NORTH_VEL_BIT
   | PB_GNSS_LOCATION_INFO_EAST_VEL_BIT | PB_GNSS_LOCATION_INFO_UP_VEL_BIT
   | PB_GNSS_LOCATION_INFO_NORTH_VEL_UNC_BIT | PB_GNSS_LOCATION_INFO_EAST_VEL_UNC_BIT
   | PB_GNSS_LOCATION_INFO_UP_VEL_UNC_BIT | PB_GNSS_LOCATION_INFO_LEAP_SECONDS_BIT
   | PB_GNSS_LOCATION_INFO_TIME_UNC_BIT | PB_GNSS_LOCATION_INFO_NUM_SV_USED_IN_POSITION_BIT
   | PB_GNSS_LOCATION_INFO_CALIBRATION_CONFIDENCE_PERCENT_BIT
   | PB_GNSS_LOCATION_INFO_CALIBRATION_STATUS_BIT | PB_GNSS_LOCATION_INFO_OUTPUT_ENG_TYPE_BIT
   | PB_GNSS_LOCATION_INFO_OUTPUT_ENG_MASK_BIT | PB_GNSS_LOCATION_INFO_CONFORMITY_INDEX_BIT
   | PB_GNSS_LOCATION_INFO_LLA_VRP_BASED_BIT | PB_GNSS_LOCATION_INFO_ENU_VELOCITY_VRP_BASED_BIT
   | PB_GNSS_LOCATION_INFO_DR_SOLUTION_STATUS_MASK_BIT.
Definition PBGnssLocationInfoFlagMask_val (c : PBGnssLocationInfoFlagMask) : Z := match c with
    PB_GNSS_LOCATION_INFO_INVALID => 0 | PB_GNSS_LOCATION_INFO_ALTITUDE_MEAN_SEA_LEVEL_BIT => 1
   | PB_GNSS_LOCATION_INFO_DOP_BIT => 2 | PB_GNSS_LOCATION_INFO_EXT_DOP_BIT => 4
   | PB_GNSS_LOCATION_INFO_MAGNETIC_DEVIATION_BIT => 8
   | PB_GNSS_LOCATION_INFO_HOR_RELIABILITY_BIT => 16
   | PB_GNSS_LOCATION_INFO_VER_RELIABILITY_BIT => 32
   | PB_GNSS_LOCATION_INFO_HOR_ACCURACY_ELIP_SEMI_MAJOR_BIT => 64
   | PB_GNSS_LOCATION_INFO_HOR_ACCURACY_ELIP_SEMI_MINOR_BIT => 128
   | PB_GNSS_LOCATION_INFO_HOR_ACCURACY_ELIP_AZIMUTH_BIT => 256
   | PB_GNSS_LOCATION_INFO_GNSS_SV_USED_DATA_BIT => 512
   | PB_GNSS_LOCATION_INFO_NAV_SOLUTION_MASK_BIT => 1024
   | PB_GNSS_LOCATION_INFO_POS_DYNAMICS_DATA_BIT => 2048
   | PB_GNSS_LOCATION_INFO_NORTH_STD_DEV_BIT => 4096
   | PB_GNSS_LOCATION_INFO_EAST_STD_DEV_BIT => 8192 | PB_GNSS_LOCATION_INFO_NORTH_VEL_BIT => 16384
   | PB_GNSS_LOCATION_INFO_EAST_VEL_BIT => 32768 | PB_GNSS_LOCATION_INFO_UP_VEL_BIT => 65536
   | PB_GNSS_LOCATION_INFO_NORTH_VEL_UNC_BIT => 131072
   | PB_GNSS_LOCATION_INFO_EAST_VEL_UNC_BIT => 262144
   | PB_GNSS_LOCATION_INFO_UP_VEL_UNC_BIT => 524288
   | PB_GNSS_LOCATION_INFO_LEAP_SECONDS_BIT => 1048576
   | PB_GNSS_LOCATION_INFO_TIME_UNC_BIT => 2097152
   | PB_GNSS_LOCATION_INFO_NUM_SV_USED_IN_POSITION_BIT => 4194304
   | PB_GNSS_LOCATION_INFO_CALIBRATION_CONFIDENCE_PERCENT_BIT => 8388608
   | PB_GNSS_LOCATION_INFO_CALIBRATION_STATUS_BIT => 16777216
   | PB_GNSS_LOCATION_INFO_OUTPUT_ENG_TYPE_BIT => 33554432
   | PB_GNSS_LOCATION_INFO_OUTPUT_ENG_MASK_BIT => 67108864
   | PB_GNSS_LOCATION_INFO_CONFORMITY_INDEX_BIT => 134217728
   | PB_GNSS_LOCATION_INFO_LLA_VRP_BASED_BIT => 268435456
   | PB_GNSS_LOCATION_INFO_ENU_VELOCITY_VRP_BASED_BIT => 536870912
   | PB_GNSS_LOCATION_INFO_DR_SOLUTION_STATUS_MASK_BIT => 1073741824 end.
Coercion PBGnssLocationInfoFlagMask_val : PBGnssLocationInfoFlagMask >-> Z.
Definition PBGnssLocationInfoFlagMask_all : list PBGnssLocationInfoFlagMask := [
    PB_GNSS_LOCATION_INFO_INVALID; PB_GNSS_LOCATION_INFO_ALTITUDE_MEAN_SEA_LEVEL_BIT;
    PB_GNSS_LOCATION_INFO_DOP_BIT; PB_GNSS_LOCATION_INFO_EXT_DOP_BIT;
    PB_GNSS_LOCATION_INFO_MAGNETIC_DEVIATION_BIT; PB_GNSS_LOCATION_INFO_HOR_RELIABILITY_BIT;
    PB_GNSS_LOCATION_INFO_VER_RELIABILITY_BIT;
    PB_GNSS_LOCATION_INFO_HOR_ACCURACY_ELIP_SEMI_MAJOR_BIT;
    PB_GNSS_LOCATION_INFO_HOR_ACCURACY_ELIP_SEMI_MINOR_BIT;
    PB_GNSS_LOCATION_INFO_HOR_ACCURACY_ELIP_AZIMUTH_BIT;
    PB_GNSS_LOCATION_INFO_GNSS_SV_USED_DATA_BIT; PB_GNSS_LOCATION_INFO_NAV_SOLUTION_MASK_BIT;
    PB_GNSS_LOCATION_INFO_POS_DYNAMICS_DATA_BIT; PB_GNSS_LOCATION_INFO_NORTH_STD_DEV_BIT;
    PB_GNSS_LOCATION_INFO_EAST_STD_DEV_BIT; PB_GNSS_LOCATION_INFO_NORTH_VEL_BIT;
    PB_GNSS_LOCATION_INFO_EAST_VEL_BIT; PB_GNSS_LOCATION_INFO_UP_VEL_BIT;
    PB_GNSS_LOCATION_INFO_NORTH_VEL_UNC_BIT; PB_GNSS_LOCATION_INFO_EAST_VEL_UNC_BIT;
    PB_GNSS_LOCATION_INFO_UP_VEL_UNC_BIT; PB_GNSS_LOCATION_INFO_LEAP_SECONDS_BIT;
    PB_GNSS_LOCATION_INFO_TIME_UNC_BIT; PB_GNSS_LOCATION_INFO_NUM_SV_USED_IN_POSITION_BIT;
    PB_GNSS_LOCATION_INFO_CALIBRATION_CONFIDENCE_PERCENT_BIT;
    PB_GNSS_LOCATION_INFO_CALIBRATION_STATUS_BIT; PB_GNSS_LOCATION_INFO_OUTPUT_ENG_TYPE_BIT;
    PB_GNSS_LOCATION_INFO_OUTPUT_ENG_MASK_BIT; PB_GNSS_LOCATION_INFO_CONFORMITY_INDEX_BIT;
    PB_GNSS_LOCATION_INFO_LLA_VRP_BASED_BIT; PB_GNSS_LOCATION_INFO_ENU_VELOCITY_VRP_BASED_BIT;
    PB_GNSS_LOCATION_INFO_DR_SOLUTION_STATUS_MASK_BIT].

Inductive PBGnssLocationInfoExtFlagMask : Type := PB_GNSS_LOCATION_INFO_EXT_INVALID
   | PB_GNSS_LOCATION_INFO_ALTITUDE_ASSUMED_BIT | PB_GNSS_LOCATION_INFO_SESSION_STATUS_BIT.
Definition PBGnssLocationInfoExtFlagMask_val (c : PBGnssLocationInfoExtFlagMask) : Z := match c with
    PB_GNSS_LOCATION_INFO_EXT_INVALID => 0 | PB_GNSS_LOCATION_INFO_ALTITUDE_ASSUMED_BIT => 1
   | PB_GNSS_LOCATION_INFO_SESSION_STATUS_BIT => 2 end.
Coercion PBGnssLocationInfoExtFlagMask_val : PBGnssLocationInfoExtFlagMask >-> Z.
Definition PBGnssLocationInfoExtFlagMask_all : list PBGnssLocationInfoExtFlagMask := [
    PB_GNSS_LOCATION_INFO_EXT_INVALID; PB_GNSS_LOCATION_INFO_ALTITUDE_ASSUMED_BIT;
    PB_GNSS_LOCATION_INFO_SESSION_STATUS_BIT].

Inductive PBGnssLocationNavSolutionMask : Type := PB_LOCATION_NAV_SOLUTION_MASK_INVALID
   | PB_LOCATION_SBAS_CORRECTION_IONO_BIT | PB_LOCATION_SBAS_CORRECTION_FAST_BIT
   | PB_LOCATION_SBAS_CORRECTION_LONG_BIT | PB_LOCATION_SBAS_INTEGRITY_BIT
   | PB_LOCATION_NAV_CORRECTION_DGNSS_BIT | PB_LOCATION_NAV_CORRECTION_RTK_BIT
   | PB_LOCATION_NAV_CORRECTION_PPP_BIT | PB_LOCATION_NAV_CORRECTION_RTK_FIXED_BIT
   | PB_LOCATION_NAV_CORRECTION_ONLY_SBAS_CORRECTED_SV_USED_BIT.
Definition PBGnssLocationNavSolutionMask_val (c : PBGnssLocationNavSolutionMask) : Z := match c with
    PB_LOCATION_NAV_SOLUTION_MASK_INVALID => 0 | PB_LOCATION_SBAS_CORRECTION_IONO_BIT => 1
   | PB_LOCATION_SBAS_CORRECTION_FAST_BIT => 2 | PB_LOCATION_SBAS_CORRECTION_LONG_BIT => 4
   | PB_LOCATION_SBAS_INTEGRITY_BIT => 8 | PB_LOCATION_NAV_CORRECTION_DGNSS_BIT => 16
   | PB_LOCATION_NAV_CORRECTION_RTK_BIT => 32 | PB_LOCATION_NAV_CORRECTION_PPP_BIT => 64
   | PB_LOCATION_NAV_CORRECTION_RTK_FIXED_BIT => 128
   | PB_LOCATION_NAV_CORRECTION_ONLY_SBAS_CORRECTED_SV_USED_BIT => 256 end.
Coercion PBGnssLocationNavSolutionMask_val : PBGnssLocationNavSolutionMask >-> Z.
Definition PBGnssLocationNavSolutionMask_all : list PBGnssLocationNavSolutionMask := [
    PB_LOCATION_NAV_SOLUTION_MASK_INVALID; PB_LOCATION_SBAS_CORRECTION_IONO_BIT;
    PB_LOCATION_SBAS_CORRECTION_FAST_BIT; PB_LOCATION_SBAS_CORRECTION_LONG_BIT;
    PB_LOCATION_SBAS_INTEGRITY_BIT; PB_LOCATION_NAV_CORRECTION_DGNSS_BIT;
    PB_LOCATION_NAV_CORRECTION_RTK_BIT; PB_LOCATION_NAV_CORRECTION_PPP_BIT;
    PB_LOCATION_NAV_CORRECTION_RTK_FIXED_BIT;
    PB_LOCATION_NAV_CORRECTION_ONLY_SBAS_CORRECTED_SV_USED_BIT].

Inductive PBGnssSvTypesMask : Type := PB_GNSS_SV_TYPES_MASK_INVALID
   | PB_GNSS_SV_TYPES_MASK_GLO_BIT | PB_GNSS_SV_TYPES_MASK_BDS_BIT
   | PB_GNSS_SV_TYPES_MASK_QZSS_BIT | PB_GNSS_SV_TYPES_MASK_GAL_BIT
   | PB_GNSS_SV_TYPES_MASK_NAVIC_BIT | PB_GNSS_SV_TYPES_MASK_GPS_BIT.
Definition PBGnssSvTypesMask_val (c : PBGnssSvTypesMask) : Z := match c with
    PB_GNSS_SV_TYPES_MASK_INVALID => 0 | PB_GNSS_SV_TYPES_MASK_GLO_BIT => 1
   | PB_GNSS_SV_TYPES_MASK_BDS_BIT => 2 | PB_GNSS_SV_TYPES_MASK_QZSS_BIT => 4
   | PB_GNSS_SV_TYPES_MASK_GAL_BIT => 8 | PB_GNSS_SV_TYPES_MASK_NAVIC_BIT => 16
   | PB_GNSS_SV_TYPES_MASK_GPS_BIT => 32 end.
Coercion PBGnssSvTypesMask_val : PBGnssSvTypesMask >-> Z.
Definition PBGnssSvTypesMask_all : list PBGnssSvTypesMask := [PB_GNSS_SV_TYPES_MASK_INVALID;
    PB_GNSS_SV_TYPES_MASK_GLO_BIT; PB_GNSS_SV_TYPES_MASK_BDS_BIT; PB_GNSS_SV_TYPES_MASK_QZSS_BIT;
    PB_GNSS_SV_TYPES_MASK_GAL_BIT; PB_GNSS_SV_TYPES_MASK_NAVIC_BIT; PB_GNSS_SV_TYPES_MASK_GPS_BIT].

Inductive PBLocApiGnssSvOptionsMask : Type := PB_GNSS_SV_OPTIONS_INVALID
   | PB_GNSS_SV_OPTIONS_HAS_EPHEMER_BIT | PB_GNSS_SV_OPTIONS_HAS_ALMANAC_BIT
   | PB_GNSS_SV_OPTIONS_USED_IN_FIX_BIT | PB_GNSS_SV_OPTIONS_HAS_CARRIER_FREQUENCY_BIT
   | PB_GNSS_SV_OPTIONS_HAS_GNSS_SIGNAL_TYPE_BIT.
Definition PBLocApiGnssSvOptionsMask_val (c : PBLocApiGnssSvOptionsMask) : Z := match c with
    PB_GNSS_SV_OPTIONS_INVALID => 0 | PB_GNSS_SV_OPTIONS_HAS_EPHEMER_BIT => 1
   | PB_GNSS_SV_OPTIONS_HAS_ALMANAC_BIT => 2 | PB_GNSS_SV_OPTIONS_USED_IN_FIX_BIT => 4
   | PB_GNSS_SV_OPTIONS_HAS_CARRIER_FREQUENCY_BIT => 8
   | PB_GNSS_SV_OPTIONS_HAS_GNSS_SIGNAL_TYPE_BIT => 16 end.
Coercion PBLocApiGnssSvOptionsMask_val : PBLocApiGnssSvOptionsMask >-> Z.
Definition PBLocApiGnssSvOptionsMask_all : list PBLocApiGnssSvOptionsMask := [
    PB_GNSS_SV_OPTIONS_INVALID; PB_GNSS_SV_OPTIONS_HAS_EPHEMER_BIT;
    PB_GNSS_SV_OPTIONS_HAS_ALMANAC_BIT; PB_GNSS_SV_OPTIONS_USED_IN_FIX_BIT;
    PB_GNSS_SV_OPTIONS_HAS_CARRIER_FREQUENCY_BIT; PB_GNSS_SV_OPTIONS_HAS_GNSS_SIGNAL_TYPE_BIT].

Inductive PBGnssGloTimeStructTypeFlags : Type := PB_GNSS_CLO_TIME_UNKNOWN
   | PB_GNSS_GLO_FOUR_YEAR_VALID | PB_GNSS_CLO_DAYS_VALID | PB_GNSS_GLO_MSEC_VALID
   | PB_GNSS_GLO_CLK_TIME_BIAS_VALID | PB_GNSS_GLO_CLK_TIME_BIAS_UNC_VALID
   | PB_GNSS_GLO_REF_FCOUNT_VALID | PB_GNSS_GLO_NUM_CLOCK_RESETS_VALID.
Definition PBGnssGloTimeStructTypeFlags_val (c : PBGnssGloTimeStructTypeFlags) : Z := match c with
    PB_GNSS_CLO_TIME_UNKNOWN => 0 | PB_GNSS_GLO_FOUR_YEAR_VALID => 1 | PB_GNSS_CLO_DAYS_VALID => 2
   | PB_GNSS_GLO_MSEC_VALID => 4 | PB_GNSS_GLO_CLK_TIME_BIAS_VALID => 8
   | PB_GNSS_GLO_CLK_TIME_BIAS_UNC_VALID => 16 | PB_GNSS_GLO_REF_FCOUNT_VALID => 32
   | PB_GNSS_GLO_NUM_CLOCK_RESETS_VALID => 64 end.
Coercion PBGnssGloTimeStructTypeFlags_val : PBGnssGloTimeStructTypeFlags >-> Z.
Definition PBGnssGloTimeStructTypeFlags_all : list PBGnssGloTimeStructTypeFlags := [
    PB_GNSS_CLO_TIME_UNKNOWN; PB_GNSS_GLO_FOUR_YEAR_VALID; PB_GNSS_CLO_DAYS_VALID;
    PB_GNSS_GLO_MSEC_VALID; PB_GNSS_GLO_CLK_TIME_BIAS_VALID; PB_GNSS_GLO_CLK_TIME_BIAS_UNC_VALID;
    PB_GNSS_GLO_REF_FCOUNT_VALID; PB_GNSS_GLO_NUM_CLOCK_RESETS_VALID].

Inductive PBGnssMeasurementsClockFlagsMask : Type := PB_GNSS_MEASUREMENTS_CLOCK_FLAGS_INVALID
   | PB_GNSS_MEASUREMENTS_CLOCK_FLAGS_LEAP_SECOND_BIT | PB_GNSS_MEASUREMENTS_CLOCK_FLAGS_TIME_BIT
   | PB_GNSS_MEASUREMENTS_CLOCK_FLAGS_TIME_UNCERTAINTY_BIT
   | PB_GNSS_MEASUREMENTS_CLOCK_FLAGS_FULL_BIAS_BIT | PB_GNSS_MEASUREMENTS_CLOCK_FLAGS_BIAS_BIT
   | PB_GNSS_MEASUREMENTS_CLOCK_FLAGS_BIAS_UNCERTAINTY_BIT
   | PB_GNSS_MEASUREMENTS_CLOCK_FLAGS_DRIFT_BIT
   | PB_GNSS_MEASUREMENTS_CLOCK_FLAGS_DRIFT_UNCERTAINTY_BIT
   | PB_GNSS_MEASUREMENTS_CLOCK_FLAGS_HW_CLOCK_DISCONTINUITY_COUNT_BIT.
Definition PBGnssMeasurementsClockFlagsMask_val (c : PBGnssMeasurementsClockFlagsMask) : Z := match c with
    PB_GNSS_MEASUREMENTS_CLOCK_FLAGS_INVALID => 0
   | PB_GNSS_MEASUREMENTS_CLOCK_FLAGS_LEAP_SECOND_BIT => 1
   | PB_GNSS_MEASUREMENTS_CLOCK_FLAGS_TIME_BIT => 2
   | PB_GNSS_MEASUREMENTS_CLOCK_FLAGS_TIME_UNCERTAINTY_BIT => 4
   | PB_GNSS_MEASUREMENTS_CLOCK_FLAGS_FULL_BIAS_BIT => 8
   | PB_GNSS_MEASUREMENTS_CLOCK_FLAGS_BIAS_BIT => 16
   | PB_GNSS_MEASUREMENTS_CLOCK_FLAGS_BIAS_UNCERTAINTY_BIT => 32
   | PB_GNSS_MEASUREMENTS_CLOCK_FLAGS_DRIFT_BIT => 64
   | PB_GNSS_MEASUREMENTS_CLOCK_FLAGS_DRIFT_UNCERTAINTY_BIT => 128
   | PB_GNSS_MEASUREMENTS_CLOCK_FLAGS_HW_CLOCK_DISCONTINUITY_COUNT_BIT => 256 end.
Coercion PBGnssMeasurementsClockFlagsMask_val : PBGnssMeasurementsClockFlagsMask >-> Z.
Definition PBGnssMeasurementsClockFlagsMask_all : list PBGnssMeasurementsClockFlagsMask := [
    PB_GNSS_MEASUREMENTS_CLOCK_FLAGS_INVALID; PB_GNSS_MEASUREMENTS_CLOCK_FLAGS_LEAP_SECOND_BIT;
    PB_GNSS_MEASUREMENTS_CLOCK_FLAGS_TIME_BIT;
    PB_GNSS_MEASUREMENTS_CLOCK_FLAGS_TIME_UNCERTAINTY_BIT;
    PB_GNSS_MEASUREMENTS_CLOCK_FLAGS_FULL_BIAS_BIT; PB_GNSS_MEASUREMENTS_CLOCK_FLAGS_BIAS_BIT;
    PB_GNSS_MEASUREMENTS_CLOCK_FLAGS_BIAS_UNCERTAINTY_BIT;
    PB_GNSS_MEASUREMENTS_CLOCK_FLAGS_DRIFT_BIT;
    PB_GNSS_MEASUREMENTS_CLOCK_FLAGS_DRIFT_UNCERTAINTY_BIT;
    PB_GNSS_MEASUREMENTS_CLOCK_FLAGS_HW_CLOCK_DISCONTINUITY_COUNT_BIT].

Inductive PBLocApiGnssSystemTimeStructTypeFlags : Type := PB_GNSS_SYSTEM_TIME_FLAG_INVALID
   | PB_GNSS_SYSTEM_TIME_WEEK_VALID | PB_GNSS_SYSTEM_TIME_WEEK_MS_VALID
   | PB_GNSS_SYSTEM_CLK_TIME_BIAS_VALID | PB_GNSS_SYSTEM_CLK_TIME_BIAS_UNC_VALID
   | PB_GNSS_SYSTEM_REF_FCOUNT_VALID | PB_GNSS_SYSTEM_NUM_CLOCK_RESETS_VALID.
Definition PBLocApiGnssSystemTimeStructTypeFlags_val (c : PBLocApiGnssSystemTimeStructTypeFlags) : Z := match c with
    PB_GNSS_SYSTEM_TIME_FLAG_INVALID => 0 | PB_GNSS_SYSTEM_TIME_WEEK_VALID => 1
   | PB_GNSS_SYSTEM_TIME_WEEK_MS_VALID => 2 | PB_GNSS_SYSTEM_CLK_TIME_BIAS_VALID => 4
   | PB_GNSS_SYSTEM_CLK_TIME_BIAS_UNC_VALID => 8 | PB_GNSS_SYSTEM_REF_FCOUNT_VALID => 16
   | PB_GNSS_SYSTEM_NUM_CLOCK_RESETS_VALID => 32 end.
Coercion PBLocApiGnssSystemTimeStructTypeFlags_val : PBLocApiGnssSystemTimeStructTypeFlags >-> Z.
Definition PBLocApiGnssSystemTimeStructTypeFlags_all : list PBLocApiGnssSystemTimeStructTypeFlags := [
    PB_GNSS_SYSTEM_TIME_FLAG_INVALID; PB_GNSS_SYSTEM_TIME_WEEK_VALID;
    PB_GNSS_SYSTEM_TIME_WEEK_MS_VALID; PB_GNSS_SYSTEM_CLK_TIME_BIAS_VALID;
    PB_GNSS_SYSTEM_CLK_TIME_BIAS_UNC_VALID; PB_GNSS_SYSTEM_REF_FCOUNT_VALID;
    PB_GNSS_SYSTEM_NUM_CLOCK_RESETS_VALID].

Inductive PBGnssConfigRobustLocationValidMask : Type := PB_GNSS_CONFIG_ROBUST_LOCATION_INVALID
   | PB_GNSS_CONFIG_ROBUST_LOCATION_ENABLED_VALID_BIT
   | PB_GNSS_CONFIG_ROBUST_LOCATION_ENABLED_FOR_E911_VALID_BIT
   | PB_GNSS_CONFIG_ROBUST_LOCATION_VERSION_VALID_BIT.
Definition PBGnssConfigRobustLocationValidMask_val (c : PBGnssConfigRobustLocationValidMask) : Z := match c with
    PB_GNSS_CONFIG_ROBUST_LOCATION_INVALID => 0
   | PB_GNSS_CONFIG_ROBUST_LOCATION_ENABLED_VALID_BIT => 1
   | PB_GNSS_CONFIG_ROBUST_LOCATION_ENABLED_FOR_E911_VALID_BIT => 2
   | PB_GNSS_CONFIG_ROBUST_LOCATION_VERSION_VALID_BIT => 4 end.
Coercion PBGnssConfigRobustLocationValidMask_val : PBGnssConfigRobustLocationValidMask >-> Z.
Definition PBGnssConfigRobustLocationValidMask_all : list PBGnssConfigRobustLocationValidMask := [
    PB_GNSS_CONFIG_ROBUST_LOCATION_INVALID; PB_GNSS_CONFIG_ROBUST_LOCATION_ENABLED_VALID_BIT;
    PB_GNSS_CONFIG_ROBUST_LOCATION_ENABLED_FOR_E911_VALID_BIT;
    PB_GNSS_CONFIG_ROBUST_LOCATION_VERSION_VALID_BIT].

Inductive PBLocationSystemInfoMask : Type := PB_LOCATION_SYS_INFO_INVALID
   | PB_LOCATION_SYS_INFO_LEAP_SECOND.
Definition PBLocationSystemInfoMask_val (c : PBLocationSystemInfoMask) : Z := match c with
    PB_LOCATION_SYS_INFO_INVALID => 0 | PB_LOCATION_SYS_INFO_LEAP_SECOND => 1 end.
Coercion PBLocationSystemInfoMask_val : PBLocationSystemInfoMask >-> Z.
Definition PBLocationSystemInfoMask_all : list PBLocationSystemInfoMask := [
    PB_LOCATION_SYS_INFO_INVALID; PB_LOCATION_SYS_INFO_LEAP_SECOND].

Inductive PBLocApiDrCalibrationStatusMask : Type := PB_DR_CALIBRATION_INVALID
   | PB_DR_ROLL_CALIBRATION_NEEDED | PB_DR_PITCH_CALIBRATION_NEEDED | PB_DR_YAW_CALIBRATION_NEEDED
   | PB_DR_ODO_CALIBRATION_NEEDED | PB_DR_GYRO_CALIBRATION_NEEDED.
Definition PBLocApiDrCalibrationStatusMask_val (c : PBLocApiDrCalibrationStatusMask) : Z := match c with
    PB_DR_CALIBRATION_INVALID => 0 | PB_DR_ROLL_CALIBRATION_NEEDED => 1
   | PB_DR_PITCH_CALIBRATION_NEEDED => 2 | PB_DR_YAW_CALIBRATION_NEEDED => 4
   | PB_DR_ODO_CALIBRATION_NEEDED => 8 | PB_DR_GYRO_CALIBRATION_NEEDED => 16 end.
Coercion PBLocApiDrCalibrationStatusMask_val : PBLocApiDrCalibrationStatusMask >-> Z.
Definition PBLocApiDrCalibrationStatusMask_all : list PBLocApiDrCalibrationStatusMask := [
    PB_DR_CALIBRATION_INVALID; PB_DR_ROLL_CALIBRATION_NEEDED; PB_DR_PITCH_CALIBRATION_NEEDED;
    PB_DR_YAW_CALIBRATION_NEEDED; PB_DR_ODO_CALIBRATION_NEEDED; PB_DR_GYRO_CALIBRATION_NEEDED].

Inductive PBLeapSecondSysInfoMask : Type := PB_LEAP_SECOND_SYS_INFO_INVALID
   | PB_LEAP_SECOND_SYS_INFO_CURRENT_LEAP_SECONDS_BIT
   | PB_LEAP_SECOND_SYS_INFO_LEAP_SECOND_CHANGE_BIT.
Definition PBLeapSecondSysInfoMask_val (c : PBLeapSecondSysInfoMask) : Z := match c with
    PB_LEAP_SECOND_SYS_INFO_INVALID => 0 | PB_LEAP_SECOND_SYS_INFO_CURRENT_LEAP_SECONDS_BIT => 1
   | PB_LEAP_SECOND_SYS_INFO_LEAP_SECOND_CHANGE_BIT => 2 end.
Coercion PBLeapSecondSysInfoMask_val : PBLeapSecondSysInfoMask >-> Z.
Definition PBLeapSecondSysInfoMask_all : list PBLeapSecondSysInfoMask := [
    PB_LEAP_SECOND_SYS_INFO_INVALID; PB_LEAP_SECOND_SYS_INFO_CURRENT_LEAP_SECONDS_BIT;
    PB_LEAP_SECOND_SYS_INFO_LEAP_SECOND_CHANGE_BIT].

Inductive PBTerrestrialTechMask : Type := PB_TERRESTRIAL_TECH_INVALID
   | PB_TERRESTRIAL_TECH_GTP_WWAN.
Definition PBTerrestrialTechMask_val (c : PBTerrestrialTechMask) : Z := match c with
    PB_TERRESTRIAL_TECH_INVALID => 0 | PB_TERRESTRIAL_TECH_GTP_WWAN => 1 end.
Coercion PBTerrestrialTechMask_val : PBTerrestrialTechMask >-> Z.
Definition PBTerrestrialTechMask_all : list PBTerrestrialTechMask := [PB_TERRESTRIAL_TECH_INVALID;
    PB_TERRESTRIAL_TECH_GTP_WWAN].

Inductive PBLocApiGnssLocationPosDataMask : Type := PB_LOCATION_NAV_DATA_INVALID
   | PB_LOCATION_NAV_DATA_HAS_LONG_ACCEL_BIT | PB_LOCATION_NAV_DATA_HAS_LAT_ACCEL_BIT
   | PB_LOCATION_NAV_DATA_HAS_VERT_ACCEL_BIT | PB_LOCATION_NAV_DATA_HAS_YAW_RATE_BIT
   | PB_LOCATION_NAV_DATA_HAS_YAW_RATE_UNC_BIT | PB_LOCATION_NAV_DATA_HAS_YAW_BIT
   | PB_LOCATION_NAV_DATA_HAS_YAW_UNC_BIT | PB_LOCATION_NAV_DATA_HAS_PITCH_BIT
   | PB_LOCATION_NAV_DATA_HAS_PITCH_UNC_BIT | PB_LOCATION_NAV_DATA_HAS_PITCH_RATE_BIT
   | PB_LOCATION_NAV_DATA_HAS_PITCH_RATE_UNC_BIT | PB_LOCATION_NAV_DATA_HAS_LONG_ACCEL_UNC_BIT
   | PB_LOCATION_NAV_DATA_HAS_LAT_ACCEL_UNC_BIT | PB_LOCATION_NAV_DATA_HAS_VERT_ACCEL_UNC_BIT
   | PB_LOCATION_NAV_DATA_HAS_ROLL_BIT | PB_LOCATION_NAV_DATA_HAS_ROLL_UNC_BIT
   | PB_LOCATION_NAV_DATA_HAS_ROLL_RATE_BIT | PB_LOCATION_NAV_DATA_HAS_ROLL_RATE_UNC_BIT.
Definition PBLocApiGnssLocationPosDataMask_val (c : PBLocApiGnssLocationPosDataMask) : Z := match c with
    PB_LOCATION_NAV_DATA_INVALID => 0 | PB_LOCATION_NAV_DATA_HAS_LONG_ACCEL_BIT => 1
   | PB_LOCATION_NAV_DATA_HAS_LAT_ACCEL_BIT => 2 | PB_LOCATION_NAV_DATA_HAS_VERT_ACCEL_BIT => 4
   | PB_LOCATION_NAV_DATA_HAS_YAW_RATE_BIT => 8 | PB_LOCATION_NAV_DATA_HAS_YAW_RATE_UNC_BIT => 16
   | PB_LOCATION_NAV_DATA_HAS_YAW_BIT => 32 | PB_LOCATION_NAV_DATA_HAS_YAW_UNC_BIT => 64
   | PB_LOCATION_NAV_DATA_HAS_PITCH_BIT => 128 | PB_LOCATION_NAV_DATA_HAS_PITCH_UNC_BIT => 256
   | PB_LOCATION_NAV_DATA_HAS_PITCH_RATE_BIT => 512
   | PB_LOCATION_NAV_DATA_HAS_PITCH_RATE_UNC_BIT => 1024
   | PB_LOCATION_NAV_DATA_HAS_LONG_ACCEL_UNC_BIT => 2048
   | PB_LOCATION_NAV_DATA_HAS_LAT_ACCEL_UNC_BIT => 4096
   | PB_LOCATION_NAV_DATA_HAS_VERT_ACCEL_UNC_BIT => 8192
   | PB_LOCATION_NAV_DATA_HAS_ROLL_BIT => 16384 | PB_LOCATION_NAV_DATA_HAS_ROLL_UNC_BIT => 32768
   | PB_LOCATION_NAV_DATA_HAS_ROLL_RATE_BIT => 65536
   | PB_LOCATION_NAV_DATA_HAS_ROLL_RATE_UNC_BIT => 131072 end.
Coercion PBLocApiGnssLocationPosDataMask_val : PBLocApiGnssLocationPosDataMask >-> Z.
Definition PBLocApiGnssLocationPosDataMask_all : list PBLocApiGnssLocationPosDataMask := [
    PB_LOCATION_NAV_DATA_INVALID; PB_LOCATION_NAV_DATA_HAS_LONG_ACCEL_BIT;
    PB_LOCATION_NAV_DATA_HAS_LAT_ACCEL_BIT; PB_LOCATION_NAV_DATA_HAS_VERT_ACCEL_BIT;
    PB_LOCATION_NAV_DATA_HAS_YAW_RATE_BIT; PB_LOCATION_NAV_DATA_HAS_YAW_RATE_UNC_BIT;
    PB_LOCATION_NAV_DATA_HAS_YAW_BIT; PB_LOCATION_NAV_DATA_HAS_YAW_UNC_BIT;
    PB_LOCATION_NAV_DATA_HAS_PITCH_BIT; PB_LOCATION_NAV_DATA_HAS_PITCH_UNC_BIT;
    PB_LOCATION_NAV_DATA_HAS_PITCH_RATE_BIT; PB_LOCATION_NAV_DATA_HAS_PITCH_RATE_UNC_BIT;
    PB_LOCATION_NAV_DATA_HAS_LONG_ACCEL_UNC_BIT; PB_LOCATION_NAV_DATA_HAS_LAT_ACCEL_UNC_BIT;
    PB_LOCATION_NAV_DATA_HAS_VERT_ACCEL_UNC_BIT; PB_LOCATION_NAV_DATA_HAS_ROLL_BIT;
    PB_LOCATION_NAV_DATA_HAS_ROLL_UNC_BIT; PB_LOCATION_NAV_DATA_HAS_ROLL_RATE_BIT;
    PB_LOCATION_NAV_DATA_HAS_ROLL_RATE_UNC_BIT].

Inductive PBBatchingMode : Type := PB_BATCHING_MODE_ROUTINE | PB_BATCHING_MODE_TRIP
   | PB_BATCHING_MODE_NO_AUTO_REPORT.
Definition PBBatchingMode_val (c : PBBatchingMode) : Z := match c with
    PB_BATCHING_MODE_ROUTINE => 0 | PB_BATCHING_MODE_TRIP => 1
   | PB_BATCHING_MODE_NO_AUTO_REPORT => 2 end.
Coercion PBBatchingMode_val : PBBatchingMode >-> Z.
Definition PBBatchingMode_all : list PBBatchingMode := [PB_BATCHING_MODE_ROUTINE;
    PB_BATCHING_MODE_TRIP; PB_BATCHING_MODE_NO_AUTO_REPORT].

Inductive PBBatchingStatus : Type := PB_BATCHING_STATUS_TRIP_COMPLETED
   | PB_BATCHING_STATUS_POSITION_AVAILABE | PB_BATCHING_STATUS_POSITION_UNAVAILABLE.
Definition PBBatchingStatus_val (c : PBBatchingStatus) : Z := match c with
    PB_BATCHING_STATUS_TRIP_COMPLETED => 0 | PB_BATCHING_STATUS_POSITION_AVAILABE => 1
   | PB_BATCHING_STATUS_POSITION_UNAVAILABLE => 2 end.
Coercion PBBatchingStatus_val : PBBatchingStatus >-> Z.
Definition PBBatchingStatus_all : list PBBatchingStatus := [PB_BATCHING_STATUS_TRIP_COMPLETED;
    PB_BATCHING_STATUS_POSITION_AVAILABE; PB_BATCHING_STATUS_POSITION_UNAVAILABLE].

Inductive PBLocationError : Type := PB_LOCATION_ERROR_SUCCESS
   | PB_LOCATION_ERROR_INVALID_PARAMETER | PB_LOCATION_ERROR_NOT_SUPPORTED
   | PB_LOCATION_ERROR_GENERAL_FAILURE | PB_LOCATION_ERROR_TIMEOUT.
Definition PBLocationError_val (c : PBLocationError) : Z := match c with
    PB_LOCATION_ERROR_SUCCESS => 0 | PB_LOCATION_ERROR_INVALID_PARAMETER => 1
   | PB_LOCATION_ERROR_NOT_SUPPORTED => 2 | PB_LOCATION_ERROR_GENERAL_FAILURE => 3
   | PB_LOCATION_ERROR_TIMEOUT => 4 end.
Coercion PBLocationError_val : PBLocationError >-> Z.
Definition PBLocationError_all : list PBLocationError := [PB_LOCATION_ERROR_SUCCESS;
    PB_LOCATION_ERROR_INVALID_PARAMETER; PB_LOCATION_ERROR_NOT_SUPPORTED;
    PB_LOCATION_ERROR_GENERAL_FAILURE; PB_LOCATION_ERROR_TIMEOUT].

Inductive PBLocReqEngineTypeMask : Type := PB_LOC_REQ_ENGINE_INVALID | PB_LOC_REQ_ENGINE_FUSED_BIT
   | PB_LOC_REQ_ENGINE_SPE_BIT | PB_LOC_REQ_ENGINE_PPE_BIT.
Definition PBLocReqEngineTypeMask_val (c : PBLocReqEngineTypeMask) : Z := match c with
    PB_LOC_REQ_ENGINE_INVALID => 0 | PB_LOC_REQ_ENGINE_FUSED_BIT => 1
   | PB_LOC_REQ_ENGINE_SPE_BIT => 2 | PB_LOC_REQ_ENGINE_PPE_BIT => 4 end.
Coercion PBLocReqEngineTypeMask_val : PBLocReqEngineTypeMask >-> Z.
Definition PBLocReqEngineTypeMask_all : list PBLocReqEngineTypeMask := [PB_LOC_REQ_ENGINE_INVALID;
    PB_LOC_REQ_ENGINE_FUSED_BIT; PB_LOC_REQ_ENGINE_SPE_BIT; PB_LOC_REQ_ENGINE_PPE_BIT].

Inductive PBLocApiPositioningEngineMask : Type := PB_POS_ENG_MASK_INVALID
   | PB_STANDARD_POSITIONING_ENGINE | PB_DEAD_RECKONING_ENGINE | PB_PRECISE_POSITIONING_ENGINE.
Definition PBLocApiPositioningEngineMask_val (c : PBLocApiPositioningEngineMask) : Z := match c with
    PB_POS_ENG_MASK_INVALID => 0 | PB_STANDARD_POSITIONING_ENGINE => 1
   | PB_DEAD_RECKONING_ENGINE => 2 | PB_PRECISE_POSITIONING_ENGINE => 4 end.
Coercion PBLocApiPositioningEngineMask_val : PBLocApiPositioningEngineMask >-> Z.
Definition PBLocApiPositioningEngineMask_all : list PBLocApiPositioningEngineMask := [
    PB_POS_ENG_MASK_INVALID; PB_STANDARD_POSITIONING_ENGINE; PB_DEAD_RECKONING_ENGINE;
    PB_PRECISE_POSITIONING_ENGINE].

Inductive PBLocEngineRunState : Type := PB_LOC_ENGINE_RUN_STATE_INVALID
   | PB_LOC_ENGINE_RUN_STATE_PAUSE | PB_LOC_ENGINE_RUN_STATE_RESUME.
Definition PBLocEngineRunState_val (c : PBLocEngineRunState) : Z := match c with
    PB_LOC_ENGINE_RUN_STATE_INVALID => 0 | PB_LOC_ENGINE_RUN_STATE_PAUSE => 1
   | PB_LOC_ENGINE_RUN_STATE_RESUME => 2 end.
Coercion PBLocEngineRunState_val : PBLocEngineRunState >-> Z.
Definition PBLocEngineRunState_all : list PBLocEngineRunState := [PB_LOC_ENGINE_RUN_STATE_INVALID;
    PB_LOC_ENGINE_RUN_STATE_PAUSE; PB_LOC_ENGINE_RUN_STATE_RESUME].

Inductive PBDrEngineAidingDataMask : Type := PB_DR_ENGINE_AIDING_DATA_INVALID
   | PB_DR_ENGINE_AIDING_DATA_CALIBRATION_BIT.
Definition PBDrEngineAidingDataMask_val (c : PBDrEngineAidingDataMask) : Z := match c with
    PB_DR_ENGINE_AIDING_DATA_INVALID => 0 | PB_DR_ENGINE_AIDING_DATA_CALIBRATION_BIT => 1 end.
Coercion PBDrEngineAidingDataMask_val : PBDrEngineAidingDataMask >-> Z.
Definition PBDrEngineAidingDataMask_all : list PBDrEngineAidingDataMask := [
    PB_DR_ENGINE_AIDING_DATA_INVALID; PB_DR_ENGINE_AIDING_DATA_CALIBRATION_BIT].

Inductive PBGnssMeasurementsAdrStateMask : Type :=
    PB_GNSS_MEASUREMENTS_ACCUMULATED_DELTA_RANGE_STATE_UNKNOWN
   | PB_GNSS_MEASUREMENTS_ACCUMULATED_DELTA_RANGE_STATE_VALID_BIT
   | PB_GNSS_MEASUREMENTS_ACCUMULATED_DELTA_RANGE_STATE_RESET_BIT
   | PB_GNSS_MEASUREMENTS_ACCUMULATED_DELTA_RANGE_STATE_CYCLE_SLIP_BIT.
Definition PBGnssMeasurementsAdrStateMask_val (c : PBGnssMeasurementsAdrStateMask) : Z := match c with
    PB_GNSS_MEASUREMENTS_ACCUMULATED_DELTA_RANGE_STATE_UNKNOWN => 0
   | PB_GNSS_MEASUREMENTS_ACCUMULATED_DELTA_RANGE_STATE_VALID_BIT => 1
   | PB_GNSS_MEASUREMENTS_ACCUMULATED_DELTA_RANGE_STATE_RESET_BIT => 2
   | PB_GNSS_MEASUREMENTS_ACCUMULATED_DELTA_RANGE_STATE_CYCLE_SLIP_BIT => 4 end.
Coercion PBGnssMeasurementsAdrStateMask_val : PBGnssMeasurementsAdrStateMask >-> Z.
Definition PBGnssMeasurementsAdrStateMask_all : list PBGnssMeasurementsAdrStateMask := [
    PB_GNSS_MEASUREMENTS_ACCUMULATED_DELTA_RANGE_STATE_UNKNOWN;
    PB_GNSS_MEASUREMENTS_ACCUMULATED_DELTA_RANGE_STATE_VALID_BIT;
    PB_GNSS_MEASUREMENTS_ACCUMULATED_DELTA_RANGE_STATE_RESET_BIT;
    PB_GNSS_MEASUREMENTS_ACCUMULATED_DELTA_RANGE_STATE_CYCLE_SLIP_BIT].

Inductive PBGnssMeasurementsDataFlagsMask : Type := PB_GNSS_MEASUREMENTS_DATA_INVALID
   | PB_GNSS_MEASUREMENTS_DATA_SV_ID_BIT | PB_GNSS_MEASUREMENTS_DATA_SV_TYPE_BIT
   | PB_GNSS_MEASUREMENTS_DATA_STATE_BIT | PB_GNSS_MEASUREMENTS_DATA_RECEIVED_SV_TIME_BIT
   | PB_GNSS_MEASUREMENTS_DATA_RECEIVED_SV_TIME_UNCERTAINTY_BIT
   | PB_GNSS_MEASUREMENTS_DATA_CARRIER_TO_NOISE_BIT
   | PB_GNSS_MEASUREMENTS_DATA_PSEUDORANGE_RATE_BIT
   | PB_GNSS_MEASUREMENTS_DATA_PSEUDORANGE_RATE_UNCERTAINTY_BIT
   | PB_GNSS_MEASUREMENTS_DATA_ADR_STATE_BIT | PB_GNSS_MEASUREMENTS_DATA_ADR_BIT
   | PB_GNSS_MEASUREMENTS_DATA_ADR_UNCERTAINTY_BIT
   | PB_GNSS_MEASUREMENTS_DATA_CARRIER_FREQUENCY_BIT
   | PB_GNSS_MEASUREMENTS_DATA_CARRIER_CYCLES_BIT | PB_GNSS_MEASUREMENTS_DATA_CARRIER_PHASE_BIT
   | PB_GNSS_MEASUREMENTS_DATA_CARRIER_PHASE_UNCERTAINTY_BIT
   | PB_GNSS_MEASUREMENTS_DATA_MULTIPATH_INDICATOR_BIT
   | PB_GNSS_MEASUREMENTS_DATA_SIGNAL_TO_NOISE_RATIO_BIT
   | PB_GNSS_MEASUREMENTS_DATA_AUTOMATIC_GAIN_CONTROL_BIT | PB_GNSS_MEASUREMENTS_DATA_FULL_ISB_BIT
   | PB_GNSS_MEASUREMENTS_DATA_FULL_ISB_UNCERTAINTY_BIT
   | PB_GNSS_MEASUREMENTS_DATA_CYCLE_SLIP_COUNT_BIT.
Definition PBGnssMeasurementsDataFlagsMask_val (c : PBGnssMeasurementsDataFlagsMask) : Z := match c with
    PB_GNSS_MEASUREMENTS_DATA_INVALID => 0 | PB_GNSS_MEASUREMENTS_DATA_SV_ID_BIT => 1
   | PB_GNSS_MEASUREMENTS_DATA_SV_TYPE_BIT => 2 | PB_GNSS_MEASUREMENTS_DATA_STATE_BIT => 4
   | PB_GNSS_MEASUREMENTS_DATA_RECEIVED_SV_TIME_BIT => 8
   | PB_GNSS_MEASUREMENTS_DATA_RECEIVED_SV_TIME_UNCERTAINTY_BIT => 16
   | PB_GNSS_MEASUREMENTS_DATA_CARRIER_TO_NOISE_BIT => 32
   | PB_GNSS_MEASUREMENTS_DATA_PSEUDORANGE_RATE_BIT => 64
   | PB_GNSS_MEASUREMENTS_DATA_PSEUDORANGE_RATE_UNCERTAINTY_BIT => 128
   | PB_GNSS_MEASUREMENTS_DATA_ADR_STATE_BIT => 256 | PB_GNSS_MEASUREMENTS_DATA_ADR_BIT => 512
   | PB_GNSS_MEASUREMENTS_DATA_ADR_UNCERTAINTY_BIT => 1024
   | PB_GNSS_MEASUREMENTS_DATA_CARRIER_FREQUENCY_BIT => 2048
   | PB_GNSS_MEASUREMENTS_DATA_CARRIER_CYCLES_BIT => 4096
   | PB_GNSS_MEASUREMENTS_DATA_CARRIER_PHASE_BIT => 8192
   | PB_GNSS_MEASUREMENTS_DATA_CARRIER_PHASE_UNCERTAINTY_BIT => 16384
   | PB_GNSS_MEASUREMENTS_DATA_MULTIPATH_INDICATOR_BIT => 32768
   | PB_GNSS_MEASUREMENTS_DATA_SIGNAL_TO_NOISE_RATIO_BIT => 65536
   | PB_GNSS_MEASUREMENTS_DATA_AUTOMATIC_GAIN_CONTROL_BIT => 131072
   | PB_GNSS_MEASUREMENTS_DATA_FULL_ISB_BIT => 262144
   | PB_GNSS_MEASUREMENTS_DATA_FULL_ISB_UNCERTAINTY_BIT => 524288
   | PB_GNSS_MEASUREMENTS_DATA_CYCLE_SLIP_COUNT_BIT => 1048576 end.
Coercion PBGnssMeasurementsDataFlagsMask_val : PBGnssMeasurementsDataFlagsMask >-> Z.
Definition PBGnssMeasurementsDataFlagsMask_all : list PBGnssMeasurementsDataFlagsMask := [
    PB_GNSS_MEASUREMENTS_DATA_INVALID; PB_GNSS_MEASUREMENTS_DATA_SV_ID_BIT;
    PB_GNSS_MEASUREMENTS_DATA_SV_TYPE_BIT; PB_GNSS_MEASUREMENTS_DATA_STATE_BIT;
    PB_GNSS_MEASUREMENTS_DATA_RECEIVED_SV_TIME_BIT;
    PB_GNSS_MEASUREMENTS_DATA_RECEIVED_SV_TIME_UNCERTAINTY_BIT;
    PB_GNSS_MEASUREMENTS_DATA_CARRIER_TO_NOISE_BIT;
    PB_GNSS_MEASUREMENTS_DATA_PSEUDORANGE_RATE_BIT;
    PB_GNSS_MEASUREMENTS_DATA_PSEUDORANGE_RATE_UNCERTAINTY_BIT;
    PB_GNSS_MEASUREMENTS_DATA_ADR_STATE_BIT; PB_GNSS_MEASUREMENTS_DATA_ADR_BIT;
    PB_GNSS_MEASUREMENTS_DATA_ADR_UNCERTAINTY_BIT;
    PB_GNSS_MEASUREMENTS_DATA_CARRIER_FREQUENCY_BIT; PB_GNSS_MEASUREMENTS_DATA_CARRIER_CYCLES_BIT;
    PB_GNSS_MEASUREMENTS_DATA_CARRIER_PHASE_BIT;
    PB_GNSS_MEASUREMENTS_DATA_CARRIER_PHASE_UNCERTAINTY_BIT;
    PB_GNSS_MEASUREMENTS_DATA_MULTIPATH_INDICATOR_BIT;
    PB_GNSS_MEASUREMENTS_DATA_SIGNAL_TO_NOISE_RATIO_BIT;
    PB_GNSS_MEASUREMENTS_DATA_AUTOMATIC_GAIN_CONTROL_BIT; PB_GNSS_MEASUREMENTS_DATA_FULL_ISB_BIT;
    PB_GNSS_MEASUREMENTS_DATA_FULL_ISB_UNCERTAINTY_BIT;
    PB_GNSS_MEASUREMENTS_DATA_CYCLE_SLIP_COUNT_BIT].

Inductive PBGnssMeasurementsStateMask : Type := PB_GNSS_MEASUREMENTS_STATE_UNKNOWN_BIT
   | PB_GNSS_MEASUREMENTS_STATE_CODE_LOCK_BIT | PB_GNSS_MEASUREMENTS_STATE_BIT_SYNC_BIT
   | PB_GNSS_MEASUREMENTS_STATE_SUBFRAME_SYNC_BIT | PB_GNSS_MEASUREMENTS_STATE_TOW_DECODED_BIT
   | PB_GNSS_MEASUREMENTS_STATE_MSEC_AMBIGUOUS_BIT | PB_GNSS_MEASUREMENTS_STATE_SYMBOL_SYNC_BIT
   | PB_GNSS_MEASUREMENTS_STATE_GLO_STRING_SYNC_BIT
   | PB_GNSS_MEASUREMENTS_STATE_GLO_TOD_DECODED_BIT
   | PB_GNSS_MEASUREMENTS_STATE_BDS_D2_BIT_SYNC_BIT
   | PB_GNSS_MEASUREMENTS_STATE_BDS_D2_SUBFRAME_SYNC_BIT
   | PB_GNSS_MEASUREMENTS_STATE_GAL_E1BC_CODE_LOCK_BIT
   | PB_GNSS_MEASUREMENTS_STATE_GAL_E1C_2ND_CODE_LOCK_BIT
   | PB_GNSS_MEASUREMENTS_STATE_GAL_E1B_PAGE_SYNC_BIT | PB_GNSS_MEASUREMENTS_STATE_SBAS_SYNC_BIT.
Definition PBGnssMeasurementsStateMask_val (c : PBGnssMeasurementsStateMask) : Z := match c with
    PB_GNSS_MEASUREMENTS_STATE_UNKNOWN_BIT => 0 | PB_GNSS_MEASUREMENTS_STATE_CODE_LOCK_BIT => 1
   | PB_GNSS_MEASUREMENTS_STATE_BIT_SYNC_BIT => 2
   | PB_GNSS_MEASUREMENTS_STATE_SUBFRAME_SYNC_BIT => 4
   | PB_GNSS_MEASUREMENTS_STATE_TOW_DECODED_BIT => 8
   | PB_GNSS_MEASUREMENTS_STATE_MSEC_AMBIGUOUS_BIT => 16
   | PB_GNSS_MEASUREMENTS_STATE_SYMBOL_SYNC_BIT => 32
   | PB_GNSS_MEASUREMENTS_STATE_GLO_STRING_SYNC_BIT => 64
   | PB_GNSS_MEASUREMENTS_STATE_GLO_TOD_DECODED_BIT => 128
   | PB_GNSS_MEASUREMENTS_STATE_BDS_D2_BIT_SYNC_BIT => 256
   | PB_GNSS_MEASUREMENTS_STATE_BDS_D2_SUBFRAME_SYNC_BIT => 512
   | PB_GNSS_MEASUREMENTS_STATE_GAL_E1BC_CODE_LOCK_BIT => 1024
   | PB_GNSS_MEASUREMENTS_STATE_GAL_E1C_2ND_CODE_LOCK_BIT => 2048
   | PB_GNSS_MEASUREMENTS_STATE_GAL_E1B_PAGE_SYNC_BIT => 4096
   | PB_GNSS_MEASUREMENTS_STATE_SBAS_SYNC_BIT => 8192 end.
Coercion PBGnssMeasurementsStateMask_val : PBGnssMeasurementsStateMask >-> Z.
Definition PBGnssMeasurementsStateMask_all : list PBGnssMeasurementsStateMask := [
    PB_GNSS_MEASUREMENTS_STATE_UNKNOWN_BIT; PB_GNSS_MEASUREMENTS_STATE_CODE_LOCK_BIT;
    PB_GNSS_MEASUREMENTS_STATE_BIT_SYNC_BIT; PB_GNSS_MEASUREMENTS_STATE_SUBFRAME_SYNC_BIT;
    PB_GNSS_MEASUREMENTS_STATE_TOW_DECODED_BIT; PB_GNSS_MEASUREMENTS_STATE_MSEC_AMBIGUOUS_BIT;
    PB_GNSS_MEASUREMENTS_STATE_SYMBOL_SYNC_BIT; PB_GNSS_MEASUREMENTS_STATE_GLO_STRING_SYNC_BIT;
    PB_GNSS_MEASUREMENTS_STATE_GLO_TOD_DECODED_BIT;
    PB_GNSS_MEASUREMENTS_STATE_BDS_D2_BIT_SYNC_BIT;
    PB_GNSS_MEASUREMENTS_STATE_BDS_D2_SUBFRAME_SYNC_BIT;
    PB_GNSS_MEASUREMENTS_STATE_GAL_E1BC_CODE_LOCK_BIT;
    PB_GNSS_MEASUREMENTS_STATE_GAL_E1C_2ND_CODE_LOCK_BIT;
    PB_GNSS_MEASUREMENTS_STATE_GAL_E1B_PAGE_SYNC_BIT; PB_GNSS_MEASUREMENTS_STATE_SBAS_SYNC_BIT].

Inductive PBGnssMeasurementsMultipathIndicator : Type :=
    PB_GNSS_MEASUREMENTS_MULTIPATH_INDICATOR_UNKNOWN
   | PB_GNSS_MEASUREMENTS_MULTIPATH_INDICATOR_PRESENT
   | PB_GNSS_MEASUREMENTS_MULTIPATH_INDICATOR_NOT_PRESENT.
Definition PBGnssMeasurementsMultipathIndicator_val (c : PBGnssMeasurementsMultipathIndicator) : Z := match c with
    PB_GNSS_MEASUREMENTS_MULTIPATH_INDICATOR_UNKNOWN => 0
   | PB_GNSS_MEASUREMENTS_MULTIPATH_INDICATOR_PRESENT => 1
   | PB_GNSS_MEASUREMENTS_MULTIPATH_INDICATOR_NOT_PRESENT => 2 end.
Coercion PBGnssMeasurementsMultipathIndicator_val : PBGnssMeasurementsMultipathIndicator >-> Z.
Definition PBGnssMeasurementsMultipathIndicator_all : list PBGnssMeasurementsMultipathIndicator := [
    PB_GNSS_MEASUREMENTS_MULTIPATH_INDICATOR_UNKNOWN;
    PB_GNSS_MEASUREMENTS_MULTIPATH_INDICATOR_PRESENT;
    PB_GNSS_MEASUREMENTS_MULTIPATH_INDICATOR_NOT_PRESENT].

Inductive PBLocApiGnssAidingDataSvMask : Type := PB_AIDING_DATA_SV_MASK_INVALID
   | PB_AIDING_DATA_SV_EPHEMERIS_BIT.
Definition PBLocApiGnssAidingDataSvMask_val (c : PBLocApiGnssAidingDataSvMask) : Z := match c with
    PB_AIDING_DATA_SV_MASK_INVALID => 0 | PB_AIDING_DATA_SV_EPHEMERIS_BIT => 1 end.
Coercion PBLocApiGnssAidingDataSvMask_val : PBLocApiGnssAidingDataSvMask >-> Z.
Definition PBLocApiGnssAidingDataSvMask_all : list PBLocApiGnssAidingDataSvMask := [
    PB_AIDING_DATA_SV_MASK_INVALID; PB_AIDING_DATA_SV_EPHEMERIS_BIT].

Inductive PBLocationFlagsMask : Type := PB_LOCATION_FLAGS_INVALID | PB_LOCATION_HAS_LAT_LONG_BIT
   | PB_LOCATION_HAS_ALTITUDE_BIT | PB_LOCATION_HAS_SPEED_BIT | PB_LOCATION_HAS_BEARING_BIT
   | PB_LOCATION_HAS_ACCURACY_BIT | PB_LOCATION_HAS_VERTICAL_ACCURACY_BIT
   | PB_LOCATION_HAS_SPEED_ACCURACY_BIT | PB_LOCATION_HAS_BEARING_ACCURACY_BIT
   | PB_LOCATION_HAS_TIMESTAMP_BIT.
Definition PBLocationFlagsMask_val (c : PBLocationFlagsMask) : Z := match c with
    PB_LOCATION_FLAGS_INVALID => 0 | PB_LOCATION_HAS_LAT_LONG_BIT => 1
   | PB_LOCATION_HAS_ALTITUDE_BIT => 2 | PB_LOCATION_HAS_SPEED_BIT => 4
   | PB_LOCATION_HAS_BEARING_BIT => 8 | PB_LOCATION_HAS_ACCURACY_BIT => 16
   | PB_LOCATION_HAS_VERTICAL_ACCURACY_BIT => 32 | PB_LOCATION_HAS_SPEED_ACCURACY_BIT => 64
   | PB_LOCATION_HAS_BEARING_ACCURACY_BIT => 128 | PB_LOCATION_HAS_TIMESTAMP_BIT => 256 end.
Coercion PBLocationFlagsMask_val : PBLocationFlagsMask >-> Z.
Definition PBLocationFlagsMask_all : list PBLocationFlagsMask := [PB_LOCATION_FLAGS_INVALID;
    PB_LOCATION_HAS_LAT_LONG_BIT; PB_LOCATION_HAS_ALTITUDE_BIT; PB_LOCATION_HAS_SPEED_BIT;
    PB_LOCATION_HAS_BEARING_BIT; PB_LOCATION_HAS_ACCURACY_BIT;
    PB_LOCATION_HAS_VERTICAL_ACCURACY_BIT; PB_LOCATION_HAS_SPEED_ACCURACY_BIT;
    PB_LOCATION_HAS_BEARING_ACCURACY_BIT; PB_LOCATION_HAS_TIMESTAMP_BIT].

Inductive PBLocationTechnologyMask : Type := PB_LOCATION_TECHNOLOGY_INVALID
   | PB_LOCATION_TECHNOLOGY_GNSS_BIT | PB_LOCATION_TECHNOLOGY_CELL_BIT
   | PB_LOCATION_TECHNOLOGY_WIFI_BIT | PB_LOCATION_TECHNOLOGY_SENSORS_BIT
   | PB_LOCATION_TECHNOLOGY_REFERENCE_LOCATION_BIT
   | PB_LOCATION_TECHNOLOGY_INJECTED_COARSE_POSITION_BIT | PB_LOCATION_TECHNOLOGY_AFLT_BIT
   | PB_LOCATION_TECHNOLOGY_HYBRID_BIT | PB_LOCATION_TECHNOLOGY_PPE_BIT
   | PB_LOCATION_TECHNOLOGY_VEH_BIT | PB_LOCATION_TECHNOLOGY_VIS_BIT.
Definition PBLocationTechnologyMask_val (c : PBLocationTechnologyMask) : Z := match c with
    PB_LOCATION_TECHNOLOGY_INVALID => 0 | PB_LOCATION_TECHNOLOGY_GNSS_BIT => 1
   | PB_LOCATION_TECHNOLOGY_CELL_BIT => 2 | PB_LOCATION_TECHNOLOGY_WIFI_BIT => 4
   | PB_LOCATION_TECHNOLOGY_SENSORS_BIT => 8 | PB_LOCATION_TECHNOLOGY_REFERENCE_LOCATION_BIT => 16
   | PB_LOCATION_TECHNOLOGY_INJECTED_COARSE_POSITION_BIT => 32
   | PB_LOCATION_TECHNOLOGY_AFLT_BIT => 64 | PB_LOCATION_TECHNOLOGY_HYBRID_BIT => 128
   | PB_LOCATION_TECHNOLOGY_PPE_BIT => 256 | PB_LOCATION_TECHNOLOGY_VEH_BIT => 512
   | PB_LOCATION_TECHNOLOGY_VIS_BIT => 1024 end.
Coercion PBLocationTechnologyMask_val : PBLocationTechnologyMask >-> Z.
Definition PBLocationTechnologyMask_all : list PBLocationTechnologyMask := [
    PB_LOCATION_TECHNOLOGY_INVALID; PB_LOCATION_TECHNOLOGY_GNSS_BIT;
    PB_LOCATION_TECHNOLOGY_CELL_BIT; PB_LOCATION_TECHNOLOGY_WIFI_BIT;
    PB_LOCATION_TECHNOLOGY_SENSORS_BIT; PB_LOCATION_TECHNOLOGY_REFERENCE_LOCATION_BIT;
    PB_LOCATION_TECHNOLOGY_INJECTED_COARSE_POSITION_BIT; PB_LOCATION_TECHNOLOGY_AFLT_BIT;
    PB_LOCATION_TECHNOLOGY_HYBRID_BIT; PB_LOCATION_TECHNOLOGY_PPE_BIT;
    PB_LOCATION_TECHNOLOGY_VEH_BIT; PB_LOCATION_TECHNOLOGY_VIS_BIT].

Inductive PBLocationCapabilitiesMask : Type := PB_LOCATION_CAPS_INVALID
   | PB_LOCATION_CAPS_TIME_BASED_TRACKING_BIT | PB_LOCATION_CAPS_TIME_BASED_BATCHING_BIT
   | PB_LOCATION_CAPS_DISTANCE_BASED_TRACKING_BIT | PB_LOCATION_CAPS_DISTANCE_BASED_BATCHING_BIT
   | PB_LOCATION_CAPS_GEOFENCE_BIT | PB_LOCATION_CAPS_OUTDOOR_TRIP_BATCHING_BIT
   | PB_LOCATION_CAPS_GNSS_MEASUREMENTS_BIT | PB_LOCATION_CAPS_CONSTELLATION_ENABLEMENT_BIT
   | PB_LOCATION_CAPS_QWES_CARRIER_PHASE_BIT | PB_LOCATION_CAPS_QWES_SV_POLYNOMIAL_BIT
   | PB_LOCATION_CAPS_QWES_GNSS_SINGLE_FREQUENCY | PB_LOCATION_CAPS_QWES_GNSS_MULTI_FREQUENCY
   | PB_LOCATION_CAPS_QWES_VPE | PB_LOCATION_CAPS_QWES_CV2X_LOCATION_BASIC
   | PB_LOCATION_CAPS_QWES_CV2X_LOCATION_PREMIUM | PB_LOCATION_CAPS_QWES_PPE
   | PB_LOCATION_CAPS_QWES_QDR2 | PB_LOCATION_CAPS_QWES_QDR3.
Definition PBLocationCapabilitiesMask_val (c : PBLocationCapabilitiesMask) : Z := match c with
    PB_LOCATION_CAPS_INVALID => 0 | PB_LOCATION_CAPS_TIME_BASED_TRACKING_BIT => 1
   | PB_LOCATION_CAPS_TIME_BASED_BATCHING_BIT => 2
   | PB_LOCATION_CAPS_DISTANCE_BASED_TRACKING_BIT => 4
   | PB_LOCATION_CAPS_DISTANCE_BASED_BATCHING_BIT => 8 | PB_LOCATION_CAPS_GEOFENCE_BIT => 16
   | PB_LOCATION_CAPS_OUTDOOR_TRIP_BATCHING_BIT => 32
   | PB_LOCATION_CAPS_GNSS_MEASUREMENTS_BIT => 64
   | PB_LOCATION_CAPS_CONSTELLATION_ENABLEMENT_BIT => 128
   | PB_LOCATION_CAPS_QWES_CARRIER_PHASE_BIT => 256
   | PB_LOCATION_CAPS_QWES_SV_POLYNOMIAL_BIT => 512
   | PB_LOCATION_CAPS_QWES_GNSS_SINGLE_FREQUENCY => 1024
   | PB_LOCATION_CAPS_QWES_GNSS_MULTI_FREQUENCY => 2048 | PB_LOCATION_CAPS_QWES_VPE => 4096
   | PB_LOCATION_CAPS_QWES_CV2X_LOCATION_BASIC => 8192
   | PB_LOCATION_CAPS_QWES_CV2X_LOCATION_PREMIUM => 16384 | PB_LOCATION_CAPS_QWES_PPE => 32768
   | PB_LOCATION_CAPS_QWES_QDR2 => 65536 | PB_LOCATION_CAPS_QWES_QDR3 => 131072 end.
Coercion PBLocationCapabilitiesMask_val : PBLocationCapabilitiesMask >-> Z.
Definition PBLocationCapabilitiesMask_all : list PBLocationCapabilitiesMask := [
    PB_LOCATION_CAPS_INVALID; PB_LOCATION_CAPS_TIME_BASED_TRACKING_BIT;
    PB_LOCATION_CAPS_TIME_BASED_BATCHING_BIT; PB_LOCATION_CAPS_DISTANCE_BASED_TRACKING_BIT;
    PB_LOCATION_CAPS_DISTANCE_BASED_BATCHING_BIT; PB_LOCATION_CAPS_GEOFENCE_BIT;
    PB_LOCATION_CAPS_OUTDOOR_TRIP_BATCHING_BIT; PB_LOCATION_CAPS_GNSS_MEASUREMENTS_BIT;
    PB_LOCATION_CAPS_CONSTELLATION_ENABLEMENT_BIT; PB_LOCATION_CAPS_QWES_CARRIER_PHASE_BIT;
    PB_LOCATION_CAPS_QWES_SV_POLYNOMIAL_BIT; PB_LOCATION_CAPS_QWES_GNSS_SINGLE_FREQUENCY;
    PB_LOCATION_CAPS_QWES_GNSS_MULTI_FREQUENCY; PB_LOCATION_CAPS_QWES_VPE;
    PB_LOCATION_CAPS_QWES_CV2X_LOCATION_BASIC; PB_LOCATION_CAPS_QWES_CV2X_LOCATION_PREMIUM;
    PB_LOCATION_CAPS_QWES_PPE; PB_LOCATION_CAPS_QWES_QDR2; PB_LOCATION_CAPS_QWES_QDR3].

Inductive PBGnssDataMask : Type := PB_GNSS_LOC_DATA_INVALID | PB_GNSS_LOC_DATA_JAMMER_IND_BIT
   | PB_GNSS_LOC_DATA_AGC_BIT.
Definition PBGnssDataMask_val (c : PBGnssDataMask) : Z := match c with
    PB_GNSS_LOC_DATA_INVALID => 0 | PB_GNSS_LOC_DATA_JAMMER_IND_BIT => 1
   | PB_GNSS_LOC_DATA_AGC_BIT => 2 end.
Coercion PBGnssDataMask_val : PBGnssDataMask >-> Z.
Definition PBGnssDataMask_all : list PBGnssDataMask := [PB_GNSS_LOC_DATA_INVALID;
    PB_GNSS_LOC_DATA_JAMMER_IND_BIT; PB_GNSS_LOC_DATA_AGC_BIT].

Inductive PBLIALeverArmTypeMask : Type := PB_LEVER_ARM_TYPE_INVALID
   | PB_LEVER_ARM_TYPE_GNSS_TO_VRP_BIT | PB_LEVER_ARM_TYPE_DR_IMU_TO_GNSS_BIT
   | PB_LEVER_ARM_TYPE_VEPP_IMU_TO_GNSS_BIT.
Definition PBLIALeverArmTypeMask_val (c : PBLIALeverArmTypeMask) : Z := match c with
    PB_LEVER_ARM_TYPE_INVALID => 0 | PB_LEVER_ARM_TYPE_GNSS_TO_VRP_BIT => 1
   | PB_LEVER_ARM_TYPE_DR_IMU_TO_GNSS_BIT => 2 | PB_LEVER_ARM_TYPE_VEPP_IMU_TO_GNSS_BIT => 4 end.
Coercion PBLIALeverArmTypeMask_val : PBLIALeverArmTypeMask >-> Z.
Definition PBLIALeverArmTypeMask_all : list PBLIALeverArmTypeMask := [PB_LEVER_ARM_TYPE_INVALID;
    PB_LEVER_ARM_TYPE_GNSS_TO_VRP_BIT; PB_LEVER_ARM_TYPE_DR_IMU_TO_GNSS_BIT;
    PB_LEVER_ARM_TYPE_VEPP_IMU_TO_GNSS_BIT].

Inductive PBDrSolutionStatusMask : Type := PB_VEHICLE_DRSOLUTION_INVALID
   | PB_VEHICLE_SENSOR_SPEED_INPUT_DETECTED | PB_VEHICLE_SENSOR_SPEED_INPUT_USED.
Definition PBDrSolutionStatusMask_val (c : PBDrSolutionStatusMask) : Z := match c with
    PB_VEHICLE_DRSOLUTION_INVALID => 0 | PB_VEHICLE_SENSOR_SPEED_INPUT_DETECTED => 1
   | PB_VEHICLE_SENSOR_SPEED_INPUT_USED => 2 end.
Coercion PBDrSolutionStatusMask_val : PBDrSolutionStatusMask >-> Z.
Definition PBDrSolutionStatusMask_all : list PBDrSolutionStatusMask := [
    PB_VEHICLE_DRSOLUTION_INVALID; PB_VEHICLE_SENSOR_SPEED_INPUT_DETECTED;
    PB_VEHICLE_SENSOR_SPEED_INPUT_USED].

Inductive PBLocationSessionStatus : Type := PB_LOCATION_SESS_SUCCESS
   | PB_LOCATION_SESS_INTERMEDIATE | PB_LOCATION_SESS_FAILURE.
Definition PBLocationSessionStatus_val (c : PBLocationSessionStatus) : Z := match c with
    PB_LOCATION_SESS_SUCCESS => 0 | PB_LOCATION_SESS_INTERMEDIATE => 1
   | PB_LOCATION_SESS_FAILURE => 2 end.
Coercion PBLocationSessionStatus_val : PBLocationSessionStatus >-> Z.
Definition PBLocationSessionStatus_all : list PBLocationSessionStatus := [
    PB_LOCATION_SESS_SUCCESS; PB_LOCATION_SESS_INTERMEDIATE; PB_LOCATION_SESS_FAILURE].

Inductive PBDeadReckoningEngineConfigValidMask : Type := PB_DR_RECKON_ENGINE_CONFIG_INVALID
   | PB_BODY_TO_SENSOR_MOUNT_PARAMS_BIT | PB_VEHICLE_SPEED_SCALE_FACTOR_BIT
   | PB_VEHICLE_SPEED_SCALE_FACTOR_UNC_BIT | PB_GYRO_SCALE_FACTOR_BIT
   | PB_GYRO_SCALE_FACTOR_UNC_BIT.
Definition PBDeadReckoningEngineConfigValidMask_val (c : PBDeadReckoningEngineConfigValidMask) : Z := match c with
    PB_DR_RECKON_ENGINE_CONFIG_INVALID => 0 | PB_BODY_TO_SENSOR_MOUNT_PARAMS_BIT => 1
   | PB_VEHICLE_SPEED_SCALE_FACTOR_BIT => 2 | PB_VEHICLE_SPEED_SCALE_FACTOR_UNC_BIT => 4
   | PB_GYRO_SCALE_FACTOR_BIT => 8 | PB_GYRO_SCALE_FACTOR_UNC_BIT => 16 end.
Coercion PBDeadReckoningEngineConfigValidMask_val : PBDeadReckoningEngineConfigValidMask >-> Z.
Definition PBDeadReckoningEngineConfigValidMask_all : list PBDeadReckoningEngineConfigValidMask := [
    PB_DR_RECKON_ENGINE_CONFIG_INVALID; PB_BODY_TO_SENSOR_MOUNT_PARAMS_BIT;
    PB_VEHICLE_SPEED_SCALE_FACTOR_BIT; PB_VEHICLE_SPEED_SCALE_FACTOR_UNC_BIT;
    PB_GYRO_SCALE_FACTOR_BIT; PB_GYRO_SCALE_FACTOR_UNC_BIT].

(** * LocationApiMsg.proto *)

Inductive PBELocMsgID : Type := PB_E_LOCAPI_UNDEFINED_MSG_ID | PB_E_LOCAPI_CLIENT_REGISTER_MSG_ID
   | PB_E_LOCAPI_CLIENT_DEREGISTER_MSG_ID | PB_E_LOCAPI_CAPABILILTIES_MSG_ID
   | PB_E_LOCAPI_HAL_READY_MSG_ID | PB_E_LOCAPI_START_TRACKING_MSG_ID
   | PB_E_LOCAPI_STOP_TRACKING_MSG_ID | PB_E_LOCAPI_UPDATE_CALLBACKS_MSG_ID
   | PB_E_LOCAPI_UPDATE_TRACKING_OPTIONS_MSG_ID | PB_E_LOCAPI_CONTROL_UPDATE_CONFIG_MSG_ID
   | PB_E_LOCAPI_CONTROL_DELETE_AIDING_DATA_MSG_ID
   | PB_E_LOCAPI_CONTROL_UPDATE_NETWORK_AVAILABILITY_MSG_ID | PB_E_LOCAPI_LOCATION_MSG_ID
   | PB_E_LOCAPI_LOCATION_INFO_MSG_ID | PB_E_LOCAPI_SATELLITE_VEHICLE_MSG_ID
   | PB_E_LOCAPI_NMEA_MSG_ID | PB_E_LOCAPI_DATA_MSG_ID
   | PB_E_LOCAPI_GET_GNSS_ENGERY_CONSUMED_MSG_ID | PB_E_LOCAPI_LOCATION_SYSTEM_INFO_MSG_ID
   | PB_E_LOCAPI_ENGINE_LOCATIONS_INFO_MSG_ID | PB_E_LOCAPI_START_BATCHING_MSG_ID
   | PB_E_LOCAPI_STOP_BATCHING_MSG_ID | PB_E_LOCAPI_UPDATE_BATCHING_OPTIONS_MSG_ID
   | PB_E_LOCAPI_BATCHING_MSG_ID | PB_E_LOCAPI_ADD_GEOFENCES_MSG_ID
   | PB_E_LOCAPI_REMOVE_GEOFENCES_MSG_ID | PB_E_LOCAPI_MODIFY_GEOFENCES_MSG_ID
   | PB_E_LOCAPI_PAUSE_GEOFENCES_MSG_ID | PB_E_LOCAPI_RESUME_GEOFENCES_MSG_ID
   | PB_E_LOCAPI_GEOFENCE_BREACH_MSG_ID | PB_E_LOCAPI_MEAS_MSG_ID
   | PB_E_LOCAPI_GET_SINGLE_TERRESTRIAL_POS_REQ_MSG_ID
   | PB_E_LOCAPI_GET_SINGLE_TERRESTRIAL_POS_RESP_MSG_ID | PB_E_LOCAPI_PINGTEST_MSG_ID
   | PB_E_INTAPI_CONFIG_CONSTRAINTED_TUNC_MSG_ID
   | PB_E_INTAPI_CONFIG_POSITION_ASSISTED_CLOCK_ESTIMATOR_MSG_ID
   | PB_E_INTAPI_CONFIG_SV_CONSTELLATION_MSG_ID | PB_E_INTAPI_CONFIG_AIDING_DATA_DELETION_MSG_ID
   | PB_E_INTAPI_CONFIG_LEVER_ARM_MSG_ID | PB_E_INTAPI_CONFIG_ROBUST_LOCATION_MSG_ID
   | PB_E_INTAPI_CONFIG_MIN_GPS_WEEK_MSG_ID | PB_E_INTAPI_CONFIG_DEAD_RECKONING_ENGINE_MSG_ID
   | PB_E_INTAPI_CONFIG_MIN_SV_ELEVATION_MSG_ID
   | PB_E_INTAPI_CONFIG_CONSTELLATION_SECONDARY_BAND_MSG_ID
   | PB_E_INTAPI_CONFIG_ENGINE_RUN_STATE_MSG_ID
   | PB_E_INTAPI_CONFIG_USER_CONSENT_TERRESTRIAL_POSITIONING_MSG_ID
   | PB_E_INTAPI_GET_ROBUST_LOCATION_CONFIG_REQ_MSG_ID
   | PB_E_INTAPI_GET_ROBUST_LOCATION_CONFIG_RESP_MSG_ID | PB_E_INTAPI_GET_MIN_GPS_WEEK_REQ_MSG_ID
   | PB_E_INTAPI_GET_MIN_GPS_WEEK_RESP_MSG_ID | PB_E_INTAPI_GET_MIN_SV_ELEVATION_REQ_MSG_ID
   | PB_E_INTAPI_GET_MIN_SV_ELEVATION_RESP_MSG_ID
   | PB_E_INTAPI_GET_CONSTELLATION_SECONDARY_BAND_CONFIG_REQ_MSG_ID
   | PB_E_INTAPI_GET_CONSTELLATION_SECONDARY_BAND_CONFIG_RESP_MSG_ID.
Definition PBELocMsgID_val (c : PBELocMsgID) : Z := match c with PB_E_LOCAPI_UNDEFINED_MSG_ID => 0
   | PB_E_LOCAPI_CLIENT_REGISTER_MSG_ID => 1 | PB_E_LOCAPI_CLIENT_DEREGISTER_MSG_ID => 2
   | PB_E_LOCAPI_CAPABILILTIES_MSG_ID => 3 | PB_E_LOCAPI_HAL_READY_MSG_ID => 4
   | PB_E_LOCAPI_START_TRACKING_MSG_ID => 5 | PB_E_LOCAPI_STOP_TRACKING_MSG_ID => 6
   | PB_E_LOCAPI_UPDATE_CALLBACKS_MSG_ID => 7 | PB_E_LOCAPI_UPDATE_TRACKING_OPTIONS_MSG_ID => 8
   | PB_E_LOCAPI_CONTROL_UPDATE_CONFIG_MSG_ID => 9
   | PB_E_LOCAPI_CONTROL_DELETE_AIDING_DATA_MSG_ID => 10
   | PB_E_LOCAPI_CONTROL_UPDATE_NETWORK_AVAILABILITY_MSG_ID => 11
   | PB_E_LOCAPI_LOCATION_MSG_ID => 12 | PB_E_LOCAPI_LOCATION_INFO_MSG_ID => 13
   | PB_E_LOCAPI_SATELLITE_VEHICLE_MSG_ID => 14 | PB_E_LOCAPI_NMEA_MSG_ID => 15
   | PB_E_LOCAPI_DATA_MSG_ID => 16 | PB_E_LOCAPI_GET_GNSS_ENGERY_CONSUMED_MSG_ID => 17
   | PB_E_LOCAPI_LOCATION_SYSTEM_INFO_MSG_ID => 18
   | PB_E_LOCAPI_ENGINE_LOCATIONS_INFO_MSG_ID => 19 | PB_E_LOCAPI_START_BATCHING_MSG_ID => 20
   | PB_E_LOCAPI_STOP_BATCHING_MSG_ID => 21 | PB_E_LOCAPI_UPDATE_BATCHING_OPTIONS_MSG_ID => 22
   | PB_E_LOCAPI_BATCHING_MSG_ID => 23 | PB_E_LOCAPI_ADD_GEOFENCES_MSG_ID => 24
   | PB_E_LOCAPI_REMOVE_GEOFENCES_MSG_ID => 25 | PB_E_LOCAPI_MODIFY_GEOFENCES_MSG_ID => 26
   | PB_E_LOCAPI_PAUSE_GEOFENCES_MSG_ID => 27 | PB_E_LOCAPI_RESUME_GEOFENCES_MSG_ID => 28
   | PB_E_LOCAPI_GEOFENCE_BREACH_MSG_ID => 29 | PB_E_LOCAPI_MEAS_MSG_ID => 30
   | PB_E_LOCAPI_GET_SINGLE_TERRESTRIAL_POS_REQ_MSG_ID => 31
   | PB_E_LOCAPI_GET_SINGLE_TERRESTRIAL_POS_RESP_MSG_ID => 32 | PB_E_LOCAPI_PINGTEST_MSG_ID => 99
   | PB_E_INTAPI_CONFIG_CONSTRAINTED_TUNC_MSG_ID => 200
   | PB_E_INTAPI_CONFIG_POSITION_ASSISTED_CLOCK_ESTIMATOR_MSG_ID => 201
   | PB_E_INTAPI_CONFIG_SV_CONSTELLATION_MSG_ID => 202
   | PB_E_INTAPI_CONFIG_AIDING_DATA_DELETION_MSG_ID => 203
   | PB_E_INTAPI_CONFIG_LEVER_ARM_MSG_ID => 204 | PB_E_INTAPI_CONFIG_ROBUST_LOCATION_MSG_ID => 205
   | PB_E_INTAPI_CONFIG_MIN_GPS_WEEK_MSG_ID => 206
   | PB_E_INTAPI_CONFIG_DEAD_RECKONING_ENGINE_MSG_ID => 207
   | PB_E_INTAPI_CONFIG_MIN_SV_ELEVATION_MSG_ID => 208
   | PB_E_INTAPI_CONFIG_CONSTELLATION_SECONDARY_BAND_MSG_ID => 209
   | PB_E_INTAPI_CONFIG_ENGINE_RUN_STATE_MSG_ID => 210
   | PB_E_INTAPI_CONFIG_USER_CONSENT_TERRESTRIAL_POSITIONING_MSG_ID => 211
   | PB_E_INTAPI_GET_ROBUST_LOCATION_CONFIG_REQ_MSG_ID => 300
   | PB_E_INTAPI_GET_ROBUST_LOCATION_CONFIG_RESP_MSG_ID => 301
   | PB_E_INTAPI_GET_MIN_GPS_WEEK_REQ_MSG_ID => 302
   | PB_E_INTAPI_GET_MIN_GPS_WEEK_RESP_MSG_ID => 303
   | PB_E_INTAPI_GET_MIN_SV_ELEVATION_REQ_MSG_ID => 304
   | PB_E_INTAPI_GET_MIN_SV_ELEVATION_RESP_MSG_ID => 305
   | PB_E_INTAPI_GET_CONSTELLATION_SECONDARY_BAND_CONFIG_REQ_MSG_ID => 306
   | PB_E_INTAPI_GET_CONSTELLATION_SECONDARY_BAND_CONFIG_RESP_MSG_ID => 307 end.
Coercion PBELocMsgID_val : PBELocMsgID >-> Z.
Definition PBELocMsgID_all : list PBELocMsgID := [PB_E_LOCAPI_UNDEFINED_MSG_ID;
    PB_E_LOCAPI_CLIENT_REGISTER_MSG_ID; PB_E_LOCAPI_CLIENT_DEREGISTER_MSG_ID;
    PB_E_LOCAPI_CAPABILILTIES_MSG_ID; PB_E_LOCAPI_HAL_READY_MSG_ID;
    PB_E_LOCAPI_START_TRACKING_MSG_ID; PB_E_LOCAPI_STOP_TRACKING_MSG_ID;
    PB_E_LOCAPI_UPDATE_CALLBACKS_MSG_ID; PB_E_LOCAPI_UPDATE_TRACKING_OPTIONS_MSG_ID;
    PB_E_LOCAPI_CONTROL_UPDATE_CONFIG_MSG_ID; PB_E_LOCAPI_CONTROL_DELETE_AIDING_DATA_MSG_ID;
    PB_E_LOCAPI_CONTROL_UPDATE_NETWORK_AVAILABILITY_MSG_ID; PB_E_LOCAPI_LOCATION_MSG_ID;
    PB_E_LOCAPI_LOCATION_INFO_MSG_ID; PB_E_LOCAPI_SATELLITE_VEHICLE_MSG_ID;
    PB_E_LOCAPI_NMEA_MSG_ID; PB_E_LOCAPI_DATA_MSG_ID; PB_E_LOCAPI_GET_GNSS_ENGERY_CONSUMED_MSG_ID;
    PB_E_LOCAPI_LOCATION_SYSTEM_INFO_MSG_ID; PB_E_LOCAPI_ENGINE_LOCATIONS_INFO_MSG_ID;
    PB_E_LOCAPI_START_BATCHING_MSG_ID; PB_E_LOCAPI_STOP_BATCHING_MSG_ID;
    PB_E_LOCAPI_UPDATE_BATCHING_OPTIONS_MSG_ID; PB_E_LOCAPI_BATCHING_MSG_ID;
    PB_E_LOCAPI_ADD_GEOFENCES_MSG_ID; PB_E_LOCAPI_REMOVE_GEOFENCES_MSG_ID;
    PB_E_LOCAPI_MODIFY_GEOFENCES_MSG_ID; PB_E_LOCAPI_PAUSE_GEOFENCES_MSG_ID;
    PB_E_LOCAPI_RESUME_GEOFENCES_MSG_ID; PB_E_LOCAPI_GEOFENCE_BREACH_MSG_ID;
    PB_E_LOCAPI_MEAS_MSG_ID; PB_E_LOCAPI_GET_SINGLE_TERRESTRIAL_POS_REQ_MSG_ID;
    PB_E_LOCAPI_GET_SINGLE_TERRESTRIAL_POS_RESP_MSG_ID; PB_E_LOCAPI_PINGTEST_MSG_ID;
    PB_E_INTAPI_CONFIG_CONSTRAINTED_TUNC_MSG_ID;
    PB_E_INTAPI_CONFIG_POSITION_ASSISTED_CLOCK_ESTIMATOR_MSG_ID;
    PB_E_INTAPI_CONFIG_SV_CONSTELLATION_MSG_ID; PB_E_INTAPI_CONFIG_AIDING_DATA_DELETION_MSG_ID;
    PB_E_INTAPI_CONFIG_LEVER_ARM_MSG_ID; PB_E_INTAPI_CONFIG_ROBUST_LOCATION_MSG_ID;
    PB_E_INTAPI_CONFIG_MIN_GPS_WEEK_MSG_ID; PB_E_INTAPI_CONFIG_DEAD_RECKONING_ENGINE_MSG_ID;
    PB_E_INTAPI_CONFIG_MIN_SV_ELEVATION_MSG_ID;
    PB_E_INTAPI_CONFIG_CONSTELLATION_SECONDARY_BAND_MSG_ID;
    PB_E_INTAPI_CONFIG_ENGINE_RUN_STATE_MSG_ID;
    PB_E_INTAPI_CONFIG_USER_CONSENT_TERRESTRIAL_POSITIONING_MSG_ID;
    PB_E_INTAPI_GET_ROBUST_LOCATION_CONFIG_REQ_MSG_ID;
    PB_E_INTAPI_GET_ROBUST_LOCATION_CONFIG_RESP_MSG_ID; PB_E_INTAPI_GET_MIN_GPS_WEEK_REQ_MSG_ID;
    PB_E_INTAPI_GET_MIN_GPS_WEEK_RESP_MSG_ID; PB_E_INTAPI_GET_MIN_SV_ELEVATION_REQ_MSG_ID;
    PB_E_INTAPI_GET_MIN_SV_ELEVATION_RESP_MSG_ID;
    PB_E_INTAPI_GET_CONSTELLATION_SECONDARY_BAND_CONFIG_REQ_MSG_ID;
    PB_E_INTAPI_GET_CONSTELLATION_SECONDARY_BAND_CONFIG_RESP_MSG_ID].

Inductive PBClientType : Type := PB_LOCATION_CLIENT_TYPE_INVALID | PB_LOCATION_CLIENT_API
   | PB_LOCATION_INTEGRATION_API.
Definition PBClientType_val (c : PBClientType) : Z := match c with
    PB_LOCATION_CLIENT_TYPE_INVALID => 0 | PB_LOCATION_CLIENT_API => 1
   | PB_LOCATION_INTEGRATION_API => 2 end.
Coercion PBClientType_val : PBClientType >-> Z.
Definition PBClientType_all : list PBClientType := [PB_LOCATION_CLIENT_TYPE_INVALID;
    PB_LOCATION_CLIENT_API; PB_LOCATION_INTEGRATION_API].

Inductive PBLocationCallbacksMask : Type := PB_E_LOC_CB_INVALID
   | PB_E_LOC_CB_DISTANCE_BASED_TRACKING_BIT | PB_E_LOC_CB_GNSS_LOCATION_INFO_BIT
   | PB_E_LOC_CB_GNSS_SV_BIT | PB_E_LOC_CB_GNSS_NMEA_BIT | PB_E_LOC_CB_GNSS_DATA_BIT
   | PB_E_LOC_CB_SYSTEM_INFO_BIT | PB_E_LOC_CB_BATCHING_BIT | PB_E_LOC_CB_BATCHING_STATUS_BIT
   | PB_E_LOC_CB_GEOFENCE_BREACH_BIT | PB_E_LOC_CB_ENGINE_LOCATIONS_INFO_BIT
   | PB_E_LOC_CB_SIMPLE_LOCATION_INFO_BIT | PB_E_LOC_CB_GNSS_MEAS_BIT.
Definition PBLocationCallbacksMask_val (c : PBLocationCallbacksMask) : Z := match c with
    PB_E_LOC_CB_INVALID => 0 | PB_E_LOC_CB_DISTANCE_BASED_TRACKING_BIT => 1
   | PB_E_LOC_CB_GNSS_LOCATION_INFO_BIT => 2 | PB_E_LOC_CB_GNSS_SV_BIT => 4
   | PB_E_LOC_CB_GNSS_NMEA_BIT => 8 | PB_E_LOC_CB_GNSS_DATA_BIT => 16
   | PB_E_LOC_CB_SYSTEM_INFO_BIT => 32 | PB_E_LOC_CB_BATCHING_BIT => 64
   | PB_E_LOC_CB_BATCHING_STATUS_BIT => 128 | PB_E_LOC_CB_GEOFENCE_BREACH_BIT => 256
   | PB_E_LOC_CB_ENGINE_LOCATIONS_INFO_BIT => 512 | PB_E_LOC_CB_SIMPLE_LOCATION_INFO_BIT => 1024
   | PB_E_LOC_CB_GNSS_MEAS_BIT => 2048 end.
Coercion PBLocationCallbacksMask_val : PBLocationCallbacksMask >-> Z.
Definition PBLocationCallbacksMask_all : list PBLocationCallbacksMask := [PB_E_LOC_CB_INVALID;
    PB_E_LOC_CB_DISTANCE_BASED_TRACKING_BIT; PB_E_LOC_CB_GNSS_LOCATION_INFO_BIT;
    PB_E_LOC_CB_GNSS_SV_BIT; PB_E_LOC_CB_GNSS_NMEA_BIT; PB_E_LOC_CB_GNSS_DATA_BIT;
    PB_E_LOC_CB_SYSTEM_INFO_BIT; PB_E_LOC_CB_BATCHING_BIT; PB_E_LOC_CB_BATCHING_STATUS_BIT;
    PB_E_LOC_CB_GEOFENCE_BREACH_BIT; PB_E_LOC_CB_ENGINE_LOCATIONS_INFO_BIT;
    PB_E_LOC_CB_SIMPLE_LOCATION_INFO_BIT; PB_E_LOC_CB_GNSS_MEAS_BIT].

Inductive PBGeofenceBreachTypeMask : Type := PB_GEOFENCE_BREACH_INVALID
   | PB_GEOFENCE_BREACH_ENTER_BIT | PB_GEOFENCE_BREACH_EXIT_BIT | PB_GEOFENCE_BREACH_DWELL_IN_BIT
   | PB_GEOFENCE_BREACH_DWELL_OUT_BIT.
Definition PBGeofenceBreachTypeMask_val (c : PBGeofenceBreachTypeMask) : Z := match c with
    PB_GEOFENCE_BREACH_INVALID => 0 | PB_GEOFENCE_BREACH_ENTER_BIT => 1
   | PB_GEOFENCE_BREACH_EXIT_BIT => 2 | PB_GEOFENCE_BREACH_DWELL_IN_BIT => 4
   | PB_GEOFENCE_BREACH_DWELL_OUT_BIT => 8 end.
Coercion PBGeofenceBreachTypeMask_val : PBGeofenceBreachTypeMask >-> Z.
Definition PBGeofenceBreachTypeMask_all : list PBGeofenceBreachTypeMask := [
    PB_GEOFENCE_BREACH_INVALID; PB_GEOFENCE_BREACH_ENTER_BIT; PB_GEOFENCE_BREACH_EXIT_BIT;
    PB_GEOFENCE_BREACH_DWELL_IN_BIT; PB_GEOFENCE_BREACH_DWELL_OUT_BIT].

(** * LocationDataTypes.h *)

Inductive LocationError : Type := LOCATION_ERROR_SUCCESS | LOCATION_ERROR_GENERAL_FAILURE
   | LOCATION_ERROR_CALLBACK_MISSING | LOCATION_ERROR_INVALID_PARAMETER | LOCATION_ERROR_ID_EXISTS
   | LOCATION_ERROR_ID_UNKNOWN | LOCATION_ERROR_ALREADY_STARTED | LOCATION_ERROR_GEOFENCES_AT_MAX
   | LOCATION_ERROR_NOT_SUPPORTED | LOCATION_ERROR_TIMEOUT | LOCATION_ERROR_GNSS_DISABLED.
Definition LocationError_val (c : LocationError) : Z := match c with LOCATION_ERROR_SUCCESS => 0
   | LOCATION_ERROR_GENERAL_FAILURE => 1 | LOCATION_ERROR_CALLBACK_MISSING => 2
   | LOCATION_ERROR_INVALID_PARAMETER => 3 | LOCATION_ERROR_ID_EXISTS => 4
   | LOCATION_ERROR_ID_UNKNOWN => 5 | LOCATION_ERROR_ALREADY_STARTED => 6
   | LOCATION_ERROR_GEOFENCES_AT_MAX => 7 | LOCATION_ERROR_NOT_SUPPORTED => 8
   | LOCATION_ERROR_TIMEOUT => 9 | LOCATION_ERROR_GNSS_DISABLED => 10 end.
Coercion LocationError_val : LocationError >-> Z.
Definition LocationError_all : list LocationError := [LOCATION_ERROR_SUCCESS;
    LOCATION_ERROR_GENERAL_FAILURE; LOCATION_ERROR_CALLBACK_MISSING;
    LOCATION_ERROR_INVALID_PARAMETER; LOCATION_ERROR_ID_EXISTS; LOCATION_ERROR_ID_UNKNOWN;
    LOCATION_ERROR_ALREADY_STARTED; LOCATION_ERROR_GEOFENCES_AT_MAX; LOCATION_ERROR_NOT_SUPPORTED;
    LOCATION_ERROR_TIMEOUT; LOCATION_ERROR_GNSS_DISABLED].

Inductive LocationFlagsBits : Type := LOCATION_HAS_LAT_LONG_BIT | LOCATION_HAS_ALTITUDE_BIT
   | LOCATION_HAS_SPEED_BIT | LOCATION_HAS_BEARING_BIT | LOCATION_HAS_ACCURACY_BIT
   | LOCATION_HAS_VERTICAL_ACCURACY_BIT | LOCATION_HAS_SPEED_ACCURACY_BIT
   | LOCATION_HAS_BEARING_ACCURACY_BIT | LOCATION_HAS_SPOOF_MASK | LOCATION_HAS_ELAPSED_REAL_TIME
   | LOCATION_HAS_CONFORMITY_INDEX_BIT.
Definition LocationFlagsBits_val (c : LocationFlagsBits) : Z := match c with
    LOCATION_HAS_LAT_LONG_BIT => 1 | LOCATION_HAS_ALTITUDE_BIT => 2 | LOCATION_HAS_SPEED_BIT => 4
   | LOCATION_HAS_BEARING_BIT => 8 | LOCATION_HAS_ACCURACY_BIT => 16
   | LOCATION_HAS_VERTICAL_ACCURACY_BIT => 32 | LOCATION_HAS_SPEED_ACCURACY_BIT => 64
   | LOCATION_HAS_BEARING_ACCURACY_BIT => 128 | LOCATION_HAS_SPOOF_MASK => 256
   | LOCATION_HAS_ELAPSED_REAL_TIME => 512 | LOCATION_HAS_CONFORMITY_INDEX_BIT => 1024 end.
Coercion LocationFlagsBits_val : LocationFlagsBits >-> Z.
Definition LocationFlagsBits_all : list LocationFlagsBits := [LOCATION_HAS_LAT_LONG_BIT;
    LOCATION_HAS_ALTITUDE_BIT; LOCATION_HAS_SPEED_BIT; LOCATION_HAS_BEARING_BIT;
    LOCATION_HAS_ACCURACY_BIT; LOCATION_HAS_VERTICAL_ACCURACY_BIT;
    LOCATION_HAS_SPEED_ACCURACY_BIT; LOCATION_HAS_BEARING_ACCURACY_BIT; LOCATION_HAS_SPOOF_MASK;
    LOCATION_HAS_ELAPSED_REAL_TIME; LOCATION_HAS_CONFORMITY_INDEX_BIT].

Inductive LocationTechnologyBits : Type := LOCATION_TECHNOLOGY_GNSS_BIT
   | LOCATION_TECHNOLOGY_CELL_BIT | LOCATION_TECHNOLOGY_WIFI_BIT | LOCATION_TECHNOLOGY_SENSORS_BIT
   | LOCATION_TECHNOLOGY_REFERENCE_LOCATION_BIT | LOCATION_TECHNOLOGY_INJECTED_COARSE_POSITION_BIT
   | LOCATION_TECHNOLOGY_AFLT_BIT | LOCATION_TECHNOLOGY_HYBRID_BIT | LOCATION_TECHNOLOGY_PPE_BIT
   | LOCATION_TECHNOLOGY_VEH_BIT | LOCATION_TECHNOLOGY_VIS_BIT | LOCATION_TECHNOLOGY_DGNSS_BIT.
Definition LocationTechnologyBits_val (c : LocationTechnologyBits) : Z := match c with
    LOCATION_TECHNOLOGY_GNSS_BIT => 1 | LOCATION_TECHNOLOGY_CELL_BIT => 2
   | LOCATION_TECHNOLOGY_WIFI_BIT => 4 | LOCATION_TECHNOLOGY_SENSORS_BIT => 8
   | LOCATION_TECHNOLOGY_REFERENCE_LOCATION_BIT => 16
   | LOCATION_TECHNOLOGY_INJECTED_COARSE_POSITION_BIT => 32 | LOCATION_TECHNOLOGY_AFLT_BIT => 64
   | LOCATION_TECHNOLOGY_HYBRID_BIT => 128 | LOCATION_TECHNOLOGY_PPE_BIT => 256
   | LOCATION_TECHNOLOGY_VEH_BIT => 512 | LOCATION_TECHNOLOGY_VIS_BIT => 1024
   | LOCATION_TECHNOLOGY_DGNSS_BIT => 2048 end.
Coercion LocationTechnologyBits_val : LocationTechnologyBits >-> Z.
Definition LocationTechnologyBits_all : list LocationTechnologyBits := [
    LOCATION_TECHNOLOGY_GNSS_BIT; LOCATION_TECHNOLOGY_CELL_BIT; LOCATION_TECHNOLOGY_WIFI_BIT;
    LOCATION_TECHNOLOGY_SENSORS_BIT; LOCATION_TECHNOLOGY_REFERENCE_LOCATION_BIT;
    LOCATION_TECHNOLOGY_INJECTED_COARSE_POSITION_BIT; LOCATION_TECHNOLOGY_AFLT_BIT;
    LOCATION_TECHNOLOGY_HYBRID_BIT; LOCATION_TECHNOLOGY_PPE_BIT; LOCATION_TECHNOLOGY_VEH_BIT;
    LOCATION_TECHNOLOGY_VIS_BIT; LOCATION_TECHNOLOGY_DGNSS_BIT].

Inductive LocationReliability : Type := LOCATION_RELIABILITY_NOT_SET
   | LOCATION_RELIABILITY_VERY_LOW | LOCATION_RELIABILITY_LOW | LOCATION_RELIABILITY_MEDIUM
   | LOCATION_RELIABILITY_HIGH.
Definition LocationReliability_val (c : LocationReliability) : Z := match c with
    LOCATION_RELIABILITY_NOT_SET => 0 | LOCATION_RELIABILITY_VERY_LOW => 1
   | LOCATION_RELIABILITY_LOW => 2 | LOCATION_RELIABILITY_MEDIUM => 3
   | LOCATION_RELIABILITY_HIGH => 4 end.
Coercion LocationReliability_val : LocationReliability >-> Z.
Definition LocationReliability_all : list LocationReliability := [LOCATION_RELIABILITY_NOT_SET;
    LOCATION_RELIABILITY_VERY_LOW; LOCATION_RELIABILITY_LOW; LOCATION_RELIABILITY_MEDIUM;
    LOCATION_RELIABILITY_HIGH].

Inductive GnssLocationNavSolutionBits : Type := LOCATION_SBAS_CORRECTION_IONO_BIT
   | LOCATION_SBAS_CORRECTION_FAST_BIT | LOCATION_SBAS_CORRECTION_LONG_BIT
   | LOCATION_SBAS_INTEGRITY_BIT | LOCATION_NAV_CORRECTION_DGNSS_BIT
   | LOCATION_NAV_CORRECTION_RTK_BIT | LOCATION_NAV_CORRECTION_PPP_BIT
   | LOCATION_NAV_CORRECTION_RTK_FIXED_BIT
   | LOCATION_NAV_CORRECTION_ONLY_SBAS_CORRECTED_SV_USED_BIT.
Definition GnssLocationNavSolutionBits_val (c : GnssLocationNavSolutionBits) : Z := match c with
    LOCATION_SBAS_CORRECTION_IONO_BIT => 1 | LOCATION_SBAS_CORRECTION_FAST_BIT => 2
   | LOCATION_SBAS_CORRECTION_LONG_BIT => 4 | LOCATION_SBAS_INTEGRITY_BIT => 8
   | LOCATION_NAV_CORRECTION_DGNSS_BIT => 16 | LOCATION_NAV_CORRECTION_RTK_BIT => 32
   | LOCATION_NAV_CORRECTION_PPP_BIT => 64 | LOCATION_NAV_CORRECTION_RTK_FIXED_BIT => 128
   | LOCATION_NAV_CORRECTION_ONLY_SBAS_CORRECTED_SV_USED_BIT => 256 end.
Coercion GnssLocationNavSolutionBits_val : GnssLocationNavSolutionBits >-> Z.
Definition GnssLocationNavSolutionBits_all : list GnssLocationNavSolutionBits := [
    LOCATION_SBAS_CORRECTION_IONO_BIT; LOCATION_SBAS_CORRECTION_FAST_BIT;
    LOCATION_SBAS_CORRECTION_LONG_BIT; LOCATION_SBAS_INTEGRITY_BIT;
    LOCATION_NAV_CORRECTION_DGNSS_BIT; LOCATION_NAV_CORRECTION_RTK_BIT;
    LOCATION_NAV_CORRECTION_PPP_BIT; LOCATION_NAV_CORRECTION_RTK_FIXED_BIT;
    LOCATION_NAV_CORRECTION_ONLY_SBAS_CORRECTED_SV_USED_BIT].

Inductive GnssLocationPosDataBits : Type := LOCATION_NAV_DATA_HAS_LONG_ACCEL_BIT
   | LOCATION_NAV_DATA_HAS_LAT_ACCEL_BIT | LOCATION_NAV_DATA_HAS_VERT_ACCEL_BIT
   | LOCATION_NAV_DATA_HAS_YAW_RATE_BIT | LOCATION_NAV_DATA_HAS_PITCH_BIT
   | LOCATION_NAV_DATA_HAS_LONG_ACCEL_UNC_BIT | LOCATION_NAV_DATA_HAS_LAT_ACCEL_UNC_BIT
   | LOCATION_NAV_DATA_HAS_VERT_ACCEL_UNC_BIT | LOCATION_NAV_DATA_HAS_YAW_RATE_UNC_BIT
   | LOCATION_NAV_DATA_HAS_PITCH_UNC_BIT.
Definition GnssLocationPosDataBits_val (c : GnssLocationPosDataBits) : Z := match c with
    LOCATION_NAV_DATA_HAS_LONG_ACCEL_BIT => 1 | LOCATION_NAV_DATA_HAS_LAT_ACCEL_BIT => 2
   | LOCATION_NAV_DATA_HAS_VERT_ACCEL_BIT => 4 | LOCATION_NAV_DATA_HAS_YAW_RATE_BIT => 8
   | LOCATION_NAV_DATA_HAS_PITCH_BIT => 16 | LOCATION_NAV_DATA_HAS_LONG_ACCEL_UNC_BIT => 32
   | LOCATION_NAV_DATA_HAS_LAT_ACCEL_UNC_BIT => 64
   | LOCATION_NAV_DATA_HAS_VERT_ACCEL_UNC_BIT => 128
   | LOCATION_NAV_DATA_HAS_YAW_RATE_UNC_BIT => 256 | LOCATION_NAV_DATA_HAS_PITCH_UNC_BIT => 512 end.
Coercion GnssLocationPosDataBits_val : GnssLocationPosDataBits >-> Z.
Definition GnssLocationPosDataBits_all : list GnssLocationPosDataBits := [
    LOCATION_NAV_DATA_HAS_LONG_ACCEL_BIT; LOCATION_NAV_DATA_HAS_LAT_ACCEL_BIT;
    LOCATION_NAV_DATA_HAS_VERT_ACCEL_BIT; LOCATION_NAV_DATA_HAS_YAW_RATE_BIT;
    LOCATION_NAV_DATA_HAS_PITCH_BIT; LOCATION_NAV_DATA_HAS_LONG_ACCEL_UNC_BIT;
    LOCATION_NAV_DATA_HAS_LAT_ACCEL_UNC_BIT; LOCATION_NAV_DATA_HAS_VERT_ACCEL_UNC_BIT;
    LOCATION_NAV_DATA_HAS_YAW_RATE_UNC_BIT; LOCATION_NAV_DATA_HAS_PITCH_UNC_BIT].

Inductive GnssLocationPosDataBitsExt : Type := LOCATION_NAV_DATA_HAS_PITCH_RATE_BIT
   | LOCATION_NAV_DATA_HAS_PITCH_RATE_UNC_BIT | LOCATION_NAV_DATA_HAS_ROLL_BIT
   | LOCATION_NAV_DATA_HAS_ROLL_UNC_BIT | LOCATION_NAV_DATA_HAS_ROLL_RATE_BIT
   | LOCATION_NAV_DATA_HAS_ROLL_RATE_UNC_BIT | LOCATION_NAV_DATA_HAS_YAW_BIT
   | LOCATION_NAV_DATA_HAS_YAW_UNC_BIT.
Definition GnssLocationPosDataBitsExt_val (c : GnssLocationPosDataBitsExt) : Z := match c with
    LOCATION_NAV_DATA_HAS_PITCH_RATE_BIT => 1 | LOCATION_NAV_DATA_HAS_PITCH_RATE_UNC_BIT => 2
   | LOCATION_NAV_DATA_HAS_ROLL_BIT => 4 | LOCATION_NAV_DATA_HAS_ROLL_UNC_BIT => 8
   | LOCATION_NAV_DATA_HAS_ROLL_RATE_BIT => 16 | LOCATION_NAV_DATA_HAS_ROLL_RATE_UNC_BIT => 32
   | LOCATION_NAV_DATA_HAS_YAW_BIT => 64 | LOCATION_NAV_DATA_HAS_YAW_UNC_BIT => 128 end.
Coercion GnssLocationPosDataBitsExt_val : GnssLocationPosDataBitsExt >-> Z.
Definition GnssLocationPosDataBitsExt_all : list GnssLocationPosDataBitsExt := [
    LOCATION_NAV_DATA_HAS_PITCH_RATE_BIT; LOCATION_NAV_DATA_HAS_PITCH_RATE_UNC_BIT;
    LOCATION_NAV_DATA_HAS_ROLL_BIT; LOCATION_NAV_DATA_HAS_ROLL_UNC_BIT;
    LOCATION_NAV_DATA_HAS_ROLL_RATE_BIT; LOCATION_NAV_DATA_HAS_ROLL_RATE_UNC_BIT;
    LOCATION_NAV_DATA_HAS_YAW_BIT; LOCATION_NAV_DATA_HAS_YAW_UNC_BIT].

Inductive GnssLocationInfoFlagBits : Type := GNSS_LOCATION_INFO_ALTITUDE_MEAN_SEA_LEVEL_BIT
   | GNSS_LOCATION_INFO_DOP_BIT | GNSS_LOCATION_INFO_MAGNETIC_DEVIATION_BIT
   | GNSS_LOCATION_INFO_HOR_RELIABILITY_BIT | GNSS_LOCATION_INFO_VER_RELIABILITY_BIT
   | GNSS_LOCATION_INFO_HOR_ACCURACY_ELIP_SEMI_MAJOR_BIT
   | GNSS_LOCATION_INFO_HOR_ACCURACY_ELIP_SEMI_MINOR_BIT
   | GNSS_LOCATION_INFO_HOR_ACCURACY_ELIP_AZIMUTH_BIT | GNSS_LOCATION_INFO_GNSS_SV_USED_DATA_BIT
   | GNSS_LOCATION_INFO_NAV_SOLUTION_MASK_BIT | GNSS_LOCATION_INFO_SV_SOURCE_INFO_BIT
   | GNSS_LOCATION_INFO_POS_DYNAMICS_DATA_BIT | GNSS_LOCATION_INFO_EXT_DOP_BIT
   | GNSS_LOCATION_INFO_NORTH_STD_DEV_BIT | GNSS_LOCATION_INFO_EAST_STD_DEV_BIT
   | GNSS_LOCATION_INFO_NORTH_VEL_BIT | GNSS_LOCATION_INFO_EAST_VEL_BIT
   | GNSS_LOCATION_INFO_UP_VEL_BIT | GNSS_LOCATION_INFO_NORTH_VEL_UNC_BIT
   | GNSS_LOCATION_INFO_EAST_VEL_UNC_BIT | GNSS_LOCATION_INFO_UP_VEL_UNC_BIT
   | GNSS_LOCATION_INFO_LEAP_SECONDS_BIT | GNSS_LOCATION_INFO_TIME_UNC_BIT
   | GNSS_LOCATION_INFO_NUM_SV_USED_IN_POSITION_BIT
   | GNSS_LOCATION_INFO_CALIBRATION_CONFIDENCE_BIT | GNSS_LOCATION_INFO_CALIBRATION_STATUS_BIT
   | GNSS_LOCATION_INFO_OUTPUT_ENG_TYPE_BIT | GNSS_LOCATION_INFO_OUTPUT_ENG_MASK_BIT
   | GNSS_LOCATION_INFO_CONFORMITY_INDEX_BIT | GNSS_LOCATION_INFO_LLA_VRP_BASED_BIT
   | GNSS_LOCATION_INFO_ENU_VELOCITY_VRP_BASED_BIT
   | GNSS_LOCATION_INFO_DR_SOLUTION_STATUS_MASK_BIT | GNSS_LOCATION_INFO_ALTITUDE_ASSUMED_BIT
   | GNSS_LOCATION_INFO_SESSION_STATUS_BIT.
Definition GnssLocationInfoFlagBits_val (c : GnssLocationInfoFlagBits) : Z := match c with
    GNSS_LOCATION_INFO_ALTITUDE_MEAN_SEA_LEVEL_BIT => 1 | GNSS_LOCATION_INFO_DOP_BIT => 2
   | GNSS_LOCATION_INFO_MAGNETIC_DEVIATION_BIT => 4 | GNSS_LOCATION_INFO_HOR_RELIABILITY_BIT => 8
   | GNSS_LOCATION_INFO_VER_RELIABILITY_BIT => 16
   | GNSS_LOCATION_INFO_HOR_ACCURACY_ELIP_SEMI_MAJOR_BIT => 32
   | GNSS_LOCATION_INFO_HOR_ACCURACY_ELIP_SEMI_MINOR_BIT => 64
   | GNSS_LOCATION_INFO_HOR_ACCURACY_ELIP_AZIMUTH_BIT => 128
   | GNSS_LOCATION_INFO_GNSS_SV_USED_DATA_BIT => 256
   | GNSS_LOCATION_INFO_NAV_SOLUTION_MASK_BIT => 512
   | GNSS_LOCATION_INFO_SV_SOURCE_INFO_BIT => 1024
   | GNSS_LOCATION_INFO_POS_DYNAMICS_DATA_BIT => 2048 | GNSS_LOCATION_INFO_EXT_DOP_BIT => 4096
   | GNSS_LOCATION_INFO_NORTH_STD_DEV_BIT => 8192 | GNSS_LOCATION_INFO_EAST_STD_DEV_BIT => 16384
   | GNSS_LOCATION_INFO_NORTH_VEL_BIT => 32768 | GNSS_LOCATION_INFO_EAST_VEL_BIT => 65536
   | GNSS_LOCATION_INFO_UP_VEL_BIT => 131072 | GNSS_LOCATION_INFO_NORTH_VEL_UNC_BIT => 262144
   | GNSS_LOCATION_INFO_EAST_VEL_UNC_BIT => 524288 | GNSS_LOCATION_INFO_UP_VEL_UNC_BIT => 1048576
   | GNSS_LOCATION_INFO_LEAP_SECONDS_BIT => 2097152 | GNSS_LOCATION_INFO_TIME_UNC_BIT => 4194304
   | GNSS_LOCATION_INFO_NUM_SV_USED_IN_POSITION_BIT => 8388608
   | GNSS_LOCATION_INFO_CALIBRATION_CONFIDENCE_BIT => 16777216
   | GNSS_LOCATION_INFO_CALIBRATION_STATUS_BIT => 33554432
   | GNSS_LOCATION_INFO_OUTPUT_ENG_TYPE_BIT => 67108864
   | GNSS_LOCATION_INFO_OUTPUT_ENG_MASK_BIT => 134217728
   | GNSS_LOCATION_INFO_CONFORMITY_INDEX_BIT => 268435456
   | GNSS_LOCATION_INFO_LLA_VRP_BASED_BIT => 536870912
   | GNSS_LOCATION_INFO_ENU_VELOCITY_VRP_BASED_BIT => 1073741824
   | GNSS_LOCATION_INFO_DR_SOLUTION_STATUS_MASK_BIT => 2147483648
   | GNSS_LOCATION_INFO_ALTITUDE_ASSUMED_BIT => 4294967296
   | GNSS_LOCATION_INFO_SESSION_STATUS_BIT => 8589934592 end.
Coercion GnssLocationInfoFlagBits_val : GnssLocationInfoFlagBits >-> Z.
Definition GnssLocationInfoFlagBits_all : list GnssLocationInfoFlagBits := [
    GNSS_LOCATION_INFO_ALTITUDE_MEAN_SEA_LEVEL_BIT; GNSS_LOCATION_INFO_DOP_BIT;
    GNSS_LOCATION_INFO_MAGNETIC_DEVIATION_BIT; GNSS_LOCATION_INFO_HOR_RELIABILITY_BIT;
    GNSS_LOCATION_INFO_VER_RELIABILITY_BIT; GNSS_LOCATION_INFO_HOR_ACCURACY_ELIP_SEMI_MAJOR_BIT;
    GNSS_LOCATION_INFO_HOR_ACCURACY_ELIP_SEMI_MINOR_BIT;
    GNSS_LOCATION_INFO_HOR_ACCURACY_ELIP_AZIMUTH_BIT; GNSS_LOCATION_INFO_GNSS_SV_USED_DATA_BIT;
    GNSS_LOCATION_INFO_NAV_SOLUTION_MASK_BIT; GNSS_LOCATION_INFO_SV_SOURCE_INFO_BIT;
    GNSS_LOCATION_INFO_POS_DYNAMICS_DATA_BIT; GNSS_LOCATION_INFO_EXT_DOP_BIT;
    GNSS_LOCATION_INFO_NORTH_STD_DEV_BIT; GNSS_LOCATION_INFO_EAST_STD_DEV_BIT;
    GNSS_LOCATION_INFO_NORTH_VEL_BIT; GNSS_LOCATION_INFO_EAST_VEL_BIT;
    GNSS_LOCATION_INFO_UP_VEL_BIT; GNSS_LOCATION_INFO_NORTH_VEL_UNC_BIT;
    GNSS_LOCATION_INFO_EAST_VEL_UNC_BIT; GNSS_LOCATION_INFO_UP_VEL_UNC_BIT;
    GNSS_LOCATION_INFO_LEAP_SECONDS_BIT; GNSS_LOCATION_INFO_TIME_UNC_BIT;
    GNSS_LOCATION_INFO_NUM_SV_USED_IN_POSITION_BIT; GNSS_LOCATION_INFO_CALIBRATION_CONFIDENCE_BIT;
    GNSS_LOCATION_INFO_CALIBRATION_STATUS_BIT; GNSS_LOCATION_INFO_OUTPUT_ENG_TYPE_BIT;
    GNSS_LOCATION_INFO_OUTPUT_ENG_MASK_BIT; GNSS_LOCATION_INFO_CONFORMITY_INDEX_BIT;
    GNSS_LOCATION_INFO_LLA_VRP_BASED_BIT; GNSS_LOCATION_INFO_ENU_VELOCITY_VRP_BASED_BIT;
    GNSS_LOCATION_INFO_DR_SOLUTION_STATUS_MASK_BIT; GNSS_LOCATION_INFO_ALTITUDE_ASSUMED_BIT;
    GNSS_LOCATION_INFO_SESSION_STATUS_BIT].

Inductive GeofenceBreachTypeBits : Type := GEOFENCE_BREACH_ENTER_BIT | GEOFENCE_BREACH_EXIT_BIT
   | GEOFENCE_BREACH_DWELL_IN_BIT | GEOFENCE_BREACH_DWELL_OUT_BIT.
Definition GeofenceBreachTypeBits_val (c : GeofenceBreachTypeBits) : Z := match c with
    GEOFENCE_BREACH_ENTER_BIT => 1 | GEOFENCE_BREACH_EXIT_BIT => 2
   | GEOFENCE_BREACH_DWELL_IN_BIT => 4 | GEOFENCE_BREACH_DWELL_OUT_BIT => 8 end.
Coercion GeofenceBreachTypeBits_val : GeofenceBreachTypeBits >-> Z.
Definition GeofenceBreachTypeBits_all : list GeofenceBreachTypeBits := [GEOFENCE_BREACH_ENTER_BIT;
    GEOFENCE_BREACH_EXIT_BIT; GEOFENCE_BREACH_DWELL_IN_BIT; GEOFENCE_BREACH_DWELL_OUT_BIT].

Inductive LocationCapabilitiesBits : Type := LOCATION_CAPABILITIES_TIME_BASED_TRACKING_BIT
   | LOCATION_CAPABILITIES_TIME_BASED_BATCHING_BIT
   | LOCATION_CAPABILITIES_DISTANCE_BASED_TRACKING_BIT
   | LOCATION_CAPABILITIES_DISTANCE_BASED_BATCHING_BIT | LOCATION_CAPABILITIES_GEOFENCE_BIT
   | LOCATION_CAPABILITIES_GNSS_MEASUREMENTS_BIT | LOCATION_CAPABILITIES_GNSS_MSB_BIT
   | LOCATION_CAPABILITIES_GNSS_MSA_BIT | LOCATION_CAPABILITIES_DEBUG_NMEA_BIT
   | LOCATION_CAPABILITIES_OUTDOOR_TRIP_BATCHING_BIT
   | LOCATION_CAPABILITIES_CONSTELLATION_ENABLEMENT_BIT | LOCATION_CAPABILITIES_AGPM_BIT
   | LOCATION_CAPABILITIES_PRIVACY_BIT | LOCATION_CAPABILITIES_MEASUREMENTS_CORRECTION_BIT
   | LOCATION_CAPABILITIES_CONFORMITY_INDEX_BIT | LOCATION_CAPABILITIES_EDGNSS_BIT
   | LOCATION_CAPABILITIES_QWES_CARRIER_PHASE_BIT | LOCATION_CAPABILITIES_QWES_SV_POLYNOMIAL_BIT
   | LOCATION_CAPABILITIES_QWES_SV_EPHEMERIS_BIT
   | LOCATION_CAPABILITIES_QWES_GNSS_SINGLE_FREQUENCY
   | LOCATION_CAPABILITIES_QWES_GNSS_MULTI_FREQUENCY | LOCATION_CAPABILITIES_QWES_VPE
   | LOCATION_CAPABILITIES_QWES_CV2X_LOCATION_BASIC
   | LOCATION_CAPABILITIES_QWES_CV2X_LOCATION_PREMIUM | LOCATION_CAPABILITIES_QWES_PPE
   | LOCATION_CAPABILITIES_QWES_QDR2 | LOCATION_CAPABILITIES_QWES_QDR3.
Definition LocationCapabilitiesBits_val (c : LocationCapabilitiesBits) : Z := match c with
    LOCATION_CAPABILITIES_TIME_BASED_TRACKING_BIT => 1
   | LOCATION_CAPABILITIES_TIME_BASED_BATCHING_BIT => 2
   | LOCATION_CAPABILITIES_DISTANCE_BASED_TRACKING_BIT => 4
   | LOCATION_CAPABILITIES_DISTANCE_BASED_BATCHING_BIT => 8
   | LOCATION_CAPABILITIES_GEOFENCE_BIT => 16 | LOCATION_CAPABILITIES_GNSS_MEASUREMENTS_BIT => 32
   | LOCATION_CAPABILITIES_GNSS_MSB_BIT => 64 | LOCATION_CAPABILITIES_GNSS_MSA_BIT => 128
   | LOCATION_CAPABILITIES_DEBUG_NMEA_BIT => 256
   | LOCATION_CAPABILITIES_OUTDOOR_TRIP_BATCHING_BIT => 512
   | LOCATION_CAPABILITIES_CONSTELLATION_ENABLEMENT_BIT => 1024
   | LOCATION_CAPABILITIES_AGPM_BIT => 2048 | LOCATION_CAPABILITIES_PRIVACY_BIT => 4096
   | LOCATION_CAPABILITIES_MEASUREMENTS_CORRECTION_BIT => 8192
   | LOCATION_CAPABILITIES_CONFORMITY_INDEX_BIT => 16384
   | LOCATION_CAPABILITIES_EDGNSS_BIT => 32768
   | LOCATION_CAPABILITIES_QWES_CARRIER_PHASE_BIT => 65536
   | LOCATION_CAPABILITIES_QWES_SV_POLYNOMIAL_BIT => 131072
   | LOCATION_CAPABILITIES_QWES_SV_EPHEMERIS_BIT => 262144
   | LOCATION_CAPABILITIES_QWES_GNSS_SINGLE_FREQUENCY => 524288
   | LOCATION_CAPABILITIES_QWES_GNSS_MULTI_FREQUENCY => 1048576
   | LOCATION_CAPABILITIES_QWES_VPE => 2097152
   | LOCATION_CAPABILITIES_QWES_CV2X_LOCATION_BASIC => 4194304
   | LOCATION_CAPABILITIES_QWES_CV2X_LOCATION_PREMIUM => 8388608
   | LOCATION_CAPABILITIES_QWES_PPE => 16777216 | LOCATION_CAPABILITIES_QWES_QDR2 => 33554432
   | LOCATION_CAPABILITIES_QWES_QDR3 => 67108864 end.
Coercion LocationCapabilitiesBits_val : LocationCapabilitiesBits >-> Z.
Definition LocationCapabilitiesBits_all : list LocationCapabilitiesBits := [
    LOCATION_CAPABILITIES_TIME_BASED_TRACKING_BIT; LOCATION_CAPABILITIES_TIME_BASED_BATCHING_BIT;
    LOCATION_CAPABILITIES_DISTANCE_BASED_TRACKING_BIT;
    LOCATION_CAPABILITIES_DISTANCE_BASED_BATCHING_BIT; LOCATION_CAPABILITIES_GEOFENCE_BIT;
    LOCATION_CAPABILITIES_GNSS_MEASUREMENTS_BIT; LOCATION_CAPABILITIES_GNSS_MSB_BIT;
    LOCATION_CAPABILITIES_GNSS_MSA_BIT; LOCATION_CAPABILITIES_DEBUG_NMEA_BIT;
    LOCATION_CAPABILITIES_OUTDOOR_TRIP_BATCHING_BIT;
    LOCATION_CAPABILITIES_CONSTELLATION_ENABLEMENT_BIT; LOCATION_CAPABILITIES_AGPM_BIT;
    LOCATION_CAPABILITIES_PRIVACY_BIT; LOCATION_CAPABILITIES_MEASUREMENTS_CORRECTION_BIT;
    LOCATION_CAPABILITIES_CONFORMITY_INDEX_BIT; LOCATION_CAPABILITIES_EDGNSS_BIT;
    LOCATION_CAPABILITIES_QWES_CARRIER_PHASE_BIT; LOCATION_CAPABILITIES_QWES_SV_POLYNOMIAL_BIT;
    LOCATION_CAPABILITIES_QWES_SV_EPHEMERIS_BIT; LOCATION_CAPABILITIES_QWES_GNSS_SINGLE_FREQUENCY;
    LOCATION_CAPABILITIES_QWES_GNSS_MULTI_FREQUENCY; LOCATION_CAPABILITIES_QWES_VPE;
    LOCATION_CAPABILITIES_QWES_CV2X_LOCATION_BASIC;
    LOCATION_CAPABILITIES_QWES_CV2X_LOCATION_PREMIUM; LOCATION_CAPABILITIES_QWES_PPE;
    LOCATION_CAPABILITIES_QWES_QDR2; LOCATION_CAPABILITIES_QWES_QDR3].

Inductive GnssSvType : Type := GNSS_SV_TYPE_UNKNOWN | GNSS_SV_TYPE_GPS | GNSS_SV_TYPE_SBAS
   | GNSS_SV_TYPE_GLONASS | GNSS_SV_TYPE_QZSS | GNSS_SV_TYPE_BEIDOU | GNSS_SV_TYPE_GALILEO
   | GNSS_SV_TYPE_NAVIC.
Definition GnssSvType_val (c : GnssSvType) : Z := match c with GNSS_SV_TYPE_UNKNOWN => 0
   | GNSS_SV_TYPE_GPS => 1 | GNSS_SV_TYPE_SBAS => 2 | GNSS_SV_TYPE_GLONASS => 3
   | GNSS_SV_TYPE_QZSS => 4 | GNSS_SV_TYPE_BEIDOU => 5 | GNSS_SV_TYPE_GALILEO => 6
   | GNSS_SV_TYPE_NAVIC => 7 end.
Coercion GnssSvType_val : GnssSvType >-> Z.
Definition GnssSvType_all : list GnssSvType := [GNSS_SV_TYPE_UNKNOWN; GNSS_SV_TYPE_GPS;
    GNSS_SV_TYPE_SBAS; GNSS_SV_TYPE_GLONASS; GNSS_SV_TYPE_QZSS; GNSS_SV_TYPE_BEIDOU;
    GNSS_SV_TYPE_GALILEO; GNSS_SV_TYPE_NAVIC].

Inductive GnssSvOptionsBits : Type := GNSS_SV_OPTIONS_HAS_EPHEMER_BIT
   | GNSS_SV_OPTIONS_HAS_ALMANAC_BIT | GNSS_SV_OPTIONS_USED_IN_FIX_BIT
   | GNSS_SV_OPTIONS_HAS_CARRIER_FREQUENCY_BIT | GNSS_SV_OPTIONS_HAS_GNSS_SIGNAL_TYPE_BIT.
Definition GnssSvOptionsBits_val (c : GnssSvOptionsBits) : Z := match c with
    GNSS_SV_OPTIONS_HAS_EPHEMER_BIT => 1 | GNSS_SV_OPTIONS_HAS_ALMANAC_BIT => 2
   | GNSS_SV_OPTIONS_USED_IN_FIX_BIT => 4 | GNSS_SV_OPTIONS_HAS_CARRIER_FREQUENCY_BIT => 8
   | GNSS_SV_OPTIONS_HAS_GNSS_SIGNAL_TYPE_BIT => 16 end.
Coercion GnssSvOptionsBits_val : GnssSvOptionsBits >-> Z.
Definition GnssSvOptionsBits_all : list GnssSvOptionsBits := [GNSS_SV_OPTIONS_HAS_EPHEMER_BIT;
    GNSS_SV_OPTIONS_HAS_ALMANAC_BIT; GNSS_SV_OPTIONS_USED_IN_FIX_BIT;
    GNSS_SV_OPTIONS_HAS_CARRIER_FREQUENCY_BIT; GNSS_SV_OPTIONS_HAS_GNSS_SIGNAL_TYPE_BIT].

Inductive GnssSuplMode : Type := GNSS_SUPL_MODE_STANDALONE | GNSS_SUPL_MODE_MSB
   | GNSS_SUPL_MODE_MSA.
Definition GnssSuplMode_val (c : GnssSuplMode) : Z := match c with GNSS_SUPL_MODE_STANDALONE => 0
   | GNSS_SUPL_MODE_MSB => 1 | GNSS_SUPL_MODE_MSA => 2 end.
Coercion GnssSuplMode_val : GnssSuplMode >-> Z.
Definition GnssSuplMode_all : list GnssSuplMode := [GNSS_SUPL_MODE_STANDALONE; GNSS_SUPL_MODE_MSB;
    GNSS_SUPL_MODE_MSA].

Inductive BatchingMode : Type := BATCHING_MODE_ROUTINE | BATCHING_MODE_TRIP
   | BATCHING_MODE_NO_AUTO_REPORT.
Definition BatchingMode_val (c : BatchingMode) : Z := match c with BATCHING_MODE_ROUTINE => 0
   | BATCHING_MODE_TRIP => 1 | BATCHING_MODE_NO_AUTO_REPORT => 2 end.
Coercion BatchingMode_val : BatchingMode >-> Z.
Definition BatchingMode_all : list BatchingMode := [BATCHING_MODE_ROUTINE; BATCHING_MODE_TRIP;
    BATCHING_MODE_NO_AUTO_REPORT].

Inductive BatchingStatus : Type := BATCHING_STATUS_TRIP_COMPLETED
   | BATCHING_STATUS_POSITION_AVAILABE | BATCHING_STATUS_POSITION_UNAVAILABLE.
Definition BatchingStatus_val (c : BatchingStatus) : Z := match c with
    BATCHING_STATUS_TRIP_COMPLETED => 0 | BATCHING_STATUS_POSITION_AVAILABE => 1
   | BATCHING_STATUS_POSITION_UNAVAILABLE => 2 end.
Coercion BatchingStatus_val : BatchingStatus >-> Z.
Definition BatchingStatus_all : list BatchingStatus := [BATCHING_STATUS_TRIP_COMPLETED;
    BATCHING_STATUS_POSITION_AVAILABE; BATCHING_STATUS_POSITION_UNAVAILABLE].

Inductive GnssMeasurementsAdrStateBits : Type :=
    GNSS_MEASUREMENTS_ACCUMULATED_DELTA_RANGE_STATE_UNKNOWN
   | GNSS_MEASUREMENTS_ACCUMULATED_DELTA_RANGE_STATE_VALID_BIT
   | GNSS_MEASUREMENTS_ACCUMULATED_DELTA_RANGE_STATE_RESET_BIT
   | GNSS_MEASUREMENTS_ACCUMULATED_DELTA_RANGE_STATE_CYCLE_SLIP_BIT
   | GNSS_MEASUREMENTS_ACCUMULATED_DELTA_RANGE_STATE_HALF_CYCLE_RESOLVED_BIT.
Definition GnssMeasurementsAdrStateBits_val (c : GnssMeasurementsAdrStateBits) : Z := match c with
    GNSS_MEASUREMENTS_ACCUMULATED_DELTA_RANGE_STATE_UNKNOWN => 0
   | GNSS_MEASUREMENTS_ACCUMULATED_DELTA_RANGE_STATE_VALID_BIT => 1
   | GNSS_MEASUREMENTS_ACCUMULATED_DELTA_RANGE_STATE_RESET_BIT => 2
   | GNSS_MEASUREMENTS_ACCUMULATED_DELTA_RANGE_STATE_CYCLE_SLIP_BIT => 4
   | GNSS_MEASUREMENTS_ACCUMULATED_DELTA_RANGE_STATE_HALF_CYCLE_RESOLVED_BIT => 8 end.
Coercion GnssMeasurementsAdrStateBits_val : GnssMeasurementsAdrStateBits >-> Z.
Definition GnssMeasurementsAdrStateBits_all : list GnssMeasurementsAdrStateBits := [
    GNSS_MEASUREMENTS_ACCUMULATED_DELTA_RANGE_STATE_UNKNOWN;
    GNSS_MEASUREMENTS_ACCUMULATED_DELTA_RANGE_STATE_VALID_BIT;
    GNSS_MEASUREMENTS_ACCUMULATED_DELTA_RANGE_STATE_RESET_BIT;
    GNSS_MEASUREMENTS_ACCUMULATED_DELTA_RANGE_STATE_CYCLE_SLIP_BIT;
    GNSS_MEASUREMENTS_ACCUMULATED_DELTA_RANGE_STATE_HALF_CYCLE_RESOLVED_BIT].

Inductive GnssMeasurementsDataFlagsBits : Type := GNSS_MEASUREMENTS_DATA_SV_ID_BIT
   | GNSS_MEASUREMENTS_DATA_SV_TYPE_BIT | GNSS_MEASUREMENTS_DATA_STATE_BIT
   | GNSS_MEASUREMENTS_DATA_RECEIVED_SV_TIME_BIT
   | GNSS_MEASUREMENTS_DATA_RECEIVED_SV_TIME_UNCERTAINTY_BIT
   | GNSS_MEASUREMENTS_DATA_CARRIER_TO_NOISE_BIT | GNSS_MEASUREMENTS_DATA_PSEUDORANGE_RATE_BIT
   | GNSS_MEASUREMENTS_DATA_PSEUDORANGE_RATE_UNCERTAINTY_BIT
   | GNSS_MEASUREMENTS_DATA_ADR_STATE_BIT | GNSS_MEASUREMENTS_DATA_ADR_BIT
   | GNSS_MEASUREMENTS_DATA_ADR_UNCERTAINTY_BIT | GNSS_MEASUREMENTS_DATA_CARRIER_FREQUENCY_BIT
   | GNSS_MEASUREMENTS_DATA_CARRIER_CYCLES_BIT | GNSS_MEASUREMENTS_DATA_CARRIER_PHASE_BIT
   | GNSS_MEASUREMENTS_DATA_CARRIER_PHASE_UNCERTAINTY_BIT
   | GNSS_MEASUREMENTS_DATA_MULTIPATH_INDICATOR_BIT
   | GNSS_MEASUREMENTS_DATA_SIGNAL_TO_NOISE_RATIO_BIT
   | GNSS_MEASUREMENTS_DATA_AUTOMATIC_GAIN_CONTROL_BIT | GNSS_MEASUREMENTS_DATA_FULL_ISB_BIT
   | GNSS_MEASUREMENTS_DATA_FULL_ISB_UNCERTAINTY_BIT | GNSS_MEASUREMENTS_DATA_SATELLITE_ISB_BIT
   | GNSS_MEASUREMENTS_DATA_SATELLITE_ISB_UNCERTAINTY_BIT
   | GNSS_MEASUREMENTS_DATA_CYCLE_SLIP_COUNT_BIT.
Definition GnssMeasurementsDataFlagsBits_val (c : GnssMeasurementsDataFlagsBits) : Z := match c with
    GNSS_MEASUREMENTS_DATA_SV_ID_BIT => 1 | GNSS_MEASUREMENTS_DATA_SV_TYPE_BIT => 2
   | GNSS_MEASUREMENTS_DATA_STATE_BIT => 4 | GNSS_MEASUREMENTS_DATA_RECEIVED_SV_TIME_BIT => 8
   | GNSS_MEASUREMENTS_DATA_RECEIVED_SV_TIME_UNCERTAINTY_BIT => 16
   | GNSS_MEASUREMENTS_DATA_CARRIER_TO_NOISE_BIT => 32
   | GNSS_MEASUREMENTS_DATA_PSEUDORANGE_RATE_BIT => 64
   | GNSS_MEASUREMENTS_DATA_PSEUDORANGE_RATE_UNCERTAINTY_BIT => 128
   | GNSS_MEASUREMENTS_DATA_ADR_STATE_BIT => 256 | GNSS_MEASUREMENTS_DATA_ADR_BIT => 512
   | GNSS_MEASUREMENTS_DATA_ADR_UNCERTAINTY_BIT => 1024
   | GNSS_MEASUREMENTS_DATA_CARRIER_FREQUENCY_BIT => 2048
   | GNSS_MEASUREMENTS_DATA_CARRIER_CYCLES_BIT => 4096
   | GNSS_MEASUREMENTS_DATA_CARRIER_PHASE_BIT => 8192
   | GNSS_MEASUREMENTS_DATA_CARRIER_PHASE_UNCERTAINTY_BIT => 16384
   | GNSS_MEASUREMENTS_DATA_MULTIPATH_INDICATOR_BIT => 32768
   | GNSS_MEASUREMENTS_DATA_SIGNAL_TO_NOISE_RATIO_BIT => 65536
   | GNSS_MEASUREMENTS_DATA_AUTOMATIC_GAIN_CONTROL_BIT => 131072
   | GNSS_MEASUREMENTS_DATA_FULL_ISB_BIT => 262144
   | GNSS_MEASUREMENTS_DATA_FULL_ISB_UNCERTAINTY_BIT => 524288
   | GNSS_MEASUREMENTS_DATA_SATELLITE_ISB_BIT => 1048576
   | GNSS_MEASUREMENTS_DATA_SATELLITE_ISB_UNCERTAINTY_BIT => 2097152
   | GNSS_MEASUREMENTS_DATA_CYCLE_SLIP_COUNT_BIT => 4194304 end.
Coercion GnssMeasurementsDataFlagsBits_val : GnssMeasurementsDataFlagsBits >-> Z.
Definition GnssMeasurementsDataFlagsBits_all : list GnssMeasurementsDataFlagsBits := [
    GNSS_MEASUREMENTS_DATA_SV_ID_BIT; GNSS_MEASUREMENTS_DATA_SV_TYPE_BIT;
    GNSS_MEASUREMENTS_DATA_STATE_BIT; GNSS_MEASUREMENTS_DATA_RECEIVED_SV_TIME_BIT;
    GNSS_MEASUREMENTS_DATA_RECEIVED_SV_TIME_UNCERTAINTY_BIT;
    GNSS_MEASUREMENTS_DATA_CARRIER_TO_NOISE_BIT; GNSS_MEASUREMENTS_DATA_PSEUDORANGE_RATE_BIT;
    GNSS_MEASUREMENTS_DATA_PSEUDORANGE_RATE_UNCERTAINTY_BIT; GNSS_MEASUREMENTS_DATA_ADR_STATE_BIT;
    GNSS_MEASUREMENTS_DATA_ADR_BIT; GNSS_MEASUREMENTS_DATA_ADR_UNCERTAINTY_BIT;
    GNSS_MEASUREMENTS_DATA_CARRIER_FREQUENCY_BIT; GNSS_MEASUREMENTS_DATA_CARRIER_CYCLES_BIT;
    GNSS_MEASUREMENTS_DATA_CARRIER_PHASE_BIT;
    GNSS_MEASUREMENTS_DATA_CARRIER_PHASE_UNCERTAINTY_BIT;
    GNSS_MEASUREMENTS_DATA_MULTIPATH_INDICATOR_BIT;
    GNSS_MEASUREMENTS_DATA_SIGNAL_TO_NOISE_RATIO_BIT;
    GNSS_MEASUREMENTS_DATA_AUTOMATIC_GAIN_CONTROL_BIT; GNSS_MEASUREMENTS_DATA_FULL_ISB_BIT;
    GNSS_MEASUREMENTS_DATA_FULL_ISB_UNCERTAINTY_BIT; GNSS_MEASUREMENTS_DATA_SATELLITE_ISB_BIT;
    GNSS_MEASUREMENTS_DATA_SATELLITE_ISB_UNCERTAINTY_BIT;
    GNSS_MEASUREMENTS_DATA_CYCLE_SLIP_COUNT_BIT].

Inductive GnssMeasurementsStateBits : Type := GNSS_MEASUREMENTS_STATE_UNKNOWN_BIT
   | GNSS_MEASUREMENTS_STATE_CODE_LOCK_BIT | GNSS_MEASUREMENTS_STATE_BIT_SYNC_BIT
   | GNSS_MEASUREMENTS_STATE_SUBFRAME_SYNC_BIT | GNSS_MEASUREMENTS_STATE_TOW_DECODED_BIT
   | GNSS_MEASUREMENTS_STATE_MSEC_AMBIGUOUS_BIT | GNSS_MEASUREMENTS_STATE_SYMBOL_SYNC_BIT
   | GNSS_MEASUREMENTS_STATE_GLO_STRING_SYNC_BIT | GNSS_MEASUREMENTS_STATE_GLO_TOD_DECODED_BIT
   | GNSS_MEASUREMENTS_STATE_BDS_D2_BIT_SYNC_BIT
   | GNSS_MEASUREMENTS_STATE_BDS_D2_SUBFRAME_SYNC_BIT
   | GNSS_MEASUREMENTS_STATE_GAL_E1BC_CODE_LOCK_BIT
   | GNSS_MEASUREMENTS_STATE_GAL_E1C_2ND_CODE_LOCK_BIT
   | GNSS_MEASUREMENTS_STATE_GAL_E1B_PAGE_SYNC_BIT | GNSS_MEASUREMENTS_STATE_SBAS_SYNC_BIT
   | GNSS_MEASUREMENTS_STATE_TOW_KNOWN_BIT | GNSS_MEASUREMENTS_STATE_GLO_TOD_KNOWN_BIT
   | GNSS_MEASUREMENTS_STATE_2ND_CODE_LOCK_BIT.
Definition GnssMeasurementsStateBits_val (c : GnssMeasurementsStateBits) : Z := match c with
    GNSS_MEASUREMENTS_STATE_UNKNOWN_BIT => 0 | GNSS_MEASUREMENTS_STATE_CODE_LOCK_BIT => 1
   | GNSS_MEASUREMENTS_STATE_BIT_SYNC_BIT => 2 | GNSS_MEASUREMENTS_STATE_SUBFRAME_SYNC_BIT => 4
   | GNSS_MEASUREMENTS_STATE_TOW_DECODED_BIT => 8
   | GNSS_MEASUREMENTS_STATE_MSEC_AMBIGUOUS_BIT => 16
   | GNSS_MEASUREMENTS_STATE_SYMBOL_SYNC_BIT => 32
   | GNSS_MEASUREMENTS_STATE_GLO_STRING_SYNC_BIT => 64
   | GNSS_MEASUREMENTS_STATE_GLO_TOD_DECODED_BIT => 128
   | GNSS_MEASUREMENTS_STATE_BDS_D2_BIT_SYNC_BIT => 256
   | GNSS_MEASUREMENTS_STATE_BDS_D2_SUBFRAME_SYNC_BIT => 512
   | GNSS_MEASUREMENTS_STATE_GAL_E1BC_CODE_LOCK_BIT => 1024
   | GNSS_MEASUREMENTS_STATE_GAL_E1C_2ND_CODE_LOCK_BIT => 2048
   | GNSS_MEASUREMENTS_STATE_GAL_E1B_PAGE_SYNC_BIT => 4096
   | GNSS_MEASUREMENTS_STATE_SBAS_SYNC_BIT => 8192
   | GNSS_MEASUREMENTS_STATE_TOW_KNOWN_BIT => 16384
   | GNSS_MEASUREMENTS_STATE_GLO_TOD_KNOWN_BIT => 32768
   | GNSS_MEASUREMENTS_STATE_2ND_CODE_LOCK_BIT => 65536 end.
Coercion GnssMeasurementsStateBits_val : GnssMeasurementsStateBits >-> Z.
Definition GnssMeasurementsStateBits_all : list GnssMeasurementsStateBits := [
    GNSS_MEASUREMENTS_STATE_UNKNOWN_BIT; GNSS_MEASUREMENTS_STATE_CODE_LOCK_BIT;
    GNSS_MEASUREMENTS_STATE_BIT_SYNC_BIT; GNSS_MEASUREMENTS_STATE_SUBFRAME_SYNC_BIT;
    GNSS_MEASUREMENTS_STATE_TOW_DECODED_BIT; GNSS_MEASUREMENTS_STATE_MSEC_AMBIGUOUS_BIT;
    GNSS_MEASUREMENTS_STATE_SYMBOL_SYNC_BIT; GNSS_MEASUREMENTS_STATE_GLO_STRING_SYNC_BIT;
    GNSS_MEASUREMENTS_STATE_GLO_TOD_DECODED_BIT; GNSS_MEASUREMENTS_STATE_BDS_D2_BIT_SYNC_BIT;
    GNSS_MEASUREMENTS_STATE_BDS_D2_SUBFRAME_SYNC_BIT;
    GNSS_MEASUREMENTS_STATE_GAL_E1BC_CODE_LOCK_BIT;
    GNSS_MEASUREMENTS_STATE_GAL_E1C_2ND_CODE_LOCK_BIT;
    GNSS_MEASUREMENTS_STATE_GAL_E1B_PAGE_SYNC_BIT; GNSS_MEASUREMENTS_STATE_SBAS_SYNC_BIT;
    GNSS_MEASUREMENTS_STATE_TOW_KNOWN_BIT; GNSS_MEASUREMENTS_STATE_GLO_TOD_KNOWN_BIT;
    GNSS_MEASUREMENTS_STATE_2ND_CODE_LOCK_BIT].

Inductive GnssMeasurementsMultipathIndicator : Type :=
    GNSS_MEASUREMENTS_MULTIPATH_INDICATOR_UNKNOWN | GNSS_MEASUREMENTS_MULTIPATH_INDICATOR_PRESENT
   | GNSS_MEASUREMENTS_MULTIPATH_INDICATOR_NOT_PRESENT.
Definition GnssMeasurementsMultipathIndicator_val (c : GnssMeasurementsMultipathIndicator) : Z := match c with
    GNSS_MEASUREMENTS_MULTIPATH_INDICATOR_UNKNOWN => 0
   | GNSS_MEASUREMENTS_MULTIPATH_INDICATOR_PRESENT => 1
   | GNSS_MEASUREMENTS_MULTIPATH_INDICATOR_NOT_PRESENT => 2 end.
Coercion GnssMeasurementsMultipathIndicator_val : GnssMeasurementsMultipathIndicator >-> Z.
Definition GnssMeasurementsMultipathIndicator_all : list GnssMeasurementsMultipathIndicator := [
    GNSS_MEASUREMENTS_MULTIPATH_INDICATOR_UNKNOWN; GNSS_MEASUREMENTS_MULTIPATH_INDICATOR_PRESENT;
    GNSS_MEASUREMENTS_MULTIPATH_INDICATOR_NOT_PRESENT].

Inductive GnssMeasurementsClockFlagsBits : Type := GNSS_MEASUREMENTS_CLOCK_FLAGS_LEAP_SECOND_BIT
   | GNSS_MEASUREMENTS_CLOCK_FLAGS_TIME_BIT | GNSS_MEASUREMENTS_CLOCK_FLAGS_TIME_UNCERTAINTY_BIT
   | GNSS_MEASUREMENTS_CLOCK_FLAGS_FULL_BIAS_BIT | GNSS_MEASUREMENTS_CLOCK_FLAGS_BIAS_BIT
   | GNSS_MEASUREMENTS_CLOCK_FLAGS_BIAS_UNCERTAINTY_BIT | GNSS_MEASUREMENTS_CLOCK_FLAGS_DRIFT_BIT
   | GNSS_MEASUREMENTS_CLOCK_FLAGS_DRIFT_UNCERTAINTY_BIT
   | GNSS_MEASUREMENTS_CLOCK_FLAGS_HW_CLOCK_DISCONTINUITY_COUNT_BIT
   | GNSS_MEASUREMENTS_CLOCK_FLAGS_ELAPSED_REAL_TIME_BIT.
Definition GnssMeasurementsClockFlagsBits_val (c : GnssMeasurementsClockFlagsBits) : Z := match c with
    GNSS_MEASUREMENTS_CLOCK_FLAGS_LEAP_SECOND_BIT => 1
   | GNSS_MEASUREMENTS_CLOCK_FLAGS_TIME_BIT => 2
   | GNSS_MEASUREMENTS_CLOCK_FLAGS_TIME_UNCERTAINTY_BIT => 4
   | GNSS_MEASUREMENTS_CLOCK_FLAGS_FULL_BIAS_BIT => 8
   | GNSS_MEASUREMENTS_CLOCK_FLAGS_BIAS_BIT => 16
   | GNSS_MEASUREMENTS_CLOCK_FLAGS_BIAS_UNCERTAINTY_BIT => 32
   | GNSS_MEASUREMENTS_CLOCK_FLAGS_DRIFT_BIT => 64
   | GNSS_MEASUREMENTS_CLOCK_FLAGS_DRIFT_UNCERTAINTY_BIT => 128
   | GNSS_MEASUREMENTS_CLOCK_FLAGS_HW_CLOCK_DISCONTINUITY_COUNT_BIT => 256
   | GNSS_MEASUREMENTS_CLOCK_FLAGS_ELAPSED_REAL_TIME_BIT => 512 end.
Coercion GnssMeasurementsClockFlagsBits_val : GnssMeasurementsClockFlagsBits >-> Z.
Definition GnssMeasurementsClockFlagsBits_all : list GnssMeasurementsClockFlagsBits := [
    GNSS_MEASUREMENTS_CLOCK_FLAGS_LEAP_SECOND_BIT; GNSS_MEASUREMENTS_CLOCK_FLAGS_TIME_BIT;
    GNSS_MEASUREMENTS_CLOCK_FLAGS_TIME_UNCERTAINTY_BIT;
    GNSS_MEASUREMENTS_CLOCK_FLAGS_FULL_BIAS_BIT; GNSS_MEASUREMENTS_CLOCK_FLAGS_BIAS_BIT;
    GNSS_MEASUREMENTS_CLOCK_FLAGS_BIAS_UNCERTAINTY_BIT; GNSS_MEASUREMENTS_CLOCK_FLAGS_DRIFT_BIT;
    GNSS_MEASUREMENTS_CLOCK_FLAGS_DRIFT_UNCERTAINTY_BIT;
    GNSS_MEASUREMENTS_CLOCK_FLAGS_HW_CLOCK_DISCONTINUITY_COUNT_BIT;
    GNSS_MEASUREMENTS_CLOCK_FLAGS_ELAPSED_REAL_TIME_BIT].

Inductive GnssAidingDataSvBits : Type := GNSS_AIDING_DATA_SV_EPHEMERIS_BIT
   | GNSS_AIDING_DATA_SV_ALMANAC_BIT | GNSS_AIDING_DATA_SV_HEALTH_BIT
   | GNSS_AIDING_DATA_SV_DIRECTION_BIT | GNSS_AIDING_DATA_SV_STEER_BIT
   | GNSS_AIDING_DATA_SV_ALMANAC_CORR_BIT | GNSS_AIDING_DATA_SV_BLACKLIST_BIT
   | GNSS_AIDING_DATA_SV_SA_DATA_BIT | GNSS_AIDING_DATA_SV_NO_EXIST_BIT
   | GNSS_AIDING_DATA_SV_IONOSPHERE_BIT | GNSS_AIDING_DATA_SV_TIME_BIT
   | GNSS_AIDING_DATA_SV_MB_DATA | GNSS_AIDING_DATA_SV_POLY_BIT.
Definition GnssAidingDataSvBits_val (c : GnssAidingDataSvBits) : Z := match c with
    GNSS_AIDING_DATA_SV_EPHEMERIS_BIT => 1 | GNSS_AIDING_DATA_SV_ALMANAC_BIT => 2
   | GNSS_AIDING_DATA_SV_HEALTH_BIT => 4 | GNSS_AIDING_DATA_SV_DIRECTION_BIT => 8
   | GNSS_AIDING_DATA_SV_STEER_BIT => 16 | GNSS_AIDING_DATA_SV_ALMANAC_CORR_BIT => 32
   | GNSS_AIDING_DATA_SV_BLACKLIST_BIT => 64 | GNSS_AIDING_DATA_SV_SA_DATA_BIT => 128
   | GNSS_AIDING_DATA_SV_NO_EXIST_BIT => 256 | GNSS_AIDING_DATA_SV_IONOSPHERE_BIT => 512
   | GNSS_AIDING_DATA_SV_TIME_BIT => 1024 | GNSS_AIDING_DATA_SV_MB_DATA => 2048
   | GNSS_AIDING_DATA_SV_POLY_BIT => 4096 end.
Coercion GnssAidingDataSvBits_val : GnssAidingDataSvBits >-> Z.
Definition GnssAidingDataSvBits_all : list GnssAidingDataSvBits := [
    GNSS_AIDING_DATA_SV_EPHEMERIS_BIT; GNSS_AIDING_DATA_SV_ALMANAC_BIT;
    GNSS_AIDING_DATA_SV_HEALTH_BIT; GNSS_AIDING_DATA_SV_DIRECTION_BIT;
    GNSS_AIDING_DATA_SV_STEER_BIT; GNSS_AIDING_DATA_SV_ALMANAC_CORR_BIT;
    GNSS_AIDING_DATA_SV_BLACKLIST_BIT; GNSS_AIDING_DATA_SV_SA_DATA_BIT;
    GNSS_AIDING_DATA_SV_NO_EXIST_BIT; GNSS_AIDING_DATA_SV_IONOSPHERE_BIT;
    GNSS_AIDING_DATA_SV_TIME_BIT; GNSS_AIDING_DATA_SV_MB_DATA; GNSS_AIDING_DATA_SV_POLY_BIT].

Inductive GnssSignalTypeBits : Type := GNSS_SIGNAL_GPS_L1CA | GNSS_SIGNAL_GPS_L1C
   | GNSS_SIGNAL_GPS_L2 | GNSS_SIGNAL_GPS_L5 | GNSS_SIGNAL_GLONASS_G1 | GNSS_SIGNAL_GLONASS_G2
   | GNSS_SIGNAL_GALILEO_E1 | GNSS_SIGNAL_GALILEO_E5A | GNSS_SIGNAL_GALILEO_E5B
   | GNSS_SIGNAL_BEIDOU_B1 | GNSS_SIGNAL_BEIDOU_B2 | GNSS_SIGNAL_QZSS_L1CA | GNSS_SIGNAL_QZSS_L1S
   | GNSS_SIGNAL_QZSS_L2 | GNSS_SIGNAL_QZSS_L5 | GNSS_SIGNAL_SBAS_L1 | GNSS_SIGNAL_BEIDOU_B1I
   | GNSS_SIGNAL_BEIDOU_B1C | GNSS_SIGNAL_BEIDOU_B2I | GNSS_SIGNAL_BEIDOU_B2AI
   | GNSS_SIGNAL_NAVIC_L5 | GNSS_SIGNAL_BEIDOU_B2AQ.
Definition GnssSignalTypeBits_val (c : GnssSignalTypeBits) : Z := match c with
    GNSS_SIGNAL_GPS_L1CA => 1 | GNSS_SIGNAL_GPS_L1C => 2 | GNSS_SIGNAL_GPS_L2 => 4
   | GNSS_SIGNAL_GPS_L5 => 8 | GNSS_SIGNAL_GLONASS_G1 => 16 | GNSS_SIGNAL_GLONASS_G2 => 32
   | GNSS_SIGNAL_GALILEO_E1 => 64 | GNSS_SIGNAL_GALILEO_E5A => 128
   | GNSS_SIGNAL_GALILEO_E5B => 256 | GNSS_SIGNAL_BEIDOU_B1 => 512 | GNSS_SIGNAL_BEIDOU_B2 => 1024
   | GNSS_SIGNAL_QZSS_L1CA => 2048 | GNSS_SIGNAL_QZSS_L1S => 4096 | GNSS_SIGNAL_QZSS_L2 => 8192
   | GNSS_SIGNAL_QZSS_L5 => 16384 | GNSS_SIGNAL_SBAS_L1 => 32768 | GNSS_SIGNAL_BEIDOU_B1I => 65536
   | GNSS_SIGNAL_BEIDOU_B1C => 131072 | GNSS_SIGNAL_BEIDOU_B2I => 262144
   | GNSS_SIGNAL_BEIDOU_B2AI => 524288 | GNSS_SIGNAL_NAVIC_L5 => 1048576
   | GNSS_SIGNAL_BEIDOU_B2AQ => 2097152 end.
Coercion GnssSignalTypeBits_val : GnssSignalTypeBits >-> Z.
Definition GnssSignalTypeBits_all : list GnssSignalTypeBits := [GNSS_SIGNAL_GPS_L1CA;
    GNSS_SIGNAL_GPS_L1C; GNSS_SIGNAL_GPS_L2; GNSS_SIGNAL_GPS_L5; GNSS_SIGNAL_GLONASS_G1;
    GNSS_SIGNAL_GLONASS_G2; GNSS_SIGNAL_GALILEO_E1; GNSS_SIGNAL_GALILEO_E5A;
    GNSS_SIGNAL_GALILEO_E5B; GNSS_SIGNAL_BEIDOU_B1; GNSS_SIGNAL_BEIDOU_B2; GNSS_SIGNAL_QZSS_L1CA;
    GNSS_SIGNAL_QZSS_L1S; GNSS_SIGNAL_QZSS_L2; GNSS_SIGNAL_QZSS_L5; GNSS_SIGNAL_SBAS_L1;
    GNSS_SIGNAL_BEIDOU_B1I; GNSS_SIGNAL_BEIDOU_B1C; GNSS_SIGNAL_BEIDOU_B2I;
    GNSS_SIGNAL_BEIDOU_B2AI; GNSS_SIGNAL_NAVIC_L5; GNSS_SIGNAL_BEIDOU_B2AQ].

Inductive Gnss_LocSvSystemEnumType : Type := GNSS_LOC_SV_SYSTEM_UNKNOWN | GNSS_LOC_SV_SYSTEM_MIN
   | GNSS_LOC_SV_SYSTEM_GPS | GNSS_LOC_SV_SYSTEM_GALILEO | GNSS_LOC_SV_SYSTEM_SBAS
   | GNSS_LOC_SV_SYSTEM_GLONASS | GNSS_LOC_SV_SYSTEM_BDS | GNSS_LOC_SV_SYSTEM_QZSS
   | GNSS_LOC_SV_SYSTEM_NAVIC | GNSS_LOC_SV_SYSTEM_MAX.
Definition Gnss_LocSvSystemEnumType_val (c : Gnss_LocSvSystemEnumType) : Z := match c with
    GNSS_LOC_SV_SYSTEM_UNKNOWN => 0 | GNSS_LOC_SV_SYSTEM_MIN => 1 | GNSS_LOC_SV_SYSTEM_GPS => 1
   | GNSS_LOC_SV_SYSTEM_GALILEO => 2 | GNSS_LOC_SV_SYSTEM_SBAS => 3
   | GNSS_LOC_SV_SYSTEM_GLONASS => 4 | GNSS_LOC_SV_SYSTEM_BDS => 5 | GNSS_LOC_SV_SYSTEM_QZSS => 6
   | GNSS_LOC_SV_SYSTEM_NAVIC => 7 | GNSS_LOC_SV_SYSTEM_MAX => 7 end.
Coercion Gnss_LocSvSystemEnumType_val : Gnss_LocSvSystemEnumType >-> Z.
Definition Gnss_LocSvSystemEnumType_all : list Gnss_LocSvSystemEnumType := [
    GNSS_LOC_SV_SYSTEM_UNKNOWN; GNSS_LOC_SV_SYSTEM_MIN; GNSS_LOC_SV_SYSTEM_GPS;
    GNSS_LOC_SV_SYSTEM_GALILEO; GNSS_LOC_SV_SYSTEM_SBAS; GNSS_LOC_SV_SYSTEM_GLONASS;
    GNSS_LOC_SV_SYSTEM_BDS; GNSS_LOC_SV_SYSTEM_QZSS; GNSS_LOC_SV_SYSTEM_NAVIC;
    GNSS_LOC_SV_SYSTEM_MAX].

Inductive PositioningEngineBits : Type := STANDARD_POSITIONING_ENGINE | DEAD_RECKONING_ENGINE
   | PRECISE_POSITIONING_ENGINE | VP_POSITIONING_ENGINE.
Definition PositioningEngineBits_val (c : PositioningEngineBits) : Z := match c with
    STANDARD_POSITIONING_ENGINE => 1 | DEAD_RECKONING_ENGINE => 2
   | PRECISE_POSITIONING_ENGINE => 4 | VP_POSITIONING_ENGINE => 8 end.
Coercion PositioningEngineBits_val : PositioningEngineBits >-> Z.
Definition PositioningEngineBits_all : list PositioningEngineBits := [STANDARD_POSITIONING_ENGINE;
    DEAD_RECKONING_ENGINE; PRECISE_POSITIONING_ENGINE; VP_POSITIONING_ENGINE].

Inductive LocEngineRunState : Type := LOC_ENGINE_RUN_STATE_PAUSE | LOC_ENGINE_RUN_STATE_RESUME.
Definition LocEngineRunState_val (c : LocEngineRunState) : Z := match c with
    LOC_ENGINE_RUN_STATE_PAUSE => 1 | LOC_ENGINE_RUN_STATE_RESUME => 2 end.
Coercion LocEngineRunState_val : LocEngineRunState >-> Z.
Definition LocEngineRunState_all : list LocEngineRunState := [LOC_ENGINE_RUN_STATE_PAUSE;
    LOC_ENGINE_RUN_STATE_RESUME].

Inductive GnssDataBits : Type := GNSS_LOC_DATA_JAMMER_IND_BIT | GNSS_LOC_DATA_AGC_BIT.
Definition GnssDataBits_val (c : GnssDataBits) : Z := match c with
    GNSS_LOC_DATA_JAMMER_IND_BIT => 1 | GNSS_LOC_DATA_AGC_BIT => 2 end.
Coercion GnssDataBits_val : GnssDataBits >-> Z.
Definition GnssDataBits_all : list GnssDataBits := [GNSS_LOC_DATA_JAMMER_IND_BIT;
    GNSS_LOC_DATA_AGC_BIT].

Inductive GnssSystemTimeTypeBits : Type := GNSS_SYSTEM_TIME_WEEK_VALID
   | GNSS_SYSTEM_TIME_WEEK_MS_VALID | GNSS_SYSTEM_CLK_TIME_BIAS_VALID
   | GNSS_SYSTEM_CLK_TIME_BIAS_UNC_VALID | GNSS_SYSTEM_REF_FCOUNT_VALID
   | GNSS_SYSTEM_NUM_CLOCK_RESETS_VALID.
Definition GnssSystemTimeTypeBits_val (c : GnssSystemTimeTypeBits) : Z := match c with
    GNSS_SYSTEM_TIME_WEEK_VALID => 1 | GNSS_SYSTEM_TIME_WEEK_MS_VALID => 2
   | GNSS_SYSTEM_CLK_TIME_BIAS_VALID => 4 | GNSS_SYSTEM_CLK_TIME_BIAS_UNC_VALID => 8
   | GNSS_SYSTEM_REF_FCOUNT_VALID => 16 | GNSS_SYSTEM_NUM_CLOCK_RESETS_VALID => 32 end.
Coercion GnssSystemTimeTypeBits_val : GnssSystemTimeTypeBits >-> Z.
Definition GnssSystemTimeTypeBits_all : list GnssSystemTimeTypeBits := [
    GNSS_SYSTEM_TIME_WEEK_VALID; GNSS_SYSTEM_TIME_WEEK_MS_VALID; GNSS_SYSTEM_CLK_TIME_BIAS_VALID;
    GNSS_SYSTEM_CLK_TIME_BIAS_UNC_VALID; GNSS_SYSTEM_REF_FCOUNT_VALID;
    GNSS_SYSTEM_NUM_CLOCK_RESETS_VALID].

Inductive GnssGloTimeTypeBits : Type := GNSS_CLO_DAYS_VALID | GNSS_GLO_MSEC_VALID
   | GNSS_GLO_CLK_TIME_BIAS_VALID | GNSS_GLO_CLK_TIME_BIAS_UNC_VALID | GNSS_GLO_REF_FCOUNT_VALID
   | GNSS_GLO_NUM_CLOCK_RESETS_VALID | GNSS_GLO_FOUR_YEAR_VALID.
Definition GnssGloTimeTypeBits_val (c : GnssGloTimeTypeBits) : Z := match c with
    GNSS_CLO_DAYS_VALID => 1 | GNSS_GLO_MSEC_VALID => 2 | GNSS_GLO_CLK_TIME_BIAS_VALID => 4
   | GNSS_GLO_CLK_TIME_BIAS_UNC_VALID => 8 | GNSS_GLO_REF_FCOUNT_VALID => 16
   | GNSS_GLO_NUM_CLOCK_RESETS_VALID => 32 | GNSS_GLO_FOUR_YEAR_VALID => 64 end.
Coercion GnssGloTimeTypeBits_val : GnssGloTimeTypeBits >-> Z.
Definition GnssGloTimeTypeBits_all : list GnssGloTimeTypeBits := [GNSS_CLO_DAYS_VALID;
    GNSS_GLO_MSEC_VALID; GNSS_GLO_CLK_TIME_BIAS_VALID; GNSS_GLO_CLK_TIME_BIAS_UNC_VALID;
    GNSS_GLO_REF_FCOUNT_VALID; GNSS_GLO_NUM_CLOCK_RESETS_VALID; GNSS_GLO_FOUR_YEAR_VALID].

Inductive DrEngineAidingDataBits : Type := DR_ENGINE_AIDING_DATA_CALIBRATION_BIT.
Definition DrEngineAidingDataBits_val (c : DrEngineAidingDataBits) : Z := match c with
    DR_ENGINE_AIDING_DATA_CALIBRATION_BIT => 1 end.
Coercion DrEngineAidingDataBits_val : DrEngineAidingDataBits >-> Z.
Definition DrEngineAidingDataBits_all : list DrEngineAidingDataBits := [
    DR_ENGINE_AIDING_DATA_CALIBRATION_BIT].

Inductive DrCalibrationStatusBits : Type := DR_ROLL_CALIBRATION_NEEDED
   | DR_PITCH_CALIBRATION_NEEDED | DR_YAW_CALIBRATION_NEEDED | DR_ODO_CALIBRATION_NEEDED
   | DR_GYRO_CALIBRATION_NEEDED.
Definition DrCalibrationStatusBits_val (c : DrCalibrationStatusBits) : Z := match c with
    DR_ROLL_CALIBRATION_NEEDED => 1 | DR_PITCH_CALIBRATION_NEEDED => 2
   | DR_YAW_CALIBRATION_NEEDED => 4 | DR_ODO_CALIBRATION_NEEDED => 8
   | DR_GYRO_CALIBRATION_NEEDED => 16 end.
Coercion DrCalibrationStatusBits_val : DrCalibrationStatusBits >-> Z.
Definition DrCalibrationStatusBits_all : list DrCalibrationStatusBits := [
    DR_ROLL_CALIBRATION_NEEDED; DR_PITCH_CALIBRATION_NEEDED; DR_YAW_CALIBRATION_NEEDED;
    DR_ODO_CALIBRATION_NEEDED; DR_GYRO_CALIBRATION_NEEDED].

Inductive LocReqEngineTypeMask : Type := LOC_REQ_ENGINE_FUSED_BIT | LOC_REQ_ENGINE_SPE_BIT
   | LOC_REQ_ENGINE_PPE_BIT | LOC_REQ_ENGINE_VPE_BIT.
Definition LocReqEngineTypeMask_val (c : LocReqEngineTypeMask) : Z := match c with
    LOC_REQ_ENGINE_FUSED_BIT => 1 | LOC_REQ_ENGINE_SPE_BIT => 2 | LOC_REQ_ENGINE_PPE_BIT => 4
   | LOC_REQ_ENGINE_VPE_BIT => 8 end.
Coercion LocReqEngineTypeMask_val : LocReqEngineTypeMask >-> Z.
Definition LocReqEngineTypeMask_all : list LocReqEngineTypeMask := [LOC_REQ_ENGINE_FUSED_BIT;
    LOC_REQ_ENGINE_SPE_BIT; LOC_REQ_ENGINE_PPE_BIT; LOC_REQ_ENGINE_VPE_BIT].

Inductive LocOutputEngineType : Type := LOC_OUTPUT_ENGINE_FUSED | LOC_OUTPUT_ENGINE_SPE
   | LOC_OUTPUT_ENGINE_PPE | LOC_OUTPUT_ENGINE_VPE | LOC_OUTPUT_ENGINE_COUNT.
Definition LocOutputEngineType_val (c : LocOutputEngineType) : Z := match c with
    LOC_OUTPUT_ENGINE_FUSED => 0 | LOC_OUTPUT_ENGINE_SPE => 1 | LOC_OUTPUT_ENGINE_PPE => 2
   | LOC_OUTPUT_ENGINE_VPE => 3 | LOC_OUTPUT_ENGINE_COUNT => 4 end.
Coercion LocOutputEngineType_val : LocOutputEngineType >-> Z.
Definition LocOutputEngineType_all : list LocOutputEngineType := [LOC_OUTPUT_ENGINE_FUSED;
    LOC_OUTPUT_ENGINE_SPE; LOC_OUTPUT_ENGINE_PPE; LOC_OUTPUT_ENGINE_VPE; LOC_OUTPUT_ENGINE_COUNT].

Definition VEHICLE_SENSOR_SPEED_INPUT_DETECTED : Z := 1.
Definition VEHICLE_SENSOR_SPEED_INPUT_USED : Z := 2.

Inductive loc_sess_status : Type := LOC_SESS_SUCCESS | LOC_SESS_INTERMEDIATE | LOC_SESS_FAILURE.
Definition loc_sess_status_val (c : loc_sess_status) : Z := match c with LOC_SESS_SUCCESS => 0
   | LOC_SESS_INTERMEDIATE => 1 | LOC_SESS_FAILURE => 2 end.
Coercion loc_sess_status_val : loc_sess_status >-> Z.
Definition loc_sess_status_all : list loc_sess_status := [LOC_SESS_SUCCESS; LOC_SESS_INTERMEDIATE;
    LOC_SESS_FAILURE].

Inductive GnssConfigRobustLocationValidMask : Type :=
    GNSS_CONFIG_ROBUST_LOCATION_ENABLED_VALID_BIT
   | GNSS_CONFIG_ROBUST_LOCATION_ENABLED_FOR_E911_VALID_BIT
   | GNSS_CONFIG_ROBUST_LOCATION_VERSION_VALID_BIT.
Definition GnssConfigRobustLocationValidMask_val (c : GnssConfigRobustLocationValidMask) : Z := match c with
    GNSS_CONFIG_ROBUST_LOCATION_ENABLED_VALID_BIT => 1
   | GNSS_CONFIG_ROBUST_LOCATION_ENABLED_FOR_E911_VALID_BIT => 2
   | GNSS_CONFIG_ROBUST_LOCATION_VERSION_VALID_BIT => 4 end.
Coercion GnssConfigRobustLocationValidMask_val : GnssConfigRobustLocationValidMask >-> Z.
Definition GnssConfigRobustLocationValidMask_all : list GnssConfigRobustLocationValidMask := [
    GNSS_CONFIG_ROBUST_LOCATION_ENABLED_VALID_BIT;
    GNSS_CONFIG_ROBUST_LOCATION_ENABLED_FOR_E911_VALID_BIT;
    GNSS_CONFIG_ROBUST_LOCATION_VERSION_VALID_BIT].

Inductive GnssSvTypesMaskBits : Type := GNSS_SV_TYPES_MASK_GLO_BIT | GNSS_SV_TYPES_MASK_BDS_BIT
   | GNSS_SV_TYPES_MASK_QZSS_BIT | GNSS_SV_TYPES_MASK_GAL_BIT | GNSS_SV_TYPES_MASK_NAVIC_BIT
   | GNSS_SV_TYPES_MASK_GPS_BIT.
Definition GnssSvTypesMaskBits_val (c : GnssSvTypesMaskBits) : Z := match c with
    GNSS_SV_TYPES_MASK_GLO_BIT => 1 | GNSS_SV_TYPES_MASK_BDS_BIT => 2
   | GNSS_SV_TYPES_MASK_QZSS_BIT => 4 | GNSS_SV_TYPES_MASK_GAL_BIT => 8
   | GNSS_SV_TYPES_MASK_NAVIC_BIT => 16 | GNSS_SV_TYPES_MASK_GPS_BIT => 32 end.
Coercion GnssSvTypesMaskBits_val : GnssSvTypesMaskBits >-> Z.
Definition GnssSvTypesMaskBits_all : list GnssSvTypesMaskBits := [GNSS_SV_TYPES_MASK_GLO_BIT;
    GNSS_SV_TYPES_MASK_BDS_BIT; GNSS_SV_TYPES_MASK_QZSS_BIT; GNSS_SV_TYPES_MASK_GAL_BIT;
    GNSS_SV_TYPES_MASK_NAVIC_BIT; GNSS_SV_TYPES_MASK_GPS_BIT].

Inductive LeapSecondSysInfoDataBits : Type := LEAP_SECOND_SYS_INFO_CURRENT_LEAP_SECONDS_BIT
   | LEAP_SECOND_SYS_INFO_LEAP_SECOND_CHANGE_BIT.
Definition LeapSecondSysInfoDataBits_val (c : LeapSecondSysInfoDataBits) : Z := match c with
    LEAP_SECOND_SYS_INFO_CURRENT_LEAP_SECONDS_BIT => 1
   | LEAP_SECOND_SYS_INFO_LEAP_SECOND_CHANGE_BIT => 2 end.
Coercion LeapSecondSysInfoDataBits_val : LeapSecondSysInfoDataBits >-> Z.
Definition LeapSecondSysInfoDataBits_all : list LeapSecondSysInfoDataBits := [
    LEAP_SECOND_SYS_INFO_CURRENT_LEAP_SECONDS_BIT; LEAP_SECOND_SYS_INFO_LEAP_SECOND_CHANGE_BIT].

Inductive LocationSystemInfoDataBits : Type := LOCATION_SYS_INFO_LEAP_SECOND.
Definition LocationSystemInfoDataBits_val (c : LocationSystemInfoDataBits) : Z := match c with
    LOCATION_SYS_INFO_LEAP_SECOND => 1 end.
Coercion LocationSystemInfoDataBits_val : LocationSystemInfoDataBits >-> Z.
Definition LocationSystemInfoDataBits_all : list LocationSystemInfoDataBits := [
    LOCATION_SYS_INFO_LEAP_SECOND].

Inductive TerrestrialTechMask : Type := TERRESTRIAL_TECH_GTP_WWAN.
Definition TerrestrialTechMask_val (c : TerrestrialTechMask) : Z := match c with
    TERRESTRIAL_TECH_GTP_WWAN => 1 end.
Coercion TerrestrialTechMask_val : TerrestrialTechMask >-> Z.
Definition TerrestrialTechMask_all : list TerrestrialTechMask := [TERRESTRIAL_TECH_GTP_WWAN].

Inductive LeverArmTypeBits : Type := LEVER_ARM_TYPE_GNSS_TO_VRP_BIT
   | LEVER_ARM_TYPE_DR_IMU_TO_GNSS_BIT | LEVER_ARM_TYPE_VEPP_IMU_TO_GNSS_BIT.
Definition LeverArmTypeBits_val (c : LeverArmTypeBits) : Z := match c with
    LEVER_ARM_TYPE_GNSS_TO_VRP_BIT => 1 | LEVER_ARM_TYPE_DR_IMU_TO_GNSS_BIT => 2
   | LEVER_ARM_TYPE_VEPP_IMU_TO_GNSS_BIT => 4 end.
Coercion LeverArmTypeBits_val : LeverArmTypeBits >-> Z.
Definition LeverArmTypeBits_all : list LeverArmTypeBits := [LEVER_ARM_TYPE_GNSS_TO_VRP_BIT;
    LEVER_ARM_TYPE_DR_IMU_TO_GNSS_BIT; LEVER_ARM_TYPE_VEPP_IMU_TO_GNSS_BIT].

Inductive DeadReckoningEngineConfigValidBit : Type := BODY_TO_SENSOR_MOUNT_PARAMS_BIT
   | VEHICLE_SPEED_SCALE_FACTOR_BIT | VEHICLE_SPEED_SCALE_FACTOR_UNC_BIT | GYRO_SCALE_FACTOR_BIT
   | GYRO_SCALE_FACTOR_UNC_BIT.
Definition DeadReckoningEngineConfigValidBit_val (c : DeadReckoningEngineConfigValidBit) : Z := match c with
    BODY_TO_SENSOR_MOUNT_PARAMS_BIT => 1 | VEHICLE_SPEED_SCALE_FACTOR_BIT => 2
   | VEHICLE_SPEED_SCALE_FACTOR_UNC_BIT => 4 | GYRO_SCALE_FACTOR_BIT => 8
   | GYRO_SCALE_FACTOR_UNC_BIT => 16 end.
Coercion DeadReckoningEngineConfigValidBit_val : DeadReckoningEngineConfigValidBit >-> Z.
Definition DeadReckoningEngineConfigValidBit_all : list DeadReckoningEngineConfigValidBit := [
    BODY_TO_SENSOR_MOUNT_PARAMS_BIT; VEHICLE_SPEED_SCALE_FACTOR_BIT;
    VEHICLE_SPEED_SCALE_FACTOR_UNC_BIT; GYRO_SCALE_FACTOR_BIT; GYRO_SCALE_FACTOR_UNC_BIT].

(** * LocationApiMsg.h *)

Inductive ClientType : Type := LOCATION_CLIENT_API | LOCATION_INTEGRATION_API.
Definition ClientType_val (c : ClientType) : Z := match c with LOCATION_CLIENT_API => 1
   | LOCATION_INTEGRATION_API => 2 end.
Coercion ClientType_val : ClientType >-> Z.
Definition ClientType_all : list ClientType := [LOCATION_CLIENT_API; LOCATION_INTEGRATION_API].

Inductive ELocMsgID : Type := E_LOCAPI_UNDEFINED_MSG_ID | E_LOCAPI_CLIENT_REGISTER_MSG_ID
   | E_LOCAPI_CLIENT_DEREGISTER_MSG_ID | E_LOCAPI_CAPABILILTIES_MSG_ID | E_LOCAPI_HAL_READY_MSG_ID
   | E_LOCAPI_START_TRACKING_MSG_ID | E_LOCAPI_STOP_TRACKING_MSG_ID
   | E_LOCAPI_UPDATE_CALLBACKS_MSG_ID | E_LOCAPI_UPDATE_TRACKING_OPTIONS_MSG_ID
   | E_LOCAPI_CONTROL_UPDATE_CONFIG_MSG_ID | E_LOCAPI_CONTROL_DELETE_AIDING_DATA_MSG_ID
   | E_LOCAPI_CONTROL_UPDATE_NETWORK_AVAILABILITY_MSG_ID | E_LOCAPI_LOCATION_MSG_ID
   | E_LOCAPI_LOCATION_INFO_MSG_ID | E_LOCAPI_SATELLITE_VEHICLE_MSG_ID | E_LOCAPI_NMEA_MSG_ID
   | E_LOCAPI_DATA_MSG_ID | E_LOCAPI_GET_GNSS_ENGERY_CONSUMED_MSG_ID
   | E_LOCAPI_LOCATION_SYSTEM_INFO_MSG_ID | E_LOCAPI_ENGINE_LOCATIONS_INFO_MSG_ID
   | E_LOCAPI_START_BATCHING_MSG_ID | E_LOCAPI_STOP_BATCHING_MSG_ID
   | E_LOCAPI_UPDATE_BATCHING_OPTIONS_MSG_ID | E_LOCAPI_BATCHING_MSG_ID
   | E_LOCAPI_ADD_GEOFENCES_MSG_ID | E_LOCAPI_REMOVE_GEOFENCES_MSG_ID
   | E_LOCAPI_MODIFY_GEOFENCES_MSG_ID | E_LOCAPI_PAUSE_GEOFENCES_MSG_ID
   | E_LOCAPI_RESUME_GEOFENCES_MSG_ID | E_LOCAPI_GEOFENCE_BREACH_MSG_ID | E_LOCAPI_MEAS_MSG_ID
   | E_LOCAPI_GET_SINGLE_TERRESTRIAL_POS_REQ_MSG_ID
   | E_LOCAPI_GET_SINGLE_TERRESTRIAL_POS_RESP_MSG_ID | E_LOCAPI_PINGTEST_MSG_ID
   | E_INTAPI_CONFIG_CONSTRAINTED_TUNC_MSG_ID
   | E_INTAPI_CONFIG_POSITION_ASSISTED_CLOCK_ESTIMATOR_MSG_ID
   | E_INTAPI_CONFIG_SV_CONSTELLATION_MSG_ID | E_INTAPI_CONFIG_AIDING_DATA_DELETION_MSG_ID
   | E_INTAPI_CONFIG_LEVER_ARM_MSG_ID | E_INTAPI_CONFIG_ROBUST_LOCATION_MSG_ID
   | E_INTAPI_CONFIG_MIN_GPS_WEEK_MSG_ID | E_INTAPI_CONFIG_DEAD_RECKONING_ENGINE_MSG_ID
   | E_INTAPI_CONFIG_MIN_SV_ELEVATION_MSG_ID | E_INTAPI_CONFIG_CONSTELLATION_SECONDARY_BAND_MSG_ID
   | E_INTAPI_CONFIG_ENGINE_RUN_STATE_MSG_ID
   | E_INTAPI_CONFIG_USER_CONSENT_TERRESTRIAL_POSITIONING_MSG_ID
   | E_INTAPI_GET_ROBUST_LOCATION_CONFIG_REQ_MSG_ID
   | E_INTAPI_GET_ROBUST_LOCATION_CONFIG_RESP_MSG_ID | E_INTAPI_GET_MIN_GPS_WEEK_REQ_MSG_ID
   | E_INTAPI_GET_MIN_GPS_WEEK_RESP_MSG_ID | E_INTAPI_GET_MIN_SV_ELEVATION_REQ_MSG_ID
   | E_INTAPI_GET_MIN_SV_ELEVATION_RESP_MSG_ID
   | E_INTAPI_GET_CONSTELLATION_SECONDARY_BAND_CONFIG_REQ_MSG_ID
   | E_INTAPI_GET_CONSTELLATION_SECONDARY_BAND_CONFIG_RESP_MSG_ID.
Definition ELocMsgID_val (c : ELocMsgID) : Z := match c with E_LOCAPI_UNDEFINED_MSG_ID => 0
   | E_LOCAPI_CLIENT_REGISTER_MSG_ID => 1 | E_LOCAPI_CLIENT_DEREGISTER_MSG_ID => 2
   | E_LOCAPI_CAPABILILTIES_MSG_ID => 3 | E_LOCAPI_HAL_READY_MSG_ID => 4
   | E_LOCAPI_START_TRACKING_MSG_ID => 5 | E_LOCAPI_STOP_TRACKING_MSG_ID => 6
   | E_LOCAPI_UPDATE_CALLBACKS_MSG_ID => 7 | E_LOCAPI_UPDATE_TRACKING_OPTIONS_MSG_ID => 8
   | E_LOCAPI_CONTROL_UPDATE_CONFIG_MSG_ID => 9 | E_LOCAPI_CONTROL_DELETE_AIDING_DATA_MSG_ID => 10
   | E_LOCAPI_CONTROL_UPDATE_NETWORK_AVAILABILITY_MSG_ID => 11 | E_LOCAPI_LOCATION_MSG_ID => 12
   | E_LOCAPI_LOCATION_INFO_MSG_ID => 13 | E_LOCAPI_SATELLITE_VEHICLE_MSG_ID => 14
   | E_LOCAPI_NMEA_MSG_ID => 15 | E_LOCAPI_DATA_MSG_ID => 16
   | E_LOCAPI_GET_GNSS_ENGERY_CONSUMED_MSG_ID => 17 | E_LOCAPI_LOCATION_SYSTEM_INFO_MSG_ID => 18
   | E_LOCAPI_ENGINE_LOCATIONS_INFO_MSG_ID => 19 | E_LOCAPI_START_BATCHING_MSG_ID => 20
   | E_LOCAPI_STOP_BATCHING_MSG_ID => 21 | E_LOCAPI_UPDATE_BATCHING_OPTIONS_MSG_ID => 22
   | E_LOCAPI_BATCHING_MSG_ID => 23 | E_LOCAPI_ADD_GEOFENCES_MSG_ID => 24
   | E_LOCAPI_REMOVE_GEOFENCES_MSG_ID => 25 | E_LOCAPI_MODIFY_GEOFENCES_MSG_ID => 26
   | E_LOCAPI_PAUSE_GEOFENCES_MSG_ID => 27 | E_LOCAPI_RESUME_GEOFENCES_MSG_ID => 28
   | E_LOCAPI_GEOFENCE_BREACH_MSG_ID => 29 | E_LOCAPI_MEAS_MSG_ID => 30
   | E_LOCAPI_GET_SINGLE_TERRESTRIAL_POS_REQ_MSG_ID => 31
   | E_LOCAPI_GET_SINGLE_TERRESTRIAL_POS_RESP_MSG_ID => 32 | E_LOCAPI_PINGTEST_MSG_ID => 99
   | E_INTAPI_CONFIG_CONSTRAINTED_TUNC_MSG_ID => 200
   | E_INTAPI_CONFIG_POSITION_ASSISTED_CLOCK_ESTIMATOR_MSG_ID => 201
   | E_INTAPI_CONFIG_SV_CONSTELLATION_MSG_ID => 202
   | E_INTAPI_CONFIG_AIDING_DATA_DELETION_MSG_ID => 203 | E_INTAPI_CONFIG_LEVER_ARM_MSG_ID => 204
   | E_INTAPI_CONFIG_ROBUST_LOCATION_MSG_ID => 205 | E_INTAPI_CONFIG_MIN_GPS_WEEK_MSG_ID => 206
   | E_INTAPI_CONFIG_DEAD_RECKONING_ENGINE_MSG_ID => 207
   | E_INTAPI_CONFIG_MIN_SV_ELEVATION_MSG_ID => 208
   | E_INTAPI_CONFIG_CONSTELLATION_SECONDARY_BAND_MSG_ID => 209
   | E_INTAPI_CONFIG_ENGINE_RUN_STATE_MSG_ID => 210
   | E_INTAPI_CONFIG_USER_CONSENT_TERRESTRIAL_POSITIONING_MSG_ID => 211
   | E_INTAPI_GET_ROBUST_LOCATION_CONFIG_REQ_MSG_ID => 300
   | E_INTAPI_GET_ROBUST_LOCATION_CONFIG_RESP_MSG_ID => 301
   | E_INTAPI_GET_MIN_GPS_WEEK_REQ_MSG_ID => 302 | E_INTAPI_GET_MIN_GPS_WEEK_RESP_MSG_ID => 303
   | E_INTAPI_GET_MIN_SV_ELEVATION_REQ_MSG_ID => 304
   | E_INTAPI_GET_MIN_SV_ELEVATION_RESP_MSG_ID => 305
   | E_INTAPI_GET_CONSTELLATION_SECONDARY_BAND_CONFIG_REQ_MSG_ID => 306
   | E_INTAPI_GET_CONSTELLATION_SECONDARY_BAND_CONFIG_RESP_MSG_ID => 307 end.
Coercion ELocMsgID_val : ELocMsgID >-> Z.
Definition ELocMsgID_all : list ELocMsgID := [E_LOCAPI_UNDEFINED_MSG_ID;
    E_LOCAPI_CLIENT_REGISTER_MSG_ID; E_LOCAPI_CLIENT_DEREGISTER_MSG_ID;
    E_LOCAPI_CAPABILILTIES_MSG_ID; E_LOCAPI_HAL_READY_MSG_ID; E_LOCAPI_START_TRACKING_MSG_ID;
    E_LOCAPI_STOP_TRACKING_MSG_ID; E_LOCAPI_UPDATE_CALLBACKS_MSG_ID;
    E_LOCAPI_UPDATE_TRACKING_OPTIONS_MSG_ID; E_LOCAPI_CONTROL_UPDATE_CONFIG_MSG_ID;
    E_LOCAPI_CONTROL_DELETE_AIDING_DATA_MSG_ID;
    E_LOCAPI_CONTROL_UPDATE_NETWORK_AVAILABILITY_MSG_ID; E_LOCAPI_LOCATION_MSG_ID;
    E_LOCAPI_LOCATION_INFO_MSG_ID; E_LOCAPI_SATELLITE_VEHICLE_MSG_ID; E_LOCAPI_NMEA_MSG_ID;
    E_LOCAPI_DATA_MSG_ID; E_LOCAPI_GET_GNSS_ENGERY_CONSUMED_MSG_ID;
    E_LOCAPI_LOCATION_SYSTEM_INFO_MSG_ID; E_LOCAPI_ENGINE_LOCATIONS_INFO_MSG_ID;
    E_LOCAPI_START_BATCHING_MSG_ID; E_LOCAPI_STOP_BATCHING_MSG_ID;
    E_LOCAPI_UPDATE_BATCHING_OPTIONS_MSG_ID; E_LOCAPI_BATCHING_MSG_ID;
    E_LOCAPI_ADD_GEOFENCES_MSG_ID; E_LOCAPI_REMOVE_GEOFENCES_MSG_ID;
    E_LOCAPI_MODIFY_GEOFENCES_MSG_ID; E_LOCAPI_PAUSE_GEOFENCES_MSG_ID;
    E_LOCAPI_RESUME_GEOFENCES_MSG_ID; E_LOCAPI_GEOFENCE_BREACH_MSG_ID; E_LOCAPI_MEAS_MSG_ID;
    E_LOCAPI_GET_SINGLE_TERRESTRIAL_POS_REQ_MSG_ID;
    E_LOCAPI_GET_SINGLE_TERRESTRIAL_POS_RESP_MSG_ID; E_LOCAPI_PINGTEST_MSG_ID;
    E_INTAPI_CONFIG_CONSTRAINTED_TUNC_MSG_ID;
    E_INTAPI_CONFIG_POSITION_ASSISTED_CLOCK_ESTIMATOR_MSG_ID;
    E_INTAPI_CONFIG_SV_CONSTELLATION_MSG_ID; E_INTAPI_CONFIG_AIDING_DATA_DELETION_MSG_ID;
    E_INTAPI_CONFIG_LEVER_ARM_MSG_ID; E_INTAPI_CONFIG_ROBUST_LOCATION_MSG_ID;
    E_INTAPI_CONFIG_MIN_GPS_WEEK_MSG_ID; E_INTAPI_CONFIG_DEAD_RECKONING_ENGINE_MSG_ID;
    E_INTAPI_CONFIG_MIN_SV_ELEVATION_MSG_ID; E_INTAPI_CONFIG_CONSTELLATION_SECONDARY_BAND_MSG_ID;
    E_INTAPI_CONFIG_ENGINE_RUN_STATE_MSG_ID;
    E_INTAPI_CONFIG_USER_CONSENT_TERRESTRIAL_POSITIONING_MSG_ID;
    E_INTAPI_GET_ROBUST_LOCATION_CONFIG_REQ_MSG_ID;
    E_INTAPI_GET_ROBUST_LOCATION_CONFIG_RESP_MSG_ID; E_INTAPI_GET_MIN_GPS_WEEK_REQ_MSG_ID;
    E_INTAPI_GET_MIN_GPS_WEEK_RESP_MSG_ID; E_INTAPI_GET_MIN_SV_ELEVATION_REQ_MSG_ID;
    E_INTAPI_GET_MIN_SV_ELEVATION_RESP_MSG_ID;
    E_INTAPI_GET_CONSTELLATION_SECONDARY_BAND_CONFIG_REQ_MSG_ID;
    E_INTAPI_GET_CONSTELLATION_SECONDARY_BAND_CONFIG_RESP_MSG_ID].

Inductive ELocationCallbacksOption : Type := E_LOC_CB_DISTANCE_BASED_TRACKING_BIT
   | E_LOC_CB_GNSS_LOCATION_INFO_BIT | E_LOC_CB_GNSS_SV_BIT | E_LOC_CB_GNSS_NMEA_BIT
   | E_LOC_CB_GNSS_DATA_BIT | E_LOC_CB_SYSTEM_INFO_BIT | E_LOC_CB_BATCHING_BIT
   | E_LOC_CB_BATCHING_STATUS_BIT | E_LOC_CB_GEOFENCE_BREACH_BIT
   | E_LOC_CB_ENGINE_LOCATIONS_INFO_BIT | E_LOC_CB_SIMPLE_LOCATION_INFO_BIT
   | E_LOC_CB_GNSS_MEAS_BIT.
Definition ELocationCallbacksOption_val (c : ELocationCallbacksOption) : Z := match c with
    E_LOC_CB_DISTANCE_BASED_TRACKING_BIT => 1 | E_LOC_CB_GNSS_LOCATION_INFO_BIT => 2
   | E_LOC_CB_GNSS_SV_BIT => 4 | E_LOC_CB_GNSS_NMEA_BIT => 8 | E_LOC_CB_GNSS_DATA_BIT => 16
   | E_LOC_CB_SYSTEM_INFO_BIT => 32 | E_LOC_CB_BATCHING_BIT => 64
   | E_LOC_CB_BATCHING_STATUS_BIT => 128 | E_LOC_CB_GEOFENCE_BREACH_BIT => 256
   | E_LOC_CB_ENGINE_LOCATIONS_INFO_BIT => 512 | E_LOC_CB_SIMPLE_LOCATION_INFO_BIT => 1024
   | E_LOC_CB_GNSS_MEAS_BIT => 2048 end.
Coercion ELocationCallbacksOption_val : ELocationCallbacksOption >-> Z.
Definition ELocationCallbacksOption_all : list ELocationCallbacksOption := [
    E_LOC_CB_DISTANCE_BASED_TRACKING_BIT; E_LOC_CB_GNSS_LOCATION_INFO_BIT; E_LOC_CB_GNSS_SV_BIT;
    E_LOC_CB_GNSS_NMEA_BIT; E_LOC_CB_GNSS_DATA_BIT; E_LOC_CB_SYSTEM_INFO_BIT;
    E_LOC_CB_BATCHING_BIT; E_LOC_CB_BATCHING_STATUS_BIT; E_LOC_CB_GEOFENCE_BREACH_BIT;
    E_LOC_CB_ENGINE_LOCATIONS_INFO_BIT; E_LOC_CB_SIMPLE_LOCATION_INFO_BIT; E_LOC_CB_GNSS_MEAS_BIT].
