(* ===== verification/PbConversions.v ===== *)
(** The conversions between the constants of the client API and those of its
    protobuf messages, LocationApiPbMsgConv.cpp: one definition per function,
    the tests in the order of the code. *)

From stdpp Require Import list.
From S2P Require Import Prelude Masks LocationEnums.

Local Open Scope Z_scope.

Definition getEnumForPBELocMsgID (pbLocMsgId : Z) : Z :=
  switch E_LOCAPI_UNDEFINED_MSG_ID
  [ case PB_E_LOCAPI_UNDEFINED_MSG_ID E_LOCAPI_UNDEFINED_MSG_ID;
    case PB_E_LOCAPI_CLIENT_REGISTER_MSG_ID E_LOCAPI_CLIENT_REGISTER_MSG_ID;
    case PB_E_LOCAPI_CLIENT_DEREGISTER_MSG_ID E_LOCAPI_CLIENT_DEREGISTER_MSG_ID;
    case PB_E_LOCAPI_CAPABILILTIES_MSG_ID E_LOCAPI_CAPABILILTIES_MSG_ID;
    case PB_E_LOCAPI_HAL_READY_MSG_ID E_LOCAPI_HAL_READY_MSG_ID;
    case PB_E_LOCAPI_START_TRACKING_MSG_ID E_LOCAPI_START_TRACKING_MSG_ID;
    case PB_E_LOCAPI_STOP_TRACKING_MSG_ID E_LOCAPI_STOP_TRACKING_MSG_ID;
    case PB_E_LOCAPI_UPDATE_CALLBACKS_MSG_ID E_LOCAPI_UPDATE_CALLBACKS_MSG_ID;
    case PB_E_LOCAPI_UPDATE_TRACKING_OPTIONS_MSG_ID E_LOCAPI_UPDATE_TRACKING_OPTIONS_MSG_ID;
    case PB_E_LOCAPI_CONTROL_UPDATE_CONFIG_MSG_ID E_LOCAPI_CONTROL_UPDATE_CONFIG_MSG_ID;
    case PB_E_LOCAPI_CONTROL_DELETE_AIDING_DATA_MSG_ID E_LOCAPI_CONTROL_DELETE_AIDING_DATA_MSG_ID;
    case PB_E_LOCAPI_CONTROL_UPDATE_NETWORK_AVAILABILITY_MSG_ID E_LOCAPI_CONTROL_UPDATE_NETWORK_AVAILABILITY_MSG_ID;
    case PB_E_LOCAPI_LOCATION_MSG_ID E_LOCAPI_LOCATION_MSG_ID;
    case PB_E_LOCAPI_LOCATION_INFO_MSG_ID E_LOCAPI_LOCATION_INFO_MSG_ID;
    case PB_E_LOCAPI_SATELLITE_VEHICLE_MSG_ID E_LOCAPI_SATELLITE_VEHICLE_MSG_ID;
    case PB_E_LOCAPI_NMEA_MSG_ID E_LOCAPI_NMEA_MSG_ID;
    case PB_E_LOCAPI_DATA_MSG_ID E_LOCAPI_DATA_MSG_ID;
    case PB_E_LOCAPI_GET_GNSS_ENGERY_CONSUMED_MSG_ID E_LOCAPI_GET_GNSS_ENGERY_CONSUMED_MSG_ID;
    case PB_E_LOCAPI_LOCATION_SYSTEM_INFO_MSG_ID E_LOCAPI_LOCATION_SYSTEM_INFO_MSG_ID;
    case PB_E_LOCAPI_ENGINE_LOCATIONS_INFO_MSG_ID E_LOCAPI_ENGINE_LOCATIONS_INFO_MSG_ID;
    case PB_E_LOCAPI_START_BATCHING_MSG_ID E_LOCAPI_START_BATCHING_MSG_ID;
    case PB_E_LOCAPI_STOP_BATCHING_MSG_ID E_LOCAPI_STOP_BATCHING_MSG_ID;
    case PB_E_LOCAPI_UPDATE_BATCHING_OPTIONS_MSG_ID E_LOCAPI_UPDATE_BATCHING_OPTIONS_MSG_ID;
    case PB_E_LOCAPI_BATCHING_MSG_ID E_LOCAPI_BATCHING_MSG_ID;
    case PB_E_LOCAPI_ADD_GEOFENCES_MSG_ID E_LOCAPI_ADD_GEOFENCES_MSG_ID;
    case PB_E_LOCAPI_REMOVE_GEOFENCES_MSG_ID E_LOCAPI_REMOVE_GEOFENCES_MSG_ID;
    case PB_E_LOCAPI_MODIFY_GEOFENCES_MSG_ID E_LOCAPI_MODIFY_GEOFENCES_MSG_ID;
    case PB_E_LOCAPI_PAUSE_GEOFENCES_MSG_ID E_LOCAPI_PAUSE_GEOFENCES_MSG_ID;
    case PB_E_LOCAPI_RESUME_GEOFENCES_MSG_ID E_LOCAPI_RESUME_GEOFENCES_MSG_ID;
    case PB_E_LOCAPI_GEOFENCE_BREACH_MSG_ID E_LOCAPI_GEOFENCE_BREACH_MSG_ID;
    case PB_E_LOCAPI_MEAS_MSG_ID E_LOCAPI_MEAS_MSG_ID;
    case PB_E_LOCAPI_GET_SINGLE_TERRESTRIAL_POS_REQ_MSG_ID E_LOCAPI_GET_SINGLE_TERRESTRIAL_POS_REQ_MSG_ID;
    case PB_E_LOCAPI_GET_SINGLE_TERRESTRIAL_POS_RESP_MSG_ID E_LOCAPI_GET_SINGLE_TERRESTRIAL_POS_RESP_MSG_ID;
    case PB_E_LOCAPI_PINGTEST_MSG_ID E_LOCAPI_PINGTEST_MSG_ID;
    case PB_E_INTAPI_CONFIG_CONSTRAINTED_TUNC_MSG_ID E_INTAPI_CONFIG_CONSTRAINTED_TUNC_MSG_ID;
    case PB_E_INTAPI_CONFIG_POSITION_ASSISTED_CLOCK_ESTIMATOR_MSG_ID E_INTAPI_CONFIG_POSITION_ASSISTED_CLOCK_ESTIMATOR_MSG_ID;
    case PB_E_INTAPI_CONFIG_SV_CONSTELLATION_MSG_ID E_INTAPI_CONFIG_SV_CONSTELLATION_MSG_ID;
    case PB_E_INTAPI_CONFIG_AIDING_DATA_DELETION_MSG_ID E_INTAPI_CONFIG_AIDING_DATA_DELETION_MSG_ID;
    case PB_E_INTAPI_CONFIG_LEVER_ARM_MSG_ID E_INTAPI_CONFIG_LEVER_ARM_MSG_ID;
    case PB_E_INTAPI_CONFIG_ROBUST_LOCATION_MSG_ID E_INTAPI_CONFIG_ROBUST_LOCATION_MSG_ID;
    case PB_E_INTAPI_CONFIG_MIN_GPS_WEEK_MSG_ID E_INTAPI_CONFIG_MIN_GPS_WEEK_MSG_ID;
    case PB_E_INTAPI_CONFIG_DEAD_RECKONING_ENGINE_MSG_ID E_INTAPI_CONFIG_DEAD_RECKONING_ENGINE_MSG_ID;
    case PB_E_INTAPI_CONFIG_MIN_SV_ELEVATION_MSG_ID E_INTAPI_CONFIG_MIN_SV_ELEVATION_MSG_ID;
    case PB_E_INTAPI_CONFIG_CONSTELLATION_SECONDARY_BAND_MSG_ID E_INTAPI_CONFIG_CONSTELLATION_SECONDARY_BAND_MSG_ID;
    case PB_E_INTAPI_CONFIG_ENGINE_RUN_STATE_MSG_ID E_INTAPI_CONFIG_ENGINE_RUN_STATE_MSG_ID;
    case PB_E_INTAPI_CONFIG_USER_CONSENT_TERRESTRIAL_POSITIONING_MSG_ID E_INTAPI_CONFIG_USER_CONSENT_TERRESTRIAL_POSITIONING_MSG_ID;
    case PB_E_INTAPI_GET_ROBUST_LOCATION_CONFIG_REQ_MSG_ID E_INTAPI_GET_ROBUST_LOCATION_CONFIG_REQ_MSG_ID;
    case PB_E_INTAPI_GET_ROBUST_LOCATION_CONFIG_RESP_MSG_ID E_INTAPI_GET_ROBUST_LOCATION_CONFIG_RESP_MSG_ID;
    case PB_E_INTAPI_GET_MIN_GPS_WEEK_REQ_MSG_ID E_INTAPI_GET_MIN_GPS_WEEK_REQ_MSG_ID;
    case PB_E_INTAPI_GET_MIN_GPS_WEEK_RESP_MSG_ID E_INTAPI_GET_MIN_GPS_WEEK_RESP_MSG_ID;
    case PB_E_INTAPI_GET_MIN_SV_ELEVATION_REQ_MSG_ID E_INTAPI_GET_MIN_SV_ELEVATION_REQ_MSG_ID;
    case PB_E_INTAPI_GET_MIN_SV_ELEVATION_RESP_MSG_ID E_INTAPI_GET_MIN_SV_ELEVATION_RESP_MSG_ID;
    case PB_E_INTAPI_GET_CONSTELLATION_SECONDARY_BAND_CONFIG_REQ_MSG_ID E_INTAPI_GET_CONSTELLATION_SECONDARY_BAND_CONFIG_REQ_MSG_ID;
    case PB_E_INTAPI_GET_CONSTELLATION_SECONDARY_BAND_CONFIG_RESP_MSG_ID E_INTAPI_GET_CONSTELLATION_SECONDARY_BAND_CONFIG_RESP_MSG_ID ] pbLocMsgId.

Definition getEnumForPBLocationError (pbLocErr : Z) : Z :=
  switch LOCATION_ERROR_GENERAL_FAILURE
  [ case PB_LOCATION_ERROR_SUCCESS LOCATION_ERROR_SUCCESS;
    case PB_LOCATION_ERROR_INVALID_PARAMETER LOCATION_ERROR_INVALID_PARAMETER;
    case PB_LOCATION_ERROR_NOT_SUPPORTED LOCATION_ERROR_NOT_SUPPORTED;
    case PB_LOCATION_ERROR_TIMEOUT LOCATION_ERROR_TIMEOUT ] pbLocErr.

Definition getEnumForPBClientType (pbClntTyp : Z) : Z :=
  switch LOCATION_CLIENT_API
  [ case PB_LOCATION_INTEGRATION_API LOCATION_INTEGRATION_API ] pbClntTyp.

Definition getEnumForPBBatchingMode (pbBatchMode : Z) : Z :=
  switch BATCHING_MODE_ROUTINE
  [ case PB_BATCHING_MODE_TRIP BATCHING_MODE_TRIP;
    case PB_BATCHING_MODE_NO_AUTO_REPORT BATCHING_MODE_NO_AUTO_REPORT ] pbBatchMode.

Definition getEnumForPBGnssSuplMode (pbGnssSuplMode : Z) : Z :=
  switch GNSS_SUPL_MODE_STANDALONE
  [ case PB_GNSS_SUPL_MODE_MSB GNSS_SUPL_MODE_MSB;
    case PB_GNSS_SUPL_MODE_MSA GNSS_SUPL_MODE_MSA ] pbGnssSuplMode.

Definition getEnumForPBBatchingStatus (pbBatchStat : Z) : Z :=
  switch BATCHING_STATUS_POSITION_UNAVAILABLE
  [ case PB_BATCHING_STATUS_TRIP_COMPLETED BATCHING_STATUS_TRIP_COMPLETED;
    case PB_BATCHING_STATUS_POSITION_AVAILABE BATCHING_STATUS_POSITION_AVAILABE;
    case PB_BATCHING_STATUS_POSITION_UNAVAILABLE BATCHING_STATUS_POSITION_UNAVAILABLE ] pbBatchStat.

Definition getEnumForPBGnssMeasMultipathIndic (pbGnssMeasMultipathIndic : Z) : Z :=
  switch GNSS_MEASUREMENTS_MULTIPATH_INDICATOR_UNKNOWN
  [ case PB_GNSS_MEASUREMENTS_MULTIPATH_INDICATOR_UNKNOWN GNSS_MEASUREMENTS_MULTIPATH_INDICATOR_UNKNOWN;
    case PB_GNSS_MEASUREMENTS_MULTIPATH_INDICATOR_PRESENT GNSS_MEASUREMENTS_MULTIPATH_INDICATOR_PRESENT;
    case PB_GNSS_MEASUREMENTS_MULTIPATH_INDICATOR_NOT_PRESENT GNSS_MEASUREMENTS_MULTIPATH_INDICATOR_NOT_PRESENT ] pbGnssMeasMultipathIndic.

Definition getEnumForPBLocReliability (pbLocReliability : Z) : Z :=
  switch LOCATION_RELIABILITY_NOT_SET
  [ case PB_LOCATION_RELIABILITY_NOT_SET LOCATION_RELIABILITY_NOT_SET;
    case PB_LOCATION_RELIABILITY_VERY_LOW LOCATION_RELIABILITY_VERY_LOW;
    case PB_LOCATION_RELIABILITY_LOW LOCATION_RELIABILITY_LOW;
    case PB_LOCATION_RELIABILITY_MEDIUM LOCATION_RELIABILITY_MEDIUM;
    case PB_LOCATION_RELIABILITY_HIGH LOCATION_RELIABILITY_HIGH ] pbLocReliability.

Definition getEnumForPBGnssLocSvSystem (pbGnssLocSvSysEnumType : Z) : Z :=
  switch GNSS_LOC_SV_SYSTEM_UNKNOWN
  [ case PB_GNSS_LOC_SV_SYSTEM_INVALID GNSS_LOC_SV_SYSTEM_UNKNOWN;
    case PB_GNSS_LOC_SV_SYSTEM_GPS GNSS_LOC_SV_SYSTEM_GPS;
    case PB_GNSS_LOC_SV_SYSTEM_GALILEO GNSS_LOC_SV_SYSTEM_GALILEO;
    case PB_GNSS_LOC_SV_SYSTEM_SBAS GNSS_LOC_SV_SYSTEM_SBAS;
    case PB_GNSS_LOC_SV_SYSTEM_GLONASS GNSS_LOC_SV_SYSTEM_GLONASS;
    case PB_GNSS_LOC_SV_SYSTEM_BDS GNSS_LOC_SV_SYSTEM_BDS;
    case PB_GNSS_LOC_SV_SYSTEM_QZSS GNSS_LOC_SV_SYSTEM_QZSS;
    case PB_GNSS_LOC_SV_SYSTEM_NAVIC GNSS_LOC_SV_SYSTEM_NAVIC ] pbGnssLocSvSysEnumType.

Definition getEnumForPBLocOutputEngineType (pbLocOpEngType : Z) : Z :=
  switch LOC_OUTPUT_ENGINE_FUSED
  [ case PB_LOC_OUTPUT_ENGINE_FUSED LOC_OUTPUT_ENGINE_FUSED;
    case PB_LOC_OUTPUT_ENGINE_SPE LOC_OUTPUT_ENGINE_SPE;
    case PB_LOC_OUTPUT_ENGINE_PPE LOC_OUTPUT_ENGINE_PPE ] pbLocOpEngType.

Definition getEnumForPBLocEngineRunState (pbLocEngRunState : Z) : Z :=
  switch 0
  [ case PB_LOC_ENGINE_RUN_STATE_PAUSE LOC_ENGINE_RUN_STATE_PAUSE;
    case PB_LOC_ENGINE_RUN_STATE_RESUME LOC_ENGINE_RUN_STATE_RESUME ] pbLocEngRunState.

Definition getPBEnumForLocEngineRunState (locEngineRunState : Z) : Z :=
  switch PB_LOC_ENGINE_RUN_STATE_INVALID
  [ case LOC_ENGINE_RUN_STATE_PAUSE PB_LOC_ENGINE_RUN_STATE_PAUSE;
    case LOC_ENGINE_RUN_STATE_RESUME PB_LOC_ENGINE_RUN_STATE_RESUME ] locEngineRunState.

Definition getTerrestrialTechMaskFromPB (pbTerrestrialTechMask : Z) : Z :=
  set_bits 32 0
  [ bit PB_TERRESTRIAL_TECH_GTP_WWAN TERRESTRIAL_TECH_GTP_WWAN ] pbTerrestrialTechMask.

Definition getPBMaskForTerrestrialTechMask (terrestrialTechMask : Z) : Z :=
  set_bits 32 PB_TERRESTRIAL_TECH_INVALID
  [ bit TERRESTRIAL_TECH_GTP_WWAN PB_TERRESTRIAL_TECH_GTP_WWAN ] terrestrialTechMask.

Definition getGnssSvTypeFromPBGnssLocSvSystemEnumType (pbGnssLocSvSysEnum : Z) : Z :=
  switch GNSS_SV_TYPE_UNKNOWN
  [ case PB_GNSS_LOC_SV_SYSTEM_GPS GNSS_SV_TYPE_GPS;
    case PB_GNSS_LOC_SV_SYSTEM_GALILEO GNSS_SV_TYPE_GALILEO;
    case PB_GNSS_LOC_SV_SYSTEM_SBAS GNSS_SV_TYPE_SBAS;
    case PB_GNSS_LOC_SV_SYSTEM_GLONASS GNSS_SV_TYPE_GLONASS;
    case PB_GNSS_LOC_SV_SYSTEM_BDS GNSS_SV_TYPE_BEIDOU;
    case PB_GNSS_LOC_SV_SYSTEM_QZSS GNSS_SV_TYPE_QZSS;
    case PB_GNSS_LOC_SV_SYSTEM_NAVIC GNSS_SV_TYPE_NAVIC ] pbGnssLocSvSysEnum.

Definition getPBEnumForELocMsgID (eLocMsgId : Z) : Z :=
  switch PB_E_LOCAPI_UNDEFINED_MSG_ID
  [ case E_LOCAPI_CLIENT_REGISTER_MSG_ID PB_E_LOCAPI_CLIENT_REGISTER_MSG_ID;
    case E_LOCAPI_CLIENT_DEREGISTER_MSG_ID PB_E_LOCAPI_CLIENT_DEREGISTER_MSG_ID;
    case E_LOCAPI_CAPABILILTIES_MSG_ID PB_E_LOCAPI_CAPABILILTIES_MSG_ID;
    case E_LOCAPI_HAL_READY_MSG_ID PB_E_LOCAPI_HAL_READY_MSG_ID;
    case E_LOCAPI_START_TRACKING_MSG_ID PB_E_LOCAPI_START_TRACKING_MSG_ID;
    case E_LOCAPI_STOP_TRACKING_MSG_ID PB_E_LOCAPI_STOP_TRACKING_MSG_ID;
    case E_LOCAPI_UPDATE_CALLBACKS_MSG_ID PB_E_LOCAPI_UPDATE_CALLBACKS_MSG_ID;
    case E_LOCAPI_UPDATE_TRACKING_OPTIONS_MSG_ID PB_E_LOCAPI_UPDATE_TRACKING_OPTIONS_MSG_ID;
    case E_LOCAPI_CONTROL_UPDATE_CONFIG_MSG_ID PB_E_LOCAPI_CONTROL_UPDATE_CONFIG_MSG_ID;
    case E_LOCAPI_CONTROL_DELETE_AIDING_DATA_MSG_ID PB_E_LOCAPI_CONTROL_DELETE_AIDING_DATA_MSG_ID;
    case E_LOCAPI_CONTROL_UPDATE_NETWORK_AVAILABILITY_MSG_ID PB_E_LOCAPI_CONTROL_UPDATE_NETWORK_AVAILABILITY_MSG_ID;
    case E_LOCAPI_LOCATION_MSG_ID PB_E_LOCAPI_LOCATION_MSG_ID;
    case E_LOCAPI_LOCATION_INFO_MSG_ID PB_E_LOCAPI_LOCATION_INFO_MSG_ID;
    case E_LOCAPI_SATELLITE_VEHICLE_MSG_ID PB_E_LOCAPI_SATELLITE_VEHICLE_MSG_ID;
    case E_LOCAPI_NMEA_MSG_ID PB_E_LOCAPI_NMEA_MSG_ID;
    case E_LOCAPI_DATA_MSG_ID PB_E_LOCAPI_DATA_MSG_ID;
    case E_LOCAPI_GET_GNSS_ENGERY_CONSUMED_MSG_ID PB_E_LOCAPI_GET_GNSS_ENGERY_CONSUMED_MSG_ID;
    case E_LOCAPI_LOCATION_SYSTEM_INFO_MSG_ID PB_E_LOCAPI_LOCATION_SYSTEM_INFO_MSG_ID;
    case E_LOCAPI_ENGINE_LOCATIONS_INFO_MSG_ID PB_E_LOCAPI_ENGINE_LOCATIONS_INFO_MSG_ID;
    case E_LOCAPI_START_BATCHING_MSG_ID PB_E_LOCAPI_START_BATCHING_MSG_ID;
    case E_LOCAPI_STOP_BATCHING_MSG_ID PB_E_LOCAPI_STOP_BATCHING_MSG_ID;
    case E_LOCAPI_UPDATE_BATCHING_OPTIONS_MSG_ID PB_E_LOCAPI_UPDATE_BATCHING_OPTIONS_MSG_ID;
    case E_LOCAPI_BATCHING_MSG_ID PB_E_LOCAPI_BATCHING_MSG_ID;
    case E_LOCAPI_ADD_GEOFENCES_MSG_ID PB_E_LOCAPI_ADD_GEOFENCES_MSG_ID;
    case E_LOCAPI_REMOVE_GEOFENCES_MSG_ID PB_E_LOCAPI_REMOVE_GEOFENCES_MSG_ID;
    case E_LOCAPI_MODIFY_GEOFENCES_MSG_ID PB_E_LOCAPI_MODIFY_GEOFENCES_MSG_ID;
    case E_LOCAPI_PAUSE_GEOFENCES_MSG_ID PB_E_LOCAPI_PAUSE_GEOFENCES_MSG_ID;
    case E_LOCAPI_RESUME_GEOFENCES_MSG_ID PB_E_LOCAPI_RESUME_GEOFENCES_MSG_ID;
    case E_LOCAPI_GEOFENCE_BREACH_MSG_ID PB_E_LOCAPI_GEOFENCE_BREACH_MSG_ID;
    case E_LOCAPI_MEAS_MSG_ID PB_E_LOCAPI_MEAS_MSG_ID;
    case E_LOCAPI_GET_SINGLE_TERRESTRIAL_POS_REQ_MSG_ID PB_E_LOCAPI_GET_SINGLE_TERRESTRIAL_POS_REQ_MSG_ID;
    case E_LOCAPI_GET_SINGLE_TERRESTRIAL_POS_RESP_MSG_ID PB_E_LOCAPI_GET_SINGLE_TERRESTRIAL_POS_RESP_MSG_ID;
    case E_LOCAPI_PINGTEST_MSG_ID PB_E_LOCAPI_PINGTEST_MSG_ID;
    case E_INTAPI_CONFIG_CONSTRAINTED_TUNC_MSG_ID PB_E_INTAPI_CONFIG_CONSTRAINTED_TUNC_MSG_ID;
    case E_INTAPI_CONFIG_POSITION_ASSISTED_CLOCK_ESTIMATOR_MSG_ID PB_E_INTAPI_CONFIG_POSITION_ASSISTED_CLOCK_ESTIMATOR_MSG_ID;
    case E_INTAPI_CONFIG_SV_CONSTELLATION_MSG_ID PB_E_INTAPI_CONFIG_SV_CONSTELLATION_MSG_ID;
    case E_INTAPI_CONFIG_AIDING_DATA_DELETION_MSG_ID PB_E_INTAPI_CONFIG_AIDING_DATA_DELETION_MSG_ID;
    case E_INTAPI_CONFIG_LEVER_ARM_MSG_ID PB_E_INTAPI_CONFIG_LEVER_ARM_MSG_ID;
    case E_INTAPI_CONFIG_ROBUST_LOCATION_MSG_ID PB_E_INTAPI_CONFIG_ROBUST_LOCATION_MSG_ID;
    case E_INTAPI_CONFIG_MIN_GPS_WEEK_MSG_ID PB_E_INTAPI_CONFIG_MIN_GPS_WEEK_MSG_ID;
    case E_INTAPI_CONFIG_DEAD_RECKONING_ENGINE_MSG_ID PB_E_INTAPI_CONFIG_DEAD_RECKONING_ENGINE_MSG_ID;
    case E_INTAPI_CONFIG_MIN_SV_ELEVATION_MSG_ID PB_E_INTAPI_CONFIG_MIN_SV_ELEVATION_MSG_ID;
    case E_INTAPI_CONFIG_CONSTELLATION_SECONDARY_BAND_MSG_ID PB_E_INTAPI_CONFIG_CONSTELLATION_SECONDARY_BAND_MSG_ID;
    case E_INTAPI_CONFIG_ENGINE_RUN_STATE_MSG_ID PB_E_INTAPI_CONFIG_ENGINE_RUN_STATE_MSG_ID;
    case E_INTAPI_CONFIG_USER_CONSENT_TERRESTRIAL_POSITIONING_MSG_ID PB_E_INTAPI_CONFIG_USER_CONSENT_TERRESTRIAL_POSITIONING_MSG_ID;
    case E_INTAPI_GET_ROBUST_LOCATION_CONFIG_REQ_MSG_ID PB_E_INTAPI_GET_ROBUST_LOCATION_CONFIG_REQ_MSG_ID;
    case E_INTAPI_GET_ROBUST_LOCATION_CONFIG_RESP_MSG_ID PB_E_INTAPI_GET_ROBUST_LOCATION_CONFIG_RESP_MSG_ID;
    case E_INTAPI_GET_MIN_GPS_WEEK_REQ_MSG_ID PB_E_INTAPI_GET_MIN_GPS_WEEK_REQ_MSG_ID;
    case E_INTAPI_GET_MIN_GPS_WEEK_RESP_MSG_ID PB_E_INTAPI_GET_MIN_GPS_WEEK_RESP_MSG_ID;
    case E_INTAPI_GET_MIN_SV_ELEVATION_REQ_MSG_ID PB_E_INTAPI_GET_MIN_SV_ELEVATION_REQ_MSG_ID;
    case E_INTAPI_GET_MIN_SV_ELEVATION_RESP_MSG_ID PB_E_INTAPI_GET_MIN_SV_ELEVATION_RESP_MSG_ID;
    case E_INTAPI_GET_CONSTELLATION_SECONDARY_BAND_CONFIG_REQ_MSG_ID PB_E_INTAPI_GET_CONSTELLATION_SECONDARY_BAND_CONFIG_REQ_MSG_ID;
    case E_INTAPI_GET_CONSTELLATION_SECONDARY_BAND_CONFIG_RESP_MSG_ID PB_E_INTAPI_GET_CONSTELLATION_SECONDARY_BAND_CONFIG_RESP_MSG_ID ] eLocMsgId.

Definition getPBEnumForClientType (clientTyp : Z) : Z :=
  switch PB_LOCATION_INTEGRATION_API
  [ case LOCATION_CLIENT_API PB_LOCATION_CLIENT_API ] clientTyp.

Definition getPBEnumForBatchingMode (batchMode : Z) : Z :=
  switch PB_BATCHING_MODE_ROUTINE
  [ case BATCHING_MODE_ROUTINE PB_BATCHING_MODE_ROUTINE;
    case BATCHING_MODE_TRIP PB_BATCHING_MODE_TRIP;
    case BATCHING_MODE_NO_AUTO_REPORT PB_BATCHING_MODE_NO_AUTO_REPORT ] batchMode.

Definition getPBEnumForLocationError (locErr : Z) : Z :=
  switch PB_LOCATION_ERROR_GENERAL_FAILURE
  [ case LOCATION_ERROR_SUCCESS PB_LOCATION_ERROR_SUCCESS;
    case LOCATION_ERROR_INVALID_PARAMETER PB_LOCATION_ERROR_INVALID_PARAMETER;
    case LOCATION_ERROR_NOT_SUPPORTED PB_LOCATION_ERROR_NOT_SUPPORTED;
    case LOCATION_ERROR_TIMEOUT PB_LOCATION_ERROR_TIMEOUT ] locErr.

Definition getPBEnumForGnssSuplMode (gnssSuplMode : Z) : Z :=
  switch PB_GNSS_SUPL_MODE_STANDALONE
  [ case GNSS_SUPL_MODE_STANDALONE PB_GNSS_SUPL_MODE_STANDALONE;
    case GNSS_SUPL_MODE_MSB PB_GNSS_SUPL_MODE_MSB;
    case GNSS_SUPL_MODE_MSA PB_GNSS_SUPL_MODE_MSA ] gnssSuplMode.

Definition getPBEnumForBatchingStatus (batchStatus : Z) : Z :=
  switch PB_BATCHING_STATUS_POSITION_UNAVAILABLE
  [ case BATCHING_STATUS_TRIP_COMPLETED PB_BATCHING_STATUS_TRIP_COMPLETED;
    case BATCHING_STATUS_POSITION_AVAILABE PB_BATCHING_STATUS_POSITION_AVAILABE;
    case BATCHING_STATUS_POSITION_UNAVAILABLE PB_BATCHING_STATUS_POSITION_UNAVAILABLE ] batchStatus.

Definition getPBEnumForLocationReliability (locReliab : Z) : Z :=
  switch PB_LOCATION_RELIABILITY_NOT_SET
  [ case LOCATION_RELIABILITY_NOT_SET PB_LOCATION_RELIABILITY_NOT_SET;
    case LOCATION_RELIABILITY_VERY_LOW PB_LOCATION_RELIABILITY_VERY_LOW;
    case LOCATION_RELIABILITY_LOW PB_LOCATION_RELIABILITY_LOW;
    case LOCATION_RELIABILITY_MEDIUM PB_LOCATION_RELIABILITY_MEDIUM;
    case LOCATION_RELIABILITY_HIGH PB_LOCATION_RELIABILITY_HIGH ] locReliab.

Definition getPBEnumForLocOutputEngineType (locOpEng : Z) : Z :=
  switch PB_LOC_OUTPUT_ENGINE_FUSED
  [ case LOC_OUTPUT_ENGINE_FUSED PB_LOC_OUTPUT_ENGINE_FUSED;
    case LOC_OUTPUT_ENGINE_SPE PB_LOC_OUTPUT_ENGINE_SPE;
    case LOC_OUTPUT_ENGINE_PPE PB_LOC_OUTPUT_ENGINE_PPE ] locOpEng.

Definition getPBEnumForGnssMeasMultiPathIndic (gnssMeasMultiPathIndic : Z) : Z :=
  switch PB_GNSS_MEASUREMENTS_MULTIPATH_INDICATOR_UNKNOWN
  [ case GNSS_MEASUREMENTS_MULTIPATH_INDICATOR_UNKNOWN PB_GNSS_MEASUREMENTS_MULTIPATH_INDICATOR_UNKNOWN;
    case GNSS_MEASUREMENTS_MULTIPATH_INDICATOR_PRESENT PB_GNSS_MEASUREMENTS_MULTIPATH_INDICATOR_PRESENT;
    case GNSS_MEASUREMENTS_MULTIPATH_INDICATOR_NOT_PRESENT PB_GNSS_MEASUREMENTS_MULTIPATH_INDICATOR_NOT_PRESENT ] gnssMeasMultiPathIndic.

Definition getPBEnumForGnssLocSvSystem (gnssLocSvSysEnumType : Z) : Z :=
  switch PB_GNSS_LOC_SV_SYSTEM_INVALID
  [ case GNSS_LOC_SV_SYSTEM_GPS PB_GNSS_LOC_SV_SYSTEM_GPS;
    case GNSS_LOC_SV_SYSTEM_GALILEO PB_GNSS_LOC_SV_SYSTEM_GALILEO;
    case GNSS_LOC_SV_SYSTEM_SBAS PB_GNSS_LOC_SV_SYSTEM_SBAS;
    case GNSS_LOC_SV_SYSTEM_GLONASS PB_GNSS_LOC_SV_SYSTEM_GLONASS;
    case GNSS_LOC_SV_SYSTEM_BDS PB_GNSS_LOC_SV_SYSTEM_BDS;
    case GNSS_LOC_SV_SYSTEM_QZSS PB_GNSS_LOC_SV_SYSTEM_QZSS;
    case GNSS_LOC_SV_SYSTEM_NAVIC PB_GNSS_LOC_SV_SYSTEM_NAVIC ] gnssLocSvSysEnumType.

Definition getPBGnssLocSvSysEnumFromGnssSvType (gnssSvType : Z) : Z :=
  switch PB_GNSS_LOC_SV_SYSTEM_INVALID
  [ case GNSS_SV_TYPE_UNKNOWN PB_GNSS_LOC_SV_SYSTEM_INVALID;
    case GNSS_SV_TYPE_GPS PB_GNSS_LOC_SV_SYSTEM_GPS;
    case GNSS_SV_TYPE_SBAS PB_GNSS_LOC_SV_SYSTEM_SBAS;
    case GNSS_SV_TYPE_GLONASS PB_GNSS_LOC_SV_SYSTEM_GLONASS;
    case GNSS_SV_TYPE_QZSS PB_GNSS_LOC_SV_SYSTEM_QZSS;
    case GNSS_SV_TYPE_BEIDOU PB_GNSS_LOC_SV_SYSTEM_BDS;
    case GNSS_SV_TYPE_GALILEO PB_GNSS_LOC_SV_SYSTEM_GALILEO;
    case GNSS_SV_TYPE_NAVIC PB_GNSS_LOC_SV_SYSTEM_NAVIC ] gnssSvType.

Definition getPBMaskForLocationCallbacksMask (locCbMask : Z) : Z :=
  set_bits 32 0
  [ bit E_LOC_CB_DISTANCE_BASED_TRACKING_BIT PB_E_LOC_CB_DISTANCE_BASED_TRACKING_BIT;
    bit E_LOC_CB_GNSS_LOCATION_INFO_BIT PB_E_LOC_CB_GNSS_LOCATION_INFO_BIT;
    bit E_LOC_CB_GNSS_SV_BIT PB_E_LOC_CB_GNSS_SV_BIT;
    bit E_LOC_CB_GNSS_NMEA_BIT PB_E_LOC_CB_GNSS_NMEA_BIT;
    bit E_LOC_CB_GNSS_DATA_BIT PB_E_LOC_CB_GNSS_DATA_BIT;
    bit E_LOC_CB_SYSTEM_INFO_BIT PB_E_LOC_CB_SYSTEM_INFO_BIT;
    bit E_LOC_CB_BATCHING_BIT PB_E_LOC_CB_BATCHING_BIT;
    bit E_LOC_CB_BATCHING_STATUS_BIT PB_E_LOC_CB_BATCHING_STATUS_BIT;
    bit E_LOC_CB_GEOFENCE_BREACH_BIT PB_E_LOC_CB_GEOFENCE_BREACH_BIT;
    bit E_LOC_CB_ENGINE_LOCATIONS_INFO_BIT PB_E_LOC_CB_ENGINE_LOCATIONS_INFO_BIT;
    bit E_LOC_CB_SIMPLE_LOCATION_INFO_BIT PB_E_LOC_CB_SIMPLE_LOCATION_INFO_BIT;
    bit E_LOC_CB_GNSS_MEAS_BIT PB_E_LOC_CB_GNSS_MEAS_BIT ] locCbMask.

Definition getPBMaskForLocationCapabilitiesMask (locCapabMask : Z) : Z :=
  set_bits 64 0
  [ bit LOCATION_CAPABILITIES_TIME_BASED_TRACKING_BIT PB_LOCATION_CAPS_TIME_BASED_TRACKING_BIT;
    bit LOCATION_CAPABILITIES_TIME_BASED_BATCHING_BIT PB_LOCATION_CAPS_TIME_BASED_BATCHING_BIT;
    bit LOCATION_CAPABILITIES_DISTANCE_BASED_TRACKING_BIT PB_LOCATION_CAPS_DISTANCE_BASED_TRACKING_BIT;
    bit LOCATION_CAPABILITIES_DISTANCE_BASED_BATCHING_BIT PB_LOCATION_CAPS_DISTANCE_BASED_BATCHING_BIT;
    bit LOCATION_CAPABILITIES_GEOFENCE_BIT PB_LOCATION_CAPS_GEOFENCE_BIT;
    bit LOCATION_CAPABILITIES_OUTDOOR_TRIP_BATCHING_BIT PB_LOCATION_CAPS_OUTDOOR_TRIP_BATCHING_BIT;
    bit LOCATION_CAPABILITIES_GNSS_MEASUREMENTS_BIT PB_LOCATION_CAPS_GNSS_MEASUREMENTS_BIT;
    bit LOCATION_CAPABILITIES_CONSTELLATION_ENABLEMENT_BIT PB_LOCATION_CAPS_CONSTELLATION_ENABLEMENT_BIT;
    bit LOCATION_CAPABILITIES_QWES_CARRIER_PHASE_BIT PB_LOCATION_CAPS_QWES_CARRIER_PHASE_BIT;
    bit LOCATION_CAPABILITIES_QWES_SV_POLYNOMIAL_BIT PB_LOCATION_CAPS_QWES_SV_POLYNOMIAL_BIT;
    bit LOCATION_CAPABILITIES_QWES_GNSS_SINGLE_FREQUENCY PB_LOCATION_CAPS_QWES_GNSS_SINGLE_FREQUENCY;
    bit LOCATION_CAPABILITIES_QWES_GNSS_MULTI_FREQUENCY PB_LOCATION_CAPS_QWES_GNSS_MULTI_FREQUENCY;
    bit LOCATION_CAPABILITIES_QWES_VPE PB_LOCATION_CAPS_QWES_VPE;
    bit LOCATION_CAPABILITIES_QWES_CV2X_LOCATION_BASIC PB_LOCATION_CAPS_QWES_CV2X_LOCATION_BASIC;
    bit LOCATION_CAPABILITIES_QWES_CV2X_LOCATION_PREMIUM PB_LOCATION_CAPS_QWES_CV2X_LOCATION_PREMIUM;
    bit LOCATION_CAPABILITIES_QWES_PPE PB_LOCATION_CAPS_QWES_PPE;
    bit LOCATION_CAPABILITIES_QWES_QDR2 PB_LOCATION_CAPS_QWES_QDR2;
    bit LOCATION_CAPABILITIES_QWES_QDR3 PB_LOCATION_CAPS_QWES_QDR3 ] locCapabMask.

Definition getPBMaskForPositioningEngineMask (posEngMask : Z) : Z :=
  set_bits 32 0
  [ bit STANDARD_POSITIONING_ENGINE PB_STANDARD_POSITIONING_ENGINE;
    bit DEAD_RECKONING_ENGINE PB_DEAD_RECKONING_ENGINE;
    bit PRECISE_POSITIONING_ENGINE PB_PRECISE_POSITIONING_ENGINE ] posEngMask.

Definition getPBMaskForLeverArmTypeMask (leverArmTypeMask : Z) : Z :=
  set_bits 32 0
  [ bit LEVER_ARM_TYPE_GNSS_TO_VRP_BIT PB_LEVER_ARM_TYPE_GNSS_TO_VRP_BIT;
    bit LEVER_ARM_TYPE_DR_IMU_TO_GNSS_BIT PB_LEVER_ARM_TYPE_DR_IMU_TO_GNSS_BIT;
    bit LEVER_ARM_TYPE_VEPP_IMU_TO_GNSS_BIT PB_LEVER_ARM_TYPE_VEPP_IMU_TO_GNSS_BIT ] leverArmTypeMask.

Definition getPBMaskForLocReqEngineTypeMask (locReqEngTypeMask : Z) : Z :=
  set_bits 32 0
  [ bit LOC_REQ_ENGINE_FUSED_BIT PB_LOC_REQ_ENGINE_FUSED_BIT;
    bit LOC_REQ_ENGINE_SPE_BIT PB_LOC_REQ_ENGINE_SPE_BIT;
    bit LOC_REQ_ENGINE_PPE_BIT PB_LOC_REQ_ENGINE_PPE_BIT ] locReqEngTypeMask.

Definition getPBMaskForGnssCfgRobustLocValidMask (gnssCfgRobustLocValidMask : Z) : Z :=
  set_bits 32 0
  [ bit GNSS_CONFIG_ROBUST_LOCATION_ENABLED_VALID_BIT PB_GNSS_CONFIG_ROBUST_LOCATION_ENABLED_VALID_BIT;
    bit GNSS_CONFIG_ROBUST_LOCATION_ENABLED_FOR_E911_VALID_BIT PB_GNSS_CONFIG_ROBUST_LOCATION_ENABLED_FOR_E911_VALID_BIT;
    bit GNSS_CONFIG_ROBUST_LOCATION_VERSION_VALID_BIT PB_GNSS_CONFIG_ROBUST_LOCATION_VERSION_VALID_BIT ] gnssCfgRobustLocValidMask.

Definition getPBMaskForLocSysInfoMask (locSysInfoMask : Z) : Z :=
  set_bits 32 0
  [ bit LOCATION_SYS_INFO_LEAP_SECOND PB_LOCATION_SYS_INFO_LEAP_SECOND ] locSysInfoMask.

Definition getPBMaskForGnssDataMask (gnssDataMask : Z) : Z :=
  set_bits 64 0
  [ bit GNSS_LOC_DATA_JAMMER_IND_BIT PB_GNSS_LOC_DATA_JAMMER_IND_BIT;
    bit GNSS_LOC_DATA_AGC_BIT PB_GNSS_LOC_DATA_AGC_BIT ] gnssDataMask.

Definition getPBMaskForGnssAidingDataSvMask (gnssAidDataSvMask : Z) : Z :=
  set_bits 32 0
  [ bit GNSS_AIDING_DATA_SV_EPHEMERIS_BIT PB_AIDING_DATA_SV_EPHEMERIS_BIT ] gnssAidDataSvMask.

Definition getPBMaskForLeapSecondSysInfoMask (leapSecSysInfoMask : Z) : Z :=
  set_bits 32 0
  [ bit LEAP_SECOND_SYS_INFO_CURRENT_LEAP_SECONDS_BIT PB_LEAP_SECOND_SYS_INFO_CURRENT_LEAP_SECONDS_BIT;
    bit LEAP_SECOND_SYS_INFO_LEAP_SECOND_CHANGE_BIT PB_LEAP_SECOND_SYS_INFO_LEAP_SECOND_CHANGE_BIT ] leapSecSysInfoMask.

Definition getPBMaskForGnssSystemTimeStructTypeFlags (gnssSysTimeStructTypeFlg : Z) : Z :=
  set_bits 32 0
  [ bit GNSS_SYSTEM_TIME_WEEK_VALID PB_GNSS_SYSTEM_TIME_WEEK_VALID;
    bit GNSS_SYSTEM_TIME_WEEK_MS_VALID PB_GNSS_SYSTEM_TIME_WEEK_MS_VALID;
    bit GNSS_SYSTEM_CLK_TIME_BIAS_VALID PB_GNSS_SYSTEM_CLK_TIME_BIAS_VALID;
    bit GNSS_SYSTEM_CLK_TIME_BIAS_UNC_VALID PB_GNSS_SYSTEM_CLK_TIME_BIAS_UNC_VALID;
    bit GNSS_SYSTEM_REF_FCOUNT_VALID PB_GNSS_SYSTEM_REF_FCOUNT_VALID;
    bit GNSS_SYSTEM_NUM_CLOCK_RESETS_VALID PB_GNSS_SYSTEM_NUM_CLOCK_RESETS_VALID ] gnssSysTimeStructTypeFlg.

Definition getPBMaskForLocationFlagsMask (locFlagsMask : Z) : Z :=
  set_bits 32 0
  [ bit LOCATION_HAS_LAT_LONG_BIT PB_LOCATION_HAS_LAT_LONG_BIT;
    bit LOCATION_HAS_ALTITUDE_BIT PB_LOCATION_HAS_ALTITUDE_BIT;
    bit LOCATION_HAS_SPEED_BIT PB_LOCATION_HAS_SPEED_BIT;
    bit LOCATION_HAS_BEARING_BIT PB_LOCATION_HAS_BEARING_BIT;
    bit LOCATION_HAS_ACCURACY_BIT PB_LOCATION_HAS_ACCURACY_BIT;
    bit LOCATION_HAS_VERTICAL_ACCURACY_BIT PB_LOCATION_HAS_VERTICAL_ACCURACY_BIT;
    bit LOCATION_HAS_SPEED_ACCURACY_BIT PB_LOCATION_HAS_SPEED_ACCURACY_BIT;
    bit LOCATION_HAS_BEARING_ACCURACY_BIT PB_LOCATION_HAS_BEARING_ACCURACY_BIT ] locFlagsMask.

Definition getPBMaskForLocationTechnologyMask (locTechMask : Z) : Z :=
  set_bits 32 0
  [ bit LOCATION_TECHNOLOGY_GNSS_BIT PB_LOCATION_TECHNOLOGY_GNSS_BIT;
    bit LOCATION_TECHNOLOGY_CELL_BIT PB_LOCATION_TECHNOLOGY_CELL_BIT;
    bit LOCATION_TECHNOLOGY_WIFI_BIT PB_LOCATION_TECHNOLOGY_WIFI_BIT;
    bit LOCATION_TECHNOLOGY_SENSORS_BIT PB_LOCATION_TECHNOLOGY_SENSORS_BIT;
    bit LOCATION_TECHNOLOGY_REFERENCE_LOCATION_BIT PB_LOCATION_TECHNOLOGY_REFERENCE_LOCATION_BIT;
    bit LOCATION_TECHNOLOGY_INJECTED_COARSE_POSITION_BIT PB_LOCATION_TECHNOLOGY_INJECTED_COARSE_POSITION_BIT;
    bit LOCATION_TECHNOLOGY_AFLT_BIT PB_LOCATION_TECHNOLOGY_AFLT_BIT;
    bit LOCATION_TECHNOLOGY_HYBRID_BIT PB_LOCATION_TECHNOLOGY_HYBRID_BIT;
    bit LOCATION_TECHNOLOGY_PPE_BIT PB_LOCATION_TECHNOLOGY_PPE_BIT;
    bit LOCATION_TECHNOLOGY_VEH_BIT PB_LOCATION_TECHNOLOGY_VEH_BIT;
    bit LOCATION_TECHNOLOGY_VIS_BIT PB_LOCATION_TECHNOLOGY_VIS_BIT ] locTechMask.

Definition getPBMaskForGnssLocationInfoFlagMask (gnssLocInfoFlagMask : Z) : Z :=
  set_bits 32 0
  [ bit GNSS_LOCATION_INFO_ALTITUDE_MEAN_SEA_LEVEL_BIT PB_GNSS_LOCATION_INFO_ALTITUDE_MEAN_SEA_LEVEL_BIT;
    bit GNSS_LOCATION_INFO_DOP_BIT PB_GNSS_LOCATION_INFO_DOP_BIT;
    bit GNSS_LOCATION_INFO_MAGNETIC_DEVIATION_BIT PB_GNSS_LOCATION_INFO_MAGNETIC_DEVIATION_BIT;
    bit GNSS_LOCATION_INFO_HOR_RELIABILITY_BIT PB_GNSS_LOCATION_INFO_HOR_RELIABILITY_BIT;
    bit GNSS_LOCATION_INFO_VER_RELIABILITY_BIT PB_GNSS_LOCATION_INFO_VER_RELIABILITY_BIT;
    bit GNSS_LOCATION_INFO_HOR_ACCURACY_ELIP_SEMI_MAJOR_BIT PB_GNSS_LOCATION_INFO_HOR_ACCURACY_ELIP_SEMI_MAJOR_BIT;
    bit GNSS_LOCATION_INFO_HOR_ACCURACY_ELIP_SEMI_MINOR_BIT PB_GNSS_LOCATION_INFO_HOR_ACCURACY_ELIP_SEMI_MINOR_BIT;
    bit GNSS_LOCATION_INFO_HOR_ACCURACY_ELIP_AZIMUTH_BIT PB_GNSS_LOCATION_INFO_HOR_ACCURACY_ELIP_AZIMUTH_BIT;
    bit GNSS_LOCATION_INFO_GNSS_SV_USED_DATA_BIT PB_GNSS_LOCATION_INFO_GNSS_SV_USED_DATA_BIT;
    bit GNSS_LOCATION_INFO_NAV_SOLUTION_MASK_BIT PB_GNSS_LOCATION_INFO_NAV_SOLUTION_MASK_BIT;
    bit GNSS_LOCATION_INFO_POS_DYNAMICS_DATA_BIT PB_GNSS_LOCATION_INFO_POS_DYNAMICS_DATA_BIT;
    bit GNSS_LOCATION_INFO_EXT_DOP_BIT PB_GNSS_LOCATION_INFO_EXT_DOP_BIT;
    bit GNSS_LOCATION_INFO_NORTH_STD_DEV_BIT PB_GNSS_LOCATION_INFO_NORTH_STD_DEV_BIT;
    bit GNSS_LOCATION_INFO_EAST_STD_DEV_BIT PB_GNSS_LOCATION_INFO_EAST_STD_DEV_BIT;
    bit GNSS_LOCATION_INFO_NORTH_VEL_BIT PB_GNSS_LOCATION_INFO_NORTH_VEL_BIT;
    bit GNSS_LOCATION_INFO_EAST_VEL_BIT PB_GNSS_LOCATION_INFO_EAST_VEL_BIT;
    bit GNSS_LOCATION_INFO_UP_VEL_BIT PB_GNSS_LOCATION_INFO_UP_VEL_BIT;
    bit GNSS_LOCATION_INFO_NORTH_VEL_UNC_BIT PB_GNSS_LOCATION_INFO_NORTH_VEL_UNC_BIT;
    bit GNSS_LOCATION_INFO_EAST_VEL_UNC_BIT PB_GNSS_LOCATION_INFO_EAST_VEL_UNC_BIT;
    bit GNSS_LOCATION_INFO_UP_VEL_UNC_BIT PB_GNSS_LOCATION_INFO_UP_VEL_UNC_BIT;
    bit GNSS_LOCATION_INFO_LEAP_SECONDS_BIT PB_GNSS_LOCATION_INFO_LEAP_SECONDS_BIT;
    bit GNSS_LOCATION_INFO_TIME_UNC_BIT PB_GNSS_LOCATION_INFO_TIME_UNC_BIT;
    bit GNSS_LOCATION_INFO_NUM_SV_USED_IN_POSITION_BIT PB_GNSS_LOCATION_INFO_NUM_SV_USED_IN_POSITION_BIT;
    bit GNSS_LOCATION_INFO_CALIBRATION_CONFIDENCE_BIT PB_GNSS_LOCATION_INFO_CALIBRATION_CONFIDENCE_PERCENT_BIT;
    bit GNSS_LOCATION_INFO_CALIBRATION_STATUS_BIT PB_GNSS_LOCATION_INFO_CALIBRATION_STATUS_BIT;
    bit GNSS_LOCATION_INFO_OUTPUT_ENG_TYPE_BIT PB_GNSS_LOCATION_INFO_OUTPUT_ENG_TYPE_BIT;
    bit GNSS_LOCATION_INFO_OUTPUT_ENG_MASK_BIT PB_GNSS_LOCATION_INFO_OUTPUT_ENG_MASK_BIT;
    bit GNSS_LOCATION_INFO_CONFORMITY_INDEX_BIT PB_GNSS_LOCATION_INFO_CONFORMITY_INDEX_BIT;
    bit GNSS_LOCATION_INFO_LLA_VRP_BASED_BIT PB_GNSS_LOCATION_INFO_LLA_VRP_BASED_BIT;
    bit GNSS_LOCATION_INFO_ENU_VELOCITY_VRP_BASED_BIT PB_GNSS_LOCATION_INFO_ENU_VELOCITY_VRP_BASED_BIT;
    bit GNSS_LOCATION_INFO_DR_SOLUTION_STATUS_MASK_BIT PB_GNSS_LOCATION_INFO_DR_SOLUTION_STATUS_MASK_BIT ] gnssLocInfoFlagMask.

Definition getPBMaskForGnssLocationInfoExtFlagMask (gnssLocInfoFlagMask : Z) : Z :=
  set_bits 32 0
  [ bit GNSS_LOCATION_INFO_ALTITUDE_ASSUMED_BIT PB_GNSS_LOCATION_INFO_ALTITUDE_ASSUMED_BIT;
    bit GNSS_LOCATION_INFO_SESSION_STATUS_BIT PB_GNSS_LOCATION_INFO_SESSION_STATUS_BIT ] gnssLocInfoFlagMask.

Definition getPBMaskForGnssLocationNavSolutionMask (gnssLocNavSolnMask : Z) : Z :=
  set_bits 32 0
  [ bit LOCATION_SBAS_CORRECTION_IONO_BIT PB_LOCATION_SBAS_CORRECTION_IONO_BIT;
    bit LOCATION_SBAS_CORRECTION_FAST_BIT PB_LOCATION_SBAS_CORRECTION_FAST_BIT;
    bit LOCATION_SBAS_CORRECTION_LONG_BIT PB_LOCATION_SBAS_CORRECTION_LONG_BIT;
    bit LOCATION_SBAS_INTEGRITY_BIT PB_LOCATION_SBAS_INTEGRITY_BIT;
    bit LOCATION_NAV_CORRECTION_DGNSS_BIT PB_LOCATION_NAV_CORRECTION_DGNSS_BIT;
    bit LOCATION_NAV_CORRECTION_RTK_BIT PB_LOCATION_NAV_CORRECTION_RTK_BIT;
    bit LOCATION_NAV_CORRECTION_PPP_BIT PB_LOCATION_NAV_CORRECTION_PPP_BIT;
    bit LOCATION_NAV_CORRECTION_RTK_FIXED_BIT PB_LOCATION_NAV_CORRECTION_RTK_FIXED_BIT;
    bit LOCATION_NAV_CORRECTION_ONLY_SBAS_CORRECTED_SV_USED_BIT PB_LOCATION_NAV_CORRECTION_ONLY_SBAS_CORRECTED_SV_USED_BIT ] gnssLocNavSolnMask.

Definition getPBMaskForDrCalibrationStatusMask (drCalibStatusMask : Z) : Z :=
  set_bits 32 0
  [ bit DR_ROLL_CALIBRATION_NEEDED PB_DR_ROLL_CALIBRATION_NEEDED;
    bit DR_PITCH_CALIBRATION_NEEDED PB_DR_PITCH_CALIBRATION_NEEDED;
    bit DR_YAW_CALIBRATION_NEEDED PB_DR_YAW_CALIBRATION_NEEDED;
    bit DR_ODO_CALIBRATION_NEEDED PB_DR_ODO_CALIBRATION_NEEDED;
    bit DR_GYRO_CALIBRATION_NEEDED PB_DR_GYRO_CALIBRATION_NEEDED ] drCalibStatusMask.

Definition getPBMaskForGnssMeasurementsDataFlagsMask (gnssMeasDataFlagsMask : Z) : Z :=
  set_bits 32 0
  [ bit GNSS_MEASUREMENTS_DATA_SV_ID_BIT PB_GNSS_MEASUREMENTS_DATA_SV_ID_BIT;
    bit GNSS_MEASUREMENTS_DATA_SV_TYPE_BIT PB_GNSS_MEASUREMENTS_DATA_SV_TYPE_BIT;
    bit GNSS_MEASUREMENTS_DATA_STATE_BIT PB_GNSS_MEASUREMENTS_DATA_STATE_BIT;
    bit GNSS_MEASUREMENTS_DATA_RECEIVED_SV_TIME_BIT PB_GNSS_MEASUREMENTS_DATA_RECEIVED_SV_TIME_BIT;
    bit GNSS_MEASUREMENTS_DATA_RECEIVED_SV_TIME_UNCERTAINTY_BIT PB_GNSS_MEASUREMENTS_DATA_RECEIVED_SV_TIME_UNCERTAINTY_BIT;
    bit GNSS_MEASUREMENTS_DATA_CARRIER_TO_NOISE_BIT PB_GNSS_MEASUREMENTS_DATA_CARRIER_TO_NOISE_BIT;
    bit GNSS_MEASUREMENTS_DATA_PSEUDORANGE_RATE_BIT PB_GNSS_MEASUREMENTS_DATA_PSEUDORANGE_RATE_BIT;
    bit GNSS_MEASUREMENTS_DATA_PSEUDORANGE_RATE_UNCERTAINTY_BIT PB_GNSS_MEASUREMENTS_DATA_PSEUDORANGE_RATE_UNCERTAINTY_BIT;
    bit GNSS_MEASUREMENTS_DATA_ADR_STATE_BIT PB_GNSS_MEASUREMENTS_DATA_ADR_STATE_BIT;
    bit GNSS_MEASUREMENTS_DATA_ADR_BIT PB_GNSS_MEASUREMENTS_DATA_ADR_BIT;
    bit GNSS_MEASUREMENTS_DATA_ADR_UNCERTAINTY_BIT PB_GNSS_MEASUREMENTS_DATA_ADR_UNCERTAINTY_BIT;
    bit GNSS_MEASUREMENTS_DATA_CARRIER_FREQUENCY_BIT PB_GNSS_MEASUREMENTS_DATA_CARRIER_FREQUENCY_BIT;
    bit GNSS_MEASUREMENTS_DATA_CARRIER_CYCLES_BIT PB_GNSS_MEASUREMENTS_DATA_CARRIER_CYCLES_BIT;
    bit GNSS_MEASUREMENTS_DATA_CARRIER_PHASE_BIT PB_GNSS_MEASUREMENTS_DATA_CARRIER_PHASE_BIT;
    bit GNSS_MEASUREMENTS_DATA_CARRIER_PHASE_UNCERTAINTY_BIT PB_GNSS_MEASUREMENTS_DATA_CARRIER_PHASE_UNCERTAINTY_BIT;
    bit GNSS_MEASUREMENTS_DATA_MULTIPATH_INDICATOR_BIT PB_GNSS_MEASUREMENTS_DATA_MULTIPATH_INDICATOR_BIT;
    bit GNSS_MEASUREMENTS_DATA_SIGNAL_TO_NOISE_RATIO_BIT PB_GNSS_MEASUREMENTS_DATA_SIGNAL_TO_NOISE_RATIO_BIT;
    bit GNSS_MEASUREMENTS_DATA_AUTOMATIC_GAIN_CONTROL_BIT PB_GNSS_MEASUREMENTS_DATA_AUTOMATIC_GAIN_CONTROL_BIT;
    bit GNSS_MEASUREMENTS_DATA_FULL_ISB_BIT PB_GNSS_MEASUREMENTS_DATA_FULL_ISB_BIT;
    bit GNSS_MEASUREMENTS_DATA_FULL_ISB_UNCERTAINTY_BIT PB_GNSS_MEASUREMENTS_DATA_FULL_ISB_UNCERTAINTY_BIT;
    bit GNSS_MEASUREMENTS_DATA_CYCLE_SLIP_COUNT_BIT PB_GNSS_MEASUREMENTS_DATA_CYCLE_SLIP_COUNT_BIT ] gnssMeasDataFlagsMask.

Definition getPBMaskForGnssMeasurementsStateMask (gnssMeasStateMask : Z) : Z :=
  set_bits 32 0
  [ bit GNSS_MEASUREMENTS_STATE_UNKNOWN_BIT PB_GNSS_MEASUREMENTS_STATE_UNKNOWN_BIT;
    bit GNSS_MEASUREMENTS_STATE_CODE_LOCK_BIT PB_GNSS_MEASUREMENTS_STATE_CODE_LOCK_BIT;
    bit GNSS_MEASUREMENTS_STATE_BIT_SYNC_BIT PB_GNSS_MEASUREMENTS_STATE_BIT_SYNC_BIT;
    bit GNSS_MEASUREMENTS_STATE_SUBFRAME_SYNC_BIT PB_GNSS_MEASUREMENTS_STATE_SUBFRAME_SYNC_BIT;
    bit GNSS_MEASUREMENTS_STATE_TOW_DECODED_BIT PB_GNSS_MEASUREMENTS_STATE_TOW_DECODED_BIT;
    bit GNSS_MEASUREMENTS_STATE_MSEC_AMBIGUOUS_BIT PB_GNSS_MEASUREMENTS_STATE_MSEC_AMBIGUOUS_BIT;
    bit GNSS_MEASUREMENTS_STATE_SYMBOL_SYNC_BIT PB_GNSS_MEASUREMENTS_STATE_SYMBOL_SYNC_BIT;
    bit GNSS_MEASUREMENTS_STATE_GLO_STRING_SYNC_BIT PB_GNSS_MEASUREMENTS_STATE_GLO_STRING_SYNC_BIT;
    bit GNSS_MEASUREMENTS_STATE_GLO_TOD_DECODED_BIT PB_GNSS_MEASUREMENTS_STATE_GLO_TOD_DECODED_BIT;
    bit GNSS_MEASUREMENTS_STATE_BDS_D2_BIT_SYNC_BIT PB_GNSS_MEASUREMENTS_STATE_BDS_D2_BIT_SYNC_BIT;
    bit GNSS_MEASUREMENTS_STATE_BDS_D2_SUBFRAME_SYNC_BIT PB_GNSS_MEASUREMENTS_STATE_BDS_D2_SUBFRAME_SYNC_BIT;
    bit GNSS_MEASUREMENTS_STATE_GAL_E1BC_CODE_LOCK_BIT PB_GNSS_MEASUREMENTS_STATE_GAL_E1BC_CODE_LOCK_BIT;
    bit GNSS_MEASUREMENTS_STATE_GAL_E1C_2ND_CODE_LOCK_BIT PB_GNSS_MEASUREMENTS_STATE_GAL_E1C_2ND_CODE_LOCK_BIT;
    bit GNSS_MEASUREMENTS_STATE_GAL_E1B_PAGE_SYNC_BIT PB_GNSS_MEASUREMENTS_STATE_GAL_E1B_PAGE_SYNC_BIT;
    bit GNSS_MEASUREMENTS_STATE_SBAS_SYNC_BIT PB_GNSS_MEASUREMENTS_STATE_SBAS_SYNC_BIT ] gnssMeasStateMask.

Definition getPBMaskForGnssMeasurementsAdrStateMask (gnssMeasAdrStateMask : Z) : Z :=
  set_bits 32 0
  [ bit GNSS_MEASUREMENTS_ACCUMULATED_DELTA_RANGE_STATE_UNKNOWN PB_GNSS_MEASUREMENTS_ACCUMULATED_DELTA_RANGE_STATE_UNKNOWN;
    bit GNSS_MEASUREMENTS_ACCUMULATED_DELTA_RANGE_STATE_VALID_BIT PB_GNSS_MEASUREMENTS_ACCUMULATED_DELTA_RANGE_STATE_VALID_BIT;
    bit GNSS_MEASUREMENTS_ACCUMULATED_DELTA_RANGE_STATE_RESET_BIT PB_GNSS_MEASUREMENTS_ACCUMULATED_DELTA_RANGE_STATE_RESET_BIT;
    bit GNSS_MEASUREMENTS_ACCUMULATED_DELTA_RANGE_STATE_CYCLE_SLIP_BIT PB_GNSS_MEASUREMENTS_ACCUMULATED_DELTA_RANGE_STATE_CYCLE_SLIP_BIT ] gnssMeasAdrStateMask.

Definition getPBMaskForGnssLocationPosDataMask (gnssLocPosDataMask : Z) (gnssLocPosDataMaskExt : Z) : Z :=
  let r := set_bits 32 0
  [ bit LOCATION_NAV_DATA_HAS_LONG_ACCEL_BIT PB_LOCATION_NAV_DATA_HAS_LONG_ACCEL_BIT;
    bit LOCATION_NAV_DATA_HAS_LAT_ACCEL_BIT PB_LOCATION_NAV_DATA_HAS_LAT_ACCEL_BIT;
    bit LOCATION_NAV_DATA_HAS_VERT_ACCEL_BIT PB_LOCATION_NAV_DATA_HAS_VERT_ACCEL_BIT;
    bit LOCATION_NAV_DATA_HAS_YAW_RATE_BIT PB_LOCATION_NAV_DATA_HAS_YAW_RATE_BIT;
    bit LOCATION_NAV_DATA_HAS_PITCH_BIT PB_LOCATION_NAV_DATA_HAS_PITCH_BIT;
    bit LOCATION_NAV_DATA_HAS_LONG_ACCEL_UNC_BIT PB_LOCATION_NAV_DATA_HAS_LONG_ACCEL_UNC_BIT;
    bit LOCATION_NAV_DATA_HAS_LAT_ACCEL_UNC_BIT PB_LOCATION_NAV_DATA_HAS_LAT_ACCEL_UNC_BIT;
    bit LOCATION_NAV_DATA_HAS_VERT_ACCEL_UNC_BIT PB_LOCATION_NAV_DATA_HAS_VERT_ACCEL_UNC_BIT;
    bit LOCATION_NAV_DATA_HAS_YAW_RATE_UNC_BIT PB_LOCATION_NAV_DATA_HAS_YAW_RATE_UNC_BIT;
    bit LOCATION_NAV_DATA_HAS_PITCH_UNC_BIT PB_LOCATION_NAV_DATA_HAS_PITCH_UNC_BIT ] gnssLocPosDataMask in
  set_bits 32 r
  [ bit LOCATION_NAV_DATA_HAS_PITCH_RATE_BIT PB_LOCATION_NAV_DATA_HAS_PITCH_RATE_BIT;
    bit LOCATION_NAV_DATA_HAS_PITCH_RATE_UNC_BIT PB_LOCATION_NAV_DATA_HAS_PITCH_RATE_UNC_BIT;
    bit LOCATION_NAV_DATA_HAS_ROLL_BIT PB_LOCATION_NAV_DATA_HAS_ROLL_BIT;
    bit LOCATION_NAV_DATA_HAS_ROLL_UNC_BIT PB_LOCATION_NAV_DATA_HAS_ROLL_UNC_BIT;
    bit LOCATION_NAV_DATA_HAS_ROLL_RATE_BIT PB_LOCATION_NAV_DATA_HAS_ROLL_RATE_BIT;
    bit LOCATION_NAV_DATA_HAS_ROLL_RATE_UNC_BIT PB_LOCATION_NAV_DATA_HAS_ROLL_RATE_UNC_BIT;
    bit LOCATION_NAV_DATA_HAS_YAW_BIT PB_LOCATION_NAV_DATA_HAS_YAW_BIT;
    bit LOCATION_NAV_DATA_HAS_YAW_UNC_BIT PB_LOCATION_NAV_DATA_HAS_YAW_UNC_BIT ] gnssLocPosDataMaskExt.

Definition getPBMaskForGnssMeasurementsClockFlagsMask (gnssMeasClockFlagsMask : Z) : Z :=
  set_bits 32 0
  [ bit GNSS_MEASUREMENTS_CLOCK_FLAGS_LEAP_SECOND_BIT PB_GNSS_MEASUREMENTS_CLOCK_FLAGS_LEAP_SECOND_BIT;
    bit GNSS_MEASUREMENTS_CLOCK_FLAGS_TIME_BIT PB_GNSS_MEASUREMENTS_CLOCK_FLAGS_TIME_BIT;
    bit GNSS_MEASUREMENTS_CLOCK_FLAGS_TIME_UNCERTAINTY_BIT PB_GNSS_MEASUREMENTS_CLOCK_FLAGS_TIME_UNCERTAINTY_BIT;
    bit GNSS_MEASUREMENTS_CLOCK_FLAGS_FULL_BIAS_BIT PB_GNSS_MEASUREMENTS_CLOCK_FLAGS_FULL_BIAS_BIT;
    bit GNSS_MEASUREMENTS_CLOCK_FLAGS_BIAS_BIT PB_GNSS_MEASUREMENTS_CLOCK_FLAGS_BIAS_BIT;
    bit GNSS_MEASUREMENTS_CLOCK_FLAGS_BIAS_UNCERTAINTY_BIT PB_GNSS_MEASUREMENTS_CLOCK_FLAGS_BIAS_UNCERTAINTY_BIT;
    bit GNSS_MEASUREMENTS_CLOCK_FLAGS_DRIFT_BIT PB_GNSS_MEASUREMENTS_CLOCK_FLAGS_DRIFT_BIT;
    bit GNSS_MEASUREMENTS_CLOCK_FLAGS_DRIFT_UNCERTAINTY_BIT PB_GNSS_MEASUREMENTS_CLOCK_FLAGS_DRIFT_UNCERTAINTY_BIT;
    bit GNSS_MEASUREMENTS_CLOCK_FLAGS_HW_CLOCK_DISCONTINUITY_COUNT_BIT PB_GNSS_MEASUREMENTS_CLOCK_FLAGS_HW_CLOCK_DISCONTINUITY_COUNT_BIT ] gnssMeasClockFlagsMask.

Definition getPBMaskForGnssGloTimeStructTypeFlags (gnssGloTimeStructTypeFlags : Z) : Z :=
  set_bits 32 0
  [ bit GNSS_CLO_DAYS_VALID PB_GNSS_CLO_DAYS_VALID;
    bit GNSS_GLO_MSEC_VALID PB_GNSS_GLO_MSEC_VALID;
    bit GNSS_GLO_CLK_TIME_BIAS_VALID PB_GNSS_GLO_CLK_TIME_BIAS_VALID;
    bit GNSS_GLO_CLK_TIME_BIAS_UNC_VALID PB_GNSS_GLO_CLK_TIME_BIAS_UNC_VALID;
    bit GNSS_GLO_REF_FCOUNT_VALID PB_GNSS_GLO_REF_FCOUNT_VALID;
    bit GNSS_GLO_NUM_CLOCK_RESETS_VALID PB_GNSS_GLO_NUM_CLOCK_RESETS_VALID;
    bit GNSS_GLO_FOUR_YEAR_VALID PB_GNSS_GLO_FOUR_YEAR_VALID ] gnssGloTimeStructTypeFlags.

Definition getPBMaskForGnssSvOptionsMask (gnssSvOptMask : Z) : Z :=
  set_bits 32 0
  [ bit GNSS_SV_OPTIONS_HAS_EPHEMER_BIT PB_GNSS_SV_OPTIONS_HAS_EPHEMER_BIT;
    bit GNSS_SV_OPTIONS_HAS_ALMANAC_BIT PB_GNSS_SV_OPTIONS_HAS_ALMANAC_BIT;
    bit GNSS_SV_OPTIONS_USED_IN_FIX_BIT PB_GNSS_SV_OPTIONS_USED_IN_FIX_BIT;
    bit GNSS_SV_OPTIONS_HAS_CARRIER_FREQUENCY_BIT PB_GNSS_SV_OPTIONS_HAS_CARRIER_FREQUENCY_BIT;
    bit GNSS_SV_OPTIONS_HAS_GNSS_SIGNAL_TYPE_BIT PB_GNSS_SV_OPTIONS_HAS_GNSS_SIGNAL_TYPE_BIT ] gnssSvOptMask.

Definition getPBMaskForGnssSignalTypeMask (gnssSignalTypeMask : Z) : Z :=
  set_bits 32 0
  [ bit GNSS_SIGNAL_GPS_L1CA PB_GNSS_SIGNAL_GPS_L1CA_BIT;
    bit GNSS_SIGNAL_GPS_L1C PB_GNSS_SIGNAL_GPS_L1C_BIT;
    bit GNSS_SIGNAL_GPS_L2 PB_GNSS_SIGNAL_GPS_L2_BIT;
    bit GNSS_SIGNAL_GPS_L5 PB_GNSS_SIGNAL_GPS_L5_BIT;
    bit GNSS_SIGNAL_GLONASS_G1 PB_GNSS_SIGNAL_GLONASS_G1_BIT;
    bit GNSS_SIGNAL_GLONASS_G2 PB_GNSS_SIGNAL_GLONASS_G2_BIT;
    bit GNSS_SIGNAL_GALILEO_E1 PB_GNSS_SIGNAL_GALILEO_E1_BIT;
    bit GNSS_SIGNAL_GALILEO_E5A PB_GNSS_SIGNAL_GALILEO_E5A_BIT;
    bit GNSS_SIGNAL_GALILEO_E5B PB_GNSS_SIGNAL_GALILEO_E5B_BIT;
    bit GNSS_SIGNAL_BEIDOU_B1 PB_GNSS_SIGNAL_BEIDOU_B1_BIT;
    bit GNSS_SIGNAL_BEIDOU_B2 PB_GNSS_SIGNAL_BEIDOU_B2_BIT;
    bit GNSS_SIGNAL_QZSS_L1CA PB_GNSS_SIGNAL_QZSS_L1CA_BIT;
    bit GNSS_SIGNAL_QZSS_L1S PB_GNSS_SIGNAL_QZSS_L1S_BIT;
    bit GNSS_SIGNAL_QZSS_L2 PB_GNSS_SIGNAL_QZSS_L2_BIT;
    bit GNSS_SIGNAL_QZSS_L5 PB_GNSS_SIGNAL_QZSS_L5_BIT;
    bit GNSS_SIGNAL_SBAS_L1 PB_GNSS_SIGNAL_SBAS_L1_BIT;
    bit GNSS_SIGNAL_BEIDOU_B1I PB_GNSS_SIGNAL_BEIDOU_B1I_BIT;
    bit GNSS_SIGNAL_BEIDOU_B1C PB_GNSS_SIGNAL_BEIDOU_B1C_BIT;
    bit GNSS_SIGNAL_BEIDOU_B2I PB_GNSS_SIGNAL_BEIDOU_B2I_BIT;
    bit GNSS_SIGNAL_BEIDOU_B2AI PB_GNSS_SIGNAL_BEIDOU_B2AI_BIT;
    bit GNSS_SIGNAL_NAVIC_L5 PB_GNSS_SIGNAL_NAVIC_L5_BIT;
    bit GNSS_SIGNAL_BEIDOU_B2AQ PB_GNSS_SIGNAL_BEIDOU_B2AQ_BIT ] gnssSignalTypeMask.

Definition getPBMaskForGeofenceBreachTypeMask (gfBreachTypeMask : Z) : Z :=
  set_bits 32 0
  [ bit GEOFENCE_BREACH_ENTER_BIT PB_GEOFENCE_BREACH_ENTER_BIT;
    bit GEOFENCE_BREACH_EXIT_BIT PB_GEOFENCE_BREACH_EXIT_BIT;
    bit GEOFENCE_BREACH_DWELL_IN_BIT PB_GEOFENCE_BREACH_DWELL_IN_BIT;
    bit GEOFENCE_BREACH_DWELL_OUT_BIT PB_GEOFENCE_BREACH_DWELL_OUT_BIT ] gfBreachTypeMask.

Definition getPBMaskForDeadReckoningEngineConfigValidMask (drEngCfgValidMask : Z) : Z :=
  set_bits 64 0
  [ bit BODY_TO_SENSOR_MOUNT_PARAMS_BIT PB_BODY_TO_SENSOR_MOUNT_PARAMS_BIT;
    bit VEHICLE_SPEED_SCALE_FACTOR_BIT PB_VEHICLE_SPEED_SCALE_FACTOR_BIT;
    bit VEHICLE_SPEED_SCALE_FACTOR_UNC_BIT PB_VEHICLE_SPEED_SCALE_FACTOR_UNC_BIT;
    bit GYRO_SCALE_FACTOR_BIT PB_GYRO_SCALE_FACTOR_BIT;
    bit GYRO_SCALE_FACTOR_UNC_BIT PB_GYRO_SCALE_FACTOR_UNC_BIT ] drEngCfgValidMask.

Definition getPBMaskForDrEngineAidingDataMask (drEngAidDataMask : Z) : Z :=
  set_bits 32 0
  [ bit DR_ENGINE_AIDING_DATA_CALIBRATION_BIT PB_DR_ENGINE_AIDING_DATA_CALIBRATION_BIT ] drEngAidDataMask.

Definition getPBMaskForDrSolutionStatusMask (drSolnStatusMask : Z) : Z :=
  set_bits 32 0
  [ bit VEHICLE_SENSOR_SPEED_INPUT_DETECTED PB_VEHICLE_SENSOR_SPEED_INPUT_DETECTED;
    bit VEHICLE_SENSOR_SPEED_INPUT_USED PB_VEHICLE_SENSOR_SPEED_INPUT_USED ] drSolnStatusMask.

Definition getLocationCapabilitiesMaskFromPB (pbLocCapabMask : Z) : Z :=
  set_bits 64 0
  [ bit PB_LOCATION_CAPS_TIME_BASED_TRACKING_BIT LOCATION_CAPABILITIES_TIME_BASED_TRACKING_BIT;
    bit PB_LOCATION_CAPS_TIME_BASED_BATCHING_BIT LOCATION_CAPABILITIES_TIME_BASED_BATCHING_BIT;
    bit PB_LOCATION_CAPS_DISTANCE_BASED_TRACKING_BIT LOCATION_CAPABILITIES_DISTANCE_BASED_TRACKING_BIT;
    bit PB_LOCATION_CAPS_DISTANCE_BASED_BATCHING_BIT LOCATION_CAPABILITIES_DISTANCE_BASED_BATCHING_BIT;
    bit PB_LOCATION_CAPS_GEOFENCE_BIT LOCATION_CAPABILITIES_GEOFENCE_BIT;
    bit PB_LOCATION_CAPS_OUTDOOR_TRIP_BATCHING_BIT LOCATION_CAPABILITIES_OUTDOOR_TRIP_BATCHING_BIT;
    bit PB_LOCATION_CAPS_GNSS_MEASUREMENTS_BIT LOCATION_CAPABILITIES_GNSS_MEASUREMENTS_BIT;
    bit PB_LOCATION_CAPS_CONSTELLATION_ENABLEMENT_BIT LOCATION_CAPABILITIES_CONSTELLATION_ENABLEMENT_BIT;
    bit PB_LOCATION_CAPS_QWES_CARRIER_PHASE_BIT LOCATION_CAPABILITIES_QWES_CARRIER_PHASE_BIT;
    bit PB_LOCATION_CAPS_QWES_SV_POLYNOMIAL_BIT LOCATION_CAPABILITIES_QWES_SV_POLYNOMIAL_BIT;
    bit PB_LOCATION_CAPS_QWES_GNSS_SINGLE_FREQUENCY LOCATION_CAPABILITIES_QWES_GNSS_SINGLE_FREQUENCY;
    bit PB_LOCATION_CAPS_QWES_GNSS_MULTI_FREQUENCY LOCATION_CAPABILITIES_QWES_GNSS_MULTI_FREQUENCY;
    bit PB_LOCATION_CAPS_QWES_VPE LOCATION_CAPABILITIES_QWES_VPE;
    bit PB_LOCATION_CAPS_QWES_CV2X_LOCATION_BASIC LOCATION_CAPABILITIES_QWES_CV2X_LOCATION_BASIC;
    bit PB_LOCATION_CAPS_QWES_CV2X_LOCATION_PREMIUM LOCATION_CAPABILITIES_QWES_CV2X_LOCATION_PREMIUM;
    bit PB_LOCATION_CAPS_QWES_PPE LOCATION_CAPABILITIES_QWES_PPE;
    bit PB_LOCATION_CAPS_QWES_QDR2 LOCATION_CAPABILITIES_QWES_QDR2;
    bit PB_LOCATION_CAPS_QWES_QDR3 LOCATION_CAPABILITIES_QWES_QDR3 ] pbLocCapabMask.

Definition getLocationCallbacksMaskFromPB (pbLocCbMask : Z) : Z :=
  set_bits 32 0
  [ bit PB_E_LOC_CB_DISTANCE_BASED_TRACKING_BIT E_LOC_CB_DISTANCE_BASED_TRACKING_BIT;
    bit PB_E_LOC_CB_GNSS_LOCATION_INFO_BIT E_LOC_CB_GNSS_LOCATION_INFO_BIT;
    bit PB_E_LOC_CB_GNSS_SV_BIT E_LOC_CB_GNSS_SV_BIT;
    bit PB_E_LOC_CB_GNSS_NMEA_BIT E_LOC_CB_GNSS_NMEA_BIT;
    bit PB_E_LOC_CB_GNSS_DATA_BIT E_LOC_CB_GNSS_DATA_BIT;
    bit PB_E_LOC_CB_SYSTEM_INFO_BIT E_LOC_CB_SYSTEM_INFO_BIT;
    bit PB_E_LOC_CB_BATCHING_BIT E_LOC_CB_BATCHING_BIT;
    bit PB_E_LOC_CB_BATCHING_STATUS_BIT E_LOC_CB_BATCHING_STATUS_BIT;
    bit PB_E_LOC_CB_GEOFENCE_BREACH_BIT E_LOC_CB_GEOFENCE_BREACH_BIT;
    bit PB_E_LOC_CB_ENGINE_LOCATIONS_INFO_BIT E_LOC_CB_ENGINE_LOCATIONS_INFO_BIT;
    bit PB_E_LOC_CB_SIMPLE_LOCATION_INFO_BIT E_LOC_CB_SIMPLE_LOCATION_INFO_BIT;
    bit PB_E_LOC_CB_GNSS_MEAS_BIT E_LOC_CB_GNSS_MEAS_BIT ] pbLocCbMask.

Definition getLeverArmTypeMaskFromPB (pbLeverTypeMask : Z) : Z :=
  set_bits 32 0
  [ bit PB_LEVER_ARM_TYPE_GNSS_TO_VRP_BIT LEVER_ARM_TYPE_GNSS_TO_VRP_BIT;
    bit PB_LEVER_ARM_TYPE_DR_IMU_TO_GNSS_BIT LEVER_ARM_TYPE_DR_IMU_TO_GNSS_BIT;
    bit PB_LEVER_ARM_TYPE_VEPP_IMU_TO_GNSS_BIT LEVER_ARM_TYPE_VEPP_IMU_TO_GNSS_BIT ] pbLeverTypeMask.

Definition getEnumForPBPositioningEngineMask (pbPosEngMask : Z) : Z :=
  set_bits 32 0
  [ bit PB_STANDARD_POSITIONING_ENGINE STANDARD_POSITIONING_ENGINE;
    bit PB_PRECISE_POSITIONING_ENGINE PRECISE_POSITIONING_ENGINE;
    bit PB_DEAD_RECKONING_ENGINE DEAD_RECKONING_ENGINE ] pbPosEngMask.

Definition getGnssSvTypesMaskFromPB (pbGnssSvTypesMask : Z) : Z :=
  set_bits 64 0
  [ bit PB_GNSS_SV_TYPES_MASK_GLO_BIT GNSS_SV_TYPES_MASK_GLO_BIT;
    bit PB_GNSS_SV_TYPES_MASK_BDS_BIT GNSS_SV_TYPES_MASK_BDS_BIT;
    bit PB_GNSS_SV_TYPES_MASK_QZSS_BIT GNSS_SV_TYPES_MASK_QZSS_BIT;
    bit PB_GNSS_SV_TYPES_MASK_GAL_BIT GNSS_SV_TYPES_MASK_GAL_BIT;
    bit PB_GNSS_SV_TYPES_MASK_NAVIC_BIT GNSS_SV_TYPES_MASK_NAVIC_BIT;
    bit PB_GNSS_SV_TYPES_MASK_GPS_BIT GNSS_SV_TYPES_MASK_GPS_BIT ] pbGnssSvTypesMask.

Definition getGnssAidingDataSvMaskFromPB (pbGnssAidDataSvMask : Z) : Z :=
  set_bits 32 0
  [ bit PB_AIDING_DATA_SV_EPHEMERIS_BIT GNSS_AIDING_DATA_SV_EPHEMERIS_BIT ] pbGnssAidDataSvMask.

Definition getLocReqEngineTypeMaskFromPB (pbLocReqEngTypeMask : Z) : Z :=
  set_bits 32 0
  [ bit PB_LOC_REQ_ENGINE_FUSED_BIT LOC_REQ_ENGINE_FUSED_BIT;
    bit PB_LOC_REQ_ENGINE_SPE_BIT LOC_REQ_ENGINE_SPE_BIT;
    bit PB_LOC_REQ_ENGINE_PPE_BIT LOC_REQ_ENGINE_PPE_BIT ] pbLocReqEngTypeMask.

Definition getLocationSystemInfoMaskFromPB (pbLocSysInfoMask : Z) : Z :=
  set_bits 32 PB_LOCATION_SYS_INFO_INVALID
  [ bit PB_LOCATION_SYS_INFO_LEAP_SECOND LOCATION_SYS_INFO_LEAP_SECOND ] pbLocSysInfoMask.

Definition getGnssDataMaskFromPB (pbGnssDataMask : Z) : Z :=
  set_bits 64 0
  [ bit PB_GNSS_LOC_DATA_JAMMER_IND_BIT GNSS_LOC_DATA_JAMMER_IND_BIT;
    bit PB_GNSS_LOC_DATA_AGC_BIT GNSS_LOC_DATA_AGC_BIT ] pbGnssDataMask.

Definition getLeapSecSysInfoMaskFromPB (pbLeapSecSysInfoMask : Z) : Z :=
  set_bits 32 0
  [ bit PB_LEAP_SECOND_SYS_INFO_CURRENT_LEAP_SECONDS_BIT LEAP_SECOND_SYS_INFO_CURRENT_LEAP_SECONDS_BIT;
    bit PB_LEAP_SECOND_SYS_INFO_LEAP_SECOND_CHANGE_BIT LEAP_SECOND_SYS_INFO_LEAP_SECOND_CHANGE_BIT ] pbLeapSecSysInfoMask.

Definition getGnssSystemTimeStructTypeFlagsFromPB (pbGnssSysTimeStrctType : Z) : Z :=
  set_bits 32 0
  [ bit PB_GNSS_SYSTEM_TIME_WEEK_VALID GNSS_SYSTEM_TIME_WEEK_VALID;
    bit PB_GNSS_SYSTEM_TIME_WEEK_MS_VALID GNSS_SYSTEM_TIME_WEEK_MS_VALID;
    bit PB_GNSS_SYSTEM_CLK_TIME_BIAS_VALID GNSS_SYSTEM_CLK_TIME_BIAS_VALID;
    bit PB_GNSS_SYSTEM_CLK_TIME_BIAS_UNC_VALID GNSS_SYSTEM_CLK_TIME_BIAS_UNC_VALID;
    bit PB_GNSS_SYSTEM_REF_FCOUNT_VALID GNSS_SYSTEM_REF_FCOUNT_VALID;
    bit PB_GNSS_SYSTEM_NUM_CLOCK_RESETS_VALID GNSS_SYSTEM_NUM_CLOCK_RESETS_VALID ] pbGnssSysTimeStrctType.

Definition getGnssSignalTypeMaskFromPB (pbGnssSignalTypeMask : Z) : Z :=
  set_bits 32 0
  [ bit PB_GNSS_SIGNAL_GPS_L1CA_BIT GNSS_SIGNAL_GPS_L1CA;
    bit PB_GNSS_SIGNAL_GPS_L1C_BIT GNSS_SIGNAL_GPS_L1C;
    bit PB_GNSS_SIGNAL_GPS_L2_BIT GNSS_SIGNAL_GPS_L2;
    bit PB_GNSS_SIGNAL_GPS_L5_BIT GNSS_SIGNAL_GPS_L5;
    bit PB_GNSS_SIGNAL_GLONASS_G1_BIT GNSS_SIGNAL_GLONASS_G1;
    bit PB_GNSS_SIGNAL_GLONASS_G2_BIT GNSS_SIGNAL_GLONASS_G2;
    bit PB_GNSS_SIGNAL_GALILEO_E1_BIT GNSS_SIGNAL_GALILEO_E1;
    bit PB_GNSS_SIGNAL_GALILEO_E5A_BIT GNSS_SIGNAL_GALILEO_E5A;
    bit PB_GNSS_SIGNAL_GALILEO_E5B_BIT GNSS_SIGNAL_GALILEO_E5B;
    bit PB_GNSS_SIGNAL_BEIDOU_B1_BIT GNSS_SIGNAL_BEIDOU_B1;
    bit PB_GNSS_SIGNAL_BEIDOU_B2_BIT GNSS_SIGNAL_BEIDOU_B2;
    bit PB_GNSS_SIGNAL_QZSS_L1CA_BIT GNSS_SIGNAL_QZSS_L1CA;
    bit PB_GNSS_SIGNAL_QZSS_L1S_BIT GNSS_SIGNAL_QZSS_L1S;
    bit PB_GNSS_SIGNAL_QZSS_L2_BIT GNSS_SIGNAL_QZSS_L2;
    bit PB_GNSS_SIGNAL_QZSS_L5_BIT GNSS_SIGNAL_QZSS_L5;
    bit PB_GNSS_SIGNAL_SBAS_L1_BIT GNSS_SIGNAL_SBAS_L1;
    bit PB_GNSS_SIGNAL_BEIDOU_B1I_BIT GNSS_SIGNAL_BEIDOU_B1I;
    bit PB_GNSS_SIGNAL_BEIDOU_B1C_BIT GNSS_SIGNAL_BEIDOU_B1C;
    bit PB_GNSS_SIGNAL_BEIDOU_B2I_BIT GNSS_SIGNAL_BEIDOU_B2I;
    bit PB_GNSS_SIGNAL_BEIDOU_B2AI_BIT GNSS_SIGNAL_BEIDOU_B2AI;
    bit PB_GNSS_SIGNAL_NAVIC_L5_BIT GNSS_SIGNAL_NAVIC_L5;
    bit PB_GNSS_SIGNAL_BEIDOU_B2AQ_BIT GNSS_SIGNAL_BEIDOU_B2AQ ] pbGnssSignalTypeMask.

Definition getGnssSvOptionsMaskFromPB (pbGnssSvOptMask : Z) : Z :=
  set_bits 32 0
  [ bit PB_GNSS_SV_OPTIONS_HAS_EPHEMER_BIT GNSS_SV_OPTIONS_HAS_EPHEMER_BIT;
    bit PB_GNSS_SV_OPTIONS_HAS_ALMANAC_BIT GNSS_SV_OPTIONS_HAS_ALMANAC_BIT;
    bit PB_GNSS_SV_OPTIONS_USED_IN_FIX_BIT GNSS_SV_OPTIONS_USED_IN_FIX_BIT;
    bit PB_GNSS_SV_OPTIONS_HAS_CARRIER_FREQUENCY_BIT GNSS_SV_OPTIONS_HAS_CARRIER_FREQUENCY_BIT;
    bit PB_GNSS_SV_OPTIONS_HAS_GNSS_SIGNAL_TYPE_BIT GNSS_SV_OPTIONS_HAS_GNSS_SIGNAL_TYPE_BIT ] pbGnssSvOptMask.

Definition getGfBreachTypeMaskFromPB (pbGfBreackTypMask : Z) : Z :=
  set_bits 32 0
  [ bit PB_GEOFENCE_BREACH_ENTER_BIT GEOFENCE_BREACH_ENTER_BIT;
    bit PB_GEOFENCE_BREACH_EXIT_BIT GEOFENCE_BREACH_EXIT_BIT;
    bit PB_GEOFENCE_BREACH_DWELL_IN_BIT GEOFENCE_BREACH_DWELL_IN_BIT;
    bit PB_GEOFENCE_BREACH_DWELL_OUT_BIT GEOFENCE_BREACH_DWELL_OUT_BIT ] pbGfBreackTypMask.

Definition getLocationFlagsMaskFromPB (pbLocFlagsMask : Z) : Z :=
  set_bits 32 0
  [ bit PB_LOCATION_HAS_LAT_LONG_BIT LOCATION_HAS_LAT_LONG_BIT;
    bit PB_LOCATION_HAS_ALTITUDE_BIT LOCATION_HAS_ALTITUDE_BIT;
    bit PB_LOCATION_HAS_SPEED_BIT LOCATION_HAS_SPEED_BIT;
    bit PB_LOCATION_HAS_BEARING_BIT LOCATION_HAS_BEARING_BIT;
    bit PB_LOCATION_HAS_ACCURACY_BIT LOCATION_HAS_ACCURACY_BIT;
    bit PB_LOCATION_HAS_VERTICAL_ACCURACY_BIT LOCATION_HAS_VERTICAL_ACCURACY_BIT;
    bit PB_LOCATION_HAS_SPEED_ACCURACY_BIT LOCATION_HAS_SPEED_ACCURACY_BIT;
    bit PB_LOCATION_HAS_BEARING_ACCURACY_BIT LOCATION_HAS_BEARING_ACCURACY_BIT ] pbLocFlagsMask.

Definition getLocationTechnologyMaskFromPB (pbLocTechMask : Z) : Z :=
  set_bits 32 0
  [ bit PB_LOCATION_TECHNOLOGY_GNSS_BIT LOCATION_TECHNOLOGY_GNSS_BIT;
    bit PB_LOCATION_TECHNOLOGY_CELL_BIT LOCATION_TECHNOLOGY_CELL_BIT;
    bit PB_LOCATION_TECHNOLOGY_WIFI_BIT LOCATION_TECHNOLOGY_WIFI_BIT;
    bit PB_LOCATION_TECHNOLOGY_SENSORS_BIT LOCATION_TECHNOLOGY_SENSORS_BIT;
    bit PB_LOCATION_TECHNOLOGY_REFERENCE_LOCATION_BIT LOCATION_TECHNOLOGY_REFERENCE_LOCATION_BIT;
    bit PB_LOCATION_TECHNOLOGY_INJECTED_COARSE_POSITION_BIT LOCATION_TECHNOLOGY_INJECTED_COARSE_POSITION_BIT;
    bit PB_LOCATION_TECHNOLOGY_AFLT_BIT LOCATION_TECHNOLOGY_AFLT_BIT;
    bit PB_LOCATION_TECHNOLOGY_HYBRID_BIT LOCATION_TECHNOLOGY_HYBRID_BIT;
    bit PB_LOCATION_TECHNOLOGY_PPE_BIT LOCATION_TECHNOLOGY_PPE_BIT;
    bit PB_LOCATION_TECHNOLOGY_VEH_BIT LOCATION_TECHNOLOGY_VEH_BIT;
    bit PB_LOCATION_TECHNOLOGY_VIS_BIT LOCATION_TECHNOLOGY_VIS_BIT ] pbLocTechMask.

Definition getGnssMeasurementsClockFlagsMaskFromPB (pbGnssMeasClockFlgMask : Z) : Z :=
  set_bits 32 0
  [ bit PB_GNSS_MEASUREMENTS_CLOCK_FLAGS_LEAP_SECOND_BIT GNSS_MEASUREMENTS_CLOCK_FLAGS_LEAP_SECOND_BIT;
    bit PB_GNSS_MEASUREMENTS_CLOCK_FLAGS_TIME_BIT GNSS_MEASUREMENTS_CLOCK_FLAGS_TIME_BIT;
    bit PB_GNSS_MEASUREMENTS_CLOCK_FLAGS_TIME_UNCERTAINTY_BIT GNSS_MEASUREMENTS_CLOCK_FLAGS_TIME_UNCERTAINTY_BIT;
    bit PB_GNSS_MEASUREMENTS_CLOCK_FLAGS_FULL_BIAS_BIT GNSS_MEASUREMENTS_CLOCK_FLAGS_FULL_BIAS_BIT;
    bit PB_GNSS_MEASUREMENTS_CLOCK_FLAGS_BIAS_BIT GNSS_MEASUREMENTS_CLOCK_FLAGS_BIAS_BIT;
    bit PB_GNSS_MEASUREMENTS_CLOCK_FLAGS_BIAS_UNCERTAINTY_BIT GNSS_MEASUREMENTS_CLOCK_FLAGS_BIAS_UNCERTAINTY_BIT;
    bit PB_GNSS_MEASUREMENTS_CLOCK_FLAGS_DRIFT_BIT GNSS_MEASUREMENTS_CLOCK_FLAGS_DRIFT_BIT;
    bit PB_GNSS_MEASUREMENTS_CLOCK_FLAGS_DRIFT_UNCERTAINTY_BIT GNSS_MEASUREMENTS_CLOCK_FLAGS_DRIFT_UNCERTAINTY_BIT;
    bit PB_GNSS_MEASUREMENTS_CLOCK_FLAGS_HW_CLOCK_DISCONTINUITY_COUNT_BIT GNSS_MEASUREMENTS_CLOCK_FLAGS_HW_CLOCK_DISCONTINUITY_COUNT_BIT ] pbGnssMeasClockFlgMask.

Definition getGnssMeasurementsDataFlagsMaskFromPB (pbGnssMeasDataFlgMask : Z) : Z :=
  set_bits 32 0
  [ bit PB_GNSS_MEASUREMENTS_DATA_SV_ID_BIT GNSS_MEASUREMENTS_DATA_SV_ID_BIT;
    bit PB_GNSS_MEASUREMENTS_DATA_SV_TYPE_BIT GNSS_MEASUREMENTS_DATA_SV_TYPE_BIT;
    bit PB_GNSS_MEASUREMENTS_DATA_STATE_BIT GNSS_MEASUREMENTS_DATA_STATE_BIT;
    bit PB_GNSS_MEASUREMENTS_DATA_RECEIVED_SV_TIME_BIT GNSS_MEASUREMENTS_DATA_RECEIVED_SV_TIME_BIT;
    bit PB_GNSS_MEASUREMENTS_DATA_RECEIVED_SV_TIME_UNCERTAINTY_BIT GNSS_MEASUREMENTS_DATA_RECEIVED_SV_TIME_UNCERTAINTY_BIT;
    bit PB_GNSS_MEASUREMENTS_DATA_CARRIER_TO_NOISE_BIT GNSS_MEASUREMENTS_DATA_CARRIER_TO_NOISE_BIT;
    bit PB_GNSS_MEASUREMENTS_DATA_PSEUDORANGE_RATE_BIT GNSS_MEASUREMENTS_DATA_PSEUDORANGE_RATE_BIT;
    bit PB_GNSS_MEASUREMENTS_DATA_PSEUDORANGE_RATE_UNCERTAINTY_BIT GNSS_MEASUREMENTS_DATA_PSEUDORANGE_RATE_UNCERTAINTY_BIT;
    bit PB_GNSS_MEASUREMENTS_DATA_ADR_STATE_BIT GNSS_MEASUREMENTS_DATA_ADR_STATE_BIT;
    bit PB_GNSS_MEASUREMENTS_DATA_ADR_BIT GNSS_MEASUREMENTS_DATA_ADR_BIT;
    bit PB_GNSS_MEASUREMENTS_DATA_ADR_UNCERTAINTY_BIT GNSS_MEASUREMENTS_DATA_ADR_UNCERTAINTY_BIT;
    bit PB_GNSS_MEASUREMENTS_DATA_CARRIER_FREQUENCY_BIT GNSS_MEASUREMENTS_DATA_CARRIER_FREQUENCY_BIT;
    bit PB_GNSS_MEASUREMENTS_DATA_CARRIER_CYCLES_BIT GNSS_MEASUREMENTS_DATA_CARRIER_CYCLES_BIT;
    bit PB_GNSS_MEASUREMENTS_DATA_CARRIER_PHASE_BIT GNSS_MEASUREMENTS_DATA_CARRIER_PHASE_BIT;
    bit PB_GNSS_MEASUREMENTS_DATA_CARRIER_PHASE_UNCERTAINTY_BIT GNSS_MEASUREMENTS_DATA_CARRIER_PHASE_UNCERTAINTY_BIT;
    bit PB_GNSS_MEASUREMENTS_DATA_MULTIPATH_INDICATOR_BIT GNSS_MEASUREMENTS_DATA_MULTIPATH_INDICATOR_BIT;
    bit PB_GNSS_MEASUREMENTS_DATA_SIGNAL_TO_NOISE_RATIO_BIT GNSS_MEASUREMENTS_DATA_SIGNAL_TO_NOISE_RATIO_BIT;
    bit PB_GNSS_MEASUREMENTS_DATA_AUTOMATIC_GAIN_CONTROL_BIT GNSS_MEASUREMENTS_DATA_AUTOMATIC_GAIN_CONTROL_BIT;
    bit PB_GNSS_MEASUREMENTS_DATA_FULL_ISB_BIT GNSS_MEASUREMENTS_DATA_FULL_ISB_BIT;
    bit PB_GNSS_MEASUREMENTS_DATA_FULL_ISB_UNCERTAINTY_BIT GNSS_MEASUREMENTS_DATA_FULL_ISB_UNCERTAINTY_BIT;
    bit PB_GNSS_MEASUREMENTS_DATA_CYCLE_SLIP_COUNT_BIT GNSS_MEASUREMENTS_DATA_CYCLE_SLIP_COUNT_BIT ] pbGnssMeasDataFlgMask.

Definition getGnssMeasurementsAdrStateMaskFromPB (pbGnssMeasAdrStateMask : Z) : Z :=
  set_bits 32 0
  [ bit PB_GNSS_MEASUREMENTS_ACCUMULATED_DELTA_RANGE_STATE_VALID_BIT GNSS_MEASUREMENTS_ACCUMULATED_DELTA_RANGE_STATE_VALID_BIT;
    bit PB_GNSS_MEASUREMENTS_ACCUMULATED_DELTA_RANGE_STATE_RESET_BIT GNSS_MEASUREMENTS_ACCUMULATED_DELTA_RANGE_STATE_RESET_BIT;
    bit PB_GNSS_MEASUREMENTS_ACCUMULATED_DELTA_RANGE_STATE_CYCLE_SLIP_BIT GNSS_MEASUREMENTS_ACCUMULATED_DELTA_RANGE_STATE_CYCLE_SLIP_BIT ] pbGnssMeasAdrStateMask.

Definition getGnssLocationInfoFlagMaskFromPB (pbGnssLocInfoFlagMask : Z) (pbGnssLocInfoExtFlagMask : Z) : Z :=
  let r := set_bits 64 0
  [ bit PB_GNSS_LOCATION_INFO_ALTITUDE_MEAN_SEA_LEVEL_BIT GNSS_LOCATION_INFO_ALTITUDE_MEAN_SEA_LEVEL_BIT;
    bit PB_GNSS_LOCATION_INFO_DOP_BIT PB_GNSS_LOCATION_INFO_DOP_BIT;
    bit PB_GNSS_LOCATION_INFO_MAGNETIC_DEVIATION_BIT GNSS_LOCATION_INFO_MAGNETIC_DEVIATION_BIT;
    bit PB_GNSS_LOCATION_INFO_HOR_RELIABILITY_BIT GNSS_LOCATION_INFO_HOR_RELIABILITY_BIT;
    bit PB_GNSS_LOCATION_INFO_VER_RELIABILITY_BIT GNSS_LOCATION_INFO_VER_RELIABILITY_BIT;
    bit PB_GNSS_LOCATION_INFO_HOR_ACCURACY_ELIP_SEMI_MAJOR_BIT GNSS_LOCATION_INFO_HOR_ACCURACY_ELIP_SEMI_MAJOR_BIT;
    bit PB_GNSS_LOCATION_INFO_HOR_ACCURACY_ELIP_SEMI_MINOR_BIT GNSS_LOCATION_INFO_HOR_ACCURACY_ELIP_SEMI_MINOR_BIT;
    bit PB_GNSS_LOCATION_INFO_HOR_ACCURACY_ELIP_AZIMUTH_BIT GNSS_LOCATION_INFO_HOR_ACCURACY_ELIP_AZIMUTH_BIT;
    bit PB_GNSS_LOCATION_INFO_GNSS_SV_USED_DATA_BIT GNSS_LOCATION_INFO_GNSS_SV_USED_DATA_BIT;
    bit PB_GNSS_LOCATION_INFO_NAV_SOLUTION_MASK_BIT GNSS_LOCATION_INFO_NAV_SOLUTION_MASK_BIT;
    bit PB_GNSS_LOCATION_INFO_POS_DYNAMICS_DATA_BIT GNSS_LOCATION_INFO_POS_DYNAMICS_DATA_BIT;
    bit PB_GNSS_LOCATION_INFO_EXT_DOP_BIT GNSS_LOCATION_INFO_EXT_DOP_BIT;
    bit PB_GNSS_LOCATION_INFO_NORTH_STD_DEV_BIT GNSS_LOCATION_INFO_NORTH_STD_DEV_BIT;
    bit PB_GNSS_LOCATION_INFO_EAST_STD_DEV_BIT GNSS_LOCATION_INFO_EAST_STD_DEV_BIT;
    bit PB_GNSS_LOCATION_INFO_NORTH_VEL_BIT GNSS_LOCATION_INFO_NORTH_VEL_BIT;
    bit PB_GNSS_LOCATION_INFO_EAST_VEL_BIT GNSS_LOCATION_INFO_EAST_VEL_BIT;
    bit PB_GNSS_LOCATION_INFO_UP_VEL_BIT GNSS_LOCATION_INFO_UP_VEL_BIT;
    bit PB_GNSS_LOCATION_INFO_NORTH_VEL_UNC_BIT GNSS_LOCATION_INFO_NORTH_VEL_UNC_BIT;
    bit PB_GNSS_LOCATION_INFO_EAST_VEL_UNC_BIT GNSS_LOCATION_INFO_EAST_VEL_UNC_BIT;
    bit PB_GNSS_LOCATION_INFO_UP_VEL_UNC_BIT GNSS_LOCATION_INFO_UP_VEL_UNC_BIT;
    bit PB_GNSS_LOCATION_INFO_LEAP_SECONDS_BIT GNSS_LOCATION_INFO_LEAP_SECONDS_BIT;
    bit PB_GNSS_LOCATION_INFO_TIME_UNC_BIT GNSS_LOCATION_INFO_TIME_UNC_BIT;
    bit PB_GNSS_LOCATION_INFO_NUM_SV_USED_IN_POSITION_BIT GNSS_LOCATION_INFO_NUM_SV_USED_IN_POSITION_BIT;
    bit PB_GNSS_LOCATION_INFO_CALIBRATION_CONFIDENCE_PERCENT_BIT GNSS_LOCATION_INFO_CALIBRATION_CONFIDENCE_BIT;
    bit PB_GNSS_LOCATION_INFO_CALIBRATION_STATUS_BIT GNSS_LOCATION_INFO_CALIBRATION_STATUS_BIT;
    bit PB_GNSS_LOCATION_INFO_OUTPUT_ENG_TYPE_BIT GNSS_LOCATION_INFO_OUTPUT_ENG_TYPE_BIT;
    bit PB_GNSS_LOCATION_INFO_OUTPUT_ENG_MASK_BIT GNSS_LOCATION_INFO_OUTPUT_ENG_MASK_BIT;
    bit PB_GNSS_LOCATION_INFO_CONFORMITY_INDEX_BIT GNSS_LOCATION_INFO_CONFORMITY_INDEX_BIT;
    bit PB_GNSS_LOCATION_INFO_LLA_VRP_BASED_BIT GNSS_LOCATION_INFO_LLA_VRP_BASED_BIT;
    bit PB_GNSS_LOCATION_INFO_ENU_VELOCITY_VRP_BASED_BIT GNSS_LOCATION_INFO_ENU_VELOCITY_VRP_BASED_BIT;
    bit PB_GNSS_LOCATION_INFO_DR_SOLUTION_STATUS_MASK_BIT GNSS_LOCATION_INFO_DR_SOLUTION_STATUS_MASK_BIT ] pbGnssLocInfoFlagMask in
  set_bits 64 r
  [ bit PB_GNSS_LOCATION_INFO_ALTITUDE_ASSUMED_BIT GNSS_LOCATION_INFO_ALTITUDE_ASSUMED_BIT;
    bit PB_GNSS_LOCATION_INFO_SESSION_STATUS_BIT GNSS_LOCATION_INFO_SESSION_STATUS_BIT ] pbGnssLocInfoExtFlagMask.

Definition getGnssLocationNavSolutionMaskFromPB (pbGnssLocNavSoln : Z) : Z :=
  set_bits 32 0
  [ bit PB_LOCATION_SBAS_CORRECTION_IONO_BIT LOCATION_SBAS_CORRECTION_IONO_BIT;
    bit PB_LOCATION_SBAS_CORRECTION_FAST_BIT LOCATION_SBAS_CORRECTION_FAST_BIT;
    bit PB_LOCATION_SBAS_CORRECTION_LONG_BIT LOCATION_SBAS_CORRECTION_LONG_BIT;
    bit PB_LOCATION_SBAS_INTEGRITY_BIT LOCATION_SBAS_INTEGRITY_BIT;
    bit PB_LOCATION_NAV_CORRECTION_DGNSS_BIT LOCATION_NAV_CORRECTION_DGNSS_BIT;
    bit PB_LOCATION_NAV_CORRECTION_RTK_BIT LOCATION_NAV_CORRECTION_RTK_BIT;
    bit PB_LOCATION_NAV_CORRECTION_PPP_BIT LOCATION_NAV_CORRECTION_PPP_BIT;
    bit PB_LOCATION_NAV_CORRECTION_RTK_FIXED_BIT LOCATION_NAV_CORRECTION_RTK_FIXED_BIT;
    bit PB_LOCATION_NAV_CORRECTION_ONLY_SBAS_CORRECTED_SV_USED_BIT LOCATION_NAV_CORRECTION_ONLY_SBAS_CORRECTED_SV_USED_BIT ] pbGnssLocNavSoln.

Definition getDrCalibrationStatusMaskFromPB (pbDrCalibStatus : Z) : Z :=
  set_bits 32 0
  [ bit PB_DR_ROLL_CALIBRATION_NEEDED DR_ROLL_CALIBRATION_NEEDED;
    bit PB_DR_PITCH_CALIBRATION_NEEDED DR_PITCH_CALIBRATION_NEEDED;
    bit PB_DR_YAW_CALIBRATION_NEEDED DR_YAW_CALIBRATION_NEEDED;
    bit PB_DR_ODO_CALIBRATION_NEEDED DR_ODO_CALIBRATION_NEEDED;
    bit PB_DR_GYRO_CALIBRATION_NEEDED DR_GYRO_CALIBRATION_NEEDED ] pbDrCalibStatus.

Definition getGnssLocationPosDataMaskFromPB (pbGnssLocPosDataMask : Z) : Z :=
  set_bits 32 0
  [ bit PB_LOCATION_NAV_DATA_HAS_LONG_ACCEL_BIT LOCATION_NAV_DATA_HAS_LONG_ACCEL_BIT;
    bit PB_LOCATION_NAV_DATA_HAS_LAT_ACCEL_BIT LOCATION_NAV_DATA_HAS_LAT_ACCEL_BIT;
    bit PB_LOCATION_NAV_DATA_HAS_VERT_ACCEL_BIT LOCATION_NAV_DATA_HAS_VERT_ACCEL_BIT;
    bit PB_LOCATION_NAV_DATA_HAS_YAW_RATE_BIT LOCATION_NAV_DATA_HAS_YAW_RATE_BIT;
    bit PB_LOCATION_NAV_DATA_HAS_PITCH_BIT LOCATION_NAV_DATA_HAS_PITCH_BIT;
    bit PB_LOCATION_NAV_DATA_HAS_LONG_ACCEL_UNC_BIT LOCATION_NAV_DATA_HAS_LONG_ACCEL_UNC_BIT;
    bit PB_LOCATION_NAV_DATA_HAS_LAT_ACCEL_UNC_BIT LOCATION_NAV_DATA_HAS_LAT_ACCEL_UNC_BIT;
    bit PB_LOCATION_NAV_DATA_HAS_VERT_ACCEL_UNC_BIT LOCATION_NAV_DATA_HAS_VERT_ACCEL_UNC_BIT;
    bit PB_LOCATION_NAV_DATA_HAS_YAW_RATE_UNC_BIT LOCATION_NAV_DATA_HAS_YAW_RATE_UNC_BIT;
    bit PB_LOCATION_NAV_DATA_HAS_PITCH_UNC_BIT LOCATION_NAV_DATA_HAS_PITCH_UNC_BIT ] pbGnssLocPosDataMask.

Definition getGnssLocationPosDataMaskExtFromPB (pbGnssLocPosDataMask : Z) : Z :=
  set_bits 32 0
  [ bit PB_LOCATION_NAV_DATA_HAS_PITCH_RATE_BIT LOCATION_NAV_DATA_HAS_PITCH_RATE_BIT;
    bit PB_LOCATION_NAV_DATA_HAS_PITCH_RATE_UNC_BIT LOCATION_NAV_DATA_HAS_PITCH_RATE_UNC_BIT;
    bit PB_LOCATION_NAV_DATA_HAS_ROLL_BIT LOCATION_NAV_DATA_HAS_ROLL_BIT;
    bit PB_LOCATION_NAV_DATA_HAS_ROLL_UNC_BIT LOCATION_NAV_DATA_HAS_ROLL_UNC_BIT;
    bit PB_LOCATION_NAV_DATA_HAS_ROLL_RATE_BIT LOCATION_NAV_DATA_HAS_ROLL_RATE_BIT;
    bit PB_LOCATION_NAV_DATA_HAS_ROLL_RATE_UNC_BIT LOCATION_NAV_DATA_HAS_ROLL_RATE_UNC_BIT;
    bit PB_LOCATION_NAV_DATA_HAS_YAW_BIT LOCATION_NAV_DATA_HAS_YAW_BIT;
    bit PB_LOCATION_NAV_DATA_HAS_YAW_UNC_BIT LOCATION_NAV_DATA_HAS_YAW_UNC_BIT ] pbGnssLocPosDataMask.

Definition getGnssGloTimeStructTypeFlagsFromPB (pbGnssGloTimeStruct : Z) : Z :=
  set_bits 32 0
  [ bit PB_GNSS_CLO_DAYS_VALID GNSS_CLO_DAYS_VALID;
    bit PB_GNSS_GLO_MSEC_VALID GNSS_GLO_MSEC_VALID;
    bit PB_GNSS_GLO_CLK_TIME_BIAS_VALID GNSS_GLO_CLK_TIME_BIAS_VALID;
    bit PB_GNSS_GLO_CLK_TIME_BIAS_UNC_VALID GNSS_GLO_CLK_TIME_BIAS_UNC_VALID;
    bit PB_GNSS_GLO_REF_FCOUNT_VALID GNSS_GLO_REF_FCOUNT_VALID;
    bit PB_GNSS_GLO_NUM_CLOCK_RESETS_VALID GNSS_GLO_NUM_CLOCK_RESETS_VALID;
    bit PB_GNSS_GLO_FOUR_YEAR_VALID GNSS_GLO_FOUR_YEAR_VALID ] pbGnssGloTimeStruct.

Definition getGnssConfigRobustLocationValidMaskFromPB (pbGnssCfgRobstLocValidMask : Z) : Z :=
  set_bits 32 0
  [ bit PB_GNSS_CONFIG_ROBUST_LOCATION_ENABLED_VALID_BIT GNSS_CONFIG_ROBUST_LOCATION_ENABLED_VALID_BIT;
    bit PB_GNSS_CONFIG_ROBUST_LOCATION_ENABLED_FOR_E911_VALID_BIT GNSS_CONFIG_ROBUST_LOCATION_ENABLED_FOR_E911_VALID_BIT;
    bit PB_GNSS_CONFIG_ROBUST_LOCATION_VERSION_VALID_BIT GNSS_CONFIG_ROBUST_LOCATION_VERSION_VALID_BIT ] pbGnssCfgRobstLocValidMask.

Definition getDeadReckoningEngineConfigValidMaskFromPB (pbDrEngCfgVldMask : Z) : Z :=
  set_bits 64 0
  [ bit PB_BODY_TO_SENSOR_MOUNT_PARAMS_BIT BODY_TO_SENSOR_MOUNT_PARAMS_BIT;
    bit PB_VEHICLE_SPEED_SCALE_FACTOR_BIT VEHICLE_SPEED_SCALE_FACTOR_BIT;
    bit PB_VEHICLE_SPEED_SCALE_FACTOR_UNC_BIT VEHICLE_SPEED_SCALE_FACTOR_UNC_BIT;
    bit PB_GYRO_SCALE_FACTOR_BIT GYRO_SCALE_FACTOR_BIT;
    bit PB_GYRO_SCALE_FACTOR_UNC_BIT GYRO_SCALE_FACTOR_UNC_BIT ] pbDrEngCfgVldMask.

Definition getDrEngineAidingDataMaskFromPB (pbDrEngAidDataMask : Z) : Z :=
  set_bits 32 0
  [ bit PB_DR_ENGINE_AIDING_DATA_CALIBRATION_BIT DR_ENGINE_AIDING_DATA_CALIBRATION_BIT ] pbDrEngAidDataMask.

Definition getDrSolutionStatusMaskFromPB (pbDrSolnStatusMask : Z) : Z :=
  set_bits 32 0
  [ bit PB_VEHICLE_SENSOR_SPEED_INPUT_DETECTED VEHICLE_SENSOR_SPEED_INPUT_DETECTED;
    bit PB_VEHICLE_SENSOR_SPEED_INPUT_USED VEHICLE_SENSOR_SPEED_INPUT_USED ] pbDrSolnStatusMask.

Definition getPBEnumForLocSessionStatus (status : Z) : Z :=
  switch PB_LOCATION_SESS_FAILURE
  [ case LOC_SESS_SUCCESS PB_LOCATION_SESS_SUCCESS;
    case LOC_SESS_INTERMEDIATE PB_LOCATION_SESS_INTERMEDIATE ] status.

Definition getLocSessionStatusFromPB (pbStatus : Z) : Z :=
  switch LOC_SESS_FAILURE
  [ case PB_LOCATION_SESS_SUCCESS LOC_SESS_SUCCESS;
    case PB_LOCATION_SESS_INTERMEDIATE LOC_SESS_INTERMEDIATE ] pbStatus.
