(* ===== verification/LocationApiPbMsgConv.v ===== *)
(** LocationApiPbMsgConv.cpp: what arrives when a mask or an enumeration of the
    client API is sent as a protobuf message.  The conversions are in
    PbConversions.v; here their bits are traced from end to end. *)

From stdpp Require Import list.
From S2P Require Import Prelude Masks LocationEnums PbConversions.

Local Open Scope Z_scope.

(** * Bits *)

(** [f] copies bits of its two arguments ([true] for the second) and nothing
    else. *)
Definition copies (f : Z -> Z -> Z) (es : list (bool * Z * Z)) : Prop :=
  ∀ m e k, 0 ≤ k ->
    Z.testbit (f m e) k = existsb (fun '(s, i, j) => (j =? k) && Z.testbit (if s : bool then e else m) i) es.

Definition tagged (s : bool) (es : list (Z * Z)) : list (bool * Z * Z) := (fun '(i, j) => (s, i, j)) <$> es.

Lemma fires_tagged s m e k es :
  existsb (fun '(s, i, j) => (j =? k) && Z.testbit (if s : bool then e else m) i) (tagged s es) =
  fires (if s then e else m) k es.
Proof. induction es as [|[i j] es IH]; simpl; [done|]. by rewrite IH. Qed.

(** The rules of one or of two masks make one. *)
Lemma set_bits_copies w rules es :
  0 ≤ w -> positions w rules = Some es -> copies (fun m _ => set_bits w 0 rules m) (tagged false es).
Proof.
  intros Hw He m e k Hk. rewrite fires_tagged, (set_bits_testbit w rules es) by (done || (intros; apply Z.bits_0)).
  by rewrite Z.bits_0.
Qed.
Lemma set_bits2_copies w rules1 rules2 es1 es2 :
  0 ≤ w -> positions w rules1 = Some es1 -> positions w rules2 = Some es2 ->
  copies (fun m e => set_bits w (set_bits w 0 rules1 m) rules2 e) (tagged false es1 ++ tagged true es2).
Proof.
  intros Hw H1 H2 m e k Hk.
  assert (∀ k, 0 ≤ k -> Z.testbit (set_bits w 0 rules1 m) k = fires m k es1) as H.
  { intros k' Hk'. rewrite (set_bits_testbit w rules1 es1) by (done || (intros; apply Z.bits_0)).
    by rewrite Z.bits_0. }
  rewrite (set_bits_testbit w rules2 es2), H by (try done; intros k' Hk'; rewrite H by lia;
    by apply (positions_below w rules1)).
  by rewrite existsb_app, !fires_tagged.
Qed.

(** What is copied when the copies are copied again. *)
Definition compose (outer inner1 inner2 : list (bool * Z * Z)) : list (bool * Z * Z) :=
  outer ≫= fun '(s, i, j) =>
    (fun '(s', i', _) => (s', i', j)) <$> filter (fun '(_, _, j') => j' = i) (if s : bool then inner2 else inner1).

Lemma compose_copies f g1 g2 ef e1 e2 :
  copies f ef -> copies g1 e1 -> copies g2 e2 -> forallb (fun '(_, i, _) => 0 <=? i) ef = true ->
  copies (fun m e => f (g1 m e) (g2 m e)) (compose ef e1 e2).
Proof.
  intros Hf H1 H2 Hi m e k Hk. rewrite Hf by done. clear Hf. unfold compose.
  induction ef as [|[[s i] j] ef IH]; [done|]. cbn [existsb]. cbn [forallb] in Hi.
  apply andb_prop in Hi as [Hi0%Z.leb_le Hi]. rewrite bind_cons, existsb_app, <- IH by done. f_equal.
  assert (Z.testbit (if s then g2 m e else g1 m e) i =
    existsb (fun '(s, i', j) => (j =? i) && Z.testbit (if s : bool then e else m) i')
      (if s then e2 else e1)) as -> by (destruct s; [by apply H2|by apply H1]).
  induction (if s then e2 else e1) as [|[[s' i'] j'] es IHs]; [apply andb_false_r|].
  cbn [existsb]. rewrite filter_cons. destruct (Z.eqb_spec j' i) as [->|Hne].
  - rewrite decide_True by done. cbn [fmap list_fmap existsb]. rewrite <- IHs, andb_true_l.
    apply andb_orb_distrib_r.
  - rewrite decide_False by done. cbn [andb orb]. exact IHs.
Qed.

(** Bits that end where they began. *)
Definition in_place (b : bool) (es : list (bool * Z * Z)) : bool :=
  forallb (fun '(s, i, j) => Bool.eqb s b && (i =? j) && (0 <=? j)) es.
Definition copied_mask (es : list (bool * Z * Z)) : Z := foldr (fun '(_, _, j) r => Z.lor (2 ^ j) r) 0 es.

Lemma in_place_land b f es mask m e :
  copies f es -> in_place b es = true -> copied_mask es = mask ->
  f m e = Z.land (if b then e else m) mask.
Proof.
  intros Hf Hp <-. apply Z.bits_inj'. intros k Hk. rewrite Hf, Z.land_spec by done. clear Hf.
  induction es as [|[[s i] j] es IH]; simpl; [by rewrite Z.bits_0, andb_false_r|].
  simpl in Hp. apply andb_prop in Hp as [Hp H]. rewrite IH by done.
  apply andb_prop in Hp as [Hp Hj%Z.leb_le]. apply andb_prop in Hp as [->%eqb_prop ->%Z.eqb_eq].
  rewrite Z.lor_spec, Z.pow2_bits_eqb by done.
  destruct (Z.eqb_spec j k) as [->|]; [|done]. simpl.
  destruct (Z.testbit (if b then e else m) k); [done|]. simpl. done.
Qed.

(** The check that a mask arrives, and what of it. *)
Definition arrives (w : Z) (rules : list bit_rule) (w' : Z) (rules' : list bit_rule) (mask : Z) : bool :=
  match positions w rules, positions w' rules' with
  | Some es, Some es' =>
    (0 <=? w) && (0 <=? w') && forallb (fun '(_, i, _) => 0 <=? i) (tagged false es') &&
    in_place false (compose (tagged false es') (tagged false es) []) &&
    (copied_mask (compose (tagged false es') (tagged false es) []) =? mask)
  | _, _ => false
  end.

Lemma arrives_land w rules w' rules' mask m :
  arrives w rules w' rules' mask = true ->
  set_bits w' 0 rules' (set_bits w 0 rules m) = Z.land m mask.
Proof.
  unfold arrives. destruct (positions w rules) as [es|] eqn:E; [|done].
  destruct (positions w' rules') as [es'|] eqn:E'; [|done]. intros H.
  apply andb_prop in H as [H Hm%Z.eqb_eq]. apply andb_prop in H as [H Hp].
  apply andb_prop in H as [H Hi]. apply andb_prop in H as [Hw%Z.leb_le Hw'%Z.leb_le].
  refine (in_place_land false (fun m _ => set_bits w' 0 rules' (set_bits w 0 rules m)) _ _ m 0 _ Hp Hm).
  refine (compose_copies (fun m _ => set_bits w' 0 rules' m) (fun m _ => set_bits w 0 rules m)
    (fun _ _ => 0) _ _ [] _ _ _ Hi); [by apply set_bits_copies..|].
  intros ? ? ? ?. apply Z.bits_0.
Qed.

(** * The masks *)

(** A mask: its conversion to and from the message, the constants of both
    sides, and those of them that do not arrive. *)
Record mask_conversion : Type := MaskConv {
  to_pb : Z -> Z; from_pb : Z -> Z;
  constants : list Z; lost : list Z; pb_constants : list Z; pb_lost : list Z }.

Definition mask_of (cs : list Z) : Z := foldr Z.lor 0 cs.
(** The bits of the constants that arrive. *)
Definition kept (cs lost : list Z) : Z := Z.ldiff (mask_of cs) (mask_of lost).

Definition TerrestrialTechMask_conv : mask_conversion := MaskConv
  getPBMaskForTerrestrialTechMask getTerrestrialTechMaskFromPB
  (TerrestrialTechMask_val <$> TerrestrialTechMask_all) []
    (PBTerrestrialTechMask_val <$> PBTerrestrialTechMask_all) [].
Definition LocationCallbacksMask_conv : mask_conversion := MaskConv
  getPBMaskForLocationCallbacksMask getLocationCallbacksMaskFromPB
  (ELocationCallbacksOption_val <$> ELocationCallbacksOption_all) []
    (PBLocationCallbacksMask_val <$> PBLocationCallbacksMask_all) [].
Definition LocationCapabilitiesMask_conv : mask_conversion := MaskConv
  getPBMaskForLocationCapabilitiesMask getLocationCapabilitiesMaskFromPB
  (LocationCapabilitiesBits_val <$> LocationCapabilitiesBits_all)
    [LOCATION_CAPABILITIES_GNSS_MSB_BIT : Z; LOCATION_CAPABILITIES_GNSS_MSA_BIT : Z;
    LOCATION_CAPABILITIES_DEBUG_NMEA_BIT : Z; LOCATION_CAPABILITIES_AGPM_BIT : Z;
    LOCATION_CAPABILITIES_PRIVACY_BIT : Z;
    LOCATION_CAPABILITIES_MEASUREMENTS_CORRECTION_BIT : Z;
    LOCATION_CAPABILITIES_CONFORMITY_INDEX_BIT : Z; LOCATION_CAPABILITIES_EDGNSS_BIT : Z;
    LOCATION_CAPABILITIES_QWES_SV_EPHEMERIS_BIT : Z]
    (PBLocationCapabilitiesMask_val <$> PBLocationCapabilitiesMask_all) [].
Definition PositioningEngineMask_conv : mask_conversion := MaskConv
  getPBMaskForPositioningEngineMask getEnumForPBPositioningEngineMask
  (PositioningEngineBits_val <$> PositioningEngineBits_all) [VP_POSITIONING_ENGINE : Z]
    (PBLocApiPositioningEngineMask_val <$> PBLocApiPositioningEngineMask_all) [].
Definition LeverArmTypeMask_conv : mask_conversion := MaskConv
  getPBMaskForLeverArmTypeMask getLeverArmTypeMaskFromPB
  (LeverArmTypeBits_val <$> LeverArmTypeBits_all) []
    (PBLIALeverArmTypeMask_val <$> PBLIALeverArmTypeMask_all) [].
Definition LocReqEngineTypeMask_conv : mask_conversion := MaskConv
  getPBMaskForLocReqEngineTypeMask getLocReqEngineTypeMaskFromPB
  (LocReqEngineTypeMask_val <$> LocReqEngineTypeMask_all) [LOC_REQ_ENGINE_VPE_BIT : Z]
    (PBLocReqEngineTypeMask_val <$> PBLocReqEngineTypeMask_all) [].
Definition GnssCfgRobustLocValidMask_conv : mask_conversion := MaskConv
  getPBMaskForGnssCfgRobustLocValidMask getGnssConfigRobustLocationValidMaskFromPB
  (GnssConfigRobustLocationValidMask_val <$> GnssConfigRobustLocationValidMask_all) []
    (PBGnssConfigRobustLocationValidMask_val <$> PBGnssConfigRobustLocationValidMask_all) [].
Definition LocSysInfoMask_conv : mask_conversion := MaskConv
  getPBMaskForLocSysInfoMask getLocationSystemInfoMaskFromPB
  (LocationSystemInfoDataBits_val <$> LocationSystemInfoDataBits_all) []
    (PBLocationSystemInfoMask_val <$> PBLocationSystemInfoMask_all) [].
Definition GnssDataMask_conv : mask_conversion := MaskConv
  getPBMaskForGnssDataMask getGnssDataMaskFromPB
  (GnssDataBits_val <$> GnssDataBits_all) [] (PBGnssDataMask_val <$> PBGnssDataMask_all) [].
Definition GnssAidingDataSvMask_conv : mask_conversion := MaskConv
  getPBMaskForGnssAidingDataSvMask getGnssAidingDataSvMaskFromPB
  (GnssAidingDataSvBits_val <$> GnssAidingDataSvBits_all) [GNSS_AIDING_DATA_SV_ALMANAC_BIT : Z;
    GNSS_AIDING_DATA_SV_HEALTH_BIT : Z; GNSS_AIDING_DATA_SV_DIRECTION_BIT : Z;
    GNSS_AIDING_DATA_SV_STEER_BIT : Z; GNSS_AIDING_DATA_SV_ALMANAC_CORR_BIT : Z;
    GNSS_AIDING_DATA_SV_BLACKLIST_BIT : Z; GNSS_AIDING_DATA_SV_SA_DATA_BIT : Z;
    GNSS_AIDING_DATA_SV_NO_EXIST_BIT : Z; GNSS_AIDING_DATA_SV_IONOSPHERE_BIT : Z;
    GNSS_AIDING_DATA_SV_TIME_BIT : Z; GNSS_AIDING_DATA_SV_MB_DATA : Z;
    GNSS_AIDING_DATA_SV_POLY_BIT : Z]
    (PBLocApiGnssAidingDataSvMask_val <$> PBLocApiGnssAidingDataSvMask_all) [].
Definition LeapSecondSysInfoMask_conv : mask_conversion := MaskConv
  getPBMaskForLeapSecondSysInfoMask getLeapSecSysInfoMaskFromPB
  (LeapSecondSysInfoDataBits_val <$> LeapSecondSysInfoDataBits_all) []
    (PBLeapSecondSysInfoMask_val <$> PBLeapSecondSysInfoMask_all) [].
Definition GnssSystemTimeStructTypeFlags_conv : mask_conversion := MaskConv
  getPBMaskForGnssSystemTimeStructTypeFlags getGnssSystemTimeStructTypeFlagsFromPB
  (GnssSystemTimeTypeBits_val <$> GnssSystemTimeTypeBits_all) []
    (PBLocApiGnssSystemTimeStructTypeFlags_val <$> PBLocApiGnssSystemTimeStructTypeFlags_all) [].
Definition LocationFlagsMask_conv : mask_conversion := MaskConv
  getPBMaskForLocationFlagsMask getLocationFlagsMaskFromPB
  (LocationFlagsBits_val <$> LocationFlagsBits_all) [LOCATION_HAS_SPOOF_MASK : Z;
    LOCATION_HAS_ELAPSED_REAL_TIME : Z; LOCATION_HAS_CONFORMITY_INDEX_BIT : Z]
    (PBLocationFlagsMask_val <$> PBLocationFlagsMask_all) [PB_LOCATION_HAS_TIMESTAMP_BIT : Z].
Definition LocationTechnologyMask_conv : mask_conversion := MaskConv
  getPBMaskForLocationTechnologyMask getLocationTechnologyMaskFromPB
  (LocationTechnologyBits_val <$> LocationTechnologyBits_all)
    [LOCATION_TECHNOLOGY_DGNSS_BIT : Z]
    (PBLocationTechnologyMask_val <$> PBLocationTechnologyMask_all) [].
Definition GnssLocationNavSolutionMask_conv : mask_conversion := MaskConv
  getPBMaskForGnssLocationNavSolutionMask getGnssLocationNavSolutionMaskFromPB
  (GnssLocationNavSolutionBits_val <$> GnssLocationNavSolutionBits_all) []
    (PBGnssLocationNavSolutionMask_val <$> PBGnssLocationNavSolutionMask_all) [].
Definition DrCalibrationStatusMask_conv : mask_conversion := MaskConv
  getPBMaskForDrCalibrationStatusMask getDrCalibrationStatusMaskFromPB
  (DrCalibrationStatusBits_val <$> DrCalibrationStatusBits_all) []
    (PBLocApiDrCalibrationStatusMask_val <$> PBLocApiDrCalibrationStatusMask_all) [].
Definition GnssMeasurementsDataFlagsMask_conv : mask_conversion := MaskConv
  getPBMaskForGnssMeasurementsDataFlagsMask getGnssMeasurementsDataFlagsMaskFromPB
  (GnssMeasurementsDataFlagsBits_val <$> GnssMeasurementsDataFlagsBits_all)
    [GNSS_MEASUREMENTS_DATA_SATELLITE_ISB_BIT : Z;
    GNSS_MEASUREMENTS_DATA_SATELLITE_ISB_UNCERTAINTY_BIT : Z]
    (PBGnssMeasurementsDataFlagsMask_val <$> PBGnssMeasurementsDataFlagsMask_all) [].
Definition GnssMeasurementsAdrStateMask_conv : mask_conversion := MaskConv
  getPBMaskForGnssMeasurementsAdrStateMask getGnssMeasurementsAdrStateMaskFromPB
  (GnssMeasurementsAdrStateBits_val <$> GnssMeasurementsAdrStateBits_all)
    [GNSS_MEASUREMENTS_ACCUMULATED_DELTA_RANGE_STATE_HALF_CYCLE_RESOLVED_BIT : Z]
    (PBGnssMeasurementsAdrStateMask_val <$> PBGnssMeasurementsAdrStateMask_all) [].
Definition GnssMeasurementsClockFlagsMask_conv : mask_conversion := MaskConv
  getPBMaskForGnssMeasurementsClockFlagsMask getGnssMeasurementsClockFlagsMaskFromPB
  (GnssMeasurementsClockFlagsBits_val <$> GnssMeasurementsClockFlagsBits_all)
    [GNSS_MEASUREMENTS_CLOCK_FLAGS_ELAPSED_REAL_TIME_BIT : Z]
    (PBGnssMeasurementsClockFlagsMask_val <$> PBGnssMeasurementsClockFlagsMask_all) [].
Definition GnssGloTimeStructTypeFlags_conv : mask_conversion := MaskConv
  getPBMaskForGnssGloTimeStructTypeFlags getGnssGloTimeStructTypeFlagsFromPB
  (GnssGloTimeTypeBits_val <$> GnssGloTimeTypeBits_all) []
    (PBGnssGloTimeStructTypeFlags_val <$> PBGnssGloTimeStructTypeFlags_all) [].
Definition GnssSvOptionsMask_conv : mask_conversion := MaskConv
  getPBMaskForGnssSvOptionsMask getGnssSvOptionsMaskFromPB
  (GnssSvOptionsBits_val <$> GnssSvOptionsBits_all) []
    (PBLocApiGnssSvOptionsMask_val <$> PBLocApiGnssSvOptionsMask_all) [].
Definition GnssSignalTypeMask_conv : mask_conversion := MaskConv
  getPBMaskForGnssSignalTypeMask getGnssSignalTypeMaskFromPB
  (GnssSignalTypeBits_val <$> GnssSignalTypeBits_all) []
    (PBGnssSignalTypeMask_val <$> PBGnssSignalTypeMask_all) [].
Definition GeofenceBreachTypeMask_conv : mask_conversion := MaskConv
  getPBMaskForGeofenceBreachTypeMask getGfBreachTypeMaskFromPB
  (GeofenceBreachTypeBits_val <$> GeofenceBreachTypeBits_all) []
    (PBGeofenceBreachTypeMask_val <$> PBGeofenceBreachTypeMask_all) [].
Definition DeadReckoningEngineConfigValidMask_conv : mask_conversion := MaskConv
  getPBMaskForDeadReckoningEngineConfigValidMask getDeadReckoningEngineConfigValidMaskFromPB
  (DeadReckoningEngineConfigValidBit_val <$> DeadReckoningEngineConfigValidBit_all) []
    (PBDeadReckoningEngineConfigValidMask_val <$> PBDeadReckoningEngineConfigValidMask_all) [].
Definition DrEngineAidingDataMask_conv : mask_conversion := MaskConv
  getPBMaskForDrEngineAidingDataMask getDrEngineAidingDataMaskFromPB
  (DrEngineAidingDataBits_val <$> DrEngineAidingDataBits_all) []
    (PBDrEngineAidingDataMask_val <$> PBDrEngineAidingDataMask_all) [].
Definition DrSolutionStatusMask_conv : mask_conversion := MaskConv
  getPBMaskForDrSolutionStatusMask getDrSolutionStatusMaskFromPB
  [VEHICLE_SENSOR_SPEED_INPUT_DETECTED; VEHICLE_SENSOR_SPEED_INPUT_USED] []
    (PBDrSolutionStatusMask_val <$> PBDrSolutionStatusMask_all) [].

Definition mask_conversions : list mask_conversion :=
  [ TerrestrialTechMask_conv; LocationCallbacksMask_conv; LocationCapabilitiesMask_conv;
   PositioningEngineMask_conv; LeverArmTypeMask_conv; LocReqEngineTypeMask_conv;
   GnssCfgRobustLocValidMask_conv; LocSysInfoMask_conv; GnssDataMask_conv;
   GnssAidingDataSvMask_conv; LeapSecondSysInfoMask_conv; GnssSystemTimeStructTypeFlags_conv;
   LocationFlagsMask_conv; LocationTechnologyMask_conv; GnssLocationNavSolutionMask_conv;
   DrCalibrationStatusMask_conv; GnssMeasurementsDataFlagsMask_conv;
   GnssMeasurementsAdrStateMask_conv; GnssMeasurementsClockFlagsMask_conv;
   GnssGloTimeStructTypeFlags_conv; GnssSvOptionsMask_conv; GnssSignalTypeMask_conv;
   GeofenceBreachTypeMask_conv; DeadReckoningEngineConfigValidMask_conv;
   DrEngineAidingDataMask_conv; DrSolutionStatusMask_conv ].

(** * The enumerations *)

(** An enumeration: its conversions; for each side the constants, those that do
    not arrive as themselves, and what these and unknown values become. *)
Record enum_conversion : Type := EnumConv {
  enum_to_pb : Z -> Z; enum_from_pb : Z -> Z;
  values : list Z; changed : list Z; fallback : Z;
  pb_values : list Z; pb_changed : list Z; pb_fallback : Z }.

Definition ELocMsgID_conv : enum_conversion := EnumConv
  getPBEnumForELocMsgID getEnumForPBELocMsgID
  (ELocMsgID_val <$> ELocMsgID_all) [] E_LOCAPI_UNDEFINED_MSG_ID
    (PBELocMsgID_val <$> PBELocMsgID_all) [] PB_E_LOCAPI_UNDEFINED_MSG_ID.
Definition LocationError_conv : enum_conversion := EnumConv
  getPBEnumForLocationError getEnumForPBLocationError
  (LocationError_val <$> LocationError_all) [LOCATION_ERROR_CALLBACK_MISSING : Z;
    LOCATION_ERROR_ID_EXISTS : Z; LOCATION_ERROR_ID_UNKNOWN : Z;
    LOCATION_ERROR_ALREADY_STARTED : Z; LOCATION_ERROR_GEOFENCES_AT_MAX : Z;
    LOCATION_ERROR_GNSS_DISABLED : Z] LOCATION_ERROR_GENERAL_FAILURE
    (PBLocationError_val <$> PBLocationError_all) [] PB_LOCATION_ERROR_GENERAL_FAILURE.
Definition ClientType_conv : enum_conversion := EnumConv
  getPBEnumForClientType getEnumForPBClientType
  (ClientType_val <$> ClientType_all) [] LOCATION_INTEGRATION_API
    (PBClientType_val <$> PBClientType_all) [PB_LOCATION_CLIENT_TYPE_INVALID : Z]
    PB_LOCATION_CLIENT_API.
Definition BatchingMode_conv : enum_conversion := EnumConv
  getPBEnumForBatchingMode getEnumForPBBatchingMode
  (BatchingMode_val <$> BatchingMode_all) [] BATCHING_MODE_ROUTINE
    (PBBatchingMode_val <$> PBBatchingMode_all) [] PB_BATCHING_MODE_ROUTINE.
Definition GnssSuplMode_conv : enum_conversion := EnumConv
  getPBEnumForGnssSuplMode getEnumForPBGnssSuplMode
  (GnssSuplMode_val <$> GnssSuplMode_all) [] GNSS_SUPL_MODE_STANDALONE
    (PBGnssSuplMode_val <$> PBGnssSuplMode_all) [] PB_GNSS_SUPL_MODE_STANDALONE.
Definition BatchingStatus_conv : enum_conversion := EnumConv
  getPBEnumForBatchingStatus getEnumForPBBatchingStatus
  (BatchingStatus_val <$> BatchingStatus_all) [] BATCHING_STATUS_POSITION_UNAVAILABLE
    (PBBatchingStatus_val <$> PBBatchingStatus_all) [] PB_BATCHING_STATUS_POSITION_UNAVAILABLE.
Definition GnssMeasMultiPathIndic_conv : enum_conversion := EnumConv
  getPBEnumForGnssMeasMultiPathIndic getEnumForPBGnssMeasMultipathIndic
  (GnssMeasurementsMultipathIndicator_val <$> GnssMeasurementsMultipathIndicator_all) []
    GNSS_MEASUREMENTS_MULTIPATH_INDICATOR_UNKNOWN
    (PBGnssMeasurementsMultipathIndicator_val <$> PBGnssMeasurementsMultipathIndicator_all) []
    PB_GNSS_MEASUREMENTS_MULTIPATH_INDICATOR_UNKNOWN.
Definition LocationReliability_conv : enum_conversion := EnumConv
  getPBEnumForLocationReliability getEnumForPBLocReliability
  (LocationReliability_val <$> LocationReliability_all) [] LOCATION_RELIABILITY_NOT_SET
    (PBLocationReliability_val <$> PBLocationReliability_all) [] PB_LOCATION_RELIABILITY_NOT_SET.
Definition GnssLocSvSystem_conv : enum_conversion := EnumConv
  getPBEnumForGnssLocSvSystem getEnumForPBGnssLocSvSystem
  (Gnss_LocSvSystemEnumType_val <$> Gnss_LocSvSystemEnumType_all) [] GNSS_LOC_SV_SYSTEM_UNKNOWN
    (PBLocApiGnss_LocSvSystemEnumType_val <$> PBLocApiGnss_LocSvSystemEnumType_all) []
    PB_GNSS_LOC_SV_SYSTEM_INVALID.
Definition LocOutputEngineType_conv : enum_conversion := EnumConv
  getPBEnumForLocOutputEngineType getEnumForPBLocOutputEngineType
  (LocOutputEngineType_val <$> LocOutputEngineType_all)
    [LOC_OUTPUT_ENGINE_VPE : Z; LOC_OUTPUT_ENGINE_COUNT : Z] LOC_OUTPUT_ENGINE_FUSED
    (PBLocApiOutputEngineType_val <$> PBLocApiOutputEngineType_all)
    [PB_LOC_OUTPUT_ENGINE_COUNT : Z] PB_LOC_OUTPUT_ENGINE_FUSED.
Definition LocEngineRunState_conv : enum_conversion := EnumConv
  getPBEnumForLocEngineRunState getEnumForPBLocEngineRunState
  (LocEngineRunState_val <$> LocEngineRunState_all) [] 0
    (PBLocEngineRunState_val <$> PBLocEngineRunState_all) [] PB_LOC_ENGINE_RUN_STATE_INVALID.
Definition GnssSvType_conv : enum_conversion := EnumConv
  getPBGnssLocSvSysEnumFromGnssSvType getGnssSvTypeFromPBGnssLocSvSystemEnumType
  (GnssSvType_val <$> GnssSvType_all) [] GNSS_SV_TYPE_UNKNOWN
    (PBLocApiGnss_LocSvSystemEnumType_val <$> PBLocApiGnss_LocSvSystemEnumType_all) []
    PB_GNSS_LOC_SV_SYSTEM_INVALID.
Definition LocSessionStatus_conv : enum_conversion := EnumConv
  getPBEnumForLocSessionStatus getLocSessionStatusFromPB
  (loc_sess_status_val <$> loc_sess_status_all) [] LOC_SESS_FAILURE
    (PBLocationSessionStatus_val <$> PBLocationSessionStatus_all) [] PB_LOCATION_SESS_FAILURE.

Definition enum_conversions : list enum_conversion :=
  [ ELocMsgID_conv; LocationError_conv; ClientType_conv; BatchingMode_conv; GnssSuplMode_conv;
   BatchingStatus_conv; GnssMeasMultiPathIndic_conv; LocationReliability_conv;
   GnssLocSvSystem_conv; LocOutputEngineType_conv; LocEngineRunState_conv; GnssSvType_conv;
   LocSessionStatus_conv ].

(** * Proofs by inspection of the rules *)

Ltac unfold_conversion :=
  lazymatch goal with |- ?f (?g ?m) = _ => unfold f, g end.
Ltac mask_arrives := intros m; unfold_conversion; apply arrives_land; vm_compute; reflexivity.

Definition arrives_both_ways (c : mask_conversion) : Prop :=
  (∀ m, from_pb c (to_pb c m) = Z.land m (kept (constants c) (lost c))) ∧
  (∀ m, to_pb c (from_pb c m) = Z.land m (kept (pb_constants c) (pb_lost c))).

Lemma mask_conversions_arrive : Forall arrives_both_ways mask_conversions.
Proof.
  unfold mask_conversions.
  repeat (constructor;
    [match goal with |- arrives_both_ways ?c => unfold arrives_both_ways, c end;
     split; cbn [from_pb to_pb constants lost pb_constants pb_lost]; mask_arrives|]).
  constructor.
Qed.

(** A mask that is sent in two parts, and two that are sent as one. *)
Definition checks (b : bool) (outer inner1 inner2 : option (list (bool * Z * Z))) (mask : Z) : bool :=
  match outer, inner1, inner2 with
  | Some eo, Some e1, Some e2 =>
    forallb (fun '(_, i, _) => 0 <=? i) eo && in_place b (compose eo e1 e2) &&
    (copied_mask (compose eo e1 e2) =? mask)
  | _, _, _ => false
  end.
Definition one (w : Z) (rules : list bit_rule) : option (list (bool * Z * Z)) :=
  if 0 <=? w then tagged false <$> positions w rules else None.
Definition two (w : Z) (rules1 rules2 : list bit_rule) : option (list (bool * Z * Z)) :=
  if 0 <=? w then
    es1 ← positions w rules1; es2 ← positions w rules2; Some (tagged false es1 ++ tagged true es2)
  else None.

Lemma one_copies w rules es : one w rules = Some es -> copies (fun m _ => set_bits w 0 rules m) es.
Proof.
  unfold one. destruct (Z.leb_spec 0 w); [|done]. intros (es' & H1 & ->)%fmap_Some.
  by apply set_bits_copies.
Qed.
Lemma two_copies w rules1 rules2 es :
  two w rules1 rules2 = Some es -> copies (fun m e => set_bits w (set_bits w 0 rules1 m) rules2 e) es.
Proof.
  unfold two. destruct (Z.leb_spec 0 w); [|done]. intros (es1 & H1 & H2)%bind_Some.
  apply bind_Some in H2 as (es2 & H2 & [= <-]). by apply set_bits2_copies.
Qed.
Lemma checks_land b f g1 g2 eo e1 e2 mask m e :
  checks b eo e1 e2 mask = true ->
  (∀ es, eo = Some es -> copies f es) -> (∀ es, e1 = Some es -> copies g1 es) ->
  (∀ es, e2 = Some es -> copies g2 es) ->
  f (g1 m e) (g2 m e) = Z.land (if b then e else m) mask.
Proof.
  unfold checks. destruct eo as [eo|], e1 as [e1|], e2 as [e2|]; try done.
  intros [[Hi Hp]%andb_prop Hm%Z.eqb_eq]%andb_prop Hf H1 H2.
  refine (in_place_land b (fun m e => f (g1 m e) (g2 m e)) _ _ m e _ Hp Hm).
  apply compose_copies; auto.
Qed.

Lemma two_parts_arrive w r1 r2 w1 t1 w2 t2 mask m :
  checks false (two w r1 r2) (one w1 t1) (one w2 t2) mask = true ->
  set_bits w (set_bits w 0 r1 (set_bits w1 0 t1 m)) r2 (set_bits w2 0 t2 m) = Z.land m mask.
Proof.
  intros H. refine (checks_land false (fun m e => set_bits w (set_bits w 0 r1 m) r2 e)
    (fun m _ => set_bits w1 0 t1 m) (fun m _ => set_bits w2 0 t2 m) _ _ _ mask m 0 H _ _ _);
    [apply two_copies|apply one_copies..].
Qed.
Lemma one_part_arrives b w r w' t1 t2 mask m e :
  checks b (one w r) (two w' t1 t2) (Some []) mask = true ->
  set_bits w 0 r (set_bits w' (set_bits w' 0 t1 m) t2 e) = Z.land (if b : bool then e else m) mask.
Proof.
  intros H. refine (checks_land b (fun m _ => set_bits w 0 r m)
    (fun m e => set_bits w' (set_bits w' 0 t1 m) t2 e) (fun _ _ => 0) _ _ _ mask m e H _ _ _);
    [apply one_copies|apply two_copies|].
  intros ? [= <-] ? ? ? ?. apply Z.bits_0.
Qed.

Lemma same_bits w r mask m :
  match one w r with Some es => in_place false es && (copied_mask es =? mask) | None => false end = true ->
  set_bits w 0 r m = Z.land m mask.
Proof.
  destruct (one w r) as [es|] eqn:E; [|done]. intros [Hp Hm%Z.eqb_eq]%andb_prop.
  exact (in_place_land false (fun m _ => set_bits w 0 r m) es mask m 0 (one_copies _ _ _ E) Hp Hm).
Qed.

(** C31: Each mask that the daemon and a client exchange arrives as it was sent,
    in both directions, but for the bits of the constants listed as lost; no
    bit is taken for another one and none is cut off by the width of a mask.
    So do the location info flags, which are sent as two masks, but for one
    constant, and the two position data masks, which are sent as one.  Two masks
    are converted on one side only, and their bits are the same on both. *)
Theorem pb_masks_arrive :
  Forall arrives_both_ways mask_conversions ∧
  (∀ m, getGnssLocationInfoFlagMaskFromPB (getPBMaskForGnssLocationInfoFlagMask m)
          (getPBMaskForGnssLocationInfoExtFlagMask m) =
        Z.land m (kept (GnssLocationInfoFlagBits_val <$> GnssLocationInfoFlagBits_all)
                       [GNSS_LOCATION_INFO_SV_SOURCE_INFO_BIT : Z])) ∧
  (∀ m e, getGnssLocationPosDataMaskFromPB (getPBMaskForGnssLocationPosDataMask m e) =
          Z.land m (mask_of (GnssLocationPosDataBits_val <$> GnssLocationPosDataBits_all))) ∧
  (∀ m e, getGnssLocationPosDataMaskExtFromPB (getPBMaskForGnssLocationPosDataMask m e) =
          Z.land e (mask_of (GnssLocationPosDataBitsExt_val <$> GnssLocationPosDataBitsExt_all))) ∧
  (∀ m, getGnssSvTypesMaskFromPB m =
        Z.land m (mask_of (GnssSvTypesMaskBits_val <$> GnssSvTypesMaskBits_all))) ∧
  (∀ m, getPBMaskForGnssMeasurementsStateMask m =
        Z.land m (kept (GnssMeasurementsStateBits_val <$> GnssMeasurementsStateBits_all)
                       [GNSS_MEASUREMENTS_STATE_TOW_KNOWN_BIT : Z;
                        GNSS_MEASUREMENTS_STATE_GLO_TOD_KNOWN_BIT : Z;
                        GNSS_MEASUREMENTS_STATE_2ND_CODE_LOCK_BIT : Z])).
Proof.
  split; [apply mask_conversions_arrive|]. split; [|split; [|split; [|split]]].
  - intros m. apply two_parts_arrive. vm_compute. reflexivity.
  - intros m e. apply (one_part_arrives false). vm_compute. reflexivity.
  - intros m e. apply (one_part_arrives true). vm_compute. reflexivity.
  - intros m. apply same_bits. vm_compute. reflexivity.
  - intros m. apply same_bits. vm_compute. reflexivity.
Qed.

(** * Enumerations *)

Definition unchanged (vs changed : list Z) : list Z := filter (fun v => v ∉ changed) vs.

(** Each enumeration arrives as it was sent, in both directions, but for the
    constants listed as changed; these and every value that is no constant
    arrive as the fallback. *)
Theorem pb_enums_arrive :
  Forall (fun c =>
    (∀ x, enum_from_pb c (enum_to_pb c x) =
          if decide (x ∈ unchanged (values c) (changed c)) then x else fallback c) ∧
    (∀ x, enum_to_pb c (enum_from_pb c x) =
          if decide (x ∈ unchanged (pb_values c) (pb_changed c)) then x else pb_fallback c))
    enum_conversions.
Proof.
  unfold enum_conversions.
  repeat (constructor;
    [match goal with |- context [enum_from_pb ?c] => unfold c end; split; intros x;
     cbn [enum_from_pb enum_to_pb values changed fallback pb_values pb_changed pb_fallback];
     apply switch_all; vm_compute; reflexivity|]).
  constructor.
Qed.
