(* ===== verification/ApiStructs.v ===== *)
(** The structs of the location API that are sent in messages between the
    location daemon and its clients: LocationDataTypes.h and LocationApiMsg.h.
    Their members are named Struct_member; the [size] members, which hold
    [sizeof] of their struct, are left out.  Integers and enumerations are [Z];
    a [float] or a [double] is the pattern of its bits, for nothing here
    computes with it.  [X_in_range] says that the members of an [X] have values
    of their C types. *)

From Stdlib Require Import ZArith List String.
From S2P Require Import Prelude.
Import ListNotations.

Local Open Scope Z_scope.

Abbreviation uint8_t := Z (only parsing).
Abbreviation uint16_t := Z (only parsing).
Abbreviation uint32_t := Z (only parsing).
Abbreviation uint64_t := Z (only parsing).
Abbreviation int16_t := Z (only parsing).
Abbreviation int64_t := Z (only parsing).
Abbreviation char := Z (only parsing).
Abbreviation float := Z (only parsing).
Abbreviation double := Z (only parsing).
Abbreviation enum := Z (only parsing).

Definition in_u (w z : Z) : bool := (0 <=? z) && (z <? 2 ^ w).
Definition in_s (w z : Z) : bool := (- 2 ^ (w - 1) <=? z) && (z <? 2 ^ (w - 1)).

Definition GNSS_SV_MAX : Z := 128.
Definition GNSS_MEASUREMENTS_MAX : Z := 128.
Definition GNSS_LOC_MAX_NUMBER_OF_SIGNAL_TYPES : Z := 20.
Definition GNSS_MAX_NAME_LENGTH : Z := 8.
Definition MAX_GEOFENCE_ENTRY : Z := 20.

Record GnssSvTypeConfig : Type := MkGnssSvTypeConfig {
  GnssSvTypeConfig_enabledSvTypesMask : uint64_t;
  GnssSvTypeConfig_blacklistedSvTypesMask : uint64_t }.
Definition GnssSvTypeConfig_in_range (v : GnssSvTypeConfig) : bool :=
  in_u 64 (GnssSvTypeConfig_enabledSvTypesMask v) &&
  in_u 64 (GnssSvTypeConfig_blacklistedSvTypesMask v).

Record GnssSvIdConfig : Type := MkGnssSvIdConfig { GnssSvIdConfig_gloBlacklistSvMask : uint64_t;
  GnssSvIdConfig_bdsBlacklistSvMask : uint64_t; GnssSvIdConfig_qzssBlacklistSvMask : uint64_t;
  GnssSvIdConfig_galBlacklistSvMask : uint64_t; GnssSvIdConfig_sbasBlacklistSvMask : uint64_t;
  GnssSvIdConfig_navicBlacklistSvMask : uint64_t }.
Definition GnssSvIdConfig_in_range (v : GnssSvIdConfig) : bool :=
  in_u 64 (GnssSvIdConfig_gloBlacklistSvMask v) &&
  in_u 64 (GnssSvIdConfig_bdsBlacklistSvMask v) &&
  in_u 64 (GnssSvIdConfig_qzssBlacklistSvMask v) &&
  in_u 64 (GnssSvIdConfig_galBlacklistSvMask v) &&
  in_u 64 (GnssSvIdConfig_sbasBlacklistSvMask v) &&
  in_u 64 (GnssSvIdConfig_navicBlacklistSvMask v).

Record GnssAidingDataSv : Type := MkGnssAidingDataSv { GnssAidingDataSv_svMask : uint32_t;
  GnssAidingDataSv_svTypeMask : uint32_t }.
Definition GnssAidingDataSv_in_range (v : GnssAidingDataSv) : bool :=
  in_u 32 (GnssAidingDataSv_svMask v) && in_u 32 (GnssAidingDataSv_svTypeMask v).

Record GnssAidingDataCommon : Type := MkGnssAidingDataCommon {
  GnssAidingDataCommon_mask : uint32_t }.
Definition GnssAidingDataCommon_in_range (v : GnssAidingDataCommon) : bool :=
  in_u 32 (GnssAidingDataCommon_mask v).

Record GnssAidingData : Type := MkGnssAidingData { GnssAidingData_deleteAll : bool;
  GnssAidingData_sv : GnssAidingDataSv; GnssAidingData_common : GnssAidingDataCommon;
  GnssAidingData_dreAidingDataMask : uint32_t; GnssAidingData_posEngineMask : uint32_t }.
Definition GnssAidingData_in_range (v : GnssAidingData) : bool :=
  GnssAidingDataSv_in_range (GnssAidingData_sv v) &&
  GnssAidingDataCommon_in_range (GnssAidingData_common v) &&
  in_u 32 (GnssAidingData_dreAidingDataMask v) && in_u 32 (GnssAidingData_posEngineMask v).

Record LeverArmParams : Type := MkLeverArmParams { LeverArmParams_forwardOffsetMeters : float;
  LeverArmParams_sidewaysOffsetMeters : float; LeverArmParams_upOffsetMeters : float }.
Definition LeverArmParams_in_range (_ : LeverArmParams) : bool := true.

Record LeverArmConfigInfo : Type := MkLeverArmConfigInfo {
  LeverArmConfigInfo_leverArmValidMask : uint32_t; LeverArmConfigInfo_gnssToVRP : LeverArmParams;
  LeverArmConfigInfo_drImuToGnss : LeverArmParams;
  LeverArmConfigInfo_veppImuToGnss : LeverArmParams }.
Definition LeverArmConfigInfo_in_range (v : LeverArmConfigInfo) : bool :=
  in_u 32 (LeverArmConfigInfo_leverArmValidMask v) &&
  LeverArmParams_in_range (LeverArmConfigInfo_gnssToVRP v) &&
  LeverArmParams_in_range (LeverArmConfigInfo_drImuToGnss v) &&
  LeverArmParams_in_range (LeverArmConfigInfo_veppImuToGnss v).

Record BodyToSensorMountParams : Type := MkBodyToSensorMountParams {
  BodyToSensorMountParams_rollOffset : float; BodyToSensorMountParams_yawOffset : float;
  BodyToSensorMountParams_pitchOffset : float; BodyToSensorMountParams_offsetUnc : float }.
Definition BodyToSensorMountParams_in_range (_ : BodyToSensorMountParams) : bool := true.

Record DeadReckoningEngineConfig : Type := MkDeadReckoningEngineConfig {
  DeadReckoningEngineConfig_validMask : uint64_t;
  DeadReckoningEngineConfig_bodyToSensorMountParams : BodyToSensorMountParams;
  DeadReckoningEngineConfig_vehicleSpeedScaleFactor : float;
  DeadReckoningEngineConfig_vehicleSpeedScaleFactorUnc : float;
  DeadReckoningEngineConfig_gyroScaleFactor : float;
  DeadReckoningEngineConfig_gyroScaleFactorUnc : float }.
Definition DeadReckoningEngineConfig_in_range (v : DeadReckoningEngineConfig) : bool :=
  in_u 64 (DeadReckoningEngineConfig_validMask v) &&
  BodyToSensorMountParams_in_range (DeadReckoningEngineConfig_bodyToSensorMountParams v).

Record LocationOptions : Type := MkLocationOptions { LocationOptions_minInterval : uint32_t;
  LocationOptions_minDistance : uint32_t; LocationOptions_mode : enum;
  LocationOptions_locReqEngTypeMask : enum }.
Definition LocationOptions_in_range (v : LocationOptions) : bool :=
  in_u 32 (LocationOptions_minInterval v) && in_u 32 (LocationOptions_minDistance v).

Record GeofenceOption : Type := MkGeofenceOption { GeofenceOption_breachTypeMask : uint16_t;
  GeofenceOption_responsiveness : uint32_t; GeofenceOption_dwellTime : uint32_t }.
Definition GeofenceOption_in_range (v : GeofenceOption) : bool :=
  in_u 16 (GeofenceOption_breachTypeMask v) && in_u 32 (GeofenceOption_responsiveness v) &&
  in_u 32 (GeofenceOption_dwellTime v).

Record GeofenceInfo : Type := MkGeofenceInfo { GeofenceInfo_latitude : double;
  GeofenceInfo_longitude : double; GeofenceInfo_radius : double }.
Definition GeofenceInfo_in_range (_ : GeofenceInfo) : bool := true.

Record GeofencePayload : Type := MkGeofencePayload { GeofencePayload_gfClientId : uint32_t;
  GeofencePayload_gfOption : GeofenceOption; GeofencePayload_gfInfo : GeofenceInfo }.
Definition GeofencePayload_in_range (v : GeofencePayload) : bool :=
  in_u 32 (GeofencePayload_gfClientId v) &&
  GeofenceOption_in_range (GeofencePayload_gfOption v) &&
  GeofenceInfo_in_range (GeofencePayload_gfInfo v).

Record GeofencesAddedReqPayload : Type := MkGeofencesAddedReqPayload {
  GeofencesAddedReqPayload_count : uint32_t;
  GeofencesAddedReqPayload_gfPayload : list GeofencePayload }.
Definition GeofencesAddedReqPayload_in_range (v : GeofencesAddedReqPayload) : bool :=
  in_u 32 (GeofencesAddedReqPayload_count v) &&
  (Z.of_nat (length (GeofencesAddedReqPayload_gfPayload v)) =? MAX_GEOFENCE_ENTRY) &&
  forallb GeofencePayload_in_range (GeofencesAddedReqPayload_gfPayload v).

Record GeofencesReqClientIdPayload : Type := MkGeofencesReqClientIdPayload {
  GeofencesReqClientIdPayload_count : uint32_t; GeofencesReqClientIdPayload_gfIds : list uint32_t }.
Definition GeofencesReqClientIdPayload_in_range (v : GeofencesReqClientIdPayload) : bool :=
  in_u 32 (GeofencesReqClientIdPayload_count v) &&
  (Z.of_nat (length (GeofencesReqClientIdPayload_gfIds v)) =? MAX_GEOFENCE_ENTRY) &&
  forallb (in_u 32) (GeofencesReqClientIdPayload_gfIds v).

Record GeofenceResponse : Type := MkGeofenceResponse { GeofenceResponse_clientId : uint32_t;
  GeofenceResponse_error : enum }.
Definition GeofenceResponse_in_range (v : GeofenceResponse) : bool :=
  in_u 32 (GeofenceResponse_clientId v).

Record CollectiveResPayload : Type := MkCollectiveResPayload {
  CollectiveResPayload_count : uint32_t; CollectiveResPayload_resp : list GeofenceResponse }.
Definition CollectiveResPayload_in_range (v : CollectiveResPayload) : bool :=
  in_u 32 (CollectiveResPayload_count v) &&
  forallb GeofenceResponse_in_range (CollectiveResPayload_resp v).

Record GnssConfigRobustLocationVersion : Type := MkGnssConfigRobustLocationVersion {
  GnssConfigRobustLocationVersion_major : uint8_t;
  GnssConfigRobustLocationVersion_minor : uint16_t }.
Definition GnssConfigRobustLocationVersion_in_range (v : GnssConfigRobustLocationVersion) : bool :=
  in_u 8 (GnssConfigRobustLocationVersion_major v) &&
  in_u 16 (GnssConfigRobustLocationVersion_minor v).

Record GnssConfigRobustLocation : Type := MkGnssConfigRobustLocation {
  GnssConfigRobustLocation_validMask : enum; GnssConfigRobustLocation_enabled : bool;
  GnssConfigRobustLocation_enabledForE911 : bool;
  GnssConfigRobustLocation_version : GnssConfigRobustLocationVersion }.
Definition GnssConfigRobustLocation_in_range (v : GnssConfigRobustLocation) : bool :=
  GnssConfigRobustLocationVersion_in_range (GnssConfigRobustLocation_version v).

Record Location : Type := MkLocation { Location_flags : uint16_t; Location_timestamp : uint64_t;
  Location_latitude : double; Location_longitude : double; Location_altitude : double;
  Location_speed : float; Location_bearing : float; Location_accuracy : float;
  Location_verticalAccuracy : float; Location_speedAccuracy : float;
  Location_bearingAccuracy : float; Location_conformityIndex : float;
  Location_techMask : uint16_t; Location_spoofMask : uint32_t;
  Location_elapsedRealTime : uint64_t; Location_elapsedRealTimeUnc : uint64_t }.
Definition Location_in_range (v : Location) : bool := in_u 16 (Location_flags v) &&
  in_u 64 (Location_timestamp v) && in_u 16 (Location_techMask v) &&
  in_u 32 (Location_spoofMask v) && in_u 64 (Location_elapsedRealTime v) &&
  in_u 64 (Location_elapsedRealTimeUnc v).

Record LocAPIBatchNotification : Type := MkLocAPIBatchNotification {
  LocAPIBatchNotification_count : uint32_t; LocAPIBatchNotification_status : enum;
  LocAPIBatchNotification_location : list Location }.
Definition LocAPIBatchNotification_in_range (v : LocAPIBatchNotification) : bool :=
  in_u 32 (LocAPIBatchNotification_count v) &&
  forallb Location_in_range (LocAPIBatchNotification_location v).

Record LocAPIGeofenceBreachNotification : Type := MkLocAPIGeofenceBreachNotification {
  LocAPIGeofenceBreachNotification_count : uint32_t;
  LocAPIGeofenceBreachNotification_timestamp : uint64_t;
  LocAPIGeofenceBreachNotification_type : uint16_t;
  LocAPIGeofenceBreachNotification_location : Location;
  LocAPIGeofenceBreachNotification_id : list uint32_t }.
Definition LocAPIGeofenceBreachNotification_in_range (v : LocAPIGeofenceBreachNotification) : bool :=
  in_u 32 (LocAPIGeofenceBreachNotification_count v) &&
  in_u 64 (LocAPIGeofenceBreachNotification_timestamp v) &&
  in_u 16 (LocAPIGeofenceBreachNotification_type v) &&
  Location_in_range (LocAPIGeofenceBreachNotification_location v) &&
  forallb (in_u 32) (LocAPIGeofenceBreachNotification_id v).

Record GnssLocationSvUsedInPosition : Type := MkGnssLocationSvUsedInPosition {
  GnssLocationSvUsedInPosition_gpsSvUsedIdsMask : uint64_t;
  GnssLocationSvUsedInPosition_gloSvUsedIdsMask : uint64_t;
  GnssLocationSvUsedInPosition_galSvUsedIdsMask : uint64_t;
  GnssLocationSvUsedInPosition_bdsSvUsedIdsMask : uint64_t;
  GnssLocationSvUsedInPosition_qzssSvUsedIdsMask : uint64_t;
  GnssLocationSvUsedInPosition_navicSvUsedIdsMask : uint64_t }.
Definition GnssLocationSvUsedInPosition_in_range (v : GnssLocationSvUsedInPosition) : bool :=
  in_u 64 (GnssLocationSvUsedInPosition_gpsSvUsedIdsMask v) &&
  in_u 64 (GnssLocationSvUsedInPosition_gloSvUsedIdsMask v) &&
  in_u 64 (GnssLocationSvUsedInPosition_galSvUsedIdsMask v) &&
  in_u 64 (GnssLocationSvUsedInPosition_bdsSvUsedIdsMask v) &&
  in_u 64 (GnssLocationSvUsedInPosition_qzssSvUsedIdsMask v) &&
  in_u 64 (GnssLocationSvUsedInPosition_navicSvUsedIdsMask v).

Record GnssLocationPositionDynamics : Type := MkGnssLocationPositionDynamics {
  GnssLocationPositionDynamics_bodyFrameDataMask : uint32_t;
  GnssLocationPositionDynamics_longAccel : float; GnssLocationPositionDynamics_latAccel : float;
  GnssLocationPositionDynamics_vertAccel : float; GnssLocationPositionDynamics_yawRate : float;
  GnssLocationPositionDynamics_pitch : float; GnssLocationPositionDynamics_longAccelUnc : float;
  GnssLocationPositionDynamics_latAccelUnc : float;
  GnssLocationPositionDynamics_vertAccelUnc : float;
  GnssLocationPositionDynamics_yawRateUnc : float; GnssLocationPositionDynamics_pitchUnc : float }.
Definition GnssLocationPositionDynamics_in_range (v : GnssLocationPositionDynamics) : bool :=
  in_u 32 (GnssLocationPositionDynamics_bodyFrameDataMask v).

Record GnssSystemTimeStructType : Type := MkGnssSystemTimeStructType {
  GnssSystemTimeStructType_validityMask : uint32_t;
  GnssSystemTimeStructType_systemWeek : uint16_t; GnssSystemTimeStructType_systemMsec : uint32_t;
  GnssSystemTimeStructType_systemClkTimeBias : float;
  GnssSystemTimeStructType_systemClkTimeUncMs : float;
  GnssSystemTimeStructType_refFCount : uint32_t;
  GnssSystemTimeStructType_numClockResets : uint32_t }.
Definition GnssSystemTimeStructType_in_range (v : GnssSystemTimeStructType) : bool :=
  in_u 32 (GnssSystemTimeStructType_validityMask v) &&
  in_u 16 (GnssSystemTimeStructType_systemWeek v) &&
  in_u 32 (GnssSystemTimeStructType_systemMsec v) &&
  in_u 32 (GnssSystemTimeStructType_refFCount v) &&
  in_u 32 (GnssSystemTimeStructType_numClockResets v).

Record GnssGloTimeStructType : Type := MkGnssGloTimeStructType {
  GnssGloTimeStructType_gloDays : uint16_t; GnssGloTimeStructType_validityMask : uint32_t;
  GnssGloTimeStructType_gloMsec : uint32_t; GnssGloTimeStructType_gloClkTimeBias : float;
  GnssGloTimeStructType_gloClkTimeUncMs : float; GnssGloTimeStructType_refFCount : uint32_t;
  GnssGloTimeStructType_numClockResets : uint32_t; GnssGloTimeStructType_gloFourYear : uint8_t }.
Definition GnssGloTimeStructType_in_range (v : GnssGloTimeStructType) : bool :=
  in_u 16 (GnssGloTimeStructType_gloDays v) && in_u 32 (GnssGloTimeStructType_validityMask v) &&
  in_u 32 (GnssGloTimeStructType_gloMsec v) && in_u 32 (GnssGloTimeStructType_refFCount v) &&
  in_u 32 (GnssGloTimeStructType_numClockResets v) && in_u 8 (GnssGloTimeStructType_gloFourYear v).

(** What was stored last in the union: the four constellations that count time
    as GPS does have a common layout, GLONASS another one.  To read a member of
    the other layout than the one stored is undefined. *)
Inductive SystemTimeStructUnion : Type :=
  | gnss_time (t : GnssSystemTimeStructType)
  | glo_time (t : GnssGloTimeStructType).
Definition SystemTimeStructUnion_in_range (u : SystemTimeStructUnion) : bool :=
  match u with
  | gnss_time t => GnssSystemTimeStructType_in_range t
  | glo_time t => GnssGloTimeStructType_in_range t
  end.

Record GnssSystemTime : Type := MkGnssSystemTime { GnssSystemTime_gnssSystemTimeSrc : enum;
  GnssSystemTime_u : SystemTimeStructUnion }.
Definition GnssSystemTime_in_range (v : GnssSystemTime) : bool :=
  SystemTimeStructUnion_in_range (GnssSystemTime_u v).

Record GnssMeasUsageInfo : Type := MkGnssMeasUsageInfo {
  GnssMeasUsageInfo_gnssSignalType : uint32_t; GnssMeasUsageInfo_gnssConstellation : enum;
  GnssMeasUsageInfo_gnssSvId : uint16_t }.
Definition GnssMeasUsageInfo_in_range (v : GnssMeasUsageInfo) : bool :=
  in_u 32 (GnssMeasUsageInfo_gnssSignalType v) && in_u 16 (GnssMeasUsageInfo_gnssSvId v).

Record GnssLocationPositionDynamicsExt : Type := MkGnssLocationPositionDynamicsExt {
  GnssLocationPositionDynamicsExt_bodyFrameDataMask : uint32_t;
  GnssLocationPositionDynamicsExt_pitchRate : float;
  GnssLocationPositionDynamicsExt_pitchRateUnc : float;
  GnssLocationPositionDynamicsExt_roll : float; GnssLocationPositionDynamicsExt_rollUnc : float;
  GnssLocationPositionDynamicsExt_rollRate : float;
  GnssLocationPositionDynamicsExt_rollRateUnc : float;
  GnssLocationPositionDynamicsExt_yaw : float; GnssLocationPositionDynamicsExt_yawUnc : float }.
Definition GnssLocationPositionDynamicsExt_in_range (v : GnssLocationPositionDynamicsExt) : bool :=
  in_u 32 (GnssLocationPositionDynamicsExt_bodyFrameDataMask v).

Record LLAInfo : Type := MkLLAInfo { LLAInfo_latitude : double; LLAInfo_longitude : double;
  LLAInfo_altitude : float }.
Definition LLAInfo_in_range (_ : LLAInfo) : bool := true.

Record GnssLocationInfoNotification : Type := MkGnssLocationInfoNotification {
  GnssLocationInfoNotification_location : Location; GnssLocationInfoNotification_flags : uint64_t;
  GnssLocationInfoNotification_altitudeMeanSeaLevel : float;
  GnssLocationInfoNotification_pdop : float; GnssLocationInfoNotification_hdop : float;
  GnssLocationInfoNotification_vdop : float; GnssLocationInfoNotification_gdop : float;
  GnssLocationInfoNotification_tdop : float;
  GnssLocationInfoNotification_magneticDeviation : float;
  GnssLocationInfoNotification_horReliability : enum;
  GnssLocationInfoNotification_verReliability : enum;
  GnssLocationInfoNotification_horUncEllipseSemiMajor : float;
  GnssLocationInfoNotification_horUncEllipseSemiMinor : float;
  GnssLocationInfoNotification_horUncEllipseOrientAzimuth : float;
  GnssLocationInfoNotification_northStdDeviation : float;
  GnssLocationInfoNotification_eastStdDeviation : float;
  GnssLocationInfoNotification_northVelocity : float;
  GnssLocationInfoNotification_eastVelocity : float;
  GnssLocationInfoNotification_upVelocity : float;
  GnssLocationInfoNotification_northVelocityStdDeviation : float;
  GnssLocationInfoNotification_eastVelocityStdDeviation : float;
  GnssLocationInfoNotification_upVelocityStdDeviation : float;
  GnssLocationInfoNotification_numSvUsedInPosition : uint16_t;
  GnssLocationInfoNotification_svUsedInPosition : GnssLocationSvUsedInPosition;
  GnssLocationInfoNotification_navSolutionMask : uint32_t;
  GnssLocationInfoNotification_bodyFrameData : GnssLocationPositionDynamics;
  GnssLocationInfoNotification_gnssSystemTime : GnssSystemTime;
  GnssLocationInfoNotification_numOfMeasReceived : uint8_t;
  GnssLocationInfoNotification_measUsageInfo : list GnssMeasUsageInfo;
  GnssLocationInfoNotification_leapSeconds : uint8_t;
  GnssLocationInfoNotification_timeUncMs : float;
  GnssLocationInfoNotification_calibrationConfidence : uint8_t;
  GnssLocationInfoNotification_calibrationStatus : uint16_t;
  GnssLocationInfoNotification_locOutputEngType : enum;
  GnssLocationInfoNotification_locOutputEngMask : uint32_t;
  GnssLocationInfoNotification_conformityIndex : float;
  GnssLocationInfoNotification_bodyFrameDataExt : GnssLocationPositionDynamicsExt;
  GnssLocationInfoNotification_llaVRPBased : LLAInfo;
  GnssLocationInfoNotification_enuVelocityVRPBased : list float;
  GnssLocationInfoNotification_drSolutionStatusMask : uint32_t;
  GnssLocationInfoNotification_altitudeAssumed : bool;
  GnssLocationInfoNotification_sessionStatus : enum }.
Definition GnssLocationInfoNotification_in_range (v : GnssLocationInfoNotification) : bool :=
  Location_in_range (GnssLocationInfoNotification_location v) &&
  in_u 64 (GnssLocationInfoNotification_flags v) &&
  in_u 16 (GnssLocationInfoNotification_numSvUsedInPosition v) &&
  GnssLocationSvUsedInPosition_in_range (GnssLocationInfoNotification_svUsedInPosition v) &&
  in_u 32 (GnssLocationInfoNotification_navSolutionMask v) &&
  GnssLocationPositionDynamics_in_range (GnssLocationInfoNotification_bodyFrameData v) &&
  GnssSystemTime_in_range (GnssLocationInfoNotification_gnssSystemTime v) &&
  in_u 8 (GnssLocationInfoNotification_numOfMeasReceived v) &&
  (Z.of_nat (length (GnssLocationInfoNotification_measUsageInfo v)) =? GNSS_SV_MAX) &&
  forallb GnssMeasUsageInfo_in_range (GnssLocationInfoNotification_measUsageInfo v) &&
  in_u 8 (GnssLocationInfoNotification_leapSeconds v) &&
  in_u 8 (GnssLocationInfoNotification_calibrationConfidence v) &&
  in_u 16 (GnssLocationInfoNotification_calibrationStatus v) &&
  in_u 32 (GnssLocationInfoNotification_locOutputEngMask v) &&
  GnssLocationPositionDynamicsExt_in_range (GnssLocationInfoNotification_bodyFrameDataExt v) &&
  LLAInfo_in_range (GnssLocationInfoNotification_llaVRPBased v) &&
  (Z.of_nat (length (GnssLocationInfoNotification_enuVelocityVRPBased v)) =? 3) &&
  in_u 32 (GnssLocationInfoNotification_drSolutionStatusMask v).

Record LeapSecondChangeInfo : Type := MkLeapSecondChangeInfo {
  LeapSecondChangeInfo_gpsTimestampLsChange : GnssSystemTimeStructType;
  LeapSecondChangeInfo_leapSecondsBeforeChange : uint8_t;
  LeapSecondChangeInfo_leapSecondsAfterChange : uint8_t }.
Definition LeapSecondChangeInfo_in_range (v : LeapSecondChangeInfo) : bool :=
  GnssSystemTimeStructType_in_range (LeapSecondChangeInfo_gpsTimestampLsChange v) &&
  in_u 8 (LeapSecondChangeInfo_leapSecondsBeforeChange v) &&
  in_u 8 (LeapSecondChangeInfo_leapSecondsAfterChange v).

Record LeapSecondSystemInfo : Type := MkLeapSecondSystemInfo {
  LeapSecondSystemInfo_leapSecondInfoMask : uint32_t;
  LeapSecondSystemInfo_leapSecondCurrent : uint8_t;
  LeapSecondSystemInfo_leapSecondChangeInfo : LeapSecondChangeInfo }.
Definition LeapSecondSystemInfo_in_range (v : LeapSecondSystemInfo) : bool :=
  in_u 32 (LeapSecondSystemInfo_leapSecondInfoMask v) &&
  in_u 8 (LeapSecondSystemInfo_leapSecondCurrent v) &&
  LeapSecondChangeInfo_in_range (LeapSecondSystemInfo_leapSecondChangeInfo v).

Record LocationSystemInfo : Type := MkLocationSystemInfo {
  LocationSystemInfo_systemInfoMask : uint32_t;
  LocationSystemInfo_leapSecondSysInfo : LeapSecondSystemInfo }.
Definition LocationSystemInfo_in_range (v : LocationSystemInfo) : bool :=
  in_u 32 (LocationSystemInfo_systemInfoMask v) &&
  LeapSecondSystemInfo_in_range (LocationSystemInfo_leapSecondSysInfo v).

Record GnssMeasurementsData : Type := MkGnssMeasurementsData {
  GnssMeasurementsData_flags : uint32_t; GnssMeasurementsData_svId : int16_t;
  GnssMeasurementsData_svType : enum; GnssMeasurementsData_timeOffsetNs : double;
  GnssMeasurementsData_stateMask : uint32_t; GnssMeasurementsData_receivedSvTimeNs : int64_t;
  GnssMeasurementsData_receivedSvTimeUncertaintyNs : int64_t;
  GnssMeasurementsData_carrierToNoiseDbHz : double;
  GnssMeasurementsData_pseudorangeRateMps : double;
  GnssMeasurementsData_pseudorangeRateUncertaintyMps : double;
  GnssMeasurementsData_adrStateMask : uint16_t; GnssMeasurementsData_adrMeters : double;
  GnssMeasurementsData_adrUncertaintyMeters : double;
  GnssMeasurementsData_carrierFrequencyHz : float; GnssMeasurementsData_carrierCycles : int64_t;
  GnssMeasurementsData_carrierPhase : double;
  GnssMeasurementsData_carrierPhaseUncertainty : double;
  GnssMeasurementsData_multipathIndicator : enum;
  GnssMeasurementsData_signalToNoiseRatioDb : double; GnssMeasurementsData_agcLevelDb : double;
  GnssMeasurementsData_codeType : enum; GnssMeasurementsData_otherCodeTypeName : list char;
  GnssMeasurementsData_basebandCarrierToNoiseDbHz : double;
  GnssMeasurementsData_gnssSignalType : uint32_t;
  GnssMeasurementsData_fullInterSignalBiasNs : double;
  GnssMeasurementsData_fullInterSignalBiasUncertaintyNs : double;
  GnssMeasurementsData_satelliteInterSignalBiasNs : double;
  GnssMeasurementsData_satelliteInterSignalBiasUncertaintyNs : double;
  GnssMeasurementsData_gloFrequency : int16_t; GnssMeasurementsData_cycleSlipCount : uint8_t }.
Definition GnssMeasurementsData_in_range (v : GnssMeasurementsData) : bool :=
  in_u 32 (GnssMeasurementsData_flags v) && in_s 16 (GnssMeasurementsData_svId v) &&
  in_u 32 (GnssMeasurementsData_stateMask v) &&
  in_s 64 (GnssMeasurementsData_receivedSvTimeNs v) &&
  in_s 64 (GnssMeasurementsData_receivedSvTimeUncertaintyNs v) &&
  in_u 16 (GnssMeasurementsData_adrStateMask v) &&
  in_s 64 (GnssMeasurementsData_carrierCycles v) &&
  (Z.of_nat (length (GnssMeasurementsData_otherCodeTypeName v)) =? GNSS_MAX_NAME_LENGTH) &&
  forallb (in_s 8) (GnssMeasurementsData_otherCodeTypeName v) &&
  in_u 32 (GnssMeasurementsData_gnssSignalType v) &&
  in_s 16 (GnssMeasurementsData_gloFrequency v) && in_u 8 (GnssMeasurementsData_cycleSlipCount v).

Record GnssMeasurementsSignalType : Type := MkGnssMeasurementsSignalType {
  GnssMeasurementsSignalType_svType : enum; GnssMeasurementsSignalType_carrierFrequencyHz : float;
  GnssMeasurementsSignalType_codeType : enum;
  GnssMeasurementsSignalType_otherCodeTypeName : list char }.
Definition GnssMeasurementsSignalType_in_range (v : GnssMeasurementsSignalType) : bool :=
  (Z.of_nat (length (GnssMeasurementsSignalType_otherCodeTypeName v)) =? GNSS_MAX_NAME_LENGTH) &&
  forallb (in_s 8) (GnssMeasurementsSignalType_otherCodeTypeName v).

Record GnssMeasurementsClock : Type := MkGnssMeasurementsClock {
  GnssMeasurementsClock_flags : uint32_t; GnssMeasurementsClock_leapSecond : int16_t;
  GnssMeasurementsClock_timeNs : int64_t; GnssMeasurementsClock_timeUncertaintyNs : double;
  GnssMeasurementsClock_fullBiasNs : int64_t; GnssMeasurementsClock_biasNs : double;
  GnssMeasurementsClock_biasUncertaintyNs : double; GnssMeasurementsClock_driftNsps : double;
  GnssMeasurementsClock_driftUncertaintyNsps : double;
  GnssMeasurementsClock_hwClockDiscontinuityCount : uint32_t;
  GnssMeasurementsClock_referenceSignalTypeForIsb : GnssMeasurementsSignalType;
  GnssMeasurementsClock_elapsedRealTime : uint64_t;
  GnssMeasurementsClock_elapsedRealTimeUnc : uint64_t }.
Definition GnssMeasurementsClock_in_range (v : GnssMeasurementsClock) : bool :=
  in_u 32 (GnssMeasurementsClock_flags v) && in_s 16 (GnssMeasurementsClock_leapSecond v) &&
  in_s 64 (GnssMeasurementsClock_timeNs v) && in_s 64 (GnssMeasurementsClock_fullBiasNs v) &&
  in_u 32 (GnssMeasurementsClock_hwClockDiscontinuityCount v) &&
  GnssMeasurementsSignalType_in_range (GnssMeasurementsClock_referenceSignalTypeForIsb v) &&
  in_u 64 (GnssMeasurementsClock_elapsedRealTime v) &&
  in_u 64 (GnssMeasurementsClock_elapsedRealTimeUnc v).

Record GnssMeasurementsNotification : Type := MkGnssMeasurementsNotification {
  GnssMeasurementsNotification_count : uint32_t;
  GnssMeasurementsNotification_measurements : list GnssMeasurementsData;
  GnssMeasurementsNotification_clock : GnssMeasurementsClock }.
Definition GnssMeasurementsNotification_in_range (v : GnssMeasurementsNotification) : bool :=
  in_u 32 (GnssMeasurementsNotification_count v) &&
  (Z.of_nat (length (GnssMeasurementsNotification_measurements v)) =? GNSS_MEASUREMENTS_MAX) &&
  forallb GnssMeasurementsData_in_range (GnssMeasurementsNotification_measurements v) &&
  GnssMeasurementsClock_in_range (GnssMeasurementsNotification_clock v).

Record GnssDataNotification : Type := MkGnssDataNotification {
  GnssDataNotification_gnssDataMask : list uint64_t; GnssDataNotification_jammerInd : list double;
  GnssDataNotification_agc : list double }.
Definition GnssDataNotification_in_range (v : GnssDataNotification) : bool :=
  (Z.of_nat (length (GnssDataNotification_gnssDataMask v)) =? GNSS_LOC_MAX_NUMBER_OF_SIGNAL_TYPES) &&
  forallb (in_u 64) (GnssDataNotification_gnssDataMask v) &&
  (Z.of_nat (length (GnssDataNotification_jammerInd v)) =? GNSS_LOC_MAX_NUMBER_OF_SIGNAL_TYPES) &&
  (Z.of_nat (length (GnssDataNotification_agc v)) =? GNSS_LOC_MAX_NUMBER_OF_SIGNAL_TYPES).

Record LocAPINmeaSerializedPayload : Type := MkLocAPINmeaSerializedPayload {
  LocAPINmeaSerializedPayload_timestamp : uint64_t; LocAPINmeaSerializedPayload_nmea : string }.
Definition LocAPINmeaSerializedPayload_in_range (v : LocAPINmeaSerializedPayload) : bool :=
  in_u 64 (LocAPINmeaSerializedPayload_timestamp v).

Record GnssSv : Type := MkGnssSv { GnssSv_svId : uint16_t; GnssSv_type : enum;
  GnssSv_cN0Dbhz : float; GnssSv_elevation : float; GnssSv_azimuth : float;
  GnssSv_gnssSvOptionsMask : uint16_t; GnssSv_carrierFrequencyHz : float;
  GnssSv_gnssSignalTypeMask : uint32_t; GnssSv_basebandCarrierToNoiseDbHz : double;
  GnssSv_gloFrequency : uint16_t }.
Definition GnssSv_in_range (v : GnssSv) : bool := in_u 16 (GnssSv_svId v) &&
  in_u 16 (GnssSv_gnssSvOptionsMask v) && in_u 32 (GnssSv_gnssSignalTypeMask v) &&
  in_u 16 (GnssSv_gloFrequency v).

Record GnssSvNotification : Type := MkGnssSvNotification { GnssSvNotification_count : uint32_t;
  GnssSvNotification_gnssSignalTypeMaskValid : bool; GnssSvNotification_gnssSvs : list GnssSv }.
Definition GnssSvNotification_in_range (v : GnssSvNotification) : bool :=
  in_u 32 (GnssSvNotification_count v) &&
  (Z.of_nat (length (GnssSvNotification_gnssSvs v)) =? GNSS_SV_MAX) &&
  forallb GnssSv_in_range (GnssSvNotification_gnssSvs v).
