(* ===== verification/PbMessages.v ===== *)
(** The messages of LocationApiDataTypes.proto and LocationApiMsg.proto that
    carry the structs of ApiStructs.v.  A message of proto3 is the record of its
    fields, named Message_field as in the proto files; a field that was never
    set, or a message in it, has its default value, [X_default]. *)

From Stdlib Require Import ZArith List String.
From S2P Require Import Prelude ApiStructs.
Import ListNotations.

Local Open Scope Z_scope.

Abbreviation uint32 := Z (only parsing).
Abbreviation int32 := Z (only parsing).
Abbreviation uint64 := Z (only parsing).
Abbreviation int64 := Z (only parsing).

Record PBGnssSvTypeConfig : Type := MkPBGnssSvTypeConfig {
  PBGnssSvTypeConfig_enabledSvTypesMask : uint64;
  PBGnssSvTypeConfig_blacklistedSvTypesMask : uint64 }.
Definition PBGnssSvTypeConfig_default : PBGnssSvTypeConfig := MkPBGnssSvTypeConfig 0 0.

Record PBGnssSvIdConfig : Type := MkPBGnssSvIdConfig {
  PBGnssSvIdConfig_gloBlacklistSvMask : uint64; PBGnssSvIdConfig_bdsBlacklistSvMask : uint64;
  PBGnssSvIdConfig_qzssBlacklistSvMask : uint64; PBGnssSvIdConfig_galBlacklistSvMask : uint64;
  PBGnssSvIdConfig_sbasBlacklistSvMask : uint64; PBGnssSvIdConfig_navicBlacklistSvMask : uint64 }.
Definition PBGnssSvIdConfig_default : PBGnssSvIdConfig := MkPBGnssSvIdConfig 0 0 0 0 0 0.

Record PBAidingData : Type := MkPBAidingData { PBAidingData_deleteAll : bool;
  PBAidingData_gnssAidingDataSvMask : uint32; PBAidingData_dreAidingDataMask : uint32;
  PBAidingData_posEngineMask : uint32 }.
Definition PBAidingData_default : PBAidingData := MkPBAidingData false 0 0 0.

Record PBLIALeverArmParams : Type := MkPBLIALeverArmParams {
  PBLIALeverArmParams_forwardOffsetMeters : float;
  PBLIALeverArmParams_sidewaysOffsetMeters : float; PBLIALeverArmParams_upOffsetMeters : float }.
Definition PBLIALeverArmParams_default : PBLIALeverArmParams := MkPBLIALeverArmParams 0 0 0.

Record PBLIALeverArmConfigInfo : Type := MkPBLIALeverArmConfigInfo {
  PBLIALeverArmConfigInfo_leverArmValidMask : uint32;
  PBLIALeverArmConfigInfo_gnssToVRP : PBLIALeverArmParams;
  PBLIALeverArmConfigInfo_drImuToGnss : PBLIALeverArmParams;
  PBLIALeverArmConfigInfo_veppImuToGnss : PBLIALeverArmParams }.
Definition PBLIALeverArmConfigInfo_default : PBLIALeverArmConfigInfo := MkPBLIALeverArmConfigInfo
  0 PBLIALeverArmParams_default PBLIALeverArmParams_default PBLIALeverArmParams_default.

Record PBLIABodyToSensorMountParams : Type := MkPBLIABodyToSensorMountParams {
  PBLIABodyToSensorMountParams_rollOffset : float; PBLIABodyToSensorMountParams_yawOffset : float;
  PBLIABodyToSensorMountParams_pitchOffset : float; PBLIABodyToSensorMountParams_offsetUnc : float }.
Definition PBLIABodyToSensorMountParams_default : PBLIABodyToSensorMountParams := MkPBLIABodyToSensorMountParams
  0 0 0 0.

Record PBDeadReckoningEngineConfig : Type := MkPBDeadReckoningEngineConfig {
  PBDeadReckoningEngineConfig_validMask : uint64;
  PBDeadReckoningEngineConfig_bodyToSensorMountParams : PBLIABodyToSensorMountParams;
  PBDeadReckoningEngineConfig_vehicleSpeedScaleFactor : float;
  PBDeadReckoningEngineConfig_vehicleSpeedScaleFactorUnc : float;
  PBDeadReckoningEngineConfig_gyroScaleFactor : float;
  PBDeadReckoningEngineConfig_gyroScaleFactorUnc : float }.
Definition PBDeadReckoningEngineConfig_default : PBDeadReckoningEngineConfig := MkPBDeadReckoningEngineConfig
  0 PBLIABodyToSensorMountParams_default 0 0 0 0.

Record PBLocationOptions : Type := MkPBLocationOptions { PBLocationOptions_minInterval : uint32;
  PBLocationOptions_minDistance : uint32; PBLocationOptions_mode : enum;
  PBLocationOptions_locReqEngTypeMask : uint32 }.
Definition PBLocationOptions_default : PBLocationOptions := MkPBLocationOptions 0 0 0 0.

Record PBGeofenceOption : Type := MkPBGeofenceOption { PBGeofenceOption_breachTypeMask : uint32;
  PBGeofenceOption_responsiveness : uint32; PBGeofenceOption_dwellTime : uint32 }.
Definition PBGeofenceOption_default : PBGeofenceOption := MkPBGeofenceOption 0 0 0.

Record PBGeofenceInfo : Type := MkPBGeofenceInfo { PBGeofenceInfo_latitude : double;
  PBGeofenceInfo_longitude : double; PBGeofenceInfo_radius : double }.
Definition PBGeofenceInfo_default : PBGeofenceInfo := MkPBGeofenceInfo 0 0 0.

Record PBGeofencePayload : Type := MkPBGeofencePayload { PBGeofencePayload_gfClientId : uint32;
  PBGeofencePayload_gfOption : PBGeofenceOption; PBGeofencePayload_gfInfo : PBGeofenceInfo }.
Definition PBGeofencePayload_default : PBGeofencePayload := MkPBGeofencePayload 0
  PBGeofenceOption_default PBGeofenceInfo_default.

Record PBGeofencesAddedReqPayload : Type := MkPBGeofencesAddedReqPayload {
  PBGeofencesAddedReqPayload_gfPayload : list PBGeofencePayload }.
Definition PBGeofencesAddedReqPayload_default : PBGeofencesAddedReqPayload := MkPBGeofencesAddedReqPayload
  [].

Record PBGeofencesReqClientIdPayload : Type := MkPBGeofencesReqClientIdPayload {
  PBGeofencesReqClientIdPayload_gfIds : list uint32 }.
Definition PBGeofencesReqClientIdPayload_default : PBGeofencesReqClientIdPayload := MkPBGeofencesReqClientIdPayload
  [].

Record PBGeofenceResponse : Type := MkPBGeofenceResponse { PBGeofenceResponse_clientId : uint32;
  PBGeofenceResponse_error : enum }.
Definition PBGeofenceResponse_default : PBGeofenceResponse := MkPBGeofenceResponse 0 0.

Record PBCollectiveResPayload : Type := MkPBCollectiveResPayload {
  PBCollectiveResPayload_resp : list PBGeofenceResponse }.
Definition PBCollectiveResPayload_default : PBCollectiveResPayload := MkPBCollectiveResPayload [].

Record PBGnssConfigRobustLocationVersion : Type := MkPBGnssConfigRobustLocationVersion {
  PBGnssConfigRobustLocationVersion_major : uint32;
  PBGnssConfigRobustLocationVersion_minor : uint32 }.
Definition PBGnssConfigRobustLocationVersion_default : PBGnssConfigRobustLocationVersion := MkPBGnssConfigRobustLocationVersion
  0 0.

Record PBGnssConfigRobustLocation : Type := MkPBGnssConfigRobustLocation {
  PBGnssConfigRobustLocation_validMask : uint32; PBGnssConfigRobustLocation_enabled : bool;
  PBGnssConfigRobustLocation_enabledForE911 : bool;
  PBGnssConfigRobustLocation_version : PBGnssConfigRobustLocationVersion }.
Definition PBGnssConfigRobustLocation_default : PBGnssConfigRobustLocation := MkPBGnssConfigRobustLocation
  0 false false PBGnssConfigRobustLocationVersion_default.

Record PBLocation : Type := MkPBLocation { PBLocation_flags : uint32;
  PBLocation_timestamp : uint64; PBLocation_latitude : double; PBLocation_longitude : double;
  PBLocation_altitude : double; PBLocation_speed : float; PBLocation_bearing : float;
  PBLocation_horizontalAccuracy : float; PBLocation_verticalAccuracy : float;
  PBLocation_speedAccuracy : float; PBLocation_bearingAccuracy : float;
  PBLocation_techMask : uint32 }.
Definition PBLocation_default : PBLocation := MkPBLocation 0 0 0 0 0 0 0 0 0 0 0 0.

Record PBLocAPIBatchNotification : Type := MkPBLocAPIBatchNotification {
  PBLocAPIBatchNotification_status : enum; PBLocAPIBatchNotification_location : list PBLocation }.
Definition PBLocAPIBatchNotification_default : PBLocAPIBatchNotification := MkPBLocAPIBatchNotification
  0 [].

Record PBLocAPIGeofenceBreachNotification : Type := MkPBLocAPIGeofenceBreachNotification {
  PBLocAPIGeofenceBreachNotification_timestamp : uint64;
  PBLocAPIGeofenceBreachNotification_breachtype : uint32;
  PBLocAPIGeofenceBreachNotification_location : PBLocation;
  PBLocAPIGeofenceBreachNotification_id : list uint32 }.
Definition PBLocAPIGeofenceBreachNotification_default : PBLocAPIGeofenceBreachNotification := MkPBLocAPIGeofenceBreachNotification
  0 0 PBLocation_default [].

Record PBGnssLocationSvUsedInPosition : Type := MkPBGnssLocationSvUsedInPosition {
  PBGnssLocationSvUsedInPosition_gpsSvUsedIdsMask : uint64;
  PBGnssLocationSvUsedInPosition_gloSvUsedIdsMask : uint64;
  PBGnssLocationSvUsedInPosition_galSvUsedIdsMask : uint64;
  PBGnssLocationSvUsedInPosition_bdsSvUsedIdsMask : uint64;
  PBGnssLocationSvUsedInPosition_qzssSvUsedIdsMask : uint64;
  PBGnssLocationSvUsedInPosition_navicSvUsedIdsMask : uint64 }.
Definition PBGnssLocationSvUsedInPosition_default : PBGnssLocationSvUsedInPosition := MkPBGnssLocationSvUsedInPosition
  0 0 0 0 0 0.

Record PBLocApiGnssLocationPositionDynamics : Type := MkPBLocApiGnssLocationPositionDynamics {
  PBLocApiGnssLocationPositionDynamics_bodyFrameDataMask : uint32;
  PBLocApiGnssLocationPositionDynamics_longAccel : float;
  PBLocApiGnssLocationPositionDynamics_latAccel : float;
  PBLocApiGnssLocationPositionDynamics_vertAccel : float;
  PBLocApiGnssLocationPositionDynamics_longAccelUnc : float;
  PBLocApiGnssLocationPositionDynamics_latAccelUnc : float;
  PBLocApiGnssLocationPositionDynamics_vertAccelUnc : float;
  PBLocApiGnssLocationPositionDynamics_pitch : float;
  PBLocApiGnssLocationPositionDynamics_pitchUnc : float;
  PBLocApiGnssLocationPositionDynamics_pitchRate : float;
  PBLocApiGnssLocationPositionDynamics_pitchRateUnc : float;
  PBLocApiGnssLocationPositionDynamics_roll : float;
  PBLocApiGnssLocationPositionDynamics_rollUnc : float;
  PBLocApiGnssLocationPositionDynamics_rollRate : float;
  PBLocApiGnssLocationPositionDynamics_rollRateUnc : float;
  PBLocApiGnssLocationPositionDynamics_yaw : float;
  PBLocApiGnssLocationPositionDynamics_yawUnc : float;
  PBLocApiGnssLocationPositionDynamics_yawRate : float;
  PBLocApiGnssLocationPositionDynamics_yawRateUnc : float }.
Definition PBLocApiGnssLocationPositionDynamics_default : PBLocApiGnssLocationPositionDynamics := MkPBLocApiGnssLocationPositionDynamics
  0 0 0 0 0 0 0 0 0 0 0 0 0 0 0 0 0 0 0.

Record PBLocApiGnssSystemTimeStructType : Type := MkPBLocApiGnssSystemTimeStructType {
  PBLocApiGnssSystemTimeStructType_validityMask : uint32;
  PBLocApiGnssSystemTimeStructType_systemWeek : uint32;
  PBLocApiGnssSystemTimeStructType_systemMsec : uint32;
  PBLocApiGnssSystemTimeStructType_systemClkTimeBiasMs : float;
  PBLocApiGnssSystemTimeStructType_systemClkTimeBiasUncMs : float;
  PBLocApiGnssSystemTimeStructType_refFCount : uint32;
  PBLocApiGnssSystemTimeStructType_numClockResets : uint32 }.
Definition PBLocApiGnssSystemTimeStructType_default : PBLocApiGnssSystemTimeStructType := MkPBLocApiGnssSystemTimeStructType
  0 0 0 0 0 0 0.

Record PBLocApiGnssGloTimeStructType : Type := MkPBLocApiGnssGloTimeStructType {
  PBLocApiGnssGloTimeStructType_validityMask : uint32;
  PBLocApiGnssGloTimeStructType_gloFourYear : uint32;
  PBLocApiGnssGloTimeStructType_gloDays : uint32; PBLocApiGnssGloTimeStructType_gloMsec : uint32;
  PBLocApiGnssGloTimeStructType_gloClkTimeBias : float;
  PBLocApiGnssGloTimeStructType_gloClkTimeUncMs : float;
  PBLocApiGnssGloTimeStructType_refFCount : uint32;
  PBLocApiGnssGloTimeStructType_numClockResets : uint32 }.
Definition PBLocApiGnssGloTimeStructType_default : PBLocApiGnssGloTimeStructType := MkPBLocApiGnssGloTimeStructType
  0 0 0 0 0 0 0 0.

(** [oneof sysTimeUnion] *)
Inductive PBLocApiSystemTimeStructUnion : Type :=
  | sysTimeUnion_not_set
  | gpsSystemTime (t : PBLocApiGnssSystemTimeStructType)
  | galSystemTime (t : PBLocApiGnssSystemTimeStructType)
  | bdsSystemTime (t : PBLocApiGnssSystemTimeStructType)
  | qzssSystemTime (t : PBLocApiGnssSystemTimeStructType)
  | gloSystemTime (t : PBLocApiGnssGloTimeStructType)
  | navicSystemTime (t : PBLocApiGnssSystemTimeStructType).
Definition PBLocApiSystemTimeStructUnion_default : PBLocApiSystemTimeStructUnion := sysTimeUnion_not_set.

Record PBLocApiGnssSystemTime : Type := MkPBLocApiGnssSystemTime {
  PBLocApiGnssSystemTime_gnssSystemTimeSrc : enum;
  PBLocApiGnssSystemTime_u : PBLocApiSystemTimeStructUnion }.
Definition PBLocApiGnssSystemTime_default : PBLocApiGnssSystemTime := MkPBLocApiGnssSystemTime 0
  PBLocApiSystemTimeStructUnion_default.

Record PBGnssMeasUsageInfo : Type := MkPBGnssMeasUsageInfo {
  PBGnssMeasUsageInfo_gnssConstellation : enum; PBGnssMeasUsageInfo_gnssSvId : uint32;
  PBGnssMeasUsageInfo_gnssSignalType : uint32 }.
Definition PBGnssMeasUsageInfo_default : PBGnssMeasUsageInfo := MkPBGnssMeasUsageInfo 0 0 0.

Record PBLLAInfo : Type := MkPBLLAInfo { PBLLAInfo_latitude : double;
  PBLLAInfo_longitude : double; PBLLAInfo_altitude : float }.
Definition PBLLAInfo_default : PBLLAInfo := MkPBLLAInfo 0 0 0.

Record PBGnssLocationInfoNotification : Type := MkPBGnssLocationInfoNotification {
  PBGnssLocationInfoNotification_location : PBLocation;
  PBGnssLocationInfoNotification_flags : uint32;
  PBGnssLocationInfoNotification_altitudeMeanSeaLevel : float;
  PBGnssLocationInfoNotification_pdop : float; PBGnssLocationInfoNotification_hdop : float;
  PBGnssLocationInfoNotification_vdop : float; PBGnssLocationInfoNotification_gdop : float;
  PBGnssLocationInfoNotification_tdop : float;
  PBGnssLocationInfoNotification_magneticDeviation : float;
  PBGnssLocationInfoNotification_horReliability : enum;
  PBGnssLocationInfoNotification_verReliability : enum;
  PBGnssLocationInfoNotification_horUncEllipseSemiMajor : float;
  PBGnssLocationInfoNotification_horUncEllipseSemiMinor : float;
  PBGnssLocationInfoNotification_horUncEllipseOrientAzimuth : float;
  PBGnssLocationInfoNotification_northStdDeviation : float;
  PBGnssLocationInfoNotification_eastStdDeviation : float;
  PBGnssLocationInfoNotification_northVelocity : float;
  PBGnssLocationInfoNotification_eastVelocity : float;
  PBGnssLocationInfoNotification_upVelocity : float;
  PBGnssLocationInfoNotification_northVelocityStdDeviation : float;
  PBGnssLocationInfoNotification_eastVelocityStdDeviation : float;
  PBGnssLocationInfoNotification_upVelocityStdDeviation : float;
  PBGnssLocationInfoNotification_numSvUsedInPosition : uint32;
  PBGnssLocationInfoNotification_svUsedInPosition : PBGnssLocationSvUsedInPosition;
  PBGnssLocationInfoNotification_navSolutionMask : uint32;
  PBGnssLocationInfoNotification_bodyFrameData : PBLocApiGnssLocationPositionDynamics;
  PBGnssLocationInfoNotification_gnssSystemTime : PBLocApiGnssSystemTime;
  PBGnssLocationInfoNotification_numOfMeasReceived : uint32;
  PBGnssLocationInfoNotification_measUsageInfo : list PBGnssMeasUsageInfo;
  PBGnssLocationInfoNotification_leapSeconds : uint32;
  PBGnssLocationInfoNotification_timeUncMs : float;
  PBGnssLocationInfoNotification_calibrationConfidence : uint32;
  PBGnssLocationInfoNotification_calibrationStatus : uint32;
  PBGnssLocationInfoNotification_locOutputEngType : enum;
  PBGnssLocationInfoNotification_locOutputEngMask : uint32;
  PBGnssLocationInfoNotification_conformityIndex : float;
  PBGnssLocationInfoNotification_llaVRPBased : PBLLAInfo;
  PBGnssLocationInfoNotification_enuVelocityVRPBased : list float;
  PBGnssLocationInfoNotification_drSolutionStatusMask : uint32;
  PBGnssLocationInfoNotification_extFlags : uint32;
  PBGnssLocationInfoNotification_altitudeAssumed : bool;
  PBGnssLocationInfoNotification_sessionStatus : enum }.
Definition PBGnssLocationInfoNotification_default : PBGnssLocationInfoNotification := MkPBGnssLocationInfoNotification
  PBLocation_default 0 0 0 0 0 0 0 0 0 0 0 0 0 0 0 0 0 0 0 0 0 0
  PBGnssLocationSvUsedInPosition_default 0 PBLocApiGnssLocationPositionDynamics_default
  PBLocApiGnssSystemTime_default 0 [] 0 0 0 0 0 0 0 PBLLAInfo_default [] 0 0 false 0.

Record PBLeapSecondChangeInfo : Type := MkPBLeapSecondChangeInfo {
  PBLeapSecondChangeInfo_gpsTimestampLsChange : PBLocApiGnssSystemTimeStructType;
  PBLeapSecondChangeInfo_leapSecondsBeforeChange : uint32;
  PBLeapSecondChangeInfo_leapSecondsAfterChange : uint32 }.
Definition PBLeapSecondChangeInfo_default : PBLeapSecondChangeInfo := MkPBLeapSecondChangeInfo
  PBLocApiGnssSystemTimeStructType_default 0 0.

Record PBLeapSecondSystemInfo : Type := MkPBLeapSecondSystemInfo {
  PBLeapSecondSystemInfo_leapSecondInfoMask : uint32;
  PBLeapSecondSystemInfo_leapSecondCurrent : uint32;
  PBLeapSecondSystemInfo_leapSecondChangeInfo : PBLeapSecondChangeInfo }.
Definition PBLeapSecondSystemInfo_default : PBLeapSecondSystemInfo := MkPBLeapSecondSystemInfo 0 0
  PBLeapSecondChangeInfo_default.

Record PBLocationSystemInfo : Type := MkPBLocationSystemInfo {
  PBLocationSystemInfo_systemInfoMask : uint32;
  PBLocationSystemInfo_leapSecondSysInfo : PBLeapSecondSystemInfo }.
Definition PBLocationSystemInfo_default : PBLocationSystemInfo := MkPBLocationSystemInfo 0
  PBLeapSecondSystemInfo_default.

Record PBGnssMeasurementsData : Type := MkPBGnssMeasurementsData {
  PBGnssMeasurementsData_flags : uint32; PBGnssMeasurementsData_svId : int32;
  PBGnssMeasurementsData_svType : enum; PBGnssMeasurementsData_timeOffsetNs : double;
  PBGnssMeasurementsData_stateMask : uint32; PBGnssMeasurementsData_receivedSvTimeNs : int64;
  PBGnssMeasurementsData_receivedSvTimeUncertaintyNs : int64;
  PBGnssMeasurementsData_carrierToNoiseDbHz : double;
  PBGnssMeasurementsData_pseudorangeRateMps : double;
  PBGnssMeasurementsData_pseudorangeRateUncertaintyMps : double;
  PBGnssMeasurementsData_adrStateMask : uint32; PBGnssMeasurementsData_adrMeters : double;
  PBGnssMeasurementsData_adrUncertaintyMeters : double;
  PBGnssMeasurementsData_carrierFrequencyHz : float; PBGnssMeasurementsData_carrierCycles : int64;
  PBGnssMeasurementsData_carrierPhase : double;
  PBGnssMeasurementsData_carrierPhaseUncertainty : double;
  PBGnssMeasurementsData_multipathIndicator : enum;
  PBGnssMeasurementsData_signalToNoiseRatioDb : double;
  PBGnssMeasurementsData_agcLevelDb : double;
  PBGnssMeasurementsData_basebandCarrierToNoiseDbHz : double;
  PBGnssMeasurementsData_gnssSignalType : uint32;
  PBGnssMeasurementsData_fullInterSignalBiasNs : double;
  PBGnssMeasurementsData_fullInterSignalBiasUncertaintyNs : double;
  PBGnssMeasurementsData_cycleSlipCount : uint32 }.
Definition PBGnssMeasurementsData_default : PBGnssMeasurementsData := MkPBGnssMeasurementsData 0 0
  0 0 0 0 0 0 0 0 0 0 0 0 0 0 0 0 0 0 0 0 0 0 0.

Record PBGnssMeasurementsClock : Type := MkPBGnssMeasurementsClock {
  PBGnssMeasurementsClock_flags : uint32; PBGnssMeasurementsClock_leapSecond : int32;
  PBGnssMeasurementsClock_timeNs : int64; PBGnssMeasurementsClock_timeUncertaintyNs : double;
  PBGnssMeasurementsClock_fullBiasNs : int64; PBGnssMeasurementsClock_biasNs : double;
  PBGnssMeasurementsClock_biasUncertaintyNs : double; PBGnssMeasurementsClock_driftNsps : double;
  PBGnssMeasurementsClock_driftUncertaintyNsps : double;
  PBGnssMeasurementsClock_hwClockDiscontinuityCount : uint32 }.
Definition PBGnssMeasurementsClock_default : PBGnssMeasurementsClock := MkPBGnssMeasurementsClock
  0 0 0 0 0 0 0 0 0 0.

Record PBGnssMeasurementsNotification : Type := MkPBGnssMeasurementsNotification {
  PBGnssMeasurementsNotification_measurements : list PBGnssMeasurementsData;
  PBGnssMeasurementsNotification_clock : PBGnssMeasurementsClock }.
Definition PBGnssMeasurementsNotification_default : PBGnssMeasurementsNotification := MkPBGnssMeasurementsNotification
  [] PBGnssMeasurementsClock_default.

Record PBGnssDataNotification : Type := MkPBGnssDataNotification {
  PBGnssDataNotification_numberSignalTypes : uint32;
  PBGnssDataNotification_gnssDataMask : list uint64;
  PBGnssDataNotification_jammerInd : list double; PBGnssDataNotification_agc : list double }.
Definition PBGnssDataNotification_default : PBGnssDataNotification := MkPBGnssDataNotification 0
  [] [] [].

Record PBLocAPINmeaSerializedPayload : Type := MkPBLocAPINmeaSerializedPayload {
  PBLocAPINmeaSerializedPayload_timestamp : uint64; PBLocAPINmeaSerializedPayload_nmea : string }.
Definition PBLocAPINmeaSerializedPayload_default : PBLocAPINmeaSerializedPayload := MkPBLocAPINmeaSerializedPayload
  0 EmptyString.

Record PBLocApiGnssSv : Type := MkPBLocApiGnssSv { PBLocApiGnssSv_svId : uint32;
  PBLocApiGnssSv_type : enum; PBLocApiGnssSv_cN0Dbhz : float; PBLocApiGnssSv_elevation : float;
  PBLocApiGnssSv_azimuth : float; PBLocApiGnssSv_gnssSvOptionsMask : uint32;
  PBLocApiGnssSv_carrierFrequencyHz : float; PBLocApiGnssSv_gnssSignalTypeMask : uint32;
  PBLocApiGnssSv_basebandCarrierToNoiseDbHz : double; PBLocApiGnssSv_gloFrequency : uint32 }.
Definition PBLocApiGnssSv_default : PBLocApiGnssSv := MkPBLocApiGnssSv 0 0 0 0 0 0 0 0 0 0.

Record PBLocApiGnssSvNotification : Type := MkPBLocApiGnssSvNotification {
  PBLocApiGnssSvNotification_gnssSignalTypeMaskValid : bool;
  PBLocApiGnssSvNotification_gnssSvs : list PBLocApiGnssSv }.
Definition PBLocApiGnssSvNotification_default : PBLocApiGnssSvNotification := MkPBLocApiGnssSvNotification
  false [].
