(* ===== verification/PbMsgConv.v ===== *)
(** LocationApiPbMsgConv.cpp: the conversions between the structs of the API and
    the messages of the protocol, one definition per function.  The last
    argument is the message or struct that the function fills in, with the
    content it has before, for a field that is not assigned keeps it and a
    repeated field grows.  Results are [None] where the code reads or writes
    outside of an array.  Pointers are valid and [mutable_] and [add_] of
    protobuf never return null, so the branches that return 1 do not occur. *)

From stdpp Require Import list.
From S2P Require Import Prelude LocationEnums PbConversions ApiStructs PbMessages.

Local Open Scope Z_scope.

(** [for (i = i0; i < i0 + n; i++) body;] *)
Fixpoint for_ {A} (n i : nat) (body : nat -> A -> option A) (a : A) : option A :=
  match n with
  | O => Some a
  | S n => a ← body i a; for_ n (S i) body a
  end.
(** An assignment to an element of an array, and [add_] of a repeated field. *)
Definition write_at {A} (l : list A) (i : nat) (f : A -> A) : option (list A) :=
  x ← l !! i; Some (<[i := f x]> l).
Definition add {A} (l : list A) (x : A) : list A := l ++ [x].

Definition convertGnssSvTypeConfigToPB (gnssSvTypeCfg : GnssSvTypeConfig)
    (pbGnssSvTypeCfg : PBGnssSvTypeConfig) : PBGnssSvTypeConfig := {|
  PBGnssSvTypeConfig_enabledSvTypesMask := GnssSvTypeConfig_enabledSvTypesMask gnssSvTypeCfg;
  PBGnssSvTypeConfig_blacklistedSvTypesMask :=
    GnssSvTypeConfig_blacklistedSvTypesMask gnssSvTypeCfg |}.

Definition convertGnssSvIdConfigToPB (gnssSvIdCfg : GnssSvIdConfig)
    (pbGnssSvIdCfg : PBGnssSvIdConfig) : PBGnssSvIdConfig := {|
  PBGnssSvIdConfig_gloBlacklistSvMask := GnssSvIdConfig_gloBlacklistSvMask gnssSvIdCfg;
  PBGnssSvIdConfig_bdsBlacklistSvMask := GnssSvIdConfig_bdsBlacklistSvMask gnssSvIdCfg;
  PBGnssSvIdConfig_qzssBlacklistSvMask := GnssSvIdConfig_qzssBlacklistSvMask gnssSvIdCfg;
  PBGnssSvIdConfig_galBlacklistSvMask := GnssSvIdConfig_galBlacklistSvMask gnssSvIdCfg;
  PBGnssSvIdConfig_sbasBlacklistSvMask := GnssSvIdConfig_sbasBlacklistSvMask gnssSvIdCfg;
  PBGnssSvIdConfig_navicBlacklistSvMask := GnssSvIdConfig_navicBlacklistSvMask gnssSvIdCfg |}.

Definition convertGnssAidingDataToPB (gnssAidData : GnssAidingData)
    (pbGnssAidData : PBAidingData) : PBAidingData := {|
  PBAidingData_deleteAll := GnssAidingData_deleteAll gnssAidData;
  PBAidingData_gnssAidingDataSvMask :=
    getPBMaskForGnssAidingDataSvMask (GnssAidingDataSv_svMask (GnssAidingData_sv gnssAidData));
  PBAidingData_dreAidingDataMask :=
    getPBMaskForDrEngineAidingDataMask (GnssAidingData_dreAidingDataMask gnssAidData);
  PBAidingData_posEngineMask :=
    getPBMaskForPositioningEngineMask (GnssAidingData_posEngineMask gnssAidData) |}.

Definition convertLeverArmParamsToPB (leverArmParams : LeverArmParams)
    (pbLeverArmParams : PBLIALeverArmParams) : PBLIALeverArmParams := {|
  PBLIALeverArmParams_forwardOffsetMeters := LeverArmParams_forwardOffsetMeters leverArmParams;
  PBLIALeverArmParams_sidewaysOffsetMeters := LeverArmParams_sidewaysOffsetMeters leverArmParams;
  PBLIALeverArmParams_upOffsetMeters := LeverArmParams_upOffsetMeters leverArmParams |}.

Definition convertLeverArmConfigInfoToPB (leverArmCfgInfo : LeverArmConfigInfo)
    (pbLeverArmCfgInfo : PBLIALeverArmConfigInfo) : PBLIALeverArmConfigInfo := {|
  PBLIALeverArmConfigInfo_leverArmValidMask :=
    getPBMaskForLeverArmTypeMask (LeverArmConfigInfo_leverArmValidMask leverArmCfgInfo);
  PBLIALeverArmConfigInfo_gnssToVRP :=
    convertLeverArmParamsToPB (LeverArmConfigInfo_gnssToVRP leverArmCfgInfo)
      (PBLIALeverArmConfigInfo_gnssToVRP pbLeverArmCfgInfo);
  PBLIALeverArmConfigInfo_drImuToGnss :=
    convertLeverArmParamsToPB (LeverArmConfigInfo_drImuToGnss leverArmCfgInfo)
      (PBLIALeverArmConfigInfo_drImuToGnss pbLeverArmCfgInfo);
  PBLIALeverArmConfigInfo_veppImuToGnss :=
    convertLeverArmParamsToPB (LeverArmConfigInfo_veppImuToGnss leverArmCfgInfo)
      (PBLIALeverArmConfigInfo_veppImuToGnss pbLeverArmCfgInfo) |}.

Definition convertBodyToSensorMountParamsToPB (bodyToSensorMntParams : BodyToSensorMountParams)
    (pbBodyToSensorMntParams : PBLIABodyToSensorMountParams) : PBLIABodyToSensorMountParams := {|
  PBLIABodyToSensorMountParams_rollOffset :=
    BodyToSensorMountParams_rollOffset bodyToSensorMntParams;
  PBLIABodyToSensorMountParams_yawOffset := BodyToSensorMountParams_yawOffset bodyToSensorMntParams;
  PBLIABodyToSensorMountParams_pitchOffset :=
    BodyToSensorMountParams_pitchOffset bodyToSensorMntParams;
  PBLIABodyToSensorMountParams_offsetUnc :=
    BodyToSensorMountParams_offsetUnc bodyToSensorMntParams |}.

Definition convertDeadReckoningEngineConfigToPB (drEngConfig : DeadReckoningEngineConfig)
    (pbDrEngConfig : PBDeadReckoningEngineConfig) : PBDeadReckoningEngineConfig := {|
  PBDeadReckoningEngineConfig_validMask :=
    getPBMaskForDeadReckoningEngineConfigValidMask
      (DeadReckoningEngineConfig_validMask drEngConfig);
  PBDeadReckoningEngineConfig_bodyToSensorMountParams :=
    convertBodyToSensorMountParamsToPB
      (DeadReckoningEngineConfig_bodyToSensorMountParams drEngConfig)
      (PBDeadReckoningEngineConfig_bodyToSensorMountParams pbDrEngConfig);
  PBDeadReckoningEngineConfig_vehicleSpeedScaleFactor :=
    DeadReckoningEngineConfig_vehicleSpeedScaleFactor drEngConfig;
  PBDeadReckoningEngineConfig_vehicleSpeedScaleFactorUnc :=
    DeadReckoningEngineConfig_vehicleSpeedScaleFactorUnc drEngConfig;
  PBDeadReckoningEngineConfig_gyroScaleFactor :=
    DeadReckoningEngineConfig_gyroScaleFactor drEngConfig;
  PBDeadReckoningEngineConfig_gyroScaleFactorUnc :=
    DeadReckoningEngineConfig_gyroScaleFactorUnc drEngConfig |}.

Definition convertLocationOptionsToPB (locOpt : LocationOptions)
    (pbLocOpt : PBLocationOptions) : PBLocationOptions := {|
  PBLocationOptions_minInterval := LocationOptions_minInterval locOpt;
  PBLocationOptions_minDistance := LocationOptions_minDistance locOpt;
  PBLocationOptions_mode := getPBEnumForGnssSuplMode (LocationOptions_mode locOpt);
  PBLocationOptions_locReqEngTypeMask :=
    getPBMaskForLocReqEngineTypeMask (LocationOptions_locReqEngTypeMask locOpt) |}.

Definition convertGeofenceInfoToPB (gfInfo : GeofenceInfo)
    (pbGfInfo : PBGeofenceInfo) : PBGeofenceInfo := {|
  PBGeofenceInfo_latitude := GeofenceInfo_latitude gfInfo;
  PBGeofenceInfo_longitude := GeofenceInfo_longitude gfInfo;
  PBGeofenceInfo_radius := GeofenceInfo_radius gfInfo |}.

Definition convertGeofenceOptionToPB (gfOpt : GeofenceOption)
    (pbGfOpt : PBGeofenceOption) : PBGeofenceOption := {|
  PBGeofenceOption_breachTypeMask :=
    getPBMaskForGeofenceBreachTypeMask (GeofenceOption_breachTypeMask gfOpt);
  PBGeofenceOption_responsiveness := GeofenceOption_responsiveness gfOpt;
  PBGeofenceOption_dwellTime := GeofenceOption_dwellTime gfOpt |}.

Definition convertGfAddedReqPayloadToPB (gfAddReqPayload : GeofencesAddedReqPayload)
    (pbGfAddReqPayload : PBGeofencesAddedReqPayload) : option PBGeofencesAddedReqPayload :=
  gfPayload ← for_ (Z.to_nat (GeofencesAddedReqPayload_count gfAddReqPayload)) 0 (fun i gfPayload =>
    p ← GeofencesAddedReqPayload_gfPayload gfAddReqPayload !! i;
    let gfPload := PBGeofencePayload_default in
    Some (add gfPayload {|
      PBGeofencePayload_gfClientId := GeofencePayload_gfClientId p;
      PBGeofencePayload_gfOption :=
        convertGeofenceOptionToPB (GeofencePayload_gfOption p)
            (PBGeofencePayload_gfOption gfPload);
      PBGeofencePayload_gfInfo :=
        convertGeofenceInfoToPB (GeofencePayload_gfInfo p) (PBGeofencePayload_gfInfo gfPload) |}))
    (PBGeofencesAddedReqPayload_gfPayload pbGfAddReqPayload);
  Some {| PBGeofencesAddedReqPayload_gfPayload := gfPayload |}.

Definition convertGfReqClientIdPayloadToPB (gfReqClntIdPayload : GeofencesReqClientIdPayload)
    (pbGfReqClntIdPayload : PBGeofencesReqClientIdPayload)
    : option PBGeofencesReqClientIdPayload :=
  let gfCount := GeofencesReqClientIdPayload_count gfReqClntIdPayload in
  gfIds ← for_ (Z.to_nat gfCount) 0 (fun i gfIds =>
    id ← GeofencesReqClientIdPayload_gfIds gfReqClntIdPayload !! i;
    Some (add gfIds id)) (PBGeofencesReqClientIdPayload_gfIds pbGfReqClntIdPayload);
  Some {| PBGeofencesReqClientIdPayload_gfIds := gfIds |}.

Definition convertCollectiveResPayloadToPB (collctResPload : CollectiveResPayload)
    (pbCollctResPload : PBCollectiveResPayload) : option PBCollectiveResPayload :=
  resp ← for_ (Z.to_nat (CollectiveResPayload_count collctResPload)) 0 (fun i resp =>
    r ← CollectiveResPayload_resp collctResPload !! i;
    Some (add resp {|
      PBGeofenceResponse_clientId := GeofenceResponse_clientId r;
      PBGeofenceResponse_error := getPBEnumForLocationError (GeofenceResponse_error r) |}))
    (PBCollectiveResPayload_resp pbCollctResPload);
  Some {| PBCollectiveResPayload_resp := resp |}.

Definition convertGnssConfigRobustLocationToPB (gnssCfgRbstLoc : GnssConfigRobustLocation)
    (pbGnssCfgRbstLoc : PBGnssConfigRobustLocation) : PBGnssConfigRobustLocation := {|
  PBGnssConfigRobustLocation_validMask :=
    getPBMaskForGnssCfgRobustLocValidMask (GnssConfigRobustLocation_validMask gnssCfgRbstLoc);
  PBGnssConfigRobustLocation_enabled := GnssConfigRobustLocation_enabled gnssCfgRbstLoc;
  PBGnssConfigRobustLocation_enabledForE911 :=
    GnssConfigRobustLocation_enabledForE911 gnssCfgRbstLoc;
  PBGnssConfigRobustLocation_version := {|
    PBGnssConfigRobustLocationVersion_major :=
      GnssConfigRobustLocationVersion_major (GnssConfigRobustLocation_version gnssCfgRbstLoc);
    PBGnssConfigRobustLocationVersion_minor :=
      GnssConfigRobustLocationVersion_minor (GnssConfigRobustLocation_version gnssCfgRbstLoc) |} |}.

Definition convertLocationToPB (location : Location) (pbLocation : PBLocation) : PBLocation := {|
  PBLocation_flags := getPBMaskForLocationFlagsMask (Location_flags location);
  PBLocation_timestamp := Location_timestamp location;
  PBLocation_latitude := Location_latitude location;
  PBLocation_longitude := Location_longitude location;
  PBLocation_altitude := Location_altitude location;
  PBLocation_speed := Location_speed location;
  PBLocation_bearing := Location_bearing location;
  PBLocation_horizontalAccuracy := Location_accuracy location;
  PBLocation_verticalAccuracy := Location_verticalAccuracy location;
  PBLocation_speedAccuracy := Location_speedAccuracy location;
  PBLocation_bearingAccuracy := Location_bearingAccuracy location;
  PBLocation_techMask := getPBMaskForLocationTechnologyMask (Location_techMask location) |}.

Definition convertLocAPIBatchingNotifMsgToPB (locApiBatchNotifMsg : LocAPIBatchNotification)
    (pbLocApiBatchNotifMsg : PBLocAPIBatchNotification) : option PBLocAPIBatchNotification :=
  location ← for_ (Z.to_nat (LocAPIBatchNotification_count locApiBatchNotifMsg)) 0
    (fun i location =>
    l ← LocAPIBatchNotification_location locApiBatchNotifMsg !! i;
    Some (add location (convertLocationToPB l PBLocation_default)))
    (PBLocAPIBatchNotification_location pbLocApiBatchNotifMsg);
  Some {|
    PBLocAPIBatchNotification_status :=
      getPBEnumForBatchingStatus (LocAPIBatchNotification_status locApiBatchNotifMsg);
    PBLocAPIBatchNotification_location := location |}.

Definition convertLocAPIGfBreachNotifToPB (locApiGfBreachNotif : LocAPIGeofenceBreachNotification)
    (pbLocApiGfBreachNotif : PBLocAPIGeofenceBreachNotification) :
    option PBLocAPIGeofenceBreachNotification :=
  id ← for_ (Z.to_nat (LocAPIGeofenceBreachNotification_count locApiGfBreachNotif)) 0 (fun i id =>
    x ← LocAPIGeofenceBreachNotification_id locApiGfBreachNotif !! i;
    Some (add id x)) (PBLocAPIGeofenceBreachNotification_id pbLocApiGfBreachNotif);
  Some {|
    PBLocAPIGeofenceBreachNotification_timestamp :=
      LocAPIGeofenceBreachNotification_timestamp locApiGfBreachNotif;
    PBLocAPIGeofenceBreachNotification_breachtype :=
      LocAPIGeofenceBreachNotification_type locApiGfBreachNotif;
    PBLocAPIGeofenceBreachNotification_location :=
      convertLocationToPB (LocAPIGeofenceBreachNotification_location locApiGfBreachNotif)
        (PBLocAPIGeofenceBreachNotification_location pbLocApiGfBreachNotif);
    PBLocAPIGeofenceBreachNotification_id := id |}.

Definition convertGnssLocSvUsedInPosToPB (gnssLocSvUsedInPos : GnssLocationSvUsedInPosition)
    (pbGnssLocSvUsedInPos : PBGnssLocationSvUsedInPosition) : PBGnssLocationSvUsedInPosition := {|
  PBGnssLocationSvUsedInPosition_gpsSvUsedIdsMask :=
    GnssLocationSvUsedInPosition_gpsSvUsedIdsMask gnssLocSvUsedInPos;
  PBGnssLocationSvUsedInPosition_gloSvUsedIdsMask :=
    GnssLocationSvUsedInPosition_gloSvUsedIdsMask gnssLocSvUsedInPos;
  PBGnssLocationSvUsedInPosition_galSvUsedIdsMask :=
    GnssLocationSvUsedInPosition_galSvUsedIdsMask gnssLocSvUsedInPos;
  PBGnssLocationSvUsedInPosition_bdsSvUsedIdsMask :=
    GnssLocationSvUsedInPosition_bdsSvUsedIdsMask gnssLocSvUsedInPos;
  PBGnssLocationSvUsedInPosition_qzssSvUsedIdsMask :=
    GnssLocationSvUsedInPosition_qzssSvUsedIdsMask gnssLocSvUsedInPos;
  PBGnssLocationSvUsedInPosition_navicSvUsedIdsMask :=
    GnssLocationSvUsedInPosition_navicSvUsedIdsMask gnssLocSvUsedInPos |}.

Definition convertGnssSystemTimeStructTypeToPB (gnssSysTimeStructType : GnssSystemTimeStructType)
    (pbGnssSysTimeStructType : PBLocApiGnssSystemTimeStructType)
    : PBLocApiGnssSystemTimeStructType := {|
  PBLocApiGnssSystemTimeStructType_validityMask :=
    getPBMaskForGnssSystemTimeStructTypeFlags
      (GnssSystemTimeStructType_validityMask gnssSysTimeStructType);
  PBLocApiGnssSystemTimeStructType_systemWeek :=
    GnssSystemTimeStructType_systemWeek gnssSysTimeStructType;
  PBLocApiGnssSystemTimeStructType_systemMsec :=
    GnssSystemTimeStructType_systemMsec gnssSysTimeStructType;
  PBLocApiGnssSystemTimeStructType_systemClkTimeBiasMs :=
    GnssSystemTimeStructType_systemClkTimeBias gnssSysTimeStructType;
  PBLocApiGnssSystemTimeStructType_systemClkTimeBiasUncMs :=
    GnssSystemTimeStructType_systemClkTimeUncMs gnssSysTimeStructType;
  PBLocApiGnssSystemTimeStructType_refFCount :=
    GnssSystemTimeStructType_refFCount gnssSysTimeStructType;
  PBLocApiGnssSystemTimeStructType_numClockResets :=
    GnssSystemTimeStructType_numClockResets gnssSysTimeStructType |}.

Definition convertGnssGloTimeStructTypeToPB (gnssGloTime : GnssGloTimeStructType)
    (pbgnssGloTime : PBLocApiGnssGloTimeStructType) : PBLocApiGnssGloTimeStructType := {|
  PBLocApiGnssGloTimeStructType_validityMask :=
    getPBMaskForGnssGloTimeStructTypeFlags (GnssGloTimeStructType_validityMask gnssGloTime);
  PBLocApiGnssGloTimeStructType_gloFourYear := GnssGloTimeStructType_gloFourYear gnssGloTime;
  PBLocApiGnssGloTimeStructType_gloDays := GnssGloTimeStructType_gloDays gnssGloTime;
  PBLocApiGnssGloTimeStructType_gloMsec := GnssGloTimeStructType_gloMsec gnssGloTime;
  PBLocApiGnssGloTimeStructType_gloClkTimeBias := GnssGloTimeStructType_gloClkTimeBias gnssGloTime;
  PBLocApiGnssGloTimeStructType_gloClkTimeUncMs :=
    GnssGloTimeStructType_gloClkTimeUncMs gnssGloTime;
  PBLocApiGnssGloTimeStructType_refFCount := GnssGloTimeStructType_refFCount gnssGloTime;
  PBLocApiGnssGloTimeStructType_numClockResets :=
    GnssGloTimeStructType_numClockResets gnssGloTime |}.

(** The members of the union, and those of the [oneof] of the message, for which
    [mutable_] and reading give the default when another one is set. *)
Definition gnss_member (u : SystemTimeStructUnion) : option GnssSystemTimeStructType :=
  match u with gnss_time t => Some t | glo_time _ => None end.
Definition glo_member (u : SystemTimeStructUnion) : option GnssGloTimeStructType :=
  match u with gnss_time _ => None | glo_time t => Some t end.
Definition gpssystemtime (u : PBLocApiSystemTimeStructUnion) : PBLocApiGnssSystemTimeStructType :=
  match u with gpsSystemTime t => t | _ => PBLocApiGnssSystemTimeStructType_default end.
Definition galsystemtime (u : PBLocApiSystemTimeStructUnion) : PBLocApiGnssSystemTimeStructType :=
  match u with galSystemTime t => t | _ => PBLocApiGnssSystemTimeStructType_default end.
Definition bdssystemtime (u : PBLocApiSystemTimeStructUnion) : PBLocApiGnssSystemTimeStructType :=
  match u with bdsSystemTime t => t | _ => PBLocApiGnssSystemTimeStructType_default end.
Definition qzsssystemtime (u : PBLocApiSystemTimeStructUnion)
    : PBLocApiGnssSystemTimeStructType :=
  match u with qzssSystemTime t => t | _ => PBLocApiGnssSystemTimeStructType_default end.
Definition glosystemtime (u : PBLocApiSystemTimeStructUnion) : PBLocApiGnssGloTimeStructType :=
  match u with gloSystemTime t => t | _ => PBLocApiGnssGloTimeStructType_default end.
Definition navicsystemtime (u : PBLocApiSystemTimeStructUnion)
    : PBLocApiGnssSystemTimeStructType :=
  match u with navicSystemTime t => t | _ => PBLocApiGnssSystemTimeStructType_default end.

Definition convertSystemTimeStructUnionToPB (gnssLocSvSysEnumType : enum)
    (sysTimeStructUnion : SystemTimeStructUnion)
    (pbSysTimeStructUnion : PBLocApiSystemTimeStructUnion)
    : option PBLocApiSystemTimeStructUnion :=
  if gnssLocSvSysEnumType =? GNSS_LOC_SV_SYSTEM_GPS then
    t ← gnss_member sysTimeStructUnion;
    Some
      (gpsSystemTime (convertGnssSystemTimeStructTypeToPB t (gpssystemtime pbSysTimeStructUnion)))
  else if gnssLocSvSysEnumType =? GNSS_LOC_SV_SYSTEM_GALILEO then
    t ← gnss_member sysTimeStructUnion;
    Some
      (galSystemTime (convertGnssSystemTimeStructTypeToPB t (galsystemtime pbSysTimeStructUnion)))
  else if gnssLocSvSysEnumType =? GNSS_LOC_SV_SYSTEM_BDS then
    t ← gnss_member sysTimeStructUnion;
    Some
      (bdsSystemTime (convertGnssSystemTimeStructTypeToPB t (bdssystemtime pbSysTimeStructUnion)))
  else if gnssLocSvSysEnumType =? GNSS_LOC_SV_SYSTEM_QZSS then
    t ← gnss_member sysTimeStructUnion;
    Some
      (qzssSystemTime (convertGnssSystemTimeStructTypeToPB t (qzsssystemtime pbSysTimeStructUnion)))
  else if gnssLocSvSysEnumType =? GNSS_LOC_SV_SYSTEM_GLONASS then
    t ← glo_member sysTimeStructUnion;
    Some (gloSystemTime (convertGnssGloTimeStructTypeToPB t (glosystemtime pbSysTimeStructUnion)))
  else if gnssLocSvSysEnumType =? GNSS_LOC_SV_SYSTEM_NAVIC then
    t ← gnss_member sysTimeStructUnion;
    Some
      (navicSystemTime (convertGnssSystemTimeStructTypeToPB t (navicsystemtime pbSysTimeStructUnion)))
  else Some pbSysTimeStructUnion.

Definition convertGnssSystemTimeToPB (gnssSysTime : GnssSystemTime)
    (pbGnssSysTime : PBLocApiGnssSystemTime) : option PBLocApiGnssSystemTime :=
  sysTimeStructUnion ← convertSystemTimeStructUnionToPB
    (GnssSystemTime_gnssSystemTimeSrc gnssSysTime)
    (GnssSystemTime_u gnssSysTime) (PBLocApiGnssSystemTime_u pbGnssSysTime);
  Some {|
    PBLocApiGnssSystemTime_gnssSystemTimeSrc :=
      getPBEnumForGnssLocSvSystem (GnssSystemTime_gnssSystemTimeSrc gnssSysTime);
    PBLocApiGnssSystemTime_u := sysTimeStructUnion |}.

Definition convertGnssLocationPositionDynamicsToPB (gnssLocPosDyn : GnssLocationPositionDynamics)
    (gnssLocPosDynExt : GnssLocationPositionDynamicsExt)
    (pbGnssLocPosDyn : PBLocApiGnssLocationPositionDynamics)
    : PBLocApiGnssLocationPositionDynamics := {|
  PBLocApiGnssLocationPositionDynamics_bodyFrameDataMask :=
    getPBMaskForGnssLocationPosDataMask
      (GnssLocationPositionDynamics_bodyFrameDataMask gnssLocPosDyn)
      (GnssLocationPositionDynamicsExt_bodyFrameDataMask gnssLocPosDynExt);
  PBLocApiGnssLocationPositionDynamics_longAccel :=
    GnssLocationPositionDynamics_longAccel gnssLocPosDyn;
  PBLocApiGnssLocationPositionDynamics_latAccel :=
    GnssLocationPositionDynamics_latAccel gnssLocPosDyn;
  PBLocApiGnssLocationPositionDynamics_vertAccel :=
    GnssLocationPositionDynamics_vertAccel gnssLocPosDyn;
  PBLocApiGnssLocationPositionDynamics_longAccelUnc :=
    GnssLocationPositionDynamics_longAccelUnc gnssLocPosDyn;
  PBLocApiGnssLocationPositionDynamics_latAccelUnc :=
    GnssLocationPositionDynamics_latAccelUnc gnssLocPosDyn;
  PBLocApiGnssLocationPositionDynamics_vertAccelUnc :=
    GnssLocationPositionDynamics_vertAccelUnc gnssLocPosDyn;
  PBLocApiGnssLocationPositionDynamics_pitch := GnssLocationPositionDynamics_pitch gnssLocPosDyn;
  PBLocApiGnssLocationPositionDynamics_pitchUnc :=
    GnssLocationPositionDynamics_pitchUnc gnssLocPosDyn;
  PBLocApiGnssLocationPositionDynamics_pitchRate :=
    GnssLocationPositionDynamicsExt_pitchRate gnssLocPosDynExt;
  PBLocApiGnssLocationPositionDynamics_pitchRateUnc :=
    GnssLocationPositionDynamicsExt_pitchRateUnc gnssLocPosDynExt;
  PBLocApiGnssLocationPositionDynamics_roll :=
    GnssLocationPositionDynamicsExt_roll gnssLocPosDynExt;
  PBLocApiGnssLocationPositionDynamics_rollUnc :=
    GnssLocationPositionDynamicsExt_rollUnc gnssLocPosDynExt;
  PBLocApiGnssLocationPositionDynamics_rollRate :=
    GnssLocationPositionDynamicsExt_rollRate gnssLocPosDynExt;
  PBLocApiGnssLocationPositionDynamics_rollRateUnc :=
    GnssLocationPositionDynamicsExt_rollRateUnc gnssLocPosDynExt;
  PBLocApiGnssLocationPositionDynamics_yaw := GnssLocationPositionDynamicsExt_yaw gnssLocPosDynExt;
  PBLocApiGnssLocationPositionDynamics_yawUnc :=
    GnssLocationPositionDynamicsExt_yawUnc gnssLocPosDynExt;
  PBLocApiGnssLocationPositionDynamics_yawRate :=
    GnssLocationPositionDynamics_yawRate gnssLocPosDyn;
  PBLocApiGnssLocationPositionDynamics_yawRateUnc :=
    GnssLocationPositionDynamics_yawRateUnc gnssLocPosDyn |}.

Definition convertLLAInfoToPB (llaInfo : LLAInfo) (pbLlaInfo : PBLLAInfo) : PBLLAInfo := {|
  PBLLAInfo_latitude := LLAInfo_latitude llaInfo;
  PBLLAInfo_longitude := LLAInfo_longitude llaInfo;
  PBLLAInfo_altitude := LLAInfo_altitude llaInfo |}.

Definition convertGnssMeasUsageInfoToPB (gnssMeasUsageInfo : GnssMeasUsageInfo)
    (pbGnssMeasUsageInfo : PBGnssMeasUsageInfo) : PBGnssMeasUsageInfo := {|
  PBGnssMeasUsageInfo_gnssConstellation :=
    getPBEnumForGnssLocSvSystem (GnssMeasUsageInfo_gnssConstellation gnssMeasUsageInfo);
  PBGnssMeasUsageInfo_gnssSvId := GnssMeasUsageInfo_gnssSvId gnssMeasUsageInfo;
  PBGnssMeasUsageInfo_gnssSignalType :=
    getPBMaskForGnssSignalTypeMask (GnssMeasUsageInfo_gnssSignalType gnssMeasUsageInfo) |}.

Definition convertGnssLocInfoNotifToPB (gnssLocInfoNotif : GnssLocationInfoNotification)
    (pbGnssLocInfoNotif : PBGnssLocationInfoNotification)
    : option PBGnssLocationInfoNotification :=
  gnssSysTime ← convertGnssSystemTimeToPB
    (GnssLocationInfoNotification_gnssSystemTime gnssLocInfoNotif)
    (PBGnssLocationInfoNotification_gnssSystemTime pbGnssLocInfoNotif);
  let count := GnssLocationInfoNotification_numOfMeasReceived gnssLocInfoNotif in
  measUsageInfo ← for_ (Z.to_nat count) 0 (fun iter measUsageInfo =>
    m ← GnssLocationInfoNotification_measUsageInfo gnssLocInfoNotif !! iter;
    Some (add measUsageInfo (convertGnssMeasUsageInfoToPB m PBGnssMeasUsageInfo_default)))
    (PBGnssLocationInfoNotification_measUsageInfo pbGnssLocInfoNotif);
  enuVelocityVRPBased ← for_ 3 0 (fun i enuVelocityVRPBased =>
    v ← GnssLocationInfoNotification_enuVelocityVRPBased gnssLocInfoNotif !! i;
    Some
      (add enuVelocityVRPBased v))
      (PBGnssLocationInfoNotification_enuVelocityVRPBased pbGnssLocInfoNotif);
  Some {|
    PBGnssLocationInfoNotification_location :=
      convertLocationToPB (GnssLocationInfoNotification_location gnssLocInfoNotif)
        (PBGnssLocationInfoNotification_location pbGnssLocInfoNotif);
    PBGnssLocationInfoNotification_flags :=
      getPBMaskForGnssLocationInfoFlagMask (GnssLocationInfoNotification_flags gnssLocInfoNotif);
    PBGnssLocationInfoNotification_altitudeMeanSeaLevel :=
      GnssLocationInfoNotification_altitudeMeanSeaLevel gnssLocInfoNotif;
    PBGnssLocationInfoNotification_pdop := GnssLocationInfoNotification_pdop gnssLocInfoNotif;
    PBGnssLocationInfoNotification_hdop := GnssLocationInfoNotification_hdop gnssLocInfoNotif;
    PBGnssLocationInfoNotification_vdop := GnssLocationInfoNotification_vdop gnssLocInfoNotif;
    PBGnssLocationInfoNotification_gdop := GnssLocationInfoNotification_gdop gnssLocInfoNotif;
    PBGnssLocationInfoNotification_tdop := GnssLocationInfoNotification_tdop gnssLocInfoNotif;
    PBGnssLocationInfoNotification_magneticDeviation :=
      GnssLocationInfoNotification_magneticDeviation gnssLocInfoNotif;
    PBGnssLocationInfoNotification_horReliability :=
      getPBEnumForLocationReliability
        (GnssLocationInfoNotification_horReliability gnssLocInfoNotif);
    PBGnssLocationInfoNotification_verReliability :=
      getPBEnumForLocationReliability
        (GnssLocationInfoNotification_verReliability gnssLocInfoNotif);
    PBGnssLocationInfoNotification_horUncEllipseSemiMajor :=
      GnssLocationInfoNotification_horUncEllipseSemiMajor gnssLocInfoNotif;
    PBGnssLocationInfoNotification_horUncEllipseSemiMinor :=
      GnssLocationInfoNotification_horUncEllipseSemiMinor gnssLocInfoNotif;
    PBGnssLocationInfoNotification_horUncEllipseOrientAzimuth :=
      GnssLocationInfoNotification_horUncEllipseOrientAzimuth gnssLocInfoNotif;
    PBGnssLocationInfoNotification_northStdDeviation :=
      GnssLocationInfoNotification_northStdDeviation gnssLocInfoNotif;
    PBGnssLocationInfoNotification_eastStdDeviation :=
      GnssLocationInfoNotification_eastStdDeviation gnssLocInfoNotif;
    PBGnssLocationInfoNotification_northVelocity :=
      GnssLocationInfoNotification_northVelocity gnssLocInfoNotif;
    PBGnssLocationInfoNotification_eastVelocity :=
      GnssLocationInfoNotification_eastVelocity gnssLocInfoNotif;
    PBGnssLocationInfoNotification_upVelocity :=
      GnssLocationInfoNotification_upVelocity gnssLocInfoNotif;
    PBGnssLocationInfoNotification_northVelocityStdDeviation :=
      GnssLocationInfoNotification_northVelocityStdDeviation gnssLocInfoNotif;
    PBGnssLocationInfoNotification_eastVelocityStdDeviation :=
      GnssLocationInfoNotification_eastVelocityStdDeviation gnssLocInfoNotif;
    PBGnssLocationInfoNotification_upVelocityStdDeviation :=
      GnssLocationInfoNotification_upVelocityStdDeviation gnssLocInfoNotif;
    PBGnssLocationInfoNotification_numSvUsedInPosition :=
      GnssLocationInfoNotification_numSvUsedInPosition gnssLocInfoNotif;
    PBGnssLocationInfoNotification_svUsedInPosition :=
      convertGnssLocSvUsedInPosToPB
        (GnssLocationInfoNotification_svUsedInPosition gnssLocInfoNotif)
        (PBGnssLocationInfoNotification_svUsedInPosition pbGnssLocInfoNotif);
    PBGnssLocationInfoNotification_navSolutionMask :=
      getPBMaskForGnssLocationNavSolutionMask
        (GnssLocationInfoNotification_navSolutionMask gnssLocInfoNotif);
    PBGnssLocationInfoNotification_bodyFrameData :=
      convertGnssLocationPositionDynamicsToPB
        (GnssLocationInfoNotification_bodyFrameData gnssLocInfoNotif)
        (GnssLocationInfoNotification_bodyFrameDataExt gnssLocInfoNotif)
        (PBGnssLocationInfoNotification_bodyFrameData pbGnssLocInfoNotif);
    PBGnssLocationInfoNotification_gnssSystemTime := gnssSysTime;
    PBGnssLocationInfoNotification_numOfMeasReceived :=
      GnssLocationInfoNotification_numOfMeasReceived gnssLocInfoNotif;
    PBGnssLocationInfoNotification_measUsageInfo := measUsageInfo;
    PBGnssLocationInfoNotification_leapSeconds :=
      GnssLocationInfoNotification_leapSeconds gnssLocInfoNotif;
    PBGnssLocationInfoNotification_timeUncMs :=
      GnssLocationInfoNotification_timeUncMs gnssLocInfoNotif;
    PBGnssLocationInfoNotification_calibrationConfidence :=
      GnssLocationInfoNotification_calibrationConfidence gnssLocInfoNotif;
    PBGnssLocationInfoNotification_calibrationStatus :=
      getPBMaskForDrCalibrationStatusMask
        (GnssLocationInfoNotification_calibrationStatus gnssLocInfoNotif);
    PBGnssLocationInfoNotification_locOutputEngType :=
      getPBEnumForLocOutputEngineType
        (GnssLocationInfoNotification_locOutputEngType gnssLocInfoNotif);
    PBGnssLocationInfoNotification_locOutputEngMask :=
      getPBMaskForPositioningEngineMask
        (GnssLocationInfoNotification_locOutputEngMask gnssLocInfoNotif);
    PBGnssLocationInfoNotification_conformityIndex :=
      GnssLocationInfoNotification_conformityIndex gnssLocInfoNotif;
    PBGnssLocationInfoNotification_llaVRPBased :=
      convertLLAInfoToPB (GnssLocationInfoNotification_llaVRPBased gnssLocInfoNotif)
        (PBGnssLocationInfoNotification_llaVRPBased pbGnssLocInfoNotif);
    PBGnssLocationInfoNotification_enuVelocityVRPBased := enuVelocityVRPBased;
    PBGnssLocationInfoNotification_drSolutionStatusMask :=
      getPBMaskForDrSolutionStatusMask
        (GnssLocationInfoNotification_drSolutionStatusMask gnssLocInfoNotif);
    PBGnssLocationInfoNotification_extFlags :=
      getPBMaskForGnssLocationInfoExtFlagMask (GnssLocationInfoNotification_flags gnssLocInfoNotif);
    PBGnssLocationInfoNotification_altitudeAssumed :=
      GnssLocationInfoNotification_altitudeAssumed gnssLocInfoNotif;
    PBGnssLocationInfoNotification_sessionStatus :=
      getPBEnumForLocSessionStatus (GnssLocationInfoNotification_sessionStatus gnssLocInfoNotif) |}.

Definition convertLeapSecChgInfoToPB (leapSecChngInfo : LeapSecondChangeInfo)
    (pbLeapSecChngInfo : PBLeapSecondChangeInfo) : PBLeapSecondChangeInfo := {|
  PBLeapSecondChangeInfo_gpsTimestampLsChange :=
    convertGnssSystemTimeStructTypeToPB
      (LeapSecondChangeInfo_gpsTimestampLsChange leapSecChngInfo)
      (PBLeapSecondChangeInfo_gpsTimestampLsChange pbLeapSecChngInfo);
  PBLeapSecondChangeInfo_leapSecondsBeforeChange :=
    LeapSecondChangeInfo_leapSecondsBeforeChange leapSecChngInfo;
  PBLeapSecondChangeInfo_leapSecondsAfterChange :=
    LeapSecondChangeInfo_leapSecondsAfterChange leapSecChngInfo |}.

Definition convertLeapSecondSystemInfoToPB (leapSecSysInfo : LeapSecondSystemInfo)
    (pbLeapSecSysInfo : PBLeapSecondSystemInfo) : PBLeapSecondSystemInfo := {|
  PBLeapSecondSystemInfo_leapSecondInfoMask :=
    getPBMaskForLeapSecondSysInfoMask (LeapSecondSystemInfo_leapSecondInfoMask leapSecSysInfo);
  PBLeapSecondSystemInfo_leapSecondCurrent := LeapSecondSystemInfo_leapSecondCurrent leapSecSysInfo;
  PBLeapSecondSystemInfo_leapSecondChangeInfo :=
    convertLeapSecChgInfoToPB (LeapSecondSystemInfo_leapSecondChangeInfo leapSecSysInfo)
      (PBLeapSecondSystemInfo_leapSecondChangeInfo pbLeapSecSysInfo) |}.

Definition convertLocSysInfoToPB (locSysInfo : LocationSystemInfo)
    (pbLocSysInfo : PBLocationSystemInfo) : PBLocationSystemInfo := {|
  PBLocationSystemInfo_systemInfoMask :=
    getPBMaskForLocSysInfoMask (LocationSystemInfo_systemInfoMask locSysInfo);
  PBLocationSystemInfo_leapSecondSysInfo :=
    convertLeapSecondSystemInfoToPB (LocationSystemInfo_leapSecondSysInfo locSysInfo)
      (PBLocationSystemInfo_leapSecondSysInfo pbLocSysInfo) |}.

Definition convertGnssMeasDataToPB (gnssMeasData : GnssMeasurementsData)
    (pbGnssMeasData : PBGnssMeasurementsData) : PBGnssMeasurementsData := {|
  PBGnssMeasurementsData_flags :=
    getPBMaskForGnssMeasurementsDataFlagsMask (GnssMeasurementsData_flags gnssMeasData);
  PBGnssMeasurementsData_svId := GnssMeasurementsData_svId gnssMeasData;
  PBGnssMeasurementsData_svType :=
    getPBGnssLocSvSysEnumFromGnssSvType (GnssMeasurementsData_svType gnssMeasData);
  PBGnssMeasurementsData_timeOffsetNs := GnssMeasurementsData_timeOffsetNs gnssMeasData;
  PBGnssMeasurementsData_stateMask :=
    getPBMaskForGnssMeasurementsStateMask (GnssMeasurementsData_stateMask gnssMeasData);
  PBGnssMeasurementsData_receivedSvTimeNs := GnssMeasurementsData_receivedSvTimeNs gnssMeasData;
  PBGnssMeasurementsData_receivedSvTimeUncertaintyNs :=
    GnssMeasurementsData_receivedSvTimeUncertaintyNs gnssMeasData;
  PBGnssMeasurementsData_carrierToNoiseDbHz := GnssMeasurementsData_carrierToNoiseDbHz gnssMeasData;
  PBGnssMeasurementsData_pseudorangeRateMps := GnssMeasurementsData_pseudorangeRateMps gnssMeasData;
  PBGnssMeasurementsData_pseudorangeRateUncertaintyMps :=
    GnssMeasurementsData_pseudorangeRateUncertaintyMps gnssMeasData;
  PBGnssMeasurementsData_adrStateMask :=
    getPBMaskForGnssMeasurementsAdrStateMask (GnssMeasurementsData_adrStateMask gnssMeasData);
  PBGnssMeasurementsData_adrMeters := GnssMeasurementsData_adrMeters gnssMeasData;
  PBGnssMeasurementsData_adrUncertaintyMeters :=
    GnssMeasurementsData_adrUncertaintyMeters gnssMeasData;
  PBGnssMeasurementsData_carrierFrequencyHz := GnssMeasurementsData_carrierFrequencyHz gnssMeasData;
  PBGnssMeasurementsData_carrierCycles := GnssMeasurementsData_carrierCycles gnssMeasData;
  PBGnssMeasurementsData_carrierPhase := GnssMeasurementsData_carrierPhase gnssMeasData;
  PBGnssMeasurementsData_carrierPhaseUncertainty :=
    GnssMeasurementsData_carrierPhaseUncertainty gnssMeasData;
  PBGnssMeasurementsData_multipathIndicator :=
    getPBEnumForGnssMeasMultiPathIndic (GnssMeasurementsData_multipathIndicator gnssMeasData);
  PBGnssMeasurementsData_signalToNoiseRatioDb :=
    GnssMeasurementsData_signalToNoiseRatioDb gnssMeasData;
  PBGnssMeasurementsData_agcLevelDb := GnssMeasurementsData_agcLevelDb gnssMeasData;
  PBGnssMeasurementsData_basebandCarrierToNoiseDbHz :=
    GnssMeasurementsData_basebandCarrierToNoiseDbHz gnssMeasData;
  PBGnssMeasurementsData_gnssSignalType :=
    getPBMaskForGnssSignalTypeMask (GnssMeasurementsData_gnssSignalType gnssMeasData);
  PBGnssMeasurementsData_fullInterSignalBiasNs :=
    GnssMeasurementsData_fullInterSignalBiasNs gnssMeasData;
  PBGnssMeasurementsData_fullInterSignalBiasUncertaintyNs :=
    GnssMeasurementsData_fullInterSignalBiasUncertaintyNs gnssMeasData;
  PBGnssMeasurementsData_cycleSlipCount := GnssMeasurementsData_cycleSlipCount gnssMeasData |}.

Definition convertGnssMeasClockToPB (gnssMeasClock : GnssMeasurementsClock)
    (pbGnssMeasClock : PBGnssMeasurementsClock) : PBGnssMeasurementsClock := {|
  PBGnssMeasurementsClock_flags :=
    getPBMaskForGnssMeasurementsClockFlagsMask (GnssMeasurementsClock_flags gnssMeasClock);
  PBGnssMeasurementsClock_leapSecond := GnssMeasurementsClock_leapSecond gnssMeasClock;
  PBGnssMeasurementsClock_timeNs := GnssMeasurementsClock_timeNs gnssMeasClock;
  PBGnssMeasurementsClock_timeUncertaintyNs :=
    GnssMeasurementsClock_timeUncertaintyNs gnssMeasClock;
  PBGnssMeasurementsClock_fullBiasNs := GnssMeasurementsClock_fullBiasNs gnssMeasClock;
  PBGnssMeasurementsClock_biasNs := GnssMeasurementsClock_biasNs gnssMeasClock;
  PBGnssMeasurementsClock_biasUncertaintyNs :=
    GnssMeasurementsClock_biasUncertaintyNs gnssMeasClock;
  PBGnssMeasurementsClock_driftNsps := GnssMeasurementsClock_driftNsps gnssMeasClock;
  PBGnssMeasurementsClock_driftUncertaintyNsps :=
    GnssMeasurementsClock_driftUncertaintyNsps gnssMeasClock;
  PBGnssMeasurementsClock_hwClockDiscontinuityCount :=
    GnssMeasurementsClock_hwClockDiscontinuityCount gnssMeasClock |}.

Definition convertGnssMeasNotifToPB (gnssMeasNotif : GnssMeasurementsNotification)
    (pbGnssMeasNotif : PBGnssMeasurementsNotification) : option PBGnssMeasurementsNotification :=
  let count := GnssMeasurementsNotification_count gnssMeasNotif in
  measurements ← for_ (Z.to_nat count) 0 (fun i measurements =>
    d ← GnssMeasurementsNotification_measurements gnssMeasNotif !! i;
    Some (add measurements (convertGnssMeasDataToPB d PBGnssMeasurementsData_default)))
    (PBGnssMeasurementsNotification_measurements pbGnssMeasNotif);
  Some {|
    PBGnssMeasurementsNotification_measurements := measurements;
    PBGnssMeasurementsNotification_clock :=
      convertGnssMeasClockToPB (GnssMeasurementsNotification_clock gnssMeasNotif)
        (PBGnssMeasurementsNotification_clock pbGnssMeasNotif) |}.

Definition convertGnssDataNotifToPB (gnssDataNotif : GnssDataNotification)
    (pbGnssDataNotif : PBGnssDataNotification) : option PBGnssDataNotification :=
  for_ (Z.to_nat GNSS_LOC_MAX_NUMBER_OF_SIGNAL_TYPES) 0 (fun i pb =>
    mask ← GnssDataNotification_gnssDataMask gnssDataNotif !! i;
    ind ← GnssDataNotification_jammerInd gnssDataNotif !! i;
    agc ← GnssDataNotification_agc gnssDataNotif !! i;
    Some {|
      PBGnssDataNotification_numberSignalTypes := PBGnssDataNotification_numberSignalTypes pb;
      PBGnssDataNotification_gnssDataMask := add (PBGnssDataNotification_gnssDataMask pb) mask;
      PBGnssDataNotification_jammerInd := add (PBGnssDataNotification_jammerInd pb) ind;
      PBGnssDataNotification_agc := add (PBGnssDataNotification_agc pb) agc |})
    {| PBGnssDataNotification_numberSignalTypes := GNSS_LOC_MAX_NUMBER_OF_SIGNAL_TYPES;
       PBGnssDataNotification_gnssDataMask := PBGnssDataNotification_gnssDataMask pbGnssDataNotif;
       PBGnssDataNotification_jammerInd := PBGnssDataNotification_jammerInd pbGnssDataNotif;
       PBGnssDataNotification_agc := PBGnssDataNotification_agc pbGnssDataNotif |}.

Definition convertLocAPINmeaSerializedPayloadToPB (locAPINmeaSerPload : LocAPINmeaSerializedPayload)
    (pbLocAPINmeaSerPload : PBLocAPINmeaSerializedPayload) : PBLocAPINmeaSerializedPayload := {|
  PBLocAPINmeaSerializedPayload_timestamp :=
    LocAPINmeaSerializedPayload_timestamp locAPINmeaSerPload;
  PBLocAPINmeaSerializedPayload_nmea := LocAPINmeaSerializedPayload_nmea locAPINmeaSerPload |}.

Definition convertGnssSvToPB (gnssSv : GnssSv) (pbGnssSv : PBLocApiGnssSv) : PBLocApiGnssSv := {|
  PBLocApiGnssSv_svId := GnssSv_svId gnssSv;
  PBLocApiGnssSv_type := getPBGnssLocSvSysEnumFromGnssSvType (GnssSv_type gnssSv);
  PBLocApiGnssSv_cN0Dbhz := GnssSv_cN0Dbhz gnssSv;
  PBLocApiGnssSv_elevation := GnssSv_elevation gnssSv;
  PBLocApiGnssSv_azimuth := GnssSv_azimuth gnssSv;
  PBLocApiGnssSv_gnssSvOptionsMask :=
    getPBMaskForGnssSvOptionsMask (GnssSv_gnssSvOptionsMask gnssSv);
  PBLocApiGnssSv_carrierFrequencyHz := GnssSv_carrierFrequencyHz gnssSv;
  PBLocApiGnssSv_gnssSignalTypeMask :=
    getPBMaskForGnssSignalTypeMask (GnssSv_gnssSignalTypeMask gnssSv);
  PBLocApiGnssSv_basebandCarrierToNoiseDbHz := GnssSv_basebandCarrierToNoiseDbHz gnssSv;
  PBLocApiGnssSv_gloFrequency := GnssSv_gloFrequency gnssSv |}.

Definition convertGnssSvNotifToPB (gnssSvNotif : GnssSvNotification)
    (pbGnssSvNotif : PBLocApiGnssSvNotification) : option PBLocApiGnssSvNotification :=
  let count := GnssSvNotification_count gnssSvNotif in
  gnssSvs ← for_ (Z.to_nat count) 0 (fun i gnssSvs =>
    sv ← GnssSvNotification_gnssSvs gnssSvNotif !! i;
    Some (add gnssSvs (convertGnssSvToPB sv PBLocApiGnssSv_default)))
    (PBLocApiGnssSvNotification_gnssSvs pbGnssSvNotif);
  Some {|
    PBLocApiGnssSvNotification_gnssSignalTypeMaskValid :=
      GnssSvNotification_gnssSignalTypeMaskValid gnssSvNotif;
    PBLocApiGnssSvNotification_gnssSvs := gnssSvs |}.

Definition pbConvertToGnssConfigRobustLocation (pbGnssCfgRobLoc : PBGnssConfigRobustLocation)
    (gnssCfgRobLoc : GnssConfigRobustLocation) : GnssConfigRobustLocation := {|
  GnssConfigRobustLocation_validMask :=
    getGnssConfigRobustLocationValidMaskFromPB
      (PBGnssConfigRobustLocation_validMask pbGnssCfgRobLoc);
  GnssConfigRobustLocation_enabled := PBGnssConfigRobustLocation_enabled pbGnssCfgRobLoc;
  GnssConfigRobustLocation_enabledForE911 :=
    PBGnssConfigRobustLocation_enabledForE911 pbGnssCfgRobLoc;
  GnssConfigRobustLocation_version :=
    MkGnssConfigRobustLocationVersion (wrap_u 8 (PBGnssConfigRobustLocationVersion_major
      (PBGnssConfigRobustLocation_version pbGnssCfgRobLoc)))
      (wrap_u 16 (PBGnssConfigRobustLocationVersion_minor (PBGnssConfigRobustLocation_version pbGnssCfgRobLoc))) |}.

Definition pbConvertToCollectiveResPayload (pbClctResPayload : PBCollectiveResPayload)
    (clctResPayload : CollectiveResPayload) : option CollectiveResPayload :=
  let count := length (PBCollectiveResPayload_resp pbClctResPayload) in
  resp ← for_ count 0 (fun i resp =>
    r ← PBCollectiveResPayload_resp pbClctResPayload !! i;
    write_at resp i (fun _ => {|
      GeofenceResponse_clientId := PBGeofenceResponse_clientId r;
      GeofenceResponse_error := getEnumForPBLocationError (PBGeofenceResponse_error r) |}))
    (CollectiveResPayload_resp clctResPayload);
  Some {|
    CollectiveResPayload_count := Z.of_nat count;
    CollectiveResPayload_resp := resp |}.

Definition pbConvertToLocation (pbLoc : PBLocation) (loc : Location) : Location := {|
  Location_flags := wrap_u 16 (getLocationFlagsMaskFromPB (PBLocation_flags pbLoc));
  Location_timestamp := PBLocation_timestamp pbLoc;
  Location_latitude := PBLocation_latitude pbLoc;
  Location_longitude := PBLocation_longitude pbLoc;
  Location_altitude := PBLocation_altitude pbLoc;
  Location_speed := PBLocation_speed pbLoc;
  Location_bearing := PBLocation_bearing pbLoc;
  Location_accuracy := PBLocation_horizontalAccuracy pbLoc;
  Location_verticalAccuracy := PBLocation_verticalAccuracy pbLoc;
  Location_speedAccuracy := PBLocation_speedAccuracy pbLoc;
  Location_bearingAccuracy := PBLocation_bearingAccuracy pbLoc;
  Location_conformityIndex := Location_conformityIndex loc;
  Location_techMask := wrap_u 16 (getLocationTechnologyMaskFromPB (PBLocation_techMask pbLoc));
  Location_spoofMask := Location_spoofMask loc;
  Location_elapsedRealTime := Location_elapsedRealTime loc;
  Location_elapsedRealTimeUnc := Location_elapsedRealTimeUnc loc |}.

Definition pbConvertToLocAPIBatchNotification (pbLocBatchNotif : PBLocAPIBatchNotification)
    (locBatchNotif : LocAPIBatchNotification) : option LocAPIBatchNotification :=
  let count := length (PBLocAPIBatchNotification_location pbLocBatchNotif) in
  location ← for_ count 0 (fun i location =>
    l ← PBLocAPIBatchNotification_location pbLocBatchNotif !! i;
    write_at location i (pbConvertToLocation l)) (LocAPIBatchNotification_location locBatchNotif);
  Some {|
    LocAPIBatchNotification_count := Z.of_nat count;
    LocAPIBatchNotification_status :=
      getEnumForPBBatchingStatus (PBLocAPIBatchNotification_status pbLocBatchNotif);
    LocAPIBatchNotification_location := location |}.

Definition pbConvertToLocAPIGfBreachNotification
    (pbLocApiGfBreachNotif : PBLocAPIGeofenceBreachNotification)
    (locApiGfBreachNotif : LocAPIGeofenceBreachNotification)
    : option LocAPIGeofenceBreachNotification :=
  x ← PBLocAPIGeofenceBreachNotification_id pbLocApiGfBreachNotif !! 0%nat;
  id ← write_at (LocAPIGeofenceBreachNotification_id locApiGfBreachNotif) 0 (fun _ => x);
  Some {|
    LocAPIGeofenceBreachNotification_count :=
      LocAPIGeofenceBreachNotification_count locApiGfBreachNotif;
    LocAPIGeofenceBreachNotification_timestamp :=
      PBLocAPIGeofenceBreachNotification_timestamp pbLocApiGfBreachNotif;
    LocAPIGeofenceBreachNotification_type := wrap_u 16
      (getGfBreachTypeMaskFromPB (PBLocAPIGeofenceBreachNotification_breachtype pbLocApiGfBreachNotif));
    LocAPIGeofenceBreachNotification_location :=
      pbConvertToLocation (PBLocAPIGeofenceBreachNotification_location pbLocApiGfBreachNotif)
        (LocAPIGeofenceBreachNotification_location locApiGfBreachNotif);
    LocAPIGeofenceBreachNotification_id := id |}.

Definition pbConvertToGnssLocationSvUsedInPosition
    (pbGnssLocSvUsedInPos : PBGnssLocationSvUsedInPosition)
    (gnssLocSvUsedInPos : GnssLocationSvUsedInPosition) : GnssLocationSvUsedInPosition :=
      {|
  GnssLocationSvUsedInPosition_gpsSvUsedIdsMask :=
    PBGnssLocationSvUsedInPosition_gpsSvUsedIdsMask pbGnssLocSvUsedInPos;
  GnssLocationSvUsedInPosition_gloSvUsedIdsMask :=
    PBGnssLocationSvUsedInPosition_gloSvUsedIdsMask pbGnssLocSvUsedInPos;
  GnssLocationSvUsedInPosition_galSvUsedIdsMask :=
    PBGnssLocationSvUsedInPosition_galSvUsedIdsMask pbGnssLocSvUsedInPos;
  GnssLocationSvUsedInPosition_bdsSvUsedIdsMask :=
    PBGnssLocationSvUsedInPosition_bdsSvUsedIdsMask pbGnssLocSvUsedInPos;
  GnssLocationSvUsedInPosition_qzssSvUsedIdsMask :=
    PBGnssLocationSvUsedInPosition_qzssSvUsedIdsMask pbGnssLocSvUsedInPos;
  GnssLocationSvUsedInPosition_navicSvUsedIdsMask :=
    PBGnssLocationSvUsedInPosition_navicSvUsedIdsMask pbGnssLocSvUsedInPos |}.

Definition pbConvertToLLAInfo (pbLlaInfo : PBLLAInfo) (llaInfo : LLAInfo) : LLAInfo := {|
  LLAInfo_latitude := PBLLAInfo_latitude pbLlaInfo;
  LLAInfo_longitude := PBLLAInfo_longitude pbLlaInfo;
  LLAInfo_altitude := PBLLAInfo_altitude pbLlaInfo |}.

(** All members of both structs are set. *)
Definition pbConvertToGnssLocationPositionDynamics
    (pbGnssLocPosDyn : PBLocApiGnssLocationPositionDynamics) :
    GnssLocationPositionDynamics * GnssLocationPositionDynamicsExt :=
  ({|
     GnssLocationPositionDynamics_bodyFrameDataMask :=
       getGnssLocationPosDataMaskFromPB
         (PBLocApiGnssLocationPositionDynamics_bodyFrameDataMask pbGnssLocPosDyn);
     GnssLocationPositionDynamics_longAccel :=
       PBLocApiGnssLocationPositionDynamics_longAccel pbGnssLocPosDyn;
     GnssLocationPositionDynamics_latAccel :=
       PBLocApiGnssLocationPositionDynamics_latAccel pbGnssLocPosDyn;
     GnssLocationPositionDynamics_vertAccel :=
       PBLocApiGnssLocationPositionDynamics_vertAccel pbGnssLocPosDyn;
     GnssLocationPositionDynamics_yawRate :=
       PBLocApiGnssLocationPositionDynamics_yawRate pbGnssLocPosDyn;
     GnssLocationPositionDynamics_pitch :=
       PBLocApiGnssLocationPositionDynamics_pitch pbGnssLocPosDyn;
     GnssLocationPositionDynamics_longAccelUnc :=
       PBLocApiGnssLocationPositionDynamics_longAccelUnc pbGnssLocPosDyn;
     GnssLocationPositionDynamics_latAccelUnc :=
       PBLocApiGnssLocationPositionDynamics_latAccelUnc pbGnssLocPosDyn;
     GnssLocationPositionDynamics_vertAccelUnc :=
       PBLocApiGnssLocationPositionDynamics_vertAccelUnc pbGnssLocPosDyn;
     GnssLocationPositionDynamics_yawRateUnc :=
       PBLocApiGnssLocationPositionDynamics_yawRateUnc pbGnssLocPosDyn;
     GnssLocationPositionDynamics_pitchUnc :=
       PBLocApiGnssLocationPositionDynamics_pitchUnc pbGnssLocPosDyn |},
   {|
     GnssLocationPositionDynamicsExt_bodyFrameDataMask :=
       getGnssLocationPosDataMaskExtFromPB
         (PBLocApiGnssLocationPositionDynamics_bodyFrameDataMask pbGnssLocPosDyn);
     GnssLocationPositionDynamicsExt_pitchRate :=
       PBLocApiGnssLocationPositionDynamics_pitchRate pbGnssLocPosDyn;
     GnssLocationPositionDynamicsExt_pitchRateUnc :=
       PBLocApiGnssLocationPositionDynamics_pitchRateUnc pbGnssLocPosDyn;
     GnssLocationPositionDynamicsExt_roll :=
       PBLocApiGnssLocationPositionDynamics_roll pbGnssLocPosDyn;
     GnssLocationPositionDynamicsExt_rollUnc :=
       PBLocApiGnssLocationPositionDynamics_rollUnc pbGnssLocPosDyn;
     GnssLocationPositionDynamicsExt_rollRate :=
       PBLocApiGnssLocationPositionDynamics_rollRate pbGnssLocPosDyn;
     GnssLocationPositionDynamicsExt_rollRateUnc :=
       PBLocApiGnssLocationPositionDynamics_rollRateUnc pbGnssLocPosDyn;
     GnssLocationPositionDynamicsExt_yaw :=
       PBLocApiGnssLocationPositionDynamics_yaw pbGnssLocPosDyn;
     GnssLocationPositionDynamicsExt_yawUnc :=
       PBLocApiGnssLocationPositionDynamics_yawUnc pbGnssLocPosDyn |}).

Definition pbConvertToGnssSystemTimeStructType
    (pbGnssSysTimeStrct : PBLocApiGnssSystemTimeStructType) : GnssSystemTimeStructType := {|
  GnssSystemTimeStructType_validityMask :=
    getGnssSystemTimeStructTypeFlagsFromPB
      (PBLocApiGnssSystemTimeStructType_validityMask pbGnssSysTimeStrct);
  GnssSystemTimeStructType_systemWeek :=
    wrap_u 16 (PBLocApiGnssSystemTimeStructType_systemWeek pbGnssSysTimeStrct);
  GnssSystemTimeStructType_systemMsec :=
    PBLocApiGnssSystemTimeStructType_systemMsec pbGnssSysTimeStrct;
  GnssSystemTimeStructType_systemClkTimeBias :=
    PBLocApiGnssSystemTimeStructType_systemClkTimeBiasMs pbGnssSysTimeStrct;
  GnssSystemTimeStructType_systemClkTimeUncMs :=
    PBLocApiGnssSystemTimeStructType_systemClkTimeBiasUncMs pbGnssSysTimeStrct;
  GnssSystemTimeStructType_refFCount :=
    PBLocApiGnssSystemTimeStructType_refFCount pbGnssSysTimeStrct;
  GnssSystemTimeStructType_numClockResets :=
    PBLocApiGnssSystemTimeStructType_numClockResets pbGnssSysTimeStrct |}.

Definition pbConvertToGnssGloTimeStructType
    (pbGnssGloTime : PBLocApiGnssGloTimeStructType) : GnssGloTimeStructType := {|
  GnssGloTimeStructType_gloDays := wrap_u 16 (PBLocApiGnssGloTimeStructType_gloDays pbGnssGloTime);
  GnssGloTimeStructType_validityMask :=
    getGnssGloTimeStructTypeFlagsFromPB (PBLocApiGnssGloTimeStructType_validityMask pbGnssGloTime);
  GnssGloTimeStructType_gloMsec := PBLocApiGnssGloTimeStructType_gloMsec pbGnssGloTime;
  GnssGloTimeStructType_gloClkTimeBias :=
    PBLocApiGnssGloTimeStructType_gloClkTimeBias pbGnssGloTime;
  GnssGloTimeStructType_gloClkTimeUncMs :=
    PBLocApiGnssGloTimeStructType_gloClkTimeUncMs pbGnssGloTime;
  GnssGloTimeStructType_refFCount := PBLocApiGnssGloTimeStructType_refFCount pbGnssGloTime;
  GnssGloTimeStructType_numClockResets :=
    PBLocApiGnssGloTimeStructType_numClockResets pbGnssGloTime;
  GnssGloTimeStructType_gloFourYear :=
    wrap_u 8 (PBLocApiGnssGloTimeStructType_gloFourYear pbGnssGloTime) |}.

(** The member that is stored; all of its own members are set. *)
Definition pbConvertToSystemTimeStructUnion (gnssLocSvSysEnumType : enum)
    (pbSysTimeStructUnion : PBLocApiSystemTimeStructUnion)
    (sysTimeStructUnion : SystemTimeStructUnion) :
    SystemTimeStructUnion :=
  if gnssLocSvSysEnumType =? GNSS_LOC_SV_SYSTEM_GPS then
    gnss_time (pbConvertToGnssSystemTimeStructType (gpssystemtime pbSysTimeStructUnion))
  else if gnssLocSvSysEnumType =? GNSS_LOC_SV_SYSTEM_GALILEO then
    gnss_time (pbConvertToGnssSystemTimeStructType (galsystemtime pbSysTimeStructUnion))
  else if gnssLocSvSysEnumType =? GNSS_LOC_SV_SYSTEM_BDS then
    gnss_time (pbConvertToGnssSystemTimeStructType (bdssystemtime pbSysTimeStructUnion))
  else if gnssLocSvSysEnumType =? GNSS_LOC_SV_SYSTEM_QZSS then
    gnss_time (pbConvertToGnssSystemTimeStructType (qzsssystemtime pbSysTimeStructUnion))
  else if gnssLocSvSysEnumType =? GNSS_LOC_SV_SYSTEM_GLONASS then
    glo_time (pbConvertToGnssGloTimeStructType (glosystemtime pbSysTimeStructUnion))
  else if gnssLocSvSysEnumType =? GNSS_LOC_SV_SYSTEM_NAVIC then
    gnss_time (pbConvertToGnssSystemTimeStructType (navicsystemtime pbSysTimeStructUnion))
  else sysTimeStructUnion.

Definition pbConvertToGnssSystemTime (pbGnssSysTime : PBLocApiGnssSystemTime)
    (gnssSysTime : GnssSystemTime) : GnssSystemTime :=
  let gnssSystemTimeSrc :=
    getEnumForPBGnssLocSvSystem (PBLocApiGnssSystemTime_gnssSystemTimeSrc pbGnssSysTime) in
  {| GnssSystemTime_gnssSystemTimeSrc := gnssSystemTimeSrc;
     GnssSystemTime_u := pbConvertToSystemTimeStructUnion gnssSystemTimeSrc
       (PBLocApiGnssSystemTime_u pbGnssSysTime) (GnssSystemTime_u gnssSysTime) |}.

Definition pbConvertToGnssMeasUsageInfo (pbGnssMeasUsageInfo : PBGnssMeasUsageInfo)
    (gnssMeasUsageInfo : GnssMeasUsageInfo) : GnssMeasUsageInfo := {|
  GnssMeasUsageInfo_gnssSignalType :=
    getGnssSignalTypeMaskFromPB (PBGnssMeasUsageInfo_gnssSignalType pbGnssMeasUsageInfo);
  GnssMeasUsageInfo_gnssConstellation :=
    getEnumForPBGnssLocSvSystem (PBGnssMeasUsageInfo_gnssConstellation pbGnssMeasUsageInfo);
  GnssMeasUsageInfo_gnssSvId := wrap_u 16 (PBGnssMeasUsageInfo_gnssSvId pbGnssMeasUsageInfo) |}.

Definition pbConvertToGnssLocInfoNotif (pbGnssLocInfoNotif : PBGnssLocationInfoNotification)
    (gnssLocInfoNotif : GnssLocationInfoNotification) : option GnssLocationInfoNotification :=
  let '(bodyFrameData, bodyFrameDataExt) := pbConvertToGnssLocationPositionDynamics
    (PBGnssLocationInfoNotification_bodyFrameData pbGnssLocInfoNotif) in
  let numOfMeasReceived :=
    Z.min (PBGnssLocationInfoNotification_numOfMeasReceived pbGnssLocInfoNotif)
    GNSS_SV_MAX in
  measUsageInfo ← for_ (Z.to_nat numOfMeasReceived) 0 (fun iter measUsageInfo =>
    m ← PBGnssLocationInfoNotification_measUsageInfo pbGnssLocInfoNotif !! iter;
    write_at measUsageInfo iter (pbConvertToGnssMeasUsageInfo m))
    (GnssLocationInfoNotification_measUsageInfo gnssLocInfoNotif);
  enuVelocityVRPBased ← for_ 3 0 (fun i enuVelocityVRPBased =>
    v ← PBGnssLocationInfoNotification_enuVelocityVRPBased pbGnssLocInfoNotif !! i;
    write_at enuVelocityVRPBased i
      (fun _ => v)) (GnssLocationInfoNotification_enuVelocityVRPBased gnssLocInfoNotif);
  Some {|
    GnssLocationInfoNotification_location :=
      pbConvertToLocation (PBGnssLocationInfoNotification_location pbGnssLocInfoNotif)
        (GnssLocationInfoNotification_location gnssLocInfoNotif);
    GnssLocationInfoNotification_flags :=
      getGnssLocationInfoFlagMaskFromPB
        (PBGnssLocationInfoNotification_flags pbGnssLocInfoNotif)
        (PBGnssLocationInfoNotification_extFlags pbGnssLocInfoNotif);
    GnssLocationInfoNotification_altitudeMeanSeaLevel :=
      PBGnssLocationInfoNotification_altitudeMeanSeaLevel pbGnssLocInfoNotif;
    GnssLocationInfoNotification_pdop := PBGnssLocationInfoNotification_pdop pbGnssLocInfoNotif;
    GnssLocationInfoNotification_hdop := PBGnssLocationInfoNotification_hdop pbGnssLocInfoNotif;
    GnssLocationInfoNotification_vdop := PBGnssLocationInfoNotification_vdop pbGnssLocInfoNotif;
    GnssLocationInfoNotification_gdop := PBGnssLocationInfoNotification_gdop pbGnssLocInfoNotif;
    GnssLocationInfoNotification_tdop := PBGnssLocationInfoNotification_tdop pbGnssLocInfoNotif;
    GnssLocationInfoNotification_magneticDeviation :=
      PBGnssLocationInfoNotification_magneticDeviation pbGnssLocInfoNotif;
    GnssLocationInfoNotification_horReliability :=
      getEnumForPBLocReliability (PBGnssLocationInfoNotification_horReliability pbGnssLocInfoNotif);
    GnssLocationInfoNotification_verReliability :=
      getEnumForPBLocReliability (PBGnssLocationInfoNotification_verReliability pbGnssLocInfoNotif);
    GnssLocationInfoNotification_horUncEllipseSemiMajor :=
      PBGnssLocationInfoNotification_horUncEllipseSemiMajor pbGnssLocInfoNotif;
    GnssLocationInfoNotification_horUncEllipseSemiMinor :=
      PBGnssLocationInfoNotification_horUncEllipseSemiMinor pbGnssLocInfoNotif;
    GnssLocationInfoNotification_horUncEllipseOrientAzimuth :=
      PBGnssLocationInfoNotification_horUncEllipseOrientAzimuth pbGnssLocInfoNotif;
    GnssLocationInfoNotification_northStdDeviation :=
      PBGnssLocationInfoNotification_northStdDeviation pbGnssLocInfoNotif;
    GnssLocationInfoNotification_eastStdDeviation :=
      PBGnssLocationInfoNotification_eastStdDeviation pbGnssLocInfoNotif;
    GnssLocationInfoNotification_northVelocity :=
      PBGnssLocationInfoNotification_northVelocity pbGnssLocInfoNotif;
    GnssLocationInfoNotification_eastVelocity :=
      PBGnssLocationInfoNotification_eastVelocity pbGnssLocInfoNotif;
    GnssLocationInfoNotification_upVelocity :=
      PBGnssLocationInfoNotification_upVelocity pbGnssLocInfoNotif;
    GnssLocationInfoNotification_northVelocityStdDeviation :=
      PBGnssLocationInfoNotification_northVelocityStdDeviation pbGnssLocInfoNotif;
    GnssLocationInfoNotification_eastVelocityStdDeviation :=
      PBGnssLocationInfoNotification_eastVelocityStdDeviation pbGnssLocInfoNotif;
    GnssLocationInfoNotification_upVelocityStdDeviation :=
      PBGnssLocationInfoNotification_upVelocityStdDeviation pbGnssLocInfoNotif;
    GnssLocationInfoNotification_numSvUsedInPosition :=
      wrap_u 16 (PBGnssLocationInfoNotification_numSvUsedInPosition pbGnssLocInfoNotif);
    GnssLocationInfoNotification_svUsedInPosition :=
      pbConvertToGnssLocationSvUsedInPosition
        (PBGnssLocationInfoNotification_svUsedInPosition pbGnssLocInfoNotif)
        (GnssLocationInfoNotification_svUsedInPosition gnssLocInfoNotif);
    GnssLocationInfoNotification_navSolutionMask :=
      getGnssLocationNavSolutionMaskFromPB
        (PBGnssLocationInfoNotification_navSolutionMask pbGnssLocInfoNotif);
    GnssLocationInfoNotification_bodyFrameData := bodyFrameData;
    GnssLocationInfoNotification_gnssSystemTime :=
      pbConvertToGnssSystemTime
        (PBGnssLocationInfoNotification_gnssSystemTime pbGnssLocInfoNotif)
        (GnssLocationInfoNotification_gnssSystemTime gnssLocInfoNotif);
    GnssLocationInfoNotification_numOfMeasReceived := numOfMeasReceived;
    GnssLocationInfoNotification_measUsageInfo := measUsageInfo;
    GnssLocationInfoNotification_leapSeconds :=
      wrap_u 8 (PBGnssLocationInfoNotification_leapSeconds pbGnssLocInfoNotif);
    GnssLocationInfoNotification_timeUncMs :=
      PBGnssLocationInfoNotification_timeUncMs pbGnssLocInfoNotif;
    GnssLocationInfoNotification_calibrationConfidence :=
      wrap_u 8 (PBGnssLocationInfoNotification_calibrationConfidence pbGnssLocInfoNotif);
    GnssLocationInfoNotification_calibrationStatus :=
      wrap_u 16 (getDrCalibrationStatusMaskFromPB
        (PBGnssLocationInfoNotification_calibrationStatus pbGnssLocInfoNotif));
    GnssLocationInfoNotification_locOutputEngType :=
      getEnumForPBLocOutputEngineType
        (PBGnssLocationInfoNotification_locOutputEngType pbGnssLocInfoNotif);
    GnssLocationInfoNotification_locOutputEngMask :=
      getEnumForPBPositioningEngineMask
        (PBGnssLocationInfoNotification_locOutputEngMask pbGnssLocInfoNotif);
    GnssLocationInfoNotification_conformityIndex :=
      PBGnssLocationInfoNotification_conformityIndex pbGnssLocInfoNotif;
    GnssLocationInfoNotification_bodyFrameDataExt := bodyFrameDataExt;
    GnssLocationInfoNotification_llaVRPBased :=
      pbConvertToLLAInfo (PBGnssLocationInfoNotification_llaVRPBased pbGnssLocInfoNotif)
        (GnssLocationInfoNotification_llaVRPBased gnssLocInfoNotif);
    GnssLocationInfoNotification_enuVelocityVRPBased := enuVelocityVRPBased;
    GnssLocationInfoNotification_drSolutionStatusMask :=
      getDrSolutionStatusMaskFromPB
        (PBGnssLocationInfoNotification_drSolutionStatusMask pbGnssLocInfoNotif);
    GnssLocationInfoNotification_altitudeAssumed :=
      PBGnssLocationInfoNotification_altitudeAssumed pbGnssLocInfoNotif;
    GnssLocationInfoNotification_sessionStatus :=
      getLocSessionStatusFromPB
        (PBGnssLocationInfoNotification_sessionStatus pbGnssLocInfoNotif) |}.

(** The body of the loop over the satellites. *)
Definition gnssSv_of_pb (pPbGnssSv : PBLocApiGnssSv) (gnssSv : GnssSv) : GnssSv := {|
  GnssSv_svId := wrap_u 16 (PBLocApiGnssSv_svId pPbGnssSv);
  GnssSv_type := getGnssSvTypeFromPBGnssLocSvSystemEnumType (PBLocApiGnssSv_type pPbGnssSv);
  GnssSv_cN0Dbhz := PBLocApiGnssSv_cN0Dbhz pPbGnssSv;
  GnssSv_elevation := PBLocApiGnssSv_elevation pPbGnssSv;
  GnssSv_azimuth := PBLocApiGnssSv_azimuth pPbGnssSv;
  GnssSv_gnssSvOptionsMask :=
    wrap_u 16 (getGnssSvOptionsMaskFromPB (PBLocApiGnssSv_gnssSvOptionsMask pPbGnssSv));
  GnssSv_carrierFrequencyHz := PBLocApiGnssSv_carrierFrequencyHz pPbGnssSv;
  GnssSv_gnssSignalTypeMask :=
    getGnssSignalTypeMaskFromPB (PBLocApiGnssSv_gnssSignalTypeMask pPbGnssSv);
  GnssSv_basebandCarrierToNoiseDbHz := PBLocApiGnssSv_basebandCarrierToNoiseDbHz pPbGnssSv;
  GnssSv_gloFrequency := wrap_u 16 (PBLocApiGnssSv_gloFrequency pPbGnssSv) |}.
Definition pbConvertToGnssSvNotif (pbGnssSvNotif : PBLocApiGnssSvNotification)
    (gnssSvNotif : GnssSvNotification) : option GnssSvNotification :=
  let count :=
    Z.min (Z.of_nat (length (PBLocApiGnssSvNotification_gnssSvs pbGnssSvNotif))) GNSS_SV_MAX in
  gnssSvs ← for_ (Z.to_nat count) 0 (fun i gnssSvs =>
    pPbGnssSv ← PBLocApiGnssSvNotification_gnssSvs pbGnssSvNotif !! i;
    write_at gnssSvs i (gnssSv_of_pb pPbGnssSv)) (GnssSvNotification_gnssSvs gnssSvNotif);
  Some {|
    GnssSvNotification_count := count;
    GnssSvNotification_gnssSignalTypeMaskValid :=
      PBLocApiGnssSvNotification_gnssSignalTypeMaskValid pbGnssSvNotif;
    GnssSvNotification_gnssSvs := gnssSvs |}.

Definition pbConvertToLocAPINmeaSerializedPayload
    (pbLocApiNmeaSerPayload : PBLocAPINmeaSerializedPayload)
    (locApiNmeaSerPayload : LocAPINmeaSerializedPayload) : LocAPINmeaSerializedPayload :=
      {|
  LocAPINmeaSerializedPayload_timestamp :=
    PBLocAPINmeaSerializedPayload_timestamp pbLocApiNmeaSerPayload;
  LocAPINmeaSerializedPayload_nmea := PBLocAPINmeaSerializedPayload_nmea pbLocApiNmeaSerPayload |}.

Definition pbConvertToGnssDataNotification (pbGnssDataNotif : PBGnssDataNotification)
    (gnssDataNotif : GnssDataNotification) : option GnssDataNotification :=
  let arrMaxLen := Z.min (PBGnssDataNotification_numberSignalTypes pbGnssDataNotif)
    GNSS_LOC_MAX_NUMBER_OF_SIGNAL_TYPES in
  for_ (Z.to_nat arrMaxLen) 0 (fun i n =>
    mask ← PBGnssDataNotification_gnssDataMask pbGnssDataNotif !! i;
    gnssDataMask ← write_at (GnssDataNotification_gnssDataMask n) i
      (fun _ => getGnssDataMaskFromPB mask);
    ind ← PBGnssDataNotification_jammerInd pbGnssDataNotif !! i;
    jammerInd ← write_at (GnssDataNotification_jammerInd n) i (fun _ => ind);
    a ← PBGnssDataNotification_agc pbGnssDataNotif !! i;
    agc ← write_at (GnssDataNotification_agc n) i (fun _ => a);
    Some {|
      GnssDataNotification_gnssDataMask := gnssDataMask;
      GnssDataNotification_jammerInd := jammerInd;
      GnssDataNotification_agc := agc |}) gnssDataNotif.

Definition pbConvertToGnssMeasurementsData (pbGnssMeasData : PBGnssMeasurementsData)
    (gnssMeasData : GnssMeasurementsData) : GnssMeasurementsData := {|
  GnssMeasurementsData_flags :=
    getGnssMeasurementsDataFlagsMaskFromPB (PBGnssMeasurementsData_flags pbGnssMeasData);
  GnssMeasurementsData_svId := wrap_s 16 (PBGnssMeasurementsData_svId pbGnssMeasData);
  GnssMeasurementsData_svType :=
    getGnssSvTypeFromPBGnssLocSvSystemEnumType (PBGnssMeasurementsData_svType pbGnssMeasData);
  GnssMeasurementsData_timeOffsetNs := PBGnssMeasurementsData_timeOffsetNs pbGnssMeasData;
  GnssMeasurementsData_stateMask := PBGnssMeasurementsData_stateMask pbGnssMeasData;
  GnssMeasurementsData_receivedSvTimeNs := PBGnssMeasurementsData_receivedSvTimeNs pbGnssMeasData;
  GnssMeasurementsData_receivedSvTimeUncertaintyNs :=
    PBGnssMeasurementsData_receivedSvTimeUncertaintyNs pbGnssMeasData;
  GnssMeasurementsData_carrierToNoiseDbHz :=
    PBGnssMeasurementsData_carrierToNoiseDbHz pbGnssMeasData;
  GnssMeasurementsData_pseudorangeRateMps :=
    PBGnssMeasurementsData_pseudorangeRateMps pbGnssMeasData;
  GnssMeasurementsData_pseudorangeRateUncertaintyMps :=
    PBGnssMeasurementsData_pseudorangeRateUncertaintyMps pbGnssMeasData;
  GnssMeasurementsData_adrStateMask :=
    wrap_u 16 (getGnssMeasurementsAdrStateMaskFromPB
      (PBGnssMeasurementsData_adrStateMask pbGnssMeasData));
  GnssMeasurementsData_adrMeters := PBGnssMeasurementsData_adrMeters pbGnssMeasData;
  GnssMeasurementsData_adrUncertaintyMeters :=
    PBGnssMeasurementsData_adrUncertaintyMeters pbGnssMeasData;
  GnssMeasurementsData_carrierFrequencyHz :=
    PBGnssMeasurementsData_carrierFrequencyHz pbGnssMeasData;
  GnssMeasurementsData_carrierCycles := PBGnssMeasurementsData_carrierCycles pbGnssMeasData;
  GnssMeasurementsData_carrierPhase := PBGnssMeasurementsData_carrierPhase pbGnssMeasData;
  GnssMeasurementsData_carrierPhaseUncertainty :=
    PBGnssMeasurementsData_carrierPhaseUncertainty pbGnssMeasData;
  GnssMeasurementsData_multipathIndicator :=
    getEnumForPBGnssMeasMultipathIndic (PBGnssMeasurementsData_multipathIndicator pbGnssMeasData);
  GnssMeasurementsData_signalToNoiseRatioDb :=
    PBGnssMeasurementsData_signalToNoiseRatioDb pbGnssMeasData;
  GnssMeasurementsData_agcLevelDb := PBGnssMeasurementsData_agcLevelDb pbGnssMeasData;
  GnssMeasurementsData_codeType := GnssMeasurementsData_codeType gnssMeasData;
  GnssMeasurementsData_otherCodeTypeName := GnssMeasurementsData_otherCodeTypeName gnssMeasData;
  GnssMeasurementsData_basebandCarrierToNoiseDbHz :=
    PBGnssMeasurementsData_basebandCarrierToNoiseDbHz pbGnssMeasData;
  GnssMeasurementsData_gnssSignalType :=
    getGnssSignalTypeMaskFromPB (PBGnssMeasurementsData_gnssSignalType pbGnssMeasData);
  GnssMeasurementsData_fullInterSignalBiasNs :=
    PBGnssMeasurementsData_fullInterSignalBiasNs pbGnssMeasData;
  GnssMeasurementsData_fullInterSignalBiasUncertaintyNs :=
    PBGnssMeasurementsData_fullInterSignalBiasUncertaintyNs pbGnssMeasData;
  GnssMeasurementsData_satelliteInterSignalBiasNs :=
    GnssMeasurementsData_satelliteInterSignalBiasNs gnssMeasData;
  GnssMeasurementsData_satelliteInterSignalBiasUncertaintyNs :=
    GnssMeasurementsData_satelliteInterSignalBiasUncertaintyNs gnssMeasData;
  GnssMeasurementsData_gloFrequency := GnssMeasurementsData_gloFrequency gnssMeasData;
  GnssMeasurementsData_cycleSlipCount :=
    wrap_u 8 (PBGnssMeasurementsData_cycleSlipCount pbGnssMeasData) |}.

Definition pbConvertToGnssMeasurementsClock (pbGnssMeasClock : PBGnssMeasurementsClock)
    (gnssMeasClock : GnssMeasurementsClock) : GnssMeasurementsClock := {|
  GnssMeasurementsClock_flags :=
    getGnssMeasurementsClockFlagsMaskFromPB (PBGnssMeasurementsClock_flags pbGnssMeasClock);
  GnssMeasurementsClock_leapSecond :=
    wrap_s 16 (PBGnssMeasurementsClock_leapSecond pbGnssMeasClock);
  GnssMeasurementsClock_timeNs := PBGnssMeasurementsClock_timeNs pbGnssMeasClock;
  GnssMeasurementsClock_timeUncertaintyNs :=
    PBGnssMeasurementsClock_timeUncertaintyNs pbGnssMeasClock;
  GnssMeasurementsClock_fullBiasNs := PBGnssMeasurementsClock_fullBiasNs pbGnssMeasClock;
  GnssMeasurementsClock_biasNs := PBGnssMeasurementsClock_biasNs pbGnssMeasClock;
  GnssMeasurementsClock_biasUncertaintyNs :=
    PBGnssMeasurementsClock_biasUncertaintyNs pbGnssMeasClock;
  GnssMeasurementsClock_driftNsps := PBGnssMeasurementsClock_driftNsps pbGnssMeasClock;
  GnssMeasurementsClock_driftUncertaintyNsps :=
    PBGnssMeasurementsClock_driftUncertaintyNsps pbGnssMeasClock;
  GnssMeasurementsClock_hwClockDiscontinuityCount :=
    PBGnssMeasurementsClock_hwClockDiscontinuityCount pbGnssMeasClock;
  GnssMeasurementsClock_referenceSignalTypeForIsb :=
    GnssMeasurementsClock_referenceSignalTypeForIsb gnssMeasClock;
  GnssMeasurementsClock_elapsedRealTime := GnssMeasurementsClock_elapsedRealTime gnssMeasClock;
  GnssMeasurementsClock_elapsedRealTimeUnc :=
    GnssMeasurementsClock_elapsedRealTimeUnc gnssMeasClock |}.

Definition pbConvertToGnssMeasNotification (pbGnssMeasNotif : PBGnssMeasurementsNotification)
    (gnssMeasNotif : GnssMeasurementsNotification) : option GnssMeasurementsNotification :=
  let count := length (PBGnssMeasurementsNotification_measurements pbGnssMeasNotif) in
  measurements ← for_ count 0 (fun i measurements =>
    d ← PBGnssMeasurementsNotification_measurements pbGnssMeasNotif !! i;
    write_at measurements i (pbConvertToGnssMeasurementsData d))
    (GnssMeasurementsNotification_measurements gnssMeasNotif);
  Some {|
    GnssMeasurementsNotification_count := Z.of_nat count;
    GnssMeasurementsNotification_measurements := measurements;
    GnssMeasurementsNotification_clock :=
      pbConvertToGnssMeasurementsClock (PBGnssMeasurementsNotification_clock pbGnssMeasNotif)
        (GnssMeasurementsNotification_clock gnssMeasNotif) |}.

Definition pbConvertToLeapSecChgInfo (pbLeapSecChgInfo : PBLeapSecondChangeInfo)
    (leapSecChgInfo : LeapSecondChangeInfo) : LeapSecondChangeInfo := {|
  LeapSecondChangeInfo_gpsTimestampLsChange :=
    pbConvertToGnssSystemTimeStructType
      (PBLeapSecondChangeInfo_gpsTimestampLsChange pbLeapSecChgInfo);
  LeapSecondChangeInfo_leapSecondsBeforeChange :=
    wrap_u 8 (PBLeapSecondChangeInfo_leapSecondsBeforeChange pbLeapSecChgInfo);
  LeapSecondChangeInfo_leapSecondsAfterChange :=
    wrap_u 8 (PBLeapSecondChangeInfo_leapSecondsAfterChange pbLeapSecChgInfo) |}.

Definition pbConvertToLeapSecSysInfo (pbLeapSecSysInfo : PBLeapSecondSystemInfo)
    (leapSecSysInfo : LeapSecondSystemInfo) : LeapSecondSystemInfo := {|
  LeapSecondSystemInfo_leapSecondInfoMask :=
    getLeapSecSysInfoMaskFromPB (PBLeapSecondSystemInfo_leapSecondInfoMask pbLeapSecSysInfo);
  LeapSecondSystemInfo_leapSecondCurrent :=
    wrap_u 8 (PBLeapSecondSystemInfo_leapSecondCurrent pbLeapSecSysInfo);
  LeapSecondSystemInfo_leapSecondChangeInfo :=
    pbConvertToLeapSecChgInfo (PBLeapSecondSystemInfo_leapSecondChangeInfo pbLeapSecSysInfo)
      (LeapSecondSystemInfo_leapSecondChangeInfo leapSecSysInfo) |}.

Definition pbConvertToLocationSystemInfo (pbLocSysInfo : PBLocationSystemInfo)
    (locSysInfo : LocationSystemInfo) : LocationSystemInfo := {|
  LocationSystemInfo_systemInfoMask :=
    getLocationSystemInfoMaskFromPB (PBLocationSystemInfo_systemInfoMask pbLocSysInfo);
  LocationSystemInfo_leapSecondSysInfo :=
    pbConvertToLeapSecSysInfo (PBLocationSystemInfo_leapSecondSysInfo pbLocSysInfo)
      (LocationSystemInfo_leapSecondSysInfo locSysInfo) |}.

Definition pbConvertToLocationOptions (pbLocOpt : PBLocationOptions)
    (locOpt : LocationOptions) : LocationOptions := {|
  LocationOptions_minInterval := PBLocationOptions_minInterval pbLocOpt;
  LocationOptions_minDistance := PBLocationOptions_minDistance pbLocOpt;
  LocationOptions_mode := getEnumForPBGnssSuplMode (PBLocationOptions_mode pbLocOpt);
  LocationOptions_locReqEngTypeMask :=
    getLocReqEngineTypeMaskFromPB (PBLocationOptions_locReqEngTypeMask pbLocOpt) |}.

Definition pbConvertToGeofenceOption (pbGfOpt : PBGeofenceOption)
    (gfOpt : GeofenceOption) : GeofenceOption := {|
  GeofenceOption_breachTypeMask :=
    wrap_u 16 (getGfBreachTypeMaskFromPB (PBGeofenceOption_breachTypeMask pbGfOpt));
  GeofenceOption_responsiveness := PBGeofenceOption_responsiveness pbGfOpt;
  GeofenceOption_dwellTime := PBGeofenceOption_dwellTime pbGfOpt |}.

Definition pbConvertToGeofenceInfo (pbGfInfo : PBGeofenceInfo)
    (gfInfo : GeofenceInfo) : GeofenceInfo := {|
  GeofenceInfo_latitude := PBGeofenceInfo_latitude pbGfInfo;
  GeofenceInfo_longitude := PBGeofenceInfo_longitude pbGfInfo;
  GeofenceInfo_radius := PBGeofenceInfo_radius pbGfInfo |}.

Definition pbConvertToGfAddReqPayload (pbGfAddReqPload : PBGeofencesAddedReqPayload)
    (gfAddReqPload : GeofencesAddedReqPayload) : option GeofencesAddedReqPayload :=
  let gfCount := length (PBGeofencesAddedReqPayload_gfPayload pbGfAddReqPload) in
  gfPayload ← for_ gfCount 0 (fun i gfPayload =>
    pbGfPayload ← PBGeofencesAddedReqPayload_gfPayload pbGfAddReqPload !! i;
    write_at gfPayload i (fun p => {|
      GeofencePayload_gfClientId := PBGeofencePayload_gfClientId pbGfPayload;
      GeofencePayload_gfOption :=
        pbConvertToGeofenceOption (PBGeofencePayload_gfOption pbGfPayload)
          (GeofencePayload_gfOption p);
      GeofencePayload_gfInfo :=
        pbConvertToGeofenceInfo (PBGeofencePayload_gfInfo pbGfPayload)
          (GeofencePayload_gfInfo p) |}))
    (GeofencesAddedReqPayload_gfPayload gfAddReqPload);
  Some {|
    GeofencesAddedReqPayload_count := Z.of_nat gfCount;
    GeofencesAddedReqPayload_gfPayload := gfPayload |}.

Definition pbConvertToGfReqClientIdPayload (pbGfReqClientIdPload : PBGeofencesReqClientIdPayload)
    (gfReqClientIdPload : GeofencesReqClientIdPayload) : option GeofencesReqClientIdPayload :=
  let gfCount := length (PBGeofencesReqClientIdPayload_gfIds pbGfReqClientIdPload) in
  gfIds ← for_ gfCount 0 (fun i gfIds =>
    id ← PBGeofencesReqClientIdPayload_gfIds pbGfReqClientIdPload !! i;
    write_at gfIds i (fun _ => id)) (GeofencesReqClientIdPayload_gfIds gfReqClientIdPload);
  Some {|
    GeofencesReqClientIdPayload_count := Z.of_nat gfCount;
    GeofencesReqClientIdPayload_gfIds := gfIds |}.

Definition pbConvertToGnssSvTypeConfig (pbGnssSvTypeConfig : PBGnssSvTypeConfig)
    (gnssSvTypeConfig : GnssSvTypeConfig) : GnssSvTypeConfig := {|
  GnssSvTypeConfig_enabledSvTypesMask :=
    getGnssSvTypesMaskFromPB (PBGnssSvTypeConfig_enabledSvTypesMask pbGnssSvTypeConfig);
  GnssSvTypeConfig_blacklistedSvTypesMask :=
    getGnssSvTypesMaskFromPB (PBGnssSvTypeConfig_blacklistedSvTypesMask pbGnssSvTypeConfig) |}.

Definition pbConvertToGnssSvIdConfig (pbGnssSvIdConfig : PBGnssSvIdConfig)
    (gnssSvIdConfig : GnssSvIdConfig) : GnssSvIdConfig := {|
  GnssSvIdConfig_gloBlacklistSvMask := PBGnssSvIdConfig_gloBlacklistSvMask pbGnssSvIdConfig;
  GnssSvIdConfig_bdsBlacklistSvMask := PBGnssSvIdConfig_bdsBlacklistSvMask pbGnssSvIdConfig;
  GnssSvIdConfig_qzssBlacklistSvMask := PBGnssSvIdConfig_qzssBlacklistSvMask pbGnssSvIdConfig;
  GnssSvIdConfig_galBlacklistSvMask := PBGnssSvIdConfig_galBlacklistSvMask pbGnssSvIdConfig;
  GnssSvIdConfig_sbasBlacklistSvMask := PBGnssSvIdConfig_sbasBlacklistSvMask pbGnssSvIdConfig;
  GnssSvIdConfig_navicBlacklistSvMask := PBGnssSvIdConfig_navicBlacklistSvMask pbGnssSvIdConfig |}.

Definition pbConvertToGnssAidingData (pbGnssAidData : PBAidingData)
    (gnssAidData : GnssAidingData) : GnssAidingData := {|
  GnssAidingData_deleteAll := PBAidingData_deleteAll pbGnssAidData;
  GnssAidingData_sv :=
    MkGnssAidingDataSv (getGnssAidingDataSvMaskFromPB
      (PBAidingData_gnssAidingDataSvMask pbGnssAidData))
      (GnssAidingDataSv_svTypeMask (GnssAidingData_sv gnssAidData));
  GnssAidingData_common := GnssAidingData_common gnssAidData;
  GnssAidingData_dreAidingDataMask :=
    getDrEngineAidingDataMaskFromPB (PBAidingData_dreAidingDataMask pbGnssAidData);
  GnssAidingData_posEngineMask :=
    getEnumForPBPositioningEngineMask (PBAidingData_posEngineMask pbGnssAidData) |}.

Definition pbConvertToLeverArmParams (pbLeverArmParams : PBLIALeverArmParams)
    (leverArmParams : LeverArmParams) : LeverArmParams := {|
  LeverArmParams_forwardOffsetMeters := PBLIALeverArmParams_forwardOffsetMeters pbLeverArmParams;
  LeverArmParams_sidewaysOffsetMeters := PBLIALeverArmParams_sidewaysOffsetMeters pbLeverArmParams;
  LeverArmParams_upOffsetMeters := PBLIALeverArmParams_upOffsetMeters pbLeverArmParams |}.

Definition pbConvertToLeverArmConfigInfo (pbLeverArmCfgInfo : PBLIALeverArmConfigInfo)
    (leverArmCfgInfo : LeverArmConfigInfo) : LeverArmConfigInfo := {|
  LeverArmConfigInfo_leverArmValidMask :=
    getLeverArmTypeMaskFromPB (PBLIALeverArmConfigInfo_leverArmValidMask pbLeverArmCfgInfo);
  LeverArmConfigInfo_gnssToVRP :=
    pbConvertToLeverArmParams (PBLIALeverArmConfigInfo_gnssToVRP pbLeverArmCfgInfo)
      (LeverArmConfigInfo_gnssToVRP leverArmCfgInfo);
  LeverArmConfigInfo_drImuToGnss :=
    pbConvertToLeverArmParams (PBLIALeverArmConfigInfo_drImuToGnss pbLeverArmCfgInfo)
      (LeverArmConfigInfo_drImuToGnss leverArmCfgInfo);
  LeverArmConfigInfo_veppImuToGnss :=
    pbConvertToLeverArmParams (PBLIALeverArmConfigInfo_veppImuToGnss pbLeverArmCfgInfo)
      (LeverArmConfigInfo_veppImuToGnss leverArmCfgInfo) |}.

Definition pbConvertToBodyToSensorMountParams (pbBody2SensorMntParam : PBLIABodyToSensorMountParams)
    (body2SensorMntParam : BodyToSensorMountParams) : BodyToSensorMountParams := {|
  BodyToSensorMountParams_rollOffset :=
    PBLIABodyToSensorMountParams_rollOffset pbBody2SensorMntParam;
  BodyToSensorMountParams_yawOffset := PBLIABodyToSensorMountParams_yawOffset pbBody2SensorMntParam;
  BodyToSensorMountParams_pitchOffset :=
    PBLIABodyToSensorMountParams_pitchOffset pbBody2SensorMntParam;
  BodyToSensorMountParams_offsetUnc :=
    PBLIABodyToSensorMountParams_offsetUnc pbBody2SensorMntParam |}.

Definition pbConvertToDeadReckoningEngineConfig (pbDrEngConfig : PBDeadReckoningEngineConfig)
    (drEngConfig : DeadReckoningEngineConfig) : DeadReckoningEngineConfig := {|
  DeadReckoningEngineConfig_validMask :=
    getDeadReckoningEngineConfigValidMaskFromPB
      (PBDeadReckoningEngineConfig_validMask pbDrEngConfig);
  DeadReckoningEngineConfig_bodyToSensorMountParams :=
    pbConvertToBodyToSensorMountParams
      (PBDeadReckoningEngineConfig_bodyToSensorMountParams pbDrEngConfig)
      (DeadReckoningEngineConfig_bodyToSensorMountParams drEngConfig);
  DeadReckoningEngineConfig_vehicleSpeedScaleFactor :=
    PBDeadReckoningEngineConfig_vehicleSpeedScaleFactor pbDrEngConfig;
  DeadReckoningEngineConfig_vehicleSpeedScaleFactorUnc :=
    PBDeadReckoningEngineConfig_vehicleSpeedScaleFactorUnc pbDrEngConfig;
  DeadReckoningEngineConfig_gyroScaleFactor :=
    PBDeadReckoningEngineConfig_gyroScaleFactor pbDrEngConfig;
  DeadReckoningEngineConfig_gyroScaleFactorUnc :=
    PBDeadReckoningEngineConfig_gyroScaleFactorUnc pbDrEngConfig |}.
