(* ===== verification/PbMsgArrive.v ===== *)
(** LocationApiPbMsgConv.cpp: what a receiver finds in a struct that was sent as
    a message.  [X_arrived v x] is an [X] that was filled in from the message
    for [v] and had the value [x] before; where it is not used, everything
    arrives as it was. *)

From stdpp Require Import list.
From S2P Require Import Prelude Masks LocationEnums PbConversions LocationApiPbMsgConv.
From S2P Require Import ApiStructs PbMessages PbMsgConv.

Local Open Scope Z_scope.

(** What arrives of a mask and of an enumeration, LocationApiPbMsgConv.v. *)
Definition mask_arriving (c : mask_conversion) (m : Z) : Z := Z.land m (kept (constants c) (lost c)).
Definition enum_arriving (c : enum_conversion) (x : Z) : Z :=
  if decide (x ∈ unchanged (values c) (changed c)) then x else fallback c.

(** The mask of the state of a measurement is converted on one side only, and
    so are the masks of constellations and of signal data. *)
Definition stateMask_kept : Z :=
  kept (GnssMeasurementsStateBits_val <$> GnssMeasurementsStateBits_all)
    [GNSS_MEASUREMENTS_STATE_TOW_KNOWN_BIT : Z; GNSS_MEASUREMENTS_STATE_GLO_TOD_KNOWN_BIT : Z;
     GNSS_MEASUREMENTS_STATE_2ND_CODE_LOCK_BIT : Z].

Create HintDb arrives.
Create Rewrite HintDb arrives.

Lemma stateMask_sent m : getPBMaskForGnssMeasurementsStateMask m = Z.land m stateMask_kept.
Proof. apply same_bits. vm_compute. reflexivity. Qed.
Lemma GnssSvTypesMask_received m :
  getGnssSvTypesMaskFromPB m = Z.land m (mask_of (GnssSvTypesMaskBits_val <$> GnssSvTypesMaskBits_all)).
Proof. apply same_bits. vm_compute. reflexivity. Qed.
Lemma GnssLocationInfoFlagMask_arrives m :
  getGnssLocationInfoFlagMaskFromPB (getPBMaskForGnssLocationInfoFlagMask m)
    (getPBMaskForGnssLocationInfoExtFlagMask m) =
  Z.land m (kept (GnssLocationInfoFlagBits_val <$> GnssLocationInfoFlagBits_all)
                 [GNSS_LOCATION_INFO_SV_SOURCE_INFO_BIT : Z]).
Proof. apply two_parts_arrive. vm_compute. reflexivity. Qed.
Lemma GnssLocationPosDataMask_arrives m e :
  getGnssLocationPosDataMaskFromPB (getPBMaskForGnssLocationPosDataMask m e) =
  Z.land m (mask_of (GnssLocationPosDataBits_val <$> GnssLocationPosDataBits_all)).
Proof. apply (one_part_arrives false). vm_compute. reflexivity. Qed.
Lemma GnssLocationPosDataMaskExt_arrives m e :
  getGnssLocationPosDataMaskExtFromPB (getPBMaskForGnssLocationPosDataMask m e) =
  Z.land e (mask_of (GnssLocationPosDataBitsExt_val <$> GnssLocationPosDataBitsExt_all)).
Proof. apply (one_part_arrives true). vm_compute. reflexivity. Qed.
Lemma GnssDataMask_received m : getGnssDataMaskFromPB m = mask_arriving GnssDataMask_conv m.
Proof. apply same_bits. vm_compute. reflexivity. Qed.
Lemma GeofenceBreachType_received m :
  getGfBreachTypeMaskFromPB m = mask_arriving GeofenceBreachTypeMask_conv m.
Proof. apply same_bits. vm_compute. reflexivity. Qed.
Lemma DrEngineAidingDataMask_conv_arrives m : getDrEngineAidingDataMaskFromPB
  (getPBMaskForDrEngineAidingDataMask m) = mask_arriving DrEngineAidingDataMask_conv m.
Proof. revert m. unfold mask_arriving, DrEngineAidingDataMask_conv; cbn [constants lost]. mask_arrives. Qed.
Lemma PositioningEngineMask_conv_arrives m : getEnumForPBPositioningEngineMask
  (getPBMaskForPositioningEngineMask m) = mask_arriving PositioningEngineMask_conv m.
Proof. revert m. unfold mask_arriving, PositioningEngineMask_conv; cbn [constants lost]. mask_arrives. Qed.
Lemma LeverArmTypeMask_conv_arrives m : getLeverArmTypeMaskFromPB
  (getPBMaskForLeverArmTypeMask m) = mask_arriving LeverArmTypeMask_conv m.
Proof. revert m. unfold mask_arriving, LeverArmTypeMask_conv; cbn [constants lost]. mask_arrives. Qed.
Lemma DeadReckoningEngineConfigValidMask_conv_arrives m : getDeadReckoningEngineConfigValidMaskFromPB
  (getPBMaskForDeadReckoningEngineConfigValidMask m) = mask_arriving DeadReckoningEngineConfigValidMask_conv m.
Proof. revert m. unfold mask_arriving, DeadReckoningEngineConfigValidMask_conv; cbn [constants lost]. mask_arrives. Qed.
Lemma LocReqEngineTypeMask_conv_arrives m : getLocReqEngineTypeMaskFromPB
  (getPBMaskForLocReqEngineTypeMask m) = mask_arriving LocReqEngineTypeMask_conv m.
Proof. revert m. unfold mask_arriving, LocReqEngineTypeMask_conv; cbn [constants lost]. mask_arrives. Qed.
Lemma GeofenceBreachTypeMask_conv_arrives m : getGfBreachTypeMaskFromPB
  (getPBMaskForGeofenceBreachTypeMask m) = mask_arriving GeofenceBreachTypeMask_conv m.
Proof. revert m. unfold mask_arriving, GeofenceBreachTypeMask_conv; cbn [constants lost]. mask_arrives. Qed.
Lemma GnssCfgRobustLocValidMask_conv_arrives m : getGnssConfigRobustLocationValidMaskFromPB
  (getPBMaskForGnssCfgRobustLocValidMask m) = mask_arriving GnssCfgRobustLocValidMask_conv m.
Proof. revert m. unfold mask_arriving, GnssCfgRobustLocValidMask_conv; cbn [constants lost]. mask_arrives. Qed.
Lemma LocationFlagsMask_conv_arrives m : getLocationFlagsMaskFromPB
  (getPBMaskForLocationFlagsMask m) = mask_arriving LocationFlagsMask_conv m.
Proof. revert m. unfold mask_arriving, LocationFlagsMask_conv; cbn [constants lost]. mask_arrives. Qed.
Lemma LocationTechnologyMask_conv_arrives m : getLocationTechnologyMaskFromPB
  (getPBMaskForLocationTechnologyMask m) = mask_arriving LocationTechnologyMask_conv m.
Proof. revert m. unfold mask_arriving, LocationTechnologyMask_conv; cbn [constants lost]. mask_arrives. Qed.
Lemma GnssSystemTimeStructTypeFlags_conv_arrives m : getGnssSystemTimeStructTypeFlagsFromPB
  (getPBMaskForGnssSystemTimeStructTypeFlags m) = mask_arriving GnssSystemTimeStructTypeFlags_conv m.
Proof. revert m. unfold mask_arriving, GnssSystemTimeStructTypeFlags_conv; cbn [constants lost]. mask_arrives. Qed.
Lemma GnssGloTimeStructTypeFlags_conv_arrives m : getGnssGloTimeStructTypeFlagsFromPB
  (getPBMaskForGnssGloTimeStructTypeFlags m) = mask_arriving GnssGloTimeStructTypeFlags_conv m.
Proof. revert m. unfold mask_arriving, GnssGloTimeStructTypeFlags_conv; cbn [constants lost]. mask_arrives. Qed.
Lemma GnssSignalTypeMask_conv_arrives m : getGnssSignalTypeMaskFromPB
  (getPBMaskForGnssSignalTypeMask m) = mask_arriving GnssSignalTypeMask_conv m.
Proof. revert m. unfold mask_arriving, GnssSignalTypeMask_conv; cbn [constants lost]. mask_arrives. Qed.
Lemma LeapSecondSysInfoMask_conv_arrives m : getLeapSecSysInfoMaskFromPB
  (getPBMaskForLeapSecondSysInfoMask m) = mask_arriving LeapSecondSysInfoMask_conv m.
Proof. revert m. unfold mask_arriving, LeapSecondSysInfoMask_conv; cbn [constants lost]. mask_arrives. Qed.
Lemma LocSysInfoMask_conv_arrives m : getLocationSystemInfoMaskFromPB
  (getPBMaskForLocSysInfoMask m) = mask_arriving LocSysInfoMask_conv m.
Proof. revert m. unfold mask_arriving, LocSysInfoMask_conv; cbn [constants lost]. mask_arrives. Qed.
Lemma GnssMeasurementsDataFlagsMask_conv_arrives m : getGnssMeasurementsDataFlagsMaskFromPB
  (getPBMaskForGnssMeasurementsDataFlagsMask m) = mask_arriving GnssMeasurementsDataFlagsMask_conv m.
Proof. revert m. unfold mask_arriving, GnssMeasurementsDataFlagsMask_conv; cbn [constants lost]. mask_arrives. Qed.
Lemma GnssMeasurementsAdrStateMask_conv_arrives m : getGnssMeasurementsAdrStateMaskFromPB
  (getPBMaskForGnssMeasurementsAdrStateMask m) = mask_arriving GnssMeasurementsAdrStateMask_conv m.
Proof. revert m. unfold mask_arriving, GnssMeasurementsAdrStateMask_conv; cbn [constants lost]. mask_arrives. Qed.
Lemma GnssMeasurementsClockFlagsMask_conv_arrives m : getGnssMeasurementsClockFlagsMaskFromPB
  (getPBMaskForGnssMeasurementsClockFlagsMask m) = mask_arriving GnssMeasurementsClockFlagsMask_conv m.
Proof. revert m. unfold mask_arriving, GnssMeasurementsClockFlagsMask_conv; cbn [constants lost]. mask_arrives. Qed.
Lemma GnssSvOptionsMask_conv_arrives m : getGnssSvOptionsMaskFromPB
  (getPBMaskForGnssSvOptionsMask m) = mask_arriving GnssSvOptionsMask_conv m.
Proof. revert m. unfold mask_arriving, GnssSvOptionsMask_conv; cbn [constants lost]. mask_arrives. Qed.
Lemma GnssLocationNavSolutionMask_conv_arrives m : getGnssLocationNavSolutionMaskFromPB
  (getPBMaskForGnssLocationNavSolutionMask m) = mask_arriving GnssLocationNavSolutionMask_conv m.
Proof. revert m. unfold mask_arriving, GnssLocationNavSolutionMask_conv; cbn [constants lost]. mask_arrives. Qed.
Lemma DrCalibrationStatusMask_conv_arrives m : getDrCalibrationStatusMaskFromPB
  (getPBMaskForDrCalibrationStatusMask m) = mask_arriving DrCalibrationStatusMask_conv m.
Proof. revert m. unfold mask_arriving, DrCalibrationStatusMask_conv; cbn [constants lost]. mask_arrives. Qed.
Lemma DrSolutionStatusMask_conv_arrives m : getDrSolutionStatusMaskFromPB
  (getPBMaskForDrSolutionStatusMask m) = mask_arriving DrSolutionStatusMask_conv m.
Proof. revert m. unfold mask_arriving, DrSolutionStatusMask_conv; cbn [constants lost]. mask_arrives. Qed.
Lemma GnssSuplMode_conv_arrives x :
  getEnumForPBGnssSuplMode (getPBEnumForGnssSuplMode x) = enum_arriving GnssSuplMode_conv x.
Proof. apply switch_all. vm_compute. reflexivity. Qed.
Lemma GnssLocSvSystem_conv_arrives x :
  getEnumForPBGnssLocSvSystem (getPBEnumForGnssLocSvSystem x) = enum_arriving GnssLocSvSystem_conv x.
Proof. apply switch_all. vm_compute. reflexivity. Qed.
Lemma GnssSvType_conv_arrives x :
  getGnssSvTypeFromPBGnssLocSvSystemEnumType (getPBGnssLocSvSysEnumFromGnssSvType x) = enum_arriving GnssSvType_conv x.
Proof. apply switch_all. vm_compute. reflexivity. Qed.
Lemma GnssMeasMultiPathIndic_conv_arrives x :
  getEnumForPBGnssMeasMultipathIndic (getPBEnumForGnssMeasMultiPathIndic x) = enum_arriving GnssMeasMultiPathIndic_conv x.
Proof. apply switch_all. vm_compute. reflexivity. Qed.
Lemma LocationReliability_conv_arrives x :
  getEnumForPBLocReliability (getPBEnumForLocationReliability x) = enum_arriving LocationReliability_conv x.
Proof. apply switch_all. vm_compute. reflexivity. Qed.
Lemma LocOutputEngineType_conv_arrives x :
  getEnumForPBLocOutputEngineType (getPBEnumForLocOutputEngineType x) = enum_arriving LocOutputEngineType_conv x.
Proof. apply switch_all. vm_compute. reflexivity. Qed.
Lemma LocSessionStatus_conv_arrives x :
  getLocSessionStatusFromPB (getPBEnumForLocSessionStatus x) = enum_arriving LocSessionStatus_conv x.
Proof. apply switch_all. vm_compute. reflexivity. Qed.
Lemma LocationError_conv_arrives x :
  getEnumForPBLocationError (getPBEnumForLocationError x) = enum_arriving LocationError_conv x.
Proof. apply switch_all. vm_compute. reflexivity. Qed.
Lemma BatchingStatus_conv_arrives x :
  getEnumForPBBatchingStatus (getPBEnumForBatchingStatus x) = enum_arriving BatchingStatus_conv x.
Proof. apply switch_all. vm_compute. reflexivity. Qed.
#[export] Hint Rewrite stateMask_sent GnssSvTypesMask_received
  DrEngineAidingDataMask_conv_arrives PositioningEngineMask_conv_arrives
  LeverArmTypeMask_conv_arrives DeadReckoningEngineConfigValidMask_conv_arrives
  LocReqEngineTypeMask_conv_arrives GeofenceBreachTypeMask_conv_arrives
  GnssCfgRobustLocValidMask_conv_arrives LocationFlagsMask_conv_arrives
  LocationTechnologyMask_conv_arrives GnssSystemTimeStructTypeFlags_conv_arrives
  GnssGloTimeStructTypeFlags_conv_arrives GnssSignalTypeMask_conv_arrives
  LeapSecondSysInfoMask_conv_arrives LocSysInfoMask_conv_arrives
  GnssMeasurementsDataFlagsMask_conv_arrives GnssMeasurementsAdrStateMask_conv_arrives
  GnssMeasurementsClockFlagsMask_conv_arrives GnssSvOptionsMask_conv_arrives
  GnssLocationNavSolutionMask_conv_arrives DrCalibrationStatusMask_conv_arrives
  DrSolutionStatusMask_conv_arrives GnssSuplMode_conv_arrives GnssLocSvSystem_conv_arrives
  GnssSvType_conv_arrives GnssMeasMultiPathIndic_conv_arrives LocationReliability_conv_arrives
  LocOutputEngineType_conv_arrives LocSessionStatus_conv_arrives LocationError_conv_arrives
  BatchingStatus_conv_arrives : arrives.

(** A mask that is received in a narrower member. *)
Definition fits (w : Z) (c : mask_conversion) : bool :=
  (0 <=? kept (constants c) (lost c)) && (kept (constants c) (lost c) <? 2 ^ w).
Lemma mask_arriving_wraps w c m :
  fits w c = true -> 0 <= w -> wrap_u w (mask_arriving c m) = mask_arriving c m.
Proof.
  intros [H1%Z.leb_le H2%Z.ltb_lt]%andb_prop Hw. unfold mask_arriving, wrap_u.
  rewrite <- Z.land_ones, <- Z.land_assoc by done. f_equal.
  rewrite Z.land_ones by done. by apply Z.mod_small.
Qed.

Lemma wrap_u_in w z : in_u w z = true -> wrap_u w z = z.
Proof. intros [H1%Z.leb_le H2%Z.ltb_lt]%andb_prop. by apply wrap_u_small. Qed.
Lemma wrap_s_in w z : 0 < w -> in_s w z = true -> wrap_s w z = z.
Proof. intros Hw [H1%Z.leb_le H2%Z.ltb_lt]%andb_prop. by apply wrap_s_small. Qed.

Arguments wrap_u : simpl never.
Arguments wrap_s : simpl never.
Arguments getDeadReckoningEngineConfigValidMaskFromPB : simpl never.
Arguments getDrCalibrationStatusMaskFromPB : simpl never.
Arguments getDrEngineAidingDataMaskFromPB : simpl never.
Arguments getDrSolutionStatusMaskFromPB : simpl never.
Arguments getEnumForPBBatchingStatus : simpl never.
Arguments getEnumForPBGnssLocSvSystem : simpl never.
Arguments getEnumForPBGnssMeasMultipathIndic : simpl never.
Arguments getEnumForPBGnssSuplMode : simpl never.
Arguments getEnumForPBLocOutputEngineType : simpl never.
Arguments getEnumForPBLocReliability : simpl never.
Arguments getEnumForPBLocationError : simpl never.
Arguments getEnumForPBPositioningEngineMask : simpl never.
Arguments getGfBreachTypeMaskFromPB : simpl never.
Arguments getGnssAidingDataSvMaskFromPB : simpl never.
Arguments getGnssConfigRobustLocationValidMaskFromPB : simpl never.
Arguments getGnssDataMaskFromPB : simpl never.
Arguments getGnssGloTimeStructTypeFlagsFromPB : simpl never.
Arguments getGnssLocationInfoFlagMaskFromPB : simpl never.
Arguments getGnssLocationNavSolutionMaskFromPB : simpl never.
Arguments getGnssLocationPosDataMaskExtFromPB : simpl never.
Arguments getGnssLocationPosDataMaskFromPB : simpl never.
Arguments getGnssMeasurementsAdrStateMaskFromPB : simpl never.
Arguments getGnssMeasurementsClockFlagsMaskFromPB : simpl never.
Arguments getGnssMeasurementsDataFlagsMaskFromPB : simpl never.
Arguments getGnssSignalTypeMaskFromPB : simpl never.
Arguments getGnssSvOptionsMaskFromPB : simpl never.
Arguments getGnssSvTypeFromPBGnssLocSvSystemEnumType : simpl never.
Arguments getGnssSvTypesMaskFromPB : simpl never.
Arguments getGnssSystemTimeStructTypeFlagsFromPB : simpl never.
Arguments getLeapSecSysInfoMaskFromPB : simpl never.
Arguments getLeverArmTypeMaskFromPB : simpl never.
Arguments getLocReqEngineTypeMaskFromPB : simpl never.
Arguments getLocSessionStatusFromPB : simpl never.
Arguments getLocationFlagsMaskFromPB : simpl never.
Arguments getLocationSystemInfoMaskFromPB : simpl never.
Arguments getLocationTechnologyMaskFromPB : simpl never.
Arguments getPBEnumForBatchingStatus : simpl never.
Arguments getPBEnumForGnssLocSvSystem : simpl never.
Arguments getPBEnumForGnssMeasMultiPathIndic : simpl never.
Arguments getPBEnumForGnssSuplMode : simpl never.
Arguments getPBEnumForLocOutputEngineType : simpl never.
Arguments getPBEnumForLocSessionStatus : simpl never.
Arguments getPBEnumForLocationError : simpl never.
Arguments getPBEnumForLocationReliability : simpl never.
Arguments getPBGnssLocSvSysEnumFromGnssSvType : simpl never.
Arguments getPBMaskForDeadReckoningEngineConfigValidMask : simpl never.
Arguments getPBMaskForDrCalibrationStatusMask : simpl never.
Arguments getPBMaskForDrEngineAidingDataMask : simpl never.
Arguments getPBMaskForDrSolutionStatusMask : simpl never.
Arguments getPBMaskForGeofenceBreachTypeMask : simpl never.
Arguments getPBMaskForGnssAidingDataSvMask : simpl never.
Arguments getPBMaskForGnssCfgRobustLocValidMask : simpl never.
Arguments getPBMaskForGnssGloTimeStructTypeFlags : simpl never.
Arguments getPBMaskForGnssLocationInfoExtFlagMask : simpl never.
Arguments getPBMaskForGnssLocationInfoFlagMask : simpl never.
Arguments getPBMaskForGnssLocationNavSolutionMask : simpl never.
Arguments getPBMaskForGnssLocationPosDataMask : simpl never.
Arguments getPBMaskForGnssMeasurementsAdrStateMask : simpl never.
Arguments getPBMaskForGnssMeasurementsClockFlagsMask : simpl never.
Arguments getPBMaskForGnssMeasurementsDataFlagsMask : simpl never.
Arguments getPBMaskForGnssMeasurementsStateMask : simpl never.
Arguments getPBMaskForGnssSignalTypeMask : simpl never.
Arguments getPBMaskForGnssSvOptionsMask : simpl never.
Arguments getPBMaskForGnssSystemTimeStructTypeFlags : simpl never.
Arguments getPBMaskForLeapSecondSysInfoMask : simpl never.
Arguments getPBMaskForLeverArmTypeMask : simpl never.
Arguments getPBMaskForLocReqEngineTypeMask : simpl never.
Arguments getPBMaskForLocSysInfoMask : simpl never.
Arguments getPBMaskForLocationFlagsMask : simpl never.
Arguments getPBMaskForLocationTechnologyMask : simpl never.
Arguments getPBMaskForPositioningEngineMask : simpl never.

(** A member: a mask or an enumeration by the lemmas above, an integer by its
    range, a struct by its own lemma. *)
Ltac member :=
  simpl; autorewrite with arrives; try reflexivity;
  try (rewrite mask_arriving_wraps by (lia || (vm_compute; reflexivity)); reflexivity);
  try (apply wrap_u_in; assumption); try (apply wrap_s_in; [lia|assumption]); eauto with arrives.
Ltac arrive v :=
  let Hrange := fresh "Hrange" in
  intros Hrange;
  lazymatch type of Hrange with ?in_range v = true => unfold in_range in Hrange end;
  rewrite ?andb_true_iff in Hrange; destruct_and? Hrange;
  lazymatch goal with |- ?from (?to _ _) _ = _ => unfold from | |- ?from (?to _ _) = _ => unfold from end;
  lazymatch goal with
  | |- _ = v => destruct v; simpl in * |-; reflexivity
  | |- _ = ?arrived v _ => unfold arrived
  | |- _ = ?arrived v => unfold arrived
  end;
  f_equal; member.

(** * Structs *)

Definition GnssSvTypeConfig_arrived (v : GnssSvTypeConfig) : GnssSvTypeConfig := {|
  GnssSvTypeConfig_enabledSvTypesMask :=
    Z.land (GnssSvTypeConfig_enabledSvTypesMask v) (mask_of
      (GnssSvTypesMaskBits_val <$> GnssSvTypesMaskBits_all));
  GnssSvTypeConfig_blacklistedSvTypesMask :=
    Z.land (GnssSvTypeConfig_blacklistedSvTypesMask v) (mask_of
      (GnssSvTypesMaskBits_val <$> GnssSvTypesMaskBits_all)) |}.
Lemma GnssSvTypeConfig_arrives v p x :
  GnssSvTypeConfig_in_range v = true ->
  pbConvertToGnssSvTypeConfig (convertGnssSvTypeConfigToPB v p) x = GnssSvTypeConfig_arrived v.
Proof. arrive v. Qed.
#[export] Hint Resolve GnssSvTypeConfig_arrives : arrives.

Lemma GnssSvIdConfig_arrives v p x :
  GnssSvIdConfig_in_range v = true ->
  pbConvertToGnssSvIdConfig (convertGnssSvIdConfigToPB v p) x = v.
Proof. arrive v. Qed.
#[export] Hint Resolve GnssSvIdConfig_arrives : arrives.

Definition GnssAidingData_arrived (v x : GnssAidingData) : GnssAidingData := {|
  GnssAidingData_deleteAll := GnssAidingData_deleteAll v;
  GnssAidingData_sv :=
    MkGnssAidingDataSv (mask_arriving GnssAidingDataSvMask_conv (GnssAidingDataSv_svMask
      (GnssAidingData_sv v))) (GnssAidingDataSv_svTypeMask (GnssAidingData_sv x));
  GnssAidingData_common := GnssAidingData_common x;
  GnssAidingData_dreAidingDataMask :=
    mask_arriving DrEngineAidingDataMask_conv (GnssAidingData_dreAidingDataMask v);
  GnssAidingData_posEngineMask :=
    mask_arriving PositioningEngineMask_conv (GnssAidingData_posEngineMask v) |}.
Lemma GnssAidingData_arrives v p x :
  GnssAidingData_in_range v = true ->
  pbConvertToGnssAidingData (convertGnssAidingDataToPB v p) x = GnssAidingData_arrived v x.
Proof. arrive v. Qed.
#[export] Hint Resolve GnssAidingData_arrives : arrives.

Lemma LeverArmParams_arrives v p x :
  LeverArmParams_in_range v = true ->
  pbConvertToLeverArmParams (convertLeverArmParamsToPB v p) x = v.
Proof. arrive v. Qed.
#[export] Hint Resolve LeverArmParams_arrives : arrives.

Definition LeverArmConfigInfo_arrived (v : LeverArmConfigInfo) : LeverArmConfigInfo := {|
  LeverArmConfigInfo_leverArmValidMask :=
    mask_arriving LeverArmTypeMask_conv (LeverArmConfigInfo_leverArmValidMask v);
  LeverArmConfigInfo_gnssToVRP := LeverArmConfigInfo_gnssToVRP v;
  LeverArmConfigInfo_drImuToGnss := LeverArmConfigInfo_drImuToGnss v;
  LeverArmConfigInfo_veppImuToGnss := LeverArmConfigInfo_veppImuToGnss v |}.
Lemma LeverArmConfigInfo_arrives v p x :
  LeverArmConfigInfo_in_range v = true ->
  pbConvertToLeverArmConfigInfo (convertLeverArmConfigInfoToPB v p) x = LeverArmConfigInfo_arrived v.
Proof. arrive v. Qed.
#[export] Hint Resolve LeverArmConfigInfo_arrives : arrives.

Lemma BodyToSensorMountParams_arrives v p x :
  BodyToSensorMountParams_in_range v = true ->
  pbConvertToBodyToSensorMountParams (convertBodyToSensorMountParamsToPB v p) x = v.
Proof. arrive v. Qed.
#[export] Hint Resolve BodyToSensorMountParams_arrives : arrives.

Definition DeadReckoningEngineConfig_arrived
    (v : DeadReckoningEngineConfig) : DeadReckoningEngineConfig := {|
  DeadReckoningEngineConfig_validMask :=
    mask_arriving DeadReckoningEngineConfigValidMask_conv (DeadReckoningEngineConfig_validMask v);
  DeadReckoningEngineConfig_bodyToSensorMountParams :=
    DeadReckoningEngineConfig_bodyToSensorMountParams v;
  DeadReckoningEngineConfig_vehicleSpeedScaleFactor :=
    DeadReckoningEngineConfig_vehicleSpeedScaleFactor v;
  DeadReckoningEngineConfig_vehicleSpeedScaleFactorUnc :=
    DeadReckoningEngineConfig_vehicleSpeedScaleFactorUnc v;
  DeadReckoningEngineConfig_gyroScaleFactor := DeadReckoningEngineConfig_gyroScaleFactor v;
  DeadReckoningEngineConfig_gyroScaleFactorUnc := DeadReckoningEngineConfig_gyroScaleFactorUnc v |}.
Lemma DeadReckoningEngineConfig_arrives v p x :
  DeadReckoningEngineConfig_in_range v = true ->
  pbConvertToDeadReckoningEngineConfig (convertDeadReckoningEngineConfigToPB v p) x = DeadReckoningEngineConfig_arrived v.
Proof. arrive v. Qed.
#[export] Hint Resolve DeadReckoningEngineConfig_arrives : arrives.

Definition LocationOptions_arrived (v : LocationOptions) : LocationOptions := {|
  LocationOptions_minInterval := LocationOptions_minInterval v;
  LocationOptions_minDistance := LocationOptions_minDistance v;
  LocationOptions_mode := enum_arriving GnssSuplMode_conv (LocationOptions_mode v);
  LocationOptions_locReqEngTypeMask :=
    mask_arriving LocReqEngineTypeMask_conv (LocationOptions_locReqEngTypeMask v) |}.
Lemma LocationOptions_arrives v p x :
  LocationOptions_in_range v = true ->
  pbConvertToLocationOptions (convertLocationOptionsToPB v p) x = LocationOptions_arrived v.
Proof. arrive v. Qed.
#[export] Hint Resolve LocationOptions_arrives : arrives.

Definition GeofenceOption_arrived (v : GeofenceOption) : GeofenceOption := {|
  GeofenceOption_breachTypeMask :=
    mask_arriving GeofenceBreachTypeMask_conv (GeofenceOption_breachTypeMask v);
  GeofenceOption_responsiveness := GeofenceOption_responsiveness v;
  GeofenceOption_dwellTime := GeofenceOption_dwellTime v |}.
Lemma GeofenceOption_arrives v p x :
  GeofenceOption_in_range v = true ->
  pbConvertToGeofenceOption (convertGeofenceOptionToPB v p) x = GeofenceOption_arrived v.
Proof. arrive v. Qed.
#[export] Hint Resolve GeofenceOption_arrives : arrives.

Lemma GeofenceInfo_arrives v p x :
  GeofenceInfo_in_range v = true ->
  pbConvertToGeofenceInfo (convertGeofenceInfoToPB v p) x = v.
Proof. arrive v. Qed.
#[export] Hint Resolve GeofenceInfo_arrives : arrives.

Definition GnssConfigRobustLocation_arrived
    (v : GnssConfigRobustLocation) : GnssConfigRobustLocation := {|
  GnssConfigRobustLocation_validMask :=
    mask_arriving GnssCfgRobustLocValidMask_conv (GnssConfigRobustLocation_validMask v);
  GnssConfigRobustLocation_enabled := GnssConfigRobustLocation_enabled v;
  GnssConfigRobustLocation_enabledForE911 := GnssConfigRobustLocation_enabledForE911 v;
  GnssConfigRobustLocation_version := GnssConfigRobustLocation_version v |}.
Lemma GnssConfigRobustLocation_arrives v p x :
  GnssConfigRobustLocation_in_range v = true ->
  pbConvertToGnssConfigRobustLocation (convertGnssConfigRobustLocationToPB v p) x = GnssConfigRobustLocation_arrived v.
Proof. 
  destruct v as [? ? ? [major minor]].
  unfold GnssConfigRobustLocation_in_range, GnssConfigRobustLocationVersion_in_range; simpl.
  rewrite ?andb_true_iff. intros H. destruct_and? H.
  unfold pbConvertToGnssConfigRobustLocation, GnssConfigRobustLocation_arrived.
  f_equal; [member|simpl; f_equal]; member.
Qed.
#[export] Hint Resolve GnssConfigRobustLocation_arrives : arrives.

Definition Location_arrived (v x : Location) : Location := {|
  Location_flags := mask_arriving LocationFlagsMask_conv (Location_flags v);
  Location_timestamp := Location_timestamp v;
  Location_latitude := Location_latitude v;
  Location_longitude := Location_longitude v;
  Location_altitude := Location_altitude v;
  Location_speed := Location_speed v;
  Location_bearing := Location_bearing v;
  Location_accuracy := Location_accuracy v;
  Location_verticalAccuracy := Location_verticalAccuracy v;
  Location_speedAccuracy := Location_speedAccuracy v;
  Location_bearingAccuracy := Location_bearingAccuracy v;
  Location_conformityIndex := Location_conformityIndex x;
  Location_techMask := mask_arriving LocationTechnologyMask_conv (Location_techMask v);
  Location_spoofMask := Location_spoofMask x;
  Location_elapsedRealTime := Location_elapsedRealTime x;
  Location_elapsedRealTimeUnc := Location_elapsedRealTimeUnc x |}.
Lemma Location_arrives v p x :
  Location_in_range v = true ->
  pbConvertToLocation (convertLocationToPB v p) x = Location_arrived v x.
Proof. arrive v. Qed.
#[export] Hint Resolve Location_arrives : arrives.

Lemma GnssLocationSvUsedInPosition_arrives v p x :
  GnssLocationSvUsedInPosition_in_range v = true ->
  pbConvertToGnssLocationSvUsedInPosition (convertGnssLocSvUsedInPosToPB v p) x = v.
Proof. arrive v. Qed.
#[export] Hint Resolve GnssLocationSvUsedInPosition_arrives : arrives.

Definition GnssSystemTimeStructType_arrived
    (v : GnssSystemTimeStructType) : GnssSystemTimeStructType := {|
  GnssSystemTimeStructType_validityMask :=
    mask_arriving GnssSystemTimeStructTypeFlags_conv (GnssSystemTimeStructType_validityMask v);
  GnssSystemTimeStructType_systemWeek := GnssSystemTimeStructType_systemWeek v;
  GnssSystemTimeStructType_systemMsec := GnssSystemTimeStructType_systemMsec v;
  GnssSystemTimeStructType_systemClkTimeBias := GnssSystemTimeStructType_systemClkTimeBias v;
  GnssSystemTimeStructType_systemClkTimeUncMs := GnssSystemTimeStructType_systemClkTimeUncMs v;
  GnssSystemTimeStructType_refFCount := GnssSystemTimeStructType_refFCount v;
  GnssSystemTimeStructType_numClockResets := GnssSystemTimeStructType_numClockResets v |}.
Lemma GnssSystemTimeStructType_arrives v p :
  GnssSystemTimeStructType_in_range v = true ->
  pbConvertToGnssSystemTimeStructType (convertGnssSystemTimeStructTypeToPB v p) = GnssSystemTimeStructType_arrived v.
Proof. arrive v. Qed.
#[export] Hint Resolve GnssSystemTimeStructType_arrives : arrives.

Definition GnssGloTimeStructType_arrived (v : GnssGloTimeStructType) : GnssGloTimeStructType := {|
  GnssGloTimeStructType_gloDays := GnssGloTimeStructType_gloDays v;
  GnssGloTimeStructType_validityMask :=
    mask_arriving GnssGloTimeStructTypeFlags_conv (GnssGloTimeStructType_validityMask v);
  GnssGloTimeStructType_gloMsec := GnssGloTimeStructType_gloMsec v;
  GnssGloTimeStructType_gloClkTimeBias := GnssGloTimeStructType_gloClkTimeBias v;
  GnssGloTimeStructType_gloClkTimeUncMs := GnssGloTimeStructType_gloClkTimeUncMs v;
  GnssGloTimeStructType_refFCount := GnssGloTimeStructType_refFCount v;
  GnssGloTimeStructType_numClockResets := GnssGloTimeStructType_numClockResets v;
  GnssGloTimeStructType_gloFourYear := GnssGloTimeStructType_gloFourYear v |}.
Lemma GnssGloTimeStructType_arrives v p :
  GnssGloTimeStructType_in_range v = true ->
  pbConvertToGnssGloTimeStructType (convertGnssGloTimeStructTypeToPB v p) = GnssGloTimeStructType_arrived v.
Proof. arrive v. Qed.
#[export] Hint Resolve GnssGloTimeStructType_arrives : arrives.

Definition GnssMeasUsageInfo_arrived (v : GnssMeasUsageInfo) : GnssMeasUsageInfo := {|
  GnssMeasUsageInfo_gnssSignalType :=
    mask_arriving GnssSignalTypeMask_conv (GnssMeasUsageInfo_gnssSignalType v);
  GnssMeasUsageInfo_gnssConstellation :=
    enum_arriving GnssLocSvSystem_conv (GnssMeasUsageInfo_gnssConstellation v);
  GnssMeasUsageInfo_gnssSvId := GnssMeasUsageInfo_gnssSvId v |}.
Lemma GnssMeasUsageInfo_arrives v p x :
  GnssMeasUsageInfo_in_range v = true ->
  pbConvertToGnssMeasUsageInfo (convertGnssMeasUsageInfoToPB v p) x = GnssMeasUsageInfo_arrived v.
Proof. arrive v. Qed.
#[export] Hint Resolve GnssMeasUsageInfo_arrives : arrives.

Lemma LLAInfo_arrives v p x :
  LLAInfo_in_range v = true ->
  pbConvertToLLAInfo (convertLLAInfoToPB v p) x = v.
Proof. arrive v. Qed.
#[export] Hint Resolve LLAInfo_arrives : arrives.

Definition LeapSecondChangeInfo_arrived (v : LeapSecondChangeInfo) : LeapSecondChangeInfo := {|
  LeapSecondChangeInfo_gpsTimestampLsChange :=
    GnssSystemTimeStructType_arrived (LeapSecondChangeInfo_gpsTimestampLsChange v);
  LeapSecondChangeInfo_leapSecondsBeforeChange := LeapSecondChangeInfo_leapSecondsBeforeChange v;
  LeapSecondChangeInfo_leapSecondsAfterChange := LeapSecondChangeInfo_leapSecondsAfterChange v |}.
Lemma LeapSecondChangeInfo_arrives v p x :
  LeapSecondChangeInfo_in_range v = true ->
  pbConvertToLeapSecChgInfo (convertLeapSecChgInfoToPB v p) x = LeapSecondChangeInfo_arrived v.
Proof. arrive v. Qed.
#[export] Hint Resolve LeapSecondChangeInfo_arrives : arrives.

Definition LeapSecondSystemInfo_arrived (v : LeapSecondSystemInfo) : LeapSecondSystemInfo := {|
  LeapSecondSystemInfo_leapSecondInfoMask :=
    mask_arriving LeapSecondSysInfoMask_conv (LeapSecondSystemInfo_leapSecondInfoMask v);
  LeapSecondSystemInfo_leapSecondCurrent := LeapSecondSystemInfo_leapSecondCurrent v;
  LeapSecondSystemInfo_leapSecondChangeInfo :=
    LeapSecondChangeInfo_arrived (LeapSecondSystemInfo_leapSecondChangeInfo v) |}.
Lemma LeapSecondSystemInfo_arrives v p x :
  LeapSecondSystemInfo_in_range v = true ->
  pbConvertToLeapSecSysInfo (convertLeapSecondSystemInfoToPB v p) x = LeapSecondSystemInfo_arrived v.
Proof. arrive v. Qed.
#[export] Hint Resolve LeapSecondSystemInfo_arrives : arrives.

Definition LocationSystemInfo_arrived (v : LocationSystemInfo) : LocationSystemInfo := {|
  LocationSystemInfo_systemInfoMask :=
    mask_arriving LocSysInfoMask_conv (LocationSystemInfo_systemInfoMask v);
  LocationSystemInfo_leapSecondSysInfo :=
    LeapSecondSystemInfo_arrived (LocationSystemInfo_leapSecondSysInfo v) |}.
Lemma LocationSystemInfo_arrives v p x :
  LocationSystemInfo_in_range v = true ->
  pbConvertToLocationSystemInfo (convertLocSysInfoToPB v p) x = LocationSystemInfo_arrived v.
Proof. arrive v. Qed.
#[export] Hint Resolve LocationSystemInfo_arrives : arrives.

Definition GnssMeasurementsData_arrived (v x : GnssMeasurementsData) : GnssMeasurementsData := {|
  GnssMeasurementsData_flags :=
    mask_arriving GnssMeasurementsDataFlagsMask_conv (GnssMeasurementsData_flags v);
  GnssMeasurementsData_svId := GnssMeasurementsData_svId v;
  GnssMeasurementsData_svType := enum_arriving GnssSvType_conv (GnssMeasurementsData_svType v);
  GnssMeasurementsData_timeOffsetNs := GnssMeasurementsData_timeOffsetNs v;
  GnssMeasurementsData_stateMask := Z.land (GnssMeasurementsData_stateMask v) stateMask_kept;
  GnssMeasurementsData_receivedSvTimeNs := GnssMeasurementsData_receivedSvTimeNs v;
  GnssMeasurementsData_receivedSvTimeUncertaintyNs :=
    GnssMeasurementsData_receivedSvTimeUncertaintyNs v;
  GnssMeasurementsData_carrierToNoiseDbHz := GnssMeasurementsData_carrierToNoiseDbHz v;
  GnssMeasurementsData_pseudorangeRateMps := GnssMeasurementsData_pseudorangeRateMps v;
  GnssMeasurementsData_pseudorangeRateUncertaintyMps :=
    GnssMeasurementsData_pseudorangeRateUncertaintyMps v;
  GnssMeasurementsData_adrStateMask :=
    mask_arriving GnssMeasurementsAdrStateMask_conv (GnssMeasurementsData_adrStateMask v);
  GnssMeasurementsData_adrMeters := GnssMeasurementsData_adrMeters v;
  GnssMeasurementsData_adrUncertaintyMeters := GnssMeasurementsData_adrUncertaintyMeters v;
  GnssMeasurementsData_carrierFrequencyHz := GnssMeasurementsData_carrierFrequencyHz v;
  GnssMeasurementsData_carrierCycles := GnssMeasurementsData_carrierCycles v;
  GnssMeasurementsData_carrierPhase := GnssMeasurementsData_carrierPhase v;
  GnssMeasurementsData_carrierPhaseUncertainty := GnssMeasurementsData_carrierPhaseUncertainty v;
  GnssMeasurementsData_multipathIndicator :=
    enum_arriving GnssMeasMultiPathIndic_conv (GnssMeasurementsData_multipathIndicator v);
  GnssMeasurementsData_signalToNoiseRatioDb := GnssMeasurementsData_signalToNoiseRatioDb v;
  GnssMeasurementsData_agcLevelDb := GnssMeasurementsData_agcLevelDb v;
  GnssMeasurementsData_codeType := GnssMeasurementsData_codeType x;
  GnssMeasurementsData_otherCodeTypeName := GnssMeasurementsData_otherCodeTypeName x;
  GnssMeasurementsData_basebandCarrierToNoiseDbHz :=
    GnssMeasurementsData_basebandCarrierToNoiseDbHz v;
  GnssMeasurementsData_gnssSignalType :=
    mask_arriving GnssSignalTypeMask_conv (GnssMeasurementsData_gnssSignalType v);
  GnssMeasurementsData_fullInterSignalBiasNs := GnssMeasurementsData_fullInterSignalBiasNs v;
  GnssMeasurementsData_fullInterSignalBiasUncertaintyNs :=
    GnssMeasurementsData_fullInterSignalBiasUncertaintyNs v;
  GnssMeasurementsData_satelliteInterSignalBiasNs :=
    GnssMeasurementsData_satelliteInterSignalBiasNs x;
  GnssMeasurementsData_satelliteInterSignalBiasUncertaintyNs :=
    GnssMeasurementsData_satelliteInterSignalBiasUncertaintyNs x;
  GnssMeasurementsData_gloFrequency := GnssMeasurementsData_gloFrequency x;
  GnssMeasurementsData_cycleSlipCount := GnssMeasurementsData_cycleSlipCount v |}.
Lemma GnssMeasurementsData_arrives v p x :
  GnssMeasurementsData_in_range v = true ->
  pbConvertToGnssMeasurementsData (convertGnssMeasDataToPB v p) x = GnssMeasurementsData_arrived v x.
Proof. arrive v. Qed.
#[export] Hint Resolve GnssMeasurementsData_arrives : arrives.

Definition GnssMeasurementsClock_arrived (v x : GnssMeasurementsClock)
    : GnssMeasurementsClock := {|
  GnssMeasurementsClock_flags :=
    mask_arriving GnssMeasurementsClockFlagsMask_conv (GnssMeasurementsClock_flags v);
  GnssMeasurementsClock_leapSecond := GnssMeasurementsClock_leapSecond v;
  GnssMeasurementsClock_timeNs := GnssMeasurementsClock_timeNs v;
  GnssMeasurementsClock_timeUncertaintyNs := GnssMeasurementsClock_timeUncertaintyNs v;
  GnssMeasurementsClock_fullBiasNs := GnssMeasurementsClock_fullBiasNs v;
  GnssMeasurementsClock_biasNs := GnssMeasurementsClock_biasNs v;
  GnssMeasurementsClock_biasUncertaintyNs := GnssMeasurementsClock_biasUncertaintyNs v;
  GnssMeasurementsClock_driftNsps := GnssMeasurementsClock_driftNsps v;
  GnssMeasurementsClock_driftUncertaintyNsps := GnssMeasurementsClock_driftUncertaintyNsps v;
  GnssMeasurementsClock_hwClockDiscontinuityCount :=
    GnssMeasurementsClock_hwClockDiscontinuityCount v;
  GnssMeasurementsClock_referenceSignalTypeForIsb :=
    GnssMeasurementsClock_referenceSignalTypeForIsb x;
  GnssMeasurementsClock_elapsedRealTime := GnssMeasurementsClock_elapsedRealTime x;
  GnssMeasurementsClock_elapsedRealTimeUnc := GnssMeasurementsClock_elapsedRealTimeUnc x |}.
Lemma GnssMeasurementsClock_arrives v p x :
  GnssMeasurementsClock_in_range v = true ->
  pbConvertToGnssMeasurementsClock (convertGnssMeasClockToPB v p) x = GnssMeasurementsClock_arrived v x.
Proof. arrive v. Qed.
#[export] Hint Resolve GnssMeasurementsClock_arrives : arrives.

Lemma LocAPINmeaSerializedPayload_arrives v p x :
  LocAPINmeaSerializedPayload_in_range v = true ->
  pbConvertToLocAPINmeaSerializedPayload (convertLocAPINmeaSerializedPayloadToPB v p) x = v.
Proof. arrive v. Qed.
#[export] Hint Resolve LocAPINmeaSerializedPayload_arrives : arrives.

Definition GnssSv_arrived (v : GnssSv) : GnssSv := {|
  GnssSv_svId := GnssSv_svId v;
  GnssSv_type := enum_arriving GnssSvType_conv (GnssSv_type v);
  GnssSv_cN0Dbhz := GnssSv_cN0Dbhz v;
  GnssSv_elevation := GnssSv_elevation v;
  GnssSv_azimuth := GnssSv_azimuth v;
  GnssSv_gnssSvOptionsMask := mask_arriving GnssSvOptionsMask_conv (GnssSv_gnssSvOptionsMask v);
  GnssSv_carrierFrequencyHz := GnssSv_carrierFrequencyHz v;
  GnssSv_gnssSignalTypeMask := mask_arriving GnssSignalTypeMask_conv (GnssSv_gnssSignalTypeMask v);
  GnssSv_basebandCarrierToNoiseDbHz := GnssSv_basebandCarrierToNoiseDbHz v;
  GnssSv_gloFrequency := GnssSv_gloFrequency v |}.
Lemma GnssSv_arrives v p x :
  GnssSv_in_range v = true ->
  gnssSv_of_pb (convertGnssSvToPB v p) x = GnssSv_arrived v.
Proof. arrive v. Qed.
#[export] Hint Resolve GnssSv_arrives : arrives.

Definition GnssLocationPositionDynamics_arrived
    (v : GnssLocationPositionDynamics) : GnssLocationPositionDynamics := {|
  GnssLocationPositionDynamics_bodyFrameDataMask :=
    Z.land (GnssLocationPositionDynamics_bodyFrameDataMask v) (mask_of
      (GnssLocationPosDataBits_val <$> GnssLocationPosDataBits_all));
  GnssLocationPositionDynamics_longAccel := GnssLocationPositionDynamics_longAccel v;
  GnssLocationPositionDynamics_latAccel := GnssLocationPositionDynamics_latAccel v;
  GnssLocationPositionDynamics_vertAccel := GnssLocationPositionDynamics_vertAccel v;
  GnssLocationPositionDynamics_yawRate := GnssLocationPositionDynamics_yawRate v;
  GnssLocationPositionDynamics_pitch := GnssLocationPositionDynamics_pitch v;
  GnssLocationPositionDynamics_longAccelUnc := GnssLocationPositionDynamics_longAccelUnc v;
  GnssLocationPositionDynamics_latAccelUnc := GnssLocationPositionDynamics_latAccelUnc v;
  GnssLocationPositionDynamics_vertAccelUnc := GnssLocationPositionDynamics_vertAccelUnc v;
  GnssLocationPositionDynamics_yawRateUnc := GnssLocationPositionDynamics_yawRateUnc v;
  GnssLocationPositionDynamics_pitchUnc := GnssLocationPositionDynamics_pitchUnc v |}.
Definition GnssLocationPositionDynamicsExt_arrived
    (v : GnssLocationPositionDynamicsExt) : GnssLocationPositionDynamicsExt := {|
  GnssLocationPositionDynamicsExt_bodyFrameDataMask :=
    Z.land (GnssLocationPositionDynamicsExt_bodyFrameDataMask v) (mask_of
      (GnssLocationPosDataBitsExt_val <$> GnssLocationPosDataBitsExt_all));
  GnssLocationPositionDynamicsExt_pitchRate := GnssLocationPositionDynamicsExt_pitchRate v;
  GnssLocationPositionDynamicsExt_pitchRateUnc := GnssLocationPositionDynamicsExt_pitchRateUnc v;
  GnssLocationPositionDynamicsExt_roll := GnssLocationPositionDynamicsExt_roll v;
  GnssLocationPositionDynamicsExt_rollUnc := GnssLocationPositionDynamicsExt_rollUnc v;
  GnssLocationPositionDynamicsExt_rollRate := GnssLocationPositionDynamicsExt_rollRate v;
  GnssLocationPositionDynamicsExt_rollRateUnc := GnssLocationPositionDynamicsExt_rollRateUnc v;
  GnssLocationPositionDynamicsExt_yaw := GnssLocationPositionDynamicsExt_yaw v;
  GnssLocationPositionDynamicsExt_yawUnc := GnssLocationPositionDynamicsExt_yawUnc v |}.
Lemma GnssLocationPositionDynamics_arrives v e p :
  pbConvertToGnssLocationPositionDynamics (convertGnssLocationPositionDynamicsToPB v e p) =
  (GnssLocationPositionDynamics_arrived v, GnssLocationPositionDynamicsExt_arrived e).
Proof.
  destruct v, e. unfold pbConvertToGnssLocationPositionDynamics,
    GnssLocationPositionDynamics_arrived, GnssLocationPositionDynamicsExt_arrived; simpl.
  by rewrite GnssLocationPosDataMask_arrives, GnssLocationPosDataMaskExt_arrives.
Qed.

(** * The system time *)

(** The member of the union that goes with the constellation. *)
Definition time_of_system (v : GnssSystemTime) : bool :=
  match GnssSystemTime_u v with
  | glo_time _ => GnssSystemTime_gnssSystemTimeSrc v =? GNSS_LOC_SV_SYSTEM_GLONASS
  | gnss_time _ => negb (GnssSystemTime_gnssSystemTimeSrc v =? GNSS_LOC_SV_SYSTEM_GLONASS)
  end.
Definition systems_with_time : list Z :=
  [GNSS_LOC_SV_SYSTEM_GPS : Z; GNSS_LOC_SV_SYSTEM_GALILEO : Z; GNSS_LOC_SV_SYSTEM_BDS : Z;
   GNSS_LOC_SV_SYSTEM_QZSS : Z; GNSS_LOC_SV_SYSTEM_GLONASS : Z; GNSS_LOC_SV_SYSTEM_NAVIC : Z].
Definition SystemTimeStructUnion_arrived (u : SystemTimeStructUnion) : SystemTimeStructUnion :=
  match u with
  | gnss_time t => gnss_time (GnssSystemTimeStructType_arrived t)
  | glo_time t => glo_time (GnssGloTimeStructType_arrived t)
  end.
Definition GnssSystemTime_arrived (v x : GnssSystemTime) : GnssSystemTime := {|
  GnssSystemTime_gnssSystemTimeSrc :=
    enum_arriving GnssLocSvSystem_conv (GnssSystemTime_gnssSystemTimeSrc v);
  GnssSystemTime_u :=
    if decide (GnssSystemTime_gnssSystemTimeSrc v ∈ systems_with_time)
    then SystemTimeStructUnion_arrived (GnssSystemTime_u v) else GnssSystemTime_u x |}.

Lemma no_time_arrives src :
  src ∉ systems_with_time -> enum_arriving GnssLocSvSystem_conv src ∉ systems_with_time.
Proof.
  intros H. unfold enum_arriving. case_decide; [done|]. apply (bool_decide_unpack _). vm_compute. exact I.
Qed.

Lemma GnssSystemTime_arrives v p x :
  time_of_system v = true -> GnssSystemTime_in_range v = true ->
  (pb ← convertGnssSystemTimeToPB v p; Some (pbConvertToGnssSystemTime pb x)) =
  Some (GnssSystemTime_arrived v x).
Proof.
  destruct v as [src u]. unfold time_of_system, GnssSystemTime_in_range, convertGnssSystemTimeToPB,
    pbConvertToGnssSystemTime, GnssSystemTime_arrived; simpl. intros Ht Hr.
  case_decide as Hs.
  - unfold systems_with_time in Hs. repeat (apply elem_of_cons in Hs as [->|Hs]); [..|by inversion Hs];
      destruct u as [t|t]; try discriminate Ht; csimpl; rewrite GnssLocSvSystem_conv_arrives;
      do 2 f_equal;
      match goal with |- context [enum_arriving ?c ?k] => replace (enum_arriving c k) with k by (by vm_compute) end;
      unfold pbConvertToSystemTimeStructUnion; simpl; f_equal; auto with arrives.
  - pose proof (no_time_arrives _ Hs) as Hn. unfold systems_with_time in Hs, Hn.
    unfold convertSystemTimeStructUnionToPB, pbConvertToSystemTimeStructUnion.
    rewrite !not_elem_of_cons in Hs, Hn. destruct_and! Hs. destruct_and! Hn.
    rewrite !(proj2 (Z.eqb_neq src _)) by done. csimpl. rewrite GnssLocSvSystem_conv_arrives.
    by rewrite !(proj2 (Z.eqb_neq (enum_arriving GnssLocSvSystem_conv src) _)) by done.
Qed.

(** * Arrays *)

(** The first [n] elements of [x] hold what arrived of those of [v]. *)
Definition array_arrived {A B} (n : nat) (arrived : A -> B -> B) (v : list A) (x : list B) : list B :=
  zip_with arrived (take n v) x ++ drop n x.

Lemma write_at_middle {B} (f : B -> B) (pre post : list B) :
  write_at (pre ++ post) (length pre) f =
  match post with [] => None | b :: post => Some ((pre ++ [f b]) ++ post) end.
Proof.
  unfold write_at. rewrite lookup_app_r, Nat.sub_diag by lia.
  destruct post as [|b post]; cbn [lookup list_lookup mbind option_bind]; [done|].
  by rewrite insert_app_r_alt, Nat.sub_diag, <- app_assoc by lia.
Qed.

(** A loop that copies [n] elements of [src] into an array fails if either is
    too short. *)
Lemma for_write_go {A B} (src : list A) (g : A -> B -> B) n i (pre post : list B) :
  length pre = i ->
  for_ n i (fun i l => x ← src !! i; write_at l i (g x)) (pre ++ post) =
  if decide (n ≤ length (drop i src) ∧ n ≤ length post)%nat
  then Some (pre ++ zip_with g (take n (drop i src)) post ++ drop n post) else None.
Proof.
  revert i pre post. induction n as [|n IH]; intros i pre post Hi; cbn [for_].
  { rewrite decide_True by lia. by rewrite take_0, drop_0. }
  destruct (src !! i) as [a|] eqn:Ea; cbn [mbind option_bind].
  2:{ apply lookup_ge_None in Ea. rewrite decide_False; [done|]. rewrite length_drop. lia. }
  rewrite (drop_S src a i), <- Hi, write_at_middle by done. rewrite Hi.
  destruct post as [|b post]; cbn [mbind option_bind].
  { by rewrite decide_False by (simpl; lia). }
  rewrite IH by (rewrite length_app; simpl; lia).
  destruct (decide (n ≤ length (drop (S i) src) ∧ n ≤ length post)%nat) as [H|H].
  - rewrite decide_True by (simpl; lia). by rewrite <- app_assoc.
  - rewrite decide_False by (simpl; lia). done.
Qed.
Lemma for_write {A B} (src : list A) (g : A -> B -> B) n (l : list B) :
  for_ n 0 (fun i l => x ← src !! i; write_at l i (g x)) l =
  if decide (n ≤ length src ∧ n ≤ length l)%nat then Some (array_arrived n g src l) else None.
Proof. exact (for_write_go src g n 0 [] l eq_refl). Qed.

Lemma for_add_go {A B} (src : list A) (f : A -> B) n i (l : list B) :
  for_ n i (fun i l => x ← src !! i; Some (add l (f x))) l =
  if decide (n ≤ length (drop i src))%nat then Some (l ++ (f <$> take n (drop i src))) else None.
Proof.
  revert i l. induction n as [|n IH]; intros i l; cbn [for_].
  { by rewrite app_nil_r. }
  destruct (src !! i) as [a|] eqn:Ea; cbn [mbind option_bind].
  2:{ apply lookup_ge_None in Ea. rewrite decide_False; [done|]. rewrite length_drop. lia. }
  rewrite (drop_S src a i) by done. rewrite IH.
  destruct (decide (n ≤ length (drop (S i) src))%nat).
  - rewrite decide_True by (simpl; lia). unfold add. by rewrite <- app_assoc.
  - rewrite decide_False by (simpl; lia). done.
Qed.
Lemma for_add {A B} (src : list A) (f : A -> B) n (l : list B) :
  (n ≤ length src)%nat ->
  for_ n 0 (fun i l => x ← src !! i; Some (add l (f x))) l = Some (l ++ (f <$> take n src)).
Proof. intros H. rewrite for_add_go, drop_0. by rewrite decide_True. Qed.

(** What arrives of an array whose elements arrive. *)
Lemma array_arrived_fmap {A B C} (ok : A -> bool) (f : A -> C) (g : C -> B -> B) (h : A -> B -> B) n v x :
  (∀ a b, ok a = true -> g (f a) b = h a b) -> forallb ok v = true ->
  array_arrived n g (f <$> take n v) x = array_arrived n h v x.
Proof.
  intros Hf Hok. unfold array_arrived. f_equal.
  rewrite take_ge by (rewrite length_fmap, length_take; lia).
  revert v x Hok. induction n as [|n IH]; intros [|a v] [|b x] Hok; csimpl; try done.
  simpl in Hok. apply andb_prop in Hok as [Ha Hok]. f_equal; [by apply Hf|].
  by apply IH.
Qed.

Definition flags_kept : Z :=
  kept (GnssLocationInfoFlagBits_val <$> GnssLocationInfoFlagBits_all)
       [GNSS_LOCATION_INFO_SV_SOURCE_INFO_BIT : Z].

Definition GnssLocationInfoNotification_arrived
    (v x : GnssLocationInfoNotification) : GnssLocationInfoNotification := {|
  GnssLocationInfoNotification_location :=
    Location_arrived (GnssLocationInfoNotification_location v)
      (GnssLocationInfoNotification_location x);
  GnssLocationInfoNotification_flags := Z.land (GnssLocationInfoNotification_flags v) flags_kept;
  GnssLocationInfoNotification_altitudeMeanSeaLevel :=
    GnssLocationInfoNotification_altitudeMeanSeaLevel v;
  GnssLocationInfoNotification_pdop := GnssLocationInfoNotification_pdop v;
  GnssLocationInfoNotification_hdop := GnssLocationInfoNotification_hdop v;
  GnssLocationInfoNotification_vdop := GnssLocationInfoNotification_vdop v;
  GnssLocationInfoNotification_gdop := GnssLocationInfoNotification_gdop v;
  GnssLocationInfoNotification_tdop := GnssLocationInfoNotification_tdop v;
  GnssLocationInfoNotification_magneticDeviation :=
    GnssLocationInfoNotification_magneticDeviation v;
  GnssLocationInfoNotification_horReliability :=
    enum_arriving LocationReliability_conv (GnssLocationInfoNotification_horReliability v);
  GnssLocationInfoNotification_verReliability :=
    enum_arriving LocationReliability_conv (GnssLocationInfoNotification_verReliability v);
  GnssLocationInfoNotification_horUncEllipseSemiMajor :=
    GnssLocationInfoNotification_horUncEllipseSemiMajor v;
  GnssLocationInfoNotification_horUncEllipseSemiMinor :=
    GnssLocationInfoNotification_horUncEllipseSemiMinor v;
  GnssLocationInfoNotification_horUncEllipseOrientAzimuth :=
    GnssLocationInfoNotification_horUncEllipseOrientAzimuth v;
  GnssLocationInfoNotification_northStdDeviation :=
    GnssLocationInfoNotification_northStdDeviation v;
  GnssLocationInfoNotification_eastStdDeviation := GnssLocationInfoNotification_eastStdDeviation v;
  GnssLocationInfoNotification_northVelocity := GnssLocationInfoNotification_northVelocity v;
  GnssLocationInfoNotification_eastVelocity := GnssLocationInfoNotification_eastVelocity v;
  GnssLocationInfoNotification_upVelocity := GnssLocationInfoNotification_upVelocity v;
  GnssLocationInfoNotification_northVelocityStdDeviation :=
    GnssLocationInfoNotification_northVelocityStdDeviation v;
  GnssLocationInfoNotification_eastVelocityStdDeviation :=
    GnssLocationInfoNotification_eastVelocityStdDeviation v;
  GnssLocationInfoNotification_upVelocityStdDeviation :=
    GnssLocationInfoNotification_upVelocityStdDeviation v;
  GnssLocationInfoNotification_numSvUsedInPosition :=
    GnssLocationInfoNotification_numSvUsedInPosition v;
  GnssLocationInfoNotification_svUsedInPosition := GnssLocationInfoNotification_svUsedInPosition v;
  GnssLocationInfoNotification_navSolutionMask :=
    mask_arriving GnssLocationNavSolutionMask_conv (GnssLocationInfoNotification_navSolutionMask v);
  GnssLocationInfoNotification_bodyFrameData :=
    GnssLocationPositionDynamics_arrived (GnssLocationInfoNotification_bodyFrameData v);
  GnssLocationInfoNotification_gnssSystemTime :=
    GnssSystemTime_arrived (GnssLocationInfoNotification_gnssSystemTime v)
      (GnssLocationInfoNotification_gnssSystemTime x);
  GnssLocationInfoNotification_numOfMeasReceived :=
    GnssLocationInfoNotification_numOfMeasReceived v;
  GnssLocationInfoNotification_measUsageInfo :=
    array_arrived (Z.to_nat (GnssLocationInfoNotification_numOfMeasReceived v))
      (fun m _ => GnssMeasUsageInfo_arrived m) (GnssLocationInfoNotification_measUsageInfo v)
      (GnssLocationInfoNotification_measUsageInfo x);
  GnssLocationInfoNotification_leapSeconds := GnssLocationInfoNotification_leapSeconds v;
  GnssLocationInfoNotification_timeUncMs := GnssLocationInfoNotification_timeUncMs v;
  GnssLocationInfoNotification_calibrationConfidence :=
    GnssLocationInfoNotification_calibrationConfidence v;
  GnssLocationInfoNotification_calibrationStatus :=
    mask_arriving DrCalibrationStatusMask_conv (GnssLocationInfoNotification_calibrationStatus v);
  GnssLocationInfoNotification_locOutputEngType :=
    enum_arriving LocOutputEngineType_conv (GnssLocationInfoNotification_locOutputEngType v);
  GnssLocationInfoNotification_locOutputEngMask :=
    mask_arriving PositioningEngineMask_conv (GnssLocationInfoNotification_locOutputEngMask v);
  GnssLocationInfoNotification_conformityIndex := GnssLocationInfoNotification_conformityIndex v;
  GnssLocationInfoNotification_bodyFrameDataExt :=
    GnssLocationPositionDynamicsExt_arrived (GnssLocationInfoNotification_bodyFrameDataExt v);
  GnssLocationInfoNotification_llaVRPBased := GnssLocationInfoNotification_llaVRPBased v;
  GnssLocationInfoNotification_enuVelocityVRPBased :=
    GnssLocationInfoNotification_enuVelocityVRPBased v;
  GnssLocationInfoNotification_drSolutionStatusMask :=
    mask_arriving DrSolutionStatusMask_conv (GnssLocationInfoNotification_drSolutionStatusMask v);
  GnssLocationInfoNotification_altitudeAssumed := GnssLocationInfoNotification_altitudeAssumed v;
  GnssLocationInfoNotification_sessionStatus :=
    enum_arriving LocSessionStatus_conv (GnssLocationInfoNotification_sessionStatus v) |}.
