(* ===== verification/PbMsgArrays.v ===== *)
(** LocationApiPbMsgConv.cpp: messages that carry arrays.  What arrives of them,
    and when a conversion reads or writes outside of an array. *)

From stdpp Require Import list.
From S2P Require Import Prelude Masks LocationEnums PbConversions LocationApiPbMsgConv.
From S2P Require Import ApiStructs PbMessages PbMsgConv PbMsgArrive.

Local Open Scope Z_scope.

(** * The elements of the arrays *)

Definition GeofencePayload_arrived (v _ : GeofencePayload) : GeofencePayload := {|
  GeofencePayload_gfClientId := GeofencePayload_gfClientId v;
  GeofencePayload_gfOption := GeofenceOption_arrived (GeofencePayload_gfOption v);
  GeofencePayload_gfInfo := GeofencePayload_gfInfo v |}.
Definition GeofenceResponse_arrived (v _ : GeofenceResponse) : GeofenceResponse := {|
  GeofenceResponse_clientId := GeofenceResponse_clientId v;
  GeofenceResponse_error := enum_arriving LocationError_conv (GeofenceResponse_error v) |}.

(** A loop that adds converted elements to an empty field, and one that copies
    the elements of the field into an array. *)
Lemma for_write_all {A B C} (ok : A -> bool) (f : A -> C) (g : C -> B -> B) (h : A -> B -> B) n v x :
  (∀ a b, ok a = true -> g (f a) b = h a b) -> forallb ok v = true -> (n ≤ length v)%nat ->
  for_ n 0 (fun i l => c ← (f <$> take n v) !! i; write_at l i (g c)) x =
  if decide (n ≤ length x)%nat then Some (array_arrived n h v x) else None.
Proof.
  intros Hf Hok Hn. rewrite for_write, length_fmap, length_take, Nat.min_l by done.
  destruct (decide (n ≤ length x)%nat) as [H|H].
  - rewrite decide_True by lia. f_equal. by apply (array_arrived_fmap ok).
  - by rewrite decide_False by lia.
Qed.

Abbreviation fits n l := (Z.to_nat n ≤ length l)%nat.

(** The count of the array that is received is the one that was sent. *)
Lemma count_sent {A C} (f : A -> C) n (v : list A) :
  in_u 32 n = true -> fits n v -> length (f <$> take (Z.to_nat n) v) = Z.to_nat n ∧ Z.of_nat (Z.to_nat n) = n.
Proof.
  intros [H1%Z.leb_le _]%andb_prop Hn. rewrite length_fmap, length_take. lia.
Qed.

(** The two loops one after the other, for the array of [in_u] elements of the
    hypotheses. *)
Ltac array_arrives ok arrived :=
  rewrite ?for_add by done; csimpl;
  lazymatch goal with Hn : in_u 32 _ = true, Hfit : (_ ≤ _)%nat |- _ =>
    match goal with |- context [?f <$> take _ ?v] =>
      let Ea := fresh "Ea" in let Eb := fresh "Eb" in
      destruct (count_sent f _ v Hn Hfit) as [Ea Eb]; rewrite ?Ea, ?Eb
    end
  end;
  rewrite (for_write_all ok _ _ arrived); [by case_decide| |done..].

(** * The messages with one array *)

Lemma gf_added_arrives v x :
  GeofencesAddedReqPayload_in_range v = true ->
  fits (GeofencesAddedReqPayload_count v) (GeofencesAddedReqPayload_gfPayload v) ->
  (p ← convertGfAddedReqPayloadToPB v PBGeofencesAddedReqPayload_default;
   pbConvertToGfAddReqPayload p x) =
  if decide (fits (GeofencesAddedReqPayload_count v) (GeofencesAddedReqPayload_gfPayload x))
  then Some {|
    GeofencesAddedReqPayload_count := GeofencesAddedReqPayload_count v;
    GeofencesAddedReqPayload_gfPayload :=
      array_arrived (Z.to_nat (GeofencesAddedReqPayload_count v)) GeofencePayload_arrived
        (GeofencesAddedReqPayload_gfPayload v) (GeofencesAddedReqPayload_gfPayload x) |}
  else None.
Proof.
  destruct v as [n l]. unfold GeofencesAddedReqPayload_in_range; simpl.
  intros [[Hn _]%andb_prop Hl]%andb_prop Hfit.
  unfold convertGfAddedReqPayloadToPB, pbConvertToGfAddReqPayload; simpl.
  array_arrives GeofencePayload_in_range GeofencePayload_arrived.
  intros [] [] [[_ H]%andb_prop H2]%andb_prop. simpl in *.
  unfold GeofencePayload_arrived. simpl. f_equal; auto with arrives.
Qed.

Lemma gf_ids_arrive v x :
  GeofencesReqClientIdPayload_in_range v = true ->
  fits (GeofencesReqClientIdPayload_count v) (GeofencesReqClientIdPayload_gfIds v) ->
  (p ← convertGfReqClientIdPayloadToPB v PBGeofencesReqClientIdPayload_default;
   pbConvertToGfReqClientIdPayload p x) =
  if decide (fits (GeofencesReqClientIdPayload_count v) (GeofencesReqClientIdPayload_gfIds x))
  then Some {|
    GeofencesReqClientIdPayload_count := GeofencesReqClientIdPayload_count v;
    GeofencesReqClientIdPayload_gfIds :=
      array_arrived (Z.to_nat (GeofencesReqClientIdPayload_count v)) const
        (GeofencesReqClientIdPayload_gfIds v) (GeofencesReqClientIdPayload_gfIds x) |}
  else None.
Proof.
  destruct v as [n l]. unfold GeofencesReqClientIdPayload_in_range; simpl.
  intros [[Hn _]%andb_prop Hl]%andb_prop Hfit.
  unfold convertGfReqClientIdPayloadToPB, pbConvertToGfReqClientIdPayload; simpl.
  rewrite (for_add l (fun id => id)) by done.
  by array_arrives (in_u 32) (fun a _ : Z => a).
Qed.

Lemma collective_res_arrives v x :
  CollectiveResPayload_in_range v = true ->
  fits (CollectiveResPayload_count v) (CollectiveResPayload_resp v) ->
  (p ← convertCollectiveResPayloadToPB v PBCollectiveResPayload_default;
   pbConvertToCollectiveResPayload p x) =
  if decide (fits (CollectiveResPayload_count v) (CollectiveResPayload_resp x))
  then Some {|
    CollectiveResPayload_count := CollectiveResPayload_count v;
    CollectiveResPayload_resp :=
      array_arrived (Z.to_nat (CollectiveResPayload_count v)) GeofenceResponse_arrived
        (CollectiveResPayload_resp v) (CollectiveResPayload_resp x) |}
  else None.
Proof.
  destruct v as [n l]. unfold CollectiveResPayload_in_range; simpl.
  intros [Hn Hl]%andb_prop Hfit.
  unfold convertCollectiveResPayloadToPB, pbConvertToCollectiveResPayload; simpl.
  array_arrives GeofenceResponse_in_range GeofenceResponse_arrived.
  intros [] [] _. simpl. unfold GeofenceResponse_arrived. simpl.
  by rewrite LocationError_conv_arrives.
Qed.

Lemma batch_arrives v x :
  LocAPIBatchNotification_in_range v = true ->
  fits (LocAPIBatchNotification_count v) (LocAPIBatchNotification_location v) ->
  (p ← convertLocAPIBatchingNotifMsgToPB v PBLocAPIBatchNotification_default;
   pbConvertToLocAPIBatchNotification p x) =
  if decide (fits (LocAPIBatchNotification_count v) (LocAPIBatchNotification_location x))
  then Some {|
    LocAPIBatchNotification_count := LocAPIBatchNotification_count v;
    LocAPIBatchNotification_status :=
      enum_arriving BatchingStatus_conv (LocAPIBatchNotification_status v);
    LocAPIBatchNotification_location :=
      array_arrived (Z.to_nat (LocAPIBatchNotification_count v)) Location_arrived
        (LocAPIBatchNotification_location v) (LocAPIBatchNotification_location x) |}
  else None.
Proof.
  destruct v as [n st l]. unfold LocAPIBatchNotification_in_range; simpl.
  intros [Hn Hl]%andb_prop Hfit.
  unfold convertLocAPIBatchingNotifMsgToPB, pbConvertToLocAPIBatchNotification; simpl.
  rewrite <- BatchingStatus_conv_arrives.
  array_arrives Location_in_range Location_arrived. auto with arrives.
Qed.

Lemma measurements_arrive v x :
  GnssMeasurementsNotification_in_range v = true ->
  fits (GnssMeasurementsNotification_count v) (GnssMeasurementsNotification_measurements v) ->
  (p ← convertGnssMeasNotifToPB v PBGnssMeasurementsNotification_default;
   pbConvertToGnssMeasNotification p x) =
  if decide (fits (GnssMeasurementsNotification_count v) (GnssMeasurementsNotification_measurements x))
  then Some {|
    GnssMeasurementsNotification_count := GnssMeasurementsNotification_count v;
    GnssMeasurementsNotification_measurements :=
      array_arrived (Z.to_nat (GnssMeasurementsNotification_count v)) GnssMeasurementsData_arrived
        (GnssMeasurementsNotification_measurements v) (GnssMeasurementsNotification_measurements x);
    GnssMeasurementsNotification_clock :=
      GnssMeasurementsClock_arrived (GnssMeasurementsNotification_clock v)
        (GnssMeasurementsNotification_clock x) |}
  else None.
Proof.
  destruct v as [n l c]. unfold GnssMeasurementsNotification_in_range; simpl.
  intros [[[Hn _]%andb_prop Hl]%andb_prop Hc]%andb_prop Hfit.
  unfold convertGnssMeasNotifToPB, pbConvertToGnssMeasNotification; simpl.
  rewrite <- (GnssMeasurementsClock_arrives c PBGnssMeasurementsClock_default) by done.
  array_arrives GnssMeasurementsData_in_range GnssMeasurementsData_arrived. auto with arrives.
Qed.

Lemma sv_arrives v x :
  GnssSvNotification_in_range v = true -> GnssSvNotification_in_range x = true ->
  fits (GnssSvNotification_count v) (GnssSvNotification_gnssSvs v) ->
  (p ← convertGnssSvNotifToPB v PBLocApiGnssSvNotification_default; pbConvertToGnssSvNotif p x) =
  Some {|
    GnssSvNotification_count := GnssSvNotification_count v;
    GnssSvNotification_gnssSignalTypeMaskValid := GnssSvNotification_gnssSignalTypeMaskValid v;
    GnssSvNotification_gnssSvs :=
      array_arrived (Z.to_nat (GnssSvNotification_count v)) (fun s _ => GnssSv_arrived s)
        (GnssSvNotification_gnssSvs v) (GnssSvNotification_gnssSvs x) |}.
Proof.
  destruct v as [n b l], x as [n' b' l']. unfold GnssSvNotification_in_range; simpl.
  intros [[Hn Hlen%Z.eqb_eq]%andb_prop Hl]%andb_prop [[_ Hlen'%Z.eqb_eq]%andb_prop _]%andb_prop Hfit.
  unfold convertGnssSvNotifToPB, pbConvertToGnssSvNotif; simpl.
  rewrite ?for_add by done; csimpl.
  destruct (count_sent (λ sv, convertGnssSvToPB sv PBLocApiGnssSv_default) _ l Hn Hfit) as [-> ->].
  rewrite Z.min_l by (unfold GNSS_SV_MAX in *; lia).
  rewrite (for_write_all GnssSv_in_range _ _ (fun s _ => GnssSv_arrived s)); [|auto with arrives|done..].
  by rewrite decide_True by lia.
Qed.

Lemma gf_breach_arrives v x :
  LocAPIGeofenceBreachNotification_in_range v = true ->
  fits (LocAPIGeofenceBreachNotification_count v) (LocAPIGeofenceBreachNotification_id v) ->
  (p ← convertLocAPIGfBreachNotifToPB v PBLocAPIGeofenceBreachNotification_default;
   pbConvertToLocAPIGfBreachNotification p x) =
  if decide (LocAPIGeofenceBreachNotification_count v = 0) then None
  else
    id ← head (LocAPIGeofenceBreachNotification_id v);
    _ ← head (LocAPIGeofenceBreachNotification_id x);
    Some {|
      LocAPIGeofenceBreachNotification_count := LocAPIGeofenceBreachNotification_count x;
      LocAPIGeofenceBreachNotification_timestamp := LocAPIGeofenceBreachNotification_timestamp v;
      LocAPIGeofenceBreachNotification_type :=
        mask_arriving GeofenceBreachTypeMask_conv (LocAPIGeofenceBreachNotification_type v);
      LocAPIGeofenceBreachNotification_location :=
        Location_arrived (LocAPIGeofenceBreachNotification_location v)
          (LocAPIGeofenceBreachNotification_location x);
      LocAPIGeofenceBreachNotification_id :=
        id :: tail (LocAPIGeofenceBreachNotification_id x) |}.
Proof.
  destruct v as [n ts ty loc l], x as [n' ts' ty' loc' l'].
  unfold LocAPIGeofenceBreachNotification_in_range; simpl.
  intros Hr Hfit. rewrite ?andb_true_iff in Hr. destruct_and! Hr.
  unfold convertLocAPIGfBreachNotifToPB, pbConvertToLocAPIGfBreachNotification; simpl.
  rewrite (for_add l (fun id => id)) by done. csimpl.
  destruct (decide (n = 0)) as [->|Hn]; [done|].
  assert (0 < n) by (match goal with H : in_u 32 n = true |- _ => apply andb_prop in H as [?%Z.leb_le _] end; lia).
  destruct (Z.to_nat n) as [|k] eqn:Ek; [lia|]. destruct l as [|id l]; [simpl in Hfit; lia|]. csimpl.
  destruct l' as [|id' l']; csimpl; [done|].
  rewrite Location_arrives, GeofenceBreachType_received by done.
  by rewrite mask_arriving_wraps by (lia || (vm_compute; reflexivity)).
Qed.

Lemma zip_with_first {A B C} (f : A -> C) (l : list A) (k : list B) :
  (length l ≤ length k)%nat -> zip_with (fun a _ => f a) l k = f <$> l.
Proof.
  revert k. induction l as [|a l IH]; intros [|b k] H; simpl in *; try done; [lia|].
  rewrite IH by lia. done.
Qed.

(** A loop over three arrays at once is three loops. *)
Lemma for_three {S A B C} (mk : A -> B -> C -> S) body fa fb fc n i a b c :
  (∀ i a b c, body i (mk a b c) = (a ← fa i a; b ← fb i b; c ← fc i c; Some (mk a b c))) ->
  for_ n i body (mk a b c) =
  (a ← for_ n i fa a; b ← for_ n i fb b; c ← for_ n i fc c; Some (mk a b c)).
Proof.
  intros Hb. revert i a b c. induction n as [|n IH]; intros i a b c; cbn [for_]; [done|].
  rewrite Hb. destruct (fa i a) as [a1|]; csimpl; [|done].
  destruct (fb i b) as [b1|]; csimpl; [|by destruct (for_ n (Datatypes.S i) fa a1)].
  destruct (fc i c) as [c1|]; csimpl.
  - apply IH.
  - destruct (for_ n (Datatypes.S i) fa a1); csimpl; [|done].
    by destruct (for_ n (Datatypes.S i) fb b1).
Qed.

Lemma data_sent v :
  GnssDataNotification_in_range v = true ->
  convertGnssDataNotifToPB v PBGnssDataNotification_default = Some {|
    PBGnssDataNotification_numberSignalTypes := GNSS_LOC_MAX_NUMBER_OF_SIGNAL_TYPES;
    PBGnssDataNotification_gnssDataMask := GnssDataNotification_gnssDataMask v;
    PBGnssDataNotification_jammerInd := GnssDataNotification_jammerInd v;
    PBGnssDataNotification_agc := GnssDataNotification_agc v |}.
Proof.
  destruct v as [m j a]. unfold GnssDataNotification_in_range; simpl.
  rewrite !andb_true_iff, !Z.eqb_eq. intros Hv. destruct_and! Hv.
  set (mk x y z := MkPBGnssDataNotification GNSS_LOC_MAX_NUMBER_OF_SIGNAL_TYPES x y z).
  refine (eq_trans (for_three mk _ (fun i l => x ← m !! i; Some (add l x))
    (fun i l => x ← j !! i; Some (add l x)) (fun i l => x ← a !! i; Some (add l x)) _ _ [] [] [] _) _).
  { intros i l1 l2 l3. simpl. by destruct (m !! i), (j !! i), (a !! i). }
  unfold GNSS_LOC_MAX_NUMBER_OF_SIGNAL_TYPES in *.
  rewrite !(for_add _ (fun x => x)) by lia. cbn [mbind option_bind app].
  by rewrite !list_fmap_id, !take_ge by lia.
Qed.

(** Signal data: as many elements as the message says, but no more than the
    arrays have. *)
Lemma data_received p x :
  GnssDataNotification_in_range x = true ->
  let n := Z.to_nat (Z.min (PBGnssDataNotification_numberSignalTypes p)
                           GNSS_LOC_MAX_NUMBER_OF_SIGNAL_TYPES) in
  pbConvertToGnssDataNotification p x =
  if decide (n ≤ length (PBGnssDataNotification_gnssDataMask p) ∧
             n ≤ length (PBGnssDataNotification_jammerInd p) ∧
             n ≤ length (PBGnssDataNotification_agc p))%nat
  then Some {|
    GnssDataNotification_gnssDataMask :=
      array_arrived n (fun m _ => mask_arriving GnssDataMask_conv m)
        (PBGnssDataNotification_gnssDataMask p) (GnssDataNotification_gnssDataMask x);
    GnssDataNotification_jammerInd :=
      array_arrived n const (PBGnssDataNotification_jammerInd p) (GnssDataNotification_jammerInd x);
    GnssDataNotification_agc :=
      array_arrived n const (PBGnssDataNotification_agc p) (GnssDataNotification_agc x) |}
  else None.
Proof.
  destruct x as [m j a]. unfold GnssDataNotification_in_range; simpl.
  rewrite !andb_true_iff, !Z.eqb_eq. intros Hv. destruct_and! Hv.
  unfold pbConvertToGnssDataNotification. set (n := Z.to_nat _).
  assert (n ≤ 20)%nat by (unfold n, GNSS_LOC_MAX_NUMBER_OF_SIGNAL_TYPES; lia).
  unfold GNSS_LOC_MAX_NUMBER_OF_SIGNAL_TYPES in *.
  rewrite (for_three MkGnssDataNotification _
    (fun i l => x ← PBGnssDataNotification_gnssDataMask p !! i;
                write_at l i (fun _ => mask_arriving GnssDataMask_conv x))
    (fun i l => x ← PBGnssDataNotification_jammerInd p !! i; write_at l i (fun _ => x))
    (fun i l => x ← PBGnssDataNotification_agc p !! i; write_at l i (fun _ => x))).
  2:{ intros i l1 l2 l3. simpl. destruct (PBGnssDataNotification_gnssDataMask p !! i); csimpl; [|done].
      rewrite GnssDataMask_received. destruct (write_at l1 _ _); csimpl; [|done].
      destruct (PBGnssDataNotification_jammerInd p !! i); csimpl; [|done].
      destruct (write_at l2 _ _); csimpl; [|done].
      by destruct (PBGnssDataNotification_agc p !! i). }
  rewrite !for_write.
  repeat case_decide; csimpl; try done; exfalso; lia.
Qed.

Lemma data_arrives v x :
  GnssDataNotification_in_range v = true -> GnssDataNotification_in_range x = true ->
  (p ← convertGnssDataNotifToPB v PBGnssDataNotification_default; pbConvertToGnssDataNotification p x) =
  Some {|
    GnssDataNotification_gnssDataMask :=
      mask_arriving GnssDataMask_conv <$> GnssDataNotification_gnssDataMask v;
    GnssDataNotification_jammerInd := GnssDataNotification_jammerInd v;
    GnssDataNotification_agc := GnssDataNotification_agc v |}.
Proof.
  intros Hv Hx. rewrite data_sent by done. cbn [mbind option_bind]. rewrite data_received by done.
  destruct v as [m j a], x as [m' j' a'].
  unfold GnssDataNotification_in_range, GNSS_LOC_MAX_NUMBER_OF_SIGNAL_TYPES in *; simpl in *.
  rewrite !andb_true_iff, !Z.eqb_eq in Hv, Hx. destruct_and! Hv. destruct_and! Hx.
  change (Z.to_nat (Z.min 20 20)) with 20%nat. rewrite decide_True by lia.
  unfold array_arrived. rewrite !take_ge, !drop_ge, !app_nil_r by lia. do 2 f_equal.
  - apply zip_with_first. lia.
  - rewrite <- (list_fmap_id j) at 2. apply (zip_with_first id). lia.
  - rewrite <- (list_fmap_id a) at 2. apply (zip_with_first id). lia.
Qed.

(** * Location info *)

#[local] Arguments for_ : simpl never.

Lemma system_time_sent v p :
  time_of_system v = true -> GnssSystemTime_in_range v = true ->
  ∃ pb, convertGnssSystemTimeToPB v p = Some pb ∧
        ∀ x, pbConvertToGnssSystemTime pb x = GnssSystemTime_arrived v x.
Proof.
  intros Ht Hr. destruct (convertGnssSystemTimeToPB v p) as [pb|] eqn:E.
  - exists pb. split; [done|]. intros x. pose proof (GnssSystemTime_arrives v p x Ht Hr) as H.
    rewrite E in H. cbn [mbind option_bind] in H. congruence.
  - pose proof (GnssSystemTime_arrives v p v Ht Hr) as H. by rewrite E in H.
Qed.

(** What [GnssSystemTime.u] holds goes with its constellation, and no more
    measurements are used than there is room for. *)
Definition location_info_sendable (v : GnssLocationInfoNotification) : bool :=
  GnssLocationInfoNotification_in_range v &&
  time_of_system (GnssLocationInfoNotification_gnssSystemTime v) &&
  (GnssLocationInfoNotification_numOfMeasReceived v <=? GNSS_SV_MAX).

Lemma location_info_arrays v :
  GnssLocationInfoNotification_in_range v = true ->
  length (GnssLocationInfoNotification_measUsageInfo v) = Z.to_nat GNSS_SV_MAX ∧
  length (GnssLocationInfoNotification_enuVelocityVRPBased v) = 3%nat.
Proof.
  unfold GnssLocationInfoNotification_in_range. rewrite !andb_true_iff, !Z.eqb_eq. intros H.
  unfold GNSS_SV_MAX in *. lia.
Qed.

Lemma location_info_arrives v x :
  location_info_sendable v = true -> GnssLocationInfoNotification_in_range x = true ->
  (p ← convertGnssLocInfoNotifToPB v PBGnssLocationInfoNotification_default;
   pbConvertToGnssLocInfoNotif p x) = Some (GnssLocationInfoNotification_arrived v x).
Proof.
  intros [[Hr Ht]%andb_prop Hn%Z.leb_le]%andb_prop Hx.
  destruct (location_info_arrays _ Hr) as [Hm He], (location_info_arrays _ Hx) as [Hm' He'].
  unfold GnssLocationInfoNotification_in_range in Hr. rewrite !andb_true_iff in Hr. destruct_and! Hr.
  destruct (system_time_sent (GnssLocationInfoNotification_gnssSystemTime v)
    (PBGnssLocationInfoNotification_gnssSystemTime PBGnssLocationInfoNotification_default) Ht) as (pb & Es & Ea);
    [assumption|].
  unfold convertGnssLocInfoNotifToPB. rewrite Es. cbn [mbind option_bind].
  rewrite (for_add _ (fun v => v)), (for_add (GnssLocationInfoNotification_measUsageInfo v)
    (fun m => convertGnssMeasUsageInfoToPB m PBGnssMeasUsageInfo_default))
    by (unfold GNSS_SV_MAX in *; lia).
  cbn [mbind option_bind]. unfold pbConvertToGnssLocInfoNotif.
  cbn [PBGnssLocationInfoNotification_bodyFrameData].
  rewrite GnssLocationPositionDynamics_arrives. simpl.
  rewrite Z.min_l by done.
  rewrite (for_write_all GnssMeasUsageInfo_in_range _ _ (fun m _ => GnssMeasUsageInfo_arrived m));
    [|auto with arrives|done|unfold GNSS_SV_MAX in *; lia].
  rewrite decide_True by (unfold GNSS_SV_MAX in *; lia). cbn [mbind option_bind].
  rewrite for_write, decide_True by (simpl; rewrite length_fmap, length_take; lia).
  cbn [mbind option_bind]. f_equal. unfold GnssLocationInfoNotification_arrived.
  simpl. rewrite Ea. f_equal; try member.
  - apply GnssLocationInfoFlagMask_arrives.
  - destruct (GnssLocationInfoNotification_enuVelocityVRPBased v) as [|? [|? [|? [|]]]]; try discriminate He.
    by destruct (GnssLocationInfoNotification_enuVelocityVRPBased x) as [|? [|? [|? [|]]]].
Qed.

(** * Bounds *)

Lemma for_write_none {A B} (src : list A) (g : A -> B -> B) n (l : list B) :
  for_ n 0 (fun i l => x ← src !! i; write_at l i (g x)) l = None <->
  (length src < n ∨ length l < n)%nat.
Proof. rewrite for_write. case_decide; split; intros H'; try done; lia. Qed.

Lemma bind_some_none {A B} (o : option A) (f : A -> B) : (x ← o; Some (f x)) = None <-> o = None.
Proof. by destruct o. Qed.

(** * What arrives *)

(** C32: Each struct that is sent as a message arrives as [X_arrived] says: its
    masks and enumerations but for the constants that have no counterpart, all
    other members as they were, and the members that the message has no field
    for as the receiver had them.  No member is cut off by a narrower type, and
    none of this depends on what the message held before.  The location info of
    a fix arrives with its arrays and with the time of its constellation. *)
Theorem pb_structs_arrive :
  (∀ v p x, GnssSvTypeConfig_in_range v = true ->
     pbConvertToGnssSvTypeConfig (convertGnssSvTypeConfigToPB v p) x = GnssSvTypeConfig_arrived v) ∧
  (∀ v p x, GnssSvIdConfig_in_range v = true ->
     pbConvertToGnssSvIdConfig (convertGnssSvIdConfigToPB v p) x = v) ∧
  (∀ v p x, GnssAidingData_in_range v = true ->
     pbConvertToGnssAidingData (convertGnssAidingDataToPB v p) x = GnssAidingData_arrived v x) ∧
  (∀ v p x, LeverArmConfigInfo_in_range v = true ->
     pbConvertToLeverArmConfigInfo (convertLeverArmConfigInfoToPB v p) x = LeverArmConfigInfo_arrived v) ∧
  (∀ v p x, BodyToSensorMountParams_in_range v = true ->
     pbConvertToBodyToSensorMountParams (convertBodyToSensorMountParamsToPB v p) x = v) ∧
  (∀ v p x, DeadReckoningEngineConfig_in_range v = true ->
     pbConvertToDeadReckoningEngineConfig (convertDeadReckoningEngineConfigToPB v p) x = DeadReckoningEngineConfig_arrived v) ∧
  (∀ v p x, LocationOptions_in_range v = true ->
     pbConvertToLocationOptions (convertLocationOptionsToPB v p) x = LocationOptions_arrived v) ∧
  (∀ v p x, GeofenceOption_in_range v = true ->
     pbConvertToGeofenceOption (convertGeofenceOptionToPB v p) x = GeofenceOption_arrived v) ∧
  (∀ v p x, GeofenceInfo_in_range v = true ->
     pbConvertToGeofenceInfo (convertGeofenceInfoToPB v p) x = v) ∧
  (∀ v p x, GnssConfigRobustLocation_in_range v = true ->
     pbConvertToGnssConfigRobustLocation (convertGnssConfigRobustLocationToPB v p) x = GnssConfigRobustLocation_arrived v) ∧
  (∀ v p x, Location_in_range v = true ->
     pbConvertToLocation (convertLocationToPB v p) x = Location_arrived v x) ∧
  (∀ v p x, LocationSystemInfo_in_range v = true ->
     pbConvertToLocationSystemInfo (convertLocSysInfoToPB v p) x = LocationSystemInfo_arrived v) ∧
  (∀ v p x, LocAPINmeaSerializedPayload_in_range v = true ->
     pbConvertToLocAPINmeaSerializedPayload (convertLocAPINmeaSerializedPayloadToPB v p) x = v) ∧
  (∀ v p x, GnssMeasurementsData_in_range v = true ->
     pbConvertToGnssMeasurementsData (convertGnssMeasDataToPB v p) x = GnssMeasurementsData_arrived v x) ∧
  (∀ v p x, GnssMeasurementsClock_in_range v = true ->
     pbConvertToGnssMeasurementsClock (convertGnssMeasClockToPB v p) x = GnssMeasurementsClock_arrived v x) ∧
  (∀ v p x, GnssSv_in_range v = true ->
     gnssSv_of_pb (convertGnssSvToPB v p) x = GnssSv_arrived v) ∧
  (∀ v x, location_info_sendable v = true -> GnssLocationInfoNotification_in_range x = true ->
     (p ← convertGnssLocInfoNotifToPB v PBGnssLocationInfoNotification_default;
      pbConvertToGnssLocInfoNotif p x) = Some (GnssLocationInfoNotification_arrived v x)).
Proof.
  repeat apply conj; [auto with arrives..|]. apply location_info_arrives.
Qed.

(** A fix, as it is sent and as it arrives in a struct of zeros. *)
Definition a_location : Location :=
  MkLocation 1 1700000000000 4631166901565532406 (-4601552919265804287) 4607182418800017408
    1069547520 1092616192 1082130432 1084227584 1065353216 1073741824 0 1 0 0 0.
Definition no_location : Location := MkLocation 0 0 0 0 0 0 0 0 0 0 0 0 0 0 0 0.
Definition a_system_time : GnssSystemTime :=
  MkGnssSystemTime GNSS_LOC_SV_SYSTEM_GLONASS
    (glo_time (MkGnssGloTimeStructType 100 3 1000 0 0 0 0 7)).
Lemma pb_structs_arrive_witness :
  pbConvertToLocation (convertLocationToPB a_location PBLocation_default) no_location = a_location.
Proof.
  pose proof pb_structs_arrive as H. do 10 apply proj2 in H. apply proj1 in H.
  rewrite H by reflexivity. vm_compute. reflexivity.
Defined.

Lemma sv_received p x :
  GnssSvNotification_in_range x = true -> is_Some (pbConvertToGnssSvNotif p x).
Proof.
  destruct x as [n b l]. unfold GnssSvNotification_in_range; simpl.
  intros [[_ Hl%Z.eqb_eq]%andb_prop _]%andb_prop.
  unfold pbConvertToGnssSvNotif. rewrite for_write. simpl. unfold GNSS_SV_MAX in *.
  rewrite decide_True by lia. csimpl. eauto.
Qed.

Lemma location_info_none p x :
  GnssLocationInfoNotification_in_range x = true ->
  pbConvertToGnssLocInfoNotif p x = None <->
  (length (PBGnssLocationInfoNotification_measUsageInfo p) <
     Z.to_nat (Z.min (PBGnssLocationInfoNotification_numOfMeasReceived p) 128) ∨
   length (PBGnssLocationInfoNotification_enuVelocityVRPBased p) < 3)%nat.
Proof.
  intros Hx. destruct (location_info_arrays _ Hx) as [Hm He]. unfold GNSS_SV_MAX in Hm.
  unfold pbConvertToGnssLocInfoNotif, GNSS_SV_MAX.
  destruct (pbConvertToGnssLocationPositionDynamics _) as [d e].
  rewrite !for_write. repeat case_decide; csimpl; split; intros H'; try done; lia.
Qed.

(** Structs of zeros. *)
Definition no_svs : GnssSvNotification :=
  MkGnssSvNotification 0 false (repeat (MkGnssSv 0 0 0 0 0 0 0 0 0 0) 128).
Definition no_location_info : GnssLocationInfoNotification :=
  MkGnssLocationInfoNotification no_location 0 0 0 0 0 0 0 0 0 0 0 0 0 0 0 0 0 0 0 0 0 0
    (MkGnssLocationSvUsedInPosition 0 0 0 0 0 0) 0
    (MkGnssLocationPositionDynamics 0 0 0 0 0 0 0 0 0 0 0)
    a_system_time 0 (repeat (MkGnssMeasUsageInfo 0 0 0) 128) 0 0 0 0 0 0 0
    (MkGnssLocationPositionDynamicsExt 0 0 0 0 0 0 0 0 0) (MkLLAInfo 0 0 0) [0; 0; 0] 0 false 0.

(** C33: Each array arrives with the elements and the count that were sent, if the
    array of the receiver has room for them; the elements beyond are kept.
    Satellites, location info and signal data always have room, the others are
    written past the end of a shorter array.  Of a breach only the first id
    arrives, and the count of ids is not set; a breach without any id makes the
    receiver read a field that is not there. *)
Theorem pb_arrays_arrive :
  (∀ v x, GeofencesAddedReqPayload_in_range v = true ->
     fits (GeofencesAddedReqPayload_count v) (GeofencesAddedReqPayload_gfPayload v) ->
     (p ← convertGfAddedReqPayloadToPB v PBGeofencesAddedReqPayload_default;
      pbConvertToGfAddReqPayload p x) =
     if decide (fits (GeofencesAddedReqPayload_count v) (GeofencesAddedReqPayload_gfPayload x))
     then Some {|
       GeofencesAddedReqPayload_count := GeofencesAddedReqPayload_count v;
       GeofencesAddedReqPayload_gfPayload :=
         array_arrived (Z.to_nat (GeofencesAddedReqPayload_count v)) GeofencePayload_arrived
           (GeofencesAddedReqPayload_gfPayload v) (GeofencesAddedReqPayload_gfPayload x) |}
     else None) ∧
  (∀ v x, GeofencesReqClientIdPayload_in_range v = true ->
     fits (GeofencesReqClientIdPayload_count v) (GeofencesReqClientIdPayload_gfIds v) ->
     (p ← convertGfReqClientIdPayloadToPB v PBGeofencesReqClientIdPayload_default;
      pbConvertToGfReqClientIdPayload p x) =
     if decide (fits (GeofencesReqClientIdPayload_count v) (GeofencesReqClientIdPayload_gfIds x))
     then Some {|
       GeofencesReqClientIdPayload_count := GeofencesReqClientIdPayload_count v;
       GeofencesReqClientIdPayload_gfIds :=
         array_arrived (Z.to_nat (GeofencesReqClientIdPayload_count v)) const
           (GeofencesReqClientIdPayload_gfIds v) (GeofencesReqClientIdPayload_gfIds x) |}
     else None) ∧
  (∀ v x, CollectiveResPayload_in_range v = true ->
     fits (CollectiveResPayload_count v) (CollectiveResPayload_resp v) ->
     (p ← convertCollectiveResPayloadToPB v PBCollectiveResPayload_default;
      pbConvertToCollectiveResPayload p x) =
     if decide (fits (CollectiveResPayload_count v) (CollectiveResPayload_resp x))
     then Some {|
       CollectiveResPayload_count := CollectiveResPayload_count v;
       CollectiveResPayload_resp :=
         array_arrived (Z.to_nat (CollectiveResPayload_count v)) GeofenceResponse_arrived
           (CollectiveResPayload_resp v) (CollectiveResPayload_resp x) |}
     else None) ∧
  (∀ v x, LocAPIBatchNotification_in_range v = true ->
     fits (LocAPIBatchNotification_count v) (LocAPIBatchNotification_location v) ->
     (p ← convertLocAPIBatchingNotifMsgToPB v PBLocAPIBatchNotification_default;
      pbConvertToLocAPIBatchNotification p x) =
     if decide (fits (LocAPIBatchNotification_count v) (LocAPIBatchNotification_location x))
     then Some {|
       LocAPIBatchNotification_count := LocAPIBatchNotification_count v;
       LocAPIBatchNotification_status :=
         enum_arriving BatchingStatus_conv (LocAPIBatchNotification_status v);
       LocAPIBatchNotification_location :=
         array_arrived (Z.to_nat (LocAPIBatchNotification_count v)) Location_arrived
           (LocAPIBatchNotification_location v) (LocAPIBatchNotification_location x) |}
     else None) ∧
  (∀ v x, GnssMeasurementsNotification_in_range v = true ->
     fits (GnssMeasurementsNotification_count v) (GnssMeasurementsNotification_measurements v) ->
     (p ← convertGnssMeasNotifToPB v PBGnssMeasurementsNotification_default;
      pbConvertToGnssMeasNotification p x) =
     if decide (fits (GnssMeasurementsNotification_count v) (GnssMeasurementsNotification_measurements x))
     then Some {|
       GnssMeasurementsNotification_count := GnssMeasurementsNotification_count v;
       GnssMeasurementsNotification_measurements :=
         array_arrived (Z.to_nat (GnssMeasurementsNotification_count v)) GnssMeasurementsData_arrived
           (GnssMeasurementsNotification_measurements v) (GnssMeasurementsNotification_measurements x);
       GnssMeasurementsNotification_clock :=
         GnssMeasurementsClock_arrived (GnssMeasurementsNotification_clock v)
           (GnssMeasurementsNotification_clock x) |}
     else None) ∧
  (∀ v x, GnssSvNotification_in_range v = true -> GnssSvNotification_in_range x = true ->
     fits (GnssSvNotification_count v) (GnssSvNotification_gnssSvs v) ->
     (p ← convertGnssSvNotifToPB v PBLocApiGnssSvNotification_default; pbConvertToGnssSvNotif p x) =
     Some {|
       GnssSvNotification_count := GnssSvNotification_count v;
       GnssSvNotification_gnssSignalTypeMaskValid := GnssSvNotification_gnssSignalTypeMaskValid v;
       GnssSvNotification_gnssSvs :=
         array_arrived (Z.to_nat (GnssSvNotification_count v)) (fun s _ => GnssSv_arrived s)
           (GnssSvNotification_gnssSvs v) (GnssSvNotification_gnssSvs x) |}) ∧
  (∀ v x, GnssDataNotification_in_range v = true -> GnssDataNotification_in_range x = true ->
     (p ← convertGnssDataNotifToPB v PBGnssDataNotification_default;
      pbConvertToGnssDataNotification p x) =
     Some {|
       GnssDataNotification_gnssDataMask :=
         mask_arriving GnssDataMask_conv <$> GnssDataNotification_gnssDataMask v;
       GnssDataNotification_jammerInd := GnssDataNotification_jammerInd v;
       GnssDataNotification_agc := GnssDataNotification_agc v |}) ∧
  (∀ v x, LocAPIGeofenceBreachNotification_in_range v = true ->
     fits (LocAPIGeofenceBreachNotification_count v) (LocAPIGeofenceBreachNotification_id v) ->
     (p ← convertLocAPIGfBreachNotifToPB v PBLocAPIGeofenceBreachNotification_default;
      pbConvertToLocAPIGfBreachNotification p x) =
     if decide (LocAPIGeofenceBreachNotification_count v = 0) then None
     else
       id ← head (LocAPIGeofenceBreachNotification_id v);
       _ ← head (LocAPIGeofenceBreachNotification_id x);
       Some {|
         LocAPIGeofenceBreachNotification_count := LocAPIGeofenceBreachNotification_count x;
         LocAPIGeofenceBreachNotification_timestamp := LocAPIGeofenceBreachNotification_timestamp v;
         LocAPIGeofenceBreachNotification_type :=
           mask_arriving GeofenceBreachTypeMask_conv (LocAPIGeofenceBreachNotification_type v);
         LocAPIGeofenceBreachNotification_location :=
           Location_arrived (LocAPIGeofenceBreachNotification_location v)
             (LocAPIGeofenceBreachNotification_location x);
         LocAPIGeofenceBreachNotification_id :=
           id :: tail (LocAPIGeofenceBreachNotification_id x) |}).
Proof.
  split; [exact gf_added_arrives|]. split; [exact gf_ids_arrive|]. split; [exact collective_res_arrives|].
  split; [exact batch_arrives|]. split; [exact measurements_arrive|]. split; [exact sv_arrives|].
  split; [exact data_arrives|]. exact gf_breach_arrives.
Qed.

(** Two locations of a batch, for a receiver with the array of one element that
    the struct declares; and two ids of a breach, of which one arrives. *)
Definition a_batch : LocAPIBatchNotification :=
  MkLocAPIBatchNotification 2 BATCHING_STATUS_TRIP_COMPLETED [a_location; a_location].
Definition a_breach : LocAPIGeofenceBreachNotification :=
  MkLocAPIGeofenceBreachNotification 2 1700000000000 1 a_location [7; 8].
Lemma pb_arrays_arrive_witness :
  (p ← convertLocAPIBatchingNotifMsgToPB a_batch PBLocAPIBatchNotification_default;
   pbConvertToLocAPIBatchNotification p (MkLocAPIBatchNotification 0 0 [no_location])) = None ∧
  (LocAPIGeofenceBreachNotification_id <$>
   (p ← convertLocAPIGfBreachNotifToPB a_breach PBLocAPIGeofenceBreachNotification_default;
    pbConvertToLocAPIGfBreachNotification p
      (MkLocAPIGeofenceBreachNotification 0 0 0 no_location [0]))) = Some [7].
Proof.
  pose proof pb_arrays_arrive as (_ & _ & _ & Hb & _ & _ & _ & Hg). split.
  - rewrite Hb; [reflexivity|vm_compute; reflexivity|apply (bool_decide_unpack _); vm_compute; exact I].
  - rewrite Hg; [reflexivity|vm_compute; reflexivity|apply (bool_decide_unpack _); vm_compute; exact I].
Defined.

(** C35: Which messages make the receiver leave its arrays, whoever sent them.
    The counts of geofences, responses, batched locations and measurements are
    taken from the message and not compared with the size of the array; a
    breach is taken to have an id, signal data to have as many elements as a
    field of the message says, and location info three velocities and as many
    measurements as it says. *)
Theorem pb_receivers_bounds :
  (∀ p x, pbConvertToGfAddReqPayload p x = None <->
     (length (GeofencesAddedReqPayload_gfPayload x) <
      length (PBGeofencesAddedReqPayload_gfPayload p))%nat) ∧
  (∀ p x, pbConvertToGfReqClientIdPayload p x = None <->
     (length (GeofencesReqClientIdPayload_gfIds x) <
      length (PBGeofencesReqClientIdPayload_gfIds p))%nat) ∧
  (∀ p x, pbConvertToCollectiveResPayload p x = None <->
     (length (CollectiveResPayload_resp x) < length (PBCollectiveResPayload_resp p))%nat) ∧
  (∀ p x, pbConvertToLocAPIBatchNotification p x = None <->
     (length (LocAPIBatchNotification_location x) < length (PBLocAPIBatchNotification_location p))%nat) ∧
  (∀ p x, pbConvertToGnssMeasNotification p x = None <->
     (length (GnssMeasurementsNotification_measurements x) <
      length (PBGnssMeasurementsNotification_measurements p))%nat) ∧
  (∀ p x, pbConvertToLocAPIGfBreachNotification p x = None <->
     PBLocAPIGeofenceBreachNotification_id p = [] ∨ LocAPIGeofenceBreachNotification_id x = []) ∧
  (∀ p x, GnssSvNotification_in_range x = true -> is_Some (pbConvertToGnssSvNotif p x)) ∧
  (∀ p x, GnssDataNotification_in_range x = true ->
     let n := Z.to_nat (Z.min (PBGnssDataNotification_numberSignalTypes p) 20) in
     pbConvertToGnssDataNotification p x = None <->
     (length (PBGnssDataNotification_gnssDataMask p) < n ∨
      length (PBGnssDataNotification_jammerInd p) < n ∨
      length (PBGnssDataNotification_agc p) < n)%nat) ∧
  (∀ p x, GnssLocationInfoNotification_in_range x = true ->
     let n := Z.to_nat (Z.min (PBGnssLocationInfoNotification_numOfMeasReceived p) 128) in
     pbConvertToGnssLocInfoNotif p x = None <->
     (length (PBGnssLocationInfoNotification_measUsageInfo p) < n ∨
      length (PBGnssLocationInfoNotification_enuVelocityVRPBased p) < 3)%nat).
Proof.
  repeat split_and; intros p x.
  - unfold pbConvertToGfAddReqPayload. rewrite bind_some_none, for_write_none. lia.
  - unfold pbConvertToGfReqClientIdPayload. rewrite bind_some_none, for_write_none. lia.
  - unfold pbConvertToCollectiveResPayload. rewrite bind_some_none, for_write_none. lia.
  - unfold pbConvertToLocAPIBatchNotification. rewrite bind_some_none, for_write_none. lia.
  - unfold pbConvertToGnssMeasNotification. rewrite bind_some_none, for_write_none. lia.
  - unfold pbConvertToLocAPIGfBreachNotification, write_at.
    destruct (PBLocAPIGeofenceBreachNotification_id p), (LocAPIGeofenceBreachNotification_id x);
      csimpl; naive_solver.
  - intros Hx. apply sv_received, Hx.
  - intros Hx n. rewrite data_received by done. unfold GNSS_LOC_MAX_NUMBER_OF_SIGNAL_TYPES.
    fold n.
    case_decide; split; intros H'; try done; lia.
  - intros Hx n. by apply location_info_none.
Qed.

Lemma pb_receivers_bounds_witness :
  pbConvertToGnssLocInfoNotif PBGnssLocationInfoNotification_default no_location_info = None ∧
  is_Some (pbConvertToGnssSvNotif PBLocApiGnssSvNotification_default no_svs).
Proof.
  pose proof pb_receivers_bounds as (_ & _ & _ & _ & _ & _ & Hs & _ & Hl). split.
  - apply Hl; [vm_compute; reflexivity|]. right. simpl. lia.
  - apply Hs. vm_compute. reflexivity.
Defined.
