(* ===== verification/IpcMessages.v ===== *)
(** LocationApiMsg.h and LocationApiMsg.cpp: the messages between the clients,
    the location daemon and its engines.  Each class of messages is a
    constructor of [LocAPIMsg] with the members of the class; the inherited
    members are in [LocAPIMsgHeader].  X_serializeToProtobuf is the virtual
    function of class X, X_from_pb its constructor from a received message.  To
    serialize yields [None] where the behaviour is undefined, [Some None] where
    the code returns 0 and [Some (Some s)] for the string s.  A member that a
    constructor leaves as it was has the value of [Uninitialised]. *)

From Stdlib Require Import Strings.Byte.
From stdpp Require Import list strings.
From S2P Require Import Prelude LocationEnums PbConversions ApiStructs PbMessages PbMsgConv.

Local Open Scope Z_scope.

Abbreviation bytes := (list Byte.byte) (only parsing).
Abbreviation LocationError := Z (only parsing).

Definition LOCATION_REMOTE_API_MSG_VERSION : Z := 1.
Definition MAX_SOCKET_PATHNAME_LENGTH : Z := 128.
Definition LOCATION_REMOTE_API_PINGTEST_SIZE : Z := 4.
Definition LOC_OUTPUT_ENGINE_COUNT : Z := 4.

(** * The messages of the protocol *)

Record PBLocAPIClientRegisterReqMsg : Type := MkPBLocAPIClientRegisterReqMsg {
  PBLocAPIClientRegisterReqMsg_mClientType : enum }.
Record PBLocAPICapabilitiesIndMsg : Type := MkPBLocAPICapabilitiesIndMsg {
  PBLocAPICapabilitiesIndMsg_capabilitiesMask : uint64 }.
Record PBLocAPIGenericRespMsg : Type := MkPBLocAPIGenericRespMsg {
  PBLocAPIGenericRespMsg_err : enum }.
Record PBLocAPICollectiveRespMsg : Type := MkPBLocAPICollectiveRespMsg {
  PBLocAPICollectiveRespMsg_collectiveRes : PBCollectiveResPayload }.
Record PBLocAPIStartTrackingReqMsg : Type := MkPBLocAPIStartTrackingReqMsg {
  PBLocAPIStartTrackingReqMsg_locOptions : PBLocationOptions }.
Record PBLocAPIUpdateCallbacksReqMsg : Type := MkPBLocAPIUpdateCallbacksReqMsg {
  PBLocAPIUpdateCallbacksReqMsg_locationCallbacks : uint32 }.
Record PBLocAPIUpdateTrackingOptionsReqMsg : Type := MkPBLocAPIUpdateTrackingOptionsReqMsg {
  PBLocAPIUpdateTrackingOptionsReqMsg_locOptions : PBLocationOptions }.
Record PBLocAPIStartBatchingReqMsg : Type := MkPBLocAPIStartBatchingReqMsg {
  PBLocAPIStartBatchingReqMsg_intervalInMs : uint32;
  PBLocAPIStartBatchingReqMsg_distanceInMeters : uint32;
  PBLocAPIStartBatchingReqMsg_batchingMode : enum }.
Record PBLocAPIUpdateBatchingOptionsReqMsg : Type := MkPBLocAPIUpdateBatchingOptionsReqMsg {
  PBLocAPIUpdateBatchingOptionsReqMsg_intervalInMs : uint32;
  PBLocAPIUpdateBatchingOptionsReqMsg_distanceInMeters : uint32;
  PBLocAPIUpdateBatchingOptionsReqMsg_batchingMode : enum }.
Record PBLocAPIAddGeofencesReqMsg : Type := MkPBLocAPIAddGeofencesReqMsg {
  PBLocAPIAddGeofencesReqMsg_geofences : PBGeofencesAddedReqPayload }.
Record PBLocAPIRemoveGeofencesReqMsg : Type := MkPBLocAPIRemoveGeofencesReqMsg {
  PBLocAPIRemoveGeofencesReqMsg_gfClientIds : PBGeofencesReqClientIdPayload }.
Record PBLocAPIModifyGeofencesReqMsg : Type := MkPBLocAPIModifyGeofencesReqMsg {
  PBLocAPIModifyGeofencesReqMsg_geofences : PBGeofencesAddedReqPayload }.
Record PBLocAPIPauseGeofencesReqMsg : Type := MkPBLocAPIPauseGeofencesReqMsg {
  PBLocAPIPauseGeofencesReqMsg_gfClientIds : PBGeofencesReqClientIdPayload }.
Record PBLocAPIResumeGeofencesReqMsg : Type := MkPBLocAPIResumeGeofencesReqMsg {
  PBLocAPIResumeGeofencesReqMsg_gfClientIds : PBGeofencesReqClientIdPayload }.
Record PBLocAPIUpdateNetworkAvailabilityReqMsg : Type := MkPBLocAPIUpdateNetworkAvailabilityReqMsg {
  PBLocAPIUpdateNetworkAvailabilityReqMsg_mAvailability : bool }.
Record PBLocAPIGetSingleTerrestrialPosReqMsg : Type := MkPBLocAPIGetSingleTerrestrialPosReqMsg {
  PBLocAPIGetSingleTerrestrialPosReqMsg_timeoutMsec : uint32;
  PBLocAPIGetSingleTerrestrialPosReqMsg_techMask : enum;
  PBLocAPIGetSingleTerrestrialPosReqMsg_horQoS : float }.
Record PBLocAPIGetSingleTerrestrialPosRespMsg : Type := MkPBLocAPIGetSingleTerrestrialPosRespMsg {
  PBLocAPIGetSingleTerrestrialPosRespMsg_errorCode : enum;
  PBLocAPIGetSingleTerrestrialPosRespMsg_location : option PBLocation }.
Record PBLocAPILocationIndMsg : Type := MkPBLocAPILocationIndMsg {
  PBLocAPILocationIndMsg_locationNotification : PBLocation }.
Record PBLocAPIBatchingIndMsg : Type := MkPBLocAPIBatchingIndMsg {
  PBLocAPIBatchingIndMsg_batchNotification : PBLocAPIBatchNotification }.
Record PBLocAPIGeofenceBreachIndMsg : Type := MkPBLocAPIGeofenceBreachIndMsg {
  PBLocAPIGeofenceBreachIndMsg_gfBreachNotification : PBLocAPIGeofenceBreachNotification }.
Record PBLocAPILocationInfoIndMsg : Type := MkPBLocAPILocationInfoIndMsg {
  PBLocAPILocationInfoIndMsg_gnssLocationInfoNotification : PBGnssLocationInfoNotification }.
Record PBLocAPIEngineLocationsInfoIndMsg : Type := MkPBLocAPIEngineLocationsInfoIndMsg {
  PBLocAPIEngineLocationsInfoIndMsg_engineLocationsInfo : list PBGnssLocationInfoNotification }.
Record PBLocAPISatelliteVehicleIndMsg : Type := MkPBLocAPISatelliteVehicleIndMsg {
  PBLocAPISatelliteVehicleIndMsg_gnssSvNotification : PBLocApiGnssSvNotification }.
Record PBLocAPINmeaIndMsg : Type := MkPBLocAPINmeaIndMsg {
  PBLocAPINmeaIndMsg_gnssNmeaNotification : PBLocAPINmeaSerializedPayload }.
Record PBLocAPIDataIndMsg : Type := MkPBLocAPIDataIndMsg {
  PBLocAPIDataIndMsg_gnssDataNotification : PBGnssDataNotification }.
Record PBLocAPIMeasIndMsg : Type := MkPBLocAPIMeasIndMsg {
  PBLocAPIMeasIndMsg_gnssMeasurementsNotification : PBGnssMeasurementsNotification }.
Record PBLocAPIGnssEnergyConsumedIndMsg : Type := MkPBLocAPIGnssEnergyConsumedIndMsg {
  PBLocAPIGnssEnergyConsumedIndMsg_totalGnssEnergyConsumedSinceFirstBoot : uint64 }.
Record PBLocAPILocationSystemInfoIndMsg : Type := MkPBLocAPILocationSystemInfoIndMsg {
  PBLocAPILocationSystemInfoIndMsg_locationSystemInfo : PBLocationSystemInfo }.
Record PBLocConfigConstrainedTuncReqMsg : Type := MkPBLocConfigConstrainedTuncReqMsg {
  PBLocConfigConstrainedTuncReqMsg_mEnable : bool;
  PBLocConfigConstrainedTuncReqMsg_mTuncConstraint : float;
  PBLocConfigConstrainedTuncReqMsg_mEnergyBudget : uint32 }.
Record PBLocConfigPositionAssistedClockEstimatorReqMsg : Type := MkPBLocConfigPositionAssistedClockEstimatorReqMsg {
  PBLocConfigPositionAssistedClockEstimatorReqMsg_mEnable : bool }.
Record PBLocConfigSvConstellationReqMsg : Type := MkPBLocConfigSvConstellationReqMsg {
  PBLocConfigSvConstellationReqMsg_mConstellationEnablementConfig : PBGnssSvTypeConfig;
  PBLocConfigSvConstellationReqMsg_mBlacklistSvConfig : PBGnssSvIdConfig;
  PBLocConfigSvConstellationReqMsg_mResetToDefault : bool }.
Record PBLocConfigConstellationSecondaryBandReqMsg : Type := MkPBLocConfigConstellationSecondaryBandReqMsg {
  PBLocConfigConstellationSecondaryBandReqMsg_mSecondaryBandConfig : PBGnssSvTypeConfig }.
Record PBLocConfigAidingDataDeletionReqMsg : Type := MkPBLocConfigAidingDataDeletionReqMsg {
  PBLocConfigAidingDataDeletionReqMsg_mAidingData : PBAidingData }.
Record PBLocConfigLeverArmReqMsg : Type := MkPBLocConfigLeverArmReqMsg {
  PBLocConfigLeverArmReqMsg_mLeverArmConfigInfo : PBLIALeverArmConfigInfo }.
Record PBLocConfigRobustLocationReqMsg : Type := MkPBLocConfigRobustLocationReqMsg {
  PBLocConfigRobustLocationReqMsg_mEnable : bool;
  PBLocConfigRobustLocationReqMsg_mEnableForE911 : bool }.
Record PBLocConfigMinGpsWeekReqMsg : Type := MkPBLocConfigMinGpsWeekReqMsg {
  PBLocConfigMinGpsWeekReqMsg_mMinGpsWeek : uint32 }.
Record PBLocConfigDrEngineParamsReqMsg : Type := MkPBLocConfigDrEngineParamsReqMsg {
  PBLocConfigDrEngineParamsReqMsg_mDreConfig : PBDeadReckoningEngineConfig }.
Record PBLocConfigMinSvElevationReqMsg : Type := MkPBLocConfigMinSvElevationReqMsg {
  PBLocConfigMinSvElevationReqMsg_mMinSvElevation : uint32 }.
Record PBLocConfigEngineRunStateReqMsg : Type := MkPBLocConfigEngineRunStateReqMsg {
  PBLocConfigEngineRunStateReqMsg_mEngType : enum;
  PBLocConfigEngineRunStateReqMsg_mEngState : enum }.
Record PBLocConfigUserConsentTerrestrialPositioningReqMsg : Type := MkPBLocConfigUserConsentTerrestrialPositioningReqMsg {
  PBLocConfigUserConsentTerrestrialPositioningReqMsg_userConsent : bool }.
Record PBLocConfigGetRobustLocationConfigRespMsg : Type := MkPBLocConfigGetRobustLocationConfigRespMsg {
  PBLocConfigGetRobustLocationConfigRespMsg_mRobustLoationConfig : PBGnssConfigRobustLocation }.
Record PBLocConfigGetMinGpsWeekRespMsg : Type := MkPBLocConfigGetMinGpsWeekRespMsg {
  PBLocConfigGetMinGpsWeekRespMsg_mMinGpsWeek : uint32 }.
Record PBLocConfigGetMinSvElevationRespMsg : Type := MkPBLocConfigGetMinSvElevationRespMsg {
  PBLocConfigGetMinSvElevationRespMsg_mMinSvElevation : uint32 }.
Record PBLocConfigGetConstltnSecondaryBandConfigRespMsg : Type := MkPBLocConfigGetConstltnSecondaryBandConfigRespMsg {
  PBLocConfigGetConstltnSecondaryBandConfigRespMsg_mSecondaryBandConfig : PBGnssSvTypeConfig }.
Record PBLocAPIPingTestReqMsg : Type := MkPBLocAPIPingTestReqMsg {
  PBLocAPIPingTestReqMsg_numberOfPing : uint32; PBLocAPIPingTestReqMsg_data : list uint32 }.
Record PBLocAPIPingTestIndMsg : Type := MkPBLocAPIPingTestIndMsg {
  PBLocAPIPingTestIndMsg_numberOfPing : uint32; PBLocAPIPingTestIndMsg_data : list uint32 }.
Record PBLocAPIMsgHeader : Type := MkPBLocAPIMsgHeader { PBLocAPIMsgHeader_mSocketName : string;
  PBLocAPIMsgHeader_msgId : enum; PBLocAPIMsgHeader_msgVersion : uint32;
  PBLocAPIMsgHeader_payload : bytes; PBLocAPIMsgHeader_payloadSize : uint32 }.

(** * The messages as objects *)

(** [pLocApiPbMsgConv]: whether the pointer to the converter is set. *)
Record LocAPIMsgHeader : Type := MkLocAPIMsgHeader {
  mSocketName : string; msgId : Z; msgVersion : Z; pLocApiPbMsgConv : bool }.

(** The members of each class.  The [size] of a configuration of constellations,
    0 to reset it, counts here and is listed. *)
Inductive LocAPIMsg : Type :=
  | LocAPIClientRegisterReqMsg (mClientType : enum)
  | LocAPIClientDeregisterReqMsg
  | LocAPICapabilitiesIndMsg (capabilitiesMask : enum)
  | LocAPIHalReadyIndMsg
  | LocAPIGenericRespMsg (msgId : Z) (err : enum)
  | LocAPICollectiveRespMsg (msgId : Z) (collectiveRes : CollectiveResPayload)
  | LocAPIStartTrackingReqMsg (locOptions : LocationOptions)
  | LocAPIStopTrackingReqMsg
  | LocAPIUpdateCallbacksReqMsg (locationCallbacks : enum)
  | LocAPIUpdateTrackingOptionsReqMsg (locOptions : LocationOptions)
  | LocAPIStartBatchingReqMsg (intervalInMs : uint32_t) (distanceInMeters : uint32_t)
      (batchingMode : enum)
  | LocAPIStopBatchingReqMsg
  | LocAPIUpdateBatchingOptionsReqMsg (intervalInMs : uint32_t) (distanceInMeters : uint32_t)
      (batchingMode : enum)
  | LocAPIAddGeofencesReqMsg (geofences : GeofencesAddedReqPayload)
  | LocAPIRemoveGeofencesReqMsg (gfClientIds : GeofencesReqClientIdPayload)
  | LocAPIModifyGeofencesReqMsg (geofences : GeofencesAddedReqPayload)
  | LocAPIPauseGeofencesReqMsg (gfClientIds : GeofencesReqClientIdPayload)
  | LocAPIResumeGeofencesReqMsg (gfClientIds : GeofencesReqClientIdPayload)
  | LocAPIUpdateNetworkAvailabilityReqMsg (mAvailability : bool)
  | LocAPIGetGnssEnergyConsumedReqMsg
  | LocAPIGetSingleTerrestrialPosReqMsg (mTimeoutMsec : uint32_t) (mTechMask : enum)
      (mHorQoS : float)
  | LocAPIGetSingleTerrestrialPosRespMsg (mErrorCode : enum) (mLocation : Location)
  | LocAPILocationIndMsg (locationNotification : Location)
  | LocAPIBatchingIndMsg (batchNotification : LocAPIBatchNotification)
  | LocAPIGeofenceBreachIndMsg (gfBreachNotification : LocAPIGeofenceBreachNotification)
  | LocAPILocationInfoIndMsg (gnssLocationInfoNotification : GnssLocationInfoNotification)
  | LocAPIEngineLocationsInfoIndMsg (count : uint32_t)
      (engineLocationsInfo : list GnssLocationInfoNotification)
  | LocAPISatelliteVehicleIndMsg (gnssSvNotification : GnssSvNotification)
  | LocAPINmeaIndMsg (gnssNmeaNotification : LocAPINmeaSerializedPayload)
  | LocAPIDataIndMsg (gnssDataNotification : GnssDataNotification)
  | LocAPIMeasIndMsg (gnssMeasurementsNotification : GnssMeasurementsNotification)
  | LocAPIGnssEnergyConsumedIndMsg (totalGnssEnergyConsumedSinceFirstBoot : uint64_t)
  | LocAPILocationSystemInfoIndMsg (locationSystemInfo : LocationSystemInfo)
  | LocConfigConstrainedTuncReqMsg (mEnable : bool) (mTuncConstraint : float)
      (mEnergyBudget : uint32_t)
  | LocConfigPositionAssistedClockEstimatorReqMsg (mEnable : bool)
  | LocConfigSvConstellationReqMsg (mConstellationEnablementConfig : GnssSvTypeConfig)
      (mConstellationEnablementConfig_size : uint32_t) (mBlacklistSvConfig : GnssSvIdConfig)
  | LocConfigConstellationSecondaryBandReqMsg (mSecondaryBandConfig : GnssSvTypeConfig)
  | LocConfigAidingDataDeletionReqMsg (mAidingData : GnssAidingData)
  | LocConfigLeverArmReqMsg (mLeverArmConfigInfo : LeverArmConfigInfo)
  | LocConfigRobustLocationReqMsg (mEnable : bool) (mEnableForE911 : bool)
  | LocConfigMinGpsWeekReqMsg (mMinGpsWeek : uint16_t)
  | LocConfigDrEngineParamsReqMsg (mDreConfig : DeadReckoningEngineConfig)
  | LocConfigMinSvElevationReqMsg (mMinSvElevation : uint8_t)
  | LocConfigEngineRunStateReqMsg (mEngType : enum) (mEngState : enum)
  | LocConfigUserConsentTerrestrialPositioningReqMsg (mUserConsent : bool)
  | LocConfigGetRobustLocationConfigReqMsg
  | LocConfigGetRobustLocationConfigRespMsg (mRobustLoationConfig : GnssConfigRobustLocation)
  | LocConfigGetMinGpsWeekReqMsg
  | LocConfigGetMinGpsWeekRespMsg (mMinGpsWeek : uint16_t)
  | LocConfigGetMinSvElevationReqMsg
  | LocConfigGetMinSvElevationRespMsg (mMinSvElevation : uint8_t)
  | LocConfigGetConstellationSecondaryBandConfigReqMsg
  | LocConfigGetConstellationSecondaryBandConfigRespMsg (mSecondaryBandConfig : GnssSvTypeConfig)
  | LocAPIPingTestReqMsg (data : list uint8_t)
  | LocAPIPingTestIndMsg (data : list uint8_t).

(** The identifier in the header of a message. *)
Definition msgId_of (m : LocAPIMsg) : Z :=
  match m with
  | LocAPIClientRegisterReqMsg _ => E_LOCAPI_CLIENT_REGISTER_MSG_ID
  | LocAPIClientDeregisterReqMsg => E_LOCAPI_CLIENT_DEREGISTER_MSG_ID
  | LocAPICapabilitiesIndMsg _ => E_LOCAPI_CAPABILILTIES_MSG_ID
  | LocAPIHalReadyIndMsg => E_LOCAPI_HAL_READY_MSG_ID
  | LocAPIGenericRespMsg msgId _ => msgId
  | LocAPICollectiveRespMsg msgId _ => msgId
  | LocAPIStartTrackingReqMsg _ => E_LOCAPI_START_TRACKING_MSG_ID
  | LocAPIStopTrackingReqMsg => E_LOCAPI_STOP_TRACKING_MSG_ID
  | LocAPIUpdateCallbacksReqMsg _ => E_LOCAPI_UPDATE_CALLBACKS_MSG_ID
  | LocAPIUpdateTrackingOptionsReqMsg _ => E_LOCAPI_UPDATE_TRACKING_OPTIONS_MSG_ID
  | LocAPIStartBatchingReqMsg _ _ _ => E_LOCAPI_START_BATCHING_MSG_ID
  | LocAPIStopBatchingReqMsg => E_LOCAPI_STOP_BATCHING_MSG_ID
  | LocAPIUpdateBatchingOptionsReqMsg _ _ _ => E_LOCAPI_UPDATE_BATCHING_OPTIONS_MSG_ID
  | LocAPIAddGeofencesReqMsg _ => E_LOCAPI_ADD_GEOFENCES_MSG_ID
  | LocAPIRemoveGeofencesReqMsg _ => E_LOCAPI_REMOVE_GEOFENCES_MSG_ID
  | LocAPIModifyGeofencesReqMsg _ => E_LOCAPI_MODIFY_GEOFENCES_MSG_ID
  | LocAPIPauseGeofencesReqMsg _ => E_LOCAPI_PAUSE_GEOFENCES_MSG_ID
  | LocAPIResumeGeofencesReqMsg _ => E_LOCAPI_RESUME_GEOFENCES_MSG_ID
  | LocAPIUpdateNetworkAvailabilityReqMsg _ => E_LOCAPI_CONTROL_UPDATE_NETWORK_AVAILABILITY_MSG_ID
  | LocAPIGetGnssEnergyConsumedReqMsg => E_LOCAPI_GET_GNSS_ENGERY_CONSUMED_MSG_ID
  | LocAPIGetSingleTerrestrialPosReqMsg _ _ _ => E_LOCAPI_GET_SINGLE_TERRESTRIAL_POS_REQ_MSG_ID
  | LocAPIGetSingleTerrestrialPosRespMsg _ _ => E_LOCAPI_GET_SINGLE_TERRESTRIAL_POS_RESP_MSG_ID
  | LocAPILocationIndMsg _ => E_LOCAPI_LOCATION_MSG_ID
  | LocAPIBatchingIndMsg _ => E_LOCAPI_BATCHING_MSG_ID
  | LocAPIGeofenceBreachIndMsg _ => E_LOCAPI_GEOFENCE_BREACH_MSG_ID
  | LocAPILocationInfoIndMsg _ => E_LOCAPI_LOCATION_INFO_MSG_ID
  | LocAPIEngineLocationsInfoIndMsg _ _ => E_LOCAPI_ENGINE_LOCATIONS_INFO_MSG_ID
  | LocAPISatelliteVehicleIndMsg _ => E_LOCAPI_SATELLITE_VEHICLE_MSG_ID
  | LocAPINmeaIndMsg _ => E_LOCAPI_NMEA_MSG_ID
  | LocAPIDataIndMsg _ => E_LOCAPI_DATA_MSG_ID
  | LocAPIMeasIndMsg _ => E_LOCAPI_MEAS_MSG_ID
  | LocAPIGnssEnergyConsumedIndMsg _ => E_LOCAPI_GET_GNSS_ENGERY_CONSUMED_MSG_ID
  | LocAPILocationSystemInfoIndMsg _ => E_LOCAPI_LOCATION_SYSTEM_INFO_MSG_ID
  | LocConfigConstrainedTuncReqMsg _ _ _ => E_INTAPI_CONFIG_CONSTRAINTED_TUNC_MSG_ID
  | LocConfigPositionAssistedClockEstimatorReqMsg _ => E_INTAPI_CONFIG_POSITION_ASSISTED_CLOCK_ESTIMATOR_MSG_ID
  | LocConfigSvConstellationReqMsg _ _ _ => E_INTAPI_CONFIG_SV_CONSTELLATION_MSG_ID
  | LocConfigConstellationSecondaryBandReqMsg _ => E_INTAPI_CONFIG_CONSTELLATION_SECONDARY_BAND_MSG_ID
  | LocConfigAidingDataDeletionReqMsg _ => E_INTAPI_CONFIG_AIDING_DATA_DELETION_MSG_ID
  | LocConfigLeverArmReqMsg _ => E_INTAPI_CONFIG_LEVER_ARM_MSG_ID
  | LocConfigRobustLocationReqMsg _ _ => E_INTAPI_CONFIG_ROBUST_LOCATION_MSG_ID
  | LocConfigMinGpsWeekReqMsg _ => E_INTAPI_CONFIG_MIN_GPS_WEEK_MSG_ID
  | LocConfigDrEngineParamsReqMsg _ => E_INTAPI_CONFIG_DEAD_RECKONING_ENGINE_MSG_ID
  | LocConfigMinSvElevationReqMsg _ => E_INTAPI_CONFIG_MIN_SV_ELEVATION_MSG_ID
  | LocConfigEngineRunStateReqMsg _ _ => E_INTAPI_CONFIG_ENGINE_RUN_STATE_MSG_ID
  | LocConfigUserConsentTerrestrialPositioningReqMsg _ => E_INTAPI_CONFIG_USER_CONSENT_TERRESTRIAL_POSITIONING_MSG_ID
  | LocConfigGetRobustLocationConfigReqMsg => E_INTAPI_GET_ROBUST_LOCATION_CONFIG_REQ_MSG_ID
  | LocConfigGetRobustLocationConfigRespMsg _ => E_INTAPI_GET_ROBUST_LOCATION_CONFIG_RESP_MSG_ID
  | LocConfigGetMinGpsWeekReqMsg => E_INTAPI_GET_MIN_GPS_WEEK_REQ_MSG_ID
  | LocConfigGetMinGpsWeekRespMsg _ => E_INTAPI_GET_MIN_GPS_WEEK_RESP_MSG_ID
  | LocConfigGetMinSvElevationReqMsg => E_INTAPI_GET_MIN_SV_ELEVATION_REQ_MSG_ID
  | LocConfigGetMinSvElevationRespMsg _ => E_INTAPI_GET_MIN_SV_ELEVATION_RESP_MSG_ID
  | LocConfigGetConstellationSecondaryBandConfigReqMsg => E_INTAPI_GET_CONSTELLATION_SECONDARY_BAND_CONFIG_REQ_MSG_ID
  | LocConfigGetConstellationSecondaryBandConfigRespMsg _ => E_INTAPI_GET_CONSTELLATION_SECONDARY_BAND_CONFIG_RESP_MSG_ID
  | LocAPIPingTestReqMsg _ => E_LOCAPI_PINGTEST_MSG_ID
  | LocAPIPingTestIndMsg _ => E_LOCAPI_PINGTEST_MSG_ID
  end.

(** What is on the stack where a message is constructed. *)
Record Uninitialised : Type := MkUninitialised { any_CollectiveResPayload : CollectiveResPayload;
  any_LocationOptions : LocationOptions; any_GeofencesAddedReqPayload : GeofencesAddedReqPayload;
  any_GeofencesReqClientIdPayload : GeofencesReqClientIdPayload; any_Location : Location;
  any_LocAPIBatchNotification : LocAPIBatchNotification;
  any_LocAPIGeofenceBreachNotification : LocAPIGeofenceBreachNotification;
  any_GnssLocationInfoNotification : GnssLocationInfoNotification;
  any_GnssLocationInfoNotifications : list GnssLocationInfoNotification;
  any_GnssSvNotification : GnssSvNotification;
  any_LocAPINmeaSerializedPayload : LocAPINmeaSerializedPayload;
  any_GnssDataNotification : GnssDataNotification;
  any_GnssMeasurementsNotification : GnssMeasurementsNotification;
  any_LocationSystemInfo : LocationSystemInfo; any_GnssSvTypeConfig : GnssSvTypeConfig;
  any_GnssSvIdConfig : GnssSvIdConfig; any_GnssAidingData : GnssAidingData;
  any_LeverArmConfigInfo : LeverArmConfigInfo;
  any_DeadReckoningEngineConfig : DeadReckoningEngineConfig;
  any_GnssConfigRobustLocation : GnssConfigRobustLocation; any_data : list uint8_t }.

(** * The protobuf library and the compiler *)

(** What the code relies on: a string made from a message is parsed to it. *)
Class Serializable (M : Type) := {
  SerializeToString : M -> option bytes;
  ParseFromString : bytes -> option M;
  parse_serialized : ∀ m s, SerializeToString m = Some s -> ParseFromString s = Some m }.

Class Protobuf := {
  #[global] PBLocAPIClientRegisterReqMsg_serializable :: Serializable PBLocAPIClientRegisterReqMsg;
  #[global] PBLocAPICapabilitiesIndMsg_serializable :: Serializable PBLocAPICapabilitiesIndMsg;
  #[global] PBLocAPIGenericRespMsg_serializable :: Serializable PBLocAPIGenericRespMsg;
  #[global] PBLocAPICollectiveRespMsg_serializable :: Serializable PBLocAPICollectiveRespMsg;
  #[global] PBLocAPIStartTrackingReqMsg_serializable :: Serializable PBLocAPIStartTrackingReqMsg;
  #[global] PBLocAPIUpdateCallbacksReqMsg_serializable :: Serializable PBLocAPIUpdateCallbacksReqMsg;
  #[global] PBLocAPIUpdateTrackingOptionsReqMsg_serializable :: Serializable PBLocAPIUpdateTrackingOptionsReqMsg;
  #[global] PBLocAPIStartBatchingReqMsg_serializable :: Serializable PBLocAPIStartBatchingReqMsg;
  #[global] PBLocAPIUpdateBatchingOptionsReqMsg_serializable :: Serializable PBLocAPIUpdateBatchingOptionsReqMsg;
  #[global] PBLocAPIAddGeofencesReqMsg_serializable :: Serializable PBLocAPIAddGeofencesReqMsg;
  #[global] PBLocAPIRemoveGeofencesReqMsg_serializable :: Serializable PBLocAPIRemoveGeofencesReqMsg;
  #[global] PBLocAPIModifyGeofencesReqMsg_serializable :: Serializable PBLocAPIModifyGeofencesReqMsg;
  #[global] PBLocAPIPauseGeofencesReqMsg_serializable :: Serializable PBLocAPIPauseGeofencesReqMsg;
  #[global] PBLocAPIResumeGeofencesReqMsg_serializable :: Serializable PBLocAPIResumeGeofencesReqMsg;
  #[global] PBLocAPIUpdateNetworkAvailabilityReqMsg_serializable :: Serializable PBLocAPIUpdateNetworkAvailabilityReqMsg;
  #[global] PBLocAPIGetSingleTerrestrialPosReqMsg_serializable :: Serializable PBLocAPIGetSingleTerrestrialPosReqMsg;
  #[global] PBLocAPIGetSingleTerrestrialPosRespMsg_serializable :: Serializable PBLocAPIGetSingleTerrestrialPosRespMsg;
  #[global] PBLocAPILocationIndMsg_serializable :: Serializable PBLocAPILocationIndMsg;
  #[global] PBLocAPIBatchingIndMsg_serializable :: Serializable PBLocAPIBatchingIndMsg;
  #[global] PBLocAPIGeofenceBreachIndMsg_serializable :: Serializable PBLocAPIGeofenceBreachIndMsg;
  #[global] PBLocAPILocationInfoIndMsg_serializable :: Serializable PBLocAPILocationInfoIndMsg;
  #[global] PBLocAPIEngineLocationsInfoIndMsg_serializable :: Serializable PBLocAPIEngineLocationsInfoIndMsg;
  #[global] PBLocAPISatelliteVehicleIndMsg_serializable :: Serializable PBLocAPISatelliteVehicleIndMsg;
  #[global] PBLocAPINmeaIndMsg_serializable :: Serializable PBLocAPINmeaIndMsg;
  #[global] PBLocAPIDataIndMsg_serializable :: Serializable PBLocAPIDataIndMsg;
  #[global] PBLocAPIMeasIndMsg_serializable :: Serializable PBLocAPIMeasIndMsg;
  #[global] PBLocAPIGnssEnergyConsumedIndMsg_serializable :: Serializable PBLocAPIGnssEnergyConsumedIndMsg;
  #[global] PBLocAPILocationSystemInfoIndMsg_serializable :: Serializable PBLocAPILocationSystemInfoIndMsg;
  #[global] PBLocConfigConstrainedTuncReqMsg_serializable :: Serializable PBLocConfigConstrainedTuncReqMsg;
  #[global] PBLocConfigPositionAssistedClockEstimatorReqMsg_serializable :: Serializable PBLocConfigPositionAssistedClockEstimatorReqMsg;
  #[global] PBLocConfigSvConstellationReqMsg_serializable :: Serializable PBLocConfigSvConstellationReqMsg;
  #[global] PBLocConfigConstellationSecondaryBandReqMsg_serializable :: Serializable PBLocConfigConstellationSecondaryBandReqMsg;
  #[global] PBLocConfigAidingDataDeletionReqMsg_serializable :: Serializable PBLocConfigAidingDataDeletionReqMsg;
  #[global] PBLocConfigLeverArmReqMsg_serializable :: Serializable PBLocConfigLeverArmReqMsg;
  #[global] PBLocConfigRobustLocationReqMsg_serializable :: Serializable PBLocConfigRobustLocationReqMsg;
  #[global] PBLocConfigMinGpsWeekReqMsg_serializable :: Serializable PBLocConfigMinGpsWeekReqMsg;
  #[global] PBLocConfigDrEngineParamsReqMsg_serializable :: Serializable PBLocConfigDrEngineParamsReqMsg;
  #[global] PBLocConfigMinSvElevationReqMsg_serializable :: Serializable PBLocConfigMinSvElevationReqMsg;
  #[global] PBLocConfigEngineRunStateReqMsg_serializable :: Serializable PBLocConfigEngineRunStateReqMsg;
  #[global] PBLocConfigUserConsentTerrestrialPositioningReqMsg_serializable :: Serializable PBLocConfigUserConsentTerrestrialPositioningReqMsg;
  #[global] PBLocConfigGetRobustLocationConfigRespMsg_serializable :: Serializable PBLocConfigGetRobustLocationConfigRespMsg;
  #[global] PBLocConfigGetMinGpsWeekRespMsg_serializable :: Serializable PBLocConfigGetMinGpsWeekRespMsg;
  #[global] PBLocConfigGetMinSvElevationRespMsg_serializable :: Serializable PBLocConfigGetMinSvElevationRespMsg;
  #[global] PBLocConfigGetConstltnSecondaryBandConfigRespMsg_serializable :: Serializable PBLocConfigGetConstltnSecondaryBandConfigRespMsg;
  #[global] PBLocAPIPingTestReqMsg_serializable :: Serializable PBLocAPIPingTestReqMsg;
  #[global] PBLocAPIPingTestIndMsg_serializable :: Serializable PBLocAPIPingTestIndMsg;
  #[global] PBLocAPIMsgHeader_serializable :: Serializable PBLocAPIMsgHeader }.

(** The sizes of the classes, which the headers report. *)
Class Abi := sizeof : string -> Z.

(** [const char*] arguments end at the first NUL; [strlcpy] into the member. *)
Fixpoint c_str (s : string) : string :=
  match s with
  | EmptyString => EmptyString
  | String c s => if Ascii.eqb c Ascii.zero then EmptyString else String c (c_str s)
  end.
Definition strlcpy (n : nat) (s : string) : string := String.substring 0 (n - 1) (c_str s).
Definition new_header (name : string) (id : Z) (conv : bool) : LocAPIMsgHeader := {|
  mSocketName := strlcpy (Z.to_nat MAX_SOCKET_PATHNAME_LENGTH) name; msgId := id;
  msgVersion := LOCATION_REMOTE_API_MSG_VERSION; pLocApiPbMsgConv := conv |}.

Section messages.
Context `{!Protobuf, !Abi}.

(** The header as a message, and the end of every serializeToProtobuf. *)
Definition header_to_pb (h : LocAPIMsgHeader) (payload : bytes) (size : Z) : PBLocAPIMsgHeader := {|
  PBLocAPIMsgHeader_mSocketName := mSocketName h;
  PBLocAPIMsgHeader_msgId := getPBEnumForELocMsgID (msgId h);
  PBLocAPIMsgHeader_msgVersion := msgVersion h;
  PBLocAPIMsgHeader_payload := payload;
  PBLocAPIMsgHeader_payloadSize := wrap_u 32 size |}.
Definition send (h : LocAPIMsgHeader) (size : Z) : option (option bytes) :=
  if pLocApiPbMsgConv h then Some (SerializeToString (header_to_pb h [] size)) else Some None.
Definition send_payload {P} `{!Serializable P} (h : LocAPIMsgHeader) (size : Z) (pb : option P)
    : option (option bytes) :=
  if pLocApiPbMsgConv h then
    pb ← pb;
    Some (payload ← SerializeToString pb; SerializeToString (header_to_pb h payload size))
  else Some None.

(** * The virtual functions serializeToProtobuf *)

Definition LocAPIClientRegisterReqMsg_serializeToProtobuf (h : LocAPIMsgHeader)
    (mClientType : enum) : option (option bytes) :=
  send_payload h (sizeof "LocAPIClientRegisterReqMsg") (
    Some {| PBLocAPIClientRegisterReqMsg_mClientType := getPBEnumForClientType mClientType |}).
Definition LocAPIClientDeregisterReqMsg_serializeToProtobuf (h : LocAPIMsgHeader) :
    option (option bytes) :=
  send h (sizeof "LocAPIClientDeregisterReqMsg").
Definition LocAPICapabilitiesIndMsg_serializeToProtobuf (h : LocAPIMsgHeader)
    (capabilitiesMask : enum) : option (option bytes) :=
  send_payload h (sizeof "LocAPICapabilitiesIndMsg") (
    Some {|
      PBLocAPICapabilitiesIndMsg_capabilitiesMask := getPBMaskForLocationCapabilitiesMask capabilitiesMask |}).
Definition LocAPIHalReadyIndMsg_serializeToProtobuf (h : LocAPIMsgHeader) : option (option bytes) :=
  send h (sizeof "LocAPIHalReadyIndMsg").
Definition LocAPIGenericRespMsg_serializeToProtobuf (h : LocAPIMsgHeader) (err : enum) :
    option (option bytes) :=
  send_payload h (sizeof "LocAPIGenericRespMsg") (
    Some {| PBLocAPIGenericRespMsg_err := getPBEnumForLocationError err |}).
Definition LocAPICollectiveRespMsg_serializeToProtobuf (h : LocAPIMsgHeader)
    (collectiveRes : CollectiveResPayload) : option (option bytes) :=
  send_payload h (sizeof "LocAPICollectiveRespMsg") (
    collectiveRes ← convertCollectiveResPayloadToPB collectiveRes PBCollectiveResPayload_default;
    Some {| PBLocAPICollectiveRespMsg_collectiveRes := collectiveRes |}).
Definition LocAPIStartTrackingReqMsg_serializeToProtobuf (h : LocAPIMsgHeader)
    (locOptions : LocationOptions) : option (option bytes) :=
  send_payload h (sizeof "LocAPIStartTrackingReqMsg") (
    Some {|
      PBLocAPIStartTrackingReqMsg_locOptions := convertLocationOptionsToPB locOptions PBLocationOptions_default |}).
Definition LocAPIStopTrackingReqMsg_serializeToProtobuf (h : LocAPIMsgHeader) :
    option (option bytes) :=
  send h (sizeof "LocAPIStopTrackingReqMsg").
Definition LocAPIUpdateCallbacksReqMsg_serializeToProtobuf (h : LocAPIMsgHeader)
    (locationCallbacks : enum) : option (option bytes) :=
  send_payload h (sizeof "LocAPIUpdateCallbacksReqMsg") (
    Some {|
      PBLocAPIUpdateCallbacksReqMsg_locationCallbacks := getPBMaskForLocationCallbacksMask locationCallbacks |}).
Definition LocAPIUpdateTrackingOptionsReqMsg_serializeToProtobuf (h : LocAPIMsgHeader)
    (locOptions : LocationOptions) : option (option bytes) :=
  send_payload h (sizeof "LocAPIUpdateTrackingOptionsReqMsg") (
    Some {|
      PBLocAPIUpdateTrackingOptionsReqMsg_locOptions := convertLocationOptionsToPB locOptions PBLocationOptions_default |}).
Definition LocAPIStartBatchingReqMsg_serializeToProtobuf (h : LocAPIMsgHeader)
    (intervalInMs : uint32_t) (distanceInMeters : uint32_t) (batchingMode : enum) :
    option (option bytes) :=
  send_payload h (sizeof "LocAPIStartBatchingReqMsg") (
    Some {| PBLocAPIStartBatchingReqMsg_intervalInMs := intervalInMs;
      PBLocAPIStartBatchingReqMsg_distanceInMeters := distanceInMeters;
      PBLocAPIStartBatchingReqMsg_batchingMode := getPBEnumForBatchingMode batchingMode |}).
Definition LocAPIStopBatchingReqMsg_serializeToProtobuf (h : LocAPIMsgHeader) :
    option (option bytes) :=
  send h (sizeof "LocAPIStopBatchingReqMsg").
Definition LocAPIUpdateBatchingOptionsReqMsg_serializeToProtobuf (h : LocAPIMsgHeader)
    (intervalInMs : uint32_t) (distanceInMeters : uint32_t) (batchingMode : enum) :
    option (option bytes) :=
  send_payload h (sizeof "LocAPIUpdateBatchingOptionsReqMsg") (
    Some {| PBLocAPIUpdateBatchingOptionsReqMsg_intervalInMs := intervalInMs;
      PBLocAPIUpdateBatchingOptionsReqMsg_distanceInMeters := distanceInMeters;
      PBLocAPIUpdateBatchingOptionsReqMsg_batchingMode := getPBEnumForBatchingMode batchingMode |}).
Definition LocAPIAddGeofencesReqMsg_serializeToProtobuf (h : LocAPIMsgHeader)
    (geofences : GeofencesAddedReqPayload) : option (option bytes) :=
  send_payload h (sizeof "LocAPIAddGeofencesReqMsg") (
    geofences ← convertGfAddedReqPayloadToPB geofences PBGeofencesAddedReqPayload_default;
    Some {| PBLocAPIAddGeofencesReqMsg_geofences := geofences |}).
Definition LocAPIRemoveGeofencesReqMsg_serializeToProtobuf (h : LocAPIMsgHeader)
    (gfClientIds : GeofencesReqClientIdPayload) : option (option bytes) :=
  send_payload h (sizeof "LocAPIRemoveGeofencesReqMsg") (
    gfClientIds ← convertGfReqClientIdPayloadToPB gfClientIds PBGeofencesReqClientIdPayload_default;
    Some {| PBLocAPIRemoveGeofencesReqMsg_gfClientIds := gfClientIds |}).
Definition LocAPIModifyGeofencesReqMsg_serializeToProtobuf (h : LocAPIMsgHeader)
    (geofences : GeofencesAddedReqPayload) : option (option bytes) :=
  send_payload h (sizeof "LocAPIModifyGeofencesReqMsg") (
    geofences ← convertGfAddedReqPayloadToPB geofences PBGeofencesAddedReqPayload_default;
    Some {| PBLocAPIModifyGeofencesReqMsg_geofences := geofences |}).
Definition LocAPIPauseGeofencesReqMsg_serializeToProtobuf (h : LocAPIMsgHeader)
    (gfClientIds : GeofencesReqClientIdPayload) : option (option bytes) :=
  send_payload h (sizeof "LocAPIPauseGeofencesReqMsg") (
    gfClientIds ← convertGfReqClientIdPayloadToPB gfClientIds PBGeofencesReqClientIdPayload_default;
    Some {| PBLocAPIPauseGeofencesReqMsg_gfClientIds := gfClientIds |}).
Definition LocAPIResumeGeofencesReqMsg_serializeToProtobuf (h : LocAPIMsgHeader)
    (gfClientIds : GeofencesReqClientIdPayload) : option (option bytes) :=
  send_payload h (sizeof "LocAPIResumeGeofencesReqMsg") (
    gfClientIds ← convertGfReqClientIdPayloadToPB gfClientIds PBGeofencesReqClientIdPayload_default;
    Some {| PBLocAPIResumeGeofencesReqMsg_gfClientIds := gfClientIds |}).
Definition LocAPIUpdateNetworkAvailabilityReqMsg_serializeToProtobuf (h : LocAPIMsgHeader)
    (mAvailability : bool) : option (option bytes) :=
  send_payload h (sizeof "LocAPIUpdateNetworkAvailabilityReqMsg") (
    Some {| PBLocAPIUpdateNetworkAvailabilityReqMsg_mAvailability := mAvailability |}).
Definition LocAPIGetGnssEnergyConsumedReqMsg_serializeToProtobuf (h : LocAPIMsgHeader) :
    option (option bytes) :=
  send h (sizeof "LocAPIGetGnssEnergyConsumedReqMsg").
Definition LocAPIGetSingleTerrestrialPosReqMsg_serializeToProtobuf (h : LocAPIMsgHeader)
    (mTimeoutMsec : uint32_t) (mTechMask : enum) (mHorQoS : float) : option (option bytes) :=
  send_payload h (sizeof "LocAPIGetSingleTerrestrialPosReqMsg") (
    Some {| PBLocAPIGetSingleTerrestrialPosReqMsg_timeoutMsec := mTimeoutMsec;
      PBLocAPIGetSingleTerrestrialPosReqMsg_techMask := getPBMaskForTerrestrialTechMask mTechMask;
      PBLocAPIGetSingleTerrestrialPosReqMsg_horQoS := mHorQoS |}).
Definition LocAPIGetSingleTerrestrialPosRespMsg_serializeToProtobuf (h : LocAPIMsgHeader)
    (mErrorCode : enum) (mLocation : Location) : option (option bytes) :=
  send_payload h (sizeof "LocAPIGetSingleTerrestrialPosRespMsg") (
    Some {|
      PBLocAPIGetSingleTerrestrialPosRespMsg_errorCode := getPBEnumForLocationError mErrorCode;
      PBLocAPIGetSingleTerrestrialPosRespMsg_location := Some (convertLocationToPB mLocation PBLocation_default) |}).
Definition LocAPILocationIndMsg_serializeToProtobuf (h : LocAPIMsgHeader)
    (locationNotification : Location) : option (option bytes) :=
  send_payload h (sizeof "LocAPILocationIndMsg") (
    Some {|
      PBLocAPILocationIndMsg_locationNotification := convertLocationToPB locationNotification PBLocation_default |}).
Definition LocAPIBatchingIndMsg_serializeToProtobuf (h : LocAPIMsgHeader)
    (batchNotification : LocAPIBatchNotification) : option (option bytes) :=
  send_payload h (sizeof "LocAPIBatchingIndMsg") (
    batchNotification ← convertLocAPIBatchingNotifMsgToPB batchNotification PBLocAPIBatchNotification_default;
    Some {| PBLocAPIBatchingIndMsg_batchNotification := batchNotification |}).
Definition LocAPIGeofenceBreachIndMsg_serializeToProtobuf (h : LocAPIMsgHeader)
    (gfBreachNotification : LocAPIGeofenceBreachNotification) : option (option bytes) :=
  send_payload h (sizeof "LocAPIGeofenceBreachIndMsg") (
    gfBreachNotification ← convertLocAPIGfBreachNotifToPB gfBreachNotification PBLocAPIGeofenceBreachNotification_default;
    Some {| PBLocAPIGeofenceBreachIndMsg_gfBreachNotification := gfBreachNotification |}).
Definition LocAPILocationInfoIndMsg_serializeToProtobuf (h : LocAPIMsgHeader)
    (gnssLocationInfoNotification : GnssLocationInfoNotification) : option (option bytes) :=
  send_payload h (sizeof "LocAPILocationInfoIndMsg") (
    gnssLocationInfoNotification ← convertGnssLocInfoNotifToPB gnssLocationInfoNotification PBGnssLocationInfoNotification_default;
    Some {|
      PBLocAPILocationInfoIndMsg_gnssLocationInfoNotification := gnssLocationInfoNotification |}).
Definition LocAPIEngineLocationsInfoIndMsg_serializeToProtobuf (h : LocAPIMsgHeader)
    (count : uint32_t) (engineLocationsInfo : list GnssLocationInfoNotification) :
    option (option bytes) :=
  send_payload h (sizeof "LocAPIEngineLocationsInfoIndMsg") (
    infos ← for_ (Z.to_nat (Z.min count LOC_OUTPUT_ENGINE_COUNT)) 0 (fun i infos =>
      info ← engineLocationsInfo !! i;
      pb ← convertGnssLocInfoNotifToPB info PBGnssLocationInfoNotification_default;
      Some (add infos pb)) [];
    Some {| PBLocAPIEngineLocationsInfoIndMsg_engineLocationsInfo := infos |}).
Definition LocAPISatelliteVehicleIndMsg_serializeToProtobuf (h : LocAPIMsgHeader)
    (gnssSvNotification : GnssSvNotification) : option (option bytes) :=
  send_payload h (sizeof "LocAPISatelliteVehicleIndMsg") (
    gnssSvNotification ← convertGnssSvNotifToPB gnssSvNotification PBLocApiGnssSvNotification_default;
    Some {| PBLocAPISatelliteVehicleIndMsg_gnssSvNotification := gnssSvNotification |}).
Definition LocAPINmeaIndMsg_serializeToProtobuf (h : LocAPIMsgHeader)
    (gnssNmeaNotification : LocAPINmeaSerializedPayload) : option (option bytes) :=
  send_payload h (sizeof "LocAPINmeaIndMsg") (
    Some {|
      PBLocAPINmeaIndMsg_gnssNmeaNotification := convertLocAPINmeaSerializedPayloadToPB gnssNmeaNotification PBLocAPINmeaSerializedPayload_default |}).
Definition LocAPIDataIndMsg_serializeToProtobuf (h : LocAPIMsgHeader)
    (gnssDataNotification : GnssDataNotification) : option (option bytes) :=
  send_payload h (sizeof "LocAPIDataIndMsg") (
    gnssDataNotification ← convertGnssDataNotifToPB gnssDataNotification PBGnssDataNotification_default;
    Some {| PBLocAPIDataIndMsg_gnssDataNotification := gnssDataNotification |}).
Definition LocAPIMeasIndMsg_serializeToProtobuf (h : LocAPIMsgHeader)
    (gnssMeasurementsNotification : GnssMeasurementsNotification) : option (option bytes) :=
  send_payload h (sizeof "LocAPIMeasIndMsg") (
    gnssMeasurementsNotification ← convertGnssMeasNotifToPB gnssMeasurementsNotification PBGnssMeasurementsNotification_default;
    Some {| PBLocAPIMeasIndMsg_gnssMeasurementsNotification := gnssMeasurementsNotification |}).
Definition LocAPIGnssEnergyConsumedIndMsg_serializeToProtobuf (h : LocAPIMsgHeader)
    (totalGnssEnergyConsumedSinceFirstBoot : uint64_t) : option (option bytes) :=
  send_payload h (sizeof "LocAPIGnssEnergyConsumedIndMsg") (
    Some {|
      PBLocAPIGnssEnergyConsumedIndMsg_totalGnssEnergyConsumedSinceFirstBoot := totalGnssEnergyConsumedSinceFirstBoot |}).
Definition LocAPILocationSystemInfoIndMsg_serializeToProtobuf (h : LocAPIMsgHeader)
    (locationSystemInfo : LocationSystemInfo) : option (option bytes) :=
  send_payload h (sizeof "LocAPILocationSystemInfoIndMsg") (
    Some {|
      PBLocAPILocationSystemInfoIndMsg_locationSystemInfo := convertLocSysInfoToPB locationSystemInfo PBLocationSystemInfo_default |}).
Definition LocConfigConstrainedTuncReqMsg_serializeToProtobuf (h : LocAPIMsgHeader)
    (mEnable : bool) (mTuncConstraint : float) (mEnergyBudget : uint32_t) : option (option bytes) :=
  send_payload h (sizeof "LocConfigConstrainedTuncReqMsg") (
    Some {| PBLocConfigConstrainedTuncReqMsg_mEnable := mEnable;
      PBLocConfigConstrainedTuncReqMsg_mTuncConstraint := mTuncConstraint;
      PBLocConfigConstrainedTuncReqMsg_mEnergyBudget := mEnergyBudget |}).
Definition LocConfigPositionAssistedClockEstimatorReqMsg_serializeToProtobuf (h : LocAPIMsgHeader)
    (mEnable : bool) : option (option bytes) :=
  send_payload h (sizeof "LocConfigPositionAssistedClockEstimatorReqMsg") (
    Some {| PBLocConfigPositionAssistedClockEstimatorReqMsg_mEnable := mEnable |}).
Definition LocConfigSvConstellationReqMsg_serializeToProtobuf (h : LocAPIMsgHeader)
    (mConstellationEnablementConfig : GnssSvTypeConfig)
    (mConstellationEnablementConfig_size : uint32_t) (mBlacklistSvConfig : GnssSvIdConfig) :
    option (option bytes) :=
  send_payload h (sizeof "LocConfigSvConstellationReqMsg") (
    Some {|
      PBLocConfigSvConstellationReqMsg_mConstellationEnablementConfig := convertGnssSvTypeConfigToPB mConstellationEnablementConfig PBGnssSvTypeConfig_default;
      PBLocConfigSvConstellationReqMsg_mBlacklistSvConfig := convertGnssSvIdConfigToPB mBlacklistSvConfig PBGnssSvIdConfig_default;
      PBLocConfigSvConstellationReqMsg_mResetToDefault := (0 =? mConstellationEnablementConfig_size) |}).
Definition LocConfigConstellationSecondaryBandReqMsg_serializeToProtobuf (h : LocAPIMsgHeader)
    (mSecondaryBandConfig : GnssSvTypeConfig) : option (option bytes) :=
  send_payload h (sizeof "LocConfigConstellationSecondaryBandReqMsg") (
    Some {|
      PBLocConfigConstellationSecondaryBandReqMsg_mSecondaryBandConfig := convertGnssSvTypeConfigToPB mSecondaryBandConfig PBGnssSvTypeConfig_default |}).
Definition LocConfigAidingDataDeletionReqMsg_serializeToProtobuf (h : LocAPIMsgHeader)
    (mAidingData : GnssAidingData) : option (option bytes) :=
  send_payload h (sizeof "LocConfigAidingDataDeletionReqMsg") (
    Some {|
      PBLocConfigAidingDataDeletionReqMsg_mAidingData := convertGnssAidingDataToPB mAidingData PBAidingData_default |}).
Definition LocConfigLeverArmReqMsg_serializeToProtobuf (h : LocAPIMsgHeader)
    (mLeverArmConfigInfo : LeverArmConfigInfo) : option (option bytes) :=
  send_payload h (sizeof "LocConfigLeverArmReqMsg") (
    Some {|
      PBLocConfigLeverArmReqMsg_mLeverArmConfigInfo := convertLeverArmConfigInfoToPB mLeverArmConfigInfo PBLIALeverArmConfigInfo_default |}).
Definition LocConfigRobustLocationReqMsg_serializeToProtobuf (h : LocAPIMsgHeader)
    (mEnable : bool) (mEnableForE911 : bool) : option (option bytes) :=
  send_payload h (sizeof "LocConfigRobustLocationReqMsg") (
    Some {| PBLocConfigRobustLocationReqMsg_mEnable := mEnable;
      PBLocConfigRobustLocationReqMsg_mEnableForE911 := mEnableForE911 |}).
Definition LocConfigMinGpsWeekReqMsg_serializeToProtobuf (h : LocAPIMsgHeader)
    (mMinGpsWeek : uint16_t) : option (option bytes) :=
  send_payload h (sizeof "LocConfigMinGpsWeekReqMsg") (
    Some {| PBLocConfigMinGpsWeekReqMsg_mMinGpsWeek := mMinGpsWeek |}).
Definition LocConfigDrEngineParamsReqMsg_serializeToProtobuf (h : LocAPIMsgHeader)
    (mDreConfig : DeadReckoningEngineConfig) : option (option bytes) :=
  send_payload h (sizeof "LocConfigDrEngineParamsReqMsg") (
    Some {|
      PBLocConfigDrEngineParamsReqMsg_mDreConfig := convertDeadReckoningEngineConfigToPB mDreConfig PBDeadReckoningEngineConfig_default |}).
Definition LocConfigMinSvElevationReqMsg_serializeToProtobuf (h : LocAPIMsgHeader)
    (mMinSvElevation : uint8_t) : option (option bytes) :=
  send_payload h (sizeof "LocConfigMinSvElevationReqMsg") (
    Some {| PBLocConfigMinSvElevationReqMsg_mMinSvElevation := mMinSvElevation |}).
Definition LocConfigEngineRunStateReqMsg_serializeToProtobuf (h : LocAPIMsgHeader)
    (mEngType : enum) (mEngState : enum) : option (option bytes) :=
  send_payload h (sizeof "LocConfigEngineRunStateReqMsg") (
    Some {|
      PBLocConfigEngineRunStateReqMsg_mEngType := getPBMaskForPositioningEngineMask mEngType;
      PBLocConfigEngineRunStateReqMsg_mEngState := getPBEnumForLocEngineRunState mEngState |}).
Definition LocConfigUserConsentTerrestrialPositioningReqMsg_serializeToProtobuf (h : LocAPIMsgHeader)
    (mUserConsent : bool) : option (option bytes) :=
  send_payload h (sizeof "LocConfigUserConsentTerrestrialPositioningReqMsg") (
    Some {| PBLocConfigUserConsentTerrestrialPositioningReqMsg_userConsent := mUserConsent |}).
Definition LocConfigGetRobustLocationConfigReqMsg_serializeToProtobuf (h : LocAPIMsgHeader) :
    option (option bytes) :=
  send h (sizeof "LocConfigGetRobustLocationConfigReqMsg").
Definition LocConfigGetRobustLocationConfigRespMsg_serializeToProtobuf (h : LocAPIMsgHeader)
    (mRobustLoationConfig : GnssConfigRobustLocation) : option (option bytes) :=
  send_payload h (sizeof "LocConfigGetRobustLocationConfigRespMsg") (
    Some {|
      PBLocConfigGetRobustLocationConfigRespMsg_mRobustLoationConfig := convertGnssConfigRobustLocationToPB mRobustLoationConfig PBGnssConfigRobustLocation_default |}).
Definition LocConfigGetMinGpsWeekReqMsg_serializeToProtobuf (h : LocAPIMsgHeader) :
    option (option bytes) :=
  send h (sizeof "LocConfigGetMinGpsWeekReqMsg").
Definition LocConfigGetMinGpsWeekRespMsg_serializeToProtobuf (h : LocAPIMsgHeader)
    (mMinGpsWeek : uint16_t) : option (option bytes) :=
  send_payload h (sizeof "LocConfigGetMinGpsWeekRespMsg") (
    Some {| PBLocConfigGetMinGpsWeekRespMsg_mMinGpsWeek := mMinGpsWeek |}).
Definition LocConfigGetMinSvElevationReqMsg_serializeToProtobuf (h : LocAPIMsgHeader) :
    option (option bytes) :=
  send h (sizeof "LocConfigGetMinSvElevationReqMsg").
Definition LocConfigGetMinSvElevationRespMsg_serializeToProtobuf (h : LocAPIMsgHeader)
    (mMinSvElevation : uint8_t) : option (option bytes) :=
  send_payload h (sizeof "LocConfigGetMinSvElevationRespMsg") (
    Some {| PBLocConfigGetMinSvElevationRespMsg_mMinSvElevation := mMinSvElevation |}).
Definition LocConfigGetConstellationSecondaryBandConfigReqMsg_serializeToProtobuf (h : LocAPIMsgHeader)
    : option (option bytes) :=
  send h (sizeof "LocConfigGetConstellationSecondaryBandConfigReqMsg").
Definition LocConfigGetConstellationSecondaryBandConfigRespMsg_serializeToProtobuf (h : LocAPIMsgHeader)
    (mSecondaryBandConfig : GnssSvTypeConfig) : option (option bytes) :=
  send_payload h (sizeof "LocConfigGetConstellationSecondaryBandConfigRespMsg") (
    Some {|
      PBLocConfigGetConstltnSecondaryBandConfigRespMsg_mSecondaryBandConfig := convertGnssSvTypeConfigToPB mSecondaryBandConfig PBGnssSvTypeConfig_default |}).
Definition LocAPIPingTestReqMsg_serializeToProtobuf (h : LocAPIMsgHeader) (data : list uint8_t) :
    option (option bytes) :=
  send_payload h (sizeof "LocAPIPingTestReqMsg") (
    pings ← for_ (Z.to_nat LOCATION_REMOTE_API_PINGTEST_SIZE) 0 (fun i l => d ← data !! i; Some (add l d)) [];
    Some {| PBLocAPIPingTestReqMsg_numberOfPing := LOCATION_REMOTE_API_PINGTEST_SIZE;
            PBLocAPIPingTestReqMsg_data := pings |}).
Definition LocAPIPingTestIndMsg_serializeToProtobuf (h : LocAPIMsgHeader) (data : list uint8_t) :
    option (option bytes) :=
  send_payload h (sizeof "LocAPIPingTestIndMsg") (
    pings ← for_ (Z.to_nat LOCATION_REMOTE_API_PINGTEST_SIZE) 0 (fun i l => d ← data !! i; Some (add l d)) [];
    Some {| PBLocAPIPingTestIndMsg_numberOfPing := LOCATION_REMOTE_API_PINGTEST_SIZE;
            PBLocAPIPingTestIndMsg_data := pings |}).

Definition serializeToProtobuf (h : LocAPIMsgHeader) (m : LocAPIMsg) : option (option bytes) :=
  match m with
  | LocAPIClientRegisterReqMsg mClientType =>
      LocAPIClientRegisterReqMsg_serializeToProtobuf h mClientType
  | LocAPIClientDeregisterReqMsg =>
      LocAPIClientDeregisterReqMsg_serializeToProtobuf h
  | LocAPICapabilitiesIndMsg capabilitiesMask =>
      LocAPICapabilitiesIndMsg_serializeToProtobuf h capabilitiesMask
  | LocAPIHalReadyIndMsg =>
      LocAPIHalReadyIndMsg_serializeToProtobuf h
  | LocAPIGenericRespMsg _ err =>
      LocAPIGenericRespMsg_serializeToProtobuf h err
  | LocAPICollectiveRespMsg _ collectiveRes =>
      LocAPICollectiveRespMsg_serializeToProtobuf h collectiveRes
  | LocAPIStartTrackingReqMsg locOptions =>
      LocAPIStartTrackingReqMsg_serializeToProtobuf h locOptions
  | LocAPIStopTrackingReqMsg =>
      LocAPIStopTrackingReqMsg_serializeToProtobuf h
  | LocAPIUpdateCallbacksReqMsg locationCallbacks =>
      LocAPIUpdateCallbacksReqMsg_serializeToProtobuf h locationCallbacks
  | LocAPIUpdateTrackingOptionsReqMsg locOptions =>
      LocAPIUpdateTrackingOptionsReqMsg_serializeToProtobuf h locOptions
  | LocAPIStartBatchingReqMsg intervalInMs distanceInMeters batchingMode =>
      LocAPIStartBatchingReqMsg_serializeToProtobuf h intervalInMs distanceInMeters batchingMode
  | LocAPIStopBatchingReqMsg =>
      LocAPIStopBatchingReqMsg_serializeToProtobuf h
  | LocAPIUpdateBatchingOptionsReqMsg intervalInMs distanceInMeters batchingMode =>
      LocAPIUpdateBatchingOptionsReqMsg_serializeToProtobuf h intervalInMs distanceInMeters batchingMode
  | LocAPIAddGeofencesReqMsg geofences =>
      LocAPIAddGeofencesReqMsg_serializeToProtobuf h geofences
  | LocAPIRemoveGeofencesReqMsg gfClientIds =>
      LocAPIRemoveGeofencesReqMsg_serializeToProtobuf h gfClientIds
  | LocAPIModifyGeofencesReqMsg geofences =>
      LocAPIModifyGeofencesReqMsg_serializeToProtobuf h geofences
  | LocAPIPauseGeofencesReqMsg gfClientIds =>
      LocAPIPauseGeofencesReqMsg_serializeToProtobuf h gfClientIds
  | LocAPIResumeGeofencesReqMsg gfClientIds =>
      LocAPIResumeGeofencesReqMsg_serializeToProtobuf h gfClientIds
  | LocAPIUpdateNetworkAvailabilityReqMsg mAvailability =>
      LocAPIUpdateNetworkAvailabilityReqMsg_serializeToProtobuf h mAvailability
  | LocAPIGetGnssEnergyConsumedReqMsg =>
      LocAPIGetGnssEnergyConsumedReqMsg_serializeToProtobuf h
  | LocAPIGetSingleTerrestrialPosReqMsg mTimeoutMsec mTechMask mHorQoS =>
      LocAPIGetSingleTerrestrialPosReqMsg_serializeToProtobuf h mTimeoutMsec mTechMask mHorQoS
  | LocAPIGetSingleTerrestrialPosRespMsg mErrorCode mLocation =>
      LocAPIGetSingleTerrestrialPosRespMsg_serializeToProtobuf h mErrorCode mLocation
  | LocAPILocationIndMsg locationNotification =>
      LocAPILocationIndMsg_serializeToProtobuf h locationNotification
  | LocAPIBatchingIndMsg batchNotification =>
      LocAPIBatchingIndMsg_serializeToProtobuf h batchNotification
  | LocAPIGeofenceBreachIndMsg gfBreachNotification =>
      LocAPIGeofenceBreachIndMsg_serializeToProtobuf h gfBreachNotification
  | LocAPILocationInfoIndMsg gnssLocationInfoNotification =>
      LocAPILocationInfoIndMsg_serializeToProtobuf h gnssLocationInfoNotification
  | LocAPIEngineLocationsInfoIndMsg count engineLocationsInfo =>
      LocAPIEngineLocationsInfoIndMsg_serializeToProtobuf h count engineLocationsInfo
  | LocAPISatelliteVehicleIndMsg gnssSvNotification =>
      LocAPISatelliteVehicleIndMsg_serializeToProtobuf h gnssSvNotification
  | LocAPINmeaIndMsg gnssNmeaNotification =>
      LocAPINmeaIndMsg_serializeToProtobuf h gnssNmeaNotification
  | LocAPIDataIndMsg gnssDataNotification =>
      LocAPIDataIndMsg_serializeToProtobuf h gnssDataNotification
  | LocAPIMeasIndMsg gnssMeasurementsNotification =>
      LocAPIMeasIndMsg_serializeToProtobuf h gnssMeasurementsNotification
  | LocAPIGnssEnergyConsumedIndMsg totalGnssEnergyConsumedSinceFirstBoot =>
      LocAPIGnssEnergyConsumedIndMsg_serializeToProtobuf h totalGnssEnergyConsumedSinceFirstBoot
  | LocAPILocationSystemInfoIndMsg locationSystemInfo =>
      LocAPILocationSystemInfoIndMsg_serializeToProtobuf h locationSystemInfo
  | LocConfigConstrainedTuncReqMsg mEnable mTuncConstraint mEnergyBudget =>
      LocConfigConstrainedTuncReqMsg_serializeToProtobuf h mEnable mTuncConstraint mEnergyBudget
  | LocConfigPositionAssistedClockEstimatorReqMsg mEnable =>
      LocConfigPositionAssistedClockEstimatorReqMsg_serializeToProtobuf h mEnable
  | LocConfigSvConstellationReqMsg mConstellationEnablementConfig mConstellationEnablementConfig_size mBlacklistSvConfig =>
      LocConfigSvConstellationReqMsg_serializeToProtobuf h mConstellationEnablementConfig mConstellationEnablementConfig_size mBlacklistSvConfig
  | LocConfigConstellationSecondaryBandReqMsg mSecondaryBandConfig =>
      LocConfigConstellationSecondaryBandReqMsg_serializeToProtobuf h mSecondaryBandConfig
  | LocConfigAidingDataDeletionReqMsg mAidingData =>
      LocConfigAidingDataDeletionReqMsg_serializeToProtobuf h mAidingData
  | LocConfigLeverArmReqMsg mLeverArmConfigInfo =>
      LocConfigLeverArmReqMsg_serializeToProtobuf h mLeverArmConfigInfo
  | LocConfigRobustLocationReqMsg mEnable mEnableForE911 =>
      LocConfigRobustLocationReqMsg_serializeToProtobuf h mEnable mEnableForE911
  | LocConfigMinGpsWeekReqMsg mMinGpsWeek =>
      LocConfigMinGpsWeekReqMsg_serializeToProtobuf h mMinGpsWeek
  | LocConfigDrEngineParamsReqMsg mDreConfig =>
      LocConfigDrEngineParamsReqMsg_serializeToProtobuf h mDreConfig
  | LocConfigMinSvElevationReqMsg mMinSvElevation =>
      LocConfigMinSvElevationReqMsg_serializeToProtobuf h mMinSvElevation
  | LocConfigEngineRunStateReqMsg mEngType mEngState =>
      LocConfigEngineRunStateReqMsg_serializeToProtobuf h mEngType mEngState
  | LocConfigUserConsentTerrestrialPositioningReqMsg mUserConsent =>
      LocConfigUserConsentTerrestrialPositioningReqMsg_serializeToProtobuf h mUserConsent
  | LocConfigGetRobustLocationConfigReqMsg =>
      LocConfigGetRobustLocationConfigReqMsg_serializeToProtobuf h
  | LocConfigGetRobustLocationConfigRespMsg mRobustLoationConfig =>
      LocConfigGetRobustLocationConfigRespMsg_serializeToProtobuf h mRobustLoationConfig
  | LocConfigGetMinGpsWeekReqMsg =>
      LocConfigGetMinGpsWeekReqMsg_serializeToProtobuf h
  | LocConfigGetMinGpsWeekRespMsg mMinGpsWeek =>
      LocConfigGetMinGpsWeekRespMsg_serializeToProtobuf h mMinGpsWeek
  | LocConfigGetMinSvElevationReqMsg =>
      LocConfigGetMinSvElevationReqMsg_serializeToProtobuf h
  | LocConfigGetMinSvElevationRespMsg mMinSvElevation =>
      LocConfigGetMinSvElevationRespMsg_serializeToProtobuf h mMinSvElevation
  | LocConfigGetConstellationSecondaryBandConfigReqMsg =>
      LocConfigGetConstellationSecondaryBandConfigReqMsg_serializeToProtobuf h
  | LocConfigGetConstellationSecondaryBandConfigRespMsg mSecondaryBandConfig =>
      LocConfigGetConstellationSecondaryBandConfigRespMsg_serializeToProtobuf h mSecondaryBandConfig
  | LocAPIPingTestReqMsg data =>
      LocAPIPingTestReqMsg_serializeToProtobuf h data
  | LocAPIPingTestIndMsg data =>
      LocAPIPingTestIndMsg_serializeToProtobuf h data
  end.
End messages.

(** * The constructors from a received message *)

(** The converter is always given, so that the check for it, which some of the
    constructors have, never fails. *)

Definition Location_zero : Location := MkLocation 0 0 0 0 0 0 0 0 0 0 0 0 0 0 0 0.

Definition LocAPIClientRegisterReqMsg_from_pb (pb : PBLocAPIClientRegisterReqMsg) (u : Uninitialised)
    : option LocAPIMsg :=
  Some (LocAPIClientRegisterReqMsg
    (getEnumForPBClientType (PBLocAPIClientRegisterReqMsg_mClientType pb))).
Definition LocAPICapabilitiesIndMsg_from_pb (pb : PBLocAPICapabilitiesIndMsg) (u : Uninitialised)
    : option LocAPIMsg :=
  Some (LocAPICapabilitiesIndMsg
    (getLocationCapabilitiesMaskFromPB (PBLocAPICapabilitiesIndMsg_capabilitiesMask pb))).
Definition LocAPIGenericRespMsg_from_pb (msgId : Z) (pb : PBLocAPIGenericRespMsg) (u : Uninitialised)
    : option LocAPIMsg :=
  Some (LocAPIGenericRespMsg msgId (getEnumForPBLocationError (PBLocAPIGenericRespMsg_err pb))).
Definition LocAPICollectiveRespMsg_from_pb (msgId : Z) (pb : PBLocAPICollectiveRespMsg) (u : Uninitialised)
    : option LocAPIMsg :=
  collectiveRes ← pbConvertToCollectiveResPayload (PBLocAPICollectiveRespMsg_collectiveRes pb) (any_CollectiveResPayload u);
  Some (LocAPICollectiveRespMsg msgId collectiveRes).
Definition LocAPIStartTrackingReqMsg_from_pb (pb : PBLocAPIStartTrackingReqMsg) (u : Uninitialised)
    : option LocAPIMsg :=
  Some (LocAPIStartTrackingReqMsg
    (pbConvertToLocationOptions (PBLocAPIStartTrackingReqMsg_locOptions pb) (any_LocationOptions u))).
Definition LocAPIUpdateCallbacksReqMsg_from_pb (pb : PBLocAPIUpdateCallbacksReqMsg) (u : Uninitialised)
    : option LocAPIMsg :=
  Some (LocAPIUpdateCallbacksReqMsg
    (getLocationCallbacksMaskFromPB (PBLocAPIUpdateCallbacksReqMsg_locationCallbacks pb))).
Definition LocAPIUpdateTrackingOptionsReqMsg_from_pb (pb : PBLocAPIUpdateTrackingOptionsReqMsg) (u : Uninitialised)
    : option LocAPIMsg :=
  Some (LocAPIUpdateTrackingOptionsReqMsg
    (pbConvertToLocationOptions (PBLocAPIUpdateTrackingOptionsReqMsg_locOptions pb) (any_LocationOptions u))).
Definition LocAPIStartBatchingReqMsg_from_pb (pb : PBLocAPIStartBatchingReqMsg) (u : Uninitialised)
    : option LocAPIMsg :=
  Some (LocAPIStartBatchingReqMsg (PBLocAPIStartBatchingReqMsg_intervalInMs pb)
    (PBLocAPIStartBatchingReqMsg_distanceInMeters pb)
    (getEnumForPBBatchingMode (PBLocAPIStartBatchingReqMsg_batchingMode pb))).
Definition LocAPIUpdateBatchingOptionsReqMsg_from_pb (pb : PBLocAPIUpdateBatchingOptionsReqMsg) (u : Uninitialised)
    : option LocAPIMsg :=
  Some (LocAPIUpdateBatchingOptionsReqMsg (PBLocAPIUpdateBatchingOptionsReqMsg_intervalInMs pb)
    (PBLocAPIUpdateBatchingOptionsReqMsg_distanceInMeters pb)
    (getEnumForPBBatchingMode (PBLocAPIUpdateBatchingOptionsReqMsg_batchingMode pb))).
Definition LocAPIAddGeofencesReqMsg_from_pb (pb : PBLocAPIAddGeofencesReqMsg) (u : Uninitialised)
    : option LocAPIMsg :=
  geofences ← pbConvertToGfAddReqPayload (PBLocAPIAddGeofencesReqMsg_geofences pb) (any_GeofencesAddedReqPayload u);
  Some (LocAPIAddGeofencesReqMsg geofences).
Definition LocAPIRemoveGeofencesReqMsg_from_pb (pb : PBLocAPIRemoveGeofencesReqMsg) (u : Uninitialised)
    : option LocAPIMsg :=
  gfClientIds ← pbConvertToGfReqClientIdPayload (PBLocAPIRemoveGeofencesReqMsg_gfClientIds pb) (any_GeofencesReqClientIdPayload u);
  Some (LocAPIRemoveGeofencesReqMsg gfClientIds).
Definition LocAPIModifyGeofencesReqMsg_from_pb (pb : PBLocAPIModifyGeofencesReqMsg) (u : Uninitialised)
    : option LocAPIMsg :=
  geofences ← pbConvertToGfAddReqPayload (PBLocAPIModifyGeofencesReqMsg_geofences pb) (any_GeofencesAddedReqPayload u);
  Some (LocAPIModifyGeofencesReqMsg geofences).
Definition LocAPIPauseGeofencesReqMsg_from_pb (pb : PBLocAPIPauseGeofencesReqMsg) (u : Uninitialised)
    : option LocAPIMsg :=
  gfClientIds ← pbConvertToGfReqClientIdPayload (PBLocAPIPauseGeofencesReqMsg_gfClientIds pb) (any_GeofencesReqClientIdPayload u);
  Some (LocAPIPauseGeofencesReqMsg gfClientIds).
Definition LocAPIResumeGeofencesReqMsg_from_pb (pb : PBLocAPIResumeGeofencesReqMsg) (u : Uninitialised)
    : option LocAPIMsg :=
  gfClientIds ← pbConvertToGfReqClientIdPayload (PBLocAPIResumeGeofencesReqMsg_gfClientIds pb) (any_GeofencesReqClientIdPayload u);
  Some (LocAPIResumeGeofencesReqMsg gfClientIds).
Definition LocAPIUpdateNetworkAvailabilityReqMsg_from_pb (pb : PBLocAPIUpdateNetworkAvailabilityReqMsg) (u : Uninitialised)
    : option LocAPIMsg :=
  Some (LocAPIUpdateNetworkAvailabilityReqMsg
    (PBLocAPIUpdateNetworkAvailabilityReqMsg_mAvailability pb)).
Definition LocAPIGetSingleTerrestrialPosReqMsg_from_pb (pb : PBLocAPIGetSingleTerrestrialPosReqMsg) (u : Uninitialised)
    : option LocAPIMsg :=
  Some (LocAPIGetSingleTerrestrialPosReqMsg (PBLocAPIGetSingleTerrestrialPosReqMsg_timeoutMsec pb)
    (getTerrestrialTechMaskFromPB (PBLocAPIGetSingleTerrestrialPosReqMsg_techMask pb))
    (PBLocAPIGetSingleTerrestrialPosReqMsg_horQoS pb)).
Definition LocAPIGetSingleTerrestrialPosRespMsg_from_pb (pb : PBLocAPIGetSingleTerrestrialPosRespMsg) (u : Uninitialised)
    : option LocAPIMsg :=
  let mErrorCode := getEnumForPBLocationError (PBLocAPIGetSingleTerrestrialPosRespMsg_errorCode pb) in
  match PBLocAPIGetSingleTerrestrialPosRespMsg_location pb with
  | Some location =>
      Some (LocAPIGetSingleTerrestrialPosRespMsg mErrorCode (pbConvertToLocation location Location_zero))
  | None => Some (LocAPIGetSingleTerrestrialPosRespMsg mErrorCode Location_zero)
  end.
Definition LocAPILocationIndMsg_from_pb (pb : PBLocAPILocationIndMsg) (u : Uninitialised)
    : option LocAPIMsg :=
  Some (LocAPILocationIndMsg
    (pbConvertToLocation (PBLocAPILocationIndMsg_locationNotification pb) (any_Location u))).
Definition LocAPIBatchingIndMsg_from_pb (pb : PBLocAPIBatchingIndMsg) (u : Uninitialised)
    : option LocAPIMsg :=
  batchNotification ← pbConvertToLocAPIBatchNotification (PBLocAPIBatchingIndMsg_batchNotification pb) (any_LocAPIBatchNotification u);
  Some (LocAPIBatchingIndMsg batchNotification).
Definition LocAPIGeofenceBreachIndMsg_from_pb (pb : PBLocAPIGeofenceBreachIndMsg) (u : Uninitialised)
    : option LocAPIMsg :=
  gfBreachNotification ← pbConvertToLocAPIGfBreachNotification (PBLocAPIGeofenceBreachIndMsg_gfBreachNotification pb) (any_LocAPIGeofenceBreachNotification u);
  Some (LocAPIGeofenceBreachIndMsg gfBreachNotification).
Definition LocAPILocationInfoIndMsg_from_pb (pb : PBLocAPILocationInfoIndMsg) (u : Uninitialised)
    : option LocAPIMsg :=
  gnssLocationInfoNotification ← pbConvertToGnssLocInfoNotif (PBLocAPILocationInfoIndMsg_gnssLocationInfoNotification pb) (any_GnssLocationInfoNotification u);
  Some (LocAPILocationInfoIndMsg gnssLocationInfoNotification).
Definition LocAPIEngineLocationsInfoIndMsg_from_pb (pb : PBLocAPIEngineLocationsInfoIndMsg) (u : Uninitialised)
    : option LocAPIMsg :=
  let infos := PBLocAPIEngineLocationsInfoIndMsg_engineLocationsInfo pb in
  let count := Z.min (Z.of_nat (length infos)) LOC_OUTPUT_ENGINE_COUNT in
  engineLocationsInfo ← for_ (Z.to_nat count) 0 (fun i l =>
    info ← infos !! i; x ← l !! i; x ← pbConvertToGnssLocInfoNotif info x; Some (<[i := x]> l))
    (any_GnssLocationInfoNotifications u);
  Some (LocAPIEngineLocationsInfoIndMsg count engineLocationsInfo).
Definition LocAPISatelliteVehicleIndMsg_from_pb (pb : PBLocAPISatelliteVehicleIndMsg) (u : Uninitialised)
    : option LocAPIMsg :=
  gnssSvNotification ← pbConvertToGnssSvNotif (PBLocAPISatelliteVehicleIndMsg_gnssSvNotification pb) (any_GnssSvNotification u);
  Some (LocAPISatelliteVehicleIndMsg gnssSvNotification).
Definition LocAPINmeaIndMsg_from_pb (pb : PBLocAPINmeaIndMsg) (u : Uninitialised)
    : option LocAPIMsg :=
  Some (LocAPINmeaIndMsg
    (pbConvertToLocAPINmeaSerializedPayload (PBLocAPINmeaIndMsg_gnssNmeaNotification pb) (any_LocAPINmeaSerializedPayload u))).
Definition LocAPIDataIndMsg_from_pb (pb : PBLocAPIDataIndMsg) (u : Uninitialised)
    : option LocAPIMsg :=
  gnssDataNotification ← pbConvertToGnssDataNotification (PBLocAPIDataIndMsg_gnssDataNotification pb) (any_GnssDataNotification u);
  Some (LocAPIDataIndMsg gnssDataNotification).
Definition LocAPIMeasIndMsg_from_pb (pb : PBLocAPIMeasIndMsg) (u : Uninitialised)
    : option LocAPIMsg :=
  gnssMeasurementsNotification ← pbConvertToGnssMeasNotification (PBLocAPIMeasIndMsg_gnssMeasurementsNotification pb) (any_GnssMeasurementsNotification u);
  Some (LocAPIMeasIndMsg gnssMeasurementsNotification).
Definition LocAPIGnssEnergyConsumedIndMsg_from_pb (pb : PBLocAPIGnssEnergyConsumedIndMsg) (u : Uninitialised)
    : option LocAPIMsg :=
  Some (LocAPIGnssEnergyConsumedIndMsg
    (PBLocAPIGnssEnergyConsumedIndMsg_totalGnssEnergyConsumedSinceFirstBoot pb)).
Definition LocAPILocationSystemInfoIndMsg_from_pb (pb : PBLocAPILocationSystemInfoIndMsg) (u : Uninitialised)
    : option LocAPIMsg :=
  Some (LocAPILocationSystemInfoIndMsg
    (pbConvertToLocationSystemInfo (PBLocAPILocationSystemInfoIndMsg_locationSystemInfo pb) (any_LocationSystemInfo u))).
Definition LocConfigConstrainedTuncReqMsg_from_pb (pb : PBLocConfigConstrainedTuncReqMsg) (u : Uninitialised)
    : option LocAPIMsg :=
  Some (LocConfigConstrainedTuncReqMsg (PBLocConfigConstrainedTuncReqMsg_mEnable pb)
    (PBLocConfigConstrainedTuncReqMsg_mTuncConstraint pb)
    (PBLocConfigConstrainedTuncReqMsg_mEnergyBudget pb)).
Definition LocConfigPositionAssistedClockEstimatorReqMsg_from_pb (pb : PBLocConfigPositionAssistedClockEstimatorReqMsg) (u : Uninitialised)
    : option LocAPIMsg :=
  Some (LocConfigPositionAssistedClockEstimatorReqMsg
    (PBLocConfigPositionAssistedClockEstimatorReqMsg_mEnable pb)).
Definition LocConfigSvConstellationReqMsg_from_pb `{!Abi} (pb : PBLocConfigSvConstellationReqMsg) (u : Uninitialised)
    : option LocAPIMsg :=
  let mConstellationEnablementConfig := pbConvertToGnssSvTypeConfig
    (PBLocConfigSvConstellationReqMsg_mConstellationEnablementConfig pb) (any_GnssSvTypeConfig u) in
  let mBlacklistSvConfig := pbConvertToGnssSvIdConfig
    (PBLocConfigSvConstellationReqMsg_mBlacklistSvConfig pb) (any_GnssSvIdConfig u) in
  Some (LocConfigSvConstellationReqMsg mConstellationEnablementConfig
    (if PBLocConfigSvConstellationReqMsg_mResetToDefault pb then 0 else sizeof "GnssSvTypeConfig")
    mBlacklistSvConfig).
Definition LocConfigConstellationSecondaryBandReqMsg_from_pb (pb : PBLocConfigConstellationSecondaryBandReqMsg) (u : Uninitialised)
    : option LocAPIMsg :=
  Some (LocConfigConstellationSecondaryBandReqMsg
    (pbConvertToGnssSvTypeConfig (PBLocConfigConstellationSecondaryBandReqMsg_mSecondaryBandConfig pb) (any_GnssSvTypeConfig u))).
Definition LocConfigAidingDataDeletionReqMsg_from_pb (pb : PBLocConfigAidingDataDeletionReqMsg) (u : Uninitialised)
    : option LocAPIMsg :=
  Some (LocConfigAidingDataDeletionReqMsg
    (pbConvertToGnssAidingData (PBLocConfigAidingDataDeletionReqMsg_mAidingData pb) (any_GnssAidingData u))).
Definition LocConfigLeverArmReqMsg_from_pb (pb : PBLocConfigLeverArmReqMsg) (u : Uninitialised)
    : option LocAPIMsg :=
  Some (LocConfigLeverArmReqMsg
    (pbConvertToLeverArmConfigInfo (PBLocConfigLeverArmReqMsg_mLeverArmConfigInfo pb) (any_LeverArmConfigInfo u))).
Definition LocConfigRobustLocationReqMsg_from_pb (pb : PBLocConfigRobustLocationReqMsg) (u : Uninitialised)
    : option LocAPIMsg :=
  Some (LocConfigRobustLocationReqMsg (PBLocConfigRobustLocationReqMsg_mEnable pb)
    (PBLocConfigRobustLocationReqMsg_mEnableForE911 pb)).
Definition LocConfigMinGpsWeekReqMsg_from_pb (pb : PBLocConfigMinGpsWeekReqMsg) (u : Uninitialised)
    : option LocAPIMsg :=
  Some (LocConfigMinGpsWeekReqMsg (wrap_u 16 (PBLocConfigMinGpsWeekReqMsg_mMinGpsWeek pb))).
Definition LocConfigDrEngineParamsReqMsg_from_pb (pb : PBLocConfigDrEngineParamsReqMsg) (u : Uninitialised)
    : option LocAPIMsg :=
  Some (LocConfigDrEngineParamsReqMsg
    (pbConvertToDeadReckoningEngineConfig (PBLocConfigDrEngineParamsReqMsg_mDreConfig pb) (any_DeadReckoningEngineConfig u))).
Definition LocConfigMinSvElevationReqMsg_from_pb (pb : PBLocConfigMinSvElevationReqMsg) (u : Uninitialised)
    : option LocAPIMsg :=
  Some (LocConfigMinSvElevationReqMsg
    (wrap_u 8 (PBLocConfigMinSvElevationReqMsg_mMinSvElevation pb))).
Definition LocConfigEngineRunStateReqMsg_from_pb (pb : PBLocConfigEngineRunStateReqMsg) (u : Uninitialised)
    : option LocAPIMsg :=
  Some (LocConfigEngineRunStateReqMsg
    (getEnumForPBPositioningEngineMask (PBLocConfigEngineRunStateReqMsg_mEngType pb))
    (getEnumForPBLocEngineRunState (PBLocConfigEngineRunStateReqMsg_mEngState pb))).
Definition LocConfigUserConsentTerrestrialPositioningReqMsg_from_pb (pb : PBLocConfigUserConsentTerrestrialPositioningReqMsg) (u : Uninitialised)
    : option LocAPIMsg :=
  Some (LocConfigUserConsentTerrestrialPositioningReqMsg
    (PBLocConfigUserConsentTerrestrialPositioningReqMsg_userConsent pb)).
Definition LocConfigGetRobustLocationConfigRespMsg_from_pb (pb : PBLocConfigGetRobustLocationConfigRespMsg) (u : Uninitialised)
    : option LocAPIMsg :=
  Some (LocConfigGetRobustLocationConfigRespMsg
    (pbConvertToGnssConfigRobustLocation (PBLocConfigGetRobustLocationConfigRespMsg_mRobustLoationConfig pb) (any_GnssConfigRobustLocation u))).
Definition LocConfigGetMinGpsWeekRespMsg_from_pb (pb : PBLocConfigGetMinGpsWeekRespMsg) (u : Uninitialised)
    : option LocAPIMsg :=
  Some (LocConfigGetMinGpsWeekRespMsg (wrap_u 16 (PBLocConfigGetMinGpsWeekRespMsg_mMinGpsWeek pb))).
Definition LocConfigGetMinSvElevationRespMsg_from_pb (pb : PBLocConfigGetMinSvElevationRespMsg) (u : Uninitialised)
    : option LocAPIMsg :=
  Some (LocConfigGetMinSvElevationRespMsg
    (wrap_u 8 (PBLocConfigGetMinSvElevationRespMsg_mMinSvElevation pb))).
Definition LocConfigGetConstellationSecondaryBandConfigRespMsg_from_pb (pb : PBLocConfigGetConstltnSecondaryBandConfigRespMsg) (u : Uninitialised)
    : option LocAPIMsg :=
  Some (LocConfigGetConstellationSecondaryBandConfigRespMsg
    (pbConvertToGnssSvTypeConfig (PBLocConfigGetConstltnSecondaryBandConfigRespMsg_mSecondaryBandConfig pb) (any_GnssSvTypeConfig u))).
Definition LocAPIPingTestReqMsg_from_pb (pb : PBLocAPIPingTestReqMsg) (u : Uninitialised)
    : option LocAPIMsg :=
  let arrLen := Z.min (PBLocAPIPingTestReqMsg_numberOfPing pb) LOCATION_REMOTE_API_PINGTEST_SIZE in
  data ← for_ (Z.to_nat arrLen) 0 (fun i l =>
    d ← PBLocAPIPingTestReqMsg_data pb !! i; write_at l i (fun _ => wrap_u 8 d)) (any_data u);
  Some (LocAPIPingTestReqMsg data).
Definition LocAPIPingTestIndMsg_from_pb (pb : PBLocAPIPingTestIndMsg) (u : Uninitialised)
    : option LocAPIMsg :=
  let arrLen := Z.min (PBLocAPIPingTestIndMsg_numberOfPing pb) LOCATION_REMOTE_API_PINGTEST_SIZE in
  data ← for_ (Z.to_nat arrLen) 0 (fun i l =>
    d ← PBLocAPIPingTestIndMsg_data pb !! i; write_at l i (fun _ => wrap_u 8 d)) (any_data u);
  Some (LocAPIPingTestIndMsg data).
