(* ===== verification/IpcArrive.v ===== *)
(** LocationApiMsg.cpp: what the receiver of a message finds in it.  [arrived u m]
    is the message that is constructed from what was sent of [m], where the
    memory holds [u] before; it is undefined where the receiver writes or reads
    outside of an array.  [message_arrives] holds for every class; it is used for
    both directions. *)

From stdpp Require Import list strings.
From S2P Require Import Prelude Masks LocationEnums PbConversions LocationApiPbMsgConv.
From S2P Require Import ApiStructs PbMessages PbMsgConv PbMsgArrive PbMsgArrays IpcMessages.

Local Open Scope Z_scope.

(** * Masks and enumerations *)

Lemma TerrestrialTechMask_conv_arrives m : getTerrestrialTechMaskFromPB
  (getPBMaskForTerrestrialTechMask m) = mask_arriving TerrestrialTechMask_conv m.
Proof. revert m. unfold mask_arriving, TerrestrialTechMask_conv; cbn [constants lost]. mask_arrives. Qed.
Lemma LocationCallbacksMask_conv_arrives m : getLocationCallbacksMaskFromPB
  (getPBMaskForLocationCallbacksMask m) = mask_arriving LocationCallbacksMask_conv m.
Proof. revert m. unfold mask_arriving, LocationCallbacksMask_conv; cbn [constants lost]. mask_arrives. Qed.
Lemma LocationCapabilitiesMask_conv_arrives m : getLocationCapabilitiesMaskFromPB
  (getPBMaskForLocationCapabilitiesMask m) = mask_arriving LocationCapabilitiesMask_conv m.
Proof. revert m. unfold mask_arriving, LocationCapabilitiesMask_conv; cbn [constants lost]. mask_arrives. Qed.
Lemma ClientType_conv_arrives x :
  getEnumForPBClientType (getPBEnumForClientType x) = enum_arriving ClientType_conv x.
Proof. apply switch_all. vm_compute. reflexivity. Qed.
Lemma BatchingMode_conv_arrives x :
  getEnumForPBBatchingMode (getPBEnumForBatchingMode x) = enum_arriving BatchingMode_conv x.
Proof. apply switch_all. vm_compute. reflexivity. Qed.
Lemma LocEngineRunState_conv_arrives x :
  getEnumForPBLocEngineRunState (getPBEnumForLocEngineRunState x) = enum_arriving LocEngineRunState_conv x.
Proof. apply switch_all. vm_compute. reflexivity. Qed.
Lemma ELocMsgID_conv_arrives x :
  getEnumForPBELocMsgID (getPBEnumForELocMsgID x) = enum_arriving ELocMsgID_conv x.
Proof. apply switch_all. vm_compute. reflexivity. Qed.
#[export] Hint Rewrite TerrestrialTechMask_conv_arrives LocationCallbacksMask_conv_arrives
  LocationCapabilitiesMask_conv_arrives ClientType_conv_arrives BatchingMode_conv_arrives
  LocEngineRunState_conv_arrives : arrives.

(** * What arrives *)

(** Structs that end with an array: undefined if the receiver has no room. *)
Definition GeofencesAddedReqPayload_arrived (v x : GeofencesAddedReqPayload) : option GeofencesAddedReqPayload :=
  if decide (fits (GeofencesAddedReqPayload_count v) (GeofencesAddedReqPayload_gfPayload x))
  then Some {|
    GeofencesAddedReqPayload_count := GeofencesAddedReqPayload_count v;
    GeofencesAddedReqPayload_gfPayload :=
      array_arrived (Z.to_nat (GeofencesAddedReqPayload_count v)) GeofencePayload_arrived
        (GeofencesAddedReqPayload_gfPayload v) (GeofencesAddedReqPayload_gfPayload x) |}
  else None.
Definition GeofencesReqClientIdPayload_arrived (v x : GeofencesReqClientIdPayload)
    : option GeofencesReqClientIdPayload :=
  if decide (fits (GeofencesReqClientIdPayload_count v) (GeofencesReqClientIdPayload_gfIds x))
  then Some {|
    GeofencesReqClientIdPayload_count := GeofencesReqClientIdPayload_count v;
    GeofencesReqClientIdPayload_gfIds :=
      array_arrived (Z.to_nat (GeofencesReqClientIdPayload_count v)) const
        (GeofencesReqClientIdPayload_gfIds v) (GeofencesReqClientIdPayload_gfIds x) |}
  else None.
Definition CollectiveResPayload_arrived (v x : CollectiveResPayload) : option CollectiveResPayload :=
  if decide (fits (CollectiveResPayload_count v) (CollectiveResPayload_resp x))
  then Some {|
    CollectiveResPayload_count := CollectiveResPayload_count v;
    CollectiveResPayload_resp :=
      array_arrived (Z.to_nat (CollectiveResPayload_count v)) GeofenceResponse_arrived
        (CollectiveResPayload_resp v) (CollectiveResPayload_resp x) |}
  else None.
Definition LocAPIBatchNotification_arrived (v x : LocAPIBatchNotification) : option LocAPIBatchNotification :=
  if decide (fits (LocAPIBatchNotification_count v) (LocAPIBatchNotification_location x))
  then Some {|
    LocAPIBatchNotification_count := LocAPIBatchNotification_count v;
    LocAPIBatchNotification_status :=
      enum_arriving BatchingStatus_conv (LocAPIBatchNotification_status v);
    LocAPIBatchNotification_location :=
      array_arrived (Z.to_nat (LocAPIBatchNotification_count v)) Location_arrived
        (LocAPIBatchNotification_location v) (LocAPIBatchNotification_location x) |}
  else None.
Definition GnssMeasurementsNotification_arrived (v x : GnssMeasurementsNotification)
    : option GnssMeasurementsNotification :=
  if decide (fits (GnssMeasurementsNotification_count v) (GnssMeasurementsNotification_measurements x))
  then Some {|
    GnssMeasurementsNotification_count := GnssMeasurementsNotification_count v;
    GnssMeasurementsNotification_measurements :=
      array_arrived (Z.to_nat (GnssMeasurementsNotification_count v)) GnssMeasurementsData_arrived
        (GnssMeasurementsNotification_measurements v) (GnssMeasurementsNotification_measurements x);
    GnssMeasurementsNotification_clock :=
      GnssMeasurementsClock_arrived (GnssMeasurementsNotification_clock v)
        (GnssMeasurementsNotification_clock x) |}
  else None.
Definition GnssSvNotification_arrived (v x : GnssSvNotification) : GnssSvNotification := {|
  GnssSvNotification_count := GnssSvNotification_count v;
  GnssSvNotification_gnssSignalTypeMaskValid := GnssSvNotification_gnssSignalTypeMaskValid v;
  GnssSvNotification_gnssSvs :=
    array_arrived (Z.to_nat (GnssSvNotification_count v)) (fun s _ => GnssSv_arrived s)
      (GnssSvNotification_gnssSvs v) (GnssSvNotification_gnssSvs x) |}.
Definition GnssDataNotification_arrived (v : GnssDataNotification) : GnssDataNotification := {|
  GnssDataNotification_gnssDataMask :=
    mask_arriving GnssDataMask_conv <$> GnssDataNotification_gnssDataMask v;
  GnssDataNotification_jammerInd := GnssDataNotification_jammerInd v;
  GnssDataNotification_agc := GnssDataNotification_agc v |}.
Definition LocAPIGeofenceBreachNotification_arrived (v x : LocAPIGeofenceBreachNotification)
    : option LocAPIGeofenceBreachNotification :=
  if decide (LocAPIGeofenceBreachNotification_count v = 0) then None
  else
    id ← head (LocAPIGeofenceBreachNotification_id v);
    _ ← head (LocAPIGeofenceBreachNotification_id x);
    Some {|
      LocAPIGeofenceBreachNotification_count := LocAPIGeofenceBreachNotification_count x;
      LocAPIGeofenceBreachNotification_timestamp := LocAPIGeofenceBreachNotification_timestamp v;
      LocAPIGeofenceBreachNotification_type :=
        mask_arriving GeofenceBreachTypeMask_conv (LocAPIGeofenceBreachNotification_type v);
      LocAPIGeofenceBreachNotification_location :=
        Location_arrived (LocAPIGeofenceBreachNotification_location v)
          (LocAPIGeofenceBreachNotification_location x);
      LocAPIGeofenceBreachNotification_id := id :: tail (LocAPIGeofenceBreachNotification_id x) |}.
Definition infos_sent (count : Z) : Z := Z.min count LOC_OUTPUT_ENGINE_COUNT.

(** Messages that are not listed arrive as they are. *)
Definition arrived `{!Abi} (u : Uninitialised) (m : LocAPIMsg) : option LocAPIMsg :=
  match m with
  | LocAPIClientRegisterReqMsg t =>
      Some (LocAPIClientRegisterReqMsg (enum_arriving ClientType_conv t))
  | LocAPICapabilitiesIndMsg c =>
      Some (LocAPICapabilitiesIndMsg (mask_arriving LocationCapabilitiesMask_conv c))
  | LocAPIGenericRespMsg id err =>
      Some (LocAPIGenericRespMsg id (enum_arriving LocationError_conv err))
  | LocAPICollectiveRespMsg id res =>
      res ← CollectiveResPayload_arrived res (any_CollectiveResPayload u); Some (LocAPICollectiveRespMsg id res)
  | LocAPIStartTrackingReqMsg o =>
      Some (LocAPIStartTrackingReqMsg (LocationOptions_arrived o))
  | LocAPIUpdateCallbacksReqMsg c =>
      Some (LocAPIUpdateCallbacksReqMsg (mask_arriving LocationCallbacksMask_conv c))
  | LocAPIUpdateTrackingOptionsReqMsg o =>
      Some (LocAPIUpdateTrackingOptionsReqMsg (LocationOptions_arrived o))
  | LocAPIStartBatchingReqMsg i d mode =>
      Some (LocAPIStartBatchingReqMsg i d (enum_arriving BatchingMode_conv mode))
  | LocAPIUpdateBatchingOptionsReqMsg i d mode =>
      Some (LocAPIUpdateBatchingOptionsReqMsg i d (enum_arriving BatchingMode_conv mode))
  | LocAPIAddGeofencesReqMsg g =>
      g ← GeofencesAddedReqPayload_arrived g (any_GeofencesAddedReqPayload u); Some (LocAPIAddGeofencesReqMsg g)
  | LocAPIRemoveGeofencesReqMsg g =>
      g ← GeofencesReqClientIdPayload_arrived g (any_GeofencesReqClientIdPayload u); Some (LocAPIRemoveGeofencesReqMsg g)
  | LocAPIModifyGeofencesReqMsg g =>
      g ← GeofencesAddedReqPayload_arrived g (any_GeofencesAddedReqPayload u); Some (LocAPIModifyGeofencesReqMsg g)
  | LocAPIPauseGeofencesReqMsg g =>
      g ← GeofencesReqClientIdPayload_arrived g (any_GeofencesReqClientIdPayload u); Some (LocAPIPauseGeofencesReqMsg g)
  | LocAPIResumeGeofencesReqMsg g =>
      g ← GeofencesReqClientIdPayload_arrived g (any_GeofencesReqClientIdPayload u); Some (LocAPIResumeGeofencesReqMsg g)
  | LocAPIGetSingleTerrestrialPosReqMsg t tech q =>
      Some (LocAPIGetSingleTerrestrialPosReqMsg t (mask_arriving TerrestrialTechMask_conv tech) q)
  | LocAPIGetSingleTerrestrialPosRespMsg err l =>
      Some (LocAPIGetSingleTerrestrialPosRespMsg (enum_arriving LocationError_conv err) (Location_arrived l Location_zero))
  | LocAPILocationIndMsg l =>
      Some (LocAPILocationIndMsg (Location_arrived l (any_Location u)))
  | LocAPIBatchingIndMsg b =>
      b ← LocAPIBatchNotification_arrived b (any_LocAPIBatchNotification u); Some (LocAPIBatchingIndMsg b)
  | LocAPIGeofenceBreachIndMsg b =>
      b ← LocAPIGeofenceBreachNotification_arrived b (any_LocAPIGeofenceBreachNotification u); Some (LocAPIGeofenceBreachIndMsg b)
  | LocAPILocationInfoIndMsg i =>
      Some (LocAPILocationInfoIndMsg (GnssLocationInfoNotification_arrived i (any_GnssLocationInfoNotification u)))
  | LocAPIEngineLocationsInfoIndMsg n l =>
      Some (LocAPIEngineLocationsInfoIndMsg (infos_sent n)
        (array_arrived (Z.to_nat (infos_sent n)) GnssLocationInfoNotification_arrived l
          (any_GnssLocationInfoNotifications u)))
  | LocAPISatelliteVehicleIndMsg s =>
      Some (LocAPISatelliteVehicleIndMsg (GnssSvNotification_arrived s (any_GnssSvNotification u)))
  | LocAPIDataIndMsg d =>
      Some (LocAPIDataIndMsg (GnssDataNotification_arrived d))
  | LocAPIMeasIndMsg n =>
      n ← GnssMeasurementsNotification_arrived n (any_GnssMeasurementsNotification u); Some (LocAPIMeasIndMsg n)
  | LocAPILocationSystemInfoIndMsg i =>
      Some (LocAPILocationSystemInfoIndMsg (LocationSystemInfo_arrived i))
  | LocConfigSvConstellationReqMsg e size b =>
      Some (LocConfigSvConstellationReqMsg (GnssSvTypeConfig_arrived e)
        (if 0 =? size then 0 else sizeof "GnssSvTypeConfig") b)
  | LocConfigConstellationSecondaryBandReqMsg c =>
      Some (LocConfigConstellationSecondaryBandReqMsg (GnssSvTypeConfig_arrived c))
  | LocConfigAidingDataDeletionReqMsg a =>
      Some (LocConfigAidingDataDeletionReqMsg (GnssAidingData_arrived a (any_GnssAidingData u)))
  | LocConfigLeverArmReqMsg c =>
      Some (LocConfigLeverArmReqMsg (LeverArmConfigInfo_arrived c))
  | LocConfigDrEngineParamsReqMsg c =>
      Some (LocConfigDrEngineParamsReqMsg (DeadReckoningEngineConfig_arrived c))
  | LocConfigEngineRunStateReqMsg t s =>
      Some (LocConfigEngineRunStateReqMsg (mask_arriving PositioningEngineMask_conv t)
        (enum_arriving LocEngineRunState_conv s))
  | LocConfigGetRobustLocationConfigRespMsg c =>
      Some (LocConfigGetRobustLocationConfigRespMsg (GnssConfigRobustLocation_arrived c))
  | LocConfigGetConstellationSecondaryBandConfigRespMsg c =>
      Some (LocConfigGetConstellationSecondaryBandConfigRespMsg (GnssSvTypeConfig_arrived c))
  | _ => Some m
  end.

(** The members of a message that is sent have values of their types, an array
    has the elements that are counted, and a location info has the time of its
    constellation. *)
Definition sendable (m : LocAPIMsg) : Prop :=
  match m with
  | LocAPICollectiveRespMsg _ r =>
      CollectiveResPayload_in_range r = true ∧
      fits (CollectiveResPayload_count r) (CollectiveResPayload_resp r)
  | LocAPIStartTrackingReqMsg o =>
      LocationOptions_in_range o = true
  | LocAPIUpdateTrackingOptionsReqMsg o =>
      LocationOptions_in_range o = true
  | LocAPIAddGeofencesReqMsg g =>
      GeofencesAddedReqPayload_in_range g = true ∧
      fits (GeofencesAddedReqPayload_count g) (GeofencesAddedReqPayload_gfPayload g)
  | LocAPIRemoveGeofencesReqMsg g =>
      GeofencesReqClientIdPayload_in_range g = true ∧
      fits (GeofencesReqClientIdPayload_count g) (GeofencesReqClientIdPayload_gfIds g)
  | LocAPIModifyGeofencesReqMsg g =>
      GeofencesAddedReqPayload_in_range g = true ∧
      fits (GeofencesAddedReqPayload_count g) (GeofencesAddedReqPayload_gfPayload g)
  | LocAPIPauseGeofencesReqMsg g =>
      GeofencesReqClientIdPayload_in_range g = true ∧
      fits (GeofencesReqClientIdPayload_count g) (GeofencesReqClientIdPayload_gfIds g)
  | LocAPIResumeGeofencesReqMsg g =>
      GeofencesReqClientIdPayload_in_range g = true ∧
      fits (GeofencesReqClientIdPayload_count g) (GeofencesReqClientIdPayload_gfIds g)
  | LocAPIGetSingleTerrestrialPosRespMsg _ l =>
      Location_in_range l = true
  | LocAPILocationIndMsg l =>
      Location_in_range l = true
  | LocAPIBatchingIndMsg b =>
      LocAPIBatchNotification_in_range b = true ∧
      fits (LocAPIBatchNotification_count b) (LocAPIBatchNotification_location b)
  | LocAPIGeofenceBreachIndMsg b =>
      LocAPIGeofenceBreachNotification_in_range b = true ∧
      fits (LocAPIGeofenceBreachNotification_count b) (LocAPIGeofenceBreachNotification_id b)
  | LocAPILocationInfoIndMsg i =>
      location_info_sendable i = true
  | LocAPIEngineLocationsInfoIndMsg n l =>
      0 ≤ n ∧
      fits (infos_sent n) l ∧
      Forall (fun i => location_info_sendable i = true) (take (Z.to_nat (infos_sent n)) l)
  | LocAPISatelliteVehicleIndMsg s =>
      GnssSvNotification_in_range s = true ∧
      fits (GnssSvNotification_count s) (GnssSvNotification_gnssSvs s)
  | LocAPINmeaIndMsg n =>
      LocAPINmeaSerializedPayload_in_range n = true
  | LocAPIDataIndMsg d =>
      GnssDataNotification_in_range d = true
  | LocAPIMeasIndMsg n =>
      GnssMeasurementsNotification_in_range n = true ∧
      fits (GnssMeasurementsNotification_count n) (GnssMeasurementsNotification_measurements n)
  | LocAPILocationSystemInfoIndMsg i =>
      LocationSystemInfo_in_range i = true
  | LocConfigSvConstellationReqMsg e _ b =>
      GnssSvTypeConfig_in_range e = true ∧
      GnssSvIdConfig_in_range b = true
  | LocConfigConstellationSecondaryBandReqMsg c =>
      GnssSvTypeConfig_in_range c = true
  | LocConfigAidingDataDeletionReqMsg a =>
      GnssAidingData_in_range a = true
  | LocConfigLeverArmReqMsg c =>
      LeverArmConfigInfo_in_range c = true
  | LocConfigMinGpsWeekReqMsg w =>
      in_u 16 w = true
  | LocConfigDrEngineParamsReqMsg c =>
      DeadReckoningEngineConfig_in_range c = true
  | LocConfigMinSvElevationReqMsg e =>
      in_u 8 e = true
  | LocConfigGetRobustLocationConfigRespMsg c =>
      GnssConfigRobustLocation_in_range c = true
  | LocConfigGetMinGpsWeekRespMsg w =>
      in_u 16 w = true
  | LocConfigGetMinSvElevationRespMsg e =>
      in_u 8 e = true
  | LocConfigGetConstellationSecondaryBandConfigRespMsg c =>
      GnssSvTypeConfig_in_range c = true
  | LocAPIPingTestReqMsg l =>
      length l = Z.to_nat LOCATION_REMOTE_API_PINGTEST_SIZE ∧
      Forall (fun b => in_u 8 b = true) l
  | LocAPIPingTestIndMsg l =>
      length l = Z.to_nat LOCATION_REMOTE_API_PINGTEST_SIZE ∧
      Forall (fun b => in_u 8 b = true) l
  | _ => True
  end.

(** Memory has values of the types, too. *)
Record well_typed (u : Uninitialised) : Prop := {
  any_sv_typed : GnssSvNotification_in_range (any_GnssSvNotification u) = true;
  any_data_typed : GnssDataNotification_in_range (any_GnssDataNotification u) = true;
  any_info_typed : GnssLocationInfoNotification_in_range (any_GnssLocationInfoNotification u) = true;
  any_infos_room : length (any_GnssLocationInfoNotifications u) = Z.to_nat LOC_OUTPUT_ENGINE_COUNT;
  any_infos_typed : Forall (fun i => GnssLocationInfoNotification_in_range i = true)
                      (any_GnssLocationInfoNotifications u);
  any_data_room : length (any_data u) = Z.to_nat LOCATION_REMOTE_API_PINGTEST_SIZE;
  any_geofences_typed : GeofencesAddedReqPayload_in_range (any_GeofencesAddedReqPayload u) = true;
  any_ids_typed : GeofencesReqClientIdPayload_in_range (any_GeofencesReqClientIdPayload u) = true }.

(** * The classes one by one *)

Section arrive.
Context `{!Protobuf, !Abi}.

(** A payload that is parsed and given to a constructor: [None] if that is
    undefined, [Some None] if it cannot be parsed. *)
Definition parse_with {P} `{!Serializable P} (from_pb : P -> Uninitialised -> option LocAPIMsg)
    (payload : bytes) (u : Uninitialised) : option (option LocAPIMsg) :=
  match ParseFromString payload with
  | None => Some None
  | Some pb => m ← from_pb pb u; Some (Some m)
  end.

(** The payload of [m] as its own class reads it. *)
Definition receive_as (m : LocAPIMsg) (payload : bytes) (u : Uninitialised) : option (option LocAPIMsg) :=
  match m with
  | LocAPIClientRegisterReqMsg _ => parse_with LocAPIClientRegisterReqMsg_from_pb payload u
  | LocAPICapabilitiesIndMsg _ => parse_with LocAPICapabilitiesIndMsg_from_pb payload u
  | LocAPIGenericRespMsg id _ => parse_with (LocAPIGenericRespMsg_from_pb id) payload u
  | LocAPICollectiveRespMsg id _ => parse_with (LocAPICollectiveRespMsg_from_pb id) payload u
  | LocAPIStartTrackingReqMsg _ => parse_with LocAPIStartTrackingReqMsg_from_pb payload u
  | LocAPIUpdateCallbacksReqMsg _ => parse_with LocAPIUpdateCallbacksReqMsg_from_pb payload u
  | LocAPIUpdateTrackingOptionsReqMsg _ => parse_with LocAPIUpdateTrackingOptionsReqMsg_from_pb payload u
  | LocAPIStartBatchingReqMsg _ _ _ => parse_with LocAPIStartBatchingReqMsg_from_pb payload u
  | LocAPIUpdateBatchingOptionsReqMsg _ _ _ => parse_with LocAPIUpdateBatchingOptionsReqMsg_from_pb payload u
  | LocAPIAddGeofencesReqMsg _ => parse_with LocAPIAddGeofencesReqMsg_from_pb payload u
  | LocAPIRemoveGeofencesReqMsg _ => parse_with LocAPIRemoveGeofencesReqMsg_from_pb payload u
  | LocAPIModifyGeofencesReqMsg _ => parse_with LocAPIModifyGeofencesReqMsg_from_pb payload u
  | LocAPIPauseGeofencesReqMsg _ => parse_with LocAPIPauseGeofencesReqMsg_from_pb payload u
  | LocAPIResumeGeofencesReqMsg _ => parse_with LocAPIResumeGeofencesReqMsg_from_pb payload u
  | LocAPIUpdateNetworkAvailabilityReqMsg _ => parse_with LocAPIUpdateNetworkAvailabilityReqMsg_from_pb payload u
  | LocAPIGetSingleTerrestrialPosReqMsg _ _ _ => parse_with LocAPIGetSingleTerrestrialPosReqMsg_from_pb payload u
  | LocAPIGetSingleTerrestrialPosRespMsg _ _ => parse_with LocAPIGetSingleTerrestrialPosRespMsg_from_pb payload u
  | LocAPILocationIndMsg _ => parse_with LocAPILocationIndMsg_from_pb payload u
  | LocAPIBatchingIndMsg _ => parse_with LocAPIBatchingIndMsg_from_pb payload u
  | LocAPIGeofenceBreachIndMsg _ => parse_with LocAPIGeofenceBreachIndMsg_from_pb payload u
  | LocAPILocationInfoIndMsg _ => parse_with LocAPILocationInfoIndMsg_from_pb payload u
  | LocAPIEngineLocationsInfoIndMsg _ _ => parse_with LocAPIEngineLocationsInfoIndMsg_from_pb payload u
  | LocAPISatelliteVehicleIndMsg _ => parse_with LocAPISatelliteVehicleIndMsg_from_pb payload u
  | LocAPINmeaIndMsg _ => parse_with LocAPINmeaIndMsg_from_pb payload u
  | LocAPIDataIndMsg _ => parse_with LocAPIDataIndMsg_from_pb payload u
  | LocAPIMeasIndMsg _ => parse_with LocAPIMeasIndMsg_from_pb payload u
  | LocAPIGnssEnergyConsumedIndMsg _ => parse_with LocAPIGnssEnergyConsumedIndMsg_from_pb payload u
  | LocAPILocationSystemInfoIndMsg _ => parse_with LocAPILocationSystemInfoIndMsg_from_pb payload u
  | LocConfigConstrainedTuncReqMsg _ _ _ => parse_with LocConfigConstrainedTuncReqMsg_from_pb payload u
  | LocConfigPositionAssistedClockEstimatorReqMsg _ => parse_with LocConfigPositionAssistedClockEstimatorReqMsg_from_pb payload u
  | LocConfigSvConstellationReqMsg _ _ _ => parse_with LocConfigSvConstellationReqMsg_from_pb payload u
  | LocConfigConstellationSecondaryBandReqMsg _ => parse_with LocConfigConstellationSecondaryBandReqMsg_from_pb payload u
  | LocConfigAidingDataDeletionReqMsg _ => parse_with LocConfigAidingDataDeletionReqMsg_from_pb payload u
  | LocConfigLeverArmReqMsg _ => parse_with LocConfigLeverArmReqMsg_from_pb payload u
  | LocConfigRobustLocationReqMsg _ _ => parse_with LocConfigRobustLocationReqMsg_from_pb payload u
  | LocConfigMinGpsWeekReqMsg _ => parse_with LocConfigMinGpsWeekReqMsg_from_pb payload u
  | LocConfigDrEngineParamsReqMsg _ => parse_with LocConfigDrEngineParamsReqMsg_from_pb payload u
  | LocConfigMinSvElevationReqMsg _ => parse_with LocConfigMinSvElevationReqMsg_from_pb payload u
  | LocConfigEngineRunStateReqMsg _ _ => parse_with LocConfigEngineRunStateReqMsg_from_pb payload u
  | LocConfigUserConsentTerrestrialPositioningReqMsg _ => parse_with LocConfigUserConsentTerrestrialPositioningReqMsg_from_pb payload u
  | LocConfigGetRobustLocationConfigRespMsg _ => parse_with LocConfigGetRobustLocationConfigRespMsg_from_pb payload u
  | LocConfigGetMinGpsWeekRespMsg _ => parse_with LocConfigGetMinGpsWeekRespMsg_from_pb payload u
  | LocConfigGetMinSvElevationRespMsg _ => parse_with LocConfigGetMinSvElevationRespMsg_from_pb payload u
  | LocConfigGetConstellationSecondaryBandConfigRespMsg _ => parse_with LocConfigGetConstellationSecondaryBandConfigRespMsg_from_pb payload u
  | LocAPIPingTestReqMsg _ => parse_with LocAPIPingTestReqMsg_from_pb payload u
  | LocAPIPingTestIndMsg _ => parse_with LocAPIPingTestIndMsg_from_pb payload u
  | _ => Some (Some m)
  end.

Lemma payload_sent {P} `{!Serializable P} h size (pb : option P) s :
  send_payload h size pb = Some (Some s) ->
  ∃ p payload, pb = Some p ∧ ParseFromString payload = Some p ∧
    ParseFromString s = Some (header_to_pb h payload size).
Proof.
  unfold send_payload. destruct (pLocApiPbMsgConv h); [|done].
  destruct pb as [p|]; csimpl; [|done].
  destruct (SerializeToString p) as [payload|] eqn:E; csimpl; intros [= Hs].
  exists p, payload. split_and!; [done|by apply parse_serialized..].
Qed.
Lemma header_sent h size s :
  send h size = Some (Some s) -> ParseFromString s = Some (header_to_pb h [] size).
Proof. unfold send. destruct (pLocApiPbMsgConv h); [|done]. intros [= Hs]. by apply parse_serialized. Qed.

Lemma parse_arrived {P} `{!Serializable P} (from_pb : P -> Uninitialised -> option LocAPIMsg)
    payload p u (o : option LocAPIMsg) :
  ParseFromString payload = Some p -> from_pb p u = o ->
  parse_with from_pb payload u = (m ← o; Some (Some m)).
Proof. intros Hp <-. unfold parse_with. by rewrite Hp. Qed.

(** A class whose payload holds one converted struct. *)
Lemma struct_arrives {A B P X} (conv : option A) (mk : A -> P) (p : P) (from : A -> X -> option B) (x : X)
    (get : P -> A) (build : B -> LocAPIMsg) (o : option B) :
  (a ← conv; Some (mk a)) = Some p -> (∀ a, get (mk a) = a) -> (a ← conv; from a x) = o ->
  (b ← from (get p) x; Some (build b)) = (b ← o; Some (build b)).
Proof. intros Hp Hget <-. destruct conv as [a|]; [|done]. injection Hp as <-. csimpl. by rewrite Hget. Qed.

(** Loops over structs whose conversion can fail. *)
Lemma infos_added (l : list GnssLocationInfoNotification) n i pre :
  (i + n ≤ length l)%nat -> Forall (fun v => location_info_sendable v = true) (take n (drop i l)) ->
  ∃ cs, for_ n i (fun i infos =>
      info ← l !! i;
      pb ← convertGnssLocInfoNotifToPB info PBGnssLocationInfoNotification_default;
      Some (add infos pb)) pre = Some (pre ++ cs) ∧
    Forall2 (fun v c => ∀ x, GnssLocationInfoNotification_in_range x = true ->
      pbConvertToGnssLocInfoNotif c x = Some (GnssLocationInfoNotification_arrived v x))
      (take n (drop i l)) cs.
Proof.
  revert i pre. induction n as [|n IH]; intros i pre Hl Hok; cbn [for_].
  { exists []. rewrite app_nil_r, take_0. auto. }
  destruct (l !! i) as [v|] eqn:Ev; [|apply lookup_ge_None in Ev; lia].
  rewrite (drop_S l v i) in Hok |- * by done. cbn [take] in Hok |- *.
  apply Forall_cons in Hok as [Hv Hok]. cbn [mbind option_bind].
  destruct (convertGnssLocInfoNotifToPB v PBGnssLocationInfoNotification_default) as [c|] eqn:Ec.
  - cbn [mbind option_bind]. destruct (IH (S i) (add pre c)) as (cs & -> & Hcs); [lia|done|].
    exists (c :: cs). unfold add. rewrite <- app_assoc. split; [done|]. constructor; [|done].
    intros x Hx. pose proof (location_info_arrives v x Hv Hx) as Ha. by rewrite Ec in Ha.
  - exfalso. pose proof (location_info_arrives v no_location_info Hv eq_refl) as Ha. by rewrite Ec in Ha.
Qed.
Lemma infos_copied vs cs i pre xs :
  Forall2 (fun v c => ∀ x, GnssLocationInfoNotification_in_range x = true ->
      pbConvertToGnssLocInfoNotif c x = Some (GnssLocationInfoNotification_arrived v x)) vs (drop i cs) ->
  Forall (fun x => GnssLocationInfoNotification_in_range x = true) xs ->
  length pre = i -> (length vs ≤ length xs)%nat ->
  for_ (length vs) i (fun i l =>
    info ← cs !! i; x ← l !! i; x ← pbConvertToGnssLocInfoNotif info x; Some (<[i := x]> l)) (pre ++ xs) =
  Some (pre ++ zip_with GnssLocationInfoNotification_arrived vs xs ++ drop (length vs) xs).
Proof.
  revert i pre xs. induction vs as [|v vs IH]; intros i pre xs Hcs Hxs Hpre Hlen; cbn [length for_].
  { done. }
  destruct xs as [|x xs]; [simpl in Hlen; lia|].
  apply Forall2_cons_inv_l in Hcs as (c & cs' & Hc & Hcs & Ecs). apply Forall_cons in Hxs as [Hx Hxs].
  assert (cs !! i = Some c) as -> by (rewrite <- (Nat.add_0_r i), <- lookup_drop, Ecs; done).
  cbn [mbind option_bind]. rewrite lookup_app_r, Hpre, Nat.sub_diag by lia.
  cbn [lookup list_lookup mbind option_bind]. rewrite Hc by done. cbn [mbind option_bind].
  rewrite insert_app_r_alt, Hpre, Nat.sub_diag by lia. cbn [insert list_insert].
  rewrite (cons_middle (GnssLocationInfoNotification_arrived v x)), app_assoc, IH; simpl in *; try done.
  - by rewrite <- !app_assoc.
  - by rewrite <- Nat.add_1_r, <- drop_drop, Ecs.
  - rewrite length_app. simpl. lia.
  - lia.
Qed.

(** * Every message *)

Create HintDb classes.
#[local] Hint Unfold LocAPIClientRegisterReqMsg_serializeToProtobuf
  LocAPIClientDeregisterReqMsg_serializeToProtobuf LocAPICapabilitiesIndMsg_serializeToProtobuf
  LocAPIHalReadyIndMsg_serializeToProtobuf LocAPIGenericRespMsg_serializeToProtobuf
  LocAPICollectiveRespMsg_serializeToProtobuf LocAPIStartTrackingReqMsg_serializeToProtobuf
  LocAPIStopTrackingReqMsg_serializeToProtobuf LocAPIUpdateCallbacksReqMsg_serializeToProtobuf
  LocAPIUpdateTrackingOptionsReqMsg_serializeToProtobuf
  LocAPIStartBatchingReqMsg_serializeToProtobuf LocAPIStopBatchingReqMsg_serializeToProtobuf
  LocAPIUpdateBatchingOptionsReqMsg_serializeToProtobuf
  LocAPIAddGeofencesReqMsg_serializeToProtobuf LocAPIRemoveGeofencesReqMsg_serializeToProtobuf
  LocAPIModifyGeofencesReqMsg_serializeToProtobuf LocAPIPauseGeofencesReqMsg_serializeToProtobuf
  LocAPIResumeGeofencesReqMsg_serializeToProtobuf
  LocAPIUpdateNetworkAvailabilityReqMsg_serializeToProtobuf
  LocAPIGetGnssEnergyConsumedReqMsg_serializeToProtobuf
  LocAPIGetSingleTerrestrialPosReqMsg_serializeToProtobuf
  LocAPIGetSingleTerrestrialPosRespMsg_serializeToProtobuf
  LocAPILocationIndMsg_serializeToProtobuf LocAPIBatchingIndMsg_serializeToProtobuf
  LocAPIGeofenceBreachIndMsg_serializeToProtobuf LocAPILocationInfoIndMsg_serializeToProtobuf
  LocAPIEngineLocationsInfoIndMsg_serializeToProtobuf
  LocAPISatelliteVehicleIndMsg_serializeToProtobuf LocAPINmeaIndMsg_serializeToProtobuf
  LocAPIDataIndMsg_serializeToProtobuf LocAPIMeasIndMsg_serializeToProtobuf
  LocAPIGnssEnergyConsumedIndMsg_serializeToProtobuf
  LocAPILocationSystemInfoIndMsg_serializeToProtobuf
  LocConfigConstrainedTuncReqMsg_serializeToProtobuf
  LocConfigPositionAssistedClockEstimatorReqMsg_serializeToProtobuf
  LocConfigSvConstellationReqMsg_serializeToProtobuf
  LocConfigConstellationSecondaryBandReqMsg_serializeToProtobuf
  LocConfigAidingDataDeletionReqMsg_serializeToProtobuf
  LocConfigLeverArmReqMsg_serializeToProtobuf LocConfigRobustLocationReqMsg_serializeToProtobuf
  LocConfigMinGpsWeekReqMsg_serializeToProtobuf LocConfigDrEngineParamsReqMsg_serializeToProtobuf
  LocConfigMinSvElevationReqMsg_serializeToProtobuf
  LocConfigEngineRunStateReqMsg_serializeToProtobuf
  LocConfigUserConsentTerrestrialPositioningReqMsg_serializeToProtobuf
  LocConfigGetRobustLocationConfigReqMsg_serializeToProtobuf
  LocConfigGetRobustLocationConfigRespMsg_serializeToProtobuf
  LocConfigGetMinGpsWeekReqMsg_serializeToProtobuf
  LocConfigGetMinGpsWeekRespMsg_serializeToProtobuf
  LocConfigGetMinSvElevationReqMsg_serializeToProtobuf
  LocConfigGetMinSvElevationRespMsg_serializeToProtobuf
  LocConfigGetConstellationSecondaryBandConfigReqMsg_serializeToProtobuf
  LocConfigGetConstellationSecondaryBandConfigRespMsg_serializeToProtobuf
  LocAPIPingTestReqMsg_serializeToProtobuf LocAPIPingTestIndMsg_serializeToProtobuf
  LocAPIGetSingleTerrestrialPosReqMsg_from_pb LocAPIGetSingleTerrestrialPosRespMsg_from_pb
  LocConfigUserConsentTerrestrialPositioningReqMsg_from_pb LocAPIClientRegisterReqMsg_from_pb
  LocAPICapabilitiesIndMsg_from_pb LocAPIGenericRespMsg_from_pb LocAPICollectiveRespMsg_from_pb
  LocAPIStartTrackingReqMsg_from_pb LocAPIUpdateCallbacksReqMsg_from_pb
  LocAPIUpdateTrackingOptionsReqMsg_from_pb LocAPIStartBatchingReqMsg_from_pb
  LocAPIUpdateBatchingOptionsReqMsg_from_pb LocAPIAddGeofencesReqMsg_from_pb
  LocAPIRemoveGeofencesReqMsg_from_pb LocAPIModifyGeofencesReqMsg_from_pb
  LocAPIPauseGeofencesReqMsg_from_pb LocAPIResumeGeofencesReqMsg_from_pb
  LocAPIUpdateNetworkAvailabilityReqMsg_from_pb LocAPILocationIndMsg_from_pb
  LocAPIBatchingIndMsg_from_pb LocAPIGeofenceBreachIndMsg_from_pb LocAPILocationInfoIndMsg_from_pb
  LocAPIEngineLocationsInfoIndMsg_from_pb LocAPISatelliteVehicleIndMsg_from_pb
  LocAPINmeaIndMsg_from_pb LocAPIDataIndMsg_from_pb LocAPIMeasIndMsg_from_pb
  LocAPIGnssEnergyConsumedIndMsg_from_pb LocAPILocationSystemInfoIndMsg_from_pb
  LocConfigConstrainedTuncReqMsg_from_pb LocConfigPositionAssistedClockEstimatorReqMsg_from_pb
  LocConfigSvConstellationReqMsg_from_pb LocConfigConstellationSecondaryBandReqMsg_from_pb
  LocConfigAidingDataDeletionReqMsg_from_pb LocConfigLeverArmReqMsg_from_pb
  LocConfigRobustLocationReqMsg_from_pb LocConfigMinGpsWeekReqMsg_from_pb
  LocConfigDrEngineParamsReqMsg_from_pb LocConfigMinSvElevationReqMsg_from_pb
  LocConfigEngineRunStateReqMsg_from_pb LocConfigGetRobustLocationConfigRespMsg_from_pb
  LocConfigGetMinGpsWeekRespMsg_from_pb LocConfigGetMinSvElevationRespMsg_from_pb
  LocConfigGetConstellationSecondaryBandConfigRespMsg_from_pb LocAPIPingTestReqMsg_from_pb
  LocAPIPingTestIndMsg_from_pb : classes.

(** A class that is sent, up to what its constructor makes of the payload. *)
Ltac payload_of Hs :=
  autounfold with classes in Hs;
  first
    [ apply header_sent in Hs; eexists _, _; split; [exact Hs|reflexivity]
    | apply payload_sent in Hs as (p & payload & Hp & Hparse & Hhdr);
      exists payload; eexists; split; [exact Hhdr|]; cbn [receive_as];
      apply (parse_arrived _ _ p); [exact Hparse|];
      autounfold with classes; cbn [arrived] ].
Ltac struct_of Hp arrives :=
  etrans; [eapply (struct_arrives _ _ _ _ _ _ _ _ Hp); [done|eapply arrives; eauto]|reflexivity].

Lemma pings_arrive n l x :
  length l = n -> length x = n -> Forall (fun b => in_u 8 b = true) l ->
  array_arrived n (fun d _ => wrap_u 8 d) l x = l.
Proof.
  intros Hl Hx Hb. unfold array_arrived. rewrite take_ge, drop_ge, app_nil_r by lia.
  rewrite (zip_with_first (wrap_u 8)) by lia.
  induction Hb as [|b l Hb _ IH] in n, x, Hl, Hx |- *; csimpl; [done|]. f_equal; [by apply wrap_u_in|].
  destruct n as [|n], x as [|y x]; try done. apply (IH n x); simpl in *; lia.
Qed.

Lemma pings_copied {P} data x (mk : list Z -> P) p (get : P -> list Z) (count : P -> Z) (build : list Z -> LocAPIMsg) :
  (l ← for_ (Z.to_nat LOCATION_REMOTE_API_PINGTEST_SIZE) 0 (fun i l => d ← data !! i; Some (add l d)) [];
   Some (mk l)) = Some p ->
  (∀ l, get (mk l) = l ∧ count (mk l) = LOCATION_REMOTE_API_PINGTEST_SIZE) ->
  length data = Z.to_nat LOCATION_REMOTE_API_PINGTEST_SIZE ->
  length x = Z.to_nat LOCATION_REMOTE_API_PINGTEST_SIZE -> Forall (fun b => in_u 8 b = true) data ->
  (l ← for_ (Z.to_nat (Z.min (count p) LOCATION_REMOTE_API_PINGTEST_SIZE)) 0
         (fun i l => d ← get p !! i; write_at l i (fun _ => wrap_u 8 d)) x;
   Some (build l)) = Some (build data).
Proof.
  intros Hp Hget Hl Hx Hb. rewrite (for_add data (fun d => d)) in Hp by lia. injection Hp as <-.
  rewrite (proj1 (Hget _)), (proj2 (Hget _)).
  rewrite Z.min_id, list_fmap_id, take_ge by lia.
  rewrite (for_write data (fun d _ => wrap_u 8 d)), decide_True by lia. csimpl. by rewrite pings_arrive.
Qed.

Lemma message_arrives h m u s :
  sendable m -> well_typed u -> serializeToProtobuf h m = Some (Some s) ->
  ∃ payload size, ParseFromString s = Some (header_to_pb h payload size) ∧
    receive_as m payload u = (m' ← arrived u m; Some (Some m')).
Proof.
  intros Hok [] Hs. destruct m; cbn [serializeToProtobuf] in Hs; cbn [sendable] in Hok; payload_of Hs;
    destruct_and? Hok;
    try (injection Hp as <-; simpl; autorewrite with arrives; repeat f_equal; auto using wrap_u_in with arrives; done).
  - struct_of Hp collective_res_arrives.
  - struct_of Hp gf_added_arrives.
  - struct_of Hp gf_ids_arrive.
  - struct_of Hp gf_added_arrives.
  - struct_of Hp gf_ids_arrive.
  - struct_of Hp gf_ids_arrive.
  - struct_of Hp batch_arrives.
  - struct_of Hp gf_breach_arrives.
  - struct_of Hp location_info_arrives.
  - destruct (infos_added engineLocationsInfo (Z.to_nat (infos_sent count)) 0 []) as (cs & Hcs & Har);
      [lia|done|].
    unfold infos_sent at 1 in Hcs. rewrite Hcs in Hp. injection Hp as <-.
    cbn [PBLocAPIEngineLocationsInfoIndMsg_engineLocationsInfo app].
    rewrite drop_0 in Har. pose proof (Forall2_length _ _ _ Har) as Hlen. rewrite length_take in Hlen.
    assert (Z.min (Z.of_nat (length cs)) LOC_OUTPUT_ENGINE_COUNT = infos_sent count) as ->
      by (unfold infos_sent, LOC_OUTPUT_ENGINE_COUNT in *; lia).
    pose proof (infos_copied _ cs 0 [] (any_GnssLocationInfoNotifications u) Har) as Hcopy.
    rewrite firstn_length_le in Hcopy by lia. cbn [app] in Hcopy. rewrite Hcopy; try done.
    unfold infos_sent, LOC_OUTPUT_ENGINE_COUNT in *. lia.
  - struct_of Hp sv_arrives.
  - struct_of Hp data_arrives.
  - struct_of Hp measurements_arrive.
  - eapply pings_copied; [exact Hp|done..].
  - eapply pings_copied; [exact Hp|done..].
Qed.
End arrive.
