(* ===== verification/IpcDispatch.v ===== *)
(** LocationApiService::processClientMsg of location_hal_daemon: which handler of
    the daemon a received string is given to, and with which message.  The result
    is [None] where the code writes or reads outside of an array, [Some None]
    where the string is dropped, and otherwise the name of the client and the
    message; the handlers are in HalDaemon.v. *)

From stdpp Require Import list strings countable.
From S2P Require Import Prelude Masks LocationEnums PbConversions LocationApiPbMsgConv.
From S2P Require Import ApiStructs PbMessages PbMsgConv PbMsgArrive PbMsgArrays IpcMessages IpcArrive.

Local Open Scope Z_scope.

Definition SOCKET_LOC_CLIENT_DIR : string := "/dev/socket/loc_client/".
Definition EAP_LOC_CLIENT_DIR : string := "/data/vendor/location/extap_locclient/".
Definition SERVICE_NAME : string := "locapiservice".

(** [strncmp] with the length of a prefix, and with the whole name. *)
Definition isValidMsg (h : LocAPIMsgHeader) : bool := msgVersion h =? LOCATION_REMOTE_API_MSG_VERSION.
Definition isValidClientMsg (h : LocAPIMsgHeader) : bool :=
  isValidMsg h &&
  (String.prefix SOCKET_LOC_CLIENT_DIR (mSocketName h) || String.prefix EAP_LOC_CLIENT_DIR (mSocketName h)).
Definition isValidServerMsg (h : LocAPIMsgHeader) : bool :=
  isValidMsg h && bool_decide (mSocketName h = SERVICE_NAME).

(** A switch over identifiers. *)
Fixpoint dispatch {A} (dflt : A) (cases : list (Z * A)) (x : Z) : A :=
  match cases with
  | [] => dflt
  | (c, a) :: cases => if x =? c then a else dispatch dflt cases x
  end.

Section dispatch.
Context `{!Protobuf, !Abi}.

(** The cases of the switch: the message that each makes of the payload. *)
Definition client_cases (payload : bytes) (u : Uninitialised) : list (Z * option (option LocAPIMsg)) :=
  [
    (E_LOCAPI_CLIENT_REGISTER_MSG_ID : Z, parse_with LocAPIClientRegisterReqMsg_from_pb payload u);
    (E_LOCAPI_CLIENT_DEREGISTER_MSG_ID : Z, Some (Some LocAPIClientDeregisterReqMsg));
    (E_LOCAPI_START_TRACKING_MSG_ID : Z, parse_with LocAPIStartTrackingReqMsg_from_pb payload u);
    (E_LOCAPI_STOP_TRACKING_MSG_ID : Z, Some (Some LocAPIStopTrackingReqMsg));
    (E_LOCAPI_UPDATE_CALLBACKS_MSG_ID : Z,
      parse_with LocAPIUpdateCallbacksReqMsg_from_pb payload u);
    (E_LOCAPI_UPDATE_TRACKING_OPTIONS_MSG_ID : Z,
      parse_with LocAPIUpdateTrackingOptionsReqMsg_from_pb payload u);
    (E_LOCAPI_START_BATCHING_MSG_ID : Z, parse_with LocAPIStartBatchingReqMsg_from_pb payload u);
    (E_LOCAPI_STOP_BATCHING_MSG_ID : Z, Some (Some LocAPIStopBatchingReqMsg));
    (E_LOCAPI_UPDATE_BATCHING_OPTIONS_MSG_ID : Z,
      parse_with LocAPIUpdateBatchingOptionsReqMsg_from_pb payload u);
    (E_LOCAPI_ADD_GEOFENCES_MSG_ID : Z, parse_with LocAPIAddGeofencesReqMsg_from_pb payload u);
    (E_LOCAPI_REMOVE_GEOFENCES_MSG_ID : Z,
      parse_with LocAPIRemoveGeofencesReqMsg_from_pb payload u);
    (E_LOCAPI_MODIFY_GEOFENCES_MSG_ID : Z,
      parse_with LocAPIModifyGeofencesReqMsg_from_pb payload u);
    (E_LOCAPI_PAUSE_GEOFENCES_MSG_ID : Z, parse_with LocAPIPauseGeofencesReqMsg_from_pb payload u);
    (E_LOCAPI_RESUME_GEOFENCES_MSG_ID : Z,
      parse_with LocAPIResumeGeofencesReqMsg_from_pb payload u);
    (E_LOCAPI_CONTROL_UPDATE_NETWORK_AVAILABILITY_MSG_ID : Z,
      parse_with LocAPIUpdateNetworkAvailabilityReqMsg_from_pb payload u);
    (E_LOCAPI_GET_GNSS_ENGERY_CONSUMED_MSG_ID : Z, Some (Some LocAPIGetGnssEnergyConsumedReqMsg));
    (E_LOCAPI_GET_SINGLE_TERRESTRIAL_POS_REQ_MSG_ID : Z,
      parse_with LocAPIGetSingleTerrestrialPosReqMsg_from_pb payload u);
    (E_LOCAPI_PINGTEST_MSG_ID : Z, parse_with LocAPIPingTestReqMsg_from_pb payload u);
    (E_INTAPI_CONFIG_CONSTRAINTED_TUNC_MSG_ID : Z,
      parse_with LocConfigConstrainedTuncReqMsg_from_pb payload u);
    (E_INTAPI_CONFIG_POSITION_ASSISTED_CLOCK_ESTIMATOR_MSG_ID : Z,
      parse_with LocConfigPositionAssistedClockEstimatorReqMsg_from_pb payload u);
    (E_INTAPI_CONFIG_SV_CONSTELLATION_MSG_ID : Z,
      parse_with LocConfigSvConstellationReqMsg_from_pb payload u);
    (E_INTAPI_CONFIG_CONSTELLATION_SECONDARY_BAND_MSG_ID : Z,
      parse_with LocConfigConstellationSecondaryBandReqMsg_from_pb payload u);
    (E_INTAPI_CONFIG_AIDING_DATA_DELETION_MSG_ID : Z,
      parse_with LocConfigAidingDataDeletionReqMsg_from_pb payload u);
    (E_INTAPI_CONFIG_LEVER_ARM_MSG_ID : Z, parse_with LocConfigLeverArmReqMsg_from_pb payload u);
    (E_INTAPI_CONFIG_ROBUST_LOCATION_MSG_ID : Z,
      parse_with LocConfigRobustLocationReqMsg_from_pb payload u);
    (E_INTAPI_CONFIG_MIN_GPS_WEEK_MSG_ID : Z,
      parse_with LocConfigMinGpsWeekReqMsg_from_pb payload u);
    (E_INTAPI_CONFIG_DEAD_RECKONING_ENGINE_MSG_ID : Z,
      parse_with LocConfigDrEngineParamsReqMsg_from_pb payload u);
    (E_INTAPI_CONFIG_MIN_SV_ELEVATION_MSG_ID : Z,
      parse_with LocConfigMinSvElevationReqMsg_from_pb payload u);
    (E_INTAPI_CONFIG_ENGINE_RUN_STATE_MSG_ID : Z,
      parse_with LocConfigEngineRunStateReqMsg_from_pb payload u);
    (E_INTAPI_CONFIG_USER_CONSENT_TERRESTRIAL_POSITIONING_MSG_ID : Z,
      parse_with LocConfigUserConsentTerrestrialPositioningReqMsg_from_pb payload u);
    (E_INTAPI_GET_ROBUST_LOCATION_CONFIG_REQ_MSG_ID : Z,
      Some (Some LocConfigGetRobustLocationConfigReqMsg));
    (E_INTAPI_GET_MIN_GPS_WEEK_REQ_MSG_ID : Z, Some (Some LocConfigGetMinGpsWeekReqMsg));
    (E_INTAPI_GET_MIN_SV_ELEVATION_REQ_MSG_ID : Z, Some (Some LocConfigGetMinSvElevationReqMsg));
    (E_INTAPI_GET_CONSTELLATION_SECONDARY_BAND_CONFIG_REQ_MSG_ID : Z,
      Some (Some LocConfigGetConstellationSecondaryBandConfigReqMsg))
  ].

Definition processClientMsg (u : Uninitialised) (data : bytes) : option (option (string * LocAPIMsg)) :=
  match ParseFromString data with
  | None => Some None
  | Some pbLocApiMsg =>
      let eLocMsgid := getEnumForPBELocMsgID (PBLocAPIMsgHeader_msgId pbLocApiMsg) in
      let locApiMsg := new_header (PBLocAPIMsgHeader_mSocketName pbLocApiMsg) eLocMsgid false in
      if negb (isValidClientMsg locApiMsg) then Some None
      else
        (* getGnssEnergyConsumed is given the name before it was cut off *)
        let name := if eLocMsgid =? E_LOCAPI_GET_GNSS_ENGERY_CONSUMED_MSG_ID
                    then c_str (PBLocAPIMsgHeader_mSocketName pbLocApiMsg) else mSocketName locApiMsg in
        m ← dispatch (Some None) (client_cases (PBLocAPIMsgHeader_payload pbLocApiMsg) u) eLocMsgid;
        Some (m ← m; Some (name, m))
  end.

(** The messages that a client sends. *)
Definition client_request (m : LocAPIMsg) : bool :=
  match m with
  | LocAPIClientRegisterReqMsg _
  | LocAPIClientDeregisterReqMsg
  | LocAPIStartTrackingReqMsg _
  | LocAPIStopTrackingReqMsg
  | LocAPIUpdateCallbacksReqMsg _
  | LocAPIUpdateTrackingOptionsReqMsg _
  | LocAPIStartBatchingReqMsg _ _ _
  | LocAPIStopBatchingReqMsg
  | LocAPIUpdateBatchingOptionsReqMsg _ _ _
  | LocAPIAddGeofencesReqMsg _
  | LocAPIRemoveGeofencesReqMsg _
  | LocAPIModifyGeofencesReqMsg _
  | LocAPIPauseGeofencesReqMsg _
  | LocAPIResumeGeofencesReqMsg _
  | LocAPIUpdateNetworkAvailabilityReqMsg _
  | LocAPIGetGnssEnergyConsumedReqMsg
  | LocAPIGetSingleTerrestrialPosReqMsg _ _ _
  | LocAPIPingTestReqMsg _
  | LocConfigConstrainedTuncReqMsg _ _ _
  | LocConfigPositionAssistedClockEstimatorReqMsg _
  | LocConfigSvConstellationReqMsg _ _ _
  | LocConfigConstellationSecondaryBandReqMsg _
  | LocConfigAidingDataDeletionReqMsg _
  | LocConfigLeverArmReqMsg _
  | LocConfigRobustLocationReqMsg _ _
  | LocConfigMinGpsWeekReqMsg _
  | LocConfigDrEngineParamsReqMsg _
  | LocConfigMinSvElevationReqMsg _
  | LocConfigEngineRunStateReqMsg _ _
  | LocConfigUserConsentTerrestrialPositioningReqMsg _
  | LocConfigGetRobustLocationConfigReqMsg
  | LocConfigGetMinGpsWeekReqMsg
  | LocConfigGetMinSvElevationReqMsg
  | LocConfigGetConstellationSecondaryBandConfigReqMsg => true
  | _ => false
  end.

(** A name that the daemon accepts and that fits the header. *)
Definition client_name (name : string) : Prop :=
  (String.prefix SOCKET_LOC_CLIENT_DIR name || String.prefix EAP_LOC_CLIENT_DIR name = true) ∧
  c_str name = name ∧ (String.length name < 128)%nat.

Lemma substring_all s n : (String.length s ≤ n)%nat -> String.substring 0 n s = s.
Proof.
  revert n. induction s as [|a s IH]; intros [|n] Hn; simpl in *; try done; [lia|]. rewrite IH by lia. done.
Qed.
Lemma client_name_kept name : client_name name -> strlcpy (Z.to_nat MAX_SOCKET_PATHNAME_LENGTH) name = name.
Proof. intros (_ & Hz & Hl). unfold strlcpy. rewrite Hz. apply substring_all. simpl. lia. Qed.

(** Every request is handled under the identifier that it is sent with. *)
Lemma request_case m payload u :
  client_request m = true ->
  getEnumForPBELocMsgID (getPBEnumForELocMsgID (msgId_of m)) = msgId_of m ∧
  dispatch (Some None) (client_cases payload u) (msgId_of m) = receive_as m payload u.
Proof. destruct m; try discriminate; intros _; (split; [vm_compute; reflexivity|reflexivity]). Qed.

(** C9: Each request of a client is given to the handler of its class, under the
    name of the client and with the members that arrive.  What was in memory
    before matters only to the members that are not sent. *)
Theorem client_requests_arrive name m u s :
  client_name name -> client_request m = true -> sendable m -> well_typed u ->
  serializeToProtobuf (new_header name (msgId_of m) true) m = Some (Some s) ->
  processClientMsg u s = (m' ← arrived u m; Some (Some (name, m'))).
Proof.
  intros Hname Hreq Hok Hu Hs.
  destruct (message_arrives _ _ _ _ Hok Hu Hs) as (payload & size & Hhdr & Hrec).
  destruct (request_case m payload u Hreq) as [Hid Hcase].
  unfold processClientMsg. rewrite Hhdr.
  cbn [header_to_pb new_header PBLocAPIMsgHeader_msgId PBLocAPIMsgHeader_mSocketName
       PBLocAPIMsgHeader_payload msgId mSocketName].
  rewrite Hid, (client_name_kept name) by done.
  unfold isValidClientMsg, isValidMsg. cbn [new_header mSocketName msgVersion].
  rewrite (client_name_kept name), (proj1 Hname) by done.
  cbn [negb andb Z.eqb Pos.eqb LOCATION_REMOTE_API_MSG_VERSION].
  rewrite (proj1 (proj2 Hname)), Hcase, Hrec. destruct (arrived u m); [|done]. csimpl. by case_match.
Qed.

Lemma client_header name id conv :
  isValidClientMsg (new_header name id conv) = isValidClientMsg (new_header name 0 false).
Proof. reflexivity. Qed.
Lemma processClientMsg_at u s pb :
  ParseFromString s = Some pb ->
  isValidClientMsg (new_header (PBLocAPIMsgHeader_mSocketName pb) 0 false) = true ->
  ∃ name, processClientMsg u s =
    (m ← dispatch (Some None) (client_cases (PBLocAPIMsgHeader_payload pb) u)
           (getEnumForPBELocMsgID (PBLocAPIMsgHeader_msgId pb));
     Some (m ← m; Some (name, m))).
Proof.
  intros Hs Hv. unfold processClientMsg. rewrite Hs.
  rewrite client_header, Hv. cbn [negb]. eauto.
Qed.
Lemma dispatch_unknown {A} (dflt : A) cases x :
  x ∉ cases.*1 -> dispatch dflt cases x = dflt.
Proof.
  induction cases as [|[c a] cases IH]; csimpl; [done|]. intros Hx.
  rewrite not_elem_of_cons in Hx. destruct Hx as [Hc Hx].
  destruct (Z.eqb_spec x c); [done|]. by apply IH.
Qed.

(** Every case of the switch is there for a request. *)
Lemma cases_are_requests payload u id :
  id ∈ (client_cases payload u).*1 -> ∃ m, client_request m = true ∧ msgId_of m = id.
Proof.
  unfold client_cases. csimpl. rewrite !elem_of_cons, elem_of_nil. intros Hid.
  repeat (destruct Hid as [->|Hid]); [..|done].
  all: first [ by exists (LocAPIClientRegisterReqMsg 0)
    | by exists LocAPIClientDeregisterReqMsg
    | by exists (LocAPIStartTrackingReqMsg (any_LocationOptions u))
    | by exists LocAPIStopTrackingReqMsg
    | by exists (LocAPIUpdateCallbacksReqMsg 0)
    | by exists (LocAPIUpdateTrackingOptionsReqMsg (any_LocationOptions u))
    | by exists (LocAPIStartBatchingReqMsg 0 0 0)
    | by exists LocAPIStopBatchingReqMsg
    | by exists (LocAPIUpdateBatchingOptionsReqMsg 0 0 0)
    | by exists (LocAPIAddGeofencesReqMsg (any_GeofencesAddedReqPayload u))
    | by exists (LocAPIRemoveGeofencesReqMsg (any_GeofencesReqClientIdPayload u))
    | by exists (LocAPIModifyGeofencesReqMsg (any_GeofencesAddedReqPayload u))
    | by exists (LocAPIPauseGeofencesReqMsg (any_GeofencesReqClientIdPayload u))
    | by exists (LocAPIResumeGeofencesReqMsg (any_GeofencesReqClientIdPayload u))
    | by exists (LocAPIUpdateNetworkAvailabilityReqMsg false)
    | by exists LocAPIGetGnssEnergyConsumedReqMsg
    | by exists (LocAPIGetSingleTerrestrialPosReqMsg 0 0 0)
    | by exists (LocAPIPingTestReqMsg [])
    | by exists (LocConfigConstrainedTuncReqMsg false 0 0)
    | by exists (LocConfigPositionAssistedClockEstimatorReqMsg false)
    | by exists (LocConfigSvConstellationReqMsg (any_GnssSvTypeConfig u) 0 (any_GnssSvIdConfig u))
    | by exists (LocConfigConstellationSecondaryBandReqMsg (any_GnssSvTypeConfig u))
    | by exists (LocConfigAidingDataDeletionReqMsg (any_GnssAidingData u))
    | by exists (LocConfigLeverArmReqMsg (any_LeverArmConfigInfo u))
    | by exists (LocConfigRobustLocationReqMsg false false)
    | by exists (LocConfigMinGpsWeekReqMsg 0)
    | by exists (LocConfigDrEngineParamsReqMsg (any_DeadReckoningEngineConfig u))
    | by exists (LocConfigMinSvElevationReqMsg 0)
    | by exists (LocConfigEngineRunStateReqMsg 0 0)
    | by exists (LocConfigUserConsentTerrestrialPositioningReqMsg false)
    | by exists LocConfigGetRobustLocationConfigReqMsg
    | by exists LocConfigGetMinGpsWeekReqMsg
    | by exists LocConfigGetMinSvElevationReqMsg
    | by exists LocConfigGetConstellationSecondaryBandConfigReqMsg ].
Qed.

(** What is dropped: strings that are not messages, messages of anyone but a
    client, unknown identifiers, and payloads that cannot be parsed.  The version
    that a message was sent with is not looked at. *)
Theorem daemon_drops_the_rest u s :
  (ParseFromString (M := PBLocAPIMsgHeader) s = None -> processClientMsg u s = Some None) ∧
  (∀ pb, ParseFromString s = Some pb ->
     isValidClientMsg (new_header (PBLocAPIMsgHeader_mSocketName pb) 0 false) = false ∨
     (∀ m, client_request m = true ->
        msgId_of m ≠ getEnumForPBELocMsgID (PBLocAPIMsgHeader_msgId pb)) ->
     processClientMsg u s = Some None) ∧
  (∀ s' pb pb', ParseFromString s = Some pb -> ParseFromString s' = Some pb' ->
     PBLocAPIMsgHeader_mSocketName pb = PBLocAPIMsgHeader_mSocketName pb' ->
     PBLocAPIMsgHeader_msgId pb = PBLocAPIMsgHeader_msgId pb' ->
     PBLocAPIMsgHeader_payload pb = PBLocAPIMsgHeader_payload pb' ->
     processClientMsg u s = processClientMsg u s').
Proof.
  split_and!.
  - intros Hs. unfold processClientMsg. by rewrite Hs.
  - intros pb Hs Hbad.
    destruct (isValidClientMsg (new_header (PBLocAPIMsgHeader_mSocketName pb) 0 false)) eqn:Hv.
    + destruct Hbad as [|Hbad]; [done|]. destruct (processClientMsg_at u s pb Hs Hv) as [name ->].
      rewrite dispatch_unknown; [done|]. intros (m & Hm & Hid)%cases_are_requests. by apply (Hbad m).
    + unfold processClientMsg. rewrite Hs.
      by rewrite client_header, Hv.
  - intros s' pb pb' Hs Hs' Hn Hi Hp. unfold processClientMsg. rewrite Hs, Hs'. by rewrite Hn, Hi, Hp.
Qed.

(** * Bounds *)

Lemma parse_with_none {P} `{!Serializable P} (from_pb : P -> Uninitialised -> option LocAPIMsg) payload u :
  parse_with from_pb payload u = None <-> ∃ p, ParseFromString payload = Some p ∧ from_pb p u = None.
Proof.
  unfold parse_with. destruct (ParseFromString payload) as [p|]; [|naive_solver].
  rewrite bind_some_none. naive_solver.
Qed.

(** The requests whose payload has more elements than the handler has room for,
    or fewer than it says. *)
Definition overflows (id : Z) (payload : bytes) : Prop :=
  let more (n : nat) {P A} `{!Serializable P} (elements : P -> list A) :=
    ∃ p, ParseFromString payload = Some p ∧ (n < length (elements p))%nat in
  dispatch False [
    (E_LOCAPI_ADD_GEOFENCES_MSG_ID : Z, more 20%nat (fun p =>
      PBGeofencesAddedReqPayload_gfPayload (PBLocAPIAddGeofencesReqMsg_geofences p)));
    (E_LOCAPI_REMOVE_GEOFENCES_MSG_ID : Z, more 20%nat (fun p =>
      PBGeofencesReqClientIdPayload_gfIds (PBLocAPIRemoveGeofencesReqMsg_gfClientIds p)));
    (E_LOCAPI_MODIFY_GEOFENCES_MSG_ID : Z, more 20%nat (fun p =>
      PBGeofencesAddedReqPayload_gfPayload (PBLocAPIModifyGeofencesReqMsg_geofences p)));
    (E_LOCAPI_PAUSE_GEOFENCES_MSG_ID : Z, more 20%nat (fun p =>
      PBGeofencesReqClientIdPayload_gfIds (PBLocAPIPauseGeofencesReqMsg_gfClientIds p)));
    (E_LOCAPI_RESUME_GEOFENCES_MSG_ID : Z, more 20%nat (fun p =>
      PBGeofencesReqClientIdPayload_gfIds (PBLocAPIResumeGeofencesReqMsg_gfClientIds p)));
    (E_LOCAPI_PINGTEST_MSG_ID : Z, ∃ p, ParseFromString payload = Some p ∧
      Z.of_nat (length (PBLocAPIPingTestReqMsg_data p)) < Z.min (PBLocAPIPingTestReqMsg_numberOfPing p) 4)
  ] id.

Lemma added_none p x :
  GeofencesAddedReqPayload_in_range x = true ->
  pbConvertToGfAddReqPayload p x = None <-> (20 < length (PBGeofencesAddedReqPayload_gfPayload p))%nat.
Proof.
  unfold GeofencesAddedReqPayload_in_range, MAX_GEOFENCE_ENTRY. rewrite !andb_true_iff, Z.eqb_eq. intros Hx.
  unfold pbConvertToGfAddReqPayload. rewrite bind_some_none, for_write_none. lia.
Qed.
Lemma ids_none p x :
  GeofencesReqClientIdPayload_in_range x = true ->
  pbConvertToGfReqClientIdPayload p x = None <-> (20 < length (PBGeofencesReqClientIdPayload_gfIds p))%nat.
Proof.
  unfold GeofencesReqClientIdPayload_in_range, MAX_GEOFENCE_ENTRY. rewrite !andb_true_iff, Z.eqb_eq. intros Hx.
  unfold pbConvertToGfReqClientIdPayload. rewrite bind_some_none, for_write_none. lia.
Qed.

Lemma pings_none (src x : list Z) n :
  length x = 4%nat ->
  for_ (Z.to_nat (Z.min n LOCATION_REMOTE_API_PINGTEST_SIZE)) 0
    (fun i l => d ← src !! i; write_at l i (fun _ => wrap_u 8 d)) x = None <->
  Z.of_nat (length src) < Z.min n 4.
Proof.
  intros Hx. rewrite (for_write_none src (fun d _ => wrap_u 8 d)). unfold LOCATION_REMOTE_API_PINGTEST_SIZE. lia.
Qed.

Lemma cases_undefined payload u id :
  well_typed u ->
  dispatch (Some None) (client_cases payload u) id = None <-> overflows id payload.
Proof.
  intros [_ _ _ _ _ Hd Hg Hi]. unfold client_cases, overflows. cbn [dispatch].
  repeat lazymatch goal with
  | |- context [if id =? ?c then _ else _] =>
      destruct (Z.eqb_spec id c) as [->|_]; [cbn [ELocMsgID_val Z.eqb Pos.eqb]|]
  end.
  all: rewrite ?parse_with_none; try by naive_solver.
  all: apply exist_proper; intros p; apply and_iff_compat_l.
  6: { unfold LocAPIPingTestReqMsg_from_pb. cbn [mbind]. rewrite bind_some_none. by apply pings_none. }
  all: unfold LocAPIAddGeofencesReqMsg_from_pb, LocAPIModifyGeofencesReqMsg_from_pb,
         LocAPIRemoveGeofencesReqMsg_from_pb, LocAPIPauseGeofencesReqMsg_from_pb,
         LocAPIResumeGeofencesReqMsg_from_pb;
    rewrite bind_some_none; by (apply added_none || apply ids_none).
Qed.

(** C34: The daemon writes or reads outside of its arrays exactly on these strings:
    a request of a client with more than 20 geofences, and a ping that counts more
    bytes than it has. *)
Theorem daemon_overflows u s :
  well_typed u ->
  processClientMsg u s = None <->
  ∃ pb, ParseFromString s = Some pb ∧
    isValidClientMsg (new_header (PBLocAPIMsgHeader_mSocketName pb) 0 false) = true ∧
    overflows (getEnumForPBELocMsgID (PBLocAPIMsgHeader_msgId pb)) (PBLocAPIMsgHeader_payload pb).
Proof.
  intros Hu. destruct (ParseFromString (M := PBLocAPIMsgHeader) s) as [pb|] eqn:Hs.
  - destruct (isValidClientMsg (new_header (PBLocAPIMsgHeader_mSocketName pb) 0 false)) eqn:Hv.
    + destruct (processClientMsg_at u s pb Hs Hv) as [name ->].
      rewrite bind_some_none, cases_undefined by done. naive_solver.
    + unfold processClientMsg. rewrite Hs.
      rewrite client_header, Hv. cbn [negb]. split; [done|]. intros (pb' & [= <-] & Hv' & _). congruence.
  - unfold processClientMsg. rewrite Hs. split; [done|]. by intros (pb & ? & _).
Qed.
End dispatch.

(** * A protobuf library *)

(** Any injective encoding of the fields would do; this one writes bits as
    bytes. *)
Fixpoint bytes_of (p : positive) : bytes :=
  match p with
  | xH => []
  | xO p => Byte.x00 :: bytes_of p
  | xI p => Byte.x01 :: bytes_of p
  end.
Fixpoint positive_of (b : bytes) : positive :=
  match b with
  | [] => xH
  | Byte.x00 :: b => xO (positive_of b)
  | _ :: b => xI (positive_of b)
  end.
Lemma positive_of_bytes p : positive_of (bytes_of p) = p.
Proof. induction p as [p IH|p IH|]; cbn; [by rewrite IH..|done]. Qed.

Section codec.
Context {M C : Type} `{Countable C} (to_c : M -> C) (from_c : C -> M) (same : ∀ m, from_c (to_c m) = m).
Lemma codec_law m s :
  Some (bytes_of (encode (to_c m))) = Some s -> from_c <$> decode (positive_of s) = Some m.
Proof. intros [= <-]. rewrite positive_of_bytes, decode_encode. csimpl. by rewrite same. Qed.
Definition codec : Serializable M := {|
  SerializeToString := fun m => Some (bytes_of (encode (to_c m)));
  ParseFromString := fun b => from_c <$> decode (positive_of b);
  parse_serialized := codec_law |}.
End codec.
Lemma no_codec_law {M} (m : M) (s : bytes) : None = Some s -> None = Some m.
Proof. done. Qed.
Definition no_codec {M} : Serializable M := {|
  SerializeToString _ := None; ParseFromString _ := None; parse_serialized := no_codec_law |}.

Create HintDb codec.
Lemma same_elements {A B} (f : A -> B) (g : B -> A) (l : list A) : (∀ a, g (f a) = a) -> g <$> (f <$> l) = l.
Proof. intros Hg. induction l as [|a l IH]; csimpl; [done|]. by rewrite Hg, IH. Qed.
Lemma same_byte (b : bytes) :
  (fun z => default Byte.x00 (Byte.of_N (Z.to_N z))) <$> ((fun b => Z.of_N (Byte.to_N b)) <$> b) = b.
Proof. apply same_elements. intros x. by rewrite N2Z.id, Byte.of_to_N. Qed.
#[local] Hint Resolve same_byte same_elements : codec.

Abbreviation tuple_PBLocAPIClientRegisterReqMsg := (Z)%type (only parsing).
Definition to_PBLocAPIClientRegisterReqMsg (m : PBLocAPIClientRegisterReqMsg) :
    tuple_PBLocAPIClientRegisterReqMsg :=
  ((PBLocAPIClientRegisterReqMsg_mClientType m)).
Definition from_PBLocAPIClientRegisterReqMsg (t : tuple_PBLocAPIClientRegisterReqMsg) :
    PBLocAPIClientRegisterReqMsg :=
  let x0 := t in MkPBLocAPIClientRegisterReqMsg x0.
Lemma same_PBLocAPIClientRegisterReqMsg m : from_PBLocAPIClientRegisterReqMsg
    (to_PBLocAPIClientRegisterReqMsg m) = m.
Proof. destruct m. unfold from_PBLocAPIClientRegisterReqMsg, to_PBLocAPIClientRegisterReqMsg.
    f_equal; simpl; auto with codec. Qed.
Arguments to_PBLocAPIClientRegisterReqMsg : simpl never.
Arguments from_PBLocAPIClientRegisterReqMsg : simpl never.
#[local] Hint Resolve same_PBLocAPIClientRegisterReqMsg : codec.
Abbreviation tuple_PBLocationOptions := (Z * Z * Z * Z)%type (only parsing).
Definition to_PBLocationOptions (m : PBLocationOptions) : tuple_PBLocationOptions :=
  ((PBLocationOptions_minInterval m), (PBLocationOptions_minDistance m), (PBLocationOptions_mode
    m), (PBLocationOptions_locReqEngTypeMask m)).
Definition from_PBLocationOptions (t : tuple_PBLocationOptions) : PBLocationOptions :=
  let '(x0, x1, x2, x3) := t in MkPBLocationOptions x0 x1 x2 x3.
Lemma same_PBLocationOptions m : from_PBLocationOptions (to_PBLocationOptions m) = m.
Proof. destruct m. unfold from_PBLocationOptions, to_PBLocationOptions. f_equal; simpl; auto with
    codec. Qed.
Arguments to_PBLocationOptions : simpl never.
Arguments from_PBLocationOptions : simpl never.
#[local] Hint Resolve same_PBLocationOptions : codec.
Abbreviation tuple_PBLocAPIStartTrackingReqMsg := (tuple_PBLocationOptions)%type (only parsing).
Definition to_PBLocAPIStartTrackingReqMsg (m : PBLocAPIStartTrackingReqMsg) :
    tuple_PBLocAPIStartTrackingReqMsg :=
  (to_PBLocationOptions (PBLocAPIStartTrackingReqMsg_locOptions m)).
Definition from_PBLocAPIStartTrackingReqMsg (t : tuple_PBLocAPIStartTrackingReqMsg) :
    PBLocAPIStartTrackingReqMsg :=
  let x0 := t in MkPBLocAPIStartTrackingReqMsg (from_PBLocationOptions x0).
Lemma same_PBLocAPIStartTrackingReqMsg m : from_PBLocAPIStartTrackingReqMsg
    (to_PBLocAPIStartTrackingReqMsg m) = m.
Proof. destruct m. unfold from_PBLocAPIStartTrackingReqMsg, to_PBLocAPIStartTrackingReqMsg.
    f_equal; simpl; auto with codec. Qed.
Arguments to_PBLocAPIStartTrackingReqMsg : simpl never.
Arguments from_PBLocAPIStartTrackingReqMsg : simpl never.
#[local] Hint Resolve same_PBLocAPIStartTrackingReqMsg : codec.
Abbreviation tuple_PBLocAPIUpdateCallbacksReqMsg := (Z)%type (only parsing).
Definition to_PBLocAPIUpdateCallbacksReqMsg (m : PBLocAPIUpdateCallbacksReqMsg) :
    tuple_PBLocAPIUpdateCallbacksReqMsg :=
  ((PBLocAPIUpdateCallbacksReqMsg_locationCallbacks m)).
Definition from_PBLocAPIUpdateCallbacksReqMsg (t : tuple_PBLocAPIUpdateCallbacksReqMsg) :
    PBLocAPIUpdateCallbacksReqMsg :=
  let x0 := t in MkPBLocAPIUpdateCallbacksReqMsg x0.
Lemma same_PBLocAPIUpdateCallbacksReqMsg m : from_PBLocAPIUpdateCallbacksReqMsg
    (to_PBLocAPIUpdateCallbacksReqMsg m) = m.
Proof. destruct m. unfold from_PBLocAPIUpdateCallbacksReqMsg, to_PBLocAPIUpdateCallbacksReqMsg.
    f_equal; simpl; auto with codec. Qed.
Arguments to_PBLocAPIUpdateCallbacksReqMsg : simpl never.
Arguments from_PBLocAPIUpdateCallbacksReqMsg : simpl never.
#[local] Hint Resolve same_PBLocAPIUpdateCallbacksReqMsg : codec.
Abbreviation tuple_PBGeofenceOption := (Z * Z * Z)%type (only parsing).
Definition to_PBGeofenceOption (m : PBGeofenceOption) : tuple_PBGeofenceOption :=
  ((PBGeofenceOption_breachTypeMask m), (PBGeofenceOption_responsiveness m),
    (PBGeofenceOption_dwellTime m)).
Definition from_PBGeofenceOption (t : tuple_PBGeofenceOption) : PBGeofenceOption :=
  let '(x0, x1, x2) := t in MkPBGeofenceOption x0 x1 x2.
Lemma same_PBGeofenceOption m : from_PBGeofenceOption (to_PBGeofenceOption m) = m.
Proof. destruct m. unfold from_PBGeofenceOption, to_PBGeofenceOption. f_equal; simpl; auto with
    codec. Qed.
Arguments to_PBGeofenceOption : simpl never.
Arguments from_PBGeofenceOption : simpl never.
#[local] Hint Resolve same_PBGeofenceOption : codec.
Abbreviation tuple_PBGeofenceInfo := (Z * Z * Z)%type (only parsing).
Definition to_PBGeofenceInfo (m : PBGeofenceInfo) : tuple_PBGeofenceInfo :=
  ((PBGeofenceInfo_latitude m), (PBGeofenceInfo_longitude m), (PBGeofenceInfo_radius m)).
Definition from_PBGeofenceInfo (t : tuple_PBGeofenceInfo) : PBGeofenceInfo :=
  let '(x0, x1, x2) := t in MkPBGeofenceInfo x0 x1 x2.
Lemma same_PBGeofenceInfo m : from_PBGeofenceInfo (to_PBGeofenceInfo m) = m.
Proof. destruct m. unfold from_PBGeofenceInfo, to_PBGeofenceInfo. f_equal; simpl; auto with
    codec. Qed.
Arguments to_PBGeofenceInfo : simpl never.
Arguments from_PBGeofenceInfo : simpl never.
#[local] Hint Resolve same_PBGeofenceInfo : codec.
Abbreviation tuple_PBGeofencePayload := (Z * tuple_PBGeofenceOption * tuple_PBGeofenceInfo)%type
    (only parsing).
Definition to_PBGeofencePayload (m : PBGeofencePayload) : tuple_PBGeofencePayload :=
  ((PBGeofencePayload_gfClientId m), to_PBGeofenceOption (PBGeofencePayload_gfOption m),
    to_PBGeofenceInfo (PBGeofencePayload_gfInfo m)).
Definition from_PBGeofencePayload (t : tuple_PBGeofencePayload) : PBGeofencePayload :=
  let '(x0, x1, x2) := t in MkPBGeofencePayload x0 (from_PBGeofenceOption x1)
    (from_PBGeofenceInfo x2).
Lemma same_PBGeofencePayload m : from_PBGeofencePayload (to_PBGeofencePayload m) = m.
Proof. destruct m. unfold from_PBGeofencePayload, to_PBGeofencePayload. f_equal; simpl; auto with
    codec. Qed.
Arguments to_PBGeofencePayload : simpl never.
Arguments from_PBGeofencePayload : simpl never.
#[local] Hint Resolve same_PBGeofencePayload : codec.
Abbreviation tuple_PBGeofencesAddedReqPayload := ((list (tuple_PBGeofencePayload)))%type (only
    parsing).
Definition to_PBGeofencesAddedReqPayload (m : PBGeofencesAddedReqPayload) :
    tuple_PBGeofencesAddedReqPayload :=
  ((to_PBGeofencePayload <$> (PBGeofencesAddedReqPayload_gfPayload m))).
Definition from_PBGeofencesAddedReqPayload (t : tuple_PBGeofencesAddedReqPayload) :
    PBGeofencesAddedReqPayload :=
  let x0 := t in MkPBGeofencesAddedReqPayload (from_PBGeofencePayload <$> x0).
Lemma same_PBGeofencesAddedReqPayload m : from_PBGeofencesAddedReqPayload
    (to_PBGeofencesAddedReqPayload m) = m.
Proof. destruct m. unfold from_PBGeofencesAddedReqPayload, to_PBGeofencesAddedReqPayload.
    f_equal; simpl; auto with codec. Qed.
Arguments to_PBGeofencesAddedReqPayload : simpl never.
Arguments from_PBGeofencesAddedReqPayload : simpl never.
#[local] Hint Resolve same_PBGeofencesAddedReqPayload : codec.
Abbreviation tuple_PBLocAPIAddGeofencesReqMsg := (tuple_PBGeofencesAddedReqPayload)%type (only
    parsing).
Definition to_PBLocAPIAddGeofencesReqMsg (m : PBLocAPIAddGeofencesReqMsg) :
    tuple_PBLocAPIAddGeofencesReqMsg :=
  (to_PBGeofencesAddedReqPayload (PBLocAPIAddGeofencesReqMsg_geofences m)).
Definition from_PBLocAPIAddGeofencesReqMsg (t : tuple_PBLocAPIAddGeofencesReqMsg) :
    PBLocAPIAddGeofencesReqMsg :=
  let x0 := t in MkPBLocAPIAddGeofencesReqMsg (from_PBGeofencesAddedReqPayload x0).
Lemma same_PBLocAPIAddGeofencesReqMsg m : from_PBLocAPIAddGeofencesReqMsg
    (to_PBLocAPIAddGeofencesReqMsg m) = m.
Proof. destruct m. unfold from_PBLocAPIAddGeofencesReqMsg, to_PBLocAPIAddGeofencesReqMsg.
    f_equal; simpl; auto with codec. Qed.
Arguments to_PBLocAPIAddGeofencesReqMsg : simpl never.
Arguments from_PBLocAPIAddGeofencesReqMsg : simpl never.
#[local] Hint Resolve same_PBLocAPIAddGeofencesReqMsg : codec.
Abbreviation tuple_PBGeofencesReqClientIdPayload := ((list (Z)))%type (only parsing).
Definition to_PBGeofencesReqClientIdPayload (m : PBGeofencesReqClientIdPayload) :
    tuple_PBGeofencesReqClientIdPayload :=
  ((PBGeofencesReqClientIdPayload_gfIds m)).
Definition from_PBGeofencesReqClientIdPayload (t : tuple_PBGeofencesReqClientIdPayload) :
    PBGeofencesReqClientIdPayload :=
  let x0 := t in MkPBGeofencesReqClientIdPayload x0.
Lemma same_PBGeofencesReqClientIdPayload m : from_PBGeofencesReqClientIdPayload
    (to_PBGeofencesReqClientIdPayload m) = m.
Proof. destruct m. unfold from_PBGeofencesReqClientIdPayload, to_PBGeofencesReqClientIdPayload.
    f_equal; simpl; auto with codec. Qed.
Arguments to_PBGeofencesReqClientIdPayload : simpl never.
Arguments from_PBGeofencesReqClientIdPayload : simpl never.
#[local] Hint Resolve same_PBGeofencesReqClientIdPayload : codec.
Abbreviation tuple_PBLocAPIRemoveGeofencesReqMsg := (tuple_PBGeofencesReqClientIdPayload)%type
    (only parsing).
Definition to_PBLocAPIRemoveGeofencesReqMsg (m : PBLocAPIRemoveGeofencesReqMsg) :
    tuple_PBLocAPIRemoveGeofencesReqMsg :=
  (to_PBGeofencesReqClientIdPayload (PBLocAPIRemoveGeofencesReqMsg_gfClientIds m)).
Definition from_PBLocAPIRemoveGeofencesReqMsg (t : tuple_PBLocAPIRemoveGeofencesReqMsg) :
    PBLocAPIRemoveGeofencesReqMsg :=
  let x0 := t in MkPBLocAPIRemoveGeofencesReqMsg (from_PBGeofencesReqClientIdPayload x0).
Lemma same_PBLocAPIRemoveGeofencesReqMsg m : from_PBLocAPIRemoveGeofencesReqMsg
    (to_PBLocAPIRemoveGeofencesReqMsg m) = m.
Proof. destruct m. unfold from_PBLocAPIRemoveGeofencesReqMsg, to_PBLocAPIRemoveGeofencesReqMsg.
    f_equal; simpl; auto with codec. Qed.
Arguments to_PBLocAPIRemoveGeofencesReqMsg : simpl never.
Arguments from_PBLocAPIRemoveGeofencesReqMsg : simpl never.
#[local] Hint Resolve same_PBLocAPIRemoveGeofencesReqMsg : codec.
Abbreviation tuple_PBLocAPIMsgHeader := (string * Z * Z * (list Z) * Z)%type (only parsing).
Definition to_PBLocAPIMsgHeader (m : PBLocAPIMsgHeader) : tuple_PBLocAPIMsgHeader :=
  ((PBLocAPIMsgHeader_mSocketName m), (PBLocAPIMsgHeader_msgId m), (PBLocAPIMsgHeader_msgVersion
    m), ((fun b => Z.of_N (Byte.to_N b)) <$> (PBLocAPIMsgHeader_payload m)),
    (PBLocAPIMsgHeader_payloadSize m)).
Definition from_PBLocAPIMsgHeader (t : tuple_PBLocAPIMsgHeader) : PBLocAPIMsgHeader :=
  let '(x0, x1, x2, x3, x4) := t in MkPBLocAPIMsgHeader x0 x1 x2 ((fun z => default Byte.x00
    (Byte.of_N (Z.to_N z))) <$> x3) x4.
Lemma same_PBLocAPIMsgHeader m : from_PBLocAPIMsgHeader (to_PBLocAPIMsgHeader m) = m.
Proof. destruct m. unfold from_PBLocAPIMsgHeader, to_PBLocAPIMsgHeader. f_equal; simpl; auto with
    codec. Qed.
Arguments to_PBLocAPIMsgHeader : simpl never.
Arguments from_PBLocAPIMsgHeader : simpl never.
#[local] Hint Resolve same_PBLocAPIMsgHeader : codec.

(** Other messages fail to be encoded. *)
Definition some_protobuf : Protobuf := {|
  PBLocAPIClientRegisterReqMsg_serializable := codec to_PBLocAPIClientRegisterReqMsg from_PBLocAPIClientRegisterReqMsg same_PBLocAPIClientRegisterReqMsg;
  PBLocAPICapabilitiesIndMsg_serializable := no_codec;
  PBLocAPIGenericRespMsg_serializable := no_codec;
  PBLocAPICollectiveRespMsg_serializable := no_codec;
  PBLocAPIStartTrackingReqMsg_serializable := codec to_PBLocAPIStartTrackingReqMsg from_PBLocAPIStartTrackingReqMsg same_PBLocAPIStartTrackingReqMsg;
  PBLocAPIUpdateCallbacksReqMsg_serializable := codec to_PBLocAPIUpdateCallbacksReqMsg from_PBLocAPIUpdateCallbacksReqMsg same_PBLocAPIUpdateCallbacksReqMsg;
  PBLocAPIUpdateTrackingOptionsReqMsg_serializable := no_codec;
  PBLocAPIStartBatchingReqMsg_serializable := no_codec;
  PBLocAPIUpdateBatchingOptionsReqMsg_serializable := no_codec;
  PBLocAPIAddGeofencesReqMsg_serializable := codec to_PBLocAPIAddGeofencesReqMsg from_PBLocAPIAddGeofencesReqMsg same_PBLocAPIAddGeofencesReqMsg;
  PBLocAPIRemoveGeofencesReqMsg_serializable := codec to_PBLocAPIRemoveGeofencesReqMsg from_PBLocAPIRemoveGeofencesReqMsg same_PBLocAPIRemoveGeofencesReqMsg;
  PBLocAPIModifyGeofencesReqMsg_serializable := no_codec;
  PBLocAPIPauseGeofencesReqMsg_serializable := no_codec;
  PBLocAPIResumeGeofencesReqMsg_serializable := no_codec;
  PBLocAPIUpdateNetworkAvailabilityReqMsg_serializable := no_codec;
  PBLocAPIGetSingleTerrestrialPosReqMsg_serializable := no_codec;
  PBLocAPIGetSingleTerrestrialPosRespMsg_serializable := no_codec;
  PBLocAPILocationIndMsg_serializable := no_codec;
  PBLocAPIBatchingIndMsg_serializable := no_codec;
  PBLocAPIGeofenceBreachIndMsg_serializable := no_codec;
  PBLocAPILocationInfoIndMsg_serializable := no_codec;
  PBLocAPIEngineLocationsInfoIndMsg_serializable := no_codec;
  PBLocAPISatelliteVehicleIndMsg_serializable := no_codec;
  PBLocAPINmeaIndMsg_serializable := no_codec;
  PBLocAPIDataIndMsg_serializable := no_codec;
  PBLocAPIMeasIndMsg_serializable := no_codec;
  PBLocAPIGnssEnergyConsumedIndMsg_serializable := no_codec;
  PBLocAPILocationSystemInfoIndMsg_serializable := no_codec;
  PBLocConfigConstrainedTuncReqMsg_serializable := no_codec;
  PBLocConfigPositionAssistedClockEstimatorReqMsg_serializable := no_codec;
  PBLocConfigSvConstellationReqMsg_serializable := no_codec;
  PBLocConfigConstellationSecondaryBandReqMsg_serializable := no_codec;
  PBLocConfigAidingDataDeletionReqMsg_serializable := no_codec;
  PBLocConfigLeverArmReqMsg_serializable := no_codec;
  PBLocConfigRobustLocationReqMsg_serializable := no_codec;
  PBLocConfigMinGpsWeekReqMsg_serializable := no_codec;
  PBLocConfigDrEngineParamsReqMsg_serializable := no_codec;
  PBLocConfigMinSvElevationReqMsg_serializable := no_codec;
  PBLocConfigEngineRunStateReqMsg_serializable := no_codec;
  PBLocConfigUserConsentTerrestrialPositioningReqMsg_serializable := no_codec;
  PBLocConfigGetRobustLocationConfigRespMsg_serializable := no_codec;
  PBLocConfigGetMinGpsWeekRespMsg_serializable := no_codec;
  PBLocConfigGetMinSvElevationRespMsg_serializable := no_codec;
  PBLocConfigGetConstltnSecondaryBandConfigRespMsg_serializable := no_codec;
  PBLocAPIPingTestReqMsg_serializable := no_codec;
  PBLocAPIPingTestIndMsg_serializable := no_codec;
  PBLocAPIMsgHeader_serializable := codec to_PBLocAPIMsgHeader from_PBLocAPIMsgHeader same_PBLocAPIMsgHeader |}.

(** Memory of zeros, and the arrays of the structs. *)
Definition blank : Uninitialised := {|
  any_CollectiveResPayload := MkCollectiveResPayload 0 [];
  any_LocationOptions := MkLocationOptions 0 0 0 0;
  any_GeofencesAddedReqPayload := MkGeofencesAddedReqPayload 0 (replicate 20 (MkGeofencePayload 0
    (MkGeofenceOption 0 0 0) (MkGeofenceInfo 0 0 0)));
  any_GeofencesReqClientIdPayload := MkGeofencesReqClientIdPayload 0 (replicate 20 0);
  any_Location := no_location;
  any_LocAPIBatchNotification := MkLocAPIBatchNotification 0 0 [];
  any_LocAPIGeofenceBreachNotification := MkLocAPIGeofenceBreachNotification 0 0 0 no_location [];
  any_GnssLocationInfoNotification := no_location_info;
  any_GnssLocationInfoNotifications := replicate 4 no_location_info;
  any_GnssSvNotification := no_svs;
  any_LocAPINmeaSerializedPayload := MkLocAPINmeaSerializedPayload 0 EmptyString;
  any_GnssDataNotification := MkGnssDataNotification (replicate 20 0) (replicate 20 0) (replicate 20 0);
  any_GnssMeasurementsNotification := MkGnssMeasurementsNotification 0 []
    (MkGnssMeasurementsClock 0 0 0 0 0 0 0 0 0 0 (MkGnssMeasurementsSignalType 0 0 0 []) 0 0);
  any_LocationSystemInfo := MkLocationSystemInfo 0 (MkLeapSecondSystemInfo 0 0
    (MkLeapSecondChangeInfo (MkGnssSystemTimeStructType 0 0 0 0 0 0 0) 0 0));
  any_GnssSvTypeConfig := MkGnssSvTypeConfig 0 0;
  any_GnssSvIdConfig := MkGnssSvIdConfig 0 0 0 0 0 0;
  any_GnssAidingData := MkGnssAidingData false (MkGnssAidingDataSv 0 0) (MkGnssAidingDataCommon
    0) 0 0;
  any_LeverArmConfigInfo := MkLeverArmConfigInfo 0 (MkLeverArmParams 0 0 0) (MkLeverArmParams 0 0
    0) (MkLeverArmParams 0 0 0);
  any_DeadReckoningEngineConfig := MkDeadReckoningEngineConfig 0 (MkBodyToSensorMountParams 0 0 0
    0) 0 0 0 0;
  any_GnssConfigRobustLocation := MkGnssConfigRobustLocation 0 false false
    (MkGnssConfigRobustLocationVersion 0 0);
  any_data := [0; 0; 0; 0] |}.
Lemma blank_typed : well_typed blank.
Proof.
  split; lazymatch goal with |- Forall _ _ => by apply Forall_replicate | _ => vm_compute; reflexivity end.
Qed.

Definition a_client : string := "/dev/socket/loc_client/toclient_gps.1.2".
Lemma a_client_ok : client_name a_client.
Proof. split_and!; [reflexivity|reflexivity|simpl; lia]. Qed.

(** A client that starts a session, with a mode that arrives. *)
Definition a_request : LocAPIMsg := LocAPIStartTrackingReqMsg (MkLocationOptions 1000 0 GNSS_SUPL_MODE_MSB 1).
Definition some_abi : Abi := fun _ => 24.

Lemma client_requests_arrive_witness :
  ∃ s, @serializeToProtobuf some_protobuf some_abi (new_header a_client (msgId_of a_request) true) a_request =
         Some (Some s) ∧
       @processClientMsg some_protobuf some_abi blank s = Some (Some (a_client, a_request)).
Proof.
  eexists. split; [reflexivity|].
  rewrite (@client_requests_arrive some_protobuf some_abi a_client a_request); [|exact a_client_ok|..].
  - vm_compute. reflexivity.
  - reflexivity.
  - reflexivity.
  - exact blank_typed.
  - reflexivity.
Defined.

(** A client that removes 21 geofences. *)
Definition too_many : PBLocAPIRemoveGeofencesReqMsg :=
  MkPBLocAPIRemoveGeofencesReqMsg (MkPBGeofencesReqClientIdPayload (replicate 21 1)).
Lemma daemon_overflows_witness :
  ∃ s, @processClientMsg some_protobuf some_abi blank s = None.
Proof.
  set (H := some_protobuf).
  destruct (@SerializeToString _ (@PBLocAPIRemoveGeofencesReqMsg_serializable H) too_many) as [p|] eqn:Hp;
    [|discriminate Hp].
  set (pb := @header_to_pb (new_header a_client E_LOCAPI_REMOVE_GEOFENCES_MSG_ID true) p 24).
  destruct (@SerializeToString _ (@PBLocAPIMsgHeader_serializable H) pb) as [s|] eqn:Hs; [|discriminate Hs].
  exists s. apply (@daemon_overflows H some_abi blank s); [exact blank_typed|].
  exists pb. split_and!; [by apply parse_serialized|reflexivity|].
  change (∃ q, @ParseFromString _ (@PBLocAPIRemoveGeofencesReqMsg_serializable H) p = Some q ∧
    (20 < length (PBGeofencesReqClientIdPayload_gfIds (PBLocAPIRemoveGeofencesReqMsg_gfClientIds q)))%nat).
  exists too_many. split; [by apply parse_serialized|simpl; lia].
Defined.
