(* ===== verification/HalState.v ===== *)
(** The state of the location daemon (location_hal_daemon): the members of
    LocationApiService and of the LocHalDaemonClientHandler objects, what the
    daemon calls and sends, and the operations that read and write them.

    A handler is reached by its address: the client database mClients holds the
    addresses, and so do the callbacks registered with LocationAPI, which may
    arrive after a client has left the database.  Reading a handler that was
    deleted is [Undefined].  All functions run under the daemon's mutex, so each
    is one step.  What other code answers (whether a message could be sent, the
    identifiers of sessions, whether memory was allocated) comes from lists in
    [env], which a step is given; an empty list answers as its reader says. *)

From stdpp Require Import list gmap strings.
From S2P Require Import Prelude LocationEnums PbConversions ApiStructs PbMessages PbMsgConv IpcMessages.

Local Open Scope Z_scope.

(** * Data *)

(** Which callbacks of LocationCallbacks are set; [mandatoryCbs]: capabilitiesCb,
    responseCb and collectiveResponseCb. *)
Record callbacks := Callbacks {
  mandatoryCbs : bool; trackingCb : bool; batchingCb : bool; batchingStatusCb : bool; geofenceBreachCb : bool;
  gnssLocationInfoCb : bool; engineLocationsInfoCb : bool; gnssSvCb : bool; gnssNmeaCb : bool; gnssDataCb : bool;
  gnssMeasurementsCb : bool; locationSystemInfoCb : bool
}.
Definition no_callbacks : callbacks :=
  Callbacks false false false false false false false false false false false false.

(** TrackingOptions of the daemon are LocationOptions: the members powerMode and
    tbm keep the values of the constructor. *)
Record BatchingOptions := MkBatchingOptions {
  b_minInterval : Z; b_minDistance : Z; b_mode : Z; b_batchingMode : Z
}.

(** A client.  [mLocationApi] and [mIpcSender]: the pointer is not null. *)
Record handler := Handler {
  mName : string; mClientType : Z; mCapabilityMask : Z; mTracking : bool; mBatching : bool;
  mBatchingMode : Z; mSessionId : Z; mBatchingId : Z; mLocationApi : bool; mCallbacks : callbacks;
  mOptions : LocationOptions; mBatchOptions : BatchingOptions;
  mPendingMessages : list Z; mGfPendingMessages : list Z;
  mSubscriptionMask : Z; mEngineInfoRequestMask : Z;
  mGeofenceIds : option (list Z); mIpcSender : bool; mGfIdsMap : gmap Z Z
}.

Definition set_mCapabilityMask (v : Z) (c : handler) : handler :=
  Handler (mName c) (mClientType c) v (mTracking c) (mBatching c) (mBatchingMode c) (mSessionId
    c) (mBatchingId c) (mLocationApi c) (mCallbacks c) (mOptions c) (mBatchOptions c)
    (mPendingMessages c) (mGfPendingMessages c) (mSubscriptionMask c) (mEngineInfoRequestMask c)
    (mGeofenceIds c) (mIpcSender c) (mGfIdsMap c).
Definition set_mTracking (v : bool) (c : handler) : handler :=
  Handler (mName c) (mClientType c) (mCapabilityMask c) v (mBatching c) (mBatchingMode c)
    (mSessionId c) (mBatchingId c) (mLocationApi c) (mCallbacks c) (mOptions c) (mBatchOptions
    c) (mPendingMessages c) (mGfPendingMessages c) (mSubscriptionMask c) (mEngineInfoRequestMask
    c) (mGeofenceIds c) (mIpcSender c) (mGfIdsMap c).
Definition set_mBatching (v : bool) (c : handler) : handler :=
  Handler (mName c) (mClientType c) (mCapabilityMask c) (mTracking c) v (mBatchingMode c)
    (mSessionId c) (mBatchingId c) (mLocationApi c) (mCallbacks c) (mOptions c) (mBatchOptions
    c) (mPendingMessages c) (mGfPendingMessages c) (mSubscriptionMask c) (mEngineInfoRequestMask
    c) (mGeofenceIds c) (mIpcSender c) (mGfIdsMap c).
Definition set_mBatchingMode (v : Z) (c : handler) : handler :=
  Handler (mName c) (mClientType c) (mCapabilityMask c) (mTracking c) (mBatching c) v
    (mSessionId c) (mBatchingId c) (mLocationApi c) (mCallbacks c) (mOptions c) (mBatchOptions
    c) (mPendingMessages c) (mGfPendingMessages c) (mSubscriptionMask c) (mEngineInfoRequestMask
    c) (mGeofenceIds c) (mIpcSender c) (mGfIdsMap c).
Definition set_mSessionId (v : Z) (c : handler) : handler :=
  Handler (mName c) (mClientType c) (mCapabilityMask c) (mTracking c) (mBatching c)
    (mBatchingMode c) v (mBatchingId c) (mLocationApi c) (mCallbacks c) (mOptions c)
    (mBatchOptions c) (mPendingMessages c) (mGfPendingMessages c) (mSubscriptionMask c)
    (mEngineInfoRequestMask c) (mGeofenceIds c) (mIpcSender c) (mGfIdsMap c).
Definition set_mBatchingId (v : Z) (c : handler) : handler :=
  Handler (mName c) (mClientType c) (mCapabilityMask c) (mTracking c) (mBatching c)
    (mBatchingMode c) (mSessionId c) v (mLocationApi c) (mCallbacks c) (mOptions c)
    (mBatchOptions c) (mPendingMessages c) (mGfPendingMessages c) (mSubscriptionMask c)
    (mEngineInfoRequestMask c) (mGeofenceIds c) (mIpcSender c) (mGfIdsMap c).
Definition set_mLocationApi (v : bool) (c : handler) : handler :=
  Handler (mName c) (mClientType c) (mCapabilityMask c) (mTracking c) (mBatching c)
    (mBatchingMode c) (mSessionId c) (mBatchingId c) v (mCallbacks c) (mOptions c)
    (mBatchOptions c) (mPendingMessages c) (mGfPendingMessages c) (mSubscriptionMask c)
    (mEngineInfoRequestMask c) (mGeofenceIds c) (mIpcSender c) (mGfIdsMap c).
Definition set_mCallbacks (v : callbacks) (c : handler) : handler :=
  Handler (mName c) (mClientType c) (mCapabilityMask c) (mTracking c) (mBatching c)
    (mBatchingMode c) (mSessionId c) (mBatchingId c) (mLocationApi c) v (mOptions c)
    (mBatchOptions c) (mPendingMessages c) (mGfPendingMessages c) (mSubscriptionMask c)
    (mEngineInfoRequestMask c) (mGeofenceIds c) (mIpcSender c) (mGfIdsMap c).
Definition set_mOptions (v : LocationOptions) (c : handler) : handler :=
  Handler (mName c) (mClientType c) (mCapabilityMask c) (mTracking c) (mBatching c)
    (mBatchingMode c) (mSessionId c) (mBatchingId c) (mLocationApi c) (mCallbacks c) v
    (mBatchOptions c) (mPendingMessages c) (mGfPendingMessages c) (mSubscriptionMask c)
    (mEngineInfoRequestMask c) (mGeofenceIds c) (mIpcSender c) (mGfIdsMap c).
Definition set_mBatchOptions (v : BatchingOptions) (c : handler) : handler :=
  Handler (mName c) (mClientType c) (mCapabilityMask c) (mTracking c) (mBatching c)
    (mBatchingMode c) (mSessionId c) (mBatchingId c) (mLocationApi c) (mCallbacks c) (mOptions
    c) v (mPendingMessages c) (mGfPendingMessages c) (mSubscriptionMask c)
    (mEngineInfoRequestMask c) (mGeofenceIds c) (mIpcSender c) (mGfIdsMap c).
Definition set_mPendingMessages (v : list Z) (c : handler) : handler :=
  Handler (mName c) (mClientType c) (mCapabilityMask c) (mTracking c) (mBatching c)
    (mBatchingMode c) (mSessionId c) (mBatchingId c) (mLocationApi c) (mCallbacks c) (mOptions
    c) (mBatchOptions c) v (mGfPendingMessages c) (mSubscriptionMask c) (mEngineInfoRequestMask
    c) (mGeofenceIds c) (mIpcSender c) (mGfIdsMap c).
Definition set_mGfPendingMessages (v : list Z) (c : handler) : handler :=
  Handler (mName c) (mClientType c) (mCapabilityMask c) (mTracking c) (mBatching c)
    (mBatchingMode c) (mSessionId c) (mBatchingId c) (mLocationApi c) (mCallbacks c) (mOptions
    c) (mBatchOptions c) (mPendingMessages c) v (mSubscriptionMask c) (mEngineInfoRequestMask c)
    (mGeofenceIds c) (mIpcSender c) (mGfIdsMap c).
Definition set_mSubscriptionMask (v : Z) (c : handler) : handler :=
  Handler (mName c) (mClientType c) (mCapabilityMask c) (mTracking c) (mBatching c)
    (mBatchingMode c) (mSessionId c) (mBatchingId c) (mLocationApi c) (mCallbacks c) (mOptions
    c) (mBatchOptions c) (mPendingMessages c) (mGfPendingMessages c) v (mEngineInfoRequestMask
    c) (mGeofenceIds c) (mIpcSender c) (mGfIdsMap c).
Definition set_mEngineInfoRequestMask (v : Z) (c : handler) : handler :=
  Handler (mName c) (mClientType c) (mCapabilityMask c) (mTracking c) (mBatching c)
    (mBatchingMode c) (mSessionId c) (mBatchingId c) (mLocationApi c) (mCallbacks c) (mOptions
    c) (mBatchOptions c) (mPendingMessages c) (mGfPendingMessages c) (mSubscriptionMask c) v
    (mGeofenceIds c) (mIpcSender c) (mGfIdsMap c).
Definition set_mGeofenceIds (v : option (list Z)) (c : handler) : handler :=
  Handler (mName c) (mClientType c) (mCapabilityMask c) (mTracking c) (mBatching c)
    (mBatchingMode c) (mSessionId c) (mBatchingId c) (mLocationApi c) (mCallbacks c) (mOptions
    c) (mBatchOptions c) (mPendingMessages c) (mGfPendingMessages c) (mSubscriptionMask c)
    (mEngineInfoRequestMask c) v (mIpcSender c) (mGfIdsMap c).
Definition set_mIpcSender (v : bool) (c : handler) : handler :=
  Handler (mName c) (mClientType c) (mCapabilityMask c) (mTracking c) (mBatching c)
    (mBatchingMode c) (mSessionId c) (mBatchingId c) (mLocationApi c) (mCallbacks c) (mOptions
    c) (mBatchOptions c) (mPendingMessages c) (mGfPendingMessages c) (mSubscriptionMask c)
    (mEngineInfoRequestMask c) (mGeofenceIds c) v (mGfIdsMap c).
Definition set_mGfIdsMap (v : gmap Z Z) (c : handler) : handler :=
  Handler (mName c) (mClientType c) (mCapabilityMask c) (mTracking c) (mBatching c)
    (mBatchingMode c) (mSessionId c) (mBatchingId c) (mLocationApi c) (mCallbacks c) (mOptions
    c) (mBatchOptions c) (mPendingMessages c) (mGfPendingMessages c) (mSubscriptionMask c)
    (mEngineInfoRequestMask c) (mGeofenceIds c) (mIpcSender c) v.

(** ** What the daemon calls *)

(** LocationAPI of a client. *)
Inductive api_call :=
  | CreateInstance (cbs : callbacks)
  | UpdateCallbacks (cbs : callbacks)
  | StartTracking (options : LocationOptions) (id : Z)
  | StopTracking (id : Z)
  | UpdateTrackingOptions (id : Z) (options : LocationOptions)
  | StartBatching (options : BatchingOptions) (id : Z)
  | StopBatching (id : Z)
  | UpdateBatchingOptions (id : Z) (options : BatchingOptions)
  | AddGeofences (options : list GeofenceOption) (infos : list GeofenceInfo) (ids : option (list Z))
  | RemoveGeofences (ids : list Z)
  | ModifyGeofences (ids : list Z) (options : list GeofenceOption)
  | PauseGeofences (ids : list Z)
  | ResumeGeofences (ids : list Z)
  | Destroy.

(** LocationControlAPI, and GnssInterface for the secondary bands. *)
Inductive control_call :=
  | ConfigConstrainedTimeUncertainty (enable : bool) (tunc : float) (energyBudget : Z)
  | ConfigPositionAssistedClockEstimator (enable : bool)
  | ConfigConstellations (enablement : GnssSvTypeConfig) (size : Z) (blacklist : GnssSvIdConfig)
  | ConfigConstellationSecondaryBand (config : GnssSvTypeConfig)
  | GnssDeleteAidingData (data : GnssAidingData)
  | ConfigLeverArm (config : LeverArmConfigInfo)
  | ConfigRobustLocation (enable enableForE911 : bool)
  | ConfigMinGpsWeek (week : Z)
  | ConfigMinSvElevation (elevation : Z)
  | ConfigEngineRunState (engType engState : Z)
  | SetOptInStatus (userConsent : bool)
  | ConfigDeadReckoningEngineParams (config : DeadReckoningEngineConfig)
  | GnssGetConfig (flag : Z)
  | GnssGetSecondaryBandConfig.

Inductive output :=
  | OutMsg (to : string) (m : LocAPIMsg) (sent : bool)      (* LocIpc::send *)
  | OutApi (h : loc) (c : api_call)
  | OutControl (c : control_call) (id : Z)
  | OutRemoveFile (name : string)
  | OutEnableNetworkProvider
  | OutNetwork (start : bool)                               (* startNetworkLocation, stopNetworkLocation *)
  | OutConnection (availability : bool)                     (* updateConnectionStatus *)
  | OutGetEnergy                                            (* getGnssEnergyConsumed *)
  | OutPower (st : Z)                                       (* updateSystemPowerState *)
  | OutControlEnd.                                          (* disable and destroy of LocationControlAPI *)

(** ** The daemon *)

Record ConfigReqClientData := ConfigReq { clientName : string; configMsgId : Z }.

(** Answers of other code, in the order in which they are asked for: whether a
    message was sent, the identifier of a session or request, the array of
    geofence identifiers, whether malloc succeeds, what the library that is
    looked for gives ([None]: it is not there). *)
Record env := Env {
  sends : list bool; ids : list Z; arrays : list (option (list Z)); allocs : list bool;
  libs : list (option bool)
}.

(** [heap]: the handlers; [next]: an address that is free.  mTerrestrialFixReqs
    maps a client to the timeout of its timer.  [gnssInterface] are the static
    variables of getGnssInterface: [None] when loading failed.
    [clientsToCheck]: the clients that performMaintenance has still to ping. *)
Record daemon := Daemon {
  heap : gmap loc handler; next : loc; mClients : gmap string loc;
  mConfigReqs : gmap Z ConfigReqClientData; mTerrestrialFixReqs : gmap string Z;
  mGtpWwanSsLocationApi : bool; mOptInTerrestrialService : Z; mPowerState : Z; mPositionMode : Z;
  gnssInterface : option bool; clientsToCheck : list string; answers : env; outputs : list output
}.

Definition put_heap (v : gmap loc handler) (d : daemon) : daemon :=
  Daemon v (next d) (mClients d) (mConfigReqs d) (mTerrestrialFixReqs d) (mGtpWwanSsLocationApi
    d) (mOptInTerrestrialService d) (mPowerState d) (mPositionMode d) (gnssInterface d)
    (clientsToCheck d) (answers d) (outputs d).
Definition put_next (v : loc) (d : daemon) : daemon :=
  Daemon (heap d) v (mClients d) (mConfigReqs d) (mTerrestrialFixReqs d) (mGtpWwanSsLocationApi
    d) (mOptInTerrestrialService d) (mPowerState d) (mPositionMode d) (gnssInterface d)
    (clientsToCheck d) (answers d) (outputs d).
Definition put_mClients (v : gmap string loc) (d : daemon) : daemon :=
  Daemon (heap d) (next d) v (mConfigReqs d) (mTerrestrialFixReqs d) (mGtpWwanSsLocationApi d)
    (mOptInTerrestrialService d) (mPowerState d) (mPositionMode d) (gnssInterface d)
    (clientsToCheck d) (answers d) (outputs d).
Definition put_mConfigReqs (v : gmap Z ConfigReqClientData) (d : daemon) : daemon :=
  Daemon (heap d) (next d) (mClients d) v (mTerrestrialFixReqs d) (mGtpWwanSsLocationApi d)
    (mOptInTerrestrialService d) (mPowerState d) (mPositionMode d) (gnssInterface d)
    (clientsToCheck d) (answers d) (outputs d).
Definition put_mTerrestrialFixReqs (v : gmap string Z) (d : daemon) : daemon :=
  Daemon (heap d) (next d) (mClients d) (mConfigReqs d) v (mGtpWwanSsLocationApi d)
    (mOptInTerrestrialService d) (mPowerState d) (mPositionMode d) (gnssInterface d)
    (clientsToCheck d) (answers d) (outputs d).
Definition put_mGtpWwanSsLocationApi (v : bool) (d : daemon) : daemon :=
  Daemon (heap d) (next d) (mClients d) (mConfigReqs d) (mTerrestrialFixReqs d) v
    (mOptInTerrestrialService d) (mPowerState d) (mPositionMode d) (gnssInterface d)
    (clientsToCheck d) (answers d) (outputs d).
Definition put_mOptInTerrestrialService (v : Z) (d : daemon) : daemon :=
  Daemon (heap d) (next d) (mClients d) (mConfigReqs d) (mTerrestrialFixReqs d)
    (mGtpWwanSsLocationApi d) v (mPowerState d) (mPositionMode d) (gnssInterface d)
    (clientsToCheck d) (answers d) (outputs d).
Definition put_mPowerState (v : Z) (d : daemon) : daemon :=
  Daemon (heap d) (next d) (mClients d) (mConfigReqs d) (mTerrestrialFixReqs d)
    (mGtpWwanSsLocationApi d) (mOptInTerrestrialService d) v (mPositionMode d) (gnssInterface d)
    (clientsToCheck d) (answers d) (outputs d).
Definition put_mPositionMode (v : Z) (d : daemon) : daemon :=
  Daemon (heap d) (next d) (mClients d) (mConfigReqs d) (mTerrestrialFixReqs d)
    (mGtpWwanSsLocationApi d) (mOptInTerrestrialService d) (mPowerState d) v (gnssInterface d)
    (clientsToCheck d) (answers d) (outputs d).
Definition put_gnssInterface (v : option bool) (d : daemon) : daemon :=
  Daemon (heap d) (next d) (mClients d) (mConfigReqs d) (mTerrestrialFixReqs d)
    (mGtpWwanSsLocationApi d) (mOptInTerrestrialService d) (mPowerState d) (mPositionMode d) v
    (clientsToCheck d) (answers d) (outputs d).
Definition put_clientsToCheck (v : list string) (d : daemon) : daemon :=
  Daemon (heap d) (next d) (mClients d) (mConfigReqs d) (mTerrestrialFixReqs d)
    (mGtpWwanSsLocationApi d) (mOptInTerrestrialService d) (mPowerState d) (mPositionMode d)
    (gnssInterface d) v (answers d) (outputs d).
Definition put_answers (v : env) (d : daemon) : daemon :=
  Daemon (heap d) (next d) (mClients d) (mConfigReqs d) (mTerrestrialFixReqs d)
    (mGtpWwanSsLocationApi d) (mOptInTerrestrialService d) (mPowerState d) (mPositionMode d)
    (gnssInterface d) (clientsToCheck d) v (outputs d).
Definition put_outputs (v : list output) (d : daemon) : daemon :=
  Daemon (heap d) (next d) (mClients d) (mConfigReqs d) (mTerrestrialFixReqs d)
    (mGtpWwanSsLocationApi d) (mOptInTerrestrialService d) (mPowerState d) (mPositionMode d)
    (gnssInterface d) (clientsToCheck d) (answers d) v.

(** * Operations on the state *)

Definition Dm := M daemon.

Definition out (o : output) : Dm unit := modify (λ d, put_outputs (outputs d ++ [o]) d).

(** The object at an address. *)
Definition the (h : loc) : Dm handler :=
  λ d, match heap d !! h with Some c => Done (c, d) | None => Undefined end.
Definition upd (h : loc) (f : handler -> handler) : Dm unit :=
  λ d, match heap d !! h with Some c => Done (tt, put_heap (<[h := f c]> (heap d)) d) | None => Undefined end.
Definition new (c : handler) : Dm loc :=
  λ d, Done (next d, put_next (Pos.succ (next d)) (put_heap (<[next d := c]> (heap d)) d)).
Definition free (h : loc) : Dm unit :=
  λ d, match heap d !! h with Some _ => Done (tt, put_heap (delete h (heap d)) d) | None => Undefined end.

(** Answers.  Without any, messages are sent, sessions fail to start, arrays and
    libraries are missing and memory is allocated. *)
Definition answer_send : Dm bool := λ d,
  let e := answers d in
  Done (hd true (sends e), put_answers (Env (tail (sends e)) (ids e) (arrays e) (allocs e) (libs e)) d).
Definition answer_id : Dm Z := λ d,
  let e := answers d in
  Done (hd 0 (ids e), put_answers (Env (sends e) (tail (ids e)) (arrays e) (allocs e) (libs e)) d).
Definition answer_array : Dm (option (list Z)) := λ d,
  let e := answers d in
  Done (hd None (arrays e), put_answers (Env (sends e) (ids e) (tail (arrays e)) (allocs e) (libs e)) d).
Definition answer_alloc : Dm bool := λ d,
  let e := answers d in
  Done (hd true (allocs e), put_answers (Env (sends e) (ids e) (arrays e) (tail (allocs e)) (libs e)) d).
Definition answer_lib : Dm (option bool) := λ d,
  let e := answers d in
  Done (hd None (libs e), put_answers (Env (sends e) (ids e) (arrays e) (allocs e) (tail (libs e))) d).

(** The first [n] elements of an array. *)
Definition elements {A} (n : nat) (l : list A) : Dm (list A) :=
  if decide (n ≤ length l)%nat then ret (take n l) else undefined.

(** A loop over a list. *)
Fixpoint for_each {A} (f : A -> Dm unit) (l : list A) : Dm unit :=
  match l with
  | [] => ret tt
  | x :: l => f x ;;; for_each f l
  end.

(** std::unordered_map is traversed in an order that is not specified. *)
Class Unordered := {
  clients_in_order : gmap string loc -> list (string * loc);
  ids_in_order : gmap Z Z -> list (Z * Z);
  fixes_in_order : gmap string Z -> list (string * Z);
  clients_in_order_perm : ∀ m, clients_in_order m ≡ₚ map_to_list m;
  ids_in_order_perm : ∀ m, ids_in_order m ≡ₚ map_to_list m;
  fixes_in_order_perm : ∀ m, fixes_in_order m ≡ₚ map_to_list m
}.

(** What serializeToProtobuf gives for a message of the daemon: whether there is
    a string to send, or [None] where it is undefined. *)
Class Wire := wire : LocAPIMsg -> option bool.
