(* ===== verification/HalClient.v ===== *)
(** location_hal_daemon/LocHalDaemonClientHandler.cpp: a client of the daemon.
    Its requests to LocationAPI, its subscriptions, the identifiers of its
    geofences, and the callbacks from LocationAPI, which are sent on.  A client
    to which a message cannot be sent is deleted by the service
    (deleteClientbyName, which is here for that reason). *)

From stdpp Require Import list gmap strings.
From S2P Require Import Prelude LocationEnums PbConversions ApiStructs PbMessages PbMsgConv IpcMessages HalState.

Local Open Scope Z_scope.

(** * Constants and pure functions *)

Definition UINT32_MAX : Z := 2 ^ 32 - 1.
Definition LOCATION_SESSON_ALL_INFO_MASK : Z :=
  Z.lor E_LOC_CB_DISTANCE_BASED_TRACKING_BIT (Z.lor E_LOC_CB_GNSS_LOCATION_INFO_BIT
  (Z.lor E_LOC_CB_GNSS_SV_BIT (Z.lor E_LOC_CB_GNSS_NMEA_BIT (Z.lor E_LOC_CB_GNSS_DATA_BIT
  (Z.lor E_LOC_CB_GNSS_MEAS_BIT (Z.lor E_LOC_CB_ENGINE_LOCATIONS_INFO_BIT
  E_LOC_CB_SIMPLE_LOCATION_INFO_BIT)))))).
Definition E_ENGINE_INFO_CB_GNSS_ENERGY_CONSUMED_BIT : Z := 1.

Definition has (mask bits : Z) : bool := negb (Z.land mask bits =? 0).

(** The interval that is used, in 32-bit arithmetic. *)
Definition getSupportedTbf (tbfMsec : Z) : Z :=
  if tbfMsec <? 200 then 100
  else if tbfMsec <? 500 then 200
  else if tbfMsec <? 1000 then 500
  else if UINT32_MAX - 999 <? tbfMsec then UINT32_MAX / 1000 * 1000
  else wrap_u 32 (wrap_u 32 (tbfMsec + 999) / 1000 * 1000).

Definition with_minInterval (i : Z) (o : LocationOptions) : LocationOptions :=
  MkLocationOptions i (LocationOptions_minDistance o) (LocationOptions_mode o) (LocationOptions_locReqEngTypeMask o).
Definition with_mode (m : Z) (o : LocationOptions) : LocationOptions :=
  MkLocationOptions (LocationOptions_minInterval o) (LocationOptions_minDistance o) m
    (LocationOptions_locReqEngTypeMask o).

(** The callbacks that updateSubscription sets: trackingCb is never cleared. *)
Definition subscribed_callbacks (mask : Z) (old : callbacks) : callbacks := {|
  mandatoryCbs := true;
  trackingCb := has mask E_LOC_CB_DISTANCE_BASED_TRACKING_BIT || trackingCb old;
  batchingCb := has mask E_LOC_CB_BATCHING_BIT;
  batchingStatusCb := has mask E_LOC_CB_BATCHING_STATUS_BIT;
  geofenceBreachCb := has mask E_LOC_CB_GEOFENCE_BREACH_BIT;
  gnssLocationInfoCb := has mask (Z.lor E_LOC_CB_GNSS_LOCATION_INFO_BIT E_LOC_CB_SIMPLE_LOCATION_INFO_BIT);
  engineLocationsInfoCb := has mask E_LOC_CB_ENGINE_LOCATIONS_INFO_BIT;
  gnssSvCb := has mask E_LOC_CB_GNSS_SV_BIT;
  gnssNmeaCb := has mask E_LOC_CB_GNSS_NMEA_BIT;
  gnssDataCb := has mask E_LOC_CB_GNSS_DATA_BIT;
  gnssMeasurementsCb := has mask E_LOC_CB_GNSS_MEAS_BIT;
  locationSystemInfoCb := has mask E_LOC_CB_SYSTEM_INFO_BIT |}.

(** Which reports of the engines a client asked for. *)
Definition engine_requested (mask : Z) (i : GnssLocationInfoNotification) : bool :=
  let t := GnssLocationInfoNotification_locOutputEngType i in
  (t =? LOC_OUTPUT_ENGINE_FUSED) && has mask LOC_REQ_ENGINE_FUSED_BIT
  || (t =? LOC_OUTPUT_ENGINE_SPE) && has mask LOC_REQ_ENGINE_SPE_BIT
  || (t =? LOC_OUTPUT_ENGINE_PPE) && has mask LOC_REQ_ENGINE_PPE_BIT
  || (t =? LOC_OUTPUT_ENGINE_VPE) && has mask LOC_REQ_ENGINE_VPE_BIT.

(** GnssConfig, as far as the daemon reads it. *)
Record GnssConfig := MkGnssConfig {
  GnssConfig_flags : Z; GnssConfig_robustLocationConfig : GnssConfigRobustLocation;
  GnssConfig_minGpsWeek : Z; GnssConfig_minSvElevation : Z; GnssConfig_secondaryBandConfig : GnssSvTypeConfig
}.
Definition GNSS_CONFIG_FLAGS_ROBUST_LOCATION_BIT : Z := Z.shiftl 1 12.
Definition GNSS_CONFIG_FLAGS_MIN_GPS_WEEK_BIT : Z := Z.shiftl 1 13.
Definition GNSS_CONFIG_FLAGS_MIN_SV_ELEVATION_BIT : Z := Z.shiftl 1 14.
Definition GNSS_CONFIG_FLAGS_CONSTELLATION_SECONDARY_BAND_BIT : Z := Z.shiftl 1 15.

Definition config_report (msgId : Z) (c : GnssConfig) : option LocAPIMsg :=
  if (msgId =? E_INTAPI_GET_ROBUST_LOCATION_CONFIG_REQ_MSG_ID)
     && has (GnssConfig_flags c) GNSS_CONFIG_FLAGS_ROBUST_LOCATION_BIT
  then Some (LocConfigGetRobustLocationConfigRespMsg (GnssConfig_robustLocationConfig c))
  else if (msgId =? E_INTAPI_GET_MIN_GPS_WEEK_REQ_MSG_ID)
     && has (GnssConfig_flags c) GNSS_CONFIG_FLAGS_MIN_GPS_WEEK_BIT
  then Some (LocConfigGetMinGpsWeekRespMsg (GnssConfig_minGpsWeek c))
  else if (msgId =? E_INTAPI_GET_MIN_SV_ELEVATION_REQ_MSG_ID)
     && has (GnssConfig_flags c) GNSS_CONFIG_FLAGS_MIN_SV_ELEVATION_BIT
  then Some (LocConfigGetMinSvElevationRespMsg (GnssConfig_minSvElevation c))
  else if (msgId =? E_INTAPI_GET_CONSTELLATION_SECONDARY_BAND_CONFIG_REQ_MSG_ID)
     && has (GnssConfig_flags c) GNSS_CONFIG_FLAGS_CONSTELLATION_SECONDARY_BAND_BIT
  then Some (LocConfigGetConstellationSecondaryBandConfigRespMsg (GnssConfig_secondaryBandConfig c))
  else None.

Section client.
Context `{!Unordered, !Wire}.

(** * Deletion *)

Definition cleanup (h : loc) : Dm unit :=
  upd h (set_mIpcSender false) ;;;
  let! c := the h in
  out (OutRemoveFile (mName c)) ;;;
  if mLocationApi c then
    out (OutApi h Destroy) ;;;
    upd h (set_mLocationApi false)
  else free h.

Definition getClient (name : string) : Dm ptr := gets (λ d, mClients d !! name).

Definition deleteClientbyName (name : string) : Dm unit :=
  let! pClient := getClient name in
  match pClient with
  | None => ret tt
  | Some h =>
      modify (λ d, put_mClients (delete name (mClients d)) d) ;;;
      modify (λ d, put_mTerrestrialFixReqs (delete name (mTerrestrialFixReqs d)) d) ;;;
      cleanup h
  end.

(** * Sending *)

(** Through the pointer [mIpcSender], which must not be null. *)
Definition sendMessage (h : loc) (m : LocAPIMsg) : Dm bool :=
  let! c := the h in
  if mIpcSender c then
    let! sent := answer_send in
    out (OutMsg (mName c) m sent) ;;; ret sent
  else undefined.

(** Serialize, send, and purge the client if that failed. *)
Definition send_or_purge (h : loc) (m : LocAPIMsg) : Dm unit :=
  match wire m with
  | None => undefined
  | Some false => ret tt
  | Some true =>
      let! rc := sendMessage h m in
      if rc then ret tt
      else let! c := the h in deleteClientbyName (mName c)
  end.

(** * Subscriptions and sessions *)

Definition updateSubscription (h : loc) (mask : Z) : Dm unit :=
  upd h (λ c, set_mCallbacks (subscribed_callbacks mask (mCallbacks c)) (set_mSubscriptionMask mask c)) ;;;
  let! c := the h in
  if mLocationApi c then out (OutApi h (UpdateCallbacks (mCallbacks c))) else ret tt.

Definition unsubscribeLocationSessionCb (h : loc) : Dm unit :=
  let! c := the h in
  updateSubscription h (Z.ldiff (mSubscriptionMask c) LOCATION_SESSON_ALL_INFO_MASK).

(** LocHalDaemonClientHandler::LocHalDaemonClientHandler.  LocationAPI makes no
    instance if mandatory callbacks are missing. *)
Definition new_client (name : string) (type : Z) : Dm loc :=
  let! h := new (Handler name type 0 false false BATCHING_MODE_NO_AUTO_REPORT 0 0 false no_callbacks
                   (MkLocationOptions 0 0 GNSS_SUPL_MODE_STANDALONE 0)
                   (MkBatchingOptions 0 0 GNSS_SUPL_MODE_STANDALONE BATCHING_MODE_ROUTINE)
                   [] [] 0 0 None true ∅) in
  if type =? LOCATION_CLIENT_API then
    updateSubscription h E_LOC_CB_GNSS_LOCATION_INFO_BIT ;;;
    upd h (set_mSubscriptionMask 0) ;;;
    let! c := the h in
    out (OutApi h (CreateInstance (mCallbacks c))) ;;;
    upd h (set_mLocationApi (mandatoryCbs (mCallbacks c))) ;;;
    ret h
  else ret h.

(** startTracking(), with the options of before. *)
Definition restartTracking (h : loc) : Dm Z :=
  let! c := the h in
  (if (mSessionId c =? 0) && mLocationApi c then
     let! id := answer_id in
     out (OutApi h (StartTracking (mOptions c) id)) ;;;
     upd h (set_mSessionId id)
   else ret tt) ;;;
  let! c := the h in ret (mSessionId c).

Definition startTracking_with (h : loc) (locOptions : LocationOptions) : Dm Z :=
  let! c := the h in
  (if (mSessionId c =? 0) && mLocationApi c then
     let mOptions := with_minInterval (getSupportedTbf (LocationOptions_minInterval locOptions)) locOptions in
     upd h (set_mOptions mOptions) ;;;
     let! id := answer_id in
     out (OutApi h (StartTracking mOptions id)) ;;;
     upd h (set_mSessionId id)
   else ret tt) ;;;
  let! c := the h in ret (mSessionId c).

Definition stopTracking_of (h : loc) : Dm unit :=
  let! c := the h in
  if negb (mSessionId c =? 0) && mLocationApi c then
    out (OutApi h (StopTracking (mSessionId c))) ;;;
    upd h (set_mSessionId 0)
  else ret tt.

Definition updateTrackingOptions_of (h : loc) (locOptions : LocationOptions) : Dm unit :=
  let! c := the h in
  if negb (mSessionId c =? 0) && mLocationApi c then
    out (OutApi h (UpdateTrackingOptions (mSessionId c)
      (with_minInterval (getSupportedTbf (LocationOptions_minInterval locOptions)) locOptions))) ;;;
    upd h (set_mOptions locOptions)
  else ret tt.

(** ** Batching *)

Definition batch_options (minInterval minDistance batchMode : Z) : BatchingOptions :=
  MkBatchingOptions minInterval minDistance GNSS_SUPL_MODE_STANDALONE batchMode.

Definition startBatching_of (h : loc) (minInterval minDistance batchMode : Z) : Dm Z :=
  let! c := the h in
  (if (mBatchingId c =? 0) && mLocationApi c then
     let options := batch_options minInterval minDistance batchMode in
     upd h (set_mBatchOptions options) ;;;
     let! id := answer_id in
     out (OutApi h (StartBatching options id)) ;;;
     upd h (set_mBatchingId id)
   else ret tt) ;;;
  let! c := the h in ret (mBatchingId c).

Definition stopBatching_of (h : loc) : Dm unit :=
  let! c := the h in
  if negb (mBatchingId c =? 0) && mLocationApi c then
    out (OutApi h (StopBatching (mBatchingId c))) ;;;
    upd h (set_mBatchingId 0)
  else ret tt.

Definition updateBatchingOptions_of (h : loc) (minInterval minDistance batchMode : Z) : Dm unit :=
  let! c := the h in
  if negb (mBatchingId c =? 0) && mLocationApi c then
    let options := batch_options minInterval minDistance batchMode in
    upd h (set_mBatchOptions options) ;;;
    out (OutApi h (UpdateBatchingOptions (mBatchingId c) options))
  else ret tt.

(** * Geofences *)

(** [map[key] = value] for each pair. *)
Definition setGeofenceIds (h : loc) (clientIds sessionIds : list Z) : Dm unit :=
  upd h (λ c, set_mGfIdsMap (foldl (λ m '(k, v), <[k := v]> m) (mGfIdsMap c) (zip clientIds sessionIds)) c).
Definition eraseGeofenceIds (h : loc) (clientIds : list Z) : Dm unit :=
  upd h (λ c, set_mGfIdsMap (foldl (λ m k, delete k m) (mGfIdsMap c) clientIds) c).

(** [map[key]] puts 0 where there is no entry. *)
Definition with_entry (m : gmap Z Z) (k : Z) : gmap Z Z := <[k := default 0 (m !! k)]> m.
Definition getSessionIds (h : loc) (clientIds : list Z) : Dm (option (list Z)) :=
  match clientIds with
  | [] => ret None
  | _ =>
      let! allocated := answer_alloc in
      if allocated then
        upd h (λ c, set_mGfIdsMap (foldl with_entry (mGfIdsMap c) clientIds) c) ;;;
        let! c := the h in
        ret (Some ((λ k, default 0 (mGfIdsMap c !! k)) <$> clientIds))
      else ret None
  end.

(** The last entry with the session, in the order of the map; 0 if there is none. *)
Definition client_id_of (m : gmap Z Z) (sessionId : Z) : Z :=
  foldl (λ acc '(k, v), if v =? sessionId then k else acc) 0 (ids_in_order m).
Definition getClientIds (h : loc) (sessionIds : list Z) : Dm (option (list Z)) :=
  match sessionIds with
  | [] => ret None
  | _ =>
      let! allocated := answer_alloc in
      if allocated then
        let! c := the h in ret (Some (client_id_of (mGfIdsMap c) <$> sessionIds))
      else ret None
  end.

Definition addGeofences_of (h : loc) (options : list GeofenceOption) (info : list GeofenceInfo)
    : Dm (option (list Z)) :=
  let! c := the h in
  (if (0 <? length options)%nat && mLocationApi c then
     let! ids := answer_array in
     out (OutApi h (AddGeofences options info ids)) ;;;
     upd h (set_mGeofenceIds ids)
   else ret tt) ;;;
  let! c := the h in ret (mGeofenceIds c).

(** removeGeofences, modifyGeofences, pauseGeofences and resumeGeofences, by the
    call that they make. *)
Definition call_geofences (h : loc) (ids : list Z) (call : api_call) : Dm unit :=
  let! c := the h in
  if (0 <? length ids)%nat && mLocationApi c then out (OutApi h call) else ret tt.
Definition removeGeofences_of (h : loc) (ids : list Z) : Dm unit := call_geofences h ids (RemoveGeofences ids).
Definition modifyGeofences_of (h : loc) (ids : list Z) (options : list GeofenceOption) : Dm unit :=
  call_geofences h ids (ModifyGeofences ids options).
Definition pauseGeofences_of (h : loc) (ids : list Z) : Dm unit := call_geofences h ids (PauseGeofences ids).
Definition resumeGeofences_of (h : loc) (ids : list Z) : Dm unit := call_geofences h ids (ResumeGeofences ids).

(** * Callbacks of LocationAPI *)

Definition push_pending (h : loc) (id : Z) : Dm unit :=
  upd h (λ c, set_mPendingMessages (mPendingMessages c ++ [id]) c).
Definition push_gf_pending (h : loc) (id : Z) : Dm unit :=
  upd h (λ c, set_mGfPendingMessages (mGfPendingMessages c ++ [id]) c).

(** The front of the queue, or E_LOCAPI_UNDEFINED_MSG_ID. *)
Definition front (q : list Z) : Z := default (E_LOCAPI_UNDEFINED_MSG_ID : Z) (head q).

(** The cases of the switches of onResponseCb and onCollectiveResponseCallback. *)
Definition session_requests : list Z :=
  [ E_LOCAPI_START_TRACKING_MSG_ID : Z; E_LOCAPI_STOP_TRACKING_MSG_ID : Z;
    E_LOCAPI_UPDATE_TRACKING_OPTIONS_MSG_ID : Z; E_LOCAPI_START_BATCHING_MSG_ID : Z;
    E_LOCAPI_STOP_BATCHING_MSG_ID : Z; E_LOCAPI_UPDATE_BATCHING_OPTIONS_MSG_ID : Z ].
Definition geofence_requests : list Z :=
  [ E_LOCAPI_ADD_GEOFENCES_MSG_ID : Z; E_LOCAPI_REMOVE_GEOFENCES_MSG_ID : Z;
    E_LOCAPI_MODIFY_GEOFENCES_MSG_ID : Z; E_LOCAPI_PAUSE_GEOFENCES_MSG_ID : Z;
    E_LOCAPI_RESUME_GEOFENCES_MSG_ID : Z ].

Definition onResponseCb (h : loc) (err id : Z) : Dm unit :=
  let! c := the h in
  if mIpcSender c then
    let pendingMsgId := front (mPendingMessages c) in
    upd h (set_mPendingMessages (tail (mPendingMessages c))) ;;;
    if bool_decide (pendingMsgId ∈ session_requests)
    then send_or_purge h (LocAPIGenericRespMsg pendingMsgId err)
    else ret tt
  else ret tt.

(** serializeToProtobuf is virtual.  The message is made from zeroed memory, not
    by a constructor, so there is no function to call. *)
Definition serialize_zeroed : Dm unit := undefined.

Definition onCollectiveResponseCallback (h : loc) (errs sessionIds : list Z) : Dm unit :=
  let! c := the h in
  if negb (mIpcSender c) then ret tt else
  let pendingMsgId := front (mGfPendingMessages c) in
  upd h (set_mGfPendingMessages (tail (mGfPendingMessages c))) ;;;
  if (length sessionIds =? 0)%nat then ret tt else
  let! allocated := answer_alloc in
  if negb allocated then ret tt else
  let! clientIds := getClientIds h sessionIds in
  match clientIds with
  | None => ret tt
  | Some clientIds =>
      let! errs := elements (length sessionIds) errs in
      eraseGeofenceIds h ((filter (λ p, p.2 ≠ (LOCATION_ERROR_SUCCESS : Z)) (zip clientIds errs)).*1) ;;;
      if bool_decide (pendingMsgId ∈ geofence_requests) then
        (if pendingMsgId =? E_LOCAPI_REMOVE_GEOFENCES_MSG_ID then eraseGeofenceIds h clientIds else ret tt) ;;;
        serialize_zeroed
      else ret tt
  end.

(** No check of [mIpcSender] and no purge. *)
Definition sendTerrestrialFix (h : loc) (error : Z) (location : Location) : Dm unit :=
  match wire (LocAPIGetSingleTerrestrialPosRespMsg error location) with
  | None => undefined
  | Some false => ret tt
  | Some true => sendMessage h (LocAPIGetSingleTerrestrialPosRespMsg error location) ;;; ret tt
  end.

(** Sends if the client can be reached and [subscribed]. *)
Definition report_if (h : loc) (subscribed : handler -> bool) (m : LocAPIMsg) : Dm unit :=
  let! c := the h in
  if mIpcSender c && subscribed c then send_or_purge h m else ret tt.
Definition subscribed (bits : Z) (c : handler) : bool := has (mSubscriptionMask c) bits.

Definition onControlResponseCb_of (h : loc) (err msgId : Z) : Dm unit :=
  report_if h (λ _, true) (LocAPIGenericRespMsg msgId err).

Definition onGnssConfigCb (h : loc) (configMsgId : Z) (gnssConfig : GnssConfig) : Dm unit :=
  let! c := the h in
  match config_report configMsgId gnssConfig with
  | None => ret tt
  | Some m =>
      match wire m with
      | None => undefined
      | Some false => ret tt
      | Some true => if mIpcSender c then send_or_purge h m else ret tt
      end
  end.

Definition onCapabilitiesCallback (h : loc) (mask : Z) : Dm unit :=
  let! c := the h in
  if mIpcSender c && negb (mask =? mCapabilityMask c) then
    upd h (set_mCapabilityMask mask) ;;;
    send_or_purge h (LocAPICapabilitiesIndMsg mask)
  else ret tt.

Definition onTrackingCb (h : loc) (location : Location) : Dm unit :=
  report_if h (subscribed E_LOC_CB_DISTANCE_BASED_TRACKING_BIT) (LocAPILocationIndMsg location).

Definition onBatchingCb (h : loc) (locations : list Location) : Dm unit :=
  let! c := the h in
  if mIpcSender c && subscribed E_LOC_CB_BATCHING_BIT c then
    if (length locations =? 0)%nat then ret tt else
    let! allocated := answer_alloc in
    if allocated then serialize_zeroed else ret tt
  else ret tt.

Definition onBatchingStatusCb (h : loc) (batchingStatus : Z) : Dm unit :=
  report_if h (λ c, subscribed E_LOC_CB_BATCHING_STATUS_BIT c && (mBatchingMode c =? BATCHING_MODE_TRIP)
                    && (batchingStatus =? BATCHING_STATUS_TRIP_COMPLETED))
    (LocAPIBatchingIndMsg (MkLocAPIBatchNotification 0 BATCHING_STATUS_TRIP_COMPLETED [])).

Definition onGeofenceBreachCb (h : loc) (sessionIds : list Z) : Dm unit :=
  let! c := the h in
  if mIpcSender c && subscribed E_LOC_CB_GEOFENCE_BREACH_BIT c then
    let! clientIds := getClientIds h sessionIds in
    match clientIds with
    | None => ret tt
    | Some _ => let! allocated := answer_alloc in if allocated then serialize_zeroed else ret tt
    end
  else ret tt.

Definition onGnssLocationInfoCb (h : loc) (notification : GnssLocationInfoNotification) : Dm unit :=
  let! c := the h in
  if mIpcSender c && subscribed (Z.lor E_LOC_CB_GNSS_LOCATION_INFO_BIT E_LOC_CB_SIMPLE_LOCATION_INFO_BIT) c then
    send_or_purge h
      (if subscribed E_LOC_CB_GNSS_LOCATION_INFO_BIT c then LocAPILocationInfoIndMsg notification
       else LocAPILocationIndMsg (GnssLocationInfoNotification_location notification))
  else ret tt.

(** The reports are collected in an array of LOC_OUTPUT_ENGINE_COUNT elements. *)
Definition onEngLocationsInfoCb (h : loc) (notifications : list GnssLocationInfoNotification) : Dm unit :=
  let! c := the h in
  if mIpcSender c && subscribed E_LOC_CB_ENGINE_LOCATIONS_INFO_BIT c then
    let wanted := filter (λ i, engine_requested (LocationOptions_locReqEngTypeMask (mOptions c)) i = true)
      notifications in
    if LocationEnums.LOC_OUTPUT_ENGINE_COUNT <? Z.of_nat (length wanted) then undefined else
    if (0 <? length wanted)%nat
    then send_or_purge h (LocAPIEngineLocationsInfoIndMsg (Z.of_nat (length wanted)) wanted)
    else ret tt
  else ret tt.

Definition onGnssSvCb (h : loc) (notification : GnssSvNotification) : Dm unit :=
  report_if h (subscribed E_LOC_CB_GNSS_SV_BIT) (LocAPISatelliteVehicleIndMsg notification).

Definition onGnssNmeaCb (h : loc) (timestamp : Z) (nmea : string) : Dm unit :=
  report_if h (subscribed E_LOC_CB_GNSS_NMEA_BIT) (LocAPINmeaIndMsg (MkLocAPINmeaSerializedPayload timestamp nmea)).

Definition onGnssDataCb (h : loc) (notification : GnssDataNotification) : Dm unit :=
  report_if h (subscribed E_LOC_CB_GNSS_DATA_BIT) (LocAPIDataIndMsg notification).

Definition onGnssMeasurementsCb (h : loc) (notification : GnssMeasurementsNotification) : Dm unit :=
  report_if h (subscribed E_LOC_CB_GNSS_MEAS_BIT) (LocAPIMeasIndMsg notification).

Definition onLocationSystemInfoCb (h : loc) (notification : LocationSystemInfo) : Dm unit :=
  report_if h (subscribed E_LOC_CB_SYSTEM_INFO_BIT) (LocAPILocationSystemInfoIndMsg notification).

Definition onLocationApiDestroyCompleteCb (h : loc) : Dm unit := free h.

(** The test message: its data is what was in memory. *)
Definition pingTest_of (h : loc) (data : list Z) : Dm unit :=
  report_if h (λ _, true) (LocAPIPingTestIndMsg data).

(** * Engine information *)

(** The bit is cleared before the client is purged. *)
Definition onGnssEnergyConsumedInfoAvailable (h : loc) (m : LocAPIMsg) : Dm unit :=
  let! c := the h in
  if mIpcSender c && has (mEngineInfoRequestMask c) E_ENGINE_INFO_CB_GNSS_ENERGY_CONSUMED_BIT then
    match wire m with
    | None => undefined
    | Some false => ret tt
    | Some true =>
        let! rc := sendMessage h m in
        upd h (λ c, set_mEngineInfoRequestMask
          (Z.ldiff (mEngineInfoRequestMask c) E_ENGINE_INFO_CB_GNSS_ENERGY_CONSUMED_BIT) c) ;;;
        if rc then ret tt else let! c := the h in deleteClientbyName (mName c)
    end
  else ret tt.

Definition hasPendingEngineInfoRequest (c : handler) : bool :=
  has (mEngineInfoRequestMask c) E_ENGINE_INFO_CB_GNSS_ENERGY_CONSUMED_BIT.
Definition addEngineInfoRequst (h : loc) : Dm unit :=
  upd h (λ c, set_mEngineInfoRequestMask
    (Z.lor (mEngineInfoRequestMask c) E_ENGINE_INFO_CB_GNSS_ENERGY_CONSUMED_BIT) c).
End client.
