(* ===== verification/HalService.v ===== *)
(** location_hal_daemon/LocationApiService.cpp: the service that keeps the
    clients, serves their requests, remembers which configuration request waits
    for which answer, suspends and resumes the tracking sessions, collects the
    requests for terrestrial fixes, and pings the clients from time to time.

    [serve] is what processClientMsg does with a message (IpcDispatch.v says
    which messages arrive); [step] executes one event.  The daemon is built with
    POWERMANAGER_ENABLED. *)

From stdpp Require Import list gmap strings.
From S2P Require Import Prelude Runs LocationEnums PbConversions ApiStructs PbMessages PbMsgConv IpcMessages.
From S2P Require Import IpcArrive IpcDispatch HalState HalClient.

Local Open Scope Z_scope.

Definition MAX_GEOFENCE_COUNT : Z := 20.
Definition AUTO_START_CLIENT_NAME : string := "default".
Definition POWER_STATE_UNKNOWN : Z := 0.
Definition POWER_STATE_SUSPEND : Z := 1.
Definition POWER_STATE_RESUME : Z := 2.
Definition POWER_STATE_SHUTDOWN : Z := 3.

Section service.
Context `{!Unordered, !Wire}.

(** The handler of a client, or nothing. *)
Definition with_client (name : string) (f : loc -> Dm unit) : Dm unit :=
  let! pClient := getClient name in
  match pClient with Some h => f h | None => ret tt end.

(** The static variables remember an interface, and that loading failed; a
    library that gives none is asked again. *)
Definition getGnssInterface : Dm bool :=
  let! known := gets gnssInterface in
  match known with
  | None => ret false
  | Some true => ret true
  | Some false =>
      let! lib := answer_lib in
      modify (put_gnssInterface lib) ;;;
      ret (default false lib)
  end.

(** * Registration *)

Definition newClient (name : string) (type : Z) : Dm unit :=
  let! pClient := getClient name in
  match pClient with
  | Some _ => ret tt
  | None =>
      let! h := new_client name type in
      modify (λ d, put_mClients (<[name := h]> (mClients d)) d)
  end.

Definition deleteClient (name : string) : Dm unit := deleteClientbyName name.

(** * Tracking *)

Definition startTracking (name : string) (locOptions : LocationOptions) : Dm unit :=
  with_client name (λ h,
    let! mode := gets mPositionMode in
    let! id := startTracking_with h (with_mode mode locOptions) in
    if id =? 0 then ret tt else
    upd h (set_mTracking true) ;;;
    push_pending h E_LOCAPI_START_TRACKING_MSG_ID).

Definition stopTracking (name : string) : Dm unit :=
  with_client name (λ h,
    upd h (set_mTracking false) ;;;
    unsubscribeLocationSessionCb h ;;;
    stopTracking_of h ;;;
    push_pending h E_LOCAPI_STOP_TRACKING_MSG_ID).

Definition suspend_client (x : string * loc) : Dm unit :=
  let! c := the x.2 in
  if mTracking c then
    stopTracking_of x.2 ;;; push_pending x.2 E_LOCAPI_STOP_TRACKING_MSG_ID
  else ret tt.
Definition suspendAllTrackingSessions : Dm unit :=
  let! l := gets (λ d, clients_in_order (mClients d)) in for_each suspend_client l.

(** The loop ends at the first session that does not start. *)
Fixpoint resume_clients (l : list (string * loc)) : Dm unit :=
  match l with
  | [] => ret tt
  | (_, h) :: l =>
      let! c := the h in
      if mTracking c then
        let! id := restartTracking h in
        if id =? 0 then ret tt else
        push_pending h E_LOCAPI_START_TRACKING_MSG_ID ;;; resume_clients l
      else resume_clients l
  end.
Definition resumeAllTrackingSessions : Dm unit :=
  let! l := gets (λ d, clients_in_order (mClients d)) in resume_clients l.

Definition updateSubscription_of (name : string) (mask : Z) : Dm unit :=
  with_client name (λ h, updateSubscription h mask).

Definition updateTrackingOptions (name : string) (locOptions : LocationOptions) : Dm unit :=
  with_client name (λ h,
    let! mode := gets mPositionMode in
    updateTrackingOptions_of h (with_mode mode locOptions) ;;;
    push_pending h E_LOCAPI_UPDATE_TRACKING_OPTIONS_MSG_ID).

Definition updateNetworkAvailability (availability : bool) : Dm unit :=
  let! present := getGnssInterface in
  if present then out (OutConnection availability) else ret tt.

Fixpoint any_pending (l : list (string * loc)) : Dm bool :=
  match l with
  | [] => ret false
  | (_, h) :: l => let! c := the h in if hasPendingEngineInfoRequest c then ret true else any_pending l
  end.
Definition getGnssEnergyConsumed (name : string) : Dm unit :=
  let! present := getGnssInterface in
  if negb present then ret tt else
  let! l := gets (λ d, clients_in_order (mClients d)) in
  let! requestAlreadyPending := any_pending l in
  with_client name (λ h,
    addEngineInfoRequst h ;;;
    if requestAlreadyPending then ret tt else out OutGetEnergy).

(** * Batching *)

Definition startBatching (name : string) (intervalInMs distanceInMeters batchingMode : Z) : Dm unit :=
  with_client name (λ h,
    let! id := startBatching_of h intervalInMs distanceInMeters batchingMode in
    if id =? 0 then ret tt else
    upd h (λ c, set_mBatchingMode batchingMode (set_mBatching true c)) ;;;
    push_pending h E_LOCAPI_START_BATCHING_MSG_ID).

Definition stopBatching (name : string) : Dm unit :=
  with_client name (λ h,
    upd h (λ c, set_mBatchingMode BATCHING_MODE_NO_AUTO_REPORT (set_mBatching false c)) ;;;
    updateSubscription h 0 ;;;
    stopBatching_of h ;;;
    push_pending h E_LOCAPI_STOP_BATCHING_MSG_ID).

Definition updateBatchingOptions (name : string) (intervalInMs distanceInMeters batchingMode : Z) : Dm unit :=
  with_client name (λ h,
    updateBatchingOptions_of h intervalInMs distanceInMeters batchingMode ;;;
    push_pending h E_LOCAPI_UPDATE_BATCHING_OPTIONS_MSG_ID).

(** * Geofences *)

(** All allocations are tried before any is tested. *)
Fixpoint allocate (n : nat) : Dm bool :=
  match n with
  | O => ret true
  | S n => let! a := answer_alloc in let! b := allocate n in ret (a && b)
  end.

Definition addGeofences (name : string) (g : GeofencesAddedReqPayload) : Dm unit :=
  with_client name (λ h,
    if MAX_GEOFENCE_COUNT <? GeofencesAddedReqPayload_count g then ret tt else
    let! allocated := allocate 3 in
    if negb allocated then ret tt else
    let! l := elements (Z.to_nat (GeofencesAddedReqPayload_count g)) (GeofencesAddedReqPayload_gfPayload g) in
    let! sessions := addGeofences_of h (GeofencePayload_gfOption <$> l) (GeofencePayload_gfInfo <$> l) in
    match sessions with
    | None => ret tt
    | Some sessions =>
        let! sessions := elements (length l) sessions in
        setGeofenceIds h (GeofencePayload_gfClientId <$> l) sessions ;;;
        push_gf_pending h E_LOCAPI_ADD_GEOFENCES_MSG_ID
    end).

(** removeGeofences, pauseGeofences and resumeGeofences. *)
Definition on_geofences (name : string) (g : GeofencesReqClientIdPayload) (call : loc -> list Z -> Dm unit)
    (id : Z) : Dm unit :=
  with_client name (λ h,
    let! clientIds := elements (Z.to_nat (GeofencesReqClientIdPayload_count g)) (GeofencesReqClientIdPayload_gfIds g) in
    let! sessions := getSessionIds h clientIds in
    match sessions with
    | Some sessions => call h sessions ;;; push_gf_pending h id
    | None => ret tt
    end).
Definition removeGeofences (name : string) (g : GeofencesReqClientIdPayload) : Dm unit :=
  on_geofences name g removeGeofences_of E_LOCAPI_REMOVE_GEOFENCES_MSG_ID.
Definition pauseGeofences (name : string) (g : GeofencesReqClientIdPayload) : Dm unit :=
  on_geofences name g pauseGeofences_of E_LOCAPI_PAUSE_GEOFENCES_MSG_ID.
Definition resumeGeofences (name : string) (g : GeofencesReqClientIdPayload) : Dm unit :=
  on_geofences name g resumeGeofences_of E_LOCAPI_RESUME_GEOFENCES_MSG_ID.

Definition modifyGeofences (name : string) (g : GeofencesAddedReqPayload) : Dm unit :=
  with_client name (λ h,
    if MAX_GEOFENCE_COUNT <? GeofencesAddedReqPayload_count g then ret tt else
    let! allocated := allocate 2 in
    if negb allocated then ret tt else
    let! l := elements (Z.to_nat (GeofencesAddedReqPayload_count g)) (GeofencesAddedReqPayload_gfPayload g) in
    let! sessions := getSessionIds h (GeofencePayload_gfClientId <$> l) in
    match sessions with
    | Some sessions =>
        modifyGeofences_of h sessions (GeofencePayload_gfOption <$> l) ;;;
        push_gf_pending h E_LOCAPI_MODIFY_GEOFENCES_MSG_ID
    | None => ret tt
    end).

Definition pingTest (name : string) (data : list Z) : Dm unit := with_client name (λ h, pingTest_of h data).

(** * Configuration *)

(** emplace does nothing if the session is in the map. *)
Definition addConfigRequestToMap (sessionId : Z) (name : string) (msgId : Z) : Dm unit :=
  if negb (sessionId =? 0) then
    modify (λ d, match mConfigReqs d !! sessionId with
                 | Some _ => d
                 | None => put_mConfigReqs (<[sessionId := ConfigReq name msgId]> (mConfigReqs d)) d
                 end)
  else with_client name (λ h, onControlResponseCb_of h LOCATION_ERROR_GENERAL_FAILURE msgId).

Definition control (c : control_call) : Dm Z :=
  let! id := answer_id in out (OutControl c id) ;;; ret id.

(** Each configuration request calls LocationControlAPI and is remembered. *)
Definition configure (c : control_call) (name : string) (msgId : Z) : Dm unit :=
  let! sessionId := control c in addConfigRequestToMap sessionId name msgId.
Definition configConstrainedTunc (enable : bool) (tunc : float) (energyBudget : Z) : string -> Z -> Dm unit :=
  configure (ConfigConstrainedTimeUncertainty enable tunc energyBudget).
Definition configPositionAssistedClockEstimator (enable : bool) : string -> Z -> Dm unit :=
  configure (ConfigPositionAssistedClockEstimator enable).
Definition configConstellations (enablement : GnssSvTypeConfig) (size : Z) (blacklist : GnssSvIdConfig)
    : string -> Z -> Dm unit :=
  configure (ConfigConstellations enablement size blacklist).
Definition configConstellationSecondaryBand (config : GnssSvTypeConfig) : string -> Z -> Dm unit :=
  configure (ConfigConstellationSecondaryBand config).
Definition configLeverArm (config : LeverArmConfigInfo) : string -> Z -> Dm unit := configure (ConfigLeverArm config).
Definition configRobustLocation (enable enableForE911 : bool) : string -> Z -> Dm unit :=
  configure (ConfigRobustLocation enable enableForE911).
Definition configMinGpsWeek (week : Z) : string -> Z -> Dm unit := configure (ConfigMinGpsWeek week).
Definition configMinSvElevation (elevation : Z) : string -> Z -> Dm unit := configure (ConfigMinSvElevation elevation).
Definition configEngineRunState (engType engState : Z) : string -> Z -> Dm unit :=
  configure (ConfigEngineRunState engType engState).
Definition configDeadReckoningEngineParams (config : DeadReckoningEngineConfig) : string -> Z -> Dm unit :=
  configure (ConfigDeadReckoningEngineParams config).
Definition getGnssConfig (configFlag : Z) : string -> Z -> Dm unit := configure (GnssGetConfig configFlag).

Definition configAidingDataDeletion (name : string) (data : GnssAidingData) (msgId : Z) : Dm unit :=
  suspendAllTrackingSessions ;;;
  let! sessionId := control (GnssDeleteAidingData data) in
  addConfigRequestToMap sessionId name msgId ;;;
  let! st := gets mPowerState in
  if (st =? POWER_STATE_SUSPEND) || (st =? POWER_STATE_SHUTDOWN) then ret tt
  else resumeAllTrackingSessions.

(** The instance has the mandatory callbacks, so there is one. *)
Definition configUserConsentTerrestrialPositioning (name : string) (consent : bool) (msgId : Z) : Dm unit :=
  modify (put_mOptInTerrestrialService (if consent then 1 else 0)) ;;;
  let! api := gets mGtpWwanSsLocationApi in
  (if consent && negb api then
     modify (put_mGtpWwanSsLocationApi true) ;;; out OutEnableNetworkProvider
   else ret tt) ;;;
  configure (SetOptInStatus consent) name msgId.

Definition getConstellationSecondaryBandConfig (name : string) (msgId : Z) : Dm unit :=
  let! present := getGnssInterface in
  if present then configure GnssGetSecondaryBandConfig name msgId else ret tt.

(** ** Answers of LocationControlAPI *)

(** Finds the request of a session, tells its client, and erases it. *)
Definition answer_config (sessionId : Z) (tell : loc -> Z -> Dm unit) : Dm unit :=
  let! reqs := gets mConfigReqs in
  match reqs !! sessionId with
  | None => ret tt
  | Some r =>
      with_client (clientName r) (λ h, tell h (configMsgId r)) ;;;
      modify (λ d, put_mConfigReqs (delete sessionId (mConfigReqs d)) d)
  end.
Definition onControlResponseCallback (err sessionId : Z) : Dm unit :=
  answer_config sessionId (λ h msgId, onControlResponseCb_of h err msgId).
Definition onControlCollectiveResponseCallback (errs sessionIds : list Z) : Dm unit :=
  match errs, sessionIds with
  | [err], [sessionId] => onControlResponseCallback err sessionId
  | _, _ => ret tt
  end.
Definition onGnssConfigCallback (sessionId : Z) (config : GnssConfig) : Dm unit :=
  answer_config sessionId (λ h msgId,
    onControlResponseCb_of h LOCATION_ERROR_SUCCESS msgId ;;;
    onGnssConfigCb h msgId config).

(** * Terrestrial fixes *)

Definition stopNetworkLocation : Dm unit :=
  let! api := gets mGtpWwanSsLocationApi in if api then out (OutNetwork false) else undefined.
Definition startNetworkLocation : Dm unit :=
  let! api := gets mGtpWwanSsLocationApi in if api then out (OutNetwork true) else undefined.

(** The pointer that getClient returns is not tested. *)
Definition send_fix_to (location : Location) (x : string * Z) : Dm unit :=
  let! pClient := getClient x.1 in
  match pClient with
  | Some h => sendTerrestrialFix h LOCATION_ERROR_SUCCESS location
  | None => undefined
  end.
Definition onGtpWwanTrackingCallback (location : Location) : Dm unit :=
  let! d := gets id in
  if negb (size (mTerrestrialFixReqs d) =? 0)%nat && has (Location_flags location) LOCATION_HAS_LAT_LONG_BIT
     && (mOptInTerrestrialService d =? 1)
  then
    for_each (send_fix_to location) (fixes_in_order (mTerrestrialFixReqs d)) ;;;
    modify (put_mTerrestrialFixReqs ∅) ;;;
    stopNetworkLocation
  else ret tt.

(** A second request keeps the entry, and its running timer. *)
Definition getSingleTerrestrialPos (name : string) (timeout : Z) : Dm unit :=
  let! optIn := gets mOptInTerrestrialService in
  if negb (optIn =? 1) then
    with_client name (λ h, sendTerrestrialFix h LOCATION_ERROR_NOT_SUPPORTED Location_zero)
  else
    modify (λ d, match mTerrestrialFixReqs d !! name with
                 | Some _ => d
                 | None => put_mTerrestrialFixReqs (<[name := timeout]> (mTerrestrialFixReqs d)) d
                 end) ;;;
    let! n := gets (λ d, size (mTerrestrialFixReqs d)) in
    if (n =? 1)%nat then startNetworkLocation else ret tt.

Definition gtpFixRequestTimeout (name : string) : Dm unit :=
  let! reqs := gets mTerrestrialFixReqs in
  match reqs !! name with
  | None => ret tt
  | Some _ =>
      with_client name (λ h, sendTerrestrialFix h LOCATION_ERROR_TIMEOUT Location_zero) ;;;
      modify (λ d, put_mTerrestrialFixReqs (delete name (mTerrestrialFixReqs d)) d) ;;;
      let! n := gets (λ d, size (mTerrestrialFixReqs d)) in
      if (n =? 1)%nat then stopNetworkLocation else ret tt
  end.

(** * Power, energy, maintenance *)

Definition onPowerEvent (powerState : Z) : Dm unit :=
  modify (put_mPowerState powerState) ;;;
  (if (powerState =? POWER_STATE_SUSPEND) || (powerState =? POWER_STATE_SHUTDOWN)
   then suspendAllTrackingSessions
   else if powerState =? POWER_STATE_RESUME then resumeAllTrackingSessions else ret tt) ;;;
  let! present := getGnssInterface in
  if present then out (OutPower powerState) else ret tt.

(** A client that is purged is erased from the map that the loop traverses: the
    iterator is invalid then. *)
Definition tell_energy (m : LocAPIMsg) (x : string * loc) : Dm unit :=
  onGnssEnergyConsumedInfoAvailable x.2 m ;;;
  let! c := gets (λ d, mClients d !! x.1) in
  match c with Some _ => ret tt | None => undefined end.
Definition onGnssEnergyConsumedCb (total : Z) : Dm unit :=
  let! l := gets (λ d, clients_in_order (mClients d)) in
  for_each (tell_energy (LocAPIGnssEnergyConsumedIndMsg total)) l.

(** performMaintenance: the names are copied under the lock; then each client is
    sent a message, without the lock, and deleted if that fails, still without
    the lock: that is undefined if another thread uses the database of clients
    meanwhile ([racing]).  The senders that are copied stay valid. *)
Definition performMaintenance : Dm unit :=
  modify (λ d, put_clientsToCheck
    (filter (λ n, n ≠ AUTO_START_CLIENT_NAME) (clients_in_order (mClients d)).*1) d).
Definition check_client (data : list Z) (racing : bool) : Dm unit :=
  let! l := gets clientsToCheck in
  match l with
  | [] => ret tt
  | name :: l =>
      modify (put_clientsToCheck l) ;;;
      let m := LocAPIPingTestReqMsg data in
      let! messageSent :=
        match wire m with
        | None => undefined
        | Some false => ret false
        | Some true => let! sent := answer_send in out (OutMsg name m sent) ;;; ret sent
        end in
      if messageSent then ret tt else if racing then undefined else deleteClientbyName name
  end.

(** * Events *)

(** What processClientMsg does with the message [m] of client [name]; [data]: the
    memory that a ping is sent from. *)
Definition serve (name : string) (m : LocAPIMsg) (data : list Z) : Dm unit :=
  match m with
  | LocAPIClientRegisterReqMsg type => newClient name type
  | LocAPIClientDeregisterReqMsg => deleteClient name
  | LocAPIStartTrackingReqMsg o => startTracking name o
  | LocAPIStopTrackingReqMsg => stopTracking name
  | LocAPIUpdateCallbacksReqMsg mask => updateSubscription_of name mask
  | LocAPIUpdateTrackingOptionsReqMsg o => updateTrackingOptions name o
  | LocAPIStartBatchingReqMsg i dist mode => startBatching name i dist mode
  | LocAPIStopBatchingReqMsg => stopBatching name
  | LocAPIUpdateBatchingOptionsReqMsg i dist mode => updateBatchingOptions name i dist mode
  | LocAPIAddGeofencesReqMsg g => addGeofences name g
  | LocAPIRemoveGeofencesReqMsg g => removeGeofences name g
  | LocAPIModifyGeofencesReqMsg g => modifyGeofences name g
  | LocAPIPauseGeofencesReqMsg g => pauseGeofences name g
  | LocAPIResumeGeofencesReqMsg g => resumeGeofences name g
  | LocAPIUpdateNetworkAvailabilityReqMsg a => updateNetworkAvailability a
  | LocAPIGetGnssEnergyConsumedReqMsg => getGnssEnergyConsumed name
  | LocAPIGetSingleTerrestrialPosReqMsg timeout _ _ => getSingleTerrestrialPos name timeout
  | LocAPIPingTestReqMsg _ => pingTest name data
  | LocConfigConstrainedTuncReqMsg e t b => configConstrainedTunc e t b name (msgId_of m)
  | LocConfigPositionAssistedClockEstimatorReqMsg e =>
      configPositionAssistedClockEstimator e name (msgId_of m)
  | LocConfigSvConstellationReqMsg e s b => configConstellations e s b name (msgId_of m)
  | LocConfigConstellationSecondaryBandReqMsg c => configConstellationSecondaryBand c name (msgId_of m)
  | LocConfigAidingDataDeletionReqMsg a => configAidingDataDeletion name a (msgId_of m)
  | LocConfigLeverArmReqMsg c => configLeverArm c name (msgId_of m)
  | LocConfigRobustLocationReqMsg e e911 => configRobustLocation e e911 name (msgId_of m)
  | LocConfigMinGpsWeekReqMsg w => configMinGpsWeek w name (msgId_of m)
  | LocConfigDrEngineParamsReqMsg c => configDeadReckoningEngineParams c name (msgId_of m)
  | LocConfigMinSvElevationReqMsg e => configMinSvElevation e name (msgId_of m)
  | LocConfigEngineRunStateReqMsg t s => configEngineRunState t s name (msgId_of m)
  | LocConfigUserConsentTerrestrialPositioningReqMsg c =>
      configUserConsentTerrestrialPositioning name c (msgId_of m)
  | LocConfigGetRobustLocationConfigReqMsg =>
      getGnssConfig GNSS_CONFIG_FLAGS_ROBUST_LOCATION_BIT name (msgId_of m)
  | LocConfigGetMinGpsWeekReqMsg =>
      getGnssConfig GNSS_CONFIG_FLAGS_MIN_GPS_WEEK_BIT name (msgId_of m)
  | LocConfigGetMinSvElevationReqMsg =>
      getGnssConfig GNSS_CONFIG_FLAGS_MIN_SV_ELEVATION_BIT name (msgId_of m)
  | LocConfigGetConstellationSecondaryBandConfigReqMsg => getConstellationSecondaryBandConfig name (msgId_of m)
  | _ => ret tt
  end.

Inductive event :=
  | Request (name : string) (m : LocAPIMsg) (data : list Z)
  | ResponseCb (h : loc) (err id : Z)
  | CollectiveResponseCb (h : loc) (errs ids : list Z)
  | CapabilitiesCb (h : loc) (mask : Z)
  | TrackingCb (h : loc) (location : Location)
  | BatchingCb (h : loc) (locations : list Location)
  | BatchingStatusCb (h : loc) (batchingStatus : Z)
  | GeofenceBreachCb (h : loc) (ids : list Z)
  | GnssLocationInfoCb (h : loc) (notification : GnssLocationInfoNotification)
  | EngLocationsInfoCb (h : loc) (notifications : list GnssLocationInfoNotification)
  | GnssSvCb (h : loc) (notification : GnssSvNotification)
  | GnssNmeaCb (h : loc) (timestamp : Z) (nmea : string)
  | GnssDataCb (h : loc) (notification : GnssDataNotification)
  | GnssMeasurementsCb (h : loc) (notification : GnssMeasurementsNotification)
  | LocationSystemInfoCb (h : loc) (notification : LocationSystemInfo)
  | DestroyCompleteCb (h : loc)
  | ControlResponse (err sessionId : Z)
  | ControlCollectiveResponse (errs sessionIds : list Z)
  | GnssConfigCb (sessionId : Z) (config : GnssConfig)
  | GnssEnergyConsumedCb (total : Z)
  | GtpWwanTrackingCb (location : Location)
  | FixTimeout (name : string)
  | PowerEvent (st : Z)
  | Maintenance
  | CheckClient (data : list Z) (racing : bool).   (* racing: another thread holds mMutex *)

Definition handle (e : event) : Dm unit :=
  match e with
  | Request name m data => serve name m data
  | ResponseCb h err id => onResponseCb h err id
  | CollectiveResponseCb h errs ids => onCollectiveResponseCallback h errs ids
  | CapabilitiesCb h mask => onCapabilitiesCallback h mask
  | TrackingCb h l => onTrackingCb h l
  | BatchingCb h l => onBatchingCb h l
  | BatchingStatusCb h s => onBatchingStatusCb h s
  | GeofenceBreachCb h ids => onGeofenceBreachCb h ids
  | GnssLocationInfoCb h n => onGnssLocationInfoCb h n
  | EngLocationsInfoCb h n => onEngLocationsInfoCb h n
  | GnssSvCb h n => onGnssSvCb h n
  | GnssNmeaCb h t n => onGnssNmeaCb h t n
  | GnssDataCb h n => onGnssDataCb h n
  | GnssMeasurementsCb h n => onGnssMeasurementsCb h n
  | LocationSystemInfoCb h n => onLocationSystemInfoCb h n
  | DestroyCompleteCb h => onLocationApiDestroyCompleteCb h
  | ControlResponse err id => onControlResponseCallback err id
  | ControlCollectiveResponse errs ids => onControlCollectiveResponseCallback errs ids
  | GnssConfigCb id c => onGnssConfigCallback id c
  | GnssEnergyConsumedCb total => onGnssEnergyConsumedCb total
  | GtpWwanTrackingCb l => onGtpWwanTrackingCallback l
  | FixTimeout name => gtpFixRequestTimeout name
  | PowerEvent st => onPowerEvent st
  | Maintenance => performMaintenance
  | CheckClient data racing => check_client data racing
  end.

(** One event, with the answers that its functions get. *)
Definition step (d : daemon) (e : event * env) : option daemon :=
  match handle e.1 (put_answers e.2 d) with Done (_, d) => Some d | _ => None end.

(** The constructor, after LocationControlAPI was created; without it the daemon
    listens to nobody. *)
Record configParamToRead := ConfigParams {
  autoStartGnss : bool; gnssSessionTbfMs : Z; deleteAllBeforeAutoStart : bool; posEngineMask : Z; positionMode : Z
}.
Definition no_daemon (mode : Z) : daemon :=
  Daemon ∅ 1%positive ∅ ∅ ∅ false (-1) POWER_STATE_UNKNOWN mode (Some false) [] (Env [] [] [] [] []) [].
Definition autostart (p : configParamToRead) : Dm unit :=
  if negb (autoStartGnss p) then ret tt else
  (if deleteAllBeforeAutoStart p && negb (posEngineMask p =? 0) then
     control (GnssDeleteAidingData (MkGnssAidingData true (MkGnssAidingDataSv 0 0) (MkGnssAidingDataCommon 0) 0
       (posEngineMask p))) ;;; ret tt
   else ret tt) ;;;
  let! h := new_client AUTO_START_CLIENT_NAME LOCATION_CLIENT_API in
  modify (λ d, put_mClients (<[AUTO_START_CLIENT_NAME := h]> (mClients d)) d) ;;;
  updateSubscription h (Z.lor E_LOC_CB_GNSS_LOCATION_INFO_BIT E_LOC_CB_GNSS_SV_BIT) ;;;
  startTracking_with h (MkLocationOptions (gnssSessionTbfMs p) 0 (positionMode p) 0) ;;;
  upd h (set_mTracking true) ;;;
  push_pending h E_LOCAPI_START_TRACKING_MSG_ID.
Definition started (p : configParamToRead) (e : env) : option daemon :=
  match autostart p (put_answers e (no_daemon (positionMode p))) with Done (_, d) => Some d | _ => None end.

(** The destructor. *)
Definition destroy_service : Dm unit :=
  let! l := gets (λ d, clients_in_order (mClients d)) in
  for_each (λ x, cleanup x.2) l ;;;
  out OutControlEnd.
End service.

(** * Strings *)

Section strings.
Context `{!Protobuf, !Abi, !Unordered}.

#[export] Instance protobuf_wire : Wire := λ m,
  match serializeToProtobuf (new_header SERVICE_NAME (msgId_of m) true) m with
  | None => None
  | Some None => Some false
  | Some (Some _) => Some true
  end.

(** A string is received. *)
Definition onReceive (u : Uninitialised) (s : bytes) : Dm unit :=
  match processClientMsg u s with
  | None => undefined
  | Some None => ret tt
  | Some (Some (name, m)) => serve name m (any_data u)
  end.

(** onListenerReady: the files of the directory of the clients' sockets. *)
Definition onListenerReady (files : list string) : Dm unit :=
  for_each (λ f,
    match wire LocAPIHalReadyIndMsg with
    | None => undefined
    | Some false => ret tt
    | Some true => let! sent := answer_send in out (OutMsg f LocAPIHalReadyIndMsg sent)
    end) (filter (λ f, String.prefix "/dev/socket/loc_client/toclient" f = true) files).
End strings.
