(* ===== verification/HalLogic.v ===== *)
(** How the programs of the location daemon are reasoned about: [via] relates
    the states before and after a program, and goes through it step by step. *)

From stdpp Require Import list gmap strings.
From S2P Require Import Prelude Runs LocationEnums PbConversions ApiStructs PbMessages PbMsgConv IpcMessages.
From S2P Require Import IpcArrive IpcDispatch HalState HalClient HalService.

Local Open Scope Z_scope.

(** The program relates [d] to the state after it; [u] if it has none.  [via]
    says nothing of undefined programs, [runs] excludes them. *)
Definition rel {A} (u : Prop) (R : daemon -> daemon -> Prop) (m : Dm A) (d : daemon) : Prop :=
  match m d with Done (_, d') => R d d' | _ => u end.
Abbreviation via := (rel True).
Abbreviation runs := (rel False).

Section rel.
Context (u : Prop) (R : daemon -> daemon -> Prop) `{!PreOrder R}.

Lemma via_ret {A} (a : A) d : rel u R (ret a) d.
Proof. change (R d d). reflexivity. Qed.
Lemma via_gets {A} (f : daemon -> A) d : rel u R (gets f) d.
Proof. change (R d d). reflexivity. Qed.
Lemma via_modify f d : R d (f d) -> rel u R (modify f) d.
Proof. done. Qed.
Lemma via_bind_any {A B} (m : Dm A) (k : A -> Dm B) d :
  rel u R m d -> (∀ a d', m d = Done (a, d') -> R d d' -> rel u R (k a) d') -> rel u R (bind m k) d.
Proof.
  unfold rel, bind, obind. destruct (m d) as [[a d']| |]; [|done..].
  intros H1 H2. specialize (H2 _ _ eq_refl H1). destruct (k a d') as [[b d'']| |]; [|done..]. by etrans.
Qed.
Lemma via_bind {A B} (m : Dm A) (k : A -> Dm B) d :
  rel u R m d -> (∀ a d', R d d' -> rel u R (k a) d') -> rel u R (bind m k) d.
Proof. intros H1 H2. apply via_bind_any; eauto. Qed.
Lemma via_bind_done {A B} (m : Dm A) (k : A -> Dm B) a d d' :
  m d = Done (a, d') -> R d d' -> rel u R (k a) d' -> rel u R (bind m k) d.
Proof.
  intros Hm Hr Hk. unfold rel, bind, obind in *. rewrite Hm. destruct (k a d') as [[b d'']| |]; [|done..]. by etrans.
Qed.
Lemma via_bind_upd {B} h f c (k : unit -> Dm B) d :
  heap d !! h = Some c -> rel u R (upd h f) d ->
  (let d' := put_heap (<[h := f c]> (heap d)) d in heap d' !! h = Some (f c) -> rel u R (k tt) d') ->
  rel u R (bind (upd h f) k) d.
Proof.
  intros Hc Hu Hk. unfold rel, bind, obind, upd in *. rewrite Hc in *. cbn zeta in Hk.
  specialize (Hk (lookup_insert_eq _ _ _)). destruct (k tt _) as [[b d'']| |]; [|done..]. by etrans.
Qed.
Lemma via_bind_gets {A B} (f : daemon -> A) (k : A -> Dm B) d :
  rel u R (k (f d)) d -> rel u R (bind (gets f) k) d.
Proof. done. Qed.
Lemma via_if {A} (b : bool) (m1 m2 : Dm A) d :
  (b = true -> rel u R m1 d) -> (b = false -> rel u R m2 d) -> rel u R (if b then m1 else m2) d.
Proof. destruct b; eauto. Qed.
Lemma via_for_each {A} (f : A -> Dm unit) l :
  (∀ x d, rel u R (f x) d) -> ∀ d, rel u R (for_each f l) d.
Proof. intros Hf. induction l as [|x l IH]; intros d; [apply via_ret|]. apply via_bind; auto. Qed.
End rel.

Section via.
Context (R : daemon -> daemon -> Prop) `{!PreOrder R}.

Lemma via_undefined {A} d : via R (undefined (A := A)) d.
Proof. done. Qed.
Lemma via_the h d : via R (the h) d.
Proof. unfold rel, the. destruct (heap d !! h); [change (R d d); reflexivity|done]. Qed.
Lemma via_elements {A} n (l : list A) d : via R (elements n l) d.
Proof. unfold elements. case_match; [by apply via_ret|done]. Qed.
(** What was read is known afterwards. *)
Lemma via_bind_the {B} h (k : handler -> Dm B) d :
  (∀ c, heap d !! h = Some c -> via R (k c) d) -> via R (bind (the h) k) d.
Proof. unfold rel, bind, the, obind. destruct (heap d !! h) as [c|]; [|done]. intros H. by apply H. Qed.
End via.

Lemma step_via `{!Unordered, !Wire} R d e d' :
  via R (handle e.1) (put_answers e.2 d) -> step d e = Some d' -> R (put_answers e.2 d) d'.
Proof. unfold rel, step. destruct (handle e.1 _) as [[? ?]| |]; [|done..]. by intros Hr [= <-]. Qed.

(** * Running the operations on the state *)

Section run.
Context (h : loc) (c : handler) (d : daemon) (Hc : heap d !! h = Some c).

Lemma the_done : the h d = Done (c, d).
Proof. unfold the. by rewrite Hc. Qed.
Lemma upd_done f : upd h f d = Done (tt, put_heap (<[h := f c]> (heap d)) d).
Proof. unfold upd. by rewrite Hc. Qed.
Lemma free_done : free h d = Done (tt, put_heap (delete h (heap d)) d).
Proof. unfold free. by rewrite Hc. Qed.
Lemma bind_the {B} (k : handler -> Dm B) : bind (the h) k d = k c d.
Proof. unfold bind. by rewrite the_done. Qed.
End run.

(** Goes through a program under the relation [R]: [stop] succeeds where it is to
    stop, [tac] solves the steps. *)
Ltac go_with R stop tac :=
  repeat tryif stop then fail else
  lazymatch goal with
  | |- via R (ret _) _ => apply (via_ret _ R)
  | |- via R undefined _ => apply (via_undefined R)
  | |- via R (gets _) _ => apply (via_gets _ R)
  | |- via R (the _) _ => apply (via_the R)
  | |- via R (elements _ _) _ => apply (via_elements R)
  | |- via R (for_each _ _) _ => apply (via_for_each _ R); intros
  | |- via R (bind (gets _) _) _ => apply (via_bind_gets _ R)
  | |- via R (bind (the _) _) _ => apply (via_bind_the R); intros
  | |- via R (bind _ _) _ =>
      first [ eapply (via_bind_upd _ R); [eassumption|solve [tac]|cbv zeta; intros]
            | eapply (via_bind_done _ R); [reflexivity|solve [tac]|]
            | apply (via_bind _ R); [|intros] ]
  | |- via R (if _ then _ else _) _ => first [apply (via_if _ R); intros | case_match]
  | |- via R (match _ with _ => _ end) _ => case_match
  | |- R _ (match _ with _ => _ end) => case_match
  | |- via R (modify _) _ => first [ solve [tac] | apply via_modify ]
  | |- via R ?m _ => first [ solve [tac] | let f := get_head m in unfold f | progress cbv beta ]
  | |- _ => solve [tac]
  end.

(** * The names of the clients *)

(** A client in the database has a handler of its name, and addresses are fresh. *)
Definition named (d : daemon) : Prop :=
  (∀ n h, mClients d !! n = Some h -> (h < next d)%positive ∧ ∀ c, heap d !! h = Some c -> mName c = n) ∧
  (∀ h, (next d ≤ h)%positive -> heap d !! h = None).
Definition names (d d' : daemon) : Prop := named d -> named d'.
#[export] Instance names_preorder : PreOrder names.
Proof. split; unfold names; [by intros d|by intros d1 d2 d3; auto]. Qed.

Lemma names_same d d' : heap d' = heap d -> next d' = next d -> mClients d' = mClients d -> names d d'.
Proof. intros H1 H2 H3. unfold names, named. by rewrite H1, H2, H3. Qed.
Lemma names_upd h f d : (∀ c, mName (f c) = mName c) -> via names (upd h f) d.
Proof.
  intros Hf. unfold rel, upd. destruct (heap d !! h) as [c|] eqn:Hc; [|done].
  intros [H1 H2]. split; cbn [heap next mClients put_heap].
  - intros n k Hn. destruct (H1 _ _ Hn) as [Hk Hm]. split; [done|]. intros c' Hc'.
    apply lookup_insert_Some in Hc' as [[<- <-]|[? Hc']]; [rewrite Hf|]; auto.
  - intros k Hk. rewrite lookup_insert_None. split; [auto|]. intros <-. rewrite H2 in Hc; done.
Qed.
Lemma names_free h d : via names (free h) d.
Proof.
  unfold rel, free. destruct (heap d !! h) as [c|] eqn:Hc; [|done].
  intros [H1 H2]. split; cbn [heap next mClients put_heap].
  - intros n k Hn. destruct (H1 _ _ Hn) as [Hk Hm]. split; [done|]. intros c' Hc'.
    apply lookup_delete_Some in Hc' as [_ Hc']. auto.
  - intros k Hk. rewrite lookup_delete_None. auto.
Qed.
Lemma names_delete n d : names d (put_mClients (delete n (mClients d)) d).
Proof.
  intros [H1 H2]. split; cbn [heap next mClients put_mClients]; [|done].
  intros n' k Hn. apply lookup_delete_Some in Hn as [_ Hn]. auto.
Qed.

(** A client that is new: its handler, and what LocationAPI is called for. *)
Definition newborn (name : string) (type : Z) : handler :=
  let c := Handler name type 0 false false BATCHING_MODE_NO_AUTO_REPORT 0 0 false no_callbacks
             (MkLocationOptions 0 0 GNSS_SUPL_MODE_STANDALONE 0)
             (MkBatchingOptions 0 0 GNSS_SUPL_MODE_STANDALONE BATCHING_MODE_ROUTINE)
             [] [] 0 0 None true ∅ in
  if type =? LOCATION_CLIENT_API
  then set_mLocationApi true (set_mCallbacks (subscribed_callbacks E_LOC_CB_GNSS_LOCATION_INFO_BIT no_callbacks) c)
  else c.
Definition birth (h : loc) (type : Z) : list output :=
  if type =? LOCATION_CLIENT_API
  then [OutApi h (CreateInstance (subscribed_callbacks E_LOC_CB_GNSS_LOCATION_INFO_BIT no_callbacks))] else [].
Lemma new_client_run name type d :
  new_client name type d =
    Done (next d, put_outputs (outputs d ++ birth (next d) type)
                    (put_next (Pos.succ (next d)) (put_heap (<[next d := newborn name type]> (heap d)) d))).
Proof.
  unfold new_client, newborn, birth, updateSubscription, bind, new, obind, upd, the, out, modify, ret.
  destruct (type =? LOCATION_CLIENT_API) eqn:Et; cbn.
  - rewrite lookup_insert_eq. cbn. rewrite lookup_insert_eq. cbn. rewrite lookup_insert_eq. cbn.
    rewrite lookup_insert_eq. cbn. rewrite lookup_insert_eq. cbn. rewrite !insert_insert_eq. by destruct d.
  - rewrite app_nil_r. by destruct d.
Qed.

(** A client that is deleted: its handler goes with its LocationAPI, if it has one. *)
Definition buried (n : string) (h : loc) (c : handler) (d : daemon) : daemon :=
  put_outputs (outputs d ++ OutRemoveFile (mName c) :: (if mLocationApi c then [OutApi h Destroy] else []))
    (put_heap (if mLocationApi c then <[h := set_mLocationApi false (set_mIpcSender false c)]> (heap d)
               else delete h (heap d))
      (put_mTerrestrialFixReqs (delete n (mTerrestrialFixReqs d)) (put_mClients (delete n (mClients d)) d))).
Lemma delete_run n h c d :
  mClients d !! n = Some h -> heap d !! h = Some c -> deleteClientbyName n d = Done (tt, buried n h c d).
Proof.
  intros Hn Hc. unfold deleteClientbyName, getClient, cleanup, buried, bind, modify, upd, the, out, free, gets, obind.
  cbn. rewrite Hn. cbn. rewrite Hc. cbn. rewrite lookup_insert_eq. cbn.
  destruct (mLocationApi c); cbn; rewrite lookup_insert_eq; cbn.
  - rewrite insert_insert_eq, <-app_assoc. by destruct d.
  - rewrite delete_insert_eq. by destruct d.
Qed.
Lemma delete_nobody n d : mClients d !! n = None -> deleteClientbyName n d = Done (tt, d).
Proof. intros Hn. unfold deleteClientbyName, getClient, bind, gets, obind. by rewrite Hn. Qed.

(** A message that is sent. *)
Definition rest_sends (d : daemon) : env :=
  Env (tail (sends (answers d))) (ids (answers d)) (arrays (answers d)) (allocs (answers d)) (libs (answers d)).
Definition sent (n : string) (m : LocAPIMsg) (d : daemon) : daemon :=
  put_outputs (outputs d ++ [OutMsg n m (hd true (sends (answers d)))]) (put_answers (rest_sends d) d).
Lemma sendMessage_run h c m d :
  heap d !! h = Some c -> mIpcSender c = true ->
  sendMessage h m d = Done (hd true (sends (answers d)), sent (mName c) m d).
Proof. intros Hc Hs. unfold sendMessage. by rewrite (bind_the _ _ _ Hc), Hs. Qed.
Lemma send_or_purge_run `{!Wire} h c m d :
  heap d !! h = Some c -> mIpcSender c = true -> wire m = Some true ->
  send_or_purge h m d =
    if hd true (sends (answers d)) then Done (tt, sent (mName c) m d)
    else deleteClientbyName (mName c) (sent (mName c) m d).
Proof.
  intros Hc Hs Hw. unfold send_or_purge, bind. rewrite Hw, (sendMessage_run _ _ _ _ Hc Hs). cbn [obind].
  destruct (hd true _); [done|]. unfold the, sent at 1. cbn [heap put_outputs put_answers]. rewrite Hc. done.
Qed.

Create HintDb names.
#[local] Hint Extern 1 (names _ _) => apply names_same; reflexivity : names.
#[local] Hint Extern 1 (via names (upd _ _) _) => apply names_upd; reflexivity : names.
#[local] Hint Extern 1 (via names answer_send _) => apply names_same; reflexivity : names.
#[local] Hint Extern 1 (via names answer_id _) => apply names_same; reflexivity : names.
#[local] Hint Extern 1 (via names answer_array _) => apply names_same; reflexivity : names.
#[local] Hint Extern 1 (via names answer_alloc _) => apply names_same; reflexivity : names.
#[local] Hint Extern 1 (via names answer_lib _) => apply names_same; reflexivity : names.
#[local] Hint Resolve names_free names_delete : names.
Ltac names := go_with names fail ltac:(eauto with names).

Section names.
Context `{!Unordered, !Wire}.

Lemma names_newClient name type d : via names (newClient name type) d.
Proof.
  unfold newClient, getClient. apply via_bind_gets. destruct (mClients d !! name) as [h|] eqn:Hn; [apply (via_ret _ names)|].
  unfold rel, bind. rewrite new_client_run. cbn. intros [H1 H2]. split; cbn.
  - intros n k Hk. apply lookup_insert_Some in Hk as [[<- <-]|[Hne Hk]].
    + split; [lia|]. rewrite lookup_insert_eq. intros c [= <-]. unfold newborn. by case_match.
    + destruct (H1 _ _ Hk) as [Hlt Hc]. split; [lia|]. rewrite lookup_insert_ne by lia. done.
  - intros k Hk. rewrite lookup_insert_ne by lia. apply H2. lia.
Qed.
#[local] Hint Resolve names_newClient : names.
Lemma names_fixpoints :
  (∀ l d, via names (resume_clients l) d) ∧ (∀ l d, via names (any_pending l) d) ∧ (∀ n d, via names (allocate n) d).
Proof.
  split_and!.
  - intros l. induction l as [|[n h] l IH]; intros d; simpl; names.
  - intros l. induction l as [|[n h] l IH]; intros d; simpl; names.
  - intros n. induction n as [|n IH]; intros d; simpl; names.
Qed.
#[local] Hint Extern 1 (via names (resume_clients _) _) => apply (proj1 names_fixpoints) : names.
#[local] Hint Extern 1 (via names (any_pending _) _) => apply (proj1 (proj2 names_fixpoints)) : names.
#[local] Hint Extern 1 (via names (allocate _) _) => apply (proj2 (proj2 names_fixpoints)) : names.
Lemma names_handle e d : via names (handle e) d.
Proof. destruct e; simpl; names. Qed.
Lemma named_step d e d' : named d -> step d e = Some d' -> named d'.
Proof. intros Hd Hs. apply (step_via names _ _ _ (names_handle _ _) Hs). revert Hd. by apply names_same. Qed.
End names.

(** * Concrete runs *)

Lemma run_ok_cons {St Ev} (stp : St -> Ev -> option St) (ok : St -> Ev -> Prop) s e es s' :
  ok s e -> stp s e = Some s' -> run_ok stp ok s' es -> run_ok stp ok s (e :: es).
Proof. intros Ho E Hr. split; [done|]. by rewrite E. Qed.

(** Maps in the order in which they are stored, messages that can all be sent, a
    daemon without automatic session, and a step with the identifiers of sessions. *)
Definition stored_order : Unordered := {|
  clients_in_order := map_to_list; ids_in_order := map_to_list; fixes_in_order := map_to_list;
  clients_in_order_perm _ := reflexivity _; ids_in_order_perm _ := reflexivity _;
  fixes_in_order_perm _ := reflexivity _ |}.
Definition every_wire : Wire := λ _, Some true.
Definition plain_config : configParamToRead := ConfigParams false 100 false 0 GNSS_SUPL_MODE_STANDALONE.
Definition with_ids (l : list Z) : env := Env [] l [] [] [].
Definition every_second : LocationOptions := MkLocationOptions 1000 0 GNSS_SUPL_MODE_STANDALONE 0.
Definition no_env : env := with_ids [].
Definition registers (n : string) : event * env :=
  (Request n (LocAPIClientRegisterReqMsg LOCATION_CLIENT_API) [], no_env).
Definition plain_daemon : daemon := Eval vm_compute in default (no_daemon 0) (started plain_config no_env).
Abbreviation plain_run := (run (@step stored_order every_wire) plain_daemon).
