(* ===== verification/HalProtocol.v ===== *)
(** What LocationAPI sees of each client: an instance is made once, one tracking
    and one batching session run at a time, only running sessions are updated and
    stopped, geofences are only touched on an instance, and nothing is called
    after the instance was destroyed.  The members of the handler tell at which
    point of this protocol its client is. *)

From stdpp Require Import list gmap strings.
From S2P Require Import Prelude Runs LocationEnums PbConversions ApiStructs PbMessages PbMsgConv IpcMessages.
From S2P Require Import IpcArrive IpcDispatch HalState HalClient HalService HalLogic.

Local Open Scope Z_scope.

(** * The protocol *)

Inductive pstate := PNone | PLive (tracking batching : Z) | PGone.

Definition pstep (s : pstate) (c : api_call) : option pstate :=
  match s, c with
  | PNone, CreateInstance cbs => if mandatoryCbs cbs then Some (PLive 0 0) else None
  | PLive t b, UpdateCallbacks _ => Some s
  | PLive t b, StartTracking _ id => if t =? 0 then Some (PLive id b) else None
  | PLive t b, StopTracking id => if (id =? t) && negb (t =? 0) then Some (PLive 0 b) else None
  | PLive t b, UpdateTrackingOptions id _ => if (id =? t) && negb (t =? 0) then Some s else None
  | PLive t b, StartBatching _ id => if b =? 0 then Some (PLive t id) else None
  | PLive t b, StopBatching id => if (id =? b) && negb (b =? 0) then Some (PLive t 0) else None
  | PLive t b, UpdateBatchingOptions id _ => if (id =? b) && negb (b =? 0) then Some s else None
  | PLive t b, AddGeofences _ _ _ => Some s
  | PLive t b, RemoveGeofences _ => Some s
  | PLive t b, ModifyGeofences _ _ => Some s
  | PLive t b, PauseGeofences _ => Some s
  | PLive t b, ResumeGeofences _ => Some s
  | PLive t b, Destroy => Some PGone
  | _, _ => None
  end.

(** The calls on one handler. *)
Definition call_of (h : loc) (o : output) : option api_call :=
  match o with OutApi h' c => if decide (h' = h) then Some c else None | _ => None end.
Definition pnext (h : loc) (s : option pstate) (o : output) : option pstate :=
  match call_of h o with Some c => s ← s; pstep s c | None => s end.
Definition follows (h : loc) (l : list output) : option pstate := foldl (pnext h) (Some PNone) l.

(** Where a client is, by its members; after cleanup they do not say. *)
Definition point (c : handler) : option pstate :=
  if mLocationApi c then Some (PLive (mSessionId c) (mBatchingId c))
  else if mIpcSender c then Some PNone else None.

Definition at_point (d : daemon) (h : loc) : Prop :=
  is_Some (follows h (outputs d)) ∧
  (∀ c s, heap d !! h = Some c -> point c = Some s -> follows h (outputs d) = Some s) ∧
  ((next d ≤ h)%positive -> heap d !! h = None ∧ follows h (outputs d) = Some PNone).
Definition all_at_points (d : daemon) : Prop := ∀ h, at_point d h.

(** The program keeps the clients at their points. *)
Definition keeps (d d' : daemon) : Prop := all_at_points d -> all_at_points d'.
#[export] Instance keeps_preorder : PreOrder keeps.
Proof. split; unfold keeps; [by intros d|by intros d1 d2 d3; auto]. Qed.

Lemma follows_snoc h l o : follows h (l ++ [o]) = pnext h (follows h l) o.
Proof. unfold follows. by rewrite foldl_app. Qed.
Lemma follows_other h l o : call_of h o = None -> follows h (l ++ [o]) = follows h l.
Proof. intros Ho. rewrite follows_snoc. unfold pnext. by rewrite Ho. Qed.
Lemma follows_call h l c s s' :
  follows h l = Some s -> pstep s c = Some s' -> follows h (l ++ [OutApi h c]) = Some s'.
Proof. intros Hl Hs. rewrite follows_snoc. unfold pnext. cbn [call_of]. rewrite decide_True by done. by rewrite Hl. Qed.

(** ** Steps that keep it *)

Lemma keeps_same d d' :
  heap d' = heap d -> next d' = next d -> outputs d' = outputs d -> keeps d d'.
Proof. intros H1 H2 H3 H h. specialize (H h). unfold at_point in *. by rewrite H1, H2, H3. Qed.

(** One handler changes, and perhaps LocationAPI is called for it. *)
Definition moves (h : loc) (c c' : handler) (o : output) : Prop :=
  match point c with
  | Some s => ∃ s', pnext h (Some s) o = Some s' ∧ ∀ s'', point c' = Some s'' -> s'' = s'
  | None => call_of h o = None ∧ point c' = None
  end.
Lemma keeps_handler d d' h c c' o :
  heap d !! h = Some c ->
  heap d' = <[h := c']> (heap d) -> next d' = next d -> outputs d' = outputs d ++ [o] ->
  (∀ k, k ≠ h -> call_of k o = None) -> moves h c c' o -> keeps d d'.
Proof.
  intros Hc Eh En Eo Ho Hm H k. destruct (H k) as (H1 & H2 & H3). unfold at_point. rewrite Eh, En, Eo.
  destruct (decide (k = h)) as [->|Hne].
  - rewrite lookup_insert_eq. assert (¬ (next d ≤ h)%positive) as Hlt.
    { intros Hle. destruct (H3 Hle) as [Hd _]. congruence. }
    unfold moves in Hm. destruct (point c) as [s|] eqn:Ep.
    + destruct Hm as (s' & Hs' & Hp). specialize (H2 _ _ Hc Ep). rewrite follows_snoc, H2, Hs'.
      split_and!; [done|intros c0 s0 [= <-] Hp0; by rewrite (Hp _ Hp0)|done].
    + destruct Hm as [Hcall Hp]. rewrite follows_other by done.
      split_and!; [done|intros c0 s0 [= <-] Hp0; congruence|done].
  - rewrite lookup_insert_ne by done. rewrite follows_other by auto. done.
Qed.

Lemma keeps_out o d d' :
  (∀ h, call_of h o = None) -> heap d' = heap d -> next d' = next d -> outputs d' = outputs d ++ [o] ->
  keeps d d'.
Proof.
  intros Ho Eh En Eo H k. specialize (H k). unfold at_point in *. rewrite Eh, En, Eo, follows_other by done. done.
Qed.
Lemma keeps_upd h f d : (∀ c s, point (f c) = Some s -> point c = Some s) -> via keeps (upd h f) d.
Proof.
  intros Hf. unfold rel, upd. destruct (heap d !! h) as [c|] eqn:Hc; [|done].
  intros H k. destruct (H k) as (H1 & H2 & H3). unfold at_point. cbn [heap next outputs put_heap].
  destruct (decide (k = h)) as [->|Hne].
  - rewrite lookup_insert_eq. split_and!; [done| |].
    + intros c0 s [= <-] Hp. apply Hf in Hp. eauto.
    + intros Hle. destruct (H3 Hle). congruence.
  - rewrite lookup_insert_ne by done. done.
Qed.
Lemma keeps_free h d : via keeps (free h) d.
Proof.
  unfold rel, free. destruct (heap d !! h) as [c|] eqn:Hc; [|done].
  intros H k. destruct (H k) as (H1 & H2 & H3). unfold at_point. cbn [heap next outputs put_heap].
  split_and!; [done| |].
  - intros c0 s Hk. apply lookup_delete_Some in Hk as [_ Hk]. eauto.
  - intros Hle. destruct (H3 Hle). split; [|done]. rewrite lookup_delete_None. auto.
Qed.

(** Goes through a program, up to the calls of LocationAPI. *)
Create HintDb keeps.
#[local] Hint Extern 1 (keeps _ _) => apply keeps_same; reflexivity : keeps.
#[local] Hint Extern 1 (keeps _ _) => eapply keeps_out; [|reflexivity..]; reflexivity : keeps.
#[local] Hint Extern 1 (via keeps (upd _ _) _) => apply keeps_upd; intros ??; exact id : keeps.
#[local] Hint Resolve keeps_free : keeps.
Ltac at_call := idtac;
  lazymatch goal with
  | |- via keeps (bind (out (OutApi _ _)) _) _ => idtac
  | |- via keeps (out (OutApi _ _)) _ => idtac
  end.
Ltac go := go_with keeps at_call ltac:(eauto with keeps).

Section keeps.
Context `{!Unordered, !Wire}.

Lemma keeps_answer_send d : via keeps answer_send d.
Proof. by apply keeps_same. Qed.
Lemma keeps_answer_id d : via keeps answer_id d.
Proof. by apply keeps_same. Qed.
Lemma keeps_answer_array d : via keeps answer_array d.
Proof. by apply keeps_same. Qed.
Lemma keeps_answer_alloc d : via keeps answer_alloc d.
Proof. by apply keeps_same. Qed.
Lemma keeps_answer_lib d : via keeps answer_lib d.
Proof. by apply keeps_same. Qed.
#[local] Hint Resolve keeps_answer_send keeps_answer_id keeps_answer_array keeps_answer_alloc keeps_answer_lib : keeps.

(** Runs the operations on handler [h], which is [c]. *)
Ltac run_on Hc :=
  unfold rel, bind, obind, out, modify, gets, ret, the, upd; repeat (rewrite ?Hc, ?lookup_insert_eq; cbn).

Ltac call_on Hc :=
  run_on Hc; eapply keeps_handler; [exact Hc|cbn; rewrite ?insert_insert_eq; first [reflexivity|symmetry; by apply insert_id]|reflexivity|reflexivity
    |intros k Hk; cbn; by rewrite decide_False|].

(** Solves [moves] after the members that decide were looked at. *)
Ltac moved :=
  unfold moves, point, pnext; cbn -[decide];
  repeat match goal with H : _ = true |- _ => rewrite H | H : _ = false |- _ => rewrite H end;
  rewrite ?decide_True by done; cbn;
  rewrite ?Z.eqb_refl; cbn;
  repeat match goal with H : _ = true |- _ => rewrite H | H : _ = false |- _ => rewrite H end; cbn;
  try (eexists; split; [reflexivity|intros ?; congruence]).
Ltac split_conds :=
  repeat match goal with
  | H : (_ && _) = true |- _ => apply andb_prop in H as [? ?]
  | H : negb _ = true |- _ => apply negb_true_iff in H
  end.
Ltac calls :=
  split_conds; lazymatch goal with
  | Hc : heap _ !! _ = Some ?c |- via keeps _ _ => call_on Hc; moved
  end.


Lemma keeps_no_sender h d : via keeps (upd h (set_mIpcSender false)) d.
Proof. apply keeps_upd. intros c s. unfold point. cbn. by destruct (mLocationApi c). Qed.
#[local] Hint Resolve keeps_no_sender : keeps.
Lemma keeps_cleanup h d : via keeps (cleanup h) d.
Proof.
  unfold cleanup. destruct (heap d !! h) as [c|] eqn:Hc; [|by unfold rel, bind, upd; rewrite Hc].
  go. calls.
Qed.
Lemma keeps_updateSubscription h mask d : via keeps (updateSubscription h mask) d.
Proof. unfold updateSubscription. go. all: calls. Qed.
Lemma keeps_startTracking_with h o d : via keeps (startTracking_with h o) d.
Proof. unfold startTracking_with. go. all: calls. Qed.
Lemma keeps_restartTracking h d : via keeps (restartTracking h) d.
Proof. unfold restartTracking. go. all: calls. Qed.
Lemma keeps_stopTracking_of h d : via keeps (stopTracking_of h) d.
Proof. unfold stopTracking_of. go. all: calls. Qed.
Lemma keeps_updateTrackingOptions_of h o d : via keeps (updateTrackingOptions_of h o) d.
Proof. unfold updateTrackingOptions_of. go. all: calls. Qed.
Lemma keeps_startBatching_of h i dist mode d : via keeps (startBatching_of h i dist mode) d.
Proof. unfold startBatching_of. go. all: calls. Qed.
Lemma keeps_stopBatching_of h d : via keeps (stopBatching_of h) d.
Proof. unfold stopBatching_of. go. all: calls. Qed.
Lemma keeps_updateBatchingOptions_of h i dist mode d : via keeps (updateBatchingOptions_of h i dist mode) d.
Proof. unfold updateBatchingOptions_of. go. all: calls. Qed.
Lemma keeps_addGeofences_of h o i d : via keeps (addGeofences_of h o i) d.
Proof. unfold addGeofences_of. go. all: calls. Qed.
Lemma keeps_call_geofences h ids call d :
  (∀ t b, pstep (PLive t b) call = Some (PLive t b)) -> via keeps (call_geofences h ids call) d.
Proof.
  intros Hcall. unfold call_geofences. go. split_conds.
  lazymatch goal with Hc : heap _ !! _ = Some ?c |- via keeps _ _ => call_on Hc end.
  rename select (mLocationApi _ = true) into Ha. unfold moves, point. rewrite Ha. eexists. split.
  - unfold pnext. cbn [call_of]. rewrite decide_True by done. apply Hcall.
  - intros ?. congruence.
Qed.

Lemma keeps_new c d : point c = Some PNone -> via keeps (new c) d.
Proof.
  intros Hp HI k. destruct (HI k) as (HI1 & HI2 & HI3). unfold at_point. cbn [heap next outputs put_heap put_next].
  destruct (decide (k = next d)) as [->|Hne].
  - rewrite lookup_insert_eq. destruct HI3 as [_ HI3]; [done|]. split_and!; [done| |lia].
    intros c0 s [= <-] Hs. congruence.
  - rewrite lookup_insert_ne by done. split_and!; [done..|]. intros Hle. apply HI3. lia.
Qed.
Lemma keeps_new_client name type d : via keeps (new_client name type) d.
Proof.
  unfold new_client. eapply (via_bind_done _ keeps); [reflexivity|by apply keeps_new|].
  destruct (type =? LOCATION_CLIENT_API); [|apply (via_ret _ keeps)].
  set (d1 := put_next _ _). set (c := Handler _ _ _ _ _ _ _ _ _ _ _ _ _ _ _ _ _ _ _) in *.
  assert (Hc : heap d1 !! next d = Some c) by apply lookup_insert_eq.
  unfold updateSubscription. call_on Hc. moved.
Qed.
Lemma keeps_any_pending l d : via keeps (any_pending l) d.
Proof. revert d. induction l as [|[n h] l IH]; intros d; simpl; go. Qed.
#[local] Hint Resolve keeps_cleanup keeps_updateSubscription keeps_startTracking_with keeps_restartTracking
  keeps_stopTracking_of keeps_updateTrackingOptions_of keeps_startBatching_of keeps_stopBatching_of
  keeps_updateBatchingOptions_of keeps_addGeofences_of keeps_new_client keeps_any_pending : keeps.
#[local] Hint Extern 1 (via keeps (call_geofences _ _ _) _) => apply keeps_call_geofences; reflexivity : keeps.
Lemma keeps_resume_clients l d : via keeps (resume_clients l) d.
Proof. revert d. induction l as [|[n h] l IH]; intros d; simpl; go. Qed.
Lemma keeps_allocate n d : via keeps (allocate n) d.
Proof. revert d. induction n as [|n IH]; intros d; simpl; go. Qed.
#[local] Hint Resolve keeps_resume_clients keeps_allocate : keeps.

Lemma keeps_handle e d : via keeps (handle e) d.
Proof. destruct e; simpl; go. Qed.

Lemma points_step d e d' : all_at_points d -> step d e = Some d' -> all_at_points d'.
Proof.
  intros Hd Hs. apply (step_via keeps _ _ _ (keeps_handle _ _) Hs).
  revert Hd. by apply keeps_same.
Qed.
Lemma points_started p e d : started p e = Some d -> all_at_points d.
Proof.
  unfold started. assert (via keeps (autostart p) (put_answers e (no_daemon (positionMode p)))) as Hv.
  { unfold autostart. go. }
  unfold rel in Hv. destruct (autostart _ _) as [[? d']| |]; [|done..]. intros [= <-]. apply Hv.
  intros h. split_and!; [done|done|]. done.
Qed.

(** C5: In every run of the daemon, the calls of each client on LocationAPI follow
    the protocol: they begin with an instance that has the
    mandatory callbacks, at most one tracking and one
    batching session run, only these are updated and stopped, and nothing follows
    the destruction.  The sessions that run are those that the client's members
    name. *)
Theorem api_calls_follow_protocol p e d es d' h :
  started p e = Some d -> run step d es = Some d' ->
  is_Some (follows h (outputs d')) ∧
  (∀ c, heap d' !! h = Some c -> mLocationApi c = true ->
    follows h (outputs d') = Some (PLive (mSessionId c) (mBatchingId c))).
Proof.
  intros Hp Hr. destruct (run_invariant_always step all_at_points _ _ _ points_step (points_started _ _ _ Hp) Hr h)
    as (H1 & H2 & _).
  split; [done|]. intros c Hc Ha. apply (H2 c); [done|]. unfold point. by rewrite Ha.
Qed.
End keeps.

(** A client registers, tracks with session 7, asks for another interval, is
    suspended, resumed with session 8, and leaves. *)
Definition tracking_run : list (event * env) :=
  [ registers "app";
    (Request "app" (LocAPIStartTrackingReqMsg every_second) [], with_ids [7]);
    (Request "app" (LocAPIUpdateTrackingOptionsReqMsg every_second) [], no_env);
    (PowerEvent POWER_STATE_SUSPEND, no_env);
    (PowerEvent POWER_STATE_RESUME, with_ids [8]);
    (Request "app" LocAPIClientDeregisterReqMsg [], no_env) ].
Definition resumed : daemon := Eval vm_compute in default plain_daemon (plain_run (take 5 tracking_run)).
Lemma api_calls_follow_protocol_witness :
  is_Some (follows 1%positive (outputs resumed)) ∧
  follows 1%positive (outputs resumed) = Some (PLive 8 0) ∧
  (follows 1%positive ∘ outputs <$> plain_run tracking_run) = Some (Some PGone).
Proof.
  assert (started plain_config no_env = Some plain_daemon) as Hs by (vm_compute; reflexivity).
  assert (plain_run (take 5 tracking_run) = Some resumed) as Hr by (vm_compute; reflexivity).
  destruct (@api_calls_follow_protocol stored_order every_wire _ _ _ _ _ 1%positive Hs Hr) as [Hf _].
  split; [exact Hf|]. split; vm_compute; reflexivity.
Defined.
