(* ===== verification/HalSafety.v ===== *)
(** Where the location daemon's behaviour is defined: an invariant of its clients
    and of its network location, which the defined events keep, and under which
    an event is undefined exactly in eight situations. *)

From stdpp Require Import list gmap strings.
From S2P Require Import Prelude Runs LocationEnums PbConversions ApiStructs PbMessages PbMsgConv IpcMessages.
From S2P Require Import IpcArrive IpcDispatch HalState HalClient HalService HalLogic.

Local Open Scope Z_scope.

(** * The invariant *)

Definition live (h : loc) (d : daemon) : Prop := is_Some (heap d !! h).

(** What the invariant says of a handler in the database. *)
Definition sound_client (n : string) (c : handler) : Prop :=
  mName c = n ∧ mIpcSender c = true ∧ (mLocationApi c = false -> mGeofenceIds c = None).
Record good (d : daemon) : Prop := {
  good_client n h : mClients d !! n = Some h ->
    (h < next d)%positive ∧ ∃ c, heap d !! h = Some c ∧ sound_client n c;
  good_fresh h : (next d ≤ h)%positive -> heap d !! h = None;
  good_api : mTerrestrialFixReqs d ≠ ∅ ∨ mOptInTerrestrialService d = 1 -> mGtpWwanSsLocationApi d = true
}.

(** Steps that change nothing of that. *)
Definition core (c : handler) : string * bool * bool * bool :=
  (mName c, mIpcSender c, mLocationApi c, bool_decide (mLocationApi c = true ∨ mGeofenceIds c = None)).
Definition calm (d d' : daemon) : Prop :=
  mClients d' = mClients d ∧ mTerrestrialFixReqs d' = mTerrestrialFixReqs d ∧
  mGtpWwanSsLocationApi d' = mGtpWwanSsLocationApi d ∧
  mOptInTerrestrialService d' = mOptInTerrestrialService d ∧ next d' = next d ∧
  ∀ h, core <$> heap d' !! h = core <$> heap d !! h.
#[export] Instance calm_preorder : PreOrder calm.
Proof.
  split; [done|]. intros d1 d2 d3 (a1&a2&a3&a4&a5&a6) (b1&b2&b3&b4&b5&b6).
  split_and!; congruence || (intros; congruence).
Qed.
Definition goods (d d' : daemon) : Prop := good d -> good d'.
#[export] Instance goods_preorder : PreOrder goods.
Proof. split; unfold goods; [by intros d|by intros d1 d2 d3; auto]. Qed.

Lemma sound_core n c c' : core c = core c' -> sound_client n c -> sound_client n c'.
Proof.
  unfold core, sound_client. intros [= E1 E2 E3 E4] (H1 & H2 & H3).
  split_and!; [congruence|congruence|]. intros Ha.
  assert (mLocationApi c' = true ∨ mGeofenceIds c' = None) as [|]; [|congruence|done].
  apply (bool_decide_eq_true_1 _). rewrite <- E4. apply bool_decide_eq_true_2.
  right. apply H3. congruence.
Qed.
Lemma calm_lookup d d' h c : calm d d' -> heap d !! h = Some c -> ∃ c', heap d' !! h = Some c' ∧ core c = core c'.
Proof.
  intros (_&_&_&_&_&H) Hc. specialize (H h). rewrite Hc in H.
  destruct (heap d' !! h) as [c'|]; [|done]. exists c'. split; [done|]. cbn in H. congruence.
Qed.
Lemma calm_good d d' : calm d d' -> goods d d'.
Proof.
  intros Hcalm. destruct (Hcalm) as (a1&a2&a3&a4&a5&a6). intros [G1 G2 G4]. split; rewrite ?a1, ?a2, ?a3, ?a4, ?a5; auto.
  - intros n h Hn. destruct (G1 _ _ Hn) as (Hlt & c & Hc & Hs). split; [done|].
    destruct (calm_lookup _ _ _ _ Hcalm Hc) as (c' & Hc' & He). eauto using sound_core.
  - intros h Hh. specialize (a6 h). rewrite G2 in a6 by done. by destruct (heap d' !! h).
Qed.
Lemma calm_live h d d' : live h d -> calm d d' -> live h d'.
Proof. intros [c Hc] Hd. destruct (calm_lookup _ _ _ _ Hd Hc) as (c' & Hc' & _). by exists c'. Qed.
Lemma runs_impl {A} (R S : daemon -> daemon -> Prop) (m : Dm A) d :
  (∀ d', R d d' -> S d d') -> runs R m d -> runs S m d.
Proof. unfold rel. case_match; [|done..]. destruct a. eauto. Qed.

(** ** Steps that are calm *)

Lemma calm_same d d' :
  heap d' = heap d -> next d' = next d -> mClients d' = mClients d ->
  mTerrestrialFixReqs d' = mTerrestrialFixReqs d -> mGtpWwanSsLocationApi d' = mGtpWwanSsLocationApi d ->
  mOptInTerrestrialService d' = mOptInTerrestrialService d -> calm d d'.
Proof. intros E1 E2 E3 E4 E5 E6. unfold calm. rewrite E1. by split_and!. Qed.
Lemma calm_upd_at h f c d : heap d !! h = Some c -> core (f c) = core c -> runs calm (upd h f) d.
Proof.
  intros Hc Hf. unfold rel. rewrite (upd_done _ _ _ Hc). split_and!; try done. intros k. cbn.
  destruct (decide (k = h)) as [->|]; [rewrite lookup_insert_eq, Hc; cbn; by rewrite Hf|by rewrite lookup_insert_ne].
Qed.
Lemma calm_upd h f d : live h d -> (∀ c, core (f c) = core c) -> runs calm (upd h f) d.
Proof. intros [c Hc] Hf. eauto using calm_upd_at. Qed.
Lemma calm_bind_the {B} h (k : handler -> Dm B) d :
  live h d -> (∀ c, heap d !! h = Some c -> runs calm (k c) d) -> runs calm (bind (the h) k) d.
Proof. intros [c Hc] Hk. unfold rel. rewrite (bind_the _ _ _ Hc). by apply Hk. Qed.
Lemma calm_elements {A} n (l : list A) d : (n ≤ length l)%nat -> runs calm (elements n l) d.
Proof. intros Hn. unfold elements. rewrite decide_True by done. by apply via_ret; apply _. Qed.
Lemma elements_done {A} n (l : list A) d : (n ≤ length l)%nat -> elements n l d = Done (take n l, d).
Proof. intros Hn. unfold elements. by rewrite decide_True. Qed.

Create HintDb calm.
#[export] Hint Resolve calm_live : calm.
#[export] Hint Extern 1 (calm _ _) => apply calm_same; reflexivity : calm.
#[export] Hint Extern 1 (runs calm answer_send _) => apply calm_same; reflexivity : calm.
#[export] Hint Extern 1 (runs calm answer_id _) => apply calm_same; reflexivity : calm.
#[export] Hint Extern 1 (runs calm answer_array _) => apply calm_same; reflexivity : calm.
#[export] Hint Extern 1 (runs calm answer_alloc _) => apply calm_same; reflexivity : calm.
#[export] Hint Extern 1 (runs calm answer_lib _) => apply calm_same; reflexivity : calm.
#[export] Hint Extern 1 (runs calm (upd _ _) _) => apply calm_upd; [eauto with calm|reflexivity] : calm.
Ltac calmly :=
  repeat lazymatch goal with
  | |- runs calm (ret _) _ => apply (via_ret _ calm)
  | |- runs calm (gets _) _ => apply (via_gets _ calm)
  | |- runs calm (bind (gets _) _) _ => apply (via_bind_gets _ calm)
  | |- runs calm (bind (the _) _) _ => apply calm_bind_the; [eauto with calm|intros]
  | |- runs calm (bind _ _) _ => apply (via_bind _ calm); [|intros]
  | |- runs calm (if _ then _ else _) _ => first [apply (via_if _ calm); intros | case_match]
  | |- runs calm (match _ with _ => _ end) _ => case_match
  | |- calm _ (match _ with _ => _ end) => case_match
  | |- runs calm (modify _) _ => apply via_modify
  | |- runs calm ?m _ => first [ solve [eauto with calm] | let f := get_head m in unfold f | progress cbv beta ]
  | |- _ => solve [eauto with calm]
  end.

Section safety.
Context `{!Unordered, !Wire}.

(** The messages of the daemon itself, and the reports that it passes on. *)
Definition own_message (m : LocAPIMsg) : bool :=
  match m with
  | LocAPIGenericRespMsg _ _ | LocAPICapabilitiesIndMsg _ | LocAPIGetSingleTerrestrialPosRespMsg _ _
  | LocAPIGnssEnergyConsumedIndMsg _ | LocAPIPingTestReqMsg _ | LocAPIPingTestIndMsg _
  | LocConfigGetRobustLocationConfigRespMsg _ | LocConfigGetMinGpsWeekRespMsg _
  | LocConfigGetMinSvElevationRespMsg _ | LocConfigGetConstellationSecondaryBandConfigRespMsg _ => true
  | LocAPIBatchingIndMsg b => LocAPIBatchNotification_count b =? 0
  | _ => false
  end.
Context (own_wire : ∀ m, own_message m = true -> wire m ≠ None).

Lemma calm_updateSubscription h mask d : live h d -> runs calm (updateSubscription h mask) d.
Proof. intros Hl. calmly. Qed.
Lemma calm_startTracking_with h o d : live h d -> runs calm (startTracking_with h o) d.
Proof. intros Hl. calmly. Qed.
Lemma calm_restartTracking h d : live h d -> runs calm (restartTracking h) d.
Proof. intros Hl. calmly. Qed.
Lemma calm_stopTracking_of h d : live h d -> runs calm (stopTracking_of h) d.
Proof. intros Hl. calmly. Qed.
Lemma calm_addGeofences_of h o i d : live h d -> runs calm (addGeofences_of h o i) d.
Proof.
  intros Hl. unfold addGeofences_of. calmly. rename select (_ && mLocationApi c = true) into Ha.
  apply andb_prop in Ha as [_ Ha]. rename select (calm d _) into C1. rename select (calm d' _) into C2.
  destruct (calm_lookup _ _ _ _ C1 ltac:(eassumption)) as (c1 & Hc1 & E1).
  destruct (calm_lookup _ _ _ _ C2 Hc1) as (c2 & Hc2 & E2).
  apply (calm_upd_at _ _ _ _ Hc2). unfold core in *. cbn. injection E1 as _ _ E1 _. injection E2 as _ _ E2 _.
  assert (mLocationApi c2 = true) as -> by congruence. done.
Qed.

Lemma calm_then {A B} (m : Dm A) (k : A -> Dm B) d :
  runs calm m d -> (∀ a d', calm d d' -> runs goods (k a) d') -> runs goods (bind m k) d.
Proof.
  unfold rel, bind, obind. destruct (m d) as [[a d']| |]; [|done..]. intros Hm Hk.
  specialize (Hk a d' Hm). destruct (k a d') as [[b d'']| |]; [|done..].
  etrans; [by apply calm_good|done].
Qed.

(** ** Clients come and go *)

Lemma good_buried n h c d : good d -> mClients d !! n = Some h -> heap d !! h = Some c -> good (buried n h c d).
Proof.
  intros G Hn Hc. destruct (good_client d G _ _ Hn) as (Hlt & c0 & Hc0 & Hs). simplify_eq.
  split; cbn [heap next mClients mTerrestrialFixReqs mGtpWwanSsLocationApi mOptInTerrestrialService buried put_heap
              put_mClients put_mTerrestrialFixReqs put_outputs].
  - intros n' k Hk. apply lookup_delete_Some in Hk as [Hne Hk].
    destruct (good_client d G _ _ Hk) as (Hlt' & c' & Hc' & Hs'). split; [done|]. exists c'. split; [|done].
    assert (h ≠ k). { intros <-. simplify_eq. destruct Hs as [? _], Hs' as [? _]. congruence. }
    case_match; [by rewrite lookup_insert_ne|by rewrite lookup_delete_ne].
  - intros k Hk. assert (h ≠ k) by lia. pose proof (good_fresh d G k Hk).
    case_match; [by rewrite lookup_insert_ne|by rewrite lookup_delete_ne].
  - intros [Hne|Ho]; apply (good_api d G); [left|by right]. intros E. apply Hne. rewrite E. apply delete_empty.
Qed.
Lemma good_delete n d : good d -> runs goods (deleteClientbyName n) d.
Proof.
  intros G. unfold rel. destruct (mClients d !! n) as [h|] eqn:Hn.
  - destruct (good_client d G _ _ Hn) as (Hlt & c & Hc & Hs).
    rewrite (delete_run _ _ _ _ Hn Hc). intros _. by apply good_buried.
  - by rewrite delete_nobody.
Qed.
Lemma good_newClient n type d : good d -> runs goods (newClient n type) d.
Proof.
  intros G. unfold newClient, getClient. apply (via_bind_gets _ goods).
  destruct (mClients d !! n) as [h|] eqn:Hn; [by apply (via_ret _ goods)|].
  unfold rel, bind. rewrite new_client_run. cbn. intros _. destruct G as [G1 G2 G4]. split; cbn.
  - intros n' k Hk. apply lookup_insert_Some in Hk as [[<- <-]|[Hne Hk]].
    + split; [lia|]. exists (newborn n type). rewrite lookup_insert_eq. split; [done|].
      unfold newborn. case_match; by split_and!.
    + destruct (G1 _ _ Hk) as (Hlt & c & Hc & Hs). split; [lia|]. exists c. by rewrite lookup_insert_ne by lia.
  - intros k Hk. rewrite lookup_insert_ne by lia. apply G2. lia.
  - done.
Qed.

(** ** Sending *)

Lemma calm_sendMessage h c m d : heap d !! h = Some c -> mIpcSender c = true -> runs calm (sendMessage h m) d.
Proof. intros Hc Hs. unfold sendMessage, rel. rewrite (bind_the _ _ _ Hc), Hs. by apply calm_same. Qed.
Lemma good_send_or_purge h c m d :
  good d -> heap d !! h = Some c -> mIpcSender c = true -> wire m ≠ None -> runs goods (send_or_purge h m) d.
Proof.
  intros G Hc Hs Hm. unfold send_or_purge. destruct (wire m) as [[]|]; [|by apply (via_ret _ goods)|done].
  apply calm_then; [by eapply calm_sendMessage|]. intros rc d' Hcalm.
  apply (via_if _ goods); intros _; [by apply (via_ret _ goods)|].
  destruct (calm_lookup _ _ _ _ Hcalm Hc) as (c' & Hc' & _).
  unfold rel. rewrite (bind_the _ _ _ Hc'). apply good_delete. by eapply calm_good.
Qed.

(** * Which events are undefined *)

(** What other code keeps to: LocationAPI calls back only for handlers that exist,
    and destroys only those that left; the arrays are as long as is said; the
    structs of a report can be converted. *)
Definition reportable (m : LocAPIMsg) : Prop := wire m ≠ None.
Definition request_ok (m : LocAPIMsg) (v : env) : Prop :=
  match m with
  | LocAPIAddGeofencesReqMsg g =>
      let count := Z.to_nat (GeofencesAddedReqPayload_count g) in
      (count ≤ length (GeofencesAddedReqPayload_gfPayload g))%nat ∧
      Forall (λ a, ∀ l, a = Some l -> (count ≤ length l)%nat) (arrays v)
  | LocAPIModifyGeofencesReqMsg g =>
      (Z.to_nat (GeofencesAddedReqPayload_count g) ≤ length (GeofencesAddedReqPayload_gfPayload g))%nat
  | LocAPIRemoveGeofencesReqMsg g | LocAPIPauseGeofencesReqMsg g | LocAPIResumeGeofencesReqMsg g =>
      (Z.to_nat (GeofencesReqClientIdPayload_count g) ≤ length (GeofencesReqClientIdPayload_gfIds g))%nat
  | _ => True
  end.
Definition wanted (c : handler) (l : list GnssLocationInfoNotification) : list GnssLocationInfoNotification :=
  filter (λ i, engine_requested (LocationOptions_locReqEngTypeMask (mOptions c)) i = true) l.
Definition event_ok (d : daemon) (e : event) (v : env) : Prop :=
  match e with
  | Request n m _ => request_ok m v
  | ResponseCb h _ _ | CapabilitiesCb h _ | BatchingCb h _ | BatchingStatusCb h _ | GeofenceBreachCb h _ => live h d
  | CollectiveResponseCb h errs ids => live h d ∧ (length ids ≤ length errs)%nat
  | DestroyCompleteCb h => live h d ∧ ∀ n, mClients d !! n ≠ Some h
  | TrackingCb h l => live h d ∧ reportable (LocAPILocationIndMsg l)
  | GnssLocationInfoCb h n => live h d ∧ reportable (LocAPILocationInfoIndMsg n) ∧
      reportable (LocAPILocationIndMsg (GnssLocationInfoNotification_location n))
  | EngLocationsInfoCb h l => ∃ c, heap d !! h = Some c ∧
      reportable (LocAPIEngineLocationsInfoIndMsg (Z.of_nat (length (wanted c l))) (wanted c l))
  | GnssSvCb h n => live h d ∧ reportable (LocAPISatelliteVehicleIndMsg n)
  | GnssNmeaCb h t n => live h d ∧ reportable (LocAPINmeaIndMsg (MkLocAPINmeaSerializedPayload t n))
  | GnssDataCb h n => live h d ∧ reportable (LocAPIDataIndMsg n)
  | GnssMeasurementsCb h n => live h d ∧ reportable (LocAPIMeasIndMsg n)
  | LocationSystemInfoCb h n => live h d ∧ reportable (LocAPILocationSystemInfoIndMsg n)
  | _ => True
  end.

(** The eight situations.  (1) to (3): a geofence response, a batch and a breach for
    a client are put in a message that no constructor made.  (4) more reports than
    engines.  (5) A client without LocationAPI is purged because the answer to its
    request cannot be sent, and is then sent the configuration.  (6) A client is
    purged, and erased from the map, while the loop that tells all clients of the
    energy traverses the map.  (7) A terrestrial fix arrives, and the name of a
    request for it is not that of a client.  (8) Maintenance finds that a client is
    gone, and deletes it without the lock while another thread holds the lock. *)
Definition allocated (n : nat) (v : env) : Prop := Forall (λ b, b = true) (take n (allocs v)).
Definition hears (d : daemon) (h : loc) (bits : Z) (c : handler) : Prop :=
  heap d !! h = Some c ∧ mIpcSender c = true ∧ subscribed bits c = true.
Definition waits_for_energy (d : daemon) (h : loc) : bool :=
  match heap d !! h with Some c => hasPendingEngineInfoRequest c | None => false end.
Definition energy_waiters (d : daemon) (l : list (string * loc)) : nat :=
  length (filter (λ x, waits_for_energy d x.2 = true) l).
Definition hazard (d : daemon) (e : event) (v : env) : Prop :=
  match e with
  | CollectiveResponseCb h _ ids => ∃ c, heap d !! h = Some c ∧ mIpcSender c = true ∧ ids ≠ [] ∧
      front (mGfPendingMessages c) ∈ geofence_requests ∧ allocated 2 v
  | BatchingCb h l => ∃ c, hears d h E_LOC_CB_BATCHING_BIT c ∧ l ≠ [] ∧ allocated 1 v
  | GeofenceBreachCb h ids => ∃ c, hears d h E_LOC_CB_GEOFENCE_BREACH_BIT c ∧ ids ≠ [] ∧ allocated 2 v
  | EngLocationsInfoCb h l => ∃ c, hears d h E_LOC_CB_ENGINE_LOCATIONS_INFO_BIT c ∧
      (4 < length (wanted c l))%nat
  | GnssConfigCb sid _ => ∃ r h c, mConfigReqs d !! sid = Some r ∧ mClients d !! clientName r = Some h ∧
      heap d !! h = Some c ∧ mLocationApi c = false ∧ hd true (sends v) = false ∧
      wire (LocAPIGenericRespMsg (configMsgId r) LOCATION_ERROR_SUCCESS) = Some true
  | GnssEnergyConsumedCb total =>
      ¬ Forall (λ b, b = true) (take (energy_waiters d (map_to_list (mClients d))) (sends v)) ∧
      wire (LocAPIGnssEnergyConsumedIndMsg total) = Some true
  | GtpWwanTrackingCb l => has (Location_flags l) LOCATION_HAS_LAT_LONG_BIT = true ∧
      mOptInTerrestrialService d = 1 ∧ ∃ n, is_Some (mTerrestrialFixReqs d !! n) ∧ mClients d !! n = None
  | CheckClient data racing => racing = true ∧ clientsToCheck d ≠ [] ∧
      (wire (LocAPIPingTestReqMsg data) = Some true -> hd true (sends v) = false)
  | _ => False
  end.

Lemma calm_goods {A} (m : Dm A) d : runs calm m d -> runs goods m d.
Proof. apply runs_impl, calm_good. Qed.
Lemma good_with_client n f d :
  good d ->
  (∀ h c, mClients d !! n = Some h -> heap d !! h = Some c -> sound_client n c -> runs goods (f h) d) ->
  runs goods (with_client n f) d.
Proof.
  intros G Hf. unfold with_client, getClient. apply (via_bind_gets _ goods).
  destruct (mClients d !! n) as [h|] eqn:Hn; [|by apply (via_ret _ goods)].
  destruct (good_client d G _ _ Hn) as (_ & c & Hc & Hs). eauto.
Qed.
Lemma calm_with_client n f d : good d -> (∀ h, live h d -> runs calm (f h) d) -> runs goods (with_client n f) d.
Proof. intros G Hf. apply good_with_client; [done|]. intros h c _ Hc _. apply calm_goods, Hf. by exists c. Qed.

(** ** Requests *)

Lemma good_tracking n o d :
  good d ->
  runs goods (startTracking n o) d ∧ runs goods (stopTracking n) d ∧ runs goods (updateTrackingOptions n o) d.
Proof. intros G. split_and!; apply calm_with_client; intros; try done; calmly. Qed.
Lemma good_batching n i dist mode d :
  good d ->
  runs goods (startBatching n i dist mode) d ∧ runs goods (stopBatching n) d ∧
  runs goods (updateBatchingOptions n i dist mode) d.
Proof. intros G. split_and!; apply calm_with_client; intros; try done; calmly. Qed.
Lemma good_on_geofences n g call id d :
  (∀ h l d, live h d -> runs calm (call h l) d) ->
  (Z.to_nat (GeofencesReqClientIdPayload_count g) ≤ length (GeofencesReqClientIdPayload_gfIds g))%nat ->
  good d -> runs goods (on_geofences n g call id) d.
Proof.
  intros Hcall Hn G. apply calm_with_client; [done|]. intros h Hl.
  eapply (via_bind_done _ calm); [by apply elements_done|done|]. calmly.
Qed.
Lemma calm_allocate n d : runs calm (allocate n) d.
Proof. revert d. induction n as [|n IH]; intros d; simpl; calmly. Qed.
Hint Resolve calm_allocate : calm.
Lemma good_modifyGeofences n g d :
  (Z.to_nat (GeofencesAddedReqPayload_count g) ≤ length (GeofencesAddedReqPayload_gfPayload g))%nat ->
  good d -> runs goods (modifyGeofences n g) d.
Proof.
  intros Hn G. apply calm_with_client; [done|]. intros h Hl. apply (via_if _ calm); intros; [calmly|].
  apply (via_bind _ calm); [calmly|]. intros a d' Hd'. apply (via_if _ calm); intros; [calmly|].
  eapply (via_bind_done _ calm); [by apply elements_done|done|]. calmly.
Qed.

(** The arrays that malloc and LocationAPI give. *)
Lemma allocate_run n d : ∃ b v, allocate n d = Done (b, put_answers v d) ∧ arrays v = arrays (answers d).
Proof.
  revert d. induction n as [|n IH]; intros d; simpl.
  - exists true, (answers d). split; [by destruct d|done].
  - unfold bind, obind, answer_alloc. cbn. destruct (IH (put_answers
      (Env (sends (answers d)) (ids (answers d)) (arrays (answers d)) (tail (allocs (answers d))) (libs (answers d))) d))
      as (b & v & -> & Hv). cbn. eexists _, v. split; [by destruct d|done].
Qed.
Lemma good_addGeofences n g d :
  request_ok (LocAPIAddGeofencesReqMsg g) (answers d) -> good d -> runs goods (addGeofences n g) d.
Proof.
  intros [Hn Ha] G. apply good_with_client; [done|]. intros h c _ Hc (Hname & Hs & Hi). apply calm_goods.
  apply (via_if _ calm); intros _; [calmly|].
  destruct (allocate_run 3 d) as (b & v & Hrun & Hv). eapply (via_bind_done _ calm); [done|by apply calm_same|].
  destruct b; cbn [negb]; [|calmly].
  eapply (via_bind_done _ calm); [by apply elements_done|done|]. set (l := take _ _).
  apply (via_bind_any _ calm); [apply calm_addGeofences_of; by exists c|]. intros sessions d' Hadd Hd'.
  destruct sessions as [sessions|]; [|calmly].
  assert (live h d') as Hl by (eapply calm_live; [|done]; by exists c).
  eapply (via_bind_done _ calm); [apply elements_done|done|calmly].
  unfold addGeofences_of, bind, the in Hadd. cbn [put_answers heap] in Hadd. rewrite Hc in Hadd.
  cbn [obind] in Hadd. destruct ((0 <? _)%nat && mLocationApi c) eqn:Hcond.
  - unfold answer_array, out, modify, upd in Hadd. cbn in Hadd. rewrite Hc in Hadd. cbn in Hadd.
    rewrite lookup_insert_eq in Hadd. cbn in Hadd. injection Hadd as Hadd _. rewrite Hv in Hadd.
    destruct (arrays (answers d)) as [|a l']; [done|]. cbn in Hadd. subst a.
    rewrite Forall_cons in Ha. destruct Ha as [Ha _]. specialize (Ha _ eq_refl).
    subst l. rewrite length_take. lia.
  - cbn in Hadd. rewrite Hc in Hadd. injection Hadd as Hadd _.
    apply andb_false_iff in Hcond as [Hcond|Hcond].
    + rewrite length_fmap in Hcond. apply Nat.ltb_ge in Hcond. lia.
    + rewrite Hi in Hadd; done.
Qed.

Lemma good_generic h c err id d :
  good d -> heap d !! h = Some c -> runs goods (onControlResponseCb_of h err id) d.
Proof.
  intros G Hc. unfold onControlResponseCb_of, report_if, rel. rewrite (bind_the _ _ _ Hc), andb_true_r.
  apply (via_if _ goods); intros Hs; [|by apply (via_ret _ goods)].
  apply (good_send_or_purge _ _ _ _ G Hc Hs). by apply own_wire.
Qed.
Lemma good_addConfig sid n id d : good d -> runs goods (addConfigRequestToMap sid n id) d.
Proof.
  intros G. apply (via_if _ goods); intros _.
  - apply via_modify. apply calm_good. case_match; by apply calm_same.
  - apply good_with_client; [done|]. intros h c _ Hc _. by eapply good_generic.
Qed.
Lemma good_then {A B} (m : Dm A) (k : A -> Dm B) d :
  good d -> runs calm m d -> (∀ a d', good d' -> runs goods (k a) d') -> runs goods (bind m k) d.
Proof. intros G Hm Hk. apply calm_then; [done|]. intros a d' Hd'. by apply Hk, (calm_good _ _ Hd'). Qed.
Lemma goods_bind {A B} (m : Dm A) (k : A -> Dm B) d :
  good d -> runs goods m d -> (∀ a d', good d' -> runs goods (k a) d') -> runs goods (bind m k) d.
Proof. intros G Hm Hk. apply (via_bind _ goods); [done|]. intros a d' Hd'. by apply Hk, Hd'. Qed.
Lemma good_configure c n id d : good d -> runs goods (configure c n id) d.
Proof. intros G. apply good_then; [done|calmly|]. intros. by apply good_addConfig. Qed.
Lemma good_each d (l : list (string * loc)) :
  good d -> l ≡ₚ map_to_list (mClients d) -> Forall (λ x, live x.2 d) l.
Proof.
  intros G Hl. rewrite Hl. apply Forall_forall. intros [n h] Hx. apply elem_of_map_to_list in Hx.
  destruct (good_client d G _ _ Hx) as (_ & c & Hc & _). by exists c.
Qed.
Lemma Forall_live {A} (h : A -> loc) l d d' :
  Forall (λ x, live (h x) d) l -> calm d d' -> Forall (λ x, live (h x) d') l.
Proof. intros Hl Hd. apply (Forall_impl _ _ _ Hl). intros y Hy. exact (calm_live _ _ _ Hy Hd). Qed.
Lemma calm_for_each {A} (f : A -> Dm unit) (h : A -> loc) l d :
  (∀ x d, live (h x) d -> runs calm (f x) d) -> Forall (λ x, live (h x) d) l -> runs calm (for_each f l) d.
Proof.
  intros Hf. revert d. induction l as [|x l IH]; intros d Hl; simpl; [calmly|].
  apply Forall_cons in Hl as [Hx Hl]. apply (via_bind _ calm); [by apply Hf|]. intros _ d' Hd'. apply IH.
  by eapply Forall_live.
Qed.
Lemma calm_suspendAll d : good d -> runs calm suspendAllTrackingSessions d.
Proof.
  intros G. apply (via_bind_gets _ calm). apply (calm_for_each _ snd); [intros; calmly|].
  apply good_each; [done|apply clients_in_order_perm].
Qed.
Lemma calm_resumeAll d : good d -> runs calm resumeAllTrackingSessions d.
Proof.
  intros G. apply (via_bind_gets _ calm). pose proof (good_each d _ G (clients_in_order_perm _)) as Hl. revert Hl.
  generalize (clients_in_order (mClients d)). intros l. clear G. revert d.
  induction l as [|[n h] l IH]; intros d Hl; simpl; [calmly|]. apply Forall_cons in Hl as [Hx Hl]. cbn in Hx.
  apply calm_bind_the; [done|]. intros c Hc. apply (via_if _ calm); intros _; [|by apply IH].
  apply (via_bind _ calm); [by apply calm_restartTracking|]. intros id d' Hd'.
  apply (via_if _ calm); intros _; [calmly|]. apply (via_bind _ calm); [calmly|]. intros _ d'' Hd''. apply IH.
  eapply (Forall_live snd); [by eapply (Forall_live snd)|done].
Qed.
Lemma calm_getGnssInterface d : runs calm getGnssInterface d.
Proof. calmly. Qed.
Lemma good_deletion n data id d : good d -> runs goods (configAidingDataDeletion n data id) d.
Proof.
  intros G. apply good_then; [done|by apply calm_suspendAll|]. intros _ d1 G1.
  apply good_then; [done|calmly|]. intros sid d2 G2.
  apply goods_bind; [done|by apply good_addConfig|]. intros _ d3 G3.
  apply (via_bind_gets _ goods). apply (via_if _ goods); intros _; [by apply (via_ret _ goods)|].
  by apply calm_goods, calm_resumeAll.
Qed.

(** ** Terrestrial fixes *)

Lemma calm_fix h c err l d : heap d !! h = Some c -> mIpcSender c = true -> runs calm (sendTerrestrialFix h err l) d.
Proof.
  intros Hc Hs. unfold sendTerrestrialFix.
  pose proof (own_wire (LocAPIGetSingleTerrestrialPosRespMsg err l) eq_refl) as Hw.
  destruct (wire _) as [[]|]; [|calmly|done].
  apply (via_bind _ calm); [by eapply calm_sendMessage|intros; calmly].
Qed.
Lemma calm_fix_client n err l d :
  good d -> runs calm (with_client n (λ h, sendTerrestrialFix h err l)) d.
Proof.
  intros G. unfold with_client, getClient. apply (via_bind_gets _ calm).
  destruct (mClients d !! n) as [h|] eqn:Hn; [|calmly].
  destruct (good_client d G _ _ Hn) as (_ & c & Hc & _ & Hs & _). exact (calm_fix _ _ _ _ _ Hc Hs).
Qed.
Lemma good_insert_fix n t d :
  mGtpWwanSsLocationApi d = true -> good d ->
  good (put_mTerrestrialFixReqs (<[n := t]> (mTerrestrialFixReqs d)) d).
Proof. intros Ha [G1 G2 G4]. by split. Qed.
Lemma good_fewer_fixes m d : m ⊆ mTerrestrialFixReqs d -> good d -> good (put_mTerrestrialFixReqs m d).
Proof.
  intros Hm [G1 G2 G4]. split; cbn; try done.
  intros [Hne|Ho]; apply G4; [left|by right]. intros E. apply Hne, map_empty. intros k. destruct (m !! k) as [x|] eqn:Ek; [|done]. pose proof (lookup_weaken _ _ _ _ Ek Hm) as Hk. by rewrite E in Hk.
Qed.
Lemma calm_network d : mGtpWwanSsLocationApi d = true ->
  runs calm startNetworkLocation d ∧ runs calm stopNetworkLocation d.
Proof. intros Ha. split; apply (via_bind_gets _ calm); rewrite Ha; calmly. Qed.

Lemma good_getSingleTerrestrialPos n t d :
  good d -> runs goods (getSingleTerrestrialPos n t) d.
Proof.
  intros G. apply (via_bind_gets _ goods). apply (via_if _ goods); intros Ho.
  { by apply calm_goods, calm_fix_client. }
  apply negb_false_iff, Z.eqb_eq in Ho. pose proof (good_api d G (or_intror Ho)) as Ha.
  set (d1 := match mTerrestrialFixReqs d !! n with Some _ => d
             | None => put_mTerrestrialFixReqs (<[n := t]> (mTerrestrialFixReqs d)) d end).
  assert (good d1 ∧ mGtpWwanSsLocationApi d1 = true) as [G1 Ha1].
  { unfold d1. case_match; [done|]. split; [by apply good_insert_fix|done]. }
  eapply (via_bind_done _ goods _ _ tt _ d1); [reflexivity|by intros _|].
  apply (via_bind_gets _ goods). apply (via_if _ goods); intros _; [|by apply (via_ret _ goods)].
  by apply calm_goods, calm_network.
Qed.
Lemma good_gtpFixRequestTimeout n d : good d -> runs goods (gtpFixRequestTimeout n) d.
Proof.
  intros G. apply (via_bind_gets _ goods). destruct (mTerrestrialFixReqs d !! n) as [t|] eqn:Ht;
    [|by apply (via_ret _ goods)].
  apply calm_then; [by apply calm_fix_client|]. intros _ d1 C1. pose proof (calm_good _ _ C1 G) as G1.
  assert (mGtpWwanSsLocationApi d1 = true) as Ha.
  { destruct C1 as (_ & _ & -> & _). apply (good_api d G). left. intros E. rewrite E in Ht. done. }
  eapply (via_bind_done _ goods); [reflexivity|intros _; apply good_fewer_fixes; [apply delete_subseteq|done]|].
  apply (via_bind_gets _ goods). apply (via_if _ goods); intros _; [|by apply (via_ret _ goods)].
  by apply calm_goods, calm_network.
Qed.
Lemma calm_fixes l (fixes : list (string * Z)) d :
  good d -> Forall (λ x, is_Some (mClients d !! x.1)) fixes -> runs calm (for_each (send_fix_to l) fixes) d.
Proof.
  revert d. induction fixes as [|[n t] fixes IH]; intros d G Hl; simpl; [calmly|].
  apply Forall_cons in Hl as [[h Hn] Hl]. cbn in Hn.
  destruct (good_client d G _ _ Hn) as (_ & c & Hc & _ & Hs & _).
  apply (via_bind _ calm).
  - unfold send_fix_to, getClient. apply (via_bind_gets _ calm). cbn. rewrite Hn. exact (calm_fix _ _ _ _ _ Hc Hs).
  - intros _ d' Hd'. apply IH; [by apply (calm_good _ _ Hd')|]. destruct Hd' as (-> & _). done.
Qed.
(** The first request of someone who is not a client. *)
Lemma strange_fix l (fixes : list (string * Z)) d :
  good d -> Exists (λ x, mClients d !! x.1 = None) fixes -> for_each (send_fix_to l) fixes d = Undefined.
Proof.
  revert d. induction fixes as [|[n t] fixes IH]; intros d G Hl; simpl; [by apply Exists_nil in Hl|].
  unfold send_fix_to at 1, getClient, bind at 1 2. cbn [gets obind fst].
  destruct (mClients d !! n) as [h|] eqn:Hn; [|done].
  apply Exists_cons in Hl as [Hx|Hl]; [cbn in Hx; congruence|].
  destruct (good_client d G _ _ Hn) as (_ & c & Hc & _ & Hs & _).
  pose proof (calm_fix h c LOCATION_ERROR_SUCCESS l d Hc Hs) as Hr. unfold rel in Hr.
  destruct (sendTerrestrialFix _ _ _ d) as [[? d']| |]; [|done..]. cbn [obind].
  apply IH; [by apply (calm_good _ _ Hr)|]. destruct Hr as (-> & _). done.
Qed.
Lemma good_onGtpWwan l d :
  good d -> ¬ hazard d (GtpWwanTrackingCb l) (answers d) -> runs goods (onGtpWwanTrackingCallback l) d.
Proof.
  intros G Hz. apply (via_bind_gets _ goods). apply (via_if _ goods); intros Hc; [|by apply (via_ret _ goods)].
  unfold id in Hc. apply andb_prop in Hc as [Hc Ho]. apply andb_prop in Hc as [_ Hc]. apply Z.eqb_eq in Ho.
  apply calm_then.
  { apply calm_fixes; [done|]. apply Forall_forall. intros [n t] Hx. apply not_eq_None_Some. intros Hn. apply Hz.
    split_and!; [done..|]. exists n. split; [|done]. exists t.
    rewrite fixes_in_order_perm in Hx. by apply elem_of_map_to_list in Hx. }
  intros _ d1 C1. pose proof (calm_good _ _ C1 G) as G1.
  assert (mGtpWwanSsLocationApi d1 = true) as Ha.
  { destruct C1 as (_ & _ & -> & _). apply (good_api d G). by right. }
  eapply (via_bind_done _ goods); [reflexivity|intros _; apply good_fewer_fixes; [apply map_empty_subseteq|done]|].
  by apply calm_goods, calm_network.
Qed.
Lemma good_consent n b id d : good d -> runs goods (configUserConsentTerrestrialPositioning n b id) d.
Proof.
  intros G. set (d1 := put_mOptInTerrestrialService (if b then 1 else 0) d).
  set (d2 := if b && negb (mGtpWwanSsLocationApi d1)
             then put_outputs (outputs d1 ++ [OutEnableNetworkProvider]) (put_mGtpWwanSsLocationApi true d1) else d1).
  assert (good d2) as G2.
  { destruct G as [G1 G2 G4]. unfold d2, d1.
    destruct b; [destruct (mGtpWwanSsLocationApi d) eqn:Ha|]; split; cbn; rewrite ?Ha; cbn; try done.
    intros [?|?]; [|done]. by apply G4; left. }
  assert (configUserConsentTerrestrialPositioning n b id d = configure (SetOptInStatus b) n id d2) as E.
  { unfold configUserConsentTerrestrialPositioning, bind, modify, gets, obind, d2, d1.
    destruct b; cbn; [|done]. by destruct (mGtpWwanSsLocationApi d). }
  pose proof (good_configure (SetOptInStatus b) n id d2 G2) as Hr. unfold rel in *. rewrite E.
  destruct (configure _ _ _ d2) as [[? d']| |]; [|done..]. intros _. by apply Hr.
Qed.

(** ** Energy, power, maintenance *)

Lemma calm_any_pending (l : list (string * loc)) d :
  Forall (λ x, live x.2 d) l -> runs calm (any_pending l) d.
Proof.
  induction l as [|[n h] l IH]; intros Hl; simpl; [calmly|]. apply Forall_cons in Hl as [Hx Hl].
  apply calm_bind_the; [done|]. intros c _. apply (via_if _ calm); intros _; [calmly|by apply IH].
Qed.
Lemma good_getGnssEnergyConsumed n d : good d -> runs goods (getGnssEnergyConsumed n) d.
Proof.
  intros G. apply good_then; [done|apply calm_getGnssInterface|]. intros present d1 G1.
  apply (via_if _ goods); intros _; [by apply (via_ret _ goods)|]. apply (via_bind_gets _ goods).
  apply good_then; [done|apply calm_any_pending, good_each; [done|apply clients_in_order_perm]|].
  intros pending d2 G2. apply calm_with_client; [done|]. intros. calmly.
Qed.
Lemma good_onPowerEvent st d : good d -> runs goods (onPowerEvent st) d.
Proof.
  intros G. unfold onPowerEvent. apply good_then; [done|by apply calm_same|]. intros _ d1 G1.
  apply good_then; [done| |].
  - apply (via_if _ calm); intros _; [by apply calm_suspendAll|].
    apply (via_if _ calm); intros _; [by apply calm_resumeAll|calmly].
  - intros _ d2 G2. apply calm_goods. calmly.
Qed.
Lemma good_check_client data racing d :
  good d -> ¬ hazard d (CheckClient data racing) (answers d) -> runs goods (check_client data racing) d.
Proof.
  intros G Hz. cbn [hazard] in Hz. apply (via_bind_gets _ goods).
  destruct (clientsToCheck d) as [|n l] eqn:El; [by apply (via_ret _ goods)|].
  pose proof (own_wire (LocAPIPingTestReqMsg data) eq_refl) as Hw.
  apply (via_bind_done _ goods _ _ tt _ (put_clientsToCheck l d)); [done|by apply calm_good, calm_same|].
  set (d1 := put_clientsToCheck l d). assert (good d1) as G1 by (revert G; apply calm_good; by apply calm_same).
  cbv zeta. destruct racing.
  - destruct (wire (LocAPIPingTestReqMsg data)) as [[]|]; [|by destruct Hz|done].
    destruct (hd true (sends (answers d))) eqn:Hs; [|by destruct Hz].
    unfold rel, bind, answer_send. cbn. change (answers d1) with (answers d). rewrite Hs. intros _. revert G1. apply calm_good. by apply calm_same.
  - apply good_then; [done| |].
    + destruct (wire (LocAPIPingTestReqMsg data)) as [[]|]; [calmly|calmly|done].
    + intros sent d2 G2. apply (via_if _ goods); intros _; [by apply (via_ret _ goods)|by apply good_delete].
Qed.

(** ** Callbacks *)

Lemma good_report_if h p m d : live h d -> good d -> wire m ≠ None -> runs goods (report_if h p m) d.
Proof.
  intros [c Hc] G Hm. unfold report_if, rel. rewrite (bind_the _ _ _ Hc). apply (via_if _ goods); intros Hs.
  - apply andb_prop in Hs as [Hs _]. by eapply good_send_or_purge.
  - by apply (via_ret _ goods).
Qed.
Lemma good_onResponseCb h err id d : live h d -> good d -> runs goods (onResponseCb h err id) d.
Proof.
  intros [c Hc] G. unfold onResponseCb, rel. rewrite (bind_the _ _ _ Hc). apply (via_if _ goods); intros Hs;
    [|by apply (via_ret _ goods)].
  eapply (via_bind_upd _ goods); [done|apply calm_goods, calm_upd; [by exists c|done]|].
  cbv zeta. intros Hc'. apply (via_if _ goods); intros _; [|by apply (via_ret _ goods)].
  eapply good_send_or_purge; [|exact Hc'|done|by apply own_wire].
  eapply calm_good; [|done]. pose proof (calm_upd_at h (set_mPendingMessages (tail (mPendingMessages c))) c d Hc eq_refl) as Hr.
  unfold rel in Hr. by rewrite (upd_done _ _ _ Hc) in Hr.
Qed.

Lemma good_guard h (p : handler -> bool) (m : handler -> Dm unit) d :
  live h d -> (∀ c, heap d !! h = Some c -> mIpcSender c = true -> p c = true -> runs goods (m c) d) ->
  runs goods (let! c := the h in if mIpcSender c && p c then m c else ret tt) d.
Proof.
  intros [c Hc] Hm. unfold rel. rewrite (bind_the _ _ _ Hc). apply (via_if _ goods); intros Hs;
    [|by apply (via_ret _ goods)]. apply andb_prop in Hs as [Hs Hp]. by apply Hm.
Qed.
(** A prefix that only reads answers. *)
Lemma answer_alloc_run d :
  answer_alloc d = Done (hd true (allocs (answers d)),
    put_answers (Env (sends (answers d)) (ids (answers d)) (arrays (answers d)) (tail (allocs (answers d)))
      (libs (answers d))) d).
Proof. done. Qed.

Lemma good_onCapabilities h mask d : live h d -> good d -> runs goods (onCapabilitiesCallback h mask) d.
Proof.
  intros Hl G. apply (good_guard h (λ c, negb (mask =? mCapabilityMask c))); [done|]. intros c Hc Hs _.
  eapply (via_bind_upd _ goods); [done|apply calm_goods, calm_upd; [by exists c|done]|].
  cbv zeta. intros Hc'. eapply good_send_or_purge; [|exact Hc'|done|by apply own_wire].
  pose proof (calm_upd_at h (set_mCapabilityMask mask) c d Hc eq_refl) as Hr.
  unfold rel in Hr. rewrite (upd_done _ _ _ Hc) in Hr. by apply (calm_good _ _ Hr).
Qed.
Lemma good_onBatchingCb h l d :
  live h d -> good d -> ¬ hazard d (BatchingCb h l) (answers d) -> runs goods (onBatchingCb h l) d.
Proof.
  intros Hl G Hz. apply (good_guard h (subscribed E_LOC_CB_BATCHING_BIT)); [done|]. intros c Hc Hs Hp.
  apply (via_if _ goods); intros E; [by apply (via_ret _ goods)|].
  eapply (via_bind_done _ goods); [apply answer_alloc_run|by apply calm_good, calm_same|].
  destruct (hd true (allocs (answers d))) eqn:Ea; [|by apply (via_ret _ goods)]. exfalso. apply Hz.
  exists c. split_and!; [done..|by intros ->|]. unfold allocated.
  destruct (allocs (answers d)); cbn in *; subst; by repeat constructor.
Qed.
Lemma allocated_2 v : allocated 2 v <-> hd true (allocs v) = true ∧ hd true (tail (allocs v)) = true.
Proof.
  unfold allocated. destruct (allocs v) as [|a [|b l]]; cbn; rewrite ?Forall_cons, ?Forall_nil; naive_solver.
Qed.
Lemma allocated_1 v : allocated 1 v <-> hd true (allocs v) = true.
Proof. unfold allocated. destruct (allocs v) as [|a l]; cbn; rewrite ?Forall_cons, ?Forall_nil; naive_solver. Qed.
Lemma getClientIds_run h c l d :
  heap d !! h = Some c -> l ≠ [] ->
  ∃ d', answer_alloc d = Done (hd true (allocs (answers d)), d') ∧ heap d' = heap d ∧ calm d d' ∧
    allocs (answers d') = tail (allocs (answers d)) ∧ sends (answers d') = sends (answers d) ∧
    getClientIds h l d = Done (if hd true (allocs (answers d)) then Some (client_id_of (mGfIdsMap c) <$> l) else None, d').
Proof.
  intros Hc Hl. eexists. split_and!; [apply answer_alloc_run|done|by apply calm_same|done|done|].
  unfold getClientIds. destruct l as [|x l]; [done|]. unfold bind. rewrite answer_alloc_run. cbn [obind].
  destruct (hd true (allocs (answers d))); [|done]. unfold the. cbn [heap put_answers]. by rewrite Hc.
Qed.
Lemma good_onGeofenceBreachCb h l d :
  live h d -> good d -> ¬ hazard d (GeofenceBreachCb h l) (answers d) -> runs goods (onGeofenceBreachCb h l) d.
Proof.
  intros Hl G Hz. apply (good_guard h (subscribed E_LOC_CB_GEOFENCE_BREACH_BIT)); [done|]. intros c Hc Hs Hp.
  destruct (decide (l = [])) as [->|Hne]; [by apply (via_ret _ goods)|].
  destruct (getClientIds_run h c l d Hc Hne) as (d1 & _ & _ & C1 & Ea & _ & Hrun).
  eapply (via_bind_done _ goods); [exact Hrun|by apply calm_good|].
  destruct (hd true (allocs (answers d))) eqn:E1; [|by apply (via_ret _ goods)].
  eapply (via_bind_done _ goods); [apply answer_alloc_run|by apply calm_good, calm_same|].
  destruct (hd true (allocs (answers d1))) eqn:E2; [|by apply (via_ret _ goods)]. exfalso. apply Hz.
  exists c. split_and!; [done..|]. apply allocated_2. by rewrite <- Ea.
Qed.
Lemma calm_eraseGeofenceIds h l d : live h d -> runs calm (eraseGeofenceIds h l) d.
Proof. intros Hl. calmly. Qed.
Lemma good_onCollective h errs l d :
  live h d -> (length l ≤ length errs)%nat -> good d -> ¬ hazard d (CollectiveResponseCb h errs l) (answers d) ->
  runs goods (onCollectiveResponseCallback h errs l) d.
Proof.
  intros [c Hc] Hn G Hz. unfold onCollectiveResponseCallback, rel. rewrite (bind_the _ _ _ Hc).
  apply (via_if _ goods); intros Hs; [by apply (via_ret _ goods)|]. apply negb_false_iff in Hs. apply calm_goods.
  eapply (via_bind_upd _ calm); [done|apply calm_upd; [by exists c|done]|]. cbv zeta. intros Hc1. set (d1 := put_heap _ d) in *.
  apply (via_if _ calm); intros El; [by apply (via_ret _ calm)|].
  eapply (via_bind_done _ calm); [apply answer_alloc_run|by apply calm_same|]. set (d2 := put_answers _ d1).
  apply (via_if _ calm); intros E1; [by apply (via_ret _ calm)|]. apply negb_false_iff in E1.
  assert (l ≠ []) as Hne by (by intros ->).
  destruct (getClientIds_run h _ l d2 Hc1 Hne) as (d3 & _ & Hh3 & C3 & _ & _ & Hrun).
  eapply (via_bind_done _ calm); [exact Hrun|done|].
  destruct (hd true (allocs (answers d2))) eqn:E2; [|by apply (via_ret _ calm)].
  eapply (via_bind_done _ calm); [by apply elements_done|done|].
  assert (live h d3) as Hl3 by (unfold live; rewrite Hh3; by eexists).
  apply (via_bind _ calm); [by apply calm_eraseGeofenceIds|]. intros _ d4 C4.
  apply (via_if _ calm); intros E3; [|by apply (via_ret _ calm)]. exfalso. apply Hz.
  exists c. apply bool_decide_eq_true in E3. split_and!; [done..|]. by apply allocated_2.
Qed.
Lemma good_onEngLocations h l d :
  event_ok d (EngLocationsInfoCb h l) (answers d) -> good d -> ¬ hazard d (EngLocationsInfoCb h l) (answers d) ->
  runs goods (onEngLocationsInfoCb h l) d.
Proof.
  intros (c & Hc & Hw) G Hz.
  apply (good_guard h (subscribed E_LOC_CB_ENGINE_LOCATIONS_INFO_BIT)); [by exists c|]. intros c' Hc' Hs Hp.
  simplify_eq. fold (wanted c l). cbv zeta. apply (via_if _ goods); intros E1.
  - exfalso. apply Hz. exists c. split; [done|]. apply Z.ltb_lt in E1. cbn in E1. lia.
  - apply (via_if _ goods); intros _; [|by apply (via_ret _ goods)]. by eapply good_send_or_purge.
Qed.
Lemma good_onGnssLocationInfo h n d :
  event_ok d (GnssLocationInfoCb h n) (answers d) -> good d -> runs goods (onGnssLocationInfoCb h n) d.
Proof.
  intros (Hl & H1' & H2') G. eapply (good_guard h (subscribed _)); [done|]. intros c Hc Hs _.
  eapply good_send_or_purge; [done..|]. by case_match.
Qed.
Lemma good_free h d : live h d -> (∀ n, mClients d !! n ≠ Some h) -> good d -> runs goods (free h) d.
Proof.
  intros [c Hc] Hn G. unfold rel. rewrite (free_done _ _ _ Hc). intros _. destruct G as [G1 G2 G3]. split; cbn; try done.
  - intros n k Hk. destruct (G1 _ _ Hk) as (Hlt & c' & Hc' & Hs). split; [done|]. exists c'. split; [|done].
    rewrite lookup_delete_ne; [done|]. intros ->. by apply (Hn n).
  - intros k Hk. rewrite lookup_delete_None. auto.
Qed.

(** ** Answers to configuration requests *)

Lemma good_onGnssConfigCb h id g d : live h d -> good d -> runs goods (onGnssConfigCb h id g) d.
Proof.
  intros [c Hc] G. unfold onGnssConfigCb, rel. rewrite (bind_the _ _ _ Hc).
  destruct (config_report id g) as [m|] eqn:Em; [|by apply (via_ret _ goods)].
  assert (own_message m = true) as Hm by (unfold config_report in Em; repeat case_match; by simplify_eq).
  pose proof (own_wire m Hm) as Hw. destruct (wire m) as [[]|] eqn:Ew; [|by apply (via_ret _ goods)|done].
  apply (via_if _ goods); intros Hs; [|by apply (via_ret _ goods)]. apply (good_send_or_purge _ _ _ _ G Hc Hs). by rewrite Ew.
Qed.
Lemma good_answer_config sid tell d :
  good d ->
  (∀ r h c, mConfigReqs d !! sid = Some r -> mClients d !! clientName r = Some h -> heap d !! h = Some c ->
     sound_client (clientName r) c -> runs goods (tell h (configMsgId r)) d) ->
  runs goods (answer_config sid tell) d.
Proof.
  intros G Ht. apply (via_bind_gets _ goods). destruct (mConfigReqs d !! sid) as [r|]; [|by apply (via_ret _ goods)].
  apply goods_bind; [done| |].
  - apply good_with_client; [done|]. intros. eauto.
  - intros _ d' G'. apply via_modify. by apply calm_good, calm_same.
Qed.
Lemma good_onControlResponse err sid d : good d -> runs goods (onControlResponseCallback err sid) d.
Proof. intros G. apply good_answer_config; [done|]. intros. by eapply good_generic. Qed.
Lemma good_onGnssConfigCallback sid g d :
  good d -> ¬ hazard d (GnssConfigCb sid g) (answers d) -> runs goods (onGnssConfigCallback sid g) d.
Proof.
  intros G Hz. apply good_answer_config; [done|]. intros r h c Hr Hn Hc (Hname & Hs & _).
  set (m := LocAPIGenericRespMsg (configMsgId r) LOCATION_ERROR_SUCCESS).
  assert (∃ d', onControlResponseCb_of h LOCATION_ERROR_SUCCESS (configMsgId r) d = Done (tt, d') ∧ good d' ∧ live h d')
    as (d' & Hrun & G' & Hl').
  { unfold onControlResponseCb_of, report_if. rewrite (bind_the _ _ _ Hc), Hs. cbn [andb].
    pose proof (own_wire m eq_refl) as Hw. destruct (wire m) as [[]|] eqn:Ew; [|..|done].
    - fold m. rewrite (send_or_purge_run h c m d Hc Hs Ew).
      assert (calm d (sent (mName c) m d)) as Cs by by apply calm_same.
      assert (live h (sent (mName c) m d)) as Ls by (eapply calm_live; [|done]; by exists c).
      destruct (hd true (sends (answers d))) eqn:Eh.
      + eexists. split_and!; [done| |done]. by apply (calm_good _ _ Cs).
      + rewrite (delete_run _ h c (sent (mName c) m d)); [|by rewrite Hname|done]. eexists. split_and!; [done| |].
        * apply good_buried; [by apply (calm_good _ _ Cs)|by rewrite Hname|done].
        * destruct (mLocationApi c) eqn:Ea; [|exfalso; apply Hz; by exists r, h, c].
          unfold live, buried. cbn [heap put_outputs put_heap]. rewrite Ea, lookup_insert_eq. by eexists.
    - exists d. unfold send_or_purge. fold m. rewrite Ew. split_and!; [done|done|by exists c]. }
  eapply (via_bind_done _ goods); [exact Hrun|by intros _|]. by apply good_onGnssConfigCb.
Qed.

(** ** Energy *)

Definition all_sent (n : nat) (d : daemon) : Prop := Forall (λ b, b = true) (take n (sends (answers d))).
Lemma tell_energy_silent m n h c d :
  mClients d !! n = Some h -> heap d !! h = Some c ->
  (mIpcSender c && hasPendingEngineInfoRequest c = false ∨ wire m = Some false) ->
  tell_energy m (n, h) d = Done (tt, d).
Proof.
  intros Hn Hc Hq. unfold tell_energy, onGnssEnergyConsumedInfoAvailable. cbn [fst snd].
  assert ((let! c := the h in
    if mIpcSender c && has (mEngineInfoRequestMask c) E_ENGINE_INFO_CB_GNSS_ENERGY_CONSUMED_BIT then
      match wire m with
      | None => undefined
      | Some false => ret tt
      | Some true =>
          let! rc := sendMessage h m in
          upd h (λ c, set_mEngineInfoRequestMask
            (Z.ldiff (mEngineInfoRequestMask c) E_ENGINE_INFO_CB_GNSS_ENERGY_CONSUMED_BIT) c) ;;;
          if rc then ret tt else let! c := the h in deleteClientbyName (mName c)
      end
    else ret tt) d = Done (tt, d)) as E.
  { rewrite (bind_the _ _ _ Hc). destruct Hq as [Hq|Hq].
    - unfold hasPendingEngineInfoRequest in Hq. by rewrite Hq.
    - rewrite Hq. by case_match. }
  unfold bind at 1. rewrite E. cbn [obind]. unfold bind, gets. cbn [obind]. by rewrite Hn.
Qed.
Definition no_energy (c : handler) : handler :=
  set_mEngineInfoRequestMask (Z.ldiff (mEngineInfoRequestMask c) E_ENGINE_INFO_CB_GNSS_ENERGY_CONSUMED_BIT) c.
Definition told (h : loc) (c : handler) (m : LocAPIMsg) (d : daemon) : daemon :=
  put_heap (<[h := no_energy c]> (heap d)) (sent (mName c) m d).
Lemma tell_energy_sends m n h c d :
  mClients d !! n = Some h -> heap d !! h = Some c -> mName c = n -> mIpcSender c = true ->
  hasPendingEngineInfoRequest c = true -> wire m = Some true ->
  tell_energy m (n, h) d = if hd true (sends (answers d)) then Done (tt, told h c m d) else Undefined.
Proof.
  intros Hn Hc Hname Hs Hp Hw.
  assert (heap (told h c m d) !! h = Some (no_energy c)) as Ht by apply lookup_insert_eq.
  assert (onGnssEnergyConsumedInfoAvailable h m d =
    if hd true (sends (answers d)) then Done (tt, told h c m d) else deleteClientbyName n (told h c m d)) as E.
  { unfold onGnssEnergyConsumedInfoAvailable. rewrite (bind_the _ _ _ Hc).
    unfold hasPendingEngineInfoRequest in Hp. rewrite Hs, Hp, Hw. cbn [andb].
    rewrite (bind_done _ _ _ _ _ (sendMessage_run _ _ _ _ Hc Hs)).
    erewrite bind_done by (apply (upd_done h c); exact Hc). fold (no_energy c). fold (told h c m d).
    destruct (hd true (sends (answers d))); [done|]. rewrite (bind_the _ _ _ Ht). cbn [mName no_energy set_mEngineInfoRequestMask].
    by rewrite Hname. }
  unfold tell_energy. cbn [fst snd]. destruct (hd true (sends (answers d))).
  - rewrite (bind_done _ _ _ _ _ E), bind_gets. unfold told. cbn [mClients put_heap sent put_outputs put_answers].
    by rewrite Hn.
  - rewrite (delete_run n h (no_energy c)) in E; [|done|done].
    rewrite (bind_done _ _ _ _ _ E), bind_gets. unfold buried.
    cbn [mClients put_outputs put_heap put_mTerrestrialFixReqs put_mClients]. by rewrite lookup_delete_eq.
Qed.
Lemma calm_told h c m d : heap d !! h = Some c -> calm d (told h c m d).
Proof.
  intros Hc. split_and!; try done. intros k. cbn. destruct (decide (k = h)) as [->|].
  - by rewrite lookup_insert_eq, Hc.
  - by rewrite lookup_insert_ne.
Qed.
Lemma waiters_told h c m d l :
  h ∉ l.*2 -> energy_waiters (told h c m d) l = energy_waiters d l.
Proof.
  unfold energy_waiters. intros Hh. induction l as [|[n k] l IH]; [done|]. cbn in Hh. apply not_elem_of_cons in Hh as [Hk Hh].
  rewrite !filter_cons. cbn [snd]. assert (waits_for_energy (told h c m d) k = waits_for_energy d k) as ->.
  { unfold waits_for_energy. cbn. by rewrite lookup_insert_ne. }
  case_decide; cbn; by rewrite IH.
Qed.

Lemma energy_loop m l d :
  good d -> wire m = Some true -> NoDup l.*2 -> Forall (λ x, mClients d !! x.1 = Some x.2) l ->
  (all_sent (energy_waiters d l) d -> ∃ d', for_each (tell_energy m) l d = Done (tt, d') ∧ calm d d') ∧
  (¬ all_sent (energy_waiters d l) d -> for_each (tell_energy m) l d = Undefined).
Proof.
  revert d. induction l as [|[n h] l IH]; intros d G Hw Hnd Hl.
  { split; [by exists d|]. intros Hf. destruct Hf. constructor. }
  apply Forall_cons in Hl as [Hn Hl]. cbn in Hn. cbn in Hnd. apply NoDup_cons in Hnd as [Hh Hnd].
  destruct (good_client d G _ _ Hn) as (_ & c & Hc & Hname & Hs & _). cbn [for_each].
  assert (waits_for_energy d h = hasPendingEngineInfoRequest c) as Hwait by (unfold waits_for_energy; by rewrite Hc).
  unfold energy_waiters. rewrite filter_cons. cbn [snd]. rewrite Hwait.
  destruct (decide (hasPendingEngineInfoRequest c = true)) as [Hp|Hp].
  - unfold bind. rewrite (tell_energy_sends m n h c d Hn Hc Hname Hs Hp Hw). cbn [length].
    pose proof (calm_told h c m d Hc) as Ct.
    destruct (IH (told h c m d) (calm_good _ _ Ct G) Hw Hnd Hl) as [IH1 IH2].
    rewrite (waiters_told _ _ _ _ _ Hh) in IH1, IH2.
    assert (all_sent (S (energy_waiters d l)) d <->
            hd true (sends (answers d)) = true ∧ all_sent (energy_waiters d l) (told h c m d)) as Hiff.
    { unfold all_sent. cbn. destruct (sends (answers d)) as [|b s]; cbn; [|by rewrite Forall_cons].
      rewrite take_nil. naive_solver. }
    fold (energy_waiters d l). split; rewrite Hiff.
    + intros [E Ha]. rewrite E. cbn [obind]. destruct (IH1 Ha) as (d' & Hrun & C'). exists d'. split; [done|by etrans].
    + intros Hf. destruct (hd true (sends (answers d))); [|done]. cbn [obind]. apply IH2. tauto.
  - apply not_true_is_false in Hp. unfold bind. rewrite (tell_energy_silent m n h c d Hn Hc); [|left; by rewrite Hp, andb_false_r].
    cbn [obind]. by apply IH.
Qed.
Lemma energy_loop_silent m l d :
  good d -> wire m = Some false -> Forall (λ x, mClients d !! x.1 = Some x.2) l ->
  for_each (tell_energy m) l d = Done (tt, d).
Proof.
  intros G Hw. induction l as [|[n h] l IH]; intros Hl; [done|]. apply Forall_cons in Hl as [Hn Hl]. cbn in Hn.
  destruct (good_client d G _ _ Hn) as (_ & c & Hc & _). cbn [for_each]. unfold bind.
  rewrite (tell_energy_silent m n h c d Hn Hc) by auto. by apply IH.
Qed.
Lemma good_clients_distinct d l : good d -> l ≡ₚ map_to_list (mClients d) ->
  NoDup l.*2 ∧ Forall (λ x, mClients d !! x.1 = Some x.2) l.
Proof.
  intros G Hl. assert (Forall (λ x, mClients d !! x.1 = Some x.2) l) as Hf.
  { rewrite Hl. apply Forall_forall. intros [n h] Hx. by apply elem_of_map_to_list in Hx. }
  split; [|done]. assert (NoDup l) as Hnd by (rewrite Hl; apply NoDup_map_to_list).
  apply NoDup_fmap_2_strong; [|done]. intros [n h] [n' h'] Hx Hy E. cbn in E. subst h'.
  rewrite Forall_forall in Hf. pose proof (Hf _ Hx) as Hn. pose proof (Hf _ Hy) as Hn'. cbn in Hn, Hn'.
  destruct (good_client d G _ _ Hn) as (_ & c & Hc & Hs & _).
  destruct (good_client d G _ _ Hn') as (_ & c' & Hc' & Hs' & _). by simplify_eq.
Qed.
Lemma energy_step total d :
  good d ->
  (hazard d (GnssEnergyConsumedCb total) (answers d) -> onGnssEnergyConsumedCb total d = Undefined) ∧
  (¬ hazard d (GnssEnergyConsumedCb total) (answers d) -> runs goods (onGnssEnergyConsumedCb total) d).
Proof.
  intros G. unfold onGnssEnergyConsumedCb. unfold rel. rewrite bind_gets.
  set (l := clients_in_order (mClients d)). set (m := LocAPIGnssEnergyConsumedIndMsg total).
  pose proof (clients_in_order_perm (mClients d)) as Hp. fold l in Hp.
  destruct (good_clients_distinct d l G Hp) as [Hnd Hl].
  assert (energy_waiters d (map_to_list (mClients d)) = energy_waiters d l) as Hlen.
  { unfold energy_waiters. by rewrite Hp. }
  pose proof (own_wire m eq_refl) as Hw. destruct (wire m) as [[]|] eqn:Ew; [|..|done].
  - destruct (energy_loop m l d G Ew Hnd Hl) as [H1' H2']. cbn [hazard]. fold m. rewrite Hlen.
    fold (all_sent (energy_waiters d l) d). split.
    + intros [Hf _]. by apply H2'.
    + intros Hf. destruct (decide (all_sent (energy_waiters d l) d)) as [Ha|Ha].
      * destruct (H1' Ha) as (d' & -> & C'). by apply calm_good.
      * exfalso. apply Hf. done.
  - rewrite (energy_loop_silent m l d G Ew Hl). cbn [hazard]. fold m. rewrite Ew. split; [by intros [_ ?]|by intros _ _].
Qed.

(** ** All events *)

Lemma good_serve n m data d : good d -> request_ok m (answers d) -> runs goods (serve n m data) d.
Proof.
  intros G Hok. destruct m; cbn [serve]; try (by apply (via_ret _ goods)); try (by apply good_configure).
  - by apply good_newClient.
  - by apply good_delete.
  - by apply good_tracking.
  - by apply (good_tracking n (MkLocationOptions 0 0 0 0)).
  - apply calm_with_client; [done|]. intros. by apply calm_updateSubscription.
  - by apply good_tracking.
  - by apply good_batching.
  - by apply (good_batching n 0 0 0).
  - by apply good_batching.
  - by apply good_addGeofences.
  - apply good_on_geofences; [intros; calmly|done|done].
  - by apply good_modifyGeofences.
  - apply good_on_geofences; [intros; calmly|done|done].
  - apply good_on_geofences; [intros; calmly|done|done].
  - apply calm_goods. unfold updateNetworkAvailability. calmly.
  - by apply good_getGnssEnergyConsumed.
  - by apply good_getSingleTerrestrialPos.
  - by apply good_deletion.
  - by apply good_consent.
  - unfold getConstellationSecondaryBandConfig. apply good_then; [done|apply calm_getGnssInterface|].
    intros present d1 G1. apply (via_if _ goods); intros _; [by apply good_configure|by apply (via_ret _ goods)].
  - apply good_with_client; [done|]. intros h c _ Hc _. apply good_report_if; [by exists c|done|by apply own_wire].
Qed.
Lemma good_handle e d :
  good d -> event_ok d e (answers d) -> ¬ hazard d e (answers d) -> runs goods (handle e) d.
Proof.
  intros G Hok Hz.
  destruct e; cbn [handle]; cbn [event_ok] in Hok; try (apply good_report_if; [exact (proj1 Hok)|done|exact (proj2 Hok)]).
  - by apply good_serve.
  - by apply good_onResponseCb.
  - destruct Hok. by apply good_onCollective.
  - by apply good_onCapabilities.
  - by apply good_onBatchingCb.
  - apply good_report_if; [done|done|by apply own_wire].
  - by apply good_onGeofenceBreachCb.
  - by apply good_onGnssLocationInfo.
  - by apply good_onEngLocations.
  - destruct Hok. by apply good_free.
  - by apply good_onControlResponse.
  - unfold onControlCollectiveResponseCallback. repeat case_match; try (by apply (via_ret _ goods)). by apply good_onControlResponse.
  - by apply good_onGnssConfigCallback.
  - by apply energy_step.
  - by apply good_onGtpWwan.
  - by apply good_gtpFixRequestTimeout.
  - by apply good_onPowerEvent.
  - apply calm_goods. unfold performMaintenance. apply via_modify. by apply calm_same.
  - by apply good_check_client.
Qed.

Lemma guard_undefined h c (p : handler -> bool) (m : handler -> Dm unit) d :
  heap d !! h = Some c -> mIpcSender c = true -> p c = true -> m c d = Undefined ->
  (let! c := the h in if mIpcSender c && p c then m c else ret tt) d = Undefined.
Proof. intros Hc Hs Hp Hm. by rewrite (bind_the _ _ _ Hc), Hs, Hp. Qed.
Lemma collective_undefined h errs l d :
  (length l ≤ length errs)%nat -> hazard d (CollectiveResponseCb h errs l) (answers d) ->
  onCollectiveResponseCallback h errs l d = Undefined.
Proof.
  intros Hn (c & Hc & Hs & Hl & Hq & Ha). apply allocated_2 in Ha as [Ha1 Ha2].
  unfold onCollectiveResponseCallback. rewrite (bind_the _ _ _ Hc), Hs. cbn [negb].
  erewrite bind_done by (apply (upd_done h c); exact Hc). set (d1 := put_heap _ d).
  rewrite (proj2 (Nat.eqb_neq _ _)) by (intros E; by apply Hl, length_zero_iff_nil).
  rewrite (bind_done _ _ _ _ _ (answer_alloc_run d1)). cbn [answers d1 put_heap]. rewrite Ha1. cbn [negb].
  set (d2 := put_answers _ d1).
  assert (heap d2 !! h = Some (set_mGfPendingMessages (tail (mGfPendingMessages c)) c)) as Hc2 by apply lookup_insert_eq.
  destruct (getClientIds_run h _ l d2 Hc2 Hl) as (d3 & _ & Hh3 & _ & _ & _ & Hrun).
  rewrite (bind_done _ _ _ _ _ Hrun). change (hd true (allocs (answers d2))) with (hd true (tail (allocs (answers d)))).
  rewrite Ha2, (bind_done _ _ _ _ _ (elements_done _ _ _ Hn)). unfold eraseGeofenceIds at 1.
  erewrite bind_done; [|eapply upd_done; rewrite Hh3; exact Hc2].
  rewrite bool_decide_eq_true_2 by done. destruct (front _ =? _); [|reflexivity].
  unfold eraseGeofenceIds. erewrite bind_done; [done|eapply upd_done]. apply lookup_insert_eq.
Qed.
Lemma breach_undefined h l d :
  hazard d (GeofenceBreachCb h l) (answers d) -> onGeofenceBreachCb h l d = Undefined.
Proof.
  intros (c & (Hc & Hs & Hp) & Hl & Ha). apply allocated_2 in Ha as [Ha1 Ha2].
  apply (guard_undefined h c (subscribed E_LOC_CB_GEOFENCE_BREACH_BIT)); [done..|].
  destruct (getClientIds_run h c l d Hc Hl) as (d1 & _ & _ & _ & Ea & _ & Hrun).
  rewrite (bind_done _ _ _ _ _ Hrun), Ha1, (bind_done _ _ _ _ _ (answer_alloc_run d1)), Ea, Ha2. done.
Qed.
Lemma batching_undefined h l d : hazard d (BatchingCb h l) (answers d) -> onBatchingCb h l d = Undefined.
Proof.
  intros (c & (Hc & Hs & Hp) & Hl & Ha). apply allocated_1 in Ha.
  apply (guard_undefined h c (subscribed E_LOC_CB_BATCHING_BIT)); [done..|].
  rewrite (proj2 (Nat.eqb_neq _ _)) by (intros E; by apply Hl, length_zero_iff_nil).
  rewrite (bind_done _ _ _ _ _ (answer_alloc_run d)), Ha. done.
Qed.
Lemma locations_undefined h l d : hazard d (EngLocationsInfoCb h l) (answers d) -> onEngLocationsInfoCb h l d = Undefined.
Proof.
  intros (c & (Hc & Hs & Hp) & Hl). apply (guard_undefined h c (subscribed E_LOC_CB_ENGINE_LOCATIONS_INFO_BIT)); [done..|].
  cbv zeta. fold (wanted c l). rewrite (proj2 (Z.ltb_lt _ _)); [done|]. change (4 < Z.of_nat (length (wanted c l))). lia.
Qed.
Lemma config_undefined sid g d :
  good d -> hazard d (GnssConfigCb sid g) (answers d) -> onGnssConfigCallback sid g d = Undefined.
Proof.
  intros G (r & h & c & Hr & Hn & Hc & Ha & Hb & Hw). destruct (good_client d G _ _ Hn) as (_ & c' & Hc' & Hname & Hs & _).
  simplify_eq. set (m := LocAPIGenericRespMsg (configMsgId r) LOCATION_ERROR_SUCCESS) in *.
  assert (onControlResponseCb_of h LOCATION_ERROR_SUCCESS (configMsgId r) d =
    Done (tt, buried (clientName r) h c (sent (mName c) m d))) as E.
  { unfold onControlResponseCb_of, report_if. rewrite (bind_the _ _ _ Hc), Hs. cbn [andb]. fold m.
    rewrite (send_or_purge_run h c m d Hc Hs Hw), Hb, Hname. by apply delete_run. }
  unfold onGnssConfigCallback, answer_config. rewrite bind_gets, Hr. unfold bind at 1, with_client, getClient.
  rewrite bind_gets, Hn, (bind_done _ _ _ _ _ E). unfold onGnssConfigCb, bind, the, buried.
  cbn [heap put_outputs put_heap]. by rewrite Ha, lookup_delete_eq.
Qed.
Lemma fix_undefined l d :
  good d -> hazard d (GtpWwanTrackingCb l) (answers d) -> onGtpWwanTrackingCallback l d = Undefined.
Proof.
  intros G (Hl & Ho & n & [t Ht] & Hn). unfold onGtpWwanTrackingCallback. rewrite bind_gets.
  unfold id. rewrite Hl, Ho. rewrite (proj2 (Nat.eqb_neq _ _)).
  2: { intros E%map_size_empty_inv. by rewrite E in Ht. }
  cbn [negb andb Z.eqb Pos.eqb]. unfold bind. rewrite strange_fix; [done|done|]. apply Exists_exists. exists (n, t).
  split; [|done]. rewrite fixes_in_order_perm. by apply elem_of_map_to_list.
Qed.
Lemma check_undefined data racing d :
  hazard d (CheckClient data racing) (answers d) -> check_client data racing d = Undefined.
Proof.
  intros (-> & Hl & Hs). unfold check_client. rewrite bind_gets. destruct (clientsToCheck d) as [|n l]; [done|].
  rewrite bind_modify. pose proof (own_wire (LocAPIPingTestReqMsg data) eq_refl) as Hw.
  destruct (wire _) as [[]|]; [|done..]. unfold bind, answer_send. cbn. by rewrite Hs.
Qed.
Lemma hazard_undefined e d :
  good d -> event_ok d e (answers d) -> hazard d e (answers d) -> handle e d = Undefined.
Proof.
  intros G Hok. destruct e; cbn [handle]; try done.
  - destruct Hok as [_ Hn]. by apply collective_undefined.
  - apply batching_undefined.
  - apply breach_undefined.
  - apply locations_undefined.
  - by apply config_undefined.
  - by apply energy_step.
  - by apply fix_undefined.
  - apply check_undefined.
Qed.

(** A step: undefined exactly in a hazard, and otherwise good again. *)
Lemma good_answers v d : good d -> good (put_answers v d).
Proof. apply calm_good. by apply calm_same. Qed.
Lemma safe_step d e :
  good d -> event_ok d e.1 e.2 ->
  (hazard d e.1 e.2 -> step d e = None) ∧ (¬ hazard d e.1 e.2 -> ∃ d', step d e = Some d' ∧ good d').
Proof.
  intros G Hok. pose proof (good_answers e.2 d G) as G1.
  assert (event_ok (put_answers e.2 d) e.1 e.2) as Hok1 by (destruct e as [[] v]; exact Hok).
  assert (hazard (put_answers e.2 d) e.1 e.2 <-> hazard d e.1 e.2) as Hz by (destruct e as [[] v]; reflexivity).
  rewrite <- Hz. unfold step. split; intros Hh.
  - rewrite (hazard_undefined e.1 (put_answers e.2 d)) by done. done.
  - pose proof (good_handle e.1 (put_answers e.2 d) G1 Hok1 Hh) as Hr. unfold rel in Hr.
    destruct (handle e.1 _) as [[? d']| |]; [|done..]. exists d'. split; [done|]. by apply Hr.
Qed.
Lemma good_started p v : ∃ d, started p v = Some d ∧ good d.
Proof.
  assert (good (put_answers v (no_daemon (positionMode p)))) as G.
  { apply good_answers. split; [done..|]. intros [?|?]; done. }
  enough (runs goods (autostart p) (put_answers v (no_daemon (positionMode p)))) as Hr.
  { unfold rel in Hr. unfold started. destruct (autostart _ _) as [[? d]| |]; [|done..]. exists d. split; [done|]. by apply Hr. }
  apply (via_if _ goods); intros _; [by apply (via_ret _ goods)|].
  apply calm_then; [calmly|]. intros _ d1 C1. pose proof (calm_good _ _ C1 G) as G1.
  assert (mClients d1 !! AUTO_START_CLIENT_NAME = None) as Hn by (destruct C1 as (-> & _); done).
  pose proof (good_newClient AUTO_START_CLIENT_NAME LOCATION_CLIENT_API d1 G1) as Hr.
  unfold rel, newClient, getClient in Hr. rewrite bind_gets, Hn in Hr.
  rewrite (bind_done _ _ _ _ _ (new_client_run _ _ d1)) in Hr. cbn [modify] in Hr.
  unfold rel. rewrite (bind_done _ _ _ _ _ (new_client_run _ _ d1)), bind_modify. set (d2 := put_mClients _ _) in *. specialize (Hr G1).
  assert (live (next d1) d2) as Hl by (unfold live; cbn; rewrite lookup_insert_eq; by eexists).
  assert (runs goods (updateSubscription (next d1) (Z.lor E_LOC_CB_GNSS_LOCATION_INFO_BIT E_LOC_CB_GNSS_SV_BIT) ;;;
     startTracking_with (next d1) (MkLocationOptions (gnssSessionTbfMs p) 0 (positionMode p) 0) ;;;
     upd (next d1) (set_mTracking true) ;;;
     push_pending (next d1) E_LOCAPI_START_TRACKING_MSG_ID) d2) as Hrest.
  { apply calm_goods. calmly. }
  unfold rel in *. destruct (bind _ _ d2) as [[? d']| |]; [|done..]. intros _. by apply Hrest.
Qed.

Lemma hazard_or d e v : hazard d e v ∨ ¬ hazard d e v.
Proof.
  destruct e; cbn [hazard]; try (by right; intros []).
  - destruct (heap d !! h) as [c|] eqn:Hc; [|right; naive_solver].
    destruct (decide (mIpcSender c = true ∧ ids ≠ [] ∧ front (mGfPendingMessages c) ∈ geofence_requests ∧ allocated 2 v))
      as [Hd|Hd]; [left; by exists c|right; naive_solver].
  - destruct (heap d !! h) as [c|] eqn:Hc; [|right; intros (? & [? _] & _); congruence].
    destruct (decide ((mIpcSender c = true ∧ subscribed E_LOC_CB_BATCHING_BIT c = true) ∧ locations ≠ [] ∧ allocated 1 v))
      as [[[? ?] ?]|Hd]; [left; by exists c|right; intros (? & (? & ? & ?) & ?); naive_solver].
  - destruct (heap d !! h) as [c|] eqn:Hc; [|right; intros (? & [? _] & _); congruence].
    destruct (decide ((mIpcSender c = true ∧ subscribed E_LOC_CB_GEOFENCE_BREACH_BIT c = true) ∧ ids ≠ [] ∧ allocated 2 v))
      as [[[? ?] ?]|Hd]; [left; by exists c|right; intros (? & (? & ? & ?) & ?); naive_solver].
  - destruct (heap d !! h) as [c|] eqn:Hc; [|right; intros (? & [? _] & _); congruence].
    destruct (decide ((mIpcSender c = true ∧ subscribed E_LOC_CB_ENGINE_LOCATIONS_INFO_BIT c = true) ∧
      (4 < length (wanted c notifications))%nat))
      as [[[? ?] ?]|Hd]; [left; by exists c|right; intros (? & (? & ? & ?) & ?); naive_solver].
  - destruct (mConfigReqs d !! sessionId) as [r|] eqn:Hr; [|right; naive_solver].
    destruct (mClients d !! clientName r) as [h|] eqn:Hh; [|right; naive_solver].
    destruct (heap d !! h) as [c|] eqn:Hc; [|right; naive_solver].
    destruct (decide (mLocationApi c = false ∧ hd true (sends v) = false ∧
      wire (LocAPIGenericRespMsg (configMsgId r) LOCATION_ERROR_SUCCESS) = Some true)) as [Hd|Hd];
      [left; by exists r, h, c|right; naive_solver].
  - match goal with |- ?P ∨ _ => destruct (decide P); auto end.
  - destruct (decide (map_Forall (λ n _, is_Some (mClients d !! n)) (mTerrestrialFixReqs d))) as [Hf|Hf].
    { right. intros (_ & _ & n & [t Ht] & Hn). destruct (Hf n t Ht) as [h Hh]. congruence. }
    apply map_not_Forall in Hf as (n & t & Ht & Hn); [|apply _]. apply eq_None_not_Some in Hn.
    destruct (decide (has (Location_flags location) LOCATION_HAS_LAT_LONG_BIT = true ∧ mOptInTerrestrialService d = 1))
      as [[? ?]|Hd]; [left; split_and!; eauto|right; naive_solver].
  - destruct (decide (wire (LocAPIPingTestReqMsg data) = Some true ∧ hd true (sends v) ≠ false)) as [Hd|Hd];
      [right; naive_solver|].
    match goal with |- ?P ∨ _ => assert (P <-> racing = true ∧ clientsToCheck d ≠ []) as -> end.
    { split; [tauto|]. intros [? ?]. split_and!; [done..|]. intros Hw. by destruct (hd true (sends v)) eqn:?; [destruct Hd|]. }
    destruct (decide (racing = true ∧ clientsToCheck d ≠ [])); tauto.
Qed.

(** C12: From the start of the daemon, over every sequence of events, the
    behaviour is undefined exactly when an event meets one of eight situations
    ([hazard]): a geofence response, a batch or a breach reaches a client that asked
    for it; more engine reports than the array has elements; the answer to a request
    for the configuration cannot be sent to a client without LocationAPI; the energy
    cannot be sent to a client that waits for it; a terrestrial fix arrives while
    someone who is not a client has asked for one; maintenance deletes a client
    while another thread holds the lock.  Whenever no event does, the state at the
    end is consistent ([good]): every name in the database leads to a handler of its
    own name that was not deleted, and network location exists if it is used.
    Supposed of the environment ([event_ok]): LocationAPI calls back only for handlers
    that exist and destroys only those that left, arrays are as long as is said, and
    the structs of reports can be converted ([own_wire]: the messages that the daemon
    makes itself can).  Events are handled one after the other, as under mMutex; the
    part of performMaintenance without the lock is an event that knows whether
    another thread is at work. *)
Theorem daemon_undefined_exactly p v d es :
  started p v = Some d -> run_ok step (λ d e, event_ok d e.1 e.2) d es ->
  (run step d es = None <->
   ∃ es1 e es2 d1, es = es1 ++ e :: es2 ∧ run step d es1 = Some d1 ∧ hazard d1 e.1 e.2) ∧
  ∀ d', run step d es = Some d' -> good d'.
Proof.
  intros Hs. destruct (good_started p v) as (d0 & Hd0 & G). simplify_eq. clear Hs. intros Hok. split.
  2: { intros d'. revert G Hok. apply run_invariant. intros d1 e d2 G1 He E.
       destruct (safe_step d1 e G1 He) as [Hbad Hfine].
       destruct (hazard_or d1 e.1 e.2) as [Hz|Hz]; [by rewrite (Hbad Hz) in E|].
       destruct (Hfine Hz) as (d3 & E3 & G3). congruence. }
  refine (run_undefined step (λ d e, event_ok d e.1 e.2) (λ d e, hazard d e.1 e.2) good d es _ G Hok); cbv beta.
  intros d1 e G1 He. destruct (safe_step d1 e G1 He) as [Hbad Hfine]. destruct (hazard_or d1 e.1 e.2); [left|right]; auto.
Qed.
End safety.

(** A client adds a geofence, and the modem answers: the response cannot be put
    in a message. *)
Definition one_fence : GeofencesAddedReqPayload :=
  MkGeofencesAddedReqPayload 1 [MkGeofencePayload 5 (MkGeofenceOption 3 0 60) (MkGeofenceInfo 0 0 0)].
Definition fence_run : list (event * env) :=
  [ registers "app";
    (Request "app" (LocAPIAddGeofencesReqMsg one_fence) [], Env [] [] [Some [40]] [] []);
    (CollectiveResponseCb 1%positive [LOCATION_ERROR_SUCCESS : Z] [40], no_env) ].
Definition fenced : daemon := Eval vm_compute in default plain_daemon (plain_run (take 2 fence_run)).
Lemma daemon_undefined_exactly_witness : plain_run fence_run = None ∧ plain_run (take 2 fence_run) = Some fenced.
Proof.
  assert (started plain_config no_env = Some plain_daemon) as Hs by (vm_compute; reflexivity).
  assert (plain_run (take 2 fence_run) = Some fenced) as Hr by (vm_compute; reflexivity).
  split; [|exact Hr].
  apply (proj1 (@daemon_undefined_exactly stored_order every_wire ltac:(discriminate) _ _ _ fence_run Hs
    ltac:(vm_compute; repeat split; try lia; [|by eexists]; constructor; [|constructor]; intros l [= <-]; lia))).
  exists (take 2 fence_run), (CollectiveResponseCb 1%positive [LOCATION_ERROR_SUCCESS : Z] [40], no_env), [], fenced.
  split; [reflexivity|]. split; [exact Hr|].
  eexists. split; [reflexivity|]. split_and!; [reflexivity|discriminate| |constructor].
  apply (bool_decide_unpack _); vm_compute; exact I.
Defined.
