(* ===== verification/HalPending.v ===== *)
(** Which response of LocationAPI belongs to which request of a client: the queue
    mPendingMessages holds the calls that are not answered yet, as long as no
    request or power event queues a call that is not made ([orderly]). *)

From stdpp Require Import list gmap strings.
From S2P Require Import Prelude Runs LocationEnums PbConversions ApiStructs PbMessages PbMsgConv IpcMessages.
From S2P Require Import IpcArrive IpcDispatch HalState HalClient HalService HalLogic HalProtocol HalSafety.

Local Open Scope Z_scope.

(** * Calls that are answered *)

(** The message under which the response to a call is to be reported; a session
    that does not start is not answered. *)
Definition call_kind (c : api_call) : option Z :=
  match c with
  | StartTracking _ id => if id =? 0 then None else Some (E_LOCAPI_START_TRACKING_MSG_ID : Z)
  | StopTracking _ => Some (E_LOCAPI_STOP_TRACKING_MSG_ID : Z)
  | UpdateTrackingOptions _ _ => Some (E_LOCAPI_UPDATE_TRACKING_OPTIONS_MSG_ID : Z)
  | StartBatching _ id => if id =? 0 then None else Some (E_LOCAPI_START_BATCHING_MSG_ID : Z)
  | StopBatching _ => Some (E_LOCAPI_STOP_BATCHING_MSG_ID : Z)
  | UpdateBatchingOptions _ _ => Some (E_LOCAPI_UPDATE_BATCHING_OPTIONS_MSG_ID : Z)
  | _ => None
  end.
Definition kind_of (h : loc) (o : output) : option Z := c ← call_of h o; call_kind c.
Definition asked (h : loc) (l : list output) : list Z := omap (kind_of h) l.

(** [n h] responses came for [h]. *)
Definition pending_inv (n : loc -> nat) (d : daemon) : Prop :=
  (∀ h c, heap d !! h = Some c -> mIpcSender c = true ->
     mPendingMessages c = drop (n h) (asked h (outputs d)) ∧ (n h ≤ length (asked h (outputs d)))%nat) ∧
  (∀ h, (next d ≤ h)%positive -> heap d !! h = None ∧ asked h (outputs d) = [] ∧ n h = O).
Definition owes (d d' : daemon) : Prop := ∀ n, pending_inv n d -> pending_inv n d'.
#[export] Instance owes_preorder : PreOrder owes.
Proof. split; unfold owes; [by intros d|by intros d1 d2 d3; auto]. Qed.

Lemma asked_app h l l' : asked h (l ++ l') = asked h l ++ asked h l'.
Proof. apply omap_app. Qed.

(** ** Steps that keep it *)

Lemma owes_same d d' : heap d' = heap d -> next d' = next d -> outputs d' = outputs d -> owes d d'.
Proof. intros H1 H2 H3 n H. unfold pending_inv in *. by rewrite H1, H2, H3. Qed.
Lemma owes_out o d d' :
  (∀ h, kind_of h o = None) -> heap d' = heap d -> next d' = next d -> outputs d' = outputs d ++ [o] -> owes d d'.
Proof.
  intros Ho Eh En Eo n [H1 H2]. assert (∀ h, asked h (outputs d') = asked h (outputs d)) as Ea.
  { intros h. rewrite Eo, asked_app. cbn. by rewrite Ho, app_nil_r. }
  split; [intros h c|intros h]; rewrite ?Eh, ?En, Ea; auto.
Qed.
Lemma owes_upd h f d :
  (∀ c, mIpcSender (f c) = true -> mIpcSender c = true ∧ mPendingMessages (f c) = mPendingMessages c) ->
  via owes (upd h f) d.
Proof.
  intros Hf. unfold rel, upd. destruct (heap d !! h) as [c|] eqn:Hc; [|done].
  intros n [H1 H2]. split; cbn [heap next outputs put_heap].
  - intros k c' Hk Hs. apply lookup_insert_Some in Hk as [[<- <-]|[? Hk]]; [|auto].
    destruct (Hf c Hs) as [Hs' ->]. auto.
  - intros k Hk. destruct (H2 k Hk) as [Hn ?]. rewrite lookup_insert_None. split_and!; [done| |tauto..]. intros <-. congruence.
Qed.
Lemma owes_free h d : via owes (free h) d.
Proof.
  unfold rel, free. destruct (heap d !! h) as [c|] eqn:Hc; [|done].
  intros n [H1 H2]. split; cbn [heap next outputs put_heap].
  - intros k c' Hk. apply lookup_delete_Some in Hk as [_ Hk]. auto.
  - intros k Hk. destruct (H2 k Hk) as [? ?]. rewrite lookup_delete_None. tauto.
Qed.

(** A call for [h] and its entry in the queue. *)
Lemma owes_call d d' h c c' l ks :
  heap d !! h = Some c -> heap d' = <[h := c']> (heap d) -> next d' = next d -> outputs d' = outputs d ++ l ->
  asked h l = ks -> (∀ k, k ≠ h -> asked k l = []) ->
  mIpcSender c' = mIpcSender c -> mPendingMessages c' = mPendingMessages c ++ ks -> owes d d'.
Proof.
  intros Hc Eh En Eo Hl Ho Es Ep n [H1 H2]. split.
  - intros k c0 Hk Hs. rewrite Eh in Hk. rewrite Eo, asked_app. apply lookup_insert_Some in Hk as [[<- <-]|[Hne Hk]].
    + rewrite Es in Hs. destruct (H1 _ _ Hc Hs) as [Hp Hn]. rewrite Ep, Hp, Hl. split.
      * by rewrite drop_app_le by done.
      * rewrite length_app. lia.
    + rewrite Ho by done. rewrite app_nil_r. auto.
  - intros k Hk. rewrite En in Hk. destruct (H2 k Hk) as (Hn & Ha & ?). rewrite Eh, Eo, asked_app, lookup_insert_None.
    assert (h ≠ k) by (intros ->; congruence). rewrite (Ho k), Ha by done. done.
Qed.

Create HintDb owes.
#[local] Hint Extern 1 (owes _ _) => apply owes_same; reflexivity : owes.
#[local] Hint Extern 1 (owes _ _) =>
  eapply owes_out; [|reflexivity..]; intros ?; unfold kind_of; cbn; repeat case_decide; reflexivity : owes.
#[local] Hint Extern 1 (via owes (upd _ _) _) => apply owes_upd; intros ?; cbn; intros ?; split; done : owes.
#[local] Hint Extern 1 (via owes answer_send _) => apply owes_same; reflexivity : owes.
#[local] Hint Extern 1 (via owes answer_id _) => apply owes_same; reflexivity : owes.
#[local] Hint Extern 1 (via owes answer_array _) => apply owes_same; reflexivity : owes.
#[local] Hint Extern 1 (via owes answer_alloc _) => apply owes_same; reflexivity : owes.
#[local] Hint Extern 1 (via owes answer_lib _) => apply owes_same; reflexivity : owes.
#[local] Hint Resolve owes_free : owes.
Ltac owed := go_with owes fail ltac:(eauto with owes).

Section pending.
Context `{!Unordered, !Wire} (own_wire : ∀ m, own_message m = true -> wire m ≠ None).

Lemma owes_new_client name type d : via owes (new_client name type) d.
Proof.
  unfold rel. rewrite new_client_run. intros n [H1 H2].
  assert (∀ h, asked h (outputs d ++ birth (next d) type) = asked h (outputs d)) as Ea.
  { intros h. rewrite asked_app. unfold birth. case_match; cbn; [|by rewrite app_nil_r].
    unfold kind_of. cbn. case_decide; cbn; by rewrite app_nil_r. }
  split; cbn [heap next outputs put_heap put_next put_outputs]; intros h.
  - intros c Hc Hs. rewrite Ea. apply lookup_insert_Some in Hc as [[<- <-]|[Hne Hc]]; [|auto].
    destruct (H2 (next d)) as (_ & -> & ->); [lia|]. unfold newborn. by case_match.
  - intros Hh. rewrite Ea, lookup_insert_ne by lia. apply H2. lia.
Qed.
Lemma owes_fixpoints :
  (∀ l d, via owes (any_pending l) d) ∧ (∀ n d, via owes (allocate n) d).
Proof.
  split.
  - intros l. induction l as [|[n h] l IH]; intros d; simpl; owed.
  - intros n. induction n as [|n IH]; intros d; simpl; owed.
Qed.
#[local] Hint Extern 1 (via owes (any_pending _) _) => apply (proj1 owes_fixpoints) : owes.
#[local] Hint Extern 1 (via owes (allocate _) _) => apply (proj2 owes_fixpoints) : owes.
#[local] Hint Resolve owes_new_client : owes.

(** ** Requests for sessions *)

Definition idle (c : handler) : Prop := mSessionId c = 0.
Definition running (c : handler) : Prop := mLocationApi c = true ∧ mSessionId c ≠ 0.
Definition batch_idle (c : handler) : Prop := mBatchingId c = 0.
Definition batch_running (c : handler) : Prop := mLocationApi c = true ∧ mBatchingId c ≠ 0.
Definition of_client (d : daemon) (n : string) (P : handler -> Prop) : Prop :=
  ∀ h c, mClients d !! n = Some h -> heap d !! h = Some c -> P c.
Definition of_tracking (d : daemon) (P : handler -> Prop) : Prop :=
  ∀ n h c, mClients d !! n = Some h -> heap d !! h = Some c -> mTracking c = true -> P c.

(** Runs a request of the client whose handler [c] is at [h]. *)
Ltac run_client Hc :=
  unfold rel, bind, obind, out, modify, gets, ret, the, upd, answer_id; repeat (rewrite ?Hc, ?lookup_insert_eq; cbn -[asked]).
Ltac owes_now Hc :=
  eapply owes_call; [exact Hc|cbn -[asked]; rewrite ?insert_insert_eq; first [reflexivity|symmetry; by apply insert_id]
    |reflexivity|cbn -[asked]; rewrite <- ?app_assoc; first [reflexivity|symmetry; apply app_nil_r]| | | |].

Lemma owes_of_client n (P : handler -> Prop) (f : loc -> Dm unit) d :
  good d -> of_client d n P ->
  (∀ h c, heap d !! h = Some c -> P c -> via owes (f h) d) -> via owes (with_client n f) d.
Proof.
  intros G HP Hf. unfold with_client, getClient. apply (via_bind_gets _ owes).
  destruct (mClients d !! n) as [h|] eqn:Hn; [|apply (via_ret _ owes)].
  destruct (good_client d G _ _ Hn) as (_ & c & Hc & _). eauto.
Qed.

(** What the outputs ask, by computation. *)
Ltac asks :=
  unfold asked; cbn; unfold kind_of; cbn; rewrite ?decide_True by done; cbn;
  repeat match goal with H : _ = true |- _ => rewrite H | H : _ = false |- _ => rewrite H end; reflexivity.
Ltac asks_nothing := intros ??; unfold asked; cbn; unfold kind_of; cbn; rewrite ?decide_False by done; reflexivity.
Ltac calls_now Hc :=
  run_client Hc; owes_now Hc; [asks|asks_nothing|reflexivity|cbn; rewrite ?app_nil_r; reflexivity].
Ltac each_if Hc :=
  repeat lazymatch goal with |- context [if ?b then _ else _] => destruct b eqn:?; run_client Hc end.

Lemma owes_startTracking n o d : good d -> of_client d n idle -> via owes (startTracking n o) d.
Proof.
  intros G Hi. eapply owes_of_client; [done..|]. intros h c Hc Hi'. unfold startTracking_with, push_pending.
  run_client Hc. rewrite Hi'. cbn -[asked]. destruct (mLocationApi c); run_client Hc.
  - destruct (hd 0 (ids (answers d)) =? 0) eqn:?; run_client Hc.
    all: calls_now Hc.
  - rewrite Hi'. cbn. reflexivity.
Qed.
Lemma owes_stopTracking n d : good d -> of_client d n running -> via owes (stopTracking n) d.
Proof.
  intros G Hi. eapply owes_of_client; [done..|]. intros h c Hc [Ha Hs%Z.eqb_neq].
  unfold unsubscribeLocationSessionCb, updateSubscription, stopTracking_of, push_pending.
  run_client Hc. rewrite Ha. run_client Hc. rewrite Hs, Ha. calls_now Hc.
Qed.
Lemma owes_updateTracking n o d : good d -> of_client d n running -> via owes (updateTrackingOptions n o) d.
Proof.
  intros G Hi. eapply owes_of_client; [done..|]. intros h c Hc [Ha Hs%Z.eqb_neq].
  unfold updateTrackingOptions_of, push_pending. run_client Hc. rewrite Ha, Hs. calls_now Hc.
Qed.
Lemma owes_startBatching n i dist mode d : good d -> of_client d n batch_idle -> via owes (startBatching n i dist mode) d.
Proof.
  intros G Hi. eapply owes_of_client; [done..|]. intros h c Hc Hi'. unfold startBatching_of, push_pending.
  run_client Hc. rewrite Hi'. cbn -[asked]. destruct (mLocationApi c); run_client Hc.
  - destruct (hd 0 (ids (answers d)) =? 0) eqn:?; run_client Hc.
    all: calls_now Hc.
  - rewrite Hi'. cbn. reflexivity.
Qed.
Lemma owes_stopBatching n d : good d -> of_client d n batch_running -> via owes (stopBatching n) d.
Proof.
  intros G Hi. eapply owes_of_client; [done..|]. intros h c Hc [Ha Hs%Z.eqb_neq].
  unfold updateSubscription, stopBatching_of, push_pending.
  run_client Hc. rewrite Ha. run_client Hc. rewrite Hs, Ha. calls_now Hc.
Qed.
Lemma owes_updateBatching n i dist mode d :
  good d -> of_client d n batch_running -> via owes (updateBatchingOptions n i dist mode) d.
Proof.
  intros G Hi. eapply owes_of_client; [done..|]. intros h c Hc [Ha Hs%Z.eqb_neq].
  unfold updateBatchingOptions_of, push_pending. run_client Hc. rewrite Ha, Hs. calls_now Hc.
Qed.

(** ** All sessions *)

Lemma suspend_run (n : string) h c d :
  heap d !! h = Some c -> (mTracking c = true -> running c) ->
  ∃ d' c', suspend_client (n, h) d = Done (tt, d') ∧ owes d d' ∧ heap d' = <[h := c']> (heap d) ∧
    mClients d' = mClients d ∧ (mTracking c' = true -> idle c').
Proof.
  intros Hc Hr. unfold suspend_client. cbn [snd]. rewrite (bind_the _ _ _ Hc). destruct (mTracking c) eqn:Ht.
  - destruct Hr as [Ha Hs%Z.eqb_neq]; [done|]. unfold stopTracking_of, push_pending.
    run_client Hc. rewrite Ha, Hs. run_client Hc. eexists _, _. split; [reflexivity|].
    split; [owes_now Hc; [asks|asks_nothing|reflexivity..]|]. cbn. rewrite insert_insert_eq. done.
  - exists d, c. rewrite insert_id by done. split_and!; try done. congruence.
Qed.
Lemma resume_run h c d :
  heap d !! h = Some c -> idle c ->
  ∃ id d', restartTracking h d = Done (id, d') ∧
    if id =? 0 then owes d d' else
    ∃ d'' c', push_pending h E_LOCAPI_START_TRACKING_MSG_ID d' = Done (tt, d'') ∧ owes d d'' ∧
      heap d'' = <[h := c']> (heap d) ∧ mClients d'' = mClients d.
Proof.
  intros Hc Hi. unfold restartTracking. rewrite (bind_the _ _ _ Hc), Hi. cbn -[asked].
  destruct (mLocationApi c) eqn:Ha.
  - run_client Hc. eexists _, _. split; [reflexivity|]. destruct (hd 0 (ids (answers d)) =? 0) eqn:Hid.
    + owes_now Hc; [asks|asks_nothing|reflexivity|cbn; by rewrite app_nil_r].
    + unfold push_pending. run_client Hc. eexists _, _. split; [reflexivity|].
      split; [owes_now Hc; [asks|asks_nothing|reflexivity..]|]. cbn. by rewrite insert_insert_eq.
  - run_client Hc. eexists _, _. split; [reflexivity|]. rewrite Hi. cbn. reflexivity.
Qed.

(** The clients of a list, which have different handlers, satisfy [P] if they track. *)
Definition all_track (P : handler -> Prop) (d : daemon) (l : list (string * loc)) : Prop :=
  NoDup l.*2 ∧ Forall (λ x, ∃ c, heap d !! x.2 = Some c ∧ (mTracking c = true -> P c)) l.
Lemma all_track_cons P d d' x l c' :
  all_track P d (x :: l) -> heap d' = <[x.2 := c']> (heap d) -> all_track P d' l.
Proof.
  intros [[Hx Hnd]%NoDup_cons [_ Hl']%Forall_cons] Hh. split; [done|].
  apply Forall_forall. intros y Hy. rewrite Hh, lookup_insert_ne.
  - by apply (proj1 (Forall_forall _ _) Hl').
  - intros Heq. apply Hx. rewrite Heq. by apply list_elem_of_fmap_2.
Qed.
Lemma all_track_clients P d :
  good d -> of_tracking d P -> all_track P d (clients_in_order (mClients d)).
Proof.
  intros G HP. destruct (good_clients_distinct d _ G (clients_in_order_perm _)) as [Hnd Hl]. split; [done|].
  eapply Forall_impl; [exact Hl|]. intros [n h] Hn. cbn in *.
  destruct (good_client d G _ _ Hn) as (_ & c & Hc & _). eauto.
Qed.
Lemma suspend_all_run l d :
  all_track running d l ->
  ∃ d', for_each suspend_client l d = Done (tt, d') ∧ owes d d' ∧ mClients d' = mClients d ∧
    (∀ h, h ∉ l.*2 -> heap d' !! h = heap d !! h) ∧
    ∀ h c, h ∈ l.*2 -> heap d' !! h = Some c -> mTracking c = true -> idle c.
Proof.
  revert d. induction l as [|[n h] l IH]; intros d Hl.
  { exists d. split_and!; try done. intros h c Hh. by apply not_elem_of_nil in Hh. }
  pose proof Hl as [[Hh Hnd]%NoDup_cons [(c & Hc & Hr) _]%Forall_cons]. cbn [snd] in *.
  destruct (suspend_run n h c d Hc Hr) as (d1 & c' & E1 & Ho1 & Hh1 & Hm1 & Hi1).
  destruct (IH d1) as (d2 & E2 & Ho2 & Hm2 & Hn2 & Hi2); [by eapply (all_track_cons _ _ _ (n, h))|].
  exists d2. cbn [for_each]. rewrite (bind_done _ _ _ _ _ E1). split_and!; [done|by etrans|congruence| |].
  - intros k [Hk1 Hk2]%not_elem_of_cons. rewrite Hn2, Hh1, lookup_insert_ne; done.
  - intros k c0 [->|Hk]%elem_of_cons Hk0; [|eauto]. rewrite Hn2, Hh1, lookup_insert_eq in Hk0 by done. by simplify_eq.
Qed.
Lemma suspendAll_run d :
  good d -> of_tracking d running ->
  ∃ d', suspendAllTrackingSessions d = Done (tt, d') ∧ owes d d' ∧ of_tracking d' idle.
Proof.
  intros G Ht. destruct (suspend_all_run _ _ (all_track_clients _ _ G Ht)) as (d' & E & Ho & Hm & _ & Hi).
  exists d'. split; [exact E|]. split; [done|]. intros n h c Hn Hc. eapply Hi; [|done].
  apply list_elem_of_fmap. exists (n, h). split; [done|]. rewrite clients_in_order_perm. apply elem_of_map_to_list. congruence.
Qed.
Lemma owes_resume l d : all_track idle d l -> via owes (resume_clients l) d.
Proof.
  revert d. induction l as [|[n h] l IH]; intros d Hl; [apply (via_ret _ owes)|].
  pose proof Hl as [_ [(c & Hc & Hr) _]%Forall_cons]. cbn [snd] in *.
  cbn [resume_clients]. apply (via_bind_done _ owes _ _ _ _ _ (the_done _ _ _ Hc)); [reflexivity|].
  destruct (mTracking c).
  - destruct (resume_run h c d Hc (Hr eq_refl)) as (id & d1 & E & H1). unfold rel, bind at 1. rewrite E. cbn [obind].
    destruct (id =? 0); [exact H1|]. destruct H1 as (d2 & c' & E2 & H2 & Hh & _).
    rewrite (bind_done _ _ _ _ _ E2). assert (via owes (resume_clients l) d2) as IHl.
    { by eapply IH, (all_track_cons _ _ _ (n, h)). }
    unfold rel in IHl. destruct (resume_clients l d2) as [[? ?]| |]; [|done..]. by etrans.
  - apply IH. eapply (all_track_cons _ _ _ (n, h) _ c); [done|]. cbn. by rewrite insert_id.
Qed.
Lemma owes_resumeAll d : good d -> of_tracking d idle -> via owes resumeAllTrackingSessions d.
Proof. intros G Ht. apply (via_bind_gets _ owes). by apply owes_resume, all_track_clients. Qed.

(** Between, no session starts. *)
Definition stills (d d' : daemon) : Prop := owes d d' ∧ (of_tracking d idle -> of_tracking d' idle).
#[local] Instance stills_preorder : PreOrder stills.
Proof. split; [by intros d|]. intros d1 d2 d3 [? ?] [? ?]. split; [by etrans|auto]. Qed.
Lemma stills_heap d d' :
  owes d d' -> heap d' = heap d -> mClients d' ⊆ mClients d -> stills d d'.
Proof.
  intros Ho Eh Em. split; [done|]. intros Ht n h c Hn. rewrite Eh. apply (Ht n h c). by eapply lookup_weaken.
Qed.
Lemma stills_upd h f d :
  (∀ c, mIpcSender (f c) = true -> mIpcSender c = true ∧ mPendingMessages (f c) = mPendingMessages c) ->
  (∀ c, mTracking (f c) = mTracking c ∧ mSessionId (f c) = mSessionId c) -> via stills (upd h f) d.
Proof.
  intros Hf Hs. pose proof (owes_upd h f d Hf) as Ho. unfold rel, upd in *. destruct (heap d !! h) as [c|] eqn:Hc; [|done].
  split; [done|]. intros Ht n k c' Hn. cbn. intros [[<- <-]|[? Hk]]%lookup_insert_Some; [|eauto].
  destruct (Hs c) as [-> Hid]. unfold idle. rewrite Hid. exact (Ht n _ c Hn Hc).
Qed.
Lemma stills_free h d : via stills (free h) d.
Proof.
  pose proof (owes_free h d) as Ho. unfold rel, free in *. destruct (heap d !! h) as [c|]; [|done].
  split; [done|]. intros Ht n k c' Hn. cbn. intros [_ Hk]%lookup_delete_Some. eauto.
Qed.
#[local] Hint Extern 1 (stills _ _) => apply stills_heap; [eauto with owes|reflexivity|first [reflexivity|apply delete_subseteq]] : owes.
#[local] Hint Extern 1 (via stills (upd _ _) _) => apply stills_upd; intros ?; cbn; [intros ?|]; split; done : owes.
#[local] Hint Extern 1 (via stills answer_send _) => apply stills_heap; [by apply owes_same|done..] : owes.
#[local] Hint Extern 1 (via stills answer_id _) => apply stills_heap; [by apply owes_same|done..] : owes.
#[local] Hint Resolve stills_free : owes.
Ltac still := go_with stills fail ltac:(eauto with owes).
Lemma stills_control c d : via stills (control c) d.
Proof. still. Qed.
Lemma stills_addConfig sid n id d : via stills (addConfigRequestToMap sid n id) d.
Proof. still. Qed.

Lemma via_done {A} u R (m : Dm A) d a d' : rel u R m d -> m d = Done (a, d') -> R d d'.
Proof. unfold rel. intros Hr E. by rewrite E in Hr. Qed.
Lemma via_stills {A} (m : Dm A) d : via stills m d -> via owes m d.
Proof. unfold rel. case_match; [|done..]. destruct a. by intros [? _]. Qed.
Lemma owes_deletion n data id d : good d -> of_tracking d running -> via owes (configAidingDataDeletion n data id) d.
Proof.
  intros G Ht. destruct (suspendAll_run d G Ht) as (d1 & E1 & Ho1 & Hi1).
  pose proof (calm_good _ _ (via_done _ _ _ _ _ _ (calm_suspendAll d G) E1) G) as G1.
  unfold configAidingDataDeletion. apply (via_bind_done _ owes _ _ _ _ _ E1 Ho1).
  apply (via_bind_any _ owes); [apply via_stills, stills_control|]. intros sid d2 E2 _.
  assert (runs calm (control (GnssDeleteAidingData data)) d1) as Hc by calmly.
  pose proof (calm_good _ _ (via_done _ _ _ _ _ _ Hc E2) G1) as G2.
  pose proof (proj2 (via_done _ _ _ _ _ _ (stills_control _ _) E2) Hi1) as Hi2.
  apply (via_bind_any _ owes); [apply via_stills, stills_addConfig|]. intros [] d3 E3 _.
  pose proof (via_done _ _ _ _ _ _ (good_addConfig own_wire sid n id d2 G2) E3 G2) as G3.
  pose proof (proj2 (via_done _ _ _ _ _ _ (stills_addConfig _ _ _ _) E3) Hi2) as Hi3.
  apply (via_bind_gets _ owes). apply (via_if _ owes); intros _; [apply (via_ret _ owes)|by apply owes_resumeAll].
Qed.

(** ** A step *)

(** What keeps the queue in step with the calls: sessions are only requested where
    LocationAPI is called, and a response comes for a call. *)
Definition orderly (d : daemon) (e : event) : Prop :=
  match e with
  | Request n (LocAPIStartTrackingReqMsg _) _ => of_client d n idle
  | Request n LocAPIStopTrackingReqMsg _ => of_client d n running
  | Request n (LocAPIUpdateTrackingOptionsReqMsg _) _ => of_client d n running
  | Request n (LocAPIStartBatchingReqMsg _ _ _) _ => of_client d n batch_idle
  | Request n LocAPIStopBatchingReqMsg _ => of_client d n batch_running
  | Request n (LocAPIUpdateBatchingOptionsReqMsg _ _ _) _ => of_client d n batch_running
  | Request n (LocConfigAidingDataDeletionReqMsg _) _ => of_tracking d running
  | PowerEvent st =>
      if (st =? POWER_STATE_SUSPEND) || (st =? POWER_STATE_SHUTDOWN) then of_tracking d running
      else st = POWER_STATE_RESUME -> of_tracking d idle
  | ResponseCb h _ _ => ∀ c, heap d !! h = Some c -> mIpcSender c = true -> mPendingMessages c ≠ []
  | _ => True
  end.
(** The responses for a handler. *)
Definition is_response (h : loc) (e : event * env) : bool :=
  match e.1 with ResponseCb h' _ _ => bool_decide (h' = h) | _ => false end.
Definition responses (h : loc) (es : list (event * env)) : nat := length (filter (λ e, is_response h e = true) es).

#[local] Hint Resolve owes_startTracking owes_stopTracking owes_updateTracking owes_startBatching owes_stopBatching
  owes_updateBatching owes_deletion : owes.
Lemma owes_serve n m data d : good d -> orderly d (Request n m data) -> via owes (serve n m data) d.
Proof. intros G Ho. destruct m; cbn [serve orderly] in *; try solve [eauto with owes]. all: owed. Qed.
Lemma owes_handle e d :
  good d -> orderly d e -> (∀ h err id, e ≠ ResponseCb h err id) -> via owes (handle e) d.
Proof.
  intros G Ho He. destruct e; cbn [handle].
  all: try solve [owed].
  - by destruct (He h err id).
  - unfold onPowerEvent. apply (via_bind_done _ owes _ _ _ _ _ eq_refl); [by apply owes_same|].
    set (d1 := put_mPowerState st d). assert (good d1) as G1 by (revert G; apply calm_good; by apply calm_same).
    apply (via_bind _ owes); [|intros; owed]. cbn in Ho. destruct (_ || _).
    + destruct (suspendAll_run d1 G1 Ho) as (d' & E & Hd' & _). unfold rel. by rewrite E.
    + destruct (st =? POWER_STATE_RESUME) eqn:Hst; [|apply (via_ret _ owes)].
      apply owes_resumeAll; [done|]. apply Ho. lia.
Qed.

(** A response, which takes the first entry of the queue. *)
Lemma tail_drop {A} n (l : list A) : tail (drop n l) = drop (S n) l.
Proof. revert l. induction n as [|n IH]; intros [|x l]; [done..|]. exact (IH l). Qed.
Definition bump (h : loc) (n : loc -> nat) (k : loc) : nat := if decide (k = h) then S (n k) else n k.
Lemma pending_response n h err id d d' :
  pending_inv n d -> orderly d (ResponseCb h err id) -> onResponseCb h err id d = Done (tt, d') ->
  pending_inv (bump h n) d'.
Proof.
  intros HI Ho E. pose proof HI as [HI1 HI2]. destruct (heap d !! h) as [c|] eqn:Hc.
  2: { unfold onResponseCb, bind, the in E. by rewrite Hc in E. }
  assert (∀ k, (next d ≤ k)%positive -> k ≠ h) as Hfresh.
  { intros k Hk ->. destruct (HI2 h Hk). congruence. }
  unfold onResponseCb in E. rewrite (bind_the _ _ _ Hc) in E. destruct (mIpcSender c) eqn:Hs.
  - rewrite (bind_done _ _ _ _ _ (upd_done _ _ _ Hc _)) in E. set (d1 := put_heap _ d) in E.
    assert (pending_inv (bump h n) d1) as H1.
    { destruct (HI1 h c Hc Hs) as [Hp Hn]. specialize (Ho c Hc Hs). split; cbn [heap next outputs d1 put_heap].
      - intros k c' Hk Hs'. unfold bump. apply lookup_insert_Some in Hk as [[<- <-]|[Hne Hk]].
        + rewrite decide_True by done. cbn [mPendingMessages set_mPendingMessages]. rewrite Hp. split.
          * by rewrite tail_drop.
          * assert (n h ≠ length (asked h (outputs d))); [|lia]. intros Hlen. apply Ho.
            rewrite Hp. apply drop_ge. lia.
        + rewrite decide_False by done. auto.
      - intros k Hk. destruct (HI2 k Hk) as (Hk1 & Hk2 & Hk3). specialize (Hfresh k Hk).
        rewrite lookup_insert_ne by done. unfold bump. by rewrite decide_False. }
    match type of E with ?m d1 = _ => assert (via owes m d1) as Hv by owed; exact (via_done _ _ _ _ _ _ Hv E _ H1) end.
  - injection E as <-. split.
    + intros k c' Hk Hs'. unfold bump. destruct (decide (k = h)) as [->|]; [congruence|auto].
    + intros k Hk. unfold bump. rewrite decide_False by auto. auto.
Qed.
Lemma responses_cons h e es : responses h (e :: es) = ((if is_response h e then 1 else 0) + responses h es)%nat.
Proof. unfold responses. rewrite filter_cons. destruct (is_response h e); [by rewrite decide_True|by rewrite decide_False]. Qed.

Lemma pending_step n d e d' :
  good d -> event_ok d e.1 e.2 -> orderly d e.1 -> pending_inv n d -> step d e = Some d' ->
  good d' ∧ pending_inv (λ h, n h + responses h [e])%nat d'.
Proof.
  intros G Hok Ho HI Hs. split.
  { destruct (safe_step own_wire d e G Hok) as [Hz Hn]. destruct (hazard_or d e.1 e.2) as [Hh|Hh]; [by rewrite Hz in Hs|].
    destruct (Hn Hh) as (d2 & E & G2). congruence. }
  assert (pending_inv n (put_answers e.2 d)) as HI1 by exact HI.
  assert (∀ n' : loc -> nat, (∀ h, n' h = n h) -> pending_inv n d' -> pending_inv n' d') as Hext.
  { intros n' Hn' [H1 H2]. split; [intros h c; rewrite Hn'; apply H1|intros h; rewrite Hn'; apply H2]. }
  assert (orderly (put_answers e.2 d) e.1) as Ho1 by (destruct e as [[] v]; exact Ho).
  destruct e as [e v]. cbn [fst snd] in *. unfold step in Hs. cbn [fst snd] in Hs.
  assert ((∃ h err id, e = ResponseCb h err id) ∨ ∀ h err id, e ≠ ResponseCb h err id) as [(h & err & id & ->)|Hne]
    by (destruct e; try (by right); left; eauto).
  - cbn [handle] in Hs. destruct (onResponseCb h err id _) as [[[] d2]| |] eqn:E; [|done..]. injection Hs as ->.
    pose proof (pending_response n h err id _ _ HI1 Ho1 E) as [H1 H2].
    assert (∀ k, n k + responses k [(ResponseCb h err id, v)] = bump h n k)%nat as Heq.
    { intros k. rewrite responses_cons. unfold bump, is_response. cbn.
      destruct (decide (k = h)) as [->|]; [rewrite bool_decide_eq_true_2 by done|rewrite bool_decide_eq_false_2 by done]; cbn; lia. }
    split; [intros k c; rewrite Heq; apply H1|intros k; rewrite Heq; apply H2].
  - pose proof (good_answers v d G) as G1. pose proof (owes_handle e _ G1 Ho1 Hne) as Hv.
    destruct (handle e _) as [[[] d2]| |] eqn:E; [|done..]. injection Hs as ->.
    apply Hext; [|exact (via_done _ _ _ _ _ _ Hv E n HI1)]. intros h. rewrite responses_cons. unfold is_response.
    destruct e as [|h0 err id| | | | | | | | | | | | | | | | | | | | | | |]; cbn; try lia. by destruct (Hne h0 err id).
Qed.
Lemma bind_inv {A B} (m : Dm A) (k : A -> Dm B) d r :
  bind m k d = Done r -> ∃ a d', m d = Done (a, d') ∧ k a d' = Done r.
Proof. unfold bind, obind. destruct (m d) as [[a d']| |]; [|done..]. eauto. Qed.
Lemma owes_autostart h c o mask d d' :
  heap d !! h = Some c -> idle c -> mLocationApi c = true ->
  (updateSubscription h mask ;;; startTracking_with h o ;;; upd h (set_mTracking true) ;;;
   push_pending h E_LOCAPI_START_TRACKING_MSG_ID) d = Done (tt, d') ->
  (∀ c, heap d' !! h = Some c -> mSessionId c ≠ 0) -> owes d d'.
Proof.
  intros Hc Hi Ha. unfold updateSubscription, startTracking_with, push_pending.
  run_client Hc. rewrite Ha. run_client Hc. rewrite Hi, Ha. run_client Hc. intros [= <-] Hid.
  specialize (Hid _ (lookup_insert_eq _ _ _)). cbn in Hid. apply Z.eqb_neq in Hid.
  owes_now Hc; [asks|asks_nothing|reflexivity|reflexivity].
Qed.
Lemma pending_started p v d :
  started p v = Some d -> (∀ h c, heap d !! h = Some c -> mSessionId c ≠ 0) -> pending_inv (λ _, O) d.
Proof.
  unfold started, autostart. set (d0 := put_answers v _). assert (pending_inv (λ _, O) d0) as HI by by split; [|intros h _].
  destruct (autoStartGnss p); cbn [negb]; [|by intros [= <-] _].
  intros Hs Hid. destruct (bind _ _ d0) as [[[] d']| |] eqn:E; [|done..]. injection Hs as ->.
  apply bind_inv in E as ([] & d1 & E1 & E).
  assert (owes d0 d1) as Ho1.
  { refine (via_done True owes _ _ _ _ _ E1). owed. }
  rewrite (bind_done _ _ _ _ _ (new_client_run _ _ d1)), bind_modify in E.
  pose proof (via_done _ _ _ _ _ _ (owes_new_client AUTO_START_CLIENT_NAME LOCATION_CLIENT_API d1) (new_client_run _ _ _)) as Ho2.
  eapply owes_autostart in E; [|apply lookup_insert_eq|reflexivity|reflexivity|apply Hid].
  apply E. eapply owes_same; [reflexivity..|]. by apply Ho2, Ho1.
Qed.

Lemma run_pending n d es d' :
  good d -> pending_inv n d -> run_ok step (λ d e, event_ok d e.1 e.2 ∧ orderly d e.1) d es ->
  run step d es = Some d' -> good d' ∧ pending_inv (λ h, n h + responses h es)%nat d'.
Proof.
  revert n d. induction es as [|e es IH]; intros n d G HI Hok Hr; cbn in Hr, Hok.
  - simplify_eq. split; [done|]. destruct HI as [H1 H2]. split; intros h; rewrite Nat.add_0_r; [apply H1|apply H2].
  - destruct Hok as [[He Ho] Hok]. destruct (step d e) as [d1|] eqn:E; [|done].
    destruct (pending_step n d e d1 G He Ho HI E) as [G1 HI1]. destruct (IH _ _ G1 HI1 Hok Hr) as [G2 [H1 H2]].
    assert (∀ h, n h + responses h [e] + responses h es = n h + responses h (e :: es))%nat as Heq.
    { intros h. rewrite !responses_cons. cbn. lia. }
    split; [done|]. split; intros h; rewrite <- Heq; [apply H1|apply H2].
Qed.
Lemma asked_kinds h l k : k ∈ asked h l -> k ∈ session_requests.
Proof.
  unfold asked. rewrite list_elem_of_omap. intros ([] & _ & Hk); try discriminate.
  unfold kind_of in Hk. cbn in Hk. case_decide; [|done]. cbn in Hk.
  destruct c; cbn in Hk; try discriminate; repeat case_match; simplify_eq; apply (bool_decide_unpack _); exact I.
Qed.
Lemma delete_outputs n d : good d -> ∃ d' l, deleteClientbyName n d = Done (tt, d') ∧ outputs d' = outputs d ++ l.
Proof.
  intros G. destruct (mClients d !! n) as [h|] eqn:Hn.
  - destruct (good_client d G _ _ Hn) as (_ & c & Hc & _). rewrite (delete_run _ _ _ _ Hn Hc). eexists _, _. split; reflexivity.
  - rewrite delete_nobody by done. exists d, []. by rewrite app_nil_r.
Qed.
Lemma response_run d h c k q err id w :
  good d -> heap d !! h = Some c -> mIpcSender c = true -> mPendingMessages c = k :: q -> k ∈ session_requests ->
  wire (LocAPIGenericRespMsg k err) = Some true ->
  ∃ d2 s l, step d (ResponseCb h err id, w) = Some d2 ∧
    outputs d2 = outputs d ++ OutMsg (mName c) (LocAPIGenericRespMsg k err) s :: l.
Proof.
  intros G Hc Hi Hq Hk Hw. unfold step. cbn [fst snd handle]. set (d1 := put_answers w d).
  unfold onResponseCb. rewrite (bind_the h c d1 Hc), Hi, Hq. cbn zeta. cbn [front head tail default].
  rewrite (bind_done _ _ _ _ _ (upd_done h c d1 Hc _)). rewrite bool_decide_eq_true_2 by exact Hk.
  set (c2 := set_mPendingMessages q c). set (d2 := put_heap _ d1).
  assert (heap d2 !! h = Some c2) as Hc2 by apply lookup_insert_eq.
  assert (good d2) as G2.
  { refine (calm_good d1 d2 _ (good_answers _ _ G)). refine (via_done _ _ _ _ _ _ (calm_upd_at h (λ _, c2) c d1 Hc _) _); [done|].
    by rewrite (upd_done h c d1 Hc). }
  change (Datatypes.id k) with k.
  rewrite (send_or_purge_run h c2 _ d2 Hc2 Hi Hw). destruct (hd true _) eqn:Hsent.
  - eexists _, true, []. split; [reflexivity|]. unfold sent. rewrite Hsent. reflexivity.
  - assert (good (sent (mName c2) (LocAPIGenericRespMsg k err) d2)) as G3 by (revert G2; apply calm_good; by apply calm_same).
    destruct (delete_outputs (mName c2) _ G3) as (d3 & l & -> & Hl). exists d3, false, l. split; [done|].
    rewrite Hl. unfold sent. rewrite Hsent. cbn [outputs put_outputs]. by rewrite <- app_assoc.
Qed.

(** C8: In a defined run, the queue of a client that is reached by IPC holds its calls
    that are not answered yet, and the next response is reported to the client under
    the message of the call that it answers, if that message can be serialized.  The
    run is supposed to be [orderly] and its events [event_ok]: clients start a session
    (of tracking, of batching) only when they have none, and stop and update only one
    that runs; SUSPEND, SHUTDOWN and the deletion of aiding data only come while all
    tracking clients have running sessions, and RESUME while none has one; LocationAPI
    answers only calls that are pending, in their order, and the client that starts
    with the daemon gets its session.  Without that the queue falls out of step
    (stop_without_session, shutdown_while_suspended in HalRuns.v). *)
Theorem responses_name_their_calls p v d es d1 h c :
  started p v = Some d -> (∀ h c, heap d !! h = Some c -> mSessionId c ≠ 0) ->
  run_ok step (λ d e, event_ok d e.1 e.2 ∧ orderly d e.1) d es -> run step d es = Some d1 ->
  heap d1 !! h = Some c -> mIpcSender c = true ->
  mPendingMessages c = drop (responses h es) (asked h (outputs d1)) ∧
  ∀ k err id w, asked h (outputs d1) !! responses h es = Some k -> wire (LocAPIGenericRespMsg k err) = Some true ->
    ∃ d2 s l, step d1 (ResponseCb h err id, w) = Some d2 ∧
      outputs d2 = outputs d1 ++ OutMsg (mName c) (LocAPIGenericRespMsg k err) s :: l.
Proof.
  intros Hs Hid Hok Hr Hc Hi. pose proof (pending_started p v d Hs Hid) as HI.
  destruct (good_started p v) as (d0 & Hs0 & G). rewrite Hs in Hs0. injection Hs0 as <-.
  destruct (run_pending _ d es d1 G HI Hok Hr) as [G1 [HI1 _]]. destruct (HI1 h c Hc Hi) as [Hq _]. cbn in Hq.
  split; [done|]. intros k err id w Hk Hw.
  apply (response_run d1 h c k (drop (S (responses h es)) (asked h (outputs d1))) err id w G1 Hc Hi); [|by eapply asked_kinds, list_elem_of_lookup_2|done].
  rewrite Hq. by apply drop_S.
Qed.
End pending.

(** A client starts and stops a session; LocationAPI answers twice. *)
Definition answered_run : list (event * env) :=
  [ registers "app";
    (Request "app" (LocAPIStartTrackingReqMsg every_second) [], with_ids [7]);
    (Request "app" LocAPIStopTrackingReqMsg [], no_env);
    (ResponseCb 1%positive LOCATION_ERROR_SUCCESS 7, no_env) ].
Definition half_answered : daemon := Eval vm_compute in default plain_daemon (plain_run answered_run).
Ltac client_is tac :=
  let h := fresh in let c := fresh in let Hn := fresh in let Hh := fresh in
  intros h c Hn Hh; vm_compute in Hn; injection Hn as <-; vm_compute in Hh; injection Hh as <-; tac.
Lemma responses_name_their_calls_witness :
  ∃ d2 s l, @step stored_order every_wire half_answered (ResponseCb 1%positive LOCATION_ERROR_SUCCESS 7, no_env) = Some d2 ∧
    outputs d2 = outputs half_answered ++
      OutMsg "app" (LocAPIGenericRespMsg E_LOCAPI_STOP_TRACKING_MSG_ID LOCATION_ERROR_SUCCESS) s :: l.
Proof.
  assert (started plain_config no_env = Some plain_daemon) as Hs by (vm_compute; reflexivity).
  assert (plain_run answered_run = Some half_answered) as Hr by (vm_compute; reflexivity).
  destruct (heap half_answered !! 1%positive) as [c|] eqn:Hc; [|vm_compute in Hc; discriminate].
  assert (Hc' := Hc). vm_compute in Hc'. injection Hc' as Hc'.
  assert (mName c = "app") as Hn by (rewrite <- Hc'; reflexivity).
  rewrite <- Hn.
  refine (proj2 (@responses_name_their_calls stored_order every_wire ltac:(discriminate) _ _ _ answered_run _ 1%positive c Hs _ _ Hr Hc _)
    (E_LOCAPI_STOP_TRACKING_MSG_ID : Z) _ _ _ _ _).
  - intros h c0 Hh. change (heap plain_daemon) with (∅ : gmap loc handler) in Hh. rewrite lookup_empty in Hh. discriminate.
  - eapply run_ok_cons; [split; exact I|vm_compute; reflexivity|].
    eapply run_ok_cons; [split; [exact I|client_is ltac:(exact eq_refl)]|vm_compute; reflexivity|].
    eapply run_ok_cons; [split; [exact I|client_is ltac:(split; [reflexivity|discriminate])]|vm_compute; reflexivity|].
    eapply run_ok_cons; [|vm_compute; reflexivity|exact I]. split; [by eexists|].
    intros c0 Hc0. vm_compute in Hc0. injection Hc0 as <-. discriminate.
  - rewrite <- Hc'. reflexivity.
  - vm_compute. reflexivity.
  - reflexivity.
Defined.
