(* ===== verification/HalRuns.v ===== *)
(** Concrete runs of the location daemon that show where it does not do what it
    means to. *)

From stdpp Require Import list gmap strings.
From S2P Require Import Prelude Runs LocationEnums PbConversions ApiStructs PbMessages PbMsgConv IpcMessages.
From S2P Require Import IpcArrive IpcDispatch HalState HalClient HalService HalLogic.

Local Open Scope Z_scope.

(** What a run calls and sends. *)
Definition shown (es : list (event * env)) : option (list output) := outputs <$> plain_run es.
Definition asks (n : string) (m : LocAPIMsg) (l : list Z) : event * env := (Request n m [], with_ids l).
Definition starts (n : string) (l : list Z) : event * env := asks n (LocAPIStartTrackingReqMsg every_second) l.
Definition created (h : loc) : output :=
  OutApi h (CreateInstance (subscribed_callbacks E_LOC_CB_GNSS_LOCATION_INFO_BIT no_callbacks)).

(** A stop without a session makes no call, but is waited for: the response to the
    start that follows is reported as one to the stop. *)
Example stop_without_session :
  (λ l, drop 2 l) <$> shown [ registers "app"; asks "app" LocAPIStopTrackingReqMsg []; starts "app" [7];
    (ResponseCb 1%positive LOCATION_ERROR_SUCCESS 7, no_env) ] =
  Some [ OutApi 1%positive (StartTracking every_second 7);
         OutMsg "app" (LocAPIGenericRespMsg E_LOCAPI_STOP_TRACKING_MSG_ID LOCATION_ERROR_SUCCESS) true ].
Proof. vm_compute. reflexivity. Qed.

(** A client that starts while the system is suspended is started. *)
Example starts_while_suspended :
  shown [ (PowerEvent POWER_STATE_SUSPEND, no_env); registers "app"; starts "app" [7] ] =
  Some [ created 1%positive; OutApi 1%positive (StartTracking every_second 7) ].
Proof. vm_compute. reflexivity. Qed.

(** The resumption ends with the first session that does not start: the other
    client stays suspended. *)
Example resumption_ends_early :
  (λ l, drop 6 l) <$> shown [ registers "a"; registers "b"; starts "a" [7]; starts "b" [8];
    (PowerEvent POWER_STATE_SUSPEND, no_env); (PowerEvent POWER_STATE_RESUME, with_ids [0; 9]) ] =
  Some [ OutApi 1%positive (StartTracking every_second 0) ] ∨
  (λ l, drop 6 l) <$> shown [ registers "a"; registers "b"; starts "a" [7]; starts "b" [8];
    (PowerEvent POWER_STATE_SUSPEND, no_env); (PowerEvent POWER_STATE_RESUME, with_ids [0; 9]) ] =
  Some [ OutApi 2%positive (StartTracking every_second 0) ].
Proof. vm_compute. first [left; reflexivity|right; reflexivity]. Qed.

(** Network location is stopped while a client still waits for a fix, and goes on
    when the last request timed out. *)
Definition consents (n : string) : event * env := asks n (LocConfigUserConsentTerrestrialPositioningReqMsg true) [5].
Definition wants_fix (n : string) : event * env := asks n (LocAPIGetSingleTerrestrialPosReqMsg 1000 0 0) [].
Definition timed_out (n : string) : output :=
  OutMsg n (LocAPIGetSingleTerrestrialPosRespMsg LOCATION_ERROR_TIMEOUT Location_zero) true.
Example timeout_with_another_request :
  (λ l, drop 4 l) <$> shown [ registers "a"; registers "b"; consents "a"; wants_fix "a"; wants_fix "b";
    (FixTimeout "a", no_env) ] =
  Some [ OutNetwork true; timed_out "a"; OutNetwork false ].
Proof. vm_compute. reflexivity. Qed.
Example timeout_of_the_last_request :
  (λ l, drop 3 l) <$> shown [ registers "a"; consents "a"; wants_fix "a"; (FixTimeout "a", no_env) ] =
  Some [ OutNetwork true; timed_out "a" ].
Proof. vm_compute. reflexivity. Qed.

(** A client leaves, and its network location runs on. *)
Example fix_of_a_client_that_left :
  (λ l, drop 3 l) <$> shown [ registers "a"; consents "a"; wants_fix "a"; asks "a" LocAPIClientDeregisterReqMsg [] ] =
  Some [ OutNetwork true; OutRemoveFile "a"; OutApi 1%positive Destroy ].
Proof. vm_compute. reflexivity. Qed.

(** Someone who is not a client asks for a fix: the fix is sent through a null
    pointer. *)
Definition somewhere : Location :=
  MkLocation LOCATION_HAS_LAT_LONG_BIT 0 0 0 0 0 0 0 0 0 0 0 0 0 0 0.
Example fix_for_a_stranger :
  shown [ registers "a"; consents "a"; wants_fix "b"; (GtpWwanTrackingCb somewhere, no_env) ] = None.
Proof. vm_compute. reflexivity. Qed.

(** A client is gone: maintenance deletes it, without the lock. *)
Definition ping (sent racing : bool) : event * env := (CheckClient [] racing, Env [sent] [] [] [] []).
Example maintenance_without_lock :
  shown [ registers "a"; (Maintenance, no_env); ping false true ] = None ∧
  (λ l, drop 1 l) <$> shown [ registers "a"; (Maintenance, no_env); ping false false ] =
  Some [ OutMsg "a" (LocAPIPingTestReqMsg []) false; OutRemoveFile "a"; OutApi 1%positive Destroy ].
Proof. split; vm_compute; reflexivity. Qed.

(** The system is shut down while it is suspended: a second stop is waited for
    that was not called. *)
Example shutdown_while_suspended :
  (λ d, (outputs d, mPendingMessages <$> heap d !! 1%positive)) <$>
    plain_run [ registers "a"; starts "a" [7]; (ResponseCb 1%positive LOCATION_ERROR_SUCCESS 7, no_env);
      (PowerEvent POWER_STATE_SUSPEND, no_env); (PowerEvent POWER_STATE_SHUTDOWN, no_env) ] =
  Some ([ created 1%positive; OutApi 1%positive (StartTracking every_second 7);
          OutMsg "a" (LocAPIGenericRespMsg E_LOCAPI_START_TRACKING_MSG_ID LOCATION_ERROR_SUCCESS) true;
          OutApi 1%positive (StopTracking 7) ],
        Some [ E_LOCAPI_STOP_TRACKING_MSG_ID : Z; E_LOCAPI_STOP_TRACKING_MSG_ID : Z ]).
Proof. vm_compute. reflexivity. Qed.

(** Without GnssInterface, the request for the secondary bands is not answered. *)
Example secondary_bands_unanswered :
  shown [ registers "a"; asks "a" LocConfigGetConstellationSecondaryBandConfigReqMsg [5] ] = Some [ created 1%positive ].
Proof. vm_compute. reflexivity. Qed.

(** Tracking with the interval that was asked for last is resumed with an interval
    that is not one of the supported ones. *)
Definition odd_interval : LocationOptions := MkLocationOptions 1234 0 GNSS_SUPL_MODE_STANDALONE 0.
Example resumes_unsupported_interval :
  (λ l, drop 2 l) <$> shown [ registers "a"; starts "a" [7]; asks "a" (LocAPIUpdateTrackingOptionsReqMsg odd_interval) [];
    (PowerEvent POWER_STATE_SUSPEND, no_env); (PowerEvent POWER_STATE_RESUME, with_ids [8]) ] =
  Some [ OutApi 1%positive (UpdateTrackingOptions 7 (with_minInterval 2000 odd_interval));
         OutApi 1%positive (StopTracking 7); OutApi 1%positive (StartTracking odd_interval 8) ].
Proof. vm_compute. reflexivity. Qed.

(** The callback for tracking stays set when it is no longer subscribed to. *)
Example tracking_callback_stays :
  trackingCb (subscribed_callbacks 0 (subscribed_callbacks E_LOC_CB_DISTANCE_BASED_TRACKING_BIT no_callbacks)) = true.
Proof. reflexivity. Qed.
