(* ===== verification/LocationAPI.v ===== *)
(** gps/location/LocationAPI.cpp: the objects through which clients reach the
    adapters.  gData remembers the callbacks of each client and which adapters a
    destroyed client still waits for; the adapters' libraries are loaded when the
    first client needs them.

    Every function holds gDataMutex and is a step; what a thread does with an
    object after it released the mutex (telling the client, deleting the object) is
    a step of its own, [Finish].  A virtual function that is called on an object
    that was deleted is undefined, and so is calling an empty std::function. *)

From stdpp Require Import list gmap strings.
From S2P Require Import Prelude Runs ApiStructs.
From S2P Require HalClient.

Local Open Scope Z_scope.

(** * Data *)

Inductive adapter := GNSS | BATCHING | GEOFENCE.
#[export] Instance adapter_eq_dec : EqDecision adapter.
Proof. solve_decision. Defined.
Definition adapters : list adapter := [GNSS; BATCHING; GEOFENCE].

Definition LOCATION_ADAPTER_GNSS_TYPE_BIT : Z := 1.
Definition LOCATION_ADAPTER_BATCHING_TYPE_BIT : Z := 2.
Definition LOCATION_ADAPTER_GEOFENCE_TYPE_BIT : Z := 4.
Definition type_bit (a : adapter) : Z :=
  match a with
  | GNSS => LOCATION_ADAPTER_GNSS_TYPE_BIT
  | BATCHING => LOCATION_ADAPTER_BATCHING_TYPE_BIT
  | GEOFENCE => LOCATION_ADAPTER_GEOFENCE_TYPE_BIT
  end.

(** Which callbacks a client gives. *)
Record LocationCallbacks := MkCallbacks {
  capabilitiesCb : bool; responseCb : bool; collectiveResponseCb : bool; trackingCb : bool; batchingCb : bool;
  geofenceBreachCb : bool; geofenceStatusCb : bool; gnssLocationInfoCb : bool; gnssNiCb : bool; gnssSvCb : bool;
  gnssNmeaCb : bool; gnssDataCb : bool; gnssMeasurementsCb : bool; batchingStatusCb : bool;
  locationSystemInfoCb : bool; engineLocationsInfoCb : bool
}.

Definition isGnssClient (c : LocationCallbacks) : bool :=
  gnssNiCb c || trackingCb c || gnssLocationInfoCb c || engineLocationsInfoCb c || gnssSvCb c || gnssNmeaCb c
  || gnssDataCb c || gnssMeasurementsCb c || locationSystemInfoCb c.
Definition isBatchingClient (c : LocationCallbacks) : bool := batchingCb c.
Definition isGeofenceClient (c : LocationCallbacks) : bool := geofenceBreachCb c || geofenceStatusCb c.
Definition concerns (a : adapter) (c : LocationCallbacks) : bool :=
  match a with GNSS => isGnssClient c | BATCHING => isBatchingClient c | GEOFENCE => isGeofenceClient c end.
Definition mandatory (c : LocationCallbacks) : bool := capabilitiesCb c && responseCb c && collectiveResponseCb c.

(** LocationAPIDestroyCbData; [destroyCompleteCb]: the callback is not empty. *)
Record LocationAPIDestroyCbData := DestroyCbData { waitAdapterMask : Z; destroyCompleteCb : bool }.

(** The pointer to an interface is not null; its library could not be loaded. *)
Record interface := Interface { loaded : bool; load_failed : bool }.

(** The options of a tracking session (of BatchingOptions the mode is an argument of
    its own). *)
Record TrackingOptions := MkTrackingOptions { locationOptions : LocationOptions; powerMode : Z; tbm : Z }.
Definition GNSS_POWER_MODE_INVALID : Z := 0.

(** The functions of a client. *)
Inductive request :=
  | StartTracking (options : TrackingOptions)
  | StopTracking (id : Z)
  | UpdateTrackingOptions (id : Z) (options : TrackingOptions)
  | StartBatching (options : LocationOptions) (batchingMode : Z)
  | StopBatching (id : Z)
  | UpdateBatchingOptions (id : Z) (options : LocationOptions) (batchingMode : Z)
  | GetBatchedLocations (id count : Z)
  | AddGeofences (options : list GeofenceOption) (infos : list GeofenceInfo)
  | RemoveGeofences (ids : list Z)
  | ModifyGeofences (ids : list Z) (options : list GeofenceOption)
  | PauseGeofences (ids : list Z)
  | ResumeGeofences (ids : list Z)
  | GnssNiResponse (id response : Z).

(** The functions of LocationControlAPI. *)
Inductive control_request :=
  | Enable (techType : Z)
  | Disable (id : Z)
  | GnssUpdateConfig (config : HalClient.GnssConfig)
  | GnssGetConfig (mask : Z)
  | GnssDeleteAidingData (data : GnssAidingData)
  | ConfigConstellations (enablement : GnssSvTypeConfig) (blacklist : GnssSvIdConfig)
  | ConfigConstellationSecondaryBand (config : GnssSvTypeConfig)
  | ConfigConstrainedTimeUncertainty (enable : bool) (tuncThreshold : float) (energyBudget : Z)
  | ConfigPositionAssistedClockEstimator (enable : bool)
  | ConfigLeverArm (config : LeverArmConfigInfo)
  | ConfigRobustLocation (enable enableForE911 : bool)
  | ConfigMinGpsWeek (week : Z)
  | ConfigDeadReckoningEngineParams (config : DeadReckoningEngineConfig)
  | ConfigEngineRunState (engType engState : Z).

(** What the adapters, the framework library and the clients are called for. *)
Inductive output :=
  | Initialize (a : adapter)
  | AddClient (a : adapter) (c : loc) (cbs : LocationCallbacks)
  | RequestCapabilities (a : adapter) (c : loc)
  | RemoveClient (a : adapter) (c : loc)
  | Forward (a : adapter) (c : loc) (r : request)
  | SetControlCallbacks
  | ForwardControl (r : control_request)
  | CreateOSFramework
  | DestroyOSFramework
  | GlueCall (name : string)                (* a function of liblocationservice_glue.so *)
  | DestroyComplete (c : loc).              (* the callback of a client *)

(** Answers of other code: whether a symbol or interface is found, identifiers
    that adapters return (arrays by their address). *)
Record env := Env { libs : list bool; ids : list Z }.

(** gData and the static variables; [objects]: the objects that exist;
    [finishing]: the threads that have released the mutex and are to delete an
    object, with the callback they have.  [removals]: the removals that the
    adapters were asked for and have not completed. *)
Record api := Api {
  clientData : gmap loc LocationCallbacks;
  destroyClientData : gmap loc LocationAPIDestroyCbData;
  controlAPI : bool;
  gnssInterface : interface; batchingInterface : interface; geofenceInterface : interface;
  gOSFrameworkRefCount : Z;
  objects : gset loc; next : loc; finishing : list (loc * bool);
  removals : list (adapter * loc);
  answers : env; outputs : list output
}.

Definition set_clientData v s := Api v (destroyClientData s) (controlAPI s) (gnssInterface s) (batchingInterface s)
  (geofenceInterface s) (gOSFrameworkRefCount s) (objects s) (next s) (finishing s) (removals s) (answers s) (outputs s).
Definition set_destroyClientData v s := Api (clientData s) v (controlAPI s) (gnssInterface s) (batchingInterface s)
  (geofenceInterface s) (gOSFrameworkRefCount s) (objects s) (next s) (finishing s) (removals s) (answers s) (outputs s).
Definition set_controlAPI v s := Api (clientData s) (destroyClientData s) v (gnssInterface s) (batchingInterface s)
  (geofenceInterface s) (gOSFrameworkRefCount s) (objects s) (next s) (finishing s) (removals s) (answers s) (outputs s).
Definition set_interface (a : adapter) v s := Api (clientData s) (destroyClientData s) (controlAPI s)
  (if decide (a = GNSS) then v else gnssInterface s) (if decide (a = BATCHING) then v else batchingInterface s)
  (if decide (a = GEOFENCE) then v else geofenceInterface s)
  (gOSFrameworkRefCount s) (objects s) (next s) (finishing s) (removals s) (answers s) (outputs s).
Definition set_refcount v s := Api (clientData s) (destroyClientData s) (controlAPI s) (gnssInterface s)
  (batchingInterface s) (geofenceInterface s) v (objects s) (next s) (finishing s) (removals s) (answers s) (outputs s).
Definition set_objects v s := Api (clientData s) (destroyClientData s) (controlAPI s) (gnssInterface s)
  (batchingInterface s) (geofenceInterface s) (gOSFrameworkRefCount s) v (next s) (finishing s) (removals s) (answers s)
  (outputs s).
Definition set_next v s := Api (clientData s) (destroyClientData s) (controlAPI s) (gnssInterface s)
  (batchingInterface s) (geofenceInterface s) (gOSFrameworkRefCount s) (objects s) v (finishing s) (removals s) (answers s)
  (outputs s).
Definition set_finishing v s := Api (clientData s) (destroyClientData s) (controlAPI s) (gnssInterface s)
  (batchingInterface s) (geofenceInterface s) (gOSFrameworkRefCount s) (objects s) (next s) v (removals s) (answers s)
  (outputs s).
Definition set_removals v s := Api (clientData s) (destroyClientData s) (controlAPI s) (gnssInterface s)
  (batchingInterface s) (geofenceInterface s) (gOSFrameworkRefCount s) (objects s) (next s) (finishing s) v (answers s)
  (outputs s).
Definition set_answers v s := Api (clientData s) (destroyClientData s) (controlAPI s) (gnssInterface s)
  (batchingInterface s) (geofenceInterface s) (gOSFrameworkRefCount s) (objects s) (next s) (finishing s) (removals s) v
  (outputs s).
Definition emit (o : output) s := Api (clientData s) (destroyClientData s) (controlAPI s) (gnssInterface s)
  (batchingInterface s) (geofenceInterface s) (gOSFrameworkRefCount s) (objects s) (next s) (finishing s) (removals s)
  (answers s) (outputs s ++ [o]).

Definition interface_of (a : adapter) (s : api) : interface :=
  match a with GNSS => gnssInterface s | BATCHING => batchingInterface s | GEOFENCE => geofenceInterface s end.
Definition has_interface (a : adapter) (s : api) : bool := loaded (interface_of a s).

Definition init : api :=
  Api ∅ ∅ false (Interface false false) (Interface false false) (Interface false false) 0 ∅ 1%positive [] []
    (Env [] []) [].

(** * Operations *)

Definition answer_lib (s : api) : bool * api :=
  (hd false (libs (answers s)), set_answers (Env (tail (libs (answers s))) (ids (answers s))) s).
Definition answer_id (s : api) : Z * api :=
  (hd 0 (ids (answers s)), set_answers (Env (libs (answers s)) (tail (ids (answers s)))) s).

(** A function of the library that is looked for each time. *)
Definition glue (o : output) (s : api) : api := let '(found, s) := answer_lib s in if found then emit o s else s.

(** The interface, if it can be loaded: tried once. *)
Definition loadLocationInterface (a : adapter) (s : api) : api :=
  let i := interface_of a s in
  if loaded i || load_failed i then s else
  let '(found, s) := answer_lib s in
  if found then emit (Initialize a) (set_interface a (Interface true false) s)
  else set_interface a (Interface false true) s.

(** Adds a client to an adapter, or updates it there. *)
Definition add_to (a : adapter) (c : loc) (cbs : LocationCallbacks) (s : api) : api :=
  if concerns a cbs then
    let s := loadLocationInterface a s in
    if has_interface a s then emit (AddClient a c cbs) s else s
  else s.

(** The same for a new client, whose capabilities are requested from the first
    adapter that it is added to. *)
Definition add_new (c : loc) (cbs : LocationCallbacks) (p : bool * api) (a : adapter) : bool * api :=
  let '(requestedCapabilities, s) := p in
  if concerns a cbs then
    let s := loadLocationInterface a s in
    if has_interface a s then
      let s := emit (AddClient a c cbs) s in
      if requestedCapabilities then (true, s) else (true, emit (RequestCapabilities a c) s)
    else (requestedCapabilities, s)
  else (requestedCapabilities, s).

Definition createInstance (cbs : LocationCallbacks) (s : api) : ptr * api :=
  if negb (mandatory cbs) then (None, s) else
  let c := next s in
  let s := set_next (Pos.succ c) (set_objects ({[c]} ∪ objects s) s) in
  let s := set_refcount (wrap_u 32 (gOSFrameworkRefCount s + 1)) s in
  let s := if gOSFrameworkRefCount s =? 1 then glue CreateOSFramework s else s in
  let '(_, s) := foldl (add_new c cbs) (false, s) adapters in
  (Some c, set_clientData (<[c := cbs]> (clientData s)) s).

Definition updateCallbacks (c : loc) (cbs : LocationCallbacks) (s : api) : api :=
  if negb (mandatory cbs) then s else
  let s := foldl (λ s a, add_to a c cbs s) s adapters in
  set_clientData (<[c := cbs]> (clientData s)) s.

Definition wait_mask (s : api) : Z :=
  foldl (λ m a, Z.lor m (if has_interface a s then type_bit a else 0)) 0 adapters.

Definition remove_from (c : loc) (s : api) (a : adapter) : api :=
  if has_interface a s then emit (RemoveClient a c) (set_removals (removals s ++ [(a, c)]) s) else s.

(** The member function is not virtual: it does not read the object. *)
Definition destroy (c : loc) (cb : bool) (s : api) : api :=
  let s :=
    match clientData s !! c with
    | Some _ =>
        let needToWait := existsb (λ a, has_interface a s) adapters in
        let s := if cb && needToWait
                 then set_destroyClientData (<[c := DestroyCbData (wait_mask s) cb]> (destroyClientData s)) s
                 else s in
        let s := foldl (remove_from c) s adapters in
        let s := set_clientData (delete c (clientData s)) s in
        if needToWait then s else set_finishing (finishing s ++ [(c, cb)]) s
    | None => s
    end in
  let s := if gOSFrameworkRefCount s =? 1 then glue DestroyOSFramework s else s in
  set_refcount (wrap_u 32 (gOSFrameworkRefCount s - 1)) s.

Definition onRemoveClientCompleteCb (a : adapter) (c : loc) (s : api) : api :=
  match destroyClientData s !! c with
  | Some d =>
      let m := Z.ldiff (waitAdapterMask d) (type_bit a) in
      if m =? 0 then
        set_finishing (finishing s ++ [(c, destroyCompleteCb d)])
          (set_destroyClientData (delete c (destroyClientData s)) s)
      else set_destroyClientData (<[c := DestroyCbData m (destroyCompleteCb d)]> (destroyClientData s)) s
  | None => s
  end.

(** The call of a client's std::function, which throws if it is empty. *)
Definition invoke (c : loc) (cb : bool) (s : api) : option api :=
  if cb then Some (emit (DestroyComplete c) s) else None.
(** After the mutex was released, in destroy and in onRemoveClientCompleteCb.  The
    test is the one of the code, if (!destroyCompleteCb): the callback is called
    where it is empty, and only there. *)
Definition finish (c : loc) (cb : bool) (s : api) : option api :=
  s ← (if negb cb then invoke c cb s else Some s);
  Some (set_objects (objects s ∖ {[c]}) s).

(** ** Requests *)

Definition forward (a : adapter) (c : loc) (r : request) (s : api) : api :=
  if has_interface a s then emit (Forward a c r) s else s.
Definition forward_id (a : adapter) (c : loc) (r : request) (s : api) : Z * api :=
  if has_interface a s then answer_id (emit (Forward a c r) s) else (0, s).

Definition startTracking (c : loc) (o : TrackingOptions) (s : api) : Z * api :=
  match clientData s !! c with Some _ => forward_id GNSS c (StartTracking o) s | None => (0, s) end.
Definition stopTracking (c : loc) (id : Z) (s : api) : api :=
  match clientData s !! c with Some _ => forward GNSS c (StopTracking id) s | None => s end.
Definition updateTrackingOptions (c : loc) (id : Z) (o : TrackingOptions) (s : api) : api :=
  match clientData s !! c with Some _ => forward GNSS c (UpdateTrackingOptions id o) s | None => s end.
Definition startBatching (c : loc) (o : LocationOptions) (mode : Z) (s : api) : Z * api :=
  forward_id BATCHING c (StartBatching o mode) s.
Definition stopBatching (c : loc) (id : Z) (s : api) : api := forward BATCHING c (StopBatching id) s.
Definition updateBatchingOptions (c : loc) (id : Z) (o : LocationOptions) (mode : Z) (s : api) : api :=
  forward BATCHING c (UpdateBatchingOptions id o mode) s.
Definition getBatchedLocations (c : loc) (id count : Z) (s : api) : api :=
  forward BATCHING c (GetBatchedLocations id count) s.
Definition addGeofences (c : loc) (options : list GeofenceOption) (infos : list GeofenceInfo) (s : api) : Z * api :=
  forward_id GEOFENCE c (AddGeofences options infos) s.
Definition removeGeofences (c : loc) (l : list Z) (s : api) : api := forward GEOFENCE c (RemoveGeofences l) s.
Definition modifyGeofences (c : loc) (l : list Z) (options : list GeofenceOption) (s : api) : api :=
  forward GEOFENCE c (ModifyGeofences l options) s.
Definition pauseGeofences (c : loc) (l : list Z) (s : api) : api := forward GEOFENCE c (PauseGeofences l) s.
Definition resumeGeofences (c : loc) (l : list Z) (s : api) : api := forward GEOFENCE c (ResumeGeofences l) s.
Definition gnssNiResponse (c : loc) (id response : Z) (s : api) : api := forward GNSS c (GnssNiResponse id response) s.
Definition perform (c : loc) (r : request) (s : api) : Z * api :=
  match r with
  | StartTracking o => startTracking c o s
  | StopTracking id => (0, stopTracking c id s)
  | UpdateTrackingOptions id o => (0, updateTrackingOptions c id o s)
  | StartBatching o m => startBatching c o m s
  | StopBatching id => (0, stopBatching c id s)
  | UpdateBatchingOptions id o m => (0, updateBatchingOptions c id o m s)
  | GetBatchedLocations id n => (0, getBatchedLocations c id n s)
  | AddGeofences o i => addGeofences c o i s
  | RemoveGeofences l => (0, removeGeofences c l s)
  | ModifyGeofences l o => (0, modifyGeofences c l o s)
  | PauseGeofences l => (0, pauseGeofences c l s)
  | ResumeGeofences l => (0, resumeGeofences c l s)
  | GnssNiResponse id r => (0, gnssNiResponse c id r s)
  end.

Inductive network := EnableProvider | DisableProvider | StartLocation | StopLocation.
Definition enableNetworkProvider (s : api) : api := glue (GlueCall "enableNetworkProvider") s.
Definition disableNetworkProvider (s : api) : api := glue (GlueCall "disableNetworkProvider") s.
Definition startNetworkLocation (s : api) : api := glue (GlueCall "startNetworkLocation") s.
Definition stopNetworkLocation (s : api) : api := glue (GlueCall "stopNetworkLocation") s.
Definition network_call (f : network) (s : api) : api :=
  match f with
  | EnableProvider => enableNetworkProvider s
  | DisableProvider => disableNetworkProvider s
  | StartLocation => startNetworkLocation s
  | StopLocation => stopNetworkLocation s
  end.

(** ** LocationControlAPI *)

Definition createControl (responseCb : bool) (s : api) : bool * api :=
  if responseCb && negb (controlAPI s) then
    let s := loadLocationInterface GNSS s in
    if has_interface GNSS s then (true, emit SetControlCallbacks (set_controlAPI true s)) else (false, s)
  else (false, s).
Definition destroyControl (s : api) : api := set_controlAPI false s.

(** All functions of LocationControlAPI but setOptInStatus; what it returns. *)
Definition control (r : control_request) (s : api) : Z * api :=
  if has_interface GNSS s then
    match r with
    | Disable _ => (0, emit (ForwardControl r) s)
    | _ => answer_id (emit (ForwardControl r) s)
    end
  else (0, s).
Definition setOptInStatus (s : api) : Z * api :=
  let '(found, s) := answer_lib s in
  if found then answer_id (emit (GlueCall "setOptInStatus") s) else (0, s).

(** ** Steps *)

Inductive event :=
  | CreateInstance (cbs : LocationCallbacks)
  | Destroy (c : loc) (cb : bool)
  | UpdateCallbacks (c : loc) (cbs : LocationCallbacks)
  | Request (c : loc) (r : request)
  | Network (c : loc) (f : network)
  | RemoveComplete (a : adapter) (c : loc)
  | Finish (c : loc)
  | CreateControl (responseCb : bool)
  | DestroyControl
  | Control (r : control_request)
  | SetOptInStatus.

(** Virtual functions need the object, and the control functions theirs.  The
    adapters complete a removal once; [Finish c]: the thread that deletes [c]. *)
Definition step (s : api) (e : event * env) : option api :=
  let s := set_answers e.2 s in
  match e.1 with
  | CreateInstance cbs => Some (createInstance cbs s).2
  | Destroy c cb => Some (destroy c cb s)
  | UpdateCallbacks c cbs => if decide (c ∈ objects s) then Some (updateCallbacks c cbs s) else None
  | Request c r => if decide (c ∈ objects s) then Some (perform c r s).2 else None
  | Network c f => if decide (c ∈ objects s) then Some (network_call f s) else None
  | RemoveComplete a c =>
      Some (onRemoveClientCompleteCb a c (set_removals (filter (λ x, x ≠ (a, c)) (removals s)) s))
  | Finish c =>
      match list_find (λ x, x.1 = c) (finishing s) with
      | Some (_, (_, cb)) => finish c cb (set_finishing (filter (λ x, x.1 ≠ c) (finishing s)) s)
      | None => Some s
      end
  | CreateControl b => Some (createControl b s).2
  | DestroyControl => if controlAPI s then Some (destroyControl s) else None
  | Control r => if controlAPI s then Some (control r s).2 else None
  | SetOptInStatus => if controlAPI s then Some (setOptInStatus s).2 else None
  end.

(** * How the API is used *)

(** Clients use an object from its creation to its destruction, and give a
    callback to the latter; the control object likewise.  Adapters complete the
    removals that they were asked for, and threads end. *)
Definition used_well (s : api) (e : event * env) : Prop :=
  match e.1 with
  | CreateInstance _ => Z.of_nat (size (clientData s)) < 2 ^ 32 - 1
  | Destroy c cb => is_Some (clientData s !! c) ∧ cb = true
  | UpdateCallbacks c _ | Request c _ | Network c _ => is_Some (clientData s !! c)
  | RemoveComplete a c => (a, c) ∈ removals s
  | Finish c => c ∈ (finishing s).*1
  | CreateControl _ => True
  | DestroyControl | Control _ | SetOptInStatus => controlAPI s = true
  end.

(** The adapters that a client waits for, as a mask. *)
Definition waited (s : api) (c : loc) : Z :=
  Z.lor (Z.lor (if decide ((GNSS, c) ∈ removals s) then type_bit GNSS else 0)
               (if decide ((BATCHING, c) ∈ removals s) then type_bit BATCHING else 0))
        (if decide ((GEOFENCE, c) ∈ removals s) then type_bit GEOFENCE else 0).

Record wf (s : api) : Prop := {
  wf_fresh c : c ∈ objects s -> (c < next s)%positive;
  wf_client c : is_Some (clientData s !! c) ->
    c ∈ objects s ∧ destroyClientData s !! c = None ∧ c ∉ (finishing s).*1;
  wf_destroy c d : destroyClientData s !! c = Some d ->
    destroyCompleteCb d = true ∧ c ∈ objects s ∧ c ∉ (finishing s).*1 ∧
    waitAdapterMask d = waited s c ∧ waitAdapterMask d ≠ 0;
  wf_finishing c cb : (c, cb) ∈ finishing s -> cb = true ∧ c ∈ objects s;
  wf_removals a c : (a, c) ∈ removals s -> is_Some (destroyClientData s !! c);
  wf_objects c : c ∈ objects s ->
    is_Some (clientData s !! c) ∨ is_Some (destroyClientData s !! c) ∨ c ∈ (finishing s).*1;
  wf_count : gOSFrameworkRefCount s = Z.of_nat (size (clientData s)) ∧ gOSFrameworkRefCount s < 2 ^ 32
}.

(** Steps that only load interfaces and call other code. *)
Definition quiet (s s' : api) : Prop :=
  clientData s' = clientData s ∧ destroyClientData s' = destroyClientData s ∧ objects s' = objects s ∧
  next s' = next s ∧ finishing s' = finishing s ∧ removals s' = removals s ∧
  gOSFrameworkRefCount s' = gOSFrameworkRefCount s.
#[export] Instance quiet_preorder : PreOrder quiet.
Proof. split; [done|]. unfold quiet. intros ??? ? ?. destruct_and!. split_and!; congruence. Qed.
Lemma quiet_wf s s' : quiet s s' -> wf s -> wf s'.
Proof.
  intros (E1&E2&E3&E4&E5&E6&E7) [H1 H2 H3 H4 H5 H6 H7].
  split; unfold waited in *; rewrite ?E1, ?E2, ?E3, ?E4, ?E5, ?E6, ?E7; auto.
Qed.
Lemma quiet_glue o s : quiet s (glue o s).
Proof. unfold glue, answer_lib. by case_match. Qed.
Lemma quiet_load a s : quiet s (loadLocationInterface a s).
Proof. unfold loadLocationInterface, answer_lib. by repeat case_match. Qed.
Lemma quiet_emit o s : quiet s (emit o s).
Proof. done. Qed.
Lemma quiet_add_to a c cbs s : quiet s (add_to a c cbs s).
Proof.
  unfold add_to. case_match; [|done]. etrans; [apply (quiet_load a)|]. by case_match.
Qed.
Lemma quiet_add_new c cbs p a : quiet p.2 (add_new c cbs p a).2.
Proof.
  destruct p as [b s]. unfold add_new. cbn. case_match; [|done]. etrans; [apply (quiet_load a)|]. by repeat case_match.
Qed.
Lemma quiet_add_all c cbs s : quiet s (foldl (λ s a, add_to a c cbs s) s adapters).
Proof. cbn. do 3 (etrans; [|apply quiet_add_to]). done. Qed.
Lemma quiet_new_all c cbs p : quiet p.2 (foldl (add_new c cbs) p adapters).2.
Proof. cbn. do 3 (etrans; [|apply quiet_add_new]). done. Qed.
Lemma quiet_forward_id a c r s : quiet s (forward_id a c r s).2.
Proof. unfold forward_id. by case_match. Qed.
Lemma quiet_forward a c r s : quiet s (forward a c r s).
Proof. unfold forward. by case_match. Qed.
Lemma quiet_perform c r s : quiet s (perform c r s).2.
Proof.
  destruct r; cbn [perform snd]; first [apply quiet_forward|apply quiet_forward_id|idtac].
  all: unfold startTracking, stopTracking, updateTrackingOptions; case_match; [|done].
  all: first [apply quiet_forward|apply quiet_forward_id].
Qed.
Lemma quiet_network f s : quiet s (network_call f s).
Proof. destruct f; apply quiet_glue. Qed.
Lemma quiet_createControl b s : quiet s (createControl b s).2.
Proof. unfold createControl. case_match; [|done]. etrans; [apply (quiet_load GNSS)|]. by case_match. Qed.
Lemma quiet_control r s : quiet s (control r s).2.
Proof. unfold control. by repeat case_match. Qed.
Lemma quiet_optin s : quiet s (setOptInStatus s).2.
Proof. unfold setOptInStatus, answer_lib. by case_match. Qed.

(** ** The invariant holds *)

Lemma wf_init : wf init.
Proof.
  split; try done.
  - by intros c [? ?].
  - intros c cb Hc. by apply elem_of_nil in Hc.
  - intros a c Hc. by apply elem_of_nil in Hc.
Qed.
Lemma wf_no_removal s c a : wf s -> is_Some (clientData s !! c) -> (a, c) ∉ removals s.
Proof. intros H Hc Ha. destruct (wf_client s H c Hc) as (_ & Hd & _). destruct (wf_removals s H a c Ha). congruence. Qed.

Lemma wf_create cbs s :
  wf s -> Z.of_nat (size (clientData s)) < 2 ^ 32 - 1 -> wf (createInstance cbs s).2.
Proof.
  intros H Hn. unfold createInstance. destruct (mandatory cbs); [|done]. cbn [negb].
  set (c := next s). set (s1 := set_refcount _ _). set (s2 := if _ =? 1 then _ else _).
  assert (quiet s1 s2) as Hq2 by (subst s2; case_match; [apply quiet_glue|done]).
  pose proof (quiet_new_all c cbs (false, s2)) as Hq3. destruct (foldl _ _ adapters) as [b s3]. cbn [snd] in *.
  assert (quiet s1 s3) as (E1&E2&E3&E4&E5&E6&E7) by (by etrans). clear Hq2 Hq3. clearbody s2. subst s1.
  cbn [clientData destroyClientData objects next finishing removals gOSFrameworkRefCount set_refcount set_next set_objects] in *.
  destruct H as [H1 H2 H3 H4 H5 H6 [H7 H8]].
  assert (c ∉ objects s) as Hfresh by (intros Hc; specialize (H1 c Hc); subst c; lia).
  assert (clientData s !! c = None) as Hnone.
  { destruct (clientData s !! c) eqn:E; [|done]. destruct (H2 c) as [Hc _]; [by eexists|]. done. }
  split; unfold waited in *;
    cbn [clientData destroyClientData objects next finishing removals gOSFrameworkRefCount set_clientData];
    rewrite ?E1, ?E2, ?E3, ?E4, ?E5, ?E6, ?E7.
  - intros c' [->%elem_of_singleton|Hc']%elem_of_union; [lia|]. specialize (H1 c' Hc'). lia.
  - intros c' [x Hc']. apply lookup_insert_Some in Hc' as [[<- _]|[Hne Hc']].
    + split_and!; [set_solver| |].
      * destruct (destroyClientData s !! c) eqn:E; [|done]. destruct (H3 _ _ E) as (_ & Hc & _). done.
      * intros Hc. apply list_elem_of_fmap in Hc as ([c1 cb] & -> & Hc). by destruct (H4 _ _ Hc).
    + destruct (H2 c') as (? & ? & ?); [by eexists|]. split_and!; [set_solver|done|done].
  - intros c' d Hd. destruct (H3 _ _ Hd) as (? & ? & ? & ? & ?). split_and!; try done. set_solver.
  - intros c' cb Hc. destruct (H4 _ _ Hc). split; [done|set_solver].
  - done.
  - intros c' [->%elem_of_singleton|Hc']%elem_of_union; [left; rewrite lookup_insert_eq; by eexists|].
    destruct (H6 c' Hc') as [[x Hx]|?]; [|by right]. left. rewrite lookup_insert_ne; [by eexists|].
    intros <-. done.
  - rewrite map_size_insert_None by done. rewrite H7, wrap_u_small by lia. lia.
Qed.

Lemma wf_update c cbs s : wf s -> is_Some (clientData s !! c) -> wf (updateCallbacks c cbs s).
Proof.
  intros H Hc. unfold updateCallbacks. destruct (mandatory cbs); [|done]. cbn [negb].
  pose proof (quiet_wf _ _ (quiet_add_all c cbs s) H) as H'. pose proof (proj1 (quiet_add_all c cbs s)) as E.
  set (s1 := foldl _ _ _) in *. rewrite <- E in Hc. destruct H' as [H1 H2 H3 H4 H5 H6 [H7 H8]].
  split; unfold waited in *; cbn [clientData destroyClientData objects next finishing removals gOSFrameworkRefCount set_clientData]; auto.
  - intros c' [x Hc']. apply lookup_insert_Some in Hc' as [[<- _]|[Hne Hc']]; [auto|]. apply H2. by eexists.
  - intros c' Hc'. destruct (H6 c' Hc') as [[x Hx]|?]; [|by right]. left.
    destruct (decide (c = c')) as [->|]; [rewrite lookup_insert_eq|rewrite lookup_insert_ne by done]; by eexists.
  - destruct Hc as [x Hx]. rewrite map_size_insert_Some by (by eexists). done.
Qed.

(** The removals that a destruction asks for. *)
Definition asked (c : loc) (s : api) : list (adapter * loc) :=
  (λ a, (a, c)) <$> filter (λ a, has_interface a s = true) adapters.
Lemma remove_all c s :
  let s' := foldl (remove_from c) s adapters in
  removals s' = removals s ++ asked c s ∧ clientData s' = clientData s ∧ destroyClientData s' = destroyClientData s ∧
  objects s' = objects s ∧ next s' = next s ∧ finishing s' = finishing s ∧
  gOSFrameworkRefCount s' = gOSFrameworkRefCount s ∧ (∀ a, interface_of a s' = interface_of a s).
Proof.
  unfold asked, has_interface. cbn. unfold remove_from, has_interface. cbn. unfold has_interface. cbn.
  destruct (loaded (gnssInterface s)) eqn:E1; cbn; destruct (loaded (batchingInterface s)) eqn:E2; cbn;
    destruct (loaded (geofenceInterface s)) eqn:E3; cbn; rewrite <- ?app_assoc, ?app_nil_r; split_and!; try done; by intros [].
Qed.

Lemma asked_iff a c c' s : (a, c') ∈ asked c s <-> c' = c ∧ has_interface a s = true.
Proof.
  unfold asked. rewrite list_elem_of_fmap. split.
  - intros (a' & [= -> ->] & Ha). apply list_elem_of_filter in Ha. tauto.
  - intros [-> Ha]. exists a. split; [done|]. apply list_elem_of_filter. split; [done|]. destruct a; set_solver.
Qed.
Lemma waits_iff s : existsb (λ a, has_interface a s) adapters = true <-> wait_mask s ≠ 0.
Proof.
  unfold wait_mask. cbn. destruct (has_interface GNSS s), (has_interface BATCHING s), (has_interface GEOFENCE s); done.
Qed.
Lemma refcount_down s n (f : api -> api) :
  gOSFrameworkRefCount s = Z.of_nat (S n) -> gOSFrameworkRefCount s < 2 ^ 32 -> (∀ s, quiet s (f s)) ->
  let s' := if gOSFrameworkRefCount s =? 1 then f s else s in
  quiet s s' ∧ wrap_u 32 (gOSFrameworkRefCount s' - 1) = Z.of_nat n.
Proof.
  intros Hs Hlt Hf. cbv zeta. assert (quiet s (if gOSFrameworkRefCount s =? 1 then f s else s)) as Hq by by case_match.
  split; [done|]. destruct Hq as (_&_&_&_&_&_&->). rewrite wrap_u_small; lia.
Qed.

Lemma elem_of_snoc_fst {A B} (l : list (A * B)) x a b : x ∈ (l ++ [(a, b)]).*1 <-> x ∈ l.*1 ∨ x = a.
Proof. rewrite fmap_app, elem_of_app. cbn. by rewrite list_elem_of_singleton. Qed.

(** What a destruction does, for a client that needs to wait or not. *)
Definition must_wait (s : api) : bool := existsb (λ a, has_interface a s) adapters.
Lemma destroy_run c s :
  wf s -> is_Some (clientData s !! c) ->
  let s' := destroy c true s in
  clientData s' = delete c (clientData s) ∧
  destroyClientData s' =
    (if must_wait s then <[c := DestroyCbData (wait_mask s) true]> (destroyClientData s) else destroyClientData s) ∧
  objects s' = objects s ∧ next s' = next s ∧
  finishing s' = (if must_wait s then finishing s else finishing s ++ [(c, true)]) ∧
  removals s' = removals s ++ asked c s ∧
  gOSFrameworkRefCount s' = Z.of_nat (size (delete c (clientData s))) ∧ gOSFrameworkRefCount s' < 2 ^ 32.
Proof.
  intros H Hc. pose proof Hc as [cbs Hcbs]. unfold destroy. rewrite Hcbs. cbn [andb].
  fold (must_wait s). set (need := must_wait s). set (s1 := if need then _ else s).
  pose proof (remove_all c s1) as (R1&R2&R3&R4&R5&R6&R7&_). set (s2 := foldl _ s1 _) in *. clearbody s2.
  set (s3 := if need then set_clientData _ _ else _).
  assert (asked c s1 = asked c s) as Hasked by (subst s1; by destruct need). rewrite Hasked in R1.
  assert (∃ n, size (clientData s) = S n ∧ size (delete c (clientData s)) = n) as (n & Hsz & Hdel).
  { exists (size (delete c (clientData s))). split; [|done]. rewrite map_size_delete_Some by (by eexists).
    assert (size (clientData s) ≠ 0%nat); [|lia].
    intros E. apply map_size_empty_iff in E. rewrite E, lookup_empty in Hcbs. done. }
  assert (gOSFrameworkRefCount s3 = gOSFrameworkRefCount s) as Href by (subst s3; destruct need; cbn; by rewrite R7).
  destruct (wf_count s H) as [H7 H8].
  destruct (refcount_down s3 n (glue DestroyOSFramework)) as [Hq Hcount]; [by rewrite Href, H7, Hsz|by rewrite Href|apply quiet_glue|].
  cbv zeta in Hq, Hcount. set (s4 := if _ =? 1 then _ else s3) in *. destruct Hq as (E1&E2&E3&E4&E5&E6&E7).
  cbn [clientData destroyClientData objects next finishing removals gOSFrameworkRefCount set_refcount].
  rewrite E1, E2, E3, E4, E5, E6, Hcount, Hdel. clear E1 E2 E3 E4 E5 E6 E7 Hcount Hasked. clearbody s4. subst s3 s1.
  destruct need; cbn; rewrite ?R1, ?R2, ?R3, ?R4, ?R5, ?R6; split_and!; done || lia.
Qed.
Lemma if_mem a (P Q : Prop) `{!Decision P, !Decision Q} :
  (P <-> Q) -> (if decide P then type_bit a else 0) = (if decide Q then type_bit a else 0).
Proof. apply decide_ext. Qed.
Lemma waited_after c s s' :
  (∀ a, (a, c) ∉ removals s) -> removals s' = removals s ++ asked c s ->
  waited s' c = wait_mask s ∧ ∀ c', c' ≠ c -> waited s' c' = waited s c'.
Proof.
  intros Hrem E. unfold waited, wait_mask. rewrite E. cbn [foldl adapters].
  assert (∀ a c', (a, c') ∈ removals s ++ asked c s <-> (a, c') ∈ removals s ∨ (c' = c ∧ has_interface a s = true)) as Hmem.
  { intros a c'. rewrite elem_of_app, asked_iff. done. }
  split.
  - assert (∀ a, (if decide ((a, c) ∈ removals s ++ asked c s) then type_bit a else 0) =
                 (if has_interface a s then type_bit a else 0)) as Hd; [|by rewrite !Hd].
    intros a. destruct (has_interface a s) eqn:Ha; [rewrite decide_True|rewrite decide_False]; rewrite ?Hmem; [done|auto|done|].
    intros [?|[_ ?]]; [by apply (Hrem a)|congruence].
  - intros c' Hne. by rewrite !(if_mem _ _ _ (Hmem _ c')), !(if_mem _ (_ ∨ _) ((_, c') ∈ removals s)) by naive_solver.
Qed.

Lemma wf_destroyed c s : wf s -> is_Some (clientData s !! c) -> wf (destroy c true s).
Proof.
  intros H Hc. pose proof (wf_client s H c Hc) as (Hobj & Hdes & Hfin). pose proof (λ a, wf_no_removal s c a H Hc) as Hrem.
  destruct (destroy_run c s H Hc) as (F1&F2&F3&F4&F5&F6&F7). cbv zeta in *. set (s' := destroy c true s) in *. clearbody s'.
  destruct (waited_after c s s' Hrem F6) as [Hwc Hw]. destruct H as [H1 H2 H3 H4 H5 H6 _].
  pose proof (waits_iff s) as Hwait. fold (must_wait s) in Hwait. set (need := must_wait s) in *.
  split; rewrite ?F1, ?F3, ?F4.
  - done.
  - intros c' [x Hx]. apply lookup_delete_Some in Hx as [Hne Hx]. destruct (H2 c') as (? & ? & Hf); [by eexists|].
    rewrite F2, F5. split_and!; [done| |].
    + destruct need; [|done]. by rewrite lookup_insert_ne.
    + destruct need; [done|]. rewrite elem_of_snoc_fst. naive_solver.
  - intros c' d. rewrite F2, F5. intros Hd. destruct (decide (c' = c)) as [->|Hne].
    + rewrite Hwc. destruct need; [|congruence].
      rewrite lookup_insert_eq in Hd. injection Hd as <-. cbn. naive_solver.
    + rewrite Hw by done. assert (destroyClientData s !! c' = Some d) as Hd'.
      { destruct need; [by rewrite lookup_insert_ne in Hd|done]. }
      destruct (H3 _ _ Hd') as (? & ? & ? & ? & ?). split_and!; try done.
      destruct need; [done|]. rewrite elem_of_snoc_fst. naive_solver.
  - rewrite F5. intros c' cb. destruct need; [apply H4|]. rewrite elem_of_app, list_elem_of_singleton.
    intros [?|[= -> ->]]; [by apply H4|done].
  - rewrite F6, F2. intros a c'. rewrite elem_of_app, asked_iff. intros [Ha|[-> Ha]].
    + destruct need; [|by eapply H5]. destruct (decide (c = c')) as [->|]; [rewrite lookup_insert_eq; by eexists|].
      rewrite lookup_insert_ne by done. by eapply H5.
    + assert (need = true) as ->. { apply existsb_exists. exists a. split; [destruct a; cbn; tauto|done]. }
      rewrite lookup_insert_eq. by eexists.
  - intros c' Hc'. rewrite F2, F5. destruct (decide (c' = c)) as [->|Hne].
    + right. destruct need; [left; rewrite lookup_insert_eq; by eexists|right].
      rewrite elem_of_snoc_fst. by right.
    + rewrite lookup_delete_ne by done. destruct (H6 c' Hc') as [?|[?|?]]; [by left| |].
      * right. left. destruct need; [|done]. by rewrite lookup_insert_ne.
      * right. right. destruct need; [done|]. rewrite elem_of_snoc_fst. by left.
  - done.
Qed.

Lemma waited_completed a c s s' :
  removals s' = filter (λ x, x ≠ (a, c)) (removals s) ->
  waited s' c = Z.ldiff (waited s c) (type_bit a) ∧ ∀ c', c' ≠ c -> waited s' c' = waited s c'.
Proof.
  intros E.
  assert (∀ a' c', (a', c') ∈ removals s' <-> (a', c') ∈ removals s ∧ (a', c') ≠ (a, c)) as Hmem.
  { intros a' c'. rewrite E, list_elem_of_filter. tauto. }
  split.
  - unfold waited. rewrite !(if_mem _ _ _ (Hmem _ c)).
    destruct a; repeat case_decide; try done; naive_solver.
  - intros c' Hne. unfold waited. rewrite !(if_mem _ _ _ (Hmem _ c')).
    by rewrite !(if_mem _ (_ ∧ _) ((_, c') ∈ removals s)) by naive_solver.
Qed.
Lemma waited_zero s c : waited s c = 0 -> ∀ a, (a, c) ∉ removals s.
Proof. unfold waited. intros E a Ha. repeat case_decide; cbn in E; try done. by destruct a. Qed.
Lemma wf_completed a c s :
  wf s -> (a, c) ∈ removals s ->
  wf (onRemoveClientCompleteCb a c (set_removals (filter (λ x, x ≠ (a, c)) (removals s)) s)).
Proof.
  intros [H1 H2 H3 H4 H5 H6 H7] Ha. set (s1 := set_removals _ s).
  destruct (waited_completed a c s s1 eq_refl) as [Hwc Hw]. destruct (H5 _ _ Ha) as [d Hd].
  destruct (H3 _ _ Hd) as (Hcb & Hobj & Hfin & Hmask & _). unfold onRemoveClientCompleteCb.
  change (destroyClientData s1) with (destroyClientData s). rewrite Hd, Hmask, <- Hwc, Hcb.
  assert (∀ a' c', (a', c') ∈ removals s1 -> (a', c') ∈ removals s) as Hsub.
  { intros a' c' Hx. by apply list_elem_of_filter in Hx as [_ Hx]. }
  assert (clientData s !! c = None) as Hno.
  { destruct (clientData s !! c) eqn:E; [|done]. destruct (H2 c) as (_ & Hx & _); [by eexists|]. congruence. }
  destruct (Z.eqb_spec (waited s1 c) 0) as [Hz|Hz].
  - split; cbn [clientData destroyClientData objects next finishing removals gOSFrameworkRefCount set_finishing
      set_destroyClientData s1 set_removals]; auto.
    + intros c' Hc'. destruct (H2 c' Hc') as (? & Hx & ?). split_and!; [done| |].
      * rewrite lookup_delete_None. by right.
      * rewrite elem_of_snoc_fst. intros [?| ->]; [done|]. rewrite Hno in Hc'. by destruct Hc'.
    + intros c' d' Hd'. apply lookup_delete_Some in Hd' as [Hne Hd']. destruct (H3 _ _ Hd') as (? & ? & ? & ? & ?).
      split_and!; try done; [rewrite elem_of_snoc_fst; naive_solver|].
      change (waitAdapterMask d' = waited s1 c'). by rewrite Hw.
    + intros c' cb. rewrite elem_of_app, list_elem_of_singleton. intros [?|[= -> ->]]; [by apply H4|done].
    + intros a' c' Ha'. destruct (decide (c' = c)) as [->|Hne].
      * by destruct (waited_zero s1 c Hz a').
      * rewrite lookup_delete_ne by done. eapply H5, Hsub, Ha'.
    + intros c' Hc'. destruct (decide (c' = c)) as [->|Hne].
      * right. right. rewrite elem_of_snoc_fst. by right.
      * rewrite lookup_delete_ne by done. rewrite elem_of_snoc_fst. destruct (H6 c' Hc') as [?|[?|?]]; auto.
  - split; cbn [clientData destroyClientData objects next finishing removals gOSFrameworkRefCount
      set_destroyClientData s1 set_removals]; auto.
    + intros c' Hc'. destruct (H2 c' Hc') as (? & Hx & ?). split_and!; [done| |done].
      rewrite lookup_insert_ne; [done|]. intros <-. rewrite Hno in Hc'. by destruct Hc'.
    + intros c' d' Hd'. change (waited _ c') with (waited s1 c'). apply lookup_insert_Some in Hd' as [[<- <-]|[Hne Hd']]; [done|].
      destruct (H3 _ _ Hd') as (? & ? & ? & ? & ?). rewrite Hw by done. done.
    + intros a' c' Ha'. destruct (decide (c = c')) as [->|]; [rewrite lookup_insert_eq; by eexists|].
      rewrite lookup_insert_ne by done. eapply H5, Hsub, Ha'.
    + intros c' Hc'. destruct (decide (c = c')) as [->|]; [right; left; rewrite lookup_insert_eq; by eexists|].
      rewrite lookup_insert_ne by done. auto.
Qed.

Lemma find_finishing c l : c ∈ l.*1 -> ∃ i cb, list_find (λ x : loc * bool, x.1 = c) l = Some (i, (c, cb)) ∧ (c, cb) ∈ l.
Proof.
  intros Hc. apply list_elem_of_fmap in Hc as ([c' cb] & -> & Hc). cbn.
  destruct (list_find_elem_of (λ x : loc * bool, x.1 = c') l (c', cb) Hc eq_refl) as [[i [c1 cb1]] Hf].
  apply list_find_Some in Hf as Hf'. destruct Hf' as (Hi & Hx & _). cbn in Hx. subst c1.
  exists i, cb1. split; [done|]. by eapply list_elem_of_lookup_2.
Qed.
Lemma wf_finished c cb s :
  wf s -> (c, cb) ∈ finishing s ->
  ∃ s', finish c cb (set_finishing (filter (λ x, x.1 ≠ c) (finishing s)) s) = Some s' ∧ wf s'.
Proof.
  intros [H1 H2 H3 H4 H5 H6 H7] Hin. destruct (H4 _ _ Hin) as [-> Hobj]. eexists. split; [reflexivity|].
  assert (c ∈ (finishing s).*1) as Hc by (apply list_elem_of_fmap; by exists (c, true)).
  assert (∀ c', c' ∈ (filter (λ x : loc * bool, x.1 ≠ c) (finishing s)).*1 <-> c' ∈ (finishing s).*1 ∧ c' ≠ c) as Hf.
  { intros c'. rewrite !list_elem_of_fmap. setoid_rewrite list_elem_of_filter. split.
    - intros (x & -> & ? & ?). eauto.
    - intros [(x & -> & ?) ?]. eauto. }
  split; cbn [clientData destroyClientData objects next finishing removals gOSFrameworkRefCount set_finishing set_objects]; auto.
  - intros c' Hx. apply H1. set_solver.
  - intros c' Hx. destruct (H2 c' Hx) as (? & ? & ?). rewrite Hf. split_and!; [|done|naive_solver]. set_solver.
  - intros c' d Hd. destruct (H3 _ _ Hd) as (? & ? & ? & ? & ?). rewrite Hf. split_and!; try done; [set_solver|naive_solver].
  - intros c' cb Hx. apply list_elem_of_filter in Hx as [Hne Hx]. destruct (H4 _ _ Hx). split; [done|set_solver].
  - intros c' Hx. rewrite Hf. apply elem_of_difference in Hx as [Hx Hne]. rewrite elem_of_singleton in Hne.
    destruct (H6 c' Hx) as [?|[?|?]]; auto.
Qed.

Lemma wf_answers v s : wf s -> wf (set_answers v s).
Proof. by apply quiet_wf. Qed.
Lemma wf_step s e : wf s -> used_well s e -> ∃ s', step s e = Some s' ∧ wf s'.
Proof.
  intros H Hu. destruct e as [e v]. pose proof (wf_answers v s H) as H'. set (s1 := set_answers v s) in *.
  unfold step. cbn [fst snd]. fold s1. unfold used_well in Hu. cbn [fst] in Hu. destruct e.
  - eexists. split; [reflexivity|]. by apply wf_create.
  - destruct Hu as [Hc ->]. eexists. split; [reflexivity|]. by apply wf_destroyed.
  - rewrite decide_True by (by apply (wf_client s1 H')). eexists. split; [reflexivity|]. by apply wf_update.
  - rewrite decide_True by (by apply (wf_client s1 H')). eexists. split; [reflexivity|]. by eapply quiet_wf; [apply quiet_perform|].
  - rewrite decide_True by (by apply (wf_client s1 H')). eexists. split; [reflexivity|]. by eapply quiet_wf; [apply quiet_network|].
  - eexists. split; [reflexivity|]. by apply (wf_completed a c s1).
  - destruct (find_finishing c (finishing s1) Hu) as (i & cb & -> & Hin). by apply wf_finished.
  - eexists. split; [reflexivity|]. by eapply quiet_wf; [apply quiet_createControl|].
  - change (controlAPI s1) with (controlAPI s). rewrite Hu. eexists. split; [reflexivity|]. by apply (quiet_wf s1).
  - change (controlAPI s1) with (controlAPI s). rewrite Hu. eexists. split; [reflexivity|]. by eapply quiet_wf; [apply quiet_control|].
  - change (controlAPI s1) with (controlAPI s). rewrite Hu. eexists. split; [reflexivity|]. by eapply quiet_wf; [apply quiet_optin|].
Qed.

(** ** What the adapters know *)

(** The callbacks that adapter [a] has of client [c]. *)
Definition knows (a : adapter) (c : loc) (k : option LocationCallbacks) (o : output) : option LocationCallbacks :=
  match o with
  | AddClient a' c' cbs => if decide ((a', c') = (a, c)) then Some cbs else k
  | RemoveClient a' c' => if decide ((a', c') = (a, c)) then None else k
  | _ => k
  end.
Definition known (a : adapter) (c : loc) (s : api) : option LocationCallbacks := foldl (knows a c) None (outputs s).
Definition told_nobody (s : api) : Prop := ∀ c, DestroyComplete c ∉ outputs s.

Lemma known_emit a c o s : known a c (emit o s) = knows a c (known a c s) o.
Proof. unfold known. cbn [outputs emit]. by rewrite foldl_app. Qed.
Lemma told_emit o s : (∀ c, o ≠ DestroyComplete c) -> told_nobody s -> told_nobody (emit o s).
Proof. intros Ho H c. cbn [outputs emit]. rewrite elem_of_app, list_elem_of_singleton. intros [?|E]; [by apply (H c)|]. by apply (Ho c). Qed.
Lemma interface_set a a' i s : interface_of a' (set_interface a i s) = if decide (a' = a) then i else interface_of a' s.
Proof. by destruct a, a'. Qed.

(** Adding [c] to [a]. *)
Record adds (a : adapter) (c : loc) (cbs : LocationCallbacks) (s s' : api) : Prop := {
  adds_others a' c' : (a', c') ≠ (a, c) -> known a' c' s' = known a' c' s;
  adds_interfaces a' : a' ≠ a -> interface_of a' s' = interface_of a' s;
  adds_known : interface_of a s' = interface_of a s ∨
    (concerns a cbs = true ∧ has_interface a s = false ∧ load_failed (interface_of a s) = false ∧
     load_failed (interface_of a s') = negb (has_interface a s'));
  adds_concerned : concerns a cbs = true ->
    has_interface a s' = true ∧ known a c s' = Some cbs ∨
    has_interface a s' = false ∧ load_failed (interface_of a s') = true ∧ known a c s' = known a c s;
  adds_unconcerned : concerns a cbs = false -> known a c s' = known a c s;
  adds_told : told_nobody s -> told_nobody s'
}.
Lemma adds_skip a c cbs s : concerns a cbs = false -> adds a c cbs s s.
Proof. intros E. split; try done; [by left|congruence]. Qed.
Lemma load_view a s :
  let s' := loadLocationInterface a s in
  (∀ a' c', known a' c' s' = known a' c' s) ∧ (∀ a', a' ≠ a -> interface_of a' s' = interface_of a' s) ∧
  (interface_of a s' = interface_of a s ∧ (loaded (interface_of a s) || load_failed (interface_of a s) = true) ∨
   has_interface a s = false ∧ load_failed (interface_of a s) = false ∧
   load_failed (interface_of a s') = negb (has_interface a s')) ∧
  (told_nobody s -> told_nobody s').
Proof.
  unfold loadLocationInterface, has_interface, answer_lib. cbv zeta.
  destruct (loaded (interface_of a s) || load_failed (interface_of a s)) eqn:E; [split_and!; eauto|].
  apply orb_false_iff in E as [E1 E2].
  assert (∀ i s a', a' ≠ a -> interface_of a' (set_interface a i s) = interface_of a' s) as Hset.
  { intros i s0 a' Hne. rewrite interface_set. by rewrite decide_False. }
  assert (∀ o i s, interface_of a (emit o (set_interface a i s)) = i) as Hown.
  { intros o i s0. by destruct a. }
  assert (∀ i s, interface_of a (set_interface a i s) = i) as Hown2 by (by destruct a).
  destruct (hd false _).
  - split_and!; [intros; by rewrite known_emit|intros a' Hne; by rewrite <- (Hset (Interface true false) s a' Hne)| |].
    + right. rewrite Hown. done.
    + intros H. by apply told_emit.
  - split_and!; [done|intros a' Hne; by rewrite <- (Hset (Interface false true) s a' Hne)| |done].
    right. rewrite Hown2. done.
Qed.
Lemma adds_add_to a c cbs s : adds a c cbs s (add_to a c cbs s).
Proof.
  unfold add_to. destruct (concerns a cbs) eqn:Ec; [|by apply adds_skip].
  destruct (load_view a s) as (Hk & Hi & Hl & Ht). cbv zeta in *. set (s1 := loadLocationInterface a s) in *. clearbody s1.
  destruct (has_interface a s1) eqn:Eh.
  - split; [|exact Hi| | |congruence|].
    + intros a' c' Hne. rewrite known_emit. cbn. rewrite decide_False by congruence. apply Hk.
    + change (interface_of a (emit _ s1)) with (interface_of a s1). change (has_interface a (emit _ s1)) with (has_interface a s1).
      destruct Hl as [[? _]|(? & ? & ?)]; [by left|right; split_and!; try done; by rewrite Eh].
    + intros _. left. split; [exact Eh|]. rewrite known_emit. cbn. by rewrite decide_True.
    + intros H. apply told_emit; [done|auto].
  - split; [intros; apply Hk|exact Hi| | |congruence|exact Ht].
    + destruct Hl as [[? _]|(? & ? & ?)]; [by left|right; split_and!; try done; by rewrite Eh].
    + intros _. right. split_and!; [done| |apply Hk]. destruct Hl as [[E Hor]|(_ & _ & ->)]; [|done].
      unfold has_interface in Eh. rewrite E in Eh |- *. by rewrite Eh in Hor.
Qed.
Lemma adds_emit a c cbs s s' o :
  (∀ a c k, knows a c k o = k) -> (∀ c, o ≠ DestroyComplete c) -> adds a c cbs s s' -> adds a c cbs s (emit o s').
Proof.
  intros Ho Hd [A1 A2 A3 A4 A5 A6]. assert (∀ a c, known a c (emit o s') = known a c s') as Hk.
  { intros. by rewrite known_emit, Ho. }
  split; [intros; rewrite Hk; auto|exact A2|exact A3|intros Hc; rewrite Hk; exact (A4 Hc)|intros Hc; rewrite Hk; auto|].
  intros Ht. apply told_emit; auto.
Qed.
Lemma adds_add_new a c cbs p : adds a c cbs p.2 (add_new c cbs p a).2.
Proof.
  pose proof (adds_add_to a c cbs p.2) as H. unfold add_to in H. destruct p as [b s]. unfold add_new. cbn [snd] in *.
  destruct (concerns a cbs); [|exact H]. destruct (has_interface a _); [|exact H].
  destruct b; [exact H|]. by apply adds_emit.
Qed.

(** Adding [c] to all adapters. *)
Record joined (c : loc) (cbs : LocationCallbacks) (s s' : api) : Prop := {
  joined_others a c' : c' ≠ c -> known a c' s' = known a c' s;
  joined_interface a : interface_of a s' = interface_of a s ∨
    (concerns a cbs = true ∧ has_interface a s = false ∧ load_failed (interface_of a s) = false ∧
     load_failed (interface_of a s') = negb (has_interface a s'));
  joined_concerned a : concerns a cbs = true ->
    has_interface a s' = true ∧ known a c s' = Some cbs ∨
    has_interface a s' = false ∧ load_failed (interface_of a s') = true ∧ known a c s' = known a c s;
  joined_unconcerned a : concerns a cbs = false -> known a c s' = known a c s;
  joined_told : told_nobody s -> told_nobody s'
}.
Lemma joined_all c cbs s s1 s2 s3 :
  adds GNSS c cbs s s1 -> adds BATCHING c cbs s1 s2 -> adds GEOFENCE c cbs s2 s3 -> joined c cbs s s3.
Proof.
  intros [A1 A2 A3 A4 A5 A6] [B1 B2 B3 B4 B5 B6] [C1 C2 C3 C4 C5 C6].
  assert (interface_of GNSS s3 = interface_of GNSS s1) as E1 by (rewrite C2, B2; done).
  assert (interface_of BATCHING s3 = interface_of BATCHING s2) as E2 by (by rewrite C2).
  assert (interface_of BATCHING s1 = interface_of BATCHING s) as E3 by (by rewrite A2).
  assert (interface_of GEOFENCE s2 = interface_of GEOFENCE s) as E4 by (rewrite B2, A2; done).
  assert (known GNSS c s3 = known GNSS c s1) as K1 by (rewrite C1, B1; done).
  assert (known BATCHING c s3 = known BATCHING c s2) as K2 by (by rewrite C1).
  assert (known BATCHING c s1 = known BATCHING c s) as K3 by (by rewrite A1).
  assert (known GEOFENCE c s2 = known GEOFENCE c s) as K4 by (rewrite B1, A1; done).
  split; unfold has_interface in *.
  - intros a c' Hne. rewrite C1, B1, A1 by congruence. done.
  - intros []; rewrite ?E1, ?E2, <- ?E3, <- ?E4; assumption.
  - intros []; rewrite ?E1, ?E2, ?K1, ?K2, <- ?K3, <- ?K4; assumption.
  - intros []; rewrite ?K1, ?K2, <- ?K3, <- ?K4; assumption.
  - auto.
Qed.
Lemma joined_add_all c cbs s : joined c cbs s (foldl (λ s a, add_to a c cbs s) s adapters).
Proof. cbn. eapply joined_all; apply adds_add_to. Qed.
Lemma joined_new_all c cbs p : joined c cbs p.2 (foldl (add_new c cbs) p adapters).2.
Proof. cbn. eapply joined_all; apply adds_add_new. Qed.

Lemma joined_clientData c cbs s s' v : joined c cbs s s' -> joined c cbs s (set_clientData v s').
Proof.
  intros [J1 J2 J3 J4 J5].
  split; [exact J1|intros a; specialize (J2 a); by destruct a|intros a; specialize (J3 a); by destruct a|exact J4|exact J5].
Qed.

(** The adapters have the callbacks of every client that concern them, and
    nothing of clients that left. *)
Record informed (s : api) : Prop := {
  inf_current a c cbs : clientData s !! c = Some cbs -> concerns a cbs = true ->
    has_interface a s = true ∧ known a c s = Some cbs ∨
    has_interface a s = false ∧ load_failed (interface_of a s) = true;
  inf_gone a c : clientData s !! c = None -> known a c s = None;
  inf_unloaded a c : has_interface a s = false -> known a c s = None;
  inf_told : told_nobody s
}.

Lemma informed_joined c cbs s s' :
  informed s -> clientData s' = <[c := cbs]> (clientData s) ->
  joined c cbs s s' -> informed s'.
Proof.
  intros [I1 I2 I3 I4] Ec [J1 J2 J3 J4 J5]. split; unfold has_interface in *.
  - intros a c' cbs' Hc Hcon. rewrite Ec in Hc. apply lookup_insert_Some in Hc as [[<- <-]|[Hne Hc]].
    + destruct (J3 a Hcon) as [?|(? & ? & _)]; auto.
    + rewrite J1 by done. destruct (J2 a) as [->|(_ & Hl & Hf & E)]; [eauto|].
      destruct (I1 a c' cbs' Hc Hcon) as [[? _]|[_ ?]]; congruence.
  - intros a c' Hc. rewrite Ec in Hc. apply lookup_insert_None in Hc as [Hc Hne]. rewrite J1 by done. auto.
  - intros a c' Hl. destruct (decide (c' = c)) as [->|Hne].
    + destruct (concerns a cbs) eqn:Hcon.
      * destruct (J3 a Hcon) as [[? _]|(_ & _ & ->)]; [congruence|]. destruct (J2 a) as [E|(_ & ? & _)]; apply I3; congruence.
      * rewrite J4 by done. destruct (J2 a) as [E|(? & _)]; [|congruence]. apply I3. congruence.
    + rewrite J1 by done. destruct (J2 a) as [E|(_ & ? & _)]; apply I3; congruence.
  - auto.
Qed.

(** Steps that tell the adapters nothing. *)
Definition hush (s s' : api) : Prop :=
  clientData s' = clientData s ∧ (∀ a, interface_of a s' = interface_of a s) ∧
  (∀ a c, known a c s' = known a c s) ∧ (told_nobody s -> told_nobody s').
#[export] Instance hush_preorder : PreOrder hush.
Proof.
  split; [done|]. intros s1 s2 s3 (a1&a2&a3&a4) (b1&b2&b3&b4).
  split_and!; [congruence|intros; by rewrite b2|intros; by rewrite b3|auto].
Qed.
Lemma hush_informed s s' : hush s s' -> informed s -> informed s'.
Proof.
  intros (E1 & E2 & E3 & E4) [I1 I2 I3 I4]. split; unfold has_interface in *.
  - intros a c cbs. rewrite E1, E2, E3. apply I1.
  - intros a c. rewrite E1, E3. apply I2.
  - intros a. rewrite E2. intros Hl c. rewrite E3. by apply I3.
  - auto.
Qed.
Lemma hush_emit o s : (∀ a c k, knows a c k o = k) -> (∀ c, o ≠ DestroyComplete c) -> hush s (emit o s).
Proof. intros Ho Hd. split_and!; [done|by intros []|intros; by rewrite known_emit, Ho|by apply told_emit]. Qed.
Lemma hush_same s s' :
  clientData s' = clientData s -> (∀ a, interface_of a s' = interface_of a s) -> outputs s' = outputs s -> hush s s'.
Proof. intros E1 E2 E3. unfold hush, known, told_nobody. rewrite E3. done. Qed.
Lemma hush_glue o s : (∀ a c k, knows a c k o = k) -> (∀ c, o ≠ DestroyComplete c) -> hush s (glue o s).
Proof.
  intros Ho Hd. unfold glue, answer_lib. destruct (hd _ _); [|by apply hush_same].
  etrans; [|by apply hush_emit]. by apply hush_same.
Qed.
Lemma hush_forward a c r s : hush s (forward a c r s).
Proof. unfold forward. case_match; [by apply hush_emit|done]. Qed.
Lemma hush_forward_id a c r s : hush s (forward_id a c r s).2.
Proof. unfold forward_id. case_match; [|done]. cbn. etrans; [by apply (hush_emit (Forward a c r))|by apply hush_same]. Qed.
Lemma hush_perform c r s : hush s (perform c r s).2.
Proof.
  destruct r; cbn [perform snd]; first [apply hush_forward|apply hush_forward_id|idtac].
  all: unfold startTracking, stopTracking, updateTrackingOptions; case_match; [|done].
  all: first [apply hush_forward|apply hush_forward_id].
Qed.
Lemma hush_network f s : hush s (network_call f s).
Proof. destruct f; by apply hush_glue. Qed.
Lemma hush_control r s : hush s (control r s).2.
Proof.
  unfold control. case_match; [|done].
  destruct r; cbn; (etrans; [by apply hush_emit|by apply hush_same]) || by apply hush_emit.
Qed.
Lemma hush_optin s : hush s (setOptInStatus s).2.
Proof.
  unfold setOptInStatus, answer_lib. destruct (hd _ _).
  - etrans; [|by apply hush_same]. etrans; [|by apply (hush_emit (GlueCall "setOptInStatus"))].
    by apply hush_same.
  - by apply hush_same.
Qed.
Lemma hush_complete a c s : hush s (onRemoveClientCompleteCb a c s).
Proof. unfold onRemoveClientCompleteCb. repeat case_match; try done; by apply hush_same. Qed.

Lemma informed_load a s : informed s -> clientData (loadLocationInterface a s) = clientData s -> informed (loadLocationInterface a s).
Proof.
  intros [I1 I2 I3 I4] Ec. destruct (load_view a s) as (Hk & Hi & Hl & Ht). cbv zeta in *.
  set (s' := loadLocationInterface a s) in *. clearbody s'.
  split; unfold has_interface in *.
  - intros a' c cbs. rewrite Ec, Hk. intros Hc Hcon. destruct (decide (a' = a)) as [->|Hne].
    + destruct Hl as [[-> _]|(Hl & Hf & _)]; [eauto|]. destruct (I1 a c cbs Hc Hcon) as [[? _]|[_ ?]]; congruence.
    + rewrite Hi by done. eauto.
  - intros a' c. rewrite Ec, Hk. apply I2.
  - intros a' Hl' c. rewrite Hk. destruct (decide (a' = a)) as [->|Hne].
    + destruct Hl as [[E _]|(Hl & _)]; apply I3; congruence.
    + apply I3. by rewrite <- Hi.
  - auto.
Qed.
Lemma informed_createControl b s : informed s -> informed (createControl b s).2.
Proof.
  intros H. unfold createControl. case_match; [|done].
  pose proof (informed_load GNSS s H (proj1 (quiet_load GNSS s))) as H1. set (s1 := loadLocationInterface GNSS s) in *. clearbody s1.
  case_match; [|done]. cbn [snd]. eapply hush_informed; [|exact H1]. etrans; [|by apply hush_emit]. by apply hush_same.
Qed.
Lemma informed_create cbs s : informed s -> informed (createInstance cbs s).2.
Proof.
  intros H. unfold createInstance. destruct (mandatory cbs); [|done]. cbn [negb].
  set (c := next s). set (s1 := set_refcount _ _). set (s2 := if _ =? 1 then _ else _).
  assert (hush s s2) as H2.
  { etrans; [by apply (hush_same s s1); [| intros []|]|]. subst s2. case_match; [by apply hush_glue|done]. }
  pose proof (joined_new_all c cbs (false, s2)) as Hj. pose proof (quiet_new_all c cbs (false, s2)) as (Eq & _).
  destruct (foldl _ _ adapters) as [b s3]. cbn [snd] in *.
  apply (informed_joined c cbs s2); [by eapply hush_informed|cbn; by rewrite Eq|by apply joined_clientData].
Qed.
Lemma informed_update c cbs s : informed s -> informed (updateCallbacks c cbs s).
Proof.
  intros H. unfold updateCallbacks. destruct (mandatory cbs); [|done]. cbn [negb].
  pose proof (joined_add_all c cbs s) as Hj. pose proof (quiet_add_all c cbs s) as (Eq & _).
  set (s1 := foldl _ _ _) in *. clearbody s1. apply (informed_joined c cbs s); [done|cbn; by rewrite Eq|by apply joined_clientData].
Qed.

(** ** Removing *)

Lemma remove_view c s :
  let s' := foldl (remove_from c) s adapters in
  (∀ a c', known a c' s' = if decide (c' = c ∧ has_interface a s = true) then None else known a c' s) ∧
  (told_nobody s -> told_nobody s').
Proof.
  assert (∀ a s, let s' := remove_from c s a in
    (∀ a' c', known a' c' s' = if decide (a' = a ∧ c' = c ∧ has_interface a s = true) then None else known a' c' s) ∧
    (∀ a', has_interface a' s' = has_interface a' s) ∧ (told_nobody s -> told_nobody s')) as Hone.
  { intros a s0. cbv zeta. unfold remove_from. destruct (has_interface a s0) eqn:E.
    - split_and!; [|by intros []|by apply (told_emit (RemoveClient a c) (set_removals (removals s0 ++ [(a, c)]) s0))].
      intros a' c'. rewrite known_emit. cbn. repeat case_decide; naive_solver.
    - split_and!; [|done|done]. intros a' c'. rewrite decide_False; [done|naive_solver]. }
  cbn. destruct (Hone GNSS s) as (K1 & H1 & T1). set (s1 := remove_from c s GNSS) in *.
  destruct (Hone BATCHING s1) as (K2 & H2 & T2). set (s2 := remove_from c s1 BATCHING) in *.
  destruct (Hone GEOFENCE s2) as (K3 & H3 & T3). set (s3 := remove_from c s2 GEOFENCE) in *.
  split; [|auto]. intros a c'. rewrite K3, K2, K1, H2, !H1. destruct a; repeat case_decide; naive_solver.
Qed.

Lemma informed_destroy c cb s : informed s -> informed (destroy c cb s).
Proof.
  intros H. unfold destroy. set (s0 := match clientData s !! c with Some _ => _ | None => _ end).
  assert (informed s0) as H0.
  { subst s0. destruct (clientData s !! c) eqn:Ec; [|done].
    set (s1 := if cb && _ then _ else s). assert (hush s s1) as Hh1 by (subst s1; case_match; [by apply hush_same|done]).
    destruct (remove_view c s1) as [Hk Ht]. pose proof (remove_all c s1) as (_ & E2 & _ & _ & _ & _ & _ & E8).
    cbv zeta in *. set (s2 := foldl _ s1 _) in *. clearbody s2.
    assert (informed (set_clientData (delete c (clientData s2)) s2)) as H2.
    { apply (hush_informed _ _ Hh1) in H. destruct H as [I1 I2 I3 I4].
      assert (∀ a v, interface_of a (set_clientData v s2) = interface_of a s1) as E8' by (intros a v; rewrite <- E8; by destruct a).
      assert (∀ a c v, known a c (set_clientData v s2) = known a c s2) as Hk' by done.
      split; unfold has_interface in *; change (clientData (set_clientData ?v s2)) with v; rewrite ?E2.
      - intros a c' cbs Hc Hcon. apply lookup_delete_Some in Hc as [Hne Hc].
        rewrite E8', Hk', Hk, decide_False by naive_solver. eauto.
      - intros a c' Hc. rewrite Hk', Hk. case_decide as Hd; [done|].
        apply lookup_delete_None in Hc as [<-|Hc]; [|auto]. apply I3. destruct (loaded (interface_of a s1)) eqn:E; [|done]. naive_solver.
      - intros a c' Hl. rewrite E8' in Hl. rewrite Hk', Hk. case_decide; [done|]. by apply I3.
      - by apply Ht. }
    case_match; [exact H2|]. eapply hush_informed; [|exact H2]. by apply hush_same. }
  clearbody s0. eapply hush_informed; [|exact H0].
  etrans; [|by apply hush_same]. case_match; [by apply hush_glue|done].
Qed.

Lemma hush_answers v s : hush s (set_answers v s).
Proof. by apply hush_same. Qed.
Lemma informed_init : informed init.
Proof. split; try done. by intros c Hc%elem_of_nil. Qed.
Lemma informed_step s e s' : wf s -> informed s -> step s e = Some s' -> informed s'.
Proof.
  intros Hwf H Hs. destruct e as [e v]. pose proof (hush_informed _ _ (hush_answers v s) H) as H1.
  pose proof (wf_answers v s Hwf) as Hwf1. unfold step in Hs. cbn [fst snd] in Hs. set (s1 := set_answers v s) in *. clearbody s1.
  destruct e; repeat case_match; simplify_eq.
  - by apply informed_create.
  - by apply informed_destroy.
  - by apply informed_update.
  - by eapply hush_informed; [apply hush_perform|].
  - by eapply hush_informed; [apply hush_network|].
  - eapply hush_informed; [|exact H1]. etrans; [|apply hush_complete]. by apply hush_same.
  - destruct b; cbn in Hs; simplify_eq. eapply hush_informed; [|exact H1]. by apply hush_same.
  - done.
  - by apply informed_createControl.
  - eapply hush_informed; [|exact H1]. by apply hush_same.
  - by eapply hush_informed; [apply hush_control|].
  - by eapply hush_informed; [apply hush_optin|].
Qed.

(** * Properties *)

Definition reached (es : list (event * env)) (s : api) : Prop :=
  run_ok step used_well init es ∧ run step init es = Some s.
Lemma reached_inv es s : reached es s -> wf s ∧ informed s.
Proof.
  intros [Hok Hrun]. refine (run_invariant step used_well (λ s, wf s ∧ informed s) init es s _ _ Hok Hrun); cbv beta.
  - intros s0 e s1 [Hwf Hi] Hu Hs. destruct (wf_step s0 e Hwf Hu) as (s1' & E & Hwf').
    rewrite E in Hs. injection Hs as <-. split; [done|]. exact (informed_step s0 e s1' Hwf Hi E).
  - split; [apply wf_init|apply informed_init].
Qed.
Lemma waited_some s c : waited s c ≠ 0 -> ∃ a, (a, c) ∈ removals s.
Proof. unfold waited. intros Hne. repeat case_decide; eauto. by destruct Hne. Qed.

#[export] Instance used_well_dec s e : Decision (used_well s e).
Proof. destruct e as [[] ?]; unfold used_well; cbn [fst]; apply _. Defined.

(** C14: when clients use an object from its creation to its destruction and give a
    callback to the latter, no virtual function is called on a deleted object and no
    empty callback is called; the objects that exist are those of the clients, those
    that wait for an adapter that has been asked to remove them, and those about to
    be deleted; the framework is counted once per client.  When no removal and no
    deletion is outstanding, only the clients' objects are left. *)
Theorem location_objects_are_freed es :
  run_ok step used_well init es ->
  ∃ s, run step init es = Some s ∧
    gOSFrameworkRefCount s = Z.of_nat (size (clientData s)) ∧
    (∀ c, c ∈ objects s <-> is_Some (clientData s !! c) ∨ is_Some (destroyClientData s !! c) ∨ c ∈ (finishing s).*1) ∧
    (∀ c d, destroyClientData s !! c = Some d ->
       clientData s !! c = None ∧ waitAdapterMask d = waited s c ∧ ∃ a, (a, c) ∈ removals s) ∧
    (removals s = [] -> finishing s = [] -> objects s = dom (clientData s)).
Proof.
  intros Hok. destruct (run_defined step used_well wf init es wf_step wf_init Hok) as (s & Hrun & [H1 H2 H3 H4 H5 H6 [H7 _]]).
  assert (∀ c, c ∈ objects s <-> is_Some (clientData s !! c) ∨ is_Some (destroyClientData s !! c) ∨ c ∈ (finishing s).*1) as Hobj.
  { intros c. split; [apply H6|]. intros [Hc|[[d Hd]|Hc]]; [by apply H2|by apply (H3 _ _ Hd)|].
    apply list_elem_of_fmap in Hc as ([c' cb] & -> & Hc). by apply (H4 _ _ Hc). }
  assert (∀ c d, destroyClientData s !! c = Some d -> ∃ a, (a, c) ∈ removals s) as Hwait.
  { intros c d Hd. destruct (H3 _ _ Hd) as (_ & _ & _ & E & Hne). apply waited_some. congruence. }
  exists s. split_and!; [done|done|done| |].
  - intros c d Hd. split_and!; [|by apply (H3 _ _ Hd)|by eapply Hwait].
    destruct (clientData s !! c) eqn:E; [|done]. destruct (H2 c) as (_ & ? & _); [by eexists|]. congruence.
  - intros Hr Hf. apply set_eq. intros c. rewrite Hobj, elem_of_dom, Hf. split; [|auto].
    intros [?|[[d Hd]|Hc]]; [done| |by apply elem_of_nil in Hc].
    destruct (Hwait c d Hd) as [a Ha]. rewrite Hr in Ha. by apply elem_of_nil in Ha.
Qed.

(** Two clients: one for tracking, one for everything; the second leaves. *)
Definition no_answers : env := Env [] [].
Definition found (n : nat) : env := Env (replicate n true) [].
Definition no_callbacks : LocationCallbacks :=
  MkCallbacks true true true false false false false false false false false false false false false false.
Definition tracks : LocationCallbacks :=
  MkCallbacks true true true true false false false false false false false false false false false false.
Definition everything : LocationCallbacks :=
  MkCallbacks true true true true true true true true true true true true true true true true.
Definition two_clients : list (event * env) :=
  [(CreateInstance tracks, found 2); (CreateInstance everything, found 2);
   (UpdateCallbacks 1%positive everything, no_answers)].
Definition second_leaves : list (event * env) :=
  two_clients ++
  [(Destroy 2%positive true, no_answers); (RemoveComplete GEOFENCE 2%positive, no_answers);
   (RemoveComplete GNSS 2%positive, no_answers); (RemoveComplete BATCHING 2%positive, no_answers);
   (Finish 2%positive, no_answers)].
Lemma second_leaves_ok : run_ok step used_well init second_leaves.
Proof. apply (bool_decide_unpack _). vm_compute. exact I. Qed.
Lemma location_objects_are_freed_witness :
  ∃ s, run step init second_leaves = Some s ∧ objects s = {[1%positive]}.
Proof.
  destruct (location_objects_are_freed second_leaves second_leaves_ok) as (s & Hrun & _ & _ & _ & Hend).
  exists s. split; [exact Hrun|]. vm_compute in Hrun. injection Hrun as <-. rewrite Hend by reflexivity. reflexivity.
Defined.

(** C23: each adapter whose library can be loaded has the latest callbacks of every
    client that they concern, and nothing of a client that was destroyed. *)
Theorem adapters_have_the_clients es s :
  reached es s ->
  (∀ a c cbs, clientData s !! c = Some cbs -> concerns a cbs = true ->
     known a c s = Some cbs ∨ has_interface a s = false ∧ load_failed (interface_of a s) = true) ∧
  (∀ a c, clientData s !! c = None -> known a c s = None).
Proof.
  intros H. destruct (reached_inv _ _ H) as [_ [I1 I2 _ _]]. split; [|done].
  intros a c cbs Hc Hcon. destruct (I1 a c cbs Hc Hcon) as [[_ ?]|?]; auto.
Qed.
Lemma adapters_have_the_clients_witness :
  ∃ s, run step init second_leaves = Some s ∧ known GNSS 2%positive s = None ∧
    known BATCHING 1%positive s = Some everything.
Proof.
  destruct (run_defined step used_well wf init second_leaves wf_step wf_init second_leaves_ok) as (s & Hrun & _).
  exists s. split; [exact Hrun|].
  destruct (adapters_have_the_clients second_leaves s) as [Hcur Hgone]; [split; [exact second_leaves_ok|exact Hrun]|].
  vm_compute in Hrun. injection Hrun as <-. split; [by apply Hgone|].
  destruct (Hcur BATCHING 1%positive everything) as [?|[Hl _]]; [reflexivity|reflexivity|done|done].
Defined.

(** A fault: the callback of a destruction is never called, because the test that it
    is given is inverted; LocationAPI.h and the comment in destroy promise the call.
    The daemon frees the handler of a client that left in that callback, so it never
    frees one. *)
Lemma nobody_is_told es s c : reached es s -> DestroyComplete c ∉ outputs s.
Proof. intros H. destruct (reached_inv _ _ H) as [_ [_ _ _ Ht]]. apply Ht. Qed.

(** Without a callback the object of a client is never deleted when an adapter is
    loaded... *)
Example destroyed_without_callback_leaks :
  ∃ s, run step init [(CreateInstance tracks, found 2); (Destroy 1%positive false, no_answers);
                      (RemoveComplete GNSS 1%positive, no_answers)] = Some s ∧
    objects s = {[1%positive]} ∧ clientData s = ∅ ∧ destroyClientData s = ∅ ∧ removals s = [] ∧ finishing s = [].
Proof. vm_compute. eexists. split; [reflexivity|]. split_and!; reflexivity. Qed.
(** ... and the empty callback is called when none is. *)
Example destroyed_without_callback_throws :
  run step init [(CreateInstance tracks, no_answers); (Destroy 1%positive false, no_answers);
                 (Finish 1%positive, no_answers)] = None.
Proof. reflexivity. Qed.

(** Callbacks that no longer concern an adapter leave the old ones there. *)
Example old_callbacks_stay :
  ∃ s, run step init [(CreateInstance everything, found 4); (UpdateCallbacks 1%positive no_callbacks, no_answers)] = Some s ∧
    clientData s !! 1%positive = Some no_callbacks ∧ known GNSS 1%positive s = Some everything.
Proof. vm_compute. eexists. split; [reflexivity|]. split; reflexivity. Qed.

(** Destroying an object twice counts the framework's users down twice: the
    framework of the remaining client is destroyed. *)
Example destroyed_twice :
  ∃ s, run step init [(CreateInstance tracks, found 2); (CreateInstance tracks, no_answers);
                      (Destroy 1%positive true, no_answers); (Destroy 1%positive true, found 1)] = Some s ∧
    DestroyOSFramework ∈ outputs s ∧ is_Some (clientData s !! 2%positive) ∧ gOSFrameworkRefCount s = 0.
Proof. vm_compute. eexists. split; [reflexivity|]. split_and!; [|by eexists|reflexivity]. repeat constructor. Qed.
