(* ===== verification/HalLocationAPI.v ===== *)
(** The daemon on LocationAPI: what the daemon (HalService.v) calls, one call after
    the other, is allowed by LocationAPI (LocationAPI.v), whatever the adapters
    complete in between: it is called on objects that exist.  Only the calls on the objects of clients are followed. *)

From stdpp Require Import list gmap strings.
From S2P Require Import Prelude Runs ApiStructs PbMsgConv IpcMessages HalState HalClient HalService HalLogic HalProtocol.
From S2P Require LocationAPI.
#[local] Existing Instance LocationAPI.quiet_preorder.

Local Open Scope Z_scope.

(** * The calls as events of LocationAPI *)

(** The callbacks that the daemon sets. *)
Definition given (c : callbacks) : LocationAPI.LocationCallbacks :=
  LocationAPI.MkCallbacks (mandatoryCbs c) (mandatoryCbs c) (mandatoryCbs c) (trackingCb c) (batchingCb c)
    (geofenceBreachCb c) false (gnssLocationInfoCb c) false (gnssSvCb c) (gnssNmeaCb c) (gnssDataCb c)
    (gnssMeasurementsCb c) (batchingStatusCb c) (locationSystemInfoCb c) (engineLocationsInfoCb c).
Definition tracking_options (o : LocationOptions) : LocationAPI.TrackingOptions :=
  LocationAPI.MkTrackingOptions o LocationAPI.GNSS_POWER_MODE_INVALID 0.
Definition batching_options (o : BatchingOptions) : LocationOptions :=
  MkLocationOptions (b_minInterval o) (b_minDistance o) (b_mode o) 0.

(** A call on object [c]; cleanup gives a callback to destroy. *)
Definition call_event (c : loc) (k : api_call) : LocationAPI.event :=
  match k with
  | CreateInstance cbs => LocationAPI.CreateInstance (given cbs)
  | UpdateCallbacks cbs => LocationAPI.UpdateCallbacks c (given cbs)
  | StartTracking o _ => LocationAPI.Request c (LocationAPI.StartTracking (tracking_options o))
  | StopTracking id => LocationAPI.Request c (LocationAPI.StopTracking id)
  | UpdateTrackingOptions id o => LocationAPI.Request c (LocationAPI.UpdateTrackingOptions id (tracking_options o))
  | StartBatching o _ => LocationAPI.Request c (LocationAPI.StartBatching (batching_options o) (b_batchingMode o))
  | StopBatching id => LocationAPI.Request c (LocationAPI.StopBatching id)
  | UpdateBatchingOptions id o => LocationAPI.Request c (LocationAPI.UpdateBatchingOptions id (batching_options o) (b_batchingMode o))
  | AddGeofences o i _ => LocationAPI.Request c (LocationAPI.AddGeofences o i)
  | RemoveGeofences l => LocationAPI.Request c (LocationAPI.RemoveGeofences l)
  | ModifyGeofences l o => LocationAPI.Request c (LocationAPI.ModifyGeofences l o)
  | PauseGeofences l => LocationAPI.Request c (LocationAPI.PauseGeofences l)
  | ResumeGeofences l => LocationAPI.Request c (LocationAPI.ResumeGeofences l)
  | Destroy => LocationAPI.Destroy c true
  end.

(** What happens: the daemon's next output (with what LocationAPI is answered when it
    is called), an adapter that completes a removal, a thread that ends. *)
Inductive item :=
  | FromDaemon (o : output) (v : LocationAPI.env)
  | Removed (a : LocationAPI.adapter) (c : loc) (v : LocationAPI.env)
  | Ended (c : loc) (v : LocationAPI.env).
Definition said (l : list item) : list output := omap (λ i, match i with FromDaemon o _ => Some o | _ => None end) l.

(** The objects of the handlers, in the order of their creation; the next one. *)
Abbreviation table := (gmap loc loc * loc)%type (only parsing).
Definition made (t : table) (i : item) : table :=
  match i with FromDaemon (OutApi h (CreateInstance _)) _ => (<[h := t.2]> t.1, Pos.succ t.2) | _ => t end.
(** A handler without object would call on a null pointer: here, on no object. *)
Definition event_of (t : table) (i : item) : option (LocationAPI.event * LocationAPI.env) :=
  match i with
  | FromDaemon (OutApi h k) v => Some (call_event (default t.2 (t.1 !! h)) k, v)
  | FromDaemon _ _ => None
  | Removed a c v => Some (LocationAPI.RemoveComplete a c, v)
  | Ended c v => Some (LocationAPI.Finish c, v)
  end.
Fixpoint drive (t : table) (l : list item) : list (LocationAPI.event * LocationAPI.env) :=
  match l with
  | [] => []
  | i :: l => match event_of t i with Some e => e :: drive (made t i) l | None => drive (made t i) l end
  end.
Definition objects_of (l : list item) : gmap loc loc := (foldl made (∅, 1%positive) l).1.

(** Adapters complete what they were asked for and threads delete once. *)
Definition others_well (s : LocationAPI.api) (e : LocationAPI.event * LocationAPI.env) : Prop :=
  match e.1 with
  | LocationAPI.RemoveComplete _ _ | LocationAPI.Finish _ => LocationAPI.used_well s e
  | _ => True
  end.

#[local] Existing Instance LocationAPI.used_well_dec.
#[export] Instance others_well_dec s e : Decision (others_well s e).
Proof. destruct e as [[] ?]; unfold others_well; cbn [fst]; apply _. Defined.

(** * What steps of LocationAPI do to its clients *)

Definition effect (e : LocationAPI.event) (s s' : LocationAPI.api) : Prop :=
  match e with
  | LocationAPI.CreateInstance cbs => LocationAPI.mandatory cbs = true ->
      LocationAPI.clientData s' = <[LocationAPI.next s := cbs]> (LocationAPI.clientData s) ∧
      LocationAPI.next s' = Pos.succ (LocationAPI.next s)
  | LocationAPI.Destroy c _ =>
      LocationAPI.clientData s' = delete c (LocationAPI.clientData s) ∧ LocationAPI.next s' = LocationAPI.next s
  | _ =>
      (∀ c, is_Some (LocationAPI.clientData s' !! c) <-> is_Some (LocationAPI.clientData s !! c)) ∧
      size (LocationAPI.clientData s') = size (LocationAPI.clientData s) ∧
      LocationAPI.next s' = LocationAPI.next s
  end.
Lemma quiet_effect s s' : LocationAPI.quiet s s' ->
  (∀ c, is_Some (LocationAPI.clientData s' !! c) <-> is_Some (LocationAPI.clientData s !! c)) ∧
  size (LocationAPI.clientData s') = size (LocationAPI.clientData s) ∧ LocationAPI.next s' = LocationAPI.next s.
Proof. by intros (-> & _ & _ & -> & _). Qed.
Lemma effect_create cbs s s' :
  s' = (LocationAPI.createInstance cbs s).2 -> effect (LocationAPI.CreateInstance cbs) s s'.
Proof.
  intros -> Hm. unfold LocationAPI.createInstance. rewrite Hm. cbn [negb].
  set (s1 := LocationAPI.set_refcount _ _). set (s2 := if _ =? 1 then _ else _).
  assert (LocationAPI.quiet s1 s2) as Hq2 by (subst s2; case_match; [apply LocationAPI.quiet_glue|done]).
  pose proof (LocationAPI.quiet_new_all (LocationAPI.next s) cbs (false, s2)) as Hq3.
  destruct (foldl _ _ LocationAPI.adapters) as [b s3]. cbn [snd] in *.
  assert (LocationAPI.quiet s1 s3) as (E1&_&_&E4&_) by (by etrans).
  cbn [LocationAPI.clientData LocationAPI.next LocationAPI.set_clientData]. by rewrite E1, E4.
Qed.
Lemma effect_update c cbs s :
  is_Some (LocationAPI.clientData s !! c) ->
  effect (LocationAPI.UpdateCallbacks c cbs) s (LocationAPI.updateCallbacks c cbs s).
Proof.
  intros Hc. unfold LocationAPI.updateCallbacks. destruct (LocationAPI.mandatory cbs); [|done]. cbn [negb].
  destruct (quiet_effect _ _ (LocationAPI.quiet_add_all c cbs s)) as (E1 & E2 & E3).
  set (s1 := foldl _ _ _) in *. clearbody s1. cbn [effect LocationAPI.clientData LocationAPI.next LocationAPI.set_clientData].
  split_and!; [|by rewrite map_size_insert_Some by (by apply E1)|done].
  intros c'. rewrite <- E1. destruct (decide (c = c')) as [<-|Hne].
  - rewrite lookup_insert_eq. split; [intros _; by apply E1|by eexists].
  - by rewrite lookup_insert_ne.
Qed.
Lemma step_effect s e v s' :
  LocationAPI.wf s -> LocationAPI.used_well s (e, v) -> LocationAPI.step s (e, v) = Some s' -> effect e s s'.
Proof.
  intros Hwf Hu Hs. pose proof (LocationAPI.wf_answers v s Hwf) as Hwf1. unfold LocationAPI.step in Hs.
  unfold LocationAPI.used_well in Hu. cbn [fst snd] in *. set (s1 := LocationAPI.set_answers v s) in *.
  assert (LocationAPI.quiet s s1) as Hq1 by done. destruct e; repeat case_match; simplify_eq.
  - by apply (effect_create _ s1).
  - destruct Hu as [Hc ->]. pose proof (LocationAPI.destroy_run c s1 Hwf1 Hc) as (E1 & _ & _ & E2 & _). done.
  - by apply (effect_update c cbs s1).
  - apply (quiet_effect s1), LocationAPI.quiet_perform.
  - apply (quiet_effect s1), LocationAPI.quiet_network.
  - unfold LocationAPI.onRemoveClientCompleteCb. by repeat case_match.
  - destruct b; cbn in Hs; by simplify_eq.
  - done.
  - apply (quiet_effect s1), LocationAPI.quiet_createControl.
  - done.
  - apply (quiet_effect s1), LocationAPI.quiet_control.
  - apply (quiet_effect s1), LocationAPI.quiet_optin.
Qed.

(** * The daemon's calls are a proper use *)

(** After the daemon's outputs [lo]: the live clients are those of LocationAPI. *)
Record link (lo : list output) (t : table) (s : LocationAPI.api) : Prop := {
  link_live h a b : follows h lo = Some (PLive a b) -> ∃ c, t.1 !! h = Some c ∧ is_Some (LocationAPI.clientData s !! c);
  link_back c : is_Some (LocationAPI.clientData s !! c) ->
    ∃ h a b, t.1 !! h = Some c ∧ follows h lo = Some (PLive a b);
  link_inj h1 h2 c : t.1 !! h1 = Some c -> t.1 !! h2 = Some c -> h1 = h2;
  link_fresh h c : t.1 !! h = Some c -> (c < LocationAPI.next s)%positive;
  link_next : t.2 = LocationAPI.next s;
  link_size : (size (LocationAPI.clientData s) ≤ length lo)%nat
}.

Lemma follows_prefix h lo l : is_Some (follows h (lo ++ l)) -> is_Some (follows h lo).
Proof.
  unfold follows. rewrite foldl_app. destruct (foldl (pnext h) (Some PNone) lo) eqn:E; [by eexists|].
  intros [s Hs]. exfalso. revert Hs. clear E. induction l as [|o l IH]; [done|]. simpl. unfold pnext at 2. by destruct (call_of h o).
Qed.
(** The calls after which a live client stays live. *)
Lemma pstep_live s k s' :
  pstep s k = Some s' -> match k with CreateInstance _ | Destroy => True | _ => ∃ a b a' b', s = PLive a b ∧ s' = PLive a' b' end.
Proof. destruct s, k; simpl; intros; repeat case_match; simplify_eq; eauto 10. Qed.
Lemma follows_called h lo k :
  is_Some (follows h (lo ++ [OutApi h k])) ->
  ∃ s s', follows h lo = Some s ∧ pstep s k = Some s' ∧ follows h (lo ++ [OutApi h k]) = Some s'.
Proof.
  rewrite follows_snoc. unfold pnext. cbn [call_of]. rewrite decide_True by done.
  destruct (follows h lo) as [s|]; [|by intros [? ?]]. cbn. intros [s' E]. by exists s, s'.
Qed.
Lemma follows_not h h' lo k : h' ≠ h -> follows h' (lo ++ [OutApi h k]) = follows h' lo.
Proof. intros Hne. apply follows_other. cbn. by rewrite decide_False. Qed.

Lemma link_quiet lo t s s' lo' :
  link lo t s -> (∀ h a b, follows h lo' = Some (PLive a b) -> ∃ a' b', follows h lo = Some (PLive a' b')) ->
  (∀ h a b, follows h lo = Some (PLive a b) -> ∃ a' b', follows h lo' = Some (PLive a' b')) ->
  (length lo ≤ length lo')%nat ->
  (∀ c, is_Some (LocationAPI.clientData s' !! c) <-> is_Some (LocationAPI.clientData s !! c)) ->
  size (LocationAPI.clientData s') = size (LocationAPI.clientData s) -> LocationAPI.next s' = LocationAPI.next s ->
  link lo' t s'.
Proof.
  intros [L1 L2 L3 L4 L5 L6] Hf Hf' Hlen E1 E2 E3. split; rewrite ?E2, ?E3; auto; [| |lia].
  - intros h a b Hh. destruct (Hf _ _ _ Hh) as (a' & b' & Hh'). destruct (L1 _ _ _ Hh') as (c & ? & Hc). exists c. by rewrite E1.
  - intros c Hc%E1. destruct (L2 _ Hc) as (h & a & b & ? & Hh). destruct (Hf' _ _ _ Hh) as (a' & b' & ?). eauto.
Qed.
Lemma link_silent lo t s o : (∀ h, call_of h o = None) -> link lo t s -> link (lo ++ [o]) t s.
Proof.
  intros Ho Hl. apply (link_quiet lo t s); try done; [intros h a b|intros h a b|rewrite length_app; lia];
    rewrite follows_other by done; eauto.
Qed.
Lemma link_created lo t s s' h cbs :
  link lo t s -> is_Some (follows h (lo ++ [OutApi h (CreateInstance cbs)])) ->
  effect (LocationAPI.CreateInstance (given cbs)) s s' -> LocationAPI.clientData s !! LocationAPI.next s = None ->
  link (lo ++ [OutApi h (CreateInstance cbs)]) (<[h := t.2]> t.1, Pos.succ t.2) s'.
Proof.
  intros [L1 L2 L3 L4 L5 L6] Hf He Hnone. destruct (follows_called _ _ _ Hf) as (p & p' & Hp & Hs & Hp').
  destruct p; try done. cbn in Hs. destruct (mandatoryCbs cbs) eqn:Hm; [|done]. injection Hs as <-.
  destruct He as [E1 E2]; [unfold LocationAPI.mandatory, given; cbn; by rewrite Hm|]. rewrite <- L5 in E1, E2, Hnone.
  split; cbn [fst snd]; rewrite ?E1, ?E2.
  - intros h' a b Hh. destruct (decide (h' = h)) as [->|Hne].
    + exists t.2. rewrite !lookup_insert_eq. split; [done|by eexists].
    + rewrite follows_not in Hh by done. destruct (L1 _ _ _ Hh) as (c & Hc & Hd). exists c. rewrite lookup_insert_ne by done.
      split; [done|]. rewrite lookup_insert_ne; [done|]. specialize (L4 _ _ Hc). lia.
  - intros c [x Hc]. apply lookup_insert_Some in Hc as [[<- _]|[Hne Hc]].
    + exists h, 0, 0. by rewrite lookup_insert_eq.
    + destruct (L2 c) as (h' & a & b & Ht & Hh); [by eexists|].
      assert (h' ≠ h) by (intros ->; congruence). exists h', a, b. rewrite lookup_insert_ne, follows_not by done. done.
  - intros h1 h2 c [[-> <-]|[N1 H1]]%lookup_insert_Some [[-> E]|[N2 H2]]%lookup_insert_Some; try done;
      [specialize (L4 _ _ H2); lia|subst c; specialize (L4 _ _ H1); lia|eauto].
  - intros h' c [[-> <-]|[N1 H1]]%lookup_insert_Some; [lia|]. specialize (L4 _ _ H1). lia.
  - done.
  - rewrite map_size_insert_None, length_app by done. cbn. lia.
Qed.
Lemma link_destroyed lo t s s' h c :
  link lo t s -> t.1 !! h = Some c -> is_Some (LocationAPI.clientData s !! c) ->
  is_Some (follows h (lo ++ [OutApi h Destroy])) -> effect (LocationAPI.Destroy c true) s s' ->
  link (lo ++ [OutApi h Destroy]) t s'.
Proof.
  intros [L1 L2 L3 L4 L5 L6] Ht [x Hx] Hf [E1 E2]. destruct (follows_called _ _ _ Hf) as (p & p' & Hp & Hs & Hp').
  destruct p; try done. injection Hs as <-. split; rewrite ?E1, ?E2; auto.
  - intros h' a b Hh. destruct (decide (h' = h)) as [->|Hne]; [congruence|]. rewrite follows_not in Hh by done.
    destruct (L1 _ _ _ Hh) as (c' & Hc' & Hd). exists c'. split; [done|]. rewrite lookup_delete_ne; [done|].
    intros ->. apply Hne. by apply (L3 _ _ c').
  - intros c' [y Hy]. apply lookup_delete_Some in Hy as [Hne Hy]. destruct (L2 c') as (h' & a & b & Ht' & Hh); [by eexists|].
    exists h', a, b. rewrite follows_not; [done|]. intros ->. congruence.
  - rewrite map_size_delete_Some by (by eexists). rewrite length_app. lia.
Qed.

Lemma link_called lo t s s' h k :
  link lo t s -> is_Some (follows h (lo ++ [OutApi h k])) ->
  (∀ cbs, k ≠ CreateInstance cbs) -> k ≠ Destroy ->
  (∀ c, is_Some (LocationAPI.clientData s' !! c) <-> is_Some (LocationAPI.clientData s !! c)) ->
  size (LocationAPI.clientData s') = size (LocationAPI.clientData s) -> LocationAPI.next s' = LocationAPI.next s ->
  link (lo ++ [OutApi h k]) t s'.
Proof.
  intros Hl Hf Hk1 Hk2 E1 E2 E3. destruct (follows_called _ _ _ Hf) as (p & p' & Hp & Hs & Hp').
  assert (∃ a b a' b', p = PLive a b ∧ p' = PLive a' b') as (a & b & a' & b' & -> & ->).
  { apply pstep_live in Hs. destruct k; try done. by destruct (Hk1 cbs). }
  apply (link_quiet lo t s); try done; [| |rewrite length_app; lia];
    intros h' x y; (destruct (decide (h' = h)) as [->|Hne]; [intros _; eauto|rewrite follows_not by done; eauto]).
Qed.
Lemma called_on lo t s h k :
  link lo t s -> is_Some (follows h (lo ++ [OutApi h k])) -> (∀ cbs, k ≠ CreateInstance cbs) ->
  t.1 !! h = Some (default t.2 (t.1 !! h)) ∧ is_Some (LocationAPI.clientData s !! default t.2 (t.1 !! h)).
Proof.
  intros Hl Hf Hk. destruct (follows_called _ _ _ Hf) as (p & p' & Hp & Hs & _).
  assert (∃ a b, p = PLive a b) as (a & b & ->).
  { destruct p; [|eauto|by destruct k]. destruct k; try done. by destruct (Hk cbs). }
  destruct (link_live _ _ _ Hl _ _ _ Hp) as (c & Ht & Hc). by rewrite Ht.
Qed.

Lemma item_link lo t s i e s' :
  LocationAPI.wf s -> link lo t s -> (∀ h, is_Some (follows h (lo ++ said [i]))) ->
  LocationAPI.used_well s e -> LocationAPI.step s e = Some s' -> event_of t i = Some e ->
  link (lo ++ said [i]) (made t i) s'.
Proof.
  intros Hwf Hl Hf Hu Hs He. destruct e as [e v]. pose proof (step_effect _ _ _ _ Hwf Hu Hs) as Hx.
  destruct i as [o v'|a c v'|c v']; cbn in He; simplify_eq;
    [|rewrite app_nil_r; destruct Hx as (E1 & E2 & E3); apply (link_quiet lo t s); eauto..].
  destruct o as [|h k| | | | | | | |]; try done. injection He as <- <-. specialize (Hf h). cbn [said omap list_omap] in *.
  assert ((∃ cbs, k = CreateInstance cbs) ∨ ∀ cbs, k ≠ CreateInstance cbs) as [[cbs ->]|Hk] by (destruct k; eauto).
  - apply (link_created _ _ s); try done. destruct (LocationAPI.clientData s !! _) eqn:E; [|done].
    destruct (LocationAPI.wf_client s Hwf (LocationAPI.next s)) as [Ho _]; [by eexists|].
    apply (LocationAPI.wf_fresh s Hwf) in Ho. lia.
  - destruct (called_on _ _ _ _ _ Hl Hf Hk) as [Ht Hc].
    assert (made t (FromDaemon (OutApi h k) v') = t) as -> by (destruct k; try done; by destruct (Hk cbs)).
    assert (k = Destroy ∨ k ≠ Destroy) as [->|Hd] by (destruct k; auto).
    + by apply (link_destroyed _ _ s _ _ (default t.2 (t.1 !! h))).
    + assert ((∀ c, is_Some (LocationAPI.clientData s' !! c) <-> is_Some (LocationAPI.clientData s !! c)) ∧
        size (LocationAPI.clientData s') = size (LocationAPI.clientData s) ∧ LocationAPI.next s' = LocationAPI.next s)
        as (E1 & E2 & E3) by (destruct k; try done; by destruct (Hk cbs)).
      by apply (link_called _ _ s).
Qed.
Lemma item_well lo t s i e :
  link lo t s -> (∀ h, is_Some (follows h (lo ++ said [i]))) -> Z.of_nat (length lo) < 2 ^ 32 - 1 ->
  others_well s e -> event_of t i = Some e -> LocationAPI.used_well s e.
Proof.
  intros Hl Hf Hlen Ho He. destruct i as [o v'|a c v'|c v']; cbn in He; simplify_eq; [|exact Ho..].
  destruct o as [|h k| | | | | | | |]; try done. injection He as <-. specialize (Hf h). cbn [said omap list_omap] in *.
  assert ((∃ cbs, k = CreateInstance cbs) ∨ ∀ cbs, k ≠ CreateInstance cbs) as [[cbs ->]|Hk] by (destruct k; eauto).
  - pose proof (link_size _ _ _ Hl). unfold LocationAPI.used_well. cbn. lia.
  - destruct (called_on _ _ _ _ _ Hl Hf Hk) as [_ Hc]. destruct k; try exact Hc; [by destruct (Hk cbs)|by split].
Qed.
Lemma item_silent lo t s i :
  link lo t s -> event_of t i = None -> made t i = t ∧ link (lo ++ said [i]) t s.
Proof.
  intros Hl He. destruct i as [o v| |]; try done. destruct o; try done; (split; [done|by apply link_silent]).
Qed.

Lemma said_cons i l : said (i :: l) = said [i] ++ said l.
Proof. unfold said. cbn. by case_match. Qed.
Lemma drive_run l lo t s :
  LocationAPI.wf s -> LocationAPI.informed s -> link lo t s -> (∀ h, is_Some (follows h (lo ++ said l))) ->
  Z.of_nat (length (lo ++ said l)) < 2 ^ 32 - 1 ->
  run_ok LocationAPI.step others_well s (drive t l) ->
  ∃ s', run LocationAPI.step s (drive t l) = Some s' ∧ LocationAPI.wf s' ∧ LocationAPI.informed s' ∧
    link (lo ++ said l) (foldl made t l) s'.
Proof.
  revert lo t s. induction l as [|i l IH]; intros lo t s Hwf Hi Hl Hf Hlen Hok.
  - exists s. unfold said. cbn. by rewrite app_nil_r.
  - rewrite said_cons, (assoc_L app) in Hf, Hlen |- *.
    assert (∀ h, is_Some (follows h (lo ++ said [i]))) as Hfi by (intros h; by eapply follows_prefix).
    assert (Z.of_nat (length lo) < 2 ^ 32 - 1) as Hlo by (rewrite !length_app in Hlen; lia).
    cbn [drive foldl] in *. destruct (event_of t i) as [e|] eqn:He.
    + destruct Hok as [Ho Hok]. pose proof (item_well _ _ _ _ _ Hl Hfi Hlo Ho He) as Hu.
      destruct (LocationAPI.wf_step s e Hwf Hu) as (s1 & Hs & Hwf1). rewrite Hs in Hok. cbn [run]. rewrite Hs.
      apply IH; try done; [exact (LocationAPI.informed_step s e s1 Hwf Hi Hs)|by apply (item_link lo t s i e s1)].
    + destruct (item_silent _ _ _ _ Hl He) as [Em Hl1]. rewrite Em in Hok |- *. by apply IH.
Qed.
Lemma link_init : link [] (∅, 1%positive) LocationAPI.init.
Proof. split; try done. by intros c [? ?]. Qed.

Section uses.
Context `{!Unordered, !Wire}.

(** C13: The calls of a run of the daemon on the objects of its clients, with removals
    that the adapters complete and threads that end in between, meet what LocationAPI
    needs of its user: the run of LocationAPI that they make is defined, so that no
    call goes to a deleted object or calls an empty callback; the clients that
    LocationAPI has in the end are those that the daemon made and did not destroy; and
    the objects of the others are deleted once no removal and no deletion is
    outstanding.  Supposed: the run of the daemon is defined, the adapters complete only
    what they were asked for and a thread deletes once ([others_well]), and the daemon
    made fewer than 2^32 - 1 outputs.  That destroyed clients are to be told is another
    matter, where LocationAPI fails (LocationAPI.nobody_is_told). *)
Theorem daemon_uses_location_api p e d es d' l :
  started p e = Some d -> run step d es = Some d' -> said l = outputs d' ->
  Z.of_nat (length (outputs d')) < 2 ^ 32 - 1 ->
  run_ok LocationAPI.step others_well LocationAPI.init (drive (∅, 1%positive) l) ->
  ∃ s, run LocationAPI.step LocationAPI.init (drive (∅, 1%positive) l) = Some s ∧
    (∀ h a b, follows h (outputs d') = Some (PLive a b) ->
       ∃ c, objects_of l !! h = Some c ∧ is_Some (LocationAPI.clientData s !! c)) ∧
    (∀ c, is_Some (LocationAPI.clientData s !! c) ->
       ∃ h a b, objects_of l !! h = Some c ∧ follows h (outputs d') = Some (PLive a b)) ∧
    (LocationAPI.removals s = [] -> LocationAPI.finishing s = [] ->
       ∀ c, c ∈ LocationAPI.objects s -> is_Some (LocationAPI.clientData s !! c)).
Proof.
  intros Hp Hr Hl Hlen Hok.
  assert (∀ h, is_Some (follows h ([] ++ said l))) as Hf.
  { intros h. rewrite Hl. by destruct (run_invariant_always step all_at_points _ _ _ points_step (points_started _ _ _ Hp) Hr h). }
  destruct (drive_run l [] (∅, 1%positive) LocationAPI.init) as (s & Hs & Hwf & Hi & Hlink); try done.
  { exact LocationAPI.wf_init. } { exact LocationAPI.informed_init. } { exact link_init. } { by rewrite <- Hl in Hlen. }
  cbn [app] in Hlink. rewrite Hl in Hlink. exists s. split_and!; [done|by apply Hlink|by apply Hlink|].
  intros Hrem Hfin c Hc. destruct (LocationAPI.wf_objects s Hwf c Hc) as [?|[[x Hx]|Hx]]; [done| |].
  - destruct (LocationAPI.wf_destroy s Hwf c x Hx) as (_ & _ & _ & E & Hne).
    destruct (LocationAPI.waited_some s c) as [a Ha]; [congruence|]. rewrite Hrem in Ha. by apply elem_of_nil in Ha.
  - rewrite Hfin in Hx. by apply elem_of_nil in Hx.
Qed.
End uses.

(** The client of HalProtocol.v that tracks and leaves; its adapter then completes
    the removal, and the object is deleted. *)
Definition left_daemon : daemon := Eval vm_compute in default plain_daemon (plain_run tracking_run).
Definition answered : LocationAPI.env := LocationAPI.Env [true; true] [7].
Definition left_items : list item :=
  ((λ o, FromDaemon o answered) <$> outputs left_daemon) ++
  [Removed LocationAPI.GNSS 1%positive answered; Ended 1%positive answered].
Lemma daemon_uses_location_api_witness :
  ∃ s, run LocationAPI.step LocationAPI.init (drive (∅, 1%positive) left_items) = Some s ∧
    LocationAPI.objects s = ∅ ∧ objects_of left_items !! 1%positive = Some 1%positive.
Proof.
  assert (started plain_config no_env = Some plain_daemon) as Hs by (vm_compute; reflexivity).
  assert (plain_run tracking_run = Some left_daemon) as Hr by (vm_compute; reflexivity).
  destruct (@daemon_uses_location_api stored_order every_wire _ _ _ _ _ left_items Hs Hr)
    as (s & Hrun & _ & _ & Hend).
  - vm_compute. reflexivity.
  - vm_compute. reflexivity.
  - apply (bool_decide_unpack _). vm_compute. exact I.
  - exists s. split; [exact Hrun|]. split_and!; [|vm_compute; reflexivity].
    vm_compute in Hrun. injection Hrun as <-. apply set_eq. intros c. split; [|done].
    intros Hc. destruct (Hend eq_refl eq_refl c Hc) as [x Hx]. done.
Defined.
