(* ===== verification/ClientBase.v ===== *)
(** gps/location/LocationAPIClientBase.{h,cpp}: a client of LocationAPI that names
    its sessions and geofences itself, and keeps its unanswered requests in queues.
    LocationAPIClientBase first, LocationAPIControlClient after it.

    Every function holds mMutex and is a step.  A response takes a request from a
    queue in one step; what the request does with the response, after the mutex was
    released, is a step of its own.  [None]: an array is read past its end, or an
    empty callback is called. *)

From stdpp Require Import list gmap strings sorting.
From S2P Require Import Prelude Runs ApiStructs.
From S2P Require LocationAPI HalClient.

Local Open Scope Z_scope.

(** * Dictionaries *)

(** BiDict; std::map is ordered by its keys. *)
Record BiDict (T : Type) := MkBiDict {
  mForwardMap : gmap Z Z; mBackwardMap : gmap Z Z; mExtMap : gmap Z T
}.
Arguments MkBiDict {T}.
Arguments mForwardMap {T}.
Arguments mBackwardMap {T}.
Arguments mExtMap {T}.

Module Dict.
Section Dict.
Context {T : Type}.
Implicit Types d : BiDict T.
Definition empty : BiDict T := MkBiDict ∅ ∅ ∅.
Definition hasId (id : Z) d : bool := bool_decide (is_Some (mForwardMap d !! id)).
Definition hasSession (session : Z) d : bool := bool_decide (is_Some (mBackwardMap d !! session)).
Definition set (id session : Z) (ext : T) d : BiDict T :=
  MkBiDict (<[id := session]> (mForwardMap d)) (<[session := id]> (mBackwardMap d)) (<[session := ext]> (mExtMap d)).
Definition clear d : BiDict T := empty.
(** The operator [] of a map inserts 0 for a key that is not there. *)
Definition bracket (m : gmap Z Z) (k : Z) : Z := default 0 (m !! k).
Definition rmById (id : Z) d : BiDict T :=
  let s := bracket (mForwardMap d) id in
  MkBiDict (delete id (mForwardMap d)) (delete s (mBackwardMap d)) (delete s (mExtMap d)).
Definition rmBySession (session : Z) d : BiDict T :=
  let id := bracket (mBackwardMap d) session in
  MkBiDict (delete id (mForwardMap d)) (delete session (mBackwardMap d)) (delete session (mExtMap d)).
Definition getId (session : Z) d : Z := default 0 (mBackwardMap d !! session).
Definition getSession (id : Z) d : Z := default 0 (mForwardMap d !! id).
(** [zero]: the extension with zeroed memory. *)
Definition getExtBySession (zero : T) (session : Z) d : T := default zero (mExtMap d !! session).
Definition getExtById (zero : T) (id : Z) d : T * BiDict T :=
  let s := bracket (mForwardMap d) id in
  (if 0 <? s then default zero (mExtMap d !! s) else zero,
   MkBiDict (<[id := s]> (mForwardMap d)) (mBackwardMap d) (mExtMap d)).
Definition getAllSessions d : list Z := merge_sort Z.le (map_to_list (mBackwardMap d)).*1.
End Dict.
End Dict.

(** * LocationAPIClientBase *)

Definition SESSION_MODE_ON_FULL : Z := 1.
Definition SESSION_MODE_ON_FIX : Z := 2.
Definition SESSION_MODE_ON_TRIP_COMPLETED : Z := 3.
Definition BATCHING_MODE_ROUTINE : Z := 0.
Definition BATCHING_MODE_TRIP : Z := 1.
Definition BATCHING_MODE_NO_AUTO_REPORT : Z := 2.
Definition BATCHING_STATUS_TRIP_COMPLETED : Z := 0.
Definition GEOFENCE_BREACH_ENTER : Z := 0.
Definition GEOFENCE_BREACH_EXIT : Z := 1.
Definition GEOFENCE_BREACH_ENTER_BIT : Z := 1.
Definition GEOFENCE_BREACH_EXIT_BIT : Z := 2.
Definition GEOFENCE_SESSION_ID : Z := 4294967295.
Definition LOCATION_ERROR_SUCCESS : Z := 0.
Definition LOCATION_ERROR_GENERAL_FAILURE : Z := 1.
Definition LOCATION_ERROR_ID_UNKNOWN : Z := 5.
Definition LOCATION_ERROR_ALREADY_STARTED : Z := 6.
Definition LOCATION_ERROR_NOT_SUPPORTED : Z := 8.

Inductive REQUEST_TYPE := REQUEST_TRACKING | REQUEST_SESSION | REQUEST_GEOFENCE | REQUEST_NIRESPONSE.
#[export] Instance REQUEST_TYPE_eq_dec : EqDecision REQUEST_TYPE.
Proof. solve_decision. Defined.

(** The classes of requests; RemoveGeofencesRequest owns a dictionary. *)
Inductive LocationAPIRequest :=
  | StartTrackingRequest | StopTrackingRequest | UpdateTrackingOptionsRequest
  | StartBatchingRequest | StopBatchingRequest | UpdateBatchingOptionsRequest | GetBatchedLocationsRequest
  | AddGeofencesRequest | RemoveGeofencesRequest (mRemovedGeofenceBiDict : BiDict Z)
  | ModifyGeofencesRequest | PauseGeofencesRequest | ResumeGeofencesRequest
  | GnssNiResponseRequest.

Record RequestQueue (R : Type) := MkQueue { mSession : Z; mQueue : list R }.
Arguments MkQueue {R}.
Arguments mSession {R}.
Arguments mQueue {R}.
Definition push {R} (r : R) (q : RequestQueue R) : RequestQueue R := MkQueue (mSession q) (mQueue q ++ [r]).
Definition pop {R} (q : RequestQueue R) : option R * RequestQueue R :=
  match mQueue q with r :: l => (Some r, MkQueue (mSession q) l) | [] => (None, q) end.
Definition reset {R} (session : Z) (q : RequestQueue R) : RequestQueue R := MkQueue session [].
Definition setSession {R} (session : Z) (q : RequestQueue R) : RequestQueue R := MkQueue session (mQueue q).

Record SessionEntity := MkEntity { e_id : Z; trackingSession : Z; batchingSession : Z; sessionMode : Z }.
Definition zero_entity : SessionEntity := MkEntity 0 0 0 0.

(** What is called: LocationAPI, and the functions that a subclass overrides. *)
Inductive output :=
  | OutCreate (cbs : LocationAPI.LocationCallbacks)
  | OutUpdate (cbs : LocationAPI.LocationCallbacks)
  | OutDestroy
  | OutApi (r : LocationAPI.request)
  | onStartTrackingCb (error : Z) | onStopTrackingCb (error : Z) | onUpdateTrackingOptionsCb (error : Z)
  | onStartBatchingCb (error : Z) | onStopBatchingCb (error : Z) | onUpdateBatchingOptionsCb (error : Z)
  | onGetBatchedLocationsCb (error : Z) | onGnssNiResponseCb (error : Z)
  | onAddGeofencesCb (errors ids : list Z) | onRemoveGeofencesCb (errors ids : list Z)
  | onModifyGeofencesCb (errors ids : list Z) | onPauseGeofencesCb (errors ids : list Z)
  | onResumeGeofencesCb (errors ids : list Z)
  | onGeofenceBreachCb (type : Z) (ids : list Z)
  | onBatchingStatusCb (status : Z) (trips : list Z).

(** Answers of other code: identifiers and arrays of LocationAPI, whether malloc
    succeeds. *)
Record env := Env { sessions : list Z; arrays : list (option (list Z)); memory : bool }.

(** [mLocationAPI] and the two callbacks: not null.  [popped]: the requests that the
    threads of responses have taken, with the errors and identifiers of the response. *)
Record client := Client {
  mGeofenceBreachCallback : bool; mBatchingStatusCallback : bool; mLocationAPI : bool;
  mRequestQueues : REQUEST_TYPE -> RequestQueue LocationAPIRequest;
  mGeofenceBiDict : BiDict Z; mSessionBiDict : BiDict SessionEntity; mBatchSize : Z; mTracking : bool;
  popped : list (LocationAPIRequest * list Z * list Z); answers : env; outputs : list output
}.
Definition put_callbacks b t c := Client b t (mLocationAPI c) (mRequestQueues c) (mGeofenceBiDict c)
  (mSessionBiDict c) (mBatchSize c) (mTracking c) (popped c) (answers c) (outputs c).
Definition put_api v c := Client (mGeofenceBreachCallback c) (mBatchingStatusCallback c) v (mRequestQueues c)
  (mGeofenceBiDict c) (mSessionBiDict c) (mBatchSize c) (mTracking c) (popped c) (answers c) (outputs c).
Definition put_queues v c := Client (mGeofenceBreachCallback c) (mBatchingStatusCallback c) (mLocationAPI c) v
  (mGeofenceBiDict c) (mSessionBiDict c) (mBatchSize c) (mTracking c) (popped c) (answers c) (outputs c).
Definition put_geofences v c := Client (mGeofenceBreachCallback c) (mBatchingStatusCallback c) (mLocationAPI c)
  (mRequestQueues c) v (mSessionBiDict c) (mBatchSize c) (mTracking c) (popped c) (answers c) (outputs c).
Definition put_sessions v c := Client (mGeofenceBreachCallback c) (mBatchingStatusCallback c) (mLocationAPI c)
  (mRequestQueues c) (mGeofenceBiDict c) v (mBatchSize c) (mTracking c) (popped c) (answers c) (outputs c).
Definition put_batchSize v c := Client (mGeofenceBreachCallback c) (mBatchingStatusCallback c) (mLocationAPI c)
  (mRequestQueues c) (mGeofenceBiDict c) (mSessionBiDict c) v (mTracking c) (popped c) (answers c) (outputs c).
Definition put_tracking v c := Client (mGeofenceBreachCallback c) (mBatchingStatusCallback c) (mLocationAPI c)
  (mRequestQueues c) (mGeofenceBiDict c) (mSessionBiDict c) (mBatchSize c) v (popped c) (answers c) (outputs c).
Definition put_popped v c := Client (mGeofenceBreachCallback c) (mBatchingStatusCallback c) (mLocationAPI c)
  (mRequestQueues c) (mGeofenceBiDict c) (mSessionBiDict c) (mBatchSize c) (mTracking c) v (answers c) (outputs c).
Definition put_answers v c := Client (mGeofenceBreachCallback c) (mBatchingStatusCallback c) (mLocationAPI c)
  (mRequestQueues c) (mGeofenceBiDict c) (mSessionBiDict c) (mBatchSize c) (mTracking c) (popped c) v (outputs c).
Definition emit o c := Client (mGeofenceBreachCallback c) (mBatchingStatusCallback c) (mLocationAPI c)
  (mRequestQueues c) (mGeofenceBiDict c) (mSessionBiDict c) (mBatchSize c) (mTracking c) (popped c) (answers c)
  (outputs c ++ [o]).

Definition queue (t : REQUEST_TYPE) (c : client) : RequestQueue LocationAPIRequest := mRequestQueues c t.
Definition on_queue (t : REQUEST_TYPE) f (c : client) : client :=
  put_queues (λ t', if decide (t' = t) then f (queue t c) else mRequestQueues c t') c.
Definition push_to t r c := on_queue t (push r) c.
Definition api r c := emit (OutApi r) c.
(** A call of LocationAPI that returns a session, or an array of them. *)
Definition api_session r c : Z * client :=
  (hd 0 (sessions (answers c)), emit (OutApi r) (put_answers (Env (tail (sessions (answers c))) (arrays (answers c)) (memory (answers c))) c)).
Definition api_array r c : option (list Z) * client :=
  (hd None (arrays (answers c)), emit (OutApi r) (put_answers (Env (sessions (answers c)) (tail (arrays (answers c))) (memory (answers c))) c)).

Definition new_client : client :=
  Client false false false (λ _, MkQueue 0 []) Dict.empty Dict.empty (-1) false [] (Env [] [] true) [].

(** ** Callbacks of LocationAPI *)

Definition with_callbacks (cbs : LocationAPI.LocationCallbacks) : LocationAPI.LocationCallbacks :=
  LocationAPI.MkCallbacks true true true (LocationAPI.trackingCb cbs) (LocationAPI.batchingCb cbs)
    (LocationAPI.geofenceBreachCb cbs) (LocationAPI.geofenceStatusCb cbs) (LocationAPI.gnssLocationInfoCb cbs)
    (LocationAPI.gnssNiCb cbs) (LocationAPI.gnssSvCb cbs) (LocationAPI.gnssNmeaCb cbs) (LocationAPI.gnssDataCb cbs)
    (LocationAPI.gnssMeasurementsCb cbs) (LocationAPI.batchingStatusCb cbs) (LocationAPI.locationSystemInfoCb cbs)
    (LocationAPI.engineLocationsInfoCb cbs).
Definition locAPISetCallbacks (cbs : LocationAPI.LocationCallbacks) (c : client) : client :=
  let c := put_callbacks (mGeofenceBreachCallback c || LocationAPI.geofenceBreachCb cbs)
             (mBatchingStatusCallback c || LocationAPI.batchingStatusCb cbs) c in
  let cbs := with_callbacks cbs in
  if mLocationAPI c then emit (OutUpdate cbs) c else put_api true (emit (OutCreate cbs) c).

Definition destroy (c : client) : client :=
  let c := put_queues (λ t, reset 0 (queue t c)) (put_callbacks false (mBatchingStatusCallback c) c) in
  if mLocationAPI c then emit OutDestroy (put_api false c) else c.

(** The queues that are found by their session, in the order of the enumeration. *)
Definition getRequestBySession (session : Z) (c : client) : option LocationAPIRequest * client :=
  let from t c := let '(r, q) := pop (queue t c) in (r, on_queue t (λ _, q) c) in
  let '(r, c) :=
    if mSession (queue REQUEST_TRACKING c) =? session then from REQUEST_TRACKING c
    else if mSession (queue REQUEST_NIRESPONSE c) =? session then from REQUEST_NIRESPONSE c
    else (None, c) in
  match r with
  | Some _ => (r, c)
  | None => if Dict.hasSession session (mSessionBiDict c) then from REQUEST_SESSION c else (None, c)
  end.
Definition onResponseCb (error id : Z) (c : client) : client :=
  let '(r, c) := getRequestBySession id c in
  match r with Some r => put_popped (popped c ++ [(r, [error], [id])]) c | None => c end.
Definition onCollectiveResponseCb (errors ids : list Z) (c : client) : client :=
  if mSession (queue REQUEST_GEOFENCE c) =? GEOFENCE_SESSION_ID then
    let '(r, q) := pop (queue REQUEST_GEOFENCE c) in
    let c := on_queue REQUEST_GEOFENCE (λ _, q) c in
    match r with Some r => put_popped (popped c ++ [(r, errors, ids)]) c | None => c end
  else c.

Definition removeSession (session : Z) (c : client) : client :=
  if Dict.hasSession session (mSessionBiDict c)
  then put_sessions (Dict.rmBySession session (mSessionBiDict c)) c else c.

(** onResponse and onCollectiveResponse of the requests. *)
Definition onResponse (r : LocationAPIRequest) (error id : Z) (c : client) : client :=
  let failed c := if error =? LOCATION_ERROR_SUCCESS then c else removeSession id c in
  let succeeded c := if error =? LOCATION_ERROR_SUCCESS then removeSession id c else c in
  match r with
  | StartTrackingRequest => emit (onStartTrackingCb error) (failed c)
  | StopTrackingRequest => succeeded (emit (onStopTrackingCb error) c)
  | UpdateTrackingOptionsRequest => emit (onUpdateTrackingOptionsCb error) c
  | StartBatchingRequest => emit (onStartBatchingCb error) (failed c)
  | StopBatchingRequest => succeeded (emit (onStopBatchingCb error) c)
  | UpdateBatchingOptionsRequest => emit (onUpdateBatchingOptionsCb error) c
  | GetBatchedLocationsRequest => emit (onGetBatchedLocationsCb error) c
  | GnssNiResponseRequest => emit (onGnssNiResponseCb error) c
  | _ => c
  end.
Definition onCollectiveResponse (r : LocationAPIRequest) (errors ids : list Z) (c : client) : client :=
  let known := (λ s, Dict.getId s (mGeofenceBiDict c)) <$> ids in
  match r with
  | AddGeofencesRequest => emit (onAddGeofencesCb errors known) c
  | RemoveGeofencesRequest d => emit (onRemoveGeofencesCb errors ((λ s, Dict.getId s d) <$> ids)) c
  | ModifyGeofencesRequest => emit (onModifyGeofencesCb errors known) c
  | PauseGeofencesRequest => emit (onPauseGeofencesCb errors known) c
  | ResumeGeofencesRequest => emit (onResumeGeofencesCb errors known) c
  | _ => c
  end.
Definition collective (r : LocationAPIRequest) : bool :=
  match r with
  | AddGeofencesRequest | RemoveGeofencesRequest _ | ModifyGeofencesRequest | PauseGeofencesRequest
  | ResumeGeofencesRequest => true
  | _ => false
  end.
(** The thread that popped request [n] runs it. *)
Definition run_popped (n : nat) (c : client) : client :=
  match popped c !! n with
  | Some (r, errors, ids) =>
      let c := put_popped (delete n (popped c)) c in
      if collective r then onCollectiveResponse r errors ids c else onResponse r (hd 0 errors) (hd 0 ids) c
  | None => c
  end.

(** ** Tracking and sessions *)

Definition locAPIStartTracking (options : LocationAPI.TrackingOptions) (c : client) : Z * client :=
  if mLocationAPI c then
    if mTracking c then (LOCATION_ERROR_SUCCESS, c) else
    let '(session, c) := api_session (LocationAPI.StartTracking options) c in
    (LOCATION_ERROR_SUCCESS, put_tracking true (push_to REQUEST_TRACKING StartTrackingRequest
                               (on_queue REQUEST_TRACKING (reset session) c)))
  else (LOCATION_ERROR_GENERAL_FAILURE, c).
Definition locAPIStopTracking (c : client) : client :=
  if mLocationAPI c then
    let session := mSession (queue REQUEST_TRACKING c) in
    if 0 <? session then
      put_tracking false (api (LocationAPI.StopTracking session) (push_to REQUEST_TRACKING StopTrackingRequest c))
    else c
  else c.
Definition locAPIUpdateTrackingOptions (options : LocationAPI.TrackingOptions) (c : client) : client :=
  if mLocationAPI c then
    let session := mSession (queue REQUEST_TRACKING c) in
    if 0 <? session then
      api (LocationAPI.UpdateTrackingOptions session options) (push_to REQUEST_TRACKING UpdateTrackingOptionsRequest c)
    else c
  else c.

(** [conf]: BATCH_SIZE of flp.conf, if it is there. *)
Definition locAPIGetBatchSize (conf : option Z) (c : client) : Z * client :=
  let c := if mBatchSize c =? -1 then
             let v := default (mBatchSize c) conf in put_batchSize (if v <? 0 then 0 else v) c
           else c in
  (mBatchSize c, c).

Definition batchingMode_of (sessionMode : Z) : Z :=
  if sessionMode =? SESSION_MODE_ON_FULL then BATCHING_MODE_ROUTINE
  else if sessionMode =? SESSION_MODE_ON_TRIP_COMPLETED then BATCHING_MODE_TRIP
  else BATCHING_MODE_NO_AUTO_REPORT.
Definition batching_options (o : LocationAPI.TrackingOptions) : LocationOptions :=
  let o := LocationAPI.locationOptions o in
  MkLocationOptions (LocationOptions_minInterval o) (LocationOptions_minDistance o) (LocationOptions_mode o) 0.
Definition no_options : LocationOptions := MkLocationOptions 0 0 0 0.

Definition locAPIStartSession (id mode : Z) (options : LocationAPI.TrackingOptions) (c : client) : Z * client :=
  if mLocationAPI c then
    if Dict.hasId id (mSessionBiDict c) then (LOCATION_ERROR_ALREADY_STARTED, c) else
    let '(session, entity, c) :=
      if mode =? SESSION_MODE_ON_FIX then
        let '(session, c) := api_session (LocationAPI.StartTracking options) c in
        (session, MkEntity id session 0 mode, push_to REQUEST_SESSION StartTrackingRequest c)
      else
        let '(session, c) := api_session (LocationAPI.StartBatching (batching_options options) (batchingMode_of mode)) c in
        (session, MkEntity id 0 session mode,
         push_to REQUEST_SESSION StartBatchingRequest (on_queue REQUEST_SESSION (setSession session) c)) in
    (LOCATION_ERROR_SUCCESS, put_sessions (Dict.set id session entity (mSessionBiDict c)) c)
  else (LOCATION_ERROR_GENERAL_FAILURE, c).

Definition locAPIStopSession (id : Z) (c : client) : Z * client :=
  if mLocationAPI c then
    if Dict.hasId id (mSessionBiDict c) then
      let '(entity, d) := Dict.getExtById zero_entity id (mSessionBiDict c) in
      let c := put_sessions d c in
      (LOCATION_ERROR_SUCCESS,
       if sessionMode entity =? SESSION_MODE_ON_FIX
       then api (LocationAPI.StopTracking (trackingSession entity)) (push_to REQUEST_SESSION StopTrackingRequest c)
       else api (LocationAPI.StopBatching (batchingSession entity)) (push_to REQUEST_SESSION StopBatchingRequest c))
    else (LOCATION_ERROR_ID_UNKNOWN, c)
  else (LOCATION_ERROR_GENERAL_FAILURE, c).

(** A session changes between tracking and batching by stopping and starting. *)
Definition locAPIUpdateSessionOptions (id mode : Z) (options : LocationAPI.TrackingOptions) (c : client) : Z * client :=
  if mLocationAPI c then
    if Dict.hasId id (mSessionBiDict c) then
      let '(entity, d) := Dict.getExtById zero_entity id (mSessionBiDict c) in
      let c := put_sessions d c in
      let tracked := sessionMode entity =? SESSION_MODE_ON_FIX in
      let '(t, b, c) :=
        if mode =? SESSION_MODE_ON_FIX then
          let c := push_to REQUEST_SESSION UpdateTrackingOptionsRequest c in
          if tracked then
            (trackingSession entity, batchingSession entity,
             api (LocationAPI.UpdateTrackingOptions (trackingSession entity) options) c)
          else
            let c := api (LocationAPI.StopBatching (batchingSession entity)) c in
            let c := on_queue REQUEST_SESSION (setSession 0) c in
            let '(t, c) := api_session (LocationAPI.StartTracking options) c in
            (t, 0, c)
        else
          let c := push_to REQUEST_SESSION UpdateBatchingOptionsRequest c in
          if tracked then
            let c := api (LocationAPI.StopTracking (trackingSession entity)) c in
            let '(b, c) := api_session (LocationAPI.StartBatching (batching_options options) (batchingMode_of mode)) c in
            (0, b, on_queue REQUEST_SESSION (setSession b) c)
          else
            (trackingSession entity, batchingSession entity,
             api (LocationAPI.UpdateBatchingOptions (batchingSession entity) no_options (batchingMode_of mode)) c) in
      let session := if mode =? SESSION_MODE_ON_FIX then t else b in
      let d := Dict.rmById id (mSessionBiDict c) in
      (LOCATION_ERROR_SUCCESS, put_sessions (Dict.set id session (MkEntity (e_id entity) t b mode) d) c)
    else (LOCATION_ERROR_ID_UNKNOWN, c)
  else (LOCATION_ERROR_GENERAL_FAILURE, c).

Definition locAPIGetBatchedLocations (id count : Z) (c : client) : Z * client :=
  if mLocationAPI c then
    if Dict.hasId id (mSessionBiDict c) then
      let '(entity, d) := Dict.getExtById zero_entity id (mSessionBiDict c) in
      let c := put_sessions d c in
      if sessionMode entity =? SESSION_MODE_ON_FIX then (LOCATION_ERROR_NOT_SUPPORTED, c)
      else (LOCATION_ERROR_SUCCESS, api (LocationAPI.GetBatchedLocations (batchingSession entity) count)
                                      (push_to REQUEST_SESSION GetBatchedLocationsRequest c))
    else (LOCATION_ERROR_ID_UNKNOWN, c)
  else (LOCATION_ERROR_GENERAL_FAILURE, c).

(** The client's trips that are completed leave the dictionary; without the mutex, so that another thread may come in between:
    here it is one step. *)
Definition trip_completed (p : list Z * BiDict SessionEntity) (t : Z) : list Z * BiDict SessionEntity :=
  let '(ids, d) := p in
  if Dict.hasSession t d then
    let e := Dict.getExtBySession zero_entity t d in
    if sessionMode e =? SESSION_MODE_ON_TRIP_COMPLETED then (ids ++ [e_id e], Dict.rmBySession t d) else (ids, d)
  else (ids, d).
Definition beforeBatchingStatusCb (status : Z) (trips : list Z) (c : client) : option client :=
  let '(ids, d) := if status =? BATCHING_STATUS_TRIP_COMPLETED then foldl trip_completed ([], mSessionBiDict c) trips
                   else ([], mSessionBiDict c) in
  if mBatchingStatusCallback c then Some (emit (onBatchingStatusCb status ids) (put_sessions d c)) else None.

(** ** Geofences *)

Definition breachTypeMask (o : GeofenceOption) : Z := GeofenceOption_breachTypeMask o.

Fixpoint set_geofences (ids sessions : list Z) (options : list GeofenceOption) (d : BiDict Z) : option (BiDict Z) :=
  match ids, sessions, options with
  | [], _, _ => Some d
  | i :: ids, s :: sessions, o :: options => set_geofences ids sessions options (Dict.set i s (breachTypeMask o) d)
  | _, _, _ => None
  end.
Definition locAPIAddGeofences (ids : list Z) (options : list GeofenceOption) (infos : list GeofenceInfo) (c : client) :
    option (Z * client) :=
  if mLocationAPI c then
    let c := if mSession (queue REQUEST_GEOFENCE c) =? GEOFENCE_SESSION_ID then c
             else on_queue REQUEST_GEOFENCE (reset GEOFENCE_SESSION_ID) c in
    let '(sessions, c) := api_array (LocationAPI.AddGeofences options infos) c in
    match sessions with
    | Some sessions =>
        d ← set_geofences ids sessions options (mGeofenceBiDict c);
        Some (LOCATION_ERROR_SUCCESS, put_geofences d (push_to REQUEST_GEOFENCE AddGeofencesRequest c))
    | None => Some (LOCATION_ERROR_GENERAL_FAILURE, c)
    end
  else Some (LOCATION_ERROR_GENERAL_FAILURE, c).

(** The array of sessions can be allocated, and geofences have been added. *)
Definition can_use_geofences (c : client) : bool :=
  mLocationAPI c && memory (answers c) && (mSession (queue REQUEST_GEOFENCE c) =? GEOFENCE_SESSION_ID).

Definition remove_one (p : list Z * BiDict Z * BiDict Z) (id : Z) : list Z * BiDict Z * BiDict Z :=
  let '(sessions, removed, d) := p in
  let s := Dict.getSession id d in
  if 0 <? s then
    (sessions ++ [s], Dict.set id s (Dict.getExtBySession 0 s d) removed, Dict.rmBySession s d)
  else p.
Definition locAPIRemoveGeofences (ids : list Z) (c : client) : client :=
  if can_use_geofences c then
    let '(sessions, removed, d) := foldl remove_one ([], Dict.empty, mGeofenceBiDict c) ids in
    let c := put_geofences d c in
    if decide (sessions = []) then c
    else api (LocationAPI.RemoveGeofences sessions) (push_to REQUEST_GEOFENCE (RemoveGeofencesRequest removed) c)
  else c.

Fixpoint modify_geofences (ids : list Z) (options : list GeofenceOption) (d : BiDict Z) : option (list Z * BiDict Z) :=
  match ids with
  | [] => Some ([], d)
  | i :: ids =>
      let s := Dict.getSession i d in
      if 0 <? s then
        o ← head options;
        p ← modify_geofences ids (tail options) (Dict.set i s (breachTypeMask o) d);
        Some (s :: p.1, p.2)
      else modify_geofences ids (tail options) d
  end.
(** LocationAPI reads as many options as there are sessions. *)
Definition locAPIModifyGeofences (ids : list Z) (options : list GeofenceOption) (c : client) : option client :=
  if can_use_geofences c then
    '(sessions, d) ← modify_geofences ids options (mGeofenceBiDict c);
    let c := put_geofences d c in
    if decide (sessions = []) then Some c
    else Some (api (LocationAPI.ModifyGeofences sessions (take (length sessions) options))
                 (push_to REQUEST_GEOFENCE ModifyGeofencesRequest c))
  else Some c.

Definition known_sessions (ids : list Z) (d : BiDict Z) : list Z :=
  filter (λ s, 0 < s) ((λ i, Dict.getSession i d) <$> ids).
Definition locAPIPauseGeofences (ids : list Z) (c : client) : client :=
  if can_use_geofences c then
    let sessions := known_sessions ids (mGeofenceBiDict c) in
    if decide (sessions = []) then c
    else api (LocationAPI.PauseGeofences sessions) (push_to REQUEST_GEOFENCE PauseGeofencesRequest c)
  else c.

Fixpoint resume_geofences (ids masks : list Z) (d : BiDict Z) : option (BiDict Z) :=
  match ids with
  | [] => Some d
  | i :: ids =>
      let s := Dict.getSession i d in
      if 0 <? s then m ← head masks; resume_geofences ids (tail masks) (Dict.set i s m d)
      else resume_geofences ids (tail masks) d
  end.
(** [mask]: null, or one mask for each geofence; setting it keeps the sessions. *)
Definition locAPIResumeGeofences (ids : list Z) (mask : option (list Z)) (c : client) : option client :=
  if can_use_geofences c then
    let sessions := known_sessions ids (mGeofenceBiDict c) in
    d ← match mask with Some l => resume_geofences ids l (mGeofenceBiDict c) | None => Some (mGeofenceBiDict c) end;
    let c := put_geofences d c in
    if decide (sessions = []) then Some c
    else Some (api (LocationAPI.ResumeGeofences sessions) (push_to REQUEST_GEOFENCE ResumeGeofencesRequest c))
  else Some c.

(** Passes sessions where locAPIRemoveGeofences takes identifiers. *)
Definition locAPIRemoveAllGeofences (c : client) : client :=
  let sessions := Dict.getAllSessions (mGeofenceBiDict c) in
  if decide (sessions = []) then c else locAPIRemoveGeofences sessions c.

Definition breaches (type : Z) (mask : Z) : bool :=
  (type =? GEOFENCE_BREACH_ENTER) && negb (Z.land mask GEOFENCE_BREACH_ENTER_BIT =? 0)
  || (type =? GEOFENCE_BREACH_EXIT) && negb (Z.land mask GEOFENCE_BREACH_EXIT_BIT =? 0).
Definition beforeGeofenceBreachCb (type : Z) (ids : list Z) (c : client) : client :=
  if memory (answers c) && mGeofenceBreachCallback c then
    let d := mGeofenceBiDict c in
    let hit := filter (λ s, breaches type (Dict.getExtBySession 0 s d) = true) ids in
    emit (onGeofenceBreachCb type ((λ s, Dict.getId s d) <$> hit)) c
  else c.

Definition locAPIGnssNiResponse (id response : Z) (c : client) : client :=
  if mLocationAPI c then
    let c := api (LocationAPI.GnssNiResponse id response) c in
    push_to REQUEST_NIRESPONSE GnssNiResponseRequest (on_queue REQUEST_NIRESPONSE (reset id) c)
  else c.

(** ** Steps *)

Inductive event :=
  | SetCallbacks (cbs : LocationAPI.LocationCallbacks)
  | Destroy
  | StartTracking (options : LocationAPI.TrackingOptions)
  | StopTracking
  | UpdateTrackingOptions (options : LocationAPI.TrackingOptions)
  | GetBatchSize (conf : option Z)
  | StartSession (id mode : Z) (options : LocationAPI.TrackingOptions)
  | StopSession (id : Z)
  | UpdateSessionOptions (id mode : Z) (options : LocationAPI.TrackingOptions)
  | GetBatchedLocations (id count : Z)
  | AddGeofences (ids : list Z) (options : list GeofenceOption) (infos : list GeofenceInfo)
  | RemoveGeofences (ids : list Z)
  | ModifyGeofences (ids : list Z) (options : list GeofenceOption)
  | PauseGeofences (ids : list Z)
  | ResumeGeofences (ids : list Z) (mask : option (list Z))
  | RemoveAllGeofences
  | GnssNiResponse (id response : Z)
  | OnResponse (error id : Z)
  | OnCollectiveResponse (errors ids : list Z)
  | RunPopped (n : nat)
  | OnGeofenceBreach (type : Z) (ids : list Z)
  | OnBatchingStatus (status : Z) (trips : list Z).

Definition handle (e : event) (c : client) : option client :=
  match e with
  | SetCallbacks cbs => Some (locAPISetCallbacks cbs c)
  | Destroy => Some (destroy c)
  | StartTracking o => Some (locAPIStartTracking o c).2
  | StopTracking => Some (locAPIStopTracking c)
  | UpdateTrackingOptions o => Some (locAPIUpdateTrackingOptions o c)
  | GetBatchSize conf => Some (locAPIGetBatchSize conf c).2
  | StartSession id m o => Some (locAPIStartSession id m o c).2
  | StopSession id => Some (locAPIStopSession id c).2
  | UpdateSessionOptions id m o => Some (locAPIUpdateSessionOptions id m o c).2
  | GetBatchedLocations id n => Some (locAPIGetBatchedLocations id n c).2
  | AddGeofences ids options infos => r ← locAPIAddGeofences ids options infos c; Some r.2
  | RemoveGeofences ids => Some (locAPIRemoveGeofences ids c)
  | ModifyGeofences ids options => locAPIModifyGeofences ids options c
  | PauseGeofences ids => Some (locAPIPauseGeofences ids c)
  | ResumeGeofences ids mask => locAPIResumeGeofences ids mask c
  | RemoveAllGeofences => Some (locAPIRemoveAllGeofences c)
  | GnssNiResponse id r => Some (locAPIGnssNiResponse id r c)
  | OnResponse error id => Some (onResponseCb error id c)
  | OnCollectiveResponse errors ids => Some (onCollectiveResponseCb errors ids c)
  | RunPopped n => Some (run_popped n c)
  | OnGeofenceBreach type ids => Some (beforeGeofenceBreachCb type ids c)
  | OnBatchingStatus status trips => beforeBatchingStatusCb status trips c
  end.
Definition step (c : client) (e : event * env) : option client := handle e.1 (put_answers e.2 c).

(** * LocationAPIControlClient *)

Module Control.
Section Control.
(** GnssConfig, and its function equals. *)
Context {config : Type} (equals : config -> config -> bool).

Inductive request := GnssDeleteAidingDataRequest | EnableRequest | DisableRequest | GnssUpdateConfigRequest | GnssGetConfigRequest.
Inductive output :=
  | OutDelete | OutEnable (techType : Z) | OutDisable (id : Z) | OutUpdate (c : config) | OutGet (mask : Z) | OutDestroyed
  | onGnssDeleteAidingDataCb (error : Z) | onEnableCb (error : Z) | onDisableCb (error : Z)
  | onGnssUpdateConfigCb (errors ids : list Z) | onGnssGetConfigCb (errors ids : list Z).

(** [mSessionArrayPtr] is an address, 0 if null; the queues for configurations. *)
Record array_queue := ArrayQueue { mSessionArrayPtr : Z; requests : list request }.
Record client := Client {
  mLocationControlAPI : bool; deletions : RequestQueue request; controls : RequestQueue request;
  updates : array_queue; gets : array_queue; mEnabled : bool; mConfig : config; outputs : list output
}.
(** [created]: LocationControlAPI::createInstance did not return null. *)
Definition new_client (created : bool) (zero : config) : client :=
  Client created (MkQueue 0 []) (MkQueue 0 []) (ArrayQueue 0 []) (ArrayQueue 0 []) false zero [].
Definition emit o c := Client (mLocationControlAPI c) (deletions c) (controls c) (updates c) (gets c) (mEnabled c)
  (mConfig c) (outputs c ++ [o]).
Definition put_deletions v c := Client (mLocationControlAPI c) v (controls c) (updates c) (gets c) (mEnabled c) (mConfig c) (outputs c).
Definition put_controls v e c := Client (mLocationControlAPI c) (deletions c) v (updates c) (gets c) e (mConfig c) (outputs c).
Definition put_updates v k c := Client (mLocationControlAPI c) (deletions c) (controls c) v (gets c) (mEnabled c) k (outputs c).
Definition put_gets v c := Client (mLocationControlAPI c) (deletions c) (controls c) (updates c) v (mEnabled c) (mConfig c) (outputs c).

Definition locAPIGnssDeleteAidingData (session : Z) (c : client) : Z * client :=
  if mLocationControlAPI c
  then (LOCATION_ERROR_SUCCESS, put_deletions (push GnssDeleteAidingDataRequest (reset session (deletions c))) (emit OutDelete c))
  else (LOCATION_ERROR_GENERAL_FAILURE, c).
Definition locAPIEnable (techType session : Z) (c : client) : Z * client :=
  if mEnabled c then (LOCATION_ERROR_SUCCESS, c)
  else if mLocationControlAPI c
  then (LOCATION_ERROR_SUCCESS, put_controls (push EnableRequest (reset session (controls c))) true (emit (OutEnable techType) c))
  else (LOCATION_ERROR_GENERAL_FAILURE, c).
Definition locAPIDisable (c : client) : client :=
  if mEnabled c && mLocationControlAPI c then
    if 0 <? mSession (controls c)
    then put_controls (push DisableRequest (controls c)) false (emit (OutDisable (mSession (controls c))) c)
    else c
  else c.

(** A request for an array at address [p], 0 if null. *)
Definition push_array (r : request) (p : Z) (q : array_queue) : array_queue :=
  let q := if mSessionArrayPtr q =? 0 then q else ArrayQueue p [] in ArrayQueue (mSessionArrayPtr q) (requests q ++ [r]).
Definition locAPIGnssUpdateConfig (k : config) (p : Z) (c : client) : Z * client :=
  if mLocationControlAPI c then
    if equals (mConfig c) k then (LOCATION_ERROR_SUCCESS, c) else
    let c := emit (OutUpdate k) (put_updates (updates c) k c) in
    if p =? 0 then (LOCATION_ERROR_GENERAL_FAILURE, c)
    else (LOCATION_ERROR_SUCCESS, put_updates (push_array GnssUpdateConfigRequest p (updates c)) (mConfig c) c)
  else (LOCATION_ERROR_GENERAL_FAILURE, c).
Definition locAPIGnssGetConfig (mask p : Z) (c : client) : Z * client :=
  if mLocationControlAPI c then
    let c := emit (OutGet mask) c in
    if p =? 0 then (LOCATION_ERROR_GENERAL_FAILURE, c)
    else (LOCATION_ERROR_SUCCESS, put_gets (push_array GnssGetConfigRequest p (gets c)) c)
  else (LOCATION_ERROR_GENERAL_FAILURE, c).

Definition getRequestBySession (session : Z) (c : client) : option request * client :=
  if mSession (deletions c) =? session then let '(r, q) := pop (deletions c) in (r, put_deletions q c)
  else if mSession (controls c) =? session then let '(r, q) := pop (controls c) in (r, put_controls q (mEnabled c) c)
  else (None, c).
Definition pop_array (q : array_queue) : option request * array_queue :=
  match requests q with r :: l => (Some r, ArrayQueue (mSessionArrayPtr q) l) | [] => (None, q) end.
Definition getRequestBySessionArrayPtr (p : Z) (c : client) : option request * client :=
  if mSessionArrayPtr (updates c) =? p then let '(r, q) := pop_array (updates c) in (r, put_updates q (mConfig c) c)
  else if mSessionArrayPtr (gets c) =? p then let '(r, q) := pop_array (gets c) in (r, put_gets q c)
  else (None, c).
Definition onCtrlResponseCb (error id : Z) (c : client) : client :=
  let '(r, c) := getRequestBySession id c in
  match r with
  | Some GnssDeleteAidingDataRequest => emit (onGnssDeleteAidingDataCb error) c
  | Some EnableRequest => emit (onEnableCb error) c
  | Some DisableRequest => emit (onDisableCb error) c
  | _ => c
  end.
Definition onCtrlCollectiveResponseCb (errors ids : list Z) (p : Z) (c : client) : client :=
  let '(r, c) := getRequestBySessionArrayPtr p c in
  match r with
  | Some GnssUpdateConfigRequest => emit (onGnssUpdateConfigCb errors ids) c
  | Some GnssGetConfigRequest => emit (onGnssGetConfigCb errors ids) c
  | _ => c
  end.
Definition destroy (c : client) : client :=
  let c := if mLocationControlAPI c then emit OutDestroyed c else c in
  Client false (reset 0 (deletions c)) (reset 0 (controls c)) (ArrayQueue (mSessionArrayPtr (updates c)) [])
    (ArrayQueue (mSessionArrayPtr (gets c)) []) (mEnabled c) (mConfig c) (outputs c).

(** Events with what LocationControlAPI returns, and the addresses of arrays. *)
Inductive event :=
  | DeleteAidingData (session : Z) | Enable (techType session : Z) | Disable
  | UpdateConfig (k : config) (p : Z) | GetConfig (mask p : Z)
  | Response (error id : Z) | CollectiveResponse (errors ids : list Z) (p : Z) | Destroyed.
Definition step (c : client) (e : event) : client :=
  match e with
  | DeleteAidingData s => (locAPIGnssDeleteAidingData s c).2
  | Enable t s => (locAPIEnable t s c).2
  | Disable => locAPIDisable c
  | UpdateConfig k p => (locAPIGnssUpdateConfig k p c).2
  | GetConfig m p => (locAPIGnssGetConfig m p c).2
  | Response e i => onCtrlResponseCb e i c
  | CollectiveResponse e i p => onCtrlCollectiveResponseCb e i p c
  | Destroyed => destroy c
  end.
End Control.
End Control.
