(* ===== verification/ClientBaseProps.v ===== *)
(** The dictionaries of a client (ClientBase.v) are finite maps: the geofences refine
    a map from identifiers to sessions and masks, where the code does what it means,
    and the sessions keep their three maps together; requests for configurations are
    never answered. *)

From stdpp Require Import list gmap strings sorting.
From S2P Require Import Prelude Runs ApiStructs ClientBase.
From S2P Require LocationAPI.

Local Open Scope Z_scope.

(** * Dictionaries as maps *)

Section dict.
Context {T : Type}.
Implicit Types (d : BiDict T) (G : gmap Z (Z * T)).

(** [d] holds the sessions and extensions of [G]; sessions are not shared. *)
Record shows d G : Prop := {
  sh_fwd id : mForwardMap d !! id = fst <$> G !! id;
  sh_bwd s id : mBackwardMap d !! s = Some id <-> ∃ x, G !! id = Some (s, x);
  sh_ext s x : mExtMap d !! s = Some x <-> ∃ id, G !! id = Some (s, x);
  sh_pos id s x : G !! id = Some (s, x) -> 0 < s
}.
Lemma shows_empty : shows Dict.empty ∅.
Proof. by split; try done; intros; (split; [done|intros [? ?]]). Qed.

Lemma shows_one d G id id' s x x' : shows d G -> G !! id = Some (s, x) -> G !! id' = Some (s, x') -> id' = id ∧ x' = x.
Proof.
  intros [H1 H2 H3 _] E E'. assert (mBackwardMap d !! s = Some id) as B by (apply H2; eauto).
  assert (mBackwardMap d !! s = Some id') as B' by (apply H2; eauto). rewrite B in B'. injection B' as <-.
  split; congruence.
Qed.

(** The owner of a session. *)
Definition has_session G (s : Z) : Prop := ∃ id x, G !! id = Some (s, x).
Lemma shows_hasId d G id : shows d G -> Dict.hasId id d = true <-> is_Some (G !! id).
Proof. intros H. unfold Dict.hasId. rewrite bool_decide_eq_true, (sh_fwd _ _ H), fmap_is_Some. done. Qed.
Lemma shows_hasSession d G s : shows d G -> Dict.hasSession s d = true <-> has_session G s.
Proof.
  intros H. unfold Dict.hasSession, has_session. rewrite bool_decide_eq_true. split.
  - intros [id E]. apply (sh_bwd _ _ H) in E as [x E]. eauto.
  - intros (id & x & E). exists id. apply (sh_bwd _ _ H). eauto.
Qed.
Lemma shows_getSession d G id : shows d G -> Dict.getSession id d = default 0 (fst <$> G !! id).
Proof. intros H. unfold Dict.getSession. by rewrite (sh_fwd _ _ H). Qed.
Lemma shows_known d G id : shows d G -> (0 <? Dict.getSession id d) = bool_decide (is_Some (G !! id)).
Proof.
  intros H. rewrite (shows_getSession _ G) by done. destruct (G !! id) as [[s x]|] eqn:E; [|done].
  pose proof (sh_pos _ _ H _ _ _ E).
  rewrite bool_decide_eq_true_2 by (by eexists). cbn. by apply Z.ltb_lt.
Qed.
Lemma shows_owner d G id s x z :
  shows d G -> G !! id = Some (s, x) -> Dict.getId s d = id ∧ Dict.getExtBySession z s d = x.
Proof.
  intros H E. unfold Dict.getId, Dict.getExtBySession.
  assert (mBackwardMap d !! s = Some id) as -> by (apply (sh_bwd _ _ H); eauto).
  assert (mExtMap d !! s = Some x) as -> by (apply (sh_ext _ _ H); eauto). done.
Qed.
Lemma shows_stranger d G s z : shows d G -> ¬ has_session G s -> Dict.getId s d = 0 ∧ Dict.getExtBySession z s d = z.
Proof.
  intros H E. unfold Dict.getId, Dict.getExtBySession. split.
  - destruct (mBackwardMap d !! s) eqn:B; [|done]. apply (sh_bwd _ _ H) in B as [x B]. destruct E. by exists z0, x.
  - destruct (mExtMap d !! s) eqn:B; [|done]. apply (sh_ext _ _ H) in B as [id B]. destruct E. by exists id, t.
Qed.
Lemma shows_getExtById d G id s x z : shows d G -> G !! id = Some (s, x) -> Dict.getExtById z id d = (x, d).
Proof.
  intros H E. unfold Dict.getExtById, Dict.bracket. rewrite (sh_fwd _ _ H), E. cbn.
  pose proof (sh_pos _ _ H _ _ _ E). destruct (Z.ltb_spec 0 s); [|lia].
  assert (mExtMap d !! s = Some x) as -> by (apply (sh_ext _ _ H); eauto). cbn. f_equal.
  rewrite insert_id by (by rewrite (sh_fwd _ _ H), E). by destruct d.
Qed.

(** A new entry, or another extension. *)
Lemma shows_set d G id s x :
  shows d G -> 0 < s -> (∀ id' y, G !! id' = Some (s, y) -> id' = id) -> (∀ s' y, G !! id = Some (s', y) -> s' = s) ->
  shows (Dict.set id s x d) (<[id := (s, x)]> G).
Proof.
  intros H Hs Hone Hsame. destruct H as [H1 H2 H3 H4]. split; cbn [mForwardMap mBackwardMap mExtMap Dict.set].
  - intros id'. destruct (decide (id = id')) as [<-|Hne]; [by rewrite !lookup_insert_eq|by rewrite !lookup_insert_ne].
  - intros s' id'. destruct (decide (s = s')) as [<-|Hne].
    + rewrite lookup_insert_eq. split.
      * intros [= <-]. exists x. by rewrite lookup_insert_eq.
      * intros [y Hy]. apply lookup_insert_Some in Hy as [[<- _]|[_ Hy]]; [done|]. by rewrite (Hone _ _ Hy).
    + rewrite lookup_insert_ne, H2 by done. split; intros [y Hy]; exists y.
      * rewrite lookup_insert_ne; [done|]. intros <-. by destruct (Hne (eq_sym (Hsame _ _ Hy))).
      * apply lookup_insert_Some in Hy as [[_ [= <- _]]|[_ Hy]]; done.
  - intros s' y. destruct (decide (s = s')) as [<-|Hne].
    + rewrite lookup_insert_eq. split.
      * intros [= <-]. exists id. by rewrite lookup_insert_eq.
      * intros [id' Hy]. apply lookup_insert_Some in Hy as [[_ [= <-]]|[Hn Hy]]; [done|]. by destruct (Hn (eq_sym (Hone _ _ Hy))).
    + rewrite lookup_insert_ne, H3 by done. split; intros [id' Hy]; exists id'.
      * rewrite lookup_insert_ne; [done|]. intros <-. by destruct (Hne (eq_sym (Hsame _ _ Hy))).
      * apply lookup_insert_Some in Hy as [[_ [= <- _]]|[_ Hy]]; done.
  - intros id' s' y [[_ [= <- _]]|[_ Hy]]%lookup_insert_Some; [done|eauto].
Qed.

(** The removal of an entry, by its session and by its identifier. *)
Lemma shows_delete d G id s x :
  shows d G -> G !! id = Some (s, x) ->
  shows (MkBiDict (delete id (mForwardMap d)) (delete s (mBackwardMap d)) (delete s (mExtMap d))) (delete id G).
Proof.
  intros H E. pose proof (λ id' y, shows_one d G id id' s x y H E) as Hone. destruct H as [H1 H2 H3 H4].
  assert (∀ s' id' y, s ≠ s' -> G !! id' = Some (s', y) -> id ≠ id') as Hid by (intros s' id' y Hne Hy <-; congruence).
  split; cbn [mForwardMap mBackwardMap mExtMap].
  - intros id'. destruct (decide (id = id')) as [<-|Hne]; [by rewrite !lookup_delete_eq|by rewrite !lookup_delete_ne].
  - intros s' id'. destruct (decide (s = s')) as [<-|Hne].
    + rewrite lookup_delete_eq. split; [done|]. intros [y [Hn Hy]%lookup_delete_Some]. by destruct (Hone _ _ Hy).
    + rewrite lookup_delete_ne, H2 by done. split; intros [y Hy]; exists y; [|by apply lookup_delete_Some in Hy as [_ Hy]].
      rewrite lookup_delete_ne; eauto.
  - intros s' y. destruct (decide (s = s')) as [<-|Hne].
    + rewrite lookup_delete_eq. split; [done|]. intros [id' [Hn Hy]%lookup_delete_Some]. by destruct (Hone _ _ Hy).
    + rewrite lookup_delete_ne, H3 by done. split; intros [id' Hy]; exists id'; [|by apply lookup_delete_Some in Hy as [_ Hy]].
      rewrite lookup_delete_ne; eauto.
  - intros id' s' y [_ Hy]%lookup_delete_Some. eauto.
Qed.
Lemma shows_rmBySession d G id s x : shows d G -> G !! id = Some (s, x) -> shows (Dict.rmBySession s d) (delete id G).
Proof.
  intros H E. unfold Dict.rmBySession, Dict.bracket.
  assert (mBackwardMap d !! s = Some id) as -> by (apply (sh_bwd _ _ H); eauto). by eapply shows_delete.
Qed.
Lemma shows_rmById d G id s x : shows d G -> G !! id = Some (s, x) -> shows (Dict.rmById id d) (delete id G).
Proof.
  intros H E. unfold Dict.rmById, Dict.bracket. rewrite (sh_fwd _ _ H), E. by eapply shows_delete.
Qed.
End dict.

(** * Geofences: the abstract machine *)

(** The geofences with their sessions and masks; whether there is a LocationAPI,
    whether geofences were added to it, whether breaches are reported. *)
Record fences := Fences { geofences : gmap Z (Z * Z); live : bool; opened : bool; listens : bool }.
Definition no_fences : fences := Fences ∅ false false false.

Definition f_add (ids ss : list Z) (options : list GeofenceOption) (G : gmap Z (Z * Z)) : gmap Z (Z * Z) :=
  foldl (λ G p, <[p.1.1 := (p.1.2, breachTypeMask p.2)]> G) G (zip (zip ids ss) options).
Definition f_remove1 (p : list Z * gmap Z (Z * Z)) (id : Z) : list Z * gmap Z (Z * Z) :=
  match p.2 !! id with Some x => (p.1 ++ [x.1], delete id p.2) | None => p end.
Definition f_remove (ids : list Z) (G : gmap Z (Z * Z)) : list Z * gmap Z (Z * Z) := foldl f_remove1 ([], G) ids.
Definition f_mask (ids masks : list Z) (G : gmap Z (Z * Z)) : gmap Z (Z * Z) :=
  foldl (λ G p, alter (λ x, (x.1, p.2)) p.1 G) G (zip ids masks).
Definition f_sessions (ids : list Z) (G : gmap Z (Z * Z)) : list Z := omap (λ id, fst <$> G !! id) ids.
(** The options of the known geofences among those that are named. *)
Definition f_options (ids : list Z) (options : list GeofenceOption) (G : gmap Z (Z * Z)) : list GeofenceOption :=
  omap (λ p, if decide (is_Some (G !! p.1)) then Some p.2 else None) (zip ids options).
Definition f_all_sessions (G : gmap Z (Z * Z)) : list Z := merge_sort Z.le ((λ p, p.2.1) <$> map_to_list G).
Definition owner (G : gmap Z (Z * Z)) (s : Z) : option (Z * Z) :=
  (λ p, (p.1, p.2.2)) <$> head (filter (λ p, p.2.1 = s) (map_to_list G)).

Definition unless_empty (ss : list Z) (r : LocationAPI.request) : list output :=
  if decide (ss = []) then [] else [OutApi r].
Definition f_removal (ids : list Z) (e : env) (f : fences) : fences * list output :=
  if live f && memory e && opened f then
    let p := f_remove ids (geofences f) in
    (Fences p.2 (live f) (opened f) (listens f), unless_empty p.1 (LocationAPI.RemoveGeofences p.1))
  else (f, []).
(** What each request and report is meant to do, with its calls. *)
Definition f_step (f : fences) (e : event * env) : fences * list output :=
  let usable := live f && memory e.2 && opened f in
  let with_geofences G := Fences G (live f) (opened f) (listens f) in
  match e.1 with
  | SetCallbacks cbs => (Fences (geofences f) true (opened f) (listens f || LocationAPI.geofenceBreachCb cbs), [])
  | Destroy => (Fences (geofences f) false false false, [])
  | AddGeofences ids options infos =>
      if live f then
        (Fences (match hd None (arrays e.2) with Some ss => f_add ids ss options (geofences f) | None => geofences f end)
           true true (listens f), [OutApi (LocationAPI.AddGeofences options infos)])
      else (f, [])
  | RemoveGeofences ids => f_removal ids e.2 f
  | RemoveAllGeofences =>
      if usable then
        let ss := f_all_sessions (geofences f) in (with_geofences ∅, unless_empty ss (LocationAPI.RemoveGeofences ss))
      else (f, [])
  | ModifyGeofences ids options =>
      if usable then
        let ss := f_sessions ids (geofences f) in
        (with_geofences (f_mask ids (breachTypeMask <$> options) (geofences f)),
         unless_empty ss (LocationAPI.ModifyGeofences ss (f_options ids options (geofences f))))
      else (f, [])
  | PauseGeofences ids =>
      if usable then
        let ss := f_sessions ids (geofences f) in (f, unless_empty ss (LocationAPI.PauseGeofences ss))
      else (f, [])
  | ResumeGeofences ids mask =>
      if usable then
        let ss := f_sessions ids (geofences f) in
        (with_geofences (match mask with Some l => f_mask ids l (geofences f) | None => geofences f end),
         unless_empty ss (LocationAPI.ResumeGeofences ss))
      else (f, [])
  | OnGeofenceBreach type ids =>
      (f, if memory e.2 && listens f then
            [onGeofenceBreachCb type
               (omap (λ s, p ← owner (geofences f) s; if breaches type p.2 then Some p.1 else None) ids)]
          else [])
  | _ => (f, [])
  end.
Definition f_run (es : list (event * env)) : fences * list output :=
  foldl (λ p e, let q := f_step p.1 e in (q.1, p.2 ++ q.2)) (no_fences, []) es.

(** ** How the client is used *)

(** The geofences that the client knows come first. *)
Fixpoint known_first (known : Z -> bool) (ids : list Z) : bool :=
  match ids with
  | [] => true
  | id :: ids => if known id then known_first known ids else forallb (λ i, negb (known i)) ids
  end.
(** LocationAPI gives new sessions for geofences that the client newly names; arrays
    are as long as their count says; status of batches comes to clients that asked
    for it; no known geofence is named after an unknown one when options are changed,
    and all geofences are only removed when there are none, since the code fails at
    both (modified_with_another_option, remove_all_removes_none). *)
Definition geo_ok (c : client) (e : event * env) : Prop :=
  match e.1 with
  | AddGeofences ids options _ =>
      match hd None (arrays e.2) with
      | Some ss =>
          length ss = length ids ∧ length options = length ids ∧ NoDup ids ∧ NoDup ss ∧
          Forall (λ i, Dict.hasId i (mGeofenceBiDict c) = false) ids ∧
          Forall (λ s, 0 < s ∧ Dict.hasSession s (mGeofenceBiDict c) = false) ss
      | None => True
      end
  | ModifyGeofences ids options =>
      (length ids ≤ length options)%nat ∧ known_first (λ i, Dict.hasId i (mGeofenceBiDict c)) ids = true
  | RemoveAllGeofences => Dict.getAllSessions (mGeofenceBiDict c) = []
  | ResumeGeofences ids (Some l) => (length ids ≤ length l)%nat
  | OnBatchingStatus _ _ => mBatchingStatusCallback c = true
  | _ => True
  end.
#[export] Instance geo_ok_dec c e : Decision (geo_ok c e).
Proof. destruct e as [[] ?]; unfold geo_ok; cbn [fst]; repeat case_match; apply _. Defined.

Definition geo_output (o : output) : bool :=
  match o with
  | OutApi (LocationAPI.AddGeofences _ _) | OutApi (LocationAPI.RemoveGeofences _) | OutApi (LocationAPI.ModifyGeofences _ _)
  | OutApi (LocationAPI.PauseGeofences _) | OutApi (LocationAPI.ResumeGeofences _) | onGeofenceBreachCb _ _ => true
  | _ => false
  end.
Definition geo_outs (c : client) : list output := filter (λ o, geo_output o = true) (outputs c).

Definition is_open (c : client) : bool := mSession (queue REQUEST_GEOFENCE c) =? GEOFENCE_SESSION_ID.
Record agrees (c : client) (f : fences) : Prop := {
  ag_dict : shows (mGeofenceBiDict c) (geofences f);
  ag_live : mLocationAPI c = live f;
  ag_open : is_open c = opened f;
  ag_listens : mGeofenceBreachCallback c = listens f
}.

(** ** What the functions do to the abstract state *)

Lemma set_geofences_shows ids ss options d G :
  length ss = length ids -> length options = length ids -> NoDup ids -> NoDup ss ->
  Forall (λ i, G !! i = None) ids -> Forall (λ s, 0 < s ∧ ¬ has_session G s) ss -> shows d G ->
  ∃ d', set_geofences ids ss options d = Some d' ∧ shows d' (f_add ids ss options G).
Proof.
  unfold f_add. revert ss options d G. induction ids as [|i ids IH]; intros [|s ss] [|o options] d G; try done; cbn.
  - intros. by exists d.
  - intros [= Hl1] [= Hl2] [Hi Hids]%NoDup_cons [Hs Hss]%NoDup_cons [Gi Gids]%Forall_cons [[Hpos Gs] Gss]%Forall_cons H.
    apply IH; try done.
    + rewrite Forall_forall in Gids |- *. intros j Hj. rewrite lookup_insert_ne; [by apply Gids|]. by intros <-.
    + rewrite Forall_forall in Gss |- *. intros t Ht. destruct (Gss t Ht) as [Htp Htn]. split; [done|].
      intros (id & x & Hx). apply lookup_insert_Some in Hx as [[_ [= -> _]]|[_ Hx]]; [done|]. apply Htn. by exists id, x.
    + apply shows_set; try done; [|congruence]. intros id y Hy. destruct Gs. by exists id, y.
Qed.

Lemma remove_shows ids ss removed d G ss' G' :
  shows d G -> foldl f_remove1 (ss, G) ids = (ss', G') ->
  ∃ removed' d', foldl remove_one (ss, removed, d) ids = (ss', removed', d') ∧ shows d' G'.
Proof.
  revert ss removed d G. induction ids as [|i ids IH]; intros ss removed d G H; cbn.
  - intros [= <- <-]. by exists removed, d.
  - unfold f_remove1 at 2. cbn. rewrite (shows_known _ _ _ H), (shows_getSession _ _ _ H).
    destruct (G !! i) as [[s x]|] eqn:E; cbn; [|by apply IH]. intros Hf.
    eapply IH; [|exact Hf]. by eapply shows_rmBySession.
Qed.

Lemma shows_alter d G id s x m :
  shows d G -> G !! id = Some (s, x) -> shows (Dict.set id s m d) (alter (λ y : Z * Z, (y.1, m)) id G).
Proof.
  intros H E. assert (alter (λ y : Z * Z, (y.1, m)) id G = <[id := (s, m)]> G) as ->.
  { apply map_eq. intros j. destruct (decide (id = j)) as [<-|Hne].
    - by rewrite lookup_alter_eq, lookup_insert_eq, E.
    - by rewrite lookup_alter_ne, lookup_insert_ne. }
  apply shows_set; [done|by eapply sh_pos| |].
  - intros id' y Hy. by destruct (shows_one d G id id' s x y H E Hy).
  - intros s' y Hy. congruence.
Qed.
Lemma f_sessions_mask ids i m G : f_sessions ids (alter (λ y : Z * Z, (y.1, m)) i G) = f_sessions ids G.
Proof.
  unfold f_sessions. induction ids as [|j ids IH]; [done|].
  cbn. rewrite IH. destruct (decide (i = j)) as [<-|Hne]; [rewrite lookup_alter_eq; by destruct (G !! i)|by rewrite lookup_alter_ne].
Qed.
Lemma shows_mask d G i m :
  shows d G ->
  shows (if 0 <? Dict.getSession i d then Dict.set i (Dict.getSession i d) m d else d)
        (alter (λ y : Z * Z, (y.1, m)) i G).
Proof.
  intros H. rewrite (shows_known _ _ _ H), (shows_getSession _ _ _ H). destruct (G !! i) as [[s x]|] eqn:E; cbn.
  - by eapply shows_alter.
  - assert (alter (λ x : Z * Z, (x.1, m)) i G = G) as ->; [|done].
    apply map_eq. intros j. destruct (decide (i = j)) as [<-|Hne]; [by rewrite lookup_alter_eq, E|by rewrite lookup_alter_ne].
Qed.
Lemma modify_shows ids options d G :
  (length ids ≤ length options)%nat -> shows d G ->
  ∃ d', modify_geofences ids options d = Some (f_sessions ids G, d') ∧ shows d' (f_mask ids (breachTypeMask <$> options) G).
Proof.
  unfold f_mask. revert options d G. induction ids as [|i ids IH]; intros options d G Hl H; cbn; [by exists d|].
  destruct options as [|o options]; cbn in *; [lia|]. pose proof (shows_mask d G i (breachTypeMask o) H) as H'.
  destruct (IH options _ _ ltac:(lia) H') as (d' & Hd & Hs). rewrite f_sessions_mask in Hd.
  rewrite (shows_known _ _ _ H) in Hd |- *. exists d'. rewrite (shows_getSession _ _ _ H) in Hd |- *.
  destruct (G !! i) as [[s x]|] eqn:E; cbn in *; by rewrite Hd.
Qed.
Lemma forallb_unknown (d : BiDict Z) G ids :
  shows d G -> forallb (λ i, negb (Dict.hasId i d)) ids = true -> Forall (λ i, G !! i = None) ids.
Proof.
  intros H. rewrite forallb_forall, Forall_forall. intros Hi i Hin. specialize (Hi i (proj1 (list_elem_of_In _ _) Hin)).
  destruct (G !! i) as [y|] eqn:E; [|done]. by rewrite (proj2 (shows_hasId d G i H)) in Hi by (by eexists).
Qed.
(** Where the known geofences come first, their options do. *)
Lemma options_in_front ids options (d : BiDict Z) G :
  (length ids ≤ length options)%nat -> shows d G -> known_first (λ i, Dict.hasId i d) ids = true ->
  f_options ids options G = take (length (f_sessions ids G)) options.
Proof.
  intros Hl H. unfold f_options, f_sessions. revert options Hl. induction ids as [|i ids IH]; intros [|o options]; try done; cbn; [lia|].
  intros Hl. destruct (Dict.hasId i d) eqn:Ei.
  - apply (shows_hasId _ _ _ H) in Ei as [[s x] E]. rewrite decide_True by by rewrite E. rewrite E. cbn.
    intros Hk. f_equal. apply IH; [lia|done].
  - intros Hk%(forallb_unknown d G). 2: done. assert (G !! i = None) as E.
    { destruct (G !! i) eqn:E; [|done]. by rewrite (proj2 (shows_hasId d G i H)) in Ei by (by eexists). }
    rewrite decide_False by (rewrite E; by intros []). rewrite E. cbn. clear IH Ei E.
    assert (∀ l : list GeofenceOption, omap (λ p, if decide (is_Some (G !! p.1)) then Some p.2 else None) (zip ids l) = []) as ->.
    { clear Hl. induction Hk as [|j ids Hj _ IH]; intros [|o' l]; try done. cbn. rewrite decide_False by (rewrite Hj; by intros []). apply IH. }
    assert (omap (λ j, fst <$> G !! j) ids = []) as -> by (clear Hl; induction Hk as [|j ids Hj _ IH]; [done|]; cbn; by rewrite Hj).
    done.
Qed.
Lemma resume_shows ids masks d G :
  (length ids ≤ length masks)%nat -> shows d G ->
  ∃ d', resume_geofences ids masks d = Some d' ∧ shows d' (f_mask ids masks G).
Proof.
  unfold f_mask. revert masks d G. induction ids as [|i ids IH]; intros masks d G Hl H; cbn; [by exists d|].
  destruct masks as [|m masks]; cbn in *; [lia|].
  destruct (IH masks _ _ ltac:(lia) (shows_mask d G i m H)) as (d' & Hd & Hs). exists d'. by case_match.
Qed.
Lemma omap_head {A B} (f : A -> option B) x l :
  omap f (x :: l) = match f x with Some y => y :: omap f l | None => omap f l end.
Proof. done. Qed.
Lemma known_sessions_shows ids d G : shows d G -> known_sessions ids d = f_sessions ids G.
Proof.
  intros H. unfold known_sessions, f_sessions. induction ids as [|i ids IH]; [done|].
  rewrite fmap_cons, omap_head, <- IH, (shows_getSession _ _ _ H). destruct (G !! i) as [[s x]|] eqn:E; cbn [fmap option_fmap option_map fst default from_option].
  - rewrite filter_cons_True; [done|]. by eapply sh_pos.
  - by rewrite filter_cons_False.
Qed.
Lemma owner_Some d G s id m : shows d G -> owner G s = Some (id, m) <-> G !! id = Some (s, m).
Proof.
  intros H. unfold owner. split.
  - destruct (filter _ _) as [|[i [s' x]] l] eqn:E; [done|]. cbn. intros [= <- <-].
    assert ((i, (s', x)) ∈ filter (λ p : Z * (Z * Z), p.2.1 = s) (map_to_list G)) as Hin by (rewrite E; left).
    apply list_elem_of_filter in Hin as [Hs Hin]. cbn in Hs. subst s'. by apply elem_of_map_to_list.
  - intros E. assert ((id, (s, m)) ∈ filter (λ p : Z * (Z * Z), p.2.1 = s) (map_to_list G)) as Hin.
    { apply list_elem_of_filter. split; [done|]. by apply elem_of_map_to_list. }
    destruct (filter _ _) as [|[i [s' x]] l] eqn:E'; [by apply elem_of_nil in Hin|]. cbn.
    assert ((i, (s', x)) ∈ filter (λ p : Z * (Z * Z), p.2.1 = s) (map_to_list G)) as Hin' by (rewrite E'; left).
    apply list_elem_of_filter in Hin' as [Hs Hin']. cbn in Hs. subst s'. apply elem_of_map_to_list in Hin'.
    by destruct (shows_one d G id i s m x H E Hin') as [-> ->].
Qed.
Lemma breached_shows type (ids : list Z) d G :
  shows d G ->
  (λ s, Dict.getId s d) <$> filter (λ s, breaches type (Dict.getExtBySession 0 s d) = true) ids =
  omap (λ s, p ← owner G s; if breaches type p.2 then Some p.1 else None) ids.
Proof.
  intros H. induction ids as [|s ids IH]; [done|].
  rewrite omap_head, <- IH. destruct (owner G s) as [[id m]|] eqn:E; cbn [mbind option_bind fst snd].
  - apply (owner_Some d) in E; [|done]. destruct (shows_owner d G id s m 0 H E) as [Hid Hext].
    destruct (breaches type m) eqn:Hb; [rewrite filter_cons_True|rewrite filter_cons_False]; rewrite ?Hext, ?Hb; try done.
    by rewrite fmap_cons, Hid.
  - destruct (shows_stranger d G s 0 H) as [_ Hext].
    { intros (id & x & Hx). apply (owner_Some d) in Hx; [|done]. congruence. }
    rewrite filter_cons_False; [done|]. rewrite Hext. unfold breaches. by rewrite !andb_false_r.
Qed.
Lemma all_sessions_shows d G : shows d G -> Dict.getAllSessions d = f_all_sessions G.
Proof.
  intros H. unfold Dict.getAllSessions, f_all_sessions.
  apply (StronglySorted_unique Z.le); [apply (StronglySorted_merge_sort _)..|].
  rewrite !merge_sort_Permutation. apply NoDup_Permutation.
  - apply NoDup_fst_map_to_list.
  - apply NoDup_fmap_2_strong; [|apply NoDup_map_to_list]. intros [i [s x]] [j [t y]] Hi Hj Hst. cbn in Hst. subst t.
    apply elem_of_map_to_list in Hi, Hj. by destruct (shows_one d G i j s x y H Hi Hj) as [-> ->].
  - intros s. rewrite !list_elem_of_fmap. split.
    + intros ([s' id] & -> & Hin). apply elem_of_map_to_list in Hin. apply (sh_bwd _ _ H) in Hin as [x Hx].
      exists (id, (s', x)). split; [done|]. by apply elem_of_map_to_list.
    + intros ([id [s' x]] & -> & Hin). apply elem_of_map_to_list in Hin. exists (s', id). split; [done|].
      apply elem_of_map_to_list, (sh_bwd _ _ H). eauto.
Qed.
Lemma all_sessions_none G : f_all_sessions G = [] -> G = ∅.
Proof.
  unfold f_all_sessions. intros E. apply map_to_list_empty_iff, (fmap_nil_inv (λ p : Z * (Z * Z), p.2.1)).
  apply Permutation_nil_r. by rewrite <- E, merge_sort_Permutation.
Qed.

(** ** Steps that do not concern geofences *)

Definition calm (c c' : client) : Prop :=
  mGeofenceBiDict c' = mGeofenceBiDict c ∧ mLocationAPI c' = mLocationAPI c ∧ is_open c' = is_open c ∧
  mGeofenceBreachCallback c' = mGeofenceBreachCallback c ∧ geo_outs c' = geo_outs c.
#[export] Instance calm_preorder : PreOrder calm.
Proof. split; [done|]. unfold calm. intros ??? ??. destruct_and!. split_and!; congruence. Qed.
Lemma calm_agrees c c' f : calm c c' -> agrees c f -> agrees c' f.
Proof. intros (E1 & E2 & E3 & E4 & _) [A1 A2 A3 A4]. split; congruence. Qed.
Lemma geo_outs_emit o c : geo_outs (emit o c) = geo_outs c ++ (if geo_output o then [o] else []).
Proof. unfold geo_outs. cbn [outputs emit]. rewrite filter_app. f_equal. destruct (geo_output o) eqn:E.
  - by rewrite filter_cons_True.
  - rewrite filter_cons_False; [done|congruence]. Qed.
Lemma calm_emit o c : geo_output o = false -> calm c (emit o c).
Proof. intros E. split_and!; try done. by rewrite geo_outs_emit, E, app_nil_r. Qed.
Lemma calm_queue t f c : (∀ q, mSession (f q) = mSession q) ∨ t ≠ REQUEST_GEOFENCE -> calm c (on_queue t f c).
Proof.
  intros Hf. split_and!; try done. unfold is_open, queue at 1. cbn. case_decide as Ht; [|done]. subst t.
  destruct Hf as [->|?]; done.
Qed.
Lemma calm_session_queues session c : calm c (getRequestBySession session c).2.
Proof.
  unfold getRequestBySession, pop.
  assert (∀ t : REQUEST_TYPE, t ≠ REQUEST_GEOFENCE -> ∀ q, calm c (on_queue t (λ _, q) c)) as Hq by (intros; apply calm_queue; auto).
  assert (∀ t t' : REQUEST_TYPE, t ≠ REQUEST_GEOFENCE -> t' ≠ REQUEST_GEOFENCE -> ∀ q q',
    calm c (on_queue t (λ _, q) (on_queue t' (λ _, q') c))) as Hq2 by (intros; etrans; [by apply Hq|by apply calm_queue; auto]).
  repeat case_match; simplify_eq/=; auto; reflexivity.
Qed.
Lemma calm_onResponseCb error id c : calm c (onResponseCb error id c).
Proof.
  unfold onResponseCb. pose proof (calm_session_queues id c) as H. destruct (getRequestBySession id c) as [[r|] c']; [|exact H].
  etrans; [exact H|done].
Qed.
Lemma calm_collective errors ids c : calm c (onCollectiveResponseCb errors ids c).
Proof.
  unfold onCollectiveResponseCb, pop. destruct (mSession _ =? _) eqn:E; [|done].
  destruct (mQueue _) as [|r l]; (split_and!; try done; unfold is_open; by rewrite E).
Qed.
Lemma calm_run_popped n c : calm c (run_popped n c).
Proof.
  unfold run_popped. destruct (popped c !! n) as [[[r errors] ids]|]; [|done].
  set (c1 := put_popped _ c). assert (calm c c1) as H1 by done. clearbody c1. etrans; [exact H1|]. clear.
  assert (∀ s c, calm c (removeSession s c)) as Hr by (intros s c; unfold removeSession; by case_match).
  unfold onCollectiveResponse, onResponse. destruct r; cbn [collective]; try reflexivity; repeat case_match;
    first [by apply calm_emit|etrans; [apply Hr|by apply calm_emit]|etrans; [|apply Hr]; by apply calm_emit].
Qed.
Definition other_event (e : event) : bool :=
  match e with
  | SetCallbacks _ | Destroy | AddGeofences _ _ _ | RemoveGeofences _ | ModifyGeofences _ _ | PauseGeofences _
  | ResumeGeofences _ _ | RemoveAllGeofences | OnGeofenceBreach _ _ => false
  | _ => true
  end.
Lemma calm_api_session r c : geo_output (OutApi r) = false -> calm c (api_session r c).2.
Proof. intros E. unfold api_session. cbn [snd]. etrans; [|by apply calm_emit]. done. Qed.
Lemma calm_put_sessions d c : calm c (put_sessions d c).
Proof. done. Qed.
Lemma calm_startTracking o c : calm c (locAPIStartTracking o c).2.
Proof.
  unfold locAPIStartTracking. case_match; [|done]. case_match; [done|].
  pose proof (calm_api_session (LocationAPI.StartTracking o) c eq_refl) as Hs. destruct (api_session _ c) as [s c1].
  etrans; [exact Hs|]. by split_and!.
Qed.
Lemma calm_startSession id m o c : calm c (locAPIStartSession id m o c).2.
Proof.
  unfold locAPIStartSession. case_match; [|done]. case_match; [done|]. destruct (m =? SESSION_MODE_ON_FIX).
  - pose proof (calm_api_session (LocationAPI.StartTracking o) c eq_refl) as Hs. destruct (api_session _ c) as [s c1].
    etrans; [exact Hs|]. by split_and!.
  - pose proof (calm_api_session (LocationAPI.StartBatching (batching_options o) (batchingMode_of m)) c eq_refl) as Hs.
    destruct (api_session _ c) as [s c1]. etrans; [exact Hs|]. by split_and!.
Qed.
Lemma calm_push_session r c : calm c (push_to REQUEST_SESSION r c).
Proof. by split_and!. Qed.
Lemma calm_api r c : geo_output (OutApi r) = false -> calm c (api r c).
Proof. apply calm_emit. Qed.
Lemma calm_stopSession id c : calm c (locAPIStopSession id c).2.
Proof.
  unfold locAPIStopSession, Dict.getExtById. case_match; [|done]. case_match; [|done]. cbn [snd].
  case_match; (etrans; [|by apply calm_api]); by split_and!.
Qed.
Lemma calm_batched id n c : calm c (locAPIGetBatchedLocations id n c).2.
Proof.
  unfold locAPIGetBatchedLocations, Dict.getExtById. case_match; [|done]. case_match; [|done].
  case_match; [done|]. (etrans; [|by apply calm_api]); by split_and!.
Qed.
Lemma calm_updateSession id m o c : calm c (locAPIUpdateSessionOptions id m o c).2.
Proof.
  unfold locAPIUpdateSessionOptions, Dict.getExtById. case_match; [|done]. case_match; [|done].
  set (entity := if _ <? _ then _ else _). set (c1 := put_sessions _ c). assert (calm c c1) as Hc1 by done. clearbody c1 entity.
  destruct (m =? SESSION_MODE_ON_FIX); [set (r := UpdateTrackingOptionsRequest)|set (r := UpdateBatchingOptionsRequest)];
    pose proof (calm_push_session r c1) as Hc2; set (c2 := push_to REQUEST_SESSION r c1) in *; clearbody c2;
    destruct (sessionMode entity =? SESSION_MODE_ON_FIX);
    repeat (etrans; [eassumption|]); clear Hc1 Hc2.
  - cbn [snd]. etrans; [by apply (calm_api (LocationAPI.UpdateTrackingOptions (trackingSession entity) o))|done].
  - pose proof (calm_api (LocationAPI.StopBatching (batchingSession entity)) c2 eq_refl) as Hc3. set (c3 := api _ c2) in *. clearbody c3.
    set (c4 := on_queue _ _ c3). assert (calm c3 c4) as Hc4 by (by split_and!). clearbody c4.
    pose proof (calm_api_session (LocationAPI.StartTracking o) c4 eq_refl) as Hc5. destruct (api_session _ c4) as [s c5].
    etrans; [exact Hc3|]. etrans; [exact Hc4|]. etrans; [exact Hc5|]. done.
  - pose proof (calm_api (LocationAPI.StopTracking (trackingSession entity)) c2 eq_refl) as Hc3. set (c3 := api _ c2) in *. clearbody c3.
    pose proof (calm_api_session (LocationAPI.StartBatching (batching_options o) (batchingMode_of m)) c3 eq_refl) as Hc5.
    destruct (api_session _ c3) as [s c5]. etrans; [exact Hc3|]. etrans; [exact Hc5|]. by split_and!.
  - cbn [snd]. etrans; [by apply (calm_api (LocationAPI.UpdateBatchingOptions (batchingSession entity) no_options (batchingMode_of m)))|done].
Qed.
Lemma calm_batchingStatus status trips c c' : beforeBatchingStatusCb status trips c = Some c' -> calm c c'.
Proof.
  unfold beforeBatchingStatusCb. set (p := if _ =? _ then _ else _). destruct p as [ids d].
  destruct (mBatchingStatusCallback c); [|done]. intros [= <-]. etrans; [|by apply calm_emit]. done.
Qed.
Lemma calm_handle e c c' : other_event e = true -> handle e c = Some c' -> calm c c'.
Proof.
  intros He Hh. destruct e; try done; cbn [handle] in Hh; simplify_eq.
  - apply calm_startTracking.
  - unfold locAPIStopTracking. repeat case_match; try done. etrans; [by apply (calm_queue REQUEST_TRACKING (push StopTrackingRequest)); left|].
    etrans; [by apply (calm_api (LocationAPI.StopTracking (mSession (queue REQUEST_TRACKING c))))|]. done.
  - unfold locAPIUpdateTrackingOptions. repeat case_match; try done.
    etrans; [by apply (calm_queue REQUEST_TRACKING (push UpdateTrackingOptionsRequest)); left|]. by apply calm_api.
  - unfold locAPIGetBatchSize. cbn [snd]. by case_match.
  - apply calm_startSession.
  - apply calm_stopSession.
  - apply calm_updateSession.
  - apply calm_batched.
  - unfold locAPIGnssNiResponse. case_match; [|done]. etrans; [by apply (calm_api (LocationAPI.GnssNiResponse id response))|]. by split_and!.
  - apply calm_onResponseCb.
  - apply calm_collective.
  - apply calm_run_popped.
  - by eapply calm_batchingStatus.
Qed.

(** ** The refinement *)

Lemma agrees_usable c f : agrees c f -> can_use_geofences c = live f && memory (answers c) && opened f.
Proof. intros [_ A2 A3 _]. unfold can_use_geofences. unfold is_open in A3. by rewrite A2, A3. Qed.

(** A request on known geofences: the dictionary changes, the request is queued and
    passed on unless no geofence is known. *)
Definition requested (r : LocationAPIRequest) (ss : list Z) (a : LocationAPI.request) (d : BiDict Z) (c : client) : client :=
  if decide (ss = []) then put_geofences d c else api a (push_to REQUEST_GEOFENCE r (put_geofences d c)).
Lemma requested_agrees r ss a d c f G :
  agrees c f -> geo_output (OutApi a) = true -> shows d G ->
  let c' := requested r ss a d c in
  agrees c' (Fences G (live f) (opened f) (listens f)) ∧ geo_outs c' = geo_outs c ++ unless_empty ss a.
Proof.
  intros [A1 A2 A3 A4] Ha Hd. cbv zeta. unfold requested, unless_empty. case_decide.
  - split; [by split|]. by rewrite app_nil_r.
  - split; [by split|]. unfold api. by rewrite geo_outs_emit, Ha.
Qed.
Lemma agrees_same c f G : shows (mGeofenceBiDict c) G -> agrees c f -> G = geofences f -> agrees c (Fences G (live f) (opened f) (listens f)).
Proof. intros Hd [A1 A2 A3 A4] ->. by split. Qed.

Definition matches (c : client) (f : fences) (c' : client) (p : fences * list output) : Prop :=
  agrees c' p.1 ∧ geo_outs c' = geo_outs c ++ p.2.
Lemma matches_idle c f : agrees c f -> matches c f c (f, []).
Proof. intros H. split; [done|]. by rewrite app_nil_r. Qed.
Lemma matches_add ids options infos c f v :
  agrees c f -> answers c = v -> geo_ok c (AddGeofences ids options infos, v) ->
  ∃ c', handle (AddGeofences ids options infos) c = Some c' ∧ matches c f c' (f_step f (AddGeofences ids options infos, v)).
Proof.
  intros [A1 A2 A3 A4] Hv Hok. cbn [handle]. unfold locAPIAddGeofences, f_step, geo_ok in *. cbn [fst snd] in *. rewrite A2.
  destruct (live f) eqn:El; [|eexists; split; [reflexivity|]; apply matches_idle; split; try done; cbn; congruence].
  set (c1 := if _ =? _ then c else _).
  assert (answers c1 = v ∧ mGeofenceBiDict c1 = mGeofenceBiDict c ∧ mLocationAPI c1 = true ∧ is_open c1 = true ∧
    mGeofenceBreachCallback c1 = listens f ∧ outputs c1 = outputs c) as (B1 & B2 & B3 & B4 & B5 & B6).
  { subst c1. destruct (mSession (queue REQUEST_GEOFENCE c) =? GEOFENCE_SESSION_ID) eqn:E; split_and!; try done; congruence. }
  clearbody c1. unfold api_array. rewrite B1. destruct (hd None (arrays v)) as [ss|].
  - destruct Hok as (L1 & L2 & N1 & N2 & F1 & F2).
    destruct (set_geofences_shows ids ss options (mGeofenceBiDict c) (geofences f)) as (d' & Hd & Hs); try done.
    + eapply Forall_impl; [exact F1|]. cbn. intros i Hi. destruct (geofences f !! i) eqn:E; [|done].
      assert (Dict.hasId i (mGeofenceBiDict c) = true) as Ht by (by apply (shows_hasId _ _ _ A1); eexists). congruence.
    + eapply Forall_impl; [exact F2|]. cbn. intros s [Hp Hn]. split; [done|]. intros Hsn.
      apply (shows_hasSession _ _ _ A1) in Hsn. congruence.
    + cbn [mGeofenceBiDict emit put_answers]. rewrite B2, Hd. cbn [mbind option_bind].
      eexists. split; [reflexivity|]. split; [by split|]. unfold geo_outs. cbn. rewrite B6, filter_app. done.
  - eexists. split; [reflexivity|]. split; [split; try done|].
    + cbn [mGeofenceBiDict emit put_answers snd]. by rewrite B2.
    + unfold geo_outs. cbn. rewrite B6, filter_app. done.
Qed.
Lemma matches_removal ids c f v :
  agrees c f -> answers c = v -> matches c f (locAPIRemoveGeofences ids c) (f_removal ids v f).
Proof.
  intros H Hv. pose proof (agrees_usable _ _ H) as Hu. rewrite Hv in Hu. unfold locAPIRemoveGeofences, f_removal. rewrite Hu.
  destruct (live f && memory v && opened f); [|by apply matches_idle].
  destruct (f_remove ids (geofences f)) as [ss G] eqn:E.
  destruct (remove_shows ids [] Dict.empty _ _ ss G (ag_dict _ _ H) E) as (removed & d' & -> & Hs).
  apply (requested_agrees (RemoveGeofencesRequest removed) ss (LocationAPI.RemoveGeofences ss) d' c f G H eq_refl Hs).
Qed.
Lemma matches_requested r ss a d c f G p :
  agrees c f -> geo_output (OutApi a) = true -> shows d G ->
  p = (Fences G (live f) (opened f) (listens f), unless_empty ss a) -> matches c f (requested r ss a d c) p.
Proof. intros H Ha Hd ->. by apply requested_agrees. Qed.
Lemma fences_eta f : Fences (geofences f) (live f) (opened f) (listens f) = f.
Proof. by destruct f. Qed.

Lemma matches_handle e c f v :
  agrees c f -> answers c = v -> geo_ok c (e, v) -> ∃ c', handle e c = Some c' ∧ matches c f c' (f_step f (e, v)).
Proof.
  intros H Hv Hok. pose proof (agrees_usable _ _ H) as Hu. rewrite Hv in Hu. pose proof (ag_dict _ _ H) as Hd.
  destruct (other_event e) eqn:He.
  - assert (∃ c', handle e c = Some c') as [c' Hh].
    { destruct e; try done; cbn [handle]; eauto. unfold geo_ok in Hok. cbn in Hok. unfold beforeBatchingStatusCb.
      rewrite Hok. case_match. eauto. }
    exists c'. split; [done|]. pose proof (calm_handle _ _ _ He Hh) as Hc.
    assert (f_step f (e, v) = (f, [])) as -> by (by destruct e). split; [by eapply calm_agrees|].
    destruct Hc as (_ & _ & _ & _ & ->). by rewrite app_nil_r.
  - destruct e as [| | | | | | | | | | | | | |ids0 msk| | | | | | |]; try done; cbn [handle].
    + eexists. split; [reflexivity|]. destruct H as [A1 A2 A3 A4]. unfold locAPISetCallbacks, f_step. cbn [fst snd].
      case_match; (split; [split; try done; cbn; by rewrite A4|]); unfold geo_outs; cbn; rewrite filter_app, app_nil_r; cbn; by rewrite app_nil_r.
    + eexists. split; [reflexivity|]. destruct H as [A1 A2 A3 A4]. unfold destroy, f_step. cbn [fst snd].
      case_match; (split; [split; try done; cbn in *; congruence|]); unfold geo_outs; cbn; rewrite ?filter_app, ?app_nil_r; try done; cbn; by rewrite app_nil_r.
    + by apply matches_add.
    + eexists. split; [reflexivity|]. by apply matches_removal.
    + unfold locAPIModifyGeofences, f_step. cbn [fst snd]. rewrite Hu.
      destruct (live f && memory v && opened f); [|eexists; split; [reflexivity|]; by apply matches_idle].
      destruct Hok as [Hlen Hknown]. rewrite (options_in_front ids options _ _ Hlen Hd Hknown).
      destruct (modify_shows ids options _ _ Hlen Hd) as (d' & -> & Hs). cbn [mbind option_bind].
      set (ss := f_sessions ids (geofences f)). exists (requested ModifyGeofencesRequest ss (LocationAPI.ModifyGeofences ss (take (length ss) options)) d' c).
      split; [unfold requested; by case_decide|]. by eapply matches_requested.
    + unfold locAPIPauseGeofences, f_step. cbn [fst snd]. rewrite Hu. eexists. split; [reflexivity|].
      destruct (live f && memory v && opened f); [|by apply matches_idle]. rewrite (known_sessions_shows _ _ _ Hd).
      set (ss := f_sessions ids (geofences f)).
      pose proof (matches_requested PauseGeofencesRequest ss (LocationAPI.PauseGeofences ss) (mGeofenceBiDict c) c f
        (geofences f) _ H eq_refl Hd eq_refl) as Hm. rewrite fences_eta in Hm. unfold requested in Hm.
      by replace (put_geofences (mGeofenceBiDict c) c) with c in Hm by (by destruct c).
    + unfold locAPIResumeGeofences, f_step. cbn [fst snd]. rewrite Hu.
      destruct (live f && memory v && opened f); [|eexists; split; [reflexivity|]; by apply matches_idle].
      rewrite (known_sessions_shows _ _ _ Hd). set (ss := f_sessions ids0 (geofences f)).
      assert (∃ d', match msk with Some l => resume_geofences ids0 l (mGeofenceBiDict c) | None => Some (mGeofenceBiDict c) end = Some d' ∧
        shows d' (match msk with Some l => f_mask ids0 l (geofences f) | None => geofences f end)) as (d' & -> & Hs).
      { destruct msk as [l|]; [by apply resume_shows|by eexists]. }
      cbn [mbind option_bind]. exists (requested ResumeGeofencesRequest ss (LocationAPI.ResumeGeofences ss) d' c).
      split; [unfold requested; by case_decide|]. by eapply matches_requested.
    + eexists. split; [reflexivity|]. unfold locAPIRemoveAllGeofences, f_step. cbn [fst snd].
      unfold geo_ok in Hok. cbn [fst] in Hok. rewrite decide_True by done. rewrite (all_sessions_shows _ _ Hd) in Hok. rewrite Hok.
      assert (geofences f = ∅) as E by by apply all_sessions_none.
      case_match; [|by apply matches_idle]. cbn. rewrite <- E, fences_eta. by apply matches_idle.
    + eexists. split; [reflexivity|]. unfold beforeGeofenceBreachCb, f_step. cbn [fst snd]. rewrite Hv, (ag_listens _ _ H).
      case_match; [|by apply matches_idle]. rewrite (breached_shows _ _ _ _ Hd). destruct H as [A1 A2 A3 A4].
      split; [by split|]. by rewrite geo_outs_emit.
Qed.

Lemma agrees_new : agrees new_client no_fences.
Proof. split; try done. apply shows_empty. Qed.
Lemma refines_run es c f :
  agrees c f -> run_ok step geo_ok c es ->
  ∃ c', run step c es = Some c' ∧ agrees c' (foldl (λ p e, let q := f_step p.1 e in (q.1, p.2 ++ q.2)) (f, geo_outs c) es).1 ∧
    geo_outs c' = (foldl (λ p e, let q := f_step p.1 e in (q.1, p.2 ++ q.2)) (f, geo_outs c) es).2.
Proof.
  revert c f. induction es as [|[e v] es IH]; intros c f H Hok; [by exists c|]. destruct Hok as [Ho Hok].
  assert (agrees (put_answers v c) f) as H1 by by destruct H.
  destruct (matches_handle e (put_answers v c) f v H1 eq_refl Ho) as (c1 & Hs & Ha & Hg).
  assert (step c (e, v) = Some c1) as Hst by done. cbn [run foldl]. rewrite Hst in Hok |- *.
  destruct (IH c1 _ Ha Hok) as (c' & Hr & Ha' & Hg'). exists c'. split; [done|]. cbn [fst snd].
  change (geo_outs (put_answers v c)) with (geo_outs c) in Hg. rewrite <- Hg. done.
Qed.

(** C16: The three maps of mGeofenceBiDict behave as one finite map from the client's
    identifiers to sessions and masks, and LocationAPI and the client are called as the
    abstract machine ([f_step]) means it: removals, changes, pauses and resumptions go
    to the sessions of the known geofences among those that are named, with their own
    options, and a breach is reported under the names of the geofences that ask for
    it.  All steps are then defined.  Supposed of the run ([geo_ok]): geofences are
    added under identifiers that are not in use, each once, and get positive sessions
    that are not in use; arrays are as long as their count says; the status of batches
    comes to clients that asked for it.  Left out, because the code does something
    else than it means: a change of options that names a known geofence after an
    unknown one, and the removal of all geofences when there are some. *)
Theorem geofences_refine_map es :
  run_ok step geo_ok new_client es ->
  ∃ c, run step new_client es = Some c ∧ shows (mGeofenceBiDict c) (geofences (f_run es).1) ∧ geo_outs c = (f_run es).2.
Proof.
  intros Hok. destruct (refines_run es new_client no_fences agrees_new Hok) as (c & Hr & Ha & Hg).
  exists c. split; [done|]. split; [apply Ha|done].
Qed.

(** Two geofences 10 and 20 that get the sessions 4 and 5; 20 reports exits only. *)
Definition all_callbacks : LocationAPI.LocationCallbacks :=
  LocationAPI.MkCallbacks true true true true true true true true true true true true true true true true.
Definition fence (mask : Z) : GeofenceOption := MkGeofenceOption mask 0 0.
Definition silent_env : env := Env [] [] true.
Definition two_fences : list (event * env) :=
  [ (SetCallbacks all_callbacks, silent_env);
    (AddGeofences [10; 20] [fence 3; fence 2] [], Env [] [Some [4; 5]] true);
    (OnCollectiveResponse [0; 0] [4; 5], silent_env); (RunPopped 0, silent_env);
    (OnGeofenceBreach GEOFENCE_BREACH_ENTER [4; 5], silent_env) ].
Definition fences_removed : list (event * env) :=
  two_fences ++
  [ (ModifyGeofences [20; 10; 99] [fence 2; fence 3; fence 1], silent_env);
    (ResumeGeofences [99; 20] (Some [0; 1]), silent_env); (OnGeofenceBreach GEOFENCE_BREACH_ENTER [5; 4], silent_env);
    (RemoveGeofences [20; 99], silent_env); (OnGeofenceBreach GEOFENCE_BREACH_ENTER [5; 4], silent_env) ].
Lemma geofences_refine_map_witness :
  ∃ c, run step new_client fences_removed = Some c ∧
    geo_outs c = [OutApi (LocationAPI.AddGeofences [fence 3; fence 2] []); onGeofenceBreachCb GEOFENCE_BREACH_ENTER [10];
      OutApi (LocationAPI.ModifyGeofences [5; 4] [fence 2; fence 3]);
      OutApi (LocationAPI.ResumeGeofences [5]); onGeofenceBreachCb GEOFENCE_BREACH_ENTER [20; 10];
      OutApi (LocationAPI.RemoveGeofences [5]); onGeofenceBreachCb GEOFENCE_BREACH_ENTER [10]].
Proof.
  destruct (geofences_refine_map fences_removed) as (c & Hr & _ & Hg); [apply (bool_decide_unpack _); vm_compute; exact I|].
  exists c. split; [exact Hr|]. rewrite Hg. vm_compute. reflexivity.
Defined.

(** The options of a change are those of the first geofences that are named, not of
    the known ones among them: here 20 gets the option of the unknown 99. *)
Example modified_with_another_option :
  ∃ c, run step new_client (two_fences ++ [(ModifyGeofences [99; 20] [fence 1; fence 3], silent_env)]) = Some c ∧
    last (outputs c) = Some (OutApi (LocationAPI.ModifyGeofences [5] [fence 1])).
Proof. vm_compute. eexists. split; reflexivity. Qed.
(** locAPIRemoveAllGeofences removes no geofence whose name is not a session... *)
Example remove_all_removes_none :
  ∃ c, run step new_client (two_fences ++ [(RemoveAllGeofences, silent_env)]) = Some c ∧
    mForwardMap (mGeofenceBiDict c) = {[10 := 4; 20 := 5]}.
Proof. vm_compute. eexists. split; reflexivity. Qed.
(** A geofence that is added under a name that is in use takes it over: the old one can
    no longer be removed, and its breaches are reported under the name. *)
Example added_twice_keeps_old_session :
  ∃ c, run step new_client (two_fences ++
      [(AddGeofences [10] [fence 3] [], Env [] [Some [6]] true); (RemoveGeofences [10], silent_env);
       (OnGeofenceBreach GEOFENCE_BREACH_ENTER [4], silent_env)]) = Some c ∧
    drop 2 (geo_outs c) = [OutApi (LocationAPI.AddGeofences [fence 3] []); OutApi (LocationAPI.RemoveGeofences [6]);
      onGeofenceBreachCb GEOFENCE_BREACH_ENTER [10]].
Proof. vm_compute. eexists. split; reflexivity. Qed.

(** * Sessions *)

Definition session_of (e : SessionEntity) : Z :=
  if sessionMode e =? SESSION_MODE_ON_FIX then trackingSession e else batchingSession e.
Definition named_sessions (d : BiDict SessionEntity) : Prop :=
  ∃ G, shows d G ∧ ∀ id s e, G !! id = Some (s, e) -> e_id e = id ∧ s = session_of e.

(** LocationAPI gives new sessions. *)
Definition new_session (c : client) (v : env) : Prop :=
  0 < hd 0 (sessions v) ∧ Dict.hasSession (hd 0 (sessions v)) (mSessionBiDict c) = false.
Definition changes_kind (id mode : Z) (c : client) : bool :=
  negb (Bool.eqb (sessionMode (Dict.getExtById zero_entity id (mSessionBiDict c)).1 =? SESSION_MODE_ON_FIX)
                 (mode =? SESSION_MODE_ON_FIX)).
Definition sessions_ok (c : client) (e : event * env) : Prop :=
  match e.1 with
  | StartSession id _ _ => new_session c e.2
  | UpdateSessionOptions id mode _ => changes_kind id mode c = true -> new_session c e.2
  | _ => True
  end.
#[export] Instance sessions_ok_dec c e : Decision (sessions_ok c e).
Proof. destruct e as [[] ?]; unfold sessions_ok, new_session; cbn [fst]; apply _. Defined.

Lemma named_set d id s e :
  named_sessions d -> Dict.hasId id d = false -> 0 < s -> Dict.hasSession s d = false ->
  e_id e = id -> s = session_of e -> named_sessions (Dict.set id s e d).
Proof.
  intros (G & H & Hn) Hid Hs Hses He1 He2. exists (<[id := (s, e)]> G). split.
  - apply shows_set; try done.
    + intros id' y Hy. assert (Dict.hasSession s d = true); [|congruence]. apply (shows_hasSession _ _ _ H). by exists id', y.
    + intros s' y Hy. assert (Dict.hasId id d = true); [|congruence]. apply (shows_hasId _ _ _ H). by eexists.
  - intros id' s' e' [[<- [= <- <-]]|[_ Hy]]%lookup_insert_Some; [done|eauto].
Qed.
Lemma named_rmBySession d s : named_sessions d -> Dict.hasSession s d = true -> named_sessions (Dict.rmBySession s d).
Proof.
  intros (G & H & Hn) Hs. apply (shows_hasSession _ _ _ H) in Hs as (id & e & E). exists (delete id G). split.
  - by eapply shows_rmBySession.
  - intros id' s' e' [_ Hy]%lookup_delete_Some. eauto.
Qed.
(** What is known of a session that was started. *)
Lemma named_entity d id :
  named_sessions d -> Dict.hasId id d = true ->
  ∃ e, Dict.getExtById zero_entity id d = (e, d) ∧ e_id e = id ∧ 0 < session_of e ∧ Dict.getSession id d = session_of e ∧
    Dict.getId (session_of e) d = id ∧ Dict.hasSession (session_of e) d = true.
Proof.
  intros (G & H & Hn) Hid. apply (shows_hasId _ _ _ H) in Hid as [[s e] E]. destruct (Hn _ _ _ E) as [He ->].
  exists e. split_and!; [by eapply shows_getExtById|done|by eapply sh_pos| | |].
  - by rewrite (shows_getSession _ _ _ H), E.
  - by destruct (shows_owner d G id _ e zero_entity H E).
  - apply (shows_hasSession _ _ _ H). by exists id, e.
Qed.
Lemma named_replace d id e s e' :
  named_sessions d -> Dict.getExtById zero_entity id d = (e, d) -> Dict.hasId id d = true ->
  (s = session_of e ∨ 0 < s ∧ Dict.hasSession s d = false) -> e_id e' = id -> s = session_of e' ->
  named_sessions (Dict.set id s e' (Dict.rmById id d)).
Proof.
  intros (G & H & Hn) He Hid Hs He1 He2. apply (shows_hasId _ _ _ H) in Hid as [[s0 e0] E].
  rewrite (shows_getExtById _ _ _ _ _ _ H E) in He. injection He as ->. destruct (Hn _ _ _ E) as [Hi0 ->].
  exists (<[id := (s, e')]> (delete id G)). split.
  - apply shows_set; [by eapply shows_rmById| | |].
    + destruct Hs as [->|[? _]]; [by eapply sh_pos|done].
    + intros id' y [Hne Hy]%lookup_delete_Some. destruct Hs as [->|[_ Hs]].
      * by destruct (shows_one d G id id' _ e y H E Hy).
      * assert (Dict.hasSession s d = true); [|congruence]. apply (shows_hasSession _ _ _ H). by exists id', y.
    + intros s' y. by rewrite lookup_delete_eq.
  - intros id' s' x [[<- [= <- <-]]|[_ [_ Hy]%lookup_delete_Some]]%lookup_insert_Some; [done|eauto].
Qed.

Definition named (c : client) : Prop := named_sessions (mSessionBiDict c).
Lemma named_removeSession s c : named c -> named (removeSession s c).
Proof. intros H. unfold removeSession. case_match eqn:E; [|done]. by apply named_rmBySession. Qed.
Lemma named_start id m o c :
  named c -> new_session c (answers c) -> named (locAPIStartSession id m o c).2.
Proof.
  intros H [Hs Hn]. unfold locAPIStartSession, api_session. case_match; [|done]. destruct (Dict.hasId id _) eqn:Hid; [done|].
  destruct (m =? SESSION_MODE_ON_FIX) eqn:Em; cbn [snd]; apply named_set; try done; unfold session_of; cbn [sessionMode trackingSession batchingSession]; by rewrite Em.
Qed.
Lemma named_stop id c : named c -> named (locAPIStopSession id c).2.
Proof.
  intros H. unfold locAPIStopSession. case_match; [|done]. destruct (Dict.hasId id _) eqn:Hid; [|done].
  destruct (named_entity _ _ H Hid) as (e & -> & _). by case_match.
Qed.
Lemma named_batched id n c : named c -> named (locAPIGetBatchedLocations id n c).2.
Proof.
  intros H. unfold locAPIGetBatchedLocations. case_match; [|done]. destruct (Dict.hasId id _) eqn:Hid; [|done].
  destruct (named_entity _ _ H Hid) as (e & -> & _). by case_match.
Qed.
Lemma named_update id m o c :
  named c -> (changes_kind id m c = true -> new_session c (answers c)) -> named (locAPIUpdateSessionOptions id m o c).2.
Proof.
  intros H Hnew. unfold locAPIUpdateSessionOptions. case_match; [|done]. destruct (Dict.hasId id _) eqn:Hid; [|done].
  destruct (named_entity _ _ H Hid) as (e & He & Hi & Hp & _). unfold changes_kind in Hnew. rewrite He in Hnew |- *. cbn [fst] in Hnew.
  destruct (m =? SESSION_MODE_ON_FIX) eqn:Em, (sessionMode e =? SESSION_MODE_ON_FIX) eqn:Ee; cbn in Hnew; unfold named; cbn;
    (eapply named_replace; [exact H|exact He|exact Hid| |exact Hi|unfold session_of; cbn [sessionMode trackingSession batchingSession]; by rewrite Em]).
  - left. unfold session_of. by rewrite Ee.
  - right. by apply Hnew.
  - right. by apply Hnew.
  - left. unfold session_of. by rewrite Ee.
Qed.
Lemma named_run_popped n c : named c -> named (run_popped n c).
Proof.
  intros H. unfold run_popped. destruct (popped c !! n) as [[[r errors] ids]|]; [|done].
  set (c1 := put_popped _ c). assert (named c1) as H1 by exact H. clearbody c1. clear H.
  unfold onResponse, onCollectiveResponse. destruct r; cbn [collective]; try exact H1; repeat case_match; try exact H1; by apply named_removeSession.
Qed.
Lemma named_trips_fold trips l d : named_sessions d -> named_sessions (foldl trip_completed (l, d) trips).2.
Proof.
  revert l d. induction trips as [|t trips IH]; intros l d H; [exact H|]. cbn. destruct (Dict.hasSession t d) eqn:Ht; [|by apply IH].
  case_match; [|by apply IH]. apply IH. by apply named_rmBySession.
Qed.
Lemma named_trips status trips c c' : named c -> beforeBatchingStatusCb status trips c = Some c' -> named c'.
Proof.
  intros H. unfold beforeBatchingStatusCb. set (p := if _ =? _ then _ else _).
  assert (named_sessions p.2) as Hp.
  { subst p. case_match; [|exact H]. by apply named_trips_fold. }
  destruct p as [ids d]. case_match; [|done]. by intros [= <-].
Qed.
Lemma named_queue session c : named c -> named (getRequestBySession session c).2.
Proof. intros H. unfold getRequestBySession, pop. repeat case_match; simplify_eq/=; exact H. Qed.
Lemma sessions_named_step c e c' : named c -> sessions_ok c e -> step c e = Some c' -> named c'.
Proof.
  destruct e as [e v]. intros H Hok Hs. unfold step in Hs. cbn [fst snd] in Hs.
  set (c1 := put_answers v c) in *. assert (named c1) as H1 by exact H.
  assert (answers c1 = v ∧ mSessionBiDict c1 = mSessionBiDict c) as [Ev Ed] by done.
  unfold sessions_ok, new_session, changes_kind in Hok. rewrite <- Ed, <- Ev in Hok. cbn [fst snd] in Hok. clearbody c1. clear H Ev Ed.
  destruct e; cbn [handle] in Hs; simplify_eq.
  - unfold locAPISetCallbacks. by case_match.
  - unfold destroy. by case_match.
  - unfold locAPIStartTracking, api_session. by repeat case_match.
  - unfold locAPIStopTracking. by repeat case_match.
  - unfold locAPIUpdateTrackingOptions. by repeat case_match.
  - unfold locAPIGetBatchSize. cbn [snd]. by case_match.
  - by apply named_start.
  - by apply named_stop.
  - by apply named_update.
  - by apply named_batched.
  - unfold locAPIAddGeofences, api_array in Hs. repeat case_match; simplify_eq/=; try done.
    all: by destruct (set_geofences _ _ _ _); simplify_eq/=.
  - unfold locAPIRemoveGeofences. by repeat case_match.
  - unfold locAPIModifyGeofences in Hs. case_match; [|by simplify_eq]. destruct (modify_geofences _ _ _) as [[ss d]|]; simplify_eq/=. case_match; by simplify_eq.
  - unfold locAPIPauseGeofences. by repeat case_match.
  - unfold locAPIResumeGeofences in Hs. case_match; [|by simplify_eq]. destruct (match mask0 with Some _ => _ | None => _ end); simplify_eq/=. case_match; by simplify_eq.
  - unfold locAPIRemoveAllGeofences, locAPIRemoveGeofences. by repeat case_match.
  - unfold locAPIGnssNiResponse. by case_match.
  - unfold onResponseCb. pose proof (named_queue id c1 H1) as Hq. destruct (getRequestBySession id c1) as [[r|] c2]; exact Hq.
  - unfold onCollectiveResponseCb, pop. repeat case_match; by simplify_eq/=.
  - by apply named_run_popped.
  - unfold beforeGeofenceBreachCb. by case_match.
  - by eapply named_trips.
Qed.

(** C40: As long as LocationAPI gives new sessions, the three maps of mSessionBiDict
    agree: each identifier that the client started has one session, the tracking or the
    batching session of its entity according to its mode, no two identifiers share a
    session, and stopping, updating or reading it finds that entity. *)
Theorem sessions_keep_their_names es c :
  run_ok step sessions_ok new_client es -> run step new_client es = Some c ->
  (∀ id, Dict.hasId id (mSessionBiDict c) = true ->
     ∃ e, Dict.getExtById zero_entity id (mSessionBiDict c) = (e, mSessionBiDict c) ∧ e_id e = id ∧ 0 < session_of e ∧
       Dict.getSession id (mSessionBiDict c) = session_of e ∧ Dict.getId (session_of e) (mSessionBiDict c) = id) ∧
  (∀ s, Dict.hasSession s (mSessionBiDict c) = true ->
     Dict.hasId (Dict.getId s (mSessionBiDict c)) (mSessionBiDict c) = true ∧
     Dict.getSession (Dict.getId s (mSessionBiDict c)) (mSessionBiDict c) = s).
Proof.
  intros Hok Hr.
  assert (named c) as H.
  { refine (run_invariant step sessions_ok named new_client es c _ _ Hok Hr).
    - intros s e s' H1 H2 H3. by eapply sessions_named_step.
    - exists ∅. split; [apply shows_empty|done]. }
  split.
  - intros id Hid. destruct (named_entity _ _ H Hid) as (e & ? & ? & ? & ? & ? & _). eauto 10.
  - intros s Hs. destruct H as (G & H & _). apply (shows_hasSession _ _ _ H) in Hs as (id & e & E).
    destruct (shows_owner _ G id s e zero_entity H E) as [-> _]. split; [apply (shows_hasId _ _ _ H); by eexists|].
    by rewrite (shows_getSession _ _ _ H), E.
Qed.

(** A tracking session, a trip, and the first that becomes a batching session. *)
Definition no_tracking_options : LocationAPI.TrackingOptions := LocationAPI.MkTrackingOptions no_options 0 0.
Definition with_sessions (l : list Z) : env := Env l [] true.
Definition two_sessions : list (event * env) :=
  [ (SetCallbacks all_callbacks, silent_env);
    (StartSession 7 SESSION_MODE_ON_FIX no_tracking_options, with_sessions [11]);
    (StartSession 8 SESSION_MODE_ON_TRIP_COMPLETED no_tracking_options, with_sessions [12]) ].
Definition changed_session : list (event * env) :=
  two_sessions ++ [(UpdateSessionOptions 7 SESSION_MODE_ON_FULL no_tracking_options, with_sessions [13])].
Definition changed_client : client := Eval vm_compute in default new_client (run step new_client changed_session).
Lemma sessions_keep_their_names_witness :
  run step new_client changed_session = Some changed_client ∧
  Dict.getId (Dict.getSession 7 (mSessionBiDict changed_client)) (mSessionBiDict changed_client) = 7 ∧
  Dict.getSession 7 (mSessionBiDict changed_client) = 13.
Proof.
  assert (run step new_client changed_session = Some changed_client) as Hr by reflexivity. split; [exact Hr|].
  assert (run_ok step sessions_ok new_client changed_session) as Hok by (apply (bool_decide_unpack _); vm_compute; exact I).
  destruct (sessions_keep_their_names _ _ Hok Hr) as [Hid _].
  destruct (Hid 7 eq_refl) as (e & _ & _ & _ & Hs & Hg). split; [rewrite Hs; exact Hg|]. reflexivity.
Defined.

(** Responses to sessions are matched with requests in the order of the requests, for
    all sessions together: when the batching adapter answers before the GNSS adapter, its
    failure is reported for tracking. *)
Example answers_of_two_sessions :
  ∃ c, run step new_client (two_sessions ++
      [(OnResponse 1 12, silent_env); (RunPopped 0, silent_env); (OnResponse 0 11, silent_env); (RunPopped 0, silent_env)]) = Some c ∧
    drop 3 (outputs c) = [onStartTrackingCb 1; onStartBatchingCb 0].
Proof. vm_compute. eexists. split; reflexivity. Qed.
(** A tracking session that did not start can neither be started again nor stopped. *)
Example never_tracks_again :
  ∃ c, run step new_client
      [(SetCallbacks all_callbacks, silent_env); (StartTracking no_tracking_options, with_sessions [0]);
       (StopTracking, silent_env); (StartTracking no_tracking_options, with_sessions [5])] = Some c ∧
    drop 1 (outputs c) = [OutApi (LocationAPI.StartTracking no_tracking_options)] ∧ mTracking c = true.
Proof. vm_compute. eexists. split_and!; reflexivity. Qed.
(** The answer to a stop is lost when tracking starts again before it. *)
Example stop_is_not_answered :
  ∃ c, run step new_client
      [(SetCallbacks all_callbacks, silent_env); (StartTracking no_tracking_options, with_sessions [5]);
       (OnResponse 0 5, silent_env); (RunPopped 0, silent_env); (StopTracking, silent_env);
       (StartTracking no_tracking_options, with_sessions [6]); (OnResponse 0 5, silent_env)] = Some c ∧
    popped c = [] ∧ onStopTrackingCb 0 ∉ outputs c.
Proof. vm_compute. eexists. split_and!; [reflexivity|reflexivity|]. intros H. repeat (apply elem_of_cons in H as [H|H]; [done|]). by apply elem_of_nil in H. Qed.
(** The options of a batching session cannot be changed but for its mode. *)
Example batching_options_are_lost o :
  ∃ c, run step new_client (two_sessions ++ [(UpdateSessionOptions 8 SESSION_MODE_ON_TRIP_COMPLETED o, silent_env)]) = Some c ∧
    last (outputs c) = Some (OutApi (LocationAPI.UpdateBatchingOptions 12 no_options BATCHING_MODE_TRIP)).
Proof. vm_compute. eexists. split; reflexivity. Qed.

(** * Requests for configurations *)

Section control.
Context {config : Type} (equals : config -> config -> bool).

Definition config_answer (o : @Control.output config) : bool :=
  match o with Control.onGnssUpdateConfigCb _ _ | Control.onGnssGetConfigCb _ _ => true | _ => false end.
(** The array of a response is not null. *)
Definition has_array (e : @Control.event config) : Prop :=
  match e with Control.CollectiveResponse _ _ p => p ≠ 0 | _ => True end.

Lemma no_array_popped p (c : @Control.client config) :
  Control.mSessionArrayPtr (Control.updates c) = 0 -> Control.mSessionArrayPtr (Control.gets c) = 0 -> p ≠ 0 ->
  Control.getRequestBySessionArrayPtr p c = (None, c).
Proof. intros H1 H2 Hp. unfold Control.getRequestBySessionArrayPtr. rewrite H1, H2. by destruct p. Qed.
(** The queues of configuration requests are found by an array pointer that is only
    set when it was set before: no response is ever matched with one of them, and the
    functions for the responses are never called. *)
Lemma config_requests_unanswered es created zero :
  Forall has_array es ->
  let c := foldl (Control.step equals) (Control.new_client created zero) es in
  Control.mSessionArrayPtr (Control.updates c) = 0 ∧ Control.mSessionArrayPtr (Control.gets c) = 0 ∧
  Forall (λ o, config_answer o = false) (Control.outputs c).
Proof.
  set (I := λ c : @Control.client config, Control.mSessionArrayPtr (Control.updates c) = 0 ∧
    Control.mSessionArrayPtr (Control.gets c) = 0 ∧ Forall (λ o, config_answer o = false) (Control.outputs c)).
  assert (∀ c, I c -> Forall has_array es -> I (foldl (Control.step equals) c es)) as Hall; [|intros He; by apply Hall].
  induction es as [|e es IH]; intros c Hc He; [done|]. apply Forall_cons in He as [He Hes]. cbn. apply IH; [|done].
  clear IH. destruct Hc as (H1 & H2 & H3). destruct e; cbn [has_array Control.step] in *.
  7: { unfold Control.onCtrlCollectiveResponseCb. by rewrite no_array_popped. }
  all: unfold Control.locAPIGnssDeleteAidingData, Control.locAPIEnable, Control.locAPIDisable, Control.locAPIGnssUpdateConfig,
      Control.locAPIGnssGetConfig, Control.onCtrlResponseCb, Control.getRequestBySession, Control.destroy,
      Control.push_array, pop; cbn; rewrite ?H1, ?H2.
  all: repeat case_match; simplify_eq/=; (split_and!; cbn; rewrite ?Forall_app, ?H1, ?H2; auto).
Qed.
End control.
