(* ===== verification/GnssTracking.v ===== *)
(** gps/gnss/GnssAdapter.cpp, the tracking sessions: commands of clients, the
    multiplexing of their sessions on the one session the engine has, the
    requests to LocApi and the responses, engine restarts and locks, messages
    that wait for the engine.

    Three threads meet here.  Clients create messages; the adapter's message
    task processes them in order and deletes them; LocApi executes requests in
    order on its own task and sends each response back as a message of the
    adapter.  A state holds the members of the adapter the functions use, the
    messages that exist (with their addresses), the adapter's queue, the queue
    of LocApi and the request the engine runs.  [step] executes one event;
    [None] is a use of a message after its deletion. *)

From stdpp Require Import list gmap.
From S2P Require Import Prelude Runs DgnssNtrip.

Local Open Scope Z_scope.

(** * Data *)

Definition MIN_TRACKING_INTERVAL : Z := 100.
Definition TRACKING_TBM_THRESHOLD_MILLIS : Z := 480000.

Definition LOCATION_ERROR_SUCCESS : Z := 0.
Definition LOCATION_ERROR_GENERAL_FAILURE : Z := 1.
Definition LOCATION_ERROR_CALLBACK_MISSING : Z := 2.
Definition LOCATION_ERROR_INVALID_PARAMETER : Z := 3.
Definition LOCATION_ERROR_ID_UNKNOWN : Z := 5.

Definition ENGINE_LOCK_STATE_INVALID : Z := 0.
Definition ENGINE_LOCK_STATE_ENABLED : Z := 1.
Definition ENGINE_LOCK_STATE_DISABLED : Z := 2.

Definition GNSS_POWER_MODE_INVALID : Z := 0.
Definition GNSS_POWER_MODE_M2 : Z := 2.
Definition GNSS_POWER_MODE_M4 : Z := 4.

Definition GNSS_SUPL_MODE_MSB : Z := 1.
Definition GNSS_SUPL_MODE_MSA : Z := 2.
Definition LOC_POSITION_MODE_STANDALONE : Z := 0.
Definition LOC_POSITION_MODE_MS_BASED : Z := 1.
Definition LOC_POSITION_MODE_MS_ASSISTED : Z := 2.

Record LocationOptions := LocOptions {
  size : Z; minInterval : Z; minDistance : Z; mode : Z; locReqEngTypeMask : Z
}.
(** TrackingOptions derives from LocationOptions. *)
Record TrackingOptions := TrkOptions { location :> LocationOptions; powerMode : Z; tbm : Z }.

Definition sizeof_TrackingOptions : Z := 28.
Definition zero_options : TrackingOptions := TrkOptions (LocOptions 0 0 0 0 0) 0 0.

Definition setLocationOptions (options : LocationOptions) (o : TrackingOptions) : TrackingOptions :=
  TrkOptions (LocOptions sizeof_TrackingOptions (minInterval options) (minDistance options)
                (mode options) (locReqEngTypeMask options)) (powerMode o) (tbm o).
Definition set_minInterval (z : Z) (o : TrackingOptions) : TrackingOptions :=
  TrkOptions (LocOptions (size o) z (minDistance o) (mode o) (locReqEngTypeMask o)) (powerMode o) (tbm o).
Definition set_powerMode (z : Z) (o : TrackingOptions) : TrackingOptions :=
  TrkOptions (location o) z (tbm o).

Record LocationSessionKey := SessionKey { client : Z; id : Z }.
#[export] Instance key_eq_dec : EqDecision LocationSessionKey.
Proof. solve_decision. Defined.
(** operator< of the keys. *)
Definition key_lt (l r : LocationSessionKey) : bool :=
  (id l <? id r) || ((id l =? id r) && (client l <? client r)).

(** ** std::map: the entries in the order of their keys *)

Section SessionMap.
Context {V : Type}.

Definition session_map := list (LocationSessionKey * V).

Definition map_empty (m : session_map) : bool := match m with [] => true | _ => false end.

Fixpoint map_find (k : LocationSessionKey) (m : session_map) : option V :=
  match m with
  | [] => None
  | (k', v) :: m => if decide (k = k') then Some v else map_find k m
  end.
(** m[key] = v *)
Fixpoint map_set (k : LocationSessionKey) (v : V) (m : session_map) : session_map :=
  match m with
  | [] => [(k, v)]
  | (k', v') :: m' =>
      if decide (k = k') then (k, v) :: m'
      else if key_lt k k' then (k, v) :: m
      else (k', v') :: map_set k v m'
  end.
Fixpoint map_erase (k : LocationSessionKey) (m : session_map) : session_map :=
  match m with
  | [] => []
  | (k', v) :: m => if decide (k = k') then m else (k', v) :: map_erase k m
  end.
End SessionMap.
Arguments session_map : clear implicits.

Definition TrackingOptionsMap : Type := session_map TrackingOptions.
Definition LocationSessionMap : Type := session_map LocationOptions.
#[global] Typeclasses Transparent session_map TrackingOptionsMap LocationSessionMap.

(** The members of LocPosMode that convertOptions sets; the others keep the
    values of the constructor. *)
Record LocPosMode := PosMode {
  pos_mode : Z; share_position : bool; min_interval : Z; pos_powerMode : Z; timeBetweenMeasurements : Z
}.

(** Which callbacks of a client are set. *)
Record LocationCallbacks := Callbacks {
  capabilitiesCb : bool; responseCb : bool; trackingCb : bool; gnssLocationInfoCb : bool;
  engineLocationsInfoCb : bool; gnssMeasurementsCb : bool; gnssDataCb : bool; gnssSvCb : bool;
  gnssNmeaCb : bool
}.

(** The requests of the adapter to LocApi. *)
Inductive request :=
  | ReqStartTimeBasedTracking (o : TrackingOptions)
  | ReqStopFix
  | ReqStartDistanceBasedTracking (sessionId : Z) (o : LocationOptions)
  | ReqStopDistanceBasedTracking (sessionId : Z).

(** The lambdas given to LocApiResponse, with what they capture. *)
Inductive response :=
  | RespStartDistance (c i : Z)                              (* MsgStartTracking *)
  | RespStartTime (c i : Z)                                  (* startTimeBasedTracking *)
  | RespUpdate (c i : Z) (oldOptions : TrackingOptions)      (* updateTracking *)
  | RespNothing                                              (* [] (LocationError) {} *)
  | RespToTime (c i : Z) (o : TrackingOptions)               (* distance to time based *)
  | RespRestart (c i : Z) (o : TrackingOptions)              (* distance based: stopped *)
  | RespRestarted (c i : Z) (o : TrackingOptions)            (* distance based: started again *)
  | RespStopDistance (c i : Z)                               (* MsgStopTracking *)
  | RespStopFix (c i : Z)                                    (* stopTracking *)
  | RespRemoveClient (c i : Z).                              (* stopClientSessions *)

(** The messages of the adapter's task. *)
Inductive LocMsg :=
  | MsgStartTracking (c i : Z) (o : TrackingOptions)
  | MsgUpdateTracking (c i : Z) (o : TrackingOptions)
  | MsgStopTracking (c i : Z)
  | MsgAddClient (c : Z) (cbs : LocationCallbacks)
  | MsgRemoveClient (c : Z)
  | MsgRequestCapabilities (c : Z)
  | MsgGetPowerState (cb : Z)
  | MsgConfigMinGpsWeek (minGpsWeek : Z)
  | MsgUpdateNHz (nHzNeeded : bool)
  | MsgHandleEngineUpEvent
  | MsgEngineLockStateEvent (st : Z)
  | LocApiResponse (r : response) (err : Z).

(** What the outside sees, and what comes from it. *)
Inductive output :=
  | OutCommand (c i : Z)                          (* a tracking command was given *)
  | OutResponse (c i : Z) (err : Z) (delivered : bool)   (* reportResponse *)
  | OutPowerState (cb : Z) (on : bool)
  | OutCapabilities (c : Z)
  | OutHubSetFixMode (m : LocPosMode)
  | OutHubStartFix
  | OutHubStopFix
  | OutMinGpsWeek (w : Z)
  | OutEngineUp                                   (* LocApi reports that the engine is up *)
  | OutConfigureEngine.                           (* capabilities broadcast, configuration sent *)

(** ** State *)

(** The members of GnssAdapter. *)
Record adapter := Adapter {
  mNHzNeeded : bool; mSPEAlreadyRunningAtHighestInterval : bool;
  mTimeBasedTrackingSessions : TrackingOptionsMap;
  mDistanceBasedTrackingSessions : LocationSessionMap;
  mLocPositionMode : LocPosMode; mPrevNmeaRptTimeNsec : Z; mOdcpiRequestActive : bool;
  mPowerOn : bool; mPowerStateCb : option Z;
  mClientData : gmap Z LocationCallbacks;
  mIsEngineCapabilitiesKnown : bool;
  mPendingMsgs : list N; mPendingGnssEnabledMsgs : list N;
  mDgnss : dgnss
}.

(** LocApi and the static members of ContextBase. *)
Record loc_api := LocApi {
  mEngineLockState : Z; sIsEngineCapabilitiesKnown : bool; sSupportedMsgMask : Z;
  requests : list (request * option response);
  engine : option TrackingOptions
}.

(** The message task: the messages that exist and the queue. *)
Record task := Task { messages : gmap N LocMsg; queue : list N; next_addr : N }.

Record state := State {
  ad : adapter; api : loc_api; tsk : task; mSessionIdCounter : Z; out : list output
}.

(** ** Access to the state *)

Definition on_ad (f : adapter -> adapter) (s : state) : state :=
  State (f (ad s)) (api s) (tsk s) (mSessionIdCounter s) (out s).
Definition on_api (f : loc_api -> loc_api) (s : state) : state :=
  State (ad s) (f (api s)) (tsk s) (mSessionIdCounter s) (out s).
Definition on_tsk (f : task -> task) (s : state) : state :=
  State (ad s) (api s) (f (tsk s)) (mSessionIdCounter s) (out s).
Definition emit (o : output) (s : state) : state :=
  State (ad s) (api s) (tsk s) (mSessionIdCounter s) (out s ++ [o]).

Definition set_NHzNeeded (b : bool) (a : adapter) : adapter :=
  Adapter b (mSPEAlreadyRunningAtHighestInterval a) (mTimeBasedTrackingSessions a)
    (mDistanceBasedTrackingSessions a) (mLocPositionMode a) (mPrevNmeaRptTimeNsec a)
    (mOdcpiRequestActive a) (mPowerOn a) (mPowerStateCb a) (mClientData a)
    (mIsEngineCapabilitiesKnown a) (mPendingMsgs a) (mPendingGnssEnabledMsgs a) (mDgnss a).
Definition set_SPEAtHighest (b : bool) (a : adapter) : adapter :=
  Adapter (mNHzNeeded a) b (mTimeBasedTrackingSessions a)
    (mDistanceBasedTrackingSessions a) (mLocPositionMode a) (mPrevNmeaRptTimeNsec a)
    (mOdcpiRequestActive a) (mPowerOn a) (mPowerStateCb a) (mClientData a)
    (mIsEngineCapabilitiesKnown a) (mPendingMsgs a) (mPendingGnssEnabledMsgs a) (mDgnss a).
Definition set_sessions (t : TrackingOptionsMap) (d : LocationSessionMap) (a : adapter) : adapter :=
  Adapter (mNHzNeeded a) (mSPEAlreadyRunningAtHighestInterval a) t d
    (mLocPositionMode a) (mPrevNmeaRptTimeNsec a)
    (mOdcpiRequestActive a) (mPowerOn a) (mPowerStateCb a) (mClientData a)
    (mIsEngineCapabilitiesKnown a) (mPendingMsgs a) (mPendingGnssEnabledMsgs a) (mDgnss a).
Definition set_posMode (m : LocPosMode) (a : adapter) : adapter :=
  Adapter (mNHzNeeded a) (mSPEAlreadyRunningAtHighestInterval a) (mTimeBasedTrackingSessions a)
    (mDistanceBasedTrackingSessions a) m (mPrevNmeaRptTimeNsec a)
    (mOdcpiRequestActive a) (mPowerOn a) (mPowerStateCb a) (mClientData a)
    (mIsEngineCapabilitiesKnown a) (mPendingMsgs a) (mPendingGnssEnabledMsgs a) (mDgnss a).
Definition set_PrevNmea (z : Z) (a : adapter) : adapter :=
  Adapter (mNHzNeeded a) (mSPEAlreadyRunningAtHighestInterval a) (mTimeBasedTrackingSessions a)
    (mDistanceBasedTrackingSessions a) (mLocPositionMode a) z
    (mOdcpiRequestActive a) (mPowerOn a) (mPowerStateCb a) (mClientData a)
    (mIsEngineCapabilitiesKnown a) (mPendingMsgs a) (mPendingGnssEnabledMsgs a) (mDgnss a).
Definition set_OdcpiRequestActive (b : bool) (a : adapter) : adapter :=
  Adapter (mNHzNeeded a) (mSPEAlreadyRunningAtHighestInterval a) (mTimeBasedTrackingSessions a)
    (mDistanceBasedTrackingSessions a) (mLocPositionMode a) (mPrevNmeaRptTimeNsec a)
    b (mPowerOn a) (mPowerStateCb a) (mClientData a)
    (mIsEngineCapabilitiesKnown a) (mPendingMsgs a) (mPendingGnssEnabledMsgs a) (mDgnss a).
Definition set_power (b : bool) (cb : option Z) (a : adapter) : adapter :=
  Adapter (mNHzNeeded a) (mSPEAlreadyRunningAtHighestInterval a) (mTimeBasedTrackingSessions a)
    (mDistanceBasedTrackingSessions a) (mLocPositionMode a) (mPrevNmeaRptTimeNsec a)
    (mOdcpiRequestActive a) b cb (mClientData a)
    (mIsEngineCapabilitiesKnown a) (mPendingMsgs a) (mPendingGnssEnabledMsgs a) (mDgnss a).
Definition set_ClientData (m : gmap Z LocationCallbacks) (a : adapter) : adapter :=
  Adapter (mNHzNeeded a) (mSPEAlreadyRunningAtHighestInterval a) (mTimeBasedTrackingSessions a)
    (mDistanceBasedTrackingSessions a) (mLocPositionMode a) (mPrevNmeaRptTimeNsec a)
    (mOdcpiRequestActive a) (mPowerOn a) (mPowerStateCb a) m
    (mIsEngineCapabilitiesKnown a) (mPendingMsgs a) (mPendingGnssEnabledMsgs a) (mDgnss a).
Definition set_pending (known : bool) (p e : list N) (a : adapter) : adapter :=
  Adapter (mNHzNeeded a) (mSPEAlreadyRunningAtHighestInterval a) (mTimeBasedTrackingSessions a)
    (mDistanceBasedTrackingSessions a) (mLocPositionMode a) (mPrevNmeaRptTimeNsec a)
    (mOdcpiRequestActive a) (mPowerOn a) (mPowerStateCb a) (mClientData a)
    known p e (mDgnss a).
Definition on_dgnss (f : dgnss -> dgnss) (a : adapter) : adapter :=
  Adapter (mNHzNeeded a) (mSPEAlreadyRunningAtHighestInterval a) (mTimeBasedTrackingSessions a)
    (mDistanceBasedTrackingSessions a) (mLocPositionMode a) (mPrevNmeaRptTimeNsec a)
    (mOdcpiRequestActive a) (mPowerOn a) (mPowerStateCb a) (mClientData a)
    (mIsEngineCapabilitiesKnown a) (mPendingMsgs a) (mPendingGnssEnabledMsgs a) (f (mDgnss a)).

(** The members the proofs speak about. *)
Abbreviation tb s := (mTimeBasedTrackingSessions (ad s)) (only parsing).
Abbreviation db s := (mDistanceBasedTrackingSessions (ad s)) (only parsing).

(** * Operations *)

(** LocAdapterBase::generateSessionId *)
Definition generateSessionId (s : state) : Z * state :=
  let c := wrap_u 32 (mSessionIdCounter s + 1) in
  let c := if c =? 2 ^ 32 - 1 then 1 else c in
  (c, State (ad s) (api s) (tsk s) c (out s)).

(** new LocMsg, and MsgTask::sendMsg of an existing one. *)
Definition new_msg (m : LocMsg) (s : state) : N * state :=
  let p := next_addr (tsk s) in
  (p, on_tsk (λ t, Task (<[p := m]> (messages t)) (queue t) (N.succ p)) s).
Definition sendMsg (p : N) (s : state) : state :=
  on_tsk (λ t, Task (messages t) (queue t ++ [p]) (next_addr t)) s.
Definition send_new (m : LocMsg) (s : state) : state :=
  let '(p, s) := new_msg m s in sendMsg p s.

(** A call of LocApi: a request for its task, with the response object. *)
Definition call_api (r : request) (resp : option response) (s : state) : state :=
  on_api (λ a, LocApi (mEngineLockState a) (sIsEngineCapabilitiesKnown a) (sSupportedMsgMask a)
                 (requests a ++ [(r, resp)]) (engine a)) s.

Definition LOC_API_ADAPTER_MESSAGE_DISTANCE_BASE_TRACKING : Z := 2.
Definition isMessageSupported (msgID : Z) (s : state) : bool :=
  if 64 <? msgID then false
  else
    let messageChecker := wrap_u 32 (Z.shiftl 1 msgID) in
    Z.land messageChecker (sSupportedMsgMask (api s)) =? messageChecker.

Definition isTimeBasedTrackingSession (c i : Z) (s : state) : bool :=
  bool_decide (is_Some (map_find (SessionKey c i) (tb s))).
Definition isDistanceBasedTrackingSession (c i : Z) (s : state) : bool :=
  bool_decide (is_Some (map_find (SessionKey c i) (db s))).

Definition hasCallbacksToStartTracking (c : Z) (s : state) : bool :=
  match mClientData (ad s) !! c with
  | Some it => trackingCb it || gnssLocationInfoCb it || engineLocationsInfoCb it
               || gnssMeasurementsCb it || gnssDataCb it || gnssSvCb it || gnssNmeaCb it
  | None => false
  end.

Definition reportPowerStateIfChanged (s : state) : state :=
  let newPowerOn := negb (map_empty (tb s)) || negb (map_empty (db s)) in
  if negb (eqb newPowerOn (mPowerOn (ad s))) then
    let s := on_ad (set_power newPowerOn (mPowerStateCb (ad s))) s in
    match mPowerStateCb (ad s) with
    | Some cb => emit (OutPowerState cb newPowerOn) s
    | None => s
    end
  else s.

Definition saveTrackingSession (c i : Z) (options : TrackingOptions) (s : state) : state :=
  let key := SessionKey c i in
  let s :=
    if (0 <? minDistance options)
       && isMessageSupported LOC_API_ADAPTER_MESSAGE_DISTANCE_BASE_TRACKING s
    then on_ad (set_sessions (tb s) (map_set key (location options) (db s))) s
    else on_ad (set_sessions (map_set key options (tb s)) (db s)) s in
  reportPowerStateIfChanged s.

Definition eraseTrackingSession (c i : Z) (s : state) : state :=
  let key := SessionKey c i in
  let s :=
    match map_find key (tb s) with
    | Some _ => on_ad (set_sessions (map_erase key (tb s)) (db s)) s
    | None => on_ad (set_sessions (tb s) (map_erase key (db s))) s
    end in
  reportPowerStateIfChanged s.

Definition reportResponse (c : Z) (err : Z) (i : Z) (s : state) : state :=
  emit (OutResponse c i err (match mClientData (ad s) !! c with
                             | Some it => responseCb it
                             | None => false
                             end)) s.

Definition convertOptions (o : TrackingOptions) : LocPosMode :=
  PosMode (if mode o =? GNSS_SUPL_MODE_MSB then LOC_POSITION_MODE_MS_BASED
           else if mode o =? GNSS_SUPL_MODE_MSA then LOC_POSITION_MODE_MS_ASSISTED
           else LOC_POSITION_MODE_STANDALONE)
    true (minInterval o) (powerMode o) (tbm o).

(** LocPosMode::equals does not compare share_position. *)
Definition posMode_equals (a b : LocPosMode) : bool :=
  (pos_mode a =? pos_mode b) && (min_interval a =? min_interval b)
  && (pos_powerMode a =? pos_powerMode b) && (timeBetweenMeasurements a =? timeBetweenMeasurements b).
Definition setLocPositionMode (m : LocPosMode) (s : state) : state :=
  if posMode_equals (mLocPositionMode (ad s)) m then s else on_ad (set_posMode m) s.

(** The options may be changed, the result tells whether the engine runs at the
    highest rate already. *)
Definition checkAndSetSPEToRunforNHz (o : TrackingOptions) (s : state) : TrackingOptions * bool * state :=
  if negb (mNHzNeeded (ad s)) then (o, false, s)
  else if mSPEAlreadyRunningAtHighestInterval (ad s) then (o, true, s)
  else if MIN_TRACKING_INTERVAL <? minInterval o then
    (set_minInterval MIN_TRACKING_INTERVAL o, false, on_ad (set_SPEAtHighest true) s)
  else (o, false, s).

(** The common beginning of startTimeBasedTracking and updateTracking. *)
Definition prepare_hub (o : TrackingOptions) (s : state) : state :=
  let s := setLocPositionMode (convertOptions o) s in
  emit OutHubStartFix (emit (OutHubSetFixMode (mLocPositionMode (ad s))) s).

Definition startTimeBasedTracking (c i : Z) (o : TrackingOptions) (s : state) : state :=
  let s := prepare_hub o s in
  let '(tempOptions, running, s) := checkAndSetSPEToRunforNHz o s in
  if running then reportResponse c LOCATION_ERROR_SUCCESS i s
  else call_api (ReqStartTimeBasedTracking tempOptions) (Some (RespStartTime c i)) s.

Definition updateTracking (c i : Z) (updatedOptions oldOptions : TrackingOptions) (s : state) : state :=
  let s := prepare_hub updatedOptions s in
  let '(tempOptions, running, s) := checkAndSetSPEToRunforNHz updatedOptions s in
  if running then reportResponse c LOCATION_ERROR_SUCCESS i s
  else call_api (ReqStartTimeBasedTracking tempOptions) (Some (RespUpdate c i oldOptions)) s.

(** isInSession() for the NTRIP functions. *)
Definition isInSession (s : state) : bool :=
  negb (map_empty (tb s)).

Definition stopTracking (c i : Z) (s : state) : state :=
  let s := emit OutHubStopFix s in
  let s := call_api ReqStopFix (Some (RespStopFix c i)) s in
  let s := on_ad (on_dgnss stop_with_session) s in
  on_ad (set_SPEAtHighest false) s.

(** The loops over the sessions: the first session with the smallest interval,
    and a power mode.  A size of zero means that no session was taken yet.  In
    startTimeBasedTrackingMultiplex [other] is all keys, in the functions that
    update or stop a session all keys but its own. *)
Fixpoint multiplexed (other : LocationSessionKey -> bool) (m : TrackingOptionsMap)
    (multiplexedOptions : TrackingOptions) (multiplexedPowerMode : Z) : TrackingOptions * Z :=
  match m with
  | [] => (multiplexedOptions, multiplexedPowerMode)
  | (k, o) :: m =>
      let mo := if other k && ((size multiplexedOptions =? 0)
                               || (minInterval o <? minInterval multiplexedOptions))
                then o else multiplexedOptions in
      let pm := if other k && ((multiplexedPowerMode =? GNSS_POWER_MODE_INVALID)
                               || (powerMode o <? multiplexedPowerMode))
                then powerMode o else multiplexedPowerMode in
      multiplexed other m mo pm
  end.

Definition not_key (k : LocationSessionKey) (k' : LocationSessionKey) : bool := bool_decide (k' <> k).

(** The result is reportToClientWithNoWait. *)
Definition startTimeBasedTrackingMultiplex (c i : Z) (o : TrackingOptions) (s : state) : bool * state :=
  match tb s with
  | [] => (false, startTimeBasedTracking c i o (on_ad (set_PrevNmea 0) s))
  | _ =>
      let '(mo, pm) := multiplexed (λ _, true) (tb s) zero_options GNSS_POWER_MODE_INVALID in
      let '(mo, updateOptions) :=
        if minInterval o <? minInterval mo then (set_minInterval (minInterval o) mo, true) else (mo, false) in
      let '(mo, updateOptions) :=
        if powerMode o <? pm then (set_powerMode (powerMode o) mo, true) else (mo, updateOptions) in
      if updateOptions then (false, startTimeBasedTracking c i mo s) else (true, s)
  end.

(** [None]: the iterator past the end is read. *)
Definition updateTrackingMultiplex (c i : Z) (o : TrackingOptions) (s : state) : option (bool * state) :=
  let key := SessionKey c i in
  match map_find key (tb s) with
  | None => None
  | Some oldOptions =>
      if negb (minInterval oldOptions =? minInterval o) || negb (powerMode oldOptions =? powerMode o) then
        let '(mo, pm) := multiplexed (not_key key) (tb s) zero_options GNSS_POWER_MODE_INVALID in
        let '(mo, updateOptions) :=
          if minInterval o <? minInterval mo then (set_minInterval (minInterval o) mo, true) else (mo, false) in
        let '(mo, updateOptions) :=
          if powerMode o <? pm then (set_powerMode (powerMode o) mo, true) else (mo, updateOptions) in
        let '(mo, updateOptions) :=
          match tb s with [_] => (o, true) | _ => (mo, updateOptions) end in
        if updateOptions then Some (false, updateTracking c i mo oldOptions s) else Some (true, s)
      else Some (true, s)
  end.

Definition stopTimeBasedTrackingMultiplex (c i : Z) (s : state) : bool * state :=
  match tb s with
  | [_] => (false, stopTracking c i s)
  | _ =>
      let key := SessionKey c i in
      match map_find key (tb s) with
      | Some it =>
          let '(mo, pm) := multiplexed (not_key key) (tb s) zero_options GNSS_POWER_MODE_INVALID in
          if (minInterval it <? minInterval mo) || (powerMode it <? pm) then
            (false, startTimeBasedTracking c i (set_powerMode pm mo) s)
          else (true, s)
      | None => (true, s)
      end
  end.

(** The options that checkAndRestartTimeBasedSession takes the power mode from. *)
Fixpoint highestPower (m : TrackingOptionsMap) (acc : TrackingOptions) : TrackingOptions :=
  match m with
  | [] => acc
  | (_, o) :: m =>
      highestPower m (if (size acc =? 0)
                         || (negb (powerMode o =? GNSS_POWER_MODE_INVALID) && (powerMode o <? powerMode acc))
                      then o else acc)
  end.

Definition checkAndRestartTimeBasedSession (s : state) : state :=
  match tb s with
  | [] => s
  | m =>
      let smallest := fst (multiplexed (λ _, true) m zero_options GNSS_POWER_MODE_INVALID) in
      let o := setLocationOptions smallest (highestPower m zero_options) in
      let '(o, running, s) := checkAndSetSPEToRunforNHz o s in
      if running then s else call_api (ReqStartTimeBasedTracking o) None s
  end.

Definition checkAndRestartSPESession (s : state) : state :=
  let s := on_ad (set_SPEAtHighest false) s in
  let s := checkAndRestartTimeBasedSession s in
  foldl (λ s '(k, o), call_api (ReqStartDistanceBasedTracking (id k) o) (Some RespNothing) s) s (db s).

(** [t] is the boot time. *)
Definition restartSessions (t : Z) (modemSSR : bool) (s : state) : state :=
  let s := if modemSSR then on_ad (set_OdcpiRequestActive false) s else s in
  let s := on_ad (set_SPEAtHighest false) s in
  let s :=
    match tb s with
    | [] => s
    | _ =>
        let s := emit OutHubStartFix (emit (OutHubSetFixMode (mLocPositionMode (ad s))) s) in
        on_ad (on_dgnss (checkUpdateDgnssNtrip (isInSession s) t false)) s
    end in
  checkAndRestartSPESession s.

Definition suspendSessions (s : state) : state :=
  match tb s with
  | [] => s
  | _ =>
      let s := emit OutHubStopFix s in
      let s := call_api ReqStopFix None s in
      let s := on_ad (on_dgnss stop_with_session) s in
      on_ad (set_SPEAtHighest false) s
  end.

Definition stopClientSessions (c : Z) (s : state) : state :=
  let vTimeBasedTrackingClient := filter (λ k, client k = c) (map fst (tb s)) in
  let s := foldl (λ s k, let '(_, s) := stopTimeBasedTrackingMultiplex (client k) (id k) s in
                         eraseTrackingSession (client k) (id k) s) s vTimeBasedTrackingClient in
  foldl (λ s '(k, _), if client k =? c
                      then call_api (ReqStopDistanceBasedTracking (id k)) (Some (RespRemoveClient c (id k))) s
                      else s) s (db s).

Definition saveClient (c : Z) (cbs : LocationCallbacks) (s : state) : state :=
  on_ad (set_ClientData (<[c := cbs]> (mClientData (ad s)))) s.
Definition eraseClient (c : Z) (s : state) : state :=
  on_ad (set_ClientData (delete c (mClientData (ad s)))) s.

(** ** The messages *)

Definition lock_is (st : Z) (s : state) : bool := mEngineLockState (api s) =? st.
Definition failed (err : Z) : bool := negb (err =? LOCATION_ERROR_SUCCESS).

(** Both commands keep a copy of themselves until the engine is known. *)
Definition keep_pending (m : LocMsg) (s : state) : state :=
  let '(p, s) := new_msg m s in
  on_ad (set_pending (mIsEngineCapabilitiesKnown (ad s)) (mPendingMsgs (ad s) ++ [p])
           (mPendingGnssEnabledMsgs (ad s))) s.

Definition fall_back_to_M2 (o : TrackingOptions) : TrackingOptions :=
  if (powerMode o =? GNSS_POWER_MODE_M4) && (TRACKING_TBM_THRESHOLD_MILLIS <? tbm o)
  then set_powerMode GNSS_POWER_MODE_M2 o else o.
Definition at_least_min_interval (o : TrackingOptions) : TrackingOptions :=
  if minInterval o <? MIN_TRACKING_INTERVAL then set_minInterval MIN_TRACKING_INTERVAL o else o.

Definition proc_MsgStartTracking (c i : Z) (o : TrackingOptions) (s : state) : state :=
  if negb (mIsEngineCapabilitiesKnown (ad s)) && (0 <? minDistance o) then
    keep_pending (MsgStartTracking c i o) s
  else if negb (hasCallbacksToStartTracking c s) then s
  else if size o =? 0 then s
  else
    let o := at_least_min_interval o in
    if (0 <? minDistance o) && isMessageSupported LOC_API_ADAPTER_MESSAGE_DISTANCE_BASE_TRACKING s then
      let s := saveTrackingSession c i o s in
      call_api (ReqStartDistanceBasedTracking i o) (Some (RespStartDistance c i)) s
    else
      let o := fall_back_to_M2 o in
      let '(reportToClientWithNoWait, s) := startTimeBasedTrackingMultiplex c i o s in
      let s := saveTrackingSession c i o s in
      if reportToClientWithNoWait then reportResponse c LOCATION_ERROR_SUCCESS i s else s.

(** MsgUpdateTracking: the checks, and the four ways to update a session. *)
Definition update_error (isTimeBased isDistanceBased : bool) (o : TrackingOptions) : Z :=
  if negb isTimeBased && negb isDistanceBased then LOCATION_ERROR_ID_UNKNOWN
  else if size o =? 0 then LOCATION_ERROR_INVALID_PARAMETER
  else LOCATION_ERROR_SUCCESS.

Definition time_to_distance (c i : Z) (o : TrackingOptions) (s : state) : state :=
  let '(reportToClientWithNoWait, s) := stopTimeBasedTrackingMultiplex c i s in
  let s := eraseTrackingSession c i s in
  let s := if reportToClientWithNoWait then reportResponse c LOCATION_ERROR_SUCCESS i s else s in
  let s := saveTrackingSession c i o s in
  call_api (ReqStartDistanceBasedTracking i o) (Some RespNothing) s.

Definition update_time (c i : Z) (o : TrackingOptions) (s : state) : option state :=
  match updateTrackingMultiplex c i o s with
  | None => None
  | Some (reportToClientWithNoWait, s) =>
      let s := saveTrackingSession c i o s in
      Some (if reportToClientWithNoWait then reportResponse c LOCATION_ERROR_SUCCESS i s else s)
  end.

Definition update_session (isTimeBased isDistanceBased : bool) (c i : Z) (o : TrackingOptions)
    (s : state) : option state :=
  if isTimeBased && (0 <? minDistance o) then Some (time_to_distance c i o s)
  else if isDistanceBased && (minDistance o =? 0) then
    let s := eraseTrackingSession c i s in
    Some (call_api (ReqStopDistanceBasedTracking i) (Some (RespToTime c i o)) s)
  else if isTimeBased then update_time c i o s
  else if isDistanceBased then
    Some (call_api (ReqStopDistanceBasedTracking i) (Some (RespRestart c i o)) s)
  else Some s.

Definition proc_MsgUpdateTracking (c i : Z) (o : TrackingOptions) (s : state) : option state :=
  if negb (mIsEngineCapabilitiesKnown (ad s)) && (0 <? minDistance o) then
    Some (keep_pending (MsgUpdateTracking c i o) s)
  else
    let isTimeBased := isTimeBasedTrackingSession c i s in
    let isDistanceBased := isDistanceBasedTrackingSession c i s in
    let err := update_error isTimeBased isDistanceBased o in
    if failed err then Some (reportResponse c err i s)
    else update_session isTimeBased isDistanceBased c i (at_least_min_interval (fall_back_to_M2 o)) s.

Definition proc_MsgStopTracking (c i : Z) (s : state) : state :=
  let isTimeBased := isTimeBasedTrackingSession c i s in
  let isDistanceBased := isDistanceBasedTrackingSession c i s in
  if isTimeBased || isDistanceBased then
    if isTimeBased then
      let '(reportToClientWithNoWait, s) := stopTimeBasedTrackingMultiplex c i s in
      let s := eraseTrackingSession c i s in
      if reportToClientWithNoWait then reportResponse c LOCATION_ERROR_SUCCESS i s else s
    else call_api (ReqStopDistanceBasedTracking i) (Some (RespStopDistance c i)) s
  else reportResponse c LOCATION_ERROR_ID_UNKNOWN i s.

Definition proc_MsgRequestCapabilities (c : Z) (s : state) : state :=
  if negb (mIsEngineCapabilitiesKnown (ad s)) then keep_pending (MsgRequestCapabilities c) s
  else
    match mClientData (ad s) !! c with
    | Some cbs => if capabilitiesCb cbs then emit (OutCapabilities c) s else s
    | None => s
    end.

Definition proc_MsgGetPowerState (cb : Z) (s : state) : state :=
  let s := on_ad (set_power (mPowerOn (ad s)) (Some cb)) s in
  emit (OutPowerState cb (mPowerOn (ad s))) s.

(** configMinGpsWeek, a configuration that the engine takes with its sessions
    suspended. *)
Definition proc_MsgConfigMinGpsWeek (t w : Z) (s : state) : state :=
  restartSessions t false (emit (OutMinGpsWeek w) (suspendSessions s)).

Definition proc_MsgUpdateNHz (nHzNeeded : bool) (s : state) : state :=
  if negb (eqb (mNHzNeeded (ad s)) nHzNeeded) then
    checkAndRestartSPESession (on_ad (set_NHzNeeded nHzNeeded) s)
  else s.

Definition proc_MsgHandleEngineUpEvent (t : Z) (s : state) : state :=
  let s := on_ad (set_pending true (mPendingMsgs (ad s)) (mPendingGnssEnabledMsgs (ad s))) s in
  let s := emit OutConfigureEngine s in
  if mEngineLockState (api s) =? ENGINE_LOCK_STATE_ENABLED then
    let s := restartSessions t true s in
    foldl (λ s p, sendMsg p s) s (mPendingMsgs (ad s))
  else s.

Definition handleEngineLockStatus (engineLockState : Z) (s : state) : state :=
  if engineLockState =? ENGINE_LOCK_STATE_ENABLED then
    let s := foldl (λ s p, sendMsg p s) s (mPendingGnssEnabledMsgs (ad s)) in
    on_ad (set_pending (mIsEngineCapabilitiesKnown (ad s)) (mPendingMsgs (ad s)) []) s
  else s.


(** The bodies of the lambdas. *)
Definition proc_LocApiResponse (t : Z) (r : response) (err : Z) (s : state) : state :=
  match r with
  | RespStartDistance c i =>
      let s := if lock_is ENGINE_LOCK_STATE_ENABLED s && failed err then eraseTrackingSession c i s else s in
      reportResponse c err i s
  | RespStartTime c i =>
      let s := if lock_is ENGINE_LOCK_STATE_ENABLED s && failed err then eraseTrackingSession c i s
               else on_ad (on_dgnss (checkUpdateDgnssNtrip (isInSession s) t false)) s in
      reportResponse c err i s
  | RespUpdate c i oldOptions =>
      let s := if lock_is ENGINE_LOCK_STATE_ENABLED s && failed err
               then saveTrackingSession c i oldOptions s else s in
      reportResponse c err i s
  | RespNothing => s
  | RespToTime c i o =>
      let '(reportToClientWithNoWait, s) := startTimeBasedTrackingMultiplex c i o s in
      let s := saveTrackingSession c i o s in
      if reportToClientWithNoWait then reportResponse c LOCATION_ERROR_SUCCESS i s else s
  | RespRestart c i o =>
      if failed err then s
      else call_api (ReqStartDistanceBasedTracking i o) (Some (RespRestarted c i o)) s
  | RespRestarted c i o =>
      let s := if lock_is ENGINE_LOCK_STATE_DISABLED s || negb (failed err)
               then saveTrackingSession c i o s else s in
      reportResponse c err i s
  | RespStopDistance c i =>
      let s := if lock_is ENGINE_LOCK_STATE_DISABLED s || negb (failed err)
               then eraseTrackingSession c i s else s in
      reportResponse c err i s
  | RespStopFix c i => reportResponse c err i s
  | RespRemoveClient c i => if failed err then s else eraseTrackingSession c i s
  end.

Definition proc (t : Z) (m : LocMsg) (s : state) : option state :=
  match m with
  | MsgStartTracking c i o => Some (proc_MsgStartTracking c i o s)
  | MsgUpdateTracking c i o => proc_MsgUpdateTracking c i o s
  | MsgStopTracking c i => Some (proc_MsgStopTracking c i s)
  | MsgAddClient c cbs => Some (saveClient c cbs s)
  | MsgRemoveClient c => Some (eraseClient c (stopClientSessions c s))
  | MsgRequestCapabilities c => Some (proc_MsgRequestCapabilities c s)
  | MsgGetPowerState cb => Some (proc_MsgGetPowerState cb s)
  | MsgConfigMinGpsWeek w => Some (proc_MsgConfigMinGpsWeek t w s)
  | MsgUpdateNHz b => Some (proc_MsgUpdateNHz b s)
  | MsgHandleEngineUpEvent => Some (proc_MsgHandleEngineUpEvent t s)
  | MsgEngineLockStateEvent st => Some (handleEngineLockStatus st s)
  | LocApiResponse r err => Some (proc_LocApiResponse t r err s)
  end.

(** ** The machine *)

Inductive event :=
  | StartTrackingCommand (c : Z) (o : TrackingOptions)
  | UpdateTrackingOptionsCommand (c i : Z) (o : TrackingOptions)
  | StopTrackingCommand (c i : Z)
  | AddClientCommand (c : Z) (cbs : LocationCallbacks)
  | RemoveClientCommand (c : Z)
  | RequestCapabilitiesCommand (c : Z)
  | GetPowerStateChangesCommand (cb : Z)
  | ConfigMinGpsWeekCommand (w : Z)
  | UpdateNHzRequirement (b : bool)
  | EngineUp (supportedMsgMask : Z)       (* LocOpenMsg and LocSsrMsg of LocApi *)
  | ReportEngineLockStatus (st : Z)
  | ApiRun (err : Z)                      (* LocApi executes its next request *)
  | TaskRun (curBootTime : Z).            (* the adapter processes its next message *)

Definition startTrackingCommand (c : Z) (o : TrackingOptions) (s : state) : Z * state :=
  let '(i, s) := generateSessionId s in
  (i, send_new (MsgStartTracking c i o) (emit (OutCommand c i) s)).
Definition updateTrackingOptionsCommand (c i : Z) (o : TrackingOptions) (s : state) : state :=
  send_new (MsgUpdateTracking c i o) (emit (OutCommand c i) s).
Definition stopTrackingCommand (c i : Z) (s : state) : state :=
  send_new (MsgStopTracking c i) (emit (OutCommand c i) s).

(** ContextBase::setEngineCapabilities: the first call counts. *)
Definition setEngineCapabilities (mask : Z) (s : state) : state :=
  on_api (λ a, if sIsEngineCapabilitiesKnown a then a
               else LocApi (mEngineLockState a) true mask (requests a) (engine a)) s.
Definition setEngineLockState (st : Z) (s : state) : state :=
  on_api (λ a, LocApi st (sIsEngineCapabilitiesKnown a) (sSupportedMsgMask a) (requests a) (engine a)) s.

(** LocApiBase: a reported lock state is recorded and sent to the adapter. *)
Definition reportEngineLockStatus (st : Z) (s : state) : state :=
  if negb (st =? mEngineLockState (api s)) && negb (st =? ENGINE_LOCK_STATE_INVALID)
  then send_new (MsgEngineLockStateEvent st) (setEngineLockState st s) else s.

(** What the engine runs after a request it accepted. *)
Definition accept (r : request) (e : option TrackingOptions) : option TrackingOptions :=
  match r with
  | ReqStartTimeBasedTracking o => Some o
  | ReqStopFix => None
  | _ => e
  end.

Definition run_request (err : Z) (s : state) : state :=
  match requests (api s) with
  | [] => s
  | (r, resp) :: rs =>
      let s := on_api (λ a, LocApi (mEngineLockState a) (sIsEngineCapabilitiesKnown a) (sSupportedMsgMask a) rs
                              (if failed err then engine a else accept r (engine a))) s in
      match resp with
      | Some resp => send_new (LocApiResponse resp err) s
      | None => s
      end
  end.

(** MTRunnable::run: the message is processed, then deleted. *)
Definition run_message (t : Z) (s : state) : option state :=
  match queue (tsk s) with
  | [] => Some s
  | p :: q =>
      let s := on_tsk (λ k, Task (messages k) q (next_addr k)) s in
      match messages (tsk s) !! p with
      | None => None
      | Some m =>
          match proc t m s with
          | Some s => Some (on_tsk (λ k, Task (delete p (messages k)) (queue k) (next_addr k)) s)
          | None => None
          end
      end
  end.

Definition step (s : state) (e : event) : option state :=
  match e with
  | StartTrackingCommand c o => Some (snd (startTrackingCommand c o s))
  | UpdateTrackingOptionsCommand c i o => Some (updateTrackingOptionsCommand c i o s)
  | StopTrackingCommand c i => Some (stopTrackingCommand c i s)
  | AddClientCommand c cbs => Some (send_new (MsgAddClient c cbs) s)
  | RemoveClientCommand c => Some (send_new (MsgRemoveClient c) s)
  | RequestCapabilitiesCommand c => Some (send_new (MsgRequestCapabilities c) s)
  | GetPowerStateChangesCommand cb => Some (send_new (MsgGetPowerState cb) s)
  | ConfigMinGpsWeekCommand w => Some (send_new (MsgConfigMinGpsWeek w) s)
  | UpdateNHzRequirement b => Some (send_new (MsgUpdateNHz b) s)
  | EngineUp mask =>
      Some (send_new MsgHandleEngineUpEvent (emit OutEngineUp (setEngineCapabilities mask s)))
  | ReportEngineLockStatus st => Some (reportEngineLockStatus st s)
  | ApiRun err => Some (run_request err s)
  | TaskRun t => run_message t s
  end.

Definition init : state :=
  State
    (Adapter false false [] [] (PosMode (-1) true 1000 GNSS_POWER_MODE_INVALID 1000) 0 false false None ∅
       false [] [] dgnss_init)
    (LocApi ENGINE_LOCK_STATE_ENABLED false 0 [] None)
    (Task ∅ [] 0%N) 1 [].
