(* ===== verification/GnssSessions.v ===== *)
(** The session maps and the loops of GnssTracking.v: std::map keeps its
    entries ordered, the multiplexing loops find the smallest interval; and what
    each operation of the adapter leaves alone. *)

From stdpp Require Import list gmap.
From Stdlib Require Import Sorting.Sorted.
From S2P Require Import Prelude Runs DgnssNtrip GnssTracking.

Local Open Scope Z_scope.

(** * Ordered maps *)

Lemma key_lt_spec l r :
  key_lt l r = true <-> id l < id r ∨ (id l = id r ∧ client l < client r).
Proof. unfold key_lt. rewrite orb_true_iff, andb_true_iff, !Z.ltb_lt, Z.eqb_eq. done. Qed.

Lemma key_lt_irrefl k : key_lt k k <> true.
Proof. rewrite key_lt_spec. lia. Qed.

Lemma key_lt_trans a b c : key_lt a b = true -> key_lt b c = true -> key_lt a c = true.
Proof. rewrite !key_lt_spec. lia. Qed.

Lemma key_lt_total a b : a <> b -> key_lt a b <> true -> key_lt b a = true.
Proof.
  rewrite !key_lt_spec. destruct a as [ca ia], b as [cb ib]; simpl. intros Hne H.
  assert (ca <> cb ∨ ia <> ib) by (destruct (decide (ca = cb)), (decide (ia = ib)); naive_solver). lia.
Qed.

Section Maps.
Context {V : Type}.
Implicit Types (m : session_map V) (k : LocationSessionKey) (v : V).

Definition entry_lt (x y : LocationSessionKey * V) : Prop := key_lt x.1 y.1 = true.
(** The order of the entries in std::map. *)
Definition ordered m : Prop := StronglySorted entry_lt m.

Lemma map_find_In k v m : map_find k m = Some v -> (k, v) ∈ m.
Proof.
  induction m as [|[k' v'] m IH]; simpl; [done|]. case_decide; intros; simplify_eq.
  - apply list_elem_of_here.
  - apply list_elem_of_further. auto.
Qed.

Lemma map_find_None k v m : map_find k m = None -> (k, v) ∉ m.
Proof.
  induction m as [|[k' v'] m IH]; simpl; intros H Hin; [by apply elem_of_nil in Hin|].
  apply elem_of_cons in Hin. case_decide; [done|]. destruct Hin as [[= <- <-]|Hin]; [done|].
  by apply IH.
Qed.

Lemma map_set_In k v m x : x ∈ map_set k v m -> x = (k, v) ∨ x ∈ m.
Proof.
  induction m as [|[k' v'] m IH]; simpl; [intros H; left; by apply list_elem_of_singleton in H|].
  case_decide; [|destruct (key_lt k k')]; rewrite !elem_of_cons; [naive_solver..|].
  intros [->|Hx]; [by right; left|]. destruct (IH Hx); auto.
Qed.

Lemma ordered_map_set k v m : ordered m -> ordered (map_set k v m).
Proof.
  induction 1 as [|[k' v'] m Hs IH Hf]; simpl; [repeat constructor|].
  case_decide as Hk; [|destruct (key_lt k k') eqn:E].
  - subst. constructor; [done|]. exact Hf.
  - constructor; [by constructor|]. constructor; [done|].
    eapply Forall_impl; [apply Hf|]. intros x Hx. eapply key_lt_trans; [apply E|apply Hx].
  - constructor; [done|]. apply Forall_forall. intros x Hx. apply map_set_In in Hx as [->|Hx].
    + apply key_lt_total; [done|]. simpl. by rewrite E.
    + rewrite Forall_forall in Hf. by apply Hf.
Qed.

Lemma ordered_erase k m : ordered m -> ordered (map_erase k m).
Proof.
  induction 1 as [|[k' v'] m Hs IH Hf]; simpl; [constructor|]. case_decide; [done|].
  constructor; [done|]. apply Forall_forall. intros x Hx. rewrite Forall_forall in Hf. apply Hf.
  clear - Hx. induction m as [|[k2 v2] m IH]; simpl in *; [done|].
  case_decide; [by apply list_elem_of_further|]. apply elem_of_cons in Hx as [->|Hx];
    [apply list_elem_of_here|apply list_elem_of_further; auto].
Qed.

Lemma map_erase_In k m x : x ∈ map_erase k m -> x ∈ m.
Proof.
  induction m as [|[k2 v2] m IH]; simpl; [done|]. case_decide; [apply list_elem_of_further|].
  rewrite !elem_of_cons. naive_solver.
Qed.

Lemma ordered_head k v m k' v' : ordered ((k, v) :: m) -> (k', v') ∈ m -> k' <> k.
Proof.
  intros Ho Hin ->. inversion Ho as [|? ? _ Hf]. rewrite Forall_forall in Hf.
  apply (key_lt_irrefl k). by apply (Hf _ Hin).
Qed.

(** In an ordered map setting a key replaces its value, erasing removes it. *)
Lemma map_set_other k v m k' v' :
  ordered m -> (k', v') ∈ map_set k v m -> (k', v') = (k, v) ∨ ((k', v') ∈ m ∧ k' <> k).
Proof.
  induction m as [|[k2 v2] m IH]; simpl; intros Ho H; [left; by apply list_elem_of_singleton in H|].
  inversion Ho as [|? ? Ho' Hf]; subst. case_decide as Hk; [|destruct (key_lt k k2) eqn:E].
  - subst. apply elem_of_cons in H as [H|H]; [by left|]. right. split; [by apply list_elem_of_further|].
    eapply ordered_head; eauto.
  - apply elem_of_cons in H as [H|H]; [by left|]. right. split; [done|]. intros ->.
    apply elem_of_cons in H as [[= -> ->]|H]; [done|]. rewrite Forall_forall in Hf.
    apply (key_lt_irrefl k). eapply key_lt_trans; [apply E|]. by apply (Hf _ H).
  - apply elem_of_cons in H as [[= -> ->]|H]; [right; split; [apply list_elem_of_here|done]|].
    destruct (IH Ho' H) as [?|[? ?]]; [by left|]. right. split; [by apply list_elem_of_further|done].
Qed.

Lemma map_erase_other k m k' v' :
  ordered m -> (k', v') ∈ map_erase k m -> (k', v') ∈ m ∧ k' <> k.
Proof.
  intros Ho H. split; [by eapply map_erase_In|]. revert Ho H.
  induction m as [|[k2 v2] m IH]; simpl; intros Ho H; [by apply elem_of_nil in H|].
  inversion Ho as [|? ? Ho' Hf]; subst. case_decide as Hk.
  - subst. eapply ordered_head; eauto.
  - apply elem_of_cons in H as [[= -> ->]|H]; [done|]. auto.
Qed.

Lemma map_find_set k k' v m :
  map_find k' (map_set k v m) = if decide (k' = k) then Some v else map_find k' m.
Proof.
  induction m as [|[k2 v2] m IH]; simpl; [done|].
  destruct (decide (k = k2)) as [->|E]; simpl; [by destruct (decide (k' = k2))|].
  destruct (key_lt k k2); simpl; rewrite ?IH; destruct (decide (k' = k)), (decide (k' = k2)); congruence.
Qed.

Lemma map_find_erase_ne k k' m : k' <> k -> map_find k' (map_erase k m) = map_find k' m.
Proof.
  intros Hne. induction m as [|[k2 v2] m IH]; simpl; [done|].
  destruct (decide (k = k2)) as [->|E]; simpl; [by rewrite decide_False|by rewrite IH].
Qed.

Lemma map_find_erase k m : ordered m -> map_find k (map_erase k m) = None.
Proof.
  intros Ho. destruct (map_find k (map_erase k m)) as [v|] eqn:E; [|done].
  apply map_find_In in E. by destruct (map_erase_other k m k v Ho E).
Qed.
End Maps.

(** * The multiplexing loops *)

(** Each option set was given by a client, with a size. *)
Definition sized (m : TrackingOptionsMap) : Prop := ∀ k (o : TrackingOptions), (k, o) ∈ m -> size o <> 0.

Lemma multiplexed_spec other m acc pm :
  sized m ->
  let mo := fst (multiplexed other m acc pm) in
  (mo = acc ∨ ∃ k, (k, mo) ∈ m ∧ other k = true)
  ∧ (size acc <> 0 -> size mo <> 0 ∧ minInterval mo <= minInterval acc)
  ∧ (∀ k (o : TrackingOptions), (k, o) ∈ m -> other k = true -> size mo <> 0 ∧ minInterval mo <= minInterval o).
Proof.
  revert acc pm. induction m as [|[k1 o1] m IH]; intros acc pm Hz; simpl.
  { split_and!; [by left|done|]. intros ? ? H. by apply elem_of_nil in H. }
  assert (sized m) as Hz' by (intros k o H; apply (Hz k o); by apply list_elem_of_further).
  assert (size o1 <> 0) as H1 by (apply (Hz k1 o1), list_elem_of_here).
  match goal with |- context [multiplexed other m ?a ?p] => destruct (IH a p Hz') as (A & B & C) end.
  revert A B C. generalize (fst (multiplexed other m
    (if other k1 && ((size acc =? 0) || (minInterval o1 <? minInterval acc)) then o1 else acc)
    (if other k1 && ((pm =? GNSS_POWER_MODE_INVALID) || (powerMode o1 <? pm)) then powerMode o1 else pm))).
  intros mo A B C. destruct (other k1) eqn:E1; simpl in *.
  - destruct ((size acc =? 0) || (minInterval o1 <? minInterval acc)) eqn:E2.
    + apply orb_true_iff in E2. rewrite Z.eqb_eq, Z.ltb_lt in E2. split_and!.
      * right. destruct A as [->|(k & ? & ?)]; [exists k1|exists k]; split; try done;
          [apply list_elem_of_here|by apply list_elem_of_further].
      * intros Ha. destruct (B H1). split; [done|lia].
      * intros k o [[= -> ->]|Hin]%elem_of_cons Ho; [by apply B|by apply (C k)].
    + apply orb_false_iff in E2. rewrite Z.eqb_neq, Z.ltb_ge in E2. split_and!.
      * destruct A as [->|(k & ? & ?)]; [by left|right; exists k; split; [by apply list_elem_of_further|done]].
      * done.
      * intros k o [[= -> ->]|Hin]%elem_of_cons Ho; [|by apply (C k)]. destruct (B (proj1 E2)). split; [done|lia].
  - split_and!.
    + destruct A as [->|(k & ? & ?)]; [by left|right; exists k; split; [by apply list_elem_of_further|done]].
    + done.
    + intros k o [[= -> ->]|Hin]%elem_of_cons Ho; [congruence|by apply (C k)].
Qed.

(** If there is a session to choose, the loop chooses one with the smallest
    interval. *)
Lemma multiplexed_min other m k0 o0 :
  sized m -> (k0, o0) ∈ m -> other k0 = true ->
  let mo := fst (multiplexed other m zero_options GNSS_POWER_MODE_INVALID) in
  (∃ k, (k, mo) ∈ m ∧ other k = true)
  ∧ ∀ k (o : TrackingOptions), (k, o) ∈ m -> other k = true -> minInterval mo <= minInterval o.
Proof.
  intros Hz Hin H0 mo. destruct (multiplexed_spec other m zero_options GNSS_POWER_MODE_INVALID Hz) as (A & _ & C).
  fold mo in A, C. split; [|intros k o Hk Ho; by apply (C k)].
  destruct A as [A|A]; [|done]. destruct (C k0 o0 Hin H0) as [Hs _]. by rewrite A in Hs.
Qed.

(** * What operations leave alone *)

(** The outputs that commands and LocApi make, not the processing of messages. *)
Definition is_env (o : output) : bool :=
  match o with OutCommand _ _ | OutEngineUp => true | _ => false end.
Definition env_outs (l : list output) : list output := filter (λ o, is_env o = true) l.

Lemma env_outs_snoc l o : env_outs (l ++ [o]) = if is_env o then env_outs l ++ [o] else env_outs l.
Proof.
  unfold env_outs. rewrite filter_app. destruct (is_env o) eqn:E.
  - by rewrite filter_cons_True, filter_nil.
  - rewrite filter_cons_False, filter_nil, app_nil_r; [done|by rewrite E].
Qed.

(** The parts of the state that only messages of their own change: the task,
    the clients, what waits for the engine, the statics of ContextBase. *)
Definition still (s : state) :=
  (tsk s, mSessionIdCounter s, env_outs (out s), mNHzNeeded (ad s), mClientData (ad s), mPowerStateCb (ad s),
   (mIsEngineCapabilitiesKnown (ad s), mPendingMsgs (ad s), mPendingGnssEnabledMsgs (ad s)),
   (mEngineLockState (api s), sIsEngineCapabilitiesKnown (api s), sSupportedMsgMask (api s), engine (api s))).

Lemma still_fields s s' :
  still s' = still s ->
  tsk s' = tsk s ∧ env_outs (out s') = env_outs (out s) ∧ mClientData (ad s') = mClientData (ad s)
  ∧ sIsEngineCapabilitiesKnown (api s') = sIsEngineCapabilitiesKnown (api s)
  ∧ sSupportedMsgMask (api s') = sSupportedMsgMask (api s).
Proof. unfold still. intros H. by inversion H. Qed.

(** The sessions. *)
Definition sess (s : state) := (tb s, db s, mPowerOn (ad s)).

Create Rewrite HintDb track.

Ltac solve_frame :=
  intros; unfold still, sess; repeat case_match; simplify_eq/=; done.

Lemma still_emit o s : is_env o = false -> still (emit o s) = still s.
Proof. intros H. unfold still. simpl. by rewrite env_outs_snoc, H. Qed.
Lemma still_rr c e i s : still (reportResponse c e i s) = still s.
Proof. by apply still_emit. Qed.
Lemma sess_rr c e i s : sess (reportResponse c e i s) = sess s.
Proof. done. Qed.
Lemma still_call r x s : still (call_api r x s) = still s.
Proof. done. Qed.
Lemma sess_call r x s : sess (call_api r x s) = sess s.
Proof. done. Qed.
Lemma sess_emit o s : sess (emit o s) = sess s.
Proof. done. Qed.
Lemma still_dgnss f s : still (on_ad (on_dgnss f) s) = still s.
Proof. done. Qed.
Lemma sess_dgnss f s : sess (on_ad (on_dgnss f) s) = sess s.
Proof. done. Qed.
Lemma still_spe b s : still (on_ad (set_SPEAtHighest b) s) = still s.
Proof. done. Qed.
Lemma sess_spe b s : sess (on_ad (set_SPEAtHighest b) s) = sess s.
Proof. done. Qed.
#[export] Hint Rewrite still_emit using done : track.
#[export] Hint Rewrite still_rr sess_rr still_call sess_call sess_emit still_dgnss sess_dgnss
  still_spe sess_spe : track.

Lemma still_power s : still (reportPowerStateIfChanged s) = still s.
Proof. unfold reportPowerStateIfChanged. cbv zeta. repeat case_match; by autorewrite with track. Qed.
#[export] Hint Rewrite still_power : track.

Lemma still_save c i o s : still (saveTrackingSession c i o s) = still s.
Proof. unfold saveTrackingSession. cbv zeta. rewrite still_power. by case_match. Qed.
Lemma still_erase c i s : still (eraseTrackingSession c i s) = still s.
Proof. unfold eraseTrackingSession. cbv zeta. rewrite still_power. by case_match. Qed.
#[export] Hint Rewrite still_save still_erase : track.

Lemma still_mode m s : still (setLocPositionMode m s) = still s.
Proof. unfold setLocPositionMode. by case_match. Qed.
Lemma sess_mode m s : sess (setLocPositionMode m s) = sess s.
Proof. unfold setLocPositionMode. by case_match. Qed.
#[export] Hint Rewrite still_mode sess_mode : track.

Lemma still_hub o s : still (prepare_hub o s) = still s.
Proof. unfold prepare_hub. by autorewrite with track. Qed.
Lemma sess_hub o s : sess (prepare_hub o s) = sess s.
Proof. unfold prepare_hub. by autorewrite with track. Qed.
#[export] Hint Rewrite still_hub sess_hub : track.

(** The rate check changes nothing but its own flag. *)
Lemma checkAndSet_frame o s o' b s' :
  checkAndSetSPEToRunforNHz o s = (o', b, s') -> still s' = still s ∧ sess s' = sess s.
Proof. unfold checkAndSetSPEToRunforNHz. repeat case_match; intros; by simplify_eq. Qed.

Ltac frame_check :=
  match goal with |- context [checkAndSetSPEToRunforNHz ?o ?s] =>
    let E := fresh in
    destruct (checkAndSetSPEToRunforNHz o s) as [[? ?] ?] eqn:E;
    apply checkAndSet_frame in E as [E ?]
  end.

Lemma start_frame c i o s :
  still (startTimeBasedTracking c i o s) = still s ∧ sess (startTimeBasedTracking c i o s) = sess s.
Proof.
  unfold startTimeBasedTracking. cbv zeta. frame_check.
  case_match; autorewrite with track in *; by split.
Qed.
Lemma updateTracking_frame c i o o' s :
  still (updateTracking c i o o' s) = still s ∧ sess (updateTracking c i o o' s) = sess s.
Proof.
  unfold updateTracking. cbv zeta. frame_check.
  case_match; autorewrite with track in *; by split.
Qed.
Definition still_start c i o s := proj1 (start_frame c i o s).
Definition sess_start c i o s := proj2 (start_frame c i o s).
Definition still_update c i o o' s := proj1 (updateTracking_frame c i o o' s).
Definition sess_update c i o o' s := proj2 (updateTracking_frame c i o o' s).
#[export] Hint Rewrite still_start sess_start still_update sess_update : track.

Lemma still_stopTracking c i s : still (stopTracking c i s) = still s.
Proof. unfold stopTracking. cbv zeta. by autorewrite with track. Qed.
Lemma sess_stopTracking c i s : sess (stopTracking c i s) = sess s.
Proof. done. Qed.
#[export] Hint Rewrite still_stopTracking sess_stopTracking : track.

Lemma startMux_frame c i o s b s' :
  startTimeBasedTrackingMultiplex c i o s = (b, s') -> still s' = still s ∧ sess s' = sess s.
Proof.
  unfold startTimeBasedTrackingMultiplex.
  repeat case_match; intros; simplify_eq; by autorewrite with track.
Qed.
Lemma updateMux_frame c i o s b s' :
  updateTrackingMultiplex c i o s = Some (b, s') -> still s' = still s ∧ sess s' = sess s.
Proof.
  unfold updateTrackingMultiplex.
  repeat case_match; intros; simplify_eq; by autorewrite with track.
Qed.
Lemma stopMux_frame c i s b s' :
  stopTimeBasedTrackingMultiplex c i s = (b, s') -> still s' = still s ∧ sess s' = sess s.
Proof.
  unfold stopTimeBasedTrackingMultiplex.
  repeat case_match; intros; simplify_eq; by autorewrite with track.
Qed.

Lemma restartTime_frame s :
  still (checkAndRestartTimeBasedSession s) = still s ∧ sess (checkAndRestartTimeBasedSession s) = sess s.
Proof.
  unfold checkAndRestartTimeBasedSession. destruct (tb s) eqn:E; [done|]. cbv zeta. frame_check.
  case_match; autorewrite with track in *; by split.
Qed.

(** A loop of steps that leave something alone leaves it alone. *)
Lemma foldl_frame {A B} (P : state -> B) (f : state -> A -> state) l s :
  (∀ s a, P (f s a) = P s) -> P (foldl f s l) = P s.
Proof. intros H. revert s. induction l as [|a l IH]; intros s; simpl; [done|]. by rewrite IH, H. Qed.

Lemma foldl_invariant {A} (I : state -> Prop) (f : state -> A -> state) l s :
  (∀ s a, I s -> I (f s a)) -> I s -> I (foldl f s l).
Proof. intros H. revert s. induction l as [|a l IH]; intros s HI; simpl; [done|]. by apply IH, H. Qed.

Lemma restartSPE_frame s :
  still (checkAndRestartSPESession s) = still s ∧ sess (checkAndRestartSPESession s) = sess s.
Proof.
  unfold checkAndRestartSPESession. cbv zeta.
  split; rewrite foldl_frame by (intros ? [? ?]; done).
  - rewrite (proj1 (restartTime_frame _)). done.
  - rewrite (proj2 (restartTime_frame _)). done.
Qed.
Lemma restart_frame t b s :
  still (restartSessions t b s) = still s ∧ sess (restartSessions t b s) = sess s.
Proof.
  unfold restartSessions. cbv zeta.
  split; [rewrite (proj1 (restartSPE_frame _))|rewrite (proj2 (restartSPE_frame _))];
    destruct b; case_match; cbv zeta; by autorewrite with track.
Qed.
Lemma suspend_frame s : still (suspendSessions s) = still s ∧ sess (suspendSessions s) = sess s.
Proof. unfold suspendSessions. case_match; cbv zeta; by autorewrite with track. Qed.
Definition still_restart t b s := proj1 (restart_frame t b s).
Definition sess_restart t b s := proj2 (restart_frame t b s).
Definition still_restartSPE s := proj1 (restartSPE_frame s).
Definition sess_restartSPE s := proj2 (restartSPE_frame s).
Definition still_suspend s := proj1 (suspend_frame s).
Definition sess_suspend s := proj2 (suspend_frame s).
#[export] Hint Rewrite still_restart sess_restart still_restartSPE sess_restartSPE
  still_suspend sess_suspend : track.

(** Uses the frame of a multiplexing call whose result is known. *)
Ltac mux_frames :=
  repeat match goal with
  | H : startTimeBasedTrackingMultiplex _ _ _ _ = _ |- _ => apply startMux_frame in H as [H ?]
  | H : stopTimeBasedTrackingMultiplex _ _ _ = _ |- _ => apply stopMux_frame in H as [H ?]
  | H : updateTrackingMultiplex _ _ _ _ = _ |- _ => apply updateMux_frame in H as [H ?]
  end.

(** * Examples *)

Definition ex_cbs : LocationCallbacks := Callbacks true true true false false false false false false.
Definition ex_opts (interval distance pm : Z) : TrackingOptions :=
  TrkOptions (LocOptions sizeof_TrackingOptions interval distance 0 0) pm 0.
