(* ===== verification/BatchingAdapter.v ===== *)
(** gps/batching/BatchingAdapter.cpp: batching sessions of clients, which the modem
    runs one by one, and trip sessions, which share one batch of the modem.

    As in GnssTracking.v, commands and events of LocApi become messages that one
    thread processes in order; a call of LocApi is answered later, by a message that
    runs the lambda that was given to it, here a value of [lambda].  LocApi answers its
    calls in order.  [None]: an iterator at the end of a map is dereferenced, or a node
    that was erased from a map is read, if erased nodes cannot be read. *)

From stdpp Require Import list gmap.
From S2P Require Import Prelude Runs.
From S2P Require GnssTracking GnssSessions.

Local Open Scope Z_scope.

(** * Data *)

Definition BATCHING_MODE_ROUTINE : Z := 0.
Definition BATCHING_MODE_TRIP : Z := 1.
Definition BATCHING_MODE_NO_AUTO_REPORT : Z := 2.
Definition BATCHING_STATUS_TRIP_COMPLETED : Z := 0.
Definition LOCATION_ERROR_SUCCESS : Z := 0.
Definition LOCATION_ERROR_CALLBACK_MISSING : Z := 2.
Definition LOCATION_ERROR_INVALID_PARAMETER : Z := 3.
Definition LOCATION_ERROR_ID_UNKNOWN : Z := 5.
Definition LOCATION_ERROR_NOT_SUPPORTED : Z := 8.
Definition LOCATION_ERROR_GNSS_DISABLED : Z := 10.

Inductive EngineLockState := LOCK_INVALID | LOCK_ENABLED | LOCK_DISABLED.
#[export] Instance EngineLockState_eq_dec : EqDecision EngineLockState.
Proof. solve_decision. Defined.

Record BatchingOptions := MkOptions { size : Z; minInterval : Z; minDistance : Z; mode : Z; batchingMode : Z }.
Definition default_options : BatchingOptions := MkOptions 0 0 0 0 BATCHING_MODE_ROUTINE.
Record TripSessionStatus := Trip {
  accumulatedDistanceOngoingBatch : Z; accumulatedDistanceThisTrip : Z; accumulatedDistanceOnTripRestart : Z;
  tripDistance : Z; tripTBFInterval : Z
}.
(** Which callbacks of a client are not null. *)
Record LocationCallbacks := MkCallbacks { capabilitiesCb : bool; responseCb : bool; batchingCb : bool; batchingStatusCb : bool }.

(** std::map; that of the trips has the identifiers of sessions as keys. *)
Abbreviation session_map := GnssTracking.session_map (only parsing).
Abbreviation Key := GnssTracking.SessionKey (only parsing).
Abbreviation find := GnssTracking.map_find (only parsing).
Abbreviation put := GnssTracking.map_set (only parsing).
Abbreviation erase := GnssTracking.map_erase (only parsing).
Definition trip_key (id : Z) : GnssTracking.LocationSessionKey := Key 0 id.

(** What is waiting for the answer of a call. *)
Inductive lambda :=
  | ForStart (client id : Z) (options : BatchingOptions) (pendingMsg : bool)
  | ForStop (client id : Z) (flpOptions : BatchingOptions) (restartNeeded : bool) (options : BatchingOptions)
  | ForBatch (client id : Z)
  | ForNothing
  | ForTripStart (client id : Z) (options : BatchingOptions)
  | ForNewTrip (client id : Z) (options : BatchingOptions)
  | ForNewTripRestart (client id : Z)
  | ForTripStop (client id : Z) (restartNeeded : bool) (options : BatchingOptions)
  | ForTripRestart (queryAccumulatedDistance : bool) (minRemainingDistance minTBFInterval accDist : Z)
  | ForRestarted (accumulatedDistance ongoingTripDistance ongoingTripInterval : Z)
  | ForEngineUp.

Inductive call :=
  | StartBatching (id : Z) (options : BatchingOptions) (accuracy timeout : Z)
  | StopBatching (id : Z)
  | GetBatchedLocations (count : Z)
  | GetBatchedTripLocations (count : Z)
  | StartOutdoorTripBatching (distance interval timeout : Z)
  | RestartOutdoorTripBatching (distance interval timeout : Z)
  | StopOutdoorTripBatching
  | QueryAccumulatedTripDistance.

Inductive msg :=
  | MsgAddClient (client : Z) (cbs : LocationCallbacks)
  | MsgRemoveClient (client : Z)
  | MsgReadConfig (batchSize tripBatchSize timeout accuracy : Z)
  | MsgSetConfig
  | MsgEngineLockStateEvent (st : EngineLockState)
  | MsgSSREvent
  | MsgStartBatching (client id : Z) (options : BatchingOptions)
  | MsgUpdateBatching (client id : Z) (options : BatchingOptions)
  | MsgStopBatching (client id : Z)
  | MsgGetBatchedLocations (client id count : Z)
  | MsgReportLocations (count batchingMode : Z)
  | MsgReportCompletedTrips (accumulatedDistance : Z)
  | MsgReportBatchStatus (status : Z)
  | MsgResponse (k : lambda) (err accumulatedDistance : Z).

Inductive output :=
  | OutResponse (client err id : Z)
  | OutCapabilities (clients : list Z)
  | OutLocations (client count batchingMode : Z)
  | OutStatus (client status : Z) (trips : list Z)
  | OutRemoved (client : Z)
  | OutBatchSize (batchSize tripBatchSize : Z).

(** [evt_full], [evt_status]: LOC_API_ADAPTER_BIT_BATCH_FULL and _STATUS in mEvtMask;
    [lock]: the state that LocApi keeps. *)
Record adapter := Adapter {
  mClientData : gmap Z LocationCallbacks; mBatchingSessions : session_map BatchingOptions;
  mTripSessions : session_map TripSessionStatus;
  mOngoingTripDistance : Z; mOngoingTripTBFInterval : Z; mTripWithOngoingTBFDropped : bool;
  mTripWithOngoingTripDistanceDropped : bool; mBatchingTimeout : Z; mBatchingAccuracy : Z; mBatchSize : Z;
  mTripBatchSize : Z; evt_full : bool; evt_status : bool; mIsEngineCapabilitiesKnown : bool;
  mPendingMsgs : list msg; mPendingGnssEnabledMsgs : list msg; lock : EngineLockState;
  msgs : list msg; calls : list (call * lambda); outputs : list output
}.

Definition set_clients v s := Adapter v (mBatchingSessions s) (mTripSessions s) (mOngoingTripDistance s)
  (mOngoingTripTBFInterval s) (mTripWithOngoingTBFDropped s) (mTripWithOngoingTripDistanceDropped s) (mBatchingTimeout
  s) (mBatchingAccuracy s) (mBatchSize s) (mTripBatchSize s) (evt_full s) (evt_status s) (mIsEngineCapabilitiesKnown
  s) (mPendingMsgs s) (mPendingGnssEnabledMsgs s) (lock s) (msgs s) (calls s) (outputs s).
Definition set_sessions v s := Adapter (mClientData s) v (mTripSessions s) (mOngoingTripDistance s)
  (mOngoingTripTBFInterval s) (mTripWithOngoingTBFDropped s) (mTripWithOngoingTripDistanceDropped s) (mBatchingTimeout
  s) (mBatchingAccuracy s) (mBatchSize s) (mTripBatchSize s) (evt_full s) (evt_status s) (mIsEngineCapabilitiesKnown
  s) (mPendingMsgs s) (mPendingGnssEnabledMsgs s) (lock s) (msgs s) (calls s) (outputs s).
Definition set_trips v s := Adapter (mClientData s) (mBatchingSessions s) v (mOngoingTripDistance s)
  (mOngoingTripTBFInterval s) (mTripWithOngoingTBFDropped s) (mTripWithOngoingTripDistanceDropped s) (mBatchingTimeout
  s) (mBatchingAccuracy s) (mBatchSize s) (mTripBatchSize s) (evt_full s) (evt_status s) (mIsEngineCapabilitiesKnown
  s) (mPendingMsgs s) (mPendingGnssEnabledMsgs s) (lock s) (msgs s) (calls s) (outputs s).
Definition set_ongoing v0 v1 s := Adapter (mClientData s) (mBatchingSessions s) (mTripSessions s) v0 v1
  (mTripWithOngoingTBFDropped s) (mTripWithOngoingTripDistanceDropped s) (mBatchingTimeout s) (mBatchingAccuracy s)
  (mBatchSize s) (mTripBatchSize s) (evt_full s) (evt_status s) (mIsEngineCapabilitiesKnown s) (mPendingMsgs s)
  (mPendingGnssEnabledMsgs s) (lock s) (msgs s) (calls s) (outputs s).
Definition set_dropped v0 v1 s := Adapter (mClientData s) (mBatchingSessions s) (mTripSessions s)
  (mOngoingTripDistance s) (mOngoingTripTBFInterval s) v0 v1 (mBatchingTimeout s) (mBatchingAccuracy s) (mBatchSize s)
  (mTripBatchSize s) (evt_full s) (evt_status s) (mIsEngineCapabilitiesKnown s) (mPendingMsgs s)
  (mPendingGnssEnabledMsgs s) (lock s) (msgs s) (calls s) (outputs s).
Definition set_config v0 v1 v2 v3 s := Adapter (mClientData s) (mBatchingSessions s) (mTripSessions s)
  (mOngoingTripDistance s) (mOngoingTripTBFInterval s) (mTripWithOngoingTBFDropped s)
  (mTripWithOngoingTripDistanceDropped s) v2 v3 v0 v1 (evt_full s) (evt_status s) (mIsEngineCapabilitiesKnown s)
  (mPendingMsgs s) (mPendingGnssEnabledMsgs s) (lock s) (msgs s) (calls s) (outputs s).
Definition set_full v s := Adapter (mClientData s) (mBatchingSessions s) (mTripSessions s) (mOngoingTripDistance s)
  (mOngoingTripTBFInterval s) (mTripWithOngoingTBFDropped s) (mTripWithOngoingTripDistanceDropped s) (mBatchingTimeout
  s) (mBatchingAccuracy s) (mBatchSize s) (mTripBatchSize s) v (evt_status s) (mIsEngineCapabilitiesKnown s)
  (mPendingMsgs s) (mPendingGnssEnabledMsgs s) (lock s) (msgs s) (calls s) (outputs s).
Definition set_status v s := Adapter (mClientData s) (mBatchingSessions s) (mTripSessions s) (mOngoingTripDistance s)
  (mOngoingTripTBFInterval s) (mTripWithOngoingTBFDropped s) (mTripWithOngoingTripDistanceDropped s) (mBatchingTimeout
  s) (mBatchingAccuracy s) (mBatchSize s) (mTripBatchSize s) (evt_full s) v (mIsEngineCapabilitiesKnown s)
  (mPendingMsgs s) (mPendingGnssEnabledMsgs s) (lock s) (msgs s) (calls s) (outputs s).
Definition set_known v s := Adapter (mClientData s) (mBatchingSessions s) (mTripSessions s) (mOngoingTripDistance s)
  (mOngoingTripTBFInterval s) (mTripWithOngoingTBFDropped s) (mTripWithOngoingTripDistanceDropped s) (mBatchingTimeout
  s) (mBatchingAccuracy s) (mBatchSize s) (mTripBatchSize s) (evt_full s) (evt_status s) v (mPendingMsgs s)
  (mPendingGnssEnabledMsgs s) (lock s) (msgs s) (calls s) (outputs s).
Definition set_pending v s := Adapter (mClientData s) (mBatchingSessions s) (mTripSessions s) (mOngoingTripDistance s)
  (mOngoingTripTBFInterval s) (mTripWithOngoingTBFDropped s) (mTripWithOngoingTripDistanceDropped s) (mBatchingTimeout
  s) (mBatchingAccuracy s) (mBatchSize s) (mTripBatchSize s) (evt_full s) (evt_status s) (mIsEngineCapabilitiesKnown
  s) v (mPendingGnssEnabledMsgs s) (lock s) (msgs s) (calls s) (outputs s).
Definition set_disabled v s := Adapter (mClientData s) (mBatchingSessions s) (mTripSessions s) (mOngoingTripDistance
  s) (mOngoingTripTBFInterval s) (mTripWithOngoingTBFDropped s) (mTripWithOngoingTripDistanceDropped s)
  (mBatchingTimeout s) (mBatchingAccuracy s) (mBatchSize s) (mTripBatchSize s) (evt_full s) (evt_status s)
  (mIsEngineCapabilitiesKnown s) (mPendingMsgs s) v (lock s) (msgs s) (calls s) (outputs s).
Definition set_lock v s := Adapter (mClientData s) (mBatchingSessions s) (mTripSessions s) (mOngoingTripDistance s)
  (mOngoingTripTBFInterval s) (mTripWithOngoingTBFDropped s) (mTripWithOngoingTripDistanceDropped s) (mBatchingTimeout
  s) (mBatchingAccuracy s) (mBatchSize s) (mTripBatchSize s) (evt_full s) (evt_status s) (mIsEngineCapabilitiesKnown
  s) (mPendingMsgs s) (mPendingGnssEnabledMsgs s) v (msgs s) (calls s) (outputs s).
Definition set_msgs v s := Adapter (mClientData s) (mBatchingSessions s) (mTripSessions s) (mOngoingTripDistance s)
  (mOngoingTripTBFInterval s) (mTripWithOngoingTBFDropped s) (mTripWithOngoingTripDistanceDropped s) (mBatchingTimeout
  s) (mBatchingAccuracy s) (mBatchSize s) (mTripBatchSize s) (evt_full s) (evt_status s) (mIsEngineCapabilitiesKnown
  s) (mPendingMsgs s) (mPendingGnssEnabledMsgs s) (lock s) v (calls s) (outputs s).
Definition set_calls v s := Adapter (mClientData s) (mBatchingSessions s) (mTripSessions s) (mOngoingTripDistance s)
  (mOngoingTripTBFInterval s) (mTripWithOngoingTBFDropped s) (mTripWithOngoingTripDistanceDropped s) (mBatchingTimeout
  s) (mBatchingAccuracy s) (mBatchSize s) (mTripBatchSize s) (evt_full s) (evt_status s) (mIsEngineCapabilitiesKnown
  s) (mPendingMsgs s) (mPendingGnssEnabledMsgs s) (lock s) (msgs s) v (outputs s).
Definition set_outputs v s := Adapter (mClientData s) (mBatchingSessions s) (mTripSessions s) (mOngoingTripDistance s)
  (mOngoingTripTBFInterval s) (mTripWithOngoingTBFDropped s) (mTripWithOngoingTripDistanceDropped s) (mBatchingTimeout
  s) (mBatchingAccuracy s) (mBatchSize s) (mTripBatchSize s) (evt_full s) (evt_status s) (mIsEngineCapabilitiesKnown
  s) (mPendingMsgs s) (mPendingGnssEnabledMsgs s) (lock s) (msgs s) (calls s) v.

Definition emit o s := set_outputs (outputs s ++ [o]) s.
Definition sendMsg m s := set_msgs (msgs s ++ [m]) s.
(** A call of LocApi, with what is to be done with its answer. *)
Definition call_api (c : call) (k : lambda) s := set_calls (calls s ++ [(c, k)]) s.

Definition init : adapter :=
  Adapter ∅ [] [] 0 0 false false 0 1 0 0 false false false [] [] LOCK_ENABLED [] [] [].

(** * Operations *)

Section batching.
(** LOC_API_ADAPTER_MESSAGE_DISTANCE_BASE_LOCATION_BATCHING is supported; a node that
    std::map::erase has freed can still be read. *)
Context (supported erased_readable : bool).

Definition auto_report (o : BatchingOptions) : bool := negb (batchingMode o =? BATCHING_MODE_NO_AUTO_REPORT).
Fixpoint auto_reports (m : session_map BatchingOptions) : nat :=
  match m with [] => 0 | (_, o) :: m => (if auto_report o then 1 else 0) + auto_reports m end.
Definition autoReportBatchingSessionsCount (s : adapter) : Z :=
  Z.of_nat (auto_reports (mBatchingSessions s) + length (mTripSessions s)).
Definition hasBatchingCallback (client : Z) (s : adapter) : bool :=
  match mClientData s !! client with Some c => batchingCb c | None => false end.
Definition isBatchingSession (client id : Z) (s : adapter) : bool :=
  match find (Key client id) (mBatchingSessions s) with Some _ => true | None => false end.
Definition isTripSession (id : Z) (s : adapter) : bool :=
  match find (trip_key id) (mTripSessions s) with Some _ => true | None => false end.
Definition saveBatchingSession (client id : Z) (o : BatchingOptions) (s : adapter) : adapter :=
  set_sessions (put (Key client id) o (mBatchingSessions s)) s.
Definition eraseBatchingSession (client id : Z) (s : adapter) : adapter :=
  set_sessions (erase (Key client id) (mBatchingSessions s)) s.
Definition reportResponse (client err id : Z) (s : adapter) : adapter :=
  match mClientData s !! client with
  | Some c => if responseCb c then emit (OutResponse client err id) s else s
  | None => s
  end.

(** ** Sessions of the modem *)

Definition startBatching (client id : Z) (o : BatchingOptions) (pendingMsg : bool) (s : adapter) : adapter :=
  let s := if auto_report o && (autoReportBatchingSessionsCount s =? 0) then set_full true s else s in
  let s := saveBatchingSession client id o s in
  call_api (StartBatching id o (mBatchingAccuracy s) (mBatchingTimeout s)) (ForStart client id o pendingMsg) s.
Definition batching_started (client id : Z) (o : BatchingOptions) (pendingMsg : bool) (err : Z) (s : adapter) : adapter :=
  let failed := negb (err =? LOCATION_ERROR_SUCCESS) in
  let s := if bool_decide (lock s = LOCK_ENABLED) && failed then eraseBatchingSession client id s else s in
  let s := if failed && auto_report o && (autoReportBatchingSessionsCount s =? 0) then set_full false s else s in
  let s := if (err =? LOCATION_ERROR_GNSS_DISABLED) && pendingMsg
           then set_disabled (mPendingGnssEnabledMsgs s ++ [MsgStartBatching client id o]) s else s in
  reportResponse client err id s.

Definition stopBatching (client id : Z) (restartNeeded : bool) (o : BatchingOptions) (s : adapter) : adapter :=
  match find (Key client id) (mBatchingSessions s) with
  | Some flpOptions =>
      call_api (StopBatching id) (ForStop client id flpOptions restartNeeded o) (eraseBatchingSession client id s)
  | None => s
  end.

(** ** Trips *)

Definition startTripBatchingMultiplex (client id : Z) (o : BatchingOptions) (s : adapter) : adapter :=
  match mTripSessions s with
  | [] =>
      let s := if autoReportBatchingSessionsCount s =? 0 then set_full true s else s in
      let s := saveBatchingSession client id o s in
      let s := set_trips (put (trip_key id) (Trip 0 0 0 (minDistance o) (minInterval o)) (mTripSessions s)) s in
      call_api (StartOutdoorTripBatching (minDistance o) (minInterval o) (mBatchingTimeout s)) (ForTripStart client id o) s
  | _ => call_api QueryAccumulatedTripDistance (ForNewTrip client id o) s
  end.
Definition trip_started (client id : Z) (o : BatchingOptions) (err : Z) (s : adapter) : adapter :=
  let s :=
    if bool_decide (lock s = LOCK_DISABLED) || (err =? LOCATION_ERROR_SUCCESS)
    then set_ongoing (minDistance o) (minInterval o) s
    else
      let s := eraseBatchingSession client id s in
      let s := set_trips (erase (trip_key id) (mTripSessions s)) s in
      if autoReportBatchingSessionsCount s =? 0 then set_full false s else s in
  reportResponse client err id s.

Definition on_trips (f : TripSessionStatus -> TripSessionStatus) (s : adapter) : adapter :=
  set_trips ((λ p, (p.1, f p.2)) <$> mTripSessions s) s.
(** The distance so far was asked for: whether the batch starts anew for a trip. *)
Definition new_trip (client id : Z) (o : BatchingOptions) (err accumulatedDistance : Z) (s : adapter) : adapter :=
  let shorter := minInterval o <? mOngoingTripTBFInterval s in
  let interval := if shorter then minInterval o else mOngoingTripTBFInterval s in
  let '(distance, needsRestart, s) :=
    if negb (err =? LOCATION_ERROR_SUCCESS) then
      if minDistance o <? mOngoingTripDistance s then (minDistance o, true, s) else (mOngoingTripDistance s, shorter, s)
    else
      let remaining := wrap_u 32 (mOngoingTripDistance s - accumulatedDistance) in
      let s' := set_trips (put (trip_key id) (Trip accumulatedDistance 0 0 (minDistance o) (minInterval o)) (mTripSessions s)) s in
      if minDistance o <? remaining then (minDistance o, true, s')
      else if shorter then (remaining, true, s') else (mOngoingTripDistance s, false, s') in
  if needsRestart then
    let s := set_ongoing distance interval s in
    let s := on_trips (λ t, Trip 0 (accumulatedDistanceThisTrip t) (accumulatedDistanceThisTrip t) (tripDistance t) (tripTBFInterval t)) s in
    call_api (RestartOutdoorTripBatching distance interval (mBatchingTimeout s)) (ForNewTripRestart client id) s
  else reportResponse client LOCATION_ERROR_SUCCESS id s.

(** The smallest remaining distance and interval; 0 is taken for none. *)
Definition remaining (t : TripSessionStatus) : Z := wrap_u 32 (tripDistance t - accumulatedDistanceThisTrip t).
Definition smallest (f : TripSessionStatus -> Z) (l : session_map TripSessionStatus) : Z :=
  foldl (λ m p, if (m =? 0) || (f p.2 <? m) then f p.2 else m) 0 l.
Definition restartTripBatching (queryAccumulatedDistance : bool) (accDist : Z) (s : adapter) : adapter :=
  match mTripSessions s with
  | [] =>
      let s := set_ongoing 0 0 (call_api StopOutdoorTripBatching ForNothing s) in
      if autoReportBatchingSessionsCount s =? 0 then set_full false s else s
  | l => call_api QueryAccumulatedTripDistance
           (ForTripRestart queryAccumulatedDistance (smallest remaining l) (smallest tripTBFInterval l) accDist) s
  end.
Definition trip_restart (query : bool) (minRemainingDistance minTBFInterval accDist data : Z) (s : adapter) : adapter :=
  let accumulatedDistance := if query then data else accDist in
  let left := wrap_u 32 (mOngoingTripDistance s - accumulatedDistance) in
  let '(distance, restart1) :=
    if negb (mTripWithOngoingTripDistanceDropped s) && negb (left =? 0)
    then if minRemainingDistance <? left then (minRemainingDistance, true) else (mOngoingTripDistance s, false)
    else if negb (minRemainingDistance =? 0) then (minRemainingDistance, true) else (mOngoingTripDistance s, false) in
  let '(interval, restart2) :=
    if (minTBFInterval <? mOngoingTripTBFInterval s)
       || (negb (minTBFInterval =? mOngoingTripTBFInterval s) && mTripWithOngoingTBFDropped s)
    then (minTBFInterval, true) else (mOngoingTripTBFInterval s, false) in
  if restart1 || restart2
  then call_api (RestartOutdoorTripBatching distance interval (mBatchingTimeout s))
         (ForRestarted accumulatedDistance distance interval) s
  else s.
Definition restarted (t : TripSessionStatus) (accumulatedDistance : Z) : TripSessionStatus :=
  let d := wrap_u 32 (accumulatedDistanceOnTripRestart t + (accumulatedDistance - accumulatedDistanceOngoingBatch t)) in
  Trip 0 d d (tripDistance t) (tripTBFInterval t).
Definition trip_restarted (accumulatedDistance distance interval err : Z) (s : adapter) : adapter :=
  if err =? LOCATION_ERROR_SUCCESS
  then set_ongoing distance interval (on_trips (λ t, restarted t accumulatedDistance) s)
  else s.

(** The entry of the map is read without a test that it was found. *)
Definition stopTripBatchingMultiplexCommon (err client id : Z) (restartNeeded : bool) (o : BatchingOptions) (s : adapter) :
    option adapter :=
  t ← find (trip_key id) (mTripSessions s);
  let s := set_dropped (mTripWithOngoingTBFDropped s || (tripTBFInterval t =? mOngoingTripTBFInterval s))
             (mTripWithOngoingTripDistanceDropped s || (tripDistance t =? mOngoingTripDistance s)) s in
  let s := set_trips (erase (trip_key id) (mTripSessions s)) s in
  let s := match mTripSessions s with [] => set_ongoing 0 0 s | _ => restartTripBatching true 0 s end in
  let s :=
    if restartNeeded then
      let s := eraseBatchingSession client id s in
      if (batchingMode o =? BATCHING_MODE_ROUTINE) || (batchingMode o =? BATCHING_MODE_NO_AUTO_REPORT)
      then startBatching client id o false s
      else if batchingMode o =? BATCHING_MODE_TRIP then startTripBatchingMultiplex client id o s else s
    else s in
  Some (reportResponse client err id s).
Definition stopTripBatchingMultiplex (client id : Z) (restartNeeded : bool) (o : BatchingOptions) (s : adapter) : option adapter :=
  if (length (mTripSessions s) =? 1)%nat
  then Some (call_api StopOutdoorTripBatching (ForTripStop client id restartNeeded o) s)
  else stopTripBatchingMultiplexCommon LOCATION_ERROR_SUCCESS client id restartNeeded o s.
Definition trip_stopped (client id : Z) (restartNeeded : bool) (o : BatchingOptions) (err : Z) (s : adapter) : option adapter :=
  let s := if (err =? LOCATION_ERROR_SUCCESS) && (autoReportBatchingSessionsCount s =? 1) then set_full false s else s in
  stopTripBatchingMultiplexCommon err client id restartNeeded o s.

Definition batching_stopped (client id : Z) (flpOptions : BatchingOptions) (restartNeeded : bool) (o : BatchingOptions)
    (err : Z) (s : adapter) : adapter :=
  let s :=
    if bool_decide (lock s = LOCK_ENABLED) && negb (err =? LOCATION_ERROR_SUCCESS) then saveBatchingSession client id o s
    else
      let s := if (autoReportBatchingSessionsCount s =? 0) && auto_report flpOptions then set_full false s else s in
      if restartNeeded then
        if (batchingMode o =? BATCHING_MODE_ROUTINE) || (batchingMode o =? BATCHING_MODE_NO_AUTO_REPORT)
        then startBatching client id o false s
        else if batchingMode o =? BATCHING_MODE_TRIP then startTripBatchingMultiplex client id o s else s
      else s in
  reportResponse client err id s.

(** ** Clients and the engine *)

Definition updateClientsEventMask (s : adapter) : adapter :=
  set_full (0 <? autoReportBatchingSessionsCount s)
    (set_status (existsb (λ p, batchingCb p.2) (map_to_list (mClientData s))) s).
Definition saveClient (client : Z) (c : LocationCallbacks) (s : adapter) : adapter :=
  updateClientsEventMask (set_clients (<[client := c]> (mClientData s)) s).
Definition eraseClient (client : Z) (s : adapter) : adapter :=
  updateClientsEventMask (set_clients (delete client (mClientData s)) s).
Definition sessions_of (client : Z) (s : adapter) : list (GnssTracking.LocationSessionKey * BatchingOptions) :=
  filter (λ p, GnssTracking.client p.1 = client) (mBatchingSessions s).
Definition stop_session (client : Z) (s : option adapter) (p : GnssTracking.LocationSessionKey * BatchingOptions) : option adapter :=
  s ← s;
  if batchingMode p.2 =? BATCHING_MODE_TRIP
  then stopTripBatchingMultiplex client (GnssTracking.id p.1) false default_options s
  else Some (stopBatching client (GnssTracking.id p.1) false default_options s).
Definition stopClientSessions (client : Z) (s : adapter) : option adapter :=
  foldl (stop_session client) (Some s) (sessions_of client s).
Definition clients_with (f : LocationCallbacks -> bool) (s : adapter) : list Z :=
  (filter (λ p, f p.2 = true) (map_to_list (mClientData s))).*1.
Definition broadcastCapabilities (s : adapter) : adapter := emit (OutCapabilities (clients_with capabilitiesCb s)) s.

(** The references into mTripSessions are to copies: what is written there is lost. *)
Definition restart_one (s : adapter) (p : GnssTracking.LocationSessionKey * BatchingOptions) : adapter :=
  if batchingMode p.2 =? BATCHING_MODE_TRIP then s
  else call_api (StartBatching (GnssTracking.id p.1) p.2 (mBatchingAccuracy s) (mBatchingTimeout s)) ForNothing s.
Definition restartSessions (s : adapter) : adapter :=
  let s := if 0 <? autoReportBatchingSessionsCount s then set_full true s else s in
  let s := foldl restart_one s (mBatchingSessions s) in
  match mTripSessions s with
  | [] => s
  | l =>
      let s := set_ongoing (smallest remaining l) (smallest tripTBFInterval l) s in
      call_api (StartOutdoorTripBatching (mOngoingTripDistance s) (mOngoingTripTBFInterval s) (mBatchingTimeout s)) ForEngineUp s
  end.
Definition handleEngineLockStatus (st : EngineLockState) (s : adapter) : adapter :=
  if decide (st = LOCK_ENABLED) then set_disabled [] (set_msgs (msgs s ++ mPendingGnssEnabledMsgs s) s) else s.
Definition handleEngineUp (s : adapter) : adapter :=
  let s := broadcastCapabilities (set_known true s) in
  let s := emit (OutBatchSize (mBatchSize s) (mTripBatchSize s)) s in
  if decide (lock s = LOCK_ENABLED)
  then let s := restartSessions s in set_pending [] (set_msgs (msgs s ++ mPendingMsgs s) s)
  else s.

(** ** Reports *)

Definition reportLocations (count batchingMode : Z) (s : adapter) : adapter :=
  foldl (λ s c, emit (OutLocations c count batchingMode) s) s (clients_with batchingCb s).
Definition reportBatchStatusChange (status : Z) (trips : list Z) (s : adapter) : adapter :=
  foldl (λ s c, emit (OutStatus c status trips) s) s (clients_with batchingStatusCb s).
Definition advanced (t : TripSessionStatus) (acc : Z) : TripSessionStatus :=
  Trip (accumulatedDistanceOngoingBatch t)
    (wrap_u 32 (accumulatedDistanceOnTripRestart t + (acc - accumulatedDistanceOngoingBatch t)))
    (accumulatedDistanceOnTripRestart t) (tripDistance t) (tripTBFInterval t).
Definition completed (t : TripSessionStatus) : bool := tripDistance t <=? accumulatedDistanceThisTrip t.
(** A completed trip is compared with the ongoing batch after its node was erased. *)
Definition reportCompletedTrips (acc : Z) (s : adapter) : option adapter :=
  let l := (λ p, (p.1, advanced p.2 acc)) <$> mTripSessions s in
  let done := filter (λ p, completed p.2 = true) l in
  let s' := set_trips (filter (λ p, completed p.2 = false) l) s in
  match done with
  | [] => Some s'
  | _ =>
      if erased_readable then
        let s' := set_dropped
          (mTripWithOngoingTBFDropped s || existsb (λ p, tripTBFInterval p.2 =? mOngoingTripTBFInterval s) done)
          (mTripWithOngoingTripDistanceDropped s || existsb (λ p, tripDistance p.2 =? mOngoingTripDistance s) done) s' in
        let s' := reportBatchStatusChange BATCHING_STATUS_TRIP_COMPLETED ((λ p, GnssTracking.id p.1) <$> done) s' in
        Some (restartTripBatching false acc s')
      else None
  end.

(** ** Messages *)

Definition respond (k : lambda) (err data : Z) (s : adapter) : option adapter :=
  match k with
  | ForStart c i o p => Some (batching_started c i o p err s)
  | ForStop c i f r o => Some (batching_stopped c i f r o err s)
  | ForBatch c i => Some (reportResponse c err i s)
  | ForNothing => Some s
  | ForTripStart c i o => Some (trip_started c i o err s)
  | ForNewTrip c i o => Some (new_trip c i o err data s)
  | ForNewTripRestart c i => Some (reportResponse c err i s)
  | ForTripStop c i r o => trip_stopped c i r o err s
  | ForTripRestart q d t a => Some (trip_restart q d t a data s)
  | ForRestarted a d t => Some (trip_restarted a d t err s)
  | ForEngineUp => Some (if err =? LOCATION_ERROR_SUCCESS then s else set_ongoing 0 0 s)
  end.

Definition pend (m : msg) (s : adapter) : adapter := set_pending (mPendingMsgs s ++ [m]) s.
(** The errors of a start, an update and a stop are not reported to the client. *)
Definition proc_start (c i : Z) (o : BatchingOptions) (s : adapter) : option adapter :=
  if negb (mIsEngineCapabilitiesKnown s) then Some (pend (MsgStartBatching c i o) s)
  else if negb (hasBatchingCallback c s) then Some s
  else if size o =? 0 then Some s
  else if negb supported then Some s
  else if (batchingMode o =? BATCHING_MODE_ROUTINE) || (batchingMode o =? BATCHING_MODE_NO_AUTO_REPORT)
  then Some (startBatching c i o true s)
  else if batchingMode o =? BATCHING_MODE_TRIP then Some (startTripBatchingMultiplex c i o s)
  else Some (reportResponse c LOCATION_ERROR_INVALID_PARAMETER i s).
Definition proc_update (c i : Z) (o : BatchingOptions) (s : adapter) : option adapter :=
  if negb (mIsEngineCapabilitiesKnown s) then Some (pend (MsgUpdateBatching c i o) s)
  else if negb (isBatchingSession c i s) then Some s
  else if (size o =? 0) || (BATCHING_MODE_NO_AUTO_REPORT <? batchingMode o) then Some s
  else if isTripSession i s then stopTripBatchingMultiplex c i true o s
  else Some (stopBatching c i true o s).
Definition proc_stop (c i : Z) (s : adapter) : option adapter :=
  if negb (mIsEngineCapabilitiesKnown s) then Some (pend (MsgStopBatching c i) s)
  else if negb (isBatchingSession c i s) then Some s
  else if isTripSession i s then stopTripBatchingMultiplex c i false default_options s
  else Some (stopBatching c i false default_options s).
Definition proc_get (c i n : Z) (s : adapter) : option adapter :=
  if negb (mIsEngineCapabilitiesKnown s) then Some (pend (MsgGetBatchedLocations c i n) s)
  else if negb (hasBatchingCallback c s) then Some (reportResponse c LOCATION_ERROR_CALLBACK_MISSING i s)
  else if negb (isBatchingSession c i s) then Some (reportResponse c LOCATION_ERROR_ID_UNKNOWN i s)
  else Some (call_api (if isTripSession i s then GetBatchedTripLocations n else GetBatchedLocations n) (ForBatch c i) s).
Definition proc (m : msg) (s : adapter) : option adapter :=
  match m with
  | MsgAddClient c cbs => Some (saveClient c cbs s)
  | MsgRemoveClient c => s ← stopClientSessions c s; Some (emit (OutRemoved c) (eraseClient c s))
  | MsgReadConfig b t tm a => Some (set_config b t tm a s)
  | MsgSetConfig => Some (emit (OutBatchSize (mBatchSize s) (mTripBatchSize s)) s)
  | MsgEngineLockStateEvent st => Some (handleEngineLockStatus st s)
  | MsgSSREvent => Some (handleEngineUp s)
  | MsgStartBatching c i o => proc_start c i o s
  | MsgUpdateBatching c i o => proc_update c i o s
  | MsgStopBatching c i => proc_stop c i s
  | MsgGetBatchedLocations c i n => proc_get c i n s
  | MsgReportLocations n b => Some (reportLocations n b s)
  | MsgReportCompletedTrips acc => reportCompletedTrips acc s
  | MsgReportBatchStatus st => Some (reportBatchStatusChange st [] s)
  | MsgResponse k err data => respond k err data s
  end.

(** ** Steps *)

(** A command or an event is sent; the thread of messages processes one; LocApi answers
    its oldest call; the state of the engine's lock changes. *)
Inductive event := Send (m : msg) | Task | Answer (err data : Z) | EngineLock (st : EngineLockState).

Definition step (s : adapter) (e : event) : option adapter :=
  match e with
  | Send m => Some (sendMsg m s)
  | Task => match msgs s with m :: l => proc m (set_msgs l s) | [] => Some s end
  | Answer err data =>
      match calls s with
      | (_, k) :: l => Some (sendMsg (MsgResponse k err data) (set_calls l s))
      | [] => Some s
      end
  | EngineLock st => Some (sendMsg (MsgEngineLockStateEvent st) (set_lock st s))
  end.
End batching.
