(* ===== verification/BatchingProps.v ===== *)
(** The batching adapter (BatchingAdapter.v) is told of full batches as long as a
    session asks for reports; runs in which it fails its clients. *)

From stdpp Require Import list gmap.
From S2P Require Import Prelude Runs BatchingAdapter.
From S2P Require GnssTracking GnssSessions.

Local Open Scope Z_scope.

Section props.
Context (supported erased_readable : bool).

(** * Registration for full batches *)

Abbreviation count := autoReportBatchingSessionsCount.
(** Sessions that report are covered by the registration. *)
Definition covered (s : adapter) : Prop := 0 < count s -> evt_full s = true.

Lemma cnt_erase k m : (auto_reports (GnssTracking.map_erase k m) ≤ auto_reports m)%nat.
Proof. induction m as [|[k' v] m IH]; [done|]. cbn. case_decide; cbn; lia. Qed.
Lemma cnt_put k o m : auto_report o = false -> (auto_reports (GnssTracking.map_set k o m) ≤ auto_reports m)%nat.
Proof.
  intros Ho. induction m as [|[k' v] m IH]; cbn; [by rewrite Ho|]. case_decide; [cbn; rewrite Ho; lia|].
  case_match; cbn; rewrite ?Ho; lia.
Qed.
Lemma length_erase {V} k (m : GnssTracking.session_map V) v :
  GnssTracking.map_find k m = Some v -> length m = S (length (GnssTracking.map_erase k m)).
Proof.
  induction m as [|[k' v'] m IH]; [done|]. cbn. repeat case_decide; [done|]. intros E. cbn. by rewrite IH.
Qed.
Lemma length_erase_le {V} k (m : GnssTracking.session_map V) : (length (GnssTracking.map_erase k m) ≤ length m)%nat.
Proof. induction m as [|[k' v'] m IH]; [done|]. cbn. case_decide; cbn; lia. Qed.

(** Only the sessions and the registration matter. *)
Lemma covered_same s s' :
  mBatchingSessions s' = mBatchingSessions s -> mTripSessions s' = mTripSessions s -> evt_full s' = evt_full s ->
  covered s -> covered s'.
Proof. unfold covered, count. by intros -> -> ->. Qed.
Lemma covered_less s s' :
  count s' ≤ count s -> evt_full s' = evt_full s -> covered s -> covered s'.
Proof. unfold covered. intros H -> Hc Hp. apply Hc. lia. Qed.
Lemma covered_true s : evt_full s = true -> covered s.
Proof. by intros H _. Qed.
Lemma covered_none s : count s = 0 -> covered s.
Proof. intros H ?. lia. Qed.
Lemma covered_off (b : bool) s : covered s -> covered (if b && (count s =? 0) then set_full false s else s).
Proof. intros H. destruct b, (Z.eqb_spec (count s) 0); try done. by apply covered_none. Qed.

Lemma covered_report c e i s : covered s -> covered (reportResponse c e i s).
Proof. intros H. unfold reportResponse. by repeat case_match. Qed.
Lemma covered_erase c i s : covered s -> covered (eraseBatchingSession c i s).
Proof.
  apply covered_less; [|done]. unfold eraseBatchingSession, count, set_sessions. cbn [mBatchingSessions mTripSessions].
  pose proof (cnt_erase (GnssTracking.SessionKey c i) (mBatchingSessions s)). lia.
Qed.
Lemma covered_save c i o s : (auto_report o = true -> evt_full s = true) -> covered s -> covered (saveBatchingSession c i o s).
Proof.
  intros Ho. destruct (auto_report o) eqn:E; [intros _; by apply covered_true, Ho|].
  apply covered_less; [|done]. unfold saveBatchingSession, count, set_sessions. cbn [mBatchingSessions mTripSessions].
  pose proof (cnt_put (GnssTracking.SessionKey c i) o (mBatchingSessions s) E). lia.
Qed.
(** The registration before a session is added. *)
Lemma registered (b : bool) s :
  covered s -> let s' := if b && (count s =? 0) then set_full true s else s in
  (b = true -> evt_full s' = true) ∧ covered s'.
Proof.
  intros H. cbv zeta. destruct b; cbn [andb]; [|done].
  destruct (Z.eqb_spec (count s) 0) as [E|E]; [by split; [|apply covered_true]|].
  split; [|done]. intros _. apply H. unfold count in *. lia.
Qed.
Lemma covered_start c i o p s : covered s -> covered (startBatching c i o p s).
Proof.
  intros H. unfold startBatching. destruct (registered (auto_report o) s H) as [Ha Hc]. cbv zeta in *.
  set (s1 := if _ && _ then _ else _) in *. clearbody s1.
  eapply (covered_same (saveBatchingSession c i o s1)); [done..|]. by apply covered_save.
Qed.
Lemma covered_stop c i r o s : covered s -> covered (stopBatching c i r o s).
Proof. intros H. unfold stopBatching. case_match; [|done]. by apply (covered_same (eraseBatchingSession c i s)), covered_erase. Qed.
Lemma covered_erase_trip k s : covered s -> covered (set_trips (GnssTracking.map_erase k (mTripSessions s)) s).
Proof.
  apply covered_less; [|done]. unfold count, set_trips. cbn [mBatchingSessions mTripSessions].
  pose proof (length_erase_le k (mTripSessions s)). lia.
Qed.
Lemma covered_started c i o p err s : covered s -> covered (batching_started c i o p err s).
Proof.
  intros H. unfold batching_started. apply covered_report. set (s1 := if bool_decide _ && _ then _ else s).
  assert (covered s1) as H1 by (subst s1; case_match; [by apply covered_erase|done]). clearbody s1.
  set (s2 := if _ && _ && _ then _ else s1). assert (covered s2) as H2 by (by apply covered_off). clearbody s2. by case_match.
Qed.
Lemma covered_tripStart c i o s : covered s -> covered (startTripBatchingMultiplex c i o s).
Proof.
  intros H. unfold startTripBatchingMultiplex. destruct (mTripSessions s) eqn:E; [|done].
  destruct (registered true s H) as [Ha _]. cbv zeta in *. cbn [andb] in *. by apply covered_true, Ha.
Qed.
Lemma covered_trip_started c i o err s : covered s -> covered (trip_started c i o err s).
Proof.
  intros H. unfold trip_started. apply covered_report. case_match; [done|].
  apply (covered_off true), covered_erase_trip. by apply covered_erase.
Qed.
Lemma covered_trips f s : covered s -> covered (on_trips f s).
Proof.
  apply covered_less; [|done]. unfold count, on_trips, set_trips. cbn [mBatchingSessions mTripSessions].
  rewrite length_fmap. lia.
Qed.
Lemma covered_restartTrip q a s : covered s -> covered (restartTripBatching q a s).
Proof. intros H. unfold restartTripBatching. case_match; [|done]. by apply (covered_off true). Qed.
Lemma covered_new_trip c i o err acc s : 0 < count s -> covered s -> covered (new_trip c i o err acc s).
Proof.
  intros Hp H. assert (evt_full s = true) as Hf by auto. apply covered_true. unfold new_trip, reportResponse, call_api.
  repeat case_match; simplify_eq/=; done.
Qed.
Lemma covered_trip_restart q d t a data s : covered s -> covered (trip_restart q d t a data s).
Proof. intros H. unfold trip_restart. by repeat case_match. Qed.
Lemma covered_trip_restarted a d t err s : covered s -> covered (trip_restarted a d t err s).
Proof. intros H. unfold trip_restarted. case_match; [|done]. by apply (covered_same (on_trips (λ t, restarted t a) s)), covered_trips. Qed.

(** The session that is read is the only one that the registration may not cover. *)
Lemma covered_common err c i r o s s' :
  (∀ t, GnssTracking.map_find (trip_key i) (mTripSessions s) = Some t ->
     covered (set_trips (GnssTracking.map_erase (trip_key i) (mTripSessions s)) s)) ->
  stopTripBatchingMultiplexCommon err c i r o s = Some s' -> covered s'.
Proof.
  intros H. unfold stopTripBatchingMultiplexCommon. destruct (GnssTracking.map_find _ _) as [t|]; [|done]. cbn [mbind option_bind].
  specialize (H t eq_refl). intros <-%(inj Some). apply covered_report. set (s1 := set_trips _ _). assert (covered s1) as H1 by done.
  clearbody s1. clear H. set (s2 := match mTripSessions s1 with [] => set_ongoing 0 0 s1 | _ => restartTripBatching true 0 s1 end).
  assert (covered s2) as H2 by (subst s2; destruct (mTripSessions s1); [exact H1|by apply covered_restartTrip]). clearbody s2. destruct r; [|exact H2].
  repeat case_match; [apply covered_start|apply covered_tripStart|]; by apply covered_erase.
Qed.
Lemma covered_stopTrip c i r o s s' : covered s -> stopTripBatchingMultiplex c i r o s = Some s' -> covered s'.
Proof.
  intros H. unfold stopTripBatchingMultiplex. case_match; [by intros [= <-]|]. apply covered_common.
  intros t _. by apply covered_erase_trip.
Qed.
Lemma covered_trip_stopped c i r o err s s' : covered s -> trip_stopped c i r o err s = Some s' -> covered s'.
Proof.
  intros H. unfold trip_stopped. set (s1 := if _ && _ then _ else s). apply covered_common. intros t Ht. subst s1.
  destruct ((err =? LOCATION_ERROR_SUCCESS) && (count s =? 1)) eqn:E; [|by apply covered_erase_trip].
  apply andb_true_iff in E as [_ E%Z.eqb_eq]. apply covered_none. unfold count, set_trips, set_full in *. cbn in *.
  rewrite (length_erase _ _ _ Ht) in E. lia.
Qed.
Lemma covered_stopped c i f r o err s :
  (err = LOCATION_ERROR_SUCCESS ∨ lock s ≠ LOCK_ENABLED) -> covered s -> covered (batching_stopped c i f r o err s).
Proof.
  intros He H. unfold batching_stopped. apply covered_report.
  assert (bool_decide (lock s = LOCK_ENABLED) && negb (err =? LOCATION_ERROR_SUCCESS) = false) as ->.
  { destruct He as [->|He]; [by rewrite andb_false_r|]. by rewrite bool_decide_eq_false_2. }
  set (s1 := if _ && _ then _ else s). assert (covered s1) as H1.
  { subst s1. rewrite andb_comm. by apply covered_off. }
  clearbody s1. repeat case_match; try done; [by apply covered_start|by apply covered_tripStart].
Qed.

Lemma covered_mask s : covered (updateClientsEventMask s).
Proof. intros H. unfold updateClientsEventMask. cbn. by apply Z.ltb_lt. Qed.
Lemma covered_stopClient c s s' : covered s -> stopClientSessions c s = Some s' -> covered s'.
Proof.
  unfold stopClientSessions. generalize (sessions_of c s). intros l. revert s. induction l as [|[k o] l IH]; intros s H; [by intros [= <-]|].
  cbn. destruct (batchingMode o =? BATCHING_MODE_TRIP).
  - destruct (stopTripBatchingMultiplex _ _ _ _ _) as [s1|] eqn:E.
    + apply IH. by eapply covered_stopTrip.
    + clear. induction l as [|p l IH]; [done|]. exact IH.
  - apply IH. by apply covered_stop.
Qed.
Lemma restart_all l s :
  let s' := foldl restart_one s l in
  mBatchingSessions s' = mBatchingSessions s ∧ mTripSessions s' = mTripSessions s ∧ evt_full s' = evt_full s.
Proof.
  cbv zeta. revert s. induction l as [|p l IH]; intros s; [done|]. cbn. destruct (IH (restart_one s p)) as (-> & -> & ->).
  unfold restart_one. by case_match.
Qed.
Lemma covered_restartSessions s : covered s -> covered (restartSessions s).
Proof.
  intros H. unfold restartSessions. set (s1 := if _ <? _ then _ else s).
  assert (covered s1) as H1 by (subst s1; case_match; [by apply covered_true|done]). clearbody s1.
  destruct (restart_all (mBatchingSessions s1) s1) as (E1 & E2 & E3). set (s2 := foldl _ _ _) in *. clearbody s2.
  assert (covered s2) as H2 by (by apply (covered_same s1)). by case_match.
Qed.
Lemma covered_reports {A} (f : A -> adapter -> adapter) l s :
  (∀ x s, covered s -> covered (f x s)) -> covered s -> covered (foldl (λ s x, f x s) s l).
Proof. intros Hf. revert s. induction l as [|x l IH]; intros s H; [done|]. apply IH. by apply Hf. Qed.
Lemma covered_completed acc s s' : covered s -> reportCompletedTrips erased_readable acc s = Some s' -> covered s'.
Proof.
  intros H. unfold reportCompletedTrips. set (l := fmap (M:=list) (λ p, (p.1, advanced p.2 acc)) (mTripSessions s)).
  assert (length l = length (mTripSessions s)) as El by apply length_fmap. clearbody l.
  set (s1 := set_trips _ s). assert (covered s1) as H1.
  { apply (covered_less s); [|done|done]. unfold count, s1, set_trips. cbn [mBatchingSessions mTripSessions].
    pose proof (length_filter (λ p, completed p.2 = false) l). lia. }
  clearbody s1. destruct (filter (λ p, completed p.2 = true) l) as [|x xs]; [by intros <-%(inj Some)|].
  destruct erased_readable; [|done]. intros <-%(inj Some). apply covered_restartTrip. unfold reportBatchStatusChange.
  by apply (covered_reports (λ c s, emit (OutStatus c _ _) s)).
Qed.

Lemma covered_engineUp s : covered s -> covered (handleEngineUp s).
Proof.
  intros H. unfold handleEngineUp. set (s1 := emit _ _). assert (covered s1) as H1 by done. clearbody s1.
  case_decide; [|done]. by apply (covered_same (restartSessions s1)), covered_restartSessions.
Qed.

(** A stop that was refused is not processed while the engine is not locked, and the
    answer of a query for a new trip not without a session. *)
Definition answers_ok (m : msg) (s : adapter) : Prop :=
  match m with
  | MsgResponse (ForStop _ _ _ _ _) err _ => err = LOCATION_ERROR_SUCCESS ∨ lock s ≠ LOCK_ENABLED
  | MsgResponse (ForNewTrip _ _ _) _ _ => 0 < count s
  | _ => True
  end.
Definition ok (s : adapter) (e : event) : Prop :=
  match e with Task => match msgs s with m :: _ => answers_ok m s | [] => True end | _ => True end.
#[export] Instance answers_ok_dec m s : Decision (answers_ok m s).
Proof. destruct m; try exact (left I). destruct k; try exact (left I); cbn; apply _. Defined.
#[export] Instance ok_dec s e : Decision (ok s e).
Proof. destruct e; try exact (left I). cbn. destruct (msgs s); apply _. Defined.

Lemma covered_respond k err data s s' :
  answers_ok (MsgResponse k err data) s -> covered s -> respond k err data s = Some s' -> covered s'.
Proof.
  intros Ho H. destruct k; cbn [respond answers_ok] in *;
    try (intros <-%(inj Some)); auto using covered_started, covered_report, covered_trip_started, covered_trip_restart,
      covered_trip_restarted, covered_stopped, covered_new_trip.
  - intros E. by eapply covered_trip_stopped.
  - by case_match.
Qed.
Local Ltac same_cases H :=
  repeat (case_match; [by intros <-%(inj Some); first [exact H | auto using covered_start, covered_tripStart, covered_report]|]).
Lemma covered_proc m s s' : answers_ok m s -> covered s -> proc supported erased_readable m s = Some s' -> covered s'.
Proof.
  intros Ho H. destruct m; cbn [proc]; unfold proc_start, proc_update, proc_stop, proc_get;
    try (intros E; by eapply covered_respond); try (intros E; by eapply covered_completed);
    try (intros <-%(inj Some); by auto using covered_mask, covered_engineUp).
  - intros <-%(inj Some). apply covered_mask.
  - destruct (stopClientSessions client s) as [s1|]; cbn [mbind option_bind]; [|discriminate]. intros <-%(inj Some).
    exact (covered_mask (set_clients (delete client (mClientData s1)) s1)).
  - intros <-%(inj Some). unfold handleEngineLockStatus. by case_decide.
  - same_cases H.
    intros <-%(inj Some). by apply covered_report.
  - same_cases H. case_match.
    + intros E. by eapply covered_stopTrip.
    + intros <-%(inj Some). by apply covered_stop.
  - same_cases H. case_match.
    + intros E. by eapply covered_stopTrip.
    + intros <-%(inj Some). by apply covered_stop.
  - same_cases H. by intros <-%(inj Some).
  - intros <-%(inj Some). unfold reportLocations. by apply (covered_reports (λ c s, emit (OutLocations c _ _) s)).
  - intros <-%(inj Some). unfold reportBatchStatusChange. by apply (covered_reports (λ c s, emit (OutStatus c _ _) s)).
Qed.
Lemma covered_step s e s' : ok s e -> covered s -> step supported erased_readable s e = Some s' -> covered s'.
Proof.
  intros Ho H. destruct e; cbn [step ok] in *.
  - by intros <-%(inj Some).
  - destruct (msgs s) as [|m l]; [by intros <-%(inj Some)|]. by apply covered_proc.
  - destruct (calls s) as [|[c k] l]; by intros <-%(inj Some).
  - by intros <-%(inj Some).
Qed.

(** C24: as long as a session of the batching adapter asks for reports, its event mask
    has the bit for full batches: in every run of commands of clients, answers and events
    of LocApi and changes of the engine's lock, as long as no stop is refused by an
    engine that is not locked (the adapter then restores the session after it may have
    cleared the bit) and no query for a new trip is answered after the last session
    has gone. *)
Theorem batch_full_registered es s :
  run (step supported erased_readable) init es = Some s -> run_ok (step supported erased_readable) ok init es ->
  0 < autoReportBatchingSessionsCount s -> evt_full s = true.
Proof.
  intros Hr Ho. apply (run_invariant (step supported erased_readable) ok covered init es s); [|by apply covered_none|done|done].
  intros s0 e s1 Hs H Hok. by eapply covered_step.
Qed.
End props.

(** * Runs *)

Definition all_cbs : LocationCallbacks := MkCallbacks true true true true.
Definition routine : BatchingOptions := MkOptions 40 1000 0 0 BATCHING_MODE_ROUTINE.
Definition quiet : BatchingOptions := MkOptions 40 1000 0 0 BATCHING_MODE_NO_AUTO_REPORT.
Definition trip (distance interval : Z) : BatchingOptions := MkOptions 40 interval distance 0 BATCHING_MODE_TRIP.
(** A message is sent and processed; LocApi answers, and the answer is processed. *)
Definition gets (m : msg) : list event := [Send m; Task].
Definition answers (err data : Z) : list event := [Answer err data; Task].
Definition opened : list event := gets (MsgAddClient 1 all_cbs) ++ gets MsgSSREvent.
Abbreviation runs := (run (step true true) init) (only parsing).

(** A session, which becomes a trip, a second trip, and the end of the first. *)
Definition day : list event :=
  opened ++ gets (MsgStartBatching 1 7 routine) ++ answers 0 0 ++ gets (MsgUpdateBatching 1 7 (trip 500 1000)) ++ answers 0 0 ++
  answers 0 0 ++ gets (MsgStartBatching 1 8 (trip 100 1000)) ++ answers 0 50 ++ answers 0 0 ++ gets (MsgReportCompletedTrips 100) ++
  answers 0 100 ++ answers 0 0 ++ gets (MsgStopBatching 1 7).
Lemma batch_full_registered_witness :
  match runs day with
  | Some s => 0 < autoReportBatchingSessionsCount s ∧ evt_full s = true
  | None => False
  end.
Proof.
  pose proof (batch_full_registered true true day) as Hc.
  assert (run_ok (step true true) ok init day) as Ho by (apply (bool_decide_unpack _); vm_compute; exact I).
  destruct (runs day) as [s|] eqn:E.
  - assert (0 < autoReportBatchingSessionsCount s) as Hp by (revert E; vm_compute; intros [= <-]; reflexivity).
    split; [exact Hp|]. exact (Hc s eq_refl Ho Hp).
  - revert E. vm_compute. discriminate.
Defined.

(** A restart of the modem's batch keeps the distance of a trip. *)
Lemma restart_keeps_distance t a b :
  accumulatedDistanceThisTrip (advanced (restarted t a) b) =
  wrap_u 32 (accumulatedDistanceThisTrip (advanced t a) + b).
Proof. cbn. unfold wrap_u. f_equal. lia. Qed.
(** That for a new trip does not: 60 of the 100 that are driven count for the first trip. *)
Definition two_trips : list event :=
  opened ++ gets (MsgStartBatching 1 7 (trip 500 1000)) ++ answers 0 0 ++ gets (MsgStartBatching 1 8 (trip 100 1000)) ++ answers 0 40.
Example new_trip_loses_distance :
  (λ s, (λ p, (GnssTracking.id p.1, accumulatedDistanceThisTrip p.2)) <$> mTripSessions s) <$>
    runs (two_trips ++ answers 0 0 ++ gets (MsgReportCompletedTrips 60)) = Some [(7, 60); (8, 60)].
Proof. vm_compute. reflexivity. Qed.

(** Errors that the client is not told of: no callback, an unknown session, no size. *)
Example errors_unanswered :
  outputs <$> runs (gets (MsgAddClient 1 (MkCallbacks true true false true)) ++ gets MsgSSREvent ++
    gets (MsgStartBatching 1 7 routine) ++ gets (MsgStopBatching 1 7) ++ gets (MsgUpdateBatching 1 7 routine)) =
  Some [OutCapabilities [1]; OutBatchSize 0 0].
Proof. vm_compute. reflexivity. Qed.

(** A session that could not be stopped is kept with other options: one that reported
    nothing now counts as one that reports, without the registration. *)
Example failed_stop_forgets_options :
  (λ s, (mBatchingSessions s, autoReportBatchingSessionsCount s, evt_full s)) <$>
    runs (opened ++ gets (MsgStartBatching 1 7 quiet) ++ answers 0 0 ++ gets (MsgStopBatching 1 7) ++ answers 1 0) =
  Some ([(GnssTracking.SessionKey 1 7, default_options)], 1, false).
Proof. vm_compute. reflexivity. Qed.

Example update_answered_twice :
  (λ s, drop 3 (outputs s)) <$>
    runs (opened ++ gets (MsgStartBatching 1 7 routine) ++ answers 0 0 ++ gets (MsgUpdateBatching 1 7 quiet) ++ answers 0 0 ++ answers 5 0) =
  Some [OutResponse 1 0 7; OutResponse 1 5 7].
Proof. vm_compute. reflexivity. Qed.

(** The second trip is no session: it cannot be stopped, and outlives its client. *)
Example second_trip_stays :
  (λ s, (mTripSessions s).*1) <$>
    runs (two_trips ++ answers 0 0 ++ gets (MsgStopBatching 1 8) ++ gets (MsgRemoveClient 1)) =
  Some [trip_key 8].
Proof. vm_compute. reflexivity. Qed.

(** The distance cannot be queried: the trip is reported as started and is not there. *)
Example trip_without_distance :
  (λ s, ((mTripSessions s).*1, drop 3 (outputs s))) <$>
    runs (opened ++ gets (MsgStartBatching 1 7 (trip 500 1000)) ++ answers 0 0 ++ gets (MsgStartBatching 1 8 (trip 600 1000)) ++ answers 1 0) =
  Some ([trip_key 7], [OutResponse 1 0 8]).
Proof. vm_compute. reflexivity. Qed.

(** A trip counts twice and stays a session: after its end full batches are still
    registered for; its client cannot be removed. *)
Definition one_trip : list event := opened ++ gets (MsgStartBatching 1 7 (trip 500 1000)) ++ answers 0 0.
Definition trip_over : list event := one_trip ++ gets (MsgStopBatching 1 7) ++ answers 0 0.
Example trip_stays_session :
  (λ s, (mTripSessions s, (mBatchingSessions s).*1, evt_full s)) <$> runs trip_over =
  Some ([], [GnssTracking.SessionKey 1 7], true).
Proof. vm_compute. reflexivity. Qed.
Example client_of_a_trip_removed : runs (trip_over ++ gets (MsgRemoveClient 1)) = None.
Proof. vm_compute. reflexivity. Qed.
Example stopped_twice :
  runs (one_trip ++ gets (MsgStopBatching 1 7) ++ gets (MsgStopBatching 1 7) ++ answers 0 0 ++ answers 0 0) = None.
Proof. vm_compute. reflexivity. Qed.
(** The modem goes on with the trip, the adapter does not. *)
Example failed_trip_stop :
  (λ s, (mTripSessions s, drop 3 (outputs s))) <$> runs (one_trip ++ gets (MsgStopBatching 1 7) ++ answers 1 0) =
  Some ([], [OutResponse 1 1 7]).
Proof. vm_compute. reflexivity. Qed.

(** A trip is compared after its node was freed. *)
Example completed_trip_read_after_erase :
  run (step true false) init (one_trip ++ gets (MsgReportCompletedTrips 500)) = None.
Proof. vm_compute. reflexivity. Qed.
(** A new trip starts with the flags of one that is over. *)
Example dropped_stays :
  (λ s, (mTripSessions s, mTripWithOngoingTripDistanceDropped s, mTripWithOngoingTBFDropped s)) <$>
    runs (trip_over ++ gets (MsgStartBatching 1 8 (trip 100 1000)) ++ answers 0 0) =
  Some ([(trip_key 8, Trip 0 0 0 100 1000)], true, true).
Proof. vm_compute. reflexivity. Qed.

(** The batch that starts after a crash of the modem is taken for the one before. *)
Example restart_on_copies :
  (λ s, mTripSessions s) <$>
    runs (opened ++ gets (MsgStartBatching 1 7 (trip 500 1000)) ++ answers 0 0 ++ gets (MsgStartBatching 1 8 (trip 600 1000)) ++
      answers 0 300 ++ gets MsgSSREvent) =
  Some [(trip_key 7, Trip 0 0 0 500 1000); (trip_key 8, Trip 300 0 0 600 1000)].
Proof. vm_compute. reflexivity. Qed.

(** Commands that came before the engine stay pending if it comes up locked. *)
Example pending_after_lock :
  (λ s, (mPendingMsgs s, drop 2 (outputs s))) <$>
    runs (gets (MsgAddClient 1 all_cbs) ++ gets (MsgStartBatching 1 7 routine) ++ [EngineLock LOCK_DISABLED; Task] ++
      gets MsgSSREvent ++ [EngineLock LOCK_ENABLED; Task]) =
  Some ([MsgStartBatching 1 7 routine], []).
Proof. vm_compute. reflexivity. Qed.
