(* ===== verification/GnssTrackingProps.v ===== *)
(** What the tracking sessions of GnssTracking.v guarantee: the power state
    follows the sessions, messages are used only while they exist, the engine
    serves every session, every command is answered once; and runs in which
    races of commands and responses break what one would expect. *)

From stdpp Require Import list gmap.
From S2P Require Import Prelude Runs DgnssNtrip GnssTracking GnssSessions.

Local Open Scope Z_scope.

(** * General lemmas *)

Lemma isTime_spec c i s :
  isTimeBasedTrackingSession c i s = true <-> ∃ o, map_find (SessionKey c i) (tb s) = Some o.
Proof. unfold isTimeBasedTrackingSession. rewrite bool_decide_eq_true. done. Qed.

(** Processing a message never reads past the end of a map. *)
Lemma update_defined c i o s :
  ∃ s', proc_MsgUpdateTracking c i o s = Some s'.
Proof.
  unfold proc_MsgUpdateTracking. case_match; [by eexists|]. cbv zeta. case_match; [by eexists|].
  unfold update_session. do 2 (case_match; [by eexists|]).
  destruct (isTimeBasedTrackingSession c i s) eqn:Ht; [|case_match; by eexists].
  apply isTime_spec in Ht as [o' Ho]. unfold update_time, updateTrackingMultiplex. rewrite Ho.
  repeat case_match; simplify_eq; by eexists.
Qed.

Lemma proc_defined t m s : ∃ s', proc t m s = Some s'.
Proof. destruct m; simpl; try (by eexists). apply update_defined. Qed.

(** Session identifiers are never 0 nor the largest number, and the counter
    wraps to one. *)
Lemma generateSessionId_range s :
  1 <= mSessionIdCounter s < 2 ^ 32 - 1 ->
  1 <= fst (generateSessionId s) < 2 ^ 32 - 1
  ∧ mSessionIdCounter (snd (generateSessionId s)) = fst (generateSessionId s)
  ∧ fst (generateSessionId s) <> mSessionIdCounter s.
Proof.
  intros H. unfold generateSessionId. cbv zeta. cbn [fst snd mSessionIdCounter].
  rewrite wrap_u_small by lia. case_match eqn:E; [lia|]. apply Z.eqb_neq in E. lia.
Qed.

(** * The power state *)

Definition power_ok (s : state) : Prop :=
  mPowerOn (ad s) = negb (map_empty (tb s)) || negb (map_empty (db s)).

Lemma power_ok_sess s s' : sess s' = sess s -> power_ok s -> power_ok s'.
Proof. unfold sess, power_ok. intros [= -> -> ->]. done. Qed.

Lemma power_ok_report s : power_ok (reportPowerStateIfChanged s).
Proof.
  unfold reportPowerStateIfChanged. cbv zeta.
  destruct (eqb _ (mPowerOn (ad s))) eqn:E; simpl.
  - apply eqb_prop in E. done.
  - by case_match.
Qed.
Lemma power_ok_save c i o s : power_ok (saveTrackingSession c i o s).
Proof. apply power_ok_report. Qed.
Lemma power_ok_erase c i s : power_ok (eraseTrackingSession c i s).
Proof. apply power_ok_report. Qed.
Create HintDb track.
#[export] Hint Resolve power_ok_save power_ok_erase : track.

(** Peels one operation that leaves the sessions alone. *)
Ltac power_step :=
  first [ by auto with track
        | eapply power_ok_sess; [by autorewrite with track|] ].
Ltac power_solve := repeat power_step; try done.

Lemma power_ok_stopMux_erase c i s :
  power_ok (let '(_, s) := stopTimeBasedTrackingMultiplex c i s in eraseTrackingSession c i s).
Proof. case_match. auto with track. Qed.

Lemma power_ok_stopClient c s : power_ok s -> power_ok (stopClientSessions c s).
Proof.
  intros H. unfold stopClientSessions. cbv zeta. apply foldl_invariant.
  - intros s1 [k o] H1. case_match; [|done]. power_solve.
  - apply foldl_invariant; [|done]. intros. apply power_ok_stopMux_erase.
Qed.

Lemma power_ok_startMux_save c i o s :
  power_ok (let '(w, s) := startTimeBasedTrackingMultiplex c i o s in
            let s := saveTrackingSession c i o s in
            if w : bool then reportResponse c LOCATION_ERROR_SUCCESS i s else s).
Proof. case_match. cbv zeta. case_match; power_solve. Qed.

Lemma power_ok_foldl_send l s : power_ok s -> power_ok (foldl (λ s p, sendMsg p s) s l).
Proof. intros H. by apply foldl_invariant. Qed.

Lemma power_ok_update c i o s s' :
  power_ok s -> proc_MsgUpdateTracking c i o s = Some s' -> power_ok s'.
Proof.
  unfold proc_MsgUpdateTracking. intros H. case_match; [by intros [= <-]|]. cbv zeta.
  case_match; [intros [= <-]; power_solve|].
  unfold update_session, time_to_distance, update_time.
  repeat (case_match; try discriminate); intros; simplify_eq; cbv zeta; repeat power_solve.
Qed.

Lemma power_ok_response t r e s : power_ok s -> power_ok (proc_LocApiResponse t r e s).
Proof.
  intros H. destruct r; cbn [proc_LocApiResponse]; cbv zeta; try apply power_ok_startMux_save;
    repeat (case_match || power_step); try done.
Qed.

Lemma power_ok_proc t m s s' : power_ok s -> proc t m s = Some s' -> power_ok s'.
Proof.
  intros H. destruct m; simpl; intros Hp; simplify_eq/=; try done.
  - unfold proc_MsgStartTracking. do 3 (case_match; [done|]). cbv zeta. case_match.
    + power_solve.
    + apply power_ok_startMux_save.
  - by eapply power_ok_update.
  - unfold proc_MsgStopTracking. cbv zeta. case_match; [|power_solve].
    case_match; [|power_solve]. case_match. case_match; power_solve.
  - by apply power_ok_stopClient.
  - unfold proc_MsgRequestCapabilities. by repeat case_match.
  - unfold proc_MsgConfigMinGpsWeek. power_solve.
  - unfold proc_MsgUpdateNHz. case_match; power_solve.
  - unfold proc_MsgHandleEngineUpEvent. cbv zeta. case_match; [|done].
    apply power_ok_foldl_send. power_solve.
  - unfold handleEngineLockStatus. case_match; [|done]. cbv zeta.
    by apply (power_ok_foldl_send _ s).
  - by apply power_ok_response.
Qed.

Lemma power_ok_step s e s' : power_ok s -> step s e = Some s' -> power_ok s'.
Proof.
  intros H. destruct e; simpl; intros Hs; simplify_eq/=; try done.
  - unfold reportEngineLockStatus. by case_match.
  - unfold run_request. repeat case_match; done.
  - unfold run_message in Hs. repeat case_match; simplify_eq; try done.
    match goal with Hp : proc _ _ _ = Some _ |- _ => by apply power_ok_proc in Hp end.
Qed.

(** whatever the commands, responses, failures and their order, the power
    state the adapter last determined is on exactly while it has a session. *)
Theorem power_state_follows_sessions es s :
  run step init es = Some s ->
  mPowerOn (ad s) = true <-> tb s <> [] ∨ db s <> [].
Proof.
  intros Hrun. assert (power_ok s) as ->.
  { by apply (run_invariant_always step power_ok init es s power_ok_step). }
  destruct (tb s), (db s); simpl; naive_solver.
Qed.

Definition ex_failed_start : list event :=
  [GetPowerStateChangesCommand 1; AddClientCommand 7 ex_cbs; StartTrackingCommand 7 (ex_opts 1000 0 2);
   TaskRun 0; TaskRun 0; TaskRun 0; ApiRun LOCATION_ERROR_GENERAL_FAILURE; TaskRun 0].

Lemma power_state_follows_sessions_witness :
  match run step init ex_failed_start with
  | Some s => mPowerOn (ad s) = true <-> tb s <> [] ∨ db s <> []
  | None => False
  end.
Proof.
  destruct (run step init ex_failed_start) as [s|] eqn:E.
  - exact (power_state_follows_sessions ex_failed_start s E).
  - vm_compute in E. discriminate E.
Defined.

(** * Messages are used while they exist *)

(** What the lifetime of messages depends on. *)
Definition qview (s : state) :=
  (tsk s, env_outs (out s), mIsEngineCapabilitiesKnown (ad s), mPendingMsgs (ad s),
   mPendingGnssEnabledMsgs (ad s), sIsEngineCapabilitiesKnown (api s), sSupportedMsgMask (api s)).

Lemma still_qview s s' : still s' = still s -> qview s' = qview s.
Proof. unfold still, qview. congruence. Qed.

Lemma qview_inv s k o b pe en known mask :
  qview s = (k, o, b, pe, en, known, mask) ->
  tsk s = k ∧ env_outs (out s) = o ∧ mIsEngineCapabilitiesKnown (ad s) = b
  ∧ mPendingMsgs (ad s) = pe ∧ mPendingGnssEnabledMsgs (ad s) = en
  ∧ sIsEngineCapabilitiesKnown (api s) = known ∧ sSupportedMsgMask (api s) = mask.
Proof. unfold qview. intros H. by inversion H. Qed.

Lemma stopClient_still c s : still (stopClientSessions c s) = still s.
Proof.
  unfold stopClientSessions. cbv zeta. rewrite foldl_frame by (intros ? [? ?]; by case_match).
  apply (foldl_frame still). intros s1 k.
  destruct (stopTimeBasedTrackingMultiplex _ _ _) as [b s2] eqn:E.
  rewrite still_erase. by apply stopMux_frame in E as [E _].
Qed.

Lemma response_still t r e s : still (proc_LocApiResponse t r e s) = still s.
Proof.
  destruct r; cbn [proc_LocApiResponse]; cbv zeta; repeat case_match; mux_frames;
    autorewrite with track; done.
Qed.

Lemma update_still c i o s s' :
  proc_MsgUpdateTracking c i o s = Some s' ->
  (mIsEngineCapabilitiesKnown (ad s) = false ∧ s' = keep_pending (MsgUpdateTracking c i o) s)
  ∨ still s' = still s.
Proof.
  unfold proc_MsgUpdateTracking. case_match eqn:E.
  { apply andb_true_iff in E as [E _]. apply negb_true_iff in E. intros [= <-]. by left. }
  intros Hp. right. revert Hp. unfold update_session, time_to_distance, update_time. cbv zeta.
  repeat (case_match; try discriminate); intros; simplify_eq; mux_frames; autorewrite with track; done.
Qed.

Lemma start_still c i o s :
  (mIsEngineCapabilitiesKnown (ad s) = false
   ∧ proc_MsgStartTracking c i o s = keep_pending (MsgStartTracking c i o) s)
  ∨ still (proc_MsgStartTracking c i o s) = still s.
Proof.
  unfold proc_MsgStartTracking. case_match eqn:E.
  { apply andb_true_iff in E as [E _]. apply negb_true_iff in E. by left. }
  right. cbv zeta. repeat case_match; mux_frames; autorewrite with track; done.
Qed.

Lemma stop_still c i s : still (proc_MsgStopTracking c i s) = still s.
Proof. unfold proc_MsgStopTracking. cbv zeta. repeat case_match; mux_frames; autorewrite with track; done. Qed.

(** Apart from the two messages about the engine, processing keeps the message
    task as it is or copies the message to the pending ones. *)
Lemma proc_qview t m s s' :
  m <> MsgHandleEngineUpEvent -> (∀ st, m <> MsgEngineLockStateEvent st) ->
  proc t m s = Some s' ->
  qview s' = qview s
  ∨ (mIsEngineCapabilitiesKnown (ad s) = false ∧ qview s' = qview (keep_pending m s)).
Proof.
  intros H1 H2. destruct m; simpl; intros Hp; simplify_eq/=.
  - destruct (start_still c i o s) as [[E ->]|E]; [by right|left; by apply still_qview].
  - destruct (update_still c i o s s' Hp) as [[E ->]|E]; [by right|left; by apply still_qview].
  - left. apply still_qview, stop_still.
  - by left.
  - left. transitivity (qview (stopClientSessions c s)); [done|]. apply still_qview, stopClient_still.
  - unfold proc_MsgRequestCapabilities. case_match eqn:E; [right; split; [by apply negb_true_iff|done]|].
    left. repeat case_match; try done. by apply still_qview, still_emit.
  - left. unfold proc_MsgGetPowerState. cbv zeta.
    rewrite (still_qview _ _ (still_emit (OutPowerState cb (mPowerOn (ad s))) _ eq_refl)). done.
  - left. apply still_qview. unfold proc_MsgConfigMinGpsWeek. by autorewrite with track.
  - left. unfold proc_MsgUpdateNHz. case_match; [|done].
    by rewrite (still_qview _ _ (still_restartSPE _)).
  - congruence.
  - left. apply still_qview, response_still.
Qed.

(** The message task with the messages that wait: [queue] and [pend] hold
    addresses of messages, each once; a message the engine-up event sends was
    not sent before. *)
Record task_ok (k : task) : Prop := {
  queue_nodup : NoDup (queue k);
  queue_live : ∀ p, p ∈ queue k -> is_Some (messages k !! p);
  live_below : ∀ p, is_Some (messages k !! p) -> (p < next_addr k)%N
}.
Definition no_up (k : task) : Prop := ∀ p, messages k !! p <> Some MsgHandleEngineUpEvent.
Record waiting_ok (k : task) (pend : list N) : Prop := {
  pend_nodup : NoDup pend;
  pend_apart : ∀ p, p ∈ pend -> p ∉ queue k;
  pend_live : ∀ p, p ∈ pend -> ∃ m, messages k !! p = Some m ∧ m <> MsgHandleEngineUpEvent;
  one_up : ∀ p q, messages k !! p = Some MsgHandleEngineUpEvent ->
                  messages k !! q = Some MsgHandleEngineUpEvent -> p = q
}.
(** Before the engine came up, while its event is in the queue, and after it
    was processed. *)
Definition lifetime_ok (s : state) : Prop :=
  task_ok (tsk s) ∧ mPendingGnssEnabledMsgs (ad s) = []
  ∧ ((waiting_ok (tsk s) (mPendingMsgs (ad s)) ∧ (OutEngineUp ∈ env_outs (out s) ∨ no_up (tsk s)))
     ∨ (mIsEngineCapabilitiesKnown (ad s) = true ∧ no_up (tsk s) ∧ OutEngineUp ∈ env_outs (out s))).

Lemma lifetime_ok_qview s s' : qview s' = qview s -> lifetime_ok s -> lifetime_ok s'.
Proof. unfold qview, lifetime_ok. intros [= -> -> -> -> -> _ _]. done. Qed.

Lemma task_ok_send k m :
  task_ok k -> task_ok (Task (<[next_addr k := m]> (messages k)) (queue k ++ [next_addr k]) (N.succ (next_addr k))).
Proof.
  intros [H1 H2 H3]. split; simpl.
  - apply NoDup_app. split_and!; [done| |apply NoDup_singleton].
    intros p Hp Hq. apply list_elem_of_singleton in Hq as ->. specialize (H3 _ (H2 _ Hp)). lia.
  - intros p [Hp| ->%list_elem_of_singleton]%elem_of_app.
    + destruct (decide (next_addr k = p)) as [<-|Hne]; [rewrite lookup_insert_eq; by eexists|].
      rewrite lookup_insert_ne by done. auto.
    + rewrite lookup_insert_eq. by eexists.
  - intros p. destruct (decide (next_addr k = p)) as [<-|Hne]; [lia|].
    rewrite lookup_insert_ne by done. intros Hp. specialize (H3 _ Hp). lia.
Qed.

Lemma no_up_insert k m q n :
  m <> MsgHandleEngineUpEvent -> no_up k -> no_up (Task (<[next_addr k := m]> (messages k)) q n).
Proof.
  intros Hm H p. simpl. destruct (decide (next_addr k = p)) as [<-|Hne];
    [rewrite lookup_insert_eq; congruence|by rewrite lookup_insert_ne].
Qed.

(** A new message, that may be the engine-up event if there is none. *)
Lemma waiting_ok_send k pend m :
  task_ok k -> (m = MsgHandleEngineUpEvent -> no_up k) -> waiting_ok k pend ->
  waiting_ok (Task (<[next_addr k := m]> (messages k)) (queue k ++ [next_addr k]) (N.succ (next_addr k))) pend.
Proof.
  intros [T1 T2 T3] Hm [H1 H2 H3 H4].
  assert (∀ p, p ∈ pend -> next_addr k <> p) as Hnew.
  { intros p Hp <-. destruct (H3 _ Hp) as (m' & E & _).
    assert (next_addr k < next_addr k)%N by (apply T3; by eexists). lia. }
  split; simpl; [done| | |].
  - intros p Hp [Hq|Hq%list_elem_of_singleton]%elem_of_app; [by apply (H2 p)|by apply (Hnew p)].
  - intros p Hp. rewrite lookup_insert_ne by auto. auto.
  - intros p q. destruct (decide (next_addr k = p)) as [<-|Hp], (decide (next_addr k = q)) as [<-|Hq];
      rewrite ?lookup_insert_eq, ?lookup_insert_ne by done; [done| | |apply H4];
      intros; simplify_eq; exfalso; by eapply Hm.
Qed.

Lemma tsk_send_new m s :
  tsk (send_new m s) = Task (<[next_addr (tsk s) := m]> (messages (tsk s)))
                         (queue (tsk s) ++ [next_addr (tsk s)]) (N.succ (next_addr (tsk s))).
Proof. done. Qed.

Lemma lifetime_ok_send m s :
  m <> MsgHandleEngineUpEvent -> lifetime_ok s -> lifetime_ok (send_new m s).
Proof.
  intros Hm (Ht & He & H). unfold lifetime_ok. rewrite tsk_send_new. split; [by apply task_ok_send|]. split; [done|].
  destruct H as [[Hw Hn]|(Hk & Hn & Hu)]; [left|right].
  - split; [by apply waiting_ok_send|]. destruct Hn; [by left|right; by apply no_up_insert].
  - split_and!; [done|by apply no_up_insert|done].
Qed.

Lemma lifetime_ok_up mask s :
  OutEngineUp ∉ env_outs (out s) -> lifetime_ok s ->
  lifetime_ok (send_new MsgHandleEngineUpEvent (emit OutEngineUp (setEngineCapabilities mask s))).
Proof.
  intros Hno (Ht & He & H). unfold lifetime_ok. rewrite tsk_send_new.
  change (tsk (emit OutEngineUp (setEngineCapabilities mask s))) with (tsk s).
  split; [by apply task_ok_send|]. split; [done|].
  destruct H as [[Hw Hn]|(Hk & Hn & Hu)]; [|done]. left. split.
  - apply waiting_ok_send; [done| |done]. intros _. by destruct Hn.
  - left. simpl. rewrite env_outs_snoc. apply elem_of_app. right. apply list_elem_of_here.
Qed.

(** The message taken from the queue is there; it is deleted afterwards. *)
Lemma task_ok_delete k p q :
  task_ok k -> p ∉ q -> NoDup q -> (∀ x, x ∈ q -> is_Some (messages k !! x)) ->
  task_ok (Task (delete p (messages k)) q (next_addr k)).
Proof.
  intros [H1 H2 H3] Hp Hq Hl. split; simpl; [done| |].
  - intros x Hx. rewrite lookup_delete_ne by (intros ->; done). auto.
  - intros x [m Hx]. apply lookup_delete_Some in Hx as [_ Hx]. apply H3. by eexists.
Qed.

Lemma no_up_delete k p q n : no_up k -> no_up (Task (delete p (messages k)) q n).
Proof. intros H x Hx. simpl in Hx. apply lookup_delete_Some in Hx as [_ Hx]. by apply (H x). Qed.

(** The state while the message at [p] is processed, and when it is deleted. *)
Definition pop (q : list N) (s : state) : state := on_tsk (λ k, Task (messages k) q (next_addr k)) s.
Definition finish (p : N) (s : state) : state :=
  on_tsk (λ k, Task (delete p (messages k)) (queue k) (next_addr k)) s.

Section Processing.
Context (s : state) (p : N) (q : list N) (m : LocMsg).
Context (Hq : queue (tsk s) = p :: q) (Hm : messages (tsk s) !! p = Some m) (Hok : lifetime_ok s).

Lemma popped_queue : (p ∉ q) ∧ NoDup q ∧ (∀ x, x ∈ q -> is_Some (messages (tsk s) !! x)).
Proof.
  destruct Hok as ([H1 H2 _] & _). rewrite Hq in H1, H2. apply NoDup_cons in H1 as [H0 H1].
  split_and!; [done|done|]. intros x Hx. apply H2. by apply list_elem_of_further.
Qed.

Lemma waiting_ok_pop pend :
  waiting_ok (tsk s) pend -> waiting_ok (Task (delete p (messages (tsk s))) q (next_addr (tsk s))) pend.
Proof.
  intros [H1 H2 H3 H4]. split; simpl; [done| | |].
  - intros x Hx Hin. apply (H2 x Hx). rewrite Hq. by apply list_elem_of_further.
  - intros x Hx. rewrite lookup_delete_ne; [auto|]. intros <-. apply (H2 p Hx). rewrite Hq.
    apply list_elem_of_here.
  - intros x y [_ Hx]%lookup_delete_Some [_ Hy]%lookup_delete_Some. by apply H4.
Qed.

(** Most messages leave the task alone. *)
Lemma finish_quiet s' : qview s' = qview (pop q s) -> lifetime_ok (finish p s').
Proof.
  intros Hv. destruct popped_queue as (P1 & P2 & P3), Hok as (Ht & He & H).
  unfold qview in Hv. injection Hv as V1 V2 V3 V4 V5 _ _. unfold lifetime_ok, finish. simpl.
  rewrite V1, V2, V3, V4, V5. simpl. split; [by apply task_ok_delete|]. split; [done|].
  destruct H as [[Hw Hn]|(Hk & Hn & Hu)]; [left|right].
  - split; [by apply waiting_ok_pop|]. destruct Hn; [by left|right; by apply no_up_delete].
  - split_and!; [done|by apply no_up_delete|done].
Qed.

(** A message that must wait is copied first. *)
Lemma finish_keep s' :
  m <> MsgHandleEngineUpEvent -> mIsEngineCapabilitiesKnown (ad s) = false ->
  qview s' = qview (keep_pending m (pop q s)) -> lifetime_ok (finish p s').
Proof.
  intros Hne Hkn Hv. destruct popped_queue as (P1 & P2 & P3), Hok as (Ht & He & H).
  unfold qview in Hv. injection Hv as V1 V2 V3 V4 V5 _ _. unfold lifetime_ok, finish. simpl.
  rewrite V1, V2, V3, V4, V5. simpl.
  destruct H as [[Hw Hn]|(Hk & _)]; [|by rewrite Hkn in Hk].
  set (n := next_addr (tsk s)). assert (Hlt := live_below _ Ht).
  assert (∀ x, is_Some (messages (tsk s) !! x) -> x <> n) as Hnew by (intros x Hx ->; specialize (Hlt _ Hx); lia).
  assert (p <> n) as Hp by (apply Hnew; by eexists).
  rewrite delete_insert_ne by done. split; [|split; [done|left; split]].
  - split; simpl; [done| |].
    + intros x Hx. rewrite lookup_insert_ne by (intros <-; by eapply Hnew; [apply P3|]).
      rewrite lookup_delete_ne by (intros ->; done). auto.
    + intros x. destruct (decide (n = x)) as [<-|Hx]; [lia|]. rewrite lookup_insert_ne by done.
      intros [y [_ Hy]%lookup_delete_Some]. specialize (Hlt x (ex_intro _ y Hy)). lia.
  - destruct (waiting_ok_pop _ Hw) as [W1 W2 W3 W4]. simpl in *. split; simpl.
    + apply NoDup_app. split_and!; [done| |apply NoDup_singleton]. intros x Hx ->%list_elem_of_singleton.
      destruct (pend_live _ _ Hw _ Hx) as (y & Hy & _). by eapply Hnew; [by eexists|].
    + intros x [Hx| ->%list_elem_of_singleton]%elem_of_app; [auto|]. intros Hin. by eapply Hnew; [apply P3|].
    + intros x [Hx| ->%list_elem_of_singleton]%elem_of_app; [|rewrite lookup_insert_eq; by eexists].
      rewrite lookup_insert_ne; [auto|]. intros <-. destruct (pend_live _ _ Hw _ Hx) as (y & Hy & _).
      by eapply Hnew; [by eexists|].
    + intros x y. rewrite !lookup_insert. repeat case_decide; intros; simplify_eq; auto.
  - destruct Hn as [Hn|Hn]; [by left|right]. intros x. simpl. rewrite lookup_insert.
    case_decide; [congruence|]. intros [_ Hx]%lookup_delete_Some. by apply (Hn x).
Qed.

(** The engine-up event sends the messages that waited. *)
Lemma finish_up s' pend :
  m = MsgHandleEngineUpEvent -> pend = mPendingMsgs (ad s) ∨ pend = [] ->
  tsk s' = Task (messages (tsk s)) (q ++ pend) (next_addr (tsk s)) ->
  env_outs (out s') = env_outs (out s) -> mIsEngineCapabilitiesKnown (ad s') = true ->
  mPendingGnssEnabledMsgs (ad s') = mPendingGnssEnabledMsgs (ad s) ->
  lifetime_ok (finish p s').
Proof.
  intros -> Hpend V1 V2 V3 V5. destruct popped_queue as (P1 & P2 & P3), Hok as (Ht & He & H).
  unfold lifetime_ok, finish. simpl. rewrite V1, V2, V3, V5. simpl.
  destruct H as [[[W1 W2 W3 W4] Hn]|(_ & Hn & _)]; [|by destruct (Hn p)].
  assert (NoDup pend ∧ (∀ x, x ∈ pend -> (x ∉ queue (tsk s)) ∧ is_Some (messages (tsk s) !! x))) as [A B].
  { destruct Hpend as [-> | ->]; [|split; [constructor|intros x Hx; by apply elem_of_nil in Hx]].
    split; [done|]. intros x Hx. split; [auto|]. destruct (W3 x Hx) as (y & Hy & _). by eexists. }
  rewrite Hq in B. split; [|split; [done|right; split_and!; [done| |]]].
  - apply task_ok_delete; [done| | |].
    + intros [?|Hx]%elem_of_app; [done|]. destruct (B p Hx) as [B1 _]. apply B1, list_elem_of_here.
    + apply NoDup_app. split_and!; [done| |done]. intros x Hx Hin. destruct (B x Hin) as [B1 _].
      by apply B1, list_elem_of_further.
    + intros x [Hx|Hx]%elem_of_app; [auto|]. by apply B.
  - intros x Hx. simpl in Hx. apply lookup_delete_Some in Hx as [Hne Hx]. by apply Hne, W4.
  - destruct Hn as [Hn|Hn]; [done|]. by destruct (Hn p).
Qed.
End Processing.

Lemma foldl_send l s :
  foldl (λ s p, sendMsg p s) s l = on_tsk (λ k, Task (messages k) (queue k ++ l) (next_addr k)) s.
Proof.
  revert s. induction l as [|p l IH]; intros [a b k n o]; simpl.
  - unfold on_tsk. simpl. rewrite app_nil_r. by destruct k.
  - rewrite IH. unfold sendMsg, on_tsk. simpl. by rewrite <-app_assoc.
Qed.

Lemma lifetime_ok_up_event t s p q :
  queue (tsk s) = p :: q -> messages (tsk s) !! p = Some MsgHandleEngineUpEvent -> lifetime_ok s ->
  lifetime_ok (finish p (proc_MsgHandleEngineUpEvent t (pop q s))).
Proof.
  intros Hq Hm Hok.
  set (s1 := emit OutConfigureEngine (on_ad (set_pending true (mPendingMsgs (ad (pop q s)))
              (mPendingGnssEnabledMsgs (ad (pop q s)))) (pop q s))).
  assert (qview s1 = (Task (messages (tsk s)) q (next_addr (tsk s)), env_outs (out s), true,
                      mPendingMsgs (ad s), mPendingGnssEnabledMsgs (ad s),
                      sIsEngineCapabilitiesKnown (api s), sSupportedMsgMask (api s))) as H1.
  { unfold qview, s1. simpl. by rewrite env_outs_snoc. }
  assert (H2 := still_qview _ _ (still_restart t true s1)). rewrite H1 in H2.
  apply qview_inv in H1 as (A1 & A2 & A3 & A4 & A5 & _), H2 as (B1 & B2 & B3 & B4 & B5 & _).
  unfold proc_MsgHandleEngineUpEvent. cbv zeta. fold s1. case_match.
  - rewrite foldl_send. rewrite B4. eapply (finish_up s p q _ Hq Hm Hok _ (mPendingMsgs (ad s)));
      [done|by left| |done..]. simpl. by rewrite B1.
  - eapply (finish_up s p q _ Hq Hm Hok _ []); [done|by right| |done..]. by rewrite app_nil_r.
Qed.

(** What processing does to the messages and to what is known of the engine. *)
Lemma proc_task t m s s' :
  proc t m s = Some s' ->
  ((messages (tsk s') = messages (tsk s) ∧ next_addr (tsk s') = next_addr (tsk s))
   ∨ (messages (tsk s') = <[next_addr (tsk s) := m]> (messages (tsk s))
      ∧ next_addr (tsk s') = N.succ (next_addr (tsk s))))
  ∧ env_outs (out s') = env_outs (out s)
  ∧ sIsEngineCapabilitiesKnown (api s') = sIsEngineCapabilitiesKnown (api s)
  ∧ sSupportedMsgMask (api s') = sSupportedMsgMask (api s)
  ∧ (mIsEngineCapabilitiesKnown (ad s') = true ->
     mIsEngineCapabilitiesKnown (ad s) = true ∨ m = MsgHandleEngineUpEvent).
Proof.
  intros Hp. assert (m = MsgHandleEngineUpEvent ∨ m <> MsgHandleEngineUpEvent) as [->|Hne]
    by (destruct m; auto; by right).
  { simpl in Hp. simplify_eq. unfold proc_MsgHandleEngineUpEvent. cbv zeta.
    case_match; [|cbn [out]; split_and!; simpl; rewrite ?env_outs_snoc; by auto]. rewrite foldl_send.
    match goal with |- context [restartSessions t true ?x] => set (s1 := x) end.
    assert (tsk (restartSessions t true s1) = tsk s
            ∧ env_outs (out (restartSessions t true s1)) = env_outs (out s)
            ∧ sIsEngineCapabilitiesKnown (api (restartSessions t true s1)) = sIsEngineCapabilitiesKnown (api s)
            ∧ sSupportedMsgMask (api (restartSessions t true s1)) = sSupportedMsgMask (api s)) as (E1 & E0 & E2 & E3).
    { assert (env_outs (out s1) = env_outs (out s)) as <- by (unfold s1; simpl; by rewrite env_outs_snoc).
      destruct (still_fields _ _ (still_restart t true s1)) as (F1 & F2 & _ & F3 & F4). done. }
    cbn [on_tsk tsk messages next_addr api ad out]. rewrite E1, E0, E2, E3. split_and!; auto. }
  assert ((∃ st, m = MsgEngineLockStateEvent st) ∨ (∀ st, m <> MsgEngineLockStateEvent st)) as [[st ->]|Hnl]
    by (destruct m; eauto).
  { simpl in Hp. simplify_eq. unfold handleEngineLockStatus. case_match; [|by split_and!; auto].
    cbv zeta. rewrite foldl_send. split_and!; auto. }
  destruct (proc_qview t m s s' Hne Hnl Hp) as [Hv|[Hk Hv]]; unfold qview in Hv;
    injection Hv as V1 V2 V3 V4 V5 V6 V7; rewrite V1, V2, V3, V6, V7; split_and!; auto.
Qed.

Lemma lifetime_ok_run_message t s :
  lifetime_ok s -> ∃ s', run_message t s = Some s' ∧ lifetime_ok s'.
Proof.
  intros Hok. unfold run_message. destruct (queue (tsk s)) as [|p q] eqn:Hq; [by eexists|].
  fold (pop q s). destruct (queue_live _ (proj1 Hok) p) as [m Hm]; [rewrite Hq; apply list_elem_of_here|].
  change (messages (tsk (pop q s))) with (messages (tsk s)). rewrite Hm.
  destruct (proc_defined t m (pop q s)) as [s' Hp]. rewrite Hp. eexists. split; [done|]. fold (finish p s').
  assert (m = MsgHandleEngineUpEvent ∨ m <> MsgHandleEngineUpEvent) as [->|Hne]
    by (destruct m; auto; by right).
  { simpl in Hp. simplify_eq. by apply lifetime_ok_up_event. }
  assert ((∃ st, m = MsgEngineLockStateEvent st) ∨ ∀ st, m <> MsgEngineLockStateEvent st) as [[st ->]|Hnl]
    by (destruct m; eauto).
  - simpl in Hp. simplify_eq. apply (finish_quiet s p q Hq Hok).
    unfold handleEngineLockStatus. case_match; [|done]. cbv zeta. rewrite foldl_send.
    destruct Hok as (_ & He & _). unfold qview. simpl. rewrite He. by rewrite app_nil_r.
  - destruct (proc_qview t m (pop q s) s' Hne Hnl Hp) as [Hv|[Hk Hv]].
    + by apply (finish_quiet s p q Hq Hok).
    + by apply (finish_keep s p q m Hq Hm Hok).
Qed.

(** The engine comes up once. *)
Definition up_once (s : state) (e : event) : Prop :=
  match e with EngineUp _ => OutEngineUp ∉ out s | _ => True end.

Lemma elem_env_outs o l : is_env o = true -> o ∈ env_outs l <-> o ∈ l.
Proof. intros H. unfold env_outs. rewrite list_elem_of_filter. naive_solver. Qed.

Lemma lifetime_ok_command c i s : lifetime_ok s -> lifetime_ok (emit (OutCommand c i) s).
Proof.
  unfold lifetime_ok. simpl. rewrite env_outs_snoc. simpl. intros (Ht & He & H). split; [done|]. split; [done|].
  destruct H as [[Hw [Hn|Hn]]|(Hk & Hn & Hu)]; [left|left|right]; rewrite elem_of_app; tauto.
Qed.

Lemma lifetime_ok_run_request err s : lifetime_ok s -> lifetime_ok (run_request err s).
Proof.
  intros H. unfold run_request. destruct (requests (api s)) as [|[r [resp|]] rs]; [done| |done].
  cbv zeta. by apply lifetime_ok_send.
Qed.

Lemma lifetime_ok_step s e :
  lifetime_ok s -> up_once s e -> ∃ s', step s e = Some s' ∧ lifetime_ok s'.
Proof.
  intros Hok Hup. destruct e; simpl; try (eexists; split; [reflexivity|]);
    try (apply lifetime_ok_send; [done|]); try (apply lifetime_ok_command); try exact Hok.
  - apply lifetime_ok_up; [|done]. by rewrite elem_env_outs.
  - unfold reportEngineLockStatus. case_match; [|done]. by apply lifetime_ok_send.
  - by apply lifetime_ok_run_request.
  - by apply lifetime_ok_run_message.
Qed.

Lemma lifetime_ok_init : lifetime_ok init.
Proof.
  split; [|split; [done|left; split; [|right]]].
  - split; simpl; [constructor|intros p Hp; by apply elem_of_nil in Hp|].
    intros p [m Hm]. by rewrite lookup_empty in Hm.
  - split; simpl; [constructor|intros p Hp; by apply elem_of_nil in Hp..|].
    intros p q Hp. by rewrite lookup_empty in Hp.
  - intros p Hp. simpl in Hp. by rewrite lookup_empty in Hp.
Qed.

(** as long as the engine comes up only once, no run reads a message after
    its deletion, nor past the end of a session map; every address in the queue
    of the task is the address of a message that exists, once. *)
Theorem messages_live_until_restart es :
  run_ok step up_once init es ->
  ∃ s, run step init es = Some s
       ∧ NoDup (queue (tsk s)) ∧ ∀ p, p ∈ queue (tsk s) -> is_Some (messages (tsk s) !! p).
Proof.
  intros Hok. destruct (run_defined step up_once lifetime_ok init es lifetime_ok_step lifetime_ok_init Hok)
    as (s & Hs & [[H1 H2 _] _]). eauto.
Qed.

Definition ex_engine_up : list event :=
  [AddClientCommand 7 ex_cbs; RequestCapabilitiesCommand 7; StartTrackingCommand 7 (ex_opts 1000 20 2);
   TaskRun 0; TaskRun 0; TaskRun 0; EngineUp 4; TaskRun 0; TaskRun 0; TaskRun 0].

Lemma messages_live_until_restart_witness :
  ∃ s, run step init ex_engine_up = Some s
       ∧ NoDup (queue (tsk s)) ∧ ∀ p, p ∈ queue (tsk s) -> is_Some (messages (tsk s) !! p).
Proof.
  apply (messages_live_until_restart ex_engine_up).
  vm_compute. repeat split. all: intros H; repeat match goal with H : _ |- False => inversion_clear H end.
Defined.

(** A modem restart: mPendingMsgs keeps the addresses it sent, so the second
    engine-up event sends messages that are deleted. *)
Lemma restart_uses_deleted_messages :
  run step init (ex_engine_up ++ [EngineUp 4; TaskRun 0; TaskRun 0]) = None.
Proof. vm_compute. reflexivity. Qed.
