(* ===== verification/GnssServe.v ===== *)
(** The engine serves the sessions of GnssTracking.v: as long as LocApi
    succeeds, the interval of the request it ran last, after those that are on
    their way, is at most that of every time based session. *)

From stdpp Require Import list gmap.
From S2P Require Import Prelude Runs DgnssNtrip GnssTracking GnssSessions GnssTrackingProps.

Local Open Scope Z_scope.

(** * The engine *)

(** What the engine runs when LocApi has executed its requests. *)
Definition engine_after (s : state) : option TrackingOptions :=
  foldl (λ e x, accept (fst x) e) (engine (api s)) (requests (api s)).

Lemma engine_after_call r x s : engine_after (call_api r x s) = accept r (engine_after s).
Proof. unfold engine_after. simpl. by rewrite foldl_app. Qed.

Abbreviation at_highest s := (mSPEAlreadyRunningAtHighestInterval (ad s)) (only parsing).

(** What the rate depends on. *)
Definition eview (s : state) := (engine_after s, at_highest s, mNHzNeeded (ad s)).

(** While the flag says that the engine runs at the highest rate, it does. *)
Definition rate_ok (s : state) : Prop :=
  at_highest s = true ->
  mNHzNeeded (ad s) = true ∧ ∃ t, engine_after s = Some t ∧ minInterval t <= MIN_TRACKING_INTERVAL.

(** The engine, and the mode the engine hub was told, are at least as fast as
    an interval of [n]. *)
Definition runs_at (n : Z) (s : state) : Prop :=
  (∃ t, engine_after s = Some t ∧ minInterval t <= n) ∧ min_interval (mLocPositionMode (ad s)) <= n.

(** [n] is at most the interval of the sessions whose keys are in [P]. *)
Definition covers (P : LocationSessionKey -> Prop) (n : Z) (m : TrackingOptionsMap) : Prop :=
  ∀ k (o : TrackingOptions), (k, o) ∈ m -> P k -> n <= minInterval o.

Definition sessions_ok (m : TrackingOptionsMap) : Prop :=
  ordered m ∧ ∀ k (o : TrackingOptions), (k, o) ∈ m -> size o <> 0 ∧ MIN_TRACKING_INTERVAL <= minInterval o.

Definition serves (s : state) : Prop :=
  rate_ok s ∧ sessions_ok (tb s)
  ∧ (tb s <> [] -> ∃ n, runs_at n s ∧ covers (λ _, True) n (tb s)).

Lemma sessions_ok_sized m : sessions_ok m -> sized m.
Proof. intros [_ H] k o Hin. by apply (H k o). Qed.

Lemma rate_ok_eview s s' : eview s' = eview s -> rate_ok s -> rate_ok s'.
Proof. unfold eview, rate_ok. intros [= -> -> ->]. done. Qed.

Lemma covers_weaken P n n' m : n' <= n -> covers P n m -> covers P n' m.
Proof. intros Hn H k o Hin HP. specialize (H k o Hin HP). lia. Qed.

Lemma runs_at_weaken n n' s : n <= n' -> runs_at n s -> runs_at n' s.
Proof. intros Hn [(t & Ht & Hle) Hm]. split; [exists t; split; [done|lia]|lia]. Qed.

(** ** Requests *)

Lemma min_interval_mode m s :
  min_interval (mLocPositionMode (ad (setLocPositionMode m s))) = min_interval m.
Proof.
  unfold setLocPositionMode. destruct (posMode_equals _ m) eqn:E; [|done].
  unfold posMode_equals in E. rewrite !andb_true_iff, !Z.eqb_eq in E. tauto.
Qed.

Lemma eview_hub o s : eview (prepare_hub o s) = eview s.
Proof. unfold prepare_hub, setLocPositionMode. by case_match. Qed.

(** After the rate check either nothing must be sent because the engine runs
    at the highest rate, or the options to send are at least as fast. *)
Lemma check_rate o s o' b s' :
  checkAndSetSPEToRunforNHz o s = (o', b, s') ->
  rate_ok s -> MIN_TRACKING_INTERVAL <= minInterval o ->
  mLocPositionMode (ad s') = mLocPositionMode (ad s)
  ∧ if b then s' = s ∧ ∃ t, engine_after s = Some t ∧ minInterval t <= MIN_TRACKING_INTERVAL
    else minInterval o' <= minInterval o
         ∧ (at_highest s' = true -> mNHzNeeded (ad s') = true ∧ minInterval o' <= MIN_TRACKING_INTERVAL).
Proof.
  unfold checkAndSetSPEToRunforNHz. intros H Hr Ho.
  destruct (mNHzNeeded (ad s)) eqn:En; simpl in H.
  - destruct (at_highest s) eqn:Ef.
    + simplify_eq. split; [done|]. split; [done|]. by apply Hr.
    + case_match; simplify_eq/=; (split; [done|]).
      * unfold set_minInterval, MIN_TRACKING_INTERVAL in *. simpl. split; [lia|done].
      * rewrite Ef. split; [lia|done].
  - simplify_eq. split; [done|]. split; [lia|]. intros Hf. destruct (Hr Hf) as [Hn _]. congruence.
Qed.

(** startTimeBasedTracking and updateTracking differ in the response only. *)
Lemma launch_serves c i (o : TrackingOptions) resp s :
  rate_ok s -> MIN_TRACKING_INTERVAL <= minInterval o ->
  let s1 := prepare_hub o s in
  let s' := let '(tempOptions, running, s) := checkAndSetSPEToRunforNHz o s1 in
            if running then reportResponse c LOCATION_ERROR_SUCCESS i s
            else call_api (ReqStartTimeBasedTracking tempOptions) resp s in
  rate_ok s' ∧ runs_at (minInterval o) s'.
Proof.
  intros Hr Ho. cbv zeta. apply (rate_ok_eview s (prepare_hub o s)) in Hr; [|apply eview_hub].
  assert (min_interval (mLocPositionMode (ad (prepare_hub o s))) = minInterval o) as Hm
    by apply (min_interval_mode (convertOptions o)).
  destruct (checkAndSetSPEToRunforNHz o _) as [[o' b] s'] eqn:E. apply check_rate in E as [Hp E]; [|done..].
  destruct b.
  - destruct E as [-> (t & Ht & Hle)]. split; [exact Hr|]. split; [|exact (Z.eq_le_incl _ _ Hm)].
    exists t. split; [exact Ht|lia].
  - destruct E as [Hle Hf]. split.
    + intros Hh. destruct (Hf Hh) as [Hn Hl]. split; [done|]. rewrite engine_after_call. by exists o'.
    + split; [rewrite engine_after_call; by exists o'|].
      apply Z.eq_le_incl. transitivity (min_interval (mLocPositionMode (ad (prepare_hub o s))));
        [exact (f_equal min_interval Hp)|exact Hm].
Qed.

Lemma start_serves c i (o : TrackingOptions) s :
  rate_ok s -> MIN_TRACKING_INTERVAL <= minInterval o ->
  rate_ok (startTimeBasedTracking c i o s) ∧ runs_at (minInterval o) (startTimeBasedTracking c i o s).
Proof. apply launch_serves. Qed.
Lemma update_serves c i (o : TrackingOptions) old s :
  rate_ok s -> MIN_TRACKING_INTERVAL <= minInterval o ->
  rate_ok (updateTracking c i o old s) ∧ runs_at (minInterval o) (updateTracking c i o old s).
Proof. apply launch_serves. Qed.

Lemma stopTracking_off c i s :
  engine_after (stopTracking c i s) = None ∧ rate_ok (stopTracking c i s).
Proof. split; [|done]. unfold engine_after. simpl. by rewrite foldl_app. Qed.

(** ** Multiplexing *)

(** A session that starts is served with the others. *)
Lemma startMux_serves c i (o : TrackingOptions) s w s' :
  serves s -> MIN_TRACKING_INTERVAL <= minInterval o ->
  startTimeBasedTrackingMultiplex c i o s = (w, s') ->
  rate_ok s' ∧ ∃ n, runs_at n s' ∧ n <= minInterval o ∧ covers (λ _, True) n (tb s).
Proof.
  intros (Hr & Hs & Hc) Ho. unfold startTimeBasedTrackingMultiplex.
  destruct (tb s) as [|[k1 o1] m] eqn:Etb.
  - intros [= _ <-]. destruct (start_serves c i o (on_ad (set_PrevNmea 0) s)) as [A B]; [done..|].
    split; [done|]. eexists. split_and!; [done|lia|]. intros k o' Hin. by apply elem_of_nil in Hin.
  - rewrite <-Etb in *.
    assert ((k1, o1) ∈ tb s) as Hin1 by (rewrite Etb; apply list_elem_of_here).
    destruct (multiplexed_min (λ _, true) (tb s) k1 o1) as [(k0 & Hk0 & _) Hmin];
      [by apply sessions_ok_sized|done..|].
    destruct (multiplexed _ (tb s) _ _) as [mo pm] eqn:Em. simpl in *.
    assert (MIN_TRACKING_INTERVAL <= minInterval mo) as Hmo by by apply (proj2 Hs k0).
    destruct Hc as (n & Hn & Hcov); [by rewrite Etb|].
    assert (n <= minInterval mo) as Hnm by by apply (Hcov k0).
    assert (∀ o' : TrackingOptions, MIN_TRACKING_INTERVAL <= minInterval o' ->
              minInterval o' <= minInterval o -> minInterval o' <= minInterval mo ->
              rate_ok (startTimeBasedTracking c i o' s)
              ∧ ∃ n, runs_at n (startTimeBasedTracking c i o' s) ∧ n <= minInterval o
                     ∧ covers (λ _, True) n (tb s)) as Hstart.
    { intros o' H1 H2 H3. destruct (start_serves c i o' s Hr H1) as [A B]. split; [done|].
      exists (minInterval o'). split_and!; [done|lia|]. intros k o2 Hin _.
      specialize (Hmin k o2 Hin eq_refl). lia. }
    rewrite Etb; cbv beta iota; rewrite <-Etb. destruct (minInterval o <? minInterval mo) eqn:E1, (powerMode o <? pm); intros [= _ <-];
      rewrite ?Z.ltb_lt, ?Z.ltb_ge in E1; try (apply Hstart; simpl; lia).
    split; [done|]. exists n. split_and!; [done|lia|done].
Qed.

Lemma not_key_spec k k' : not_key k k' = true <-> k' <> k.
Proof. unfold not_key. apply bool_decide_eq_true. Qed.

(** Two sessions: besides one there is another. *)
Lemma another_session k x y m :
  ordered (x :: y :: m) -> ∃ z : LocationSessionKey * TrackingOptions, z ∈ x :: y :: m ∧ fst z <> k.
Proof.
  intros Ho. destruct (decide (fst x = k)) as [Ex|Ex]; [|exists x; split; [apply list_elem_of_here|done]].
  exists y. split; [apply list_elem_of_further, list_elem_of_here|]. intros Ey.
  destruct x as [kx vx], y as [ky vy]. simpl in *. subst.
  by apply (ordered_head k vx ((k, vy) :: m) k vy Ho); [apply list_elem_of_here|].
Qed.

(** Of the other sessions the loop finds one with the smallest interval. *)
Lemma multiplexed_others k x y m :
  sessions_ok (x :: y :: m) ->
  let mo := fst (multiplexed (not_key k) (x :: y :: m) zero_options GNSS_POWER_MODE_INVALID) in
  (∃ k', (k', mo) ∈ x :: y :: m ∧ k' <> k) ∧ covers (λ k', k' <> k) (minInterval mo) (x :: y :: m).
Proof.
  intros Hs. destruct (another_session k x y m (proj1 Hs)) as ([k0 o0] & Hin & Hne).
  destruct (multiplexed_min (not_key k) (x :: y :: m) k0 o0) as [(k' & Hk' & Hn) Hmin];
    [by apply sessions_ok_sized|done|by apply not_key_spec|].
  split; [exists k'; split; [done|by apply not_key_spec in Hn]|].
  intros k2 o2 H2 Hne2. by apply (Hmin k2 o2 H2), not_key_spec.
Qed.

(** A session that is updated is served, with the others. *)
Lemma updateMux_serves c i (o : TrackingOptions) s w s' :
  serves s -> MIN_TRACKING_INTERVAL <= minInterval o ->
  updateTrackingMultiplex c i o s = Some (w, s') ->
  rate_ok s' ∧ ∃ n, runs_at n s' ∧ n <= minInterval o ∧ covers (λ k, k <> SessionKey c i) n (tb s).
Proof.
  intros (Hr & Hs & Hc) Ho. unfold updateTrackingMultiplex.
  destruct (map_find _ (tb s)) as [old|] eqn:Ef; [|done]. apply map_find_In in Ef.
  destruct Hc as (n & Hn & Hcov); [intros E; rewrite E in Ef; by apply elem_of_nil in Ef|].
  assert (n <= minInterval old) as Hold by by apply (Hcov _ _ Ef).
  assert (∀ o' : TrackingOptions, MIN_TRACKING_INTERVAL <= minInterval o' -> minInterval o' <= minInterval o ->
            covers (λ k, k <> SessionKey c i) (minInterval o') (tb s) ->
            rate_ok (updateTracking c i o' old s)
            ∧ ∃ n, runs_at n (updateTracking c i o' old s) ∧ n <= minInterval o
                   ∧ covers (λ k, k <> SessionKey c i) n (tb s)) as Hup.
  { intros o' H1 H2 H3. destruct (update_serves c i o' old s Hr H1) as [A B]. split; [done|].
    by exists (minInterval o'). }
  assert (covers (λ k, k <> SessionKey c i) n (tb s)) as Hcov' by (intros k o' Hin _; by apply (Hcov k)).
  destruct (_ || _) eqn:Ech.
  - destruct (tb s) as [|x [|y m]] eqn:Etb; [by apply elem_of_nil in Ef| |].
    + repeat case_match; intros [= _ <-]; simplify_eq; (apply Hup; [done|lia|]);
        intros k o' Hin%list_elem_of_singleton Hne; apply list_elem_of_singleton in Ef; by simplify_eq.
    + destruct (multiplexed_others (SessionKey c i) x y m Hs) as [(k' & Hk' & _) Hmin].
      destruct (multiplexed _ (x :: y :: m) _ _) as [mo pm]. simpl in Hk', Hmin.
      assert (MIN_TRACKING_INTERVAL <= minInterval mo) as Hmo by by apply (proj2 Hs k').
      assert (n <= minInterval mo) as Hnm by by apply (Hcov k').
      destruct (minInterval o <? minInterval mo) eqn:E1, (powerMode o <? pm); intros [= _ <-];
        rewrite ?Z.ltb_lt, ?Z.ltb_ge in E1;
        try (apply Hup; simpl; [lia|lia|eapply covers_weaken; [|exact Hmin]; simpl; lia]).
      split; [done|]. exists n. split_and!; [done|lia|done].
  - intros [= _ <-]. split; [done|]. exists n. split_and!; [done| |done].
    apply orb_false_iff in Ech as [Ech _]. apply negb_false_iff, Z.eqb_eq in Ech. lia.
Qed.

(** When a session stops, the others are still served, or the engine stops. *)
Lemma stopMux_serves c i s w s' :
  serves s -> is_Some (map_find (SessionKey c i) (tb s)) ->
  stopTimeBasedTrackingMultiplex c i s = (w, s') ->
  rate_ok s'
  ∧ (map_erase (SessionKey c i) (tb s) = [] -> engine_after s' = None)
  ∧ (map_erase (SessionKey c i) (tb s) <> [] ->
     ∃ n, runs_at n s' ∧ covers (λ k, k <> SessionKey c i) n (tb s)).
Proof.
  intros (Hr & Hs & Hc) [it Hf]. unfold stopTimeBasedTrackingMultiplex. rewrite Hf.
  assert (Hin := map_find_In _ _ _ Hf). destruct (tb s) as [|x [|y m]] eqn:Etb; [done| |].
  - intros [= _ <-]. apply list_elem_of_singleton in Hin as <-. simpl.
    rewrite decide_True by done. destruct (stopTracking_off c i s) as [A B]. split_and!; done.
  - destruct Hc as (n & Hn & Hcov); [done|].
    destruct (multiplexed_others (SessionKey c i) x y m Hs) as [(k' & Hk' & _) Hmin].
    destruct (multiplexed _ (x :: y :: m) _ _) as [mo pm]. simpl in Hk', Hmin.
    assert (MIN_TRACKING_INTERVAL <= minInterval mo) as Hmo by by apply (proj2 Hs k').
    assert (map_erase (SessionKey c i) (x :: y :: m) <> []) as Hne.
    { destruct x as [kx vx]. cbn [map_erase]. by destruct (decide (SessionKey c i = kx)). }
    destruct (_ || _); intros [= _ <-].
    + destruct (start_serves c i (set_powerMode pm mo) s Hr Hmo) as [A B]. split_and!; [done|done|].
      intros _. by exists (minInterval mo).
    + split_and!; [done|done|]. intros _. exists n. split; [done|]. intros k o Hk _. by apply (Hcov k).
Qed.

(** ** Saving and erasing *)

Lemma eview_power s : eview (reportPowerStateIfChanged s) = eview s.
Proof. unfold reportPowerStateIfChanged. cbv zeta. by repeat case_match. Qed.
Lemma eview_save c i o s : eview (saveTrackingSession c i o s) = eview s.
Proof. unfold saveTrackingSession. cbv zeta. rewrite eview_power. by case_match. Qed.
Lemma eview_erase c i s : eview (eraseTrackingSession c i s) = eview s.
Proof. unfold eraseTrackingSession. cbv zeta. rewrite eview_power. by case_match. Qed.

Lemma sessions_power s :
  tb (reportPowerStateIfChanged s) = tb s ∧ db (reportPowerStateIfChanged s) = db s
  ∧ mLocPositionMode (ad (reportPowerStateIfChanged s)) = mLocPositionMode (ad s).
Proof. unfold reportPowerStateIfChanged. cbv zeta. by repeat case_match. Qed.

Definition to_distance (o : TrackingOptions) (s : state) : bool :=
  (0 <? minDistance o) && isMessageSupported LOC_API_ADAPTER_MESSAGE_DISTANCE_BASE_TRACKING s.

Lemma save_sessions c i o s :
  tb (saveTrackingSession c i o s)
    = (if to_distance o s then tb s else map_set (SessionKey c i) o (tb s))
  ∧ mLocPositionMode (ad (saveTrackingSession c i o s)) = mLocPositionMode (ad s).
Proof.
  unfold saveTrackingSession, to_distance. cbv zeta.
  destruct (sessions_power (if (0 <? minDistance o) && isMessageSupported LOC_API_ADAPTER_MESSAGE_DISTANCE_BASE_TRACKING s
    then on_ad (set_sessions (tb s) (map_set (SessionKey c i) (location o) (db s))) s
    else on_ad (set_sessions (map_set (SessionKey c i) o (tb s)) (db s)) s)) as (-> & _ & ->).
  by case_match.
Qed.

Lemma map_erase_absent {V} k (m : session_map V) : map_find k m = None -> map_erase k m = m.
Proof.
  induction m as [|[k' v] m IH]; simpl; [done|]. destruct (decide (k = k')); [done|].
  intros H. by rewrite IH.
Qed.

Lemma erase_sessions c i s :
  tb (eraseTrackingSession c i s) = map_erase (SessionKey c i) (tb s)
  ∧ mLocPositionMode (ad (eraseTrackingSession c i s)) = mLocPositionMode (ad s).
Proof.
  unfold eraseTrackingSession. cbv zeta. destruct (map_find (SessionKey c i) (tb s)) eqn:E.
  - destruct (sessions_power (on_ad (set_sessions (map_erase (SessionKey c i) (tb s)) (db s)) s)) as (-> & _ & ->).
    done.
  - destruct (sessions_power (on_ad (set_sessions (tb s) (map_erase (SessionKey c i) (db s))) s)) as (-> & _ & ->).
    simpl. by rewrite map_erase_absent.
Qed.

Lemma eview_fields s s' :
  eview s' = eview s ->
  engine_after s' = engine_after s ∧ at_highest s' = at_highest s ∧ mNHzNeeded (ad s') = mNHzNeeded (ad s).
Proof. unfold eview. by intros [= -> -> ->]. Qed.

Lemma runs_at_eview n s s' :
  eview s' = eview s -> mLocPositionMode (ad s') = mLocPositionMode (ad s) -> runs_at n s -> runs_at n s'.
Proof. intros He Hm. apply eview_fields in He as (E & _). unfold runs_at. by rewrite E, Hm. Qed.

(** Saving a session that the engine already serves. *)
Lemma save_serves c i (o : TrackingOptions) s n :
  rate_ok s -> sessions_ok (tb s) -> size o <> 0 -> MIN_TRACKING_INTERVAL <= minInterval o ->
  runs_at n s -> n <= minInterval o -> covers (λ k, k <> SessionKey c i) n (tb s) ->
  (to_distance o s = true -> covers (λ _, True) n (tb s)) ->
  serves (saveTrackingSession c i o s).
Proof.
  intros Hr [Ho Hs] Hz Hi Hn Hno Hcov Hcov'. destruct (save_sessions c i o s) as [Et Em].
  split; [by eapply rate_ok_eview, Hr; apply eview_save|]. rewrite Et.
  destruct (to_distance o s) eqn:Ed.
  - split; [done|]. intros _. exists n. split; [|by apply Hcov'].
    by eapply runs_at_eview; [apply eview_save|done|].
  - split; [split; [by apply ordered_map_set|]|].
    + intros k o' Hin. apply map_set_In in Hin as [[= -> ->]|Hin]; [done|by apply (Hs k)].
    + intros _. exists n. split; [by eapply runs_at_eview; [apply eview_save|done|]|].
      intros k o' Hin _. apply map_set_other in Hin as [[= -> ->]|[Hin Hk]]; [done| |done].
      by apply (Hcov k).
Qed.

(** Erasing a session never hurts the others. *)
Lemma erase_serves c i s :
  rate_ok s -> sessions_ok (tb s) ->
  (map_erase (SessionKey c i) (tb s) <> [] -> ∃ n, runs_at n s ∧ covers (λ k, k <> SessionKey c i) n (tb s)) ->
  serves (eraseTrackingSession c i s).
Proof.
  intros Hr [Ho Hs] Hc. destruct (erase_sessions c i s) as [Et Em].
  split; [by eapply rate_ok_eview, Hr; apply eview_erase|]. rewrite Et. split; [split|].
  - by apply ordered_erase.
  - intros k o Hin%map_erase_In. by apply (Hs k).
  - intros Hne. destruct (Hc Hne) as (n & Hn & Hcov). exists n.
    split; [by eapply runs_at_eview; [apply eview_erase|done|]|].
    intros k o Hin _. apply map_erase_other in Hin as [Hin Hk]; [|done]. by apply (Hcov k).
Qed.

Lemma erase_serves_any c i s : serves s -> serves (eraseTrackingSession c i s).
Proof.
  intros (Hr & Hs & Hc). apply erase_serves; [done..|]. intros Hne.
  destruct Hc as (n & Hn & Hcov); [by intros E; rewrite E in Hne|]. exists n. split; [done|].
  intros k o Hin _. by apply (Hcov k).
Qed.

(** ** Restarting *)

Lemma serves_frame s s' :
  eview s' = eview s -> tb s' = tb s -> mLocPositionMode (ad s') = mLocPositionMode (ad s) ->
  serves s -> serves s'.
Proof.
  intros He Ht Hm (Hr & Hs & Hc). split; [by eapply rate_ok_eview|]. rewrite Ht. split; [done|].
  intros Hne. destruct (Hc Hne) as (n & Hn & Hcov). exists n. split; [|done]. by eapply runs_at_eview.
Qed.

(** A request about distance based sessions does not touch the engine. *)
Lemma serves_call r x s : (∀ e, accept r e = e) -> serves s -> serves (call_api r x s).
Proof. intros Hr. apply serves_frame; [|done..]. unfold eview. by rewrite engine_after_call, Hr. Qed.

(** With the rate flag cleared, a restart serves the sessions whatever the
    engine ran; it needs a hub mode that is fast enough. *)
Lemma restartTime_serves s n :
  at_highest s = false -> sessions_ok (tb s) ->
  min_interval (mLocPositionMode (ad s)) <= n -> covers (λ _, True) n (tb s) ->
  serves (checkAndRestartTimeBasedSession s)
  ∧ (tb s = [] -> checkAndRestartTimeBasedSession s = s).
Proof.
  intros Hf Hs Hm Hcov. unfold checkAndRestartTimeBasedSession.
  destruct (tb s) as [|[k1 o1] m] eqn:Etb.
  { split; [|done]. split; [by intros E; rewrite Hf in E|]. by rewrite Etb. }
  split; [|done]. rewrite <-Etb in *.
  assert ((k1, o1) ∈ tb s) as Hin1 by (rewrite Etb; apply list_elem_of_here).
  destruct (multiplexed_min (λ _, true) (tb s) k1 o1) as [(k0 & Hk0 & _) Hmin];
    [by apply sessions_ok_sized|done..|].
  revert Hk0 Hmin. generalize (fst (multiplexed (λ _, true) (tb s) zero_options GNSS_POWER_MODE_INVALID)).
  intros mo Hk0 Hmin. cbv zeta. set (o := setLocationOptions mo _).
  assert (minInterval o = minInterval mo) as Eo by done.
  assert (MIN_TRACKING_INTERVAL <= minInterval mo) as Hmo by by apply (proj2 Hs k0).
  assert (n <= minInterval mo) as Hnm by by apply (Hcov k0).
  destruct (checkAndSetSPEToRunforNHz o s) as [[o' b] s'] eqn:E.
  assert (Hfr := checkAndSet_frame _ _ _ _ _ E). apply check_rate in E as [Hp E]; [|by intros H; rewrite Hf in H|lia].
  destruct Hfr as [_ Hse]. unfold sess in Hse. injection Hse as Ht _ _.
  destruct b.
  { destruct E as [-> (t & Ht' & Hle)]. split; [by intros H; rewrite Hf in H|]. split; [done|].
    intros _. exists (minInterval mo). split; [split; [exists t; split; [done|lia]|lia]|].
    intros k o2 Hin _. by apply (Hmin k). }
  destruct E as [Hle Hflag]. split; [|split].
  - intros Hh. destruct (Hflag Hh). split; [done|]. rewrite engine_after_call. by exists o'.
  - simpl. by rewrite Ht.
  - intros _. exists (minInterval mo). split.
    + split; [rewrite engine_after_call; exists o'; split; [done|lia]|]. simpl. rewrite Hp. lia.
    + simpl. rewrite Ht. intros k o2 Hin _. by apply (Hmin k).
Qed.

Lemma hub_covers s : serves s ->
  ∃ n, (tb s <> [] -> min_interval (mLocPositionMode (ad s)) <= n) ∧ covers (λ _, True) n (tb s).
Proof.
  intros (_ & _ & Hc). destruct (tb s) as [|x m] eqn:E.
  - exists 0. split; [done|]. intros k o Hin. by apply elem_of_nil in Hin.
  - destruct Hc as (n & [_ Hn] & Hcov); [done|]. by exists n.
Qed.

(** What a restart starts from: sessions a hub mode covers. *)
Definition restartable (s : state) : Prop :=
  sessions_ok (tb s) ∧ ∃ n, (tb s <> [] -> min_interval (mLocPositionMode (ad s)) <= n) ∧ covers (λ _, True) n (tb s).

Lemma restartSPE_serves s :
  restartable s ->
  serves (checkAndRestartSPESession s)
  ∧ (tb s = [] -> engine_after (checkAndRestartSPESession s) = engine_after s).
Proof.
  intros [Hs (n & Hm & Hcov)]. unfold checkAndRestartSPESession. cbv zeta.
  set (s1 := on_ad (set_SPEAtHighest false) s).
  assert (serves (checkAndRestartTimeBasedSession s1)
          ∧ (tb s = [] -> checkAndRestartTimeBasedSession s1 = s1)) as [H1 H2].
  { destruct (tb s) as [|x m] eqn:E.
    - unfold checkAndRestartTimeBasedSession. replace (tb s1) with (tb s) by done. rewrite E.
      split; [|done]. split; [done|]. replace (tb s1) with (tb s) by done. rewrite E. done.
    - rewrite <-E in *. destruct (restartTime_serves s1 n) as [A B]; [done|done|apply Hm; by rewrite E|done|].
      done. }
  split.
  - apply foldl_invariant; [|exact H1]. intros s2 [k o]. by apply serves_call.
  - intros E. rewrite H2 by done. rewrite (foldl_frame engine_after); [done|].
    intros s2 [k o]. by rewrite engine_after_call.
Qed.

Lemma restart_serves t b s :
  restartable s ->
  serves (restartSessions t b s) ∧ (tb s = [] -> engine_after (restartSessions t b s) = engine_after s).
Proof.
  intros Hr. unfold restartSessions. cbv zeta.
  match goal with |- serves (checkAndRestartSPESession ?x) ∧ _ =>
    assert (tb x = tb s ∧ mLocPositionMode (ad x) = mLocPositionMode (ad s) ∧ engine_after x = engine_after s)
      as (E1 & E2 & E3); [by destruct b; case_match|];
    destruct (restartSPE_serves x) as [A B]; [unfold restartable; by rewrite E1, E2|]
  end.
  split; [done|]. intros E. rewrite <-E3. apply B. by rewrite E1.
Qed.

Lemma suspend_restartable s :
  serves s -> restartable (suspendSessions s) ∧ (tb s = [] -> suspendSessions s = s).
Proof.
  intros Hs. unfold suspendSessions. destruct (tb s) as [|x m] eqn:E.
  - split; [|done]. split; [apply Hs|]. by apply hub_covers.
  - split; [|done]. destruct (hub_covers s Hs) as (n & H1 & H2). split; [apply Hs|]. by exists n.
Qed.

(** * Messages and responses on their way *)

Definition sup (s : state) : bool := isMessageSupported LOC_API_ADAPTER_MESSAGE_DISTANCE_BASE_TRACKING s.

Lemma sup_still s s' : still s' = still s -> sup s' = sup s.
Proof. unfold still, sup, isMessageSupported. intros H. inversion H. congruence. Qed.

(** [dbt]: the engine supports distance based tracking, or else no session is
    changed to it.  [tonly]: no distance based session is ever asked for. *)
Section Serve.
Context (dbt tonly : bool).

Definition resp_ok (p : bool) (r : response) : Prop :=
  match r with
  | RespToTime _ _ o =>
      tonly = false ∧ minDistance o = 0 ∧ size o <> 0 ∧ MIN_TRACKING_INTERVAL <= minInterval o
  | RespRestart _ _ o | RespRestarted _ _ o => tonly = false ∧ 0 < minDistance o ∧ p = true
  | RespStartDistance _ _ | RespStopDistance _ _ | RespRemoveClient _ _ => tonly = false
  | RespStartTime _ _ | RespUpdate _ _ _ | RespStopFix _ _ | RespNothing => True
  end.

Definition request_ok (p : bool) (x : request * option response) : Prop :=
  match snd x with Some r => resp_ok p r | None => True end.
Definition requests_ok (p : bool) (s : state) : Prop := Forall (request_ok p) (requests (api s)).

Definition options_ok (o : TrackingOptions) : Prop :=
  0 <= minDistance o ∧ (tonly = true -> minDistance o = 0).

Definition msg_ok (s : state) (m : LocMsg) : Prop :=
  match m with
  | MsgStartTracking _ _ o => options_ok o
  | MsgUpdateTracking _ _ o => options_ok o ∧ (dbt = false -> minDistance o = 0)
  | MsgHandleEngineUpEvent => sIsEngineCapabilitiesKnown (api s) = true
  | LocApiResponse r err => err = LOCATION_ERROR_SUCCESS ∧ resp_ok (sup s) r
  | _ => True
  end.
Definition messages_ok (s : state) : Prop := ∀ p m, messages (tsk s) !! p = Some m -> msg_ok s m.

(** The adapter knows the capabilities when ContextBase does. *)
Definition caps_ok (s : state) : Prop :=
  (mIsEngineCapabilitiesKnown (ad s) = true -> sIsEngineCapabilitiesKnown (api s) = true)
  ∧ (sIsEngineCapabilitiesKnown (api s) = true -> dbt = true -> sup s = true)
  ∧ (sIsEngineCapabilitiesKnown (api s) = false -> sSupportedMsgMask (api s) = 0).

(** With time based sessions only, the engine stops with the last one. *)
Definition off (s : state) : Prop :=
  tonly = true -> db s = [] ∧ (tb s = [] -> engine_after s = None).

Definition serve_inv (s : state) : Prop :=
  serves s ∧ off s ∧ requests_ok (sup s) s ∧ messages_ok s ∧ caps_ok s.

(** LocApi succeeds; options hold unsigned numbers. *)
Definition engine_ok (s : state) (e : event) : Prop :=
  match e with
  | StartTrackingCommand _ o => options_ok o
  | UpdateTrackingOptionsCommand _ _ o => options_ok o ∧ (dbt = false -> minDistance o = 0)
  | EngineUp mask => dbt = true -> Z.land 4 mask = 4
  | ApiRun err => err = LOCATION_ERROR_SUCCESS
  | _ => True
  end.

(** ** Requests that operations add *)

Lemma requests_ok_call p r x s : request_ok p (r, x) -> requests_ok p s -> requests_ok p (call_api r x s).
Proof. intros Hx H. unfold requests_ok. simpl. by apply Forall_snoc. Qed.

Lemma requests_ok_power p s : requests_ok p (reportPowerStateIfChanged s) <-> requests_ok p s.
Proof. unfold reportPowerStateIfChanged, requests_ok. cbv zeta. by repeat case_match. Qed.
Lemma requests_ok_save p c i o s : requests_ok p s -> requests_ok p (saveTrackingSession c i o s).
Proof. unfold saveTrackingSession. cbv zeta. rewrite requests_ok_power. by case_match. Qed.
Lemma requests_ok_erase p c i s : requests_ok p s -> requests_ok p (eraseTrackingSession c i s).
Proof. unfold eraseTrackingSession. cbv zeta. rewrite requests_ok_power. by case_match. Qed.

Lemma requests_ok_launch p c i (o : TrackingOptions) resp s :
  request_ok p (ReqStartTimeBasedTracking o, resp) -> requests_ok p s ->
  requests_ok p (let '(tempOptions, running, s) := checkAndSetSPEToRunforNHz o (prepare_hub o s) in
                 if running then reportResponse c LOCATION_ERROR_SUCCESS i s
                 else call_api (ReqStartTimeBasedTracking tempOptions) resp s).
Proof.
  intros Hr Hs. assert (requests_ok p (prepare_hub o s)) as H.
  { unfold prepare_hub, setLocPositionMode. cbv zeta. by case_match. }
  revert H. generalize (prepare_hub o s). intros s1 H. unfold checkAndSetSPEToRunforNHz.
  repeat case_match; simplify_eq; try done; by apply requests_ok_call.
Qed.

Lemma requests_ok_start p c i o s : requests_ok p s -> requests_ok p (startTimeBasedTracking c i o s).
Proof. by apply requests_ok_launch. Qed.
Lemma requests_ok_update p c i o old s : requests_ok p s -> requests_ok p (updateTracking c i o old s).
Proof. by apply requests_ok_launch. Qed.
Lemma requests_ok_stop p c i s : requests_ok p s -> requests_ok p (stopTracking c i s).
Proof. intros H. by apply (requests_ok_call p ReqStopFix (Some (RespStopFix c i))). Qed.

Lemma requests_ok_startMux p c i o s w s' :
  startTimeBasedTrackingMultiplex c i o s = (w, s') -> requests_ok p s -> requests_ok p s'.
Proof.
  unfold startTimeBasedTrackingMultiplex. intros H Hs.
  repeat case_match; simplify_eq; try done; by apply requests_ok_start.
Qed.
Lemma requests_ok_updateMux p c i o s w s' :
  updateTrackingMultiplex c i o s = Some (w, s') -> requests_ok p s -> requests_ok p s'.
Proof.
  unfold updateTrackingMultiplex. intros H Hs.
  repeat case_match; simplify_eq; try done; by apply requests_ok_update.
Qed.
Lemma requests_ok_stopMux p c i s w s' :
  stopTimeBasedTrackingMultiplex c i s = (w, s') -> requests_ok p s -> requests_ok p s'.
Proof.
  unfold stopTimeBasedTrackingMultiplex. intros H Hs.
  repeat case_match; simplify_eq; try done; first [by apply requests_ok_start|by apply requests_ok_stop].
Qed.

Lemma requests_ok_restartSPE p s : requests_ok p s -> requests_ok p (checkAndRestartSPESession s).
Proof.
  intros H. unfold checkAndRestartSPESession. cbv zeta. apply foldl_invariant.
  - intros s1 [k o]. by apply requests_ok_call.
  - unfold checkAndRestartTimeBasedSession. case_match; [done|]. cbv zeta. unfold checkAndSetSPEToRunforNHz.
    repeat case_match; simplify_eq; try done; by apply requests_ok_call.
Qed.
Lemma requests_ok_restart p t b s : requests_ok p s -> requests_ok p (restartSessions t b s).
Proof.
  intros H. unfold restartSessions. cbv zeta. apply requests_ok_restartSPE. by destruct b; case_match.
Qed.
Lemma requests_ok_suspend p s : requests_ok p s -> requests_ok p (suspendSessions s).
Proof.
  intros H. unfold suspendSessions. case_match; [done|]. by apply (requests_ok_call p ReqStopFix None).
Qed.

(** * Processing *)

Definition core (s : state) : Prop := serves s ∧ off s ∧ requests_ok (sup s) s.

Lemma core_frame s s' :
  eview s' = eview s -> sess s' = sess s -> mLocPositionMode (ad s') = mLocPositionMode (ad s) ->
  requests (api s') = requests (api s) -> sup s' = sup s -> core s -> core s'.
Proof.
  intros He Hs Hm Hr Hp (H1 & H2 & H3). unfold sess in Hs. injection Hs as Ht Hd _.
  split; [by eapply serves_frame|]. split.
  - intros Ho. rewrite Ht, Hd. destruct (H2 Ho) as [A B]. split; [done|].
    apply eview_fields in He as (-> & _). done.
  - unfold requests_ok. by rewrite Hr, Hp.
Qed.

Lemma core_rr c e i s : core s -> core (reportResponse c e i s).
Proof. by apply core_frame. Qed.

Lemma to_distance_sup (o : TrackingOptions) s : to_distance o s = (0 <? minDistance o) && sup s.
Proof. done. Qed.

Lemma db_save c i o s :
  db (saveTrackingSession c i o s)
    = (if to_distance o s then map_set (SessionKey c i) (location o) (db s) else db s).
Proof.
  unfold saveTrackingSession, to_distance. cbv zeta.
  destruct (sessions_power (if (0 <? minDistance o) && isMessageSupported LOC_API_ADAPTER_MESSAGE_DISTANCE_BASE_TRACKING s
    then on_ad (set_sessions (tb s) (map_set (SessionKey c i) (location o) (db s))) s
    else on_ad (set_sessions (map_set (SessionKey c i) o (tb s)) (db s)) s)) as (_ & -> & _).
  by case_match.
Qed.

Lemma map_set_nonempty {V} k (v : V) m : map_set k v m <> [].
Proof. destruct m as [|[k' v'] m]; simpl; [done|]. by repeat case_match. Qed.

(** A session kept by distance does not matter to the engine. *)
Lemma core_save_distance c i (o : TrackingOptions) s :
  tonly = false -> to_distance o s = true -> core s -> core (saveTrackingSession c i o s).
Proof.
  intros Ht Hd (H1 & H2 & H3). destruct (save_sessions c i o s) as [Et Em]. rewrite Hd in Et.
  split; [by eapply serves_frame; [apply eview_save| | |]|]. split; [intros E; congruence|].
  rewrite (sup_still _ _ (still_save c i o s)). by apply requests_ok_save.
Qed.

Lemma core_call r x s :
  (∀ e, accept r e = e) -> request_ok (sup s) (r, x) -> core s -> core (call_api r x s).
Proof.
  intros Ha Hr (H1 & H2 & H3). split; [by apply serves_call|]. split; [|by apply requests_ok_call].
  intros Ho. destruct (H2 Ho) as [A B]. split; [done|]. intros Hb. rewrite engine_after_call, Ha. by apply B.
Qed.

(** A time based session starts. *)
Lemma core_start_save c i (o : TrackingOptions) s :
  size o <> 0 -> MIN_TRACKING_INTERVAL <= minInterval o -> to_distance o s = false -> core s ->
  core (let '(w, s) := startTimeBasedTrackingMultiplex c i o s in
        let s := saveTrackingSession c i o s in
        if w : bool then reportResponse c LOCATION_ERROR_SUCCESS i s else s).
Proof.
  intros Hz Hi Hd (H1 & H2 & H3).
  destruct (startTimeBasedTrackingMultiplex c i o s) as [w s'] eqn:E. cbv zeta.
  assert (Hf := startMux_frame _ _ _ _ _ _ E). destruct Hf as [Hst Hse].
  assert (Hq := requests_ok_startMux _ _ _ _ _ _ _ E H3).
  destruct (startMux_serves _ _ _ _ _ _ H1 Hi E) as (Hr & n & Hn & Hno & Hcov).
  unfold sess in Hse. injection Hse as Ht Hdb _.
  assert (Hd' : to_distance o s' = false) by by rewrite to_distance_sup, (sup_still _ _ Hst).
  assert (core (saveTrackingSession c i o s')) as Hc; [|by destruct w; [apply core_rr|]].
  split; [|split].
  - apply (save_serves _ _ _ _ n); rewrite ?Ht; try done; [apply H1|intros k o' Hin _; by apply (Hcov k)].
  - intros Ho. destruct (H2 Ho) as [A _]. rewrite db_save, Hd', Hdb. split; [done|].
    rewrite (proj1 (save_sessions c i o s')), Hd'. intros Hx. by apply map_set_nonempty in Hx.
  - rewrite (sup_still _ _ (still_save c i o s')), (sup_still _ _ Hst). by apply requests_ok_save.
Qed.

(** A time based session ends. *)
Lemma core_stop_erase c i s w s' :
  is_Some (map_find (SessionKey c i) (tb s)) -> core s ->
  stopTimeBasedTrackingMultiplex c i s = (w, s') -> core (eraseTrackingSession c i s').
Proof.
  intros Hin (H1 & H2 & H3) E. destruct (stopMux_frame _ _ _ _ _ E) as [Hst Hse].
  assert (Hq := requests_ok_stopMux _ _ _ _ _ _ E H3).
  destruct (stopMux_serves _ _ _ _ _ H1 Hin E) as (Hr & Hoff & Hon).
  unfold sess in Hse. injection Hse as Ht Hdb _. split; [|split].
  - apply erase_serves; [done|rewrite Ht; apply H1|]. by rewrite Ht.
  - intros Ho. destruct (H2 Ho) as [A _]. split.
    + unfold eraseTrackingSession. cbv zeta. rewrite Ht. destruct Hin as [o' ->].
      destruct (sessions_power (on_ad (set_sessions (map_erase (SessionKey c i) (tb s)) (db s')) s')) as (_ & -> & _).
      simpl. by rewrite Hdb.
    + rewrite (proj1 (erase_sessions c i s')), Ht.
      destruct (eview_fields _ _ (eview_erase c i s')) as (-> & _). done.
  - rewrite (sup_still _ _ (still_erase c i s')), (sup_still _ _ Hst). by apply requests_ok_erase.
Qed.

Lemma core_erase c i s : tonly = false -> core s -> core (eraseTrackingSession c i s).
Proof.
  intros Ho (H1 & H2 & H3). split; [by apply erase_serves_any|]. split; [intros E; congruence|].
  rewrite (sup_still _ _ (still_erase c i s)). by apply requests_ok_erase.
Qed.

Lemma db_not_tonly c i s : core s -> isDistanceBasedTrackingSession c i s = true -> tonly = false.
Proof.
  intros (_ & H2 & _) H. unfold isDistanceBasedTrackingSession in H. apply bool_decide_eq_true in H.
  destruct tonly eqn:E; [|done]. destruct (H2 E) as [A _]. rewrite A in H. by destruct H.
Qed.

Lemma core_restart t b s : restartable s -> (tonly = true -> db s = [] ∧ (tb s = [] -> engine_after s = None)) ->
  requests_ok (sup s) s -> core (restartSessions t b s).
Proof.
  intros Hr Ho Hq. destruct (restart_serves t b s Hr) as [A B].
  assert (Hse := sess_restart t b s). unfold sess in Hse. injection Hse as Ht Hd _.
  split; [done|]. split.
  - intros E. rewrite Ht, Hd. destruct (Ho E) as [C D]. split; [done|]. intros Hb. rewrite B; auto.
  - rewrite (sup_still _ _ (still_restart t b s)). by apply requests_ok_restart.
Qed.

Lemma clamped_ok o : MIN_TRACKING_INTERVAL <= minInterval (at_least_min_interval o)
  ∧ size (at_least_min_interval o) = size o ∧ minDistance (at_least_min_interval o) = minDistance o.
Proof.
  unfold at_least_min_interval. case_match eqn:E; simpl; [done|]. apply Z.ltb_ge in E. done.
Qed.
Lemma fall_back_ok o : minInterval (fall_back_to_M2 o) = minInterval o
  ∧ size (fall_back_to_M2 o) = size o ∧ minDistance (fall_back_to_M2 o) = minDistance o.
Proof. unfold fall_back_to_M2. by case_match. Qed.

Lemma core_start c i o s : options_ok o -> core s -> core (proc_MsgStartTracking c i o s).
Proof.
  intros Ho H. unfold proc_MsgStartTracking. case_match; [exact H|]. case_match; [done|].
  case_match eqn:Ez; [done|]. apply Z.eqb_neq in Ez. cbv zeta.
  destruct (clamped_ok o) as (Hi & Hsz & Hd). destruct (fall_back_ok (at_least_min_interval o)) as (Fi & Fs & Fd).
  case_match eqn:Ed.
  - assert (tonly = false) as Ht.
    { apply andb_true_iff in Ed as [Ed _]. rewrite Hd in Ed. apply Z.ltb_lt in Ed.
      apply not_true_is_false. intros E. destruct Ho as [_ Ho]. specialize (Ho E). lia. }
    apply core_call; [done|done|]. by apply core_save_distance.
  - apply core_start_save; [congruence|lia| |done]. unfold to_distance. by rewrite Fd.
Qed.

Lemma core_stop_erase_rr c i s :
  is_Some (map_find (SessionKey c i) (tb s)) -> core s ->
  core (let '(w, s) := stopTimeBasedTrackingMultiplex c i s in
        let s := eraseTrackingSession c i s in
        if w : bool then reportResponse c LOCATION_ERROR_SUCCESS i s else s)
  ∧ sup (let '(w, s) := stopTimeBasedTrackingMultiplex c i s in
         let s := eraseTrackingSession c i s in
         if w : bool then reportResponse c LOCATION_ERROR_SUCCESS i s else s) = sup s.
Proof.
  intros Hin H. destruct (stopTimeBasedTrackingMultiplex c i s) as [w s'] eqn:E.
  assert (core (eraseTrackingSession c i s')) as Hc by by eapply core_stop_erase. cbv zeta.
  split; [by destruct w; [apply core_rr|]|]. apply sup_still. destruct (stopMux_frame _ _ _ _ _ E) as [Hs _].
  destruct w; autorewrite with track; done.
Qed.

Lemma core_update_time c i (o : TrackingOptions) s s' :
  size o <> 0 -> MIN_TRACKING_INTERVAL <= minInterval o -> to_distance o s = false -> core s ->
  update_time c i o s = Some s' -> core s'.
Proof.
  intros Hz Hi Hd (H1 & H2 & H3). unfold update_time.
  destruct (updateTrackingMultiplex c i o s) as [[w s1]|] eqn:E; [|done]. intros [= <-].
  destruct (updateMux_frame _ _ _ _ _ _ E) as [Hst Hse].
  assert (Hq := requests_ok_updateMux _ _ _ _ _ _ _ E H3).
  destruct (updateMux_serves _ _ _ _ _ _ H1 Hi E) as (Hr & n & Hn & Hno & Hcov).
  unfold sess in Hse. injection Hse as Ht Hdb _.
  assert (Hd' : to_distance o s1 = false) by by rewrite to_distance_sup, (sup_still _ _ Hst).
  assert (core (saveTrackingSession c i o s1)) as Hc; [|by cbv zeta; destruct w; [apply core_rr|]].
  split; [|split].
  - apply (save_serves _ _ _ _ n); rewrite ?Ht, ?Hd'; try done. apply H1.
  - intros Ho. destruct (H2 Ho) as [A _]. rewrite db_save, Hd', Hdb. split; [done|].
    rewrite (proj1 (save_sessions c i o s1)), Hd'. intros Hx. by apply map_set_nonempty in Hx.
  - rewrite (sup_still _ _ (still_save c i o s1)), (sup_still _ _ Hst). by apply requests_ok_save.
Qed.

Lemma core_update c i o s s' :
  options_ok o -> (dbt = false -> minDistance o = 0) -> caps_ok s -> core s ->
  proc_MsgUpdateTracking c i o s = Some s' -> core s'.
Proof.
  intros [Ho Hto] Hdb (C1 & C2 & _) H. unfold proc_MsgUpdateTracking.
  case_match eqn:Ek; [by intros [= <-]|]. cbv zeta.
  case_match eqn:Ef; [intros [= <-]; by apply core_rr|].
  destruct (fall_back_ok o) as (Fi & Fs & Fd). destruct (clamped_ok (fall_back_to_M2 o)) as (Hi & Hsz & Hd).
  rewrite Fs in Hsz. rewrite Fd in Hd. revert Hi Hsz Hd. generalize (at_least_min_interval (fall_back_to_M2 o)).
  intros o' Hi Hsz Hd.
  assert (size o' <> 0) as Hz.
  { rewrite Hsz. unfold update_error in Ef. intros E. rewrite E in Ef. by repeat case_match. }
  assert (0 < minDistance o -> tonly = false ∧ sup s = true) as Hsup.
  { intros Hpos. split; [apply not_true_is_false; intros E; specialize (Hto E); lia|].
    assert ((0 <? minDistance o) = true) as E by by apply Z.ltb_lt. rewrite E, andb_true_r in Ek.
    apply negb_false_iff in Ek. apply C2; [auto|]. apply not_false_is_true. intros Ed. specialize (Hdb Ed). lia. }
  unfold update_session. rewrite !Hd.
  destruct (isTimeBasedTrackingSession c i s) eqn:Et, (0 <? minDistance o) eqn:Ep; cbn [andb];
    rewrite ?Z.ltb_lt, ?Z.ltb_ge in Ep.
  - intros [= <-]. destruct (Hsup Ep) as [Hton Hs]. unfold time_to_distance.
    assert (is_Some (map_find (SessionKey c i) (tb s))) as Hin.
    { unfold isTimeBasedTrackingSession in Et. by apply bool_decide_eq_true in Et. }
    destruct (core_stop_erase_rr c i s Hin H) as [Hc Hsu].
    destruct (stopTimeBasedTrackingMultiplex c i s) as [w s1]. cbv zeta in Hc, Hsu |- *.
    apply core_call; [done|done|]. apply core_save_distance; [done| |done].
    rewrite to_distance_sup, Hsu, Hs, Hd, andb_true_r. by apply Z.ltb_lt.
  - case_match eqn:Edi.
    + apply andb_true_iff in Edi as [Edi E0]. apply Z.eqb_eq in E0. intros [= <-].
      assert (tonly = false) as Hton by by eapply db_not_tonly.
      apply core_call; [done| |by apply core_erase]. simpl. split_and!; [done|lia|done|done].
    + apply core_update_time; [done|done| |done]. rewrite to_distance_sup, Hd.
      apply andb_false_iff. left. by apply Z.ltb_ge.
  - assert ((minDistance o =? 0) = false) as -> by (apply Z.eqb_neq; lia). rewrite andb_false_r.
    destruct (Hsup Ep) as [Hton Hs]. case_match; intros [= <-]; [|done].
    apply core_call; [done| |done]. simpl. split_and!; [done|lia|done].
  - assert ((minDistance o =? 0) = true) as -> by (apply Z.eqb_eq; lia). rewrite andb_true_r.
    case_match eqn:Edi; intros [= <-]; [|done].
    assert (tonly = false) as Hton by by eapply db_not_tonly.
    apply core_call; [done| |by apply core_erase]. simpl. split_and!; [done|lia|done|done].
Qed.

Lemma core_stop c i s : core s -> core (proc_MsgStopTracking c i s).
Proof.
  intros H. unfold proc_MsgStopTracking. cbv zeta. case_match eqn:E; [|by apply core_rr].
  destruct (isTimeBasedTrackingSession c i s) eqn:Et.
  - apply core_stop_erase_rr; [|done]. unfold isTimeBasedTrackingSession in Et. by apply bool_decide_eq_true in Et.
  - apply core_call; [done| |done]. simpl. by eapply db_not_tonly.
Qed.

(** ** A client leaves *)

Lemma ordered_keys_NoDup {V} (m : session_map V) : ordered m -> NoDup (map fst m).
Proof.
  induction 1 as [|[k v] m Hs IH Hf]; simpl; [constructor|]. constructor; [|done].
  intros Hin. apply list_elem_of_fmap in Hin as ([k' v'] & -> & Hin).
  rewrite Forall_forall in Hf. apply (key_lt_irrefl k'). by apply (Hf _ Hin).
Qed.

Lemma map_find_key {V} k (m : session_map V) : k ∈ map fst m -> is_Some (map_find k m).
Proof.
  induction m as [|[k' v] m IH]; simpl; intros H; [by apply elem_of_nil in H|].
  case_decide; [by eexists|]. apply elem_of_cons in H as [?|H]; [done|]. auto.
Qed.

Lemma core_stop_keys ks s :
  NoDup ks -> (∀ k, k ∈ ks -> is_Some (map_find k (tb s))) -> core s ->
  core (foldl (λ s k, let '(_, s) := stopTimeBasedTrackingMultiplex (client k) (id k) s in
                      eraseTrackingSession (client k) (id k) s) s ks).
Proof.
  revert s. induction ks as [|k ks IH]; intros s Hnd Hin H; simpl; [done|].
  apply NoDup_cons in Hnd as [Hk Hnd]. destruct k as [c i]. simpl.
  destruct (stopTimeBasedTrackingMultiplex c i s) as [w s'] eqn:E.
  destruct (stopMux_frame _ _ _ _ _ E) as [_ Hse]. unfold sess in Hse. injection Hse as Ht _ _.
  apply IH; [done| |eapply core_stop_erase; [apply Hin, list_elem_of_here|done|done]].
  intros k Hks. rewrite (proj1 (erase_sessions c i s')), Ht, map_find_erase_ne;
    [by apply Hin, list_elem_of_further|]. intros ->. done.
Qed.

Lemma core_remove c s : core s -> core (eraseClient c (stopClientSessions c s)).
Proof.
  intros H. apply (core_frame (stopClientSessions c s)); [done..|].
  unfold stopClientSessions. cbv zeta.
  match goal with |- core (foldl _ ?x _) => set (s1 := x) end.
  assert (core s1) as H1.
  { apply core_stop_keys; [| |done].
    - apply NoDup_filter, ordered_keys_NoDup, H.
    - intros k [_ Hk]%list_elem_of_filter. by apply map_find_key. }
  destruct (db s1) as [|x m] eqn:Ed; [done|]. assert (tonly = false) as Ht.
  { destruct tonly eqn:E; [|done]. destruct H1 as (_ & H2 & _). destruct (H2 E) as [A _]. congruence. }
  clearbody s1. clear Ed. revert H1. generalize (x :: m). intros l H1.
  apply foldl_invariant; [|done]. intros s2 [k o] H2. case_match; [|done].
  by apply core_call.
Qed.

(** ** Responses and configuration *)

Lemma core_response t r s :
  resp_ok (sup s) r -> core s -> core (proc_LocApiResponse t r LOCATION_ERROR_SUCCESS s).
Proof.
  intros Hr H. unfold proc_LocApiResponse. change (failed LOCATION_ERROR_SUCCESS) with false.
  destruct r; cbn [negb]; rewrite ?andb_false_r, ?orb_true_r; cbv zeta.
  - by apply core_rr.
  - apply core_rr. by apply (core_frame s).
  - by apply core_rr.
  - done.
  - destruct Hr as (Ht & Hd & Hz & Hi). apply core_start_save; [done|done| |done].
    unfold to_distance. by rewrite Hd.
  - destruct Hr as (Ht & Hd & Hs). by apply core_call.
  - destruct Hr as (Ht & Hd & Hs). apply core_rr, core_save_distance; [done| |done].
    rewrite to_distance_sup, Hs, andb_true_r. by apply Z.ltb_lt.
  - by apply core_rr, core_erase.
  - by apply core_rr.
  - by apply core_erase.
Qed.

Lemma core_config t w s : core s -> core (proc_MsgConfigMinGpsWeek t w s).
Proof.
  intros (H1 & H2 & H3). destruct (suspend_restartable s H1) as [Hr Hs].
  assert (Hse := sess_suspend s). unfold sess in Hse. injection Hse as Ht Hd _.
  unfold proc_MsgConfigMinGpsWeek. apply core_restart; [done| |].
  - intros Ho. destruct (H2 Ho) as [A B]. cbn [emit ad]. rewrite Ht, Hd. split; [done|].
    intros Hb. change (engine_after (suspendSessions s) = None). rewrite Hs; auto.
  - change (requests_ok (sup (suspendSessions s)) (suspendSessions s)).
    rewrite (sup_still _ _ (still_suspend s)). by apply requests_ok_suspend.
Qed.

Lemma core_nhz b s : core s -> core (proc_MsgUpdateNHz b s).
Proof.
  intros (H1 & H2 & H3). unfold proc_MsgUpdateNHz. case_match; [|done].
  set (s1 := on_ad (set_NHzNeeded b) s).
  destruct (restartSPE_serves s1) as [A B]; [split; [apply H1|exact (hub_covers s H1)]|].
  assert (Hse := sess_restartSPE s1). unfold sess in Hse. injection Hse as Ht Hd _.
  split; [done|]. split.
  - intros E. rewrite Ht, Hd. destruct (H2 E) as [C D]. split; [done|]. intros Hb. rewrite B; [by apply D|done].
  - rewrite (sup_still _ _ (still_restartSPE s1)). by apply requests_ok_restartSPE.
Qed.

Lemma core_up t s : core s -> core (proc_MsgHandleEngineUpEvent t s).
Proof.
  intros (H1 & H2 & H3). unfold proc_MsgHandleEngineUpEvent. cbv zeta. case_match; [|done].
  apply (foldl_invariant core); [intros s1 p; by apply (core_frame s1)|].
  apply core_restart; [|done|done]. split; [apply H1|exact (hub_covers s H1)].
Qed.

Lemma core_proc t m s s' :
  msg_ok s m -> caps_ok s -> core s -> proc t m s = Some s' -> core s'.
Proof.
  intros Hm Hc H. destruct m; simpl; intros Hp; simplify_eq/=.
  - by apply core_start.
  - destruct Hm as [Ho Hd]. by eapply core_update.
  - by apply core_stop.
  - by apply (core_frame s).
  - by apply core_remove.
  - unfold proc_MsgRequestCapabilities. repeat case_match; try done; by apply (core_frame s).
  - by apply (core_frame s).
  - by apply core_config.
  - by apply core_nhz.
  - by apply core_up.
  - unfold handleEngineLockStatus. case_match; [|done]. cbv zeta.
    assert (core (foldl (λ s p, sendMsg p s) s (mPendingGnssEnabledMsgs (ad s)))) as Hf.
    { apply (foldl_invariant core); [intros s1 p; by apply (core_frame s1)|done]. }
    by apply (core_frame (foldl (λ s p, sendMsg p s) s (mPendingGnssEnabledMsgs (ad s)))).
  - destruct Hm as [-> Hr]. by apply core_response.
Qed.

(** ** The machine *)

Lemma msg_ok_same s s' m :
  sIsEngineCapabilitiesKnown (api s') = sIsEngineCapabilitiesKnown (api s) -> sup s' = sup s ->
  msg_ok s m -> msg_ok s' m.
Proof. intros Hk Hs. destruct m; simpl; [done..|by rewrite Hk|done|by rewrite Hs]. Qed.

Lemma sup_mask s s' : sSupportedMsgMask (api s') = sSupportedMsgMask (api s) -> sup s' = sup s.
Proof. unfold sup, isMessageSupported. by intros ->. Qed.

Lemma messages_ok_send m s : msg_ok s m -> messages_ok s -> messages_ok (send_new m s).
Proof.
  intros Hm H p m'. rewrite tsk_send_new. simpl. rewrite lookup_insert. case_decide; intros Hp; simplify_eq.
  - by apply (msg_ok_same s).
  - apply (msg_ok_same s); [done..|]. by apply (H p).
Qed.

Lemma serve_inv_send m s : msg_ok s m -> serve_inv s -> serve_inv (send_new m s).
Proof.
  intros Hm (H1 & H2 & H3 & H4 & H5). split; [done|]. split; [done|]. split; [done|].
  split; [by apply messages_ok_send|done].
Qed.

Lemma serve_inv_run_message t s s' : serve_inv s -> run_message t s = Some s' -> serve_inv s'.
Proof.
  intros (H1 & H2 & H3 & H4 & H5) H. unfold run_message in H.
  destruct (queue (tsk s)) as [|p q]; [simplify_eq; done|].
  fold (pop q s) in H. change (messages (tsk (pop q s))) with (messages (tsk s)) in H.
  destruct (messages (tsk s) !! p) as [m|] eqn:Em; [|done].
  destruct (proc t m (pop q s)) as [s1|] eqn:Ep; [|done]. simplify_eq. fold (finish p s1).
  assert (msg_ok s m) as Hm by by apply (H4 p).
  assert (core (pop q s)) as Hc by done.
  destruct (core_proc t m (pop q s) s1 Hm H5 Hc Ep) as (C1 & C2 & C3).
  destruct (proc_task t m (pop q s) s1 Ep) as (Hms & _ & Hk & Hmask & Hkn).
  assert (Hs : sup s1 = sup s) by by apply (sup_mask (pop q s)).
  split; [done|]. split; [done|]. split; [done|]. split.
  - intros p' m' Hp'. simpl in Hp'. apply lookup_delete_Some in Hp' as [_ Hp'].
    apply (msg_ok_same s); [done|done|]. destruct Hms as [[E _]|[E _]]; rewrite E in Hp'; [by apply (H4 p')|].
    apply lookup_insert_Some in Hp' as [[_ <-]|[_ Hp']]; [done|by apply (H4 p')].
  - destruct H5 as (D1 & D2 & D3). split_and!; simpl; rewrite ?Hk, ?Hmask.
    + intros E. destruct (Hkn E) as [E'| ->]; [by apply D1|exact Hm].
    + intros E Hd. change (sup s1 = true). rewrite Hs. by apply D2.
    + exact D3.
Qed.

Lemma resp_ok_mono p p' r : (p = true -> p' = true) -> resp_ok p r -> resp_ok p' r.
Proof. intros Hp. destruct r; simpl; tauto. Qed.

Lemma serve_inv_up mask s :
  (dbt = true -> Z.land 4 mask = 4) -> serve_inv s ->
  serve_inv (send_new MsgHandleEngineUpEvent (emit OutEngineUp (setEngineCapabilities mask s))).
Proof.
  intros Hmask (H1 & H2 & H3 & H4 & H5). set (s1 := emit OutEngineUp (setEngineCapabilities mask s)).
  assert (sIsEngineCapabilitiesKnown (api s1) = true) as Hk.
  { unfold s1. simpl. by destruct (sIsEngineCapabilitiesKnown (api s)) eqn:E. }
  assert (sup s = true -> sup s1 = true) as Hs.
  { unfold s1, sup, isMessageSupported. simpl. destruct (sIsEngineCapabilitiesKnown (api s)) eqn:E; [done|].
    destruct H5 as (_ & _ & D3). rewrite (D3 E). done. }
  assert (requests (api s1) = requests (api s) ∧ engine (api s1) = engine (api s)) as [Hr He].
  { unfold s1. simpl. by destruct (sIsEngineCapabilitiesKnown (api s)). }
  assert (engine_after s1 = engine_after s) as Ha by (unfold engine_after; by rewrite Hr, He).
  apply serve_inv_send; [exact Hk|]. split; [|split; [|split; [|split]]].
  - apply (serves_frame s); [|done..]. unfold eview. by rewrite Ha.
  - unfold off. rewrite Ha. exact H2.
  - unfold requests_ok. rewrite Hr. eapply Forall_impl; [exact H3|]. intros [r [x|]]; [|done].
    by apply resp_ok_mono.
  - intros p m Hp. specialize (H4 p m Hp). destruct m; try done.
    destruct H4 as [A B]. split; [done|]. by eapply resp_ok_mono.
  - destruct H5 as (D1 & D2 & D3). split_and!; [done| |by rewrite Hk].
    intros _ Hd. destruct (sIsEngineCapabilitiesKnown (api s)) eqn:E; [apply Hs; auto|].
    change ((Z.land 4 (sSupportedMsgMask (api s1)) =? 4) = true).
    assert (sSupportedMsgMask (api s1) = mask) as -> by (unfold s1; simpl; by rewrite E).
    apply Z.eqb_eq. auto.
Qed.

Lemma serve_inv_run_request s : serve_inv s -> serve_inv (run_request LOCATION_ERROR_SUCCESS s).
Proof.
  intros (H1 & H2 & H3 & H4 & H5). unfold run_request, requests_ok, off in *.
  destruct (requests (api s)) as [|[r resp] rs] eqn:Er; [split_and!; try done; unfold requests_ok; by rewrite Er|].
  cbv zeta. change (failed LOCATION_ERROR_SUCCESS) with false. cbn iota.
  match goal with |- context [on_api ?f s] => set (s1 := on_api f s) end.
  assert (engine_after s1 = engine_after s) as Ha by (unfold engine_after; by rewrite Er).
  apply Forall_cons in H3 as [Hx H3].
  assert (serve_inv s1) as Hs.
  { split; [|split; [|split; [|split]]]; [|unfold off; by rewrite Ha|exact H3| |exact H5].
    - apply (serves_frame s); [|done..]. unfold eview. by rewrite Ha.
    - intros p m Hp. apply (msg_ok_same s); [done..|]. by apply (H4 p). }
  destruct resp as [resp|]; [|done]. by apply serve_inv_send.
Qed.

Lemma serve_inv_step s e s' : serve_inv s -> engine_ok s e -> step s e = Some s' -> serve_inv s'.
Proof.
  intros Hi Hok. destruct e; simpl in *; intros Hs; simplify_eq/=;
    try (apply serve_inv_send; done).
  - by apply serve_inv_up.
  - unfold reportEngineLockStatus. case_match; [|done]. by apply serve_inv_send.
  - by apply serve_inv_run_request.
  - by eapply serve_inv_run_message.
Qed.

Lemma serve_inv_init : serve_inv init.
Proof.
  split; [|split; [|split; [|split]]].
  - split; [done|]. split; [split; [constructor|intros k o H; by apply elem_of_nil in H]|done].
  - done.
  - constructor.
  - intros p m Hp. simpl in Hp. by rewrite lookup_empty in Hp.
  - by split_and!.
Qed.
End Serve.

(** ** A removed client *)

Lemma stop_keys_erased ks s :
  ordered (tb s) ->
  let s' := foldl (λ s k, let '(_, s) := stopTimeBasedTrackingMultiplex (client k) (id k) s in
                          eraseTrackingSession (client k) (id k) s) s ks in
  ordered (tb s') ∧ ∀ k (o : TrackingOptions), (k, o) ∈ tb s' -> (k, o) ∈ tb s ∧ k ∉ ks.
Proof.
  revert s. induction ks as [|[c i] ks IH]; intros s Ho; simpl.
  { split; [done|]. intros k o H. split; [done|]. apply not_elem_of_nil. }
  destruct (stopTimeBasedTrackingMultiplex c i s) as [w s1] eqn:E.
  destruct (stopMux_frame _ _ _ _ _ E) as [_ Hse]. unfold sess in Hse. injection Hse as Ht _ _.
  destruct (erase_sessions c i s1) as [Ee _]. rewrite Ht in Ee.
  destruct (IH (eraseTrackingSession c i s1)) as [A B]; [rewrite Ee; by apply ordered_erase|].
  split; [done|]. intros k o Hk. destruct (B k o Hk) as [Hin Hn]. rewrite Ee in Hin.
  apply map_erase_other in Hin as [Hin Hne]; [|done]. split; [done|]. by apply not_elem_of_cons.
Qed.

(** Removing a client leaves it no time based session. *)
Lemma removed_client_has_no_time_session c s k (o : TrackingOptions) :
  ordered (tb s) -> (k, o) ∈ tb (eraseClient c (stopClientSessions c s)) -> client k <> c.
Proof.
  intros Ho. change (tb (eraseClient c (stopClientSessions c s))) with (tb (stopClientSessions c s)).
  unfold stopClientSessions. cbv zeta.
  rewrite (foldl_frame (λ s, tb s)) by (intros s1 [k1 o1]; by case_match).
  intros Hin. apply stop_keys_erased in Hin as [Hin Hn]; [|done]. intros Hc. apply Hn.
  apply list_elem_of_filter. split; [done|]. apply list_elem_of_fmap. by exists (k, o).
Qed.

(** C10: In every reachable state, also while requests and responses are on their
    way, the engine will run, when the requests are executed, at an interval that
    is at most that of every time based session, if there is one, and the engine
    hub was told such an interval; and if no distance based session is ever asked
    for ([tonly]), it is stopped when there are none.  Supposed ([engine_ok]):
    LocApi never fails, minimal distances are not negative, and either ([dbt]) the
    engine reports distance based tracking whenever it comes up, or no session is
    updated to a distance.  The lemmas at the end of the file show both needed. *)
Theorem engine_serves_sessions dbt tonly es s :
  run_ok step (engine_ok dbt tonly) init es -> run step init es = Some s ->
  (tb s <> [] ->
   ∃ t, engine_after s = Some t
        ∧ ∀ k (o : TrackingOptions), (k, o) ∈ tb s ->
            minInterval t <= minInterval o ∧ min_interval (mLocPositionMode (ad s)) <= minInterval o)
  ∧ (tonly = true -> tb s = [] -> engine_after s = None).
Proof.
  intros Hok Hrun. assert (serve_inv dbt tonly s) as (H1 & H2 & _).
  { by apply (run_invariant step (engine_ok dbt tonly) (serve_inv dbt tonly) init es s (serve_inv_step dbt tonly)),
      Hrun; [apply serve_inv_init|]. }
  split.
  - intros Hne. destruct H1 as (_ & _ & Hc). destruct (Hc Hne) as (n & [(t & Ht & Hle) Hm] & Hcov).
    exists t. split; [done|]. intros k o Hin. specialize (Hcov k o Hin I). lia.
  - intros Ho. by apply (H2 Ho).
Qed.

(** Two sessions, a rate change and an update on the way. *)
Definition ex_serve : list event :=
  [AddClientCommand 7 ex_cbs; StartTrackingCommand 7 (ex_opts 1000 0 2); StartTrackingCommand 7 (ex_opts 500 0 3);
   TaskRun 0; TaskRun 0; TaskRun 0; ApiRun 0; UpdateNHzRequirement true; StopTrackingCommand 7 3; TaskRun 0;
   TaskRun 0; UpdateNHzRequirement false; TaskRun 0; UpdateTrackingOptionsCommand 7 2 (ex_opts 3000 0 2); ApiRun 0; TaskRun 0; TaskRun 0].

Lemma engine_serves_sessions_witness :
  match run step init ex_serve with
  | Some s =>
      (tb s <> [] ->
       ∃ t, engine_after s = Some t
            ∧ ∀ k (o : TrackingOptions), (k, o) ∈ tb s ->
                minInterval t <= minInterval o ∧ min_interval (mLocPositionMode (ad s)) <= minInterval o)
      ∧ (true = true -> tb s = [] -> engine_after s = None)
  | None => False
  end.
Proof.
  destruct (run step init ex_serve) as [s|] eqn:E.
  - apply (engine_serves_sessions false true ex_serve s); [|exact E].
    vm_compute. repeat split; intros; discriminate.
  - vm_compute in E. discriminate E.
Defined.

(** * Runs in which the engine does not do what the sessions need *)

Definition interval_of (e : option TrackingOptions) : option Z := (λ o : TrackingOptions, minInterval o) <$> e.
Definition power_of (e : option TrackingOptions) : option Z := powerMode <$> e.

(** An engine without distance based tracking: an update to a distance stops
    the engine and keeps the session among the time based ones. *)
Lemma unsupported_update_stops_engine :
  match run step init
    [EngineUp 0; TaskRun 0; AddClientCommand 7 ex_cbs; StartTrackingCommand 7 (ex_opts 1000 0 2); TaskRun 0;
     TaskRun 0; ApiRun 0; TaskRun 0; UpdateTrackingOptionsCommand 7 2 (ex_opts 1000 20 2); TaskRun 0;
     ApiRun 0; ApiRun 0; TaskRun 0; TaskRun 0] with
  | Some s => map fst (tb s) = [SessionKey 7 2] ∧ engine (api s) = None ∧ requests (api s) = []
  | None => False
  end.
Proof. vm_compute. done. Qed.

(** The flag for the highest rate is set before the request succeeds: after a
    failed start the next session is reported as started, and nothing runs. *)
Lemma failed_nhz_start_is_remembered :
  match run step init
    [UpdateNHzRequirement true; AddClientCommand 7 ex_cbs; StartTrackingCommand 7 (ex_opts 1000 0 2); TaskRun 0;
     TaskRun 0; TaskRun 0; ApiRun LOCATION_ERROR_GENERAL_FAILURE; TaskRun 0;
     StartTrackingCommand 7 (ex_opts 1000 0 2); TaskRun 0] with
  | Some s => map fst (tb s) = [SessionKey 7 3] ∧ engine (api s) = None ∧ requests (api s) = []
              ∧ last (out s) = Some (OutResponse 7 3 LOCATION_ERROR_SUCCESS true)
  | None => False
  end.
Proof. vm_compute. done. Qed.

(** The power mode of the multiplexed session: the third session has a smaller
    interval, and the engine falls back to the power mode of the first, though
    the second needs a stronger one. *)
Lemma smaller_interval_drops_power_mode :
  match run step init
    [AddClientCommand 7 ex_cbs; StartTrackingCommand 7 (ex_opts 1000 0 3); StartTrackingCommand 7 (ex_opts 2000 0 1);
     StartTrackingCommand 7 (ex_opts 500 0 5); TaskRun 0; TaskRun 0; TaskRun 0; TaskRun 0; ApiRun 0; ApiRun 0] with
  | Some s => power_of (engine (api s)) = Some 1
              ∧ match run step s [ApiRun 0] with Some s => power_of (engine (api s)) = Some 3 | None => False end
  | None => False
  end.
Proof. vm_compute. done. Qed.

(** When the fastest session stops, its options are dropped, but an update that
    slows it down is not sent to the engine. *)
Lemma slower_update_is_not_sent :
  match run step init
    [AddClientCommand 7 ex_cbs; StartTrackingCommand 7 (ex_opts 100 0 2); StartTrackingCommand 7 (ex_opts 1000 0 2);
     TaskRun 0; TaskRun 0; TaskRun 0; ApiRun 0; UpdateTrackingOptionsCommand 7 2 (ex_opts 5000 0 2); TaskRun 0;
     TaskRun 0] with
  | Some s => interval_of (engine (api s)) = Some 100 ∧ requests (api s) = []
              ∧ Forall (λ '(_, o), 1000 <= minInterval (location o)) (tb s)
  | None => False
  end.
Proof. vm_compute. repeat constructor; done. Qed.
