(* ===== verification/GnssAnswers.v ===== *)
(** Every tracking command of GnssTracking.v that starts, updates or stops a session
    of a client with a callback for positions is answered: for each session the
    answers that were reported and those that are still owed, by messages and by
    responses of LocApi, are as many as the commands. *)

From stdpp Require Import list gmap.
From S2P Require Import Prelude Runs DgnssNtrip GnssTracking GnssSessions GnssTrackingProps.

Local Open Scope Z_scope.

Section Answers.
Context (κ : LocationSessionKey).

(** One if the session is the one looked at. *)
Definition mine (c i : Z) : nat := if decide (SessionKey c i = κ) then 1%nat else 0%nat.

Definition owed_resp (r : response) : nat :=
  match r with
  | RespStartDistance c i | RespStartTime c i | RespUpdate c i _ | RespToTime c i _
  | RespRestart c i _ | RespRestarted c i _ | RespStopDistance c i | RespStopFix c i => mine c i
  | RespNothing | RespRemoveClient _ _ => 0
  end.
Definition owed_request (x : request * option response) : nat :=
  match snd x with Some r => owed_resp r | None => 0 end.
Definition owed_msg (m : LocMsg) : nat :=
  match m with
  | MsgStartTracking c i _ | MsgUpdateTracking c i _ | MsgStopTracking c i => mine c i
  | LocApiResponse r _ => owed_resp r
  | _ => 0
  end.

Definition is_answer (o : output) : nat := match o with OutResponse c i _ _ => mine c i | _ => 0 end.
Definition is_command (o : output) : nat := match o with OutCommand c i => mine c i | _ => 0 end.
Definition answers (s : state) : nat := sum_list_with is_answer (out s).
Definition commands (s : state) : nat := sum_list_with is_command (out s).
Definition owed_messages (m : gmap N LocMsg) : nat := map_fold (λ _ m n, owed_msg m + n)%nat 0%nat m.
Definition owed (s : state) : nat :=
  (sum_list_with owed_request (requests (api s)) + owed_messages (messages (tsk s)))%nat.

(** Answers given and answers LocApi owes. *)
Definition given (s : state) : nat := (answers s + sum_list_with owed_request (requests (api s)))%nat.

(** ** Messages *)

Lemma owed_insert p m ms : ms !! p = None -> owed_messages (<[p := m]> ms) = (owed_msg m + owed_messages ms)%nat.
Proof. intros Hp. apply (map_fold_insert_L (λ (_ : N) m n, (owed_msg m + n)%nat) 0%nat p m ms); [intros; lia|done]. Qed.

Lemma owed_delete p m ms : ms !! p = Some m -> owed_messages ms = (owed_msg m + owed_messages (delete p ms))%nat.
Proof. intros Hp. apply (map_fold_delete_L (λ (_ : N) m n, (owed_msg m + n)%nat) 0%nat p m ms); [intros; lia|done]. Qed.

(** ** What operations give *)

Definition aview (s : state) := (out s, requests (api s)).
Lemma given_aview s s' : aview s' = aview s -> given s' = given s.
Proof. unfold aview, given, answers. by intros [= -> ->]. Qed.

Lemma given_emit o s : given (emit o s) = (is_answer o + given s)%nat.
Proof. unfold given, answers. simpl. rewrite sum_list_with_app. simpl. lia. Qed.
Lemma given_rr c e i s : given (reportResponse c e i s) = (mine c i + given s)%nat.
Proof. apply given_emit. Qed.
Lemma given_call r x s : given (call_api r x s) = (owed_request (r, x) + given s)%nat.
Proof. unfold given, answers. simpl. rewrite sum_list_with_app. simpl. lia. Qed.
Lemma given_ad f s : given (on_ad f s) = given s.
Proof. done. Qed.
Hint Rewrite given_emit given_rr given_call given_ad : track.

Ltac given_solve := autorewrite with track; cbn [is_answer owed_request snd owed_resp]; try lia; try done.

Lemma given_power s : given (reportPowerStateIfChanged s) = given s.
Proof. unfold reportPowerStateIfChanged. cbv zeta. repeat case_match; given_solve. Qed.
Hint Rewrite given_power : track.
Lemma given_save c i o s : given (saveTrackingSession c i o s) = given s.
Proof. unfold saveTrackingSession. cbv zeta. case_match; given_solve. Qed.
Lemma given_erase c i s : given (eraseTrackingSession c i s) = given s.
Proof. unfold eraseTrackingSession. cbv zeta. case_match; given_solve. Qed.
Lemma given_hub o s : given (prepare_hub o s) = given s.
Proof. unfold prepare_hub, setLocPositionMode. cbv zeta. case_match; given_solve. Qed.
Hint Rewrite given_save given_erase given_hub : track.

Lemma given_check o s o' b s' : checkAndSetSPEToRunforNHz o s = (o', b, s') -> given s' = given s.
Proof. unfold checkAndSetSPEToRunforNHz. repeat case_match; intros; by simplify_eq. Qed.

(** A request to the engine answers at once or owes the answer. *)
Lemma given_start c i o s : given (startTimeBasedTracking c i o s) = (mine c i + given s)%nat.
Proof.
  unfold startTimeBasedTracking. cbv zeta. destruct (checkAndSetSPEToRunforNHz _ _) as [[o' b] s'] eqn:E.
  apply given_check in E. destruct b; given_solve; by rewrite E, given_hub.
Qed.
Lemma given_update c i o old s : given (updateTracking c i o old s) = (mine c i + given s)%nat.
Proof.
  unfold updateTracking. cbv zeta. destruct (checkAndSetSPEToRunforNHz _ _) as [[o' b] s'] eqn:E.
  apply given_check in E. destruct b; given_solve; by rewrite E, given_hub.
Qed.
Lemma given_stop c i s : given (stopTracking c i s) = (mine c i + given s)%nat.
Proof. unfold stopTracking. cbv zeta. given_solve. Qed.
Hint Rewrite given_start given_update given_stop : track.

(** The multiplexing functions answer unless they say that the caller must. *)
Definition left_to_caller (w : bool) (c i : Z) : nat := if w then mine c i else 0%nat.

Lemma given_startMux c i o s w s' :
  startTimeBasedTrackingMultiplex c i o s = (w, s') ->
  (given s' + left_to_caller w c i = mine c i + given s)%nat.
Proof.
  unfold startTimeBasedTrackingMultiplex, left_to_caller.
  repeat case_match; intros; simplify_eq; given_solve.
Qed.
Lemma given_updateMux c i o s w s' :
  updateTrackingMultiplex c i o s = Some (w, s') ->
  (given s' + left_to_caller w c i = mine c i + given s)%nat.
Proof.
  unfold updateTrackingMultiplex, left_to_caller.
  repeat case_match; intros; simplify_eq; given_solve.
Qed.
Lemma given_stopMux c i s w s' :
  stopTimeBasedTrackingMultiplex c i s = (w, s') ->
  (given s' + left_to_caller w c i = mine c i + given s)%nat.
Proof.
  unfold stopTimeBasedTrackingMultiplex, left_to_caller.
  repeat case_match; intros; simplify_eq; given_solve.
Qed.

Ltac given_mux :=
  repeat match goal with
  | H : startTimeBasedTrackingMultiplex _ _ _ _ = _ |- _ => apply given_startMux in H
  | H : stopTimeBasedTrackingMultiplex _ _ _ = _ |- _ => apply given_stopMux in H
  | H : updateTrackingMultiplex _ _ _ _ = _ |- _ => apply given_updateMux in H
  end; unfold left_to_caller in *.

(** Restarts and suspensions answer nobody. *)
Lemma given_restartSPE s : given (checkAndRestartSPESession s) = given s.
Proof.
  unfold checkAndRestartSPESession. cbv zeta. rewrite (foldl_frame given) by (intros s1 [k o]; given_solve).
  unfold checkAndRestartTimeBasedSession. case_match; [done|]. cbv zeta.
  destruct (checkAndSetSPEToRunforNHz _ _) as [[o' b] s'] eqn:E. apply given_check in E. destruct b; given_solve.
Qed.
Lemma given_restart t b s : given (restartSessions t b s) = given s.
Proof.
  unfold restartSessions. cbv zeta. rewrite given_restartSPE. destruct b; case_match; given_solve.
Qed.
Lemma given_suspend s : given (suspendSessions s) = given s.
Proof. unfold suspendSessions. case_match; [done|]. cbv zeta. given_solve. Qed.
Hint Rewrite given_restartSPE given_restart given_suspend : track.

Lemma given_stopClient c s : c <> client κ -> given (stopClientSessions c s) = given s.
Proof.
  intros Hc. unfold stopClientSessions. cbv zeta.
  rewrite (foldl_frame given) by (intros s1 [k o]; case_match; given_solve).
  assert (Forall (λ k, client k = c) (filter (λ k, client k = c) (map fst (tb s)))) as Hf.
  { apply Forall_forall. intros k [Hk _]%list_elem_of_filter. done. }
  revert Hf. generalize (filter (λ k, client k = c) (map fst (tb s))). intros l.
  generalize s at 1 2. induction l as [|k l IH]; intros s1 Hf; simpl; [done|].
  inversion Hf as [|? ? Hk Hf']; subst. rewrite IH by done.
  destruct (stopTimeBasedTrackingMultiplex _ _ _) as [w s2] eqn:E. apply given_stopMux in E.
  rewrite given_erase. unfold left_to_caller, mine in E. destruct k as [ck ik]. simpl in *.
  destruct (decide (SessionKey ck ik = κ)) as [<-|Hne]; [done|]. destruct w; lia.
Qed.

(** ** Processing *)

Definition total (s : state) : nat := (given s + owed_messages (messages (tsk s)))%nat.

Lemma total_of_given n s s' : still s' = still s -> given s' = (n + given s)%nat -> total s' = (n + total s)%nat.
Proof. unfold still, total. intros H Hg. assert (tsk s' = tsk s) as -> by by inversion H. lia. Qed.

Definition can_track (cbs : LocationCallbacks) : bool :=
  trackingCb cbs || gnssLocationInfoCb cbs || engineLocationsInfoCb cbs || gnssMeasurementsCb cbs
  || gnssDataCb cbs || gnssSvCb cbs || gnssNmeaCb cbs.

(** What is assumed of the messages: a session is started with options by a
    client that has a callback and keeps one, and stays; LocApi stops
    distance based tracking when it is restarted. *)
Definition msg_fine (s : state) (m : LocMsg) : Prop :=
  match m with
  | MsgStartTracking c _ o =>
      c = client κ -> size o <> 0 ∧ hasCallbacksToStartTracking c s = true
  | MsgAddClient c cbs => c = client κ -> can_track cbs = true
  | MsgRemoveClient c => c <> client κ
  | LocApiResponse (RespRestart c i _) err => SessionKey c i = κ -> failed err = false
  | _ => True
  end.

Definition fresh (s : state) : Prop := messages (tsk s) !! next_addr (tsk s) = None.

Lemma total_keep m s : fresh s -> total (keep_pending m s) = (owed_msg m + total s)%nat.
Proof.
  intros Hf. unfold total. change (given (keep_pending m s)) with (given s).
  change (messages (tsk (keep_pending m s))) with (<[next_addr (tsk s) := m]> (messages (tsk s))).
  rewrite owed_insert by done. lia.
Qed.

Lemma mine_other c i : c <> client κ -> mine c i = 0%nat.
Proof. intros H. unfold mine. by case_decide; [subst|]. Qed.

Lemma given_startMux_save c i o s :
  given (let '(w, s) := startTimeBasedTrackingMultiplex c i o s in
         let s := saveTrackingSession c i o s in
         if w : bool then reportResponse c LOCATION_ERROR_SUCCESS i s else s) = (mine c i + given s)%nat.
Proof. case_match. given_mux. cbv zeta. case_match; given_solve. Qed.

Lemma given_stopMux_erase c i s :
  given (let '(w, s) := stopTimeBasedTrackingMultiplex c i s in
         let s := eraseTrackingSession c i s in
         if w : bool then reportResponse c LOCATION_ERROR_SUCCESS i s else s) = (mine c i + given s)%nat.
Proof. case_match. given_mux. cbv zeta. case_match; given_solve. Qed.

Lemma total_start c i o s :
  fresh s -> msg_fine s (MsgStartTracking c i o) ->
  total (proc_MsgStartTracking c i o s) = (mine c i + total s)%nat.
Proof.
  intros Hf Hm. destruct (start_still c i o s) as [[_ ->]|Hst]; [by apply total_keep|].
  destruct (negb (mIsEngineCapabilitiesKnown (ad s)) && (0 <? minDistance o)) eqn:E;
    [unfold proc_MsgStartTracking; rewrite E; by apply total_keep|].
  apply total_of_given; [done|]. clear Hst. unfold proc_MsgStartTracking. rewrite E. destruct (decide (c = client κ)) as [Hc|Hc].
  - destruct (Hm Hc) as [Hz Hcb]. rewrite Hcb. simpl negb. cbn iota.
    assert ((size o =? 0) = false) as -> by by apply Z.eqb_neq. cbv zeta. case_match; [given_solve|].
    apply given_startMux_save.
  - rewrite mine_other by done. case_match; [done|]. case_match; [done|]. cbv zeta.
    case_match; [given_solve; by rewrite mine_other|]. rewrite given_startMux_save. by rewrite mine_other.
Qed.

Lemma total_update c i o s s' :
  fresh s -> proc_MsgUpdateTracking c i o s = Some s' -> total s' = (mine c i + total s)%nat.
Proof.
  intros Hf Hp. destruct (update_still c i o s s' Hp) as [[_ ->]|Hst]; [by apply total_keep|].
  unfold proc_MsgUpdateTracking in Hp. case_match; [simplify_eq; by apply total_keep|].
  apply total_of_given; [done|]. clear Hst. cbv zeta in Hp. case_match; [simplify_eq; given_solve|].
  unfold update_session, time_to_distance, update_time in Hp.
  case_match; [|case_match; [|case_match eqn:Ht; [|case_match eqn:Hd]]].
  - repeat case_match; simplify_eq; given_mux; given_solve.
  - simplify_eq. given_solve.
  - repeat case_match; simplify_eq; given_mux; given_solve.
  - simplify_eq. given_solve.
  - discriminate H0.
Qed.

Lemma total_stop c i s : total (proc_MsgStopTracking c i s) = (mine c i + total s)%nat.
Proof.
  apply total_of_given; [apply stop_still|]. unfold proc_MsgStopTracking. cbv zeta.
  case_match; [|given_solve]. case_match; [apply given_stopMux_erase|given_solve].
Qed.

Lemma total_response t r err s :
  msg_fine s (LocApiResponse r err) -> total (proc_LocApiResponse t r err s) = (owed_resp r + total s)%nat.
Proof.
  intros Hm. apply total_of_given; [apply response_still|].
  destruct r; cbn [proc_LocApiResponse owed_resp]; cbv zeta; try apply given_startMux_save;
    try (repeat case_match; given_solve; fail).
  cbn [msg_fine] in Hm. unfold mine. destruct (decide (SessionKey c i = κ)) as [E|E].
  - rewrite (Hm E). given_solve. unfold mine. by rewrite decide_True.
  - case_match; given_solve. unfold mine. by rewrite decide_False.
Qed.

Lemma total_send_old l s : total (foldl (λ s p, sendMsg p s) s l) = total s.
Proof. by rewrite foldl_send. Qed.

Lemma total_proc t m s s' :
  fresh s -> msg_fine s m -> proc t m s = Some s' -> total s' = (owed_msg m + total s)%nat.
Proof.
  intros Hf Hm. destruct m; simpl; intros Hp; simplify_eq/=; try done.
  - by apply total_start.
  - by apply total_update with o.
  - apply total_stop.
  - apply (total_of_given 0 s (stopClientSessions c s)); [apply stopClient_still|by apply given_stopClient].
  - unfold proc_MsgRequestCapabilities. case_match; [by apply total_keep|].
    apply (total_of_given 0 s); [|repeat case_match; given_solve].
    repeat case_match; by autorewrite with track.
  - unfold proc_MsgGetPowerState, total. cbv zeta. given_solve.
  - apply (total_of_given 0 s); unfold proc_MsgConfigMinGpsWeek; [by autorewrite with track|given_solve].
  - unfold proc_MsgUpdateNHz. case_match; [|done].
    apply (total_of_given 0 (on_ad (set_NHzNeeded nHzNeeded) s)); [by autorewrite with track|given_solve].
  - unfold proc_MsgHandleEngineUpEvent. cbv zeta.
    match goal with |- context [emit OutConfigureEngine ?x] => set (s1 := x) end.
    assert (total (emit OutConfigureEngine s1) = total s) as E by (unfold total; given_solve).
    case_match; [|done]. rewrite total_send_old, <-E.
    apply (total_of_given 0); [by autorewrite with track|given_solve].
  - unfold handleEngineLockStatus. case_match; [|done]. cbv zeta. by rewrite foldl_send.
  - by apply total_response.
Qed.

(** ** The machine *)

Definition answer_inv (s : state) : Prop :=
  total s = commands s
  ∧ (∀ p m, messages (tsk s) !! p = Some m -> msg_fine s m)
  ∧ (∀ p, is_Some (messages (tsk s) !! p) -> (p < next_addr (tsk s))%N).

(** The restart of a distance based session is not interrupted: LocApi stops
    it successfully. *)
Definition answer_ok (s : state) (e : event) : Prop :=
  match e with
  | StartTrackingCommand c o => c = client κ -> size o <> 0 ∧ hasCallbacksToStartTracking c s = true
  | AddClientCommand c cbs => c = client κ -> can_track cbs = true
  | RemoveClientCommand c => c <> client κ
  | ApiRun err =>
      match requests (api s) with
      | (_, Some (RespRestart c i _)) :: _ => SessionKey c i = κ -> failed err = false
      | _ => True
      end
  | _ => True
  end.

Lemma fresh_below s : (∀ p, is_Some (messages (tsk s) !! p) -> (p < next_addr (tsk s))%N) -> fresh s.
Proof.
  intros H. unfold fresh. destruct (messages (tsk s) !! next_addr (tsk s)) eqn:E; [|done].
  assert (next_addr (tsk s) < next_addr (tsk s))%N by (apply H; by eexists). lia.
Qed.

Lemma msg_fine_clients s s' m :
  (hasCallbacksToStartTracking (client κ) s = true -> hasCallbacksToStartTracking (client κ) s' = true) ->
  msg_fine s m -> msg_fine s' m.
Proof. intros H. destruct m; simpl; try done. intros Hm ->. destruct (Hm eq_refl). auto. Qed.

Lemma total_send m s : fresh s -> total (send_new m s) = (owed_msg m + total s)%nat.
Proof.
  intros Hf. unfold total. change (given (send_new m s)) with (given s).
  rewrite tsk_send_new. cbn [messages]. rewrite owed_insert by done. lia.
Qed.

Lemma answer_inv_send m s s0 :
  total s0 = total s -> commands s0 = (owed_msg m + commands s)%nat -> tsk s0 = tsk s -> ad s0 = ad s ->
  msg_fine s m -> answer_inv s -> answer_inv (send_new m s0).
Proof.
  intros Ht Hc Hk Ha Hm (H1 & H2 & H3). assert (fresh s0) as Hf by (unfold fresh; rewrite Hk; by apply fresh_below).
  assert (∀ m, msg_fine s m -> msg_fine (send_new m s0) m) as Hms.
  { intros m' H. eapply msg_fine_clients, H. unfold hasCallbacksToStartTracking. simpl. by rewrite Ha. }
  split; [|split].
  - rewrite total_send by done. change (commands (send_new m s0)) with (commands s0). lia.
  - intros p m'. rewrite tsk_send_new, Hk. simpl. rewrite lookup_insert. case_decide; intros Hp; simplify_eq.
    + eapply msg_fine_clients, Hm. unfold hasCallbacksToStartTracking. simpl. by rewrite Ha.
    + eapply msg_fine_clients; [|by apply (H2 p)]. unfold hasCallbacksToStartTracking. simpl. by rewrite Ha.
  - intros p. rewrite tsk_send_new, Hk. simpl. rewrite lookup_insert. case_decide; [subst; lia|].
    intros Hp. specialize (H3 p Hp). lia.
Qed.

Lemma commands_env s : commands s = sum_list_with is_command (env_outs (out s)).
Proof.
  unfold commands. induction (out s) as [|o l IH]; [done|]. unfold env_outs. simpl.
  destruct (is_env o) eqn:E.
  - rewrite filter_cons_True by done. simpl. by rewrite IH.
  - rewrite filter_cons_False by (by rewrite E). rewrite IH. by destruct o.
Qed.

Lemma still_callbacks s s' :
  still s' = still s -> hasCallbacksToStartTracking (client κ) s = true ->
  hasCallbacksToStartTracking (client κ) s' = true.
Proof.
  intros H. unfold hasCallbacksToStartTracking. by destruct (still_fields _ _ H) as (_ & _ & -> & _).
Qed.

(** The client keeps its callbacks. *)
Lemma callbacks_proc t m s s' :
  msg_fine s m -> proc t m s = Some s' ->
  hasCallbacksToStartTracking (client κ) s = true -> hasCallbacksToStartTracking (client κ) s' = true.
Proof.
  intros Hm. destruct m; simpl; intros Hp; simplify_eq/=; try done.
  - destruct (start_still c i o s) as [[_ ->]|H]; [done|by apply still_callbacks].
  - destruct (update_still c i o s s' Hp) as [[_ ->]|H]; [done|by apply still_callbacks].
  - apply still_callbacks, stop_still.
  - unfold hasCallbacksToStartTracking. simpl. rewrite lookup_insert. case_decide as E; [|done].
    intros _. apply (Hm E).
  - intros H. apply (still_callbacks s (stopClientSessions c s)) in H; [|apply stopClient_still].
    revert H. unfold hasCallbacksToStartTracking. simpl. by rewrite lookup_delete_ne.
  - unfold proc_MsgRequestCapabilities. by repeat case_match.
  - apply still_callbacks. unfold proc_MsgConfigMinGpsWeek. by autorewrite with track.
  - unfold proc_MsgUpdateNHz. case_match; [|done].
    by apply (still_callbacks (on_ad (set_NHzNeeded nHzNeeded) s)), still_restartSPE.
  - unfold proc_MsgHandleEngineUpEvent. cbv zeta. case_match; [|done]. rewrite foldl_send.
    match goal with |- context [restartSessions t true ?x] =>
      intros Hcb; assert (H1 := still_callbacks x _ (still_restart t true x) Hcb) end. done.
  - unfold handleEngineLockStatus. case_match; [|done]. cbv zeta. by rewrite foldl_send.
  - apply still_callbacks, response_still.
Qed.

Lemma answer_inv_run_message t s s' : answer_inv s -> run_message t s = Some s' -> answer_inv s'.
Proof.
  intros (H1 & H2 & H3) H. unfold run_message in H.
  destruct (queue (tsk s)) as [|p q]; [simplify_eq; done|]. fold (pop q s) in H.
  change (messages (tsk (pop q s))) with (messages (tsk s)) in H.
  destruct (messages (tsk s) !! p) as [m|] eqn:Em; [|done].
  destruct (proc t m (pop q s)) as [s1|] eqn:Ep; [|done]. simplify_eq. fold (finish p s1).
  assert (Hf : fresh (pop q s)) by by apply (fresh_below s).
  assert (msg_fine s m) as Hm by by apply (H2 p).
  assert (Ht := total_proc t m (pop q s) s1 Hf Hm Ep).
  assert (Hcb := callbacks_proc t m (pop q s) s1 Hm Ep).
  destruct (proc_task t m (pop q s) s1 Ep) as (Hms & Henv & _).
  assert (p <> next_addr (tsk s)) as Hp.
  { intros E. assert (p < next_addr (tsk s))%N by (apply H3; by eexists). lia. }
  assert (messages (tsk s1) !! p = Some m) as Hp1.
  { destruct Hms as [[-> _]|[-> _]]; [done|]. by rewrite lookup_insert_ne. }
  split; [|split].
  - rewrite commands_env. change (out (finish p s1)) with (out s1). rewrite Henv. change (out (pop q s)) with (out s).
    rewrite <-commands_env, <-H1. unfold total in *. change (given (finish p s1)) with (given s1).
    change (messages (tsk (finish p s1))) with (delete p (messages (tsk s1))).
    rewrite (owed_delete p m _ Hp1) in Ht. change (given (pop q s)) with (given s) in Ht.
    change (messages (tsk (pop q s))) with (messages (tsk s)) in Ht. lia.
  - intros p' m' Hp'. simpl in Hp'. apply lookup_delete_Some in Hp' as [_ Hp'].
    eapply (msg_fine_clients (pop q s)); [exact Hcb|]. destruct Hms as [[E _]|[E _]]; rewrite E in Hp'; [by apply (H2 p')|].
    apply lookup_insert_Some in Hp' as [[_ <-]|[_ Hp']]; [done|by apply (H2 p')].
  - intros p' [m' Hp']. simpl in Hp'. apply lookup_delete_Some in Hp' as [_ Hp'].
    change (next_addr (tsk (finish p s1))) with (next_addr (tsk s1)).
    destruct Hms as [[E ->]|[E ->]]; rewrite E in Hp'; simpl in *.
    + apply H3. by eexists.
    + apply lookup_insert_Some in Hp' as [[<- _]|[_ Hp']]; [lia|].
      assert (p' < next_addr (tsk s))%N by (apply H3; by eexists). lia.
Qed.

Lemma answer_inv_run_request err s :
  answer_ok s (ApiRun err) -> answer_inv s -> answer_inv (run_request err s).
Proof.
  intros Hok Hi. assert (Hi' := Hi). destruct Hi' as (H1 & H2 & H3). unfold run_request. simpl in Hok.
  destruct (requests (api s)) as [|[r resp] rs] eqn:Er; [done|]. cbv zeta.
  match goal with |- context [on_api ?f s] => set (s1 := on_api f s) end.
  assert ((owed_request (r, resp) + total s1)%nat = total s) as Ht.
  { unfold total, given. rewrite Er. simpl. change (answers s1) with (answers s). lia. }
  destruct resp as [resp|].
  - assert (fresh s1) as Hf by by apply (fresh_below s). split; [|split].
    + rewrite total_send by done. change (commands (send_new (LocApiResponse resp err) s1)) with (commands s).
      rewrite <-H1, <-Ht. done.
    + intros p m. rewrite tsk_send_new. simpl. rewrite lookup_insert. case_decide; intros Hp; simplify_eq.
      * by destruct resp.
      * apply (msg_fine_clients s); [done|]. by apply (H2 p).
    + intros p. rewrite tsk_send_new. simpl. rewrite lookup_insert. case_decide; [subst; lia|].
      intros Hp. specialize (H3 p Hp). lia.
  - split; [|split; [|exact H3]].
    + change (commands s1) with (commands s). rewrite <-H1, <-Ht. done.
    + intros p m Hp. apply (msg_fine_clients s); [done|]. by apply (H2 p).
Qed.

Lemma answer_inv_startCommand c (o : TrackingOptions) s :
  (c = client κ -> size o <> 0 ∧ hasCallbacksToStartTracking c s = true) ->
  answer_inv s -> answer_inv (snd (startTrackingCommand c o s)).
Proof.
  intros Hok Hi. unfold startTrackingCommand, generateSessionId. cbv zeta. cbn [snd].
  apply (answer_inv_send _ s); [| |done|done|exact Hok|done].
  - unfold total. by rewrite given_emit.
  - unfold commands. simpl. rewrite sum_list_with_app. simpl. lia.
Qed.

Lemma answer_inv_step s e s' : answer_inv s -> answer_ok s e -> step s e = Some s' -> answer_inv s'.
Proof.
  intros Hi Hok. destruct e; cbn [step]; intros Hs; simplify_eq; try (apply (answer_inv_send _ s s); done).
  - by apply answer_inv_startCommand.
  - apply (answer_inv_send _ s); [| |done|done|done|done].
    + unfold total. by rewrite given_emit.
    + unfold commands. simpl. rewrite sum_list_with_app. simpl. lia.
  - apply (answer_inv_send _ s); [| |done|done|done|done].
    + unfold total. by rewrite given_emit.
    + unfold commands. simpl. rewrite sum_list_with_app. simpl. lia.
  - apply (answer_inv_send _ s); [| |done|done|done|done].
    + unfold total. rewrite given_emit. unfold given, answers. simpl.
      by destruct (sIsEngineCapabilitiesKnown (api s)).
    + unfold commands. simpl. rewrite sum_list_with_app. simpl. lia.
  - unfold reportEngineLockStatus. case_match; [|done]. by apply (answer_inv_send _ s).
  - by apply answer_inv_run_request.
  - by eapply answer_inv_run_message.
Qed.

Lemma answer_inv_init : answer_inv init.
Proof.
  split; [done|]. split; intros p; simpl; rewrite lookup_empty; [done|]. intros [? [=]].
Qed.
End Answers.

(** C15: The answers reported for a session and the answers that messages and
    pending responses of LocApi still owe are as many as the commands given for it,
    in every reachable state: a command is answered once, and when nothing is on its
    way every command was.  Supposed ([answer_ok]): the client registered a callback
    for positions before it starts a session, gives options with their size set, and
    stays; LocApi does not fail to stop a distance based session that is restarted.
    A start without callback or options is not answered (rejected_start_not_answered). *)
Theorem every_command_answered_once κ es s :
  run_ok step (answer_ok κ) init es -> run step init es = Some s ->
  (answers κ s + owed κ s)%nat = commands κ s
  ∧ (messages (tsk s) = ∅ -> requests (api s) = [] -> answers κ s = commands κ s).
Proof.
  intros Hok Hrun. assert (answer_inv κ s) as (H & _).
  { by apply (run_invariant step (answer_ok κ) (answer_inv κ) init es s (answer_inv_step κ)), Hrun;
      [apply answer_inv_init|]. }
  unfold total, given in H. unfold owed. split; [lia|]. intros Hm Hr. rewrite Hm, Hr in H. simpl in H.
  assert (owed_messages κ ∅ = 0%nat) as E by apply map_fold_empty. lia.
Qed.

(** A session changes from time to distance and back, and stops. *)
Definition ex_answers : list event :=
  [EngineUp 4; AddClientCommand 7 ex_cbs; TaskRun 0; TaskRun 0; StartTrackingCommand 7 (ex_opts 1000 0 2);
   TaskRun 0; ApiRun 0; TaskRun 0; UpdateTrackingOptionsCommand 7 2 (ex_opts 1000 20 2); TaskRun 0;
   UpdateTrackingOptionsCommand 7 2 (ex_opts 1000 30 2); ApiRun 0; ApiRun 0; TaskRun 0; TaskRun 0; TaskRun 0;
   ApiRun 0; TaskRun 0; ApiRun 0; TaskRun 0; UpdateTrackingOptionsCommand 7 2 (ex_opts 1000 0 2); TaskRun 0;
   ApiRun 0; TaskRun 0; StopTrackingCommand 7 2; ApiRun 0; TaskRun 0; TaskRun 0; ApiRun 0; TaskRun 0].

Lemma every_command_answered_once_witness :
  match run step init ex_answers with
  | Some s => answers (SessionKey 7 2) s = 5%nat ∧ answers (SessionKey 7 2) s = commands (SessionKey 7 2) s
  | None => False
  end.
Proof.
  destruct (run step init ex_answers) as [s|] eqn:E; [|vm_compute in E; discriminate E].
  destruct (every_command_answered_once (SessionKey 7 2) ex_answers s) as [_ H]; [|exact E|].
  - vm_compute. repeat split; intros; discriminate.
  - assert (answers (SessionKey 7 2) s = 5%nat ∧ messages (tsk s) = ∅ ∧ requests (api s) = []) as (E1 & E2 & E3).
    { vm_compute in E. injection E as <-. vm_compute. done. }
    split; [exact E1|]. by apply H.
Defined.

(** * Commands that are not answered *)

(** A start without a callback for positions, or without options. *)
Lemma rejected_start_not_answered :
  match run step init
    [AddClientCommand 7 (Callbacks true true false false false false false false false); TaskRun 0;
     StartTrackingCommand 7 (ex_opts 1000 0 2); TaskRun 0] with
  | Some s => commands (SessionKey 7 2) s = 1%nat ∧ answers (SessionKey 7 2) s = 0%nat
              ∧ messages (tsk s) = ∅ ∧ requests (api s) = []
  | None => False
  end.
Proof. vm_compute. done. Qed.

(** * Sessions that outlive their end *)

(** The client is told that the session stopped, and the restart that was on
    its way brings it back. *)
Lemma stopped_session_comes_back :
  match run step init
    [EngineUp 4; AddClientCommand 7 ex_cbs; TaskRun 0; TaskRun 0; StartTrackingCommand 7 (ex_opts 1000 20 2);
     TaskRun 0; ApiRun 0; TaskRun 0; UpdateTrackingOptionsCommand 7 2 (ex_opts 1000 30 2);
     StopTrackingCommand 7 2; TaskRun 0; TaskRun 0; ApiRun 0; ApiRun 0; TaskRun 0; TaskRun 0;
     ApiRun 0; TaskRun 0] with
  | Some s => map fst (db s) = [SessionKey 7 2] ∧ mPowerOn (ad s) = true ∧ messages (tsk s) = ∅
              ∧ requests (api s) = [] ∧ answers (SessionKey 7 2) s = 3%nat
  | None => False
  end.
Proof. vm_compute. done. Qed.

(** A client that is removed while its session changes to a time based one
    keeps the engine running. *)
Lemma removed_client_keeps_session :
  match run step init
    [EngineUp 4; AddClientCommand 7 ex_cbs; TaskRun 0; TaskRun 0; StartTrackingCommand 7 (ex_opts 1000 20 2);
     TaskRun 0; ApiRun 0; TaskRun 0; UpdateTrackingOptionsCommand 7 2 (ex_opts 1000 0 2); RemoveClientCommand 7;
     TaskRun 0; TaskRun 0; ApiRun 0; TaskRun 0; ApiRun 0; TaskRun 0] with
  | Some s => map fst (tb s) = [SessionKey 7 2] ∧ mClientData (ad s) = ∅ ∧ is_Some (engine (api s))
              ∧ messages (tsk s) = ∅ ∧ requests (api s) = []
  | None => False
  end.
Proof. vm_compute. split_and!; try done. by eexists. Qed.
