(* ===== verification/LocApiV02.v ===== *)
(** location/loc_api/loc_api_v02/LocApiV02.cpp, what it does for the sessions
    of GnssTracking.v: the requests to the modem for time and distance based
    tracking with the answer each gives the adapter, and the list of supported
    messages that open() makes from the modem's answers.  The structs of the
    messages are those of LocServiceStructs.v; here are their values. *)

From stdpp Require Import list.
From S2P Require Import Prelude Runs LocClient GnssTracking.

Local Open Scope Z_scope.

Definition eQMI_LOC_SUCCESS_V02 : Z := 0.
Definition eQMI_LOC_RECURRENCE_PERIODIC_V02 : Z := 1.
Definition eQMI_LOC_ACCURACY_LOW_V02 : Z := 1.
Definition eQMI_LOC_ACCURACY_HIGH_V02 : Z := 3.
Definition eQMI_LOC_ALTITUDE_ASSUMED_IN_GNSS_SV_INFO_DISABLED_V02 : Z := 2.
Definition eQMI_LOC_DBT_DISTANCE_TYPE_STRAIGHT_LINE_V02 : Z := 1.
Definition eQMI_LOC_DBT_USAGE_NAVIGATION_V02 : Z := 1.
Definition QMILOCPOWERMODEENUMT_MIN_ENUM_VAL_V02 : Z := -2147483647.

Definition GNSS_POWER_MODE_M1 : Z := 1.
Definition GNSS_POWER_MODE_M3 : Z := 3.
Definition GNSS_POWER_MODE_M5 : Z := 5.

(** ** Time based tracking *)

Definition convertPowerMode (powerMode : Z) : Z :=
  if powerMode =? GNSS_POWER_MODE_M1 then 1
  else if powerMode =? GNSS_POWER_MODE_M2 then 2
  else if powerMode =? GNSS_POWER_MODE_M3 then 3
  else if powerMode =? GNSS_POWER_MODE_M4 then 4
  else if powerMode =? GNSS_POWER_MODE_M5 then 5
  else QMILOCPOWERMODEENUMT_MIN_ENUM_VAL_V02.

(** qmiLocStartReqMsgT_v02; an optional member is [None] when it is not valid. *)
Record start_msg := StartMsg {
  start_sessionId : Z;
  minIntermediatePositionReportInterval : option Z;
  start_minInterval : option Z;
  horizontalAccuracyLevel : option Z;
  fixRecurrence : option Z;
  configAltitudeAssumed : option Z;
  start_powerMode : option (Z * Z)     (* the mode and the time between measurements *)
}.

Definition is_background (powerMode : Z) : bool :=
  (powerMode =? GNSS_POWER_MODE_M3) || (powerMode =? GNSS_POWER_MODE_M4) || (powerMode =? GNSS_POWER_MODE_M5).

(** The request of LocApiV02::startTimeBasedTracking. *)
Definition startTimeBasedTracking_req (o : TrackingOptions) : start_msg :=
  let accuracy := eQMI_LOC_ACCURACY_HIGH_V02 in
  let '(accuracy, pm) :=
    if negb (powerMode o =? GNSS_POWER_MODE_INVALID) then
      let timeBetweenMeasurement := tbm o in
      let accuracy := if is_background (powerMode o) then eQMI_LOC_ACCURACY_LOW_V02 else accuracy in
      let timeBetweenMeasurement :=
        if powerMode o =? GNSS_POWER_MODE_M4 then minInterval o else timeBetweenMeasurement in
      (accuracy, Some (convertPowerMode (powerMode o), timeBetweenMeasurement))
    else (accuracy, None) in
  StartMsg 1 (Some (minInterval o)) (Some (minInterval o)) (Some accuracy)
    (Some eQMI_LOC_RECURRENCE_PERIODIC_V02)
    (Some eQMI_LOC_ALTITUDE_ASSUMED_IN_GNSS_SV_INFO_DISABLED_V02) pm.

(** What the adapter is told, from the result of locClientSendReq. *)
Definition sent_answer (status : locClientStatusEnumType) : Z :=
  match status with
  | eLOC_CLIENT_SUCCESS => LOCATION_ERROR_SUCCESS
  | _ => LOCATION_ERROR_GENERAL_FAILURE
  end.
Definition startTimeBasedTracking_answer := sent_answer.
(** LocApiV02::stopFix *)
Definition stopFix_answer := sent_answer.

(** ** Distance based tracking *)

(** qmiLocStartDbtReqMsgT_v02 *)
Record start_dbt_req := StartDbtReq {
  dbt_reqId : Z; dbt_minDistance : Z; maxLatency : Z; distanceType : Z; needOriginLocation : Z; usageType : Z
}.

Definition startDistanceBasedTracking_req (sessionId : Z) (o : LocationOptions) : start_dbt_req :=
  let latency := minInterval o / 1000 in
  let latency := if latency =? 0 then 1 else latency in
  StartDbtReq sessionId (minDistance o) latency eQMI_LOC_DBT_DISTANCE_TYPE_STRAIGHT_LINE_V02 0
    eQMI_LOC_DBT_USAGE_NAVIGATION_V02.

(** The result of locSyncSendReq and the status in the indication are logged;
    err keeps its first value. *)
Definition startDistanceBasedTracking_answer (status : locClientStatusEnumType) (ind_status : Z) : Z :=
  LOCATION_ERROR_SUCCESS.
Definition stopDistanceBasedTracking_answer (status : locClientStatusEnumType) (ind_status : Z) : Z :=
  LOCATION_ERROR_SUCCESS.

(** ** Supported messages *)

Definition LOC_API_ADAPTER_MESSAGE_LOCATION_BATCHING : Z := 0.
Definition LOC_API_ADAPTER_MESSAGE_ADAPTIVE_LOCATION_BATCHING : Z := 3.
Definition LOC_API_ADAPTER_MESSAGE_DISTANCE_BASE_LOCATION_BATCHING : Z := 4.
Definition LOC_API_ADAPTER_MESSAGE_UPDATE_TBF_ON_THE_FLY : Z := 5.
Definition LOC_API_ADAPTER_MESSAGE_OUTDOOR_TRIP_BATCHING : Z := 6.

Definition QMI_LOC_MASK_AON_AUTO_BATCHING_SUPPORTED_V02 : Z := 1.
Definition QMI_LOC_MASK_AON_DISTANCE_BASED_BATCHING_SUPPORTED_V02 : Z := 2.
Definition QMI_LOC_MASK_AON_UPDATE_TBF_SUPPORTED_V02 : Z := 16.
Definition QMI_LOC_MASK_AON_OUTDOOR_TRIP_BATCHING_SUPPORTED_V02 : Z := 32.

(** if (aonCapability | mask) supportedMsgList |= (1 << msg); *)
Definition add_if (aonCapability mask msg supportedMsgList : Z) : Z :=
  if negb (Z.lor aonCapability mask =? 0) then Z.lor supportedMsgList (Z.shiftl 1 msg) else supportedMsgList.

(** The part of LocApiV02::open after locClientSupportMsgCheck; the arguments
    after the list are the results of the query of the AON configuration. *)
Definition supported_with_aon (supportedMsgList : Z) (status : locClientStatusEnumType) (ind_status : Z)
    (aonCapability_valid : bool) (aonCapability : Z) : Z :=
  let messageChecker := Z.shiftl 1 LOC_API_ADAPTER_MESSAGE_LOCATION_BATCHING in
  if Z.land messageChecker supportedMsgList =? messageChecker then
    match status with
    | eLOC_CLIENT_SUCCESS =>
        if negb (ind_status =? eQMI_LOC_SUCCESS_V02) then supportedMsgList
        else if aonCapability_valid then
          let l := supportedMsgList in
          let l := add_if aonCapability QMI_LOC_MASK_AON_AUTO_BATCHING_SUPPORTED_V02
                     LOC_API_ADAPTER_MESSAGE_ADAPTIVE_LOCATION_BATCHING l in
          let l := add_if aonCapability QMI_LOC_MASK_AON_DISTANCE_BASED_BATCHING_SUPPORTED_V02
                     LOC_API_ADAPTER_MESSAGE_DISTANCE_BASE_LOCATION_BATCHING l in
          let l := add_if aonCapability QMI_LOC_MASK_AON_UPDATE_TBF_SUPPORTED_V02
                     LOC_API_ADAPTER_MESSAGE_UPDATE_TBF_ON_THE_FLY l in
          add_if aonCapability QMI_LOC_MASK_AON_OUTDOOR_TRIP_BATCHING_SUPPORTED_V02
            LOC_API_ADAPTER_MESSAGE_OUTDOOR_TRIP_BATCHING l
        else supportedMsgList
    | _ => supportedMsgList
    end
  else supportedMsgList.

(** * Theorems *)

(** The requests carry what the session asks for: its interval, a power mode
    exactly if it has one, low accuracy exactly in background modes, and in M4
    measurements as often as positions. *)
Lemma start_req_spec o :
  0 <= powerMode o <= 5 ->
  let r := startTimeBasedTracking_req o in
  start_minInterval r = Some (minInterval o)
  ∧ (horizontalAccuracyLevel r = Some eQMI_LOC_ACCURACY_LOW_V02 <-> 3 <= powerMode o)
  ∧ match start_powerMode r with
    | None => powerMode o = GNSS_POWER_MODE_INVALID
    | Some (m, t) => m = powerMode o ∧ m <> 0
                     ∧ t = (if powerMode o =? GNSS_POWER_MODE_M4 then minInterval o else tbm o)
    end.
Proof.
  destruct o as [o p t]. simpl. intros Hp.
  assert (p = 0 ∨ p = 1 ∨ p = 2 ∨ p = 3 ∨ p = 4 ∨ p = 5) as [->|[->|[->|[->|[->| ->]]]]] by lia;
    (split; [done|]; split; [split; simpl; [done || lia|done || lia]|done]).
Qed.

(** The latency of a distance based session is at least a second and never
    more than its interval, if that is at least a second. *)
Lemma dbt_latency_bounds i o :
  0 <= minInterval o ->
  let l := maxLatency (startDistanceBasedTracking_req i o) in
  1 <= l ∧ (1000 <= minInterval o -> l * 1000 <= minInterval o).
Proof.
  intros H. simpl. destruct (Z.eqb_spec (minInterval o / 1000) 0) as [E|E].
  - split; [lia|]. intros Hi. assert (1 <= minInterval o / 1000) by (apply Z.div_le_lower_bound; lia). lia.
  - assert (0 <= minInterval o / 1000) by (apply Z.div_pos; lia).
    assert (1000 * (minInterval o / 1000) <= minInterval o) by (apply Z.mul_div_le; lia). lia.
Qed.

(** Bits of the capability mask are joined with the mask, not tested: every
    optional feature is taken to be supported whatever the modem said. *)
Lemma aon_capability_not_tested l aon :
  0 <= aon -> Z.land 1 l = 1 ->
  supported_with_aon l eLOC_CLIENT_SUCCESS eQMI_LOC_SUCCESS_V02 true aon
  = supported_with_aon l eLOC_CLIENT_SUCCESS eQMI_LOC_SUCCESS_V02 true 63.
Proof.
  intros Ha Hl. unfold supported_with_aon. change (Z.shiftl 1 LOC_API_ADAPTER_MESSAGE_LOCATION_BATCHING) with 1.
  rewrite Hl. cbn [Z.eqb Pos.eqb negb]. unfold add_if.
  assert (∀ m, 0 < m -> (Z.lor aon m =? 0) = false) as H.
  { intros m Hm. apply Z.eqb_neq. intros E. apply Z.lor_eq_0_iff in E. lia. }
  by rewrite !H by done.
Qed.

(** A distance based session that the modem refused is reported as started: the
    adapter keeps it. *)
Lemma refused_distance_session_kept status ind_status :
  match run step init
    [EngineUp 4; TaskRun 0; AddClientCommand 7 (Callbacks true true true false false false false false false); TaskRun 0;
     StartTrackingCommand 7 (TrkOptions (LocOptions 28 1000 20 0 0) 0 0); TaskRun 0;
     ApiRun (startDistanceBasedTracking_answer status ind_status); TaskRun 0] with
  | Some s => map fst (mDistanceBasedTrackingSessions (ad s)) = [SessionKey 7 2]
              ∧ last (out s) = Some (OutResponse 7 2 LOCATION_ERROR_SUCCESS true)
  | None => False
  end.
Proof. vm_compute. done. Qed.
