(* ===== verification/LocEventMasks.v ===== *)
(** The masks of events: the bits adapters ask LocApi for (gps_extended_c.h),
    the bits LocApiV02 registers with the modem (location_service_v02.h), the
    conversion between them (LocApiV02::convertMask), and the mask that
    GnssAdapter makes of the callbacks of its clients
    (GnssAdapter::updateClientsEventMask).  Bits of both kinds are named after
    the code; a mask is a number of 64 bits. *)

From stdpp Require Import list gmap.
From Stdlib Require Import Btauto Bool.
From S2P Require Import Prelude Masks GnssTracking.

Local Open Scope Z_scope.

(** ** Events of the adapters *)

Definition LOC_API_ADAPTER_BIT_PARSED_POSITION_REPORT : Z := Z.shiftl 1 0.
Definition LOC_API_ADAPTER_BIT_SATELLITE_REPORT : Z := Z.shiftl 1 1.
Definition LOC_API_ADAPTER_BIT_NMEA_1HZ_REPORT : Z := Z.shiftl 1 2.
Definition LOC_API_ADAPTER_BIT_NMEA_POSITION_REPORT : Z := Z.shiftl 1 3.
Definition LOC_API_ADAPTER_BIT_NI_NOTIFY_VERIFY_REQUEST : Z := Z.shiftl 1 4.
Definition LOC_API_ADAPTER_BIT_ASSISTANCE_DATA_REQUEST : Z := Z.shiftl 1 5.
Definition LOC_API_ADAPTER_BIT_LOCATION_SERVER_REQUEST : Z := Z.shiftl 1 6.
Definition LOC_API_ADAPTER_BIT_IOCTL_REPORT : Z := Z.shiftl 1 7.
Definition LOC_API_ADAPTER_BIT_STATUS_REPORT : Z := Z.shiftl 1 8.
Definition LOC_API_ADAPTER_BIT_REQUEST_WIFI : Z := Z.shiftl 1 9.
Definition LOC_API_ADAPTER_BIT_SENSOR_STATUS : Z := Z.shiftl 1 10.
Definition LOC_API_ADAPTER_BIT_REQUEST_TIME_SYNC : Z := Z.shiftl 1 11.
Definition LOC_API_ADAPTER_BIT_REPORT_SPI : Z := Z.shiftl 1 12.
Definition LOC_API_ADAPTER_BIT_REPORT_NI_GEOFENCE : Z := Z.shiftl 1 13.
Definition LOC_API_ADAPTER_BIT_GEOFENCE_GEN_ALERT : Z := Z.shiftl 1 14.
Definition LOC_API_ADAPTER_BIT_REPORT_GENFENCE_BREACH : Z := Z.shiftl 1 15.
Definition LOC_API_ADAPTER_BIT_BATCHED_GENFENCE_BREACH_REPORT : Z := Z.shiftl 1 21.
Definition LOC_API_ADAPTER_BIT_PEDOMETER_CTRL : Z := Z.shiftl 1 16.
Definition LOC_API_ADAPTER_BIT_MOTION_CTRL : Z := Z.shiftl 1 17.
Definition LOC_API_ADAPTER_BIT_REQUEST_WIFI_AP_DATA : Z := Z.shiftl 1 18.
Definition LOC_API_ADAPTER_BIT_BATCH_FULL : Z := Z.shiftl 1 19.
Definition LOC_API_ADAPTER_BIT_BATCHED_POSITION_REPORT : Z := Z.shiftl 1 20.
Definition LOC_API_ADAPTER_BIT_GNSS_MEASUREMENT_REPORT : Z := Z.shiftl 1 22.
Definition LOC_API_ADAPTER_BIT_GNSS_SV_POLYNOMIAL_REPORT : Z := Z.shiftl 1 23.
Definition LOC_API_ADAPTER_BIT_GDT_UPLOAD_BEGIN_REQ : Z := Z.shiftl 1 24.
Definition LOC_API_ADAPTER_BIT_GDT_UPLOAD_END_REQ : Z := Z.shiftl 1 25.
Definition LOC_API_ADAPTER_BIT_GNSS_MEASUREMENT : Z := Z.shiftl 1 26.
Definition LOC_API_ADAPTER_BIT_REQUEST_TIMEZONE : Z := Z.shiftl 1 27.
Definition LOC_API_ADAPTER_BIT_REPORT_GENFENCE_DWELL : Z := Z.shiftl 1 28.
Definition LOC_API_ADAPTER_BIT_REQUEST_SRN_DATA : Z := Z.shiftl 1 29.
Definition LOC_API_ADAPTER_BIT_POSITION_INJECTION_REQUEST : Z := Z.shiftl 1 30.
Definition LOC_API_ADAPTER_BIT_BATCH_STATUS : Z := Z.shiftl 1 31.
Definition LOC_API_ADAPTER_BIT_FDCL_SERVICE_REQ : Z := Z.shiftl 1 32.
Definition LOC_API_ADAPTER_BIT_PARSED_UNPROPAGATED_POSITION_REPORT : Z := Z.shiftl 1 33.
Definition LOC_API_ADAPTER_BIT_BS_OBS_DATA_SERVICE_REQ : Z := Z.shiftl 1 34.
Definition LOC_API_ADAPTER_BIT_GNSS_SV_EPHEMERIS_REPORT : Z := Z.shiftl 1 35.
Definition LOC_API_ADAPTER_BIT_LOC_SYSTEM_INFO : Z := Z.shiftl 1 36.
Definition LOC_API_ADAPTER_BIT_GNSS_NHZ_MEASUREMENT : Z := Z.shiftl 1 37.
Definition LOC_API_ADAPTER_BIT_EVENT_REPORT_INFO : Z := Z.shiftl 1 38.
Definition LOC_API_ADAPTER_BIT_LATENCY_INFORMATION : Z := Z.shiftl 1 39.

(** ** Events of the modem *)

Definition QMI_LOC_EVENT_MASK_POSITION_REPORT_V02 : Z := Z.shiftl 1 0.
Definition QMI_LOC_EVENT_MASK_GNSS_SV_INFO_V02 : Z := Z.shiftl 1 1.
Definition QMI_LOC_EVENT_MASK_NMEA_V02 : Z := Z.shiftl 1 2.
Definition QMI_LOC_EVENT_MASK_NI_NOTIFY_VERIFY_REQ_V02 : Z := Z.shiftl 1 3.
Definition QMI_LOC_EVENT_MASK_INJECT_TIME_REQ_V02 : Z := Z.shiftl 1 4.
Definition QMI_LOC_EVENT_MASK_INJECT_PREDICTED_ORBITS_REQ_V02 : Z := Z.shiftl 1 5.
Definition QMI_LOC_EVENT_MASK_INJECT_POSITION_REQ_V02 : Z := Z.shiftl 1 6.
Definition QMI_LOC_EVENT_MASK_ENGINE_STATE_V02 : Z := Z.shiftl 1 7.
Definition QMI_LOC_EVENT_MASK_FIX_SESSION_STATE_V02 : Z := Z.shiftl 1 8.
Definition QMI_LOC_EVENT_MASK_WIFI_REQ_V02 : Z := Z.shiftl 1 9.
Definition QMI_LOC_EVENT_MASK_SENSOR_STREAMING_READY_STATUS_V02 : Z := Z.shiftl 1 10.
Definition QMI_LOC_EVENT_MASK_TIME_SYNC_REQ_V02 : Z := Z.shiftl 1 11.
Definition QMI_LOC_EVENT_MASK_SET_SPI_STREAMING_REPORT_V02 : Z := Z.shiftl 1 12.
Definition QMI_LOC_EVENT_MASK_LOCATION_SERVER_CONNECTION_REQ_V02 : Z := Z.shiftl 1 13.
Definition QMI_LOC_EVENT_MASK_NI_GEOFENCE_NOTIFICATION_V02 : Z := Z.shiftl 1 14.
Definition QMI_LOC_EVENT_MASK_GEOFENCE_GEN_ALERT_V02 : Z := Z.shiftl 1 15.
Definition QMI_LOC_EVENT_MASK_GEOFENCE_BREACH_NOTIFICATION_V02 : Z := Z.shiftl 1 16.
Definition QMI_LOC_EVENT_MASK_PEDOMETER_CONTROL_V02 : Z := Z.shiftl 1 17.
Definition QMI_LOC_EVENT_MASK_MOTION_DATA_CONTROL_V02 : Z := Z.shiftl 1 18.
Definition QMI_LOC_EVENT_MASK_BATCH_FULL_NOTIFICATION_V02 : Z := Z.shiftl 1 19.
Definition QMI_LOC_EVENT_MASK_LIVE_BATCHED_POSITION_REPORT_V02 : Z := Z.shiftl 1 20.
Definition QMI_LOC_EVENT_MASK_INJECT_WIFI_AP_DATA_REQ_V02 : Z := Z.shiftl 1 21.
Definition QMI_LOC_EVENT_MASK_GEOFENCE_BATCH_BREACH_NOTIFICATION_V02 : Z := Z.shiftl 1 22.
Definition QMI_LOC_EVENT_MASK_VEHICLE_DATA_READY_STATUS_V02 : Z := Z.shiftl 1 23.
Definition QMI_LOC_EVENT_MASK_GNSS_MEASUREMENT_REPORT_V02 : Z := Z.shiftl 1 24.
Definition QMI_LOC_EVENT_MASK_GNSS_SV_POLYNOMIAL_REPORT_V02 : Z := Z.shiftl 1 25.
Definition QMI_LOC_EVENT_MASK_GEOFENCE_PROXIMITY_NOTIFICATION_V02 : Z := Z.shiftl 1 26.
Definition QMI_LOC_EVENT_MASK_GDT_UPLOAD_BEGIN_REQ_V02 : Z := Z.shiftl 1 27.
Definition QMI_LOC_EVENT_MASK_GDT_UPLOAD_END_REQ_V02 : Z := Z.shiftl 1 28.
Definition QMI_LOC_EVENT_MASK_GEOFENCE_BATCH_DWELL_NOTIFICATION_V02 : Z := Z.shiftl 1 29.
Definition QMI_LOC_EVENT_MASK_GET_TIME_ZONE_REQ_V02 : Z := Z.shiftl 1 30.
Definition QMI_LOC_EVENT_MASK_BATCHING_STATUS_V02 : Z := Z.shiftl 1 31.
Definition QMI_LOC_EVENT_MASK_INTERNAL_STATUS_REPORT_V02 : Z := Z.shiftl 1 32.
Definition QMI_LOC_EVENT_MASK_INJECT_SRN_AP_DATA_REQ_V02 : Z := Z.shiftl 1 33.
Definition QMI_LOC_EVENT_MASK_GNSS_ONLY_POSITION_REPORT_V02 : Z := Z.shiftl 1 34.
Definition QMI_LOC_EVENT_MASK_FDCL_SERVICE_REQ_V02 : Z := Z.shiftl 1 35.
Definition QMI_LOC_EVENT_MASK_DC_REPORT_V02 : Z := Z.shiftl 1 36.
Definition QMI_LOC_EVENT_MASK_ENGINE_LOCK_STATE_V02 : Z := Z.shiftl 1 37.
Definition QMI_LOC_EVENT_MASK_UNPROPAGATED_POSITION_REPORT_V02 : Z := Z.shiftl 1 38.
Definition QMI_LOC_EVENT_MASK_BS_OBS_DATA_SERVICE_REQ_V02 : Z := Z.shiftl 1 39.
Definition QMI_LOC_EVENT_MASK_EPHEMERIS_REPORT_V02 : Z := Z.shiftl 1 40.
Definition QMI_LOC_EVENT_MASK_NEXT_LS_INFO_REPORT_V02 : Z := Z.shiftl 1 41.
Definition QMI_LOC_EVENT_MASK_GET_BAND_MEASUREMENT_METRICS_V02 : Z := Z.shiftl 1 42.
Definition QMI_LOC_EVENT_MASK_GNSS_NHZ_MEASUREMENT_REPORT_V02 : Z := Z.shiftl 1 43.
Definition QMI_LOC_EVENT_MASK_GNSS_EVENT_REPORT_V02 : Z := Z.shiftl 1 44.
Definition QMI_LOC_EVENT_MASK_QUERY_XTRA_INFO_V02 : Z := Z.shiftl 1 45.
Definition QMI_LOC_EVENT_MASK_SAP_INS_PARAMETERS_REPORT_V02 : Z := Z.shiftl 1 46.
Definition QMI_LOC_EVENT_MASK_LATENCY_INFORMATION_REPORT_V02 : Z := Z.shiftl 1 47.

(** * LocApiV02::convertMask *)

(** The tests of convertMask in their order; a test that sets two bits is two
    rules.  [batched] is isMessageSupported() for batched breaches. *)
Definition convert_rules (batched : bool) : list bit_rule :=
  [ bit LOC_API_ADAPTER_BIT_PARSED_POSITION_REPORT QMI_LOC_EVENT_MASK_POSITION_REPORT_V02;
    bit LOC_API_ADAPTER_BIT_PARSED_UNPROPAGATED_POSITION_REPORT QMI_LOC_EVENT_MASK_UNPROPAGATED_POSITION_REPORT_V02;
    bit LOC_API_ADAPTER_BIT_SATELLITE_REPORT QMI_LOC_EVENT_MASK_GNSS_SV_INFO_V02;
    bit LOC_API_ADAPTER_BIT_NMEA_POSITION_REPORT QMI_LOC_EVENT_MASK_NMEA_V02;
    bit LOC_API_ADAPTER_BIT_NMEA_1HZ_REPORT QMI_LOC_EVENT_MASK_NMEA_V02;
    bit LOC_API_ADAPTER_BIT_NMEA_POSITION_REPORT QMI_LOC_EVENT_MASK_ENGINE_STATE_V02;
    bit LOC_API_ADAPTER_BIT_NMEA_1HZ_REPORT QMI_LOC_EVENT_MASK_ENGINE_STATE_V02;
    bit LOC_API_ADAPTER_BIT_NI_NOTIFY_VERIFY_REQUEST QMI_LOC_EVENT_MASK_NI_NOTIFY_VERIFY_REQ_V02;
    bit LOC_API_ADAPTER_BIT_ASSISTANCE_DATA_REQUEST QMI_LOC_EVENT_MASK_INJECT_PREDICTED_ORBITS_REQ_V02;
    bit LOC_API_ADAPTER_BIT_ASSISTANCE_DATA_REQUEST QMI_LOC_EVENT_MASK_INJECT_TIME_REQ_V02;
    bit LOC_API_ADAPTER_BIT_POSITION_INJECTION_REQUEST QMI_LOC_EVENT_MASK_INJECT_POSITION_REQ_V02;
    bit LOC_API_ADAPTER_BIT_STATUS_REPORT QMI_LOC_EVENT_MASK_ENGINE_STATE_V02;
    bit LOC_API_ADAPTER_BIT_LOCATION_SERVER_REQUEST QMI_LOC_EVENT_MASK_LOCATION_SERVER_CONNECTION_REQ_V02;
    bit LOC_API_ADAPTER_BIT_REQUEST_WIFI QMI_LOC_EVENT_MASK_WIFI_REQ_V02;
    bit LOC_API_ADAPTER_BIT_SENSOR_STATUS QMI_LOC_EVENT_MASK_SENSOR_STREAMING_READY_STATUS_V02;
    bit LOC_API_ADAPTER_BIT_REQUEST_TIME_SYNC QMI_LOC_EVENT_MASK_TIME_SYNC_REQ_V02;
    bit LOC_API_ADAPTER_BIT_REPORT_SPI QMI_LOC_EVENT_MASK_SET_SPI_STREAMING_REPORT_V02;
    bit LOC_API_ADAPTER_BIT_REPORT_NI_GEOFENCE QMI_LOC_EVENT_MASK_NI_GEOFENCE_NOTIFICATION_V02;
    bit LOC_API_ADAPTER_BIT_GEOFENCE_GEN_ALERT QMI_LOC_EVENT_MASK_GEOFENCE_GEN_ALERT_V02;
    bit LOC_API_ADAPTER_BIT_REPORT_GENFENCE_BREACH QMI_LOC_EVENT_MASK_GEOFENCE_BREACH_NOTIFICATION_V02;
    bit LOC_API_ADAPTER_BIT_BATCHED_GENFENCE_BREACH_REPORT
      (if batched then QMI_LOC_EVENT_MASK_GEOFENCE_BATCH_BREACH_NOTIFICATION_V02
       else QMI_LOC_EVENT_MASK_GEOFENCE_BREACH_NOTIFICATION_V02);
    bit LOC_API_ADAPTER_BIT_PEDOMETER_CTRL QMI_LOC_EVENT_MASK_PEDOMETER_CONTROL_V02;
    bit LOC_API_ADAPTER_BIT_REPORT_GENFENCE_DWELL QMI_LOC_EVENT_MASK_GEOFENCE_BATCH_DWELL_NOTIFICATION_V02;
    bit LOC_API_ADAPTER_BIT_MOTION_CTRL QMI_LOC_EVENT_MASK_MOTION_DATA_CONTROL_V02;
    bit LOC_API_ADAPTER_BIT_REQUEST_WIFI_AP_DATA QMI_LOC_EVENT_MASK_INJECT_WIFI_AP_DATA_REQ_V02;
    bit LOC_API_ADAPTER_BIT_BATCH_FULL QMI_LOC_EVENT_MASK_BATCH_FULL_NOTIFICATION_V02;
    bit LOC_API_ADAPTER_BIT_BATCH_STATUS QMI_LOC_EVENT_MASK_BATCHING_STATUS_V02;
    bit LOC_API_ADAPTER_BIT_BATCHED_POSITION_REPORT QMI_LOC_EVENT_MASK_LIVE_BATCHED_POSITION_REPORT_V02;
    bit LOC_API_ADAPTER_BIT_GNSS_MEASUREMENT_REPORT QMI_LOC_EVENT_MASK_GNSS_MEASUREMENT_REPORT_V02;
    bit LOC_API_ADAPTER_BIT_GNSS_SV_POLYNOMIAL_REPORT QMI_LOC_EVENT_MASK_GNSS_SV_POLYNOMIAL_REPORT_V02;
    bit LOC_API_ADAPTER_BIT_GNSS_SV_EPHEMERIS_REPORT QMI_LOC_EVENT_MASK_EPHEMERIS_REPORT_V02;
    bit LOC_API_ADAPTER_BIT_GDT_UPLOAD_BEGIN_REQ QMI_LOC_EVENT_MASK_GDT_UPLOAD_BEGIN_REQ_V02;
    bit LOC_API_ADAPTER_BIT_GDT_UPLOAD_END_REQ QMI_LOC_EVENT_MASK_GDT_UPLOAD_END_REQ_V02;
    bit LOC_API_ADAPTER_BIT_GNSS_MEASUREMENT QMI_LOC_EVENT_MASK_GNSS_MEASUREMENT_REPORT_V02;
    bit LOC_API_ADAPTER_BIT_REQUEST_TIMEZONE QMI_LOC_EVENT_MASK_GET_TIME_ZONE_REQ_V02;
    bit LOC_API_ADAPTER_BIT_REQUEST_SRN_DATA QMI_LOC_EVENT_MASK_INJECT_SRN_AP_DATA_REQ_V02;
    bit LOC_API_ADAPTER_BIT_FDCL_SERVICE_REQ QMI_LOC_EVENT_MASK_FDCL_SERVICE_REQ_V02;
    bit LOC_API_ADAPTER_BIT_BS_OBS_DATA_SERVICE_REQ QMI_LOC_EVENT_MASK_BS_OBS_DATA_SERVICE_REQ_V02;
    bit LOC_API_ADAPTER_BIT_LOC_SYSTEM_INFO QMI_LOC_EVENT_MASK_NEXT_LS_INFO_REPORT_V02;
    bit LOC_API_ADAPTER_BIT_EVENT_REPORT_INFO QMI_LOC_EVENT_MASK_GNSS_EVENT_REPORT_V02;
    bit LOC_API_ADAPTER_BIT_GNSS_NHZ_MEASUREMENT QMI_LOC_EVENT_MASK_GNSS_NHZ_MEASUREMENT_REPORT_V02;
    bit LOC_API_ADAPTER_BIT_LATENCY_INFORMATION QMI_LOC_EVENT_MASK_LATENCY_INFORMATION_REPORT_V02 ].

Definition convertMask (batched : bool) (mask : Z) : Z := set_bits 64 0 (convert_rules batched) mask.

(** The reports that exist only during a session. *)
Definition session_events : Z :=
  foldr Z.lor 0
  [ QMI_LOC_EVENT_MASK_POSITION_REPORT_V02; QMI_LOC_EVENT_MASK_UNPROPAGATED_POSITION_REPORT_V02;
    QMI_LOC_EVENT_MASK_GNSS_SV_INFO_V02; QMI_LOC_EVENT_MASK_NMEA_V02; QMI_LOC_EVENT_MASK_ENGINE_STATE_V02;
    QMI_LOC_EVENT_MASK_GNSS_MEASUREMENT_REPORT_V02; QMI_LOC_EVENT_MASK_GNSS_NHZ_MEASUREMENT_REPORT_V02;
    QMI_LOC_EVENT_MASK_GNSS_SV_POLYNOMIAL_REPORT_V02; QMI_LOC_EVENT_MASK_EPHEMERIS_REPORT_V02;
    QMI_LOC_EVENT_MASK_GNSS_EVENT_REPORT_V02; QMI_LOC_EVENT_MASK_NEXT_LS_INFO_REPORT_V02;
    QMI_LOC_EVENT_MASK_LATENCY_INFORMATION_REPORT_V02 ].

Definition adjustMaskIfNoSessionOrEngineOff (mInSession mEngineOn : bool) (qmiMask : Z) : Z :=
  if negb mInSession then Z.ldiff qmiMask session_events
  else if negb mEngineOn then Z.ldiff qmiMask QMI_LOC_EVENT_MASK_NMEA_V02
  else qmiMask.

(** * GnssAdapter::updateClientsEventMask *)

Definition or_if (b : bool) (event mask : Z) : Z := if b then Z.lor mask event else mask.

(** The body of the loop over the clients. *)
Definition client_event_mask (mNmeaMask : Z) (mask : Z) (it : LocationCallbacks) : Z :=
  let mask := or_if (trackingCb it || gnssLocationInfoCb it || engineLocationsInfoCb it)
                LOC_API_ADAPTER_BIT_PARSED_POSITION_REPORT mask in
  let mask := or_if (gnssSvCb it) LOC_API_ADAPTER_BIT_SATELLITE_REPORT mask in
  let mask := or_if (gnssNmeaCb it && negb (mNmeaMask =? 0)) LOC_API_ADAPTER_BIT_NMEA_1HZ_REPORT mask in
  let mask := or_if (gnssMeasurementsCb it) LOC_API_ADAPTER_BIT_GNSS_MEASUREMENT mask in
  let mask := or_if (gnssDataCb it) LOC_API_ADAPTER_BIT_PARSED_POSITION_REPORT mask in
  or_if (gnssDataCb it) LOC_API_ADAPTER_BIT_NMEA_1HZ_REPORT mask.

(** What the rest of the adapter contributes. *)
Record mask_config := MaskConfig {
  mc_mNmeaMask : Z;
  auto_usecase : bool;        (* EXTERNAL_DR_ENABLED, or the engine hub was loaded *)
  agps_registered : bool;
  odcpi_callback : bool;
  latency_log : bool
}.

(** [oldMask] is the mask of the adapter before. *)
Definition updateClientsEventMask (cf : mask_config) (oldMask : Z) (mClientData : list LocationCallbacks) : Z :=
  let mask := Z.lor LOC_API_ADAPTER_BIT_LOC_SYSTEM_INFO LOC_API_ADAPTER_BIT_EVENT_REPORT_INFO in
  let mask := foldl (client_event_mask (mc_mNmeaMask cf)) mask mClientData in
  let mask := or_if (auto_usecase cf) LOC_API_ADAPTER_BIT_GNSS_MEASUREMENT mask in
  let mask := or_if (auto_usecase cf) LOC_API_ADAPTER_BIT_GNSS_SV_POLYNOMIAL_REPORT mask in
  let mask := or_if (auto_usecase cf) LOC_API_ADAPTER_BIT_PARSED_UNPROPAGATED_POSITION_REPORT mask in
  let mask := or_if (auto_usecase cf) LOC_API_ADAPTER_BIT_GNSS_SV_EPHEMERIS_REPORT mask in
  let mask := or_if (auto_usecase cf) (Z.land oldMask LOC_API_ADAPTER_BIT_GNSS_NHZ_MEASUREMENT) mask in
  let mask := or_if (agps_registered cf) LOC_API_ADAPTER_BIT_LOCATION_SERVER_REQUEST mask in
  let mask := or_if (odcpi_callback cf) LOC_API_ADAPTER_BIT_REQUEST_WIFI mask in
  let mask := Z.lor mask LOC_API_ADAPTER_BIT_LOC_SYSTEM_INFO in
  let mask := Z.lor mask LOC_API_ADAPTER_BIT_NI_NOTIFY_VERIFY_REQUEST in
  if negb (Z.land mask LOC_API_ADAPTER_BIT_GNSS_MEASUREMENT =? 0)
  then or_if (latency_log cf) LOC_API_ADAPTER_BIT_LATENCY_INFORMATION mask else mask.

(** The calls of updateNmeaMask it makes. *)
Definition LOC_NMEA_MASK_DEBUG_V02 : Z := 0x00020000.
Definition updateNmeaMask_calls (cf : mask_config) (mClientData : list LocationCallbacks) : list Z :=
  (λ _, Z.lor (mc_mNmeaMask cf) LOC_NMEA_MASK_DEBUG_V02) <$> filter (λ it, gnssDataCb it = true) mClientData.

(** * Bits of the masks *)

(** Which bit of an adapter's mask sets which bit of the modem's. *)
Definition convert_pairs (batched : bool) : list (Z * Z) := default [] (positions 64 (convert_rules batched)).

Lemma convertMask_testbit batched m k :
  0 ≤ k -> Z.testbit (convertMask batched m) k = fires m k (convert_pairs batched).
Proof.
  intros Hk. unfold convertMask.
  rewrite (set_bits_testbit 64 (convert_rules batched) (convert_pairs batched));
    [by rewrite Z.bits_0|done|done|by destruct batched|intros; apply Z.bits_0].
Qed.

Lemma convertMask_0 batched : convertMask batched 0 = 0.
Proof. by destruct batched. Qed.

(** [a] has all bits of [b]. *)
Definition includes (a b : Z) : Prop := Z.land a b = b.

Lemma includes_testbit a b : includes a b <-> ∀ k, 0 ≤ k -> Z.testbit b k = true -> Z.testbit a k = true.
Proof.
  unfold includes. split.
  - intros <- k Hk. rewrite Z.land_spec. by intros [? _]%andb_prop.
  - intros H. apply Z.bits_inj'. intros k Hk. rewrite Z.land_spec.
    destruct (Z.testbit b k) eqn:E; [|apply andb_false_r]. by rewrite H.
Qed.

Lemma includes_refl a : includes a a.
Proof. apply Z.land_diag. Qed.
Lemma includes_trans a b c : includes a b -> includes b c -> includes a c.
Proof. rewrite !includes_testbit. auto. Qed.
Lemma includes_lor_l a b c : includes a c -> includes (Z.lor a b) c.
Proof. rewrite !includes_testbit. intros H k Hk Hc. by rewrite Z.lor_spec, H. Qed.
Lemma includes_lor_r a b : includes (Z.lor a b) b.
Proof. apply includes_testbit. intros k _ H. by rewrite Z.lor_spec, H, orb_true_r. Qed.
Lemma includes_lor_both a b c : includes a b -> includes a c -> includes a (Z.lor b c).
Proof.
  rewrite !includes_testbit. intros H1 H2 k Hk. rewrite Z.lor_spec.
  intros [?|?]%orb_prop; auto.
Qed.

Lemma or_if_testbit b event mask k :
  0 ≤ k -> Z.testbit (or_if b event mask) k = b && Z.testbit event k || Z.testbit mask k.
Proof. intros _. destruct b; simpl; [|done]. rewrite Z.lor_spec. apply orb_comm. Qed.
Lemma or_if_includes b event mask : includes (or_if b event mask) mask.
Proof. destruct b; simpl; [apply includes_lor_l|]; apply includes_refl. Qed.
Lemma or_if_set b event mask : b = true -> includes (or_if b event mask) event.
Proof. intros ->. apply includes_lor_r. Qed.
Create HintDb mask.
#[export] Hint Resolve includes_refl includes_lor_r includes_lor_l or_if_includes or_if_set : mask.

(** More adapter bits, more events. *)
Lemma convertMask_mono batched a b : includes a b -> includes (convertMask batched a) (convertMask batched b).
Proof.
  rewrite !includes_testbit. intros H k Hk. rewrite !convertMask_testbit by done.
  unfold fires. rewrite !existsb_exists. intros ((i & j) & Hin & [Hj Hi]%andb_prop).
  exists (i, j). split; [exact Hin|]. clear Hin. rewrite Hj. simpl. apply H; [|exact Hi].
  destruct (Z_lt_le_dec i 0) as [Hn|]; [|assumption]. by rewrite Z.testbit_neg_r in Hi.
Qed.

(** Events of the modem that eventCb handles although no mask registers them. *)
Lemma never_registered batched m :
  Z.land (convertMask batched m)
    (Z.lor QMI_LOC_EVENT_MASK_ENGINE_LOCK_STATE_V02 QMI_LOC_EVENT_MASK_FIX_SESSION_STATE_V02) = 0.
Proof.
  apply Z.bits_inj'. intros k Hk. rewrite Z.land_spec, Z.bits_0, Z.lor_spec, convertMask_testbit by done.
  change QMI_LOC_EVENT_MASK_ENGINE_LOCK_STATE_V02 with (2 ^ 37).
  change QMI_LOC_EVENT_MASK_FIX_SESSION_STATE_V02 with (2 ^ 8).
  rewrite !Z.pow2_bits_eqb by done.
  destruct (Z.eqb_spec 37 k) as [<-|]; [|destruct (Z.eqb_spec 8 k) as [<-|]; [|apply andb_false_r]];
    rewrite andb_true_r; by destruct batched.
Qed.

(** ** The callbacks of the clients *)

(** The events of the modem a client's callbacks are made from. *)
Definition callback_bits (mNmeaMask : Z) (it : LocationCallbacks) : Z :=
  or_if (trackingCb it || gnssLocationInfoCb it || engineLocationsInfoCb it || gnssDataCb it)
    LOC_API_ADAPTER_BIT_PARSED_POSITION_REPORT
  (or_if (gnssSvCb it) LOC_API_ADAPTER_BIT_SATELLITE_REPORT
  (or_if (gnssDataCb it || gnssNmeaCb it && negb (mNmeaMask =? 0)) LOC_API_ADAPTER_BIT_NMEA_1HZ_REPORT
  (or_if (gnssMeasurementsCb it) LOC_API_ADAPTER_BIT_GNSS_MEASUREMENT 0))).

Definition callback_events (mNmeaMask : Z) (it : LocationCallbacks) : Z :=
  or_if (trackingCb it || gnssLocationInfoCb it || engineLocationsInfoCb it || gnssDataCb it)
    QMI_LOC_EVENT_MASK_POSITION_REPORT_V02
  (or_if (gnssSvCb it) QMI_LOC_EVENT_MASK_GNSS_SV_INFO_V02
  (or_if (gnssDataCb it || gnssNmeaCb it && negb (mNmeaMask =? 0))
    (Z.lor QMI_LOC_EVENT_MASK_NMEA_V02 QMI_LOC_EVENT_MASK_ENGINE_STATE_V02)
  (or_if (gnssMeasurementsCb it) QMI_LOC_EVENT_MASK_GNSS_MEASUREMENT_REPORT_V02 0))).

Lemma client_event_mask_callbacks n mask it :
  includes (client_event_mask n mask it) (Z.lor mask (callback_bits n it)).
Proof.
  apply includes_testbit. intros k Hk. rewrite <- implb_true_iff, implb_orb.
  unfold client_event_mask, callback_bits. rewrite Z.lor_spec, !or_if_testbit, Z.bits_0 by done. btauto.
Qed.

Lemma client_masks_grow n cs m : includes (foldl (client_event_mask n) m cs) m.
Proof.
  revert m. induction cs as [|c cs IH]; intros m; simpl; [apply includes_refl|].
  eapply includes_trans; [apply IH|]. eapply includes_trans; [apply client_event_mask_callbacks|].
  apply includes_lor_l, includes_refl.
Qed.

Lemma client_masks_callbacks n cs m it :
  it ∈ cs -> includes (foldl (client_event_mask n) m cs) (callback_bits n it).
Proof.
  intros Hin. revert m. induction Hin as [cs|c cs ? Hin IH]; intros m; simpl; [|apply IH].
  eapply includes_trans; [apply client_masks_grow|].
  eapply includes_trans; [apply client_event_mask_callbacks|apply includes_lor_r].
Qed.

(** The mask of the adapter has what the callbacks of each client need. *)
Lemma updateClientsEventMask_callbacks cf old cs it :
  it ∈ cs -> includes (updateClientsEventMask cf old cs) (callback_bits (mc_mNmeaMask cf) it).
Proof.
  intros Hin. eapply includes_trans; [|by eapply (client_masks_callbacks _ cs)].
  unfold updateClientsEventMask. apply includes_testbit. intros k Hk Hb.
  case_match; rewrite ?or_if_testbit, ?Z.lor_spec, ?or_if_testbit, ?Z.lor_spec, ?or_if_testbit, Hb by done;
    by rewrite ?orb_true_r.
Qed.

(** The events of the modem for the callbacks of a client. *)
Lemma convertMask_callbacks batched n it :
  includes (convertMask batched (callback_bits n it)) (callback_events n it).
Proof.
  unfold callback_bits, callback_events.
  repeat match goal with |- context [or_if ?b _ _] => destruct b; simpl or_if end; by destruct batched.
Qed.
