(* ===== verification/LocEvents.v ===== *)
(** Which events the modem reports: LocApiBase keeps the adapters in an array
    (gps/core/LocApiBase.cpp), and LocApiV02 registers the union of their masks
    with the modem, less while there is no session or the engine is off
    (loc_api_v02/LocApiV02.cpp); requests that the engine is too busy for are
    kept until it is off.

    Adapters and the modem's indications put messages in the queue of LocApi's
    task; the task processes them in order.  What the modem and the allocator
    answer while a message is processed is an argument of the step, [env]. *)

From stdpp Require Import list gmap.
From S2P Require Import Prelude Runs Masks GnssTracking LocEventMasks.

Local Open Scope Z_scope.

(** * State *)

Definition MAX_ADAPTERS : nat := 10.

(** The requests of locSyncSendReq that the handlers here make. *)
Inductive sync_req :=
  | SetGnssConstRepConfig (measReport svPolyReport : bool)
  | NotifyWifiStatus
  | SetOperationMode
  | RegisterMasterClient
  | QueryAonConfig
  | GetSupportedFeature
  | GetEngineLock
  | OtherReq (id : Z) (payload : bool).
#[export] Instance sync_req_eq_dec : EqDecision sync_req.
Proof. solve_decision. Defined.

(** Whether validateRequest gives the request a payload. *)
Definition has_payload (r : sync_req) : bool :=
  match r with GetEngineLock => false | OtherReq _ payload => payload | _ => true end.

(** What the modem and the allocator do during one step of the task. *)
Record env := Env {
  open_ok : bool;                      (* locClientOpen succeeds *)
  register_master : option bool;       (* [None]: accepted; else whether the message is unknown *)
  support_ok : bool;                   (* locClientSupportMsgCheck succeeds *)
  batching_supported : bool;
  reg_ok : Z -> bool;                  (* registering this mask succeeds *)
  busy : sync_req -> bool;             (* the engine is busy *)
  malloc_ok : bool;
  stop_ok : bool                       (* the stop request succeeds *)
}.

(** The messages of LocApi's task. *)
Inductive api_msg :=
  | LocOpenMsg
  | LocCloseMsg
  | LocSsrMsg
  | StartFixMsg                        (* startFix, startTimeBasedTracking *)
  | StopFixMsg
  | StopTimeBasedTrackingMsg
  | MsgUpdateEngineState (engineOn : bool)
  | RequestMsg (r : sync_req).         (* any other request *)

Inductive event_output :=
  | OutCached (r : sync_req)           (* kept in mResenders *)
  | OutResent (r : sync_req).          (* sent again, not cached a second time *)

(** An adapter as LocApiBase sees it. *)
Record adapter_info := AdapterInfo { mEvtMask : Z; mIsMaster : bool }.

Record ev_state := EvState {
  adapters : gmap Z adapter_info;
  mLocAdapters : list (option Z);      (* the array of MAX_ADAPTERS pointers *)
  mMask : Z; mQmiMask : Z; mInSession : bool; mEngineOn : bool;
  mMasterRegisterNotSupported : bool;
  mResenders : list sync_req;
  modem : option Z;                    (* the mask registered by the client; [None]: no client *)
  msgs : list api_msg;
  log : list event_output
}.

Definition set_masks (m q : Z) (s : ev_state) : ev_state :=
  EvState (adapters s) (mLocAdapters s) m q (mInSession s) (mEngineOn s) (mMasterRegisterNotSupported s)
    (mResenders s) (modem s) (msgs s) (log s).
Definition set_session (b e : bool) (s : ev_state) : ev_state :=
  EvState (adapters s) (mLocAdapters s) (mMask s) (mQmiMask s) b e (mMasterRegisterNotSupported s)
    (mResenders s) (modem s) (msgs s) (log s).
Definition set_unsupported (b : bool) (s : ev_state) : ev_state :=
  EvState (adapters s) (mLocAdapters s) (mMask s) (mQmiMask s) (mInSession s) (mEngineOn s) b
    (mResenders s) (modem s) (msgs s) (log s).
Definition set_modem (m : option Z) (s : ev_state) : ev_state :=
  EvState (adapters s) (mLocAdapters s) (mMask s) (mQmiMask s) (mInSession s) (mEngineOn s)
    (mMasterRegisterNotSupported s) (mResenders s) m (msgs s) (log s).
Definition set_resenders (l : list sync_req) (o : list event_output) (s : ev_state) : ev_state :=
  EvState (adapters s) (mLocAdapters s) (mMask s) (mQmiMask s) (mInSession s) (mEngineOn s)
    (mMasterRegisterNotSupported s) l (modem s) (msgs s) (log s ++ o).
Definition set_msgs (l : list api_msg) (s : ev_state) : ev_state :=
  EvState (adapters s) (mLocAdapters s) (mMask s) (mQmiMask s) (mInSession s) (mEngineOn s)
    (mMasterRegisterNotSupported s) (mResenders s) (modem s) l (log s).
Definition set_adapters (a : gmap Z adapter_info) (l : list (option Z)) (s : ev_state) : ev_state :=
  EvState a l (mMask s) (mQmiMask s) (mInSession s) (mEngineOn s)
    (mMasterRegisterNotSupported s) (mResenders s) (modem s) (msgs s) (log s).

Definition send_msg (m : api_msg) (s : ev_state) : ev_state := set_msgs (msgs s ++ [m]) s.

(** * LocApiBase *)

Definition info (s : ev_state) (a : Z) : adapter_info := default (AdapterInfo 0 false) (adapters s !! a).

(** The adapters a loop over the array visits: up to the first null pointer. *)
Fixpoint visited (arr : list (option Z)) : list Z :=
  match arr with Some a :: arr => a :: visited arr | _ => [] end.

(** The loop of addAdapter; [None]: nothing is stored. *)
Fixpoint add_in (a : Z) (arr : list (option Z)) : option (list (option Z)) :=
  match arr with
  | [] => None
  | None :: arr => Some (Some a :: arr)
  | Some b :: arr => if b =? a then None else cons (Some b) <$> add_in a arr
  end.
Definition addAdapter (a : Z) (s : ev_state) : ev_state :=
  match add_in a (mLocAdapters s) with
  | Some arr => send_msg LocOpenMsg (set_adapters (adapters s) arr s)
  | None => s
  end.

(** The index at which the loop of removeAdapter finds the adapter. *)
Fixpoint index_of (a : Z) (arr : list (option Z)) : option nat :=
  match arr with
  | Some b :: arr => if b =? a then Some O else S <$> index_of a arr
  | _ => None
  end.
(** The array after the removal, and the index of the last adapter before: the
    last adapter moves to the place of the removed one. *)
Definition remove_at (j : nat) (arr : list (option Z)) : list (option Z) * nat :=
  let arr := <[j := None]> arr in
  let i := (j + length (visited (drop (S j) arr)))%nat in
  let arr := <[j := mjoin (arr !! i)]> arr in
  (<[i := None]> arr, i).
Definition removeAdapter (a : Z) (s : ev_state) : ev_state :=
  match index_of a (mLocAdapters s) with
  | None => s
  | Some j =>
      let '(arr, i) := remove_at j (mLocAdapters s) in
      send_msg (if (i =? 0)%nat then LocCloseMsg else LocOpenMsg) (set_adapters (adapters s) arr s)
  end.

Inductive loc_registration_mask_status :=
  | LOC_REGISTRATION_MASK_ENABLED | LOC_REGISTRATION_MASK_DISABLED | LOC_REGISTRATION_MASK_SET.

(** LocAdapterBase::updateEvtMask *)
Definition new_evt_mask (status : loc_registration_mask_status) (event mask : Z) : Z :=
  match status with
  | LOC_REGISTRATION_MASK_ENABLED => Z.lor mask event
  | LOC_REGISTRATION_MASK_DISABLED => Z.ldiff mask event
  | LOC_REGISTRATION_MASK_SET => event
  end.
Definition updateEvtMask (a : Z) (event : Z) (status : loc_registration_mask_status) (s : ev_state) : ev_state :=
  let i := info s a in
  let i := AdapterInfo (new_evt_mask status event (mEvtMask i)) (mIsMaster i) in
  send_msg LocOpenMsg (set_adapters (<[a := i]> (adapters s)) (mLocAdapters s) s).

Section LocApiV02.
(** What the adapters of this LocApi must not ask for, isMessageSupported() for
    batched breaches, and gnssConstellationConfig(). *)
Context (mExcludedMask : Z) (batched gnssConstellationConfig : bool).

Definition getEvtMask (s : ev_state) : Z :=
  Z.ldiff (foldr (λ a m, Z.lor (mEvtMask (info s a)) m) 0 (visited (mLocAdapters s))) mExcludedMask.

Definition isMaster (s : ev_state) : bool :=
  existsb (λ a, mIsMaster (info s a)) (visited (mLocAdapters s)).

(** * LocApiV02 *)

Definition locClientRegisterEventMask (e : env) (mask : Z) (s : ev_state) : bool * ev_state :=
  match modem s with
  | Some _ => if reg_ok e mask then (true, set_modem (Some mask) s) else (false, s)
  | None => (false, s)
  end.

Definition locSyncSendReq (e : env) (r : sync_req) (s : ev_state) : ev_state :=
  match modem s with
  | None => s
  | Some _ =>
      if busy e r then
        let s :=
          match mResenders s with
          | [] => if Z.land (mQmiMask s) QMI_LOC_EVENT_MASK_ENGINE_STATE_V02 =? 0
                  then snd (locClientRegisterEventMask e
                              (Z.lor (mQmiMask s) QMI_LOC_EVENT_MASK_ENGINE_STATE_V02) s)
                  else s
          | _ => s
          end in
        if negb (has_payload r) || malloc_ok e
        then set_resenders (mResenders s ++ [r]) [OutCached r] s else s
      else s
  end.

Definition setSvMeasurementConstellation (e : env) (mask : Z) (s : ev_state) : ev_state :=
  locSyncSendReq e
    (SetGnssConstRepConfig
       (negb (Z.land mask QMI_LOC_EVENT_MASK_GNSS_MEASUREMENT_REPORT_V02 =? 0) || mMasterRegisterNotSupported s)
       (negb (Z.land mask QMI_LOC_EVENT_MASK_GNSS_SV_POLYNOMIAL_REPORT_V02 =? 0))) s.

(** What registerEventMask does after the modem took the mask. *)
Definition announce_changes (e : env) (qmiMask : Z) (s : ev_state) : ev_state :=
  let maskDiff := Z.lxor qmiMask (mQmiMask s) in
  let s := if negb (Z.land (Z.land maskDiff qmiMask) QMI_LOC_EVENT_MASK_WIFI_REQ_V02 =? 0)
           then locSyncSendReq e NotifyWifiStatus s else s in
  if isMaster s && negb (Z.land maskDiff QMI_LOC_EVENT_MASK_GNSS_SV_POLYNOMIAL_REPORT_V02 =? 0) then
    setSvMeasurementConstellation e
      (if gnssConstellationConfig then Z.lor qmiMask QMI_LOC_EVENT_MASK_GNSS_MEASUREMENT_REPORT_V02
       else Z.ldiff qmiMask QMI_LOC_EVENT_MASK_GNSS_MEASUREMENT_REPORT_V02) s
  else s.

Definition registerEventMask (e : env) (adapterMask : Z) (s : ev_state) : ev_state :=
  let qmiMask := adjustMaskIfNoSessionOrEngineOff (mInSession s) (mEngineOn s) (convertMask batched adapterMask) in
  let s :=
    if negb (qmiMask =? mQmiMask s) then
      let '(ok, s) := locClientRegisterEventMask e qmiMask s in
      if ok then
        let s := announce_changes e qmiMask s in
        set_masks (mMask s) qmiMask s
      else s
    else s in
  set_masks adapterMask (mQmiMask s) s.

(** open() finds no client: it connects and asks what the modem supports. *)
Definition registerMasterClient (e : env) (s : ev_state) : ev_state :=
  let s := locSyncSendReq e RegisterMasterClient s in
  match register_master e with Some b => set_unsupported b s | None => s end.
Definition open_client (e : env) (s : ev_state) : ev_state :=
  let s := set_modem (Some 0) s in
  let s := if isMaster s then
             setSvMeasurementConstellation e QMI_LOC_EVENT_MASK_GNSS_MEASUREMENT_REPORT_V02
               (registerMasterClient e s)
           else s in
  let s := if batching_supported e then locSyncSendReq e QueryAonConfig s else s in
  let s := locSyncSendReq e GetSupportedFeature s in
  locSyncSendReq e GetEngineLock s.

Definition open (e : env) (mask : Z) (s : ev_state) : ev_state :=
  let newMask := Z.ldiff mask mExcludedMask in
  match modem s with
  | Some _ => registerEventMask e newMask s
  | None =>
      if open_ok e then
        let s := open_client e s in
        if support_ok e then registerEventMask e newMask s else s
      else set_masks 0 0 s
  end.

Definition close (s : ev_state) : ev_state :=
  set_modem None (set_session false (mEngineOn s) (set_masks 0 0 s)).

(** startFix and startTimeBasedTracking, up to the start request. *)
Definition startTracking (e : env) (s : ev_state) : ev_state :=
  let s := set_session true (mEngineOn s) s in
  let s := registerEventMask e (mMask s) s in
  locSyncSendReq e SetOperationMode s.

Definition end_session (e : env) (s : ev_state) : ev_state :=
  let s := set_session false (mEngineOn s) s in
  if negb (mEngineOn s) then registerEventMask e (mMask s) s else s.
Definition stopFix (e : env) (s : ev_state) : ev_state := end_session e s.
Definition stopTimeBasedTracking (e : env) (s : ev_state) : ev_state :=
  if stop_ok e then end_session e s else s.

Definition resend_all (s : ev_state) : ev_state :=
  set_resenders [] (OutResent <$> mResenders s) s.

Definition update_engine_state (e : env) (engineOn : bool) (s : ev_state) : ev_state :=
  let s := set_session (mInSession s) engineOn s in
  let s := registerEventMask e (mMask s) s in
  if negb engineOn then resend_all s else s.

Definition proc_msg (e : env) (m : api_msg) (s : ev_state) : ev_state :=
  match m with
  | LocOpenMsg => open e (getEvtMask s) s
  | LocCloseMsg => close s
  | LocSsrMsg => let s := close s in open e (getEvtMask s) s
  | StartFixMsg => startTracking e s
  | StopFixMsg => stopFix e s
  | StopTimeBasedTrackingMsg => stopTimeBasedTracking e s
  | MsgUpdateEngineState b => update_engine_state e b s
  | RequestMsg r => locSyncSendReq e r s
  end.

(** ** The machine *)

Inductive ev_event :=
  | CreateAdapter (a : Z) (mask : Z) (master : bool)   (* constructor, addAdapter *)
  | RemoveAdapter (a : Z)
  | UpdateEvtMask (a : Z) (event : Z) (status : loc_registration_mask_status)
  | ApiCall (m : api_msg)                              (* a call that sends [m] *)
  | EngineStateInd (on : bool)                         (* the modem's engine state report *)
  | ServiceDown                                        (* errorCb: the service is unavailable *)
  | ApiTask (e : env).

(** The modem reports its engine state to clients that registered for it. *)
Definition reportEngineState (on : bool) (s : ev_state) : ev_state :=
  match modem s with
  | Some m => if Z.land m QMI_LOC_EVENT_MASK_ENGINE_STATE_V02 =? 0 then s
              else send_msg (MsgUpdateEngineState on) s
  | None => s
  end.

Definition run_api_msg (e : env) (s : ev_state) : ev_state :=
  match msgs s with
  | [] => s
  | m :: l => proc_msg e m (set_msgs l s)
  end.

Definition ev_step (s : ev_state) (x : ev_event) : option ev_state :=
  Some match x with
  | CreateAdapter a mask master =>
      addAdapter a (set_adapters (<[a := AdapterInfo mask master]> (adapters s)) (mLocAdapters s) s)
  | RemoveAdapter a => removeAdapter a s
  | UpdateEvtMask a event status => updateEvtMask a event status s
  | ApiCall m => send_msg m s
  | EngineStateInd on => reportEngineState on s
  | ServiceDown => send_msg LocSsrMsg s
  | ApiTask e => run_api_msg e s
  end.

Definition ev_init : ev_state :=
  EvState ∅ (replicate MAX_ADAPTERS None) 0 0 false false false [] None [] [].
End LocApiV02.

(** * The array of adapters *)

Definition arr_of (l : list Z) : list (option Z) := (Some <$> l) ++ replicate (MAX_ADAPTERS - length l) None.
Record arr_ok (l : list Z) (arr : list (option Z)) : Prop := {
  arr_is : arr = arr_of l;
  arr_nodup : NoDup l;
  arr_max : (length l <= MAX_ADAPTERS)%nat
}.

Lemma visited_app l arr : visited ((Some <$> l) ++ arr) = l ++ visited arr.
Proof. induction l as [|a l IH]; csimpl; [done|]. by rewrite IH. Qed.
Lemma visited_none n : visited (replicate n None) = [].
Proof. by destruct n. Qed.
Lemma visited_arr_of l : visited (arr_of l) = l.
Proof. unfold arr_of. by rewrite visited_app, visited_none, app_nil_r. Qed.

Lemma add_in_spec a l n :
  add_in a ((Some <$> l) ++ replicate n None) =
    if bool_decide (a ∈ l) then None
    else match n with O => None | S n => Some ((Some <$> l) ++ Some a :: replicate n None) end.
Proof.
  induction l as [|b l IH]; csimpl.
  - by destruct n.
  - destruct (Z.eqb_spec b a) as [->|Hne]; [by rewrite bool_decide_true by left|].
    rewrite IH. destruct (decide (a ∈ l)).
    + by rewrite !bool_decide_true by (done || by right).
    + rewrite !bool_decide_false by (set_solver). by destruct n.
Qed.

Lemma add_in_ok a l arr :
  arr_ok l arr -> add_in a arr = None ∧ (a ∈ l ∨ length l = MAX_ADAPTERS)
    ∨ ∃ arr', add_in a arr = Some arr' ∧ arr_ok (l ++ [a]) arr'.
Proof.
  intros [-> Hnd Hmax]. unfold arr_of. rewrite add_in_spec.
  destruct (decide (a ∈ l)) as [Hin|Hin]; [rewrite bool_decide_true by done; by left; auto|].
  rewrite bool_decide_false by done. destruct (MAX_ADAPTERS - length l)%nat as [|n] eqn:E.
  - left. split; [done|]. right. lia.
  - right. eexists. split; [reflexivity|]. split.
    + unfold arr_of. rewrite fmap_app, length_app, <- app_assoc. simpl.
      replace (MAX_ADAPTERS - (length l + 1))%nat with n by lia. done.
    + apply NoDup_app. split; [done|]. split; [set_solver|apply NoDup_singleton].
    + rewrite length_app. simpl. lia.
Qed.

Lemma index_of_spec a l arr :
  NoDup l -> index_of a ((Some <$> l) ++ replicate arr None) = None ∧ a ∉ l
    ∨ ∃ l1 l2, l = l1 ++ a :: l2 ∧ index_of a ((Some <$> l) ++ replicate arr None) = Some (length l1).
Proof.
  induction l as [|b l IH]; intros Hnd; csimpl.
  - left. split; [by destruct arr|apply not_elem_of_nil].
  - apply NoDup_cons in Hnd as [Hb Hnd]. destruct (Z.eqb_spec b a) as [->|Hne].
    + right. by exists [], l.
    + destruct (IH Hnd) as [[-> Hn]|(l1 & l2 & -> & ->)].
      * left. split; [done|]. set_solver.
      * right. by exists (b :: l1), l2.
Qed.

(** The last adapter moves to the place of the removed one. *)
Definition removed (l1 l2 : list Z) : list Z :=
  match last l2 with Some z => l1 ++ z :: removelast l2 | None => l1 end.

Lemma removed_perm l1 l2 : removed l1 l2 ≡ₚ l1 ++ l2.
Proof.
  unfold removed. destruct l2 as [|x l2 _] using rev_ind; [by rewrite app_nil_r|].
  rewrite last_snoc, removelast_last. by rewrite (Permutation_app_comm l2 [x]).
Qed.

Lemma insert_mid {A} (l1 l2 : list A) (x y : A) n : n = length l1 -> <[n := y]> (l1 ++ x :: l2) = l1 ++ y :: l2.
Proof. intros ->. rewrite insert_app_r_alt, Nat.sub_diag by lia. done. Qed.

Lemma remove_at_spec l1 a l2 n :
  remove_at (length l1) ((Some <$> (l1 ++ a :: l2)) ++ replicate n None) =
    ((Some <$> removed l1 l2) ++ replicate (S n) None, (length l1 + length l2)%nat).
Proof.
  unfold remove_at. rewrite fmap_app, fmap_cons, <- app_assoc. cbn [app].
  rewrite (insert_mid (Some <$> l1)) by by rewrite length_fmap.
  rewrite (cons_middle None), (app_assoc (Some <$> l1)), drop_app_ge by (rewrite length_app, length_fmap; simpl; lia).
  rewrite length_app, length_fmap. cbn [length]. replace (S (length l1) - (length l1 + 1))%nat with O by lia.
  rewrite drop_0, visited_app, visited_none, app_nil_r, <- app_assoc. f_equal. cbn [app].
  unfold removed. destruct l2 as [|z l2 _] using rev_ind.
  - rewrite Nat.add_0_r. cbn [fmap list_fmap app last]. rewrite list_lookup_middle by by rewrite length_fmap.
    by rewrite !(insert_mid (Some <$> l1)) by by rewrite length_fmap.
  - rewrite last_snoc, removelast_last, length_app, !fmap_app, fmap_cons, <- !app_assoc. cbn [app length].
    replace (length l1 + (length l2 + 1))%nat with (length ((Some <$> l1) ++ None :: (Some <$> l2)))
      by (rewrite length_app; cbn [length]; rewrite !length_fmap; lia).
    rewrite app_comm_cons, app_assoc, list_lookup_middle by done. cbn [mjoin option_join].
    rewrite <- app_assoc. cbn [app]. rewrite (insert_mid (Some <$> l1)) by by rewrite length_fmap.
    rewrite (app_comm_cons (Some <$> l2)), app_assoc, insert_mid by (rewrite !length_app; reflexivity).
    by rewrite <- app_assoc.
Qed.

(** * The mask of the modem *)

Section registration.
Context (mExcludedMask : Z) (batched gnssConstellationConfig : bool).

#[local] Opaque convertMask session_events QMI_LOC_EVENT_MASK_ENGINE_STATE_V02.
Local Abbreviation E := QMI_LOC_EVENT_MASK_ENGINE_STATE_V02 (only parsing).
Local Abbreviation getEvtMask := (getEvtMask mExcludedMask) (only parsing).
Local Abbreviation registerEventMask := (registerEventMask batched gnssConstellationConfig) (only parsing).
Local Abbreviation proc_msg := (proc_msg mExcludedMask batched gnssConstellationConfig) (only parsing).
Local Abbreviation ev_step := (ev_step mExcludedMask batched gnssConstellationConfig) (only parsing).

(** The modem takes every mask, and the requests that announce a new mask are
    not answered busy. *)
Record env_ok (e : env) : Prop := {
  ok_reg : ∀ m, reg_ok e m = true;
  ok_support : support_ok e = true;
  ok_wifi : busy e NotifyWifiStatus = false;
  ok_constellation : ∀ a b, busy e (SetGnssConstRepConfig a b) = false
}.

(** The mask for the session and the engine as they are. *)
Definition want (s : ev_state) (mask : Z) : Z :=
  adjustMaskIfNoSessionOrEngineOff (mInSession s) (mEngineOn s) (convertMask batched mask).

(** After a stop the mask of the session stays until the engine is off. *)
Definition fits (s : ev_state) (mask q : Z) : Prop :=
  q = want s mask ∨ mInSession s = false ∧ mEngineOn s = true ∧ q = convertMask batched mask.

(** The modem has the recorded mask, perhaps with the engine state added. *)
Definition tracks (q : Z) (m : option Z) : Prop :=
  match m with Some m => m = q ∨ m = Z.lor q E | None => q = 0 end.

Record reg_inv (s : ev_state) : Prop := {
  inv_fits : fits s (mMask s) (mQmiMask s);
  inv_closed : modem s = None -> mMask s = 0;
  inv_tracks : tracks (mQmiMask s) (modem s)
}.

(** What the task's operations leave alone. *)
Definition world (s : ev_state) := (adapters s, mLocAdapters s, msgs s).
Definition session (s : ev_state) := (mInSession s, mEngineOn s).
Definition masks (s : ev_state) := (mMask s, mQmiMask s).

Lemma sync_frame e r s :
  world (locSyncSendReq e r s) = world s ∧ session (locSyncSendReq e r s) = session s
  ∧ masks (locSyncSendReq e r s) = masks s.
Proof.
  unfold locSyncSendReq, locClientRegisterEventMask.
  destruct (modem s); [|done]. destruct (busy e r); [|done].
  destruct (mResenders s); [destruct (_ =? 0); [destruct (reg_ok _ _)|]|]; by destruct (_ || _).
Qed.

Lemma sync_modem e r s :
  modem (locSyncSendReq e r s) = modem s
  ∨ is_Some (modem s) ∧ modem (locSyncSendReq e r s) = Some (Z.lor (mQmiMask s) E).
Proof.
  unfold locSyncSendReq, locClientRegisterEventMask.
  destruct (modem s) eqn:Em; [|by left]. destruct (busy e r); [|by left].
  destruct (mResenders s); [destruct (_ =? 0); [destruct (reg_ok _ _)|]|]; destruct (_ || _); simpl; eauto.
Qed.

Lemma sync_quiet e r s : busy e r = false -> locSyncSendReq e r s = s.
Proof. intros H. unfold locSyncSendReq. rewrite H. by destruct (modem s). Qed.

Lemma reg_inv_sync e r s : reg_inv s -> reg_inv (locSyncSendReq e r s).
Proof.
  intros [Hf Hc Ht]. destruct (sync_frame e r s) as (_ & Hs & Hm).
  injection Hs as H1 H2. injection Hm as H3 H4. split.
  - unfold fits, want in *. by rewrite H1, H2, H3, H4.
  - rewrite H3. destruct (sync_modem e r s) as [->|[_ ->]]; [done|discriminate].
  - rewrite H4. destruct (sync_modem e r s) as [->|[_ ->]]; [done|]. by right.
Qed.

Lemma announce_quiet e q s : env_ok e -> announce_changes gnssConstellationConfig e q s = s.
Proof.
  intros He. unfold announce_changes, setSvMeasurementConstellation.
  rewrite !sync_quiet by apply He. destruct (negb _); by destruct (_ && _).
Qed.

Lemma register_frame e mask s :
  env_ok e -> world (registerEventMask e mask s) = world s
  ∧ session (registerEventMask e mask s) = session s ∧ mMask (registerEventMask e mask s) = mask.
Proof.
  intros He. unfold LocEvents.registerEventMask, locClientRegisterEventMask.
  destruct (negb _); [|done]. destruct (modem s); [|done]. rewrite (ok_reg _ He).
  by rewrite announce_quiet by done.
Qed.

(** A registration while a client is open. *)
Lemma register_spec e mask s :
  env_ok e -> tracks (mQmiMask s) (modem s) -> is_Some (modem s) ->
  let s' := registerEventMask e mask s in
  mQmiMask s' = want s mask ∧ tracks (mQmiMask s') (modem s') ∧ is_Some (modem s').
Proof.
  intros He Ht [m Em]. unfold LocEvents.registerEventMask, locClientRegisterEventMask. fold (want s mask).
  destruct (Z.eqb_spec (want s mask) (mQmiMask s)) as [Heq|Hne]; simpl.
  - rewrite Em in *. by rewrite Heq.
  - rewrite Em, (ok_reg _ He), announce_quiet by done. simpl. eauto.
Qed.

Lemma want_0 s : want s 0 = 0.
Proof. unfold want. rewrite convertMask_0. by destruct (mInSession s), (mEngineOn s). Qed.

(** Without a client nothing is wanted. *)
Lemma register_closed e s :
  mMask s = 0 -> mQmiMask s = 0 -> registerEventMask e (mMask s) s = s.
Proof.
  intros Hm Hq. unfold LocEvents.registerEventMask. fold (want s (mMask s)).
  rewrite Hm, want_0, Hq. simpl. destruct s; simpl in *; by subst.
Qed.

(** After a registration the masks fit, whatever they were before. *)
Lemma reg_inv_register e s :
  env_ok e -> (modem s = None -> mMask s = 0) -> tracks (mQmiMask s) (modem s) ->
  reg_inv (registerEventMask e (mMask s) s).
Proof.
  intros He Hc Ht. destruct (modem s) eqn:Em.
  - destruct (register_frame e (mMask s) s He) as (_ & Hs & Hm).
    destruct (register_spec e (mMask s) s He) as (Hq & Ht' & [m' Em']); [by rewrite Em|by rewrite Em|].
    revert Hs Hm Hq Ht' Em'. generalize (registerEventMask e (mMask s) s) as s'.
    intros s' [= H1 H2] Hm Hq Ht' Em'. split; [|by rewrite Em'|done].
    left. rewrite Hq. unfold want. by rewrite Hm, H1, H2.
  - simpl in Ht. rewrite register_closed by auto. split; [|auto|by rewrite Em].
    left. by rewrite Hc, want_0 by done.
Qed.

(** ** The messages *)

Lemma reg_inv_close s : reg_inv (close s).
Proof. split; [left|..]; [|done..]. simpl. by rewrite want_0. Qed.

Lemma reg_inv_end e s : env_ok e -> reg_inv s -> reg_inv (end_session batched gnssConstellationConfig e s).
Proof.
  intros He [Hf Hc Ht]. unfold end_session. simpl. destruct (mEngineOn s) eqn:Eon; simpl.
  - split; [|exact Hc|exact Ht]. unfold fits. cbn [mInSession mEngineOn mMask mQmiMask set_session].
    destruct Hf as [Hf|(H1 & H2 & H3)]; [|by right].
    unfold want in *. rewrite Eon in Hf. destruct (mInSession s); [right|left]; exact Hf || done.
  - apply (reg_inv_register e (set_session false false s)); done.
Qed.

Lemma reg_inv_resend s : reg_inv s -> reg_inv (resend_all s).
Proof. intros [? ? ?]. by split. Qed.

Lemma open_client_frame e s :
  env_ok e -> reg_inv s -> modem s = None ->
  let s' := open_client e s in
  world s' = world s ∧ session s' = session s ∧ tracks (mQmiMask s') (modem s') ∧ is_Some (modem s').
Proof.
  intros He [_ _ Ht] Em. rewrite Em in Ht. simpl in Ht.
  set (P s' := world s' = world s ∧ session s' = session s ∧ tracks (mQmiMask s') (modem s')
               ∧ is_Some (modem s')).
  assert (∀ r s', P s' -> P (locSyncSendReq e r s')) as Hsync.
  { intros r s' (H1 & H2 & H3 & [m H4]). destruct (sync_frame e r s') as (W & S & M).
    injection M as _ M. unfold P. rewrite W, S, M, H1, H2. split_and!; try done.
    - destruct (sync_modem e r s') as [->|[_ ->]]; [done|by right].
    - destruct (sync_modem e r s') as [->|[_ ->]]; eauto. }
  assert (P (set_modem (Some 0) s)) as H0.
  { unfold P. simpl. split_and!; [done..| |eauto]. left. done. }
  change (P (open_client e s)). unfold open_client, registerMasterClient, setSvMeasurementConstellation.
  do 2 apply Hsync.
  assert (∀ b s', P s' -> P (set_unsupported b s')) as Hu by (intros b s' (?&?&?&?); by unfold P).
  destruct (isMaster _), (batching_supported e), (register_master e); auto.
Qed.

Lemma getEvtMask_excluded s : Z.ldiff (getEvtMask s) mExcludedMask = getEvtMask s.
Proof.
  unfold LocEvents.getEvtMask. apply Z.bits_inj'. intros k Hk. rewrite !Z.ldiff_spec.
  by destruct (Z.testbit (foldr _ _ _) k), (Z.testbit mExcludedMask k).
Qed.

Local Abbreviation open_task e s := (open mExcludedMask batched gnssConstellationConfig e (getEvtMask s) s)
  (only parsing).

Lemma register_fits e mask s :
  env_ok e -> tracks (mQmiMask s) (modem s) -> is_Some (modem s) ->
  let s' := registerEventMask e mask s in
  reg_inv s' ∧ world s' = world s ∧ mMask s' = mask.
Proof.
  intros He Ht Hs. destruct (register_frame e mask s He) as (Hw & Hse & Hm).
  destruct (register_spec e mask s He Ht Hs) as (Hq & Ht' & [m' Em']).
  cbn zeta. revert Hw Hse Hm Hq Ht' Em'. generalize (registerEventMask e mask s) as s'.
  intros s' Hw [= H1 H2] Hm Hq Ht' Em'. split_and!; try done. split; [|by rewrite Em'|done].
  left. rewrite Hq. unfold want. by rewrite Hm, H1, H2.
Qed.

(** Opening makes the mask the union of the adapters' masks. *)
Lemma reg_inv_open e s :
  env_ok e -> reg_inv s ->
  reg_inv (open_task e s) ∧ world (open_task e s) = world s
  ∧ (is_Some (modem (open_task e s)) -> mMask (open_task e s) = getEvtMask s).
Proof.
  intros He HI. unfold open. rewrite getEvtMask_excluded. destruct (modem s) eqn:Em.
  - destruct (register_fits e (getEvtMask s) s He) as (? & ? & ?); [apply HI|by rewrite Em|done].
  - destruct (open_ok e).
    + rewrite (ok_support _ He).
      destruct (open_client_frame e s He HI Em) as (Hw & _ & Ht & Hs).
      destruct (register_fits e (getEvtMask s) _ He Ht Hs) as (? & Hw' & ?).
      by rewrite Hw', Hw.
    + split_and!; [|done|by simpl; rewrite Em; intros [? [=]]].
      split; [left; by rewrite want_0|done|]. destruct HI as [_ _ Ht]. simpl. by rewrite Em.
Qed.

Lemma reg_inv_proc e m s : env_ok e -> reg_inv s -> reg_inv (proc_msg e m s) ∧ world (proc_msg e m s) = world s.
Proof.
  intros He HI. destruct m; simpl.
  - destruct (reg_inv_open e s He HI) as (? & ? & ?). done.
  - split; [apply reg_inv_close|done].
  - destruct (reg_inv_open e (close s) He (reg_inv_close s)) as (? & ? & ?). done.
  - unfold startTracking. set (s1 := set_session true (mEngineOn s) s).
    assert (reg_inv (registerEventMask e (mMask s1) s1)) as H1 by (apply reg_inv_register; [done|apply HI..]).
    split; [by apply reg_inv_sync|]. rewrite (proj1 (sync_frame _ _ _)).
    by rewrite (proj1 (register_frame _ _ _ He)).
  - split; [by apply reg_inv_end|]. unfold stopFix, end_session. simpl.
    destruct (negb _); [by rewrite (proj1 (register_frame _ _ _ He))|done].
  - unfold stopTimeBasedTracking. destruct (stop_ok e); [|done].
    split; [by apply reg_inv_end|]. unfold end_session. simpl.
    destruct (negb _); [by rewrite (proj1 (register_frame _ _ _ He))|done].
  - unfold update_engine_state. set (s1 := set_session (mInSession s) engineOn s).
    assert (reg_inv (registerEventMask e (mMask s1) s1)) as H1 by (apply reg_inv_register; [done|apply HI..]).
    pose proof (proj1 (register_frame e (mMask s1) s1 He)) as Hw.
    destruct engineOn; simpl; [done|]. split; [by apply reg_inv_resend|]. exact Hw.
  - split; [by apply reg_inv_sync|]. apply sync_frame.
Qed.

(** ** All events *)

(** The messages after which the mask is the union of the adapters' masks, or
    no client is open. *)
Definition resets (m : api_msg) : bool :=
  match m with LocOpenMsg | LocCloseMsg | LocSsrMsg => true | _ => false end.

Record ev_inv (s : ev_state) : Prop := {
  inv_reg : reg_inv s;
  inv_array : ∃ l, arr_ok l (mLocAdapters s);
  inv_union : is_Some (modem s) -> mMask s = getEvtMask s ∨ existsb resets (msgs s) = true
}.

Definition ev_ok (s : ev_state) (x : ev_event) : Prop :=
  match x with
  | CreateAdapter a _ _ => a ∉ visited (mLocAdapters s)
  | ApiTask e => env_ok e
  | _ => True
  end.

Lemma getEvtMask_world s s' : world s' = world s -> getEvtMask s' = getEvtMask s.
Proof. intros [= H1 H2 _]. unfold LocEvents.getEvtMask, info. by rewrite H1, H2. Qed.

Lemma register_modem e mask s :
  env_ok e -> is_Some (modem (registerEventMask e mask s)) -> is_Some (modem s).
Proof.
  intros He. unfold LocEvents.registerEventMask, locClientRegisterEventMask.
  destruct (negb _); [|done]. destruct (modem s) eqn:Em; [by eauto|]. simpl. by rewrite Em.
Qed.

Lemma sync_modem_some e r s : is_Some (modem (locSyncSendReq e r s)) -> is_Some (modem s).
Proof. destruct (sync_modem e r s) as [->|[? _]]; done. Qed.

Lemma sync_mask e r s : mMask (locSyncSendReq e r s) = mMask s.
Proof. destruct (sync_frame e r s) as (_ & _ & H). exact (f_equal fst H). Qed.

(** The other messages keep the mask of the adapters. *)
Lemma proc_keeps_mask e m s :
  env_ok e -> resets m = false ->
  mMask (proc_msg e m s) = mMask s ∧ (is_Some (modem (proc_msg e m s)) -> is_Some (modem s)).
Proof.
  intros He Hr.
  assert (∀ s1, mMask (registerEventMask e (mMask s1) s1) = mMask s1
    ∧ (is_Some (modem (registerEventMask e (mMask s1) s1)) -> is_Some (modem s1))) as Hreg.
  { intros s1. split; [by apply register_frame|by apply register_modem]. }
  assert (mMask (end_session batched gnssConstellationConfig e s) = mMask s
    ∧ (is_Some (modem (end_session batched gnssConstellationConfig e s)) -> is_Some (modem s))) as Hend.
  { unfold end_session. cbn [mEngineOn set_session]. destruct (negb _); [|done].
    exact (Hreg (set_session false (mEngineOn s) s)). }
  destruct m; try done; simpl.
  - unfold startTracking. destruct (Hreg (set_session true (mEngineOn s) s)) as [H1 H2].
    rewrite sync_mask. split; [exact H1|]. intros H%sync_modem_some. by apply H2.
  - unfold stopTimeBasedTracking. by destruct (stop_ok e).
  - unfold update_engine_state. destruct (Hreg (set_session (mInSession s) engineOn s)) as [H1 H2].
    by destruct engineOn; simpl.
  - rewrite sync_mask. split; [done|]. apply sync_modem_some.
Qed.

Lemma ev_inv_task e s :
  env_ok e -> ev_inv s -> ev_inv (run_api_msg mExcludedMask batched gnssConstellationConfig e s).
Proof.
  intros He HI. unfold run_api_msg. destruct (msgs s) as [|m l] eqn:El; [done|].
  destruct HI as [Hr Ha Hu]. set (s0 := set_msgs l s).
  assert (reg_inv s0) as Hr0 by (destruct Hr; by split).
  destruct (reg_inv_proc e m s0 He Hr0) as [H1 Hw]. split; [done| |].
  - destruct Ha as [arr Ha]. exists arr. by rewrite (f_equal (snd ∘ fst) Hw : mLocAdapters _ = mLocAdapters s0).
  - rewrite (getEvtMask_world s0 _ Hw). rewrite (f_equal snd Hw : msgs _ = l). intros Hs.
    destruct (resets m) eqn:Em.
    + left. destruct m; try done; simpl in *; [by apply reg_inv_open|by destruct Hs|].
      destruct (reg_inv_open e (close s0) He (reg_inv_close _)) as (_ & _ & Ho). by rewrite Ho.
    + destruct (proc_keeps_mask e m s0 He Em) as [-> Hs0]. apply Hs0 in Hs.
      destruct (Hu Hs) as [Hu'|Hu']; [by left|]. right. rewrite El in Hu'. simpl in Hu'. by rewrite Em in Hu'.
Qed.

Lemma ev_inv_send m s : ev_inv s -> ev_inv (send_msg m s).
Proof.
  intros [Hr Ha Hu]. split; [by destruct Hr|done|]. intros Hs. destruct (Hu Hs) as [H|H]; [by left|right].
  simpl. by rewrite existsb_app, H.
Qed.

(** New adapters, and an open message to come. *)
Lemma ev_inv_adapters ads arr m s :
  ev_inv s -> resets m = true -> (∃ l, arr_ok l arr) -> ev_inv (send_msg m (set_adapters ads arr s)).
Proof.
  intros [Hr _ _] Hm Ha. split; [by destruct Hr|done|]. intros _. right. simpl.
  by rewrite existsb_app, orb_comm; simpl; rewrite Hm.
Qed.

Lemma info_insert a i s b :
  b <> a -> info (set_adapters (<[a := i]> (adapters s)) (mLocAdapters s) s) b = info s b.
Proof. intros Hb. unfold info. simpl. by rewrite lookup_insert_ne. Qed.

Lemma getEvtMask_unlisted a i s :
  a ∉ visited (mLocAdapters s) ->
  getEvtMask (set_adapters (<[a := i]> (adapters s)) (mLocAdapters s) s) = getEvtMask s.
Proof.
  intros Ha. unfold LocEvents.getEvtMask. simpl. f_equal. induction (visited (mLocAdapters s)) as [|b l IH]; [done|].
  simpl. rewrite info_insert, IH by set_solver. done.
Qed.

Lemma ev_inv_create a mask master s :
  ev_inv s -> a ∉ visited (mLocAdapters s) ->
  ev_inv (addAdapter a (set_adapters (<[a := AdapterInfo mask master]> (adapters s)) (mLocAdapters s) s)).
Proof.
  intros HI Ha. unfold addAdapter. simpl. destruct (inv_array _ HI) as [l Hl].
  destruct (add_in_ok a l _ Hl) as [[-> _]|(arr' & -> & Harr)].
  - destruct HI as [Hr Harr Hu]. split; [by destruct Hr|done|]. by rewrite getEvtMask_unlisted.
  - apply (ev_inv_adapters _ arr' LocOpenMsg (set_adapters _ _ s)); [|done|eauto].
    destruct HI as [Hr Hx Hu]. split; [by destruct Hr|done|]. by rewrite getEvtMask_unlisted.
Qed.

Lemma arr_ok_remove l1 a l2 arr :
  arr_ok (l1 ++ a :: l2) arr ->
  remove_at (length l1) arr = (arr_of (removed l1 l2), (length l1 + length l2)%nat)
  ∧ arr_ok (removed l1 l2) (arr_of (removed l1 l2)).
Proof.
  intros [-> Hnd Hmax]. pose proof (removed_perm l1 l2) as Hp. pose proof (Permutation_length Hp) as Hlen.
  rewrite length_app in Hmax, Hlen. simpl in Hmax. split.
  - unfold arr_of. rewrite remove_at_spec, length_app. cbn [length].
    by replace (MAX_ADAPTERS - length (removed l1 l2))%nat with (S (MAX_ADAPTERS - (length l1 + S (length l2))))
      by lia.
  - split; [done| |lia]. rewrite Hp. rewrite <- Permutation_middle in Hnd. by apply NoDup_cons in Hnd as [_ ?].
Qed.

Lemma ev_inv_remove a s : ev_inv s -> ev_inv (removeAdapter a s).
Proof.
  intros HI. unfold removeAdapter. destruct (inv_array _ HI) as [l Hl]. pose proof Hl as [Harr Hnd _].
  destruct (index_of_spec a l (MAX_ADAPTERS - length l) Hnd) as [[Hi _]|(l1 & l2 & -> & Hi)];
    fold (arr_of l) in Hi || fold (arr_of (l1 ++ a :: l2)) in Hi; rewrite <- Harr in Hi; rewrite Hi; [done|].
  destruct (arr_ok_remove l1 a l2 _ Hl) as [Hr Hok]. rewrite Hr. apply ev_inv_adapters; eauto. by destruct (_ =? 0)%nat.
Qed.

Lemma ev_inv_step s x s' : ev_inv s -> ev_ok s x -> ev_step s x = Some s' -> ev_inv s'.
Proof.
  intros HI Hx [= <-]. destruct x; simpl in *.
  - by apply ev_inv_create.
  - by apply ev_inv_remove.
  - apply ev_inv_adapters; [done..|apply HI].
  - by apply ev_inv_send.
  - unfold reportEngineState. destruct (modem s); [|done]. destruct (_ =? 0); [done|by apply ev_inv_send].
  - by apply ev_inv_send.
  - by apply ev_inv_task.
Qed.

Lemma ev_inv_init : ev_inv ev_init.
Proof.
  split.
  - split; [left; by rewrite want_0|done..].
  - exists []. split; [done|apply NoDup_nil_2|simpl; lia].
  - intros [? [=]].
Qed.

(** ** Requests kept while the engine is busy *)

Definition cached (l : list event_output) : list sync_req :=
  omap (λ o, match o with OutCached r => Some r | OutResent _ => None end) l.
Definition resent (l : list event_output) : list sync_req :=
  omap (λ o, match o with OutResent r => Some r | OutCached _ => None end) l.

Lemma cached_app l l' : cached (l ++ l') = cached l ++ cached l'.
Proof. apply omap_app. Qed.
Lemma resent_app l l' : resent (l ++ l') = resent l ++ resent l'.
Proof. apply omap_app. Qed.
Lemma cached_resend l : cached (OutResent <$> l) = [].
Proof. by induction l. Qed.
Lemma resent_resend l : resent (OutResent <$> l) = l.
Proof. induction l as [|r l IH]; [done|]. unfold resent in *. csimpl. by rewrite IH. Qed.

Definition fifo (s : ev_state) : Prop := cached (log s) = resent (log s) ++ mResenders s.

Lemma fifo_sync e r s : fifo s -> fifo (locSyncSendReq e r s).
Proof.
  assert (∀ s1, fifo s1 -> fifo (set_resenders (mResenders s1 ++ [r]) [OutCached r] s1)) as Hpush.
  { unfold fifo. intros s1 H. simpl. rewrite cached_app, resent_app, H. simpl. by rewrite app_nil_r, app_assoc. }
  intros H. unfold locSyncSendReq, locClientRegisterEventMask.
  destruct (modem s); [|done]. destruct (busy e r); [|done]. set (s1 := match mResenders s with [] => _ | _ => _ end).
  assert (fifo s1) as H1.
  { unfold s1. destruct (mResenders s) eqn:Er; [|done]. destruct (_ =? 0); [|done]. by destruct (reg_ok _ _). }
  destruct (_ || _); [by apply Hpush|done].
Qed.

Lemma fifo_register e mask s : fifo s -> fifo (registerEventMask e mask s).
Proof.
  intros H. unfold LocEvents.registerEventMask, locClientRegisterEventMask, announce_changes,
    setSvMeasurementConstellation.
  destruct (negb _); [|done]. destruct (modem s); [|done]. destruct (reg_ok _ _); [|done].
  set (s1 := set_modem _ s). assert (fifo s1) as H1 by done. clearbody s1.
  set (s2 := if negb _ then locSyncSendReq e NotifyWifiStatus s1 else s1).
  assert (fifo s2) as H2 by (unfold s2; destruct (negb _); [by apply fifo_sync|done]). clearbody s2.
  destruct (_ && _); [|done]. exact (fifo_sync e _ s2 H2).
Qed.

Lemma fifo_open e mask s : fifo s -> fifo (open mExcludedMask batched gnssConstellationConfig e mask s).
Proof.
  intros H. unfold open. destruct (modem s); [by apply fifo_register|]. destruct (open_ok e); [|done].
  assert (fifo (open_client e s)) as H1.
  { unfold open_client, registerMasterClient, setSvMeasurementConstellation. do 2 apply fifo_sync.
    assert (fifo (set_modem (Some 0) s)) as H0 by done. revert H0. generalize (set_modem (Some 0) s).
    intros s1 H0. destruct (isMaster s1), (batching_supported e), (register_master e);
      repeat (apply fifo_sync || exact H0 || (unfold fifo; simpl; fold (fifo s1); apply (fifo_sync e RegisterMasterClient s1))). }
  destruct (support_ok e); [by apply fifo_register|done].
Qed.

Lemma fifo_end e s : fifo s -> fifo (end_session batched gnssConstellationConfig e s).
Proof. intros H. unfold end_session. destruct (negb _); [by apply fifo_register|done]. Qed.

Lemma fifo_resend s : fifo s -> fifo (resend_all s).
Proof.
  unfold fifo, resend_all. simpl. intros H. rewrite cached_app, resent_app, H, app_nil_r.
  rewrite cached_resend, resent_resend. apply app_nil_r.
Qed.

Lemma fifo_step s x s' : fifo s -> ev_step s x = Some s' -> fifo s'.
Proof.
  intros H [= <-]. destruct x; simpl; try done.
  - unfold addAdapter. by destruct (add_in _ _).
  - unfold removeAdapter. destruct (index_of _ _); [|done]. by destruct (remove_at _ _).
  - unfold reportEngineState. destruct (modem s); [|done]. by destruct (_ =? 0).
  - unfold run_api_msg. destruct (msgs s) as [|m l]; [done|].
    assert (fifo (set_msgs l s)) as H0 by done. revert H0. generalize (set_msgs l s). clear. intros s H.
    destruct m; simpl; [by apply fifo_open|done|by apply fifo_open| | | | |by apply fifo_sync].
    + by apply fifo_sync, fifo_register.
    + by apply fifo_end.
    + unfold stopTimeBasedTracking. destruct (stop_ok e); [by apply fifo_end|done].
    + unfold update_engine_state. destruct engineOn; simpl; [|apply fifo_resend]; by apply fifo_register.
Qed.

(** * Theorems *)

(** C20: When LocApi has processed its messages and a client is open, the modem
    reports the events that the masks of the adapters in the array ask for, less the
    excluded ones, up to the engine state, which may be added: those that the session
    and the engine state allow, or, after a session has ended and as long as the
    engine is on, all of them.  Supposed ([ev_ok]): the modem accepts every mask and
    the check of the supported messages, and is not too busy for the two requests that
    announce a new mask; an adapter that is created is not in the array.  Otherwise the
    mask may be an old one or none (busy_announcement_restores_old_mask,
    failed_check_registers_nothing). *)
Theorem modem_reports_what_adapters_ask es s m :
  run_ok ev_step ev_ok ev_init es -> run ev_step ev_init es = Some s ->
  msgs s = [] -> modem s = Some m ->
  ∃ q, (m = q ∨ m = Z.lor q E) ∧
       (q = adjustMaskIfNoSessionOrEngineOff (mInSession s) (mEngineOn s) (convertMask batched (getEvtMask s))
        ∨ mInSession s = false ∧ mEngineOn s = true ∧ q = convertMask batched (getEvtMask s)).
Proof.
  intros Hok Hrun Hm Em.
  assert (ev_inv s) as [[Hf _ Ht] _ Hu] by (eapply run_invariant; [apply ev_inv_step|apply ev_inv_init|done..]).
  rewrite Em in *. exists (mQmiMask s). split; [exact Ht|].
  destruct Hu as [<-|Hu]; [eauto|exact Hf|]. by rewrite Hm in Hu.
Qed.

(** The adapters alive after the events, of which the array takes ten. *)
Definition alive (l : list Z) (x : ev_event) : list Z :=
  match x with
  | CreateAdapter a _ _ => if (length l <? MAX_ADAPTERS)%nat then l ++ [a] else l
  | RemoveAdapter a => filter (λ b, b <> a) l
  | _ => l
  end.

Lemma filter_absent (a : Z) (l : list Z) : a ∉ l -> filter (λ b, b <> a) l = l.
Proof.
  induction l as [|b l IH]; intros Ha; [done|].
  rewrite filter_cons_True by set_solver. rewrite IH by set_solver. done.
Qed.

Lemma filter_one (a : Z) (l1 l2 : list Z) : NoDup (l1 ++ a :: l2) -> filter (λ b, b <> a) (l1 ++ a :: l2) = l1 ++ l2.
Proof.
  intros Hnd. apply NoDup_app in Hnd as (_ & Hd & Hnd). apply NoDup_cons in Hnd as [Ha _].
  rewrite filter_app, filter_cons_False by (intros Hn; by apply Hn).
  rewrite !filter_absent; [done|done|intros Hin; by apply (Hd a); [|left]].
Qed.

Definition array_inv (l : list Z) (s : ev_state) : Prop :=
  ∃ l', arr_ok l' (mLocAdapters s) ∧ l' ≡ₚ l.

Lemma array_inv_task e s l :
  env_ok e -> reg_inv s -> array_inv l s ->
  array_inv l (run_api_msg mExcludedMask batched gnssConstellationConfig e s).
Proof.
  intros He Hr [l' H]. unfold run_api_msg. destruct (msgs s) as [|m q]; [by exists l'|].
  assert (reg_inv (set_msgs q s)) as Hr' by (destruct Hr; by split).
  destruct (reg_inv_proc e m _ He Hr') as [_ Hw]. exists l'.
  by rewrite (f_equal (snd ∘ fst) Hw : mLocAdapters _ = mLocAdapters s).
Qed.

Lemma array_inv_create a ads s l :
  a ∉ visited (mLocAdapters s) -> array_inv l s ->
  array_inv (if (length l <? MAX_ADAPTERS)%nat then l ++ [a] else l) (addAdapter a (set_adapters ads (mLocAdapters s) s)).
Proof.
  intros Ha (l' & Hl & Hp). unfold addAdapter. simpl. pose proof Hl as [Harr _ Hmax].
  rewrite Harr, visited_arr_of in Ha. rewrite <- (Permutation_length Hp).
  destruct (add_in_ok a l' _ Hl) as [[-> [?|Hfull]]|(arr' & -> & Harr')]; [done| |].
  - rewrite (proj2 (Nat.ltb_ge _ _)) by lia. by exists l'.
  - destruct Harr' as [H1 H2 H3]. rewrite length_app in H3. simpl in H3.
    rewrite (proj2 (Nat.ltb_lt _ _)) by lia. exists (l' ++ [a]). split; [|by rewrite Hp].
    split; [done..|]. rewrite length_app. simpl. lia.
Qed.

Lemma array_inv_remove a s l :
  array_inv l s -> array_inv (filter (λ b, b <> a) l) (removeAdapter a s).
Proof.
  intros (l' & Hl & Hp). unfold removeAdapter. pose proof Hl as [Harr Hnd _].
  assert (filter (λ b, b <> a) l' ≡ₚ filter (λ b, b <> a) l) as Hf by by rewrite Hp.
  destruct (index_of_spec a l' (MAX_ADAPTERS - length l') Hnd) as [[Hi Hn]|(l1 & l2 & -> & Hi)];
    fold (arr_of l') in Hi || fold (arr_of (l1 ++ a :: l2)) in Hi; rewrite <- Harr in Hi; rewrite Hi.
  - exists l'. split; [done|]. rewrite <- Hf. by rewrite filter_absent.
  - destruct (arr_ok_remove l1 a l2 _ Hl) as [-> Hok]. exists (removed l1 l2). split; [done|].
    by rewrite removed_perm, <- Hf, filter_one.
Qed.

(** The array of adapters is a set of at most ten: it has no holes and no
    adapter twice, and it holds the adapters that were created while there was
    room, less those that were removed, although a removal moves the last
    adapter to the free place. *)
Theorem adapters_array_is_set es s :
  run_ok ev_step ev_ok ev_init es -> run ev_step ev_init es = Some s ->
  ∃ l, mLocAdapters s = (Some <$> l) ++ replicate (MAX_ADAPTERS - length l) None
       ∧ NoDup l ∧ (length l <= MAX_ADAPTERS)%nat ∧ l ≡ₚ foldl alive [] es.
Proof.
  assert (ev_inv ev_init) as HI by apply ev_inv_init.
  assert (array_inv [] ev_init) as Ha by (exists []; split; [split; [done|apply NoDup_nil_2|simpl; lia]|done]).
  revert HI Ha. generalize (@nil Z) as l0. generalize ev_init as s0.
  induction es as [|x es IH]; intros s0 l0 HI Ha; simpl.
  - intros _ [= <-]. destruct Ha as (l & [H1 H2 H3] & Hp). by exists l.
  - intros [Hx Hok]. apply IH; [by eapply ev_inv_step| |exact Hok]. clear IH Hok.
    destruct x; simpl in *; try done.
    + by apply array_inv_create.
    + by apply array_inv_remove.
    + unfold reportEngineState. destruct (modem s0); [|done]. by destruct (_ =? 0).
    + apply array_inv_task; [done|apply HI|done].
Qed.

(** Each request that the engine was too busy for is kept, and sent again at
    most once and in order; the report that the engine is off leaves none. *)
Theorem busy_requests_resent_once es s :
  run ev_step ev_init es = Some s ->
  cached (log s) = resent (log s) ++ mResenders s
  ∧ (∀ e l, msgs s = MsgUpdateEngineState false :: l ->
       mResenders (run_api_msg mExcludedMask batched gnssConstellationConfig e s) = []).
Proof.
  intros Hrun. split; [|intros e l Hl; unfold run_api_msg; by rewrite Hl].
  refine (run_invariant_always _ fifo _ _ _ _ _ Hrun); [apply fifo_step|done].
Qed.

Lemma getEvtMask_includes a s b :
  a ∈ visited (mLocAdapters s) -> includes (mEvtMask (info s a)) b -> Z.land b mExcludedMask = 0 ->
  includes (getEvtMask s) b.
Proof.
  intros Ha Hb Hx. apply includes_testbit. intros k Hk Ht. unfold LocEvents.getEvtMask. rewrite Z.ldiff_spec.
  assert (Z.testbit mExcludedMask k = false) as ->.
  { apply (f_equal (λ z, Z.testbit z k)) in Hx. rewrite Z.land_spec, Ht, Z.bits_0 in Hx. done. }
  rewrite andb_true_r. revert Hk Ht. clear Hx. induction Ha as [l|c l ? Ha IH]; intros Hk Ht; simpl; rewrite Z.lor_spec.
  - rewrite includes_testbit in Hb. by rewrite Hb.
  - rewrite IH by done. apply orb_true_r.
Qed.

(** C21: The callbacks of a client reach the modem.  If the mask of an adapter in the
    array is the one updateClientsEventMask makes of its clients, LocApi has processed
    its messages, a client of the modem is open, and a session runs with the engine
    on, then the modem reports the positions, satellites, NMEA sentences and
    measurements that the callbacks of each of the clients are made from, provided
    that none of their bits is in the excluded mask.  Supposed as for the mask of all
    adapters ([ev_ok]): the modem accepts every mask and the check of the supported
    messages, and is not too busy for the two requests that announce a new mask; an
    adapter that is created is not in the array. *)
Theorem client_callbacks_reach_modem es s m a cf old clients it :
  run_ok ev_step ev_ok ev_init es -> run ev_step ev_init es = Some s ->
  msgs s = [] -> modem s = Some m -> mInSession s = true -> mEngineOn s = true ->
  a ∈ visited (mLocAdapters s) -> mEvtMask (info s a) = updateClientsEventMask cf old clients ->
  it ∈ clients -> Z.land (callback_bits (mc_mNmeaMask cf) it) mExcludedMask = 0 ->
  includes m (callback_events (mc_mNmeaMask cf) it).
Proof.
  intros Hok Hrun Hm Em Hs He Ha Hmask Hit Hx.
  assert (ev_inv s) as [[Hf _ Ht] _ Hu] by (eapply run_invariant; [apply ev_inv_step|apply ev_inv_init|done..]).
  rewrite Em, Hm in *. destruct Hu as [Hu|]; [eauto| |done].
  assert (mQmiMask s = convertMask batched (mMask s)) as Hq.
  { destruct Hf as [Hf|(? & _)]; [|congruence]. unfold want in Hf. by rewrite Hs, He in Hf. }
  assert (includes (mQmiMask s) (callback_events (mc_mNmeaMask cf) it)) as Hc.
  { rewrite Hq, Hu. eapply includes_trans; [|apply convertMask_callbacks]. apply convertMask_mono.
    apply (getEvtMask_includes a); [done| |done]. rewrite Hmask. by apply updateClientsEventMask_callbacks. }
  destruct Ht as [->| ->]; [done|by apply includes_lor_l].
Qed.
End registration.

(** * Examples *)

(** The modem and the allocator grant everything and are never busy, but for
    the requests in [l]. *)
Definition ok_env (l : list sync_req) : env :=
  Env true None true true (λ _, true) (λ r, bool_decide (r ∈ l)) true true.

Lemma ok_env_ok l : NotifyWifiStatus ∉ l -> (∀ a b, SetGnssConstRepConfig a b ∉ l) -> env_ok (ok_env l).
Proof. intros H1 H2. split; [done|done|by apply bool_decide_eq_false_2|]. intros a b. by apply bool_decide_eq_false_2. Qed.

Definition ex_clients : list LocationCallbacks :=
  [ Callbacks true true true false false false false true false;
    Callbacks true true false false false false false false true ].
Definition ex_config : mask_config := MaskConfig 1 false true false false.

(** Two adapters, a session, the engine goes on. *)
Definition ex_session : list ev_event :=
  [ CreateAdapter 1 0 true; CreateAdapter 2 LOC_API_ADAPTER_BIT_GEOFENCE_GEN_ALERT false;
    ApiTask (ok_env [GetEngineLock]); ApiTask (ok_env []);
    UpdateEvtMask 1 (updateClientsEventMask ex_config 0 ex_clients) LOC_REGISTRATION_MASK_SET;
    ApiTask (ok_env []); ApiCall StartFixMsg; ApiTask (ok_env [SetOperationMode]);
    EngineStateInd true; ApiTask (ok_env []) ].

Lemma ex_session_ok : run_ok (ev_step 0 true true) ev_ok ev_init ex_session.
Proof.
  repeat split; try (by intros H; vm_compute in H; inversion H);
    try (intros; apply bool_decide_eq_false_2); set_solver.
Qed.

Definition ex_run (es : list ev_event) : ev_state := default ev_init (run (ev_step 0 true true) ev_init es).

Lemma modem_reports_what_adapters_ask_witness :
  ∃ q, (modem (ex_run ex_session) = Some q ∨ modem (ex_run ex_session) = Some (Z.lor q QMI_LOC_EVENT_MASK_ENGINE_STATE_V02))
       ∧ q = convertMask true (getEvtMask 0 (ex_run ex_session)).
Proof.
  destruct (modem (ex_run ex_session)) as [m|] eqn:Em; [|vm_compute in Em; discriminate Em].
  destruct (modem_reports_what_adapters_ask 0 true true ex_session (ex_run ex_session) m ex_session_ok eq_refl eq_refl Em)
    as (q & Hm & [Hq|(Hs & _)]); [|vm_compute in Hs; discriminate Hs].
  exists q. split; [destruct Hm as [->| ->]; [left|right]; reflexivity|exact Hq].
Defined.

Lemma client_callbacks_reach_modem_witness :
  match modem (ex_run ex_session) with
  | Some m => ∀ it, it ∈ ex_clients -> includes m (callback_events 1 it)
  | None => False
  end.
Proof.
  destruct (modem (ex_run ex_session)) as [m|] eqn:Em; [|vm_compute in Em; discriminate Em].
  intros it Hit.
  refine (client_callbacks_reach_modem 0 true true ex_session (ex_run ex_session) m 1 ex_config 0 ex_clients it
    ex_session_ok eq_refl eq_refl Em eq_refl eq_refl _ eq_refl Hit (Z.land_0_r _)).
  vm_compute. left.
Defined.

Lemma adapters_array_is_set_witness :
  ∃ l, mLocAdapters (ex_run ex_session) = (Some <$> l) ++ replicate (MAX_ADAPTERS - length l) None ∧ l ≡ₚ [1; 2].
Proof.
  destruct (adapters_array_is_set 0 true true ex_session (ex_run ex_session) ex_session_ok eq_refl)
    as (l & H1 & _ & _ & H2).
  exists l. split; [exact H1|exact H2].
Defined.

Definition ex_engine_off : list ev_event := ex_session ++ [EngineStateInd false; ApiTask (ok_env [])].
Lemma busy_requests_resent_once_witness :
  resent (log (ex_run ex_engine_off)) = [GetEngineLock; SetOperationMode]
  ∧ cached (log (ex_run ex_engine_off)) = resent (log (ex_run ex_engine_off)) ++ mResenders (ex_run ex_engine_off).
Proof.
  split; [vm_compute; reflexivity|].
  exact (proj1 (busy_requests_resent_once 0 true true ex_engine_off (ex_run ex_engine_off) eq_refl)).
Defined.

(** ** What the code does not mean to do *)

Definition ev_has (b : Z) (s : ev_state) : bool :=
  match modem s with Some m => negb (Z.land m b =? 0) | None => false end.

(** The request that announces a new event is busy: LocApiV02 registers the old
    mask again, with the engine state, and records the new one.  The modem does
    not report the event. *)
Definition ex_busy_announcement : list ev_event :=
  [ CreateAdapter 1 LOC_API_ADAPTER_BIT_GEOFENCE_GEN_ALERT true; ApiTask (ok_env []);
    UpdateEvtMask 1 LOC_API_ADAPTER_BIT_REQUEST_WIFI LOC_REGISTRATION_MASK_ENABLED;
    ApiTask (ok_env [NotifyWifiStatus]) ].
Lemma busy_announcement_restores_old_mask :
  let s := ex_run ex_busy_announcement in
  msgs s = [] ∧ negb (Z.land (mQmiMask s) QMI_LOC_EVENT_MASK_WIFI_REQ_V02 =? 0) = true
  ∧ ev_has QMI_LOC_EVENT_MASK_WIFI_REQ_V02 s = false.
Proof. vm_compute. repeat split. Qed.

(** A restart of the modem does not reset mEngineOn: the stop of a session that
    never reached the new engine leaves the reports of the session registered. *)
Definition ex_restart_engine_on : list ev_event :=
  ex_session ++
  [ ServiceDown; ApiTask (ok_env []); ApiCall StartFixMsg; ApiTask (ok_env []);
    ApiCall StopFixMsg; ApiTask (ok_env []) ].
Lemma restart_keeps_engine_on :
  let s := ex_run ex_restart_engine_on in
  msgs s = [] ∧ mInSession s = false ∧ mEngineOn s = true
  ∧ ev_has QMI_LOC_EVENT_MASK_POSITION_REPORT_V02 s = true.
Proof. vm_compute. repeat split. Qed.

(** A request is kept while no session runs; a change of the mask takes the
    engine state away from the modem, the report that the engine is off does not
    come, and the request is not sent. *)
Definition ex_forgotten_request : list ev_event :=
  [ CreateAdapter 1 0 true; ApiTask (ok_env []);
    ApiCall (RequestMsg (OtherReq 7 true)); ApiTask (ok_env [OtherReq 7 true]);
    UpdateEvtMask 1 LOC_API_ADAPTER_BIT_BATCH_FULL LOC_REGISTRATION_MASK_ENABLED; ApiTask (ok_env []);
    EngineStateInd false; ApiTask (ok_env []) ].
Lemma mask_change_forgets_requests :
  let s := ex_run ex_forgotten_request in
  msgs s = [] ∧ mResenders s = [OtherReq 7 true]
  ∧ ev_has QMI_LOC_EVENT_MASK_ENGINE_STATE_V02 s = false.
Proof. vm_compute. repeat split. Qed.

(** open() succeeds, but registers nothing when the check of the supported
    messages failed. *)
Definition ex_failed_check : list ev_event :=
  [ CreateAdapter 1 LOC_API_ADAPTER_BIT_GEOFENCE_GEN_ALERT true;
    ApiTask (Env true None false true (λ _, true) (λ _, false) true true) ].
Lemma failed_check_registers_nothing :
  let s := ex_run ex_failed_check in msgs s = [] ∧ modem s = Some 0 ∧ getEvtMask 0 s <> 0.
Proof. vm_compute. repeat split. discriminate. Qed.
