(* ===== verification/LocUnorderedSetMap.v ===== *)
(** gps/utils/LocUnorderedSetMap.h: maps from keys to sets that are never empty, as
    loops over std::unordered_set and std::unordered_map, and what they compute.

    The order in which a set is traversed is a class.  What is read through an iterator
    to an erased node is a parameter: [None] where that is undefined. *)

From stdpp Require Import list gmap.
From S2P Require Import Prelude.

(** * Parameters *)

Class Unordered := {
  in_order : ∀ {A} `{Countable A}, gset A -> list A;
  in_order_perm : ∀ {A} `{Countable A} (s : gset A), in_order s ≡ₚ elements s
}.

(** Whether the key of an erased node can be read; where an iterator to an erased node
    of a set leads: to the node that followed ([Some true]), to the end ([Some false]),
    or nowhere ([None]).  By their documentation neither may be used: [MkErased false
    None]; what is proved holds for every implementation. *)
Record Erased := MkErased { key_readable : bool; next_of_erased : option bool }.

(** * Operations *)

Section set_map.
Context `{Unordered} (E : Erased).
Context {K : Type} `{Countable K} {V : Type} `{Countable V}.
Abbreviation set_map := (gmap K (gset V)) (only parsing).

Definition trimSet (fromSet rVals goneVals : gset V) : gset V * gset V :=
  foldl (λ '(f, g) v, if decide (v ∈ f) then (f ∖ {[v]}, {[v]} ∪ g) else (f, g)) (fromSet, goneVals) (in_order rVals).

Fixpoint interset_loop (todo : list V) (common s1 s2 : gset V) : option (gset V * gset V * gset V) :=
  match todo with
  | [] => Some (common, s1, s2)
  | b :: todo =>
      if decide (b ∈ s1) then
        let common := {[b]} ∪ common in let s1 := s1 ∖ {[b]} in let s2 := s2 ∖ {[b]} in
        match next_of_erased E with
        | Some true => interset_loop todo common s1 s2
        | Some false => Some (common, s1, s2)
        | None => None
        end
      else interset_loop todo common s1 s2
  end.
(** The common elements, and what is left of both sets. *)
Definition removeAndReturnInterset (s1 s2 : gset V) : option (gset V * gset V * gset V) :=
  interset_loop (in_order s2) ∅ s1 s2.

Definition getValSet (k : K) (m : set_map) : gset V := default ∅ (m !! k).

(** One entry [s] of the map, at [k]: whether it was removed. *)
Definition trim_entry (k : K) (s rVals goneVals : gset V) (m : set_map) : bool * gset V * set_map :=
  let '(s, goneVals) := trimSet s rVals goneVals in
  if decide (s = ∅) then (true, goneVals, delete k m) else (false, goneVals, <[k := s]> m).
(** The keys that are gone are always asked for. *)
Definition trim_key (rVals : gset V) (r : option (gset K * gset V * set_map)) (k : K) : option (gset K * gset V * set_map) :=
  '(goneKeys, goneVals, m) ← r;
  match m !! k with
  | None => Some (goneKeys, goneVals, m)
  | Some s =>
      let '(gone, goneVals, m) := trim_entry k s rVals goneVals m in
      if gone then if key_readable E then Some ({[k]} ∪ goneKeys, goneVals, m) else None
      else Some (goneKeys, goneVals, m)
  end.
Definition trimOrRemove (keys : gset K) (rVals : gset V) (m : set_map) : option (gset K * gset V * set_map) :=
  foldl (trim_key rVals) (Some (∅, ∅, m)) (in_order keys).

Definition add (key : K) (newVals : gset V) (m : set_map) : bool * set_map :=
  if decide (newVals = ∅) then (false, m)
  else match m !! key with
       | Some s => (false, <[key := s ∪ newVals]> m)
       | None => (true, <[key := newVals]> m)
       end.
Definition add_all (keys : gset K) (newVals : gset V) (m : set_map) : gset K * set_map :=
  foldl (λ '(newKeys, m) k, let '(new, m) := add k newVals m in (if new then {[k]} ∪ newKeys else newKeys, m))
    (∅, m) (in_order keys).

(** What the client no longer has according to the comment, what is new, the map. *)
Definition update (key : K) (newVals : gset V) (m : set_map) : option (gset V * gset V * set_map) :=
  if decide (newVals = ∅) then Some (∅, newVals, delete key m)
  else
    '(gone, _, newVals') ← removeAndReturnInterset (getValSet key m) newVals;
    Some (gone, newVals', <[key := newVals]> m).

(** * What the loops compute *)

Definition no_empty (m : set_map) : Prop := ∀ k, m !! k ≠ Some ∅.

Lemma elem_of_in_order {A} `{Countable A} (s : gset A) x : x ∈ in_order s ↔ x ∈ s.
Proof. rewrite in_order_perm. apply elem_of_elements. Qed.
Lemma NoDup_in_order {A} `{Countable A} (s : gset A) : NoDup (in_order s).
Proof. rewrite in_order_perm. apply NoDup_elements. Qed.

Lemma trimSet_spec f r g : trimSet f r g = (f ∖ r, (f ∩ r) ∪ g).
Proof.
  unfold trimSet. enough (∀ l f g, foldl (λ '(f, g) v, if decide (v ∈ f) then (f ∖ {[v]}, {[v]} ∪ g) else (f, g)) (f, g) l
    = (f ∖ list_to_set l, (f ∩ list_to_set l) ∪ g : gset V)) as ->.
  { assert (list_to_set (in_order r) =@{gset V} r) as ->; [|done].
    apply set_eq. intros x. by rewrite elem_of_list_to_set, elem_of_in_order. }
  clear. induction l as [|v l IH]; intros f g; cbn; [f_equal; set_solver|].
  case_decide; rewrite IH; f_equal; apply set_eq; intros x; destruct (decide (x = v)); set_solver.
Qed.

Lemma getValSet_insert k k' s m : getValSet k (<[k' := s]> m) = if decide (k = k') then s else getValSet k m.
Proof. unfold getValSet. case_decide; subst; by simplify_map_eq. Qed.
Lemma getValSet_delete k k' m : getValSet k (delete k' m) = if decide (k = k') then ∅ else getValSet k m.
Proof. unfold getValSet. case_decide; subst; by simplify_map_eq. Qed.
Lemma no_empty_insert k s m : s ≠ ∅ -> no_empty m -> no_empty (<[k := s]> m).
Proof. intros Hs Hm k'. destruct (decide (k = k')) as [->|]; simplify_map_eq; [congruence|apply Hm]. Qed.
Lemma no_empty_delete k m : no_empty m -> no_empty (delete k m).
Proof. intros Hm k'. destruct (decide (k = k')) as [->|]; simplify_map_eq; [done|apply Hm]. Qed.
(** A key is in the map as long as it has values. *)
Lemma no_empty_lookup m k : no_empty m -> m !! k = None ↔ getValSet k m = ∅.
Proof. intros Hm. specialize (Hm k). unfold getValSet. destruct (m !! k); cbn; naive_solver. Qed.
Lemma elem_of_dom_vals m k : no_empty m -> k ∈ dom m ↔ getValSet k m ≠ ∅.
Proof. intros Hm. rewrite elem_of_dom, <- not_eq_None_Some. by rewrite (no_empty_lookup _ _ Hm). Qed.

(** What is left when the values [rVals] are removed from the keys [done]. *)
Definition trimmed (done : gset K) (rVals : gset V) (m : set_map) (r : gset K * gset V * set_map) : Prop :=
  let '(goneKeys, goneVals, m') := r in
  no_empty m' ∧ (∀ k, getValSet k m' = if decide (k ∈ done) then getValSet k m ∖ rVals else getValSet k m) ∧
  (∀ k, k ∈ goneKeys ↔ k ∈ done ∧ getValSet k m ≠ ∅ ∧ getValSet k m ⊆ rVals) ∧
  (∀ v, v ∈ goneVals ↔ v ∈ rVals ∧ ∃ k, k ∈ done ∧ v ∈ getValSet k m).

(** The entry of [k] loses its last value. *)
Definition lost (rVals : gset V) (m : set_map) (k : K) : Prop := getValSet k m ≠ ∅ ∧ getValSet k m ⊆ rVals.
#[export] Instance lost_dec rVals m k : Decision (lost rVals m k) := and_dec _ _.

(** One key: its entry is trimmed, and if it is lost the key is read afterwards. *)
Lemma trim_key_spec done rVals m r k :
  k ∉ done -> trimmed done rVals m r ->
  ∃ r', trimmed ({[k]} ∪ done) rVals m r' ∧
    trim_key rVals (Some r) k = if decide (lost rVals m k) then if key_readable E then Some r' else None else Some r'.
Proof.
  intros Hk. destruct r as [[gk gv] m']. intros (Hn & Hv & Hgk & Hgv). unfold trim_key. cbn [mbind option_bind].
  assert (getValSet k m' = getValSet k m) as Hkm by (by rewrite Hv, decide_False).
  assert (∀ v, v ∈ (getValSet k m ∩ rVals) ∪ gv ↔ v ∈ rVals ∧ ∃ k', k' ∈ {[k]} ∪ done ∧ v ∈ getValSet k' m) as Hgv'.
  { intros v. specialize (Hgv v). set_solver. }
  destruct (m' !! k) as [s|] eqn:Es.
  - assert (s ≠ ∅) as Hs by (intros ->; by apply (Hn k)).
    assert (getValSet k m = s) as E1 by (rewrite <- Hkm; unfold getValSet; by rewrite Es).
    unfold trim_entry. rewrite trimSet_spec, E1 in *. destruct (decide (s ∖ rVals = ∅)) as [Ed|Ed]; cbv beta iota.
    + assert (s ⊆ rVals) as Hsub by (clear -Ed; set_solver). eexists.
      rewrite (decide_True (P := lost rVals m k)) by (unfold lost; by rewrite E1). split; [|reflexivity]. split_and!; [by apply no_empty_delete| | |done].
      * intros k'. rewrite getValSet_delete, Hv. repeat case_decide; subst; set_solver.
      * intros k'. rewrite !elem_of_union, elem_of_singleton, Hgk. destruct (decide (k' = k)) as [->|]; [|naive_solver].
        rewrite E1. naive_solver.
    + assert (¬ s ⊆ rVals) as Hsub by (clear -Ed; set_solver). eexists.
      rewrite (decide_False (P := lost rVals m k)) by (unfold lost; rewrite E1; tauto). split; [|reflexivity]. split_and!; [by apply no_empty_insert| | |done].
      * intros k'. rewrite getValSet_insert, Hv. repeat case_decide; subst; set_solver.
      * intros k'. rewrite elem_of_union, elem_of_singleton, Hgk. destruct (decide (k' = k)) as [->|]; [|naive_solver].
        rewrite E1. naive_solver.
  - assert (getValSet k m = ∅) as E1 by (rewrite <- Hkm; unfold getValSet; by rewrite Es).
    eexists. rewrite (decide_False (P := lost rVals m k)) by (unfold lost; rewrite E1; tauto).
    rewrite E1 in *. split; [|reflexivity]. split_and!; [done| | |].
    + intros k'. rewrite Hv. destruct (decide (k' = k)) as [->|]; [rewrite E1|]; repeat case_decide; set_solver.
    + intros k'. rewrite elem_of_union, elem_of_singleton, Hgk. destruct (decide (k' = k)) as [->|]; [rewrite E1|]; naive_solver.
    + intros v. rewrite <- Hgv'. set_solver.
Qed.

Lemma trim_keys_none rVals l : foldl (trim_key rVals) None l = None.
Proof. by induction l. Qed.

Lemma trimOrRemove_cases keys rVals m :
  no_empty m ->
  (∃ r, trimOrRemove keys rVals m = Some r ∧ trimmed keys rVals m r ∧
     (key_readable E = true ∨ ∀ k, k ∈ keys -> ¬ lost rVals m k)) ∨
  (trimOrRemove keys rVals m = None ∧ key_readable E = false ∧ ∃ k, k ∈ keys ∧ lost rVals m k).
Proof.
  intros Hm. unfold trimOrRemove.
  enough (∀ l done r, NoDup l -> (∀ k, k ∈ l -> k ∉ done) -> trimmed done rVals m r ->
    (∃ r', foldl (trim_key rVals) (Some r) l = Some r' ∧ trimmed (list_to_set l ∪ done) rVals m r' ∧
       (key_readable E = true ∨ ∀ k, k ∈ l -> ¬ lost rVals m k)) ∨
    (foldl (trim_key rVals) (Some r) l = None ∧ key_readable E = false ∧ ∃ k, k ∈ l ∧ lost rVals m k)) as Hl.
  { assert (list_to_set (in_order keys) ∪ ∅ = keys) as Ek.
    { apply set_eq. intros k. rewrite elem_of_union, elem_of_list_to_set, elem_of_in_order. set_solver. }
    destruct (Hl (in_order keys) ∅ (∅, ∅, m)) as [(r & -> & Hr & Hor)|(-> & ? & k & Hk & ?)].
    - apply NoDup_in_order.
    - set_solver.
    - split_and!; [done|intros k; by rewrite decide_False by set_solver|set_solver..].
    - left. exists r. rewrite Ek in Hr. split_and!; [done..|]. destruct Hor as [?|Hn]; [by left|right].
      intros k Hk. by apply Hn, elem_of_in_order.
    - right. apply elem_of_in_order in Hk. eauto. }
  induction l as [|k l IH]; intros done r Hd Hnin Hr.
  { left. exists r. split_and!; [reflexivity| |right; intros k Hk; by apply not_elem_of_nil in Hk].
    by assert (list_to_set [] ∪ done = done) as -> by set_solver. }
  apply NoDup_cons in Hd as [Hk Hd]. destruct (trim_key_spec done rVals m r k) as (r1 & Hr1 & E1); [apply Hnin; left|done|].
  cbn [foldl]. rewrite E1. assert (list_to_set (k :: l) ∪ done = list_to_set l ∪ ({[k]} ∪ done)) as -> by set_solver.
  assert (∀ k', k' ∈ l -> k' ∉ {[k]} ∪ done) as Hnin'.
  { intros k' Hk'. assert (k' ∉ done) by (apply Hnin; by right). set_solver. }
  destruct (IH ({[k]} ∪ done) r1 Hd Hnin' Hr1) as [(r2 & E2 & Hr2 & Hor)|(E2 & HE & k' & Hk' & Hl)].
  - case_decide as Hlost; [destruct (key_readable E) eqn:HE|].
    + left. exists r2. rewrite E2. eauto.
    + right. rewrite trim_keys_none. split_and!; [done..|]. exists k. split; [left|done].
    + left. exists r2. rewrite E2. split_and!; [done..|]. destruct Hor as [?|Hn]; [by left|right].
      intros k' [->|Hk']%elem_of_cons; [done|by apply Hn].
  - right. split_and!; [|done|exists k'; split; [by right|done]]. rewrite HE. case_decide; [apply trim_keys_none|done].
Qed.

(** What an operation comes to: a result with [P], unless the key of an erased node is
    read ([bad]) and cannot be. *)
Definition comes_to {A} (r : option A) (P : A -> Prop) (bad : Prop) : Prop :=
  (∃ a, r = Some a ∧ P a ∧ (key_readable E = true ∨ ¬ bad)) ∨ (r = None ∧ key_readable E = false ∧ bad).
Lemma comes_to_ret {A} (a : A) (P : A -> Prop) : P a -> comes_to (Some a) P False.
Proof. left. exists a. tauto. Qed.
Lemma comes_to_bind {A B} (r : option A) (f : A -> option B) P Q bad1 bad2 :
  comes_to r P bad1 -> (∀ a, P a -> comes_to (f a) Q bad2) -> comes_to (r ≫= f) Q (bad1 ∨ bad2).
Proof.
  intros [(a & -> & Ha & Hor)|(-> & ? & ?)] Hf; [|right; tauto].
  destruct (Hf a Ha) as [(b & Eb & ? & ?)|(Eb & ? & ?)]; cbn [mbind option_bind]; [left; exists b; tauto|right; tauto].
Qed.
Lemma comes_to_impl {A} (r : option A) (P Q : A -> Prop) bad bad' :
  (∀ a, P a -> Q a) -> (bad ↔ bad') -> comes_to r P bad -> comes_to r Q bad'.
Proof. intros HPQ Hb [(a & -> & Ha & Hor)|(-> & ? & ?)]; [left; exists a; split_and!; [done|auto|tauto]|right; tauto]. Qed.
Lemma comes_to_iff {A} (r : option A) (P : A -> Prop) bad bad' : (bad ↔ bad') -> comes_to r P bad -> comes_to r P bad'.
Proof. intros Hb. by apply comes_to_impl. Qed.
(** The last step reads nothing. *)
Lemma comes_to_then {A B} (r : option A) (f : A -> option B) P Q bad :
  comes_to r P bad -> (∀ a, P a -> comes_to (f a) Q False) -> comes_to (r ≫= f) Q bad.
Proof. intros Hr Hf. apply (comes_to_iff _ _ (bad ∨ False)); [tauto|by eapply comes_to_bind]. Qed.
Lemma trimOrRemove_spec keys rVals m :
  no_empty m -> comes_to (trimOrRemove keys rVals m) (trimmed keys rVals m) (∃ k, k ∈ keys ∧ lost rVals m k).
Proof.
  intros Hm. destruct (trimOrRemove_cases keys rVals m Hm) as [(r & ? & ? & Hor)|?]; [|by right].
  left. exists r. split_and!; [done..|]. destruct Hor; [by left|right; naive_solver].
Qed.

Lemma add_spec k nv m :
  nv ≠ ∅ -> no_empty m ->
  add k nv m = (bool_decide (getValSet k m = ∅), <[k := getValSet k m ∪ nv]> m).
Proof.
  intros Hnv Hm. unfold add, getValSet. rewrite decide_False by done. specialize (Hm k). destruct (m !! k) as [s|]; cbn.
  - rewrite bool_decide_eq_false_2; [done|]. congruence.
  - rewrite bool_decide_eq_true_2 by done. by assert (∅ ∪ nv = nv) as -> by set_solver.
Qed.
Lemma add_one_spec k nv m :
  no_empty m -> let m' := (add k nv m).2 in no_empty m' ∧ ∀ k', getValSet k' m' = if decide (k' = k) then getValSet k m ∪ nv else getValSet k' m.
Proof.
  intros Hm. destruct (decide (nv = ∅)) as [->|Hn]; cbv zeta.
  - unfold add. rewrite decide_True by done. split; [done|]. intros k'. case_decide; [subst; set_solver|done].
  - rewrite add_spec by done. cbn [snd]. split; [apply no_empty_insert; [set_solver|done]|]. intros k'. apply getValSet_insert.
Qed.

Lemma add_all_spec keys nv m :
  nv ≠ ∅ -> no_empty m ->
  let '(newKeys, m') := add_all keys nv m in
  no_empty m' ∧ (∀ k, getValSet k m' = if decide (k ∈ keys) then getValSet k m ∪ nv else getValSet k m) ∧
  (∀ k, k ∈ newKeys ↔ k ∈ keys ∧ getValSet k m = ∅).
Proof.
  intros Hnv Hm. unfold add_all.
  set (f := λ '(newKeys, m) k, let '(new, m) := add k nv m in (if new then {[k]} ∪ newKeys else newKeys, m)).
  enough (∀ l (done : gset K) r, NoDup l -> (∀ k, k ∈ l -> k ∉ done) ->
    no_empty r.2 ∧ (∀ k, getValSet k r.2 = if decide (k ∈ done) then getValSet k m ∪ nv else getValSet k m) ∧
      (∀ k, k ∈ r.1 ↔ k ∈ done ∧ getValSet k m = ∅) ->
    let '(nk, m') := foldl f r l in no_empty m' ∧ (∀ k, getValSet k m' = if decide (k ∈ list_to_set l ∪ done) then getValSet k m ∪ nv else getValSet k m) ∧
      (∀ k, k ∈ nk ↔ k ∈ list_to_set l ∪ done ∧ getValSet k m = ∅)) as Hl.
  { specialize (Hl (in_order keys) ∅ (∅, m)). destruct (foldl f (∅, m) (in_order keys)) as [nk m'].
    assert (list_to_set (in_order keys) ∪ ∅ = keys) as Ek.
    { apply set_eq. intros k. rewrite elem_of_union, elem_of_list_to_set, elem_of_in_order. set_solver. }
    rewrite Ek in Hl. apply Hl; [apply NoDup_in_order|set_solver|]. cbn. split_and!; [done|intros k; by rewrite decide_False by set_solver|set_solver]. }
  induction l as [|k l IH]; intros done [nk m'] Hd Hnin (Hn & Hv & Hk); cbn [fst snd] in *.
  { cbn [foldl]. by assert (list_to_set [] ∪ done = done) as -> by set_solver. }
  apply NoDup_cons in Hd as [Hkl Hd]. assert (k ∉ done) as Hkd by (apply Hnin; set_solver).
  cbn [foldl]. unfold f at 2. rewrite add_spec by done. assert (getValSet k m' = getValSet k m) as Ekm by (by rewrite Hv, decide_False).
  assert (list_to_set (k :: l) ∪ done = list_to_set l ∪ ({[k]} ∪ done)) as -> by set_solver.
  apply IH; [done| |cbn [fst snd]; split_and!].
  - intros k' Hk'. assert (k' ∉ done) by (apply Hnin; set_solver). set_solver.
  - apply no_empty_insert; [set_solver|done].
  - intros k'. rewrite getValSet_insert, Ekm, Hv. repeat case_decide; subst; set_solver.
  - intros k'. specialize (Hk k'). destruct (decide (k' = k)) as [->|]; case_bool_decide; set_solver.
Qed.

Local Ltac triple := f_equal; apply pair_equal_spec; split; [apply pair_equal_spec; split|].
(** The set that [update] gives as gone is what the client keeps. *)
Lemma removeAndReturnInterset_spec s1 s2 :
  next_of_erased E = Some true -> removeAndReturnInterset s1 s2 = Some (s1 ∩ s2, s1 ∖ s2, s2 ∖ s1).
Proof.
  intros HE. unfold removeAndReturnInterset.
  enough (∀ l c s1 s2, NoDup l -> interset_loop l c s1 s2 =
    Some ((s1 ∩ list_to_set l) ∪ c, s1 ∖ list_to_set l, s2 ∖ (s1 ∩ list_to_set l))) as ->; [|apply NoDup_in_order|].
  { assert (list_to_set (in_order s2) =@{gset V} s2) as ->.
    { apply set_eq. intros x. by rewrite elem_of_list_to_set, elem_of_in_order. }
    triple; set_solver. }
  clear s1 s2. induction l as [|b l IH]; intros c s1 s2 Hd; cbn [interset_loop]; [triple; set_solver|].
  apply NoDup_cons in Hd as [Hb Hd]. case_decide; [rewrite HE|]; rewrite IH by done; triple;
    apply set_eq; intros x; destruct (decide (x = b)); set_solver.
Qed.
Lemma removeAndReturnInterset_disjoint s1 s2 : s1 ∩ s2 = ∅ -> removeAndReturnInterset s1 s2 = Some (∅, s1, s2).
Proof.
  intros Hs. unfold removeAndReturnInterset. assert (∀ x, x ∈ in_order s2 -> x ∉ s1) as Hl.
  { intros x Hx%elem_of_in_order. set_solver. }
  induction (in_order s2) as [|b l IH]; [done|]. cbn. rewrite decide_False by (apply Hl; set_solver).
  apply IH. intros x Hx. apply Hl. set_solver.
Qed.
Lemma update_spec k nv m :
  getValSet k m ∩ nv = ∅ ->
  update k nv m = Some (∅, nv, if decide (nv = ∅) then delete k m else <[k := nv]> m).
Proof.
  intros Hd. unfold update. case_decide as Hn; [by rewrite Hn|]. by rewrite removeAndReturnInterset_disjoint.
Qed.
End set_map.
