(* ===== verification/SystemStatusOsObserver.v ===== *)
(** gps/core/SystemStatusOsObserver.cpp: clients subscribe to data items of the
    framework; what changes in a data item is kept in a cache and passed on to the
    clients that subscribe to it; modules of the framework are counted.

    The calls may come from any thread; all but the counting is done by messages, in
    order.  Pointers to clients and identifiers of data items are numbers, a data item is
    its identifier and its contents.  The library of data items decides what can be
    created and when copying into the cache is an update. *)

From stdpp Require Import list gmap strings.
From S2P Require Import Prelude Runs LocUnorderedSetMap.

Local Open Scope Z_scope.

(** * State *)

Record DataItem := MkDataItem { getId : Z; contents : Z }.

Inductive msg :=
  | SetSubsObj
  | HandleSubscribeReq (l : list Z) (client : Z) (toRequestData : bool)
  | HandleUpdateSubscriptionReq (l : list Z) (client : Z)
  | HandleUnsubscribeReq (l : list Z) (client : Z)
  | HandleUnsubscribeAllReq (client : Z)
  | HandleNotify (v : list (option DataItem))
  | HandleTurnOnMsg (dit timeOut : Z)
  | HandleTurnOffMsg (dit : Z)
  | HandleConnectBackhaul (clientName : string)
  | HandleDisconnectBackhaul (clientName : string).

(** What the framework and the clients are told, and the results of connectBackhaul and
    disconnectBackhaul. *)
Inductive output :=
  | OutSubscribe (l : list Z)
  | OutUnsubscribe (l : list Z)
  | OutRequestData (l : list Z)
  | OutNotify (client : Z) (l : list DataItem)
  | OutTurnOn (dit timeOut : Z)
  | OutTurnOff (dit : Z)
  | OutConnect (clientName : string)
  | OutDisconnect (clientName : string)
  | OutResult (result : bool).

(** All but the two maps.  [mSubscriptionObj], [mFrameworkActionReqObj]: not null. *)
Record context := Context_ {
  mSubscriptionObj : bool; mFrameworkActionReqObj : bool; mDataItemCache : gmap Z Z; mActiveRequestCount : gmap Z Z;
  mBackHaulConnReqCache : gset string; msgs : list msg; outputs : list output
}.
Definition set_subscriptionObj b s := Context_ b (mFrameworkActionReqObj s) (mDataItemCache s) (mActiveRequestCount s) (mBackHaulConnReqCache s) (msgs s) (outputs s).
Definition set_actionObj b s := Context_ (mSubscriptionObj s) b (mDataItemCache s) (mActiveRequestCount s) (mBackHaulConnReqCache s) (msgs s) (outputs s).
Definition set_cache c s := Context_ (mSubscriptionObj s) (mFrameworkActionReqObj s) c (mActiveRequestCount s) (mBackHaulConnReqCache s) (msgs s) (outputs s).
Definition set_active c s := Context_ (mSubscriptionObj s) (mFrameworkActionReqObj s) (mDataItemCache s) c (mBackHaulConnReqCache s) (msgs s) (outputs s).
Definition set_backhaul c s := Context_ (mSubscriptionObj s) (mFrameworkActionReqObj s) (mDataItemCache s) (mActiveRequestCount s) c (msgs s) (outputs s).
Definition set_msgs l s := Context_ (mSubscriptionObj s) (mFrameworkActionReqObj s) (mDataItemCache s) (mActiveRequestCount s) (mBackHaulConnReqCache s) l (outputs s).
Definition set_outputs l s := Context_ (mSubscriptionObj s) (mFrameworkActionReqObj s) (mDataItemCache s) (mActiveRequestCount s) (mBackHaulConnReqCache s) (msgs s) l.
Definition emit o s := set_outputs (outputs s ++ [o]) s.
Definition sendMsg m s := set_msgs (msgs s ++ [m]) s.

Record observer := Observer { mClientToDataItems : gmap Z (gset Z); mDataItemToClients : gmap Z (gset Z); mContext : context }.
Definition init_context : context := Context_ false false ∅ ∅ ∅ [] [].
Definition init : observer := Observer ∅ ∅ init_context.

(** * Operations *)

Section observer.
(** [creatable]: createNewDataItem gives a data item; [copies new old]: copying into the
    cached data item is an update. *)
Context `{Unordered} (E : Erased) (creatable : Z -> bool) (copies : Z -> Z -> bool).

(** Each element is inserted at the front. *)
Definition containerTransfer (s : gset Z) : list Z := foldl (λ l d, d :: l) [] (in_order s).

Definition sendCachedDataItems (s : gset Z) (to : Z) (x : context) : context :=
  let dataItems := foldl (λ l d, match mDataItemCache x !! d with Some v => MkDataItem d v :: l | None => l end) [] (in_order s) in
  match dataItems with [] => x | _ => emit (OutNotify to dataItems) x end.

(** [recorded]: SystemStatus has taken the data item. *)
Definition updateCache (d : option DataItem) (recorded : bool) (x : context) : bool * context :=
  match d with
  | Some (MkDataItem id v) =>
      if recorded then
        match mDataItemCache x !! id with
        | None => if creatable id then (true, set_cache (<[id := v]> (mDataItemCache x)) x) else (false, x)
        | Some old => if copies v old then (true, set_cache (<[id := v]> (mDataItemCache x)) x) else (false, x)
        end
      else (false, x)
  | None => (false, x)
  end.
(** The data items that were updated; [i] is the index of the first. *)
Fixpoint update_all (v : list (option DataItem)) (recorded : nat -> bool) (i : nat) (sent : gset Z) (x : context) : gset Z * context :=
  match v with
  | [] => (sent, x)
  | d :: v =>
      let '(updated, x) := updateCache d (recorded i) x in
      let sent := match d with Some d => if updated then {[getId d]} ∪ sent else sent | None => sent end in
      update_all v recorded (S i) sent x
  end.

(** ** Handlers of messages *)

Definition SetSubsObj_proc (s : observer) : observer :=
  let x := set_subscriptionObj true (mContext s) in
  let x := if decide (mDataItemToClients s = ∅) then x
           else let dis := containerTransfer (dom (mDataItemToClients s)) in emit (OutRequestData dis) (emit (OutSubscribe dis) x) in
  Observer (mClientToDataItems s) (mDataItemToClients s) x.

Definition tell_subscribe (dis : gset Z) (x : context) : context :=
  if decide (dis = ∅) then x else emit (OutSubscribe (containerTransfer dis)) x.
Definition tell_unsubscribe (dis : gset Z) (x : context) : context :=
  if mSubscriptionObj x then if decide (dis = ∅) then x else emit (OutUnsubscribe (containerTransfer dis)) x else x.

Definition tell_new (l : list Z) (toRequestData : bool) (new : gset Z) (x : context) : context :=
  if mSubscriptionObj x then if toRequestData then emit (OutRequestData l) x else tell_subscribe new x else x.

Definition HandleSubscribeReq_proc (l : list Z) (client : Z) (toRequestData : bool) (s : observer) : observer :=
  let mDataItemSet := list_to_set l in
  let '(dataItemsToSubscribe, d2c) := add_all mDataItemSet {[client]} (mDataItemToClients s) in
  let c2d := (add client mDataItemSet (mClientToDataItems s)).2 in
  let x := sendCachedDataItems mDataItemSet client (mContext s) in
  Observer c2d d2c (tell_new l toRequestData dataItemsToSubscribe x).

Definition tell_both (new gone : gset Z) (x : context) : context :=
  if mSubscriptionObj x then tell_unsubscribe gone (tell_subscribe new x) else x.

Definition HandleUpdateSubscriptionReq_proc (l : list Z) (client : Z) (s : observer) : option observer :=
  '(unused, mDataItemSet, c2d) ← update E client (list_to_set l) (mClientToDataItems s);
  '(dataItemsToUnsubscribe, _, d2c) ← trimOrRemove E unused {[client]} (mDataItemToClients s);
  let '(dataItemsToSubscribe, d2c) := add_all mDataItemSet {[client]} d2c in
  let x := sendCachedDataItems mDataItemSet client (mContext s) in
  Some (Observer c2d d2c (tell_both dataItemsToSubscribe dataItemsToUnsubscribe x)).

Definition HandleUnsubscribeReq_proc (l : list Z) (client : Z) (s : observer) : option observer :=
  '(_, dataItemsUnusedByClient, c2d) ← trimOrRemove E {[client]} (list_to_set l) (mClientToDataItems s);
  '(dataItemsToUnsubscribe, _, d2c) ← trimOrRemove E dataItemsUnusedByClient {[client]} (mDataItemToClients s);
  Some (Observer c2d d2c (tell_unsubscribe dataItemsToUnsubscribe (mContext s))).

Definition HandleUnsubscribeAllReq_proc (client : Z) (s : observer) : option observer :=
  let diByClient := getValSet client (mClientToDataItems s) in
  if decide (diByClient = ∅) then Some s
  else
    '(dataItemsToUnsubscribe, _, d2c) ← trimOrRemove E diByClient {[client]} (mDataItemToClients s);
    Some (Observer (delete client (mClientToDataItems s)) d2c (tell_unsubscribe dataItemsToUnsubscribe (mContext s))).

Definition HandleNotify_proc (v : list (option DataItem)) (recorded : nat -> bool) (s : observer) : observer :=
  let '(sent, x) := update_all v recorded 0 ∅ (mContext s) in
  let clientSet := foldl (λ (cs : gset Z) d, cs ∪ getValSet d (mDataItemToClients s)) ∅ (in_order sent) in
  let x := foldl (λ x c, sendCachedDataItems (filter (.∈ sent) (getValSet c (mClientToDataItems s))) c x) x (in_order clientSet) in
  Observer (mClientToDataItems s) (mDataItemToClients s) x.

(** ** Calls *)

(** The vector has as many null pointers in front as there are data items. *)
Definition notify (l : list DataItem) (x : context) : context :=
  match l with
  | [] => x
  | _ => sendMsg (HandleNotify (replicate (length l) None ++ (Some <$> filter (λ d, creatable (getId d) = true) l))) x
  end.

Definition turnOn (dit timeOut : Z) (x : context) : context :=
  if mFrameworkActionReqObj x then
    match mActiveRequestCount x !! dit with
    | None => sendMsg (HandleTurnOnMsg dit timeOut) (set_active (<[dit := 1]> (mActiveRequestCount x)) x)
    | Some n => set_active (<[dit := n + 1]> (mActiveRequestCount x)) x
    end
  else x.
Definition turnOff (dit : Z) (x : context) : context :=
  if mFrameworkActionReqObj x then
    match mActiveRequestCount x !! dit with
    | Some n =>
        if n - 1 =? 0 then sendMsg (HandleTurnOffMsg dit) (set_active (delete dit (mActiveRequestCount x)) x)
        else set_active (<[dit := n - 1]> (mActiveRequestCount x)) x
    | None => x
    end
  else x.

Definition connectBackhaul (clientName : string) (x : context) : bool * context :=
  if mFrameworkActionReqObj x then (true, sendMsg (HandleConnectBackhaul clientName) x)
  else (false, set_backhaul ({[clientName]} ∪ mBackHaulConnReqCache x) x).
Definition disconnectBackhaul (clientName : string) (x : context) : bool * context :=
  if mFrameworkActionReqObj x then (false, sendMsg (HandleDisconnectBackhaul clientName) x)
  else (false, set_backhaul (mBackHaulConnReqCache x ∖ {[clientName]}) x).
Definition setFrameworkActionReqObj (obj : bool) (x : context) : context :=
  let x := set_actionObj obj x in
  set_backhaul ∅ (foldl (λ x c, (connectBackhaul c x).2) x (in_order (mBackHaulConnReqCache x))).

(** ** Steps *)

(** Pointers that may be null are optional; the thread of messages runs one, with what
    SystemStatus says of each data item in it. *)
Inductive event :=
  | SetSubscriptionObj (obj : bool)
  | SetFrameworkActionReqObj (obj : bool)
  | Subscribe (l : list Z) (client : option Z) (toRequestData : bool)
  | UpdateSubscription (l : list Z) (client : option Z)
  | Unsubscribe (l : list Z) (client : option Z)
  | UnsubscribeAll (client : option Z)
  | Notify (l : list DataItem)
  | TurnOn (dit timeOut : Z)
  | TurnOff (dit : Z)
  | ConnectBackhaul (clientName : string)
  | DisconnectBackhaul (clientName : string)
  | Task (recorded : nat -> bool).

Definition request (m : list Z -> Z -> msg) (l : list Z) (client : option Z) (x : context) : context :=
  match l, client with _ :: _, Some c => sendMsg (m l c) x | _, _ => x end.
Definition returns (r : bool * context) : context := emit (OutResult r.1) r.2.

(** What a call does at once. *)
Definition call (e : event) (x : context) : context :=
  match e with
  | SetSubscriptionObj obj => if obj then sendMsg SetSubsObj x else x
  | SetFrameworkActionReqObj obj => setFrameworkActionReqObj obj x
  | Subscribe l c r => request (λ l c, HandleSubscribeReq l c r) l c x
  | UpdateSubscription l c => request HandleUpdateSubscriptionReq l c x
  | Unsubscribe l c => request HandleUnsubscribeReq l c x
  | UnsubscribeAll c => match c with Some c => sendMsg (HandleUnsubscribeAllReq c) x | None => x end
  | Notify l => notify l x
  | TurnOn d t => turnOn d t x
  | TurnOff d => turnOff d x
  | ConnectBackhaul n => returns (connectBackhaul n x)
  | DisconnectBackhaul n => returns (disconnectBackhaul n x)
  | Task _ => x
  end.

Definition with_context (x : context) (s : observer) : observer := Observer (mClientToDataItems s) (mDataItemToClients s) x.
(** A message that only calls the framework. *)
Definition action (m : msg) : option output :=
  match m with
  | HandleTurnOnMsg d t => Some (OutTurnOn d t)
  | HandleTurnOffMsg d => Some (OutTurnOff d)
  | HandleConnectBackhaul n => Some (OutConnect n)
  | HandleDisconnectBackhaul n => Some (OutDisconnect n)
  | _ => None
  end.
Definition proc (m : msg) (recorded : nat -> bool) (s : observer) : option observer :=
  match m with
  | SetSubsObj => Some (SetSubsObj_proc s)
  | HandleSubscribeReq l c r => Some (HandleSubscribeReq_proc l c r s)
  | HandleUpdateSubscriptionReq l c => HandleUpdateSubscriptionReq_proc l c s
  | HandleUnsubscribeReq l c => HandleUnsubscribeReq_proc l c s
  | HandleUnsubscribeAllReq c => HandleUnsubscribeAllReq_proc c s
  | HandleNotify v => Some (HandleNotify_proc v recorded s)
  | m => match action m with Some o => Some (with_context (emit o (mContext s)) s) | None => Some s end
  end.

Definition step (s : observer) (e : event) : option observer :=
  match e with
  | Task recorded =>
      match msgs (mContext s) with
      | m :: l => proc m recorded (with_context (set_msgs l (mContext s)) s)
      | [] => Some s
      end
  | e => Some (with_context (call e (mContext s)) s)
  end.
End observer.
