(* ===== verification/OsObserverProps.v ===== *)
(** The observer of the framework (SystemStatusOsObserver.v) implements the interface
    IDataItemSubscription as its comments describe it: a relation between clients and
    data items.  updateSubscription does so only for clients without subscriptions; and
    a run is only defined, by the documentation of std::unordered_map, as long as no
    unsubscription empties an entry of a map. *)

From stdpp Require Import list gmap strings.
From S2P Require Import Prelude Runs LocUnorderedSetMap SystemStatusOsObserver.

Local Open Scope Z_scope.

(** * The interface *)

(** Which client subscribes to which data item. *)
Definition relation := gset (Z * Z).
Definition items_of (R : relation) (c : Z) : gset Z := set_map snd (filter (λ p, p.1 = c) R).
Definition clients_of (R : relation) (d : Z) : gset Z := set_map fst (filter (λ p, p.2 = d) R).
Definition subscribed (R : relation) : gset Z := set_map snd R.
Definition pairs (c : Z) (ds : gset Z) : relation := set_map (pair c) ds.
(** Those of [ds] that no client subscribes to. *)
Definition unused (R : relation) (ds : gset Z) : gset Z := filter (λ d, clients_of R d = ∅) ds.

Lemma elem_of_items R c d : d ∈ items_of R c ↔ (c, d) ∈ R.
Proof.
  unfold items_of. rewrite elem_of_map. setoid_rewrite elem_of_filter. split; [by intros ([? ?] & -> & [<- ?])|].
  intros Hp. by exists (c, d).
Qed.
Lemma elem_of_clients R c d : c ∈ clients_of R d ↔ (c, d) ∈ R.
Proof.
  unfold clients_of. rewrite elem_of_map. setoid_rewrite elem_of_filter. split; [by intros ([? ?] & -> & [<- ?])|].
  intros Hp. by exists (c, d).
Qed.
Lemma elem_of_subscribed R d : d ∈ subscribed R ↔ ∃ c, (c, d) ∈ R.
Proof. unfold subscribed. rewrite elem_of_map. split; [by intros ([c ?] & -> & ?); exists c|intros [c Hp]; by exists (c, d)]. Qed.
Lemma elem_of_pairs c ds p : p ∈ pairs c ds ↔ p.1 = c ∧ p.2 ∈ ds.
Proof. destruct p as [c' d]. unfold pairs. rewrite elem_of_map. cbn. naive_solver. Qed.
Lemma clients_empty R d : clients_of R d = ∅ ↔ d ∉ subscribed R.
Proof.
  rewrite elem_of_subscribed. split; [intros E0 [c Hc%elem_of_clients]; set_solver|].
  intros Hn. apply set_eq. intros c. rewrite elem_of_clients. set_solver.
Qed.
Lemma elem_of_unused R ds d : d ∈ unused R ds ↔ d ∈ ds ∧ ∀ c, (c, d) ∉ R.
Proof. unfold unused. rewrite elem_of_filter, clients_empty, elem_of_subscribed. naive_solver. Qed.

Local Ltac relate := apply set_eq; intros ?; case_decide; subst;
  rewrite ?elem_of_union, ?elem_of_difference, ?elem_of_items, ?elem_of_clients, ?elem_of_union, ?elem_of_difference,
    ?elem_of_pairs, ?elem_of_items, ?elem_of_clients, ?elem_of_singleton; cbn; naive_solver.
Lemma items_plus R c ds c' : items_of (R ∪ pairs c ds) c' = if decide (c' = c) then items_of R c' ∪ ds else items_of R c'.
Proof. relate. Qed.
Lemma items_minus R c ds c' : items_of (R ∖ pairs c ds) c' = if decide (c' = c) then items_of R c' ∖ ds else items_of R c'.
Proof. relate. Qed.
Lemma clients_plus R c ds d : clients_of (R ∪ pairs c ds) d = if decide (d ∈ ds) then clients_of R d ∪ {[c]} else clients_of R d.
Proof. relate. Qed.
Lemma clients_minus R c ds d : clients_of (R ∖ pairs c ds) d = if decide (d ∈ ds) then clients_of R d ∖ {[c]} else clients_of R d.
Proof. relate. Qed.

Section interface.
Context `{Unordered} (creatable : Z -> bool) (copies : Z -> Z -> bool).
(** What the interface promises, with what is told. *)
Definition spec_subscribe (l : list Z) (c : Z) (r : bool) (R : relation) (x : context) : relation * context :=
  let ds := list_to_set l in
  (R ∪ pairs c ds, tell_new l r (unused R ds) (sendCachedDataItems ds c x)).
Definition spec_update (l : list Z) (c : Z) (R : relation) (x : context) : relation * context :=
  let ds := list_to_set l in let R' := (R ∖ pairs c (items_of R c)) ∪ pairs c ds in
  (R', tell_both (unused R ds) (unused R' (items_of R c)) (sendCachedDataItems (ds ∖ items_of R c) c x)).
Definition spec_unsubscribe (ds : gset Z) (c : Z) (R : relation) (x : context) : relation * context :=
  let R' := R ∖ pairs c ds in (R', tell_unsubscribe (unused R' (items_of R c ∩ ds)) x).
Definition spec_set (R : relation) (x : context) : context :=
  let x := set_subscriptionObj true x in
  if decide (subscribed R = ∅) then x
  else emit (OutRequestData (containerTransfer (subscribed R))) (emit (OutSubscribe (containerTransfer (subscribed R))) x).
Definition spec_notify (v : list (option DataItem)) (recorded : nat -> bool) (R : relation) (x : context) : context :=
  let '(sent, x) := update_all creatable copies v recorded 0 ∅ x in
  let clientSet := set_map fst (filter (λ p, p.2 ∈ sent) R) in
  foldl (λ x c, sendCachedDataItems (items_of R c ∩ sent) c x) x (in_order clientSet).

Definition spec_proc (m : msg) (recorded : nat -> bool) (R : relation) (x : context) : relation * context :=
  match m with
  | SetSubsObj => (R, spec_set R x)
  | HandleSubscribeReq l c r => spec_subscribe l c r R x
  | HandleUpdateSubscriptionReq l c => spec_update l c R x
  | HandleUnsubscribeReq l c => spec_unsubscribe (list_to_set l) c R x
  | HandleUnsubscribeAllReq c => spec_unsubscribe (items_of R c) c R x
  | HandleNotify v => (R, spec_notify v recorded R x)
  | m => (R, match action m with Some o => emit o x | None => x end)
  end.
Definition spec_step (t : relation * context) (e : event) : option (relation * context) :=
  let '(R, x) := t in
  match e with
  | Task recorded => match msgs x with m :: l => Some (spec_proc m recorded R (set_msgs l x)) | [] => Some (R, x) end
  | e => Some (R, call creatable e x)
  end.
Definition spec_init : relation * context := (∅, init_context).
End interface.

(** * Refinement *)

Section refinement.
Context `{Unordered} (E : Erased) (creatable : Z -> bool) (copies : Z -> Z -> bool).

(** Both maps have the pairs of the relation. *)
Definition represents (s : observer) (t : relation * context) : Prop :=
  mContext s = t.2 ∧ no_empty (mClientToDataItems s) ∧ no_empty (mDataItemToClients s) ∧
  (∀ c, getValSet c (mClientToDataItems s) = items_of t.1 c) ∧ (∀ d, getValSet d (mDataItemToClients s) = clients_of t.1 d).

(** A client that updates its subscription has none. *)
Definition fresh (s : observer) (m : msg) : Prop :=
  match m with HandleUpdateSubscriptionReq _ c => getValSet c (mClientToDataItems s) = ∅ | _ => True end.
Definition ok (s : observer) (e : event) : Prop :=
  match e with Task _ => match msgs (mContext s) with m :: _ => fresh s m | [] => True end | _ => True end.
(** The last data item of a client goes, or the last client of a data item. *)
Definition empties (s : observer) (m : msg) : Prop :=
  match m with
  | HandleUnsubscribeReq l c =>
      lost (list_to_set l) (mClientToDataItems s) c ∨
      ∃ d, d ∈ getValSet c (mClientToDataItems s) ∩ list_to_set l ∧ lost {[c]} (mDataItemToClients s) d
  | HandleUnsubscribeAllReq c =>
      ∃ d, d ∈ getValSet c (mClientToDataItems s) ∧ lost {[c]} (mDataItemToClients s) d
  | _ => False
  end.
Definition reads_erased (s : observer) (e : event) : Prop :=
  match e with Task _ => match msgs (mContext s) with m :: _ => empties s m | [] => False end | _ => False end.
#[export] Instance fresh_dec s m : Decision (fresh s m).
Proof. destruct m; cbn; apply _. Defined.
#[export] Instance ok_dec s e : Decision (ok s e).
Proof. destruct e; try exact (left I). cbn. destruct (msgs _); apply _. Defined.

Lemma set_represents s t :
  represents s t -> represents (SetSubsObj_proc s) (t.1, spec_set t.1 t.2).
Proof.
  destruct s as [c2d d2c x], t as [R x']. intros (Ex & Hc & Hd & Hic & Hid). cbn [fst snd mContext mClientToDataItems mDataItemToClients] in *.
  subst x'. unfold represents, SetSubsObj_proc, spec_set. cbn [fst snd mContext mClientToDataItems mDataItemToClients].
  assert (dom d2c = subscribed R) as Ed.
  { apply set_eq. intros d. rewrite elem_of_dom_vals, Hid, clients_empty by done. destruct (decide (d ∈ subscribed R)); naive_solver. }
  split_and!; [|done..]. rewrite Ed. assert (d2c = ∅ ↔ subscribed R = ∅) as He by (rewrite <- Ed; symmetry; apply dom_empty_iff_L).
  by repeat case_decide; try tauto.
Qed.

(** A client subscribes to more: both maps grow. *)
Lemma add_represents c ds c2d d2c (R : relation) :
  no_empty c2d -> no_empty d2c ->
  (∀ c, getValSet c c2d = items_of R c) -> (∀ d, getValSet d d2c = clients_of R d) ->
  let '(new, d2c') := add_all ds {[c]} d2c in let c2d' := (add c ds c2d).2 in
  new = unused R ds ∧ no_empty c2d' ∧ no_empty d2c' ∧
  (∀ c', getValSet c' c2d' = items_of (R ∪ pairs c ds) c') ∧ (∀ d, getValSet d d2c' = clients_of (R ∪ pairs c ds) d).
Proof.
  intros Hc Hd Hic Hid. pose proof (add_all_spec ds {[c]} d2c ltac:(set_solver) Hd) as Ha.
  destruct (add_all ds {[c]} d2c) as [new d2c']. destruct Ha as (Hd' & Hv & Hn).
  pose proof (add_one_spec c ds c2d Hc) as [Hc' Hvc]. cbv zeta. split_and!; [|done..| |].
  - apply set_eq. intros d. rewrite Hn, Hid. unfold unused. rewrite elem_of_filter. tauto.
  - intros c'. rewrite Hvc, !Hic, items_plus. by case_decide; subst.
  - intros d. by rewrite Hv, !Hid, clients_plus.
Qed.
(** A client subscribes to less. *)
Lemma trim_represents c ds d2c (R : relation) :
  no_empty d2c -> (∀ d, getValSet d d2c = clients_of R d) -> ds ⊆ items_of R c ->
  comes_to E (trimOrRemove E ds {[c]} d2c)
    (λ r, r.1.1 = unused (R ∖ pairs c ds) ds ∧ no_empty r.2 ∧ (∀ d, getValSet d r.2 = clients_of (R ∖ pairs c ds) d))
    (∃ d, d ∈ ds ∧ lost {[c]} d2c d).
Proof.
  intros Hd Hid Hds. eapply comes_to_impl; [|done|by apply trimOrRemove_spec].
  intros [[gone gv] d2c'] (Hd' & Hv & Hg & _). cbn [fst snd]. split_and!; [|done|].
  - apply set_eq. intros d. rewrite Hg, Hid, elem_of_unused. split.
    + intros (Hdd & _ & Hsub). split; [done|]. intros c' [Hp Hnp]%elem_of_difference. apply Hnp. rewrite elem_of_pairs. cbn.
      split; [|done]. apply elem_of_clients in Hp. set_solver.
    + intros [Hdd Hn]. split_and!; [done| |].
      * assert (c ∈ clients_of R d) by (apply elem_of_clients, elem_of_items; set_solver). set_solver.
      * intros c' Hc'%elem_of_clients. apply elem_of_singleton. destruct (decide (c' = c)) as [|Hne]; [done|].
        destruct (Hn c'). rewrite elem_of_difference, elem_of_pairs. cbn. naive_solver.
  - intros d. by rewrite Hv, !Hid, clients_minus.
Qed.
Lemma trim_client c ds c2d (R : relation) :
  no_empty c2d -> (∀ c, getValSet c c2d = items_of R c) ->
  comes_to E (trimOrRemove E {[c]} ds c2d)
    (λ r, r.1.2 = items_of R c ∩ ds ∧ no_empty r.2 ∧
       (∀ c', getValSet c' r.2 = items_of (R ∖ pairs c (items_of R c ∩ ds)) c')) (lost ds c2d c).
Proof.
  intros Hc Hic. eapply comes_to_impl; [| |by apply trimOrRemove_spec].
  2: { split; [by intros (? & ->%elem_of_singleton & ?)|]. intros Hl. exists c. by rewrite elem_of_singleton. }
  intros [[gk gv] c2d'] (Hc' & Hv & _ & Hg). cbn [fst snd]. split_and!; [|done|].
  - apply set_eq. intros d. rewrite Hg, elem_of_intersection. split.
    + intros (? & k & ->%elem_of_singleton & Hk). by rewrite Hic in Hk.
    + intros [Hi ?]. split; [done|]. exists c. rewrite Hic. by rewrite elem_of_singleton.
  - intros c'. rewrite Hv, !Hic, items_minus. repeat case_decide; set_solver.
Qed.

Lemma minus_none c (R : relation) : R ∖ pairs c ∅ = R.
Proof. apply set_eq. intros p. rewrite elem_of_difference, elem_of_pairs. set_solver. Qed.

Lemma subscribe_represents l c r s t :
  represents s t -> represents (HandleSubscribeReq_proc l c r s) (spec_subscribe l c r t.1 t.2).
Proof.
  destruct s as [c2d d2c x], t as [R x']. intros (Ex & Hc & Hd & Hic & Hid). cbn [fst snd mContext mClientToDataItems mDataItemToClients] in *.
  subst x'. unfold HandleSubscribeReq_proc, spec_subscribe. cbn [mContext mClientToDataItems mDataItemToClients].
  pose proof (add_represents c (list_to_set l) c2d d2c R Hc Hd Hic Hid) as Ha. destruct (add_all _ _ d2c) as [new d2c'].
  by destruct Ha as (-> & ? & ? & ? & ?).
Qed.
Lemma update_represents l c s t :
  getValSet c (mClientToDataItems s) = ∅ -> represents s t ->
  comes_to E (HandleUpdateSubscriptionReq_proc E l c s) (λ s', represents s' (spec_update l c t.1 t.2)) False.
Proof.
  destruct s as [c2d d2c x], t as [R x']. intros Hf (Ex & Hc & Hd & Hic & Hid). cbn [fst snd mContext mClientToDataItems mDataItemToClients] in *.
  subst x'. unfold HandleUpdateSubscriptionReq_proc, spec_update. cbn [mContext mClientToDataItems mDataItemToClients].
  set (ds := list_to_set l) in *. rewrite update_spec by (rewrite Hf; set_solver). cbn [mbind option_bind].
  assert (items_of R c = ∅) as -> by by rewrite <- Hic.
  eapply comes_to_iff; [|eapply comes_to_then; [apply (trim_represents c ∅ d2c R Hd Hid); set_solver|]].
  { split; [|done]. intros (d & Hin & _). by apply elem_of_empty in Hin. }
  intros [[gone gv] d2c1] (Eg & Hd1 & Hid1). cbn [fst snd] in *. subst gone.
  rewrite minus_none in *. pose proof (add_represents c ds c2d d2c1 R Hc Hd1 Hic Hid1) as Ha.
  destruct (add_all _ _ d2c1) as [new d2c']. destruct Ha as (-> & Hc' & Hd' & Hic' & Hid'). apply comes_to_ret.
  assert (ds ∖ ∅ = ds) as -> by set_solver. split_and!; cbn [fst snd mContext mClientToDataItems mDataItemToClients]; try done.
  - case_decide; [by apply no_empty_delete|by apply no_empty_insert].
  - intros c'. rewrite items_plus, <- Hic. case_decide as E0; rewrite ?getValSet_delete, ?getValSet_insert; case_decide; subst; set_solver.
Qed.
Lemma unsubscribe_represents l c s t :
  represents s t ->
  comes_to E (HandleUnsubscribeReq_proc E l c s) (λ s', represents s' (spec_unsubscribe (list_to_set l) c t.1 t.2))
    (empties s (HandleUnsubscribeReq l c)).
Proof.
  destruct s as [c2d d2c x], t as [R x']. intros (Ex & Hc & Hd & Hic & Hid). cbn [fst snd mContext mClientToDataItems mDataItemToClients] in *.
  subst x'. unfold HandleUnsubscribeReq_proc, spec_unsubscribe, empties. cbn [mContext mClientToDataItems mDataItemToClients].
  set (ds := list_to_set l) in *. rewrite Hic. eapply comes_to_bind; [by apply trim_client|].
  intros [[gk mine] c2d'] (Em & Hc' & Hic'). cbn [fst snd] in *. subst mine.
  eapply comes_to_then; [apply (trim_represents c (items_of R c ∩ ds) d2c R Hd Hid); set_solver|].
  intros [[gone gv] d2c'] (Eg & Hd' & Hid'). cbn [fst snd] in *. subst gone. apply comes_to_ret. assert (R ∖ pairs c (items_of R c ∩ ds) = R ∖ pairs c ds) as Er.
  { apply set_eq. intros [c' d]. rewrite !elem_of_difference, !elem_of_pairs, elem_of_intersection, elem_of_items. cbn. naive_solver. }
  rewrite Er in *. done.
Qed.
Lemma unsubscribe_all_represents c s t :
  represents s t ->
  comes_to E (HandleUnsubscribeAllReq_proc E c s) (λ s', represents s' (spec_unsubscribe (items_of t.1 c) c t.1 t.2))
    (empties s (HandleUnsubscribeAllReq c)).
Proof.
  destruct s as [c2d d2c x], t as [R x']. intros (Ex & Hc & Hd & Hic & Hid). cbn [fst snd mContext mClientToDataItems mDataItemToClients] in *.
  subst x'. unfold HandleUnsubscribeAllReq_proc, spec_unsubscribe, empties. cbn [mContext mClientToDataItems mDataItemToClients]. rewrite Hic.
  assert (items_of R c ∩ items_of R c = items_of R c) as -> by set_solver. case_decide as E0.
  - eapply comes_to_iff; [|apply comes_to_ret].
    { split; [done|]. rewrite E0. intros (d & Hin & _). by apply elem_of_empty in Hin. }
    rewrite E0, minus_none. unfold represents. cbn.
    assert (unused R ∅ = ∅) as -> by (unfold unused; set_solver). unfold tell_unsubscribe. rewrite decide_True by done. by case_match.
  - eapply comes_to_then; [by apply (trim_represents c (items_of R c) d2c R Hd Hid)|].
    intros [[gone gv] d2c'] (Eg & Hd' & Hid'). cbn [fst snd] in *. subst gone. apply comes_to_ret. split_and!; cbn [fst snd mContext mClientToDataItems mDataItemToClients]; try done; [by apply no_empty_delete|].
    intros c'. rewrite getValSet_delete, items_minus, Hic. repeat case_decide; subst; set_solver.
Qed.
Lemma notify_represents v recorded s t :
  represents s t -> represents (HandleNotify_proc creatable copies v recorded s) (t.1, spec_notify creatable copies v recorded t.1 t.2).
Proof.
  destruct s as [c2d d2c x], t as [R x']. intros (Ex & Hc & Hd & Hic & Hid). cbn [fst snd mContext mClientToDataItems mDataItemToClients] in *.
  subst x'. unfold HandleNotify_proc, spec_notify. cbn [mContext mClientToDataItems mDataItemToClients].
  destruct (update_all creatable copies v recorded 0 ∅ x) as [sent x1]. split_and!; cbn [fst snd mContext mClientToDataItems mDataItemToClients]; try done.
  assert (foldl (λ (cs : gset Z) d, cs ∪ getValSet d d2c) ∅ (in_order sent) = set_map fst (filter (λ p : Z * Z, p.2 ∈ sent) R)) as ->.
  { apply set_eq. intros c. rewrite elem_of_map.
    enough (∀ l (cs : gset Z), c ∈ foldl (λ (cs : gset Z) d, cs ∪ getValSet d d2c) cs l ↔ c ∈ cs ∨ ∃ d, d ∈ l ∧ (c, d) ∈ R) as ->.
    { setoid_rewrite elem_of_in_order. setoid_rewrite elem_of_filter. split; [intros [?|(d & ? & ?)]; [set_solver|by exists (c, d)]|].
      intros ([c' d] & -> & [? ?]). right. by exists d. }
    induction l as [|d l IH]; intros cs; cbn [foldl]; [set_solver|]. rewrite IH, elem_of_union, Hid, elem_of_clients. set_solver. }
  generalize (in_order (set_map fst (filter (λ p : Z * Z, p.2 ∈ sent) R) : gset Z)). intros l. revert x1.
  induction l as [|c l IH]; intros x1; [done|]. cbn [foldl]. rewrite Hic.
  assert (filter (.∈ sent) (items_of R c) = items_of R c ∩ sent) as -> by set_solver. apply IH.
Qed.

Lemma proc_represents m recorded s t :
  fresh s m -> represents s t ->
  comes_to E (proc E creatable copies m recorded s) (λ s', represents s' (spec_proc creatable copies m recorded t.1 t.2)) (empties s m).
Proof.
  intros Hf Hr. assert (Et : t = (t.1, t.2)) by by destruct t.
  destruct m; cbn [proc spec_proc fresh action] in *; auto using unsubscribe_represents, unsubscribe_all_represents, update_represents;
    apply comes_to_ret; auto using set_represents, subscribe_represents, notify_represents;
    destruct Hr as (Ex & Hr); (split; [|exact Hr]); cbn; by rewrite Ex.
Qed.
Lemma step_represents s t e :
  represents s t -> ok s e ->
  ∃ t', spec_step creatable copies t e = Some t' ∧
    comes_to E (step E creatable copies s e) (λ s', represents s' t') (reads_erased s e).
Proof.
  intros Hr Ho. destruct t as [R x]. assert (Ex : mContext s = x) by apply Hr.
  assert (Hcall : ∀ y, represents (with_context y s) (R, y)) by (intros y; split; [done|apply Hr]).
  destruct e; try (eexists; split; [reflexivity|]; apply comes_to_ret; rewrite <- Ex; apply Hcall).
  cbn [step spec_step ok reads_erased] in *. rewrite Ex in *. destruct (msgs x) as [|m l]; eexists; (split; [reflexivity|]).
  - by apply comes_to_ret.
  - apply (proc_represents m recorded (with_context (set_msgs l x) s) (R, set_msgs l x)); [exact Ho|apply Hcall].
Qed.
Lemma init_represents : represents init spec_init.
Proof. split; [done|]. split_and!; intros k; unfold getValSet; cbn [init mClientToDataItems mDataItemToClients]; by rewrite lookup_empty. Qed.


(** * The framework *)

(** The data items that the framework has been asked to report. *)
Definition ask (a : gset Z) (o : output) : gset Z :=
  match o with OutSubscribe l => a ∪ list_to_set l | OutUnsubscribe l => a ∖ list_to_set l | _ => a end.
Definition asked (outs : list output) : gset Z := foldl ask ∅ outs.

(** requestData is not used. *)
Definition no_request (x : context) (e : event) : Prop :=
  match e with Task _ => match msgs x with HandleSubscribeReq _ _ true :: _ => False | _ => True end | _ => True end.
#[export] Instance no_request_dec x e : Decision (no_request x e).
Proof. destruct e; try exact (left I). cbn. destruct (msgs x) as [|[]]; try apply _. destruct toRequestData; apply _. Defined.

Definition served (t : relation * context) : Prop :=
  asked (outputs t.2) = if mSubscriptionObj t.2 then subscribed t.1 else ∅.

Lemma list_to_set_transfer (ds : gset Z) : list_to_set (containerTransfer ds) = ds.
Proof.
  unfold containerTransfer. apply set_eq. intros d. rewrite elem_of_list_to_set.
  enough (∀ l acc, d ∈ foldl (λ l d, d :: l) acc l ↔ d ∈ l ∨ d ∈ acc) as -> by (rewrite elem_of_in_order; set_solver).
  induction l as [|d' l IH]; intros acc; cbn [foldl]; [set_solver|]. rewrite IH. set_solver.
Qed.
Lemma asked_snoc outs o : asked (outs ++ [o]) = ask (asked outs) o.
Proof. unfold asked. by rewrite foldl_app. Qed.

(** The framework is asked for nothing. *)
Definition asks_nothing (x x' : context) : Prop :=
  mSubscriptionObj x' = mSubscriptionObj x ∧ asked (outputs x') = asked (outputs x).
Lemma send_asks_nothing ds c x : asks_nothing x (sendCachedDataItems ds c x).
Proof. unfold sendCachedDataItems. case_match; split; try done. cbn [emit set_outputs outputs]. by rewrite asked_snoc. Qed.
Lemma served_nothing R x x' : asks_nothing x x' -> served (R, x) -> served (R, x').
Proof. unfold served. cbn [fst snd]. by intros [-> ->]. Qed.
Lemma backhaul_asks_nothing c x : asks_nothing x (connectBackhaul c x).2.
Proof. unfold connectBackhaul. by case_match. Qed.
Lemma folds_ask_nothing {A} (f : context -> A -> context) l x :
  (∀ x a, asks_nothing x (f x a)) -> asks_nothing x (foldl f x l).
Proof.
  intros Hf. revert x. induction l as [|a l IH]; intros x; [done|]. cbn [foldl].
  destruct (IH (f x a)) as [E1 E2], (Hf x a) as [E3 E4]. split; congruence.
Qed.
Lemma result_asks_nothing r x : asks_nothing x r.2 -> asks_nothing x (returns r).
Proof. intros [E1 E2]. split; [exact E1|]. unfold returns. cbn [emit set_outputs outputs]. rewrite asked_snoc. exact E2. Qed.
Lemma call_asks_nothing e x : asks_nothing x (call creatable e x).
Proof.
  destruct e; cbn [call]; try apply result_asks_nothing; unfold request, notify, turnOn, turnOff, connectBackhaul, disconnectBackhaul;
    repeat case_match; try done.
  unfold setFrameworkActionReqObj. set (x1 := set_actionObj obj x).
  exact (folds_ask_nothing (λ x c, (connectBackhaul c x).2) (in_order (mBackHaulConnReqCache x1)) x1 (λ x c, backhaul_asks_nothing c x)).
Qed.
Lemma update_all_asks_nothing v recorded i sent x : asks_nothing x (update_all creatable copies v recorded i sent x).2.
Proof.
  revert i sent x. induction v as [|d v IH]; intros i sent x; [done|]. cbn [update_all].
  assert (asks_nothing x (updateCache creatable copies d (recorded i) x).2) as [E1 E2].
  { unfold updateCache. by repeat case_match. }
  destruct (updateCache _ _ _ _ _) as [b x1]. cbn [snd] in *. destruct (IH (S i) (match d with Some d => if b then {[getId d]} ∪ sent else sent | None => sent end) x1) as [E3 E4].
  split; congruence.
Qed.
Lemma notify_asks_nothing v recorded R x : asks_nothing x (spec_notify creatable copies v recorded R x).
Proof.
  unfold spec_notify. pose proof (update_all_asks_nothing v recorded 0 ∅ x) as [E1 E2]. destruct (update_all _ _ _ _ _ _ _) as [sent x1].
  cbn [snd] in *. match goal with |- asks_nothing _ (foldl ?f _ ?l) => destruct (folds_ask_nothing f l x1) as [E3 E4] end.
  { intros y c. apply send_asks_nothing. }
  split; congruence.
Qed.

(** The data items of the relation after each operation, and how the framework follows. *)
Lemma asked_tell_subscribe ds x : asked (outputs (tell_subscribe ds x)) = asked (outputs x) ∪ ds.
Proof.
  unfold tell_subscribe. case_decide; [set_solver|]. cbn [emit set_outputs outputs]. rewrite asked_snoc. cbn [ask]. by rewrite list_to_set_transfer.
Qed.
Lemma asked_tell_unsubscribe ds x :
  asked (outputs (tell_unsubscribe ds x)) = if mSubscriptionObj x then asked (outputs x) ∖ ds else asked (outputs x).
Proof.
  unfold tell_unsubscribe. case_match; [|done]. case_decide; [set_solver|]. cbn [emit set_outputs outputs]. rewrite asked_snoc. cbn [ask].
  by rewrite list_to_set_transfer.
Qed.
Lemma tell_subscribe_obj ds x : mSubscriptionObj (tell_subscribe ds x) = mSubscriptionObj x.
Proof. unfold tell_subscribe. by case_decide. Qed.
Lemma tell_unsubscribe_obj ds x : mSubscriptionObj (tell_unsubscribe ds x) = mSubscriptionObj x.
Proof. unfold tell_unsubscribe. case_match; [by case_decide|done]. Qed.
Lemma served_set R x : served (R, x) -> served (R, spec_set R x).
Proof.
  unfold served, spec_set. cbn [fst snd]. intros Hs. case_decide as E0.
  - cbn [set_subscriptionObj outputs mSubscriptionObj]. rewrite Hs, E0. by case_match.
  - cbn [emit set_outputs outputs set_subscriptionObj mSubscriptionObj]. rewrite !asked_snoc. cbn [ask]. rewrite list_to_set_transfer, Hs.
    case_match; set_solver.
Qed.
Lemma subscribed_plus R c ds : subscribed (R ∪ pairs c ds) = subscribed R ∪ unused R ds.
Proof.
  apply set_eq. intros d. rewrite elem_of_union, elem_of_unused, !elem_of_subscribed.
  setoid_rewrite elem_of_union. setoid_rewrite elem_of_pairs. cbn.
  destruct (decide (d ∈ subscribed R)) as [Hd|Hd]; rewrite elem_of_subscribed in Hd; naive_solver.
Qed.
Lemma subscribed_minus R c ds : subscribed (R ∖ pairs c ds) = subscribed R ∖ unused (R ∖ pairs c ds) (items_of R c ∩ ds).
Proof.
  apply set_eq. intros d. rewrite elem_of_difference, elem_of_unused, !elem_of_subscribed, elem_of_intersection, elem_of_items. split.
  - intros [c' Hp]. split; [exists c'; set_solver|]. intros [_ Hu]. by destruct (Hu c').
  - intros [[c' Hp] Hu]. destruct (decide (d ∈ subscribed (R ∖ pairs c ds))) as [Hd|Hd]; rewrite elem_of_subscribed in Hd; [done|].
    destruct (decide (c' = c ∧ d ∈ ds)) as [[-> Hds]|Hn]; [destruct Hu; naive_solver|].
    destruct Hd. exists c'. rewrite elem_of_difference, elem_of_pairs. naive_solver.
Qed.
Lemma served_unsubscribe ds c R x : served (R, x) -> served (spec_unsubscribe ds c R x).
Proof.
  unfold served, spec_unsubscribe. cbn [fst snd]. intros Hs. rewrite asked_tell_unsubscribe, Hs, subscribed_minus.
  rewrite tell_unsubscribe_obj. by case_match.
Qed.
Lemma served_subscribe l c R x : served (R, x) -> served (spec_subscribe l c false R x).
Proof.
  intros Hs. apply (served_nothing R x _ (send_asks_nothing (list_to_set l) c x)) in Hs. unfold spec_subscribe, tell_new.
  set (x1 := sendCachedDataItems _ _ _) in *. clearbody x1. unfold served in *. cbn [fst snd] in *. rewrite subscribed_plus.
  destruct (mSubscriptionObj x1) eqn:Es; rewrite ?tell_subscribe_obj, ?asked_tell_subscribe, Hs; by rewrite Es.
Qed.
Lemma subscribed_replace R c ds :
  let R' := (R ∖ pairs c (items_of R c)) ∪ pairs c ds in
  subscribed R' = (subscribed R ∪ unused R ds) ∖ unused R' (items_of R c).
Proof.
  cbv zeta. set (R' := _ ∪ pairs c ds). rewrite <- (subscribed_plus R c). apply set_eq. intros d.
  rewrite elem_of_difference, elem_of_unused, !elem_of_subscribed, elem_of_items. split.
  - intros [c' Hp]. split; [exists c'; subst R'; set_solver|]. intros [_ Hu]. by destruct (Hu c').
  - intros [[c' Hp] Hu]. destruct (decide (d ∈ subscribed R')) as [Hd|Hd]; rewrite elem_of_subscribed in Hd; [done|].
    assert ((c, d) ∉ R) as Hc by (intros Hc; apply Hu; split; [done|]; intros c'' Hc''; apply Hd; by exists c'').
    destruct Hd. exists c'. subst R'. rewrite elem_of_union, elem_of_difference, !elem_of_pairs, elem_of_items. cbn.
    apply elem_of_union in Hp as [Hp|Hp%elem_of_pairs]; [|by right]. left. split; [done|]. naive_solver.
Qed.
Lemma served_update l c R x : served (R, x) -> served (spec_update l c R x).
Proof.
  intros Hs. unfold spec_update. set (ds := list_to_set l). apply (served_nothing R x _ (send_asks_nothing (ds ∖ items_of R c) c x)) in Hs.
  set (x1 := sendCachedDataItems _ _ _) in *. clearbody x1. unfold served, tell_both in *. cbn [fst snd] in *.
  rewrite subscribed_replace. destruct (mSubscriptionObj x1) eqn:Es; [|by rewrite Es].
  by rewrite asked_tell_unsubscribe, tell_unsubscribe_obj, tell_subscribe_obj, Es, asked_tell_subscribe, Hs.
Qed.

Lemma served_step t e t' :
  no_request t.2 e -> served t -> spec_step creatable copies t e = Some t' -> served t'.
Proof.
  destruct t as [R x]. cbn [snd]. intros Hn Hs.
  destruct e; try (cbn [spec_step]; intros <-%(inj Some); exact (served_nothing R x _ (call_asks_nothing _ x) Hs)).
  cbn [spec_step no_request] in *. destruct (msgs x) as [|m ms]; [intros <-%(inj Some); exact Hs|]. intros <-%(inj Some).
  assert (served (R, set_msgs ms x)) as Hs1 by exact Hs. clear Hs. set (x1 := set_msgs ms x) in *. clearbody x1.
  destruct m; cbn [spec_proc action]; auto using served_set, served_update, served_unsubscribe;
    try (destruct toRequestData; [done|by apply served_subscribe]);
    try exact (served_nothing R x1 _ (notify_asks_nothing _ _ R x1) Hs1);
    apply (served_nothing R x1); try done; (split; [done|]); cbn [emit set_outputs outputs]; by rewrite asked_snoc.
Qed.

Definition ok_without_request (s : observer) (e : event) : Prop := ok s e ∧ no_request (mContext s) e.

(** C26: Once the framework has given its subscription object, it has been asked, after
    every message, for exactly the data items that some client subscribes to: at the end
    of every defined run without requestData in which updateSubscription is only used by
    clients without subscriptions.  What can be read after it was erased is not
    supposed ([E] is any). *)
Theorem framework_asked_for_what_is_needed es s :
  run (step E creatable copies) init es = Some s -> run_ok (step E creatable copies) ok_without_request init es ->
  mSubscriptionObj (mContext s) = true -> asked (outputs (mContext s)) = dom (mDataItemToClients s).
Proof.
  intros Hr Ho Hsub.
  assert (∃ t, represents s t ∧ served t) as ([R x] & (Ex & _ & Hd & _ & Hid) & Hs).
  { apply (run_invariant (step E creatable copies) ok_without_request (λ s, ∃ t, represents s t ∧ served t) init es s); [|exists spec_init; split; [apply init_represents|reflexivity]|done|done].
    intros s0 e s1 (t & Hrep & Hserved) [Hok Hnr] E1. destruct (step_represents s0 t e Hrep Hok) as (t2 & Et & [(s2 & E2 & Hrep' & _)|(E2 & _)]); [|congruence].
    rewrite E1 in E2. injection E2 as <-. exists t2. split; [done|]. apply (served_step t e); [|done..].
    destruct Hrep as [<- _]. exact Hnr. }
  unfold served in Hs. cbn [fst snd] in *. subst x. rewrite Hsub in Hs. rewrite Hs. apply set_eq. intros d.
  rewrite elem_of_dom_vals, Hid, clients_empty by done. destruct (decide (d ∈ subscribed R)); naive_solver.
Qed.
End refinement.

(** * Runs *)

(** The order of stdpp, memory that can still be read ([intact]) or not ([erased]), data
    items that can be created, and updated by other contents. *)
#[local] Instance some_order : Unordered.
Proof. by refine {| in_order := λ A _ _ s, elements s |}. Defined.
Definition intact : Erased := MkErased true (Some true).
Definition creates (id : Z) : bool := true.
Definition differs (new old : Z) : bool := negb (new =? old).
Definition all (i : nat) : bool := true.
Abbreviation runs := (run (step intact creates differs) init) (only parsing).
Definition gets (e : event) : list event := [e; Task all].
Definition two_clients : list event :=
  gets (SetSubscriptionObj true) ++ gets (Subscribe [5; 6] (Some 1) false) ++ gets (Subscribe [6] (Some 2) false).

Definition morning : list event :=
  two_clients ++ gets (UpdateSubscription [7] (Some 3)) ++ gets (Notify [MkDataItem 6 60; MkDataItem 8 80]) ++
  gets (Unsubscribe [6] (Some 1)) ++ gets (UnsubscribeAll (Some 2)).
#[local] Instance ok_without_request_dec s e : Decision (ok_without_request s e) := and_dec (ok_dec s e) (no_request_dec (mContext s) e).
Lemma framework_asked_for_what_is_needed_witness :
  match runs morning with
  | Some s => asked (outputs (mContext s)) = dom (mDataItemToClients s)
  | None => False
  end.
Proof.
  pose proof (framework_asked_for_what_is_needed intact creates differs morning) as Hc.
  assert (run_ok (step intact creates differs) ok_without_request init morning) as Ho by (apply (bool_decide_unpack _); vm_compute; exact I).
  destruct (runs morning) as [s|] eqn:E1.
  - apply (Hc s eq_refl Ho). revert E1. vm_compute. by intros [= <-].
  - revert E1. vm_compute. discriminate.
Defined.
Example morning_outputs :
  (λ s, outputs (mContext s)) <$> runs morning =
  Some [OutSubscribe [6; 5]; OutSubscribe [7]; OutNotify 2 [MkDataItem 6 60]; OutNotify 1 [MkDataItem 6 60]; OutUnsubscribe [6]].
Proof. vm_compute. reflexivity. Qed.

(** A client that replaces {5, 6} by {6, 7}: 6, which it keeps, is taken from it, and 5
    stays. *)
Definition replaced : list event :=
  gets (SetSubscriptionObj true) ++ gets (Subscribe [5; 6] (Some 1) false) ++ gets (UpdateSubscription [6; 7] (Some 1)).
Example update_drops_what_is_kept :
  (λ s, (mDataItemToClients s, drop 1 (outputs (mContext s)))) <$> runs (replaced ++ gets (Notify [MkDataItem 6 60])) =
  Some (<[5 := {[1]}]> (<[7 := {[1]}]> ∅), [OutSubscribe [7]; OutUnsubscribe [6]]).
Proof. vm_compute. reflexivity. Qed.
(** ... and the memory of the set is read after it was freed. *)
Example update_reads_freed_memory : run (step (MkErased true None) creates differs) init replaced = None.
Proof. vm_compute. reflexivity. Qed.
(** So is that of the last entry of a data item. *)
Example unsubscribe_reads_freed_memory :
  run (step (MkErased false (Some true)) creates differs) init (gets (Subscribe [5] (Some 1) false) ++ gets (Unsubscribe [5] (Some 1))) = None.
Proof. vm_compute. reflexivity. Qed.

(** The first client only requests data: nobody asks the framework for reports. *)
Example request_hides_subscription :
  (λ s, outputs (mContext s)) <$>
    runs (gets (SetSubscriptionObj true) ++ gets (Subscribe [5] (Some 1) true) ++ gets (Subscribe [5] (Some 2) false)) =
  Some [OutRequestData [5]].
Proof. vm_compute. reflexivity. Qed.

Example disconnect_returns_false :
  (λ s, outputs (mContext s)) <$> runs ([SetFrameworkActionReqObj true] ++ gets (DisconnectBackhaul "a"%string)) =
  Some [OutResult false; OutDisconnect "a"].
Proof. vm_compute. reflexivity. Qed.
