(* ===== verification/GeofenceAdapter.v ===== *)
(** gps/geofence/GeofenceAdapter.cpp: the geofences of the clients, the two maps
    that name them, the commands on several geofences at once, and restarts of
    the modem.

    Clients, the modem and LocApi put messages in the queue of the adapter's
    task.  A command on [n] geofences puts [n] calls in the queue of LocApi's
    task (addToCallQueue); each comes back to the adapter as a lambda, which asks
    LocApi for the operation; the result comes back as a second lambda, and the
    lambda of the last geofence reports to the client and deletes the arrays that
    all lambdas of the command share.  [step] executes one event; [None] is a use
    of an array after its deletion, or of a message after it was processed. *)

From stdpp Require Import list gmap sorting.
From S2P Require Import Prelude Runs DgnssNtrip GnssTracking LocEventMasks LocEvents.

Local Open Scope Z_scope.

(** * Data *)

Definition LOCATION_ERROR_GEOFENCES_AT_MAX : Z := 7.

Record GeofenceKey := GKey { key_client : Z; key_id : Z }.
#[export] Instance geofence_key_eq_dec : EqDecision GeofenceKey.
Proof. solve_decision. Defined.
#[export] Instance geofence_key_countable : Countable GeofenceKey.
Proof. refine (inj_countable' (λ k, (key_client k, key_id k)) (λ p, GKey p.1 p.2) _). by intros []. Defined.

(** operator< of the keys. *)
Definition gkey_lt (left right : GeofenceKey) : bool :=
  (key_id left <? key_id right)
  || ((key_id left =? key_id right) && (key_client left <? key_client right)).

Record GeofenceOption := GOption { breachTypeMask : Z; responsiveness : Z; dwellTime : Z }.
(** The doubles are only copied; a number stands for their 64 bits. *)
Record GeofenceInfo := GInfo { latitude : Z; longitude : Z; radius : Z }.

Record GeofenceObject := GObject {
  key : GeofenceKey; breachMask : Z; obj_responsiveness : Z; obj_dwellTime : Z;
  obj_latitude : Z; obj_longitude : Z; obj_radius : Z; paused : bool
}.

(** Which callbacks of a client the adapter looks at. *)
Record geo_callbacks := GCallbacks {
  geo_capabilitiesCb : bool; collectiveResponseCb : bool; geofenceBreachCb : bool; geofenceStatusCb : bool
}.

Inductive command := CmdAdd | CmdRemove | CmdPause | CmdResume | CmdModify.
#[export] Instance command_eq_dec : EqDecision command.
Proof. solve_decision. Defined.

(** The arrays of a command.  [mOptions] and [mInfos] may be null; an entry of
    [errs] is [None] until it is written.  [freed]: the arrays are deleted. *)
Record arrays := Arrays {
  mCommand : command; mIds : list Z; mOptions : option (list GeofenceOption); mInfos : option (list GeofenceInfo);
  errs : list (option Z); freed : bool
}.

(** What the lambdas of a command capture: the arrays, the index, the number of
    geofences and the client. *)
Record item := Item { mArrays : N; mIndex : nat; mCount : nat; mClient : Z }.

Inductive geo_request :=
  | CallQueue                                          (* addToCallQueue *)
  | ReqAddGeofence (clientId : Z) (options : GeofenceOption) (info : GeofenceInfo)
  | ReqRemoveGeofence (hwId clientId : Z)
  | ReqPauseGeofence (hwId clientId : Z)
  | ReqResumeGeofence (hwId clientId : Z)
  | ReqModifyGeofence (hwId clientId : Z) (options : GeofenceOption).

(** The lambdas given to LocApi. *)
Inductive geo_response :=
  | Called (k : command) (x : item)                    (* from the call queue *)
  | Added (x : item)
  | Removed (x : item) (hwId : Z)
  | Paused (x : item) (hwId : Z)
  | Resumed (x : item) (hwId : Z)
  | Modified (x : item) (hwId : Z)
  | ClientStopped (hwId : Z)                           (* stopClientSessions *)
  | Restarted (object : GeofenceObject) (options : GeofenceOption) (info : GeofenceInfo)
  | Ignored.                                           (* [] (LocationError) {} *)

Inductive geo_msg :=
  | MsgGeofences (k : command) (x : N) (count : nat) (client : Z)   (* MsgAddGeofences, ... *)
  | MsgGeofenceBreach (hwIds : list Z) (location breachType timestamp : Z)
  | MsgGeofenceStatus (available : Z)
  | GeoAddClient (client : Z) (cbs : geo_callbacks)
  | GeoRemoveClient (client : Z)
  | GeoRequestCapabilities (client : Z)
  | MsgSSREvent
  | GeoEngineLockStateEvent (st : Z)
  | GeoApiResponse (r : geo_response) (err : Z) (hwId : Z).

(** What the clients see. *)
Inductive geo_output :=
  | OutGeofencesResponse (x : N) (client : Z) (count : nat) (errs : list (option Z)) (ids : list Z) (delivered : bool)
  | OutBreach (client : Z) (ids : list Z) (location breachType timestamp : Z)
  | OutStatus (client : Z) (available : Z)
  | OutGeoCapabilities (client : Z).

(** ** State *)

Record geo_maps := GMaps { mGeofences : gmap Z GeofenceObject; mGeofenceIds : gmap GeofenceKey Z }.

(** A message kept in mPendingMsgs; [handed]: it was given to the task, which
    deletes it. *)
Record pending_msg := PendingMsg { pm_client : Z; handed : bool }.

(** The members of LocAdapterBase. *)
Record geo_base := GBase {
  mGeoClients : gmap Z geo_callbacks; mGeoEvtMask : Z; mGeoEngineKnown : bool; mGeoPending : list pending_msg
}.

(** A geofence of the modem, as the requests that succeeded made it. *)
Record fence := Fence { f_id : Z; f_options : GeofenceOption; f_info : GeofenceInfo; f_paused : bool }.

Record geo_api := GApi {
  geoLockState : Z; geo_requests : list (geo_request * geo_response); programmed : gmap Z fence
}.

Record geo_state := GState {
  maps : geo_maps; base : geo_base; lapi : geo_api; blocks : gmap N arrays; next_block : N;
  tasks : list geo_msg; geoSessionIdCounter : Z; outs : list geo_output
}.

Definition on_maps (f : geo_maps -> geo_maps) (s : geo_state) : geo_state :=
  GState (f (maps s)) (base s) (lapi s) (blocks s) (next_block s) (tasks s) (geoSessionIdCounter s) (outs s).
Definition on_base (f : geo_base -> geo_base) (s : geo_state) : geo_state :=
  GState (maps s) (f (base s)) (lapi s) (blocks s) (next_block s) (tasks s) (geoSessionIdCounter s) (outs s).
Definition on_lapi (f : geo_api -> geo_api) (s : geo_state) : geo_state :=
  GState (maps s) (base s) (f (lapi s)) (blocks s) (next_block s) (tasks s) (geoSessionIdCounter s) (outs s).
Definition on_blocks (f : gmap N arrays -> gmap N arrays) (s : geo_state) : geo_state :=
  GState (maps s) (base s) (lapi s) (f (blocks s)) (next_block s) (tasks s) (geoSessionIdCounter s) (outs s).
Definition on_tasks (f : list geo_msg -> list geo_msg) (s : geo_state) : geo_state :=
  GState (maps s) (base s) (lapi s) (blocks s) (next_block s) (f (tasks s)) (geoSessionIdCounter s) (outs s).
Definition output_geo (o : geo_output) (s : geo_state) : geo_state :=
  GState (maps s) (base s) (lapi s) (blocks s) (next_block s) (tasks s) (geoSessionIdCounter s) (outs s ++ [o]).

Definition send_geo (m : geo_msg) : geo_state -> geo_state := on_tasks (λ q, q ++ [m]).
Definition call_lapi (r : geo_request) (resp : geo_response) : geo_state -> geo_state :=
  on_lapi (λ a, GApi (geoLockState a) (geo_requests a ++ [(r, resp)]) (programmed a)).

(** ** The order in which std::map visits its entries *)

Definition key_le (a b : GeofenceKey * Z) : Prop := gkey_lt (fst b) (fst a) = false.
#[export] Instance key_le_dec : RelDecision key_le.
Proof. intros a b. apply bool_eq_dec. Defined.
Definition id_entries (m : gmap GeofenceKey Z) : list (GeofenceKey * Z) := merge_sort key_le (map_to_list m).

Definition hw_le {V} (a b : Z * V) : Prop := fst a <= fst b.
#[export] Instance hw_le_dec {V} : RelDecision (@hw_le V).
Proof. intros a b. apply Z_le_dec. Defined.
Definition hw_entries {V} (m : gmap Z V) : list (Z * V) := merge_sort hw_le (map_to_list m).

(** * Operations *)

Definition getHwIdFromClient (client clientId : Z) (s : geo_state) : option Z :=
  mGeofenceIds (maps s) !! GKey client clientId.
Definition getGeofenceKeyFromHwId (hwId : Z) (m : geo_maps) : option GeofenceKey :=
  key <$> mGeofences m !! hwId.

Definition object_of (k : GeofenceKey) (options : GeofenceOption) (info : GeofenceInfo) : GeofenceObject :=
  GObject k (breachTypeMask options) (responsiveness options) (dwellTime options)
    (latitude info) (longitude info) (radius info) false.
Definition saveGeofenceItem (client clientId hwId : Z) (options : GeofenceOption) (info : GeofenceInfo)
    (m : geo_maps) : geo_maps :=
  let k := GKey client clientId in
  GMaps (<[hwId := object_of k options info]> (mGeofences m)) (<[k := hwId]> (mGeofenceIds m)).

Definition removeGeofenceItem (hwId : Z) (m : geo_maps) : geo_maps :=
  match getGeofenceKeyFromHwId hwId m with
  | None => m
  | Some k =>
      match mGeofenceIds m !! k with
      | Some _ => GMaps (delete hwId (mGeofences m)) (delete k (mGeofenceIds m))
      | None => m
      end
  end.

Definition set_paused (b : bool) (o : GeofenceObject) : GeofenceObject :=
  GObject (key o) (breachMask o) (obj_responsiveness o) (obj_dwellTime o)
    (obj_latitude o) (obj_longitude o) (obj_radius o) b.
Definition set_options (options : GeofenceOption) (o : GeofenceObject) : GeofenceObject :=
  GObject (key o) (breachTypeMask options) (responsiveness options) (dwellTime options)
    (obj_latitude o) (obj_longitude o) (obj_radius o) (paused o).
Definition pauseGeofenceItem (hwId : Z) (m : geo_maps) : geo_maps :=
  GMaps (alter (set_paused true) hwId (mGeofences m)) (mGeofenceIds m).
Definition resumeGeofenceItem (hwId : Z) (m : geo_maps) : geo_maps :=
  GMaps (alter (set_paused false) hwId (mGeofences m)) (mGeofenceIds m).
Definition modifyGeofenceItem (hwId : Z) (options : GeofenceOption) (m : geo_maps) : geo_maps :=
  GMaps (alter (set_options options) hwId (mGeofences m)) (mGeofenceIds m).

(** ** Clients *)

Definition geo_client_mask (c : geo_callbacks) : Z :=
  Z.lor (if geofenceBreachCb c then Z.lor LOC_API_ADAPTER_BIT_BATCHED_GENFENCE_BREACH_REPORT
                                          LOC_API_ADAPTER_BIT_REPORT_GENFENCE_DWELL else 0)
        (if geofenceStatusCb c then LOC_API_ADAPTER_BIT_GEOFENCE_GEN_ALERT else 0).
Definition geo_updateClientsEventMask (s : geo_state) : geo_state :=
  let mask := foldl (λ mask e, Z.lor mask (geo_client_mask (snd e))) 0 (hw_entries (mGeoClients (base s))) in
  on_base (λ b, GBase (mGeoClients b) (new_evt_mask LOC_REGISTRATION_MASK_SET mask (mGeoEvtMask b))
                  (mGeoEngineKnown b) (mGeoPending b)) s.

Definition set_clients (m : gmap Z geo_callbacks) (s : geo_state) : geo_state :=
  geo_updateClientsEventMask
    (on_base (λ b, GBase m (mGeoEvtMask b) (mGeoEngineKnown b) (mGeoPending b)) s).
Definition geo_saveClient (client : Z) (cbs : geo_callbacks) (s : geo_state) : geo_state :=
  set_clients (<[client := cbs]> (mGeoClients (base s))) s.
Definition geo_eraseClient (client : Z) (s : geo_state) : geo_state :=
  set_clients (delete client (mGeoClients (base s))) s.

(** One round of the loop of stopClientSessions. *)
Definition stop_geofence (client : Z) (s : geo_state) (e : GeofenceKey * Z) : geo_state :=
  let '(k, hwId) := e in
  if client =? key_client k then
    let s := on_maps (λ m, GMaps (mGeofences m) (delete k (mGeofenceIds m))) s in
    call_lapi (ReqRemoveGeofence hwId (key_id k)) (ClientStopped hwId) s
  else s.
Definition geo_stopClientSessions (client : Z) (s : geo_state) : geo_state :=
  foldl (stop_geofence client) s (id_entries (mGeofenceIds (maps s))).

(** MsgRequestCapabilities *)
Definition geo_requestCapabilities (client : Z) (s : geo_state) : geo_state :=
  if negb (mGeoEngineKnown (base s)) then
    on_base (λ b, GBase (mGeoClients b) (mGeoEvtMask b) (mGeoEngineKnown b)
                    (mGeoPending b ++ [PendingMsg client false])) s
  else
    match mGeoClients (base s) !! client with
    | Some cbs => if geo_capabilitiesCb cbs then output_geo (OutGeoCapabilities client) s else s
    | None => s
    end.

Definition geo_broadcastCapabilities (s : geo_state) : geo_state :=
  foldl (λ s '(client, cbs), if geo_capabilitiesCb cbs then output_geo (OutGeoCapabilities client) s else s) s
    (hw_entries (mGeoClients (base s))).

(** ** Restarts of the modem *)

Definition options_of (o : GeofenceObject) : GeofenceOption :=
  GOption (breachMask o) (obj_responsiveness o) (obj_dwellTime o).
Definition info_of (o : GeofenceObject) : GeofenceInfo :=
  GInfo (obj_latitude o) (obj_longitude o) (obj_radius o).

Definition restartGeofences (s : geo_state) : geo_state :=
  if decide (mGeofences (maps s) = ∅) then s
  else
    let oldGeofences := mGeofences (maps s) in
    let s := on_maps (λ _, GMaps ∅ ∅) s in
    foldl (λ s '(_, object),
             call_lapi (ReqAddGeofence (key_id (key object)) (options_of object) (info_of object))
               (Restarted object (options_of object) (info_of object)) s) s (hw_entries oldGeofences).

Definition proc_MsgSSREvent (s : geo_state) : option geo_state :=
  let s := on_base (λ b, GBase (mGeoClients b) (mGeoEvtMask b) true (mGeoPending b)) s in
  let s := geo_broadcastCapabilities s in
  if geoLockState (lapi s) =? ENGINE_LOCK_STATE_ENABLED then
    let s := restartGeofences s in
    if existsb handed (mGeoPending (base s)) then None
    else
      let s := foldl (λ s p, send_geo (GeoRequestCapabilities (pm_client p)) s) s (mGeoPending (base s)) in
      Some (on_base (λ b, GBase (mGeoClients b) (mGeoEvtMask b) (mGeoEngineKnown b)
                            (map (λ p, PendingMsg (pm_client p) true) (mGeoPending b))) s)
  else Some s.

(** ** Commands *)

(** The arrays of a command that are not deleted. *)
Definition live (x : N) (s : geo_state) : option arrays :=
  match blocks s !! x with Some a => if freed a then None else Some a | None => None end.

Definition set_errs (l : list (option Z)) (a : arrays) : arrays :=
  Arrays (mCommand a) (mIds a) (mOptions a) (mInfos a) l (freed a).
Definition free_arrays (a : arrays) : arrays :=
  Arrays (mCommand a) (mIds a) (mOptions a) (mInfos a) (errs a) true.

(** errs[i] = err *)
Definition set_err (x : item) (err : Z) (s : geo_state) : option geo_state :=
  match live (mArrays x) s with
  | Some a => Some (on_blocks (<[mArrays x := set_errs (<[mIndex x := Some err]> (errs a)) a]>) s)
  | None => None
  end.

Definition geo_reportResponse (x : item) (a : arrays) (s : geo_state) : geo_state :=
  output_geo (OutGeofencesResponse (mArrays x) (mClient x) (mCount x) (errs a) (mIds a)
                (match mGeoClients (base s) !! mClient x with
                 | Some it => collectiveResponseCb it
                 | None => false
                 end)) s.

(** Send aggregated response on last item and cleanup *)
Definition finish (x : item) (s : geo_state) : option geo_state :=
  if (mIndex x =? mCount x - 1)%nat then
    match live (mArrays x) s with
    | Some a => Some (on_blocks (<[mArrays x := free_arrays a]>) (geo_reportResponse x a s))
    | None => None
    end
  else Some s.

Definition is_disabled (s : geo_state) : bool := geoLockState (lapi s) =? ENGINE_LOCK_STATE_DISABLED.
Definition succeeded (err : Z) : bool := err =? LOCATION_ERROR_SUCCESS.

(** The first lambda of MsgAddGeofences. *)
Definition call_add (x : item) (s : geo_state) : option geo_state :=
  a ← live (mArrays x) s;
  i ← mIds a !! mIndex x;
  o ← mOptions a ≫= lookup (mIndex x);
  info ← mInfos a ≫= lookup (mIndex x);
  Some (call_lapi (ReqAddGeofence i o info) (Added x) s).

(** The request that the first lambda of the other commands makes. *)
Definition geofence_request (k : command) (x : item) (hwId i : Z) (a : arrays) : option (geo_request * geo_response) :=
  match k with
  | CmdAdd => None
  | CmdRemove => Some (ReqRemoveGeofence hwId i, Removed x hwId)
  | CmdPause => Some (ReqPauseGeofence hwId i, Paused x hwId)
  | CmdResume => Some (ReqResumeGeofence hwId i, Resumed x hwId)
  | CmdModify =>
      o ← mOptions a ≫= lookup (mIndex x); Some (ReqModifyGeofence hwId i o, Modified x hwId)
  end.
(** The first lambda of the other commands: errs[i] is the result of the look up. *)
Definition call_known (k : command) (x : item) (s : geo_state) : option geo_state :=
  a ← live (mArrays x) s;
  i ← mIds a !! mIndex x;
  match getHwIdFromClient (mClient x) i s with
  | Some hwId =>
      '(r, resp) ← geofence_request k x hwId i a;
      s ← set_err x LOCATION_ERROR_SUCCESS s;
      Some (call_lapi r resp s)
  | None =>
      s ← set_err x LOCATION_ERROR_ID_UNKNOWN s;
      finish x s
  end.

(** The second lambdas. *)
Definition done_add (x : item) (err hwId : Z) (s : geo_state) : option geo_state :=
  s ← (if is_disabled s || succeeded err then
         a ← live (mArrays x) s;
         i ← mIds a !! mIndex x;
         o ← mOptions a ≫= lookup (mIndex x);
         info ← mInfos a ≫= lookup (mIndex x);
         Some (on_maps (saveGeofenceItem (mClient x) i hwId o info) s)
       else Some s);
  s ← set_err x err s;
  finish x s.
Definition done_remove (x : item) (hwId err : Z) (s : geo_state) : option geo_state :=
  let s := if is_disabled s || succeeded err then on_maps (removeGeofenceItem hwId) s else s in
  s ← set_err x err s;
  finish x s.
Definition done_pause (x : item) (hwId err : Z) (s : geo_state) : option geo_state :=
  let s := if succeeded err then on_maps (pauseGeofenceItem hwId) s else s in
  s ← set_err x err s;
  finish x s.
Definition done_resume (x : item) (hwId err : Z) (s : geo_state) : option geo_state :=
  if succeeded err then
    s ← set_err x err s;
    finish x (on_maps (resumeGeofenceItem hwId) s)
  else Some s.
Definition done_modify (x : item) (hwId err : Z) (s : geo_state) : option geo_state :=
  s ← (if is_disabled s || succeeded err then
         s ← set_err x err s;
         a ← live (mArrays x) s;
         o ← mOptions a ≫= lookup (mIndex x);
         Some (on_maps (modifyGeofenceItem hwId o) s)
       else Some s);
  finish x s.

Definition proc_response (r : geo_response) (err hwId : Z) (s : geo_state) : option geo_state :=
  match r with
  | Called CmdAdd x => call_add x s
  | Called k x => call_known k x s
  | Added x => done_add x err hwId s
  | Removed x h => done_remove x h err s
  | Paused x h => done_pause x h err s
  | Resumed x h => done_resume x h err s
  | Modified x h => done_modify x h err s
  | ClientStopped h =>
      Some (if succeeded err then on_maps (λ m, GMaps (delete h (mGeofences m)) (mGeofenceIds m)) s else s)
  | Restarted object options info =>
      if succeeded err then
        let s := if paused object
                 then call_lapi (ReqPauseGeofence hwId (key_id (key object))) Ignored s else s in
        Some (on_maps (saveGeofenceItem (key_client (key object)) (key_id (key object)) hwId options info) s)
      else Some s
  | Ignored => Some s
  end.

(** Some of the arrays the command uses are null. *)
Definition arrays_missing (a : arrays) : bool :=
  match mCommand a with
  | CmdAdd => match mOptions a, mInfos a with Some _, Some _ => false | _, _ => true end
  | CmdModify => match mOptions a with Some _ => false | None => true end
  | _ => false
  end.

(** MsgAddGeofences and the others: errs is allocated, then the calls are made. *)
Definition proc_MsgGeofences (k : command) (x : N) (count : nat) (client : Z) (s : geo_state) : option geo_state :=
  a ← live x s;
  if arrays_missing a then
    Some (on_blocks (<[x := set_errs (replicate count (Some LOCATION_ERROR_INVALID_PARAMETER)) a]>) s)
  else
    Some (foldl (λ s i, call_lapi CallQueue (Called k (Item x i count client)) s)
            (on_blocks (<[x := set_errs (replicate count None) a]>) s) (seq 0 count)).

(** ** Reports *)

(** The clients' ids of the reported geofences that belong to the client. *)
Definition breached_ids (client : Z) (hwIds : list Z) (m : geo_maps) : list Z :=
  omap (λ h, k ← getGeofenceKeyFromHwId h m; if key_client k =? client then Some (key_id k) else None) hwIds.
Definition geofenceBreach (hwIds : list Z) (location breachType timestamp : Z) (s : geo_state) : geo_state :=
  foldl (λ s '(client, cbs),
           let clientIds := breached_ids client hwIds (maps s) in
           if negb (match clientIds with [] => true | _ => false end) && geofenceBreachCb cbs
           then output_geo (OutBreach client clientIds location breachType timestamp) s else s)
    s (hw_entries (mGeoClients (base s))).
Definition geofenceStatus (available : Z) (s : geo_state) : geo_state :=
  foldl (λ s '(client, cbs), if geofenceStatusCb cbs then output_geo (OutStatus client available) s else s)
    s (hw_entries (mGeoClients (base s))).

(** ** The machine *)

Definition proc_geo (m : geo_msg) (s : geo_state) : option geo_state :=
  match m with
  | MsgGeofences k x count client => proc_MsgGeofences k x count client s
  | MsgGeofenceBreach hwIds location breachType timestamp =>
      Some (geofenceBreach hwIds location breachType timestamp s)
  | MsgGeofenceStatus available => Some (geofenceStatus available s)
  | GeoAddClient client cbs => Some (geo_saveClient client cbs s)
  | GeoRemoveClient client => Some (geo_eraseClient client (geo_stopClientSessions client s))
  | GeoRequestCapabilities client => Some (geo_requestCapabilities client s)
  | MsgSSREvent => proc_MsgSSREvent s
  | GeoEngineLockStateEvent _ => Some s      (* mPendingGnssEnabledMsgs is empty *)
  | GeoApiResponse r err hwId => proc_response r err hwId s
  end.

(** generateSessionId *)
Definition next_session_id (c : Z) : Z :=
  let c := wrap_u 32 (c + 1) in if c =? 2 ^ 32 - 1 then 1 else c.
Fixpoint generate_ids (count : nat) (c : Z) : list Z :=
  match count with
  | O => []
  | S count => let c := next_session_id c in c :: generate_ids count c
  end.

Inductive geo_event :=
  | AddGeofencesCommand (client : Z) (count : nat) (options : option (list GeofenceOption))
                        (infos : option (list GeofenceInfo))
  | GeofencesCommand (k : command) (client : Z) (ids : list Z) (options : option (list GeofenceOption))
  | GeofenceBreachEvent (hwIds : list Z) (location breachType timestamp : Z)
  | GeofenceStatusEvent (available : Z)
  | GeoAddClientCommand (client : Z) (cbs : geo_callbacks)
  | GeoRemoveClientCommand (client : Z)
  | GeoRequestCapabilitiesCommand (client : Z)
  | ModemRestart                               (* the modem lost its geofences, LocApi is open again *)
  | GeoEngineLock (st : Z)
  | GeoApiRun (err hwId : Z)                   (* LocApi executes its next request *)
  | GeoTaskRun.                                (* the adapter processes its next message *)

(** A command allocates copies of its arrays and sends its message. *)
Definition send_command (k : command) (client : Z) (ids : list Z) (options : option (list GeofenceOption))
    (infos : option (list GeofenceInfo)) (s : geo_state) : geo_state :=
  let x := next_block s in
  send_geo (MsgGeofences k x (length ids) client)
    (GState (maps s) (base s) (lapi s) (<[x := Arrays k ids options infos [] false]> (blocks s)) (N.succ x)
       (tasks s) (geoSessionIdCounter s) (outs s)).

Definition addGeofencesCommand (client : Z) (count : nat) (options : option (list GeofenceOption))
    (infos : option (list GeofenceInfo)) (s : geo_state) : geo_state :=
  match count with
  | O => s
  | _ =>
      let ids := generate_ids count (geoSessionIdCounter s) in
      let s := GState (maps s) (base s) (lapi s) (blocks s) (next_block s) (tasks s)
                 (List.last ids (geoSessionIdCounter s)) (outs s) in
      send_command CmdAdd client ids options infos s
  end.
(** removeGeofencesCommand, pauseGeofencesCommand, resumeGeofencesCommand,
    modifyGeofencesCommand *)
Definition geofencesCommand (k : command) (client : Z) (ids : list Z)
    (options : option (list GeofenceOption)) (s : geo_state) : geo_state :=
  match ids with
  | [] => s
  | _ => send_command k client ids options None s
  end.

(** geofenceBreachEvent *)
Definition geofenceBreachEvent (hwIds : list Z) (location breachType timestamp : Z) (s : geo_state) : geo_state :=
  match hwIds with
  | [] => s
  | _ => send_geo (MsgGeofenceBreach hwIds location breachType timestamp) s
  end.

(** What a request that succeeded changes in the modem. *)
Definition execute (r : geo_request) (hwId : Z) (p : gmap Z fence) : gmap Z fence :=
  match r with
  | CallQueue => p
  | ReqAddGeofence i o info => <[hwId := Fence i o info false]> p
  | ReqRemoveGeofence h _ => delete h p
  | ReqPauseGeofence h _ => alter (λ f, Fence (f_id f) (f_options f) (f_info f) true) h p
  | ReqResumeGeofence h _ => alter (λ f, Fence (f_id f) (f_options f) (f_info f) false) h p
  | ReqModifyGeofence h _ o => alter (λ f, Fence (f_id f) o (f_info f) (f_paused f)) h p
  end.

Definition geo_api_run (err hwId : Z) (s : geo_state) : geo_state :=
  match geo_requests (lapi s) with
  | [] => s
  | (r, resp) :: rs =>
      let err := match r with CallQueue => LOCATION_ERROR_SUCCESS | _ => err end in
      send_geo (GeoApiResponse resp err hwId)
        (on_lapi (λ a, GApi (geoLockState a) rs
                         (if succeeded err then execute r hwId (programmed a) else programmed a)) s)
  end.

Definition geo_task_run (s : geo_state) : option geo_state :=
  match tasks s with
  | [] => Some s
  | m :: q => proc_geo m (on_tasks (λ _, q) s)
  end.

Definition geo_step (s : geo_state) (e : geo_event) : option geo_state :=
  match e with
  | AddGeofencesCommand client count options infos => Some (addGeofencesCommand client count options infos s)
  | GeofencesCommand CmdAdd _ _ _ => Some s
  | GeofencesCommand k client ids options => Some (geofencesCommand k client ids options s)
  | GeofenceBreachEvent hwIds location breachType timestamp =>
      Some (geofenceBreachEvent hwIds location breachType timestamp s)
  | GeofenceStatusEvent available => Some (send_geo (MsgGeofenceStatus available) s)
  | GeoAddClientCommand client cbs => Some (send_geo (GeoAddClient client cbs) s)
  | GeoRemoveClientCommand client => Some (send_geo (GeoRemoveClient client) s)
  | GeoRequestCapabilitiesCommand client => Some (send_geo (GeoRequestCapabilities client) s)
  | ModemRestart =>
      Some (send_geo MsgSSREvent (on_lapi (λ a, GApi (geoLockState a) (geo_requests a) ∅) s))
  | GeoEngineLock st =>
      Some (send_geo (GeoEngineLockStateEvent st)
              (on_lapi (λ a, GApi st (geo_requests a) (programmed a)) s))
  | GeoApiRun err hwId => Some (geo_api_run err hwId s)
  | GeoTaskRun => geo_task_run s
  end.

Definition geo_init : geo_state :=
  GState (GMaps ∅ ∅) (GBase ∅ 0 false []) (GApi ENGINE_LOCK_STATE_ENABLED [] ∅) ∅ 0%N [] 1 [].
