(* ===== verification/GeofenceModem.v ===== *)
(** The geofences of the adapter and those of the modem (GeofenceAdapter.v):
    when nothing is waiting, the two maps of the adapter describe every geofence
    that the requests that succeeded have programmed. *)

From stdpp Require Import list gmap sorting.
From S2P Require Import Prelude Runs GnssTracking GeofenceAdapter.

Local Open Scope Z_scope.

(** * What a message does to the maps *)

Definition arguments : Type := list Z * option (list GeofenceOption) * option (list GeofenceInfo).
Definition args_of (a : arrays) : arguments := (mIds a, mOptions a, mInfos a).
Definition arguments_of (s : geo_state) : gmap N arguments := args_of <$> blocks s.

(** The geofence a command adds at an index, and its new options. *)
Definition added_geofence (a : option arguments) (i : nat) : option (Z * GeofenceOption * GeofenceInfo) :=
  '(ids, options, infos) ← a;
  id ← ids !! i; o ← options ≫= lookup i; info ← infos ≫= lookup i; Some (id, o, info).
Definition new_options (a : option arguments) (i : nat) : option GeofenceOption :=
  '(_, options, _) ← a; options ≫= lookup i.

Definition response_effect (args : gmap N arguments) (r : geo_response) (hwId : Z) (g : geo_maps) : geo_maps :=
  match r with
  | Called _ _ | Ignored => g
  | Added x =>
      match added_geofence (args !! mArrays x) (mIndex x) with
      | Some (i, o, info) => saveGeofenceItem (mClient x) i hwId o info g
      | None => g
      end
  | Removed _ h => removeGeofenceItem h g
  | Paused _ h => pauseGeofenceItem h g
  | Resumed _ h => resumeGeofenceItem h g
  | Modified x h =>
      match new_options (args !! mArrays x) (mIndex x) with
      | Some o => modifyGeofenceItem h o g
      | None => g
      end
  | ClientStopped h => GMaps (delete h (mGeofences g)) (mGeofenceIds g)
  | Restarted object o info => saveGeofenceItem (key_client (key object)) (key_id (key object)) hwId o info g
  end.

Definition msg_effect (args : gmap N arguments) (m : geo_msg) (g : geo_maps) : geo_maps :=
  match m with
  | GeoApiResponse r err hwId => if succeeded err then response_effect args r hwId g else g
  | MsgSSREvent => if decide (mGeofences g = ∅) then g else GMaps ∅ ∅
  | GeoRemoveClient c => GMaps (mGeofences g) (filter (λ e, key_client e.1 ≠ c) (mGeofenceIds g))
  | _ => g
  end.

(** The maps after the messages of the queue. *)
Definition absorbed (args : gmap N arguments) (q : list geo_msg) (g : geo_maps) : geo_maps :=
  foldl (λ g m, msg_effect args m g) g q.
Definition final_maps (s : geo_state) : geo_maps := absorbed (arguments_of s) (tasks s) (maps s).

(** * Handlers *)

(** What the parts of a handler that deal with the arrays keep. *)
Record framed (s s' : geo_state) : Prop := Framed {
  fr_maps : maps s' = maps s;
  fr_lapi : lapi s' = lapi s;
  fr_tasks : tasks s' = tasks s;
  fr_next : next_block s' = next_block s;
  fr_args : arguments_of s' = arguments_of s
}.

Lemma framed_refl s : framed s s.
Proof. by constructor. Qed.
Lemma framed_trans s1 s2 s3 : framed s1 s2 -> framed s2 s3 -> framed s1 s3.
Proof. intros [] []. constructor; intros; congruence. Qed.

Lemma live_Some x s a : live x s = Some a -> blocks s !! x = Some a ∧ freed a = false.
Proof. unfold live. intros H. by case_match; [case_match|]; simplify_eq. Qed.

Lemma update_block_args (x : N) (a b : arrays) s s' :
  blocks s !! x = Some a -> args_of b = args_of a ->
  blocks s' = <[x := b]> (blocks s) -> arguments_of s' = arguments_of s.
Proof.
  intros Ha Hb E. unfold arguments_of. rewrite E, fmap_insert, Hb. apply insert_id.
  by rewrite lookup_fmap, Ha.
Qed.

Lemma set_err_framed x err s s' : set_err x err s = Some s' -> framed s s'.
Proof.
  unfold set_err. intros H. destruct (live (mArrays x) s) as [a|] eqn:E; [|done]. injection H as <-.
  apply live_Some in E as [E _]. constructor; try done. eapply update_block_args; [exact E| |reflexivity]; reflexivity.
Qed.
Lemma finish_framed x s s' : finish x s = Some s' -> framed s s'.
Proof.
  unfold finish. intros H. case_match; [|injection H as <-; apply framed_refl].
  destruct (live (mArrays x) s) as [a|] eqn:E; [|done]. injection H as <-.
  apply live_Some in E as [E _]. constructor; try done. eapply update_block_args; [exact E| |reflexivity]; reflexivity.
Qed.
#[local] Hint Resolve framed_refl framed_trans set_err_framed finish_framed : core.

(** ** What a handler asks of LocApi *)

(** The request and its response name the same geofence with the same values. *)
Definition coherent (args : gmap N arguments) (rr : geo_request * geo_response) : Prop :=
  match rr with
  | (CallQueue, Called _ _) => True
  | (ReqAddGeofence i o info, Added x) => added_geofence (args !! mArrays x) (mIndex x) = Some (i, o, info)
  | (ReqAddGeofence i o info, Restarted object o' info') => i = key_id (key object) ∧ o = o' ∧ info = info'
  | (ReqRemoveGeofence h _, Removed _ h') => h = h'
  | (ReqRemoveGeofence h _, ClientStopped h') => h = h'
  | (ReqPauseGeofence h _, Paused _ h') => h = h'
  | (ReqPauseGeofence h _, Ignored) => True
  | (ReqResumeGeofence h _, Resumed _ h') => h = h'
  | (ReqModifyGeofence h _ o, Modified x h') => h = h' ∧ new_options (args !! mArrays x) (mIndex x) = Some o
  | _ => False
  end.

(** The arrays that a response uses. *)
Definition arrays_of_response (r : geo_response) : option N :=
  match r with
  | Called _ x | Added x | Removed x _ | Paused x _ | Resumed x _ | Modified x _ => Some (mArrays x)
  | _ => None
  end.
Definition arrays_of_msg (m : geo_msg) : option N :=
  match m with
  | MsgGeofences _ x _ _ => Some x
  | GeoApiResponse r _ _ => arrays_of_response r
  | _ => None
  end.

(** The geofences that wait to be removed with their client. *)
Definition stopped_of (r : geo_response) : list Z := match r with ClientStopped h => [h] | _ => [] end.
Definition stopped_of_msg (m : geo_msg) : list Z := match m with GeoApiResponse r _ _ => stopped_of r | _ => [] end.

(** A handler changes the maps as [msg_effect] says, keeps the rest, and asks
    for the requests [rs]. *)
Record handled (m : geo_msg) (s s' : geo_state) (rs : list (geo_request * geo_response)) : Prop := Handled {
  hd_maps : maps s' = msg_effect (arguments_of s) m (maps s);
  hd_lapi : lapi s' = GApi (geoLockState (lapi s)) (geo_requests (lapi s) ++ rs) (programmed (lapi s));
  hd_tasks : ∃ ms, tasks s' = tasks s ++ ms ∧ Forall (λ m, ∃ c, m = GeoRequestCapabilities c) ms;
  hd_next : next_block s' = next_block s;
  hd_args : arguments_of s' = arguments_of s;
  hd_coherent : Forall (coherent (arguments_of s)) rs;
  hd_arrays : Forall (λ rr, ∀ x, arrays_of_response rr.2 = Some x -> arrays_of_msg m = Some x) rs;
  hd_stopped : ∀ h, h ∈ rs ≫= (λ rr, stopped_of rr.2) ->
      ∃ c k, m = GeoRemoveClient c ∧ mGeofenceIds (maps s) !! k = Some h ∧ key_client k = c
}.

Lemma framed_handled m s s1 s' rs :
  handled m s s1 rs -> framed s1 s' -> handled m s s' rs.
Proof.
  intros [H1 H2 H3 H4 H5 H6 H7 H8] [G1 G2 G3 G4 G5].
  constructor; [congruence|congruence|by rewrite G3|congruence|congruence|done..].
Qed.
Lemma framed_handled_pre m s s1 s' rs :
  framed s s1 -> handled m s1 s' rs -> handled m s s' rs.
Proof.
  intros [G1 G2 G3 G4 G5] [H1 H2 H3 H4 H5 H6 H7 H8]. rewrite G1, G2, G3, G4, G5 in *. by constructor.
Qed.

(** The simple handlers: no request, the maps changed by a function. *)
Lemma handled_on_maps m s f :
  f (maps s) = msg_effect (arguments_of s) m (maps s) -> handled m s (on_maps f s) [].
Proof.
  intros E. constructor; simpl; try done.
  - by destruct (lapi s); rewrite app_nil_r.
  - exists []. by rewrite app_nil_r.
  - intros h Hh. by apply elem_of_nil in Hh.
Qed.
Lemma handled_keep m s : msg_effect (arguments_of s) m (maps s) = maps s -> handled m s s [].
Proof.
  intros E. assert (Hs : on_maps (λ _, maps s) s = s) by by destruct s.
  rewrite <- Hs at 2. by apply handled_on_maps.
Qed.
Lemma handled_call m s r resp :
  msg_effect (arguments_of s) m (maps s) = maps s -> coherent (arguments_of s) (r, resp) ->
  (∀ x, arrays_of_response resp = Some x -> arrays_of_msg m = Some x) -> stopped_of resp = [] ->
  handled m s (call_lapi r resp s) [(r, resp)].
Proof.
  intros E Hc Ha Hs. constructor; simpl; try done.
  - exists []. by rewrite app_nil_r.
  - by constructor.
  - by constructor.
  - rewrite app_nil_r, Hs. intros h Hh. by apply elem_of_nil in Hh.
Qed.

Lemma live_args x s a : live x s = Some a -> arguments_of s !! x = Some (args_of a).
Proof. intros [H _]%live_Some. unfold arguments_of. by rewrite lookup_fmap, H. Qed.

(** Taking an [option] do block apart. *)
Ltac bind_inv :=
  repeat match goal with
  | H : (_ ≫= _) = Some _ |- _ => apply bind_Some in H as (? & ? & H)
  | H : Some _ = Some _ |- _ => injection H as H
  end.

Lemma call_add_handled x s s' err hwId :
  call_add x s = Some s' -> ∃ rs, handled (GeoApiResponse (Called CmdAdd x) err hwId) s s' rs.
Proof.
  unfold call_add. intros H. apply bind_Some in H as (a & Ha & H). apply bind_Some in H as (i & Hi & H).
  apply bind_Some in H as (o & Ho & H). apply bind_Some in H as (info & Hinfo & [= <-]).
  eexists. apply handled_call; simpl; try done; [simpl; by destruct (succeeded err)|].
  rewrite (live_args _ _ _ Ha). simpl. by rewrite Hi, Ho, Hinfo.
Qed.

Lemma call_known_handled k x s s' err hwId :
  call_known k x s = Some s' -> ∃ rs, handled (GeoApiResponse (Called k x) err hwId) s s' rs.
Proof.
  unfold call_known. intros H. apply bind_Some in H as (a & Ha & H). apply bind_Some in H as (i & Hi & H).
  destruct (getHwIdFromClient (mClient x) i s) as [h|].
  - apply bind_Some in H as ([r resp] & Hr & H). apply bind_Some in H as (s1 & Hs & [= <-]).
    apply set_err_framed in Hs. pose proof (fr_args _ _ Hs) as Hargs.
    exists [(r, resp)]. eapply framed_handled_pre; [exact Hs|].
    apply handled_call; [simpl; by destruct (succeeded err)|..].
    + rewrite Hargs. destruct k; simpl in Hr; simplify_eq/=; try done.
      apply bind_Some in Hr as (o & Ho & [= <- <-]). simpl. by rewrite (live_args _ _ _ Ha).
    + intros y. destruct k; simpl in Hr; simplify_eq/=; try done.
      by apply bind_Some in Hr as (o & Ho & [= <- <-]).
    + destruct k; simpl in Hr; simplify_eq/=; try done. by apply bind_Some in Hr as (o & Ho & [= <- <-]).
  - apply bind_Some in H as (s1 & Hs & H). exists [].
    eapply framed_handled; [apply handled_keep; simpl; by destruct (succeeded err)|].
    eapply framed_trans; eauto.
Qed.

Definition enabled (s : geo_state) : Prop := geoLockState (lapi s) = ENGINE_LOCK_STATE_ENABLED.
Lemma enabled_not_disabled s : enabled s -> is_disabled s = false.
Proof. unfold enabled, is_disabled. by intros ->. Qed.

(** After the maps are changed, the result is stored and the command may end. *)
Lemma handled_finish m s f x err s1 s' :
  f (maps s) = msg_effect (arguments_of s) m (maps s) ->
  set_err x err (on_maps f s) = Some s1 -> finish x s1 = Some s' -> handled m s s' [].
Proof.
  intros E H1 H2. eapply framed_handled; [by apply handled_on_maps|].
  eapply framed_trans; eauto.
Qed.

Lemma on_maps_id s : on_maps (λ g, g) s = s.
Proof. by destruct s. Qed.

Lemma done_add_handled x err hwId s s' :
  enabled s -> done_add x err hwId s = Some s' -> handled (GeoApiResponse (Added x) err hwId) s s' [].
Proof.
  unfold done_add. intros He H. rewrite (enabled_not_disabled s He) in H. simpl in H.
  destruct (succeeded err) eqn:Ee.
  - apply bind_Some in H as (s0 & H0 & H). apply bind_Some in H0 as (a & Ha & H0).
    apply bind_Some in H0 as (i & Hi & H0). apply bind_Some in H0 as (o & Ho & H0).
    apply bind_Some in H0 as (info & Hinfo & [= <-]). apply bind_Some in H as (s1 & H1 & H2).
    eapply handled_finish; [|exact H1|exact H2].
    simpl. rewrite Ee, (live_args _ _ _ Ha). simpl. by rewrite Hi, Ho, Hinfo.
  - apply bind_Some in H as (s0 & [= <-] & H). apply bind_Some in H as (s1 & H1 & H2).
    rewrite <- (on_maps_id s) in H1.
    eapply handled_finish; [|exact H1|exact H2]. simpl. by rewrite Ee.
Qed.
Lemma done_remove_handled x h err hwId s s' :
  enabled s -> done_remove x h err s = Some s' -> handled (GeoApiResponse (Removed x h) err hwId) s s' [].
Proof.
  unfold done_remove. intros He H. rewrite (enabled_not_disabled s He) in H. simpl in H.
  apply bind_Some in H as (s1 & H1 & H2).
  destruct (succeeded err) eqn:Ee; [|rewrite <- (on_maps_id s) in H1];
    (eapply handled_finish; [|exact H1|exact H2]); simpl; by rewrite Ee.
Qed.
Lemma done_pause_handled x h err hwId s s' :
  done_pause x h err s = Some s' -> handled (GeoApiResponse (Paused x h) err hwId) s s' [].
Proof.
  unfold done_pause. intros H. apply bind_Some in H as (s1 & H1 & H2).
  destruct (succeeded err) eqn:Ee; [|rewrite <- (on_maps_id s) in H1];
    (eapply handled_finish; [|exact H1|exact H2]); simpl; by rewrite Ee.
Qed.
Lemma done_resume_handled x h err hwId s s' :
  done_resume x h err s = Some s' -> handled (GeoApiResponse (Resumed x h) err hwId) s s' [].
Proof.
  unfold done_resume. intros H. destruct (succeeded err) eqn:Ee.
  - apply bind_Some in H as (s1 & H1 & H2). apply set_err_framed in H1.
    eapply framed_handled_pre; [exact H1|]. eapply framed_handled; [|eapply finish_framed, H2].
    apply handled_on_maps. simpl. by rewrite Ee.
  - injection H as <-. apply handled_keep. simpl. by rewrite Ee.
Qed.
Lemma done_modify_handled x h err hwId s s' :
  enabled s -> done_modify x h err s = Some s' -> handled (GeoApiResponse (Modified x h) err hwId) s s' [].
Proof.
  unfold done_modify. intros He H. rewrite (enabled_not_disabled s He) in H. simpl in H.
  destruct (succeeded err) eqn:Ee.
  - apply bind_Some in H as (s0 & H0 & H). apply bind_Some in H0 as (s1 & H1 & H0).
    apply bind_Some in H0 as (a & Ha & H0). apply bind_Some in H0 as (o & Ho & [= <-]).
    apply set_err_framed in H1. eapply framed_handled_pre; [exact H1|].
    eapply framed_handled; [|eapply finish_framed, H]. apply handled_on_maps.
    simpl. rewrite Ee, (live_args _ _ _ Ha). simpl. by rewrite Ho.
  - eapply framed_handled; [|eapply finish_framed, H]. apply handled_keep. simpl. by rewrite Ee.
Qed.

(** ** The loops *)

Lemma foldl_call_lapi {A} (f : A -> geo_request * geo_response) (l : list A) s :
  foldl (λ s a, call_lapi (f a).1 (f a).2 s) s l =
  on_lapi (λ a, GApi (geoLockState a) (geo_requests a ++ map f l) (programmed a)) s.
Proof.
  revert s. induction l as [|a l IH]; intros s; simpl.
  - destruct s as [? ? []]. unfold on_lapi. simpl. by rewrite app_nil_r.
  - rewrite IH. destruct s as [? ? []]. unfold call_lapi, on_lapi. simpl.
    rewrite <- app_assoc. by destruct (f a).
Qed.

Lemma proc_MsgGeofences_handled k x n c s s' :
  proc_MsgGeofences k x n c s = Some s' -> ∃ rs, handled (MsgGeofences k x n c) s s' rs.
Proof.
  unfold proc_MsgGeofences. intros H. apply bind_Some in H as (a & Ha & H).
  pose proof (live_Some _ _ _ Ha) as [Hb _].
  assert (Hf : ∀ l, framed s (on_blocks <[x := set_errs l a]> s)).
  { intros l. constructor; try done. eapply update_block_args; [exact Hb| |reflexivity]. done. }
  destruct (arrays_missing a); injection H as <-.
  - exists []. eapply framed_handled; [by apply handled_keep|apply Hf].
  - set (f := λ i, (CallQueue, Called k (Item x i n c))).
    exists (map f (seq 0 n)). eapply framed_handled_pre; [apply Hf|].
    change (λ s i, call_lapi CallQueue (Called k (Item x i n c)) s) with (λ s i, call_lapi (f i).1 (f i).2 s).
    rewrite foldl_call_lapi. constructor; simpl; try done.
    + exists []. by rewrite app_nil_r.
    + apply Forall_forall. intros rr (i & -> & _)%list_elem_of_fmap. done.
    + apply Forall_forall. intros rr (i & -> & _)%list_elem_of_fmap y [= <-]. done.
    + intros h (rr & Hh & (i & -> & _)%list_elem_of_fmap)%list_elem_of_bind. by apply elem_of_nil in Hh.
Qed.

(** stopClientSessions: the entries of the client are erased, a removal is asked
    for each. *)
Definition stop_requests (c : Z) (l : list (GeofenceKey * Z)) : list (geo_request * geo_response) :=
  map (λ e, (ReqRemoveGeofence e.2 (key_id e.1), ClientStopped e.2)) (filter (λ e, key_client e.1 = c) l).
Definition delete_keys (c : Z) (l : list (GeofenceKey * Z)) (m : gmap GeofenceKey Z) : gmap GeofenceKey Z :=
  foldl (λ m e, if c =? key_client e.1 then delete e.1 m else m) m l.

Lemma stop_geofences_eq c l s :
  foldl (stop_geofence c) s l =
  on_lapi (λ a, GApi (geoLockState a) (geo_requests a ++ stop_requests c l) (programmed a))
    (on_maps (λ g, GMaps (mGeofences g) (delete_keys c l (mGeofenceIds g))) s).
Proof.
  revert s. induction l as [|[k h] l IH]; intros s; simpl.
  - destruct s as [[] ? []]. unfold on_lapi, on_maps. simpl. by rewrite app_nil_r.
  - rewrite IH. unfold stop_requests. rewrite filter_cons. simpl.
    destruct (Z.eqb_spec c (key_client k)) as [->|Hne].
    + rewrite decide_True by done. destruct s as [[] ? []].
      unfold call_lapi, on_lapi, on_maps. simpl. by rewrite <- app_assoc.
    + by rewrite decide_False by congruence.
Qed.

Lemma delete_keys_lookup c l m k :
  delete_keys c l m !! k =
  if decide (key_client k = c ∧ k ∈ l.*1) then None else m !! k.
Proof.
  revert m. induction l as [|[k' h] l IH]; intros m; csimpl.
  - rewrite decide_False; [done|]. intros [_ []%elem_of_nil].
  - rewrite IH. clear IH. destruct (Z.eqb_spec c (key_client k')) as [->|Hne].
    + destruct (decide (k = k')) as [->|Hk].
      * rewrite lookup_delete_eq. rewrite (decide_True (P := _ ∧ k' ∈ k' :: _)) by set_solver. by case_decide.
      * rewrite lookup_delete_ne by done. repeat case_decide; set_solver.
    + repeat case_decide; set_solver.
Qed.

Lemma id_entries_spec m k h : (k, h) ∈ id_entries m <-> m !! k = Some h.
Proof. unfold id_entries. by rewrite merge_sort_Permutation, elem_of_map_to_list. Qed.

Lemma stopClientSessions_handled c s :
  handled (GeoRemoveClient c) s (geo_stopClientSessions c s)
    (stop_requests c (id_entries (mGeofenceIds (maps s)))).
Proof.
  unfold geo_stopClientSessions. rewrite stop_geofences_eq. constructor; simpl; try done.
  - f_equal. apply map_eq. intros k. rewrite delete_keys_lookup.
    destruct (mGeofenceIds (maps s) !! k) as [h|] eqn:E.
    + case_decide as D.
      * symmetry. apply map_lookup_filter_None. right. intros h' Hh' D'. naive_solver.
      * symmetry. apply map_lookup_filter_Some. split; [done|]. simpl. intros Hc. apply D. split; [done|].
        apply list_elem_of_fmap. exists (k, h). split; [done|]. by apply id_entries_spec.
    + rewrite (proj2 (map_lookup_filter_None _ _ _)) by by left. by case_decide.
  - exists []. by rewrite app_nil_r.
  - apply Forall_forall. intros rr (e & -> & _)%list_elem_of_fmap. done.
  - apply Forall_forall. intros rr (e & -> & _)%list_elem_of_fmap y. done.
  - intros h (rr & Hh & ([k h'] & -> & [Hc Hin]%list_elem_of_filter)%list_elem_of_fmap)%list_elem_of_bind.
    apply list_elem_of_singleton in Hh as ->. exists c, k. split; [done|]. by rewrite <- id_entries_spec.
Qed.

(** Loops that only report to clients. *)
Lemma foldl_framed {A} (f : geo_state -> A -> geo_state) l s :
  (∀ s a, framed s (f s a)) -> framed s (foldl f s l).
Proof. intros H. revert s. induction l as [|a l IH]; intros s; simpl; eauto. Qed.
Lemma output_framed o s : framed s (output_geo o s).
Proof. by constructor. Qed.
Lemma on_base_framed f s : framed s (on_base f s).
Proof. by constructor. Qed.
#[local] Hint Resolve output_framed on_base_framed : core.

Lemma broadcast_framed s : framed s (geo_broadcastCapabilities s).
Proof. apply foldl_framed. intros s' [c cbs]. case_match; auto. Qed.
Lemma breach_framed l a b c s : framed s (geofenceBreach l a b c s).
Proof. apply foldl_framed. intros s' [k cbs]. simpl. case_match; auto. Qed.
Lemma status_framed a s : framed s (geofenceStatus a s).
Proof. apply foldl_framed. intros s' [c cbs]. case_match; auto. Qed.
Lemma request_capabilities_framed c s : framed s (geo_requestCapabilities c s).
Proof. unfold geo_requestCapabilities. repeat case_match; auto. Qed.
Lemma set_clients_framed m s : framed s (set_clients m s).
Proof. unfold set_clients, geo_updateClientsEventMask. simpl. eauto. Qed.

Definition restart_request (o : GeofenceObject) : geo_request * geo_response :=
  (ReqAddGeofence (key_id (key o)) (options_of o) (info_of o), Restarted o (options_of o) (info_of o)).
Definition restart_requests (g : geo_maps) : list (geo_request * geo_response) :=
  map (λ e, restart_request e.2) (hw_entries (mGeofences g)).

Lemma restart_loop_eq l s :
  foldl (λ s '(_, object),
           call_lapi (ReqAddGeofence (key_id (key object)) (options_of object) (info_of object))
             (Restarted object (options_of object) (info_of object)) s) s l =
  on_lapi (λ a, GApi (geoLockState a) (geo_requests a ++ map (λ e : Z * GeofenceObject, restart_request e.2) l)
                  (programmed a)) s.
Proof.
  rewrite <- (foldl_call_lapi (λ e : Z * GeofenceObject, restart_request e.2)).
  revert s. induction l as [|[h o] l IH]; intros s; [done|]. simpl. by rewrite IH.
Qed.

Lemma restartGeofences_handled s :
  ∃ rs, handled MsgSSREvent s (restartGeofences s) rs.
Proof.
  unfold restartGeofences. destruct (decide (mGeofences (maps s) = ∅)) as [E|E].
  { exists []. apply handled_keep. simpl. by rewrite decide_True. }
  exists (restart_requests (maps s)).
  rewrite restart_loop_eq. constructor; simpl; try done.
  - by rewrite decide_False.
  - exists []. by rewrite app_nil_r.
  - apply Forall_forall. intros rr (e & -> & _)%list_elem_of_fmap. done.
  - apply Forall_forall. intros rr (e & -> & _)%list_elem_of_fmap y. done.
  - intros h (rr & Hh & (e & -> & _)%list_elem_of_fmap)%list_elem_of_bind. by apply elem_of_nil in Hh.
Qed.

Lemma send_capabilities_eq l s :
  foldl (λ s p, send_geo (GeoRequestCapabilities (pm_client p)) s) s l =
  on_tasks (λ q, q ++ map (λ p, GeoRequestCapabilities (pm_client p)) l) s.
Proof.
  revert s. induction l as [|p l IH]; intros s; simpl.
  - destruct s. unfold on_tasks. simpl. by rewrite app_nil_r.
  - rewrite IH. destruct s. unfold send_geo, on_tasks. simpl. by rewrite <- app_assoc.
Qed.

Lemma proc_MsgSSREvent_handled s s' :
  enabled s -> proc_MsgSSREvent s = Some s' -> ∃ rs, handled MsgSSREvent s s' rs.
Proof.
  unfold proc_MsgSSREvent. intros He H.
  set (s1 := geo_broadcastCapabilities _) in H.
  assert (Hf : framed s s1).
  { subst s1. eapply framed_trans; [|apply broadcast_framed]. apply on_base_framed. }
  assert (E1 : (geoLockState (lapi s1) =? ENGINE_LOCK_STATE_ENABLED) = true).
  { rewrite (fr_lapi _ _ Hf). by apply Z.eqb_eq. }
  rewrite E1 in H. clearbody s1. case_match; [done|]. injection H as <-.
  destruct (restartGeofences_handled s1) as [rs Hr].
  exists rs. eapply framed_handled_pre; [exact Hf|]. eapply framed_handled; [|apply on_base_framed].
  rewrite send_capabilities_eq. destruct Hr. constructor; simpl; try done.
  destruct hd_tasks0 as (ms & -> & Hms). eexists (ms ++ _). split; [by rewrite <- app_assoc|].
  apply Forall_app. split; [done|]. apply Forall_forall. intros m (p & -> & _)%list_elem_of_fmap. eauto.
Qed.

Lemma restarted_handled o opts info err hwId s s' :
  proc_response (Restarted o opts info) err hwId s = Some s' ->
  ∃ rs, handled (GeoApiResponse (Restarted o opts info) err hwId) s s' rs.
Proof.
  simpl. intros H. destruct (succeeded err) eqn:Ee; injection H as <-;
    [|exists []; apply handled_keep; simpl; by rewrite Ee].
  eexists (if paused o then [(ReqPauseGeofence hwId (key_id (key o)), Ignored)] else []).
  destruct (paused o).
  - constructor; simpl; try done; [by rewrite Ee|..].
    + exists []. by rewrite app_nil_r.
    + by repeat constructor.
    + by repeat constructor.
    + intros h Hh. by apply elem_of_nil in Hh.
  - apply handled_on_maps. simpl. by rewrite Ee.
Qed.

(** Every message. *)
Lemma proc_geo_handled m s s' :
  enabled s -> proc_geo m s = Some s' -> ∃ rs, handled m s s' rs.
Proof.
  intros He H. destruct m as [k x n c|l a b t|a|c cbs|c|c| |st|r err h]; simpl in H; simplify_eq.
  - by eapply proc_MsgGeofences_handled.
  - exists []. eapply framed_handled; [by apply handled_keep|apply breach_framed].
  - exists []. eapply framed_handled; [by apply handled_keep|apply status_framed].
  - exists []. eapply framed_handled; [by apply handled_keep|apply set_clients_framed].
  - eexists. eapply framed_handled; [apply stopClientSessions_handled|apply set_clients_framed].
  - exists []. eapply framed_handled; [by apply handled_keep|apply request_capabilities_framed].
  - by apply proc_MsgSSREvent_handled.
  - exists []. by apply handled_keep.
  - destruct r as [k x|x|x h'|x h'|x h'|x h'|h'|o opts info|].
    + destruct k; [by apply call_add_handled|by eapply call_known_handled..].
    + eexists. by apply done_add_handled.
    + eexists. by apply done_remove_handled.
    + eexists. by apply done_pause_handled.
    + eexists. by apply done_resume_handled.
    + eexists. by apply done_modify_handled.
    + exists []. simpl in H. injection H as <-. destruct (succeeded err) eqn:Ee.
      * apply handled_on_maps. simpl. by rewrite Ee.
      * apply handled_keep. simpl. by rewrite Ee.
    + by apply restarted_handled.
    + exists []. injection H as <-. apply handled_keep. simpl. by destruct (succeeded err).
Qed.

(** * The invariant *)

(** The adapter's record of a geofence and the modem's.  A geofence that is
    paused for the adapter is paused in the modem. *)
Definition agrees (f : fence) (o : GeofenceObject) : Prop :=
  f_id f = key_id (key o) ∧ f_options f = options_of o ∧ f_info f = info_of o
  ∧ (paused o = true -> f_paused f = true).

(** The new geofences that the waiting messages bring. *)
Definition added_of_msg (m : geo_msg) : list Z :=
  match m with
  | GeoApiResponse (Added _ | Restarted _ _ _) err h => if succeeded err then [h] else []
  | _ => []
  end.
Definition all_added (s : geo_state) : list Z := tasks s ≫= added_of_msg.
Definition all_stopped (s : geo_state) : list Z :=
  (geo_requests (lapi s) ≫= λ rr, stopped_of rr.2) ++ (tasks s ≫= stopped_of_msg).

(** Every id of a client names a geofence with that key. *)
Definition ids_named (g : geo_maps) : Prop :=
  ∀ k h, mGeofenceIds g !! k = Some h -> ∃ o, mGeofences g !! h = Some o ∧ key o = k.

(** The geofences [p] of the modem and the maps [g] of the adapter. *)
Record consistent (p : gmap Z fence) (g : geo_maps) : Prop := Consistent {
  cs_agree : ∀ h f, p !! h = Some f -> ∃ o, mGeofences g !! h = Some o ∧ agrees f o;
  cs_ids : ∀ k h, mGeofenceIds g !! k = Some h -> is_Some (p !! h);
  cs_named : ids_named g
}.

Record geo_inv (s : geo_state) : Prop := GeoInv {
  gi_enabled : enabled s;
  gi_final : consistent (programmed (lapi s)) (final_maps s);
  gi_now : ids_named (maps s);
  gi_added : NoDup (all_added s) ∧ ∀ h, h ∈ all_added s -> mGeofences (maps s) !! h = None;
  gi_stopped : ∀ h, h ∈ all_stopped s -> (∀ k, mGeofenceIds (maps s) !! k ≠ Some h) ∧ h ∉ all_added s;
  gi_coherent : Forall (coherent (arguments_of s)) (geo_requests (lapi s));
  gi_requests : Forall (λ rr, ∀ x, arrays_of_response rr.2 = Some x -> (x < next_block s)%N) (geo_requests (lapi s));
  gi_tasks : Forall (λ m, ∀ x, arrays_of_msg m = Some x -> (x < next_block s)%N) (tasks s)
}.

(** ** Effects *)

Lemma ids_named_alter g (f : GeofenceObject -> GeofenceObject) h :
  (∀ o, key (f o) = key o) -> ids_named g -> ids_named (GMaps (alter f h (mGeofences g)) (mGeofenceIds g)).
Proof.
  intros Hf Hg k h' Hk. destruct (Hg k h' Hk) as (o & Ho & Hok). simpl.
  destruct (decide (h' = h)) as [->|]; [|rewrite lookup_alter_ne by done; eauto].
  rewrite lookup_alter_eq, Ho. simpl. eexists. split; [done|]. by rewrite Hf.
Qed.
Lemma ids_named_save g c i h o info :
  ids_named g -> mGeofences g !! h = None -> ids_named (saveGeofenceItem c i h o info g).
Proof.
  intros Hg Hh k h' Hk. simpl in *. destruct (decide (k = GKey c i)) as [->|Hne].
  - rewrite lookup_insert_eq in Hk. injection Hk as <-. rewrite lookup_insert_eq. eauto.
  - rewrite lookup_insert_ne in Hk by done. destruct (Hg k h' Hk) as (ob & Ho & <-).
    exists ob. split; [|done]. rewrite lookup_insert_ne by congruence. done.
Qed.
Lemma ids_named_remove g h : ids_named g -> ids_named (removeGeofenceItem h g).
Proof.
  intros Hg. unfold removeGeofenceItem, getGeofenceKeyFromHwId.
  destruct (mGeofences g !! h) as [o|] eqn:Ho; simpl; [|done]. case_match eqn:E; [|done].
  intros k h' Hk. simpl in Hk |- *. apply lookup_delete_Some in Hk as [Hne Hk]. destruct (Hg k h' Hk) as (o' & Ho' & Hok).
  exists o'. split; [|done]. rewrite lookup_delete_ne; [done|]. intros <-. congruence.
Qed.

Lemma effect_named args m g :
  ids_named g -> (∀ h, h ∈ added_of_msg m -> mGeofences g !! h = None) ->
  (∀ h, h ∈ stopped_of_msg m -> ∀ k, mGeofenceIds g !! k ≠ Some h) -> ids_named (msg_effect args m g).
Proof.
  intros Hg Ha Hs. destruct m as [| | | |c| | | |r err h]; simpl in *; try done.
  - intros k h [Hk _]%map_lookup_filter_Some. by apply Hg.
  - case_decide; [done|]. intros k h Hk. simpl in Hk. by rewrite lookup_empty in Hk.
  - destruct (succeeded err); [|done]. destruct r as [k x|x|x h'|x h'|x h'|x h'|h'|o opts info|]; simpl in *; try done.
    + case_match; [|done]. repeat case_match. simplify_eq. apply ids_named_save; [done|]. apply Ha. set_solver.
    + by apply ids_named_remove.
    + by apply ids_named_alter.
    + by apply ids_named_alter.
    + case_match; [|done]. by apply ids_named_alter.
    + intros k h1 Hk. destruct (Hg k h1 Hk) as (o & Ho & Hok). exists o. split; [|done]. simpl.
      rewrite lookup_delete_ne; [done|]. intros <-. eapply Hs; [|exact Hk]. set_solver.
    + apply ids_named_save; [done|]. apply Ha. set_solver.
Qed.

(** An id names a new geofence only by a message that brings it. *)
Lemma effect_ids args m g k h :
  mGeofenceIds (msg_effect args m g) !! k = Some h ->
  mGeofenceIds g !! k = Some h ∨ h ∈ added_of_msg m.
Proof.
  intros H. destruct m as [| | | |c| | | |r err h0]; simpl in *; auto.
  - apply map_lookup_filter_Some in H as [H _]. auto.
  - case_decide; [auto|]. simpl in H. by rewrite lookup_empty in H.
  - destruct (succeeded err); [|auto].
    destruct r as [k' x|x|x h'|x h'|x h'|x h'|h'|o opts info|]; simpl in *; auto.
    + repeat case_match; simplify_eq; simpl in *; auto. apply lookup_insert_Some in H as [[_ <-]|[_ H]]; [|auto].
      right. set_solver.
    + unfold removeGeofenceItem in H. repeat case_match; simpl in *; auto. apply lookup_delete_Some in H. naive_solver.
    + case_match; simpl in *; auto.
    + apply lookup_insert_Some in H as [[_ <-]|[_ H]]; [|auto]. right. set_solver.
Qed.
Lemma effect_geofences args m g h :
  mGeofences g !! h = None -> h ∉ added_of_msg m -> mGeofences (msg_effect args m g) !! h = None.
Proof.
  intros Hn Ha. destruct m as [| | | |c| | | |r err h0]; simpl in *; auto.
  - case_decide; [auto|]. done.
  - destruct (succeeded err); [|auto].
    destruct r as [k' x|x|x h'|x h'|x h'|x h'|h'|o opts info|]; simpl in *; auto.
    + repeat case_match; simplify_eq; simpl in *; auto. rewrite lookup_insert_ne; [done|]. set_solver.
    + unfold removeGeofenceItem. repeat case_match; simpl in *; auto. apply lookup_delete_None. auto.
    + rewrite lookup_alter_None. done.
    + rewrite lookup_alter_None. done.
    + case_match; simpl in *; [by rewrite lookup_alter_None|done].
    + apply lookup_delete_None. auto.
    + rewrite lookup_insert_ne; [done|]. set_solver.
Qed.

Lemma absorbed_ids args q g k h :
  mGeofenceIds (absorbed args q g) !! k = Some h ->
  mGeofenceIds g !! k = Some h ∨ h ∈ q ≫= added_of_msg.
Proof.
  revert g. induction q as [|m q IH]; intros g H; [by left|]. csimpl.
  apply IH in H as [H|H]; [|set_solver]. apply effect_ids in H. set_solver.
Qed.
Lemma absorbed_app args q1 q2 g : absorbed args (q1 ++ q2) g = absorbed args q2 (absorbed args q1 g).
Proof. apply foldl_app. Qed.

Lemma effect_args args args' m g :
  (∀ x, arrays_of_msg m = Some x -> args !! x = args' !! x) -> msg_effect args m g = msg_effect args' m g.
Proof.
  intros H. destruct m as [| | | |c| | | |r err h]; simpl in *; try done. case_match; [|done].
  destruct r; simpl in *; try done; by rewrite H.
Qed.
Lemma absorbed_args args args' q g :
  Forall (λ m, ∀ x, arrays_of_msg m = Some x -> args !! x = args' !! x) q -> absorbed args q g = absorbed args' q g.
Proof.
  intros H. revert g. induction H as [|m q Hm Hq IH]; intros g; [done|]. simpl. by rewrite (effect_args args args'), IH.
Qed.

(** ** Requests *)

Lemma execute_alter p g (F : fence -> fence) (G : GeofenceObject -> GeofenceObject) h :
  consistent p g -> (∀ o, key (G o) = key o) -> (∀ f o, agrees f o -> agrees (F f) (G o)) ->
  consistent (alter F h p) (GMaps (alter G h (mGeofences g)) (mGeofenceIds g)).
Proof.
  intros [Ha Hi Hn] HG HF. constructor; simpl.
  - intros h' f Hf. destruct (decide (h' = h)) as [->|Hne].
    + rewrite lookup_alter_eq in Hf. apply fmap_Some in Hf as (f0 & Hf0 & ->).
      destruct (Ha h f0 Hf0) as (o & Ho & Hag). exists (G o). rewrite lookup_alter_eq, Ho. auto.
    + rewrite lookup_alter_ne in Hf by done. rewrite lookup_alter_ne by done. eauto.
  - intros k h' Hk. apply Hi in Hk. destruct (decide (h' = h)) as [->|Hne].
    + rewrite lookup_alter_eq. by apply fmap_is_Some.
    + by rewrite lookup_alter_ne.
  - by apply ids_named_alter.
Qed.

Lemma execute_add p g c i o info h :
  consistent p g -> p !! h = None ->
  consistent (<[h := Fence i o info false]> p) (saveGeofenceItem c i h o info g).
Proof.
  intros [Ha Hi Hn] Hp.
  assert (Hids : ∀ k, mGeofenceIds g !! k ≠ Some h).
  { intros k Hk. apply Hi in Hk as [? ?]. congruence. }
  constructor; simpl.
  - intros h' f [[<- <-]|[Hne Hf]]%lookup_insert_Some.
    + rewrite lookup_insert_eq. eexists. split; [done|]. unfold agrees, options_of, info_of. simpl.
      by destruct o, info.
    + rewrite lookup_insert_ne by done. eauto.
  - intros k h' [[<- <-]|[Hne Hk]]%lookup_insert_Some; [by rewrite lookup_insert_eq|].
    rewrite lookup_insert_ne; [by eapply Hi|]. intros <-. by eapply Hids.
  - intros k h' Hk. simpl in Hk |- *. apply lookup_insert_Some in Hk as [[<- <-]|[Hne Hk]].
    + rewrite lookup_insert_eq. eauto.
    + destruct (Hn k h' Hk) as (ob & Ho & <-). exists ob. split; [|done].
      rewrite lookup_insert_ne; [done|]. intros <-. by eapply Hids.
Qed.

Lemma remove_ids h g k h' :
  mGeofenceIds (removeGeofenceItem h g) !! k = Some h' -> mGeofenceIds g !! k = Some h'.
Proof.
  unfold removeGeofenceItem. repeat case_match; simpl; auto. intros H'%lookup_delete_Some. tauto.
Qed.

Lemma execute_remove p g h :
  consistent p g -> consistent (delete h p) (removeGeofenceItem h g).
Proof.
  intros [Ha Hi Hn].
  assert (Hgone : ∀ k, mGeofenceIds (removeGeofenceItem h g) !! k ≠ Some h).
  { intros k Hk. pose proof (remove_ids _ _ _ _ Hk) as Hk0.
    destruct (Hn k h Hk0) as (o & Ho & Hok).
    unfold removeGeofenceItem, getGeofenceKeyFromHwId in Hk. rewrite Ho in Hk. simpl in Hk.
    rewrite Hok, Hk0 in Hk. simpl in Hk. by rewrite lookup_delete_eq in Hk. }
  constructor; [| |by apply ids_named_remove].
  - intros h' f [Hne Hf]%lookup_delete_Some. destruct (Ha h' f Hf) as (o & Ho & Hag). exists o. split; [|done].
    unfold removeGeofenceItem. repeat case_match; simpl; try done. by rewrite lookup_delete_ne.
  - intros k h' Hk. rewrite lookup_delete_ne; [by eapply Hi, remove_ids|]. intros <-. by eapply Hgone.
Qed.

Lemma execute_stop p g h :
  consistent p g -> (∀ k, mGeofenceIds g !! k ≠ Some h) ->
  consistent (delete h p) (GMaps (delete h (mGeofences g)) (mGeofenceIds g)).
Proof.
  intros [Ha Hi Hn] Hids. constructor; simpl.
  - intros h' f [Hne Hf]%lookup_delete_Some. rewrite lookup_delete_ne by done. eauto.
  - intros k h' Hk. rewrite lookup_delete_ne; [by eapply Hi|]. intros <-. by eapply Hids.
  - intros k h' Hk. simpl in *. destruct (Hn k h' Hk) as (o & Ho & Hok). exists o. split; [|done].
    rewrite lookup_delete_ne; [done|]. intros <-. by eapply Hids.
Qed.

Lemma consistent_execute args p g r resp hwId :
  consistent p g -> coherent args (r, resp) ->
  (∀ i o info, r = ReqAddGeofence i o info -> p !! hwId = None) ->
  (∀ h k, resp = ClientStopped h -> mGeofenceIds g !! k ≠ Some h) ->
  consistent (execute r hwId p) (response_effect args resp hwId g).
Proof.
  intros Hc Hr Hf Hs. destruct r as [|i o info|h i|h i|h i|h i o]; destruct resp; simpl in Hr; try done; simpl; subst.
  - rewrite Hr. by apply execute_add; [|eapply Hf].
  - destruct Hr as (-> & -> & ->). by apply execute_add; [|eapply Hf].
  - by apply execute_remove.
  - apply execute_stop; [done|]. intros k. by apply Hs.
  - apply (execute_alter p g _ (set_paused true)); [done..|].
    intros f o (? & ? & ? & ?). repeat split; auto.
  - replace g with (GMaps (alter (λ o, o) h (mGeofences g)) (mGeofenceIds g))
      by (destruct g; simpl; by rewrite alter_id).
    apply execute_alter; [done..|]. intros f o (? & ? & ? & ?). repeat split; auto.
  - apply (execute_alter p g _ (set_paused false)); [done..|].
    intros f o (? & ? & ? & ?). repeat split; auto.
  - destruct Hr as [-> Hr]. rewrite Hr. apply (execute_alter p g _ (set_options o)); [done..|].
    intros f ob (? & ? & ? & ?). repeat split; auto. simpl. by destruct o.
Qed.

(** * Steps *)

(** What is assumed of the modem: a geofence it adds gets an id that is not in
    use, neither in the modem nor in the adapter nor in a waiting message; and the
    engine is not locked. *)
Definition in_use (s : geo_state) (h : Z) : Prop :=
  is_Some (programmed (lapi s) !! h) ∨ is_Some (mGeofences (maps s) !! h) ∨ h ∈ all_added s ∨ h ∈ all_stopped s.
Definition modem_ok (s : geo_state) (e : geo_event) : Prop :=
  match e with
  | GeoApiRun err hwId =>
      match geo_requests (lapi s) with
      | (ReqAddGeofence _ _ _, _) :: _ => succeeded err = true -> ¬ in_use s hwId
      | _ => True
      end
  | GeoEngineLock st => st = ENGINE_LOCK_STATE_ENABLED
  | _ => True
  end.

Lemma Forall_lt_weaken {A} (f : A -> option N) l (n n' : N) :
  (n <= n')%N -> Forall (λ a, ∀ x, f a = Some x -> (x < n)%N) l -> Forall (λ a, ∀ x, f a = Some x -> (x < n')%N) l.
Proof. intros Hn H. eapply Forall_impl; [exact H|]. simpl. intros a Ha x Hx. specialize (Ha x Hx). lia. Qed.

(** A new message without effect on the maps that brings and stops nothing. *)
Lemma inv_send m s :
  geo_inv s -> (∀ x, arrays_of_msg m = Some x -> (x < next_block s)%N) ->
  (∀ p, consistent p (final_maps s) -> consistent p (msg_effect (arguments_of s) m (final_maps s))) ->
  added_of_msg m = [] -> stopped_of_msg m = [] -> geo_inv (send_geo m s).
Proof.
  intros [? Hf ? Ha Hs ? ? Ht] Hm He H1 H2.
  assert (Ea : all_added (send_geo m s) = all_added s).
  { unfold all_added. simpl. by rewrite bind_app, bind_cons, H1, app_nil_r. }
  assert (Es : all_stopped (send_geo m s) = all_stopped s).
  { unfold all_stopped. simpl. by rewrite bind_app, bind_cons, H2, app_nil_r. }
  constructor; rewrite ?Ea, ?Es; try done.
  - unfold final_maps. simpl. rewrite absorbed_app. by apply He.
  - simpl. apply Forall_app. split; [done|]. by constructor.
Qed.

Lemma geo_inv_task s s' : geo_inv s -> geo_task_run s = Some s' -> geo_inv s'.
Proof.
  intros HI H. unfold geo_task_run in H. destruct (tasks s) as [|m q] eqn:Eq; [by injection H as <-|].
  destruct (proc_geo_handled m (on_tasks (λ _, q) s) s') as [rs Hd]; [apply HI|done|].
  destruct Hd as [Hm Hl (ms & Ht & Hms) Hn Ha Hc Har Hs]. simpl in *.
  change (arguments_of (on_tasks (λ _, q) s)) with (arguments_of s) in *.
  assert (Hms1 : ∀ g, absorbed (arguments_of s) ms g = g).
  { intros g. clear -Hms. revert g. induction Hms as [|? ms (c & ->) _ IH]; intros g; [done|]. simpl. apply IH. }
  assert (Hms2 : ms ≫= added_of_msg = [] ∧ ms ≫= stopped_of_msg = []).
  { clear -Hms. induction Hms as [|? ms (c & ->) _ [IH1 IH2]]; [done|]. csimpl. by rewrite IH1, IH2. }
  destruct Hms2 as [Hms2 Hms3].
  assert (Efin : final_maps s' = final_maps s).
  { unfold final_maps. rewrite Ha, Ht, Hm, Eq, absorbed_app, Hms1. done. }
  assert (Eadd : all_added s' = q ≫= added_of_msg).
  { unfold all_added. by rewrite Ht, bind_app, Hms2, app_nil_r. }
  assert (Eadd0 : all_added s = added_of_msg m ++ q ≫= added_of_msg).
  { unfold all_added. by rewrite Eq. }
  destruct HI as [He Hf Hnow [Hnd Hadd] Hst Hco Hrq Htk]. rewrite Eadd0 in *.
  assert (Hstm : ∀ h, h ∈ stopped_of_msg m -> ∀ k, mGeofenceIds (maps s) !! k ≠ Some h).
  { intros h Hh. apply Hst. unfold all_stopped. rewrite Eq. csimpl. set_solver. }
  constructor.
  - unfold enabled. rewrite Hl. apply He.
  - rewrite Efin, Hl. done.
  - rewrite Hm. apply effect_named; [done| |done]. intros h Hh. apply Hadd. set_solver.
  - rewrite Eadd. apply NoDup_app in Hnd as (_ & Hdis & Hnd). split; [done|].
    intros h Hh. rewrite Hm. apply effect_geofences; [apply Hadd; set_solver|]. intros Hh'. by eapply Hdis.
  - intros h Hh. rewrite Eadd.
    assert (Hold : h ∈ all_stopped s ∨ h ∈ rs ≫= (λ rr, stopped_of rr.2)).
    { unfold all_stopped in Hh |- *. rewrite Hl, Ht, Eq in *. simpl in Hh. rewrite !bind_app, Hms3 in Hh.
      csimpl. set_solver. }
    destruct Hold as [Hold|Hnew].
    + destruct (Hst h Hold) as [Hk Hna]. split; [|set_solver].
      intros k Hk'. rewrite Hm in Hk'. apply effect_ids in Hk' as [Hk'|Hk']; [by eapply Hk|set_solver].
    + destruct (Hs h Hnew) as (c & k & -> & Hk & Hc'). destruct (Hnow k h Hk) as (o & Ho & Hok). split.
      * intros k' Hk'. rewrite Hm in Hk'. simpl in Hk'. apply map_lookup_filter_Some in Hk' as [Hk' Hne].
        destruct (Hnow k' h Hk') as (o' & Ho' & Hok'). simpl in Hne. congruence.
      * intros Hh'. specialize (Hadd h). simpl in Hadd. rewrite Ho in Hadd. by discriminate Hadd.
  - rewrite Hl, Ha. simpl. by apply Forall_app.
  - rewrite Hl, Hn. simpl. apply Forall_app. split; [done|]. eapply Forall_impl; [exact Har|]. simpl.
    intros rr Hrr x Hx. rewrite Eq in Htk. apply Forall_cons in Htk as [Hmx _]. by apply Hmx, Hrr.
  - rewrite Ht, Hn. rewrite Eq in Htk. apply Forall_cons in Htk as [_ Htk]. apply Forall_app. split; [done|].
    eapply Forall_impl; [exact Hms|]. by intros ? (c & ->).
Qed.

Lemma inv_api err hwId s :
  geo_inv s -> modem_ok s (GeoApiRun err hwId) -> geo_inv (geo_api_run err hwId s).
Proof.
  intros HI Hok. unfold geo_api_run. simpl in Hok.
  destruct (geo_requests (lapi s)) as [|[r resp] rs] eqn:Eq; [done|].
  destruct HI as [He Hf Hnow [Hnd Hadd] Hst Hco Hrq Htk]. rewrite Eq in *.
  apply Forall_cons in Hco as [Hc Hco]. apply Forall_cons in Hrq as [Hr Hrq]. simpl in Hr.
  set (err' := match r with CallQueue => LOCATION_ERROR_SUCCESS | _ => err end).
  set (s' := send_geo _ _).
  assert (Efin : final_maps s' = if succeeded err' then response_effect (arguments_of s) resp hwId (final_maps s)
                                 else final_maps s).
  { unfold final_maps. simpl. rewrite absorbed_app. done. }
  assert (Hfresh : ∀ h, h ∈ added_of_msg (GeoApiResponse resp err' hwId) -> h = hwId ∧ ¬ in_use s hwId).
  { intros h. simpl. destruct resp; try (intros []%elem_of_nil);
      (destruct (succeeded err') eqn:Ee; [|intros []%elem_of_nil]); intros ->%list_elem_of_singleton; (split; [done|]);
      destruct r; simpl in Hc; try done; auto. }
  assert (Eadd : all_added s' = all_added s ++ added_of_msg (GeoApiResponse resp err' hwId)).
  { unfold all_added. simpl. rewrite bind_app. csimpl. by rewrite app_nil_r. }
  assert (Est : ∀ h, h ∈ all_stopped s' <-> h ∈ all_stopped s).
  { intros h. unfold all_stopped. rewrite Eq. simpl. rewrite bind_app. csimpl. set_solver. }
  constructor; simpl; try done.
  - rewrite Efin. destruct (succeeded err') eqn:Ee; [|done].
    apply consistent_execute; [done|done|..].
    + intros i o info ->. apply eq_None_not_Some. intros Hp. apply Hok; [done|]. by left.
    + intros h k ->. intros Hk. apply absorbed_ids in Hk.
      destruct (Hst h) as [H1 H2]; [unfold all_stopped; rewrite Eq; csimpl; set_solver|].
      destruct Hk as [Hk|Hk]; [by eapply H1|done].
  - rewrite Eadd. split.
    + apply NoDup_app. split; [done|]. split.
      * intros h Hh Hh'. apply Hfresh in Hh' as [-> Hu]. apply Hu. unfold in_use. auto.
      * simpl. destruct resp; try constructor; destruct (succeeded err'); repeat constructor; set_solver.
    + intros h [Hh|Hh]%elem_of_app; [by apply Hadd|]. apply Hfresh in Hh as [-> Hu].
      apply eq_None_not_Some. intros Hg. apply Hu. unfold in_use. auto.
  - intros h Hh%Est. destruct (Hst h Hh) as [H1 H2]. split; [done|]. rewrite Eadd.
    intros [Hh'|Hh']%elem_of_app; [done|]. apply Hfresh in Hh' as [-> Hu]. apply Hu. unfold in_use. auto.
  - apply Forall_app. split; [done|]. by constructor.
Qed.

Lemma inv_counter z s :
  geo_inv s ->
  geo_inv (GState (maps s) (base s) (lapi s) (blocks s) (next_block s) (tasks s) z (outs s)).
Proof. intros [H1 H2 H3 H4 H5 H6 H7 H8]. by constructor. Qed.

Lemma inv_command k c ids options infos s :
  geo_inv s -> geo_inv (send_command k c ids options infos s).
Proof.
  intros [He Hf Hnow Hadd Hst Hco Hrq Htk]. set (x := next_block s) in *.
  set (s1 := GState (maps s) (base s) (lapi s) (<[x := Arrays k ids options infos [] false]> (blocks s)) (N.succ x)
               (tasks s) (geoSessionIdCounter s) (outs s)).
  assert (Hargs : ∀ y, (y < x)%N -> arguments_of s !! y = arguments_of s1 !! y).
  { intros y Hy. unfold arguments_of. simpl. rewrite !lookup_fmap, lookup_insert_ne by lia. done. }
  assert (Hs1 : geo_inv s1).
  { constructor; try done.
    - unfold final_maps. rewrite <- (absorbed_args (arguments_of s)); [done|].
      eapply Forall_impl; [exact Htk|]. simpl. auto.
    - apply Forall_forall. intros [r resp] Hin. simpl in Hin.
      pose proof (proj1 (Forall_forall _ _) Hco _ Hin) as Hc.
      pose proof (proj1 (Forall_forall _ _) Hrq _ Hin) as Hx. simpl in Hx.
      destruct r, resp; simpl in Hc, Hx |- *; try done; by rewrite <- Hargs by auto.
    - apply (Forall_lt_weaken (λ rr : geo_request * geo_response, arrays_of_response rr.2) _ x); [simpl; lia|done].
    - apply (Forall_lt_weaken arrays_of_msg _ x); [simpl; lia|done]. }
  apply inv_send; [done| |done..]. intros y [= <-]. simpl. lia.
Qed.

Lemma consistent_fewer p g c :
  consistent p g ->
  consistent p (GMaps (mGeofences g) (filter (λ e, key_client e.1 ≠ c) (mGeofenceIds g))).
Proof.
  intros [Ha Hi Hn]. constructor; simpl; [done|..].
  - intros k h [Hk _]%map_lookup_filter_Some. eauto.
  - intros k h [Hk _]%map_lookup_filter_Some. eauto.
Qed.

Lemma inv_restart s :
  geo_inv s -> geo_inv (send_geo MsgSSREvent (on_lapi (λ a, GApi (geoLockState a) (geo_requests a) ∅) s)).
Proof.
  intros [He [_ _ Hnm] Hnow Hadd Hst Hco Hrq Htk].
  assert (E : ∀ f, all_added (send_geo MsgSSREvent (on_lapi f s)) = all_added s).
  { intros f. unfold all_added. simpl. by rewrite bind_app, app_nil_r. }
  constructor; rewrite ?E; try done.
  - unfold final_maps. simpl. rewrite absorbed_app. simpl. case_decide as D.
    + constructor; [done| |done]. intros k h Hk. destruct (Hnm k h Hk) as (o & Ho & _).
      change (mGeofences (final_maps s) = ∅) in D. by rewrite D in Ho.
    + constructor; [done|..]; intros k h Hk; simpl in Hk; by rewrite lookup_empty in Hk.
  - unfold all_stopped. simpl. by rewrite bind_app, app_nil_r.
  - simpl. apply Forall_app. split; [done|]. by constructor.
Qed.

Lemma inv_lock st s : geo_inv s -> st = ENGINE_LOCK_STATE_ENABLED ->
  geo_inv (on_lapi (λ a, GApi st (geo_requests a) (programmed a)) s).
Proof. intros [H1 H2 H3 H4 H5 H6 H7 H8] ->. by constructor. Qed.

Lemma geo_inv_step s e s' : geo_inv s -> modem_ok s e -> geo_step s e = Some s' -> geo_inv s'.
Proof.
  intros HI Hok H.
  destruct e as [c n os infos|k c ids os|l a b t|a|c cbs|c|c| |st|err h|]; simpl in H; simplify_eq.
  - destruct n as [|n]; simpl; [done|]. by apply inv_command, inv_counter.
  - assert (E : s' = s ∨ s' = geofencesCommand k c ids os s) by (destruct k; simplify_eq; auto).
    destruct E as [->| ->]; [done|]. destruct ids; [done|]. by apply inv_command.
  - destruct l; [done|]. by apply inv_send.
  - by apply inv_send.
  - by apply inv_send.
  - apply inv_send; [done..| |done|done]. intros p Hp. by apply consistent_fewer.
  - by apply inv_send.
  - by apply inv_restart.
  - apply inv_send; [by apply inv_lock|done..].
  - by apply inv_api.
  - by eapply geo_inv_task.
Qed.

Lemma geo_inv_init : geo_inv geo_init.
Proof.
  constructor; try done; simpl; try constructor; simpl; try done; try (constructor); try set_solver.
Qed.

#[export] Instance in_use_dec s h : Decision (in_use s h).
Proof. apply _. Defined.
#[export] Instance modem_ok_dec s e : Decision (modem_ok s e).
Proof. destruct e; simpl; repeat case_match; apply _. Defined.

(** C17: When no message and no request is on its way, every geofence that the modem
    holds has an object of the adapter under its id, with the options and the place
    that were programmed, and is paused in the modem if the object is; and each id of
    a client names a geofence that the modem holds and that leads back to that id, so
    no two ids share one.  Supposed ([modem_ok]): an id that the modem gives to a
    geofence is not in use, and the engine is not locked.  The converse does not
    hold: objects may have no geofence in the modem (geofence_of_client_that_left and
    locked_restart_loses_geofences in GeofenceCommands.v), and a geofence may be paused
    in the modem only (pause_lost_after_restarts). *)
Theorem geofences_match_modem es s :
  run_ok geo_step modem_ok geo_init es ->
  run geo_step geo_init es = Some s ->
  tasks s = [] -> geo_requests (lapi s) = [] ->
  (∀ h f, programmed (lapi s) !! h = Some f ->
     ∃ o, mGeofences (maps s) !! h = Some o ∧ agrees f o) ∧
  (∀ c i h, getHwIdFromClient c i s = Some h ->
     is_Some (programmed (lapi s) !! h) ∧ getGeofenceKeyFromHwId h (maps s) = Some (GKey c i)).
Proof.
  intros Hok Hrun Ht Hr.
  assert (HI : geo_inv s) by (eapply run_invariant; eauto using geo_inv_step, geo_inv_init).
  destruct HI as [_ [Ha Hi Hn] _ _ _ _ _ _]. unfold final_maps in *. rewrite Ht in *. simpl in *.
  split; [done|]. intros c i h Hk. split; [by eapply Hi|].
  destruct (Hn _ _ Hk) as (o & Ho & Hok'). unfold getGeofenceKeyFromHwId. by rewrite Ho, <- Hok'.
Qed.

(** Two clients; one geofence is paused, one changed, one removed; the modem
    restarts; the second client leaves. *)
Definition ex_option : GeofenceOption := GOption 3 1000 0.
Definition ex_info : GeofenceInfo := GInfo 10 20 30.
Definition ex_turn (hwId : Z) : list geo_event :=
  [GeoTaskRun; GeoApiRun LOCATION_ERROR_SUCCESS hwId; GeoTaskRun; GeoApiRun LOCATION_ERROR_SUCCESS hwId; GeoTaskRun].
Definition ex_geofences : list geo_event :=
  [GeoAddClientCommand 1 (GCallbacks true true true true); GeoTaskRun;
   GeoAddClientCommand 2 (GCallbacks true true true false); GeoTaskRun;
   AddGeofencesCommand 1 1 (Some [ex_option]) (Some [ex_info])] ++ ex_turn 7 ++
  [AddGeofencesCommand 2 1 (Some [ex_option]) (Some [ex_info])] ++ ex_turn 8 ++
  [AddGeofencesCommand 1 1 (Some [ex_option]) (Some [ex_info])] ++ ex_turn 9 ++
  [GeofencesCommand CmdPause 1 [2] None] ++ ex_turn 0 ++
  [GeofencesCommand CmdModify 2 [3] (Some [GOption 1 5000 60])] ++ ex_turn 0 ++
  [GeofencesCommand CmdRemove 1 [4] None] ++ ex_turn 0.
Definition ex_restart (hwIds : list Z) : list geo_event :=
  [ModemRestart; GeoTaskRun] ++ map (GeoApiRun LOCATION_ERROR_SUCCESS) hwIds ++ map (λ _, GeoTaskRun) hwIds.
Definition ex_all : list geo_event :=
  ex_geofences ++ ex_restart [3; 4] ++ [GeoApiRun LOCATION_ERROR_SUCCESS 0; GeoTaskRun] ++
  [GeoRemoveClientCommand 2; GeoTaskRun; GeoApiRun LOCATION_ERROR_SUCCESS 0; GeoTaskRun].
Definition geo_run (es : list geo_event) : geo_state := default geo_init (run geo_step geo_init es).

Lemma geofences_match_modem_witness :
  map fst (map_to_list (programmed (lapi (geo_run ex_all)))) = [3] ∧
  (∀ h f, programmed (lapi (geo_run ex_all)) !! h = Some f ->
     ∃ o, mGeofences (maps (geo_run ex_all)) !! h = Some o ∧ agrees f o) ∧
  getGeofenceKeyFromHwId 3 (maps (geo_run ex_all)) = Some (GKey 1 2).
Proof.
  assert (Hok : run_ok geo_step modem_ok geo_init ex_all).
  { apply (bool_decide_unpack _). vm_compute. exact I. }
  destruct (geofences_match_modem ex_all (geo_run ex_all) Hok) as [H1 H2];
    [vm_compute; reflexivity..|].
  split; [vm_compute; reflexivity|]. split; [exact H1|].
  refine (proj2 (H2 1 2 3 _)). vm_compute. reflexivity.
Defined.

(** * Breach reports *)

Definition breach_output (hwIds : list Z) (location breachType timestamp : Z) (g : geo_maps)
    (e : Z * geo_callbacks) : list geo_output :=
  match breached_ids (fst e) hwIds g with
  | [] => []
  | ids => if geofenceBreachCb (snd e) then [OutBreach (fst e) ids location breachType timestamp] else []
  end.

Lemma geofenceBreach_outs hwIds a b t s :
  outs (geofenceBreach hwIds a b t s) =
  outs s ++ (hw_entries (mGeoClients (base s)) ≫= breach_output hwIds a b t (maps s)).
Proof.
  unfold geofenceBreach. generalize (hw_entries (mGeoClients (base s))) as l.
  assert (H : ∀ l s0, maps s0 = maps s ->
    outs (foldl (λ s '(client, cbs),
           let clientIds := breached_ids client hwIds (maps s) in
           if negb (match clientIds with [] => true | _ => false end) && geofenceBreachCb cbs
           then output_geo (OutBreach client clientIds a b t) s else s) s0 l) =
    outs s0 ++ (l ≫= breach_output hwIds a b t (maps s))).
  { induction l as [|[c cbs] l IH]; intros s0 Hs0; csimpl; [by rewrite app_nil_r|].
    rewrite Hs0. unfold breach_output at 1. simpl.
    destruct (breached_ids c hwIds (maps s)) as [|i ids] eqn:E; simpl; [by apply IH|].
    destruct (geofenceBreachCb cbs); simpl; rewrite IH by done; simpl; [by rewrite <- app_assoc|done]. }
  intros l. by apply H.
Qed.

Lemma breached_ids_spec c hwIds g i :
  i ∈ breached_ids c hwIds g <-> ∃ h, h ∈ hwIds ∧ getGeofenceKeyFromHwId h g = Some (GKey c i).
Proof.
  unfold breached_ids. rewrite list_elem_of_omap. split.
  - intros (h & Hh & H). exists h. split; [done|]. apply bind_Some in H as ([c' i'] & E & H). simpl in H.
    destruct (Z.eqb_spec c' c) as [->|]; [|done]. injection H as ->. done.
  - intros (h & Hh & E). exists h. split; [done|]. rewrite E. simpl. by rewrite Z.eqb_refl.
Qed.

Lemma hw_entries_spec {V} (m : gmap Z V) k v : (k, v) ∈ hw_entries m <-> m !! k = Some v.
Proof. unfold hw_entries. by rewrite merge_sort_Permutation, elem_of_map_to_list. Qed.

(** a breach that the modem reports reaches the client the geofence belongs to,
    under the client's id of it, and each client is told of its own geofences only. *)
Theorem breach_reaches_owner es s hwIds location breachType timestamp s' :
  run_ok geo_step modem_ok geo_init es -> run geo_step geo_init es = Some s ->
  tasks s = [] -> geo_requests (lapi s) = [] ->
  run geo_step s [GeofenceBreachEvent hwIds location breachType timestamp; GeoTaskRun] = Some s' ->
  ∃ l, outs s' = outs s ++ l ∧
    (∀ o, o ∈ l -> ∃ c ids, o = OutBreach c ids location breachType timestamp ∧ ids ≠ [] ∧
       ∀ i, i ∈ ids <-> ∃ h, h ∈ hwIds ∧ getGeofenceKeyFromHwId h (maps s) = Some (GKey c i)) ∧
    (∀ h f, h ∈ hwIds -> programmed (lapi s) !! h = Some f ->
       ∃ c, getGeofenceKeyFromHwId h (maps s) = Some (GKey c (f_id f)) ∧
         ∀ cbs, mGeoClients (base s) !! c = Some cbs -> geofenceBreachCb cbs = true ->
           ∃ ids, f_id f ∈ ids ∧ OutBreach c ids location breachType timestamp ∈ l).
Proof.
  intros Hok Hrun Ht Hr Hrep.
  assert (HI : geo_inv s) by (eapply run_invariant; eauto using geo_inv_step, geo_inv_init).
  destruct HI as [_ [Ha _ _] _ _ _ _ _ _]. unfold final_maps in Ha. rewrite Ht in Ha. simpl in Ha.
  exists (hw_entries (mGeoClients (base s)) ≫= breach_output hwIds location breachType timestamp (maps s)).
  split_and!.
  - destruct hwIds as [|h hwIds]; simpl in Hrep; unfold geo_task_run in Hrep; simpl in Hrep; rewrite Ht in Hrep;
      simpl in Hrep; injection Hrep as <-.
    + clear. generalize (hw_entries (mGeoClients (base s))) as l.
      induction l as [|e l IH]; csimpl; [by rewrite app_nil_r|done].
    + by rewrite geofenceBreach_outs.
  - intros o ([c cbs] & Ho & _)%list_elem_of_bind. unfold breach_output in Ho. simpl in Ho.
    destruct (breached_ids c hwIds (maps s)) as [|i ids] eqn:E; [by apply elem_of_nil in Ho|].
    destruct (geofenceBreachCb cbs); [|by apply elem_of_nil in Ho]. apply list_elem_of_singleton in Ho as ->.
    exists c, (i :: ids). split; [done|]. split; [done|]. intros i'. rewrite <- E. apply breached_ids_spec.
  - intros h f Hh Hf. destruct (Ha h f Hf) as (o & Ho & Hid & _). exists (key_client (key o)).
    assert (Ek : getGeofenceKeyFromHwId h (maps s) = Some (GKey (key_client (key o)) (f_id f))).
    { unfold getGeofenceKeyFromHwId. rewrite Ho, Hid. simpl. by destruct (key o). }
    split; [done|]. intros cbs Hc Hcb.
    assert (Hin : f_id f ∈ breached_ids (key_client (key o)) hwIds (maps s)) by (apply breached_ids_spec; eauto).
    exists (breached_ids (key_client (key o)) hwIds (maps s)). split; [done|].
    apply list_elem_of_bind. exists (key_client (key o), cbs). split; [|by apply hw_entries_spec].
    unfold breach_output. simpl. destruct (breached_ids _ hwIds (maps s)) eqn:E; [by apply elem_of_nil in Hin|].
    rewrite Hcb. by apply list_elem_of_singleton.
Qed.

Lemma breach_reaches_owner_witness :
  let s := geo_run (ex_geofences ++ ex_restart [3; 4] ++ [GeoApiRun LOCATION_ERROR_SUCCESS 0; GeoTaskRun]) in
  let s' := default geo_init (run geo_step s [GeofenceBreachEvent [4; 3] 1 2 3; GeoTaskRun]) in
  map fst (map_to_list (programmed (lapi s))) = [3; 4] ∧
  ∃ l, outs s' = outs s ++ l ∧ ∃ ids, 3 ∈ ids ∧ OutBreach 2 ids 1 2 3 ∈ l.
Proof.
  set (es := ex_geofences ++ ex_restart [3; 4] ++ [GeoApiRun LOCATION_ERROR_SUCCESS 0; GeoTaskRun]).
  assert (Hok : run_ok geo_step modem_ok geo_init es).
  { apply (bool_decide_unpack _). vm_compute. exact I. }
  split; [vm_compute; reflexivity|].
  destruct (breach_reaches_owner es (geo_run es) [4; 3] 1 2 3
              (default geo_init (run geo_step (geo_run es) [GeofenceBreachEvent [4; 3] 1 2 3; GeoTaskRun])) Hok)
    as (l & Hl & _ & H2); [vm_compute; reflexivity..|].
  exists l. split; [exact Hl|].
  destruct (H2 4 (Fence 3 (GOption 1 5000 60) ex_info false)) as (c & Hc & H3);
    [apply (bool_decide_unpack _); vm_compute; exact I|vm_compute; reflexivity|].
  pose proof (f_equal (λ o, default 0 (key_client <$> o)) Hc) as Ec. vm_compute in Ec. subst c.
  refine (H3 (GCallbacks true true true false) _ eq_refl). vm_compute. reflexivity.
Defined.
