(* ===== verification/GeofenceCommands.v ===== *)
(** The commands on several geofences (GeofenceAdapter.v): the arrays that the
    lambdas of a command share live as long as a lambda uses them, and each
    command is answered once, with a result for each geofence, under the conditions
    of [commands_ok]; the end of the file shows what happens without them. *)

From stdpp Require Import list gmap sorting.
From S2P Require Import Prelude Runs GnssTracking GeofenceAdapter GeofenceModem.

Local Open Scope Z_scope.

(** * The lambdas of a command that still have to run *)

Inductive stage := AtProc | AtCall (i : nat) | AtDone (i : nat).
#[export] Instance stage_eq_dec : EqDecision stage.
Proof. solve_decision. Defined.
Record token := Token { tk_arrays : N; tk_command : command; tk_count : nat; tk_stage : stage }.

Definition item_token (k : command) (x : item) (st : nat -> stage) : token :=
  Token (mArrays x) k (mCount x) (st (mIndex x)).
Definition response_token (r : geo_response) : option token :=
  match r with
  | Called k x => Some (item_token k x AtCall)
  | Added x => Some (item_token CmdAdd x AtDone)
  | Removed x _ => Some (item_token CmdRemove x AtDone)
  | Paused x _ => Some (item_token CmdPause x AtDone)
  | Resumed x _ => Some (item_token CmdResume x AtDone)
  | Modified x _ => Some (item_token CmdModify x AtDone)
  | _ => None
  end.
Definition msg_token (m : geo_msg) : option token :=
  match m with
  | MsgGeofences k x n _ => Some (Token x k n AtProc)
  | GeoApiResponse r _ _ => response_token r
  | _ => None
  end.
(** In the order in which the adapter will see them, as far as they belong to
    one of the two queues. *)
Definition all_tokens (s : geo_state) : list token :=
  omap msg_token (tasks s) ++ omap (λ rr, response_token rr.2) (geo_requests (lapi s)).

Definition proc_at (x : N) (t : token) : option unit :=
  if decide (tk_arrays t = x) then match tk_stage t with AtProc => Some () | _ => None end else None.
Definition call_at (x : N) (t : token) : option nat :=
  if decide (tk_arrays t = x) then match tk_stage t with AtCall i => Some i | _ => None end else None.
Definition done_at (x : N) (t : token) : option nat :=
  if decide (tk_arrays t = x) then match tk_stage t with AtDone i => Some i | _ => None end else None.

Definition answer_to (x : N) (o : geo_output) : option geo_output :=
  match o with
  | OutGeofencesResponse y _ _ _ _ _ => if decide (y = x) then Some o else None
  | _ => None
  end.
(** The responses to a command. *)
Definition answers (x : N) (os : list geo_output) : list geo_output := omap (answer_to x) os.

(** * The invariant *)

(** The arrays a command takes have an entry for each geofence. *)
Definition well_sized (a : arrays) : Prop :=
  (0 < length (mIds a))%nat ∧
  (∀ l, mOptions a = Some l -> length l = length (mIds a)) ∧
  (∀ l, mInfos a = Some l -> length l = length (mIds a)).

Record running (a : arrays) (calls dones : list nat) : Prop := Running {
  rn_calls : ∃ j, (j <= length (mIds a))%nat ∧ calls = seq j (length (mIds a) - j) ∧ Forall (λ i, i < j)%nat dones;
  rn_dones : StronglySorted lt dones;
  rn_errs : length (errs a) = length (mIds a);
  rn_set : ∀ i, (i < length (mIds a))%nat -> i ∉ calls -> (mCommand a = CmdAdd -> i ∉ dones) ->
    ∃ e, errs a !! i = Some (Some e);
  rn_freed : freed a = true -> calls = [] ∧ dones = [];
  rn_last : calls = [] -> freed a = false ->
    (length (mIds a) - 1)%nat ∈ dones ∨ dones = [] ∧ (arrays_missing a = true ∨ mCommand a = CmdResume)
}.

Definition waiting_proc (a : arrays) (calls dones : list nat) : Prop :=
  calls = [] ∧ dones = [] ∧ freed a = false.

(** The life of the arrays [x]. *)
Definition command_inv (x : N) (a : arrays) (l : list token) (os : list geo_output) : Prop :=
  well_sized a ∧
  length (answers x os) = (if freed a then 1 else 0)%nat ∧
  match omap (proc_at x) l with
  | [] => running a (omap (call_at x) l) (omap (done_at x) l)
  | [_] => waiting_proc a (omap (call_at x) l) (omap (done_at x) l)
  | _ => False
  end.

(** A response has a result for each geofence of its command. *)
Definition answer_complete (bs : gmap N arrays) (o : geo_output) : Prop :=
  match o with
  | OutGeofencesResponse x _ n es ids _ =>
      (∃ a, bs !! x = Some a ∧ mIds a = ids) ∧ n = length ids ∧ length es = n ∧ Forall is_Some es
  | _ => True
  end.

Definition token_ok (bs : gmap N arrays) (t : token) : Prop :=
  ∃ a, bs !! tk_arrays t = Some a ∧ tk_command t = mCommand a ∧ tk_count t = length (mIds a)
       ∧ (arrays_missing a = true -> tk_stage t = AtProc).

Record life_inv (next : N) (bs : gmap N arrays) (l : list token) (os : list geo_output) : Prop := LifeInv {
  lf_tokens : Forall (token_ok bs) l;
  lf_next : ∀ x a, bs !! x = Some a -> (x < next)%N;
  lf_blocks : ∀ x a, bs !! x = Some a -> command_inv x a l os;
  lf_answers : Forall (answer_complete bs) os
}.

Definition geo_life (s : geo_state) : Prop :=
  life_inv (next_block s) (blocks s) (all_tokens s) (outs s).

(** ** Moves of one command *)

(** What a lambda may do to the arrays: store results. *)
Record stored (a a' : arrays) : Prop := Stored {
  st_args : args_of a' = args_of a;
  st_command : mCommand a' = mCommand a;
  st_freed : freed a' = freed a;
  st_errs : length (errs a') = length (errs a);
  st_kept : ∀ i e, errs a !! i = Some (Some e) -> ∃ e', errs a' !! i = Some (Some e')
}.
Lemma stored_refl a : stored a a.
Proof. constructor; eauto. Qed.
Lemma stored_err a i e : stored a (set_errs (<[i := Some e]> (errs a)) a).
Proof.
  constructor; simpl; try done; [by rewrite length_insert|].
  intros j e' Hj. destruct (decide (j = i)) as [->|]; [|rewrite list_lookup_insert_ne by done; eauto].
  rewrite list_lookup_insert_eq; eauto. by eapply lookup_lt_Some.
Qed.

(** Tokens and outputs of another command do not count. *)
Lemma omap_none {A B} (f : A -> option B) l : Forall (λ a, f a = None) l -> omap f l = [].
Proof. induction 1 as [|a l Ha _ IH]; [done|]. csimpl. by rewrite Ha, IH. Qed.

Lemma command_inv_other x y a t l l2 os os2 :
  y ≠ x -> tk_arrays t = x -> Forall (λ t, tk_arrays t = x) l2 -> answers y os2 = [] ->
  command_inv y a (t :: l) os -> command_inv y a (l ++ l2) (os ++ os2).
Proof.
  intros Hne Ht Hl2 Hos (Hw & Ha & Hr).
  assert (E : ∀ B (f : token -> option B), (∀ t, tk_arrays t = x -> f t = None) ->
              omap f (l ++ l2) = omap f (t :: l)).
  { intros B f Hf. rewrite omap_app, (omap_none f l2), app_nil_r; [by csimpl; rewrite Hf|].
    eapply Forall_impl; [exact Hl2|]. auto. }
  split; [done|]. split.
  - unfold answers in *. by rewrite omap_app, Hos, app_nil_r.
  - rewrite !E; [done|..]; intros t' Ht'; unfold proc_at, call_at, done_at; by rewrite decide_False by congruence.
Qed.

(** The first token of the command is taken. *)
Lemma head_proc x k n l :
  omap (proc_at x) (Token x k n AtProc :: l) = () :: omap (proc_at x) l
  ∧ omap (call_at x) (Token x k n AtProc :: l) = omap (call_at x) l
  ∧ omap (done_at x) (Token x k n AtProc :: l) = omap (done_at x) l.
Proof. csimpl. unfold proc_at at 1, call_at at 1, done_at at 1. by rewrite !decide_True by done. Qed.
Lemma head_call x k n i l :
  omap (proc_at x) (Token x k n (AtCall i) :: l) = omap (proc_at x) l
  ∧ omap (call_at x) (Token x k n (AtCall i) :: l) = i :: omap (call_at x) l
  ∧ omap (done_at x) (Token x k n (AtCall i) :: l) = omap (done_at x) l.
Proof. csimpl. unfold proc_at at 1, call_at at 1, done_at at 1. by rewrite !decide_True by done. Qed.
Lemma head_done x k n i l :
  omap (proc_at x) (Token x k n (AtDone i) :: l) = omap (proc_at x) l
  ∧ omap (call_at x) (Token x k n (AtDone i) :: l) = omap (call_at x) l
  ∧ omap (done_at x) (Token x k n (AtDone i) :: l) = i :: omap (done_at x) l.
Proof. csimpl. unfold proc_at at 1, call_at at 1, done_at at 1. by rewrite !decide_True by done. Qed.

Lemma seq_head i j m l : i :: l = seq j m -> i = j ∧ l = seq (S j) (m - 1) ∧ (1 <= m)%nat.
Proof. destruct m as [|m]; [done|]. intros [= -> ->]. rewrite Nat.sub_succ, Nat.sub_0_r. split_and!; [done..|lia]. Qed.

(** The command after its first lambda asked for the operation. *)
Lemma running_ask a a' i calls dones :
  running a (i :: calls) dones -> stored a a' ->
  (mCommand a ≠ CmdAdd -> ∃ e, errs a' !! i = Some (Some e)) ->
  freed a = false ∧ running a' calls (dones ++ [i]).
Proof.
  intros [(j & Hj & Hc & Hd) Hs He Hset Hf Hlast] [Hargs Hcmd Hfr Hlen Hkept] Hi.
  apply seq_head in Hc as (-> & Hc & Hm). injection Hargs as Eids _ _.
  assert (Efree : freed a = false) by (destruct (freed a); [by destruct (Hf eq_refl)|done]).
  split; [done|]. constructor; rewrite ?Eids, ?Hcmd, ?Hfr.
  - exists (S j). split; [lia|]. split; [rewrite Hc; f_equal; lia|].
    apply Forall_app. split; [|repeat constructor; lia]. eapply Forall_impl; [exact Hd|]. simpl. lia.
  - clear -Hs Hd. induction Hs as [|d dones Hs IH Hall]; simpl; [repeat constructor|].
    apply Forall_cons in Hd as [Hdj Hd]. constructor; [auto|]. apply Forall_app. split; [done|]. by repeat constructor.
  - congruence.
  - intros i' Hi' Hn Hadd. destruct (decide (i' = j)) as [->|Hne].
    + destruct (decide (mCommand a = CmdAdd)) as [E|E]; [|auto]. destruct (Hadd E). set_solver.
    + destruct (Hset i') as [e E]; [done|set_solver|intros E ?; apply (Hadd E); set_solver|]. by eapply Hkept.
  - congruence.
  - intros Hc' _. left. subst calls. destruct (length (mIds a) - j - 1)%nat eqn:El; [|done].
    replace (length (mIds a) - 1)%nat with j by lia. set_solver.
Qed.

(** A lambda of the command ends; it was the last one to run for its geofence.
    [b]: it was the first lambda, and the geofence is unknown. *)
Definition take (b : bool) (i : nat) (calls dones : list nat) : list nat * list nat :=
  if b then (i :: calls, dones) else (calls, i :: dones).

Lemma running_end b a a' i calls dones :
  running a (take b i calls dones).1 (take b i calls dones).2 -> stored a a' ->
  (b = true -> mCommand a ≠ CmdAdd) ->
  (b = true ∨ mCommand a = CmdAdd -> ∃ e, errs a' !! i = Some (Some e)) ->
  (b = true -> i = (length (mIds a) - 1)%nat -> dones = []) ->
  freed a = false ∧
  (∀ i', (i' < length (mIds a))%nat -> i' ∉ calls -> (mCommand a = CmdAdd -> i' ∉ dones) -> ∃ e, errs a' !! i' = Some (Some e)) ∧
  (i = (length (mIds a) - 1)%nat -> calls = [] ∧ dones = []) ∧
  (i ≠ (length (mIds a) - 1)%nat -> running a' calls dones).
Proof.
  intros [(j & Hj & Hc & Hd) Hs He Hset Hf Hlast] [Hargs Hcmd Hfr Hlen Hkept] Hb Hi Hsafe.
  injection Hargs as Eids _ _.
  assert (Efree : freed a = false).
  { destruct (freed a); [|done]. destruct b; by destruct (Hf eq_refl). }
  assert (Hall : ∀ i', (i' < length (mIds a))%nat -> i' ∉ calls -> (mCommand a = CmdAdd -> i' ∉ dones) ->
                 ∃ e, errs a' !! i' = Some (Some e)).
  { intros i' Hi' Hn Hadd. destruct (decide (i' = i ∧ (b = true ∨ mCommand a = CmdAdd))) as [[-> E]|E]; [auto|].
    destruct (Hset i') as [e Hse]; [done|..|by eapply Hkept].
    - destruct b; simpl; [|done]. intros [->|?]%elem_of_cons; [apply E; auto|done].
    - intros Ha. destruct b; simpl; [by auto|]. intros [->|?]%elem_of_cons; [apply E; auto|by apply Hadd]. }
  split; [done|]. split; [done|].
  assert (Hshape : ∃ j, (j <= length (mIds a))%nat ∧ calls = seq j (length (mIds a) - j) ∧ (i < j)%nat
                        ∧ Forall (λ i', i' < j)%nat dones ∧ StronglySorted lt dones
                        ∧ (b = false -> Forall (lt i) dones) ∧ (b = true -> j = S i)).
  { destruct b; simpl in *.
    - apply seq_head in Hc as (-> & Hc & Hm). exists (S j).
      split_and!; [lia|rewrite Hc; f_equal; lia|lia| |done|done|done].
      eapply Forall_impl; [exact Hd|]. simpl. lia.
    - apply Forall_cons in Hd as [Hij Hd]. apply StronglySorted_inv in Hs as [Hs Hl].
      exists j. split_and!; auto. done. }
  destruct Hshape as (j' & Hj' & Hc' & Hij & Hd' & Hs' & Hlt & Hb').
  assert (Hcalls : i = (length (mIds a) - 1)%nat -> calls = []).
  { intros ->. rewrite Hc'. by replace (length (mIds a) - j')%nat with 0%nat by lia. }
  split.
  - intros E. split; [by apply Hcalls|]. destruct b; [by apply Hsafe|].
    destruct dones as [|d dones]; [done|]. specialize (Hlt eq_refl).
    apply Forall_cons in Hlt as [Hlt _]. apply Forall_cons in Hd' as [Hd' _]. lia.
  - intros Hne. constructor; rewrite ?Eids, ?Hcmd, ?Hfr.
    + exists j'. auto.
    + done.
    + congruence.
    + done.
    + congruence.
    + intros Hnil _. destruct b; simpl in *.
      * exfalso. specialize (Hb' eq_refl). rewrite Hc' in Hnil.
        destruct (length (mIds a) - j')%nat eqn:El; [|done]. lia.
      * destruct (Hlast Hnil Efree) as [H|[H _]]; [|done]. left. set_solver.
Qed.

(** A resumption that failed: nothing happens, whatever the geofence. *)
Lemma running_skip a i calls dones :
  running a calls (i :: dones) -> mCommand a = CmdResume -> freed a = false ∧ running a calls dones.
Proof.
  intros [(j & Hj & Hc & Hd) Hs He Hset Hf Hlast] Hk.
  assert (Efree : freed a = false) by (destruct (freed a); [by destruct (Hf eq_refl)|done]).
  apply Forall_cons in Hd as [Hij Hd]. apply StronglySorted_inv in Hs as [Hs Hlt].
  split; [done|]. constructor; eauto.
  - intros i' Hi' Hn _. apply Hset; [done|done|congruence].
  - congruence.
  - intros Hnil _. destruct (Hlast Hnil Efree) as [[Hi|H]%elem_of_cons|[H _]]; [|by left|done].
    right. split; [|by right]. destruct dones as [|d dones]; [done|].
    apply Forall_cons in Hlt as [Hlt _]. apply Forall_cons in Hd as [Hd _]. subst calls.
    simpl in *. destruct (length (mIds a) - j)%nat eqn:El; [lia|done].
Qed.

Section Moves.
(** The first token belongs to the arrays [x], which become [a'] or are deleted. *)
Context (next : N) (bs : gmap N arrays) (l : list token) (os : list geo_output).
Context (x : N) (k : command) (n : nat) (st : stage) (a : arrays).
Hypothesis Hlife : life_inv next bs (Token x k n st :: l) os.
Hypothesis Ha : bs !! x = Some a.

Lemma moved (a' : arrays) (l2 : list token) (os2 : list geo_output) :
  args_of a' = args_of a -> mCommand a' = mCommand a ->
  Forall (λ t, tk_arrays t = x ∧ tk_command t = k ∧ tk_count t = n ∧ (tk_stage t = AtProc ∨ arrays_missing a = false)) l2 ->
  Forall (λ o, answer_to x o = Some o ∨ ∀ y, answer_to y o = None) os2 ->
  Forall (answer_complete (<[x := a']> bs)) os2 ->
  command_inv x a' (l ++ l2) (os ++ os2) ->
  life_inv next (<[x := a']> bs) (l ++ l2) (os ++ os2).
Proof.
  intros Hargs Hcmd Hl2 Hos2 Hans Hinv. destruct Hlife as [Ht Hn Hb Hans0].
  apply Forall_cons in Ht as [(a0 & Ha0 & Hk & Hcount & _) Ht]. simpl in *.
  rewrite Ha in Ha0. injection Ha0 as <-.
  assert (Hlk : ∀ y b, bs !! y = Some b -> ∃ b', <[x := a']> bs !! y = Some b' ∧ args_of b' = args_of b ∧ mCommand b' = mCommand b).
  { intros y b Hy. destruct (decide (y = x)) as [->|]; [|rewrite lookup_insert_ne by done; eauto].
    rewrite lookup_insert_eq. rewrite Ha in Hy. injection Hy as <-. eauto. }
  assert (Hmiss : ∀ b b', args_of b' = args_of b -> mCommand b' = mCommand b -> arrays_missing b' = arrays_missing b).
  { intros b b' [= E1 E2 E3] E4. unfold arrays_missing. by rewrite E4, E2, E3. }
  constructor.
  - apply Forall_app. split.
    + eapply Forall_impl; [exact Ht|]. intros t (b & Hy & H1 & H2 & H3).
      destruct (Hlk _ _ Hy) as (b' & Hb' & Hargs' & Hcmd'). exists b'.
      pose proof Hargs' as E. injection E as E _ _. rewrite E, Hcmd', (Hmiss b b') by done. auto.
    + eapply Forall_impl; [exact Hl2|]. intros t (E1 & E2 & E3 & H). exists a'. rewrite E1, E2, E3, lookup_insert_eq.
      pose proof Hargs as E. injection E as E _ _. rewrite E, Hcmd, (Hmiss a a') by done.
      repeat split; auto. intros Hm. destruct H as [H|H]; congruence.
  - intros y b [[<- <-]|[_ Hy]]%lookup_insert_Some; [by eapply Hn|by eapply Hn].
  - intros y b [[<- <-]|[Hne Hy]]%lookup_insert_Some; [done|].
    eapply (command_inv_other x); [congruence| | | |by apply Hb]; [done|..].
    + eapply Forall_impl; [exact Hl2|]. naive_solver.
    + apply omap_none. eapply Forall_impl; [exact Hos2|]. intros o [Ho|Ho]; [|done].
      destruct o; simpl in *; try done. repeat case_decide; congruence.
  - apply Forall_app. split; [|done]. eapply Forall_impl; [exact Hans0|].
    intros o Ho. destruct o; simpl in *; try done. destruct Ho as ((b & Hy & <-) & Ho). split; [|done].
    destruct (Hlk _ _ Hy) as (b' & ? & [= ?] & _). eauto.
Qed.

Lemma head_facts :
  mCommand a = k ∧ n = length (mIds a) ∧ command_inv x a (Token x k n st :: l) os
  ∧ (st ≠ AtProc -> arrays_missing a = false).
Proof.
  destruct Hlife as [Ht _ Hb _]. apply Forall_cons in Ht as [(a0 & Ha0 & Hk & Hcount & Hm) _]. simpl in *.
  rewrite Ha in Ha0. injection Ha0 as <-. split_and!; auto. intros Hst. by destruct (arrays_missing a); [destruct Hst; auto|].
Qed.

Lemma head_running :
  st ≠ AtProc -> omap (proc_at x) l = [] ∧ well_sized a ∧ length (answers x os) = (if freed a then 1 else 0)%nat
    ∧ running a (omap (call_at x) (Token x k n st :: l)) (omap (done_at x) (Token x k n st :: l)).
Proof.
  intros Hst. destruct head_facts as (_ & _ & (Hw & Hans & Hr) & _).
  destruct st as [|i|i]; [done|..].
  - destruct (head_call x k n i l) as (E1 & E2 & E3). rewrite E1 in Hr.
    destruct (omap (proc_at x) l) as [|u [|]] eqn:Ep; [done| |done].
    destruct Hr as (Hc & _). by rewrite E2 in Hc.
  - destruct (head_done x k n i l) as (E1 & E2 & E3). rewrite E1 in Hr.
    destruct (omap (proc_at x) l) as [|u [|]] eqn:Ep; [done| |done].
    destruct Hr as (_ & Hd & _). by rewrite E3 in Hd.
Qed.

Lemma head_live : freed a = false.
Proof.
  destruct (decide (st = AtProc)) as [E|E].
  - destruct head_facts as (_ & _ & (_ & _ & Hr) & _). subst st.
    destruct (head_proc x k n l) as (E1 & _). rewrite E1 in Hr. destruct (omap (proc_at x) l); [|done].
    by destruct Hr as (_ & _ & ?).
  - destruct (head_running E) as (_ & _ & _ & Hr). destruct (freed a) eqn:Ef; [|done].
    destruct (rn_freed _ _ _ Hr Ef) as [Hc Hd]. destruct st as [|i|i]; [done|..].
    + by rewrite (proj1 (proj2 (head_call _ _ _ _ _))) in Hc.
    + by rewrite (proj2 (proj2 (head_done _ _ _ _ _))) in Hd.
Qed.

Lemma head_index i : st = AtCall i ∨ st = AtDone i -> (i < length (mIds a))%nat.
Proof.
  intros Hst. destruct head_running as (_ & _ & _ & Hr); [by destruct Hst; subst|].
  destruct (rn_calls _ _ _ Hr) as (j & Hj & Hc & Hd). destruct Hst; subst st.
  - rewrite (proj1 (proj2 (head_call _ _ _ _ _))) in Hc. apply seq_head in Hc as (-> & _ & ?). lia.
  - rewrite (proj2 (proj2 (head_done _ _ _ _ _))) in Hd. apply Forall_cons in Hd as [? _]. lia.
Qed.

End Moves.

Lemma life_start next bs l os x k n a (b : bool) (errs' : list (option Z)) :
  life_inv next bs (Token x k n AtProc :: l) os -> bs !! x = Some a ->
  arrays_missing a = b -> length errs' = length (mIds a) ->
  (b = true -> ∀ i, (i < length (mIds a))%nat -> ∃ e, errs' !! i = Some (Some e)) ->
  life_inv next (<[x := set_errs errs' a]> bs)
    (l ++ if b then [] else map (λ i, Token x k n (AtCall i)) (seq 0 n)) os.
Proof.
  intros Hlife Ha Hb Hlen He. destruct (head_facts _ _ _ _ _ _ _ _ _ Hlife Ha) as (Hk & Hn & (Hw & Hans & Hr) & _).
  destruct (head_proc x k n l) as (E1 & E2 & E3). rewrite E1, E2, E3 in Hr.
  destruct (omap (proc_at x) l) eqn:Ep; [|done]. destruct Hr as (Hc & Hd & Hf).
  rewrite <- (app_nil_r os). eapply (moved _ _ _ _ _ _ _ _ _ Hlife Ha); [done|done| |done|done|].
  { destruct b; [done|]. apply Forall_forall. intros t (i & -> & _)%list_elem_of_fmap. auto. }
  rewrite app_nil_r. set (l2 := map (λ i, Token x k n (AtCall i)) (seq 0 n)).
  assert (Ecalls : omap (call_at x) l2 = seq 0 n).
  { unfold l2. generalize (seq 0 n) as li. induction li as [|i li IH]; [done|]. csimpl. unfold call_at at 1.
    rewrite decide_True by done. simpl. by f_equal. }
  assert (Eother : ∀ B (f : token -> option B), (∀ i, f (Token x k n (AtCall i)) = None) -> omap f l2 = []).
  { intros B f Hfi. unfold l2. apply omap_none. apply Forall_forall.
    by intros t (i & -> & _)%list_elem_of_fmap. }
  assert (Eproc : omap (proc_at x) (l ++ if b then [] else l2) = []).
  { rewrite omap_app, Ep. destruct b; [done|]. apply Eother. intros i. unfold proc_at. by case_decide. }
  assert (Edone : omap (done_at x) (l ++ if b then [] else l2) = []).
  { rewrite omap_app, Hd. destruct b; [done|]. apply Eother. intros i. unfold done_at. by case_decide. }
  split; [done|]. split; [done|]. rewrite Eproc, Edone, omap_app, Hc. simpl.
  destruct b; csimpl; rewrite ?Ecalls; constructor; simpl.
  - exists (length (mIds a)). by rewrite Nat.sub_diag.
  - constructor.
  - done.
  - intros i Hi _ _. by apply He.
  - done.
  - intros _ _. right. split; [done|]. by left.
  - exists 0%nat. rewrite Nat.sub_0_r, Hn. split_and!; [lia|done|done].
  - constructor.
  - done.
  - intros i Hi Hni. destruct Hni. apply elem_of_seq. lia.
  - by rewrite Hf.
  - intros E. destruct Hw as [Hw _]. rewrite Hn in E. by destruct (length (mIds a)); [lia|].
Qed.

Lemma life_ask next bs l os x k n a i a' :
  life_inv next bs (Token x k n (AtCall i) :: l) os -> bs !! x = Some a ->
  stored a a' -> (mCommand a ≠ CmdAdd -> ∃ e, errs a' !! i = Some (Some e)) ->
  life_inv next (<[x := a']> bs) (l ++ [Token x k n (AtDone i)]) os.
Proof.
  intros Hlife Ha Hst He. destruct (head_running _ _ _ _ _ _ _ _ _ Hlife Ha) as (Hp & Hw & Hans & Hr); [done|].
  destruct (head_facts _ _ _ _ _ _ _ _ _ Hlife Ha) as (Hk & Hn & _ & Hm).
  destruct (head_call x k n i l) as (_ & E2 & E3). rewrite E2, E3 in Hr.
  destruct (running_ask _ a' _ _ _ Hr Hst He) as [Hf Hr']. destruct Hst as [Hargs Hcmd Hfr _ _].
  rewrite <- (app_nil_r os). eapply (moved _ _ _ _ _ _ _ _ _ Hlife Ha); [done|done| |done|done|].
  { constructor; [|done]. split_and!; [done..|]. right. by apply Hm. }
  rewrite app_nil_r. split; [|split].
  - unfold well_sized in *. injection Hargs as -> -> ->. done.
  - by rewrite Hfr.
  - rewrite !omap_app, Hp. csimpl. unfold proc_at, call_at, done_at. rewrite !decide_True by done. simpl.
    by rewrite app_nil_r.
Qed.

Lemma life_end next bs l os x k n a (b : bool) i a' c d :
  life_inv next bs (Token x k n (if b then AtCall i else AtDone i) :: l) os -> bs !! x = Some a ->
  stored a a' ->
  (b = true -> k ≠ CmdAdd) -> (b = true ∨ k = CmdAdd -> ∃ e, errs a' !! i = Some (Some e)) ->
  (b = true -> i = (n - 1)%nat -> omap (done_at x) l = []) ->
  if (i =? n - 1)%nat
  then life_inv next (<[x := free_arrays a']> bs) l (os ++ [OutGeofencesResponse x c n (errs a') (mIds a') d])
  else life_inv next (<[x := a']> bs) l os.
Proof.
  intros Hlife Ha Hst Hb He Hsafe.
  destruct (head_running _ _ _ _ _ _ _ _ _ Hlife Ha) as (Hp & Hw & Hans & Hr); [by destruct b|].
  destruct (head_facts _ _ _ _ _ _ _ _ _ Hlife Ha) as (Hk & Hn & _ & _). subst n k.
  assert (Hr' : running a (take b i (omap (call_at x) l) (omap (done_at x) l)).1
                          (take b i (omap (call_at x) l) (omap (done_at x) l)).2).
  { destruct b.
    - destruct (head_call x (mCommand a) (length (mIds a)) i l) as (_ & E2 & E3). by rewrite E2, E3 in Hr.
    - destruct (head_done x (mCommand a) (length (mIds a)) i l) as (_ & E2 & E3). by rewrite E2, E3 in Hr. }
  destruct (running_end b a a' i _ _ Hr' Hst Hb He Hsafe) as (Hf & Hset & Hlast & Hmore).
  destruct Hst as [Hargs Hcmd Hfr Hlen Hkept].
  assert (Hw' : well_sized a') by (unfold well_sized in *; injection Hargs as -> -> ->; done).
  pose proof Hargs as Eids. injection Eids as Eids _ _.
  destruct (Nat.eqb_spec i (length (mIds a) - 1)) as [Ei|Ei].
  - destruct (Hlast Ei) as [Hc Hd]. rewrite <- (app_nil_r l).
    assert (Hall : ∀ i', (i' < length (mIds a))%nat -> ∃ e, errs a' !! i' = Some (Some e)).
    { intros i' Hi'. apply Hset; [done|rewrite Hc|rewrite Hd]; set_solver. }
    eapply (moved _ _ _ _ _ _ _ _ _ Hlife Ha); [done|done|done|..].
    + constructor; [|done]. left. simpl. by rewrite decide_True.
    + constructor; [|done]. simpl. rewrite Hlen, (rn_errs _ _ _ Hr), Eids. split_and!; [|done|done|].
      * exists (free_arrays a'). by rewrite lookup_insert_eq.
      * apply Forall_lookup. intros i' o Ho. destruct (Hall i') as [e He']; [|naive_solver].
        apply lookup_lt_Some in Ho. by rewrite Hlen, (rn_errs _ _ _ Hr) in Ho.
    + rewrite app_nil_r. split; [done|]. split.
      * unfold answers in *. rewrite omap_app, length_app, Hans, Hf. simpl. by rewrite decide_True.
      * rewrite Hp, Hc, Hd. constructor; simpl; try done; [|constructor|by rewrite Hlen, (rn_errs _ _ _ Hr), Eids|].
        -- exists (length (mIds a')). by rewrite Nat.sub_diag.
        -- intros i' Hi' _ _. rewrite Eids in Hi'. auto.
  - rewrite <- (app_nil_r os), <- (app_nil_r l). eapply (moved _ _ _ _ _ _ _ _ _ Hlife Ha); [done..|].
    rewrite !app_nil_r. split; [done|]. split; [by rewrite Hfr|]. rewrite Hp. by apply Hmore.
Qed.

Lemma life_skip next bs l os x k n a i :
  life_inv next bs (Token x k n (AtDone i) :: l) os -> bs !! x = Some a ->
  k = CmdResume -> life_inv next bs l os.
Proof.
  intros Hlife Ha Hres. destruct (head_running _ _ _ _ _ _ _ _ _ Hlife Ha) as (Hp & Hw & Hans & Hr); [done|].
  destruct (head_facts _ _ _ _ _ _ _ _ _ Hlife Ha) as (Hk & Hn & _ & _).
  destruct (head_done x k n i l) as (_ & E2 & E3). rewrite E2, E3 in Hr.
  destruct (running_skip _ _ _ _ Hr) as [Hf Hr']; [congruence|].
  rewrite <- (app_nil_r os), <- (app_nil_r l), <- (insert_id bs x a Ha). eapply (moved _ _ _ _ _ _ _ _ _ Hlife Ha); [done..|].
  rewrite !app_nil_r. split; [done|]. split; [done|]. by rewrite Hp.
Qed.

(** * Handlers *)

(** States with the same commands. *)
Record same_commands (s s' : geo_state) : Prop := SameCommands {
  sc_blocks : blocks s' = blocks s;
  sc_next : next_block s' = next_block s;
  sc_tokens : all_tokens s' = all_tokens s;
  sc_outs : ∃ os, outs s' = outs s ++ os ∧ ∀ x, answers x os = [] ∧ ∀ bs, Forall (answer_complete bs) os
}.

Lemma life_inv_same next bs l os os' :
  (∀ x, answers x os' = [] ∧ ∀ bs, Forall (answer_complete bs) os') ->
  life_inv next bs l os -> life_inv next bs l (os ++ os').
Proof.
  intros Ho [H1 H2 H3 H4]. constructor; [done|done| |].
  - intros x a Hx. destruct (H3 x a Hx) as (Hw & Ha & Hr). split; [done|]. split; [|done].
    unfold answers in *. rewrite omap_app. destruct (Ho x) as [-> _]. by rewrite app_nil_r.
  - apply Forall_app. split; [done|]. by apply (Ho 0%N).
Qed.
Lemma same_commands_refl s : same_commands s s.
Proof. constructor; try done. exists []. rewrite app_nil_r. split; [done|]. intros x. split; [done|constructor]. Qed.
Lemma same_commands_trans s1 s2 s3 : same_commands s1 s2 -> same_commands s2 s3 -> same_commands s1 s3.
Proof.
  intros [H1 H2 H3 (o1 & H4 & H5)] [G1 G2 G3 (o2 & G4 & G5)]. constructor; try congruence.
  exists (o1 ++ o2). rewrite G4, H4. split; [by rewrite app_assoc|]. intros x.
  destruct (H5 x) as [A B], (G5 x) as [C D]. split; [|intros bs; by apply Forall_app].
  unfold answers in *. by rewrite omap_app, A, C.
Qed.
Lemma same_commands_life t s s' :
  same_commands s s' -> life_inv (next_block s) (blocks s) (t ++ all_tokens s) (outs s) ->
  life_inv (next_block s') (blocks s') (t ++ all_tokens s') (outs s').
Proof. intros [-> -> -> (os & -> & Ho)] H. by apply life_inv_same. Qed.
#[local] Hint Resolve same_commands_refl : core.

Section Handlers.
Context (x : item) (k : command) (s : geo_state).
Abbreviation i := (mIndex x).
Definition before (st : nat -> stage) : Prop :=
  life_inv (next_block s) (blocks s) (item_token k x st :: all_tokens s) (outs s).

Lemma before_arrays st :
  before st -> ∃ a, blocks s !! mArrays x = Some a.
Proof.
  intros [Ht _ _ _]. apply Forall_cons in Ht as [(a & Ha & _) _]. by exists a.
Qed.
Lemma before_live st : before st -> ∃ a, blocks s !! mArrays x = Some a ∧ live (mArrays x) s = Some a.
Proof.
  intros Hb. destruct (before_arrays _ Hb) as [a Ha]. exists a. split; [done|].
  unfold live. rewrite Ha. by rewrite (head_live _ _ _ _ _ _ _ _ _ Hb Ha).
Qed.

(** The entries that a lambda reads. *)
Lemma before_reads st a :
  before st -> st = AtCall ∨ st = AtDone -> blocks s !! mArrays x = Some a ->
  mCommand a = k ∧
  is_Some (mIds a !! i) ∧ (k = CmdAdd ∨ k = CmdModify -> is_Some (mOptions a ≫= lookup i)) ∧
  (k = CmdAdd -> is_Some (mInfos a ≫= lookup i)).
Proof.
  intros Hb Hst Ha. destruct (head_facts _ _ _ _ _ _ _ _ _ Hb Ha) as (Hk & Hn & (Hw & _) & Hm).
  assert (Hi : (i < length (mIds a))%nat).
  { apply (head_index _ _ _ _ _ _ _ _ _ Hb Ha). by destruct Hst as [-> | ->]; auto. }
  assert (Hmiss : arrays_missing a = false) by (apply Hm; by destruct Hst as [-> | ->]).
  destruct Hw as (_ & Ho & Hinfo). unfold arrays_missing in Hmiss. rewrite Hk in Hmiss.
  split; [done|]. split; [by apply lookup_lt_is_Some|]. split.
  - intros Hcmd. destruct (mOptions a) as [l|] eqn:E; [|by destruct Hcmd as [E'|E']; rewrite E' in Hmiss].
    simpl. apply lookup_lt_is_Some. by rewrite (Ho l).
  - intros E'. rewrite E' in Hmiss. destruct (mOptions a); [|done]. destruct (mInfos a) as [li|] eqn:E; [|done].
    simpl. apply lookup_lt_is_Some. by rewrite (Hinfo li).
Qed.

(** The last lambda of an item: store and finish. *)
Lemma finish_life (b : bool) a a' s1 :
  before (if b then AtCall else AtDone) -> blocks s !! mArrays x = Some a -> stored a a' ->
  (b = true -> k ≠ CmdAdd) -> (b = true ∨ k = CmdAdd -> ∃ e, errs a' !! i = Some (Some e)) ->
  (b = true -> i = (mCount x - 1)%nat -> omap (done_at (mArrays x)) (all_tokens s) = []) ->
  blocks s1 = <[mArrays x := a']> (blocks s) -> next_block s1 = next_block s ->
  all_tokens s1 = all_tokens s -> outs s1 = outs s ->
  ∃ s', finish x s1 = Some s' ∧ geo_life s'.
Proof.
  intros Hb Ha Hst Hk He Hsafe E1 E2 E3 E4.
  assert (Hb' : life_inv (next_block s) (blocks s)
    (Token (mArrays x) k (mCount x) (if b then AtCall i else AtDone i) :: all_tokens s) (outs s)) by by destruct b.
  assert (Hf : freed a = false) by exact (head_live _ _ _ _ _ _ _ _ _ Hb Ha).
  unfold finish. set (d := match mGeoClients (base s1) !! mClient x with Some it => collectiveResponseCb it | None => false end).
  pose proof (life_end _ _ _ _ _ _ _ _ b i a' (mClient x) d Hb' Ha Hst Hk He Hsafe) as Hend.
  destruct (i =? mCount x - 1)%nat.
  - assert (El : live (mArrays x) s1 = Some a').
    { unfold live. rewrite E1, lookup_insert_eq, (st_freed _ _ Hst). by rewrite Hf. }
    rewrite El. eexists. split; [done|]. unfold geo_life, geo_reportResponse. simpl.
    rewrite E1, E2, E4, insert_insert_eq.
    change (all_tokens _) with (all_tokens s1). rewrite E3. exact Hend.
  - eexists. split; [done|]. unfold geo_life. rewrite E1, E2, E3, E4. exact Hend.
Qed.
End Handlers.

Lemma all_tokens_call r resp s :
  all_tokens (call_lapi r resp s) = all_tokens s ++ option_list (response_token resp).
Proof.
  unfold all_tokens. simpl. by rewrite omap_app, app_assoc.
Qed.
Lemma all_tokens_on_blocks f s : all_tokens (on_blocks f s) = all_tokens s.
Proof. done. Qed.
Lemma all_tokens_on_maps f s : all_tokens (on_maps f s) = all_tokens s.
Proof. done. Qed.

(** The first lambdas. *)
Lemma call_add_life x s :
  before x CmdAdd s AtCall -> ∃ s', call_add x s = Some s' ∧ geo_life s'.
Proof.
  intros Hb. destruct (before_live _ _ _ _ Hb) as (a & Ha & El).
  destruct (before_reads _ _ _ _ _ Hb (or_introl eq_refl) Ha) as (Hk & [id Hid] & Ho & Hinfo).
  destruct Ho as [o Ho]; [by left|]. destruct (Hinfo eq_refl) as [info Hinfo'].
  unfold call_add. rewrite El. simpl. rewrite Hid. simpl. rewrite Ho. simpl. rewrite Hinfo'. simpl.
  eexists. split; [done|]. unfold geo_life. rewrite all_tokens_call. simpl.
  rewrite <- (insert_id (blocks s) _ _ Ha).
  apply (life_ask _ _ _ _ _ _ _ _ _ a Hb Ha); [apply stored_refl|]. by rewrite Hk.
Qed.

Lemma geofence_request_some k x h id a :
  k ≠ CmdAdd -> (k = CmdAdd ∨ k = CmdModify -> is_Some (mOptions a ≫= lookup (mIndex x))) ->
  ∃ r resp, geofence_request k x h id a = Some (r, resp) ∧ response_token resp = Some (item_token k x AtDone).
Proof.
  intros Hk Ho. destruct k; [done|simpl; eauto..|]. destruct Ho as [o Ho]; [by right|].
  simpl. rewrite Ho. simpl. eauto.
Qed.

Lemma call_known_life k x s :
  before x k s AtCall -> k ≠ CmdAdd ->
  (∀ a id, blocks s !! mArrays x = Some a -> mIds a !! mIndex x = Some id ->
     getHwIdFromClient (mClient x) id s = None -> mIndex x = (mCount x - 1)%nat ->
     omap (done_at (mArrays x)) (all_tokens s) = []) ->
  ∃ s', call_known k x s = Some s' ∧ geo_life s'.
Proof.
  intros Hb Hne Hsafe. destruct (before_live _ _ _ _ Hb) as (a & Ha & El).
  destruct (before_reads _ _ _ _ _ Hb (or_introl eq_refl) Ha) as (Hk & [id Hid] & Ho & _).
  assert (Hi : (mIndex x < length (errs a))%nat).
  { destruct (head_running _ _ _ _ _ _ _ _ _ Hb Ha) as (_ & _ & _ & Hr); [done|].
    rewrite (rn_errs _ _ _ Hr). by eapply lookup_lt_Some. }
  assert (Hset : ∀ e, ∃ e', errs (set_errs (<[mIndex x:=Some e]> (errs a)) a) !! mIndex x = Some (Some e')).
  { intros e. simpl. rewrite list_lookup_insert_eq by done. eauto. }
  unfold call_known, set_err. rewrite El. simpl. rewrite Hid. simpl.
  destruct (getHwIdFromClient (mClient x) id s) as [h|] eqn:Eh.
  - destruct (geofence_request_some k x h id a) as (r & resp & -> & Htok); [done|done|]. simpl.
    eexists. split; [done|]. unfold geo_life. rewrite all_tokens_call, all_tokens_on_blocks, Htok. simpl.
    apply (life_ask _ _ _ _ _ _ _ _ _ _ Hb Ha); [apply stored_err|]. intros _. apply Hset.
  - simpl. apply (finish_life x k s true a _ _ Hb Ha (stored_err a (mIndex x) LOCATION_ERROR_ID_UNKNOWN)); try done.
    intros _. by eapply Hsafe.
Qed.

(** The second lambdas. *)
Lemma done_store_life k x s f e :
  before x k s AtDone ->
  ∃ s1 s', set_err x e (on_maps f s) = Some s1 ∧ finish x s1 = Some s' ∧ geo_life s'.
Proof.
  intros Hb. destruct (before_live _ _ _ _ Hb) as (a & Ha & El).
  assert (Hi : (mIndex x < length (errs a))%nat).
  { destruct (before_reads _ _ _ _ _ Hb (or_intror eq_refl) Ha) as (_ & [id Hid] & _).
    destruct (head_running _ _ _ _ _ _ _ _ _ Hb Ha) as (_ & _ & _ & Hr); [done|].
    rewrite (rn_errs _ _ _ Hr). by eapply lookup_lt_Some. }
  unfold set_err. change (live (mArrays x) (on_maps f s)) with (live (mArrays x) s). rewrite El.
  set (s1 := on_blocks _ _). exists s1.
  destruct (finish_life x k s false a _ s1 Hb Ha (stored_err a (mIndex x) e)) as (s' & ? & ?); try done; [|by exists s'].
  intros _. simpl. rewrite list_lookup_insert_eq by done. eauto.
Qed.

Lemma done_add_life x err h s :
  before x CmdAdd s AtDone -> ∃ s', done_add x err h s = Some s' ∧ geo_life s'.
Proof.
  intros Hb. destruct (before_live _ _ _ _ Hb) as (a & Ha & El).
  destruct (before_reads _ _ _ _ _ Hb (or_intror eq_refl) Ha) as (Hk & [id Hid] & Ho & Hinfo).
  destruct Ho as [o Ho]; [by left|]. destruct (Hinfo eq_refl) as [info Hinfo'].
  unfold done_add. destruct (_ || _).
  - rewrite El. simpl. rewrite Hid. simpl. rewrite Ho. simpl. rewrite Hinfo'. simpl.
    destruct (done_store_life _ x s (saveGeofenceItem (mClient x) id h o info) err Hb) as (s1 & s' & -> & ? & ?).
    simpl. by exists s'.
  - simpl. destruct (done_store_life _ x s (λ g, g) err Hb) as (s1 & s' & E & ? & ?).
    rewrite on_maps_id in E. rewrite E. simpl. by exists s'.
Qed.
Lemma done_remove_life x hw err s :
  before x CmdRemove s AtDone -> ∃ s', done_remove x hw err s = Some s' ∧ geo_life s'.
Proof.
  intros Hb. unfold done_remove. destruct (_ || _).
  - destruct (done_store_life _ x s (removeGeofenceItem hw) err Hb) as (s1 & s' & -> & ? & ?). by exists s'.
  - destruct (done_store_life _ x s (λ g, g) err Hb) as (s1 & s' & E & ? & ?).
    rewrite on_maps_id in E. rewrite E. by exists s'.
Qed.
Lemma done_pause_life x hw err s :
  before x CmdPause s AtDone -> ∃ s', done_pause x hw err s = Some s' ∧ geo_life s'.
Proof.
  intros Hb. unfold done_pause. destruct (succeeded err).
  - destruct (done_store_life _ x s (pauseGeofenceItem hw) err Hb) as (s1 & s' & -> & ? & ?). by exists s'.
  - destruct (done_store_life _ x s (λ g, g) err Hb) as (s1 & s' & E & ? & ?).
    rewrite on_maps_id in E. rewrite E. by exists s'.
Qed.
Lemma done_resume_life x hw err s :
  before x CmdResume s AtDone -> ∃ s', done_resume x hw err s = Some s' ∧ geo_life s'.
Proof.
  intros Hb. destruct (before_live _ _ _ _ Hb) as (a & Ha & El). unfold done_resume. destruct (succeeded err).
  - unfold set_err. rewrite El. simpl.
    apply (finish_life x CmdResume s false a _ _ Hb Ha (stored_err a (mIndex x) err)); try done.
    by intros [? | ?].
  - eexists. split; [done|]. eapply (life_skip _ _ _ _ _ _ _ _ _ Hb Ha eq_refl).
Qed.
Lemma done_modify_life x hw err s :
  before x CmdModify s AtDone -> ∃ s', done_modify x hw err s = Some s' ∧ geo_life s'.
Proof.
  intros Hb. destruct (before_live _ _ _ _ Hb) as (a & Ha & El).
  pose proof (head_live _ _ _ _ _ _ _ _ _ Hb Ha) as Hf.
  destruct (before_reads _ _ _ _ _ Hb (or_intror eq_refl) Ha) as (Hk & _ & Ho & _).
  destruct Ho as [o Ho]; [by right|]. unfold done_modify. destruct (_ || _).
  - unfold set_err. rewrite El. simpl. unfold live. simpl. rewrite lookup_insert_eq. simpl. rewrite Hf. simpl.
    rewrite Ho. simpl.
    apply (finish_life x CmdModify s false a _ _ Hb Ha (stored_err a (mIndex x) err)); try done.
    by intros [? | ?].
  - simpl. apply (finish_life x CmdModify s false a a _ Hb Ha (stored_refl a)); try done; [by intros [? | ?]|].
    by rewrite (insert_id (blocks s) _ _ Ha).
Qed.

Lemma all_tokens_requests rs s :
  all_tokens (on_lapi (λ a, GApi (geoLockState a) (geo_requests a ++ rs) (programmed a)) s) =
  all_tokens s ++ omap (λ rr, response_token rr.2) rs.
Proof. unfold all_tokens. simpl. by rewrite omap_app, app_assoc. Qed.

Lemma proc_MsgGeofences_life k x n c s :
  life_inv (next_block s) (blocks s) (Token x k n AtProc :: all_tokens s) (outs s) ->
  ∃ s', proc_MsgGeofences k x n c s = Some s' ∧ geo_life s'.
Proof.
  intros Hb. pose proof (lf_tokens _ _ _ _ Hb) as [(a & Ha & _ & Hn & _) _]%Forall_cons. simpl in Ha, Hn.
  pose proof (head_live _ _ _ _ _ _ _ _ _ Hb Ha) as Hf.
  unfold proc_MsgGeofences, live. rewrite Ha, Hf. simpl.
  destruct (arrays_missing a) eqn:Em; (eexists; split; [done|]); unfold geo_life.
  - rewrite <- (app_nil_r (all_tokens _)).
    apply (life_start _ _ _ _ _ _ _ _ true _ Hb Ha Em).
    + by rewrite length_replicate.
    + intros _ i Hi. exists LOCATION_ERROR_INVALID_PARAMETER. apply lookup_replicate. by rewrite Hn.
  - set (f := λ i, (CallQueue, Called k (Item x i n c))).
    change (λ s i, call_lapi CallQueue (Called k (Item x i n c)) s) with (λ s i, call_lapi (f i).1 (f i).2 s).
    rewrite foldl_call_lapi, all_tokens_requests.
    assert (E : omap (λ rr : geo_request * geo_response, response_token rr.2) (map f (seq 0 n))
                = map (λ i, Token x k n (AtCall i)) (seq 0 n)).
    { generalize (seq 0 n) as li. induction li as [|i li IH]; [done|]. csimpl. by rewrite IH. }
    rewrite E. apply (life_start _ _ _ _ _ _ _ _ false _ Hb Ha Em); [by rewrite length_replicate, Hn|done].
Qed.

(** ** Messages that leave the commands alone *)

Lemma foldl_same {A} (f : geo_state -> A -> geo_state) l s :
  (∀ s a, same_commands s (f s a)) -> same_commands s (foldl f s l).
Proof.
  intros H. revert s. induction l as [|a l IH]; intros s; simpl; [done|].
  eapply same_commands_trans; [apply H|apply IH].
Qed.
Lemma output_same o s : (∀ x, answer_to x o = None) -> (∀ bs, answer_complete bs o) -> same_commands s (output_geo o s).
Proof.
  intros H1 H2. constructor; try done. exists [o]. split; [done|]. intros x. split; [|intros bs; by constructor].
  unfold answers. csimpl. by rewrite H1.
Qed.
Lemma on_base_same f s : same_commands s (on_base f s).
Proof. by constructor; try done; apply (same_commands_refl s). Qed.
Lemma on_maps_same f s : same_commands s (on_maps f s).
Proof. by constructor; try done; apply (same_commands_refl s). Qed.
Lemma call_same r resp s : response_token resp = None -> same_commands s (call_lapi r resp s).
Proof.
  intros H. constructor; try done; [|by apply (same_commands_refl s)].
  by rewrite all_tokens_call, H, app_nil_r.
Qed.
Lemma send_same m s : msg_token m = None -> same_commands s (send_geo m s).
Proof.
  intros H. constructor; try done; [|by apply (same_commands_refl s)].
  unfold all_tokens. simpl. rewrite omap_app. csimpl. by rewrite H, app_nil_r.
Qed.
#[local] Hint Resolve output_same on_base_same on_maps_same call_same send_same foldl_same : core.
#[local] Hint Extern 1 (same_commands _ (output_geo _ _)) => apply output_same; done : core.

Lemma set_clients_same m s : same_commands s (set_clients m s).
Proof. unfold set_clients, geo_updateClientsEventMask. simpl. eapply same_commands_trans; apply on_base_same. Qed.
Lemma stopClientSessions_same c s : same_commands s (geo_stopClientSessions c s).
Proof.
  apply foldl_same. intros s' [k h]. simpl. case_match; [|done].
  eapply same_commands_trans; [apply on_maps_same|by apply call_same].
Qed.
Lemma proc_MsgSSREvent_same s :
  existsb handed (mGeoPending (base s)) = false -> ∃ s', proc_MsgSSREvent s = Some s' ∧ same_commands s s'.
Proof.
  intros Hp. unfold proc_MsgSSREvent. set (s0 := on_base _ s).
  assert (H1 : same_commands s (geo_broadcastCapabilities s0)).
  { eapply same_commands_trans; [apply on_base_same|]. apply foldl_same. intros s' [c cbs]. case_match; auto. }
  assert (P1 : mGeoPending (base (geo_broadcastCapabilities s0)) = mGeoPending (base s)).
  { unfold geo_broadcastCapabilities. generalize (hw_entries (mGeoClients (base s0))).
    change (mGeoPending (base s)) with (mGeoPending (base s0)). generalize s0 as t. intros t l. revert t.
    induction l as [|[c cbs] l IH]; intros t; [done|]. simpl. rewrite IH. by case_match. }
  case_match; [|by eexists].
  set (s1 := geo_broadcastCapabilities s0) in *.
  assert (H2 : same_commands s1 (restartGeofences s1)).
  { unfold restartGeofences. case_decide; [done|]. eapply same_commands_trans; [apply on_maps_same|].
    apply foldl_same. intros s' [h o]. by apply call_same. }
  assert (P2 : mGeoPending (base (restartGeofences s1)) = mGeoPending (base s1)).
  { unfold restartGeofences. case_decide; [done|]. by rewrite restart_loop_eq. }
  rewrite P2, P1, Hp. eexists. split; [done|]. rewrite send_capabilities_eq.
  eapply same_commands_trans; [exact H1|]. eapply same_commands_trans; [exact H2|].
  constructor; try done; [|by apply (same_commands_refl (restartGeofences s1))].
  unfold all_tokens. simpl. rewrite omap_app, (omap_none _ (map _ _)), app_nil_r; [done|].
  apply Forall_forall. by intros m (q & -> & _)%list_elem_of_fmap.
Qed.

Lemma restarted_same o opts info err h s :
  ∃ s', proc_response (Restarted o opts info) err h s = Some s' ∧ same_commands s s'.
Proof.
  simpl. destruct (succeeded err); (eexists; split; [done|]); [|done].
  eapply same_commands_trans; [|apply on_maps_same]. destruct (paused o); auto.
Qed.

(** * Steps *)

(** What is assumed: the arrays of a command have an entry for each geofence; no
    request for the capabilities that was kept before is sent a second time; and
    when the last geofence of a command is unknown, no other geofence of the
    command still waits for the modem. *)
Definition sized (n : nat) {A} (l : option (list A)) : Prop := match l with Some l => length l = n | None => True end.
#[export] Instance sized_dec n {A} (l : option (list A)) : Decision (sized n l).
Proof. unfold sized. case_match; apply _. Defined.

Definition geofence_unknown (x : item) (s : geo_state) : bool :=
  match blocks s !! mArrays x with
  | Some a =>
      match mIds a !! mIndex x with
      | Some i => match getHwIdFromClient (mClient x) i s with Some _ => false | None => true end
      | None => true
      end
  | None => true
  end.
Definition task_ok (m : geo_msg) (s : geo_state) : Prop :=
  match m with
  | GeoApiResponse (Called k x) _ _ =>
      k ≠ CmdAdd -> geofence_unknown x s = true -> mIndex x = (mCount x - 1)%nat ->
      omap (done_at (mArrays x)) (all_tokens s) = []
  | MsgSSREvent => existsb handed (mGeoPending (base s)) = false
  | _ => True
  end.
Definition commands_ok (s : geo_state) (e : geo_event) : Prop :=
  match e with
  | AddGeofencesCommand _ n options infos => sized n options ∧ sized n infos
  | GeofencesCommand _ _ ids options => sized (length ids) options
  | GeoTaskRun => match tasks s with m :: q => task_ok m (on_tasks (λ _, q) s) | [] => True end
  | _ => True
  end.
#[export] Instance commands_ok_dec s e : Decision (commands_ok s e).
Proof. destruct e; simpl; repeat case_match; try apply _; destruct g; simpl; try apply _; destruct r; apply _. Defined.

Lemma proc_geo_life m s :
  life_inv (next_block s) (blocks s) (option_list (msg_token m) ++ all_tokens s) (outs s) -> task_ok m s ->
  ∃ s', proc_geo m s = Some s' ∧ geo_life s'.
Proof.
  intros Hb Hok.
  assert (Hsame : msg_token m = None -> (∃ s', proc_geo m s = Some s' ∧ same_commands s s') ->
                  ∃ s', proc_geo m s = Some s' ∧ geo_life s').
  { intros Hm (s' & E & Hs). exists s'. split; [done|]. rewrite Hm in Hb. by apply (same_commands_life [] s s'). }
  destruct m as [k x n c|l a b t|a|c cbs|c|c| |st|r err h]; simpl in Hb |- *;
    try (apply Hsame; [done|]; simpl).
  - by apply proc_MsgGeofences_life.
  - eexists. split; [done|]. apply foldl_same. intros s' [c cbs]. simpl. case_match; auto.
  - eexists. split; [done|]. apply foldl_same. intros s' [c cbs]. simpl. case_match; auto.
  - eexists. split; [done|]. apply set_clients_same.
  - eexists. split; [done|]. eapply same_commands_trans; [apply stopClientSessions_same|apply set_clients_same].
  - eexists. split; [done|]. unfold geo_requestCapabilities. repeat case_match; auto.
  - by apply proc_MsgSSREvent_same.
  - eauto.
  - simpl in Hok. destruct r as [k x|x|x h'|x h'|x h'|x h'|h'|o opts info|]; simpl in Hb.
    + assert (Hk : k ≠ CmdAdd -> ∃ s', call_known k x s = Some s' ∧ geo_life s').
      { intros Hk. apply call_known_life; [done|done|]. intros a i Ha Hi Hun Hlast. apply Hok; [done| |done].
        unfold geofence_unknown. by rewrite Ha, Hi, Hun. }
      destruct k; [by apply call_add_life|by apply Hk..].
    + by apply done_add_life.
    + by apply done_remove_life.
    + by apply done_pause_life.
    + by apply done_resume_life.
    + by apply done_modify_life.
    + apply Hsame; [done|]. eexists. split; [done|]. destruct (succeeded err); [apply on_maps_same|done].
    + apply Hsame; [done|]. apply restarted_same.
    + apply Hsame; [done|]. eauto.
Qed.

Lemma task_life s :
  geo_life s -> commands_ok s GeoTaskRun -> ∃ s', geo_task_run s = Some s' ∧ geo_life s'.
Proof.
  intros Hl Hok. unfold geo_task_run. simpl in Hok. destruct (tasks s) as [|m q] eqn:Eq; [eauto|].
  apply proc_geo_life; [|done]. unfold geo_life in Hl. unfold all_tokens in *. rewrite Eq in Hl. simpl.
  csimpl in Hl. by destruct (msg_token m).
Qed.

Lemma api_life err h s : geo_life s -> geo_life (geo_api_run err h s).
Proof.
  unfold geo_life, geo_api_run. destruct (geo_requests (lapi s)) as [|[r resp] rs] eqn:Eq; [done|]. simpl.
  intros Hl.
  assert (E : ∀ err f, (∀ a, geo_requests (f a) = rs) ->
     all_tokens (send_geo (GeoApiResponse resp err h) (on_lapi f s)) = all_tokens s).
  { intros e f Hf. unfold all_tokens. simpl. rewrite Hf, Eq, omap_app, <- app_assoc. f_equal. csimpl.
    by destruct (response_token resp). }
  by rewrite E.
Qed.

Lemma command_life k c ids options infos s :
  geo_life s -> ids ≠ [] -> sized (length ids) options -> sized (length ids) infos ->
  geo_life (send_command k c ids options infos s).
Proof.
  intros [Ht Hn Hb Ha] Hids Ho Hi. unfold geo_life. simpl. set (x := next_block s) in *.
  set (t := Token x k (length ids) AtProc). set (a0 := Arrays k ids options infos [] false).
  set (l1 := omap msg_token (tasks s)). set (l2 := omap (λ rr, response_token rr.2) (geo_requests (lapi s))).
  assert (Etok : all_tokens (send_command k c ids options infos s) = l1 ++ t :: l2).
  { unfold all_tokens. simpl. rewrite omap_app, <- app_assoc. done. }
  change (all_tokens s) with (l1 ++ l2) in *.
  assert (Hne : ∀ y b, blocks s !! y = Some b -> y ≠ x) by (intros y b Hy ->; apply Hn in Hy; lia).
  assert (Hother : Forall (λ t', tk_arrays t' ≠ x) (l1 ++ l2)).
  { eapply Forall_impl; [exact Ht|]. intros t' (b & Hy & _). by eapply Hne. }
  assert (Hget : ∀ y b, blocks s !! y = Some b -> <[x := a0]> (blocks s) !! y = Some b).
  { intros y b Hy. rewrite lookup_insert_ne; [done|]. intros ->. by eapply Hne. }
  rewrite Etok. constructor.
  - apply Forall_app in Ht as [Ht1 Ht2].
    assert (Hok : ∀ t', token_ok (blocks s) t' -> token_ok (<[x := a0]> (blocks s)) t').
    { intros t' (b & Hy & H). exists b. split; [by apply Hget|done]. }
    apply Forall_app. split; [by eapply Forall_impl|]. constructor; [|by eapply Forall_impl].
    exists a0. simpl. rewrite lookup_insert_eq. done.
  - intros y b [[<- <-]|[_ Hy]]%lookup_insert_Some; [lia|]. apply Hn in Hy. lia.
  - intros y b [[<- <-]|[_ Hy]]%lookup_insert_Some.
    + assert (E : ∀ B (f : token -> option B), (∀ t', tk_arrays t' ≠ x -> f t' = None) ->
                    omap f (l1 ++ t :: l2) = option_list (f t)).
      { intros B f Hf. apply Forall_app in Hother as [Ho1 Ho2]. rewrite omap_app. csimpl.
        rewrite (omap_none f l1), (omap_none f l2); [by destruct (f t)|..];
          (eapply Forall_impl; [eassumption|]; auto). }
      split; [split; [by destruct ids; simpl; [|lia]|]|split].
      * simpl. split; [by intros l ->|by intros l ->].
      * unfold answers. rewrite omap_none; [done|]. eapply Forall_impl; [exact Ha|].
        intros o Hans. destruct o; simpl in *; try done. destruct Hans as ((b & Hy & _) & _).
        rewrite decide_False; [done|]. by eapply Hne.
      * rewrite !E; [|intros t' Ht'; unfold done_at, call_at, proc_at; by rewrite decide_False..].
        unfold done_at, call_at, proc_at. rewrite !decide_True by done. done.
    + destruct (Hb y b Hy) as (Hw & Hans & Hr). split; [done|]. split; [done|].
      assert (E : ∀ B (f : token -> option B), f t = None -> omap f (l1 ++ t :: l2) = omap f (l1 ++ l2)).
      { intros B f Hf. rewrite !omap_app. csimpl. by rewrite Hf. }
      rewrite !E; [done|..]; unfold done_at, call_at, proc_at; rewrite decide_False; try done; by apply not_eq_sym, (Hne y b).
  - eapply Forall_impl; [exact Ha|]. intros o Hans. destruct o; simpl in *; try done.
    destruct Hans as ((b & Hy & Hid) & H). split; [|done]. exists b. split; [by apply Hget|done].
Qed.

Lemma geo_life_step s e :
  geo_life s -> commands_ok s e -> ∃ s', geo_step s e = Some s' ∧ geo_life s'.
Proof.
  intros Hl Hok.
  assert (Hsend : ∀ m t, same_commands s t -> msg_token m = None -> geo_life (send_geo m t)).
  { intros m t Ht Hm. apply (same_commands_life [] s); [|done].
    eapply same_commands_trans; [exact Ht|by apply send_same]. }
  destruct e as [c n os infos|k c ids os|l a b t|a|c cbs|c|c| |st|err h|]; simpl in Hok |- *;
    try (eexists; split; [done|]).
  - destruct n as [|n]; [done|]. destruct Hok as [Ho Hi].
    assert (Hlen : ∀ m z, length (generate_ids m z) = m).
    { induction m as [|m IH]; intros z; [done|]. simpl. by rewrite IH. }
    apply command_life; [exact Hl|done|by rewrite Hlen..].
  - assert (H : geo_life (geofencesCommand k c ids os s)) by (destruct ids; [done|by apply command_life]).
    destruct k; eauto.
  - destruct l; [done|]. by apply Hsend.
  - by apply Hsend.
  - by apply Hsend.
  - by apply Hsend.
  - by apply Hsend.
  - apply Hsend; [|done]. by constructor; try done; apply (same_commands_refl s).
  - apply Hsend; [|done]. by constructor; try done; apply (same_commands_refl s).
  - by apply api_life.
  - by apply task_life.
Qed.

Lemma geo_life_init : geo_life geo_init.
Proof.
  apply LifeInv; simpl; [apply Forall_nil_2| | |apply Forall_nil_2]; intros x a Hx; by rewrite lookup_empty in Hx.
Qed.

(** C22: Every run of commands is defined: no lambda uses the arrays of a command after
    their deletion.  Each command is answered at most once, with its own ids and a
    result for each of its geofences, and once nothing waits exactly once, unless it is
    a resumption or was given without one of its arrays (failed_resume_not_answered,
    missing_options_not_answered).  Supposed ([commands_ok]): the arrays that are given
    have an entry for each geofence; when the last geofence of a command is unknown, no
    other geofence of it still waits for the modem (unknown_last_uses_deleted_arrays);
    and the modem does not restart while a request for the capabilities that was sent
    before is still kept. *)
Theorem geofence_commands_answered es :
  run_ok geo_step commands_ok geo_init es ->
  ∃ s, run geo_step geo_init es = Some s ∧
    (∀ x a, blocks s !! x = Some a ->
       (length (answers x (outs s)) <= 1)%nat ∧
       (tasks s = [] -> geo_requests (lapi s) = [] -> arrays_missing a = false -> mCommand a ≠ CmdResume ->
        length (answers x (outs s)) = 1%nat)) ∧
    (∀ x c n es ids d, OutGeofencesResponse x c n es ids d ∈ outs s ->
       mIds <$> blocks s !! x = Some ids ∧ n = length ids ∧ length es = n ∧ Forall is_Some es).
Proof.
  intros Hok. destruct (run_defined geo_step commands_ok geo_life geo_init es geo_life_step geo_life_init Hok)
    as (s & Hrun & [_ _ Hb Ha]).
  exists s. split; [done|]. split.
  - intros x a Hx. destruct (Hb x a Hx) as (Hw & Hans & Hr). split; [rewrite Hans; destruct (freed a); lia|].
    intros Et Er Hm Hc. rewrite Hans. unfold all_tokens in Hr. rewrite Et, Er in Hr. simpl in Hr.
    destruct (freed a) eqn:Ef; [done|]. destruct (rn_last _ _ _ Hr eq_refl Ef) as [H|[_ [H|H]]]; [|congruence..].
    by apply elem_of_nil in H.
  - intros x c n es' ids d Ho. destruct (proj1 (Forall_forall _ _) Ha _ Ho) as ((a & Hx & <-) & H).
    by rewrite Hx.
Qed.

(** One command of each kind, on three geofences of which the second is unknown. *)
Definition ex_long_turn (n : nat) (hwId : Z) : list geo_event :=
  [GeoTaskRun] ++ replicate n (GeoApiRun LOCATION_ERROR_SUCCESS 0) ++ replicate n GeoTaskRun
  ++ map (λ i, GeoApiRun LOCATION_ERROR_SUCCESS (hwId + Z.of_nat i)) (seq 0 n) ++ replicate n GeoTaskRun.
Definition ex_commands : list geo_event :=
  [GeoAddClientCommand 1 (GCallbacks true true true true); GeoTaskRun;
   AddGeofencesCommand 1 3 (Some [ex_option; ex_option; ex_option]) (Some [ex_info; ex_info; ex_info])]
  ++ ex_long_turn 3 10
  ++ [GeofencesCommand CmdPause 1 [2; 99; 3] None] ++ ex_long_turn 3 0
  ++ [GeofencesCommand CmdModify 1 [2; 99; 3] (Some [ex_option; ex_option; ex_option])] ++ ex_long_turn 3 0
  ++ [GeofencesCommand CmdRemove 1 [4; 99; 2] None] ++ ex_long_turn 3 0.

Lemma geofence_commands_answered_witness :
  ∃ s, run geo_step geo_init ex_commands = Some s ∧
    map (λ x, length (answers x (outs s))) [0; 1; 2; 3]%N = [1; 1; 1; 1]%nat ∧
    last (outs s) = Some (OutGeofencesResponse 3 1 3 [Some 0; Some LOCATION_ERROR_ID_UNKNOWN; Some 0] [4; 99; 2] true).
Proof.
  assert (Hok : run_ok geo_step commands_ok geo_init ex_commands).
  { apply (bool_decide_unpack _). vm_compute. exact I. }
  destruct (geofence_commands_answered ex_commands Hok) as (s & Hrun & H & _).
  exists s. split; [exact Hrun|].
  assert (Es : s = geo_run ex_commands) by (unfold geo_run; rewrite Hrun; reflexivity).
  assert (Hl : ∀ x a, blocks s !! x = Some a -> tasks s = [] -> geo_requests (lapi s) = [] ->
                 arrays_missing a = false -> mCommand a ≠ CmdResume -> length (answers x (outs s)) = 1%nat)
    by (intros x a Hx; exact (proj2 (H x a Hx))).
  rewrite Es in Hl |- *. split; [|vm_compute; reflexivity].
  simpl map. repeat f_equal;
    (eapply Hl; [vm_compute; reflexivity|vm_compute; reflexivity|vm_compute; reflexivity|reflexivity|discriminate]).
Defined.

(** ** What the code does not mean to do *)

(** The last geofence of a command is unknown and another one is not: the arrays
    are deleted before the result for the other one is stored in them. *)
Definition ex_add_one : list geo_event :=
  [GeoAddClientCommand 1 (GCallbacks true true true true); GeoTaskRun;
   AddGeofencesCommand 1 1 (Some [ex_option]) (Some [ex_info])] ++ ex_long_turn 1 7.
Lemma unknown_last_uses_deleted_arrays :
  run geo_step geo_init (ex_add_one ++ [GeofencesCommand CmdRemove 1 [2; 99] None; GeoTaskRun;
    GeoApiRun 0 0; GeoApiRun 0 0; GeoTaskRun; GeoTaskRun; GeoApiRun 0 0; GeoTaskRun]) = None.
Proof. vm_compute. reflexivity. Qed.

(** A paused geofence is active again after the modem restarted twice: the first
    restart pauses it in the modem, but the adapter forgets that it is paused. *)
Definition ex_paused : list geo_event :=
  ex_add_one ++ [GeofencesCommand CmdPause 1 [2] None] ++ ex_long_turn 1 0.
Definition ex_restart_one : list geo_event :=
  [ModemRestart; GeoTaskRun; GeoApiRun 0 7; GeoTaskRun; GeoApiRun 0 0; GeoTaskRun].
Definition paused_in (es : list geo_event) : option (bool * bool) :=
  o ← mGeofences (maps (geo_run es)) !! 7; f ← programmed (lapi (geo_run es)) !! 7;
  Some (paused o, f_paused f).
Lemma pause_lost_after_restarts :
  paused_in ex_paused = Some (true, true) ∧
  paused_in (ex_paused ++ ex_restart_one) = Some (false, true) ∧
  paused_in (ex_paused ++ ex_restart_one ++ ex_restart_one) = Some (false, false).
Proof. vm_compute. repeat split; reflexivity. Qed.

(** A resumption that fails is not answered. *)
Lemma failed_resume_not_answered :
  let s := geo_run (ex_paused ++ [GeofencesCommand CmdResume 1 [2] None; GeoTaskRun; GeoApiRun 0 0; GeoTaskRun;
                                  GeoApiRun LOCATION_ERROR_GENERAL_FAILURE 0; GeoTaskRun]) in
  tasks s = [] ∧ geo_requests (lapi s) = [] ∧ answers 2 (outs s) = [].
Proof. vm_compute. repeat split; reflexivity. Qed.

(** A modification that fails is reported as a success. *)
Lemma failed_modify_reported_success :
  let s := geo_run (ex_add_one ++ [GeofencesCommand CmdModify 1 [2] (Some [ex_option]); GeoTaskRun; GeoApiRun 0 0;
                                   GeoTaskRun; GeoApiRun LOCATION_ERROR_GENERAL_FAILURE 0; GeoTaskRun]) in
  last (outs s) = Some (OutGeofencesResponse 1 1 1 [Some LOCATION_ERROR_SUCCESS] [2] true).
Proof. vm_compute. reflexivity. Qed.

(** A command without its options is not answered. *)
Lemma missing_options_not_answered :
  let s := geo_run [AddGeofencesCommand 1 1 None (Some [ex_info]); GeoTaskRun] in
  tasks s = [] ∧ geo_requests (lapi s) = [] ∧ outs s = [].
Proof. vm_compute. repeat split; reflexivity. Qed.

(** The client leaves while one of its geofences is being removed: the object of
    the geofence stays, and the next restart of the modem adds it again. *)
Lemma geofence_of_client_that_left :
  let es := ex_add_one ++ [GeofencesCommand CmdRemove 1 [2] None; GeoTaskRun; GeoApiRun 0 0; GeoTaskRun;
     GeoRemoveClientCommand 1; GeoTaskRun; GeoApiRun 0 0; GeoApiRun LOCATION_ERROR_GENERAL_FAILURE 0; GeoTaskRun; GeoTaskRun] in
  programmed (lapi (geo_run es)) = ∅ ∧ is_Some (programmed (lapi (geo_run (es ++ ex_restart_one))) !! 7) ∧
  mGeoClients (base (geo_run es)) = ∅.
Proof. vm_compute. split; [reflexivity|]. split; [eexists; reflexivity|reflexivity]. Qed.

(** The modem restarts while the engine is locked: the geofences are not added
    again, not even when the engine is unlocked. *)
Lemma locked_restart_loses_geofences :
  let s := geo_run (ex_add_one ++ [GeoEngineLock ENGINE_LOCK_STATE_DISABLED; GeoTaskRun; ModemRestart; GeoTaskRun;
                                   GeoEngineLock ENGINE_LOCK_STATE_ENABLED; GeoTaskRun]) in
  is_Some (mGeofences (maps s) !! 7) ∧ programmed (lapi s) = ∅ ∧ tasks s = [] ∧ geo_requests (lapi s) = [].
Proof. vm_compute. split; [eexists; reflexivity|]. repeat split; reflexivity. Qed.
